(* ===== verification/_CoqProject ===== *)
-Q . S2P
Prelude.v
Js.v
JsonText.v
Uri.v
Async.v
Calendar.v
Protobuf.v
Codec.v
WireFormat.v
TimeTypes.v
Dates.v
Base64.v
Fallible.v
Proto3.v
MessageTable.v
CommonTypes.v
PkiTypes.v
PkiTx.v
PkiQuery.v
PkiCodec.v
ComplianceTypes.v
ComplianceQuery.v
ModelTypes.v
ModelQuery.v
VendorinfoTypes.v
ComplianceTestTypes.v
ValidatorTypes.v
DclauthTypes.v
DclupgradeTypes.v
CosmosBase.v
TendermintTypes.v
AuthzTypes.v
BankTypes.v
CrisisTypes.v
DistributionTypes.v
EvidenceTypes.v
FeegrantTypes.v
GovTypes.v
SlashingTypes.v
StakingTypes.v
StakingQuery.v
VestingTypes.v
IbcClientTypes.v
TransferTypes.v
AbciTypes.v
HttpTypes.v
MessageLaws.v
RestClient.v
ApiRoutes.v
Pages.v
VuexStore.v
TxClient.v
StoreModule.v
NewBlock.v
StoreSpec.v
CosmosStore.v
PkiStore.v
ComplianceStore.v
ModelStore.v
VendorinfoStore.v
ComplianceTestStore.v
ValidatorStore.v
DclauthStore.v
DclupgradeStore.v
AuthzStore.v
BankStore.v
CrisisStore.v
DistributionStore.v
EvidenceStore.v
FeegrantStore.v
GovStore.v
SlashingStore.v
StakingStore.v
VestingStore.v
TransferStore.v
Endpoints.v
LedgerStores.v
CosmosStores.v
AppShell.v
Client.v
