(* ===== verification/Prelude.v ===== *)
(** * A verification of the client of the Distributed Compliance Ledger

    The Distributed Compliance Ledger is a Cosmos blockchain on which vendors,
    test houses and trustees keep device models, compliance records and X.509
    certificates.  Its JavaScript is the web client under src/vue: for each
    module of the ledger, of the Cosmos SDK and of ibc-go a message codec
    (module/types), a transaction client (module/index.js), a REST client
    (module/rest.js) and a Vuex store (index.js), put together by
    src/vue/src/store and shown by a small Vue application.  This library
    models the clients of all nineteen modules: the ledger's own, pki (root
    and intermediate certificates), compliance and compliancetest
    (certification and test results), model (device models and software
    versions), vendorinfo, validator, dclauth (accounts) and dclupgrade
    (software upgrades); authz, bank, crisis, distribution, evidence, feegrant,
    gov, slashing, staking and vesting of the Cosmos SDK; transfer of ibc-go;
    and the application shell.

    ** How the parts interact

    A view dispatches a store action.  A query action builds a REST client for
    the configured node, sends one request (or one per page), stores the value
    in a cache under the JSON text of its parameters, and may subscribe to the
    query; on every new block the store runs the subscribed queries again.  A
    transaction action builds a signing client from the user's wallet and the
    registry of the module's message types, builds a message, which the client
    encodes by the type the registry has for its URL, and broadcasts it.

    ** Files

    Foundations:

    - [Prelude] (this file): record update, method chaining, the control
      structures of the generated code, strings, property lists.
    - [Js]: JavaScript values, exceptions and results, conversions, integers as
      doubles, property order.
    - [JsonText]: JSON.stringify and JSON.parse, with the round trip, the
      injectivity of printing and the termination of parsing.
    - [Uri]: encodeURIComponent and the query strings of HttpClient
      (toQueryString, addQueryParam, addQueryParams), and what a server reads
      from a URL ([read_url]).
    - [Async]: asynchronous functions over a shared state; a task run alone
      ([run]), tasks interleaved at their awaits ([sys_step]), a program logic
      ([wp]) for invariants under interleaving and one for the changes a task
      makes ([changes]), and the serialisability of tasks that touch the state
      only at their end ([one_shot]).
    - [Calendar]: quotients as doubles, the class Date, its days and months and
      its ISO text.

    Messages:

    - [Protobuf]: the interface of protobufjs and long ([Protobuf], with its
      laws [ProtobufSpec]), the decoding loop and longToNumber.
    - [Codec]: the lemmas and tactics from which the laws of a message type
      follow, and the interfaces [MessageCodec], [MessageSpec], [MessageData].
    - [WireFormat]: a concrete instance of the protobufjs interface, by which
      every witness is evaluated.
    - [TimeTypes], [Dates]: timestamps, and their conversion to and from dates.
    - [Base64]: atob, btoa and the conversion of byte arrays.
    - [Fallible]: the interfaces and tactics for message types with a byte
      field, whose encoding throws when the field is [undefined], and for those
      with a date or an enumeration.
    - [Proto3]: the encoding and the merge of proto3 for messages as trees of
      numbered, labelled fields, independent of the generated code
      ([proto_encode], [proto_merge]), and the tactics that compare a message
      type with its schema.
    - [MessageTable]: what any message type is to its users, as a record of its
      functions ([message_type]) with its laws ([Lawful]); likewise a remote
      method ([rpc_method]).
    - [CommonTypes]: PageRequest, PageResponse and Any, of which every module
      has a copy.
    - [PkiTypes], [PkiTx], [PkiQuery]: the message types of
      pki/module/types/pki, one module per type with the functions encode,
      decode, fromJSON, toJSON and fromPartial of the exported object, and the
      RPC clients MsgClientImpl and QueryClientImpl.  Likewise
      [ComplianceTypes], [ComplianceQuery]; [ModelTypes], [ModelQuery];
      [VendorinfoTypes]; [ComplianceTestTypes]; [ValidatorTypes];
      [DclauthTypes]; [DclupgradeTypes].
    - [CosmosBase], [TendermintTypes], [AuthzTypes], [BankTypes],
      [CrisisTypes], [DistributionTypes], [EvidenceTypes], [FeegrantTypes],
      [GovTypes], [SlashingTypes], [StakingTypes], [StakingQuery],
      [VestingTypes], [IbcClientTypes], [TransferTypes], [AbciTypes]: the same
      for the modules of the Cosmos SDK and of ibc-go.  A file that several
      modules have a copy of is modelled once; where the copies differ, each
      version.
    - [HttpTypes]: google/api/http.js, with the one recursive message type.
    - [PkiCodec]: 64-bit times that a number cannot hold exactly.
    - [MessageLaws]: the theorems on all message types and remote methods.

    REST clients, transactions and stores:

    - [RestClient]: HttpClient of module/rest.js (configuration, cancellation
      tokens, merging of parameters, request).
    - [ApiRoutes]: the interface [Routes] of a module's endpoints (class Api),
      with and without a query object.
    - [Pages]: mergeResults and the loop that fetches the pages of a list.
    - [VuexStore]: what the store of every module of the ledger is made of
      (state, mutations, getters, the shape of the actions).
    - [TxClient]: what the transaction clients are made of (txClient,
      queryClient, the send and create actions), and the table of a module's
      message types [tx_action] with its laws [tx_lawful].
    - [StoreModule]: the interface of such a store ([StoreModule] with its laws
      [StoreLaws]) and the lemmas that follow from it; [NewBlock]: what
      StoreUpdate does to such a store, from a general account of tasks that
      refresh the entries of a state; [StoreSpec]: the abstract cache that
      such a store implements, which knows what it has heard from the node,
      and the simulation between the two.
    - [CosmosStore]: what [VuexStore], [TxClient], [StoreModule] and [NewBlock]
      are for the ledger's modules, for those of the Cosmos SDK and ibc-go,
      whose stores come from an older release of the generator.
    - [PkiStore]: rest.js, module/index.js and index.js of the pki module:
      every method, message constructor, getter and action, as an
      implementation of the three interfaces.  Likewise for the other modules
      [ComplianceStore], [ModelStore], [VendorinfoStore], [ComplianceTestStore], [ValidatorStore],
      [DclauthStore], [DclupgradeStore]; [AuthzStore], [BankStore],
      [CrisisStore], [DistributionStore], [EvidenceStore], [FeegrantStore],
      [GovStore], [SlashingStore], [StakingStore], [VestingStore],
      [TransferStore].
    - [Endpoints]: the URLs of the queries of all modules.
    - [LedgerStores]: the theorems on the stores of the ledger's modules;
      [CosmosStores]: those on the stores of the other modules.
    - [AppShell]: load and init of the store modules, main.js, the routes, and
      the templates of the views, the sidebar and App.vue as trees of elements.
    - [Client]: the nineteen stores together: the state of the application is a
      store with its tasks per module and the listeners of the node clients; an
      event (a connection, a committed mutation, a block, a dispatched action,
      an answer) is a transition ([perform]).

    ** What the theorems show

    Messages ([MessageLaws]), for each type of [all_messages]: what is encoded
    is read back.  The bytes are those proto3 prescribes for the message the
    .proto file declares ([schema] of each type has its field numbers, types and
    oneofs; for the Cosmos SDK types whose .proto file is not in the repository,
    those of the generated file), and concatenated messages merge as proto3
    prescribes, each with exceptions that have a theorem of their own
    ([proto3_departures]): empty packed lists and dates next to the epoch are
    written differently, nested messages are replaced and the members of a oneof
    not cleared when messages are merged.  Decoding ends on every input and only
    throws the library's errors; fields with undeclared numbers are skipped,
    whatever their wire type; JSON conversion round-trips, but that unknown
    enumeration numbers are replaced, and throws exactly on invalid dates; each
    property of a JSON object is read by itself, and missing, undefined and null
    ones have their defaults; partial objects are completed with defaults;
    encoding throws
    exactly for messages that lack a byte field their type declares;
    fromPartial never gives such a message, but decode does.  64-bit values
    above the range of exact doubles are refused, those below it are rounded.
    Dates are kept to the millisecond, although those before 1970 are written
    with negative nanoseconds.  An RPC over a transport is its handler, for
    every method of [all_methods].

    REST client: the query string reads back as the query; a request's outcome
    for every answer; when a cancellation token reaches its request; header
    precedence; a server is asked for the route and the query that were meant if
    the arguments are plain path segments, and for others if they are not, since
    they are not escaped; no two queries of the modules share a URL, but for one
    pair in dclauth.

    Stores of the ledger's modules: a query stores and returns the value it
    fetched and changes nothing else; a failed query changes nothing; all pages
    of a list are collected in order; cache keys
    of different queries differ; a refreshed subscription updates the entry of
    its query; for all interleavings of actions and all answers of the node,
    cached values come from the answers to their own query, the actions have
    the effect they would have one after the other in some order, and a query
    ends once its answers have arrived; after a new block each subscribed entry
    holds what the node gives for it.  Every run of a store is a run of the
    abstract cache of [StoreSpec], and the getters show what that knows.
    Transactions: every message constructor is registered under its own type;
    a send action submits, by a client made with the module's registry and under
    the URL of the type, bytes that the decoder of the type reads back as the
    message built from the given data.  The stores of the Cosmos SDK and ibc-go
    have the same guarantees but for three differences, each a theorem of its own: they take
    the key of the next page from another property, their subscriptions
    accumulate, and a query without parameters fails outside their error
    handling.

    Application: the generated modules load once, and are initialised once for
    each time a connection is reported up; a block of a connected client runs
    StoreUpdate of each module that many times.  Whatever happens in the
    application, each of the stores keeps its own invariant; and a block on a
    client that is at rest brings the subscribed entries of all modules up to
    date, in whatever order the node answers.

    ** Modelling choices

    Strings are byte strings holding UTF-8.  Numbers are integers and NaN; the
    one place where the code computes fractions, the seconds of a date, has
    them as quotients rounded to doubles.  A result outside the modelled values
    is the error [Unmodelled], a bound that is reached [OutOfFuel].  Bounds are
    used in four places: the decoding loop has as many turns as there are
    bytes to read ([ledger_decode_total] shows this is enough), JSON parsing has
    two units per character ([parse_total]), the rules in an HttpRule are
    decoded to a depth of as many rules as there are bytes
    ([decode_rule_self]), and the pagination loop, whose
    length only the server decides, has a parameter [max_pages]; its theorems
    hold for every bound that is at least the number of pages.  Code between
    two awaits is one step, as in JavaScript.  The node addresses and the wallet,
    which the actions read from the getters of the application at every call, are
    constants of a run ([root_getters]): a run is the time between two changes
    of them.  Messages of TypeErrors are those
    of V8 where a theorem shows them.

    Not modelled: protobufjs, long, CosmJS, Vuex, @starport/vuex and the
    browser's fetch and AbortController, which are parameters with the laws
    the code relies on; what the components of @starport/vue render;
    google/protobuf/descriptor.js, a copy of library code that nothing in the
    client calls, with floating point fields; and the ledger itself, which is
    written in Go. *)
From stdpp Require Export base strings list gmap numbers.
From Stdlib Require Export Ascii.

(** ** Record update

    [m <| f := v |>] is the record [m] with the field [f] replaced by [v], the
    model of a JavaScript assignment [m.f = v] on an object that no one else
    holds.  A record type opts in with an instance of [Settable], its
    eta-expansion; the updater of a field is then found by abstracting the
    projection in that expansion. *)

Class Settable (R : Type) := eta : R → R.

Class Setter {R T : Type} (proj : R → T) := set_field : T → R → R.

Arguments set_field {R T} proj {_} v r / : assert.

Ltac build_setter :=
  match goal with
  | |- @Setter ?R ?T ?proj =>
      let e := constr:(_ : Settable R) in
      let v := fresh "v" in
      let r := fresh "r" in
      unfold Setter; intros v r;
      let e' := eval hnf in e in
      let body := eval cbv beta in (e' r) in
      let abs := eval pattern (proj r) in body in
      match abs with
      | ?f _ => let res := eval cbv beta in (f v) in exact res
      end
  end.

#[export] Hint Extern 1 (Setter _) => build_setter : typeclass_instances.

Declare Scope update_scope.
Delimit Scope update_scope with upd.
Notation "m <| f := v |>" := (set_field f v m)
  (at level 1, f at level 200, left associativity) : update_scope.
Open Scope update_scope.

(** ** Method chaining

    [w @> f @> g] reads like the JavaScript chain [w.f().g()]. *)

Declare Scope chain_scope.
Delimit Scope chain_scope with chain.
Notation "x @> f" := (f x) (at level 50, left associativity, only parsing) : chain_scope.
Open Scope chain_scope.

(** [when c f] runs the guarded statement [if (c) { f }]. *)
Definition when {A : Type} (c : bool) (f : A → A) (a : A) : A :=
  if c then f a else a.

(** [each l f] runs the loop [for (const v of l) f(v)]. *)
Definition each {A B : Type} (l : list B) (f : B → A → A) (a : A) : A :=
  fold_left (fun a v => f v a) l a.

(** [defined o f] runs [if (o !== undefined) { f(o) }]. *)
Definition defined {A B : Type} (o : option B) (f : B → A → A) (a : A) : A :=
  match o with None => a | Some v => f v a end.

Arguments when {A} c f a : simpl never.
Arguments defined {A B} o f a : simpl never.
Arguments each {A B} l f a : simpl never.

Lemma each_nil {A B : Type} (f : B → A → A) a : each [] f a = a.
Proof. reflexivity. Qed.

Lemma each_cons {A B : Type} v l (f : B → A → A) a :
  each (v :: l) f a = each l f (f v a).
Proof. reflexivity. Qed.

(** [x ?? d], the nullish coalescing operator on an optional property. *)
Definition nullish {A : Type} (x : option A) (d : A) : A := default d x.
Notation "x ?? d" := (nullish x d) (at level 60, right associativity) : chain_scope.

(** ** Strings *)

#[global] Arguments String.append s1 s2 : simpl nomatch.

Lemma string_app_nil_r (s : string) : s +:+ "" = s.
Proof. induction s as [|c s IH]; simpl; [done|]. by rewrite IH. Qed.

Lemma string_app_assoc (s1 s2 s3 : string) :
  (s1 +:+ s2) +:+ s3 = s1 +:+ (s2 +:+ s3).
Proof. induction s1 as [|c s IH]; simpl; [done|]. by rewrite IH. Qed.

Lemma string_length_app (s1 s2 : string) :
  String.length (s1 +:+ s2) = String.length s1 + String.length s2.
Proof. induction s1 as [|c s IH]; simpl; [done|]. by rewrite IH. Qed.

Lemma string_app_inv_head (s t1 t2 : string) : s +:+ t1 = s +:+ t2 → t1 = t2.
Proof. induction s as [|c s IH]; simpl; [done|]. intros [= H]. by apply IH. Qed.

(** [join sep l] is [l.join(sep)]. *)
Fixpoint join (sep : string) (l : list string) : string :=
  match l with
  | [] => ""
  | [s] => s
  | s :: l' => s +:+ sep +:+ join sep l'
  end.

(** The fields of a JavaScript object, in the order of [Object.entries]. *)
Fixpoint assoc {A : Type} (k : string) (l : list (string * A)) : option A :=
  match l with
  | [] => None
  | (k', v) :: l' => if String.eqb k k' then Some v else assoc k l'
  end.

Lemma assoc_None {A : Type} k (l : list (string * A)) :
  assoc k l = None ↔ k ∉ l.*1.
Proof.
  induction l as [|[k' v] l IH]; csimpl; [set_solver|].
  destruct (String.eqb_spec k k') as [->|Hne]; [set_solver|].
  rewrite IH. set_solver.
Qed.

Lemma assoc_app {A : Type} k (l1 l2 : list (string * A)) :
  assoc k (l1 ++ l2) = match assoc k l1 with Some v => Some v | None => assoc k l2 end.
Proof. induction l1 as [|[k' v] l1 IH]; simpl; [done|]. by destruct (String.eqb k k'). Qed.

(** ** Hints shared by the components *)

Create HintDb dcl.
Create Rewrite HintDb dcl.
