(* ===== verification/Js.v ===== *)
(** * The fragment of JavaScript the client is written in

    Values, property access, the conversions [String], [Number] and [Boolean],
    exceptions as a result type, and the rounding of integers to IEEE doubles.

    Strings are byte strings holding the UTF-8 form of the JavaScript string.
    Numbers are the integers and [NaN]: every numeric field of the ledger's
    messages is an integer.  Where JavaScript would build a fraction or an
    infinity the model answers [Err Unmodelled], so no theorem speaks of it;
    [-0] is not distinguished from [0].  Integers print in decimal, as
    JavaScript prints them up to [Number.MAX_SAFE_INTEGER]. *)
From S2P Require Import Prelude.
From Stdlib Require Import DecimalString DecimalZ.
Open Scope Z_scope.

(** ** Values *)

Inductive number : Set :=
| Int (z : Z)
| NaN.

#[global] Instance number_eq_dec : EqDecision number.
Proof. solve_decision. Defined.

#[warnings="-register-all"] Inductive js : Set :=
| Undefined
| Null
| Bool (b : bool)
| Num (n : number)
| Str (s : string)
| Arr (l : list js)
| Obj (fields : list (string * js)).

(** Induction over values, with the hypothesis for every element of an array
    and every property of an object. *)
Section js_ind.
Variable P : js → Prop.
Hypothesis HU : P Undefined.
Hypothesis HN : P Null.
Hypothesis HB : ∀ b, P (Bool b).
Hypothesis HNum : ∀ n, P (Num n).
Hypothesis HS : ∀ s, P (Str s).
Hypothesis HA : ∀ l, Forall P l → P (Arr l).
Hypothesis HO : ∀ fs, Forall (fun kv => P kv.2) fs → P (Obj fs).

Fixpoint js_ind' (v : js) : P v :=
  match v with
  | Undefined => HU
  | Null => HN
  | Bool b => HB b
  | Num n => HNum n
  | Str s => HS s
  | Arr l =>
      HA l ((fix go l : Forall P l :=
               match l with
               | [] => Forall_nil_2 _
               | x :: l' => Forall_cons_2 _ _ _ (js_ind' x) (go l')
               end) l)
  | Obj fs =>
      HO fs ((fix go fs : Forall (fun kv => P kv.2) fs :=
                match fs with
                | [] => Forall_nil_2 _
                | x :: fs' => Forall_cons_2 _ _ _ (js_ind' x.2) (go fs')
                end) fs)
  end.
End js_ind.

(** ** Exceptions and results *)

Inductive exn : Set :=
| Error (message : string)            (* new Error(message) *)
| TypeError (message : string)
| RangeError (message : string)
| SyntaxError (message : string)
| MissingWalletError                  (* the MissingWalletError object of module/index.js *)
| SpVuexError (args : list string)    (* new SpVuexError(...args) *)
| Thrown (v : js)                     (* any other thrown value *)
| OutOfFuel                           (* the model's bound on a loop was reached *)
| Unmodelled.                         (* outside the values the model has *)

Inductive result (A : Type) : Type :=
| Ok (a : A)
| Err (e : exn).
Arguments Ok {A} a.
Arguments Err {A} e.

#[export] Instance result_ret : MRet result := @Ok.
#[export] Instance result_bind : MBind result := λ A B f m,
  match m with Ok a => f a | Err e => Err e end.
#[export] Instance result_fmap : FMap result := λ A B f m,
  match m with Ok a => Ok (f a) | Err e => Err e end.

(** [try_catch m h] is [try { m } catch (e) { h(e) }]. *)
Definition try_catch {A : Type} (m : result A) (h : exn → result A) : result A :=
  match m with Ok a => Ok a | Err e => h e end.

(** [m] run on each element in turn, stopping at the first exception. *)
Fixpoint result_map {A B : Type} (m : A → result B) (l : list A) : result (list B) :=
  match l with
  | [] => Ok []
  | x :: l' => y ← m x; ys ← result_map m l'; Ok (y :: ys)
  end.

Lemma bind_Ok {A B : Type} (m : result A) (f : A → result B) b :
  (m ≫= f) = Ok b ↔ ∃ a, m = Ok a ∧ f a = Ok b.
Proof. destruct m; split; naive_solver. Qed.

Lemma result_map_id {A B : Type} (m : B → result A) (f : A → B) l :
  Forall (fun x => m (f x) = Ok x) l → result_map m (f <$> l) = Ok l.
Proof. induction 1 as [|x l Hx _ IH]; csimpl; [done|]. by rewrite Hx, IH. Qed.

(** ** Integers as doubles *)

Definition MAX_SAFE_INTEGER : Z := 9007199254740991.

(** The double nearest to an integer, ties to even: 53 significant bits. *)
Definition round_double (z : Z) : Z :=
  let a := Z.abs z in
  if a <? 2 ^ 53 then z
  else
    let e := Z.log2 a - 52 in
    let q := a / 2 ^ e in
    let r := a mod 2 ^ e in
    let half := 2 ^ (e - 1) in
    let q' :=
      if r <? half then q
      else if half <? r then q + 1
      else if Z.even q then q else q + 1 in
    Z.sgn z * (q' * 2 ^ e).

(** [is_double z]: a JavaScript number can hold [z] exactly. *)
Definition is_double (z : Z) : Prop := round_double z = z.

#[global] Instance is_double_dec z : Decision (is_double z) := Z.eq_dec _ _.

Lemma round_double_safe z : Z.abs z <= MAX_SAFE_INTEGER → round_double z = z.
Proof.
  unfold MAX_SAFE_INTEGER, round_double. intros H.
  destruct (Z.ltb_spec (Z.abs z) (2 ^ 53)); [done|]. lia.
Qed.

Lemma is_double_safe z : Z.abs z <= MAX_SAFE_INTEGER → is_double z.
Proof. apply round_double_safe. Qed.

(** ** Conversions *)

(** Number.prototype.toString on an integer. *)
Definition int_to_string (z : Z) : string := NilZero.string_of_int (Z.to_int z).

Definition number_to_string (n : number) : string :=
  match n with Int z => int_to_string z | NaN => "NaN" end.

(** [String(v)]; an array joins its elements with commas, [null] and
    [undefined] elements as the empty string. *)
Fixpoint js_String (v : js) : string :=
  match v with
  | Undefined => "undefined"
  | Null => "null"
  | Bool b => if b then "true" else "false"
  | Num n => number_to_string n
  | Str s => s
  | Arr l =>
      join "," (map (fun x => match x with
                              | Undefined | Null => ""
                              | _ => js_String x
                              end) l)
  | Obj _ => "[object Object]"
  end.

(** White space that [Number] trims (the ASCII part of it). *)
Definition is_space (c : ascii) : bool :=
  let n := N_of_ascii c in ((9 <=? n) && (n <=? 13) || (n =? 32))%N.

Definition is_digit (c : ascii) : bool :=
  let n := N_of_ascii c in ((48 <=? n) && (n <=? 57))%N.

Definition chars (s : string) : list ascii := String.list_ascii_of_string s.
Definition of_chars (l : list ascii) : string := String.string_of_list_ascii l.

Fixpoint drop_spaces (l : list ascii) : list ascii :=
  match l with
  | c :: l' => if is_space c then drop_spaces l' else l
  | [] => []
  end.

Definition trim (s : string) : string :=
  of_chars (rev (drop_spaces (rev (drop_spaces (chars s))))).

(** A string of decimal digits with an optional sign. *)
Definition parse_int (s : string) : option Z :=
  match s with
  | String "+"%char s' =>
      match s' with
      | String c _ => if is_digit c then Z.of_int <$> NilZero.int_of_string s' else None
      | EmptyString => None
      end
  | _ => Z.of_int <$> NilZero.int_of_string s
  end.

(** [Number(s)]: the empty string is 0, decimal integers are read and rounded
    to a double, a string with no digit in it that does not spell an infinity
    is [NaN].  Fractions, exponents, radix prefixes and infinities are not in
    the model. *)
Definition string_to_number (s : string) : result number :=
  let t := trim s in
  if String.eqb t "" then Ok (Int 0)
  else match parse_int t with
       | Some z =>
           let d := round_double z in
           if Z.abs d <? 2 ^ 1024 then Ok (Int d) else Err Unmodelled
       | None =>
           if existsb is_digit (chars t) || existsb (Ascii.eqb "I"%char) (chars t)
           then Err Unmodelled
           else Ok NaN
       end.

Definition js_Number (v : js) : result number :=
  match v with
  | Undefined => Ok NaN
  | Null => Ok (Int 0)
  | Bool b => Ok (Int (if b then 1 else 0))
  | Num n => Ok n
  | Str s => string_to_number s
  | Arr _ | Obj _ => string_to_number (js_String v)
  end.

(** [Boolean(v)], also the test of [if (v)]. *)
Definition js_Boolean (v : js) : bool :=
  match v with
  | Undefined | Null => false
  | Bool b => b
  | Num (Int z) => negb (z =? 0)
  | Num NaN => false
  | Str s => negb (String.eqb s "")
  | Arr _ | Obj _ => true
  end.

(** [v == null]: [undefined] and [null]. *)
Definition is_nullish (v : js) : bool :=
  match v with Undefined | Null => true | _ => false end.

Definition is_undefined (v : js) : bool :=
  match v with Undefined => true | _ => false end.

(** ** Properties *)

(** [v.k]: reading a property of [undefined] or [null] throws. *)
Definition get (v : js) (k : string) : result js :=
  match v with
  | Undefined => Err (TypeError ("Cannot read properties of undefined (reading '" +:+ k +:+ "')"))
  | Null => Err (TypeError ("Cannot read properties of null (reading '" +:+ k +:+ "')"))
  | Obj fs => Ok (nullish (assoc k fs) Undefined)
  | _ => Ok Undefined
  end.

(** [for (const e of v)]: the elements, or a TypeError when [v] is not
    iterable.  Iterating a string is not modelled. *)
Definition iterate (v : js) : result (list js) :=
  match v with
  | Arr l => Ok l
  | Str _ => Err Unmodelled
  | _ => Err (TypeError "object is not iterable")
  end.

(** [s !== t] on strings and [n !== z] on numbers; [NaN] differs from every
    number. *)
Definition str_neq (s t : string) : bool := negb (String.eqb s t).
Definition num_neq (n : number) (z : Z) : bool :=
  match n with Int y => negb (y =? z) | NaN => true end.

Arguments str_neq s t : simpl never.
Arguments num_neq n z : simpl never.

(** The conversion of one field in [fromJSON]:
    [if (object.k !== undefined && object.k !== null) conv(object.k) else d]. *)
Definition field_or {A : Type} (object : js) (k : string) (conv : js → result A) (d : A)
    : result A :=
  v ← get object k; if is_nullish v then Ok d else conv v.

(** A property with a value: a property that is missing, [undefined] or [null]
    has none. *)
Definition present (k : string) (fs : list (string * js)) : option js :=
  match assoc k fs with
  | Some v => if is_nullish v then None else Some v
  | None => None
  end.

Lemma field_or_present {A : Type} fs k (conv : js → result A) d :
  field_or (Obj fs) k conv d = match present k fs with Some v => conv v | None => Ok d end.
Proof.
  unfold field_or, get, present. simpl. destruct (assoc k fs) as [v|]; simpl; [|done].
  by destruct (is_nullish v).
Qed.

(** [fs'] has the properties of [fs] that are kept, and no others. *)
Definition restricts (kept : string → bool) (fs fs' : list (string * js)) : Prop :=
  ∀ k, present k fs' = if kept k then present k fs else None.

(** One field of [fromJSON] on both objects: its value is kept or the default. *)
Lemma bind_property {A B : Type} kept fs fs' k (conv : js → result A) d
    (f f' : A → result B) m m' :
  restricts kept fs fs' →
  (∀ v, f v = Ok m → f' (if kept k then v else d) = Ok m') →
  (field_or (Obj fs) k conv d ≫= f) = Ok m → (field_or (Obj fs') k conv d ≫= f') = Ok m'.
Proof.
  intros Hr Hf. rewrite !field_or_present, (Hr k).
  destruct (match present k fs with Some v => conv v | None => Ok d end) as [v|e] eqn:E; [|done].
  simpl. intros Hm%Hf. destruct (kept k); [by rewrite E|done].
Qed.

(** The loop [for (const e of v) push(conv(e))]. *)
Definition to_list {A : Type} (conv : js → result A) (v : js) : result (list A) :=
  l ← iterate v; result_map conv l.

Definition to_string (v : js) : result string := Ok (js_String v).
Definition to_bool (v : js) : result bool := Ok (js_Boolean v).
Definition to_some {A : Type} (conv : js → result A) (v : js) : result (option A) :=
  Some <$> conv v.

(** A property of [toJSON] that is left out when the field is [undefined]. *)
Definition prop_opt {A : Type} (k : string) (f : A → js) (o : option A) : list (string * js) :=
  match o with None => [] | Some a => [(k, f a)] end.

(** ** Property order

    [Object.entries] lists array indices in ascending order and then the other
    keys in the order they were added. *)

Definition array_index (k : string) : option Z :=
  match parse_int k with
  | Some z =>
      if (0 <=? z) && (z <? 2 ^ 32 - 1) && String.eqb (int_to_string z) k
      then Some z else None
  | None => None
  end.

(** A property [k] that is added goes before an existing [k']. *)
Definition before (k k' : string) : bool :=
  match array_index k, array_index k' with
  | Some i, Some j => i <? j
  | Some _, None => true
  | None, _ => false
  end.

(** [object[k] = v]: an existing property keeps its place. *)
Fixpoint set_prop (k : string) (v : js) (fs : list (string * js)) : list (string * js) :=
  match fs with
  | [] => [(k, v)]
  | (k', v') :: fs' =>
      if String.eqb k k' then (k, v) :: fs'
      else if before k k' then (k, v) :: fs
      else (k', v') :: set_prop k v fs'
  end.

(** [{ ...a, ...b }] is [Obj (object_of (a ++ b))]. *)
Definition object_of (fs : list (string * js)) : list (string * js) :=
  fold_left (fun acc kv => set_prop kv.1 kv.2 acc) fs [].

(** The own properties a spread [...v] copies.  A string is spread by
    characters; its keys are exact for ASCII strings. *)
Definition spread (v : js) : list (string * js) :=
  match v with
  | Obj fs => fs
  | Arr l => imap (fun i x => (int_to_string (Z.of_nat i), x)) l
  | Str s => imap (fun i c => (int_to_string (Z.of_nat i), Str (String c ""))) (chars s)
  | _ => []
  end.

(** [a || b] *)
Definition or_else (a b : js) : js := if js_Boolean a then a else b.

(** The keys of an object are distinct and in property order. *)
Fixpoint ordered (ks : list string) : bool :=
  match ks with
  | [] => true
  | k :: ks' =>
      forallb (fun k' => negb (String.eqb k k') && negb (before k' k)) ks' && ordered ks'
  end.

Lemma assoc_set_eq k v fs : assoc k (set_prop k v fs) = Some v.
Proof.
  induction fs as [|[k' v'] fs IH]; simpl; [by rewrite String.eqb_refl|].
  destruct (String.eqb k k') eqn:E; simpl; [by rewrite String.eqb_refl|].
  destruct (before k k'); simpl; [by rewrite String.eqb_refl|]. by rewrite E.
Qed.

Lemma assoc_set_ne k k' v fs : k ≠ k' → assoc k' (set_prop k v fs) = assoc k' fs.
Proof.
  intros Hne. assert (String.eqb k' k = false) as Hk by by apply String.eqb_neq.
  induction fs as [|[k0 v0] fs IH]; simpl; [by rewrite Hk|].
  destruct (String.eqb_spec k k0) as [->|?]; simpl; [by rewrite Hk|].
  destruct (before k k0); simpl; [by rewrite Hk|]. by rewrite IH.
Qed.

(** A key that comes after all the others is appended. *)
Lemma set_prop_last k v fs :
  forallb (fun k' => negb (String.eqb k' k) && negb (before k k')) fs.*1 = true →
  set_prop k v fs = fs ++ [(k, v)].
Proof.
  induction fs as [|[k' v'] fs IH]; csimpl; [done|].
  rewrite !andb_true_iff, !negb_true_iff. intros [[Hk Hb] Hfs].
  rewrite String.eqb_sym, Hk, Hb. by rewrite IH.
Qed.

Lemma ordered_app ks k :
  ordered (ks ++ [k]) = true ↔
  ordered ks = true ∧ forallb (fun k' => negb (String.eqb k' k) && negb (before k k')) ks = true.
Proof.
  induction ks as [|k0 ks IH]; simpl; [done|].
  rewrite forallb_app. simpl. rewrite !andb_true_iff, IH. tauto.
Qed.

(** Adding the properties of a well-formed object one by one rebuilds it. *)
Lemma object_of_ordered fs : ordered fs.*1 = true → object_of fs = fs.
Proof.
  induction fs as [|[k v] fs IH] using rev_ind; [done|].
  rewrite fmap_app. simpl. rewrite ordered_app. intros [Hfs Hk].
  unfold object_of in *. rewrite fold_left_app, IH by done. simpl. by apply set_prop_last.
Qed.

Lemma set_prop_keys k v fs k' : k' ∈ (set_prop k v fs).*1 ↔ k' = k ∨ k' ∈ fs.*1.
Proof.
  induction fs as [|[k0 v0] fs IH]; csimpl; [set_solver|].
  destruct (String.eqb_spec k k0) as [->|]; csimpl; [set_solver|].
  destruct (before k k0); csimpl; [set_solver|]. rewrite elem_of_cons, IH. set_solver.
Qed.

Lemma before_trans k1 k2 k3 : before k1 k2 = true → before k3 k2 = false → before k3 k1 = false.
Proof.
  unfold before. destruct (array_index k1), (array_index k2), (array_index k3);
    intros; try done; lia.
Qed.

Lemma forallb_keys (p : string → bool) ks : forallb p ks = true ↔ ∀ k, k ∈ ks → p k = true.
Proof. rewrite forallb_forall. by setoid_rewrite list_elem_of_In. Qed.

(** Assignment keeps an object well-formed. *)
Lemma set_prop_ordered k v fs : ordered fs.*1 = true → ordered (set_prop k v fs).*1 = true.
Proof.
  induction fs as [|[k0 v0] fs IH]; csimpl; [done|].
  rewrite andb_true_iff, forallb_keys. intros [Hall Hfs].
  destruct (String.eqb_spec k k0) as [->|Hne]; csimpl.
  - by rewrite andb_true_iff, forallb_keys.
  - destruct (before k k0) eqn:Hb; csimpl; rewrite !andb_true_iff, !forallb_keys.
    + split_and!; [..|done|done].
      * rewrite (proj2 (String.eqb_neq k k0)) by done. done.
      * unfold before in *. destruct (array_index k), (array_index k0); try done.
        rewrite negb_true_iff. lia.
      * intros k' Hin. specialize (Hall k' Hin). rewrite andb_true_iff, !negb_true_iff in Hall.
        destruct Hall as [He Hb']. rewrite (before_trans _ _ _ Hb Hb').
        destruct (String.eqb_spec k k') as [->|]; [|done]. by rewrite Hb in Hb'.
    + split; [|by apply IH]. intros k' [->|Hin]%set_prop_keys; [|by apply Hall].
      rewrite (proj2 (String.eqb_neq k0 k)), Hb by done. done.
Qed.

Lemma object_of_snoc fs kv : object_of (fs ++ [kv]) = set_prop kv.1 kv.2 (object_of fs).
Proof. unfold object_of. by rewrite fold_left_app. Qed.

Lemma object_of_is_ordered fs : ordered (object_of fs).*1 = true.
Proof.
  induction fs as [|kv fs IH] using rev_ind; [done|].
  rewrite object_of_snoc. by apply set_prop_ordered.
Qed.
