(* ===== verification/JsonText.v ===== *)
(** * [JSON.stringify] and [JSON.parse]

    The store uses the JSON text of an object as a cache key and keeps its
    subscriptions as JSON text.  This file models both functions on the values
    of [Js.v] and shows that parsing what was printed gives back the value, up
    to what JSON cannot express ([undefined] and [NaN]).

    Numbers with a fraction or an exponent and escaped surrogates are outside
    the model ([Unmodelled]); the messages of a SyntaxError differ between
    engines and are not modelled in detail. *)
From S2P Require Import Prelude Js.
From Stdlib Require Import DecimalString DecimalZ DecimalFacts.
Open Scope Z_scope.

(** ** Printing *)

Definition dquote : ascii := "034".
Definition backslash : ascii := "092".

Definition hex_digit (n : N) : ascii :=
  if (n <? 10)%N then ascii_of_N (48 + n) else ascii_of_N (87 + n).

Definition escape (c : ascii) : string :=
  let n := N_of_ascii c in
  if Ascii.eqb c dquote then String backslash (String dquote "")
  else if Ascii.eqb c backslash then String backslash (String backslash "")
  else if (n =? 8)%N then String backslash "b"
  else if (n =? 9)%N then String backslash "t"
  else if (n =? 10)%N then String backslash "n"
  else if (n =? 12)%N then String backslash "f"
  else if (n =? 13)%N then String backslash "r"
  else if (n <? 32)%N then
    String backslash ("u00" +:+ String (hex_digit (n / 16)) (String (hex_digit (n mod 16)) ""))
  else String c "".

Fixpoint escape_all (s : string) : string :=
  match s with
  | "" => ""
  | String c s' => escape c +:+ escape_all s'
  end.

Definition quote (s : string) : string :=
  String dquote (escape_all s +:+ String dquote "").

(** The members of an object that are printed: [undefined] ones are not. *)
Definition member (k : string) (text : option string) : list string :=
  match text with None => [] | Some s => [quote k +:+ ":" +:+ s] end.

(** [JSON.stringify(v)], [None] standing for the [undefined] it returns on
    [undefined]. *)
Fixpoint stringify (v : js) : option string :=
  match v with
  | Undefined => None
  | Null => Some "null"
  | Bool b => Some (if b then "true" else "false")
  | Num (Int z) => Some (int_to_string z)
  | Num NaN => Some "null"
  | Str s => Some (quote s)
  | Arr l => Some ("[" +:+ join "," (map (fun x => stringify x ?? "null") l) +:+ "]")
  | Obj fs =>
      Some ("{" +:+ join "," (flat_map (fun kv => member kv.1 (stringify kv.2)) fs) +:+ "}")
  end.

(** ** Parsing *)

Definition unexpected {A : Type} : result A := Err (SyntaxError "Unexpected token in JSON").

Definition is_json_space (c : ascii) : bool :=
  let n := N_of_ascii c in ((n =? 9) || (n =? 10) || (n =? 13) || (n =? 32))%N.

Fixpoint skip_space (s : string) : string :=
  match s with
  | String c s' => if is_json_space c then skip_space s' else s
  | "" => ""
  end.

Definition hex_value (c : ascii) : option N :=
  let n := N_of_ascii c in
  if ((48 <=? n) && (n <=? 57))%N then Some (n - 48)%N
  else if ((97 <=? n) && (n <=? 102))%N then Some (n - 87)%N
  else if ((65 <=? n) && (n <=? 70))%N then Some (n - 55)%N
  else None.

(** The UTF-8 form of a code unit. *)
Definition utf8 (u : N) : result string :=
  if (u <? 128)%N then Ok (String (ascii_of_N u) "")
  else if (u <? 2048)%N then
    Ok (String (ascii_of_N (192 + u / 64)) (String (ascii_of_N (128 + u mod 64)) ""))
  else if ((55296 <=? u) && (u <? 57344))%N then Err Unmodelled
  else Ok (String (ascii_of_N (224 + u / 4096))
            (String (ascii_of_N (128 + (u / 64) mod 64))
              (String (ascii_of_N (128 + u mod 64)) ""))).

Definition unescape (c : ascii) : option ascii :=
  if Ascii.eqb c dquote then Some dquote
  else if Ascii.eqb c backslash then Some backslash
  else if Ascii.eqb c "/" then Some "/"%char
  else if Ascii.eqb c "b" then Some "008"%char
  else if Ascii.eqb c "t" then Some "009"%char
  else if Ascii.eqb c "n" then Some "010"%char
  else if Ascii.eqb c "f" then Some "012"%char
  else if Ascii.eqb c "r" then Some "013"%char
  else None.

(** [parsed a m] puts [a] in front of the string [m] reads. *)
Definition parsed (a : string) (m : result (string * string)) : result (string * string) :=
  p ← m; Ok (a +:+ p.1, p.2).

(** The characters of a string literal after its opening quote. *)
Fixpoint parse_chars (s : string) : result (string * string) :=
  match s with
  | "" => unexpected
  | String c s' =>
      if Ascii.eqb c dquote then Ok ("", s')
      else if Ascii.eqb c backslash then
        match s' with
        | String e s'' =>
            match unescape e with
            | Some a => parsed (String a "") (parse_chars s'')
            | None =>
                if Ascii.eqb e "u" then
                  match s'' with
                  | String a (String b (String c (String d s3))) =>
                      match hex_value a, hex_value b, hex_value c, hex_value d with
                      | Some x, Some y, Some z, Some t =>
                          u ← utf8 (((x * 16 + y) * 16 + z) * 16 + t)%N;
                          parsed u (parse_chars s3)
                      | _, _, _, _ => unexpected
                      end
                  | _ => unexpected
                  end
                else unexpected
            end
        | "" => unexpected
        end
      else if (N_of_ascii c <? 32)%N then unexpected
      else parsed (String c "") (parse_chars s')
  end.

Definition is_number_char (c : ascii) : bool := is_digit c || Ascii.eqb c "-".

Fixpoint span_number (s : string) : string * string :=
  match s with
  | String c s' =>
      if is_number_char c then let p := span_number s' in (String c p.1, p.2) else ("", s)
  | "" => ("", "")
  end.

(** The literal goes on with a fraction or an exponent. *)
Definition at_fraction (s : string) : bool :=
  match s with
  | String c _ => Ascii.eqb c "." || Ascii.eqb c "e" || Ascii.eqb c "E"
  | "" => false
  end.

(** An integer literal: the decimal form of an integer, or [-0]. *)
Definition parse_number (s : string) : result (js * string) :=
  let (token, rest) := span_number s in
  if at_fraction rest then Err Unmodelled
  else
    match parse_int token with
    | Some z =>
        if String.eqb token (int_to_string z) || String.eqb token "-0" then
          let d := round_double z in
          if Z.abs d <? 2 ^ 1024 then Ok (Num (Int d), rest) else Err Unmodelled
        else unexpected
    | None => unexpected
    end.

(** [expect lit s v]: [s] goes on with [lit], which stands for [v]. *)
Fixpoint expect (lit s : string) (v : js) : result (js * string) :=
  match lit, s with
  | "", _ => Ok (v, s)
  | String c lit', String d s' => if Ascii.eqb c d then expect lit' s' v else unexpected
  | String _ _, "" => unexpected
  end.

(** What follows the character [c], when [s] goes on with it. *)
Definition after (c : ascii) (s : string) : option string :=
  match skip_space s with
  | String d s' => if Ascii.eqb d c then Some s' else None
  | "" => None
  end.

(** A value; the elements of an array; the members of an object.  Each call
    uses one unit of fuel. *)
Fixpoint parse_value (fuel : nat) (s : string) : result (js * string) :=
  match fuel with
  | O => Err OutOfFuel
  | S fuel' =>
      match skip_space s with
      | "" => unexpected
      | String c s' =>
          if Ascii.eqb c "n" then expect "ull" s' Null
          else if Ascii.eqb c "t" then expect "rue" s' (Bool true)
          else if Ascii.eqb c "f" then expect "alse" s' (Bool false)
          else if Ascii.eqb c dquote then p ← parse_chars s'; Ok (Str p.1, p.2)
          else if Ascii.eqb c "[" then
            match after "]" s' with
            | Some s'' => Ok (Arr [], s'')
            | None => p ← parse_elements fuel' s'; Ok (Arr p.1, p.2)
            end
          else if Ascii.eqb c "{" then
            match after "}" s' with
            | Some s'' => Ok (Obj [], s'')
            | None => p ← parse_members fuel' s'; Ok (Obj (object_of p.1), p.2)
            end
          else parse_number (String c s')
      end
  end
with parse_elements (fuel : nat) (s : string) : result (list js * string) :=
  match fuel with
  | O => Err OutOfFuel
  | S fuel' =>
      p ← parse_value fuel' s;
      match after "," p.2, after "]" p.2 with
      | Some s', _ => q ← parse_elements fuel' s'; Ok (p.1 :: q.1, q.2)
      | _, Some s' => Ok ([p.1], s')
      | _, _ => unexpected
      end
  end
with parse_members (fuel : nat) (s : string) : result (list (string * js) * string) :=
  match fuel with
  | O => Err OutOfFuel
  | S fuel' =>
      match after dquote s with
      | None => unexpected
      | Some s1 =>
          k ← parse_chars s1;
          match after ":" k.2 with
          | None => unexpected
          | Some s2 =>
              p ← parse_value fuel' s2;
              match after "," p.2, after "}" p.2 with
              | Some s', _ => q ← parse_members fuel' s'; Ok ((k.1, p.1) :: q.1, q.2)
              | _, Some s' => Ok ([(k.1, p.1)], s')
              | _, _ => unexpected
              end
          end
      end
  end.

(** [JSON.parse(s)]. *)
Definition parse (s : string) : result js :=
  p ← parse_value (2 * String.length s + 1) s;
  match skip_space p.2 with
  | "" => Ok p.1
  | _ => unexpected
  end.

(** ** What survives printing *)

(** The value JSON keeps: [undefined] members are dropped, [undefined]
    elements and [NaN] become [null]. *)
Fixpoint normalize (v : js) : js :=
  match v with
  | Undefined => Null
  | Num NaN => Null
  | Arr l => Arr (map normalize l)
  | Obj fs =>
      Obj (flat_map (fun kv => match kv.2 with
                               | Undefined => []
                               | _ => [(kv.1, normalize kv.2)]
                               end) fs)
  | _ => v
  end.

(** Objects are in property order and integers are safe. *)
Fixpoint well_formed (v : js) : bool :=
  match v with
  | Num (Int z) => Z.abs z <=? MAX_SAFE_INTEGER
  | Arr l => forallb well_formed l
  | Obj fs => ordered fs.*1 && forallb (fun kv => well_formed kv.2) fs
  | _ => true
  end.


(** The text of an array element. *)
Definition text (v : js) : string := stringify v ?? "null".

(** ** Strings *)

Lemma parse_chars_escape c s : parse_chars (escape c +:+ s) = parsed (String c "") (parse_chars s).
Proof. destruct c as [[] [] [] [] [] [] [] []]; reflexivity. Qed.

Lemma parse_chars_quote s rest : parse_chars (escape_all s +:+ String dquote rest) = Ok (s, rest).
Proof.
  induction s as [|c s IH]; simpl; [done|].
  by rewrite string_app_assoc, parse_chars_escape, IH.
Qed.

(** ** Integers *)

Fixpoint all_chars (p : ascii → bool) (s : string) : bool :=
  match s with "" => true | String c s' => p c && all_chars p s' end.

Lemma span_number_all s rest :
  all_chars is_number_char s = true →
  match rest with String c _ => is_number_char c | "" => false end = false →
  span_number (s +:+ rest) = (s, rest).
Proof.
  intros Hs Hr. induction s as [|c s IH]; simpl in *.
  - destruct rest as [|c rest]; simpl; [done|]. by rewrite Hr.
  - apply andb_true_iff in Hs as [Hc Hs]. by rewrite Hc, IH.
Qed.

Lemma uint_digits d : all_chars is_digit (NilEmpty.string_of_uint d) = true.
Proof. induction d; simpl; done. Qed.

Lemma all_chars_impl (p q : ascii → bool) s :
  (∀ c, p c = true → q c = true) → all_chars p s = true → all_chars q s = true.
Proof.
  intros H. induction s as [|c s IH]; simpl; [done|]. rewrite !andb_true_iff. naive_solver.
Qed.

Lemma uint_number_chars d : all_chars is_number_char (NilZero.string_of_uint d) = true.
Proof.
  assert (all_chars is_number_char (NilEmpty.string_of_uint d) = true) as H.
  { eapply all_chars_impl, uint_digits. unfold is_number_char. by intros c ->. }
  by destruct d.
Qed.

Lemma int_number_chars z : all_chars is_number_char (int_to_string z) = true.
Proof. unfold int_to_string. destruct (Z.to_int z); simpl; apply uint_number_chars. Qed.

Lemma Z_to_int_not_nil z : Z.to_int z ≠ Decimal.Pos Decimal.Nil ∧ Z.to_int z ≠ Decimal.Neg Decimal.Nil.
Proof.
  split; intros H; pose proof (DecimalZ.to_of (Z.to_int z)) as Hn;
    rewrite DecimalZ.of_to, H in Hn; discriminate.
Qed.

Lemma parse_int_to_string z : parse_int (int_to_string z) = Some z.
Proof.
  destruct (Z_to_int_not_nil z) as [Hp Hn].
  assert (NilZero.int_of_string (int_to_string z) = Some (Z.to_int z)) as H
    by by apply NilZero.isi.
  unfold parse_int. destruct (int_to_string z) as [|c s] eqn:E.
  - rewrite H. simpl. by rewrite DecimalZ.of_to.
  - assert (is_number_char c = true) as Hc.
    { pose proof (int_number_chars z) as Ha. rewrite E in Ha. simpl in Ha.
      by apply andb_true_iff in Ha as [? _]. }
    rewrite H. simpl. rewrite DecimalZ.of_to.
    destruct c as [[] [] [] [] [] [] [] []]; first [done|discriminate Hc].
Qed.

(** ** Parsing a printed value *)

(** A value in a larger text is followed by the end or a separator. *)
Definition stops (s : string) : bool :=
  match s with
  | "" => true
  | String c _ => Ascii.eqb c "," || Ascii.eqb c "]" || Ascii.eqb c "}"
  end.

Lemma stops_number s : stops s = true →
  match s with String c _ => is_number_char c | "" => false end = false ∧ at_fraction s = false.
Proof.
  destruct s as [|c s]; simpl; [done|].
  by destruct c as [[] [] [] [] [] [] [] []].
Qed.

Lemma parse_number_spec z rest :
  Z.abs z <= MAX_SAFE_INTEGER → stops rest = true →
  parse_number (int_to_string z +:+ rest) = Ok (Num (Int z), rest).
Proof.
  intros Hz [Hn Hf]%stops_number. unfold parse_number.
  rewrite span_number_all, Hf, parse_int_to_string, String.eqb_refl by auto using int_number_chars.
  simpl. rewrite round_double_safe by done. unfold MAX_SAFE_INTEGER in Hz.
  by rewrite (proj2 (Z.ltb_lt _ _)) by lia.
Qed.

(** The character a printed value starts with. *)
Definition value_head (c : ascii) : bool :=
  is_number_char c || Ascii.eqb c "n" || Ascii.eqb c "t" || Ascii.eqb c "f" ||
  Ascii.eqb c dquote || Ascii.eqb c "[" || Ascii.eqb c "{".

Definition head_is (p : ascii → bool) (s : string) : bool :=
  match s with "" => false | String c _ => p c end.

Lemma int_head z : head_is is_number_char (int_to_string z) = true.
Proof.
  pose proof (int_number_chars z) as H. pose proof (parse_int_to_string z) as Hp.
  destruct (int_to_string z) as [|c s]; simpl in *; [done|]. by apply andb_true_iff in H as [? _].
Qed.

Lemma text_head v rest : head_is value_head (text v +:+ rest) = true.
Proof.
  destruct v as [| |[]|[z|]|s|l|fs]; try reflexivity.
  pose proof (int_head z) as H. unfold text; simpl. destruct (int_to_string z); [done|].
  simpl in *. unfold value_head. by rewrite H.
Qed.

Lemma skip_space_head p s :
  (∀ c, p c = true → is_json_space c = false) → head_is p s = true → skip_space s = s.
Proof. intros Hp H. destruct s as [|c s]; simpl in *; [done|]. by rewrite Hp. Qed.

Lemma value_head_space c : value_head c = true → is_json_space c = false.
Proof. by destruct c as [[] [] [] [] [] [] [] []]. Qed.

Lemma skip_space_text v rest : skip_space (text v +:+ rest) = text v +:+ rest.
Proof. eapply skip_space_head, text_head. apply value_head_space. Qed.

(** No value starts with a closing bracket. *)
Lemma after_text c v rest :
  Ascii.eqb c "]" || Ascii.eqb c "}" = true → after c (text v +:+ rest) = None.
Proof.
  intros Hc. unfold after. rewrite skip_space_text. pose proof (text_head v rest) as H.
  destruct (text v +:+ rest) as [|d s]; [done|]. simpl in H.
  destruct (Ascii.eqb_spec d c) as [->|]; [|done].
  exfalso. revert Hc H. by destruct c as [[] [] [] [] [] [] [] []].
Qed.

Lemma number_head_dispatch fuel s :
  head_is is_number_char s = true → parse_value (S fuel) s = parse_number s.
Proof.
  intros H. cbn [parse_value].
  rewrite (skip_space_head is_number_char) by
    (done || intros c; by destruct c as [[] [] [] [] [] [] [] []]).
  destruct s as [|c s]; [done|]. simpl in H. revert H.
  by destruct c as [[] [] [] [] [] [] [] []].
Qed.

Lemma head_is_app p s t : head_is p s = true → head_is p (s +:+ t) = true.
Proof. by destruct s. Qed.

(** The text of a member. *)
Definition member_text (kv : string * js) : string := quote kv.1 +:+ ":" +:+ text kv.2.

(** The members that are printed. *)
Definition kept (kv : string * js) : bool :=
  match kv.2 with Undefined => false | _ => true end.

Lemma member_kept kv :
  member kv.1 (stringify kv.2) = if kept kv then [member_text kv] else [].
Proof. destruct kv as [k [| |b|[z|]|s|l|fs]]; reflexivity. Qed.

Lemma printed_members fs :
  flat_map (fun kv => member kv.1 (stringify kv.2)) fs = map member_text (List.filter kept fs).
Proof.
  induction fs as [|kv fs IH]; simpl; [done|]. rewrite member_kept, IH. by destruct (kept kv).
Qed.

Lemma normalized_members fs :
  normalize (Obj fs) = Obj (map (fun kv => (kv.1, normalize kv.2)) (List.filter kept fs)).
Proof.
  simpl. f_equal. induction fs as [|[k v] fs IH]; simpl; [done|]. rewrite IH. by destruct v.
Qed.

(** What is parsed from the text of [v], with enough fuel. *)
Definition parses (v : js) : Prop :=
  ∀ fuel rest, well_formed v = true → stops rest = true →
    (2 * String.length (text v) <= fuel)%nat →
    parse_value fuel (text v +:+ rest) = Ok (normalize v, rest).

Lemma parse_elements_spec l : l ≠ [] → Forall parses l → ∀ fuel rest,
  forallb well_formed l = true →
  (2 * String.length (join "," (map text l)) + 1 <= fuel)%nat →
  parse_elements fuel (join "," (map text l) +:+ String "]" rest) = Ok (map normalize l, rest).
Proof.
  intros Hne Hp. induction Hp as [|v l Hv Hl IH]; [done|].
  intros fuel rest Hwf Hfuel. destruct fuel as [|fuel]; [lia|]. clear Hne.
  simpl in Hwf. apply andb_true_iff in Hwf as [Hwv Hwl]. cbn [parse_elements].
  destruct l as [|v' l].
  - cbn [map join] in *. rewrite Hv by (done || lia). reflexivity.
  - set (t := join "," (map text (v' :: l))) in *.
    change (join "," (map text (v :: v' :: l))) with (text v +:+ "," +:+ t) in *.
    rewrite !string_length_app in Hfuel. cbn [String.length] in Hfuel.
    rewrite !string_app_assoc. rewrite Hv by (done || lia). cbn [mbind result_bind snd fst].
    change (after "," ("," +:+ t +:+ String "]" rest)) with (Some (t +:+ String "]" rest)).
    cbv iota beta. rewrite IH by (done || lia). reflexivity.
Qed.

Lemma member_text_app k v tail :
  member_text (k, v) +:+ tail =
    String dquote (escape_all k +:+ String dquote (":" +:+ text v +:+ tail)).
Proof. unfold member_text, quote; simpl. by rewrite !string_app_assoc. Qed.

(** One turn of [parse_members] on a printed member. *)
Lemma parse_members_turn fuel k v tail :
  parses v → well_formed v = true → stops tail = true →
  (2 * String.length (text v) <= fuel)%nat →
  parse_members (S fuel) (member_text (k, v) +:+ tail) =
    match after "," tail, after "}" tail with
    | Some s', _ => q ← parse_members fuel s'; Ok ((k, normalize v) :: q.1, q.2)
    | _, Some s' => Ok ([(k, normalize v)], s')
    | _, _ => unexpected
    end.
Proof.
  intros Hv Hwf Ht Hf. cbn [parse_members]. rewrite member_text_app.
  change (after dquote (String dquote ?s)) with (Some s).
  cbv iota beta. rewrite parse_chars_quote. cbn [mbind result_bind snd fst].
  change (after ":" (":" +:+ text v +:+ tail)) with (Some (text v +:+ tail)).
  cbv iota beta. by rewrite Hv.
Qed.

Lemma length_member k v : (String.length (text v) < String.length (member_text (k, v)))%nat.
Proof. unfold member_text; simpl. rewrite !string_length_app. simpl. lia. Qed.

Lemma parse_members_spec fs : fs ≠ [] → Forall (fun kv => parses kv.2) fs → ∀ fuel rest,
  forallb (fun kv => well_formed kv.2) fs = true →
  (2 * String.length (join "," (map member_text fs)) + 1 <= fuel)%nat →
  parse_members fuel (join "," (map member_text fs) +:+ String "}" rest) =
    Ok (map (fun kv => (kv.1, normalize kv.2)) fs, rest).
Proof.
  intros Hne Hp. induction Hp as [|[k v] fs Hv Hl IH]; [done|].
  intros fuel rest Hwf Hfuel. destruct fuel as [|fuel]; [lia|]. clear Hne.
  simpl in Hwf, Hv. apply andb_true_iff in Hwf as [Hwv Hwl]. pose proof (length_member k v).
  destruct fs as [|kv fs].
  - cbn [map join] in *. by rewrite parse_members_turn by (done || lia).
  - set (t := join "," (map member_text (kv :: fs))) in *.
    change (join "," (map member_text ((k, v) :: kv :: fs)))
      with (member_text (k, v) +:+ "," +:+ t) in *.
    rewrite !string_length_app in Hfuel. cbn [String.length] in Hfuel.
    rewrite !string_app_assoc, parse_members_turn by (done || lia).
    change (after "," ("," +:+ t +:+ String "}" rest)) with (Some (t +:+ String "}" rest)).
    cbv iota beta. by rewrite IH by (done || lia).
Qed.

Lemma ordered_filter (p : string * js → bool) fs :
  ordered fs.*1 = true → ordered (List.filter p fs).*1 = true.
Proof.
  induction fs as [|kv fs IH]; csimpl; [done|].
  rewrite andb_true_iff, forallb_keys. intros [Hall Hfs].
  destruct (p kv); csimpl; [|by apply IH]. rewrite andb_true_iff, forallb_keys.
  split; [|by apply IH]. intros k Hk. apply Hall.
  apply list_elem_of_fmap in Hk as (kv' & -> & Hin). apply list_elem_of_fmap.
  exists kv'. split; [done|]. apply list_elem_of_In in Hin. apply filter_In in Hin as [Hin _].
  by apply list_elem_of_In.
Qed.

Lemma forallb_filter {A : Type} (p q : A → bool) l :
  forallb q l = true → forallb q (List.filter p l) = true.
Proof. rewrite !forallb_forall. intros H x [Hx _]%filter_In. by apply H. Qed.

Lemma object_of_normalized fs : ordered fs.*1 = true →
  object_of (map (fun kv => (kv.1, normalize kv.2)) fs) = map (fun kv => (kv.1, normalize kv.2)) fs.
Proof.
  intros H. apply object_of_ordered. rewrite <- H. f_equal.
  induction fs as [|kv fs IH]; csimpl; [done|]. f_equal. apply IH. simpl in H.
  by apply andb_true_iff in H as [_ ?].
Qed.

Lemma parses_array l : Forall parses l → parses (Arr l).
Proof.
  intros Hl fuel rest Hwf Hr Hf. destruct l as [|v l].
  - destruct fuel; [simpl in Hf; lia|done].
  - set (t := join "," (map text (v :: l))) in *.
    change (text (Arr (v :: l))) with ("[" +:+ t +:+ "]") in *.
    rewrite !string_length_app in Hf. simpl String.length in Hf.
    destruct fuel as [|fuel]; [lia|]. rewrite !string_app_assoc.
    assert (after "]" (t +:+ String "]" rest) = None) as Ha.
    { destruct l as [|v' l]; [by apply after_text|].
      change t with (text v +:+ "," +:+ join "," (map text (v' :: l))).
      rewrite string_app_assoc. by apply after_text. }
    cbn [parse_value]. simpl. rewrite Ha.
    unfold t in *. rewrite parse_elements_spec by (done || lia). reflexivity.
Qed.

Lemma after_member kv rest : after "}" (member_text kv +:+ rest) = None.
Proof. reflexivity. Qed.

Lemma parses_object fs : Forall (fun kv => parses kv.2) fs → parses (Obj fs).
Proof.
  intros Hfs fuel rest Hwf Hr Hf. rewrite normalized_members.
  change (text (Obj fs)) with
    ("{" +:+ join "," (flat_map (fun kv => member kv.1 (stringify kv.2)) fs) +:+ "}") in *.
  rewrite printed_members in *. simpl in Hwf. apply andb_true_iff in Hwf as [Ho Hw].
  apply (ordered_filter kept) in Ho. apply (forallb_filter kept) in Hw.
  assert (Forall (fun kv => parses kv.2) (List.filter kept fs)) as Hk.
  { rewrite Forall_forall in *. intros kv [Hin _]%filter_In. by apply Hfs. }
  destruct (List.filter kept fs) as [|kv l]; clear Hfs.
  - destruct fuel; [simpl in Hf; lia|done].
  - set (t := join "," (map member_text (kv :: l))) in *.
    rewrite !string_length_app in Hf. simpl String.length in Hf.
    destruct fuel as [|fuel]; [lia|]. rewrite !string_app_assoc.
    assert (after "}" (t +:+ String "}" rest) = None) as Ha.
    { destruct l as [|kv' l]; [by apply after_member|]. reflexivity. }
    cbn [parse_value]. simpl. rewrite Ha.
    unfold t in *. rewrite parse_members_spec by (done || lia).
    cbn [mbind result_bind fst snd]. by rewrite object_of_normalized.
Qed.

Lemma text_nonempty v : (0 < String.length (text v))%nat.
Proof.
  pose proof (text_head v "") as H. rewrite string_app_nil_r in H.
  destruct (text v); simpl; [done|lia].
Qed.

Lemma parse_text v : parses v.
Proof.
  induction v as [| |b|[z|]|s|l IH|fs IH] using js_ind'; try by apply parses_array.
  all: try by apply parses_object.
  all: intros fuel rest Hwf Hr Hf; match type of Hwf with well_formed ?v = _ => pose proof (text_nonempty v) as Hpos end.
  all: destruct fuel as [|fuel]; [clear Hwf; lia|]; clear Hpos.
  - done.
  - done.
  - by destruct b.
  - rewrite number_head_dispatch by apply head_is_app, int_head. simpl in Hwf.
    apply parse_number_spec; [lia|done].
  - done.
  - change (text (Str s) +:+ rest) with (String dquote ((escape_all s +:+ String dquote "") +:+ rest)).
    rewrite string_app_assoc. change (String dquote "" +:+ rest) with (String dquote rest).
    cbn [parse_value]. simpl. by rewrite parse_chars_quote.
Qed.

(** [JSON.parse(JSON.stringify(v))] is [v] as far as JSON can express it. *)
Lemma parse_stringify v s :
  well_formed v = true → stringify v = Some s → parse s = Ok (normalize v).
Proof.
  intros Hwf Hs. assert (text v = s) as <- by (unfold text; by rewrite Hs).
  unfold parse. rewrite <- (string_app_nil_r (text v)) at 2.
  rewrite parse_text by (done || lia). done.
Qed.

Lemma stringify_None v : stringify v = None → v = Undefined.
Proof. destruct v as [| | |[]| | |]; [done|discriminate..]. Qed.

(** Two values with the same text are the same to JSON. *)
Lemma stringify_inj v1 v2 :
  well_formed v1 = true → well_formed v2 = true → v1 ≠ Undefined → v2 ≠ Undefined →
  stringify v1 = stringify v2 → normalize v1 = normalize v2.
Proof.
  intros H1 H2 Hu1 Hu2 Heq. destruct (stringify v1) as [s|] eqn:E.
  2: { by apply stringify_None in E. }
  apply parse_stringify in E; [|done]. symmetry in Heq.
  apply parse_stringify in Heq; [|done]. congruence.
Qed.

(** ** Printing what was parsed *)

Lemma kept_normalized (kv : string * js) : kept (kv.1, normalize kv.2) = true.
Proof. destruct kv as [k [| | |[]| | |]]; reflexivity. Qed.

Lemma filter_kept_normalized (fs : list (string * js)) :
  List.filter kept (map (fun kv => (kv.1, normalize kv.2)) fs) =
    map (fun kv => (kv.1, normalize kv.2)) fs.
Proof. induction fs as [|kv fs IH]; [done|]. cbn [map List.filter]. by rewrite kept_normalized, IH. Qed.

Lemma text_object fs :
  text (Obj fs) = "{" +:+ join "," (map member_text (List.filter kept fs)) +:+ "}".
Proof. unfold text. simpl. by rewrite printed_members. Qed.

(** A value and what JSON keeps of it have the same text. *)
Lemma text_normalize v : text (normalize v) = text v.
Proof.
  induction v as [| | |[]| |l IH|fs IH] using js_ind'; try reflexivity.
  - change (text (normalize (Arr l))) with ("[" +:+ join "," (map text (map normalize l)) +:+ "]").
    change (text (Arr l)) with ("[" +:+ join "," (map text l) +:+ "]"). do 3 f_equal.
    induction IH as [|v l Hv _ IHl]; [done|]. cbn [map]. by rewrite Hv, IHl.
  - rewrite normalized_members, !text_object, filter_kept_normalized. do 3 f_equal.
    induction IH as [|[k v] fs Hv _ IHfs]; [done|]. cbn [List.filter].
    destruct (kept (k, v)); [|done]. cbn [map]. rewrite IHfs. f_equal.
    unfold member_text. simpl in *. by rewrite Hv.
Qed.

(** ** Parsing ends

    The fuel of [parse] is never used up: a call that is given two units for
    each character left, and one more, does not run out, and reads at least
    one character when it succeeds. *)

Definition in_fuel {A : Type} (s : string) (m : result (A * string)) : Prop :=
  match m with
  | Ok p => (String.length p.2 < String.length s)%nat
  | Err e => e ≠ OutOfFuel
  end.

Lemma in_fuel_bind {A B : Type} s (m : result (A * string)) (f : A * string → result (B * string)) :
  in_fuel s m →
  (∀ p, (String.length p.2 < String.length s)%nat → m = Ok p → in_fuel s (f p)) →
  in_fuel s (m ≫= f).
Proof. destruct m as [p|e]; simpl; [|done]. intros Hm Hf. by apply Hf. Qed.

Lemma in_fuel_weaken {A : Type} s s' (m : result (A * string)) :
  (String.length s <= String.length s')%nat → in_fuel s m → in_fuel s' m.
Proof. destruct m as [p|e]; simpl; [lia|done]. Qed.

Lemma skip_space_length s : (String.length (skip_space s) <= String.length s)%nat.
Proof. induction s as [|c s IH]; simpl; [done|]. destruct (is_json_space c); simpl; lia. Qed.

Lemma after_length c s s' : after c s = Some s' → (String.length s' < String.length s)%nat.
Proof.
  unfold after. pose proof (skip_space_length s). destruct (skip_space s) as [|d t]; [done|].
  simpl in *. destruct (Ascii.eqb d c); [|done]. intros [= ->]. lia.
Qed.

Lemma expect_in_fuel lit c s v : in_fuel (String c s) (expect lit s v).
Proof.
  assert (∀ t, (String.length t <= String.length s)%nat → in_fuel (String c s) (expect lit t v)) as H.
  { induction lit as [|d lit IH]; intros t Ht; simpl; [lia|].
    destruct t as [|d' t]; simpl in *; [done|].
    destruct (Ascii.eqb d d'); simpl; [|done]. apply IH. lia. }
  by apply H.
Qed.

Lemma parsed_in_fuel a s t m :
  (String.length s <= String.length t)%nat → in_fuel s m → in_fuel t (parsed a m).
Proof. destruct m as [p|e]; simpl; [lia|done]. Qed.

Lemma utf8_in_fuel n e : utf8 n = Err e → e ≠ OutOfFuel.
Proof. unfold utf8. repeat case_match; congruence. Qed.

Lemma parse_chars_in_fuel s : in_fuel s (parse_chars s).
Proof.
  induction s as [s IH] using (induction_ltof1 _ String.length). unfold ltof in IH.
  destruct s as [|c s]; simpl; [done|].
  destruct (Ascii.eqb c dquote); simpl; [lia|].
  destruct (Ascii.eqb c backslash).
  - destruct s as [|e s]; [done|]. destruct (unescape e).
    + eapply (parsed_in_fuel _ s); [simpl; lia|]. apply IH; simpl; lia.
    + destruct (Ascii.eqb e "u"); [|done].
      destruct s as [|c1 [|c2 [|c3 [|c4 s]]]]; try done.
      destruct (hex_value c1), (hex_value c2), (hex_value c3), (hex_value c4); try done.
      destruct (utf8 _) as [u|e'] eqn:Hu; simpl; [|by eapply utf8_in_fuel].
      eapply (parsed_in_fuel _ s); [simpl; lia|]. apply IH; simpl; lia.
  - destruct (N_of_ascii c <? 32)%N; [done|].
    eapply (parsed_in_fuel _ s); [simpl; lia|]. apply IH; simpl; lia.
Qed.

Lemma span_number_length s :
  (String.length (span_number s).1 + String.length (span_number s).2 = String.length s)%nat.
Proof. induction s as [|c s IH]; simpl; [done|]. destruct (is_number_char c); simpl; lia. Qed.

Lemma parse_number_in_fuel s : in_fuel s (parse_number s).
Proof.
  unfold parse_number. pose proof (span_number_length s) as H.
  destruct (span_number s) as [token rest]; simpl in H.
  destruct (at_fraction rest); [done|]. destruct (parse_int token) as [z|] eqn:Hz; [|done].
  assert (token ≠ "") as Ht by (intros ->; discriminate).
  destruct (_ || _); [|done]. destruct (Z.abs _ <? _); simpl; [|done].
  destruct token; simpl in *; [done|lia].
Qed.

Definition parsing_ends (fuel : nat) : Prop :=
  (∀ s, (2 * String.length s < fuel)%nat → in_fuel s (parse_value fuel s)) ∧
  (∀ s, (2 * String.length s + 1 < fuel)%nat → in_fuel s (parse_elements fuel s)) ∧
  (∀ s, (2 * String.length s < fuel)%nat → in_fuel s (parse_members fuel s)).

Lemma parse_value_ends fuel : parsing_ends fuel →
  ∀ s, (2 * String.length s < S fuel)%nat → in_fuel s (parse_value (S fuel) s).
Proof.
  intros (_ & He & Hm) s Hs. cbn [parse_value]. pose proof (skip_space_length s) as Hl.
  apply (in_fuel_weaken (skip_space s)); [done|].
  destruct (skip_space s) as [|c t]; [done|]. simpl in Hl.
  repeat match goal with
    | |- in_fuel _ (if Ascii.eqb c ?d then _ else _) => destruct (Ascii.eqb c d)
    end; try apply expect_in_fuel; [..|apply parse_number_in_fuel].
  - apply (in_fuel_weaken t); [simpl; lia|].
    apply in_fuel_bind; [apply parse_chars_in_fuel|]. intros p Hp _; simpl; lia.
  - destruct (after "]" t) as [t'|] eqn:Ha; [apply after_length in Ha; simpl; lia|].
    apply (in_fuel_weaken t); [simpl; lia|].
    apply in_fuel_bind; [apply He; lia|]. intros p Hp _; simpl; lia.
  - destruct (after "}" t) as [t'|] eqn:Ha; [apply after_length in Ha; simpl; lia|].
    apply (in_fuel_weaken t); [simpl; lia|].
    apply in_fuel_bind; [apply Hm; lia|]. intros p Hp _; simpl; lia.
Qed.

(** What follows an element or a member: a separator and more, or the end. *)
Lemma in_fuel_rest {A B : Type} s close t (m : string → result (A * string)) (f : A * string → B) b :
  (String.length t < String.length s)%nat →
  (∀ s', (String.length s' < String.length t)%nat → in_fuel s' (m s')) →
  in_fuel s (match after "," t, after close t with
             | Some s', _ => q ← m s'; Ok (f q, q.2)
             | _, Some s' => Ok (b, s')
             | _, _ => unexpected
             end).
Proof.
  intros Ht Hm. destruct (after "," t) as [s'|] eqn:Ha.
  - apply after_length in Ha. apply (in_fuel_weaken s'); [lia|].
    apply in_fuel_bind; [by apply Hm|]. intros p Hp _; simpl; lia.
  - destruct (after close t) as [s'|] eqn:Hc; [|done]. apply after_length in Hc. simpl; lia.
Qed.

Lemma parsing_ends_all fuel : parsing_ends fuel.
Proof.
  induction fuel as [|fuel IH]; [split_and!; intros; lia|].
  split_and!; [by apply parse_value_ends|..]; destruct IH as (Hv & He & Hm).
  - intros s Hs. cbn [parse_elements]. apply in_fuel_bind; [apply Hv; lia|].
    intros p Hp _. apply (in_fuel_rest s "]" p.2 (parse_elements fuel) (fun q => p.1 :: q.1) [p.1]);
      [done|]. intros s' Hs'. apply He. lia.
  - intros s Hs. cbn [parse_members]. destruct (after dquote s) as [s1|] eqn:Ha; [|done].
    apply after_length in Ha. apply (in_fuel_weaken s1); [lia|].
    apply in_fuel_bind; [apply parse_chars_in_fuel|]. intros k Hk _.
    destruct (after ":" k.2) as [s2|] eqn:Hc; [|done]. apply after_length in Hc.
    apply (in_fuel_weaken s2); [lia|]. apply in_fuel_bind; [apply Hv; lia|].
    intros p Hp _.
    apply (in_fuel_rest s2 "}" p.2 (parse_members fuel) (fun q => (k.1, p.1) :: q.1) [(k.1, p.1)]);
      [done|]. intros s' Hs'. apply Hm. lia.
Qed.

Lemma parse_total s : parse s ≠ Err OutOfFuel.
Proof.
  unfold parse. pose proof (proj1 (parsing_ends_all (2 * String.length s + 1)) s ltac:(lia)) as H.
  destruct (parse_value _ s) as [p|e]; simpl in *; [|congruence].
  by destruct (skip_space p.2).
Qed.
