(* ===== verification/Uri.v ===== *)
(** * Query strings

    [encodeURIComponent], and the methods of [HttpClient] (module/rest.js) that
    turn an object into the query part of a URL.  The reading side, which the
    server performs, is the specification: [parse_query] splits a query string
    the way an HTML form decoder does, and [query_pairs] is the list of pairs
    the object stands for. *)
From S2P Require Import Prelude Js JsonText.
Open Scope Z_scope.

(** ** [encodeURIComponent] *)

(** Letters, digits and [- _ . ! ~ * ' ( )] stand for themselves. *)
Definition unreserved (c : ascii) : bool :=
  let n := N_of_ascii c in
  ((48 <=? n) && (n <=? 57) || (65 <=? n) && (n <=? 90) || (97 <=? n) && (n <=? 122) ||
   (n =? 45) || (n =? 95) || (n =? 46) || (n =? 33) || (n =? 126) || (n =? 42) ||
   ((39 <=? n) && (n <=? 41)))%N.

Definition upper_hex (n : N) : ascii :=
  if (n <? 10)%N then ascii_of_N (48 + n) else ascii_of_N (55 + n).

Definition encode_char (c : ascii) : string :=
  let n := N_of_ascii c in
  if unreserved c then String c ""
  else String "%" (String (upper_hex (n / 16)) (String (upper_hex (n mod 16)) "")).

Fixpoint encodeURIComponent (s : string) : string :=
  match s with
  | "" => ""
  | String c s' => encode_char c +:+ encodeURIComponent s'
  end.

(** Reading an encoded component back; [None] on a malformed escape. *)
Fixpoint decode_component (s : string) : option string :=
  match s with
  | "" => Some ""
  | String c s' =>
      if Ascii.eqb c "%" then
        match s' with
        | String a (String b s'') =>
            match hex_value a, hex_value b with
            | Some x, Some y => String (ascii_of_N (x * 16 + y)) <$> decode_component s''
            | _, _ => None
            end
        | _ => None
        end
      else String c <$> decode_component s'
  end.

(** ** [addQueryParam], [toQueryString], [addQueryParams] *)

(** [v.join(",")], [v] or [`${v}`], by the type of [v]. *)
Definition param_text (v : js) : string :=
  match v with
  | Arr _ => js_String v
  | Num n => number_to_string n
  | _ => js_String v
  end.

(** [addQueryParam(query, key)], where [v] is [query[key]]. *)
Definition addQueryParam (key : string) (v : js) : string :=
  encodeURIComponent key +:+ "=" +:+ encodeURIComponent (param_text v).

(** [typeof v === "object" && !Array.isArray(v)], which holds of [null]. *)
Definition is_nested (v : js) : bool :=
  match v with Obj _ | Null => true | _ => false end.

(** The text of one property; those that are [undefined] are filtered out. *)
Definition segment (toQueryString : js → string) (key : string) (v : js) : list string :=
  if is_undefined v then []
  else [if is_nested v then toQueryString v else addQueryParam key v].

(** [Object.keys] lists the properties of an object, the indices of an array
    and those of a string; [null], [undefined] and other primitives have none. *)
Fixpoint toQueryString (rawQuery : js) : string :=
  match rawQuery with
  | Obj query => join "&" (flat_map (fun kv => segment toQueryString kv.1 kv.2) query)
  | Arr query =>
      join "&" ((fix go (i : Z) (l : list js) : list string :=
                   match l with
                   | [] => []
                   | v :: l' => segment toQueryString (int_to_string i) v ++ go (i + 1) l'
                   end) 0 query)
  | Str s => join "&" (map (fun kv => addQueryParam kv.1 kv.2) (spread (Str s)))
  | _ => ""
  end.

Definition addQueryParams (rawQuery : js) : string :=
  let queryString := toQueryString rawQuery in
  if String.eqb queryString "" then "" else "?" +:+ queryString.

(** ** What a query stands for *)

Definition pairs_of (query_pairs : js → list (string * string)) (key : string) (v : js)
    : list (string * string) :=
  if is_undefined v then []
  else if is_nested v then query_pairs v else [(key, param_text v)].

Fixpoint query_pairs (q : js) : list (string * string) :=
  match q with
  | Obj query => flat_map (fun kv => pairs_of query_pairs kv.1 kv.2) query
  | Arr query =>
      (fix go (i : Z) (l : list js) : list (string * string) :=
         match l with
         | [] => []
         | v :: l' => pairs_of query_pairs (int_to_string i) v ++ go (i + 1) l'
         end) 0 query
  | Str s => map (fun kv => (kv.1, param_text kv.2)) (spread (Str s))
  | _ => []
  end.

(** The text before the first [c], and what follows it. *)
Fixpoint cut (c : ascii) (s : string) : string * option string :=
  match s with
  | "" => ("", None)
  | String d s' =>
      if Ascii.eqb d c then ("", Some s')
      else let p := cut c s' in (String d p.1, p.2)
  end.

Fixpoint split_on (c : ascii) (s : string) : list string :=
  match s with
  | "" => [""]
  | String d s' =>
      if Ascii.eqb d c then "" :: split_on c s'
      else match split_on c s' with
           | [] => [String d ""]
           | p :: ps => String d p :: ps
           end
  end.

(** One [key=value] segment; empty segments are skipped. *)
Definition parse_segment (s : string) : list (string * string) :=
  if String.eqb s "" then []
  else match cut "=" s with
       | (k, Some v) =>
           match decode_component k, decode_component v with
           | Some k', Some v' => [(k', v')]
           | _, _ => []
           end
       | (k, None) => match decode_component k with Some k' => [(k', "")] | None => [] end
       end.

Definition parse_query (s : string) : list (string * string) :=
  flat_map parse_segment (split_on "&" s).

(** ** Reading a URL

    What a server is asked for by a URL: the authority, the segments of the path
    and the pairs of the query.  The fragment is not sent, the segments [.] and
    [..], also when they are escaped, are resolved, and the path is split after
    it was decoded, so that an escaped slash separates segments like any
    other. *)

Fixpoint strip_prefix (p s : string) : option string :=
  match p, s with
  | "", _ => Some s
  | String a p', String b s' => if Ascii.eqb a b then strip_prefix p' s' else None
  | _, _ => None
  end.

Definition is_dots (dots s : string) : bool := bool_decide (decode_component s = Some dots).

(** [before]: the segments so far, the last one first. *)
Fixpoint resolve_dots (before l : list string) : list string :=
  match l with
  | [] => rev before
  | s :: l' =>
      if is_dots "." s then resolve_dots before l'
      else if is_dots ".." s then resolve_dots (tail before) l'
      else resolve_dots (s :: before) l'
  end.

Definition read_path (path : string) : option (list string) :=
  segments ← mapM decode_component (resolve_dots [] (split_on "/" path));
  Some (flat_map (split_on "/") segments).

Definition read_url (url : string) : option (string * list string * list (string * string)) :=
  rest ← strip_prefix "http://" url;
  let (location, query) := cut "?" (cut "#" rest).1 in
  let (host, path) := cut "/" location in
  segments ← read_path (default "" path);
  Some (host, segments, parse_query (default "" query)).

(** The characters a path segment holds as they are: those of
    [encodeURIComponent] and [$ & + , : ; = @]. *)
Definition path_char (c : ascii) : bool :=
  unreserved c ||
  (let n := N_of_ascii c in
   (n =? 36) || (n =? 38) || (n =? 43) || (n =? 44) || (n =? 58) || (n =? 59) || (n =? 61) || (n =? 64))%N.

(** A segment of these characters that is not empty and means nothing else. *)
Definition plain_segment (s : string) : bool :=
  all_chars path_char s && negb (String.eqb s "") && negb (String.eqb s ".") &&
  negb (String.eqb s "..").

(** A host, with a port maybe. *)
Definition plain_host (s : string) : bool :=
  all_chars (fun c => negb (Ascii.eqb c "/") && negb (Ascii.eqb c "?") && negb (Ascii.eqb c "#")) s.

(** ** Lemmas *)

Lemma decode_component_char c s :
  decode_component (encode_char c +:+ s) = String c <$> decode_component s.
Proof. by destruct c as [[] [] [] [] [] [] [] []]. Qed.

Lemma decode_component_encode s : decode_component (encodeURIComponent s) = Some s.
Proof. induction s as [|c s IH]; simpl; [done|]. by rewrite decode_component_char, IH. Qed.

(** Characters an encoded component can hold. *)
Definition component_char (c : ascii) : bool := unreserved c || Ascii.eqb c "%".

Lemma all_chars_app p s t : all_chars p (s +:+ t) = all_chars p s && all_chars p t.
Proof. induction s as [|c s IH]; simpl; [done|]. by rewrite IH, andb_assoc. Qed.

Lemma encode_char_chars c : all_chars component_char (encode_char c) = true.
Proof. by destruct c as [[] [] [] [] [] [] [] []]. Qed.

Lemma encode_chars s : all_chars component_char (encodeURIComponent s) = true.
Proof.
  induction s as [|c s IH]; simpl; [done|]. by rewrite all_chars_app, encode_char_chars, IH.
Qed.

Lemma cut_app c s t :
  all_chars (fun d => negb (Ascii.eqb d c)) s = true → cut c (s +:+ String c t) = (s, Some t).
Proof.
  induction s as [|d s IH]; simpl; [by rewrite Ascii.eqb_refl|].
  rewrite andb_true_iff, negb_true_iff. intros [-> Hs]. by rewrite IH.
Qed.

Lemma split_on_none c s :
  all_chars (fun d => negb (Ascii.eqb d c)) s = true → split_on c s = [s].
Proof.
  induction s as [|d s IH]; simpl; [done|].
  rewrite andb_true_iff, negb_true_iff. intros [-> Hs]. by rewrite IH.
Qed.

Lemma split_on_nonempty c s : split_on c s ≠ [].
Proof. destruct s as [|d s]; simpl; [done|]. destruct (Ascii.eqb d c); [done|]. by case_match. Qed.

Lemma split_on_app c s t : split_on c (s +:+ String c t) = split_on c s ++ split_on c t.
Proof.
  induction s as [|d s IH]; simpl; [by rewrite Ascii.eqb_refl|].
  destruct (Ascii.eqb d c); simpl; rewrite IH; [done|].
  pose proof (split_on_nonempty c s). by destruct (split_on c s).
Qed.

Lemma parse_query_app s t : parse_query (s +:+ String "&" t) = parse_query s ++ parse_query t.
Proof. unfold parse_query. by rewrite split_on_app, flat_map_app. Qed.

Lemma parse_query_join l : parse_query (join "&" l) = flat_map parse_query l.
Proof.
  induction l as [|s l IH]; [done|]. destruct l as [|s' l]; [simpl; by rewrite app_nil_r|].
  change (join "&" (s :: s' :: l)) with (s +:+ String "&" (join "&" (s' :: l))).
  by rewrite parse_query_app, IH.
Qed.

Lemma component_char_not c d :
  Ascii.eqb d "&" || Ascii.eqb d "=" = true → component_char c = true → negb (Ascii.eqb c d) = true.
Proof.
  intros Hd Hc. destruct (Ascii.eqb_spec c d) as [->|]; [|done]. exfalso. revert Hd Hc.
  by destruct d as [[] [] [] [] [] [] [] []].
Qed.

Lemma encode_free s d :
  Ascii.eqb d "&" || Ascii.eqb d "=" = true →
  all_chars (fun c => negb (Ascii.eqb c d)) (encodeURIComponent s) = true.
Proof. intros Hd. eapply all_chars_impl, encode_chars. intros c. by apply component_char_not. Qed.

Lemma parse_addQueryParam k v : parse_query (addQueryParam k v) = [(k, param_text v)].
Proof.
  unfold parse_query, addQueryParam. rewrite split_on_none.
  2: { rewrite !all_chars_app, !encode_free by done. done. }
  simpl. rewrite app_nil_r. unfold parse_segment.
  destruct (String.eqb_spec (encodeURIComponent k +:+ String "=" (encodeURIComponent (param_text v)))
    "") as [He|_].
  { apply (f_equal String.length) in He. rewrite !string_length_app in He. simpl in He. lia. }
  rewrite cut_app by by apply encode_free. by rewrite !decode_component_encode.
Qed.

Lemma parse_segment_of q k v :
  parse_query (toQueryString v) = query_pairs v →
  flat_map parse_query (segment toQueryString k v) ++ q = pairs_of query_pairs k v ++ q.
Proof.
  intros Hv. unfold segment, pairs_of. destruct (is_undefined v); [done|].
  destruct (is_nested v); simpl; rewrite ?app_nil_r, ?Hv, ?parse_addQueryParam; done.
Qed.

(** The server reads the pairs the object stands for, in order: keys and
    values may hold any character, and nested objects are flattened. *)
Lemma parse_toQueryString q : parse_query (toQueryString q) = query_pairs q.
Proof.
  induction q as [| | | |s|l IH|fs IH] using js_ind'; try reflexivity;
    cbn [toQueryString query_pairs]; rewrite parse_query_join.
  - induction (spread (Str s)) as [|kv kvs IH]; simpl; [done|]. by rewrite parse_addQueryParam, IH.
  - generalize 0. induction IH as [|v l Hv _ IHl]; intros i; [done|].
    rewrite flat_map_app, IHl. by apply parse_segment_of.
  - induction IH as [|[k v] fs Hv _ IHfs]; [done|]. cbn [flat_map snd fst] in *.
    rewrite flat_map_app, IHfs. by apply parse_segment_of.
Qed.

(** *** URLs *)

Lemma cut_none c s : all_chars (fun d => negb (Ascii.eqb d c)) s = true → cut c s = (s, None).
Proof.
  induction s as [|d s IH]; simpl; [done|]. rewrite andb_true_iff, negb_true_iff.
  intros [-> Hs]. by rewrite IH.
Qed.

Lemma strip_prefix_app p s : strip_prefix p (p +:+ s) = Some s.
Proof. induction p as [|c p IH]; simpl; [done|]. by rewrite Ascii.eqb_refl. Qed.

(** A path character is none of those that end a path or begin an escape. *)
Lemma path_char_not c d :
  Ascii.eqb d "/" || Ascii.eqb d "?" || Ascii.eqb d "#" || Ascii.eqb d "%" = true →
  path_char c = true → negb (Ascii.eqb c d) = true.
Proof.
  intros Hd Hc. destruct (Ascii.eqb_spec c d) as [->|]; [|done]. exfalso. revert Hd Hc.
  by destruct d as [[] [] [] [] [] [] [] []].
Qed.

Lemma plain_segment_chars s : plain_segment s = true → all_chars path_char s = true.
Proof. unfold plain_segment. by rewrite !andb_true_iff; intros [[[? _] _] _]. Qed.

Lemma plain_segment_free s d :
  Ascii.eqb d "/" || Ascii.eqb d "?" || Ascii.eqb d "#" || Ascii.eqb d "%" = true →
  plain_segment s = true → all_chars (fun c => negb (Ascii.eqb c d)) s = true.
Proof.
  intros Hd Hs%plain_segment_chars. eapply all_chars_impl, Hs. intros c. by apply path_char_not.
Qed.

Lemma decode_component_plain s :
  all_chars (fun c => negb (Ascii.eqb c "%")) s = true → decode_component s = Some s.
Proof.
  induction s as [|c s IH]; simpl; [done|]. rewrite andb_true_iff, negb_true_iff.
  intros [-> Hs]. by rewrite IH.
Qed.

Lemma plain_segment_decode s : plain_segment s = true → decode_component s = Some s.
Proof. intros Hs. by apply decode_component_plain, plain_segment_free. Qed.

Lemma plain_segment_dots s :
  plain_segment s = true → is_dots "." s = false ∧ is_dots ".." s = false.
Proof.
  intros Hs. unfold is_dots. rewrite plain_segment_decode by done.
  unfold plain_segment in Hs. rewrite !andb_true_iff, !negb_true_iff in Hs.
  destruct Hs as [[_ H1%String.eqb_neq] H2%String.eqb_neq].
  split; apply bool_decide_eq_false; congruence.
Qed.

Lemma resolve_plain before l :
  forallb plain_segment l = true → resolve_dots before l = rev before ++ l.
Proof.
  revert before. induction l as [|s l IH]; intros before; simpl; [by rewrite app_nil_r|].
  rewrite andb_true_iff. intros [Hs Hl]. destruct (plain_segment_dots s Hs) as [-> ->].
  rewrite IH by done. simpl. by rewrite <- app_assoc.
Qed.

Lemma decode_plain l : forallb plain_segment l = true → mapM decode_component l = Some l.
Proof.
  induction l as [|s l IH]; [done|]. simpl forallb. rewrite andb_true_iff. intros [Hs Hl].
  cbn [mapM]. by rewrite plain_segment_decode, IH.
Qed.

Lemma split_plain l : forallb plain_segment l = true → flat_map (split_on "/") l = l.
Proof.
  induction l as [|s l IH]; simpl; [done|]. rewrite andb_true_iff. intros [Hs Hl].
  rewrite split_on_none by by apply plain_segment_free. simpl. by rewrite IH.
Qed.

(** What joins are free of. *)
Lemma join_free (p : ascii → bool) sep l :
  all_chars p sep = true → forallb (all_chars p) l = true → all_chars p (join sep l) = true.
Proof.
  intros Hp. induction l as [|s l IH]; [done|]. simpl forallb. rewrite andb_true_iff.
  intros [Hs Hl]. destruct l as [|s' l]; [done|].
  change (join sep (s :: s' :: l)) with (s +:+ sep +:+ join sep (s' :: l)).
  rewrite !all_chars_app, Hs, Hp. by apply IH.
Qed.

Lemma addQueryParam_free k v :
  all_chars (fun c => negb (Ascii.eqb c "#")) (addQueryParam k v) = true.
Proof.
  unfold addQueryParam. rewrite !all_chars_app. simpl.
  assert (∀ s, all_chars (fun c => negb (Ascii.eqb c "#")) (encodeURIComponent s) = true) as H.
  { intros s. eapply all_chars_impl, encode_chars. intros c Hc.
    destruct (Ascii.eqb_spec c "#") as [->|]; [|done]. by vm_compute in Hc. }
  by rewrite !H.
Qed.

Lemma toQueryString_free q : all_chars (fun c => negb (Ascii.eqb c "#")) (toQueryString q) = true.
Proof.
  assert (∀ k v, all_chars (fun c => negb (Ascii.eqb c "#")) (toQueryString v) = true →
    forallb (all_chars (fun c => negb (Ascii.eqb c "#"))) (segment toQueryString k v) = true) as Hseg.
  { intros k v Hv. unfold segment. destruct (is_undefined v); [done|].
    destruct (is_nested v); simpl; [by rewrite Hv|by rewrite addQueryParam_free]. }
  induction q as [| | | |s|l IH|fs IH] using js_ind'; try reflexivity; cbn [toQueryString];
    (apply join_free; [done|]).
  - induction (spread (Str s)) as [|kv kvs IH]; simpl; [done|]. by rewrite addQueryParam_free.
  - generalize 0. induction IH as [|v l Hv _ IHl]; intros i; [done|].
    rewrite forallb_app, IHl, Hseg; done.
  - induction IH as [|[k v] fs Hv _ IHfs]; [done|]. cbn [flat_map snd fst] in *.
    rewrite forallb_app, IHfs, Hseg; done.
Qed.
