(* ===== verification/Async.v ===== *)
(** * Asynchronous code over a shared state

    An [async] function as data: it returns, throws, sends a request and waits
    for its answer, or reads and writes the shared state.  Between two awaits
    JavaScript runs a task to the next one without interruption: [settle] runs
    such a segment.  [run] runs a task alone against a given server;
    [sys_step] interleaves the segments of several tasks in any order. *)
From S2P Require Import Prelude Js.

Section async.
Context {Req Resp S : Type}.

Inductive proc (A : Type) : Type :=
| Ret (a : A)
| Throw (e : exn)
| Await (q : Req) (k : result Resp → proc A)
| Get (k : S → proc A)
| Put (s : S) (p : proc A).

Arguments Ret {A} a.
Arguments Throw {A} e.
Arguments Await {A} q k.
Arguments Get {A} k.
Arguments Put {A} s p.

Fixpoint proc_bind_ {A B : Type} (f : A → proc B) (p : proc A) : proc B :=
  match p with
  | Ret a => f a
  | Throw e => Throw e
  | Await q k => Await q (fun r => proc_bind_ f (k r))
  | Get k => Get (fun s => proc_bind_ f (k s))
  | Put s p' => Put s (proc_bind_ f p')
  end.

#[export] Instance proc_ret : MRet proc := @Ret.
#[export] Instance proc_bind : MBind proc := @proc_bind_.

(** [try { p } catch (e) { h(e) }] *)
Fixpoint catch {A : Type} (p : proc A) (h : exn → proc A) : proc A :=
  match p with
  | Ret a => Ret a
  | Throw e => h e
  | Await q k => Await q (fun r => catch (k r) h)
  | Get k => Get (fun s => catch (k s) h)
  | Put s p' => Put s (catch p' h)
  end.

(** A computation that neither waits nor touches the state. *)
Definition of_result {A : Type} (m : result A) : proc A :=
  match m with Ok a => Ret a | Err e => Throw e end.

(** Awaiting an answer, which may be a rejection. *)
Definition await (q : Req) : proc Resp := Await q of_result.

(** Applying a function to the state. *)
Definition modify (f : S → S) : proc unit := Get (fun s => Put (f s) (Ret tt)).

(** Where a segment stops. *)
Inductive paused (A : Type) : Type :=
| Done (r : result A)
| Waiting (q : Req) (k : result Resp → proc A).
Arguments Done {A} r.
Arguments Waiting {A} q k.

Fixpoint settle {A : Type} (p : proc A) (s : S) : S * paused A :=
  match p with
  | Ret a => (s, Done (Ok a))
  | Throw e => (s, Done (Err e))
  | Await q k => (s, Waiting q k)
  | Get k => settle (k s) s
  | Put s' p' => settle p' s'
  end.

Section run.
Variable server : Req → result Resp.

Fixpoint run {A : Type} (p : proc A) (s : S) : S * result A :=
  match p with
  | Ret a => (s, Ok a)
  | Throw e => (s, Err e)
  | Await q k => run (k (server q)) s
  | Get k => run (k s) s
  | Put s' p' => run p' s'
  end.

Lemma run_bind {A B : Type} (p : proc A) (f : A → proc B) s :
  run (p ≫= f) s =
    match run p s with (s', Ok a) => run (f a) s' | (s', Err e) => (s', Err e) end.
Proof. revert s. induction p as [| |q k IH|k IH|s' p IH]; intros s; simpl; auto; apply IH. Qed.

Lemma run_catch {A : Type} (p : proc A) h s :
  run (catch p h) s =
    match run p s with (s', Ok a) => (s', Ok a) | (s', Err e) => run (h e) s' end.
Proof. revert s. induction p as [| |q k IH|k IH|s' p IH]; intros s; simpl; auto. Qed.

Lemma run_of_result {A : Type} (m : result A) s : run (of_result m) s = (s, m).
Proof. by destruct m. Qed.

Lemma run_await q s : run (await q) s = (s, server q).
Proof. simpl. by rewrite run_of_result. Qed.

Lemma run_modify f s : run (modify f) s = (f s, Ok tt).
Proof. reflexivity. Qed.

(** Running alone is settling and answering in turn. *)
Lemma run_settle {A : Type} (p : proc A) s :
  run p s = match settle p s with
            | (s', Done r) => (s', r)
            | (s', Waiting q k) => run (k (server q)) s'
            end.
Proof. revert s. induction p as [| |q k IH|k IH|s' p IH]; intros s; simpl; auto. Qed.
End run.

(** Code that runs in one segment. *)
Fixpoint no_await {A : Type} (p : proc A) : Prop :=
  match p with
  | Ret _ | Throw _ => True
  | Await _ _ => False
  | Get k => ∀ s, no_await (k s)
  | Put _ p' => no_await p'
  end.

Lemma no_await_bind {A B : Type} (p : proc A) (f : A → proc B) :
  no_await p → (∀ a, no_await (f a)) → no_await (p ≫= f).
Proof. intros Hp Hf. induction p; simpl in *; auto. Qed.

Lemma no_await_catch {A : Type} (p : proc A) h :
  no_await p → (∀ e, no_await (h e)) → no_await (catch p h).
Proof. intros Hp Hh. induction p; simpl in *; auto. Qed.

Lemma settle_no_await server {A : Type} (p : proc A) s :
  no_await p → settle p s = ((run server p s).1, Done (run server p s).2).
Proof. revert s. induction p as [| |q k IH|k IH|s' p IH]; simpl; intros s H; auto. done. Qed.

(** ** Replaying

    [replays p log r]: with its requests answered from [log] in order, [p]
    gives [r]. *)
Inductive replays {A : Type} : proc A → list (Req * result Resp) → result A → Prop :=
| replays_ret a : replays (Ret a) [] (Ok a)
| replays_throw e : replays (Throw e) [] (Err e)
| replays_await q k r log x : replays (k r) log x → replays (Await q k) ((q, r) :: log) x.

(** Code that does not touch the state. *)
Fixpoint stateless {A : Type} (p : proc A) : Prop :=
  match p with
  | Ret _ | Throw _ => True
  | Await _ k => ∀ r, stateless (k r)
  | Get _ | Put _ _ => False
  end.

Lemma stateless_bind {A B : Type} (p : proc A) (f : A → proc B) :
  stateless p → (∀ a, stateless (f a)) → stateless (p ≫= f).
Proof.
  intros Hp Hf. induction p as [a|e|q k IH|k IH|s' p IH]; simpl in *; auto.
Qed.

Lemma stateless_of_result {A : Type} (m : result A) : stateless (of_result m).
Proof. by destruct m. Qed.

Lemma stateless_await q : stateless (await q).
Proof. intros r. apply stateless_of_result. Qed.

Lemma run_stateless {A : Type} server (p : proc A) s : stateless p → (run server p s).1 = s.
Proof. induction p as [a|e|q k IH|k IH|s' p IH]; simpl; intros H; try done. by apply IH. Qed.

(** ** Interleaving *)

(** The shared state, the tasks that are waiting or done with a result, and
    the requests that have been answered so far. *)
Record system (A : Type) := mkSystem {
  shared : S;
  tasks : list (paused A);
  history : list (Req * result Resp);
}.
Arguments mkSystem {A} shared tasks history.
Arguments shared {A} _.
Arguments tasks {A} _.
Arguments history {A} _.

(** A new task of those that can be started runs to its first await; or the
    answer to a waiting task arrives, whatever it is, and the task runs on to
    its next await. *)
Inductive sys_step {A : Type} (starts : proc A → Prop) : system A → system A → Prop :=
| step_start s ts h p s' t :
    starts p → settle p s = (s', t) →
    sys_step starts (mkSystem s ts h) (mkSystem s' (ts ++ [t]) h)
| step_answer s ts h i q k r s' t :
    ts !! i = Some (Waiting q k) →
    settle (k r) s = (s', t) →
    sys_step starts (mkSystem s ts h) (mkSystem s' (<[i := t]> ts) (h ++ [(q, r)])).

(** ** Invariants of interleaved tasks

    [inv h s]: what every task may rely on when it resumes and must restore
    before it waits, where [h] are the requests answered so far.  [wp own h p s post]:
    a task that has seen the answers [own] and is about to run [p] in state
    [s] keeps the invariant at each await and ends in [post]. *)
Section invariant.
Variable inv : list (Req * result Resp) → S → Prop.
Hypothesis inv_grows : ∀ h h' s, h ⊆ h' → inv h s → inv h' s.

Fixpoint wp {A : Type} (own h : list (Req * result Resp)) (p : proc A) (s : S)
    (post : list (Req * result Resp) → list (Req * result Resp) → result A → S → Prop) : Prop :=
  match p with
  | Ret a => post own h (Ok a) s
  | Throw e => post own h (Err e) s
  | Await q k =>
      inv h s ∧ ∀ r h' s', own ++ [(q, r)] ⊆ h' → inv h' s' →
        wp (own ++ [(q, r)]) h' (k r) s' post
  | Get k => wp own h (k s) s post
  | Put s' p' => wp own h p' s' post
  end.

Lemma wp_mono {A : Type} (p : proc A) own h s (post post' : _ → _ → _ → _ → Prop) :
  (∀ own h r s, post own h r s → post' own h r s) → wp own h p s post → wp own h p s post'.
Proof.
  intros Hp. revert own h s. induction p as [a|e|q k IH|k IH|s' p IH]; simpl; intros own h s; auto.
  intros [Hi Hk]. split; [done|]. intros r h' s' Hsub Hi'. apply IH. by apply Hk.
Qed.

Lemma wp_bind {A B : Type} (p : proc A) (f : A → proc B) own h s post :
  wp own h p s (fun own' h' r s' => match r with
                                    | Ok a => wp own' h' (f a) s' post
                                    | Err e => post own' h' (Err e) s'
                                    end) →
  wp own h (p ≫= f) s post.
Proof.
  revert own h s. induction p as [a|e|q k IH|k IH|s' p IH]; simpl; intros own h s; auto.
  intros [Hi Hk]. split; [done|]. intros r h' s' Hsub Hi'. apply IH. by apply Hk.
Qed.

Lemma wp_catch {A : Type} (p : proc A) (hd : exn → proc A) own h s post :
  wp own h p s (fun own' h' r s' => match r with
                                    | Ok a => post own' h' (Ok a) s'
                                    | Err e => wp own' h' (hd e) s' post
                                    end) →
  wp own h (catch p hd) s post.
Proof.
  revert own h s. induction p as [a|e|q k IH|k IH|s' p IH]; simpl; intros own h s; auto.
  intros [Hi Hk]. split; [done|]. intros r h' s' Hsub Hi'. apply IH. by apply Hk.
Qed.

(** Stateless code keeps the invariant, and what it returns can be replayed
    from the answers it has seen. *)
Lemma wp_replay {A : Type} (p : proc A) own h s :
  stateless p → own ⊆ h → inv h s →
  wp own h p s (fun own' h' r s' =>
    ∃ log, own' = own ++ log ∧ own' ⊆ h' ∧ inv h' s' ∧ replays p log r).
Proof.
  revert own h s. induction p as [a|e|q k IH|k IH|s' p IH]; simpl; intros own h s Hp Hs Hi; try done.
  - exists []. rewrite app_nil_r. split_and!; [done..|constructor].
  - exists []. rewrite app_nil_r. split_and!; [done..|constructor].
  - split; [done|]. intros r h' s' Hsub Hi'.
    eapply wp_mono; [|by apply IH]. simpl. intros own' h'' r' s'' (log & -> & Hl & Hi'' & Hr).
    exists ((q, r) :: log). rewrite <- app_assoc in Hl |- *.
    split_and!; try done. by constructor.
Qed.

(** What is left of a task is safe to resume. *)
Definition task_owns {A : Type} (h : list (Req * result Resp)) (t : paused A) : Prop :=
  match t with
  | Done _ => True
  | Waiting q k =>
      ∃ own, own ⊆ h ∧ ∀ r h' s, own ++ [(q, r)] ⊆ h' → inv h' s →
        wp (own ++ [(q, r)]) h' (k r) s (fun _ h'' _ s' => inv h'' s')
  end.

Lemma settle_safe {A : Type} (p : proc A) own h s :
  own ⊆ h → wp own h p s (fun _ h' _ s' => inv h' s') →
  inv h (settle p s).1 ∧ task_owns h (settle p s).2.
Proof.
  intros Hsub. revert s. induction p as [a|e|q k IH|k IH|s' p IH]; simpl; intros s Hwp; auto.
  destruct Hwp as [Hi Hk]. split; [done|]. by exists own.
Qed.

Definition system_safe {A : Type} (sys : system A) : Prop :=
  inv sys.(history) sys.(shared) ∧ Forall (task_owns sys.(history)) sys.(tasks).

Lemma task_owns_grows {A : Type} h h' (t : paused A) : h ⊆ h' → task_owns h t → task_owns h' t.
Proof.
  intros Hh. destruct t as [r|q k]; simpl; [done|]. intros (own & Ho & Hk).
  exists own. split; [set_solver|done].
Qed.

(** If every task that is started keeps the invariant on its own, it holds
    however the tasks are interleaved and whatever they are answered. *)
Lemma sys_step_safe {A : Type} (starts : proc A → Prop) sys sys' :
  (∀ p h s, starts p → inv h s → wp [] h p s (fun _ h' _ s' => inv h' s')) →
  sys_step starts sys sys' → system_safe sys → system_safe sys'.
Proof.
  intros Hstarts Hstep [Hinv Htasks]. destruct Hstep as [s ts h p s' t Hp Hset|s ts h i q k r s' t Hi Hset];
    simpl in *.
  - destruct (settle_safe p [] h s) as [Hi' Ht]; [set_solver|by apply Hstarts|].
    rewrite Hset in *. split; [done|]. simpl. apply Forall_app. by split; [|constructor].
  - pose proof (Forall_lookup_1 _ _ _ _ Htasks Hi) as (own & Ho & Hk).
    destruct (settle_safe (k r) (own ++ [(q, r)]) (h ++ [(q, r)]) s) as [Hi' Ht].
    { set_solver. }
    { apply Hk; [set_solver|]. eapply inv_grows; [|done]. set_solver. }
    rewrite Hset in *. split; [done|]. simpl. apply Forall_insert; [|done].
    eapply Forall_impl; [|exact Htasks]. intros t' Ht'. eapply task_owns_grows; [|done]. set_solver.
Qed.

Lemma sys_steps_safe {A : Type} (starts : proc A → Prop) sys sys' :
  (∀ p h s, starts p → inv h s → wp [] h p s (fun _ h' _ s' => inv h' s')) →
  rtc (sys_step starts) sys sys' → system_safe sys → system_safe sys'.
Proof. intros Hs. induction 1; eauto using sys_step_safe. Qed.

End invariant.

(** ** What a step may change

    [change h s s']: a change of the state that is allowed once the requests [h]
    have been answered.  [changes own h p s post]: a task that has seen the
    answers [own] and is about to run [p] in state [s] makes only such changes,
    whatever the others do while it waits, and ends in [post]. *)
Section guarantee.
Variable change : list (Req * result Resp) → S → S → Prop.

Fixpoint changes {A : Type} (own h : list (Req * result Resp)) (p : proc A) (s : S)
    (post : list (Req * result Resp) → list (Req * result Resp) → result A → Prop) : Prop :=
  match p with
  | Ret a => post own h (Ok a)
  | Throw e => post own h (Err e)
  | Await q k => ∀ r h' s', own ++ [(q, r)] ⊆ h' → changes (own ++ [(q, r)]) h' (k r) s' post
  | Get k => changes own h (k s) s post
  | Put s' p' => rtc (change h) s s' ∧ changes own h p' s' post
  end.

Lemma changes_mono {A : Type} (p : proc A) own h s (post post' : _ → _ → _ → Prop) :
  (∀ own h r, post own h r → post' own h r) → changes own h p s post → changes own h p s post'.
Proof.
  intros Hp. revert own h s. induction p as [a|e|q k IH|k IH|s' p IH]; simpl; intros own h s; auto.
  intros [Hc Hk]. auto.
Qed.

Lemma changes_bind {A B : Type} (p : proc A) (f : A → proc B) own h s post :
  changes own h p s (fun own' h' r => match r with
                                      | Ok a => ∀ s', changes own' h' (f a) s' post
                                      | Err e => post own' h' (Err e)
                                      end) →
  changes own h (p ≫= f) s post.
Proof.
  revert own h s. induction p as [a|e|q k IH|k IH|s' p IH]; simpl; intros own h s; auto.
  intros [Hc Hk]. auto.
Qed.

Lemma changes_catch {A : Type} (p : proc A) (hd : exn → proc A) own h s post :
  changes own h p s (fun own' h' r => match r with
                                      | Ok a => post own' h' (Ok a)
                                      | Err e => ∀ s', changes own' h' (hd e) s' post
                                      end) →
  changes own h (catch p hd) s post.
Proof.
  revert own h s. induction p as [a|e|q k IH|k IH|s' p IH]; simpl; intros own h s; auto.
  intros [Hc Hk]. auto.
Qed.

(** Stateless code changes nothing, and what it returns can be replayed from the
    answers it has seen. *)
Lemma changes_replay {A : Type} (p : proc A) own h s :
  stateless p → own ⊆ h →
  changes own h p s (fun own' h' r => ∃ log, own' = own ++ log ∧ own' ⊆ h' ∧ replays p log r).
Proof.
  revert own h s. induction p as [a|e|q k IH|k IH|s' p IH]; simpl; intros own h s Hp Hs; try done.
  - exists []. rewrite app_nil_r. split_and!; [done..|constructor].
  - exists []. rewrite app_nil_r. split_and!; [done..|constructor].
  - intros r h' s' Hsub. eapply changes_mono; [|by apply IH].
    simpl. intros own' h'' r' (log & -> & Hl & Hr).
    exists ((q, r) :: log). rewrite <- app_assoc in Hl |- *.
    split_and!; try done. by constructor.
Qed.

(** What is left of a task makes only such changes. *)
Definition task_changes {A : Type} (h : list (Req * result Resp)) (t : paused A) : Prop :=
  match t with
  | Done _ => True
  | Waiting q k =>
      ∃ own, own ⊆ h ∧ ∀ r h' s, own ++ [(q, r)] ⊆ h' →
        changes (own ++ [(q, r)]) h' (k r) s (fun _ _ _ => True)
  end.

Lemma settle_changes {A : Type} (p : proc A) own h s :
  own ⊆ h → changes own h p s (fun _ _ _ => True) →
  rtc (change h) s (settle p s).1 ∧ task_changes h (settle p s).2.
Proof.
  intros Hsub. revert s. induction p as [a|e|q k IH|k IH|s' p IH]; simpl; intros s Hp;
    try (by split; [apply rtc_refl|]); auto.
  - split; [apply rtc_refl|]. by exists own.
  - destruct Hp as [Hc Hp]. destruct (IH s' Hp) as [Hc' Ht]. split; [by etrans|done].
Qed.

(** If the tasks that are started make only such changes, so does every step of
    the system. *)
Lemma sys_step_changes {A : Type} (starts : proc A → Prop) sys sys' :
  (∀ p h s, starts p → changes [] h p s (fun _ _ _ => True)) →
  sys_step starts sys sys' → Forall (task_changes sys.(history)) sys.(tasks) →
  rtc (change sys'.(history)) sys.(shared) sys'.(shared) ∧
  Forall (task_changes sys'.(history)) sys'.(tasks) ∧ sys.(history) ⊆ sys'.(history).
Proof.
  intros Hstarts Hstep Htasks.
  destruct Hstep as [s ts h p s' t Hp Hset|s ts h i q k r s' t Hi Hset]; simpl in *.
  - destruct (settle_changes p [] h s) as [Hc Ht]; [set_solver|by apply Hstarts|].
    rewrite Hset in *. split_and!; [done| |done]. apply Forall_app. by split; [|constructor].
  - pose proof (Forall_lookup_1 _ _ _ _ Htasks Hi) as (own & Ho & Hk).
    destruct (settle_changes (k r) (own ++ [(q, r)]) (h ++ [(q, r)]) s) as [Hc Ht];
      [set_solver|apply Hk; set_solver|].
    rewrite Hset in *. split_and!; [done| |set_solver]. apply Forall_insert; [|done].
    eapply Forall_impl; [|exact Htasks]. intros [r'|q' k']; simpl; [done|].
    intros (own' & Ho' & Hk'). exists own'. split; [set_solver|done].
Qed.
End guarantee.

(** ** Progress

    [completes server n p]: answered by [server], [p] ends after at most [n]
    answers, whatever it reads of the shared state. *)
Fixpoint completes {A : Type} (server : Req → result Resp) (n : nat) (p : proc A) : Prop :=
  match p with
  | Ret _ | Throw _ => True
  | Await q k => match n with O => False | Datatypes.S n' => completes server n' (k (server q)) end
  | Get k => ∀ s, completes server n (k s)
  | Put _ p' => completes server n p'
  end.

Lemma completes_mono {A : Type} server (n m : nat) (p : proc A) :
  (n <= m)%nat → completes server n p → completes server m p.
Proof.
  revert n m. induction p as [a|e|q k IH|k IH|s' p IH]; simpl; intros n m Hnm; eauto.
  destruct n as [|n]; [done|]. destruct m as [|m]; [lia|]. apply IH. lia.
Qed.

Lemma completes_bind {A B : Type} server n m (p : proc A) (f : A → proc B) :
  completes server n p → (∀ a, completes server m (f a)) → completes server (n + m)%nat (p ≫= f).
Proof.
  intros Hp Hf. revert n Hp. induction p as [a|e|q k IH|k IH|s' p IH]; simpl; intros n Hp; eauto.
  - eapply completes_mono; [|apply Hf]. lia.
  - destruct n as [|n]; [done|]. by apply IH.
Qed.

(** What follows stateless code need only complete for the value it gives. *)
Lemma completes_bind_run {A B : Type} server n m (p : proc A) (f : A → proc B) s :
  stateless p → completes server n p →
  match (run server p s).2 with Ok a => completes server m (f a) | Err _ => True end →
  completes server (n + m)%nat (p ≫= f).
Proof.
  revert n. induction p as [a|e|q k IH|k IH|s' p IH]; simpl; intros n Hst Hp Hf; try done.
  - eapply completes_mono; [|exact Hf]. lia.
  - destruct n as [|n]; [done|]. by apply IH.
Qed.

Lemma completes_no_await {A : Type} server (p : proc A) : no_await p → completes server 0 p.
Proof. induction p; simpl; auto. Qed.

Lemma completes_catch {A : Type} server n (p : proc A) h :
  completes server n p → (∀ e, no_await (h e)) → completes server n (catch p h).
Proof.
  intros Hp Hh. revert n Hp. induction p as [a|e|q k IH|k IH|s' p IH]; simpl; intros n Hp; auto.
  - eapply completes_mono; [|by apply completes_no_await]. lia.
  - destruct n as [|n]; [done|]. by apply IH.
Qed.

Lemma completes_of_result {A : Type} server (m : result A) : completes server 0 (of_result m).
Proof. by destruct m. Qed.

Lemma completes_await server q : completes server 1 (await q).
Proof. apply completes_of_result. Qed.

(** The steps in which task [i] is answered [n] times, each time by [server];
    in between, new tasks start and the others are answered in any way. *)
Inductive answered {A : Type} (starts : proc A → Prop) (server : Req → result Resp) (i : nat)
    : nat → system A → system A → Prop :=
| answered_refl sys : answered starts server i 0 sys sys
| answered_start n s ts h p s' t sys :
    starts p → settle p s = (s', t) →
    answered starts server i n (mkSystem s' (ts ++ [t]) h) sys →
    answered starts server i n (mkSystem s ts h) sys
| answered_other n s ts h j q k r s' t sys :
    j ≠ i → ts !! j = Some (Waiting q k) → settle (k r) s = (s', t) →
    answered starts server i n (mkSystem s' (<[j := t]> ts) (h ++ [(q, r)])) sys →
    answered starts server i n (mkSystem s ts h) sys
| answered_this n s ts h q k s' t sys :
    ts !! i = Some (Waiting q k) → settle (k (server q)) s = (s', t) →
    answered starts server i n (mkSystem s' (<[i := t]> ts) (h ++ [(q, server q)])) sys →
    answered starts server i (Datatypes.S n) (mkSystem s ts h) sys.

Definition finished {A : Type} (i : nat) (sys : system A) : Prop :=
  ∃ r, sys.(tasks) !! i = Some (Done r).

(** What is left of a task completes after at most [n] answers. *)
Definition left_completes {A : Type} (server : Req → result Resp) (n : nat) (t : paused A) : Prop :=
  match t with Done _ => True | Waiting q k => completes server n (Await q k) end.

Lemma settle_completes {A : Type} server n (p : proc A) s :
  completes server n p → left_completes server n (settle p s).2.
Proof. revert s. induction p; simpl; auto. Qed.

(** A task that completes after [n] answers is finished once it has got them
    all, and until then its next answer can arrive. *)
Lemma answered_progress {A : Type} (starts : proc A → Prop) server i n m sys sys' t :
  sys.(tasks) !! i = Some t → left_completes server n t →
  answered starts server i m sys sys' →
  finished i sys' ∨ ((m < n)%nat ∧ ∃ sys'', answered starts server i 1 sys' sys'').
Proof.
  intros Hi Ht Ha. revert n t Hi Ht.
  induction Ha as [sys|m s ts h p s' t' sys Hp Hs _ IH|m s ts h j q k r s' t' sys Hj Hq Hs _ IH
                  |m s ts h q k s' t' sys Hq Hs _ IH]; simpl; intros n t Hi Ht.
  - destruct t as [r|q k]; [left; by eexists|right]. destruct n as [|n]; [done|]. split; [lia|].
    destruct sys as [s ts h]. destruct (settle (k (server q)) s) as [s' t'] eqn:E.
    eexists. eapply answered_this; [done..|apply answered_refl].
  - eapply IH; [|done]. simpl. by apply lookup_app_l_Some.
  - eapply IH; [|done]. simpl. by rewrite list_lookup_insert_ne.
  - rewrite Hi in Hq. injection Hq as ->. simpl in Ht. destruct n as [|n]; [done|].
    apply (settle_completes _ _ _ s) in Ht. rewrite Hs in Ht.
    destruct (IH n t') as [Hf|[Hm He]]; [|done|by left|right; split; [lia|done]].
    simpl. apply list_lookup_insert_eq. by eapply lookup_lt_Some.
Qed.

(** ** Serialisability

    A task that reads and writes the shared state only in its last segment:
    answered by [server], it waits for its answers and then runs to its end. *)
Fixpoint one_shot {A : Type} (server : Req → result Resp) (p : proc A) : Prop :=
  match p with
  | Await q k => one_shot server (k (server q))
  | p => no_await p
  end.

Lemma no_await_one_shot {A : Type} server (p : proc A) : no_await p → one_shot server p.
Proof. by destruct p. Qed.

Lemma one_shot_bind {A B : Type} server (p : proc A) (f : A → proc B) :
  stateless p → (∀ a, no_await (f a)) → one_shot server (p ≫= f).
Proof.
  intros Hp Hf. induction p as [a|e|q k IH|k IH|s' p IH]; simpl in *; auto; [|done..].
  by apply no_await_one_shot.
Qed.

Lemma one_shot_of_result {A B : Type} server (m : result A) (f : A → proc B) :
  (∀ a, one_shot server (f a)) → one_shot server (of_result m ≫= f).
Proof. intros Hf. destruct m; [apply Hf|done]. Qed.

Lemma one_shot_catch {A : Type} server (p : proc A) h :
  one_shot server p → (∀ e, no_await (h e)) → one_shot server (catch p h).
Proof.
  intros Hp Hh. induction p as [a|e|q k IH|k IH|s' p IH]; simpl in *; auto.
  - by apply no_await_one_shot.
  - intros s. by apply no_await_catch.
  - by apply no_await_catch.
Qed.

Lemma run_stateless_result {A : Type} server (p : proc A) s s' :
  stateless p → (run server p s).2 = (run server p s').2.
Proof. induction p as [a|e|q k IH|k IH|s'' p IH]; simpl; intros H; try done. by apply IH. Qed.

(** [server] answers one of the tasks that are waiting. *)
Inductive answer_step {A : Type} (server : Req → result Resp) : system A → system A → Prop :=
| answer_task s ts h i q k s' t :
    ts !! i = Some (Waiting q k) → settle (k (server q)) s = (s', t) →
    answer_step server (mkSystem s ts h) (mkSystem s' (<[i := t]> ts) (h ++ [(q, server q)])).

(** The tasks [ps], started in this order from state [s0], as far as [server] has
    answered them: the answers arrive at any time and in any order. *)
Inductive served {A : Type} (server : Req → result Resp) (s0 : S) : list (proc A) → system A → Prop :=
| served_none : served server s0 [] (mkSystem s0 [] [])
| served_start ps s ts h p s' t :
    served server s0 ps (mkSystem s ts h) → settle p s = (s', t) →
    served server s0 (ps ++ [p]) (mkSystem s' (ts ++ [t]) h)
| served_answer ps sys sys' :
    served server s0 ps sys → answer_step server sys sys' → served server s0 ps sys'.

(** Running the tasks of [log] alone, one after the other, takes the state from
    [s] to [s'], and each gives its result. *)
Fixpoint runs_as {A : Type} (server : Req → result Resp) (s : S) (log : list (proc A * result A))
    (s' : S) : Prop :=
  match log with
  | [] => s' = s
  | (p, r) :: log => (run server p s).2 = r ∧ runs_as server (run server p s).1 log s'
  end.

Lemma runs_as_snoc {A : Type} server s log s' (p : proc A) r :
  runs_as server s log s' → (run server p s').2 = r →
  runs_as server s (log ++ [(p, r)]) (run server p s').1.
Proof.
  revert s. induction log as [|[p' r'] log IH]; simpl; intros s.
  - by intros -> ->.
  - intros [Hr Hl] Hp. auto.
Qed.

(** The tasks that are done, with their results. *)
Definition done_of {A : Type} (pt : proc A * paused A) : option (proc A * result A) :=
  match pt.2 with Done r => Some (pt.1, r) | Waiting _ _ => None end.

Definition outcomes {A : Type} (ps : list (proc A)) (ts : list (paused A)) : list (proc A * result A) :=
  omap done_of (zip ps ts).

(** What is left of a one-shot task is one, and does what the task does. *)
Definition left_of {A : Type} (server : Req → result Resp) (p : proc A) (t : paused A) : Prop :=
  match t with
  | Done _ => True
  | Waiting q k => one_shot server (k (server q)) ∧ ∀ s, run server (k (server q)) s = run server p s
  end.

Lemma settle_one_shot {A : Type} server (p : proc A) s :
  one_shot server p →
  match settle p s with
  | (s', Done r) => run server p s = (s', r)
  | (s', t) => s' = s ∧ left_of server p t
  end.
Proof.
  destruct p as [a|e|q k|k|s' p]; intros H; try done;
    rewrite (settle_no_await server) by done; by destruct (run _ _ _).
Qed.

Lemma outcomes_insert {A : Type} ps ts i (p : proc A) q k t :
  ps !! i = Some p → ts !! i = Some (Waiting q k) →
  outcomes ps (<[i := t]> ts) ≡ₚ option_list (done_of (p, t)) ++ outcomes ps ts.
Proof.
  unfold outcomes. revert ts i. induction ps as [|p' ps IH]; intros [|t' ts] [|i] Hp Ht; try done.
  - simpl in *. simplify_eq. by destruct t.
  - simpl in *. specialize (IH ts i Hp Ht). destruct (done_of (p', t')); [|done].
    rewrite IH. destruct (done_of (p, t)); simpl; [constructor|done].
Qed.

(** However one-shot tasks are interleaved, the state is the one that those which
    are done reach one after the other in some order, with the same results. *)
Lemma served_serial {A : Type} server s0 ps (sys : system A) :
  Forall (one_shot server) ps → served server s0 ps sys →
  Forall2 (left_of server) ps sys.(tasks) ∧
  ∃ log, log ≡ₚ outcomes ps sys.(tasks) ∧ runs_as server s0 log sys.(shared).
Proof.
  intros Hps H. induction H as [|ps s ts h p s' t _ IH Hset|ps sys sys' _ IH Hstep];
    simpl in *.
  - split; [constructor|]. by exists [].
  - apply Forall_app in Hps as [Hps Hp%List.Forall_inv].
    destruct (IH Hps) as [Hl (log & Hlog & Hr)]. clear IH.
    pose proof (settle_one_shot server p s Hp) as Hs. rewrite Hset in Hs.
    unfold outcomes in *. rewrite zip_with_app by (by eapply Forall2_length). rewrite omap_app.
    destruct t as [r|q k].
    + split; [by apply Forall2_app; [|repeat constructor]|]. exists (log ++ [(p, r)]).
      split; [by rewrite Hlog|]. replace s' with (run server p s).1 by by rewrite Hs.
      apply runs_as_snoc; [done|]. by rewrite Hs.
    + destruct Hs as [-> Hk]. split; [by apply Forall2_app; [|repeat constructor; apply Hk]|].
      exists log. simpl. by rewrite app_nil_r.
  - destruct (IH Hps) as [Hl (log & Hlog & Hr)]. clear IH.
    destruct Hstep as [s ts h i q k s' t Hi Hset]. simpl in *.
    destruct (Forall2_lookup_r _ _ _ _ _ Hl Hi) as (p & Hp & Hone & Hrun).
    pose proof (settle_one_shot server _ s Hone) as Hs. rewrite Hset in Hs.
    pose proof (outcomes_insert ps ts i p q k t Hp Hi) as Ho. split.
    { rewrite <- (list_insert_id ps i p Hp). apply Forall2_insert; [done|].
      destruct t as [r|q' k']; [done|]. destruct Hs as [_ [H1 H2]]. split; [done|].
      intros s1. by rewrite H2. }
    destruct t as [r|q' k']; simpl in Ho.
    + exists (log ++ [(p, r)]). split; [by rewrite Ho, Hlog, Permutation_app_comm|].
      rewrite Hrun in Hs. replace s' with (run server p s).1 by by rewrite Hs.
      apply runs_as_snoc; [done|]. by rewrite Hs.
    + destruct Hs as [-> _]. exists log. by rewrite Ho.
Qed.

(** Tasks that are under way can all be brought to their end. *)
Definition all_done {A : Type} (sys : system A) : Prop :=
  ∀ i t, sys.(tasks) !! i = Some t → ∃ r, t = Done r.

Definition can_finish {A : Type} (server : Req → result Resp) (t : paused A) : Prop :=
  match t with Done _ => True | Waiting q k => one_shot server (k (server q)) end.

Lemma finish_task {A : Type} server (p : proc A) i s s' t ts h :
  (i < length ts)%nat → one_shot server p → settle p s = (s', t) →
  ∃ sys r, rtc (answer_step server) (mkSystem s' (<[i := t]> ts) h) sys ∧
    sys.(tasks) = <[i := Done r]> ts.
Proof.
  intros Hi. revert s s' t h. induction p as [a|e|q k IH|k _|s1 p _]; intros s s' t h Hp Hset.
  3: { simpl in *. simplify_eq. destruct (settle (k (server q)) s') as [s1 t1] eqn:E.
       destruct (IH _ _ _ _ (h ++ [(q, server q)]) Hp E) as (sys & r & Hs & Hts).
       exists sys, r. split; [|done]. eapply rtc_l; [|exact Hs].
       rewrite <- (list_insert_insert_eq ts i t1 (Waiting q k)). econstructor; [|done].
       by apply list_lookup_insert_eq. }
  all: rewrite (settle_no_await server) in Hset by done; injection Hset as <- <-.
  all: eexists _, _; split; [apply rtc_refl|reflexivity].
Qed.

Lemma finish_tasks {A : Type} server n (sys : system A) :
  Forall (can_finish server) sys.(tasks) →
  ∃ sys', rtc (answer_step server) sys sys' ∧ Forall (can_finish server) sys'.(tasks) ∧
    ∀ i t, (i < n)%nat → sys'.(tasks) !! i = Some t → ∃ r, t = Done r.
Proof.
  intros Hf. induction n as [|n (sys' & Hs & Hf' & Hd)].
  { exists sys. split_and!; [apply rtc_refl|done|lia]. }
  destruct sys' as [s ts h]. simpl in *.
  destruct (ts !! n) as [[r|q k]|] eqn:E.
  2: { destruct (settle (k (server q)) s) as [s1 t1] eqn:Es.
       destruct (finish_task server (k (server q)) n s s1 t1 ts (h ++ [(q, server q)]))
         as (sys' & r & Hs' & Hts); [by eapply lookup_lt_Some|exact (Forall_lookup_1 _ _ _ _ Hf' E)|done|].
       exists sys'. split_and!.
       - etrans; [exact Hs|]. eapply rtc_l; [|exact Hs']. by econstructor.
       - rewrite Hts. by apply Forall_insert.
       - intros i t Hi. rewrite Hts. destruct (decide (i = n)) as [->|Hn].
         + rewrite list_lookup_insert_eq by by eapply lookup_lt_Some. intros [= <-]. by eexists.
         + rewrite list_lookup_insert_ne by done. apply Hd. lia. }
  all: exists (mkSystem s ts h); split_and!; [done..|]; intros i t Hi Ht.
  all: destruct (decide (i = n)) as [->|Hn]; [simplify_eq/=|apply (Hd i); [lia|done]].
  by eexists.
Qed.

Lemma answers_length {A : Type} server (sys sys' : system A) :
  rtc (answer_step server) sys sys' → length sys'.(tasks) = length sys.(tasks).
Proof. induction 1 as [|x y z [] _ IH]; [done|]. rewrite IH. simpl. by rewrite length_insert. Qed.

Lemma served_finishes {A : Type} server s0 ps (sys : system A) :
  Forall (one_shot server) ps → served server s0 ps sys →
  ∃ sys', rtc (answer_step server) sys sys' ∧ all_done sys'.
Proof.
  intros Hps H. destruct (served_serial _ _ _ _ Hps H) as [Hl _].
  destruct (finish_tasks server (length sys.(tasks)) sys) as (sys' & Hs & _ & Hd).
  { eapply Forall2_Forall_r; [exact Hl|]. apply Forall_forall. intros p _ [r|q k]; [done|]. by intros []. }
  exists sys'. split; [done|]. intros i t Hi. eapply Hd; [|done].
  rewrite <- (answers_length server sys sys' Hs). by eapply lookup_lt_Some.
Qed.

(** In particular, tasks can be started together and all be answered. *)
Lemma served_exists {A : Type} server s (ps : list (proc A)) :
  Forall (one_shot server) ps → ∃ sys, served server s ps sys ∧ all_done sys.
Proof.
  intros Hps. assert (∃ sys, served server s ps sys) as [sys Hs].
  { clear Hps. induction ps as [|p ps [[s1 ts h] IH]] using rev_ind; [eexists; constructor|].
    destruct (settle p s1) as [s2 t] eqn:E. eexists. by eapply served_start. }
  destruct (served_finishes _ _ _ _ Hps Hs) as (sys' & Hr & Hd). exists sys'. split; [|done].
  clear Hd. induction Hr; eauto using served_answer.
Qed.

End async.

Arguments proc Req Resp S A : clear implicits.
Arguments paused Req Resp S A : clear implicits.
Arguments system Req Resp S A : clear implicits.
Arguments Ret {Req Resp S A} a.
Arguments Throw {Req Resp S A} e.
Arguments Await {Req Resp S A} q k.
Arguments Get {Req Resp S A} k.
Arguments Put {Req Resp S A} s p.
Arguments Done {Req Resp S A} r.
Arguments Waiting {Req Resp S A} q k.
Arguments mkSystem {Req Resp S A} shared tasks history.
Arguments history {Req Resp S A} _.
Arguments shared {Req Resp S A} _.
Arguments tasks {Req Resp S A} _.

#[export] Hint Resolve stateless_bind stateless_of_result stateless_await
  completes_of_result completes_await
  no_await_bind no_await_catch : dcl.

(** Task [i] of a concrete system is answered, after [before]. *)
Ltac serve_task i before :=
  eapply served_answer; [before|eapply (answer_task _ _ _ _ i); reflexivity].
