(* ===== verification/Calendar.v ===== *)
(** * Dates

    What the client uses of the JavaScript class [Date]: the time value of a
    date, which is a number of milliseconds or [NaN]; building a date from a
    number or from a text in the ISO format; and [toISOString].  The quotients
    by which dates and timestamps are converted are doubles, so the rounding of
    a quotient to a double is part of the model. *)
From S2P Require Import Prelude Js.
Open Scope Z_scope.

(** ** Quotients as doubles *)

(** A number as a numerator and a positive denominator. *)
Definition ratio : Set := Z * Z.

(** [a / b] to the nearest integer, ties to even. *)
Definition div_nearest (a b : Z) : Z :=
  let q := a / b in
  let r := a mod b in
  if 2 * r <? b then q else if b <? 2 * r then q + 1 else if Z.even q then q else q + 1.

(** The exponent of [p / q], for positive [p] and [q]. *)
Definition exponent (p q : Z) : Z :=
  let l := Z.log2 p - Z.log2 q in
  if (if 0 <=? l then q * 2 ^ l <=? p else q <=? p * 2 ^ (- l)) then l else l - 1.

(** The double nearest to [p / q]: 53 significant bits. *)
Definition round_ratio (p q : Z) : ratio :=
  if p =? 0 then (0, 1)
  else
    let s := 52 - exponent (Z.abs p) q in
    if 0 <=? s then (Z.sgn p * div_nearest (Z.abs p * 2 ^ s) q, 2 ^ s)
    else (Z.sgn p * (div_nearest (Z.abs p) (q * 2 ^ (- s)) * 2 ^ (- s)), 1).

(** The integer part. *)
Definition trunc (x : ratio) : Z := Z.quot x.1 x.2.

Lemma div_nearest_exact a b : 0 < b → div_nearest (a * b) b = a.
Proof.
  intros Hb. unfold div_nearest. rewrite Z.div_mul, Z.mod_mul by lia.
  by destruct (Z.ltb_spec (2 * 0) b); [|lia].
Qed.

Lemma div_nearest_error a b : 0 < b → 2 * Z.abs (div_nearest a b * b - a) <= b.
Proof.
  intros Hb. unfold div_nearest.
  pose proof (Z.div_mod a b ltac:(lia)). pose proof (Z.mod_pos_bound a b Hb).
  destruct (Z.ltb_spec (2 * (a mod b)) b); [lia|].
  destruct (Z.ltb_spec b (2 * (a mod b))); [lia|].
  destruct (Z.even (a / b)); lia.
Qed.

Lemma exponent_le p q n : 0 < q → 0 <= n → 0 < p < q * 2 ^ (n + 1) → exponent p q <= n.
Proof.
  intros Hq Hn Hp. unfold exponent.
  assert (Z.log2 p - Z.log2 q <= n + 1) as Hl.
  { assert (Z.log2 p <= Z.log2 (q * 2 ^ (n + 1))) by (apply Z.log2_le_mono; lia).
    rewrite Z.log2_mul_pow2 in * by lia. lia. }
  destruct (Z.eq_dec (Z.log2 p - Z.log2 q) (n + 1)) as [->|].
  - destruct (Z.leb_spec 0 (n + 1)); [|lia].
    destruct (Z.leb_spec (q * 2 ^ (n + 1)) p); lia.
  - case_match; lia.
Qed.

(** An integer of at most 53 bits is its own double. *)
Lemma round_ratio_exact z q :
  0 < q → Z.abs z < 2 ^ 53 → ∃ d, 0 < d ∧ round_ratio (z * q) q = (z * d, d).
Proof.
  intros Hq Hz. unfold round_ratio. destruct (Z.eqb_spec (z * q) 0) as [H0|H0].
  - exists 1. split; [lia|]. f_equal. nia.
  - assert (Z.abs (z * q) = Z.abs z * q) as -> by (rewrite Z.abs_mul; lia).
    assert (exponent (Z.abs z * q) q <= 52) as He by (apply exponent_le; nia).
    set (s := 52 - exponent (Z.abs z * q) q) in *.
    destruct (Z.leb_spec 0 s); [|lia].
    exists (2 ^ s). split; [lia|]. f_equal.
    replace (Z.abs z * q * 2 ^ s) with (Z.abs z * 2 ^ s * q) by lia.
    rewrite div_nearest_exact by done. rewrite Z.sgn_mul, (Z.sgn_pos q) by done. nia.
Qed.

(** The integer part of a quotient by 1000 is that of its double, as long as
    the double has ten bits for the fraction. *)
Lemma trunc_thousandth z :
  Z.abs z < 1000 * 2 ^ 43 → trunc (round_ratio z 1000) = Z.quot z 1000.
Proof.
  intros Hz. unfold round_ratio. destruct (Z.eqb_spec z 0) as [->|H0]; [done|].
  assert (exponent (Z.abs z) 1000 <= 42) as He by (apply exponent_le; lia).
  set (s := 52 - exponent (Z.abs z) 1000) in *.
  destruct (Z.leb_spec 0 s); [|lia]. unfold trunc. cbn [fst snd].
  set (d := 2 ^ s). assert (1024 <= d) as Hd by (change 1024 with (2 ^ 10); apply Z.pow_le_mono_r; lia).
  pose proof (div_nearest_error (Z.abs z * d) 1000 ltac:(lia)) as Herr.
  set (n := div_nearest (Z.abs z * d) 1000) in *.
  assert (n / d = Z.abs z / 1000) as Hn.
  { pose proof (Z.div_mod (Z.abs z) 1000 ltac:(lia)) as Hdm.
    pose proof (Z.mod_pos_bound (Z.abs z) 1000 ltac:(lia)) as Hr.
    set (k := Z.abs z / 1000) in *. set (r := Z.abs z mod 1000) in *.
    symmetry. apply (Z.div_unique n d k (n - d * k)); [|lia].
    destruct (Z.eq_dec r 0) as [Hr0|Hr0]; [|nia].
    assert (n = k * d) as ->; [|lia]. unfold n.
    replace (Z.abs z * d) with (k * d * 1000) by nia. by apply div_nearest_exact. }
  assert (0 <= n) as Hn0 by nia.
  destruct (Z.lt_trichotomy z 0) as [Hneg|[?|Hpos]]; [|lia|].
  - rewrite Z.sgn_neg by done. replace (-1 * n) with (- n) by lia.
    rewrite Z.quot_opp_l, Z.quot_div_nonneg, Hn by lia.
    replace z with (- Z.abs z) at 2 by lia.
    rewrite Z.quot_opp_l, Z.quot_div_nonneg by lia. done.
  - rewrite Z.sgn_pos, Z.mul_1_l, Z.quot_div_nonneg, Hn by lia.
    replace z with (Z.abs z) at 2 by lia. rewrite Z.quot_div_nonneg by lia. done.
Qed.

(** ** The Gregorian calendar

    Days are counted from the first of January 1970.  Internally a year begins
    in March, so that the leap day is the last day of a year, of four years, of
    a century and of an era of 400 years. *)

(** The day of the March-based year, the month and the day of the month. *)
Definition month_day (doy : Z) : Z * Z :=
  let mp := (5 * doy + 2) / 153 in
  (if mp <? 10 then mp + 3 else mp - 9, doy - (153 * mp + 2) / 5 + 1).

Definition civil_from_days (days : Z) : Z * Z * Z :=
  let z := days + 719468 in
  let era := z / 146097 in
  let doe := z mod 146097 in
  let century := Z.min (doe / 36524) 3 in
  let doc := doe - century * 36524 in
  let quad := doc / 1461 in
  let doq := doc - quad * 1461 in
  let y := Z.min (doq / 365) 3 in
  let doy := doq - y * 365 in
  let year := 400 * era + 100 * century + 4 * quad + y in
  let (month, day) := month_day doy in
  (if month <=? 2 then year + 1 else year, month, day).

Definition days_from_civil (year month day : Z) : Z :=
  let y := if month <=? 2 then year - 1 else year in
  let era := y / 400 in
  let yoe := y mod 400 in
  let doy := (153 * (if 2 <? month then month - 3 else month + 9) + 2) / 5 + day - 1 in
  era * 146097 + yoe * 365 + yoe / 4 - yoe / 100 + doy - 719468.

Lemma month_day_spec doy month day :
  0 <= doy <= 365 → month_day doy = (month, day) →
  1 <= month <= 12 ∧ 1 <= day <= 31 ∧
  (153 * (if 2 <? month then month - 3 else month + 9) + 2) / 5 + day - 1 = doy.
Proof.
  intros Hd [= <- <-].
  assert (0 <= (5 * doy + 2) / 153 <= 11) as Hmp by (Z.to_euclidean_division_equations; lia).
  set (mp := (5 * doy + 2) / 153) in *.
  assert (0 <= doy - (153 * mp + 2) / 5 <= 30) by (unfold mp in *; Z.to_euclidean_division_equations; lia).
  destruct (Z.ltb_spec mp 10);
    [destruct (Z.ltb_spec 2 (mp + 3)); [|lia]|destruct (Z.ltb_spec 2 (mp - 9)); [lia|]];
    (split_and!; [lia..|]).
  - replace (mp + 3 - 3) with mp by lia. lia.
  - replace (mp - 9 + 9) with mp by lia. lia.
Qed.

(** The position of a day in its era of 400 years. *)
Lemma year_of_era doe :
  0 <= doe < 146097 →
  let century := Z.min (doe / 36524) 3 in
  let doc := doe - century * 36524 in
  let quad := doc / 1461 in
  let doq := doc - quad * 1461 in
  let y := Z.min (doq / 365) 3 in
  0 <= century <= 3 ∧ 0 <= quad <= 24 ∧ 0 <= y <= 3 ∧ 0 <= doq - y * 365 <= 365.
Proof.
  intros Hdoe century doc quad doq y.
  assert (0 <= century <= 3 ∧ 0 <= doc <= 36524) as [Hc Hdoc].
  { unfold doc, century. Z.to_euclidean_division_equations; lia. }
  clearbody doc. assert (0 <= quad <= 24 ∧ 0 <= doq <= 1460) as [Hq Hdoq].
  { unfold doq, quad. Z.to_euclidean_division_equations; lia. }
  clearbody doq. split_and!; try lia; unfold y; Z.to_euclidean_division_equations; lia.
Qed.

(** A day and its date determine each other. *)
Lemma days_from_civil_from_days days year month day :
  civil_from_days days = (year, month, day) →
  1 <= month <= 12 ∧ 1 <= day <= 31 ∧ days_from_civil year month day = days ∧
  146097 * (year - 400) <= 400 * (days + 719468) < 146097 * (year + 400).
Proof.
  unfold civil_from_days.
  set (z := days + 719468). pose proof (Z.div_mod z 146097 ltac:(lia)) as Hz.
  pose proof (Z.mod_pos_bound z 146097 ltac:(lia)) as Hdoe.
  set (era := z / 146097) in *. set (doe := z mod 146097) in *.
  destruct (year_of_era doe Hdoe) as (Hc & Hq & Hy & Hdoy).
  set (century := Z.min (doe / 36524) 3) in *. set (doc := doe - century * 36524) in *.
  set (quad := doc / 1461) in *. set (doq := doc - quad * 1461) in *.
  set (y := Z.min (doq / 365) 3) in *.
  destruct (month_day (doq - y * 365)) as [m d] eqn:Hmd.
  destruct (month_day_spec _ m d Hdoy Hmd) as (Hm & Hd & Hmonth).
  intros [= <- <- <-].
  set (year := 400 * era + 100 * century + 4 * quad + y).
  assert (year / 400 = era ∧ year mod 400 = 100 * century + 4 * quad + y) as [Hera Hyoe].
  { pose proof (Z.div_mod_unique 400 (year / 400) era (year mod 400) (100 * century + 4 * quad + y)).
    pose proof (Z.div_mod year 400 ltac:(lia)). pose proof (Z.mod_pos_bound year 400 ltac:(lia)).
    clearbody century quad y. lia. }
  assert ((if m <=? 2 then (if m <=? 2 then year + 1 else year) - 1
           else (if m <=? 2 then year + 1 else year)) = year) as Hyear by (destruct (m <=? 2); lia).
  split_and!; [lia..| | |].
  - unfold days_from_civil. rewrite Hyear, Hera, Hyoe, Hmonth.
    assert ((100 * century + 4 * quad + y) / 4 = 25 * century + quad) as ->.
    { clearbody century quad y. Z.to_euclidean_division_equations; lia. }
    assert ((100 * century + 4 * quad + y) / 100 = century) as ->.
    { clearbody century quad y. Z.to_euclidean_division_equations; lia. }
    unfold doq, doc, z in *. lia.
  - destruct (m <=? 2); unfold year, doq, doc in *; clearbody century quad y; lia.
  - destruct (m <=? 2); unfold year, doq, doc in *; clearbody century quad y; lia.
Qed.

(** ** [Date] *)

(** A date is its time value: milliseconds, or [NaN] for an invalid date. *)
Record date := mkDate { getTime : number }.

#[global] Instance date_eq_dec : EqDecision date.
Proof. solve_decision. Defined.

Definition MAX_TIME : Z := 8640000000000000.

(** [new Date(millis)] drops the fraction; beyond 100 million days from the
    epoch the date is invalid. *)
Definition new_Date (millis : ratio) : date :=
  mkDate (if MAX_TIME * millis.2 <? Z.abs millis.1 then NaN else Int (trunc millis)).

Definition date_valid (d : date) : bool :=
  match d.(getTime) with Int ms => Z.abs ms <=? MAX_TIME | NaN => false end.

(** ** The ISO format *)

Definition digit (z : Z) : ascii := ascii_of_N (Z.to_N (48 + z)).

Definition digit_value (c : ascii) : option Z :=
  let n := Z.of_N (N_of_ascii c) in
  if (48 <=? n) && (n <=? 57) then Some (n - 48) else None.

(** [z] with exactly [n] digits. *)
Fixpoint pad (n : nat) (z : Z) : list ascii :=
  match n with
  | O => []
  | S n' => pad n' (z / 10) ++ [digit (z mod 10)]
  end.

(** Reads exactly [n] digits. *)
Fixpoint read_digits (n : nat) (acc : Z) (l : list ascii) : option (Z * list ascii) :=
  match n, l with
  | O, _ => Some (acc, l)
  | S n', c :: l' => d ← digit_value c; read_digits n' (10 * acc + d) l'
  | S _, [] => None
  end.

Definition year_text (y : Z) : list ascii :=
  if (0 <=? y) && (y <=? 9999) then pad 4 y
  else (if y <? 0 then "-"%char else "+"%char) :: pad 6 (Z.abs y).

Definition iso_text (ms : Z) : string :=
  let days := ms / 86400000 in
  let t := ms mod 86400000 in
  let '(year, month, day) := civil_from_days days in
  of_chars (year_text year ++ "-"%char :: pad 2 month ++ "-"%char :: pad 2 day ++
            "T"%char :: pad 2 (t / 3600000) ++ ":"%char :: pad 2 (t / 60000 mod 60) ++
            ":"%char :: pad 2 (t / 1000 mod 60) ++ "."%char :: pad 3 (t mod 1000) ++ ["Z"%char]).

Definition toISOString (d : date) : result string :=
  match d.(getTime) with
  | Int ms =>
      if Z.abs ms <=? MAX_TIME then Ok (iso_text ms) else Err (RangeError "Invalid time value")
  | NaN => Err (RangeError "Invalid time value")
  end.

Definition expect_char (c : ascii) (l : list ascii) : option (list ascii) :=
  match l with c' :: l' => if Ascii.eqb c c' then Some l' else None | [] => None end.

Definition read_year (l : list ascii) : option (Z * list ascii) :=
  match l with
  | "-"%char :: l' =>
      '(y, r) ← read_digits 6 0 l'; if y =? 0 then None else Some (- y, r)
  | "+"%char :: l' => read_digits 6 0 l'
  | _ => read_digits 4 0 l
  end.

(** The milliseconds, which may be missing. *)
Definition read_millis (l : list ascii) : option (Z * list ascii) :=
  match l with
  | "."%char :: l' => read_digits 3 0 l'
  | _ => Some (0, l)
  end.

(** A point of time in UTC: [YYYY-MM-DDTHH:mm:ss.sssZ], with a signed year of
    six digits outside the years 0 to 9999. *)
Definition parse_iso (s : string) : option Z :=
  '(year, l) ← read_year (chars s);
  l ← expect_char "-" l; '(month, l) ← read_digits 2 0 l;
  l ← expect_char "-" l; '(day, l) ← read_digits 2 0 l;
  l ← expect_char "T" l; '(hour, l) ← read_digits 2 0 l;
  l ← expect_char ":" l; '(minute, l) ← read_digits 2 0 l;
  l ← expect_char ":" l; '(second, l) ← read_digits 2 0 l;
  '(milli, l) ← read_millis l;
  l ← expect_char "Z" l;
  let days := days_from_civil year month day in
  if bool_decide (l = []) && bool_decide (civil_from_days days = (year, month, day)) &&
     (hour <=? 23) && (minute <=? 59) && (second <=? 59)
  then Some (86400000 * days + 3600000 * hour + 60000 * minute + 1000 * second + milli)
  else None.

(** [new Date(s)]: texts that are no point of time in UTC are read in ways that
    depend on the browser and its time zone. *)
Definition parse_Date (s : string) : result date :=
  match parse_iso s with
  | Some ms => Ok (new_Date (ms, 1))
  | None => Err Unmodelled
  end.

(** ** The round trip *)

Lemma digit_value_digit z : 0 <= z < 10 → digit_value (digit z) = Some z.
Proof.
  intros Hz. assert (z ∈ [0; 1; 2; 3; 4; 5; 6; 7; 8; 9]) as Hin by set_solver by lia.
  repeat (apply elem_of_cons in Hin; destruct Hin as [->|Hin]; [reflexivity|]).
  by apply elem_of_nil in Hin.
Qed.

Lemma read_digits_app n m acc l1 l2 z :
  read_digits n acc l1 = Some (z, []) →
  read_digits (n + m) acc (l1 ++ l2) = read_digits m z l2.
Proof.
  revert acc l1. induction n as [|n IH]; intros acc l1; simpl.
  - by intros [= -> ->].
  - destruct l1 as [|c l1]; [done|]. simpl. destruct (digit_value c) as [d|]; [|done]. simpl.
    apply IH.
Qed.

Lemma read_digits_pad n z acc : 0 <= z < 10 ^ Z.of_nat n →
  read_digits n acc (pad n z) = Some (acc * 10 ^ Z.of_nat n + z, []).
Proof.
  revert z acc. induction n as [|n IH]; intros z acc Hz.
  - simpl in *. do 2 f_equal. lia.
  - cbn [pad]. rewrite Nat2Z.inj_succ, Z.pow_succ_r in * by lia.
    rewrite <- (Nat.add_1_r n).
    rewrite (read_digits_app n 1 acc _ _ (acc * 10 ^ Z.of_nat n + z / 10)).
    + cbn [read_digits]. pose proof (Z.mod_pos_bound z 10 ltac:(lia)).
      rewrite digit_value_digit by lia. simpl. do 2 f_equal.
      pose proof (Z.div_mod z 10 ltac:(lia)). lia.
    + rewrite IH; [done|]. split; [apply Z.div_pos; lia|apply Z.div_lt_upper_bound; lia].
Qed.

Lemma read_pad n z l : 0 <= z < 10 ^ Z.of_nat n → read_digits n 0 (pad n z ++ l) = Some (z, l).
Proof.
  intros Hz. rewrite <- (Nat.add_0_r n) at 1. erewrite read_digits_app by by apply read_digits_pad.
  done.
Qed.

Lemma read_year_digit c d l : digit_value c = Some d → read_year (c :: l) = read_digits 4 0 (c :: l).
Proof. destruct c as [[] [] [] [] [] [] [] []]; try discriminate; reflexivity. Qed.

Lemma read_year_text y l : Z.abs y < 10 ^ 6 → read_year (year_text y ++ l) = Some (y, l).
Proof.
  intros Hy. unfold year_text.
  destruct (Z.leb_spec 0 y); [destruct (Z.leb_spec y 9999)|]; simpl andb; cbv iota.
  - assert (∃ c r, pad 4 y ++ l = c :: r ∧ is_Some (digit_value c)) as (c & r & Heq & d & Hd).
    { eexists _, _. split; [reflexivity|].
      rewrite digit_value_digit; [by eexists|apply Z.mod_pos_bound; lia]. }
    rewrite Heq, (read_year_digit _ _ _ Hd), <- Heq. apply read_pad. simpl. lia.
  - destruct (Z.ltb_spec y 0); [lia|].
    change (read_digits 6 0 (pad 6 (Z.abs y) ++ l) = Some (y, l)).
    rewrite read_pad by (simpl; lia). do 2 f_equal. lia.
  - destruct (Z.ltb_spec y 0); [|lia].
    change ((' (z, r) ← read_digits 6 0 (pad 6 (Z.abs y) ++ l);
             if z =? 0 then None else Some (- z, r)) = Some (y, l)).
    rewrite read_pad by (simpl; lia). simpl. destruct (Z.eqb_spec (Z.abs y) 0); [lia|].
    do 2 f_equal. lia.
Qed.

Lemma year_bound ms year month day :
  Z.abs ms <= MAX_TIME → civil_from_days (ms / 86400000) = (year, month, day) → Z.abs year < 10 ^ 6.
Proof.
  unfold MAX_TIME. intros Hms Hc. apply days_from_civil_from_days in Hc as (_ & _ & _ & Hy).
  assert (-100000000 <= ms / 86400000 <= 100000000) by (Z.to_euclidean_division_equations; lia).
  lia.
Qed.

Lemma expect_char_cons c l : expect_char c (c :: l) = Some l.
Proof. unfold expect_char. by rewrite Ascii.eqb_refl. Qed.

(** The time of day in hours, minutes, seconds and milliseconds. *)
Lemma time_of_day t : 0 <= t < 86400000 →
  0 <= t / 3600000 <= 23 ∧ 0 <= t / 60000 mod 60 <= 59 ∧ 0 <= t / 1000 mod 60 <= 59 ∧
  0 <= t mod 1000 <= 999 ∧
  3600000 * (t / 3600000) + 60000 * (t / 60000 mod 60) + 1000 * (t / 1000 mod 60) + t mod 1000 = t.
Proof. intros Ht. Z.to_euclidean_division_equations; lia. Qed.

Lemma parse_iso_text ms : Z.abs ms <= MAX_TIME → parse_iso (iso_text ms) = Some ms.
Proof.
  intros Hms. unfold iso_text.
  destruct (civil_from_days (ms / 86400000)) as [[year month] day] eqn:Hc.
  pose proof (year_bound _ _ _ _ Hms Hc) as Hy.
  pose proof (days_from_civil_from_days _ _ _ _ Hc) as (Hmo & Hd & Hdays & _).
  unfold parse_iso, chars, of_chars. rewrite String.list_ascii_of_string_of_list_ascii.
  pose proof (Z.mod_pos_bound ms 86400000 ltac:(lia)) as Ht.
  pose proof (Z.div_mod ms 86400000 ltac:(lia)) as Hdm.
  set (t := ms mod 86400000) in *.
  destruct (time_of_day t Ht) as (Hh & Hmi & Hse & Hml & Hsum).
  rewrite read_year_text by done. cbn [mbind option_bind].
  repeat (rewrite expect_char_cons; cbn [mbind option_bind]; rewrite read_pad by (simpl; lia);
          cbn [mbind option_bind]).
  change (read_millis ("."%char :: ?l)) with (read_digits 3 0 l).
  rewrite read_pad by (simpl; lia). cbn [mbind option_bind]. rewrite expect_char_cons.
  cbn [mbind option_bind]. rewrite Hdays, Hc, !bool_decide_eq_true_2 by done.
  rewrite !(proj2 (Z.leb_le _ _)) by lia. simpl. f_equal. lia.
Qed.

(** [new Date(d.toISOString())] is the date [d]. *)
Lemma parse_toISOString d :
  date_valid d = true → ∃ text, toISOString d = Ok text ∧ parse_Date text = Ok d.
Proof.
  destruct d as [[ms|]]; [|done]. unfold date_valid, toISOString. cbn [getTime].
  intros Hd. pose proof (proj1 (Z.leb_le _ _) Hd) as Hms.
  eexists. split; [by rewrite Hd|]. unfold parse_Date. rewrite parse_iso_text by done.
  unfold new_Date, trunc. cbn [fst snd]. rewrite Z.quot_1_r.
  by destruct (Z.ltb_spec (MAX_TIME * 1) (Z.abs ms)); [lia|].
Qed.
