(* ===== verification/Protobuf.v ===== *)
(** * The protobufjs interface and the message codecs built on it

    Every file under [module/types/] imports [Writer] and [Reader] from
    [protobufjs/minimal] and [Long] from [long].  Those packages are not part
    of the repository: they are the class [Protobuf], an argument of every
    codec, and what the codecs rely on is the class [ProtobufSpec], which
    states the documented behaviour of the wire format.  [WireFormat.v] gives
    a concrete instance of both.

    The rest of the file is what all the codecs share: the reader monad, the
    [while (reader.pos < end)] loop of [decode], [longToNumber], and the
    lemmas from which the round trip of each message follows. *)
From S2P Require Import Prelude Js Calendar.
Open Scope Z_scope.

Abbreviation byte := ascii.
Abbreviation bytes := (list ascii).

Coercion Int : Z >-> number.

Definition blen (b : bytes) : Z := Z.of_nat (length b).

(** ** The library interface *)

(** A [Reader]: the buffer and the read position, both public properties of
    the library's class; [reader.len] is the length of the buffer. *)
Record Reader := mkReader { buf : bytes; pos : Z }.

Definition len (r : Reader) : Z := blen r.(buf).

(** The monad of code that reads from a [Reader] and may throw. *)
Definition RM (A : Type) : Type := Reader → result (A * Reader).

#[export] Instance RM_ret : MRet RM := λ A a r, Ok (a, r).
#[export] Instance RM_bind : MBind RM := λ A B f m r,
  match m r with Ok (a, r') => f a r' | Err e => Err e end.

(** Code that does not touch the reader. *)
Definition lift {A : Type} (m : result A) : RM A := λ r, a ← m; Ok (a, r).

Class Protobuf := {
  Writer : Type;
  Long : Type;
  (* Writer.create, and the chainable methods of a writer *)
  create : Writer;
  uint32 : number → Writer → Writer;
  int32 : number → Writer → Writer;
  int64 : number → Writer → Writer;
  int64_fraction : ratio → Writer → Writer;   (* [int64] of a number with a fraction *)
  uint64 : number → Writer → Writer;
  bool_ : bool → Writer → Writer;
  string_ : string → Writer → Writer;
  bytes_ : bytes → Writer → Writer;
  fork : Writer → Writer;
  ldelim : Writer → Writer;
  finish : Writer → bytes;
  (* methods of a reader *)
  read_uint32 : RM Z;
  read_int32 : RM Z;
  read_int64 : RM Long;
  read_uint64 : RM Long;
  read_bool : RM bool;
  read_string : RM string;
  read_bytes : RM bytes;
  skipType : Z → RM unit;
  (* methods of a Long *)
  gt : Long → Z → bool;
  toNumber : Long → number;
}.

(** ** What the codecs rely on *)

(** A reader that has consumed [pre] and still has [post] before it. *)
Definition rd (pre post : bytes) : Reader := mkReader (pre ++ post) (blen pre).

(** The writer as a stack: the bytes written since the last [fork], and the
    bytes suspended by each enclosing [fork]. *)
Definition wview : Type := bytes * list bytes.

Definition emit (b : bytes) (v : wview) : wview := (v.1 ++ b, v.2).

(** Errors the library throws: reads past the end of the buffer, malformed
    varints and unknown wire types. *)
Definition lib_error (e : exn) : Prop :=
  match e with Error _ | RangeError _ => True | _ => False end.

(** A read either throws or leaves the position where it was or further. *)
Definition advances {A : Type} (by_ : Z) (m : RM A) : Prop :=
  ∀ r, match m r with
       | Ok (_, r') => r.(pos) + by_ <= r'.(pos)
       | Err e => lib_error e
       end.

(** A read leaves the buffer as it is. *)
Definition keeps_buffer {A : Type} (m : RM A) : Prop :=
  ∀ r a r', m r = Ok (a, r') → r'.(buf) = r.(buf).

Class ProtobufSpec (PB : Protobuf) := {
  (* the wire form of each scalar type, and the integers a Long stands for *)
  e_uint32 : Z → bytes;
  e_int32 : Z → bytes;
  e_int64 : Z → bytes;
  e_uint64 : Z → bytes;
  e_bool : bool → bytes;
  view : Writer → wview;
  slong : Z → Long;
  ulong : Z → Long;
  long_value : Long → Z;

  (* writing *)
  view_create : view create = ([], []);
  view_uint32 n w : 0 <= n < 2 ^ 32 → view (uint32 n w) = emit (e_uint32 n) (view w);
  view_int32 n w : - 2 ^ 31 <= n < 2 ^ 31 → view (int32 n w) = emit (e_int32 n) (view w);
  view_int64 n w : - 2 ^ 63 <= n < 2 ^ 63 → is_double n →
    view (int64 n w) = emit (e_int64 n) (view w);
  view_int64_fraction x w : 0 < x.2 → - 2 ^ 63 <= trunc x < 2 ^ 63 →
    view (int64_fraction x w) = emit (e_int64 (trunc x)) (view w);
  view_uint64 n w : 0 <= n < 2 ^ 64 → is_double n →
    view (uint64 n w) = emit (e_uint64 n) (view w);
  view_bool b w : view (bool_ b w) = emit (e_bool b) (view w);
  view_string s w : blen (chars s) < 2 ^ 32 →
    view (string_ s w) = emit (e_uint32 (blen (chars s)) ++ chars s) (view w);
  view_bytes b w : blen b < 2 ^ 32 →
    view (bytes_ b w) = emit (e_uint32 (blen b) ++ b) (view w);
  view_fork w : view (fork w) = ([], (view w).1 :: (view w).2);
  view_ldelim w b c st : view w = (b, c :: st) → blen b < 2 ^ 32 →
    view (ldelim w) = (c ++ e_uint32 (blen b) ++ b, st);
  view_finish w : finish w = (view w).1;

  (* a scalar has a wire form of at least one byte *)
  e_uint32_pos n : 1 <= blen (e_uint32 n);

  (* reading back what was written *)
  read_uint32_spec n pre post : 0 <= n < 2 ^ 32 →
    read_uint32 (rd pre (e_uint32 n ++ post)) = Ok (n, rd (pre ++ e_uint32 n) post);
  read_int32_spec n pre post : - 2 ^ 31 <= n < 2 ^ 31 →
    read_int32 (rd pre (e_int32 n ++ post)) = Ok (n, rd (pre ++ e_int32 n) post);
  read_int64_spec n pre post : - 2 ^ 63 <= n < 2 ^ 63 →
    read_int64 (rd pre (e_int64 n ++ post)) = Ok (slong n, rd (pre ++ e_int64 n) post);
  read_uint64_spec n pre post : 0 <= n < 2 ^ 64 →
    read_uint64 (rd pre (e_uint64 n ++ post)) = Ok (ulong n, rd (pre ++ e_uint64 n) post);
  read_bool_spec b pre post :
    read_bool (rd pre (e_bool b ++ post)) = Ok (b, rd (pre ++ e_bool b) post);
  read_string_spec s pre post : blen (chars s) < 2 ^ 32 →
    read_string (rd pre ((e_uint32 (blen (chars s)) ++ chars s) ++ post)) =
      Ok (s, rd (pre ++ e_uint32 (blen (chars s)) ++ chars s) post);

  read_bytes_spec b pre post : blen b < 2 ^ 32 →
    read_bytes (rd pre ((e_uint32 (blen b) ++ b) ++ post)) =
      Ok (b, rd (pre ++ e_uint32 (blen b) ++ b) post);

  (* skipping a field by its wire type: 0 a varint, 1 eight bytes, 2 a
     delimited field, 5 four bytes *)
  skip_varint n pre post : 0 <= n < 2 ^ 64 →
    skipType 0 (rd pre (e_uint64 n ++ post)) = Ok (tt, rd (pre ++ e_uint64 n) post);
  skip_fixed64 b pre post : blen b = 8 →
    skipType 1 (rd pre (b ++ post)) = Ok (tt, rd (pre ++ b) post);
  skip_fixed32 b pre post : blen b = 4 →
    skipType 5 (rd pre (b ++ post)) = Ok (tt, rd (pre ++ b) post);
  skip_delimited b pre post : blen b < 2 ^ 32 →
    skipType 2 (rd pre ((e_uint32 (blen b) ++ b) ++ post)) =
      Ok (tt, rd (pre ++ e_uint32 (blen b) ++ b) post);

  (* every read moves forward or throws *)
  read_uint32_advances : advances 1 read_uint32;
  read_int32_advances : advances 0 read_int32;
  read_int64_advances : advances 0 read_int64;
  read_uint64_advances : advances 0 read_uint64;
  read_bool_advances : advances 0 read_bool;
  read_string_advances : advances 0 read_string;
  read_bytes_advances : advances 0 read_bytes;
  skipType_advances t : advances 0 (skipType t);

  (* the buffer stays as it is, and a number is read from within it *)
  read_uint32_buffer : keeps_buffer read_uint32;
  read_string_buffer : keeps_buffer read_string;
  read_bool_buffer : keeps_buffer read_bool;
  skipType_buffer t : keeps_buffer (skipType t);
  read_uint32_within r n r' : read_uint32 r = Ok (n, r') → r'.(pos) <= len r;

  (* Long *)
  slong_value n : - 2 ^ 63 <= n < 2 ^ 63 → long_value (slong n) = n;
  ulong_value n : 0 <= n < 2 ^ 64 → long_value (ulong n) = n;
  gt_spec l n : gt l n = (long_value l >? n);
  toNumber_spec l : toNumber l = Int (round_double (long_value l));
}.

(** ** [longToNumber] *)

Section codec.
Context {PB : Protobuf}.

Definition longToNumber (long : Long) : result number :=
  if gt long MAX_SAFE_INTEGER
  then Err (Error "Value is larger than Number.MAX_SAFE_INTEGER")
  else Ok (toNumber long).

(** [longToNumber(reader.int64())], with the read given. *)
Definition read_number (read : RM Long) : RM number :=
  l ← read; lift (longToNumber l).

(** [T.decode(reader, reader.uint32())] *)
Definition read_nested {A : Type} (decode : option Z → RM A) : RM A :=
  n ← read_uint32; decode (Some n).

(** [writer.uint32(tag).fork(); for (const v of l) writer.uint32(v); writer.ldelim();] *)
Definition packed (tag : Z) (l : list number) (writer : Writer) : Writer :=
  writer @> uint32 tag @> fork @> each l (fun v w => w @> uint32 v) @> ldelim.

(** ** The loop of [decode] *)

(** [while (reader.pos < end) { const tag = reader.uint32(); switch ... }].
    Each turn reads a tag, hence at least one byte, so [end - reader.pos]
    turns are enough; [decode_loop_fuel] below shows the bound is never
    reached. *)
Fixpoint decode_loop {A : Type} (fuel : nat) (end_ : Z)
    (field : Z → A → RM A) (message : A) : RM A := λ r,
  if r.(pos) <? end_ then
    match fuel with
    | O => Err OutOfFuel
    | S fuel' =>
        (tag ← read_uint32;
         message' ← field tag message;
         decode_loop fuel' end_ field message') r
    end
  else Ok (message, r).

Definition decode_message {A : Type} (length : option Z) (message : A)
    (field : Z → A → RM A) : RM A := λ r,
  let end_ := match length with None => len r | Some l => r.(pos) + l end in
  decode_loop (Z.to_nat (end_ - r.(pos))) end_ field message r.

(** The numbers of a packed field:
    [const end2 = reader.uint32() + reader.pos;
     while (reader.pos < end2) { list.push(reader.uint32()); }]. *)
Definition read_packed (list_ : list number) : RM (list number) :=
  n ← read_uint32; decode_message (Some n) list_ (fun v l => mret (l ++ [Int v])).

(** The field number of a tag, [tag >>> 3], and its wire type, [tag & 7]. *)
Definition field_number (tag : Z) : Z := Z.shiftr tag 3.
Definition wire_type (tag : Z) : Z := Z.land tag 7.

(** [decode(new Reader(data))]. *)
Definition decode_bytes {A : Type} (decode : option Z → RM A) (data : bytes) : result A :=
  fst <$> decode None (mkReader data 0).

End codec.

Arguments packed {PB} tag l writer : simpl never.
