(* ===== verification/Codec.v ===== *)
(** * Reasoning about the message codecs

    [steps]: the loop of [decode] consumes a piece of wire data and turns one
    partial message into another.  The bytes a codec writes are a
    concatenation of fields, and each kind of field has one lemma saying which
    step it makes; the round trip of a message is their composition.  The
    second half shows that [decode] terminates on every input. *)
From S2P Require Import Prelude Js Protobuf.
Open Scope Z_scope.

Lemma blen_app b1 b2 : blen (b1 ++ b2) = blen b1 + blen b2.
Proof. unfold blen. rewrite length_app. lia. Qed.

Lemma blen_nonneg b : 0 <= blen b.
Proof. unfold blen. lia. Qed.

Lemma blen_nil : blen [] = 0.
Proof. done. Qed.

Lemma emit_emit b1 b2 v : emit b2 (emit b1 v) = emit (b1 ++ b2) v.
Proof. unfold emit; simpl. by rewrite (assoc_L (++)). Qed.

Lemma emit_nil v : emit [] v = v.
Proof. unfold emit. rewrite (right_id_L [] (++)). by destruct v. Qed.

Lemma rd_app pre b post : rd (pre ++ b) post = mkReader (pre ++ b ++ post) (blen pre + blen b).
Proof. unfold rd. by rewrite blen_app, (assoc_L (++)). Qed.

(** ** Fields on the wire

    What the generated code writes for each kind of field: a tag followed by the
    value, or nothing when the field has its default.  [Proto3.v] compares this
    with the encoding proto3 prescribes. *)

Section wire.
Context {PB : Protobuf} {PS : ProtobufSpec PB}.

Definition delimited (b : bytes) : bytes := e_uint32 (blen b) ++ b.

Definition f_value (tag : Z) (b : bytes) : bytes := e_uint32 tag ++ b.

Definition f_string (tag : Z) (s : string) : bytes :=
  if String.eqb s "" then [] else f_value tag (delimited (chars s)).

Definition f_bool (tag : Z) (b : bool) : bytes :=
  if b then f_value tag (e_bool b) else [].

Definition f_number (e : Z → bytes) (tag : Z) (n : number) : bytes :=
  match n with
  | Int z => if z =? 0 then [] else f_value tag (e z)
  | NaN => []
  end.

Definition f_repeated {A : Type} (tag : Z) (e : A → bytes) (l : list A) : bytes :=
  concat (map (fun v => f_value tag (delimited (e v))) l).

Definition f_message {A : Type} (tag : Z) (e : A → bytes) (o : option A) : bytes :=
  match o with None => [] | Some v => f_value tag (delimited (e v)) end.

(** A packed list is written whatever its length, where proto3 leaves an empty
    one out. *)
Definition e_number (e : Z → bytes) (n : number) : bytes :=
  match n with Int z => e z | NaN => [] end.

Definition f_packed (tag : Z) (l : list number) : bytes :=
  f_value tag (delimited (concat (map (e_number e_uint32) l))).

(** What [decode] makes of a field that occurs twice: a scalar that is present
    replaces the earlier one, and so does a nested message, which proto3 would
    merge with it. *)
Definition later_string (old new : string) : string :=
  if String.eqb new "" then old else new.
Definition later_bool (old new : bool) : bool := if new then new else old.
Definition later_number (old new : number) : number :=
  match new with Int z => if z =? 0 then old else new | NaN => new end.
Definition later_message {A : Type} (old new : option A) : option A :=
  match new with None => old | Some v => Some v end.

(** Wire data that a length prefix can describe. *)
Definition small (b : bytes) : Prop := blen b < 2 ^ 32.

Lemma small_app b1 b2 : small (b1 ++ b2) ↔ blen b1 + blen b2 < 2 ^ 32.
Proof. unfold small. by rewrite blen_app. Qed.

Lemma small_app_l b1 b2 : small (b1 ++ b2) → small b1.
Proof. rewrite small_app. unfold small. pose proof (blen_nonneg b2). lia. Qed.

Lemma small_app_r b1 b2 : small (b1 ++ b2) → small b2.
Proof. rewrite small_app. unfold small. pose proof (blen_nonneg b1). lia. Qed.

(** The integers a field of each protobuf type can carry from a JavaScript
    number and back: for 64-bit types, those a double holds exactly and
    [longToNumber] lets through. *)
Definition int32_ok (n : number) : Prop :=
  match n with Int z => - 2 ^ 31 <= z < 2 ^ 31 | NaN => False end.
Definition uint32_ok (n : number) : Prop :=
  match n with Int z => 0 <= z < 2 ^ 32 | NaN => False end.
Definition int64_ok (n : number) : Prop :=
  match n with Int z => - 2 ^ 63 <= z <= MAX_SAFE_INTEGER ∧ is_double z | NaN => False end.
Definition uint64_ok (n : number) : Prop :=
  match n with Int z => 0 <= z <= MAX_SAFE_INTEGER | NaN => False end.

(** ** Writing *)

(** [writes w b w']: running the code that turns [w] into [w'] appended [b]. *)
Definition writes (f : Writer → Writer) (b : bytes) : Prop :=
  ∀ w, view (f w) = emit b (view w).

Lemma writes_id : writes (fun w => w) [].
Proof. intros w. by rewrite emit_nil. Qed.

Lemma writes_comp f g b1 b2 :
  writes f b1 → writes g b2 → writes (fun w => g (f w)) (b1 ++ b2).
Proof. intros Hf Hg w. by rewrite Hg, Hf, emit_emit. Qed.

Lemma writes_string tag s :
  0 <= tag < 2 ^ 32 → small (f_string tag s) →
  writes (when (str_neq s "")
            (fun w => string_ s (uint32 tag w))) (f_string tag s).
Proof.
  intros Ht Hs w. unfold f_string, when, str_neq in *. destruct (String.eqb s ""); simpl.
  - by rewrite emit_nil.
  - rewrite view_string, view_uint32, emit_emit; [done|done|].
    apply small_app_r, small_app_r in Hs. done.
Qed.

Lemma writes_string_item tag s :
  0 <= tag < 2 ^ 32 → small (f_value tag (delimited (chars s))) →
  writes (fun w => string_ s (uint32 tag w)) (f_value tag (delimited (chars s))).
Proof.
  intros Ht Hs w. rewrite view_string, view_uint32, emit_emit; [done|done|].
  by apply small_app_r, small_app_r in Hs.
Qed.

Lemma writes_bool tag b :
  0 <= tag < 2 ^ 32 →
  writes (when (Bool.eqb b true) (fun w => bool_ b (uint32 tag w))) (f_bool tag b).
Proof.
  intros Ht w. unfold f_bool, when. destruct b; simpl; [|by rewrite emit_nil].
  by rewrite view_bool, view_uint32, emit_emit.
Qed.

Lemma writes_number (P : number → Prop) (op : number → Writer → Writer) e tag n :
  (∀ z w, P (Int z) → view (op z w) = emit (e z) (view w)) → ¬ P NaN →
  0 <= tag < 2 ^ 32 → P n →
  writes (when (num_neq n 0) (fun w => op n (uint32 tag w))) (f_number e tag n).
Proof.
  intros Hop HNaN Ht HP w. destruct n as [z|]; [|done].
  unfold f_number, when, num_neq; simpl. destruct (z =? 0); simpl; [by rewrite emit_nil|].
  by rewrite Hop, view_uint32, emit_emit.
Qed.

Lemma view_int32_ok (z : Z) w : int32_ok z → view (int32 z w) = emit (e_int32 z) (view w).
Proof. intros. by apply view_int32. Qed.
Lemma view_uint32_ok (z : Z) w : uint32_ok z → view (uint32 z w) = emit (e_uint32 z) (view w).
Proof. intros. by apply view_uint32. Qed.
Lemma view_int64_ok (z : Z) w : int64_ok z → view (int64 z w) = emit (e_int64 z) (view w).
Proof. unfold int64_ok, MAX_SAFE_INTEGER. intros []. apply view_int64; [lia|done]. Qed.
Lemma view_uint64_ok (z : Z) w : uint64_ok z → view (uint64 z w) = emit (e_uint64 z) (view w).
Proof.
  unfold uint64_ok. intros. apply view_uint64; [unfold MAX_SAFE_INTEGER in *; lia|].
  apply is_double_safe. lia.
Qed.

Definition writes_int32 tag n := writes_number int32_ok int32 e_int32 tag n view_int32_ok (fun x => x).
Definition writes_uint32 tag n := writes_number uint32_ok uint32 e_uint32 tag n view_uint32_ok (fun x => x).
Definition writes_int64 tag n := writes_number int64_ok int64 e_int64 tag n view_int64_ok (fun x => x).
Definition writes_uint64 tag n := writes_number uint64_ok uint64 e_uint64 tag n view_uint64_ok (fun x => x).

(** [T.encode(v, writer.uint32(tag).fork()).ldelim()] *)
Lemma writes_message_item {A : Type} (enc : A → Writer → Writer) (e : A → bytes) tag v :
  writes (enc v) (e v) → 0 <= tag < 2 ^ 32 → small (e v) →
  writes (fun w => ldelim (enc v (fork (uint32 tag w)))) (f_value tag (delimited (e v))).
Proof.
  intros He Ht Hs w.
  erewrite view_ldelim; [| rewrite He, view_fork, view_uint32 by done; reflexivity |]; simpl.
  - unfold emit, f_value, delimited. simpl. by rewrite !(assoc_L (++)).
  - done.
Qed.

Lemma writes_message {A : Type} (enc : A → Writer → Writer) (e : A → bytes) (ok : A → Prop) tag o :
  (∀ v, ok v → small (e v) → writes (enc v) (e v)) → 0 <= tag < 2 ^ 32 →
  from_option ok True o → small (f_message tag e o) →
  writes (defined o (fun v w => ldelim (enc v (fork (uint32 tag w))))) (f_message tag e o).
Proof.
  intros He Ht Hok Hs. destruct o as [v|]; [|apply writes_id].
  assert (small (e v)) by (by apply small_app_r, small_app_r in Hs).
  apply writes_message_item; auto.
Qed.

Lemma writes_each {A : Type} (f : A → Writer → Writer) (e : A → bytes) (ok : A → Prop) l :
  (∀ v, ok v → small (e v) → writes (f v) (e v)) → Forall ok l →
  small (concat (map e l)) → writes (each l f) (concat (map e l)).
Proof.
  intros He Hok. induction Hok as [|v l Hv _ IH]; intros Hs w; simpl.
  - by rewrite emit_nil.
  - rewrite each_cons. simpl in Hs. rewrite IH by (by apply small_app_r in Hs).
    rewrite He, emit_emit; [done|done|]. by apply small_app_l in Hs.
Qed.

(** [for (const v of l) T.encode(v, writer.uint32(tag).fork()).ldelim()] *)
Lemma writes_repeated {A : Type} (enc : A → Writer → Writer) (e : A → bytes) (ok : A → Prop) tag l :
  (∀ v, ok v → small (e v) → writes (enc v) (e v)) → 0 <= tag < 2 ^ 32 →
  Forall ok l → small (f_repeated tag e l) →
  writes (each l (fun v w => ldelim (enc v (fork (uint32 tag w))))) (f_repeated tag e l).
Proof.
  intros He Ht Hok Hs. eapply writes_each; [|done|done]. intros v Hv Hsv.
  assert (small (e v)) by (by apply small_app_r, small_app_r in Hsv).
  apply writes_message_item; auto.
Qed.

(** [for (const v of l) writer.uint32(tag).string(v)] *)
Lemma writes_repeated_string tag l :
  0 <= tag < 2 ^ 32 → small (f_repeated tag chars l) →
  writes (each l (fun v w => string_ v (uint32 tag w))) (f_repeated tag chars l).
Proof.
  intros Ht Hs. eapply (writes_each _ _ (fun _ => True)); [|by apply Forall_true|done].
  intros v _ Hsv. by apply writes_string_item.
Qed.

(** [packed tag l], see [Protobuf.v] *)
Lemma writes_packed tag l :
  0 <= tag < 2 ^ 32 → Forall uint32_ok l → small (f_packed tag l) →
  writes (packed tag l) (f_packed tag l).
Proof.
  intros Ht Hok Hs w. unfold packed. set (e := concat (map (e_number e_uint32) l)).
  assert (small e) as He by (by apply small_app_r, small_app_r in Hs).
  assert (writes (each l (fun v w => uint32 v w)) e) as Hw.
  { apply (writes_each _ (e_number e_uint32) uint32_ok); [|done|done].
    intros [z|] Hz _ w'; [|done]. by apply view_uint32_ok. }
  erewrite view_ldelim; [|rewrite Hw, view_fork, view_uint32 by done; reflexivity|done].
  unfold emit, f_packed, f_value, delimited. simpl. by rewrite !(assoc_L (++)).
Qed.

(** Nothing read before: the field is the one just read. *)
Lemma later_string_base s : later_string "" s = s.
Proof. unfold later_string. by destruct (String.eqb_spec s "") as [->|]. Qed.
Lemma later_bool_base b : later_bool false b = b.
Proof. by destruct b. Qed.
Lemma later_number_base n : later_number 0 n = n.
Proof. destruct n as [z|]; simpl; [|done]. by destruct (Z.eqb_spec z 0) as [->|]. Qed.
Lemma later_message_base {A : Type} (o : option A) : later_message None o = o.
Proof. by destruct o. Qed.

End wire.

#[export] Hint Rewrite later_string_base later_bool_base later_number_base
  @later_message_base : dcl.

Arguments f_string {PB PS} tag s : simpl never.
Arguments f_bool {PB PS} tag b : simpl never.
Arguments f_number {PB PS} e tag n : simpl never.
Arguments f_repeated {PB PS A} tag e l : simpl never.
Arguments f_packed {PB PS} tag l : simpl never.
Arguments f_message {PB PS A} tag e o : simpl never.

(** ** Reading *)

Section steps.
Context {PB : Protobuf} {PS : ProtobufSpec PB}.
Context {A : Type} (field : Z → A → RM A).

(** One turn of the loop: a tag, then the field. *)
Definition turn (m : A) : RM A := tag ← read_uint32; field tag m.

Inductive steps : bytes → A → A → Prop :=
| steps_nil m : steps [] m m
| steps_turn b1 b2 m m1 m2 :
    0 < blen b1 →
    (∀ pre post, turn m (rd pre (b1 ++ post)) = Ok (m1, rd (pre ++ b1) post)) →
    steps b2 m1 m2 →
    steps (b1 ++ b2) m m2.

Lemma steps_app b1 b2 m m1 m2 : steps b1 m m1 → steps b2 m1 m2 → steps (b1 ++ b2) m m2.
Proof.
  induction 1 as [|b b' m m' m'' Hb Ht _ IH]; intros H2; [done|].
  rewrite <- (assoc_L (++)). econstructor; eauto.
Qed.

Lemma steps_one b m m' :
  0 < blen b →
  (∀ pre post, turn m (rd pre (b ++ post)) = Ok (m', rd (pre ++ b) post)) →
  steps b m m'.
Proof.
  intros Hb Ht. rewrite <- (right_id_L [] (++) b). econstructor; [done|done|constructor].
Qed.

Lemma decode_loop_steps b m m' :
  steps b m m' →
  ∀ fuel pre post, blen b <= Z.of_nat fuel →
  decode_loop fuel (blen pre + blen b) field m (rd pre (b ++ post)) = Ok (m', rd (pre ++ b) post).
Proof.
  induction 1 as [m|b1 b2 m m1 m2 Hb Ht _ IH]; intros fuel pre post Hf.
  - rewrite blen_nil, (right_id_L [] (++)). simpl.
    destruct fuel; simpl; (destruct (Z.ltb_spec (blen pre) (blen pre + 0)); [lia|done]).
  - rewrite blen_app in *. pose proof (blen_nonneg b2).
    destruct fuel as [|fuel]; [lia|]. simpl.
    destruct (Z.ltb_spec (blen pre) (blen pre + (blen b1 + blen b2))); [|lia].
    specialize (Ht pre (b2 ++ post)). unfold turn, mbind, RM_bind in *.
    rewrite <- (assoc_L (++)). destruct (read_uint32 _) as [[tag r]|]; [|done].
    rewrite Ht. rewrite Z.add_assoc, <- blen_app, IH, !(assoc_L (++)); [done|lia].
Qed.

(** [decode] on a delimited piece of the buffer, and on a whole buffer. *)
Lemma decode_message_steps b m m' pre post :
  steps b m m' →
  decode_message (Some (blen b)) m field (rd pre (b ++ post)) = Ok (m', rd (pre ++ b) post).
Proof.
  intros H. unfold decode_message. change (pos (rd pre (b ++ post))) with (blen pre).
  apply decode_loop_steps; [done|]. pose proof (blen_nonneg b). lia.
Qed.

Lemma decode_bytes_steps b m m' :
  steps b m m' →
  decode_bytes (fun length => decode_message length m field) b = Ok m'.
Proof.
  intros H. unfold decode_bytes, decode_message. simpl.
  replace (len (mkReader b 0) - 0) with (blen b) by (unfold len; simpl; lia).
  pose proof (decode_loop_steps b m m' H (Z.to_nat (blen b)) [] []) as Hl.
  unfold rd in Hl. rewrite !(right_id_L [] (++)), blen_nil, Z.add_0_l in Hl. simpl in Hl.
  unfold len; simpl. rewrite Hl; [done|]. pose proof (blen_nonneg b). lia.
Qed.

(** An exception in one turn ends [decode] with it, whatever follows. *)
Lemma decode_loop_throws b1 b2 m m1 e :
  steps b1 m m1 → 0 < blen b2 →
  ∀ post, (∀ pre, turn m1 (rd pre (b2 ++ post)) = Err e) →
  ∀ fuel pre, blen (b1 ++ b2) <= Z.of_nat fuel →
  decode_loop fuel (blen pre + blen (b1 ++ b2 ++ post)) field m
    (rd pre (b1 ++ b2 ++ post)) = Err e.
Proof.
  intros Hs Hb post He. pose proof (blen_nonneg post).
  induction Hs as [m|b b' m m' m'' Hb' Ht _ IH]; intros fuel pre Hf;
    rewrite ?blen_app, ?blen_nil in *; pose proof (blen_nonneg b2).
  - destruct fuel as [|fuel]; [lia|]. simpl.
    match goal with |- context [?a <? ?b] => destruct (Z.ltb_spec a b); [|lia] end.
    specialize (He pre). unfold turn, mbind, RM_bind in *.
    destruct (read_uint32 _) as [[tag r]|]; [|done]. by rewrite He.
  - pose proof (blen_nonneg b'). destruct fuel as [|fuel]; [lia|]. simpl.
    match goal with |- context [?a <? ?b] => destruct (Z.ltb_spec a b); [|lia] end.
    specialize (Ht pre (b' ++ b2 ++ post)). unfold turn, mbind, RM_bind in *.
    rewrite <- !(assoc_L (++)) in *. destruct (read_uint32 _) as [[tag r]|]; [|done].
    rewrite Ht. specialize (IH He fuel (pre ++ b)). rewrite !blen_app in IH.
    match type of IH with _ → decode_loop _ ?x _ _ _ = _ =>
      match goal with |- decode_loop _ ?y _ _ _ = _ => replace y with x by lia end end.
    apply IH. lia.
Qed.

Lemma decode_bytes_throws b1 b2 m m1 post e :
  steps b1 m m1 → 0 < blen b2 →
  (∀ pre, turn m1 (rd pre (b2 ++ post)) = Err e) →
  decode_bytes (fun length => decode_message length m field) (b1 ++ b2 ++ post) = Err e.
Proof.
  intros Hs Hb He. unfold decode_bytes, decode_message. simpl.
  pose proof (decode_loop_throws b1 b2 m m1 e Hs Hb post He
    (Z.to_nat (blen (b1 ++ b2 ++ post))) []) as H.
  unfold rd in H. rewrite blen_nil, Z.add_0_l in H. unfold len; simpl.
  rewrite Z.sub_0_r. simpl in H. rewrite H; [done|].
  rewrite !blen_app. pose proof (blen_nonneg b1). pose proof (blen_nonneg b2).
  pose proof (blen_nonneg post). lia.
Qed.

(** *** The step each kind of field makes *)

(** Reading the value [v] from [b]. *)
Definition reads_value {B : Type} (m : RM B) (b : bytes) (v : B) : Prop :=
  ∀ pre post, m (rd pre (b ++ post)) = Ok (v, rd (pre ++ b) post).

Lemma steps_field tag b m m' :
  0 <= tag < 2 ^ 32 → reads_value (field tag m) b m' → steps (f_value tag b) m m'.
Proof.
  intros Ht Hr. unfold f_value. apply steps_one.
  - rewrite blen_app. pose proof (e_uint32_pos tag). pose proof (blen_nonneg b). lia.
  - intros pre post. unfold turn, mbind, RM_bind.
    rewrite <- (assoc_L (++)), read_uint32_spec, Hr, (assoc_L (++)) by done. done.
Qed.

Lemma steps_eq b m m1 m2 : steps b m m1 → m1 = m2 → steps b m m2.
Proof. by intros ? <-. Qed.

Lemma steps_string tag s m m1 m' :
  0 <= tag < 2 ^ 32 → small (f_string tag s) →
  (small (chars s) → reads_value (field tag m) (delimited (chars s)) m1) →
  m' = (if String.eqb s "" then m else m1) →
  steps (f_string tag s) m m'.
Proof.
  intros Ht Hs Hr ->. unfold f_string in *.
  destruct (String.eqb s ""); [constructor|].
  apply steps_field; [done|]. apply Hr. by apply small_app_r, small_app_r in Hs.
Qed.

Lemma steps_bool tag b m m1 m' :
  0 <= tag < 2 ^ 32 →
  reads_value (field tag m) (e_bool b) m1 →
  m' = (if b then m1 else m) →
  steps (f_bool tag b) m m'.
Proof.
  intros Ht Hr ->. unfold f_bool. destruct b; [by apply steps_field|constructor].
Qed.

Lemma steps_number e tag (z : Z) m m1 m' :
  0 <= tag < 2 ^ 32 →
  reads_value (field tag m) (e z) m1 →
  m' = (if z =? 0 then m else m1) →
  steps (f_number e tag z) m m'.
Proof.
  intros Ht Hr ->. unfold f_number.
  destruct (z =? 0); [constructor|]. by apply steps_field.
Qed.

Lemma steps_message {B : Type} tag (e : B → bytes) (ok : B → Prop) o m (upd : B → A) :
  0 <= tag < 2 ^ 32 → from_option ok True o → small (f_message tag e o) →
  (∀ v, ok v → small (e v) → reads_value (field tag m) (delimited (e v)) (upd v)) →
  ∀ m', m' = (match o with None => m | Some v => upd v end) →
  steps (f_message tag e o) m m'.
Proof.
  intros Ht Hok Hs Hr m' ->. destruct o as [v|]; [|constructor].
  apply steps_field; [done|]. apply Hr; [done|]. by apply small_app_r, small_app_r in Hs.
Qed.

Lemma steps_packed tag l m m' :
  0 <= tag < 2 ^ 32 → Forall uint32_ok l → small (f_packed tag l) →
  (small (concat (map (e_number e_uint32) l)) →
     reads_value (field tag m) (delimited (concat (map (e_number e_uint32) l))) m') →
  steps (f_packed tag l) m m'.
Proof.
  intros Ht _ Hs Hr. apply steps_field; [done|]. apply Hr.
  by apply small_app_r, small_app_r in Hs.
Qed.

(** A repeated field, each item read as [nf] of what was written. *)
Lemma steps_items {B : Type} tag (e : B → bytes) (ok : B → Prop) (nf : B → B) l
    (get : A → list B) (set : list B → A → A) m :
  (∀ m, set (get m) m = m) → (∀ l m, get (set l m) = l) →
  (∀ l l' m, set l (set l' m) = set l m) →
  0 <= tag < 2 ^ 32 → Forall ok l → small (f_repeated tag e l) →
  (∀ v m, ok v → small (e v) →
     reads_value (field tag m) (delimited (e v)) (set (get m ++ [nf v]) m)) →
  steps (f_repeated tag e l) m (set (get m ++ map nf l) m).
Proof.
  intros Hsg Hgs Hss Ht Hok Hs Hr. revert m. induction Hok as [|v l Hv _ IH]; intros m.
  - unfold f_repeated; simpl. rewrite (right_id_L [] (++)), Hsg. constructor.
  - unfold f_repeated in *; simpl in *. eapply steps_app.
    + apply steps_field; [done|]. apply Hr; [done|].
      by apply small_app_l, small_app_r, small_app_r in Hs.
    + replace (set (get m ++ nf v :: map nf l) m) with
        (set (get (set (get m ++ [nf v]) m) ++ map nf l) (set (get m ++ [nf v]) m)).
      * apply IH. by apply small_app_r in Hs.
      * by rewrite Hss, Hgs, <- (assoc_L (++)).
Qed.

Lemma steps_repeated {B : Type} tag (e : B → bytes) (ok : B → Prop) l (get : A → list B)
    (set : list B → A → A) m :
  (∀ m, set (get m) m = m) → (∀ l m, get (set l m) = l) →
  (∀ l l' m, set l (set l' m) = set l m) →
  0 <= tag < 2 ^ 32 → Forall ok l → small (f_repeated tag e l) →
  (∀ v m, ok v → small (e v) →
     reads_value (field tag m) (delimited (e v)) (set (get m ++ [v]) m)) →
  steps (f_repeated tag e l) m (set (get m ++ l) m).
Proof.
  intros. rewrite <- (map_id l) at 2. by apply (steps_items tag e ok (fun v => v)).
Qed.

End steps.

(** *** Reading values *)

Section values.
Context {PB : Protobuf} {PS : ProtobufSpec PB}.

Lemma reads_bind {A B : Type} (m : RM A) (k : A → RM B) b v v' :
  reads_value m b v → k v = mret v' → reads_value (m ≫= k) b v'.
Proof. intros Hm Hk pre post. unfold mbind, RM_bind. by rewrite Hm, Hk. Qed.

Lemma reads_uint32 n : uint32_ok (Int n) → reads_value read_uint32 (e_uint32 n) n.
Proof. intros H pre post. by apply read_uint32_spec. Qed.

Lemma reads_int32 n : int32_ok (Int n) → reads_value read_int32 (e_int32 n) n.
Proof. intros H pre post. by apply read_int32_spec. Qed.

Lemma reads_bool b : reads_value read_bool (e_bool b) b.
Proof. intros pre post. by apply read_bool_spec. Qed.

Lemma reads_string s : small (chars s) → reads_value read_string (delimited (chars s)) s.
Proof. intros H pre post. by apply read_string_spec. Qed.

(** The inner loop of a packed field. *)
Lemma steps_packed_items l acc :
  Forall uint32_ok l →
  steps (fun v l => mret (l ++ [Int v])) (concat (map (e_number e_uint32) l)) acc (acc ++ l).
Proof.
  intros Hok. revert acc. induction Hok as [|[z|] l Hz _ IH]; intros acc; simpl.
  - rewrite (right_id_L [] (++)). constructor.
  - replace (acc ++ Int z :: l) with ((acc ++ [Int z]) ++ l) by by rewrite <- (assoc_L (++)).
    eapply steps_app; [|apply IH]. apply steps_one.
    + pose proof (e_uint32_pos z). lia.
    + intros pre post. unfold turn, mbind, RM_bind. by rewrite read_uint32_spec.
  - done.
Qed.

Lemma reads_packed l acc :
  Forall uint32_ok l → small (concat (map (e_number e_uint32) l)) →
  reads_value (read_packed acc) (delimited (concat (map (e_number e_uint32) l))) (acc ++ l).
Proof.
  intros Hok Hs pre post. unfold read_packed, delimited, mbind, RM_bind.
  rewrite <- (assoc_L (++)), read_uint32_spec.
  - rewrite (decode_message_steps _ _ _ (acc ++ l)) by by apply steps_packed_items.
    by rewrite (assoc_L (++)).
  - pose proof (blen_nonneg (concat (map (e_number e_uint32) l))). done.
Qed.

Lemma longToNumber_spec l :
  longToNumber l =
    if long_value l >? MAX_SAFE_INTEGER
    then Err (Error "Value is larger than Number.MAX_SAFE_INTEGER")
    else Ok (Int (round_double (long_value l))).
Proof. unfold longToNumber. by rewrite gt_spec, toNumber_spec. Qed.

Lemma reads_int64 n : int64_ok (Int n) →
  reads_value (read_number read_int64) (e_int64 n) (Int n).
Proof.
  intros [Hn Hd]. unfold MAX_SAFE_INTEGER in Hn. unfold read_number. eapply reads_bind.
  - intros pre post. apply read_int64_spec. lia.
  - unfold lift. rewrite longToNumber_spec, slong_value by lia.
    destruct (Z.gtb_spec n MAX_SAFE_INTEGER); [unfold MAX_SAFE_INTEGER in *; lia|].
    by rewrite Hd.
Qed.

Lemma reads_uint64 n : uint64_ok (Int n) →
  reads_value (read_number read_uint64) (e_uint64 n) (Int n).
Proof.
  intros Hn. simpl in Hn. unfold MAX_SAFE_INTEGER in Hn. unfold read_number. eapply reads_bind.
  - intros pre post. apply read_uint64_spec. lia.
  - unfold lift. rewrite longToNumber_spec, ulong_value by lia.
    destruct (Z.gtb_spec n MAX_SAFE_INTEGER); [unfold MAX_SAFE_INTEGER in *; lia|].
    by rewrite round_double_safe by (unfold MAX_SAFE_INTEGER in *; lia).
Qed.

Lemma f_value_pos tag b : 0 < blen (f_value tag b).
Proof.
  unfold f_value. rewrite blen_app. pose proof (e_uint32_pos tag). pose proof (blen_nonneg b). lia.
Qed.

(** A 64-bit field whose value [longToNumber] takes or refuses. *)
Lemma reads_long n v :
  - 2 ^ 63 <= n < 2 ^ 63 → longToNumber (slong n) = Ok v →
  reads_value (read_number read_int64) (e_int64 n) v.
Proof.
  intros Hn Hv pre post. unfold read_number, mbind, RM_bind, lift.
  by rewrite read_int64_spec, Hv.
Qed.

Lemma turn_number_throws {A : Type} (field : Z → A → RM A) tag n m k post pre e :
  0 <= tag < 2 ^ 32 → - 2 ^ 63 <= n < 2 ^ 63 →
  field tag m = (v ← read_number read_int64; k v) → longToNumber (slong n) = Err e →
  turn field m (rd pre (f_value tag (e_int64 n) ++ post)) = Err e.
Proof.
  intros Ht Hn Hf He. unfold turn, f_value, mbind, RM_bind.
  rewrite <- (assoc_L (++)), read_uint32_spec, Hf by done.
  unfold read_number, mbind, RM_bind, lift. by rewrite read_int64_spec, He.
Qed.

(** [T.decode(reader, reader.uint32())] *)
Lemma reads_delimited {A : Type} (decode : option Z → RM A) b v :
  small b → reads_value (decode (Some (blen b))) b v →
  reads_value (read_nested decode) (delimited b) v.
Proof.
  intros Hs Hd pre post. unfold read_nested, delimited, mbind, RM_bind.
  rewrite <- (assoc_L (++)), read_uint32_spec, Hd, (assoc_L (++)); [done|].
  pose proof (blen_nonneg b). done.
Qed.

End values.

(** ** Termination of [decode]

    [advances 0 (decode length)] says that on every buffer, however
    malformed, [decode] returns a message with the position moved forward or
    throws one of the library's errors: the loop always ends. *)

Section totality.
Context {PB : Protobuf} {PS : ProtobufSpec PB}.

Lemma advances_ret {A : Type} (a : A) : advances 0 (mret a).
Proof. intros r. simpl. lia. Qed.

Lemma advances_weaken {A : Type} n k (m : RM A) : k <= n → advances n m → advances k m.
Proof. intros Hk Hm r. specialize (Hm r). destruct (m r) as [[a r']|]; [lia|done]. Qed.

Lemma advances_bind_by {A B : Type} n k (m : RM A) (f : A → RM B) :
  advances n m → (∀ a, advances k (f a)) → advances (n + k) (m ≫= f).
Proof.
  intros Hm Hf r. unfold mbind, RM_bind. specialize (Hm r).
  destruct (m r) as [[a r']|]; [|done]. specialize (Hf a r').
  destruct (f a r') as [[b r'']|]; [lia|done].
Qed.

Lemma advances_bind {A B : Type} (m : RM A) (f : A → RM B) :
  advances 0 m → (∀ a, advances 0 (f a)) → advances 0 (m ≫= f).
Proof. intros. by apply (advances_bind_by 0 0). Qed.

Lemma advances_longToNumber l : advances 0 (lift (longToNumber l)).
Proof.
  intros r. unfold lift, longToNumber. destruct (gt l MAX_SAFE_INTEGER); simpl; [done|lia].
Qed.

Lemma advances_number m : advances 0 m → advances 0 (read_number m).
Proof. intros. apply advances_bind; [done|]. apply advances_longToNumber. Qed.

Lemma advances_uint32 : advances 0 read_uint32.
Proof. eapply advances_weaken, read_uint32_advances. lia. Qed.

Lemma advances_nested {A : Type} (decode : option Z → RM A) :
  (∀ length, advances 0 (decode length)) → advances 0 (read_nested decode).
Proof. intros H. apply advances_bind; [apply advances_uint32|]. intros n. apply H. Qed.

Lemma decode_loop_advances {A : Type} (field : Z → A → RM A) end_ :
  (∀ tag m, advances 0 (field tag m)) →
  ∀ fuel m r, end_ - r.(pos) <= Z.of_nat fuel →
  match decode_loop fuel end_ field m r with
  | Ok (_, r') => r.(pos) <= r'.(pos) ∧ end_ <= r'.(pos)
  | Err e => lib_error e
  end.
Proof.
  intros Hf. induction fuel as [|fuel IH]; intros m r Hr; simpl;
    (destruct (Z.ltb_spec r.(pos) end_); [|lia]); [lia|].
  unfold mbind, RM_bind. pose proof (read_uint32_advances r) as Hu.
  destruct (read_uint32 r) as [[tag r1]|]; [|done].
  specialize (Hf tag m r1). destruct (field tag m r1) as [[m' r2]|]; [|done].
  specialize (IH m' r2 ltac:(lia)).
  destruct (decode_loop fuel end_ field m' r2) as [[m'' r3]|]; [lia|done].
Qed.

Lemma advances_decode {A : Type} length (base : A) (field : Z → A → RM A) :
  (∀ tag m, advances 0 (field tag m)) → advances 0 (decode_message length base field).
Proof.
  intros Hf r. unfold decode_message.
  set (end_ := match length with None => _ | Some l => _ end).
  pose proof (decode_loop_advances field end_ Hf (Z.to_nat (end_ - r.(pos))) base r) as H.
  destruct (decode_loop _ _ _ _ _) as [[m r']|]; [|apply H; lia].
  destruct H; lia.
Qed.

Lemma advances_packed l : advances 0 (read_packed l).
Proof.
  apply advances_bind; [apply advances_uint32|]. intros n. apply advances_decode.
  intros. apply advances_ret.
Qed.

End totality.

#[export] Hint Resolve advances_ret advances_bind advances_number advances_uint32 advances_nested
  read_int32_advances read_int64_advances read_uint64_advances read_bool_advances
  read_string_advances read_bytes_advances skipType_advances advances_decode advances_packed : dcl.

(** ** The contract of a message type

    [MessageCodec] is what a file of [module/types/] exports for one message
    type; [MessageSpec] is what the rest of the client may rely on. *)

Class MessageCodec {PB : Protobuf} (T : Type) := {
  msg_base : T;
  msg_encode : T → Writer → Writer;
  msg_field : Z → T → RM T;
}.

Definition msg_decode {PB : Protobuf} {T : Type} {C : MessageCodec T} (length : option Z) : RM T :=
  decode_message length msg_base msg_field.

Class MessageSpec {PB : Protobuf} (PS : ProtobufSpec PB) (T : Type) {C : MessageCodec T} := {
  msg_wire : T → bytes;          (* the bytes [encode] writes *)
  msg_valid : T → Prop;          (* its numbers fit their protobuf types *)
  msg_merge : T → T → T;         (* the message read from two encodings in a row *)
  encode_wire m : msg_valid m → small (msg_wire m) → writes (msg_encode m) (msg_wire m);
  decode_wire m0 m : msg_valid m → small (msg_wire m) → steps msg_field (msg_wire m) m0 (msg_merge m0 m);
  merge_base m : msg_valid m → msg_merge msg_base m = m;
  decode_advances length : advances 0 (msg_decode length);
}.

Section message.
Context {PB : Protobuf} {PS : ProtobufSpec PB}.
Context {T : Type} {C : MessageCodec T} {MS : MessageSpec PS T}.

Lemma decode_base m : msg_valid m → small (msg_wire m) → steps msg_field (msg_wire m) msg_base m.
Proof. intros Hv Hs. rewrite <- (merge_base m Hv) at 2. by apply decode_wire. Qed.

Lemma reads_message m : msg_valid m → small (msg_wire m) →
  reads_value (msg_decode (Some (blen (msg_wire m)))) (msg_wire m) m.
Proof. intros Hv Hs pre post. apply decode_message_steps. by apply decode_base. Qed.

Lemma reads_nested m : msg_valid m → small (msg_wire m) →
  reads_value (read_nested msg_decode) (delimited (msg_wire m)) m.
Proof. intros. apply reads_delimited; [done|]. by apply reads_message. Qed.

Lemma finish_encode m : msg_valid m → small (msg_wire m) → finish (msg_encode m create) = msg_wire m.
Proof. intros Hv Hs. by rewrite view_finish, encode_wire, view_create. Qed.

Lemma decode_encode m :
  msg_valid m → small (msg_wire m) → decode_bytes msg_decode (finish (msg_encode m create)) = Ok m.
Proof.
  intros Hv Hs. rewrite finish_encode by done. apply decode_bytes_steps.
  by apply decode_base.
Qed.

End message.

(** ** Tactics for the proofs of one message type *)

Ltac head_of t := match t with ?f _ => head_of f | _ => t end.

(** From [small (b1 ++ ... ++ bn)], [small bi] for every field. *)
Ltac split_small :=
  repeat match goal with
  | H : small (?a ++ ?b) |- _ =>
      pose proof (small_app_l _ _ H); apply small_app_r in H
  end.

(** Splits a message's validity and exposes the integers in its fields. *)
Ltac split_valid :=
  repeat match goal with
  | H : _ ∧ _ |- _ => destruct H
  | H : True |- _ => clear H
  | H : int32_ok ?n |- _ => is_var n; destruct n; [|destruct H]
  | H : uint32_ok ?n |- _ => is_var n; destruct n; [|destruct H]
  | H : int64_ok ?n |- _ => is_var n; destruct n; [|destruct H]
  | H : uint64_ok ?n |- _ => is_var n; destruct n; [|destruct H]
  end.

Ltac open_message m Hv Hs :=
  destruct m;
  (let b := type of Hs in
   match b with small ?w => let h := head_of w in unfold h in * end);
  (let v := type of Hv in let h := head_of v in unfold h in *);
  simpl in Hv, Hs |- *; split_small; split_valid.

(** One statement of [encode]. *)
Ltac writes_field :=
  first
    [ apply writes_string; [lia|assumption]
    | apply writes_int64; [lia|assumption]
    | apply writes_int32; [lia|assumption]
    | apply writes_uint32; [lia|assumption]
    | apply writes_uint64; [lia|assumption]
    | apply writes_bool; lia
    | apply writes_repeated_string; [lia|assumption]
    | apply writes_packed; [lia|assumption|assumption]
    | match goal with
      | |- writes (@each _ ?B _ _) _ =>
          eapply (writes_repeated _ _ msg_valid);
          [exact (fun v => @encode_wire _ _ B _ _ v)|lia|assumption|assumption]
      | |- writes (@defined _ ?B _ _) _ =>
          eapply (writes_message _ _ msg_valid);
          [exact (fun v => @encode_wire _ _ B _ _ v)|lia|assumption|assumption]
      end ].

Ltac solve_encode_wire :=
  intros;
  match goal with
  | Hv : _, Hs : small _ |- writes (?enc ?m) (?wire ?m) => open_message m Hv Hs
  end;
  let w := fresh "w" in intros w;
  match goal with |- view (?enc _) = _ => let h := head_of enc in unfold h end;
  simpl;
  repeat match goal with
  | |- context [view (?f ?x)] =>
      match f with when _ _ => idtac | each _ _ => idtac | defined _ _ => idtac
      | packed _ _ => idtac end;
      let H := fresh in
      eassert (H : writes f _) by writes_field; rewrite H; clear H
  end;
  rewrite ?emit_emit, ?emit_nil; reflexivity.

(** The value of one field, once its tag is known. *)
Ltac reads_field :=
  cbn [field_number];
  eapply reads_bind;
  [ first
      [ apply reads_string; assumption
      | apply reads_int64; assumption
      | apply reads_int32; assumption
      | apply reads_uint32; assumption
      | apply reads_uint64; assumption
      | apply reads_bool
      | apply reads_packed; assumption
      | match goal with
        | |- reads_value _ (delimited (_ ?v)) _ =>
            let B := type of v in
            refine (@reads_nested _ _ B _ _ v _ _); assumption
        end ]
  | reflexivity ].

(** Moves a conditional from the whole message into the field it sets. *)
Ltac merge_if :=
  match goal with
  | |- _ = (if ?c then ?m else set_field ?p ?v ?m) =>
      transitivity (set_field p (if c then p m else v) m);
      [reflexivity | destruct c; [generalize m; intros []; reflexivity | reflexivity]]
  | |- _ = (if ?c then set_field ?p ?v ?m else ?m) =>
      transitivity (set_field p (if c then v else p m) m);
      [reflexivity | destruct c; [reflexivity | generalize m; intros []; reflexivity]]
  end.

(** The projection a field of [decode] assigns to. *)
Ltac assigned_field f tag m k :=
  let h := head_of f in
  let R := type of m in
  let t := eval unfold h in (fun x : R => f tag x) in
  let t := eval cbv [field_number Z.shiftr Z.shiftl Z.opp Pos.iter Z.div2 Pos.div2] in t in
  match t with
  | context [@set_field _ _ ?p _] => k p
  end.

Ltac solve_set_laws := intros; try match goal with m : _ |- _ => destruct m end; reflexivity.

Ltac step_field :=
  match goal with
  | |- steps _ (f_string _ _) _ _ =>
      eapply steps_string; [lia|assumption|intros; reads_field|merge_if]
  | |- steps _ (f_number _ _ _) _ _ =>
      eapply steps_number; [lia|reads_field|merge_if]
  | |- steps _ (f_bool _ _) _ _ =>
      eapply steps_bool; [lia|reads_field|merge_if]
  | |- steps _ (f_packed _ _) _ _ =>
      eapply steps_packed; [lia|assumption|assumption|intros; reads_field]
  | |- steps ?f (f_repeated ?tag ?e ?l) ?m _ =>
      assigned_field f tag m ltac:(fun p =>
        first
          [ eapply (steps_repeated f tag e (fun _ => True) l p (fun v x => set_field p v x));
            [solve_set_laws|solve_set_laws|solve_set_laws|lia|by apply Forall_true|assumption
            |intros; reads_field]
          | eapply (steps_repeated f tag e msg_valid l p (fun v x => set_field p v x));
            [solve_set_laws|solve_set_laws|solve_set_laws|lia|assumption|assumption
            |intros; reads_field] ])
  | |- steps ?f (f_message ?tag ?e ?o) ?m _ =>
      assigned_field f tag m ltac:(fun p =>
        eapply (steps_message f tag e msg_valid o m (fun v => set_field p (Some v) m));
        [lia|assumption|assumption|intros; reads_field
        |instantiate (1 := set_field p (later_message (p m) o) m);
         destruct o; [reflexivity|generalize m; intros []; reflexivity]])
  end.

(** Writes the message read so far as a record of its fields, so that it does
    not grow with each field. *)
Ltac normal_message :=
  match goal with
  | |- steps ?f ?b ?m ?m' =>
      let r := eval cbv -[String.eqb Z.eqb app later_message] in m in
      change (steps f b r m')
  end.

Ltac solve_decode_wire :=
  intros;
  match goal with
  | Hv : _, Hs : small _ |- steps _ (?wire ?m) ?m0 (?merge ?m0 ?m) =>
      let h := head_of merge in
      open_message m Hv Hs; destruct m0;
      eapply steps_eq;
      [ repeat (eapply steps_app; [step_field|normal_message]);
        first [step_field | apply steps_nil]
      | unfold h; reflexivity ]
  end.

Ltac solve_merge_base :=
  intros;
  match goal with
  | |- ?merge ?b ?m = ?m =>
      destruct m; let h := head_of merge in let h' := head_of b in unfold h, h'; simpl;
      autorewrite with dcl; reflexivity
  end.

Ltac solve_advances field :=
  intros; apply advances_decode;
  let tag := fresh "tag" in
  let m := fresh "m" in
  intros tag m; change (advances 0 (field tag m));
  let h := head_of field in unfold h;
  repeat case_match;
  (apply advances_bind; [|intros; apply advances_ret]);
  first
    [ solve [eauto with dcl]
    | apply advances_nested; intros;
      match goal with |- @advances ?B _ _ => exact (@decode_advances _ _ B _ _ _) end ].

(** ** Plain objects

    The other three functions of a message type convert between messages and
    plain objects: [fromJSON] and [toJSON] with the objects [JSON.parse] gives
    and [JSON.stringify] takes, [fromPartial] from an object in which any
    property may be missing. *)

Class MessageData (T P : Type) := {
  msg_fromJSON : js → result T;
  msg_toJSON : T → js;
  msg_fromPartial : P → T;
  msg_full : T → P;            (* a message with every property given *)
  fromJSON_toJSON m : msg_fromJSON (msg_toJSON m) = Ok m;
  fromPartial_full m : msg_fromPartial (msg_full m) = m;
}.

Lemma to_list_map {A : Type} (conv : js → result A) (f : A → js) l :
  (∀ x, conv (f x) = Ok x) → to_list conv (Arr (map f l)) = Ok l.
Proof.
  intros H. unfold to_list. simpl. apply (result_map_id conv f).
  apply Forall_forall. auto.
Qed.

Lemma map_map_id {A B : Type} (f : B → A) (g : A → B) l :
  (∀ x, f (g x) = x) → map f (map g l) = l.
Proof. intros H. rewrite map_map. induction l; simpl; [done|]. by rewrite H, IHl. Qed.

Lemma fmap_fmap_id {A B : Type} (f : B → A) (g : A → B) (o : option A) :
  (∀ x, f (g x) = x) → f <$> (g <$> o) = o.
Proof. intros H. destruct o; simpl; [by rewrite H|done]. Qed.

Lemma fromJSON_nested {T P : Type} {D : MessageData T P} m :
  to_some msg_fromJSON (msg_toJSON m) = Ok (Some m).
Proof. unfold to_some. by rewrite fromJSON_toJSON. Qed.

Arguments to_list : simpl never.
Arguments to_some : simpl never.
Arguments js_Number : simpl never.

Ltac json_law :=
  match goal with |- ∀ x : ?T, _ => exact (fun x : T => @fromJSON_toJSON T _ _ x) end.

Ltac partial_law :=
  match goal with |- ∀ x : ?T, _ => exact (fun x : T => @fromPartial_full T _ _ x) end.

Ltac solve_json from to :=
  let m := fresh "m" in
  intros m; destruct m;
  repeat match goal with o : option _ |- _ => destruct o end;
  unfold from, to, field_or, to_string, to_bool; cbn;
  repeat match goal with
  | |- context [to_list ?c (Arr (map ?f ?l))] =>
      rewrite (to_list_map c f l); [cbn|solve [done | json_law]]
  | |- context [to_some ?c (?f ?v)] =>
      let T := type of v in
      let H := constr:(@fromJSON_nested T _ _ v) in rewrite (H : to_some c (f v) = _); cbn
  end;
  reflexivity.

Ltac solve_partial from to :=
  let m := fresh "m" in
  intros m; destruct m; unfold from, to; cbn;
  repeat match goal with
  | |- context [map ?f (map ?g ?l)] => rewrite (map_map_id f g l) by partial_law
  | |- context [?f <$> (?g <$> ?o)] => rewrite (fmap_fmap_id f g o) by partial_law
  end;
  reflexivity.

(** ** Statements about a codec

    The properties of the message types are stated with these, on the
    functions of the message type themselves. *)

Section statements.
Context {PB : Protobuf} {T : Type}.
Variables (enc : T → Writer → Writer) (dec : option Z → RM T).

(** Decoding what was encoded gives the message back. *)
Definition round_trip (ok : T → Prop) : Prop :=
  ∀ m, ok m → decode_bytes dec (finish (enc m create)) = Ok m.

(** On every buffer [decode] returns or throws an error of the library. *)
Definition decodes_all : Prop :=
  ∀ b, match decode_bytes dec b with Ok _ => True | Err e => lib_error e end.

End statements.

(** ** Fields a message type does not know

    A field whose number the schema does not declare, as another version of it
    would write: its tag is eight times the number plus one of the wire types of
    proto3, 0 for a varint, 1 for eight bytes, 2 for a delimited value and 5 for
    four bytes. *)

Definition undeclared (numbers : list Z) (n : Z) : Prop := 1 <= n < 2 ^ 29 ∧ n ∉ numbers.

Inductive unknown_field {PB : Protobuf} {PS : ProtobufSpec PB} (numbers : list Z) : bytes → Prop :=
| unknown_varint n v :
    undeclared numbers n → 0 <= v < 2 ^ 64 →
    unknown_field numbers (e_uint32 (8 * n) ++ e_uint64 v)
| unknown_fixed64 n b :
    undeclared numbers n → blen b = 8 → unknown_field numbers (e_uint32 (8 * n + 1) ++ b)
| unknown_delimited n b :
    undeclared numbers n → small b →
    unknown_field numbers (e_uint32 (8 * n + 2) ++ e_uint32 (blen b) ++ b)
| unknown_fixed32 n b :
    undeclared numbers n → blen b = 4 → unknown_field numbers (e_uint32 (8 * n + 5) ++ b).

(** The parts [decode] takes from a tag. *)
Lemma field_number_tag n t : 0 <= t < 8 → field_number (8 * n + t) = n.
Proof.
  intros Ht. unfold field_number. rewrite Z.shiftr_div_pow2 by lia. change (2 ^ 3) with 8.
  symmetry. apply (Z.div_unique _ _ _ t); lia.
Qed.

Lemma wire_type_tag n t : 0 <= t < 8 → wire_type (8 * n + t) = t.
Proof.
  intros Ht. unfold wire_type. change 7 with (Z.ones 3). rewrite Z.land_ones by lia.
  change (2 ^ 3) with 8. symmetry. apply (Z.mod_unique _ _ n); lia.
Qed.

Section generic.
Context {PB : Protobuf} {PS : ProtobufSpec PB}.
Context {T : Type} {C : MessageCodec T} {MS : MessageSpec PS T}.

(** A message that fits its schema and a length prefix. *)
Definition encodable (m : T) : Prop := msg_valid m ∧ small (msg_wire m).

Lemma codec_round_trip : round_trip msg_encode msg_decode encodable.
Proof. intros m []. by apply decode_encode. Qed.

(** [decode_field] skips what the schema does not declare. *)
Definition skips_undeclared (field : Z → T → RM T) (numbers : list Z) : Prop :=
  ∀ tag m, field_number tag ∉ numbers → field tag m = (_ ← skipType (wire_type tag); mret m).

Lemma steps_skipped (field : Z → T → RM T) numbers n t b m :
  skips_undeclared field numbers → undeclared numbers n → 0 <= t < 8 →
  reads_value (skipType t) b tt → steps field (e_uint32 (8 * n + t) ++ b) m m.
Proof.
  intros Hf [Hn Hk] Ht Hb. apply (steps_field field (8 * n + t) b); [lia|].
  rewrite Hf, wire_type_tag by (rewrite ?field_number_tag; done).
  intros pre post. unfold mbind, RM_bind. by rewrite Hb.
Qed.

Lemma steps_unknown (field : Z → T → RM T) numbers u m :
  skips_undeclared field numbers → unknown_field numbers u → steps field u m m.
Proof.
  intros Hf [n v Hn Hv|n b Hn Hb|n b Hn Hb|n b Hn Hb]; [rewrite <- (Z.add_0_r (8 * n))|..];
    (eapply steps_skipped; [done|done|lia|]); intros pre post.
  - by apply skip_varint.
  - by apply skip_fixed64.
  - by apply skip_delimited.
  - by apply skip_fixed32.
Qed.

Lemma steps_all_unknown (field : Z → T → RM T) numbers us m :
  skips_undeclared field numbers → Forall (unknown_field numbers) us → steps field (concat us) m m.
Proof.
  intros Hf. induction 1 as [|u us Hu _ IH]; simpl; [constructor|].
  eapply steps_app; [by eapply steps_unknown|done].
Qed.

End generic.

(** [skips_undeclared] by the cases of [decode_field]. *)
Ltac solve_skips field :=
  let k := fresh "k" in let Hk := fresh "Hk" in
  intros tag m Hk; change (field tag m = (_ ← skipType (wire_type tag); mret m));
  (let h := head_of field in unfold h);
  revert Hk; generalize (field_number tag); intros k Hk;
  repeat (case_match; simplify_eq);
  first [reflexivity | exfalso; apply Hk; apply (bool_decide_unpack _); vm_compute; exact I].
