(* ===== verification/WireFormat.v ===== *)
(** * A concrete wire format

    An executable instance of the interface of [Protobuf.v]: base-128 varints,
    length-delimited strings and nested messages, and 64-bit integers as
    mathematical integers.  It shows that the assumptions on the library are
    consistent, and it is what the witnesses of the development compute with.
    The deprecated group wire types are refused by [skipType]. *)
From S2P Require Import Prelude Js Calendar Protobuf Codec.
Open Scope Z_scope.

Module Wire.

Definition byte_of (z : Z) : byte := ascii_of_N (Z.to_N z).
Definition of_byte (c : byte) : Z := Z.of_N (N_of_ascii c).

(** ** Varints: seven bits a byte, least significant first *)

Fixpoint varint_go (fuel : nat) (z : Z) : bytes :=
  match fuel with
  | O => []
  | S fuel' =>
      if z <? 128 then [byte_of z] else byte_of (128 + z mod 128) :: varint_go fuel' (z / 128)
  end.

Definition varint (z : Z) : bytes := varint_go 10 z.

Fixpoint unvarint_go (fuel : nat) (b : bytes) : option (Z * Z) :=
  match fuel, b with
  | S fuel', c :: b' =>
      if of_byte c <? 128 then Some (of_byte c, 1)
      else match unvarint_go fuel' b' with
           | Some (h, n) => Some (of_byte c - 128 + 128 * h, n + 1)
           | None => None
           end
  | _, _ => None
  end.

(** Two's complement at a given width. *)
Definition signed (w z : Z) : Z :=
  let m := z mod 2 ^ w in if m <? 2 ^ (w - 1) then m else m - 2 ^ w.

Definition clamp (n : number) : Z := match n with Int z => z | NaN => 0 end.

Definition delimit (b : bytes) : bytes := varint (blen b mod 2 ^ 32) ++ b.

(** ** Reading *)

Definition rest (r : Reader) : bytes := drop (Z.to_nat r.(pos)) r.(buf).

Definition skip (n : Z) : RM unit := λ r,
  if (0 <=? n) && (r.(pos) + n <=? len r)
  then Ok (tt, mkReader r.(buf) (r.(pos) + n))
  else Err (RangeError "index out of range").

Definition read_varint : RM Z := λ r,
  match unvarint_go 10 (rest r) with
  | Some (z, n) => Ok (z, mkReader r.(buf) (r.(pos) + n))
  | None => Err (RangeError "index out of range")
  end.

Definition read_length : RM Z := z ← read_varint; mret (z mod 2 ^ 32).

Definition take_bytes (n : Z) : RM bytes := λ r,
  match skip n r with
  | Ok (_, r') => Ok (take (Z.to_nat n) (rest r), r')
  | Err e => Err e
  end.

Definition read_data : RM bytes := n ← read_length; take_bytes n.

Definition read_str : RM string := b ← read_data; mret (of_chars b).

Definition skip_type (t : Z) : RM unit :=
  match t with
  | 0 => _ ← read_varint; mret tt
  | 1 => skip 8
  | 2 => n ← read_length; skip n
  | 5 => skip 4
  | _ => λ r, Err (Error "invalid wire type")
  end.

Definition put (b : bytes) (w : wview) : wview := emit b w.

#[global] Instance pb : Protobuf := {|
  Writer := wview;
  Long := Z;
  create := ([], []);
  uint32 n := put (varint (clamp n mod 2 ^ 32));
  int32 n := put (varint (signed 32 (clamp n) mod 2 ^ 64));
  int64 n := put (varint (clamp n mod 2 ^ 64));
  int64_fraction x := put (varint (trunc x mod 2 ^ 64));
  uint64 n := put (varint (clamp n mod 2 ^ 64));
  bool_ b := put (varint (if b then 1 else 0));
  string_ s := put (delimit (chars s));
  bytes_ b := put (delimit b);
  fork w := ([], w.1 :: w.2);
  ldelim w := match w.2 with c :: st => (c ++ delimit w.1, st) | [] => (delimit w.1, []) end;
  finish w := w.1;
  read_uint32 := read_length;
  read_int32 := z ← read_varint; mret (signed 32 z);
  read_int64 := z ← read_varint; mret (signed 64 z);
  read_uint64 := z ← read_varint; mret (z mod 2 ^ 64);
  read_bool := z ← read_varint; mret (negb (z =? 0));
  read_string := read_str;
  read_bytes := read_data;
  skipType := skip_type;
  gt l n := l >? n;
  toNumber l := Int (round_double l);
|}.

(** ** Varints round trip *)

Lemma of_byte_of z : 0 <= z < 256 → of_byte (byte_of z) = z.
Proof.
  intros H. unfold of_byte, byte_of. rewrite N_ascii_embedding by lia. lia.
Qed.

Lemma varint_go_round fuel z post :
  (0 < fuel)%nat → 0 <= z < 128 ^ Z.of_nat fuel →
  unvarint_go fuel (varint_go fuel z ++ post) = Some (z, blen (varint_go fuel z)).
Proof.
  revert z. induction fuel as [|fuel IH]; intros z Hf Hz; [lia|].
  rewrite Nat2Z.inj_succ, Z.pow_succ_r in Hz by lia.
  simpl. destruct (Z.ltb_spec z 128) as [Hs|Hl]; simpl.
  - rewrite of_byte_of by lia. by destruct (Z.ltb_spec z 128); [|lia].
  - pose proof (Z.mod_pos_bound z 128 ltac:(lia)) as Hm. rewrite of_byte_of by lia.
    destruct (Z.ltb_spec (128 + z mod 128) 128); [lia|].
    rewrite IH.
    + assert (128 + z mod 128 - 128 + 128 * (z / 128) = z) as ->
        by (pose proof (Z.div_mod z 128 ltac:(lia)); lia).
      unfold blen; simpl. f_equal. f_equal. lia.
    + destruct fuel; [simpl in Hz; lia|lia].
    + split; [apply Z.div_pos; lia|]. apply Z.div_lt_upper_bound; lia.
Qed.

Lemma varint_round z post :
  0 <= z < 2 ^ 64 → unvarint_go 10 (varint z ++ post) = Some (z, blen (varint z)).
Proof.
  intros Hz. apply varint_go_round; [lia|]. assert (2 ^ 64 < 128 ^ Z.of_nat 10) by reflexivity. lia.
Qed.

Lemma varint_pos z : 1 <= blen (varint z).
Proof. unfold varint, blen. simpl. destruct (z <? 128); simpl; lia. Qed.

Lemma unvarint_go_pos fuel b z n : unvarint_go fuel b = Some (z, n) → 1 <= n.
Proof.
  revert b z n. induction fuel as [|fuel IH]; intros [|c b] z n; simpl; try done.
  destruct (of_byte c <? 128); [intros [= <- <-]; lia|].
  destruct (unvarint_go fuel b) as [[h k]|] eqn:E; [|done].
  intros [= <- <-]. apply IH in E. lia.
Qed.

Lemma signed_id w z : 0 < w → - 2 ^ (w - 1) <= z < 2 ^ (w - 1) → signed w z = z.
Proof.
  intros Hw Hz. unfold signed.
  assert (2 ^ w = 2 * 2 ^ (w - 1)) as Hp
    by (rewrite <- Z.pow_succ_r by lia; f_equal; lia).
  destruct (Z.lt_ge_cases z 0).
  - replace (z mod 2 ^ w) with (z + 2 ^ w).
    + destruct (Z.ltb_spec (z + 2 ^ w) (2 ^ (w - 1))); lia.
    + symmetry. rewrite <- (Z.mod_add z 1) by lia. rewrite Z.mul_1_l.
      apply Z.mod_small. lia.
  - rewrite Z.mod_small by lia. destruct (Z.ltb_spec z (2 ^ (w - 1))); lia.
Qed.

Lemma signed_mod w k z : 0 < w → w <= k → signed w (z mod 2 ^ k) = signed w z.
Proof.
  intros Hw Hk. unfold signed.
  assert ((z mod 2 ^ k) mod 2 ^ w = z mod 2 ^ w) as ->; [|done].
  apply Z.mod_mod_divide.
  exists (2 ^ (k - w)). rewrite <- Z.pow_add_r by lia. f_equal. lia.
Qed.

(** ** The interface is met *)

Lemma rest_rd pre post : rest (rd pre post) = post.
Proof.
  unfold rest, rd, blen. simpl. rewrite Nat2Z.id. apply drop_app_length.
Qed.

Lemma read_varint_rd z pre post :
  0 <= z < 2 ^ 64 →
  read_varint (rd pre (varint z ++ post)) = Ok (z, rd (pre ++ varint z) post).
Proof.
  intros Hz. unfold read_varint. rewrite rest_rd, varint_round by done.
  by rewrite rd_app.
Qed.

Lemma read_length_rd n pre post :
  0 <= n < 2 ^ 32 →
  read_length (rd pre (varint (n mod 2 ^ 32) ++ post)) =
    Ok (n, rd (pre ++ varint (n mod 2 ^ 32)) post).
Proof.
  intros Hn. rewrite Z.mod_small by lia. unfold read_length, mbind, RM_bind.
  rewrite read_varint_rd by lia. unfold mret, RM_ret. by rewrite Z.mod_small.
Qed.

Lemma skip_rd b pre post :
  skip (blen b) (rd pre (b ++ post)) = Ok (tt, rd (pre ++ b) post).
Proof.
  unfold skip. rewrite rd_app. unfold len, rd. simpl. rewrite !blen_app.
  pose proof (blen_nonneg b). pose proof (blen_nonneg post). pose proof (blen_nonneg pre).
  destruct (Z.leb_spec 0 (blen b)); [|lia].
  by destruct (Z.leb_spec (blen pre + blen b) (blen pre + (blen b + blen post))); [|lia].
Qed.

Lemma skip_advances n : advances 0 (skip n).
Proof.
  intros r. unfold skip. destruct (Z.leb_spec 0 n); simpl; [|done].
  destruct (pos r + n <=? len r); simpl; [lia|done].
Qed.

Lemma read_varint_advances : advances 1 read_varint.
Proof.
  intros r. unfold read_varint.
  destruct (unvarint_go 10 (rest r)) as [[z n]|] eqn:E; [|done].
  apply unvarint_go_pos in E. simpl. lia.
Qed.

Lemma read_length_advances : advances 1 read_length.
Proof. apply (advances_bind_by 1 0); [apply read_varint_advances|]. intros. apply advances_ret. Qed.

Lemma varint_bind_advances {A : Type} (f : Z → A) :
  advances 0 (z ← read_varint; mret (f z)).
Proof.
  eapply (advances_weaken 1); [lia|]. apply (advances_bind_by 1 0).
  - apply read_varint_advances.
  - intros. apply advances_ret.
Qed.

Lemma varint_bind_rd {A : Type} (f : Z → A) z pre post :
  0 <= z < 2 ^ 64 →
  (z ← read_varint; mret (f z)) (rd pre (varint z ++ post)) = Ok (f z, rd (pre ++ varint z) post).
Proof. intros Hz. unfold mbind, RM_bind. by rewrite read_varint_rd. Qed.

Lemma read_data_rd b pre post :
  blen b < 2 ^ 32 →
  read_data (rd pre ((varint (blen b mod 2 ^ 32) ++ b) ++ post)) =
    Ok (b, rd (pre ++ varint (blen b mod 2 ^ 32) ++ b) post).
Proof.
  intros Hs. unfold read_data, mbind, RM_bind. rewrite <- (assoc_L (++)).
  rewrite read_length_rd by (pose proof (blen_nonneg b); lia).
  unfold take_bytes. rewrite skip_rd, rest_rd. unfold blen.
  by rewrite Nat2Z.id, take_app_length, (assoc_L (++)).
Qed.

Lemma read_str_rd s pre post :
  blen (chars s) < 2 ^ 32 →
  read_str (rd pre ((varint (blen (chars s) mod 2 ^ 32) ++ chars s) ++ post)) =
    Ok (s, rd (pre ++ varint (blen (chars s) mod 2 ^ 32) ++ chars s) post).
Proof.
  intros Hs. unfold read_str, mbind, RM_bind. rewrite read_data_rd by done.
  unfold mret, RM_ret, of_chars, chars. by rewrite String.string_of_list_ascii_of_string.
Qed.

Lemma read_data_advances : advances 0 read_data.
Proof.
  eapply (advances_weaken 1); [lia|]. apply (advances_bind_by 1 0).
  - apply read_length_advances.
  - intros n r. unfold take_bytes. pose proof (skip_advances n r) as H.
    by destruct (skip n r) as [[u r']|].
Qed.

Lemma read_str_advances : advances 0 read_str.
Proof. apply advances_bind; [apply read_data_advances|]. intros b. apply advances_ret. Qed.

Lemma skip_type_advances t : advances 0 (skip_type t).
Proof.
  unfold skip_type. repeat case_match; try (intros r; done).
  all: try apply skip_advances; try apply (varint_bind_advances (fun _ => tt)).
  eapply (advances_weaken 1); [lia|]. apply (advances_bind_by 1 0).
  - apply read_length_advances.
  - intros. apply skip_advances.
Qed.

(** *** The buffer *)

Lemma keeps_bind {A B : Type} (m : RM A) (f : A → RM B) :
  keeps_buffer m → (∀ a, keeps_buffer (f a)) → keeps_buffer (m ≫= f).
Proof.
  intros Hm Hf r b r'. unfold mbind, RM_bind. destruct (m r) as [[a r1]|] eqn:E; [|done].
  intros H. by rewrite (Hf _ _ _ _ H), (Hm _ _ _ E).
Qed.

Lemma keeps_ret {A : Type} (a : A) : keeps_buffer (mret a).
Proof. by intros r b r' [= _ <-]. Qed.

Lemma read_varint_keeps : keeps_buffer read_varint.
Proof. intros r n r'. unfold read_varint. by destruct (unvarint_go _ _) as [[? ?]|]; intros [= _ <-]. Qed.

Lemma skip_keeps n : keeps_buffer (skip n).
Proof. intros r a r'. unfold skip. by destruct (_ && _); intros [= _ <-]. Qed.

Lemma take_bytes_keeps n : keeps_buffer (take_bytes n).
Proof.
  intros r a r'. unfold take_bytes. destruct (skip n r) as [[u r1]|] eqn:E; [|done].
  intros [= _ <-]. by apply skip_keeps in E.
Qed.

Lemma read_length_keeps : keeps_buffer read_length.
Proof. apply keeps_bind; [apply read_varint_keeps|intros; apply keeps_ret]. Qed.

Lemma read_str_keeps : keeps_buffer read_str.
Proof.
  apply keeps_bind; [|intros; apply keeps_ret].
  apply keeps_bind; [apply read_length_keeps|intros; apply take_bytes_keeps].
Qed.

Lemma skip_type_keeps t : keeps_buffer (skip_type t).
Proof.
  unfold skip_type. repeat case_match; try apply skip_keeps; try done.
  - apply keeps_bind; [apply read_varint_keeps|intros; apply keeps_ret].
  - apply keeps_bind; [apply read_length_keeps|intros; apply skip_keeps].
Qed.

Lemma unvarint_within fuel b z n : unvarint_go fuel b = Some (z, n) → 0 < n <= blen b.
Proof.
  revert b z n. induction fuel as [|fuel IH]; intros [|c b] z n; simpl; try done.
  change (blen (c :: b)) with (Z.of_nat (S (length b))). destruct (_ <? 128).
  - intros [= _ <-]. lia.
  - destruct (unvarint_go fuel b) as [[h k]|] eqn:E; [|done]. intros [= _ <-].
    apply IH in E. unfold blen in E. lia.
Qed.

Lemma read_length_within r n r' : read_length r = Ok (n, r') → r'.(pos) <= len r.
Proof.
  unfold read_length, mbind, RM_bind, read_varint.
  destruct (unvarint_go 10 (rest r)) as [[z k]|] eqn:E; [|done]. intros [= _ <-]. simpl.
  apply unvarint_within in E. unfold rest, blen, len in *. rewrite length_drop in E. unfold blen. lia.
Qed.

Lemma mod_bound z k : 0 < k → 0 <= z mod 2 ^ k < 2 ^ k.
Proof. intros. apply Z.mod_pos_bound. lia. Qed.

#[global] Program Instance spec : ProtobufSpec pb := {|
  e_uint32 n := varint (n mod 2 ^ 32);
  e_int32 n := varint (signed 32 n mod 2 ^ 64);
  e_int64 n := varint (n mod 2 ^ 64);
  e_uint64 n := varint (n mod 2 ^ 64);
  e_bool b := varint (if b then 1 else 0);
  view w := w;
  slong n := n;
  ulong n := n;
  long_value l := l;
  e_uint32_pos n := varint_pos (n mod 2 ^ 32);
  read_uint32_advances := read_length_advances;
  read_int32_advances := varint_bind_advances (signed 32);
  read_int64_advances := varint_bind_advances (signed 64);
  read_uint64_advances := varint_bind_advances (fun z => z mod 2 ^ 64);
  read_bool_advances := varint_bind_advances (fun z => negb (z =? 0));
  read_string_advances := read_str_advances;
  read_bytes_advances := read_data_advances;
  skipType_advances := skip_type_advances;
  read_uint32_buffer := read_length_keeps;
  read_string_buffer := read_str_keeps;
  skipType_buffer := skip_type_keeps;
  read_uint32_within := read_length_within;
|}.
Solve All Obligations with (try (intros; reflexivity)).
Next Obligation. intros w b c st -> Hb. done. Qed.
Next Obligation. intros n pre post Hn. by apply read_length_rd. Qed.
Next Obligation.
  intros n pre post Hn. etrans; [apply varint_bind_rd, mod_bound; lia|].
  by rewrite signed_mod, !(signed_id 32 n) by (simpl; lia).
Qed.
Next Obligation.
  intros n pre post Hn. etrans; [apply varint_bind_rd, mod_bound; lia|].
  by rewrite signed_mod, signed_id by (simpl; lia).
Qed.
Next Obligation.
  intros n pre post Hn. etrans; [apply varint_bind_rd, mod_bound; lia|].
  cbv beta. by rewrite Z.mod_mod, Z.mod_small by lia.
Qed.
Next Obligation.
  intros b pre post. etrans; [apply varint_bind_rd; destruct b; lia|]. by destruct b.
Qed.
Next Obligation. intros s pre post Hs. by apply read_str_rd. Qed.
Next Obligation. intros b pre post Hb. by apply read_data_rd. Qed.
Next Obligation.
  intros n pre post Hn. etrans; [apply (varint_bind_rd (fun _ => tt))|done].
  rewrite Z.mod_small; lia.
Qed.
Next Obligation. intros b pre post Hb. pose proof (skip_rd b pre post) as H. by rewrite Hb in H. Qed.
Next Obligation. intros b pre post Hb. pose proof (skip_rd b pre post) as H. by rewrite Hb in H. Qed.
Next Obligation.
  intros b pre post Hb. simpl. unfold mbind, RM_bind. rewrite <- (assoc_L (++)).
  rewrite read_length_rd by (pose proof (blen_nonneg b); lia).
  by rewrite skip_rd, (assoc_L (++)).
Qed.
Next Obligation. apply keeps_bind; [apply read_varint_keeps|intros; apply keeps_ret]. Qed.

End Wire.
