(* ===== verification/TimeTypes.v ===== *)
(** * Timestamps

    The codec of [google/protobuf/timestamp.js].  Every module of the client
    that has dates has its own copy of this file, with the same contents; the
    lines of the dclupgrade module are the ones modelled. *)
From S2P Require Import Prelude Js Protobuf Codec.
Open Scope Z_scope.

(** ** [Timestamp] (google/protobuf/timestamp.js) *)

Module Timestamp.

Record t := mk {
  seconds : number;
  nanos : number;
}.

#[global] Instance t_eta : Settable t := λ m, mk m.(seconds) m.(nanos).

Definition base : t := mk 0 0.

Definition encode {PB : Protobuf} (message : t) (writer : Writer) : Writer :=
  writer
  @> when (num_neq message.(seconds) 0) (fun w => w @> uint32 8 @> int64 message.(seconds))
  @> when (num_neq message.(nanos) 0) (fun w => w @> uint32 16 @> int32 message.(nanos)).

Definition decode_field {PB : Protobuf} (tag : Z) (message : t) : RM t :=
  match field_number tag with
  | 1 => v ← read_number read_int64; mret (message <| seconds := v |>)
  | 2 => v ← read_int32; mret (message <| nanos := Int v |>)
  | _ => _ ← skipType (wire_type tag); mret message
  end.

Definition decode {PB : Protobuf} (length : option Z) : RM t :=
  decode_message length base decode_field.

Definition fromJSON (object : js) : result t :=
  seconds' ← field_or object "seconds" js_Number 0;
  nanos' ← field_or object "nanos" js_Number 0;
  Ok (mk seconds' nanos').

Definition toJSON (message : t) : js :=
  Obj ([("seconds", Num message.(seconds));
    ("nanos", Num message.(nanos))]).

Record partial := mkPartial {
  p_seconds : option number;
  p_nanos : option number;
}.

Definition fromPartial (object : partial) : t := {|
  seconds := object.(p_seconds) ?? Int 0;
  nanos := object.(p_nanos) ?? Int 0;
|}.

(** The object with no property given. *)
Definition nothing : partial := mkPartial None None.

(** The bytes [encode] writes. *)
Definition wire {PB : Protobuf} {PS : ProtobufSpec PB} (m : t) : bytes :=
  f_number e_int64 8 m.(seconds) ++
  f_number e_int32 16 m.(nanos).

Definition valid (m : t) : Prop :=
  int64_ok m.(seconds) ∧ int32_ok m.(nanos).

Definition encodable {PB : Protobuf} {PS : ProtobufSpec PB} (m : t) : Prop :=
  valid m ∧ small (wire m).

Definition merge (m a : t) : t := {|
  seconds := later_number m.(seconds) a.(seconds);
  nanos := later_number m.(nanos) a.(nanos);
|}.

(** A whole message seen as a partial one. *)
Definition full (m : t) : partial := {|
  p_seconds := Some m.(seconds);
  p_nanos := Some m.(nanos);
|}.

(** The message with its default for every property that is not kept. *)
Definition only (kept : string → bool) (m : t) : t := {|
  seconds := if kept "seconds" then m.(seconds) else Int 0;
  nanos := if kept "nanos" then m.(nanos) else Int 0;
|}.

#[global] Instance codec {PB : Protobuf} : MessageCodec t :=
  {| msg_base := base; msg_encode := encode; msg_field := decode_field |}.

#[global] Program Instance spec {PB : Protobuf} (PS : ProtobufSpec PB) : MessageSpec PS t :=
  {| msg_wire := wire; msg_valid := valid; msg_merge := merge |}.
Next Obligation. solve_encode_wire. Qed.
Next Obligation. solve_decode_wire. Qed.
Next Obligation. solve_merge_base. Qed.
Next Obligation. intros. solve_advances decode_field. Qed.

#[global] Program Instance data : MessageData t partial :=
  {| msg_fromJSON := fromJSON; msg_toJSON := toJSON;
     msg_fromPartial := fromPartial; msg_full := full |}.
Next Obligation. solve_json fromJSON toJSON. Qed.
Next Obligation. solve_partial fromPartial full. Qed.

End Timestamp.
