(* ===== verification/Dates.v ===== *)
(** * Dates in messages

    A message holds a moment as a [Date]; on the wire it is a [Timestamp], in
    JSON a text in the ISO format.  The functions [toTimestamp], [fromTimestamp]
    and [fromJsonTimestamp] that convert between them are at the end of every
    generated file with a date field; their lines in
    [cosmos/upgrade/v1beta1/upgrade.js] of the dclupgrade module are the ones
    modelled. *)
From S2P Require Import Prelude Js Calendar Protobuf Codec TimeTypes.
Open Scope Z_scope.

(** ** The conversions *)

(** What [toTimestamp] returns has the shape of a [Timestamp], but its seconds
    are a quotient and keep their fraction; [None] is [NaN]. *)
Record moment := mkMoment { m_seconds : option ratio; m_nanos : number }.

Definition toTimestamp (date : date) : moment :=
  match getTime date with
  | Int ms => mkMoment (Some (round_ratio ms 1000)) (Int (Z.rem ms 1000 * 1000000))
  | NaN => mkMoment None NaN
  end.

Definition fromTimestamp (t : Timestamp.t) : date :=
  match t.(Timestamp.seconds), t.(Timestamp.nanos) with
  | Int s, Int n =>
      let millis := round_double (s * 1000) in
      let fraction := round_ratio n 1000000 in
      new_Date (round_ratio (millis * fraction.2 + fraction.1) fraction.2)
  | _, _ => mkDate NaN
  end.

(** [o] is a value of a parsed JSON text, so never a [Date]. *)
Definition fromJsonTimestamp (o : js) : result date :=
  match o with
  | Str s => parse_Date s
  | _ => t ← Timestamp.fromJSON o; Ok (fromTimestamp t)
  end.

Section wire.
Context {PB : Protobuf}.

(** [Timestamp.encode] on such a value: the seconds differ from 0 as soon as
    their fraction does. *)
Definition encode_moment (message : moment) (writer : Writer) : Writer :=
  writer
  @> match message.(m_seconds) with
     | Some x => when (negb (x.1 =? 0)) (fun w => w @> uint32 8 @> int64_fraction x)
     | None => fun w => w @> uint32 8 @> int64 NaN
     end
  @> when (num_neq message.(m_nanos) 0) (fun w => w @> uint32 16 @> int32 message.(m_nanos)).

(** [Timestamp.encode(toTimestamp(date), writer)] *)
Definition encode_time (date : date) (writer : Writer) : Writer :=
  encode_moment (toTimestamp date) writer.

(** [fromTimestamp(Timestamp.decode(reader, reader.uint32()))] *)
Definition read_time : RM date :=
  t ← read_nested Timestamp.decode; mret (fromTimestamp t).

End wire.

(** ** Milliseconds, seconds and nanoseconds *)

Definition date_ok (d : date) : Prop := date_valid d = true.

Lemma date_ok_millis d : date_ok d → ∃ ms, d = mkDate (Int ms) ∧ Z.abs ms <= MAX_TIME.
Proof.
  destruct d as [[ms|]]; unfold date_ok, date_valid; simpl; [|done].
  intros H%Z.leb_le. eauto.
Qed.

(** The timestamp of a time value: both parts have its sign. *)
Definition timestamp_of (ms : Z) : Timestamp.t :=
  Timestamp.mk (Int (Z.quot ms 1000)) (Int (Z.rem ms 1000 * 1000000)).

Lemma quot_rem_1000 ms :
  Z.abs ms <= MAX_TIME →
  ms = Z.quot ms 1000 * 1000 + Z.rem ms 1000 ∧
  Z.abs (Z.quot ms 1000) <= 8640000000000 ∧ Z.abs (Z.rem ms 1000) < 1000.
Proof.
  unfold MAX_TIME. intros H. pose proof (Z.quot_rem ms 1000 ltac:(lia)).
  pose proof (Z.rem_bound_abs ms 1000 ltac:(lia)). lia.
Qed.

Lemma new_Date_exact ms d :
  0 < d → Z.abs ms <= MAX_TIME → new_Date (ms * d, d) = mkDate (Int ms).
Proof.
  intros Hd Hms. unfold new_Date, trunc. cbn [fst snd].
  rewrite Z.abs_mul, (Z.abs_eq d), Z.quot_mul by lia.
  destruct (Z.ltb_spec (MAX_TIME * d) (Z.abs ms * d)); [nia|done].
Qed.

(** No date is lost in its timestamp. *)
Lemma fromTimestamp_of ms :
  Z.abs ms <= MAX_TIME → fromTimestamp (timestamp_of ms) = mkDate (Int ms).
Proof.
  intros Hms. destruct (quot_rem_1000 ms Hms) as (Heq & Hq & Hr).
  unfold fromTimestamp, timestamp_of. cbn [Timestamp.seconds Timestamp.nanos].
  rewrite round_double_safe by (unfold MAX_SAFE_INTEGER; lia).
  destruct (round_ratio_exact (Z.rem ms 1000) 1000000) as (d & Hd & ->); [lia..|]. cbn [fst snd].
  rewrite <- Z.mul_add_distr_r, <- Heq.
  destruct (round_ratio_exact ms d) as (d' & Hd' & ->); [lia| |by apply new_Date_exact].
  unfold MAX_TIME in Hms. lia.
Qed.

Lemma thousandth_zero ms :
  Z.abs ms <= MAX_TIME → negb ((round_ratio ms 1000).1 =? 0) = negb (ms =? 0).
Proof.
  intros Hms. f_equal. unfold round_ratio. destruct (Z.eqb_spec ms 0) as [->|H0]; [done|].
  assert (exponent (Z.abs ms) 1000 <= 42) as He by (apply exponent_le; unfold MAX_TIME in Hms; lia).
  destruct (Z.leb_spec 0 (52 - exponent (Z.abs ms) 1000)) as [Hs|]; [|lia]. cbn [fst].
  set (d := 2 ^ _). assert (1024 <= d) as Hd by (change 1024 with (2 ^ 10); apply Z.pow_le_mono_r; lia).
  pose proof (div_nearest_error (Z.abs ms * d) 1000 ltac:(lia)) as Herr.
  apply Z.eqb_neq. pose proof (Z.sgn_spec ms). nia.
Qed.

Lemma round_ratio_pos p q : 0 < q → 0 < (round_ratio p q).2.
Proof.
  intros Hq. unfold round_ratio. destruct (p =? 0); [done|].
  destruct (Z.leb_spec 0 (52 - exponent (Z.abs p) q)); cbn [snd]; lia.
Qed.

(** ** The wire form *)

Section codec.
Context {PB : Protobuf} {PS : ProtobufSpec PB}.

(** What is written for a date: the seconds are written unless the whole time
    value is 0, so a date less than a second from the epoch has seconds 0 on the
    wire, which proto3 leaves out. *)
Definition wire_time (d : date) : bytes :=
  match d.(getTime) with
  | Int ms => (if ms =? 0 then [] else f_value 8 (e_int64 (Z.quot ms 1000))) ++
              f_number e_int32 16 (Int (Z.rem ms 1000 * 1000000))
  | NaN => []
  end.

Lemma writes_seconds ms :
  Z.abs ms <= MAX_TIME →
  writes (when (negb ((round_ratio ms 1000).1 =? 0))
            (fun w => w @> uint32 8 @> int64_fraction (round_ratio ms 1000)))
         (if ms =? 0 then [] else f_value 8 (e_int64 (Z.quot ms 1000))).
Proof.
  intros Hms w. rewrite thousandth_zero by done.
  destruct (ms =? 0); unfold when; cbn [negb]; [by rewrite emit_nil|].
  destruct (quot_rem_1000 ms Hms) as (_ & Hq & _). unfold MAX_TIME in Hms.
  rewrite view_int64_fraction, trunc_thousandth, view_uint32, emit_emit;
    rewrite ?trunc_thousandth; try lia; [done|by apply round_ratio_pos].
Qed.

Lemma writes_time d : date_ok d → writes (encode_time d) (wire_time d).
Proof.
  intros (ms & -> & Hms)%date_ok_millis w.
  unfold encode_time, encode_moment, toTimestamp, wire_time.
  cbn [getTime m_seconds m_nanos]. rewrite writes_int32; [|lia|].
  - by rewrite writes_seconds, emit_emit.
  - destruct (quot_rem_1000 ms Hms) as (_ & _ & Hr). simpl. lia.
Qed.

Lemma steps_time ms :
  Z.abs ms <= MAX_TIME →
  steps Timestamp.decode_field (wire_time (mkDate (Int ms))) Timestamp.base (timestamp_of ms).
Proof.
  intros Hms. destruct (quot_rem_1000 ms Hms) as (Heq & Hq & Hr).
  unfold wire_time, timestamp_of. cbn [getTime].
  apply (steps_app _ _ _ _ (Timestamp.mk (Int (Z.quot ms 1000)) 0)).
  - destruct (Z.eqb_spec ms 0) as [->|]; [constructor|].
    apply steps_field; [lia|]. cbn [field_number]. eapply reads_bind; [|reflexivity].
    apply reads_int64. split; unfold MAX_SAFE_INTEGER; [lia|].
    apply is_double_safe. unfold MAX_SAFE_INTEGER. lia.
  - eapply steps_number; [lia|cbn [field_number]; eapply reads_bind; [|reflexivity]|].
    + apply reads_int32. simpl. lia.
    + destruct (Z.eqb_spec (Z.rem ms 1000 * 1000000) 0) as [->|]; done.
Qed.

Lemma reads_time d : date_ok d → small (wire_time d) →
  reads_value read_time (delimited (wire_time d)) d.
Proof.
  intros (ms & -> & Hms)%date_ok_millis Hs. unfold read_time. eapply reads_bind.
  - apply reads_delimited; [done|]. intros pre post.
    apply decode_message_steps. by apply steps_time.
  - by rewrite fromTimestamp_of.
Qed.

Lemma read_time_advances : advances 0 read_time.
Proof.
  apply advances_bind; [|intros; apply advances_ret].
  apply advances_nested. intros length. exact (@decode_advances _ _ Timestamp.t _ _ length).
Qed.

End codec.

#[export] Hint Resolve read_time_advances : dcl.

(** ** The JSON form *)

Lemma fromJsonTimestamp_toISOString d :
  date_valid d = true → ∃ text, toISOString d = Ok text ∧ fromJsonTimestamp (Str text) = Ok d.
Proof. apply parse_toISOString. Qed.
