(* ===== verification/Base64.v ===== *)
(** * Base64

    The codecs of messages with byte fields convert them with
    [bytesFromBase64] and [base64FromBytes], two functions at the end of each
    such file, over the platform's [atob] and [btoa].  A binary string, whose
    characters are codes from 0 to 255, is the list of those codes. *)
From S2P Require Import Prelude Js Protobuf.
Open Scope Z_scope.

(** ** The alphabet *)

Definition code (c : ascii) : Z := Z.of_N (N_of_ascii c).
Definition of_code (z : Z) : ascii := ascii_of_N (Z.to_N z).

Definition b64_char (n : Z) : ascii :=
  if n <? 26 then of_code (65 + n)                  (* A-Z *)
  else if n <? 52 then of_code (97 + (n - 26))      (* a-z *)
  else if n <? 62 then of_code (48 + (n - 52))      (* 0-9 *)
  else if n =? 62 then "+"%char else "/"%char.

Definition b64_value (c : ascii) : option Z :=
  let n := code c in
  if (65 <=? n) && (n <=? 90) then Some (n - 65)
  else if (97 <=? n) && (n <=? 122) then Some (n - 97 + 26)
  else if (48 <=? n) && (n <=? 57) then Some (n - 48 + 52)
  else if n =? 43 then Some 62
  else if n =? 47 then Some 63
  else None.

(** ** [btoa] *)

(** Four characters for three bytes, the last group padded. *)
Fixpoint btoa_go (b : bytes) : list ascii :=
  match b with
  | [] => []
  | [x] =>
      [b64_char (code x / 4); b64_char (code x mod 4 * 16); "="%char; "="%char]
  | [x; y] =>
      [b64_char (code x / 4); b64_char (code x mod 4 * 16 + code y / 16);
       b64_char (code y mod 16 * 4); "="%char]
  | x :: y :: z :: b' =>
      b64_char (code x / 4) :: b64_char (code x mod 4 * 16 + code y / 16) ::
      b64_char (code y mod 16 * 4 + code z / 64) :: b64_char (code z mod 64) :: btoa_go b'
  end.

Definition btoa (bin : bytes) : string := of_chars (btoa_go bin).

(** ** [atob]

    The forgiving decoder of the platform: white space is dropped, the padding
    is optional, and any other character outside the alphabet, or a length
    that leaves one character over, throws an [InvalidCharacterError]. *)

Definition is_ascii_space (c : ascii) : bool :=
  let n := code c in (n =? 9) || (n =? 10) || (n =? 12) || (n =? 13) || (n =? 32).

Definition is_pad (c : ascii) : bool := Ascii.eqb c "="%char.

Definition strip_padding (l : list ascii) : list ascii :=
  if Nat.eqb (length l mod 4) 0 then
    match rev l with
    | c :: d :: r => if is_pad c then if is_pad d then rev r else rev (d :: r) else l
    | _ => l
    end
  else l.

Fixpoint bytes_of_sextets (l : list Z) : bytes :=
  match l with
  | a :: b :: c :: d :: l' =>
      of_code (a * 4 + b / 16) :: of_code (b mod 16 * 16 + c / 4) ::
      of_code (c mod 4 * 64 + d) :: bytes_of_sextets l'
  | [a; b; c] => [of_code (a * 4 + b / 16); of_code (b mod 16 * 16 + c / 4)]
  | [a; b] => [of_code (a * 4 + b / 16)]
  | _ => []
  end.

Definition InvalidCharacterError : exn := Thrown (Obj [("name", Str "InvalidCharacterError")]).

Definition atob (b64 : string) : result bytes :=
  let data := strip_padding (List.filter (fun c => negb (is_ascii_space c)) (chars b64)) in
  if Nat.eqb (length data mod 4) 1 then Err InvalidCharacterError
  else match mapM b64_value data with
       | Some sextets => Ok (bytes_of_sextets sextets)
       | None => Err InvalidCharacterError
       end.

(** ** The functions of the repository *)

(** The loop copies the character codes of the binary string. *)
Definition bytesFromBase64 (b64 : js) : result bytes := atob (js_String b64).

Definition base64FromBytes (arr : bytes) : string := btoa arr.

(** ** Decoding what was encoded *)

Lemma code_range c : 0 <= code c < 256.
Proof. unfold code. pose proof (N_ascii_bounded c). lia. Qed.

Lemma of_code_code c : of_code (code c) = c.
Proof. unfold of_code, code. by rewrite N2Z.id, ascii_N_embedding. Qed.

(** A fact about the sextets, by running through them. *)
Definition sextets : list Z := map Z.of_nat (seq 0 64).

Lemma each_sextet (p : Z → bool) : forallb p sextets = true → ∀ n, 0 <= n < 64 → p n = true.
Proof.
  intros H n Hn. rewrite forallb_forall in H. apply H. unfold sextets. apply in_map_iff.
  exists (Z.to_nat n). rewrite in_seq. lia.
Qed.

Definition sextet_ok (n : Z) : bool :=
  let c := b64_char n in
  match b64_value c with Some m => m =? n | None => false end &&
  negb (is_ascii_space c) && negb (is_pad c).

Lemma b64_char_ok n : 0 <= n < 64 →
  b64_value (b64_char n) = Some n ∧ is_ascii_space (b64_char n) = false ∧
  is_pad (b64_char n) = false.
Proof.
  intros Hn. assert (sextet_ok n = true) as H by (apply each_sextet; [by vm_compute|done]).
  unfold sextet_ok in H. rewrite !andb_true_iff, !negb_true_iff in H.
  destruct H as [[Hv Hs] Hp]. destruct (b64_value (b64_char n)); [|done].
  apply Z.eqb_eq in Hv as ->. done.
Qed.

Lemma by_three (P : bytes → Prop) :
  P [] → (∀ x, P [x]) → (∀ x y, P [x; y]) →
  (∀ x y z b, P b → P (x :: y :: z :: b)) → ∀ b, P b.
Proof.
  intros H0 H1 H2 H3.
  refine (fix go b := match b with
    | [] => H0 | [x] => H1 x | [x; y] => H2 x y
    | x :: y :: z :: b' => H3 x y z b' (go b') end).
Qed.

(** What [btoa] writes: the characters of the sextets, then the padding. *)
Definition b64_split (b : bytes) (s : list Z) (p : list ascii) : Prop :=
  btoa_go b = map b64_char s ++ p ∧ Forall (fun n => 0 <= n < 64) s ∧ bytes_of_sextets s = b ∧
  ((p = [] ∧ length s mod 4 = 0) ∨ (p = ["="%char] ∧ length s mod 4 = 3) ∨
   (p = ["="%char; "="%char] ∧ length s mod 4 = 2))%nat.

Ltac bytes_lia :=
  repeat match goal with
  | |- context [code ?x] =>
      pose proof (code_range x);
      let n := fresh "n" in set (n := code x) in *; clearbody n
  end;
  Z.to_euclidean_division_equations; lia.

Lemma sextet_bytes x y z :
  of_code (code x / 4 * 4 + (code x mod 4 * 16 + code y / 16) / 16) = x ∧
  of_code ((code x mod 4 * 16 + code y / 16) mod 16 * 16 +
    (code y mod 16 * 4 + code z / 64) / 4) = y ∧
  of_code ((code y mod 16 * 4 + code z / 64) mod 4 * 64 + code z mod 64) = z.
Proof.
  pose proof (code_range x). pose proof (code_range y). pose proof (code_range z).
  split_and!; (etrans; [|apply of_code_code]); f_equal; bytes_lia.
Qed.

Lemma btoa_go_split b : ∃ s p, b64_split b s p.
Proof.
  unfold b64_split. induction b as [|x|x y|x y z b (s & p & Hb & Hs & Hd & Hp)] using by_three.
  - exists [], []. naive_solver.
  - exists [code x / 4; code x mod 4 * 16], ["="%char; "="%char]. split_and!; [done|..|naive_solver].
    + repeat constructor; bytes_lia.
    + simpl. f_equal. etrans; [|apply of_code_code]. f_equal. bytes_lia.
  - exists [code x / 4; code x mod 4 * 16 + code y / 16; code y mod 16 * 4], ["="%char].
    split_and!; [done|..|naive_solver].
    + repeat constructor; bytes_lia.
    + simpl. repeat f_equal; (etrans; [|apply of_code_code]); f_equal; bytes_lia.
  - eexists (_ :: _ :: _ :: _ :: s), p. split_and!.
    + simpl. by rewrite Hb.
    + repeat (constructor; [bytes_lia|]). done.
    + cbn [bytes_of_sextets]. destruct (sextet_bytes x y z) as (Hx & Hy & Hz).
      by rewrite Hx, Hy, Hz, Hd.
    + change (length (_ :: _ :: _ :: _ :: s)) with (4 + length s)%nat.
      replace ((4 + length s) mod 4)%nat with (length s mod 4)%nat; [done|].
      rewrite Nat.add_comm. by rewrite <- (Nat.Div0.mod_add (length s) 1 4).
Qed.

Lemma filter_all {A : Type} (p : A → bool) l : Forall (fun x => p x = true) l → List.filter p l = l.
Proof. induction 1 as [|x l Hx _ IH]; simpl; [done|]. by rewrite Hx, IH. Qed.

Lemma last_not_pad s c r :
  Forall (fun n => 0 <= n < 64) s → rev (map b64_char s) = c :: r → is_pad c = false.
Proof.
  intros Hs. rewrite <- map_rev. destruct (rev s) as [|n s'] eqn:E; [done|]. intros [= <- _].
  apply b64_char_ok. rewrite Forall_forall in Hs. apply Hs.
  rewrite <- (rev_involutive s), E. apply in_app_iff. right. by left.
Qed.

Lemma strip_padding_split b s p :
  b64_split b s p → strip_padding (btoa_go b) = map b64_char s.
Proof.
  intros (-> & Hs & _ & Hp). unfold strip_padding. rewrite length_app, length_map, rev_app_distr.
  pose proof (last_not_pad s) as Hlast.
  destruct Hp as [[-> Hm]|[[-> Hm]|[-> Hm]]]; cbn [length rev app].
  - rewrite Nat.add_0_r, Hm, app_nil_r. cbn [Nat.eqb].
    destruct (rev (map b64_char s)) as [|c [|d r]] eqn:E; [done|done|].
    by rewrite (Hlast c (d :: r)).
  - replace (Nat.eqb ((length s + 1) mod 4) 0) with true
      by (by rewrite Nat.Div0.add_mod, Hm).
    destruct (rev (map b64_char s)) as [|c r] eqn:E.
    + apply (f_equal (@rev _)) in E. rewrite rev_involutive in E.
      destruct s; done.
    + cbn. rewrite (Hlast c r) by done.
      change (rev (c :: r) = map b64_char s). by rewrite <- E, rev_involutive.
  - replace (Nat.eqb ((length s + 2) mod 4) 0) with true
      by (by rewrite Nat.Div0.add_mod, Hm).
    cbn. by rewrite rev_involutive.
Qed.

Lemma no_spaces b s p :
  b64_split b s p → List.filter (fun c => negb (is_ascii_space c)) (btoa_go b) = btoa_go b.
Proof.
  intros (-> & Hs & _ & Hp). apply filter_all, Forall_app. split.
  - apply Forall_map. refine (Forall_impl _ _ Hs). intros n Hn.
    by destruct (b64_char_ok n Hn) as (_ & -> & _).
  - destruct Hp as [[-> _]|[[-> _]|[-> _]]]; repeat constructor.
Qed.

Lemma atob_btoa bin : atob (btoa bin) = Ok bin.
Proof.
  destruct (btoa_go_split bin) as (s & p & H). unfold atob, btoa, of_chars, chars.
  rewrite String.list_ascii_of_string_of_list_ascii, (no_spaces _ _ _ H),
    (strip_padding_split _ _ _ H), length_map.
  destruct H as (_ & Hs & Hd & Hp).
  destruct (Nat.eqb_spec (length s mod 4) 1) as [E|_]; [lia|].
  replace (mapM b64_value (map b64_char s)) with (Some s); [by rewrite Hd|].
  symmetry. apply mapM_Some. clear -Hs.
  induction Hs as [|n s Hn _ IH]; simpl; [constructor|]. constructor; [|done].
  by apply b64_char_ok.
Qed.

Lemma bytesFromBase64_base64FromBytes arr :
  bytesFromBase64 (Str (base64FromBytes arr)) = Ok arr.
Proof. apply atob_btoa. Qed.
