(* ===== verification/Fallible.v ===== *)
(** * Messages whose encoding may throw

    A byte field is missing from the [base] object of its message type, so
    [decode] and [fromJSON] leave it [undefined] when the input has none, and
    [encode] reads the [length] of [undefined] and throws a [TypeError].  The
    message types with a byte field, directly or in a nested message, have
    their own contract: [typed] tells the messages that have the type their
    TypeScript file declares, [normal] is what is read back.  So have the
    message types with an enumeration or a date field, whose JSON form is
    partial: the members of an enumeration have names, other numbers do not,
    and [toISOString] throws on an invalid date. *)
From S2P Require Import Prelude Js Calendar Protobuf Codec TimeTypes Dates Base64.
Open Scope Z_scope.

(** ** The statements of [encode] *)

(** [w @>= f @>= g] runs [f] and then [g], unless [f] throws. *)
Definition and_then {A B : Type} (r : result A) (f : A → result B) : result B := r ≫= f.
Arguments and_then {A B} r f : simpl never.
Notation "m @>= f" := (and_then m f) (at level 50, left associativity) : chain_scope.

Section statements.
Context {PB : Protobuf}.

(** A statement that cannot throw. *)
Definition pure (f : Writer → Writer) (w : Writer) : result Writer := Ok (f w).

(** [if (o.length !== 0) { writer.uint32(tag).bytes(o); }] *)
Definition bytes_field (tag : Z) (o : option bytes) (w : Writer) : result Writer :=
  match o with
  | None => Err (TypeError "Cannot read properties of undefined (reading 'length')")
  | Some b => Ok (when (negb (blen b =? 0)) (fun w => w @> uint32 tag @> bytes_ b) w)
  end.

(** [for (const v of l) f(v)] *)
Fixpoint each_e {A : Type} (l : list A) (f : A → Writer → result Writer) (w : Writer)
    : result Writer :=
  match l with
  | [] => Ok w
  | v :: l' => f v w @>= each_e l' f
  end.

(** [if (o !== undefined) { f(o) }] *)
Definition defined_e {A : Type} (o : option A) (f : A → Writer → result Writer) (w : Writer)
    : result Writer :=
  match o with None => Ok w | Some v => f v w end.

(** [T.encode(v, writer.uint32(tag).fork()).ldelim()] *)
Definition submessage {A : Type} (tag : Z) (encode : A → Writer → result Writer) (v : A)
    (w : Writer) : result Writer :=
  encode v (w @> uint32 tag @> fork) @>= fun w' => Ok (w' @> ldelim).

(** Whether a byte field holds an array. *)
Definition given (o : option bytes) : bool := match o with Some _ => true | None => false end.

(** An empty array is not written, so it is not read back. *)
Definition nonempty (o : option bytes) : option bytes :=
  match o with Some b => if blen b =? 0 then None else Some b | None => None end.

Definition later_bytes (old new : option bytes) : option bytes :=
  match new with Some b => if blen b =? 0 then old else Some b | None => old end.

End statements.

Arguments pure {PB} f w : simpl never.
Arguments bytes_field {PB} tag o w : simpl never.
Arguments defined_e {PB A} o f w : simpl never.
Arguments submessage {PB A} tag encode v w : simpl never.

(** ** What a statement writes, and when it throws *)

Section writing.
Context {PB : Protobuf} {PS : ProtobufSpec PB}.

Definition f_bytes (tag : Z) (o : option bytes) : bytes :=
  match o with
  | Some b => if blen b =? 0 then [] else f_value tag (delimited b)
  | None => []
  end.

(** A writer with the given contents was returned. *)
Definition written (r : result Writer) (v : wview) : Prop := ∃ w, r = Ok w ∧ view w = v.

Definition writes_e (f : Writer → result Writer) (b : bytes) : Prop :=
  ∀ w, written (f w) (emit b (view w)).

Lemma written_ret w : written (Ok w) (emit [] (view w)).
Proof. exists w. by rewrite emit_nil. Qed.

Lemma written_bind r v f b : written r v → writes_e f b → written (r @>= f) (emit b v).
Proof. intros (w & -> & <-) Hf. apply Hf. Qed.

Lemma written_eq r v v' : written r v → v = v' → written r v'.
Proof. by intros ? <-. Qed.

Lemma writes_pure f b : writes f b → writes_e (pure f) b.
Proof. intros Hf w. exists (f w). by rewrite Hf. Qed.

Lemma writes_bytes tag o :
  given o = true → 0 <= tag < 2 ^ 32 → small (f_bytes tag o) →
  writes_e (bytes_field tag o) (f_bytes tag o).
Proof.
  intros Hg Ht Hs w. destruct o as [b|]; [|done]. eexists. split; [reflexivity|].
  unfold f_bytes, when in *. destruct (blen b =? 0); simpl; [by rewrite emit_nil|].
  apply small_app_r, small_app_r in Hs. by rewrite view_bytes, view_uint32, emit_emit.
Qed.

(** A byte array that is written whatever its length: an element of a repeated
    field, or the member of a oneof. *)
Definition raw (b : bytes) : bytes := b.

Lemma writes_bytes_item tag b :
  0 <= tag < 2 ^ 32 → small (f_value tag (delimited (raw b))) →
  writes (fun w => bytes_ b (uint32 tag w)) (f_value tag (delimited (raw b))).
Proof.
  intros Ht Hs w. apply small_app_r, small_app_r in Hs. by rewrite view_bytes, view_uint32, emit_emit.
Qed.

(** [for (const v of l) writer.uint32(tag).bytes(v)] *)
Lemma writes_repeated_bytes tag l :
  0 <= tag < 2 ^ 32 → small (f_repeated tag raw l) →
  writes (each l (fun v w => bytes_ v (uint32 tag w))) (f_repeated tag raw l).
Proof.
  intros Ht Hs. eapply (writes_each _ _ (fun _ => True)); [|by apply Forall_true|done].
  intros v _ Hsv. by apply writes_bytes_item.
Qed.

(** [if (o !== undefined) { writer.uint32(tag).bytes(o); }] *)
Lemma writes_optional_bytes tag o :
  0 <= tag < 2 ^ 32 → small (f_message tag raw o) →
  writes (defined o (fun v w => bytes_ v (uint32 tag w))) (f_message tag raw o).
Proof.
  intros Ht Hs. destruct o as [b|]; [by apply writes_bytes_item|].
  intros w. simpl. by rewrite emit_nil.
Qed.

Lemma all_defined {A : Type} (o : option A) : from_option (fun _ => True) True o.
Proof. by destruct o. Qed.

(** [throws_unless r ok]: [r] is a writer when [ok] holds and a [TypeError]
    otherwise. *)
Definition throws_unless (r : result Writer) (ok : bool) : Prop :=
  match r with
  | Ok _ => ok = true
  | Err e => ok = false ∧ ∃ text, e = TypeError text
  end.

Lemma throws_ret w : throws_unless (Ok w) true.
Proof. done. Qed.

Lemma throws_bind r a f b :
  throws_unless r a → (∀ w, throws_unless (f w) b) → throws_unless (r @>= f) (a && b).
Proof.
  intros Hr Hf. destruct r as [w|e]; simpl in *; [by rewrite Hr; apply Hf|].
  destruct Hr as [-> He]. done.
Qed.

Lemma throws_pure f w : throws_unless (pure f w) true.
Proof. done. Qed.

Lemma throws_bytes tag o w : throws_unless (bytes_field tag o w) (given o).
Proof. destruct o; simpl; [done|]. by eauto. Qed.

Lemma throws_eq r a b : throws_unless r a → a = b → throws_unless r b.
Proof. by intros ? <-. Qed.

End writing.

Arguments f_bytes {PB PS} tag o : simpl never.

Section reading.
Context {PB : Protobuf} {PS : ProtobufSpec PB}.
Context {A : Type} (field : Z → A → RM A).

Lemma reads_bytes b : small b → reads_value read_bytes (delimited b) b.
Proof. intros H pre post. by apply read_bytes_spec. Qed.

Lemma steps_bytes tag o m (upd : bytes → A) m' :
  0 <= tag < 2 ^ 32 → small (f_bytes tag o) →
  (∀ b, small b → reads_value (field tag m) (delimited b) (upd b)) →
  m' = match o with Some b => if blen b =? 0 then m else upd b | None => m end →
  steps field (f_bytes tag o) m m'.
Proof.
  intros Ht Hs Hr ->. destruct o as [b|]; [|constructor]. unfold f_bytes in *.
  destruct (blen b =? 0); [constructor|]. apply steps_field; [done|]. apply Hr.
  by apply small_app_r, small_app_r in Hs.
Qed.

(** A nested message, read as [nf] of what was written. *)
Lemma steps_nested {B : Type} tag (e : B → bytes) (ok : B → Prop) (nf : B → B) o m (upd : B → A) m' :
  0 <= tag < 2 ^ 32 → from_option ok True o → small (f_message tag e o) →
  (∀ v, ok v → small (e v) → reads_value (field tag m) (delimited (e v)) (upd (nf v))) →
  m' = match o with None => m | Some v => upd (nf v) end →
  steps field (f_message tag e o) m m'.
Proof.
  intros Ht Hv Hs Hr ->. by apply (steps_message field tag e ok o m (fun v => upd (nf v))).
Qed.

Lemma later_bytes_base o : later_bytes None o = nonempty o.
Proof. done. Qed.

End reading.

(** ** The contract *)

Class FallibleCodec {PB : Protobuf} (T : Type) := {
  fmsg_base : T;
  fmsg_encode : T → Writer → result Writer;
  fmsg_field : Z → T → RM T;
}.

Definition fmsg_decode {PB : Protobuf} {T : Type} {C : FallibleCodec T} (length : option Z) : RM T :=
  decode_message length fmsg_base fmsg_field.

Class FallibleSpec {PB : Protobuf} (PS : ProtobufSpec PB) (T : Type) {C : FallibleCodec T} := {
  fmsg_wire : T → bytes;          (* the bytes [encode] writes *)
  fmsg_valid : T → Prop;          (* its numbers fit their protobuf types *)
  fmsg_typed : T → bool;          (* its byte fields hold arrays *)
  fmsg_normal : T → T;            (* the message with its empty arrays left out *)
  fmsg_merge : T → T → T;         (* the message read from two encodings in a row *)
  fencode_wire m : fmsg_typed m = true → fmsg_valid m → small (fmsg_wire m) →
    writes_e (fmsg_encode m) (fmsg_wire m);
  fencode_throws m w : throws_unless (fmsg_encode m w) (fmsg_typed m);
  fdecode_wire m0 m : fmsg_valid m → small (fmsg_wire m) →
    steps fmsg_field (fmsg_wire m) m0 (fmsg_merge m0 m);
  fmerge_base m : fmsg_merge fmsg_base m = fmsg_normal m;
  fdecode_advances length : advances 0 (fmsg_decode length);
}.

Section fallible.
Context {PB : Protobuf} {PS : ProtobufSpec PB}.
Context {T : Type} {C : FallibleCodec T} {MS : FallibleSpec PS T}.

Lemma fdecode_base m :
  fmsg_valid m → small (fmsg_wire m) → steps fmsg_field (fmsg_wire m) fmsg_base (fmsg_normal m).
Proof. intros. rewrite <- fmerge_base. by apply fdecode_wire. Qed.

Lemma reads_fnested m : fmsg_valid m → small (fmsg_wire m) →
  reads_value (read_nested fmsg_decode) (delimited (fmsg_wire m)) (fmsg_normal m).
Proof.
  intros Hv Hs. apply reads_delimited; [done|]. intros pre post.
  apply decode_message_steps. by apply fdecode_base.
Qed.

Lemma writes_submessage tag m :
  fmsg_typed m = true → fmsg_valid m → 0 <= tag < 2 ^ 32 →
  small (f_value tag (delimited (fmsg_wire m))) →
  writes_e (submessage tag fmsg_encode m) (f_value tag (delimited (fmsg_wire m))).
Proof.
  intros Hm Hv Ht Hs w. apply small_app_r, small_app_r in Hs.
  destruct (fencode_wire m Hm Hv Hs (fork (uint32 tag w))) as (w' & He & Hw).
  exists (ldelim w'). unfold submessage. rewrite He. split; [done|].
  erewrite view_ldelim; [|rewrite Hw, view_fork, view_uint32 by done; reflexivity|done].
  unfold emit, f_value, delimited. simpl. by rewrite !(assoc_L (++)).
Qed.

Lemma writes_fmessage tag o :
  from_option fmsg_typed true o = true → from_option fmsg_valid True o → 0 <= tag < 2 ^ 32 →
  small (f_message tag fmsg_wire o) →
  writes_e (defined_e o (submessage tag fmsg_encode)) (f_message tag fmsg_wire o).
Proof.
  intros Hm Hv Ht Hs. destruct o as [m|]; [by apply writes_submessage|].
  intros w. exists w. by rewrite emit_nil.
Qed.

Lemma writes_frepeated tag l :
  forallb fmsg_typed l = true → Forall fmsg_valid l → 0 <= tag < 2 ^ 32 →
  small (f_repeated tag fmsg_wire l) →
  writes_e (each_e l (submessage tag fmsg_encode)) (f_repeated tag fmsg_wire l).
Proof.
  intros Hm Hv Ht. unfold f_repeated. induction Hv as [|m l Hmv _ IH]; simpl in *.
  - intros _ w. exists w. by rewrite emit_nil.
  - apply andb_true_iff in Hm as [Hm Hl]. intros Hs w.
    destruct (writes_submessage tag m Hm Hmv Ht (small_app_l _ _ Hs) w) as (w1 & -> & Hw1).
    destruct (IH Hl (small_app_r _ _ Hs) w1) as (w2 & He & Hw2).
    exists w2. split; [exact He|]. by rewrite Hw2, Hw1, emit_emit.
Qed.

Lemma throws_submessage tag m w : throws_unless (submessage tag fmsg_encode m w) (fmsg_typed m).
Proof.
  unfold submessage. rewrite <- (andb_true_r (fmsg_typed m)).
  apply throws_bind; [apply fencode_throws|]. done.
Qed.

Lemma throws_fmessage tag o w :
  throws_unless (defined_e o (submessage tag fmsg_encode) w) (from_option fmsg_typed true o).
Proof. destruct o; [apply throws_submessage|done]. Qed.

Lemma throws_frepeated tag l w :
  throws_unless (each_e l (submessage tag fmsg_encode) w) (forallb fmsg_typed l).
Proof.
  revert w. induction l as [|m l IH]; intros w; simpl; [done|].
  apply throws_bind; [apply throws_submessage|apply IH].
Qed.

End fallible.

#[export] Hint Rewrite later_bytes_base : dcl.

(** ** Tactics for the proofs of one message type *)

Ltac writes_e_field :=
  first
    [ apply writes_pure;
      eapply (writes_message encode_time wire_time date_ok);
      [intros; by apply writes_time|lia|assumption|assumption]
    | apply writes_pure, writes_repeated_bytes; [lia|assumption]
    | apply writes_pure, writes_optional_bytes; [lia|assumption]
    | apply writes_pure; writes_field
    | apply writes_bytes; [assumption|lia|assumption]
    | match goal with
      | |- writes_e (@each_e _ ?B _ _) _ =>
          refine (@writes_frepeated _ _ B _ _ _ _ _ _ _ _); [assumption|assumption|lia|assumption]
      | |- writes_e (@defined_e _ ?B _ _) _ =>
          refine (@writes_fmessage _ _ B _ _ _ _ _ _ _ _); [assumption|assumption|lia|assumption]
      end ].

Ltac written_go :=
  lazymatch goal with
  | |- written (_ @>= _) _ => eapply written_bind; [written_go|writes_e_field]
  | |- written (Ok _) _ => apply written_ret
  end.

(** Splits the conjunction [typed] is. *)
Ltac split_typed :=
  repeat match goal with
  | H : (_ && _) = true |- _ => apply andb_true_iff in H as [? ?]
  | H : true = true |- _ => clear H
  end.

Ltac solve_fencode_wire :=
  intros;
  match goal with
  | Ht : ?typed ?m = true, Hv : ?valid ?m, Hs : small (_ ?m) |- writes_e (_ ?m) _ =>
      let h := head_of typed in unfold h in Ht;
      open_message m Hv Hs; simpl in Ht; split_typed
  end;
  let w := fresh "w" in intros w;
  match goal with |- written (?enc _) _ => let h := head_of enc in unfold h end; simpl;
  eapply written_eq; [written_go|];
  rewrite ?emit_emit, ?emit_nil; reflexivity.

Ltac throws_field :=
  first
    [ apply throws_pure
    | apply throws_bytes
    | match goal with
      | |- throws_unless (@each_e _ ?B _ _ _) _ => exact (@throws_frepeated _ _ B _ _ _ _ _)
      | |- throws_unless (@defined_e _ ?B _ _ _) _ => exact (@throws_fmessage _ _ B _ _ _ _ _)
      end ].

Ltac throws_go :=
  lazymatch goal with
  | |- throws_unless (_ @>= _) _ => eapply throws_bind; [throws_go|intros; throws_field]
  | |- throws_unless (Ok _) _ => apply throws_ret
  end.

Ltac solve_fencode_throws enc typed :=
  intros;
  match goal with |- throws_unless (_ ?m ?w) _ =>
    change (throws_unless (enc m w) (typed m)); let h := head_of enc in unfold h, typed
  end;
  eapply throws_eq; [throws_go|];
  rewrite ?andb_true_r, ?andb_true_l, ?andb_assoc; reflexivity.

(** The value of a byte field or of a nested message of this kind. *)
Ltac freads_field :=
  cbn [field_number];
  eapply reads_bind;
  [ first
      [ apply (reads_bytes (raw _)); assumption
      | apply reads_bytes; assumption
      | apply reads_time; assumption
      | match goal with
        | |- reads_value _ (delimited (_ ?v)) _ =>
            let B := type of v in
            refine (@reads_fnested _ _ B _ _ v _ _); assumption
        end ]
  | reflexivity ].

(** The function of the message type behind [fmsg_normal]. *)
Ltac normal_of B k :=
  let n := constr:(@fmsg_normal _ _ B _ _) in
  let n := eval cbn in n in k n.

Ltac fstep_field :=
  first
    [ match goal with
      | |- steps ?f (f_message ?tag wire_time ?o) ?m _ =>
          assigned_field f tag m ltac:(fun p =>
            eapply (steps_message f tag wire_time date_ok o m (fun v => set_field p (Some v) m));
            [lia|assumption|assumption|intros; freads_field
            |instantiate (1 := set_field p (later_message (p m) o) m);
             destruct o; [reflexivity|generalize m; intros []; reflexivity]])
      | |- steps ?f (f_message ?tag raw ?o) ?m _ =>
          assigned_field f tag m ltac:(fun p =>
            eapply (steps_message f tag raw (fun _ => True) o m (fun v => set_field p (Some v) m));
            [lia|apply all_defined|assumption|intros; freads_field
            |instantiate (1 := set_field p (later_message (p m) o) m);
             destruct o; [reflexivity|generalize m; intros []; reflexivity]])
      | |- steps ?f (f_repeated ?tag raw ?l) ?m _ =>
          assigned_field f tag m ltac:(fun p =>
            eapply (steps_repeated f tag raw (fun _ => True) l p (fun v x => set_field p v x));
            [solve_set_laws|solve_set_laws|solve_set_laws|lia|by apply Forall_true|assumption
            |intros; freads_field])
      end
    | step_field
    | match goal with
      | |- steps ?f (f_bytes ?tag ?o) ?m _ =>
          assigned_field f tag m ltac:(fun p =>
            eapply (steps_bytes f tag o m (fun v => set_field p (Some v) m)
                      (set_field p (later_bytes (p m) o) m));
            [lia|assumption|intros; freads_field
            |destruct o as [b|]; simpl; [destruct (blen b =? 0)|];
             (reflexivity || (generalize m; intros []; reflexivity))])
      | |- steps ?f (f_message ?tag ?e ?o) ?m _ =>
          let B := lazymatch type of o with option ?B => B end in
          normal_of B ltac:(fun nf => assigned_field f tag m ltac:(fun p =>
            eapply (steps_nested f tag e fmsg_valid nf o m (fun v => set_field p (Some v) m)
                      (set_field p (later_message (p m) (nf <$> o)) m));
            [lia|assumption|assumption|intros; freads_field
            |destruct o; [reflexivity|generalize m; intros []; reflexivity]]))
      | |- steps ?f (f_repeated ?tag ?e ?l) ?m _ =>
          let B := lazymatch type of l with list ?B => B end in
          normal_of B ltac:(fun nf => assigned_field f tag m ltac:(fun p =>
            eapply (steps_items f tag e fmsg_valid nf l p (fun v x => set_field p v x));
            [solve_set_laws|solve_set_laws|solve_set_laws|lia|assumption|assumption
            |intros; freads_field]))
      end ].

Ltac fnormal_message :=
  match goal with
  | |- steps ?f ?b ?m ?m' =>
      let r := eval cbv -[String.eqb Z.eqb app later_message later_bytes map fmap option_fmap
                          nonempty blen] in m in
      change (steps f b r m')
  end.

Ltac solve_fdecode_wire :=
  intros;
  match goal with
  | Hv : _, Hs : small _ |- steps _ (?wire ?m) ?m0 (?merge ?m0 ?m) =>
      let h := head_of merge in
      open_message m Hv Hs; destruct m0;
      eapply steps_eq;
      [ repeat (eapply steps_app; [fstep_field|fnormal_message]);
        first [fstep_field | apply steps_nil]
      | unfold h; reflexivity ]
  end.

Ltac solve_fmerge_base :=
  intros;
  match goal with
  | |- ?merge ?b ?m = ?normal _ =>
      destruct m; let h := head_of merge in let h' := head_of b in unfold h, h', normal; simpl;
      autorewrite with dcl; reflexivity
  end.

Ltac solve_fadvances field :=
  intros; apply advances_decode;
  let tag := fresh "tag" in
  let m := fresh "m" in
  intros tag m; change (advances 0 (field tag m));
  let h := head_of field in unfold h;
  repeat case_match;
  (apply advances_bind; [|intros; apply advances_ret]);
  first
    [ solve [eauto with dcl]
    | apply advances_nested; intros;
      match goal with
      | |- @advances ?B _ _ => exact (@decode_advances _ _ B _ _ _)
      | |- @advances ?B _ _ => exact (@fdecode_advances _ _ B _ _ _)
      end ].

(** ** Plain objects *)

Class FalliblePartial (T P : Type) := {
  fmsg_fromPartial : P → T;
  fmsg_full : T → P;              (* a message with every property given *)
  fmsg_given : T → bool;          (* its byte fields hold arrays *)
  ffromPartial_given p : fmsg_given (fmsg_fromPartial p) = true;
  ffromPartial_full m : fmsg_given m = true → fmsg_fromPartial (fmsg_full m) = m;
}.

(** [r] is a value when [ok] holds and a [RangeError] otherwise. *)
Definition range_unless {A : Type} (r : result A) (ok : bool) : Prop :=
  match r with
  | Ok _ => ok = true
  | Err e => ok = false ∧ ∃ text, e = RangeError text
  end.

(** The message types with an enumeration: [known] is what is read back, with
    the numbers that are no member replaced. *)
Class FallibleJson (T : Type) := {
  fmsg_fromJSON : js → result T;
  fmsg_toJSON : T → js;
  fmsg_named : T → bool;          (* its enumeration fields have a name in the schema *)
  fmsg_known : T → T;
  ffromJSON_toJSON m : fmsg_fromJSON (fmsg_toJSON m) = Ok (fmsg_known m);
  fknown_named m : fmsg_named m = true → fmsg_known m = m;
}.

(** The message types with a date, directly or in a nested message. *)
Class DatedJson (T : Type) := {
  dmsg_fromJSON : js → result T;
  dmsg_toJSON : T → result js;
  dmsg_timed : T → bool;          (* its dates are valid *)
  dmsg_named : T → bool;          (* its enumeration fields have a name in the schema *)
  dmsg_known : T → T;
  dfromJSON_toJSON m : dmsg_timed m = true →
    ∃ fs, dmsg_toJSON m = Ok (Obj fs) ∧ dmsg_fromJSON (Obj fs) = Ok (dmsg_known m);
  dtoJSON_throws m : range_unless (dmsg_toJSON m) (dmsg_timed m);
  dknown_named m : dmsg_named m = true → dmsg_known m = m;
}.

Section partial.
Context {T P : Type} {D : FalliblePartial T P}.

Lemma ffromPartial_list_given l : forallb fmsg_given (map fmsg_fromPartial l) = true.
Proof. induction l; simpl; [done|]. by rewrite ffromPartial_given. Qed.

Lemma ffromPartial_option_given o : from_option fmsg_given true (fmsg_fromPartial <$> o) = true.
Proof. destruct o; simpl; [apply ffromPartial_given|done]. Qed.

Lemma ffromPartial_list l : forallb fmsg_given l = true →
  map fmsg_fromPartial (map fmsg_full l) = l.
Proof.
  induction l as [|m l IH]; simpl; [done|]. intros [Hm Hl]%andb_true_iff.
  by rewrite ffromPartial_full, IH.
Qed.

Lemma ffromPartial_option o : from_option fmsg_given true o = true →
  fmsg_fromPartial <$> (fmsg_full <$> o) = o.
Proof. destruct o; simpl; [|done]. intros. by rewrite ffromPartial_full. Qed.

End partial.

Section replaced.
Context {T : Type} (known : T → T) (named : T → bool).
Hypothesis Hknown : ∀ m, named m = true → known m = m.

Lemma known_option o : from_option named true o = true → known <$> o = o.
Proof using Hknown. destruct o as [m|]; simpl; [|done]. intros H. by rewrite Hknown. Qed.

Lemma known_list l : forallb named l = true → map known l = l.
Proof using Hknown.
  induction l as [|m l IH]; simpl; [done|]. intros [Hm Hl]%andb_true_iff. by rewrite Hknown, IH.
Qed.
End replaced.

Section json.
Context {T : Type} {D : FallibleJson T}.

Lemma ffromJSON_nested m : to_some fmsg_fromJSON (fmsg_toJSON m) = Ok (Some (fmsg_known m)).
Proof. unfold to_some. by rewrite ffromJSON_toJSON. Qed.

Lemma ffromJSON_list l :
  to_list fmsg_fromJSON (Arr (map fmsg_toJSON l)) = Ok (map fmsg_known l).
Proof.
  unfold to_list. simpl. induction l as [|m l IH]; simpl in *; [done|].
  rewrite ffromJSON_toJSON. simpl. by rewrite IH.
Qed.

(** The message types without an enumeration. *)
Lemma ffromJSON_list_same l : (∀ m, fmsg_known m = m) →
  to_list fmsg_fromJSON (Arr (map fmsg_toJSON l)) = Ok l.
Proof.
  intros H. rewrite ffromJSON_list. f_equal. rewrite <- (map_id l) at 2. by apply map_ext.
Qed.

End json.

(** A property whose value may throw: [f(o)] when [o] is defined. *)
Definition option_result {A B : Type} (f : A → result B) (o : option A) : result (option B) :=
  match o with None => Ok None | Some a => b ← f a; Ok (Some b) end.

(** The JSON form [v] of an optional field, as [g] puts it in the object, is
    read back as [o]. *)
Definition read_back {A B : Type} (conv : js → result (option A)) (g : B → js) (o : option A)
    (v : option B) : Prop :=
  match v with
  | Some b => is_nullish (g b) = false ∧ conv (g b) = Ok o
  | None => o = None
  end.

Section dated.
Context {T : Type} {D : DatedJson T}.

Lemma dfromJSON_option o : from_option dmsg_timed true o = true →
  ∃ v, option_result dmsg_toJSON o = Ok v ∧
       read_back (to_some dmsg_fromJSON) id (dmsg_known <$> o) v.
Proof.
  destruct o as [m|]; simpl; [|by exists None].
  intros (fs & H & Hf)%dfromJSON_toJSON. exists (Some (Obj fs)). rewrite H. split; [done|].
  unfold read_back, to_some, id. by rewrite Hf.
Qed.

Lemma dfromJSON_list l : forallb dmsg_timed l = true →
  ∃ vs, result_map dmsg_toJSON l = Ok vs ∧ to_list dmsg_fromJSON (Arr vs) = Ok (map dmsg_known l).
Proof.
  unfold to_list. induction l as [|m l IH]; simpl; [by exists []|].
  intros [(fs & Hm & Hf)%dfromJSON_toJSON (vs & Hl & Hv)%IH]%andb_true_iff.
  exists (Obj fs :: vs). simpl in *. by rewrite Hm, Hl, Hf, Hv.
Qed.

(** The message types with dates but without an enumeration. *)
Lemma dfromJSON_option_same o : (∀ m, dmsg_known m = m) → from_option dmsg_timed true o = true →
  ∃ v, option_result dmsg_toJSON o = Ok v ∧ read_back (to_some dmsg_fromJSON) id o v.
Proof.
  intros Hk (v & Hv & Hr)%dfromJSON_option. exists v. split; [done|].
  destruct o; simpl in Hr; [by rewrite Hk in Hr|done].
Qed.

Lemma dfromJSON_list_same l : (∀ m, dmsg_known m = m) → forallb dmsg_timed l = true →
  ∃ vs, result_map dmsg_toJSON l = Ok vs ∧ to_list dmsg_fromJSON (Arr vs) = Ok l.
Proof.
  intros Hk (vs & Hv & Hr)%dfromJSON_list. exists vs. split; [done|]. rewrite Hr. f_equal.
  rewrite <- (map_id l) at 2. by apply map_ext.
Qed.
End dated.

(** Whether the parts of [toJSON] throw. *)
Lemma range_bind {A B : Type} (r : result A) a (f : A → result B) b :
  range_unless r a → (∀ x, range_unless (f x) b) → range_unless (r ≫= f) (a && b).
Proof.
  intros Hr Hf. destruct r as [x|e]; simpl in *; [rewrite Hr; apply Hf|].
  destruct Hr as [-> He]. done.
Qed.

Lemma range_ok {A : Type} (x : A) : range_unless (Ok x) true.
Proof. done. Qed.

Lemma range_eq {A : Type} (r : result A) a b : range_unless r a → a = b → range_unless r b.
Proof. by intros ? <-. Qed.

Lemma range_option {A B : Type} (f : A → result B) (ok : A → bool) o :
  (∀ x, range_unless (f x) (ok x)) → range_unless (option_result f o) (from_option ok true o).
Proof.
  intros Hf. destruct o as [x|]; simpl; [|done]. specialize (Hf x).
  by destruct (f x).
Qed.

Lemma range_list {A B : Type} (f : A → result B) (ok : A → bool) l :
  (∀ x, range_unless (f x) (ok x)) → range_unless (result_map f l) (forallb ok l).
Proof.
  intros Hf. induction l as [|x l IH]; simpl; [done|].
  apply range_bind; [apply Hf|]. intros y. rewrite <- andb_true_r. by apply range_bind.
Qed.

Lemma range_date d : range_unless (toISOString d) (date_valid d).
Proof.
  destruct d as [[ms|]]; unfold toISOString, date_valid; simpl; [|by eauto].
  destruct (Z.abs ms <=? MAX_TIME); simpl; [done|by eauto].
Qed.

Lemma date_option o : from_option date_valid true o = true →
  ∃ v, option_result toISOString o = Ok v ∧ read_back (to_some fromJsonTimestamp) Str o v.
Proof.
  destruct o as [d|]; simpl; [|by exists None].
  intros (text & H & Hf)%fromJsonTimestamp_toISOString. exists (Some text). rewrite H.
  split; [done|]. unfold read_back, to_some. by rewrite Hf.
Qed.

(** ** Reading an object field by field *)

Lemma assoc_prop {A : Type} k k' (f : A → js) o rest :
  assoc k (prop_opt k' f o ++ rest) =
    if String.eqb k k' then match f <$> o with Some v => Some v | None => assoc k rest end
    else assoc k rest.
Proof. destruct o; simpl; by destruct (String.eqb k k'). Qed.

Lemma assoc_prop_last {A : Type} k k' (f : A → js) o :
  assoc k (prop_opt k' f o) = if String.eqb k k' then f <$> o else None.
Proof. destruct o; simpl; by destruct (String.eqb k k'). Qed.

Lemma option_eta {A : Type} (o : option A) : match o with Some v => Some v | None => None end = o.
Proof. by destruct o. Qed.

Lemma bind_field {A B : Type} (m : result A) (f : A → result B) a r :
  m = Ok a → f a = r → (m ≫= f) = r.
Proof. by intros -> <-. Qed.

(** A property that is always there. *)
Lemma field_value {A : Type} fs k (conv : js → result A) d v x :
  assoc k fs = Some v → is_nullish v = false → conv v = Ok x → field_or (Obj fs) k conv d = Ok x.
Proof. intros Ha Hn Hc. unfold field_or, get. rewrite Ha. simpl. by rewrite Hn. Qed.

(** A property that is left out when the field is [undefined]. *)
Lemma field_read_back {A B : Type} fs k (conv : js → result (option A)) (g : B → js) o v :
  assoc k fs = (g <$> v) → read_back conv g o v → field_or (Obj fs) k conv None = Ok o.
Proof.
  intros Ha Hr. unfold field_or, get. rewrite Ha. destruct v as [b|]; simpl in *; [|by rewrite Hr].
  destruct Hr as [-> Hc]. exact Hc.
Qed.

Lemma read_back_id {A : Type} (conv : js → result (option A)) (g : A → js) o :
  (∀ a, o = Some a → is_nullish (g a) = false ∧ conv (g a) = Ok (Some a)) → read_back conv g o o.
Proof. destruct o; simpl; [|done]. intros H. by apply H. Qed.

Lemma read_back_known {A : Type} (conv : js → result (option A)) (g : A → js) (known : A → A) o :
  (∀ a, is_nullish (g a) = false ∧ conv (g a) = Ok (Some (known a))) →
  read_back conv g (known <$> o) o.
Proof. destruct o; simpl; [|done]. intros H. apply H. Qed.

Lemma to_some_bytes b : to_some bytesFromBase64 (Str (base64FromBytes b)) = Ok (Some b).
Proof. unfold to_some. by rewrite bytesFromBase64_base64FromBytes. Qed.

(** The conversions of the enumerations. *)
Create Rewrite HintDb named.
Create Rewrite HintDb member.

(** What is read back of an enumeration: by the list of its members. *)
Ltac solve_enum n named known toJ :=
  unfold known; destruct (named n) eqn:?H; unfold named in *;
  [ match goal with
    | H : bool_decide _ = true |- _ =>
        apply bool_decide_eq_true in H;
        repeat (apply elem_of_cons in H; destruct H as [->|H]; [reflexivity|]);
        by apply elem_of_nil in H
    end
  | unfold toJ; repeat case_match; simplify_eq; (reflexivity || discriminate) ].

(** [conv v = Ok x] for the JSON form [v] of one value. *)
Ltac json_value :=
  first
    [ eassumption
    | progress autorewrite with named; reflexivity
    | reflexivity
    | apply to_some_bytes
    | match goal with
      | |- to_list ?c (Arr (map ?f ?l)) = _ =>
          apply (to_list_map c f l);
          solve [done | json_law | intros; apply bytesFromBase64_base64FromBytes]
      | |- to_list ?c (Arr (map ?f ?l)) = _ =>
          let T := lazymatch type of l with list ?T => T end in
          first
            [ let H := constr:(@ffromJSON_list_same T _ l (fun m => eq_refl)) in
              exact (H : to_list c (Arr (map f l)) = Ok l)
            | exact (@ffromJSON_list T _ l) ]
      | |- to_some ?c (?f ?v) = _ =>
          let T := type of v in
          let H := constr:(@fromJSON_nested T _ _ v) in exact (H : to_some c (f v) = Ok (Some v))
      | |- to_some ?c (?f ?v) = _ => let T := type of v in exact (@ffromJSON_nested T _ v)
      end ].

Ltac solve_assoc :=
  cbn [assoc app String.eqb Ascii.eqb Bool.eqb];
  repeat (rewrite assoc_prop; cbn [assoc app String.eqb Ascii.eqb Bool.eqb]);
  rewrite ?assoc_prop_last; cbn [String.eqb Ascii.eqb Bool.eqb];
  rewrite ?option_eta; reflexivity.

(** The value [fromJSON] gives a field. *)
Ltac json_field :=
  first
    [ eapply field_value; [solve_assoc|reflexivity|json_value]
    | eapply field_read_back; [solve_assoc|];
      first
        [ eassumption
        | apply read_back_id;
          let a := fresh "a" in let Ha := fresh "Ha" in
          intros a Ha; rewrite ?Ha in *; simpl in *; split; [reflexivity|json_value]
        | match goal with
          | |- read_back _ _ _ ?o =>
              let T := lazymatch type of o with option ?T => T end in
              let k := constr:(@fmsg_known T _) in let k := eval cbn in k in
              apply (read_back_known _ _ k);
              intros a; split; [reflexivity|exact (@ffromJSON_nested T _ a)]
          end ] ].

Ltac json_fields m :=
  repeat (eapply bind_field; [json_field|cbv beta]);
  destruct m; reflexivity.

Ltac solve_fjson from to :=
  let m := fresh "m" in intros m; unfold from, to; json_fields m.

(** The function of the message type [T] behind [known], and its law. *)
Ltac known_of T cont :=
  first
    [ let k := constr:(@fmsg_known T _) in let k := eval cbn in k in
      let H := constr:(@fknown_named T _) in cont k H
    | let k := constr:(@dmsg_known T _) in let k := eval cbn in k in
      let H := constr:(@dknown_named T _) in cont k H ].

(** A message whose enumerations are named is read back as it is. *)
Ltac solve_known names known :=
  let m := fresh "m" in let Hn := fresh "Hn" in
  intros m Hn;
  first
    [ reflexivity
    | unfold names in Hn; split_typed; unfold known;
      repeat match goal with
      | H : from_option _ true ?o = true |- _ =>
          let T := lazymatch type of o with option ?T => T end in
          known_of T ltac:(fun k named_known =>
            rewrite (known_option k _ named_known o H : k <$> o = o)); clear H
      | H : forallb _ ?l = true |- _ =>
          let T := lazymatch type of l with list ?T => T end in
          known_of T ltac:(fun k named_known =>
            rewrite (known_list k _ named_known l H : map k l = l)); clear H
      end;
      autorewrite with member;
      destruct m; reflexivity ].

Arguments toISOString : simpl never.
Arguments fromJsonTimestamp : simpl never.

(** The JSON forms of the dates and of the nested messages that have dates. *)
Ltac dated_values :=
  repeat match goal with
  | H : from_option date_valid true ?o = true |- _ =>
      let v := fresh "v" in
      destruct (date_option o H) as (v & ? & ?); clear H
  | H : from_option _ true ?o = true |- _ =>
      let T := lazymatch type of o with option ?T => T end in
      let to := constr:(@dmsg_toJSON T _) in let to := eval cbn in to in
      let from := constr:(@dmsg_fromJSON T _) in let from := eval cbn in from in
      let k := constr:(@dmsg_known T _) in let k := eval cbn in k in
      let v := fresh "v" in
      first
        [ let Ho := constr:(@dfromJSON_option_same T _ o (fun m => eq_refl) H) in
          destruct (Ho : ∃ v, option_result to o = Ok v ∧ read_back (to_some from) id o v)
            as (v & ? & ?)
        | let Ho := constr:(@dfromJSON_option T _ o H) in
          destruct (Ho : ∃ v, option_result to o = Ok v ∧ read_back (to_some from) id (k <$> o) v)
            as (v & ? & ?) ]; clear H
  | H : forallb _ ?l = true |- _ =>
      let T := lazymatch type of l with list ?T => T end in
      let to := constr:(@dmsg_toJSON T _) in let to := eval cbn in to in
      let from := constr:(@dmsg_fromJSON T _) in let from := eval cbn in from in
      let k := constr:(@dmsg_known T _) in let k := eval cbn in k in
      let v := fresh "v" in
      first
        [ let Hl := constr:(@dfromJSON_list_same T _ l (fun m => eq_refl) H) in
          destruct (Hl : ∃ vs, result_map to l = Ok vs ∧ to_list from (Arr vs) = Ok l)
            as (v & ? & ?)
        | let Hl := constr:(@dfromJSON_list T _ l H) in
          destruct (Hl : ∃ vs, result_map to l = Ok vs ∧ to_list from (Arr vs) = Ok (map k l))
            as (v & ? & ?) ]; clear H
  end.

Ltac solve_djson from to timed :=
  let m := fresh "m" in let Hn := fresh "Hn" in
  intros m Hn; unfold timed in Hn; split_typed; dated_values; eexists;
  (split;
  [ unfold to; repeat (eapply bind_field; [eassumption|cbv beta]); reflexivity
  | unfold from; json_fields m ]).

Ltac range_part :=
  match goal with
  | |- range_unless (option_result toISOString _) _ => apply range_option; exact range_date
  | |- range_unless (option_result _ ?o) _ =>
      let T := lazymatch type of o with option ?T => T end in
      apply range_option; exact (@dtoJSON_throws T _)
  | |- range_unless (result_map _ ?l) _ =>
      let T := lazymatch type of l with list ?T => T end in
      apply range_list; exact (@dtoJSON_throws T _)
  end.

Ltac solve_dthrows to timed :=
  let m := fresh "m" in
  intros m; unfold to, timed; eapply range_eq;
  [ repeat (eapply range_bind; [range_part|intros; cbv beta]); apply range_ok
  | rewrite ?andb_true_r, ?andb_assoc; reflexivity ].

Ltac solve_fgiven from given_ :=
  let p := fresh "p" in
  intros p; destruct p; unfold from, given_; simpl;
  repeat match goal with
  | |- context [forallb ?g (map ?f ?l)] =>
      let P := lazymatch type of l with list ?P => P end in
      let H := constr:(@ffromPartial_list_given _ P _ l) in rewrite (H : forallb g (map f l) = true)
  | |- context [from_option ?g true (?f <$> ?o)] =>
      let P := lazymatch type of o with option ?P => P end in
      let H := constr:(@ffromPartial_option_given _ P _ o) in
      rewrite (H : from_option g true (f <$> o) = true)
  end;
  reflexivity.

Ltac solve_fpartial from to given_ :=
  let m := fresh "m" in let Hg := fresh "Hg" in
  intros m Hg; destruct m; unfold given_ in Hg; simpl in Hg; split_typed;
  unfold from, to; cbn;
  repeat match goal with H : given ?o = true |- _ => destruct o; [clear H|discriminate H] end;
  repeat first
    [ match goal with
      | |- context [map ?f (map ?g ?l)] => rewrite (map_map_id f g l) by partial_law
      | |- context [?f <$> (?g <$> ?o)] => rewrite (fmap_fmap_id f g o) by partial_law
      | |- context [map ?f (map ?g ?l)] =>
          let T := lazymatch type of l with list ?T => T end in
          let H := constr:(@ffromPartial_list T _ _ l) in
          rewrite (H : _ → map f (map g l) = l) by assumption
      | |- context [?f <$> (?g <$> ?o)] =>
          let T := lazymatch type of o with option ?T => T end in
          let H := constr:(@ffromPartial_option T _ _ o) in
          rewrite (H : _ → f <$> (g <$> o) = o) by assumption
      end ];
  reflexivity.

(** ** Statements about such a codec *)

Section laws.
Context {PB : Protobuf} {T : Type}.
Variables (enc : T → Writer → result Writer) (dec : option Z → RM T).

(** Encoding throws nothing, and decoding gives the message without its empty
    arrays. *)
Definition fround_trip (ok : T → Prop) (nf : T → T) : Prop :=
  ∀ m, ok m → ∃ w, enc m create = Ok w ∧ decode_bytes dec (finish w) = Ok (nf m).

Definition fencodes_as (ok : T → Prop) (wire : T → bytes) : Prop :=
  ∀ m, ok m → ∃ w, enc m create = Ok w ∧ finish w = wire m.

End laws.

Section generic_laws.
Context {PB : Protobuf} {PS : ProtobufSpec PB}.
Context {T : Type} {C : FallibleCodec T} {MS : FallibleSpec PS T}.

Definition fencodable (m : T) : Prop :=
  fmsg_typed m = true ∧ fmsg_valid m ∧ small (fmsg_wire m).

Lemma fcodec_encodes_as : fencodes_as fmsg_encode fencodable fmsg_wire.
Proof.
  intros m (Ht & Hv & Hs). destruct (fencode_wire m Ht Hv Hs create) as (w & He & Hw).
  exists w. rewrite view_finish, Hw, view_create. done.
Qed.

Lemma fcodec_round_trip : fround_trip fmsg_encode fmsg_decode fencodable fmsg_normal.
Proof.
  intros m Hm. destruct (fcodec_encodes_as m Hm) as (w & He & Hf). exists w. split; [done|].
  rewrite Hf. apply decode_bytes_steps. destruct Hm as (_ & ? & ?). by apply fdecode_base.
Qed.

End generic_laws.
