(* ===== verification/Proto3.v ===== *)
(** * The proto3 encoding

    A reference for the message codecs that knows nothing of them: a message
    as a tree of numbered fields with the labels of its schema, its encoding,
    and the merge of two messages, as the proto3 documentation defines them.
    [schema] of each message type gives the tree of a message, with the numbers
    and types of the fields in the [.proto] file.

    The generated code departs from the reference in four places, which have
    lemmas here and in [MessageLaws.v]: it writes an empty packed list, it writes
    the parts of a [Timestamp] differently for a date before the first full
    second after the epoch, and on reading it replaces a nested message where
    proto3 merges it and keeps the other members of a oneof.  [regular] tells
    the messages the first two do not concern, [apart] the pairs of messages the
    others do not concern. *)
From S2P Require Import Prelude Js Calendar Protobuf Codec TimeTypes Dates Base64 Fallible.
Open Scope Z_scope.

(** ** Messages as trees *)

Inductive int_type := Int32 | Uint32 | Int64 | Uint64.

(** How the schema declares a field.  [Implicit]: a scalar, which has its default
    when it is missing; [Optional]: a message, present or not; [Stamp]: such a
    message of type [google.protobuf.Timestamp] that the client holds as a
    [Date]; [Member o]: a member of the oneof [o]. *)
Inductive label := Implicit | Optional | Stamp | Member (oneof : string) | Repeated | Packed.

(** A field of enumeration type is an [Int32]. *)
Inductive value :=
| VInt (type : int_type) (n : number)
| VBool (b : bool)
| VString (s : string)
| VBytes (b : bytes)
| VMessage (fs : list field)
with field := Field (number : Z) (l : label) (vs : list value).

Definition number_of (f : field) : Z := match f with Field n _ _ => n end.

(** The values of the field with the given number. *)
Definition values (n : Z) (fs : list field) : list value :=
  match find (fun f => number_of f =? n) fs with Some (Field _ _ vs) => vs | None => [] end.

Definition is_default (v : value) : bool :=
  match v with
  | VInt _ n => match n with Int z => z =? 0 | NaN => false end
  | VBool b => negb b
  | VString s => String.eqb s ""
  | VBytes b => blen b =? 0
  | VMessage _ => false
  end.

Definition is_scalar (v : value) : bool := match v with VMessage _ => false | _ => true end.

(** The fields as the schemas declare them. *)
Definition implicit (n : Z) (v : value) : field := Field n Implicit [v].
Definition singular {A : Type} (n : Z) (l : label) (f : A → value) (o : option A) : field :=
  Field n l (match o with Some x => [f x] | None => [] end).
Definition repeated {A : Type} (n : Z) (f : A → value) (l : list A) : field :=
  Field n Repeated (map f l).
Definition message_value {A : Type} (schema : A → list field) (x : A) : value := VMessage (schema x).
Definition packed_ints (n : Z) (k : int_type) (l : list number) : field :=
  Field n Packed (map (VInt k) l).
(** A byte field is [undefined] when it was not read; its default is empty. *)
Definition byte_array (o : option bytes) : value := VBytes (match o with Some b => b | None => [] end).

(** The [Timestamp] of a [Date]: full seconds since the epoch, and nanoseconds
    that count forward from them. *)
Definition timestamp_fields (d : date) : list field :=
  match d.(getTime) with
  | Int ms => [implicit 1 (VInt Int64 (ms / 1000)); implicit 2 (VInt Int32 (ms mod 1000 * 1000000))]
  | NaN => [implicit 1 (VInt Int64 NaN); implicit 2 (VInt Int32 NaN)]
  end.
Definition timestamp_value (d : date) : value := VMessage (timestamp_fields d).

(** ** Encoding *)

Section encoding.
Context {PB : Protobuf} {PS : ProtobufSpec PB}.

Definition e_int (k : int_type) : Z → bytes :=
  match k with Int32 => e_int32 | Uint32 => e_uint32 | Int64 => e_int64 | Uint64 => e_uint64 end.

(** Wire type 0 is a varint, 2 a length and that many bytes. *)
Definition tag_of (n : Z) (v : value) : bytes :=
  e_uint32 (8 * n + match v with VInt _ _ | VBool _ => 0 | _ => 2 end).

Fixpoint encode_value (v : value) : bytes :=
  match v with
  | VInt k (Int z) => e_int k z
  | VInt k NaN => []
  | VBool b => e_bool b
  | VString s => delimited (chars s)
  | VBytes b => delimited b
  | VMessage fs => delimited (concat (map encode_field fs))
  end
with encode_field (f : field) : bytes :=
  match f with
  | Field n Implicit vs =>
      concat (map (fun v => if is_default v then [] else tag_of n v ++ encode_value v) vs)
  | Field n Packed [] => []
  | Field n Packed vs => e_uint32 (8 * n + 2) ++ delimited (concat (map encode_value vs))
  | Field n _ vs => concat (map (fun v => tag_of n v ++ encode_value v) vs)
  end.

Definition proto_encode (fs : list field) : bytes := concat (map encode_field fs).

End encoding.

(** ** Merging

    What proto3 prescribes for the fields of a message that arrives in two
    pieces: a scalar is replaced unless it is missing in the second, embedded
    messages are merged, lists are concatenated, and of a oneof only the last
    member stays. *)

Definition absent (vs : list value) : bool := match vs with [] => true | _ => false end.

Definition oneof_set (o : string) (fs : list field) : bool :=
  existsb (fun f => match f with
                    | Field _ (Member o') vs => String.eqb o o' && negb (absent vs)
                    | _ => false
                    end) fs.

Fixpoint merge_value (v w : value) : value :=
  match v, w with
  | VMessage fs, VMessage gs => VMessage (map (fun f => merge_field f gs) fs)
  | _, _ => w
  end
with merge_field (f : field) (gs : list field) : field :=
  match f with
  | Field n l vs =>
      let ws := values n gs in
      Field n l
        (match l with
         | Implicit =>
             match vs, ws with [v], [w] => [if is_default w then v else w] | _, _ => vs end
         | Repeated | Packed => vs ++ ws
         | _ =>
             match vs, ws with
             | [v], [w] => [merge_value v w]
             | _, [] => match l with Member o => if oneof_set o gs then [] else vs | _ => vs end
             | _, _ => ws
             end
         end)
  end.

Definition proto_merge (fs gs : list field) : list field := map (fun f => merge_field f gs) fs.

(** ** Where the generated code agrees *)

(** Dates that [toTimestamp] converts as [Timestamp] is documented, and whose
    seconds are written only when they are not 0: those at the epoch, at a full
    second before it, or at least a second after it. *)
Definition timely (v : value) : bool :=
  match v with
  | VMessage [Field _ _ [VInt _ (Int seconds)]; Field _ _ [VInt _ (Int nanos)]] =>
      (nanos =? 0) || (1 <=? seconds)
  | _ => false
  end.

(** No packed list is empty, every date is [timely] and every number an
    integer, in the nested messages too. *)
Fixpoint regular_value (v : value) : bool :=
  match v with
  | VInt _ n => match n with Int _ => true | NaN => false end
  | VMessage fs => forallb regular_field fs
  | _ => true
  end
with regular_field (f : field) : bool :=
  match f with
  | Field _ l vs =>
      forallb regular_value vs &&
      match l with Packed => negb (absent vs) | Stamp => forallb timely vs | _ => true end
  end.

Definition regular (fs : list field) : bool := forallb regular_field fs.

(** No embedded message is in both messages, and no oneof is set to different
    members. *)
Definition apart_field (f : field) (gs : list field) : bool :=
  match f with
  | Field n l vs =>
      let ws := values n gs in
      match l with
      | Implicit | Repeated | Packed => true
      | Optional | Stamp => absent vs || forallb is_scalar ws
      | Member o =>
          absent vs || (forallb is_scalar ws && (negb (absent ws) || negb (oneof_set o gs)))
      end
  end.

Definition apart (fs gs : list field) : bool := forallb (fun f => apart_field f gs) fs.

(** ** What a message type promises of its schema *)

Section laws.
Context {PB : Protobuf} {PS : ProtobufSpec PB} {T : Type}.

(** [encode] writes the encoding of the tree. *)
Class WireSchema (wire : T → bytes) (schema : T → list field) : Prop :=
  wire_schema m : regular (schema m) = true → wire m = proto_encode (schema m).

(** The empty byte arrays that are not read back make no difference. *)
Class NormalSchema (normal : T → T) (schema : T → list field) : Prop :=
  normal_schema m : schema (normal m) = schema m.

(** [decode] merges as proto3 does. *)
Class MergeSchema (merge : T → T → T) (schema : T → list field) : Prop :=
  merge_schema m a : apart (schema m) (schema a) = true →
    schema (merge m a) = proto_merge (schema m) (schema a).

End laws.

(** ** The fields of [wire] *)

Section fields.
Context {PB : Protobuf} {PS : ProtobufSpec PB}.

(** [writes_as b f]: [b] is the encoding of the field [f]. *)
Definition writes_as (b : bytes) (f : field) : Prop := regular_field f = true → b = encode_field f.
Definition write_as (b : bytes) (fs : list field) : Prop := regular fs = true → b = proto_encode fs.

Lemma write_as_cons b bs f fs : writes_as b f → write_as bs fs → write_as (b ++ bs) (f :: fs).
Proof.
  intros Hb Hs. unfold write_as, regular, proto_encode. simpl. intros [Hf Hfs]%andb_true_iff.
  by rewrite (Hb Hf), (Hs Hfs).
Qed.

Lemma write_as_last b f : writes_as b f → write_as b [f].
Proof. intros Hb. rewrite <- (right_id_L [] (++) b). by apply write_as_cons. Qed.

Lemma write_as_nil : write_as [] [].
Proof. done. Qed.

Lemma as_string n s : writes_as (f_string (8 * n + 2) s) (implicit n (VString s)).
Proof.
  intros _. simpl. unfold f_string, f_value, tag_of. destruct (String.eqb s ""); [done|].
  by rewrite (right_id_L [] (++)).
Qed.

Lemma as_bool n b : writes_as (f_bool (8 * n + 0) b) (implicit n (VBool b)).
Proof.
  intros _. simpl. unfold f_bool, f_value, tag_of. destruct b; [|done].
  by rewrite (right_id_L [] (++)).
Qed.

Lemma as_int k n z : writes_as (f_number (e_int k) (8 * n + 0) z) (implicit n (VInt k z)).
Proof.
  unfold writes_as. destruct z as [z|]; simpl; [|done]. intros _. unfold f_number, f_value, tag_of.
  destruct (z =? 0); [done|]. by rewrite (right_id_L [] (++)).
Qed.

Lemma as_bytes n o : writes_as (f_bytes (8 * n + 2) o) (implicit n (byte_array o)).
Proof.
  intros _. unfold f_bytes, byte_array, f_value, implicit, tag_of. simpl.
  destruct o as [b|]; [|done]. destruct (blen b =? 0); [done|]. by rewrite (right_id_L [] (++)).
Qed.

(** A label whose values are all written. *)
Definition written_label (l : label) : bool :=
  match l with Implicit | Packed => false | _ => true end.

Lemma as_items {A : Type} n l (e : A → bytes) (f : A → value) (xs : list A) :
  written_label l = true →
  Forall (fun x => regular_value (f x) = true →
    f_value (8 * n + 2) (delimited (e x)) = tag_of n (f x) ++ encode_value (f x)) xs →
  forallb regular_value (map f xs) = true →
  f_repeated (8 * n + 2) e xs = encode_field (Field n l (map f xs)).
Proof.
  intros Hl He Hr.
  transitivity (concat (map (fun v => tag_of n v ++ encode_value v) (map f xs)));
    [|by destruct l].
  unfold f_repeated. induction He as [|x xs Hx _ IH]; simpl in *; [done|].
  apply andb_true_iff in Hr as [Hv Hvs]. by rewrite Hx, IH.
Qed.

Lemma as_repeated {A : Type} n (e : A → bytes) (f : A → value) (xs : list A) :
  Forall (fun x => regular_value (f x) = true →
    f_value (8 * n + 2) (delimited (e x)) = tag_of n (f x) ++ encode_value (f x)) xs →
  writes_as (f_repeated (8 * n + 2) e xs) (repeated n f xs).
Proof. intros He [Hr _]%andb_true_iff. by apply as_items. Qed.

Lemma as_singular {A : Type} n l (e : A → bytes) (f : A → value) (o : option A) :
  written_label l = true →
  (∀ x, regular_field (Field n l [f x]) = true →
     f_value (8 * n + 2) (delimited (e x)) = tag_of n (f x) ++ encode_value (f x)) →
  writes_as (f_message (8 * n + 2) e o) (singular n l f o).
Proof.
  intros Hl He Hr. unfold singular in *. destruct o as [x|]; [|by destruct l].
  unfold f_message. rewrite (He x Hr). destruct l; try done; simpl; by rewrite (right_id_L [] (++)).
Qed.

(** The items of those fields. *)
Lemma item_message {A : Type} n (wire : A → bytes) (schema : A → list field) {W : WireSchema wire schema} x :
  regular_value (message_value schema x) = true →
  f_value (8 * n + 2) (delimited (wire x)) =
    tag_of n (message_value schema x) ++ encode_value (message_value schema x).
Proof. intros Hr. unfold f_value, tag_of, message_value. simpl. by rewrite (W x Hr : wire x = _). Qed.

Lemma regular_singular n l v : regular_field (Field n l [v]) = true → regular_value v = true.
Proof. simpl. by intros [[? _]%andb_true_iff _]%andb_true_iff. Qed.

Lemma as_message {A : Type} n l (wire : A → bytes) (schema : A → list field) {W : WireSchema wire schema} o :
  written_label l = true →
  writes_as (f_message (8 * n + 2) wire o) (singular n l (message_value schema) o).
Proof.
  intros Hl. apply as_singular; [done|]. intros x Hr%regular_singular. by apply item_message.
Qed.

Lemma as_messages {A : Type} n (wire : A → bytes) (schema : A → list field) {W : WireSchema wire schema} xs :
  writes_as (f_repeated (8 * n + 2) wire xs) (repeated n (message_value schema) xs).
Proof. apply as_repeated, Forall_true. intros x. by apply item_message. Qed.

Lemma as_strings n xs : writes_as (f_repeated (8 * n + 2) chars xs) (repeated n VString xs).
Proof. by apply as_repeated, Forall_true. Qed.

Lemma as_arrays n xs : writes_as (f_repeated (8 * n + 2) raw xs) (repeated n VBytes xs).
Proof. by apply as_repeated, Forall_true. Qed.

Lemma as_string_member n l o :
  written_label l = true → writes_as (f_message (8 * n + 2) chars o) (singular n l VString o).
Proof. intros Hl. by apply as_singular. Qed.

Lemma as_bytes_member n l o :
  written_label l = true → writes_as (f_message (8 * n + 2) raw o) (singular n l VBytes o).
Proof. intros Hl. by apply as_singular. Qed.

Lemma as_packed n xs : writes_as (f_packed (8 * n + 2) xs) (packed_ints n Uint32 xs).
Proof.
  unfold writes_as, packed_ints. destruct xs as [|x xs]; [done|]. intros [Hr _]%andb_true_iff.
  change (encode_field _) with
    (e_uint32 (8 * n + 2) ++ delimited (concat (map encode_value (map (VInt Uint32) (x :: xs))))).
  unfold f_packed, f_value. do 2 f_equal. revert Hr. generalize (x :: xs). intros l.
  induction l as [|[z|] l IH]; simpl; [done| |done]. intros Hl. by rewrite (IH Hl).
Qed.

(** *** Dates *)

Lemma timely_parts ms :
  (ms mod 1000 * 1000000 =? 0) || (1 <=? ms / 1000) = true →
  Z.quot ms 1000 = ms / 1000 ∧ Z.rem ms 1000 = ms mod 1000 ∧ (ms =? 0) = (ms / 1000 =? 0).
Proof.
  intros H. assert (ms mod 1000 = 0 ∨ 1000 <= ms) as [H0|H0].
  { pose proof (Z.div_mod ms 1000 ltac:(lia)); pose proof (Z.mod_pos_bound ms 1000 ltac:(lia)). apply orb_true_iff in H as [H|H]; [left|right]; lia. }
  - assert (ms = 1000 * (ms / 1000)) as Hq by (pose proof (Z.div_mod ms 1000 ltac:(lia)); lia).
    split_and!; [|rewrite H0|].
    + rewrite Hq at 1. rewrite Z.mul_comm, Z.quot_mul; lia.
    + rewrite Hq. rewrite Z.mul_comm. apply Z.rem_mul. lia.
    + destruct (Z.eqb_spec ms 0), (Z.eqb_spec (ms / 1000) 0); lia.
  - split_and!; [apply Z.quot_div_nonneg; lia|apply Z.rem_mod_nonneg; lia|].
    pose proof (Z.div_le_mono 1000 ms 1000 ltac:(lia) H0) as Hd. change (1000 / 1000) with 1 in Hd.
    destruct (Z.eqb_spec ms 0), (Z.eqb_spec (ms / 1000) 0); lia.
Qed.

Lemma wire_time_schema d :
  timely (timestamp_value d) = true → wire_time d = proto_encode (timestamp_fields d).
Proof.
  destruct d as [[ms|]]; [|done]. unfold timely, timestamp_value, timestamp_fields, wire_time.
  cbn [getTime implicit]. intros (-> & -> & ->)%timely_parts.
  unfold proto_encode, implicit, tag_of, f_number, f_value. simpl.
  destruct (ms / 1000 =? 0), (ms mod 1000 * 1000000 =? 0); simpl;
    by rewrite ?(right_id_L [] (++)).
Qed.

Lemma as_stamp n o :
  writes_as (f_message (8 * n + 2) wire_time o) (singular n Stamp timestamp_value o).
Proof.
  apply as_singular; [done|]. intros d Hr. unfold f_value, tag_of, timestamp_value in *.
  rewrite wire_time_schema; [done|]. simpl in Hr.
  apply andb_true_iff in Hr as [_ Ht]. by apply andb_true_iff in Ht as [Ht _].
Qed.

End fields.

(** ** The fields of [merge] *)

Lemma merge_string n s gs s' :
  values n gs = [VString s'] →
  merge_field (implicit n (VString s)) gs = implicit n (VString (later_string s s')).
Proof. intros H. unfold implicit, later_string. simpl. rewrite H. simpl. by destruct (String.eqb s' ""). Qed.

Lemma merge_bool n b gs b' :
  values n gs = [VBool b'] → merge_field (implicit n (VBool b)) gs = implicit n (VBool (later_bool b b')).
Proof. intros H. unfold implicit, later_bool. simpl. rewrite H. simpl. by destruct b'. Qed.

Lemma merge_int n k z gs z' :
  values n gs = [VInt k z'] →
  merge_field (implicit n (VInt k z)) gs = implicit n (VInt k (later_number z z')).
Proof.
  intros H. unfold implicit, later_number. simpl. rewrite H. simpl.
  destruct z' as [z'|]; [|done]. by destruct (z' =? 0).
Qed.

Lemma merge_bytes n o gs o' :
  values n gs = [byte_array o'] →
  merge_field (implicit n (byte_array o)) gs = implicit n (byte_array (later_bytes o o')).
Proof.
  intros H. unfold implicit, later_bytes. simpl. rewrite H. unfold byte_array. simpl.
  destruct o' as [b|]; simpl; [|done]. by destruct (blen b =? 0).
Qed.

Lemma merge_repeated {A : Type} n (f : A → value) (nf : A → A) xs gs ys :
  values n gs = map f ys → (∀ x, f (nf x) = f x) →
  merge_field (repeated n f xs) gs = repeated n f (xs ++ map nf ys).
Proof.
  intros H Hn. unfold repeated. simpl. rewrite H, map_app, map_map. do 2 f_equal.
  symmetry. by apply map_ext.
Qed.

Lemma merge_packed n k xs gs ys :
  values n gs = map (VInt k) ys → merge_field (packed_ints n k xs) gs = packed_ints n k (xs ++ ys).
Proof. intros H. unfold packed_ints. simpl. by rewrite H, map_app. Qed.

Definition opt_value {A : Type} (f : A → value) (o : option A) : list value :=
  match o with Some x => [f x] | None => [] end.

Definition singular_label (l : label) : bool :=
  match l with Optional | Stamp | Member _ => true | _ => false end.

Lemma merge_singular {A : Type} n l (f : A → value) (nf : A → A) o gs o' :
  singular_label l = true → apart_field (singular n l f o) gs = true →
  values n gs = opt_value f o' → (∀ x, f (nf x) = f x) →
  merge_field (singular n l f o) gs = singular n l f (later_message o (nf <$> o')).
Proof.
  intros Hl Ha H Hn. unfold singular, apart_field, later_message in *. simpl.
  rewrite H in *. destruct o' as [y|]; simpl in *; rewrite ?Hn.
  - assert (∀ v, merge_value v (f y) = f y ∨ (is_scalar (f y) = false)) as Hv.
    { intros v. destruct (f y); simpl; [left..|by right]; by destruct v. }
    destruct l; try done; destruct o as [x|]; try done; simpl in *;
      (destruct (Hv (f x)) as [->|Hs]; [done|by rewrite Hs in Ha]).
  - destruct l; try done; destruct o as [x|]; try done; simpl in *.
    + destruct (oneof_set oneof gs); [by rewrite ?andb_false_r in Ha|done].
    + by destruct (oneof_set oneof gs).
Qed.

(** Fields whose values are read back as they are. *)
Lemma merge_repeated_same {A : Type} n (f : A → value) xs gs ys :
  values n gs = map f ys → merge_field (repeated n f xs) gs = repeated n f (xs ++ ys).
Proof. intros H. rewrite <- (map_id ys). by apply merge_repeated. Qed.

Lemma merge_singular_same {A : Type} n l (f : A → value) o gs o' :
  singular_label l = true → apart_field (singular n l f o) gs = true →
  values n gs = opt_value f o' →
  merge_field (singular n l f o) gs = singular n l f (later_message o o').
Proof.
  intros Hl Ha H. pose proof (merge_singular n l f id o gs o' Hl Ha H (fun _ => eq_refl)) as Hm.
  by destruct o'.
Qed.

Lemma normal_value {A : Type} (normal : A → A) (schema : A → list field)
    {N : NormalSchema normal schema} x :
  message_value schema (normal x) = message_value schema x.
Proof. unfold message_value. by rewrite (N x). Qed.

Lemma merge_cons f fs gs f' fs' :
  (apart_field f gs = true → merge_field f gs = f') →
  (apart fs gs = true → proto_merge fs gs = fs') →
  apart (f :: fs) gs = true → proto_merge (f :: fs) gs = f' :: fs'.
Proof.
  unfold apart, proto_merge. simpl. intros Hf Hfs [Ha Has]%andb_true_iff. by rewrite Hf, Hfs.
Qed.

Lemma merge_nil gs : apart [] gs = true → proto_merge [] gs = [].
Proof. done. Qed.

(** ** The fields of [normal] *)

Lemma normal_bytes n o : implicit n (byte_array (nonempty o)) = implicit n (byte_array o).
Proof.
  unfold byte_array, nonempty. destruct o as [b|]; [|done].
  destruct (Z.eqb_spec (blen b) 0) as [H|]; [|done]. by destruct b.
Qed.

Lemma normal_singular {A : Type} n l (normal : A → A) (schema : A → list field) o :
  NormalSchema normal schema →
  singular n l (message_value schema) (normal <$> o) = singular n l (message_value schema) o.
Proof. intros N. destruct o; unfold singular; simpl; [by rewrite normal_value|done]. Qed.

Lemma normal_repeated {A : Type} n (normal : A → A) (schema : A → list field) xs :
  NormalSchema normal schema →
  repeated n (message_value schema) (map normal xs) = repeated n (message_value schema) xs.
Proof.
  intros N. unfold repeated. rewrite map_map. f_equal. apply map_ext. intros x. exact (normal_value normal schema x).
Qed.

Lemma cons_eq {A : Type} (x y : A) l l' : x = y → l = l' → x :: l = y :: l'.
Proof. by intros -> ->. Qed.

Arguments implicit : simpl never.
Arguments singular : simpl never.
Arguments repeated : simpl never.
Arguments packed_ints : simpl never.
Arguments byte_array : simpl never.

(** ** Tactics for the schema of one message type *)

Ltac writes_as_field :=
  lazymatch goal with
  | |- writes_as _ (implicit ?n (VString ?s)) => exact (as_string n s)
  | |- writes_as _ (implicit ?n (VBool ?b)) => exact (as_bool n b)
  | |- writes_as _ (implicit ?n (VInt ?k ?z)) => exact (as_int k n z)
  | |- writes_as _ (implicit ?n (byte_array ?o)) => exact (as_bytes n o)
  | |- writes_as _ (singular ?n Stamp timestamp_value ?o) => exact (as_stamp n o)
  | |- writes_as _ (singular ?n ?l VString ?o) => exact (as_string_member n l o eq_refl)
  | |- writes_as _ (singular ?n ?l VBytes ?o) => exact (as_bytes_member n l o eq_refl)
  | |- writes_as (f_message _ ?w _) (singular ?n ?l (message_value ?s) ?o) =>
      exact (as_message n l w s o eq_refl)
  | |- writes_as _ (repeated ?n VString ?xs) => exact (as_strings n xs)
  | |- writes_as _ (repeated ?n VBytes ?xs) => exact (as_arrays n xs)
  | |- writes_as (f_repeated _ ?w _) (repeated ?n (message_value ?s) ?xs) => exact (as_messages n w s xs)
  | |- writes_as _ (packed_ints ?n Uint32 ?xs) => exact (as_packed n xs)
  end.

Ltac solve_schema_wire wire schema :=
  let m := fresh "m" in
  intros m; change (write_as (wire m) (schema m)); (let h := head_of wire in unfold h, schema);
  repeat lazymatch goal with
  | |- write_as _ [_] => apply write_as_last; writes_as_field
  | |- write_as _ (_ :: _) => apply write_as_cons; [writes_as_field|]
  | |- write_as _ [] => exact write_as_nil
  end.

Ltac normal_field :=
  first
    [ reflexivity
    | apply normal_bytes
    | apply normal_singular; apply _
    | apply normal_repeated; apply _ ].

Ltac solve_schema_normal normal schema :=
  let m := fresh "m" in
  intros m; destruct m; unfold normal, schema; simpl;
  repeat (apply cons_eq; [normal_field|]); reflexivity.

Ltac merge_as_field :=
  let Ha := fresh "Ha" in
  intros Ha;
  lazymatch goal with
  | |- merge_field (implicit _ (VString _)) _ = _ => apply merge_string; reflexivity
  | |- merge_field (implicit _ (VBool _)) _ = _ => apply merge_bool; reflexivity
  | |- merge_field (implicit _ (VInt _ _)) _ = _ => apply merge_int; reflexivity
  | |- merge_field (implicit _ (byte_array _)) _ = _ => apply merge_bytes; reflexivity
  | |- merge_field (packed_ints _ _ _) _ = _ => apply merge_packed; reflexivity
  | |- merge_field (repeated _ (message_value ?s) _) _ = _ =>
      first
        [ let N := constr:(_ : NormalSchema _ s) in
          eapply merge_repeated; [reflexivity|exact (fun x => normal_value _ s x)]
        | apply merge_repeated_same; reflexivity ]
  | |- merge_field (repeated _ _ _) _ = _ => apply merge_repeated_same; reflexivity
  | |- merge_field (singular _ _ (message_value ?s) _) _ = _ =>
      first
        [ let N := constr:(_ : NormalSchema _ s) in
          eapply merge_singular; [reflexivity|exact Ha|reflexivity|exact (fun x => normal_value _ s x)]
        | apply merge_singular_same; [reflexivity|exact Ha|reflexivity] ]
  | |- merge_field (singular _ _ _ _) _ = _ =>
      apply merge_singular_same; [reflexivity|exact Ha|reflexivity]
  end.

Ltac solve_schema_merge merge schema :=
  let m := fresh "m" in let a := fresh "a" in let Ha := fresh "Ha" in
  intros m a; change (apart (schema m) (schema a) = true →
    schema (merge m a) = proto_merge (schema m) (schema a));
  intros Ha; symmetry; eapply eq_trans; [revert Ha|];
  [ let fs := eval unfold schema in (schema m) in change (schema m) with fs;
    repeat (eapply merge_cons; [merge_as_field|]); exact (merge_nil _)
  | reflexivity ].
