(* ===== verification/MessageTable.v ===== *)
(** * Message types as data

    A row [message_type] holds the functions of one generated message type and
    the functions that specify them; [Lawful] is what every generated message
    type promises.  Each file of message types ends with the table of its
    rows, so that a property of all message types is one statement about the
    tables.

    The three kinds of message types have one shape here: encoding may throw
    and [toJSON] may throw, which a type without byte fields and without dates
    never does. *)
From S2P Require Import Prelude Js Calendar Protobuf Codec TimeTypes Dates Base64 Fallible Proto3.
Open Scope Z_scope.

Section table.
Context {PB : Protobuf} {PS : ProtobufSpec PB}.

Record message_type := mkMessage {
  mt_name : string;
  mt_t : Type;
  mt_partial : Type;
  (* the generated functions *)
  mt_base : mt_t;
  mt_encode : mt_t → Writer → result Writer;
  mt_field : Z → mt_t → RM mt_t;
  mt_fromJSON : js → result mt_t;
  mt_toJSON : mt_t → result js;
  mt_fromPartial : mt_partial → mt_t;
  (* the specification *)
  mt_nothing : mt_partial;          (* the object with no property *)
  mt_full : mt_t → mt_partial;      (* a message as an object with every property *)
  mt_reads : bool;                  (* whether the type has any property *)
  mt_only : (string → bool) → mt_t → mt_t;    (* the other properties have their defaults *)
  mt_schema : mt_t → list field;    (* the message as the schema declares it *)
  mt_wire : mt_t → bytes;           (* the bytes [encode] writes *)
  mt_valid : mt_t → Prop;           (* the numbers fit their protobuf types *)
  mt_typed : mt_t → bool;           (* the byte fields hold arrays *)
  mt_timed : mt_t → bool;           (* the dates are valid *)
  mt_named : mt_t → bool;           (* the enumerations hold members *)
  mt_known : mt_t → mt_t;           (* numbers that are no members replaced *)
  mt_normal : mt_t → mt_t;          (* without the empty byte arrays *)
  mt_merge : mt_t → mt_t → mt_t;    (* what two encodings in a row are read as *)
}.

(** The field numbers of the schema. *)
Definition mt_numbers (M : message_type) : list Z := map number_of (M.(mt_schema) M.(mt_base)).

Definition mt_decode (M : message_type) (length : option Z) : RM M.(mt_t) :=
  decode_message length M.(mt_base) M.(mt_field).

(** A message of the declared type that fits its schema and a length prefix. *)
Definition mt_encodable (M : message_type) (m : M.(mt_t)) : Prop :=
  M.(mt_typed) m = true ∧ M.(mt_valid) m ∧ small (M.(mt_wire) m).

(** [fromJSON] of an object without properties, and of no object. *)
Definition reads_defaults {T : Type} (from : js → result T) (reads : bool) (base : T) : Prop :=
  from (Obj []) = Ok base ∧
  if reads then (∃ text, from Undefined = Err (TypeError text)) ∧
                (∃ text, from Null = Err (TypeError text))
  else ∀ v, from v = Ok base.

(** [fromJSON] reads each property by itself: what it makes of an object with
    some of the properties. *)
Definition reads_properties {T : Type} (from : js → result T) (only : (string → bool) → T → T)
    : Prop :=
  ∀ kept fs fs' m, from (Obj fs) = Ok m → restricts kept fs fs' → from (Obj fs') = Ok (only kept m).

Class Lawful (M : message_type) : Prop := {
  law_encode m : mt_encodable M m → writes_e (M.(mt_encode) m) (M.(mt_wire) m);
  law_throws m w : throws_unless (M.(mt_encode) m w) (M.(mt_typed) m);
  law_steps m0 m : M.(mt_valid) m → small (M.(mt_wire) m) →
    steps M.(mt_field) (M.(mt_wire) m) m0 (M.(mt_merge) m0 m);
  law_merge_base m : M.(mt_valid) m → M.(mt_merge) M.(mt_base) m = M.(mt_normal) m;
  law_advances length : advances 0 (mt_decode M length);
  law_skips : skips_undeclared M.(mt_field) (mt_numbers M);
  law_schema_wire :: WireSchema M.(mt_wire) M.(mt_schema);
  law_schema_normal :: NormalSchema M.(mt_normal) M.(mt_schema);
  law_schema_merge :: MergeSchema M.(mt_merge) M.(mt_schema);
  law_json m : M.(mt_timed) m = true →
    ∃ v, M.(mt_toJSON) m = Ok v ∧ M.(mt_fromJSON) v = Ok (M.(mt_known) m);
  law_json_throws m : range_unless (M.(mt_toJSON) m) (M.(mt_timed) m);
  law_known m : M.(mt_named) m = true → M.(mt_known) m = m;
  law_json_properties : reads_properties M.(mt_fromJSON) M.(mt_only);
  law_json_defaults : reads_defaults M.(mt_fromJSON) M.(mt_reads) M.(mt_base);
  law_partial_typed p : M.(mt_typed) (M.(mt_fromPartial) p) = true;
  law_partial_full m : M.(mt_typed) m = true → M.(mt_fromPartial) (M.(mt_full) m) = m;
  law_partial_defaults : M.(mt_normal) (M.(mt_fromPartial) M.(mt_nothing)) = M.(mt_base);
}.

(** ** The three kinds of rows *)

Section plain.
Context {T P : Type} {C : MessageCodec T} {MS : MessageSpec PS T} {D : MessageData T P}.

Variables (name : string) (nothing : P) (reads : bool) (schema : T → list field)
  (only : (string → bool) → T → T).

Definition plain_message : message_type := {|
  mt_name := name; mt_t := T; mt_partial := P;
  mt_base := msg_base;
  mt_encode := fun m w => Ok (msg_encode m w);
  mt_field := msg_field;
  mt_fromJSON := msg_fromJSON;
  mt_toJSON := fun m => Ok (msg_toJSON m);
  mt_fromPartial := msg_fromPartial;
  mt_nothing := nothing; mt_full := msg_full; mt_reads := reads; mt_only := only;
  mt_schema := schema;
  mt_wire := msg_wire; mt_valid := msg_valid;
  mt_typed := fun _ => true; mt_timed := fun _ => true; mt_named := fun _ => true;
  mt_known := id; mt_normal := id; mt_merge := msg_merge;
|}.

Lemma plain_lawful :
  reads_defaults (msg_fromJSON (T := T)) reads msg_base →
  reads_properties (msg_fromJSON (T := T)) only →
  msg_fromPartial nothing = msg_base →
  skips_undeclared msg_field (map number_of (schema msg_base)) →
  WireSchema msg_wire schema → MergeSchema msg_merge schema →
  Lawful plain_message.
Proof.
  intros Hj Ho Hp Hs Hw Hm. split; simpl; try done.
  - intros m (_ & Hv & Hb). apply (writes_pure (msg_encode m)). by apply encode_wire.
  - intros m0 m. apply decode_wire.
  - intros m. exact (merge_base m).
  - intros length. exact (decode_advances length).
  - intros m _. eexists. split; [done|]. apply fromJSON_toJSON.
  - intros m _. apply fromPartial_full.
Qed.
End plain.

Section fallible.
Context {T P : Type} {C : FallibleCodec T} {MS : FallibleSpec PS T} {D : FalliblePartial T P}.
Variables (name : string) (nothing : P) (reads : bool) (schema : T → list field)
  (only : (string → bool) → T → T).

Definition throwing_message (fromJSON : js → result T) (toJSON : T → result js)
    (timed named : T → bool) (known : T → T) : message_type := {|
  mt_name := name; mt_t := T; mt_partial := P;
  mt_base := fmsg_base;
  mt_encode := fmsg_encode;
  mt_field := fmsg_field;
  mt_fromJSON := fromJSON;
  mt_toJSON := toJSON;
  mt_fromPartial := fmsg_fromPartial;
  mt_nothing := nothing; mt_full := fmsg_full; mt_reads := reads; mt_only := only;
  mt_schema := schema;
  mt_wire := fmsg_wire; mt_valid := fmsg_valid;
  mt_typed := fmsg_typed; mt_timed := timed; mt_named := named; mt_known := known;
  mt_normal := fmsg_normal; mt_merge := fmsg_merge;
|}.

Definition fallible_message {J : FallibleJson T} : message_type :=
  throwing_message fmsg_fromJSON (fun m => Ok (fmsg_toJSON m)) (fun _ => true) fmsg_named fmsg_known.

Definition dated_message {J : DatedJson T} : message_type :=
  throwing_message dmsg_fromJSON dmsg_toJSON dmsg_timed dmsg_named dmsg_known.

(** What is left to show of a message type besides its classes. *)
Record throwing_laws (fromJSON : js → result T) : Prop := {
  throwing_defaults : reads_defaults fromJSON reads fmsg_base;
  throwing_properties : reads_properties fromJSON only;
  throwing_given : ∀ m, fmsg_given m = fmsg_typed m;
  throwing_nothing : fmsg_normal (fmsg_fromPartial nothing) = fmsg_base;
  throwing_skips : skips_undeclared fmsg_field (map number_of (schema fmsg_base));
  throwing_wire : WireSchema fmsg_wire schema;
  throwing_normal : NormalSchema fmsg_normal schema;
  throwing_merge : MergeSchema fmsg_merge schema;
}.

Lemma throwing_lawful fromJSON toJSON timed named known :
  (∀ m, timed m = true → ∃ v, toJSON m = Ok v ∧ fromJSON v = Ok (known m)) →
  (∀ m, range_unless (toJSON m) (timed m)) →
  (∀ m, named m = true → known m = m) →
  throwing_laws fromJSON →
  Lawful (throwing_message fromJSON toJSON timed named known).
Proof.
  intros Hn Ht Hk [Hj Ho Hg Hp Hs Hw Hz Hm]. split; simpl; try done.
  - intros m (Hy & Hv & Hb). by apply fencode_wire.
  - intros m w. apply fencode_throws.
  - intros m0 m. apply fdecode_wire.
  - intros m. intros _. exact (fmerge_base m).
  - intros length. exact (fdecode_advances length).
  - intros p. rewrite <- Hg. apply ffromPartial_given.
  - intros m Hy. apply ffromPartial_full. by rewrite Hg.
Qed.

Lemma fallible_lawful {J : FallibleJson T} :
  throwing_laws (fmsg_fromJSON (T := T)) → Lawful fallible_message.
Proof.
  apply throwing_lawful; [|done|apply fknown_named].
  intros m _. eexists. split; [done|]. apply ffromJSON_toJSON.
Qed.

Lemma dated_lawful {J : DatedJson T} :
  throwing_laws (dmsg_fromJSON (T := T)) → Lawful dated_message.
Proof.
  apply throwing_lawful; [|apply dtoJSON_throws|apply dknown_named].
  intros m (fs & H & Hf)%dfromJSON_toJSON. by exists (Obj fs).
Qed.
End fallible.

(** ** What follows for every lawful row *)

Section laws.
Context (M : message_type) {L : Lawful M}.

Lemma lawful_base m : M.(mt_valid) m → small (M.(mt_wire) m) →
  steps M.(mt_field) (M.(mt_wire) m) M.(mt_base) (M.(mt_normal) m).
Proof. intros Hv Hs. rewrite <- law_merge_base by done. by apply law_steps. Qed.

Lemma lawful_encodes_as : fencodes_as M.(mt_encode) (mt_encodable M) M.(mt_wire).
Proof.
  intros m Hm. destruct (law_encode m Hm create) as (w & He & Hw).
  exists w. by rewrite view_finish, Hw, view_create.
Qed.

Lemma lawful_round_trip : fround_trip M.(mt_encode) (mt_decode M) (mt_encodable M) M.(mt_normal).
Proof.
  intros m Hm. destruct (lawful_encodes_as m Hm) as (w & He & Hf). exists w. split; [done|].
  rewrite Hf. apply decode_bytes_steps. destruct Hm as (_ & ? & ?). by apply lawful_base.
Qed.

Lemma lawful_decodes_all : decodes_all (mt_decode M).
Proof.
  intros b. unfold decode_bytes. pose proof (law_advances None (mkReader b 0)) as H.
  by destruct (mt_decode M None _) as [[m r]|e].
Qed.

(** Two messages encoded into one writer are read as one. *)
Lemma lawful_merges m1 m2 :
  mt_encodable M m1 → mt_encodable M m2 →
  ∃ w1 w2, M.(mt_encode) m1 create = Ok w1 ∧ M.(mt_encode) m2 w1 = Ok w2 ∧
    decode_bytes (mt_decode M) (finish w2) = Ok (M.(mt_merge) (M.(mt_normal) m1) m2).
Proof.
  intros H1 H2. destruct (law_encode m1 H1 create) as (w1 & He1 & Hw1).
  destruct (law_encode m2 H2 w1) as (w2 & He2 & Hw2).
  exists w1, w2. split_and!; [done..|]. rewrite view_finish, Hw2, Hw1, view_create. simpl.
  destruct H1 as (_ & ? & ?), H2 as (_ & ? & ?). apply decode_bytes_steps.
  eapply steps_app; [by apply lawful_base|by apply law_steps].
Qed.

(** Where no embedded message and no oneof is in both, that is the merge of
    proto3. *)
Lemma lawful_proto_merge m1 m2 :
  apart (M.(mt_schema) m1) (M.(mt_schema) m2) = true →
  M.(mt_schema) (M.(mt_merge) (M.(mt_normal) m1) m2) =
    proto_merge (M.(mt_schema) m1) (M.(mt_schema) m2).
Proof.
  intros Ha. pose proof (law_schema_normal m1 : M.(mt_schema) (M.(mt_normal) m1) = _) as Hn.
  rewrite <- Hn in Ha |- *. by apply law_schema_merge.
Qed.

(** Fields of another version of the schema are skipped. *)
Lemma lawful_ignores_unknown us vs m :
  Forall (unknown_field (mt_numbers M)) us → Forall (unknown_field (mt_numbers M)) vs →
  M.(mt_valid) m → small (M.(mt_wire) m) →
  decode_bytes (mt_decode M) (concat us ++ M.(mt_wire) m ++ concat vs) = Ok (M.(mt_normal) m).
Proof.
  intros Hu Hv Hm Hs. apply decode_bytes_steps.
  eapply steps_app; [eapply steps_all_unknown; [apply law_skips|done]|].
  eapply steps_app; [by apply lawful_base|eapply steps_all_unknown; [apply law_skips|done]].
Qed.
End laws.

(** ** Tables *)

Lemma lawful_row (table : list message_type) M : Forall Lawful table → In M table → Lawful M.
Proof. intros H. by apply List.Forall_forall. Qed.

(** ** Remote methods

    [transport service method data] is what the promise of [rpc.request]
    settles to. *)

Abbreviation transport := (string → string → bytes → result bytes).

(** A method of one of the generated RPC clients, by its service and name. *)
Record rpc_method := mkMethod {
  rm_service : string;
  rm_name : string;
  rm_request : message_type;
  rm_response : message_type;
  rm_call : transport → rm_request.(mt_t) → result rm_response.(mt_t);
}.

(** The body of a method: the request is encoded, and the response decoded. *)
Definition calls_remote (R : rpc_method) : Prop :=
  ∀ rpc m, R.(rm_call) rpc m =
    (w ← R.(rm_request).(mt_encode) m create;
     data ← rpc R.(rm_service) R.(rm_name) (finish w);
     decode_bytes (mt_decode R.(rm_response)) data).

(** The transport runs [handler] at the other end for the method. *)
Definition serves (R : rpc_method) (rpc : transport)
    (handler : R.(rm_request).(mt_t) → result R.(rm_response).(mt_t)) : Prop :=
  ∀ data, rpc R.(rm_service) R.(rm_name) data =
    (request ← decode_bytes (mt_decode R.(rm_request)) data;
     response ← handler request;
     finish <$> R.(rm_response).(mt_encode) response create).

(** Calling the method is calling the handler: it sees the request that was
    passed, and its response or its error is what the caller gets. *)
Lemma remote_transparent (R : rpc_method) (rpc : transport) handler m :
  Lawful R.(rm_request) → Lawful R.(rm_response) → calls_remote R →
  serves R rpc handler → mt_encodable R.(rm_request) m →
  (∀ b, handler (R.(rm_request).(mt_normal) m) = Ok b → mt_encodable R.(rm_response) b) →
  R.(rm_call) rpc m =
    (R.(rm_response).(mt_normal) <$> handler (R.(rm_request).(mt_normal) m)).
Proof.
  intros LA LB Hcall Hs Hm Hok. rewrite Hcall.
  destruct (lawful_round_trip R.(rm_request) m Hm) as (w & -> & Hd). simpl.
  rewrite Hs, Hd. simpl. destruct (handler _) as [b|e]; simpl; [|done].
  destruct (lawful_round_trip R.(rm_response) b) as (w' & -> & Hr); [by apply Hok|]. exact Hr.
Qed.

(** What a table of methods promises. *)
Definition method_lawful (R : rpc_method) : Prop :=
  Lawful R.(rm_request) ∧ Lawful R.(rm_response) ∧ calls_remote R.

End table.

Arguments mkMethod {PB} rm_service rm_name rm_request rm_response rm_call.

(** ** Tactics *)

Ltac solve_reads_defaults :=
  split; [reflexivity|first [intros; reflexivity | split; eexists; reflexivity]].

Ltac solve_reads_properties from only :=
  let kept := fresh "kept" in let fs := fresh "fs" in let fs' := fresh "fs'" in
  let m := fresh "m" in let H := fresh "H" in let Hr := fresh "Hr" in
  intros kept fs fs' m H Hr; revert H;
  change (from (Obj fs) = Ok m → from (Obj fs') = Ok (only kept m)); unfold from;
  repeat (apply (bind_property kept); [exact Hr|let v := fresh "v" in intros v; cbv beta]);
  first [intros [= <-]; reflexivity | intros _; destruct m; reflexivity].

(** The laws of one generated message type. *)
Ltac solve_lawful field from only :=
  first
    [ apply plain_lawful;
      [solve_reads_defaults|solve_reads_properties from only|reflexivity|solve_skips field
      |apply _|apply _]
    | first [apply fallible_lawful | apply dated_lawful];
      (split;
       [solve_reads_defaults|solve_reads_properties from only|reflexivity|reflexivity
       |solve_skips field|apply _|apply _|apply _]) ].

Ltac solve_table := repeat (apply List.Forall_cons; [apply _|]); apply List.Forall_nil.

Ltac solve_methods :=
  repeat (apply List.Forall_cons; [split_and!; [apply _|apply _|intros rpc m; reflexivity]|]);
  apply List.Forall_nil.
