(* ===== verification/CommonTypes.v ===== *)
(** * Types shared by the modules

    The codecs of [cosmos/base/query/v1beta1/pagination.js] and
    [google/protobuf/any.js].  Every module of the client has its own copy of
    these files, with the same contents; the lines of the dclauth module are
    the ones modelled. *)
From S2P Require Import Prelude Js Protobuf Codec Calendar Dates Base64 Fallible Proto3 MessageTable TimeTypes.
Open Scope Z_scope.

(** The schema of the type of [TimeTypes.v], google/protobuf/timestamp.proto. *)
Definition timestamp_schema (m : Timestamp.t) : list field :=
  [implicit 1 (VInt Int64 m.(Timestamp.seconds)); implicit 2 (VInt Int32 m.(Timestamp.nanos))].

#[global] Instance timestamp_schema_wire {PB : Protobuf} {PS : ProtobufSpec PB} :
  WireSchema Timestamp.wire timestamp_schema.
Proof. solve_schema_wire Timestamp.wire timestamp_schema. Qed.

#[global] Instance timestamp_schema_merge : MergeSchema Timestamp.merge timestamp_schema.
Proof. solve_schema_merge Timestamp.merge timestamp_schema. Qed.

(** ** [PageRequest] (cosmos/base/query/v1beta1/pagination.js) *)

Module PageRequest.

Record t := mk {
  key : option bytes;
  offset : number;
  limit : number;
  countTotal : bool;
  reverse : bool;
}.

#[global] Instance t_eta : Settable t := λ m, mk m.(key) m.(offset) m.(limit) m.(countTotal)
  m.(reverse).

Definition base : t := mk None 0 0 false false.

Definition encode {PB : Protobuf} (message : t) (writer : Writer) : result Writer :=
  Ok writer
  @>= bytes_field 10 message.(key)
  @>= pure (when (num_neq message.(offset) 0) (fun w => w @> uint32 16 @> uint64 message.(offset)))
  @>= pure (when (num_neq message.(limit) 0) (fun w => w @> uint32 24 @> uint64 message.(limit)))
  @>= pure (when (Bool.eqb message.(countTotal) true)
       (fun w => w @> uint32 32 @> bool_ message.(countTotal)))
  @>= pure (when (Bool.eqb message.(reverse) true)
       (fun w => w @> uint32 40 @> bool_ message.(reverse))).

Definition decode_field {PB : Protobuf} (tag : Z) (message : t) : RM t :=
  match field_number tag with
  | 1 => v ← read_bytes; mret (message <| key := Some v |>)
  | 2 => v ← read_number read_uint64; mret (message <| offset := v |>)
  | 3 => v ← read_number read_uint64; mret (message <| limit := v |>)
  | 4 => v ← read_bool; mret (message <| countTotal := v |>)
  | 5 => v ← read_bool; mret (message <| reverse := v |>)
  | _ => _ ← skipType (wire_type tag); mret message
  end.

Definition decode {PB : Protobuf} (length : option Z) : RM t :=
  decode_message length base decode_field.

Definition fromJSON (object : js) : result t :=
  key' ← field_or object "key" (to_some bytesFromBase64) None;
  offset' ← field_or object "offset" js_Number 0;
  limit' ← field_or object "limit" js_Number 0;
  countTotal' ← field_or object "countTotal" to_bool false;
  reverse' ← field_or object "reverse" to_bool false;
  Ok (mk key' offset' limit' countTotal' reverse').

Definition toJSON (message : t) : js :=
  Obj (prop_opt "key" (fun b => Str (base64FromBytes b)) message.(key) ++
   [("offset", Num message.(offset));
    ("limit", Num message.(limit));
    ("countTotal", Bool message.(countTotal));
    ("reverse", Bool message.(reverse))]).

Record partial := mkPartial {
  p_key : option bytes;
  p_offset : option number;
  p_limit : option number;
  p_countTotal : option bool;
  p_reverse : option bool;
}.

Definition fromPartial (object : partial) : t := {|
  key := Some (object.(p_key) ?? []);
  offset := object.(p_offset) ?? Int 0;
  limit := object.(p_limit) ?? Int 0;
  countTotal := object.(p_countTotal) ?? false;
  reverse := object.(p_reverse) ?? false;
|}.

(** The object with no property given. *)
Definition nothing : partial := mkPartial None None None None None.

(** The bytes [encode] writes. *)
Definition wire {PB : Protobuf} {PS : ProtobufSpec PB} (m : t) : bytes :=
  f_bytes 10 m.(key) ++
  f_number e_uint64 16 m.(offset) ++
  f_number e_uint64 24 m.(limit) ++
  f_bool 32 m.(countTotal) ++
  f_bool 40 m.(reverse).

Definition valid (m : t) : Prop :=
  uint64_ok m.(offset) ∧ uint64_ok m.(limit).

(** The byte fields hold arrays, as the interface declares. *)
Definition typed (m : t) : bool := given m.(key).

(** The message without its empty byte arrays. *)
Definition normal (m : t) : t := {|
  key := nonempty m.(key);
  offset := m.(offset);
  limit := m.(limit);
  countTotal := m.(countTotal);
  reverse := m.(reverse);
|}.

Definition encodable {PB : Protobuf} {PS : ProtobufSpec PB} (m : t) : Prop :=
  typed m = true ∧ valid m ∧ small (wire m).

Definition merge (m a : t) : t := {|
  key := later_bytes m.(key) a.(key);
  offset := later_number m.(offset) a.(offset);
  limit := later_number m.(limit) a.(limit);
  countTotal := later_bool m.(countTotal) a.(countTotal);
  reverse := later_bool m.(reverse) a.(reverse);
|}.

(** A whole message seen as a partial one. *)
Definition full (m : t) : partial := {|
  p_key := m.(key);
  p_offset := Some m.(offset);
  p_limit := Some m.(limit);
  p_countTotal := Some m.(countTotal);
  p_reverse := Some m.(reverse);
|}.

(** The message as its [.proto] file declares it. *)
Definition schema (m : t) : list field :=
  [implicit 1 (byte_array m.(key));
   implicit 2 (VInt Uint64 m.(offset));
   implicit 3 (VInt Uint64 m.(limit));
   implicit 4 (VBool m.(countTotal));
   implicit 5 (VBool m.(reverse))].

(** The message with its default for every property that is not kept. *)
Definition only (kept : string → bool) (m : t) : t := {|
  key := if kept "key" then m.(key) else None;
  offset := if kept "offset" then m.(offset) else Int 0;
  limit := if kept "limit" then m.(limit) else Int 0;
  countTotal := if kept "countTotal" then m.(countTotal) else false;
  reverse := if kept "reverse" then m.(reverse) else false;
|}.

#[global] Instance codec {PB : Protobuf} : FallibleCodec t :=
  {| fmsg_base := base; fmsg_encode := encode; fmsg_field := decode_field |}.

#[global] Program Instance spec {PB : Protobuf} (PS : ProtobufSpec PB) : FallibleSpec PS t :=
  {| fmsg_wire := wire; fmsg_valid := valid; fmsg_typed := typed; fmsg_normal := normal;
     fmsg_merge := merge |}.
Next Obligation. solve_fencode_wire. Qed.
Next Obligation. intros. solve_fencode_throws encode typed. Qed.
Next Obligation. solve_fdecode_wire. Qed.
Next Obligation. solve_fmerge_base. Qed.
Next Obligation. intros. solve_fadvances decode_field. Qed.

#[global] Program Instance given_ : FalliblePartial t partial :=
  {| fmsg_fromPartial := fromPartial; fmsg_full := full; fmsg_given := typed |}.
Next Obligation. solve_fgiven fromPartial typed. Qed.
Next Obligation. solve_fpartial fromPartial full typed. Qed.

#[global] Program Instance json : FallibleJson t :=
  {| fmsg_fromJSON := fromJSON; fmsg_toJSON := toJSON;
     fmsg_named := fun _ => true; fmsg_known := fun m => m |}.
Next Obligation. solve_fjson fromJSON toJSON. Qed.
Next Obligation. reflexivity. Qed.

#[global] Instance schema_wire {PB : Protobuf} {PS : ProtobufSpec PB} : WireSchema wire schema.
Proof. solve_schema_wire wire schema. Qed.

#[global] Instance schema_normal : NormalSchema normal schema.
Proof. solve_schema_normal normal schema. Qed.

#[global] Instance schema_merge : MergeSchema merge schema.
Proof. solve_schema_merge merge schema. Qed.

(** Its row in the table of message types. *)
Definition message {PB : Protobuf} {PS : ProtobufSpec PB} : message_type :=
  fallible_message "PageRequest" nothing true schema only.

#[global] Instance message_lawful {PB : Protobuf} (PS : ProtobufSpec PB) : Lawful message.
Proof. solve_lawful decode_field fromJSON only. Qed.

End PageRequest.

(** ** [PageResponse] (cosmos/base/query/v1beta1/pagination.js) *)

Module PageResponse.

Record t := mk {
  nextKey : option bytes;
  total : number;
}.

#[global] Instance t_eta : Settable t := λ m, mk m.(nextKey) m.(total).

Definition base : t := mk None 0.

Definition encode {PB : Protobuf} (message : t) (writer : Writer) : result Writer :=
  Ok writer
  @>= bytes_field 10 message.(nextKey)
  @>= pure (when (num_neq message.(total) 0) (fun w => w @> uint32 16 @> uint64 message.(total))).

Definition decode_field {PB : Protobuf} (tag : Z) (message : t) : RM t :=
  match field_number tag with
  | 1 => v ← read_bytes; mret (message <| nextKey := Some v |>)
  | 2 => v ← read_number read_uint64; mret (message <| total := v |>)
  | _ => _ ← skipType (wire_type tag); mret message
  end.

Definition decode {PB : Protobuf} (length : option Z) : RM t :=
  decode_message length base decode_field.

Definition fromJSON (object : js) : result t :=
  nextKey' ← field_or object "nextKey" (to_some bytesFromBase64) None;
  total' ← field_or object "total" js_Number 0;
  Ok (mk nextKey' total').

Definition toJSON (message : t) : js :=
  Obj (prop_opt "nextKey" (fun b => Str (base64FromBytes b)) message.(nextKey) ++
   [("total", Num message.(total))]).

Record partial := mkPartial {
  p_nextKey : option bytes;
  p_total : option number;
}.

Definition fromPartial (object : partial) : t := {|
  nextKey := Some (object.(p_nextKey) ?? []);
  total := object.(p_total) ?? Int 0;
|}.

(** The object with no property given. *)
Definition nothing : partial := mkPartial None None.

(** The bytes [encode] writes. *)
Definition wire {PB : Protobuf} {PS : ProtobufSpec PB} (m : t) : bytes :=
  f_bytes 10 m.(nextKey) ++
  f_number e_uint64 16 m.(total).

Definition valid (m : t) : Prop :=
  uint64_ok m.(total).

(** The byte fields hold arrays, as the interface declares. *)
Definition typed (m : t) : bool := given m.(nextKey).

(** The message without its empty byte arrays. *)
Definition normal (m : t) : t := {|
  nextKey := nonempty m.(nextKey);
  total := m.(total);
|}.

Definition encodable {PB : Protobuf} {PS : ProtobufSpec PB} (m : t) : Prop :=
  typed m = true ∧ valid m ∧ small (wire m).

Definition merge (m a : t) : t := {|
  nextKey := later_bytes m.(nextKey) a.(nextKey);
  total := later_number m.(total) a.(total);
|}.

(** A whole message seen as a partial one. *)
Definition full (m : t) : partial := {|
  p_nextKey := m.(nextKey);
  p_total := Some m.(total);
|}.

(** The message as its [.proto] file declares it. *)
Definition schema (m : t) : list field :=
  [implicit 1 (byte_array m.(nextKey));
   implicit 2 (VInt Uint64 m.(total))].

(** The message with its default for every property that is not kept. *)
Definition only (kept : string → bool) (m : t) : t := {|
  nextKey := if kept "nextKey" then m.(nextKey) else None;
  total := if kept "total" then m.(total) else Int 0;
|}.

#[global] Instance codec {PB : Protobuf} : FallibleCodec t :=
  {| fmsg_base := base; fmsg_encode := encode; fmsg_field := decode_field |}.

#[global] Program Instance spec {PB : Protobuf} (PS : ProtobufSpec PB) : FallibleSpec PS t :=
  {| fmsg_wire := wire; fmsg_valid := valid; fmsg_typed := typed; fmsg_normal := normal;
     fmsg_merge := merge |}.
Next Obligation. solve_fencode_wire. Qed.
Next Obligation. intros. solve_fencode_throws encode typed. Qed.
Next Obligation. solve_fdecode_wire. Qed.
Next Obligation. solve_fmerge_base. Qed.
Next Obligation. intros. solve_fadvances decode_field. Qed.

#[global] Program Instance given_ : FalliblePartial t partial :=
  {| fmsg_fromPartial := fromPartial; fmsg_full := full; fmsg_given := typed |}.
Next Obligation. solve_fgiven fromPartial typed. Qed.
Next Obligation. solve_fpartial fromPartial full typed. Qed.

#[global] Program Instance json : FallibleJson t :=
  {| fmsg_fromJSON := fromJSON; fmsg_toJSON := toJSON;
     fmsg_named := fun _ => true; fmsg_known := fun m => m |}.
Next Obligation. solve_fjson fromJSON toJSON. Qed.
Next Obligation. reflexivity. Qed.

#[global] Instance schema_wire {PB : Protobuf} {PS : ProtobufSpec PB} : WireSchema wire schema.
Proof. solve_schema_wire wire schema. Qed.

#[global] Instance schema_normal : NormalSchema normal schema.
Proof. solve_schema_normal normal schema. Qed.

#[global] Instance schema_merge : MergeSchema merge schema.
Proof. solve_schema_merge merge schema. Qed.

(** Its row in the table of message types. *)
Definition message {PB : Protobuf} {PS : ProtobufSpec PB} : message_type :=
  fallible_message "PageResponse" nothing true schema only.

#[global] Instance message_lawful {PB : Protobuf} (PS : ProtobufSpec PB) : Lawful message.
Proof. solve_lawful decode_field fromJSON only. Qed.

End PageResponse.

(** ** [Any] (google/protobuf/any.js) *)

Module Any.

Record t := mk {
  typeUrl : string;
  value : option bytes;
}.

#[global] Instance t_eta : Settable t := λ m, mk m.(typeUrl) m.(value).

Definition base : t := mk "" None.

Definition encode {PB : Protobuf} (message : t) (writer : Writer) : result Writer :=
  Ok writer
  @>= pure (when (str_neq message.(typeUrl) "")
       (fun w => w @> uint32 10 @> string_ message.(typeUrl)))
  @>= bytes_field 18 message.(value).

Definition decode_field {PB : Protobuf} (tag : Z) (message : t) : RM t :=
  match field_number tag with
  | 1 => v ← read_string; mret (message <| typeUrl := v |>)
  | 2 => v ← read_bytes; mret (message <| value := Some v |>)
  | _ => _ ← skipType (wire_type tag); mret message
  end.

Definition decode {PB : Protobuf} (length : option Z) : RM t :=
  decode_message length base decode_field.

Definition fromJSON (object : js) : result t :=
  typeUrl' ← field_or object "typeUrl" to_string "";
  value' ← field_or object "value" (to_some bytesFromBase64) None;
  Ok (mk typeUrl' value').

Definition toJSON (message : t) : js :=
  Obj ([("typeUrl", Str message.(typeUrl))] ++
   prop_opt "value" (fun b => Str (base64FromBytes b)) message.(value)).

Record partial := mkPartial {
  p_typeUrl : option string;
  p_value : option bytes;
}.

Definition fromPartial (object : partial) : t := {|
  typeUrl := object.(p_typeUrl) ?? "";
  value := Some (object.(p_value) ?? []);
|}.

(** The object with no property given. *)
Definition nothing : partial := mkPartial None None.

(** The bytes [encode] writes. *)
Definition wire {PB : Protobuf} {PS : ProtobufSpec PB} (m : t) : bytes :=
  f_string 10 m.(typeUrl) ++
  f_bytes 18 m.(value).

Definition valid (m : t) : Prop :=
  True.

(** The byte fields hold arrays, as the interface declares. *)
Definition typed (m : t) : bool := given m.(value).

(** The message without its empty byte arrays. *)
Definition normal (m : t) : t := {|
  typeUrl := m.(typeUrl);
  value := nonempty m.(value);
|}.

Definition encodable {PB : Protobuf} {PS : ProtobufSpec PB} (m : t) : Prop :=
  typed m = true ∧ valid m ∧ small (wire m).

Definition merge (m a : t) : t := {|
  typeUrl := later_string m.(typeUrl) a.(typeUrl);
  value := later_bytes m.(value) a.(value);
|}.

(** A whole message seen as a partial one. *)
Definition full (m : t) : partial := {|
  p_typeUrl := Some m.(typeUrl);
  p_value := m.(value);
|}.

(** The message as its [.proto] file declares it. *)
Definition schema (m : t) : list field :=
  [implicit 1 (VString m.(typeUrl));
   implicit 2 (byte_array m.(value))].

(** The message with its default for every property that is not kept. *)
Definition only (kept : string → bool) (m : t) : t := {|
  typeUrl := if kept "typeUrl" then m.(typeUrl) else "";
  value := if kept "value" then m.(value) else None;
|}.

#[global] Instance codec {PB : Protobuf} : FallibleCodec t :=
  {| fmsg_base := base; fmsg_encode := encode; fmsg_field := decode_field |}.

#[global] Program Instance spec {PB : Protobuf} (PS : ProtobufSpec PB) : FallibleSpec PS t :=
  {| fmsg_wire := wire; fmsg_valid := valid; fmsg_typed := typed; fmsg_normal := normal;
     fmsg_merge := merge |}.
Next Obligation. solve_fencode_wire. Qed.
Next Obligation. intros. solve_fencode_throws encode typed. Qed.
Next Obligation. solve_fdecode_wire. Qed.
Next Obligation. solve_fmerge_base. Qed.
Next Obligation. intros. solve_fadvances decode_field. Qed.

#[global] Program Instance given_ : FalliblePartial t partial :=
  {| fmsg_fromPartial := fromPartial; fmsg_full := full; fmsg_given := typed |}.
Next Obligation. solve_fgiven fromPartial typed. Qed.
Next Obligation. solve_fpartial fromPartial full typed. Qed.

#[global] Program Instance json : FallibleJson t :=
  {| fmsg_fromJSON := fromJSON; fmsg_toJSON := toJSON;
     fmsg_named := fun _ => true; fmsg_known := fun m => m |}.
Next Obligation. solve_fjson fromJSON toJSON. Qed.
Next Obligation. reflexivity. Qed.

#[global] Instance schema_wire {PB : Protobuf} {PS : ProtobufSpec PB} : WireSchema wire schema.
Proof. solve_schema_wire wire schema. Qed.

#[global] Instance schema_normal : NormalSchema normal schema.
Proof. solve_schema_normal normal schema. Qed.

#[global] Instance schema_merge : MergeSchema merge schema.
Proof. solve_schema_merge merge schema. Qed.

(** Its row in the table of message types. *)
Definition message {PB : Protobuf} {PS : ProtobufSpec PB} : message_type :=
  fallible_message "Any" nothing true schema only.

#[global] Instance message_lawful {PB : Protobuf} (PS : ProtobufSpec PB) : Lawful message.
Proof. solve_lawful decode_field fromJSON only. Qed.

End Any.

(** The row of the type of [TimeTypes.v]. *)
Definition timestamp_message {PB : Protobuf} {PS : ProtobufSpec PB} : message_type :=
  plain_message "Timestamp" Timestamp.nothing true timestamp_schema Timestamp.only.

#[global] Instance timestamp_lawful {PB : Protobuf} (PS : ProtobufSpec PB) : Lawful timestamp_message.
Proof. solve_lawful Timestamp.decode_field Timestamp.fromJSON Timestamp.only. Qed.

(** ** The message types of this file *)

Definition messages {PB : Protobuf} {PS : ProtobufSpec PB} : list message_type :=
  [ PageRequest.message; PageResponse.message; Any.message; timestamp_message].

Lemma CommonTypes_lawful {PB : Protobuf} {PS : ProtobufSpec PB} : Forall Lawful messages.
Proof. solve_table. Qed.
