(* ===== verification/PkiTypes.v ===== *)
(** * The types of the pki module

    Certificates and the collections the ledger keeps of them: the codecs of
    [pki/module/types/pki/*.js].  Each message type is a [Module] with the
    interface of its TypeScript file as the record [t] and the functions of
    the exported object under their own names.  [wire], [valid], [merge] and
    [full] are the specification side: the proto3 encoding of the message
    declared in [proto/pki/], the values its fields can carry, the result of
    reading two encodings in a row, and the message as a partial object. *)
From S2P Require Import Prelude Js Protobuf Codec Calendar Dates Base64 Fallible Proto3 MessageTable.
Open Scope Z_scope.

(** ** [Grant] (pki/grant.js) *)

Module Grant.

Record t := mk {
  address : string;
  time : number;
  info : string;
}.

#[global] Instance t_eta : Settable t := λ m, mk m.(address) m.(time) m.(info).

Definition base : t := mk "" 0 "".

Definition encode {PB : Protobuf} (message : t) (writer : Writer) : Writer :=
  writer
  @> when (str_neq message.(address) "") (fun w => w @> uint32 10 @> string_ message.(address))
  @> when (num_neq message.(time) 0) (fun w => w @> uint32 16 @> int64 message.(time))
  @> when (str_neq message.(info) "") (fun w => w @> uint32 26 @> string_ message.(info)).

Definition decode_field {PB : Protobuf} (tag : Z) (message : t) : RM t :=
  match field_number tag with
  | 1 => v ← read_string; mret (message <| address := v |>)
  | 2 => v ← read_number read_int64; mret (message <| time := v |>)
  | 3 => v ← read_string; mret (message <| info := v |>)
  | _ => _ ← skipType (wire_type tag); mret message
  end.

Definition decode {PB : Protobuf} (length : option Z) : RM t :=
  decode_message length base decode_field.

Definition fromJSON (object : js) : result t :=
  address' ← field_or object "address" to_string "";
  time' ← field_or object "time" js_Number 0;
  info' ← field_or object "info" to_string "";
  Ok (mk address' time' info').

Definition toJSON (message : t) : js :=
  Obj ([("address", Str message.(address));
    ("time", Num message.(time));
    ("info", Str message.(info))]).

Record partial := mkPartial {
  p_address : option string;
  p_time : option number;
  p_info : option string;
}.

Definition fromPartial (object : partial) : t := {|
  address := object.(p_address) ?? "";
  time := object.(p_time) ?? Int 0;
  info := object.(p_info) ?? "";
|}.

(** The object with no property given. *)
Definition nothing : partial := mkPartial None None None.

(** The bytes [encode] writes. *)
Definition wire {PB : Protobuf} {PS : ProtobufSpec PB} (m : t) : bytes :=
  f_string 10 m.(address) ++
  f_number e_int64 16 m.(time) ++
  f_string 26 m.(info).

Definition valid (m : t) : Prop :=
  int64_ok m.(time).

Definition encodable {PB : Protobuf} {PS : ProtobufSpec PB} (m : t) : Prop :=
  valid m ∧ small (wire m).

Definition merge (m a : t) : t := {|
  address := later_string m.(address) a.(address);
  time := later_number m.(time) a.(time);
  info := later_string m.(info) a.(info);
|}.

(** A whole message seen as a partial one. *)
Definition full (m : t) : partial := {|
  p_address := Some m.(address);
  p_time := Some m.(time);
  p_info := Some m.(info);
|}.

(** The message as its [.proto] file declares it. *)
Definition schema (m : t) : list field :=
  [implicit 1 (VString m.(address));
   implicit 2 (VInt Int64 m.(time));
   implicit 3 (VString m.(info))].

(** The message with its default for every property that is not kept. *)
Definition only (kept : string → bool) (m : t) : t := {|
  address := if kept "address" then m.(address) else "";
  time := if kept "time" then m.(time) else Int 0;
  info := if kept "info" then m.(info) else "";
|}.

#[global] Instance codec {PB : Protobuf} : MessageCodec t :=
  {| msg_base := base; msg_encode := encode; msg_field := decode_field |}.

#[global] Program Instance spec {PB : Protobuf} (PS : ProtobufSpec PB) : MessageSpec PS t :=
  {| msg_wire := wire; msg_valid := valid; msg_merge := merge |}.
Next Obligation. solve_encode_wire. Qed.
Next Obligation. solve_decode_wire. Qed.
Next Obligation. solve_merge_base. Qed.
Next Obligation. intros. solve_advances decode_field. Qed.

#[global] Program Instance data : MessageData t partial :=
  {| msg_fromJSON := fromJSON; msg_toJSON := toJSON;
     msg_fromPartial := fromPartial; msg_full := full |}.
Next Obligation. solve_json fromJSON toJSON. Qed.
Next Obligation. solve_partial fromPartial full. Qed.

#[global] Instance schema_wire {PB : Protobuf} {PS : ProtobufSpec PB} : WireSchema wire schema.
Proof. solve_schema_wire wire schema. Qed.

#[global] Instance schema_merge : MergeSchema merge schema.
Proof. solve_schema_merge merge schema. Qed.

(** Its row in the table of message types. *)
Definition message {PB : Protobuf} {PS : ProtobufSpec PB} : message_type :=
  plain_message "Grant" nothing true schema only.

#[global] Instance message_lawful {PB : Protobuf} (PS : ProtobufSpec PB) : Lawful message.
Proof. solve_lawful decode_field fromJSON only. Qed.

End Grant.

(** ** [CertificateIdentifier] (pki/certificate_identifier.js) *)

Module CertificateIdentifier.

Record t := mk {
  subject : string;
  subjectKeyId : string;
}.

#[global] Instance t_eta : Settable t := λ m, mk m.(subject) m.(subjectKeyId).

Definition base : t := mk "" "".

Definition encode {PB : Protobuf} (message : t) (writer : Writer) : Writer :=
  writer
  @> when (str_neq message.(subject) "") (fun w => w @> uint32 10 @> string_ message.(subject))
  @> when (str_neq message.(subjectKeyId) "")
       (fun w => w @> uint32 18 @> string_ message.(subjectKeyId)).

Definition decode_field {PB : Protobuf} (tag : Z) (message : t) : RM t :=
  match field_number tag with
  | 1 => v ← read_string; mret (message <| subject := v |>)
  | 2 => v ← read_string; mret (message <| subjectKeyId := v |>)
  | _ => _ ← skipType (wire_type tag); mret message
  end.

Definition decode {PB : Protobuf} (length : option Z) : RM t :=
  decode_message length base decode_field.

Definition fromJSON (object : js) : result t :=
  subject' ← field_or object "subject" to_string "";
  subjectKeyId' ← field_or object "subjectKeyId" to_string "";
  Ok (mk subject' subjectKeyId').

Definition toJSON (message : t) : js :=
  Obj ([("subject", Str message.(subject));
    ("subjectKeyId", Str message.(subjectKeyId))]).

Record partial := mkPartial {
  p_subject : option string;
  p_subjectKeyId : option string;
}.

Definition fromPartial (object : partial) : t := {|
  subject := object.(p_subject) ?? "";
  subjectKeyId := object.(p_subjectKeyId) ?? "";
|}.

(** The object with no property given. *)
Definition nothing : partial := mkPartial None None.

(** The bytes [encode] writes. *)
Definition wire {PB : Protobuf} {PS : ProtobufSpec PB} (m : t) : bytes :=
  f_string 10 m.(subject) ++
  f_string 18 m.(subjectKeyId).

Definition valid (m : t) : Prop :=
  True.

Definition encodable {PB : Protobuf} {PS : ProtobufSpec PB} (m : t) : Prop :=
  valid m ∧ small (wire m).

Definition merge (m a : t) : t := {|
  subject := later_string m.(subject) a.(subject);
  subjectKeyId := later_string m.(subjectKeyId) a.(subjectKeyId);
|}.

(** A whole message seen as a partial one. *)
Definition full (m : t) : partial := {|
  p_subject := Some m.(subject);
  p_subjectKeyId := Some m.(subjectKeyId);
|}.

(** The message as its [.proto] file declares it. *)
Definition schema (m : t) : list field :=
  [implicit 1 (VString m.(subject));
   implicit 2 (VString m.(subjectKeyId))].

(** The message with its default for every property that is not kept. *)
Definition only (kept : string → bool) (m : t) : t := {|
  subject := if kept "subject" then m.(subject) else "";
  subjectKeyId := if kept "subjectKeyId" then m.(subjectKeyId) else "";
|}.

#[global] Instance codec {PB : Protobuf} : MessageCodec t :=
  {| msg_base := base; msg_encode := encode; msg_field := decode_field |}.

#[global] Program Instance spec {PB : Protobuf} (PS : ProtobufSpec PB) : MessageSpec PS t :=
  {| msg_wire := wire; msg_valid := valid; msg_merge := merge |}.
Next Obligation. solve_encode_wire. Qed.
Next Obligation. solve_decode_wire. Qed.
Next Obligation. solve_merge_base. Qed.
Next Obligation. intros. solve_advances decode_field. Qed.

#[global] Program Instance data : MessageData t partial :=
  {| msg_fromJSON := fromJSON; msg_toJSON := toJSON;
     msg_fromPartial := fromPartial; msg_full := full |}.
Next Obligation. solve_json fromJSON toJSON. Qed.
Next Obligation. solve_partial fromPartial full. Qed.

#[global] Instance schema_wire {PB : Protobuf} {PS : ProtobufSpec PB} : WireSchema wire schema.
Proof. solve_schema_wire wire schema. Qed.

#[global] Instance schema_merge : MergeSchema merge schema.
Proof. solve_schema_merge merge schema. Qed.

(** Its row in the table of message types. *)
Definition message {PB : Protobuf} {PS : ProtobufSpec PB} : message_type :=
  plain_message "CertificateIdentifier" nothing true schema only.

#[global] Instance message_lawful {PB : Protobuf} (PS : ProtobufSpec PB) : Lawful message.
Proof. solve_lawful decode_field fromJSON only. Qed.

End CertificateIdentifier.

(** ** [Certificate] (pki/certificate.js) *)

Module Certificate.

Record t := mk {
  pemCert : string;
  serialNumber : string;
  issuer : string;
  authorityKeyId : string;
  rootSubject : string;
  rootSubjectKeyId : string;
  isRoot : bool;
  owner : string;
  subject : string;
  subjectKeyId : string;
  approvals : list Grant.t;
  subjectAsText : string;
  rejects : list Grant.t;
}.

#[global] Instance t_eta : Settable t := λ m, mk m.(pemCert) m.(serialNumber) m.(issuer)
  m.(authorityKeyId) m.(rootSubject) m.(rootSubjectKeyId) m.(isRoot) m.(owner) m.(subject)
  m.(subjectKeyId) m.(approvals) m.(subjectAsText) m.(rejects).

Definition base : t := mk "" "" "" "" "" "" false "" "" "" [] "" [].

Definition encode {PB : Protobuf} (message : t) (writer : Writer) : Writer :=
  writer
  @> when (str_neq message.(pemCert) "") (fun w => w @> uint32 10 @> string_ message.(pemCert))
  @> when (str_neq message.(serialNumber) "")
       (fun w => w @> uint32 18 @> string_ message.(serialNumber))
  @> when (str_neq message.(issuer) "") (fun w => w @> uint32 26 @> string_ message.(issuer))
  @> when (str_neq message.(authorityKeyId) "")
       (fun w => w @> uint32 34 @> string_ message.(authorityKeyId))
  @> when (str_neq message.(rootSubject) "")
       (fun w => w @> uint32 42 @> string_ message.(rootSubject))
  @> when (str_neq message.(rootSubjectKeyId) "")
       (fun w => w @> uint32 50 @> string_ message.(rootSubjectKeyId))
  @> when (Bool.eqb message.(isRoot) true) (fun w => w @> uint32 56 @> bool_ message.(isRoot))
  @> when (str_neq message.(owner) "") (fun w => w @> uint32 66 @> string_ message.(owner))
  @> when (str_neq message.(subject) "") (fun w => w @> uint32 74 @> string_ message.(subject))
  @> when (str_neq message.(subjectKeyId) "")
       (fun w => w @> uint32 82 @> string_ message.(subjectKeyId))
  @> each message.(approvals) (fun v w => w @> uint32 90 @> fork @> Grant.encode v @> ldelim)
  @> when (str_neq message.(subjectAsText) "")
       (fun w => w @> uint32 98 @> string_ message.(subjectAsText))
  @> each message.(rejects) (fun v w => w @> uint32 106 @> fork @> Grant.encode v @> ldelim).

Definition decode_field {PB : Protobuf} (tag : Z) (message : t) : RM t :=
  match field_number tag with
  | 1 => v ← read_string; mret (message <| pemCert := v |>)
  | 2 => v ← read_string; mret (message <| serialNumber := v |>)
  | 3 => v ← read_string; mret (message <| issuer := v |>)
  | 4 => v ← read_string; mret (message <| authorityKeyId := v |>)
  | 5 => v ← read_string; mret (message <| rootSubject := v |>)
  | 6 => v ← read_string; mret (message <| rootSubjectKeyId := v |>)
  | 7 => v ← read_bool; mret (message <| isRoot := v |>)
  | 8 => v ← read_string; mret (message <| owner := v |>)
  | 9 => v ← read_string; mret (message <| subject := v |>)
  | 10 => v ← read_string; mret (message <| subjectKeyId := v |>)
  | 11 => v ← read_nested Grant.decode; mret (message <| approvals := message.(approvals) ++ [v] |>)
  | 12 => v ← read_string; mret (message <| subjectAsText := v |>)
  | 13 => v ← read_nested Grant.decode; mret (message <| rejects := message.(rejects) ++ [v] |>)
  | _ => _ ← skipType (wire_type tag); mret message
  end.

Definition decode {PB : Protobuf} (length : option Z) : RM t :=
  decode_message length base decode_field.

Definition fromJSON (object : js) : result t :=
  pemCert' ← field_or object "pemCert" to_string "";
  serialNumber' ← field_or object "serialNumber" to_string "";
  issuer' ← field_or object "issuer" to_string "";
  authorityKeyId' ← field_or object "authorityKeyId" to_string "";
  rootSubject' ← field_or object "rootSubject" to_string "";
  rootSubjectKeyId' ← field_or object "rootSubjectKeyId" to_string "";
  isRoot' ← field_or object "isRoot" to_bool false;
  owner' ← field_or object "owner" to_string "";
  subject' ← field_or object "subject" to_string "";
  subjectKeyId' ← field_or object "subjectKeyId" to_string "";
  approvals' ← field_or object "approvals" (to_list Grant.fromJSON) [];
  subjectAsText' ← field_or object "subjectAsText" to_string "";
  rejects' ← field_or object "rejects" (to_list Grant.fromJSON) [];
  Ok (mk pemCert' serialNumber' issuer' authorityKeyId' rootSubject' rootSubjectKeyId' isRoot'
    owner' subject' subjectKeyId' approvals' subjectAsText' rejects').

Definition toJSON (message : t) : js :=
  Obj ([("pemCert", Str message.(pemCert));
    ("serialNumber", Str message.(serialNumber));
    ("issuer", Str message.(issuer));
    ("authorityKeyId", Str message.(authorityKeyId));
    ("rootSubject", Str message.(rootSubject));
    ("rootSubjectKeyId", Str message.(rootSubjectKeyId));
    ("isRoot", Bool message.(isRoot));
    ("owner", Str message.(owner));
    ("subject", Str message.(subject));
    ("subjectKeyId", Str message.(subjectKeyId));
    ("approvals", Arr (map Grant.toJSON message.(approvals)));
    ("subjectAsText", Str message.(subjectAsText));
    ("rejects", Arr (map Grant.toJSON message.(rejects)))]).

Record partial := mkPartial {
  p_pemCert : option string;
  p_serialNumber : option string;
  p_issuer : option string;
  p_authorityKeyId : option string;
  p_rootSubject : option string;
  p_rootSubjectKeyId : option string;
  p_isRoot : option bool;
  p_owner : option string;
  p_subject : option string;
  p_subjectKeyId : option string;
  p_approvals : option (list Grant.partial);
  p_subjectAsText : option string;
  p_rejects : option (list Grant.partial);
}.

Definition fromPartial (object : partial) : t := {|
  pemCert := object.(p_pemCert) ?? "";
  serialNumber := object.(p_serialNumber) ?? "";
  issuer := object.(p_issuer) ?? "";
  authorityKeyId := object.(p_authorityKeyId) ?? "";
  rootSubject := object.(p_rootSubject) ?? "";
  rootSubjectKeyId := object.(p_rootSubjectKeyId) ?? "";
  isRoot := object.(p_isRoot) ?? false;
  owner := object.(p_owner) ?? "";
  subject := object.(p_subject) ?? "";
  subjectKeyId := object.(p_subjectKeyId) ?? "";
  approvals := map Grant.fromPartial (object.(p_approvals) ?? []);
  subjectAsText := object.(p_subjectAsText) ?? "";
  rejects := map Grant.fromPartial (object.(p_rejects) ?? []);
|}.

(** The object with no property given. *)
Definition nothing : partial := mkPartial None None None None None None None None None None None
  None None.

(** The bytes [encode] writes. *)
Definition wire {PB : Protobuf} {PS : ProtobufSpec PB} (m : t) : bytes :=
  f_string 10 m.(pemCert) ++
  f_string 18 m.(serialNumber) ++
  f_string 26 m.(issuer) ++
  f_string 34 m.(authorityKeyId) ++
  f_string 42 m.(rootSubject) ++
  f_string 50 m.(rootSubjectKeyId) ++
  f_bool 56 m.(isRoot) ++
  f_string 66 m.(owner) ++
  f_string 74 m.(subject) ++
  f_string 82 m.(subjectKeyId) ++
  f_repeated 90 Grant.wire m.(approvals) ++
  f_string 98 m.(subjectAsText) ++
  f_repeated 106 Grant.wire m.(rejects).

Definition valid (m : t) : Prop :=
  Forall Grant.valid m.(approvals) ∧ Forall Grant.valid m.(rejects).

Definition encodable {PB : Protobuf} {PS : ProtobufSpec PB} (m : t) : Prop :=
  valid m ∧ small (wire m).

Definition merge (m a : t) : t := {|
  pemCert := later_string m.(pemCert) a.(pemCert);
  serialNumber := later_string m.(serialNumber) a.(serialNumber);
  issuer := later_string m.(issuer) a.(issuer);
  authorityKeyId := later_string m.(authorityKeyId) a.(authorityKeyId);
  rootSubject := later_string m.(rootSubject) a.(rootSubject);
  rootSubjectKeyId := later_string m.(rootSubjectKeyId) a.(rootSubjectKeyId);
  isRoot := later_bool m.(isRoot) a.(isRoot);
  owner := later_string m.(owner) a.(owner);
  subject := later_string m.(subject) a.(subject);
  subjectKeyId := later_string m.(subjectKeyId) a.(subjectKeyId);
  approvals := m.(approvals) ++ a.(approvals);
  subjectAsText := later_string m.(subjectAsText) a.(subjectAsText);
  rejects := m.(rejects) ++ a.(rejects);
|}.

(** A whole message seen as a partial one. *)
Definition full (m : t) : partial := {|
  p_pemCert := Some m.(pemCert);
  p_serialNumber := Some m.(serialNumber);
  p_issuer := Some m.(issuer);
  p_authorityKeyId := Some m.(authorityKeyId);
  p_rootSubject := Some m.(rootSubject);
  p_rootSubjectKeyId := Some m.(rootSubjectKeyId);
  p_isRoot := Some m.(isRoot);
  p_owner := Some m.(owner);
  p_subject := Some m.(subject);
  p_subjectKeyId := Some m.(subjectKeyId);
  p_approvals := Some (map Grant.full m.(approvals));
  p_subjectAsText := Some m.(subjectAsText);
  p_rejects := Some (map Grant.full m.(rejects));
|}.

(** The message as its [.proto] file declares it. *)
Definition schema (m : t) : list field :=
  [implicit 1 (VString m.(pemCert));
   implicit 2 (VString m.(serialNumber));
   implicit 3 (VString m.(issuer));
   implicit 4 (VString m.(authorityKeyId));
   implicit 5 (VString m.(rootSubject));
   implicit 6 (VString m.(rootSubjectKeyId));
   implicit 7 (VBool m.(isRoot));
   implicit 8 (VString m.(owner));
   implicit 9 (VString m.(subject));
   implicit 10 (VString m.(subjectKeyId));
   repeated 11 (message_value Grant.schema) m.(approvals);
   implicit 12 (VString m.(subjectAsText));
   repeated 13 (message_value Grant.schema) m.(rejects)].

(** The message with its default for every property that is not kept. *)
Definition only (kept : string → bool) (m : t) : t := {|
  pemCert := if kept "pemCert" then m.(pemCert) else "";
  serialNumber := if kept "serialNumber" then m.(serialNumber) else "";
  issuer := if kept "issuer" then m.(issuer) else "";
  authorityKeyId := if kept "authorityKeyId" then m.(authorityKeyId) else "";
  rootSubject := if kept "rootSubject" then m.(rootSubject) else "";
  rootSubjectKeyId := if kept "rootSubjectKeyId" then m.(rootSubjectKeyId) else "";
  isRoot := if kept "isRoot" then m.(isRoot) else false;
  owner := if kept "owner" then m.(owner) else "";
  subject := if kept "subject" then m.(subject) else "";
  subjectKeyId := if kept "subjectKeyId" then m.(subjectKeyId) else "";
  approvals := if kept "approvals" then m.(approvals) else [];
  subjectAsText := if kept "subjectAsText" then m.(subjectAsText) else "";
  rejects := if kept "rejects" then m.(rejects) else [];
|}.

#[global] Instance codec {PB : Protobuf} : MessageCodec t :=
  {| msg_base := base; msg_encode := encode; msg_field := decode_field |}.

#[global] Program Instance spec {PB : Protobuf} (PS : ProtobufSpec PB) : MessageSpec PS t :=
  {| msg_wire := wire; msg_valid := valid; msg_merge := merge |}.
Next Obligation. solve_encode_wire. Qed.
Next Obligation. solve_decode_wire. Qed.
Next Obligation. solve_merge_base. Qed.
Next Obligation. intros. solve_advances decode_field. Qed.

#[global] Program Instance data : MessageData t partial :=
  {| msg_fromJSON := fromJSON; msg_toJSON := toJSON;
     msg_fromPartial := fromPartial; msg_full := full |}.
Next Obligation. solve_json fromJSON toJSON. Qed.
Next Obligation. solve_partial fromPartial full. Qed.

#[global] Instance schema_wire {PB : Protobuf} {PS : ProtobufSpec PB} : WireSchema wire schema.
Proof. solve_schema_wire wire schema. Qed.

#[global] Instance schema_merge : MergeSchema merge schema.
Proof. solve_schema_merge merge schema. Qed.

(** Its row in the table of message types. *)
Definition message {PB : Protobuf} {PS : ProtobufSpec PB} : message_type :=
  plain_message "Certificate" nothing true schema only.

#[global] Instance message_lawful {PB : Protobuf} (PS : ProtobufSpec PB) : Lawful message.
Proof. solve_lawful decode_field fromJSON only. Qed.

End Certificate.

(** ** [UniqueCertificate] (pki/unique_certificate.js) *)

Module UniqueCertificate.

Record t := mk {
  issuer : string;
  serialNumber : string;
  present : bool;
}.

#[global] Instance t_eta : Settable t := λ m, mk m.(issuer) m.(serialNumber) m.(present).

Definition base : t := mk "" "" false.

Definition encode {PB : Protobuf} (message : t) (writer : Writer) : Writer :=
  writer
  @> when (str_neq message.(issuer) "") (fun w => w @> uint32 10 @> string_ message.(issuer))
  @> when (str_neq message.(serialNumber) "")
       (fun w => w @> uint32 18 @> string_ message.(serialNumber))
  @> when (Bool.eqb message.(present) true) (fun w => w @> uint32 24 @> bool_ message.(present)).

Definition decode_field {PB : Protobuf} (tag : Z) (message : t) : RM t :=
  match field_number tag with
  | 1 => v ← read_string; mret (message <| issuer := v |>)
  | 2 => v ← read_string; mret (message <| serialNumber := v |>)
  | 3 => v ← read_bool; mret (message <| present := v |>)
  | _ => _ ← skipType (wire_type tag); mret message
  end.

Definition decode {PB : Protobuf} (length : option Z) : RM t :=
  decode_message length base decode_field.

Definition fromJSON (object : js) : result t :=
  issuer' ← field_or object "issuer" to_string "";
  serialNumber' ← field_or object "serialNumber" to_string "";
  present' ← field_or object "present" to_bool false;
  Ok (mk issuer' serialNumber' present').

Definition toJSON (message : t) : js :=
  Obj ([("issuer", Str message.(issuer));
    ("serialNumber", Str message.(serialNumber));
    ("present", Bool message.(present))]).

Record partial := mkPartial {
  p_issuer : option string;
  p_serialNumber : option string;
  p_present : option bool;
}.

Definition fromPartial (object : partial) : t := {|
  issuer := object.(p_issuer) ?? "";
  serialNumber := object.(p_serialNumber) ?? "";
  present := object.(p_present) ?? false;
|}.

(** The object with no property given. *)
Definition nothing : partial := mkPartial None None None.

(** The bytes [encode] writes. *)
Definition wire {PB : Protobuf} {PS : ProtobufSpec PB} (m : t) : bytes :=
  f_string 10 m.(issuer) ++
  f_string 18 m.(serialNumber) ++
  f_bool 24 m.(present).

Definition valid (m : t) : Prop :=
  True.

Definition encodable {PB : Protobuf} {PS : ProtobufSpec PB} (m : t) : Prop :=
  valid m ∧ small (wire m).

Definition merge (m a : t) : t := {|
  issuer := later_string m.(issuer) a.(issuer);
  serialNumber := later_string m.(serialNumber) a.(serialNumber);
  present := later_bool m.(present) a.(present);
|}.

(** A whole message seen as a partial one. *)
Definition full (m : t) : partial := {|
  p_issuer := Some m.(issuer);
  p_serialNumber := Some m.(serialNumber);
  p_present := Some m.(present);
|}.

(** The message as its [.proto] file declares it. *)
Definition schema (m : t) : list field :=
  [implicit 1 (VString m.(issuer));
   implicit 2 (VString m.(serialNumber));
   implicit 3 (VBool m.(present))].

(** The message with its default for every property that is not kept. *)
Definition only (kept : string → bool) (m : t) : t := {|
  issuer := if kept "issuer" then m.(issuer) else "";
  serialNumber := if kept "serialNumber" then m.(serialNumber) else "";
  present := if kept "present" then m.(present) else false;
|}.

#[global] Instance codec {PB : Protobuf} : MessageCodec t :=
  {| msg_base := base; msg_encode := encode; msg_field := decode_field |}.

#[global] Program Instance spec {PB : Protobuf} (PS : ProtobufSpec PB) : MessageSpec PS t :=
  {| msg_wire := wire; msg_valid := valid; msg_merge := merge |}.
Next Obligation. solve_encode_wire. Qed.
Next Obligation. solve_decode_wire. Qed.
Next Obligation. solve_merge_base. Qed.
Next Obligation. intros. solve_advances decode_field. Qed.

#[global] Program Instance data : MessageData t partial :=
  {| msg_fromJSON := fromJSON; msg_toJSON := toJSON;
     msg_fromPartial := fromPartial; msg_full := full |}.
Next Obligation. solve_json fromJSON toJSON. Qed.
Next Obligation. solve_partial fromPartial full. Qed.

#[global] Instance schema_wire {PB : Protobuf} {PS : ProtobufSpec PB} : WireSchema wire schema.
Proof. solve_schema_wire wire schema. Qed.

#[global] Instance schema_merge : MergeSchema merge schema.
Proof. solve_schema_merge merge schema. Qed.

(** Its row in the table of message types. *)
Definition message {PB : Protobuf} {PS : ProtobufSpec PB} : message_type :=
  plain_message "UniqueCertificate" nothing true schema only.

#[global] Instance message_lawful {PB : Protobuf} (PS : ProtobufSpec PB) : Lawful message.
Proof. solve_lawful decode_field fromJSON only. Qed.

End UniqueCertificate.

(** ** [ApprovedCertificates] (pki/approved_certificates.js) *)

Module ApprovedCertificates.

Record t := mk {
  subject : string;
  subjectKeyId : string;
  certs : list Certificate.t;
}.

#[global] Instance t_eta : Settable t := λ m, mk m.(subject) m.(subjectKeyId) m.(certs).

Definition base : t := mk "" "" [].

Definition encode {PB : Protobuf} (message : t) (writer : Writer) : Writer :=
  writer
  @> when (str_neq message.(subject) "") (fun w => w @> uint32 10 @> string_ message.(subject))
  @> when (str_neq message.(subjectKeyId) "")
       (fun w => w @> uint32 18 @> string_ message.(subjectKeyId))
  @> each message.(certs) (fun v w => w @> uint32 26 @> fork @> Certificate.encode v @> ldelim).

Definition decode_field {PB : Protobuf} (tag : Z) (message : t) : RM t :=
  match field_number tag with
  | 1 => v ← read_string; mret (message <| subject := v |>)
  | 2 => v ← read_string; mret (message <| subjectKeyId := v |>)
  | 3 => v ← read_nested Certificate.decode; mret (message <| certs := message.(certs) ++ [v] |>)
  | _ => _ ← skipType (wire_type tag); mret message
  end.

Definition decode {PB : Protobuf} (length : option Z) : RM t :=
  decode_message length base decode_field.

Definition fromJSON (object : js) : result t :=
  subject' ← field_or object "subject" to_string "";
  subjectKeyId' ← field_or object "subjectKeyId" to_string "";
  certs' ← field_or object "certs" (to_list Certificate.fromJSON) [];
  Ok (mk subject' subjectKeyId' certs').

Definition toJSON (message : t) : js :=
  Obj ([("subject", Str message.(subject));
    ("subjectKeyId", Str message.(subjectKeyId));
    ("certs", Arr (map Certificate.toJSON message.(certs)))]).

Record partial := mkPartial {
  p_subject : option string;
  p_subjectKeyId : option string;
  p_certs : option (list Certificate.partial);
}.

Definition fromPartial (object : partial) : t := {|
  subject := object.(p_subject) ?? "";
  subjectKeyId := object.(p_subjectKeyId) ?? "";
  certs := map Certificate.fromPartial (object.(p_certs) ?? []);
|}.

(** The object with no property given. *)
Definition nothing : partial := mkPartial None None None.

(** The bytes [encode] writes. *)
Definition wire {PB : Protobuf} {PS : ProtobufSpec PB} (m : t) : bytes :=
  f_string 10 m.(subject) ++
  f_string 18 m.(subjectKeyId) ++
  f_repeated 26 Certificate.wire m.(certs).

Definition valid (m : t) : Prop :=
  Forall Certificate.valid m.(certs).

Definition encodable {PB : Protobuf} {PS : ProtobufSpec PB} (m : t) : Prop :=
  valid m ∧ small (wire m).

Definition merge (m a : t) : t := {|
  subject := later_string m.(subject) a.(subject);
  subjectKeyId := later_string m.(subjectKeyId) a.(subjectKeyId);
  certs := m.(certs) ++ a.(certs);
|}.

(** A whole message seen as a partial one. *)
Definition full (m : t) : partial := {|
  p_subject := Some m.(subject);
  p_subjectKeyId := Some m.(subjectKeyId);
  p_certs := Some (map Certificate.full m.(certs));
|}.

(** The message as its [.proto] file declares it. *)
Definition schema (m : t) : list field :=
  [implicit 1 (VString m.(subject));
   implicit 2 (VString m.(subjectKeyId));
   repeated 3 (message_value Certificate.schema) m.(certs)].

(** The message with its default for every property that is not kept. *)
Definition only (kept : string → bool) (m : t) : t := {|
  subject := if kept "subject" then m.(subject) else "";
  subjectKeyId := if kept "subjectKeyId" then m.(subjectKeyId) else "";
  certs := if kept "certs" then m.(certs) else [];
|}.

#[global] Instance codec {PB : Protobuf} : MessageCodec t :=
  {| msg_base := base; msg_encode := encode; msg_field := decode_field |}.

#[global] Program Instance spec {PB : Protobuf} (PS : ProtobufSpec PB) : MessageSpec PS t :=
  {| msg_wire := wire; msg_valid := valid; msg_merge := merge |}.
Next Obligation. solve_encode_wire. Qed.
Next Obligation. solve_decode_wire. Qed.
Next Obligation. solve_merge_base. Qed.
Next Obligation. intros. solve_advances decode_field. Qed.

#[global] Program Instance data : MessageData t partial :=
  {| msg_fromJSON := fromJSON; msg_toJSON := toJSON;
     msg_fromPartial := fromPartial; msg_full := full |}.
Next Obligation. solve_json fromJSON toJSON. Qed.
Next Obligation. solve_partial fromPartial full. Qed.

#[global] Instance schema_wire {PB : Protobuf} {PS : ProtobufSpec PB} : WireSchema wire schema.
Proof. solve_schema_wire wire schema. Qed.

#[global] Instance schema_merge : MergeSchema merge schema.
Proof. solve_schema_merge merge schema. Qed.

(** Its row in the table of message types. *)
Definition message {PB : Protobuf} {PS : ProtobufSpec PB} : message_type :=
  plain_message "ApprovedCertificates" nothing true schema only.

#[global] Instance message_lawful {PB : Protobuf} (PS : ProtobufSpec PB) : Lawful message.
Proof. solve_lawful decode_field fromJSON only. Qed.

End ApprovedCertificates.

(** ** [ApprovedCertificatesBySubject] (pki/approved_certificates_by_subject.js) *)

Module ApprovedCertificatesBySubject.

Record t := mk {
  subject : string;
  subjectKeyIds : list string;
}.

#[global] Instance t_eta : Settable t := λ m, mk m.(subject) m.(subjectKeyIds).

Definition base : t := mk "" [].

Definition encode {PB : Protobuf} (message : t) (writer : Writer) : Writer :=
  writer
  @> when (str_neq message.(subject) "") (fun w => w @> uint32 10 @> string_ message.(subject))
  @> each message.(subjectKeyIds) (fun v w => w @> uint32 18 @> string_ v).

Definition decode_field {PB : Protobuf} (tag : Z) (message : t) : RM t :=
  match field_number tag with
  | 1 => v ← read_string; mret (message <| subject := v |>)
  | 2 => v ← read_string; mret (message <| subjectKeyIds := message.(subjectKeyIds) ++ [v] |>)
  | _ => _ ← skipType (wire_type tag); mret message
  end.

Definition decode {PB : Protobuf} (length : option Z) : RM t :=
  decode_message length base decode_field.

Definition fromJSON (object : js) : result t :=
  subject' ← field_or object "subject" to_string "";
  subjectKeyIds' ← field_or object "subjectKeyIds" (to_list to_string) [];
  Ok (mk subject' subjectKeyIds').

Definition toJSON (message : t) : js :=
  Obj ([("subject", Str message.(subject));
    ("subjectKeyIds", Arr (map Str message.(subjectKeyIds)))]).

Record partial := mkPartial {
  p_subject : option string;
  p_subjectKeyIds : option (list string);
}.

Definition fromPartial (object : partial) : t := {|
  subject := object.(p_subject) ?? "";
  subjectKeyIds := (object.(p_subjectKeyIds) ?? []);
|}.

(** The object with no property given. *)
Definition nothing : partial := mkPartial None None.

(** The bytes [encode] writes. *)
Definition wire {PB : Protobuf} {PS : ProtobufSpec PB} (m : t) : bytes :=
  f_string 10 m.(subject) ++
  f_repeated 18 chars m.(subjectKeyIds).

Definition valid (m : t) : Prop :=
  True.

Definition encodable {PB : Protobuf} {PS : ProtobufSpec PB} (m : t) : Prop :=
  valid m ∧ small (wire m).

Definition merge (m a : t) : t := {|
  subject := later_string m.(subject) a.(subject);
  subjectKeyIds := m.(subjectKeyIds) ++ a.(subjectKeyIds);
|}.

(** A whole message seen as a partial one. *)
Definition full (m : t) : partial := {|
  p_subject := Some m.(subject);
  p_subjectKeyIds := Some m.(subjectKeyIds);
|}.

(** The message as its [.proto] file declares it. *)
Definition schema (m : t) : list field :=
  [implicit 1 (VString m.(subject));
   repeated 2 VString m.(subjectKeyIds)].

(** The message with its default for every property that is not kept. *)
Definition only (kept : string → bool) (m : t) : t := {|
  subject := if kept "subject" then m.(subject) else "";
  subjectKeyIds := if kept "subjectKeyIds" then m.(subjectKeyIds) else [];
|}.

#[global] Instance codec {PB : Protobuf} : MessageCodec t :=
  {| msg_base := base; msg_encode := encode; msg_field := decode_field |}.

#[global] Program Instance spec {PB : Protobuf} (PS : ProtobufSpec PB) : MessageSpec PS t :=
  {| msg_wire := wire; msg_valid := valid; msg_merge := merge |}.
Next Obligation. solve_encode_wire. Qed.
Next Obligation. solve_decode_wire. Qed.
Next Obligation. solve_merge_base. Qed.
Next Obligation. intros. solve_advances decode_field. Qed.

#[global] Program Instance data : MessageData t partial :=
  {| msg_fromJSON := fromJSON; msg_toJSON := toJSON;
     msg_fromPartial := fromPartial; msg_full := full |}.
Next Obligation. solve_json fromJSON toJSON. Qed.
Next Obligation. solve_partial fromPartial full. Qed.

#[global] Instance schema_wire {PB : Protobuf} {PS : ProtobufSpec PB} : WireSchema wire schema.
Proof. solve_schema_wire wire schema. Qed.

#[global] Instance schema_merge : MergeSchema merge schema.
Proof. solve_schema_merge merge schema. Qed.

(** Its row in the table of message types. *)
Definition message {PB : Protobuf} {PS : ProtobufSpec PB} : message_type :=
  plain_message "ApprovedCertificatesBySubject" nothing true schema only.

#[global] Instance message_lawful {PB : Protobuf} (PS : ProtobufSpec PB) : Lawful message.
Proof. solve_lawful decode_field fromJSON only. Qed.

End ApprovedCertificatesBySubject.

(** ** [ApprovedRootCertificates] (pki/approved_root_certificates.js) *)

Module ApprovedRootCertificates.

Record t := mk {
  certs : list CertificateIdentifier.t;
}.

#[global] Instance t_eta : Settable t := λ m, mk m.(certs).

Definition base : t := mk [].

Definition encode {PB : Protobuf} (message : t) (writer : Writer) : Writer :=
  writer
  @> each message.(certs) (fun v w => w @> uint32 10 @> fork @> CertificateIdentifier.encode v @> ldelim).

Definition decode_field {PB : Protobuf} (tag : Z) (message : t) : RM t :=
  match field_number tag with
  | 1 => v ← read_nested CertificateIdentifier.decode;
         mret (message <| certs := message.(certs) ++ [v] |>)
  | _ => _ ← skipType (wire_type tag); mret message
  end.

Definition decode {PB : Protobuf} (length : option Z) : RM t :=
  decode_message length base decode_field.

Definition fromJSON (object : js) : result t :=
  certs' ← field_or object "certs" (to_list CertificateIdentifier.fromJSON) [];
  Ok (mk certs').

Definition toJSON (message : t) : js :=
  Obj ([("certs", Arr (map CertificateIdentifier.toJSON message.(certs)))]).

Record partial := mkPartial {
  p_certs : option (list CertificateIdentifier.partial);
}.

Definition fromPartial (object : partial) : t := {|
  certs := map CertificateIdentifier.fromPartial (object.(p_certs) ?? []);
|}.

(** The object with no property given. *)
Definition nothing : partial := mkPartial None.

(** The bytes [encode] writes. *)
Definition wire {PB : Protobuf} {PS : ProtobufSpec PB} (m : t) : bytes :=
  f_repeated 10 CertificateIdentifier.wire m.(certs).

Definition valid (m : t) : Prop :=
  Forall CertificateIdentifier.valid m.(certs).

Definition encodable {PB : Protobuf} {PS : ProtobufSpec PB} (m : t) : Prop :=
  valid m ∧ small (wire m).

Definition merge (m a : t) : t := {|
  certs := m.(certs) ++ a.(certs);
|}.

(** A whole message seen as a partial one. *)
Definition full (m : t) : partial := {|
  p_certs := Some (map CertificateIdentifier.full m.(certs));
|}.

(** The message as its [.proto] file declares it. *)
Definition schema (m : t) : list field :=
  [repeated 1 (message_value CertificateIdentifier.schema) m.(certs)].

(** The message with its default for every property that is not kept. *)
Definition only (kept : string → bool) (m : t) : t := {|
  certs := if kept "certs" then m.(certs) else [];
|}.

#[global] Instance codec {PB : Protobuf} : MessageCodec t :=
  {| msg_base := base; msg_encode := encode; msg_field := decode_field |}.

#[global] Program Instance spec {PB : Protobuf} (PS : ProtobufSpec PB) : MessageSpec PS t :=
  {| msg_wire := wire; msg_valid := valid; msg_merge := merge |}.
Next Obligation. solve_encode_wire. Qed.
Next Obligation. solve_decode_wire. Qed.
Next Obligation. solve_merge_base. Qed.
Next Obligation. intros. solve_advances decode_field. Qed.

#[global] Program Instance data : MessageData t partial :=
  {| msg_fromJSON := fromJSON; msg_toJSON := toJSON;
     msg_fromPartial := fromPartial; msg_full := full |}.
Next Obligation. solve_json fromJSON toJSON. Qed.
Next Obligation. solve_partial fromPartial full. Qed.

#[global] Instance schema_wire {PB : Protobuf} {PS : ProtobufSpec PB} : WireSchema wire schema.
Proof. solve_schema_wire wire schema. Qed.

#[global] Instance schema_merge : MergeSchema merge schema.
Proof. solve_schema_merge merge schema. Qed.

(** Its row in the table of message types. *)
Definition message {PB : Protobuf} {PS : ProtobufSpec PB} : message_type :=
  plain_message "ApprovedRootCertificates" nothing true schema only.

#[global] Instance message_lawful {PB : Protobuf} (PS : ProtobufSpec PB) : Lawful message.
Proof. solve_lawful decode_field fromJSON only. Qed.

End ApprovedRootCertificates.

(** ** [ChildCertificates] (pki/child_certificates.js) *)

Module ChildCertificates.

Record t := mk {
  issuer : string;
  authorityKeyId : string;
  certIds : list CertificateIdentifier.t;
}.

#[global] Instance t_eta : Settable t := λ m, mk m.(issuer) m.(authorityKeyId) m.(certIds).

Definition base : t := mk "" "" [].

Definition encode {PB : Protobuf} (message : t) (writer : Writer) : Writer :=
  writer
  @> when (str_neq message.(issuer) "") (fun w => w @> uint32 10 @> string_ message.(issuer))
  @> when (str_neq message.(authorityKeyId) "")
       (fun w => w @> uint32 18 @> string_ message.(authorityKeyId))
  @> each message.(certIds) (fun v w => w @> uint32 26 @> fork @> CertificateIdentifier.encode v @> ldelim).

Definition decode_field {PB : Protobuf} (tag : Z) (message : t) : RM t :=
  match field_number tag with
  | 1 => v ← read_string; mret (message <| issuer := v |>)
  | 2 => v ← read_string; mret (message <| authorityKeyId := v |>)
  | 3 => v ← read_nested CertificateIdentifier.decode;
         mret (message <| certIds := message.(certIds) ++ [v] |>)
  | _ => _ ← skipType (wire_type tag); mret message
  end.

Definition decode {PB : Protobuf} (length : option Z) : RM t :=
  decode_message length base decode_field.

Definition fromJSON (object : js) : result t :=
  issuer' ← field_or object "issuer" to_string "";
  authorityKeyId' ← field_or object "authorityKeyId" to_string "";
  certIds' ← field_or object "certIds" (to_list CertificateIdentifier.fromJSON) [];
  Ok (mk issuer' authorityKeyId' certIds').

Definition toJSON (message : t) : js :=
  Obj ([("issuer", Str message.(issuer));
    ("authorityKeyId", Str message.(authorityKeyId));
    ("certIds", Arr (map CertificateIdentifier.toJSON message.(certIds)))]).

Record partial := mkPartial {
  p_issuer : option string;
  p_authorityKeyId : option string;
  p_certIds : option (list CertificateIdentifier.partial);
}.

Definition fromPartial (object : partial) : t := {|
  issuer := object.(p_issuer) ?? "";
  authorityKeyId := object.(p_authorityKeyId) ?? "";
  certIds := map CertificateIdentifier.fromPartial (object.(p_certIds) ?? []);
|}.

(** The object with no property given. *)
Definition nothing : partial := mkPartial None None None.

(** The bytes [encode] writes. *)
Definition wire {PB : Protobuf} {PS : ProtobufSpec PB} (m : t) : bytes :=
  f_string 10 m.(issuer) ++
  f_string 18 m.(authorityKeyId) ++
  f_repeated 26 CertificateIdentifier.wire m.(certIds).

Definition valid (m : t) : Prop :=
  Forall CertificateIdentifier.valid m.(certIds).

Definition encodable {PB : Protobuf} {PS : ProtobufSpec PB} (m : t) : Prop :=
  valid m ∧ small (wire m).

Definition merge (m a : t) : t := {|
  issuer := later_string m.(issuer) a.(issuer);
  authorityKeyId := later_string m.(authorityKeyId) a.(authorityKeyId);
  certIds := m.(certIds) ++ a.(certIds);
|}.

(** A whole message seen as a partial one. *)
Definition full (m : t) : partial := {|
  p_issuer := Some m.(issuer);
  p_authorityKeyId := Some m.(authorityKeyId);
  p_certIds := Some (map CertificateIdentifier.full m.(certIds));
|}.

(** The message as its [.proto] file declares it. *)
Definition schema (m : t) : list field :=
  [implicit 1 (VString m.(issuer));
   implicit 2 (VString m.(authorityKeyId));
   repeated 3 (message_value CertificateIdentifier.schema) m.(certIds)].

(** The message with its default for every property that is not kept. *)
Definition only (kept : string → bool) (m : t) : t := {|
  issuer := if kept "issuer" then m.(issuer) else "";
  authorityKeyId := if kept "authorityKeyId" then m.(authorityKeyId) else "";
  certIds := if kept "certIds" then m.(certIds) else [];
|}.

#[global] Instance codec {PB : Protobuf} : MessageCodec t :=
  {| msg_base := base; msg_encode := encode; msg_field := decode_field |}.

#[global] Program Instance spec {PB : Protobuf} (PS : ProtobufSpec PB) : MessageSpec PS t :=
  {| msg_wire := wire; msg_valid := valid; msg_merge := merge |}.
Next Obligation. solve_encode_wire. Qed.
Next Obligation. solve_decode_wire. Qed.
Next Obligation. solve_merge_base. Qed.
Next Obligation. intros. solve_advances decode_field. Qed.

#[global] Program Instance data : MessageData t partial :=
  {| msg_fromJSON := fromJSON; msg_toJSON := toJSON;
     msg_fromPartial := fromPartial; msg_full := full |}.
Next Obligation. solve_json fromJSON toJSON. Qed.
Next Obligation. solve_partial fromPartial full. Qed.

#[global] Instance schema_wire {PB : Protobuf} {PS : ProtobufSpec PB} : WireSchema wire schema.
Proof. solve_schema_wire wire schema. Qed.

#[global] Instance schema_merge : MergeSchema merge schema.
Proof. solve_schema_merge merge schema. Qed.

(** Its row in the table of message types. *)
Definition message {PB : Protobuf} {PS : ProtobufSpec PB} : message_type :=
  plain_message "ChildCertificates" nothing true schema only.

#[global] Instance message_lawful {PB : Protobuf} (PS : ProtobufSpec PB) : Lawful message.
Proof. solve_lawful decode_field fromJSON only. Qed.

End ChildCertificates.

(** ** [ProposedCertificate] (pki/proposed_certificate.js) *)

Module ProposedCertificate.

Record t := mk {
  subject : string;
  subjectKeyId : string;
  pemCert : string;
  serialNumber : string;
  owner : string;
  approvals : list Grant.t;
  subjectAsText : string;
  rejects : list Grant.t;
}.

#[global] Instance t_eta : Settable t := λ m, mk m.(subject) m.(subjectKeyId) m.(pemCert)
  m.(serialNumber) m.(owner) m.(approvals) m.(subjectAsText) m.(rejects).

Definition base : t := mk "" "" "" "" "" [] "" [].

Definition encode {PB : Protobuf} (message : t) (writer : Writer) : Writer :=
  writer
  @> when (str_neq message.(subject) "") (fun w => w @> uint32 10 @> string_ message.(subject))
  @> when (str_neq message.(subjectKeyId) "")
       (fun w => w @> uint32 18 @> string_ message.(subjectKeyId))
  @> when (str_neq message.(pemCert) "") (fun w => w @> uint32 26 @> string_ message.(pemCert))
  @> when (str_neq message.(serialNumber) "")
       (fun w => w @> uint32 34 @> string_ message.(serialNumber))
  @> when (str_neq message.(owner) "") (fun w => w @> uint32 42 @> string_ message.(owner))
  @> each message.(approvals) (fun v w => w @> uint32 50 @> fork @> Grant.encode v @> ldelim)
  @> when (str_neq message.(subjectAsText) "")
       (fun w => w @> uint32 58 @> string_ message.(subjectAsText))
  @> each message.(rejects) (fun v w => w @> uint32 66 @> fork @> Grant.encode v @> ldelim).

Definition decode_field {PB : Protobuf} (tag : Z) (message : t) : RM t :=
  match field_number tag with
  | 1 => v ← read_string; mret (message <| subject := v |>)
  | 2 => v ← read_string; mret (message <| subjectKeyId := v |>)
  | 3 => v ← read_string; mret (message <| pemCert := v |>)
  | 4 => v ← read_string; mret (message <| serialNumber := v |>)
  | 5 => v ← read_string; mret (message <| owner := v |>)
  | 6 => v ← read_nested Grant.decode; mret (message <| approvals := message.(approvals) ++ [v] |>)
  | 7 => v ← read_string; mret (message <| subjectAsText := v |>)
  | 8 => v ← read_nested Grant.decode; mret (message <| rejects := message.(rejects) ++ [v] |>)
  | _ => _ ← skipType (wire_type tag); mret message
  end.

Definition decode {PB : Protobuf} (length : option Z) : RM t :=
  decode_message length base decode_field.

Definition fromJSON (object : js) : result t :=
  subject' ← field_or object "subject" to_string "";
  subjectKeyId' ← field_or object "subjectKeyId" to_string "";
  pemCert' ← field_or object "pemCert" to_string "";
  serialNumber' ← field_or object "serialNumber" to_string "";
  owner' ← field_or object "owner" to_string "";
  approvals' ← field_or object "approvals" (to_list Grant.fromJSON) [];
  subjectAsText' ← field_or object "subjectAsText" to_string "";
  rejects' ← field_or object "rejects" (to_list Grant.fromJSON) [];
  Ok (mk subject' subjectKeyId' pemCert' serialNumber' owner' approvals' subjectAsText' rejects').

Definition toJSON (message : t) : js :=
  Obj ([("subject", Str message.(subject));
    ("subjectKeyId", Str message.(subjectKeyId));
    ("pemCert", Str message.(pemCert));
    ("serialNumber", Str message.(serialNumber));
    ("owner", Str message.(owner));
    ("approvals", Arr (map Grant.toJSON message.(approvals)));
    ("subjectAsText", Str message.(subjectAsText));
    ("rejects", Arr (map Grant.toJSON message.(rejects)))]).

Record partial := mkPartial {
  p_subject : option string;
  p_subjectKeyId : option string;
  p_pemCert : option string;
  p_serialNumber : option string;
  p_owner : option string;
  p_approvals : option (list Grant.partial);
  p_subjectAsText : option string;
  p_rejects : option (list Grant.partial);
}.

Definition fromPartial (object : partial) : t := {|
  subject := object.(p_subject) ?? "";
  subjectKeyId := object.(p_subjectKeyId) ?? "";
  pemCert := object.(p_pemCert) ?? "";
  serialNumber := object.(p_serialNumber) ?? "";
  owner := object.(p_owner) ?? "";
  approvals := map Grant.fromPartial (object.(p_approvals) ?? []);
  subjectAsText := object.(p_subjectAsText) ?? "";
  rejects := map Grant.fromPartial (object.(p_rejects) ?? []);
|}.

(** The object with no property given. *)
Definition nothing : partial := mkPartial None None None None None None None None.

(** The bytes [encode] writes. *)
Definition wire {PB : Protobuf} {PS : ProtobufSpec PB} (m : t) : bytes :=
  f_string 10 m.(subject) ++
  f_string 18 m.(subjectKeyId) ++
  f_string 26 m.(pemCert) ++
  f_string 34 m.(serialNumber) ++
  f_string 42 m.(owner) ++
  f_repeated 50 Grant.wire m.(approvals) ++
  f_string 58 m.(subjectAsText) ++
  f_repeated 66 Grant.wire m.(rejects).

Definition valid (m : t) : Prop :=
  Forall Grant.valid m.(approvals) ∧ Forall Grant.valid m.(rejects).

Definition encodable {PB : Protobuf} {PS : ProtobufSpec PB} (m : t) : Prop :=
  valid m ∧ small (wire m).

Definition merge (m a : t) : t := {|
  subject := later_string m.(subject) a.(subject);
  subjectKeyId := later_string m.(subjectKeyId) a.(subjectKeyId);
  pemCert := later_string m.(pemCert) a.(pemCert);
  serialNumber := later_string m.(serialNumber) a.(serialNumber);
  owner := later_string m.(owner) a.(owner);
  approvals := m.(approvals) ++ a.(approvals);
  subjectAsText := later_string m.(subjectAsText) a.(subjectAsText);
  rejects := m.(rejects) ++ a.(rejects);
|}.

(** A whole message seen as a partial one. *)
Definition full (m : t) : partial := {|
  p_subject := Some m.(subject);
  p_subjectKeyId := Some m.(subjectKeyId);
  p_pemCert := Some m.(pemCert);
  p_serialNumber := Some m.(serialNumber);
  p_owner := Some m.(owner);
  p_approvals := Some (map Grant.full m.(approvals));
  p_subjectAsText := Some m.(subjectAsText);
  p_rejects := Some (map Grant.full m.(rejects));
|}.

(** The message as its [.proto] file declares it. *)
Definition schema (m : t) : list field :=
  [implicit 1 (VString m.(subject));
   implicit 2 (VString m.(subjectKeyId));
   implicit 3 (VString m.(pemCert));
   implicit 4 (VString m.(serialNumber));
   implicit 5 (VString m.(owner));
   repeated 6 (message_value Grant.schema) m.(approvals);
   implicit 7 (VString m.(subjectAsText));
   repeated 8 (message_value Grant.schema) m.(rejects)].

(** The message with its default for every property that is not kept. *)
Definition only (kept : string → bool) (m : t) : t := {|
  subject := if kept "subject" then m.(subject) else "";
  subjectKeyId := if kept "subjectKeyId" then m.(subjectKeyId) else "";
  pemCert := if kept "pemCert" then m.(pemCert) else "";
  serialNumber := if kept "serialNumber" then m.(serialNumber) else "";
  owner := if kept "owner" then m.(owner) else "";
  approvals := if kept "approvals" then m.(approvals) else [];
  subjectAsText := if kept "subjectAsText" then m.(subjectAsText) else "";
  rejects := if kept "rejects" then m.(rejects) else [];
|}.

#[global] Instance codec {PB : Protobuf} : MessageCodec t :=
  {| msg_base := base; msg_encode := encode; msg_field := decode_field |}.

#[global] Program Instance spec {PB : Protobuf} (PS : ProtobufSpec PB) : MessageSpec PS t :=
  {| msg_wire := wire; msg_valid := valid; msg_merge := merge |}.
Next Obligation. solve_encode_wire. Qed.
Next Obligation. solve_decode_wire. Qed.
Next Obligation. solve_merge_base. Qed.
Next Obligation. intros. solve_advances decode_field. Qed.

#[global] Program Instance data : MessageData t partial :=
  {| msg_fromJSON := fromJSON; msg_toJSON := toJSON;
     msg_fromPartial := fromPartial; msg_full := full |}.
Next Obligation. solve_json fromJSON toJSON. Qed.
Next Obligation. solve_partial fromPartial full. Qed.

#[global] Instance schema_wire {PB : Protobuf} {PS : ProtobufSpec PB} : WireSchema wire schema.
Proof. solve_schema_wire wire schema. Qed.

#[global] Instance schema_merge : MergeSchema merge schema.
Proof. solve_schema_merge merge schema. Qed.

(** Its row in the table of message types. *)
Definition message {PB : Protobuf} {PS : ProtobufSpec PB} : message_type :=
  plain_message "ProposedCertificate" nothing true schema only.

#[global] Instance message_lawful {PB : Protobuf} (PS : ProtobufSpec PB) : Lawful message.
Proof. solve_lawful decode_field fromJSON only. Qed.

End ProposedCertificate.

(** ** [ProposedCertificateRevocation] (pki/proposed_certificate_revocation.js) *)

Module ProposedCertificateRevocation.

Record t := mk {
  subject : string;
  subjectKeyId : string;
  approvals : list Grant.t;
  subjectAsText : string;
}.

#[global] Instance t_eta : Settable t := λ m, mk m.(subject) m.(subjectKeyId) m.(approvals)
  m.(subjectAsText).

Definition base : t := mk "" "" [] "".

Definition encode {PB : Protobuf} (message : t) (writer : Writer) : Writer :=
  writer
  @> when (str_neq message.(subject) "") (fun w => w @> uint32 10 @> string_ message.(subject))
  @> when (str_neq message.(subjectKeyId) "")
       (fun w => w @> uint32 18 @> string_ message.(subjectKeyId))
  @> each message.(approvals) (fun v w => w @> uint32 26 @> fork @> Grant.encode v @> ldelim)
  @> when (str_neq message.(subjectAsText) "")
       (fun w => w @> uint32 34 @> string_ message.(subjectAsText)).

Definition decode_field {PB : Protobuf} (tag : Z) (message : t) : RM t :=
  match field_number tag with
  | 1 => v ← read_string; mret (message <| subject := v |>)
  | 2 => v ← read_string; mret (message <| subjectKeyId := v |>)
  | 3 => v ← read_nested Grant.decode; mret (message <| approvals := message.(approvals) ++ [v] |>)
  | 4 => v ← read_string; mret (message <| subjectAsText := v |>)
  | _ => _ ← skipType (wire_type tag); mret message
  end.

Definition decode {PB : Protobuf} (length : option Z) : RM t :=
  decode_message length base decode_field.

Definition fromJSON (object : js) : result t :=
  subject' ← field_or object "subject" to_string "";
  subjectKeyId' ← field_or object "subjectKeyId" to_string "";
  approvals' ← field_or object "approvals" (to_list Grant.fromJSON) [];
  subjectAsText' ← field_or object "subjectAsText" to_string "";
  Ok (mk subject' subjectKeyId' approvals' subjectAsText').

Definition toJSON (message : t) : js :=
  Obj ([("subject", Str message.(subject));
    ("subjectKeyId", Str message.(subjectKeyId));
    ("approvals", Arr (map Grant.toJSON message.(approvals)));
    ("subjectAsText", Str message.(subjectAsText))]).

Record partial := mkPartial {
  p_subject : option string;
  p_subjectKeyId : option string;
  p_approvals : option (list Grant.partial);
  p_subjectAsText : option string;
}.

Definition fromPartial (object : partial) : t := {|
  subject := object.(p_subject) ?? "";
  subjectKeyId := object.(p_subjectKeyId) ?? "";
  approvals := map Grant.fromPartial (object.(p_approvals) ?? []);
  subjectAsText := object.(p_subjectAsText) ?? "";
|}.

(** The object with no property given. *)
Definition nothing : partial := mkPartial None None None None.

(** The bytes [encode] writes. *)
Definition wire {PB : Protobuf} {PS : ProtobufSpec PB} (m : t) : bytes :=
  f_string 10 m.(subject) ++
  f_string 18 m.(subjectKeyId) ++
  f_repeated 26 Grant.wire m.(approvals) ++
  f_string 34 m.(subjectAsText).

Definition valid (m : t) : Prop :=
  Forall Grant.valid m.(approvals).

Definition encodable {PB : Protobuf} {PS : ProtobufSpec PB} (m : t) : Prop :=
  valid m ∧ small (wire m).

Definition merge (m a : t) : t := {|
  subject := later_string m.(subject) a.(subject);
  subjectKeyId := later_string m.(subjectKeyId) a.(subjectKeyId);
  approvals := m.(approvals) ++ a.(approvals);
  subjectAsText := later_string m.(subjectAsText) a.(subjectAsText);
|}.

(** A whole message seen as a partial one. *)
Definition full (m : t) : partial := {|
  p_subject := Some m.(subject);
  p_subjectKeyId := Some m.(subjectKeyId);
  p_approvals := Some (map Grant.full m.(approvals));
  p_subjectAsText := Some m.(subjectAsText);
|}.

(** The message as its [.proto] file declares it. *)
Definition schema (m : t) : list field :=
  [implicit 1 (VString m.(subject));
   implicit 2 (VString m.(subjectKeyId));
   repeated 3 (message_value Grant.schema) m.(approvals);
   implicit 4 (VString m.(subjectAsText))].

(** The message with its default for every property that is not kept. *)
Definition only (kept : string → bool) (m : t) : t := {|
  subject := if kept "subject" then m.(subject) else "";
  subjectKeyId := if kept "subjectKeyId" then m.(subjectKeyId) else "";
  approvals := if kept "approvals" then m.(approvals) else [];
  subjectAsText := if kept "subjectAsText" then m.(subjectAsText) else "";
|}.

#[global] Instance codec {PB : Protobuf} : MessageCodec t :=
  {| msg_base := base; msg_encode := encode; msg_field := decode_field |}.

#[global] Program Instance spec {PB : Protobuf} (PS : ProtobufSpec PB) : MessageSpec PS t :=
  {| msg_wire := wire; msg_valid := valid; msg_merge := merge |}.
Next Obligation. solve_encode_wire. Qed.
Next Obligation. solve_decode_wire. Qed.
Next Obligation. solve_merge_base. Qed.
Next Obligation. intros. solve_advances decode_field. Qed.

#[global] Program Instance data : MessageData t partial :=
  {| msg_fromJSON := fromJSON; msg_toJSON := toJSON;
     msg_fromPartial := fromPartial; msg_full := full |}.
Next Obligation. solve_json fromJSON toJSON. Qed.
Next Obligation. solve_partial fromPartial full. Qed.

#[global] Instance schema_wire {PB : Protobuf} {PS : ProtobufSpec PB} : WireSchema wire schema.
Proof. solve_schema_wire wire schema. Qed.

#[global] Instance schema_merge : MergeSchema merge schema.
Proof. solve_schema_merge merge schema. Qed.

(** Its row in the table of message types. *)
Definition message {PB : Protobuf} {PS : ProtobufSpec PB} : message_type :=
  plain_message "ProposedCertificateRevocation" nothing true schema only.

#[global] Instance message_lawful {PB : Protobuf} (PS : ProtobufSpec PB) : Lawful message.
Proof. solve_lawful decode_field fromJSON only. Qed.

End ProposedCertificateRevocation.

(** ** [RejectedCertificate] (pki/rejected_certificate.js) *)

Module RejectedCertificate.

Record t := mk {
  subject : string;
  subjectKeyId : string;
  certs : list Certificate.t;
}.

#[global] Instance t_eta : Settable t := λ m, mk m.(subject) m.(subjectKeyId) m.(certs).

Definition base : t := mk "" "" [].

Definition encode {PB : Protobuf} (message : t) (writer : Writer) : Writer :=
  writer
  @> when (str_neq message.(subject) "") (fun w => w @> uint32 10 @> string_ message.(subject))
  @> when (str_neq message.(subjectKeyId) "")
       (fun w => w @> uint32 18 @> string_ message.(subjectKeyId))
  @> each message.(certs) (fun v w => w @> uint32 26 @> fork @> Certificate.encode v @> ldelim).

Definition decode_field {PB : Protobuf} (tag : Z) (message : t) : RM t :=
  match field_number tag with
  | 1 => v ← read_string; mret (message <| subject := v |>)
  | 2 => v ← read_string; mret (message <| subjectKeyId := v |>)
  | 3 => v ← read_nested Certificate.decode; mret (message <| certs := message.(certs) ++ [v] |>)
  | _ => _ ← skipType (wire_type tag); mret message
  end.

Definition decode {PB : Protobuf} (length : option Z) : RM t :=
  decode_message length base decode_field.

Definition fromJSON (object : js) : result t :=
  subject' ← field_or object "subject" to_string "";
  subjectKeyId' ← field_or object "subjectKeyId" to_string "";
  certs' ← field_or object "certs" (to_list Certificate.fromJSON) [];
  Ok (mk subject' subjectKeyId' certs').

Definition toJSON (message : t) : js :=
  Obj ([("subject", Str message.(subject));
    ("subjectKeyId", Str message.(subjectKeyId));
    ("certs", Arr (map Certificate.toJSON message.(certs)))]).

Record partial := mkPartial {
  p_subject : option string;
  p_subjectKeyId : option string;
  p_certs : option (list Certificate.partial);
}.

Definition fromPartial (object : partial) : t := {|
  subject := object.(p_subject) ?? "";
  subjectKeyId := object.(p_subjectKeyId) ?? "";
  certs := map Certificate.fromPartial (object.(p_certs) ?? []);
|}.

(** The object with no property given. *)
Definition nothing : partial := mkPartial None None None.

(** The bytes [encode] writes. *)
Definition wire {PB : Protobuf} {PS : ProtobufSpec PB} (m : t) : bytes :=
  f_string 10 m.(subject) ++
  f_string 18 m.(subjectKeyId) ++
  f_repeated 26 Certificate.wire m.(certs).

Definition valid (m : t) : Prop :=
  Forall Certificate.valid m.(certs).

Definition encodable {PB : Protobuf} {PS : ProtobufSpec PB} (m : t) : Prop :=
  valid m ∧ small (wire m).

Definition merge (m a : t) : t := {|
  subject := later_string m.(subject) a.(subject);
  subjectKeyId := later_string m.(subjectKeyId) a.(subjectKeyId);
  certs := m.(certs) ++ a.(certs);
|}.

(** A whole message seen as a partial one. *)
Definition full (m : t) : partial := {|
  p_subject := Some m.(subject);
  p_subjectKeyId := Some m.(subjectKeyId);
  p_certs := Some (map Certificate.full m.(certs));
|}.

(** The message as its [.proto] file declares it. *)
Definition schema (m : t) : list field :=
  [implicit 1 (VString m.(subject));
   implicit 2 (VString m.(subjectKeyId));
   repeated 3 (message_value Certificate.schema) m.(certs)].

(** The message with its default for every property that is not kept. *)
Definition only (kept : string → bool) (m : t) : t := {|
  subject := if kept "subject" then m.(subject) else "";
  subjectKeyId := if kept "subjectKeyId" then m.(subjectKeyId) else "";
  certs := if kept "certs" then m.(certs) else [];
|}.

#[global] Instance codec {PB : Protobuf} : MessageCodec t :=
  {| msg_base := base; msg_encode := encode; msg_field := decode_field |}.

#[global] Program Instance spec {PB : Protobuf} (PS : ProtobufSpec PB) : MessageSpec PS t :=
  {| msg_wire := wire; msg_valid := valid; msg_merge := merge |}.
Next Obligation. solve_encode_wire. Qed.
Next Obligation. solve_decode_wire. Qed.
Next Obligation. solve_merge_base. Qed.
Next Obligation. intros. solve_advances decode_field. Qed.

#[global] Program Instance data : MessageData t partial :=
  {| msg_fromJSON := fromJSON; msg_toJSON := toJSON;
     msg_fromPartial := fromPartial; msg_full := full |}.
Next Obligation. solve_json fromJSON toJSON. Qed.
Next Obligation. solve_partial fromPartial full. Qed.

#[global] Instance schema_wire {PB : Protobuf} {PS : ProtobufSpec PB} : WireSchema wire schema.
Proof. solve_schema_wire wire schema. Qed.

#[global] Instance schema_merge : MergeSchema merge schema.
Proof. solve_schema_merge merge schema. Qed.

(** Its row in the table of message types. *)
Definition message {PB : Protobuf} {PS : ProtobufSpec PB} : message_type :=
  plain_message "RejectedCertificate" nothing true schema only.

#[global] Instance message_lawful {PB : Protobuf} (PS : ProtobufSpec PB) : Lawful message.
Proof. solve_lawful decode_field fromJSON only. Qed.

End RejectedCertificate.

(** ** [RevokedCertificates] (pki/revoked_certificates.js) *)

Module RevokedCertificates.

Record t := mk {
  subject : string;
  subjectKeyId : string;
  certs : list Certificate.t;
}.

#[global] Instance t_eta : Settable t := λ m, mk m.(subject) m.(subjectKeyId) m.(certs).

Definition base : t := mk "" "" [].

Definition encode {PB : Protobuf} (message : t) (writer : Writer) : Writer :=
  writer
  @> when (str_neq message.(subject) "") (fun w => w @> uint32 10 @> string_ message.(subject))
  @> when (str_neq message.(subjectKeyId) "")
       (fun w => w @> uint32 18 @> string_ message.(subjectKeyId))
  @> each message.(certs) (fun v w => w @> uint32 26 @> fork @> Certificate.encode v @> ldelim).

Definition decode_field {PB : Protobuf} (tag : Z) (message : t) : RM t :=
  match field_number tag with
  | 1 => v ← read_string; mret (message <| subject := v |>)
  | 2 => v ← read_string; mret (message <| subjectKeyId := v |>)
  | 3 => v ← read_nested Certificate.decode; mret (message <| certs := message.(certs) ++ [v] |>)
  | _ => _ ← skipType (wire_type tag); mret message
  end.

Definition decode {PB : Protobuf} (length : option Z) : RM t :=
  decode_message length base decode_field.

Definition fromJSON (object : js) : result t :=
  subject' ← field_or object "subject" to_string "";
  subjectKeyId' ← field_or object "subjectKeyId" to_string "";
  certs' ← field_or object "certs" (to_list Certificate.fromJSON) [];
  Ok (mk subject' subjectKeyId' certs').

Definition toJSON (message : t) : js :=
  Obj ([("subject", Str message.(subject));
    ("subjectKeyId", Str message.(subjectKeyId));
    ("certs", Arr (map Certificate.toJSON message.(certs)))]).

Record partial := mkPartial {
  p_subject : option string;
  p_subjectKeyId : option string;
  p_certs : option (list Certificate.partial);
}.

Definition fromPartial (object : partial) : t := {|
  subject := object.(p_subject) ?? "";
  subjectKeyId := object.(p_subjectKeyId) ?? "";
  certs := map Certificate.fromPartial (object.(p_certs) ?? []);
|}.

(** The object with no property given. *)
Definition nothing : partial := mkPartial None None None.

(** The bytes [encode] writes. *)
Definition wire {PB : Protobuf} {PS : ProtobufSpec PB} (m : t) : bytes :=
  f_string 10 m.(subject) ++
  f_string 18 m.(subjectKeyId) ++
  f_repeated 26 Certificate.wire m.(certs).

Definition valid (m : t) : Prop :=
  Forall Certificate.valid m.(certs).

Definition encodable {PB : Protobuf} {PS : ProtobufSpec PB} (m : t) : Prop :=
  valid m ∧ small (wire m).

Definition merge (m a : t) : t := {|
  subject := later_string m.(subject) a.(subject);
  subjectKeyId := later_string m.(subjectKeyId) a.(subjectKeyId);
  certs := m.(certs) ++ a.(certs);
|}.

(** A whole message seen as a partial one. *)
Definition full (m : t) : partial := {|
  p_subject := Some m.(subject);
  p_subjectKeyId := Some m.(subjectKeyId);
  p_certs := Some (map Certificate.full m.(certs));
|}.

(** The message as its [.proto] file declares it. *)
Definition schema (m : t) : list field :=
  [implicit 1 (VString m.(subject));
   implicit 2 (VString m.(subjectKeyId));
   repeated 3 (message_value Certificate.schema) m.(certs)].

(** The message with its default for every property that is not kept. *)
Definition only (kept : string → bool) (m : t) : t := {|
  subject := if kept "subject" then m.(subject) else "";
  subjectKeyId := if kept "subjectKeyId" then m.(subjectKeyId) else "";
  certs := if kept "certs" then m.(certs) else [];
|}.

#[global] Instance codec {PB : Protobuf} : MessageCodec t :=
  {| msg_base := base; msg_encode := encode; msg_field := decode_field |}.

#[global] Program Instance spec {PB : Protobuf} (PS : ProtobufSpec PB) : MessageSpec PS t :=
  {| msg_wire := wire; msg_valid := valid; msg_merge := merge |}.
Next Obligation. solve_encode_wire. Qed.
Next Obligation. solve_decode_wire. Qed.
Next Obligation. solve_merge_base. Qed.
Next Obligation. intros. solve_advances decode_field. Qed.

#[global] Program Instance data : MessageData t partial :=
  {| msg_fromJSON := fromJSON; msg_toJSON := toJSON;
     msg_fromPartial := fromPartial; msg_full := full |}.
Next Obligation. solve_json fromJSON toJSON. Qed.
Next Obligation. solve_partial fromPartial full. Qed.

#[global] Instance schema_wire {PB : Protobuf} {PS : ProtobufSpec PB} : WireSchema wire schema.
Proof. solve_schema_wire wire schema. Qed.

#[global] Instance schema_merge : MergeSchema merge schema.
Proof. solve_schema_merge merge schema. Qed.

(** Its row in the table of message types. *)
Definition message {PB : Protobuf} {PS : ProtobufSpec PB} : message_type :=
  plain_message "RevokedCertificates" nothing true schema only.

#[global] Instance message_lawful {PB : Protobuf} (PS : ProtobufSpec PB) : Lawful message.
Proof. solve_lawful decode_field fromJSON only. Qed.

End RevokedCertificates.

(** ** [RevokedRootCertificates] (pki/revoked_root_certificates.js) *)

Module RevokedRootCertificates.

Record t := mk {
  certs : list CertificateIdentifier.t;
}.

#[global] Instance t_eta : Settable t := λ m, mk m.(certs).

Definition base : t := mk [].

Definition encode {PB : Protobuf} (message : t) (writer : Writer) : Writer :=
  writer
  @> each message.(certs) (fun v w => w @> uint32 10 @> fork @> CertificateIdentifier.encode v @> ldelim).

Definition decode_field {PB : Protobuf} (tag : Z) (message : t) : RM t :=
  match field_number tag with
  | 1 => v ← read_nested CertificateIdentifier.decode;
         mret (message <| certs := message.(certs) ++ [v] |>)
  | _ => _ ← skipType (wire_type tag); mret message
  end.

Definition decode {PB : Protobuf} (length : option Z) : RM t :=
  decode_message length base decode_field.

Definition fromJSON (object : js) : result t :=
  certs' ← field_or object "certs" (to_list CertificateIdentifier.fromJSON) [];
  Ok (mk certs').

Definition toJSON (message : t) : js :=
  Obj ([("certs", Arr (map CertificateIdentifier.toJSON message.(certs)))]).

Record partial := mkPartial {
  p_certs : option (list CertificateIdentifier.partial);
}.

Definition fromPartial (object : partial) : t := {|
  certs := map CertificateIdentifier.fromPartial (object.(p_certs) ?? []);
|}.

(** The object with no property given. *)
Definition nothing : partial := mkPartial None.

(** The bytes [encode] writes. *)
Definition wire {PB : Protobuf} {PS : ProtobufSpec PB} (m : t) : bytes :=
  f_repeated 10 CertificateIdentifier.wire m.(certs).

Definition valid (m : t) : Prop :=
  Forall CertificateIdentifier.valid m.(certs).

Definition encodable {PB : Protobuf} {PS : ProtobufSpec PB} (m : t) : Prop :=
  valid m ∧ small (wire m).

Definition merge (m a : t) : t := {|
  certs := m.(certs) ++ a.(certs);
|}.

(** A whole message seen as a partial one. *)
Definition full (m : t) : partial := {|
  p_certs := Some (map CertificateIdentifier.full m.(certs));
|}.

(** The message as its [.proto] file declares it. *)
Definition schema (m : t) : list field :=
  [repeated 1 (message_value CertificateIdentifier.schema) m.(certs)].

(** The message with its default for every property that is not kept. *)
Definition only (kept : string → bool) (m : t) : t := {|
  certs := if kept "certs" then m.(certs) else [];
|}.

#[global] Instance codec {PB : Protobuf} : MessageCodec t :=
  {| msg_base := base; msg_encode := encode; msg_field := decode_field |}.

#[global] Program Instance spec {PB : Protobuf} (PS : ProtobufSpec PB) : MessageSpec PS t :=
  {| msg_wire := wire; msg_valid := valid; msg_merge := merge |}.
Next Obligation. solve_encode_wire. Qed.
Next Obligation. solve_decode_wire. Qed.
Next Obligation. solve_merge_base. Qed.
Next Obligation. intros. solve_advances decode_field. Qed.

#[global] Program Instance data : MessageData t partial :=
  {| msg_fromJSON := fromJSON; msg_toJSON := toJSON;
     msg_fromPartial := fromPartial; msg_full := full |}.
Next Obligation. solve_json fromJSON toJSON. Qed.
Next Obligation. solve_partial fromPartial full. Qed.

#[global] Instance schema_wire {PB : Protobuf} {PS : ProtobufSpec PB} : WireSchema wire schema.
Proof. solve_schema_wire wire schema. Qed.

#[global] Instance schema_merge : MergeSchema merge schema.
Proof. solve_schema_merge merge schema. Qed.

(** Its row in the table of message types. *)
Definition message {PB : Protobuf} {PS : ProtobufSpec PB} : message_type :=
  plain_message "RevokedRootCertificates" nothing true schema only.

#[global] Instance message_lawful {PB : Protobuf} (PS : ProtobufSpec PB) : Lawful message.
Proof. solve_lawful decode_field fromJSON only. Qed.

End RevokedRootCertificates.

(** ** The message types of this file *)

Definition messages {PB : Protobuf} {PS : ProtobufSpec PB} : list message_type :=
  [ Grant.message; CertificateIdentifier.message; Certificate.message;
   UniqueCertificate.message; ApprovedCertificates.message;
   ApprovedCertificatesBySubject.message; ApprovedRootCertificates.message;
   ChildCertificates.message; ProposedCertificate.message;
   ProposedCertificateRevocation.message; RejectedCertificate.message;
   RevokedCertificates.message; RevokedRootCertificates.message].

Lemma PkiTypes_lawful {PB : Protobuf} {PS : ProtobufSpec PB} : Forall Lawful messages.
Proof. solve_table. Qed.
