(* ===== verification/PkiTx.v ===== *)
(** * The transaction messages of the pki module

    The codecs of [pki/module/types/pki/tx.js] and its RPC client
    [MsgClientImpl]. *)
From S2P Require Import Prelude Js Protobuf Codec Calendar Dates Base64 Fallible Proto3 MessageTable PkiTypes.
Open Scope Z_scope.

(** ** [MsgProposeAddX509RootCert] (pki/tx.js) *)

Module MsgProposeAddX509RootCert.

Record t := mk {
  signer : string;
  cert : string;
  info : string;
  time : number;
}.

#[global] Instance t_eta : Settable t := λ m, mk m.(signer) m.(cert) m.(info) m.(time).

Definition base : t := mk "" "" "" 0.

Definition encode {PB : Protobuf} (message : t) (writer : Writer) : Writer :=
  writer
  @> when (str_neq message.(signer) "") (fun w => w @> uint32 10 @> string_ message.(signer))
  @> when (str_neq message.(cert) "") (fun w => w @> uint32 18 @> string_ message.(cert))
  @> when (str_neq message.(info) "") (fun w => w @> uint32 26 @> string_ message.(info))
  @> when (num_neq message.(time) 0) (fun w => w @> uint32 32 @> int64 message.(time)).

Definition decode_field {PB : Protobuf} (tag : Z) (message : t) : RM t :=
  match field_number tag with
  | 1 => v ← read_string; mret (message <| signer := v |>)
  | 2 => v ← read_string; mret (message <| cert := v |>)
  | 3 => v ← read_string; mret (message <| info := v |>)
  | 4 => v ← read_number read_int64; mret (message <| time := v |>)
  | _ => _ ← skipType (wire_type tag); mret message
  end.

Definition decode {PB : Protobuf} (length : option Z) : RM t :=
  decode_message length base decode_field.

Definition fromJSON (object : js) : result t :=
  signer' ← field_or object "signer" to_string "";
  cert' ← field_or object "cert" to_string "";
  info' ← field_or object "info" to_string "";
  time' ← field_or object "time" js_Number 0;
  Ok (mk signer' cert' info' time').

Definition toJSON (message : t) : js :=
  Obj ([("signer", Str message.(signer));
    ("cert", Str message.(cert));
    ("info", Str message.(info));
    ("time", Num message.(time))]).

Record partial := mkPartial {
  p_signer : option string;
  p_cert : option string;
  p_info : option string;
  p_time : option number;
}.

Definition fromPartial (object : partial) : t := {|
  signer := object.(p_signer) ?? "";
  cert := object.(p_cert) ?? "";
  info := object.(p_info) ?? "";
  time := object.(p_time) ?? Int 0;
|}.

(** The object with no property given. *)
Definition nothing : partial := mkPartial None None None None.

(** The bytes [encode] writes. *)
Definition wire {PB : Protobuf} {PS : ProtobufSpec PB} (m : t) : bytes :=
  f_string 10 m.(signer) ++
  f_string 18 m.(cert) ++
  f_string 26 m.(info) ++
  f_number e_int64 32 m.(time).

Definition valid (m : t) : Prop :=
  int64_ok m.(time).

Definition encodable {PB : Protobuf} {PS : ProtobufSpec PB} (m : t) : Prop :=
  valid m ∧ small (wire m).

Definition merge (m a : t) : t := {|
  signer := later_string m.(signer) a.(signer);
  cert := later_string m.(cert) a.(cert);
  info := later_string m.(info) a.(info);
  time := later_number m.(time) a.(time);
|}.

(** A whole message seen as a partial one. *)
Definition full (m : t) : partial := {|
  p_signer := Some m.(signer);
  p_cert := Some m.(cert);
  p_info := Some m.(info);
  p_time := Some m.(time);
|}.

(** The message as its [.proto] file declares it. *)
Definition schema (m : t) : list field :=
  [implicit 1 (VString m.(signer));
   implicit 2 (VString m.(cert));
   implicit 3 (VString m.(info));
   implicit 4 (VInt Int64 m.(time))].

(** The message with its default for every property that is not kept. *)
Definition only (kept : string → bool) (m : t) : t := {|
  signer := if kept "signer" then m.(signer) else "";
  cert := if kept "cert" then m.(cert) else "";
  info := if kept "info" then m.(info) else "";
  time := if kept "time" then m.(time) else Int 0;
|}.

#[global] Instance codec {PB : Protobuf} : MessageCodec t :=
  {| msg_base := base; msg_encode := encode; msg_field := decode_field |}.

#[global] Program Instance spec {PB : Protobuf} (PS : ProtobufSpec PB) : MessageSpec PS t :=
  {| msg_wire := wire; msg_valid := valid; msg_merge := merge |}.
Next Obligation. solve_encode_wire. Qed.
Next Obligation. solve_decode_wire. Qed.
Next Obligation. solve_merge_base. Qed.
Next Obligation. intros. solve_advances decode_field. Qed.

#[global] Program Instance data : MessageData t partial :=
  {| msg_fromJSON := fromJSON; msg_toJSON := toJSON;
     msg_fromPartial := fromPartial; msg_full := full |}.
Next Obligation. solve_json fromJSON toJSON. Qed.
Next Obligation. solve_partial fromPartial full. Qed.

#[global] Instance schema_wire {PB : Protobuf} {PS : ProtobufSpec PB} : WireSchema wire schema.
Proof. solve_schema_wire wire schema. Qed.

#[global] Instance schema_merge : MergeSchema merge schema.
Proof. solve_schema_merge merge schema. Qed.

(** Its row in the table of message types. *)
Definition message {PB : Protobuf} {PS : ProtobufSpec PB} : message_type :=
  plain_message "MsgProposeAddX509RootCert" nothing true schema only.

#[global] Instance message_lawful {PB : Protobuf} (PS : ProtobufSpec PB) : Lawful message.
Proof. solve_lawful decode_field fromJSON only. Qed.

End MsgProposeAddX509RootCert.

(** ** [MsgProposeAddX509RootCertResponse] (pki/tx.js) *)

Module MsgProposeAddX509RootCertResponse.

Record t := mk {}.

#[global] Instance t_eta : Settable t := λ m, m.

Definition base : t := mk.

Definition encode {PB : Protobuf} (message : t) (writer : Writer) : Writer :=
  writer.

Definition decode_field {PB : Protobuf} (tag : Z) (message : t) : RM t :=
  match field_number tag with
  | _ => _ ← skipType (wire_type tag); mret message
  end.

Definition decode {PB : Protobuf} (length : option Z) : RM t :=
  decode_message length base decode_field.

Definition fromJSON (object : js) : result t :=
  Ok base.

Definition toJSON (message : t) : js :=
  Obj [].

Record partial := mkPartial {}.

Definition fromPartial (object : partial) : t := base.

(** The object with no property given. *)
Definition nothing : partial := mkPartial.

(** The bytes [encode] writes. *)
Definition wire {PB : Protobuf} {PS : ProtobufSpec PB} (m : t) : bytes :=
  [].

Definition valid (m : t) : Prop :=
  True.

Definition encodable {PB : Protobuf} {PS : ProtobufSpec PB} (m : t) : Prop :=
  valid m ∧ small (wire m).

Definition merge (m a : t) : t := m.

(** A whole message seen as a partial one. *)
Definition full (m : t) : partial := mkPartial.

(** The message as its [.proto] file declares it. *)
Definition schema (m : t) : list field :=
  [].

(** The message with its default for every property that is not kept. *)
Definition only (kept : string → bool) (m : t) : t := m.

#[global] Instance codec {PB : Protobuf} : MessageCodec t :=
  {| msg_base := base; msg_encode := encode; msg_field := decode_field |}.

#[global] Program Instance spec {PB : Protobuf} (PS : ProtobufSpec PB) : MessageSpec PS t :=
  {| msg_wire := wire; msg_valid := valid; msg_merge := merge |}.
Next Obligation. solve_encode_wire. Qed.
Next Obligation. solve_decode_wire. Qed.
Next Obligation. solve_merge_base. Qed.
Next Obligation. intros. solve_advances decode_field. Qed.

#[global] Program Instance data : MessageData t partial :=
  {| msg_fromJSON := fromJSON; msg_toJSON := toJSON;
     msg_fromPartial := fromPartial; msg_full := full |}.
Next Obligation. solve_json fromJSON toJSON. Qed.
Next Obligation. solve_partial fromPartial full. Qed.

#[global] Instance schema_wire {PB : Protobuf} {PS : ProtobufSpec PB} : WireSchema wire schema.
Proof. solve_schema_wire wire schema. Qed.

#[global] Instance schema_merge : MergeSchema merge schema.
Proof. solve_schema_merge merge schema. Qed.

(** Its row in the table of message types. *)
Definition message {PB : Protobuf} {PS : ProtobufSpec PB} : message_type :=
  plain_message "MsgProposeAddX509RootCertResponse" nothing false schema only.

#[global] Instance message_lawful {PB : Protobuf} (PS : ProtobufSpec PB) : Lawful message.
Proof. solve_lawful decode_field fromJSON only. Qed.

End MsgProposeAddX509RootCertResponse.

(** ** [MsgApproveAddX509RootCert] (pki/tx.js) *)

Module MsgApproveAddX509RootCert.

Record t := mk {
  signer : string;
  subject : string;
  subjectKeyId : string;
  info : string;
  time : number;
}.

#[global] Instance t_eta : Settable t := λ m, mk m.(signer) m.(subject) m.(subjectKeyId)
  m.(info) m.(time).

Definition base : t := mk "" "" "" "" 0.

Definition encode {PB : Protobuf} (message : t) (writer : Writer) : Writer :=
  writer
  @> when (str_neq message.(signer) "") (fun w => w @> uint32 10 @> string_ message.(signer))
  @> when (str_neq message.(subject) "") (fun w => w @> uint32 18 @> string_ message.(subject))
  @> when (str_neq message.(subjectKeyId) "")
       (fun w => w @> uint32 26 @> string_ message.(subjectKeyId))
  @> when (str_neq message.(info) "") (fun w => w @> uint32 34 @> string_ message.(info))
  @> when (num_neq message.(time) 0) (fun w => w @> uint32 40 @> int64 message.(time)).

Definition decode_field {PB : Protobuf} (tag : Z) (message : t) : RM t :=
  match field_number tag with
  | 1 => v ← read_string; mret (message <| signer := v |>)
  | 2 => v ← read_string; mret (message <| subject := v |>)
  | 3 => v ← read_string; mret (message <| subjectKeyId := v |>)
  | 4 => v ← read_string; mret (message <| info := v |>)
  | 5 => v ← read_number read_int64; mret (message <| time := v |>)
  | _ => _ ← skipType (wire_type tag); mret message
  end.

Definition decode {PB : Protobuf} (length : option Z) : RM t :=
  decode_message length base decode_field.

Definition fromJSON (object : js) : result t :=
  signer' ← field_or object "signer" to_string "";
  subject' ← field_or object "subject" to_string "";
  subjectKeyId' ← field_or object "subjectKeyId" to_string "";
  info' ← field_or object "info" to_string "";
  time' ← field_or object "time" js_Number 0;
  Ok (mk signer' subject' subjectKeyId' info' time').

Definition toJSON (message : t) : js :=
  Obj ([("signer", Str message.(signer));
    ("subject", Str message.(subject));
    ("subjectKeyId", Str message.(subjectKeyId));
    ("info", Str message.(info));
    ("time", Num message.(time))]).

Record partial := mkPartial {
  p_signer : option string;
  p_subject : option string;
  p_subjectKeyId : option string;
  p_info : option string;
  p_time : option number;
}.

Definition fromPartial (object : partial) : t := {|
  signer := object.(p_signer) ?? "";
  subject := object.(p_subject) ?? "";
  subjectKeyId := object.(p_subjectKeyId) ?? "";
  info := object.(p_info) ?? "";
  time := object.(p_time) ?? Int 0;
|}.

(** The object with no property given. *)
Definition nothing : partial := mkPartial None None None None None.

(** The bytes [encode] writes. *)
Definition wire {PB : Protobuf} {PS : ProtobufSpec PB} (m : t) : bytes :=
  f_string 10 m.(signer) ++
  f_string 18 m.(subject) ++
  f_string 26 m.(subjectKeyId) ++
  f_string 34 m.(info) ++
  f_number e_int64 40 m.(time).

Definition valid (m : t) : Prop :=
  int64_ok m.(time).

Definition encodable {PB : Protobuf} {PS : ProtobufSpec PB} (m : t) : Prop :=
  valid m ∧ small (wire m).

Definition merge (m a : t) : t := {|
  signer := later_string m.(signer) a.(signer);
  subject := later_string m.(subject) a.(subject);
  subjectKeyId := later_string m.(subjectKeyId) a.(subjectKeyId);
  info := later_string m.(info) a.(info);
  time := later_number m.(time) a.(time);
|}.

(** A whole message seen as a partial one. *)
Definition full (m : t) : partial := {|
  p_signer := Some m.(signer);
  p_subject := Some m.(subject);
  p_subjectKeyId := Some m.(subjectKeyId);
  p_info := Some m.(info);
  p_time := Some m.(time);
|}.

(** The message as its [.proto] file declares it. *)
Definition schema (m : t) : list field :=
  [implicit 1 (VString m.(signer));
   implicit 2 (VString m.(subject));
   implicit 3 (VString m.(subjectKeyId));
   implicit 4 (VString m.(info));
   implicit 5 (VInt Int64 m.(time))].

(** The message with its default for every property that is not kept. *)
Definition only (kept : string → bool) (m : t) : t := {|
  signer := if kept "signer" then m.(signer) else "";
  subject := if kept "subject" then m.(subject) else "";
  subjectKeyId := if kept "subjectKeyId" then m.(subjectKeyId) else "";
  info := if kept "info" then m.(info) else "";
  time := if kept "time" then m.(time) else Int 0;
|}.

#[global] Instance codec {PB : Protobuf} : MessageCodec t :=
  {| msg_base := base; msg_encode := encode; msg_field := decode_field |}.

#[global] Program Instance spec {PB : Protobuf} (PS : ProtobufSpec PB) : MessageSpec PS t :=
  {| msg_wire := wire; msg_valid := valid; msg_merge := merge |}.
Next Obligation. solve_encode_wire. Qed.
Next Obligation. solve_decode_wire. Qed.
Next Obligation. solve_merge_base. Qed.
Next Obligation. intros. solve_advances decode_field. Qed.

#[global] Program Instance data : MessageData t partial :=
  {| msg_fromJSON := fromJSON; msg_toJSON := toJSON;
     msg_fromPartial := fromPartial; msg_full := full |}.
Next Obligation. solve_json fromJSON toJSON. Qed.
Next Obligation. solve_partial fromPartial full. Qed.

#[global] Instance schema_wire {PB : Protobuf} {PS : ProtobufSpec PB} : WireSchema wire schema.
Proof. solve_schema_wire wire schema. Qed.

#[global] Instance schema_merge : MergeSchema merge schema.
Proof. solve_schema_merge merge schema. Qed.

(** Its row in the table of message types. *)
Definition message {PB : Protobuf} {PS : ProtobufSpec PB} : message_type :=
  plain_message "MsgApproveAddX509RootCert" nothing true schema only.

#[global] Instance message_lawful {PB : Protobuf} (PS : ProtobufSpec PB) : Lawful message.
Proof. solve_lawful decode_field fromJSON only. Qed.

End MsgApproveAddX509RootCert.

(** ** [MsgApproveAddX509RootCertResponse] (pki/tx.js) *)

Module MsgApproveAddX509RootCertResponse.

Record t := mk {}.

#[global] Instance t_eta : Settable t := λ m, m.

Definition base : t := mk.

Definition encode {PB : Protobuf} (message : t) (writer : Writer) : Writer :=
  writer.

Definition decode_field {PB : Protobuf} (tag : Z) (message : t) : RM t :=
  match field_number tag with
  | _ => _ ← skipType (wire_type tag); mret message
  end.

Definition decode {PB : Protobuf} (length : option Z) : RM t :=
  decode_message length base decode_field.

Definition fromJSON (object : js) : result t :=
  Ok base.

Definition toJSON (message : t) : js :=
  Obj [].

Record partial := mkPartial {}.

Definition fromPartial (object : partial) : t := base.

(** The object with no property given. *)
Definition nothing : partial := mkPartial.

(** The bytes [encode] writes. *)
Definition wire {PB : Protobuf} {PS : ProtobufSpec PB} (m : t) : bytes :=
  [].

Definition valid (m : t) : Prop :=
  True.

Definition encodable {PB : Protobuf} {PS : ProtobufSpec PB} (m : t) : Prop :=
  valid m ∧ small (wire m).

Definition merge (m a : t) : t := m.

(** A whole message seen as a partial one. *)
Definition full (m : t) : partial := mkPartial.

(** The message as its [.proto] file declares it. *)
Definition schema (m : t) : list field :=
  [].

(** The message with its default for every property that is not kept. *)
Definition only (kept : string → bool) (m : t) : t := m.

#[global] Instance codec {PB : Protobuf} : MessageCodec t :=
  {| msg_base := base; msg_encode := encode; msg_field := decode_field |}.

#[global] Program Instance spec {PB : Protobuf} (PS : ProtobufSpec PB) : MessageSpec PS t :=
  {| msg_wire := wire; msg_valid := valid; msg_merge := merge |}.
Next Obligation. solve_encode_wire. Qed.
Next Obligation. solve_decode_wire. Qed.
Next Obligation. solve_merge_base. Qed.
Next Obligation. intros. solve_advances decode_field. Qed.

#[global] Program Instance data : MessageData t partial :=
  {| msg_fromJSON := fromJSON; msg_toJSON := toJSON;
     msg_fromPartial := fromPartial; msg_full := full |}.
Next Obligation. solve_json fromJSON toJSON. Qed.
Next Obligation. solve_partial fromPartial full. Qed.

#[global] Instance schema_wire {PB : Protobuf} {PS : ProtobufSpec PB} : WireSchema wire schema.
Proof. solve_schema_wire wire schema. Qed.

#[global] Instance schema_merge : MergeSchema merge schema.
Proof. solve_schema_merge merge schema. Qed.

(** Its row in the table of message types. *)
Definition message {PB : Protobuf} {PS : ProtobufSpec PB} : message_type :=
  plain_message "MsgApproveAddX509RootCertResponse" nothing false schema only.

#[global] Instance message_lawful {PB : Protobuf} (PS : ProtobufSpec PB) : Lawful message.
Proof. solve_lawful decode_field fromJSON only. Qed.

End MsgApproveAddX509RootCertResponse.

(** ** [MsgAddX509Cert] (pki/tx.js) *)

Module MsgAddX509Cert.

Record t := mk {
  signer : string;
  cert : string;
  info : string;
  time : number;
}.

#[global] Instance t_eta : Settable t := λ m, mk m.(signer) m.(cert) m.(info) m.(time).

Definition base : t := mk "" "" "" 0.

Definition encode {PB : Protobuf} (message : t) (writer : Writer) : Writer :=
  writer
  @> when (str_neq message.(signer) "") (fun w => w @> uint32 10 @> string_ message.(signer))
  @> when (str_neq message.(cert) "") (fun w => w @> uint32 18 @> string_ message.(cert))
  @> when (str_neq message.(info) "") (fun w => w @> uint32 26 @> string_ message.(info))
  @> when (num_neq message.(time) 0) (fun w => w @> uint32 32 @> int64 message.(time)).

Definition decode_field {PB : Protobuf} (tag : Z) (message : t) : RM t :=
  match field_number tag with
  | 1 => v ← read_string; mret (message <| signer := v |>)
  | 2 => v ← read_string; mret (message <| cert := v |>)
  | 3 => v ← read_string; mret (message <| info := v |>)
  | 4 => v ← read_number read_int64; mret (message <| time := v |>)
  | _ => _ ← skipType (wire_type tag); mret message
  end.

Definition decode {PB : Protobuf} (length : option Z) : RM t :=
  decode_message length base decode_field.

Definition fromJSON (object : js) : result t :=
  signer' ← field_or object "signer" to_string "";
  cert' ← field_or object "cert" to_string "";
  info' ← field_or object "info" to_string "";
  time' ← field_or object "time" js_Number 0;
  Ok (mk signer' cert' info' time').

Definition toJSON (message : t) : js :=
  Obj ([("signer", Str message.(signer));
    ("cert", Str message.(cert));
    ("info", Str message.(info));
    ("time", Num message.(time))]).

Record partial := mkPartial {
  p_signer : option string;
  p_cert : option string;
  p_info : option string;
  p_time : option number;
}.

Definition fromPartial (object : partial) : t := {|
  signer := object.(p_signer) ?? "";
  cert := object.(p_cert) ?? "";
  info := object.(p_info) ?? "";
  time := object.(p_time) ?? Int 0;
|}.

(** The object with no property given. *)
Definition nothing : partial := mkPartial None None None None.

(** The bytes [encode] writes. *)
Definition wire {PB : Protobuf} {PS : ProtobufSpec PB} (m : t) : bytes :=
  f_string 10 m.(signer) ++
  f_string 18 m.(cert) ++
  f_string 26 m.(info) ++
  f_number e_int64 32 m.(time).

Definition valid (m : t) : Prop :=
  int64_ok m.(time).

Definition encodable {PB : Protobuf} {PS : ProtobufSpec PB} (m : t) : Prop :=
  valid m ∧ small (wire m).

Definition merge (m a : t) : t := {|
  signer := later_string m.(signer) a.(signer);
  cert := later_string m.(cert) a.(cert);
  info := later_string m.(info) a.(info);
  time := later_number m.(time) a.(time);
|}.

(** A whole message seen as a partial one. *)
Definition full (m : t) : partial := {|
  p_signer := Some m.(signer);
  p_cert := Some m.(cert);
  p_info := Some m.(info);
  p_time := Some m.(time);
|}.

(** The message as its [.proto] file declares it. *)
Definition schema (m : t) : list field :=
  [implicit 1 (VString m.(signer));
   implicit 2 (VString m.(cert));
   implicit 3 (VString m.(info));
   implicit 4 (VInt Int64 m.(time))].

(** The message with its default for every property that is not kept. *)
Definition only (kept : string → bool) (m : t) : t := {|
  signer := if kept "signer" then m.(signer) else "";
  cert := if kept "cert" then m.(cert) else "";
  info := if kept "info" then m.(info) else "";
  time := if kept "time" then m.(time) else Int 0;
|}.

#[global] Instance codec {PB : Protobuf} : MessageCodec t :=
  {| msg_base := base; msg_encode := encode; msg_field := decode_field |}.

#[global] Program Instance spec {PB : Protobuf} (PS : ProtobufSpec PB) : MessageSpec PS t :=
  {| msg_wire := wire; msg_valid := valid; msg_merge := merge |}.
Next Obligation. solve_encode_wire. Qed.
Next Obligation. solve_decode_wire. Qed.
Next Obligation. solve_merge_base. Qed.
Next Obligation. intros. solve_advances decode_field. Qed.

#[global] Program Instance data : MessageData t partial :=
  {| msg_fromJSON := fromJSON; msg_toJSON := toJSON;
     msg_fromPartial := fromPartial; msg_full := full |}.
Next Obligation. solve_json fromJSON toJSON. Qed.
Next Obligation. solve_partial fromPartial full. Qed.

#[global] Instance schema_wire {PB : Protobuf} {PS : ProtobufSpec PB} : WireSchema wire schema.
Proof. solve_schema_wire wire schema. Qed.

#[global] Instance schema_merge : MergeSchema merge schema.
Proof. solve_schema_merge merge schema. Qed.

(** Its row in the table of message types. *)
Definition message {PB : Protobuf} {PS : ProtobufSpec PB} : message_type :=
  plain_message "MsgAddX509Cert" nothing true schema only.

#[global] Instance message_lawful {PB : Protobuf} (PS : ProtobufSpec PB) : Lawful message.
Proof. solve_lawful decode_field fromJSON only. Qed.

End MsgAddX509Cert.

(** ** [MsgAddX509CertResponse] (pki/tx.js) *)

Module MsgAddX509CertResponse.

Record t := mk {}.

#[global] Instance t_eta : Settable t := λ m, m.

Definition base : t := mk.

Definition encode {PB : Protobuf} (message : t) (writer : Writer) : Writer :=
  writer.

Definition decode_field {PB : Protobuf} (tag : Z) (message : t) : RM t :=
  match field_number tag with
  | _ => _ ← skipType (wire_type tag); mret message
  end.

Definition decode {PB : Protobuf} (length : option Z) : RM t :=
  decode_message length base decode_field.

Definition fromJSON (object : js) : result t :=
  Ok base.

Definition toJSON (message : t) : js :=
  Obj [].

Record partial := mkPartial {}.

Definition fromPartial (object : partial) : t := base.

(** The object with no property given. *)
Definition nothing : partial := mkPartial.

(** The bytes [encode] writes. *)
Definition wire {PB : Protobuf} {PS : ProtobufSpec PB} (m : t) : bytes :=
  [].

Definition valid (m : t) : Prop :=
  True.

Definition encodable {PB : Protobuf} {PS : ProtobufSpec PB} (m : t) : Prop :=
  valid m ∧ small (wire m).

Definition merge (m a : t) : t := m.

(** A whole message seen as a partial one. *)
Definition full (m : t) : partial := mkPartial.

(** The message as its [.proto] file declares it. *)
Definition schema (m : t) : list field :=
  [].

(** The message with its default for every property that is not kept. *)
Definition only (kept : string → bool) (m : t) : t := m.

#[global] Instance codec {PB : Protobuf} : MessageCodec t :=
  {| msg_base := base; msg_encode := encode; msg_field := decode_field |}.

#[global] Program Instance spec {PB : Protobuf} (PS : ProtobufSpec PB) : MessageSpec PS t :=
  {| msg_wire := wire; msg_valid := valid; msg_merge := merge |}.
Next Obligation. solve_encode_wire. Qed.
Next Obligation. solve_decode_wire. Qed.
Next Obligation. solve_merge_base. Qed.
Next Obligation. intros. solve_advances decode_field. Qed.

#[global] Program Instance data : MessageData t partial :=
  {| msg_fromJSON := fromJSON; msg_toJSON := toJSON;
     msg_fromPartial := fromPartial; msg_full := full |}.
Next Obligation. solve_json fromJSON toJSON. Qed.
Next Obligation. solve_partial fromPartial full. Qed.

#[global] Instance schema_wire {PB : Protobuf} {PS : ProtobufSpec PB} : WireSchema wire schema.
Proof. solve_schema_wire wire schema. Qed.

#[global] Instance schema_merge : MergeSchema merge schema.
Proof. solve_schema_merge merge schema. Qed.

(** Its row in the table of message types. *)
Definition message {PB : Protobuf} {PS : ProtobufSpec PB} : message_type :=
  plain_message "MsgAddX509CertResponse" nothing false schema only.

#[global] Instance message_lawful {PB : Protobuf} (PS : ProtobufSpec PB) : Lawful message.
Proof. solve_lawful decode_field fromJSON only. Qed.

End MsgAddX509CertResponse.

(** ** [MsgProposeRevokeX509RootCert] (pki/tx.js) *)

Module MsgProposeRevokeX509RootCert.

Record t := mk {
  signer : string;
  subject : string;
  subjectKeyId : string;
  info : string;
  time : number;
}.

#[global] Instance t_eta : Settable t := λ m, mk m.(signer) m.(subject) m.(subjectKeyId)
  m.(info) m.(time).

Definition base : t := mk "" "" "" "" 0.

Definition encode {PB : Protobuf} (message : t) (writer : Writer) : Writer :=
  writer
  @> when (str_neq message.(signer) "") (fun w => w @> uint32 10 @> string_ message.(signer))
  @> when (str_neq message.(subject) "") (fun w => w @> uint32 18 @> string_ message.(subject))
  @> when (str_neq message.(subjectKeyId) "")
       (fun w => w @> uint32 26 @> string_ message.(subjectKeyId))
  @> when (str_neq message.(info) "") (fun w => w @> uint32 34 @> string_ message.(info))
  @> when (num_neq message.(time) 0) (fun w => w @> uint32 40 @> int64 message.(time)).

Definition decode_field {PB : Protobuf} (tag : Z) (message : t) : RM t :=
  match field_number tag with
  | 1 => v ← read_string; mret (message <| signer := v |>)
  | 2 => v ← read_string; mret (message <| subject := v |>)
  | 3 => v ← read_string; mret (message <| subjectKeyId := v |>)
  | 4 => v ← read_string; mret (message <| info := v |>)
  | 5 => v ← read_number read_int64; mret (message <| time := v |>)
  | _ => _ ← skipType (wire_type tag); mret message
  end.

Definition decode {PB : Protobuf} (length : option Z) : RM t :=
  decode_message length base decode_field.

Definition fromJSON (object : js) : result t :=
  signer' ← field_or object "signer" to_string "";
  subject' ← field_or object "subject" to_string "";
  subjectKeyId' ← field_or object "subjectKeyId" to_string "";
  info' ← field_or object "info" to_string "";
  time' ← field_or object "time" js_Number 0;
  Ok (mk signer' subject' subjectKeyId' info' time').

Definition toJSON (message : t) : js :=
  Obj ([("signer", Str message.(signer));
    ("subject", Str message.(subject));
    ("subjectKeyId", Str message.(subjectKeyId));
    ("info", Str message.(info));
    ("time", Num message.(time))]).

Record partial := mkPartial {
  p_signer : option string;
  p_subject : option string;
  p_subjectKeyId : option string;
  p_info : option string;
  p_time : option number;
}.

Definition fromPartial (object : partial) : t := {|
  signer := object.(p_signer) ?? "";
  subject := object.(p_subject) ?? "";
  subjectKeyId := object.(p_subjectKeyId) ?? "";
  info := object.(p_info) ?? "";
  time := object.(p_time) ?? Int 0;
|}.

(** The object with no property given. *)
Definition nothing : partial := mkPartial None None None None None.

(** The bytes [encode] writes. *)
Definition wire {PB : Protobuf} {PS : ProtobufSpec PB} (m : t) : bytes :=
  f_string 10 m.(signer) ++
  f_string 18 m.(subject) ++
  f_string 26 m.(subjectKeyId) ++
  f_string 34 m.(info) ++
  f_number e_int64 40 m.(time).

Definition valid (m : t) : Prop :=
  int64_ok m.(time).

Definition encodable {PB : Protobuf} {PS : ProtobufSpec PB} (m : t) : Prop :=
  valid m ∧ small (wire m).

Definition merge (m a : t) : t := {|
  signer := later_string m.(signer) a.(signer);
  subject := later_string m.(subject) a.(subject);
  subjectKeyId := later_string m.(subjectKeyId) a.(subjectKeyId);
  info := later_string m.(info) a.(info);
  time := later_number m.(time) a.(time);
|}.

(** A whole message seen as a partial one. *)
Definition full (m : t) : partial := {|
  p_signer := Some m.(signer);
  p_subject := Some m.(subject);
  p_subjectKeyId := Some m.(subjectKeyId);
  p_info := Some m.(info);
  p_time := Some m.(time);
|}.

(** The message as its [.proto] file declares it. *)
Definition schema (m : t) : list field :=
  [implicit 1 (VString m.(signer));
   implicit 2 (VString m.(subject));
   implicit 3 (VString m.(subjectKeyId));
   implicit 4 (VString m.(info));
   implicit 5 (VInt Int64 m.(time))].

(** The message with its default for every property that is not kept. *)
Definition only (kept : string → bool) (m : t) : t := {|
  signer := if kept "signer" then m.(signer) else "";
  subject := if kept "subject" then m.(subject) else "";
  subjectKeyId := if kept "subjectKeyId" then m.(subjectKeyId) else "";
  info := if kept "info" then m.(info) else "";
  time := if kept "time" then m.(time) else Int 0;
|}.

#[global] Instance codec {PB : Protobuf} : MessageCodec t :=
  {| msg_base := base; msg_encode := encode; msg_field := decode_field |}.

#[global] Program Instance spec {PB : Protobuf} (PS : ProtobufSpec PB) : MessageSpec PS t :=
  {| msg_wire := wire; msg_valid := valid; msg_merge := merge |}.
Next Obligation. solve_encode_wire. Qed.
Next Obligation. solve_decode_wire. Qed.
Next Obligation. solve_merge_base. Qed.
Next Obligation. intros. solve_advances decode_field. Qed.

#[global] Program Instance data : MessageData t partial :=
  {| msg_fromJSON := fromJSON; msg_toJSON := toJSON;
     msg_fromPartial := fromPartial; msg_full := full |}.
Next Obligation. solve_json fromJSON toJSON. Qed.
Next Obligation. solve_partial fromPartial full. Qed.

#[global] Instance schema_wire {PB : Protobuf} {PS : ProtobufSpec PB} : WireSchema wire schema.
Proof. solve_schema_wire wire schema. Qed.

#[global] Instance schema_merge : MergeSchema merge schema.
Proof. solve_schema_merge merge schema. Qed.

(** Its row in the table of message types. *)
Definition message {PB : Protobuf} {PS : ProtobufSpec PB} : message_type :=
  plain_message "MsgProposeRevokeX509RootCert" nothing true schema only.

#[global] Instance message_lawful {PB : Protobuf} (PS : ProtobufSpec PB) : Lawful message.
Proof. solve_lawful decode_field fromJSON only. Qed.

End MsgProposeRevokeX509RootCert.

(** ** [MsgProposeRevokeX509RootCertResponse] (pki/tx.js) *)

Module MsgProposeRevokeX509RootCertResponse.

Record t := mk {}.

#[global] Instance t_eta : Settable t := λ m, m.

Definition base : t := mk.

Definition encode {PB : Protobuf} (message : t) (writer : Writer) : Writer :=
  writer.

Definition decode_field {PB : Protobuf} (tag : Z) (message : t) : RM t :=
  match field_number tag with
  | _ => _ ← skipType (wire_type tag); mret message
  end.

Definition decode {PB : Protobuf} (length : option Z) : RM t :=
  decode_message length base decode_field.

Definition fromJSON (object : js) : result t :=
  Ok base.

Definition toJSON (message : t) : js :=
  Obj [].

Record partial := mkPartial {}.

Definition fromPartial (object : partial) : t := base.

(** The object with no property given. *)
Definition nothing : partial := mkPartial.

(** The bytes [encode] writes. *)
Definition wire {PB : Protobuf} {PS : ProtobufSpec PB} (m : t) : bytes :=
  [].

Definition valid (m : t) : Prop :=
  True.

Definition encodable {PB : Protobuf} {PS : ProtobufSpec PB} (m : t) : Prop :=
  valid m ∧ small (wire m).

Definition merge (m a : t) : t := m.

(** A whole message seen as a partial one. *)
Definition full (m : t) : partial := mkPartial.

(** The message as its [.proto] file declares it. *)
Definition schema (m : t) : list field :=
  [].

(** The message with its default for every property that is not kept. *)
Definition only (kept : string → bool) (m : t) : t := m.

#[global] Instance codec {PB : Protobuf} : MessageCodec t :=
  {| msg_base := base; msg_encode := encode; msg_field := decode_field |}.

#[global] Program Instance spec {PB : Protobuf} (PS : ProtobufSpec PB) : MessageSpec PS t :=
  {| msg_wire := wire; msg_valid := valid; msg_merge := merge |}.
Next Obligation. solve_encode_wire. Qed.
Next Obligation. solve_decode_wire. Qed.
Next Obligation. solve_merge_base. Qed.
Next Obligation. intros. solve_advances decode_field. Qed.

#[global] Program Instance data : MessageData t partial :=
  {| msg_fromJSON := fromJSON; msg_toJSON := toJSON;
     msg_fromPartial := fromPartial; msg_full := full |}.
Next Obligation. solve_json fromJSON toJSON. Qed.
Next Obligation. solve_partial fromPartial full. Qed.

#[global] Instance schema_wire {PB : Protobuf} {PS : ProtobufSpec PB} : WireSchema wire schema.
Proof. solve_schema_wire wire schema. Qed.

#[global] Instance schema_merge : MergeSchema merge schema.
Proof. solve_schema_merge merge schema. Qed.

(** Its row in the table of message types. *)
Definition message {PB : Protobuf} {PS : ProtobufSpec PB} : message_type :=
  plain_message "MsgProposeRevokeX509RootCertResponse" nothing false schema only.

#[global] Instance message_lawful {PB : Protobuf} (PS : ProtobufSpec PB) : Lawful message.
Proof. solve_lawful decode_field fromJSON only. Qed.

End MsgProposeRevokeX509RootCertResponse.

(** ** [MsgApproveRevokeX509RootCert] (pki/tx.js) *)

Module MsgApproveRevokeX509RootCert.

Record t := mk {
  signer : string;
  subject : string;
  subjectKeyId : string;
  info : string;
  time : number;
}.

#[global] Instance t_eta : Settable t := λ m, mk m.(signer) m.(subject) m.(subjectKeyId)
  m.(info) m.(time).

Definition base : t := mk "" "" "" "" 0.

Definition encode {PB : Protobuf} (message : t) (writer : Writer) : Writer :=
  writer
  @> when (str_neq message.(signer) "") (fun w => w @> uint32 10 @> string_ message.(signer))
  @> when (str_neq message.(subject) "") (fun w => w @> uint32 18 @> string_ message.(subject))
  @> when (str_neq message.(subjectKeyId) "")
       (fun w => w @> uint32 26 @> string_ message.(subjectKeyId))
  @> when (str_neq message.(info) "") (fun w => w @> uint32 42 @> string_ message.(info))
  @> when (num_neq message.(time) 0) (fun w => w @> uint32 48 @> int64 message.(time)).

Definition decode_field {PB : Protobuf} (tag : Z) (message : t) : RM t :=
  match field_number tag with
  | 1 => v ← read_string; mret (message <| signer := v |>)
  | 2 => v ← read_string; mret (message <| subject := v |>)
  | 3 => v ← read_string; mret (message <| subjectKeyId := v |>)
  | 5 => v ← read_string; mret (message <| info := v |>)
  | 6 => v ← read_number read_int64; mret (message <| time := v |>)
  | _ => _ ← skipType (wire_type tag); mret message
  end.

Definition decode {PB : Protobuf} (length : option Z) : RM t :=
  decode_message length base decode_field.

Definition fromJSON (object : js) : result t :=
  signer' ← field_or object "signer" to_string "";
  subject' ← field_or object "subject" to_string "";
  subjectKeyId' ← field_or object "subjectKeyId" to_string "";
  info' ← field_or object "info" to_string "";
  time' ← field_or object "time" js_Number 0;
  Ok (mk signer' subject' subjectKeyId' info' time').

Definition toJSON (message : t) : js :=
  Obj ([("signer", Str message.(signer));
    ("subject", Str message.(subject));
    ("subjectKeyId", Str message.(subjectKeyId));
    ("info", Str message.(info));
    ("time", Num message.(time))]).

Record partial := mkPartial {
  p_signer : option string;
  p_subject : option string;
  p_subjectKeyId : option string;
  p_info : option string;
  p_time : option number;
}.

Definition fromPartial (object : partial) : t := {|
  signer := object.(p_signer) ?? "";
  subject := object.(p_subject) ?? "";
  subjectKeyId := object.(p_subjectKeyId) ?? "";
  info := object.(p_info) ?? "";
  time := object.(p_time) ?? Int 0;
|}.

(** The object with no property given. *)
Definition nothing : partial := mkPartial None None None None None.

(** The bytes [encode] writes. *)
Definition wire {PB : Protobuf} {PS : ProtobufSpec PB} (m : t) : bytes :=
  f_string 10 m.(signer) ++
  f_string 18 m.(subject) ++
  f_string 26 m.(subjectKeyId) ++
  f_string 42 m.(info) ++
  f_number e_int64 48 m.(time).

Definition valid (m : t) : Prop :=
  int64_ok m.(time).

Definition encodable {PB : Protobuf} {PS : ProtobufSpec PB} (m : t) : Prop :=
  valid m ∧ small (wire m).

Definition merge (m a : t) : t := {|
  signer := later_string m.(signer) a.(signer);
  subject := later_string m.(subject) a.(subject);
  subjectKeyId := later_string m.(subjectKeyId) a.(subjectKeyId);
  info := later_string m.(info) a.(info);
  time := later_number m.(time) a.(time);
|}.

(** A whole message seen as a partial one. *)
Definition full (m : t) : partial := {|
  p_signer := Some m.(signer);
  p_subject := Some m.(subject);
  p_subjectKeyId := Some m.(subjectKeyId);
  p_info := Some m.(info);
  p_time := Some m.(time);
|}.

(** The message as its [.proto] file declares it. *)
Definition schema (m : t) : list field :=
  [implicit 1 (VString m.(signer));
   implicit 2 (VString m.(subject));
   implicit 3 (VString m.(subjectKeyId));
   implicit 5 (VString m.(info));
   implicit 6 (VInt Int64 m.(time))].

(** The message with its default for every property that is not kept. *)
Definition only (kept : string → bool) (m : t) : t := {|
  signer := if kept "signer" then m.(signer) else "";
  subject := if kept "subject" then m.(subject) else "";
  subjectKeyId := if kept "subjectKeyId" then m.(subjectKeyId) else "";
  info := if kept "info" then m.(info) else "";
  time := if kept "time" then m.(time) else Int 0;
|}.

#[global] Instance codec {PB : Protobuf} : MessageCodec t :=
  {| msg_base := base; msg_encode := encode; msg_field := decode_field |}.

#[global] Program Instance spec {PB : Protobuf} (PS : ProtobufSpec PB) : MessageSpec PS t :=
  {| msg_wire := wire; msg_valid := valid; msg_merge := merge |}.
Next Obligation. solve_encode_wire. Qed.
Next Obligation. solve_decode_wire. Qed.
Next Obligation. solve_merge_base. Qed.
Next Obligation. intros. solve_advances decode_field. Qed.

#[global] Program Instance data : MessageData t partial :=
  {| msg_fromJSON := fromJSON; msg_toJSON := toJSON;
     msg_fromPartial := fromPartial; msg_full := full |}.
Next Obligation. solve_json fromJSON toJSON. Qed.
Next Obligation. solve_partial fromPartial full. Qed.

#[global] Instance schema_wire {PB : Protobuf} {PS : ProtobufSpec PB} : WireSchema wire schema.
Proof. solve_schema_wire wire schema. Qed.

#[global] Instance schema_merge : MergeSchema merge schema.
Proof. solve_schema_merge merge schema. Qed.

(** Its row in the table of message types. *)
Definition message {PB : Protobuf} {PS : ProtobufSpec PB} : message_type :=
  plain_message "MsgApproveRevokeX509RootCert" nothing true schema only.

#[global] Instance message_lawful {PB : Protobuf} (PS : ProtobufSpec PB) : Lawful message.
Proof. solve_lawful decode_field fromJSON only. Qed.

End MsgApproveRevokeX509RootCert.

(** ** [MsgApproveRevokeX509RootCertResponse] (pki/tx.js) *)

Module MsgApproveRevokeX509RootCertResponse.

Record t := mk {}.

#[global] Instance t_eta : Settable t := λ m, m.

Definition base : t := mk.

Definition encode {PB : Protobuf} (message : t) (writer : Writer) : Writer :=
  writer.

Definition decode_field {PB : Protobuf} (tag : Z) (message : t) : RM t :=
  match field_number tag with
  | _ => _ ← skipType (wire_type tag); mret message
  end.

Definition decode {PB : Protobuf} (length : option Z) : RM t :=
  decode_message length base decode_field.

Definition fromJSON (object : js) : result t :=
  Ok base.

Definition toJSON (message : t) : js :=
  Obj [].

Record partial := mkPartial {}.

Definition fromPartial (object : partial) : t := base.

(** The object with no property given. *)
Definition nothing : partial := mkPartial.

(** The bytes [encode] writes. *)
Definition wire {PB : Protobuf} {PS : ProtobufSpec PB} (m : t) : bytes :=
  [].

Definition valid (m : t) : Prop :=
  True.

Definition encodable {PB : Protobuf} {PS : ProtobufSpec PB} (m : t) : Prop :=
  valid m ∧ small (wire m).

Definition merge (m a : t) : t := m.

(** A whole message seen as a partial one. *)
Definition full (m : t) : partial := mkPartial.

(** The message as its [.proto] file declares it. *)
Definition schema (m : t) : list field :=
  [].

(** The message with its default for every property that is not kept. *)
Definition only (kept : string → bool) (m : t) : t := m.

#[global] Instance codec {PB : Protobuf} : MessageCodec t :=
  {| msg_base := base; msg_encode := encode; msg_field := decode_field |}.

#[global] Program Instance spec {PB : Protobuf} (PS : ProtobufSpec PB) : MessageSpec PS t :=
  {| msg_wire := wire; msg_valid := valid; msg_merge := merge |}.
Next Obligation. solve_encode_wire. Qed.
Next Obligation. solve_decode_wire. Qed.
Next Obligation. solve_merge_base. Qed.
Next Obligation. intros. solve_advances decode_field. Qed.

#[global] Program Instance data : MessageData t partial :=
  {| msg_fromJSON := fromJSON; msg_toJSON := toJSON;
     msg_fromPartial := fromPartial; msg_full := full |}.
Next Obligation. solve_json fromJSON toJSON. Qed.
Next Obligation. solve_partial fromPartial full. Qed.

#[global] Instance schema_wire {PB : Protobuf} {PS : ProtobufSpec PB} : WireSchema wire schema.
Proof. solve_schema_wire wire schema. Qed.

#[global] Instance schema_merge : MergeSchema merge schema.
Proof. solve_schema_merge merge schema. Qed.

(** Its row in the table of message types. *)
Definition message {PB : Protobuf} {PS : ProtobufSpec PB} : message_type :=
  plain_message "MsgApproveRevokeX509RootCertResponse" nothing false schema only.

#[global] Instance message_lawful {PB : Protobuf} (PS : ProtobufSpec PB) : Lawful message.
Proof. solve_lawful decode_field fromJSON only. Qed.

End MsgApproveRevokeX509RootCertResponse.

(** ** [MsgRevokeX509Cert] (pki/tx.js) *)

Module MsgRevokeX509Cert.

Record t := mk {
  signer : string;
  subject : string;
  subjectKeyId : string;
  info : string;
  time : number;
}.

#[global] Instance t_eta : Settable t := λ m, mk m.(signer) m.(subject) m.(subjectKeyId)
  m.(info) m.(time).

Definition base : t := mk "" "" "" "" 0.

Definition encode {PB : Protobuf} (message : t) (writer : Writer) : Writer :=
  writer
  @> when (str_neq message.(signer) "") (fun w => w @> uint32 10 @> string_ message.(signer))
  @> when (str_neq message.(subject) "") (fun w => w @> uint32 18 @> string_ message.(subject))
  @> when (str_neq message.(subjectKeyId) "")
       (fun w => w @> uint32 26 @> string_ message.(subjectKeyId))
  @> when (str_neq message.(info) "") (fun w => w @> uint32 34 @> string_ message.(info))
  @> when (num_neq message.(time) 0) (fun w => w @> uint32 40 @> int64 message.(time)).

Definition decode_field {PB : Protobuf} (tag : Z) (message : t) : RM t :=
  match field_number tag with
  | 1 => v ← read_string; mret (message <| signer := v |>)
  | 2 => v ← read_string; mret (message <| subject := v |>)
  | 3 => v ← read_string; mret (message <| subjectKeyId := v |>)
  | 4 => v ← read_string; mret (message <| info := v |>)
  | 5 => v ← read_number read_int64; mret (message <| time := v |>)
  | _ => _ ← skipType (wire_type tag); mret message
  end.

Definition decode {PB : Protobuf} (length : option Z) : RM t :=
  decode_message length base decode_field.

Definition fromJSON (object : js) : result t :=
  signer' ← field_or object "signer" to_string "";
  subject' ← field_or object "subject" to_string "";
  subjectKeyId' ← field_or object "subjectKeyId" to_string "";
  info' ← field_or object "info" to_string "";
  time' ← field_or object "time" js_Number 0;
  Ok (mk signer' subject' subjectKeyId' info' time').

Definition toJSON (message : t) : js :=
  Obj ([("signer", Str message.(signer));
    ("subject", Str message.(subject));
    ("subjectKeyId", Str message.(subjectKeyId));
    ("info", Str message.(info));
    ("time", Num message.(time))]).

Record partial := mkPartial {
  p_signer : option string;
  p_subject : option string;
  p_subjectKeyId : option string;
  p_info : option string;
  p_time : option number;
}.

Definition fromPartial (object : partial) : t := {|
  signer := object.(p_signer) ?? "";
  subject := object.(p_subject) ?? "";
  subjectKeyId := object.(p_subjectKeyId) ?? "";
  info := object.(p_info) ?? "";
  time := object.(p_time) ?? Int 0;
|}.

(** The object with no property given. *)
Definition nothing : partial := mkPartial None None None None None.

(** The bytes [encode] writes. *)
Definition wire {PB : Protobuf} {PS : ProtobufSpec PB} (m : t) : bytes :=
  f_string 10 m.(signer) ++
  f_string 18 m.(subject) ++
  f_string 26 m.(subjectKeyId) ++
  f_string 34 m.(info) ++
  f_number e_int64 40 m.(time).

Definition valid (m : t) : Prop :=
  int64_ok m.(time).

Definition encodable {PB : Protobuf} {PS : ProtobufSpec PB} (m : t) : Prop :=
  valid m ∧ small (wire m).

Definition merge (m a : t) : t := {|
  signer := later_string m.(signer) a.(signer);
  subject := later_string m.(subject) a.(subject);
  subjectKeyId := later_string m.(subjectKeyId) a.(subjectKeyId);
  info := later_string m.(info) a.(info);
  time := later_number m.(time) a.(time);
|}.

(** A whole message seen as a partial one. *)
Definition full (m : t) : partial := {|
  p_signer := Some m.(signer);
  p_subject := Some m.(subject);
  p_subjectKeyId := Some m.(subjectKeyId);
  p_info := Some m.(info);
  p_time := Some m.(time);
|}.

(** The message as its [.proto] file declares it. *)
Definition schema (m : t) : list field :=
  [implicit 1 (VString m.(signer));
   implicit 2 (VString m.(subject));
   implicit 3 (VString m.(subjectKeyId));
   implicit 4 (VString m.(info));
   implicit 5 (VInt Int64 m.(time))].

(** The message with its default for every property that is not kept. *)
Definition only (kept : string → bool) (m : t) : t := {|
  signer := if kept "signer" then m.(signer) else "";
  subject := if kept "subject" then m.(subject) else "";
  subjectKeyId := if kept "subjectKeyId" then m.(subjectKeyId) else "";
  info := if kept "info" then m.(info) else "";
  time := if kept "time" then m.(time) else Int 0;
|}.

#[global] Instance codec {PB : Protobuf} : MessageCodec t :=
  {| msg_base := base; msg_encode := encode; msg_field := decode_field |}.

#[global] Program Instance spec {PB : Protobuf} (PS : ProtobufSpec PB) : MessageSpec PS t :=
  {| msg_wire := wire; msg_valid := valid; msg_merge := merge |}.
Next Obligation. solve_encode_wire. Qed.
Next Obligation. solve_decode_wire. Qed.
Next Obligation. solve_merge_base. Qed.
Next Obligation. intros. solve_advances decode_field. Qed.

#[global] Program Instance data : MessageData t partial :=
  {| msg_fromJSON := fromJSON; msg_toJSON := toJSON;
     msg_fromPartial := fromPartial; msg_full := full |}.
Next Obligation. solve_json fromJSON toJSON. Qed.
Next Obligation. solve_partial fromPartial full. Qed.

#[global] Instance schema_wire {PB : Protobuf} {PS : ProtobufSpec PB} : WireSchema wire schema.
Proof. solve_schema_wire wire schema. Qed.

#[global] Instance schema_merge : MergeSchema merge schema.
Proof. solve_schema_merge merge schema. Qed.

(** Its row in the table of message types. *)
Definition message {PB : Protobuf} {PS : ProtobufSpec PB} : message_type :=
  plain_message "MsgRevokeX509Cert" nothing true schema only.

#[global] Instance message_lawful {PB : Protobuf} (PS : ProtobufSpec PB) : Lawful message.
Proof. solve_lawful decode_field fromJSON only. Qed.

End MsgRevokeX509Cert.

(** ** [MsgRevokeX509CertResponse] (pki/tx.js) *)

Module MsgRevokeX509CertResponse.

Record t := mk {}.

#[global] Instance t_eta : Settable t := λ m, m.

Definition base : t := mk.

Definition encode {PB : Protobuf} (message : t) (writer : Writer) : Writer :=
  writer.

Definition decode_field {PB : Protobuf} (tag : Z) (message : t) : RM t :=
  match field_number tag with
  | _ => _ ← skipType (wire_type tag); mret message
  end.

Definition decode {PB : Protobuf} (length : option Z) : RM t :=
  decode_message length base decode_field.

Definition fromJSON (object : js) : result t :=
  Ok base.

Definition toJSON (message : t) : js :=
  Obj [].

Record partial := mkPartial {}.

Definition fromPartial (object : partial) : t := base.

(** The object with no property given. *)
Definition nothing : partial := mkPartial.

(** The bytes [encode] writes. *)
Definition wire {PB : Protobuf} {PS : ProtobufSpec PB} (m : t) : bytes :=
  [].

Definition valid (m : t) : Prop :=
  True.

Definition encodable {PB : Protobuf} {PS : ProtobufSpec PB} (m : t) : Prop :=
  valid m ∧ small (wire m).

Definition merge (m a : t) : t := m.

(** A whole message seen as a partial one. *)
Definition full (m : t) : partial := mkPartial.

(** The message as its [.proto] file declares it. *)
Definition schema (m : t) : list field :=
  [].

(** The message with its default for every property that is not kept. *)
Definition only (kept : string → bool) (m : t) : t := m.

#[global] Instance codec {PB : Protobuf} : MessageCodec t :=
  {| msg_base := base; msg_encode := encode; msg_field := decode_field |}.

#[global] Program Instance spec {PB : Protobuf} (PS : ProtobufSpec PB) : MessageSpec PS t :=
  {| msg_wire := wire; msg_valid := valid; msg_merge := merge |}.
Next Obligation. solve_encode_wire. Qed.
Next Obligation. solve_decode_wire. Qed.
Next Obligation. solve_merge_base. Qed.
Next Obligation. intros. solve_advances decode_field. Qed.

#[global] Program Instance data : MessageData t partial :=
  {| msg_fromJSON := fromJSON; msg_toJSON := toJSON;
     msg_fromPartial := fromPartial; msg_full := full |}.
Next Obligation. solve_json fromJSON toJSON. Qed.
Next Obligation. solve_partial fromPartial full. Qed.

#[global] Instance schema_wire {PB : Protobuf} {PS : ProtobufSpec PB} : WireSchema wire schema.
Proof. solve_schema_wire wire schema. Qed.

#[global] Instance schema_merge : MergeSchema merge schema.
Proof. solve_schema_merge merge schema. Qed.

(** Its row in the table of message types. *)
Definition message {PB : Protobuf} {PS : ProtobufSpec PB} : message_type :=
  plain_message "MsgRevokeX509CertResponse" nothing false schema only.

#[global] Instance message_lawful {PB : Protobuf} (PS : ProtobufSpec PB) : Lawful message.
Proof. solve_lawful decode_field fromJSON only. Qed.

End MsgRevokeX509CertResponse.

(** ** [MsgRejectAddX509RootCert] (pki/tx.js) *)

Module MsgRejectAddX509RootCert.

Record t := mk {
  signer : string;
  subject : string;
  subjectKeyId : string;
  info : string;
  time : number;
}.

#[global] Instance t_eta : Settable t := λ m, mk m.(signer) m.(subject) m.(subjectKeyId)
  m.(info) m.(time).

Definition base : t := mk "" "" "" "" 0.

Definition encode {PB : Protobuf} (message : t) (writer : Writer) : Writer :=
  writer
  @> when (str_neq message.(signer) "") (fun w => w @> uint32 10 @> string_ message.(signer))
  @> when (str_neq message.(subject) "") (fun w => w @> uint32 18 @> string_ message.(subject))
  @> when (str_neq message.(subjectKeyId) "")
       (fun w => w @> uint32 26 @> string_ message.(subjectKeyId))
  @> when (str_neq message.(info) "") (fun w => w @> uint32 34 @> string_ message.(info))
  @> when (num_neq message.(time) 0) (fun w => w @> uint32 40 @> int64 message.(time)).

Definition decode_field {PB : Protobuf} (tag : Z) (message : t) : RM t :=
  match field_number tag with
  | 1 => v ← read_string; mret (message <| signer := v |>)
  | 2 => v ← read_string; mret (message <| subject := v |>)
  | 3 => v ← read_string; mret (message <| subjectKeyId := v |>)
  | 4 => v ← read_string; mret (message <| info := v |>)
  | 5 => v ← read_number read_int64; mret (message <| time := v |>)
  | _ => _ ← skipType (wire_type tag); mret message
  end.

Definition decode {PB : Protobuf} (length : option Z) : RM t :=
  decode_message length base decode_field.

Definition fromJSON (object : js) : result t :=
  signer' ← field_or object "signer" to_string "";
  subject' ← field_or object "subject" to_string "";
  subjectKeyId' ← field_or object "subjectKeyId" to_string "";
  info' ← field_or object "info" to_string "";
  time' ← field_or object "time" js_Number 0;
  Ok (mk signer' subject' subjectKeyId' info' time').

Definition toJSON (message : t) : js :=
  Obj ([("signer", Str message.(signer));
    ("subject", Str message.(subject));
    ("subjectKeyId", Str message.(subjectKeyId));
    ("info", Str message.(info));
    ("time", Num message.(time))]).

Record partial := mkPartial {
  p_signer : option string;
  p_subject : option string;
  p_subjectKeyId : option string;
  p_info : option string;
  p_time : option number;
}.

Definition fromPartial (object : partial) : t := {|
  signer := object.(p_signer) ?? "";
  subject := object.(p_subject) ?? "";
  subjectKeyId := object.(p_subjectKeyId) ?? "";
  info := object.(p_info) ?? "";
  time := object.(p_time) ?? Int 0;
|}.

(** The object with no property given. *)
Definition nothing : partial := mkPartial None None None None None.

(** The bytes [encode] writes. *)
Definition wire {PB : Protobuf} {PS : ProtobufSpec PB} (m : t) : bytes :=
  f_string 10 m.(signer) ++
  f_string 18 m.(subject) ++
  f_string 26 m.(subjectKeyId) ++
  f_string 34 m.(info) ++
  f_number e_int64 40 m.(time).

Definition valid (m : t) : Prop :=
  int64_ok m.(time).

Definition encodable {PB : Protobuf} {PS : ProtobufSpec PB} (m : t) : Prop :=
  valid m ∧ small (wire m).

Definition merge (m a : t) : t := {|
  signer := later_string m.(signer) a.(signer);
  subject := later_string m.(subject) a.(subject);
  subjectKeyId := later_string m.(subjectKeyId) a.(subjectKeyId);
  info := later_string m.(info) a.(info);
  time := later_number m.(time) a.(time);
|}.

(** A whole message seen as a partial one. *)
Definition full (m : t) : partial := {|
  p_signer := Some m.(signer);
  p_subject := Some m.(subject);
  p_subjectKeyId := Some m.(subjectKeyId);
  p_info := Some m.(info);
  p_time := Some m.(time);
|}.

(** The message as its [.proto] file declares it. *)
Definition schema (m : t) : list field :=
  [implicit 1 (VString m.(signer));
   implicit 2 (VString m.(subject));
   implicit 3 (VString m.(subjectKeyId));
   implicit 4 (VString m.(info));
   implicit 5 (VInt Int64 m.(time))].

(** The message with its default for every property that is not kept. *)
Definition only (kept : string → bool) (m : t) : t := {|
  signer := if kept "signer" then m.(signer) else "";
  subject := if kept "subject" then m.(subject) else "";
  subjectKeyId := if kept "subjectKeyId" then m.(subjectKeyId) else "";
  info := if kept "info" then m.(info) else "";
  time := if kept "time" then m.(time) else Int 0;
|}.

#[global] Instance codec {PB : Protobuf} : MessageCodec t :=
  {| msg_base := base; msg_encode := encode; msg_field := decode_field |}.

#[global] Program Instance spec {PB : Protobuf} (PS : ProtobufSpec PB) : MessageSpec PS t :=
  {| msg_wire := wire; msg_valid := valid; msg_merge := merge |}.
Next Obligation. solve_encode_wire. Qed.
Next Obligation. solve_decode_wire. Qed.
Next Obligation. solve_merge_base. Qed.
Next Obligation. intros. solve_advances decode_field. Qed.

#[global] Program Instance data : MessageData t partial :=
  {| msg_fromJSON := fromJSON; msg_toJSON := toJSON;
     msg_fromPartial := fromPartial; msg_full := full |}.
Next Obligation. solve_json fromJSON toJSON. Qed.
Next Obligation. solve_partial fromPartial full. Qed.

#[global] Instance schema_wire {PB : Protobuf} {PS : ProtobufSpec PB} : WireSchema wire schema.
Proof. solve_schema_wire wire schema. Qed.

#[global] Instance schema_merge : MergeSchema merge schema.
Proof. solve_schema_merge merge schema. Qed.

(** Its row in the table of message types. *)
Definition message {PB : Protobuf} {PS : ProtobufSpec PB} : message_type :=
  plain_message "MsgRejectAddX509RootCert" nothing true schema only.

#[global] Instance message_lawful {PB : Protobuf} (PS : ProtobufSpec PB) : Lawful message.
Proof. solve_lawful decode_field fromJSON only. Qed.

End MsgRejectAddX509RootCert.

(** ** [MsgRejectAddX509RootCertResponse] (pki/tx.js) *)

Module MsgRejectAddX509RootCertResponse.

Record t := mk {}.

#[global] Instance t_eta : Settable t := λ m, m.

Definition base : t := mk.

Definition encode {PB : Protobuf} (message : t) (writer : Writer) : Writer :=
  writer.

Definition decode_field {PB : Protobuf} (tag : Z) (message : t) : RM t :=
  match field_number tag with
  | _ => _ ← skipType (wire_type tag); mret message
  end.

Definition decode {PB : Protobuf} (length : option Z) : RM t :=
  decode_message length base decode_field.

Definition fromJSON (object : js) : result t :=
  Ok base.

Definition toJSON (message : t) : js :=
  Obj [].

Record partial := mkPartial {}.

Definition fromPartial (object : partial) : t := base.

(** The object with no property given. *)
Definition nothing : partial := mkPartial.

(** The bytes [encode] writes. *)
Definition wire {PB : Protobuf} {PS : ProtobufSpec PB} (m : t) : bytes :=
  [].

Definition valid (m : t) : Prop :=
  True.

Definition encodable {PB : Protobuf} {PS : ProtobufSpec PB} (m : t) : Prop :=
  valid m ∧ small (wire m).

Definition merge (m a : t) : t := m.

(** A whole message seen as a partial one. *)
Definition full (m : t) : partial := mkPartial.

(** The message as its [.proto] file declares it. *)
Definition schema (m : t) : list field :=
  [].

(** The message with its default for every property that is not kept. *)
Definition only (kept : string → bool) (m : t) : t := m.

#[global] Instance codec {PB : Protobuf} : MessageCodec t :=
  {| msg_base := base; msg_encode := encode; msg_field := decode_field |}.

#[global] Program Instance spec {PB : Protobuf} (PS : ProtobufSpec PB) : MessageSpec PS t :=
  {| msg_wire := wire; msg_valid := valid; msg_merge := merge |}.
Next Obligation. solve_encode_wire. Qed.
Next Obligation. solve_decode_wire. Qed.
Next Obligation. solve_merge_base. Qed.
Next Obligation. intros. solve_advances decode_field. Qed.

#[global] Program Instance data : MessageData t partial :=
  {| msg_fromJSON := fromJSON; msg_toJSON := toJSON;
     msg_fromPartial := fromPartial; msg_full := full |}.
Next Obligation. solve_json fromJSON toJSON. Qed.
Next Obligation. solve_partial fromPartial full. Qed.

#[global] Instance schema_wire {PB : Protobuf} {PS : ProtobufSpec PB} : WireSchema wire schema.
Proof. solve_schema_wire wire schema. Qed.

#[global] Instance schema_merge : MergeSchema merge schema.
Proof. solve_schema_merge merge schema. Qed.

(** Its row in the table of message types. *)
Definition message {PB : Protobuf} {PS : ProtobufSpec PB} : message_type :=
  plain_message "MsgRejectAddX509RootCertResponse" nothing false schema only.

#[global] Instance message_lawful {PB : Protobuf} (PS : ProtobufSpec PB) : Lawful message.
Proof. solve_lawful decode_field fromJSON only. Qed.

End MsgRejectAddX509RootCertResponse.


(** ** [MsgClientImpl]

    [rpc] is the transport the class is constructed with: [rpc service method data]
    is what the promise of [this.rpc.request] settles to. *)
Module MsgClientImpl.
Section client.
Context {PB : Protobuf} (rpc : string → string → bytes → result bytes).

Definition ProposeAddX509RootCert (request : MsgProposeAddX509RootCert.t)
    : result MsgProposeAddX509RootCertResponse.t :=
  data ← rpc "zigbeealliance.distributedcomplianceledger.pki.Msg" "ProposeAddX509RootCert"
    (finish (MsgProposeAddX509RootCert.encode request create));
  decode_bytes MsgProposeAddX509RootCertResponse.decode data.

Definition ApproveAddX509RootCert (request : MsgApproveAddX509RootCert.t)
    : result MsgApproveAddX509RootCertResponse.t :=
  data ← rpc "zigbeealliance.distributedcomplianceledger.pki.Msg" "ApproveAddX509RootCert"
    (finish (MsgApproveAddX509RootCert.encode request create));
  decode_bytes MsgApproveAddX509RootCertResponse.decode data.

Definition AddX509Cert (request : MsgAddX509Cert.t) : result MsgAddX509CertResponse.t :=
  data ← rpc "zigbeealliance.distributedcomplianceledger.pki.Msg" "AddX509Cert"
    (finish (MsgAddX509Cert.encode request create));
  decode_bytes MsgAddX509CertResponse.decode data.

Definition ProposeRevokeX509RootCert (request : MsgProposeRevokeX509RootCert.t)
    : result MsgProposeRevokeX509RootCertResponse.t :=
  data ← rpc "zigbeealliance.distributedcomplianceledger.pki.Msg" "ProposeRevokeX509RootCert"
    (finish (MsgProposeRevokeX509RootCert.encode request create));
  decode_bytes MsgProposeRevokeX509RootCertResponse.decode data.

Definition ApproveRevokeX509RootCert (request : MsgApproveRevokeX509RootCert.t)
    : result MsgApproveRevokeX509RootCertResponse.t :=
  data ← rpc "zigbeealliance.distributedcomplianceledger.pki.Msg" "ApproveRevokeX509RootCert"
    (finish (MsgApproveRevokeX509RootCert.encode request create));
  decode_bytes MsgApproveRevokeX509RootCertResponse.decode data.

Definition RevokeX509Cert (request : MsgRevokeX509Cert.t) : result MsgRevokeX509CertResponse.t :=
  data ← rpc "zigbeealliance.distributedcomplianceledger.pki.Msg" "RevokeX509Cert"
    (finish (MsgRevokeX509Cert.encode request create));
  decode_bytes MsgRevokeX509CertResponse.decode data.

Definition RejectAddX509RootCert (request : MsgRejectAddX509RootCert.t)
    : result MsgRejectAddX509RootCertResponse.t :=
  data ← rpc "zigbeealliance.distributedcomplianceledger.pki.Msg" "RejectAddX509RootCert"
    (finish (MsgRejectAddX509RootCert.encode request create));
  decode_bytes MsgRejectAddX509RootCertResponse.decode data.

End client.
End MsgClientImpl.

(** ** The message types of this file *)

Definition messages {PB : Protobuf} {PS : ProtobufSpec PB} : list message_type :=
  [ MsgProposeAddX509RootCert.message; MsgProposeAddX509RootCertResponse.message;
   MsgApproveAddX509RootCert.message; MsgApproveAddX509RootCertResponse.message;
   MsgAddX509Cert.message; MsgAddX509CertResponse.message; MsgProposeRevokeX509RootCert.message;
   MsgProposeRevokeX509RootCertResponse.message; MsgApproveRevokeX509RootCert.message;
   MsgApproveRevokeX509RootCertResponse.message; MsgRevokeX509Cert.message;
   MsgRevokeX509CertResponse.message; MsgRejectAddX509RootCert.message;
   MsgRejectAddX509RootCertResponse.message].

Lemma PkiTx_lawful {PB : Protobuf} {PS : ProtobufSpec PB} : Forall Lawful messages.
Proof. solve_table. Qed.

(** The methods of [MsgClientImpl]. *)
Definition msg_methods {PB : Protobuf} {PS : ProtobufSpec PB} : list rpc_method :=
  [mkMethod "zigbeealliance.distributedcomplianceledger.pki.Msg" "ProposeAddX509RootCert"
     MsgProposeAddX509RootCert.message MsgProposeAddX509RootCertResponse.message
     (fun rpc => MsgClientImpl.ProposeAddX509RootCert rpc);
   mkMethod "zigbeealliance.distributedcomplianceledger.pki.Msg" "ApproveAddX509RootCert"
     MsgApproveAddX509RootCert.message MsgApproveAddX509RootCertResponse.message
     (fun rpc => MsgClientImpl.ApproveAddX509RootCert rpc);
   mkMethod "zigbeealliance.distributedcomplianceledger.pki.Msg" "AddX509Cert"
     MsgAddX509Cert.message MsgAddX509CertResponse.message
     (fun rpc => MsgClientImpl.AddX509Cert rpc);
   mkMethod "zigbeealliance.distributedcomplianceledger.pki.Msg" "ProposeRevokeX509RootCert"
     MsgProposeRevokeX509RootCert.message MsgProposeRevokeX509RootCertResponse.message
     (fun rpc => MsgClientImpl.ProposeRevokeX509RootCert rpc);
   mkMethod "zigbeealliance.distributedcomplianceledger.pki.Msg" "ApproveRevokeX509RootCert"
     MsgApproveRevokeX509RootCert.message MsgApproveRevokeX509RootCertResponse.message
     (fun rpc => MsgClientImpl.ApproveRevokeX509RootCert rpc);
   mkMethod "zigbeealliance.distributedcomplianceledger.pki.Msg" "RevokeX509Cert"
     MsgRevokeX509Cert.message MsgRevokeX509CertResponse.message
     (fun rpc => MsgClientImpl.RevokeX509Cert rpc);
   mkMethod "zigbeealliance.distributedcomplianceledger.pki.Msg" "RejectAddX509RootCert"
     MsgRejectAddX509RootCert.message MsgRejectAddX509RootCertResponse.message
     (fun rpc => MsgClientImpl.RejectAddX509RootCert rpc)].

Lemma PkiTx_msg_methods_lawful {PB : Protobuf} {PS : ProtobufSpec PB} : Forall method_lawful msg_methods.
Proof. solve_methods. Qed.
