(* ===== verification/PkiQuery.v ===== *)
(** * The query and genesis messages of the pki module

    The codecs of [pki/module/types/pki/query.js] and [genesis.js]. *)
From S2P Require Import Prelude Js Protobuf Codec Calendar Dates Base64 Fallible Proto3 MessageTable CommonTypes PkiTypes.
Open Scope Z_scope.

(** ** [QueryGetApprovedCertificatesRequest] (pki/query.js) *)

Module QueryGetApprovedCertificatesRequest.

Record t := mk {
  subject : string;
  subjectKeyId : string;
}.

#[global] Instance t_eta : Settable t := λ m, mk m.(subject) m.(subjectKeyId).

Definition base : t := mk "" "".

Definition encode {PB : Protobuf} (message : t) (writer : Writer) : Writer :=
  writer
  @> when (str_neq message.(subject) "") (fun w => w @> uint32 10 @> string_ message.(subject))
  @> when (str_neq message.(subjectKeyId) "")
       (fun w => w @> uint32 18 @> string_ message.(subjectKeyId)).

Definition decode_field {PB : Protobuf} (tag : Z) (message : t) : RM t :=
  match field_number tag with
  | 1 => v ← read_string; mret (message <| subject := v |>)
  | 2 => v ← read_string; mret (message <| subjectKeyId := v |>)
  | _ => _ ← skipType (wire_type tag); mret message
  end.

Definition decode {PB : Protobuf} (length : option Z) : RM t :=
  decode_message length base decode_field.

Definition fromJSON (object : js) : result t :=
  subject' ← field_or object "subject" to_string "";
  subjectKeyId' ← field_or object "subjectKeyId" to_string "";
  Ok (mk subject' subjectKeyId').

Definition toJSON (message : t) : js :=
  Obj ([("subject", Str message.(subject));
    ("subjectKeyId", Str message.(subjectKeyId))]).

Record partial := mkPartial {
  p_subject : option string;
  p_subjectKeyId : option string;
}.

Definition fromPartial (object : partial) : t := {|
  subject := object.(p_subject) ?? "";
  subjectKeyId := object.(p_subjectKeyId) ?? "";
|}.

(** The object with no property given. *)
Definition nothing : partial := mkPartial None None.

(** The bytes [encode] writes. *)
Definition wire {PB : Protobuf} {PS : ProtobufSpec PB} (m : t) : bytes :=
  f_string 10 m.(subject) ++
  f_string 18 m.(subjectKeyId).

Definition valid (m : t) : Prop :=
  True.

Definition encodable {PB : Protobuf} {PS : ProtobufSpec PB} (m : t) : Prop :=
  valid m ∧ small (wire m).

Definition merge (m a : t) : t := {|
  subject := later_string m.(subject) a.(subject);
  subjectKeyId := later_string m.(subjectKeyId) a.(subjectKeyId);
|}.

(** A whole message seen as a partial one. *)
Definition full (m : t) : partial := {|
  p_subject := Some m.(subject);
  p_subjectKeyId := Some m.(subjectKeyId);
|}.

(** The message as its [.proto] file declares it. *)
Definition schema (m : t) : list field :=
  [implicit 1 (VString m.(subject));
   implicit 2 (VString m.(subjectKeyId))].

(** The message with its default for every property that is not kept. *)
Definition only (kept : string → bool) (m : t) : t := {|
  subject := if kept "subject" then m.(subject) else "";
  subjectKeyId := if kept "subjectKeyId" then m.(subjectKeyId) else "";
|}.

#[global] Instance codec {PB : Protobuf} : MessageCodec t :=
  {| msg_base := base; msg_encode := encode; msg_field := decode_field |}.

#[global] Program Instance spec {PB : Protobuf} (PS : ProtobufSpec PB) : MessageSpec PS t :=
  {| msg_wire := wire; msg_valid := valid; msg_merge := merge |}.
Next Obligation. solve_encode_wire. Qed.
Next Obligation. solve_decode_wire. Qed.
Next Obligation. solve_merge_base. Qed.
Next Obligation. intros. solve_advances decode_field. Qed.

#[global] Program Instance data : MessageData t partial :=
  {| msg_fromJSON := fromJSON; msg_toJSON := toJSON;
     msg_fromPartial := fromPartial; msg_full := full |}.
Next Obligation. solve_json fromJSON toJSON. Qed.
Next Obligation. solve_partial fromPartial full. Qed.

#[global] Instance schema_wire {PB : Protobuf} {PS : ProtobufSpec PB} : WireSchema wire schema.
Proof. solve_schema_wire wire schema. Qed.

#[global] Instance schema_merge : MergeSchema merge schema.
Proof. solve_schema_merge merge schema. Qed.

(** Its row in the table of message types. *)
Definition message {PB : Protobuf} {PS : ProtobufSpec PB} : message_type :=
  plain_message "QueryGetApprovedCertificatesRequest" nothing true schema only.

#[global] Instance message_lawful {PB : Protobuf} (PS : ProtobufSpec PB) : Lawful message.
Proof. solve_lawful decode_field fromJSON only. Qed.

End QueryGetApprovedCertificatesRequest.

(** ** [QueryGetApprovedCertificatesResponse] (pki/query.js) *)

Module QueryGetApprovedCertificatesResponse.

Record t := mk {
  approvedCertificates : option ApprovedCertificates.t;
}.

#[global] Instance t_eta : Settable t := λ m, mk m.(approvedCertificates).

Definition base : t := mk None.

Definition encode {PB : Protobuf} (message : t) (writer : Writer) : Writer :=
  writer
  @> defined message.(approvedCertificates) (fun v w => w @> uint32 10 @> fork @> ApprovedCertificates.encode v @> ldelim).

Definition decode_field {PB : Protobuf} (tag : Z) (message : t) : RM t :=
  match field_number tag with
  | 1 => v ← read_nested ApprovedCertificates.decode;
         mret (message <| approvedCertificates := Some v |>)
  | _ => _ ← skipType (wire_type tag); mret message
  end.

Definition decode {PB : Protobuf} (length : option Z) : RM t :=
  decode_message length base decode_field.

Definition fromJSON (object : js) : result t :=
  approvedCertificates' ← field_or object "approvedCertificates" (to_some ApprovedCertificates.fromJSON) None;
  Ok (mk approvedCertificates').

Definition toJSON (message : t) : js :=
  Obj (prop_opt "approvedCertificates" ApprovedCertificates.toJSON message.(approvedCertificates)).

Record partial := mkPartial {
  p_approvedCertificates : option ApprovedCertificates.partial;
}.

Definition fromPartial (object : partial) : t := {|
  approvedCertificates := ApprovedCertificates.fromPartial <$> object.(p_approvedCertificates);
|}.

(** The object with no property given. *)
Definition nothing : partial := mkPartial None.

(** The bytes [encode] writes. *)
Definition wire {PB : Protobuf} {PS : ProtobufSpec PB} (m : t) : bytes :=
  f_message 10 ApprovedCertificates.wire m.(approvedCertificates).

Definition valid (m : t) : Prop :=
  from_option ApprovedCertificates.valid True m.(approvedCertificates).

Definition encodable {PB : Protobuf} {PS : ProtobufSpec PB} (m : t) : Prop :=
  valid m ∧ small (wire m).

Definition merge (m a : t) : t := {|
  approvedCertificates := later_message m.(approvedCertificates) a.(approvedCertificates);
|}.

(** A whole message seen as a partial one. *)
Definition full (m : t) : partial := {|
  p_approvedCertificates := ApprovedCertificates.full <$> m.(approvedCertificates);
|}.

(** The message as its [.proto] file declares it. *)
Definition schema (m : t) : list field :=
  [singular 1 Optional (message_value ApprovedCertificates.schema) m.(approvedCertificates)].

(** The message with its default for every property that is not kept. *)
Definition only (kept : string → bool) (m : t) : t := {|
  approvedCertificates := if kept "approvedCertificates" then m.(approvedCertificates) else None;
|}.

#[global] Instance codec {PB : Protobuf} : MessageCodec t :=
  {| msg_base := base; msg_encode := encode; msg_field := decode_field |}.

#[global] Program Instance spec {PB : Protobuf} (PS : ProtobufSpec PB) : MessageSpec PS t :=
  {| msg_wire := wire; msg_valid := valid; msg_merge := merge |}.
Next Obligation. solve_encode_wire. Qed.
Next Obligation. solve_decode_wire. Qed.
Next Obligation. solve_merge_base. Qed.
Next Obligation. intros. solve_advances decode_field. Qed.

#[global] Program Instance data : MessageData t partial :=
  {| msg_fromJSON := fromJSON; msg_toJSON := toJSON;
     msg_fromPartial := fromPartial; msg_full := full |}.
Next Obligation. solve_json fromJSON toJSON. Qed.
Next Obligation. solve_partial fromPartial full. Qed.

#[global] Instance schema_wire {PB : Protobuf} {PS : ProtobufSpec PB} : WireSchema wire schema.
Proof. solve_schema_wire wire schema. Qed.

#[global] Instance schema_merge : MergeSchema merge schema.
Proof. solve_schema_merge merge schema. Qed.

(** Its row in the table of message types. *)
Definition message {PB : Protobuf} {PS : ProtobufSpec PB} : message_type :=
  plain_message "QueryGetApprovedCertificatesResponse" nothing true schema only.

#[global] Instance message_lawful {PB : Protobuf} (PS : ProtobufSpec PB) : Lawful message.
Proof. solve_lawful decode_field fromJSON only. Qed.

End QueryGetApprovedCertificatesResponse.

(** ** [QueryAllApprovedCertificatesRequest] (pki/query.js) *)

Module QueryAllApprovedCertificatesRequest.

Record t := mk {
  pagination : option PageRequest.t;
}.

#[global] Instance t_eta : Settable t := λ m, mk m.(pagination).

Definition base : t := mk None.

Definition encode {PB : Protobuf} (message : t) (writer : Writer) : result Writer :=
  Ok writer
  @>= defined_e message.(pagination) (submessage 10 PageRequest.encode).

Definition decode_field {PB : Protobuf} (tag : Z) (message : t) : RM t :=
  match field_number tag with
  | 1 => v ← read_nested PageRequest.decode; mret (message <| pagination := Some v |>)
  | _ => _ ← skipType (wire_type tag); mret message
  end.

Definition decode {PB : Protobuf} (length : option Z) : RM t :=
  decode_message length base decode_field.

Definition fromJSON (object : js) : result t :=
  pagination' ← field_or object "pagination" (to_some PageRequest.fromJSON) None;
  Ok (mk pagination').

Definition toJSON (message : t) : js :=
  Obj (prop_opt "pagination" PageRequest.toJSON message.(pagination)).

Record partial := mkPartial {
  p_pagination : option PageRequest.partial;
}.

Definition fromPartial (object : partial) : t := {|
  pagination := PageRequest.fromPartial <$> object.(p_pagination);
|}.

(** The object with no property given. *)
Definition nothing : partial := mkPartial None.

(** The bytes [encode] writes. *)
Definition wire {PB : Protobuf} {PS : ProtobufSpec PB} (m : t) : bytes :=
  f_message 10 PageRequest.wire m.(pagination).

Definition valid (m : t) : Prop :=
  from_option PageRequest.valid True m.(pagination).

(** The byte fields hold arrays, as the interface declares. *)
Definition typed (m : t) : bool := from_option PageRequest.typed true m.(pagination).

(** The message without its empty byte arrays. *)
Definition normal (m : t) : t := {|
  pagination := PageRequest.normal <$> m.(pagination);
|}.

Definition encodable {PB : Protobuf} {PS : ProtobufSpec PB} (m : t) : Prop :=
  typed m = true ∧ valid m ∧ small (wire m).

Definition merge (m a : t) : t := {|
  pagination := later_message m.(pagination) (PageRequest.normal <$> a.(pagination));
|}.

(** A whole message seen as a partial one. *)
Definition full (m : t) : partial := {|
  p_pagination := PageRequest.full <$> m.(pagination);
|}.

(** The message as its [.proto] file declares it. *)
Definition schema (m : t) : list field :=
  [singular 1 Optional (message_value PageRequest.schema) m.(pagination)].

(** The message with its default for every property that is not kept. *)
Definition only (kept : string → bool) (m : t) : t := {|
  pagination := if kept "pagination" then m.(pagination) else None;
|}.

#[global] Instance codec {PB : Protobuf} : FallibleCodec t :=
  {| fmsg_base := base; fmsg_encode := encode; fmsg_field := decode_field |}.

#[global] Program Instance spec {PB : Protobuf} (PS : ProtobufSpec PB) : FallibleSpec PS t :=
  {| fmsg_wire := wire; fmsg_valid := valid; fmsg_typed := typed; fmsg_normal := normal;
     fmsg_merge := merge |}.
Next Obligation. solve_fencode_wire. Qed.
Next Obligation. intros. solve_fencode_throws encode typed. Qed.
Next Obligation. solve_fdecode_wire. Qed.
Next Obligation. solve_fmerge_base. Qed.
Next Obligation. intros. solve_fadvances decode_field. Qed.

#[global] Program Instance given_ : FalliblePartial t partial :=
  {| fmsg_fromPartial := fromPartial; fmsg_full := full; fmsg_given := typed |}.
Next Obligation. solve_fgiven fromPartial typed. Qed.
Next Obligation. solve_fpartial fromPartial full typed. Qed.

#[global] Program Instance json : FallibleJson t :=
  {| fmsg_fromJSON := fromJSON; fmsg_toJSON := toJSON;
     fmsg_named := fun _ => true; fmsg_known := fun m => m |}.
Next Obligation. solve_fjson fromJSON toJSON. Qed.
Next Obligation. reflexivity. Qed.

#[global] Instance schema_wire {PB : Protobuf} {PS : ProtobufSpec PB} : WireSchema wire schema.
Proof. solve_schema_wire wire schema. Qed.

#[global] Instance schema_normal : NormalSchema normal schema.
Proof. solve_schema_normal normal schema. Qed.

#[global] Instance schema_merge : MergeSchema merge schema.
Proof. solve_schema_merge merge schema. Qed.

(** Its row in the table of message types. *)
Definition message {PB : Protobuf} {PS : ProtobufSpec PB} : message_type :=
  fallible_message "QueryAllApprovedCertificatesRequest" nothing true schema only.

#[global] Instance message_lawful {PB : Protobuf} (PS : ProtobufSpec PB) : Lawful message.
Proof. solve_lawful decode_field fromJSON only. Qed.

End QueryAllApprovedCertificatesRequest.

(** ** [QueryAllApprovedCertificatesResponse] (pki/query.js) *)

Module QueryAllApprovedCertificatesResponse.

Record t := mk {
  approvedCertificates : list ApprovedCertificates.t;
  pagination : option PageResponse.t;
}.

#[global] Instance t_eta : Settable t := λ m, mk m.(approvedCertificates) m.(pagination).

Definition base : t := mk [] None.

Definition encode {PB : Protobuf} (message : t) (writer : Writer) : result Writer :=
  Ok writer
  @>= pure (each message.(approvedCertificates) (fun v w => w @> uint32 10 @> fork @> ApprovedCertificates.encode v @> ldelim))
  @>= defined_e message.(pagination) (submessage 18 PageResponse.encode).

Definition decode_field {PB : Protobuf} (tag : Z) (message : t) : RM t :=
  match field_number tag with
  | 1 => v ← read_nested ApprovedCertificates.decode;
         mret (message <| approvedCertificates := message.(approvedCertificates) ++ [v] |>)
  | 2 => v ← read_nested PageResponse.decode; mret (message <| pagination := Some v |>)
  | _ => _ ← skipType (wire_type tag); mret message
  end.

Definition decode {PB : Protobuf} (length : option Z) : RM t :=
  decode_message length base decode_field.

Definition fromJSON (object : js) : result t :=
  approvedCertificates' ← field_or object "approvedCertificates" (to_list ApprovedCertificates.fromJSON) [];
  pagination' ← field_or object "pagination" (to_some PageResponse.fromJSON) None;
  Ok (mk approvedCertificates' pagination').

Definition toJSON (message : t) : js :=
  Obj ([("approvedCertificates", Arr (map ApprovedCertificates.toJSON message.(approvedCertificates)))] ++
   prop_opt "pagination" PageResponse.toJSON message.(pagination)).

Record partial := mkPartial {
  p_approvedCertificates : option (list ApprovedCertificates.partial);
  p_pagination : option PageResponse.partial;
}.

Definition fromPartial (object : partial) : t := {|
  approvedCertificates := map ApprovedCertificates.fromPartial (object.(p_approvedCertificates) ?? []);
  pagination := PageResponse.fromPartial <$> object.(p_pagination);
|}.

(** The object with no property given. *)
Definition nothing : partial := mkPartial None None.

(** The bytes [encode] writes. *)
Definition wire {PB : Protobuf} {PS : ProtobufSpec PB} (m : t) : bytes :=
  f_repeated 10 ApprovedCertificates.wire m.(approvedCertificates) ++
  f_message 18 PageResponse.wire m.(pagination).

Definition valid (m : t) : Prop :=
  Forall ApprovedCertificates.valid m.(approvedCertificates) ∧ from_option PageResponse.valid True m.(pagination).

(** The byte fields hold arrays, as the interface declares. *)
Definition typed (m : t) : bool := from_option PageResponse.typed true m.(pagination).

(** The message without its empty byte arrays. *)
Definition normal (m : t) : t := {|
  approvedCertificates := m.(approvedCertificates);
  pagination := PageResponse.normal <$> m.(pagination);
|}.

Definition encodable {PB : Protobuf} {PS : ProtobufSpec PB} (m : t) : Prop :=
  typed m = true ∧ valid m ∧ small (wire m).

Definition merge (m a : t) : t := {|
  approvedCertificates := m.(approvedCertificates) ++ a.(approvedCertificates);
  pagination := later_message m.(pagination) (PageResponse.normal <$> a.(pagination));
|}.

(** A whole message seen as a partial one. *)
Definition full (m : t) : partial := {|
  p_approvedCertificates := Some (map ApprovedCertificates.full m.(approvedCertificates));
  p_pagination := PageResponse.full <$> m.(pagination);
|}.

(** The message as its [.proto] file declares it. *)
Definition schema (m : t) : list field :=
  [repeated 1 (message_value ApprovedCertificates.schema) m.(approvedCertificates);
   singular 2 Optional (message_value PageResponse.schema) m.(pagination)].

(** The message with its default for every property that is not kept. *)
Definition only (kept : string → bool) (m : t) : t := {|
  approvedCertificates := if kept "approvedCertificates" then m.(approvedCertificates) else [];
  pagination := if kept "pagination" then m.(pagination) else None;
|}.

#[global] Instance codec {PB : Protobuf} : FallibleCodec t :=
  {| fmsg_base := base; fmsg_encode := encode; fmsg_field := decode_field |}.

#[global] Program Instance spec {PB : Protobuf} (PS : ProtobufSpec PB) : FallibleSpec PS t :=
  {| fmsg_wire := wire; fmsg_valid := valid; fmsg_typed := typed; fmsg_normal := normal;
     fmsg_merge := merge |}.
Next Obligation. solve_fencode_wire. Qed.
Next Obligation. intros. solve_fencode_throws encode typed. Qed.
Next Obligation. solve_fdecode_wire. Qed.
Next Obligation. solve_fmerge_base. Qed.
Next Obligation. intros. solve_fadvances decode_field. Qed.

#[global] Program Instance given_ : FalliblePartial t partial :=
  {| fmsg_fromPartial := fromPartial; fmsg_full := full; fmsg_given := typed |}.
Next Obligation. solve_fgiven fromPartial typed. Qed.
Next Obligation. solve_fpartial fromPartial full typed. Qed.

#[global] Program Instance json : FallibleJson t :=
  {| fmsg_fromJSON := fromJSON; fmsg_toJSON := toJSON;
     fmsg_named := fun _ => true; fmsg_known := fun m => m |}.
Next Obligation. solve_fjson fromJSON toJSON. Qed.
Next Obligation. reflexivity. Qed.

#[global] Instance schema_wire {PB : Protobuf} {PS : ProtobufSpec PB} : WireSchema wire schema.
Proof. solve_schema_wire wire schema. Qed.

#[global] Instance schema_normal : NormalSchema normal schema.
Proof. solve_schema_normal normal schema. Qed.

#[global] Instance schema_merge : MergeSchema merge schema.
Proof. solve_schema_merge merge schema. Qed.

(** Its row in the table of message types. *)
Definition message {PB : Protobuf} {PS : ProtobufSpec PB} : message_type :=
  fallible_message "QueryAllApprovedCertificatesResponse" nothing true schema only.

#[global] Instance message_lawful {PB : Protobuf} (PS : ProtobufSpec PB) : Lawful message.
Proof. solve_lawful decode_field fromJSON only. Qed.

End QueryAllApprovedCertificatesResponse.

(** ** [QueryGetProposedCertificateRequest] (pki/query.js) *)

Module QueryGetProposedCertificateRequest.

Record t := mk {
  subject : string;
  subjectKeyId : string;
}.

#[global] Instance t_eta : Settable t := λ m, mk m.(subject) m.(subjectKeyId).

Definition base : t := mk "" "".

Definition encode {PB : Protobuf} (message : t) (writer : Writer) : Writer :=
  writer
  @> when (str_neq message.(subject) "") (fun w => w @> uint32 10 @> string_ message.(subject))
  @> when (str_neq message.(subjectKeyId) "")
       (fun w => w @> uint32 18 @> string_ message.(subjectKeyId)).

Definition decode_field {PB : Protobuf} (tag : Z) (message : t) : RM t :=
  match field_number tag with
  | 1 => v ← read_string; mret (message <| subject := v |>)
  | 2 => v ← read_string; mret (message <| subjectKeyId := v |>)
  | _ => _ ← skipType (wire_type tag); mret message
  end.

Definition decode {PB : Protobuf} (length : option Z) : RM t :=
  decode_message length base decode_field.

Definition fromJSON (object : js) : result t :=
  subject' ← field_or object "subject" to_string "";
  subjectKeyId' ← field_or object "subjectKeyId" to_string "";
  Ok (mk subject' subjectKeyId').

Definition toJSON (message : t) : js :=
  Obj ([("subject", Str message.(subject));
    ("subjectKeyId", Str message.(subjectKeyId))]).

Record partial := mkPartial {
  p_subject : option string;
  p_subjectKeyId : option string;
}.

Definition fromPartial (object : partial) : t := {|
  subject := object.(p_subject) ?? "";
  subjectKeyId := object.(p_subjectKeyId) ?? "";
|}.

(** The object with no property given. *)
Definition nothing : partial := mkPartial None None.

(** The bytes [encode] writes. *)
Definition wire {PB : Protobuf} {PS : ProtobufSpec PB} (m : t) : bytes :=
  f_string 10 m.(subject) ++
  f_string 18 m.(subjectKeyId).

Definition valid (m : t) : Prop :=
  True.

Definition encodable {PB : Protobuf} {PS : ProtobufSpec PB} (m : t) : Prop :=
  valid m ∧ small (wire m).

Definition merge (m a : t) : t := {|
  subject := later_string m.(subject) a.(subject);
  subjectKeyId := later_string m.(subjectKeyId) a.(subjectKeyId);
|}.

(** A whole message seen as a partial one. *)
Definition full (m : t) : partial := {|
  p_subject := Some m.(subject);
  p_subjectKeyId := Some m.(subjectKeyId);
|}.

(** The message as its [.proto] file declares it. *)
Definition schema (m : t) : list field :=
  [implicit 1 (VString m.(subject));
   implicit 2 (VString m.(subjectKeyId))].

(** The message with its default for every property that is not kept. *)
Definition only (kept : string → bool) (m : t) : t := {|
  subject := if kept "subject" then m.(subject) else "";
  subjectKeyId := if kept "subjectKeyId" then m.(subjectKeyId) else "";
|}.

#[global] Instance codec {PB : Protobuf} : MessageCodec t :=
  {| msg_base := base; msg_encode := encode; msg_field := decode_field |}.

#[global] Program Instance spec {PB : Protobuf} (PS : ProtobufSpec PB) : MessageSpec PS t :=
  {| msg_wire := wire; msg_valid := valid; msg_merge := merge |}.
Next Obligation. solve_encode_wire. Qed.
Next Obligation. solve_decode_wire. Qed.
Next Obligation. solve_merge_base. Qed.
Next Obligation. intros. solve_advances decode_field. Qed.

#[global] Program Instance data : MessageData t partial :=
  {| msg_fromJSON := fromJSON; msg_toJSON := toJSON;
     msg_fromPartial := fromPartial; msg_full := full |}.
Next Obligation. solve_json fromJSON toJSON. Qed.
Next Obligation. solve_partial fromPartial full. Qed.

#[global] Instance schema_wire {PB : Protobuf} {PS : ProtobufSpec PB} : WireSchema wire schema.
Proof. solve_schema_wire wire schema. Qed.

#[global] Instance schema_merge : MergeSchema merge schema.
Proof. solve_schema_merge merge schema. Qed.

(** Its row in the table of message types. *)
Definition message {PB : Protobuf} {PS : ProtobufSpec PB} : message_type :=
  plain_message "QueryGetProposedCertificateRequest" nothing true schema only.

#[global] Instance message_lawful {PB : Protobuf} (PS : ProtobufSpec PB) : Lawful message.
Proof. solve_lawful decode_field fromJSON only. Qed.

End QueryGetProposedCertificateRequest.

(** ** [QueryGetProposedCertificateResponse] (pki/query.js) *)

Module QueryGetProposedCertificateResponse.

Record t := mk {
  proposedCertificate : option ProposedCertificate.t;
}.

#[global] Instance t_eta : Settable t := λ m, mk m.(proposedCertificate).

Definition base : t := mk None.

Definition encode {PB : Protobuf} (message : t) (writer : Writer) : Writer :=
  writer
  @> defined message.(proposedCertificate) (fun v w => w @> uint32 10 @> fork @> ProposedCertificate.encode v @> ldelim).

Definition decode_field {PB : Protobuf} (tag : Z) (message : t) : RM t :=
  match field_number tag with
  | 1 => v ← read_nested ProposedCertificate.decode;
         mret (message <| proposedCertificate := Some v |>)
  | _ => _ ← skipType (wire_type tag); mret message
  end.

Definition decode {PB : Protobuf} (length : option Z) : RM t :=
  decode_message length base decode_field.

Definition fromJSON (object : js) : result t :=
  proposedCertificate' ← field_or object "proposedCertificate" (to_some ProposedCertificate.fromJSON) None;
  Ok (mk proposedCertificate').

Definition toJSON (message : t) : js :=
  Obj (prop_opt "proposedCertificate" ProposedCertificate.toJSON message.(proposedCertificate)).

Record partial := mkPartial {
  p_proposedCertificate : option ProposedCertificate.partial;
}.

Definition fromPartial (object : partial) : t := {|
  proposedCertificate := ProposedCertificate.fromPartial <$> object.(p_proposedCertificate);
|}.

(** The object with no property given. *)
Definition nothing : partial := mkPartial None.

(** The bytes [encode] writes. *)
Definition wire {PB : Protobuf} {PS : ProtobufSpec PB} (m : t) : bytes :=
  f_message 10 ProposedCertificate.wire m.(proposedCertificate).

Definition valid (m : t) : Prop :=
  from_option ProposedCertificate.valid True m.(proposedCertificate).

Definition encodable {PB : Protobuf} {PS : ProtobufSpec PB} (m : t) : Prop :=
  valid m ∧ small (wire m).

Definition merge (m a : t) : t := {|
  proposedCertificate := later_message m.(proposedCertificate) a.(proposedCertificate);
|}.

(** A whole message seen as a partial one. *)
Definition full (m : t) : partial := {|
  p_proposedCertificate := ProposedCertificate.full <$> m.(proposedCertificate);
|}.

(** The message as its [.proto] file declares it. *)
Definition schema (m : t) : list field :=
  [singular 1 Optional (message_value ProposedCertificate.schema) m.(proposedCertificate)].

(** The message with its default for every property that is not kept. *)
Definition only (kept : string → bool) (m : t) : t := {|
  proposedCertificate := if kept "proposedCertificate" then m.(proposedCertificate) else None;
|}.

#[global] Instance codec {PB : Protobuf} : MessageCodec t :=
  {| msg_base := base; msg_encode := encode; msg_field := decode_field |}.

#[global] Program Instance spec {PB : Protobuf} (PS : ProtobufSpec PB) : MessageSpec PS t :=
  {| msg_wire := wire; msg_valid := valid; msg_merge := merge |}.
Next Obligation. solve_encode_wire. Qed.
Next Obligation. solve_decode_wire. Qed.
Next Obligation. solve_merge_base. Qed.
Next Obligation. intros. solve_advances decode_field. Qed.

#[global] Program Instance data : MessageData t partial :=
  {| msg_fromJSON := fromJSON; msg_toJSON := toJSON;
     msg_fromPartial := fromPartial; msg_full := full |}.
Next Obligation. solve_json fromJSON toJSON. Qed.
Next Obligation. solve_partial fromPartial full. Qed.

#[global] Instance schema_wire {PB : Protobuf} {PS : ProtobufSpec PB} : WireSchema wire schema.
Proof. solve_schema_wire wire schema. Qed.

#[global] Instance schema_merge : MergeSchema merge schema.
Proof. solve_schema_merge merge schema. Qed.

(** Its row in the table of message types. *)
Definition message {PB : Protobuf} {PS : ProtobufSpec PB} : message_type :=
  plain_message "QueryGetProposedCertificateResponse" nothing true schema only.

#[global] Instance message_lawful {PB : Protobuf} (PS : ProtobufSpec PB) : Lawful message.
Proof. solve_lawful decode_field fromJSON only. Qed.

End QueryGetProposedCertificateResponse.

(** ** [QueryAllProposedCertificateRequest] (pki/query.js) *)

Module QueryAllProposedCertificateRequest.

Record t := mk {
  pagination : option PageRequest.t;
}.

#[global] Instance t_eta : Settable t := λ m, mk m.(pagination).

Definition base : t := mk None.

Definition encode {PB : Protobuf} (message : t) (writer : Writer) : result Writer :=
  Ok writer
  @>= defined_e message.(pagination) (submessage 10 PageRequest.encode).

Definition decode_field {PB : Protobuf} (tag : Z) (message : t) : RM t :=
  match field_number tag with
  | 1 => v ← read_nested PageRequest.decode; mret (message <| pagination := Some v |>)
  | _ => _ ← skipType (wire_type tag); mret message
  end.

Definition decode {PB : Protobuf} (length : option Z) : RM t :=
  decode_message length base decode_field.

Definition fromJSON (object : js) : result t :=
  pagination' ← field_or object "pagination" (to_some PageRequest.fromJSON) None;
  Ok (mk pagination').

Definition toJSON (message : t) : js :=
  Obj (prop_opt "pagination" PageRequest.toJSON message.(pagination)).

Record partial := mkPartial {
  p_pagination : option PageRequest.partial;
}.

Definition fromPartial (object : partial) : t := {|
  pagination := PageRequest.fromPartial <$> object.(p_pagination);
|}.

(** The object with no property given. *)
Definition nothing : partial := mkPartial None.

(** The bytes [encode] writes. *)
Definition wire {PB : Protobuf} {PS : ProtobufSpec PB} (m : t) : bytes :=
  f_message 10 PageRequest.wire m.(pagination).

Definition valid (m : t) : Prop :=
  from_option PageRequest.valid True m.(pagination).

(** The byte fields hold arrays, as the interface declares. *)
Definition typed (m : t) : bool := from_option PageRequest.typed true m.(pagination).

(** The message without its empty byte arrays. *)
Definition normal (m : t) : t := {|
  pagination := PageRequest.normal <$> m.(pagination);
|}.

Definition encodable {PB : Protobuf} {PS : ProtobufSpec PB} (m : t) : Prop :=
  typed m = true ∧ valid m ∧ small (wire m).

Definition merge (m a : t) : t := {|
  pagination := later_message m.(pagination) (PageRequest.normal <$> a.(pagination));
|}.

(** A whole message seen as a partial one. *)
Definition full (m : t) : partial := {|
  p_pagination := PageRequest.full <$> m.(pagination);
|}.

(** The message as its [.proto] file declares it. *)
Definition schema (m : t) : list field :=
  [singular 1 Optional (message_value PageRequest.schema) m.(pagination)].

(** The message with its default for every property that is not kept. *)
Definition only (kept : string → bool) (m : t) : t := {|
  pagination := if kept "pagination" then m.(pagination) else None;
|}.

#[global] Instance codec {PB : Protobuf} : FallibleCodec t :=
  {| fmsg_base := base; fmsg_encode := encode; fmsg_field := decode_field |}.

#[global] Program Instance spec {PB : Protobuf} (PS : ProtobufSpec PB) : FallibleSpec PS t :=
  {| fmsg_wire := wire; fmsg_valid := valid; fmsg_typed := typed; fmsg_normal := normal;
     fmsg_merge := merge |}.
Next Obligation. solve_fencode_wire. Qed.
Next Obligation. intros. solve_fencode_throws encode typed. Qed.
Next Obligation. solve_fdecode_wire. Qed.
Next Obligation. solve_fmerge_base. Qed.
Next Obligation. intros. solve_fadvances decode_field. Qed.

#[global] Program Instance given_ : FalliblePartial t partial :=
  {| fmsg_fromPartial := fromPartial; fmsg_full := full; fmsg_given := typed |}.
Next Obligation. solve_fgiven fromPartial typed. Qed.
Next Obligation. solve_fpartial fromPartial full typed. Qed.

#[global] Program Instance json : FallibleJson t :=
  {| fmsg_fromJSON := fromJSON; fmsg_toJSON := toJSON;
     fmsg_named := fun _ => true; fmsg_known := fun m => m |}.
Next Obligation. solve_fjson fromJSON toJSON. Qed.
Next Obligation. reflexivity. Qed.

#[global] Instance schema_wire {PB : Protobuf} {PS : ProtobufSpec PB} : WireSchema wire schema.
Proof. solve_schema_wire wire schema. Qed.

#[global] Instance schema_normal : NormalSchema normal schema.
Proof. solve_schema_normal normal schema. Qed.

#[global] Instance schema_merge : MergeSchema merge schema.
Proof. solve_schema_merge merge schema. Qed.

(** Its row in the table of message types. *)
Definition message {PB : Protobuf} {PS : ProtobufSpec PB} : message_type :=
  fallible_message "QueryAllProposedCertificateRequest" nothing true schema only.

#[global] Instance message_lawful {PB : Protobuf} (PS : ProtobufSpec PB) : Lawful message.
Proof. solve_lawful decode_field fromJSON only. Qed.

End QueryAllProposedCertificateRequest.

(** ** [QueryAllProposedCertificateResponse] (pki/query.js) *)

Module QueryAllProposedCertificateResponse.

Record t := mk {
  proposedCertificate : list ProposedCertificate.t;
  pagination : option PageResponse.t;
}.

#[global] Instance t_eta : Settable t := λ m, mk m.(proposedCertificate) m.(pagination).

Definition base : t := mk [] None.

Definition encode {PB : Protobuf} (message : t) (writer : Writer) : result Writer :=
  Ok writer
  @>= pure (each message.(proposedCertificate) (fun v w => w @> uint32 10 @> fork @> ProposedCertificate.encode v @> ldelim))
  @>= defined_e message.(pagination) (submessage 18 PageResponse.encode).

Definition decode_field {PB : Protobuf} (tag : Z) (message : t) : RM t :=
  match field_number tag with
  | 1 => v ← read_nested ProposedCertificate.decode;
         mret (message <| proposedCertificate := message.(proposedCertificate) ++ [v] |>)
  | 2 => v ← read_nested PageResponse.decode; mret (message <| pagination := Some v |>)
  | _ => _ ← skipType (wire_type tag); mret message
  end.

Definition decode {PB : Protobuf} (length : option Z) : RM t :=
  decode_message length base decode_field.

Definition fromJSON (object : js) : result t :=
  proposedCertificate' ← field_or object "proposedCertificate" (to_list ProposedCertificate.fromJSON) [];
  pagination' ← field_or object "pagination" (to_some PageResponse.fromJSON) None;
  Ok (mk proposedCertificate' pagination').

Definition toJSON (message : t) : js :=
  Obj ([("proposedCertificate", Arr (map ProposedCertificate.toJSON message.(proposedCertificate)))] ++
   prop_opt "pagination" PageResponse.toJSON message.(pagination)).

Record partial := mkPartial {
  p_proposedCertificate : option (list ProposedCertificate.partial);
  p_pagination : option PageResponse.partial;
}.

Definition fromPartial (object : partial) : t := {|
  proposedCertificate := map ProposedCertificate.fromPartial (object.(p_proposedCertificate) ?? []);
  pagination := PageResponse.fromPartial <$> object.(p_pagination);
|}.

(** The object with no property given. *)
Definition nothing : partial := mkPartial None None.

(** The bytes [encode] writes. *)
Definition wire {PB : Protobuf} {PS : ProtobufSpec PB} (m : t) : bytes :=
  f_repeated 10 ProposedCertificate.wire m.(proposedCertificate) ++
  f_message 18 PageResponse.wire m.(pagination).

Definition valid (m : t) : Prop :=
  Forall ProposedCertificate.valid m.(proposedCertificate) ∧ from_option PageResponse.valid True m.(pagination).

(** The byte fields hold arrays, as the interface declares. *)
Definition typed (m : t) : bool := from_option PageResponse.typed true m.(pagination).

(** The message without its empty byte arrays. *)
Definition normal (m : t) : t := {|
  proposedCertificate := m.(proposedCertificate);
  pagination := PageResponse.normal <$> m.(pagination);
|}.

Definition encodable {PB : Protobuf} {PS : ProtobufSpec PB} (m : t) : Prop :=
  typed m = true ∧ valid m ∧ small (wire m).

Definition merge (m a : t) : t := {|
  proposedCertificate := m.(proposedCertificate) ++ a.(proposedCertificate);
  pagination := later_message m.(pagination) (PageResponse.normal <$> a.(pagination));
|}.

(** A whole message seen as a partial one. *)
Definition full (m : t) : partial := {|
  p_proposedCertificate := Some (map ProposedCertificate.full m.(proposedCertificate));
  p_pagination := PageResponse.full <$> m.(pagination);
|}.

(** The message as its [.proto] file declares it. *)
Definition schema (m : t) : list field :=
  [repeated 1 (message_value ProposedCertificate.schema) m.(proposedCertificate);
   singular 2 Optional (message_value PageResponse.schema) m.(pagination)].

(** The message with its default for every property that is not kept. *)
Definition only (kept : string → bool) (m : t) : t := {|
  proposedCertificate := if kept "proposedCertificate" then m.(proposedCertificate) else [];
  pagination := if kept "pagination" then m.(pagination) else None;
|}.

#[global] Instance codec {PB : Protobuf} : FallibleCodec t :=
  {| fmsg_base := base; fmsg_encode := encode; fmsg_field := decode_field |}.

#[global] Program Instance spec {PB : Protobuf} (PS : ProtobufSpec PB) : FallibleSpec PS t :=
  {| fmsg_wire := wire; fmsg_valid := valid; fmsg_typed := typed; fmsg_normal := normal;
     fmsg_merge := merge |}.
Next Obligation. solve_fencode_wire. Qed.
Next Obligation. intros. solve_fencode_throws encode typed. Qed.
Next Obligation. solve_fdecode_wire. Qed.
Next Obligation. solve_fmerge_base. Qed.
Next Obligation. intros. solve_fadvances decode_field. Qed.

#[global] Program Instance given_ : FalliblePartial t partial :=
  {| fmsg_fromPartial := fromPartial; fmsg_full := full; fmsg_given := typed |}.
Next Obligation. solve_fgiven fromPartial typed. Qed.
Next Obligation. solve_fpartial fromPartial full typed. Qed.

#[global] Program Instance json : FallibleJson t :=
  {| fmsg_fromJSON := fromJSON; fmsg_toJSON := toJSON;
     fmsg_named := fun _ => true; fmsg_known := fun m => m |}.
Next Obligation. solve_fjson fromJSON toJSON. Qed.
Next Obligation. reflexivity. Qed.

#[global] Instance schema_wire {PB : Protobuf} {PS : ProtobufSpec PB} : WireSchema wire schema.
Proof. solve_schema_wire wire schema. Qed.

#[global] Instance schema_normal : NormalSchema normal schema.
Proof. solve_schema_normal normal schema. Qed.

#[global] Instance schema_merge : MergeSchema merge schema.
Proof. solve_schema_merge merge schema. Qed.

(** Its row in the table of message types. *)
Definition message {PB : Protobuf} {PS : ProtobufSpec PB} : message_type :=
  fallible_message "QueryAllProposedCertificateResponse" nothing true schema only.

#[global] Instance message_lawful {PB : Protobuf} (PS : ProtobufSpec PB) : Lawful message.
Proof. solve_lawful decode_field fromJSON only. Qed.

End QueryAllProposedCertificateResponse.

(** ** [QueryGetChildCertificatesRequest] (pki/query.js) *)

Module QueryGetChildCertificatesRequest.

Record t := mk {
  issuer : string;
  authorityKeyId : string;
}.

#[global] Instance t_eta : Settable t := λ m, mk m.(issuer) m.(authorityKeyId).

Definition base : t := mk "" "".

Definition encode {PB : Protobuf} (message : t) (writer : Writer) : Writer :=
  writer
  @> when (str_neq message.(issuer) "") (fun w => w @> uint32 10 @> string_ message.(issuer))
  @> when (str_neq message.(authorityKeyId) "")
       (fun w => w @> uint32 18 @> string_ message.(authorityKeyId)).

Definition decode_field {PB : Protobuf} (tag : Z) (message : t) : RM t :=
  match field_number tag with
  | 1 => v ← read_string; mret (message <| issuer := v |>)
  | 2 => v ← read_string; mret (message <| authorityKeyId := v |>)
  | _ => _ ← skipType (wire_type tag); mret message
  end.

Definition decode {PB : Protobuf} (length : option Z) : RM t :=
  decode_message length base decode_field.

Definition fromJSON (object : js) : result t :=
  issuer' ← field_or object "issuer" to_string "";
  authorityKeyId' ← field_or object "authorityKeyId" to_string "";
  Ok (mk issuer' authorityKeyId').

Definition toJSON (message : t) : js :=
  Obj ([("issuer", Str message.(issuer));
    ("authorityKeyId", Str message.(authorityKeyId))]).

Record partial := mkPartial {
  p_issuer : option string;
  p_authorityKeyId : option string;
}.

Definition fromPartial (object : partial) : t := {|
  issuer := object.(p_issuer) ?? "";
  authorityKeyId := object.(p_authorityKeyId) ?? "";
|}.

(** The object with no property given. *)
Definition nothing : partial := mkPartial None None.

(** The bytes [encode] writes. *)
Definition wire {PB : Protobuf} {PS : ProtobufSpec PB} (m : t) : bytes :=
  f_string 10 m.(issuer) ++
  f_string 18 m.(authorityKeyId).

Definition valid (m : t) : Prop :=
  True.

Definition encodable {PB : Protobuf} {PS : ProtobufSpec PB} (m : t) : Prop :=
  valid m ∧ small (wire m).

Definition merge (m a : t) : t := {|
  issuer := later_string m.(issuer) a.(issuer);
  authorityKeyId := later_string m.(authorityKeyId) a.(authorityKeyId);
|}.

(** A whole message seen as a partial one. *)
Definition full (m : t) : partial := {|
  p_issuer := Some m.(issuer);
  p_authorityKeyId := Some m.(authorityKeyId);
|}.

(** The message as its [.proto] file declares it. *)
Definition schema (m : t) : list field :=
  [implicit 1 (VString m.(issuer));
   implicit 2 (VString m.(authorityKeyId))].

(** The message with its default for every property that is not kept. *)
Definition only (kept : string → bool) (m : t) : t := {|
  issuer := if kept "issuer" then m.(issuer) else "";
  authorityKeyId := if kept "authorityKeyId" then m.(authorityKeyId) else "";
|}.

#[global] Instance codec {PB : Protobuf} : MessageCodec t :=
  {| msg_base := base; msg_encode := encode; msg_field := decode_field |}.

#[global] Program Instance spec {PB : Protobuf} (PS : ProtobufSpec PB) : MessageSpec PS t :=
  {| msg_wire := wire; msg_valid := valid; msg_merge := merge |}.
Next Obligation. solve_encode_wire. Qed.
Next Obligation. solve_decode_wire. Qed.
Next Obligation. solve_merge_base. Qed.
Next Obligation. intros. solve_advances decode_field. Qed.

#[global] Program Instance data : MessageData t partial :=
  {| msg_fromJSON := fromJSON; msg_toJSON := toJSON;
     msg_fromPartial := fromPartial; msg_full := full |}.
Next Obligation. solve_json fromJSON toJSON. Qed.
Next Obligation. solve_partial fromPartial full. Qed.

#[global] Instance schema_wire {PB : Protobuf} {PS : ProtobufSpec PB} : WireSchema wire schema.
Proof. solve_schema_wire wire schema. Qed.

#[global] Instance schema_merge : MergeSchema merge schema.
Proof. solve_schema_merge merge schema. Qed.

(** Its row in the table of message types. *)
Definition message {PB : Protobuf} {PS : ProtobufSpec PB} : message_type :=
  plain_message "QueryGetChildCertificatesRequest" nothing true schema only.

#[global] Instance message_lawful {PB : Protobuf} (PS : ProtobufSpec PB) : Lawful message.
Proof. solve_lawful decode_field fromJSON only. Qed.

End QueryGetChildCertificatesRequest.

(** ** [QueryGetChildCertificatesResponse] (pki/query.js) *)

Module QueryGetChildCertificatesResponse.

Record t := mk {
  childCertificates : option ChildCertificates.t;
}.

#[global] Instance t_eta : Settable t := λ m, mk m.(childCertificates).

Definition base : t := mk None.

Definition encode {PB : Protobuf} (message : t) (writer : Writer) : Writer :=
  writer
  @> defined message.(childCertificates) (fun v w => w @> uint32 10 @> fork @> ChildCertificates.encode v @> ldelim).

Definition decode_field {PB : Protobuf} (tag : Z) (message : t) : RM t :=
  match field_number tag with
  | 1 => v ← read_nested ChildCertificates.decode; mret (message <| childCertificates := Some v |>)
  | _ => _ ← skipType (wire_type tag); mret message
  end.

Definition decode {PB : Protobuf} (length : option Z) : RM t :=
  decode_message length base decode_field.

Definition fromJSON (object : js) : result t :=
  childCertificates' ← field_or object "childCertificates" (to_some ChildCertificates.fromJSON) None;
  Ok (mk childCertificates').

Definition toJSON (message : t) : js :=
  Obj (prop_opt "childCertificates" ChildCertificates.toJSON message.(childCertificates)).

Record partial := mkPartial {
  p_childCertificates : option ChildCertificates.partial;
}.

Definition fromPartial (object : partial) : t := {|
  childCertificates := ChildCertificates.fromPartial <$> object.(p_childCertificates);
|}.

(** The object with no property given. *)
Definition nothing : partial := mkPartial None.

(** The bytes [encode] writes. *)
Definition wire {PB : Protobuf} {PS : ProtobufSpec PB} (m : t) : bytes :=
  f_message 10 ChildCertificates.wire m.(childCertificates).

Definition valid (m : t) : Prop :=
  from_option ChildCertificates.valid True m.(childCertificates).

Definition encodable {PB : Protobuf} {PS : ProtobufSpec PB} (m : t) : Prop :=
  valid m ∧ small (wire m).

Definition merge (m a : t) : t := {|
  childCertificates := later_message m.(childCertificates) a.(childCertificates);
|}.

(** A whole message seen as a partial one. *)
Definition full (m : t) : partial := {|
  p_childCertificates := ChildCertificates.full <$> m.(childCertificates);
|}.

(** The message as its [.proto] file declares it. *)
Definition schema (m : t) : list field :=
  [singular 1 Optional (message_value ChildCertificates.schema) m.(childCertificates)].

(** The message with its default for every property that is not kept. *)
Definition only (kept : string → bool) (m : t) : t := {|
  childCertificates := if kept "childCertificates" then m.(childCertificates) else None;
|}.

#[global] Instance codec {PB : Protobuf} : MessageCodec t :=
  {| msg_base := base; msg_encode := encode; msg_field := decode_field |}.

#[global] Program Instance spec {PB : Protobuf} (PS : ProtobufSpec PB) : MessageSpec PS t :=
  {| msg_wire := wire; msg_valid := valid; msg_merge := merge |}.
Next Obligation. solve_encode_wire. Qed.
Next Obligation. solve_decode_wire. Qed.
Next Obligation. solve_merge_base. Qed.
Next Obligation. intros. solve_advances decode_field. Qed.

#[global] Program Instance data : MessageData t partial :=
  {| msg_fromJSON := fromJSON; msg_toJSON := toJSON;
     msg_fromPartial := fromPartial; msg_full := full |}.
Next Obligation. solve_json fromJSON toJSON. Qed.
Next Obligation. solve_partial fromPartial full. Qed.

#[global] Instance schema_wire {PB : Protobuf} {PS : ProtobufSpec PB} : WireSchema wire schema.
Proof. solve_schema_wire wire schema. Qed.

#[global] Instance schema_merge : MergeSchema merge schema.
Proof. solve_schema_merge merge schema. Qed.

(** Its row in the table of message types. *)
Definition message {PB : Protobuf} {PS : ProtobufSpec PB} : message_type :=
  plain_message "QueryGetChildCertificatesResponse" nothing true schema only.

#[global] Instance message_lawful {PB : Protobuf} (PS : ProtobufSpec PB) : Lawful message.
Proof. solve_lawful decode_field fromJSON only. Qed.

End QueryGetChildCertificatesResponse.

(** ** [QueryGetProposedCertificateRevocationRequest] (pki/query.js) *)

Module QueryGetProposedCertificateRevocationRequest.

Record t := mk {
  subject : string;
  subjectKeyId : string;
}.

#[global] Instance t_eta : Settable t := λ m, mk m.(subject) m.(subjectKeyId).

Definition base : t := mk "" "".

Definition encode {PB : Protobuf} (message : t) (writer : Writer) : Writer :=
  writer
  @> when (str_neq message.(subject) "") (fun w => w @> uint32 10 @> string_ message.(subject))
  @> when (str_neq message.(subjectKeyId) "")
       (fun w => w @> uint32 18 @> string_ message.(subjectKeyId)).

Definition decode_field {PB : Protobuf} (tag : Z) (message : t) : RM t :=
  match field_number tag with
  | 1 => v ← read_string; mret (message <| subject := v |>)
  | 2 => v ← read_string; mret (message <| subjectKeyId := v |>)
  | _ => _ ← skipType (wire_type tag); mret message
  end.

Definition decode {PB : Protobuf} (length : option Z) : RM t :=
  decode_message length base decode_field.

Definition fromJSON (object : js) : result t :=
  subject' ← field_or object "subject" to_string "";
  subjectKeyId' ← field_or object "subjectKeyId" to_string "";
  Ok (mk subject' subjectKeyId').

Definition toJSON (message : t) : js :=
  Obj ([("subject", Str message.(subject));
    ("subjectKeyId", Str message.(subjectKeyId))]).

Record partial := mkPartial {
  p_subject : option string;
  p_subjectKeyId : option string;
}.

Definition fromPartial (object : partial) : t := {|
  subject := object.(p_subject) ?? "";
  subjectKeyId := object.(p_subjectKeyId) ?? "";
|}.

(** The object with no property given. *)
Definition nothing : partial := mkPartial None None.

(** The bytes [encode] writes. *)
Definition wire {PB : Protobuf} {PS : ProtobufSpec PB} (m : t) : bytes :=
  f_string 10 m.(subject) ++
  f_string 18 m.(subjectKeyId).

Definition valid (m : t) : Prop :=
  True.

Definition encodable {PB : Protobuf} {PS : ProtobufSpec PB} (m : t) : Prop :=
  valid m ∧ small (wire m).

Definition merge (m a : t) : t := {|
  subject := later_string m.(subject) a.(subject);
  subjectKeyId := later_string m.(subjectKeyId) a.(subjectKeyId);
|}.

(** A whole message seen as a partial one. *)
Definition full (m : t) : partial := {|
  p_subject := Some m.(subject);
  p_subjectKeyId := Some m.(subjectKeyId);
|}.

(** The message as its [.proto] file declares it. *)
Definition schema (m : t) : list field :=
  [implicit 1 (VString m.(subject));
   implicit 2 (VString m.(subjectKeyId))].

(** The message with its default for every property that is not kept. *)
Definition only (kept : string → bool) (m : t) : t := {|
  subject := if kept "subject" then m.(subject) else "";
  subjectKeyId := if kept "subjectKeyId" then m.(subjectKeyId) else "";
|}.

#[global] Instance codec {PB : Protobuf} : MessageCodec t :=
  {| msg_base := base; msg_encode := encode; msg_field := decode_field |}.

#[global] Program Instance spec {PB : Protobuf} (PS : ProtobufSpec PB) : MessageSpec PS t :=
  {| msg_wire := wire; msg_valid := valid; msg_merge := merge |}.
Next Obligation. solve_encode_wire. Qed.
Next Obligation. solve_decode_wire. Qed.
Next Obligation. solve_merge_base. Qed.
Next Obligation. intros. solve_advances decode_field. Qed.

#[global] Program Instance data : MessageData t partial :=
  {| msg_fromJSON := fromJSON; msg_toJSON := toJSON;
     msg_fromPartial := fromPartial; msg_full := full |}.
Next Obligation. solve_json fromJSON toJSON. Qed.
Next Obligation. solve_partial fromPartial full. Qed.

#[global] Instance schema_wire {PB : Protobuf} {PS : ProtobufSpec PB} : WireSchema wire schema.
Proof. solve_schema_wire wire schema. Qed.

#[global] Instance schema_merge : MergeSchema merge schema.
Proof. solve_schema_merge merge schema. Qed.

(** Its row in the table of message types. *)
Definition message {PB : Protobuf} {PS : ProtobufSpec PB} : message_type :=
  plain_message "QueryGetProposedCertificateRevocationRequest" nothing true schema only.

#[global] Instance message_lawful {PB : Protobuf} (PS : ProtobufSpec PB) : Lawful message.
Proof. solve_lawful decode_field fromJSON only. Qed.

End QueryGetProposedCertificateRevocationRequest.

(** ** [QueryGetProposedCertificateRevocationResponse] (pki/query.js) *)

Module QueryGetProposedCertificateRevocationResponse.

Record t := mk {
  proposedCertificateRevocation : option ProposedCertificateRevocation.t;
}.

#[global] Instance t_eta : Settable t := λ m, mk m.(proposedCertificateRevocation).

Definition base : t := mk None.

Definition encode {PB : Protobuf} (message : t) (writer : Writer) : Writer :=
  writer
  @> defined message.(proposedCertificateRevocation) (fun v w => w @> uint32 10 @> fork @> ProposedCertificateRevocation.encode v @> ldelim).

Definition decode_field {PB : Protobuf} (tag : Z) (message : t) : RM t :=
  match field_number tag with
  | 1 => v ← read_nested ProposedCertificateRevocation.decode;
         mret (message <| proposedCertificateRevocation := Some v |>)
  | _ => _ ← skipType (wire_type tag); mret message
  end.

Definition decode {PB : Protobuf} (length : option Z) : RM t :=
  decode_message length base decode_field.

Definition fromJSON (object : js) : result t :=
  proposedCertificateRevocation' ← field_or object "proposedCertificateRevocation" (to_some ProposedCertificateRevocation.fromJSON) None;
  Ok (mk proposedCertificateRevocation').

Definition toJSON (message : t) : js :=
  Obj (prop_opt "proposedCertificateRevocation" ProposedCertificateRevocation.toJSON message.(proposedCertificateRevocation)).

Record partial := mkPartial {
  p_proposedCertificateRevocation : option ProposedCertificateRevocation.partial;
}.

Definition fromPartial (object : partial) : t := {|
  proposedCertificateRevocation := ProposedCertificateRevocation.fromPartial <$> object.(p_proposedCertificateRevocation);
|}.

(** The object with no property given. *)
Definition nothing : partial := mkPartial None.

(** The bytes [encode] writes. *)
Definition wire {PB : Protobuf} {PS : ProtobufSpec PB} (m : t) : bytes :=
  f_message 10 ProposedCertificateRevocation.wire m.(proposedCertificateRevocation).

Definition valid (m : t) : Prop :=
  from_option ProposedCertificateRevocation.valid True m.(proposedCertificateRevocation).

Definition encodable {PB : Protobuf} {PS : ProtobufSpec PB} (m : t) : Prop :=
  valid m ∧ small (wire m).

Definition merge (m a : t) : t := {|
  proposedCertificateRevocation := later_message m.(proposedCertificateRevocation) a.(proposedCertificateRevocation);
|}.

(** A whole message seen as a partial one. *)
Definition full (m : t) : partial := {|
  p_proposedCertificateRevocation := ProposedCertificateRevocation.full <$> m.(proposedCertificateRevocation);
|}.

(** The message as its [.proto] file declares it. *)
Definition schema (m : t) : list field :=
  [singular 1 Optional (message_value ProposedCertificateRevocation.schema) m.(proposedCertificateRevocation)].

(** The message with its default for every property that is not kept. *)
Definition only (kept : string → bool) (m : t) : t := {|
  proposedCertificateRevocation := if kept "proposedCertificateRevocation" then m.(proposedCertificateRevocation) else None;
|}.

#[global] Instance codec {PB : Protobuf} : MessageCodec t :=
  {| msg_base := base; msg_encode := encode; msg_field := decode_field |}.

#[global] Program Instance spec {PB : Protobuf} (PS : ProtobufSpec PB) : MessageSpec PS t :=
  {| msg_wire := wire; msg_valid := valid; msg_merge := merge |}.
Next Obligation. solve_encode_wire. Qed.
Next Obligation. solve_decode_wire. Qed.
Next Obligation. solve_merge_base. Qed.
Next Obligation. intros. solve_advances decode_field. Qed.

#[global] Program Instance data : MessageData t partial :=
  {| msg_fromJSON := fromJSON; msg_toJSON := toJSON;
     msg_fromPartial := fromPartial; msg_full := full |}.
Next Obligation. solve_json fromJSON toJSON. Qed.
Next Obligation. solve_partial fromPartial full. Qed.

#[global] Instance schema_wire {PB : Protobuf} {PS : ProtobufSpec PB} : WireSchema wire schema.
Proof. solve_schema_wire wire schema. Qed.

#[global] Instance schema_merge : MergeSchema merge schema.
Proof. solve_schema_merge merge schema. Qed.

(** Its row in the table of message types. *)
Definition message {PB : Protobuf} {PS : ProtobufSpec PB} : message_type :=
  plain_message "QueryGetProposedCertificateRevocationResponse" nothing true schema only.

#[global] Instance message_lawful {PB : Protobuf} (PS : ProtobufSpec PB) : Lawful message.
Proof. solve_lawful decode_field fromJSON only. Qed.

End QueryGetProposedCertificateRevocationResponse.

(** ** [QueryAllProposedCertificateRevocationRequest] (pki/query.js) *)

Module QueryAllProposedCertificateRevocationRequest.

Record t := mk {
  pagination : option PageRequest.t;
}.

#[global] Instance t_eta : Settable t := λ m, mk m.(pagination).

Definition base : t := mk None.

Definition encode {PB : Protobuf} (message : t) (writer : Writer) : result Writer :=
  Ok writer
  @>= defined_e message.(pagination) (submessage 10 PageRequest.encode).

Definition decode_field {PB : Protobuf} (tag : Z) (message : t) : RM t :=
  match field_number tag with
  | 1 => v ← read_nested PageRequest.decode; mret (message <| pagination := Some v |>)
  | _ => _ ← skipType (wire_type tag); mret message
  end.

Definition decode {PB : Protobuf} (length : option Z) : RM t :=
  decode_message length base decode_field.

Definition fromJSON (object : js) : result t :=
  pagination' ← field_or object "pagination" (to_some PageRequest.fromJSON) None;
  Ok (mk pagination').

Definition toJSON (message : t) : js :=
  Obj (prop_opt "pagination" PageRequest.toJSON message.(pagination)).

Record partial := mkPartial {
  p_pagination : option PageRequest.partial;
}.

Definition fromPartial (object : partial) : t := {|
  pagination := PageRequest.fromPartial <$> object.(p_pagination);
|}.

(** The object with no property given. *)
Definition nothing : partial := mkPartial None.

(** The bytes [encode] writes. *)
Definition wire {PB : Protobuf} {PS : ProtobufSpec PB} (m : t) : bytes :=
  f_message 10 PageRequest.wire m.(pagination).

Definition valid (m : t) : Prop :=
  from_option PageRequest.valid True m.(pagination).

(** The byte fields hold arrays, as the interface declares. *)
Definition typed (m : t) : bool := from_option PageRequest.typed true m.(pagination).

(** The message without its empty byte arrays. *)
Definition normal (m : t) : t := {|
  pagination := PageRequest.normal <$> m.(pagination);
|}.

Definition encodable {PB : Protobuf} {PS : ProtobufSpec PB} (m : t) : Prop :=
  typed m = true ∧ valid m ∧ small (wire m).

Definition merge (m a : t) : t := {|
  pagination := later_message m.(pagination) (PageRequest.normal <$> a.(pagination));
|}.

(** A whole message seen as a partial one. *)
Definition full (m : t) : partial := {|
  p_pagination := PageRequest.full <$> m.(pagination);
|}.

(** The message as its [.proto] file declares it. *)
Definition schema (m : t) : list field :=
  [singular 1 Optional (message_value PageRequest.schema) m.(pagination)].

(** The message with its default for every property that is not kept. *)
Definition only (kept : string → bool) (m : t) : t := {|
  pagination := if kept "pagination" then m.(pagination) else None;
|}.

#[global] Instance codec {PB : Protobuf} : FallibleCodec t :=
  {| fmsg_base := base; fmsg_encode := encode; fmsg_field := decode_field |}.

#[global] Program Instance spec {PB : Protobuf} (PS : ProtobufSpec PB) : FallibleSpec PS t :=
  {| fmsg_wire := wire; fmsg_valid := valid; fmsg_typed := typed; fmsg_normal := normal;
     fmsg_merge := merge |}.
Next Obligation. solve_fencode_wire. Qed.
Next Obligation. intros. solve_fencode_throws encode typed. Qed.
Next Obligation. solve_fdecode_wire. Qed.
Next Obligation. solve_fmerge_base. Qed.
Next Obligation. intros. solve_fadvances decode_field. Qed.

#[global] Program Instance given_ : FalliblePartial t partial :=
  {| fmsg_fromPartial := fromPartial; fmsg_full := full; fmsg_given := typed |}.
Next Obligation. solve_fgiven fromPartial typed. Qed.
Next Obligation. solve_fpartial fromPartial full typed. Qed.

#[global] Program Instance json : FallibleJson t :=
  {| fmsg_fromJSON := fromJSON; fmsg_toJSON := toJSON;
     fmsg_named := fun _ => true; fmsg_known := fun m => m |}.
Next Obligation. solve_fjson fromJSON toJSON. Qed.
Next Obligation. reflexivity. Qed.

#[global] Instance schema_wire {PB : Protobuf} {PS : ProtobufSpec PB} : WireSchema wire schema.
Proof. solve_schema_wire wire schema. Qed.

#[global] Instance schema_normal : NormalSchema normal schema.
Proof. solve_schema_normal normal schema. Qed.

#[global] Instance schema_merge : MergeSchema merge schema.
Proof. solve_schema_merge merge schema. Qed.

(** Its row in the table of message types. *)
Definition message {PB : Protobuf} {PS : ProtobufSpec PB} : message_type :=
  fallible_message "QueryAllProposedCertificateRevocationRequest" nothing true schema only.

#[global] Instance message_lawful {PB : Protobuf} (PS : ProtobufSpec PB) : Lawful message.
Proof. solve_lawful decode_field fromJSON only. Qed.

End QueryAllProposedCertificateRevocationRequest.

(** ** [QueryAllProposedCertificateRevocationResponse] (pki/query.js) *)

Module QueryAllProposedCertificateRevocationResponse.

Record t := mk {
  proposedCertificateRevocation : list ProposedCertificateRevocation.t;
  pagination : option PageResponse.t;
}.

#[global] Instance t_eta : Settable t := λ m, mk m.(proposedCertificateRevocation)
  m.(pagination).

Definition base : t := mk [] None.

Definition encode {PB : Protobuf} (message : t) (writer : Writer) : result Writer :=
  Ok writer
  @>= pure (each message.(proposedCertificateRevocation) (fun v w => w @> uint32 10 @> fork @> ProposedCertificateRevocation.encode v @> ldelim))
  @>= defined_e message.(pagination) (submessage 18 PageResponse.encode).

Definition decode_field {PB : Protobuf} (tag : Z) (message : t) : RM t :=
  match field_number tag with
  | 1 => v ← read_nested ProposedCertificateRevocation.decode;
         mret (message <| proposedCertificateRevocation := message.(proposedCertificateRevocation) ++ [v] |>)
  | 2 => v ← read_nested PageResponse.decode; mret (message <| pagination := Some v |>)
  | _ => _ ← skipType (wire_type tag); mret message
  end.

Definition decode {PB : Protobuf} (length : option Z) : RM t :=
  decode_message length base decode_field.

Definition fromJSON (object : js) : result t :=
  proposedCertificateRevocation' ← field_or object "proposedCertificateRevocation" (to_list ProposedCertificateRevocation.fromJSON) [];
  pagination' ← field_or object "pagination" (to_some PageResponse.fromJSON) None;
  Ok (mk proposedCertificateRevocation' pagination').

Definition toJSON (message : t) : js :=
  Obj ([("proposedCertificateRevocation", Arr (map ProposedCertificateRevocation.toJSON message.(proposedCertificateRevocation)))] ++
   prop_opt "pagination" PageResponse.toJSON message.(pagination)).

Record partial := mkPartial {
  p_proposedCertificateRevocation : option (list ProposedCertificateRevocation.partial);
  p_pagination : option PageResponse.partial;
}.

Definition fromPartial (object : partial) : t := {|
  proposedCertificateRevocation := map ProposedCertificateRevocation.fromPartial (object.(p_proposedCertificateRevocation) ?? []);
  pagination := PageResponse.fromPartial <$> object.(p_pagination);
|}.

(** The object with no property given. *)
Definition nothing : partial := mkPartial None None.

(** The bytes [encode] writes. *)
Definition wire {PB : Protobuf} {PS : ProtobufSpec PB} (m : t) : bytes :=
  f_repeated 10 ProposedCertificateRevocation.wire m.(proposedCertificateRevocation) ++
  f_message 18 PageResponse.wire m.(pagination).

Definition valid (m : t) : Prop :=
  Forall ProposedCertificateRevocation.valid m.(proposedCertificateRevocation) ∧ from_option PageResponse.valid True m.(pagination).

(** The byte fields hold arrays, as the interface declares. *)
Definition typed (m : t) : bool := from_option PageResponse.typed true m.(pagination).

(** The message without its empty byte arrays. *)
Definition normal (m : t) : t := {|
  proposedCertificateRevocation := m.(proposedCertificateRevocation);
  pagination := PageResponse.normal <$> m.(pagination);
|}.

Definition encodable {PB : Protobuf} {PS : ProtobufSpec PB} (m : t) : Prop :=
  typed m = true ∧ valid m ∧ small (wire m).

Definition merge (m a : t) : t := {|
  proposedCertificateRevocation := m.(proposedCertificateRevocation) ++ a.(proposedCertificateRevocation);
  pagination := later_message m.(pagination) (PageResponse.normal <$> a.(pagination));
|}.

(** A whole message seen as a partial one. *)
Definition full (m : t) : partial := {|
  p_proposedCertificateRevocation := Some (map ProposedCertificateRevocation.full m.(proposedCertificateRevocation));
  p_pagination := PageResponse.full <$> m.(pagination);
|}.

(** The message as its [.proto] file declares it. *)
Definition schema (m : t) : list field :=
  [repeated 1 (message_value ProposedCertificateRevocation.schema) m.(proposedCertificateRevocation);
   singular 2 Optional (message_value PageResponse.schema) m.(pagination)].

(** The message with its default for every property that is not kept. *)
Definition only (kept : string → bool) (m : t) : t := {|
  proposedCertificateRevocation := if kept "proposedCertificateRevocation" then m.(proposedCertificateRevocation) else [];
  pagination := if kept "pagination" then m.(pagination) else None;
|}.

#[global] Instance codec {PB : Protobuf} : FallibleCodec t :=
  {| fmsg_base := base; fmsg_encode := encode; fmsg_field := decode_field |}.

#[global] Program Instance spec {PB : Protobuf} (PS : ProtobufSpec PB) : FallibleSpec PS t :=
  {| fmsg_wire := wire; fmsg_valid := valid; fmsg_typed := typed; fmsg_normal := normal;
     fmsg_merge := merge |}.
Next Obligation. solve_fencode_wire. Qed.
Next Obligation. intros. solve_fencode_throws encode typed. Qed.
Next Obligation. solve_fdecode_wire. Qed.
Next Obligation. solve_fmerge_base. Qed.
Next Obligation. intros. solve_fadvances decode_field. Qed.

#[global] Program Instance given_ : FalliblePartial t partial :=
  {| fmsg_fromPartial := fromPartial; fmsg_full := full; fmsg_given := typed |}.
Next Obligation. solve_fgiven fromPartial typed. Qed.
Next Obligation. solve_fpartial fromPartial full typed. Qed.

#[global] Program Instance json : FallibleJson t :=
  {| fmsg_fromJSON := fromJSON; fmsg_toJSON := toJSON;
     fmsg_named := fun _ => true; fmsg_known := fun m => m |}.
Next Obligation. solve_fjson fromJSON toJSON. Qed.
Next Obligation. reflexivity. Qed.

#[global] Instance schema_wire {PB : Protobuf} {PS : ProtobufSpec PB} : WireSchema wire schema.
Proof. solve_schema_wire wire schema. Qed.

#[global] Instance schema_normal : NormalSchema normal schema.
Proof. solve_schema_normal normal schema. Qed.

#[global] Instance schema_merge : MergeSchema merge schema.
Proof. solve_schema_merge merge schema. Qed.

(** Its row in the table of message types. *)
Definition message {PB : Protobuf} {PS : ProtobufSpec PB} : message_type :=
  fallible_message "QueryAllProposedCertificateRevocationResponse" nothing true schema only.

#[global] Instance message_lawful {PB : Protobuf} (PS : ProtobufSpec PB) : Lawful message.
Proof. solve_lawful decode_field fromJSON only. Qed.

End QueryAllProposedCertificateRevocationResponse.

(** ** [QueryGetRevokedCertificatesRequest] (pki/query.js) *)

Module QueryGetRevokedCertificatesRequest.

Record t := mk {
  subject : string;
  subjectKeyId : string;
}.

#[global] Instance t_eta : Settable t := λ m, mk m.(subject) m.(subjectKeyId).

Definition base : t := mk "" "".

Definition encode {PB : Protobuf} (message : t) (writer : Writer) : Writer :=
  writer
  @> when (str_neq message.(subject) "") (fun w => w @> uint32 10 @> string_ message.(subject))
  @> when (str_neq message.(subjectKeyId) "")
       (fun w => w @> uint32 18 @> string_ message.(subjectKeyId)).

Definition decode_field {PB : Protobuf} (tag : Z) (message : t) : RM t :=
  match field_number tag with
  | 1 => v ← read_string; mret (message <| subject := v |>)
  | 2 => v ← read_string; mret (message <| subjectKeyId := v |>)
  | _ => _ ← skipType (wire_type tag); mret message
  end.

Definition decode {PB : Protobuf} (length : option Z) : RM t :=
  decode_message length base decode_field.

Definition fromJSON (object : js) : result t :=
  subject' ← field_or object "subject" to_string "";
  subjectKeyId' ← field_or object "subjectKeyId" to_string "";
  Ok (mk subject' subjectKeyId').

Definition toJSON (message : t) : js :=
  Obj ([("subject", Str message.(subject));
    ("subjectKeyId", Str message.(subjectKeyId))]).

Record partial := mkPartial {
  p_subject : option string;
  p_subjectKeyId : option string;
}.

Definition fromPartial (object : partial) : t := {|
  subject := object.(p_subject) ?? "";
  subjectKeyId := object.(p_subjectKeyId) ?? "";
|}.

(** The object with no property given. *)
Definition nothing : partial := mkPartial None None.

(** The bytes [encode] writes. *)
Definition wire {PB : Protobuf} {PS : ProtobufSpec PB} (m : t) : bytes :=
  f_string 10 m.(subject) ++
  f_string 18 m.(subjectKeyId).

Definition valid (m : t) : Prop :=
  True.

Definition encodable {PB : Protobuf} {PS : ProtobufSpec PB} (m : t) : Prop :=
  valid m ∧ small (wire m).

Definition merge (m a : t) : t := {|
  subject := later_string m.(subject) a.(subject);
  subjectKeyId := later_string m.(subjectKeyId) a.(subjectKeyId);
|}.

(** A whole message seen as a partial one. *)
Definition full (m : t) : partial := {|
  p_subject := Some m.(subject);
  p_subjectKeyId := Some m.(subjectKeyId);
|}.

(** The message as its [.proto] file declares it. *)
Definition schema (m : t) : list field :=
  [implicit 1 (VString m.(subject));
   implicit 2 (VString m.(subjectKeyId))].

(** The message with its default for every property that is not kept. *)
Definition only (kept : string → bool) (m : t) : t := {|
  subject := if kept "subject" then m.(subject) else "";
  subjectKeyId := if kept "subjectKeyId" then m.(subjectKeyId) else "";
|}.

#[global] Instance codec {PB : Protobuf} : MessageCodec t :=
  {| msg_base := base; msg_encode := encode; msg_field := decode_field |}.

#[global] Program Instance spec {PB : Protobuf} (PS : ProtobufSpec PB) : MessageSpec PS t :=
  {| msg_wire := wire; msg_valid := valid; msg_merge := merge |}.
Next Obligation. solve_encode_wire. Qed.
Next Obligation. solve_decode_wire. Qed.
Next Obligation. solve_merge_base. Qed.
Next Obligation. intros. solve_advances decode_field. Qed.

#[global] Program Instance data : MessageData t partial :=
  {| msg_fromJSON := fromJSON; msg_toJSON := toJSON;
     msg_fromPartial := fromPartial; msg_full := full |}.
Next Obligation. solve_json fromJSON toJSON. Qed.
Next Obligation. solve_partial fromPartial full. Qed.

#[global] Instance schema_wire {PB : Protobuf} {PS : ProtobufSpec PB} : WireSchema wire schema.
Proof. solve_schema_wire wire schema. Qed.

#[global] Instance schema_merge : MergeSchema merge schema.
Proof. solve_schema_merge merge schema. Qed.

(** Its row in the table of message types. *)
Definition message {PB : Protobuf} {PS : ProtobufSpec PB} : message_type :=
  plain_message "QueryGetRevokedCertificatesRequest" nothing true schema only.

#[global] Instance message_lawful {PB : Protobuf} (PS : ProtobufSpec PB) : Lawful message.
Proof. solve_lawful decode_field fromJSON only. Qed.

End QueryGetRevokedCertificatesRequest.

(** ** [QueryGetRevokedCertificatesResponse] (pki/query.js) *)

Module QueryGetRevokedCertificatesResponse.

Record t := mk {
  revokedCertificates : option RevokedCertificates.t;
}.

#[global] Instance t_eta : Settable t := λ m, mk m.(revokedCertificates).

Definition base : t := mk None.

Definition encode {PB : Protobuf} (message : t) (writer : Writer) : Writer :=
  writer
  @> defined message.(revokedCertificates) (fun v w => w @> uint32 10 @> fork @> RevokedCertificates.encode v @> ldelim).

Definition decode_field {PB : Protobuf} (tag : Z) (message : t) : RM t :=
  match field_number tag with
  | 1 => v ← read_nested RevokedCertificates.decode;
         mret (message <| revokedCertificates := Some v |>)
  | _ => _ ← skipType (wire_type tag); mret message
  end.

Definition decode {PB : Protobuf} (length : option Z) : RM t :=
  decode_message length base decode_field.

Definition fromJSON (object : js) : result t :=
  revokedCertificates' ← field_or object "revokedCertificates" (to_some RevokedCertificates.fromJSON) None;
  Ok (mk revokedCertificates').

Definition toJSON (message : t) : js :=
  Obj (prop_opt "revokedCertificates" RevokedCertificates.toJSON message.(revokedCertificates)).

Record partial := mkPartial {
  p_revokedCertificates : option RevokedCertificates.partial;
}.

Definition fromPartial (object : partial) : t := {|
  revokedCertificates := RevokedCertificates.fromPartial <$> object.(p_revokedCertificates);
|}.

(** The object with no property given. *)
Definition nothing : partial := mkPartial None.

(** The bytes [encode] writes. *)
Definition wire {PB : Protobuf} {PS : ProtobufSpec PB} (m : t) : bytes :=
  f_message 10 RevokedCertificates.wire m.(revokedCertificates).

Definition valid (m : t) : Prop :=
  from_option RevokedCertificates.valid True m.(revokedCertificates).

Definition encodable {PB : Protobuf} {PS : ProtobufSpec PB} (m : t) : Prop :=
  valid m ∧ small (wire m).

Definition merge (m a : t) : t := {|
  revokedCertificates := later_message m.(revokedCertificates) a.(revokedCertificates);
|}.

(** A whole message seen as a partial one. *)
Definition full (m : t) : partial := {|
  p_revokedCertificates := RevokedCertificates.full <$> m.(revokedCertificates);
|}.

(** The message as its [.proto] file declares it. *)
Definition schema (m : t) : list field :=
  [singular 1 Optional (message_value RevokedCertificates.schema) m.(revokedCertificates)].

(** The message with its default for every property that is not kept. *)
Definition only (kept : string → bool) (m : t) : t := {|
  revokedCertificates := if kept "revokedCertificates" then m.(revokedCertificates) else None;
|}.

#[global] Instance codec {PB : Protobuf} : MessageCodec t :=
  {| msg_base := base; msg_encode := encode; msg_field := decode_field |}.

#[global] Program Instance spec {PB : Protobuf} (PS : ProtobufSpec PB) : MessageSpec PS t :=
  {| msg_wire := wire; msg_valid := valid; msg_merge := merge |}.
Next Obligation. solve_encode_wire. Qed.
Next Obligation. solve_decode_wire. Qed.
Next Obligation. solve_merge_base. Qed.
Next Obligation. intros. solve_advances decode_field. Qed.

#[global] Program Instance data : MessageData t partial :=
  {| msg_fromJSON := fromJSON; msg_toJSON := toJSON;
     msg_fromPartial := fromPartial; msg_full := full |}.
Next Obligation. solve_json fromJSON toJSON. Qed.
Next Obligation. solve_partial fromPartial full. Qed.

#[global] Instance schema_wire {PB : Protobuf} {PS : ProtobufSpec PB} : WireSchema wire schema.
Proof. solve_schema_wire wire schema. Qed.

#[global] Instance schema_merge : MergeSchema merge schema.
Proof. solve_schema_merge merge schema. Qed.

(** Its row in the table of message types. *)
Definition message {PB : Protobuf} {PS : ProtobufSpec PB} : message_type :=
  plain_message "QueryGetRevokedCertificatesResponse" nothing true schema only.

#[global] Instance message_lawful {PB : Protobuf} (PS : ProtobufSpec PB) : Lawful message.
Proof. solve_lawful decode_field fromJSON only. Qed.

End QueryGetRevokedCertificatesResponse.

(** ** [QueryAllRevokedCertificatesRequest] (pki/query.js) *)

Module QueryAllRevokedCertificatesRequest.

Record t := mk {
  pagination : option PageRequest.t;
}.

#[global] Instance t_eta : Settable t := λ m, mk m.(pagination).

Definition base : t := mk None.

Definition encode {PB : Protobuf} (message : t) (writer : Writer) : result Writer :=
  Ok writer
  @>= defined_e message.(pagination) (submessage 10 PageRequest.encode).

Definition decode_field {PB : Protobuf} (tag : Z) (message : t) : RM t :=
  match field_number tag with
  | 1 => v ← read_nested PageRequest.decode; mret (message <| pagination := Some v |>)
  | _ => _ ← skipType (wire_type tag); mret message
  end.

Definition decode {PB : Protobuf} (length : option Z) : RM t :=
  decode_message length base decode_field.

Definition fromJSON (object : js) : result t :=
  pagination' ← field_or object "pagination" (to_some PageRequest.fromJSON) None;
  Ok (mk pagination').

Definition toJSON (message : t) : js :=
  Obj (prop_opt "pagination" PageRequest.toJSON message.(pagination)).

Record partial := mkPartial {
  p_pagination : option PageRequest.partial;
}.

Definition fromPartial (object : partial) : t := {|
  pagination := PageRequest.fromPartial <$> object.(p_pagination);
|}.

(** The object with no property given. *)
Definition nothing : partial := mkPartial None.

(** The bytes [encode] writes. *)
Definition wire {PB : Protobuf} {PS : ProtobufSpec PB} (m : t) : bytes :=
  f_message 10 PageRequest.wire m.(pagination).

Definition valid (m : t) : Prop :=
  from_option PageRequest.valid True m.(pagination).

(** The byte fields hold arrays, as the interface declares. *)
Definition typed (m : t) : bool := from_option PageRequest.typed true m.(pagination).

(** The message without its empty byte arrays. *)
Definition normal (m : t) : t := {|
  pagination := PageRequest.normal <$> m.(pagination);
|}.

Definition encodable {PB : Protobuf} {PS : ProtobufSpec PB} (m : t) : Prop :=
  typed m = true ∧ valid m ∧ small (wire m).

Definition merge (m a : t) : t := {|
  pagination := later_message m.(pagination) (PageRequest.normal <$> a.(pagination));
|}.

(** A whole message seen as a partial one. *)
Definition full (m : t) : partial := {|
  p_pagination := PageRequest.full <$> m.(pagination);
|}.

(** The message as its [.proto] file declares it. *)
Definition schema (m : t) : list field :=
  [singular 1 Optional (message_value PageRequest.schema) m.(pagination)].

(** The message with its default for every property that is not kept. *)
Definition only (kept : string → bool) (m : t) : t := {|
  pagination := if kept "pagination" then m.(pagination) else None;
|}.

#[global] Instance codec {PB : Protobuf} : FallibleCodec t :=
  {| fmsg_base := base; fmsg_encode := encode; fmsg_field := decode_field |}.

#[global] Program Instance spec {PB : Protobuf} (PS : ProtobufSpec PB) : FallibleSpec PS t :=
  {| fmsg_wire := wire; fmsg_valid := valid; fmsg_typed := typed; fmsg_normal := normal;
     fmsg_merge := merge |}.
Next Obligation. solve_fencode_wire. Qed.
Next Obligation. intros. solve_fencode_throws encode typed. Qed.
Next Obligation. solve_fdecode_wire. Qed.
Next Obligation. solve_fmerge_base. Qed.
Next Obligation. intros. solve_fadvances decode_field. Qed.

#[global] Program Instance given_ : FalliblePartial t partial :=
  {| fmsg_fromPartial := fromPartial; fmsg_full := full; fmsg_given := typed |}.
Next Obligation. solve_fgiven fromPartial typed. Qed.
Next Obligation. solve_fpartial fromPartial full typed. Qed.

#[global] Program Instance json : FallibleJson t :=
  {| fmsg_fromJSON := fromJSON; fmsg_toJSON := toJSON;
     fmsg_named := fun _ => true; fmsg_known := fun m => m |}.
Next Obligation. solve_fjson fromJSON toJSON. Qed.
Next Obligation. reflexivity. Qed.

#[global] Instance schema_wire {PB : Protobuf} {PS : ProtobufSpec PB} : WireSchema wire schema.
Proof. solve_schema_wire wire schema. Qed.

#[global] Instance schema_normal : NormalSchema normal schema.
Proof. solve_schema_normal normal schema. Qed.

#[global] Instance schema_merge : MergeSchema merge schema.
Proof. solve_schema_merge merge schema. Qed.

(** Its row in the table of message types. *)
Definition message {PB : Protobuf} {PS : ProtobufSpec PB} : message_type :=
  fallible_message "QueryAllRevokedCertificatesRequest" nothing true schema only.

#[global] Instance message_lawful {PB : Protobuf} (PS : ProtobufSpec PB) : Lawful message.
Proof. solve_lawful decode_field fromJSON only. Qed.

End QueryAllRevokedCertificatesRequest.

(** ** [QueryAllRevokedCertificatesResponse] (pki/query.js) *)

Module QueryAllRevokedCertificatesResponse.

Record t := mk {
  revokedCertificates : list RevokedCertificates.t;
  pagination : option PageResponse.t;
}.

#[global] Instance t_eta : Settable t := λ m, mk m.(revokedCertificates) m.(pagination).

Definition base : t := mk [] None.

Definition encode {PB : Protobuf} (message : t) (writer : Writer) : result Writer :=
  Ok writer
  @>= pure (each message.(revokedCertificates) (fun v w => w @> uint32 10 @> fork @> RevokedCertificates.encode v @> ldelim))
  @>= defined_e message.(pagination) (submessage 18 PageResponse.encode).

Definition decode_field {PB : Protobuf} (tag : Z) (message : t) : RM t :=
  match field_number tag with
  | 1 => v ← read_nested RevokedCertificates.decode;
         mret (message <| revokedCertificates := message.(revokedCertificates) ++ [v] |>)
  | 2 => v ← read_nested PageResponse.decode; mret (message <| pagination := Some v |>)
  | _ => _ ← skipType (wire_type tag); mret message
  end.

Definition decode {PB : Protobuf} (length : option Z) : RM t :=
  decode_message length base decode_field.

Definition fromJSON (object : js) : result t :=
  revokedCertificates' ← field_or object "revokedCertificates" (to_list RevokedCertificates.fromJSON) [];
  pagination' ← field_or object "pagination" (to_some PageResponse.fromJSON) None;
  Ok (mk revokedCertificates' pagination').

Definition toJSON (message : t) : js :=
  Obj ([("revokedCertificates", Arr (map RevokedCertificates.toJSON message.(revokedCertificates)))] ++
   prop_opt "pagination" PageResponse.toJSON message.(pagination)).

Record partial := mkPartial {
  p_revokedCertificates : option (list RevokedCertificates.partial);
  p_pagination : option PageResponse.partial;
}.

Definition fromPartial (object : partial) : t := {|
  revokedCertificates := map RevokedCertificates.fromPartial (object.(p_revokedCertificates) ?? []);
  pagination := PageResponse.fromPartial <$> object.(p_pagination);
|}.

(** The object with no property given. *)
Definition nothing : partial := mkPartial None None.

(** The bytes [encode] writes. *)
Definition wire {PB : Protobuf} {PS : ProtobufSpec PB} (m : t) : bytes :=
  f_repeated 10 RevokedCertificates.wire m.(revokedCertificates) ++
  f_message 18 PageResponse.wire m.(pagination).

Definition valid (m : t) : Prop :=
  Forall RevokedCertificates.valid m.(revokedCertificates) ∧ from_option PageResponse.valid True m.(pagination).

(** The byte fields hold arrays, as the interface declares. *)
Definition typed (m : t) : bool := from_option PageResponse.typed true m.(pagination).

(** The message without its empty byte arrays. *)
Definition normal (m : t) : t := {|
  revokedCertificates := m.(revokedCertificates);
  pagination := PageResponse.normal <$> m.(pagination);
|}.

Definition encodable {PB : Protobuf} {PS : ProtobufSpec PB} (m : t) : Prop :=
  typed m = true ∧ valid m ∧ small (wire m).

Definition merge (m a : t) : t := {|
  revokedCertificates := m.(revokedCertificates) ++ a.(revokedCertificates);
  pagination := later_message m.(pagination) (PageResponse.normal <$> a.(pagination));
|}.

(** A whole message seen as a partial one. *)
Definition full (m : t) : partial := {|
  p_revokedCertificates := Some (map RevokedCertificates.full m.(revokedCertificates));
  p_pagination := PageResponse.full <$> m.(pagination);
|}.

(** The message as its [.proto] file declares it. *)
Definition schema (m : t) : list field :=
  [repeated 1 (message_value RevokedCertificates.schema) m.(revokedCertificates);
   singular 2 Optional (message_value PageResponse.schema) m.(pagination)].

(** The message with its default for every property that is not kept. *)
Definition only (kept : string → bool) (m : t) : t := {|
  revokedCertificates := if kept "revokedCertificates" then m.(revokedCertificates) else [];
  pagination := if kept "pagination" then m.(pagination) else None;
|}.

#[global] Instance codec {PB : Protobuf} : FallibleCodec t :=
  {| fmsg_base := base; fmsg_encode := encode; fmsg_field := decode_field |}.

#[global] Program Instance spec {PB : Protobuf} (PS : ProtobufSpec PB) : FallibleSpec PS t :=
  {| fmsg_wire := wire; fmsg_valid := valid; fmsg_typed := typed; fmsg_normal := normal;
     fmsg_merge := merge |}.
Next Obligation. solve_fencode_wire. Qed.
Next Obligation. intros. solve_fencode_throws encode typed. Qed.
Next Obligation. solve_fdecode_wire. Qed.
Next Obligation. solve_fmerge_base. Qed.
Next Obligation. intros. solve_fadvances decode_field. Qed.

#[global] Program Instance given_ : FalliblePartial t partial :=
  {| fmsg_fromPartial := fromPartial; fmsg_full := full; fmsg_given := typed |}.
Next Obligation. solve_fgiven fromPartial typed. Qed.
Next Obligation. solve_fpartial fromPartial full typed. Qed.

#[global] Program Instance json : FallibleJson t :=
  {| fmsg_fromJSON := fromJSON; fmsg_toJSON := toJSON;
     fmsg_named := fun _ => true; fmsg_known := fun m => m |}.
Next Obligation. solve_fjson fromJSON toJSON. Qed.
Next Obligation. reflexivity. Qed.

#[global] Instance schema_wire {PB : Protobuf} {PS : ProtobufSpec PB} : WireSchema wire schema.
Proof. solve_schema_wire wire schema. Qed.

#[global] Instance schema_normal : NormalSchema normal schema.
Proof. solve_schema_normal normal schema. Qed.

#[global] Instance schema_merge : MergeSchema merge schema.
Proof. solve_schema_merge merge schema. Qed.

(** Its row in the table of message types. *)
Definition message {PB : Protobuf} {PS : ProtobufSpec PB} : message_type :=
  fallible_message "QueryAllRevokedCertificatesResponse" nothing true schema only.

#[global] Instance message_lawful {PB : Protobuf} (PS : ProtobufSpec PB) : Lawful message.
Proof. solve_lawful decode_field fromJSON only. Qed.

End QueryAllRevokedCertificatesResponse.

(** ** [QueryGetApprovedRootCertificatesRequest] (pki/query.js) *)

Module QueryGetApprovedRootCertificatesRequest.

Record t := mk {}.

#[global] Instance t_eta : Settable t := λ m, m.

Definition base : t := mk.

Definition encode {PB : Protobuf} (message : t) (writer : Writer) : Writer :=
  writer.

Definition decode_field {PB : Protobuf} (tag : Z) (message : t) : RM t :=
  match field_number tag with
  | _ => _ ← skipType (wire_type tag); mret message
  end.

Definition decode {PB : Protobuf} (length : option Z) : RM t :=
  decode_message length base decode_field.

Definition fromJSON (object : js) : result t :=
  Ok base.

Definition toJSON (message : t) : js :=
  Obj [].

Record partial := mkPartial {}.

Definition fromPartial (object : partial) : t := base.

(** The object with no property given. *)
Definition nothing : partial := mkPartial.

(** The bytes [encode] writes. *)
Definition wire {PB : Protobuf} {PS : ProtobufSpec PB} (m : t) : bytes :=
  [].

Definition valid (m : t) : Prop :=
  True.

Definition encodable {PB : Protobuf} {PS : ProtobufSpec PB} (m : t) : Prop :=
  valid m ∧ small (wire m).

Definition merge (m a : t) : t := m.

(** A whole message seen as a partial one. *)
Definition full (m : t) : partial := mkPartial.

(** The message as its [.proto] file declares it. *)
Definition schema (m : t) : list field :=
  [].

(** The message with its default for every property that is not kept. *)
Definition only (kept : string → bool) (m : t) : t := m.

#[global] Instance codec {PB : Protobuf} : MessageCodec t :=
  {| msg_base := base; msg_encode := encode; msg_field := decode_field |}.

#[global] Program Instance spec {PB : Protobuf} (PS : ProtobufSpec PB) : MessageSpec PS t :=
  {| msg_wire := wire; msg_valid := valid; msg_merge := merge |}.
Next Obligation. solve_encode_wire. Qed.
Next Obligation. solve_decode_wire. Qed.
Next Obligation. solve_merge_base. Qed.
Next Obligation. intros. solve_advances decode_field. Qed.

#[global] Program Instance data : MessageData t partial :=
  {| msg_fromJSON := fromJSON; msg_toJSON := toJSON;
     msg_fromPartial := fromPartial; msg_full := full |}.
Next Obligation. solve_json fromJSON toJSON. Qed.
Next Obligation. solve_partial fromPartial full. Qed.

#[global] Instance schema_wire {PB : Protobuf} {PS : ProtobufSpec PB} : WireSchema wire schema.
Proof. solve_schema_wire wire schema. Qed.

#[global] Instance schema_merge : MergeSchema merge schema.
Proof. solve_schema_merge merge schema. Qed.

(** Its row in the table of message types. *)
Definition message {PB : Protobuf} {PS : ProtobufSpec PB} : message_type :=
  plain_message "QueryGetApprovedRootCertificatesRequest" nothing false schema only.

#[global] Instance message_lawful {PB : Protobuf} (PS : ProtobufSpec PB) : Lawful message.
Proof. solve_lawful decode_field fromJSON only. Qed.

End QueryGetApprovedRootCertificatesRequest.

(** ** [QueryGetApprovedRootCertificatesResponse] (pki/query.js) *)

Module QueryGetApprovedRootCertificatesResponse.

Record t := mk {
  approvedRootCertificates : option ApprovedRootCertificates.t;
}.

#[global] Instance t_eta : Settable t := λ m, mk m.(approvedRootCertificates).

Definition base : t := mk None.

Definition encode {PB : Protobuf} (message : t) (writer : Writer) : Writer :=
  writer
  @> defined message.(approvedRootCertificates) (fun v w => w @> uint32 10 @> fork @> ApprovedRootCertificates.encode v @> ldelim).

Definition decode_field {PB : Protobuf} (tag : Z) (message : t) : RM t :=
  match field_number tag with
  | 1 => v ← read_nested ApprovedRootCertificates.decode;
         mret (message <| approvedRootCertificates := Some v |>)
  | _ => _ ← skipType (wire_type tag); mret message
  end.

Definition decode {PB : Protobuf} (length : option Z) : RM t :=
  decode_message length base decode_field.

Definition fromJSON (object : js) : result t :=
  approvedRootCertificates' ← field_or object "approvedRootCertificates" (to_some ApprovedRootCertificates.fromJSON) None;
  Ok (mk approvedRootCertificates').

Definition toJSON (message : t) : js :=
  Obj (prop_opt "approvedRootCertificates" ApprovedRootCertificates.toJSON message.(approvedRootCertificates)).

Record partial := mkPartial {
  p_approvedRootCertificates : option ApprovedRootCertificates.partial;
}.

Definition fromPartial (object : partial) : t := {|
  approvedRootCertificates := ApprovedRootCertificates.fromPartial <$> object.(p_approvedRootCertificates);
|}.

(** The object with no property given. *)
Definition nothing : partial := mkPartial None.

(** The bytes [encode] writes. *)
Definition wire {PB : Protobuf} {PS : ProtobufSpec PB} (m : t) : bytes :=
  f_message 10 ApprovedRootCertificates.wire m.(approvedRootCertificates).

Definition valid (m : t) : Prop :=
  from_option ApprovedRootCertificates.valid True m.(approvedRootCertificates).

Definition encodable {PB : Protobuf} {PS : ProtobufSpec PB} (m : t) : Prop :=
  valid m ∧ small (wire m).

Definition merge (m a : t) : t := {|
  approvedRootCertificates := later_message m.(approvedRootCertificates) a.(approvedRootCertificates);
|}.

(** A whole message seen as a partial one. *)
Definition full (m : t) : partial := {|
  p_approvedRootCertificates := ApprovedRootCertificates.full <$> m.(approvedRootCertificates);
|}.

(** The message as its [.proto] file declares it. *)
Definition schema (m : t) : list field :=
  [singular 1 Optional (message_value ApprovedRootCertificates.schema) m.(approvedRootCertificates)].

(** The message with its default for every property that is not kept. *)
Definition only (kept : string → bool) (m : t) : t := {|
  approvedRootCertificates := if kept "approvedRootCertificates" then m.(approvedRootCertificates) else None;
|}.

#[global] Instance codec {PB : Protobuf} : MessageCodec t :=
  {| msg_base := base; msg_encode := encode; msg_field := decode_field |}.

#[global] Program Instance spec {PB : Protobuf} (PS : ProtobufSpec PB) : MessageSpec PS t :=
  {| msg_wire := wire; msg_valid := valid; msg_merge := merge |}.
Next Obligation. solve_encode_wire. Qed.
Next Obligation. solve_decode_wire. Qed.
Next Obligation. solve_merge_base. Qed.
Next Obligation. intros. solve_advances decode_field. Qed.

#[global] Program Instance data : MessageData t partial :=
  {| msg_fromJSON := fromJSON; msg_toJSON := toJSON;
     msg_fromPartial := fromPartial; msg_full := full |}.
Next Obligation. solve_json fromJSON toJSON. Qed.
Next Obligation. solve_partial fromPartial full. Qed.

#[global] Instance schema_wire {PB : Protobuf} {PS : ProtobufSpec PB} : WireSchema wire schema.
Proof. solve_schema_wire wire schema. Qed.

#[global] Instance schema_merge : MergeSchema merge schema.
Proof. solve_schema_merge merge schema. Qed.

(** Its row in the table of message types. *)
Definition message {PB : Protobuf} {PS : ProtobufSpec PB} : message_type :=
  plain_message "QueryGetApprovedRootCertificatesResponse" nothing true schema only.

#[global] Instance message_lawful {PB : Protobuf} (PS : ProtobufSpec PB) : Lawful message.
Proof. solve_lawful decode_field fromJSON only. Qed.

End QueryGetApprovedRootCertificatesResponse.

(** ** [QueryGetRevokedRootCertificatesRequest] (pki/query.js) *)

Module QueryGetRevokedRootCertificatesRequest.

Record t := mk {}.

#[global] Instance t_eta : Settable t := λ m, m.

Definition base : t := mk.

Definition encode {PB : Protobuf} (message : t) (writer : Writer) : Writer :=
  writer.

Definition decode_field {PB : Protobuf} (tag : Z) (message : t) : RM t :=
  match field_number tag with
  | _ => _ ← skipType (wire_type tag); mret message
  end.

Definition decode {PB : Protobuf} (length : option Z) : RM t :=
  decode_message length base decode_field.

Definition fromJSON (object : js) : result t :=
  Ok base.

Definition toJSON (message : t) : js :=
  Obj [].

Record partial := mkPartial {}.

Definition fromPartial (object : partial) : t := base.

(** The object with no property given. *)
Definition nothing : partial := mkPartial.

(** The bytes [encode] writes. *)
Definition wire {PB : Protobuf} {PS : ProtobufSpec PB} (m : t) : bytes :=
  [].

Definition valid (m : t) : Prop :=
  True.

Definition encodable {PB : Protobuf} {PS : ProtobufSpec PB} (m : t) : Prop :=
  valid m ∧ small (wire m).

Definition merge (m a : t) : t := m.

(** A whole message seen as a partial one. *)
Definition full (m : t) : partial := mkPartial.

(** The message as its [.proto] file declares it. *)
Definition schema (m : t) : list field :=
  [].

(** The message with its default for every property that is not kept. *)
Definition only (kept : string → bool) (m : t) : t := m.

#[global] Instance codec {PB : Protobuf} : MessageCodec t :=
  {| msg_base := base; msg_encode := encode; msg_field := decode_field |}.

#[global] Program Instance spec {PB : Protobuf} (PS : ProtobufSpec PB) : MessageSpec PS t :=
  {| msg_wire := wire; msg_valid := valid; msg_merge := merge |}.
Next Obligation. solve_encode_wire. Qed.
Next Obligation. solve_decode_wire. Qed.
Next Obligation. solve_merge_base. Qed.
Next Obligation. intros. solve_advances decode_field. Qed.

#[global] Program Instance data : MessageData t partial :=
  {| msg_fromJSON := fromJSON; msg_toJSON := toJSON;
     msg_fromPartial := fromPartial; msg_full := full |}.
Next Obligation. solve_json fromJSON toJSON. Qed.
Next Obligation. solve_partial fromPartial full. Qed.

#[global] Instance schema_wire {PB : Protobuf} {PS : ProtobufSpec PB} : WireSchema wire schema.
Proof. solve_schema_wire wire schema. Qed.

#[global] Instance schema_merge : MergeSchema merge schema.
Proof. solve_schema_merge merge schema. Qed.

(** Its row in the table of message types. *)
Definition message {PB : Protobuf} {PS : ProtobufSpec PB} : message_type :=
  plain_message "QueryGetRevokedRootCertificatesRequest" nothing false schema only.

#[global] Instance message_lawful {PB : Protobuf} (PS : ProtobufSpec PB) : Lawful message.
Proof. solve_lawful decode_field fromJSON only. Qed.

End QueryGetRevokedRootCertificatesRequest.

(** ** [QueryGetRevokedRootCertificatesResponse] (pki/query.js) *)

Module QueryGetRevokedRootCertificatesResponse.

Record t := mk {
  revokedRootCertificates : option RevokedRootCertificates.t;
}.

#[global] Instance t_eta : Settable t := λ m, mk m.(revokedRootCertificates).

Definition base : t := mk None.

Definition encode {PB : Protobuf} (message : t) (writer : Writer) : Writer :=
  writer
  @> defined message.(revokedRootCertificates) (fun v w => w @> uint32 10 @> fork @> RevokedRootCertificates.encode v @> ldelim).

Definition decode_field {PB : Protobuf} (tag : Z) (message : t) : RM t :=
  match field_number tag with
  | 1 => v ← read_nested RevokedRootCertificates.decode;
         mret (message <| revokedRootCertificates := Some v |>)
  | _ => _ ← skipType (wire_type tag); mret message
  end.

Definition decode {PB : Protobuf} (length : option Z) : RM t :=
  decode_message length base decode_field.

Definition fromJSON (object : js) : result t :=
  revokedRootCertificates' ← field_or object "revokedRootCertificates" (to_some RevokedRootCertificates.fromJSON) None;
  Ok (mk revokedRootCertificates').

Definition toJSON (message : t) : js :=
  Obj (prop_opt "revokedRootCertificates" RevokedRootCertificates.toJSON message.(revokedRootCertificates)).

Record partial := mkPartial {
  p_revokedRootCertificates : option RevokedRootCertificates.partial;
}.

Definition fromPartial (object : partial) : t := {|
  revokedRootCertificates := RevokedRootCertificates.fromPartial <$> object.(p_revokedRootCertificates);
|}.

(** The object with no property given. *)
Definition nothing : partial := mkPartial None.

(** The bytes [encode] writes. *)
Definition wire {PB : Protobuf} {PS : ProtobufSpec PB} (m : t) : bytes :=
  f_message 10 RevokedRootCertificates.wire m.(revokedRootCertificates).

Definition valid (m : t) : Prop :=
  from_option RevokedRootCertificates.valid True m.(revokedRootCertificates).

Definition encodable {PB : Protobuf} {PS : ProtobufSpec PB} (m : t) : Prop :=
  valid m ∧ small (wire m).

Definition merge (m a : t) : t := {|
  revokedRootCertificates := later_message m.(revokedRootCertificates) a.(revokedRootCertificates);
|}.

(** A whole message seen as a partial one. *)
Definition full (m : t) : partial := {|
  p_revokedRootCertificates := RevokedRootCertificates.full <$> m.(revokedRootCertificates);
|}.

(** The message as its [.proto] file declares it. *)
Definition schema (m : t) : list field :=
  [singular 1 Optional (message_value RevokedRootCertificates.schema) m.(revokedRootCertificates)].

(** The message with its default for every property that is not kept. *)
Definition only (kept : string → bool) (m : t) : t := {|
  revokedRootCertificates := if kept "revokedRootCertificates" then m.(revokedRootCertificates) else None;
|}.

#[global] Instance codec {PB : Protobuf} : MessageCodec t :=
  {| msg_base := base; msg_encode := encode; msg_field := decode_field |}.

#[global] Program Instance spec {PB : Protobuf} (PS : ProtobufSpec PB) : MessageSpec PS t :=
  {| msg_wire := wire; msg_valid := valid; msg_merge := merge |}.
Next Obligation. solve_encode_wire. Qed.
Next Obligation. solve_decode_wire. Qed.
Next Obligation. solve_merge_base. Qed.
Next Obligation. intros. solve_advances decode_field. Qed.

#[global] Program Instance data : MessageData t partial :=
  {| msg_fromJSON := fromJSON; msg_toJSON := toJSON;
     msg_fromPartial := fromPartial; msg_full := full |}.
Next Obligation. solve_json fromJSON toJSON. Qed.
Next Obligation. solve_partial fromPartial full. Qed.

#[global] Instance schema_wire {PB : Protobuf} {PS : ProtobufSpec PB} : WireSchema wire schema.
Proof. solve_schema_wire wire schema. Qed.

#[global] Instance schema_merge : MergeSchema merge schema.
Proof. solve_schema_merge merge schema. Qed.

(** Its row in the table of message types. *)
Definition message {PB : Protobuf} {PS : ProtobufSpec PB} : message_type :=
  plain_message "QueryGetRevokedRootCertificatesResponse" nothing true schema only.

#[global] Instance message_lawful {PB : Protobuf} (PS : ProtobufSpec PB) : Lawful message.
Proof. solve_lawful decode_field fromJSON only. Qed.

End QueryGetRevokedRootCertificatesResponse.

(** ** [QueryGetApprovedCertificatesBySubjectRequest] (pki/query.js) *)

Module QueryGetApprovedCertificatesBySubjectRequest.

Record t := mk {
  subject : string;
}.

#[global] Instance t_eta : Settable t := λ m, mk m.(subject).

Definition base : t := mk "".

Definition encode {PB : Protobuf} (message : t) (writer : Writer) : Writer :=
  writer
  @> when (str_neq message.(subject) "") (fun w => w @> uint32 10 @> string_ message.(subject)).

Definition decode_field {PB : Protobuf} (tag : Z) (message : t) : RM t :=
  match field_number tag with
  | 1 => v ← read_string; mret (message <| subject := v |>)
  | _ => _ ← skipType (wire_type tag); mret message
  end.

Definition decode {PB : Protobuf} (length : option Z) : RM t :=
  decode_message length base decode_field.

Definition fromJSON (object : js) : result t :=
  subject' ← field_or object "subject" to_string "";
  Ok (mk subject').

Definition toJSON (message : t) : js :=
  Obj ([("subject", Str message.(subject))]).

Record partial := mkPartial {
  p_subject : option string;
}.

Definition fromPartial (object : partial) : t := {|
  subject := object.(p_subject) ?? "";
|}.

(** The object with no property given. *)
Definition nothing : partial := mkPartial None.

(** The bytes [encode] writes. *)
Definition wire {PB : Protobuf} {PS : ProtobufSpec PB} (m : t) : bytes :=
  f_string 10 m.(subject).

Definition valid (m : t) : Prop :=
  True.

Definition encodable {PB : Protobuf} {PS : ProtobufSpec PB} (m : t) : Prop :=
  valid m ∧ small (wire m).

Definition merge (m a : t) : t := {|
  subject := later_string m.(subject) a.(subject);
|}.

(** A whole message seen as a partial one. *)
Definition full (m : t) : partial := {|
  p_subject := Some m.(subject);
|}.

(** The message as its [.proto] file declares it. *)
Definition schema (m : t) : list field :=
  [implicit 1 (VString m.(subject))].

(** The message with its default for every property that is not kept. *)
Definition only (kept : string → bool) (m : t) : t := {|
  subject := if kept "subject" then m.(subject) else "";
|}.

#[global] Instance codec {PB : Protobuf} : MessageCodec t :=
  {| msg_base := base; msg_encode := encode; msg_field := decode_field |}.

#[global] Program Instance spec {PB : Protobuf} (PS : ProtobufSpec PB) : MessageSpec PS t :=
  {| msg_wire := wire; msg_valid := valid; msg_merge := merge |}.
Next Obligation. solve_encode_wire. Qed.
Next Obligation. solve_decode_wire. Qed.
Next Obligation. solve_merge_base. Qed.
Next Obligation. intros. solve_advances decode_field. Qed.

#[global] Program Instance data : MessageData t partial :=
  {| msg_fromJSON := fromJSON; msg_toJSON := toJSON;
     msg_fromPartial := fromPartial; msg_full := full |}.
Next Obligation. solve_json fromJSON toJSON. Qed.
Next Obligation. solve_partial fromPartial full. Qed.

#[global] Instance schema_wire {PB : Protobuf} {PS : ProtobufSpec PB} : WireSchema wire schema.
Proof. solve_schema_wire wire schema. Qed.

#[global] Instance schema_merge : MergeSchema merge schema.
Proof. solve_schema_merge merge schema. Qed.

(** Its row in the table of message types. *)
Definition message {PB : Protobuf} {PS : ProtobufSpec PB} : message_type :=
  plain_message "QueryGetApprovedCertificatesBySubjectRequest" nothing true schema only.

#[global] Instance message_lawful {PB : Protobuf} (PS : ProtobufSpec PB) : Lawful message.
Proof. solve_lawful decode_field fromJSON only. Qed.

End QueryGetApprovedCertificatesBySubjectRequest.

(** ** [QueryGetApprovedCertificatesBySubjectResponse] (pki/query.js) *)

Module QueryGetApprovedCertificatesBySubjectResponse.

Record t := mk {
  approvedCertificatesBySubject : option ApprovedCertificatesBySubject.t;
}.

#[global] Instance t_eta : Settable t := λ m, mk m.(approvedCertificatesBySubject).

Definition base : t := mk None.

Definition encode {PB : Protobuf} (message : t) (writer : Writer) : Writer :=
  writer
  @> defined message.(approvedCertificatesBySubject) (fun v w => w @> uint32 10 @> fork @> ApprovedCertificatesBySubject.encode v @> ldelim).

Definition decode_field {PB : Protobuf} (tag : Z) (message : t) : RM t :=
  match field_number tag with
  | 1 => v ← read_nested ApprovedCertificatesBySubject.decode;
         mret (message <| approvedCertificatesBySubject := Some v |>)
  | _ => _ ← skipType (wire_type tag); mret message
  end.

Definition decode {PB : Protobuf} (length : option Z) : RM t :=
  decode_message length base decode_field.

Definition fromJSON (object : js) : result t :=
  approvedCertificatesBySubject' ← field_or object "approvedCertificatesBySubject" (to_some ApprovedCertificatesBySubject.fromJSON) None;
  Ok (mk approvedCertificatesBySubject').

Definition toJSON (message : t) : js :=
  Obj (prop_opt "approvedCertificatesBySubject" ApprovedCertificatesBySubject.toJSON message.(approvedCertificatesBySubject)).

Record partial := mkPartial {
  p_approvedCertificatesBySubject : option ApprovedCertificatesBySubject.partial;
}.

Definition fromPartial (object : partial) : t := {|
  approvedCertificatesBySubject := ApprovedCertificatesBySubject.fromPartial <$> object.(p_approvedCertificatesBySubject);
|}.

(** The object with no property given. *)
Definition nothing : partial := mkPartial None.

(** The bytes [encode] writes. *)
Definition wire {PB : Protobuf} {PS : ProtobufSpec PB} (m : t) : bytes :=
  f_message 10 ApprovedCertificatesBySubject.wire m.(approvedCertificatesBySubject).

Definition valid (m : t) : Prop :=
  from_option ApprovedCertificatesBySubject.valid True m.(approvedCertificatesBySubject).

Definition encodable {PB : Protobuf} {PS : ProtobufSpec PB} (m : t) : Prop :=
  valid m ∧ small (wire m).

Definition merge (m a : t) : t := {|
  approvedCertificatesBySubject := later_message m.(approvedCertificatesBySubject) a.(approvedCertificatesBySubject);
|}.

(** A whole message seen as a partial one. *)
Definition full (m : t) : partial := {|
  p_approvedCertificatesBySubject := ApprovedCertificatesBySubject.full <$> m.(approvedCertificatesBySubject);
|}.

(** The message as its [.proto] file declares it. *)
Definition schema (m : t) : list field :=
  [singular 1 Optional (message_value ApprovedCertificatesBySubject.schema) m.(approvedCertificatesBySubject)].

(** The message with its default for every property that is not kept. *)
Definition only (kept : string → bool) (m : t) : t := {|
  approvedCertificatesBySubject := if kept "approvedCertificatesBySubject" then m.(approvedCertificatesBySubject) else None;
|}.

#[global] Instance codec {PB : Protobuf} : MessageCodec t :=
  {| msg_base := base; msg_encode := encode; msg_field := decode_field |}.

#[global] Program Instance spec {PB : Protobuf} (PS : ProtobufSpec PB) : MessageSpec PS t :=
  {| msg_wire := wire; msg_valid := valid; msg_merge := merge |}.
Next Obligation. solve_encode_wire. Qed.
Next Obligation. solve_decode_wire. Qed.
Next Obligation. solve_merge_base. Qed.
Next Obligation. intros. solve_advances decode_field. Qed.

#[global] Program Instance data : MessageData t partial :=
  {| msg_fromJSON := fromJSON; msg_toJSON := toJSON;
     msg_fromPartial := fromPartial; msg_full := full |}.
Next Obligation. solve_json fromJSON toJSON. Qed.
Next Obligation. solve_partial fromPartial full. Qed.

#[global] Instance schema_wire {PB : Protobuf} {PS : ProtobufSpec PB} : WireSchema wire schema.
Proof. solve_schema_wire wire schema. Qed.

#[global] Instance schema_merge : MergeSchema merge schema.
Proof. solve_schema_merge merge schema. Qed.

(** Its row in the table of message types. *)
Definition message {PB : Protobuf} {PS : ProtobufSpec PB} : message_type :=
  plain_message "QueryGetApprovedCertificatesBySubjectResponse" nothing true schema only.

#[global] Instance message_lawful {PB : Protobuf} (PS : ProtobufSpec PB) : Lawful message.
Proof. solve_lawful decode_field fromJSON only. Qed.

End QueryGetApprovedCertificatesBySubjectResponse.

(** ** [QueryGetRejectedCertificatesRequest] (pki/query.js) *)

Module QueryGetRejectedCertificatesRequest.

Record t := mk {
  subject : string;
  subjectKeyId : string;
}.

#[global] Instance t_eta : Settable t := λ m, mk m.(subject) m.(subjectKeyId).

Definition base : t := mk "" "".

Definition encode {PB : Protobuf} (message : t) (writer : Writer) : Writer :=
  writer
  @> when (str_neq message.(subject) "") (fun w => w @> uint32 10 @> string_ message.(subject))
  @> when (str_neq message.(subjectKeyId) "")
       (fun w => w @> uint32 18 @> string_ message.(subjectKeyId)).

Definition decode_field {PB : Protobuf} (tag : Z) (message : t) : RM t :=
  match field_number tag with
  | 1 => v ← read_string; mret (message <| subject := v |>)
  | 2 => v ← read_string; mret (message <| subjectKeyId := v |>)
  | _ => _ ← skipType (wire_type tag); mret message
  end.

Definition decode {PB : Protobuf} (length : option Z) : RM t :=
  decode_message length base decode_field.

Definition fromJSON (object : js) : result t :=
  subject' ← field_or object "subject" to_string "";
  subjectKeyId' ← field_or object "subjectKeyId" to_string "";
  Ok (mk subject' subjectKeyId').

Definition toJSON (message : t) : js :=
  Obj ([("subject", Str message.(subject));
    ("subjectKeyId", Str message.(subjectKeyId))]).

Record partial := mkPartial {
  p_subject : option string;
  p_subjectKeyId : option string;
}.

Definition fromPartial (object : partial) : t := {|
  subject := object.(p_subject) ?? "";
  subjectKeyId := object.(p_subjectKeyId) ?? "";
|}.

(** The object with no property given. *)
Definition nothing : partial := mkPartial None None.

(** The bytes [encode] writes. *)
Definition wire {PB : Protobuf} {PS : ProtobufSpec PB} (m : t) : bytes :=
  f_string 10 m.(subject) ++
  f_string 18 m.(subjectKeyId).

Definition valid (m : t) : Prop :=
  True.

Definition encodable {PB : Protobuf} {PS : ProtobufSpec PB} (m : t) : Prop :=
  valid m ∧ small (wire m).

Definition merge (m a : t) : t := {|
  subject := later_string m.(subject) a.(subject);
  subjectKeyId := later_string m.(subjectKeyId) a.(subjectKeyId);
|}.

(** A whole message seen as a partial one. *)
Definition full (m : t) : partial := {|
  p_subject := Some m.(subject);
  p_subjectKeyId := Some m.(subjectKeyId);
|}.

(** The message as its [.proto] file declares it. *)
Definition schema (m : t) : list field :=
  [implicit 1 (VString m.(subject));
   implicit 2 (VString m.(subjectKeyId))].

(** The message with its default for every property that is not kept. *)
Definition only (kept : string → bool) (m : t) : t := {|
  subject := if kept "subject" then m.(subject) else "";
  subjectKeyId := if kept "subjectKeyId" then m.(subjectKeyId) else "";
|}.

#[global] Instance codec {PB : Protobuf} : MessageCodec t :=
  {| msg_base := base; msg_encode := encode; msg_field := decode_field |}.

#[global] Program Instance spec {PB : Protobuf} (PS : ProtobufSpec PB) : MessageSpec PS t :=
  {| msg_wire := wire; msg_valid := valid; msg_merge := merge |}.
Next Obligation. solve_encode_wire. Qed.
Next Obligation. solve_decode_wire. Qed.
Next Obligation. solve_merge_base. Qed.
Next Obligation. intros. solve_advances decode_field. Qed.

#[global] Program Instance data : MessageData t partial :=
  {| msg_fromJSON := fromJSON; msg_toJSON := toJSON;
     msg_fromPartial := fromPartial; msg_full := full |}.
Next Obligation. solve_json fromJSON toJSON. Qed.
Next Obligation. solve_partial fromPartial full. Qed.

#[global] Instance schema_wire {PB : Protobuf} {PS : ProtobufSpec PB} : WireSchema wire schema.
Proof. solve_schema_wire wire schema. Qed.

#[global] Instance schema_merge : MergeSchema merge schema.
Proof. solve_schema_merge merge schema. Qed.

(** Its row in the table of message types. *)
Definition message {PB : Protobuf} {PS : ProtobufSpec PB} : message_type :=
  plain_message "QueryGetRejectedCertificatesRequest" nothing true schema only.

#[global] Instance message_lawful {PB : Protobuf} (PS : ProtobufSpec PB) : Lawful message.
Proof. solve_lawful decode_field fromJSON only. Qed.

End QueryGetRejectedCertificatesRequest.

(** ** [QueryGetRejectedCertificatesResponse] (pki/query.js) *)

Module QueryGetRejectedCertificatesResponse.

Record t := mk {
  rejectedCertificate : option RejectedCertificate.t;
}.

#[global] Instance t_eta : Settable t := λ m, mk m.(rejectedCertificate).

Definition base : t := mk None.

Definition encode {PB : Protobuf} (message : t) (writer : Writer) : Writer :=
  writer
  @> defined message.(rejectedCertificate) (fun v w => w @> uint32 10 @> fork @> RejectedCertificate.encode v @> ldelim).

Definition decode_field {PB : Protobuf} (tag : Z) (message : t) : RM t :=
  match field_number tag with
  | 1 => v ← read_nested RejectedCertificate.decode;
         mret (message <| rejectedCertificate := Some v |>)
  | _ => _ ← skipType (wire_type tag); mret message
  end.

Definition decode {PB : Protobuf} (length : option Z) : RM t :=
  decode_message length base decode_field.

Definition fromJSON (object : js) : result t :=
  rejectedCertificate' ← field_or object "rejectedCertificate" (to_some RejectedCertificate.fromJSON) None;
  Ok (mk rejectedCertificate').

Definition toJSON (message : t) : js :=
  Obj (prop_opt "rejectedCertificate" RejectedCertificate.toJSON message.(rejectedCertificate)).

Record partial := mkPartial {
  p_rejectedCertificate : option RejectedCertificate.partial;
}.

Definition fromPartial (object : partial) : t := {|
  rejectedCertificate := RejectedCertificate.fromPartial <$> object.(p_rejectedCertificate);
|}.

(** The object with no property given. *)
Definition nothing : partial := mkPartial None.

(** The bytes [encode] writes. *)
Definition wire {PB : Protobuf} {PS : ProtobufSpec PB} (m : t) : bytes :=
  f_message 10 RejectedCertificate.wire m.(rejectedCertificate).

Definition valid (m : t) : Prop :=
  from_option RejectedCertificate.valid True m.(rejectedCertificate).

Definition encodable {PB : Protobuf} {PS : ProtobufSpec PB} (m : t) : Prop :=
  valid m ∧ small (wire m).

Definition merge (m a : t) : t := {|
  rejectedCertificate := later_message m.(rejectedCertificate) a.(rejectedCertificate);
|}.

(** A whole message seen as a partial one. *)
Definition full (m : t) : partial := {|
  p_rejectedCertificate := RejectedCertificate.full <$> m.(rejectedCertificate);
|}.

(** The message as its [.proto] file declares it. *)
Definition schema (m : t) : list field :=
  [singular 1 Optional (message_value RejectedCertificate.schema) m.(rejectedCertificate)].

(** The message with its default for every property that is not kept. *)
Definition only (kept : string → bool) (m : t) : t := {|
  rejectedCertificate := if kept "rejectedCertificate" then m.(rejectedCertificate) else None;
|}.

#[global] Instance codec {PB : Protobuf} : MessageCodec t :=
  {| msg_base := base; msg_encode := encode; msg_field := decode_field |}.

#[global] Program Instance spec {PB : Protobuf} (PS : ProtobufSpec PB) : MessageSpec PS t :=
  {| msg_wire := wire; msg_valid := valid; msg_merge := merge |}.
Next Obligation. solve_encode_wire. Qed.
Next Obligation. solve_decode_wire. Qed.
Next Obligation. solve_merge_base. Qed.
Next Obligation. intros. solve_advances decode_field. Qed.

#[global] Program Instance data : MessageData t partial :=
  {| msg_fromJSON := fromJSON; msg_toJSON := toJSON;
     msg_fromPartial := fromPartial; msg_full := full |}.
Next Obligation. solve_json fromJSON toJSON. Qed.
Next Obligation. solve_partial fromPartial full. Qed.

#[global] Instance schema_wire {PB : Protobuf} {PS : ProtobufSpec PB} : WireSchema wire schema.
Proof. solve_schema_wire wire schema. Qed.

#[global] Instance schema_merge : MergeSchema merge schema.
Proof. solve_schema_merge merge schema. Qed.

(** Its row in the table of message types. *)
Definition message {PB : Protobuf} {PS : ProtobufSpec PB} : message_type :=
  plain_message "QueryGetRejectedCertificatesResponse" nothing true schema only.

#[global] Instance message_lawful {PB : Protobuf} (PS : ProtobufSpec PB) : Lawful message.
Proof. solve_lawful decode_field fromJSON only. Qed.

End QueryGetRejectedCertificatesResponse.

(** ** [QueryAllRejectedCertificatesRequest] (pki/query.js) *)

Module QueryAllRejectedCertificatesRequest.

Record t := mk {
  pagination : option PageRequest.t;
}.

#[global] Instance t_eta : Settable t := λ m, mk m.(pagination).

Definition base : t := mk None.

Definition encode {PB : Protobuf} (message : t) (writer : Writer) : result Writer :=
  Ok writer
  @>= defined_e message.(pagination) (submessage 10 PageRequest.encode).

Definition decode_field {PB : Protobuf} (tag : Z) (message : t) : RM t :=
  match field_number tag with
  | 1 => v ← read_nested PageRequest.decode; mret (message <| pagination := Some v |>)
  | _ => _ ← skipType (wire_type tag); mret message
  end.

Definition decode {PB : Protobuf} (length : option Z) : RM t :=
  decode_message length base decode_field.

Definition fromJSON (object : js) : result t :=
  pagination' ← field_or object "pagination" (to_some PageRequest.fromJSON) None;
  Ok (mk pagination').

Definition toJSON (message : t) : js :=
  Obj (prop_opt "pagination" PageRequest.toJSON message.(pagination)).

Record partial := mkPartial {
  p_pagination : option PageRequest.partial;
}.

Definition fromPartial (object : partial) : t := {|
  pagination := PageRequest.fromPartial <$> object.(p_pagination);
|}.

(** The object with no property given. *)
Definition nothing : partial := mkPartial None.

(** The bytes [encode] writes. *)
Definition wire {PB : Protobuf} {PS : ProtobufSpec PB} (m : t) : bytes :=
  f_message 10 PageRequest.wire m.(pagination).

Definition valid (m : t) : Prop :=
  from_option PageRequest.valid True m.(pagination).

(** The byte fields hold arrays, as the interface declares. *)
Definition typed (m : t) : bool := from_option PageRequest.typed true m.(pagination).

(** The message without its empty byte arrays. *)
Definition normal (m : t) : t := {|
  pagination := PageRequest.normal <$> m.(pagination);
|}.

Definition encodable {PB : Protobuf} {PS : ProtobufSpec PB} (m : t) : Prop :=
  typed m = true ∧ valid m ∧ small (wire m).

Definition merge (m a : t) : t := {|
  pagination := later_message m.(pagination) (PageRequest.normal <$> a.(pagination));
|}.

(** A whole message seen as a partial one. *)
Definition full (m : t) : partial := {|
  p_pagination := PageRequest.full <$> m.(pagination);
|}.

(** The message as its [.proto] file declares it. *)
Definition schema (m : t) : list field :=
  [singular 1 Optional (message_value PageRequest.schema) m.(pagination)].

(** The message with its default for every property that is not kept. *)
Definition only (kept : string → bool) (m : t) : t := {|
  pagination := if kept "pagination" then m.(pagination) else None;
|}.

#[global] Instance codec {PB : Protobuf} : FallibleCodec t :=
  {| fmsg_base := base; fmsg_encode := encode; fmsg_field := decode_field |}.

#[global] Program Instance spec {PB : Protobuf} (PS : ProtobufSpec PB) : FallibleSpec PS t :=
  {| fmsg_wire := wire; fmsg_valid := valid; fmsg_typed := typed; fmsg_normal := normal;
     fmsg_merge := merge |}.
Next Obligation. solve_fencode_wire. Qed.
Next Obligation. intros. solve_fencode_throws encode typed. Qed.
Next Obligation. solve_fdecode_wire. Qed.
Next Obligation. solve_fmerge_base. Qed.
Next Obligation. intros. solve_fadvances decode_field. Qed.

#[global] Program Instance given_ : FalliblePartial t partial :=
  {| fmsg_fromPartial := fromPartial; fmsg_full := full; fmsg_given := typed |}.
Next Obligation. solve_fgiven fromPartial typed. Qed.
Next Obligation. solve_fpartial fromPartial full typed. Qed.

#[global] Program Instance json : FallibleJson t :=
  {| fmsg_fromJSON := fromJSON; fmsg_toJSON := toJSON;
     fmsg_named := fun _ => true; fmsg_known := fun m => m |}.
Next Obligation. solve_fjson fromJSON toJSON. Qed.
Next Obligation. reflexivity. Qed.

#[global] Instance schema_wire {PB : Protobuf} {PS : ProtobufSpec PB} : WireSchema wire schema.
Proof. solve_schema_wire wire schema. Qed.

#[global] Instance schema_normal : NormalSchema normal schema.
Proof. solve_schema_normal normal schema. Qed.

#[global] Instance schema_merge : MergeSchema merge schema.
Proof. solve_schema_merge merge schema. Qed.

(** Its row in the table of message types. *)
Definition message {PB : Protobuf} {PS : ProtobufSpec PB} : message_type :=
  fallible_message "QueryAllRejectedCertificatesRequest" nothing true schema only.

#[global] Instance message_lawful {PB : Protobuf} (PS : ProtobufSpec PB) : Lawful message.
Proof. solve_lawful decode_field fromJSON only. Qed.

End QueryAllRejectedCertificatesRequest.

(** ** [QueryAllRejectedCertificatesResponse] (pki/query.js) *)

Module QueryAllRejectedCertificatesResponse.

Record t := mk {
  rejectedCertificate : list RejectedCertificate.t;
  pagination : option PageResponse.t;
}.

#[global] Instance t_eta : Settable t := λ m, mk m.(rejectedCertificate) m.(pagination).

Definition base : t := mk [] None.

Definition encode {PB : Protobuf} (message : t) (writer : Writer) : result Writer :=
  Ok writer
  @>= pure (each message.(rejectedCertificate) (fun v w => w @> uint32 10 @> fork @> RejectedCertificate.encode v @> ldelim))
  @>= defined_e message.(pagination) (submessage 18 PageResponse.encode).

Definition decode_field {PB : Protobuf} (tag : Z) (message : t) : RM t :=
  match field_number tag with
  | 1 => v ← read_nested RejectedCertificate.decode;
         mret (message <| rejectedCertificate := message.(rejectedCertificate) ++ [v] |>)
  | 2 => v ← read_nested PageResponse.decode; mret (message <| pagination := Some v |>)
  | _ => _ ← skipType (wire_type tag); mret message
  end.

Definition decode {PB : Protobuf} (length : option Z) : RM t :=
  decode_message length base decode_field.

Definition fromJSON (object : js) : result t :=
  rejectedCertificate' ← field_or object "rejectedCertificate" (to_list RejectedCertificate.fromJSON) [];
  pagination' ← field_or object "pagination" (to_some PageResponse.fromJSON) None;
  Ok (mk rejectedCertificate' pagination').

Definition toJSON (message : t) : js :=
  Obj ([("rejectedCertificate", Arr (map RejectedCertificate.toJSON message.(rejectedCertificate)))] ++
   prop_opt "pagination" PageResponse.toJSON message.(pagination)).

Record partial := mkPartial {
  p_rejectedCertificate : option (list RejectedCertificate.partial);
  p_pagination : option PageResponse.partial;
}.

Definition fromPartial (object : partial) : t := {|
  rejectedCertificate := map RejectedCertificate.fromPartial (object.(p_rejectedCertificate) ?? []);
  pagination := PageResponse.fromPartial <$> object.(p_pagination);
|}.

(** The object with no property given. *)
Definition nothing : partial := mkPartial None None.

(** The bytes [encode] writes. *)
Definition wire {PB : Protobuf} {PS : ProtobufSpec PB} (m : t) : bytes :=
  f_repeated 10 RejectedCertificate.wire m.(rejectedCertificate) ++
  f_message 18 PageResponse.wire m.(pagination).

Definition valid (m : t) : Prop :=
  Forall RejectedCertificate.valid m.(rejectedCertificate) ∧ from_option PageResponse.valid True m.(pagination).

(** The byte fields hold arrays, as the interface declares. *)
Definition typed (m : t) : bool := from_option PageResponse.typed true m.(pagination).

(** The message without its empty byte arrays. *)
Definition normal (m : t) : t := {|
  rejectedCertificate := m.(rejectedCertificate);
  pagination := PageResponse.normal <$> m.(pagination);
|}.

Definition encodable {PB : Protobuf} {PS : ProtobufSpec PB} (m : t) : Prop :=
  typed m = true ∧ valid m ∧ small (wire m).

Definition merge (m a : t) : t := {|
  rejectedCertificate := m.(rejectedCertificate) ++ a.(rejectedCertificate);
  pagination := later_message m.(pagination) (PageResponse.normal <$> a.(pagination));
|}.

(** A whole message seen as a partial one. *)
Definition full (m : t) : partial := {|
  p_rejectedCertificate := Some (map RejectedCertificate.full m.(rejectedCertificate));
  p_pagination := PageResponse.full <$> m.(pagination);
|}.

(** The message as its [.proto] file declares it. *)
Definition schema (m : t) : list field :=
  [repeated 1 (message_value RejectedCertificate.schema) m.(rejectedCertificate);
   singular 2 Optional (message_value PageResponse.schema) m.(pagination)].

(** The message with its default for every property that is not kept. *)
Definition only (kept : string → bool) (m : t) : t := {|
  rejectedCertificate := if kept "rejectedCertificate" then m.(rejectedCertificate) else [];
  pagination := if kept "pagination" then m.(pagination) else None;
|}.

#[global] Instance codec {PB : Protobuf} : FallibleCodec t :=
  {| fmsg_base := base; fmsg_encode := encode; fmsg_field := decode_field |}.

#[global] Program Instance spec {PB : Protobuf} (PS : ProtobufSpec PB) : FallibleSpec PS t :=
  {| fmsg_wire := wire; fmsg_valid := valid; fmsg_typed := typed; fmsg_normal := normal;
     fmsg_merge := merge |}.
Next Obligation. solve_fencode_wire. Qed.
Next Obligation. intros. solve_fencode_throws encode typed. Qed.
Next Obligation. solve_fdecode_wire. Qed.
Next Obligation. solve_fmerge_base. Qed.
Next Obligation. intros. solve_fadvances decode_field. Qed.

#[global] Program Instance given_ : FalliblePartial t partial :=
  {| fmsg_fromPartial := fromPartial; fmsg_full := full; fmsg_given := typed |}.
Next Obligation. solve_fgiven fromPartial typed. Qed.
Next Obligation. solve_fpartial fromPartial full typed. Qed.

#[global] Program Instance json : FallibleJson t :=
  {| fmsg_fromJSON := fromJSON; fmsg_toJSON := toJSON;
     fmsg_named := fun _ => true; fmsg_known := fun m => m |}.
Next Obligation. solve_fjson fromJSON toJSON. Qed.
Next Obligation. reflexivity. Qed.

#[global] Instance schema_wire {PB : Protobuf} {PS : ProtobufSpec PB} : WireSchema wire schema.
Proof. solve_schema_wire wire schema. Qed.

#[global] Instance schema_normal : NormalSchema normal schema.
Proof. solve_schema_normal normal schema. Qed.

#[global] Instance schema_merge : MergeSchema merge schema.
Proof. solve_schema_merge merge schema. Qed.

(** Its row in the table of message types. *)
Definition message {PB : Protobuf} {PS : ProtobufSpec PB} : message_type :=
  fallible_message "QueryAllRejectedCertificatesResponse" nothing true schema only.

#[global] Instance message_lawful {PB : Protobuf} (PS : ProtobufSpec PB) : Lawful message.
Proof. solve_lawful decode_field fromJSON only. Qed.

End QueryAllRejectedCertificatesResponse.

(** ** [GenesisState] (pki/genesis.js) *)

Module GenesisState.

Record t := mk {
  approvedCertificatesList : list ApprovedCertificates.t;
  proposedCertificateList : list ProposedCertificate.t;
  childCertificatesList : list ChildCertificates.t;
  proposedCertificateRevocationList : list ProposedCertificateRevocation.t;
  revokedCertificatesList : list RevokedCertificates.t;
  uniqueCertificateList : list UniqueCertificate.t;
  approvedRootCertificates : option ApprovedRootCertificates.t;
  revokedRootCertificates : option RevokedRootCertificates.t;
  approvedCertificatesBySubjectList : list ApprovedCertificatesBySubject.t;
  rejectedCertificateList : list RejectedCertificate.t;
}.

#[global] Instance t_eta : Settable t := λ m, mk m.(approvedCertificatesList)
  m.(proposedCertificateList) m.(childCertificatesList) m.(proposedCertificateRevocationList)
  m.(revokedCertificatesList) m.(uniqueCertificateList) m.(approvedRootCertificates)
  m.(revokedRootCertificates) m.(approvedCertificatesBySubjectList) m.(rejectedCertificateList).

Definition base : t := mk [] [] [] [] [] [] None None [] [].

Definition encode {PB : Protobuf} (message : t) (writer : Writer) : Writer :=
  writer
  @> each message.(approvedCertificatesList) (fun v w => w @> uint32 10 @> fork @> ApprovedCertificates.encode v @> ldelim)
  @> each message.(proposedCertificateList) (fun v w => w @> uint32 18 @> fork @> ProposedCertificate.encode v @> ldelim)
  @> each message.(childCertificatesList) (fun v w => w @> uint32 26 @> fork @> ChildCertificates.encode v @> ldelim)
  @> each message.(proposedCertificateRevocationList) (fun v w => w @> uint32 34 @> fork @> ProposedCertificateRevocation.encode v @> ldelim)
  @> each message.(revokedCertificatesList) (fun v w => w @> uint32 42 @> fork @> RevokedCertificates.encode v @> ldelim)
  @> each message.(uniqueCertificateList) (fun v w => w @> uint32 50 @> fork @> UniqueCertificate.encode v @> ldelim)
  @> defined message.(approvedRootCertificates) (fun v w => w @> uint32 58 @> fork @> ApprovedRootCertificates.encode v @> ldelim)
  @> defined message.(revokedRootCertificates) (fun v w => w @> uint32 66 @> fork @> RevokedRootCertificates.encode v @> ldelim)
  @> each message.(approvedCertificatesBySubjectList) (fun v w => w @> uint32 74 @> fork @> ApprovedCertificatesBySubject.encode v @> ldelim)
  @> each message.(rejectedCertificateList) (fun v w => w @> uint32 82 @> fork @> RejectedCertificate.encode v @> ldelim).

Definition decode_field {PB : Protobuf} (tag : Z) (message : t) : RM t :=
  match field_number tag with
  | 1 => v ← read_nested ApprovedCertificates.decode;
         mret (message <| approvedCertificatesList := message.(approvedCertificatesList) ++ [v] |>)
  | 2 => v ← read_nested ProposedCertificate.decode;
         mret (message <| proposedCertificateList := message.(proposedCertificateList) ++ [v] |>)
  | 3 => v ← read_nested ChildCertificates.decode;
         mret (message <| childCertificatesList := message.(childCertificatesList) ++ [v] |>)
  | 4 => v ← read_nested ProposedCertificateRevocation.decode;
         mret (message <| proposedCertificateRevocationList := message.(proposedCertificateRevocationList) ++ [v] |>)
  | 5 => v ← read_nested RevokedCertificates.decode;
         mret (message <| revokedCertificatesList := message.(revokedCertificatesList) ++ [v] |>)
  | 6 => v ← read_nested UniqueCertificate.decode;
         mret (message <| uniqueCertificateList := message.(uniqueCertificateList) ++ [v] |>)
  | 7 => v ← read_nested ApprovedRootCertificates.decode;
         mret (message <| approvedRootCertificates := Some v |>)
  | 8 => v ← read_nested RevokedRootCertificates.decode;
         mret (message <| revokedRootCertificates := Some v |>)
  | 9 => v ← read_nested ApprovedCertificatesBySubject.decode;
         mret (message <| approvedCertificatesBySubjectList := message.(approvedCertificatesBySubjectList) ++ [v] |>)
  | 10 => v ← read_nested RejectedCertificate.decode;
         mret (message <| rejectedCertificateList := message.(rejectedCertificateList) ++ [v] |>)
  | _ => _ ← skipType (wire_type tag); mret message
  end.

Definition decode {PB : Protobuf} (length : option Z) : RM t :=
  decode_message length base decode_field.

Definition fromJSON (object : js) : result t :=
  approvedCertificatesList' ← field_or object "approvedCertificatesList" (to_list ApprovedCertificates.fromJSON) [];
  proposedCertificateList' ← field_or object "proposedCertificateList" (to_list ProposedCertificate.fromJSON) [];
  childCertificatesList' ← field_or object "childCertificatesList" (to_list ChildCertificates.fromJSON) [];
  proposedCertificateRevocationList' ← field_or object "proposedCertificateRevocationList" (to_list ProposedCertificateRevocation.fromJSON) [];
  revokedCertificatesList' ← field_or object "revokedCertificatesList" (to_list RevokedCertificates.fromJSON) [];
  uniqueCertificateList' ← field_or object "uniqueCertificateList" (to_list UniqueCertificate.fromJSON) [];
  approvedRootCertificates' ← field_or object "approvedRootCertificates" (to_some ApprovedRootCertificates.fromJSON) None;
  revokedRootCertificates' ← field_or object "revokedRootCertificates" (to_some RevokedRootCertificates.fromJSON) None;
  approvedCertificatesBySubjectList' ← field_or object "approvedCertificatesBySubjectList" (to_list ApprovedCertificatesBySubject.fromJSON) [];
  rejectedCertificateList' ← field_or object "rejectedCertificateList" (to_list RejectedCertificate.fromJSON) [];
  Ok (mk approvedCertificatesList' proposedCertificateList' childCertificatesList'
    proposedCertificateRevocationList' revokedCertificatesList' uniqueCertificateList'
    approvedRootCertificates' revokedRootCertificates' approvedCertificatesBySubjectList'
    rejectedCertificateList').

Definition toJSON (message : t) : js :=
  Obj ([("approvedCertificatesList", Arr (map ApprovedCertificates.toJSON message.(approvedCertificatesList)));
    ("proposedCertificateList", Arr (map ProposedCertificate.toJSON message.(proposedCertificateList)));
    ("childCertificatesList", Arr (map ChildCertificates.toJSON message.(childCertificatesList)));
    ("proposedCertificateRevocationList", Arr (map ProposedCertificateRevocation.toJSON message.(proposedCertificateRevocationList)));
    ("revokedCertificatesList", Arr (map RevokedCertificates.toJSON message.(revokedCertificatesList)));
    ("uniqueCertificateList", Arr (map UniqueCertificate.toJSON message.(uniqueCertificateList)))] ++
   prop_opt "approvedRootCertificates" ApprovedRootCertificates.toJSON message.(approvedRootCertificates) ++
   prop_opt "revokedRootCertificates" RevokedRootCertificates.toJSON message.(revokedRootCertificates) ++
   [("approvedCertificatesBySubjectList", Arr (map ApprovedCertificatesBySubject.toJSON message.(approvedCertificatesBySubjectList)));
    ("rejectedCertificateList", Arr (map RejectedCertificate.toJSON message.(rejectedCertificateList)))]).

Record partial := mkPartial {
  p_approvedCertificatesList : option (list ApprovedCertificates.partial);
  p_proposedCertificateList : option (list ProposedCertificate.partial);
  p_childCertificatesList : option (list ChildCertificates.partial);
  p_proposedCertificateRevocationList : option (list ProposedCertificateRevocation.partial);
  p_revokedCertificatesList : option (list RevokedCertificates.partial);
  p_uniqueCertificateList : option (list UniqueCertificate.partial);
  p_approvedRootCertificates : option ApprovedRootCertificates.partial;
  p_revokedRootCertificates : option RevokedRootCertificates.partial;
  p_approvedCertificatesBySubjectList : option (list ApprovedCertificatesBySubject.partial);
  p_rejectedCertificateList : option (list RejectedCertificate.partial);
}.

Definition fromPartial (object : partial) : t := {|
  approvedCertificatesList := map ApprovedCertificates.fromPartial (object.(p_approvedCertificatesList) ?? []);
  proposedCertificateList := map ProposedCertificate.fromPartial (object.(p_proposedCertificateList) ?? []);
  childCertificatesList := map ChildCertificates.fromPartial (object.(p_childCertificatesList) ?? []);
  proposedCertificateRevocationList := map ProposedCertificateRevocation.fromPartial (object.(p_proposedCertificateRevocationList) ?? []);
  revokedCertificatesList := map RevokedCertificates.fromPartial (object.(p_revokedCertificatesList) ?? []);
  uniqueCertificateList := map UniqueCertificate.fromPartial (object.(p_uniqueCertificateList) ?? []);
  approvedRootCertificates := ApprovedRootCertificates.fromPartial <$> object.(p_approvedRootCertificates);
  revokedRootCertificates := RevokedRootCertificates.fromPartial <$> object.(p_revokedRootCertificates);
  approvedCertificatesBySubjectList := map ApprovedCertificatesBySubject.fromPartial (object.(p_approvedCertificatesBySubjectList) ?? []);
  rejectedCertificateList := map RejectedCertificate.fromPartial (object.(p_rejectedCertificateList) ?? []);
|}.

(** The object with no property given. *)
Definition nothing : partial := mkPartial None None None None None None None None None None.

(** The bytes [encode] writes. *)
Definition wire {PB : Protobuf} {PS : ProtobufSpec PB} (m : t) : bytes :=
  f_repeated 10 ApprovedCertificates.wire m.(approvedCertificatesList) ++
  f_repeated 18 ProposedCertificate.wire m.(proposedCertificateList) ++
  f_repeated 26 ChildCertificates.wire m.(childCertificatesList) ++
  f_repeated 34 ProposedCertificateRevocation.wire m.(proposedCertificateRevocationList) ++
  f_repeated 42 RevokedCertificates.wire m.(revokedCertificatesList) ++
  f_repeated 50 UniqueCertificate.wire m.(uniqueCertificateList) ++
  f_message 58 ApprovedRootCertificates.wire m.(approvedRootCertificates) ++
  f_message 66 RevokedRootCertificates.wire m.(revokedRootCertificates) ++
  f_repeated 74 ApprovedCertificatesBySubject.wire m.(approvedCertificatesBySubjectList) ++
  f_repeated 82 RejectedCertificate.wire m.(rejectedCertificateList).

Definition valid (m : t) : Prop :=
  Forall ApprovedCertificates.valid m.(approvedCertificatesList) ∧ Forall ProposedCertificate.valid m.(proposedCertificateList) ∧ Forall ChildCertificates.valid m.(childCertificatesList) ∧ Forall ProposedCertificateRevocation.valid m.(proposedCertificateRevocationList) ∧ Forall RevokedCertificates.valid m.(revokedCertificatesList) ∧ Forall UniqueCertificate.valid m.(uniqueCertificateList) ∧ from_option ApprovedRootCertificates.valid True m.(approvedRootCertificates) ∧ from_option RevokedRootCertificates.valid True m.(revokedRootCertificates) ∧ Forall ApprovedCertificatesBySubject.valid m.(approvedCertificatesBySubjectList) ∧ Forall RejectedCertificate.valid m.(rejectedCertificateList).

Definition encodable {PB : Protobuf} {PS : ProtobufSpec PB} (m : t) : Prop :=
  valid m ∧ small (wire m).

Definition merge (m a : t) : t := {|
  approvedCertificatesList := m.(approvedCertificatesList) ++ a.(approvedCertificatesList);
  proposedCertificateList := m.(proposedCertificateList) ++ a.(proposedCertificateList);
  childCertificatesList := m.(childCertificatesList) ++ a.(childCertificatesList);
  proposedCertificateRevocationList := m.(proposedCertificateRevocationList) ++ a.(proposedCertificateRevocationList);
  revokedCertificatesList := m.(revokedCertificatesList) ++ a.(revokedCertificatesList);
  uniqueCertificateList := m.(uniqueCertificateList) ++ a.(uniqueCertificateList);
  approvedRootCertificates := later_message m.(approvedRootCertificates) a.(approvedRootCertificates);
  revokedRootCertificates := later_message m.(revokedRootCertificates) a.(revokedRootCertificates);
  approvedCertificatesBySubjectList := m.(approvedCertificatesBySubjectList) ++ a.(approvedCertificatesBySubjectList);
  rejectedCertificateList := m.(rejectedCertificateList) ++ a.(rejectedCertificateList);
|}.

(** A whole message seen as a partial one. *)
Definition full (m : t) : partial := {|
  p_approvedCertificatesList := Some (map ApprovedCertificates.full m.(approvedCertificatesList));
  p_proposedCertificateList := Some (map ProposedCertificate.full m.(proposedCertificateList));
  p_childCertificatesList := Some (map ChildCertificates.full m.(childCertificatesList));
  p_proposedCertificateRevocationList := Some (map ProposedCertificateRevocation.full m.(proposedCertificateRevocationList));
  p_revokedCertificatesList := Some (map RevokedCertificates.full m.(revokedCertificatesList));
  p_uniqueCertificateList := Some (map UniqueCertificate.full m.(uniqueCertificateList));
  p_approvedRootCertificates := ApprovedRootCertificates.full <$> m.(approvedRootCertificates);
  p_revokedRootCertificates := RevokedRootCertificates.full <$> m.(revokedRootCertificates);
  p_approvedCertificatesBySubjectList := Some (map ApprovedCertificatesBySubject.full m.(approvedCertificatesBySubjectList));
  p_rejectedCertificateList := Some (map RejectedCertificate.full m.(rejectedCertificateList));
|}.

(** The message as its [.proto] file declares it. *)
Definition schema (m : t) : list field :=
  [repeated 1 (message_value ApprovedCertificates.schema) m.(approvedCertificatesList);
   repeated 2 (message_value ProposedCertificate.schema) m.(proposedCertificateList);
   repeated 3 (message_value ChildCertificates.schema) m.(childCertificatesList);
   repeated 4 (message_value ProposedCertificateRevocation.schema) m.(proposedCertificateRevocationList);
   repeated 5 (message_value RevokedCertificates.schema) m.(revokedCertificatesList);
   repeated 6 (message_value UniqueCertificate.schema) m.(uniqueCertificateList);
   singular 7 Optional (message_value ApprovedRootCertificates.schema) m.(approvedRootCertificates);
   singular 8 Optional (message_value RevokedRootCertificates.schema) m.(revokedRootCertificates);
   repeated 9 (message_value ApprovedCertificatesBySubject.schema) m.(approvedCertificatesBySubjectList);
   repeated 10 (message_value RejectedCertificate.schema) m.(rejectedCertificateList)].

(** The message with its default for every property that is not kept. *)
Definition only (kept : string → bool) (m : t) : t := {|
  approvedCertificatesList := if kept "approvedCertificatesList" then m.(approvedCertificatesList) else [];
  proposedCertificateList := if kept "proposedCertificateList" then m.(proposedCertificateList) else [];
  childCertificatesList := if kept "childCertificatesList" then m.(childCertificatesList) else [];
  proposedCertificateRevocationList := if kept "proposedCertificateRevocationList" then m.(proposedCertificateRevocationList) else [];
  revokedCertificatesList := if kept "revokedCertificatesList" then m.(revokedCertificatesList) else [];
  uniqueCertificateList := if kept "uniqueCertificateList" then m.(uniqueCertificateList) else [];
  approvedRootCertificates := if kept "approvedRootCertificates" then m.(approvedRootCertificates) else None;
  revokedRootCertificates := if kept "revokedRootCertificates" then m.(revokedRootCertificates) else None;
  approvedCertificatesBySubjectList := if kept "approvedCertificatesBySubjectList" then m.(approvedCertificatesBySubjectList) else [];
  rejectedCertificateList := if kept "rejectedCertificateList" then m.(rejectedCertificateList) else [];
|}.

#[global] Instance codec {PB : Protobuf} : MessageCodec t :=
  {| msg_base := base; msg_encode := encode; msg_field := decode_field |}.

#[global] Program Instance spec {PB : Protobuf} (PS : ProtobufSpec PB) : MessageSpec PS t :=
  {| msg_wire := wire; msg_valid := valid; msg_merge := merge |}.
Next Obligation. solve_encode_wire. Qed.
Next Obligation. solve_decode_wire. Qed.
Next Obligation. solve_merge_base. Qed.
Next Obligation. intros. solve_advances decode_field. Qed.

#[global] Program Instance data : MessageData t partial :=
  {| msg_fromJSON := fromJSON; msg_toJSON := toJSON;
     msg_fromPartial := fromPartial; msg_full := full |}.
Next Obligation. solve_json fromJSON toJSON. Qed.
Next Obligation. solve_partial fromPartial full. Qed.

#[global] Instance schema_wire {PB : Protobuf} {PS : ProtobufSpec PB} : WireSchema wire schema.
Proof. solve_schema_wire wire schema. Qed.

#[global] Instance schema_merge : MergeSchema merge schema.
Proof. solve_schema_merge merge schema. Qed.

(** Its row in the table of message types. *)
Definition message {PB : Protobuf} {PS : ProtobufSpec PB} : message_type :=
  plain_message "GenesisState" nothing true schema only.

#[global] Instance message_lawful {PB : Protobuf} (PS : ProtobufSpec PB) : Lawful message.
Proof. solve_lawful decode_field fromJSON only. Qed.

End GenesisState.


(** ** [QueryClientImpl]

    [rpc] is the transport the class is constructed with: [rpc service method data]
    is what the promise of [this.rpc.request] settles to. *)
Module QueryClientImpl.
Section client.
Context {PB : Protobuf} (rpc : string → string → bytes → result bytes).

Definition ApprovedCertificates (request : QueryGetApprovedCertificatesRequest.t)
    : result QueryGetApprovedCertificatesResponse.t :=
  data ← rpc "zigbeealliance.distributedcomplianceledger.pki.Query" "ApprovedCertificates"
    (finish (QueryGetApprovedCertificatesRequest.encode request create));
  decode_bytes QueryGetApprovedCertificatesResponse.decode data.

Definition ApprovedCertificatesAll (request : QueryAllApprovedCertificatesRequest.t)
    : result QueryAllApprovedCertificatesResponse.t :=
  w ← QueryAllApprovedCertificatesRequest.encode request create;
  data ← rpc "zigbeealliance.distributedcomplianceledger.pki.Query" "ApprovedCertificatesAll" (finish w);
  decode_bytes QueryAllApprovedCertificatesResponse.decode data.

Definition ProposedCertificate (request : QueryGetProposedCertificateRequest.t)
    : result QueryGetProposedCertificateResponse.t :=
  data ← rpc "zigbeealliance.distributedcomplianceledger.pki.Query" "ProposedCertificate"
    (finish (QueryGetProposedCertificateRequest.encode request create));
  decode_bytes QueryGetProposedCertificateResponse.decode data.

Definition ProposedCertificateAll (request : QueryAllProposedCertificateRequest.t)
    : result QueryAllProposedCertificateResponse.t :=
  w ← QueryAllProposedCertificateRequest.encode request create;
  data ← rpc "zigbeealliance.distributedcomplianceledger.pki.Query" "ProposedCertificateAll" (finish w);
  decode_bytes QueryAllProposedCertificateResponse.decode data.

Definition ChildCertificates (request : QueryGetChildCertificatesRequest.t)
    : result QueryGetChildCertificatesResponse.t :=
  data ← rpc "zigbeealliance.distributedcomplianceledger.pki.Query" "ChildCertificates"
    (finish (QueryGetChildCertificatesRequest.encode request create));
  decode_bytes QueryGetChildCertificatesResponse.decode data.

Definition ProposedCertificateRevocation (request : QueryGetProposedCertificateRevocationRequest.t)
    : result QueryGetProposedCertificateRevocationResponse.t :=
  data ← rpc "zigbeealliance.distributedcomplianceledger.pki.Query" "ProposedCertificateRevocation"
    (finish (QueryGetProposedCertificateRevocationRequest.encode request create));
  decode_bytes QueryGetProposedCertificateRevocationResponse.decode data.

Definition ProposedCertificateRevocationAll (request : QueryAllProposedCertificateRevocationRequest.t)
    : result QueryAllProposedCertificateRevocationResponse.t :=
  w ← QueryAllProposedCertificateRevocationRequest.encode request create;
  data ← rpc "zigbeealliance.distributedcomplianceledger.pki.Query" "ProposedCertificateRevocationAll" (finish w);
  decode_bytes QueryAllProposedCertificateRevocationResponse.decode data.

Definition RevokedCertificates (request : QueryGetRevokedCertificatesRequest.t)
    : result QueryGetRevokedCertificatesResponse.t :=
  data ← rpc "zigbeealliance.distributedcomplianceledger.pki.Query" "RevokedCertificates"
    (finish (QueryGetRevokedCertificatesRequest.encode request create));
  decode_bytes QueryGetRevokedCertificatesResponse.decode data.

Definition RevokedCertificatesAll (request : QueryAllRevokedCertificatesRequest.t)
    : result QueryAllRevokedCertificatesResponse.t :=
  w ← QueryAllRevokedCertificatesRequest.encode request create;
  data ← rpc "zigbeealliance.distributedcomplianceledger.pki.Query" "RevokedCertificatesAll" (finish w);
  decode_bytes QueryAllRevokedCertificatesResponse.decode data.

Definition ApprovedRootCertificates (request : QueryGetApprovedRootCertificatesRequest.t)
    : result QueryGetApprovedRootCertificatesResponse.t :=
  data ← rpc "zigbeealliance.distributedcomplianceledger.pki.Query" "ApprovedRootCertificates"
    (finish (QueryGetApprovedRootCertificatesRequest.encode request create));
  decode_bytes QueryGetApprovedRootCertificatesResponse.decode data.

Definition RevokedRootCertificates (request : QueryGetRevokedRootCertificatesRequest.t)
    : result QueryGetRevokedRootCertificatesResponse.t :=
  data ← rpc "zigbeealliance.distributedcomplianceledger.pki.Query" "RevokedRootCertificates"
    (finish (QueryGetRevokedRootCertificatesRequest.encode request create));
  decode_bytes QueryGetRevokedRootCertificatesResponse.decode data.

Definition ApprovedCertificatesBySubject (request : QueryGetApprovedCertificatesBySubjectRequest.t)
    : result QueryGetApprovedCertificatesBySubjectResponse.t :=
  data ← rpc "zigbeealliance.distributedcomplianceledger.pki.Query" "ApprovedCertificatesBySubject"
    (finish (QueryGetApprovedCertificatesBySubjectRequest.encode request create));
  decode_bytes QueryGetApprovedCertificatesBySubjectResponse.decode data.

Definition RejectedCertificate (request : QueryGetRejectedCertificatesRequest.t)
    : result QueryGetRejectedCertificatesResponse.t :=
  data ← rpc "zigbeealliance.distributedcomplianceledger.pki.Query" "RejectedCertificate"
    (finish (QueryGetRejectedCertificatesRequest.encode request create));
  decode_bytes QueryGetRejectedCertificatesResponse.decode data.

Definition RejectedCertificateAll (request : QueryAllRejectedCertificatesRequest.t)
    : result QueryAllRejectedCertificatesResponse.t :=
  w ← QueryAllRejectedCertificatesRequest.encode request create;
  data ← rpc "zigbeealliance.distributedcomplianceledger.pki.Query" "RejectedCertificateAll" (finish w);
  decode_bytes QueryAllRejectedCertificatesResponse.decode data.

End client.
End QueryClientImpl.

(** ** The message types of this file *)

Definition messages {PB : Protobuf} {PS : ProtobufSpec PB} : list message_type :=
  [ QueryGetApprovedCertificatesRequest.message; QueryGetApprovedCertificatesResponse.message;
   QueryAllApprovedCertificatesRequest.message; QueryAllApprovedCertificatesResponse.message;
   QueryGetProposedCertificateRequest.message; QueryGetProposedCertificateResponse.message;
   QueryAllProposedCertificateRequest.message; QueryAllProposedCertificateResponse.message;
   QueryGetChildCertificatesRequest.message; QueryGetChildCertificatesResponse.message;
   QueryGetProposedCertificateRevocationRequest.message;
   QueryGetProposedCertificateRevocationResponse.message;
   QueryAllProposedCertificateRevocationRequest.message;
   QueryAllProposedCertificateRevocationResponse.message;
   QueryGetRevokedCertificatesRequest.message; QueryGetRevokedCertificatesResponse.message;
   QueryAllRevokedCertificatesRequest.message; QueryAllRevokedCertificatesResponse.message;
   QueryGetApprovedRootCertificatesRequest.message;
   QueryGetApprovedRootCertificatesResponse.message;
   QueryGetRevokedRootCertificatesRequest.message;
   QueryGetRevokedRootCertificatesResponse.message;
   QueryGetApprovedCertificatesBySubjectRequest.message;
   QueryGetApprovedCertificatesBySubjectResponse.message;
   QueryGetRejectedCertificatesRequest.message; QueryGetRejectedCertificatesResponse.message;
   QueryAllRejectedCertificatesRequest.message; QueryAllRejectedCertificatesResponse.message;
   GenesisState.message].

Lemma PkiQuery_lawful {PB : Protobuf} {PS : ProtobufSpec PB} : Forall Lawful messages.
Proof. solve_table. Qed.

(** The methods of [QueryClientImpl]. *)
Definition query_methods {PB : Protobuf} {PS : ProtobufSpec PB} : list rpc_method :=
  [mkMethod "zigbeealliance.distributedcomplianceledger.pki.Query" "ApprovedCertificates"
     QueryGetApprovedCertificatesRequest.message QueryGetApprovedCertificatesResponse.message
     (fun rpc => QueryClientImpl.ApprovedCertificates rpc);
   mkMethod "zigbeealliance.distributedcomplianceledger.pki.Query" "ApprovedCertificatesAll"
     QueryAllApprovedCertificatesRequest.message QueryAllApprovedCertificatesResponse.message
     (fun rpc => QueryClientImpl.ApprovedCertificatesAll rpc);
   mkMethod "zigbeealliance.distributedcomplianceledger.pki.Query" "ProposedCertificate"
     QueryGetProposedCertificateRequest.message QueryGetProposedCertificateResponse.message
     (fun rpc => QueryClientImpl.ProposedCertificate rpc);
   mkMethod "zigbeealliance.distributedcomplianceledger.pki.Query" "ProposedCertificateAll"
     QueryAllProposedCertificateRequest.message QueryAllProposedCertificateResponse.message
     (fun rpc => QueryClientImpl.ProposedCertificateAll rpc);
   mkMethod "zigbeealliance.distributedcomplianceledger.pki.Query" "ChildCertificates"
     QueryGetChildCertificatesRequest.message QueryGetChildCertificatesResponse.message
     (fun rpc => QueryClientImpl.ChildCertificates rpc);
   mkMethod "zigbeealliance.distributedcomplianceledger.pki.Query" "ProposedCertificateRevocation"
     QueryGetProposedCertificateRevocationRequest.message QueryGetProposedCertificateRevocationResponse.message
     (fun rpc => QueryClientImpl.ProposedCertificateRevocation rpc);
   mkMethod "zigbeealliance.distributedcomplianceledger.pki.Query" "ProposedCertificateRevocationAll"
     QueryAllProposedCertificateRevocationRequest.message QueryAllProposedCertificateRevocationResponse.message
     (fun rpc => QueryClientImpl.ProposedCertificateRevocationAll rpc);
   mkMethod "zigbeealliance.distributedcomplianceledger.pki.Query" "RevokedCertificates"
     QueryGetRevokedCertificatesRequest.message QueryGetRevokedCertificatesResponse.message
     (fun rpc => QueryClientImpl.RevokedCertificates rpc);
   mkMethod "zigbeealliance.distributedcomplianceledger.pki.Query" "RevokedCertificatesAll"
     QueryAllRevokedCertificatesRequest.message QueryAllRevokedCertificatesResponse.message
     (fun rpc => QueryClientImpl.RevokedCertificatesAll rpc);
   mkMethod "zigbeealliance.distributedcomplianceledger.pki.Query" "ApprovedRootCertificates"
     QueryGetApprovedRootCertificatesRequest.message QueryGetApprovedRootCertificatesResponse.message
     (fun rpc => QueryClientImpl.ApprovedRootCertificates rpc);
   mkMethod "zigbeealliance.distributedcomplianceledger.pki.Query" "RevokedRootCertificates"
     QueryGetRevokedRootCertificatesRequest.message QueryGetRevokedRootCertificatesResponse.message
     (fun rpc => QueryClientImpl.RevokedRootCertificates rpc);
   mkMethod "zigbeealliance.distributedcomplianceledger.pki.Query" "ApprovedCertificatesBySubject"
     QueryGetApprovedCertificatesBySubjectRequest.message QueryGetApprovedCertificatesBySubjectResponse.message
     (fun rpc => QueryClientImpl.ApprovedCertificatesBySubject rpc);
   mkMethod "zigbeealliance.distributedcomplianceledger.pki.Query" "RejectedCertificate"
     QueryGetRejectedCertificatesRequest.message QueryGetRejectedCertificatesResponse.message
     (fun rpc => QueryClientImpl.RejectedCertificate rpc);
   mkMethod "zigbeealliance.distributedcomplianceledger.pki.Query" "RejectedCertificateAll"
     QueryAllRejectedCertificatesRequest.message QueryAllRejectedCertificatesResponse.message
     (fun rpc => QueryClientImpl.RejectedCertificateAll rpc)].

Lemma PkiQuery_query_methods_lawful {PB : Protobuf} {PS : ProtobufSpec PB} : Forall method_lawful query_methods.
Proof. solve_methods. Qed.
