(* ===== verification/PkiCodec.v ===== *)
(** * Times outside the safe integers

    A grant holds the time it was made as a 64-bit integer, which
    [longToNumber] turns into a number: what [Grant.decode] does with the times
    a number cannot hold exactly. *)
From S2P Require Import Prelude Js Protobuf Codec WireFormat PkiTypes.
Open Scope Z_scope.

Section pki.
Context {PB : Protobuf} {PS : ProtobufSpec PB}.

(** C36: a grant time above [Number.MAX_SAFE_INTEGER] makes [Grant.decode]
    throw, wherever it stands in the message. *)
Theorem Grant_time_overflow m n post :
  Grant.encodable m → MAX_SAFE_INTEGER < n < 2 ^ 63 →
  decode_bytes Grant.decode (Grant.wire m ++ f_value 16 (e_int64 n) ++ post) =
    Err (Error "Value is larger than Number.MAX_SAFE_INTEGER").
Proof.
  intros [Hv Hs] Hn. eapply (decode_bytes_throws Grant.decode_field).
  - exact (decode_base (T := Grant.t) m Hv Hs).
  - apply f_value_pos.
  - intros pre. unfold MAX_SAFE_INTEGER in Hn.
    eapply turn_number_throws; [lia|lia|reflexivity|].
    rewrite longToNumber_spec, slong_value by lia.
    by destruct (Z.gtb_spec n MAX_SAFE_INTEGER); [|unfold MAX_SAFE_INTEGER in *; lia].
Qed.

(** There is no such check below: a time under [-MAX_SAFE_INTEGER] is
    rounded to the nearest double without an error. *)
Theorem Grant_time_underflow n :
  - 2 ^ 63 <= n < - MAX_SAFE_INTEGER →
  decode_bytes Grant.decode (f_value 16 (e_int64 n)) =
    Ok (Grant.mk "" (Int (round_double n)) "").
Proof.
  intros Hn. apply (decode_bytes_steps Grant.decode_field).
  apply steps_field; [lia|]. eapply reads_bind; [|reflexivity].
  apply reads_long; [unfold MAX_SAFE_INTEGER in *; lia|].
  rewrite longToNumber_spec, slong_value by (unfold MAX_SAFE_INTEGER in *; lia).
  destruct (Z.gtb_spec n MAX_SAFE_INTEGER); [unfold MAX_SAFE_INTEGER in *; lia|done].
Qed.

End pki.

(** ** Witnesses *)

Definition sample_grant : Grant.t := Grant.mk "cosmos1trustee" 1650000000 "ok".

Lemma sample_grant_encodable : Grant.encodable sample_grant.
Proof. split; [vm_compute; split; [split; intros [=]|reflexivity]|reflexivity]. Defined.

Lemma Grant_time_overflow_witness :
  decode_bytes Grant.decode (Grant.wire sample_grant ++ f_value 16 (e_int64 (2 ^ 53)) ++ []) =
    Err (Error "Value is larger than Number.MAX_SAFE_INTEGER").
Proof.
  apply (Grant_time_overflow (PB := Wire.pb)); [apply sample_grant_encodable|].
  unfold MAX_SAFE_INTEGER. lia.
Defined.

(** The value that is read is not the one that was sent. *)
Lemma Grant_time_underflow_witness :
  decode_bytes Grant.decode (f_value 16 (e_int64 (- 2 ^ 53 - 1))) =
    Ok (Grant.mk "" (Int (- 2 ^ 53)) "").
Proof.
  apply (Grant_time_underflow (PB := Wire.pb) (- 2 ^ 53 - 1)).
  unfold MAX_SAFE_INTEGER. lia.
Defined.
