(* ===== verification/ComplianceTypes.v ===== *)
(** * The types of the compliance module

    Certification records of device software versions: the codecs of
    [compliance/module/types/compliance/*.js], in the form of [PkiTypes.v]. *)
From S2P Require Import Prelude Js Protobuf Codec Calendar Dates Base64 Fallible Proto3 MessageTable.
Open Scope Z_scope.

(** ** [ComplianceHistoryItem] (compliance/compliance_history_item.js) *)

Module ComplianceHistoryItem.

Record t := mk {
  softwareVersionCertificationStatus : number;
  date_ : string;
  reason : string;
  cDVersionNumber : number;
}.

#[global] Instance t_eta : Settable t := λ m, mk m.(softwareVersionCertificationStatus)
  m.(date_) m.(reason) m.(cDVersionNumber).

Definition base : t := mk 0 "" "" 0.

Definition encode {PB : Protobuf} (message : t) (writer : Writer) : Writer :=
  writer
  @> when (num_neq message.(softwareVersionCertificationStatus) 0)
       (fun w => w @> uint32 8 @> uint32 message.(softwareVersionCertificationStatus))
  @> when (str_neq message.(date_) "") (fun w => w @> uint32 18 @> string_ message.(date_))
  @> when (str_neq message.(reason) "") (fun w => w @> uint32 26 @> string_ message.(reason))
  @> when (num_neq message.(cDVersionNumber) 0)
       (fun w => w @> uint32 32 @> uint32 message.(cDVersionNumber)).

Definition decode_field {PB : Protobuf} (tag : Z) (message : t) : RM t :=
  match field_number tag with
  | 1 => v ← read_uint32; mret (message <| softwareVersionCertificationStatus := Int v |>)
  | 2 => v ← read_string; mret (message <| date_ := v |>)
  | 3 => v ← read_string; mret (message <| reason := v |>)
  | 4 => v ← read_uint32; mret (message <| cDVersionNumber := Int v |>)
  | _ => _ ← skipType (wire_type tag); mret message
  end.

Definition decode {PB : Protobuf} (length : option Z) : RM t :=
  decode_message length base decode_field.

Definition fromJSON (object : js) : result t :=
  softwareVersionCertificationStatus' ← field_or object "softwareVersionCertificationStatus" js_Number 0;
  date_' ← field_or object "date" to_string "";
  reason' ← field_or object "reason" to_string "";
  cDVersionNumber' ← field_or object "cDVersionNumber" js_Number 0;
  Ok (mk softwareVersionCertificationStatus' date_' reason' cDVersionNumber').

Definition toJSON (message : t) : js :=
  Obj ([("softwareVersionCertificationStatus", Num message.(softwareVersionCertificationStatus));
    ("date", Str message.(date_));
    ("reason", Str message.(reason));
    ("cDVersionNumber", Num message.(cDVersionNumber))]).

Record partial := mkPartial {
  p_softwareVersionCertificationStatus : option number;
  p_date : option string;
  p_reason : option string;
  p_cDVersionNumber : option number;
}.

Definition fromPartial (object : partial) : t := {|
  softwareVersionCertificationStatus := object.(p_softwareVersionCertificationStatus) ?? Int 0;
  date_ := object.(p_date) ?? "";
  reason := object.(p_reason) ?? "";
  cDVersionNumber := object.(p_cDVersionNumber) ?? Int 0;
|}.

(** The object with no property given. *)
Definition nothing : partial := mkPartial None None None None.

(** The bytes [encode] writes. *)
Definition wire {PB : Protobuf} {PS : ProtobufSpec PB} (m : t) : bytes :=
  f_number e_uint32 8 m.(softwareVersionCertificationStatus) ++
  f_string 18 m.(date_) ++
  f_string 26 m.(reason) ++
  f_number e_uint32 32 m.(cDVersionNumber).

Definition valid (m : t) : Prop :=
  uint32_ok m.(softwareVersionCertificationStatus) ∧ uint32_ok m.(cDVersionNumber).

Definition encodable {PB : Protobuf} {PS : ProtobufSpec PB} (m : t) : Prop :=
  valid m ∧ small (wire m).

Definition merge (m a : t) : t := {|
  softwareVersionCertificationStatus := later_number m.(softwareVersionCertificationStatus) a.(softwareVersionCertificationStatus);
  date_ := later_string m.(date_) a.(date_);
  reason := later_string m.(reason) a.(reason);
  cDVersionNumber := later_number m.(cDVersionNumber) a.(cDVersionNumber);
|}.

(** A whole message seen as a partial one. *)
Definition full (m : t) : partial := {|
  p_softwareVersionCertificationStatus := Some m.(softwareVersionCertificationStatus);
  p_date := Some m.(date_);
  p_reason := Some m.(reason);
  p_cDVersionNumber := Some m.(cDVersionNumber);
|}.

(** The message as its [.proto] file declares it. *)
Definition schema (m : t) : list field :=
  [implicit 1 (VInt Uint32 m.(softwareVersionCertificationStatus));
   implicit 2 (VString m.(date_));
   implicit 3 (VString m.(reason));
   implicit 4 (VInt Uint32 m.(cDVersionNumber))].

(** The message with its default for every property that is not kept. *)
Definition only (kept : string → bool) (m : t) : t := {|
  softwareVersionCertificationStatus := if kept "softwareVersionCertificationStatus" then m.(softwareVersionCertificationStatus) else Int 0;
  date_ := if kept "date" then m.(date_) else "";
  reason := if kept "reason" then m.(reason) else "";
  cDVersionNumber := if kept "cDVersionNumber" then m.(cDVersionNumber) else Int 0;
|}.

#[global] Instance codec {PB : Protobuf} : MessageCodec t :=
  {| msg_base := base; msg_encode := encode; msg_field := decode_field |}.

#[global] Program Instance spec {PB : Protobuf} (PS : ProtobufSpec PB) : MessageSpec PS t :=
  {| msg_wire := wire; msg_valid := valid; msg_merge := merge |}.
Next Obligation. solve_encode_wire. Qed.
Next Obligation. solve_decode_wire. Qed.
Next Obligation. solve_merge_base. Qed.
Next Obligation. intros. solve_advances decode_field. Qed.

#[global] Program Instance data : MessageData t partial :=
  {| msg_fromJSON := fromJSON; msg_toJSON := toJSON;
     msg_fromPartial := fromPartial; msg_full := full |}.
Next Obligation. solve_json fromJSON toJSON. Qed.
Next Obligation. solve_partial fromPartial full. Qed.

#[global] Instance schema_wire {PB : Protobuf} {PS : ProtobufSpec PB} : WireSchema wire schema.
Proof. solve_schema_wire wire schema. Qed.

#[global] Instance schema_merge : MergeSchema merge schema.
Proof. solve_schema_merge merge schema. Qed.

(** Its row in the table of message types. *)
Definition message {PB : Protobuf} {PS : ProtobufSpec PB} : message_type :=
  plain_message "ComplianceHistoryItem" nothing true schema only.

#[global] Instance message_lawful {PB : Protobuf} (PS : ProtobufSpec PB) : Lawful message.
Proof. solve_lawful decode_field fromJSON only. Qed.

End ComplianceHistoryItem.

(** ** [CertifiedModel] (compliance/certified_model.js) *)

Module CertifiedModel.

Record t := mk {
  vid : number;
  pid : number;
  softwareVersion : number;
  certificationType : string;
  value : bool;
}.

#[global] Instance t_eta : Settable t := λ m, mk m.(vid) m.(pid) m.(softwareVersion)
  m.(certificationType) m.(value).

Definition base : t := mk 0 0 0 "" false.

Definition encode {PB : Protobuf} (message : t) (writer : Writer) : Writer :=
  writer
  @> when (num_neq message.(vid) 0) (fun w => w @> uint32 8 @> int32 message.(vid))
  @> when (num_neq message.(pid) 0) (fun w => w @> uint32 16 @> int32 message.(pid))
  @> when (num_neq message.(softwareVersion) 0)
       (fun w => w @> uint32 24 @> uint32 message.(softwareVersion))
  @> when (str_neq message.(certificationType) "")
       (fun w => w @> uint32 34 @> string_ message.(certificationType))
  @> when (Bool.eqb message.(value) true) (fun w => w @> uint32 40 @> bool_ message.(value)).

Definition decode_field {PB : Protobuf} (tag : Z) (message : t) : RM t :=
  match field_number tag with
  | 1 => v ← read_int32; mret (message <| vid := Int v |>)
  | 2 => v ← read_int32; mret (message <| pid := Int v |>)
  | 3 => v ← read_uint32; mret (message <| softwareVersion := Int v |>)
  | 4 => v ← read_string; mret (message <| certificationType := v |>)
  | 5 => v ← read_bool; mret (message <| value := v |>)
  | _ => _ ← skipType (wire_type tag); mret message
  end.

Definition decode {PB : Protobuf} (length : option Z) : RM t :=
  decode_message length base decode_field.

Definition fromJSON (object : js) : result t :=
  vid' ← field_or object "vid" js_Number 0;
  pid' ← field_or object "pid" js_Number 0;
  softwareVersion' ← field_or object "softwareVersion" js_Number 0;
  certificationType' ← field_or object "certificationType" to_string "";
  value' ← field_or object "value" to_bool false;
  Ok (mk vid' pid' softwareVersion' certificationType' value').

Definition toJSON (message : t) : js :=
  Obj ([("vid", Num message.(vid));
    ("pid", Num message.(pid));
    ("softwareVersion", Num message.(softwareVersion));
    ("certificationType", Str message.(certificationType));
    ("value", Bool message.(value))]).

Record partial := mkPartial {
  p_vid : option number;
  p_pid : option number;
  p_softwareVersion : option number;
  p_certificationType : option string;
  p_value : option bool;
}.

Definition fromPartial (object : partial) : t := {|
  vid := object.(p_vid) ?? Int 0;
  pid := object.(p_pid) ?? Int 0;
  softwareVersion := object.(p_softwareVersion) ?? Int 0;
  certificationType := object.(p_certificationType) ?? "";
  value := object.(p_value) ?? false;
|}.

(** The object with no property given. *)
Definition nothing : partial := mkPartial None None None None None.

(** The bytes [encode] writes. *)
Definition wire {PB : Protobuf} {PS : ProtobufSpec PB} (m : t) : bytes :=
  f_number e_int32 8 m.(vid) ++
  f_number e_int32 16 m.(pid) ++
  f_number e_uint32 24 m.(softwareVersion) ++
  f_string 34 m.(certificationType) ++
  f_bool 40 m.(value).

Definition valid (m : t) : Prop :=
  int32_ok m.(vid) ∧ int32_ok m.(pid) ∧ uint32_ok m.(softwareVersion).

Definition encodable {PB : Protobuf} {PS : ProtobufSpec PB} (m : t) : Prop :=
  valid m ∧ small (wire m).

Definition merge (m a : t) : t := {|
  vid := later_number m.(vid) a.(vid);
  pid := later_number m.(pid) a.(pid);
  softwareVersion := later_number m.(softwareVersion) a.(softwareVersion);
  certificationType := later_string m.(certificationType) a.(certificationType);
  value := later_bool m.(value) a.(value);
|}.

(** A whole message seen as a partial one. *)
Definition full (m : t) : partial := {|
  p_vid := Some m.(vid);
  p_pid := Some m.(pid);
  p_softwareVersion := Some m.(softwareVersion);
  p_certificationType := Some m.(certificationType);
  p_value := Some m.(value);
|}.

(** The message as its [.proto] file declares it. *)
Definition schema (m : t) : list field :=
  [implicit 1 (VInt Int32 m.(vid));
   implicit 2 (VInt Int32 m.(pid));
   implicit 3 (VInt Uint32 m.(softwareVersion));
   implicit 4 (VString m.(certificationType));
   implicit 5 (VBool m.(value))].

(** The message with its default for every property that is not kept. *)
Definition only (kept : string → bool) (m : t) : t := {|
  vid := if kept "vid" then m.(vid) else Int 0;
  pid := if kept "pid" then m.(pid) else Int 0;
  softwareVersion := if kept "softwareVersion" then m.(softwareVersion) else Int 0;
  certificationType := if kept "certificationType" then m.(certificationType) else "";
  value := if kept "value" then m.(value) else false;
|}.

#[global] Instance codec {PB : Protobuf} : MessageCodec t :=
  {| msg_base := base; msg_encode := encode; msg_field := decode_field |}.

#[global] Program Instance spec {PB : Protobuf} (PS : ProtobufSpec PB) : MessageSpec PS t :=
  {| msg_wire := wire; msg_valid := valid; msg_merge := merge |}.
Next Obligation. solve_encode_wire. Qed.
Next Obligation. solve_decode_wire. Qed.
Next Obligation. solve_merge_base. Qed.
Next Obligation. intros. solve_advances decode_field. Qed.

#[global] Program Instance data : MessageData t partial :=
  {| msg_fromJSON := fromJSON; msg_toJSON := toJSON;
     msg_fromPartial := fromPartial; msg_full := full |}.
Next Obligation. solve_json fromJSON toJSON. Qed.
Next Obligation. solve_partial fromPartial full. Qed.

#[global] Instance schema_wire {PB : Protobuf} {PS : ProtobufSpec PB} : WireSchema wire schema.
Proof. solve_schema_wire wire schema. Qed.

#[global] Instance schema_merge : MergeSchema merge schema.
Proof. solve_schema_merge merge schema. Qed.

(** Its row in the table of message types. *)
Definition message {PB : Protobuf} {PS : ProtobufSpec PB} : message_type :=
  plain_message "CertifiedModel" nothing true schema only.

#[global] Instance message_lawful {PB : Protobuf} (PS : ProtobufSpec PB) : Lawful message.
Proof. solve_lawful decode_field fromJSON only. Qed.

End CertifiedModel.

(** ** [ProvisionalModel] (compliance/provisional_model.js) *)

Module ProvisionalModel.

Record t := mk {
  vid : number;
  pid : number;
  softwareVersion : number;
  certificationType : string;
  value : bool;
}.

#[global] Instance t_eta : Settable t := λ m, mk m.(vid) m.(pid) m.(softwareVersion)
  m.(certificationType) m.(value).

Definition base : t := mk 0 0 0 "" false.

Definition encode {PB : Protobuf} (message : t) (writer : Writer) : Writer :=
  writer
  @> when (num_neq message.(vid) 0) (fun w => w @> uint32 8 @> int32 message.(vid))
  @> when (num_neq message.(pid) 0) (fun w => w @> uint32 16 @> int32 message.(pid))
  @> when (num_neq message.(softwareVersion) 0)
       (fun w => w @> uint32 24 @> uint32 message.(softwareVersion))
  @> when (str_neq message.(certificationType) "")
       (fun w => w @> uint32 34 @> string_ message.(certificationType))
  @> when (Bool.eqb message.(value) true) (fun w => w @> uint32 40 @> bool_ message.(value)).

Definition decode_field {PB : Protobuf} (tag : Z) (message : t) : RM t :=
  match field_number tag with
  | 1 => v ← read_int32; mret (message <| vid := Int v |>)
  | 2 => v ← read_int32; mret (message <| pid := Int v |>)
  | 3 => v ← read_uint32; mret (message <| softwareVersion := Int v |>)
  | 4 => v ← read_string; mret (message <| certificationType := v |>)
  | 5 => v ← read_bool; mret (message <| value := v |>)
  | _ => _ ← skipType (wire_type tag); mret message
  end.

Definition decode {PB : Protobuf} (length : option Z) : RM t :=
  decode_message length base decode_field.

Definition fromJSON (object : js) : result t :=
  vid' ← field_or object "vid" js_Number 0;
  pid' ← field_or object "pid" js_Number 0;
  softwareVersion' ← field_or object "softwareVersion" js_Number 0;
  certificationType' ← field_or object "certificationType" to_string "";
  value' ← field_or object "value" to_bool false;
  Ok (mk vid' pid' softwareVersion' certificationType' value').

Definition toJSON (message : t) : js :=
  Obj ([("vid", Num message.(vid));
    ("pid", Num message.(pid));
    ("softwareVersion", Num message.(softwareVersion));
    ("certificationType", Str message.(certificationType));
    ("value", Bool message.(value))]).

Record partial := mkPartial {
  p_vid : option number;
  p_pid : option number;
  p_softwareVersion : option number;
  p_certificationType : option string;
  p_value : option bool;
}.

Definition fromPartial (object : partial) : t := {|
  vid := object.(p_vid) ?? Int 0;
  pid := object.(p_pid) ?? Int 0;
  softwareVersion := object.(p_softwareVersion) ?? Int 0;
  certificationType := object.(p_certificationType) ?? "";
  value := object.(p_value) ?? false;
|}.

(** The object with no property given. *)
Definition nothing : partial := mkPartial None None None None None.

(** The bytes [encode] writes. *)
Definition wire {PB : Protobuf} {PS : ProtobufSpec PB} (m : t) : bytes :=
  f_number e_int32 8 m.(vid) ++
  f_number e_int32 16 m.(pid) ++
  f_number e_uint32 24 m.(softwareVersion) ++
  f_string 34 m.(certificationType) ++
  f_bool 40 m.(value).

Definition valid (m : t) : Prop :=
  int32_ok m.(vid) ∧ int32_ok m.(pid) ∧ uint32_ok m.(softwareVersion).

Definition encodable {PB : Protobuf} {PS : ProtobufSpec PB} (m : t) : Prop :=
  valid m ∧ small (wire m).

Definition merge (m a : t) : t := {|
  vid := later_number m.(vid) a.(vid);
  pid := later_number m.(pid) a.(pid);
  softwareVersion := later_number m.(softwareVersion) a.(softwareVersion);
  certificationType := later_string m.(certificationType) a.(certificationType);
  value := later_bool m.(value) a.(value);
|}.

(** A whole message seen as a partial one. *)
Definition full (m : t) : partial := {|
  p_vid := Some m.(vid);
  p_pid := Some m.(pid);
  p_softwareVersion := Some m.(softwareVersion);
  p_certificationType := Some m.(certificationType);
  p_value := Some m.(value);
|}.

(** The message as its [.proto] file declares it. *)
Definition schema (m : t) : list field :=
  [implicit 1 (VInt Int32 m.(vid));
   implicit 2 (VInt Int32 m.(pid));
   implicit 3 (VInt Uint32 m.(softwareVersion));
   implicit 4 (VString m.(certificationType));
   implicit 5 (VBool m.(value))].

(** The message with its default for every property that is not kept. *)
Definition only (kept : string → bool) (m : t) : t := {|
  vid := if kept "vid" then m.(vid) else Int 0;
  pid := if kept "pid" then m.(pid) else Int 0;
  softwareVersion := if kept "softwareVersion" then m.(softwareVersion) else Int 0;
  certificationType := if kept "certificationType" then m.(certificationType) else "";
  value := if kept "value" then m.(value) else false;
|}.

#[global] Instance codec {PB : Protobuf} : MessageCodec t :=
  {| msg_base := base; msg_encode := encode; msg_field := decode_field |}.

#[global] Program Instance spec {PB : Protobuf} (PS : ProtobufSpec PB) : MessageSpec PS t :=
  {| msg_wire := wire; msg_valid := valid; msg_merge := merge |}.
Next Obligation. solve_encode_wire. Qed.
Next Obligation. solve_decode_wire. Qed.
Next Obligation. solve_merge_base. Qed.
Next Obligation. intros. solve_advances decode_field. Qed.

#[global] Program Instance data : MessageData t partial :=
  {| msg_fromJSON := fromJSON; msg_toJSON := toJSON;
     msg_fromPartial := fromPartial; msg_full := full |}.
Next Obligation. solve_json fromJSON toJSON. Qed.
Next Obligation. solve_partial fromPartial full. Qed.

#[global] Instance schema_wire {PB : Protobuf} {PS : ProtobufSpec PB} : WireSchema wire schema.
Proof. solve_schema_wire wire schema. Qed.

#[global] Instance schema_merge : MergeSchema merge schema.
Proof. solve_schema_merge merge schema. Qed.

(** Its row in the table of message types. *)
Definition message {PB : Protobuf} {PS : ProtobufSpec PB} : message_type :=
  plain_message "ProvisionalModel" nothing true schema only.

#[global] Instance message_lawful {PB : Protobuf} (PS : ProtobufSpec PB) : Lawful message.
Proof. solve_lawful decode_field fromJSON only. Qed.

End ProvisionalModel.

(** ** [RevokedModel] (compliance/revoked_model.js) *)

Module RevokedModel.

Record t := mk {
  vid : number;
  pid : number;
  softwareVersion : number;
  certificationType : string;
  value : bool;
}.

#[global] Instance t_eta : Settable t := λ m, mk m.(vid) m.(pid) m.(softwareVersion)
  m.(certificationType) m.(value).

Definition base : t := mk 0 0 0 "" false.

Definition encode {PB : Protobuf} (message : t) (writer : Writer) : Writer :=
  writer
  @> when (num_neq message.(vid) 0) (fun w => w @> uint32 8 @> int32 message.(vid))
  @> when (num_neq message.(pid) 0) (fun w => w @> uint32 16 @> int32 message.(pid))
  @> when (num_neq message.(softwareVersion) 0)
       (fun w => w @> uint32 24 @> uint32 message.(softwareVersion))
  @> when (str_neq message.(certificationType) "")
       (fun w => w @> uint32 34 @> string_ message.(certificationType))
  @> when (Bool.eqb message.(value) true) (fun w => w @> uint32 40 @> bool_ message.(value)).

Definition decode_field {PB : Protobuf} (tag : Z) (message : t) : RM t :=
  match field_number tag with
  | 1 => v ← read_int32; mret (message <| vid := Int v |>)
  | 2 => v ← read_int32; mret (message <| pid := Int v |>)
  | 3 => v ← read_uint32; mret (message <| softwareVersion := Int v |>)
  | 4 => v ← read_string; mret (message <| certificationType := v |>)
  | 5 => v ← read_bool; mret (message <| value := v |>)
  | _ => _ ← skipType (wire_type tag); mret message
  end.

Definition decode {PB : Protobuf} (length : option Z) : RM t :=
  decode_message length base decode_field.

Definition fromJSON (object : js) : result t :=
  vid' ← field_or object "vid" js_Number 0;
  pid' ← field_or object "pid" js_Number 0;
  softwareVersion' ← field_or object "softwareVersion" js_Number 0;
  certificationType' ← field_or object "certificationType" to_string "";
  value' ← field_or object "value" to_bool false;
  Ok (mk vid' pid' softwareVersion' certificationType' value').

Definition toJSON (message : t) : js :=
  Obj ([("vid", Num message.(vid));
    ("pid", Num message.(pid));
    ("softwareVersion", Num message.(softwareVersion));
    ("certificationType", Str message.(certificationType));
    ("value", Bool message.(value))]).

Record partial := mkPartial {
  p_vid : option number;
  p_pid : option number;
  p_softwareVersion : option number;
  p_certificationType : option string;
  p_value : option bool;
}.

Definition fromPartial (object : partial) : t := {|
  vid := object.(p_vid) ?? Int 0;
  pid := object.(p_pid) ?? Int 0;
  softwareVersion := object.(p_softwareVersion) ?? Int 0;
  certificationType := object.(p_certificationType) ?? "";
  value := object.(p_value) ?? false;
|}.

(** The object with no property given. *)
Definition nothing : partial := mkPartial None None None None None.

(** The bytes [encode] writes. *)
Definition wire {PB : Protobuf} {PS : ProtobufSpec PB} (m : t) : bytes :=
  f_number e_int32 8 m.(vid) ++
  f_number e_int32 16 m.(pid) ++
  f_number e_uint32 24 m.(softwareVersion) ++
  f_string 34 m.(certificationType) ++
  f_bool 40 m.(value).

Definition valid (m : t) : Prop :=
  int32_ok m.(vid) ∧ int32_ok m.(pid) ∧ uint32_ok m.(softwareVersion).

Definition encodable {PB : Protobuf} {PS : ProtobufSpec PB} (m : t) : Prop :=
  valid m ∧ small (wire m).

Definition merge (m a : t) : t := {|
  vid := later_number m.(vid) a.(vid);
  pid := later_number m.(pid) a.(pid);
  softwareVersion := later_number m.(softwareVersion) a.(softwareVersion);
  certificationType := later_string m.(certificationType) a.(certificationType);
  value := later_bool m.(value) a.(value);
|}.

(** A whole message seen as a partial one. *)
Definition full (m : t) : partial := {|
  p_vid := Some m.(vid);
  p_pid := Some m.(pid);
  p_softwareVersion := Some m.(softwareVersion);
  p_certificationType := Some m.(certificationType);
  p_value := Some m.(value);
|}.

(** The message as its [.proto] file declares it. *)
Definition schema (m : t) : list field :=
  [implicit 1 (VInt Int32 m.(vid));
   implicit 2 (VInt Int32 m.(pid));
   implicit 3 (VInt Uint32 m.(softwareVersion));
   implicit 4 (VString m.(certificationType));
   implicit 5 (VBool m.(value))].

(** The message with its default for every property that is not kept. *)
Definition only (kept : string → bool) (m : t) : t := {|
  vid := if kept "vid" then m.(vid) else Int 0;
  pid := if kept "pid" then m.(pid) else Int 0;
  softwareVersion := if kept "softwareVersion" then m.(softwareVersion) else Int 0;
  certificationType := if kept "certificationType" then m.(certificationType) else "";
  value := if kept "value" then m.(value) else false;
|}.

#[global] Instance codec {PB : Protobuf} : MessageCodec t :=
  {| msg_base := base; msg_encode := encode; msg_field := decode_field |}.

#[global] Program Instance spec {PB : Protobuf} (PS : ProtobufSpec PB) : MessageSpec PS t :=
  {| msg_wire := wire; msg_valid := valid; msg_merge := merge |}.
Next Obligation. solve_encode_wire. Qed.
Next Obligation. solve_decode_wire. Qed.
Next Obligation. solve_merge_base. Qed.
Next Obligation. intros. solve_advances decode_field. Qed.

#[global] Program Instance data : MessageData t partial :=
  {| msg_fromJSON := fromJSON; msg_toJSON := toJSON;
     msg_fromPartial := fromPartial; msg_full := full |}.
Next Obligation. solve_json fromJSON toJSON. Qed.
Next Obligation. solve_partial fromPartial full. Qed.

#[global] Instance schema_wire {PB : Protobuf} {PS : ProtobufSpec PB} : WireSchema wire schema.
Proof. solve_schema_wire wire schema. Qed.

#[global] Instance schema_merge : MergeSchema merge schema.
Proof. solve_schema_merge merge schema. Qed.

(** Its row in the table of message types. *)
Definition message {PB : Protobuf} {PS : ProtobufSpec PB} : message_type :=
  plain_message "RevokedModel" nothing true schema only.

#[global] Instance message_lawful {PB : Protobuf} (PS : ProtobufSpec PB) : Lawful message.
Proof. solve_lawful decode_field fromJSON only. Qed.

End RevokedModel.

(** ** [ComplianceInfo] (compliance/compliance_info.js) *)

Module ComplianceInfo.

Record t := mk {
  vid : number;
  pid : number;
  softwareVersion : number;
  certificationType : string;
  softwareVersionString : string;
  cDVersionNumber : number;
  softwareVersionCertificationStatus : number;
  date_ : string;
  reason : string;
  owner : string;
  history : list ComplianceHistoryItem.t;
  cDCertificateId : string;
  certificationRoute : string;
  programType : string;
  programTypeVersion : string;
  compliantPlatformUsed : string;
  compliantPlatformVersion : string;
  transport : string;
  familyId : string;
  supportedClusters : string;
  OSVersion : string;
  parentChild : string;
}.

#[global] Instance t_eta : Settable t := λ m, mk m.(vid) m.(pid) m.(softwareVersion)
  m.(certificationType) m.(softwareVersionString) m.(cDVersionNumber)
  m.(softwareVersionCertificationStatus) m.(date_) m.(reason) m.(owner) m.(history)
  m.(cDCertificateId) m.(certificationRoute) m.(programType) m.(programTypeVersion)
  m.(compliantPlatformUsed) m.(compliantPlatformVersion) m.(transport) m.(familyId)
  m.(supportedClusters) m.(OSVersion) m.(parentChild).

Definition base : t := mk 0 0 0 "" "" 0 0 "" "" "" [] "" "" "" "" "" "" "" "" "" "" "".

Definition encode {PB : Protobuf} (message : t) (writer : Writer) : Writer :=
  writer
  @> when (num_neq message.(vid) 0) (fun w => w @> uint32 8 @> int32 message.(vid))
  @> when (num_neq message.(pid) 0) (fun w => w @> uint32 16 @> int32 message.(pid))
  @> when (num_neq message.(softwareVersion) 0)
       (fun w => w @> uint32 24 @> uint32 message.(softwareVersion))
  @> when (str_neq message.(certificationType) "")
       (fun w => w @> uint32 34 @> string_ message.(certificationType))
  @> when (str_neq message.(softwareVersionString) "")
       (fun w => w @> uint32 42 @> string_ message.(softwareVersionString))
  @> when (num_neq message.(cDVersionNumber) 0)
       (fun w => w @> uint32 48 @> uint32 message.(cDVersionNumber))
  @> when (num_neq message.(softwareVersionCertificationStatus) 0)
       (fun w => w @> uint32 56 @> uint32 message.(softwareVersionCertificationStatus))
  @> when (str_neq message.(date_) "") (fun w => w @> uint32 66 @> string_ message.(date_))
  @> when (str_neq message.(reason) "") (fun w => w @> uint32 74 @> string_ message.(reason))
  @> when (str_neq message.(owner) "") (fun w => w @> uint32 82 @> string_ message.(owner))
  @> each message.(history) (fun v w => w @> uint32 90 @> fork @> ComplianceHistoryItem.encode v @> ldelim)
  @> when (str_neq message.(cDCertificateId) "")
       (fun w => w @> uint32 98 @> string_ message.(cDCertificateId))
  @> when (str_neq message.(certificationRoute) "")
       (fun w => w @> uint32 106 @> string_ message.(certificationRoute))
  @> when (str_neq message.(programType) "")
       (fun w => w @> uint32 114 @> string_ message.(programType))
  @> when (str_neq message.(programTypeVersion) "")
       (fun w => w @> uint32 122 @> string_ message.(programTypeVersion))
  @> when (str_neq message.(compliantPlatformUsed) "")
       (fun w => w @> uint32 130 @> string_ message.(compliantPlatformUsed))
  @> when (str_neq message.(compliantPlatformVersion) "")
       (fun w => w @> uint32 138 @> string_ message.(compliantPlatformVersion))
  @> when (str_neq message.(transport) "") (fun w => w @> uint32 146 @> string_ message.(transport))
  @> when (str_neq message.(familyId) "") (fun w => w @> uint32 154 @> string_ message.(familyId))
  @> when (str_neq message.(supportedClusters) "")
       (fun w => w @> uint32 162 @> string_ message.(supportedClusters))
  @> when (str_neq message.(OSVersion) "") (fun w => w @> uint32 170 @> string_ message.(OSVersion))
  @> when (str_neq message.(parentChild) "")
       (fun w => w @> uint32 178 @> string_ message.(parentChild)).

Definition decode_field {PB : Protobuf} (tag : Z) (message : t) : RM t :=
  match field_number tag with
  | 1 => v ← read_int32; mret (message <| vid := Int v |>)
  | 2 => v ← read_int32; mret (message <| pid := Int v |>)
  | 3 => v ← read_uint32; mret (message <| softwareVersion := Int v |>)
  | 4 => v ← read_string; mret (message <| certificationType := v |>)
  | 5 => v ← read_string; mret (message <| softwareVersionString := v |>)
  | 6 => v ← read_uint32; mret (message <| cDVersionNumber := Int v |>)
  | 7 => v ← read_uint32; mret (message <| softwareVersionCertificationStatus := Int v |>)
  | 8 => v ← read_string; mret (message <| date_ := v |>)
  | 9 => v ← read_string; mret (message <| reason := v |>)
  | 10 => v ← read_string; mret (message <| owner := v |>)
  | 11 => v ← read_nested ComplianceHistoryItem.decode;
         mret (message <| history := message.(history) ++ [v] |>)
  | 12 => v ← read_string; mret (message <| cDCertificateId := v |>)
  | 13 => v ← read_string; mret (message <| certificationRoute := v |>)
  | 14 => v ← read_string; mret (message <| programType := v |>)
  | 15 => v ← read_string; mret (message <| programTypeVersion := v |>)
  | 16 => v ← read_string; mret (message <| compliantPlatformUsed := v |>)
  | 17 => v ← read_string; mret (message <| compliantPlatformVersion := v |>)
  | 18 => v ← read_string; mret (message <| transport := v |>)
  | 19 => v ← read_string; mret (message <| familyId := v |>)
  | 20 => v ← read_string; mret (message <| supportedClusters := v |>)
  | 21 => v ← read_string; mret (message <| OSVersion := v |>)
  | 22 => v ← read_string; mret (message <| parentChild := v |>)
  | _ => _ ← skipType (wire_type tag); mret message
  end.

Definition decode {PB : Protobuf} (length : option Z) : RM t :=
  decode_message length base decode_field.

Definition fromJSON (object : js) : result t :=
  vid' ← field_or object "vid" js_Number 0;
  pid' ← field_or object "pid" js_Number 0;
  softwareVersion' ← field_or object "softwareVersion" js_Number 0;
  certificationType' ← field_or object "certificationType" to_string "";
  softwareVersionString' ← field_or object "softwareVersionString" to_string "";
  cDVersionNumber' ← field_or object "cDVersionNumber" js_Number 0;
  softwareVersionCertificationStatus' ← field_or object "softwareVersionCertificationStatus" js_Number 0;
  date_' ← field_or object "date" to_string "";
  reason' ← field_or object "reason" to_string "";
  owner' ← field_or object "owner" to_string "";
  history' ← field_or object "history" (to_list ComplianceHistoryItem.fromJSON) [];
  cDCertificateId' ← field_or object "cDCertificateId" to_string "";
  certificationRoute' ← field_or object "certificationRoute" to_string "";
  programType' ← field_or object "programType" to_string "";
  programTypeVersion' ← field_or object "programTypeVersion" to_string "";
  compliantPlatformUsed' ← field_or object "compliantPlatformUsed" to_string "";
  compliantPlatformVersion' ← field_or object "compliantPlatformVersion" to_string "";
  transport' ← field_or object "transport" to_string "";
  familyId' ← field_or object "familyId" to_string "";
  supportedClusters' ← field_or object "supportedClusters" to_string "";
  OSVersion' ← field_or object "OSVersion" to_string "";
  parentChild' ← field_or object "parentChild" to_string "";
  Ok (mk vid' pid' softwareVersion' certificationType' softwareVersionString' cDVersionNumber'
    softwareVersionCertificationStatus' date_' reason' owner' history' cDCertificateId'
    certificationRoute' programType' programTypeVersion' compliantPlatformUsed'
    compliantPlatformVersion' transport' familyId' supportedClusters' OSVersion' parentChild').

Definition toJSON (message : t) : js :=
  Obj ([("vid", Num message.(vid));
    ("pid", Num message.(pid));
    ("softwareVersion", Num message.(softwareVersion));
    ("certificationType", Str message.(certificationType));
    ("softwareVersionString", Str message.(softwareVersionString));
    ("cDVersionNumber", Num message.(cDVersionNumber));
    ("softwareVersionCertificationStatus", Num message.(softwareVersionCertificationStatus));
    ("date", Str message.(date_));
    ("reason", Str message.(reason));
    ("owner", Str message.(owner));
    ("history", Arr (map ComplianceHistoryItem.toJSON message.(history)));
    ("cDCertificateId", Str message.(cDCertificateId));
    ("certificationRoute", Str message.(certificationRoute));
    ("programType", Str message.(programType));
    ("programTypeVersion", Str message.(programTypeVersion));
    ("compliantPlatformUsed", Str message.(compliantPlatformUsed));
    ("compliantPlatformVersion", Str message.(compliantPlatformVersion));
    ("transport", Str message.(transport));
    ("familyId", Str message.(familyId));
    ("supportedClusters", Str message.(supportedClusters));
    ("OSVersion", Str message.(OSVersion));
    ("parentChild", Str message.(parentChild))]).

Record partial := mkPartial {
  p_vid : option number;
  p_pid : option number;
  p_softwareVersion : option number;
  p_certificationType : option string;
  p_softwareVersionString : option string;
  p_cDVersionNumber : option number;
  p_softwareVersionCertificationStatus : option number;
  p_date : option string;
  p_reason : option string;
  p_owner : option string;
  p_history : option (list ComplianceHistoryItem.partial);
  p_cDCertificateId : option string;
  p_certificationRoute : option string;
  p_programType : option string;
  p_programTypeVersion : option string;
  p_compliantPlatformUsed : option string;
  p_compliantPlatformVersion : option string;
  p_transport : option string;
  p_familyId : option string;
  p_supportedClusters : option string;
  p_OSVersion : option string;
  p_parentChild : option string;
}.

Definition fromPartial (object : partial) : t := {|
  vid := object.(p_vid) ?? Int 0;
  pid := object.(p_pid) ?? Int 0;
  softwareVersion := object.(p_softwareVersion) ?? Int 0;
  certificationType := object.(p_certificationType) ?? "";
  softwareVersionString := object.(p_softwareVersionString) ?? "";
  cDVersionNumber := object.(p_cDVersionNumber) ?? Int 0;
  softwareVersionCertificationStatus := object.(p_softwareVersionCertificationStatus) ?? Int 0;
  date_ := object.(p_date) ?? "";
  reason := object.(p_reason) ?? "";
  owner := object.(p_owner) ?? "";
  history := map ComplianceHistoryItem.fromPartial (object.(p_history) ?? []);
  cDCertificateId := object.(p_cDCertificateId) ?? "";
  certificationRoute := object.(p_certificationRoute) ?? "";
  programType := object.(p_programType) ?? "";
  programTypeVersion := object.(p_programTypeVersion) ?? "";
  compliantPlatformUsed := object.(p_compliantPlatformUsed) ?? "";
  compliantPlatformVersion := object.(p_compliantPlatformVersion) ?? "";
  transport := object.(p_transport) ?? "";
  familyId := object.(p_familyId) ?? "";
  supportedClusters := object.(p_supportedClusters) ?? "";
  OSVersion := object.(p_OSVersion) ?? "";
  parentChild := object.(p_parentChild) ?? "";
|}.

(** The object with no property given. *)
Definition nothing : partial := mkPartial None None None None None None None None None None None
  None None None None None None None None None None None.

(** The bytes [encode] writes. *)
Definition wire {PB : Protobuf} {PS : ProtobufSpec PB} (m : t) : bytes :=
  f_number e_int32 8 m.(vid) ++
  f_number e_int32 16 m.(pid) ++
  f_number e_uint32 24 m.(softwareVersion) ++
  f_string 34 m.(certificationType) ++
  f_string 42 m.(softwareVersionString) ++
  f_number e_uint32 48 m.(cDVersionNumber) ++
  f_number e_uint32 56 m.(softwareVersionCertificationStatus) ++
  f_string 66 m.(date_) ++
  f_string 74 m.(reason) ++
  f_string 82 m.(owner) ++
  f_repeated 90 ComplianceHistoryItem.wire m.(history) ++
  f_string 98 m.(cDCertificateId) ++
  f_string 106 m.(certificationRoute) ++
  f_string 114 m.(programType) ++
  f_string 122 m.(programTypeVersion) ++
  f_string 130 m.(compliantPlatformUsed) ++
  f_string 138 m.(compliantPlatformVersion) ++
  f_string 146 m.(transport) ++
  f_string 154 m.(familyId) ++
  f_string 162 m.(supportedClusters) ++
  f_string 170 m.(OSVersion) ++
  f_string 178 m.(parentChild).

Definition valid (m : t) : Prop :=
  int32_ok m.(vid) ∧ int32_ok m.(pid) ∧ uint32_ok m.(softwareVersion) ∧ uint32_ok m.(cDVersionNumber) ∧ uint32_ok m.(softwareVersionCertificationStatus) ∧ Forall ComplianceHistoryItem.valid m.(history).

Definition encodable {PB : Protobuf} {PS : ProtobufSpec PB} (m : t) : Prop :=
  valid m ∧ small (wire m).

Definition merge (m a : t) : t := {|
  vid := later_number m.(vid) a.(vid);
  pid := later_number m.(pid) a.(pid);
  softwareVersion := later_number m.(softwareVersion) a.(softwareVersion);
  certificationType := later_string m.(certificationType) a.(certificationType);
  softwareVersionString := later_string m.(softwareVersionString) a.(softwareVersionString);
  cDVersionNumber := later_number m.(cDVersionNumber) a.(cDVersionNumber);
  softwareVersionCertificationStatus := later_number m.(softwareVersionCertificationStatus) a.(softwareVersionCertificationStatus);
  date_ := later_string m.(date_) a.(date_);
  reason := later_string m.(reason) a.(reason);
  owner := later_string m.(owner) a.(owner);
  history := m.(history) ++ a.(history);
  cDCertificateId := later_string m.(cDCertificateId) a.(cDCertificateId);
  certificationRoute := later_string m.(certificationRoute) a.(certificationRoute);
  programType := later_string m.(programType) a.(programType);
  programTypeVersion := later_string m.(programTypeVersion) a.(programTypeVersion);
  compliantPlatformUsed := later_string m.(compliantPlatformUsed) a.(compliantPlatformUsed);
  compliantPlatformVersion := later_string m.(compliantPlatformVersion) a.(compliantPlatformVersion);
  transport := later_string m.(transport) a.(transport);
  familyId := later_string m.(familyId) a.(familyId);
  supportedClusters := later_string m.(supportedClusters) a.(supportedClusters);
  OSVersion := later_string m.(OSVersion) a.(OSVersion);
  parentChild := later_string m.(parentChild) a.(parentChild);
|}.

(** A whole message seen as a partial one. *)
Definition full (m : t) : partial := {|
  p_vid := Some m.(vid);
  p_pid := Some m.(pid);
  p_softwareVersion := Some m.(softwareVersion);
  p_certificationType := Some m.(certificationType);
  p_softwareVersionString := Some m.(softwareVersionString);
  p_cDVersionNumber := Some m.(cDVersionNumber);
  p_softwareVersionCertificationStatus := Some m.(softwareVersionCertificationStatus);
  p_date := Some m.(date_);
  p_reason := Some m.(reason);
  p_owner := Some m.(owner);
  p_history := Some (map ComplianceHistoryItem.full m.(history));
  p_cDCertificateId := Some m.(cDCertificateId);
  p_certificationRoute := Some m.(certificationRoute);
  p_programType := Some m.(programType);
  p_programTypeVersion := Some m.(programTypeVersion);
  p_compliantPlatformUsed := Some m.(compliantPlatformUsed);
  p_compliantPlatformVersion := Some m.(compliantPlatformVersion);
  p_transport := Some m.(transport);
  p_familyId := Some m.(familyId);
  p_supportedClusters := Some m.(supportedClusters);
  p_OSVersion := Some m.(OSVersion);
  p_parentChild := Some m.(parentChild);
|}.

(** The message as its [.proto] file declares it. *)
Definition schema (m : t) : list field :=
  [implicit 1 (VInt Int32 m.(vid));
   implicit 2 (VInt Int32 m.(pid));
   implicit 3 (VInt Uint32 m.(softwareVersion));
   implicit 4 (VString m.(certificationType));
   implicit 5 (VString m.(softwareVersionString));
   implicit 6 (VInt Uint32 m.(cDVersionNumber));
   implicit 7 (VInt Uint32 m.(softwareVersionCertificationStatus));
   implicit 8 (VString m.(date_));
   implicit 9 (VString m.(reason));
   implicit 10 (VString m.(owner));
   repeated 11 (message_value ComplianceHistoryItem.schema) m.(history);
   implicit 12 (VString m.(cDCertificateId));
   implicit 13 (VString m.(certificationRoute));
   implicit 14 (VString m.(programType));
   implicit 15 (VString m.(programTypeVersion));
   implicit 16 (VString m.(compliantPlatformUsed));
   implicit 17 (VString m.(compliantPlatformVersion));
   implicit 18 (VString m.(transport));
   implicit 19 (VString m.(familyId));
   implicit 20 (VString m.(supportedClusters));
   implicit 21 (VString m.(OSVersion));
   implicit 22 (VString m.(parentChild))].

(** The message with its default for every property that is not kept. *)
Definition only (kept : string → bool) (m : t) : t := {|
  vid := if kept "vid" then m.(vid) else Int 0;
  pid := if kept "pid" then m.(pid) else Int 0;
  softwareVersion := if kept "softwareVersion" then m.(softwareVersion) else Int 0;
  certificationType := if kept "certificationType" then m.(certificationType) else "";
  softwareVersionString := if kept "softwareVersionString" then m.(softwareVersionString) else "";
  cDVersionNumber := if kept "cDVersionNumber" then m.(cDVersionNumber) else Int 0;
  softwareVersionCertificationStatus := if kept "softwareVersionCertificationStatus" then m.(softwareVersionCertificationStatus) else Int 0;
  date_ := if kept "date" then m.(date_) else "";
  reason := if kept "reason" then m.(reason) else "";
  owner := if kept "owner" then m.(owner) else "";
  history := if kept "history" then m.(history) else [];
  cDCertificateId := if kept "cDCertificateId" then m.(cDCertificateId) else "";
  certificationRoute := if kept "certificationRoute" then m.(certificationRoute) else "";
  programType := if kept "programType" then m.(programType) else "";
  programTypeVersion := if kept "programTypeVersion" then m.(programTypeVersion) else "";
  compliantPlatformUsed := if kept "compliantPlatformUsed" then m.(compliantPlatformUsed) else "";
  compliantPlatformVersion := if kept "compliantPlatformVersion" then m.(compliantPlatformVersion) else "";
  transport := if kept "transport" then m.(transport) else "";
  familyId := if kept "familyId" then m.(familyId) else "";
  supportedClusters := if kept "supportedClusters" then m.(supportedClusters) else "";
  OSVersion := if kept "OSVersion" then m.(OSVersion) else "";
  parentChild := if kept "parentChild" then m.(parentChild) else "";
|}.

#[global] Instance codec {PB : Protobuf} : MessageCodec t :=
  {| msg_base := base; msg_encode := encode; msg_field := decode_field |}.

#[global] Program Instance spec {PB : Protobuf} (PS : ProtobufSpec PB) : MessageSpec PS t :=
  {| msg_wire := wire; msg_valid := valid; msg_merge := merge |}.
Next Obligation. solve_encode_wire. Qed.
Next Obligation. solve_decode_wire. Qed.
Next Obligation. solve_merge_base. Qed.
Next Obligation. intros. solve_advances decode_field. Qed.

#[global] Program Instance data : MessageData t partial :=
  {| msg_fromJSON := fromJSON; msg_toJSON := toJSON;
     msg_fromPartial := fromPartial; msg_full := full |}.
Next Obligation. solve_json fromJSON toJSON. Qed.
Next Obligation. solve_partial fromPartial full. Qed.

#[global] Instance schema_wire {PB : Protobuf} {PS : ProtobufSpec PB} : WireSchema wire schema.
Proof. solve_schema_wire wire schema. Qed.

#[global] Instance schema_merge : MergeSchema merge schema.
Proof. solve_schema_merge merge schema. Qed.

(** Its row in the table of message types. *)
Definition message {PB : Protobuf} {PS : ProtobufSpec PB} : message_type :=
  plain_message "ComplianceInfo" nothing true schema only.

#[global] Instance message_lawful {PB : Protobuf} (PS : ProtobufSpec PB) : Lawful message.
Proof. solve_lawful decode_field fromJSON only. Qed.

End ComplianceInfo.

(** ** [DeviceSoftwareCompliance] (compliance/device_software_compliance.js) *)

Module DeviceSoftwareCompliance.

Record t := mk {
  cDCertificateId : string;
  complianceInfo : list ComplianceInfo.t;
}.

#[global] Instance t_eta : Settable t := λ m, mk m.(cDCertificateId) m.(complianceInfo).

Definition base : t := mk "" [].

Definition encode {PB : Protobuf} (message : t) (writer : Writer) : Writer :=
  writer
  @> when (str_neq message.(cDCertificateId) "")
       (fun w => w @> uint32 10 @> string_ message.(cDCertificateId))
  @> each message.(complianceInfo) (fun v w => w @> uint32 18 @> fork @> ComplianceInfo.encode v @> ldelim).

Definition decode_field {PB : Protobuf} (tag : Z) (message : t) : RM t :=
  match field_number tag with
  | 1 => v ← read_string; mret (message <| cDCertificateId := v |>)
  | 2 => v ← read_nested ComplianceInfo.decode;
         mret (message <| complianceInfo := message.(complianceInfo) ++ [v] |>)
  | _ => _ ← skipType (wire_type tag); mret message
  end.

Definition decode {PB : Protobuf} (length : option Z) : RM t :=
  decode_message length base decode_field.

Definition fromJSON (object : js) : result t :=
  cDCertificateId' ← field_or object "cDCertificateId" to_string "";
  complianceInfo' ← field_or object "complianceInfo" (to_list ComplianceInfo.fromJSON) [];
  Ok (mk cDCertificateId' complianceInfo').

Definition toJSON (message : t) : js :=
  Obj ([("cDCertificateId", Str message.(cDCertificateId));
    ("complianceInfo", Arr (map ComplianceInfo.toJSON message.(complianceInfo)))]).

Record partial := mkPartial {
  p_cDCertificateId : option string;
  p_complianceInfo : option (list ComplianceInfo.partial);
}.

Definition fromPartial (object : partial) : t := {|
  cDCertificateId := object.(p_cDCertificateId) ?? "";
  complianceInfo := map ComplianceInfo.fromPartial (object.(p_complianceInfo) ?? []);
|}.

(** The object with no property given. *)
Definition nothing : partial := mkPartial None None.

(** The bytes [encode] writes. *)
Definition wire {PB : Protobuf} {PS : ProtobufSpec PB} (m : t) : bytes :=
  f_string 10 m.(cDCertificateId) ++
  f_repeated 18 ComplianceInfo.wire m.(complianceInfo).

Definition valid (m : t) : Prop :=
  Forall ComplianceInfo.valid m.(complianceInfo).

Definition encodable {PB : Protobuf} {PS : ProtobufSpec PB} (m : t) : Prop :=
  valid m ∧ small (wire m).

Definition merge (m a : t) : t := {|
  cDCertificateId := later_string m.(cDCertificateId) a.(cDCertificateId);
  complianceInfo := m.(complianceInfo) ++ a.(complianceInfo);
|}.

(** A whole message seen as a partial one. *)
Definition full (m : t) : partial := {|
  p_cDCertificateId := Some m.(cDCertificateId);
  p_complianceInfo := Some (map ComplianceInfo.full m.(complianceInfo));
|}.

(** The message as its [.proto] file declares it. *)
Definition schema (m : t) : list field :=
  [implicit 1 (VString m.(cDCertificateId));
   repeated 2 (message_value ComplianceInfo.schema) m.(complianceInfo)].

(** The message with its default for every property that is not kept. *)
Definition only (kept : string → bool) (m : t) : t := {|
  cDCertificateId := if kept "cDCertificateId" then m.(cDCertificateId) else "";
  complianceInfo := if kept "complianceInfo" then m.(complianceInfo) else [];
|}.

#[global] Instance codec {PB : Protobuf} : MessageCodec t :=
  {| msg_base := base; msg_encode := encode; msg_field := decode_field |}.

#[global] Program Instance spec {PB : Protobuf} (PS : ProtobufSpec PB) : MessageSpec PS t :=
  {| msg_wire := wire; msg_valid := valid; msg_merge := merge |}.
Next Obligation. solve_encode_wire. Qed.
Next Obligation. solve_decode_wire. Qed.
Next Obligation. solve_merge_base. Qed.
Next Obligation. intros. solve_advances decode_field. Qed.

#[global] Program Instance data : MessageData t partial :=
  {| msg_fromJSON := fromJSON; msg_toJSON := toJSON;
     msg_fromPartial := fromPartial; msg_full := full |}.
Next Obligation. solve_json fromJSON toJSON. Qed.
Next Obligation. solve_partial fromPartial full. Qed.

#[global] Instance schema_wire {PB : Protobuf} {PS : ProtobufSpec PB} : WireSchema wire schema.
Proof. solve_schema_wire wire schema. Qed.

#[global] Instance schema_merge : MergeSchema merge schema.
Proof. solve_schema_merge merge schema. Qed.

(** Its row in the table of message types. *)
Definition message {PB : Protobuf} {PS : ProtobufSpec PB} : message_type :=
  plain_message "DeviceSoftwareCompliance" nothing true schema only.

#[global] Instance message_lawful {PB : Protobuf} (PS : ProtobufSpec PB) : Lawful message.
Proof. solve_lawful decode_field fromJSON only. Qed.

End DeviceSoftwareCompliance.

(** ** [MsgCertifyModel] (compliance/tx.js) *)

Module MsgCertifyModel.

Record t := mk {
  signer : string;
  vid : number;
  pid : number;
  softwareVersion : number;
  softwareVersionString : string;
  cDVersionNumber : number;
  certificationDate : string;
  certificationType : string;
  reason : string;
  programTypeVersion : string;
  cDCertificateId : string;
  familyId : string;
  supportedClusters : string;
  compliantPlatformUsed : string;
  compliantPlatformVersion : string;
  OSVersion : string;
  certificationRoute : string;
  programType : string;
  transport : string;
  parentChild : string;
}.

#[global] Instance t_eta : Settable t := λ m, mk m.(signer) m.(vid) m.(pid) m.(softwareVersion)
  m.(softwareVersionString) m.(cDVersionNumber) m.(certificationDate) m.(certificationType)
  m.(reason) m.(programTypeVersion) m.(cDCertificateId) m.(familyId) m.(supportedClusters)
  m.(compliantPlatformUsed) m.(compliantPlatformVersion) m.(OSVersion) m.(certificationRoute)
  m.(programType) m.(transport) m.(parentChild).

Definition base : t := mk "" 0 0 0 "" 0 "" "" "" "" "" "" "" "" "" "" "" "" "" "".

Definition encode {PB : Protobuf} (message : t) (writer : Writer) : Writer :=
  writer
  @> when (str_neq message.(signer) "") (fun w => w @> uint32 10 @> string_ message.(signer))
  @> when (num_neq message.(vid) 0) (fun w => w @> uint32 16 @> int32 message.(vid))
  @> when (num_neq message.(pid) 0) (fun w => w @> uint32 24 @> int32 message.(pid))
  @> when (num_neq message.(softwareVersion) 0)
       (fun w => w @> uint32 32 @> uint32 message.(softwareVersion))
  @> when (str_neq message.(softwareVersionString) "")
       (fun w => w @> uint32 42 @> string_ message.(softwareVersionString))
  @> when (num_neq message.(cDVersionNumber) 0)
       (fun w => w @> uint32 48 @> uint32 message.(cDVersionNumber))
  @> when (str_neq message.(certificationDate) "")
       (fun w => w @> uint32 58 @> string_ message.(certificationDate))
  @> when (str_neq message.(certificationType) "")
       (fun w => w @> uint32 66 @> string_ message.(certificationType))
  @> when (str_neq message.(reason) "") (fun w => w @> uint32 74 @> string_ message.(reason))
  @> when (str_neq message.(programTypeVersion) "")
       (fun w => w @> uint32 82 @> string_ message.(programTypeVersion))
  @> when (str_neq message.(cDCertificateId) "")
       (fun w => w @> uint32 90 @> string_ message.(cDCertificateId))
  @> when (str_neq message.(familyId) "") (fun w => w @> uint32 98 @> string_ message.(familyId))
  @> when (str_neq message.(supportedClusters) "")
       (fun w => w @> uint32 106 @> string_ message.(supportedClusters))
  @> when (str_neq message.(compliantPlatformUsed) "")
       (fun w => w @> uint32 114 @> string_ message.(compliantPlatformUsed))
  @> when (str_neq message.(compliantPlatformVersion) "")
       (fun w => w @> uint32 122 @> string_ message.(compliantPlatformVersion))
  @> when (str_neq message.(OSVersion) "") (fun w => w @> uint32 130 @> string_ message.(OSVersion))
  @> when (str_neq message.(certificationRoute) "")
       (fun w => w @> uint32 138 @> string_ message.(certificationRoute))
  @> when (str_neq message.(programType) "")
       (fun w => w @> uint32 146 @> string_ message.(programType))
  @> when (str_neq message.(transport) "") (fun w => w @> uint32 154 @> string_ message.(transport))
  @> when (str_neq message.(parentChild) "")
       (fun w => w @> uint32 162 @> string_ message.(parentChild)).

Definition decode_field {PB : Protobuf} (tag : Z) (message : t) : RM t :=
  match field_number tag with
  | 1 => v ← read_string; mret (message <| signer := v |>)
  | 2 => v ← read_int32; mret (message <| vid := Int v |>)
  | 3 => v ← read_int32; mret (message <| pid := Int v |>)
  | 4 => v ← read_uint32; mret (message <| softwareVersion := Int v |>)
  | 5 => v ← read_string; mret (message <| softwareVersionString := v |>)
  | 6 => v ← read_uint32; mret (message <| cDVersionNumber := Int v |>)
  | 7 => v ← read_string; mret (message <| certificationDate := v |>)
  | 8 => v ← read_string; mret (message <| certificationType := v |>)
  | 9 => v ← read_string; mret (message <| reason := v |>)
  | 10 => v ← read_string; mret (message <| programTypeVersion := v |>)
  | 11 => v ← read_string; mret (message <| cDCertificateId := v |>)
  | 12 => v ← read_string; mret (message <| familyId := v |>)
  | 13 => v ← read_string; mret (message <| supportedClusters := v |>)
  | 14 => v ← read_string; mret (message <| compliantPlatformUsed := v |>)
  | 15 => v ← read_string; mret (message <| compliantPlatformVersion := v |>)
  | 16 => v ← read_string; mret (message <| OSVersion := v |>)
  | 17 => v ← read_string; mret (message <| certificationRoute := v |>)
  | 18 => v ← read_string; mret (message <| programType := v |>)
  | 19 => v ← read_string; mret (message <| transport := v |>)
  | 20 => v ← read_string; mret (message <| parentChild := v |>)
  | _ => _ ← skipType (wire_type tag); mret message
  end.

Definition decode {PB : Protobuf} (length : option Z) : RM t :=
  decode_message length base decode_field.

Definition fromJSON (object : js) : result t :=
  signer' ← field_or object "signer" to_string "";
  vid' ← field_or object "vid" js_Number 0;
  pid' ← field_or object "pid" js_Number 0;
  softwareVersion' ← field_or object "softwareVersion" js_Number 0;
  softwareVersionString' ← field_or object "softwareVersionString" to_string "";
  cDVersionNumber' ← field_or object "cDVersionNumber" js_Number 0;
  certificationDate' ← field_or object "certificationDate" to_string "";
  certificationType' ← field_or object "certificationType" to_string "";
  reason' ← field_or object "reason" to_string "";
  programTypeVersion' ← field_or object "programTypeVersion" to_string "";
  cDCertificateId' ← field_or object "cDCertificateId" to_string "";
  familyId' ← field_or object "familyId" to_string "";
  supportedClusters' ← field_or object "supportedClusters" to_string "";
  compliantPlatformUsed' ← field_or object "compliantPlatformUsed" to_string "";
  compliantPlatformVersion' ← field_or object "compliantPlatformVersion" to_string "";
  OSVersion' ← field_or object "OSVersion" to_string "";
  certificationRoute' ← field_or object "certificationRoute" to_string "";
  programType' ← field_or object "programType" to_string "";
  transport' ← field_or object "transport" to_string "";
  parentChild' ← field_or object "parentChild" to_string "";
  Ok (mk signer' vid' pid' softwareVersion' softwareVersionString' cDVersionNumber'
    certificationDate' certificationType' reason' programTypeVersion' cDCertificateId' familyId'
    supportedClusters' compliantPlatformUsed' compliantPlatformVersion' OSVersion'
    certificationRoute' programType' transport' parentChild').

Definition toJSON (message : t) : js :=
  Obj ([("signer", Str message.(signer));
    ("vid", Num message.(vid));
    ("pid", Num message.(pid));
    ("softwareVersion", Num message.(softwareVersion));
    ("softwareVersionString", Str message.(softwareVersionString));
    ("cDVersionNumber", Num message.(cDVersionNumber));
    ("certificationDate", Str message.(certificationDate));
    ("certificationType", Str message.(certificationType));
    ("reason", Str message.(reason));
    ("programTypeVersion", Str message.(programTypeVersion));
    ("cDCertificateId", Str message.(cDCertificateId));
    ("familyId", Str message.(familyId));
    ("supportedClusters", Str message.(supportedClusters));
    ("compliantPlatformUsed", Str message.(compliantPlatformUsed));
    ("compliantPlatformVersion", Str message.(compliantPlatformVersion));
    ("OSVersion", Str message.(OSVersion));
    ("certificationRoute", Str message.(certificationRoute));
    ("programType", Str message.(programType));
    ("transport", Str message.(transport));
    ("parentChild", Str message.(parentChild))]).

Record partial := mkPartial {
  p_signer : option string;
  p_vid : option number;
  p_pid : option number;
  p_softwareVersion : option number;
  p_softwareVersionString : option string;
  p_cDVersionNumber : option number;
  p_certificationDate : option string;
  p_certificationType : option string;
  p_reason : option string;
  p_programTypeVersion : option string;
  p_cDCertificateId : option string;
  p_familyId : option string;
  p_supportedClusters : option string;
  p_compliantPlatformUsed : option string;
  p_compliantPlatformVersion : option string;
  p_OSVersion : option string;
  p_certificationRoute : option string;
  p_programType : option string;
  p_transport : option string;
  p_parentChild : option string;
}.

Definition fromPartial (object : partial) : t := {|
  signer := object.(p_signer) ?? "";
  vid := object.(p_vid) ?? Int 0;
  pid := object.(p_pid) ?? Int 0;
  softwareVersion := object.(p_softwareVersion) ?? Int 0;
  softwareVersionString := object.(p_softwareVersionString) ?? "";
  cDVersionNumber := object.(p_cDVersionNumber) ?? Int 0;
  certificationDate := object.(p_certificationDate) ?? "";
  certificationType := object.(p_certificationType) ?? "";
  reason := object.(p_reason) ?? "";
  programTypeVersion := object.(p_programTypeVersion) ?? "";
  cDCertificateId := object.(p_cDCertificateId) ?? "";
  familyId := object.(p_familyId) ?? "";
  supportedClusters := object.(p_supportedClusters) ?? "";
  compliantPlatformUsed := object.(p_compliantPlatformUsed) ?? "";
  compliantPlatformVersion := object.(p_compliantPlatformVersion) ?? "";
  OSVersion := object.(p_OSVersion) ?? "";
  certificationRoute := object.(p_certificationRoute) ?? "";
  programType := object.(p_programType) ?? "";
  transport := object.(p_transport) ?? "";
  parentChild := object.(p_parentChild) ?? "";
|}.

(** The object with no property given. *)
Definition nothing : partial := mkPartial None None None None None None None None None None None
  None None None None None None None None None.

(** The bytes [encode] writes. *)
Definition wire {PB : Protobuf} {PS : ProtobufSpec PB} (m : t) : bytes :=
  f_string 10 m.(signer) ++
  f_number e_int32 16 m.(vid) ++
  f_number e_int32 24 m.(pid) ++
  f_number e_uint32 32 m.(softwareVersion) ++
  f_string 42 m.(softwareVersionString) ++
  f_number e_uint32 48 m.(cDVersionNumber) ++
  f_string 58 m.(certificationDate) ++
  f_string 66 m.(certificationType) ++
  f_string 74 m.(reason) ++
  f_string 82 m.(programTypeVersion) ++
  f_string 90 m.(cDCertificateId) ++
  f_string 98 m.(familyId) ++
  f_string 106 m.(supportedClusters) ++
  f_string 114 m.(compliantPlatformUsed) ++
  f_string 122 m.(compliantPlatformVersion) ++
  f_string 130 m.(OSVersion) ++
  f_string 138 m.(certificationRoute) ++
  f_string 146 m.(programType) ++
  f_string 154 m.(transport) ++
  f_string 162 m.(parentChild).

Definition valid (m : t) : Prop :=
  int32_ok m.(vid) ∧ int32_ok m.(pid) ∧ uint32_ok m.(softwareVersion) ∧ uint32_ok m.(cDVersionNumber).

Definition encodable {PB : Protobuf} {PS : ProtobufSpec PB} (m : t) : Prop :=
  valid m ∧ small (wire m).

Definition merge (m a : t) : t := {|
  signer := later_string m.(signer) a.(signer);
  vid := later_number m.(vid) a.(vid);
  pid := later_number m.(pid) a.(pid);
  softwareVersion := later_number m.(softwareVersion) a.(softwareVersion);
  softwareVersionString := later_string m.(softwareVersionString) a.(softwareVersionString);
  cDVersionNumber := later_number m.(cDVersionNumber) a.(cDVersionNumber);
  certificationDate := later_string m.(certificationDate) a.(certificationDate);
  certificationType := later_string m.(certificationType) a.(certificationType);
  reason := later_string m.(reason) a.(reason);
  programTypeVersion := later_string m.(programTypeVersion) a.(programTypeVersion);
  cDCertificateId := later_string m.(cDCertificateId) a.(cDCertificateId);
  familyId := later_string m.(familyId) a.(familyId);
  supportedClusters := later_string m.(supportedClusters) a.(supportedClusters);
  compliantPlatformUsed := later_string m.(compliantPlatformUsed) a.(compliantPlatformUsed);
  compliantPlatformVersion := later_string m.(compliantPlatformVersion) a.(compliantPlatformVersion);
  OSVersion := later_string m.(OSVersion) a.(OSVersion);
  certificationRoute := later_string m.(certificationRoute) a.(certificationRoute);
  programType := later_string m.(programType) a.(programType);
  transport := later_string m.(transport) a.(transport);
  parentChild := later_string m.(parentChild) a.(parentChild);
|}.

(** A whole message seen as a partial one. *)
Definition full (m : t) : partial := {|
  p_signer := Some m.(signer);
  p_vid := Some m.(vid);
  p_pid := Some m.(pid);
  p_softwareVersion := Some m.(softwareVersion);
  p_softwareVersionString := Some m.(softwareVersionString);
  p_cDVersionNumber := Some m.(cDVersionNumber);
  p_certificationDate := Some m.(certificationDate);
  p_certificationType := Some m.(certificationType);
  p_reason := Some m.(reason);
  p_programTypeVersion := Some m.(programTypeVersion);
  p_cDCertificateId := Some m.(cDCertificateId);
  p_familyId := Some m.(familyId);
  p_supportedClusters := Some m.(supportedClusters);
  p_compliantPlatformUsed := Some m.(compliantPlatformUsed);
  p_compliantPlatformVersion := Some m.(compliantPlatformVersion);
  p_OSVersion := Some m.(OSVersion);
  p_certificationRoute := Some m.(certificationRoute);
  p_programType := Some m.(programType);
  p_transport := Some m.(transport);
  p_parentChild := Some m.(parentChild);
|}.

(** The message as its [.proto] file declares it. *)
Definition schema (m : t) : list field :=
  [implicit 1 (VString m.(signer));
   implicit 2 (VInt Int32 m.(vid));
   implicit 3 (VInt Int32 m.(pid));
   implicit 4 (VInt Uint32 m.(softwareVersion));
   implicit 5 (VString m.(softwareVersionString));
   implicit 6 (VInt Uint32 m.(cDVersionNumber));
   implicit 7 (VString m.(certificationDate));
   implicit 8 (VString m.(certificationType));
   implicit 9 (VString m.(reason));
   implicit 10 (VString m.(programTypeVersion));
   implicit 11 (VString m.(cDCertificateId));
   implicit 12 (VString m.(familyId));
   implicit 13 (VString m.(supportedClusters));
   implicit 14 (VString m.(compliantPlatformUsed));
   implicit 15 (VString m.(compliantPlatformVersion));
   implicit 16 (VString m.(OSVersion));
   implicit 17 (VString m.(certificationRoute));
   implicit 18 (VString m.(programType));
   implicit 19 (VString m.(transport));
   implicit 20 (VString m.(parentChild))].

(** The message with its default for every property that is not kept. *)
Definition only (kept : string → bool) (m : t) : t := {|
  signer := if kept "signer" then m.(signer) else "";
  vid := if kept "vid" then m.(vid) else Int 0;
  pid := if kept "pid" then m.(pid) else Int 0;
  softwareVersion := if kept "softwareVersion" then m.(softwareVersion) else Int 0;
  softwareVersionString := if kept "softwareVersionString" then m.(softwareVersionString) else "";
  cDVersionNumber := if kept "cDVersionNumber" then m.(cDVersionNumber) else Int 0;
  certificationDate := if kept "certificationDate" then m.(certificationDate) else "";
  certificationType := if kept "certificationType" then m.(certificationType) else "";
  reason := if kept "reason" then m.(reason) else "";
  programTypeVersion := if kept "programTypeVersion" then m.(programTypeVersion) else "";
  cDCertificateId := if kept "cDCertificateId" then m.(cDCertificateId) else "";
  familyId := if kept "familyId" then m.(familyId) else "";
  supportedClusters := if kept "supportedClusters" then m.(supportedClusters) else "";
  compliantPlatformUsed := if kept "compliantPlatformUsed" then m.(compliantPlatformUsed) else "";
  compliantPlatformVersion := if kept "compliantPlatformVersion" then m.(compliantPlatformVersion) else "";
  OSVersion := if kept "OSVersion" then m.(OSVersion) else "";
  certificationRoute := if kept "certificationRoute" then m.(certificationRoute) else "";
  programType := if kept "programType" then m.(programType) else "";
  transport := if kept "transport" then m.(transport) else "";
  parentChild := if kept "parentChild" then m.(parentChild) else "";
|}.

#[global] Instance codec {PB : Protobuf} : MessageCodec t :=
  {| msg_base := base; msg_encode := encode; msg_field := decode_field |}.

#[global] Program Instance spec {PB : Protobuf} (PS : ProtobufSpec PB) : MessageSpec PS t :=
  {| msg_wire := wire; msg_valid := valid; msg_merge := merge |}.
Next Obligation. solve_encode_wire. Qed.
Next Obligation. solve_decode_wire. Qed.
Next Obligation. solve_merge_base. Qed.
Next Obligation. intros. solve_advances decode_field. Qed.

#[global] Program Instance data : MessageData t partial :=
  {| msg_fromJSON := fromJSON; msg_toJSON := toJSON;
     msg_fromPartial := fromPartial; msg_full := full |}.
Next Obligation. solve_json fromJSON toJSON. Qed.
Next Obligation. solve_partial fromPartial full. Qed.

#[global] Instance schema_wire {PB : Protobuf} {PS : ProtobufSpec PB} : WireSchema wire schema.
Proof. solve_schema_wire wire schema. Qed.

#[global] Instance schema_merge : MergeSchema merge schema.
Proof. solve_schema_merge merge schema. Qed.

(** Its row in the table of message types. *)
Definition message {PB : Protobuf} {PS : ProtobufSpec PB} : message_type :=
  plain_message "MsgCertifyModel" nothing true schema only.

#[global] Instance message_lawful {PB : Protobuf} (PS : ProtobufSpec PB) : Lawful message.
Proof. solve_lawful decode_field fromJSON only. Qed.

End MsgCertifyModel.

(** ** [MsgCertifyModelResponse] (compliance/tx.js) *)

Module MsgCertifyModelResponse.

Record t := mk {}.

#[global] Instance t_eta : Settable t := λ m, m.

Definition base : t := mk.

Definition encode {PB : Protobuf} (message : t) (writer : Writer) : Writer :=
  writer.

Definition decode_field {PB : Protobuf} (tag : Z) (message : t) : RM t :=
  match field_number tag with
  | _ => _ ← skipType (wire_type tag); mret message
  end.

Definition decode {PB : Protobuf} (length : option Z) : RM t :=
  decode_message length base decode_field.

Definition fromJSON (object : js) : result t :=
  Ok base.

Definition toJSON (message : t) : js :=
  Obj [].

Record partial := mkPartial {}.

Definition fromPartial (object : partial) : t := base.

(** The object with no property given. *)
Definition nothing : partial := mkPartial.

(** The bytes [encode] writes. *)
Definition wire {PB : Protobuf} {PS : ProtobufSpec PB} (m : t) : bytes :=
  [].

Definition valid (m : t) : Prop :=
  True.

Definition encodable {PB : Protobuf} {PS : ProtobufSpec PB} (m : t) : Prop :=
  valid m ∧ small (wire m).

Definition merge (m a : t) : t := m.

(** A whole message seen as a partial one. *)
Definition full (m : t) : partial := mkPartial.

(** The message as its [.proto] file declares it. *)
Definition schema (m : t) : list field :=
  [].

(** The message with its default for every property that is not kept. *)
Definition only (kept : string → bool) (m : t) : t := m.

#[global] Instance codec {PB : Protobuf} : MessageCodec t :=
  {| msg_base := base; msg_encode := encode; msg_field := decode_field |}.

#[global] Program Instance spec {PB : Protobuf} (PS : ProtobufSpec PB) : MessageSpec PS t :=
  {| msg_wire := wire; msg_valid := valid; msg_merge := merge |}.
Next Obligation. solve_encode_wire. Qed.
Next Obligation. solve_decode_wire. Qed.
Next Obligation. solve_merge_base. Qed.
Next Obligation. intros. solve_advances decode_field. Qed.

#[global] Program Instance data : MessageData t partial :=
  {| msg_fromJSON := fromJSON; msg_toJSON := toJSON;
     msg_fromPartial := fromPartial; msg_full := full |}.
Next Obligation. solve_json fromJSON toJSON. Qed.
Next Obligation. solve_partial fromPartial full. Qed.

#[global] Instance schema_wire {PB : Protobuf} {PS : ProtobufSpec PB} : WireSchema wire schema.
Proof. solve_schema_wire wire schema. Qed.

#[global] Instance schema_merge : MergeSchema merge schema.
Proof. solve_schema_merge merge schema. Qed.

(** Its row in the table of message types. *)
Definition message {PB : Protobuf} {PS : ProtobufSpec PB} : message_type :=
  plain_message "MsgCertifyModelResponse" nothing false schema only.

#[global] Instance message_lawful {PB : Protobuf} (PS : ProtobufSpec PB) : Lawful message.
Proof. solve_lawful decode_field fromJSON only. Qed.

End MsgCertifyModelResponse.

(** ** [MsgRevokeModel] (compliance/tx.js) *)

Module MsgRevokeModel.

Record t := mk {
  signer : string;
  vid : number;
  pid : number;
  softwareVersion : number;
  softwareVersionString : string;
  cDVersionNumber : number;
  revocationDate : string;
  certificationType : string;
  reason : string;
}.

#[global] Instance t_eta : Settable t := λ m, mk m.(signer) m.(vid) m.(pid) m.(softwareVersion)
  m.(softwareVersionString) m.(cDVersionNumber) m.(revocationDate) m.(certificationType)
  m.(reason).

Definition base : t := mk "" 0 0 0 "" 0 "" "" "".

Definition encode {PB : Protobuf} (message : t) (writer : Writer) : Writer :=
  writer
  @> when (str_neq message.(signer) "") (fun w => w @> uint32 10 @> string_ message.(signer))
  @> when (num_neq message.(vid) 0) (fun w => w @> uint32 16 @> int32 message.(vid))
  @> when (num_neq message.(pid) 0) (fun w => w @> uint32 24 @> int32 message.(pid))
  @> when (num_neq message.(softwareVersion) 0)
       (fun w => w @> uint32 32 @> uint32 message.(softwareVersion))
  @> when (str_neq message.(softwareVersionString) "")
       (fun w => w @> uint32 42 @> string_ message.(softwareVersionString))
  @> when (num_neq message.(cDVersionNumber) 0)
       (fun w => w @> uint32 48 @> uint32 message.(cDVersionNumber))
  @> when (str_neq message.(revocationDate) "")
       (fun w => w @> uint32 58 @> string_ message.(revocationDate))
  @> when (str_neq message.(certificationType) "")
       (fun w => w @> uint32 66 @> string_ message.(certificationType))
  @> when (str_neq message.(reason) "") (fun w => w @> uint32 74 @> string_ message.(reason)).

Definition decode_field {PB : Protobuf} (tag : Z) (message : t) : RM t :=
  match field_number tag with
  | 1 => v ← read_string; mret (message <| signer := v |>)
  | 2 => v ← read_int32; mret (message <| vid := Int v |>)
  | 3 => v ← read_int32; mret (message <| pid := Int v |>)
  | 4 => v ← read_uint32; mret (message <| softwareVersion := Int v |>)
  | 5 => v ← read_string; mret (message <| softwareVersionString := v |>)
  | 6 => v ← read_uint32; mret (message <| cDVersionNumber := Int v |>)
  | 7 => v ← read_string; mret (message <| revocationDate := v |>)
  | 8 => v ← read_string; mret (message <| certificationType := v |>)
  | 9 => v ← read_string; mret (message <| reason := v |>)
  | _ => _ ← skipType (wire_type tag); mret message
  end.

Definition decode {PB : Protobuf} (length : option Z) : RM t :=
  decode_message length base decode_field.

Definition fromJSON (object : js) : result t :=
  signer' ← field_or object "signer" to_string "";
  vid' ← field_or object "vid" js_Number 0;
  pid' ← field_or object "pid" js_Number 0;
  softwareVersion' ← field_or object "softwareVersion" js_Number 0;
  softwareVersionString' ← field_or object "softwareVersionString" to_string "";
  cDVersionNumber' ← field_or object "cDVersionNumber" js_Number 0;
  revocationDate' ← field_or object "revocationDate" to_string "";
  certificationType' ← field_or object "certificationType" to_string "";
  reason' ← field_or object "reason" to_string "";
  Ok (mk signer' vid' pid' softwareVersion' softwareVersionString' cDVersionNumber'
    revocationDate' certificationType' reason').

Definition toJSON (message : t) : js :=
  Obj ([("signer", Str message.(signer));
    ("vid", Num message.(vid));
    ("pid", Num message.(pid));
    ("softwareVersion", Num message.(softwareVersion));
    ("softwareVersionString", Str message.(softwareVersionString));
    ("cDVersionNumber", Num message.(cDVersionNumber));
    ("revocationDate", Str message.(revocationDate));
    ("certificationType", Str message.(certificationType));
    ("reason", Str message.(reason))]).

Record partial := mkPartial {
  p_signer : option string;
  p_vid : option number;
  p_pid : option number;
  p_softwareVersion : option number;
  p_softwareVersionString : option string;
  p_cDVersionNumber : option number;
  p_revocationDate : option string;
  p_certificationType : option string;
  p_reason : option string;
}.

Definition fromPartial (object : partial) : t := {|
  signer := object.(p_signer) ?? "";
  vid := object.(p_vid) ?? Int 0;
  pid := object.(p_pid) ?? Int 0;
  softwareVersion := object.(p_softwareVersion) ?? Int 0;
  softwareVersionString := object.(p_softwareVersionString) ?? "";
  cDVersionNumber := object.(p_cDVersionNumber) ?? Int 0;
  revocationDate := object.(p_revocationDate) ?? "";
  certificationType := object.(p_certificationType) ?? "";
  reason := object.(p_reason) ?? "";
|}.

(** The object with no property given. *)
Definition nothing : partial := mkPartial None None None None None None None None None.

(** The bytes [encode] writes. *)
Definition wire {PB : Protobuf} {PS : ProtobufSpec PB} (m : t) : bytes :=
  f_string 10 m.(signer) ++
  f_number e_int32 16 m.(vid) ++
  f_number e_int32 24 m.(pid) ++
  f_number e_uint32 32 m.(softwareVersion) ++
  f_string 42 m.(softwareVersionString) ++
  f_number e_uint32 48 m.(cDVersionNumber) ++
  f_string 58 m.(revocationDate) ++
  f_string 66 m.(certificationType) ++
  f_string 74 m.(reason).

Definition valid (m : t) : Prop :=
  int32_ok m.(vid) ∧ int32_ok m.(pid) ∧ uint32_ok m.(softwareVersion) ∧ uint32_ok m.(cDVersionNumber).

Definition encodable {PB : Protobuf} {PS : ProtobufSpec PB} (m : t) : Prop :=
  valid m ∧ small (wire m).

Definition merge (m a : t) : t := {|
  signer := later_string m.(signer) a.(signer);
  vid := later_number m.(vid) a.(vid);
  pid := later_number m.(pid) a.(pid);
  softwareVersion := later_number m.(softwareVersion) a.(softwareVersion);
  softwareVersionString := later_string m.(softwareVersionString) a.(softwareVersionString);
  cDVersionNumber := later_number m.(cDVersionNumber) a.(cDVersionNumber);
  revocationDate := later_string m.(revocationDate) a.(revocationDate);
  certificationType := later_string m.(certificationType) a.(certificationType);
  reason := later_string m.(reason) a.(reason);
|}.

(** A whole message seen as a partial one. *)
Definition full (m : t) : partial := {|
  p_signer := Some m.(signer);
  p_vid := Some m.(vid);
  p_pid := Some m.(pid);
  p_softwareVersion := Some m.(softwareVersion);
  p_softwareVersionString := Some m.(softwareVersionString);
  p_cDVersionNumber := Some m.(cDVersionNumber);
  p_revocationDate := Some m.(revocationDate);
  p_certificationType := Some m.(certificationType);
  p_reason := Some m.(reason);
|}.

(** The message as its [.proto] file declares it. *)
Definition schema (m : t) : list field :=
  [implicit 1 (VString m.(signer));
   implicit 2 (VInt Int32 m.(vid));
   implicit 3 (VInt Int32 m.(pid));
   implicit 4 (VInt Uint32 m.(softwareVersion));
   implicit 5 (VString m.(softwareVersionString));
   implicit 6 (VInt Uint32 m.(cDVersionNumber));
   implicit 7 (VString m.(revocationDate));
   implicit 8 (VString m.(certificationType));
   implicit 9 (VString m.(reason))].

(** The message with its default for every property that is not kept. *)
Definition only (kept : string → bool) (m : t) : t := {|
  signer := if kept "signer" then m.(signer) else "";
  vid := if kept "vid" then m.(vid) else Int 0;
  pid := if kept "pid" then m.(pid) else Int 0;
  softwareVersion := if kept "softwareVersion" then m.(softwareVersion) else Int 0;
  softwareVersionString := if kept "softwareVersionString" then m.(softwareVersionString) else "";
  cDVersionNumber := if kept "cDVersionNumber" then m.(cDVersionNumber) else Int 0;
  revocationDate := if kept "revocationDate" then m.(revocationDate) else "";
  certificationType := if kept "certificationType" then m.(certificationType) else "";
  reason := if kept "reason" then m.(reason) else "";
|}.

#[global] Instance codec {PB : Protobuf} : MessageCodec t :=
  {| msg_base := base; msg_encode := encode; msg_field := decode_field |}.

#[global] Program Instance spec {PB : Protobuf} (PS : ProtobufSpec PB) : MessageSpec PS t :=
  {| msg_wire := wire; msg_valid := valid; msg_merge := merge |}.
Next Obligation. solve_encode_wire. Qed.
Next Obligation. solve_decode_wire. Qed.
Next Obligation. solve_merge_base. Qed.
Next Obligation. intros. solve_advances decode_field. Qed.

#[global] Program Instance data : MessageData t partial :=
  {| msg_fromJSON := fromJSON; msg_toJSON := toJSON;
     msg_fromPartial := fromPartial; msg_full := full |}.
Next Obligation. solve_json fromJSON toJSON. Qed.
Next Obligation. solve_partial fromPartial full. Qed.

#[global] Instance schema_wire {PB : Protobuf} {PS : ProtobufSpec PB} : WireSchema wire schema.
Proof. solve_schema_wire wire schema. Qed.

#[global] Instance schema_merge : MergeSchema merge schema.
Proof. solve_schema_merge merge schema. Qed.

(** Its row in the table of message types. *)
Definition message {PB : Protobuf} {PS : ProtobufSpec PB} : message_type :=
  plain_message "MsgRevokeModel" nothing true schema only.

#[global] Instance message_lawful {PB : Protobuf} (PS : ProtobufSpec PB) : Lawful message.
Proof. solve_lawful decode_field fromJSON only. Qed.

End MsgRevokeModel.

(** ** [MsgRevokeModelResponse] (compliance/tx.js) *)

Module MsgRevokeModelResponse.

Record t := mk {}.

#[global] Instance t_eta : Settable t := λ m, m.

Definition base : t := mk.

Definition encode {PB : Protobuf} (message : t) (writer : Writer) : Writer :=
  writer.

Definition decode_field {PB : Protobuf} (tag : Z) (message : t) : RM t :=
  match field_number tag with
  | _ => _ ← skipType (wire_type tag); mret message
  end.

Definition decode {PB : Protobuf} (length : option Z) : RM t :=
  decode_message length base decode_field.

Definition fromJSON (object : js) : result t :=
  Ok base.

Definition toJSON (message : t) : js :=
  Obj [].

Record partial := mkPartial {}.

Definition fromPartial (object : partial) : t := base.

(** The object with no property given. *)
Definition nothing : partial := mkPartial.

(** The bytes [encode] writes. *)
Definition wire {PB : Protobuf} {PS : ProtobufSpec PB} (m : t) : bytes :=
  [].

Definition valid (m : t) : Prop :=
  True.

Definition encodable {PB : Protobuf} {PS : ProtobufSpec PB} (m : t) : Prop :=
  valid m ∧ small (wire m).

Definition merge (m a : t) : t := m.

(** A whole message seen as a partial one. *)
Definition full (m : t) : partial := mkPartial.

(** The message as its [.proto] file declares it. *)
Definition schema (m : t) : list field :=
  [].

(** The message with its default for every property that is not kept. *)
Definition only (kept : string → bool) (m : t) : t := m.

#[global] Instance codec {PB : Protobuf} : MessageCodec t :=
  {| msg_base := base; msg_encode := encode; msg_field := decode_field |}.

#[global] Program Instance spec {PB : Protobuf} (PS : ProtobufSpec PB) : MessageSpec PS t :=
  {| msg_wire := wire; msg_valid := valid; msg_merge := merge |}.
Next Obligation. solve_encode_wire. Qed.
Next Obligation. solve_decode_wire. Qed.
Next Obligation. solve_merge_base. Qed.
Next Obligation. intros. solve_advances decode_field. Qed.

#[global] Program Instance data : MessageData t partial :=
  {| msg_fromJSON := fromJSON; msg_toJSON := toJSON;
     msg_fromPartial := fromPartial; msg_full := full |}.
Next Obligation. solve_json fromJSON toJSON. Qed.
Next Obligation. solve_partial fromPartial full. Qed.

#[global] Instance schema_wire {PB : Protobuf} {PS : ProtobufSpec PB} : WireSchema wire schema.
Proof. solve_schema_wire wire schema. Qed.

#[global] Instance schema_merge : MergeSchema merge schema.
Proof. solve_schema_merge merge schema. Qed.

(** Its row in the table of message types. *)
Definition message {PB : Protobuf} {PS : ProtobufSpec PB} : message_type :=
  plain_message "MsgRevokeModelResponse" nothing false schema only.

#[global] Instance message_lawful {PB : Protobuf} (PS : ProtobufSpec PB) : Lawful message.
Proof. solve_lawful decode_field fromJSON only. Qed.

End MsgRevokeModelResponse.

(** ** [MsgProvisionModel] (compliance/tx.js) *)

Module MsgProvisionModel.

Record t := mk {
  signer : string;
  vid : number;
  pid : number;
  softwareVersion : number;
  softwareVersionString : string;
  cDVersionNumber : number;
  provisionalDate : string;
  certificationType : string;
  reason : string;
  programTypeVersion : string;
  cDCertificateId : string;
  familyId : string;
  supportedClusters : string;
  compliantPlatformUsed : string;
  compliantPlatformVersion : string;
  OSVersion : string;
  certificationRoute : string;
  programType : string;
  transport : string;
  parentChild : string;
}.

#[global] Instance t_eta : Settable t := λ m, mk m.(signer) m.(vid) m.(pid) m.(softwareVersion)
  m.(softwareVersionString) m.(cDVersionNumber) m.(provisionalDate) m.(certificationType)
  m.(reason) m.(programTypeVersion) m.(cDCertificateId) m.(familyId) m.(supportedClusters)
  m.(compliantPlatformUsed) m.(compliantPlatformVersion) m.(OSVersion) m.(certificationRoute)
  m.(programType) m.(transport) m.(parentChild).

Definition base : t := mk "" 0 0 0 "" 0 "" "" "" "" "" "" "" "" "" "" "" "" "" "".

Definition encode {PB : Protobuf} (message : t) (writer : Writer) : Writer :=
  writer
  @> when (str_neq message.(signer) "") (fun w => w @> uint32 10 @> string_ message.(signer))
  @> when (num_neq message.(vid) 0) (fun w => w @> uint32 16 @> int32 message.(vid))
  @> when (num_neq message.(pid) 0) (fun w => w @> uint32 24 @> int32 message.(pid))
  @> when (num_neq message.(softwareVersion) 0)
       (fun w => w @> uint32 32 @> uint32 message.(softwareVersion))
  @> when (str_neq message.(softwareVersionString) "")
       (fun w => w @> uint32 42 @> string_ message.(softwareVersionString))
  @> when (num_neq message.(cDVersionNumber) 0)
       (fun w => w @> uint32 48 @> uint32 message.(cDVersionNumber))
  @> when (str_neq message.(provisionalDate) "")
       (fun w => w @> uint32 58 @> string_ message.(provisionalDate))
  @> when (str_neq message.(certificationType) "")
       (fun w => w @> uint32 66 @> string_ message.(certificationType))
  @> when (str_neq message.(reason) "") (fun w => w @> uint32 74 @> string_ message.(reason))
  @> when (str_neq message.(programTypeVersion) "")
       (fun w => w @> uint32 82 @> string_ message.(programTypeVersion))
  @> when (str_neq message.(cDCertificateId) "")
       (fun w => w @> uint32 90 @> string_ message.(cDCertificateId))
  @> when (str_neq message.(familyId) "") (fun w => w @> uint32 98 @> string_ message.(familyId))
  @> when (str_neq message.(supportedClusters) "")
       (fun w => w @> uint32 106 @> string_ message.(supportedClusters))
  @> when (str_neq message.(compliantPlatformUsed) "")
       (fun w => w @> uint32 114 @> string_ message.(compliantPlatformUsed))
  @> when (str_neq message.(compliantPlatformVersion) "")
       (fun w => w @> uint32 122 @> string_ message.(compliantPlatformVersion))
  @> when (str_neq message.(OSVersion) "") (fun w => w @> uint32 130 @> string_ message.(OSVersion))
  @> when (str_neq message.(certificationRoute) "")
       (fun w => w @> uint32 138 @> string_ message.(certificationRoute))
  @> when (str_neq message.(programType) "")
       (fun w => w @> uint32 146 @> string_ message.(programType))
  @> when (str_neq message.(transport) "") (fun w => w @> uint32 154 @> string_ message.(transport))
  @> when (str_neq message.(parentChild) "")
       (fun w => w @> uint32 162 @> string_ message.(parentChild)).

Definition decode_field {PB : Protobuf} (tag : Z) (message : t) : RM t :=
  match field_number tag with
  | 1 => v ← read_string; mret (message <| signer := v |>)
  | 2 => v ← read_int32; mret (message <| vid := Int v |>)
  | 3 => v ← read_int32; mret (message <| pid := Int v |>)
  | 4 => v ← read_uint32; mret (message <| softwareVersion := Int v |>)
  | 5 => v ← read_string; mret (message <| softwareVersionString := v |>)
  | 6 => v ← read_uint32; mret (message <| cDVersionNumber := Int v |>)
  | 7 => v ← read_string; mret (message <| provisionalDate := v |>)
  | 8 => v ← read_string; mret (message <| certificationType := v |>)
  | 9 => v ← read_string; mret (message <| reason := v |>)
  | 10 => v ← read_string; mret (message <| programTypeVersion := v |>)
  | 11 => v ← read_string; mret (message <| cDCertificateId := v |>)
  | 12 => v ← read_string; mret (message <| familyId := v |>)
  | 13 => v ← read_string; mret (message <| supportedClusters := v |>)
  | 14 => v ← read_string; mret (message <| compliantPlatformUsed := v |>)
  | 15 => v ← read_string; mret (message <| compliantPlatformVersion := v |>)
  | 16 => v ← read_string; mret (message <| OSVersion := v |>)
  | 17 => v ← read_string; mret (message <| certificationRoute := v |>)
  | 18 => v ← read_string; mret (message <| programType := v |>)
  | 19 => v ← read_string; mret (message <| transport := v |>)
  | 20 => v ← read_string; mret (message <| parentChild := v |>)
  | _ => _ ← skipType (wire_type tag); mret message
  end.

Definition decode {PB : Protobuf} (length : option Z) : RM t :=
  decode_message length base decode_field.

Definition fromJSON (object : js) : result t :=
  signer' ← field_or object "signer" to_string "";
  vid' ← field_or object "vid" js_Number 0;
  pid' ← field_or object "pid" js_Number 0;
  softwareVersion' ← field_or object "softwareVersion" js_Number 0;
  softwareVersionString' ← field_or object "softwareVersionString" to_string "";
  cDVersionNumber' ← field_or object "cDVersionNumber" js_Number 0;
  provisionalDate' ← field_or object "provisionalDate" to_string "";
  certificationType' ← field_or object "certificationType" to_string "";
  reason' ← field_or object "reason" to_string "";
  programTypeVersion' ← field_or object "programTypeVersion" to_string "";
  cDCertificateId' ← field_or object "cDCertificateId" to_string "";
  familyId' ← field_or object "familyId" to_string "";
  supportedClusters' ← field_or object "supportedClusters" to_string "";
  compliantPlatformUsed' ← field_or object "compliantPlatformUsed" to_string "";
  compliantPlatformVersion' ← field_or object "compliantPlatformVersion" to_string "";
  OSVersion' ← field_or object "OSVersion" to_string "";
  certificationRoute' ← field_or object "certificationRoute" to_string "";
  programType' ← field_or object "programType" to_string "";
  transport' ← field_or object "transport" to_string "";
  parentChild' ← field_or object "parentChild" to_string "";
  Ok (mk signer' vid' pid' softwareVersion' softwareVersionString' cDVersionNumber'
    provisionalDate' certificationType' reason' programTypeVersion' cDCertificateId' familyId'
    supportedClusters' compliantPlatformUsed' compliantPlatformVersion' OSVersion'
    certificationRoute' programType' transport' parentChild').

Definition toJSON (message : t) : js :=
  Obj ([("signer", Str message.(signer));
    ("vid", Num message.(vid));
    ("pid", Num message.(pid));
    ("softwareVersion", Num message.(softwareVersion));
    ("softwareVersionString", Str message.(softwareVersionString));
    ("cDVersionNumber", Num message.(cDVersionNumber));
    ("provisionalDate", Str message.(provisionalDate));
    ("certificationType", Str message.(certificationType));
    ("reason", Str message.(reason));
    ("programTypeVersion", Str message.(programTypeVersion));
    ("cDCertificateId", Str message.(cDCertificateId));
    ("familyId", Str message.(familyId));
    ("supportedClusters", Str message.(supportedClusters));
    ("compliantPlatformUsed", Str message.(compliantPlatformUsed));
    ("compliantPlatformVersion", Str message.(compliantPlatformVersion));
    ("OSVersion", Str message.(OSVersion));
    ("certificationRoute", Str message.(certificationRoute));
    ("programType", Str message.(programType));
    ("transport", Str message.(transport));
    ("parentChild", Str message.(parentChild))]).

Record partial := mkPartial {
  p_signer : option string;
  p_vid : option number;
  p_pid : option number;
  p_softwareVersion : option number;
  p_softwareVersionString : option string;
  p_cDVersionNumber : option number;
  p_provisionalDate : option string;
  p_certificationType : option string;
  p_reason : option string;
  p_programTypeVersion : option string;
  p_cDCertificateId : option string;
  p_familyId : option string;
  p_supportedClusters : option string;
  p_compliantPlatformUsed : option string;
  p_compliantPlatformVersion : option string;
  p_OSVersion : option string;
  p_certificationRoute : option string;
  p_programType : option string;
  p_transport : option string;
  p_parentChild : option string;
}.

Definition fromPartial (object : partial) : t := {|
  signer := object.(p_signer) ?? "";
  vid := object.(p_vid) ?? Int 0;
  pid := object.(p_pid) ?? Int 0;
  softwareVersion := object.(p_softwareVersion) ?? Int 0;
  softwareVersionString := object.(p_softwareVersionString) ?? "";
  cDVersionNumber := object.(p_cDVersionNumber) ?? Int 0;
  provisionalDate := object.(p_provisionalDate) ?? "";
  certificationType := object.(p_certificationType) ?? "";
  reason := object.(p_reason) ?? "";
  programTypeVersion := object.(p_programTypeVersion) ?? "";
  cDCertificateId := object.(p_cDCertificateId) ?? "";
  familyId := object.(p_familyId) ?? "";
  supportedClusters := object.(p_supportedClusters) ?? "";
  compliantPlatformUsed := object.(p_compliantPlatformUsed) ?? "";
  compliantPlatformVersion := object.(p_compliantPlatformVersion) ?? "";
  OSVersion := object.(p_OSVersion) ?? "";
  certificationRoute := object.(p_certificationRoute) ?? "";
  programType := object.(p_programType) ?? "";
  transport := object.(p_transport) ?? "";
  parentChild := object.(p_parentChild) ?? "";
|}.

(** The object with no property given. *)
Definition nothing : partial := mkPartial None None None None None None None None None None None
  None None None None None None None None None.

(** The bytes [encode] writes. *)
Definition wire {PB : Protobuf} {PS : ProtobufSpec PB} (m : t) : bytes :=
  f_string 10 m.(signer) ++
  f_number e_int32 16 m.(vid) ++
  f_number e_int32 24 m.(pid) ++
  f_number e_uint32 32 m.(softwareVersion) ++
  f_string 42 m.(softwareVersionString) ++
  f_number e_uint32 48 m.(cDVersionNumber) ++
  f_string 58 m.(provisionalDate) ++
  f_string 66 m.(certificationType) ++
  f_string 74 m.(reason) ++
  f_string 82 m.(programTypeVersion) ++
  f_string 90 m.(cDCertificateId) ++
  f_string 98 m.(familyId) ++
  f_string 106 m.(supportedClusters) ++
  f_string 114 m.(compliantPlatformUsed) ++
  f_string 122 m.(compliantPlatformVersion) ++
  f_string 130 m.(OSVersion) ++
  f_string 138 m.(certificationRoute) ++
  f_string 146 m.(programType) ++
  f_string 154 m.(transport) ++
  f_string 162 m.(parentChild).

Definition valid (m : t) : Prop :=
  int32_ok m.(vid) ∧ int32_ok m.(pid) ∧ uint32_ok m.(softwareVersion) ∧ uint32_ok m.(cDVersionNumber).

Definition encodable {PB : Protobuf} {PS : ProtobufSpec PB} (m : t) : Prop :=
  valid m ∧ small (wire m).

Definition merge (m a : t) : t := {|
  signer := later_string m.(signer) a.(signer);
  vid := later_number m.(vid) a.(vid);
  pid := later_number m.(pid) a.(pid);
  softwareVersion := later_number m.(softwareVersion) a.(softwareVersion);
  softwareVersionString := later_string m.(softwareVersionString) a.(softwareVersionString);
  cDVersionNumber := later_number m.(cDVersionNumber) a.(cDVersionNumber);
  provisionalDate := later_string m.(provisionalDate) a.(provisionalDate);
  certificationType := later_string m.(certificationType) a.(certificationType);
  reason := later_string m.(reason) a.(reason);
  programTypeVersion := later_string m.(programTypeVersion) a.(programTypeVersion);
  cDCertificateId := later_string m.(cDCertificateId) a.(cDCertificateId);
  familyId := later_string m.(familyId) a.(familyId);
  supportedClusters := later_string m.(supportedClusters) a.(supportedClusters);
  compliantPlatformUsed := later_string m.(compliantPlatformUsed) a.(compliantPlatformUsed);
  compliantPlatformVersion := later_string m.(compliantPlatformVersion) a.(compliantPlatformVersion);
  OSVersion := later_string m.(OSVersion) a.(OSVersion);
  certificationRoute := later_string m.(certificationRoute) a.(certificationRoute);
  programType := later_string m.(programType) a.(programType);
  transport := later_string m.(transport) a.(transport);
  parentChild := later_string m.(parentChild) a.(parentChild);
|}.

(** A whole message seen as a partial one. *)
Definition full (m : t) : partial := {|
  p_signer := Some m.(signer);
  p_vid := Some m.(vid);
  p_pid := Some m.(pid);
  p_softwareVersion := Some m.(softwareVersion);
  p_softwareVersionString := Some m.(softwareVersionString);
  p_cDVersionNumber := Some m.(cDVersionNumber);
  p_provisionalDate := Some m.(provisionalDate);
  p_certificationType := Some m.(certificationType);
  p_reason := Some m.(reason);
  p_programTypeVersion := Some m.(programTypeVersion);
  p_cDCertificateId := Some m.(cDCertificateId);
  p_familyId := Some m.(familyId);
  p_supportedClusters := Some m.(supportedClusters);
  p_compliantPlatformUsed := Some m.(compliantPlatformUsed);
  p_compliantPlatformVersion := Some m.(compliantPlatformVersion);
  p_OSVersion := Some m.(OSVersion);
  p_certificationRoute := Some m.(certificationRoute);
  p_programType := Some m.(programType);
  p_transport := Some m.(transport);
  p_parentChild := Some m.(parentChild);
|}.

(** The message as its [.proto] file declares it. *)
Definition schema (m : t) : list field :=
  [implicit 1 (VString m.(signer));
   implicit 2 (VInt Int32 m.(vid));
   implicit 3 (VInt Int32 m.(pid));
   implicit 4 (VInt Uint32 m.(softwareVersion));
   implicit 5 (VString m.(softwareVersionString));
   implicit 6 (VInt Uint32 m.(cDVersionNumber));
   implicit 7 (VString m.(provisionalDate));
   implicit 8 (VString m.(certificationType));
   implicit 9 (VString m.(reason));
   implicit 10 (VString m.(programTypeVersion));
   implicit 11 (VString m.(cDCertificateId));
   implicit 12 (VString m.(familyId));
   implicit 13 (VString m.(supportedClusters));
   implicit 14 (VString m.(compliantPlatformUsed));
   implicit 15 (VString m.(compliantPlatformVersion));
   implicit 16 (VString m.(OSVersion));
   implicit 17 (VString m.(certificationRoute));
   implicit 18 (VString m.(programType));
   implicit 19 (VString m.(transport));
   implicit 20 (VString m.(parentChild))].

(** The message with its default for every property that is not kept. *)
Definition only (kept : string → bool) (m : t) : t := {|
  signer := if kept "signer" then m.(signer) else "";
  vid := if kept "vid" then m.(vid) else Int 0;
  pid := if kept "pid" then m.(pid) else Int 0;
  softwareVersion := if kept "softwareVersion" then m.(softwareVersion) else Int 0;
  softwareVersionString := if kept "softwareVersionString" then m.(softwareVersionString) else "";
  cDVersionNumber := if kept "cDVersionNumber" then m.(cDVersionNumber) else Int 0;
  provisionalDate := if kept "provisionalDate" then m.(provisionalDate) else "";
  certificationType := if kept "certificationType" then m.(certificationType) else "";
  reason := if kept "reason" then m.(reason) else "";
  programTypeVersion := if kept "programTypeVersion" then m.(programTypeVersion) else "";
  cDCertificateId := if kept "cDCertificateId" then m.(cDCertificateId) else "";
  familyId := if kept "familyId" then m.(familyId) else "";
  supportedClusters := if kept "supportedClusters" then m.(supportedClusters) else "";
  compliantPlatformUsed := if kept "compliantPlatformUsed" then m.(compliantPlatformUsed) else "";
  compliantPlatformVersion := if kept "compliantPlatformVersion" then m.(compliantPlatformVersion) else "";
  OSVersion := if kept "OSVersion" then m.(OSVersion) else "";
  certificationRoute := if kept "certificationRoute" then m.(certificationRoute) else "";
  programType := if kept "programType" then m.(programType) else "";
  transport := if kept "transport" then m.(transport) else "";
  parentChild := if kept "parentChild" then m.(parentChild) else "";
|}.

#[global] Instance codec {PB : Protobuf} : MessageCodec t :=
  {| msg_base := base; msg_encode := encode; msg_field := decode_field |}.

#[global] Program Instance spec {PB : Protobuf} (PS : ProtobufSpec PB) : MessageSpec PS t :=
  {| msg_wire := wire; msg_valid := valid; msg_merge := merge |}.
Next Obligation. solve_encode_wire. Qed.
Next Obligation. solve_decode_wire. Qed.
Next Obligation. solve_merge_base. Qed.
Next Obligation. intros. solve_advances decode_field. Qed.

#[global] Program Instance data : MessageData t partial :=
  {| msg_fromJSON := fromJSON; msg_toJSON := toJSON;
     msg_fromPartial := fromPartial; msg_full := full |}.
Next Obligation. solve_json fromJSON toJSON. Qed.
Next Obligation. solve_partial fromPartial full. Qed.

#[global] Instance schema_wire {PB : Protobuf} {PS : ProtobufSpec PB} : WireSchema wire schema.
Proof. solve_schema_wire wire schema. Qed.

#[global] Instance schema_merge : MergeSchema merge schema.
Proof. solve_schema_merge merge schema. Qed.

(** Its row in the table of message types. *)
Definition message {PB : Protobuf} {PS : ProtobufSpec PB} : message_type :=
  plain_message "MsgProvisionModel" nothing true schema only.

#[global] Instance message_lawful {PB : Protobuf} (PS : ProtobufSpec PB) : Lawful message.
Proof. solve_lawful decode_field fromJSON only. Qed.

End MsgProvisionModel.

(** ** [MsgProvisionModelResponse] (compliance/tx.js) *)

Module MsgProvisionModelResponse.

Record t := mk {}.

#[global] Instance t_eta : Settable t := λ m, m.

Definition base : t := mk.

Definition encode {PB : Protobuf} (message : t) (writer : Writer) : Writer :=
  writer.

Definition decode_field {PB : Protobuf} (tag : Z) (message : t) : RM t :=
  match field_number tag with
  | _ => _ ← skipType (wire_type tag); mret message
  end.

Definition decode {PB : Protobuf} (length : option Z) : RM t :=
  decode_message length base decode_field.

Definition fromJSON (object : js) : result t :=
  Ok base.

Definition toJSON (message : t) : js :=
  Obj [].

Record partial := mkPartial {}.

Definition fromPartial (object : partial) : t := base.

(** The object with no property given. *)
Definition nothing : partial := mkPartial.

(** The bytes [encode] writes. *)
Definition wire {PB : Protobuf} {PS : ProtobufSpec PB} (m : t) : bytes :=
  [].

Definition valid (m : t) : Prop :=
  True.

Definition encodable {PB : Protobuf} {PS : ProtobufSpec PB} (m : t) : Prop :=
  valid m ∧ small (wire m).

Definition merge (m a : t) : t := m.

(** A whole message seen as a partial one. *)
Definition full (m : t) : partial := mkPartial.

(** The message as its [.proto] file declares it. *)
Definition schema (m : t) : list field :=
  [].

(** The message with its default for every property that is not kept. *)
Definition only (kept : string → bool) (m : t) : t := m.

#[global] Instance codec {PB : Protobuf} : MessageCodec t :=
  {| msg_base := base; msg_encode := encode; msg_field := decode_field |}.

#[global] Program Instance spec {PB : Protobuf} (PS : ProtobufSpec PB) : MessageSpec PS t :=
  {| msg_wire := wire; msg_valid := valid; msg_merge := merge |}.
Next Obligation. solve_encode_wire. Qed.
Next Obligation. solve_decode_wire. Qed.
Next Obligation. solve_merge_base. Qed.
Next Obligation. intros. solve_advances decode_field. Qed.

#[global] Program Instance data : MessageData t partial :=
  {| msg_fromJSON := fromJSON; msg_toJSON := toJSON;
     msg_fromPartial := fromPartial; msg_full := full |}.
Next Obligation. solve_json fromJSON toJSON. Qed.
Next Obligation. solve_partial fromPartial full. Qed.

#[global] Instance schema_wire {PB : Protobuf} {PS : ProtobufSpec PB} : WireSchema wire schema.
Proof. solve_schema_wire wire schema. Qed.

#[global] Instance schema_merge : MergeSchema merge schema.
Proof. solve_schema_merge merge schema. Qed.

(** Its row in the table of message types. *)
Definition message {PB : Protobuf} {PS : ProtobufSpec PB} : message_type :=
  plain_message "MsgProvisionModelResponse" nothing false schema only.

#[global] Instance message_lawful {PB : Protobuf} (PS : ProtobufSpec PB) : Lawful message.
Proof. solve_lawful decode_field fromJSON only. Qed.

End MsgProvisionModelResponse.


(** ** [MsgClientImpl]

    [rpc] is the transport the class is constructed with: [rpc service method data]
    is what the promise of [this.rpc.request] settles to. *)
Module MsgClientImpl.
Section client.
Context {PB : Protobuf} (rpc : string → string → bytes → result bytes).

Definition CertifyModel (request : MsgCertifyModel.t) : result MsgCertifyModelResponse.t :=
  data ← rpc "zigbeealliance.distributedcomplianceledger.compliance.Msg" "CertifyModel"
    (finish (MsgCertifyModel.encode request create));
  decode_bytes MsgCertifyModelResponse.decode data.

Definition RevokeModel (request : MsgRevokeModel.t) : result MsgRevokeModelResponse.t :=
  data ← rpc "zigbeealliance.distributedcomplianceledger.compliance.Msg" "RevokeModel"
    (finish (MsgRevokeModel.encode request create));
  decode_bytes MsgRevokeModelResponse.decode data.

Definition ProvisionModel (request : MsgProvisionModel.t) : result MsgProvisionModelResponse.t :=
  data ← rpc "zigbeealliance.distributedcomplianceledger.compliance.Msg" "ProvisionModel"
    (finish (MsgProvisionModel.encode request create));
  decode_bytes MsgProvisionModelResponse.decode data.

End client.
End MsgClientImpl.

(** ** The message types of this file *)

Definition messages {PB : Protobuf} {PS : ProtobufSpec PB} : list message_type :=
  [ ComplianceHistoryItem.message; CertifiedModel.message; ProvisionalModel.message;
   RevokedModel.message; ComplianceInfo.message; DeviceSoftwareCompliance.message;
   MsgCertifyModel.message; MsgCertifyModelResponse.message; MsgRevokeModel.message;
   MsgRevokeModelResponse.message; MsgProvisionModel.message; MsgProvisionModelResponse.message].

Lemma ComplianceTypes_lawful {PB : Protobuf} {PS : ProtobufSpec PB} : Forall Lawful messages.
Proof. solve_table. Qed.

(** The methods of [MsgClientImpl]. *)
Definition msg_methods {PB : Protobuf} {PS : ProtobufSpec PB} : list rpc_method :=
  [mkMethod "zigbeealliance.distributedcomplianceledger.compliance.Msg" "CertifyModel"
     MsgCertifyModel.message MsgCertifyModelResponse.message
     (fun rpc => MsgClientImpl.CertifyModel rpc);
   mkMethod "zigbeealliance.distributedcomplianceledger.compliance.Msg" "RevokeModel"
     MsgRevokeModel.message MsgRevokeModelResponse.message
     (fun rpc => MsgClientImpl.RevokeModel rpc);
   mkMethod "zigbeealliance.distributedcomplianceledger.compliance.Msg" "ProvisionModel"
     MsgProvisionModel.message MsgProvisionModelResponse.message
     (fun rpc => MsgClientImpl.ProvisionModel rpc)].

Lemma ComplianceTypes_msg_methods_lawful {PB : Protobuf} {PS : ProtobufSpec PB} : Forall method_lawful msg_methods.
Proof. solve_methods. Qed.
