(* ===== verification/ComplianceQuery.v ===== *)
(** * The query and genesis messages of the compliance module

    The codecs of [compliance/module/types/compliance/query.js] and [genesis.js]. *)
From S2P Require Import Prelude Js Protobuf Codec Calendar Dates Base64 Fallible Proto3 MessageTable CommonTypes ComplianceTypes.
Open Scope Z_scope.

(** ** [QueryGetComplianceInfoRequest] (compliance/query.js) *)

Module QueryGetComplianceInfoRequest.

Record t := mk {
  vid : number;
  pid : number;
  softwareVersion : number;
  certificationType : string;
}.

#[global] Instance t_eta : Settable t := λ m, mk m.(vid) m.(pid) m.(softwareVersion)
  m.(certificationType).

Definition base : t := mk 0 0 0 "".

Definition encode {PB : Protobuf} (message : t) (writer : Writer) : Writer :=
  writer
  @> when (num_neq message.(vid) 0) (fun w => w @> uint32 8 @> int32 message.(vid))
  @> when (num_neq message.(pid) 0) (fun w => w @> uint32 16 @> int32 message.(pid))
  @> when (num_neq message.(softwareVersion) 0)
       (fun w => w @> uint32 24 @> uint32 message.(softwareVersion))
  @> when (str_neq message.(certificationType) "")
       (fun w => w @> uint32 34 @> string_ message.(certificationType)).

Definition decode_field {PB : Protobuf} (tag : Z) (message : t) : RM t :=
  match field_number tag with
  | 1 => v ← read_int32; mret (message <| vid := Int v |>)
  | 2 => v ← read_int32; mret (message <| pid := Int v |>)
  | 3 => v ← read_uint32; mret (message <| softwareVersion := Int v |>)
  | 4 => v ← read_string; mret (message <| certificationType := v |>)
  | _ => _ ← skipType (wire_type tag); mret message
  end.

Definition decode {PB : Protobuf} (length : option Z) : RM t :=
  decode_message length base decode_field.

Definition fromJSON (object : js) : result t :=
  vid' ← field_or object "vid" js_Number 0;
  pid' ← field_or object "pid" js_Number 0;
  softwareVersion' ← field_or object "softwareVersion" js_Number 0;
  certificationType' ← field_or object "certificationType" to_string "";
  Ok (mk vid' pid' softwareVersion' certificationType').

Definition toJSON (message : t) : js :=
  Obj ([("vid", Num message.(vid));
    ("pid", Num message.(pid));
    ("softwareVersion", Num message.(softwareVersion));
    ("certificationType", Str message.(certificationType))]).

Record partial := mkPartial {
  p_vid : option number;
  p_pid : option number;
  p_softwareVersion : option number;
  p_certificationType : option string;
}.

Definition fromPartial (object : partial) : t := {|
  vid := object.(p_vid) ?? Int 0;
  pid := object.(p_pid) ?? Int 0;
  softwareVersion := object.(p_softwareVersion) ?? Int 0;
  certificationType := object.(p_certificationType) ?? "";
|}.

(** The object with no property given. *)
Definition nothing : partial := mkPartial None None None None.

(** The bytes [encode] writes. *)
Definition wire {PB : Protobuf} {PS : ProtobufSpec PB} (m : t) : bytes :=
  f_number e_int32 8 m.(vid) ++
  f_number e_int32 16 m.(pid) ++
  f_number e_uint32 24 m.(softwareVersion) ++
  f_string 34 m.(certificationType).

Definition valid (m : t) : Prop :=
  int32_ok m.(vid) ∧ int32_ok m.(pid) ∧ uint32_ok m.(softwareVersion).

Definition encodable {PB : Protobuf} {PS : ProtobufSpec PB} (m : t) : Prop :=
  valid m ∧ small (wire m).

Definition merge (m a : t) : t := {|
  vid := later_number m.(vid) a.(vid);
  pid := later_number m.(pid) a.(pid);
  softwareVersion := later_number m.(softwareVersion) a.(softwareVersion);
  certificationType := later_string m.(certificationType) a.(certificationType);
|}.

(** A whole message seen as a partial one. *)
Definition full (m : t) : partial := {|
  p_vid := Some m.(vid);
  p_pid := Some m.(pid);
  p_softwareVersion := Some m.(softwareVersion);
  p_certificationType := Some m.(certificationType);
|}.

(** The message as its [.proto] file declares it. *)
Definition schema (m : t) : list field :=
  [implicit 1 (VInt Int32 m.(vid));
   implicit 2 (VInt Int32 m.(pid));
   implicit 3 (VInt Uint32 m.(softwareVersion));
   implicit 4 (VString m.(certificationType))].

(** The message with its default for every property that is not kept. *)
Definition only (kept : string → bool) (m : t) : t := {|
  vid := if kept "vid" then m.(vid) else Int 0;
  pid := if kept "pid" then m.(pid) else Int 0;
  softwareVersion := if kept "softwareVersion" then m.(softwareVersion) else Int 0;
  certificationType := if kept "certificationType" then m.(certificationType) else "";
|}.

#[global] Instance codec {PB : Protobuf} : MessageCodec t :=
  {| msg_base := base; msg_encode := encode; msg_field := decode_field |}.

#[global] Program Instance spec {PB : Protobuf} (PS : ProtobufSpec PB) : MessageSpec PS t :=
  {| msg_wire := wire; msg_valid := valid; msg_merge := merge |}.
Next Obligation. solve_encode_wire. Qed.
Next Obligation. solve_decode_wire. Qed.
Next Obligation. solve_merge_base. Qed.
Next Obligation. intros. solve_advances decode_field. Qed.

#[global] Program Instance data : MessageData t partial :=
  {| msg_fromJSON := fromJSON; msg_toJSON := toJSON;
     msg_fromPartial := fromPartial; msg_full := full |}.
Next Obligation. solve_json fromJSON toJSON. Qed.
Next Obligation. solve_partial fromPartial full. Qed.

#[global] Instance schema_wire {PB : Protobuf} {PS : ProtobufSpec PB} : WireSchema wire schema.
Proof. solve_schema_wire wire schema. Qed.

#[global] Instance schema_merge : MergeSchema merge schema.
Proof. solve_schema_merge merge schema. Qed.

(** Its row in the table of message types. *)
Definition message {PB : Protobuf} {PS : ProtobufSpec PB} : message_type :=
  plain_message "QueryGetComplianceInfoRequest" nothing true schema only.

#[global] Instance message_lawful {PB : Protobuf} (PS : ProtobufSpec PB) : Lawful message.
Proof. solve_lawful decode_field fromJSON only. Qed.

End QueryGetComplianceInfoRequest.

(** ** [QueryGetComplianceInfoResponse] (compliance/query.js) *)

Module QueryGetComplianceInfoResponse.

Record t := mk {
  complianceInfo : option ComplianceInfo.t;
}.

#[global] Instance t_eta : Settable t := λ m, mk m.(complianceInfo).

Definition base : t := mk None.

Definition encode {PB : Protobuf} (message : t) (writer : Writer) : Writer :=
  writer
  @> defined message.(complianceInfo) (fun v w => w @> uint32 10 @> fork @> ComplianceInfo.encode v @> ldelim).

Definition decode_field {PB : Protobuf} (tag : Z) (message : t) : RM t :=
  match field_number tag with
  | 1 => v ← read_nested ComplianceInfo.decode; mret (message <| complianceInfo := Some v |>)
  | _ => _ ← skipType (wire_type tag); mret message
  end.

Definition decode {PB : Protobuf} (length : option Z) : RM t :=
  decode_message length base decode_field.

Definition fromJSON (object : js) : result t :=
  complianceInfo' ← field_or object "complianceInfo" (to_some ComplianceInfo.fromJSON) None;
  Ok (mk complianceInfo').

Definition toJSON (message : t) : js :=
  Obj (prop_opt "complianceInfo" ComplianceInfo.toJSON message.(complianceInfo)).

Record partial := mkPartial {
  p_complianceInfo : option ComplianceInfo.partial;
}.

Definition fromPartial (object : partial) : t := {|
  complianceInfo := ComplianceInfo.fromPartial <$> object.(p_complianceInfo);
|}.

(** The object with no property given. *)
Definition nothing : partial := mkPartial None.

(** The bytes [encode] writes. *)
Definition wire {PB : Protobuf} {PS : ProtobufSpec PB} (m : t) : bytes :=
  f_message 10 ComplianceInfo.wire m.(complianceInfo).

Definition valid (m : t) : Prop :=
  from_option ComplianceInfo.valid True m.(complianceInfo).

Definition encodable {PB : Protobuf} {PS : ProtobufSpec PB} (m : t) : Prop :=
  valid m ∧ small (wire m).

Definition merge (m a : t) : t := {|
  complianceInfo := later_message m.(complianceInfo) a.(complianceInfo);
|}.

(** A whole message seen as a partial one. *)
Definition full (m : t) : partial := {|
  p_complianceInfo := ComplianceInfo.full <$> m.(complianceInfo);
|}.

(** The message as its [.proto] file declares it. *)
Definition schema (m : t) : list field :=
  [singular 1 Optional (message_value ComplianceInfo.schema) m.(complianceInfo)].

(** The message with its default for every property that is not kept. *)
Definition only (kept : string → bool) (m : t) : t := {|
  complianceInfo := if kept "complianceInfo" then m.(complianceInfo) else None;
|}.

#[global] Instance codec {PB : Protobuf} : MessageCodec t :=
  {| msg_base := base; msg_encode := encode; msg_field := decode_field |}.

#[global] Program Instance spec {PB : Protobuf} (PS : ProtobufSpec PB) : MessageSpec PS t :=
  {| msg_wire := wire; msg_valid := valid; msg_merge := merge |}.
Next Obligation. solve_encode_wire. Qed.
Next Obligation. solve_decode_wire. Qed.
Next Obligation. solve_merge_base. Qed.
Next Obligation. intros. solve_advances decode_field. Qed.

#[global] Program Instance data : MessageData t partial :=
  {| msg_fromJSON := fromJSON; msg_toJSON := toJSON;
     msg_fromPartial := fromPartial; msg_full := full |}.
Next Obligation. solve_json fromJSON toJSON. Qed.
Next Obligation. solve_partial fromPartial full. Qed.

#[global] Instance schema_wire {PB : Protobuf} {PS : ProtobufSpec PB} : WireSchema wire schema.
Proof. solve_schema_wire wire schema. Qed.

#[global] Instance schema_merge : MergeSchema merge schema.
Proof. solve_schema_merge merge schema. Qed.

(** Its row in the table of message types. *)
Definition message {PB : Protobuf} {PS : ProtobufSpec PB} : message_type :=
  plain_message "QueryGetComplianceInfoResponse" nothing true schema only.

#[global] Instance message_lawful {PB : Protobuf} (PS : ProtobufSpec PB) : Lawful message.
Proof. solve_lawful decode_field fromJSON only. Qed.

End QueryGetComplianceInfoResponse.

(** ** [QueryAllComplianceInfoRequest] (compliance/query.js) *)

Module QueryAllComplianceInfoRequest.

Record t := mk {
  pagination : option PageRequest.t;
}.

#[global] Instance t_eta : Settable t := λ m, mk m.(pagination).

Definition base : t := mk None.

Definition encode {PB : Protobuf} (message : t) (writer : Writer) : result Writer :=
  Ok writer
  @>= defined_e message.(pagination) (submessage 10 PageRequest.encode).

Definition decode_field {PB : Protobuf} (tag : Z) (message : t) : RM t :=
  match field_number tag with
  | 1 => v ← read_nested PageRequest.decode; mret (message <| pagination := Some v |>)
  | _ => _ ← skipType (wire_type tag); mret message
  end.

Definition decode {PB : Protobuf} (length : option Z) : RM t :=
  decode_message length base decode_field.

Definition fromJSON (object : js) : result t :=
  pagination' ← field_or object "pagination" (to_some PageRequest.fromJSON) None;
  Ok (mk pagination').

Definition toJSON (message : t) : js :=
  Obj (prop_opt "pagination" PageRequest.toJSON message.(pagination)).

Record partial := mkPartial {
  p_pagination : option PageRequest.partial;
}.

Definition fromPartial (object : partial) : t := {|
  pagination := PageRequest.fromPartial <$> object.(p_pagination);
|}.

(** The object with no property given. *)
Definition nothing : partial := mkPartial None.

(** The bytes [encode] writes. *)
Definition wire {PB : Protobuf} {PS : ProtobufSpec PB} (m : t) : bytes :=
  f_message 10 PageRequest.wire m.(pagination).

Definition valid (m : t) : Prop :=
  from_option PageRequest.valid True m.(pagination).

(** The byte fields hold arrays, as the interface declares. *)
Definition typed (m : t) : bool := from_option PageRequest.typed true m.(pagination).

(** The message without its empty byte arrays. *)
Definition normal (m : t) : t := {|
  pagination := PageRequest.normal <$> m.(pagination);
|}.

Definition encodable {PB : Protobuf} {PS : ProtobufSpec PB} (m : t) : Prop :=
  typed m = true ∧ valid m ∧ small (wire m).

Definition merge (m a : t) : t := {|
  pagination := later_message m.(pagination) (PageRequest.normal <$> a.(pagination));
|}.

(** A whole message seen as a partial one. *)
Definition full (m : t) : partial := {|
  p_pagination := PageRequest.full <$> m.(pagination);
|}.

(** The message as its [.proto] file declares it. *)
Definition schema (m : t) : list field :=
  [singular 1 Optional (message_value PageRequest.schema) m.(pagination)].

(** The message with its default for every property that is not kept. *)
Definition only (kept : string → bool) (m : t) : t := {|
  pagination := if kept "pagination" then m.(pagination) else None;
|}.

#[global] Instance codec {PB : Protobuf} : FallibleCodec t :=
  {| fmsg_base := base; fmsg_encode := encode; fmsg_field := decode_field |}.

#[global] Program Instance spec {PB : Protobuf} (PS : ProtobufSpec PB) : FallibleSpec PS t :=
  {| fmsg_wire := wire; fmsg_valid := valid; fmsg_typed := typed; fmsg_normal := normal;
     fmsg_merge := merge |}.
Next Obligation. solve_fencode_wire. Qed.
Next Obligation. intros. solve_fencode_throws encode typed. Qed.
Next Obligation. solve_fdecode_wire. Qed.
Next Obligation. solve_fmerge_base. Qed.
Next Obligation. intros. solve_fadvances decode_field. Qed.

#[global] Program Instance given_ : FalliblePartial t partial :=
  {| fmsg_fromPartial := fromPartial; fmsg_full := full; fmsg_given := typed |}.
Next Obligation. solve_fgiven fromPartial typed. Qed.
Next Obligation. solve_fpartial fromPartial full typed. Qed.

#[global] Program Instance json : FallibleJson t :=
  {| fmsg_fromJSON := fromJSON; fmsg_toJSON := toJSON;
     fmsg_named := fun _ => true; fmsg_known := fun m => m |}.
Next Obligation. solve_fjson fromJSON toJSON. Qed.
Next Obligation. reflexivity. Qed.

#[global] Instance schema_wire {PB : Protobuf} {PS : ProtobufSpec PB} : WireSchema wire schema.
Proof. solve_schema_wire wire schema. Qed.

#[global] Instance schema_normal : NormalSchema normal schema.
Proof. solve_schema_normal normal schema. Qed.

#[global] Instance schema_merge : MergeSchema merge schema.
Proof. solve_schema_merge merge schema. Qed.

(** Its row in the table of message types. *)
Definition message {PB : Protobuf} {PS : ProtobufSpec PB} : message_type :=
  fallible_message "QueryAllComplianceInfoRequest" nothing true schema only.

#[global] Instance message_lawful {PB : Protobuf} (PS : ProtobufSpec PB) : Lawful message.
Proof. solve_lawful decode_field fromJSON only. Qed.

End QueryAllComplianceInfoRequest.

(** ** [QueryAllComplianceInfoResponse] (compliance/query.js) *)

Module QueryAllComplianceInfoResponse.

Record t := mk {
  complianceInfo : list ComplianceInfo.t;
  pagination : option PageResponse.t;
}.

#[global] Instance t_eta : Settable t := λ m, mk m.(complianceInfo) m.(pagination).

Definition base : t := mk [] None.

Definition encode {PB : Protobuf} (message : t) (writer : Writer) : result Writer :=
  Ok writer
  @>= pure (each message.(complianceInfo) (fun v w => w @> uint32 10 @> fork @> ComplianceInfo.encode v @> ldelim))
  @>= defined_e message.(pagination) (submessage 18 PageResponse.encode).

Definition decode_field {PB : Protobuf} (tag : Z) (message : t) : RM t :=
  match field_number tag with
  | 1 => v ← read_nested ComplianceInfo.decode;
         mret (message <| complianceInfo := message.(complianceInfo) ++ [v] |>)
  | 2 => v ← read_nested PageResponse.decode; mret (message <| pagination := Some v |>)
  | _ => _ ← skipType (wire_type tag); mret message
  end.

Definition decode {PB : Protobuf} (length : option Z) : RM t :=
  decode_message length base decode_field.

Definition fromJSON (object : js) : result t :=
  complianceInfo' ← field_or object "complianceInfo" (to_list ComplianceInfo.fromJSON) [];
  pagination' ← field_or object "pagination" (to_some PageResponse.fromJSON) None;
  Ok (mk complianceInfo' pagination').

Definition toJSON (message : t) : js :=
  Obj ([("complianceInfo", Arr (map ComplianceInfo.toJSON message.(complianceInfo)))] ++
   prop_opt "pagination" PageResponse.toJSON message.(pagination)).

Record partial := mkPartial {
  p_complianceInfo : option (list ComplianceInfo.partial);
  p_pagination : option PageResponse.partial;
}.

Definition fromPartial (object : partial) : t := {|
  complianceInfo := map ComplianceInfo.fromPartial (object.(p_complianceInfo) ?? []);
  pagination := PageResponse.fromPartial <$> object.(p_pagination);
|}.

(** The object with no property given. *)
Definition nothing : partial := mkPartial None None.

(** The bytes [encode] writes. *)
Definition wire {PB : Protobuf} {PS : ProtobufSpec PB} (m : t) : bytes :=
  f_repeated 10 ComplianceInfo.wire m.(complianceInfo) ++
  f_message 18 PageResponse.wire m.(pagination).

Definition valid (m : t) : Prop :=
  Forall ComplianceInfo.valid m.(complianceInfo) ∧ from_option PageResponse.valid True m.(pagination).

(** The byte fields hold arrays, as the interface declares. *)
Definition typed (m : t) : bool := from_option PageResponse.typed true m.(pagination).

(** The message without its empty byte arrays. *)
Definition normal (m : t) : t := {|
  complianceInfo := m.(complianceInfo);
  pagination := PageResponse.normal <$> m.(pagination);
|}.

Definition encodable {PB : Protobuf} {PS : ProtobufSpec PB} (m : t) : Prop :=
  typed m = true ∧ valid m ∧ small (wire m).

Definition merge (m a : t) : t := {|
  complianceInfo := m.(complianceInfo) ++ a.(complianceInfo);
  pagination := later_message m.(pagination) (PageResponse.normal <$> a.(pagination));
|}.

(** A whole message seen as a partial one. *)
Definition full (m : t) : partial := {|
  p_complianceInfo := Some (map ComplianceInfo.full m.(complianceInfo));
  p_pagination := PageResponse.full <$> m.(pagination);
|}.

(** The message as its [.proto] file declares it. *)
Definition schema (m : t) : list field :=
  [repeated 1 (message_value ComplianceInfo.schema) m.(complianceInfo);
   singular 2 Optional (message_value PageResponse.schema) m.(pagination)].

(** The message with its default for every property that is not kept. *)
Definition only (kept : string → bool) (m : t) : t := {|
  complianceInfo := if kept "complianceInfo" then m.(complianceInfo) else [];
  pagination := if kept "pagination" then m.(pagination) else None;
|}.

#[global] Instance codec {PB : Protobuf} : FallibleCodec t :=
  {| fmsg_base := base; fmsg_encode := encode; fmsg_field := decode_field |}.

#[global] Program Instance spec {PB : Protobuf} (PS : ProtobufSpec PB) : FallibleSpec PS t :=
  {| fmsg_wire := wire; fmsg_valid := valid; fmsg_typed := typed; fmsg_normal := normal;
     fmsg_merge := merge |}.
Next Obligation. solve_fencode_wire. Qed.
Next Obligation. intros. solve_fencode_throws encode typed. Qed.
Next Obligation. solve_fdecode_wire. Qed.
Next Obligation. solve_fmerge_base. Qed.
Next Obligation. intros. solve_fadvances decode_field. Qed.

#[global] Program Instance given_ : FalliblePartial t partial :=
  {| fmsg_fromPartial := fromPartial; fmsg_full := full; fmsg_given := typed |}.
Next Obligation. solve_fgiven fromPartial typed. Qed.
Next Obligation. solve_fpartial fromPartial full typed. Qed.

#[global] Program Instance json : FallibleJson t :=
  {| fmsg_fromJSON := fromJSON; fmsg_toJSON := toJSON;
     fmsg_named := fun _ => true; fmsg_known := fun m => m |}.
Next Obligation. solve_fjson fromJSON toJSON. Qed.
Next Obligation. reflexivity. Qed.

#[global] Instance schema_wire {PB : Protobuf} {PS : ProtobufSpec PB} : WireSchema wire schema.
Proof. solve_schema_wire wire schema. Qed.

#[global] Instance schema_normal : NormalSchema normal schema.
Proof. solve_schema_normal normal schema. Qed.

#[global] Instance schema_merge : MergeSchema merge schema.
Proof. solve_schema_merge merge schema. Qed.

(** Its row in the table of message types. *)
Definition message {PB : Protobuf} {PS : ProtobufSpec PB} : message_type :=
  fallible_message "QueryAllComplianceInfoResponse" nothing true schema only.

#[global] Instance message_lawful {PB : Protobuf} (PS : ProtobufSpec PB) : Lawful message.
Proof. solve_lawful decode_field fromJSON only. Qed.

End QueryAllComplianceInfoResponse.

(** ** [QueryGetCertifiedModelRequest] (compliance/query.js) *)

Module QueryGetCertifiedModelRequest.

Record t := mk {
  vid : number;
  pid : number;
  softwareVersion : number;
  certificationType : string;
}.

#[global] Instance t_eta : Settable t := λ m, mk m.(vid) m.(pid) m.(softwareVersion)
  m.(certificationType).

Definition base : t := mk 0 0 0 "".

Definition encode {PB : Protobuf} (message : t) (writer : Writer) : Writer :=
  writer
  @> when (num_neq message.(vid) 0) (fun w => w @> uint32 8 @> int32 message.(vid))
  @> when (num_neq message.(pid) 0) (fun w => w @> uint32 16 @> int32 message.(pid))
  @> when (num_neq message.(softwareVersion) 0)
       (fun w => w @> uint32 24 @> uint32 message.(softwareVersion))
  @> when (str_neq message.(certificationType) "")
       (fun w => w @> uint32 34 @> string_ message.(certificationType)).

Definition decode_field {PB : Protobuf} (tag : Z) (message : t) : RM t :=
  match field_number tag with
  | 1 => v ← read_int32; mret (message <| vid := Int v |>)
  | 2 => v ← read_int32; mret (message <| pid := Int v |>)
  | 3 => v ← read_uint32; mret (message <| softwareVersion := Int v |>)
  | 4 => v ← read_string; mret (message <| certificationType := v |>)
  | _ => _ ← skipType (wire_type tag); mret message
  end.

Definition decode {PB : Protobuf} (length : option Z) : RM t :=
  decode_message length base decode_field.

Definition fromJSON (object : js) : result t :=
  vid' ← field_or object "vid" js_Number 0;
  pid' ← field_or object "pid" js_Number 0;
  softwareVersion' ← field_or object "softwareVersion" js_Number 0;
  certificationType' ← field_or object "certificationType" to_string "";
  Ok (mk vid' pid' softwareVersion' certificationType').

Definition toJSON (message : t) : js :=
  Obj ([("vid", Num message.(vid));
    ("pid", Num message.(pid));
    ("softwareVersion", Num message.(softwareVersion));
    ("certificationType", Str message.(certificationType))]).

Record partial := mkPartial {
  p_vid : option number;
  p_pid : option number;
  p_softwareVersion : option number;
  p_certificationType : option string;
}.

Definition fromPartial (object : partial) : t := {|
  vid := object.(p_vid) ?? Int 0;
  pid := object.(p_pid) ?? Int 0;
  softwareVersion := object.(p_softwareVersion) ?? Int 0;
  certificationType := object.(p_certificationType) ?? "";
|}.

(** The object with no property given. *)
Definition nothing : partial := mkPartial None None None None.

(** The bytes [encode] writes. *)
Definition wire {PB : Protobuf} {PS : ProtobufSpec PB} (m : t) : bytes :=
  f_number e_int32 8 m.(vid) ++
  f_number e_int32 16 m.(pid) ++
  f_number e_uint32 24 m.(softwareVersion) ++
  f_string 34 m.(certificationType).

Definition valid (m : t) : Prop :=
  int32_ok m.(vid) ∧ int32_ok m.(pid) ∧ uint32_ok m.(softwareVersion).

Definition encodable {PB : Protobuf} {PS : ProtobufSpec PB} (m : t) : Prop :=
  valid m ∧ small (wire m).

Definition merge (m a : t) : t := {|
  vid := later_number m.(vid) a.(vid);
  pid := later_number m.(pid) a.(pid);
  softwareVersion := later_number m.(softwareVersion) a.(softwareVersion);
  certificationType := later_string m.(certificationType) a.(certificationType);
|}.

(** A whole message seen as a partial one. *)
Definition full (m : t) : partial := {|
  p_vid := Some m.(vid);
  p_pid := Some m.(pid);
  p_softwareVersion := Some m.(softwareVersion);
  p_certificationType := Some m.(certificationType);
|}.

(** The message as its [.proto] file declares it. *)
Definition schema (m : t) : list field :=
  [implicit 1 (VInt Int32 m.(vid));
   implicit 2 (VInt Int32 m.(pid));
   implicit 3 (VInt Uint32 m.(softwareVersion));
   implicit 4 (VString m.(certificationType))].

(** The message with its default for every property that is not kept. *)
Definition only (kept : string → bool) (m : t) : t := {|
  vid := if kept "vid" then m.(vid) else Int 0;
  pid := if kept "pid" then m.(pid) else Int 0;
  softwareVersion := if kept "softwareVersion" then m.(softwareVersion) else Int 0;
  certificationType := if kept "certificationType" then m.(certificationType) else "";
|}.

#[global] Instance codec {PB : Protobuf} : MessageCodec t :=
  {| msg_base := base; msg_encode := encode; msg_field := decode_field |}.

#[global] Program Instance spec {PB : Protobuf} (PS : ProtobufSpec PB) : MessageSpec PS t :=
  {| msg_wire := wire; msg_valid := valid; msg_merge := merge |}.
Next Obligation. solve_encode_wire. Qed.
Next Obligation. solve_decode_wire. Qed.
Next Obligation. solve_merge_base. Qed.
Next Obligation. intros. solve_advances decode_field. Qed.

#[global] Program Instance data : MessageData t partial :=
  {| msg_fromJSON := fromJSON; msg_toJSON := toJSON;
     msg_fromPartial := fromPartial; msg_full := full |}.
Next Obligation. solve_json fromJSON toJSON. Qed.
Next Obligation. solve_partial fromPartial full. Qed.

#[global] Instance schema_wire {PB : Protobuf} {PS : ProtobufSpec PB} : WireSchema wire schema.
Proof. solve_schema_wire wire schema. Qed.

#[global] Instance schema_merge : MergeSchema merge schema.
Proof. solve_schema_merge merge schema. Qed.

(** Its row in the table of message types. *)
Definition message {PB : Protobuf} {PS : ProtobufSpec PB} : message_type :=
  plain_message "QueryGetCertifiedModelRequest" nothing true schema only.

#[global] Instance message_lawful {PB : Protobuf} (PS : ProtobufSpec PB) : Lawful message.
Proof. solve_lawful decode_field fromJSON only. Qed.

End QueryGetCertifiedModelRequest.

(** ** [QueryGetCertifiedModelResponse] (compliance/query.js) *)

Module QueryGetCertifiedModelResponse.

Record t := mk {
  certifiedModel : option CertifiedModel.t;
}.

#[global] Instance t_eta : Settable t := λ m, mk m.(certifiedModel).

Definition base : t := mk None.

Definition encode {PB : Protobuf} (message : t) (writer : Writer) : Writer :=
  writer
  @> defined message.(certifiedModel) (fun v w => w @> uint32 10 @> fork @> CertifiedModel.encode v @> ldelim).

Definition decode_field {PB : Protobuf} (tag : Z) (message : t) : RM t :=
  match field_number tag with
  | 1 => v ← read_nested CertifiedModel.decode; mret (message <| certifiedModel := Some v |>)
  | _ => _ ← skipType (wire_type tag); mret message
  end.

Definition decode {PB : Protobuf} (length : option Z) : RM t :=
  decode_message length base decode_field.

Definition fromJSON (object : js) : result t :=
  certifiedModel' ← field_or object "certifiedModel" (to_some CertifiedModel.fromJSON) None;
  Ok (mk certifiedModel').

Definition toJSON (message : t) : js :=
  Obj (prop_opt "certifiedModel" CertifiedModel.toJSON message.(certifiedModel)).

Record partial := mkPartial {
  p_certifiedModel : option CertifiedModel.partial;
}.

Definition fromPartial (object : partial) : t := {|
  certifiedModel := CertifiedModel.fromPartial <$> object.(p_certifiedModel);
|}.

(** The object with no property given. *)
Definition nothing : partial := mkPartial None.

(** The bytes [encode] writes. *)
Definition wire {PB : Protobuf} {PS : ProtobufSpec PB} (m : t) : bytes :=
  f_message 10 CertifiedModel.wire m.(certifiedModel).

Definition valid (m : t) : Prop :=
  from_option CertifiedModel.valid True m.(certifiedModel).

Definition encodable {PB : Protobuf} {PS : ProtobufSpec PB} (m : t) : Prop :=
  valid m ∧ small (wire m).

Definition merge (m a : t) : t := {|
  certifiedModel := later_message m.(certifiedModel) a.(certifiedModel);
|}.

(** A whole message seen as a partial one. *)
Definition full (m : t) : partial := {|
  p_certifiedModel := CertifiedModel.full <$> m.(certifiedModel);
|}.

(** The message as its [.proto] file declares it. *)
Definition schema (m : t) : list field :=
  [singular 1 Optional (message_value CertifiedModel.schema) m.(certifiedModel)].

(** The message with its default for every property that is not kept. *)
Definition only (kept : string → bool) (m : t) : t := {|
  certifiedModel := if kept "certifiedModel" then m.(certifiedModel) else None;
|}.

#[global] Instance codec {PB : Protobuf} : MessageCodec t :=
  {| msg_base := base; msg_encode := encode; msg_field := decode_field |}.

#[global] Program Instance spec {PB : Protobuf} (PS : ProtobufSpec PB) : MessageSpec PS t :=
  {| msg_wire := wire; msg_valid := valid; msg_merge := merge |}.
Next Obligation. solve_encode_wire. Qed.
Next Obligation. solve_decode_wire. Qed.
Next Obligation. solve_merge_base. Qed.
Next Obligation. intros. solve_advances decode_field. Qed.

#[global] Program Instance data : MessageData t partial :=
  {| msg_fromJSON := fromJSON; msg_toJSON := toJSON;
     msg_fromPartial := fromPartial; msg_full := full |}.
Next Obligation. solve_json fromJSON toJSON. Qed.
Next Obligation. solve_partial fromPartial full. Qed.

#[global] Instance schema_wire {PB : Protobuf} {PS : ProtobufSpec PB} : WireSchema wire schema.
Proof. solve_schema_wire wire schema. Qed.

#[global] Instance schema_merge : MergeSchema merge schema.
Proof. solve_schema_merge merge schema. Qed.

(** Its row in the table of message types. *)
Definition message {PB : Protobuf} {PS : ProtobufSpec PB} : message_type :=
  plain_message "QueryGetCertifiedModelResponse" nothing true schema only.

#[global] Instance message_lawful {PB : Protobuf} (PS : ProtobufSpec PB) : Lawful message.
Proof. solve_lawful decode_field fromJSON only. Qed.

End QueryGetCertifiedModelResponse.

(** ** [QueryAllCertifiedModelRequest] (compliance/query.js) *)

Module QueryAllCertifiedModelRequest.

Record t := mk {
  pagination : option PageRequest.t;
}.

#[global] Instance t_eta : Settable t := λ m, mk m.(pagination).

Definition base : t := mk None.

Definition encode {PB : Protobuf} (message : t) (writer : Writer) : result Writer :=
  Ok writer
  @>= defined_e message.(pagination) (submessage 10 PageRequest.encode).

Definition decode_field {PB : Protobuf} (tag : Z) (message : t) : RM t :=
  match field_number tag with
  | 1 => v ← read_nested PageRequest.decode; mret (message <| pagination := Some v |>)
  | _ => _ ← skipType (wire_type tag); mret message
  end.

Definition decode {PB : Protobuf} (length : option Z) : RM t :=
  decode_message length base decode_field.

Definition fromJSON (object : js) : result t :=
  pagination' ← field_or object "pagination" (to_some PageRequest.fromJSON) None;
  Ok (mk pagination').

Definition toJSON (message : t) : js :=
  Obj (prop_opt "pagination" PageRequest.toJSON message.(pagination)).

Record partial := mkPartial {
  p_pagination : option PageRequest.partial;
}.

Definition fromPartial (object : partial) : t := {|
  pagination := PageRequest.fromPartial <$> object.(p_pagination);
|}.

(** The object with no property given. *)
Definition nothing : partial := mkPartial None.

(** The bytes [encode] writes. *)
Definition wire {PB : Protobuf} {PS : ProtobufSpec PB} (m : t) : bytes :=
  f_message 10 PageRequest.wire m.(pagination).

Definition valid (m : t) : Prop :=
  from_option PageRequest.valid True m.(pagination).

(** The byte fields hold arrays, as the interface declares. *)
Definition typed (m : t) : bool := from_option PageRequest.typed true m.(pagination).

(** The message without its empty byte arrays. *)
Definition normal (m : t) : t := {|
  pagination := PageRequest.normal <$> m.(pagination);
|}.

Definition encodable {PB : Protobuf} {PS : ProtobufSpec PB} (m : t) : Prop :=
  typed m = true ∧ valid m ∧ small (wire m).

Definition merge (m a : t) : t := {|
  pagination := later_message m.(pagination) (PageRequest.normal <$> a.(pagination));
|}.

(** A whole message seen as a partial one. *)
Definition full (m : t) : partial := {|
  p_pagination := PageRequest.full <$> m.(pagination);
|}.

(** The message as its [.proto] file declares it. *)
Definition schema (m : t) : list field :=
  [singular 1 Optional (message_value PageRequest.schema) m.(pagination)].

(** The message with its default for every property that is not kept. *)
Definition only (kept : string → bool) (m : t) : t := {|
  pagination := if kept "pagination" then m.(pagination) else None;
|}.

#[global] Instance codec {PB : Protobuf} : FallibleCodec t :=
  {| fmsg_base := base; fmsg_encode := encode; fmsg_field := decode_field |}.

#[global] Program Instance spec {PB : Protobuf} (PS : ProtobufSpec PB) : FallibleSpec PS t :=
  {| fmsg_wire := wire; fmsg_valid := valid; fmsg_typed := typed; fmsg_normal := normal;
     fmsg_merge := merge |}.
Next Obligation. solve_fencode_wire. Qed.
Next Obligation. intros. solve_fencode_throws encode typed. Qed.
Next Obligation. solve_fdecode_wire. Qed.
Next Obligation. solve_fmerge_base. Qed.
Next Obligation. intros. solve_fadvances decode_field. Qed.

#[global] Program Instance given_ : FalliblePartial t partial :=
  {| fmsg_fromPartial := fromPartial; fmsg_full := full; fmsg_given := typed |}.
Next Obligation. solve_fgiven fromPartial typed. Qed.
Next Obligation. solve_fpartial fromPartial full typed. Qed.

#[global] Program Instance json : FallibleJson t :=
  {| fmsg_fromJSON := fromJSON; fmsg_toJSON := toJSON;
     fmsg_named := fun _ => true; fmsg_known := fun m => m |}.
Next Obligation. solve_fjson fromJSON toJSON. Qed.
Next Obligation. reflexivity. Qed.

#[global] Instance schema_wire {PB : Protobuf} {PS : ProtobufSpec PB} : WireSchema wire schema.
Proof. solve_schema_wire wire schema. Qed.

#[global] Instance schema_normal : NormalSchema normal schema.
Proof. solve_schema_normal normal schema. Qed.

#[global] Instance schema_merge : MergeSchema merge schema.
Proof. solve_schema_merge merge schema. Qed.

(** Its row in the table of message types. *)
Definition message {PB : Protobuf} {PS : ProtobufSpec PB} : message_type :=
  fallible_message "QueryAllCertifiedModelRequest" nothing true schema only.

#[global] Instance message_lawful {PB : Protobuf} (PS : ProtobufSpec PB) : Lawful message.
Proof. solve_lawful decode_field fromJSON only. Qed.

End QueryAllCertifiedModelRequest.

(** ** [QueryAllCertifiedModelResponse] (compliance/query.js) *)

Module QueryAllCertifiedModelResponse.

Record t := mk {
  certifiedModel : list CertifiedModel.t;
  pagination : option PageResponse.t;
}.

#[global] Instance t_eta : Settable t := λ m, mk m.(certifiedModel) m.(pagination).

Definition base : t := mk [] None.

Definition encode {PB : Protobuf} (message : t) (writer : Writer) : result Writer :=
  Ok writer
  @>= pure (each message.(certifiedModel) (fun v w => w @> uint32 10 @> fork @> CertifiedModel.encode v @> ldelim))
  @>= defined_e message.(pagination) (submessage 18 PageResponse.encode).

Definition decode_field {PB : Protobuf} (tag : Z) (message : t) : RM t :=
  match field_number tag with
  | 1 => v ← read_nested CertifiedModel.decode;
         mret (message <| certifiedModel := message.(certifiedModel) ++ [v] |>)
  | 2 => v ← read_nested PageResponse.decode; mret (message <| pagination := Some v |>)
  | _ => _ ← skipType (wire_type tag); mret message
  end.

Definition decode {PB : Protobuf} (length : option Z) : RM t :=
  decode_message length base decode_field.

Definition fromJSON (object : js) : result t :=
  certifiedModel' ← field_or object "certifiedModel" (to_list CertifiedModel.fromJSON) [];
  pagination' ← field_or object "pagination" (to_some PageResponse.fromJSON) None;
  Ok (mk certifiedModel' pagination').

Definition toJSON (message : t) : js :=
  Obj ([("certifiedModel", Arr (map CertifiedModel.toJSON message.(certifiedModel)))] ++
   prop_opt "pagination" PageResponse.toJSON message.(pagination)).

Record partial := mkPartial {
  p_certifiedModel : option (list CertifiedModel.partial);
  p_pagination : option PageResponse.partial;
}.

Definition fromPartial (object : partial) : t := {|
  certifiedModel := map CertifiedModel.fromPartial (object.(p_certifiedModel) ?? []);
  pagination := PageResponse.fromPartial <$> object.(p_pagination);
|}.

(** The object with no property given. *)
Definition nothing : partial := mkPartial None None.

(** The bytes [encode] writes. *)
Definition wire {PB : Protobuf} {PS : ProtobufSpec PB} (m : t) : bytes :=
  f_repeated 10 CertifiedModel.wire m.(certifiedModel) ++
  f_message 18 PageResponse.wire m.(pagination).

Definition valid (m : t) : Prop :=
  Forall CertifiedModel.valid m.(certifiedModel) ∧ from_option PageResponse.valid True m.(pagination).

(** The byte fields hold arrays, as the interface declares. *)
Definition typed (m : t) : bool := from_option PageResponse.typed true m.(pagination).

(** The message without its empty byte arrays. *)
Definition normal (m : t) : t := {|
  certifiedModel := m.(certifiedModel);
  pagination := PageResponse.normal <$> m.(pagination);
|}.

Definition encodable {PB : Protobuf} {PS : ProtobufSpec PB} (m : t) : Prop :=
  typed m = true ∧ valid m ∧ small (wire m).

Definition merge (m a : t) : t := {|
  certifiedModel := m.(certifiedModel) ++ a.(certifiedModel);
  pagination := later_message m.(pagination) (PageResponse.normal <$> a.(pagination));
|}.

(** A whole message seen as a partial one. *)
Definition full (m : t) : partial := {|
  p_certifiedModel := Some (map CertifiedModel.full m.(certifiedModel));
  p_pagination := PageResponse.full <$> m.(pagination);
|}.

(** The message as its [.proto] file declares it. *)
Definition schema (m : t) : list field :=
  [repeated 1 (message_value CertifiedModel.schema) m.(certifiedModel);
   singular 2 Optional (message_value PageResponse.schema) m.(pagination)].

(** The message with its default for every property that is not kept. *)
Definition only (kept : string → bool) (m : t) : t := {|
  certifiedModel := if kept "certifiedModel" then m.(certifiedModel) else [];
  pagination := if kept "pagination" then m.(pagination) else None;
|}.

#[global] Instance codec {PB : Protobuf} : FallibleCodec t :=
  {| fmsg_base := base; fmsg_encode := encode; fmsg_field := decode_field |}.

#[global] Program Instance spec {PB : Protobuf} (PS : ProtobufSpec PB) : FallibleSpec PS t :=
  {| fmsg_wire := wire; fmsg_valid := valid; fmsg_typed := typed; fmsg_normal := normal;
     fmsg_merge := merge |}.
Next Obligation. solve_fencode_wire. Qed.
Next Obligation. intros. solve_fencode_throws encode typed. Qed.
Next Obligation. solve_fdecode_wire. Qed.
Next Obligation. solve_fmerge_base. Qed.
Next Obligation. intros. solve_fadvances decode_field. Qed.

#[global] Program Instance given_ : FalliblePartial t partial :=
  {| fmsg_fromPartial := fromPartial; fmsg_full := full; fmsg_given := typed |}.
Next Obligation. solve_fgiven fromPartial typed. Qed.
Next Obligation. solve_fpartial fromPartial full typed. Qed.

#[global] Program Instance json : FallibleJson t :=
  {| fmsg_fromJSON := fromJSON; fmsg_toJSON := toJSON;
     fmsg_named := fun _ => true; fmsg_known := fun m => m |}.
Next Obligation. solve_fjson fromJSON toJSON. Qed.
Next Obligation. reflexivity. Qed.

#[global] Instance schema_wire {PB : Protobuf} {PS : ProtobufSpec PB} : WireSchema wire schema.
Proof. solve_schema_wire wire schema. Qed.

#[global] Instance schema_normal : NormalSchema normal schema.
Proof. solve_schema_normal normal schema. Qed.

#[global] Instance schema_merge : MergeSchema merge schema.
Proof. solve_schema_merge merge schema. Qed.

(** Its row in the table of message types. *)
Definition message {PB : Protobuf} {PS : ProtobufSpec PB} : message_type :=
  fallible_message "QueryAllCertifiedModelResponse" nothing true schema only.

#[global] Instance message_lawful {PB : Protobuf} (PS : ProtobufSpec PB) : Lawful message.
Proof. solve_lawful decode_field fromJSON only. Qed.

End QueryAllCertifiedModelResponse.

(** ** [QueryGetRevokedModelRequest] (compliance/query.js) *)

Module QueryGetRevokedModelRequest.

Record t := mk {
  vid : number;
  pid : number;
  softwareVersion : number;
  certificationType : string;
}.

#[global] Instance t_eta : Settable t := λ m, mk m.(vid) m.(pid) m.(softwareVersion)
  m.(certificationType).

Definition base : t := mk 0 0 0 "".

Definition encode {PB : Protobuf} (message : t) (writer : Writer) : Writer :=
  writer
  @> when (num_neq message.(vid) 0) (fun w => w @> uint32 8 @> int32 message.(vid))
  @> when (num_neq message.(pid) 0) (fun w => w @> uint32 16 @> int32 message.(pid))
  @> when (num_neq message.(softwareVersion) 0)
       (fun w => w @> uint32 24 @> uint32 message.(softwareVersion))
  @> when (str_neq message.(certificationType) "")
       (fun w => w @> uint32 34 @> string_ message.(certificationType)).

Definition decode_field {PB : Protobuf} (tag : Z) (message : t) : RM t :=
  match field_number tag with
  | 1 => v ← read_int32; mret (message <| vid := Int v |>)
  | 2 => v ← read_int32; mret (message <| pid := Int v |>)
  | 3 => v ← read_uint32; mret (message <| softwareVersion := Int v |>)
  | 4 => v ← read_string; mret (message <| certificationType := v |>)
  | _ => _ ← skipType (wire_type tag); mret message
  end.

Definition decode {PB : Protobuf} (length : option Z) : RM t :=
  decode_message length base decode_field.

Definition fromJSON (object : js) : result t :=
  vid' ← field_or object "vid" js_Number 0;
  pid' ← field_or object "pid" js_Number 0;
  softwareVersion' ← field_or object "softwareVersion" js_Number 0;
  certificationType' ← field_or object "certificationType" to_string "";
  Ok (mk vid' pid' softwareVersion' certificationType').

Definition toJSON (message : t) : js :=
  Obj ([("vid", Num message.(vid));
    ("pid", Num message.(pid));
    ("softwareVersion", Num message.(softwareVersion));
    ("certificationType", Str message.(certificationType))]).

Record partial := mkPartial {
  p_vid : option number;
  p_pid : option number;
  p_softwareVersion : option number;
  p_certificationType : option string;
}.

Definition fromPartial (object : partial) : t := {|
  vid := object.(p_vid) ?? Int 0;
  pid := object.(p_pid) ?? Int 0;
  softwareVersion := object.(p_softwareVersion) ?? Int 0;
  certificationType := object.(p_certificationType) ?? "";
|}.

(** The object with no property given. *)
Definition nothing : partial := mkPartial None None None None.

(** The bytes [encode] writes. *)
Definition wire {PB : Protobuf} {PS : ProtobufSpec PB} (m : t) : bytes :=
  f_number e_int32 8 m.(vid) ++
  f_number e_int32 16 m.(pid) ++
  f_number e_uint32 24 m.(softwareVersion) ++
  f_string 34 m.(certificationType).

Definition valid (m : t) : Prop :=
  int32_ok m.(vid) ∧ int32_ok m.(pid) ∧ uint32_ok m.(softwareVersion).

Definition encodable {PB : Protobuf} {PS : ProtobufSpec PB} (m : t) : Prop :=
  valid m ∧ small (wire m).

Definition merge (m a : t) : t := {|
  vid := later_number m.(vid) a.(vid);
  pid := later_number m.(pid) a.(pid);
  softwareVersion := later_number m.(softwareVersion) a.(softwareVersion);
  certificationType := later_string m.(certificationType) a.(certificationType);
|}.

(** A whole message seen as a partial one. *)
Definition full (m : t) : partial := {|
  p_vid := Some m.(vid);
  p_pid := Some m.(pid);
  p_softwareVersion := Some m.(softwareVersion);
  p_certificationType := Some m.(certificationType);
|}.

(** The message as its [.proto] file declares it. *)
Definition schema (m : t) : list field :=
  [implicit 1 (VInt Int32 m.(vid));
   implicit 2 (VInt Int32 m.(pid));
   implicit 3 (VInt Uint32 m.(softwareVersion));
   implicit 4 (VString m.(certificationType))].

(** The message with its default for every property that is not kept. *)
Definition only (kept : string → bool) (m : t) : t := {|
  vid := if kept "vid" then m.(vid) else Int 0;
  pid := if kept "pid" then m.(pid) else Int 0;
  softwareVersion := if kept "softwareVersion" then m.(softwareVersion) else Int 0;
  certificationType := if kept "certificationType" then m.(certificationType) else "";
|}.

#[global] Instance codec {PB : Protobuf} : MessageCodec t :=
  {| msg_base := base; msg_encode := encode; msg_field := decode_field |}.

#[global] Program Instance spec {PB : Protobuf} (PS : ProtobufSpec PB) : MessageSpec PS t :=
  {| msg_wire := wire; msg_valid := valid; msg_merge := merge |}.
Next Obligation. solve_encode_wire. Qed.
Next Obligation. solve_decode_wire. Qed.
Next Obligation. solve_merge_base. Qed.
Next Obligation. intros. solve_advances decode_field. Qed.

#[global] Program Instance data : MessageData t partial :=
  {| msg_fromJSON := fromJSON; msg_toJSON := toJSON;
     msg_fromPartial := fromPartial; msg_full := full |}.
Next Obligation. solve_json fromJSON toJSON. Qed.
Next Obligation. solve_partial fromPartial full. Qed.

#[global] Instance schema_wire {PB : Protobuf} {PS : ProtobufSpec PB} : WireSchema wire schema.
Proof. solve_schema_wire wire schema. Qed.

#[global] Instance schema_merge : MergeSchema merge schema.
Proof. solve_schema_merge merge schema. Qed.

(** Its row in the table of message types. *)
Definition message {PB : Protobuf} {PS : ProtobufSpec PB} : message_type :=
  plain_message "QueryGetRevokedModelRequest" nothing true schema only.

#[global] Instance message_lawful {PB : Protobuf} (PS : ProtobufSpec PB) : Lawful message.
Proof. solve_lawful decode_field fromJSON only. Qed.

End QueryGetRevokedModelRequest.

(** ** [QueryGetRevokedModelResponse] (compliance/query.js) *)

Module QueryGetRevokedModelResponse.

Record t := mk {
  revokedModel : option RevokedModel.t;
}.

#[global] Instance t_eta : Settable t := λ m, mk m.(revokedModel).

Definition base : t := mk None.

Definition encode {PB : Protobuf} (message : t) (writer : Writer) : Writer :=
  writer
  @> defined message.(revokedModel) (fun v w => w @> uint32 10 @> fork @> RevokedModel.encode v @> ldelim).

Definition decode_field {PB : Protobuf} (tag : Z) (message : t) : RM t :=
  match field_number tag with
  | 1 => v ← read_nested RevokedModel.decode; mret (message <| revokedModel := Some v |>)
  | _ => _ ← skipType (wire_type tag); mret message
  end.

Definition decode {PB : Protobuf} (length : option Z) : RM t :=
  decode_message length base decode_field.

Definition fromJSON (object : js) : result t :=
  revokedModel' ← field_or object "revokedModel" (to_some RevokedModel.fromJSON) None;
  Ok (mk revokedModel').

Definition toJSON (message : t) : js :=
  Obj (prop_opt "revokedModel" RevokedModel.toJSON message.(revokedModel)).

Record partial := mkPartial {
  p_revokedModel : option RevokedModel.partial;
}.

Definition fromPartial (object : partial) : t := {|
  revokedModel := RevokedModel.fromPartial <$> object.(p_revokedModel);
|}.

(** The object with no property given. *)
Definition nothing : partial := mkPartial None.

(** The bytes [encode] writes. *)
Definition wire {PB : Protobuf} {PS : ProtobufSpec PB} (m : t) : bytes :=
  f_message 10 RevokedModel.wire m.(revokedModel).

Definition valid (m : t) : Prop :=
  from_option RevokedModel.valid True m.(revokedModel).

Definition encodable {PB : Protobuf} {PS : ProtobufSpec PB} (m : t) : Prop :=
  valid m ∧ small (wire m).

Definition merge (m a : t) : t := {|
  revokedModel := later_message m.(revokedModel) a.(revokedModel);
|}.

(** A whole message seen as a partial one. *)
Definition full (m : t) : partial := {|
  p_revokedModel := RevokedModel.full <$> m.(revokedModel);
|}.

(** The message as its [.proto] file declares it. *)
Definition schema (m : t) : list field :=
  [singular 1 Optional (message_value RevokedModel.schema) m.(revokedModel)].

(** The message with its default for every property that is not kept. *)
Definition only (kept : string → bool) (m : t) : t := {|
  revokedModel := if kept "revokedModel" then m.(revokedModel) else None;
|}.

#[global] Instance codec {PB : Protobuf} : MessageCodec t :=
  {| msg_base := base; msg_encode := encode; msg_field := decode_field |}.

#[global] Program Instance spec {PB : Protobuf} (PS : ProtobufSpec PB) : MessageSpec PS t :=
  {| msg_wire := wire; msg_valid := valid; msg_merge := merge |}.
Next Obligation. solve_encode_wire. Qed.
Next Obligation. solve_decode_wire. Qed.
Next Obligation. solve_merge_base. Qed.
Next Obligation. intros. solve_advances decode_field. Qed.

#[global] Program Instance data : MessageData t partial :=
  {| msg_fromJSON := fromJSON; msg_toJSON := toJSON;
     msg_fromPartial := fromPartial; msg_full := full |}.
Next Obligation. solve_json fromJSON toJSON. Qed.
Next Obligation. solve_partial fromPartial full. Qed.

#[global] Instance schema_wire {PB : Protobuf} {PS : ProtobufSpec PB} : WireSchema wire schema.
Proof. solve_schema_wire wire schema. Qed.

#[global] Instance schema_merge : MergeSchema merge schema.
Proof. solve_schema_merge merge schema. Qed.

(** Its row in the table of message types. *)
Definition message {PB : Protobuf} {PS : ProtobufSpec PB} : message_type :=
  plain_message "QueryGetRevokedModelResponse" nothing true schema only.

#[global] Instance message_lawful {PB : Protobuf} (PS : ProtobufSpec PB) : Lawful message.
Proof. solve_lawful decode_field fromJSON only. Qed.

End QueryGetRevokedModelResponse.

(** ** [QueryAllRevokedModelRequest] (compliance/query.js) *)

Module QueryAllRevokedModelRequest.

Record t := mk {
  pagination : option PageRequest.t;
}.

#[global] Instance t_eta : Settable t := λ m, mk m.(pagination).

Definition base : t := mk None.

Definition encode {PB : Protobuf} (message : t) (writer : Writer) : result Writer :=
  Ok writer
  @>= defined_e message.(pagination) (submessage 10 PageRequest.encode).

Definition decode_field {PB : Protobuf} (tag : Z) (message : t) : RM t :=
  match field_number tag with
  | 1 => v ← read_nested PageRequest.decode; mret (message <| pagination := Some v |>)
  | _ => _ ← skipType (wire_type tag); mret message
  end.

Definition decode {PB : Protobuf} (length : option Z) : RM t :=
  decode_message length base decode_field.

Definition fromJSON (object : js) : result t :=
  pagination' ← field_or object "pagination" (to_some PageRequest.fromJSON) None;
  Ok (mk pagination').

Definition toJSON (message : t) : js :=
  Obj (prop_opt "pagination" PageRequest.toJSON message.(pagination)).

Record partial := mkPartial {
  p_pagination : option PageRequest.partial;
}.

Definition fromPartial (object : partial) : t := {|
  pagination := PageRequest.fromPartial <$> object.(p_pagination);
|}.

(** The object with no property given. *)
Definition nothing : partial := mkPartial None.

(** The bytes [encode] writes. *)
Definition wire {PB : Protobuf} {PS : ProtobufSpec PB} (m : t) : bytes :=
  f_message 10 PageRequest.wire m.(pagination).

Definition valid (m : t) : Prop :=
  from_option PageRequest.valid True m.(pagination).

(** The byte fields hold arrays, as the interface declares. *)
Definition typed (m : t) : bool := from_option PageRequest.typed true m.(pagination).

(** The message without its empty byte arrays. *)
Definition normal (m : t) : t := {|
  pagination := PageRequest.normal <$> m.(pagination);
|}.

Definition encodable {PB : Protobuf} {PS : ProtobufSpec PB} (m : t) : Prop :=
  typed m = true ∧ valid m ∧ small (wire m).

Definition merge (m a : t) : t := {|
  pagination := later_message m.(pagination) (PageRequest.normal <$> a.(pagination));
|}.

(** A whole message seen as a partial one. *)
Definition full (m : t) : partial := {|
  p_pagination := PageRequest.full <$> m.(pagination);
|}.

(** The message as its [.proto] file declares it. *)
Definition schema (m : t) : list field :=
  [singular 1 Optional (message_value PageRequest.schema) m.(pagination)].

(** The message with its default for every property that is not kept. *)
Definition only (kept : string → bool) (m : t) : t := {|
  pagination := if kept "pagination" then m.(pagination) else None;
|}.

#[global] Instance codec {PB : Protobuf} : FallibleCodec t :=
  {| fmsg_base := base; fmsg_encode := encode; fmsg_field := decode_field |}.

#[global] Program Instance spec {PB : Protobuf} (PS : ProtobufSpec PB) : FallibleSpec PS t :=
  {| fmsg_wire := wire; fmsg_valid := valid; fmsg_typed := typed; fmsg_normal := normal;
     fmsg_merge := merge |}.
Next Obligation. solve_fencode_wire. Qed.
Next Obligation. intros. solve_fencode_throws encode typed. Qed.
Next Obligation. solve_fdecode_wire. Qed.
Next Obligation. solve_fmerge_base. Qed.
Next Obligation. intros. solve_fadvances decode_field. Qed.

#[global] Program Instance given_ : FalliblePartial t partial :=
  {| fmsg_fromPartial := fromPartial; fmsg_full := full; fmsg_given := typed |}.
Next Obligation. solve_fgiven fromPartial typed. Qed.
Next Obligation. solve_fpartial fromPartial full typed. Qed.

#[global] Program Instance json : FallibleJson t :=
  {| fmsg_fromJSON := fromJSON; fmsg_toJSON := toJSON;
     fmsg_named := fun _ => true; fmsg_known := fun m => m |}.
Next Obligation. solve_fjson fromJSON toJSON. Qed.
Next Obligation. reflexivity. Qed.

#[global] Instance schema_wire {PB : Protobuf} {PS : ProtobufSpec PB} : WireSchema wire schema.
Proof. solve_schema_wire wire schema. Qed.

#[global] Instance schema_normal : NormalSchema normal schema.
Proof. solve_schema_normal normal schema. Qed.

#[global] Instance schema_merge : MergeSchema merge schema.
Proof. solve_schema_merge merge schema. Qed.

(** Its row in the table of message types. *)
Definition message {PB : Protobuf} {PS : ProtobufSpec PB} : message_type :=
  fallible_message "QueryAllRevokedModelRequest" nothing true schema only.

#[global] Instance message_lawful {PB : Protobuf} (PS : ProtobufSpec PB) : Lawful message.
Proof. solve_lawful decode_field fromJSON only. Qed.

End QueryAllRevokedModelRequest.

(** ** [QueryAllRevokedModelResponse] (compliance/query.js) *)

Module QueryAllRevokedModelResponse.

Record t := mk {
  revokedModel : list RevokedModel.t;
  pagination : option PageResponse.t;
}.

#[global] Instance t_eta : Settable t := λ m, mk m.(revokedModel) m.(pagination).

Definition base : t := mk [] None.

Definition encode {PB : Protobuf} (message : t) (writer : Writer) : result Writer :=
  Ok writer
  @>= pure (each message.(revokedModel) (fun v w => w @> uint32 10 @> fork @> RevokedModel.encode v @> ldelim))
  @>= defined_e message.(pagination) (submessage 18 PageResponse.encode).

Definition decode_field {PB : Protobuf} (tag : Z) (message : t) : RM t :=
  match field_number tag with
  | 1 => v ← read_nested RevokedModel.decode;
         mret (message <| revokedModel := message.(revokedModel) ++ [v] |>)
  | 2 => v ← read_nested PageResponse.decode; mret (message <| pagination := Some v |>)
  | _ => _ ← skipType (wire_type tag); mret message
  end.

Definition decode {PB : Protobuf} (length : option Z) : RM t :=
  decode_message length base decode_field.

Definition fromJSON (object : js) : result t :=
  revokedModel' ← field_or object "revokedModel" (to_list RevokedModel.fromJSON) [];
  pagination' ← field_or object "pagination" (to_some PageResponse.fromJSON) None;
  Ok (mk revokedModel' pagination').

Definition toJSON (message : t) : js :=
  Obj ([("revokedModel", Arr (map RevokedModel.toJSON message.(revokedModel)))] ++
   prop_opt "pagination" PageResponse.toJSON message.(pagination)).

Record partial := mkPartial {
  p_revokedModel : option (list RevokedModel.partial);
  p_pagination : option PageResponse.partial;
}.

Definition fromPartial (object : partial) : t := {|
  revokedModel := map RevokedModel.fromPartial (object.(p_revokedModel) ?? []);
  pagination := PageResponse.fromPartial <$> object.(p_pagination);
|}.

(** The object with no property given. *)
Definition nothing : partial := mkPartial None None.

(** The bytes [encode] writes. *)
Definition wire {PB : Protobuf} {PS : ProtobufSpec PB} (m : t) : bytes :=
  f_repeated 10 RevokedModel.wire m.(revokedModel) ++
  f_message 18 PageResponse.wire m.(pagination).

Definition valid (m : t) : Prop :=
  Forall RevokedModel.valid m.(revokedModel) ∧ from_option PageResponse.valid True m.(pagination).

(** The byte fields hold arrays, as the interface declares. *)
Definition typed (m : t) : bool := from_option PageResponse.typed true m.(pagination).

(** The message without its empty byte arrays. *)
Definition normal (m : t) : t := {|
  revokedModel := m.(revokedModel);
  pagination := PageResponse.normal <$> m.(pagination);
|}.

Definition encodable {PB : Protobuf} {PS : ProtobufSpec PB} (m : t) : Prop :=
  typed m = true ∧ valid m ∧ small (wire m).

Definition merge (m a : t) : t := {|
  revokedModel := m.(revokedModel) ++ a.(revokedModel);
  pagination := later_message m.(pagination) (PageResponse.normal <$> a.(pagination));
|}.

(** A whole message seen as a partial one. *)
Definition full (m : t) : partial := {|
  p_revokedModel := Some (map RevokedModel.full m.(revokedModel));
  p_pagination := PageResponse.full <$> m.(pagination);
|}.

(** The message as its [.proto] file declares it. *)
Definition schema (m : t) : list field :=
  [repeated 1 (message_value RevokedModel.schema) m.(revokedModel);
   singular 2 Optional (message_value PageResponse.schema) m.(pagination)].

(** The message with its default for every property that is not kept. *)
Definition only (kept : string → bool) (m : t) : t := {|
  revokedModel := if kept "revokedModel" then m.(revokedModel) else [];
  pagination := if kept "pagination" then m.(pagination) else None;
|}.

#[global] Instance codec {PB : Protobuf} : FallibleCodec t :=
  {| fmsg_base := base; fmsg_encode := encode; fmsg_field := decode_field |}.

#[global] Program Instance spec {PB : Protobuf} (PS : ProtobufSpec PB) : FallibleSpec PS t :=
  {| fmsg_wire := wire; fmsg_valid := valid; fmsg_typed := typed; fmsg_normal := normal;
     fmsg_merge := merge |}.
Next Obligation. solve_fencode_wire. Qed.
Next Obligation. intros. solve_fencode_throws encode typed. Qed.
Next Obligation. solve_fdecode_wire. Qed.
Next Obligation. solve_fmerge_base. Qed.
Next Obligation. intros. solve_fadvances decode_field. Qed.

#[global] Program Instance given_ : FalliblePartial t partial :=
  {| fmsg_fromPartial := fromPartial; fmsg_full := full; fmsg_given := typed |}.
Next Obligation. solve_fgiven fromPartial typed. Qed.
Next Obligation. solve_fpartial fromPartial full typed. Qed.

#[global] Program Instance json : FallibleJson t :=
  {| fmsg_fromJSON := fromJSON; fmsg_toJSON := toJSON;
     fmsg_named := fun _ => true; fmsg_known := fun m => m |}.
Next Obligation. solve_fjson fromJSON toJSON. Qed.
Next Obligation. reflexivity. Qed.

#[global] Instance schema_wire {PB : Protobuf} {PS : ProtobufSpec PB} : WireSchema wire schema.
Proof. solve_schema_wire wire schema. Qed.

#[global] Instance schema_normal : NormalSchema normal schema.
Proof. solve_schema_normal normal schema. Qed.

#[global] Instance schema_merge : MergeSchema merge schema.
Proof. solve_schema_merge merge schema. Qed.

(** Its row in the table of message types. *)
Definition message {PB : Protobuf} {PS : ProtobufSpec PB} : message_type :=
  fallible_message "QueryAllRevokedModelResponse" nothing true schema only.

#[global] Instance message_lawful {PB : Protobuf} (PS : ProtobufSpec PB) : Lawful message.
Proof. solve_lawful decode_field fromJSON only. Qed.

End QueryAllRevokedModelResponse.

(** ** [QueryGetProvisionalModelRequest] (compliance/query.js) *)

Module QueryGetProvisionalModelRequest.

Record t := mk {
  vid : number;
  pid : number;
  softwareVersion : number;
  certificationType : string;
}.

#[global] Instance t_eta : Settable t := λ m, mk m.(vid) m.(pid) m.(softwareVersion)
  m.(certificationType).

Definition base : t := mk 0 0 0 "".

Definition encode {PB : Protobuf} (message : t) (writer : Writer) : Writer :=
  writer
  @> when (num_neq message.(vid) 0) (fun w => w @> uint32 8 @> int32 message.(vid))
  @> when (num_neq message.(pid) 0) (fun w => w @> uint32 16 @> int32 message.(pid))
  @> when (num_neq message.(softwareVersion) 0)
       (fun w => w @> uint32 24 @> uint32 message.(softwareVersion))
  @> when (str_neq message.(certificationType) "")
       (fun w => w @> uint32 34 @> string_ message.(certificationType)).

Definition decode_field {PB : Protobuf} (tag : Z) (message : t) : RM t :=
  match field_number tag with
  | 1 => v ← read_int32; mret (message <| vid := Int v |>)
  | 2 => v ← read_int32; mret (message <| pid := Int v |>)
  | 3 => v ← read_uint32; mret (message <| softwareVersion := Int v |>)
  | 4 => v ← read_string; mret (message <| certificationType := v |>)
  | _ => _ ← skipType (wire_type tag); mret message
  end.

Definition decode {PB : Protobuf} (length : option Z) : RM t :=
  decode_message length base decode_field.

Definition fromJSON (object : js) : result t :=
  vid' ← field_or object "vid" js_Number 0;
  pid' ← field_or object "pid" js_Number 0;
  softwareVersion' ← field_or object "softwareVersion" js_Number 0;
  certificationType' ← field_or object "certificationType" to_string "";
  Ok (mk vid' pid' softwareVersion' certificationType').

Definition toJSON (message : t) : js :=
  Obj ([("vid", Num message.(vid));
    ("pid", Num message.(pid));
    ("softwareVersion", Num message.(softwareVersion));
    ("certificationType", Str message.(certificationType))]).

Record partial := mkPartial {
  p_vid : option number;
  p_pid : option number;
  p_softwareVersion : option number;
  p_certificationType : option string;
}.

Definition fromPartial (object : partial) : t := {|
  vid := object.(p_vid) ?? Int 0;
  pid := object.(p_pid) ?? Int 0;
  softwareVersion := object.(p_softwareVersion) ?? Int 0;
  certificationType := object.(p_certificationType) ?? "";
|}.

(** The object with no property given. *)
Definition nothing : partial := mkPartial None None None None.

(** The bytes [encode] writes. *)
Definition wire {PB : Protobuf} {PS : ProtobufSpec PB} (m : t) : bytes :=
  f_number e_int32 8 m.(vid) ++
  f_number e_int32 16 m.(pid) ++
  f_number e_uint32 24 m.(softwareVersion) ++
  f_string 34 m.(certificationType).

Definition valid (m : t) : Prop :=
  int32_ok m.(vid) ∧ int32_ok m.(pid) ∧ uint32_ok m.(softwareVersion).

Definition encodable {PB : Protobuf} {PS : ProtobufSpec PB} (m : t) : Prop :=
  valid m ∧ small (wire m).

Definition merge (m a : t) : t := {|
  vid := later_number m.(vid) a.(vid);
  pid := later_number m.(pid) a.(pid);
  softwareVersion := later_number m.(softwareVersion) a.(softwareVersion);
  certificationType := later_string m.(certificationType) a.(certificationType);
|}.

(** A whole message seen as a partial one. *)
Definition full (m : t) : partial := {|
  p_vid := Some m.(vid);
  p_pid := Some m.(pid);
  p_softwareVersion := Some m.(softwareVersion);
  p_certificationType := Some m.(certificationType);
|}.

(** The message as its [.proto] file declares it. *)
Definition schema (m : t) : list field :=
  [implicit 1 (VInt Int32 m.(vid));
   implicit 2 (VInt Int32 m.(pid));
   implicit 3 (VInt Uint32 m.(softwareVersion));
   implicit 4 (VString m.(certificationType))].

(** The message with its default for every property that is not kept. *)
Definition only (kept : string → bool) (m : t) : t := {|
  vid := if kept "vid" then m.(vid) else Int 0;
  pid := if kept "pid" then m.(pid) else Int 0;
  softwareVersion := if kept "softwareVersion" then m.(softwareVersion) else Int 0;
  certificationType := if kept "certificationType" then m.(certificationType) else "";
|}.

#[global] Instance codec {PB : Protobuf} : MessageCodec t :=
  {| msg_base := base; msg_encode := encode; msg_field := decode_field |}.

#[global] Program Instance spec {PB : Protobuf} (PS : ProtobufSpec PB) : MessageSpec PS t :=
  {| msg_wire := wire; msg_valid := valid; msg_merge := merge |}.
Next Obligation. solve_encode_wire. Qed.
Next Obligation. solve_decode_wire. Qed.
Next Obligation. solve_merge_base. Qed.
Next Obligation. intros. solve_advances decode_field. Qed.

#[global] Program Instance data : MessageData t partial :=
  {| msg_fromJSON := fromJSON; msg_toJSON := toJSON;
     msg_fromPartial := fromPartial; msg_full := full |}.
Next Obligation. solve_json fromJSON toJSON. Qed.
Next Obligation. solve_partial fromPartial full. Qed.

#[global] Instance schema_wire {PB : Protobuf} {PS : ProtobufSpec PB} : WireSchema wire schema.
Proof. solve_schema_wire wire schema. Qed.

#[global] Instance schema_merge : MergeSchema merge schema.
Proof. solve_schema_merge merge schema. Qed.

(** Its row in the table of message types. *)
Definition message {PB : Protobuf} {PS : ProtobufSpec PB} : message_type :=
  plain_message "QueryGetProvisionalModelRequest" nothing true schema only.

#[global] Instance message_lawful {PB : Protobuf} (PS : ProtobufSpec PB) : Lawful message.
Proof. solve_lawful decode_field fromJSON only. Qed.

End QueryGetProvisionalModelRequest.

(** ** [QueryGetProvisionalModelResponse] (compliance/query.js) *)

Module QueryGetProvisionalModelResponse.

Record t := mk {
  provisionalModel : option ProvisionalModel.t;
}.

#[global] Instance t_eta : Settable t := λ m, mk m.(provisionalModel).

Definition base : t := mk None.

Definition encode {PB : Protobuf} (message : t) (writer : Writer) : Writer :=
  writer
  @> defined message.(provisionalModel) (fun v w => w @> uint32 10 @> fork @> ProvisionalModel.encode v @> ldelim).

Definition decode_field {PB : Protobuf} (tag : Z) (message : t) : RM t :=
  match field_number tag with
  | 1 => v ← read_nested ProvisionalModel.decode; mret (message <| provisionalModel := Some v |>)
  | _ => _ ← skipType (wire_type tag); mret message
  end.

Definition decode {PB : Protobuf} (length : option Z) : RM t :=
  decode_message length base decode_field.

Definition fromJSON (object : js) : result t :=
  provisionalModel' ← field_or object "provisionalModel" (to_some ProvisionalModel.fromJSON) None;
  Ok (mk provisionalModel').

Definition toJSON (message : t) : js :=
  Obj (prop_opt "provisionalModel" ProvisionalModel.toJSON message.(provisionalModel)).

Record partial := mkPartial {
  p_provisionalModel : option ProvisionalModel.partial;
}.

Definition fromPartial (object : partial) : t := {|
  provisionalModel := ProvisionalModel.fromPartial <$> object.(p_provisionalModel);
|}.

(** The object with no property given. *)
Definition nothing : partial := mkPartial None.

(** The bytes [encode] writes. *)
Definition wire {PB : Protobuf} {PS : ProtobufSpec PB} (m : t) : bytes :=
  f_message 10 ProvisionalModel.wire m.(provisionalModel).

Definition valid (m : t) : Prop :=
  from_option ProvisionalModel.valid True m.(provisionalModel).

Definition encodable {PB : Protobuf} {PS : ProtobufSpec PB} (m : t) : Prop :=
  valid m ∧ small (wire m).

Definition merge (m a : t) : t := {|
  provisionalModel := later_message m.(provisionalModel) a.(provisionalModel);
|}.

(** A whole message seen as a partial one. *)
Definition full (m : t) : partial := {|
  p_provisionalModel := ProvisionalModel.full <$> m.(provisionalModel);
|}.

(** The message as its [.proto] file declares it. *)
Definition schema (m : t) : list field :=
  [singular 1 Optional (message_value ProvisionalModel.schema) m.(provisionalModel)].

(** The message with its default for every property that is not kept. *)
Definition only (kept : string → bool) (m : t) : t := {|
  provisionalModel := if kept "provisionalModel" then m.(provisionalModel) else None;
|}.

#[global] Instance codec {PB : Protobuf} : MessageCodec t :=
  {| msg_base := base; msg_encode := encode; msg_field := decode_field |}.

#[global] Program Instance spec {PB : Protobuf} (PS : ProtobufSpec PB) : MessageSpec PS t :=
  {| msg_wire := wire; msg_valid := valid; msg_merge := merge |}.
Next Obligation. solve_encode_wire. Qed.
Next Obligation. solve_decode_wire. Qed.
Next Obligation. solve_merge_base. Qed.
Next Obligation. intros. solve_advances decode_field. Qed.

#[global] Program Instance data : MessageData t partial :=
  {| msg_fromJSON := fromJSON; msg_toJSON := toJSON;
     msg_fromPartial := fromPartial; msg_full := full |}.
Next Obligation. solve_json fromJSON toJSON. Qed.
Next Obligation. solve_partial fromPartial full. Qed.

#[global] Instance schema_wire {PB : Protobuf} {PS : ProtobufSpec PB} : WireSchema wire schema.
Proof. solve_schema_wire wire schema. Qed.

#[global] Instance schema_merge : MergeSchema merge schema.
Proof. solve_schema_merge merge schema. Qed.

(** Its row in the table of message types. *)
Definition message {PB : Protobuf} {PS : ProtobufSpec PB} : message_type :=
  plain_message "QueryGetProvisionalModelResponse" nothing true schema only.

#[global] Instance message_lawful {PB : Protobuf} (PS : ProtobufSpec PB) : Lawful message.
Proof. solve_lawful decode_field fromJSON only. Qed.

End QueryGetProvisionalModelResponse.

(** ** [QueryAllProvisionalModelRequest] (compliance/query.js) *)

Module QueryAllProvisionalModelRequest.

Record t := mk {
  pagination : option PageRequest.t;
}.

#[global] Instance t_eta : Settable t := λ m, mk m.(pagination).

Definition base : t := mk None.

Definition encode {PB : Protobuf} (message : t) (writer : Writer) : result Writer :=
  Ok writer
  @>= defined_e message.(pagination) (submessage 10 PageRequest.encode).

Definition decode_field {PB : Protobuf} (tag : Z) (message : t) : RM t :=
  match field_number tag with
  | 1 => v ← read_nested PageRequest.decode; mret (message <| pagination := Some v |>)
  | _ => _ ← skipType (wire_type tag); mret message
  end.

Definition decode {PB : Protobuf} (length : option Z) : RM t :=
  decode_message length base decode_field.

Definition fromJSON (object : js) : result t :=
  pagination' ← field_or object "pagination" (to_some PageRequest.fromJSON) None;
  Ok (mk pagination').

Definition toJSON (message : t) : js :=
  Obj (prop_opt "pagination" PageRequest.toJSON message.(pagination)).

Record partial := mkPartial {
  p_pagination : option PageRequest.partial;
}.

Definition fromPartial (object : partial) : t := {|
  pagination := PageRequest.fromPartial <$> object.(p_pagination);
|}.

(** The object with no property given. *)
Definition nothing : partial := mkPartial None.

(** The bytes [encode] writes. *)
Definition wire {PB : Protobuf} {PS : ProtobufSpec PB} (m : t) : bytes :=
  f_message 10 PageRequest.wire m.(pagination).

Definition valid (m : t) : Prop :=
  from_option PageRequest.valid True m.(pagination).

(** The byte fields hold arrays, as the interface declares. *)
Definition typed (m : t) : bool := from_option PageRequest.typed true m.(pagination).

(** The message without its empty byte arrays. *)
Definition normal (m : t) : t := {|
  pagination := PageRequest.normal <$> m.(pagination);
|}.

Definition encodable {PB : Protobuf} {PS : ProtobufSpec PB} (m : t) : Prop :=
  typed m = true ∧ valid m ∧ small (wire m).

Definition merge (m a : t) : t := {|
  pagination := later_message m.(pagination) (PageRequest.normal <$> a.(pagination));
|}.

(** A whole message seen as a partial one. *)
Definition full (m : t) : partial := {|
  p_pagination := PageRequest.full <$> m.(pagination);
|}.

(** The message as its [.proto] file declares it. *)
Definition schema (m : t) : list field :=
  [singular 1 Optional (message_value PageRequest.schema) m.(pagination)].

(** The message with its default for every property that is not kept. *)
Definition only (kept : string → bool) (m : t) : t := {|
  pagination := if kept "pagination" then m.(pagination) else None;
|}.

#[global] Instance codec {PB : Protobuf} : FallibleCodec t :=
  {| fmsg_base := base; fmsg_encode := encode; fmsg_field := decode_field |}.

#[global] Program Instance spec {PB : Protobuf} (PS : ProtobufSpec PB) : FallibleSpec PS t :=
  {| fmsg_wire := wire; fmsg_valid := valid; fmsg_typed := typed; fmsg_normal := normal;
     fmsg_merge := merge |}.
Next Obligation. solve_fencode_wire. Qed.
Next Obligation. intros. solve_fencode_throws encode typed. Qed.
Next Obligation. solve_fdecode_wire. Qed.
Next Obligation. solve_fmerge_base. Qed.
Next Obligation. intros. solve_fadvances decode_field. Qed.

#[global] Program Instance given_ : FalliblePartial t partial :=
  {| fmsg_fromPartial := fromPartial; fmsg_full := full; fmsg_given := typed |}.
Next Obligation. solve_fgiven fromPartial typed. Qed.
Next Obligation. solve_fpartial fromPartial full typed. Qed.

#[global] Program Instance json : FallibleJson t :=
  {| fmsg_fromJSON := fromJSON; fmsg_toJSON := toJSON;
     fmsg_named := fun _ => true; fmsg_known := fun m => m |}.
Next Obligation. solve_fjson fromJSON toJSON. Qed.
Next Obligation. reflexivity. Qed.

#[global] Instance schema_wire {PB : Protobuf} {PS : ProtobufSpec PB} : WireSchema wire schema.
Proof. solve_schema_wire wire schema. Qed.

#[global] Instance schema_normal : NormalSchema normal schema.
Proof. solve_schema_normal normal schema. Qed.

#[global] Instance schema_merge : MergeSchema merge schema.
Proof. solve_schema_merge merge schema. Qed.

(** Its row in the table of message types. *)
Definition message {PB : Protobuf} {PS : ProtobufSpec PB} : message_type :=
  fallible_message "QueryAllProvisionalModelRequest" nothing true schema only.

#[global] Instance message_lawful {PB : Protobuf} (PS : ProtobufSpec PB) : Lawful message.
Proof. solve_lawful decode_field fromJSON only. Qed.

End QueryAllProvisionalModelRequest.

(** ** [QueryAllProvisionalModelResponse] (compliance/query.js) *)

Module QueryAllProvisionalModelResponse.

Record t := mk {
  provisionalModel : list ProvisionalModel.t;
  pagination : option PageResponse.t;
}.

#[global] Instance t_eta : Settable t := λ m, mk m.(provisionalModel) m.(pagination).

Definition base : t := mk [] None.

Definition encode {PB : Protobuf} (message : t) (writer : Writer) : result Writer :=
  Ok writer
  @>= pure (each message.(provisionalModel) (fun v w => w @> uint32 10 @> fork @> ProvisionalModel.encode v @> ldelim))
  @>= defined_e message.(pagination) (submessage 18 PageResponse.encode).

Definition decode_field {PB : Protobuf} (tag : Z) (message : t) : RM t :=
  match field_number tag with
  | 1 => v ← read_nested ProvisionalModel.decode;
         mret (message <| provisionalModel := message.(provisionalModel) ++ [v] |>)
  | 2 => v ← read_nested PageResponse.decode; mret (message <| pagination := Some v |>)
  | _ => _ ← skipType (wire_type tag); mret message
  end.

Definition decode {PB : Protobuf} (length : option Z) : RM t :=
  decode_message length base decode_field.

Definition fromJSON (object : js) : result t :=
  provisionalModel' ← field_or object "provisionalModel" (to_list ProvisionalModel.fromJSON) [];
  pagination' ← field_or object "pagination" (to_some PageResponse.fromJSON) None;
  Ok (mk provisionalModel' pagination').

Definition toJSON (message : t) : js :=
  Obj ([("provisionalModel", Arr (map ProvisionalModel.toJSON message.(provisionalModel)))] ++
   prop_opt "pagination" PageResponse.toJSON message.(pagination)).

Record partial := mkPartial {
  p_provisionalModel : option (list ProvisionalModel.partial);
  p_pagination : option PageResponse.partial;
}.

Definition fromPartial (object : partial) : t := {|
  provisionalModel := map ProvisionalModel.fromPartial (object.(p_provisionalModel) ?? []);
  pagination := PageResponse.fromPartial <$> object.(p_pagination);
|}.

(** The object with no property given. *)
Definition nothing : partial := mkPartial None None.

(** The bytes [encode] writes. *)
Definition wire {PB : Protobuf} {PS : ProtobufSpec PB} (m : t) : bytes :=
  f_repeated 10 ProvisionalModel.wire m.(provisionalModel) ++
  f_message 18 PageResponse.wire m.(pagination).

Definition valid (m : t) : Prop :=
  Forall ProvisionalModel.valid m.(provisionalModel) ∧ from_option PageResponse.valid True m.(pagination).

(** The byte fields hold arrays, as the interface declares. *)
Definition typed (m : t) : bool := from_option PageResponse.typed true m.(pagination).

(** The message without its empty byte arrays. *)
Definition normal (m : t) : t := {|
  provisionalModel := m.(provisionalModel);
  pagination := PageResponse.normal <$> m.(pagination);
|}.

Definition encodable {PB : Protobuf} {PS : ProtobufSpec PB} (m : t) : Prop :=
  typed m = true ∧ valid m ∧ small (wire m).

Definition merge (m a : t) : t := {|
  provisionalModel := m.(provisionalModel) ++ a.(provisionalModel);
  pagination := later_message m.(pagination) (PageResponse.normal <$> a.(pagination));
|}.

(** A whole message seen as a partial one. *)
Definition full (m : t) : partial := {|
  p_provisionalModel := Some (map ProvisionalModel.full m.(provisionalModel));
  p_pagination := PageResponse.full <$> m.(pagination);
|}.

(** The message as its [.proto] file declares it. *)
Definition schema (m : t) : list field :=
  [repeated 1 (message_value ProvisionalModel.schema) m.(provisionalModel);
   singular 2 Optional (message_value PageResponse.schema) m.(pagination)].

(** The message with its default for every property that is not kept. *)
Definition only (kept : string → bool) (m : t) : t := {|
  provisionalModel := if kept "provisionalModel" then m.(provisionalModel) else [];
  pagination := if kept "pagination" then m.(pagination) else None;
|}.

#[global] Instance codec {PB : Protobuf} : FallibleCodec t :=
  {| fmsg_base := base; fmsg_encode := encode; fmsg_field := decode_field |}.

#[global] Program Instance spec {PB : Protobuf} (PS : ProtobufSpec PB) : FallibleSpec PS t :=
  {| fmsg_wire := wire; fmsg_valid := valid; fmsg_typed := typed; fmsg_normal := normal;
     fmsg_merge := merge |}.
Next Obligation. solve_fencode_wire. Qed.
Next Obligation. intros. solve_fencode_throws encode typed. Qed.
Next Obligation. solve_fdecode_wire. Qed.
Next Obligation. solve_fmerge_base. Qed.
Next Obligation. intros. solve_fadvances decode_field. Qed.

#[global] Program Instance given_ : FalliblePartial t partial :=
  {| fmsg_fromPartial := fromPartial; fmsg_full := full; fmsg_given := typed |}.
Next Obligation. solve_fgiven fromPartial typed. Qed.
Next Obligation. solve_fpartial fromPartial full typed. Qed.

#[global] Program Instance json : FallibleJson t :=
  {| fmsg_fromJSON := fromJSON; fmsg_toJSON := toJSON;
     fmsg_named := fun _ => true; fmsg_known := fun m => m |}.
Next Obligation. solve_fjson fromJSON toJSON. Qed.
Next Obligation. reflexivity. Qed.

#[global] Instance schema_wire {PB : Protobuf} {PS : ProtobufSpec PB} : WireSchema wire schema.
Proof. solve_schema_wire wire schema. Qed.

#[global] Instance schema_normal : NormalSchema normal schema.
Proof. solve_schema_normal normal schema. Qed.

#[global] Instance schema_merge : MergeSchema merge schema.
Proof. solve_schema_merge merge schema. Qed.

(** Its row in the table of message types. *)
Definition message {PB : Protobuf} {PS : ProtobufSpec PB} : message_type :=
  fallible_message "QueryAllProvisionalModelResponse" nothing true schema only.

#[global] Instance message_lawful {PB : Protobuf} (PS : ProtobufSpec PB) : Lawful message.
Proof. solve_lawful decode_field fromJSON only. Qed.

End QueryAllProvisionalModelResponse.

(** ** [QueryGetDeviceSoftwareComplianceRequest] (compliance/query.js) *)

Module QueryGetDeviceSoftwareComplianceRequest.

Record t := mk {
  cDCertificateId : string;
}.

#[global] Instance t_eta : Settable t := λ m, mk m.(cDCertificateId).

Definition base : t := mk "".

Definition encode {PB : Protobuf} (message : t) (writer : Writer) : Writer :=
  writer
  @> when (str_neq message.(cDCertificateId) "")
       (fun w => w @> uint32 10 @> string_ message.(cDCertificateId)).

Definition decode_field {PB : Protobuf} (tag : Z) (message : t) : RM t :=
  match field_number tag with
  | 1 => v ← read_string; mret (message <| cDCertificateId := v |>)
  | _ => _ ← skipType (wire_type tag); mret message
  end.

Definition decode {PB : Protobuf} (length : option Z) : RM t :=
  decode_message length base decode_field.

Definition fromJSON (object : js) : result t :=
  cDCertificateId' ← field_or object "cDCertificateId" to_string "";
  Ok (mk cDCertificateId').

Definition toJSON (message : t) : js :=
  Obj ([("cDCertificateId", Str message.(cDCertificateId))]).

Record partial := mkPartial {
  p_cDCertificateId : option string;
}.

Definition fromPartial (object : partial) : t := {|
  cDCertificateId := object.(p_cDCertificateId) ?? "";
|}.

(** The object with no property given. *)
Definition nothing : partial := mkPartial None.

(** The bytes [encode] writes. *)
Definition wire {PB : Protobuf} {PS : ProtobufSpec PB} (m : t) : bytes :=
  f_string 10 m.(cDCertificateId).

Definition valid (m : t) : Prop :=
  True.

Definition encodable {PB : Protobuf} {PS : ProtobufSpec PB} (m : t) : Prop :=
  valid m ∧ small (wire m).

Definition merge (m a : t) : t := {|
  cDCertificateId := later_string m.(cDCertificateId) a.(cDCertificateId);
|}.

(** A whole message seen as a partial one. *)
Definition full (m : t) : partial := {|
  p_cDCertificateId := Some m.(cDCertificateId);
|}.

(** The message as its [.proto] file declares it. *)
Definition schema (m : t) : list field :=
  [implicit 1 (VString m.(cDCertificateId))].

(** The message with its default for every property that is not kept. *)
Definition only (kept : string → bool) (m : t) : t := {|
  cDCertificateId := if kept "cDCertificateId" then m.(cDCertificateId) else "";
|}.

#[global] Instance codec {PB : Protobuf} : MessageCodec t :=
  {| msg_base := base; msg_encode := encode; msg_field := decode_field |}.

#[global] Program Instance spec {PB : Protobuf} (PS : ProtobufSpec PB) : MessageSpec PS t :=
  {| msg_wire := wire; msg_valid := valid; msg_merge := merge |}.
Next Obligation. solve_encode_wire. Qed.
Next Obligation. solve_decode_wire. Qed.
Next Obligation. solve_merge_base. Qed.
Next Obligation. intros. solve_advances decode_field. Qed.

#[global] Program Instance data : MessageData t partial :=
  {| msg_fromJSON := fromJSON; msg_toJSON := toJSON;
     msg_fromPartial := fromPartial; msg_full := full |}.
Next Obligation. solve_json fromJSON toJSON. Qed.
Next Obligation. solve_partial fromPartial full. Qed.

#[global] Instance schema_wire {PB : Protobuf} {PS : ProtobufSpec PB} : WireSchema wire schema.
Proof. solve_schema_wire wire schema. Qed.

#[global] Instance schema_merge : MergeSchema merge schema.
Proof. solve_schema_merge merge schema. Qed.

(** Its row in the table of message types. *)
Definition message {PB : Protobuf} {PS : ProtobufSpec PB} : message_type :=
  plain_message "QueryGetDeviceSoftwareComplianceRequest" nothing true schema only.

#[global] Instance message_lawful {PB : Protobuf} (PS : ProtobufSpec PB) : Lawful message.
Proof. solve_lawful decode_field fromJSON only. Qed.

End QueryGetDeviceSoftwareComplianceRequest.

(** ** [QueryGetDeviceSoftwareComplianceResponse] (compliance/query.js) *)

Module QueryGetDeviceSoftwareComplianceResponse.

Record t := mk {
  deviceSoftwareCompliance : option DeviceSoftwareCompliance.t;
}.

#[global] Instance t_eta : Settable t := λ m, mk m.(deviceSoftwareCompliance).

Definition base : t := mk None.

Definition encode {PB : Protobuf} (message : t) (writer : Writer) : Writer :=
  writer
  @> defined message.(deviceSoftwareCompliance) (fun v w => w @> uint32 10 @> fork @> DeviceSoftwareCompliance.encode v @> ldelim).

Definition decode_field {PB : Protobuf} (tag : Z) (message : t) : RM t :=
  match field_number tag with
  | 1 => v ← read_nested DeviceSoftwareCompliance.decode;
         mret (message <| deviceSoftwareCompliance := Some v |>)
  | _ => _ ← skipType (wire_type tag); mret message
  end.

Definition decode {PB : Protobuf} (length : option Z) : RM t :=
  decode_message length base decode_field.

Definition fromJSON (object : js) : result t :=
  deviceSoftwareCompliance' ← field_or object "deviceSoftwareCompliance" (to_some DeviceSoftwareCompliance.fromJSON) None;
  Ok (mk deviceSoftwareCompliance').

Definition toJSON (message : t) : js :=
  Obj (prop_opt "deviceSoftwareCompliance" DeviceSoftwareCompliance.toJSON message.(deviceSoftwareCompliance)).

Record partial := mkPartial {
  p_deviceSoftwareCompliance : option DeviceSoftwareCompliance.partial;
}.

Definition fromPartial (object : partial) : t := {|
  deviceSoftwareCompliance := DeviceSoftwareCompliance.fromPartial <$> object.(p_deviceSoftwareCompliance);
|}.

(** The object with no property given. *)
Definition nothing : partial := mkPartial None.

(** The bytes [encode] writes. *)
Definition wire {PB : Protobuf} {PS : ProtobufSpec PB} (m : t) : bytes :=
  f_message 10 DeviceSoftwareCompliance.wire m.(deviceSoftwareCompliance).

Definition valid (m : t) : Prop :=
  from_option DeviceSoftwareCompliance.valid True m.(deviceSoftwareCompliance).

Definition encodable {PB : Protobuf} {PS : ProtobufSpec PB} (m : t) : Prop :=
  valid m ∧ small (wire m).

Definition merge (m a : t) : t := {|
  deviceSoftwareCompliance := later_message m.(deviceSoftwareCompliance) a.(deviceSoftwareCompliance);
|}.

(** A whole message seen as a partial one. *)
Definition full (m : t) : partial := {|
  p_deviceSoftwareCompliance := DeviceSoftwareCompliance.full <$> m.(deviceSoftwareCompliance);
|}.

(** The message as its [.proto] file declares it. *)
Definition schema (m : t) : list field :=
  [singular 1 Optional (message_value DeviceSoftwareCompliance.schema) m.(deviceSoftwareCompliance)].

(** The message with its default for every property that is not kept. *)
Definition only (kept : string → bool) (m : t) : t := {|
  deviceSoftwareCompliance := if kept "deviceSoftwareCompliance" then m.(deviceSoftwareCompliance) else None;
|}.

#[global] Instance codec {PB : Protobuf} : MessageCodec t :=
  {| msg_base := base; msg_encode := encode; msg_field := decode_field |}.

#[global] Program Instance spec {PB : Protobuf} (PS : ProtobufSpec PB) : MessageSpec PS t :=
  {| msg_wire := wire; msg_valid := valid; msg_merge := merge |}.
Next Obligation. solve_encode_wire. Qed.
Next Obligation. solve_decode_wire. Qed.
Next Obligation. solve_merge_base. Qed.
Next Obligation. intros. solve_advances decode_field. Qed.

#[global] Program Instance data : MessageData t partial :=
  {| msg_fromJSON := fromJSON; msg_toJSON := toJSON;
     msg_fromPartial := fromPartial; msg_full := full |}.
Next Obligation. solve_json fromJSON toJSON. Qed.
Next Obligation. solve_partial fromPartial full. Qed.

#[global] Instance schema_wire {PB : Protobuf} {PS : ProtobufSpec PB} : WireSchema wire schema.
Proof. solve_schema_wire wire schema. Qed.

#[global] Instance schema_merge : MergeSchema merge schema.
Proof. solve_schema_merge merge schema. Qed.

(** Its row in the table of message types. *)
Definition message {PB : Protobuf} {PS : ProtobufSpec PB} : message_type :=
  plain_message "QueryGetDeviceSoftwareComplianceResponse" nothing true schema only.

#[global] Instance message_lawful {PB : Protobuf} (PS : ProtobufSpec PB) : Lawful message.
Proof. solve_lawful decode_field fromJSON only. Qed.

End QueryGetDeviceSoftwareComplianceResponse.

(** ** [QueryAllDeviceSoftwareComplianceRequest] (compliance/query.js) *)

Module QueryAllDeviceSoftwareComplianceRequest.

Record t := mk {
  pagination : option PageRequest.t;
}.

#[global] Instance t_eta : Settable t := λ m, mk m.(pagination).

Definition base : t := mk None.

Definition encode {PB : Protobuf} (message : t) (writer : Writer) : result Writer :=
  Ok writer
  @>= defined_e message.(pagination) (submessage 10 PageRequest.encode).

Definition decode_field {PB : Protobuf} (tag : Z) (message : t) : RM t :=
  match field_number tag with
  | 1 => v ← read_nested PageRequest.decode; mret (message <| pagination := Some v |>)
  | _ => _ ← skipType (wire_type tag); mret message
  end.

Definition decode {PB : Protobuf} (length : option Z) : RM t :=
  decode_message length base decode_field.

Definition fromJSON (object : js) : result t :=
  pagination' ← field_or object "pagination" (to_some PageRequest.fromJSON) None;
  Ok (mk pagination').

Definition toJSON (message : t) : js :=
  Obj (prop_opt "pagination" PageRequest.toJSON message.(pagination)).

Record partial := mkPartial {
  p_pagination : option PageRequest.partial;
}.

Definition fromPartial (object : partial) : t := {|
  pagination := PageRequest.fromPartial <$> object.(p_pagination);
|}.

(** The object with no property given. *)
Definition nothing : partial := mkPartial None.

(** The bytes [encode] writes. *)
Definition wire {PB : Protobuf} {PS : ProtobufSpec PB} (m : t) : bytes :=
  f_message 10 PageRequest.wire m.(pagination).

Definition valid (m : t) : Prop :=
  from_option PageRequest.valid True m.(pagination).

(** The byte fields hold arrays, as the interface declares. *)
Definition typed (m : t) : bool := from_option PageRequest.typed true m.(pagination).

(** The message without its empty byte arrays. *)
Definition normal (m : t) : t := {|
  pagination := PageRequest.normal <$> m.(pagination);
|}.

Definition encodable {PB : Protobuf} {PS : ProtobufSpec PB} (m : t) : Prop :=
  typed m = true ∧ valid m ∧ small (wire m).

Definition merge (m a : t) : t := {|
  pagination := later_message m.(pagination) (PageRequest.normal <$> a.(pagination));
|}.

(** A whole message seen as a partial one. *)
Definition full (m : t) : partial := {|
  p_pagination := PageRequest.full <$> m.(pagination);
|}.

(** The message as its [.proto] file declares it. *)
Definition schema (m : t) : list field :=
  [singular 1 Optional (message_value PageRequest.schema) m.(pagination)].

(** The message with its default for every property that is not kept. *)
Definition only (kept : string → bool) (m : t) : t := {|
  pagination := if kept "pagination" then m.(pagination) else None;
|}.

#[global] Instance codec {PB : Protobuf} : FallibleCodec t :=
  {| fmsg_base := base; fmsg_encode := encode; fmsg_field := decode_field |}.

#[global] Program Instance spec {PB : Protobuf} (PS : ProtobufSpec PB) : FallibleSpec PS t :=
  {| fmsg_wire := wire; fmsg_valid := valid; fmsg_typed := typed; fmsg_normal := normal;
     fmsg_merge := merge |}.
Next Obligation. solve_fencode_wire. Qed.
Next Obligation. intros. solve_fencode_throws encode typed. Qed.
Next Obligation. solve_fdecode_wire. Qed.
Next Obligation. solve_fmerge_base. Qed.
Next Obligation. intros. solve_fadvances decode_field. Qed.

#[global] Program Instance given_ : FalliblePartial t partial :=
  {| fmsg_fromPartial := fromPartial; fmsg_full := full; fmsg_given := typed |}.
Next Obligation. solve_fgiven fromPartial typed. Qed.
Next Obligation. solve_fpartial fromPartial full typed. Qed.

#[global] Program Instance json : FallibleJson t :=
  {| fmsg_fromJSON := fromJSON; fmsg_toJSON := toJSON;
     fmsg_named := fun _ => true; fmsg_known := fun m => m |}.
Next Obligation. solve_fjson fromJSON toJSON. Qed.
Next Obligation. reflexivity. Qed.

#[global] Instance schema_wire {PB : Protobuf} {PS : ProtobufSpec PB} : WireSchema wire schema.
Proof. solve_schema_wire wire schema. Qed.

#[global] Instance schema_normal : NormalSchema normal schema.
Proof. solve_schema_normal normal schema. Qed.

#[global] Instance schema_merge : MergeSchema merge schema.
Proof. solve_schema_merge merge schema. Qed.

(** Its row in the table of message types. *)
Definition message {PB : Protobuf} {PS : ProtobufSpec PB} : message_type :=
  fallible_message "QueryAllDeviceSoftwareComplianceRequest" nothing true schema only.

#[global] Instance message_lawful {PB : Protobuf} (PS : ProtobufSpec PB) : Lawful message.
Proof. solve_lawful decode_field fromJSON only. Qed.

End QueryAllDeviceSoftwareComplianceRequest.

(** ** [QueryAllDeviceSoftwareComplianceResponse] (compliance/query.js) *)

Module QueryAllDeviceSoftwareComplianceResponse.

Record t := mk {
  deviceSoftwareCompliance : list DeviceSoftwareCompliance.t;
  pagination : option PageResponse.t;
}.

#[global] Instance t_eta : Settable t := λ m, mk m.(deviceSoftwareCompliance) m.(pagination).

Definition base : t := mk [] None.

Definition encode {PB : Protobuf} (message : t) (writer : Writer) : result Writer :=
  Ok writer
  @>= pure (each message.(deviceSoftwareCompliance) (fun v w => w @> uint32 10 @> fork @> DeviceSoftwareCompliance.encode v @> ldelim))
  @>= defined_e message.(pagination) (submessage 18 PageResponse.encode).

Definition decode_field {PB : Protobuf} (tag : Z) (message : t) : RM t :=
  match field_number tag with
  | 1 => v ← read_nested DeviceSoftwareCompliance.decode;
         mret (message <| deviceSoftwareCompliance := message.(deviceSoftwareCompliance) ++ [v] |>)
  | 2 => v ← read_nested PageResponse.decode; mret (message <| pagination := Some v |>)
  | _ => _ ← skipType (wire_type tag); mret message
  end.

Definition decode {PB : Protobuf} (length : option Z) : RM t :=
  decode_message length base decode_field.

Definition fromJSON (object : js) : result t :=
  deviceSoftwareCompliance' ← field_or object "deviceSoftwareCompliance" (to_list DeviceSoftwareCompliance.fromJSON) [];
  pagination' ← field_or object "pagination" (to_some PageResponse.fromJSON) None;
  Ok (mk deviceSoftwareCompliance' pagination').

Definition toJSON (message : t) : js :=
  Obj ([("deviceSoftwareCompliance", Arr (map DeviceSoftwareCompliance.toJSON message.(deviceSoftwareCompliance)))] ++
   prop_opt "pagination" PageResponse.toJSON message.(pagination)).

Record partial := mkPartial {
  p_deviceSoftwareCompliance : option (list DeviceSoftwareCompliance.partial);
  p_pagination : option PageResponse.partial;
}.

Definition fromPartial (object : partial) : t := {|
  deviceSoftwareCompliance := map DeviceSoftwareCompliance.fromPartial (object.(p_deviceSoftwareCompliance) ?? []);
  pagination := PageResponse.fromPartial <$> object.(p_pagination);
|}.

(** The object with no property given. *)
Definition nothing : partial := mkPartial None None.

(** The bytes [encode] writes. *)
Definition wire {PB : Protobuf} {PS : ProtobufSpec PB} (m : t) : bytes :=
  f_repeated 10 DeviceSoftwareCompliance.wire m.(deviceSoftwareCompliance) ++
  f_message 18 PageResponse.wire m.(pagination).

Definition valid (m : t) : Prop :=
  Forall DeviceSoftwareCompliance.valid m.(deviceSoftwareCompliance) ∧ from_option PageResponse.valid True m.(pagination).

(** The byte fields hold arrays, as the interface declares. *)
Definition typed (m : t) : bool := from_option PageResponse.typed true m.(pagination).

(** The message without its empty byte arrays. *)
Definition normal (m : t) : t := {|
  deviceSoftwareCompliance := m.(deviceSoftwareCompliance);
  pagination := PageResponse.normal <$> m.(pagination);
|}.

Definition encodable {PB : Protobuf} {PS : ProtobufSpec PB} (m : t) : Prop :=
  typed m = true ∧ valid m ∧ small (wire m).

Definition merge (m a : t) : t := {|
  deviceSoftwareCompliance := m.(deviceSoftwareCompliance) ++ a.(deviceSoftwareCompliance);
  pagination := later_message m.(pagination) (PageResponse.normal <$> a.(pagination));
|}.

(** A whole message seen as a partial one. *)
Definition full (m : t) : partial := {|
  p_deviceSoftwareCompliance := Some (map DeviceSoftwareCompliance.full m.(deviceSoftwareCompliance));
  p_pagination := PageResponse.full <$> m.(pagination);
|}.

(** The message as its [.proto] file declares it. *)
Definition schema (m : t) : list field :=
  [repeated 1 (message_value DeviceSoftwareCompliance.schema) m.(deviceSoftwareCompliance);
   singular 2 Optional (message_value PageResponse.schema) m.(pagination)].

(** The message with its default for every property that is not kept. *)
Definition only (kept : string → bool) (m : t) : t := {|
  deviceSoftwareCompliance := if kept "deviceSoftwareCompliance" then m.(deviceSoftwareCompliance) else [];
  pagination := if kept "pagination" then m.(pagination) else None;
|}.

#[global] Instance codec {PB : Protobuf} : FallibleCodec t :=
  {| fmsg_base := base; fmsg_encode := encode; fmsg_field := decode_field |}.

#[global] Program Instance spec {PB : Protobuf} (PS : ProtobufSpec PB) : FallibleSpec PS t :=
  {| fmsg_wire := wire; fmsg_valid := valid; fmsg_typed := typed; fmsg_normal := normal;
     fmsg_merge := merge |}.
Next Obligation. solve_fencode_wire. Qed.
Next Obligation. intros. solve_fencode_throws encode typed. Qed.
Next Obligation. solve_fdecode_wire. Qed.
Next Obligation. solve_fmerge_base. Qed.
Next Obligation. intros. solve_fadvances decode_field. Qed.

#[global] Program Instance given_ : FalliblePartial t partial :=
  {| fmsg_fromPartial := fromPartial; fmsg_full := full; fmsg_given := typed |}.
Next Obligation. solve_fgiven fromPartial typed. Qed.
Next Obligation. solve_fpartial fromPartial full typed. Qed.

#[global] Program Instance json : FallibleJson t :=
  {| fmsg_fromJSON := fromJSON; fmsg_toJSON := toJSON;
     fmsg_named := fun _ => true; fmsg_known := fun m => m |}.
Next Obligation. solve_fjson fromJSON toJSON. Qed.
Next Obligation. reflexivity. Qed.

#[global] Instance schema_wire {PB : Protobuf} {PS : ProtobufSpec PB} : WireSchema wire schema.
Proof. solve_schema_wire wire schema. Qed.

#[global] Instance schema_normal : NormalSchema normal schema.
Proof. solve_schema_normal normal schema. Qed.

#[global] Instance schema_merge : MergeSchema merge schema.
Proof. solve_schema_merge merge schema. Qed.

(** Its row in the table of message types. *)
Definition message {PB : Protobuf} {PS : ProtobufSpec PB} : message_type :=
  fallible_message "QueryAllDeviceSoftwareComplianceResponse" nothing true schema only.

#[global] Instance message_lawful {PB : Protobuf} (PS : ProtobufSpec PB) : Lawful message.
Proof. solve_lawful decode_field fromJSON only. Qed.

End QueryAllDeviceSoftwareComplianceResponse.

(** ** [GenesisState] (compliance/genesis.js) *)

Module GenesisState.

Record t := mk {
  complianceInfoList : list ComplianceInfo.t;
  certifiedModelList : list CertifiedModel.t;
  revokedModelList : list RevokedModel.t;
  provisionalModelList : list ProvisionalModel.t;
  deviceSoftwareComplianceList : list DeviceSoftwareCompliance.t;
}.

#[global] Instance t_eta : Settable t := λ m, mk m.(complianceInfoList) m.(certifiedModelList)
  m.(revokedModelList) m.(provisionalModelList) m.(deviceSoftwareComplianceList).

Definition base : t := mk [] [] [] [] [].

Definition encode {PB : Protobuf} (message : t) (writer : Writer) : Writer :=
  writer
  @> each message.(complianceInfoList) (fun v w => w @> uint32 10 @> fork @> ComplianceInfo.encode v @> ldelim)
  @> each message.(certifiedModelList) (fun v w => w @> uint32 18 @> fork @> CertifiedModel.encode v @> ldelim)
  @> each message.(revokedModelList) (fun v w => w @> uint32 26 @> fork @> RevokedModel.encode v @> ldelim)
  @> each message.(provisionalModelList) (fun v w => w @> uint32 34 @> fork @> ProvisionalModel.encode v @> ldelim)
  @> each message.(deviceSoftwareComplianceList) (fun v w => w @> uint32 42 @> fork @> DeviceSoftwareCompliance.encode v @> ldelim).

Definition decode_field {PB : Protobuf} (tag : Z) (message : t) : RM t :=
  match field_number tag with
  | 1 => v ← read_nested ComplianceInfo.decode;
         mret (message <| complianceInfoList := message.(complianceInfoList) ++ [v] |>)
  | 2 => v ← read_nested CertifiedModel.decode;
         mret (message <| certifiedModelList := message.(certifiedModelList) ++ [v] |>)
  | 3 => v ← read_nested RevokedModel.decode;
         mret (message <| revokedModelList := message.(revokedModelList) ++ [v] |>)
  | 4 => v ← read_nested ProvisionalModel.decode;
         mret (message <| provisionalModelList := message.(provisionalModelList) ++ [v] |>)
  | 5 => v ← read_nested DeviceSoftwareCompliance.decode;
         mret (message <| deviceSoftwareComplianceList := message.(deviceSoftwareComplianceList) ++ [v] |>)
  | _ => _ ← skipType (wire_type tag); mret message
  end.

Definition decode {PB : Protobuf} (length : option Z) : RM t :=
  decode_message length base decode_field.

Definition fromJSON (object : js) : result t :=
  complianceInfoList' ← field_or object "complianceInfoList" (to_list ComplianceInfo.fromJSON) [];
  certifiedModelList' ← field_or object "certifiedModelList" (to_list CertifiedModel.fromJSON) [];
  revokedModelList' ← field_or object "revokedModelList" (to_list RevokedModel.fromJSON) [];
  provisionalModelList' ← field_or object "provisionalModelList" (to_list ProvisionalModel.fromJSON) [];
  deviceSoftwareComplianceList' ← field_or object "deviceSoftwareComplianceList" (to_list DeviceSoftwareCompliance.fromJSON) [];
  Ok (mk complianceInfoList' certifiedModelList' revokedModelList' provisionalModelList'
    deviceSoftwareComplianceList').

Definition toJSON (message : t) : js :=
  Obj ([("complianceInfoList", Arr (map ComplianceInfo.toJSON message.(complianceInfoList)));
    ("certifiedModelList", Arr (map CertifiedModel.toJSON message.(certifiedModelList)));
    ("revokedModelList", Arr (map RevokedModel.toJSON message.(revokedModelList)));
    ("provisionalModelList", Arr (map ProvisionalModel.toJSON message.(provisionalModelList)));
    ("deviceSoftwareComplianceList", Arr (map DeviceSoftwareCompliance.toJSON message.(deviceSoftwareComplianceList)))]).

Record partial := mkPartial {
  p_complianceInfoList : option (list ComplianceInfo.partial);
  p_certifiedModelList : option (list CertifiedModel.partial);
  p_revokedModelList : option (list RevokedModel.partial);
  p_provisionalModelList : option (list ProvisionalModel.partial);
  p_deviceSoftwareComplianceList : option (list DeviceSoftwareCompliance.partial);
}.

Definition fromPartial (object : partial) : t := {|
  complianceInfoList := map ComplianceInfo.fromPartial (object.(p_complianceInfoList) ?? []);
  certifiedModelList := map CertifiedModel.fromPartial (object.(p_certifiedModelList) ?? []);
  revokedModelList := map RevokedModel.fromPartial (object.(p_revokedModelList) ?? []);
  provisionalModelList := map ProvisionalModel.fromPartial (object.(p_provisionalModelList) ?? []);
  deviceSoftwareComplianceList := map DeviceSoftwareCompliance.fromPartial (object.(p_deviceSoftwareComplianceList) ?? []);
|}.

(** The object with no property given. *)
Definition nothing : partial := mkPartial None None None None None.

(** The bytes [encode] writes. *)
Definition wire {PB : Protobuf} {PS : ProtobufSpec PB} (m : t) : bytes :=
  f_repeated 10 ComplianceInfo.wire m.(complianceInfoList) ++
  f_repeated 18 CertifiedModel.wire m.(certifiedModelList) ++
  f_repeated 26 RevokedModel.wire m.(revokedModelList) ++
  f_repeated 34 ProvisionalModel.wire m.(provisionalModelList) ++
  f_repeated 42 DeviceSoftwareCompliance.wire m.(deviceSoftwareComplianceList).

Definition valid (m : t) : Prop :=
  Forall ComplianceInfo.valid m.(complianceInfoList) ∧ Forall CertifiedModel.valid m.(certifiedModelList) ∧ Forall RevokedModel.valid m.(revokedModelList) ∧ Forall ProvisionalModel.valid m.(provisionalModelList) ∧ Forall DeviceSoftwareCompliance.valid m.(deviceSoftwareComplianceList).

Definition encodable {PB : Protobuf} {PS : ProtobufSpec PB} (m : t) : Prop :=
  valid m ∧ small (wire m).

Definition merge (m a : t) : t := {|
  complianceInfoList := m.(complianceInfoList) ++ a.(complianceInfoList);
  certifiedModelList := m.(certifiedModelList) ++ a.(certifiedModelList);
  revokedModelList := m.(revokedModelList) ++ a.(revokedModelList);
  provisionalModelList := m.(provisionalModelList) ++ a.(provisionalModelList);
  deviceSoftwareComplianceList := m.(deviceSoftwareComplianceList) ++ a.(deviceSoftwareComplianceList);
|}.

(** A whole message seen as a partial one. *)
Definition full (m : t) : partial := {|
  p_complianceInfoList := Some (map ComplianceInfo.full m.(complianceInfoList));
  p_certifiedModelList := Some (map CertifiedModel.full m.(certifiedModelList));
  p_revokedModelList := Some (map RevokedModel.full m.(revokedModelList));
  p_provisionalModelList := Some (map ProvisionalModel.full m.(provisionalModelList));
  p_deviceSoftwareComplianceList := Some (map DeviceSoftwareCompliance.full m.(deviceSoftwareComplianceList));
|}.

(** The message as its [.proto] file declares it. *)
Definition schema (m : t) : list field :=
  [repeated 1 (message_value ComplianceInfo.schema) m.(complianceInfoList);
   repeated 2 (message_value CertifiedModel.schema) m.(certifiedModelList);
   repeated 3 (message_value RevokedModel.schema) m.(revokedModelList);
   repeated 4 (message_value ProvisionalModel.schema) m.(provisionalModelList);
   repeated 5 (message_value DeviceSoftwareCompliance.schema) m.(deviceSoftwareComplianceList)].

(** The message with its default for every property that is not kept. *)
Definition only (kept : string → bool) (m : t) : t := {|
  complianceInfoList := if kept "complianceInfoList" then m.(complianceInfoList) else [];
  certifiedModelList := if kept "certifiedModelList" then m.(certifiedModelList) else [];
  revokedModelList := if kept "revokedModelList" then m.(revokedModelList) else [];
  provisionalModelList := if kept "provisionalModelList" then m.(provisionalModelList) else [];
  deviceSoftwareComplianceList := if kept "deviceSoftwareComplianceList" then m.(deviceSoftwareComplianceList) else [];
|}.

#[global] Instance codec {PB : Protobuf} : MessageCodec t :=
  {| msg_base := base; msg_encode := encode; msg_field := decode_field |}.

#[global] Program Instance spec {PB : Protobuf} (PS : ProtobufSpec PB) : MessageSpec PS t :=
  {| msg_wire := wire; msg_valid := valid; msg_merge := merge |}.
Next Obligation. solve_encode_wire. Qed.
Next Obligation. solve_decode_wire. Qed.
Next Obligation. solve_merge_base. Qed.
Next Obligation. intros. solve_advances decode_field. Qed.

#[global] Program Instance data : MessageData t partial :=
  {| msg_fromJSON := fromJSON; msg_toJSON := toJSON;
     msg_fromPartial := fromPartial; msg_full := full |}.
Next Obligation. solve_json fromJSON toJSON. Qed.
Next Obligation. solve_partial fromPartial full. Qed.

#[global] Instance schema_wire {PB : Protobuf} {PS : ProtobufSpec PB} : WireSchema wire schema.
Proof. solve_schema_wire wire schema. Qed.

#[global] Instance schema_merge : MergeSchema merge schema.
Proof. solve_schema_merge merge schema. Qed.

(** Its row in the table of message types. *)
Definition message {PB : Protobuf} {PS : ProtobufSpec PB} : message_type :=
  plain_message "GenesisState" nothing true schema only.

#[global] Instance message_lawful {PB : Protobuf} (PS : ProtobufSpec PB) : Lawful message.
Proof. solve_lawful decode_field fromJSON only. Qed.

End GenesisState.


(** ** [QueryClientImpl]

    [rpc] is the transport the class is constructed with: [rpc service method data]
    is what the promise of [this.rpc.request] settles to. *)
Module QueryClientImpl.
Section client.
Context {PB : Protobuf} (rpc : string → string → bytes → result bytes).

Definition ComplianceInfo (request : QueryGetComplianceInfoRequest.t)
    : result QueryGetComplianceInfoResponse.t :=
  data ← rpc "zigbeealliance.distributedcomplianceledger.compliance.Query" "ComplianceInfo"
    (finish (QueryGetComplianceInfoRequest.encode request create));
  decode_bytes QueryGetComplianceInfoResponse.decode data.

Definition ComplianceInfoAll (request : QueryAllComplianceInfoRequest.t)
    : result QueryAllComplianceInfoResponse.t :=
  w ← QueryAllComplianceInfoRequest.encode request create;
  data ← rpc "zigbeealliance.distributedcomplianceledger.compliance.Query" "ComplianceInfoAll" (finish w);
  decode_bytes QueryAllComplianceInfoResponse.decode data.

Definition CertifiedModel (request : QueryGetCertifiedModelRequest.t)
    : result QueryGetCertifiedModelResponse.t :=
  data ← rpc "zigbeealliance.distributedcomplianceledger.compliance.Query" "CertifiedModel"
    (finish (QueryGetCertifiedModelRequest.encode request create));
  decode_bytes QueryGetCertifiedModelResponse.decode data.

Definition CertifiedModelAll (request : QueryAllCertifiedModelRequest.t)
    : result QueryAllCertifiedModelResponse.t :=
  w ← QueryAllCertifiedModelRequest.encode request create;
  data ← rpc "zigbeealliance.distributedcomplianceledger.compliance.Query" "CertifiedModelAll" (finish w);
  decode_bytes QueryAllCertifiedModelResponse.decode data.

Definition RevokedModel (request : QueryGetRevokedModelRequest.t)
    : result QueryGetRevokedModelResponse.t :=
  data ← rpc "zigbeealliance.distributedcomplianceledger.compliance.Query" "RevokedModel"
    (finish (QueryGetRevokedModelRequest.encode request create));
  decode_bytes QueryGetRevokedModelResponse.decode data.

Definition RevokedModelAll (request : QueryAllRevokedModelRequest.t)
    : result QueryAllRevokedModelResponse.t :=
  w ← QueryAllRevokedModelRequest.encode request create;
  data ← rpc "zigbeealliance.distributedcomplianceledger.compliance.Query" "RevokedModelAll" (finish w);
  decode_bytes QueryAllRevokedModelResponse.decode data.

Definition ProvisionalModel (request : QueryGetProvisionalModelRequest.t)
    : result QueryGetProvisionalModelResponse.t :=
  data ← rpc "zigbeealliance.distributedcomplianceledger.compliance.Query" "ProvisionalModel"
    (finish (QueryGetProvisionalModelRequest.encode request create));
  decode_bytes QueryGetProvisionalModelResponse.decode data.

Definition ProvisionalModelAll (request : QueryAllProvisionalModelRequest.t)
    : result QueryAllProvisionalModelResponse.t :=
  w ← QueryAllProvisionalModelRequest.encode request create;
  data ← rpc "zigbeealliance.distributedcomplianceledger.compliance.Query" "ProvisionalModelAll" (finish w);
  decode_bytes QueryAllProvisionalModelResponse.decode data.

Definition DeviceSoftwareCompliance (request : QueryGetDeviceSoftwareComplianceRequest.t)
    : result QueryGetDeviceSoftwareComplianceResponse.t :=
  data ← rpc "zigbeealliance.distributedcomplianceledger.compliance.Query" "DeviceSoftwareCompliance"
    (finish (QueryGetDeviceSoftwareComplianceRequest.encode request create));
  decode_bytes QueryGetDeviceSoftwareComplianceResponse.decode data.

Definition DeviceSoftwareComplianceAll (request : QueryAllDeviceSoftwareComplianceRequest.t)
    : result QueryAllDeviceSoftwareComplianceResponse.t :=
  w ← QueryAllDeviceSoftwareComplianceRequest.encode request create;
  data ← rpc "zigbeealliance.distributedcomplianceledger.compliance.Query" "DeviceSoftwareComplianceAll" (finish w);
  decode_bytes QueryAllDeviceSoftwareComplianceResponse.decode data.

End client.
End QueryClientImpl.

(** ** The message types of this file *)

Definition messages {PB : Protobuf} {PS : ProtobufSpec PB} : list message_type :=
  [ QueryGetComplianceInfoRequest.message; QueryGetComplianceInfoResponse.message;
   QueryAllComplianceInfoRequest.message; QueryAllComplianceInfoResponse.message;
   QueryGetCertifiedModelRequest.message; QueryGetCertifiedModelResponse.message;
   QueryAllCertifiedModelRequest.message; QueryAllCertifiedModelResponse.message;
   QueryGetRevokedModelRequest.message; QueryGetRevokedModelResponse.message;
   QueryAllRevokedModelRequest.message; QueryAllRevokedModelResponse.message;
   QueryGetProvisionalModelRequest.message; QueryGetProvisionalModelResponse.message;
   QueryAllProvisionalModelRequest.message; QueryAllProvisionalModelResponse.message;
   QueryGetDeviceSoftwareComplianceRequest.message;
   QueryGetDeviceSoftwareComplianceResponse.message;
   QueryAllDeviceSoftwareComplianceRequest.message;
   QueryAllDeviceSoftwareComplianceResponse.message; GenesisState.message].

Lemma ComplianceQuery_lawful {PB : Protobuf} {PS : ProtobufSpec PB} : Forall Lawful messages.
Proof. solve_table. Qed.

(** The methods of [QueryClientImpl]. *)
Definition query_methods {PB : Protobuf} {PS : ProtobufSpec PB} : list rpc_method :=
  [mkMethod "zigbeealliance.distributedcomplianceledger.compliance.Query" "ComplianceInfo"
     QueryGetComplianceInfoRequest.message QueryGetComplianceInfoResponse.message
     (fun rpc => QueryClientImpl.ComplianceInfo rpc);
   mkMethod "zigbeealliance.distributedcomplianceledger.compliance.Query" "ComplianceInfoAll"
     QueryAllComplianceInfoRequest.message QueryAllComplianceInfoResponse.message
     (fun rpc => QueryClientImpl.ComplianceInfoAll rpc);
   mkMethod "zigbeealliance.distributedcomplianceledger.compliance.Query" "CertifiedModel"
     QueryGetCertifiedModelRequest.message QueryGetCertifiedModelResponse.message
     (fun rpc => QueryClientImpl.CertifiedModel rpc);
   mkMethod "zigbeealliance.distributedcomplianceledger.compliance.Query" "CertifiedModelAll"
     QueryAllCertifiedModelRequest.message QueryAllCertifiedModelResponse.message
     (fun rpc => QueryClientImpl.CertifiedModelAll rpc);
   mkMethod "zigbeealliance.distributedcomplianceledger.compliance.Query" "RevokedModel"
     QueryGetRevokedModelRequest.message QueryGetRevokedModelResponse.message
     (fun rpc => QueryClientImpl.RevokedModel rpc);
   mkMethod "zigbeealliance.distributedcomplianceledger.compliance.Query" "RevokedModelAll"
     QueryAllRevokedModelRequest.message QueryAllRevokedModelResponse.message
     (fun rpc => QueryClientImpl.RevokedModelAll rpc);
   mkMethod "zigbeealliance.distributedcomplianceledger.compliance.Query" "ProvisionalModel"
     QueryGetProvisionalModelRequest.message QueryGetProvisionalModelResponse.message
     (fun rpc => QueryClientImpl.ProvisionalModel rpc);
   mkMethod "zigbeealliance.distributedcomplianceledger.compliance.Query" "ProvisionalModelAll"
     QueryAllProvisionalModelRequest.message QueryAllProvisionalModelResponse.message
     (fun rpc => QueryClientImpl.ProvisionalModelAll rpc);
   mkMethod "zigbeealliance.distributedcomplianceledger.compliance.Query" "DeviceSoftwareCompliance"
     QueryGetDeviceSoftwareComplianceRequest.message QueryGetDeviceSoftwareComplianceResponse.message
     (fun rpc => QueryClientImpl.DeviceSoftwareCompliance rpc);
   mkMethod "zigbeealliance.distributedcomplianceledger.compliance.Query" "DeviceSoftwareComplianceAll"
     QueryAllDeviceSoftwareComplianceRequest.message QueryAllDeviceSoftwareComplianceResponse.message
     (fun rpc => QueryClientImpl.DeviceSoftwareComplianceAll rpc)].

Lemma ComplianceQuery_query_methods_lawful {PB : Protobuf} {PS : ProtobufSpec PB} : Forall method_lawful query_methods.
Proof. solve_methods. Qed.
