(* ===== verification/ModelTypes.v ===== *)
(** * The types of the model module

    Device models, their software versions and the products of a vendor: the
    codecs of [model/module/types/model/*.js], in the form of [PkiTypes.v]. *)
From S2P Require Import Prelude Js Protobuf Codec Calendar Dates Base64 Fallible Proto3 MessageTable.
Open Scope Z_scope.

(** ** [Product] (model/product.js) *)

Module Product.

Record t := mk {
  pid : number;
  name : string;
  partNumber : string;
}.

#[global] Instance t_eta : Settable t := λ m, mk m.(pid) m.(name) m.(partNumber).

Definition base : t := mk 0 "" "".

Definition encode {PB : Protobuf} (message : t) (writer : Writer) : Writer :=
  writer
  @> when (num_neq message.(pid) 0) (fun w => w @> uint32 8 @> int32 message.(pid))
  @> when (str_neq message.(name) "") (fun w => w @> uint32 18 @> string_ message.(name))
  @> when (str_neq message.(partNumber) "")
       (fun w => w @> uint32 26 @> string_ message.(partNumber)).

Definition decode_field {PB : Protobuf} (tag : Z) (message : t) : RM t :=
  match field_number tag with
  | 1 => v ← read_int32; mret (message <| pid := Int v |>)
  | 2 => v ← read_string; mret (message <| name := v |>)
  | 3 => v ← read_string; mret (message <| partNumber := v |>)
  | _ => _ ← skipType (wire_type tag); mret message
  end.

Definition decode {PB : Protobuf} (length : option Z) : RM t :=
  decode_message length base decode_field.

Definition fromJSON (object : js) : result t :=
  pid' ← field_or object "pid" js_Number 0;
  name' ← field_or object "name" to_string "";
  partNumber' ← field_or object "partNumber" to_string "";
  Ok (mk pid' name' partNumber').

Definition toJSON (message : t) : js :=
  Obj ([("pid", Num message.(pid));
    ("name", Str message.(name));
    ("partNumber", Str message.(partNumber))]).

Record partial := mkPartial {
  p_pid : option number;
  p_name : option string;
  p_partNumber : option string;
}.

Definition fromPartial (object : partial) : t := {|
  pid := object.(p_pid) ?? Int 0;
  name := object.(p_name) ?? "";
  partNumber := object.(p_partNumber) ?? "";
|}.

(** The object with no property given. *)
Definition nothing : partial := mkPartial None None None.

(** The bytes [encode] writes. *)
Definition wire {PB : Protobuf} {PS : ProtobufSpec PB} (m : t) : bytes :=
  f_number e_int32 8 m.(pid) ++
  f_string 18 m.(name) ++
  f_string 26 m.(partNumber).

Definition valid (m : t) : Prop :=
  int32_ok m.(pid).

Definition encodable {PB : Protobuf} {PS : ProtobufSpec PB} (m : t) : Prop :=
  valid m ∧ small (wire m).

Definition merge (m a : t) : t := {|
  pid := later_number m.(pid) a.(pid);
  name := later_string m.(name) a.(name);
  partNumber := later_string m.(partNumber) a.(partNumber);
|}.

(** A whole message seen as a partial one. *)
Definition full (m : t) : partial := {|
  p_pid := Some m.(pid);
  p_name := Some m.(name);
  p_partNumber := Some m.(partNumber);
|}.

(** The message as its [.proto] file declares it. *)
Definition schema (m : t) : list field :=
  [implicit 1 (VInt Int32 m.(pid));
   implicit 2 (VString m.(name));
   implicit 3 (VString m.(partNumber))].

(** The message with its default for every property that is not kept. *)
Definition only (kept : string → bool) (m : t) : t := {|
  pid := if kept "pid" then m.(pid) else Int 0;
  name := if kept "name" then m.(name) else "";
  partNumber := if kept "partNumber" then m.(partNumber) else "";
|}.

#[global] Instance codec {PB : Protobuf} : MessageCodec t :=
  {| msg_base := base; msg_encode := encode; msg_field := decode_field |}.

#[global] Program Instance spec {PB : Protobuf} (PS : ProtobufSpec PB) : MessageSpec PS t :=
  {| msg_wire := wire; msg_valid := valid; msg_merge := merge |}.
Next Obligation. solve_encode_wire. Qed.
Next Obligation. solve_decode_wire. Qed.
Next Obligation. solve_merge_base. Qed.
Next Obligation. intros. solve_advances decode_field. Qed.

#[global] Program Instance data : MessageData t partial :=
  {| msg_fromJSON := fromJSON; msg_toJSON := toJSON;
     msg_fromPartial := fromPartial; msg_full := full |}.
Next Obligation. solve_json fromJSON toJSON. Qed.
Next Obligation. solve_partial fromPartial full. Qed.

#[global] Instance schema_wire {PB : Protobuf} {PS : ProtobufSpec PB} : WireSchema wire schema.
Proof. solve_schema_wire wire schema. Qed.

#[global] Instance schema_merge : MergeSchema merge schema.
Proof. solve_schema_merge merge schema. Qed.

(** Its row in the table of message types. *)
Definition message {PB : Protobuf} {PS : ProtobufSpec PB} : message_type :=
  plain_message "Product" nothing true schema only.

#[global] Instance message_lawful {PB : Protobuf} (PS : ProtobufSpec PB) : Lawful message.
Proof. solve_lawful decode_field fromJSON only. Qed.

End Product.

(** ** [VendorProducts] (model/vendor_products.js) *)

Module VendorProducts.

Record t := mk {
  vid : number;
  products : list Product.t;
}.

#[global] Instance t_eta : Settable t := λ m, mk m.(vid) m.(products).

Definition base : t := mk 0 [].

Definition encode {PB : Protobuf} (message : t) (writer : Writer) : Writer :=
  writer
  @> when (num_neq message.(vid) 0) (fun w => w @> uint32 8 @> int32 message.(vid))
  @> each message.(products) (fun v w => w @> uint32 18 @> fork @> Product.encode v @> ldelim).

Definition decode_field {PB : Protobuf} (tag : Z) (message : t) : RM t :=
  match field_number tag with
  | 1 => v ← read_int32; mret (message <| vid := Int v |>)
  | 2 => v ← read_nested Product.decode; mret (message <| products := message.(products) ++ [v] |>)
  | _ => _ ← skipType (wire_type tag); mret message
  end.

Definition decode {PB : Protobuf} (length : option Z) : RM t :=
  decode_message length base decode_field.

Definition fromJSON (object : js) : result t :=
  vid' ← field_or object "vid" js_Number 0;
  products' ← field_or object "products" (to_list Product.fromJSON) [];
  Ok (mk vid' products').

Definition toJSON (message : t) : js :=
  Obj ([("vid", Num message.(vid));
    ("products", Arr (map Product.toJSON message.(products)))]).

Record partial := mkPartial {
  p_vid : option number;
  p_products : option (list Product.partial);
}.

Definition fromPartial (object : partial) : t := {|
  vid := object.(p_vid) ?? Int 0;
  products := map Product.fromPartial (object.(p_products) ?? []);
|}.

(** The object with no property given. *)
Definition nothing : partial := mkPartial None None.

(** The bytes [encode] writes. *)
Definition wire {PB : Protobuf} {PS : ProtobufSpec PB} (m : t) : bytes :=
  f_number e_int32 8 m.(vid) ++
  f_repeated 18 Product.wire m.(products).

Definition valid (m : t) : Prop :=
  int32_ok m.(vid) ∧ Forall Product.valid m.(products).

Definition encodable {PB : Protobuf} {PS : ProtobufSpec PB} (m : t) : Prop :=
  valid m ∧ small (wire m).

Definition merge (m a : t) : t := {|
  vid := later_number m.(vid) a.(vid);
  products := m.(products) ++ a.(products);
|}.

(** A whole message seen as a partial one. *)
Definition full (m : t) : partial := {|
  p_vid := Some m.(vid);
  p_products := Some (map Product.full m.(products));
|}.

(** The message as its [.proto] file declares it. *)
Definition schema (m : t) : list field :=
  [implicit 1 (VInt Int32 m.(vid));
   repeated 2 (message_value Product.schema) m.(products)].

(** The message with its default for every property that is not kept. *)
Definition only (kept : string → bool) (m : t) : t := {|
  vid := if kept "vid" then m.(vid) else Int 0;
  products := if kept "products" then m.(products) else [];
|}.

#[global] Instance codec {PB : Protobuf} : MessageCodec t :=
  {| msg_base := base; msg_encode := encode; msg_field := decode_field |}.

#[global] Program Instance spec {PB : Protobuf} (PS : ProtobufSpec PB) : MessageSpec PS t :=
  {| msg_wire := wire; msg_valid := valid; msg_merge := merge |}.
Next Obligation. solve_encode_wire. Qed.
Next Obligation. solve_decode_wire. Qed.
Next Obligation. solve_merge_base. Qed.
Next Obligation. intros. solve_advances decode_field. Qed.

#[global] Program Instance data : MessageData t partial :=
  {| msg_fromJSON := fromJSON; msg_toJSON := toJSON;
     msg_fromPartial := fromPartial; msg_full := full |}.
Next Obligation. solve_json fromJSON toJSON. Qed.
Next Obligation. solve_partial fromPartial full. Qed.

#[global] Instance schema_wire {PB : Protobuf} {PS : ProtobufSpec PB} : WireSchema wire schema.
Proof. solve_schema_wire wire schema. Qed.

#[global] Instance schema_merge : MergeSchema merge schema.
Proof. solve_schema_merge merge schema. Qed.

(** Its row in the table of message types. *)
Definition message {PB : Protobuf} {PS : ProtobufSpec PB} : message_type :=
  plain_message "VendorProducts" nothing true schema only.

#[global] Instance message_lawful {PB : Protobuf} (PS : ProtobufSpec PB) : Lawful message.
Proof. solve_lawful decode_field fromJSON only. Qed.

End VendorProducts.

(** ** [Model] (model/model.js) *)

Module Model.

Record t := mk {
  vid : number;
  pid : number;
  deviceTypeId : number;
  productName : string;
  productLabel : string;
  partNumber : string;
  commissioningCustomFlow : number;
  commissioningCustomFlowUrl : string;
  commissioningModeInitialStepsHint : number;
  commissioningModeInitialStepsInstruction : string;
  commissioningModeSecondaryStepsHint : number;
  commissioningModeSecondaryStepsInstruction : string;
  userManualUrl : string;
  supportUrl : string;
  productUrl : string;
  lsfUrl : string;
  lsfRevision : number;
  creator : string;
}.

#[global] Instance t_eta : Settable t := λ m, mk m.(vid) m.(pid) m.(deviceTypeId)
  m.(productName) m.(productLabel) m.(partNumber) m.(commissioningCustomFlow)
  m.(commissioningCustomFlowUrl) m.(commissioningModeInitialStepsHint)
  m.(commissioningModeInitialStepsInstruction) m.(commissioningModeSecondaryStepsHint)
  m.(commissioningModeSecondaryStepsInstruction) m.(userManualUrl) m.(supportUrl) m.(productUrl)
  m.(lsfUrl) m.(lsfRevision) m.(creator).

Definition base : t := mk 0 0 0 "" "" "" 0 "" 0 "" 0 "" "" "" "" "" 0 "".

Definition encode {PB : Protobuf} (message : t) (writer : Writer) : Writer :=
  writer
  @> when (num_neq message.(vid) 0) (fun w => w @> uint32 8 @> int32 message.(vid))
  @> when (num_neq message.(pid) 0) (fun w => w @> uint32 16 @> int32 message.(pid))
  @> when (num_neq message.(deviceTypeId) 0)
       (fun w => w @> uint32 24 @> int32 message.(deviceTypeId))
  @> when (str_neq message.(productName) "")
       (fun w => w @> uint32 34 @> string_ message.(productName))
  @> when (str_neq message.(productLabel) "")
       (fun w => w @> uint32 42 @> string_ message.(productLabel))
  @> when (str_neq message.(partNumber) "")
       (fun w => w @> uint32 50 @> string_ message.(partNumber))
  @> when (num_neq message.(commissioningCustomFlow) 0)
       (fun w => w @> uint32 56 @> int32 message.(commissioningCustomFlow))
  @> when (str_neq message.(commissioningCustomFlowUrl) "")
       (fun w => w @> uint32 66 @> string_ message.(commissioningCustomFlowUrl))
  @> when (num_neq message.(commissioningModeInitialStepsHint) 0)
       (fun w => w @> uint32 72 @> uint32 message.(commissioningModeInitialStepsHint))
  @> when (str_neq message.(commissioningModeInitialStepsInstruction) "")
       (fun w => w @> uint32 82 @> string_ message.(commissioningModeInitialStepsInstruction))
  @> when (num_neq message.(commissioningModeSecondaryStepsHint) 0)
       (fun w => w @> uint32 88 @> uint32 message.(commissioningModeSecondaryStepsHint))
  @> when (str_neq message.(commissioningModeSecondaryStepsInstruction) "")
       (fun w => w @> uint32 98 @> string_ message.(commissioningModeSecondaryStepsInstruction))
  @> when (str_neq message.(userManualUrl) "")
       (fun w => w @> uint32 106 @> string_ message.(userManualUrl))
  @> when (str_neq message.(supportUrl) "")
       (fun w => w @> uint32 114 @> string_ message.(supportUrl))
  @> when (str_neq message.(productUrl) "")
       (fun w => w @> uint32 122 @> string_ message.(productUrl))
  @> when (str_neq message.(lsfUrl) "") (fun w => w @> uint32 130 @> string_ message.(lsfUrl))
  @> when (num_neq message.(lsfRevision) 0)
       (fun w => w @> uint32 136 @> int32 message.(lsfRevision))
  @> when (str_neq message.(creator) "") (fun w => w @> uint32 146 @> string_ message.(creator)).

Definition decode_field {PB : Protobuf} (tag : Z) (message : t) : RM t :=
  match field_number tag with
  | 1 => v ← read_int32; mret (message <| vid := Int v |>)
  | 2 => v ← read_int32; mret (message <| pid := Int v |>)
  | 3 => v ← read_int32; mret (message <| deviceTypeId := Int v |>)
  | 4 => v ← read_string; mret (message <| productName := v |>)
  | 5 => v ← read_string; mret (message <| productLabel := v |>)
  | 6 => v ← read_string; mret (message <| partNumber := v |>)
  | 7 => v ← read_int32; mret (message <| commissioningCustomFlow := Int v |>)
  | 8 => v ← read_string; mret (message <| commissioningCustomFlowUrl := v |>)
  | 9 => v ← read_uint32; mret (message <| commissioningModeInitialStepsHint := Int v |>)
  | 10 => v ← read_string; mret (message <| commissioningModeInitialStepsInstruction := v |>)
  | 11 => v ← read_uint32; mret (message <| commissioningModeSecondaryStepsHint := Int v |>)
  | 12 => v ← read_string; mret (message <| commissioningModeSecondaryStepsInstruction := v |>)
  | 13 => v ← read_string; mret (message <| userManualUrl := v |>)
  | 14 => v ← read_string; mret (message <| supportUrl := v |>)
  | 15 => v ← read_string; mret (message <| productUrl := v |>)
  | 16 => v ← read_string; mret (message <| lsfUrl := v |>)
  | 17 => v ← read_int32; mret (message <| lsfRevision := Int v |>)
  | 18 => v ← read_string; mret (message <| creator := v |>)
  | _ => _ ← skipType (wire_type tag); mret message
  end.

Definition decode {PB : Protobuf} (length : option Z) : RM t :=
  decode_message length base decode_field.

Definition fromJSON (object : js) : result t :=
  vid' ← field_or object "vid" js_Number 0;
  pid' ← field_or object "pid" js_Number 0;
  deviceTypeId' ← field_or object "deviceTypeId" js_Number 0;
  productName' ← field_or object "productName" to_string "";
  productLabel' ← field_or object "productLabel" to_string "";
  partNumber' ← field_or object "partNumber" to_string "";
  commissioningCustomFlow' ← field_or object "commissioningCustomFlow" js_Number 0;
  commissioningCustomFlowUrl' ← field_or object "commissioningCustomFlowUrl" to_string "";
  commissioningModeInitialStepsHint' ← field_or object "commissioningModeInitialStepsHint" js_Number 0;
  commissioningModeInitialStepsInstruction' ← field_or object "commissioningModeInitialStepsInstruction" to_string "";
  commissioningModeSecondaryStepsHint' ← field_or object "commissioningModeSecondaryStepsHint" js_Number 0;
  commissioningModeSecondaryStepsInstruction' ← field_or object "commissioningModeSecondaryStepsInstruction" to_string "";
  userManualUrl' ← field_or object "userManualUrl" to_string "";
  supportUrl' ← field_or object "supportUrl" to_string "";
  productUrl' ← field_or object "productUrl" to_string "";
  lsfUrl' ← field_or object "lsfUrl" to_string "";
  lsfRevision' ← field_or object "lsfRevision" js_Number 0;
  creator' ← field_or object "creator" to_string "";
  Ok (mk vid' pid' deviceTypeId' productName' productLabel' partNumber' commissioningCustomFlow'
    commissioningCustomFlowUrl' commissioningModeInitialStepsHint'
    commissioningModeInitialStepsInstruction' commissioningModeSecondaryStepsHint'
    commissioningModeSecondaryStepsInstruction' userManualUrl' supportUrl' productUrl' lsfUrl'
    lsfRevision' creator').

Definition toJSON (message : t) : js :=
  Obj ([("vid", Num message.(vid));
    ("pid", Num message.(pid));
    ("deviceTypeId", Num message.(deviceTypeId));
    ("productName", Str message.(productName));
    ("productLabel", Str message.(productLabel));
    ("partNumber", Str message.(partNumber));
    ("commissioningCustomFlow", Num message.(commissioningCustomFlow));
    ("commissioningCustomFlowUrl", Str message.(commissioningCustomFlowUrl));
    ("commissioningModeInitialStepsHint", Num message.(commissioningModeInitialStepsHint));
    ("commissioningModeInitialStepsInstruction", Str message.(commissioningModeInitialStepsInstruction));
    ("commissioningModeSecondaryStepsHint", Num message.(commissioningModeSecondaryStepsHint));
    ("commissioningModeSecondaryStepsInstruction", Str message.(commissioningModeSecondaryStepsInstruction));
    ("userManualUrl", Str message.(userManualUrl));
    ("supportUrl", Str message.(supportUrl));
    ("productUrl", Str message.(productUrl));
    ("lsfUrl", Str message.(lsfUrl));
    ("lsfRevision", Num message.(lsfRevision));
    ("creator", Str message.(creator))]).

Record partial := mkPartial {
  p_vid : option number;
  p_pid : option number;
  p_deviceTypeId : option number;
  p_productName : option string;
  p_productLabel : option string;
  p_partNumber : option string;
  p_commissioningCustomFlow : option number;
  p_commissioningCustomFlowUrl : option string;
  p_commissioningModeInitialStepsHint : option number;
  p_commissioningModeInitialStepsInstruction : option string;
  p_commissioningModeSecondaryStepsHint : option number;
  p_commissioningModeSecondaryStepsInstruction : option string;
  p_userManualUrl : option string;
  p_supportUrl : option string;
  p_productUrl : option string;
  p_lsfUrl : option string;
  p_lsfRevision : option number;
  p_creator : option string;
}.

Definition fromPartial (object : partial) : t := {|
  vid := object.(p_vid) ?? Int 0;
  pid := object.(p_pid) ?? Int 0;
  deviceTypeId := object.(p_deviceTypeId) ?? Int 0;
  productName := object.(p_productName) ?? "";
  productLabel := object.(p_productLabel) ?? "";
  partNumber := object.(p_partNumber) ?? "";
  commissioningCustomFlow := object.(p_commissioningCustomFlow) ?? Int 0;
  commissioningCustomFlowUrl := object.(p_commissioningCustomFlowUrl) ?? "";
  commissioningModeInitialStepsHint := object.(p_commissioningModeInitialStepsHint) ?? Int 0;
  commissioningModeInitialStepsInstruction := object.(p_commissioningModeInitialStepsInstruction) ?? "";
  commissioningModeSecondaryStepsHint := object.(p_commissioningModeSecondaryStepsHint) ?? Int 0;
  commissioningModeSecondaryStepsInstruction := object.(p_commissioningModeSecondaryStepsInstruction) ?? "";
  userManualUrl := object.(p_userManualUrl) ?? "";
  supportUrl := object.(p_supportUrl) ?? "";
  productUrl := object.(p_productUrl) ?? "";
  lsfUrl := object.(p_lsfUrl) ?? "";
  lsfRevision := object.(p_lsfRevision) ?? Int 0;
  creator := object.(p_creator) ?? "";
|}.

(** The object with no property given. *)
Definition nothing : partial := mkPartial None None None None None None None None None None None
  None None None None None None None.

(** The bytes [encode] writes. *)
Definition wire {PB : Protobuf} {PS : ProtobufSpec PB} (m : t) : bytes :=
  f_number e_int32 8 m.(vid) ++
  f_number e_int32 16 m.(pid) ++
  f_number e_int32 24 m.(deviceTypeId) ++
  f_string 34 m.(productName) ++
  f_string 42 m.(productLabel) ++
  f_string 50 m.(partNumber) ++
  f_number e_int32 56 m.(commissioningCustomFlow) ++
  f_string 66 m.(commissioningCustomFlowUrl) ++
  f_number e_uint32 72 m.(commissioningModeInitialStepsHint) ++
  f_string 82 m.(commissioningModeInitialStepsInstruction) ++
  f_number e_uint32 88 m.(commissioningModeSecondaryStepsHint) ++
  f_string 98 m.(commissioningModeSecondaryStepsInstruction) ++
  f_string 106 m.(userManualUrl) ++
  f_string 114 m.(supportUrl) ++
  f_string 122 m.(productUrl) ++
  f_string 130 m.(lsfUrl) ++
  f_number e_int32 136 m.(lsfRevision) ++
  f_string 146 m.(creator).

Definition valid (m : t) : Prop :=
  int32_ok m.(vid) ∧ int32_ok m.(pid) ∧ int32_ok m.(deviceTypeId) ∧ int32_ok m.(commissioningCustomFlow) ∧ uint32_ok m.(commissioningModeInitialStepsHint) ∧ uint32_ok m.(commissioningModeSecondaryStepsHint) ∧ int32_ok m.(lsfRevision).

Definition encodable {PB : Protobuf} {PS : ProtobufSpec PB} (m : t) : Prop :=
  valid m ∧ small (wire m).

Definition merge (m a : t) : t := {|
  vid := later_number m.(vid) a.(vid);
  pid := later_number m.(pid) a.(pid);
  deviceTypeId := later_number m.(deviceTypeId) a.(deviceTypeId);
  productName := later_string m.(productName) a.(productName);
  productLabel := later_string m.(productLabel) a.(productLabel);
  partNumber := later_string m.(partNumber) a.(partNumber);
  commissioningCustomFlow := later_number m.(commissioningCustomFlow) a.(commissioningCustomFlow);
  commissioningCustomFlowUrl := later_string m.(commissioningCustomFlowUrl) a.(commissioningCustomFlowUrl);
  commissioningModeInitialStepsHint := later_number m.(commissioningModeInitialStepsHint) a.(commissioningModeInitialStepsHint);
  commissioningModeInitialStepsInstruction := later_string m.(commissioningModeInitialStepsInstruction) a.(commissioningModeInitialStepsInstruction);
  commissioningModeSecondaryStepsHint := later_number m.(commissioningModeSecondaryStepsHint) a.(commissioningModeSecondaryStepsHint);
  commissioningModeSecondaryStepsInstruction := later_string m.(commissioningModeSecondaryStepsInstruction) a.(commissioningModeSecondaryStepsInstruction);
  userManualUrl := later_string m.(userManualUrl) a.(userManualUrl);
  supportUrl := later_string m.(supportUrl) a.(supportUrl);
  productUrl := later_string m.(productUrl) a.(productUrl);
  lsfUrl := later_string m.(lsfUrl) a.(lsfUrl);
  lsfRevision := later_number m.(lsfRevision) a.(lsfRevision);
  creator := later_string m.(creator) a.(creator);
|}.

(** A whole message seen as a partial one. *)
Definition full (m : t) : partial := {|
  p_vid := Some m.(vid);
  p_pid := Some m.(pid);
  p_deviceTypeId := Some m.(deviceTypeId);
  p_productName := Some m.(productName);
  p_productLabel := Some m.(productLabel);
  p_partNumber := Some m.(partNumber);
  p_commissioningCustomFlow := Some m.(commissioningCustomFlow);
  p_commissioningCustomFlowUrl := Some m.(commissioningCustomFlowUrl);
  p_commissioningModeInitialStepsHint := Some m.(commissioningModeInitialStepsHint);
  p_commissioningModeInitialStepsInstruction := Some m.(commissioningModeInitialStepsInstruction);
  p_commissioningModeSecondaryStepsHint := Some m.(commissioningModeSecondaryStepsHint);
  p_commissioningModeSecondaryStepsInstruction := Some m.(commissioningModeSecondaryStepsInstruction);
  p_userManualUrl := Some m.(userManualUrl);
  p_supportUrl := Some m.(supportUrl);
  p_productUrl := Some m.(productUrl);
  p_lsfUrl := Some m.(lsfUrl);
  p_lsfRevision := Some m.(lsfRevision);
  p_creator := Some m.(creator);
|}.

(** The message as its [.proto] file declares it. *)
Definition schema (m : t) : list field :=
  [implicit 1 (VInt Int32 m.(vid));
   implicit 2 (VInt Int32 m.(pid));
   implicit 3 (VInt Int32 m.(deviceTypeId));
   implicit 4 (VString m.(productName));
   implicit 5 (VString m.(productLabel));
   implicit 6 (VString m.(partNumber));
   implicit 7 (VInt Int32 m.(commissioningCustomFlow));
   implicit 8 (VString m.(commissioningCustomFlowUrl));
   implicit 9 (VInt Uint32 m.(commissioningModeInitialStepsHint));
   implicit 10 (VString m.(commissioningModeInitialStepsInstruction));
   implicit 11 (VInt Uint32 m.(commissioningModeSecondaryStepsHint));
   implicit 12 (VString m.(commissioningModeSecondaryStepsInstruction));
   implicit 13 (VString m.(userManualUrl));
   implicit 14 (VString m.(supportUrl));
   implicit 15 (VString m.(productUrl));
   implicit 16 (VString m.(lsfUrl));
   implicit 17 (VInt Int32 m.(lsfRevision));
   implicit 18 (VString m.(creator))].

(** The message with its default for every property that is not kept. *)
Definition only (kept : string → bool) (m : t) : t := {|
  vid := if kept "vid" then m.(vid) else Int 0;
  pid := if kept "pid" then m.(pid) else Int 0;
  deviceTypeId := if kept "deviceTypeId" then m.(deviceTypeId) else Int 0;
  productName := if kept "productName" then m.(productName) else "";
  productLabel := if kept "productLabel" then m.(productLabel) else "";
  partNumber := if kept "partNumber" then m.(partNumber) else "";
  commissioningCustomFlow := if kept "commissioningCustomFlow" then m.(commissioningCustomFlow) else Int 0;
  commissioningCustomFlowUrl := if kept "commissioningCustomFlowUrl" then m.(commissioningCustomFlowUrl) else "";
  commissioningModeInitialStepsHint := if kept "commissioningModeInitialStepsHint" then m.(commissioningModeInitialStepsHint) else Int 0;
  commissioningModeInitialStepsInstruction := if kept "commissioningModeInitialStepsInstruction" then m.(commissioningModeInitialStepsInstruction) else "";
  commissioningModeSecondaryStepsHint := if kept "commissioningModeSecondaryStepsHint" then m.(commissioningModeSecondaryStepsHint) else Int 0;
  commissioningModeSecondaryStepsInstruction := if kept "commissioningModeSecondaryStepsInstruction" then m.(commissioningModeSecondaryStepsInstruction) else "";
  userManualUrl := if kept "userManualUrl" then m.(userManualUrl) else "";
  supportUrl := if kept "supportUrl" then m.(supportUrl) else "";
  productUrl := if kept "productUrl" then m.(productUrl) else "";
  lsfUrl := if kept "lsfUrl" then m.(lsfUrl) else "";
  lsfRevision := if kept "lsfRevision" then m.(lsfRevision) else Int 0;
  creator := if kept "creator" then m.(creator) else "";
|}.

#[global] Instance codec {PB : Protobuf} : MessageCodec t :=
  {| msg_base := base; msg_encode := encode; msg_field := decode_field |}.

#[global] Program Instance spec {PB : Protobuf} (PS : ProtobufSpec PB) : MessageSpec PS t :=
  {| msg_wire := wire; msg_valid := valid; msg_merge := merge |}.
Next Obligation. solve_encode_wire. Qed.
Next Obligation. solve_decode_wire. Qed.
Next Obligation. solve_merge_base. Qed.
Next Obligation. intros. solve_advances decode_field. Qed.

#[global] Program Instance data : MessageData t partial :=
  {| msg_fromJSON := fromJSON; msg_toJSON := toJSON;
     msg_fromPartial := fromPartial; msg_full := full |}.
Next Obligation. solve_json fromJSON toJSON. Qed.
Next Obligation. solve_partial fromPartial full. Qed.

#[global] Instance schema_wire {PB : Protobuf} {PS : ProtobufSpec PB} : WireSchema wire schema.
Proof. solve_schema_wire wire schema. Qed.

#[global] Instance schema_merge : MergeSchema merge schema.
Proof. solve_schema_merge merge schema. Qed.

(** Its row in the table of message types. *)
Definition message {PB : Protobuf} {PS : ProtobufSpec PB} : message_type :=
  plain_message "Model" nothing true schema only.

#[global] Instance message_lawful {PB : Protobuf} (PS : ProtobufSpec PB) : Lawful message.
Proof. solve_lawful decode_field fromJSON only. Qed.

End Model.

(** ** [ModelVersion] (model/model_version.js) *)

Module ModelVersion.

Record t := mk {
  vid : number;
  pid : number;
  softwareVersion : number;
  softwareVersionString : string;
  cdVersionNumber : number;
  firmwareInformation : string;
  softwareVersionValid : bool;
  otaUrl : string;
  otaFileSize : number;
  otaChecksum : string;
  otaChecksumType : number;
  minApplicableSoftwareVersion : number;
  maxApplicableSoftwareVersion : number;
  releaseNotesUrl : string;
  creator : string;
}.

#[global] Instance t_eta : Settable t := λ m, mk m.(vid) m.(pid) m.(softwareVersion)
  m.(softwareVersionString) m.(cdVersionNumber) m.(firmwareInformation) m.(softwareVersionValid)
  m.(otaUrl) m.(otaFileSize) m.(otaChecksum) m.(otaChecksumType)
  m.(minApplicableSoftwareVersion) m.(maxApplicableSoftwareVersion) m.(releaseNotesUrl)
  m.(creator).

Definition base : t := mk 0 0 0 "" 0 "" false "" 0 "" 0 0 0 "" "".

Definition encode {PB : Protobuf} (message : t) (writer : Writer) : Writer :=
  writer
  @> when (num_neq message.(vid) 0) (fun w => w @> uint32 8 @> int32 message.(vid))
  @> when (num_neq message.(pid) 0) (fun w => w @> uint32 16 @> int32 message.(pid))
  @> when (num_neq message.(softwareVersion) 0)
       (fun w => w @> uint32 24 @> uint32 message.(softwareVersion))
  @> when (str_neq message.(softwareVersionString) "")
       (fun w => w @> uint32 34 @> string_ message.(softwareVersionString))
  @> when (num_neq message.(cdVersionNumber) 0)
       (fun w => w @> uint32 40 @> int32 message.(cdVersionNumber))
  @> when (str_neq message.(firmwareInformation) "")
       (fun w => w @> uint32 50 @> string_ message.(firmwareInformation))
  @> when (Bool.eqb message.(softwareVersionValid) true)
       (fun w => w @> uint32 56 @> bool_ message.(softwareVersionValid))
  @> when (str_neq message.(otaUrl) "") (fun w => w @> uint32 66 @> string_ message.(otaUrl))
  @> when (num_neq message.(otaFileSize) 0)
       (fun w => w @> uint32 72 @> uint64 message.(otaFileSize))
  @> when (str_neq message.(otaChecksum) "")
       (fun w => w @> uint32 82 @> string_ message.(otaChecksum))
  @> when (num_neq message.(otaChecksumType) 0)
       (fun w => w @> uint32 88 @> int32 message.(otaChecksumType))
  @> when (num_neq message.(minApplicableSoftwareVersion) 0)
       (fun w => w @> uint32 96 @> uint32 message.(minApplicableSoftwareVersion))
  @> when (num_neq message.(maxApplicableSoftwareVersion) 0)
       (fun w => w @> uint32 104 @> uint32 message.(maxApplicableSoftwareVersion))
  @> when (str_neq message.(releaseNotesUrl) "")
       (fun w => w @> uint32 114 @> string_ message.(releaseNotesUrl))
  @> when (str_neq message.(creator) "") (fun w => w @> uint32 122 @> string_ message.(creator)).

Definition decode_field {PB : Protobuf} (tag : Z) (message : t) : RM t :=
  match field_number tag with
  | 1 => v ← read_int32; mret (message <| vid := Int v |>)
  | 2 => v ← read_int32; mret (message <| pid := Int v |>)
  | 3 => v ← read_uint32; mret (message <| softwareVersion := Int v |>)
  | 4 => v ← read_string; mret (message <| softwareVersionString := v |>)
  | 5 => v ← read_int32; mret (message <| cdVersionNumber := Int v |>)
  | 6 => v ← read_string; mret (message <| firmwareInformation := v |>)
  | 7 => v ← read_bool; mret (message <| softwareVersionValid := v |>)
  | 8 => v ← read_string; mret (message <| otaUrl := v |>)
  | 9 => v ← read_number read_uint64; mret (message <| otaFileSize := v |>)
  | 10 => v ← read_string; mret (message <| otaChecksum := v |>)
  | 11 => v ← read_int32; mret (message <| otaChecksumType := Int v |>)
  | 12 => v ← read_uint32; mret (message <| minApplicableSoftwareVersion := Int v |>)
  | 13 => v ← read_uint32; mret (message <| maxApplicableSoftwareVersion := Int v |>)
  | 14 => v ← read_string; mret (message <| releaseNotesUrl := v |>)
  | 15 => v ← read_string; mret (message <| creator := v |>)
  | _ => _ ← skipType (wire_type tag); mret message
  end.

Definition decode {PB : Protobuf} (length : option Z) : RM t :=
  decode_message length base decode_field.

Definition fromJSON (object : js) : result t :=
  vid' ← field_or object "vid" js_Number 0;
  pid' ← field_or object "pid" js_Number 0;
  softwareVersion' ← field_or object "softwareVersion" js_Number 0;
  softwareVersionString' ← field_or object "softwareVersionString" to_string "";
  cdVersionNumber' ← field_or object "cdVersionNumber" js_Number 0;
  firmwareInformation' ← field_or object "firmwareInformation" to_string "";
  softwareVersionValid' ← field_or object "softwareVersionValid" to_bool false;
  otaUrl' ← field_or object "otaUrl" to_string "";
  otaFileSize' ← field_or object "otaFileSize" js_Number 0;
  otaChecksum' ← field_or object "otaChecksum" to_string "";
  otaChecksumType' ← field_or object "otaChecksumType" js_Number 0;
  minApplicableSoftwareVersion' ← field_or object "minApplicableSoftwareVersion" js_Number 0;
  maxApplicableSoftwareVersion' ← field_or object "maxApplicableSoftwareVersion" js_Number 0;
  releaseNotesUrl' ← field_or object "releaseNotesUrl" to_string "";
  creator' ← field_or object "creator" to_string "";
  Ok (mk vid' pid' softwareVersion' softwareVersionString' cdVersionNumber' firmwareInformation'
    softwareVersionValid' otaUrl' otaFileSize' otaChecksum' otaChecksumType'
    minApplicableSoftwareVersion' maxApplicableSoftwareVersion' releaseNotesUrl' creator').

Definition toJSON (message : t) : js :=
  Obj ([("vid", Num message.(vid));
    ("pid", Num message.(pid));
    ("softwareVersion", Num message.(softwareVersion));
    ("softwareVersionString", Str message.(softwareVersionString));
    ("cdVersionNumber", Num message.(cdVersionNumber));
    ("firmwareInformation", Str message.(firmwareInformation));
    ("softwareVersionValid", Bool message.(softwareVersionValid));
    ("otaUrl", Str message.(otaUrl));
    ("otaFileSize", Num message.(otaFileSize));
    ("otaChecksum", Str message.(otaChecksum));
    ("otaChecksumType", Num message.(otaChecksumType));
    ("minApplicableSoftwareVersion", Num message.(minApplicableSoftwareVersion));
    ("maxApplicableSoftwareVersion", Num message.(maxApplicableSoftwareVersion));
    ("releaseNotesUrl", Str message.(releaseNotesUrl));
    ("creator", Str message.(creator))]).

Record partial := mkPartial {
  p_vid : option number;
  p_pid : option number;
  p_softwareVersion : option number;
  p_softwareVersionString : option string;
  p_cdVersionNumber : option number;
  p_firmwareInformation : option string;
  p_softwareVersionValid : option bool;
  p_otaUrl : option string;
  p_otaFileSize : option number;
  p_otaChecksum : option string;
  p_otaChecksumType : option number;
  p_minApplicableSoftwareVersion : option number;
  p_maxApplicableSoftwareVersion : option number;
  p_releaseNotesUrl : option string;
  p_creator : option string;
}.

Definition fromPartial (object : partial) : t := {|
  vid := object.(p_vid) ?? Int 0;
  pid := object.(p_pid) ?? Int 0;
  softwareVersion := object.(p_softwareVersion) ?? Int 0;
  softwareVersionString := object.(p_softwareVersionString) ?? "";
  cdVersionNumber := object.(p_cdVersionNumber) ?? Int 0;
  firmwareInformation := object.(p_firmwareInformation) ?? "";
  softwareVersionValid := object.(p_softwareVersionValid) ?? false;
  otaUrl := object.(p_otaUrl) ?? "";
  otaFileSize := object.(p_otaFileSize) ?? Int 0;
  otaChecksum := object.(p_otaChecksum) ?? "";
  otaChecksumType := object.(p_otaChecksumType) ?? Int 0;
  minApplicableSoftwareVersion := object.(p_minApplicableSoftwareVersion) ?? Int 0;
  maxApplicableSoftwareVersion := object.(p_maxApplicableSoftwareVersion) ?? Int 0;
  releaseNotesUrl := object.(p_releaseNotesUrl) ?? "";
  creator := object.(p_creator) ?? "";
|}.

(** The object with no property given. *)
Definition nothing : partial := mkPartial None None None None None None None None None None None
  None None None None.

(** The bytes [encode] writes. *)
Definition wire {PB : Protobuf} {PS : ProtobufSpec PB} (m : t) : bytes :=
  f_number e_int32 8 m.(vid) ++
  f_number e_int32 16 m.(pid) ++
  f_number e_uint32 24 m.(softwareVersion) ++
  f_string 34 m.(softwareVersionString) ++
  f_number e_int32 40 m.(cdVersionNumber) ++
  f_string 50 m.(firmwareInformation) ++
  f_bool 56 m.(softwareVersionValid) ++
  f_string 66 m.(otaUrl) ++
  f_number e_uint64 72 m.(otaFileSize) ++
  f_string 82 m.(otaChecksum) ++
  f_number e_int32 88 m.(otaChecksumType) ++
  f_number e_uint32 96 m.(minApplicableSoftwareVersion) ++
  f_number e_uint32 104 m.(maxApplicableSoftwareVersion) ++
  f_string 114 m.(releaseNotesUrl) ++
  f_string 122 m.(creator).

Definition valid (m : t) : Prop :=
  int32_ok m.(vid) ∧ int32_ok m.(pid) ∧ uint32_ok m.(softwareVersion) ∧ int32_ok m.(cdVersionNumber) ∧ uint64_ok m.(otaFileSize) ∧ int32_ok m.(otaChecksumType) ∧ uint32_ok m.(minApplicableSoftwareVersion) ∧ uint32_ok m.(maxApplicableSoftwareVersion).

Definition encodable {PB : Protobuf} {PS : ProtobufSpec PB} (m : t) : Prop :=
  valid m ∧ small (wire m).

Definition merge (m a : t) : t := {|
  vid := later_number m.(vid) a.(vid);
  pid := later_number m.(pid) a.(pid);
  softwareVersion := later_number m.(softwareVersion) a.(softwareVersion);
  softwareVersionString := later_string m.(softwareVersionString) a.(softwareVersionString);
  cdVersionNumber := later_number m.(cdVersionNumber) a.(cdVersionNumber);
  firmwareInformation := later_string m.(firmwareInformation) a.(firmwareInformation);
  softwareVersionValid := later_bool m.(softwareVersionValid) a.(softwareVersionValid);
  otaUrl := later_string m.(otaUrl) a.(otaUrl);
  otaFileSize := later_number m.(otaFileSize) a.(otaFileSize);
  otaChecksum := later_string m.(otaChecksum) a.(otaChecksum);
  otaChecksumType := later_number m.(otaChecksumType) a.(otaChecksumType);
  minApplicableSoftwareVersion := later_number m.(minApplicableSoftwareVersion) a.(minApplicableSoftwareVersion);
  maxApplicableSoftwareVersion := later_number m.(maxApplicableSoftwareVersion) a.(maxApplicableSoftwareVersion);
  releaseNotesUrl := later_string m.(releaseNotesUrl) a.(releaseNotesUrl);
  creator := later_string m.(creator) a.(creator);
|}.

(** A whole message seen as a partial one. *)
Definition full (m : t) : partial := {|
  p_vid := Some m.(vid);
  p_pid := Some m.(pid);
  p_softwareVersion := Some m.(softwareVersion);
  p_softwareVersionString := Some m.(softwareVersionString);
  p_cdVersionNumber := Some m.(cdVersionNumber);
  p_firmwareInformation := Some m.(firmwareInformation);
  p_softwareVersionValid := Some m.(softwareVersionValid);
  p_otaUrl := Some m.(otaUrl);
  p_otaFileSize := Some m.(otaFileSize);
  p_otaChecksum := Some m.(otaChecksum);
  p_otaChecksumType := Some m.(otaChecksumType);
  p_minApplicableSoftwareVersion := Some m.(minApplicableSoftwareVersion);
  p_maxApplicableSoftwareVersion := Some m.(maxApplicableSoftwareVersion);
  p_releaseNotesUrl := Some m.(releaseNotesUrl);
  p_creator := Some m.(creator);
|}.

(** The message as its [.proto] file declares it. *)
Definition schema (m : t) : list field :=
  [implicit 1 (VInt Int32 m.(vid));
   implicit 2 (VInt Int32 m.(pid));
   implicit 3 (VInt Uint32 m.(softwareVersion));
   implicit 4 (VString m.(softwareVersionString));
   implicit 5 (VInt Int32 m.(cdVersionNumber));
   implicit 6 (VString m.(firmwareInformation));
   implicit 7 (VBool m.(softwareVersionValid));
   implicit 8 (VString m.(otaUrl));
   implicit 9 (VInt Uint64 m.(otaFileSize));
   implicit 10 (VString m.(otaChecksum));
   implicit 11 (VInt Int32 m.(otaChecksumType));
   implicit 12 (VInt Uint32 m.(minApplicableSoftwareVersion));
   implicit 13 (VInt Uint32 m.(maxApplicableSoftwareVersion));
   implicit 14 (VString m.(releaseNotesUrl));
   implicit 15 (VString m.(creator))].

(** The message with its default for every property that is not kept. *)
Definition only (kept : string → bool) (m : t) : t := {|
  vid := if kept "vid" then m.(vid) else Int 0;
  pid := if kept "pid" then m.(pid) else Int 0;
  softwareVersion := if kept "softwareVersion" then m.(softwareVersion) else Int 0;
  softwareVersionString := if kept "softwareVersionString" then m.(softwareVersionString) else "";
  cdVersionNumber := if kept "cdVersionNumber" then m.(cdVersionNumber) else Int 0;
  firmwareInformation := if kept "firmwareInformation" then m.(firmwareInformation) else "";
  softwareVersionValid := if kept "softwareVersionValid" then m.(softwareVersionValid) else false;
  otaUrl := if kept "otaUrl" then m.(otaUrl) else "";
  otaFileSize := if kept "otaFileSize" then m.(otaFileSize) else Int 0;
  otaChecksum := if kept "otaChecksum" then m.(otaChecksum) else "";
  otaChecksumType := if kept "otaChecksumType" then m.(otaChecksumType) else Int 0;
  minApplicableSoftwareVersion := if kept "minApplicableSoftwareVersion" then m.(minApplicableSoftwareVersion) else Int 0;
  maxApplicableSoftwareVersion := if kept "maxApplicableSoftwareVersion" then m.(maxApplicableSoftwareVersion) else Int 0;
  releaseNotesUrl := if kept "releaseNotesUrl" then m.(releaseNotesUrl) else "";
  creator := if kept "creator" then m.(creator) else "";
|}.

#[global] Instance codec {PB : Protobuf} : MessageCodec t :=
  {| msg_base := base; msg_encode := encode; msg_field := decode_field |}.

#[global] Program Instance spec {PB : Protobuf} (PS : ProtobufSpec PB) : MessageSpec PS t :=
  {| msg_wire := wire; msg_valid := valid; msg_merge := merge |}.
Next Obligation. solve_encode_wire. Qed.
Next Obligation. solve_decode_wire. Qed.
Next Obligation. solve_merge_base. Qed.
Next Obligation. intros. solve_advances decode_field. Qed.

#[global] Program Instance data : MessageData t partial :=
  {| msg_fromJSON := fromJSON; msg_toJSON := toJSON;
     msg_fromPartial := fromPartial; msg_full := full |}.
Next Obligation. solve_json fromJSON toJSON. Qed.
Next Obligation. solve_partial fromPartial full. Qed.

#[global] Instance schema_wire {PB : Protobuf} {PS : ProtobufSpec PB} : WireSchema wire schema.
Proof. solve_schema_wire wire schema. Qed.

#[global] Instance schema_merge : MergeSchema merge schema.
Proof. solve_schema_merge merge schema. Qed.

(** Its row in the table of message types. *)
Definition message {PB : Protobuf} {PS : ProtobufSpec PB} : message_type :=
  plain_message "ModelVersion" nothing true schema only.

#[global] Instance message_lawful {PB : Protobuf} (PS : ProtobufSpec PB) : Lawful message.
Proof. solve_lawful decode_field fromJSON only. Qed.

End ModelVersion.

(** ** [ModelVersions] (model/model_versions.js) *)

Module ModelVersions.

Record t := mk {
  vid : number;
  pid : number;
  softwareVersions : list number;
}.

#[global] Instance t_eta : Settable t := λ m, mk m.(vid) m.(pid) m.(softwareVersions).

Definition base : t := mk 0 0 [].

Definition encode {PB : Protobuf} (message : t) (writer : Writer) : Writer :=
  writer
  @> when (num_neq message.(vid) 0) (fun w => w @> uint32 8 @> int32 message.(vid))
  @> when (num_neq message.(pid) 0) (fun w => w @> uint32 16 @> int32 message.(pid))
  @> packed 26 message.(softwareVersions).

Definition decode_field {PB : Protobuf} (tag : Z) (message : t) : RM t :=
  match field_number tag with
  | 1 => v ← read_int32; mret (message <| vid := Int v |>)
  | 2 => v ← read_int32; mret (message <| pid := Int v |>)
  | 3 =>
      if wire_type tag =? 2 then
        v ← read_packed message.(softwareVersions); mret (message <| softwareVersions := v |>)
      else v ← read_uint32; mret (message <| softwareVersions := message.(softwareVersions) ++ [Int v] |>)
  | _ => _ ← skipType (wire_type tag); mret message
  end.

Definition decode {PB : Protobuf} (length : option Z) : RM t :=
  decode_message length base decode_field.

Definition fromJSON (object : js) : result t :=
  vid' ← field_or object "vid" js_Number 0;
  pid' ← field_or object "pid" js_Number 0;
  softwareVersions' ← field_or object "softwareVersions" (to_list js_Number) [];
  Ok (mk vid' pid' softwareVersions').

Definition toJSON (message : t) : js :=
  Obj ([("vid", Num message.(vid));
    ("pid", Num message.(pid));
    ("softwareVersions", Arr (map Num message.(softwareVersions)))]).

Record partial := mkPartial {
  p_vid : option number;
  p_pid : option number;
  p_softwareVersions : option (list number);
}.

Definition fromPartial (object : partial) : t := {|
  vid := object.(p_vid) ?? Int 0;
  pid := object.(p_pid) ?? Int 0;
  softwareVersions := (object.(p_softwareVersions) ?? []);
|}.

(** The object with no property given. *)
Definition nothing : partial := mkPartial None None None.

(** The bytes [encode] writes. *)
Definition wire {PB : Protobuf} {PS : ProtobufSpec PB} (m : t) : bytes :=
  f_number e_int32 8 m.(vid) ++
  f_number e_int32 16 m.(pid) ++
  f_packed 26 m.(softwareVersions).

Definition valid (m : t) : Prop :=
  int32_ok m.(vid) ∧ int32_ok m.(pid) ∧ Forall uint32_ok m.(softwareVersions).

Definition encodable {PB : Protobuf} {PS : ProtobufSpec PB} (m : t) : Prop :=
  valid m ∧ small (wire m).

Definition merge (m a : t) : t := {|
  vid := later_number m.(vid) a.(vid);
  pid := later_number m.(pid) a.(pid);
  softwareVersions := m.(softwareVersions) ++ a.(softwareVersions);
|}.

(** A whole message seen as a partial one. *)
Definition full (m : t) : partial := {|
  p_vid := Some m.(vid);
  p_pid := Some m.(pid);
  p_softwareVersions := Some m.(softwareVersions);
|}.

(** The message as its [.proto] file declares it. *)
Definition schema (m : t) : list field :=
  [implicit 1 (VInt Int32 m.(vid));
   implicit 2 (VInt Int32 m.(pid));
   packed_ints 3 Uint32 m.(softwareVersions)].

(** The message with its default for every property that is not kept. *)
Definition only (kept : string → bool) (m : t) : t := {|
  vid := if kept "vid" then m.(vid) else Int 0;
  pid := if kept "pid" then m.(pid) else Int 0;
  softwareVersions := if kept "softwareVersions" then m.(softwareVersions) else [];
|}.

#[global] Instance codec {PB : Protobuf} : MessageCodec t :=
  {| msg_base := base; msg_encode := encode; msg_field := decode_field |}.

#[global] Program Instance spec {PB : Protobuf} (PS : ProtobufSpec PB) : MessageSpec PS t :=
  {| msg_wire := wire; msg_valid := valid; msg_merge := merge |}.
Next Obligation. solve_encode_wire. Qed.
Next Obligation. solve_decode_wire. Qed.
Next Obligation. solve_merge_base. Qed.
Next Obligation. intros. solve_advances decode_field. Qed.

#[global] Program Instance data : MessageData t partial :=
  {| msg_fromJSON := fromJSON; msg_toJSON := toJSON;
     msg_fromPartial := fromPartial; msg_full := full |}.
Next Obligation. solve_json fromJSON toJSON. Qed.
Next Obligation. solve_partial fromPartial full. Qed.

#[global] Instance schema_wire {PB : Protobuf} {PS : ProtobufSpec PB} : WireSchema wire schema.
Proof. solve_schema_wire wire schema. Qed.

#[global] Instance schema_merge : MergeSchema merge schema.
Proof. solve_schema_merge merge schema. Qed.

(** Its row in the table of message types. *)
Definition message {PB : Protobuf} {PS : ProtobufSpec PB} : message_type :=
  plain_message "ModelVersions" nothing true schema only.

#[global] Instance message_lawful {PB : Protobuf} (PS : ProtobufSpec PB) : Lawful message.
Proof. solve_lawful decode_field fromJSON only. Qed.

End ModelVersions.

(** ** [MsgCreateModel] (model/tx.js) *)

Module MsgCreateModel.

Record t := mk {
  creator : string;
  vid : number;
  pid : number;
  deviceTypeId : number;
  productName : string;
  productLabel : string;
  partNumber : string;
  commissioningCustomFlow : number;
  commissioningCustomFlowUrl : string;
  commissioningModeInitialStepsHint : number;
  commissioningModeInitialStepsInstruction : string;
  commissioningModeSecondaryStepsHint : number;
  commissioningModeSecondaryStepsInstruction : string;
  userManualUrl : string;
  supportUrl : string;
  productUrl : string;
  lsfUrl : string;
}.

#[global] Instance t_eta : Settable t := λ m, mk m.(creator) m.(vid) m.(pid) m.(deviceTypeId)
  m.(productName) m.(productLabel) m.(partNumber) m.(commissioningCustomFlow)
  m.(commissioningCustomFlowUrl) m.(commissioningModeInitialStepsHint)
  m.(commissioningModeInitialStepsInstruction) m.(commissioningModeSecondaryStepsHint)
  m.(commissioningModeSecondaryStepsInstruction) m.(userManualUrl) m.(supportUrl) m.(productUrl)
  m.(lsfUrl).

Definition base : t := mk "" 0 0 0 "" "" "" 0 "" 0 "" 0 "" "" "" "" "".

Definition encode {PB : Protobuf} (message : t) (writer : Writer) : Writer :=
  writer
  @> when (str_neq message.(creator) "") (fun w => w @> uint32 10 @> string_ message.(creator))
  @> when (num_neq message.(vid) 0) (fun w => w @> uint32 16 @> int32 message.(vid))
  @> when (num_neq message.(pid) 0) (fun w => w @> uint32 24 @> int32 message.(pid))
  @> when (num_neq message.(deviceTypeId) 0)
       (fun w => w @> uint32 32 @> int32 message.(deviceTypeId))
  @> when (str_neq message.(productName) "")
       (fun w => w @> uint32 42 @> string_ message.(productName))
  @> when (str_neq message.(productLabel) "")
       (fun w => w @> uint32 50 @> string_ message.(productLabel))
  @> when (str_neq message.(partNumber) "")
       (fun w => w @> uint32 58 @> string_ message.(partNumber))
  @> when (num_neq message.(commissioningCustomFlow) 0)
       (fun w => w @> uint32 64 @> int32 message.(commissioningCustomFlow))
  @> when (str_neq message.(commissioningCustomFlowUrl) "")
       (fun w => w @> uint32 74 @> string_ message.(commissioningCustomFlowUrl))
  @> when (num_neq message.(commissioningModeInitialStepsHint) 0)
       (fun w => w @> uint32 80 @> uint32 message.(commissioningModeInitialStepsHint))
  @> when (str_neq message.(commissioningModeInitialStepsInstruction) "")
       (fun w => w @> uint32 90 @> string_ message.(commissioningModeInitialStepsInstruction))
  @> when (num_neq message.(commissioningModeSecondaryStepsHint) 0)
       (fun w => w @> uint32 96 @> uint32 message.(commissioningModeSecondaryStepsHint))
  @> when (str_neq message.(commissioningModeSecondaryStepsInstruction) "")
       (fun w => w @> uint32 106 @> string_ message.(commissioningModeSecondaryStepsInstruction))
  @> when (str_neq message.(userManualUrl) "")
       (fun w => w @> uint32 114 @> string_ message.(userManualUrl))
  @> when (str_neq message.(supportUrl) "")
       (fun w => w @> uint32 122 @> string_ message.(supportUrl))
  @> when (str_neq message.(productUrl) "")
       (fun w => w @> uint32 130 @> string_ message.(productUrl))
  @> when (str_neq message.(lsfUrl) "") (fun w => w @> uint32 138 @> string_ message.(lsfUrl)).

Definition decode_field {PB : Protobuf} (tag : Z) (message : t) : RM t :=
  match field_number tag with
  | 1 => v ← read_string; mret (message <| creator := v |>)
  | 2 => v ← read_int32; mret (message <| vid := Int v |>)
  | 3 => v ← read_int32; mret (message <| pid := Int v |>)
  | 4 => v ← read_int32; mret (message <| deviceTypeId := Int v |>)
  | 5 => v ← read_string; mret (message <| productName := v |>)
  | 6 => v ← read_string; mret (message <| productLabel := v |>)
  | 7 => v ← read_string; mret (message <| partNumber := v |>)
  | 8 => v ← read_int32; mret (message <| commissioningCustomFlow := Int v |>)
  | 9 => v ← read_string; mret (message <| commissioningCustomFlowUrl := v |>)
  | 10 => v ← read_uint32; mret (message <| commissioningModeInitialStepsHint := Int v |>)
  | 11 => v ← read_string; mret (message <| commissioningModeInitialStepsInstruction := v |>)
  | 12 => v ← read_uint32; mret (message <| commissioningModeSecondaryStepsHint := Int v |>)
  | 13 => v ← read_string; mret (message <| commissioningModeSecondaryStepsInstruction := v |>)
  | 14 => v ← read_string; mret (message <| userManualUrl := v |>)
  | 15 => v ← read_string; mret (message <| supportUrl := v |>)
  | 16 => v ← read_string; mret (message <| productUrl := v |>)
  | 17 => v ← read_string; mret (message <| lsfUrl := v |>)
  | _ => _ ← skipType (wire_type tag); mret message
  end.

Definition decode {PB : Protobuf} (length : option Z) : RM t :=
  decode_message length base decode_field.

Definition fromJSON (object : js) : result t :=
  creator' ← field_or object "creator" to_string "";
  vid' ← field_or object "vid" js_Number 0;
  pid' ← field_or object "pid" js_Number 0;
  deviceTypeId' ← field_or object "deviceTypeId" js_Number 0;
  productName' ← field_or object "productName" to_string "";
  productLabel' ← field_or object "productLabel" to_string "";
  partNumber' ← field_or object "partNumber" to_string "";
  commissioningCustomFlow' ← field_or object "commissioningCustomFlow" js_Number 0;
  commissioningCustomFlowUrl' ← field_or object "commissioningCustomFlowUrl" to_string "";
  commissioningModeInitialStepsHint' ← field_or object "commissioningModeInitialStepsHint" js_Number 0;
  commissioningModeInitialStepsInstruction' ← field_or object "commissioningModeInitialStepsInstruction" to_string "";
  commissioningModeSecondaryStepsHint' ← field_or object "commissioningModeSecondaryStepsHint" js_Number 0;
  commissioningModeSecondaryStepsInstruction' ← field_or object "commissioningModeSecondaryStepsInstruction" to_string "";
  userManualUrl' ← field_or object "userManualUrl" to_string "";
  supportUrl' ← field_or object "supportUrl" to_string "";
  productUrl' ← field_or object "productUrl" to_string "";
  lsfUrl' ← field_or object "lsfUrl" to_string "";
  Ok (mk creator' vid' pid' deviceTypeId' productName' productLabel' partNumber'
    commissioningCustomFlow' commissioningCustomFlowUrl' commissioningModeInitialStepsHint'
    commissioningModeInitialStepsInstruction' commissioningModeSecondaryStepsHint'
    commissioningModeSecondaryStepsInstruction' userManualUrl' supportUrl' productUrl' lsfUrl').

Definition toJSON (message : t) : js :=
  Obj ([("creator", Str message.(creator));
    ("vid", Num message.(vid));
    ("pid", Num message.(pid));
    ("deviceTypeId", Num message.(deviceTypeId));
    ("productName", Str message.(productName));
    ("productLabel", Str message.(productLabel));
    ("partNumber", Str message.(partNumber));
    ("commissioningCustomFlow", Num message.(commissioningCustomFlow));
    ("commissioningCustomFlowUrl", Str message.(commissioningCustomFlowUrl));
    ("commissioningModeInitialStepsHint", Num message.(commissioningModeInitialStepsHint));
    ("commissioningModeInitialStepsInstruction", Str message.(commissioningModeInitialStepsInstruction));
    ("commissioningModeSecondaryStepsHint", Num message.(commissioningModeSecondaryStepsHint));
    ("commissioningModeSecondaryStepsInstruction", Str message.(commissioningModeSecondaryStepsInstruction));
    ("userManualUrl", Str message.(userManualUrl));
    ("supportUrl", Str message.(supportUrl));
    ("productUrl", Str message.(productUrl));
    ("lsfUrl", Str message.(lsfUrl))]).

Record partial := mkPartial {
  p_creator : option string;
  p_vid : option number;
  p_pid : option number;
  p_deviceTypeId : option number;
  p_productName : option string;
  p_productLabel : option string;
  p_partNumber : option string;
  p_commissioningCustomFlow : option number;
  p_commissioningCustomFlowUrl : option string;
  p_commissioningModeInitialStepsHint : option number;
  p_commissioningModeInitialStepsInstruction : option string;
  p_commissioningModeSecondaryStepsHint : option number;
  p_commissioningModeSecondaryStepsInstruction : option string;
  p_userManualUrl : option string;
  p_supportUrl : option string;
  p_productUrl : option string;
  p_lsfUrl : option string;
}.

Definition fromPartial (object : partial) : t := {|
  creator := object.(p_creator) ?? "";
  vid := object.(p_vid) ?? Int 0;
  pid := object.(p_pid) ?? Int 0;
  deviceTypeId := object.(p_deviceTypeId) ?? Int 0;
  productName := object.(p_productName) ?? "";
  productLabel := object.(p_productLabel) ?? "";
  partNumber := object.(p_partNumber) ?? "";
  commissioningCustomFlow := object.(p_commissioningCustomFlow) ?? Int 0;
  commissioningCustomFlowUrl := object.(p_commissioningCustomFlowUrl) ?? "";
  commissioningModeInitialStepsHint := object.(p_commissioningModeInitialStepsHint) ?? Int 0;
  commissioningModeInitialStepsInstruction := object.(p_commissioningModeInitialStepsInstruction) ?? "";
  commissioningModeSecondaryStepsHint := object.(p_commissioningModeSecondaryStepsHint) ?? Int 0;
  commissioningModeSecondaryStepsInstruction := object.(p_commissioningModeSecondaryStepsInstruction) ?? "";
  userManualUrl := object.(p_userManualUrl) ?? "";
  supportUrl := object.(p_supportUrl) ?? "";
  productUrl := object.(p_productUrl) ?? "";
  lsfUrl := object.(p_lsfUrl) ?? "";
|}.

(** The object with no property given. *)
Definition nothing : partial := mkPartial None None None None None None None None None None None
  None None None None None None.

(** The bytes [encode] writes. *)
Definition wire {PB : Protobuf} {PS : ProtobufSpec PB} (m : t) : bytes :=
  f_string 10 m.(creator) ++
  f_number e_int32 16 m.(vid) ++
  f_number e_int32 24 m.(pid) ++
  f_number e_int32 32 m.(deviceTypeId) ++
  f_string 42 m.(productName) ++
  f_string 50 m.(productLabel) ++
  f_string 58 m.(partNumber) ++
  f_number e_int32 64 m.(commissioningCustomFlow) ++
  f_string 74 m.(commissioningCustomFlowUrl) ++
  f_number e_uint32 80 m.(commissioningModeInitialStepsHint) ++
  f_string 90 m.(commissioningModeInitialStepsInstruction) ++
  f_number e_uint32 96 m.(commissioningModeSecondaryStepsHint) ++
  f_string 106 m.(commissioningModeSecondaryStepsInstruction) ++
  f_string 114 m.(userManualUrl) ++
  f_string 122 m.(supportUrl) ++
  f_string 130 m.(productUrl) ++
  f_string 138 m.(lsfUrl).

Definition valid (m : t) : Prop :=
  int32_ok m.(vid) ∧ int32_ok m.(pid) ∧ int32_ok m.(deviceTypeId) ∧ int32_ok m.(commissioningCustomFlow) ∧ uint32_ok m.(commissioningModeInitialStepsHint) ∧ uint32_ok m.(commissioningModeSecondaryStepsHint).

Definition encodable {PB : Protobuf} {PS : ProtobufSpec PB} (m : t) : Prop :=
  valid m ∧ small (wire m).

Definition merge (m a : t) : t := {|
  creator := later_string m.(creator) a.(creator);
  vid := later_number m.(vid) a.(vid);
  pid := later_number m.(pid) a.(pid);
  deviceTypeId := later_number m.(deviceTypeId) a.(deviceTypeId);
  productName := later_string m.(productName) a.(productName);
  productLabel := later_string m.(productLabel) a.(productLabel);
  partNumber := later_string m.(partNumber) a.(partNumber);
  commissioningCustomFlow := later_number m.(commissioningCustomFlow) a.(commissioningCustomFlow);
  commissioningCustomFlowUrl := later_string m.(commissioningCustomFlowUrl) a.(commissioningCustomFlowUrl);
  commissioningModeInitialStepsHint := later_number m.(commissioningModeInitialStepsHint) a.(commissioningModeInitialStepsHint);
  commissioningModeInitialStepsInstruction := later_string m.(commissioningModeInitialStepsInstruction) a.(commissioningModeInitialStepsInstruction);
  commissioningModeSecondaryStepsHint := later_number m.(commissioningModeSecondaryStepsHint) a.(commissioningModeSecondaryStepsHint);
  commissioningModeSecondaryStepsInstruction := later_string m.(commissioningModeSecondaryStepsInstruction) a.(commissioningModeSecondaryStepsInstruction);
  userManualUrl := later_string m.(userManualUrl) a.(userManualUrl);
  supportUrl := later_string m.(supportUrl) a.(supportUrl);
  productUrl := later_string m.(productUrl) a.(productUrl);
  lsfUrl := later_string m.(lsfUrl) a.(lsfUrl);
|}.

(** A whole message seen as a partial one. *)
Definition full (m : t) : partial := {|
  p_creator := Some m.(creator);
  p_vid := Some m.(vid);
  p_pid := Some m.(pid);
  p_deviceTypeId := Some m.(deviceTypeId);
  p_productName := Some m.(productName);
  p_productLabel := Some m.(productLabel);
  p_partNumber := Some m.(partNumber);
  p_commissioningCustomFlow := Some m.(commissioningCustomFlow);
  p_commissioningCustomFlowUrl := Some m.(commissioningCustomFlowUrl);
  p_commissioningModeInitialStepsHint := Some m.(commissioningModeInitialStepsHint);
  p_commissioningModeInitialStepsInstruction := Some m.(commissioningModeInitialStepsInstruction);
  p_commissioningModeSecondaryStepsHint := Some m.(commissioningModeSecondaryStepsHint);
  p_commissioningModeSecondaryStepsInstruction := Some m.(commissioningModeSecondaryStepsInstruction);
  p_userManualUrl := Some m.(userManualUrl);
  p_supportUrl := Some m.(supportUrl);
  p_productUrl := Some m.(productUrl);
  p_lsfUrl := Some m.(lsfUrl);
|}.

(** The message as its [.proto] file declares it. *)
Definition schema (m : t) : list field :=
  [implicit 1 (VString m.(creator));
   implicit 2 (VInt Int32 m.(vid));
   implicit 3 (VInt Int32 m.(pid));
   implicit 4 (VInt Int32 m.(deviceTypeId));
   implicit 5 (VString m.(productName));
   implicit 6 (VString m.(productLabel));
   implicit 7 (VString m.(partNumber));
   implicit 8 (VInt Int32 m.(commissioningCustomFlow));
   implicit 9 (VString m.(commissioningCustomFlowUrl));
   implicit 10 (VInt Uint32 m.(commissioningModeInitialStepsHint));
   implicit 11 (VString m.(commissioningModeInitialStepsInstruction));
   implicit 12 (VInt Uint32 m.(commissioningModeSecondaryStepsHint));
   implicit 13 (VString m.(commissioningModeSecondaryStepsInstruction));
   implicit 14 (VString m.(userManualUrl));
   implicit 15 (VString m.(supportUrl));
   implicit 16 (VString m.(productUrl));
   implicit 17 (VString m.(lsfUrl))].

(** The message with its default for every property that is not kept. *)
Definition only (kept : string → bool) (m : t) : t := {|
  creator := if kept "creator" then m.(creator) else "";
  vid := if kept "vid" then m.(vid) else Int 0;
  pid := if kept "pid" then m.(pid) else Int 0;
  deviceTypeId := if kept "deviceTypeId" then m.(deviceTypeId) else Int 0;
  productName := if kept "productName" then m.(productName) else "";
  productLabel := if kept "productLabel" then m.(productLabel) else "";
  partNumber := if kept "partNumber" then m.(partNumber) else "";
  commissioningCustomFlow := if kept "commissioningCustomFlow" then m.(commissioningCustomFlow) else Int 0;
  commissioningCustomFlowUrl := if kept "commissioningCustomFlowUrl" then m.(commissioningCustomFlowUrl) else "";
  commissioningModeInitialStepsHint := if kept "commissioningModeInitialStepsHint" then m.(commissioningModeInitialStepsHint) else Int 0;
  commissioningModeInitialStepsInstruction := if kept "commissioningModeInitialStepsInstruction" then m.(commissioningModeInitialStepsInstruction) else "";
  commissioningModeSecondaryStepsHint := if kept "commissioningModeSecondaryStepsHint" then m.(commissioningModeSecondaryStepsHint) else Int 0;
  commissioningModeSecondaryStepsInstruction := if kept "commissioningModeSecondaryStepsInstruction" then m.(commissioningModeSecondaryStepsInstruction) else "";
  userManualUrl := if kept "userManualUrl" then m.(userManualUrl) else "";
  supportUrl := if kept "supportUrl" then m.(supportUrl) else "";
  productUrl := if kept "productUrl" then m.(productUrl) else "";
  lsfUrl := if kept "lsfUrl" then m.(lsfUrl) else "";
|}.

#[global] Instance codec {PB : Protobuf} : MessageCodec t :=
  {| msg_base := base; msg_encode := encode; msg_field := decode_field |}.

#[global] Program Instance spec {PB : Protobuf} (PS : ProtobufSpec PB) : MessageSpec PS t :=
  {| msg_wire := wire; msg_valid := valid; msg_merge := merge |}.
Next Obligation. solve_encode_wire. Qed.
Next Obligation. solve_decode_wire. Qed.
Next Obligation. solve_merge_base. Qed.
Next Obligation. intros. solve_advances decode_field. Qed.

#[global] Program Instance data : MessageData t partial :=
  {| msg_fromJSON := fromJSON; msg_toJSON := toJSON;
     msg_fromPartial := fromPartial; msg_full := full |}.
Next Obligation. solve_json fromJSON toJSON. Qed.
Next Obligation. solve_partial fromPartial full. Qed.

#[global] Instance schema_wire {PB : Protobuf} {PS : ProtobufSpec PB} : WireSchema wire schema.
Proof. solve_schema_wire wire schema. Qed.

#[global] Instance schema_merge : MergeSchema merge schema.
Proof. solve_schema_merge merge schema. Qed.

(** Its row in the table of message types. *)
Definition message {PB : Protobuf} {PS : ProtobufSpec PB} : message_type :=
  plain_message "MsgCreateModel" nothing true schema only.

#[global] Instance message_lawful {PB : Protobuf} (PS : ProtobufSpec PB) : Lawful message.
Proof. solve_lawful decode_field fromJSON only. Qed.

End MsgCreateModel.

(** ** [MsgCreateModelResponse] (model/tx.js) *)

Module MsgCreateModelResponse.

Record t := mk {}.

#[global] Instance t_eta : Settable t := λ m, m.

Definition base : t := mk.

Definition encode {PB : Protobuf} (message : t) (writer : Writer) : Writer :=
  writer.

Definition decode_field {PB : Protobuf} (tag : Z) (message : t) : RM t :=
  match field_number tag with
  | _ => _ ← skipType (wire_type tag); mret message
  end.

Definition decode {PB : Protobuf} (length : option Z) : RM t :=
  decode_message length base decode_field.

Definition fromJSON (object : js) : result t :=
  Ok base.

Definition toJSON (message : t) : js :=
  Obj [].

Record partial := mkPartial {}.

Definition fromPartial (object : partial) : t := base.

(** The object with no property given. *)
Definition nothing : partial := mkPartial.

(** The bytes [encode] writes. *)
Definition wire {PB : Protobuf} {PS : ProtobufSpec PB} (m : t) : bytes :=
  [].

Definition valid (m : t) : Prop :=
  True.

Definition encodable {PB : Protobuf} {PS : ProtobufSpec PB} (m : t) : Prop :=
  valid m ∧ small (wire m).

Definition merge (m a : t) : t := m.

(** A whole message seen as a partial one. *)
Definition full (m : t) : partial := mkPartial.

(** The message as its [.proto] file declares it. *)
Definition schema (m : t) : list field :=
  [].

(** The message with its default for every property that is not kept. *)
Definition only (kept : string → bool) (m : t) : t := m.

#[global] Instance codec {PB : Protobuf} : MessageCodec t :=
  {| msg_base := base; msg_encode := encode; msg_field := decode_field |}.

#[global] Program Instance spec {PB : Protobuf} (PS : ProtobufSpec PB) : MessageSpec PS t :=
  {| msg_wire := wire; msg_valid := valid; msg_merge := merge |}.
Next Obligation. solve_encode_wire. Qed.
Next Obligation. solve_decode_wire. Qed.
Next Obligation. solve_merge_base. Qed.
Next Obligation. intros. solve_advances decode_field. Qed.

#[global] Program Instance data : MessageData t partial :=
  {| msg_fromJSON := fromJSON; msg_toJSON := toJSON;
     msg_fromPartial := fromPartial; msg_full := full |}.
Next Obligation. solve_json fromJSON toJSON. Qed.
Next Obligation. solve_partial fromPartial full. Qed.

#[global] Instance schema_wire {PB : Protobuf} {PS : ProtobufSpec PB} : WireSchema wire schema.
Proof. solve_schema_wire wire schema. Qed.

#[global] Instance schema_merge : MergeSchema merge schema.
Proof. solve_schema_merge merge schema. Qed.

(** Its row in the table of message types. *)
Definition message {PB : Protobuf} {PS : ProtobufSpec PB} : message_type :=
  plain_message "MsgCreateModelResponse" nothing false schema only.

#[global] Instance message_lawful {PB : Protobuf} (PS : ProtobufSpec PB) : Lawful message.
Proof. solve_lawful decode_field fromJSON only. Qed.

End MsgCreateModelResponse.

(** ** [MsgUpdateModel] (model/tx.js) *)

Module MsgUpdateModel.

Record t := mk {
  creator : string;
  vid : number;
  pid : number;
  productName : string;
  productLabel : string;
  partNumber : string;
  commissioningCustomFlowUrl : string;
  commissioningModeInitialStepsInstruction : string;
  commissioningModeSecondaryStepsInstruction : string;
  userManualUrl : string;
  supportUrl : string;
  productUrl : string;
  lsfUrl : string;
  lsfRevision : number;
}.

#[global] Instance t_eta : Settable t := λ m, mk m.(creator) m.(vid) m.(pid) m.(productName)
  m.(productLabel) m.(partNumber) m.(commissioningCustomFlowUrl)
  m.(commissioningModeInitialStepsInstruction) m.(commissioningModeSecondaryStepsInstruction)
  m.(userManualUrl) m.(supportUrl) m.(productUrl) m.(lsfUrl) m.(lsfRevision).

Definition base : t := mk "" 0 0 "" "" "" "" "" "" "" "" "" "" 0.

Definition encode {PB : Protobuf} (message : t) (writer : Writer) : Writer :=
  writer
  @> when (str_neq message.(creator) "") (fun w => w @> uint32 10 @> string_ message.(creator))
  @> when (num_neq message.(vid) 0) (fun w => w @> uint32 16 @> int32 message.(vid))
  @> when (num_neq message.(pid) 0) (fun w => w @> uint32 24 @> int32 message.(pid))
  @> when (str_neq message.(productName) "")
       (fun w => w @> uint32 34 @> string_ message.(productName))
  @> when (str_neq message.(productLabel) "")
       (fun w => w @> uint32 42 @> string_ message.(productLabel))
  @> when (str_neq message.(partNumber) "")
       (fun w => w @> uint32 50 @> string_ message.(partNumber))
  @> when (str_neq message.(commissioningCustomFlowUrl) "")
       (fun w => w @> uint32 58 @> string_ message.(commissioningCustomFlowUrl))
  @> when (str_neq message.(commissioningModeInitialStepsInstruction) "")
       (fun w => w @> uint32 66 @> string_ message.(commissioningModeInitialStepsInstruction))
  @> when (str_neq message.(commissioningModeSecondaryStepsInstruction) "")
       (fun w => w @> uint32 74 @> string_ message.(commissioningModeSecondaryStepsInstruction))
  @> when (str_neq message.(userManualUrl) "")
       (fun w => w @> uint32 82 @> string_ message.(userManualUrl))
  @> when (str_neq message.(supportUrl) "")
       (fun w => w @> uint32 90 @> string_ message.(supportUrl))
  @> when (str_neq message.(productUrl) "")
       (fun w => w @> uint32 98 @> string_ message.(productUrl))
  @> when (str_neq message.(lsfUrl) "") (fun w => w @> uint32 106 @> string_ message.(lsfUrl))
  @> when (num_neq message.(lsfRevision) 0)
       (fun w => w @> uint32 112 @> int32 message.(lsfRevision)).

Definition decode_field {PB : Protobuf} (tag : Z) (message : t) : RM t :=
  match field_number tag with
  | 1 => v ← read_string; mret (message <| creator := v |>)
  | 2 => v ← read_int32; mret (message <| vid := Int v |>)
  | 3 => v ← read_int32; mret (message <| pid := Int v |>)
  | 4 => v ← read_string; mret (message <| productName := v |>)
  | 5 => v ← read_string; mret (message <| productLabel := v |>)
  | 6 => v ← read_string; mret (message <| partNumber := v |>)
  | 7 => v ← read_string; mret (message <| commissioningCustomFlowUrl := v |>)
  | 8 => v ← read_string; mret (message <| commissioningModeInitialStepsInstruction := v |>)
  | 9 => v ← read_string; mret (message <| commissioningModeSecondaryStepsInstruction := v |>)
  | 10 => v ← read_string; mret (message <| userManualUrl := v |>)
  | 11 => v ← read_string; mret (message <| supportUrl := v |>)
  | 12 => v ← read_string; mret (message <| productUrl := v |>)
  | 13 => v ← read_string; mret (message <| lsfUrl := v |>)
  | 14 => v ← read_int32; mret (message <| lsfRevision := Int v |>)
  | _ => _ ← skipType (wire_type tag); mret message
  end.

Definition decode {PB : Protobuf} (length : option Z) : RM t :=
  decode_message length base decode_field.

Definition fromJSON (object : js) : result t :=
  creator' ← field_or object "creator" to_string "";
  vid' ← field_or object "vid" js_Number 0;
  pid' ← field_or object "pid" js_Number 0;
  productName' ← field_or object "productName" to_string "";
  productLabel' ← field_or object "productLabel" to_string "";
  partNumber' ← field_or object "partNumber" to_string "";
  commissioningCustomFlowUrl' ← field_or object "commissioningCustomFlowUrl" to_string "";
  commissioningModeInitialStepsInstruction' ← field_or object "commissioningModeInitialStepsInstruction" to_string "";
  commissioningModeSecondaryStepsInstruction' ← field_or object "commissioningModeSecondaryStepsInstruction" to_string "";
  userManualUrl' ← field_or object "userManualUrl" to_string "";
  supportUrl' ← field_or object "supportUrl" to_string "";
  productUrl' ← field_or object "productUrl" to_string "";
  lsfUrl' ← field_or object "lsfUrl" to_string "";
  lsfRevision' ← field_or object "lsfRevision" js_Number 0;
  Ok (mk creator' vid' pid' productName' productLabel' partNumber' commissioningCustomFlowUrl'
    commissioningModeInitialStepsInstruction' commissioningModeSecondaryStepsInstruction'
    userManualUrl' supportUrl' productUrl' lsfUrl' lsfRevision').

Definition toJSON (message : t) : js :=
  Obj ([("creator", Str message.(creator));
    ("vid", Num message.(vid));
    ("pid", Num message.(pid));
    ("productName", Str message.(productName));
    ("productLabel", Str message.(productLabel));
    ("partNumber", Str message.(partNumber));
    ("commissioningCustomFlowUrl", Str message.(commissioningCustomFlowUrl));
    ("commissioningModeInitialStepsInstruction", Str message.(commissioningModeInitialStepsInstruction));
    ("commissioningModeSecondaryStepsInstruction", Str message.(commissioningModeSecondaryStepsInstruction));
    ("userManualUrl", Str message.(userManualUrl));
    ("supportUrl", Str message.(supportUrl));
    ("productUrl", Str message.(productUrl));
    ("lsfUrl", Str message.(lsfUrl));
    ("lsfRevision", Num message.(lsfRevision))]).

Record partial := mkPartial {
  p_creator : option string;
  p_vid : option number;
  p_pid : option number;
  p_productName : option string;
  p_productLabel : option string;
  p_partNumber : option string;
  p_commissioningCustomFlowUrl : option string;
  p_commissioningModeInitialStepsInstruction : option string;
  p_commissioningModeSecondaryStepsInstruction : option string;
  p_userManualUrl : option string;
  p_supportUrl : option string;
  p_productUrl : option string;
  p_lsfUrl : option string;
  p_lsfRevision : option number;
}.

Definition fromPartial (object : partial) : t := {|
  creator := object.(p_creator) ?? "";
  vid := object.(p_vid) ?? Int 0;
  pid := object.(p_pid) ?? Int 0;
  productName := object.(p_productName) ?? "";
  productLabel := object.(p_productLabel) ?? "";
  partNumber := object.(p_partNumber) ?? "";
  commissioningCustomFlowUrl := object.(p_commissioningCustomFlowUrl) ?? "";
  commissioningModeInitialStepsInstruction := object.(p_commissioningModeInitialStepsInstruction) ?? "";
  commissioningModeSecondaryStepsInstruction := object.(p_commissioningModeSecondaryStepsInstruction) ?? "";
  userManualUrl := object.(p_userManualUrl) ?? "";
  supportUrl := object.(p_supportUrl) ?? "";
  productUrl := object.(p_productUrl) ?? "";
  lsfUrl := object.(p_lsfUrl) ?? "";
  lsfRevision := object.(p_lsfRevision) ?? Int 0;
|}.

(** The object with no property given. *)
Definition nothing : partial := mkPartial None None None None None None None None None None None
  None None None.

(** The bytes [encode] writes. *)
Definition wire {PB : Protobuf} {PS : ProtobufSpec PB} (m : t) : bytes :=
  f_string 10 m.(creator) ++
  f_number e_int32 16 m.(vid) ++
  f_number e_int32 24 m.(pid) ++
  f_string 34 m.(productName) ++
  f_string 42 m.(productLabel) ++
  f_string 50 m.(partNumber) ++
  f_string 58 m.(commissioningCustomFlowUrl) ++
  f_string 66 m.(commissioningModeInitialStepsInstruction) ++
  f_string 74 m.(commissioningModeSecondaryStepsInstruction) ++
  f_string 82 m.(userManualUrl) ++
  f_string 90 m.(supportUrl) ++
  f_string 98 m.(productUrl) ++
  f_string 106 m.(lsfUrl) ++
  f_number e_int32 112 m.(lsfRevision).

Definition valid (m : t) : Prop :=
  int32_ok m.(vid) ∧ int32_ok m.(pid) ∧ int32_ok m.(lsfRevision).

Definition encodable {PB : Protobuf} {PS : ProtobufSpec PB} (m : t) : Prop :=
  valid m ∧ small (wire m).

Definition merge (m a : t) : t := {|
  creator := later_string m.(creator) a.(creator);
  vid := later_number m.(vid) a.(vid);
  pid := later_number m.(pid) a.(pid);
  productName := later_string m.(productName) a.(productName);
  productLabel := later_string m.(productLabel) a.(productLabel);
  partNumber := later_string m.(partNumber) a.(partNumber);
  commissioningCustomFlowUrl := later_string m.(commissioningCustomFlowUrl) a.(commissioningCustomFlowUrl);
  commissioningModeInitialStepsInstruction := later_string m.(commissioningModeInitialStepsInstruction) a.(commissioningModeInitialStepsInstruction);
  commissioningModeSecondaryStepsInstruction := later_string m.(commissioningModeSecondaryStepsInstruction) a.(commissioningModeSecondaryStepsInstruction);
  userManualUrl := later_string m.(userManualUrl) a.(userManualUrl);
  supportUrl := later_string m.(supportUrl) a.(supportUrl);
  productUrl := later_string m.(productUrl) a.(productUrl);
  lsfUrl := later_string m.(lsfUrl) a.(lsfUrl);
  lsfRevision := later_number m.(lsfRevision) a.(lsfRevision);
|}.

(** A whole message seen as a partial one. *)
Definition full (m : t) : partial := {|
  p_creator := Some m.(creator);
  p_vid := Some m.(vid);
  p_pid := Some m.(pid);
  p_productName := Some m.(productName);
  p_productLabel := Some m.(productLabel);
  p_partNumber := Some m.(partNumber);
  p_commissioningCustomFlowUrl := Some m.(commissioningCustomFlowUrl);
  p_commissioningModeInitialStepsInstruction := Some m.(commissioningModeInitialStepsInstruction);
  p_commissioningModeSecondaryStepsInstruction := Some m.(commissioningModeSecondaryStepsInstruction);
  p_userManualUrl := Some m.(userManualUrl);
  p_supportUrl := Some m.(supportUrl);
  p_productUrl := Some m.(productUrl);
  p_lsfUrl := Some m.(lsfUrl);
  p_lsfRevision := Some m.(lsfRevision);
|}.

(** The message as its [.proto] file declares it. *)
Definition schema (m : t) : list field :=
  [implicit 1 (VString m.(creator));
   implicit 2 (VInt Int32 m.(vid));
   implicit 3 (VInt Int32 m.(pid));
   implicit 4 (VString m.(productName));
   implicit 5 (VString m.(productLabel));
   implicit 6 (VString m.(partNumber));
   implicit 7 (VString m.(commissioningCustomFlowUrl));
   implicit 8 (VString m.(commissioningModeInitialStepsInstruction));
   implicit 9 (VString m.(commissioningModeSecondaryStepsInstruction));
   implicit 10 (VString m.(userManualUrl));
   implicit 11 (VString m.(supportUrl));
   implicit 12 (VString m.(productUrl));
   implicit 13 (VString m.(lsfUrl));
   implicit 14 (VInt Int32 m.(lsfRevision))].

(** The message with its default for every property that is not kept. *)
Definition only (kept : string → bool) (m : t) : t := {|
  creator := if kept "creator" then m.(creator) else "";
  vid := if kept "vid" then m.(vid) else Int 0;
  pid := if kept "pid" then m.(pid) else Int 0;
  productName := if kept "productName" then m.(productName) else "";
  productLabel := if kept "productLabel" then m.(productLabel) else "";
  partNumber := if kept "partNumber" then m.(partNumber) else "";
  commissioningCustomFlowUrl := if kept "commissioningCustomFlowUrl" then m.(commissioningCustomFlowUrl) else "";
  commissioningModeInitialStepsInstruction := if kept "commissioningModeInitialStepsInstruction" then m.(commissioningModeInitialStepsInstruction) else "";
  commissioningModeSecondaryStepsInstruction := if kept "commissioningModeSecondaryStepsInstruction" then m.(commissioningModeSecondaryStepsInstruction) else "";
  userManualUrl := if kept "userManualUrl" then m.(userManualUrl) else "";
  supportUrl := if kept "supportUrl" then m.(supportUrl) else "";
  productUrl := if kept "productUrl" then m.(productUrl) else "";
  lsfUrl := if kept "lsfUrl" then m.(lsfUrl) else "";
  lsfRevision := if kept "lsfRevision" then m.(lsfRevision) else Int 0;
|}.

#[global] Instance codec {PB : Protobuf} : MessageCodec t :=
  {| msg_base := base; msg_encode := encode; msg_field := decode_field |}.

#[global] Program Instance spec {PB : Protobuf} (PS : ProtobufSpec PB) : MessageSpec PS t :=
  {| msg_wire := wire; msg_valid := valid; msg_merge := merge |}.
Next Obligation. solve_encode_wire. Qed.
Next Obligation. solve_decode_wire. Qed.
Next Obligation. solve_merge_base. Qed.
Next Obligation. intros. solve_advances decode_field. Qed.

#[global] Program Instance data : MessageData t partial :=
  {| msg_fromJSON := fromJSON; msg_toJSON := toJSON;
     msg_fromPartial := fromPartial; msg_full := full |}.
Next Obligation. solve_json fromJSON toJSON. Qed.
Next Obligation. solve_partial fromPartial full. Qed.

#[global] Instance schema_wire {PB : Protobuf} {PS : ProtobufSpec PB} : WireSchema wire schema.
Proof. solve_schema_wire wire schema. Qed.

#[global] Instance schema_merge : MergeSchema merge schema.
Proof. solve_schema_merge merge schema. Qed.

(** Its row in the table of message types. *)
Definition message {PB : Protobuf} {PS : ProtobufSpec PB} : message_type :=
  plain_message "MsgUpdateModel" nothing true schema only.

#[global] Instance message_lawful {PB : Protobuf} (PS : ProtobufSpec PB) : Lawful message.
Proof. solve_lawful decode_field fromJSON only. Qed.

End MsgUpdateModel.

(** ** [MsgUpdateModelResponse] (model/tx.js) *)

Module MsgUpdateModelResponse.

Record t := mk {}.

#[global] Instance t_eta : Settable t := λ m, m.

Definition base : t := mk.

Definition encode {PB : Protobuf} (message : t) (writer : Writer) : Writer :=
  writer.

Definition decode_field {PB : Protobuf} (tag : Z) (message : t) : RM t :=
  match field_number tag with
  | _ => _ ← skipType (wire_type tag); mret message
  end.

Definition decode {PB : Protobuf} (length : option Z) : RM t :=
  decode_message length base decode_field.

Definition fromJSON (object : js) : result t :=
  Ok base.

Definition toJSON (message : t) : js :=
  Obj [].

Record partial := mkPartial {}.

Definition fromPartial (object : partial) : t := base.

(** The object with no property given. *)
Definition nothing : partial := mkPartial.

(** The bytes [encode] writes. *)
Definition wire {PB : Protobuf} {PS : ProtobufSpec PB} (m : t) : bytes :=
  [].

Definition valid (m : t) : Prop :=
  True.

Definition encodable {PB : Protobuf} {PS : ProtobufSpec PB} (m : t) : Prop :=
  valid m ∧ small (wire m).

Definition merge (m a : t) : t := m.

(** A whole message seen as a partial one. *)
Definition full (m : t) : partial := mkPartial.

(** The message as its [.proto] file declares it. *)
Definition schema (m : t) : list field :=
  [].

(** The message with its default for every property that is not kept. *)
Definition only (kept : string → bool) (m : t) : t := m.

#[global] Instance codec {PB : Protobuf} : MessageCodec t :=
  {| msg_base := base; msg_encode := encode; msg_field := decode_field |}.

#[global] Program Instance spec {PB : Protobuf} (PS : ProtobufSpec PB) : MessageSpec PS t :=
  {| msg_wire := wire; msg_valid := valid; msg_merge := merge |}.
Next Obligation. solve_encode_wire. Qed.
Next Obligation. solve_decode_wire. Qed.
Next Obligation. solve_merge_base. Qed.
Next Obligation. intros. solve_advances decode_field. Qed.

#[global] Program Instance data : MessageData t partial :=
  {| msg_fromJSON := fromJSON; msg_toJSON := toJSON;
     msg_fromPartial := fromPartial; msg_full := full |}.
Next Obligation. solve_json fromJSON toJSON. Qed.
Next Obligation. solve_partial fromPartial full. Qed.

#[global] Instance schema_wire {PB : Protobuf} {PS : ProtobufSpec PB} : WireSchema wire schema.
Proof. solve_schema_wire wire schema. Qed.

#[global] Instance schema_merge : MergeSchema merge schema.
Proof. solve_schema_merge merge schema. Qed.

(** Its row in the table of message types. *)
Definition message {PB : Protobuf} {PS : ProtobufSpec PB} : message_type :=
  plain_message "MsgUpdateModelResponse" nothing false schema only.

#[global] Instance message_lawful {PB : Protobuf} (PS : ProtobufSpec PB) : Lawful message.
Proof. solve_lawful decode_field fromJSON only. Qed.

End MsgUpdateModelResponse.

(** ** [MsgDeleteModel] (model/tx.js) *)

Module MsgDeleteModel.

Record t := mk {
  creator : string;
  vid : number;
  pid : number;
}.

#[global] Instance t_eta : Settable t := λ m, mk m.(creator) m.(vid) m.(pid).

Definition base : t := mk "" 0 0.

Definition encode {PB : Protobuf} (message : t) (writer : Writer) : Writer :=
  writer
  @> when (str_neq message.(creator) "") (fun w => w @> uint32 10 @> string_ message.(creator))
  @> when (num_neq message.(vid) 0) (fun w => w @> uint32 16 @> int32 message.(vid))
  @> when (num_neq message.(pid) 0) (fun w => w @> uint32 24 @> int32 message.(pid)).

Definition decode_field {PB : Protobuf} (tag : Z) (message : t) : RM t :=
  match field_number tag with
  | 1 => v ← read_string; mret (message <| creator := v |>)
  | 2 => v ← read_int32; mret (message <| vid := Int v |>)
  | 3 => v ← read_int32; mret (message <| pid := Int v |>)
  | _ => _ ← skipType (wire_type tag); mret message
  end.

Definition decode {PB : Protobuf} (length : option Z) : RM t :=
  decode_message length base decode_field.

Definition fromJSON (object : js) : result t :=
  creator' ← field_or object "creator" to_string "";
  vid' ← field_or object "vid" js_Number 0;
  pid' ← field_or object "pid" js_Number 0;
  Ok (mk creator' vid' pid').

Definition toJSON (message : t) : js :=
  Obj ([("creator", Str message.(creator));
    ("vid", Num message.(vid));
    ("pid", Num message.(pid))]).

Record partial := mkPartial {
  p_creator : option string;
  p_vid : option number;
  p_pid : option number;
}.

Definition fromPartial (object : partial) : t := {|
  creator := object.(p_creator) ?? "";
  vid := object.(p_vid) ?? Int 0;
  pid := object.(p_pid) ?? Int 0;
|}.

(** The object with no property given. *)
Definition nothing : partial := mkPartial None None None.

(** The bytes [encode] writes. *)
Definition wire {PB : Protobuf} {PS : ProtobufSpec PB} (m : t) : bytes :=
  f_string 10 m.(creator) ++
  f_number e_int32 16 m.(vid) ++
  f_number e_int32 24 m.(pid).

Definition valid (m : t) : Prop :=
  int32_ok m.(vid) ∧ int32_ok m.(pid).

Definition encodable {PB : Protobuf} {PS : ProtobufSpec PB} (m : t) : Prop :=
  valid m ∧ small (wire m).

Definition merge (m a : t) : t := {|
  creator := later_string m.(creator) a.(creator);
  vid := later_number m.(vid) a.(vid);
  pid := later_number m.(pid) a.(pid);
|}.

(** A whole message seen as a partial one. *)
Definition full (m : t) : partial := {|
  p_creator := Some m.(creator);
  p_vid := Some m.(vid);
  p_pid := Some m.(pid);
|}.

(** The message as its [.proto] file declares it. *)
Definition schema (m : t) : list field :=
  [implicit 1 (VString m.(creator));
   implicit 2 (VInt Int32 m.(vid));
   implicit 3 (VInt Int32 m.(pid))].

(** The message with its default for every property that is not kept. *)
Definition only (kept : string → bool) (m : t) : t := {|
  creator := if kept "creator" then m.(creator) else "";
  vid := if kept "vid" then m.(vid) else Int 0;
  pid := if kept "pid" then m.(pid) else Int 0;
|}.

#[global] Instance codec {PB : Protobuf} : MessageCodec t :=
  {| msg_base := base; msg_encode := encode; msg_field := decode_field |}.

#[global] Program Instance spec {PB : Protobuf} (PS : ProtobufSpec PB) : MessageSpec PS t :=
  {| msg_wire := wire; msg_valid := valid; msg_merge := merge |}.
Next Obligation. solve_encode_wire. Qed.
Next Obligation. solve_decode_wire. Qed.
Next Obligation. solve_merge_base. Qed.
Next Obligation. intros. solve_advances decode_field. Qed.

#[global] Program Instance data : MessageData t partial :=
  {| msg_fromJSON := fromJSON; msg_toJSON := toJSON;
     msg_fromPartial := fromPartial; msg_full := full |}.
Next Obligation. solve_json fromJSON toJSON. Qed.
Next Obligation. solve_partial fromPartial full. Qed.

#[global] Instance schema_wire {PB : Protobuf} {PS : ProtobufSpec PB} : WireSchema wire schema.
Proof. solve_schema_wire wire schema. Qed.

#[global] Instance schema_merge : MergeSchema merge schema.
Proof. solve_schema_merge merge schema. Qed.

(** Its row in the table of message types. *)
Definition message {PB : Protobuf} {PS : ProtobufSpec PB} : message_type :=
  plain_message "MsgDeleteModel" nothing true schema only.

#[global] Instance message_lawful {PB : Protobuf} (PS : ProtobufSpec PB) : Lawful message.
Proof. solve_lawful decode_field fromJSON only. Qed.

End MsgDeleteModel.

(** ** [MsgDeleteModelResponse] (model/tx.js) *)

Module MsgDeleteModelResponse.

Record t := mk {}.

#[global] Instance t_eta : Settable t := λ m, m.

Definition base : t := mk.

Definition encode {PB : Protobuf} (message : t) (writer : Writer) : Writer :=
  writer.

Definition decode_field {PB : Protobuf} (tag : Z) (message : t) : RM t :=
  match field_number tag with
  | _ => _ ← skipType (wire_type tag); mret message
  end.

Definition decode {PB : Protobuf} (length : option Z) : RM t :=
  decode_message length base decode_field.

Definition fromJSON (object : js) : result t :=
  Ok base.

Definition toJSON (message : t) : js :=
  Obj [].

Record partial := mkPartial {}.

Definition fromPartial (object : partial) : t := base.

(** The object with no property given. *)
Definition nothing : partial := mkPartial.

(** The bytes [encode] writes. *)
Definition wire {PB : Protobuf} {PS : ProtobufSpec PB} (m : t) : bytes :=
  [].

Definition valid (m : t) : Prop :=
  True.

Definition encodable {PB : Protobuf} {PS : ProtobufSpec PB} (m : t) : Prop :=
  valid m ∧ small (wire m).

Definition merge (m a : t) : t := m.

(** A whole message seen as a partial one. *)
Definition full (m : t) : partial := mkPartial.

(** The message as its [.proto] file declares it. *)
Definition schema (m : t) : list field :=
  [].

(** The message with its default for every property that is not kept. *)
Definition only (kept : string → bool) (m : t) : t := m.

#[global] Instance codec {PB : Protobuf} : MessageCodec t :=
  {| msg_base := base; msg_encode := encode; msg_field := decode_field |}.

#[global] Program Instance spec {PB : Protobuf} (PS : ProtobufSpec PB) : MessageSpec PS t :=
  {| msg_wire := wire; msg_valid := valid; msg_merge := merge |}.
Next Obligation. solve_encode_wire. Qed.
Next Obligation. solve_decode_wire. Qed.
Next Obligation. solve_merge_base. Qed.
Next Obligation. intros. solve_advances decode_field. Qed.

#[global] Program Instance data : MessageData t partial :=
  {| msg_fromJSON := fromJSON; msg_toJSON := toJSON;
     msg_fromPartial := fromPartial; msg_full := full |}.
Next Obligation. solve_json fromJSON toJSON. Qed.
Next Obligation. solve_partial fromPartial full. Qed.

#[global] Instance schema_wire {PB : Protobuf} {PS : ProtobufSpec PB} : WireSchema wire schema.
Proof. solve_schema_wire wire schema. Qed.

#[global] Instance schema_merge : MergeSchema merge schema.
Proof. solve_schema_merge merge schema. Qed.

(** Its row in the table of message types. *)
Definition message {PB : Protobuf} {PS : ProtobufSpec PB} : message_type :=
  plain_message "MsgDeleteModelResponse" nothing false schema only.

#[global] Instance message_lawful {PB : Protobuf} (PS : ProtobufSpec PB) : Lawful message.
Proof. solve_lawful decode_field fromJSON only. Qed.

End MsgDeleteModelResponse.

(** ** [MsgCreateModelVersion] (model/tx.js) *)

Module MsgCreateModelVersion.

Record t := mk {
  creator : string;
  vid : number;
  pid : number;
  softwareVersion : number;
  softwareVersionString : string;
  cdVersionNumber : number;
  firmwareInformation : string;
  softwareVersionValid : bool;
  otaUrl : string;
  otaFileSize : number;
  otaChecksum : string;
  otaChecksumType : number;
  minApplicableSoftwareVersion : number;
  maxApplicableSoftwareVersion : number;
  releaseNotesUrl : string;
}.

#[global] Instance t_eta : Settable t := λ m, mk m.(creator) m.(vid) m.(pid) m.(softwareVersion)
  m.(softwareVersionString) m.(cdVersionNumber) m.(firmwareInformation) m.(softwareVersionValid)
  m.(otaUrl) m.(otaFileSize) m.(otaChecksum) m.(otaChecksumType)
  m.(minApplicableSoftwareVersion) m.(maxApplicableSoftwareVersion) m.(releaseNotesUrl).

Definition base : t := mk "" 0 0 0 "" 0 "" false "" 0 "" 0 0 0 "".

Definition encode {PB : Protobuf} (message : t) (writer : Writer) : Writer :=
  writer
  @> when (str_neq message.(creator) "") (fun w => w @> uint32 10 @> string_ message.(creator))
  @> when (num_neq message.(vid) 0) (fun w => w @> uint32 16 @> int32 message.(vid))
  @> when (num_neq message.(pid) 0) (fun w => w @> uint32 24 @> int32 message.(pid))
  @> when (num_neq message.(softwareVersion) 0)
       (fun w => w @> uint32 32 @> uint32 message.(softwareVersion))
  @> when (str_neq message.(softwareVersionString) "")
       (fun w => w @> uint32 42 @> string_ message.(softwareVersionString))
  @> when (num_neq message.(cdVersionNumber) 0)
       (fun w => w @> uint32 48 @> int32 message.(cdVersionNumber))
  @> when (str_neq message.(firmwareInformation) "")
       (fun w => w @> uint32 58 @> string_ message.(firmwareInformation))
  @> when (Bool.eqb message.(softwareVersionValid) true)
       (fun w => w @> uint32 64 @> bool_ message.(softwareVersionValid))
  @> when (str_neq message.(otaUrl) "") (fun w => w @> uint32 74 @> string_ message.(otaUrl))
  @> when (num_neq message.(otaFileSize) 0)
       (fun w => w @> uint32 80 @> uint64 message.(otaFileSize))
  @> when (str_neq message.(otaChecksum) "")
       (fun w => w @> uint32 90 @> string_ message.(otaChecksum))
  @> when (num_neq message.(otaChecksumType) 0)
       (fun w => w @> uint32 96 @> int32 message.(otaChecksumType))
  @> when (num_neq message.(minApplicableSoftwareVersion) 0)
       (fun w => w @> uint32 104 @> uint32 message.(minApplicableSoftwareVersion))
  @> when (num_neq message.(maxApplicableSoftwareVersion) 0)
       (fun w => w @> uint32 112 @> uint32 message.(maxApplicableSoftwareVersion))
  @> when (str_neq message.(releaseNotesUrl) "")
       (fun w => w @> uint32 122 @> string_ message.(releaseNotesUrl)).

Definition decode_field {PB : Protobuf} (tag : Z) (message : t) : RM t :=
  match field_number tag with
  | 1 => v ← read_string; mret (message <| creator := v |>)
  | 2 => v ← read_int32; mret (message <| vid := Int v |>)
  | 3 => v ← read_int32; mret (message <| pid := Int v |>)
  | 4 => v ← read_uint32; mret (message <| softwareVersion := Int v |>)
  | 5 => v ← read_string; mret (message <| softwareVersionString := v |>)
  | 6 => v ← read_int32; mret (message <| cdVersionNumber := Int v |>)
  | 7 => v ← read_string; mret (message <| firmwareInformation := v |>)
  | 8 => v ← read_bool; mret (message <| softwareVersionValid := v |>)
  | 9 => v ← read_string; mret (message <| otaUrl := v |>)
  | 10 => v ← read_number read_uint64; mret (message <| otaFileSize := v |>)
  | 11 => v ← read_string; mret (message <| otaChecksum := v |>)
  | 12 => v ← read_int32; mret (message <| otaChecksumType := Int v |>)
  | 13 => v ← read_uint32; mret (message <| minApplicableSoftwareVersion := Int v |>)
  | 14 => v ← read_uint32; mret (message <| maxApplicableSoftwareVersion := Int v |>)
  | 15 => v ← read_string; mret (message <| releaseNotesUrl := v |>)
  | _ => _ ← skipType (wire_type tag); mret message
  end.

Definition decode {PB : Protobuf} (length : option Z) : RM t :=
  decode_message length base decode_field.

Definition fromJSON (object : js) : result t :=
  creator' ← field_or object "creator" to_string "";
  vid' ← field_or object "vid" js_Number 0;
  pid' ← field_or object "pid" js_Number 0;
  softwareVersion' ← field_or object "softwareVersion" js_Number 0;
  softwareVersionString' ← field_or object "softwareVersionString" to_string "";
  cdVersionNumber' ← field_or object "cdVersionNumber" js_Number 0;
  firmwareInformation' ← field_or object "firmwareInformation" to_string "";
  softwareVersionValid' ← field_or object "softwareVersionValid" to_bool false;
  otaUrl' ← field_or object "otaUrl" to_string "";
  otaFileSize' ← field_or object "otaFileSize" js_Number 0;
  otaChecksum' ← field_or object "otaChecksum" to_string "";
  otaChecksumType' ← field_or object "otaChecksumType" js_Number 0;
  minApplicableSoftwareVersion' ← field_or object "minApplicableSoftwareVersion" js_Number 0;
  maxApplicableSoftwareVersion' ← field_or object "maxApplicableSoftwareVersion" js_Number 0;
  releaseNotesUrl' ← field_or object "releaseNotesUrl" to_string "";
  Ok (mk creator' vid' pid' softwareVersion' softwareVersionString' cdVersionNumber'
    firmwareInformation' softwareVersionValid' otaUrl' otaFileSize' otaChecksum'
    otaChecksumType' minApplicableSoftwareVersion' maxApplicableSoftwareVersion'
    releaseNotesUrl').

Definition toJSON (message : t) : js :=
  Obj ([("creator", Str message.(creator));
    ("vid", Num message.(vid));
    ("pid", Num message.(pid));
    ("softwareVersion", Num message.(softwareVersion));
    ("softwareVersionString", Str message.(softwareVersionString));
    ("cdVersionNumber", Num message.(cdVersionNumber));
    ("firmwareInformation", Str message.(firmwareInformation));
    ("softwareVersionValid", Bool message.(softwareVersionValid));
    ("otaUrl", Str message.(otaUrl));
    ("otaFileSize", Num message.(otaFileSize));
    ("otaChecksum", Str message.(otaChecksum));
    ("otaChecksumType", Num message.(otaChecksumType));
    ("minApplicableSoftwareVersion", Num message.(minApplicableSoftwareVersion));
    ("maxApplicableSoftwareVersion", Num message.(maxApplicableSoftwareVersion));
    ("releaseNotesUrl", Str message.(releaseNotesUrl))]).

Record partial := mkPartial {
  p_creator : option string;
  p_vid : option number;
  p_pid : option number;
  p_softwareVersion : option number;
  p_softwareVersionString : option string;
  p_cdVersionNumber : option number;
  p_firmwareInformation : option string;
  p_softwareVersionValid : option bool;
  p_otaUrl : option string;
  p_otaFileSize : option number;
  p_otaChecksum : option string;
  p_otaChecksumType : option number;
  p_minApplicableSoftwareVersion : option number;
  p_maxApplicableSoftwareVersion : option number;
  p_releaseNotesUrl : option string;
}.

Definition fromPartial (object : partial) : t := {|
  creator := object.(p_creator) ?? "";
  vid := object.(p_vid) ?? Int 0;
  pid := object.(p_pid) ?? Int 0;
  softwareVersion := object.(p_softwareVersion) ?? Int 0;
  softwareVersionString := object.(p_softwareVersionString) ?? "";
  cdVersionNumber := object.(p_cdVersionNumber) ?? Int 0;
  firmwareInformation := object.(p_firmwareInformation) ?? "";
  softwareVersionValid := object.(p_softwareVersionValid) ?? false;
  otaUrl := object.(p_otaUrl) ?? "";
  otaFileSize := object.(p_otaFileSize) ?? Int 0;
  otaChecksum := object.(p_otaChecksum) ?? "";
  otaChecksumType := object.(p_otaChecksumType) ?? Int 0;
  minApplicableSoftwareVersion := object.(p_minApplicableSoftwareVersion) ?? Int 0;
  maxApplicableSoftwareVersion := object.(p_maxApplicableSoftwareVersion) ?? Int 0;
  releaseNotesUrl := object.(p_releaseNotesUrl) ?? "";
|}.

(** The object with no property given. *)
Definition nothing : partial := mkPartial None None None None None None None None None None None
  None None None None.

(** The bytes [encode] writes. *)
Definition wire {PB : Protobuf} {PS : ProtobufSpec PB} (m : t) : bytes :=
  f_string 10 m.(creator) ++
  f_number e_int32 16 m.(vid) ++
  f_number e_int32 24 m.(pid) ++
  f_number e_uint32 32 m.(softwareVersion) ++
  f_string 42 m.(softwareVersionString) ++
  f_number e_int32 48 m.(cdVersionNumber) ++
  f_string 58 m.(firmwareInformation) ++
  f_bool 64 m.(softwareVersionValid) ++
  f_string 74 m.(otaUrl) ++
  f_number e_uint64 80 m.(otaFileSize) ++
  f_string 90 m.(otaChecksum) ++
  f_number e_int32 96 m.(otaChecksumType) ++
  f_number e_uint32 104 m.(minApplicableSoftwareVersion) ++
  f_number e_uint32 112 m.(maxApplicableSoftwareVersion) ++
  f_string 122 m.(releaseNotesUrl).

Definition valid (m : t) : Prop :=
  int32_ok m.(vid) ∧ int32_ok m.(pid) ∧ uint32_ok m.(softwareVersion) ∧ int32_ok m.(cdVersionNumber) ∧ uint64_ok m.(otaFileSize) ∧ int32_ok m.(otaChecksumType) ∧ uint32_ok m.(minApplicableSoftwareVersion) ∧ uint32_ok m.(maxApplicableSoftwareVersion).

Definition encodable {PB : Protobuf} {PS : ProtobufSpec PB} (m : t) : Prop :=
  valid m ∧ small (wire m).

Definition merge (m a : t) : t := {|
  creator := later_string m.(creator) a.(creator);
  vid := later_number m.(vid) a.(vid);
  pid := later_number m.(pid) a.(pid);
  softwareVersion := later_number m.(softwareVersion) a.(softwareVersion);
  softwareVersionString := later_string m.(softwareVersionString) a.(softwareVersionString);
  cdVersionNumber := later_number m.(cdVersionNumber) a.(cdVersionNumber);
  firmwareInformation := later_string m.(firmwareInformation) a.(firmwareInformation);
  softwareVersionValid := later_bool m.(softwareVersionValid) a.(softwareVersionValid);
  otaUrl := later_string m.(otaUrl) a.(otaUrl);
  otaFileSize := later_number m.(otaFileSize) a.(otaFileSize);
  otaChecksum := later_string m.(otaChecksum) a.(otaChecksum);
  otaChecksumType := later_number m.(otaChecksumType) a.(otaChecksumType);
  minApplicableSoftwareVersion := later_number m.(minApplicableSoftwareVersion) a.(minApplicableSoftwareVersion);
  maxApplicableSoftwareVersion := later_number m.(maxApplicableSoftwareVersion) a.(maxApplicableSoftwareVersion);
  releaseNotesUrl := later_string m.(releaseNotesUrl) a.(releaseNotesUrl);
|}.

(** A whole message seen as a partial one. *)
Definition full (m : t) : partial := {|
  p_creator := Some m.(creator);
  p_vid := Some m.(vid);
  p_pid := Some m.(pid);
  p_softwareVersion := Some m.(softwareVersion);
  p_softwareVersionString := Some m.(softwareVersionString);
  p_cdVersionNumber := Some m.(cdVersionNumber);
  p_firmwareInformation := Some m.(firmwareInformation);
  p_softwareVersionValid := Some m.(softwareVersionValid);
  p_otaUrl := Some m.(otaUrl);
  p_otaFileSize := Some m.(otaFileSize);
  p_otaChecksum := Some m.(otaChecksum);
  p_otaChecksumType := Some m.(otaChecksumType);
  p_minApplicableSoftwareVersion := Some m.(minApplicableSoftwareVersion);
  p_maxApplicableSoftwareVersion := Some m.(maxApplicableSoftwareVersion);
  p_releaseNotesUrl := Some m.(releaseNotesUrl);
|}.

(** The message as its [.proto] file declares it. *)
Definition schema (m : t) : list field :=
  [implicit 1 (VString m.(creator));
   implicit 2 (VInt Int32 m.(vid));
   implicit 3 (VInt Int32 m.(pid));
   implicit 4 (VInt Uint32 m.(softwareVersion));
   implicit 5 (VString m.(softwareVersionString));
   implicit 6 (VInt Int32 m.(cdVersionNumber));
   implicit 7 (VString m.(firmwareInformation));
   implicit 8 (VBool m.(softwareVersionValid));
   implicit 9 (VString m.(otaUrl));
   implicit 10 (VInt Uint64 m.(otaFileSize));
   implicit 11 (VString m.(otaChecksum));
   implicit 12 (VInt Int32 m.(otaChecksumType));
   implicit 13 (VInt Uint32 m.(minApplicableSoftwareVersion));
   implicit 14 (VInt Uint32 m.(maxApplicableSoftwareVersion));
   implicit 15 (VString m.(releaseNotesUrl))].

(** The message with its default for every property that is not kept. *)
Definition only (kept : string → bool) (m : t) : t := {|
  creator := if kept "creator" then m.(creator) else "";
  vid := if kept "vid" then m.(vid) else Int 0;
  pid := if kept "pid" then m.(pid) else Int 0;
  softwareVersion := if kept "softwareVersion" then m.(softwareVersion) else Int 0;
  softwareVersionString := if kept "softwareVersionString" then m.(softwareVersionString) else "";
  cdVersionNumber := if kept "cdVersionNumber" then m.(cdVersionNumber) else Int 0;
  firmwareInformation := if kept "firmwareInformation" then m.(firmwareInformation) else "";
  softwareVersionValid := if kept "softwareVersionValid" then m.(softwareVersionValid) else false;
  otaUrl := if kept "otaUrl" then m.(otaUrl) else "";
  otaFileSize := if kept "otaFileSize" then m.(otaFileSize) else Int 0;
  otaChecksum := if kept "otaChecksum" then m.(otaChecksum) else "";
  otaChecksumType := if kept "otaChecksumType" then m.(otaChecksumType) else Int 0;
  minApplicableSoftwareVersion := if kept "minApplicableSoftwareVersion" then m.(minApplicableSoftwareVersion) else Int 0;
  maxApplicableSoftwareVersion := if kept "maxApplicableSoftwareVersion" then m.(maxApplicableSoftwareVersion) else Int 0;
  releaseNotesUrl := if kept "releaseNotesUrl" then m.(releaseNotesUrl) else "";
|}.

#[global] Instance codec {PB : Protobuf} : MessageCodec t :=
  {| msg_base := base; msg_encode := encode; msg_field := decode_field |}.

#[global] Program Instance spec {PB : Protobuf} (PS : ProtobufSpec PB) : MessageSpec PS t :=
  {| msg_wire := wire; msg_valid := valid; msg_merge := merge |}.
Next Obligation. solve_encode_wire. Qed.
Next Obligation. solve_decode_wire. Qed.
Next Obligation. solve_merge_base. Qed.
Next Obligation. intros. solve_advances decode_field. Qed.

#[global] Program Instance data : MessageData t partial :=
  {| msg_fromJSON := fromJSON; msg_toJSON := toJSON;
     msg_fromPartial := fromPartial; msg_full := full |}.
Next Obligation. solve_json fromJSON toJSON. Qed.
Next Obligation. solve_partial fromPartial full. Qed.

#[global] Instance schema_wire {PB : Protobuf} {PS : ProtobufSpec PB} : WireSchema wire schema.
Proof. solve_schema_wire wire schema. Qed.

#[global] Instance schema_merge : MergeSchema merge schema.
Proof. solve_schema_merge merge schema. Qed.

(** Its row in the table of message types. *)
Definition message {PB : Protobuf} {PS : ProtobufSpec PB} : message_type :=
  plain_message "MsgCreateModelVersion" nothing true schema only.

#[global] Instance message_lawful {PB : Protobuf} (PS : ProtobufSpec PB) : Lawful message.
Proof. solve_lawful decode_field fromJSON only. Qed.

End MsgCreateModelVersion.

(** ** [MsgCreateModelVersionResponse] (model/tx.js) *)

Module MsgCreateModelVersionResponse.

Record t := mk {}.

#[global] Instance t_eta : Settable t := λ m, m.

Definition base : t := mk.

Definition encode {PB : Protobuf} (message : t) (writer : Writer) : Writer :=
  writer.

Definition decode_field {PB : Protobuf} (tag : Z) (message : t) : RM t :=
  match field_number tag with
  | _ => _ ← skipType (wire_type tag); mret message
  end.

Definition decode {PB : Protobuf} (length : option Z) : RM t :=
  decode_message length base decode_field.

Definition fromJSON (object : js) : result t :=
  Ok base.

Definition toJSON (message : t) : js :=
  Obj [].

Record partial := mkPartial {}.

Definition fromPartial (object : partial) : t := base.

(** The object with no property given. *)
Definition nothing : partial := mkPartial.

(** The bytes [encode] writes. *)
Definition wire {PB : Protobuf} {PS : ProtobufSpec PB} (m : t) : bytes :=
  [].

Definition valid (m : t) : Prop :=
  True.

Definition encodable {PB : Protobuf} {PS : ProtobufSpec PB} (m : t) : Prop :=
  valid m ∧ small (wire m).

Definition merge (m a : t) : t := m.

(** A whole message seen as a partial one. *)
Definition full (m : t) : partial := mkPartial.

(** The message as its [.proto] file declares it. *)
Definition schema (m : t) : list field :=
  [].

(** The message with its default for every property that is not kept. *)
Definition only (kept : string → bool) (m : t) : t := m.

#[global] Instance codec {PB : Protobuf} : MessageCodec t :=
  {| msg_base := base; msg_encode := encode; msg_field := decode_field |}.

#[global] Program Instance spec {PB : Protobuf} (PS : ProtobufSpec PB) : MessageSpec PS t :=
  {| msg_wire := wire; msg_valid := valid; msg_merge := merge |}.
Next Obligation. solve_encode_wire. Qed.
Next Obligation. solve_decode_wire. Qed.
Next Obligation. solve_merge_base. Qed.
Next Obligation. intros. solve_advances decode_field. Qed.

#[global] Program Instance data : MessageData t partial :=
  {| msg_fromJSON := fromJSON; msg_toJSON := toJSON;
     msg_fromPartial := fromPartial; msg_full := full |}.
Next Obligation. solve_json fromJSON toJSON. Qed.
Next Obligation. solve_partial fromPartial full. Qed.

#[global] Instance schema_wire {PB : Protobuf} {PS : ProtobufSpec PB} : WireSchema wire schema.
Proof. solve_schema_wire wire schema. Qed.

#[global] Instance schema_merge : MergeSchema merge schema.
Proof. solve_schema_merge merge schema. Qed.

(** Its row in the table of message types. *)
Definition message {PB : Protobuf} {PS : ProtobufSpec PB} : message_type :=
  plain_message "MsgCreateModelVersionResponse" nothing false schema only.

#[global] Instance message_lawful {PB : Protobuf} (PS : ProtobufSpec PB) : Lawful message.
Proof. solve_lawful decode_field fromJSON only. Qed.

End MsgCreateModelVersionResponse.

(** ** [MsgUpdateModelVersion] (model/tx.js) *)

Module MsgUpdateModelVersion.

Record t := mk {
  creator : string;
  vid : number;
  pid : number;
  softwareVersion : number;
  softwareVersionValid : bool;
  otaUrl : string;
  minApplicableSoftwareVersion : number;
  maxApplicableSoftwareVersion : number;
  releaseNotesUrl : string;
}.

#[global] Instance t_eta : Settable t := λ m, mk m.(creator) m.(vid) m.(pid) m.(softwareVersion)
  m.(softwareVersionValid) m.(otaUrl) m.(minApplicableSoftwareVersion)
  m.(maxApplicableSoftwareVersion) m.(releaseNotesUrl).

Definition base : t := mk "" 0 0 0 false "" 0 0 "".

Definition encode {PB : Protobuf} (message : t) (writer : Writer) : Writer :=
  writer
  @> when (str_neq message.(creator) "") (fun w => w @> uint32 10 @> string_ message.(creator))
  @> when (num_neq message.(vid) 0) (fun w => w @> uint32 16 @> int32 message.(vid))
  @> when (num_neq message.(pid) 0) (fun w => w @> uint32 24 @> int32 message.(pid))
  @> when (num_neq message.(softwareVersion) 0)
       (fun w => w @> uint32 32 @> uint32 message.(softwareVersion))
  @> when (Bool.eqb message.(softwareVersionValid) true)
       (fun w => w @> uint32 40 @> bool_ message.(softwareVersionValid))
  @> when (str_neq message.(otaUrl) "") (fun w => w @> uint32 50 @> string_ message.(otaUrl))
  @> when (num_neq message.(minApplicableSoftwareVersion) 0)
       (fun w => w @> uint32 56 @> uint32 message.(minApplicableSoftwareVersion))
  @> when (num_neq message.(maxApplicableSoftwareVersion) 0)
       (fun w => w @> uint32 64 @> uint32 message.(maxApplicableSoftwareVersion))
  @> when (str_neq message.(releaseNotesUrl) "")
       (fun w => w @> uint32 74 @> string_ message.(releaseNotesUrl)).

Definition decode_field {PB : Protobuf} (tag : Z) (message : t) : RM t :=
  match field_number tag with
  | 1 => v ← read_string; mret (message <| creator := v |>)
  | 2 => v ← read_int32; mret (message <| vid := Int v |>)
  | 3 => v ← read_int32; mret (message <| pid := Int v |>)
  | 4 => v ← read_uint32; mret (message <| softwareVersion := Int v |>)
  | 5 => v ← read_bool; mret (message <| softwareVersionValid := v |>)
  | 6 => v ← read_string; mret (message <| otaUrl := v |>)
  | 7 => v ← read_uint32; mret (message <| minApplicableSoftwareVersion := Int v |>)
  | 8 => v ← read_uint32; mret (message <| maxApplicableSoftwareVersion := Int v |>)
  | 9 => v ← read_string; mret (message <| releaseNotesUrl := v |>)
  | _ => _ ← skipType (wire_type tag); mret message
  end.

Definition decode {PB : Protobuf} (length : option Z) : RM t :=
  decode_message length base decode_field.

Definition fromJSON (object : js) : result t :=
  creator' ← field_or object "creator" to_string "";
  vid' ← field_or object "vid" js_Number 0;
  pid' ← field_or object "pid" js_Number 0;
  softwareVersion' ← field_or object "softwareVersion" js_Number 0;
  softwareVersionValid' ← field_or object "softwareVersionValid" to_bool false;
  otaUrl' ← field_or object "otaUrl" to_string "";
  minApplicableSoftwareVersion' ← field_or object "minApplicableSoftwareVersion" js_Number 0;
  maxApplicableSoftwareVersion' ← field_or object "maxApplicableSoftwareVersion" js_Number 0;
  releaseNotesUrl' ← field_or object "releaseNotesUrl" to_string "";
  Ok (mk creator' vid' pid' softwareVersion' softwareVersionValid' otaUrl'
    minApplicableSoftwareVersion' maxApplicableSoftwareVersion' releaseNotesUrl').

Definition toJSON (message : t) : js :=
  Obj ([("creator", Str message.(creator));
    ("vid", Num message.(vid));
    ("pid", Num message.(pid));
    ("softwareVersion", Num message.(softwareVersion));
    ("softwareVersionValid", Bool message.(softwareVersionValid));
    ("otaUrl", Str message.(otaUrl));
    ("minApplicableSoftwareVersion", Num message.(minApplicableSoftwareVersion));
    ("maxApplicableSoftwareVersion", Num message.(maxApplicableSoftwareVersion));
    ("releaseNotesUrl", Str message.(releaseNotesUrl))]).

Record partial := mkPartial {
  p_creator : option string;
  p_vid : option number;
  p_pid : option number;
  p_softwareVersion : option number;
  p_softwareVersionValid : option bool;
  p_otaUrl : option string;
  p_minApplicableSoftwareVersion : option number;
  p_maxApplicableSoftwareVersion : option number;
  p_releaseNotesUrl : option string;
}.

Definition fromPartial (object : partial) : t := {|
  creator := object.(p_creator) ?? "";
  vid := object.(p_vid) ?? Int 0;
  pid := object.(p_pid) ?? Int 0;
  softwareVersion := object.(p_softwareVersion) ?? Int 0;
  softwareVersionValid := object.(p_softwareVersionValid) ?? false;
  otaUrl := object.(p_otaUrl) ?? "";
  minApplicableSoftwareVersion := object.(p_minApplicableSoftwareVersion) ?? Int 0;
  maxApplicableSoftwareVersion := object.(p_maxApplicableSoftwareVersion) ?? Int 0;
  releaseNotesUrl := object.(p_releaseNotesUrl) ?? "";
|}.

(** The object with no property given. *)
Definition nothing : partial := mkPartial None None None None None None None None None.

(** The bytes [encode] writes. *)
Definition wire {PB : Protobuf} {PS : ProtobufSpec PB} (m : t) : bytes :=
  f_string 10 m.(creator) ++
  f_number e_int32 16 m.(vid) ++
  f_number e_int32 24 m.(pid) ++
  f_number e_uint32 32 m.(softwareVersion) ++
  f_bool 40 m.(softwareVersionValid) ++
  f_string 50 m.(otaUrl) ++
  f_number e_uint32 56 m.(minApplicableSoftwareVersion) ++
  f_number e_uint32 64 m.(maxApplicableSoftwareVersion) ++
  f_string 74 m.(releaseNotesUrl).

Definition valid (m : t) : Prop :=
  int32_ok m.(vid) ∧ int32_ok m.(pid) ∧ uint32_ok m.(softwareVersion) ∧ uint32_ok m.(minApplicableSoftwareVersion) ∧ uint32_ok m.(maxApplicableSoftwareVersion).

Definition encodable {PB : Protobuf} {PS : ProtobufSpec PB} (m : t) : Prop :=
  valid m ∧ small (wire m).

Definition merge (m a : t) : t := {|
  creator := later_string m.(creator) a.(creator);
  vid := later_number m.(vid) a.(vid);
  pid := later_number m.(pid) a.(pid);
  softwareVersion := later_number m.(softwareVersion) a.(softwareVersion);
  softwareVersionValid := later_bool m.(softwareVersionValid) a.(softwareVersionValid);
  otaUrl := later_string m.(otaUrl) a.(otaUrl);
  minApplicableSoftwareVersion := later_number m.(minApplicableSoftwareVersion) a.(minApplicableSoftwareVersion);
  maxApplicableSoftwareVersion := later_number m.(maxApplicableSoftwareVersion) a.(maxApplicableSoftwareVersion);
  releaseNotesUrl := later_string m.(releaseNotesUrl) a.(releaseNotesUrl);
|}.

(** A whole message seen as a partial one. *)
Definition full (m : t) : partial := {|
  p_creator := Some m.(creator);
  p_vid := Some m.(vid);
  p_pid := Some m.(pid);
  p_softwareVersion := Some m.(softwareVersion);
  p_softwareVersionValid := Some m.(softwareVersionValid);
  p_otaUrl := Some m.(otaUrl);
  p_minApplicableSoftwareVersion := Some m.(minApplicableSoftwareVersion);
  p_maxApplicableSoftwareVersion := Some m.(maxApplicableSoftwareVersion);
  p_releaseNotesUrl := Some m.(releaseNotesUrl);
|}.

(** The message as its [.proto] file declares it. *)
Definition schema (m : t) : list field :=
  [implicit 1 (VString m.(creator));
   implicit 2 (VInt Int32 m.(vid));
   implicit 3 (VInt Int32 m.(pid));
   implicit 4 (VInt Uint32 m.(softwareVersion));
   implicit 5 (VBool m.(softwareVersionValid));
   implicit 6 (VString m.(otaUrl));
   implicit 7 (VInt Uint32 m.(minApplicableSoftwareVersion));
   implicit 8 (VInt Uint32 m.(maxApplicableSoftwareVersion));
   implicit 9 (VString m.(releaseNotesUrl))].

(** The message with its default for every property that is not kept. *)
Definition only (kept : string → bool) (m : t) : t := {|
  creator := if kept "creator" then m.(creator) else "";
  vid := if kept "vid" then m.(vid) else Int 0;
  pid := if kept "pid" then m.(pid) else Int 0;
  softwareVersion := if kept "softwareVersion" then m.(softwareVersion) else Int 0;
  softwareVersionValid := if kept "softwareVersionValid" then m.(softwareVersionValid) else false;
  otaUrl := if kept "otaUrl" then m.(otaUrl) else "";
  minApplicableSoftwareVersion := if kept "minApplicableSoftwareVersion" then m.(minApplicableSoftwareVersion) else Int 0;
  maxApplicableSoftwareVersion := if kept "maxApplicableSoftwareVersion" then m.(maxApplicableSoftwareVersion) else Int 0;
  releaseNotesUrl := if kept "releaseNotesUrl" then m.(releaseNotesUrl) else "";
|}.

#[global] Instance codec {PB : Protobuf} : MessageCodec t :=
  {| msg_base := base; msg_encode := encode; msg_field := decode_field |}.

#[global] Program Instance spec {PB : Protobuf} (PS : ProtobufSpec PB) : MessageSpec PS t :=
  {| msg_wire := wire; msg_valid := valid; msg_merge := merge |}.
Next Obligation. solve_encode_wire. Qed.
Next Obligation. solve_decode_wire. Qed.
Next Obligation. solve_merge_base. Qed.
Next Obligation. intros. solve_advances decode_field. Qed.

#[global] Program Instance data : MessageData t partial :=
  {| msg_fromJSON := fromJSON; msg_toJSON := toJSON;
     msg_fromPartial := fromPartial; msg_full := full |}.
Next Obligation. solve_json fromJSON toJSON. Qed.
Next Obligation. solve_partial fromPartial full. Qed.

#[global] Instance schema_wire {PB : Protobuf} {PS : ProtobufSpec PB} : WireSchema wire schema.
Proof. solve_schema_wire wire schema. Qed.

#[global] Instance schema_merge : MergeSchema merge schema.
Proof. solve_schema_merge merge schema. Qed.

(** Its row in the table of message types. *)
Definition message {PB : Protobuf} {PS : ProtobufSpec PB} : message_type :=
  plain_message "MsgUpdateModelVersion" nothing true schema only.

#[global] Instance message_lawful {PB : Protobuf} (PS : ProtobufSpec PB) : Lawful message.
Proof. solve_lawful decode_field fromJSON only. Qed.

End MsgUpdateModelVersion.

(** ** [MsgUpdateModelVersionResponse] (model/tx.js) *)

Module MsgUpdateModelVersionResponse.

Record t := mk {}.

#[global] Instance t_eta : Settable t := λ m, m.

Definition base : t := mk.

Definition encode {PB : Protobuf} (message : t) (writer : Writer) : Writer :=
  writer.

Definition decode_field {PB : Protobuf} (tag : Z) (message : t) : RM t :=
  match field_number tag with
  | _ => _ ← skipType (wire_type tag); mret message
  end.

Definition decode {PB : Protobuf} (length : option Z) : RM t :=
  decode_message length base decode_field.

Definition fromJSON (object : js) : result t :=
  Ok base.

Definition toJSON (message : t) : js :=
  Obj [].

Record partial := mkPartial {}.

Definition fromPartial (object : partial) : t := base.

(** The object with no property given. *)
Definition nothing : partial := mkPartial.

(** The bytes [encode] writes. *)
Definition wire {PB : Protobuf} {PS : ProtobufSpec PB} (m : t) : bytes :=
  [].

Definition valid (m : t) : Prop :=
  True.

Definition encodable {PB : Protobuf} {PS : ProtobufSpec PB} (m : t) : Prop :=
  valid m ∧ small (wire m).

Definition merge (m a : t) : t := m.

(** A whole message seen as a partial one. *)
Definition full (m : t) : partial := mkPartial.

(** The message as its [.proto] file declares it. *)
Definition schema (m : t) : list field :=
  [].

(** The message with its default for every property that is not kept. *)
Definition only (kept : string → bool) (m : t) : t := m.

#[global] Instance codec {PB : Protobuf} : MessageCodec t :=
  {| msg_base := base; msg_encode := encode; msg_field := decode_field |}.

#[global] Program Instance spec {PB : Protobuf} (PS : ProtobufSpec PB) : MessageSpec PS t :=
  {| msg_wire := wire; msg_valid := valid; msg_merge := merge |}.
Next Obligation. solve_encode_wire. Qed.
Next Obligation. solve_decode_wire. Qed.
Next Obligation. solve_merge_base. Qed.
Next Obligation. intros. solve_advances decode_field. Qed.

#[global] Program Instance data : MessageData t partial :=
  {| msg_fromJSON := fromJSON; msg_toJSON := toJSON;
     msg_fromPartial := fromPartial; msg_full := full |}.
Next Obligation. solve_json fromJSON toJSON. Qed.
Next Obligation. solve_partial fromPartial full. Qed.

#[global] Instance schema_wire {PB : Protobuf} {PS : ProtobufSpec PB} : WireSchema wire schema.
Proof. solve_schema_wire wire schema. Qed.

#[global] Instance schema_merge : MergeSchema merge schema.
Proof. solve_schema_merge merge schema. Qed.

(** Its row in the table of message types. *)
Definition message {PB : Protobuf} {PS : ProtobufSpec PB} : message_type :=
  plain_message "MsgUpdateModelVersionResponse" nothing false schema only.

#[global] Instance message_lawful {PB : Protobuf} (PS : ProtobufSpec PB) : Lawful message.
Proof. solve_lawful decode_field fromJSON only. Qed.

End MsgUpdateModelVersionResponse.


(** ** [MsgClientImpl]

    [rpc] is the transport the class is constructed with: [rpc service method data]
    is what the promise of [this.rpc.request] settles to. *)
Module MsgClientImpl.
Section client.
Context {PB : Protobuf} (rpc : string → string → bytes → result bytes).

Definition CreateModel (request : MsgCreateModel.t) : result MsgCreateModelResponse.t :=
  data ← rpc "zigbeealliance.distributedcomplianceledger.model.Msg" "CreateModel"
    (finish (MsgCreateModel.encode request create));
  decode_bytes MsgCreateModelResponse.decode data.

Definition UpdateModel (request : MsgUpdateModel.t) : result MsgUpdateModelResponse.t :=
  data ← rpc "zigbeealliance.distributedcomplianceledger.model.Msg" "UpdateModel"
    (finish (MsgUpdateModel.encode request create));
  decode_bytes MsgUpdateModelResponse.decode data.

Definition DeleteModel (request : MsgDeleteModel.t) : result MsgDeleteModelResponse.t :=
  data ← rpc "zigbeealliance.distributedcomplianceledger.model.Msg" "DeleteModel"
    (finish (MsgDeleteModel.encode request create));
  decode_bytes MsgDeleteModelResponse.decode data.

Definition CreateModelVersion (request : MsgCreateModelVersion.t)
    : result MsgCreateModelVersionResponse.t :=
  data ← rpc "zigbeealliance.distributedcomplianceledger.model.Msg" "CreateModelVersion"
    (finish (MsgCreateModelVersion.encode request create));
  decode_bytes MsgCreateModelVersionResponse.decode data.

Definition UpdateModelVersion (request : MsgUpdateModelVersion.t)
    : result MsgUpdateModelVersionResponse.t :=
  data ← rpc "zigbeealliance.distributedcomplianceledger.model.Msg" "UpdateModelVersion"
    (finish (MsgUpdateModelVersion.encode request create));
  decode_bytes MsgUpdateModelVersionResponse.decode data.

End client.
End MsgClientImpl.

(** ** The message types of this file *)

Definition messages {PB : Protobuf} {PS : ProtobufSpec PB} : list message_type :=
  [ Product.message; VendorProducts.message; Model.message; ModelVersion.message;
   ModelVersions.message; MsgCreateModel.message; MsgCreateModelResponse.message;
   MsgUpdateModel.message; MsgUpdateModelResponse.message; MsgDeleteModel.message;
   MsgDeleteModelResponse.message; MsgCreateModelVersion.message;
   MsgCreateModelVersionResponse.message; MsgUpdateModelVersion.message;
   MsgUpdateModelVersionResponse.message].

Lemma ModelTypes_lawful {PB : Protobuf} {PS : ProtobufSpec PB} : Forall Lawful messages.
Proof. solve_table. Qed.

(** The methods of [MsgClientImpl]. *)
Definition msg_methods {PB : Protobuf} {PS : ProtobufSpec PB} : list rpc_method :=
  [mkMethod "zigbeealliance.distributedcomplianceledger.model.Msg" "CreateModel"
     MsgCreateModel.message MsgCreateModelResponse.message
     (fun rpc => MsgClientImpl.CreateModel rpc);
   mkMethod "zigbeealliance.distributedcomplianceledger.model.Msg" "UpdateModel"
     MsgUpdateModel.message MsgUpdateModelResponse.message
     (fun rpc => MsgClientImpl.UpdateModel rpc);
   mkMethod "zigbeealliance.distributedcomplianceledger.model.Msg" "DeleteModel"
     MsgDeleteModel.message MsgDeleteModelResponse.message
     (fun rpc => MsgClientImpl.DeleteModel rpc);
   mkMethod "zigbeealliance.distributedcomplianceledger.model.Msg" "CreateModelVersion"
     MsgCreateModelVersion.message MsgCreateModelVersionResponse.message
     (fun rpc => MsgClientImpl.CreateModelVersion rpc);
   mkMethod "zigbeealliance.distributedcomplianceledger.model.Msg" "UpdateModelVersion"
     MsgUpdateModelVersion.message MsgUpdateModelVersionResponse.message
     (fun rpc => MsgClientImpl.UpdateModelVersion rpc)].

Lemma ModelTypes_msg_methods_lawful {PB : Protobuf} {PS : ProtobufSpec PB} : Forall method_lawful msg_methods.
Proof. solve_methods. Qed.
