(* ===== verification/ModelQuery.v ===== *)
(** * The query and genesis messages of the model module

    The codecs of [model/module/types/model/query.js] and [genesis.js]. *)
From S2P Require Import Prelude Js Protobuf Codec Calendar Dates Base64 Fallible Proto3 MessageTable CommonTypes ModelTypes.
Open Scope Z_scope.

(** ** [QueryGetVendorProductsRequest] (model/query.js) *)

Module QueryGetVendorProductsRequest.

Record t := mk {
  vid : number;
}.

#[global] Instance t_eta : Settable t := λ m, mk m.(vid).

Definition base : t := mk 0.

Definition encode {PB : Protobuf} (message : t) (writer : Writer) : Writer :=
  writer
  @> when (num_neq message.(vid) 0) (fun w => w @> uint32 8 @> int32 message.(vid)).

Definition decode_field {PB : Protobuf} (tag : Z) (message : t) : RM t :=
  match field_number tag with
  | 1 => v ← read_int32; mret (message <| vid := Int v |>)
  | _ => _ ← skipType (wire_type tag); mret message
  end.

Definition decode {PB : Protobuf} (length : option Z) : RM t :=
  decode_message length base decode_field.

Definition fromJSON (object : js) : result t :=
  vid' ← field_or object "vid" js_Number 0;
  Ok (mk vid').

Definition toJSON (message : t) : js :=
  Obj ([("vid", Num message.(vid))]).

Record partial := mkPartial {
  p_vid : option number;
}.

Definition fromPartial (object : partial) : t := {|
  vid := object.(p_vid) ?? Int 0;
|}.

(** The object with no property given. *)
Definition nothing : partial := mkPartial None.

(** The bytes [encode] writes. *)
Definition wire {PB : Protobuf} {PS : ProtobufSpec PB} (m : t) : bytes :=
  f_number e_int32 8 m.(vid).

Definition valid (m : t) : Prop :=
  int32_ok m.(vid).

Definition encodable {PB : Protobuf} {PS : ProtobufSpec PB} (m : t) : Prop :=
  valid m ∧ small (wire m).

Definition merge (m a : t) : t := {|
  vid := later_number m.(vid) a.(vid);
|}.

(** A whole message seen as a partial one. *)
Definition full (m : t) : partial := {|
  p_vid := Some m.(vid);
|}.

(** The message as its [.proto] file declares it. *)
Definition schema (m : t) : list field :=
  [implicit 1 (VInt Int32 m.(vid))].

(** The message with its default for every property that is not kept. *)
Definition only (kept : string → bool) (m : t) : t := {|
  vid := if kept "vid" then m.(vid) else Int 0;
|}.

#[global] Instance codec {PB : Protobuf} : MessageCodec t :=
  {| msg_base := base; msg_encode := encode; msg_field := decode_field |}.

#[global] Program Instance spec {PB : Protobuf} (PS : ProtobufSpec PB) : MessageSpec PS t :=
  {| msg_wire := wire; msg_valid := valid; msg_merge := merge |}.
Next Obligation. solve_encode_wire. Qed.
Next Obligation. solve_decode_wire. Qed.
Next Obligation. solve_merge_base. Qed.
Next Obligation. intros. solve_advances decode_field. Qed.

#[global] Program Instance data : MessageData t partial :=
  {| msg_fromJSON := fromJSON; msg_toJSON := toJSON;
     msg_fromPartial := fromPartial; msg_full := full |}.
Next Obligation. solve_json fromJSON toJSON. Qed.
Next Obligation. solve_partial fromPartial full. Qed.

#[global] Instance schema_wire {PB : Protobuf} {PS : ProtobufSpec PB} : WireSchema wire schema.
Proof. solve_schema_wire wire schema. Qed.

#[global] Instance schema_merge : MergeSchema merge schema.
Proof. solve_schema_merge merge schema. Qed.

(** Its row in the table of message types. *)
Definition message {PB : Protobuf} {PS : ProtobufSpec PB} : message_type :=
  plain_message "QueryGetVendorProductsRequest" nothing true schema only.

#[global] Instance message_lawful {PB : Protobuf} (PS : ProtobufSpec PB) : Lawful message.
Proof. solve_lawful decode_field fromJSON only. Qed.

End QueryGetVendorProductsRequest.

(** ** [QueryGetVendorProductsResponse] (model/query.js) *)

Module QueryGetVendorProductsResponse.

Record t := mk {
  vendorProducts : option VendorProducts.t;
}.

#[global] Instance t_eta : Settable t := λ m, mk m.(vendorProducts).

Definition base : t := mk None.

Definition encode {PB : Protobuf} (message : t) (writer : Writer) : Writer :=
  writer
  @> defined message.(vendorProducts) (fun v w => w @> uint32 10 @> fork @> VendorProducts.encode v @> ldelim).

Definition decode_field {PB : Protobuf} (tag : Z) (message : t) : RM t :=
  match field_number tag with
  | 1 => v ← read_nested VendorProducts.decode; mret (message <| vendorProducts := Some v |>)
  | _ => _ ← skipType (wire_type tag); mret message
  end.

Definition decode {PB : Protobuf} (length : option Z) : RM t :=
  decode_message length base decode_field.

Definition fromJSON (object : js) : result t :=
  vendorProducts' ← field_or object "vendorProducts" (to_some VendorProducts.fromJSON) None;
  Ok (mk vendorProducts').

Definition toJSON (message : t) : js :=
  Obj (prop_opt "vendorProducts" VendorProducts.toJSON message.(vendorProducts)).

Record partial := mkPartial {
  p_vendorProducts : option VendorProducts.partial;
}.

Definition fromPartial (object : partial) : t := {|
  vendorProducts := VendorProducts.fromPartial <$> object.(p_vendorProducts);
|}.

(** The object with no property given. *)
Definition nothing : partial := mkPartial None.

(** The bytes [encode] writes. *)
Definition wire {PB : Protobuf} {PS : ProtobufSpec PB} (m : t) : bytes :=
  f_message 10 VendorProducts.wire m.(vendorProducts).

Definition valid (m : t) : Prop :=
  from_option VendorProducts.valid True m.(vendorProducts).

Definition encodable {PB : Protobuf} {PS : ProtobufSpec PB} (m : t) : Prop :=
  valid m ∧ small (wire m).

Definition merge (m a : t) : t := {|
  vendorProducts := later_message m.(vendorProducts) a.(vendorProducts);
|}.

(** A whole message seen as a partial one. *)
Definition full (m : t) : partial := {|
  p_vendorProducts := VendorProducts.full <$> m.(vendorProducts);
|}.

(** The message as its [.proto] file declares it. *)
Definition schema (m : t) : list field :=
  [singular 1 Optional (message_value VendorProducts.schema) m.(vendorProducts)].

(** The message with its default for every property that is not kept. *)
Definition only (kept : string → bool) (m : t) : t := {|
  vendorProducts := if kept "vendorProducts" then m.(vendorProducts) else None;
|}.

#[global] Instance codec {PB : Protobuf} : MessageCodec t :=
  {| msg_base := base; msg_encode := encode; msg_field := decode_field |}.

#[global] Program Instance spec {PB : Protobuf} (PS : ProtobufSpec PB) : MessageSpec PS t :=
  {| msg_wire := wire; msg_valid := valid; msg_merge := merge |}.
Next Obligation. solve_encode_wire. Qed.
Next Obligation. solve_decode_wire. Qed.
Next Obligation. solve_merge_base. Qed.
Next Obligation. intros. solve_advances decode_field. Qed.

#[global] Program Instance data : MessageData t partial :=
  {| msg_fromJSON := fromJSON; msg_toJSON := toJSON;
     msg_fromPartial := fromPartial; msg_full := full |}.
Next Obligation. solve_json fromJSON toJSON. Qed.
Next Obligation. solve_partial fromPartial full. Qed.

#[global] Instance schema_wire {PB : Protobuf} {PS : ProtobufSpec PB} : WireSchema wire schema.
Proof. solve_schema_wire wire schema. Qed.

#[global] Instance schema_merge : MergeSchema merge schema.
Proof. solve_schema_merge merge schema. Qed.

(** Its row in the table of message types. *)
Definition message {PB : Protobuf} {PS : ProtobufSpec PB} : message_type :=
  plain_message "QueryGetVendorProductsResponse" nothing true schema only.

#[global] Instance message_lawful {PB : Protobuf} (PS : ProtobufSpec PB) : Lawful message.
Proof. solve_lawful decode_field fromJSON only. Qed.

End QueryGetVendorProductsResponse.

(** ** [QueryGetModelRequest] (model/query.js) *)

Module QueryGetModelRequest.

Record t := mk {
  vid : number;
  pid : number;
}.

#[global] Instance t_eta : Settable t := λ m, mk m.(vid) m.(pid).

Definition base : t := mk 0 0.

Definition encode {PB : Protobuf} (message : t) (writer : Writer) : Writer :=
  writer
  @> when (num_neq message.(vid) 0) (fun w => w @> uint32 8 @> int32 message.(vid))
  @> when (num_neq message.(pid) 0) (fun w => w @> uint32 16 @> int32 message.(pid)).

Definition decode_field {PB : Protobuf} (tag : Z) (message : t) : RM t :=
  match field_number tag with
  | 1 => v ← read_int32; mret (message <| vid := Int v |>)
  | 2 => v ← read_int32; mret (message <| pid := Int v |>)
  | _ => _ ← skipType (wire_type tag); mret message
  end.

Definition decode {PB : Protobuf} (length : option Z) : RM t :=
  decode_message length base decode_field.

Definition fromJSON (object : js) : result t :=
  vid' ← field_or object "vid" js_Number 0;
  pid' ← field_or object "pid" js_Number 0;
  Ok (mk vid' pid').

Definition toJSON (message : t) : js :=
  Obj ([("vid", Num message.(vid));
    ("pid", Num message.(pid))]).

Record partial := mkPartial {
  p_vid : option number;
  p_pid : option number;
}.

Definition fromPartial (object : partial) : t := {|
  vid := object.(p_vid) ?? Int 0;
  pid := object.(p_pid) ?? Int 0;
|}.

(** The object with no property given. *)
Definition nothing : partial := mkPartial None None.

(** The bytes [encode] writes. *)
Definition wire {PB : Protobuf} {PS : ProtobufSpec PB} (m : t) : bytes :=
  f_number e_int32 8 m.(vid) ++
  f_number e_int32 16 m.(pid).

Definition valid (m : t) : Prop :=
  int32_ok m.(vid) ∧ int32_ok m.(pid).

Definition encodable {PB : Protobuf} {PS : ProtobufSpec PB} (m : t) : Prop :=
  valid m ∧ small (wire m).

Definition merge (m a : t) : t := {|
  vid := later_number m.(vid) a.(vid);
  pid := later_number m.(pid) a.(pid);
|}.

(** A whole message seen as a partial one. *)
Definition full (m : t) : partial := {|
  p_vid := Some m.(vid);
  p_pid := Some m.(pid);
|}.

(** The message as its [.proto] file declares it. *)
Definition schema (m : t) : list field :=
  [implicit 1 (VInt Int32 m.(vid));
   implicit 2 (VInt Int32 m.(pid))].

(** The message with its default for every property that is not kept. *)
Definition only (kept : string → bool) (m : t) : t := {|
  vid := if kept "vid" then m.(vid) else Int 0;
  pid := if kept "pid" then m.(pid) else Int 0;
|}.

#[global] Instance codec {PB : Protobuf} : MessageCodec t :=
  {| msg_base := base; msg_encode := encode; msg_field := decode_field |}.

#[global] Program Instance spec {PB : Protobuf} (PS : ProtobufSpec PB) : MessageSpec PS t :=
  {| msg_wire := wire; msg_valid := valid; msg_merge := merge |}.
Next Obligation. solve_encode_wire. Qed.
Next Obligation. solve_decode_wire. Qed.
Next Obligation. solve_merge_base. Qed.
Next Obligation. intros. solve_advances decode_field. Qed.

#[global] Program Instance data : MessageData t partial :=
  {| msg_fromJSON := fromJSON; msg_toJSON := toJSON;
     msg_fromPartial := fromPartial; msg_full := full |}.
Next Obligation. solve_json fromJSON toJSON. Qed.
Next Obligation. solve_partial fromPartial full. Qed.

#[global] Instance schema_wire {PB : Protobuf} {PS : ProtobufSpec PB} : WireSchema wire schema.
Proof. solve_schema_wire wire schema. Qed.

#[global] Instance schema_merge : MergeSchema merge schema.
Proof. solve_schema_merge merge schema. Qed.

(** Its row in the table of message types. *)
Definition message {PB : Protobuf} {PS : ProtobufSpec PB} : message_type :=
  plain_message "QueryGetModelRequest" nothing true schema only.

#[global] Instance message_lawful {PB : Protobuf} (PS : ProtobufSpec PB) : Lawful message.
Proof. solve_lawful decode_field fromJSON only. Qed.

End QueryGetModelRequest.

(** ** [QueryGetModelResponse] (model/query.js) *)

Module QueryGetModelResponse.

Record t := mk {
  model : option Model.t;
}.

#[global] Instance t_eta : Settable t := λ m, mk m.(model).

Definition base : t := mk None.

Definition encode {PB : Protobuf} (message : t) (writer : Writer) : Writer :=
  writer
  @> defined message.(model) (fun v w => w @> uint32 10 @> fork @> Model.encode v @> ldelim).

Definition decode_field {PB : Protobuf} (tag : Z) (message : t) : RM t :=
  match field_number tag with
  | 1 => v ← read_nested Model.decode; mret (message <| model := Some v |>)
  | _ => _ ← skipType (wire_type tag); mret message
  end.

Definition decode {PB : Protobuf} (length : option Z) : RM t :=
  decode_message length base decode_field.

Definition fromJSON (object : js) : result t :=
  model' ← field_or object "model" (to_some Model.fromJSON) None;
  Ok (mk model').

Definition toJSON (message : t) : js :=
  Obj (prop_opt "model" Model.toJSON message.(model)).

Record partial := mkPartial {
  p_model : option Model.partial;
}.

Definition fromPartial (object : partial) : t := {|
  model := Model.fromPartial <$> object.(p_model);
|}.

(** The object with no property given. *)
Definition nothing : partial := mkPartial None.

(** The bytes [encode] writes. *)
Definition wire {PB : Protobuf} {PS : ProtobufSpec PB} (m : t) : bytes :=
  f_message 10 Model.wire m.(model).

Definition valid (m : t) : Prop :=
  from_option Model.valid True m.(model).

Definition encodable {PB : Protobuf} {PS : ProtobufSpec PB} (m : t) : Prop :=
  valid m ∧ small (wire m).

Definition merge (m a : t) : t := {|
  model := later_message m.(model) a.(model);
|}.

(** A whole message seen as a partial one. *)
Definition full (m : t) : partial := {|
  p_model := Model.full <$> m.(model);
|}.

(** The message as its [.proto] file declares it. *)
Definition schema (m : t) : list field :=
  [singular 1 Optional (message_value Model.schema) m.(model)].

(** The message with its default for every property that is not kept. *)
Definition only (kept : string → bool) (m : t) : t := {|
  model := if kept "model" then m.(model) else None;
|}.

#[global] Instance codec {PB : Protobuf} : MessageCodec t :=
  {| msg_base := base; msg_encode := encode; msg_field := decode_field |}.

#[global] Program Instance spec {PB : Protobuf} (PS : ProtobufSpec PB) : MessageSpec PS t :=
  {| msg_wire := wire; msg_valid := valid; msg_merge := merge |}.
Next Obligation. solve_encode_wire. Qed.
Next Obligation. solve_decode_wire. Qed.
Next Obligation. solve_merge_base. Qed.
Next Obligation. intros. solve_advances decode_field. Qed.

#[global] Program Instance data : MessageData t partial :=
  {| msg_fromJSON := fromJSON; msg_toJSON := toJSON;
     msg_fromPartial := fromPartial; msg_full := full |}.
Next Obligation. solve_json fromJSON toJSON. Qed.
Next Obligation. solve_partial fromPartial full. Qed.

#[global] Instance schema_wire {PB : Protobuf} {PS : ProtobufSpec PB} : WireSchema wire schema.
Proof. solve_schema_wire wire schema. Qed.

#[global] Instance schema_merge : MergeSchema merge schema.
Proof. solve_schema_merge merge schema. Qed.

(** Its row in the table of message types. *)
Definition message {PB : Protobuf} {PS : ProtobufSpec PB} : message_type :=
  plain_message "QueryGetModelResponse" nothing true schema only.

#[global] Instance message_lawful {PB : Protobuf} (PS : ProtobufSpec PB) : Lawful message.
Proof. solve_lawful decode_field fromJSON only. Qed.

End QueryGetModelResponse.

(** ** [QueryAllModelRequest] (model/query.js) *)

Module QueryAllModelRequest.

Record t := mk {
  pagination : option PageRequest.t;
}.

#[global] Instance t_eta : Settable t := λ m, mk m.(pagination).

Definition base : t := mk None.

Definition encode {PB : Protobuf} (message : t) (writer : Writer) : result Writer :=
  Ok writer
  @>= defined_e message.(pagination) (submessage 10 PageRequest.encode).

Definition decode_field {PB : Protobuf} (tag : Z) (message : t) : RM t :=
  match field_number tag with
  | 1 => v ← read_nested PageRequest.decode; mret (message <| pagination := Some v |>)
  | _ => _ ← skipType (wire_type tag); mret message
  end.

Definition decode {PB : Protobuf} (length : option Z) : RM t :=
  decode_message length base decode_field.

Definition fromJSON (object : js) : result t :=
  pagination' ← field_or object "pagination" (to_some PageRequest.fromJSON) None;
  Ok (mk pagination').

Definition toJSON (message : t) : js :=
  Obj (prop_opt "pagination" PageRequest.toJSON message.(pagination)).

Record partial := mkPartial {
  p_pagination : option PageRequest.partial;
}.

Definition fromPartial (object : partial) : t := {|
  pagination := PageRequest.fromPartial <$> object.(p_pagination);
|}.

(** The object with no property given. *)
Definition nothing : partial := mkPartial None.

(** The bytes [encode] writes. *)
Definition wire {PB : Protobuf} {PS : ProtobufSpec PB} (m : t) : bytes :=
  f_message 10 PageRequest.wire m.(pagination).

Definition valid (m : t) : Prop :=
  from_option PageRequest.valid True m.(pagination).

(** The byte fields hold arrays, as the interface declares. *)
Definition typed (m : t) : bool := from_option PageRequest.typed true m.(pagination).

(** The message without its empty byte arrays. *)
Definition normal (m : t) : t := {|
  pagination := PageRequest.normal <$> m.(pagination);
|}.

Definition encodable {PB : Protobuf} {PS : ProtobufSpec PB} (m : t) : Prop :=
  typed m = true ∧ valid m ∧ small (wire m).

Definition merge (m a : t) : t := {|
  pagination := later_message m.(pagination) (PageRequest.normal <$> a.(pagination));
|}.

(** A whole message seen as a partial one. *)
Definition full (m : t) : partial := {|
  p_pagination := PageRequest.full <$> m.(pagination);
|}.

(** The message as its [.proto] file declares it. *)
Definition schema (m : t) : list field :=
  [singular 1 Optional (message_value PageRequest.schema) m.(pagination)].

(** The message with its default for every property that is not kept. *)
Definition only (kept : string → bool) (m : t) : t := {|
  pagination := if kept "pagination" then m.(pagination) else None;
|}.

#[global] Instance codec {PB : Protobuf} : FallibleCodec t :=
  {| fmsg_base := base; fmsg_encode := encode; fmsg_field := decode_field |}.

#[global] Program Instance spec {PB : Protobuf} (PS : ProtobufSpec PB) : FallibleSpec PS t :=
  {| fmsg_wire := wire; fmsg_valid := valid; fmsg_typed := typed; fmsg_normal := normal;
     fmsg_merge := merge |}.
Next Obligation. solve_fencode_wire. Qed.
Next Obligation. intros. solve_fencode_throws encode typed. Qed.
Next Obligation. solve_fdecode_wire. Qed.
Next Obligation. solve_fmerge_base. Qed.
Next Obligation. intros. solve_fadvances decode_field. Qed.

#[global] Program Instance given_ : FalliblePartial t partial :=
  {| fmsg_fromPartial := fromPartial; fmsg_full := full; fmsg_given := typed |}.
Next Obligation. solve_fgiven fromPartial typed. Qed.
Next Obligation. solve_fpartial fromPartial full typed. Qed.

#[global] Program Instance json : FallibleJson t :=
  {| fmsg_fromJSON := fromJSON; fmsg_toJSON := toJSON;
     fmsg_named := fun _ => true; fmsg_known := fun m => m |}.
Next Obligation. solve_fjson fromJSON toJSON. Qed.
Next Obligation. reflexivity. Qed.

#[global] Instance schema_wire {PB : Protobuf} {PS : ProtobufSpec PB} : WireSchema wire schema.
Proof. solve_schema_wire wire schema. Qed.

#[global] Instance schema_normal : NormalSchema normal schema.
Proof. solve_schema_normal normal schema. Qed.

#[global] Instance schema_merge : MergeSchema merge schema.
Proof. solve_schema_merge merge schema. Qed.

(** Its row in the table of message types. *)
Definition message {PB : Protobuf} {PS : ProtobufSpec PB} : message_type :=
  fallible_message "QueryAllModelRequest" nothing true schema only.

#[global] Instance message_lawful {PB : Protobuf} (PS : ProtobufSpec PB) : Lawful message.
Proof. solve_lawful decode_field fromJSON only. Qed.

End QueryAllModelRequest.

(** ** [QueryAllModelResponse] (model/query.js) *)

Module QueryAllModelResponse.

Record t := mk {
  model : list Model.t;
  pagination : option PageResponse.t;
}.

#[global] Instance t_eta : Settable t := λ m, mk m.(model) m.(pagination).

Definition base : t := mk [] None.

Definition encode {PB : Protobuf} (message : t) (writer : Writer) : result Writer :=
  Ok writer
  @>= pure (each message.(model) (fun v w => w @> uint32 10 @> fork @> Model.encode v @> ldelim))
  @>= defined_e message.(pagination) (submessage 18 PageResponse.encode).

Definition decode_field {PB : Protobuf} (tag : Z) (message : t) : RM t :=
  match field_number tag with
  | 1 => v ← read_nested Model.decode; mret (message <| model := message.(model) ++ [v] |>)
  | 2 => v ← read_nested PageResponse.decode; mret (message <| pagination := Some v |>)
  | _ => _ ← skipType (wire_type tag); mret message
  end.

Definition decode {PB : Protobuf} (length : option Z) : RM t :=
  decode_message length base decode_field.

Definition fromJSON (object : js) : result t :=
  model' ← field_or object "model" (to_list Model.fromJSON) [];
  pagination' ← field_or object "pagination" (to_some PageResponse.fromJSON) None;
  Ok (mk model' pagination').

Definition toJSON (message : t) : js :=
  Obj ([("model", Arr (map Model.toJSON message.(model)))] ++
   prop_opt "pagination" PageResponse.toJSON message.(pagination)).

Record partial := mkPartial {
  p_model : option (list Model.partial);
  p_pagination : option PageResponse.partial;
}.

Definition fromPartial (object : partial) : t := {|
  model := map Model.fromPartial (object.(p_model) ?? []);
  pagination := PageResponse.fromPartial <$> object.(p_pagination);
|}.

(** The object with no property given. *)
Definition nothing : partial := mkPartial None None.

(** The bytes [encode] writes. *)
Definition wire {PB : Protobuf} {PS : ProtobufSpec PB} (m : t) : bytes :=
  f_repeated 10 Model.wire m.(model) ++
  f_message 18 PageResponse.wire m.(pagination).

Definition valid (m : t) : Prop :=
  Forall Model.valid m.(model) ∧ from_option PageResponse.valid True m.(pagination).

(** The byte fields hold arrays, as the interface declares. *)
Definition typed (m : t) : bool := from_option PageResponse.typed true m.(pagination).

(** The message without its empty byte arrays. *)
Definition normal (m : t) : t := {|
  model := m.(model);
  pagination := PageResponse.normal <$> m.(pagination);
|}.

Definition encodable {PB : Protobuf} {PS : ProtobufSpec PB} (m : t) : Prop :=
  typed m = true ∧ valid m ∧ small (wire m).

Definition merge (m a : t) : t := {|
  model := m.(model) ++ a.(model);
  pagination := later_message m.(pagination) (PageResponse.normal <$> a.(pagination));
|}.

(** A whole message seen as a partial one. *)
Definition full (m : t) : partial := {|
  p_model := Some (map Model.full m.(model));
  p_pagination := PageResponse.full <$> m.(pagination);
|}.

(** The message as its [.proto] file declares it. *)
Definition schema (m : t) : list field :=
  [repeated 1 (message_value Model.schema) m.(model);
   singular 2 Optional (message_value PageResponse.schema) m.(pagination)].

(** The message with its default for every property that is not kept. *)
Definition only (kept : string → bool) (m : t) : t := {|
  model := if kept "model" then m.(model) else [];
  pagination := if kept "pagination" then m.(pagination) else None;
|}.

#[global] Instance codec {PB : Protobuf} : FallibleCodec t :=
  {| fmsg_base := base; fmsg_encode := encode; fmsg_field := decode_field |}.

#[global] Program Instance spec {PB : Protobuf} (PS : ProtobufSpec PB) : FallibleSpec PS t :=
  {| fmsg_wire := wire; fmsg_valid := valid; fmsg_typed := typed; fmsg_normal := normal;
     fmsg_merge := merge |}.
Next Obligation. solve_fencode_wire. Qed.
Next Obligation. intros. solve_fencode_throws encode typed. Qed.
Next Obligation. solve_fdecode_wire. Qed.
Next Obligation. solve_fmerge_base. Qed.
Next Obligation. intros. solve_fadvances decode_field. Qed.

#[global] Program Instance given_ : FalliblePartial t partial :=
  {| fmsg_fromPartial := fromPartial; fmsg_full := full; fmsg_given := typed |}.
Next Obligation. solve_fgiven fromPartial typed. Qed.
Next Obligation. solve_fpartial fromPartial full typed. Qed.

#[global] Program Instance json : FallibleJson t :=
  {| fmsg_fromJSON := fromJSON; fmsg_toJSON := toJSON;
     fmsg_named := fun _ => true; fmsg_known := fun m => m |}.
Next Obligation. solve_fjson fromJSON toJSON. Qed.
Next Obligation. reflexivity. Qed.

#[global] Instance schema_wire {PB : Protobuf} {PS : ProtobufSpec PB} : WireSchema wire schema.
Proof. solve_schema_wire wire schema. Qed.

#[global] Instance schema_normal : NormalSchema normal schema.
Proof. solve_schema_normal normal schema. Qed.

#[global] Instance schema_merge : MergeSchema merge schema.
Proof. solve_schema_merge merge schema. Qed.

(** Its row in the table of message types. *)
Definition message {PB : Protobuf} {PS : ProtobufSpec PB} : message_type :=
  fallible_message "QueryAllModelResponse" nothing true schema only.

#[global] Instance message_lawful {PB : Protobuf} (PS : ProtobufSpec PB) : Lawful message.
Proof. solve_lawful decode_field fromJSON only. Qed.

End QueryAllModelResponse.

(** ** [QueryGetModelVersionRequest] (model/query.js) *)

Module QueryGetModelVersionRequest.

Record t := mk {
  vid : number;
  pid : number;
  softwareVersion : number;
}.

#[global] Instance t_eta : Settable t := λ m, mk m.(vid) m.(pid) m.(softwareVersion).

Definition base : t := mk 0 0 0.

Definition encode {PB : Protobuf} (message : t) (writer : Writer) : Writer :=
  writer
  @> when (num_neq message.(vid) 0) (fun w => w @> uint32 8 @> int32 message.(vid))
  @> when (num_neq message.(pid) 0) (fun w => w @> uint32 16 @> int32 message.(pid))
  @> when (num_neq message.(softwareVersion) 0)
       (fun w => w @> uint32 24 @> uint32 message.(softwareVersion)).

Definition decode_field {PB : Protobuf} (tag : Z) (message : t) : RM t :=
  match field_number tag with
  | 1 => v ← read_int32; mret (message <| vid := Int v |>)
  | 2 => v ← read_int32; mret (message <| pid := Int v |>)
  | 3 => v ← read_uint32; mret (message <| softwareVersion := Int v |>)
  | _ => _ ← skipType (wire_type tag); mret message
  end.

Definition decode {PB : Protobuf} (length : option Z) : RM t :=
  decode_message length base decode_field.

Definition fromJSON (object : js) : result t :=
  vid' ← field_or object "vid" js_Number 0;
  pid' ← field_or object "pid" js_Number 0;
  softwareVersion' ← field_or object "softwareVersion" js_Number 0;
  Ok (mk vid' pid' softwareVersion').

Definition toJSON (message : t) : js :=
  Obj ([("vid", Num message.(vid));
    ("pid", Num message.(pid));
    ("softwareVersion", Num message.(softwareVersion))]).

Record partial := mkPartial {
  p_vid : option number;
  p_pid : option number;
  p_softwareVersion : option number;
}.

Definition fromPartial (object : partial) : t := {|
  vid := object.(p_vid) ?? Int 0;
  pid := object.(p_pid) ?? Int 0;
  softwareVersion := object.(p_softwareVersion) ?? Int 0;
|}.

(** The object with no property given. *)
Definition nothing : partial := mkPartial None None None.

(** The bytes [encode] writes. *)
Definition wire {PB : Protobuf} {PS : ProtobufSpec PB} (m : t) : bytes :=
  f_number e_int32 8 m.(vid) ++
  f_number e_int32 16 m.(pid) ++
  f_number e_uint32 24 m.(softwareVersion).

Definition valid (m : t) : Prop :=
  int32_ok m.(vid) ∧ int32_ok m.(pid) ∧ uint32_ok m.(softwareVersion).

Definition encodable {PB : Protobuf} {PS : ProtobufSpec PB} (m : t) : Prop :=
  valid m ∧ small (wire m).

Definition merge (m a : t) : t := {|
  vid := later_number m.(vid) a.(vid);
  pid := later_number m.(pid) a.(pid);
  softwareVersion := later_number m.(softwareVersion) a.(softwareVersion);
|}.

(** A whole message seen as a partial one. *)
Definition full (m : t) : partial := {|
  p_vid := Some m.(vid);
  p_pid := Some m.(pid);
  p_softwareVersion := Some m.(softwareVersion);
|}.

(** The message as its [.proto] file declares it. *)
Definition schema (m : t) : list field :=
  [implicit 1 (VInt Int32 m.(vid));
   implicit 2 (VInt Int32 m.(pid));
   implicit 3 (VInt Uint32 m.(softwareVersion))].

(** The message with its default for every property that is not kept. *)
Definition only (kept : string → bool) (m : t) : t := {|
  vid := if kept "vid" then m.(vid) else Int 0;
  pid := if kept "pid" then m.(pid) else Int 0;
  softwareVersion := if kept "softwareVersion" then m.(softwareVersion) else Int 0;
|}.

#[global] Instance codec {PB : Protobuf} : MessageCodec t :=
  {| msg_base := base; msg_encode := encode; msg_field := decode_field |}.

#[global] Program Instance spec {PB : Protobuf} (PS : ProtobufSpec PB) : MessageSpec PS t :=
  {| msg_wire := wire; msg_valid := valid; msg_merge := merge |}.
Next Obligation. solve_encode_wire. Qed.
Next Obligation. solve_decode_wire. Qed.
Next Obligation. solve_merge_base. Qed.
Next Obligation. intros. solve_advances decode_field. Qed.

#[global] Program Instance data : MessageData t partial :=
  {| msg_fromJSON := fromJSON; msg_toJSON := toJSON;
     msg_fromPartial := fromPartial; msg_full := full |}.
Next Obligation. solve_json fromJSON toJSON. Qed.
Next Obligation. solve_partial fromPartial full. Qed.

#[global] Instance schema_wire {PB : Protobuf} {PS : ProtobufSpec PB} : WireSchema wire schema.
Proof. solve_schema_wire wire schema. Qed.

#[global] Instance schema_merge : MergeSchema merge schema.
Proof. solve_schema_merge merge schema. Qed.

(** Its row in the table of message types. *)
Definition message {PB : Protobuf} {PS : ProtobufSpec PB} : message_type :=
  plain_message "QueryGetModelVersionRequest" nothing true schema only.

#[global] Instance message_lawful {PB : Protobuf} (PS : ProtobufSpec PB) : Lawful message.
Proof. solve_lawful decode_field fromJSON only. Qed.

End QueryGetModelVersionRequest.

(** ** [QueryGetModelVersionResponse] (model/query.js) *)

Module QueryGetModelVersionResponse.

Record t := mk {
  modelVersion : option ModelVersion.t;
}.

#[global] Instance t_eta : Settable t := λ m, mk m.(modelVersion).

Definition base : t := mk None.

Definition encode {PB : Protobuf} (message : t) (writer : Writer) : Writer :=
  writer
  @> defined message.(modelVersion) (fun v w => w @> uint32 10 @> fork @> ModelVersion.encode v @> ldelim).

Definition decode_field {PB : Protobuf} (tag : Z) (message : t) : RM t :=
  match field_number tag with
  | 1 => v ← read_nested ModelVersion.decode; mret (message <| modelVersion := Some v |>)
  | _ => _ ← skipType (wire_type tag); mret message
  end.

Definition decode {PB : Protobuf} (length : option Z) : RM t :=
  decode_message length base decode_field.

Definition fromJSON (object : js) : result t :=
  modelVersion' ← field_or object "modelVersion" (to_some ModelVersion.fromJSON) None;
  Ok (mk modelVersion').

Definition toJSON (message : t) : js :=
  Obj (prop_opt "modelVersion" ModelVersion.toJSON message.(modelVersion)).

Record partial := mkPartial {
  p_modelVersion : option ModelVersion.partial;
}.

Definition fromPartial (object : partial) : t := {|
  modelVersion := ModelVersion.fromPartial <$> object.(p_modelVersion);
|}.

(** The object with no property given. *)
Definition nothing : partial := mkPartial None.

(** The bytes [encode] writes. *)
Definition wire {PB : Protobuf} {PS : ProtobufSpec PB} (m : t) : bytes :=
  f_message 10 ModelVersion.wire m.(modelVersion).

Definition valid (m : t) : Prop :=
  from_option ModelVersion.valid True m.(modelVersion).

Definition encodable {PB : Protobuf} {PS : ProtobufSpec PB} (m : t) : Prop :=
  valid m ∧ small (wire m).

Definition merge (m a : t) : t := {|
  modelVersion := later_message m.(modelVersion) a.(modelVersion);
|}.

(** A whole message seen as a partial one. *)
Definition full (m : t) : partial := {|
  p_modelVersion := ModelVersion.full <$> m.(modelVersion);
|}.

(** The message as its [.proto] file declares it. *)
Definition schema (m : t) : list field :=
  [singular 1 Optional (message_value ModelVersion.schema) m.(modelVersion)].

(** The message with its default for every property that is not kept. *)
Definition only (kept : string → bool) (m : t) : t := {|
  modelVersion := if kept "modelVersion" then m.(modelVersion) else None;
|}.

#[global] Instance codec {PB : Protobuf} : MessageCodec t :=
  {| msg_base := base; msg_encode := encode; msg_field := decode_field |}.

#[global] Program Instance spec {PB : Protobuf} (PS : ProtobufSpec PB) : MessageSpec PS t :=
  {| msg_wire := wire; msg_valid := valid; msg_merge := merge |}.
Next Obligation. solve_encode_wire. Qed.
Next Obligation. solve_decode_wire. Qed.
Next Obligation. solve_merge_base. Qed.
Next Obligation. intros. solve_advances decode_field. Qed.

#[global] Program Instance data : MessageData t partial :=
  {| msg_fromJSON := fromJSON; msg_toJSON := toJSON;
     msg_fromPartial := fromPartial; msg_full := full |}.
Next Obligation. solve_json fromJSON toJSON. Qed.
Next Obligation. solve_partial fromPartial full. Qed.

#[global] Instance schema_wire {PB : Protobuf} {PS : ProtobufSpec PB} : WireSchema wire schema.
Proof. solve_schema_wire wire schema. Qed.

#[global] Instance schema_merge : MergeSchema merge schema.
Proof. solve_schema_merge merge schema. Qed.

(** Its row in the table of message types. *)
Definition message {PB : Protobuf} {PS : ProtobufSpec PB} : message_type :=
  plain_message "QueryGetModelVersionResponse" nothing true schema only.

#[global] Instance message_lawful {PB : Protobuf} (PS : ProtobufSpec PB) : Lawful message.
Proof. solve_lawful decode_field fromJSON only. Qed.

End QueryGetModelVersionResponse.

(** ** [QueryGetModelVersionsRequest] (model/query.js) *)

Module QueryGetModelVersionsRequest.

Record t := mk {
  vid : number;
  pid : number;
}.

#[global] Instance t_eta : Settable t := λ m, mk m.(vid) m.(pid).

Definition base : t := mk 0 0.

Definition encode {PB : Protobuf} (message : t) (writer : Writer) : Writer :=
  writer
  @> when (num_neq message.(vid) 0) (fun w => w @> uint32 8 @> int32 message.(vid))
  @> when (num_neq message.(pid) 0) (fun w => w @> uint32 16 @> int32 message.(pid)).

Definition decode_field {PB : Protobuf} (tag : Z) (message : t) : RM t :=
  match field_number tag with
  | 1 => v ← read_int32; mret (message <| vid := Int v |>)
  | 2 => v ← read_int32; mret (message <| pid := Int v |>)
  | _ => _ ← skipType (wire_type tag); mret message
  end.

Definition decode {PB : Protobuf} (length : option Z) : RM t :=
  decode_message length base decode_field.

Definition fromJSON (object : js) : result t :=
  vid' ← field_or object "vid" js_Number 0;
  pid' ← field_or object "pid" js_Number 0;
  Ok (mk vid' pid').

Definition toJSON (message : t) : js :=
  Obj ([("vid", Num message.(vid));
    ("pid", Num message.(pid))]).

Record partial := mkPartial {
  p_vid : option number;
  p_pid : option number;
}.

Definition fromPartial (object : partial) : t := {|
  vid := object.(p_vid) ?? Int 0;
  pid := object.(p_pid) ?? Int 0;
|}.

(** The object with no property given. *)
Definition nothing : partial := mkPartial None None.

(** The bytes [encode] writes. *)
Definition wire {PB : Protobuf} {PS : ProtobufSpec PB} (m : t) : bytes :=
  f_number e_int32 8 m.(vid) ++
  f_number e_int32 16 m.(pid).

Definition valid (m : t) : Prop :=
  int32_ok m.(vid) ∧ int32_ok m.(pid).

Definition encodable {PB : Protobuf} {PS : ProtobufSpec PB} (m : t) : Prop :=
  valid m ∧ small (wire m).

Definition merge (m a : t) : t := {|
  vid := later_number m.(vid) a.(vid);
  pid := later_number m.(pid) a.(pid);
|}.

(** A whole message seen as a partial one. *)
Definition full (m : t) : partial := {|
  p_vid := Some m.(vid);
  p_pid := Some m.(pid);
|}.

(** The message as its [.proto] file declares it. *)
Definition schema (m : t) : list field :=
  [implicit 1 (VInt Int32 m.(vid));
   implicit 2 (VInt Int32 m.(pid))].

(** The message with its default for every property that is not kept. *)
Definition only (kept : string → bool) (m : t) : t := {|
  vid := if kept "vid" then m.(vid) else Int 0;
  pid := if kept "pid" then m.(pid) else Int 0;
|}.

#[global] Instance codec {PB : Protobuf} : MessageCodec t :=
  {| msg_base := base; msg_encode := encode; msg_field := decode_field |}.

#[global] Program Instance spec {PB : Protobuf} (PS : ProtobufSpec PB) : MessageSpec PS t :=
  {| msg_wire := wire; msg_valid := valid; msg_merge := merge |}.
Next Obligation. solve_encode_wire. Qed.
Next Obligation. solve_decode_wire. Qed.
Next Obligation. solve_merge_base. Qed.
Next Obligation. intros. solve_advances decode_field. Qed.

#[global] Program Instance data : MessageData t partial :=
  {| msg_fromJSON := fromJSON; msg_toJSON := toJSON;
     msg_fromPartial := fromPartial; msg_full := full |}.
Next Obligation. solve_json fromJSON toJSON. Qed.
Next Obligation. solve_partial fromPartial full. Qed.

#[global] Instance schema_wire {PB : Protobuf} {PS : ProtobufSpec PB} : WireSchema wire schema.
Proof. solve_schema_wire wire schema. Qed.

#[global] Instance schema_merge : MergeSchema merge schema.
Proof. solve_schema_merge merge schema. Qed.

(** Its row in the table of message types. *)
Definition message {PB : Protobuf} {PS : ProtobufSpec PB} : message_type :=
  plain_message "QueryGetModelVersionsRequest" nothing true schema only.

#[global] Instance message_lawful {PB : Protobuf} (PS : ProtobufSpec PB) : Lawful message.
Proof. solve_lawful decode_field fromJSON only. Qed.

End QueryGetModelVersionsRequest.

(** ** [QueryGetModelVersionsResponse] (model/query.js) *)

Module QueryGetModelVersionsResponse.

Record t := mk {
  modelVersions : option ModelVersions.t;
}.

#[global] Instance t_eta : Settable t := λ m, mk m.(modelVersions).

Definition base : t := mk None.

Definition encode {PB : Protobuf} (message : t) (writer : Writer) : Writer :=
  writer
  @> defined message.(modelVersions) (fun v w => w @> uint32 10 @> fork @> ModelVersions.encode v @> ldelim).

Definition decode_field {PB : Protobuf} (tag : Z) (message : t) : RM t :=
  match field_number tag with
  | 1 => v ← read_nested ModelVersions.decode; mret (message <| modelVersions := Some v |>)
  | _ => _ ← skipType (wire_type tag); mret message
  end.

Definition decode {PB : Protobuf} (length : option Z) : RM t :=
  decode_message length base decode_field.

Definition fromJSON (object : js) : result t :=
  modelVersions' ← field_or object "modelVersions" (to_some ModelVersions.fromJSON) None;
  Ok (mk modelVersions').

Definition toJSON (message : t) : js :=
  Obj (prop_opt "modelVersions" ModelVersions.toJSON message.(modelVersions)).

Record partial := mkPartial {
  p_modelVersions : option ModelVersions.partial;
}.

Definition fromPartial (object : partial) : t := {|
  modelVersions := ModelVersions.fromPartial <$> object.(p_modelVersions);
|}.

(** The object with no property given. *)
Definition nothing : partial := mkPartial None.

(** The bytes [encode] writes. *)
Definition wire {PB : Protobuf} {PS : ProtobufSpec PB} (m : t) : bytes :=
  f_message 10 ModelVersions.wire m.(modelVersions).

Definition valid (m : t) : Prop :=
  from_option ModelVersions.valid True m.(modelVersions).

Definition encodable {PB : Protobuf} {PS : ProtobufSpec PB} (m : t) : Prop :=
  valid m ∧ small (wire m).

Definition merge (m a : t) : t := {|
  modelVersions := later_message m.(modelVersions) a.(modelVersions);
|}.

(** A whole message seen as a partial one. *)
Definition full (m : t) : partial := {|
  p_modelVersions := ModelVersions.full <$> m.(modelVersions);
|}.

(** The message as its [.proto] file declares it. *)
Definition schema (m : t) : list field :=
  [singular 1 Optional (message_value ModelVersions.schema) m.(modelVersions)].

(** The message with its default for every property that is not kept. *)
Definition only (kept : string → bool) (m : t) : t := {|
  modelVersions := if kept "modelVersions" then m.(modelVersions) else None;
|}.

#[global] Instance codec {PB : Protobuf} : MessageCodec t :=
  {| msg_base := base; msg_encode := encode; msg_field := decode_field |}.

#[global] Program Instance spec {PB : Protobuf} (PS : ProtobufSpec PB) : MessageSpec PS t :=
  {| msg_wire := wire; msg_valid := valid; msg_merge := merge |}.
Next Obligation. solve_encode_wire. Qed.
Next Obligation. solve_decode_wire. Qed.
Next Obligation. solve_merge_base. Qed.
Next Obligation. intros. solve_advances decode_field. Qed.

#[global] Program Instance data : MessageData t partial :=
  {| msg_fromJSON := fromJSON; msg_toJSON := toJSON;
     msg_fromPartial := fromPartial; msg_full := full |}.
Next Obligation. solve_json fromJSON toJSON. Qed.
Next Obligation. solve_partial fromPartial full. Qed.

#[global] Instance schema_wire {PB : Protobuf} {PS : ProtobufSpec PB} : WireSchema wire schema.
Proof. solve_schema_wire wire schema. Qed.

#[global] Instance schema_merge : MergeSchema merge schema.
Proof. solve_schema_merge merge schema. Qed.

(** Its row in the table of message types. *)
Definition message {PB : Protobuf} {PS : ProtobufSpec PB} : message_type :=
  plain_message "QueryGetModelVersionsResponse" nothing true schema only.

#[global] Instance message_lawful {PB : Protobuf} (PS : ProtobufSpec PB) : Lawful message.
Proof. solve_lawful decode_field fromJSON only. Qed.

End QueryGetModelVersionsResponse.

(** ** [GenesisState] (model/genesis.js) *)

Module GenesisState.

Record t := mk {
  vendorProductsList : list VendorProducts.t;
  modelList : list Model.t;
  modelVersionList : list ModelVersion.t;
  modelVersionsList : list ModelVersions.t;
}.

#[global] Instance t_eta : Settable t := λ m, mk m.(vendorProductsList) m.(modelList)
  m.(modelVersionList) m.(modelVersionsList).

Definition base : t := mk [] [] [] [].

Definition encode {PB : Protobuf} (message : t) (writer : Writer) : Writer :=
  writer
  @> each message.(vendorProductsList) (fun v w => w @> uint32 10 @> fork @> VendorProducts.encode v @> ldelim)
  @> each message.(modelList) (fun v w => w @> uint32 18 @> fork @> Model.encode v @> ldelim)
  @> each message.(modelVersionList) (fun v w => w @> uint32 26 @> fork @> ModelVersion.encode v @> ldelim)
  @> each message.(modelVersionsList) (fun v w => w @> uint32 34 @> fork @> ModelVersions.encode v @> ldelim).

Definition decode_field {PB : Protobuf} (tag : Z) (message : t) : RM t :=
  match field_number tag with
  | 1 => v ← read_nested VendorProducts.decode;
         mret (message <| vendorProductsList := message.(vendorProductsList) ++ [v] |>)
  | 2 => v ← read_nested Model.decode; mret (message <| modelList := message.(modelList) ++ [v] |>)
  | 3 => v ← read_nested ModelVersion.decode;
         mret (message <| modelVersionList := message.(modelVersionList) ++ [v] |>)
  | 4 => v ← read_nested ModelVersions.decode;
         mret (message <| modelVersionsList := message.(modelVersionsList) ++ [v] |>)
  | _ => _ ← skipType (wire_type tag); mret message
  end.

Definition decode {PB : Protobuf} (length : option Z) : RM t :=
  decode_message length base decode_field.

Definition fromJSON (object : js) : result t :=
  vendorProductsList' ← field_or object "vendorProductsList" (to_list VendorProducts.fromJSON) [];
  modelList' ← field_or object "modelList" (to_list Model.fromJSON) [];
  modelVersionList' ← field_or object "modelVersionList" (to_list ModelVersion.fromJSON) [];
  modelVersionsList' ← field_or object "modelVersionsList" (to_list ModelVersions.fromJSON) [];
  Ok (mk vendorProductsList' modelList' modelVersionList' modelVersionsList').

Definition toJSON (message : t) : js :=
  Obj ([("vendorProductsList", Arr (map VendorProducts.toJSON message.(vendorProductsList)));
    ("modelList", Arr (map Model.toJSON message.(modelList)));
    ("modelVersionList", Arr (map ModelVersion.toJSON message.(modelVersionList)));
    ("modelVersionsList", Arr (map ModelVersions.toJSON message.(modelVersionsList)))]).

Record partial := mkPartial {
  p_vendorProductsList : option (list VendorProducts.partial);
  p_modelList : option (list Model.partial);
  p_modelVersionList : option (list ModelVersion.partial);
  p_modelVersionsList : option (list ModelVersions.partial);
}.

Definition fromPartial (object : partial) : t := {|
  vendorProductsList := map VendorProducts.fromPartial (object.(p_vendorProductsList) ?? []);
  modelList := map Model.fromPartial (object.(p_modelList) ?? []);
  modelVersionList := map ModelVersion.fromPartial (object.(p_modelVersionList) ?? []);
  modelVersionsList := map ModelVersions.fromPartial (object.(p_modelVersionsList) ?? []);
|}.

(** The object with no property given. *)
Definition nothing : partial := mkPartial None None None None.

(** The bytes [encode] writes. *)
Definition wire {PB : Protobuf} {PS : ProtobufSpec PB} (m : t) : bytes :=
  f_repeated 10 VendorProducts.wire m.(vendorProductsList) ++
  f_repeated 18 Model.wire m.(modelList) ++
  f_repeated 26 ModelVersion.wire m.(modelVersionList) ++
  f_repeated 34 ModelVersions.wire m.(modelVersionsList).

Definition valid (m : t) : Prop :=
  Forall VendorProducts.valid m.(vendorProductsList) ∧ Forall Model.valid m.(modelList) ∧ Forall ModelVersion.valid m.(modelVersionList) ∧ Forall ModelVersions.valid m.(modelVersionsList).

Definition encodable {PB : Protobuf} {PS : ProtobufSpec PB} (m : t) : Prop :=
  valid m ∧ small (wire m).

Definition merge (m a : t) : t := {|
  vendorProductsList := m.(vendorProductsList) ++ a.(vendorProductsList);
  modelList := m.(modelList) ++ a.(modelList);
  modelVersionList := m.(modelVersionList) ++ a.(modelVersionList);
  modelVersionsList := m.(modelVersionsList) ++ a.(modelVersionsList);
|}.

(** A whole message seen as a partial one. *)
Definition full (m : t) : partial := {|
  p_vendorProductsList := Some (map VendorProducts.full m.(vendorProductsList));
  p_modelList := Some (map Model.full m.(modelList));
  p_modelVersionList := Some (map ModelVersion.full m.(modelVersionList));
  p_modelVersionsList := Some (map ModelVersions.full m.(modelVersionsList));
|}.

(** The message as its [.proto] file declares it. *)
Definition schema (m : t) : list field :=
  [repeated 1 (message_value VendorProducts.schema) m.(vendorProductsList);
   repeated 2 (message_value Model.schema) m.(modelList);
   repeated 3 (message_value ModelVersion.schema) m.(modelVersionList);
   repeated 4 (message_value ModelVersions.schema) m.(modelVersionsList)].

(** The message with its default for every property that is not kept. *)
Definition only (kept : string → bool) (m : t) : t := {|
  vendorProductsList := if kept "vendorProductsList" then m.(vendorProductsList) else [];
  modelList := if kept "modelList" then m.(modelList) else [];
  modelVersionList := if kept "modelVersionList" then m.(modelVersionList) else [];
  modelVersionsList := if kept "modelVersionsList" then m.(modelVersionsList) else [];
|}.

#[global] Instance codec {PB : Protobuf} : MessageCodec t :=
  {| msg_base := base; msg_encode := encode; msg_field := decode_field |}.

#[global] Program Instance spec {PB : Protobuf} (PS : ProtobufSpec PB) : MessageSpec PS t :=
  {| msg_wire := wire; msg_valid := valid; msg_merge := merge |}.
Next Obligation. solve_encode_wire. Qed.
Next Obligation. solve_decode_wire. Qed.
Next Obligation. solve_merge_base. Qed.
Next Obligation. intros. solve_advances decode_field. Qed.

#[global] Program Instance data : MessageData t partial :=
  {| msg_fromJSON := fromJSON; msg_toJSON := toJSON;
     msg_fromPartial := fromPartial; msg_full := full |}.
Next Obligation. solve_json fromJSON toJSON. Qed.
Next Obligation. solve_partial fromPartial full. Qed.

#[global] Instance schema_wire {PB : Protobuf} {PS : ProtobufSpec PB} : WireSchema wire schema.
Proof. solve_schema_wire wire schema. Qed.

#[global] Instance schema_merge : MergeSchema merge schema.
Proof. solve_schema_merge merge schema. Qed.

(** Its row in the table of message types. *)
Definition message {PB : Protobuf} {PS : ProtobufSpec PB} : message_type :=
  plain_message "GenesisState" nothing true schema only.

#[global] Instance message_lawful {PB : Protobuf} (PS : ProtobufSpec PB) : Lawful message.
Proof. solve_lawful decode_field fromJSON only. Qed.

End GenesisState.


(** ** [QueryClientImpl]

    [rpc] is the transport the class is constructed with: [rpc service method data]
    is what the promise of [this.rpc.request] settles to. *)
Module QueryClientImpl.
Section client.
Context {PB : Protobuf} (rpc : string → string → bytes → result bytes).

Definition VendorProducts (request : QueryGetVendorProductsRequest.t)
    : result QueryGetVendorProductsResponse.t :=
  data ← rpc "zigbeealliance.distributedcomplianceledger.model.Query" "VendorProducts"
    (finish (QueryGetVendorProductsRequest.encode request create));
  decode_bytes QueryGetVendorProductsResponse.decode data.

Definition Model (request : QueryGetModelRequest.t) : result QueryGetModelResponse.t :=
  data ← rpc "zigbeealliance.distributedcomplianceledger.model.Query" "Model"
    (finish (QueryGetModelRequest.encode request create));
  decode_bytes QueryGetModelResponse.decode data.

Definition ModelAll (request : QueryAllModelRequest.t) : result QueryAllModelResponse.t :=
  w ← QueryAllModelRequest.encode request create;
  data ← rpc "zigbeealliance.distributedcomplianceledger.model.Query" "ModelAll" (finish w);
  decode_bytes QueryAllModelResponse.decode data.

Definition ModelVersion (request : QueryGetModelVersionRequest.t)
    : result QueryGetModelVersionResponse.t :=
  data ← rpc "zigbeealliance.distributedcomplianceledger.model.Query" "ModelVersion"
    (finish (QueryGetModelVersionRequest.encode request create));
  decode_bytes QueryGetModelVersionResponse.decode data.

Definition ModelVersions (request : QueryGetModelVersionsRequest.t)
    : result QueryGetModelVersionsResponse.t :=
  data ← rpc "zigbeealliance.distributedcomplianceledger.model.Query" "ModelVersions"
    (finish (QueryGetModelVersionsRequest.encode request create));
  decode_bytes QueryGetModelVersionsResponse.decode data.

End client.
End QueryClientImpl.

(** ** The message types of this file *)

Definition messages {PB : Protobuf} {PS : ProtobufSpec PB} : list message_type :=
  [ QueryGetVendorProductsRequest.message; QueryGetVendorProductsResponse.message;
   QueryGetModelRequest.message; QueryGetModelResponse.message; QueryAllModelRequest.message;
   QueryAllModelResponse.message; QueryGetModelVersionRequest.message;
   QueryGetModelVersionResponse.message; QueryGetModelVersionsRequest.message;
   QueryGetModelVersionsResponse.message; GenesisState.message].

Lemma ModelQuery_lawful {PB : Protobuf} {PS : ProtobufSpec PB} : Forall Lawful messages.
Proof. solve_table. Qed.

(** The methods of [QueryClientImpl]. *)
Definition query_methods {PB : Protobuf} {PS : ProtobufSpec PB} : list rpc_method :=
  [mkMethod "zigbeealliance.distributedcomplianceledger.model.Query" "VendorProducts"
     QueryGetVendorProductsRequest.message QueryGetVendorProductsResponse.message
     (fun rpc => QueryClientImpl.VendorProducts rpc);
   mkMethod "zigbeealliance.distributedcomplianceledger.model.Query" "Model"
     QueryGetModelRequest.message QueryGetModelResponse.message
     (fun rpc => QueryClientImpl.Model rpc);
   mkMethod "zigbeealliance.distributedcomplianceledger.model.Query" "ModelAll"
     QueryAllModelRequest.message QueryAllModelResponse.message
     (fun rpc => QueryClientImpl.ModelAll rpc);
   mkMethod "zigbeealliance.distributedcomplianceledger.model.Query" "ModelVersion"
     QueryGetModelVersionRequest.message QueryGetModelVersionResponse.message
     (fun rpc => QueryClientImpl.ModelVersion rpc);
   mkMethod "zigbeealliance.distributedcomplianceledger.model.Query" "ModelVersions"
     QueryGetModelVersionsRequest.message QueryGetModelVersionsResponse.message
     (fun rpc => QueryClientImpl.ModelVersions rpc)].

Lemma ModelQuery_query_methods_lawful {PB : Protobuf} {PS : ProtobufSpec PB} : Forall method_lawful query_methods.
Proof. solve_methods. Qed.
