(* ===== verification/VendorinfoTypes.v ===== *)
(** * The types of the vendorinfo module

    Vendor records and the messages that create and update them: the codecs of
    [vendorinfo/module/types/vendorinfo/*.js]. *)
From S2P Require Import Prelude Js Protobuf Codec Calendar Dates Base64 Fallible Proto3 MessageTable CommonTypes.
Open Scope Z_scope.

(** ** [VendorInfo] (vendorinfo/vendor_info.js) *)

Module VendorInfo.

Record t := mk {
  vendorID : number;
  vendorName : string;
  companyLegalName : string;
  companyPreferredName : string;
  vendorLandingPageURL : string;
  creator : string;
}.

#[global] Instance t_eta : Settable t := λ m, mk m.(vendorID) m.(vendorName)
  m.(companyLegalName) m.(companyPreferredName) m.(vendorLandingPageURL) m.(creator).

Definition base : t := mk 0 "" "" "" "" "".

Definition encode {PB : Protobuf} (message : t) (writer : Writer) : Writer :=
  writer
  @> when (num_neq message.(vendorID) 0) (fun w => w @> uint32 8 @> int32 message.(vendorID))
  @> when (str_neq message.(vendorName) "")
       (fun w => w @> uint32 18 @> string_ message.(vendorName))
  @> when (str_neq message.(companyLegalName) "")
       (fun w => w @> uint32 26 @> string_ message.(companyLegalName))
  @> when (str_neq message.(companyPreferredName) "")
       (fun w => w @> uint32 34 @> string_ message.(companyPreferredName))
  @> when (str_neq message.(vendorLandingPageURL) "")
       (fun w => w @> uint32 42 @> string_ message.(vendorLandingPageURL))
  @> when (str_neq message.(creator) "") (fun w => w @> uint32 50 @> string_ message.(creator)).

Definition decode_field {PB : Protobuf} (tag : Z) (message : t) : RM t :=
  match field_number tag with
  | 1 => v ← read_int32; mret (message <| vendorID := Int v |>)
  | 2 => v ← read_string; mret (message <| vendorName := v |>)
  | 3 => v ← read_string; mret (message <| companyLegalName := v |>)
  | 4 => v ← read_string; mret (message <| companyPreferredName := v |>)
  | 5 => v ← read_string; mret (message <| vendorLandingPageURL := v |>)
  | 6 => v ← read_string; mret (message <| creator := v |>)
  | _ => _ ← skipType (wire_type tag); mret message
  end.

Definition decode {PB : Protobuf} (length : option Z) : RM t :=
  decode_message length base decode_field.

Definition fromJSON (object : js) : result t :=
  vendorID' ← field_or object "vendorID" js_Number 0;
  vendorName' ← field_or object "vendorName" to_string "";
  companyLegalName' ← field_or object "companyLegalName" to_string "";
  companyPreferredName' ← field_or object "companyPreferredName" to_string "";
  vendorLandingPageURL' ← field_or object "vendorLandingPageURL" to_string "";
  creator' ← field_or object "creator" to_string "";
  Ok (mk vendorID' vendorName' companyLegalName' companyPreferredName' vendorLandingPageURL'
    creator').

Definition toJSON (message : t) : js :=
  Obj ([("vendorID", Num message.(vendorID));
    ("vendorName", Str message.(vendorName));
    ("companyLegalName", Str message.(companyLegalName));
    ("companyPreferredName", Str message.(companyPreferredName));
    ("vendorLandingPageURL", Str message.(vendorLandingPageURL));
    ("creator", Str message.(creator))]).

Record partial := mkPartial {
  p_vendorID : option number;
  p_vendorName : option string;
  p_companyLegalName : option string;
  p_companyPreferredName : option string;
  p_vendorLandingPageURL : option string;
  p_creator : option string;
}.

Definition fromPartial (object : partial) : t := {|
  vendorID := object.(p_vendorID) ?? Int 0;
  vendorName := object.(p_vendorName) ?? "";
  companyLegalName := object.(p_companyLegalName) ?? "";
  companyPreferredName := object.(p_companyPreferredName) ?? "";
  vendorLandingPageURL := object.(p_vendorLandingPageURL) ?? "";
  creator := object.(p_creator) ?? "";
|}.

(** The object with no property given. *)
Definition nothing : partial := mkPartial None None None None None None.

(** The bytes [encode] writes. *)
Definition wire {PB : Protobuf} {PS : ProtobufSpec PB} (m : t) : bytes :=
  f_number e_int32 8 m.(vendorID) ++
  f_string 18 m.(vendorName) ++
  f_string 26 m.(companyLegalName) ++
  f_string 34 m.(companyPreferredName) ++
  f_string 42 m.(vendorLandingPageURL) ++
  f_string 50 m.(creator).

Definition valid (m : t) : Prop :=
  int32_ok m.(vendorID).

Definition encodable {PB : Protobuf} {PS : ProtobufSpec PB} (m : t) : Prop :=
  valid m ∧ small (wire m).

Definition merge (m a : t) : t := {|
  vendorID := later_number m.(vendorID) a.(vendorID);
  vendorName := later_string m.(vendorName) a.(vendorName);
  companyLegalName := later_string m.(companyLegalName) a.(companyLegalName);
  companyPreferredName := later_string m.(companyPreferredName) a.(companyPreferredName);
  vendorLandingPageURL := later_string m.(vendorLandingPageURL) a.(vendorLandingPageURL);
  creator := later_string m.(creator) a.(creator);
|}.

(** A whole message seen as a partial one. *)
Definition full (m : t) : partial := {|
  p_vendorID := Some m.(vendorID);
  p_vendorName := Some m.(vendorName);
  p_companyLegalName := Some m.(companyLegalName);
  p_companyPreferredName := Some m.(companyPreferredName);
  p_vendorLandingPageURL := Some m.(vendorLandingPageURL);
  p_creator := Some m.(creator);
|}.

(** The message as its [.proto] file declares it. *)
Definition schema (m : t) : list field :=
  [implicit 1 (VInt Int32 m.(vendorID));
   implicit 2 (VString m.(vendorName));
   implicit 3 (VString m.(companyLegalName));
   implicit 4 (VString m.(companyPreferredName));
   implicit 5 (VString m.(vendorLandingPageURL));
   implicit 6 (VString m.(creator))].

(** The message with its default for every property that is not kept. *)
Definition only (kept : string → bool) (m : t) : t := {|
  vendorID := if kept "vendorID" then m.(vendorID) else Int 0;
  vendorName := if kept "vendorName" then m.(vendorName) else "";
  companyLegalName := if kept "companyLegalName" then m.(companyLegalName) else "";
  companyPreferredName := if kept "companyPreferredName" then m.(companyPreferredName) else "";
  vendorLandingPageURL := if kept "vendorLandingPageURL" then m.(vendorLandingPageURL) else "";
  creator := if kept "creator" then m.(creator) else "";
|}.

#[global] Instance codec {PB : Protobuf} : MessageCodec t :=
  {| msg_base := base; msg_encode := encode; msg_field := decode_field |}.

#[global] Program Instance spec {PB : Protobuf} (PS : ProtobufSpec PB) : MessageSpec PS t :=
  {| msg_wire := wire; msg_valid := valid; msg_merge := merge |}.
Next Obligation. solve_encode_wire. Qed.
Next Obligation. solve_decode_wire. Qed.
Next Obligation. solve_merge_base. Qed.
Next Obligation. intros. solve_advances decode_field. Qed.

#[global] Program Instance data : MessageData t partial :=
  {| msg_fromJSON := fromJSON; msg_toJSON := toJSON;
     msg_fromPartial := fromPartial; msg_full := full |}.
Next Obligation. solve_json fromJSON toJSON. Qed.
Next Obligation. solve_partial fromPartial full. Qed.

#[global] Instance schema_wire {PB : Protobuf} {PS : ProtobufSpec PB} : WireSchema wire schema.
Proof. solve_schema_wire wire schema. Qed.

#[global] Instance schema_merge : MergeSchema merge schema.
Proof. solve_schema_merge merge schema. Qed.

(** Its row in the table of message types. *)
Definition message {PB : Protobuf} {PS : ProtobufSpec PB} : message_type :=
  plain_message "VendorInfo" nothing true schema only.

#[global] Instance message_lawful {PB : Protobuf} (PS : ProtobufSpec PB) : Lawful message.
Proof. solve_lawful decode_field fromJSON only. Qed.

End VendorInfo.

(** ** [MsgCreateVendorInfo] (vendorinfo/tx.js) *)

Module MsgCreateVendorInfo.

Record t := mk {
  creator : string;
  vendorID : number;
  vendorName : string;
  companyLegalName : string;
  companyPreferredName : string;
  vendorLandingPageURL : string;
}.

#[global] Instance t_eta : Settable t := λ m, mk m.(creator) m.(vendorID) m.(vendorName)
  m.(companyLegalName) m.(companyPreferredName) m.(vendorLandingPageURL).

Definition base : t := mk "" 0 "" "" "" "".

Definition encode {PB : Protobuf} (message : t) (writer : Writer) : Writer :=
  writer
  @> when (str_neq message.(creator) "") (fun w => w @> uint32 10 @> string_ message.(creator))
  @> when (num_neq message.(vendorID) 0) (fun w => w @> uint32 16 @> int32 message.(vendorID))
  @> when (str_neq message.(vendorName) "")
       (fun w => w @> uint32 26 @> string_ message.(vendorName))
  @> when (str_neq message.(companyLegalName) "")
       (fun w => w @> uint32 34 @> string_ message.(companyLegalName))
  @> when (str_neq message.(companyPreferredName) "")
       (fun w => w @> uint32 42 @> string_ message.(companyPreferredName))
  @> when (str_neq message.(vendorLandingPageURL) "")
       (fun w => w @> uint32 50 @> string_ message.(vendorLandingPageURL)).

Definition decode_field {PB : Protobuf} (tag : Z) (message : t) : RM t :=
  match field_number tag with
  | 1 => v ← read_string; mret (message <| creator := v |>)
  | 2 => v ← read_int32; mret (message <| vendorID := Int v |>)
  | 3 => v ← read_string; mret (message <| vendorName := v |>)
  | 4 => v ← read_string; mret (message <| companyLegalName := v |>)
  | 5 => v ← read_string; mret (message <| companyPreferredName := v |>)
  | 6 => v ← read_string; mret (message <| vendorLandingPageURL := v |>)
  | _ => _ ← skipType (wire_type tag); mret message
  end.

Definition decode {PB : Protobuf} (length : option Z) : RM t :=
  decode_message length base decode_field.

Definition fromJSON (object : js) : result t :=
  creator' ← field_or object "creator" to_string "";
  vendorID' ← field_or object "vendorID" js_Number 0;
  vendorName' ← field_or object "vendorName" to_string "";
  companyLegalName' ← field_or object "companyLegalName" to_string "";
  companyPreferredName' ← field_or object "companyPreferredName" to_string "";
  vendorLandingPageURL' ← field_or object "vendorLandingPageURL" to_string "";
  Ok (mk creator' vendorID' vendorName' companyLegalName' companyPreferredName'
    vendorLandingPageURL').

Definition toJSON (message : t) : js :=
  Obj ([("creator", Str message.(creator));
    ("vendorID", Num message.(vendorID));
    ("vendorName", Str message.(vendorName));
    ("companyLegalName", Str message.(companyLegalName));
    ("companyPreferredName", Str message.(companyPreferredName));
    ("vendorLandingPageURL", Str message.(vendorLandingPageURL))]).

Record partial := mkPartial {
  p_creator : option string;
  p_vendorID : option number;
  p_vendorName : option string;
  p_companyLegalName : option string;
  p_companyPreferredName : option string;
  p_vendorLandingPageURL : option string;
}.

Definition fromPartial (object : partial) : t := {|
  creator := object.(p_creator) ?? "";
  vendorID := object.(p_vendorID) ?? Int 0;
  vendorName := object.(p_vendorName) ?? "";
  companyLegalName := object.(p_companyLegalName) ?? "";
  companyPreferredName := object.(p_companyPreferredName) ?? "";
  vendorLandingPageURL := object.(p_vendorLandingPageURL) ?? "";
|}.

(** The object with no property given. *)
Definition nothing : partial := mkPartial None None None None None None.

(** The bytes [encode] writes. *)
Definition wire {PB : Protobuf} {PS : ProtobufSpec PB} (m : t) : bytes :=
  f_string 10 m.(creator) ++
  f_number e_int32 16 m.(vendorID) ++
  f_string 26 m.(vendorName) ++
  f_string 34 m.(companyLegalName) ++
  f_string 42 m.(companyPreferredName) ++
  f_string 50 m.(vendorLandingPageURL).

Definition valid (m : t) : Prop :=
  int32_ok m.(vendorID).

Definition encodable {PB : Protobuf} {PS : ProtobufSpec PB} (m : t) : Prop :=
  valid m ∧ small (wire m).

Definition merge (m a : t) : t := {|
  creator := later_string m.(creator) a.(creator);
  vendorID := later_number m.(vendorID) a.(vendorID);
  vendorName := later_string m.(vendorName) a.(vendorName);
  companyLegalName := later_string m.(companyLegalName) a.(companyLegalName);
  companyPreferredName := later_string m.(companyPreferredName) a.(companyPreferredName);
  vendorLandingPageURL := later_string m.(vendorLandingPageURL) a.(vendorLandingPageURL);
|}.

(** A whole message seen as a partial one. *)
Definition full (m : t) : partial := {|
  p_creator := Some m.(creator);
  p_vendorID := Some m.(vendorID);
  p_vendorName := Some m.(vendorName);
  p_companyLegalName := Some m.(companyLegalName);
  p_companyPreferredName := Some m.(companyPreferredName);
  p_vendorLandingPageURL := Some m.(vendorLandingPageURL);
|}.

(** The message as its [.proto] file declares it. *)
Definition schema (m : t) : list field :=
  [implicit 1 (VString m.(creator));
   implicit 2 (VInt Int32 m.(vendorID));
   implicit 3 (VString m.(vendorName));
   implicit 4 (VString m.(companyLegalName));
   implicit 5 (VString m.(companyPreferredName));
   implicit 6 (VString m.(vendorLandingPageURL))].

(** The message with its default for every property that is not kept. *)
Definition only (kept : string → bool) (m : t) : t := {|
  creator := if kept "creator" then m.(creator) else "";
  vendorID := if kept "vendorID" then m.(vendorID) else Int 0;
  vendorName := if kept "vendorName" then m.(vendorName) else "";
  companyLegalName := if kept "companyLegalName" then m.(companyLegalName) else "";
  companyPreferredName := if kept "companyPreferredName" then m.(companyPreferredName) else "";
  vendorLandingPageURL := if kept "vendorLandingPageURL" then m.(vendorLandingPageURL) else "";
|}.

#[global] Instance codec {PB : Protobuf} : MessageCodec t :=
  {| msg_base := base; msg_encode := encode; msg_field := decode_field |}.

#[global] Program Instance spec {PB : Protobuf} (PS : ProtobufSpec PB) : MessageSpec PS t :=
  {| msg_wire := wire; msg_valid := valid; msg_merge := merge |}.
Next Obligation. solve_encode_wire. Qed.
Next Obligation. solve_decode_wire. Qed.
Next Obligation. solve_merge_base. Qed.
Next Obligation. intros. solve_advances decode_field. Qed.

#[global] Program Instance data : MessageData t partial :=
  {| msg_fromJSON := fromJSON; msg_toJSON := toJSON;
     msg_fromPartial := fromPartial; msg_full := full |}.
Next Obligation. solve_json fromJSON toJSON. Qed.
Next Obligation. solve_partial fromPartial full. Qed.

#[global] Instance schema_wire {PB : Protobuf} {PS : ProtobufSpec PB} : WireSchema wire schema.
Proof. solve_schema_wire wire schema. Qed.

#[global] Instance schema_merge : MergeSchema merge schema.
Proof. solve_schema_merge merge schema. Qed.

(** Its row in the table of message types. *)
Definition message {PB : Protobuf} {PS : ProtobufSpec PB} : message_type :=
  plain_message "MsgCreateVendorInfo" nothing true schema only.

#[global] Instance message_lawful {PB : Protobuf} (PS : ProtobufSpec PB) : Lawful message.
Proof. solve_lawful decode_field fromJSON only. Qed.

End MsgCreateVendorInfo.

(** ** [MsgCreateVendorInfoResponse] (vendorinfo/tx.js) *)

Module MsgCreateVendorInfoResponse.

Record t := mk {}.

#[global] Instance t_eta : Settable t := λ m, m.

Definition base : t := mk.

Definition encode {PB : Protobuf} (message : t) (writer : Writer) : Writer :=
  writer.

Definition decode_field {PB : Protobuf} (tag : Z) (message : t) : RM t :=
  match field_number tag with
  | _ => _ ← skipType (wire_type tag); mret message
  end.

Definition decode {PB : Protobuf} (length : option Z) : RM t :=
  decode_message length base decode_field.

Definition fromJSON (object : js) : result t :=
  Ok base.

Definition toJSON (message : t) : js :=
  Obj [].

Record partial := mkPartial {}.

Definition fromPartial (object : partial) : t := base.

(** The object with no property given. *)
Definition nothing : partial := mkPartial.

(** The bytes [encode] writes. *)
Definition wire {PB : Protobuf} {PS : ProtobufSpec PB} (m : t) : bytes :=
  [].

Definition valid (m : t) : Prop :=
  True.

Definition encodable {PB : Protobuf} {PS : ProtobufSpec PB} (m : t) : Prop :=
  valid m ∧ small (wire m).

Definition merge (m a : t) : t := m.

(** A whole message seen as a partial one. *)
Definition full (m : t) : partial := mkPartial.

(** The message as its [.proto] file declares it. *)
Definition schema (m : t) : list field :=
  [].

(** The message with its default for every property that is not kept. *)
Definition only (kept : string → bool) (m : t) : t := m.

#[global] Instance codec {PB : Protobuf} : MessageCodec t :=
  {| msg_base := base; msg_encode := encode; msg_field := decode_field |}.

#[global] Program Instance spec {PB : Protobuf} (PS : ProtobufSpec PB) : MessageSpec PS t :=
  {| msg_wire := wire; msg_valid := valid; msg_merge := merge |}.
Next Obligation. solve_encode_wire. Qed.
Next Obligation. solve_decode_wire. Qed.
Next Obligation. solve_merge_base. Qed.
Next Obligation. intros. solve_advances decode_field. Qed.

#[global] Program Instance data : MessageData t partial :=
  {| msg_fromJSON := fromJSON; msg_toJSON := toJSON;
     msg_fromPartial := fromPartial; msg_full := full |}.
Next Obligation. solve_json fromJSON toJSON. Qed.
Next Obligation. solve_partial fromPartial full. Qed.

#[global] Instance schema_wire {PB : Protobuf} {PS : ProtobufSpec PB} : WireSchema wire schema.
Proof. solve_schema_wire wire schema. Qed.

#[global] Instance schema_merge : MergeSchema merge schema.
Proof. solve_schema_merge merge schema. Qed.

(** Its row in the table of message types. *)
Definition message {PB : Protobuf} {PS : ProtobufSpec PB} : message_type :=
  plain_message "MsgCreateVendorInfoResponse" nothing false schema only.

#[global] Instance message_lawful {PB : Protobuf} (PS : ProtobufSpec PB) : Lawful message.
Proof. solve_lawful decode_field fromJSON only. Qed.

End MsgCreateVendorInfoResponse.

(** ** [MsgUpdateVendorInfo] (vendorinfo/tx.js) *)

Module MsgUpdateVendorInfo.

Record t := mk {
  creator : string;
  vendorID : number;
  vendorName : string;
  companyLegalName : string;
  companyPreferredName : string;
  vendorLandingPageURL : string;
}.

#[global] Instance t_eta : Settable t := λ m, mk m.(creator) m.(vendorID) m.(vendorName)
  m.(companyLegalName) m.(companyPreferredName) m.(vendorLandingPageURL).

Definition base : t := mk "" 0 "" "" "" "".

Definition encode {PB : Protobuf} (message : t) (writer : Writer) : Writer :=
  writer
  @> when (str_neq message.(creator) "") (fun w => w @> uint32 10 @> string_ message.(creator))
  @> when (num_neq message.(vendorID) 0) (fun w => w @> uint32 16 @> int32 message.(vendorID))
  @> when (str_neq message.(vendorName) "")
       (fun w => w @> uint32 26 @> string_ message.(vendorName))
  @> when (str_neq message.(companyLegalName) "")
       (fun w => w @> uint32 34 @> string_ message.(companyLegalName))
  @> when (str_neq message.(companyPreferredName) "")
       (fun w => w @> uint32 42 @> string_ message.(companyPreferredName))
  @> when (str_neq message.(vendorLandingPageURL) "")
       (fun w => w @> uint32 50 @> string_ message.(vendorLandingPageURL)).

Definition decode_field {PB : Protobuf} (tag : Z) (message : t) : RM t :=
  match field_number tag with
  | 1 => v ← read_string; mret (message <| creator := v |>)
  | 2 => v ← read_int32; mret (message <| vendorID := Int v |>)
  | 3 => v ← read_string; mret (message <| vendorName := v |>)
  | 4 => v ← read_string; mret (message <| companyLegalName := v |>)
  | 5 => v ← read_string; mret (message <| companyPreferredName := v |>)
  | 6 => v ← read_string; mret (message <| vendorLandingPageURL := v |>)
  | _ => _ ← skipType (wire_type tag); mret message
  end.

Definition decode {PB : Protobuf} (length : option Z) : RM t :=
  decode_message length base decode_field.

Definition fromJSON (object : js) : result t :=
  creator' ← field_or object "creator" to_string "";
  vendorID' ← field_or object "vendorID" js_Number 0;
  vendorName' ← field_or object "vendorName" to_string "";
  companyLegalName' ← field_or object "companyLegalName" to_string "";
  companyPreferredName' ← field_or object "companyPreferredName" to_string "";
  vendorLandingPageURL' ← field_or object "vendorLandingPageURL" to_string "";
  Ok (mk creator' vendorID' vendorName' companyLegalName' companyPreferredName'
    vendorLandingPageURL').

Definition toJSON (message : t) : js :=
  Obj ([("creator", Str message.(creator));
    ("vendorID", Num message.(vendorID));
    ("vendorName", Str message.(vendorName));
    ("companyLegalName", Str message.(companyLegalName));
    ("companyPreferredName", Str message.(companyPreferredName));
    ("vendorLandingPageURL", Str message.(vendorLandingPageURL))]).

Record partial := mkPartial {
  p_creator : option string;
  p_vendorID : option number;
  p_vendorName : option string;
  p_companyLegalName : option string;
  p_companyPreferredName : option string;
  p_vendorLandingPageURL : option string;
}.

Definition fromPartial (object : partial) : t := {|
  creator := object.(p_creator) ?? "";
  vendorID := object.(p_vendorID) ?? Int 0;
  vendorName := object.(p_vendorName) ?? "";
  companyLegalName := object.(p_companyLegalName) ?? "";
  companyPreferredName := object.(p_companyPreferredName) ?? "";
  vendorLandingPageURL := object.(p_vendorLandingPageURL) ?? "";
|}.

(** The object with no property given. *)
Definition nothing : partial := mkPartial None None None None None None.

(** The bytes [encode] writes. *)
Definition wire {PB : Protobuf} {PS : ProtobufSpec PB} (m : t) : bytes :=
  f_string 10 m.(creator) ++
  f_number e_int32 16 m.(vendorID) ++
  f_string 26 m.(vendorName) ++
  f_string 34 m.(companyLegalName) ++
  f_string 42 m.(companyPreferredName) ++
  f_string 50 m.(vendorLandingPageURL).

Definition valid (m : t) : Prop :=
  int32_ok m.(vendorID).

Definition encodable {PB : Protobuf} {PS : ProtobufSpec PB} (m : t) : Prop :=
  valid m ∧ small (wire m).

Definition merge (m a : t) : t := {|
  creator := later_string m.(creator) a.(creator);
  vendorID := later_number m.(vendorID) a.(vendorID);
  vendorName := later_string m.(vendorName) a.(vendorName);
  companyLegalName := later_string m.(companyLegalName) a.(companyLegalName);
  companyPreferredName := later_string m.(companyPreferredName) a.(companyPreferredName);
  vendorLandingPageURL := later_string m.(vendorLandingPageURL) a.(vendorLandingPageURL);
|}.

(** A whole message seen as a partial one. *)
Definition full (m : t) : partial := {|
  p_creator := Some m.(creator);
  p_vendorID := Some m.(vendorID);
  p_vendorName := Some m.(vendorName);
  p_companyLegalName := Some m.(companyLegalName);
  p_companyPreferredName := Some m.(companyPreferredName);
  p_vendorLandingPageURL := Some m.(vendorLandingPageURL);
|}.

(** The message as its [.proto] file declares it. *)
Definition schema (m : t) : list field :=
  [implicit 1 (VString m.(creator));
   implicit 2 (VInt Int32 m.(vendorID));
   implicit 3 (VString m.(vendorName));
   implicit 4 (VString m.(companyLegalName));
   implicit 5 (VString m.(companyPreferredName));
   implicit 6 (VString m.(vendorLandingPageURL))].

(** The message with its default for every property that is not kept. *)
Definition only (kept : string → bool) (m : t) : t := {|
  creator := if kept "creator" then m.(creator) else "";
  vendorID := if kept "vendorID" then m.(vendorID) else Int 0;
  vendorName := if kept "vendorName" then m.(vendorName) else "";
  companyLegalName := if kept "companyLegalName" then m.(companyLegalName) else "";
  companyPreferredName := if kept "companyPreferredName" then m.(companyPreferredName) else "";
  vendorLandingPageURL := if kept "vendorLandingPageURL" then m.(vendorLandingPageURL) else "";
|}.

#[global] Instance codec {PB : Protobuf} : MessageCodec t :=
  {| msg_base := base; msg_encode := encode; msg_field := decode_field |}.

#[global] Program Instance spec {PB : Protobuf} (PS : ProtobufSpec PB) : MessageSpec PS t :=
  {| msg_wire := wire; msg_valid := valid; msg_merge := merge |}.
Next Obligation. solve_encode_wire. Qed.
Next Obligation. solve_decode_wire. Qed.
Next Obligation. solve_merge_base. Qed.
Next Obligation. intros. solve_advances decode_field. Qed.

#[global] Program Instance data : MessageData t partial :=
  {| msg_fromJSON := fromJSON; msg_toJSON := toJSON;
     msg_fromPartial := fromPartial; msg_full := full |}.
Next Obligation. solve_json fromJSON toJSON. Qed.
Next Obligation. solve_partial fromPartial full. Qed.

#[global] Instance schema_wire {PB : Protobuf} {PS : ProtobufSpec PB} : WireSchema wire schema.
Proof. solve_schema_wire wire schema. Qed.

#[global] Instance schema_merge : MergeSchema merge schema.
Proof. solve_schema_merge merge schema. Qed.

(** Its row in the table of message types. *)
Definition message {PB : Protobuf} {PS : ProtobufSpec PB} : message_type :=
  plain_message "MsgUpdateVendorInfo" nothing true schema only.

#[global] Instance message_lawful {PB : Protobuf} (PS : ProtobufSpec PB) : Lawful message.
Proof. solve_lawful decode_field fromJSON only. Qed.

End MsgUpdateVendorInfo.

(** ** [MsgUpdateVendorInfoResponse] (vendorinfo/tx.js) *)

Module MsgUpdateVendorInfoResponse.

Record t := mk {}.

#[global] Instance t_eta : Settable t := λ m, m.

Definition base : t := mk.

Definition encode {PB : Protobuf} (message : t) (writer : Writer) : Writer :=
  writer.

Definition decode_field {PB : Protobuf} (tag : Z) (message : t) : RM t :=
  match field_number tag with
  | _ => _ ← skipType (wire_type tag); mret message
  end.

Definition decode {PB : Protobuf} (length : option Z) : RM t :=
  decode_message length base decode_field.

Definition fromJSON (object : js) : result t :=
  Ok base.

Definition toJSON (message : t) : js :=
  Obj [].

Record partial := mkPartial {}.

Definition fromPartial (object : partial) : t := base.

(** The object with no property given. *)
Definition nothing : partial := mkPartial.

(** The bytes [encode] writes. *)
Definition wire {PB : Protobuf} {PS : ProtobufSpec PB} (m : t) : bytes :=
  [].

Definition valid (m : t) : Prop :=
  True.

Definition encodable {PB : Protobuf} {PS : ProtobufSpec PB} (m : t) : Prop :=
  valid m ∧ small (wire m).

Definition merge (m a : t) : t := m.

(** A whole message seen as a partial one. *)
Definition full (m : t) : partial := mkPartial.

(** The message as its [.proto] file declares it. *)
Definition schema (m : t) : list field :=
  [].

(** The message with its default for every property that is not kept. *)
Definition only (kept : string → bool) (m : t) : t := m.

#[global] Instance codec {PB : Protobuf} : MessageCodec t :=
  {| msg_base := base; msg_encode := encode; msg_field := decode_field |}.

#[global] Program Instance spec {PB : Protobuf} (PS : ProtobufSpec PB) : MessageSpec PS t :=
  {| msg_wire := wire; msg_valid := valid; msg_merge := merge |}.
Next Obligation. solve_encode_wire. Qed.
Next Obligation. solve_decode_wire. Qed.
Next Obligation. solve_merge_base. Qed.
Next Obligation. intros. solve_advances decode_field. Qed.

#[global] Program Instance data : MessageData t partial :=
  {| msg_fromJSON := fromJSON; msg_toJSON := toJSON;
     msg_fromPartial := fromPartial; msg_full := full |}.
Next Obligation. solve_json fromJSON toJSON. Qed.
Next Obligation. solve_partial fromPartial full. Qed.

#[global] Instance schema_wire {PB : Protobuf} {PS : ProtobufSpec PB} : WireSchema wire schema.
Proof. solve_schema_wire wire schema. Qed.

#[global] Instance schema_merge : MergeSchema merge schema.
Proof. solve_schema_merge merge schema. Qed.

(** Its row in the table of message types. *)
Definition message {PB : Protobuf} {PS : ProtobufSpec PB} : message_type :=
  plain_message "MsgUpdateVendorInfoResponse" nothing false schema only.

#[global] Instance message_lawful {PB : Protobuf} (PS : ProtobufSpec PB) : Lawful message.
Proof. solve_lawful decode_field fromJSON only. Qed.

End MsgUpdateVendorInfoResponse.

(** ** [QueryGetVendorInfoRequest] (vendorinfo/query.js) *)

Module QueryGetVendorInfoRequest.

Record t := mk {
  vendorID : number;
}.

#[global] Instance t_eta : Settable t := λ m, mk m.(vendorID).

Definition base : t := mk 0.

Definition encode {PB : Protobuf} (message : t) (writer : Writer) : Writer :=
  writer
  @> when (num_neq message.(vendorID) 0) (fun w => w @> uint32 8 @> int32 message.(vendorID)).

Definition decode_field {PB : Protobuf} (tag : Z) (message : t) : RM t :=
  match field_number tag with
  | 1 => v ← read_int32; mret (message <| vendorID := Int v |>)
  | _ => _ ← skipType (wire_type tag); mret message
  end.

Definition decode {PB : Protobuf} (length : option Z) : RM t :=
  decode_message length base decode_field.

Definition fromJSON (object : js) : result t :=
  vendorID' ← field_or object "vendorID" js_Number 0;
  Ok (mk vendorID').

Definition toJSON (message : t) : js :=
  Obj ([("vendorID", Num message.(vendorID))]).

Record partial := mkPartial {
  p_vendorID : option number;
}.

Definition fromPartial (object : partial) : t := {|
  vendorID := object.(p_vendorID) ?? Int 0;
|}.

(** The object with no property given. *)
Definition nothing : partial := mkPartial None.

(** The bytes [encode] writes. *)
Definition wire {PB : Protobuf} {PS : ProtobufSpec PB} (m : t) : bytes :=
  f_number e_int32 8 m.(vendorID).

Definition valid (m : t) : Prop :=
  int32_ok m.(vendorID).

Definition encodable {PB : Protobuf} {PS : ProtobufSpec PB} (m : t) : Prop :=
  valid m ∧ small (wire m).

Definition merge (m a : t) : t := {|
  vendorID := later_number m.(vendorID) a.(vendorID);
|}.

(** A whole message seen as a partial one. *)
Definition full (m : t) : partial := {|
  p_vendorID := Some m.(vendorID);
|}.

(** The message as its [.proto] file declares it. *)
Definition schema (m : t) : list field :=
  [implicit 1 (VInt Int32 m.(vendorID))].

(** The message with its default for every property that is not kept. *)
Definition only (kept : string → bool) (m : t) : t := {|
  vendorID := if kept "vendorID" then m.(vendorID) else Int 0;
|}.

#[global] Instance codec {PB : Protobuf} : MessageCodec t :=
  {| msg_base := base; msg_encode := encode; msg_field := decode_field |}.

#[global] Program Instance spec {PB : Protobuf} (PS : ProtobufSpec PB) : MessageSpec PS t :=
  {| msg_wire := wire; msg_valid := valid; msg_merge := merge |}.
Next Obligation. solve_encode_wire. Qed.
Next Obligation. solve_decode_wire. Qed.
Next Obligation. solve_merge_base. Qed.
Next Obligation. intros. solve_advances decode_field. Qed.

#[global] Program Instance data : MessageData t partial :=
  {| msg_fromJSON := fromJSON; msg_toJSON := toJSON;
     msg_fromPartial := fromPartial; msg_full := full |}.
Next Obligation. solve_json fromJSON toJSON. Qed.
Next Obligation. solve_partial fromPartial full. Qed.

#[global] Instance schema_wire {PB : Protobuf} {PS : ProtobufSpec PB} : WireSchema wire schema.
Proof. solve_schema_wire wire schema. Qed.

#[global] Instance schema_merge : MergeSchema merge schema.
Proof. solve_schema_merge merge schema. Qed.

(** Its row in the table of message types. *)
Definition message {PB : Protobuf} {PS : ProtobufSpec PB} : message_type :=
  plain_message "QueryGetVendorInfoRequest" nothing true schema only.

#[global] Instance message_lawful {PB : Protobuf} (PS : ProtobufSpec PB) : Lawful message.
Proof. solve_lawful decode_field fromJSON only. Qed.

End QueryGetVendorInfoRequest.

(** ** [QueryGetVendorInfoResponse] (vendorinfo/query.js) *)

Module QueryGetVendorInfoResponse.

Record t := mk {
  vendorInfo : option VendorInfo.t;
}.

#[global] Instance t_eta : Settable t := λ m, mk m.(vendorInfo).

Definition base : t := mk None.

Definition encode {PB : Protobuf} (message : t) (writer : Writer) : Writer :=
  writer
  @> defined message.(vendorInfo) (fun v w => w @> uint32 10 @> fork @> VendorInfo.encode v @> ldelim).

Definition decode_field {PB : Protobuf} (tag : Z) (message : t) : RM t :=
  match field_number tag with
  | 1 => v ← read_nested VendorInfo.decode; mret (message <| vendorInfo := Some v |>)
  | _ => _ ← skipType (wire_type tag); mret message
  end.

Definition decode {PB : Protobuf} (length : option Z) : RM t :=
  decode_message length base decode_field.

Definition fromJSON (object : js) : result t :=
  vendorInfo' ← field_or object "vendorInfo" (to_some VendorInfo.fromJSON) None;
  Ok (mk vendorInfo').

Definition toJSON (message : t) : js :=
  Obj (prop_opt "vendorInfo" VendorInfo.toJSON message.(vendorInfo)).

Record partial := mkPartial {
  p_vendorInfo : option VendorInfo.partial;
}.

Definition fromPartial (object : partial) : t := {|
  vendorInfo := VendorInfo.fromPartial <$> object.(p_vendorInfo);
|}.

(** The object with no property given. *)
Definition nothing : partial := mkPartial None.

(** The bytes [encode] writes. *)
Definition wire {PB : Protobuf} {PS : ProtobufSpec PB} (m : t) : bytes :=
  f_message 10 VendorInfo.wire m.(vendorInfo).

Definition valid (m : t) : Prop :=
  from_option VendorInfo.valid True m.(vendorInfo).

Definition encodable {PB : Protobuf} {PS : ProtobufSpec PB} (m : t) : Prop :=
  valid m ∧ small (wire m).

Definition merge (m a : t) : t := {|
  vendorInfo := later_message m.(vendorInfo) a.(vendorInfo);
|}.

(** A whole message seen as a partial one. *)
Definition full (m : t) : partial := {|
  p_vendorInfo := VendorInfo.full <$> m.(vendorInfo);
|}.

(** The message as its [.proto] file declares it. *)
Definition schema (m : t) : list field :=
  [singular 1 Optional (message_value VendorInfo.schema) m.(vendorInfo)].

(** The message with its default for every property that is not kept. *)
Definition only (kept : string → bool) (m : t) : t := {|
  vendorInfo := if kept "vendorInfo" then m.(vendorInfo) else None;
|}.

#[global] Instance codec {PB : Protobuf} : MessageCodec t :=
  {| msg_base := base; msg_encode := encode; msg_field := decode_field |}.

#[global] Program Instance spec {PB : Protobuf} (PS : ProtobufSpec PB) : MessageSpec PS t :=
  {| msg_wire := wire; msg_valid := valid; msg_merge := merge |}.
Next Obligation. solve_encode_wire. Qed.
Next Obligation. solve_decode_wire. Qed.
Next Obligation. solve_merge_base. Qed.
Next Obligation. intros. solve_advances decode_field. Qed.

#[global] Program Instance data : MessageData t partial :=
  {| msg_fromJSON := fromJSON; msg_toJSON := toJSON;
     msg_fromPartial := fromPartial; msg_full := full |}.
Next Obligation. solve_json fromJSON toJSON. Qed.
Next Obligation. solve_partial fromPartial full. Qed.

#[global] Instance schema_wire {PB : Protobuf} {PS : ProtobufSpec PB} : WireSchema wire schema.
Proof. solve_schema_wire wire schema. Qed.

#[global] Instance schema_merge : MergeSchema merge schema.
Proof. solve_schema_merge merge schema. Qed.

(** Its row in the table of message types. *)
Definition message {PB : Protobuf} {PS : ProtobufSpec PB} : message_type :=
  plain_message "QueryGetVendorInfoResponse" nothing true schema only.

#[global] Instance message_lawful {PB : Protobuf} (PS : ProtobufSpec PB) : Lawful message.
Proof. solve_lawful decode_field fromJSON only. Qed.

End QueryGetVendorInfoResponse.

(** ** [QueryAllVendorInfoRequest] (vendorinfo/query.js) *)

Module QueryAllVendorInfoRequest.

Record t := mk {
  pagination : option PageRequest.t;
}.

#[global] Instance t_eta : Settable t := λ m, mk m.(pagination).

Definition base : t := mk None.

Definition encode {PB : Protobuf} (message : t) (writer : Writer) : result Writer :=
  Ok writer
  @>= defined_e message.(pagination) (submessage 10 PageRequest.encode).

Definition decode_field {PB : Protobuf} (tag : Z) (message : t) : RM t :=
  match field_number tag with
  | 1 => v ← read_nested PageRequest.decode; mret (message <| pagination := Some v |>)
  | _ => _ ← skipType (wire_type tag); mret message
  end.

Definition decode {PB : Protobuf} (length : option Z) : RM t :=
  decode_message length base decode_field.

Definition fromJSON (object : js) : result t :=
  pagination' ← field_or object "pagination" (to_some PageRequest.fromJSON) None;
  Ok (mk pagination').

Definition toJSON (message : t) : js :=
  Obj (prop_opt "pagination" PageRequest.toJSON message.(pagination)).

Record partial := mkPartial {
  p_pagination : option PageRequest.partial;
}.

Definition fromPartial (object : partial) : t := {|
  pagination := PageRequest.fromPartial <$> object.(p_pagination);
|}.

(** The object with no property given. *)
Definition nothing : partial := mkPartial None.

(** The bytes [encode] writes. *)
Definition wire {PB : Protobuf} {PS : ProtobufSpec PB} (m : t) : bytes :=
  f_message 10 PageRequest.wire m.(pagination).

Definition valid (m : t) : Prop :=
  from_option PageRequest.valid True m.(pagination).

(** The byte fields hold arrays, as the interface declares. *)
Definition typed (m : t) : bool := from_option PageRequest.typed true m.(pagination).

(** The message without its empty byte arrays. *)
Definition normal (m : t) : t := {|
  pagination := PageRequest.normal <$> m.(pagination);
|}.

Definition encodable {PB : Protobuf} {PS : ProtobufSpec PB} (m : t) : Prop :=
  typed m = true ∧ valid m ∧ small (wire m).

Definition merge (m a : t) : t := {|
  pagination := later_message m.(pagination) (PageRequest.normal <$> a.(pagination));
|}.

(** A whole message seen as a partial one. *)
Definition full (m : t) : partial := {|
  p_pagination := PageRequest.full <$> m.(pagination);
|}.

(** The message as its [.proto] file declares it. *)
Definition schema (m : t) : list field :=
  [singular 1 Optional (message_value PageRequest.schema) m.(pagination)].

(** The message with its default for every property that is not kept. *)
Definition only (kept : string → bool) (m : t) : t := {|
  pagination := if kept "pagination" then m.(pagination) else None;
|}.

#[global] Instance codec {PB : Protobuf} : FallibleCodec t :=
  {| fmsg_base := base; fmsg_encode := encode; fmsg_field := decode_field |}.

#[global] Program Instance spec {PB : Protobuf} (PS : ProtobufSpec PB) : FallibleSpec PS t :=
  {| fmsg_wire := wire; fmsg_valid := valid; fmsg_typed := typed; fmsg_normal := normal;
     fmsg_merge := merge |}.
Next Obligation. solve_fencode_wire. Qed.
Next Obligation. intros. solve_fencode_throws encode typed. Qed.
Next Obligation. solve_fdecode_wire. Qed.
Next Obligation. solve_fmerge_base. Qed.
Next Obligation. intros. solve_fadvances decode_field. Qed.

#[global] Program Instance given_ : FalliblePartial t partial :=
  {| fmsg_fromPartial := fromPartial; fmsg_full := full; fmsg_given := typed |}.
Next Obligation. solve_fgiven fromPartial typed. Qed.
Next Obligation. solve_fpartial fromPartial full typed. Qed.

#[global] Program Instance json : FallibleJson t :=
  {| fmsg_fromJSON := fromJSON; fmsg_toJSON := toJSON;
     fmsg_named := fun _ => true; fmsg_known := fun m => m |}.
Next Obligation. solve_fjson fromJSON toJSON. Qed.
Next Obligation. reflexivity. Qed.

#[global] Instance schema_wire {PB : Protobuf} {PS : ProtobufSpec PB} : WireSchema wire schema.
Proof. solve_schema_wire wire schema. Qed.

#[global] Instance schema_normal : NormalSchema normal schema.
Proof. solve_schema_normal normal schema. Qed.

#[global] Instance schema_merge : MergeSchema merge schema.
Proof. solve_schema_merge merge schema. Qed.

(** Its row in the table of message types. *)
Definition message {PB : Protobuf} {PS : ProtobufSpec PB} : message_type :=
  fallible_message "QueryAllVendorInfoRequest" nothing true schema only.

#[global] Instance message_lawful {PB : Protobuf} (PS : ProtobufSpec PB) : Lawful message.
Proof. solve_lawful decode_field fromJSON only. Qed.

End QueryAllVendorInfoRequest.

(** ** [QueryAllVendorInfoResponse] (vendorinfo/query.js) *)

Module QueryAllVendorInfoResponse.

Record t := mk {
  vendorInfo : list VendorInfo.t;
  pagination : option PageResponse.t;
}.

#[global] Instance t_eta : Settable t := λ m, mk m.(vendorInfo) m.(pagination).

Definition base : t := mk [] None.

Definition encode {PB : Protobuf} (message : t) (writer : Writer) : result Writer :=
  Ok writer
  @>= pure (each message.(vendorInfo) (fun v w => w @> uint32 10 @> fork @> VendorInfo.encode v @> ldelim))
  @>= defined_e message.(pagination) (submessage 18 PageResponse.encode).

Definition decode_field {PB : Protobuf} (tag : Z) (message : t) : RM t :=
  match field_number tag with
  | 1 => v ← read_nested VendorInfo.decode;
         mret (message <| vendorInfo := message.(vendorInfo) ++ [v] |>)
  | 2 => v ← read_nested PageResponse.decode; mret (message <| pagination := Some v |>)
  | _ => _ ← skipType (wire_type tag); mret message
  end.

Definition decode {PB : Protobuf} (length : option Z) : RM t :=
  decode_message length base decode_field.

Definition fromJSON (object : js) : result t :=
  vendorInfo' ← field_or object "vendorInfo" (to_list VendorInfo.fromJSON) [];
  pagination' ← field_or object "pagination" (to_some PageResponse.fromJSON) None;
  Ok (mk vendorInfo' pagination').

Definition toJSON (message : t) : js :=
  Obj ([("vendorInfo", Arr (map VendorInfo.toJSON message.(vendorInfo)))] ++
   prop_opt "pagination" PageResponse.toJSON message.(pagination)).

Record partial := mkPartial {
  p_vendorInfo : option (list VendorInfo.partial);
  p_pagination : option PageResponse.partial;
}.

Definition fromPartial (object : partial) : t := {|
  vendorInfo := map VendorInfo.fromPartial (object.(p_vendorInfo) ?? []);
  pagination := PageResponse.fromPartial <$> object.(p_pagination);
|}.

(** The object with no property given. *)
Definition nothing : partial := mkPartial None None.

(** The bytes [encode] writes. *)
Definition wire {PB : Protobuf} {PS : ProtobufSpec PB} (m : t) : bytes :=
  f_repeated 10 VendorInfo.wire m.(vendorInfo) ++
  f_message 18 PageResponse.wire m.(pagination).

Definition valid (m : t) : Prop :=
  Forall VendorInfo.valid m.(vendorInfo) ∧ from_option PageResponse.valid True m.(pagination).

(** The byte fields hold arrays, as the interface declares. *)
Definition typed (m : t) : bool := from_option PageResponse.typed true m.(pagination).

(** The message without its empty byte arrays. *)
Definition normal (m : t) : t := {|
  vendorInfo := m.(vendorInfo);
  pagination := PageResponse.normal <$> m.(pagination);
|}.

Definition encodable {PB : Protobuf} {PS : ProtobufSpec PB} (m : t) : Prop :=
  typed m = true ∧ valid m ∧ small (wire m).

Definition merge (m a : t) : t := {|
  vendorInfo := m.(vendorInfo) ++ a.(vendorInfo);
  pagination := later_message m.(pagination) (PageResponse.normal <$> a.(pagination));
|}.

(** A whole message seen as a partial one. *)
Definition full (m : t) : partial := {|
  p_vendorInfo := Some (map VendorInfo.full m.(vendorInfo));
  p_pagination := PageResponse.full <$> m.(pagination);
|}.

(** The message as its [.proto] file declares it. *)
Definition schema (m : t) : list field :=
  [repeated 1 (message_value VendorInfo.schema) m.(vendorInfo);
   singular 2 Optional (message_value PageResponse.schema) m.(pagination)].

(** The message with its default for every property that is not kept. *)
Definition only (kept : string → bool) (m : t) : t := {|
  vendorInfo := if kept "vendorInfo" then m.(vendorInfo) else [];
  pagination := if kept "pagination" then m.(pagination) else None;
|}.

#[global] Instance codec {PB : Protobuf} : FallibleCodec t :=
  {| fmsg_base := base; fmsg_encode := encode; fmsg_field := decode_field |}.

#[global] Program Instance spec {PB : Protobuf} (PS : ProtobufSpec PB) : FallibleSpec PS t :=
  {| fmsg_wire := wire; fmsg_valid := valid; fmsg_typed := typed; fmsg_normal := normal;
     fmsg_merge := merge |}.
Next Obligation. solve_fencode_wire. Qed.
Next Obligation. intros. solve_fencode_throws encode typed. Qed.
Next Obligation. solve_fdecode_wire. Qed.
Next Obligation. solve_fmerge_base. Qed.
Next Obligation. intros. solve_fadvances decode_field. Qed.

#[global] Program Instance given_ : FalliblePartial t partial :=
  {| fmsg_fromPartial := fromPartial; fmsg_full := full; fmsg_given := typed |}.
Next Obligation. solve_fgiven fromPartial typed. Qed.
Next Obligation. solve_fpartial fromPartial full typed. Qed.

#[global] Program Instance json : FallibleJson t :=
  {| fmsg_fromJSON := fromJSON; fmsg_toJSON := toJSON;
     fmsg_named := fun _ => true; fmsg_known := fun m => m |}.
Next Obligation. solve_fjson fromJSON toJSON. Qed.
Next Obligation. reflexivity. Qed.

#[global] Instance schema_wire {PB : Protobuf} {PS : ProtobufSpec PB} : WireSchema wire schema.
Proof. solve_schema_wire wire schema. Qed.

#[global] Instance schema_normal : NormalSchema normal schema.
Proof. solve_schema_normal normal schema. Qed.

#[global] Instance schema_merge : MergeSchema merge schema.
Proof. solve_schema_merge merge schema. Qed.

(** Its row in the table of message types. *)
Definition message {PB : Protobuf} {PS : ProtobufSpec PB} : message_type :=
  fallible_message "QueryAllVendorInfoResponse" nothing true schema only.

#[global] Instance message_lawful {PB : Protobuf} (PS : ProtobufSpec PB) : Lawful message.
Proof. solve_lawful decode_field fromJSON only. Qed.

End QueryAllVendorInfoResponse.

(** ** [GenesisState] (vendorinfo/genesis.js) *)

Module GenesisState.

Record t := mk {
  vendorInfoList : list VendorInfo.t;
}.

#[global] Instance t_eta : Settable t := λ m, mk m.(vendorInfoList).

Definition base : t := mk [].

Definition encode {PB : Protobuf} (message : t) (writer : Writer) : Writer :=
  writer
  @> each message.(vendorInfoList) (fun v w => w @> uint32 10 @> fork @> VendorInfo.encode v @> ldelim).

Definition decode_field {PB : Protobuf} (tag : Z) (message : t) : RM t :=
  match field_number tag with
  | 1 => v ← read_nested VendorInfo.decode;
         mret (message <| vendorInfoList := message.(vendorInfoList) ++ [v] |>)
  | _ => _ ← skipType (wire_type tag); mret message
  end.

Definition decode {PB : Protobuf} (length : option Z) : RM t :=
  decode_message length base decode_field.

Definition fromJSON (object : js) : result t :=
  vendorInfoList' ← field_or object "vendorInfoList" (to_list VendorInfo.fromJSON) [];
  Ok (mk vendorInfoList').

Definition toJSON (message : t) : js :=
  Obj ([("vendorInfoList", Arr (map VendorInfo.toJSON message.(vendorInfoList)))]).

Record partial := mkPartial {
  p_vendorInfoList : option (list VendorInfo.partial);
}.

Definition fromPartial (object : partial) : t := {|
  vendorInfoList := map VendorInfo.fromPartial (object.(p_vendorInfoList) ?? []);
|}.

(** The object with no property given. *)
Definition nothing : partial := mkPartial None.

(** The bytes [encode] writes. *)
Definition wire {PB : Protobuf} {PS : ProtobufSpec PB} (m : t) : bytes :=
  f_repeated 10 VendorInfo.wire m.(vendorInfoList).

Definition valid (m : t) : Prop :=
  Forall VendorInfo.valid m.(vendorInfoList).

Definition encodable {PB : Protobuf} {PS : ProtobufSpec PB} (m : t) : Prop :=
  valid m ∧ small (wire m).

Definition merge (m a : t) : t := {|
  vendorInfoList := m.(vendorInfoList) ++ a.(vendorInfoList);
|}.

(** A whole message seen as a partial one. *)
Definition full (m : t) : partial := {|
  p_vendorInfoList := Some (map VendorInfo.full m.(vendorInfoList));
|}.

(** The message as its [.proto] file declares it. *)
Definition schema (m : t) : list field :=
  [repeated 1 (message_value VendorInfo.schema) m.(vendorInfoList)].

(** The message with its default for every property that is not kept. *)
Definition only (kept : string → bool) (m : t) : t := {|
  vendorInfoList := if kept "vendorInfoList" then m.(vendorInfoList) else [];
|}.

#[global] Instance codec {PB : Protobuf} : MessageCodec t :=
  {| msg_base := base; msg_encode := encode; msg_field := decode_field |}.

#[global] Program Instance spec {PB : Protobuf} (PS : ProtobufSpec PB) : MessageSpec PS t :=
  {| msg_wire := wire; msg_valid := valid; msg_merge := merge |}.
Next Obligation. solve_encode_wire. Qed.
Next Obligation. solve_decode_wire. Qed.
Next Obligation. solve_merge_base. Qed.
Next Obligation. intros. solve_advances decode_field. Qed.

#[global] Program Instance data : MessageData t partial :=
  {| msg_fromJSON := fromJSON; msg_toJSON := toJSON;
     msg_fromPartial := fromPartial; msg_full := full |}.
Next Obligation. solve_json fromJSON toJSON. Qed.
Next Obligation. solve_partial fromPartial full. Qed.

#[global] Instance schema_wire {PB : Protobuf} {PS : ProtobufSpec PB} : WireSchema wire schema.
Proof. solve_schema_wire wire schema. Qed.

#[global] Instance schema_merge : MergeSchema merge schema.
Proof. solve_schema_merge merge schema. Qed.

(** Its row in the table of message types. *)
Definition message {PB : Protobuf} {PS : ProtobufSpec PB} : message_type :=
  plain_message "GenesisState" nothing true schema only.

#[global] Instance message_lawful {PB : Protobuf} (PS : ProtobufSpec PB) : Lawful message.
Proof. solve_lawful decode_field fromJSON only. Qed.

End GenesisState.


(** ** [MsgClientImpl]

    [rpc] is the transport the class is constructed with: [rpc service method data]
    is what the promise of [this.rpc.request] settles to. *)
Module MsgClientImpl.
Section client.
Context {PB : Protobuf} (rpc : string → string → bytes → result bytes).

Definition CreateVendorInfo (request : MsgCreateVendorInfo.t)
    : result MsgCreateVendorInfoResponse.t :=
  data ← rpc "zigbeealliance.distributedcomplianceledger.vendorinfo.Msg" "CreateVendorInfo"
    (finish (MsgCreateVendorInfo.encode request create));
  decode_bytes MsgCreateVendorInfoResponse.decode data.

Definition UpdateVendorInfo (request : MsgUpdateVendorInfo.t)
    : result MsgUpdateVendorInfoResponse.t :=
  data ← rpc "zigbeealliance.distributedcomplianceledger.vendorinfo.Msg" "UpdateVendorInfo"
    (finish (MsgUpdateVendorInfo.encode request create));
  decode_bytes MsgUpdateVendorInfoResponse.decode data.

End client.
End MsgClientImpl.


(** ** [QueryClientImpl]

    [rpc] is the transport the class is constructed with: [rpc service method data]
    is what the promise of [this.rpc.request] settles to. *)
Module QueryClientImpl.
Section client.
Context {PB : Protobuf} (rpc : string → string → bytes → result bytes).

Definition VendorInfo (request : QueryGetVendorInfoRequest.t)
    : result QueryGetVendorInfoResponse.t :=
  data ← rpc "zigbeealliance.distributedcomplianceledger.vendorinfo.Query" "VendorInfo"
    (finish (QueryGetVendorInfoRequest.encode request create));
  decode_bytes QueryGetVendorInfoResponse.decode data.

Definition VendorInfoAll (request : QueryAllVendorInfoRequest.t)
    : result QueryAllVendorInfoResponse.t :=
  w ← QueryAllVendorInfoRequest.encode request create;
  data ← rpc "zigbeealliance.distributedcomplianceledger.vendorinfo.Query" "VendorInfoAll" (finish w);
  decode_bytes QueryAllVendorInfoResponse.decode data.

End client.
End QueryClientImpl.

(** ** The message types of this file *)

Definition messages {PB : Protobuf} {PS : ProtobufSpec PB} : list message_type :=
  [ VendorInfo.message; MsgCreateVendorInfo.message; MsgCreateVendorInfoResponse.message;
   MsgUpdateVendorInfo.message; MsgUpdateVendorInfoResponse.message;
   QueryGetVendorInfoRequest.message; QueryGetVendorInfoResponse.message;
   QueryAllVendorInfoRequest.message; QueryAllVendorInfoResponse.message; GenesisState.message].

Lemma VendorinfoTypes_lawful {PB : Protobuf} {PS : ProtobufSpec PB} : Forall Lawful messages.
Proof. solve_table. Qed.

(** The methods of [MsgClientImpl]. *)
Definition msg_methods {PB : Protobuf} {PS : ProtobufSpec PB} : list rpc_method :=
  [mkMethod "zigbeealliance.distributedcomplianceledger.vendorinfo.Msg" "CreateVendorInfo"
     MsgCreateVendorInfo.message MsgCreateVendorInfoResponse.message
     (fun rpc => MsgClientImpl.CreateVendorInfo rpc);
   mkMethod "zigbeealliance.distributedcomplianceledger.vendorinfo.Msg" "UpdateVendorInfo"
     MsgUpdateVendorInfo.message MsgUpdateVendorInfoResponse.message
     (fun rpc => MsgClientImpl.UpdateVendorInfo rpc)].

Lemma VendorinfoTypes_msg_methods_lawful {PB : Protobuf} {PS : ProtobufSpec PB} : Forall method_lawful msg_methods.
Proof. solve_methods. Qed.

(** The methods of [QueryClientImpl]. *)
Definition query_methods {PB : Protobuf} {PS : ProtobufSpec PB} : list rpc_method :=
  [mkMethod "zigbeealliance.distributedcomplianceledger.vendorinfo.Query" "VendorInfo"
     QueryGetVendorInfoRequest.message QueryGetVendorInfoResponse.message
     (fun rpc => QueryClientImpl.VendorInfo rpc);
   mkMethod "zigbeealliance.distributedcomplianceledger.vendorinfo.Query" "VendorInfoAll"
     QueryAllVendorInfoRequest.message QueryAllVendorInfoResponse.message
     (fun rpc => QueryClientImpl.VendorInfoAll rpc)].

Lemma VendorinfoTypes_query_methods_lawful {PB : Protobuf} {PS : ProtobufSpec PB} : Forall method_lawful query_methods.
Proof. solve_methods. Qed.
