(* ===== verification/ComplianceTestTypes.v ===== *)
(** * The types of the compliancetest module

    Test results of device software versions and the message that adds one:
    the codecs of [compliancetest/module/types/compliancetest/*.js]. *)
From S2P Require Import Prelude Js Protobuf Codec Calendar Dates Base64 Fallible Proto3 MessageTable CommonTypes.
Open Scope Z_scope.

(** ** [TestingResult] (compliancetest/testing_result.js) *)

Module TestingResult.

Record t := mk {
  vid : number;
  pid : number;
  softwareVersion : number;
  softwareVersionString : string;
  owner : string;
  testResult : string;
  testDate : string;
}.

#[global] Instance t_eta : Settable t := λ m, mk m.(vid) m.(pid) m.(softwareVersion)
  m.(softwareVersionString) m.(owner) m.(testResult) m.(testDate).

Definition base : t := mk 0 0 0 "" "" "" "".

Definition encode {PB : Protobuf} (message : t) (writer : Writer) : Writer :=
  writer
  @> when (num_neq message.(vid) 0) (fun w => w @> uint32 8 @> int32 message.(vid))
  @> when (num_neq message.(pid) 0) (fun w => w @> uint32 16 @> int32 message.(pid))
  @> when (num_neq message.(softwareVersion) 0)
       (fun w => w @> uint32 24 @> uint32 message.(softwareVersion))
  @> when (str_neq message.(softwareVersionString) "")
       (fun w => w @> uint32 34 @> string_ message.(softwareVersionString))
  @> when (str_neq message.(owner) "") (fun w => w @> uint32 42 @> string_ message.(owner))
  @> when (str_neq message.(testResult) "")
       (fun w => w @> uint32 50 @> string_ message.(testResult))
  @> when (str_neq message.(testDate) "") (fun w => w @> uint32 58 @> string_ message.(testDate)).

Definition decode_field {PB : Protobuf} (tag : Z) (message : t) : RM t :=
  match field_number tag with
  | 1 => v ← read_int32; mret (message <| vid := Int v |>)
  | 2 => v ← read_int32; mret (message <| pid := Int v |>)
  | 3 => v ← read_uint32; mret (message <| softwareVersion := Int v |>)
  | 4 => v ← read_string; mret (message <| softwareVersionString := v |>)
  | 5 => v ← read_string; mret (message <| owner := v |>)
  | 6 => v ← read_string; mret (message <| testResult := v |>)
  | 7 => v ← read_string; mret (message <| testDate := v |>)
  | _ => _ ← skipType (wire_type tag); mret message
  end.

Definition decode {PB : Protobuf} (length : option Z) : RM t :=
  decode_message length base decode_field.

Definition fromJSON (object : js) : result t :=
  vid' ← field_or object "vid" js_Number 0;
  pid' ← field_or object "pid" js_Number 0;
  softwareVersion' ← field_or object "softwareVersion" js_Number 0;
  softwareVersionString' ← field_or object "softwareVersionString" to_string "";
  owner' ← field_or object "owner" to_string "";
  testResult' ← field_or object "testResult" to_string "";
  testDate' ← field_or object "testDate" to_string "";
  Ok (mk vid' pid' softwareVersion' softwareVersionString' owner' testResult' testDate').

Definition toJSON (message : t) : js :=
  Obj ([("vid", Num message.(vid));
    ("pid", Num message.(pid));
    ("softwareVersion", Num message.(softwareVersion));
    ("softwareVersionString", Str message.(softwareVersionString));
    ("owner", Str message.(owner));
    ("testResult", Str message.(testResult));
    ("testDate", Str message.(testDate))]).

Record partial := mkPartial {
  p_vid : option number;
  p_pid : option number;
  p_softwareVersion : option number;
  p_softwareVersionString : option string;
  p_owner : option string;
  p_testResult : option string;
  p_testDate : option string;
}.

Definition fromPartial (object : partial) : t := {|
  vid := object.(p_vid) ?? Int 0;
  pid := object.(p_pid) ?? Int 0;
  softwareVersion := object.(p_softwareVersion) ?? Int 0;
  softwareVersionString := object.(p_softwareVersionString) ?? "";
  owner := object.(p_owner) ?? "";
  testResult := object.(p_testResult) ?? "";
  testDate := object.(p_testDate) ?? "";
|}.

(** The object with no property given. *)
Definition nothing : partial := mkPartial None None None None None None None.

(** The bytes [encode] writes. *)
Definition wire {PB : Protobuf} {PS : ProtobufSpec PB} (m : t) : bytes :=
  f_number e_int32 8 m.(vid) ++
  f_number e_int32 16 m.(pid) ++
  f_number e_uint32 24 m.(softwareVersion) ++
  f_string 34 m.(softwareVersionString) ++
  f_string 42 m.(owner) ++
  f_string 50 m.(testResult) ++
  f_string 58 m.(testDate).

Definition valid (m : t) : Prop :=
  int32_ok m.(vid) ∧ int32_ok m.(pid) ∧ uint32_ok m.(softwareVersion).

Definition encodable {PB : Protobuf} {PS : ProtobufSpec PB} (m : t) : Prop :=
  valid m ∧ small (wire m).

Definition merge (m a : t) : t := {|
  vid := later_number m.(vid) a.(vid);
  pid := later_number m.(pid) a.(pid);
  softwareVersion := later_number m.(softwareVersion) a.(softwareVersion);
  softwareVersionString := later_string m.(softwareVersionString) a.(softwareVersionString);
  owner := later_string m.(owner) a.(owner);
  testResult := later_string m.(testResult) a.(testResult);
  testDate := later_string m.(testDate) a.(testDate);
|}.

(** A whole message seen as a partial one. *)
Definition full (m : t) : partial := {|
  p_vid := Some m.(vid);
  p_pid := Some m.(pid);
  p_softwareVersion := Some m.(softwareVersion);
  p_softwareVersionString := Some m.(softwareVersionString);
  p_owner := Some m.(owner);
  p_testResult := Some m.(testResult);
  p_testDate := Some m.(testDate);
|}.

(** The message as its schema declares it. *)
Definition schema (m : t) : list field :=
  [implicit 1 (VInt Int32 m.(vid));
   implicit 2 (VInt Int32 m.(pid));
   implicit 3 (VInt Uint32 m.(softwareVersion));
   implicit 4 (VString m.(softwareVersionString));
   implicit 5 (VString m.(owner));
   implicit 6 (VString m.(testResult));
   implicit 7 (VString m.(testDate))].

(** The message with its default for every property that is not kept. *)
Definition only (kept : string → bool) (m : t) : t := {|
  vid := if kept "vid" then m.(vid) else Int 0;
  pid := if kept "pid" then m.(pid) else Int 0;
  softwareVersion := if kept "softwareVersion" then m.(softwareVersion) else Int 0;
  softwareVersionString := if kept "softwareVersionString" then m.(softwareVersionString) else "";
  owner := if kept "owner" then m.(owner) else "";
  testResult := if kept "testResult" then m.(testResult) else "";
  testDate := if kept "testDate" then m.(testDate) else "";
|}.

#[global] Instance codec {PB : Protobuf} : MessageCodec t :=
  {| msg_base := base; msg_encode := encode; msg_field := decode_field |}.

#[global] Program Instance spec {PB : Protobuf} (PS : ProtobufSpec PB) : MessageSpec PS t :=
  {| msg_wire := wire; msg_valid := valid; msg_merge := merge |}.
Next Obligation. solve_encode_wire. Qed.
Next Obligation. solve_decode_wire. Qed.
Next Obligation. solve_merge_base. Qed.
Next Obligation. intros. solve_advances decode_field. Qed.

#[global] Program Instance data : MessageData t partial :=
  {| msg_fromJSON := fromJSON; msg_toJSON := toJSON;
     msg_fromPartial := fromPartial; msg_full := full |}.
Next Obligation. solve_json fromJSON toJSON. Qed.
Next Obligation. solve_partial fromPartial full. Qed.

#[global] Instance schema_wire {PB : Protobuf} {PS : ProtobufSpec PB} : WireSchema wire schema.
Proof. solve_schema_wire wire schema. Qed.

#[global] Instance schema_merge : MergeSchema merge schema.
Proof. solve_schema_merge merge schema. Qed.

(** Its row in the table of message types. *)
Definition message {PB : Protobuf} {PS : ProtobufSpec PB} : message_type :=
  plain_message "TestingResult" nothing true schema only.

#[global] Instance message_lawful {PB : Protobuf} (PS : ProtobufSpec PB) : Lawful message.
Proof. solve_lawful decode_field fromJSON only. Qed.

End TestingResult.

(** ** [TestingResults] (compliancetest/testing_results.js) *)

Module TestingResults.

Record t := mk {
  vid : number;
  pid : number;
  softwareVersion : number;
  results : list TestingResult.t;
  softwareVersionString : string;
}.

#[global] Instance t_eta : Settable t := λ m, mk m.(vid) m.(pid) m.(softwareVersion) m.(results)
  m.(softwareVersionString).

Definition base : t := mk 0 0 0 [] "".

Definition encode {PB : Protobuf} (message : t) (writer : Writer) : Writer :=
  writer
  @> when (num_neq message.(vid) 0) (fun w => w @> uint32 8 @> int32 message.(vid))
  @> when (num_neq message.(pid) 0) (fun w => w @> uint32 16 @> int32 message.(pid))
  @> when (num_neq message.(softwareVersion) 0)
       (fun w => w @> uint32 24 @> uint32 message.(softwareVersion))
  @> each message.(results) (fun v w => w @> uint32 34 @> fork @> TestingResult.encode v @> ldelim)
  @> when (str_neq message.(softwareVersionString) "")
       (fun w => w @> uint32 42 @> string_ message.(softwareVersionString)).

Definition decode_field {PB : Protobuf} (tag : Z) (message : t) : RM t :=
  match field_number tag with
  | 1 => v ← read_int32; mret (message <| vid := Int v |>)
  | 2 => v ← read_int32; mret (message <| pid := Int v |>)
  | 3 => v ← read_uint32; mret (message <| softwareVersion := Int v |>)
  | 4 => v ← read_nested TestingResult.decode;
         mret (message <| results := message.(results) ++ [v] |>)
  | 5 => v ← read_string; mret (message <| softwareVersionString := v |>)
  | _ => _ ← skipType (wire_type tag); mret message
  end.

Definition decode {PB : Protobuf} (length : option Z) : RM t :=
  decode_message length base decode_field.

Definition fromJSON (object : js) : result t :=
  vid' ← field_or object "vid" js_Number 0;
  pid' ← field_or object "pid" js_Number 0;
  softwareVersion' ← field_or object "softwareVersion" js_Number 0;
  results' ← field_or object "results" (to_list TestingResult.fromJSON) [];
  softwareVersionString' ← field_or object "softwareVersionString" to_string "";
  Ok (mk vid' pid' softwareVersion' results' softwareVersionString').

Definition toJSON (message : t) : js :=
  Obj ([("vid", Num message.(vid));
    ("pid", Num message.(pid));
    ("softwareVersion", Num message.(softwareVersion));
    ("results", Arr (map TestingResult.toJSON message.(results)));
    ("softwareVersionString", Str message.(softwareVersionString))]).

Record partial := mkPartial {
  p_vid : option number;
  p_pid : option number;
  p_softwareVersion : option number;
  p_results : option (list TestingResult.partial);
  p_softwareVersionString : option string;
}.

Definition fromPartial (object : partial) : t := {|
  vid := object.(p_vid) ?? Int 0;
  pid := object.(p_pid) ?? Int 0;
  softwareVersion := object.(p_softwareVersion) ?? Int 0;
  results := map TestingResult.fromPartial (object.(p_results) ?? []);
  softwareVersionString := object.(p_softwareVersionString) ?? "";
|}.

(** The object with no property given. *)
Definition nothing : partial := mkPartial None None None None None.

(** The bytes [encode] writes. *)
Definition wire {PB : Protobuf} {PS : ProtobufSpec PB} (m : t) : bytes :=
  f_number e_int32 8 m.(vid) ++
  f_number e_int32 16 m.(pid) ++
  f_number e_uint32 24 m.(softwareVersion) ++
  f_repeated 34 TestingResult.wire m.(results) ++
  f_string 42 m.(softwareVersionString).

Definition valid (m : t) : Prop :=
  int32_ok m.(vid) ∧ int32_ok m.(pid) ∧ uint32_ok m.(softwareVersion) ∧ Forall TestingResult.valid m.(results).

Definition encodable {PB : Protobuf} {PS : ProtobufSpec PB} (m : t) : Prop :=
  valid m ∧ small (wire m).

Definition merge (m a : t) : t := {|
  vid := later_number m.(vid) a.(vid);
  pid := later_number m.(pid) a.(pid);
  softwareVersion := later_number m.(softwareVersion) a.(softwareVersion);
  results := m.(results) ++ a.(results);
  softwareVersionString := later_string m.(softwareVersionString) a.(softwareVersionString);
|}.

(** A whole message seen as a partial one. *)
Definition full (m : t) : partial := {|
  p_vid := Some m.(vid);
  p_pid := Some m.(pid);
  p_softwareVersion := Some m.(softwareVersion);
  p_results := Some (map TestingResult.full m.(results));
  p_softwareVersionString := Some m.(softwareVersionString);
|}.

(** The message as its schema declares it. *)
Definition schema (m : t) : list field :=
  [implicit 1 (VInt Int32 m.(vid));
   implicit 2 (VInt Int32 m.(pid));
   implicit 3 (VInt Uint32 m.(softwareVersion));
   repeated 4 (message_value TestingResult.schema) m.(results);
   implicit 5 (VString m.(softwareVersionString))].

(** The message with its default for every property that is not kept. *)
Definition only (kept : string → bool) (m : t) : t := {|
  vid := if kept "vid" then m.(vid) else Int 0;
  pid := if kept "pid" then m.(pid) else Int 0;
  softwareVersion := if kept "softwareVersion" then m.(softwareVersion) else Int 0;
  results := if kept "results" then m.(results) else [];
  softwareVersionString := if kept "softwareVersionString" then m.(softwareVersionString) else "";
|}.

#[global] Instance codec {PB : Protobuf} : MessageCodec t :=
  {| msg_base := base; msg_encode := encode; msg_field := decode_field |}.

#[global] Program Instance spec {PB : Protobuf} (PS : ProtobufSpec PB) : MessageSpec PS t :=
  {| msg_wire := wire; msg_valid := valid; msg_merge := merge |}.
Next Obligation. solve_encode_wire. Qed.
Next Obligation. solve_decode_wire. Qed.
Next Obligation. solve_merge_base. Qed.
Next Obligation. intros. solve_advances decode_field. Qed.

#[global] Program Instance data : MessageData t partial :=
  {| msg_fromJSON := fromJSON; msg_toJSON := toJSON;
     msg_fromPartial := fromPartial; msg_full := full |}.
Next Obligation. solve_json fromJSON toJSON. Qed.
Next Obligation. solve_partial fromPartial full. Qed.

#[global] Instance schema_wire {PB : Protobuf} {PS : ProtobufSpec PB} : WireSchema wire schema.
Proof. solve_schema_wire wire schema. Qed.

#[global] Instance schema_merge : MergeSchema merge schema.
Proof. solve_schema_merge merge schema. Qed.

(** Its row in the table of message types. *)
Definition message {PB : Protobuf} {PS : ProtobufSpec PB} : message_type :=
  plain_message "TestingResults" nothing true schema only.

#[global] Instance message_lawful {PB : Protobuf} (PS : ProtobufSpec PB) : Lawful message.
Proof. solve_lawful decode_field fromJSON only. Qed.

End TestingResults.

(** ** [MsgAddTestingResult] (compliancetest/tx.js) *)

Module MsgAddTestingResult.

Record t := mk {
  signer : string;
  vid : number;
  pid : number;
  softwareVersion : number;
  softwareVersionString : string;
  testResult : string;
  testDate : string;
}.

#[global] Instance t_eta : Settable t := λ m, mk m.(signer) m.(vid) m.(pid) m.(softwareVersion)
  m.(softwareVersionString) m.(testResult) m.(testDate).

Definition base : t := mk "" 0 0 0 "" "" "".

Definition encode {PB : Protobuf} (message : t) (writer : Writer) : Writer :=
  writer
  @> when (str_neq message.(signer) "") (fun w => w @> uint32 10 @> string_ message.(signer))
  @> when (num_neq message.(vid) 0) (fun w => w @> uint32 16 @> int32 message.(vid))
  @> when (num_neq message.(pid) 0) (fun w => w @> uint32 24 @> int32 message.(pid))
  @> when (num_neq message.(softwareVersion) 0)
       (fun w => w @> uint32 32 @> uint32 message.(softwareVersion))
  @> when (str_neq message.(softwareVersionString) "")
       (fun w => w @> uint32 42 @> string_ message.(softwareVersionString))
  @> when (str_neq message.(testResult) "")
       (fun w => w @> uint32 50 @> string_ message.(testResult))
  @> when (str_neq message.(testDate) "") (fun w => w @> uint32 58 @> string_ message.(testDate)).

Definition decode_field {PB : Protobuf} (tag : Z) (message : t) : RM t :=
  match field_number tag with
  | 1 => v ← read_string; mret (message <| signer := v |>)
  | 2 => v ← read_int32; mret (message <| vid := Int v |>)
  | 3 => v ← read_int32; mret (message <| pid := Int v |>)
  | 4 => v ← read_uint32; mret (message <| softwareVersion := Int v |>)
  | 5 => v ← read_string; mret (message <| softwareVersionString := v |>)
  | 6 => v ← read_string; mret (message <| testResult := v |>)
  | 7 => v ← read_string; mret (message <| testDate := v |>)
  | _ => _ ← skipType (wire_type tag); mret message
  end.

Definition decode {PB : Protobuf} (length : option Z) : RM t :=
  decode_message length base decode_field.

Definition fromJSON (object : js) : result t :=
  signer' ← field_or object "signer" to_string "";
  vid' ← field_or object "vid" js_Number 0;
  pid' ← field_or object "pid" js_Number 0;
  softwareVersion' ← field_or object "softwareVersion" js_Number 0;
  softwareVersionString' ← field_or object "softwareVersionString" to_string "";
  testResult' ← field_or object "testResult" to_string "";
  testDate' ← field_or object "testDate" to_string "";
  Ok (mk signer' vid' pid' softwareVersion' softwareVersionString' testResult' testDate').

Definition toJSON (message : t) : js :=
  Obj ([("signer", Str message.(signer));
    ("vid", Num message.(vid));
    ("pid", Num message.(pid));
    ("softwareVersion", Num message.(softwareVersion));
    ("softwareVersionString", Str message.(softwareVersionString));
    ("testResult", Str message.(testResult));
    ("testDate", Str message.(testDate))]).

Record partial := mkPartial {
  p_signer : option string;
  p_vid : option number;
  p_pid : option number;
  p_softwareVersion : option number;
  p_softwareVersionString : option string;
  p_testResult : option string;
  p_testDate : option string;
}.

Definition fromPartial (object : partial) : t := {|
  signer := object.(p_signer) ?? "";
  vid := object.(p_vid) ?? Int 0;
  pid := object.(p_pid) ?? Int 0;
  softwareVersion := object.(p_softwareVersion) ?? Int 0;
  softwareVersionString := object.(p_softwareVersionString) ?? "";
  testResult := object.(p_testResult) ?? "";
  testDate := object.(p_testDate) ?? "";
|}.

(** The object with no property given. *)
Definition nothing : partial := mkPartial None None None None None None None.

(** The bytes [encode] writes. *)
Definition wire {PB : Protobuf} {PS : ProtobufSpec PB} (m : t) : bytes :=
  f_string 10 m.(signer) ++
  f_number e_int32 16 m.(vid) ++
  f_number e_int32 24 m.(pid) ++
  f_number e_uint32 32 m.(softwareVersion) ++
  f_string 42 m.(softwareVersionString) ++
  f_string 50 m.(testResult) ++
  f_string 58 m.(testDate).

Definition valid (m : t) : Prop :=
  int32_ok m.(vid) ∧ int32_ok m.(pid) ∧ uint32_ok m.(softwareVersion).

Definition encodable {PB : Protobuf} {PS : ProtobufSpec PB} (m : t) : Prop :=
  valid m ∧ small (wire m).

Definition merge (m a : t) : t := {|
  signer := later_string m.(signer) a.(signer);
  vid := later_number m.(vid) a.(vid);
  pid := later_number m.(pid) a.(pid);
  softwareVersion := later_number m.(softwareVersion) a.(softwareVersion);
  softwareVersionString := later_string m.(softwareVersionString) a.(softwareVersionString);
  testResult := later_string m.(testResult) a.(testResult);
  testDate := later_string m.(testDate) a.(testDate);
|}.

(** A whole message seen as a partial one. *)
Definition full (m : t) : partial := {|
  p_signer := Some m.(signer);
  p_vid := Some m.(vid);
  p_pid := Some m.(pid);
  p_softwareVersion := Some m.(softwareVersion);
  p_softwareVersionString := Some m.(softwareVersionString);
  p_testResult := Some m.(testResult);
  p_testDate := Some m.(testDate);
|}.

(** The message as its schema declares it. *)
Definition schema (m : t) : list field :=
  [implicit 1 (VString m.(signer));
   implicit 2 (VInt Int32 m.(vid));
   implicit 3 (VInt Int32 m.(pid));
   implicit 4 (VInt Uint32 m.(softwareVersion));
   implicit 5 (VString m.(softwareVersionString));
   implicit 6 (VString m.(testResult));
   implicit 7 (VString m.(testDate))].

(** The message with its default for every property that is not kept. *)
Definition only (kept : string → bool) (m : t) : t := {|
  signer := if kept "signer" then m.(signer) else "";
  vid := if kept "vid" then m.(vid) else Int 0;
  pid := if kept "pid" then m.(pid) else Int 0;
  softwareVersion := if kept "softwareVersion" then m.(softwareVersion) else Int 0;
  softwareVersionString := if kept "softwareVersionString" then m.(softwareVersionString) else "";
  testResult := if kept "testResult" then m.(testResult) else "";
  testDate := if kept "testDate" then m.(testDate) else "";
|}.

#[global] Instance codec {PB : Protobuf} : MessageCodec t :=
  {| msg_base := base; msg_encode := encode; msg_field := decode_field |}.

#[global] Program Instance spec {PB : Protobuf} (PS : ProtobufSpec PB) : MessageSpec PS t :=
  {| msg_wire := wire; msg_valid := valid; msg_merge := merge |}.
Next Obligation. solve_encode_wire. Qed.
Next Obligation. solve_decode_wire. Qed.
Next Obligation. solve_merge_base. Qed.
Next Obligation. intros. solve_advances decode_field. Qed.

#[global] Program Instance data : MessageData t partial :=
  {| msg_fromJSON := fromJSON; msg_toJSON := toJSON;
     msg_fromPartial := fromPartial; msg_full := full |}.
Next Obligation. solve_json fromJSON toJSON. Qed.
Next Obligation. solve_partial fromPartial full. Qed.

#[global] Instance schema_wire {PB : Protobuf} {PS : ProtobufSpec PB} : WireSchema wire schema.
Proof. solve_schema_wire wire schema. Qed.

#[global] Instance schema_merge : MergeSchema merge schema.
Proof. solve_schema_merge merge schema. Qed.

(** Its row in the table of message types. *)
Definition message {PB : Protobuf} {PS : ProtobufSpec PB} : message_type :=
  plain_message "MsgAddTestingResult" nothing true schema only.

#[global] Instance message_lawful {PB : Protobuf} (PS : ProtobufSpec PB) : Lawful message.
Proof. solve_lawful decode_field fromJSON only. Qed.

End MsgAddTestingResult.

(** ** [MsgAddTestingResultResponse] (compliancetest/tx.js) *)

Module MsgAddTestingResultResponse.

Record t := mk {}.

#[global] Instance t_eta : Settable t := λ m, m.

Definition base : t := mk.

Definition encode {PB : Protobuf} (message : t) (writer : Writer) : Writer :=
  writer.

Definition decode_field {PB : Protobuf} (tag : Z) (message : t) : RM t :=
  match field_number tag with
  | _ => _ ← skipType (wire_type tag); mret message
  end.

Definition decode {PB : Protobuf} (length : option Z) : RM t :=
  decode_message length base decode_field.

Definition fromJSON (object : js) : result t :=
  Ok base.

Definition toJSON (message : t) : js :=
  Obj [].

Record partial := mkPartial {}.

Definition fromPartial (object : partial) : t := base.

(** The object with no property given. *)
Definition nothing : partial := mkPartial.

(** The bytes [encode] writes. *)
Definition wire {PB : Protobuf} {PS : ProtobufSpec PB} (m : t) : bytes :=
  [].

Definition valid (m : t) : Prop :=
  True.

Definition encodable {PB : Protobuf} {PS : ProtobufSpec PB} (m : t) : Prop :=
  valid m ∧ small (wire m).

Definition merge (m a : t) : t := m.

(** A whole message seen as a partial one. *)
Definition full (m : t) : partial := mkPartial.

(** The message as its schema declares it. *)
Definition schema (m : t) : list field :=
  [].

(** The message with its default for every property that is not kept. *)
Definition only (kept : string → bool) (m : t) : t := m.

#[global] Instance codec {PB : Protobuf} : MessageCodec t :=
  {| msg_base := base; msg_encode := encode; msg_field := decode_field |}.

#[global] Program Instance spec {PB : Protobuf} (PS : ProtobufSpec PB) : MessageSpec PS t :=
  {| msg_wire := wire; msg_valid := valid; msg_merge := merge |}.
Next Obligation. solve_encode_wire. Qed.
Next Obligation. solve_decode_wire. Qed.
Next Obligation. solve_merge_base. Qed.
Next Obligation. intros. solve_advances decode_field. Qed.

#[global] Program Instance data : MessageData t partial :=
  {| msg_fromJSON := fromJSON; msg_toJSON := toJSON;
     msg_fromPartial := fromPartial; msg_full := full |}.
Next Obligation. solve_json fromJSON toJSON. Qed.
Next Obligation. solve_partial fromPartial full. Qed.

#[global] Instance schema_wire {PB : Protobuf} {PS : ProtobufSpec PB} : WireSchema wire schema.
Proof. solve_schema_wire wire schema. Qed.

#[global] Instance schema_merge : MergeSchema merge schema.
Proof. solve_schema_merge merge schema. Qed.

(** Its row in the table of message types. *)
Definition message {PB : Protobuf} {PS : ProtobufSpec PB} : message_type :=
  plain_message "MsgAddTestingResultResponse" nothing false schema only.

#[global] Instance message_lawful {PB : Protobuf} (PS : ProtobufSpec PB) : Lawful message.
Proof. solve_lawful decode_field fromJSON only. Qed.

End MsgAddTestingResultResponse.

(** ** [QueryGetTestingResultsRequest] (compliancetest/query.js) *)

Module QueryGetTestingResultsRequest.

Record t := mk {
  vid : number;
  pid : number;
  softwareVersion : number;
}.

#[global] Instance t_eta : Settable t := λ m, mk m.(vid) m.(pid) m.(softwareVersion).

Definition base : t := mk 0 0 0.

Definition encode {PB : Protobuf} (message : t) (writer : Writer) : Writer :=
  writer
  @> when (num_neq message.(vid) 0) (fun w => w @> uint32 8 @> int32 message.(vid))
  @> when (num_neq message.(pid) 0) (fun w => w @> uint32 16 @> int32 message.(pid))
  @> when (num_neq message.(softwareVersion) 0)
       (fun w => w @> uint32 24 @> uint32 message.(softwareVersion)).

Definition decode_field {PB : Protobuf} (tag : Z) (message : t) : RM t :=
  match field_number tag with
  | 1 => v ← read_int32; mret (message <| vid := Int v |>)
  | 2 => v ← read_int32; mret (message <| pid := Int v |>)
  | 3 => v ← read_uint32; mret (message <| softwareVersion := Int v |>)
  | _ => _ ← skipType (wire_type tag); mret message
  end.

Definition decode {PB : Protobuf} (length : option Z) : RM t :=
  decode_message length base decode_field.

Definition fromJSON (object : js) : result t :=
  vid' ← field_or object "vid" js_Number 0;
  pid' ← field_or object "pid" js_Number 0;
  softwareVersion' ← field_or object "softwareVersion" js_Number 0;
  Ok (mk vid' pid' softwareVersion').

Definition toJSON (message : t) : js :=
  Obj ([("vid", Num message.(vid));
    ("pid", Num message.(pid));
    ("softwareVersion", Num message.(softwareVersion))]).

Record partial := mkPartial {
  p_vid : option number;
  p_pid : option number;
  p_softwareVersion : option number;
}.

Definition fromPartial (object : partial) : t := {|
  vid := object.(p_vid) ?? Int 0;
  pid := object.(p_pid) ?? Int 0;
  softwareVersion := object.(p_softwareVersion) ?? Int 0;
|}.

(** The object with no property given. *)
Definition nothing : partial := mkPartial None None None.

(** The bytes [encode] writes. *)
Definition wire {PB : Protobuf} {PS : ProtobufSpec PB} (m : t) : bytes :=
  f_number e_int32 8 m.(vid) ++
  f_number e_int32 16 m.(pid) ++
  f_number e_uint32 24 m.(softwareVersion).

Definition valid (m : t) : Prop :=
  int32_ok m.(vid) ∧ int32_ok m.(pid) ∧ uint32_ok m.(softwareVersion).

Definition encodable {PB : Protobuf} {PS : ProtobufSpec PB} (m : t) : Prop :=
  valid m ∧ small (wire m).

Definition merge (m a : t) : t := {|
  vid := later_number m.(vid) a.(vid);
  pid := later_number m.(pid) a.(pid);
  softwareVersion := later_number m.(softwareVersion) a.(softwareVersion);
|}.

(** A whole message seen as a partial one. *)
Definition full (m : t) : partial := {|
  p_vid := Some m.(vid);
  p_pid := Some m.(pid);
  p_softwareVersion := Some m.(softwareVersion);
|}.

(** The message as its schema declares it. *)
Definition schema (m : t) : list field :=
  [implicit 1 (VInt Int32 m.(vid));
   implicit 2 (VInt Int32 m.(pid));
   implicit 3 (VInt Uint32 m.(softwareVersion))].

(** The message with its default for every property that is not kept. *)
Definition only (kept : string → bool) (m : t) : t := {|
  vid := if kept "vid" then m.(vid) else Int 0;
  pid := if kept "pid" then m.(pid) else Int 0;
  softwareVersion := if kept "softwareVersion" then m.(softwareVersion) else Int 0;
|}.

#[global] Instance codec {PB : Protobuf} : MessageCodec t :=
  {| msg_base := base; msg_encode := encode; msg_field := decode_field |}.

#[global] Program Instance spec {PB : Protobuf} (PS : ProtobufSpec PB) : MessageSpec PS t :=
  {| msg_wire := wire; msg_valid := valid; msg_merge := merge |}.
Next Obligation. solve_encode_wire. Qed.
Next Obligation. solve_decode_wire. Qed.
Next Obligation. solve_merge_base. Qed.
Next Obligation. intros. solve_advances decode_field. Qed.

#[global] Program Instance data : MessageData t partial :=
  {| msg_fromJSON := fromJSON; msg_toJSON := toJSON;
     msg_fromPartial := fromPartial; msg_full := full |}.
Next Obligation. solve_json fromJSON toJSON. Qed.
Next Obligation. solve_partial fromPartial full. Qed.

#[global] Instance schema_wire {PB : Protobuf} {PS : ProtobufSpec PB} : WireSchema wire schema.
Proof. solve_schema_wire wire schema. Qed.

#[global] Instance schema_merge : MergeSchema merge schema.
Proof. solve_schema_merge merge schema. Qed.

(** Its row in the table of message types. *)
Definition message {PB : Protobuf} {PS : ProtobufSpec PB} : message_type :=
  plain_message "QueryGetTestingResultsRequest" nothing true schema only.

#[global] Instance message_lawful {PB : Protobuf} (PS : ProtobufSpec PB) : Lawful message.
Proof. solve_lawful decode_field fromJSON only. Qed.

End QueryGetTestingResultsRequest.

(** ** [QueryGetTestingResultsResponse] (compliancetest/query.js) *)

Module QueryGetTestingResultsResponse.

Record t := mk {
  testingResults : option TestingResults.t;
}.

#[global] Instance t_eta : Settable t := λ m, mk m.(testingResults).

Definition base : t := mk None.

Definition encode {PB : Protobuf} (message : t) (writer : Writer) : Writer :=
  writer
  @> defined message.(testingResults) (fun v w => w @> uint32 10 @> fork @> TestingResults.encode v @> ldelim).

Definition decode_field {PB : Protobuf} (tag : Z) (message : t) : RM t :=
  match field_number tag with
  | 1 => v ← read_nested TestingResults.decode; mret (message <| testingResults := Some v |>)
  | _ => _ ← skipType (wire_type tag); mret message
  end.

Definition decode {PB : Protobuf} (length : option Z) : RM t :=
  decode_message length base decode_field.

Definition fromJSON (object : js) : result t :=
  testingResults' ← field_or object "testingResults" (to_some TestingResults.fromJSON) None;
  Ok (mk testingResults').

Definition toJSON (message : t) : js :=
  Obj (prop_opt "testingResults" TestingResults.toJSON message.(testingResults)).

Record partial := mkPartial {
  p_testingResults : option TestingResults.partial;
}.

Definition fromPartial (object : partial) : t := {|
  testingResults := TestingResults.fromPartial <$> object.(p_testingResults);
|}.

(** The object with no property given. *)
Definition nothing : partial := mkPartial None.

(** The bytes [encode] writes. *)
Definition wire {PB : Protobuf} {PS : ProtobufSpec PB} (m : t) : bytes :=
  f_message 10 TestingResults.wire m.(testingResults).

Definition valid (m : t) : Prop :=
  from_option TestingResults.valid True m.(testingResults).

Definition encodable {PB : Protobuf} {PS : ProtobufSpec PB} (m : t) : Prop :=
  valid m ∧ small (wire m).

Definition merge (m a : t) : t := {|
  testingResults := later_message m.(testingResults) a.(testingResults);
|}.

(** A whole message seen as a partial one. *)
Definition full (m : t) : partial := {|
  p_testingResults := TestingResults.full <$> m.(testingResults);
|}.

(** The message as its schema declares it. *)
Definition schema (m : t) : list field :=
  [singular 1 Optional (message_value TestingResults.schema) m.(testingResults)].

(** The message with its default for every property that is not kept. *)
Definition only (kept : string → bool) (m : t) : t := {|
  testingResults := if kept "testingResults" then m.(testingResults) else None;
|}.

#[global] Instance codec {PB : Protobuf} : MessageCodec t :=
  {| msg_base := base; msg_encode := encode; msg_field := decode_field |}.

#[global] Program Instance spec {PB : Protobuf} (PS : ProtobufSpec PB) : MessageSpec PS t :=
  {| msg_wire := wire; msg_valid := valid; msg_merge := merge |}.
Next Obligation. solve_encode_wire. Qed.
Next Obligation. solve_decode_wire. Qed.
Next Obligation. solve_merge_base. Qed.
Next Obligation. intros. solve_advances decode_field. Qed.

#[global] Program Instance data : MessageData t partial :=
  {| msg_fromJSON := fromJSON; msg_toJSON := toJSON;
     msg_fromPartial := fromPartial; msg_full := full |}.
Next Obligation. solve_json fromJSON toJSON. Qed.
Next Obligation. solve_partial fromPartial full. Qed.

#[global] Instance schema_wire {PB : Protobuf} {PS : ProtobufSpec PB} : WireSchema wire schema.
Proof. solve_schema_wire wire schema. Qed.

#[global] Instance schema_merge : MergeSchema merge schema.
Proof. solve_schema_merge merge schema. Qed.

(** Its row in the table of message types. *)
Definition message {PB : Protobuf} {PS : ProtobufSpec PB} : message_type :=
  plain_message "QueryGetTestingResultsResponse" nothing true schema only.

#[global] Instance message_lawful {PB : Protobuf} (PS : ProtobufSpec PB) : Lawful message.
Proof. solve_lawful decode_field fromJSON only. Qed.

End QueryGetTestingResultsResponse.

(** ** [QueryAllTestingResultsRequest] (compliancetest/query.js) *)

Module QueryAllTestingResultsRequest.

Record t := mk {
  pagination : option PageRequest.t;
}.

#[global] Instance t_eta : Settable t := λ m, mk m.(pagination).

Definition base : t := mk None.

Definition encode {PB : Protobuf} (message : t) (writer : Writer) : result Writer :=
  Ok writer
  @>= defined_e message.(pagination) (submessage 10 PageRequest.encode).

Definition decode_field {PB : Protobuf} (tag : Z) (message : t) : RM t :=
  match field_number tag with
  | 1 => v ← read_nested PageRequest.decode; mret (message <| pagination := Some v |>)
  | _ => _ ← skipType (wire_type tag); mret message
  end.

Definition decode {PB : Protobuf} (length : option Z) : RM t :=
  decode_message length base decode_field.

Definition fromJSON (object : js) : result t :=
  pagination' ← field_or object "pagination" (to_some PageRequest.fromJSON) None;
  Ok (mk pagination').

Definition toJSON (message : t) : js :=
  Obj (prop_opt "pagination" PageRequest.toJSON message.(pagination)).

Record partial := mkPartial {
  p_pagination : option PageRequest.partial;
}.

Definition fromPartial (object : partial) : t := {|
  pagination := PageRequest.fromPartial <$> object.(p_pagination);
|}.

(** The object with no property given. *)
Definition nothing : partial := mkPartial None.

(** The bytes [encode] writes. *)
Definition wire {PB : Protobuf} {PS : ProtobufSpec PB} (m : t) : bytes :=
  f_message 10 PageRequest.wire m.(pagination).

Definition valid (m : t) : Prop :=
  from_option PageRequest.valid True m.(pagination).

(** The byte fields hold arrays, as the interface declares. *)
Definition typed (m : t) : bool := from_option PageRequest.typed true m.(pagination).

(** The message without its empty byte arrays. *)
Definition normal (m : t) : t := {|
  pagination := PageRequest.normal <$> m.(pagination);
|}.

Definition encodable {PB : Protobuf} {PS : ProtobufSpec PB} (m : t) : Prop :=
  typed m = true ∧ valid m ∧ small (wire m).

Definition merge (m a : t) : t := {|
  pagination := later_message m.(pagination) (PageRequest.normal <$> a.(pagination));
|}.

(** A whole message seen as a partial one. *)
Definition full (m : t) : partial := {|
  p_pagination := PageRequest.full <$> m.(pagination);
|}.

(** The message as its schema declares it. *)
Definition schema (m : t) : list field :=
  [singular 1 Optional (message_value PageRequest.schema) m.(pagination)].

(** The message with its default for every property that is not kept. *)
Definition only (kept : string → bool) (m : t) : t := {|
  pagination := if kept "pagination" then m.(pagination) else None;
|}.

#[global] Instance codec {PB : Protobuf} : FallibleCodec t :=
  {| fmsg_base := base; fmsg_encode := encode; fmsg_field := decode_field |}.

#[global] Program Instance spec {PB : Protobuf} (PS : ProtobufSpec PB) : FallibleSpec PS t :=
  {| fmsg_wire := wire; fmsg_valid := valid; fmsg_typed := typed; fmsg_normal := normal;
     fmsg_merge := merge |}.
Next Obligation. solve_fencode_wire. Qed.
Next Obligation. intros. solve_fencode_throws encode typed. Qed.
Next Obligation. solve_fdecode_wire. Qed.
Next Obligation. solve_fmerge_base. Qed.
Next Obligation. intros. solve_fadvances decode_field. Qed.

#[global] Program Instance given_ : FalliblePartial t partial :=
  {| fmsg_fromPartial := fromPartial; fmsg_full := full; fmsg_given := typed |}.
Next Obligation. solve_fgiven fromPartial typed. Qed.
Next Obligation. solve_fpartial fromPartial full typed. Qed.

#[global] Program Instance json : FallibleJson t :=
  {| fmsg_fromJSON := fromJSON; fmsg_toJSON := toJSON;
     fmsg_named := fun _ => true; fmsg_known := fun m => m |}.
Next Obligation. solve_fjson fromJSON toJSON. Qed.
Next Obligation. reflexivity. Qed.

#[global] Instance schema_wire {PB : Protobuf} {PS : ProtobufSpec PB} : WireSchema wire schema.
Proof. solve_schema_wire wire schema. Qed.

#[global] Instance schema_normal : NormalSchema normal schema.
Proof. solve_schema_normal normal schema. Qed.

#[global] Instance schema_merge : MergeSchema merge schema.
Proof. solve_schema_merge merge schema. Qed.

(** Its row in the table of message types. *)
Definition message {PB : Protobuf} {PS : ProtobufSpec PB} : message_type :=
  fallible_message "QueryAllTestingResultsRequest" nothing true schema only.

#[global] Instance message_lawful {PB : Protobuf} (PS : ProtobufSpec PB) : Lawful message.
Proof. solve_lawful decode_field fromJSON only. Qed.

End QueryAllTestingResultsRequest.

(** ** [QueryAllTestingResultsResponse] (compliancetest/query.js) *)

Module QueryAllTestingResultsResponse.

Record t := mk {
  testingResults : list TestingResults.t;
  pagination : option PageResponse.t;
}.

#[global] Instance t_eta : Settable t := λ m, mk m.(testingResults) m.(pagination).

Definition base : t := mk [] None.

Definition encode {PB : Protobuf} (message : t) (writer : Writer) : result Writer :=
  Ok writer
  @>= pure (each message.(testingResults) (fun v w => w @> uint32 10 @> fork @> TestingResults.encode v @> ldelim))
  @>= defined_e message.(pagination) (submessage 18 PageResponse.encode).

Definition decode_field {PB : Protobuf} (tag : Z) (message : t) : RM t :=
  match field_number tag with
  | 1 => v ← read_nested TestingResults.decode;
         mret (message <| testingResults := message.(testingResults) ++ [v] |>)
  | 2 => v ← read_nested PageResponse.decode; mret (message <| pagination := Some v |>)
  | _ => _ ← skipType (wire_type tag); mret message
  end.

Definition decode {PB : Protobuf} (length : option Z) : RM t :=
  decode_message length base decode_field.

Definition fromJSON (object : js) : result t :=
  testingResults' ← field_or object "testingResults" (to_list TestingResults.fromJSON) [];
  pagination' ← field_or object "pagination" (to_some PageResponse.fromJSON) None;
  Ok (mk testingResults' pagination').

Definition toJSON (message : t) : js :=
  Obj ([("testingResults", Arr (map TestingResults.toJSON message.(testingResults)))] ++
   prop_opt "pagination" PageResponse.toJSON message.(pagination)).

Record partial := mkPartial {
  p_testingResults : option (list TestingResults.partial);
  p_pagination : option PageResponse.partial;
}.

Definition fromPartial (object : partial) : t := {|
  testingResults := map TestingResults.fromPartial (object.(p_testingResults) ?? []);
  pagination := PageResponse.fromPartial <$> object.(p_pagination);
|}.

(** The object with no property given. *)
Definition nothing : partial := mkPartial None None.

(** The bytes [encode] writes. *)
Definition wire {PB : Protobuf} {PS : ProtobufSpec PB} (m : t) : bytes :=
  f_repeated 10 TestingResults.wire m.(testingResults) ++
  f_message 18 PageResponse.wire m.(pagination).

Definition valid (m : t) : Prop :=
  Forall TestingResults.valid m.(testingResults) ∧ from_option PageResponse.valid True m.(pagination).

(** The byte fields hold arrays, as the interface declares. *)
Definition typed (m : t) : bool := from_option PageResponse.typed true m.(pagination).

(** The message without its empty byte arrays. *)
Definition normal (m : t) : t := {|
  testingResults := m.(testingResults);
  pagination := PageResponse.normal <$> m.(pagination);
|}.

Definition encodable {PB : Protobuf} {PS : ProtobufSpec PB} (m : t) : Prop :=
  typed m = true ∧ valid m ∧ small (wire m).

Definition merge (m a : t) : t := {|
  testingResults := m.(testingResults) ++ a.(testingResults);
  pagination := later_message m.(pagination) (PageResponse.normal <$> a.(pagination));
|}.

(** A whole message seen as a partial one. *)
Definition full (m : t) : partial := {|
  p_testingResults := Some (map TestingResults.full m.(testingResults));
  p_pagination := PageResponse.full <$> m.(pagination);
|}.

(** The message as its schema declares it. *)
Definition schema (m : t) : list field :=
  [repeated 1 (message_value TestingResults.schema) m.(testingResults);
   singular 2 Optional (message_value PageResponse.schema) m.(pagination)].

(** The message with its default for every property that is not kept. *)
Definition only (kept : string → bool) (m : t) : t := {|
  testingResults := if kept "testingResults" then m.(testingResults) else [];
  pagination := if kept "pagination" then m.(pagination) else None;
|}.

#[global] Instance codec {PB : Protobuf} : FallibleCodec t :=
  {| fmsg_base := base; fmsg_encode := encode; fmsg_field := decode_field |}.

#[global] Program Instance spec {PB : Protobuf} (PS : ProtobufSpec PB) : FallibleSpec PS t :=
  {| fmsg_wire := wire; fmsg_valid := valid; fmsg_typed := typed; fmsg_normal := normal;
     fmsg_merge := merge |}.
Next Obligation. solve_fencode_wire. Qed.
Next Obligation. intros. solve_fencode_throws encode typed. Qed.
Next Obligation. solve_fdecode_wire. Qed.
Next Obligation. solve_fmerge_base. Qed.
Next Obligation. intros. solve_fadvances decode_field. Qed.

#[global] Program Instance given_ : FalliblePartial t partial :=
  {| fmsg_fromPartial := fromPartial; fmsg_full := full; fmsg_given := typed |}.
Next Obligation. solve_fgiven fromPartial typed. Qed.
Next Obligation. solve_fpartial fromPartial full typed. Qed.

#[global] Program Instance json : FallibleJson t :=
  {| fmsg_fromJSON := fromJSON; fmsg_toJSON := toJSON;
     fmsg_named := fun _ => true; fmsg_known := fun m => m |}.
Next Obligation. solve_fjson fromJSON toJSON. Qed.
Next Obligation. reflexivity. Qed.

#[global] Instance schema_wire {PB : Protobuf} {PS : ProtobufSpec PB} : WireSchema wire schema.
Proof. solve_schema_wire wire schema. Qed.

#[global] Instance schema_normal : NormalSchema normal schema.
Proof. solve_schema_normal normal schema. Qed.

#[global] Instance schema_merge : MergeSchema merge schema.
Proof. solve_schema_merge merge schema. Qed.

(** Its row in the table of message types. *)
Definition message {PB : Protobuf} {PS : ProtobufSpec PB} : message_type :=
  fallible_message "QueryAllTestingResultsResponse" nothing true schema only.

#[global] Instance message_lawful {PB : Protobuf} (PS : ProtobufSpec PB) : Lawful message.
Proof. solve_lawful decode_field fromJSON only. Qed.

End QueryAllTestingResultsResponse.

(** ** [GenesisState] (compliancetest/genesis.js) *)

Module GenesisState.

Record t := mk {
  testingResultsList : list TestingResults.t;
}.

#[global] Instance t_eta : Settable t := λ m, mk m.(testingResultsList).

Definition base : t := mk [].

Definition encode {PB : Protobuf} (message : t) (writer : Writer) : Writer :=
  writer
  @> each message.(testingResultsList) (fun v w => w @> uint32 10 @> fork @> TestingResults.encode v @> ldelim).

Definition decode_field {PB : Protobuf} (tag : Z) (message : t) : RM t :=
  match field_number tag with
  | 1 => v ← read_nested TestingResults.decode;
         mret (message <| testingResultsList := message.(testingResultsList) ++ [v] |>)
  | _ => _ ← skipType (wire_type tag); mret message
  end.

Definition decode {PB : Protobuf} (length : option Z) : RM t :=
  decode_message length base decode_field.

Definition fromJSON (object : js) : result t :=
  testingResultsList' ← field_or object "testingResultsList" (to_list TestingResults.fromJSON) [];
  Ok (mk testingResultsList').

Definition toJSON (message : t) : js :=
  Obj ([("testingResultsList", Arr (map TestingResults.toJSON message.(testingResultsList)))]).

Record partial := mkPartial {
  p_testingResultsList : option (list TestingResults.partial);
}.

Definition fromPartial (object : partial) : t := {|
  testingResultsList := map TestingResults.fromPartial (object.(p_testingResultsList) ?? []);
|}.

(** The object with no property given. *)
Definition nothing : partial := mkPartial None.

(** The bytes [encode] writes. *)
Definition wire {PB : Protobuf} {PS : ProtobufSpec PB} (m : t) : bytes :=
  f_repeated 10 TestingResults.wire m.(testingResultsList).

Definition valid (m : t) : Prop :=
  Forall TestingResults.valid m.(testingResultsList).

Definition encodable {PB : Protobuf} {PS : ProtobufSpec PB} (m : t) : Prop :=
  valid m ∧ small (wire m).

Definition merge (m a : t) : t := {|
  testingResultsList := m.(testingResultsList) ++ a.(testingResultsList);
|}.

(** A whole message seen as a partial one. *)
Definition full (m : t) : partial := {|
  p_testingResultsList := Some (map TestingResults.full m.(testingResultsList));
|}.

(** The message as its schema declares it. *)
Definition schema (m : t) : list field :=
  [repeated 1 (message_value TestingResults.schema) m.(testingResultsList)].

(** The message with its default for every property that is not kept. *)
Definition only (kept : string → bool) (m : t) : t := {|
  testingResultsList := if kept "testingResultsList" then m.(testingResultsList) else [];
|}.

#[global] Instance codec {PB : Protobuf} : MessageCodec t :=
  {| msg_base := base; msg_encode := encode; msg_field := decode_field |}.

#[global] Program Instance spec {PB : Protobuf} (PS : ProtobufSpec PB) : MessageSpec PS t :=
  {| msg_wire := wire; msg_valid := valid; msg_merge := merge |}.
Next Obligation. solve_encode_wire. Qed.
Next Obligation. solve_decode_wire. Qed.
Next Obligation. solve_merge_base. Qed.
Next Obligation. intros. solve_advances decode_field. Qed.

#[global] Program Instance data : MessageData t partial :=
  {| msg_fromJSON := fromJSON; msg_toJSON := toJSON;
     msg_fromPartial := fromPartial; msg_full := full |}.
Next Obligation. solve_json fromJSON toJSON. Qed.
Next Obligation. solve_partial fromPartial full. Qed.

#[global] Instance schema_wire {PB : Protobuf} {PS : ProtobufSpec PB} : WireSchema wire schema.
Proof. solve_schema_wire wire schema. Qed.

#[global] Instance schema_merge : MergeSchema merge schema.
Proof. solve_schema_merge merge schema. Qed.

(** Its row in the table of message types. *)
Definition message {PB : Protobuf} {PS : ProtobufSpec PB} : message_type :=
  plain_message "GenesisState" nothing true schema only.

#[global] Instance message_lawful {PB : Protobuf} (PS : ProtobufSpec PB) : Lawful message.
Proof. solve_lawful decode_field fromJSON only. Qed.

End GenesisState.


(** ** [MsgClientImpl]

    [rpc] is the transport the class is constructed with: [rpc service method data]
    is what the promise of [this.rpc.request] settles to. *)
Module MsgClientImpl.
Section client.
Context {PB : Protobuf} (rpc : string → string → bytes → result bytes).

Definition AddTestingResult (request : MsgAddTestingResult.t)
    : result MsgAddTestingResultResponse.t :=
  data ← rpc "zigbeealliance.distributedcomplianceledger.compliancetest.Msg" "AddTestingResult"
    (finish (MsgAddTestingResult.encode request create));
  decode_bytes MsgAddTestingResultResponse.decode data.

End client.
End MsgClientImpl.


(** ** [QueryClientImpl]

    [rpc] is the transport the class is constructed with: [rpc service method data]
    is what the promise of [this.rpc.request] settles to. *)
Module QueryClientImpl.
Section client.
Context {PB : Protobuf} (rpc : string → string → bytes → result bytes).

Definition TestingResults (request : QueryGetTestingResultsRequest.t)
    : result QueryGetTestingResultsResponse.t :=
  data ← rpc "zigbeealliance.distributedcomplianceledger.compliancetest.Query" "TestingResults"
    (finish (QueryGetTestingResultsRequest.encode request create));
  decode_bytes QueryGetTestingResultsResponse.decode data.

Definition TestingResultsAll (request : QueryAllTestingResultsRequest.t)
    : result QueryAllTestingResultsResponse.t :=
  w ← QueryAllTestingResultsRequest.encode request create;
  data ← rpc "zigbeealliance.distributedcomplianceledger.compliancetest.Query" "TestingResultsAll" (finish w);
  decode_bytes QueryAllTestingResultsResponse.decode data.

End client.
End QueryClientImpl.

(** ** The message types of this file *)

Definition messages {PB : Protobuf} {PS : ProtobufSpec PB} : list message_type :=
  [ TestingResult.message; TestingResults.message; MsgAddTestingResult.message;
   MsgAddTestingResultResponse.message; QueryGetTestingResultsRequest.message;
   QueryGetTestingResultsResponse.message; QueryAllTestingResultsRequest.message;
   QueryAllTestingResultsResponse.message; GenesisState.message].

Lemma ComplianceTestTypes_lawful {PB : Protobuf} {PS : ProtobufSpec PB} : Forall Lawful messages.
Proof. solve_table. Qed.

(** The methods of [MsgClientImpl]. *)
Definition msg_methods {PB : Protobuf} {PS : ProtobufSpec PB} : list rpc_method :=
  [mkMethod "zigbeealliance.distributedcomplianceledger.compliancetest.Msg" "AddTestingResult"
     MsgAddTestingResult.message MsgAddTestingResultResponse.message
     (fun rpc => MsgClientImpl.AddTestingResult rpc)].

Lemma ComplianceTestTypes_msg_methods_lawful {PB : Protobuf} {PS : ProtobufSpec PB} : Forall method_lawful msg_methods.
Proof. solve_methods. Qed.

(** The methods of [QueryClientImpl]. *)
Definition query_methods {PB : Protobuf} {PS : ProtobufSpec PB} : list rpc_method :=
  [mkMethod "zigbeealliance.distributedcomplianceledger.compliancetest.Query" "TestingResults"
     QueryGetTestingResultsRequest.message QueryGetTestingResultsResponse.message
     (fun rpc => QueryClientImpl.TestingResults rpc);
   mkMethod "zigbeealliance.distributedcomplianceledger.compliancetest.Query" "TestingResultsAll"
     QueryAllTestingResultsRequest.message QueryAllTestingResultsResponse.message
     (fun rpc => QueryClientImpl.TestingResultsAll rpc)].

Lemma ComplianceTestTypes_query_methods_lawful {PB : Protobuf} {PS : ProtobufSpec PB} : Forall method_lawful query_methods.
Proof. solve_methods. Qed.
