(* ===== verification/ValidatorTypes.v ===== *)
(** * The types of the validator module

    Validator nodes, the records of disabling and rejecting them, and the
    transaction messages: the codecs of
    [validator/module/types/validator/*.js]. *)
From S2P Require Import Prelude Js Protobuf Codec Calendar Dates Base64 Fallible Proto3 MessageTable CommonTypes.
Open Scope Z_scope.

(** ** [Grant] (validator/grant.js) *)

Module Grant.

Record t := mk {
  address : string;
  time : number;
  info : string;
}.

#[global] Instance t_eta : Settable t := λ m, mk m.(address) m.(time) m.(info).

Definition base : t := mk "" 0 "".

Definition encode {PB : Protobuf} (message : t) (writer : Writer) : Writer :=
  writer
  @> when (str_neq message.(address) "") (fun w => w @> uint32 10 @> string_ message.(address))
  @> when (num_neq message.(time) 0) (fun w => w @> uint32 16 @> int64 message.(time))
  @> when (str_neq message.(info) "") (fun w => w @> uint32 26 @> string_ message.(info)).

Definition decode_field {PB : Protobuf} (tag : Z) (message : t) : RM t :=
  match field_number tag with
  | 1 => v ← read_string; mret (message <| address := v |>)
  | 2 => v ← read_number read_int64; mret (message <| time := v |>)
  | 3 => v ← read_string; mret (message <| info := v |>)
  | _ => _ ← skipType (wire_type tag); mret message
  end.

Definition decode {PB : Protobuf} (length : option Z) : RM t :=
  decode_message length base decode_field.

Definition fromJSON (object : js) : result t :=
  address' ← field_or object "address" to_string "";
  time' ← field_or object "time" js_Number 0;
  info' ← field_or object "info" to_string "";
  Ok (mk address' time' info').

Definition toJSON (message : t) : js :=
  Obj ([("address", Str message.(address));
    ("time", Num message.(time));
    ("info", Str message.(info))]).

Record partial := mkPartial {
  p_address : option string;
  p_time : option number;
  p_info : option string;
}.

Definition fromPartial (object : partial) : t := {|
  address := object.(p_address) ?? "";
  time := object.(p_time) ?? Int 0;
  info := object.(p_info) ?? "";
|}.

(** The object with no property given. *)
Definition nothing : partial := mkPartial None None None.

(** The bytes [encode] writes. *)
Definition wire {PB : Protobuf} {PS : ProtobufSpec PB} (m : t) : bytes :=
  f_string 10 m.(address) ++
  f_number e_int64 16 m.(time) ++
  f_string 26 m.(info).

Definition valid (m : t) : Prop :=
  int64_ok m.(time).

Definition encodable {PB : Protobuf} {PS : ProtobufSpec PB} (m : t) : Prop :=
  valid m ∧ small (wire m).

Definition merge (m a : t) : t := {|
  address := later_string m.(address) a.(address);
  time := later_number m.(time) a.(time);
  info := later_string m.(info) a.(info);
|}.

(** A whole message seen as a partial one. *)
Definition full (m : t) : partial := {|
  p_address := Some m.(address);
  p_time := Some m.(time);
  p_info := Some m.(info);
|}.

(** The message as its [.proto] file declares it. *)
Definition schema (m : t) : list field :=
  [implicit 1 (VString m.(address));
   implicit 2 (VInt Int64 m.(time));
   implicit 3 (VString m.(info))].

(** The message with its default for every property that is not kept. *)
Definition only (kept : string → bool) (m : t) : t := {|
  address := if kept "address" then m.(address) else "";
  time := if kept "time" then m.(time) else Int 0;
  info := if kept "info" then m.(info) else "";
|}.

#[global] Instance codec {PB : Protobuf} : MessageCodec t :=
  {| msg_base := base; msg_encode := encode; msg_field := decode_field |}.

#[global] Program Instance spec {PB : Protobuf} (PS : ProtobufSpec PB) : MessageSpec PS t :=
  {| msg_wire := wire; msg_valid := valid; msg_merge := merge |}.
Next Obligation. solve_encode_wire. Qed.
Next Obligation. solve_decode_wire. Qed.
Next Obligation. solve_merge_base. Qed.
Next Obligation. intros. solve_advances decode_field. Qed.

#[global] Program Instance data : MessageData t partial :=
  {| msg_fromJSON := fromJSON; msg_toJSON := toJSON;
     msg_fromPartial := fromPartial; msg_full := full |}.
Next Obligation. solve_json fromJSON toJSON. Qed.
Next Obligation. solve_partial fromPartial full. Qed.

#[global] Instance schema_wire {PB : Protobuf} {PS : ProtobufSpec PB} : WireSchema wire schema.
Proof. solve_schema_wire wire schema. Qed.

#[global] Instance schema_merge : MergeSchema merge schema.
Proof. solve_schema_merge merge schema. Qed.

(** Its row in the table of message types. *)
Definition message {PB : Protobuf} {PS : ProtobufSpec PB} : message_type :=
  plain_message "Grant" nothing true schema only.

#[global] Instance message_lawful {PB : Protobuf} (PS : ProtobufSpec PB) : Lawful message.
Proof. solve_lawful decode_field fromJSON only. Qed.

End Grant.

(** ** [Description] (validator/description.js) *)

Module Description.

Record t := mk {
  moniker : string;
  identity : string;
  website : string;
  details : string;
}.

#[global] Instance t_eta : Settable t := λ m, mk m.(moniker) m.(identity) m.(website)
  m.(details).

Definition base : t := mk "" "" "" "".

Definition encode {PB : Protobuf} (message : t) (writer : Writer) : Writer :=
  writer
  @> when (str_neq message.(moniker) "") (fun w => w @> uint32 10 @> string_ message.(moniker))
  @> when (str_neq message.(identity) "") (fun w => w @> uint32 18 @> string_ message.(identity))
  @> when (str_neq message.(website) "") (fun w => w @> uint32 26 @> string_ message.(website))
  @> when (str_neq message.(details) "") (fun w => w @> uint32 34 @> string_ message.(details)).

Definition decode_field {PB : Protobuf} (tag : Z) (message : t) : RM t :=
  match field_number tag with
  | 1 => v ← read_string; mret (message <| moniker := v |>)
  | 2 => v ← read_string; mret (message <| identity := v |>)
  | 3 => v ← read_string; mret (message <| website := v |>)
  | 4 => v ← read_string; mret (message <| details := v |>)
  | _ => _ ← skipType (wire_type tag); mret message
  end.

Definition decode {PB : Protobuf} (length : option Z) : RM t :=
  decode_message length base decode_field.

Definition fromJSON (object : js) : result t :=
  moniker' ← field_or object "moniker" to_string "";
  identity' ← field_or object "identity" to_string "";
  website' ← field_or object "website" to_string "";
  details' ← field_or object "details" to_string "";
  Ok (mk moniker' identity' website' details').

Definition toJSON (message : t) : js :=
  Obj ([("moniker", Str message.(moniker));
    ("identity", Str message.(identity));
    ("website", Str message.(website));
    ("details", Str message.(details))]).

Record partial := mkPartial {
  p_moniker : option string;
  p_identity : option string;
  p_website : option string;
  p_details : option string;
}.

Definition fromPartial (object : partial) : t := {|
  moniker := object.(p_moniker) ?? "";
  identity := object.(p_identity) ?? "";
  website := object.(p_website) ?? "";
  details := object.(p_details) ?? "";
|}.

(** The object with no property given. *)
Definition nothing : partial := mkPartial None None None None.

(** The bytes [encode] writes. *)
Definition wire {PB : Protobuf} {PS : ProtobufSpec PB} (m : t) : bytes :=
  f_string 10 m.(moniker) ++
  f_string 18 m.(identity) ++
  f_string 26 m.(website) ++
  f_string 34 m.(details).

Definition valid (m : t) : Prop :=
  True.

Definition encodable {PB : Protobuf} {PS : ProtobufSpec PB} (m : t) : Prop :=
  valid m ∧ small (wire m).

Definition merge (m a : t) : t := {|
  moniker := later_string m.(moniker) a.(moniker);
  identity := later_string m.(identity) a.(identity);
  website := later_string m.(website) a.(website);
  details := later_string m.(details) a.(details);
|}.

(** A whole message seen as a partial one. *)
Definition full (m : t) : partial := {|
  p_moniker := Some m.(moniker);
  p_identity := Some m.(identity);
  p_website := Some m.(website);
  p_details := Some m.(details);
|}.

(** The message as its [.proto] file declares it. *)
Definition schema (m : t) : list field :=
  [implicit 1 (VString m.(moniker));
   implicit 2 (VString m.(identity));
   implicit 3 (VString m.(website));
   implicit 4 (VString m.(details))].

(** The message with its default for every property that is not kept. *)
Definition only (kept : string → bool) (m : t) : t := {|
  moniker := if kept "moniker" then m.(moniker) else "";
  identity := if kept "identity" then m.(identity) else "";
  website := if kept "website" then m.(website) else "";
  details := if kept "details" then m.(details) else "";
|}.

#[global] Instance codec {PB : Protobuf} : MessageCodec t :=
  {| msg_base := base; msg_encode := encode; msg_field := decode_field |}.

#[global] Program Instance spec {PB : Protobuf} (PS : ProtobufSpec PB) : MessageSpec PS t :=
  {| msg_wire := wire; msg_valid := valid; msg_merge := merge |}.
Next Obligation. solve_encode_wire. Qed.
Next Obligation. solve_decode_wire. Qed.
Next Obligation. solve_merge_base. Qed.
Next Obligation. intros. solve_advances decode_field. Qed.

#[global] Program Instance data : MessageData t partial :=
  {| msg_fromJSON := fromJSON; msg_toJSON := toJSON;
     msg_fromPartial := fromPartial; msg_full := full |}.
Next Obligation. solve_json fromJSON toJSON. Qed.
Next Obligation. solve_partial fromPartial full. Qed.

#[global] Instance schema_wire {PB : Protobuf} {PS : ProtobufSpec PB} : WireSchema wire schema.
Proof. solve_schema_wire wire schema. Qed.

#[global] Instance schema_merge : MergeSchema merge schema.
Proof. solve_schema_merge merge schema. Qed.

(** Its row in the table of message types. *)
Definition message {PB : Protobuf} {PS : ProtobufSpec PB} : message_type :=
  plain_message "Description" nothing true schema only.

#[global] Instance message_lawful {PB : Protobuf} (PS : ProtobufSpec PB) : Lawful message.
Proof. solve_lawful decode_field fromJSON only. Qed.

End Description.

(** ** [LastValidatorPower] (validator/last_validator_power.js) *)

Module LastValidatorPower.

Record t := mk {
  owner : string;
  power : number;
}.

#[global] Instance t_eta : Settable t := λ m, mk m.(owner) m.(power).

Definition base : t := mk "" 0.

Definition encode {PB : Protobuf} (message : t) (writer : Writer) : Writer :=
  writer
  @> when (str_neq message.(owner) "") (fun w => w @> uint32 10 @> string_ message.(owner))
  @> when (num_neq message.(power) 0) (fun w => w @> uint32 16 @> int32 message.(power)).

Definition decode_field {PB : Protobuf} (tag : Z) (message : t) : RM t :=
  match field_number tag with
  | 1 => v ← read_string; mret (message <| owner := v |>)
  | 2 => v ← read_int32; mret (message <| power := Int v |>)
  | _ => _ ← skipType (wire_type tag); mret message
  end.

Definition decode {PB : Protobuf} (length : option Z) : RM t :=
  decode_message length base decode_field.

Definition fromJSON (object : js) : result t :=
  owner' ← field_or object "owner" to_string "";
  power' ← field_or object "power" js_Number 0;
  Ok (mk owner' power').

Definition toJSON (message : t) : js :=
  Obj ([("owner", Str message.(owner));
    ("power", Num message.(power))]).

Record partial := mkPartial {
  p_owner : option string;
  p_power : option number;
}.

Definition fromPartial (object : partial) : t := {|
  owner := object.(p_owner) ?? "";
  power := object.(p_power) ?? Int 0;
|}.

(** The object with no property given. *)
Definition nothing : partial := mkPartial None None.

(** The bytes [encode] writes. *)
Definition wire {PB : Protobuf} {PS : ProtobufSpec PB} (m : t) : bytes :=
  f_string 10 m.(owner) ++
  f_number e_int32 16 m.(power).

Definition valid (m : t) : Prop :=
  int32_ok m.(power).

Definition encodable {PB : Protobuf} {PS : ProtobufSpec PB} (m : t) : Prop :=
  valid m ∧ small (wire m).

Definition merge (m a : t) : t := {|
  owner := later_string m.(owner) a.(owner);
  power := later_number m.(power) a.(power);
|}.

(** A whole message seen as a partial one. *)
Definition full (m : t) : partial := {|
  p_owner := Some m.(owner);
  p_power := Some m.(power);
|}.

(** The message as its [.proto] file declares it. *)
Definition schema (m : t) : list field :=
  [implicit 1 (VString m.(owner));
   implicit 2 (VInt Int32 m.(power))].

(** The message with its default for every property that is not kept. *)
Definition only (kept : string → bool) (m : t) : t := {|
  owner := if kept "owner" then m.(owner) else "";
  power := if kept "power" then m.(power) else Int 0;
|}.

#[global] Instance codec {PB : Protobuf} : MessageCodec t :=
  {| msg_base := base; msg_encode := encode; msg_field := decode_field |}.

#[global] Program Instance spec {PB : Protobuf} (PS : ProtobufSpec PB) : MessageSpec PS t :=
  {| msg_wire := wire; msg_valid := valid; msg_merge := merge |}.
Next Obligation. solve_encode_wire. Qed.
Next Obligation. solve_decode_wire. Qed.
Next Obligation. solve_merge_base. Qed.
Next Obligation. intros. solve_advances decode_field. Qed.

#[global] Program Instance data : MessageData t partial :=
  {| msg_fromJSON := fromJSON; msg_toJSON := toJSON;
     msg_fromPartial := fromPartial; msg_full := full |}.
Next Obligation. solve_json fromJSON toJSON. Qed.
Next Obligation. solve_partial fromPartial full. Qed.

#[global] Instance schema_wire {PB : Protobuf} {PS : ProtobufSpec PB} : WireSchema wire schema.
Proof. solve_schema_wire wire schema. Qed.

#[global] Instance schema_merge : MergeSchema merge schema.
Proof. solve_schema_merge merge schema. Qed.

(** Its row in the table of message types. *)
Definition message {PB : Protobuf} {PS : ProtobufSpec PB} : message_type :=
  plain_message "LastValidatorPower" nothing true schema only.

#[global] Instance message_lawful {PB : Protobuf} (PS : ProtobufSpec PB) : Lawful message.
Proof. solve_lawful decode_field fromJSON only. Qed.

End LastValidatorPower.

(** ** [DisabledValidator] (validator/disabled_validator.js) *)

Module DisabledValidator.

Record t := mk {
  address : string;
  creator : string;
  approvals : list Grant.t;
  disabledByNodeAdmin : bool;
  rejects : list Grant.t;
}.

#[global] Instance t_eta : Settable t := λ m, mk m.(address) m.(creator) m.(approvals)
  m.(disabledByNodeAdmin) m.(rejects).

Definition base : t := mk "" "" [] false [].

Definition encode {PB : Protobuf} (message : t) (writer : Writer) : Writer :=
  writer
  @> when (str_neq message.(address) "") (fun w => w @> uint32 10 @> string_ message.(address))
  @> when (str_neq message.(creator) "") (fun w => w @> uint32 18 @> string_ message.(creator))
  @> each message.(approvals) (fun v w => w @> uint32 26 @> fork @> Grant.encode v @> ldelim)
  @> when (Bool.eqb message.(disabledByNodeAdmin) true)
       (fun w => w @> uint32 32 @> bool_ message.(disabledByNodeAdmin))
  @> each message.(rejects) (fun v w => w @> uint32 42 @> fork @> Grant.encode v @> ldelim).

Definition decode_field {PB : Protobuf} (tag : Z) (message : t) : RM t :=
  match field_number tag with
  | 1 => v ← read_string; mret (message <| address := v |>)
  | 2 => v ← read_string; mret (message <| creator := v |>)
  | 3 => v ← read_nested Grant.decode; mret (message <| approvals := message.(approvals) ++ [v] |>)
  | 4 => v ← read_bool; mret (message <| disabledByNodeAdmin := v |>)
  | 5 => v ← read_nested Grant.decode; mret (message <| rejects := message.(rejects) ++ [v] |>)
  | _ => _ ← skipType (wire_type tag); mret message
  end.

Definition decode {PB : Protobuf} (length : option Z) : RM t :=
  decode_message length base decode_field.

Definition fromJSON (object : js) : result t :=
  address' ← field_or object "address" to_string "";
  creator' ← field_or object "creator" to_string "";
  approvals' ← field_or object "approvals" (to_list Grant.fromJSON) [];
  disabledByNodeAdmin' ← field_or object "disabledByNodeAdmin" to_bool false;
  rejects' ← field_or object "rejects" (to_list Grant.fromJSON) [];
  Ok (mk address' creator' approvals' disabledByNodeAdmin' rejects').

Definition toJSON (message : t) : js :=
  Obj ([("address", Str message.(address));
    ("creator", Str message.(creator));
    ("approvals", Arr (map Grant.toJSON message.(approvals)));
    ("disabledByNodeAdmin", Bool message.(disabledByNodeAdmin));
    ("rejects", Arr (map Grant.toJSON message.(rejects)))]).

Record partial := mkPartial {
  p_address : option string;
  p_creator : option string;
  p_approvals : option (list Grant.partial);
  p_disabledByNodeAdmin : option bool;
  p_rejects : option (list Grant.partial);
}.

Definition fromPartial (object : partial) : t := {|
  address := object.(p_address) ?? "";
  creator := object.(p_creator) ?? "";
  approvals := map Grant.fromPartial (object.(p_approvals) ?? []);
  disabledByNodeAdmin := object.(p_disabledByNodeAdmin) ?? false;
  rejects := map Grant.fromPartial (object.(p_rejects) ?? []);
|}.

(** The object with no property given. *)
Definition nothing : partial := mkPartial None None None None None.

(** The bytes [encode] writes. *)
Definition wire {PB : Protobuf} {PS : ProtobufSpec PB} (m : t) : bytes :=
  f_string 10 m.(address) ++
  f_string 18 m.(creator) ++
  f_repeated 26 Grant.wire m.(approvals) ++
  f_bool 32 m.(disabledByNodeAdmin) ++
  f_repeated 42 Grant.wire m.(rejects).

Definition valid (m : t) : Prop :=
  Forall Grant.valid m.(approvals) ∧ Forall Grant.valid m.(rejects).

Definition encodable {PB : Protobuf} {PS : ProtobufSpec PB} (m : t) : Prop :=
  valid m ∧ small (wire m).

Definition merge (m a : t) : t := {|
  address := later_string m.(address) a.(address);
  creator := later_string m.(creator) a.(creator);
  approvals := m.(approvals) ++ a.(approvals);
  disabledByNodeAdmin := later_bool m.(disabledByNodeAdmin) a.(disabledByNodeAdmin);
  rejects := m.(rejects) ++ a.(rejects);
|}.

(** A whole message seen as a partial one. *)
Definition full (m : t) : partial := {|
  p_address := Some m.(address);
  p_creator := Some m.(creator);
  p_approvals := Some (map Grant.full m.(approvals));
  p_disabledByNodeAdmin := Some m.(disabledByNodeAdmin);
  p_rejects := Some (map Grant.full m.(rejects));
|}.

(** The message as its [.proto] file declares it. *)
Definition schema (m : t) : list field :=
  [implicit 1 (VString m.(address));
   implicit 2 (VString m.(creator));
   repeated 3 (message_value Grant.schema) m.(approvals);
   implicit 4 (VBool m.(disabledByNodeAdmin));
   repeated 5 (message_value Grant.schema) m.(rejects)].

(** The message with its default for every property that is not kept. *)
Definition only (kept : string → bool) (m : t) : t := {|
  address := if kept "address" then m.(address) else "";
  creator := if kept "creator" then m.(creator) else "";
  approvals := if kept "approvals" then m.(approvals) else [];
  disabledByNodeAdmin := if kept "disabledByNodeAdmin" then m.(disabledByNodeAdmin) else false;
  rejects := if kept "rejects" then m.(rejects) else [];
|}.

#[global] Instance codec {PB : Protobuf} : MessageCodec t :=
  {| msg_base := base; msg_encode := encode; msg_field := decode_field |}.

#[global] Program Instance spec {PB : Protobuf} (PS : ProtobufSpec PB) : MessageSpec PS t :=
  {| msg_wire := wire; msg_valid := valid; msg_merge := merge |}.
Next Obligation. solve_encode_wire. Qed.
Next Obligation. solve_decode_wire. Qed.
Next Obligation. solve_merge_base. Qed.
Next Obligation. intros. solve_advances decode_field. Qed.

#[global] Program Instance data : MessageData t partial :=
  {| msg_fromJSON := fromJSON; msg_toJSON := toJSON;
     msg_fromPartial := fromPartial; msg_full := full |}.
Next Obligation. solve_json fromJSON toJSON. Qed.
Next Obligation. solve_partial fromPartial full. Qed.

#[global] Instance schema_wire {PB : Protobuf} {PS : ProtobufSpec PB} : WireSchema wire schema.
Proof. solve_schema_wire wire schema. Qed.

#[global] Instance schema_merge : MergeSchema merge schema.
Proof. solve_schema_merge merge schema. Qed.

(** Its row in the table of message types. *)
Definition message {PB : Protobuf} {PS : ProtobufSpec PB} : message_type :=
  plain_message "DisabledValidator" nothing true schema only.

#[global] Instance message_lawful {PB : Protobuf} (PS : ProtobufSpec PB) : Lawful message.
Proof. solve_lawful decode_field fromJSON only. Qed.

End DisabledValidator.

(** ** [ProposedDisableValidator] (validator/proposed_disable_validator.js) *)

Module ProposedDisableValidator.

Record t := mk {
  address : string;
  creator : string;
  approvals : list Grant.t;
  rejects : list Grant.t;
}.

#[global] Instance t_eta : Settable t := λ m, mk m.(address) m.(creator) m.(approvals)
  m.(rejects).

Definition base : t := mk "" "" [] [].

Definition encode {PB : Protobuf} (message : t) (writer : Writer) : Writer :=
  writer
  @> when (str_neq message.(address) "") (fun w => w @> uint32 10 @> string_ message.(address))
  @> when (str_neq message.(creator) "") (fun w => w @> uint32 18 @> string_ message.(creator))
  @> each message.(approvals) (fun v w => w @> uint32 26 @> fork @> Grant.encode v @> ldelim)
  @> each message.(rejects) (fun v w => w @> uint32 34 @> fork @> Grant.encode v @> ldelim).

Definition decode_field {PB : Protobuf} (tag : Z) (message : t) : RM t :=
  match field_number tag with
  | 1 => v ← read_string; mret (message <| address := v |>)
  | 2 => v ← read_string; mret (message <| creator := v |>)
  | 3 => v ← read_nested Grant.decode; mret (message <| approvals := message.(approvals) ++ [v] |>)
  | 4 => v ← read_nested Grant.decode; mret (message <| rejects := message.(rejects) ++ [v] |>)
  | _ => _ ← skipType (wire_type tag); mret message
  end.

Definition decode {PB : Protobuf} (length : option Z) : RM t :=
  decode_message length base decode_field.

Definition fromJSON (object : js) : result t :=
  address' ← field_or object "address" to_string "";
  creator' ← field_or object "creator" to_string "";
  approvals' ← field_or object "approvals" (to_list Grant.fromJSON) [];
  rejects' ← field_or object "rejects" (to_list Grant.fromJSON) [];
  Ok (mk address' creator' approvals' rejects').

Definition toJSON (message : t) : js :=
  Obj ([("address", Str message.(address));
    ("creator", Str message.(creator));
    ("approvals", Arr (map Grant.toJSON message.(approvals)));
    ("rejects", Arr (map Grant.toJSON message.(rejects)))]).

Record partial := mkPartial {
  p_address : option string;
  p_creator : option string;
  p_approvals : option (list Grant.partial);
  p_rejects : option (list Grant.partial);
}.

Definition fromPartial (object : partial) : t := {|
  address := object.(p_address) ?? "";
  creator := object.(p_creator) ?? "";
  approvals := map Grant.fromPartial (object.(p_approvals) ?? []);
  rejects := map Grant.fromPartial (object.(p_rejects) ?? []);
|}.

(** The object with no property given. *)
Definition nothing : partial := mkPartial None None None None.

(** The bytes [encode] writes. *)
Definition wire {PB : Protobuf} {PS : ProtobufSpec PB} (m : t) : bytes :=
  f_string 10 m.(address) ++
  f_string 18 m.(creator) ++
  f_repeated 26 Grant.wire m.(approvals) ++
  f_repeated 34 Grant.wire m.(rejects).

Definition valid (m : t) : Prop :=
  Forall Grant.valid m.(approvals) ∧ Forall Grant.valid m.(rejects).

Definition encodable {PB : Protobuf} {PS : ProtobufSpec PB} (m : t) : Prop :=
  valid m ∧ small (wire m).

Definition merge (m a : t) : t := {|
  address := later_string m.(address) a.(address);
  creator := later_string m.(creator) a.(creator);
  approvals := m.(approvals) ++ a.(approvals);
  rejects := m.(rejects) ++ a.(rejects);
|}.

(** A whole message seen as a partial one. *)
Definition full (m : t) : partial := {|
  p_address := Some m.(address);
  p_creator := Some m.(creator);
  p_approvals := Some (map Grant.full m.(approvals));
  p_rejects := Some (map Grant.full m.(rejects));
|}.

(** The message as its [.proto] file declares it. *)
Definition schema (m : t) : list field :=
  [implicit 1 (VString m.(address));
   implicit 2 (VString m.(creator));
   repeated 3 (message_value Grant.schema) m.(approvals);
   repeated 4 (message_value Grant.schema) m.(rejects)].

(** The message with its default for every property that is not kept. *)
Definition only (kept : string → bool) (m : t) : t := {|
  address := if kept "address" then m.(address) else "";
  creator := if kept "creator" then m.(creator) else "";
  approvals := if kept "approvals" then m.(approvals) else [];
  rejects := if kept "rejects" then m.(rejects) else [];
|}.

#[global] Instance codec {PB : Protobuf} : MessageCodec t :=
  {| msg_base := base; msg_encode := encode; msg_field := decode_field |}.

#[global] Program Instance spec {PB : Protobuf} (PS : ProtobufSpec PB) : MessageSpec PS t :=
  {| msg_wire := wire; msg_valid := valid; msg_merge := merge |}.
Next Obligation. solve_encode_wire. Qed.
Next Obligation. solve_decode_wire. Qed.
Next Obligation. solve_merge_base. Qed.
Next Obligation. intros. solve_advances decode_field. Qed.

#[global] Program Instance data : MessageData t partial :=
  {| msg_fromJSON := fromJSON; msg_toJSON := toJSON;
     msg_fromPartial := fromPartial; msg_full := full |}.
Next Obligation. solve_json fromJSON toJSON. Qed.
Next Obligation. solve_partial fromPartial full. Qed.

#[global] Instance schema_wire {PB : Protobuf} {PS : ProtobufSpec PB} : WireSchema wire schema.
Proof. solve_schema_wire wire schema. Qed.

#[global] Instance schema_merge : MergeSchema merge schema.
Proof. solve_schema_merge merge schema. Qed.

(** Its row in the table of message types. *)
Definition message {PB : Protobuf} {PS : ProtobufSpec PB} : message_type :=
  plain_message "ProposedDisableValidator" nothing true schema only.

#[global] Instance message_lawful {PB : Protobuf} (PS : ProtobufSpec PB) : Lawful message.
Proof. solve_lawful decode_field fromJSON only. Qed.

End ProposedDisableValidator.

(** ** [RejectedDisableValidator] (validator/rejected_validator.js) *)

Module RejectedDisableValidator.

Record t := mk {
  address : string;
  creator : string;
  approvals : list Grant.t;
  rejects : list Grant.t;
}.

#[global] Instance t_eta : Settable t := λ m, mk m.(address) m.(creator) m.(approvals)
  m.(rejects).

Definition base : t := mk "" "" [] [].

Definition encode {PB : Protobuf} (message : t) (writer : Writer) : Writer :=
  writer
  @> when (str_neq message.(address) "") (fun w => w @> uint32 10 @> string_ message.(address))
  @> when (str_neq message.(creator) "") (fun w => w @> uint32 18 @> string_ message.(creator))
  @> each message.(approvals) (fun v w => w @> uint32 26 @> fork @> Grant.encode v @> ldelim)
  @> each message.(rejects) (fun v w => w @> uint32 34 @> fork @> Grant.encode v @> ldelim).

Definition decode_field {PB : Protobuf} (tag : Z) (message : t) : RM t :=
  match field_number tag with
  | 1 => v ← read_string; mret (message <| address := v |>)
  | 2 => v ← read_string; mret (message <| creator := v |>)
  | 3 => v ← read_nested Grant.decode; mret (message <| approvals := message.(approvals) ++ [v] |>)
  | 4 => v ← read_nested Grant.decode; mret (message <| rejects := message.(rejects) ++ [v] |>)
  | _ => _ ← skipType (wire_type tag); mret message
  end.

Definition decode {PB : Protobuf} (length : option Z) : RM t :=
  decode_message length base decode_field.

Definition fromJSON (object : js) : result t :=
  address' ← field_or object "address" to_string "";
  creator' ← field_or object "creator" to_string "";
  approvals' ← field_or object "approvals" (to_list Grant.fromJSON) [];
  rejects' ← field_or object "rejects" (to_list Grant.fromJSON) [];
  Ok (mk address' creator' approvals' rejects').

Definition toJSON (message : t) : js :=
  Obj ([("address", Str message.(address));
    ("creator", Str message.(creator));
    ("approvals", Arr (map Grant.toJSON message.(approvals)));
    ("rejects", Arr (map Grant.toJSON message.(rejects)))]).

Record partial := mkPartial {
  p_address : option string;
  p_creator : option string;
  p_approvals : option (list Grant.partial);
  p_rejects : option (list Grant.partial);
}.

Definition fromPartial (object : partial) : t := {|
  address := object.(p_address) ?? "";
  creator := object.(p_creator) ?? "";
  approvals := map Grant.fromPartial (object.(p_approvals) ?? []);
  rejects := map Grant.fromPartial (object.(p_rejects) ?? []);
|}.

(** The object with no property given. *)
Definition nothing : partial := mkPartial None None None None.

(** The bytes [encode] writes. *)
Definition wire {PB : Protobuf} {PS : ProtobufSpec PB} (m : t) : bytes :=
  f_string 10 m.(address) ++
  f_string 18 m.(creator) ++
  f_repeated 26 Grant.wire m.(approvals) ++
  f_repeated 34 Grant.wire m.(rejects).

Definition valid (m : t) : Prop :=
  Forall Grant.valid m.(approvals) ∧ Forall Grant.valid m.(rejects).

Definition encodable {PB : Protobuf} {PS : ProtobufSpec PB} (m : t) : Prop :=
  valid m ∧ small (wire m).

Definition merge (m a : t) : t := {|
  address := later_string m.(address) a.(address);
  creator := later_string m.(creator) a.(creator);
  approvals := m.(approvals) ++ a.(approvals);
  rejects := m.(rejects) ++ a.(rejects);
|}.

(** A whole message seen as a partial one. *)
Definition full (m : t) : partial := {|
  p_address := Some m.(address);
  p_creator := Some m.(creator);
  p_approvals := Some (map Grant.full m.(approvals));
  p_rejects := Some (map Grant.full m.(rejects));
|}.

(** The message as its [.proto] file declares it. *)
Definition schema (m : t) : list field :=
  [implicit 1 (VString m.(address));
   implicit 2 (VString m.(creator));
   repeated 3 (message_value Grant.schema) m.(approvals);
   repeated 4 (message_value Grant.schema) m.(rejects)].

(** The message with its default for every property that is not kept. *)
Definition only (kept : string → bool) (m : t) : t := {|
  address := if kept "address" then m.(address) else "";
  creator := if kept "creator" then m.(creator) else "";
  approvals := if kept "approvals" then m.(approvals) else [];
  rejects := if kept "rejects" then m.(rejects) else [];
|}.

#[global] Instance codec {PB : Protobuf} : MessageCodec t :=
  {| msg_base := base; msg_encode := encode; msg_field := decode_field |}.

#[global] Program Instance spec {PB : Protobuf} (PS : ProtobufSpec PB) : MessageSpec PS t :=
  {| msg_wire := wire; msg_valid := valid; msg_merge := merge |}.
Next Obligation. solve_encode_wire. Qed.
Next Obligation. solve_decode_wire. Qed.
Next Obligation. solve_merge_base. Qed.
Next Obligation. intros. solve_advances decode_field. Qed.

#[global] Program Instance data : MessageData t partial :=
  {| msg_fromJSON := fromJSON; msg_toJSON := toJSON;
     msg_fromPartial := fromPartial; msg_full := full |}.
Next Obligation. solve_json fromJSON toJSON. Qed.
Next Obligation. solve_partial fromPartial full. Qed.

#[global] Instance schema_wire {PB : Protobuf} {PS : ProtobufSpec PB} : WireSchema wire schema.
Proof. solve_schema_wire wire schema. Qed.

#[global] Instance schema_merge : MergeSchema merge schema.
Proof. solve_schema_merge merge schema. Qed.

(** Its row in the table of message types. *)
Definition message {PB : Protobuf} {PS : ProtobufSpec PB} : message_type :=
  plain_message "RejectedDisableValidator" nothing true schema only.

#[global] Instance message_lawful {PB : Protobuf} (PS : ProtobufSpec PB) : Lawful message.
Proof. solve_lawful decode_field fromJSON only. Qed.

End RejectedDisableValidator.

(** ** [RejectedDisableNode] (validator/rejected_node.js) *)

Module RejectedDisableNode.

Record t := mk {
  address : string;
  creator : string;
  approvals : list Grant.t;
  rejectApprovals : list Grant.t;
}.

#[global] Instance t_eta : Settable t := λ m, mk m.(address) m.(creator) m.(approvals)
  m.(rejectApprovals).

Definition base : t := mk "" "" [] [].

Definition encode {PB : Protobuf} (message : t) (writer : Writer) : Writer :=
  writer
  @> when (str_neq message.(address) "") (fun w => w @> uint32 10 @> string_ message.(address))
  @> when (str_neq message.(creator) "") (fun w => w @> uint32 18 @> string_ message.(creator))
  @> each message.(approvals) (fun v w => w @> uint32 26 @> fork @> Grant.encode v @> ldelim)
  @> each message.(rejectApprovals) (fun v w => w @> uint32 34 @> fork @> Grant.encode v @> ldelim).

Definition decode_field {PB : Protobuf} (tag : Z) (message : t) : RM t :=
  match field_number tag with
  | 1 => v ← read_string; mret (message <| address := v |>)
  | 2 => v ← read_string; mret (message <| creator := v |>)
  | 3 => v ← read_nested Grant.decode; mret (message <| approvals := message.(approvals) ++ [v] |>)
  | 4 => v ← read_nested Grant.decode;
         mret (message <| rejectApprovals := message.(rejectApprovals) ++ [v] |>)
  | _ => _ ← skipType (wire_type tag); mret message
  end.

Definition decode {PB : Protobuf} (length : option Z) : RM t :=
  decode_message length base decode_field.

Definition fromJSON (object : js) : result t :=
  address' ← field_or object "address" to_string "";
  creator' ← field_or object "creator" to_string "";
  approvals' ← field_or object "approvals" (to_list Grant.fromJSON) [];
  rejectApprovals' ← field_or object "rejectApprovals" (to_list Grant.fromJSON) [];
  Ok (mk address' creator' approvals' rejectApprovals').

Definition toJSON (message : t) : js :=
  Obj ([("address", Str message.(address));
    ("creator", Str message.(creator));
    ("approvals", Arr (map Grant.toJSON message.(approvals)));
    ("rejectApprovals", Arr (map Grant.toJSON message.(rejectApprovals)))]).

Record partial := mkPartial {
  p_address : option string;
  p_creator : option string;
  p_approvals : option (list Grant.partial);
  p_rejectApprovals : option (list Grant.partial);
}.

Definition fromPartial (object : partial) : t := {|
  address := object.(p_address) ?? "";
  creator := object.(p_creator) ?? "";
  approvals := map Grant.fromPartial (object.(p_approvals) ?? []);
  rejectApprovals := map Grant.fromPartial (object.(p_rejectApprovals) ?? []);
|}.

(** The object with no property given. *)
Definition nothing : partial := mkPartial None None None None.

(** The bytes [encode] writes. *)
Definition wire {PB : Protobuf} {PS : ProtobufSpec PB} (m : t) : bytes :=
  f_string 10 m.(address) ++
  f_string 18 m.(creator) ++
  f_repeated 26 Grant.wire m.(approvals) ++
  f_repeated 34 Grant.wire m.(rejectApprovals).

Definition valid (m : t) : Prop :=
  Forall Grant.valid m.(approvals) ∧ Forall Grant.valid m.(rejectApprovals).

Definition encodable {PB : Protobuf} {PS : ProtobufSpec PB} (m : t) : Prop :=
  valid m ∧ small (wire m).

Definition merge (m a : t) : t := {|
  address := later_string m.(address) a.(address);
  creator := later_string m.(creator) a.(creator);
  approvals := m.(approvals) ++ a.(approvals);
  rejectApprovals := m.(rejectApprovals) ++ a.(rejectApprovals);
|}.

(** A whole message seen as a partial one. *)
Definition full (m : t) : partial := {|
  p_address := Some m.(address);
  p_creator := Some m.(creator);
  p_approvals := Some (map Grant.full m.(approvals));
  p_rejectApprovals := Some (map Grant.full m.(rejectApprovals));
|}.

(** The message as its schema declares it. *)
Definition schema (m : t) : list field :=
  [implicit 1 (VString m.(address));
   implicit 2 (VString m.(creator));
   repeated 3 (message_value Grant.schema) m.(approvals);
   repeated 4 (message_value Grant.schema) m.(rejectApprovals)].

(** The message with its default for every property that is not kept. *)
Definition only (kept : string → bool) (m : t) : t := {|
  address := if kept "address" then m.(address) else "";
  creator := if kept "creator" then m.(creator) else "";
  approvals := if kept "approvals" then m.(approvals) else [];
  rejectApprovals := if kept "rejectApprovals" then m.(rejectApprovals) else [];
|}.

#[global] Instance codec {PB : Protobuf} : MessageCodec t :=
  {| msg_base := base; msg_encode := encode; msg_field := decode_field |}.

#[global] Program Instance spec {PB : Protobuf} (PS : ProtobufSpec PB) : MessageSpec PS t :=
  {| msg_wire := wire; msg_valid := valid; msg_merge := merge |}.
Next Obligation. solve_encode_wire. Qed.
Next Obligation. solve_decode_wire. Qed.
Next Obligation. solve_merge_base. Qed.
Next Obligation. intros. solve_advances decode_field. Qed.

#[global] Program Instance data : MessageData t partial :=
  {| msg_fromJSON := fromJSON; msg_toJSON := toJSON;
     msg_fromPartial := fromPartial; msg_full := full |}.
Next Obligation. solve_json fromJSON toJSON. Qed.
Next Obligation. solve_partial fromPartial full. Qed.

#[global] Instance schema_wire {PB : Protobuf} {PS : ProtobufSpec PB} : WireSchema wire schema.
Proof. solve_schema_wire wire schema. Qed.

#[global] Instance schema_merge : MergeSchema merge schema.
Proof. solve_schema_merge merge schema. Qed.

(** Its row in the table of message types. *)
Definition message {PB : Protobuf} {PS : ProtobufSpec PB} : message_type :=
  plain_message "RejectedDisableNode" nothing true schema only.

#[global] Instance message_lawful {PB : Protobuf} (PS : ProtobufSpec PB) : Lawful message.
Proof. solve_lawful decode_field fromJSON only. Qed.

End RejectedDisableNode.

(** ** [Validator] (validator/validator.js) *)

Module Validator.

Record t := mk {
  owner : string;
  description : option Description.t;
  pubKey : option Any.t;
  power : number;
  jailed : bool;
  jailedReason : string;
}.

#[global] Instance t_eta : Settable t := λ m, mk m.(owner) m.(description) m.(pubKey) m.(power)
  m.(jailed) m.(jailedReason).

Definition base : t := mk "" None None 0 false "".

Definition encode {PB : Protobuf} (message : t) (writer : Writer) : result Writer :=
  Ok writer
  @>= pure (when (str_neq message.(owner) "") (fun w => w @> uint32 10 @> string_ message.(owner)))
  @>= pure (defined message.(description) (fun v w => w @> uint32 18 @> fork @> Description.encode v @> ldelim))
  @>= defined_e message.(pubKey) (submessage 26 Any.encode)
  @>= pure (when (num_neq message.(power) 0) (fun w => w @> uint32 32 @> int32 message.(power)))
  @>= pure (when (Bool.eqb message.(jailed) true)
       (fun w => w @> uint32 40 @> bool_ message.(jailed)))
  @>= pure (when (str_neq message.(jailedReason) "")
       (fun w => w @> uint32 50 @> string_ message.(jailedReason))).

Definition decode_field {PB : Protobuf} (tag : Z) (message : t) : RM t :=
  match field_number tag with
  | 1 => v ← read_string; mret (message <| owner := v |>)
  | 2 => v ← read_nested Description.decode; mret (message <| description := Some v |>)
  | 3 => v ← read_nested Any.decode; mret (message <| pubKey := Some v |>)
  | 4 => v ← read_int32; mret (message <| power := Int v |>)
  | 5 => v ← read_bool; mret (message <| jailed := v |>)
  | 6 => v ← read_string; mret (message <| jailedReason := v |>)
  | _ => _ ← skipType (wire_type tag); mret message
  end.

Definition decode {PB : Protobuf} (length : option Z) : RM t :=
  decode_message length base decode_field.

Definition fromJSON (object : js) : result t :=
  owner' ← field_or object "owner" to_string "";
  description' ← field_or object "description" (to_some Description.fromJSON) None;
  pubKey' ← field_or object "pubKey" (to_some Any.fromJSON) None;
  power' ← field_or object "power" js_Number 0;
  jailed' ← field_or object "jailed" to_bool false;
  jailedReason' ← field_or object "jailedReason" to_string "";
  Ok (mk owner' description' pubKey' power' jailed' jailedReason').

Definition toJSON (message : t) : js :=
  Obj ([("owner", Str message.(owner))] ++
   prop_opt "description" Description.toJSON message.(description) ++
   prop_opt "pubKey" Any.toJSON message.(pubKey) ++
   [("power", Num message.(power));
    ("jailed", Bool message.(jailed));
    ("jailedReason", Str message.(jailedReason))]).

Record partial := mkPartial {
  p_owner : option string;
  p_description : option Description.partial;
  p_pubKey : option Any.partial;
  p_power : option number;
  p_jailed : option bool;
  p_jailedReason : option string;
}.

Definition fromPartial (object : partial) : t := {|
  owner := object.(p_owner) ?? "";
  description := Description.fromPartial <$> object.(p_description);
  pubKey := Any.fromPartial <$> object.(p_pubKey);
  power := object.(p_power) ?? Int 0;
  jailed := object.(p_jailed) ?? false;
  jailedReason := object.(p_jailedReason) ?? "";
|}.

(** The object with no property given. *)
Definition nothing : partial := mkPartial None None None None None None.

(** The bytes [encode] writes. *)
Definition wire {PB : Protobuf} {PS : ProtobufSpec PB} (m : t) : bytes :=
  f_string 10 m.(owner) ++
  f_message 18 Description.wire m.(description) ++
  f_message 26 Any.wire m.(pubKey) ++
  f_number e_int32 32 m.(power) ++
  f_bool 40 m.(jailed) ++
  f_string 50 m.(jailedReason).

Definition valid (m : t) : Prop :=
  from_option Description.valid True m.(description) ∧ from_option Any.valid True m.(pubKey) ∧ int32_ok m.(power).

(** The byte fields hold arrays, as the interface declares. *)
Definition typed (m : t) : bool := from_option Any.typed true m.(pubKey).

(** The message without its empty byte arrays. *)
Definition normal (m : t) : t := {|
  owner := m.(owner);
  description := m.(description);
  pubKey := Any.normal <$> m.(pubKey);
  power := m.(power);
  jailed := m.(jailed);
  jailedReason := m.(jailedReason);
|}.

Definition encodable {PB : Protobuf} {PS : ProtobufSpec PB} (m : t) : Prop :=
  typed m = true ∧ valid m ∧ small (wire m).

Definition merge (m a : t) : t := {|
  owner := later_string m.(owner) a.(owner);
  description := later_message m.(description) a.(description);
  pubKey := later_message m.(pubKey) (Any.normal <$> a.(pubKey));
  power := later_number m.(power) a.(power);
  jailed := later_bool m.(jailed) a.(jailed);
  jailedReason := later_string m.(jailedReason) a.(jailedReason);
|}.

(** A whole message seen as a partial one. *)
Definition full (m : t) : partial := {|
  p_owner := Some m.(owner);
  p_description := Description.full <$> m.(description);
  p_pubKey := Any.full <$> m.(pubKey);
  p_power := Some m.(power);
  p_jailed := Some m.(jailed);
  p_jailedReason := Some m.(jailedReason);
|}.

(** The message as its [.proto] file declares it. *)
Definition schema (m : t) : list field :=
  [implicit 1 (VString m.(owner));
   singular 2 Optional (message_value Description.schema) m.(description);
   singular 3 Optional (message_value Any.schema) m.(pubKey);
   implicit 4 (VInt Int32 m.(power));
   implicit 5 (VBool m.(jailed));
   implicit 6 (VString m.(jailedReason))].

(** The message with its default for every property that is not kept. *)
Definition only (kept : string → bool) (m : t) : t := {|
  owner := if kept "owner" then m.(owner) else "";
  description := if kept "description" then m.(description) else None;
  pubKey := if kept "pubKey" then m.(pubKey) else None;
  power := if kept "power" then m.(power) else Int 0;
  jailed := if kept "jailed" then m.(jailed) else false;
  jailedReason := if kept "jailedReason" then m.(jailedReason) else "";
|}.

#[global] Instance codec {PB : Protobuf} : FallibleCodec t :=
  {| fmsg_base := base; fmsg_encode := encode; fmsg_field := decode_field |}.

#[global] Program Instance spec {PB : Protobuf} (PS : ProtobufSpec PB) : FallibleSpec PS t :=
  {| fmsg_wire := wire; fmsg_valid := valid; fmsg_typed := typed; fmsg_normal := normal;
     fmsg_merge := merge |}.
Next Obligation. solve_fencode_wire. Qed.
Next Obligation. intros. solve_fencode_throws encode typed. Qed.
Next Obligation. solve_fdecode_wire. Qed.
Next Obligation. solve_fmerge_base. Qed.
Next Obligation. intros. solve_fadvances decode_field. Qed.

#[global] Program Instance given_ : FalliblePartial t partial :=
  {| fmsg_fromPartial := fromPartial; fmsg_full := full; fmsg_given := typed |}.
Next Obligation. solve_fgiven fromPartial typed. Qed.
Next Obligation. solve_fpartial fromPartial full typed. Qed.

#[global] Program Instance json : FallibleJson t :=
  {| fmsg_fromJSON := fromJSON; fmsg_toJSON := toJSON;
     fmsg_named := fun _ => true; fmsg_known := fun m => m |}.
Next Obligation. solve_fjson fromJSON toJSON. Qed.
Next Obligation. reflexivity. Qed.

#[global] Instance schema_wire {PB : Protobuf} {PS : ProtobufSpec PB} : WireSchema wire schema.
Proof. solve_schema_wire wire schema. Qed.

#[global] Instance schema_normal : NormalSchema normal schema.
Proof. solve_schema_normal normal schema. Qed.

#[global] Instance schema_merge : MergeSchema merge schema.
Proof. solve_schema_merge merge schema. Qed.

(** Its row in the table of message types. *)
Definition message {PB : Protobuf} {PS : ProtobufSpec PB} : message_type :=
  fallible_message "Validator" nothing true schema only.

#[global] Instance message_lawful {PB : Protobuf} (PS : ProtobufSpec PB) : Lawful message.
Proof. solve_lawful decode_field fromJSON only. Qed.

End Validator.

(** ** [MsgCreateValidator] (validator/tx.js) *)

Module MsgCreateValidator.

Record t := mk {
  signer : string;
  pubKey : option Any.t;
  description : option Description.t;
}.

#[global] Instance t_eta : Settable t := λ m, mk m.(signer) m.(pubKey) m.(description).

Definition base : t := mk "" None None.

Definition encode {PB : Protobuf} (message : t) (writer : Writer) : result Writer :=
  Ok writer
  @>= pure (when (str_neq message.(signer) "") (fun w => w @> uint32 10 @> string_ message.(signer)))
  @>= defined_e message.(pubKey) (submessage 18 Any.encode)
  @>= pure (defined message.(description) (fun v w => w @> uint32 26 @> fork @> Description.encode v @> ldelim)).

Definition decode_field {PB : Protobuf} (tag : Z) (message : t) : RM t :=
  match field_number tag with
  | 1 => v ← read_string; mret (message <| signer := v |>)
  | 2 => v ← read_nested Any.decode; mret (message <| pubKey := Some v |>)
  | 3 => v ← read_nested Description.decode; mret (message <| description := Some v |>)
  | _ => _ ← skipType (wire_type tag); mret message
  end.

Definition decode {PB : Protobuf} (length : option Z) : RM t :=
  decode_message length base decode_field.

Definition fromJSON (object : js) : result t :=
  signer' ← field_or object "signer" to_string "";
  pubKey' ← field_or object "pubKey" (to_some Any.fromJSON) None;
  description' ← field_or object "description" (to_some Description.fromJSON) None;
  Ok (mk signer' pubKey' description').

Definition toJSON (message : t) : js :=
  Obj ([("signer", Str message.(signer))] ++
   prop_opt "pubKey" Any.toJSON message.(pubKey) ++
   prop_opt "description" Description.toJSON message.(description)).

Record partial := mkPartial {
  p_signer : option string;
  p_pubKey : option Any.partial;
  p_description : option Description.partial;
}.

Definition fromPartial (object : partial) : t := {|
  signer := object.(p_signer) ?? "";
  pubKey := Any.fromPartial <$> object.(p_pubKey);
  description := Description.fromPartial <$> object.(p_description);
|}.

(** The object with no property given. *)
Definition nothing : partial := mkPartial None None None.

(** The bytes [encode] writes. *)
Definition wire {PB : Protobuf} {PS : ProtobufSpec PB} (m : t) : bytes :=
  f_string 10 m.(signer) ++
  f_message 18 Any.wire m.(pubKey) ++
  f_message 26 Description.wire m.(description).

Definition valid (m : t) : Prop :=
  from_option Any.valid True m.(pubKey) ∧ from_option Description.valid True m.(description).

(** The byte fields hold arrays, as the interface declares. *)
Definition typed (m : t) : bool := from_option Any.typed true m.(pubKey).

(** The message without its empty byte arrays. *)
Definition normal (m : t) : t := {|
  signer := m.(signer);
  pubKey := Any.normal <$> m.(pubKey);
  description := m.(description);
|}.

Definition encodable {PB : Protobuf} {PS : ProtobufSpec PB} (m : t) : Prop :=
  typed m = true ∧ valid m ∧ small (wire m).

Definition merge (m a : t) : t := {|
  signer := later_string m.(signer) a.(signer);
  pubKey := later_message m.(pubKey) (Any.normal <$> a.(pubKey));
  description := later_message m.(description) a.(description);
|}.

(** A whole message seen as a partial one. *)
Definition full (m : t) : partial := {|
  p_signer := Some m.(signer);
  p_pubKey := Any.full <$> m.(pubKey);
  p_description := Description.full <$> m.(description);
|}.

(** The message as its [.proto] file declares it. *)
Definition schema (m : t) : list field :=
  [implicit 1 (VString m.(signer));
   singular 2 Optional (message_value Any.schema) m.(pubKey);
   singular 3 Optional (message_value Description.schema) m.(description)].

(** The message with its default for every property that is not kept. *)
Definition only (kept : string → bool) (m : t) : t := {|
  signer := if kept "signer" then m.(signer) else "";
  pubKey := if kept "pubKey" then m.(pubKey) else None;
  description := if kept "description" then m.(description) else None;
|}.

#[global] Instance codec {PB : Protobuf} : FallibleCodec t :=
  {| fmsg_base := base; fmsg_encode := encode; fmsg_field := decode_field |}.

#[global] Program Instance spec {PB : Protobuf} (PS : ProtobufSpec PB) : FallibleSpec PS t :=
  {| fmsg_wire := wire; fmsg_valid := valid; fmsg_typed := typed; fmsg_normal := normal;
     fmsg_merge := merge |}.
Next Obligation. solve_fencode_wire. Qed.
Next Obligation. intros. solve_fencode_throws encode typed. Qed.
Next Obligation. solve_fdecode_wire. Qed.
Next Obligation. solve_fmerge_base. Qed.
Next Obligation. intros. solve_fadvances decode_field. Qed.

#[global] Program Instance given_ : FalliblePartial t partial :=
  {| fmsg_fromPartial := fromPartial; fmsg_full := full; fmsg_given := typed |}.
Next Obligation. solve_fgiven fromPartial typed. Qed.
Next Obligation. solve_fpartial fromPartial full typed. Qed.

#[global] Program Instance json : FallibleJson t :=
  {| fmsg_fromJSON := fromJSON; fmsg_toJSON := toJSON;
     fmsg_named := fun _ => true; fmsg_known := fun m => m |}.
Next Obligation. solve_fjson fromJSON toJSON. Qed.
Next Obligation. reflexivity. Qed.

#[global] Instance schema_wire {PB : Protobuf} {PS : ProtobufSpec PB} : WireSchema wire schema.
Proof. solve_schema_wire wire schema. Qed.

#[global] Instance schema_normal : NormalSchema normal schema.
Proof. solve_schema_normal normal schema. Qed.

#[global] Instance schema_merge : MergeSchema merge schema.
Proof. solve_schema_merge merge schema. Qed.

(** Its row in the table of message types. *)
Definition message {PB : Protobuf} {PS : ProtobufSpec PB} : message_type :=
  fallible_message "MsgCreateValidator" nothing true schema only.

#[global] Instance message_lawful {PB : Protobuf} (PS : ProtobufSpec PB) : Lawful message.
Proof. solve_lawful decode_field fromJSON only. Qed.

End MsgCreateValidator.

(** ** [MsgCreateValidatorResponse] (validator/tx.js) *)

Module MsgCreateValidatorResponse.

Record t := mk {}.

#[global] Instance t_eta : Settable t := λ m, m.

Definition base : t := mk.

Definition encode {PB : Protobuf} (message : t) (writer : Writer) : Writer :=
  writer.

Definition decode_field {PB : Protobuf} (tag : Z) (message : t) : RM t :=
  match field_number tag with
  | _ => _ ← skipType (wire_type tag); mret message
  end.

Definition decode {PB : Protobuf} (length : option Z) : RM t :=
  decode_message length base decode_field.

Definition fromJSON (object : js) : result t :=
  Ok base.

Definition toJSON (message : t) : js :=
  Obj [].

Record partial := mkPartial {}.

Definition fromPartial (object : partial) : t := base.

(** The object with no property given. *)
Definition nothing : partial := mkPartial.

(** The bytes [encode] writes. *)
Definition wire {PB : Protobuf} {PS : ProtobufSpec PB} (m : t) : bytes :=
  [].

Definition valid (m : t) : Prop :=
  True.

Definition encodable {PB : Protobuf} {PS : ProtobufSpec PB} (m : t) : Prop :=
  valid m ∧ small (wire m).

Definition merge (m a : t) : t := m.

(** A whole message seen as a partial one. *)
Definition full (m : t) : partial := mkPartial.

(** The message as its [.proto] file declares it. *)
Definition schema (m : t) : list field :=
  [].

(** The message with its default for every property that is not kept. *)
Definition only (kept : string → bool) (m : t) : t := m.

#[global] Instance codec {PB : Protobuf} : MessageCodec t :=
  {| msg_base := base; msg_encode := encode; msg_field := decode_field |}.

#[global] Program Instance spec {PB : Protobuf} (PS : ProtobufSpec PB) : MessageSpec PS t :=
  {| msg_wire := wire; msg_valid := valid; msg_merge := merge |}.
Next Obligation. solve_encode_wire. Qed.
Next Obligation. solve_decode_wire. Qed.
Next Obligation. solve_merge_base. Qed.
Next Obligation. intros. solve_advances decode_field. Qed.

#[global] Program Instance data : MessageData t partial :=
  {| msg_fromJSON := fromJSON; msg_toJSON := toJSON;
     msg_fromPartial := fromPartial; msg_full := full |}.
Next Obligation. solve_json fromJSON toJSON. Qed.
Next Obligation. solve_partial fromPartial full. Qed.

#[global] Instance schema_wire {PB : Protobuf} {PS : ProtobufSpec PB} : WireSchema wire schema.
Proof. solve_schema_wire wire schema. Qed.

#[global] Instance schema_merge : MergeSchema merge schema.
Proof. solve_schema_merge merge schema. Qed.

(** Its row in the table of message types. *)
Definition message {PB : Protobuf} {PS : ProtobufSpec PB} : message_type :=
  plain_message "MsgCreateValidatorResponse" nothing false schema only.

#[global] Instance message_lawful {PB : Protobuf} (PS : ProtobufSpec PB) : Lawful message.
Proof. solve_lawful decode_field fromJSON only. Qed.

End MsgCreateValidatorResponse.

(** ** [MsgProposeDisableValidator] (validator/tx.js) *)

Module MsgProposeDisableValidator.

Record t := mk {
  creator : string;
  address : string;
  info : string;
  time : number;
}.

#[global] Instance t_eta : Settable t := λ m, mk m.(creator) m.(address) m.(info) m.(time).

Definition base : t := mk "" "" "" 0.

Definition encode {PB : Protobuf} (message : t) (writer : Writer) : Writer :=
  writer
  @> when (str_neq message.(creator) "") (fun w => w @> uint32 10 @> string_ message.(creator))
  @> when (str_neq message.(address) "") (fun w => w @> uint32 18 @> string_ message.(address))
  @> when (str_neq message.(info) "") (fun w => w @> uint32 26 @> string_ message.(info))
  @> when (num_neq message.(time) 0) (fun w => w @> uint32 32 @> int64 message.(time)).

Definition decode_field {PB : Protobuf} (tag : Z) (message : t) : RM t :=
  match field_number tag with
  | 1 => v ← read_string; mret (message <| creator := v |>)
  | 2 => v ← read_string; mret (message <| address := v |>)
  | 3 => v ← read_string; mret (message <| info := v |>)
  | 4 => v ← read_number read_int64; mret (message <| time := v |>)
  | _ => _ ← skipType (wire_type tag); mret message
  end.

Definition decode {PB : Protobuf} (length : option Z) : RM t :=
  decode_message length base decode_field.

Definition fromJSON (object : js) : result t :=
  creator' ← field_or object "creator" to_string "";
  address' ← field_or object "address" to_string "";
  info' ← field_or object "info" to_string "";
  time' ← field_or object "time" js_Number 0;
  Ok (mk creator' address' info' time').

Definition toJSON (message : t) : js :=
  Obj ([("creator", Str message.(creator));
    ("address", Str message.(address));
    ("info", Str message.(info));
    ("time", Num message.(time))]).

Record partial := mkPartial {
  p_creator : option string;
  p_address : option string;
  p_info : option string;
  p_time : option number;
}.

Definition fromPartial (object : partial) : t := {|
  creator := object.(p_creator) ?? "";
  address := object.(p_address) ?? "";
  info := object.(p_info) ?? "";
  time := object.(p_time) ?? Int 0;
|}.

(** The object with no property given. *)
Definition nothing : partial := mkPartial None None None None.

(** The bytes [encode] writes. *)
Definition wire {PB : Protobuf} {PS : ProtobufSpec PB} (m : t) : bytes :=
  f_string 10 m.(creator) ++
  f_string 18 m.(address) ++
  f_string 26 m.(info) ++
  f_number e_int64 32 m.(time).

Definition valid (m : t) : Prop :=
  int64_ok m.(time).

Definition encodable {PB : Protobuf} {PS : ProtobufSpec PB} (m : t) : Prop :=
  valid m ∧ small (wire m).

Definition merge (m a : t) : t := {|
  creator := later_string m.(creator) a.(creator);
  address := later_string m.(address) a.(address);
  info := later_string m.(info) a.(info);
  time := later_number m.(time) a.(time);
|}.

(** A whole message seen as a partial one. *)
Definition full (m : t) : partial := {|
  p_creator := Some m.(creator);
  p_address := Some m.(address);
  p_info := Some m.(info);
  p_time := Some m.(time);
|}.

(** The message as its [.proto] file declares it. *)
Definition schema (m : t) : list field :=
  [implicit 1 (VString m.(creator));
   implicit 2 (VString m.(address));
   implicit 3 (VString m.(info));
   implicit 4 (VInt Int64 m.(time))].

(** The message with its default for every property that is not kept. *)
Definition only (kept : string → bool) (m : t) : t := {|
  creator := if kept "creator" then m.(creator) else "";
  address := if kept "address" then m.(address) else "";
  info := if kept "info" then m.(info) else "";
  time := if kept "time" then m.(time) else Int 0;
|}.

#[global] Instance codec {PB : Protobuf} : MessageCodec t :=
  {| msg_base := base; msg_encode := encode; msg_field := decode_field |}.

#[global] Program Instance spec {PB : Protobuf} (PS : ProtobufSpec PB) : MessageSpec PS t :=
  {| msg_wire := wire; msg_valid := valid; msg_merge := merge |}.
Next Obligation. solve_encode_wire. Qed.
Next Obligation. solve_decode_wire. Qed.
Next Obligation. solve_merge_base. Qed.
Next Obligation. intros. solve_advances decode_field. Qed.

#[global] Program Instance data : MessageData t partial :=
  {| msg_fromJSON := fromJSON; msg_toJSON := toJSON;
     msg_fromPartial := fromPartial; msg_full := full |}.
Next Obligation. solve_json fromJSON toJSON. Qed.
Next Obligation. solve_partial fromPartial full. Qed.

#[global] Instance schema_wire {PB : Protobuf} {PS : ProtobufSpec PB} : WireSchema wire schema.
Proof. solve_schema_wire wire schema. Qed.

#[global] Instance schema_merge : MergeSchema merge schema.
Proof. solve_schema_merge merge schema. Qed.

(** Its row in the table of message types. *)
Definition message {PB : Protobuf} {PS : ProtobufSpec PB} : message_type :=
  plain_message "MsgProposeDisableValidator" nothing true schema only.

#[global] Instance message_lawful {PB : Protobuf} (PS : ProtobufSpec PB) : Lawful message.
Proof. solve_lawful decode_field fromJSON only. Qed.

End MsgProposeDisableValidator.

(** ** [MsgProposeDisableValidatorResponse] (validator/tx.js) *)

Module MsgProposeDisableValidatorResponse.

Record t := mk {}.

#[global] Instance t_eta : Settable t := λ m, m.

Definition base : t := mk.

Definition encode {PB : Protobuf} (message : t) (writer : Writer) : Writer :=
  writer.

Definition decode_field {PB : Protobuf} (tag : Z) (message : t) : RM t :=
  match field_number tag with
  | _ => _ ← skipType (wire_type tag); mret message
  end.

Definition decode {PB : Protobuf} (length : option Z) : RM t :=
  decode_message length base decode_field.

Definition fromJSON (object : js) : result t :=
  Ok base.

Definition toJSON (message : t) : js :=
  Obj [].

Record partial := mkPartial {}.

Definition fromPartial (object : partial) : t := base.

(** The object with no property given. *)
Definition nothing : partial := mkPartial.

(** The bytes [encode] writes. *)
Definition wire {PB : Protobuf} {PS : ProtobufSpec PB} (m : t) : bytes :=
  [].

Definition valid (m : t) : Prop :=
  True.

Definition encodable {PB : Protobuf} {PS : ProtobufSpec PB} (m : t) : Prop :=
  valid m ∧ small (wire m).

Definition merge (m a : t) : t := m.

(** A whole message seen as a partial one. *)
Definition full (m : t) : partial := mkPartial.

(** The message as its [.proto] file declares it. *)
Definition schema (m : t) : list field :=
  [].

(** The message with its default for every property that is not kept. *)
Definition only (kept : string → bool) (m : t) : t := m.

#[global] Instance codec {PB : Protobuf} : MessageCodec t :=
  {| msg_base := base; msg_encode := encode; msg_field := decode_field |}.

#[global] Program Instance spec {PB : Protobuf} (PS : ProtobufSpec PB) : MessageSpec PS t :=
  {| msg_wire := wire; msg_valid := valid; msg_merge := merge |}.
Next Obligation. solve_encode_wire. Qed.
Next Obligation. solve_decode_wire. Qed.
Next Obligation. solve_merge_base. Qed.
Next Obligation. intros. solve_advances decode_field. Qed.

#[global] Program Instance data : MessageData t partial :=
  {| msg_fromJSON := fromJSON; msg_toJSON := toJSON;
     msg_fromPartial := fromPartial; msg_full := full |}.
Next Obligation. solve_json fromJSON toJSON. Qed.
Next Obligation. solve_partial fromPartial full. Qed.

#[global] Instance schema_wire {PB : Protobuf} {PS : ProtobufSpec PB} : WireSchema wire schema.
Proof. solve_schema_wire wire schema. Qed.

#[global] Instance schema_merge : MergeSchema merge schema.
Proof. solve_schema_merge merge schema. Qed.

(** Its row in the table of message types. *)
Definition message {PB : Protobuf} {PS : ProtobufSpec PB} : message_type :=
  plain_message "MsgProposeDisableValidatorResponse" nothing false schema only.

#[global] Instance message_lawful {PB : Protobuf} (PS : ProtobufSpec PB) : Lawful message.
Proof. solve_lawful decode_field fromJSON only. Qed.

End MsgProposeDisableValidatorResponse.

(** ** [MsgApproveDisableValidator] (validator/tx.js) *)

Module MsgApproveDisableValidator.

Record t := mk {
  creator : string;
  address : string;
  info : string;
  time : number;
}.

#[global] Instance t_eta : Settable t := λ m, mk m.(creator) m.(address) m.(info) m.(time).

Definition base : t := mk "" "" "" 0.

Definition encode {PB : Protobuf} (message : t) (writer : Writer) : Writer :=
  writer
  @> when (str_neq message.(creator) "") (fun w => w @> uint32 10 @> string_ message.(creator))
  @> when (str_neq message.(address) "") (fun w => w @> uint32 18 @> string_ message.(address))
  @> when (str_neq message.(info) "") (fun w => w @> uint32 26 @> string_ message.(info))
  @> when (num_neq message.(time) 0) (fun w => w @> uint32 32 @> int64 message.(time)).

Definition decode_field {PB : Protobuf} (tag : Z) (message : t) : RM t :=
  match field_number tag with
  | 1 => v ← read_string; mret (message <| creator := v |>)
  | 2 => v ← read_string; mret (message <| address := v |>)
  | 3 => v ← read_string; mret (message <| info := v |>)
  | 4 => v ← read_number read_int64; mret (message <| time := v |>)
  | _ => _ ← skipType (wire_type tag); mret message
  end.

Definition decode {PB : Protobuf} (length : option Z) : RM t :=
  decode_message length base decode_field.

Definition fromJSON (object : js) : result t :=
  creator' ← field_or object "creator" to_string "";
  address' ← field_or object "address" to_string "";
  info' ← field_or object "info" to_string "";
  time' ← field_or object "time" js_Number 0;
  Ok (mk creator' address' info' time').

Definition toJSON (message : t) : js :=
  Obj ([("creator", Str message.(creator));
    ("address", Str message.(address));
    ("info", Str message.(info));
    ("time", Num message.(time))]).

Record partial := mkPartial {
  p_creator : option string;
  p_address : option string;
  p_info : option string;
  p_time : option number;
}.

Definition fromPartial (object : partial) : t := {|
  creator := object.(p_creator) ?? "";
  address := object.(p_address) ?? "";
  info := object.(p_info) ?? "";
  time := object.(p_time) ?? Int 0;
|}.

(** The object with no property given. *)
Definition nothing : partial := mkPartial None None None None.

(** The bytes [encode] writes. *)
Definition wire {PB : Protobuf} {PS : ProtobufSpec PB} (m : t) : bytes :=
  f_string 10 m.(creator) ++
  f_string 18 m.(address) ++
  f_string 26 m.(info) ++
  f_number e_int64 32 m.(time).

Definition valid (m : t) : Prop :=
  int64_ok m.(time).

Definition encodable {PB : Protobuf} {PS : ProtobufSpec PB} (m : t) : Prop :=
  valid m ∧ small (wire m).

Definition merge (m a : t) : t := {|
  creator := later_string m.(creator) a.(creator);
  address := later_string m.(address) a.(address);
  info := later_string m.(info) a.(info);
  time := later_number m.(time) a.(time);
|}.

(** A whole message seen as a partial one. *)
Definition full (m : t) : partial := {|
  p_creator := Some m.(creator);
  p_address := Some m.(address);
  p_info := Some m.(info);
  p_time := Some m.(time);
|}.

(** The message as its [.proto] file declares it. *)
Definition schema (m : t) : list field :=
  [implicit 1 (VString m.(creator));
   implicit 2 (VString m.(address));
   implicit 3 (VString m.(info));
   implicit 4 (VInt Int64 m.(time))].

(** The message with its default for every property that is not kept. *)
Definition only (kept : string → bool) (m : t) : t := {|
  creator := if kept "creator" then m.(creator) else "";
  address := if kept "address" then m.(address) else "";
  info := if kept "info" then m.(info) else "";
  time := if kept "time" then m.(time) else Int 0;
|}.

#[global] Instance codec {PB : Protobuf} : MessageCodec t :=
  {| msg_base := base; msg_encode := encode; msg_field := decode_field |}.

#[global] Program Instance spec {PB : Protobuf} (PS : ProtobufSpec PB) : MessageSpec PS t :=
  {| msg_wire := wire; msg_valid := valid; msg_merge := merge |}.
Next Obligation. solve_encode_wire. Qed.
Next Obligation. solve_decode_wire. Qed.
Next Obligation. solve_merge_base. Qed.
Next Obligation. intros. solve_advances decode_field. Qed.

#[global] Program Instance data : MessageData t partial :=
  {| msg_fromJSON := fromJSON; msg_toJSON := toJSON;
     msg_fromPartial := fromPartial; msg_full := full |}.
Next Obligation. solve_json fromJSON toJSON. Qed.
Next Obligation. solve_partial fromPartial full. Qed.

#[global] Instance schema_wire {PB : Protobuf} {PS : ProtobufSpec PB} : WireSchema wire schema.
Proof. solve_schema_wire wire schema. Qed.

#[global] Instance schema_merge : MergeSchema merge schema.
Proof. solve_schema_merge merge schema. Qed.

(** Its row in the table of message types. *)
Definition message {PB : Protobuf} {PS : ProtobufSpec PB} : message_type :=
  plain_message "MsgApproveDisableValidator" nothing true schema only.

#[global] Instance message_lawful {PB : Protobuf} (PS : ProtobufSpec PB) : Lawful message.
Proof. solve_lawful decode_field fromJSON only. Qed.

End MsgApproveDisableValidator.

(** ** [MsgApproveDisableValidatorResponse] (validator/tx.js) *)

Module MsgApproveDisableValidatorResponse.

Record t := mk {}.

#[global] Instance t_eta : Settable t := λ m, m.

Definition base : t := mk.

Definition encode {PB : Protobuf} (message : t) (writer : Writer) : Writer :=
  writer.

Definition decode_field {PB : Protobuf} (tag : Z) (message : t) : RM t :=
  match field_number tag with
  | _ => _ ← skipType (wire_type tag); mret message
  end.

Definition decode {PB : Protobuf} (length : option Z) : RM t :=
  decode_message length base decode_field.

Definition fromJSON (object : js) : result t :=
  Ok base.

Definition toJSON (message : t) : js :=
  Obj [].

Record partial := mkPartial {}.

Definition fromPartial (object : partial) : t := base.

(** The object with no property given. *)
Definition nothing : partial := mkPartial.

(** The bytes [encode] writes. *)
Definition wire {PB : Protobuf} {PS : ProtobufSpec PB} (m : t) : bytes :=
  [].

Definition valid (m : t) : Prop :=
  True.

Definition encodable {PB : Protobuf} {PS : ProtobufSpec PB} (m : t) : Prop :=
  valid m ∧ small (wire m).

Definition merge (m a : t) : t := m.

(** A whole message seen as a partial one. *)
Definition full (m : t) : partial := mkPartial.

(** The message as its [.proto] file declares it. *)
Definition schema (m : t) : list field :=
  [].

(** The message with its default for every property that is not kept. *)
Definition only (kept : string → bool) (m : t) : t := m.

#[global] Instance codec {PB : Protobuf} : MessageCodec t :=
  {| msg_base := base; msg_encode := encode; msg_field := decode_field |}.

#[global] Program Instance spec {PB : Protobuf} (PS : ProtobufSpec PB) : MessageSpec PS t :=
  {| msg_wire := wire; msg_valid := valid; msg_merge := merge |}.
Next Obligation. solve_encode_wire. Qed.
Next Obligation. solve_decode_wire. Qed.
Next Obligation. solve_merge_base. Qed.
Next Obligation. intros. solve_advances decode_field. Qed.

#[global] Program Instance data : MessageData t partial :=
  {| msg_fromJSON := fromJSON; msg_toJSON := toJSON;
     msg_fromPartial := fromPartial; msg_full := full |}.
Next Obligation. solve_json fromJSON toJSON. Qed.
Next Obligation. solve_partial fromPartial full. Qed.

#[global] Instance schema_wire {PB : Protobuf} {PS : ProtobufSpec PB} : WireSchema wire schema.
Proof. solve_schema_wire wire schema. Qed.

#[global] Instance schema_merge : MergeSchema merge schema.
Proof. solve_schema_merge merge schema. Qed.

(** Its row in the table of message types. *)
Definition message {PB : Protobuf} {PS : ProtobufSpec PB} : message_type :=
  plain_message "MsgApproveDisableValidatorResponse" nothing false schema only.

#[global] Instance message_lawful {PB : Protobuf} (PS : ProtobufSpec PB) : Lawful message.
Proof. solve_lawful decode_field fromJSON only. Qed.

End MsgApproveDisableValidatorResponse.

(** ** [MsgDisableValidator] (validator/tx.js) *)

Module MsgDisableValidator.

Record t := mk {
  creator : string;
}.

#[global] Instance t_eta : Settable t := λ m, mk m.(creator).

Definition base : t := mk "".

Definition encode {PB : Protobuf} (message : t) (writer : Writer) : Writer :=
  writer
  @> when (str_neq message.(creator) "") (fun w => w @> uint32 10 @> string_ message.(creator)).

Definition decode_field {PB : Protobuf} (tag : Z) (message : t) : RM t :=
  match field_number tag with
  | 1 => v ← read_string; mret (message <| creator := v |>)
  | _ => _ ← skipType (wire_type tag); mret message
  end.

Definition decode {PB : Protobuf} (length : option Z) : RM t :=
  decode_message length base decode_field.

Definition fromJSON (object : js) : result t :=
  creator' ← field_or object "creator" to_string "";
  Ok (mk creator').

Definition toJSON (message : t) : js :=
  Obj ([("creator", Str message.(creator))]).

Record partial := mkPartial {
  p_creator : option string;
}.

Definition fromPartial (object : partial) : t := {|
  creator := object.(p_creator) ?? "";
|}.

(** The object with no property given. *)
Definition nothing : partial := mkPartial None.

(** The bytes [encode] writes. *)
Definition wire {PB : Protobuf} {PS : ProtobufSpec PB} (m : t) : bytes :=
  f_string 10 m.(creator).

Definition valid (m : t) : Prop :=
  True.

Definition encodable {PB : Protobuf} {PS : ProtobufSpec PB} (m : t) : Prop :=
  valid m ∧ small (wire m).

Definition merge (m a : t) : t := {|
  creator := later_string m.(creator) a.(creator);
|}.

(** A whole message seen as a partial one. *)
Definition full (m : t) : partial := {|
  p_creator := Some m.(creator);
|}.

(** The message as its [.proto] file declares it. *)
Definition schema (m : t) : list field :=
  [implicit 1 (VString m.(creator))].

(** The message with its default for every property that is not kept. *)
Definition only (kept : string → bool) (m : t) : t := {|
  creator := if kept "creator" then m.(creator) else "";
|}.

#[global] Instance codec {PB : Protobuf} : MessageCodec t :=
  {| msg_base := base; msg_encode := encode; msg_field := decode_field |}.

#[global] Program Instance spec {PB : Protobuf} (PS : ProtobufSpec PB) : MessageSpec PS t :=
  {| msg_wire := wire; msg_valid := valid; msg_merge := merge |}.
Next Obligation. solve_encode_wire. Qed.
Next Obligation. solve_decode_wire. Qed.
Next Obligation. solve_merge_base. Qed.
Next Obligation. intros. solve_advances decode_field. Qed.

#[global] Program Instance data : MessageData t partial :=
  {| msg_fromJSON := fromJSON; msg_toJSON := toJSON;
     msg_fromPartial := fromPartial; msg_full := full |}.
Next Obligation. solve_json fromJSON toJSON. Qed.
Next Obligation. solve_partial fromPartial full. Qed.

#[global] Instance schema_wire {PB : Protobuf} {PS : ProtobufSpec PB} : WireSchema wire schema.
Proof. solve_schema_wire wire schema. Qed.

#[global] Instance schema_merge : MergeSchema merge schema.
Proof. solve_schema_merge merge schema. Qed.

(** Its row in the table of message types. *)
Definition message {PB : Protobuf} {PS : ProtobufSpec PB} : message_type :=
  plain_message "MsgDisableValidator" nothing true schema only.

#[global] Instance message_lawful {PB : Protobuf} (PS : ProtobufSpec PB) : Lawful message.
Proof. solve_lawful decode_field fromJSON only. Qed.

End MsgDisableValidator.

(** ** [MsgDisableValidatorResponse] (validator/tx.js) *)

Module MsgDisableValidatorResponse.

Record t := mk {}.

#[global] Instance t_eta : Settable t := λ m, m.

Definition base : t := mk.

Definition encode {PB : Protobuf} (message : t) (writer : Writer) : Writer :=
  writer.

Definition decode_field {PB : Protobuf} (tag : Z) (message : t) : RM t :=
  match field_number tag with
  | _ => _ ← skipType (wire_type tag); mret message
  end.

Definition decode {PB : Protobuf} (length : option Z) : RM t :=
  decode_message length base decode_field.

Definition fromJSON (object : js) : result t :=
  Ok base.

Definition toJSON (message : t) : js :=
  Obj [].

Record partial := mkPartial {}.

Definition fromPartial (object : partial) : t := base.

(** The object with no property given. *)
Definition nothing : partial := mkPartial.

(** The bytes [encode] writes. *)
Definition wire {PB : Protobuf} {PS : ProtobufSpec PB} (m : t) : bytes :=
  [].

Definition valid (m : t) : Prop :=
  True.

Definition encodable {PB : Protobuf} {PS : ProtobufSpec PB} (m : t) : Prop :=
  valid m ∧ small (wire m).

Definition merge (m a : t) : t := m.

(** A whole message seen as a partial one. *)
Definition full (m : t) : partial := mkPartial.

(** The message as its [.proto] file declares it. *)
Definition schema (m : t) : list field :=
  [].

(** The message with its default for every property that is not kept. *)
Definition only (kept : string → bool) (m : t) : t := m.

#[global] Instance codec {PB : Protobuf} : MessageCodec t :=
  {| msg_base := base; msg_encode := encode; msg_field := decode_field |}.

#[global] Program Instance spec {PB : Protobuf} (PS : ProtobufSpec PB) : MessageSpec PS t :=
  {| msg_wire := wire; msg_valid := valid; msg_merge := merge |}.
Next Obligation. solve_encode_wire. Qed.
Next Obligation. solve_decode_wire. Qed.
Next Obligation. solve_merge_base. Qed.
Next Obligation. intros. solve_advances decode_field. Qed.

#[global] Program Instance data : MessageData t partial :=
  {| msg_fromJSON := fromJSON; msg_toJSON := toJSON;
     msg_fromPartial := fromPartial; msg_full := full |}.
Next Obligation. solve_json fromJSON toJSON. Qed.
Next Obligation. solve_partial fromPartial full. Qed.

#[global] Instance schema_wire {PB : Protobuf} {PS : ProtobufSpec PB} : WireSchema wire schema.
Proof. solve_schema_wire wire schema. Qed.

#[global] Instance schema_merge : MergeSchema merge schema.
Proof. solve_schema_merge merge schema. Qed.

(** Its row in the table of message types. *)
Definition message {PB : Protobuf} {PS : ProtobufSpec PB} : message_type :=
  plain_message "MsgDisableValidatorResponse" nothing false schema only.

#[global] Instance message_lawful {PB : Protobuf} (PS : ProtobufSpec PB) : Lawful message.
Proof. solve_lawful decode_field fromJSON only. Qed.

End MsgDisableValidatorResponse.

(** ** [MsgEnableValidator] (validator/tx.js) *)

Module MsgEnableValidator.

Record t := mk {
  creator : string;
}.

#[global] Instance t_eta : Settable t := λ m, mk m.(creator).

Definition base : t := mk "".

Definition encode {PB : Protobuf} (message : t) (writer : Writer) : Writer :=
  writer
  @> when (str_neq message.(creator) "") (fun w => w @> uint32 10 @> string_ message.(creator)).

Definition decode_field {PB : Protobuf} (tag : Z) (message : t) : RM t :=
  match field_number tag with
  | 1 => v ← read_string; mret (message <| creator := v |>)
  | _ => _ ← skipType (wire_type tag); mret message
  end.

Definition decode {PB : Protobuf} (length : option Z) : RM t :=
  decode_message length base decode_field.

Definition fromJSON (object : js) : result t :=
  creator' ← field_or object "creator" to_string "";
  Ok (mk creator').

Definition toJSON (message : t) : js :=
  Obj ([("creator", Str message.(creator))]).

Record partial := mkPartial {
  p_creator : option string;
}.

Definition fromPartial (object : partial) : t := {|
  creator := object.(p_creator) ?? "";
|}.

(** The object with no property given. *)
Definition nothing : partial := mkPartial None.

(** The bytes [encode] writes. *)
Definition wire {PB : Protobuf} {PS : ProtobufSpec PB} (m : t) : bytes :=
  f_string 10 m.(creator).

Definition valid (m : t) : Prop :=
  True.

Definition encodable {PB : Protobuf} {PS : ProtobufSpec PB} (m : t) : Prop :=
  valid m ∧ small (wire m).

Definition merge (m a : t) : t := {|
  creator := later_string m.(creator) a.(creator);
|}.

(** A whole message seen as a partial one. *)
Definition full (m : t) : partial := {|
  p_creator := Some m.(creator);
|}.

(** The message as its [.proto] file declares it. *)
Definition schema (m : t) : list field :=
  [implicit 1 (VString m.(creator))].

(** The message with its default for every property that is not kept. *)
Definition only (kept : string → bool) (m : t) : t := {|
  creator := if kept "creator" then m.(creator) else "";
|}.

#[global] Instance codec {PB : Protobuf} : MessageCodec t :=
  {| msg_base := base; msg_encode := encode; msg_field := decode_field |}.

#[global] Program Instance spec {PB : Protobuf} (PS : ProtobufSpec PB) : MessageSpec PS t :=
  {| msg_wire := wire; msg_valid := valid; msg_merge := merge |}.
Next Obligation. solve_encode_wire. Qed.
Next Obligation. solve_decode_wire. Qed.
Next Obligation. solve_merge_base. Qed.
Next Obligation. intros. solve_advances decode_field. Qed.

#[global] Program Instance data : MessageData t partial :=
  {| msg_fromJSON := fromJSON; msg_toJSON := toJSON;
     msg_fromPartial := fromPartial; msg_full := full |}.
Next Obligation. solve_json fromJSON toJSON. Qed.
Next Obligation. solve_partial fromPartial full. Qed.

#[global] Instance schema_wire {PB : Protobuf} {PS : ProtobufSpec PB} : WireSchema wire schema.
Proof. solve_schema_wire wire schema. Qed.

#[global] Instance schema_merge : MergeSchema merge schema.
Proof. solve_schema_merge merge schema. Qed.

(** Its row in the table of message types. *)
Definition message {PB : Protobuf} {PS : ProtobufSpec PB} : message_type :=
  plain_message "MsgEnableValidator" nothing true schema only.

#[global] Instance message_lawful {PB : Protobuf} (PS : ProtobufSpec PB) : Lawful message.
Proof. solve_lawful decode_field fromJSON only. Qed.

End MsgEnableValidator.

(** ** [MsgEnableValidatorResponse] (validator/tx.js) *)

Module MsgEnableValidatorResponse.

Record t := mk {}.

#[global] Instance t_eta : Settable t := λ m, m.

Definition base : t := mk.

Definition encode {PB : Protobuf} (message : t) (writer : Writer) : Writer :=
  writer.

Definition decode_field {PB : Protobuf} (tag : Z) (message : t) : RM t :=
  match field_number tag with
  | _ => _ ← skipType (wire_type tag); mret message
  end.

Definition decode {PB : Protobuf} (length : option Z) : RM t :=
  decode_message length base decode_field.

Definition fromJSON (object : js) : result t :=
  Ok base.

Definition toJSON (message : t) : js :=
  Obj [].

Record partial := mkPartial {}.

Definition fromPartial (object : partial) : t := base.

(** The object with no property given. *)
Definition nothing : partial := mkPartial.

(** The bytes [encode] writes. *)
Definition wire {PB : Protobuf} {PS : ProtobufSpec PB} (m : t) : bytes :=
  [].

Definition valid (m : t) : Prop :=
  True.

Definition encodable {PB : Protobuf} {PS : ProtobufSpec PB} (m : t) : Prop :=
  valid m ∧ small (wire m).

Definition merge (m a : t) : t := m.

(** A whole message seen as a partial one. *)
Definition full (m : t) : partial := mkPartial.

(** The message as its [.proto] file declares it. *)
Definition schema (m : t) : list field :=
  [].

(** The message with its default for every property that is not kept. *)
Definition only (kept : string → bool) (m : t) : t := m.

#[global] Instance codec {PB : Protobuf} : MessageCodec t :=
  {| msg_base := base; msg_encode := encode; msg_field := decode_field |}.

#[global] Program Instance spec {PB : Protobuf} (PS : ProtobufSpec PB) : MessageSpec PS t :=
  {| msg_wire := wire; msg_valid := valid; msg_merge := merge |}.
Next Obligation. solve_encode_wire. Qed.
Next Obligation. solve_decode_wire. Qed.
Next Obligation. solve_merge_base. Qed.
Next Obligation. intros. solve_advances decode_field. Qed.

#[global] Program Instance data : MessageData t partial :=
  {| msg_fromJSON := fromJSON; msg_toJSON := toJSON;
     msg_fromPartial := fromPartial; msg_full := full |}.
Next Obligation. solve_json fromJSON toJSON. Qed.
Next Obligation. solve_partial fromPartial full. Qed.

#[global] Instance schema_wire {PB : Protobuf} {PS : ProtobufSpec PB} : WireSchema wire schema.
Proof. solve_schema_wire wire schema. Qed.

#[global] Instance schema_merge : MergeSchema merge schema.
Proof. solve_schema_merge merge schema. Qed.

(** Its row in the table of message types. *)
Definition message {PB : Protobuf} {PS : ProtobufSpec PB} : message_type :=
  plain_message "MsgEnableValidatorResponse" nothing false schema only.

#[global] Instance message_lawful {PB : Protobuf} (PS : ProtobufSpec PB) : Lawful message.
Proof. solve_lawful decode_field fromJSON only. Qed.

End MsgEnableValidatorResponse.

(** ** [MsgRejectDisableValidator] (validator/tx.js) *)

Module MsgRejectDisableValidator.

Record t := mk {
  creator : string;
  address : string;
  info : string;
  time : number;
}.

#[global] Instance t_eta : Settable t := λ m, mk m.(creator) m.(address) m.(info) m.(time).

Definition base : t := mk "" "" "" 0.

Definition encode {PB : Protobuf} (message : t) (writer : Writer) : Writer :=
  writer
  @> when (str_neq message.(creator) "") (fun w => w @> uint32 10 @> string_ message.(creator))
  @> when (str_neq message.(address) "") (fun w => w @> uint32 18 @> string_ message.(address))
  @> when (str_neq message.(info) "") (fun w => w @> uint32 26 @> string_ message.(info))
  @> when (num_neq message.(time) 0) (fun w => w @> uint32 32 @> int64 message.(time)).

Definition decode_field {PB : Protobuf} (tag : Z) (message : t) : RM t :=
  match field_number tag with
  | 1 => v ← read_string; mret (message <| creator := v |>)
  | 2 => v ← read_string; mret (message <| address := v |>)
  | 3 => v ← read_string; mret (message <| info := v |>)
  | 4 => v ← read_number read_int64; mret (message <| time := v |>)
  | _ => _ ← skipType (wire_type tag); mret message
  end.

Definition decode {PB : Protobuf} (length : option Z) : RM t :=
  decode_message length base decode_field.

Definition fromJSON (object : js) : result t :=
  creator' ← field_or object "creator" to_string "";
  address' ← field_or object "address" to_string "";
  info' ← field_or object "info" to_string "";
  time' ← field_or object "time" js_Number 0;
  Ok (mk creator' address' info' time').

Definition toJSON (message : t) : js :=
  Obj ([("creator", Str message.(creator));
    ("address", Str message.(address));
    ("info", Str message.(info));
    ("time", Num message.(time))]).

Record partial := mkPartial {
  p_creator : option string;
  p_address : option string;
  p_info : option string;
  p_time : option number;
}.

Definition fromPartial (object : partial) : t := {|
  creator := object.(p_creator) ?? "";
  address := object.(p_address) ?? "";
  info := object.(p_info) ?? "";
  time := object.(p_time) ?? Int 0;
|}.

(** The object with no property given. *)
Definition nothing : partial := mkPartial None None None None.

(** The bytes [encode] writes. *)
Definition wire {PB : Protobuf} {PS : ProtobufSpec PB} (m : t) : bytes :=
  f_string 10 m.(creator) ++
  f_string 18 m.(address) ++
  f_string 26 m.(info) ++
  f_number e_int64 32 m.(time).

Definition valid (m : t) : Prop :=
  int64_ok m.(time).

Definition encodable {PB : Protobuf} {PS : ProtobufSpec PB} (m : t) : Prop :=
  valid m ∧ small (wire m).

Definition merge (m a : t) : t := {|
  creator := later_string m.(creator) a.(creator);
  address := later_string m.(address) a.(address);
  info := later_string m.(info) a.(info);
  time := later_number m.(time) a.(time);
|}.

(** A whole message seen as a partial one. *)
Definition full (m : t) : partial := {|
  p_creator := Some m.(creator);
  p_address := Some m.(address);
  p_info := Some m.(info);
  p_time := Some m.(time);
|}.

(** The message as its [.proto] file declares it. *)
Definition schema (m : t) : list field :=
  [implicit 1 (VString m.(creator));
   implicit 2 (VString m.(address));
   implicit 3 (VString m.(info));
   implicit 4 (VInt Int64 m.(time))].

(** The message with its default for every property that is not kept. *)
Definition only (kept : string → bool) (m : t) : t := {|
  creator := if kept "creator" then m.(creator) else "";
  address := if kept "address" then m.(address) else "";
  info := if kept "info" then m.(info) else "";
  time := if kept "time" then m.(time) else Int 0;
|}.

#[global] Instance codec {PB : Protobuf} : MessageCodec t :=
  {| msg_base := base; msg_encode := encode; msg_field := decode_field |}.

#[global] Program Instance spec {PB : Protobuf} (PS : ProtobufSpec PB) : MessageSpec PS t :=
  {| msg_wire := wire; msg_valid := valid; msg_merge := merge |}.
Next Obligation. solve_encode_wire. Qed.
Next Obligation. solve_decode_wire. Qed.
Next Obligation. solve_merge_base. Qed.
Next Obligation. intros. solve_advances decode_field. Qed.

#[global] Program Instance data : MessageData t partial :=
  {| msg_fromJSON := fromJSON; msg_toJSON := toJSON;
     msg_fromPartial := fromPartial; msg_full := full |}.
Next Obligation. solve_json fromJSON toJSON. Qed.
Next Obligation. solve_partial fromPartial full. Qed.

#[global] Instance schema_wire {PB : Protobuf} {PS : ProtobufSpec PB} : WireSchema wire schema.
Proof. solve_schema_wire wire schema. Qed.

#[global] Instance schema_merge : MergeSchema merge schema.
Proof. solve_schema_merge merge schema. Qed.

(** Its row in the table of message types. *)
Definition message {PB : Protobuf} {PS : ProtobufSpec PB} : message_type :=
  plain_message "MsgRejectDisableValidator" nothing true schema only.

#[global] Instance message_lawful {PB : Protobuf} (PS : ProtobufSpec PB) : Lawful message.
Proof. solve_lawful decode_field fromJSON only. Qed.

End MsgRejectDisableValidator.

(** ** [MsgRejectDisableValidatorResponse] (validator/tx.js) *)

Module MsgRejectDisableValidatorResponse.

Record t := mk {}.

#[global] Instance t_eta : Settable t := λ m, m.

Definition base : t := mk.

Definition encode {PB : Protobuf} (message : t) (writer : Writer) : Writer :=
  writer.

Definition decode_field {PB : Protobuf} (tag : Z) (message : t) : RM t :=
  match field_number tag with
  | _ => _ ← skipType (wire_type tag); mret message
  end.

Definition decode {PB : Protobuf} (length : option Z) : RM t :=
  decode_message length base decode_field.

Definition fromJSON (object : js) : result t :=
  Ok base.

Definition toJSON (message : t) : js :=
  Obj [].

Record partial := mkPartial {}.

Definition fromPartial (object : partial) : t := base.

(** The object with no property given. *)
Definition nothing : partial := mkPartial.

(** The bytes [encode] writes. *)
Definition wire {PB : Protobuf} {PS : ProtobufSpec PB} (m : t) : bytes :=
  [].

Definition valid (m : t) : Prop :=
  True.

Definition encodable {PB : Protobuf} {PS : ProtobufSpec PB} (m : t) : Prop :=
  valid m ∧ small (wire m).

Definition merge (m a : t) : t := m.

(** A whole message seen as a partial one. *)
Definition full (m : t) : partial := mkPartial.

(** The message as its [.proto] file declares it. *)
Definition schema (m : t) : list field :=
  [].

(** The message with its default for every property that is not kept. *)
Definition only (kept : string → bool) (m : t) : t := m.

#[global] Instance codec {PB : Protobuf} : MessageCodec t :=
  {| msg_base := base; msg_encode := encode; msg_field := decode_field |}.

#[global] Program Instance spec {PB : Protobuf} (PS : ProtobufSpec PB) : MessageSpec PS t :=
  {| msg_wire := wire; msg_valid := valid; msg_merge := merge |}.
Next Obligation. solve_encode_wire. Qed.
Next Obligation. solve_decode_wire. Qed.
Next Obligation. solve_merge_base. Qed.
Next Obligation. intros. solve_advances decode_field. Qed.

#[global] Program Instance data : MessageData t partial :=
  {| msg_fromJSON := fromJSON; msg_toJSON := toJSON;
     msg_fromPartial := fromPartial; msg_full := full |}.
Next Obligation. solve_json fromJSON toJSON. Qed.
Next Obligation. solve_partial fromPartial full. Qed.

#[global] Instance schema_wire {PB : Protobuf} {PS : ProtobufSpec PB} : WireSchema wire schema.
Proof. solve_schema_wire wire schema. Qed.

#[global] Instance schema_merge : MergeSchema merge schema.
Proof. solve_schema_merge merge schema. Qed.

(** Its row in the table of message types. *)
Definition message {PB : Protobuf} {PS : ProtobufSpec PB} : message_type :=
  plain_message "MsgRejectDisableValidatorResponse" nothing false schema only.

#[global] Instance message_lawful {PB : Protobuf} (PS : ProtobufSpec PB) : Lawful message.
Proof. solve_lawful decode_field fromJSON only. Qed.

End MsgRejectDisableValidatorResponse.

(** ** [QueryGetValidatorRequest] (validator/query.js) *)

Module QueryGetValidatorRequest.

Record t := mk {
  owner : string;
}.

#[global] Instance t_eta : Settable t := λ m, mk m.(owner).

Definition base : t := mk "".

Definition encode {PB : Protobuf} (message : t) (writer : Writer) : Writer :=
  writer
  @> when (str_neq message.(owner) "") (fun w => w @> uint32 10 @> string_ message.(owner)).

Definition decode_field {PB : Protobuf} (tag : Z) (message : t) : RM t :=
  match field_number tag with
  | 1 => v ← read_string; mret (message <| owner := v |>)
  | _ => _ ← skipType (wire_type tag); mret message
  end.

Definition decode {PB : Protobuf} (length : option Z) : RM t :=
  decode_message length base decode_field.

Definition fromJSON (object : js) : result t :=
  owner' ← field_or object "owner" to_string "";
  Ok (mk owner').

Definition toJSON (message : t) : js :=
  Obj ([("owner", Str message.(owner))]).

Record partial := mkPartial {
  p_owner : option string;
}.

Definition fromPartial (object : partial) : t := {|
  owner := object.(p_owner) ?? "";
|}.

(** The object with no property given. *)
Definition nothing : partial := mkPartial None.

(** The bytes [encode] writes. *)
Definition wire {PB : Protobuf} {PS : ProtobufSpec PB} (m : t) : bytes :=
  f_string 10 m.(owner).

Definition valid (m : t) : Prop :=
  True.

Definition encodable {PB : Protobuf} {PS : ProtobufSpec PB} (m : t) : Prop :=
  valid m ∧ small (wire m).

Definition merge (m a : t) : t := {|
  owner := later_string m.(owner) a.(owner);
|}.

(** A whole message seen as a partial one. *)
Definition full (m : t) : partial := {|
  p_owner := Some m.(owner);
|}.

(** The message as its [.proto] file declares it. *)
Definition schema (m : t) : list field :=
  [implicit 1 (VString m.(owner))].

(** The message with its default for every property that is not kept. *)
Definition only (kept : string → bool) (m : t) : t := {|
  owner := if kept "owner" then m.(owner) else "";
|}.

#[global] Instance codec {PB : Protobuf} : MessageCodec t :=
  {| msg_base := base; msg_encode := encode; msg_field := decode_field |}.

#[global] Program Instance spec {PB : Protobuf} (PS : ProtobufSpec PB) : MessageSpec PS t :=
  {| msg_wire := wire; msg_valid := valid; msg_merge := merge |}.
Next Obligation. solve_encode_wire. Qed.
Next Obligation. solve_decode_wire. Qed.
Next Obligation. solve_merge_base. Qed.
Next Obligation. intros. solve_advances decode_field. Qed.

#[global] Program Instance data : MessageData t partial :=
  {| msg_fromJSON := fromJSON; msg_toJSON := toJSON;
     msg_fromPartial := fromPartial; msg_full := full |}.
Next Obligation. solve_json fromJSON toJSON. Qed.
Next Obligation. solve_partial fromPartial full. Qed.

#[global] Instance schema_wire {PB : Protobuf} {PS : ProtobufSpec PB} : WireSchema wire schema.
Proof. solve_schema_wire wire schema. Qed.

#[global] Instance schema_merge : MergeSchema merge schema.
Proof. solve_schema_merge merge schema. Qed.

(** Its row in the table of message types. *)
Definition message {PB : Protobuf} {PS : ProtobufSpec PB} : message_type :=
  plain_message "QueryGetValidatorRequest" nothing true schema only.

#[global] Instance message_lawful {PB : Protobuf} (PS : ProtobufSpec PB) : Lawful message.
Proof. solve_lawful decode_field fromJSON only. Qed.

End QueryGetValidatorRequest.

(** ** [QueryGetValidatorResponse] (validator/query.js) *)

Module QueryGetValidatorResponse.

Record t := mk {
  validator : option Validator.t;
}.

#[global] Instance t_eta : Settable t := λ m, mk m.(validator).

Definition base : t := mk None.

Definition encode {PB : Protobuf} (message : t) (writer : Writer) : result Writer :=
  Ok writer
  @>= defined_e message.(validator) (submessage 10 Validator.encode).

Definition decode_field {PB : Protobuf} (tag : Z) (message : t) : RM t :=
  match field_number tag with
  | 1 => v ← read_nested Validator.decode; mret (message <| validator := Some v |>)
  | _ => _ ← skipType (wire_type tag); mret message
  end.

Definition decode {PB : Protobuf} (length : option Z) : RM t :=
  decode_message length base decode_field.

Definition fromJSON (object : js) : result t :=
  validator' ← field_or object "validator" (to_some Validator.fromJSON) None;
  Ok (mk validator').

Definition toJSON (message : t) : js :=
  Obj (prop_opt "validator" Validator.toJSON message.(validator)).

Record partial := mkPartial {
  p_validator : option Validator.partial;
}.

Definition fromPartial (object : partial) : t := {|
  validator := Validator.fromPartial <$> object.(p_validator);
|}.

(** The object with no property given. *)
Definition nothing : partial := mkPartial None.

(** The bytes [encode] writes. *)
Definition wire {PB : Protobuf} {PS : ProtobufSpec PB} (m : t) : bytes :=
  f_message 10 Validator.wire m.(validator).

Definition valid (m : t) : Prop :=
  from_option Validator.valid True m.(validator).

(** The byte fields hold arrays, as the interface declares. *)
Definition typed (m : t) : bool := from_option Validator.typed true m.(validator).

(** The message without its empty byte arrays. *)
Definition normal (m : t) : t := {|
  validator := Validator.normal <$> m.(validator);
|}.

Definition encodable {PB : Protobuf} {PS : ProtobufSpec PB} (m : t) : Prop :=
  typed m = true ∧ valid m ∧ small (wire m).

Definition merge (m a : t) : t := {|
  validator := later_message m.(validator) (Validator.normal <$> a.(validator));
|}.

(** A whole message seen as a partial one. *)
Definition full (m : t) : partial := {|
  p_validator := Validator.full <$> m.(validator);
|}.

(** The message as its [.proto] file declares it. *)
Definition schema (m : t) : list field :=
  [singular 1 Optional (message_value Validator.schema) m.(validator)].

(** The message with its default for every property that is not kept. *)
Definition only (kept : string → bool) (m : t) : t := {|
  validator := if kept "validator" then m.(validator) else None;
|}.

#[global] Instance codec {PB : Protobuf} : FallibleCodec t :=
  {| fmsg_base := base; fmsg_encode := encode; fmsg_field := decode_field |}.

#[global] Program Instance spec {PB : Protobuf} (PS : ProtobufSpec PB) : FallibleSpec PS t :=
  {| fmsg_wire := wire; fmsg_valid := valid; fmsg_typed := typed; fmsg_normal := normal;
     fmsg_merge := merge |}.
Next Obligation. solve_fencode_wire. Qed.
Next Obligation. intros. solve_fencode_throws encode typed. Qed.
Next Obligation. solve_fdecode_wire. Qed.
Next Obligation. solve_fmerge_base. Qed.
Next Obligation. intros. solve_fadvances decode_field. Qed.

#[global] Program Instance given_ : FalliblePartial t partial :=
  {| fmsg_fromPartial := fromPartial; fmsg_full := full; fmsg_given := typed |}.
Next Obligation. solve_fgiven fromPartial typed. Qed.
Next Obligation. solve_fpartial fromPartial full typed. Qed.

#[global] Program Instance json : FallibleJson t :=
  {| fmsg_fromJSON := fromJSON; fmsg_toJSON := toJSON;
     fmsg_named := fun _ => true; fmsg_known := fun m => m |}.
Next Obligation. solve_fjson fromJSON toJSON. Qed.
Next Obligation. reflexivity. Qed.

#[global] Instance schema_wire {PB : Protobuf} {PS : ProtobufSpec PB} : WireSchema wire schema.
Proof. solve_schema_wire wire schema. Qed.

#[global] Instance schema_normal : NormalSchema normal schema.
Proof. solve_schema_normal normal schema. Qed.

#[global] Instance schema_merge : MergeSchema merge schema.
Proof. solve_schema_merge merge schema. Qed.

(** Its row in the table of message types. *)
Definition message {PB : Protobuf} {PS : ProtobufSpec PB} : message_type :=
  fallible_message "QueryGetValidatorResponse" nothing true schema only.

#[global] Instance message_lawful {PB : Protobuf} (PS : ProtobufSpec PB) : Lawful message.
Proof. solve_lawful decode_field fromJSON only. Qed.

End QueryGetValidatorResponse.

(** ** [QueryAllValidatorRequest] (validator/query.js) *)

Module QueryAllValidatorRequest.

Record t := mk {
  pagination : option PageRequest.t;
}.

#[global] Instance t_eta : Settable t := λ m, mk m.(pagination).

Definition base : t := mk None.

Definition encode {PB : Protobuf} (message : t) (writer : Writer) : result Writer :=
  Ok writer
  @>= defined_e message.(pagination) (submessage 10 PageRequest.encode).

Definition decode_field {PB : Protobuf} (tag : Z) (message : t) : RM t :=
  match field_number tag with
  | 1 => v ← read_nested PageRequest.decode; mret (message <| pagination := Some v |>)
  | _ => _ ← skipType (wire_type tag); mret message
  end.

Definition decode {PB : Protobuf} (length : option Z) : RM t :=
  decode_message length base decode_field.

Definition fromJSON (object : js) : result t :=
  pagination' ← field_or object "pagination" (to_some PageRequest.fromJSON) None;
  Ok (mk pagination').

Definition toJSON (message : t) : js :=
  Obj (prop_opt "pagination" PageRequest.toJSON message.(pagination)).

Record partial := mkPartial {
  p_pagination : option PageRequest.partial;
}.

Definition fromPartial (object : partial) : t := {|
  pagination := PageRequest.fromPartial <$> object.(p_pagination);
|}.

(** The object with no property given. *)
Definition nothing : partial := mkPartial None.

(** The bytes [encode] writes. *)
Definition wire {PB : Protobuf} {PS : ProtobufSpec PB} (m : t) : bytes :=
  f_message 10 PageRequest.wire m.(pagination).

Definition valid (m : t) : Prop :=
  from_option PageRequest.valid True m.(pagination).

(** The byte fields hold arrays, as the interface declares. *)
Definition typed (m : t) : bool := from_option PageRequest.typed true m.(pagination).

(** The message without its empty byte arrays. *)
Definition normal (m : t) : t := {|
  pagination := PageRequest.normal <$> m.(pagination);
|}.

Definition encodable {PB : Protobuf} {PS : ProtobufSpec PB} (m : t) : Prop :=
  typed m = true ∧ valid m ∧ small (wire m).

Definition merge (m a : t) : t := {|
  pagination := later_message m.(pagination) (PageRequest.normal <$> a.(pagination));
|}.

(** A whole message seen as a partial one. *)
Definition full (m : t) : partial := {|
  p_pagination := PageRequest.full <$> m.(pagination);
|}.

(** The message as its [.proto] file declares it. *)
Definition schema (m : t) : list field :=
  [singular 1 Optional (message_value PageRequest.schema) m.(pagination)].

(** The message with its default for every property that is not kept. *)
Definition only (kept : string → bool) (m : t) : t := {|
  pagination := if kept "pagination" then m.(pagination) else None;
|}.

#[global] Instance codec {PB : Protobuf} : FallibleCodec t :=
  {| fmsg_base := base; fmsg_encode := encode; fmsg_field := decode_field |}.

#[global] Program Instance spec {PB : Protobuf} (PS : ProtobufSpec PB) : FallibleSpec PS t :=
  {| fmsg_wire := wire; fmsg_valid := valid; fmsg_typed := typed; fmsg_normal := normal;
     fmsg_merge := merge |}.
Next Obligation. solve_fencode_wire. Qed.
Next Obligation. intros. solve_fencode_throws encode typed. Qed.
Next Obligation. solve_fdecode_wire. Qed.
Next Obligation. solve_fmerge_base. Qed.
Next Obligation. intros. solve_fadvances decode_field. Qed.

#[global] Program Instance given_ : FalliblePartial t partial :=
  {| fmsg_fromPartial := fromPartial; fmsg_full := full; fmsg_given := typed |}.
Next Obligation. solve_fgiven fromPartial typed. Qed.
Next Obligation. solve_fpartial fromPartial full typed. Qed.

#[global] Program Instance json : FallibleJson t :=
  {| fmsg_fromJSON := fromJSON; fmsg_toJSON := toJSON;
     fmsg_named := fun _ => true; fmsg_known := fun m => m |}.
Next Obligation. solve_fjson fromJSON toJSON. Qed.
Next Obligation. reflexivity. Qed.

#[global] Instance schema_wire {PB : Protobuf} {PS : ProtobufSpec PB} : WireSchema wire schema.
Proof. solve_schema_wire wire schema. Qed.

#[global] Instance schema_normal : NormalSchema normal schema.
Proof. solve_schema_normal normal schema. Qed.

#[global] Instance schema_merge : MergeSchema merge schema.
Proof. solve_schema_merge merge schema. Qed.

(** Its row in the table of message types. *)
Definition message {PB : Protobuf} {PS : ProtobufSpec PB} : message_type :=
  fallible_message "QueryAllValidatorRequest" nothing true schema only.

#[global] Instance message_lawful {PB : Protobuf} (PS : ProtobufSpec PB) : Lawful message.
Proof. solve_lawful decode_field fromJSON only. Qed.

End QueryAllValidatorRequest.

(** ** [QueryAllValidatorResponse] (validator/query.js) *)

Module QueryAllValidatorResponse.

Record t := mk {
  validator : list Validator.t;
  pagination : option PageResponse.t;
}.

#[global] Instance t_eta : Settable t := λ m, mk m.(validator) m.(pagination).

Definition base : t := mk [] None.

Definition encode {PB : Protobuf} (message : t) (writer : Writer) : result Writer :=
  Ok writer
  @>= each_e message.(validator) (submessage 10 Validator.encode)
  @>= defined_e message.(pagination) (submessage 18 PageResponse.encode).

Definition decode_field {PB : Protobuf} (tag : Z) (message : t) : RM t :=
  match field_number tag with
  | 1 => v ← read_nested Validator.decode;
         mret (message <| validator := message.(validator) ++ [v] |>)
  | 2 => v ← read_nested PageResponse.decode; mret (message <| pagination := Some v |>)
  | _ => _ ← skipType (wire_type tag); mret message
  end.

Definition decode {PB : Protobuf} (length : option Z) : RM t :=
  decode_message length base decode_field.

Definition fromJSON (object : js) : result t :=
  validator' ← field_or object "validator" (to_list Validator.fromJSON) [];
  pagination' ← field_or object "pagination" (to_some PageResponse.fromJSON) None;
  Ok (mk validator' pagination').

Definition toJSON (message : t) : js :=
  Obj ([("validator", Arr (map Validator.toJSON message.(validator)))] ++
   prop_opt "pagination" PageResponse.toJSON message.(pagination)).

Record partial := mkPartial {
  p_validator : option (list Validator.partial);
  p_pagination : option PageResponse.partial;
}.

Definition fromPartial (object : partial) : t := {|
  validator := map Validator.fromPartial (object.(p_validator) ?? []);
  pagination := PageResponse.fromPartial <$> object.(p_pagination);
|}.

(** The object with no property given. *)
Definition nothing : partial := mkPartial None None.

(** The bytes [encode] writes. *)
Definition wire {PB : Protobuf} {PS : ProtobufSpec PB} (m : t) : bytes :=
  f_repeated 10 Validator.wire m.(validator) ++
  f_message 18 PageResponse.wire m.(pagination).

Definition valid (m : t) : Prop :=
  Forall Validator.valid m.(validator) ∧ from_option PageResponse.valid True m.(pagination).

(** The byte fields hold arrays, as the interface declares. *)
Definition typed (m : t) : bool := forallb Validator.typed m.(validator) && from_option PageResponse.typed true m.(pagination).

(** The message without its empty byte arrays. *)
Definition normal (m : t) : t := {|
  validator := map Validator.normal m.(validator);
  pagination := PageResponse.normal <$> m.(pagination);
|}.

Definition encodable {PB : Protobuf} {PS : ProtobufSpec PB} (m : t) : Prop :=
  typed m = true ∧ valid m ∧ small (wire m).

Definition merge (m a : t) : t := {|
  validator := m.(validator) ++ map Validator.normal a.(validator);
  pagination := later_message m.(pagination) (PageResponse.normal <$> a.(pagination));
|}.

(** A whole message seen as a partial one. *)
Definition full (m : t) : partial := {|
  p_validator := Some (map Validator.full m.(validator));
  p_pagination := PageResponse.full <$> m.(pagination);
|}.

(** The message as its [.proto] file declares it. *)
Definition schema (m : t) : list field :=
  [repeated 1 (message_value Validator.schema) m.(validator);
   singular 2 Optional (message_value PageResponse.schema) m.(pagination)].

(** The message with its default for every property that is not kept. *)
Definition only (kept : string → bool) (m : t) : t := {|
  validator := if kept "validator" then m.(validator) else [];
  pagination := if kept "pagination" then m.(pagination) else None;
|}.

#[global] Instance codec {PB : Protobuf} : FallibleCodec t :=
  {| fmsg_base := base; fmsg_encode := encode; fmsg_field := decode_field |}.

#[global] Program Instance spec {PB : Protobuf} (PS : ProtobufSpec PB) : FallibleSpec PS t :=
  {| fmsg_wire := wire; fmsg_valid := valid; fmsg_typed := typed; fmsg_normal := normal;
     fmsg_merge := merge |}.
Next Obligation. solve_fencode_wire. Qed.
Next Obligation. intros. solve_fencode_throws encode typed. Qed.
Next Obligation. solve_fdecode_wire. Qed.
Next Obligation. solve_fmerge_base. Qed.
Next Obligation. intros. solve_fadvances decode_field. Qed.

#[global] Program Instance given_ : FalliblePartial t partial :=
  {| fmsg_fromPartial := fromPartial; fmsg_full := full; fmsg_given := typed |}.
Next Obligation. solve_fgiven fromPartial typed. Qed.
Next Obligation. solve_fpartial fromPartial full typed. Qed.

#[global] Program Instance json : FallibleJson t :=
  {| fmsg_fromJSON := fromJSON; fmsg_toJSON := toJSON;
     fmsg_named := fun _ => true; fmsg_known := fun m => m |}.
Next Obligation. solve_fjson fromJSON toJSON. Qed.
Next Obligation. reflexivity. Qed.

#[global] Instance schema_wire {PB : Protobuf} {PS : ProtobufSpec PB} : WireSchema wire schema.
Proof. solve_schema_wire wire schema. Qed.

#[global] Instance schema_normal : NormalSchema normal schema.
Proof. solve_schema_normal normal schema. Qed.

#[global] Instance schema_merge : MergeSchema merge schema.
Proof. solve_schema_merge merge schema. Qed.

(** Its row in the table of message types. *)
Definition message {PB : Protobuf} {PS : ProtobufSpec PB} : message_type :=
  fallible_message "QueryAllValidatorResponse" nothing true schema only.

#[global] Instance message_lawful {PB : Protobuf} (PS : ProtobufSpec PB) : Lawful message.
Proof. solve_lawful decode_field fromJSON only. Qed.

End QueryAllValidatorResponse.

(** ** [QueryGetLastValidatorPowerRequest] (validator/query.js) *)

Module QueryGetLastValidatorPowerRequest.

Record t := mk {
  owner : string;
}.

#[global] Instance t_eta : Settable t := λ m, mk m.(owner).

Definition base : t := mk "".

Definition encode {PB : Protobuf} (message : t) (writer : Writer) : Writer :=
  writer
  @> when (str_neq message.(owner) "") (fun w => w @> uint32 10 @> string_ message.(owner)).

Definition decode_field {PB : Protobuf} (tag : Z) (message : t) : RM t :=
  match field_number tag with
  | 1 => v ← read_string; mret (message <| owner := v |>)
  | _ => _ ← skipType (wire_type tag); mret message
  end.

Definition decode {PB : Protobuf} (length : option Z) : RM t :=
  decode_message length base decode_field.

Definition fromJSON (object : js) : result t :=
  owner' ← field_or object "owner" to_string "";
  Ok (mk owner').

Definition toJSON (message : t) : js :=
  Obj ([("owner", Str message.(owner))]).

Record partial := mkPartial {
  p_owner : option string;
}.

Definition fromPartial (object : partial) : t := {|
  owner := object.(p_owner) ?? "";
|}.

(** The object with no property given. *)
Definition nothing : partial := mkPartial None.

(** The bytes [encode] writes. *)
Definition wire {PB : Protobuf} {PS : ProtobufSpec PB} (m : t) : bytes :=
  f_string 10 m.(owner).

Definition valid (m : t) : Prop :=
  True.

Definition encodable {PB : Protobuf} {PS : ProtobufSpec PB} (m : t) : Prop :=
  valid m ∧ small (wire m).

Definition merge (m a : t) : t := {|
  owner := later_string m.(owner) a.(owner);
|}.

(** A whole message seen as a partial one. *)
Definition full (m : t) : partial := {|
  p_owner := Some m.(owner);
|}.

(** The message as its [.proto] file declares it. *)
Definition schema (m : t) : list field :=
  [implicit 1 (VString m.(owner))].

(** The message with its default for every property that is not kept. *)
Definition only (kept : string → bool) (m : t) : t := {|
  owner := if kept "owner" then m.(owner) else "";
|}.

#[global] Instance codec {PB : Protobuf} : MessageCodec t :=
  {| msg_base := base; msg_encode := encode; msg_field := decode_field |}.

#[global] Program Instance spec {PB : Protobuf} (PS : ProtobufSpec PB) : MessageSpec PS t :=
  {| msg_wire := wire; msg_valid := valid; msg_merge := merge |}.
Next Obligation. solve_encode_wire. Qed.
Next Obligation. solve_decode_wire. Qed.
Next Obligation. solve_merge_base. Qed.
Next Obligation. intros. solve_advances decode_field. Qed.

#[global] Program Instance data : MessageData t partial :=
  {| msg_fromJSON := fromJSON; msg_toJSON := toJSON;
     msg_fromPartial := fromPartial; msg_full := full |}.
Next Obligation. solve_json fromJSON toJSON. Qed.
Next Obligation. solve_partial fromPartial full. Qed.

#[global] Instance schema_wire {PB : Protobuf} {PS : ProtobufSpec PB} : WireSchema wire schema.
Proof. solve_schema_wire wire schema. Qed.

#[global] Instance schema_merge : MergeSchema merge schema.
Proof. solve_schema_merge merge schema. Qed.

(** Its row in the table of message types. *)
Definition message {PB : Protobuf} {PS : ProtobufSpec PB} : message_type :=
  plain_message "QueryGetLastValidatorPowerRequest" nothing true schema only.

#[global] Instance message_lawful {PB : Protobuf} (PS : ProtobufSpec PB) : Lawful message.
Proof. solve_lawful decode_field fromJSON only. Qed.

End QueryGetLastValidatorPowerRequest.

(** ** [QueryGetLastValidatorPowerResponse] (validator/query.js) *)

Module QueryGetLastValidatorPowerResponse.

Record t := mk {
  lastValidatorPower : option LastValidatorPower.t;
}.

#[global] Instance t_eta : Settable t := λ m, mk m.(lastValidatorPower).

Definition base : t := mk None.

Definition encode {PB : Protobuf} (message : t) (writer : Writer) : Writer :=
  writer
  @> defined message.(lastValidatorPower) (fun v w => w @> uint32 10 @> fork @> LastValidatorPower.encode v @> ldelim).

Definition decode_field {PB : Protobuf} (tag : Z) (message : t) : RM t :=
  match field_number tag with
  | 1 => v ← read_nested LastValidatorPower.decode;
         mret (message <| lastValidatorPower := Some v |>)
  | _ => _ ← skipType (wire_type tag); mret message
  end.

Definition decode {PB : Protobuf} (length : option Z) : RM t :=
  decode_message length base decode_field.

Definition fromJSON (object : js) : result t :=
  lastValidatorPower' ← field_or object "lastValidatorPower" (to_some LastValidatorPower.fromJSON) None;
  Ok (mk lastValidatorPower').

Definition toJSON (message : t) : js :=
  Obj (prop_opt "lastValidatorPower" LastValidatorPower.toJSON message.(lastValidatorPower)).

Record partial := mkPartial {
  p_lastValidatorPower : option LastValidatorPower.partial;
}.

Definition fromPartial (object : partial) : t := {|
  lastValidatorPower := LastValidatorPower.fromPartial <$> object.(p_lastValidatorPower);
|}.

(** The object with no property given. *)
Definition nothing : partial := mkPartial None.

(** The bytes [encode] writes. *)
Definition wire {PB : Protobuf} {PS : ProtobufSpec PB} (m : t) : bytes :=
  f_message 10 LastValidatorPower.wire m.(lastValidatorPower).

Definition valid (m : t) : Prop :=
  from_option LastValidatorPower.valid True m.(lastValidatorPower).

Definition encodable {PB : Protobuf} {PS : ProtobufSpec PB} (m : t) : Prop :=
  valid m ∧ small (wire m).

Definition merge (m a : t) : t := {|
  lastValidatorPower := later_message m.(lastValidatorPower) a.(lastValidatorPower);
|}.

(** A whole message seen as a partial one. *)
Definition full (m : t) : partial := {|
  p_lastValidatorPower := LastValidatorPower.full <$> m.(lastValidatorPower);
|}.

(** The message as its [.proto] file declares it. *)
Definition schema (m : t) : list field :=
  [singular 1 Optional (message_value LastValidatorPower.schema) m.(lastValidatorPower)].

(** The message with its default for every property that is not kept. *)
Definition only (kept : string → bool) (m : t) : t := {|
  lastValidatorPower := if kept "lastValidatorPower" then m.(lastValidatorPower) else None;
|}.

#[global] Instance codec {PB : Protobuf} : MessageCodec t :=
  {| msg_base := base; msg_encode := encode; msg_field := decode_field |}.

#[global] Program Instance spec {PB : Protobuf} (PS : ProtobufSpec PB) : MessageSpec PS t :=
  {| msg_wire := wire; msg_valid := valid; msg_merge := merge |}.
Next Obligation. solve_encode_wire. Qed.
Next Obligation. solve_decode_wire. Qed.
Next Obligation. solve_merge_base. Qed.
Next Obligation. intros. solve_advances decode_field. Qed.

#[global] Program Instance data : MessageData t partial :=
  {| msg_fromJSON := fromJSON; msg_toJSON := toJSON;
     msg_fromPartial := fromPartial; msg_full := full |}.
Next Obligation. solve_json fromJSON toJSON. Qed.
Next Obligation. solve_partial fromPartial full. Qed.

#[global] Instance schema_wire {PB : Protobuf} {PS : ProtobufSpec PB} : WireSchema wire schema.
Proof. solve_schema_wire wire schema. Qed.

#[global] Instance schema_merge : MergeSchema merge schema.
Proof. solve_schema_merge merge schema. Qed.

(** Its row in the table of message types. *)
Definition message {PB : Protobuf} {PS : ProtobufSpec PB} : message_type :=
  plain_message "QueryGetLastValidatorPowerResponse" nothing true schema only.

#[global] Instance message_lawful {PB : Protobuf} (PS : ProtobufSpec PB) : Lawful message.
Proof. solve_lawful decode_field fromJSON only. Qed.

End QueryGetLastValidatorPowerResponse.

(** ** [QueryAllLastValidatorPowerRequest] (validator/query.js) *)

Module QueryAllLastValidatorPowerRequest.

Record t := mk {
  pagination : option PageRequest.t;
}.

#[global] Instance t_eta : Settable t := λ m, mk m.(pagination).

Definition base : t := mk None.

Definition encode {PB : Protobuf} (message : t) (writer : Writer) : result Writer :=
  Ok writer
  @>= defined_e message.(pagination) (submessage 10 PageRequest.encode).

Definition decode_field {PB : Protobuf} (tag : Z) (message : t) : RM t :=
  match field_number tag with
  | 1 => v ← read_nested PageRequest.decode; mret (message <| pagination := Some v |>)
  | _ => _ ← skipType (wire_type tag); mret message
  end.

Definition decode {PB : Protobuf} (length : option Z) : RM t :=
  decode_message length base decode_field.

Definition fromJSON (object : js) : result t :=
  pagination' ← field_or object "pagination" (to_some PageRequest.fromJSON) None;
  Ok (mk pagination').

Definition toJSON (message : t) : js :=
  Obj (prop_opt "pagination" PageRequest.toJSON message.(pagination)).

Record partial := mkPartial {
  p_pagination : option PageRequest.partial;
}.

Definition fromPartial (object : partial) : t := {|
  pagination := PageRequest.fromPartial <$> object.(p_pagination);
|}.

(** The object with no property given. *)
Definition nothing : partial := mkPartial None.

(** The bytes [encode] writes. *)
Definition wire {PB : Protobuf} {PS : ProtobufSpec PB} (m : t) : bytes :=
  f_message 10 PageRequest.wire m.(pagination).

Definition valid (m : t) : Prop :=
  from_option PageRequest.valid True m.(pagination).

(** The byte fields hold arrays, as the interface declares. *)
Definition typed (m : t) : bool := from_option PageRequest.typed true m.(pagination).

(** The message without its empty byte arrays. *)
Definition normal (m : t) : t := {|
  pagination := PageRequest.normal <$> m.(pagination);
|}.

Definition encodable {PB : Protobuf} {PS : ProtobufSpec PB} (m : t) : Prop :=
  typed m = true ∧ valid m ∧ small (wire m).

Definition merge (m a : t) : t := {|
  pagination := later_message m.(pagination) (PageRequest.normal <$> a.(pagination));
|}.

(** A whole message seen as a partial one. *)
Definition full (m : t) : partial := {|
  p_pagination := PageRequest.full <$> m.(pagination);
|}.

(** The message as its [.proto] file declares it. *)
Definition schema (m : t) : list field :=
  [singular 1 Optional (message_value PageRequest.schema) m.(pagination)].

(** The message with its default for every property that is not kept. *)
Definition only (kept : string → bool) (m : t) : t := {|
  pagination := if kept "pagination" then m.(pagination) else None;
|}.

#[global] Instance codec {PB : Protobuf} : FallibleCodec t :=
  {| fmsg_base := base; fmsg_encode := encode; fmsg_field := decode_field |}.

#[global] Program Instance spec {PB : Protobuf} (PS : ProtobufSpec PB) : FallibleSpec PS t :=
  {| fmsg_wire := wire; fmsg_valid := valid; fmsg_typed := typed; fmsg_normal := normal;
     fmsg_merge := merge |}.
Next Obligation. solve_fencode_wire. Qed.
Next Obligation. intros. solve_fencode_throws encode typed. Qed.
Next Obligation. solve_fdecode_wire. Qed.
Next Obligation. solve_fmerge_base. Qed.
Next Obligation. intros. solve_fadvances decode_field. Qed.

#[global] Program Instance given_ : FalliblePartial t partial :=
  {| fmsg_fromPartial := fromPartial; fmsg_full := full; fmsg_given := typed |}.
Next Obligation. solve_fgiven fromPartial typed. Qed.
Next Obligation. solve_fpartial fromPartial full typed. Qed.

#[global] Program Instance json : FallibleJson t :=
  {| fmsg_fromJSON := fromJSON; fmsg_toJSON := toJSON;
     fmsg_named := fun _ => true; fmsg_known := fun m => m |}.
Next Obligation. solve_fjson fromJSON toJSON. Qed.
Next Obligation. reflexivity. Qed.

#[global] Instance schema_wire {PB : Protobuf} {PS : ProtobufSpec PB} : WireSchema wire schema.
Proof. solve_schema_wire wire schema. Qed.

#[global] Instance schema_normal : NormalSchema normal schema.
Proof. solve_schema_normal normal schema. Qed.

#[global] Instance schema_merge : MergeSchema merge schema.
Proof. solve_schema_merge merge schema. Qed.

(** Its row in the table of message types. *)
Definition message {PB : Protobuf} {PS : ProtobufSpec PB} : message_type :=
  fallible_message "QueryAllLastValidatorPowerRequest" nothing true schema only.

#[global] Instance message_lawful {PB : Protobuf} (PS : ProtobufSpec PB) : Lawful message.
Proof. solve_lawful decode_field fromJSON only. Qed.

End QueryAllLastValidatorPowerRequest.

(** ** [QueryAllLastValidatorPowerResponse] (validator/query.js) *)

Module QueryAllLastValidatorPowerResponse.

Record t := mk {
  lastValidatorPower : list LastValidatorPower.t;
  pagination : option PageResponse.t;
}.

#[global] Instance t_eta : Settable t := λ m, mk m.(lastValidatorPower) m.(pagination).

Definition base : t := mk [] None.

Definition encode {PB : Protobuf} (message : t) (writer : Writer) : result Writer :=
  Ok writer
  @>= pure (each message.(lastValidatorPower) (fun v w => w @> uint32 10 @> fork @> LastValidatorPower.encode v @> ldelim))
  @>= defined_e message.(pagination) (submessage 18 PageResponse.encode).

Definition decode_field {PB : Protobuf} (tag : Z) (message : t) : RM t :=
  match field_number tag with
  | 1 => v ← read_nested LastValidatorPower.decode;
         mret (message <| lastValidatorPower := message.(lastValidatorPower) ++ [v] |>)
  | 2 => v ← read_nested PageResponse.decode; mret (message <| pagination := Some v |>)
  | _ => _ ← skipType (wire_type tag); mret message
  end.

Definition decode {PB : Protobuf} (length : option Z) : RM t :=
  decode_message length base decode_field.

Definition fromJSON (object : js) : result t :=
  lastValidatorPower' ← field_or object "lastValidatorPower" (to_list LastValidatorPower.fromJSON) [];
  pagination' ← field_or object "pagination" (to_some PageResponse.fromJSON) None;
  Ok (mk lastValidatorPower' pagination').

Definition toJSON (message : t) : js :=
  Obj ([("lastValidatorPower", Arr (map LastValidatorPower.toJSON message.(lastValidatorPower)))] ++
   prop_opt "pagination" PageResponse.toJSON message.(pagination)).

Record partial := mkPartial {
  p_lastValidatorPower : option (list LastValidatorPower.partial);
  p_pagination : option PageResponse.partial;
}.

Definition fromPartial (object : partial) : t := {|
  lastValidatorPower := map LastValidatorPower.fromPartial (object.(p_lastValidatorPower) ?? []);
  pagination := PageResponse.fromPartial <$> object.(p_pagination);
|}.

(** The object with no property given. *)
Definition nothing : partial := mkPartial None None.

(** The bytes [encode] writes. *)
Definition wire {PB : Protobuf} {PS : ProtobufSpec PB} (m : t) : bytes :=
  f_repeated 10 LastValidatorPower.wire m.(lastValidatorPower) ++
  f_message 18 PageResponse.wire m.(pagination).

Definition valid (m : t) : Prop :=
  Forall LastValidatorPower.valid m.(lastValidatorPower) ∧ from_option PageResponse.valid True m.(pagination).

(** The byte fields hold arrays, as the interface declares. *)
Definition typed (m : t) : bool := from_option PageResponse.typed true m.(pagination).

(** The message without its empty byte arrays. *)
Definition normal (m : t) : t := {|
  lastValidatorPower := m.(lastValidatorPower);
  pagination := PageResponse.normal <$> m.(pagination);
|}.

Definition encodable {PB : Protobuf} {PS : ProtobufSpec PB} (m : t) : Prop :=
  typed m = true ∧ valid m ∧ small (wire m).

Definition merge (m a : t) : t := {|
  lastValidatorPower := m.(lastValidatorPower) ++ a.(lastValidatorPower);
  pagination := later_message m.(pagination) (PageResponse.normal <$> a.(pagination));
|}.

(** A whole message seen as a partial one. *)
Definition full (m : t) : partial := {|
  p_lastValidatorPower := Some (map LastValidatorPower.full m.(lastValidatorPower));
  p_pagination := PageResponse.full <$> m.(pagination);
|}.

(** The message as its [.proto] file declares it. *)
Definition schema (m : t) : list field :=
  [repeated 1 (message_value LastValidatorPower.schema) m.(lastValidatorPower);
   singular 2 Optional (message_value PageResponse.schema) m.(pagination)].

(** The message with its default for every property that is not kept. *)
Definition only (kept : string → bool) (m : t) : t := {|
  lastValidatorPower := if kept "lastValidatorPower" then m.(lastValidatorPower) else [];
  pagination := if kept "pagination" then m.(pagination) else None;
|}.

#[global] Instance codec {PB : Protobuf} : FallibleCodec t :=
  {| fmsg_base := base; fmsg_encode := encode; fmsg_field := decode_field |}.

#[global] Program Instance spec {PB : Protobuf} (PS : ProtobufSpec PB) : FallibleSpec PS t :=
  {| fmsg_wire := wire; fmsg_valid := valid; fmsg_typed := typed; fmsg_normal := normal;
     fmsg_merge := merge |}.
Next Obligation. solve_fencode_wire. Qed.
Next Obligation. intros. solve_fencode_throws encode typed. Qed.
Next Obligation. solve_fdecode_wire. Qed.
Next Obligation. solve_fmerge_base. Qed.
Next Obligation. intros. solve_fadvances decode_field. Qed.

#[global] Program Instance given_ : FalliblePartial t partial :=
  {| fmsg_fromPartial := fromPartial; fmsg_full := full; fmsg_given := typed |}.
Next Obligation. solve_fgiven fromPartial typed. Qed.
Next Obligation. solve_fpartial fromPartial full typed. Qed.

#[global] Program Instance json : FallibleJson t :=
  {| fmsg_fromJSON := fromJSON; fmsg_toJSON := toJSON;
     fmsg_named := fun _ => true; fmsg_known := fun m => m |}.
Next Obligation. solve_fjson fromJSON toJSON. Qed.
Next Obligation. reflexivity. Qed.

#[global] Instance schema_wire {PB : Protobuf} {PS : ProtobufSpec PB} : WireSchema wire schema.
Proof. solve_schema_wire wire schema. Qed.

#[global] Instance schema_normal : NormalSchema normal schema.
Proof. solve_schema_normal normal schema. Qed.

#[global] Instance schema_merge : MergeSchema merge schema.
Proof. solve_schema_merge merge schema. Qed.

(** Its row in the table of message types. *)
Definition message {PB : Protobuf} {PS : ProtobufSpec PB} : message_type :=
  fallible_message "QueryAllLastValidatorPowerResponse" nothing true schema only.

#[global] Instance message_lawful {PB : Protobuf} (PS : ProtobufSpec PB) : Lawful message.
Proof. solve_lawful decode_field fromJSON only. Qed.

End QueryAllLastValidatorPowerResponse.

(** ** [QueryGetProposedDisableValidatorRequest] (validator/query.js) *)

Module QueryGetProposedDisableValidatorRequest.

Record t := mk {
  address : string;
}.

#[global] Instance t_eta : Settable t := λ m, mk m.(address).

Definition base : t := mk "".

Definition encode {PB : Protobuf} (message : t) (writer : Writer) : Writer :=
  writer
  @> when (str_neq message.(address) "") (fun w => w @> uint32 10 @> string_ message.(address)).

Definition decode_field {PB : Protobuf} (tag : Z) (message : t) : RM t :=
  match field_number tag with
  | 1 => v ← read_string; mret (message <| address := v |>)
  | _ => _ ← skipType (wire_type tag); mret message
  end.

Definition decode {PB : Protobuf} (length : option Z) : RM t :=
  decode_message length base decode_field.

Definition fromJSON (object : js) : result t :=
  address' ← field_or object "address" to_string "";
  Ok (mk address').

Definition toJSON (message : t) : js :=
  Obj ([("address", Str message.(address))]).

Record partial := mkPartial {
  p_address : option string;
}.

Definition fromPartial (object : partial) : t := {|
  address := object.(p_address) ?? "";
|}.

(** The object with no property given. *)
Definition nothing : partial := mkPartial None.

(** The bytes [encode] writes. *)
Definition wire {PB : Protobuf} {PS : ProtobufSpec PB} (m : t) : bytes :=
  f_string 10 m.(address).

Definition valid (m : t) : Prop :=
  True.

Definition encodable {PB : Protobuf} {PS : ProtobufSpec PB} (m : t) : Prop :=
  valid m ∧ small (wire m).

Definition merge (m a : t) : t := {|
  address := later_string m.(address) a.(address);
|}.

(** A whole message seen as a partial one. *)
Definition full (m : t) : partial := {|
  p_address := Some m.(address);
|}.

(** The message as its [.proto] file declares it. *)
Definition schema (m : t) : list field :=
  [implicit 1 (VString m.(address))].

(** The message with its default for every property that is not kept. *)
Definition only (kept : string → bool) (m : t) : t := {|
  address := if kept "address" then m.(address) else "";
|}.

#[global] Instance codec {PB : Protobuf} : MessageCodec t :=
  {| msg_base := base; msg_encode := encode; msg_field := decode_field |}.

#[global] Program Instance spec {PB : Protobuf} (PS : ProtobufSpec PB) : MessageSpec PS t :=
  {| msg_wire := wire; msg_valid := valid; msg_merge := merge |}.
Next Obligation. solve_encode_wire. Qed.
Next Obligation. solve_decode_wire. Qed.
Next Obligation. solve_merge_base. Qed.
Next Obligation. intros. solve_advances decode_field. Qed.

#[global] Program Instance data : MessageData t partial :=
  {| msg_fromJSON := fromJSON; msg_toJSON := toJSON;
     msg_fromPartial := fromPartial; msg_full := full |}.
Next Obligation. solve_json fromJSON toJSON. Qed.
Next Obligation. solve_partial fromPartial full. Qed.

#[global] Instance schema_wire {PB : Protobuf} {PS : ProtobufSpec PB} : WireSchema wire schema.
Proof. solve_schema_wire wire schema. Qed.

#[global] Instance schema_merge : MergeSchema merge schema.
Proof. solve_schema_merge merge schema. Qed.

(** Its row in the table of message types. *)
Definition message {PB : Protobuf} {PS : ProtobufSpec PB} : message_type :=
  plain_message "QueryGetProposedDisableValidatorRequest" nothing true schema only.

#[global] Instance message_lawful {PB : Protobuf} (PS : ProtobufSpec PB) : Lawful message.
Proof. solve_lawful decode_field fromJSON only. Qed.

End QueryGetProposedDisableValidatorRequest.

(** ** [QueryGetProposedDisableValidatorResponse] (validator/query.js) *)

Module QueryGetProposedDisableValidatorResponse.

Record t := mk {
  proposedDisableValidator : option ProposedDisableValidator.t;
}.

#[global] Instance t_eta : Settable t := λ m, mk m.(proposedDisableValidator).

Definition base : t := mk None.

Definition encode {PB : Protobuf} (message : t) (writer : Writer) : Writer :=
  writer
  @> defined message.(proposedDisableValidator) (fun v w => w @> uint32 10 @> fork @> ProposedDisableValidator.encode v @> ldelim).

Definition decode_field {PB : Protobuf} (tag : Z) (message : t) : RM t :=
  match field_number tag with
  | 1 => v ← read_nested ProposedDisableValidator.decode;
         mret (message <| proposedDisableValidator := Some v |>)
  | _ => _ ← skipType (wire_type tag); mret message
  end.

Definition decode {PB : Protobuf} (length : option Z) : RM t :=
  decode_message length base decode_field.

Definition fromJSON (object : js) : result t :=
  proposedDisableValidator' ← field_or object "proposedDisableValidator" (to_some ProposedDisableValidator.fromJSON) None;
  Ok (mk proposedDisableValidator').

Definition toJSON (message : t) : js :=
  Obj (prop_opt "proposedDisableValidator" ProposedDisableValidator.toJSON message.(proposedDisableValidator)).

Record partial := mkPartial {
  p_proposedDisableValidator : option ProposedDisableValidator.partial;
}.

Definition fromPartial (object : partial) : t := {|
  proposedDisableValidator := ProposedDisableValidator.fromPartial <$> object.(p_proposedDisableValidator);
|}.

(** The object with no property given. *)
Definition nothing : partial := mkPartial None.

(** The bytes [encode] writes. *)
Definition wire {PB : Protobuf} {PS : ProtobufSpec PB} (m : t) : bytes :=
  f_message 10 ProposedDisableValidator.wire m.(proposedDisableValidator).

Definition valid (m : t) : Prop :=
  from_option ProposedDisableValidator.valid True m.(proposedDisableValidator).

Definition encodable {PB : Protobuf} {PS : ProtobufSpec PB} (m : t) : Prop :=
  valid m ∧ small (wire m).

Definition merge (m a : t) : t := {|
  proposedDisableValidator := later_message m.(proposedDisableValidator) a.(proposedDisableValidator);
|}.

(** A whole message seen as a partial one. *)
Definition full (m : t) : partial := {|
  p_proposedDisableValidator := ProposedDisableValidator.full <$> m.(proposedDisableValidator);
|}.

(** The message as its [.proto] file declares it. *)
Definition schema (m : t) : list field :=
  [singular 1 Optional (message_value ProposedDisableValidator.schema) m.(proposedDisableValidator)].

(** The message with its default for every property that is not kept. *)
Definition only (kept : string → bool) (m : t) : t := {|
  proposedDisableValidator := if kept "proposedDisableValidator" then m.(proposedDisableValidator) else None;
|}.

#[global] Instance codec {PB : Protobuf} : MessageCodec t :=
  {| msg_base := base; msg_encode := encode; msg_field := decode_field |}.

#[global] Program Instance spec {PB : Protobuf} (PS : ProtobufSpec PB) : MessageSpec PS t :=
  {| msg_wire := wire; msg_valid := valid; msg_merge := merge |}.
Next Obligation. solve_encode_wire. Qed.
Next Obligation. solve_decode_wire. Qed.
Next Obligation. solve_merge_base. Qed.
Next Obligation. intros. solve_advances decode_field. Qed.

#[global] Program Instance data : MessageData t partial :=
  {| msg_fromJSON := fromJSON; msg_toJSON := toJSON;
     msg_fromPartial := fromPartial; msg_full := full |}.
Next Obligation. solve_json fromJSON toJSON. Qed.
Next Obligation. solve_partial fromPartial full. Qed.

#[global] Instance schema_wire {PB : Protobuf} {PS : ProtobufSpec PB} : WireSchema wire schema.
Proof. solve_schema_wire wire schema. Qed.

#[global] Instance schema_merge : MergeSchema merge schema.
Proof. solve_schema_merge merge schema. Qed.

(** Its row in the table of message types. *)
Definition message {PB : Protobuf} {PS : ProtobufSpec PB} : message_type :=
  plain_message "QueryGetProposedDisableValidatorResponse" nothing true schema only.

#[global] Instance message_lawful {PB : Protobuf} (PS : ProtobufSpec PB) : Lawful message.
Proof. solve_lawful decode_field fromJSON only. Qed.

End QueryGetProposedDisableValidatorResponse.

(** ** [QueryAllProposedDisableValidatorRequest] (validator/query.js) *)

Module QueryAllProposedDisableValidatorRequest.

Record t := mk {
  pagination : option PageRequest.t;
}.

#[global] Instance t_eta : Settable t := λ m, mk m.(pagination).

Definition base : t := mk None.

Definition encode {PB : Protobuf} (message : t) (writer : Writer) : result Writer :=
  Ok writer
  @>= defined_e message.(pagination) (submessage 10 PageRequest.encode).

Definition decode_field {PB : Protobuf} (tag : Z) (message : t) : RM t :=
  match field_number tag with
  | 1 => v ← read_nested PageRequest.decode; mret (message <| pagination := Some v |>)
  | _ => _ ← skipType (wire_type tag); mret message
  end.

Definition decode {PB : Protobuf} (length : option Z) : RM t :=
  decode_message length base decode_field.

Definition fromJSON (object : js) : result t :=
  pagination' ← field_or object "pagination" (to_some PageRequest.fromJSON) None;
  Ok (mk pagination').

Definition toJSON (message : t) : js :=
  Obj (prop_opt "pagination" PageRequest.toJSON message.(pagination)).

Record partial := mkPartial {
  p_pagination : option PageRequest.partial;
}.

Definition fromPartial (object : partial) : t := {|
  pagination := PageRequest.fromPartial <$> object.(p_pagination);
|}.

(** The object with no property given. *)
Definition nothing : partial := mkPartial None.

(** The bytes [encode] writes. *)
Definition wire {PB : Protobuf} {PS : ProtobufSpec PB} (m : t) : bytes :=
  f_message 10 PageRequest.wire m.(pagination).

Definition valid (m : t) : Prop :=
  from_option PageRequest.valid True m.(pagination).

(** The byte fields hold arrays, as the interface declares. *)
Definition typed (m : t) : bool := from_option PageRequest.typed true m.(pagination).

(** The message without its empty byte arrays. *)
Definition normal (m : t) : t := {|
  pagination := PageRequest.normal <$> m.(pagination);
|}.

Definition encodable {PB : Protobuf} {PS : ProtobufSpec PB} (m : t) : Prop :=
  typed m = true ∧ valid m ∧ small (wire m).

Definition merge (m a : t) : t := {|
  pagination := later_message m.(pagination) (PageRequest.normal <$> a.(pagination));
|}.

(** A whole message seen as a partial one. *)
Definition full (m : t) : partial := {|
  p_pagination := PageRequest.full <$> m.(pagination);
|}.

(** The message as its [.proto] file declares it. *)
Definition schema (m : t) : list field :=
  [singular 1 Optional (message_value PageRequest.schema) m.(pagination)].

(** The message with its default for every property that is not kept. *)
Definition only (kept : string → bool) (m : t) : t := {|
  pagination := if kept "pagination" then m.(pagination) else None;
|}.

#[global] Instance codec {PB : Protobuf} : FallibleCodec t :=
  {| fmsg_base := base; fmsg_encode := encode; fmsg_field := decode_field |}.

#[global] Program Instance spec {PB : Protobuf} (PS : ProtobufSpec PB) : FallibleSpec PS t :=
  {| fmsg_wire := wire; fmsg_valid := valid; fmsg_typed := typed; fmsg_normal := normal;
     fmsg_merge := merge |}.
Next Obligation. solve_fencode_wire. Qed.
Next Obligation. intros. solve_fencode_throws encode typed. Qed.
Next Obligation. solve_fdecode_wire. Qed.
Next Obligation. solve_fmerge_base. Qed.
Next Obligation. intros. solve_fadvances decode_field. Qed.

#[global] Program Instance given_ : FalliblePartial t partial :=
  {| fmsg_fromPartial := fromPartial; fmsg_full := full; fmsg_given := typed |}.
Next Obligation. solve_fgiven fromPartial typed. Qed.
Next Obligation. solve_fpartial fromPartial full typed. Qed.

#[global] Program Instance json : FallibleJson t :=
  {| fmsg_fromJSON := fromJSON; fmsg_toJSON := toJSON;
     fmsg_named := fun _ => true; fmsg_known := fun m => m |}.
Next Obligation. solve_fjson fromJSON toJSON. Qed.
Next Obligation. reflexivity. Qed.

#[global] Instance schema_wire {PB : Protobuf} {PS : ProtobufSpec PB} : WireSchema wire schema.
Proof. solve_schema_wire wire schema. Qed.

#[global] Instance schema_normal : NormalSchema normal schema.
Proof. solve_schema_normal normal schema. Qed.

#[global] Instance schema_merge : MergeSchema merge schema.
Proof. solve_schema_merge merge schema. Qed.

(** Its row in the table of message types. *)
Definition message {PB : Protobuf} {PS : ProtobufSpec PB} : message_type :=
  fallible_message "QueryAllProposedDisableValidatorRequest" nothing true schema only.

#[global] Instance message_lawful {PB : Protobuf} (PS : ProtobufSpec PB) : Lawful message.
Proof. solve_lawful decode_field fromJSON only. Qed.

End QueryAllProposedDisableValidatorRequest.

(** ** [QueryAllProposedDisableValidatorResponse] (validator/query.js) *)

Module QueryAllProposedDisableValidatorResponse.

Record t := mk {
  proposedDisableValidator : list ProposedDisableValidator.t;
  pagination : option PageResponse.t;
}.

#[global] Instance t_eta : Settable t := λ m, mk m.(proposedDisableValidator) m.(pagination).

Definition base : t := mk [] None.

Definition encode {PB : Protobuf} (message : t) (writer : Writer) : result Writer :=
  Ok writer
  @>= pure (each message.(proposedDisableValidator) (fun v w => w @> uint32 10 @> fork @> ProposedDisableValidator.encode v @> ldelim))
  @>= defined_e message.(pagination) (submessage 18 PageResponse.encode).

Definition decode_field {PB : Protobuf} (tag : Z) (message : t) : RM t :=
  match field_number tag with
  | 1 => v ← read_nested ProposedDisableValidator.decode;
         mret (message <| proposedDisableValidator := message.(proposedDisableValidator) ++ [v] |>)
  | 2 => v ← read_nested PageResponse.decode; mret (message <| pagination := Some v |>)
  | _ => _ ← skipType (wire_type tag); mret message
  end.

Definition decode {PB : Protobuf} (length : option Z) : RM t :=
  decode_message length base decode_field.

Definition fromJSON (object : js) : result t :=
  proposedDisableValidator' ← field_or object "proposedDisableValidator" (to_list ProposedDisableValidator.fromJSON) [];
  pagination' ← field_or object "pagination" (to_some PageResponse.fromJSON) None;
  Ok (mk proposedDisableValidator' pagination').

Definition toJSON (message : t) : js :=
  Obj ([("proposedDisableValidator", Arr (map ProposedDisableValidator.toJSON message.(proposedDisableValidator)))] ++
   prop_opt "pagination" PageResponse.toJSON message.(pagination)).

Record partial := mkPartial {
  p_proposedDisableValidator : option (list ProposedDisableValidator.partial);
  p_pagination : option PageResponse.partial;
}.

Definition fromPartial (object : partial) : t := {|
  proposedDisableValidator := map ProposedDisableValidator.fromPartial (object.(p_proposedDisableValidator) ?? []);
  pagination := PageResponse.fromPartial <$> object.(p_pagination);
|}.

(** The object with no property given. *)
Definition nothing : partial := mkPartial None None.

(** The bytes [encode] writes. *)
Definition wire {PB : Protobuf} {PS : ProtobufSpec PB} (m : t) : bytes :=
  f_repeated 10 ProposedDisableValidator.wire m.(proposedDisableValidator) ++
  f_message 18 PageResponse.wire m.(pagination).

Definition valid (m : t) : Prop :=
  Forall ProposedDisableValidator.valid m.(proposedDisableValidator) ∧ from_option PageResponse.valid True m.(pagination).

(** The byte fields hold arrays, as the interface declares. *)
Definition typed (m : t) : bool := from_option PageResponse.typed true m.(pagination).

(** The message without its empty byte arrays. *)
Definition normal (m : t) : t := {|
  proposedDisableValidator := m.(proposedDisableValidator);
  pagination := PageResponse.normal <$> m.(pagination);
|}.

Definition encodable {PB : Protobuf} {PS : ProtobufSpec PB} (m : t) : Prop :=
  typed m = true ∧ valid m ∧ small (wire m).

Definition merge (m a : t) : t := {|
  proposedDisableValidator := m.(proposedDisableValidator) ++ a.(proposedDisableValidator);
  pagination := later_message m.(pagination) (PageResponse.normal <$> a.(pagination));
|}.

(** A whole message seen as a partial one. *)
Definition full (m : t) : partial := {|
  p_proposedDisableValidator := Some (map ProposedDisableValidator.full m.(proposedDisableValidator));
  p_pagination := PageResponse.full <$> m.(pagination);
|}.

(** The message as its [.proto] file declares it. *)
Definition schema (m : t) : list field :=
  [repeated 1 (message_value ProposedDisableValidator.schema) m.(proposedDisableValidator);
   singular 2 Optional (message_value PageResponse.schema) m.(pagination)].

(** The message with its default for every property that is not kept. *)
Definition only (kept : string → bool) (m : t) : t := {|
  proposedDisableValidator := if kept "proposedDisableValidator" then m.(proposedDisableValidator) else [];
  pagination := if kept "pagination" then m.(pagination) else None;
|}.

#[global] Instance codec {PB : Protobuf} : FallibleCodec t :=
  {| fmsg_base := base; fmsg_encode := encode; fmsg_field := decode_field |}.

#[global] Program Instance spec {PB : Protobuf} (PS : ProtobufSpec PB) : FallibleSpec PS t :=
  {| fmsg_wire := wire; fmsg_valid := valid; fmsg_typed := typed; fmsg_normal := normal;
     fmsg_merge := merge |}.
Next Obligation. solve_fencode_wire. Qed.
Next Obligation. intros. solve_fencode_throws encode typed. Qed.
Next Obligation. solve_fdecode_wire. Qed.
Next Obligation. solve_fmerge_base. Qed.
Next Obligation. intros. solve_fadvances decode_field. Qed.

#[global] Program Instance given_ : FalliblePartial t partial :=
  {| fmsg_fromPartial := fromPartial; fmsg_full := full; fmsg_given := typed |}.
Next Obligation. solve_fgiven fromPartial typed. Qed.
Next Obligation. solve_fpartial fromPartial full typed. Qed.

#[global] Program Instance json : FallibleJson t :=
  {| fmsg_fromJSON := fromJSON; fmsg_toJSON := toJSON;
     fmsg_named := fun _ => true; fmsg_known := fun m => m |}.
Next Obligation. solve_fjson fromJSON toJSON. Qed.
Next Obligation. reflexivity. Qed.

#[global] Instance schema_wire {PB : Protobuf} {PS : ProtobufSpec PB} : WireSchema wire schema.
Proof. solve_schema_wire wire schema. Qed.

#[global] Instance schema_normal : NormalSchema normal schema.
Proof. solve_schema_normal normal schema. Qed.

#[global] Instance schema_merge : MergeSchema merge schema.
Proof. solve_schema_merge merge schema. Qed.

(** Its row in the table of message types. *)
Definition message {PB : Protobuf} {PS : ProtobufSpec PB} : message_type :=
  fallible_message "QueryAllProposedDisableValidatorResponse" nothing true schema only.

#[global] Instance message_lawful {PB : Protobuf} (PS : ProtobufSpec PB) : Lawful message.
Proof. solve_lawful decode_field fromJSON only. Qed.

End QueryAllProposedDisableValidatorResponse.

(** ** [QueryGetDisabledValidatorRequest] (validator/query.js) *)

Module QueryGetDisabledValidatorRequest.

Record t := mk {
  address : string;
}.

#[global] Instance t_eta : Settable t := λ m, mk m.(address).

Definition base : t := mk "".

Definition encode {PB : Protobuf} (message : t) (writer : Writer) : Writer :=
  writer
  @> when (str_neq message.(address) "") (fun w => w @> uint32 10 @> string_ message.(address)).

Definition decode_field {PB : Protobuf} (tag : Z) (message : t) : RM t :=
  match field_number tag with
  | 1 => v ← read_string; mret (message <| address := v |>)
  | _ => _ ← skipType (wire_type tag); mret message
  end.

Definition decode {PB : Protobuf} (length : option Z) : RM t :=
  decode_message length base decode_field.

Definition fromJSON (object : js) : result t :=
  address' ← field_or object "address" to_string "";
  Ok (mk address').

Definition toJSON (message : t) : js :=
  Obj ([("address", Str message.(address))]).

Record partial := mkPartial {
  p_address : option string;
}.

Definition fromPartial (object : partial) : t := {|
  address := object.(p_address) ?? "";
|}.

(** The object with no property given. *)
Definition nothing : partial := mkPartial None.

(** The bytes [encode] writes. *)
Definition wire {PB : Protobuf} {PS : ProtobufSpec PB} (m : t) : bytes :=
  f_string 10 m.(address).

Definition valid (m : t) : Prop :=
  True.

Definition encodable {PB : Protobuf} {PS : ProtobufSpec PB} (m : t) : Prop :=
  valid m ∧ small (wire m).

Definition merge (m a : t) : t := {|
  address := later_string m.(address) a.(address);
|}.

(** A whole message seen as a partial one. *)
Definition full (m : t) : partial := {|
  p_address := Some m.(address);
|}.

(** The message as its [.proto] file declares it. *)
Definition schema (m : t) : list field :=
  [implicit 1 (VString m.(address))].

(** The message with its default for every property that is not kept. *)
Definition only (kept : string → bool) (m : t) : t := {|
  address := if kept "address" then m.(address) else "";
|}.

#[global] Instance codec {PB : Protobuf} : MessageCodec t :=
  {| msg_base := base; msg_encode := encode; msg_field := decode_field |}.

#[global] Program Instance spec {PB : Protobuf} (PS : ProtobufSpec PB) : MessageSpec PS t :=
  {| msg_wire := wire; msg_valid := valid; msg_merge := merge |}.
Next Obligation. solve_encode_wire. Qed.
Next Obligation. solve_decode_wire. Qed.
Next Obligation. solve_merge_base. Qed.
Next Obligation. intros. solve_advances decode_field. Qed.

#[global] Program Instance data : MessageData t partial :=
  {| msg_fromJSON := fromJSON; msg_toJSON := toJSON;
     msg_fromPartial := fromPartial; msg_full := full |}.
Next Obligation. solve_json fromJSON toJSON. Qed.
Next Obligation. solve_partial fromPartial full. Qed.

#[global] Instance schema_wire {PB : Protobuf} {PS : ProtobufSpec PB} : WireSchema wire schema.
Proof. solve_schema_wire wire schema. Qed.

#[global] Instance schema_merge : MergeSchema merge schema.
Proof. solve_schema_merge merge schema. Qed.

(** Its row in the table of message types. *)
Definition message {PB : Protobuf} {PS : ProtobufSpec PB} : message_type :=
  plain_message "QueryGetDisabledValidatorRequest" nothing true schema only.

#[global] Instance message_lawful {PB : Protobuf} (PS : ProtobufSpec PB) : Lawful message.
Proof. solve_lawful decode_field fromJSON only. Qed.

End QueryGetDisabledValidatorRequest.

(** ** [QueryGetDisabledValidatorResponse] (validator/query.js) *)

Module QueryGetDisabledValidatorResponse.

Record t := mk {
  disabledValidator : option DisabledValidator.t;
}.

#[global] Instance t_eta : Settable t := λ m, mk m.(disabledValidator).

Definition base : t := mk None.

Definition encode {PB : Protobuf} (message : t) (writer : Writer) : Writer :=
  writer
  @> defined message.(disabledValidator) (fun v w => w @> uint32 10 @> fork @> DisabledValidator.encode v @> ldelim).

Definition decode_field {PB : Protobuf} (tag : Z) (message : t) : RM t :=
  match field_number tag with
  | 1 => v ← read_nested DisabledValidator.decode; mret (message <| disabledValidator := Some v |>)
  | _ => _ ← skipType (wire_type tag); mret message
  end.

Definition decode {PB : Protobuf} (length : option Z) : RM t :=
  decode_message length base decode_field.

Definition fromJSON (object : js) : result t :=
  disabledValidator' ← field_or object "disabledValidator" (to_some DisabledValidator.fromJSON) None;
  Ok (mk disabledValidator').

Definition toJSON (message : t) : js :=
  Obj (prop_opt "disabledValidator" DisabledValidator.toJSON message.(disabledValidator)).

Record partial := mkPartial {
  p_disabledValidator : option DisabledValidator.partial;
}.

Definition fromPartial (object : partial) : t := {|
  disabledValidator := DisabledValidator.fromPartial <$> object.(p_disabledValidator);
|}.

(** The object with no property given. *)
Definition nothing : partial := mkPartial None.

(** The bytes [encode] writes. *)
Definition wire {PB : Protobuf} {PS : ProtobufSpec PB} (m : t) : bytes :=
  f_message 10 DisabledValidator.wire m.(disabledValidator).

Definition valid (m : t) : Prop :=
  from_option DisabledValidator.valid True m.(disabledValidator).

Definition encodable {PB : Protobuf} {PS : ProtobufSpec PB} (m : t) : Prop :=
  valid m ∧ small (wire m).

Definition merge (m a : t) : t := {|
  disabledValidator := later_message m.(disabledValidator) a.(disabledValidator);
|}.

(** A whole message seen as a partial one. *)
Definition full (m : t) : partial := {|
  p_disabledValidator := DisabledValidator.full <$> m.(disabledValidator);
|}.

(** The message as its [.proto] file declares it. *)
Definition schema (m : t) : list field :=
  [singular 1 Optional (message_value DisabledValidator.schema) m.(disabledValidator)].

(** The message with its default for every property that is not kept. *)
Definition only (kept : string → bool) (m : t) : t := {|
  disabledValidator := if kept "disabledValidator" then m.(disabledValidator) else None;
|}.

#[global] Instance codec {PB : Protobuf} : MessageCodec t :=
  {| msg_base := base; msg_encode := encode; msg_field := decode_field |}.

#[global] Program Instance spec {PB : Protobuf} (PS : ProtobufSpec PB) : MessageSpec PS t :=
  {| msg_wire := wire; msg_valid := valid; msg_merge := merge |}.
Next Obligation. solve_encode_wire. Qed.
Next Obligation. solve_decode_wire. Qed.
Next Obligation. solve_merge_base. Qed.
Next Obligation. intros. solve_advances decode_field. Qed.

#[global] Program Instance data : MessageData t partial :=
  {| msg_fromJSON := fromJSON; msg_toJSON := toJSON;
     msg_fromPartial := fromPartial; msg_full := full |}.
Next Obligation. solve_json fromJSON toJSON. Qed.
Next Obligation. solve_partial fromPartial full. Qed.

#[global] Instance schema_wire {PB : Protobuf} {PS : ProtobufSpec PB} : WireSchema wire schema.
Proof. solve_schema_wire wire schema. Qed.

#[global] Instance schema_merge : MergeSchema merge schema.
Proof. solve_schema_merge merge schema. Qed.

(** Its row in the table of message types. *)
Definition message {PB : Protobuf} {PS : ProtobufSpec PB} : message_type :=
  plain_message "QueryGetDisabledValidatorResponse" nothing true schema only.

#[global] Instance message_lawful {PB : Protobuf} (PS : ProtobufSpec PB) : Lawful message.
Proof. solve_lawful decode_field fromJSON only. Qed.

End QueryGetDisabledValidatorResponse.

(** ** [QueryAllDisabledValidatorRequest] (validator/query.js) *)

Module QueryAllDisabledValidatorRequest.

Record t := mk {
  pagination : option PageRequest.t;
}.

#[global] Instance t_eta : Settable t := λ m, mk m.(pagination).

Definition base : t := mk None.

Definition encode {PB : Protobuf} (message : t) (writer : Writer) : result Writer :=
  Ok writer
  @>= defined_e message.(pagination) (submessage 10 PageRequest.encode).

Definition decode_field {PB : Protobuf} (tag : Z) (message : t) : RM t :=
  match field_number tag with
  | 1 => v ← read_nested PageRequest.decode; mret (message <| pagination := Some v |>)
  | _ => _ ← skipType (wire_type tag); mret message
  end.

Definition decode {PB : Protobuf} (length : option Z) : RM t :=
  decode_message length base decode_field.

Definition fromJSON (object : js) : result t :=
  pagination' ← field_or object "pagination" (to_some PageRequest.fromJSON) None;
  Ok (mk pagination').

Definition toJSON (message : t) : js :=
  Obj (prop_opt "pagination" PageRequest.toJSON message.(pagination)).

Record partial := mkPartial {
  p_pagination : option PageRequest.partial;
}.

Definition fromPartial (object : partial) : t := {|
  pagination := PageRequest.fromPartial <$> object.(p_pagination);
|}.

(** The object with no property given. *)
Definition nothing : partial := mkPartial None.

(** The bytes [encode] writes. *)
Definition wire {PB : Protobuf} {PS : ProtobufSpec PB} (m : t) : bytes :=
  f_message 10 PageRequest.wire m.(pagination).

Definition valid (m : t) : Prop :=
  from_option PageRequest.valid True m.(pagination).

(** The byte fields hold arrays, as the interface declares. *)
Definition typed (m : t) : bool := from_option PageRequest.typed true m.(pagination).

(** The message without its empty byte arrays. *)
Definition normal (m : t) : t := {|
  pagination := PageRequest.normal <$> m.(pagination);
|}.

Definition encodable {PB : Protobuf} {PS : ProtobufSpec PB} (m : t) : Prop :=
  typed m = true ∧ valid m ∧ small (wire m).

Definition merge (m a : t) : t := {|
  pagination := later_message m.(pagination) (PageRequest.normal <$> a.(pagination));
|}.

(** A whole message seen as a partial one. *)
Definition full (m : t) : partial := {|
  p_pagination := PageRequest.full <$> m.(pagination);
|}.

(** The message as its [.proto] file declares it. *)
Definition schema (m : t) : list field :=
  [singular 1 Optional (message_value PageRequest.schema) m.(pagination)].

(** The message with its default for every property that is not kept. *)
Definition only (kept : string → bool) (m : t) : t := {|
  pagination := if kept "pagination" then m.(pagination) else None;
|}.

#[global] Instance codec {PB : Protobuf} : FallibleCodec t :=
  {| fmsg_base := base; fmsg_encode := encode; fmsg_field := decode_field |}.

#[global] Program Instance spec {PB : Protobuf} (PS : ProtobufSpec PB) : FallibleSpec PS t :=
  {| fmsg_wire := wire; fmsg_valid := valid; fmsg_typed := typed; fmsg_normal := normal;
     fmsg_merge := merge |}.
Next Obligation. solve_fencode_wire. Qed.
Next Obligation. intros. solve_fencode_throws encode typed. Qed.
Next Obligation. solve_fdecode_wire. Qed.
Next Obligation. solve_fmerge_base. Qed.
Next Obligation. intros. solve_fadvances decode_field. Qed.

#[global] Program Instance given_ : FalliblePartial t partial :=
  {| fmsg_fromPartial := fromPartial; fmsg_full := full; fmsg_given := typed |}.
Next Obligation. solve_fgiven fromPartial typed. Qed.
Next Obligation. solve_fpartial fromPartial full typed. Qed.

#[global] Program Instance json : FallibleJson t :=
  {| fmsg_fromJSON := fromJSON; fmsg_toJSON := toJSON;
     fmsg_named := fun _ => true; fmsg_known := fun m => m |}.
Next Obligation. solve_fjson fromJSON toJSON. Qed.
Next Obligation. reflexivity. Qed.

#[global] Instance schema_wire {PB : Protobuf} {PS : ProtobufSpec PB} : WireSchema wire schema.
Proof. solve_schema_wire wire schema. Qed.

#[global] Instance schema_normal : NormalSchema normal schema.
Proof. solve_schema_normal normal schema. Qed.

#[global] Instance schema_merge : MergeSchema merge schema.
Proof. solve_schema_merge merge schema. Qed.

(** Its row in the table of message types. *)
Definition message {PB : Protobuf} {PS : ProtobufSpec PB} : message_type :=
  fallible_message "QueryAllDisabledValidatorRequest" nothing true schema only.

#[global] Instance message_lawful {PB : Protobuf} (PS : ProtobufSpec PB) : Lawful message.
Proof. solve_lawful decode_field fromJSON only. Qed.

End QueryAllDisabledValidatorRequest.

(** ** [QueryAllDisabledValidatorResponse] (validator/query.js) *)

Module QueryAllDisabledValidatorResponse.

Record t := mk {
  disabledValidator : list DisabledValidator.t;
  pagination : option PageResponse.t;
}.

#[global] Instance t_eta : Settable t := λ m, mk m.(disabledValidator) m.(pagination).

Definition base : t := mk [] None.

Definition encode {PB : Protobuf} (message : t) (writer : Writer) : result Writer :=
  Ok writer
  @>= pure (each message.(disabledValidator) (fun v w => w @> uint32 10 @> fork @> DisabledValidator.encode v @> ldelim))
  @>= defined_e message.(pagination) (submessage 18 PageResponse.encode).

Definition decode_field {PB : Protobuf} (tag : Z) (message : t) : RM t :=
  match field_number tag with
  | 1 => v ← read_nested DisabledValidator.decode;
         mret (message <| disabledValidator := message.(disabledValidator) ++ [v] |>)
  | 2 => v ← read_nested PageResponse.decode; mret (message <| pagination := Some v |>)
  | _ => _ ← skipType (wire_type tag); mret message
  end.

Definition decode {PB : Protobuf} (length : option Z) : RM t :=
  decode_message length base decode_field.

Definition fromJSON (object : js) : result t :=
  disabledValidator' ← field_or object "disabledValidator" (to_list DisabledValidator.fromJSON) [];
  pagination' ← field_or object "pagination" (to_some PageResponse.fromJSON) None;
  Ok (mk disabledValidator' pagination').

Definition toJSON (message : t) : js :=
  Obj ([("disabledValidator", Arr (map DisabledValidator.toJSON message.(disabledValidator)))] ++
   prop_opt "pagination" PageResponse.toJSON message.(pagination)).

Record partial := mkPartial {
  p_disabledValidator : option (list DisabledValidator.partial);
  p_pagination : option PageResponse.partial;
}.

Definition fromPartial (object : partial) : t := {|
  disabledValidator := map DisabledValidator.fromPartial (object.(p_disabledValidator) ?? []);
  pagination := PageResponse.fromPartial <$> object.(p_pagination);
|}.

(** The object with no property given. *)
Definition nothing : partial := mkPartial None None.

(** The bytes [encode] writes. *)
Definition wire {PB : Protobuf} {PS : ProtobufSpec PB} (m : t) : bytes :=
  f_repeated 10 DisabledValidator.wire m.(disabledValidator) ++
  f_message 18 PageResponse.wire m.(pagination).

Definition valid (m : t) : Prop :=
  Forall DisabledValidator.valid m.(disabledValidator) ∧ from_option PageResponse.valid True m.(pagination).

(** The byte fields hold arrays, as the interface declares. *)
Definition typed (m : t) : bool := from_option PageResponse.typed true m.(pagination).

(** The message without its empty byte arrays. *)
Definition normal (m : t) : t := {|
  disabledValidator := m.(disabledValidator);
  pagination := PageResponse.normal <$> m.(pagination);
|}.

Definition encodable {PB : Protobuf} {PS : ProtobufSpec PB} (m : t) : Prop :=
  typed m = true ∧ valid m ∧ small (wire m).

Definition merge (m a : t) : t := {|
  disabledValidator := m.(disabledValidator) ++ a.(disabledValidator);
  pagination := later_message m.(pagination) (PageResponse.normal <$> a.(pagination));
|}.

(** A whole message seen as a partial one. *)
Definition full (m : t) : partial := {|
  p_disabledValidator := Some (map DisabledValidator.full m.(disabledValidator));
  p_pagination := PageResponse.full <$> m.(pagination);
|}.

(** The message as its [.proto] file declares it. *)
Definition schema (m : t) : list field :=
  [repeated 1 (message_value DisabledValidator.schema) m.(disabledValidator);
   singular 2 Optional (message_value PageResponse.schema) m.(pagination)].

(** The message with its default for every property that is not kept. *)
Definition only (kept : string → bool) (m : t) : t := {|
  disabledValidator := if kept "disabledValidator" then m.(disabledValidator) else [];
  pagination := if kept "pagination" then m.(pagination) else None;
|}.

#[global] Instance codec {PB : Protobuf} : FallibleCodec t :=
  {| fmsg_base := base; fmsg_encode := encode; fmsg_field := decode_field |}.

#[global] Program Instance spec {PB : Protobuf} (PS : ProtobufSpec PB) : FallibleSpec PS t :=
  {| fmsg_wire := wire; fmsg_valid := valid; fmsg_typed := typed; fmsg_normal := normal;
     fmsg_merge := merge |}.
Next Obligation. solve_fencode_wire. Qed.
Next Obligation. intros. solve_fencode_throws encode typed. Qed.
Next Obligation. solve_fdecode_wire. Qed.
Next Obligation. solve_fmerge_base. Qed.
Next Obligation. intros. solve_fadvances decode_field. Qed.

#[global] Program Instance given_ : FalliblePartial t partial :=
  {| fmsg_fromPartial := fromPartial; fmsg_full := full; fmsg_given := typed |}.
Next Obligation. solve_fgiven fromPartial typed. Qed.
Next Obligation. solve_fpartial fromPartial full typed. Qed.

#[global] Program Instance json : FallibleJson t :=
  {| fmsg_fromJSON := fromJSON; fmsg_toJSON := toJSON;
     fmsg_named := fun _ => true; fmsg_known := fun m => m |}.
Next Obligation. solve_fjson fromJSON toJSON. Qed.
Next Obligation. reflexivity. Qed.

#[global] Instance schema_wire {PB : Protobuf} {PS : ProtobufSpec PB} : WireSchema wire schema.
Proof. solve_schema_wire wire schema. Qed.

#[global] Instance schema_normal : NormalSchema normal schema.
Proof. solve_schema_normal normal schema. Qed.

#[global] Instance schema_merge : MergeSchema merge schema.
Proof. solve_schema_merge merge schema. Qed.

(** Its row in the table of message types. *)
Definition message {PB : Protobuf} {PS : ProtobufSpec PB} : message_type :=
  fallible_message "QueryAllDisabledValidatorResponse" nothing true schema only.

#[global] Instance message_lawful {PB : Protobuf} (PS : ProtobufSpec PB) : Lawful message.
Proof. solve_lawful decode_field fromJSON only. Qed.

End QueryAllDisabledValidatorResponse.

(** ** [QueryGetRejectedDisableValidatorRequest] (validator/query.js) *)

Module QueryGetRejectedDisableValidatorRequest.

Record t := mk {
  owner : string;
}.

#[global] Instance t_eta : Settable t := λ m, mk m.(owner).

Definition base : t := mk "".

Definition encode {PB : Protobuf} (message : t) (writer : Writer) : Writer :=
  writer
  @> when (str_neq message.(owner) "") (fun w => w @> uint32 10 @> string_ message.(owner)).

Definition decode_field {PB : Protobuf} (tag : Z) (message : t) : RM t :=
  match field_number tag with
  | 1 => v ← read_string; mret (message <| owner := v |>)
  | _ => _ ← skipType (wire_type tag); mret message
  end.

Definition decode {PB : Protobuf} (length : option Z) : RM t :=
  decode_message length base decode_field.

Definition fromJSON (object : js) : result t :=
  owner' ← field_or object "owner" to_string "";
  Ok (mk owner').

Definition toJSON (message : t) : js :=
  Obj ([("owner", Str message.(owner))]).

Record partial := mkPartial {
  p_owner : option string;
}.

Definition fromPartial (object : partial) : t := {|
  owner := object.(p_owner) ?? "";
|}.

(** The object with no property given. *)
Definition nothing : partial := mkPartial None.

(** The bytes [encode] writes. *)
Definition wire {PB : Protobuf} {PS : ProtobufSpec PB} (m : t) : bytes :=
  f_string 10 m.(owner).

Definition valid (m : t) : Prop :=
  True.

Definition encodable {PB : Protobuf} {PS : ProtobufSpec PB} (m : t) : Prop :=
  valid m ∧ small (wire m).

Definition merge (m a : t) : t := {|
  owner := later_string m.(owner) a.(owner);
|}.

(** A whole message seen as a partial one. *)
Definition full (m : t) : partial := {|
  p_owner := Some m.(owner);
|}.

(** The message as its [.proto] file declares it. *)
Definition schema (m : t) : list field :=
  [implicit 1 (VString m.(owner))].

(** The message with its default for every property that is not kept. *)
Definition only (kept : string → bool) (m : t) : t := {|
  owner := if kept "owner" then m.(owner) else "";
|}.

#[global] Instance codec {PB : Protobuf} : MessageCodec t :=
  {| msg_base := base; msg_encode := encode; msg_field := decode_field |}.

#[global] Program Instance spec {PB : Protobuf} (PS : ProtobufSpec PB) : MessageSpec PS t :=
  {| msg_wire := wire; msg_valid := valid; msg_merge := merge |}.
Next Obligation. solve_encode_wire. Qed.
Next Obligation. solve_decode_wire. Qed.
Next Obligation. solve_merge_base. Qed.
Next Obligation. intros. solve_advances decode_field. Qed.

#[global] Program Instance data : MessageData t partial :=
  {| msg_fromJSON := fromJSON; msg_toJSON := toJSON;
     msg_fromPartial := fromPartial; msg_full := full |}.
Next Obligation. solve_json fromJSON toJSON. Qed.
Next Obligation. solve_partial fromPartial full. Qed.

#[global] Instance schema_wire {PB : Protobuf} {PS : ProtobufSpec PB} : WireSchema wire schema.
Proof. solve_schema_wire wire schema. Qed.

#[global] Instance schema_merge : MergeSchema merge schema.
Proof. solve_schema_merge merge schema. Qed.

(** Its row in the table of message types. *)
Definition message {PB : Protobuf} {PS : ProtobufSpec PB} : message_type :=
  plain_message "QueryGetRejectedDisableValidatorRequest" nothing true schema only.

#[global] Instance message_lawful {PB : Protobuf} (PS : ProtobufSpec PB) : Lawful message.
Proof. solve_lawful decode_field fromJSON only. Qed.

End QueryGetRejectedDisableValidatorRequest.

(** ** [QueryGetRejectedDisableValidatorResponse] (validator/query.js) *)

Module QueryGetRejectedDisableValidatorResponse.

Record t := mk {
  rejectedValidator : option RejectedDisableValidator.t;
}.

#[global] Instance t_eta : Settable t := λ m, mk m.(rejectedValidator).

Definition base : t := mk None.

Definition encode {PB : Protobuf} (message : t) (writer : Writer) : Writer :=
  writer
  @> defined message.(rejectedValidator) (fun v w => w @> uint32 10 @> fork @> RejectedDisableValidator.encode v @> ldelim).

Definition decode_field {PB : Protobuf} (tag : Z) (message : t) : RM t :=
  match field_number tag with
  | 1 => v ← read_nested RejectedDisableValidator.decode;
         mret (message <| rejectedValidator := Some v |>)
  | _ => _ ← skipType (wire_type tag); mret message
  end.

Definition decode {PB : Protobuf} (length : option Z) : RM t :=
  decode_message length base decode_field.

Definition fromJSON (object : js) : result t :=
  rejectedValidator' ← field_or object "rejectedValidator" (to_some RejectedDisableValidator.fromJSON) None;
  Ok (mk rejectedValidator').

Definition toJSON (message : t) : js :=
  Obj (prop_opt "rejectedValidator" RejectedDisableValidator.toJSON message.(rejectedValidator)).

Record partial := mkPartial {
  p_rejectedValidator : option RejectedDisableValidator.partial;
}.

Definition fromPartial (object : partial) : t := {|
  rejectedValidator := RejectedDisableValidator.fromPartial <$> object.(p_rejectedValidator);
|}.

(** The object with no property given. *)
Definition nothing : partial := mkPartial None.

(** The bytes [encode] writes. *)
Definition wire {PB : Protobuf} {PS : ProtobufSpec PB} (m : t) : bytes :=
  f_message 10 RejectedDisableValidator.wire m.(rejectedValidator).

Definition valid (m : t) : Prop :=
  from_option RejectedDisableValidator.valid True m.(rejectedValidator).

Definition encodable {PB : Protobuf} {PS : ProtobufSpec PB} (m : t) : Prop :=
  valid m ∧ small (wire m).

Definition merge (m a : t) : t := {|
  rejectedValidator := later_message m.(rejectedValidator) a.(rejectedValidator);
|}.

(** A whole message seen as a partial one. *)
Definition full (m : t) : partial := {|
  p_rejectedValidator := RejectedDisableValidator.full <$> m.(rejectedValidator);
|}.

(** The message as its [.proto] file declares it. *)
Definition schema (m : t) : list field :=
  [singular 1 Optional (message_value RejectedDisableValidator.schema) m.(rejectedValidator)].

(** The message with its default for every property that is not kept. *)
Definition only (kept : string → bool) (m : t) : t := {|
  rejectedValidator := if kept "rejectedValidator" then m.(rejectedValidator) else None;
|}.

#[global] Instance codec {PB : Protobuf} : MessageCodec t :=
  {| msg_base := base; msg_encode := encode; msg_field := decode_field |}.

#[global] Program Instance spec {PB : Protobuf} (PS : ProtobufSpec PB) : MessageSpec PS t :=
  {| msg_wire := wire; msg_valid := valid; msg_merge := merge |}.
Next Obligation. solve_encode_wire. Qed.
Next Obligation. solve_decode_wire. Qed.
Next Obligation. solve_merge_base. Qed.
Next Obligation. intros. solve_advances decode_field. Qed.

#[global] Program Instance data : MessageData t partial :=
  {| msg_fromJSON := fromJSON; msg_toJSON := toJSON;
     msg_fromPartial := fromPartial; msg_full := full |}.
Next Obligation. solve_json fromJSON toJSON. Qed.
Next Obligation. solve_partial fromPartial full. Qed.

#[global] Instance schema_wire {PB : Protobuf} {PS : ProtobufSpec PB} : WireSchema wire schema.
Proof. solve_schema_wire wire schema. Qed.

#[global] Instance schema_merge : MergeSchema merge schema.
Proof. solve_schema_merge merge schema. Qed.

(** Its row in the table of message types. *)
Definition message {PB : Protobuf} {PS : ProtobufSpec PB} : message_type :=
  plain_message "QueryGetRejectedDisableValidatorResponse" nothing true schema only.

#[global] Instance message_lawful {PB : Protobuf} (PS : ProtobufSpec PB) : Lawful message.
Proof. solve_lawful decode_field fromJSON only. Qed.

End QueryGetRejectedDisableValidatorResponse.

(** ** [QueryAllRejectedDisableValidatorRequest] (validator/query.js) *)

Module QueryAllRejectedDisableValidatorRequest.

Record t := mk {
  pagination : option PageRequest.t;
}.

#[global] Instance t_eta : Settable t := λ m, mk m.(pagination).

Definition base : t := mk None.

Definition encode {PB : Protobuf} (message : t) (writer : Writer) : result Writer :=
  Ok writer
  @>= defined_e message.(pagination) (submessage 10 PageRequest.encode).

Definition decode_field {PB : Protobuf} (tag : Z) (message : t) : RM t :=
  match field_number tag with
  | 1 => v ← read_nested PageRequest.decode; mret (message <| pagination := Some v |>)
  | _ => _ ← skipType (wire_type tag); mret message
  end.

Definition decode {PB : Protobuf} (length : option Z) : RM t :=
  decode_message length base decode_field.

Definition fromJSON (object : js) : result t :=
  pagination' ← field_or object "pagination" (to_some PageRequest.fromJSON) None;
  Ok (mk pagination').

Definition toJSON (message : t) : js :=
  Obj (prop_opt "pagination" PageRequest.toJSON message.(pagination)).

Record partial := mkPartial {
  p_pagination : option PageRequest.partial;
}.

Definition fromPartial (object : partial) : t := {|
  pagination := PageRequest.fromPartial <$> object.(p_pagination);
|}.

(** The object with no property given. *)
Definition nothing : partial := mkPartial None.

(** The bytes [encode] writes. *)
Definition wire {PB : Protobuf} {PS : ProtobufSpec PB} (m : t) : bytes :=
  f_message 10 PageRequest.wire m.(pagination).

Definition valid (m : t) : Prop :=
  from_option PageRequest.valid True m.(pagination).

(** The byte fields hold arrays, as the interface declares. *)
Definition typed (m : t) : bool := from_option PageRequest.typed true m.(pagination).

(** The message without its empty byte arrays. *)
Definition normal (m : t) : t := {|
  pagination := PageRequest.normal <$> m.(pagination);
|}.

Definition encodable {PB : Protobuf} {PS : ProtobufSpec PB} (m : t) : Prop :=
  typed m = true ∧ valid m ∧ small (wire m).

Definition merge (m a : t) : t := {|
  pagination := later_message m.(pagination) (PageRequest.normal <$> a.(pagination));
|}.

(** A whole message seen as a partial one. *)
Definition full (m : t) : partial := {|
  p_pagination := PageRequest.full <$> m.(pagination);
|}.

(** The message as its [.proto] file declares it. *)
Definition schema (m : t) : list field :=
  [singular 1 Optional (message_value PageRequest.schema) m.(pagination)].

(** The message with its default for every property that is not kept. *)
Definition only (kept : string → bool) (m : t) : t := {|
  pagination := if kept "pagination" then m.(pagination) else None;
|}.

#[global] Instance codec {PB : Protobuf} : FallibleCodec t :=
  {| fmsg_base := base; fmsg_encode := encode; fmsg_field := decode_field |}.

#[global] Program Instance spec {PB : Protobuf} (PS : ProtobufSpec PB) : FallibleSpec PS t :=
  {| fmsg_wire := wire; fmsg_valid := valid; fmsg_typed := typed; fmsg_normal := normal;
     fmsg_merge := merge |}.
Next Obligation. solve_fencode_wire. Qed.
Next Obligation. intros. solve_fencode_throws encode typed. Qed.
Next Obligation. solve_fdecode_wire. Qed.
Next Obligation. solve_fmerge_base. Qed.
Next Obligation. intros. solve_fadvances decode_field. Qed.

#[global] Program Instance given_ : FalliblePartial t partial :=
  {| fmsg_fromPartial := fromPartial; fmsg_full := full; fmsg_given := typed |}.
Next Obligation. solve_fgiven fromPartial typed. Qed.
Next Obligation. solve_fpartial fromPartial full typed. Qed.

#[global] Program Instance json : FallibleJson t :=
  {| fmsg_fromJSON := fromJSON; fmsg_toJSON := toJSON;
     fmsg_named := fun _ => true; fmsg_known := fun m => m |}.
Next Obligation. solve_fjson fromJSON toJSON. Qed.
Next Obligation. reflexivity. Qed.

#[global] Instance schema_wire {PB : Protobuf} {PS : ProtobufSpec PB} : WireSchema wire schema.
Proof. solve_schema_wire wire schema. Qed.

#[global] Instance schema_normal : NormalSchema normal schema.
Proof. solve_schema_normal normal schema. Qed.

#[global] Instance schema_merge : MergeSchema merge schema.
Proof. solve_schema_merge merge schema. Qed.

(** Its row in the table of message types. *)
Definition message {PB : Protobuf} {PS : ProtobufSpec PB} : message_type :=
  fallible_message "QueryAllRejectedDisableValidatorRequest" nothing true schema only.

#[global] Instance message_lawful {PB : Protobuf} (PS : ProtobufSpec PB) : Lawful message.
Proof. solve_lawful decode_field fromJSON only. Qed.

End QueryAllRejectedDisableValidatorRequest.

(** ** [QueryAllRejectedDisableValidatorResponse] (validator/query.js) *)

Module QueryAllRejectedDisableValidatorResponse.

Record t := mk {
  rejectedValidator : list RejectedDisableValidator.t;
  pagination : option PageResponse.t;
}.

#[global] Instance t_eta : Settable t := λ m, mk m.(rejectedValidator) m.(pagination).

Definition base : t := mk [] None.

Definition encode {PB : Protobuf} (message : t) (writer : Writer) : result Writer :=
  Ok writer
  @>= pure (each message.(rejectedValidator) (fun v w => w @> uint32 10 @> fork @> RejectedDisableValidator.encode v @> ldelim))
  @>= defined_e message.(pagination) (submessage 18 PageResponse.encode).

Definition decode_field {PB : Protobuf} (tag : Z) (message : t) : RM t :=
  match field_number tag with
  | 1 => v ← read_nested RejectedDisableValidator.decode;
         mret (message <| rejectedValidator := message.(rejectedValidator) ++ [v] |>)
  | 2 => v ← read_nested PageResponse.decode; mret (message <| pagination := Some v |>)
  | _ => _ ← skipType (wire_type tag); mret message
  end.

Definition decode {PB : Protobuf} (length : option Z) : RM t :=
  decode_message length base decode_field.

Definition fromJSON (object : js) : result t :=
  rejectedValidator' ← field_or object "rejectedValidator" (to_list RejectedDisableValidator.fromJSON) [];
  pagination' ← field_or object "pagination" (to_some PageResponse.fromJSON) None;
  Ok (mk rejectedValidator' pagination').

Definition toJSON (message : t) : js :=
  Obj ([("rejectedValidator", Arr (map RejectedDisableValidator.toJSON message.(rejectedValidator)))] ++
   prop_opt "pagination" PageResponse.toJSON message.(pagination)).

Record partial := mkPartial {
  p_rejectedValidator : option (list RejectedDisableValidator.partial);
  p_pagination : option PageResponse.partial;
}.

Definition fromPartial (object : partial) : t := {|
  rejectedValidator := map RejectedDisableValidator.fromPartial (object.(p_rejectedValidator) ?? []);
  pagination := PageResponse.fromPartial <$> object.(p_pagination);
|}.

(** The object with no property given. *)
Definition nothing : partial := mkPartial None None.

(** The bytes [encode] writes. *)
Definition wire {PB : Protobuf} {PS : ProtobufSpec PB} (m : t) : bytes :=
  f_repeated 10 RejectedDisableValidator.wire m.(rejectedValidator) ++
  f_message 18 PageResponse.wire m.(pagination).

Definition valid (m : t) : Prop :=
  Forall RejectedDisableValidator.valid m.(rejectedValidator) ∧ from_option PageResponse.valid True m.(pagination).

(** The byte fields hold arrays, as the interface declares. *)
Definition typed (m : t) : bool := from_option PageResponse.typed true m.(pagination).

(** The message without its empty byte arrays. *)
Definition normal (m : t) : t := {|
  rejectedValidator := m.(rejectedValidator);
  pagination := PageResponse.normal <$> m.(pagination);
|}.

Definition encodable {PB : Protobuf} {PS : ProtobufSpec PB} (m : t) : Prop :=
  typed m = true ∧ valid m ∧ small (wire m).

Definition merge (m a : t) : t := {|
  rejectedValidator := m.(rejectedValidator) ++ a.(rejectedValidator);
  pagination := later_message m.(pagination) (PageResponse.normal <$> a.(pagination));
|}.

(** A whole message seen as a partial one. *)
Definition full (m : t) : partial := {|
  p_rejectedValidator := Some (map RejectedDisableValidator.full m.(rejectedValidator));
  p_pagination := PageResponse.full <$> m.(pagination);
|}.

(** The message as its [.proto] file declares it. *)
Definition schema (m : t) : list field :=
  [repeated 1 (message_value RejectedDisableValidator.schema) m.(rejectedValidator);
   singular 2 Optional (message_value PageResponse.schema) m.(pagination)].

(** The message with its default for every property that is not kept. *)
Definition only (kept : string → bool) (m : t) : t := {|
  rejectedValidator := if kept "rejectedValidator" then m.(rejectedValidator) else [];
  pagination := if kept "pagination" then m.(pagination) else None;
|}.

#[global] Instance codec {PB : Protobuf} : FallibleCodec t :=
  {| fmsg_base := base; fmsg_encode := encode; fmsg_field := decode_field |}.

#[global] Program Instance spec {PB : Protobuf} (PS : ProtobufSpec PB) : FallibleSpec PS t :=
  {| fmsg_wire := wire; fmsg_valid := valid; fmsg_typed := typed; fmsg_normal := normal;
     fmsg_merge := merge |}.
Next Obligation. solve_fencode_wire. Qed.
Next Obligation. intros. solve_fencode_throws encode typed. Qed.
Next Obligation. solve_fdecode_wire. Qed.
Next Obligation. solve_fmerge_base. Qed.
Next Obligation. intros. solve_fadvances decode_field. Qed.

#[global] Program Instance given_ : FalliblePartial t partial :=
  {| fmsg_fromPartial := fromPartial; fmsg_full := full; fmsg_given := typed |}.
Next Obligation. solve_fgiven fromPartial typed. Qed.
Next Obligation. solve_fpartial fromPartial full typed. Qed.

#[global] Program Instance json : FallibleJson t :=
  {| fmsg_fromJSON := fromJSON; fmsg_toJSON := toJSON;
     fmsg_named := fun _ => true; fmsg_known := fun m => m |}.
Next Obligation. solve_fjson fromJSON toJSON. Qed.
Next Obligation. reflexivity. Qed.

#[global] Instance schema_wire {PB : Protobuf} {PS : ProtobufSpec PB} : WireSchema wire schema.
Proof. solve_schema_wire wire schema. Qed.

#[global] Instance schema_normal : NormalSchema normal schema.
Proof. solve_schema_normal normal schema. Qed.

#[global] Instance schema_merge : MergeSchema merge schema.
Proof. solve_schema_merge merge schema. Qed.

(** Its row in the table of message types. *)
Definition message {PB : Protobuf} {PS : ProtobufSpec PB} : message_type :=
  fallible_message "QueryAllRejectedDisableValidatorResponse" nothing true schema only.

#[global] Instance message_lawful {PB : Protobuf} (PS : ProtobufSpec PB) : Lawful message.
Proof. solve_lawful decode_field fromJSON only. Qed.

End QueryAllRejectedDisableValidatorResponse.

(** ** [GenesisState] (validator/genesis.js) *)

Module GenesisState.

Record t := mk {
  validatorList : list Validator.t;
  lastValidatorPowerList : list LastValidatorPower.t;
  proposedDisableValidatorList : list ProposedDisableValidator.t;
  disabledValidatorList : list DisabledValidator.t;
  rejectedValidatorList : list RejectedDisableValidator.t;
}.

#[global] Instance t_eta : Settable t := λ m, mk m.(validatorList) m.(lastValidatorPowerList)
  m.(proposedDisableValidatorList) m.(disabledValidatorList) m.(rejectedValidatorList).

Definition base : t := mk [] [] [] [] [].

Definition encode {PB : Protobuf} (message : t) (writer : Writer) : result Writer :=
  Ok writer
  @>= each_e message.(validatorList) (submessage 10 Validator.encode)
  @>= pure (each message.(lastValidatorPowerList) (fun v w => w @> uint32 18 @> fork @> LastValidatorPower.encode v @> ldelim))
  @>= pure (each message.(proposedDisableValidatorList) (fun v w => w @> uint32 26 @> fork @> ProposedDisableValidator.encode v @> ldelim))
  @>= pure (each message.(disabledValidatorList) (fun v w => w @> uint32 34 @> fork @> DisabledValidator.encode v @> ldelim))
  @>= pure (each message.(rejectedValidatorList) (fun v w => w @> uint32 42 @> fork @> RejectedDisableValidator.encode v @> ldelim)).

Definition decode_field {PB : Protobuf} (tag : Z) (message : t) : RM t :=
  match field_number tag with
  | 1 => v ← read_nested Validator.decode;
         mret (message <| validatorList := message.(validatorList) ++ [v] |>)
  | 2 => v ← read_nested LastValidatorPower.decode;
         mret (message <| lastValidatorPowerList := message.(lastValidatorPowerList) ++ [v] |>)
  | 3 => v ← read_nested ProposedDisableValidator.decode;
         mret (message <| proposedDisableValidatorList := message.(proposedDisableValidatorList) ++ [v] |>)
  | 4 => v ← read_nested DisabledValidator.decode;
         mret (message <| disabledValidatorList := message.(disabledValidatorList) ++ [v] |>)
  | 5 => v ← read_nested RejectedDisableValidator.decode;
         mret (message <| rejectedValidatorList := message.(rejectedValidatorList) ++ [v] |>)
  | _ => _ ← skipType (wire_type tag); mret message
  end.

Definition decode {PB : Protobuf} (length : option Z) : RM t :=
  decode_message length base decode_field.

Definition fromJSON (object : js) : result t :=
  validatorList' ← field_or object "validatorList" (to_list Validator.fromJSON) [];
  lastValidatorPowerList' ← field_or object "lastValidatorPowerList" (to_list LastValidatorPower.fromJSON) [];
  proposedDisableValidatorList' ← field_or object "proposedDisableValidatorList" (to_list ProposedDisableValidator.fromJSON) [];
  disabledValidatorList' ← field_or object "disabledValidatorList" (to_list DisabledValidator.fromJSON) [];
  rejectedValidatorList' ← field_or object "rejectedValidatorList" (to_list RejectedDisableValidator.fromJSON) [];
  Ok (mk validatorList' lastValidatorPowerList' proposedDisableValidatorList'
    disabledValidatorList' rejectedValidatorList').

Definition toJSON (message : t) : js :=
  Obj ([("validatorList", Arr (map Validator.toJSON message.(validatorList)));
    ("lastValidatorPowerList", Arr (map LastValidatorPower.toJSON message.(lastValidatorPowerList)));
    ("proposedDisableValidatorList", Arr (map ProposedDisableValidator.toJSON message.(proposedDisableValidatorList)));
    ("disabledValidatorList", Arr (map DisabledValidator.toJSON message.(disabledValidatorList)));
    ("rejectedValidatorList", Arr (map RejectedDisableValidator.toJSON message.(rejectedValidatorList)))]).

Record partial := mkPartial {
  p_validatorList : option (list Validator.partial);
  p_lastValidatorPowerList : option (list LastValidatorPower.partial);
  p_proposedDisableValidatorList : option (list ProposedDisableValidator.partial);
  p_disabledValidatorList : option (list DisabledValidator.partial);
  p_rejectedValidatorList : option (list RejectedDisableValidator.partial);
}.

Definition fromPartial (object : partial) : t := {|
  validatorList := map Validator.fromPartial (object.(p_validatorList) ?? []);
  lastValidatorPowerList := map LastValidatorPower.fromPartial (object.(p_lastValidatorPowerList) ?? []);
  proposedDisableValidatorList := map ProposedDisableValidator.fromPartial (object.(p_proposedDisableValidatorList) ?? []);
  disabledValidatorList := map DisabledValidator.fromPartial (object.(p_disabledValidatorList) ?? []);
  rejectedValidatorList := map RejectedDisableValidator.fromPartial (object.(p_rejectedValidatorList) ?? []);
|}.

(** The object with no property given. *)
Definition nothing : partial := mkPartial None None None None None.

(** The bytes [encode] writes. *)
Definition wire {PB : Protobuf} {PS : ProtobufSpec PB} (m : t) : bytes :=
  f_repeated 10 Validator.wire m.(validatorList) ++
  f_repeated 18 LastValidatorPower.wire m.(lastValidatorPowerList) ++
  f_repeated 26 ProposedDisableValidator.wire m.(proposedDisableValidatorList) ++
  f_repeated 34 DisabledValidator.wire m.(disabledValidatorList) ++
  f_repeated 42 RejectedDisableValidator.wire m.(rejectedValidatorList).

Definition valid (m : t) : Prop :=
  Forall Validator.valid m.(validatorList) ∧ Forall LastValidatorPower.valid m.(lastValidatorPowerList) ∧ Forall ProposedDisableValidator.valid m.(proposedDisableValidatorList) ∧ Forall DisabledValidator.valid m.(disabledValidatorList) ∧ Forall RejectedDisableValidator.valid m.(rejectedValidatorList).

(** The byte fields hold arrays, as the interface declares. *)
Definition typed (m : t) : bool := forallb Validator.typed m.(validatorList).

(** The message without its empty byte arrays. *)
Definition normal (m : t) : t := {|
  validatorList := map Validator.normal m.(validatorList);
  lastValidatorPowerList := m.(lastValidatorPowerList);
  proposedDisableValidatorList := m.(proposedDisableValidatorList);
  disabledValidatorList := m.(disabledValidatorList);
  rejectedValidatorList := m.(rejectedValidatorList);
|}.

Definition encodable {PB : Protobuf} {PS : ProtobufSpec PB} (m : t) : Prop :=
  typed m = true ∧ valid m ∧ small (wire m).

Definition merge (m a : t) : t := {|
  validatorList := m.(validatorList) ++ map Validator.normal a.(validatorList);
  lastValidatorPowerList := m.(lastValidatorPowerList) ++ a.(lastValidatorPowerList);
  proposedDisableValidatorList := m.(proposedDisableValidatorList) ++ a.(proposedDisableValidatorList);
  disabledValidatorList := m.(disabledValidatorList) ++ a.(disabledValidatorList);
  rejectedValidatorList := m.(rejectedValidatorList) ++ a.(rejectedValidatorList);
|}.

(** A whole message seen as a partial one. *)
Definition full (m : t) : partial := {|
  p_validatorList := Some (map Validator.full m.(validatorList));
  p_lastValidatorPowerList := Some (map LastValidatorPower.full m.(lastValidatorPowerList));
  p_proposedDisableValidatorList := Some (map ProposedDisableValidator.full m.(proposedDisableValidatorList));
  p_disabledValidatorList := Some (map DisabledValidator.full m.(disabledValidatorList));
  p_rejectedValidatorList := Some (map RejectedDisableValidator.full m.(rejectedValidatorList));
|}.

(** The message as its [.proto] file declares it. *)
Definition schema (m : t) : list field :=
  [repeated 1 (message_value Validator.schema) m.(validatorList);
   repeated 2 (message_value LastValidatorPower.schema) m.(lastValidatorPowerList);
   repeated 3 (message_value ProposedDisableValidator.schema) m.(proposedDisableValidatorList);
   repeated 4 (message_value DisabledValidator.schema) m.(disabledValidatorList);
   repeated 5 (message_value RejectedDisableValidator.schema) m.(rejectedValidatorList)].

(** The message with its default for every property that is not kept. *)
Definition only (kept : string → bool) (m : t) : t := {|
  validatorList := if kept "validatorList" then m.(validatorList) else [];
  lastValidatorPowerList := if kept "lastValidatorPowerList" then m.(lastValidatorPowerList) else [];
  proposedDisableValidatorList := if kept "proposedDisableValidatorList" then m.(proposedDisableValidatorList) else [];
  disabledValidatorList := if kept "disabledValidatorList" then m.(disabledValidatorList) else [];
  rejectedValidatorList := if kept "rejectedValidatorList" then m.(rejectedValidatorList) else [];
|}.

#[global] Instance codec {PB : Protobuf} : FallibleCodec t :=
  {| fmsg_base := base; fmsg_encode := encode; fmsg_field := decode_field |}.

#[global] Program Instance spec {PB : Protobuf} (PS : ProtobufSpec PB) : FallibleSpec PS t :=
  {| fmsg_wire := wire; fmsg_valid := valid; fmsg_typed := typed; fmsg_normal := normal;
     fmsg_merge := merge |}.
Next Obligation. solve_fencode_wire. Qed.
Next Obligation. intros. solve_fencode_throws encode typed. Qed.
Next Obligation. solve_fdecode_wire. Qed.
Next Obligation. solve_fmerge_base. Qed.
Next Obligation. intros. solve_fadvances decode_field. Qed.

#[global] Program Instance given_ : FalliblePartial t partial :=
  {| fmsg_fromPartial := fromPartial; fmsg_full := full; fmsg_given := typed |}.
Next Obligation. solve_fgiven fromPartial typed. Qed.
Next Obligation. solve_fpartial fromPartial full typed. Qed.

#[global] Program Instance json : FallibleJson t :=
  {| fmsg_fromJSON := fromJSON; fmsg_toJSON := toJSON;
     fmsg_named := fun _ => true; fmsg_known := fun m => m |}.
Next Obligation. solve_fjson fromJSON toJSON. Qed.
Next Obligation. reflexivity. Qed.

#[global] Instance schema_wire {PB : Protobuf} {PS : ProtobufSpec PB} : WireSchema wire schema.
Proof. solve_schema_wire wire schema. Qed.

#[global] Instance schema_normal : NormalSchema normal schema.
Proof. solve_schema_normal normal schema. Qed.

#[global] Instance schema_merge : MergeSchema merge schema.
Proof. solve_schema_merge merge schema. Qed.

(** Its row in the table of message types. *)
Definition message {PB : Protobuf} {PS : ProtobufSpec PB} : message_type :=
  fallible_message "GenesisState" nothing true schema only.

#[global] Instance message_lawful {PB : Protobuf} (PS : ProtobufSpec PB) : Lawful message.
Proof. solve_lawful decode_field fromJSON only. Qed.

End GenesisState.


(** ** [MsgClientImpl]

    [rpc] is the transport the class is constructed with: [rpc service method data]
    is what the promise of [this.rpc.request] settles to. *)
Module MsgClientImpl.
Section client.
Context {PB : Protobuf} (rpc : string → string → bytes → result bytes).

Definition CreateValidator (request : MsgCreateValidator.t) : result MsgCreateValidatorResponse.t :=
  w ← MsgCreateValidator.encode request create;
  data ← rpc "zigbeealliance.distributedcomplianceledger.validator.Msg" "CreateValidator" (finish w);
  decode_bytes MsgCreateValidatorResponse.decode data.

Definition ProposeDisableValidator (request : MsgProposeDisableValidator.t)
    : result MsgProposeDisableValidatorResponse.t :=
  data ← rpc "zigbeealliance.distributedcomplianceledger.validator.Msg" "ProposeDisableValidator"
    (finish (MsgProposeDisableValidator.encode request create));
  decode_bytes MsgProposeDisableValidatorResponse.decode data.

Definition ApproveDisableValidator (request : MsgApproveDisableValidator.t)
    : result MsgApproveDisableValidatorResponse.t :=
  data ← rpc "zigbeealliance.distributedcomplianceledger.validator.Msg" "ApproveDisableValidator"
    (finish (MsgApproveDisableValidator.encode request create));
  decode_bytes MsgApproveDisableValidatorResponse.decode data.

Definition DisableValidator (request : MsgDisableValidator.t)
    : result MsgDisableValidatorResponse.t :=
  data ← rpc "zigbeealliance.distributedcomplianceledger.validator.Msg" "DisableValidator"
    (finish (MsgDisableValidator.encode request create));
  decode_bytes MsgDisableValidatorResponse.decode data.

Definition EnableValidator (request : MsgEnableValidator.t) : result MsgEnableValidatorResponse.t :=
  data ← rpc "zigbeealliance.distributedcomplianceledger.validator.Msg" "EnableValidator"
    (finish (MsgEnableValidator.encode request create));
  decode_bytes MsgEnableValidatorResponse.decode data.

Definition RejectDisableValidator (request : MsgRejectDisableValidator.t)
    : result MsgRejectDisableValidatorResponse.t :=
  data ← rpc "zigbeealliance.distributedcomplianceledger.validator.Msg" "RejectDisableValidator"
    (finish (MsgRejectDisableValidator.encode request create));
  decode_bytes MsgRejectDisableValidatorResponse.decode data.

End client.
End MsgClientImpl.


(** ** [QueryClientImpl]

    [rpc] is the transport the class is constructed with: [rpc service method data]
    is what the promise of [this.rpc.request] settles to. *)
Module QueryClientImpl.
Section client.
Context {PB : Protobuf} (rpc : string → string → bytes → result bytes).

Definition Validator (request : QueryGetValidatorRequest.t) : result QueryGetValidatorResponse.t :=
  data ← rpc "zigbeealliance.distributedcomplianceledger.validator.Query" "Validator"
    (finish (QueryGetValidatorRequest.encode request create));
  decode_bytes QueryGetValidatorResponse.decode data.

Definition ValidatorAll (request : QueryAllValidatorRequest.t)
    : result QueryAllValidatorResponse.t :=
  w ← QueryAllValidatorRequest.encode request create;
  data ← rpc "zigbeealliance.distributedcomplianceledger.validator.Query" "ValidatorAll" (finish w);
  decode_bytes QueryAllValidatorResponse.decode data.

Definition LastValidatorPower (request : QueryGetLastValidatorPowerRequest.t)
    : result QueryGetLastValidatorPowerResponse.t :=
  data ← rpc "zigbeealliance.distributedcomplianceledger.validator.Query" "LastValidatorPower"
    (finish (QueryGetLastValidatorPowerRequest.encode request create));
  decode_bytes QueryGetLastValidatorPowerResponse.decode data.

Definition LastValidatorPowerAll (request : QueryAllLastValidatorPowerRequest.t)
    : result QueryAllLastValidatorPowerResponse.t :=
  w ← QueryAllLastValidatorPowerRequest.encode request create;
  data ← rpc "zigbeealliance.distributedcomplianceledger.validator.Query" "LastValidatorPowerAll" (finish w);
  decode_bytes QueryAllLastValidatorPowerResponse.decode data.

Definition ProposedDisableValidator (request : QueryGetProposedDisableValidatorRequest.t)
    : result QueryGetProposedDisableValidatorResponse.t :=
  data ← rpc "zigbeealliance.distributedcomplianceledger.validator.Query" "ProposedDisableValidator"
    (finish (QueryGetProposedDisableValidatorRequest.encode request create));
  decode_bytes QueryGetProposedDisableValidatorResponse.decode data.

Definition ProposedDisableValidatorAll (request : QueryAllProposedDisableValidatorRequest.t)
    : result QueryAllProposedDisableValidatorResponse.t :=
  w ← QueryAllProposedDisableValidatorRequest.encode request create;
  data ← rpc "zigbeealliance.distributedcomplianceledger.validator.Query" "ProposedDisableValidatorAll" (finish w);
  decode_bytes QueryAllProposedDisableValidatorResponse.decode data.

Definition DisabledValidator (request : QueryGetDisabledValidatorRequest.t)
    : result QueryGetDisabledValidatorResponse.t :=
  data ← rpc "zigbeealliance.distributedcomplianceledger.validator.Query" "DisabledValidator"
    (finish (QueryGetDisabledValidatorRequest.encode request create));
  decode_bytes QueryGetDisabledValidatorResponse.decode data.

Definition DisabledValidatorAll (request : QueryAllDisabledValidatorRequest.t)
    : result QueryAllDisabledValidatorResponse.t :=
  w ← QueryAllDisabledValidatorRequest.encode request create;
  data ← rpc "zigbeealliance.distributedcomplianceledger.validator.Query" "DisabledValidatorAll" (finish w);
  decode_bytes QueryAllDisabledValidatorResponse.decode data.

Definition RejectedDisableValidator (request : QueryGetRejectedDisableValidatorRequest.t)
    : result QueryGetRejectedDisableValidatorResponse.t :=
  data ← rpc "zigbeealliance.distributedcomplianceledger.validator.Query" "RejectedDisableValidator"
    (finish (QueryGetRejectedDisableValidatorRequest.encode request create));
  decode_bytes QueryGetRejectedDisableValidatorResponse.decode data.

Definition RejectedDisableValidatorAll (request : QueryAllRejectedDisableValidatorRequest.t)
    : result QueryAllRejectedDisableValidatorResponse.t :=
  w ← QueryAllRejectedDisableValidatorRequest.encode request create;
  data ← rpc "zigbeealliance.distributedcomplianceledger.validator.Query" "RejectedDisableValidatorAll" (finish w);
  decode_bytes QueryAllRejectedDisableValidatorResponse.decode data.

End client.
End QueryClientImpl.

(** ** The message types of this file *)

Definition messages {PB : Protobuf} {PS : ProtobufSpec PB} : list message_type :=
  [ Grant.message; Description.message; LastValidatorPower.message; DisabledValidator.message;
   ProposedDisableValidator.message; RejectedDisableValidator.message;
   RejectedDisableNode.message; Validator.message; MsgCreateValidator.message;
   MsgCreateValidatorResponse.message; MsgProposeDisableValidator.message;
   MsgProposeDisableValidatorResponse.message; MsgApproveDisableValidator.message;
   MsgApproveDisableValidatorResponse.message; MsgDisableValidator.message;
   MsgDisableValidatorResponse.message; MsgEnableValidator.message;
   MsgEnableValidatorResponse.message; MsgRejectDisableValidator.message;
   MsgRejectDisableValidatorResponse.message; QueryGetValidatorRequest.message;
   QueryGetValidatorResponse.message; QueryAllValidatorRequest.message;
   QueryAllValidatorResponse.message; QueryGetLastValidatorPowerRequest.message;
   QueryGetLastValidatorPowerResponse.message; QueryAllLastValidatorPowerRequest.message;
   QueryAllLastValidatorPowerResponse.message; QueryGetProposedDisableValidatorRequest.message;
   QueryGetProposedDisableValidatorResponse.message;
   QueryAllProposedDisableValidatorRequest.message;
   QueryAllProposedDisableValidatorResponse.message; QueryGetDisabledValidatorRequest.message;
   QueryGetDisabledValidatorResponse.message; QueryAllDisabledValidatorRequest.message;
   QueryAllDisabledValidatorResponse.message; QueryGetRejectedDisableValidatorRequest.message;
   QueryGetRejectedDisableValidatorResponse.message;
   QueryAllRejectedDisableValidatorRequest.message;
   QueryAllRejectedDisableValidatorResponse.message; GenesisState.message].

Lemma ValidatorTypes_lawful {PB : Protobuf} {PS : ProtobufSpec PB} : Forall Lawful messages.
Proof. solve_table. Qed.

(** The methods of [MsgClientImpl]. *)
Definition msg_methods {PB : Protobuf} {PS : ProtobufSpec PB} : list rpc_method :=
  [mkMethod "zigbeealliance.distributedcomplianceledger.validator.Msg" "CreateValidator"
     MsgCreateValidator.message MsgCreateValidatorResponse.message
     (fun rpc => MsgClientImpl.CreateValidator rpc);
   mkMethod "zigbeealliance.distributedcomplianceledger.validator.Msg" "ProposeDisableValidator"
     MsgProposeDisableValidator.message MsgProposeDisableValidatorResponse.message
     (fun rpc => MsgClientImpl.ProposeDisableValidator rpc);
   mkMethod "zigbeealliance.distributedcomplianceledger.validator.Msg" "ApproveDisableValidator"
     MsgApproveDisableValidator.message MsgApproveDisableValidatorResponse.message
     (fun rpc => MsgClientImpl.ApproveDisableValidator rpc);
   mkMethod "zigbeealliance.distributedcomplianceledger.validator.Msg" "DisableValidator"
     MsgDisableValidator.message MsgDisableValidatorResponse.message
     (fun rpc => MsgClientImpl.DisableValidator rpc);
   mkMethod "zigbeealliance.distributedcomplianceledger.validator.Msg" "EnableValidator"
     MsgEnableValidator.message MsgEnableValidatorResponse.message
     (fun rpc => MsgClientImpl.EnableValidator rpc);
   mkMethod "zigbeealliance.distributedcomplianceledger.validator.Msg" "RejectDisableValidator"
     MsgRejectDisableValidator.message MsgRejectDisableValidatorResponse.message
     (fun rpc => MsgClientImpl.RejectDisableValidator rpc)].

Lemma ValidatorTypes_msg_methods_lawful {PB : Protobuf} {PS : ProtobufSpec PB} : Forall method_lawful msg_methods.
Proof. solve_methods. Qed.

(** The methods of [QueryClientImpl]. *)
Definition query_methods {PB : Protobuf} {PS : ProtobufSpec PB} : list rpc_method :=
  [mkMethod "zigbeealliance.distributedcomplianceledger.validator.Query" "Validator"
     QueryGetValidatorRequest.message QueryGetValidatorResponse.message
     (fun rpc => QueryClientImpl.Validator rpc);
   mkMethod "zigbeealliance.distributedcomplianceledger.validator.Query" "ValidatorAll"
     QueryAllValidatorRequest.message QueryAllValidatorResponse.message
     (fun rpc => QueryClientImpl.ValidatorAll rpc);
   mkMethod "zigbeealliance.distributedcomplianceledger.validator.Query" "LastValidatorPower"
     QueryGetLastValidatorPowerRequest.message QueryGetLastValidatorPowerResponse.message
     (fun rpc => QueryClientImpl.LastValidatorPower rpc);
   mkMethod "zigbeealliance.distributedcomplianceledger.validator.Query" "LastValidatorPowerAll"
     QueryAllLastValidatorPowerRequest.message QueryAllLastValidatorPowerResponse.message
     (fun rpc => QueryClientImpl.LastValidatorPowerAll rpc);
   mkMethod "zigbeealliance.distributedcomplianceledger.validator.Query" "ProposedDisableValidator"
     QueryGetProposedDisableValidatorRequest.message QueryGetProposedDisableValidatorResponse.message
     (fun rpc => QueryClientImpl.ProposedDisableValidator rpc);
   mkMethod "zigbeealliance.distributedcomplianceledger.validator.Query" "ProposedDisableValidatorAll"
     QueryAllProposedDisableValidatorRequest.message QueryAllProposedDisableValidatorResponse.message
     (fun rpc => QueryClientImpl.ProposedDisableValidatorAll rpc);
   mkMethod "zigbeealliance.distributedcomplianceledger.validator.Query" "DisabledValidator"
     QueryGetDisabledValidatorRequest.message QueryGetDisabledValidatorResponse.message
     (fun rpc => QueryClientImpl.DisabledValidator rpc);
   mkMethod "zigbeealliance.distributedcomplianceledger.validator.Query" "DisabledValidatorAll"
     QueryAllDisabledValidatorRequest.message QueryAllDisabledValidatorResponse.message
     (fun rpc => QueryClientImpl.DisabledValidatorAll rpc);
   mkMethod "zigbeealliance.distributedcomplianceledger.validator.Query" "RejectedDisableValidator"
     QueryGetRejectedDisableValidatorRequest.message QueryGetRejectedDisableValidatorResponse.message
     (fun rpc => QueryClientImpl.RejectedDisableValidator rpc);
   mkMethod "zigbeealliance.distributedcomplianceledger.validator.Query" "RejectedDisableValidatorAll"
     QueryAllRejectedDisableValidatorRequest.message QueryAllRejectedDisableValidatorResponse.message
     (fun rpc => QueryClientImpl.RejectedDisableValidatorAll rpc)].

Lemma ValidatorTypes_query_methods_lawful {PB : Protobuf} {PS : ProtobufSpec PB} : Forall method_lawful query_methods.
Proof. solve_methods. Qed.
