(* ===== verification/DclauthTypes.v ===== *)
(** * The types of the dclauth module

    Accounts, their approval and revocation, the transaction, query and genesis
    messages: the codecs of [dclauth/module/types/dclauth/*.js], with the account type of
    [cosmos/auth/v1beta1/auth.js] they extend. *)
From S2P Require Import Prelude Js Protobuf Codec Calendar Dates Base64 Fallible Proto3 MessageTable CommonTypes.
Open Scope Z_scope.

(** ** [BaseAccount] (cosmos/auth/v1beta1/auth.js) *)

Module BaseAccount.

Record t := mk {
  address : string;
  pubKey : option Any.t;
  accountNumber : number;
  sequence : number;
}.

#[global] Instance t_eta : Settable t := λ m, mk m.(address) m.(pubKey) m.(accountNumber)
  m.(sequence).

Definition base : t := mk "" None 0 0.

Definition encode {PB : Protobuf} (message : t) (writer : Writer) : result Writer :=
  Ok writer
  @>= pure (when (str_neq message.(address) "")
       (fun w => w @> uint32 10 @> string_ message.(address)))
  @>= defined_e message.(pubKey) (submessage 18 Any.encode)
  @>= pure (when (num_neq message.(accountNumber) 0)
       (fun w => w @> uint32 24 @> uint64 message.(accountNumber)))
  @>= pure (when (num_neq message.(sequence) 0)
       (fun w => w @> uint32 32 @> uint64 message.(sequence))).

Definition decode_field {PB : Protobuf} (tag : Z) (message : t) : RM t :=
  match field_number tag with
  | 1 => v ← read_string; mret (message <| address := v |>)
  | 2 => v ← read_nested Any.decode; mret (message <| pubKey := Some v |>)
  | 3 => v ← read_number read_uint64; mret (message <| accountNumber := v |>)
  | 4 => v ← read_number read_uint64; mret (message <| sequence := v |>)
  | _ => _ ← skipType (wire_type tag); mret message
  end.

Definition decode {PB : Protobuf} (length : option Z) : RM t :=
  decode_message length base decode_field.

Definition fromJSON (object : js) : result t :=
  address' ← field_or object "address" to_string "";
  pubKey' ← field_or object "pubKey" (to_some Any.fromJSON) None;
  accountNumber' ← field_or object "accountNumber" js_Number 0;
  sequence' ← field_or object "sequence" js_Number 0;
  Ok (mk address' pubKey' accountNumber' sequence').

Definition toJSON (message : t) : js :=
  Obj ([("address", Str message.(address))] ++
   prop_opt "pubKey" Any.toJSON message.(pubKey) ++
   [("accountNumber", Num message.(accountNumber));
    ("sequence", Num message.(sequence))]).

Record partial := mkPartial {
  p_address : option string;
  p_pubKey : option Any.partial;
  p_accountNumber : option number;
  p_sequence : option number;
}.

Definition fromPartial (object : partial) : t := {|
  address := object.(p_address) ?? "";
  pubKey := Any.fromPartial <$> object.(p_pubKey);
  accountNumber := object.(p_accountNumber) ?? Int 0;
  sequence := object.(p_sequence) ?? Int 0;
|}.

(** The object with no property given. *)
Definition nothing : partial := mkPartial None None None None.

(** The bytes [encode] writes. *)
Definition wire {PB : Protobuf} {PS : ProtobufSpec PB} (m : t) : bytes :=
  f_string 10 m.(address) ++
  f_message 18 Any.wire m.(pubKey) ++
  f_number e_uint64 24 m.(accountNumber) ++
  f_number e_uint64 32 m.(sequence).

Definition valid (m : t) : Prop :=
  from_option Any.valid True m.(pubKey) ∧ uint64_ok m.(accountNumber) ∧ uint64_ok m.(sequence).

(** The byte fields hold arrays, as the interface declares. *)
Definition typed (m : t) : bool := from_option Any.typed true m.(pubKey).

(** The message without its empty byte arrays. *)
Definition normal (m : t) : t := {|
  address := m.(address);
  pubKey := Any.normal <$> m.(pubKey);
  accountNumber := m.(accountNumber);
  sequence := m.(sequence);
|}.

Definition encodable {PB : Protobuf} {PS : ProtobufSpec PB} (m : t) : Prop :=
  typed m = true ∧ valid m ∧ small (wire m).

Definition merge (m a : t) : t := {|
  address := later_string m.(address) a.(address);
  pubKey := later_message m.(pubKey) (Any.normal <$> a.(pubKey));
  accountNumber := later_number m.(accountNumber) a.(accountNumber);
  sequence := later_number m.(sequence) a.(sequence);
|}.

(** A whole message seen as a partial one. *)
Definition full (m : t) : partial := {|
  p_address := Some m.(address);
  p_pubKey := Any.full <$> m.(pubKey);
  p_accountNumber := Some m.(accountNumber);
  p_sequence := Some m.(sequence);
|}.

(** The message as its [.proto] file declares it. *)
Definition schema (m : t) : list field :=
  [implicit 1 (VString m.(address));
   singular 2 Optional (message_value Any.schema) m.(pubKey);
   implicit 3 (VInt Uint64 m.(accountNumber));
   implicit 4 (VInt Uint64 m.(sequence))].

(** The message with its default for every property that is not kept. *)
Definition only (kept : string → bool) (m : t) : t := {|
  address := if kept "address" then m.(address) else "";
  pubKey := if kept "pubKey" then m.(pubKey) else None;
  accountNumber := if kept "accountNumber" then m.(accountNumber) else Int 0;
  sequence := if kept "sequence" then m.(sequence) else Int 0;
|}.

#[global] Instance codec {PB : Protobuf} : FallibleCodec t :=
  {| fmsg_base := base; fmsg_encode := encode; fmsg_field := decode_field |}.

#[global] Program Instance spec {PB : Protobuf} (PS : ProtobufSpec PB) : FallibleSpec PS t :=
  {| fmsg_wire := wire; fmsg_valid := valid; fmsg_typed := typed; fmsg_normal := normal;
     fmsg_merge := merge |}.
Next Obligation. solve_fencode_wire. Qed.
Next Obligation. intros. solve_fencode_throws encode typed. Qed.
Next Obligation. solve_fdecode_wire. Qed.
Next Obligation. solve_fmerge_base. Qed.
Next Obligation. intros. solve_fadvances decode_field. Qed.

#[global] Program Instance given_ : FalliblePartial t partial :=
  {| fmsg_fromPartial := fromPartial; fmsg_full := full; fmsg_given := typed |}.
Next Obligation. solve_fgiven fromPartial typed. Qed.
Next Obligation. solve_fpartial fromPartial full typed. Qed.

#[global] Program Instance json : FallibleJson t :=
  {| fmsg_fromJSON := fromJSON; fmsg_toJSON := toJSON;
     fmsg_named := fun _ => true; fmsg_known := fun m => m |}.
Next Obligation. solve_fjson fromJSON toJSON. Qed.
Next Obligation. reflexivity. Qed.

#[global] Instance schema_wire {PB : Protobuf} {PS : ProtobufSpec PB} : WireSchema wire schema.
Proof. solve_schema_wire wire schema. Qed.

#[global] Instance schema_normal : NormalSchema normal schema.
Proof. solve_schema_normal normal schema. Qed.

#[global] Instance schema_merge : MergeSchema merge schema.
Proof. solve_schema_merge merge schema. Qed.

(** Its row in the table of message types. *)
Definition message {PB : Protobuf} {PS : ProtobufSpec PB} : message_type :=
  fallible_message "BaseAccount" nothing true schema only.

#[global] Instance message_lawful {PB : Protobuf} (PS : ProtobufSpec PB) : Lawful message.
Proof. solve_lawful decode_field fromJSON only. Qed.

End BaseAccount.

(** ** [ModuleAccount] (cosmos/auth/v1beta1/auth.js) *)

Module ModuleAccount.

Record t := mk {
  baseAccount : option BaseAccount.t;
  name : string;
  permissions : list string;
}.

#[global] Instance t_eta : Settable t := λ m, mk m.(baseAccount) m.(name) m.(permissions).

Definition base : t := mk None "" [].

Definition encode {PB : Protobuf} (message : t) (writer : Writer) : result Writer :=
  Ok writer
  @>= defined_e message.(baseAccount) (submessage 10 BaseAccount.encode)
  @>= pure (when (str_neq message.(name) "") (fun w => w @> uint32 18 @> string_ message.(name)))
  @>= pure (each message.(permissions) (fun v w => w @> uint32 26 @> string_ v)).

Definition decode_field {PB : Protobuf} (tag : Z) (message : t) : RM t :=
  match field_number tag with
  | 1 => v ← read_nested BaseAccount.decode; mret (message <| baseAccount := Some v |>)
  | 2 => v ← read_string; mret (message <| name := v |>)
  | 3 => v ← read_string; mret (message <| permissions := message.(permissions) ++ [v] |>)
  | _ => _ ← skipType (wire_type tag); mret message
  end.

Definition decode {PB : Protobuf} (length : option Z) : RM t :=
  decode_message length base decode_field.

Definition fromJSON (object : js) : result t :=
  baseAccount' ← field_or object "baseAccount" (to_some BaseAccount.fromJSON) None;
  name' ← field_or object "name" to_string "";
  permissions' ← field_or object "permissions" (to_list to_string) [];
  Ok (mk baseAccount' name' permissions').

Definition toJSON (message : t) : js :=
  Obj (prop_opt "baseAccount" BaseAccount.toJSON message.(baseAccount) ++
   [("name", Str message.(name));
    ("permissions", Arr (map Str message.(permissions)))]).

Record partial := mkPartial {
  p_baseAccount : option BaseAccount.partial;
  p_name : option string;
  p_permissions : option (list string);
}.

Definition fromPartial (object : partial) : t := {|
  baseAccount := BaseAccount.fromPartial <$> object.(p_baseAccount);
  name := object.(p_name) ?? "";
  permissions := (object.(p_permissions) ?? []);
|}.

(** The object with no property given. *)
Definition nothing : partial := mkPartial None None None.

(** The bytes [encode] writes. *)
Definition wire {PB : Protobuf} {PS : ProtobufSpec PB} (m : t) : bytes :=
  f_message 10 BaseAccount.wire m.(baseAccount) ++
  f_string 18 m.(name) ++
  f_repeated 26 chars m.(permissions).

Definition valid (m : t) : Prop :=
  from_option BaseAccount.valid True m.(baseAccount).

(** The byte fields hold arrays, as the interface declares. *)
Definition typed (m : t) : bool := from_option BaseAccount.typed true m.(baseAccount).

(** The message without its empty byte arrays. *)
Definition normal (m : t) : t := {|
  baseAccount := BaseAccount.normal <$> m.(baseAccount);
  name := m.(name);
  permissions := m.(permissions);
|}.

Definition encodable {PB : Protobuf} {PS : ProtobufSpec PB} (m : t) : Prop :=
  typed m = true ∧ valid m ∧ small (wire m).

Definition merge (m a : t) : t := {|
  baseAccount := later_message m.(baseAccount) (BaseAccount.normal <$> a.(baseAccount));
  name := later_string m.(name) a.(name);
  permissions := m.(permissions) ++ a.(permissions);
|}.

(** A whole message seen as a partial one. *)
Definition full (m : t) : partial := {|
  p_baseAccount := BaseAccount.full <$> m.(baseAccount);
  p_name := Some m.(name);
  p_permissions := Some m.(permissions);
|}.

(** The message as its [.proto] file declares it. *)
Definition schema (m : t) : list field :=
  [singular 1 Optional (message_value BaseAccount.schema) m.(baseAccount);
   implicit 2 (VString m.(name));
   repeated 3 VString m.(permissions)].

(** The message with its default for every property that is not kept. *)
Definition only (kept : string → bool) (m : t) : t := {|
  baseAccount := if kept "baseAccount" then m.(baseAccount) else None;
  name := if kept "name" then m.(name) else "";
  permissions := if kept "permissions" then m.(permissions) else [];
|}.

#[global] Instance codec {PB : Protobuf} : FallibleCodec t :=
  {| fmsg_base := base; fmsg_encode := encode; fmsg_field := decode_field |}.

#[global] Program Instance spec {PB : Protobuf} (PS : ProtobufSpec PB) : FallibleSpec PS t :=
  {| fmsg_wire := wire; fmsg_valid := valid; fmsg_typed := typed; fmsg_normal := normal;
     fmsg_merge := merge |}.
Next Obligation. solve_fencode_wire. Qed.
Next Obligation. intros. solve_fencode_throws encode typed. Qed.
Next Obligation. solve_fdecode_wire. Qed.
Next Obligation. solve_fmerge_base. Qed.
Next Obligation. intros. solve_fadvances decode_field. Qed.

#[global] Program Instance given_ : FalliblePartial t partial :=
  {| fmsg_fromPartial := fromPartial; fmsg_full := full; fmsg_given := typed |}.
Next Obligation. solve_fgiven fromPartial typed. Qed.
Next Obligation. solve_fpartial fromPartial full typed. Qed.

#[global] Program Instance json : FallibleJson t :=
  {| fmsg_fromJSON := fromJSON; fmsg_toJSON := toJSON;
     fmsg_named := fun _ => true; fmsg_known := fun m => m |}.
Next Obligation. solve_fjson fromJSON toJSON. Qed.
Next Obligation. reflexivity. Qed.

#[global] Instance schema_wire {PB : Protobuf} {PS : ProtobufSpec PB} : WireSchema wire schema.
Proof. solve_schema_wire wire schema. Qed.

#[global] Instance schema_normal : NormalSchema normal schema.
Proof. solve_schema_normal normal schema. Qed.

#[global] Instance schema_merge : MergeSchema merge schema.
Proof. solve_schema_merge merge schema. Qed.

(** Its row in the table of message types. *)
Definition message {PB : Protobuf} {PS : ProtobufSpec PB} : message_type :=
  fallible_message "ModuleAccount" nothing true schema only.

#[global] Instance message_lawful {PB : Protobuf} (PS : ProtobufSpec PB) : Lawful message.
Proof. solve_lawful decode_field fromJSON only. Qed.

End ModuleAccount.

(** ** [Params] (cosmos/auth/v1beta1/auth.js) *)

Module Params.

Record t := mk {
  maxMemoCharacters : number;
  txSigLimit : number;
  txSizeCostPerByte : number;
  sigVerifyCostEd25519 : number;
  sigVerifyCostSecp256k1 : number;
}.

#[global] Instance t_eta : Settable t := λ m, mk m.(maxMemoCharacters) m.(txSigLimit)
  m.(txSizeCostPerByte) m.(sigVerifyCostEd25519) m.(sigVerifyCostSecp256k1).

Definition base : t := mk 0 0 0 0 0.

Definition encode {PB : Protobuf} (message : t) (writer : Writer) : Writer :=
  writer
  @> when (num_neq message.(maxMemoCharacters) 0)
       (fun w => w @> uint32 8 @> uint64 message.(maxMemoCharacters))
  @> when (num_neq message.(txSigLimit) 0) (fun w => w @> uint32 16 @> uint64 message.(txSigLimit))
  @> when (num_neq message.(txSizeCostPerByte) 0)
       (fun w => w @> uint32 24 @> uint64 message.(txSizeCostPerByte))
  @> when (num_neq message.(sigVerifyCostEd25519) 0)
       (fun w => w @> uint32 32 @> uint64 message.(sigVerifyCostEd25519))
  @> when (num_neq message.(sigVerifyCostSecp256k1) 0)
       (fun w => w @> uint32 40 @> uint64 message.(sigVerifyCostSecp256k1)).

Definition decode_field {PB : Protobuf} (tag : Z) (message : t) : RM t :=
  match field_number tag with
  | 1 => v ← read_number read_uint64; mret (message <| maxMemoCharacters := v |>)
  | 2 => v ← read_number read_uint64; mret (message <| txSigLimit := v |>)
  | 3 => v ← read_number read_uint64; mret (message <| txSizeCostPerByte := v |>)
  | 4 => v ← read_number read_uint64; mret (message <| sigVerifyCostEd25519 := v |>)
  | 5 => v ← read_number read_uint64; mret (message <| sigVerifyCostSecp256k1 := v |>)
  | _ => _ ← skipType (wire_type tag); mret message
  end.

Definition decode {PB : Protobuf} (length : option Z) : RM t :=
  decode_message length base decode_field.

Definition fromJSON (object : js) : result t :=
  maxMemoCharacters' ← field_or object "maxMemoCharacters" js_Number 0;
  txSigLimit' ← field_or object "txSigLimit" js_Number 0;
  txSizeCostPerByte' ← field_or object "txSizeCostPerByte" js_Number 0;
  sigVerifyCostEd25519' ← field_or object "sigVerifyCostEd25519" js_Number 0;
  sigVerifyCostSecp256k1' ← field_or object "sigVerifyCostSecp256k1" js_Number 0;
  Ok (mk maxMemoCharacters' txSigLimit' txSizeCostPerByte' sigVerifyCostEd25519'
    sigVerifyCostSecp256k1').

Definition toJSON (message : t) : js :=
  Obj ([("maxMemoCharacters", Num message.(maxMemoCharacters));
    ("txSigLimit", Num message.(txSigLimit));
    ("txSizeCostPerByte", Num message.(txSizeCostPerByte));
    ("sigVerifyCostEd25519", Num message.(sigVerifyCostEd25519));
    ("sigVerifyCostSecp256k1", Num message.(sigVerifyCostSecp256k1))]).

Record partial := mkPartial {
  p_maxMemoCharacters : option number;
  p_txSigLimit : option number;
  p_txSizeCostPerByte : option number;
  p_sigVerifyCostEd25519 : option number;
  p_sigVerifyCostSecp256k1 : option number;
}.

Definition fromPartial (object : partial) : t := {|
  maxMemoCharacters := object.(p_maxMemoCharacters) ?? Int 0;
  txSigLimit := object.(p_txSigLimit) ?? Int 0;
  txSizeCostPerByte := object.(p_txSizeCostPerByte) ?? Int 0;
  sigVerifyCostEd25519 := object.(p_sigVerifyCostEd25519) ?? Int 0;
  sigVerifyCostSecp256k1 := object.(p_sigVerifyCostSecp256k1) ?? Int 0;
|}.

(** The object with no property given. *)
Definition nothing : partial := mkPartial None None None None None.

(** The bytes [encode] writes. *)
Definition wire {PB : Protobuf} {PS : ProtobufSpec PB} (m : t) : bytes :=
  f_number e_uint64 8 m.(maxMemoCharacters) ++
  f_number e_uint64 16 m.(txSigLimit) ++
  f_number e_uint64 24 m.(txSizeCostPerByte) ++
  f_number e_uint64 32 m.(sigVerifyCostEd25519) ++
  f_number e_uint64 40 m.(sigVerifyCostSecp256k1).

Definition valid (m : t) : Prop :=
  uint64_ok m.(maxMemoCharacters) ∧ uint64_ok m.(txSigLimit) ∧ uint64_ok m.(txSizeCostPerByte) ∧ uint64_ok m.(sigVerifyCostEd25519) ∧ uint64_ok m.(sigVerifyCostSecp256k1).

Definition encodable {PB : Protobuf} {PS : ProtobufSpec PB} (m : t) : Prop :=
  valid m ∧ small (wire m).

Definition merge (m a : t) : t := {|
  maxMemoCharacters := later_number m.(maxMemoCharacters) a.(maxMemoCharacters);
  txSigLimit := later_number m.(txSigLimit) a.(txSigLimit);
  txSizeCostPerByte := later_number m.(txSizeCostPerByte) a.(txSizeCostPerByte);
  sigVerifyCostEd25519 := later_number m.(sigVerifyCostEd25519) a.(sigVerifyCostEd25519);
  sigVerifyCostSecp256k1 := later_number m.(sigVerifyCostSecp256k1) a.(sigVerifyCostSecp256k1);
|}.

(** A whole message seen as a partial one. *)
Definition full (m : t) : partial := {|
  p_maxMemoCharacters := Some m.(maxMemoCharacters);
  p_txSigLimit := Some m.(txSigLimit);
  p_txSizeCostPerByte := Some m.(txSizeCostPerByte);
  p_sigVerifyCostEd25519 := Some m.(sigVerifyCostEd25519);
  p_sigVerifyCostSecp256k1 := Some m.(sigVerifyCostSecp256k1);
|}.

(** The message as its [.proto] file declares it. *)
Definition schema (m : t) : list field :=
  [implicit 1 (VInt Uint64 m.(maxMemoCharacters));
   implicit 2 (VInt Uint64 m.(txSigLimit));
   implicit 3 (VInt Uint64 m.(txSizeCostPerByte));
   implicit 4 (VInt Uint64 m.(sigVerifyCostEd25519));
   implicit 5 (VInt Uint64 m.(sigVerifyCostSecp256k1))].

(** The message with its default for every property that is not kept. *)
Definition only (kept : string → bool) (m : t) : t := {|
  maxMemoCharacters := if kept "maxMemoCharacters" then m.(maxMemoCharacters) else Int 0;
  txSigLimit := if kept "txSigLimit" then m.(txSigLimit) else Int 0;
  txSizeCostPerByte := if kept "txSizeCostPerByte" then m.(txSizeCostPerByte) else Int 0;
  sigVerifyCostEd25519 := if kept "sigVerifyCostEd25519" then m.(sigVerifyCostEd25519) else Int 0;
  sigVerifyCostSecp256k1 := if kept "sigVerifyCostSecp256k1" then m.(sigVerifyCostSecp256k1) else Int 0;
|}.

#[global] Instance codec {PB : Protobuf} : MessageCodec t :=
  {| msg_base := base; msg_encode := encode; msg_field := decode_field |}.

#[global] Program Instance spec {PB : Protobuf} (PS : ProtobufSpec PB) : MessageSpec PS t :=
  {| msg_wire := wire; msg_valid := valid; msg_merge := merge |}.
Next Obligation. solve_encode_wire. Qed.
Next Obligation. solve_decode_wire. Qed.
Next Obligation. solve_merge_base. Qed.
Next Obligation. intros. solve_advances decode_field. Qed.

#[global] Program Instance data : MessageData t partial :=
  {| msg_fromJSON := fromJSON; msg_toJSON := toJSON;
     msg_fromPartial := fromPartial; msg_full := full |}.
Next Obligation. solve_json fromJSON toJSON. Qed.
Next Obligation. solve_partial fromPartial full. Qed.

#[global] Instance schema_wire {PB : Protobuf} {PS : ProtobufSpec PB} : WireSchema wire schema.
Proof. solve_schema_wire wire schema. Qed.

#[global] Instance schema_merge : MergeSchema merge schema.
Proof. solve_schema_merge merge schema. Qed.

(** Its row in the table of message types. *)
Definition message {PB : Protobuf} {PS : ProtobufSpec PB} : message_type :=
  plain_message "Params" nothing true schema only.

#[global] Instance message_lawful {PB : Protobuf} (PS : ProtobufSpec PB) : Lawful message.
Proof. solve_lawful decode_field fromJSON only. Qed.

End Params.

(** ** [Grant] (dclauth/grant.js) *)

Module Grant.

Record t := mk {
  address : string;
  time : number;
  info : string;
}.

#[global] Instance t_eta : Settable t := λ m, mk m.(address) m.(time) m.(info).

Definition base : t := mk "" 0 "".

Definition encode {PB : Protobuf} (message : t) (writer : Writer) : Writer :=
  writer
  @> when (str_neq message.(address) "") (fun w => w @> uint32 10 @> string_ message.(address))
  @> when (num_neq message.(time) 0) (fun w => w @> uint32 16 @> int64 message.(time))
  @> when (str_neq message.(info) "") (fun w => w @> uint32 26 @> string_ message.(info)).

Definition decode_field {PB : Protobuf} (tag : Z) (message : t) : RM t :=
  match field_number tag with
  | 1 => v ← read_string; mret (message <| address := v |>)
  | 2 => v ← read_number read_int64; mret (message <| time := v |>)
  | 3 => v ← read_string; mret (message <| info := v |>)
  | _ => _ ← skipType (wire_type tag); mret message
  end.

Definition decode {PB : Protobuf} (length : option Z) : RM t :=
  decode_message length base decode_field.

Definition fromJSON (object : js) : result t :=
  address' ← field_or object "address" to_string "";
  time' ← field_or object "time" js_Number 0;
  info' ← field_or object "info" to_string "";
  Ok (mk address' time' info').

Definition toJSON (message : t) : js :=
  Obj ([("address", Str message.(address));
    ("time", Num message.(time));
    ("info", Str message.(info))]).

Record partial := mkPartial {
  p_address : option string;
  p_time : option number;
  p_info : option string;
}.

Definition fromPartial (object : partial) : t := {|
  address := object.(p_address) ?? "";
  time := object.(p_time) ?? Int 0;
  info := object.(p_info) ?? "";
|}.

(** The object with no property given. *)
Definition nothing : partial := mkPartial None None None.

(** The bytes [encode] writes. *)
Definition wire {PB : Protobuf} {PS : ProtobufSpec PB} (m : t) : bytes :=
  f_string 10 m.(address) ++
  f_number e_int64 16 m.(time) ++
  f_string 26 m.(info).

Definition valid (m : t) : Prop :=
  int64_ok m.(time).

Definition encodable {PB : Protobuf} {PS : ProtobufSpec PB} (m : t) : Prop :=
  valid m ∧ small (wire m).

Definition merge (m a : t) : t := {|
  address := later_string m.(address) a.(address);
  time := later_number m.(time) a.(time);
  info := later_string m.(info) a.(info);
|}.

(** A whole message seen as a partial one. *)
Definition full (m : t) : partial := {|
  p_address := Some m.(address);
  p_time := Some m.(time);
  p_info := Some m.(info);
|}.

(** The message as its [.proto] file declares it. *)
Definition schema (m : t) : list field :=
  [implicit 1 (VString m.(address));
   implicit 2 (VInt Int64 m.(time));
   implicit 3 (VString m.(info))].

(** The message with its default for every property that is not kept. *)
Definition only (kept : string → bool) (m : t) : t := {|
  address := if kept "address" then m.(address) else "";
  time := if kept "time" then m.(time) else Int 0;
  info := if kept "info" then m.(info) else "";
|}.

#[global] Instance codec {PB : Protobuf} : MessageCodec t :=
  {| msg_base := base; msg_encode := encode; msg_field := decode_field |}.

#[global] Program Instance spec {PB : Protobuf} (PS : ProtobufSpec PB) : MessageSpec PS t :=
  {| msg_wire := wire; msg_valid := valid; msg_merge := merge |}.
Next Obligation. solve_encode_wire. Qed.
Next Obligation. solve_decode_wire. Qed.
Next Obligation. solve_merge_base. Qed.
Next Obligation. intros. solve_advances decode_field. Qed.

#[global] Program Instance data : MessageData t partial :=
  {| msg_fromJSON := fromJSON; msg_toJSON := toJSON;
     msg_fromPartial := fromPartial; msg_full := full |}.
Next Obligation. solve_json fromJSON toJSON. Qed.
Next Obligation. solve_partial fromPartial full. Qed.

#[global] Instance schema_wire {PB : Protobuf} {PS : ProtobufSpec PB} : WireSchema wire schema.
Proof. solve_schema_wire wire schema. Qed.

#[global] Instance schema_merge : MergeSchema merge schema.
Proof. solve_schema_merge merge schema. Qed.

(** Its row in the table of message types. *)
Definition message {PB : Protobuf} {PS : ProtobufSpec PB} : message_type :=
  plain_message "Grant" nothing true schema only.

#[global] Instance message_lawful {PB : Protobuf} (PS : ProtobufSpec PB) : Lawful message.
Proof. solve_lawful decode_field fromJSON only. Qed.

End Grant.

(** ** [Account] (dclauth/account.js) *)

Module Account.

Record t := mk {
  baseAccount : option BaseAccount.t;
  roles : list string;
  approvals : list Grant.t;
  vendorID : number;
  rejects : list Grant.t;
}.

#[global] Instance t_eta : Settable t := λ m, mk m.(baseAccount) m.(roles) m.(approvals)
  m.(vendorID) m.(rejects).

Definition base : t := mk None [] [] 0 [].

Definition encode {PB : Protobuf} (message : t) (writer : Writer) : result Writer :=
  Ok writer
  @>= defined_e message.(baseAccount) (submessage 10 BaseAccount.encode)
  @>= pure (each message.(roles) (fun v w => w @> uint32 18 @> string_ v))
  @>= pure (each message.(approvals) (fun v w => w @> uint32 26 @> fork @> Grant.encode v @> ldelim))
  @>= pure (when (num_neq message.(vendorID) 0)
       (fun w => w @> uint32 32 @> int32 message.(vendorID)))
  @>= pure (each message.(rejects) (fun v w => w @> uint32 42 @> fork @> Grant.encode v @> ldelim)).

Definition decode_field {PB : Protobuf} (tag : Z) (message : t) : RM t :=
  match field_number tag with
  | 1 => v ← read_nested BaseAccount.decode; mret (message <| baseAccount := Some v |>)
  | 2 => v ← read_string; mret (message <| roles := message.(roles) ++ [v] |>)
  | 3 => v ← read_nested Grant.decode; mret (message <| approvals := message.(approvals) ++ [v] |>)
  | 4 => v ← read_int32; mret (message <| vendorID := Int v |>)
  | 5 => v ← read_nested Grant.decode; mret (message <| rejects := message.(rejects) ++ [v] |>)
  | _ => _ ← skipType (wire_type tag); mret message
  end.

Definition decode {PB : Protobuf} (length : option Z) : RM t :=
  decode_message length base decode_field.

Definition fromJSON (object : js) : result t :=
  baseAccount' ← field_or object "baseAccount" (to_some BaseAccount.fromJSON) None;
  roles' ← field_or object "roles" (to_list to_string) [];
  approvals' ← field_or object "approvals" (to_list Grant.fromJSON) [];
  vendorID' ← field_or object "vendorID" js_Number 0;
  rejects' ← field_or object "rejects" (to_list Grant.fromJSON) [];
  Ok (mk baseAccount' roles' approvals' vendorID' rejects').

Definition toJSON (message : t) : js :=
  Obj (prop_opt "baseAccount" BaseAccount.toJSON message.(baseAccount) ++
   [("roles", Arr (map Str message.(roles)));
    ("approvals", Arr (map Grant.toJSON message.(approvals)));
    ("vendorID", Num message.(vendorID));
    ("rejects", Arr (map Grant.toJSON message.(rejects)))]).

Record partial := mkPartial {
  p_baseAccount : option BaseAccount.partial;
  p_roles : option (list string);
  p_approvals : option (list Grant.partial);
  p_vendorID : option number;
  p_rejects : option (list Grant.partial);
}.

Definition fromPartial (object : partial) : t := {|
  baseAccount := BaseAccount.fromPartial <$> object.(p_baseAccount);
  roles := (object.(p_roles) ?? []);
  approvals := map Grant.fromPartial (object.(p_approvals) ?? []);
  vendorID := object.(p_vendorID) ?? Int 0;
  rejects := map Grant.fromPartial (object.(p_rejects) ?? []);
|}.

(** The object with no property given. *)
Definition nothing : partial := mkPartial None None None None None.

(** The bytes [encode] writes. *)
Definition wire {PB : Protobuf} {PS : ProtobufSpec PB} (m : t) : bytes :=
  f_message 10 BaseAccount.wire m.(baseAccount) ++
  f_repeated 18 chars m.(roles) ++
  f_repeated 26 Grant.wire m.(approvals) ++
  f_number e_int32 32 m.(vendorID) ++
  f_repeated 42 Grant.wire m.(rejects).

Definition valid (m : t) : Prop :=
  from_option BaseAccount.valid True m.(baseAccount) ∧ Forall Grant.valid m.(approvals) ∧ int32_ok m.(vendorID) ∧ Forall Grant.valid m.(rejects).

(** The byte fields hold arrays, as the interface declares. *)
Definition typed (m : t) : bool := from_option BaseAccount.typed true m.(baseAccount).

(** The message without its empty byte arrays. *)
Definition normal (m : t) : t := {|
  baseAccount := BaseAccount.normal <$> m.(baseAccount);
  roles := m.(roles);
  approvals := m.(approvals);
  vendorID := m.(vendorID);
  rejects := m.(rejects);
|}.

Definition encodable {PB : Protobuf} {PS : ProtobufSpec PB} (m : t) : Prop :=
  typed m = true ∧ valid m ∧ small (wire m).

Definition merge (m a : t) : t := {|
  baseAccount := later_message m.(baseAccount) (BaseAccount.normal <$> a.(baseAccount));
  roles := m.(roles) ++ a.(roles);
  approvals := m.(approvals) ++ a.(approvals);
  vendorID := later_number m.(vendorID) a.(vendorID);
  rejects := m.(rejects) ++ a.(rejects);
|}.

(** A whole message seen as a partial one. *)
Definition full (m : t) : partial := {|
  p_baseAccount := BaseAccount.full <$> m.(baseAccount);
  p_roles := Some m.(roles);
  p_approvals := Some (map Grant.full m.(approvals));
  p_vendorID := Some m.(vendorID);
  p_rejects := Some (map Grant.full m.(rejects));
|}.

(** The message as its [.proto] file declares it. *)
Definition schema (m : t) : list field :=
  [singular 1 Optional (message_value BaseAccount.schema) m.(baseAccount);
   repeated 2 VString m.(roles);
   repeated 3 (message_value Grant.schema) m.(approvals);
   implicit 4 (VInt Int32 m.(vendorID));
   repeated 5 (message_value Grant.schema) m.(rejects)].

(** The message with its default for every property that is not kept. *)
Definition only (kept : string → bool) (m : t) : t := {|
  baseAccount := if kept "baseAccount" then m.(baseAccount) else None;
  roles := if kept "roles" then m.(roles) else [];
  approvals := if kept "approvals" then m.(approvals) else [];
  vendorID := if kept "vendorID" then m.(vendorID) else Int 0;
  rejects := if kept "rejects" then m.(rejects) else [];
|}.

#[global] Instance codec {PB : Protobuf} : FallibleCodec t :=
  {| fmsg_base := base; fmsg_encode := encode; fmsg_field := decode_field |}.

#[global] Program Instance spec {PB : Protobuf} (PS : ProtobufSpec PB) : FallibleSpec PS t :=
  {| fmsg_wire := wire; fmsg_valid := valid; fmsg_typed := typed; fmsg_normal := normal;
     fmsg_merge := merge |}.
Next Obligation. solve_fencode_wire. Qed.
Next Obligation. intros. solve_fencode_throws encode typed. Qed.
Next Obligation. solve_fdecode_wire. Qed.
Next Obligation. solve_fmerge_base. Qed.
Next Obligation. intros. solve_fadvances decode_field. Qed.

#[global] Program Instance given_ : FalliblePartial t partial :=
  {| fmsg_fromPartial := fromPartial; fmsg_full := full; fmsg_given := typed |}.
Next Obligation. solve_fgiven fromPartial typed. Qed.
Next Obligation. solve_fpartial fromPartial full typed. Qed.

#[global] Program Instance json : FallibleJson t :=
  {| fmsg_fromJSON := fromJSON; fmsg_toJSON := toJSON;
     fmsg_named := fun _ => true; fmsg_known := fun m => m |}.
Next Obligation. solve_fjson fromJSON toJSON. Qed.
Next Obligation. reflexivity. Qed.

#[global] Instance schema_wire {PB : Protobuf} {PS : ProtobufSpec PB} : WireSchema wire schema.
Proof. solve_schema_wire wire schema. Qed.

#[global] Instance schema_normal : NormalSchema normal schema.
Proof. solve_schema_normal normal schema. Qed.

#[global] Instance schema_merge : MergeSchema merge schema.
Proof. solve_schema_merge merge schema. Qed.

(** Its row in the table of message types. *)
Definition message {PB : Protobuf} {PS : ProtobufSpec PB} : message_type :=
  fallible_message "Account" nothing true schema only.

#[global] Instance message_lawful {PB : Protobuf} (PS : ProtobufSpec PB) : Lawful message.
Proof. solve_lawful decode_field fromJSON only. Qed.

End Account.

(** ** [PendingAccount] (dclauth/pending_account.js) *)

Module PendingAccount.

Record t := mk {
  account : option Account.t;
}.

#[global] Instance t_eta : Settable t := λ m, mk m.(account).

Definition base : t := mk None.

Definition encode {PB : Protobuf} (message : t) (writer : Writer) : result Writer :=
  Ok writer
  @>= defined_e message.(account) (submessage 10 Account.encode).

Definition decode_field {PB : Protobuf} (tag : Z) (message : t) : RM t :=
  match field_number tag with
  | 1 => v ← read_nested Account.decode; mret (message <| account := Some v |>)
  | _ => _ ← skipType (wire_type tag); mret message
  end.

Definition decode {PB : Protobuf} (length : option Z) : RM t :=
  decode_message length base decode_field.

Definition fromJSON (object : js) : result t :=
  account' ← field_or object "account" (to_some Account.fromJSON) None;
  Ok (mk account').

Definition toJSON (message : t) : js :=
  Obj (prop_opt "account" Account.toJSON message.(account)).

Record partial := mkPartial {
  p_account : option Account.partial;
}.

Definition fromPartial (object : partial) : t := {|
  account := Account.fromPartial <$> object.(p_account);
|}.

(** The object with no property given. *)
Definition nothing : partial := mkPartial None.

(** The bytes [encode] writes. *)
Definition wire {PB : Protobuf} {PS : ProtobufSpec PB} (m : t) : bytes :=
  f_message 10 Account.wire m.(account).

Definition valid (m : t) : Prop :=
  from_option Account.valid True m.(account).

(** The byte fields hold arrays, as the interface declares. *)
Definition typed (m : t) : bool := from_option Account.typed true m.(account).

(** The message without its empty byte arrays. *)
Definition normal (m : t) : t := {|
  account := Account.normal <$> m.(account);
|}.

Definition encodable {PB : Protobuf} {PS : ProtobufSpec PB} (m : t) : Prop :=
  typed m = true ∧ valid m ∧ small (wire m).

Definition merge (m a : t) : t := {|
  account := later_message m.(account) (Account.normal <$> a.(account));
|}.

(** A whole message seen as a partial one. *)
Definition full (m : t) : partial := {|
  p_account := Account.full <$> m.(account);
|}.

(** The message as its [.proto] file declares it. *)
Definition schema (m : t) : list field :=
  [singular 1 Optional (message_value Account.schema) m.(account)].

(** The message with its default for every property that is not kept. *)
Definition only (kept : string → bool) (m : t) : t := {|
  account := if kept "account" then m.(account) else None;
|}.

#[global] Instance codec {PB : Protobuf} : FallibleCodec t :=
  {| fmsg_base := base; fmsg_encode := encode; fmsg_field := decode_field |}.

#[global] Program Instance spec {PB : Protobuf} (PS : ProtobufSpec PB) : FallibleSpec PS t :=
  {| fmsg_wire := wire; fmsg_valid := valid; fmsg_typed := typed; fmsg_normal := normal;
     fmsg_merge := merge |}.
Next Obligation. solve_fencode_wire. Qed.
Next Obligation. intros. solve_fencode_throws encode typed. Qed.
Next Obligation. solve_fdecode_wire. Qed.
Next Obligation. solve_fmerge_base. Qed.
Next Obligation. intros. solve_fadvances decode_field. Qed.

#[global] Program Instance given_ : FalliblePartial t partial :=
  {| fmsg_fromPartial := fromPartial; fmsg_full := full; fmsg_given := typed |}.
Next Obligation. solve_fgiven fromPartial typed. Qed.
Next Obligation. solve_fpartial fromPartial full typed. Qed.

#[global] Program Instance json : FallibleJson t :=
  {| fmsg_fromJSON := fromJSON; fmsg_toJSON := toJSON;
     fmsg_named := fun _ => true; fmsg_known := fun m => m |}.
Next Obligation. solve_fjson fromJSON toJSON. Qed.
Next Obligation. reflexivity. Qed.

#[global] Instance schema_wire {PB : Protobuf} {PS : ProtobufSpec PB} : WireSchema wire schema.
Proof. solve_schema_wire wire schema. Qed.

#[global] Instance schema_normal : NormalSchema normal schema.
Proof. solve_schema_normal normal schema. Qed.

#[global] Instance schema_merge : MergeSchema merge schema.
Proof. solve_schema_merge merge schema. Qed.

(** Its row in the table of message types. *)
Definition message {PB : Protobuf} {PS : ProtobufSpec PB} : message_type :=
  fallible_message "PendingAccount" nothing true schema only.

#[global] Instance message_lawful {PB : Protobuf} (PS : ProtobufSpec PB) : Lawful message.
Proof. solve_lawful decode_field fromJSON only. Qed.

End PendingAccount.

(** ** [PendingAccountRevocation] (dclauth/pending_account_revocation.js) *)

Module PendingAccountRevocation.

Record t := mk {
  address : string;
  approvals : list Grant.t;
}.

#[global] Instance t_eta : Settable t := λ m, mk m.(address) m.(approvals).

Definition base : t := mk "" [].

Definition encode {PB : Protobuf} (message : t) (writer : Writer) : Writer :=
  writer
  @> when (str_neq message.(address) "") (fun w => w @> uint32 10 @> string_ message.(address))
  @> each message.(approvals) (fun v w => w @> uint32 18 @> fork @> Grant.encode v @> ldelim).

Definition decode_field {PB : Protobuf} (tag : Z) (message : t) : RM t :=
  match field_number tag with
  | 1 => v ← read_string; mret (message <| address := v |>)
  | 2 => v ← read_nested Grant.decode; mret (message <| approvals := message.(approvals) ++ [v] |>)
  | _ => _ ← skipType (wire_type tag); mret message
  end.

Definition decode {PB : Protobuf} (length : option Z) : RM t :=
  decode_message length base decode_field.

Definition fromJSON (object : js) : result t :=
  address' ← field_or object "address" to_string "";
  approvals' ← field_or object "approvals" (to_list Grant.fromJSON) [];
  Ok (mk address' approvals').

Definition toJSON (message : t) : js :=
  Obj ([("address", Str message.(address));
    ("approvals", Arr (map Grant.toJSON message.(approvals)))]).

Record partial := mkPartial {
  p_address : option string;
  p_approvals : option (list Grant.partial);
}.

Definition fromPartial (object : partial) : t := {|
  address := object.(p_address) ?? "";
  approvals := map Grant.fromPartial (object.(p_approvals) ?? []);
|}.

(** The object with no property given. *)
Definition nothing : partial := mkPartial None None.

(** The bytes [encode] writes. *)
Definition wire {PB : Protobuf} {PS : ProtobufSpec PB} (m : t) : bytes :=
  f_string 10 m.(address) ++
  f_repeated 18 Grant.wire m.(approvals).

Definition valid (m : t) : Prop :=
  Forall Grant.valid m.(approvals).

Definition encodable {PB : Protobuf} {PS : ProtobufSpec PB} (m : t) : Prop :=
  valid m ∧ small (wire m).

Definition merge (m a : t) : t := {|
  address := later_string m.(address) a.(address);
  approvals := m.(approvals) ++ a.(approvals);
|}.

(** A whole message seen as a partial one. *)
Definition full (m : t) : partial := {|
  p_address := Some m.(address);
  p_approvals := Some (map Grant.full m.(approvals));
|}.

(** The message as its [.proto] file declares it. *)
Definition schema (m : t) : list field :=
  [implicit 1 (VString m.(address));
   repeated 2 (message_value Grant.schema) m.(approvals)].

(** The message with its default for every property that is not kept. *)
Definition only (kept : string → bool) (m : t) : t := {|
  address := if kept "address" then m.(address) else "";
  approvals := if kept "approvals" then m.(approvals) else [];
|}.

#[global] Instance codec {PB : Protobuf} : MessageCodec t :=
  {| msg_base := base; msg_encode := encode; msg_field := decode_field |}.

#[global] Program Instance spec {PB : Protobuf} (PS : ProtobufSpec PB) : MessageSpec PS t :=
  {| msg_wire := wire; msg_valid := valid; msg_merge := merge |}.
Next Obligation. solve_encode_wire. Qed.
Next Obligation. solve_decode_wire. Qed.
Next Obligation. solve_merge_base. Qed.
Next Obligation. intros. solve_advances decode_field. Qed.

#[global] Program Instance data : MessageData t partial :=
  {| msg_fromJSON := fromJSON; msg_toJSON := toJSON;
     msg_fromPartial := fromPartial; msg_full := full |}.
Next Obligation. solve_json fromJSON toJSON. Qed.
Next Obligation. solve_partial fromPartial full. Qed.

#[global] Instance schema_wire {PB : Protobuf} {PS : ProtobufSpec PB} : WireSchema wire schema.
Proof. solve_schema_wire wire schema. Qed.

#[global] Instance schema_merge : MergeSchema merge schema.
Proof. solve_schema_merge merge schema. Qed.

(** Its row in the table of message types. *)
Definition message {PB : Protobuf} {PS : ProtobufSpec PB} : message_type :=
  plain_message "PendingAccountRevocation" nothing true schema only.

#[global] Instance message_lawful {PB : Protobuf} (PS : ProtobufSpec PB) : Lawful message.
Proof. solve_lawful decode_field fromJSON only. Qed.

End PendingAccountRevocation.

(** ** [RejectedAccount] (dclauth/rejected_account.js) *)

Module RejectedAccount.

Record t := mk {
  account : option Account.t;
}.

#[global] Instance t_eta : Settable t := λ m, mk m.(account).

Definition base : t := mk None.

Definition encode {PB : Protobuf} (message : t) (writer : Writer) : result Writer :=
  Ok writer
  @>= defined_e message.(account) (submessage 10 Account.encode).

Definition decode_field {PB : Protobuf} (tag : Z) (message : t) : RM t :=
  match field_number tag with
  | 1 => v ← read_nested Account.decode; mret (message <| account := Some v |>)
  | _ => _ ← skipType (wire_type tag); mret message
  end.

Definition decode {PB : Protobuf} (length : option Z) : RM t :=
  decode_message length base decode_field.

Definition fromJSON (object : js) : result t :=
  account' ← field_or object "account" (to_some Account.fromJSON) None;
  Ok (mk account').

Definition toJSON (message : t) : js :=
  Obj (prop_opt "account" Account.toJSON message.(account)).

Record partial := mkPartial {
  p_account : option Account.partial;
}.

Definition fromPartial (object : partial) : t := {|
  account := Account.fromPartial <$> object.(p_account);
|}.

(** The object with no property given. *)
Definition nothing : partial := mkPartial None.

(** The bytes [encode] writes. *)
Definition wire {PB : Protobuf} {PS : ProtobufSpec PB} (m : t) : bytes :=
  f_message 10 Account.wire m.(account).

Definition valid (m : t) : Prop :=
  from_option Account.valid True m.(account).

(** The byte fields hold arrays, as the interface declares. *)
Definition typed (m : t) : bool := from_option Account.typed true m.(account).

(** The message without its empty byte arrays. *)
Definition normal (m : t) : t := {|
  account := Account.normal <$> m.(account);
|}.

Definition encodable {PB : Protobuf} {PS : ProtobufSpec PB} (m : t) : Prop :=
  typed m = true ∧ valid m ∧ small (wire m).

Definition merge (m a : t) : t := {|
  account := later_message m.(account) (Account.normal <$> a.(account));
|}.

(** A whole message seen as a partial one. *)
Definition full (m : t) : partial := {|
  p_account := Account.full <$> m.(account);
|}.

(** The message as its [.proto] file declares it. *)
Definition schema (m : t) : list field :=
  [singular 1 Optional (message_value Account.schema) m.(account)].

(** The message with its default for every property that is not kept. *)
Definition only (kept : string → bool) (m : t) : t := {|
  account := if kept "account" then m.(account) else None;
|}.

#[global] Instance codec {PB : Protobuf} : FallibleCodec t :=
  {| fmsg_base := base; fmsg_encode := encode; fmsg_field := decode_field |}.

#[global] Program Instance spec {PB : Protobuf} (PS : ProtobufSpec PB) : FallibleSpec PS t :=
  {| fmsg_wire := wire; fmsg_valid := valid; fmsg_typed := typed; fmsg_normal := normal;
     fmsg_merge := merge |}.
Next Obligation. solve_fencode_wire. Qed.
Next Obligation. intros. solve_fencode_throws encode typed. Qed.
Next Obligation. solve_fdecode_wire. Qed.
Next Obligation. solve_fmerge_base. Qed.
Next Obligation. intros. solve_fadvances decode_field. Qed.

#[global] Program Instance given_ : FalliblePartial t partial :=
  {| fmsg_fromPartial := fromPartial; fmsg_full := full; fmsg_given := typed |}.
Next Obligation. solve_fgiven fromPartial typed. Qed.
Next Obligation. solve_fpartial fromPartial full typed. Qed.

#[global] Program Instance json : FallibleJson t :=
  {| fmsg_fromJSON := fromJSON; fmsg_toJSON := toJSON;
     fmsg_named := fun _ => true; fmsg_known := fun m => m |}.
Next Obligation. solve_fjson fromJSON toJSON. Qed.
Next Obligation. reflexivity. Qed.

#[global] Instance schema_wire {PB : Protobuf} {PS : ProtobufSpec PB} : WireSchema wire schema.
Proof. solve_schema_wire wire schema. Qed.

#[global] Instance schema_normal : NormalSchema normal schema.
Proof. solve_schema_normal normal schema. Qed.

#[global] Instance schema_merge : MergeSchema merge schema.
Proof. solve_schema_merge merge schema. Qed.

(** Its row in the table of message types. *)
Definition message {PB : Protobuf} {PS : ProtobufSpec PB} : message_type :=
  fallible_message "RejectedAccount" nothing true schema only.

#[global] Instance message_lawful {PB : Protobuf} (PS : ProtobufSpec PB) : Lawful message.
Proof. solve_lawful decode_field fromJSON only. Qed.

End RejectedAccount.

(** ** [RevokedAccount_Reason] (dclauth/revoked_account.js)

    The enumeration is a number; [UNRECOGNIZED] is -1. *)

Definition TrusteeVoting : number := 0.
Definition MaliciousValidator : number := 1.
Definition UNRECOGNIZED : number := -1.

Definition revokedAccount_ReasonFromJSON (object : js) : result number :=
  Ok (match object with
      | Num (Int 0) => TrusteeVoting
      | Num (Int 1) => MaliciousValidator
      | Str s =>
          if String.eqb s "TrusteeVoting" then TrusteeVoting
          else if String.eqb s "MaliciousValidator" then MaliciousValidator
          else UNRECOGNIZED
      | _ => UNRECOGNIZED
      end).

Definition revokedAccount_ReasonToJSON (object : number) : string :=
  match object with
  | Int 0 => "TrusteeVoting"
  | Int 1 => "MaliciousValidator"
  | _ => "UNKNOWN"
  end.

(** The numbers that have a name. *)
Definition revokedAccount_Reason_named (n : number) : bool :=
  bool_decide (n ∈ [TrusteeVoting; MaliciousValidator; UNRECOGNIZED]).

(** What is read back of a number. *)
Definition revokedAccount_Reason_known (n : number) : number :=
  if revokedAccount_Reason_named n then n else UNRECOGNIZED.

Lemma revokedAccount_Reason_json n :
  revokedAccount_ReasonFromJSON (Str (revokedAccount_ReasonToJSON n)) =
    Ok (revokedAccount_Reason_known n).
Proof.
  solve_enum n revokedAccount_Reason_named revokedAccount_Reason_known revokedAccount_ReasonToJSON.
Qed.

Lemma revokedAccount_Reason_member n :
  revokedAccount_Reason_named n = true → revokedAccount_Reason_known n = n.
Proof. intros H. unfold revokedAccount_Reason_known. by rewrite H. Qed.

Arguments revokedAccount_ReasonFromJSON : simpl never.

#[export] Hint Rewrite revokedAccount_Reason_json : named.
#[export] Hint Rewrite revokedAccount_Reason_member using assumption : member.

(** ** [RevokedAccount] (dclauth/revoked_account.js) *)

Module RevokedAccount.

Record t := mk {
  account : option Account.t;
  revokeApprovals : list Grant.t;
  reason : number;
}.

#[global] Instance t_eta : Settable t := λ m, mk m.(account) m.(revokeApprovals) m.(reason).

Definition base : t := mk None [] 0.

Definition encode {PB : Protobuf} (message : t) (writer : Writer) : result Writer :=
  Ok writer
  @>= defined_e message.(account) (submessage 10 Account.encode)
  @>= pure (each message.(revokeApprovals) (fun v w => w @> uint32 18 @> fork @> Grant.encode v @> ldelim))
  @>= pure (when (num_neq message.(reason) 0) (fun w => w @> uint32 24 @> int32 message.(reason))).

Definition decode_field {PB : Protobuf} (tag : Z) (message : t) : RM t :=
  match field_number tag with
  | 1 => v ← read_nested Account.decode; mret (message <| account := Some v |>)
  | 2 => v ← read_nested Grant.decode;
         mret (message <| revokeApprovals := message.(revokeApprovals) ++ [v] |>)
  | 3 => v ← read_int32; mret (message <| reason := Int v |>)
  | _ => _ ← skipType (wire_type tag); mret message
  end.

Definition decode {PB : Protobuf} (length : option Z) : RM t :=
  decode_message length base decode_field.

Definition fromJSON (object : js) : result t :=
  account' ← field_or object "account" (to_some Account.fromJSON) None;
  revokeApprovals' ← field_or object "revokeApprovals" (to_list Grant.fromJSON) [];
  reason' ← field_or object "reason" revokedAccount_ReasonFromJSON 0;
  Ok (mk account' revokeApprovals' reason').

Definition toJSON (message : t) : js :=
  Obj (prop_opt "account" Account.toJSON message.(account) ++
   [("revokeApprovals", Arr (map Grant.toJSON message.(revokeApprovals)));
    ("reason", Str (revokedAccount_ReasonToJSON message.(reason)))]).

Record partial := mkPartial {
  p_account : option Account.partial;
  p_revokeApprovals : option (list Grant.partial);
  p_reason : option number;
}.

Definition fromPartial (object : partial) : t := {|
  account := Account.fromPartial <$> object.(p_account);
  revokeApprovals := map Grant.fromPartial (object.(p_revokeApprovals) ?? []);
  reason := object.(p_reason) ?? Int 0;
|}.

(** The object with no property given. *)
Definition nothing : partial := mkPartial None None None.

(** The bytes [encode] writes. *)
Definition wire {PB : Protobuf} {PS : ProtobufSpec PB} (m : t) : bytes :=
  f_message 10 Account.wire m.(account) ++
  f_repeated 18 Grant.wire m.(revokeApprovals) ++
  f_number e_int32 24 m.(reason).

Definition valid (m : t) : Prop :=
  from_option Account.valid True m.(account) ∧ Forall Grant.valid m.(revokeApprovals) ∧ int32_ok m.(reason).

(** The byte fields hold arrays, as the interface declares. *)
Definition typed (m : t) : bool := from_option Account.typed true m.(account).

(** The message without its empty byte arrays. *)
Definition normal (m : t) : t := {|
  account := Account.normal <$> m.(account);
  revokeApprovals := m.(revokeApprovals);
  reason := m.(reason);
|}.

(** The enumeration fields hold members. *)
Definition named (m : t) : bool := revokedAccount_Reason_named m.(reason).

(** The message with the numbers [toJSON] does not know replaced. *)
Definition known (m : t) : t := {|
  account := m.(account);
  revokeApprovals := m.(revokeApprovals);
  reason := revokedAccount_Reason_known m.(reason);
|}.

Definition encodable {PB : Protobuf} {PS : ProtobufSpec PB} (m : t) : Prop :=
  typed m = true ∧ valid m ∧ small (wire m).

Definition merge (m a : t) : t := {|
  account := later_message m.(account) (Account.normal <$> a.(account));
  revokeApprovals := m.(revokeApprovals) ++ a.(revokeApprovals);
  reason := later_number m.(reason) a.(reason);
|}.

(** A whole message seen as a partial one. *)
Definition full (m : t) : partial := {|
  p_account := Account.full <$> m.(account);
  p_revokeApprovals := Some (map Grant.full m.(revokeApprovals));
  p_reason := Some m.(reason);
|}.

(** The message as its [.proto] file declares it. *)
Definition schema (m : t) : list field :=
  [singular 1 Optional (message_value Account.schema) m.(account);
   repeated 2 (message_value Grant.schema) m.(revokeApprovals);
   implicit 3 (VInt Int32 m.(reason))].

(** The message with its default for every property that is not kept. *)
Definition only (kept : string → bool) (m : t) : t := {|
  account := if kept "account" then m.(account) else None;
  revokeApprovals := if kept "revokeApprovals" then m.(revokeApprovals) else [];
  reason := if kept "reason" then m.(reason) else Int 0;
|}.

#[global] Instance codec {PB : Protobuf} : FallibleCodec t :=
  {| fmsg_base := base; fmsg_encode := encode; fmsg_field := decode_field |}.

#[global] Program Instance spec {PB : Protobuf} (PS : ProtobufSpec PB) : FallibleSpec PS t :=
  {| fmsg_wire := wire; fmsg_valid := valid; fmsg_typed := typed; fmsg_normal := normal;
     fmsg_merge := merge |}.
Next Obligation. solve_fencode_wire. Qed.
Next Obligation. intros. solve_fencode_throws encode typed. Qed.
Next Obligation. solve_fdecode_wire. Qed.
Next Obligation. solve_fmerge_base. Qed.
Next Obligation. intros. solve_fadvances decode_field. Qed.

#[global] Program Instance given_ : FalliblePartial t partial :=
  {| fmsg_fromPartial := fromPartial; fmsg_full := full; fmsg_given := typed |}.
Next Obligation. solve_fgiven fromPartial typed. Qed.
Next Obligation. solve_fpartial fromPartial full typed. Qed.

#[global] Program Instance json : FallibleJson t :=
  {| fmsg_fromJSON := fromJSON; fmsg_toJSON := toJSON;
     fmsg_named := named; fmsg_known := known |}.
Next Obligation. solve_fjson fromJSON toJSON. Qed.
Next Obligation. solve_known named known. Qed.

#[global] Instance schema_wire {PB : Protobuf} {PS : ProtobufSpec PB} : WireSchema wire schema.
Proof. solve_schema_wire wire schema. Qed.

#[global] Instance schema_normal : NormalSchema normal schema.
Proof. solve_schema_normal normal schema. Qed.

#[global] Instance schema_merge : MergeSchema merge schema.
Proof. solve_schema_merge merge schema. Qed.

(** Its row in the table of message types. *)
Definition message {PB : Protobuf} {PS : ProtobufSpec PB} : message_type :=
  fallible_message "RevokedAccount" nothing true schema only.

#[global] Instance message_lawful {PB : Protobuf} (PS : ProtobufSpec PB) : Lawful message.
Proof. solve_lawful decode_field fromJSON only. Qed.

End RevokedAccount.

(** ** [AccountStat] (dclauth/account_stat.js) *)

Module AccountStat.

Record t := mk {
  number_ : number;
}.

#[global] Instance t_eta : Settable t := λ m, mk m.(number_).

Definition base : t := mk 0.

Definition encode {PB : Protobuf} (message : t) (writer : Writer) : Writer :=
  writer
  @> when (num_neq message.(number_) 0) (fun w => w @> uint32 8 @> uint64 message.(number_)).

Definition decode_field {PB : Protobuf} (tag : Z) (message : t) : RM t :=
  match field_number tag with
  | 1 => v ← read_number read_uint64; mret (message <| number_ := v |>)
  | _ => _ ← skipType (wire_type tag); mret message
  end.

Definition decode {PB : Protobuf} (length : option Z) : RM t :=
  decode_message length base decode_field.

Definition fromJSON (object : js) : result t :=
  number_' ← field_or object "number" js_Number 0;
  Ok (mk number_').

Definition toJSON (message : t) : js :=
  Obj ([("number", Num message.(number_))]).

Record partial := mkPartial {
  p_number : option number;
}.

Definition fromPartial (object : partial) : t := {|
  number_ := object.(p_number) ?? Int 0;
|}.

(** The object with no property given. *)
Definition nothing : partial := mkPartial None.

(** The bytes [encode] writes. *)
Definition wire {PB : Protobuf} {PS : ProtobufSpec PB} (m : t) : bytes :=
  f_number e_uint64 8 m.(number_).

Definition valid (m : t) : Prop :=
  uint64_ok m.(number_).

Definition encodable {PB : Protobuf} {PS : ProtobufSpec PB} (m : t) : Prop :=
  valid m ∧ small (wire m).

Definition merge (m a : t) : t := {|
  number_ := later_number m.(number_) a.(number_);
|}.

(** A whole message seen as a partial one. *)
Definition full (m : t) : partial := {|
  p_number := Some m.(number_);
|}.

(** The message as its [.proto] file declares it. *)
Definition schema (m : t) : list field :=
  [implicit 1 (VInt Uint64 m.(number_))].

(** The message with its default for every property that is not kept. *)
Definition only (kept : string → bool) (m : t) : t := {|
  number_ := if kept "number" then m.(number_) else Int 0;
|}.

#[global] Instance codec {PB : Protobuf} : MessageCodec t :=
  {| msg_base := base; msg_encode := encode; msg_field := decode_field |}.

#[global] Program Instance spec {PB : Protobuf} (PS : ProtobufSpec PB) : MessageSpec PS t :=
  {| msg_wire := wire; msg_valid := valid; msg_merge := merge |}.
Next Obligation. solve_encode_wire. Qed.
Next Obligation. solve_decode_wire. Qed.
Next Obligation. solve_merge_base. Qed.
Next Obligation. intros. solve_advances decode_field. Qed.

#[global] Program Instance data : MessageData t partial :=
  {| msg_fromJSON := fromJSON; msg_toJSON := toJSON;
     msg_fromPartial := fromPartial; msg_full := full |}.
Next Obligation. solve_json fromJSON toJSON. Qed.
Next Obligation. solve_partial fromPartial full. Qed.

#[global] Instance schema_wire {PB : Protobuf} {PS : ProtobufSpec PB} : WireSchema wire schema.
Proof. solve_schema_wire wire schema. Qed.

#[global] Instance schema_merge : MergeSchema merge schema.
Proof. solve_schema_merge merge schema. Qed.

(** Its row in the table of message types. *)
Definition message {PB : Protobuf} {PS : ProtobufSpec PB} : message_type :=
  plain_message "AccountStat" nothing true schema only.

#[global] Instance message_lawful {PB : Protobuf} (PS : ProtobufSpec PB) : Lawful message.
Proof. solve_lawful decode_field fromJSON only. Qed.

End AccountStat.

(** ** [MsgProposeAddAccount] (dclauth/tx.js) *)

Module MsgProposeAddAccount.

Record t := mk {
  signer : string;
  address : string;
  pubKey : option Any.t;
  roles : list string;
  vendorID : number;
  info : string;
  time : number;
}.

#[global] Instance t_eta : Settable t := λ m, mk m.(signer) m.(address) m.(pubKey) m.(roles)
  m.(vendorID) m.(info) m.(time).

Definition base : t := mk "" "" None [] 0 "" 0.

Definition encode {PB : Protobuf} (message : t) (writer : Writer) : result Writer :=
  Ok writer
  @>= pure (when (str_neq message.(signer) "") (fun w => w @> uint32 10 @> string_ message.(signer)))
  @>= pure (when (str_neq message.(address) "")
       (fun w => w @> uint32 18 @> string_ message.(address)))
  @>= defined_e message.(pubKey) (submessage 26 Any.encode)
  @>= pure (each message.(roles) (fun v w => w @> uint32 34 @> string_ v))
  @>= pure (when (num_neq message.(vendorID) 0)
       (fun w => w @> uint32 40 @> int32 message.(vendorID)))
  @>= pure (when (str_neq message.(info) "") (fun w => w @> uint32 50 @> string_ message.(info)))
  @>= pure (when (num_neq message.(time) 0) (fun w => w @> uint32 56 @> int64 message.(time))).

Definition decode_field {PB : Protobuf} (tag : Z) (message : t) : RM t :=
  match field_number tag with
  | 1 => v ← read_string; mret (message <| signer := v |>)
  | 2 => v ← read_string; mret (message <| address := v |>)
  | 3 => v ← read_nested Any.decode; mret (message <| pubKey := Some v |>)
  | 4 => v ← read_string; mret (message <| roles := message.(roles) ++ [v] |>)
  | 5 => v ← read_int32; mret (message <| vendorID := Int v |>)
  | 6 => v ← read_string; mret (message <| info := v |>)
  | 7 => v ← read_number read_int64; mret (message <| time := v |>)
  | _ => _ ← skipType (wire_type tag); mret message
  end.

Definition decode {PB : Protobuf} (length : option Z) : RM t :=
  decode_message length base decode_field.

Definition fromJSON (object : js) : result t :=
  signer' ← field_or object "signer" to_string "";
  address' ← field_or object "address" to_string "";
  pubKey' ← field_or object "pubKey" (to_some Any.fromJSON) None;
  roles' ← field_or object "roles" (to_list to_string) [];
  vendorID' ← field_or object "vendorID" js_Number 0;
  info' ← field_or object "info" to_string "";
  time' ← field_or object "time" js_Number 0;
  Ok (mk signer' address' pubKey' roles' vendorID' info' time').

Definition toJSON (message : t) : js :=
  Obj ([("signer", Str message.(signer));
    ("address", Str message.(address))] ++
   prop_opt "pubKey" Any.toJSON message.(pubKey) ++
   [("roles", Arr (map Str message.(roles)));
    ("vendorID", Num message.(vendorID));
    ("info", Str message.(info));
    ("time", Num message.(time))]).

Record partial := mkPartial {
  p_signer : option string;
  p_address : option string;
  p_pubKey : option Any.partial;
  p_roles : option (list string);
  p_vendorID : option number;
  p_info : option string;
  p_time : option number;
}.

Definition fromPartial (object : partial) : t := {|
  signer := object.(p_signer) ?? "";
  address := object.(p_address) ?? "";
  pubKey := Any.fromPartial <$> object.(p_pubKey);
  roles := (object.(p_roles) ?? []);
  vendorID := object.(p_vendorID) ?? Int 0;
  info := object.(p_info) ?? "";
  time := object.(p_time) ?? Int 0;
|}.

(** The object with no property given. *)
Definition nothing : partial := mkPartial None None None None None None None.

(** The bytes [encode] writes. *)
Definition wire {PB : Protobuf} {PS : ProtobufSpec PB} (m : t) : bytes :=
  f_string 10 m.(signer) ++
  f_string 18 m.(address) ++
  f_message 26 Any.wire m.(pubKey) ++
  f_repeated 34 chars m.(roles) ++
  f_number e_int32 40 m.(vendorID) ++
  f_string 50 m.(info) ++
  f_number e_int64 56 m.(time).

Definition valid (m : t) : Prop :=
  from_option Any.valid True m.(pubKey) ∧ int32_ok m.(vendorID) ∧ int64_ok m.(time).

(** The byte fields hold arrays, as the interface declares. *)
Definition typed (m : t) : bool := from_option Any.typed true m.(pubKey).

(** The message without its empty byte arrays. *)
Definition normal (m : t) : t := {|
  signer := m.(signer);
  address := m.(address);
  pubKey := Any.normal <$> m.(pubKey);
  roles := m.(roles);
  vendorID := m.(vendorID);
  info := m.(info);
  time := m.(time);
|}.

Definition encodable {PB : Protobuf} {PS : ProtobufSpec PB} (m : t) : Prop :=
  typed m = true ∧ valid m ∧ small (wire m).

Definition merge (m a : t) : t := {|
  signer := later_string m.(signer) a.(signer);
  address := later_string m.(address) a.(address);
  pubKey := later_message m.(pubKey) (Any.normal <$> a.(pubKey));
  roles := m.(roles) ++ a.(roles);
  vendorID := later_number m.(vendorID) a.(vendorID);
  info := later_string m.(info) a.(info);
  time := later_number m.(time) a.(time);
|}.

(** A whole message seen as a partial one. *)
Definition full (m : t) : partial := {|
  p_signer := Some m.(signer);
  p_address := Some m.(address);
  p_pubKey := Any.full <$> m.(pubKey);
  p_roles := Some m.(roles);
  p_vendorID := Some m.(vendorID);
  p_info := Some m.(info);
  p_time := Some m.(time);
|}.

(** The message as its [.proto] file declares it. *)
Definition schema (m : t) : list field :=
  [implicit 1 (VString m.(signer));
   implicit 2 (VString m.(address));
   singular 3 Optional (message_value Any.schema) m.(pubKey);
   repeated 4 VString m.(roles);
   implicit 5 (VInt Int32 m.(vendorID));
   implicit 6 (VString m.(info));
   implicit 7 (VInt Int64 m.(time))].

(** The message with its default for every property that is not kept. *)
Definition only (kept : string → bool) (m : t) : t := {|
  signer := if kept "signer" then m.(signer) else "";
  address := if kept "address" then m.(address) else "";
  pubKey := if kept "pubKey" then m.(pubKey) else None;
  roles := if kept "roles" then m.(roles) else [];
  vendorID := if kept "vendorID" then m.(vendorID) else Int 0;
  info := if kept "info" then m.(info) else "";
  time := if kept "time" then m.(time) else Int 0;
|}.

#[global] Instance codec {PB : Protobuf} : FallibleCodec t :=
  {| fmsg_base := base; fmsg_encode := encode; fmsg_field := decode_field |}.

#[global] Program Instance spec {PB : Protobuf} (PS : ProtobufSpec PB) : FallibleSpec PS t :=
  {| fmsg_wire := wire; fmsg_valid := valid; fmsg_typed := typed; fmsg_normal := normal;
     fmsg_merge := merge |}.
Next Obligation. solve_fencode_wire. Qed.
Next Obligation. intros. solve_fencode_throws encode typed. Qed.
Next Obligation. solve_fdecode_wire. Qed.
Next Obligation. solve_fmerge_base. Qed.
Next Obligation. intros. solve_fadvances decode_field. Qed.

#[global] Program Instance given_ : FalliblePartial t partial :=
  {| fmsg_fromPartial := fromPartial; fmsg_full := full; fmsg_given := typed |}.
Next Obligation. solve_fgiven fromPartial typed. Qed.
Next Obligation. solve_fpartial fromPartial full typed. Qed.

#[global] Program Instance json : FallibleJson t :=
  {| fmsg_fromJSON := fromJSON; fmsg_toJSON := toJSON;
     fmsg_named := fun _ => true; fmsg_known := fun m => m |}.
Next Obligation. solve_fjson fromJSON toJSON. Qed.
Next Obligation. reflexivity. Qed.

#[global] Instance schema_wire {PB : Protobuf} {PS : ProtobufSpec PB} : WireSchema wire schema.
Proof. solve_schema_wire wire schema. Qed.

#[global] Instance schema_normal : NormalSchema normal schema.
Proof. solve_schema_normal normal schema. Qed.

#[global] Instance schema_merge : MergeSchema merge schema.
Proof. solve_schema_merge merge schema. Qed.

(** Its row in the table of message types. *)
Definition message {PB : Protobuf} {PS : ProtobufSpec PB} : message_type :=
  fallible_message "MsgProposeAddAccount" nothing true schema only.

#[global] Instance message_lawful {PB : Protobuf} (PS : ProtobufSpec PB) : Lawful message.
Proof. solve_lawful decode_field fromJSON only. Qed.

End MsgProposeAddAccount.

(** ** [MsgProposeAddAccountResponse] (dclauth/tx.js) *)

Module MsgProposeAddAccountResponse.

Record t := mk {}.

#[global] Instance t_eta : Settable t := λ m, m.

Definition base : t := mk.

Definition encode {PB : Protobuf} (message : t) (writer : Writer) : Writer :=
  writer.

Definition decode_field {PB : Protobuf} (tag : Z) (message : t) : RM t :=
  match field_number tag with
  | _ => _ ← skipType (wire_type tag); mret message
  end.

Definition decode {PB : Protobuf} (length : option Z) : RM t :=
  decode_message length base decode_field.

Definition fromJSON (object : js) : result t :=
  Ok base.

Definition toJSON (message : t) : js :=
  Obj [].

Record partial := mkPartial {}.

Definition fromPartial (object : partial) : t := base.

(** The object with no property given. *)
Definition nothing : partial := mkPartial.

(** The bytes [encode] writes. *)
Definition wire {PB : Protobuf} {PS : ProtobufSpec PB} (m : t) : bytes :=
  [].

Definition valid (m : t) : Prop :=
  True.

Definition encodable {PB : Protobuf} {PS : ProtobufSpec PB} (m : t) : Prop :=
  valid m ∧ small (wire m).

Definition merge (m a : t) : t := m.

(** A whole message seen as a partial one. *)
Definition full (m : t) : partial := mkPartial.

(** The message as its [.proto] file declares it. *)
Definition schema (m : t) : list field :=
  [].

(** The message with its default for every property that is not kept. *)
Definition only (kept : string → bool) (m : t) : t := m.

#[global] Instance codec {PB : Protobuf} : MessageCodec t :=
  {| msg_base := base; msg_encode := encode; msg_field := decode_field |}.

#[global] Program Instance spec {PB : Protobuf} (PS : ProtobufSpec PB) : MessageSpec PS t :=
  {| msg_wire := wire; msg_valid := valid; msg_merge := merge |}.
Next Obligation. solve_encode_wire. Qed.
Next Obligation. solve_decode_wire. Qed.
Next Obligation. solve_merge_base. Qed.
Next Obligation. intros. solve_advances decode_field. Qed.

#[global] Program Instance data : MessageData t partial :=
  {| msg_fromJSON := fromJSON; msg_toJSON := toJSON;
     msg_fromPartial := fromPartial; msg_full := full |}.
Next Obligation. solve_json fromJSON toJSON. Qed.
Next Obligation. solve_partial fromPartial full. Qed.

#[global] Instance schema_wire {PB : Protobuf} {PS : ProtobufSpec PB} : WireSchema wire schema.
Proof. solve_schema_wire wire schema. Qed.

#[global] Instance schema_merge : MergeSchema merge schema.
Proof. solve_schema_merge merge schema. Qed.

(** Its row in the table of message types. *)
Definition message {PB : Protobuf} {PS : ProtobufSpec PB} : message_type :=
  plain_message "MsgProposeAddAccountResponse" nothing false schema only.

#[global] Instance message_lawful {PB : Protobuf} (PS : ProtobufSpec PB) : Lawful message.
Proof. solve_lawful decode_field fromJSON only. Qed.

End MsgProposeAddAccountResponse.

(** ** [MsgApproveAddAccount] (dclauth/tx.js) *)

Module MsgApproveAddAccount.

Record t := mk {
  signer : string;
  address : string;
  info : string;
  time : number;
}.

#[global] Instance t_eta : Settable t := λ m, mk m.(signer) m.(address) m.(info) m.(time).

Definition base : t := mk "" "" "" 0.

Definition encode {PB : Protobuf} (message : t) (writer : Writer) : Writer :=
  writer
  @> when (str_neq message.(signer) "") (fun w => w @> uint32 10 @> string_ message.(signer))
  @> when (str_neq message.(address) "") (fun w => w @> uint32 18 @> string_ message.(address))
  @> when (str_neq message.(info) "") (fun w => w @> uint32 26 @> string_ message.(info))
  @> when (num_neq message.(time) 0) (fun w => w @> uint32 32 @> int64 message.(time)).

Definition decode_field {PB : Protobuf} (tag : Z) (message : t) : RM t :=
  match field_number tag with
  | 1 => v ← read_string; mret (message <| signer := v |>)
  | 2 => v ← read_string; mret (message <| address := v |>)
  | 3 => v ← read_string; mret (message <| info := v |>)
  | 4 => v ← read_number read_int64; mret (message <| time := v |>)
  | _ => _ ← skipType (wire_type tag); mret message
  end.

Definition decode {PB : Protobuf} (length : option Z) : RM t :=
  decode_message length base decode_field.

Definition fromJSON (object : js) : result t :=
  signer' ← field_or object "signer" to_string "";
  address' ← field_or object "address" to_string "";
  info' ← field_or object "info" to_string "";
  time' ← field_or object "time" js_Number 0;
  Ok (mk signer' address' info' time').

Definition toJSON (message : t) : js :=
  Obj ([("signer", Str message.(signer));
    ("address", Str message.(address));
    ("info", Str message.(info));
    ("time", Num message.(time))]).

Record partial := mkPartial {
  p_signer : option string;
  p_address : option string;
  p_info : option string;
  p_time : option number;
}.

Definition fromPartial (object : partial) : t := {|
  signer := object.(p_signer) ?? "";
  address := object.(p_address) ?? "";
  info := object.(p_info) ?? "";
  time := object.(p_time) ?? Int 0;
|}.

(** The object with no property given. *)
Definition nothing : partial := mkPartial None None None None.

(** The bytes [encode] writes. *)
Definition wire {PB : Protobuf} {PS : ProtobufSpec PB} (m : t) : bytes :=
  f_string 10 m.(signer) ++
  f_string 18 m.(address) ++
  f_string 26 m.(info) ++
  f_number e_int64 32 m.(time).

Definition valid (m : t) : Prop :=
  int64_ok m.(time).

Definition encodable {PB : Protobuf} {PS : ProtobufSpec PB} (m : t) : Prop :=
  valid m ∧ small (wire m).

Definition merge (m a : t) : t := {|
  signer := later_string m.(signer) a.(signer);
  address := later_string m.(address) a.(address);
  info := later_string m.(info) a.(info);
  time := later_number m.(time) a.(time);
|}.

(** A whole message seen as a partial one. *)
Definition full (m : t) : partial := {|
  p_signer := Some m.(signer);
  p_address := Some m.(address);
  p_info := Some m.(info);
  p_time := Some m.(time);
|}.

(** The message as its [.proto] file declares it. *)
Definition schema (m : t) : list field :=
  [implicit 1 (VString m.(signer));
   implicit 2 (VString m.(address));
   implicit 3 (VString m.(info));
   implicit 4 (VInt Int64 m.(time))].

(** The message with its default for every property that is not kept. *)
Definition only (kept : string → bool) (m : t) : t := {|
  signer := if kept "signer" then m.(signer) else "";
  address := if kept "address" then m.(address) else "";
  info := if kept "info" then m.(info) else "";
  time := if kept "time" then m.(time) else Int 0;
|}.

#[global] Instance codec {PB : Protobuf} : MessageCodec t :=
  {| msg_base := base; msg_encode := encode; msg_field := decode_field |}.

#[global] Program Instance spec {PB : Protobuf} (PS : ProtobufSpec PB) : MessageSpec PS t :=
  {| msg_wire := wire; msg_valid := valid; msg_merge := merge |}.
Next Obligation. solve_encode_wire. Qed.
Next Obligation. solve_decode_wire. Qed.
Next Obligation. solve_merge_base. Qed.
Next Obligation. intros. solve_advances decode_field. Qed.

#[global] Program Instance data : MessageData t partial :=
  {| msg_fromJSON := fromJSON; msg_toJSON := toJSON;
     msg_fromPartial := fromPartial; msg_full := full |}.
Next Obligation. solve_json fromJSON toJSON. Qed.
Next Obligation. solve_partial fromPartial full. Qed.

#[global] Instance schema_wire {PB : Protobuf} {PS : ProtobufSpec PB} : WireSchema wire schema.
Proof. solve_schema_wire wire schema. Qed.

#[global] Instance schema_merge : MergeSchema merge schema.
Proof. solve_schema_merge merge schema. Qed.

(** Its row in the table of message types. *)
Definition message {PB : Protobuf} {PS : ProtobufSpec PB} : message_type :=
  plain_message "MsgApproveAddAccount" nothing true schema only.

#[global] Instance message_lawful {PB : Protobuf} (PS : ProtobufSpec PB) : Lawful message.
Proof. solve_lawful decode_field fromJSON only. Qed.

End MsgApproveAddAccount.

(** ** [MsgApproveAddAccountResponse] (dclauth/tx.js) *)

Module MsgApproveAddAccountResponse.

Record t := mk {}.

#[global] Instance t_eta : Settable t := λ m, m.

Definition base : t := mk.

Definition encode {PB : Protobuf} (message : t) (writer : Writer) : Writer :=
  writer.

Definition decode_field {PB : Protobuf} (tag : Z) (message : t) : RM t :=
  match field_number tag with
  | _ => _ ← skipType (wire_type tag); mret message
  end.

Definition decode {PB : Protobuf} (length : option Z) : RM t :=
  decode_message length base decode_field.

Definition fromJSON (object : js) : result t :=
  Ok base.

Definition toJSON (message : t) : js :=
  Obj [].

Record partial := mkPartial {}.

Definition fromPartial (object : partial) : t := base.

(** The object with no property given. *)
Definition nothing : partial := mkPartial.

(** The bytes [encode] writes. *)
Definition wire {PB : Protobuf} {PS : ProtobufSpec PB} (m : t) : bytes :=
  [].

Definition valid (m : t) : Prop :=
  True.

Definition encodable {PB : Protobuf} {PS : ProtobufSpec PB} (m : t) : Prop :=
  valid m ∧ small (wire m).

Definition merge (m a : t) : t := m.

(** A whole message seen as a partial one. *)
Definition full (m : t) : partial := mkPartial.

(** The message as its [.proto] file declares it. *)
Definition schema (m : t) : list field :=
  [].

(** The message with its default for every property that is not kept. *)
Definition only (kept : string → bool) (m : t) : t := m.

#[global] Instance codec {PB : Protobuf} : MessageCodec t :=
  {| msg_base := base; msg_encode := encode; msg_field := decode_field |}.

#[global] Program Instance spec {PB : Protobuf} (PS : ProtobufSpec PB) : MessageSpec PS t :=
  {| msg_wire := wire; msg_valid := valid; msg_merge := merge |}.
Next Obligation. solve_encode_wire. Qed.
Next Obligation. solve_decode_wire. Qed.
Next Obligation. solve_merge_base. Qed.
Next Obligation. intros. solve_advances decode_field. Qed.

#[global] Program Instance data : MessageData t partial :=
  {| msg_fromJSON := fromJSON; msg_toJSON := toJSON;
     msg_fromPartial := fromPartial; msg_full := full |}.
Next Obligation. solve_json fromJSON toJSON. Qed.
Next Obligation. solve_partial fromPartial full. Qed.

#[global] Instance schema_wire {PB : Protobuf} {PS : ProtobufSpec PB} : WireSchema wire schema.
Proof. solve_schema_wire wire schema. Qed.

#[global] Instance schema_merge : MergeSchema merge schema.
Proof. solve_schema_merge merge schema. Qed.

(** Its row in the table of message types. *)
Definition message {PB : Protobuf} {PS : ProtobufSpec PB} : message_type :=
  plain_message "MsgApproveAddAccountResponse" nothing false schema only.

#[global] Instance message_lawful {PB : Protobuf} (PS : ProtobufSpec PB) : Lawful message.
Proof. solve_lawful decode_field fromJSON only. Qed.

End MsgApproveAddAccountResponse.

(** ** [MsgProposeRevokeAccount] (dclauth/tx.js) *)

Module MsgProposeRevokeAccount.

Record t := mk {
  signer : string;
  address : string;
  info : string;
  time : number;
}.

#[global] Instance t_eta : Settable t := λ m, mk m.(signer) m.(address) m.(info) m.(time).

Definition base : t := mk "" "" "" 0.

Definition encode {PB : Protobuf} (message : t) (writer : Writer) : Writer :=
  writer
  @> when (str_neq message.(signer) "") (fun w => w @> uint32 10 @> string_ message.(signer))
  @> when (str_neq message.(address) "") (fun w => w @> uint32 18 @> string_ message.(address))
  @> when (str_neq message.(info) "") (fun w => w @> uint32 26 @> string_ message.(info))
  @> when (num_neq message.(time) 0) (fun w => w @> uint32 32 @> int64 message.(time)).

Definition decode_field {PB : Protobuf} (tag : Z) (message : t) : RM t :=
  match field_number tag with
  | 1 => v ← read_string; mret (message <| signer := v |>)
  | 2 => v ← read_string; mret (message <| address := v |>)
  | 3 => v ← read_string; mret (message <| info := v |>)
  | 4 => v ← read_number read_int64; mret (message <| time := v |>)
  | _ => _ ← skipType (wire_type tag); mret message
  end.

Definition decode {PB : Protobuf} (length : option Z) : RM t :=
  decode_message length base decode_field.

Definition fromJSON (object : js) : result t :=
  signer' ← field_or object "signer" to_string "";
  address' ← field_or object "address" to_string "";
  info' ← field_or object "info" to_string "";
  time' ← field_or object "time" js_Number 0;
  Ok (mk signer' address' info' time').

Definition toJSON (message : t) : js :=
  Obj ([("signer", Str message.(signer));
    ("address", Str message.(address));
    ("info", Str message.(info));
    ("time", Num message.(time))]).

Record partial := mkPartial {
  p_signer : option string;
  p_address : option string;
  p_info : option string;
  p_time : option number;
}.

Definition fromPartial (object : partial) : t := {|
  signer := object.(p_signer) ?? "";
  address := object.(p_address) ?? "";
  info := object.(p_info) ?? "";
  time := object.(p_time) ?? Int 0;
|}.

(** The object with no property given. *)
Definition nothing : partial := mkPartial None None None None.

(** The bytes [encode] writes. *)
Definition wire {PB : Protobuf} {PS : ProtobufSpec PB} (m : t) : bytes :=
  f_string 10 m.(signer) ++
  f_string 18 m.(address) ++
  f_string 26 m.(info) ++
  f_number e_int64 32 m.(time).

Definition valid (m : t) : Prop :=
  int64_ok m.(time).

Definition encodable {PB : Protobuf} {PS : ProtobufSpec PB} (m : t) : Prop :=
  valid m ∧ small (wire m).

Definition merge (m a : t) : t := {|
  signer := later_string m.(signer) a.(signer);
  address := later_string m.(address) a.(address);
  info := later_string m.(info) a.(info);
  time := later_number m.(time) a.(time);
|}.

(** A whole message seen as a partial one. *)
Definition full (m : t) : partial := {|
  p_signer := Some m.(signer);
  p_address := Some m.(address);
  p_info := Some m.(info);
  p_time := Some m.(time);
|}.

(** The message as its [.proto] file declares it. *)
Definition schema (m : t) : list field :=
  [implicit 1 (VString m.(signer));
   implicit 2 (VString m.(address));
   implicit 3 (VString m.(info));
   implicit 4 (VInt Int64 m.(time))].

(** The message with its default for every property that is not kept. *)
Definition only (kept : string → bool) (m : t) : t := {|
  signer := if kept "signer" then m.(signer) else "";
  address := if kept "address" then m.(address) else "";
  info := if kept "info" then m.(info) else "";
  time := if kept "time" then m.(time) else Int 0;
|}.

#[global] Instance codec {PB : Protobuf} : MessageCodec t :=
  {| msg_base := base; msg_encode := encode; msg_field := decode_field |}.

#[global] Program Instance spec {PB : Protobuf} (PS : ProtobufSpec PB) : MessageSpec PS t :=
  {| msg_wire := wire; msg_valid := valid; msg_merge := merge |}.
Next Obligation. solve_encode_wire. Qed.
Next Obligation. solve_decode_wire. Qed.
Next Obligation. solve_merge_base. Qed.
Next Obligation. intros. solve_advances decode_field. Qed.

#[global] Program Instance data : MessageData t partial :=
  {| msg_fromJSON := fromJSON; msg_toJSON := toJSON;
     msg_fromPartial := fromPartial; msg_full := full |}.
Next Obligation. solve_json fromJSON toJSON. Qed.
Next Obligation. solve_partial fromPartial full. Qed.

#[global] Instance schema_wire {PB : Protobuf} {PS : ProtobufSpec PB} : WireSchema wire schema.
Proof. solve_schema_wire wire schema. Qed.

#[global] Instance schema_merge : MergeSchema merge schema.
Proof. solve_schema_merge merge schema. Qed.

(** Its row in the table of message types. *)
Definition message {PB : Protobuf} {PS : ProtobufSpec PB} : message_type :=
  plain_message "MsgProposeRevokeAccount" nothing true schema only.

#[global] Instance message_lawful {PB : Protobuf} (PS : ProtobufSpec PB) : Lawful message.
Proof. solve_lawful decode_field fromJSON only. Qed.

End MsgProposeRevokeAccount.

(** ** [MsgProposeRevokeAccountResponse] (dclauth/tx.js) *)

Module MsgProposeRevokeAccountResponse.

Record t := mk {}.

#[global] Instance t_eta : Settable t := λ m, m.

Definition base : t := mk.

Definition encode {PB : Protobuf} (message : t) (writer : Writer) : Writer :=
  writer.

Definition decode_field {PB : Protobuf} (tag : Z) (message : t) : RM t :=
  match field_number tag with
  | _ => _ ← skipType (wire_type tag); mret message
  end.

Definition decode {PB : Protobuf} (length : option Z) : RM t :=
  decode_message length base decode_field.

Definition fromJSON (object : js) : result t :=
  Ok base.

Definition toJSON (message : t) : js :=
  Obj [].

Record partial := mkPartial {}.

Definition fromPartial (object : partial) : t := base.

(** The object with no property given. *)
Definition nothing : partial := mkPartial.

(** The bytes [encode] writes. *)
Definition wire {PB : Protobuf} {PS : ProtobufSpec PB} (m : t) : bytes :=
  [].

Definition valid (m : t) : Prop :=
  True.

Definition encodable {PB : Protobuf} {PS : ProtobufSpec PB} (m : t) : Prop :=
  valid m ∧ small (wire m).

Definition merge (m a : t) : t := m.

(** A whole message seen as a partial one. *)
Definition full (m : t) : partial := mkPartial.

(** The message as its [.proto] file declares it. *)
Definition schema (m : t) : list field :=
  [].

(** The message with its default for every property that is not kept. *)
Definition only (kept : string → bool) (m : t) : t := m.

#[global] Instance codec {PB : Protobuf} : MessageCodec t :=
  {| msg_base := base; msg_encode := encode; msg_field := decode_field |}.

#[global] Program Instance spec {PB : Protobuf} (PS : ProtobufSpec PB) : MessageSpec PS t :=
  {| msg_wire := wire; msg_valid := valid; msg_merge := merge |}.
Next Obligation. solve_encode_wire. Qed.
Next Obligation. solve_decode_wire. Qed.
Next Obligation. solve_merge_base. Qed.
Next Obligation. intros. solve_advances decode_field. Qed.

#[global] Program Instance data : MessageData t partial :=
  {| msg_fromJSON := fromJSON; msg_toJSON := toJSON;
     msg_fromPartial := fromPartial; msg_full := full |}.
Next Obligation. solve_json fromJSON toJSON. Qed.
Next Obligation. solve_partial fromPartial full. Qed.

#[global] Instance schema_wire {PB : Protobuf} {PS : ProtobufSpec PB} : WireSchema wire schema.
Proof. solve_schema_wire wire schema. Qed.

#[global] Instance schema_merge : MergeSchema merge schema.
Proof. solve_schema_merge merge schema. Qed.

(** Its row in the table of message types. *)
Definition message {PB : Protobuf} {PS : ProtobufSpec PB} : message_type :=
  plain_message "MsgProposeRevokeAccountResponse" nothing false schema only.

#[global] Instance message_lawful {PB : Protobuf} (PS : ProtobufSpec PB) : Lawful message.
Proof. solve_lawful decode_field fromJSON only. Qed.

End MsgProposeRevokeAccountResponse.

(** ** [MsgApproveRevokeAccount] (dclauth/tx.js) *)

Module MsgApproveRevokeAccount.

Record t := mk {
  signer : string;
  address : string;
  info : string;
  time : number;
}.

#[global] Instance t_eta : Settable t := λ m, mk m.(signer) m.(address) m.(info) m.(time).

Definition base : t := mk "" "" "" 0.

Definition encode {PB : Protobuf} (message : t) (writer : Writer) : Writer :=
  writer
  @> when (str_neq message.(signer) "") (fun w => w @> uint32 10 @> string_ message.(signer))
  @> when (str_neq message.(address) "") (fun w => w @> uint32 18 @> string_ message.(address))
  @> when (str_neq message.(info) "") (fun w => w @> uint32 26 @> string_ message.(info))
  @> when (num_neq message.(time) 0) (fun w => w @> uint32 32 @> int64 message.(time)).

Definition decode_field {PB : Protobuf} (tag : Z) (message : t) : RM t :=
  match field_number tag with
  | 1 => v ← read_string; mret (message <| signer := v |>)
  | 2 => v ← read_string; mret (message <| address := v |>)
  | 3 => v ← read_string; mret (message <| info := v |>)
  | 4 => v ← read_number read_int64; mret (message <| time := v |>)
  | _ => _ ← skipType (wire_type tag); mret message
  end.

Definition decode {PB : Protobuf} (length : option Z) : RM t :=
  decode_message length base decode_field.

Definition fromJSON (object : js) : result t :=
  signer' ← field_or object "signer" to_string "";
  address' ← field_or object "address" to_string "";
  info' ← field_or object "info" to_string "";
  time' ← field_or object "time" js_Number 0;
  Ok (mk signer' address' info' time').

Definition toJSON (message : t) : js :=
  Obj ([("signer", Str message.(signer));
    ("address", Str message.(address));
    ("info", Str message.(info));
    ("time", Num message.(time))]).

Record partial := mkPartial {
  p_signer : option string;
  p_address : option string;
  p_info : option string;
  p_time : option number;
}.

Definition fromPartial (object : partial) : t := {|
  signer := object.(p_signer) ?? "";
  address := object.(p_address) ?? "";
  info := object.(p_info) ?? "";
  time := object.(p_time) ?? Int 0;
|}.

(** The object with no property given. *)
Definition nothing : partial := mkPartial None None None None.

(** The bytes [encode] writes. *)
Definition wire {PB : Protobuf} {PS : ProtobufSpec PB} (m : t) : bytes :=
  f_string 10 m.(signer) ++
  f_string 18 m.(address) ++
  f_string 26 m.(info) ++
  f_number e_int64 32 m.(time).

Definition valid (m : t) : Prop :=
  int64_ok m.(time).

Definition encodable {PB : Protobuf} {PS : ProtobufSpec PB} (m : t) : Prop :=
  valid m ∧ small (wire m).

Definition merge (m a : t) : t := {|
  signer := later_string m.(signer) a.(signer);
  address := later_string m.(address) a.(address);
  info := later_string m.(info) a.(info);
  time := later_number m.(time) a.(time);
|}.

(** A whole message seen as a partial one. *)
Definition full (m : t) : partial := {|
  p_signer := Some m.(signer);
  p_address := Some m.(address);
  p_info := Some m.(info);
  p_time := Some m.(time);
|}.

(** The message as its [.proto] file declares it. *)
Definition schema (m : t) : list field :=
  [implicit 1 (VString m.(signer));
   implicit 2 (VString m.(address));
   implicit 3 (VString m.(info));
   implicit 4 (VInt Int64 m.(time))].

(** The message with its default for every property that is not kept. *)
Definition only (kept : string → bool) (m : t) : t := {|
  signer := if kept "signer" then m.(signer) else "";
  address := if kept "address" then m.(address) else "";
  info := if kept "info" then m.(info) else "";
  time := if kept "time" then m.(time) else Int 0;
|}.

#[global] Instance codec {PB : Protobuf} : MessageCodec t :=
  {| msg_base := base; msg_encode := encode; msg_field := decode_field |}.

#[global] Program Instance spec {PB : Protobuf} (PS : ProtobufSpec PB) : MessageSpec PS t :=
  {| msg_wire := wire; msg_valid := valid; msg_merge := merge |}.
Next Obligation. solve_encode_wire. Qed.
Next Obligation. solve_decode_wire. Qed.
Next Obligation. solve_merge_base. Qed.
Next Obligation. intros. solve_advances decode_field. Qed.

#[global] Program Instance data : MessageData t partial :=
  {| msg_fromJSON := fromJSON; msg_toJSON := toJSON;
     msg_fromPartial := fromPartial; msg_full := full |}.
Next Obligation. solve_json fromJSON toJSON. Qed.
Next Obligation. solve_partial fromPartial full. Qed.

#[global] Instance schema_wire {PB : Protobuf} {PS : ProtobufSpec PB} : WireSchema wire schema.
Proof. solve_schema_wire wire schema. Qed.

#[global] Instance schema_merge : MergeSchema merge schema.
Proof. solve_schema_merge merge schema. Qed.

(** Its row in the table of message types. *)
Definition message {PB : Protobuf} {PS : ProtobufSpec PB} : message_type :=
  plain_message "MsgApproveRevokeAccount" nothing true schema only.

#[global] Instance message_lawful {PB : Protobuf} (PS : ProtobufSpec PB) : Lawful message.
Proof. solve_lawful decode_field fromJSON only. Qed.

End MsgApproveRevokeAccount.

(** ** [MsgApproveRevokeAccountResponse] (dclauth/tx.js) *)

Module MsgApproveRevokeAccountResponse.

Record t := mk {}.

#[global] Instance t_eta : Settable t := λ m, m.

Definition base : t := mk.

Definition encode {PB : Protobuf} (message : t) (writer : Writer) : Writer :=
  writer.

Definition decode_field {PB : Protobuf} (tag : Z) (message : t) : RM t :=
  match field_number tag with
  | _ => _ ← skipType (wire_type tag); mret message
  end.

Definition decode {PB : Protobuf} (length : option Z) : RM t :=
  decode_message length base decode_field.

Definition fromJSON (object : js) : result t :=
  Ok base.

Definition toJSON (message : t) : js :=
  Obj [].

Record partial := mkPartial {}.

Definition fromPartial (object : partial) : t := base.

(** The object with no property given. *)
Definition nothing : partial := mkPartial.

(** The bytes [encode] writes. *)
Definition wire {PB : Protobuf} {PS : ProtobufSpec PB} (m : t) : bytes :=
  [].

Definition valid (m : t) : Prop :=
  True.

Definition encodable {PB : Protobuf} {PS : ProtobufSpec PB} (m : t) : Prop :=
  valid m ∧ small (wire m).

Definition merge (m a : t) : t := m.

(** A whole message seen as a partial one. *)
Definition full (m : t) : partial := mkPartial.

(** The message as its [.proto] file declares it. *)
Definition schema (m : t) : list field :=
  [].

(** The message with its default for every property that is not kept. *)
Definition only (kept : string → bool) (m : t) : t := m.

#[global] Instance codec {PB : Protobuf} : MessageCodec t :=
  {| msg_base := base; msg_encode := encode; msg_field := decode_field |}.

#[global] Program Instance spec {PB : Protobuf} (PS : ProtobufSpec PB) : MessageSpec PS t :=
  {| msg_wire := wire; msg_valid := valid; msg_merge := merge |}.
Next Obligation. solve_encode_wire. Qed.
Next Obligation. solve_decode_wire. Qed.
Next Obligation. solve_merge_base. Qed.
Next Obligation. intros. solve_advances decode_field. Qed.

#[global] Program Instance data : MessageData t partial :=
  {| msg_fromJSON := fromJSON; msg_toJSON := toJSON;
     msg_fromPartial := fromPartial; msg_full := full |}.
Next Obligation. solve_json fromJSON toJSON. Qed.
Next Obligation. solve_partial fromPartial full. Qed.

#[global] Instance schema_wire {PB : Protobuf} {PS : ProtobufSpec PB} : WireSchema wire schema.
Proof. solve_schema_wire wire schema. Qed.

#[global] Instance schema_merge : MergeSchema merge schema.
Proof. solve_schema_merge merge schema. Qed.

(** Its row in the table of message types. *)
Definition message {PB : Protobuf} {PS : ProtobufSpec PB} : message_type :=
  plain_message "MsgApproveRevokeAccountResponse" nothing false schema only.

#[global] Instance message_lawful {PB : Protobuf} (PS : ProtobufSpec PB) : Lawful message.
Proof. solve_lawful decode_field fromJSON only. Qed.

End MsgApproveRevokeAccountResponse.

(** ** [MsgRejectAddAccount] (dclauth/tx.js) *)

Module MsgRejectAddAccount.

Record t := mk {
  signer : string;
  address : string;
  info : string;
  time : number;
}.

#[global] Instance t_eta : Settable t := λ m, mk m.(signer) m.(address) m.(info) m.(time).

Definition base : t := mk "" "" "" 0.

Definition encode {PB : Protobuf} (message : t) (writer : Writer) : Writer :=
  writer
  @> when (str_neq message.(signer) "") (fun w => w @> uint32 10 @> string_ message.(signer))
  @> when (str_neq message.(address) "") (fun w => w @> uint32 18 @> string_ message.(address))
  @> when (str_neq message.(info) "") (fun w => w @> uint32 26 @> string_ message.(info))
  @> when (num_neq message.(time) 0) (fun w => w @> uint32 32 @> int64 message.(time)).

Definition decode_field {PB : Protobuf} (tag : Z) (message : t) : RM t :=
  match field_number tag with
  | 1 => v ← read_string; mret (message <| signer := v |>)
  | 2 => v ← read_string; mret (message <| address := v |>)
  | 3 => v ← read_string; mret (message <| info := v |>)
  | 4 => v ← read_number read_int64; mret (message <| time := v |>)
  | _ => _ ← skipType (wire_type tag); mret message
  end.

Definition decode {PB : Protobuf} (length : option Z) : RM t :=
  decode_message length base decode_field.

Definition fromJSON (object : js) : result t :=
  signer' ← field_or object "signer" to_string "";
  address' ← field_or object "address" to_string "";
  info' ← field_or object "info" to_string "";
  time' ← field_or object "time" js_Number 0;
  Ok (mk signer' address' info' time').

Definition toJSON (message : t) : js :=
  Obj ([("signer", Str message.(signer));
    ("address", Str message.(address));
    ("info", Str message.(info));
    ("time", Num message.(time))]).

Record partial := mkPartial {
  p_signer : option string;
  p_address : option string;
  p_info : option string;
  p_time : option number;
}.

Definition fromPartial (object : partial) : t := {|
  signer := object.(p_signer) ?? "";
  address := object.(p_address) ?? "";
  info := object.(p_info) ?? "";
  time := object.(p_time) ?? Int 0;
|}.

(** The object with no property given. *)
Definition nothing : partial := mkPartial None None None None.

(** The bytes [encode] writes. *)
Definition wire {PB : Protobuf} {PS : ProtobufSpec PB} (m : t) : bytes :=
  f_string 10 m.(signer) ++
  f_string 18 m.(address) ++
  f_string 26 m.(info) ++
  f_number e_int64 32 m.(time).

Definition valid (m : t) : Prop :=
  int64_ok m.(time).

Definition encodable {PB : Protobuf} {PS : ProtobufSpec PB} (m : t) : Prop :=
  valid m ∧ small (wire m).

Definition merge (m a : t) : t := {|
  signer := later_string m.(signer) a.(signer);
  address := later_string m.(address) a.(address);
  info := later_string m.(info) a.(info);
  time := later_number m.(time) a.(time);
|}.

(** A whole message seen as a partial one. *)
Definition full (m : t) : partial := {|
  p_signer := Some m.(signer);
  p_address := Some m.(address);
  p_info := Some m.(info);
  p_time := Some m.(time);
|}.

(** The message as its [.proto] file declares it. *)
Definition schema (m : t) : list field :=
  [implicit 1 (VString m.(signer));
   implicit 2 (VString m.(address));
   implicit 3 (VString m.(info));
   implicit 4 (VInt Int64 m.(time))].

(** The message with its default for every property that is not kept. *)
Definition only (kept : string → bool) (m : t) : t := {|
  signer := if kept "signer" then m.(signer) else "";
  address := if kept "address" then m.(address) else "";
  info := if kept "info" then m.(info) else "";
  time := if kept "time" then m.(time) else Int 0;
|}.

#[global] Instance codec {PB : Protobuf} : MessageCodec t :=
  {| msg_base := base; msg_encode := encode; msg_field := decode_field |}.

#[global] Program Instance spec {PB : Protobuf} (PS : ProtobufSpec PB) : MessageSpec PS t :=
  {| msg_wire := wire; msg_valid := valid; msg_merge := merge |}.
Next Obligation. solve_encode_wire. Qed.
Next Obligation. solve_decode_wire. Qed.
Next Obligation. solve_merge_base. Qed.
Next Obligation. intros. solve_advances decode_field. Qed.

#[global] Program Instance data : MessageData t partial :=
  {| msg_fromJSON := fromJSON; msg_toJSON := toJSON;
     msg_fromPartial := fromPartial; msg_full := full |}.
Next Obligation. solve_json fromJSON toJSON. Qed.
Next Obligation. solve_partial fromPartial full. Qed.

#[global] Instance schema_wire {PB : Protobuf} {PS : ProtobufSpec PB} : WireSchema wire schema.
Proof. solve_schema_wire wire schema. Qed.

#[global] Instance schema_merge : MergeSchema merge schema.
Proof. solve_schema_merge merge schema. Qed.

(** Its row in the table of message types. *)
Definition message {PB : Protobuf} {PS : ProtobufSpec PB} : message_type :=
  plain_message "MsgRejectAddAccount" nothing true schema only.

#[global] Instance message_lawful {PB : Protobuf} (PS : ProtobufSpec PB) : Lawful message.
Proof. solve_lawful decode_field fromJSON only. Qed.

End MsgRejectAddAccount.

(** ** [MsgRejectAddAccountResponse] (dclauth/tx.js) *)

Module MsgRejectAddAccountResponse.

Record t := mk {}.

#[global] Instance t_eta : Settable t := λ m, m.

Definition base : t := mk.

Definition encode {PB : Protobuf} (message : t) (writer : Writer) : Writer :=
  writer.

Definition decode_field {PB : Protobuf} (tag : Z) (message : t) : RM t :=
  match field_number tag with
  | _ => _ ← skipType (wire_type tag); mret message
  end.

Definition decode {PB : Protobuf} (length : option Z) : RM t :=
  decode_message length base decode_field.

Definition fromJSON (object : js) : result t :=
  Ok base.

Definition toJSON (message : t) : js :=
  Obj [].

Record partial := mkPartial {}.

Definition fromPartial (object : partial) : t := base.

(** The object with no property given. *)
Definition nothing : partial := mkPartial.

(** The bytes [encode] writes. *)
Definition wire {PB : Protobuf} {PS : ProtobufSpec PB} (m : t) : bytes :=
  [].

Definition valid (m : t) : Prop :=
  True.

Definition encodable {PB : Protobuf} {PS : ProtobufSpec PB} (m : t) : Prop :=
  valid m ∧ small (wire m).

Definition merge (m a : t) : t := m.

(** A whole message seen as a partial one. *)
Definition full (m : t) : partial := mkPartial.

(** The message as its [.proto] file declares it. *)
Definition schema (m : t) : list field :=
  [].

(** The message with its default for every property that is not kept. *)
Definition only (kept : string → bool) (m : t) : t := m.

#[global] Instance codec {PB : Protobuf} : MessageCodec t :=
  {| msg_base := base; msg_encode := encode; msg_field := decode_field |}.

#[global] Program Instance spec {PB : Protobuf} (PS : ProtobufSpec PB) : MessageSpec PS t :=
  {| msg_wire := wire; msg_valid := valid; msg_merge := merge |}.
Next Obligation. solve_encode_wire. Qed.
Next Obligation. solve_decode_wire. Qed.
Next Obligation. solve_merge_base. Qed.
Next Obligation. intros. solve_advances decode_field. Qed.

#[global] Program Instance data : MessageData t partial :=
  {| msg_fromJSON := fromJSON; msg_toJSON := toJSON;
     msg_fromPartial := fromPartial; msg_full := full |}.
Next Obligation. solve_json fromJSON toJSON. Qed.
Next Obligation. solve_partial fromPartial full. Qed.

#[global] Instance schema_wire {PB : Protobuf} {PS : ProtobufSpec PB} : WireSchema wire schema.
Proof. solve_schema_wire wire schema. Qed.

#[global] Instance schema_merge : MergeSchema merge schema.
Proof. solve_schema_merge merge schema. Qed.

(** Its row in the table of message types. *)
Definition message {PB : Protobuf} {PS : ProtobufSpec PB} : message_type :=
  plain_message "MsgRejectAddAccountResponse" nothing false schema only.

#[global] Instance message_lawful {PB : Protobuf} (PS : ProtobufSpec PB) : Lawful message.
Proof. solve_lawful decode_field fromJSON only. Qed.

End MsgRejectAddAccountResponse.

(** ** [QueryGetAccountRequest] (dclauth/query.js) *)

Module QueryGetAccountRequest.

Record t := mk {
  address : string;
}.

#[global] Instance t_eta : Settable t := λ m, mk m.(address).

Definition base : t := mk "".

Definition encode {PB : Protobuf} (message : t) (writer : Writer) : Writer :=
  writer
  @> when (str_neq message.(address) "") (fun w => w @> uint32 10 @> string_ message.(address)).

Definition decode_field {PB : Protobuf} (tag : Z) (message : t) : RM t :=
  match field_number tag with
  | 1 => v ← read_string; mret (message <| address := v |>)
  | _ => _ ← skipType (wire_type tag); mret message
  end.

Definition decode {PB : Protobuf} (length : option Z) : RM t :=
  decode_message length base decode_field.

Definition fromJSON (object : js) : result t :=
  address' ← field_or object "address" to_string "";
  Ok (mk address').

Definition toJSON (message : t) : js :=
  Obj ([("address", Str message.(address))]).

Record partial := mkPartial {
  p_address : option string;
}.

Definition fromPartial (object : partial) : t := {|
  address := object.(p_address) ?? "";
|}.

(** The object with no property given. *)
Definition nothing : partial := mkPartial None.

(** The bytes [encode] writes. *)
Definition wire {PB : Protobuf} {PS : ProtobufSpec PB} (m : t) : bytes :=
  f_string 10 m.(address).

Definition valid (m : t) : Prop :=
  True.

Definition encodable {PB : Protobuf} {PS : ProtobufSpec PB} (m : t) : Prop :=
  valid m ∧ small (wire m).

Definition merge (m a : t) : t := {|
  address := later_string m.(address) a.(address);
|}.

(** A whole message seen as a partial one. *)
Definition full (m : t) : partial := {|
  p_address := Some m.(address);
|}.

(** The message as its [.proto] file declares it. *)
Definition schema (m : t) : list field :=
  [implicit 1 (VString m.(address))].

(** The message with its default for every property that is not kept. *)
Definition only (kept : string → bool) (m : t) : t := {|
  address := if kept "address" then m.(address) else "";
|}.

#[global] Instance codec {PB : Protobuf} : MessageCodec t :=
  {| msg_base := base; msg_encode := encode; msg_field := decode_field |}.

#[global] Program Instance spec {PB : Protobuf} (PS : ProtobufSpec PB) : MessageSpec PS t :=
  {| msg_wire := wire; msg_valid := valid; msg_merge := merge |}.
Next Obligation. solve_encode_wire. Qed.
Next Obligation. solve_decode_wire. Qed.
Next Obligation. solve_merge_base. Qed.
Next Obligation. intros. solve_advances decode_field. Qed.

#[global] Program Instance data : MessageData t partial :=
  {| msg_fromJSON := fromJSON; msg_toJSON := toJSON;
     msg_fromPartial := fromPartial; msg_full := full |}.
Next Obligation. solve_json fromJSON toJSON. Qed.
Next Obligation. solve_partial fromPartial full. Qed.

#[global] Instance schema_wire {PB : Protobuf} {PS : ProtobufSpec PB} : WireSchema wire schema.
Proof. solve_schema_wire wire schema. Qed.

#[global] Instance schema_merge : MergeSchema merge schema.
Proof. solve_schema_merge merge schema. Qed.

(** Its row in the table of message types. *)
Definition message {PB : Protobuf} {PS : ProtobufSpec PB} : message_type :=
  plain_message "QueryGetAccountRequest" nothing true schema only.

#[global] Instance message_lawful {PB : Protobuf} (PS : ProtobufSpec PB) : Lawful message.
Proof. solve_lawful decode_field fromJSON only. Qed.

End QueryGetAccountRequest.

(** ** [QueryGetAccountResponse] (dclauth/query.js) *)

Module QueryGetAccountResponse.

Record t := mk {
  account : option Account.t;
}.

#[global] Instance t_eta : Settable t := λ m, mk m.(account).

Definition base : t := mk None.

Definition encode {PB : Protobuf} (message : t) (writer : Writer) : result Writer :=
  Ok writer
  @>= defined_e message.(account) (submessage 10 Account.encode).

Definition decode_field {PB : Protobuf} (tag : Z) (message : t) : RM t :=
  match field_number tag with
  | 1 => v ← read_nested Account.decode; mret (message <| account := Some v |>)
  | _ => _ ← skipType (wire_type tag); mret message
  end.

Definition decode {PB : Protobuf} (length : option Z) : RM t :=
  decode_message length base decode_field.

Definition fromJSON (object : js) : result t :=
  account' ← field_or object "account" (to_some Account.fromJSON) None;
  Ok (mk account').

Definition toJSON (message : t) : js :=
  Obj (prop_opt "account" Account.toJSON message.(account)).

Record partial := mkPartial {
  p_account : option Account.partial;
}.

Definition fromPartial (object : partial) : t := {|
  account := Account.fromPartial <$> object.(p_account);
|}.

(** The object with no property given. *)
Definition nothing : partial := mkPartial None.

(** The bytes [encode] writes. *)
Definition wire {PB : Protobuf} {PS : ProtobufSpec PB} (m : t) : bytes :=
  f_message 10 Account.wire m.(account).

Definition valid (m : t) : Prop :=
  from_option Account.valid True m.(account).

(** The byte fields hold arrays, as the interface declares. *)
Definition typed (m : t) : bool := from_option Account.typed true m.(account).

(** The message without its empty byte arrays. *)
Definition normal (m : t) : t := {|
  account := Account.normal <$> m.(account);
|}.

Definition encodable {PB : Protobuf} {PS : ProtobufSpec PB} (m : t) : Prop :=
  typed m = true ∧ valid m ∧ small (wire m).

Definition merge (m a : t) : t := {|
  account := later_message m.(account) (Account.normal <$> a.(account));
|}.

(** A whole message seen as a partial one. *)
Definition full (m : t) : partial := {|
  p_account := Account.full <$> m.(account);
|}.

(** The message as its [.proto] file declares it. *)
Definition schema (m : t) : list field :=
  [singular 1 Optional (message_value Account.schema) m.(account)].

(** The message with its default for every property that is not kept. *)
Definition only (kept : string → bool) (m : t) : t := {|
  account := if kept "account" then m.(account) else None;
|}.

#[global] Instance codec {PB : Protobuf} : FallibleCodec t :=
  {| fmsg_base := base; fmsg_encode := encode; fmsg_field := decode_field |}.

#[global] Program Instance spec {PB : Protobuf} (PS : ProtobufSpec PB) : FallibleSpec PS t :=
  {| fmsg_wire := wire; fmsg_valid := valid; fmsg_typed := typed; fmsg_normal := normal;
     fmsg_merge := merge |}.
Next Obligation. solve_fencode_wire. Qed.
Next Obligation. intros. solve_fencode_throws encode typed. Qed.
Next Obligation. solve_fdecode_wire. Qed.
Next Obligation. solve_fmerge_base. Qed.
Next Obligation. intros. solve_fadvances decode_field. Qed.

#[global] Program Instance given_ : FalliblePartial t partial :=
  {| fmsg_fromPartial := fromPartial; fmsg_full := full; fmsg_given := typed |}.
Next Obligation. solve_fgiven fromPartial typed. Qed.
Next Obligation. solve_fpartial fromPartial full typed. Qed.

#[global] Program Instance json : FallibleJson t :=
  {| fmsg_fromJSON := fromJSON; fmsg_toJSON := toJSON;
     fmsg_named := fun _ => true; fmsg_known := fun m => m |}.
Next Obligation. solve_fjson fromJSON toJSON. Qed.
Next Obligation. reflexivity. Qed.

#[global] Instance schema_wire {PB : Protobuf} {PS : ProtobufSpec PB} : WireSchema wire schema.
Proof. solve_schema_wire wire schema. Qed.

#[global] Instance schema_normal : NormalSchema normal schema.
Proof. solve_schema_normal normal schema. Qed.

#[global] Instance schema_merge : MergeSchema merge schema.
Proof. solve_schema_merge merge schema. Qed.

(** Its row in the table of message types. *)
Definition message {PB : Protobuf} {PS : ProtobufSpec PB} : message_type :=
  fallible_message "QueryGetAccountResponse" nothing true schema only.

#[global] Instance message_lawful {PB : Protobuf} (PS : ProtobufSpec PB) : Lawful message.
Proof. solve_lawful decode_field fromJSON only. Qed.

End QueryGetAccountResponse.

(** ** [QueryAllAccountRequest] (dclauth/query.js) *)

Module QueryAllAccountRequest.

Record t := mk {
  pagination : option PageRequest.t;
}.

#[global] Instance t_eta : Settable t := λ m, mk m.(pagination).

Definition base : t := mk None.

Definition encode {PB : Protobuf} (message : t) (writer : Writer) : result Writer :=
  Ok writer
  @>= defined_e message.(pagination) (submessage 10 PageRequest.encode).

Definition decode_field {PB : Protobuf} (tag : Z) (message : t) : RM t :=
  match field_number tag with
  | 1 => v ← read_nested PageRequest.decode; mret (message <| pagination := Some v |>)
  | _ => _ ← skipType (wire_type tag); mret message
  end.

Definition decode {PB : Protobuf} (length : option Z) : RM t :=
  decode_message length base decode_field.

Definition fromJSON (object : js) : result t :=
  pagination' ← field_or object "pagination" (to_some PageRequest.fromJSON) None;
  Ok (mk pagination').

Definition toJSON (message : t) : js :=
  Obj (prop_opt "pagination" PageRequest.toJSON message.(pagination)).

Record partial := mkPartial {
  p_pagination : option PageRequest.partial;
}.

Definition fromPartial (object : partial) : t := {|
  pagination := PageRequest.fromPartial <$> object.(p_pagination);
|}.

(** The object with no property given. *)
Definition nothing : partial := mkPartial None.

(** The bytes [encode] writes. *)
Definition wire {PB : Protobuf} {PS : ProtobufSpec PB} (m : t) : bytes :=
  f_message 10 PageRequest.wire m.(pagination).

Definition valid (m : t) : Prop :=
  from_option PageRequest.valid True m.(pagination).

(** The byte fields hold arrays, as the interface declares. *)
Definition typed (m : t) : bool := from_option PageRequest.typed true m.(pagination).

(** The message without its empty byte arrays. *)
Definition normal (m : t) : t := {|
  pagination := PageRequest.normal <$> m.(pagination);
|}.

Definition encodable {PB : Protobuf} {PS : ProtobufSpec PB} (m : t) : Prop :=
  typed m = true ∧ valid m ∧ small (wire m).

Definition merge (m a : t) : t := {|
  pagination := later_message m.(pagination) (PageRequest.normal <$> a.(pagination));
|}.

(** A whole message seen as a partial one. *)
Definition full (m : t) : partial := {|
  p_pagination := PageRequest.full <$> m.(pagination);
|}.

(** The message as its [.proto] file declares it. *)
Definition schema (m : t) : list field :=
  [singular 1 Optional (message_value PageRequest.schema) m.(pagination)].

(** The message with its default for every property that is not kept. *)
Definition only (kept : string → bool) (m : t) : t := {|
  pagination := if kept "pagination" then m.(pagination) else None;
|}.

#[global] Instance codec {PB : Protobuf} : FallibleCodec t :=
  {| fmsg_base := base; fmsg_encode := encode; fmsg_field := decode_field |}.

#[global] Program Instance spec {PB : Protobuf} (PS : ProtobufSpec PB) : FallibleSpec PS t :=
  {| fmsg_wire := wire; fmsg_valid := valid; fmsg_typed := typed; fmsg_normal := normal;
     fmsg_merge := merge |}.
Next Obligation. solve_fencode_wire. Qed.
Next Obligation. intros. solve_fencode_throws encode typed. Qed.
Next Obligation. solve_fdecode_wire. Qed.
Next Obligation. solve_fmerge_base. Qed.
Next Obligation. intros. solve_fadvances decode_field. Qed.

#[global] Program Instance given_ : FalliblePartial t partial :=
  {| fmsg_fromPartial := fromPartial; fmsg_full := full; fmsg_given := typed |}.
Next Obligation. solve_fgiven fromPartial typed. Qed.
Next Obligation. solve_fpartial fromPartial full typed. Qed.

#[global] Program Instance json : FallibleJson t :=
  {| fmsg_fromJSON := fromJSON; fmsg_toJSON := toJSON;
     fmsg_named := fun _ => true; fmsg_known := fun m => m |}.
Next Obligation. solve_fjson fromJSON toJSON. Qed.
Next Obligation. reflexivity. Qed.

#[global] Instance schema_wire {PB : Protobuf} {PS : ProtobufSpec PB} : WireSchema wire schema.
Proof. solve_schema_wire wire schema. Qed.

#[global] Instance schema_normal : NormalSchema normal schema.
Proof. solve_schema_normal normal schema. Qed.

#[global] Instance schema_merge : MergeSchema merge schema.
Proof. solve_schema_merge merge schema. Qed.

(** Its row in the table of message types. *)
Definition message {PB : Protobuf} {PS : ProtobufSpec PB} : message_type :=
  fallible_message "QueryAllAccountRequest" nothing true schema only.

#[global] Instance message_lawful {PB : Protobuf} (PS : ProtobufSpec PB) : Lawful message.
Proof. solve_lawful decode_field fromJSON only. Qed.

End QueryAllAccountRequest.

(** ** [QueryAllAccountResponse] (dclauth/query.js) *)

Module QueryAllAccountResponse.

Record t := mk {
  account : list Account.t;
  pagination : option PageResponse.t;
}.

#[global] Instance t_eta : Settable t := λ m, mk m.(account) m.(pagination).

Definition base : t := mk [] None.

Definition encode {PB : Protobuf} (message : t) (writer : Writer) : result Writer :=
  Ok writer
  @>= each_e message.(account) (submessage 10 Account.encode)
  @>= defined_e message.(pagination) (submessage 18 PageResponse.encode).

Definition decode_field {PB : Protobuf} (tag : Z) (message : t) : RM t :=
  match field_number tag with
  | 1 => v ← read_nested Account.decode; mret (message <| account := message.(account) ++ [v] |>)
  | 2 => v ← read_nested PageResponse.decode; mret (message <| pagination := Some v |>)
  | _ => _ ← skipType (wire_type tag); mret message
  end.

Definition decode {PB : Protobuf} (length : option Z) : RM t :=
  decode_message length base decode_field.

Definition fromJSON (object : js) : result t :=
  account' ← field_or object "account" (to_list Account.fromJSON) [];
  pagination' ← field_or object "pagination" (to_some PageResponse.fromJSON) None;
  Ok (mk account' pagination').

Definition toJSON (message : t) : js :=
  Obj ([("account", Arr (map Account.toJSON message.(account)))] ++
   prop_opt "pagination" PageResponse.toJSON message.(pagination)).

Record partial := mkPartial {
  p_account : option (list Account.partial);
  p_pagination : option PageResponse.partial;
}.

Definition fromPartial (object : partial) : t := {|
  account := map Account.fromPartial (object.(p_account) ?? []);
  pagination := PageResponse.fromPartial <$> object.(p_pagination);
|}.

(** The object with no property given. *)
Definition nothing : partial := mkPartial None None.

(** The bytes [encode] writes. *)
Definition wire {PB : Protobuf} {PS : ProtobufSpec PB} (m : t) : bytes :=
  f_repeated 10 Account.wire m.(account) ++
  f_message 18 PageResponse.wire m.(pagination).

Definition valid (m : t) : Prop :=
  Forall Account.valid m.(account) ∧ from_option PageResponse.valid True m.(pagination).

(** The byte fields hold arrays, as the interface declares. *)
Definition typed (m : t) : bool := forallb Account.typed m.(account) && from_option PageResponse.typed true m.(pagination).

(** The message without its empty byte arrays. *)
Definition normal (m : t) : t := {|
  account := map Account.normal m.(account);
  pagination := PageResponse.normal <$> m.(pagination);
|}.

Definition encodable {PB : Protobuf} {PS : ProtobufSpec PB} (m : t) : Prop :=
  typed m = true ∧ valid m ∧ small (wire m).

Definition merge (m a : t) : t := {|
  account := m.(account) ++ map Account.normal a.(account);
  pagination := later_message m.(pagination) (PageResponse.normal <$> a.(pagination));
|}.

(** A whole message seen as a partial one. *)
Definition full (m : t) : partial := {|
  p_account := Some (map Account.full m.(account));
  p_pagination := PageResponse.full <$> m.(pagination);
|}.

(** The message as its [.proto] file declares it. *)
Definition schema (m : t) : list field :=
  [repeated 1 (message_value Account.schema) m.(account);
   singular 2 Optional (message_value PageResponse.schema) m.(pagination)].

(** The message with its default for every property that is not kept. *)
Definition only (kept : string → bool) (m : t) : t := {|
  account := if kept "account" then m.(account) else [];
  pagination := if kept "pagination" then m.(pagination) else None;
|}.

#[global] Instance codec {PB : Protobuf} : FallibleCodec t :=
  {| fmsg_base := base; fmsg_encode := encode; fmsg_field := decode_field |}.

#[global] Program Instance spec {PB : Protobuf} (PS : ProtobufSpec PB) : FallibleSpec PS t :=
  {| fmsg_wire := wire; fmsg_valid := valid; fmsg_typed := typed; fmsg_normal := normal;
     fmsg_merge := merge |}.
Next Obligation. solve_fencode_wire. Qed.
Next Obligation. intros. solve_fencode_throws encode typed. Qed.
Next Obligation. solve_fdecode_wire. Qed.
Next Obligation. solve_fmerge_base. Qed.
Next Obligation. intros. solve_fadvances decode_field. Qed.

#[global] Program Instance given_ : FalliblePartial t partial :=
  {| fmsg_fromPartial := fromPartial; fmsg_full := full; fmsg_given := typed |}.
Next Obligation. solve_fgiven fromPartial typed. Qed.
Next Obligation. solve_fpartial fromPartial full typed. Qed.

#[global] Program Instance json : FallibleJson t :=
  {| fmsg_fromJSON := fromJSON; fmsg_toJSON := toJSON;
     fmsg_named := fun _ => true; fmsg_known := fun m => m |}.
Next Obligation. solve_fjson fromJSON toJSON. Qed.
Next Obligation. reflexivity. Qed.

#[global] Instance schema_wire {PB : Protobuf} {PS : ProtobufSpec PB} : WireSchema wire schema.
Proof. solve_schema_wire wire schema. Qed.

#[global] Instance schema_normal : NormalSchema normal schema.
Proof. solve_schema_normal normal schema. Qed.

#[global] Instance schema_merge : MergeSchema merge schema.
Proof. solve_schema_merge merge schema. Qed.

(** Its row in the table of message types. *)
Definition message {PB : Protobuf} {PS : ProtobufSpec PB} : message_type :=
  fallible_message "QueryAllAccountResponse" nothing true schema only.

#[global] Instance message_lawful {PB : Protobuf} (PS : ProtobufSpec PB) : Lawful message.
Proof. solve_lawful decode_field fromJSON only. Qed.

End QueryAllAccountResponse.

(** ** [QueryGetPendingAccountRequest] (dclauth/query.js) *)

Module QueryGetPendingAccountRequest.

Record t := mk {
  address : string;
}.

#[global] Instance t_eta : Settable t := λ m, mk m.(address).

Definition base : t := mk "".

Definition encode {PB : Protobuf} (message : t) (writer : Writer) : Writer :=
  writer
  @> when (str_neq message.(address) "") (fun w => w @> uint32 10 @> string_ message.(address)).

Definition decode_field {PB : Protobuf} (tag : Z) (message : t) : RM t :=
  match field_number tag with
  | 1 => v ← read_string; mret (message <| address := v |>)
  | _ => _ ← skipType (wire_type tag); mret message
  end.

Definition decode {PB : Protobuf} (length : option Z) : RM t :=
  decode_message length base decode_field.

Definition fromJSON (object : js) : result t :=
  address' ← field_or object "address" to_string "";
  Ok (mk address').

Definition toJSON (message : t) : js :=
  Obj ([("address", Str message.(address))]).

Record partial := mkPartial {
  p_address : option string;
}.

Definition fromPartial (object : partial) : t := {|
  address := object.(p_address) ?? "";
|}.

(** The object with no property given. *)
Definition nothing : partial := mkPartial None.

(** The bytes [encode] writes. *)
Definition wire {PB : Protobuf} {PS : ProtobufSpec PB} (m : t) : bytes :=
  f_string 10 m.(address).

Definition valid (m : t) : Prop :=
  True.

Definition encodable {PB : Protobuf} {PS : ProtobufSpec PB} (m : t) : Prop :=
  valid m ∧ small (wire m).

Definition merge (m a : t) : t := {|
  address := later_string m.(address) a.(address);
|}.

(** A whole message seen as a partial one. *)
Definition full (m : t) : partial := {|
  p_address := Some m.(address);
|}.

(** The message as its [.proto] file declares it. *)
Definition schema (m : t) : list field :=
  [implicit 1 (VString m.(address))].

(** The message with its default for every property that is not kept. *)
Definition only (kept : string → bool) (m : t) : t := {|
  address := if kept "address" then m.(address) else "";
|}.

#[global] Instance codec {PB : Protobuf} : MessageCodec t :=
  {| msg_base := base; msg_encode := encode; msg_field := decode_field |}.

#[global] Program Instance spec {PB : Protobuf} (PS : ProtobufSpec PB) : MessageSpec PS t :=
  {| msg_wire := wire; msg_valid := valid; msg_merge := merge |}.
Next Obligation. solve_encode_wire. Qed.
Next Obligation. solve_decode_wire. Qed.
Next Obligation. solve_merge_base. Qed.
Next Obligation. intros. solve_advances decode_field. Qed.

#[global] Program Instance data : MessageData t partial :=
  {| msg_fromJSON := fromJSON; msg_toJSON := toJSON;
     msg_fromPartial := fromPartial; msg_full := full |}.
Next Obligation. solve_json fromJSON toJSON. Qed.
Next Obligation. solve_partial fromPartial full. Qed.

#[global] Instance schema_wire {PB : Protobuf} {PS : ProtobufSpec PB} : WireSchema wire schema.
Proof. solve_schema_wire wire schema. Qed.

#[global] Instance schema_merge : MergeSchema merge schema.
Proof. solve_schema_merge merge schema. Qed.

(** Its row in the table of message types. *)
Definition message {PB : Protobuf} {PS : ProtobufSpec PB} : message_type :=
  plain_message "QueryGetPendingAccountRequest" nothing true schema only.

#[global] Instance message_lawful {PB : Protobuf} (PS : ProtobufSpec PB) : Lawful message.
Proof. solve_lawful decode_field fromJSON only. Qed.

End QueryGetPendingAccountRequest.

(** ** [QueryGetPendingAccountResponse] (dclauth/query.js) *)

Module QueryGetPendingAccountResponse.

Record t := mk {
  pendingAccount : option PendingAccount.t;
}.

#[global] Instance t_eta : Settable t := λ m, mk m.(pendingAccount).

Definition base : t := mk None.

Definition encode {PB : Protobuf} (message : t) (writer : Writer) : result Writer :=
  Ok writer
  @>= defined_e message.(pendingAccount) (submessage 10 PendingAccount.encode).

Definition decode_field {PB : Protobuf} (tag : Z) (message : t) : RM t :=
  match field_number tag with
  | 1 => v ← read_nested PendingAccount.decode; mret (message <| pendingAccount := Some v |>)
  | _ => _ ← skipType (wire_type tag); mret message
  end.

Definition decode {PB : Protobuf} (length : option Z) : RM t :=
  decode_message length base decode_field.

Definition fromJSON (object : js) : result t :=
  pendingAccount' ← field_or object "pendingAccount" (to_some PendingAccount.fromJSON) None;
  Ok (mk pendingAccount').

Definition toJSON (message : t) : js :=
  Obj (prop_opt "pendingAccount" PendingAccount.toJSON message.(pendingAccount)).

Record partial := mkPartial {
  p_pendingAccount : option PendingAccount.partial;
}.

Definition fromPartial (object : partial) : t := {|
  pendingAccount := PendingAccount.fromPartial <$> object.(p_pendingAccount);
|}.

(** The object with no property given. *)
Definition nothing : partial := mkPartial None.

(** The bytes [encode] writes. *)
Definition wire {PB : Protobuf} {PS : ProtobufSpec PB} (m : t) : bytes :=
  f_message 10 PendingAccount.wire m.(pendingAccount).

Definition valid (m : t) : Prop :=
  from_option PendingAccount.valid True m.(pendingAccount).

(** The byte fields hold arrays, as the interface declares. *)
Definition typed (m : t) : bool := from_option PendingAccount.typed true m.(pendingAccount).

(** The message without its empty byte arrays. *)
Definition normal (m : t) : t := {|
  pendingAccount := PendingAccount.normal <$> m.(pendingAccount);
|}.

Definition encodable {PB : Protobuf} {PS : ProtobufSpec PB} (m : t) : Prop :=
  typed m = true ∧ valid m ∧ small (wire m).

Definition merge (m a : t) : t := {|
  pendingAccount := later_message m.(pendingAccount) (PendingAccount.normal <$> a.(pendingAccount));
|}.

(** A whole message seen as a partial one. *)
Definition full (m : t) : partial := {|
  p_pendingAccount := PendingAccount.full <$> m.(pendingAccount);
|}.

(** The message as its [.proto] file declares it. *)
Definition schema (m : t) : list field :=
  [singular 1 Optional (message_value PendingAccount.schema) m.(pendingAccount)].

(** The message with its default for every property that is not kept. *)
Definition only (kept : string → bool) (m : t) : t := {|
  pendingAccount := if kept "pendingAccount" then m.(pendingAccount) else None;
|}.

#[global] Instance codec {PB : Protobuf} : FallibleCodec t :=
  {| fmsg_base := base; fmsg_encode := encode; fmsg_field := decode_field |}.

#[global] Program Instance spec {PB : Protobuf} (PS : ProtobufSpec PB) : FallibleSpec PS t :=
  {| fmsg_wire := wire; fmsg_valid := valid; fmsg_typed := typed; fmsg_normal := normal;
     fmsg_merge := merge |}.
Next Obligation. solve_fencode_wire. Qed.
Next Obligation. intros. solve_fencode_throws encode typed. Qed.
Next Obligation. solve_fdecode_wire. Qed.
Next Obligation. solve_fmerge_base. Qed.
Next Obligation. intros. solve_fadvances decode_field. Qed.

#[global] Program Instance given_ : FalliblePartial t partial :=
  {| fmsg_fromPartial := fromPartial; fmsg_full := full; fmsg_given := typed |}.
Next Obligation. solve_fgiven fromPartial typed. Qed.
Next Obligation. solve_fpartial fromPartial full typed. Qed.

#[global] Program Instance json : FallibleJson t :=
  {| fmsg_fromJSON := fromJSON; fmsg_toJSON := toJSON;
     fmsg_named := fun _ => true; fmsg_known := fun m => m |}.
Next Obligation. solve_fjson fromJSON toJSON. Qed.
Next Obligation. reflexivity. Qed.

#[global] Instance schema_wire {PB : Protobuf} {PS : ProtobufSpec PB} : WireSchema wire schema.
Proof. solve_schema_wire wire schema. Qed.

#[global] Instance schema_normal : NormalSchema normal schema.
Proof. solve_schema_normal normal schema. Qed.

#[global] Instance schema_merge : MergeSchema merge schema.
Proof. solve_schema_merge merge schema. Qed.

(** Its row in the table of message types. *)
Definition message {PB : Protobuf} {PS : ProtobufSpec PB} : message_type :=
  fallible_message "QueryGetPendingAccountResponse" nothing true schema only.

#[global] Instance message_lawful {PB : Protobuf} (PS : ProtobufSpec PB) : Lawful message.
Proof. solve_lawful decode_field fromJSON only. Qed.

End QueryGetPendingAccountResponse.

(** ** [QueryAllPendingAccountRequest] (dclauth/query.js) *)

Module QueryAllPendingAccountRequest.

Record t := mk {
  pagination : option PageRequest.t;
}.

#[global] Instance t_eta : Settable t := λ m, mk m.(pagination).

Definition base : t := mk None.

Definition encode {PB : Protobuf} (message : t) (writer : Writer) : result Writer :=
  Ok writer
  @>= defined_e message.(pagination) (submessage 10 PageRequest.encode).

Definition decode_field {PB : Protobuf} (tag : Z) (message : t) : RM t :=
  match field_number tag with
  | 1 => v ← read_nested PageRequest.decode; mret (message <| pagination := Some v |>)
  | _ => _ ← skipType (wire_type tag); mret message
  end.

Definition decode {PB : Protobuf} (length : option Z) : RM t :=
  decode_message length base decode_field.

Definition fromJSON (object : js) : result t :=
  pagination' ← field_or object "pagination" (to_some PageRequest.fromJSON) None;
  Ok (mk pagination').

Definition toJSON (message : t) : js :=
  Obj (prop_opt "pagination" PageRequest.toJSON message.(pagination)).

Record partial := mkPartial {
  p_pagination : option PageRequest.partial;
}.

Definition fromPartial (object : partial) : t := {|
  pagination := PageRequest.fromPartial <$> object.(p_pagination);
|}.

(** The object with no property given. *)
Definition nothing : partial := mkPartial None.

(** The bytes [encode] writes. *)
Definition wire {PB : Protobuf} {PS : ProtobufSpec PB} (m : t) : bytes :=
  f_message 10 PageRequest.wire m.(pagination).

Definition valid (m : t) : Prop :=
  from_option PageRequest.valid True m.(pagination).

(** The byte fields hold arrays, as the interface declares. *)
Definition typed (m : t) : bool := from_option PageRequest.typed true m.(pagination).

(** The message without its empty byte arrays. *)
Definition normal (m : t) : t := {|
  pagination := PageRequest.normal <$> m.(pagination);
|}.

Definition encodable {PB : Protobuf} {PS : ProtobufSpec PB} (m : t) : Prop :=
  typed m = true ∧ valid m ∧ small (wire m).

Definition merge (m a : t) : t := {|
  pagination := later_message m.(pagination) (PageRequest.normal <$> a.(pagination));
|}.

(** A whole message seen as a partial one. *)
Definition full (m : t) : partial := {|
  p_pagination := PageRequest.full <$> m.(pagination);
|}.

(** The message as its [.proto] file declares it. *)
Definition schema (m : t) : list field :=
  [singular 1 Optional (message_value PageRequest.schema) m.(pagination)].

(** The message with its default for every property that is not kept. *)
Definition only (kept : string → bool) (m : t) : t := {|
  pagination := if kept "pagination" then m.(pagination) else None;
|}.

#[global] Instance codec {PB : Protobuf} : FallibleCodec t :=
  {| fmsg_base := base; fmsg_encode := encode; fmsg_field := decode_field |}.

#[global] Program Instance spec {PB : Protobuf} (PS : ProtobufSpec PB) : FallibleSpec PS t :=
  {| fmsg_wire := wire; fmsg_valid := valid; fmsg_typed := typed; fmsg_normal := normal;
     fmsg_merge := merge |}.
Next Obligation. solve_fencode_wire. Qed.
Next Obligation. intros. solve_fencode_throws encode typed. Qed.
Next Obligation. solve_fdecode_wire. Qed.
Next Obligation. solve_fmerge_base. Qed.
Next Obligation. intros. solve_fadvances decode_field. Qed.

#[global] Program Instance given_ : FalliblePartial t partial :=
  {| fmsg_fromPartial := fromPartial; fmsg_full := full; fmsg_given := typed |}.
Next Obligation. solve_fgiven fromPartial typed. Qed.
Next Obligation. solve_fpartial fromPartial full typed. Qed.

#[global] Program Instance json : FallibleJson t :=
  {| fmsg_fromJSON := fromJSON; fmsg_toJSON := toJSON;
     fmsg_named := fun _ => true; fmsg_known := fun m => m |}.
Next Obligation. solve_fjson fromJSON toJSON. Qed.
Next Obligation. reflexivity. Qed.

#[global] Instance schema_wire {PB : Protobuf} {PS : ProtobufSpec PB} : WireSchema wire schema.
Proof. solve_schema_wire wire schema. Qed.

#[global] Instance schema_normal : NormalSchema normal schema.
Proof. solve_schema_normal normal schema. Qed.

#[global] Instance schema_merge : MergeSchema merge schema.
Proof. solve_schema_merge merge schema. Qed.

(** Its row in the table of message types. *)
Definition message {PB : Protobuf} {PS : ProtobufSpec PB} : message_type :=
  fallible_message "QueryAllPendingAccountRequest" nothing true schema only.

#[global] Instance message_lawful {PB : Protobuf} (PS : ProtobufSpec PB) : Lawful message.
Proof. solve_lawful decode_field fromJSON only. Qed.

End QueryAllPendingAccountRequest.

(** ** [QueryAllPendingAccountResponse] (dclauth/query.js) *)

Module QueryAllPendingAccountResponse.

Record t := mk {
  pendingAccount : list PendingAccount.t;
  pagination : option PageResponse.t;
}.

#[global] Instance t_eta : Settable t := λ m, mk m.(pendingAccount) m.(pagination).

Definition base : t := mk [] None.

Definition encode {PB : Protobuf} (message : t) (writer : Writer) : result Writer :=
  Ok writer
  @>= each_e message.(pendingAccount) (submessage 10 PendingAccount.encode)
  @>= defined_e message.(pagination) (submessage 18 PageResponse.encode).

Definition decode_field {PB : Protobuf} (tag : Z) (message : t) : RM t :=
  match field_number tag with
  | 1 => v ← read_nested PendingAccount.decode;
         mret (message <| pendingAccount := message.(pendingAccount) ++ [v] |>)
  | 2 => v ← read_nested PageResponse.decode; mret (message <| pagination := Some v |>)
  | _ => _ ← skipType (wire_type tag); mret message
  end.

Definition decode {PB : Protobuf} (length : option Z) : RM t :=
  decode_message length base decode_field.

Definition fromJSON (object : js) : result t :=
  pendingAccount' ← field_or object "pendingAccount" (to_list PendingAccount.fromJSON) [];
  pagination' ← field_or object "pagination" (to_some PageResponse.fromJSON) None;
  Ok (mk pendingAccount' pagination').

Definition toJSON (message : t) : js :=
  Obj ([("pendingAccount", Arr (map PendingAccount.toJSON message.(pendingAccount)))] ++
   prop_opt "pagination" PageResponse.toJSON message.(pagination)).

Record partial := mkPartial {
  p_pendingAccount : option (list PendingAccount.partial);
  p_pagination : option PageResponse.partial;
}.

Definition fromPartial (object : partial) : t := {|
  pendingAccount := map PendingAccount.fromPartial (object.(p_pendingAccount) ?? []);
  pagination := PageResponse.fromPartial <$> object.(p_pagination);
|}.

(** The object with no property given. *)
Definition nothing : partial := mkPartial None None.

(** The bytes [encode] writes. *)
Definition wire {PB : Protobuf} {PS : ProtobufSpec PB} (m : t) : bytes :=
  f_repeated 10 PendingAccount.wire m.(pendingAccount) ++
  f_message 18 PageResponse.wire m.(pagination).

Definition valid (m : t) : Prop :=
  Forall PendingAccount.valid m.(pendingAccount) ∧ from_option PageResponse.valid True m.(pagination).

(** The byte fields hold arrays, as the interface declares. *)
Definition typed (m : t) : bool := forallb PendingAccount.typed m.(pendingAccount) && from_option PageResponse.typed true m.(pagination).

(** The message without its empty byte arrays. *)
Definition normal (m : t) : t := {|
  pendingAccount := map PendingAccount.normal m.(pendingAccount);
  pagination := PageResponse.normal <$> m.(pagination);
|}.

Definition encodable {PB : Protobuf} {PS : ProtobufSpec PB} (m : t) : Prop :=
  typed m = true ∧ valid m ∧ small (wire m).

Definition merge (m a : t) : t := {|
  pendingAccount := m.(pendingAccount) ++ map PendingAccount.normal a.(pendingAccount);
  pagination := later_message m.(pagination) (PageResponse.normal <$> a.(pagination));
|}.

(** A whole message seen as a partial one. *)
Definition full (m : t) : partial := {|
  p_pendingAccount := Some (map PendingAccount.full m.(pendingAccount));
  p_pagination := PageResponse.full <$> m.(pagination);
|}.

(** The message as its [.proto] file declares it. *)
Definition schema (m : t) : list field :=
  [repeated 1 (message_value PendingAccount.schema) m.(pendingAccount);
   singular 2 Optional (message_value PageResponse.schema) m.(pagination)].

(** The message with its default for every property that is not kept. *)
Definition only (kept : string → bool) (m : t) : t := {|
  pendingAccount := if kept "pendingAccount" then m.(pendingAccount) else [];
  pagination := if kept "pagination" then m.(pagination) else None;
|}.

#[global] Instance codec {PB : Protobuf} : FallibleCodec t :=
  {| fmsg_base := base; fmsg_encode := encode; fmsg_field := decode_field |}.

#[global] Program Instance spec {PB : Protobuf} (PS : ProtobufSpec PB) : FallibleSpec PS t :=
  {| fmsg_wire := wire; fmsg_valid := valid; fmsg_typed := typed; fmsg_normal := normal;
     fmsg_merge := merge |}.
Next Obligation. solve_fencode_wire. Qed.
Next Obligation. intros. solve_fencode_throws encode typed. Qed.
Next Obligation. solve_fdecode_wire. Qed.
Next Obligation. solve_fmerge_base. Qed.
Next Obligation. intros. solve_fadvances decode_field. Qed.

#[global] Program Instance given_ : FalliblePartial t partial :=
  {| fmsg_fromPartial := fromPartial; fmsg_full := full; fmsg_given := typed |}.
Next Obligation. solve_fgiven fromPartial typed. Qed.
Next Obligation. solve_fpartial fromPartial full typed. Qed.

#[global] Program Instance json : FallibleJson t :=
  {| fmsg_fromJSON := fromJSON; fmsg_toJSON := toJSON;
     fmsg_named := fun _ => true; fmsg_known := fun m => m |}.
Next Obligation. solve_fjson fromJSON toJSON. Qed.
Next Obligation. reflexivity. Qed.

#[global] Instance schema_wire {PB : Protobuf} {PS : ProtobufSpec PB} : WireSchema wire schema.
Proof. solve_schema_wire wire schema. Qed.

#[global] Instance schema_normal : NormalSchema normal schema.
Proof. solve_schema_normal normal schema. Qed.

#[global] Instance schema_merge : MergeSchema merge schema.
Proof. solve_schema_merge merge schema. Qed.

(** Its row in the table of message types. *)
Definition message {PB : Protobuf} {PS : ProtobufSpec PB} : message_type :=
  fallible_message "QueryAllPendingAccountResponse" nothing true schema only.

#[global] Instance message_lawful {PB : Protobuf} (PS : ProtobufSpec PB) : Lawful message.
Proof. solve_lawful decode_field fromJSON only. Qed.

End QueryAllPendingAccountResponse.

(** ** [QueryGetPendingAccountRevocationRequest] (dclauth/query.js) *)

Module QueryGetPendingAccountRevocationRequest.

Record t := mk {
  address : string;
}.

#[global] Instance t_eta : Settable t := λ m, mk m.(address).

Definition base : t := mk "".

Definition encode {PB : Protobuf} (message : t) (writer : Writer) : Writer :=
  writer
  @> when (str_neq message.(address) "") (fun w => w @> uint32 10 @> string_ message.(address)).

Definition decode_field {PB : Protobuf} (tag : Z) (message : t) : RM t :=
  match field_number tag with
  | 1 => v ← read_string; mret (message <| address := v |>)
  | _ => _ ← skipType (wire_type tag); mret message
  end.

Definition decode {PB : Protobuf} (length : option Z) : RM t :=
  decode_message length base decode_field.

Definition fromJSON (object : js) : result t :=
  address' ← field_or object "address" to_string "";
  Ok (mk address').

Definition toJSON (message : t) : js :=
  Obj ([("address", Str message.(address))]).

Record partial := mkPartial {
  p_address : option string;
}.

Definition fromPartial (object : partial) : t := {|
  address := object.(p_address) ?? "";
|}.

(** The object with no property given. *)
Definition nothing : partial := mkPartial None.

(** The bytes [encode] writes. *)
Definition wire {PB : Protobuf} {PS : ProtobufSpec PB} (m : t) : bytes :=
  f_string 10 m.(address).

Definition valid (m : t) : Prop :=
  True.

Definition encodable {PB : Protobuf} {PS : ProtobufSpec PB} (m : t) : Prop :=
  valid m ∧ small (wire m).

Definition merge (m a : t) : t := {|
  address := later_string m.(address) a.(address);
|}.

(** A whole message seen as a partial one. *)
Definition full (m : t) : partial := {|
  p_address := Some m.(address);
|}.

(** The message as its [.proto] file declares it. *)
Definition schema (m : t) : list field :=
  [implicit 1 (VString m.(address))].

(** The message with its default for every property that is not kept. *)
Definition only (kept : string → bool) (m : t) : t := {|
  address := if kept "address" then m.(address) else "";
|}.

#[global] Instance codec {PB : Protobuf} : MessageCodec t :=
  {| msg_base := base; msg_encode := encode; msg_field := decode_field |}.

#[global] Program Instance spec {PB : Protobuf} (PS : ProtobufSpec PB) : MessageSpec PS t :=
  {| msg_wire := wire; msg_valid := valid; msg_merge := merge |}.
Next Obligation. solve_encode_wire. Qed.
Next Obligation. solve_decode_wire. Qed.
Next Obligation. solve_merge_base. Qed.
Next Obligation. intros. solve_advances decode_field. Qed.

#[global] Program Instance data : MessageData t partial :=
  {| msg_fromJSON := fromJSON; msg_toJSON := toJSON;
     msg_fromPartial := fromPartial; msg_full := full |}.
Next Obligation. solve_json fromJSON toJSON. Qed.
Next Obligation. solve_partial fromPartial full. Qed.

#[global] Instance schema_wire {PB : Protobuf} {PS : ProtobufSpec PB} : WireSchema wire schema.
Proof. solve_schema_wire wire schema. Qed.

#[global] Instance schema_merge : MergeSchema merge schema.
Proof. solve_schema_merge merge schema. Qed.

(** Its row in the table of message types. *)
Definition message {PB : Protobuf} {PS : ProtobufSpec PB} : message_type :=
  plain_message "QueryGetPendingAccountRevocationRequest" nothing true schema only.

#[global] Instance message_lawful {PB : Protobuf} (PS : ProtobufSpec PB) : Lawful message.
Proof. solve_lawful decode_field fromJSON only. Qed.

End QueryGetPendingAccountRevocationRequest.

(** ** [QueryGetPendingAccountRevocationResponse] (dclauth/query.js) *)

Module QueryGetPendingAccountRevocationResponse.

Record t := mk {
  pendingAccountRevocation : option PendingAccountRevocation.t;
}.

#[global] Instance t_eta : Settable t := λ m, mk m.(pendingAccountRevocation).

Definition base : t := mk None.

Definition encode {PB : Protobuf} (message : t) (writer : Writer) : Writer :=
  writer
  @> defined message.(pendingAccountRevocation) (fun v w => w @> uint32 10 @> fork @> PendingAccountRevocation.encode v @> ldelim).

Definition decode_field {PB : Protobuf} (tag : Z) (message : t) : RM t :=
  match field_number tag with
  | 1 => v ← read_nested PendingAccountRevocation.decode;
         mret (message <| pendingAccountRevocation := Some v |>)
  | _ => _ ← skipType (wire_type tag); mret message
  end.

Definition decode {PB : Protobuf} (length : option Z) : RM t :=
  decode_message length base decode_field.

Definition fromJSON (object : js) : result t :=
  pendingAccountRevocation' ← field_or object "pendingAccountRevocation" (to_some PendingAccountRevocation.fromJSON) None;
  Ok (mk pendingAccountRevocation').

Definition toJSON (message : t) : js :=
  Obj (prop_opt "pendingAccountRevocation" PendingAccountRevocation.toJSON message.(pendingAccountRevocation)).

Record partial := mkPartial {
  p_pendingAccountRevocation : option PendingAccountRevocation.partial;
}.

Definition fromPartial (object : partial) : t := {|
  pendingAccountRevocation := PendingAccountRevocation.fromPartial <$> object.(p_pendingAccountRevocation);
|}.

(** The object with no property given. *)
Definition nothing : partial := mkPartial None.

(** The bytes [encode] writes. *)
Definition wire {PB : Protobuf} {PS : ProtobufSpec PB} (m : t) : bytes :=
  f_message 10 PendingAccountRevocation.wire m.(pendingAccountRevocation).

Definition valid (m : t) : Prop :=
  from_option PendingAccountRevocation.valid True m.(pendingAccountRevocation).

Definition encodable {PB : Protobuf} {PS : ProtobufSpec PB} (m : t) : Prop :=
  valid m ∧ small (wire m).

Definition merge (m a : t) : t := {|
  pendingAccountRevocation := later_message m.(pendingAccountRevocation) a.(pendingAccountRevocation);
|}.

(** A whole message seen as a partial one. *)
Definition full (m : t) : partial := {|
  p_pendingAccountRevocation := PendingAccountRevocation.full <$> m.(pendingAccountRevocation);
|}.

(** The message as its [.proto] file declares it. *)
Definition schema (m : t) : list field :=
  [singular 1 Optional (message_value PendingAccountRevocation.schema) m.(pendingAccountRevocation)].

(** The message with its default for every property that is not kept. *)
Definition only (kept : string → bool) (m : t) : t := {|
  pendingAccountRevocation := if kept "pendingAccountRevocation" then m.(pendingAccountRevocation) else None;
|}.

#[global] Instance codec {PB : Protobuf} : MessageCodec t :=
  {| msg_base := base; msg_encode := encode; msg_field := decode_field |}.

#[global] Program Instance spec {PB : Protobuf} (PS : ProtobufSpec PB) : MessageSpec PS t :=
  {| msg_wire := wire; msg_valid := valid; msg_merge := merge |}.
Next Obligation. solve_encode_wire. Qed.
Next Obligation. solve_decode_wire. Qed.
Next Obligation. solve_merge_base. Qed.
Next Obligation. intros. solve_advances decode_field. Qed.

#[global] Program Instance data : MessageData t partial :=
  {| msg_fromJSON := fromJSON; msg_toJSON := toJSON;
     msg_fromPartial := fromPartial; msg_full := full |}.
Next Obligation. solve_json fromJSON toJSON. Qed.
Next Obligation. solve_partial fromPartial full. Qed.

#[global] Instance schema_wire {PB : Protobuf} {PS : ProtobufSpec PB} : WireSchema wire schema.
Proof. solve_schema_wire wire schema. Qed.

#[global] Instance schema_merge : MergeSchema merge schema.
Proof. solve_schema_merge merge schema. Qed.

(** Its row in the table of message types. *)
Definition message {PB : Protobuf} {PS : ProtobufSpec PB} : message_type :=
  plain_message "QueryGetPendingAccountRevocationResponse" nothing true schema only.

#[global] Instance message_lawful {PB : Protobuf} (PS : ProtobufSpec PB) : Lawful message.
Proof. solve_lawful decode_field fromJSON only. Qed.

End QueryGetPendingAccountRevocationResponse.

(** ** [QueryAllPendingAccountRevocationRequest] (dclauth/query.js) *)

Module QueryAllPendingAccountRevocationRequest.

Record t := mk {
  pagination : option PageRequest.t;
}.

#[global] Instance t_eta : Settable t := λ m, mk m.(pagination).

Definition base : t := mk None.

Definition encode {PB : Protobuf} (message : t) (writer : Writer) : result Writer :=
  Ok writer
  @>= defined_e message.(pagination) (submessage 10 PageRequest.encode).

Definition decode_field {PB : Protobuf} (tag : Z) (message : t) : RM t :=
  match field_number tag with
  | 1 => v ← read_nested PageRequest.decode; mret (message <| pagination := Some v |>)
  | _ => _ ← skipType (wire_type tag); mret message
  end.

Definition decode {PB : Protobuf} (length : option Z) : RM t :=
  decode_message length base decode_field.

Definition fromJSON (object : js) : result t :=
  pagination' ← field_or object "pagination" (to_some PageRequest.fromJSON) None;
  Ok (mk pagination').

Definition toJSON (message : t) : js :=
  Obj (prop_opt "pagination" PageRequest.toJSON message.(pagination)).

Record partial := mkPartial {
  p_pagination : option PageRequest.partial;
}.

Definition fromPartial (object : partial) : t := {|
  pagination := PageRequest.fromPartial <$> object.(p_pagination);
|}.

(** The object with no property given. *)
Definition nothing : partial := mkPartial None.

(** The bytes [encode] writes. *)
Definition wire {PB : Protobuf} {PS : ProtobufSpec PB} (m : t) : bytes :=
  f_message 10 PageRequest.wire m.(pagination).

Definition valid (m : t) : Prop :=
  from_option PageRequest.valid True m.(pagination).

(** The byte fields hold arrays, as the interface declares. *)
Definition typed (m : t) : bool := from_option PageRequest.typed true m.(pagination).

(** The message without its empty byte arrays. *)
Definition normal (m : t) : t := {|
  pagination := PageRequest.normal <$> m.(pagination);
|}.

Definition encodable {PB : Protobuf} {PS : ProtobufSpec PB} (m : t) : Prop :=
  typed m = true ∧ valid m ∧ small (wire m).

Definition merge (m a : t) : t := {|
  pagination := later_message m.(pagination) (PageRequest.normal <$> a.(pagination));
|}.

(** A whole message seen as a partial one. *)
Definition full (m : t) : partial := {|
  p_pagination := PageRequest.full <$> m.(pagination);
|}.

(** The message as its [.proto] file declares it. *)
Definition schema (m : t) : list field :=
  [singular 1 Optional (message_value PageRequest.schema) m.(pagination)].

(** The message with its default for every property that is not kept. *)
Definition only (kept : string → bool) (m : t) : t := {|
  pagination := if kept "pagination" then m.(pagination) else None;
|}.

#[global] Instance codec {PB : Protobuf} : FallibleCodec t :=
  {| fmsg_base := base; fmsg_encode := encode; fmsg_field := decode_field |}.

#[global] Program Instance spec {PB : Protobuf} (PS : ProtobufSpec PB) : FallibleSpec PS t :=
  {| fmsg_wire := wire; fmsg_valid := valid; fmsg_typed := typed; fmsg_normal := normal;
     fmsg_merge := merge |}.
Next Obligation. solve_fencode_wire. Qed.
Next Obligation. intros. solve_fencode_throws encode typed. Qed.
Next Obligation. solve_fdecode_wire. Qed.
Next Obligation. solve_fmerge_base. Qed.
Next Obligation. intros. solve_fadvances decode_field. Qed.

#[global] Program Instance given_ : FalliblePartial t partial :=
  {| fmsg_fromPartial := fromPartial; fmsg_full := full; fmsg_given := typed |}.
Next Obligation. solve_fgiven fromPartial typed. Qed.
Next Obligation. solve_fpartial fromPartial full typed. Qed.

#[global] Program Instance json : FallibleJson t :=
  {| fmsg_fromJSON := fromJSON; fmsg_toJSON := toJSON;
     fmsg_named := fun _ => true; fmsg_known := fun m => m |}.
Next Obligation. solve_fjson fromJSON toJSON. Qed.
Next Obligation. reflexivity. Qed.

#[global] Instance schema_wire {PB : Protobuf} {PS : ProtobufSpec PB} : WireSchema wire schema.
Proof. solve_schema_wire wire schema. Qed.

#[global] Instance schema_normal : NormalSchema normal schema.
Proof. solve_schema_normal normal schema. Qed.

#[global] Instance schema_merge : MergeSchema merge schema.
Proof. solve_schema_merge merge schema. Qed.

(** Its row in the table of message types. *)
Definition message {PB : Protobuf} {PS : ProtobufSpec PB} : message_type :=
  fallible_message "QueryAllPendingAccountRevocationRequest" nothing true schema only.

#[global] Instance message_lawful {PB : Protobuf} (PS : ProtobufSpec PB) : Lawful message.
Proof. solve_lawful decode_field fromJSON only. Qed.

End QueryAllPendingAccountRevocationRequest.

(** ** [QueryAllPendingAccountRevocationResponse] (dclauth/query.js) *)

Module QueryAllPendingAccountRevocationResponse.

Record t := mk {
  pendingAccountRevocation : list PendingAccountRevocation.t;
  pagination : option PageResponse.t;
}.

#[global] Instance t_eta : Settable t := λ m, mk m.(pendingAccountRevocation) m.(pagination).

Definition base : t := mk [] None.

Definition encode {PB : Protobuf} (message : t) (writer : Writer) : result Writer :=
  Ok writer
  @>= pure (each message.(pendingAccountRevocation) (fun v w => w @> uint32 10 @> fork @> PendingAccountRevocation.encode v @> ldelim))
  @>= defined_e message.(pagination) (submessage 18 PageResponse.encode).

Definition decode_field {PB : Protobuf} (tag : Z) (message : t) : RM t :=
  match field_number tag with
  | 1 => v ← read_nested PendingAccountRevocation.decode;
         mret (message <| pendingAccountRevocation := message.(pendingAccountRevocation) ++ [v] |>)
  | 2 => v ← read_nested PageResponse.decode; mret (message <| pagination := Some v |>)
  | _ => _ ← skipType (wire_type tag); mret message
  end.

Definition decode {PB : Protobuf} (length : option Z) : RM t :=
  decode_message length base decode_field.

Definition fromJSON (object : js) : result t :=
  pendingAccountRevocation' ← field_or object "pendingAccountRevocation" (to_list PendingAccountRevocation.fromJSON) [];
  pagination' ← field_or object "pagination" (to_some PageResponse.fromJSON) None;
  Ok (mk pendingAccountRevocation' pagination').

Definition toJSON (message : t) : js :=
  Obj ([("pendingAccountRevocation", Arr (map PendingAccountRevocation.toJSON message.(pendingAccountRevocation)))] ++
   prop_opt "pagination" PageResponse.toJSON message.(pagination)).

Record partial := mkPartial {
  p_pendingAccountRevocation : option (list PendingAccountRevocation.partial);
  p_pagination : option PageResponse.partial;
}.

Definition fromPartial (object : partial) : t := {|
  pendingAccountRevocation := map PendingAccountRevocation.fromPartial (object.(p_pendingAccountRevocation) ?? []);
  pagination := PageResponse.fromPartial <$> object.(p_pagination);
|}.

(** The object with no property given. *)
Definition nothing : partial := mkPartial None None.

(** The bytes [encode] writes. *)
Definition wire {PB : Protobuf} {PS : ProtobufSpec PB} (m : t) : bytes :=
  f_repeated 10 PendingAccountRevocation.wire m.(pendingAccountRevocation) ++
  f_message 18 PageResponse.wire m.(pagination).

Definition valid (m : t) : Prop :=
  Forall PendingAccountRevocation.valid m.(pendingAccountRevocation) ∧ from_option PageResponse.valid True m.(pagination).

(** The byte fields hold arrays, as the interface declares. *)
Definition typed (m : t) : bool := from_option PageResponse.typed true m.(pagination).

(** The message without its empty byte arrays. *)
Definition normal (m : t) : t := {|
  pendingAccountRevocation := m.(pendingAccountRevocation);
  pagination := PageResponse.normal <$> m.(pagination);
|}.

Definition encodable {PB : Protobuf} {PS : ProtobufSpec PB} (m : t) : Prop :=
  typed m = true ∧ valid m ∧ small (wire m).

Definition merge (m a : t) : t := {|
  pendingAccountRevocation := m.(pendingAccountRevocation) ++ a.(pendingAccountRevocation);
  pagination := later_message m.(pagination) (PageResponse.normal <$> a.(pagination));
|}.

(** A whole message seen as a partial one. *)
Definition full (m : t) : partial := {|
  p_pendingAccountRevocation := Some (map PendingAccountRevocation.full m.(pendingAccountRevocation));
  p_pagination := PageResponse.full <$> m.(pagination);
|}.

(** The message as its [.proto] file declares it. *)
Definition schema (m : t) : list field :=
  [repeated 1 (message_value PendingAccountRevocation.schema) m.(pendingAccountRevocation);
   singular 2 Optional (message_value PageResponse.schema) m.(pagination)].

(** The message with its default for every property that is not kept. *)
Definition only (kept : string → bool) (m : t) : t := {|
  pendingAccountRevocation := if kept "pendingAccountRevocation" then m.(pendingAccountRevocation) else [];
  pagination := if kept "pagination" then m.(pagination) else None;
|}.

#[global] Instance codec {PB : Protobuf} : FallibleCodec t :=
  {| fmsg_base := base; fmsg_encode := encode; fmsg_field := decode_field |}.

#[global] Program Instance spec {PB : Protobuf} (PS : ProtobufSpec PB) : FallibleSpec PS t :=
  {| fmsg_wire := wire; fmsg_valid := valid; fmsg_typed := typed; fmsg_normal := normal;
     fmsg_merge := merge |}.
Next Obligation. solve_fencode_wire. Qed.
Next Obligation. intros. solve_fencode_throws encode typed. Qed.
Next Obligation. solve_fdecode_wire. Qed.
Next Obligation. solve_fmerge_base. Qed.
Next Obligation. intros. solve_fadvances decode_field. Qed.

#[global] Program Instance given_ : FalliblePartial t partial :=
  {| fmsg_fromPartial := fromPartial; fmsg_full := full; fmsg_given := typed |}.
Next Obligation. solve_fgiven fromPartial typed. Qed.
Next Obligation. solve_fpartial fromPartial full typed. Qed.

#[global] Program Instance json : FallibleJson t :=
  {| fmsg_fromJSON := fromJSON; fmsg_toJSON := toJSON;
     fmsg_named := fun _ => true; fmsg_known := fun m => m |}.
Next Obligation. solve_fjson fromJSON toJSON. Qed.
Next Obligation. reflexivity. Qed.

#[global] Instance schema_wire {PB : Protobuf} {PS : ProtobufSpec PB} : WireSchema wire schema.
Proof. solve_schema_wire wire schema. Qed.

#[global] Instance schema_normal : NormalSchema normal schema.
Proof. solve_schema_normal normal schema. Qed.

#[global] Instance schema_merge : MergeSchema merge schema.
Proof. solve_schema_merge merge schema. Qed.

(** Its row in the table of message types. *)
Definition message {PB : Protobuf} {PS : ProtobufSpec PB} : message_type :=
  fallible_message "QueryAllPendingAccountRevocationResponse" nothing true schema only.

#[global] Instance message_lawful {PB : Protobuf} (PS : ProtobufSpec PB) : Lawful message.
Proof. solve_lawful decode_field fromJSON only. Qed.

End QueryAllPendingAccountRevocationResponse.

(** ** [QueryGetAccountStatRequest] (dclauth/query.js) *)

Module QueryGetAccountStatRequest.

Record t := mk {}.

#[global] Instance t_eta : Settable t := λ m, m.

Definition base : t := mk.

Definition encode {PB : Protobuf} (message : t) (writer : Writer) : Writer :=
  writer.

Definition decode_field {PB : Protobuf} (tag : Z) (message : t) : RM t :=
  match field_number tag with
  | _ => _ ← skipType (wire_type tag); mret message
  end.

Definition decode {PB : Protobuf} (length : option Z) : RM t :=
  decode_message length base decode_field.

Definition fromJSON (object : js) : result t :=
  Ok base.

Definition toJSON (message : t) : js :=
  Obj [].

Record partial := mkPartial {}.

Definition fromPartial (object : partial) : t := base.

(** The object with no property given. *)
Definition nothing : partial := mkPartial.

(** The bytes [encode] writes. *)
Definition wire {PB : Protobuf} {PS : ProtobufSpec PB} (m : t) : bytes :=
  [].

Definition valid (m : t) : Prop :=
  True.

Definition encodable {PB : Protobuf} {PS : ProtobufSpec PB} (m : t) : Prop :=
  valid m ∧ small (wire m).

Definition merge (m a : t) : t := m.

(** A whole message seen as a partial one. *)
Definition full (m : t) : partial := mkPartial.

(** The message as its [.proto] file declares it. *)
Definition schema (m : t) : list field :=
  [].

(** The message with its default for every property that is not kept. *)
Definition only (kept : string → bool) (m : t) : t := m.

#[global] Instance codec {PB : Protobuf} : MessageCodec t :=
  {| msg_base := base; msg_encode := encode; msg_field := decode_field |}.

#[global] Program Instance spec {PB : Protobuf} (PS : ProtobufSpec PB) : MessageSpec PS t :=
  {| msg_wire := wire; msg_valid := valid; msg_merge := merge |}.
Next Obligation. solve_encode_wire. Qed.
Next Obligation. solve_decode_wire. Qed.
Next Obligation. solve_merge_base. Qed.
Next Obligation. intros. solve_advances decode_field. Qed.

#[global] Program Instance data : MessageData t partial :=
  {| msg_fromJSON := fromJSON; msg_toJSON := toJSON;
     msg_fromPartial := fromPartial; msg_full := full |}.
Next Obligation. solve_json fromJSON toJSON. Qed.
Next Obligation. solve_partial fromPartial full. Qed.

#[global] Instance schema_wire {PB : Protobuf} {PS : ProtobufSpec PB} : WireSchema wire schema.
Proof. solve_schema_wire wire schema. Qed.

#[global] Instance schema_merge : MergeSchema merge schema.
Proof. solve_schema_merge merge schema. Qed.

(** Its row in the table of message types. *)
Definition message {PB : Protobuf} {PS : ProtobufSpec PB} : message_type :=
  plain_message "QueryGetAccountStatRequest" nothing false schema only.

#[global] Instance message_lawful {PB : Protobuf} (PS : ProtobufSpec PB) : Lawful message.
Proof. solve_lawful decode_field fromJSON only. Qed.

End QueryGetAccountStatRequest.

(** ** [QueryGetAccountStatResponse] (dclauth/query.js) *)

Module QueryGetAccountStatResponse.

Record t := mk {
  AccountStat : option AccountStat.t;
}.

#[global] Instance t_eta : Settable t := λ m, mk m.(AccountStat).

Definition base : t := mk None.

Definition encode {PB : Protobuf} (message : t) (writer : Writer) : Writer :=
  writer
  @> defined message.(AccountStat) (fun v w => w @> uint32 10 @> fork @> AccountStat.encode v @> ldelim).

Definition decode_field {PB : Protobuf} (tag : Z) (message : t) : RM t :=
  match field_number tag with
  | 1 => v ← read_nested AccountStat.decode; mret (message <| AccountStat := Some v |>)
  | _ => _ ← skipType (wire_type tag); mret message
  end.

Definition decode {PB : Protobuf} (length : option Z) : RM t :=
  decode_message length base decode_field.

Definition fromJSON (object : js) : result t :=
  AccountStat' ← field_or object "AccountStat" (to_some AccountStat.fromJSON) None;
  Ok (mk AccountStat').

Definition toJSON (message : t) : js :=
  Obj (prop_opt "AccountStat" AccountStat.toJSON message.(AccountStat)).

Record partial := mkPartial {
  p_AccountStat : option AccountStat.partial;
}.

Definition fromPartial (object : partial) : t := {|
  AccountStat := AccountStat.fromPartial <$> object.(p_AccountStat);
|}.

(** The object with no property given. *)
Definition nothing : partial := mkPartial None.

(** The bytes [encode] writes. *)
Definition wire {PB : Protobuf} {PS : ProtobufSpec PB} (m : t) : bytes :=
  f_message 10 AccountStat.wire m.(AccountStat).

Definition valid (m : t) : Prop :=
  from_option AccountStat.valid True m.(AccountStat).

Definition encodable {PB : Protobuf} {PS : ProtobufSpec PB} (m : t) : Prop :=
  valid m ∧ small (wire m).

Definition merge (m a : t) : t := {|
  AccountStat := later_message m.(AccountStat) a.(AccountStat);
|}.

(** A whole message seen as a partial one. *)
Definition full (m : t) : partial := {|
  p_AccountStat := AccountStat.full <$> m.(AccountStat);
|}.

(** The message as its [.proto] file declares it. *)
Definition schema (m : t) : list field :=
  [singular 1 Optional (message_value AccountStat.schema) m.(AccountStat)].

(** The message with its default for every property that is not kept. *)
Definition only (kept : string → bool) (m : t) : t := {|
  AccountStat := if kept "AccountStat" then m.(AccountStat) else None;
|}.

#[global] Instance codec {PB : Protobuf} : MessageCodec t :=
  {| msg_base := base; msg_encode := encode; msg_field := decode_field |}.

#[global] Program Instance spec {PB : Protobuf} (PS : ProtobufSpec PB) : MessageSpec PS t :=
  {| msg_wire := wire; msg_valid := valid; msg_merge := merge |}.
Next Obligation. solve_encode_wire. Qed.
Next Obligation. solve_decode_wire. Qed.
Next Obligation. solve_merge_base. Qed.
Next Obligation. intros. solve_advances decode_field. Qed.

#[global] Program Instance data : MessageData t partial :=
  {| msg_fromJSON := fromJSON; msg_toJSON := toJSON;
     msg_fromPartial := fromPartial; msg_full := full |}.
Next Obligation. solve_json fromJSON toJSON. Qed.
Next Obligation. solve_partial fromPartial full. Qed.

#[global] Instance schema_wire {PB : Protobuf} {PS : ProtobufSpec PB} : WireSchema wire schema.
Proof. solve_schema_wire wire schema. Qed.

#[global] Instance schema_merge : MergeSchema merge schema.
Proof. solve_schema_merge merge schema. Qed.

(** Its row in the table of message types. *)
Definition message {PB : Protobuf} {PS : ProtobufSpec PB} : message_type :=
  plain_message "QueryGetAccountStatResponse" nothing true schema only.

#[global] Instance message_lawful {PB : Protobuf} (PS : ProtobufSpec PB) : Lawful message.
Proof. solve_lawful decode_field fromJSON only. Qed.

End QueryGetAccountStatResponse.

(** ** [QueryGetRevokedAccountRequest] (dclauth/query.js) *)

Module QueryGetRevokedAccountRequest.

Record t := mk {
  address : string;
}.

#[global] Instance t_eta : Settable t := λ m, mk m.(address).

Definition base : t := mk "".

Definition encode {PB : Protobuf} (message : t) (writer : Writer) : Writer :=
  writer
  @> when (str_neq message.(address) "") (fun w => w @> uint32 10 @> string_ message.(address)).

Definition decode_field {PB : Protobuf} (tag : Z) (message : t) : RM t :=
  match field_number tag with
  | 1 => v ← read_string; mret (message <| address := v |>)
  | _ => _ ← skipType (wire_type tag); mret message
  end.

Definition decode {PB : Protobuf} (length : option Z) : RM t :=
  decode_message length base decode_field.

Definition fromJSON (object : js) : result t :=
  address' ← field_or object "address" to_string "";
  Ok (mk address').

Definition toJSON (message : t) : js :=
  Obj ([("address", Str message.(address))]).

Record partial := mkPartial {
  p_address : option string;
}.

Definition fromPartial (object : partial) : t := {|
  address := object.(p_address) ?? "";
|}.

(** The object with no property given. *)
Definition nothing : partial := mkPartial None.

(** The bytes [encode] writes. *)
Definition wire {PB : Protobuf} {PS : ProtobufSpec PB} (m : t) : bytes :=
  f_string 10 m.(address).

Definition valid (m : t) : Prop :=
  True.

Definition encodable {PB : Protobuf} {PS : ProtobufSpec PB} (m : t) : Prop :=
  valid m ∧ small (wire m).

Definition merge (m a : t) : t := {|
  address := later_string m.(address) a.(address);
|}.

(** A whole message seen as a partial one. *)
Definition full (m : t) : partial := {|
  p_address := Some m.(address);
|}.

(** The message as its [.proto] file declares it. *)
Definition schema (m : t) : list field :=
  [implicit 1 (VString m.(address))].

(** The message with its default for every property that is not kept. *)
Definition only (kept : string → bool) (m : t) : t := {|
  address := if kept "address" then m.(address) else "";
|}.

#[global] Instance codec {PB : Protobuf} : MessageCodec t :=
  {| msg_base := base; msg_encode := encode; msg_field := decode_field |}.

#[global] Program Instance spec {PB : Protobuf} (PS : ProtobufSpec PB) : MessageSpec PS t :=
  {| msg_wire := wire; msg_valid := valid; msg_merge := merge |}.
Next Obligation. solve_encode_wire. Qed.
Next Obligation. solve_decode_wire. Qed.
Next Obligation. solve_merge_base. Qed.
Next Obligation. intros. solve_advances decode_field. Qed.

#[global] Program Instance data : MessageData t partial :=
  {| msg_fromJSON := fromJSON; msg_toJSON := toJSON;
     msg_fromPartial := fromPartial; msg_full := full |}.
Next Obligation. solve_json fromJSON toJSON. Qed.
Next Obligation. solve_partial fromPartial full. Qed.

#[global] Instance schema_wire {PB : Protobuf} {PS : ProtobufSpec PB} : WireSchema wire schema.
Proof. solve_schema_wire wire schema. Qed.

#[global] Instance schema_merge : MergeSchema merge schema.
Proof. solve_schema_merge merge schema. Qed.

(** Its row in the table of message types. *)
Definition message {PB : Protobuf} {PS : ProtobufSpec PB} : message_type :=
  plain_message "QueryGetRevokedAccountRequest" nothing true schema only.

#[global] Instance message_lawful {PB : Protobuf} (PS : ProtobufSpec PB) : Lawful message.
Proof. solve_lawful decode_field fromJSON only. Qed.

End QueryGetRevokedAccountRequest.

(** ** [QueryGetRevokedAccountResponse] (dclauth/query.js) *)

Module QueryGetRevokedAccountResponse.

Record t := mk {
  revokedAccount : option RevokedAccount.t;
}.

#[global] Instance t_eta : Settable t := λ m, mk m.(revokedAccount).

Definition base : t := mk None.

Definition encode {PB : Protobuf} (message : t) (writer : Writer) : result Writer :=
  Ok writer
  @>= defined_e message.(revokedAccount) (submessage 10 RevokedAccount.encode).

Definition decode_field {PB : Protobuf} (tag : Z) (message : t) : RM t :=
  match field_number tag with
  | 1 => v ← read_nested RevokedAccount.decode; mret (message <| revokedAccount := Some v |>)
  | _ => _ ← skipType (wire_type tag); mret message
  end.

Definition decode {PB : Protobuf} (length : option Z) : RM t :=
  decode_message length base decode_field.

Definition fromJSON (object : js) : result t :=
  revokedAccount' ← field_or object "revokedAccount" (to_some RevokedAccount.fromJSON) None;
  Ok (mk revokedAccount').

Definition toJSON (message : t) : js :=
  Obj (prop_opt "revokedAccount" RevokedAccount.toJSON message.(revokedAccount)).

Record partial := mkPartial {
  p_revokedAccount : option RevokedAccount.partial;
}.

Definition fromPartial (object : partial) : t := {|
  revokedAccount := RevokedAccount.fromPartial <$> object.(p_revokedAccount);
|}.

(** The object with no property given. *)
Definition nothing : partial := mkPartial None.

(** The bytes [encode] writes. *)
Definition wire {PB : Protobuf} {PS : ProtobufSpec PB} (m : t) : bytes :=
  f_message 10 RevokedAccount.wire m.(revokedAccount).

Definition valid (m : t) : Prop :=
  from_option RevokedAccount.valid True m.(revokedAccount).

(** The byte fields hold arrays, as the interface declares. *)
Definition typed (m : t) : bool := from_option RevokedAccount.typed true m.(revokedAccount).

(** The message without its empty byte arrays. *)
Definition normal (m : t) : t := {|
  revokedAccount := RevokedAccount.normal <$> m.(revokedAccount);
|}.

(** The enumeration fields hold members. *)
Definition named (m : t) : bool := from_option RevokedAccount.named true m.(revokedAccount).

(** The message with the numbers [toJSON] does not know replaced. *)
Definition known (m : t) : t := {|
  revokedAccount := RevokedAccount.known <$> m.(revokedAccount);
|}.

Definition encodable {PB : Protobuf} {PS : ProtobufSpec PB} (m : t) : Prop :=
  typed m = true ∧ valid m ∧ small (wire m).

Definition merge (m a : t) : t := {|
  revokedAccount := later_message m.(revokedAccount) (RevokedAccount.normal <$> a.(revokedAccount));
|}.

(** A whole message seen as a partial one. *)
Definition full (m : t) : partial := {|
  p_revokedAccount := RevokedAccount.full <$> m.(revokedAccount);
|}.

(** The message as its [.proto] file declares it. *)
Definition schema (m : t) : list field :=
  [singular 1 Optional (message_value RevokedAccount.schema) m.(revokedAccount)].

(** The message with its default for every property that is not kept. *)
Definition only (kept : string → bool) (m : t) : t := {|
  revokedAccount := if kept "revokedAccount" then m.(revokedAccount) else None;
|}.

#[global] Instance codec {PB : Protobuf} : FallibleCodec t :=
  {| fmsg_base := base; fmsg_encode := encode; fmsg_field := decode_field |}.

#[global] Program Instance spec {PB : Protobuf} (PS : ProtobufSpec PB) : FallibleSpec PS t :=
  {| fmsg_wire := wire; fmsg_valid := valid; fmsg_typed := typed; fmsg_normal := normal;
     fmsg_merge := merge |}.
Next Obligation. solve_fencode_wire. Qed.
Next Obligation. intros. solve_fencode_throws encode typed. Qed.
Next Obligation. solve_fdecode_wire. Qed.
Next Obligation. solve_fmerge_base. Qed.
Next Obligation. intros. solve_fadvances decode_field. Qed.

#[global] Program Instance given_ : FalliblePartial t partial :=
  {| fmsg_fromPartial := fromPartial; fmsg_full := full; fmsg_given := typed |}.
Next Obligation. solve_fgiven fromPartial typed. Qed.
Next Obligation. solve_fpartial fromPartial full typed. Qed.

#[global] Program Instance json : FallibleJson t :=
  {| fmsg_fromJSON := fromJSON; fmsg_toJSON := toJSON;
     fmsg_named := named; fmsg_known := known |}.
Next Obligation. solve_fjson fromJSON toJSON. Qed.
Next Obligation. solve_known named known. Qed.

#[global] Instance schema_wire {PB : Protobuf} {PS : ProtobufSpec PB} : WireSchema wire schema.
Proof. solve_schema_wire wire schema. Qed.

#[global] Instance schema_normal : NormalSchema normal schema.
Proof. solve_schema_normal normal schema. Qed.

#[global] Instance schema_merge : MergeSchema merge schema.
Proof. solve_schema_merge merge schema. Qed.

(** Its row in the table of message types. *)
Definition message {PB : Protobuf} {PS : ProtobufSpec PB} : message_type :=
  fallible_message "QueryGetRevokedAccountResponse" nothing true schema only.

#[global] Instance message_lawful {PB : Protobuf} (PS : ProtobufSpec PB) : Lawful message.
Proof. solve_lawful decode_field fromJSON only. Qed.

End QueryGetRevokedAccountResponse.

(** ** [QueryAllRevokedAccountRequest] (dclauth/query.js) *)

Module QueryAllRevokedAccountRequest.

Record t := mk {
  pagination : option PageRequest.t;
}.

#[global] Instance t_eta : Settable t := λ m, mk m.(pagination).

Definition base : t := mk None.

Definition encode {PB : Protobuf} (message : t) (writer : Writer) : result Writer :=
  Ok writer
  @>= defined_e message.(pagination) (submessage 10 PageRequest.encode).

Definition decode_field {PB : Protobuf} (tag : Z) (message : t) : RM t :=
  match field_number tag with
  | 1 => v ← read_nested PageRequest.decode; mret (message <| pagination := Some v |>)
  | _ => _ ← skipType (wire_type tag); mret message
  end.

Definition decode {PB : Protobuf} (length : option Z) : RM t :=
  decode_message length base decode_field.

Definition fromJSON (object : js) : result t :=
  pagination' ← field_or object "pagination" (to_some PageRequest.fromJSON) None;
  Ok (mk pagination').

Definition toJSON (message : t) : js :=
  Obj (prop_opt "pagination" PageRequest.toJSON message.(pagination)).

Record partial := mkPartial {
  p_pagination : option PageRequest.partial;
}.

Definition fromPartial (object : partial) : t := {|
  pagination := PageRequest.fromPartial <$> object.(p_pagination);
|}.

(** The object with no property given. *)
Definition nothing : partial := mkPartial None.

(** The bytes [encode] writes. *)
Definition wire {PB : Protobuf} {PS : ProtobufSpec PB} (m : t) : bytes :=
  f_message 10 PageRequest.wire m.(pagination).

Definition valid (m : t) : Prop :=
  from_option PageRequest.valid True m.(pagination).

(** The byte fields hold arrays, as the interface declares. *)
Definition typed (m : t) : bool := from_option PageRequest.typed true m.(pagination).

(** The message without its empty byte arrays. *)
Definition normal (m : t) : t := {|
  pagination := PageRequest.normal <$> m.(pagination);
|}.

Definition encodable {PB : Protobuf} {PS : ProtobufSpec PB} (m : t) : Prop :=
  typed m = true ∧ valid m ∧ small (wire m).

Definition merge (m a : t) : t := {|
  pagination := later_message m.(pagination) (PageRequest.normal <$> a.(pagination));
|}.

(** A whole message seen as a partial one. *)
Definition full (m : t) : partial := {|
  p_pagination := PageRequest.full <$> m.(pagination);
|}.

(** The message as its [.proto] file declares it. *)
Definition schema (m : t) : list field :=
  [singular 1 Optional (message_value PageRequest.schema) m.(pagination)].

(** The message with its default for every property that is not kept. *)
Definition only (kept : string → bool) (m : t) : t := {|
  pagination := if kept "pagination" then m.(pagination) else None;
|}.

#[global] Instance codec {PB : Protobuf} : FallibleCodec t :=
  {| fmsg_base := base; fmsg_encode := encode; fmsg_field := decode_field |}.

#[global] Program Instance spec {PB : Protobuf} (PS : ProtobufSpec PB) : FallibleSpec PS t :=
  {| fmsg_wire := wire; fmsg_valid := valid; fmsg_typed := typed; fmsg_normal := normal;
     fmsg_merge := merge |}.
Next Obligation. solve_fencode_wire. Qed.
Next Obligation. intros. solve_fencode_throws encode typed. Qed.
Next Obligation. solve_fdecode_wire. Qed.
Next Obligation. solve_fmerge_base. Qed.
Next Obligation. intros. solve_fadvances decode_field. Qed.

#[global] Program Instance given_ : FalliblePartial t partial :=
  {| fmsg_fromPartial := fromPartial; fmsg_full := full; fmsg_given := typed |}.
Next Obligation. solve_fgiven fromPartial typed. Qed.
Next Obligation. solve_fpartial fromPartial full typed. Qed.

#[global] Program Instance json : FallibleJson t :=
  {| fmsg_fromJSON := fromJSON; fmsg_toJSON := toJSON;
     fmsg_named := fun _ => true; fmsg_known := fun m => m |}.
Next Obligation. solve_fjson fromJSON toJSON. Qed.
Next Obligation. reflexivity. Qed.

#[global] Instance schema_wire {PB : Protobuf} {PS : ProtobufSpec PB} : WireSchema wire schema.
Proof. solve_schema_wire wire schema. Qed.

#[global] Instance schema_normal : NormalSchema normal schema.
Proof. solve_schema_normal normal schema. Qed.

#[global] Instance schema_merge : MergeSchema merge schema.
Proof. solve_schema_merge merge schema. Qed.

(** Its row in the table of message types. *)
Definition message {PB : Protobuf} {PS : ProtobufSpec PB} : message_type :=
  fallible_message "QueryAllRevokedAccountRequest" nothing true schema only.

#[global] Instance message_lawful {PB : Protobuf} (PS : ProtobufSpec PB) : Lawful message.
Proof. solve_lawful decode_field fromJSON only. Qed.

End QueryAllRevokedAccountRequest.

(** ** [QueryAllRevokedAccountResponse] (dclauth/query.js) *)

Module QueryAllRevokedAccountResponse.

Record t := mk {
  revokedAccount : list RevokedAccount.t;
  pagination : option PageResponse.t;
}.

#[global] Instance t_eta : Settable t := λ m, mk m.(revokedAccount) m.(pagination).

Definition base : t := mk [] None.

Definition encode {PB : Protobuf} (message : t) (writer : Writer) : result Writer :=
  Ok writer
  @>= each_e message.(revokedAccount) (submessage 10 RevokedAccount.encode)
  @>= defined_e message.(pagination) (submessage 18 PageResponse.encode).

Definition decode_field {PB : Protobuf} (tag : Z) (message : t) : RM t :=
  match field_number tag with
  | 1 => v ← read_nested RevokedAccount.decode;
         mret (message <| revokedAccount := message.(revokedAccount) ++ [v] |>)
  | 2 => v ← read_nested PageResponse.decode; mret (message <| pagination := Some v |>)
  | _ => _ ← skipType (wire_type tag); mret message
  end.

Definition decode {PB : Protobuf} (length : option Z) : RM t :=
  decode_message length base decode_field.

Definition fromJSON (object : js) : result t :=
  revokedAccount' ← field_or object "revokedAccount" (to_list RevokedAccount.fromJSON) [];
  pagination' ← field_or object "pagination" (to_some PageResponse.fromJSON) None;
  Ok (mk revokedAccount' pagination').

Definition toJSON (message : t) : js :=
  Obj ([("revokedAccount", Arr (map RevokedAccount.toJSON message.(revokedAccount)))] ++
   prop_opt "pagination" PageResponse.toJSON message.(pagination)).

Record partial := mkPartial {
  p_revokedAccount : option (list RevokedAccount.partial);
  p_pagination : option PageResponse.partial;
}.

Definition fromPartial (object : partial) : t := {|
  revokedAccount := map RevokedAccount.fromPartial (object.(p_revokedAccount) ?? []);
  pagination := PageResponse.fromPartial <$> object.(p_pagination);
|}.

(** The object with no property given. *)
Definition nothing : partial := mkPartial None None.

(** The bytes [encode] writes. *)
Definition wire {PB : Protobuf} {PS : ProtobufSpec PB} (m : t) : bytes :=
  f_repeated 10 RevokedAccount.wire m.(revokedAccount) ++
  f_message 18 PageResponse.wire m.(pagination).

Definition valid (m : t) : Prop :=
  Forall RevokedAccount.valid m.(revokedAccount) ∧ from_option PageResponse.valid True m.(pagination).

(** The byte fields hold arrays, as the interface declares. *)
Definition typed (m : t) : bool := forallb RevokedAccount.typed m.(revokedAccount) && from_option PageResponse.typed true m.(pagination).

(** The message without its empty byte arrays. *)
Definition normal (m : t) : t := {|
  revokedAccount := map RevokedAccount.normal m.(revokedAccount);
  pagination := PageResponse.normal <$> m.(pagination);
|}.

(** The enumeration fields hold members. *)
Definition named (m : t) : bool := forallb RevokedAccount.named m.(revokedAccount).

(** The message with the numbers [toJSON] does not know replaced. *)
Definition known (m : t) : t := {|
  revokedAccount := map RevokedAccount.known m.(revokedAccount);
  pagination := m.(pagination);
|}.

Definition encodable {PB : Protobuf} {PS : ProtobufSpec PB} (m : t) : Prop :=
  typed m = true ∧ valid m ∧ small (wire m).

Definition merge (m a : t) : t := {|
  revokedAccount := m.(revokedAccount) ++ map RevokedAccount.normal a.(revokedAccount);
  pagination := later_message m.(pagination) (PageResponse.normal <$> a.(pagination));
|}.

(** A whole message seen as a partial one. *)
Definition full (m : t) : partial := {|
  p_revokedAccount := Some (map RevokedAccount.full m.(revokedAccount));
  p_pagination := PageResponse.full <$> m.(pagination);
|}.

(** The message as its [.proto] file declares it. *)
Definition schema (m : t) : list field :=
  [repeated 1 (message_value RevokedAccount.schema) m.(revokedAccount);
   singular 2 Optional (message_value PageResponse.schema) m.(pagination)].

(** The message with its default for every property that is not kept. *)
Definition only (kept : string → bool) (m : t) : t := {|
  revokedAccount := if kept "revokedAccount" then m.(revokedAccount) else [];
  pagination := if kept "pagination" then m.(pagination) else None;
|}.

#[global] Instance codec {PB : Protobuf} : FallibleCodec t :=
  {| fmsg_base := base; fmsg_encode := encode; fmsg_field := decode_field |}.

#[global] Program Instance spec {PB : Protobuf} (PS : ProtobufSpec PB) : FallibleSpec PS t :=
  {| fmsg_wire := wire; fmsg_valid := valid; fmsg_typed := typed; fmsg_normal := normal;
     fmsg_merge := merge |}.
Next Obligation. solve_fencode_wire. Qed.
Next Obligation. intros. solve_fencode_throws encode typed. Qed.
Next Obligation. solve_fdecode_wire. Qed.
Next Obligation. solve_fmerge_base. Qed.
Next Obligation. intros. solve_fadvances decode_field. Qed.

#[global] Program Instance given_ : FalliblePartial t partial :=
  {| fmsg_fromPartial := fromPartial; fmsg_full := full; fmsg_given := typed |}.
Next Obligation. solve_fgiven fromPartial typed. Qed.
Next Obligation. solve_fpartial fromPartial full typed. Qed.

#[global] Program Instance json : FallibleJson t :=
  {| fmsg_fromJSON := fromJSON; fmsg_toJSON := toJSON;
     fmsg_named := named; fmsg_known := known |}.
Next Obligation. solve_fjson fromJSON toJSON. Qed.
Next Obligation. solve_known named known. Qed.

#[global] Instance schema_wire {PB : Protobuf} {PS : ProtobufSpec PB} : WireSchema wire schema.
Proof. solve_schema_wire wire schema. Qed.

#[global] Instance schema_normal : NormalSchema normal schema.
Proof. solve_schema_normal normal schema. Qed.

#[global] Instance schema_merge : MergeSchema merge schema.
Proof. solve_schema_merge merge schema. Qed.

(** Its row in the table of message types. *)
Definition message {PB : Protobuf} {PS : ProtobufSpec PB} : message_type :=
  fallible_message "QueryAllRevokedAccountResponse" nothing true schema only.

#[global] Instance message_lawful {PB : Protobuf} (PS : ProtobufSpec PB) : Lawful message.
Proof. solve_lawful decode_field fromJSON only. Qed.

End QueryAllRevokedAccountResponse.

(** ** [QueryGetRejectedAccountRequest] (dclauth/query.js) *)

Module QueryGetRejectedAccountRequest.

Record t := mk {
  address : string;
}.

#[global] Instance t_eta : Settable t := λ m, mk m.(address).

Definition base : t := mk "".

Definition encode {PB : Protobuf} (message : t) (writer : Writer) : Writer :=
  writer
  @> when (str_neq message.(address) "") (fun w => w @> uint32 10 @> string_ message.(address)).

Definition decode_field {PB : Protobuf} (tag : Z) (message : t) : RM t :=
  match field_number tag with
  | 1 => v ← read_string; mret (message <| address := v |>)
  | _ => _ ← skipType (wire_type tag); mret message
  end.

Definition decode {PB : Protobuf} (length : option Z) : RM t :=
  decode_message length base decode_field.

Definition fromJSON (object : js) : result t :=
  address' ← field_or object "address" to_string "";
  Ok (mk address').

Definition toJSON (message : t) : js :=
  Obj ([("address", Str message.(address))]).

Record partial := mkPartial {
  p_address : option string;
}.

Definition fromPartial (object : partial) : t := {|
  address := object.(p_address) ?? "";
|}.

(** The object with no property given. *)
Definition nothing : partial := mkPartial None.

(** The bytes [encode] writes. *)
Definition wire {PB : Protobuf} {PS : ProtobufSpec PB} (m : t) : bytes :=
  f_string 10 m.(address).

Definition valid (m : t) : Prop :=
  True.

Definition encodable {PB : Protobuf} {PS : ProtobufSpec PB} (m : t) : Prop :=
  valid m ∧ small (wire m).

Definition merge (m a : t) : t := {|
  address := later_string m.(address) a.(address);
|}.

(** A whole message seen as a partial one. *)
Definition full (m : t) : partial := {|
  p_address := Some m.(address);
|}.

(** The message as its [.proto] file declares it. *)
Definition schema (m : t) : list field :=
  [implicit 1 (VString m.(address))].

(** The message with its default for every property that is not kept. *)
Definition only (kept : string → bool) (m : t) : t := {|
  address := if kept "address" then m.(address) else "";
|}.

#[global] Instance codec {PB : Protobuf} : MessageCodec t :=
  {| msg_base := base; msg_encode := encode; msg_field := decode_field |}.

#[global] Program Instance spec {PB : Protobuf} (PS : ProtobufSpec PB) : MessageSpec PS t :=
  {| msg_wire := wire; msg_valid := valid; msg_merge := merge |}.
Next Obligation. solve_encode_wire. Qed.
Next Obligation. solve_decode_wire. Qed.
Next Obligation. solve_merge_base. Qed.
Next Obligation. intros. solve_advances decode_field. Qed.

#[global] Program Instance data : MessageData t partial :=
  {| msg_fromJSON := fromJSON; msg_toJSON := toJSON;
     msg_fromPartial := fromPartial; msg_full := full |}.
Next Obligation. solve_json fromJSON toJSON. Qed.
Next Obligation. solve_partial fromPartial full. Qed.

#[global] Instance schema_wire {PB : Protobuf} {PS : ProtobufSpec PB} : WireSchema wire schema.
Proof. solve_schema_wire wire schema. Qed.

#[global] Instance schema_merge : MergeSchema merge schema.
Proof. solve_schema_merge merge schema. Qed.

(** Its row in the table of message types. *)
Definition message {PB : Protobuf} {PS : ProtobufSpec PB} : message_type :=
  plain_message "QueryGetRejectedAccountRequest" nothing true schema only.

#[global] Instance message_lawful {PB : Protobuf} (PS : ProtobufSpec PB) : Lawful message.
Proof. solve_lawful decode_field fromJSON only. Qed.

End QueryGetRejectedAccountRequest.

(** ** [QueryGetRejectedAccountResponse] (dclauth/query.js) *)

Module QueryGetRejectedAccountResponse.

Record t := mk {
  rejectedAccount : option RejectedAccount.t;
}.

#[global] Instance t_eta : Settable t := λ m, mk m.(rejectedAccount).

Definition base : t := mk None.

Definition encode {PB : Protobuf} (message : t) (writer : Writer) : result Writer :=
  Ok writer
  @>= defined_e message.(rejectedAccount) (submessage 10 RejectedAccount.encode).

Definition decode_field {PB : Protobuf} (tag : Z) (message : t) : RM t :=
  match field_number tag with
  | 1 => v ← read_nested RejectedAccount.decode; mret (message <| rejectedAccount := Some v |>)
  | _ => _ ← skipType (wire_type tag); mret message
  end.

Definition decode {PB : Protobuf} (length : option Z) : RM t :=
  decode_message length base decode_field.

Definition fromJSON (object : js) : result t :=
  rejectedAccount' ← field_or object "rejectedAccount" (to_some RejectedAccount.fromJSON) None;
  Ok (mk rejectedAccount').

Definition toJSON (message : t) : js :=
  Obj (prop_opt "rejectedAccount" RejectedAccount.toJSON message.(rejectedAccount)).

Record partial := mkPartial {
  p_rejectedAccount : option RejectedAccount.partial;
}.

Definition fromPartial (object : partial) : t := {|
  rejectedAccount := RejectedAccount.fromPartial <$> object.(p_rejectedAccount);
|}.

(** The object with no property given. *)
Definition nothing : partial := mkPartial None.

(** The bytes [encode] writes. *)
Definition wire {PB : Protobuf} {PS : ProtobufSpec PB} (m : t) : bytes :=
  f_message 10 RejectedAccount.wire m.(rejectedAccount).

Definition valid (m : t) : Prop :=
  from_option RejectedAccount.valid True m.(rejectedAccount).

(** The byte fields hold arrays, as the interface declares. *)
Definition typed (m : t) : bool := from_option RejectedAccount.typed true m.(rejectedAccount).

(** The message without its empty byte arrays. *)
Definition normal (m : t) : t := {|
  rejectedAccount := RejectedAccount.normal <$> m.(rejectedAccount);
|}.

Definition encodable {PB : Protobuf} {PS : ProtobufSpec PB} (m : t) : Prop :=
  typed m = true ∧ valid m ∧ small (wire m).

Definition merge (m a : t) : t := {|
  rejectedAccount := later_message m.(rejectedAccount) (RejectedAccount.normal <$> a.(rejectedAccount));
|}.

(** A whole message seen as a partial one. *)
Definition full (m : t) : partial := {|
  p_rejectedAccount := RejectedAccount.full <$> m.(rejectedAccount);
|}.

(** The message as its [.proto] file declares it. *)
Definition schema (m : t) : list field :=
  [singular 1 Optional (message_value RejectedAccount.schema) m.(rejectedAccount)].

(** The message with its default for every property that is not kept. *)
Definition only (kept : string → bool) (m : t) : t := {|
  rejectedAccount := if kept "rejectedAccount" then m.(rejectedAccount) else None;
|}.

#[global] Instance codec {PB : Protobuf} : FallibleCodec t :=
  {| fmsg_base := base; fmsg_encode := encode; fmsg_field := decode_field |}.

#[global] Program Instance spec {PB : Protobuf} (PS : ProtobufSpec PB) : FallibleSpec PS t :=
  {| fmsg_wire := wire; fmsg_valid := valid; fmsg_typed := typed; fmsg_normal := normal;
     fmsg_merge := merge |}.
Next Obligation. solve_fencode_wire. Qed.
Next Obligation. intros. solve_fencode_throws encode typed. Qed.
Next Obligation. solve_fdecode_wire. Qed.
Next Obligation. solve_fmerge_base. Qed.
Next Obligation. intros. solve_fadvances decode_field. Qed.

#[global] Program Instance given_ : FalliblePartial t partial :=
  {| fmsg_fromPartial := fromPartial; fmsg_full := full; fmsg_given := typed |}.
Next Obligation. solve_fgiven fromPartial typed. Qed.
Next Obligation. solve_fpartial fromPartial full typed. Qed.

#[global] Program Instance json : FallibleJson t :=
  {| fmsg_fromJSON := fromJSON; fmsg_toJSON := toJSON;
     fmsg_named := fun _ => true; fmsg_known := fun m => m |}.
Next Obligation. solve_fjson fromJSON toJSON. Qed.
Next Obligation. reflexivity. Qed.

#[global] Instance schema_wire {PB : Protobuf} {PS : ProtobufSpec PB} : WireSchema wire schema.
Proof. solve_schema_wire wire schema. Qed.

#[global] Instance schema_normal : NormalSchema normal schema.
Proof. solve_schema_normal normal schema. Qed.

#[global] Instance schema_merge : MergeSchema merge schema.
Proof. solve_schema_merge merge schema. Qed.

(** Its row in the table of message types. *)
Definition message {PB : Protobuf} {PS : ProtobufSpec PB} : message_type :=
  fallible_message "QueryGetRejectedAccountResponse" nothing true schema only.

#[global] Instance message_lawful {PB : Protobuf} (PS : ProtobufSpec PB) : Lawful message.
Proof. solve_lawful decode_field fromJSON only. Qed.

End QueryGetRejectedAccountResponse.

(** ** [QueryAllRejectedAccountRequest] (dclauth/query.js) *)

Module QueryAllRejectedAccountRequest.

Record t := mk {
  pagination : option PageRequest.t;
}.

#[global] Instance t_eta : Settable t := λ m, mk m.(pagination).

Definition base : t := mk None.

Definition encode {PB : Protobuf} (message : t) (writer : Writer) : result Writer :=
  Ok writer
  @>= defined_e message.(pagination) (submessage 10 PageRequest.encode).

Definition decode_field {PB : Protobuf} (tag : Z) (message : t) : RM t :=
  match field_number tag with
  | 1 => v ← read_nested PageRequest.decode; mret (message <| pagination := Some v |>)
  | _ => _ ← skipType (wire_type tag); mret message
  end.

Definition decode {PB : Protobuf} (length : option Z) : RM t :=
  decode_message length base decode_field.

Definition fromJSON (object : js) : result t :=
  pagination' ← field_or object "pagination" (to_some PageRequest.fromJSON) None;
  Ok (mk pagination').

Definition toJSON (message : t) : js :=
  Obj (prop_opt "pagination" PageRequest.toJSON message.(pagination)).

Record partial := mkPartial {
  p_pagination : option PageRequest.partial;
}.

Definition fromPartial (object : partial) : t := {|
  pagination := PageRequest.fromPartial <$> object.(p_pagination);
|}.

(** The object with no property given. *)
Definition nothing : partial := mkPartial None.

(** The bytes [encode] writes. *)
Definition wire {PB : Protobuf} {PS : ProtobufSpec PB} (m : t) : bytes :=
  f_message 10 PageRequest.wire m.(pagination).

Definition valid (m : t) : Prop :=
  from_option PageRequest.valid True m.(pagination).

(** The byte fields hold arrays, as the interface declares. *)
Definition typed (m : t) : bool := from_option PageRequest.typed true m.(pagination).

(** The message without its empty byte arrays. *)
Definition normal (m : t) : t := {|
  pagination := PageRequest.normal <$> m.(pagination);
|}.

Definition encodable {PB : Protobuf} {PS : ProtobufSpec PB} (m : t) : Prop :=
  typed m = true ∧ valid m ∧ small (wire m).

Definition merge (m a : t) : t := {|
  pagination := later_message m.(pagination) (PageRequest.normal <$> a.(pagination));
|}.

(** A whole message seen as a partial one. *)
Definition full (m : t) : partial := {|
  p_pagination := PageRequest.full <$> m.(pagination);
|}.

(** The message as its [.proto] file declares it. *)
Definition schema (m : t) : list field :=
  [singular 1 Optional (message_value PageRequest.schema) m.(pagination)].

(** The message with its default for every property that is not kept. *)
Definition only (kept : string → bool) (m : t) : t := {|
  pagination := if kept "pagination" then m.(pagination) else None;
|}.

#[global] Instance codec {PB : Protobuf} : FallibleCodec t :=
  {| fmsg_base := base; fmsg_encode := encode; fmsg_field := decode_field |}.

#[global] Program Instance spec {PB : Protobuf} (PS : ProtobufSpec PB) : FallibleSpec PS t :=
  {| fmsg_wire := wire; fmsg_valid := valid; fmsg_typed := typed; fmsg_normal := normal;
     fmsg_merge := merge |}.
Next Obligation. solve_fencode_wire. Qed.
Next Obligation. intros. solve_fencode_throws encode typed. Qed.
Next Obligation. solve_fdecode_wire. Qed.
Next Obligation. solve_fmerge_base. Qed.
Next Obligation. intros. solve_fadvances decode_field. Qed.

#[global] Program Instance given_ : FalliblePartial t partial :=
  {| fmsg_fromPartial := fromPartial; fmsg_full := full; fmsg_given := typed |}.
Next Obligation. solve_fgiven fromPartial typed. Qed.
Next Obligation. solve_fpartial fromPartial full typed. Qed.

#[global] Program Instance json : FallibleJson t :=
  {| fmsg_fromJSON := fromJSON; fmsg_toJSON := toJSON;
     fmsg_named := fun _ => true; fmsg_known := fun m => m |}.
Next Obligation. solve_fjson fromJSON toJSON. Qed.
Next Obligation. reflexivity. Qed.

#[global] Instance schema_wire {PB : Protobuf} {PS : ProtobufSpec PB} : WireSchema wire schema.
Proof. solve_schema_wire wire schema. Qed.

#[global] Instance schema_normal : NormalSchema normal schema.
Proof. solve_schema_normal normal schema. Qed.

#[global] Instance schema_merge : MergeSchema merge schema.
Proof. solve_schema_merge merge schema. Qed.

(** Its row in the table of message types. *)
Definition message {PB : Protobuf} {PS : ProtobufSpec PB} : message_type :=
  fallible_message "QueryAllRejectedAccountRequest" nothing true schema only.

#[global] Instance message_lawful {PB : Protobuf} (PS : ProtobufSpec PB) : Lawful message.
Proof. solve_lawful decode_field fromJSON only. Qed.

End QueryAllRejectedAccountRequest.

(** ** [QueryAllRejectedAccountResponse] (dclauth/query.js) *)

Module QueryAllRejectedAccountResponse.

Record t := mk {
  rejectedAccount : list RejectedAccount.t;
  pagination : option PageResponse.t;
}.

#[global] Instance t_eta : Settable t := λ m, mk m.(rejectedAccount) m.(pagination).

Definition base : t := mk [] None.

Definition encode {PB : Protobuf} (message : t) (writer : Writer) : result Writer :=
  Ok writer
  @>= each_e message.(rejectedAccount) (submessage 10 RejectedAccount.encode)
  @>= defined_e message.(pagination) (submessage 18 PageResponse.encode).

Definition decode_field {PB : Protobuf} (tag : Z) (message : t) : RM t :=
  match field_number tag with
  | 1 => v ← read_nested RejectedAccount.decode;
         mret (message <| rejectedAccount := message.(rejectedAccount) ++ [v] |>)
  | 2 => v ← read_nested PageResponse.decode; mret (message <| pagination := Some v |>)
  | _ => _ ← skipType (wire_type tag); mret message
  end.

Definition decode {PB : Protobuf} (length : option Z) : RM t :=
  decode_message length base decode_field.

Definition fromJSON (object : js) : result t :=
  rejectedAccount' ← field_or object "rejectedAccount" (to_list RejectedAccount.fromJSON) [];
  pagination' ← field_or object "pagination" (to_some PageResponse.fromJSON) None;
  Ok (mk rejectedAccount' pagination').

Definition toJSON (message : t) : js :=
  Obj ([("rejectedAccount", Arr (map RejectedAccount.toJSON message.(rejectedAccount)))] ++
   prop_opt "pagination" PageResponse.toJSON message.(pagination)).

Record partial := mkPartial {
  p_rejectedAccount : option (list RejectedAccount.partial);
  p_pagination : option PageResponse.partial;
}.

Definition fromPartial (object : partial) : t := {|
  rejectedAccount := map RejectedAccount.fromPartial (object.(p_rejectedAccount) ?? []);
  pagination := PageResponse.fromPartial <$> object.(p_pagination);
|}.

(** The object with no property given. *)
Definition nothing : partial := mkPartial None None.

(** The bytes [encode] writes. *)
Definition wire {PB : Protobuf} {PS : ProtobufSpec PB} (m : t) : bytes :=
  f_repeated 10 RejectedAccount.wire m.(rejectedAccount) ++
  f_message 18 PageResponse.wire m.(pagination).

Definition valid (m : t) : Prop :=
  Forall RejectedAccount.valid m.(rejectedAccount) ∧ from_option PageResponse.valid True m.(pagination).

(** The byte fields hold arrays, as the interface declares. *)
Definition typed (m : t) : bool := forallb RejectedAccount.typed m.(rejectedAccount) && from_option PageResponse.typed true m.(pagination).

(** The message without its empty byte arrays. *)
Definition normal (m : t) : t := {|
  rejectedAccount := map RejectedAccount.normal m.(rejectedAccount);
  pagination := PageResponse.normal <$> m.(pagination);
|}.

Definition encodable {PB : Protobuf} {PS : ProtobufSpec PB} (m : t) : Prop :=
  typed m = true ∧ valid m ∧ small (wire m).

Definition merge (m a : t) : t := {|
  rejectedAccount := m.(rejectedAccount) ++ map RejectedAccount.normal a.(rejectedAccount);
  pagination := later_message m.(pagination) (PageResponse.normal <$> a.(pagination));
|}.

(** A whole message seen as a partial one. *)
Definition full (m : t) : partial := {|
  p_rejectedAccount := Some (map RejectedAccount.full m.(rejectedAccount));
  p_pagination := PageResponse.full <$> m.(pagination);
|}.

(** The message as its [.proto] file declares it. *)
Definition schema (m : t) : list field :=
  [repeated 1 (message_value RejectedAccount.schema) m.(rejectedAccount);
   singular 2 Optional (message_value PageResponse.schema) m.(pagination)].

(** The message with its default for every property that is not kept. *)
Definition only (kept : string → bool) (m : t) : t := {|
  rejectedAccount := if kept "rejectedAccount" then m.(rejectedAccount) else [];
  pagination := if kept "pagination" then m.(pagination) else None;
|}.

#[global] Instance codec {PB : Protobuf} : FallibleCodec t :=
  {| fmsg_base := base; fmsg_encode := encode; fmsg_field := decode_field |}.

#[global] Program Instance spec {PB : Protobuf} (PS : ProtobufSpec PB) : FallibleSpec PS t :=
  {| fmsg_wire := wire; fmsg_valid := valid; fmsg_typed := typed; fmsg_normal := normal;
     fmsg_merge := merge |}.
Next Obligation. solve_fencode_wire. Qed.
Next Obligation. intros. solve_fencode_throws encode typed. Qed.
Next Obligation. solve_fdecode_wire. Qed.
Next Obligation. solve_fmerge_base. Qed.
Next Obligation. intros. solve_fadvances decode_field. Qed.

#[global] Program Instance given_ : FalliblePartial t partial :=
  {| fmsg_fromPartial := fromPartial; fmsg_full := full; fmsg_given := typed |}.
Next Obligation. solve_fgiven fromPartial typed. Qed.
Next Obligation. solve_fpartial fromPartial full typed. Qed.

#[global] Program Instance json : FallibleJson t :=
  {| fmsg_fromJSON := fromJSON; fmsg_toJSON := toJSON;
     fmsg_named := fun _ => true; fmsg_known := fun m => m |}.
Next Obligation. solve_fjson fromJSON toJSON. Qed.
Next Obligation. reflexivity. Qed.

#[global] Instance schema_wire {PB : Protobuf} {PS : ProtobufSpec PB} : WireSchema wire schema.
Proof. solve_schema_wire wire schema. Qed.

#[global] Instance schema_normal : NormalSchema normal schema.
Proof. solve_schema_normal normal schema. Qed.

#[global] Instance schema_merge : MergeSchema merge schema.
Proof. solve_schema_merge merge schema. Qed.

(** Its row in the table of message types. *)
Definition message {PB : Protobuf} {PS : ProtobufSpec PB} : message_type :=
  fallible_message "QueryAllRejectedAccountResponse" nothing true schema only.

#[global] Instance message_lawful {PB : Protobuf} (PS : ProtobufSpec PB) : Lawful message.
Proof. solve_lawful decode_field fromJSON only. Qed.

End QueryAllRejectedAccountResponse.

(** ** [GenesisState] (dclauth/genesis.js) *)

Module GenesisState.

Record t := mk {
  accountList : list Account.t;
  pendingAccountList : list PendingAccount.t;
  pendingAccountRevocationList : list PendingAccountRevocation.t;
  accountStat : option AccountStat.t;
  revokedAccountList : list RevokedAccount.t;
  rejectedAccountList : list RejectedAccount.t;
}.

#[global] Instance t_eta : Settable t := λ m, mk m.(accountList) m.(pendingAccountList)
  m.(pendingAccountRevocationList) m.(accountStat) m.(revokedAccountList)
  m.(rejectedAccountList).

Definition base : t := mk [] [] [] None [] [].

Definition encode {PB : Protobuf} (message : t) (writer : Writer) : result Writer :=
  Ok writer
  @>= each_e message.(accountList) (submessage 10 Account.encode)
  @>= each_e message.(pendingAccountList) (submessage 18 PendingAccount.encode)
  @>= pure (each message.(pendingAccountRevocationList) (fun v w => w @> uint32 26 @> fork @> PendingAccountRevocation.encode v @> ldelim))
  @>= pure (defined message.(accountStat) (fun v w => w @> uint32 34 @> fork @> AccountStat.encode v @> ldelim))
  @>= each_e message.(revokedAccountList) (submessage 42 RevokedAccount.encode)
  @>= each_e message.(rejectedAccountList) (submessage 50 RejectedAccount.encode).

Definition decode_field {PB : Protobuf} (tag : Z) (message : t) : RM t :=
  match field_number tag with
  | 1 => v ← read_nested Account.decode;
         mret (message <| accountList := message.(accountList) ++ [v] |>)
  | 2 => v ← read_nested PendingAccount.decode;
         mret (message <| pendingAccountList := message.(pendingAccountList) ++ [v] |>)
  | 3 => v ← read_nested PendingAccountRevocation.decode;
         mret (message <| pendingAccountRevocationList := message.(pendingAccountRevocationList) ++ [v] |>)
  | 4 => v ← read_nested AccountStat.decode; mret (message <| accountStat := Some v |>)
  | 5 => v ← read_nested RevokedAccount.decode;
         mret (message <| revokedAccountList := message.(revokedAccountList) ++ [v] |>)
  | 6 => v ← read_nested RejectedAccount.decode;
         mret (message <| rejectedAccountList := message.(rejectedAccountList) ++ [v] |>)
  | _ => _ ← skipType (wire_type tag); mret message
  end.

Definition decode {PB : Protobuf} (length : option Z) : RM t :=
  decode_message length base decode_field.

Definition fromJSON (object : js) : result t :=
  accountList' ← field_or object "accountList" (to_list Account.fromJSON) [];
  pendingAccountList' ← field_or object "pendingAccountList" (to_list PendingAccount.fromJSON) [];
  pendingAccountRevocationList' ← field_or object "pendingAccountRevocationList" (to_list PendingAccountRevocation.fromJSON) [];
  accountStat' ← field_or object "accountStat" (to_some AccountStat.fromJSON) None;
  revokedAccountList' ← field_or object "revokedAccountList" (to_list RevokedAccount.fromJSON) [];
  rejectedAccountList' ← field_or object "rejectedAccountList" (to_list RejectedAccount.fromJSON) [];
  Ok (mk accountList' pendingAccountList' pendingAccountRevocationList' accountStat'
    revokedAccountList' rejectedAccountList').

Definition toJSON (message : t) : js :=
  Obj ([("accountList", Arr (map Account.toJSON message.(accountList)));
    ("pendingAccountList", Arr (map PendingAccount.toJSON message.(pendingAccountList)));
    ("pendingAccountRevocationList", Arr (map PendingAccountRevocation.toJSON message.(pendingAccountRevocationList)))] ++
   prop_opt "accountStat" AccountStat.toJSON message.(accountStat) ++
   [("revokedAccountList", Arr (map RevokedAccount.toJSON message.(revokedAccountList)));
    ("rejectedAccountList", Arr (map RejectedAccount.toJSON message.(rejectedAccountList)))]).

Record partial := mkPartial {
  p_accountList : option (list Account.partial);
  p_pendingAccountList : option (list PendingAccount.partial);
  p_pendingAccountRevocationList : option (list PendingAccountRevocation.partial);
  p_accountStat : option AccountStat.partial;
  p_revokedAccountList : option (list RevokedAccount.partial);
  p_rejectedAccountList : option (list RejectedAccount.partial);
}.

Definition fromPartial (object : partial) : t := {|
  accountList := map Account.fromPartial (object.(p_accountList) ?? []);
  pendingAccountList := map PendingAccount.fromPartial (object.(p_pendingAccountList) ?? []);
  pendingAccountRevocationList := map PendingAccountRevocation.fromPartial (object.(p_pendingAccountRevocationList) ?? []);
  accountStat := AccountStat.fromPartial <$> object.(p_accountStat);
  revokedAccountList := map RevokedAccount.fromPartial (object.(p_revokedAccountList) ?? []);
  rejectedAccountList := map RejectedAccount.fromPartial (object.(p_rejectedAccountList) ?? []);
|}.

(** The object with no property given. *)
Definition nothing : partial := mkPartial None None None None None None.

(** The bytes [encode] writes. *)
Definition wire {PB : Protobuf} {PS : ProtobufSpec PB} (m : t) : bytes :=
  f_repeated 10 Account.wire m.(accountList) ++
  f_repeated 18 PendingAccount.wire m.(pendingAccountList) ++
  f_repeated 26 PendingAccountRevocation.wire m.(pendingAccountRevocationList) ++
  f_message 34 AccountStat.wire m.(accountStat) ++
  f_repeated 42 RevokedAccount.wire m.(revokedAccountList) ++
  f_repeated 50 RejectedAccount.wire m.(rejectedAccountList).

Definition valid (m : t) : Prop :=
  Forall Account.valid m.(accountList) ∧ Forall PendingAccount.valid m.(pendingAccountList) ∧ Forall PendingAccountRevocation.valid m.(pendingAccountRevocationList) ∧ from_option AccountStat.valid True m.(accountStat) ∧ Forall RevokedAccount.valid m.(revokedAccountList) ∧ Forall RejectedAccount.valid m.(rejectedAccountList).

(** The byte fields hold arrays, as the interface declares. *)
Definition typed (m : t) : bool := forallb Account.typed m.(accountList) && forallb PendingAccount.typed m.(pendingAccountList) && forallb RevokedAccount.typed m.(revokedAccountList) && forallb RejectedAccount.typed m.(rejectedAccountList).

(** The message without its empty byte arrays. *)
Definition normal (m : t) : t := {|
  accountList := map Account.normal m.(accountList);
  pendingAccountList := map PendingAccount.normal m.(pendingAccountList);
  pendingAccountRevocationList := m.(pendingAccountRevocationList);
  accountStat := m.(accountStat);
  revokedAccountList := map RevokedAccount.normal m.(revokedAccountList);
  rejectedAccountList := map RejectedAccount.normal m.(rejectedAccountList);
|}.

(** The enumeration fields hold members. *)
Definition named (m : t) : bool := forallb RevokedAccount.named m.(revokedAccountList).

(** The message with the numbers [toJSON] does not know replaced. *)
Definition known (m : t) : t := {|
  accountList := m.(accountList);
  pendingAccountList := m.(pendingAccountList);
  pendingAccountRevocationList := m.(pendingAccountRevocationList);
  accountStat := m.(accountStat);
  revokedAccountList := map RevokedAccount.known m.(revokedAccountList);
  rejectedAccountList := m.(rejectedAccountList);
|}.

Definition encodable {PB : Protobuf} {PS : ProtobufSpec PB} (m : t) : Prop :=
  typed m = true ∧ valid m ∧ small (wire m).

Definition merge (m a : t) : t := {|
  accountList := m.(accountList) ++ map Account.normal a.(accountList);
  pendingAccountList := m.(pendingAccountList) ++ map PendingAccount.normal a.(pendingAccountList);
  pendingAccountRevocationList := m.(pendingAccountRevocationList) ++ a.(pendingAccountRevocationList);
  accountStat := later_message m.(accountStat) a.(accountStat);
  revokedAccountList := m.(revokedAccountList) ++ map RevokedAccount.normal a.(revokedAccountList);
  rejectedAccountList := m.(rejectedAccountList) ++ map RejectedAccount.normal a.(rejectedAccountList);
|}.

(** A whole message seen as a partial one. *)
Definition full (m : t) : partial := {|
  p_accountList := Some (map Account.full m.(accountList));
  p_pendingAccountList := Some (map PendingAccount.full m.(pendingAccountList));
  p_pendingAccountRevocationList := Some (map PendingAccountRevocation.full m.(pendingAccountRevocationList));
  p_accountStat := AccountStat.full <$> m.(accountStat);
  p_revokedAccountList := Some (map RevokedAccount.full m.(revokedAccountList));
  p_rejectedAccountList := Some (map RejectedAccount.full m.(rejectedAccountList));
|}.

(** The message as its [.proto] file declares it. *)
Definition schema (m : t) : list field :=
  [repeated 1 (message_value Account.schema) m.(accountList);
   repeated 2 (message_value PendingAccount.schema) m.(pendingAccountList);
   repeated 3 (message_value PendingAccountRevocation.schema) m.(pendingAccountRevocationList);
   singular 4 Optional (message_value AccountStat.schema) m.(accountStat);
   repeated 5 (message_value RevokedAccount.schema) m.(revokedAccountList);
   repeated 6 (message_value RejectedAccount.schema) m.(rejectedAccountList)].

(** The message with its default for every property that is not kept. *)
Definition only (kept : string → bool) (m : t) : t := {|
  accountList := if kept "accountList" then m.(accountList) else [];
  pendingAccountList := if kept "pendingAccountList" then m.(pendingAccountList) else [];
  pendingAccountRevocationList := if kept "pendingAccountRevocationList" then m.(pendingAccountRevocationList) else [];
  accountStat := if kept "accountStat" then m.(accountStat) else None;
  revokedAccountList := if kept "revokedAccountList" then m.(revokedAccountList) else [];
  rejectedAccountList := if kept "rejectedAccountList" then m.(rejectedAccountList) else [];
|}.

#[global] Instance codec {PB : Protobuf} : FallibleCodec t :=
  {| fmsg_base := base; fmsg_encode := encode; fmsg_field := decode_field |}.

#[global] Program Instance spec {PB : Protobuf} (PS : ProtobufSpec PB) : FallibleSpec PS t :=
  {| fmsg_wire := wire; fmsg_valid := valid; fmsg_typed := typed; fmsg_normal := normal;
     fmsg_merge := merge |}.
Next Obligation. solve_fencode_wire. Qed.
Next Obligation. intros. solve_fencode_throws encode typed. Qed.
Next Obligation. solve_fdecode_wire. Qed.
Next Obligation. solve_fmerge_base. Qed.
Next Obligation. intros. solve_fadvances decode_field. Qed.

#[global] Program Instance given_ : FalliblePartial t partial :=
  {| fmsg_fromPartial := fromPartial; fmsg_full := full; fmsg_given := typed |}.
Next Obligation. solve_fgiven fromPartial typed. Qed.
Next Obligation. solve_fpartial fromPartial full typed. Qed.

#[global] Program Instance json : FallibleJson t :=
  {| fmsg_fromJSON := fromJSON; fmsg_toJSON := toJSON;
     fmsg_named := named; fmsg_known := known |}.
Next Obligation. solve_fjson fromJSON toJSON. Qed.
Next Obligation. solve_known named known. Qed.

#[global] Instance schema_wire {PB : Protobuf} {PS : ProtobufSpec PB} : WireSchema wire schema.
Proof. solve_schema_wire wire schema. Qed.

#[global] Instance schema_normal : NormalSchema normal schema.
Proof. solve_schema_normal normal schema. Qed.

#[global] Instance schema_merge : MergeSchema merge schema.
Proof. solve_schema_merge merge schema. Qed.

(** Its row in the table of message types. *)
Definition message {PB : Protobuf} {PS : ProtobufSpec PB} : message_type :=
  fallible_message "GenesisState" nothing true schema only.

#[global] Instance message_lawful {PB : Protobuf} (PS : ProtobufSpec PB) : Lawful message.
Proof. solve_lawful decode_field fromJSON only. Qed.

End GenesisState.


(** ** [MsgClientImpl]

    [rpc] is the transport the class is constructed with: [rpc service method data]
    is what the promise of [this.rpc.request] settles to. *)
Module MsgClientImpl.
Section client.
Context {PB : Protobuf} (rpc : string → string → bytes → result bytes).

Definition ProposeAddAccount (request : MsgProposeAddAccount.t)
    : result MsgProposeAddAccountResponse.t :=
  w ← MsgProposeAddAccount.encode request create;
  data ← rpc "zigbeealliance.distributedcomplianceledger.dclauth.Msg" "ProposeAddAccount" (finish w);
  decode_bytes MsgProposeAddAccountResponse.decode data.

Definition ApproveAddAccount (request : MsgApproveAddAccount.t)
    : result MsgApproveAddAccountResponse.t :=
  data ← rpc "zigbeealliance.distributedcomplianceledger.dclauth.Msg" "ApproveAddAccount"
    (finish (MsgApproveAddAccount.encode request create));
  decode_bytes MsgApproveAddAccountResponse.decode data.

Definition ProposeRevokeAccount (request : MsgProposeRevokeAccount.t)
    : result MsgProposeRevokeAccountResponse.t :=
  data ← rpc "zigbeealliance.distributedcomplianceledger.dclauth.Msg" "ProposeRevokeAccount"
    (finish (MsgProposeRevokeAccount.encode request create));
  decode_bytes MsgProposeRevokeAccountResponse.decode data.

Definition ApproveRevokeAccount (request : MsgApproveRevokeAccount.t)
    : result MsgApproveRevokeAccountResponse.t :=
  data ← rpc "zigbeealliance.distributedcomplianceledger.dclauth.Msg" "ApproveRevokeAccount"
    (finish (MsgApproveRevokeAccount.encode request create));
  decode_bytes MsgApproveRevokeAccountResponse.decode data.

Definition RejectAddAccount (request : MsgRejectAddAccount.t)
    : result MsgRejectAddAccountResponse.t :=
  data ← rpc "zigbeealliance.distributedcomplianceledger.dclauth.Msg" "RejectAddAccount"
    (finish (MsgRejectAddAccount.encode request create));
  decode_bytes MsgRejectAddAccountResponse.decode data.

End client.
End MsgClientImpl.


(** ** [QueryClientImpl]

    [rpc] is the transport the class is constructed with: [rpc service method data]
    is what the promise of [this.rpc.request] settles to. *)
Module QueryClientImpl.
Section client.
Context {PB : Protobuf} (rpc : string → string → bytes → result bytes).

Definition Account (request : QueryGetAccountRequest.t) : result QueryGetAccountResponse.t :=
  data ← rpc "zigbeealliance.distributedcomplianceledger.dclauth.Query" "Account"
    (finish (QueryGetAccountRequest.encode request create));
  decode_bytes QueryGetAccountResponse.decode data.

Definition AccountAll (request : QueryAllAccountRequest.t) : result QueryAllAccountResponse.t :=
  w ← QueryAllAccountRequest.encode request create;
  data ← rpc "zigbeealliance.distributedcomplianceledger.dclauth.Query" "AccountAll" (finish w);
  decode_bytes QueryAllAccountResponse.decode data.

Definition PendingAccount (request : QueryGetPendingAccountRequest.t)
    : result QueryGetPendingAccountResponse.t :=
  data ← rpc "zigbeealliance.distributedcomplianceledger.dclauth.Query" "PendingAccount"
    (finish (QueryGetPendingAccountRequest.encode request create));
  decode_bytes QueryGetPendingAccountResponse.decode data.

Definition PendingAccountAll (request : QueryAllPendingAccountRequest.t)
    : result QueryAllPendingAccountResponse.t :=
  w ← QueryAllPendingAccountRequest.encode request create;
  data ← rpc "zigbeealliance.distributedcomplianceledger.dclauth.Query" "PendingAccountAll" (finish w);
  decode_bytes QueryAllPendingAccountResponse.decode data.

Definition PendingAccountRevocation (request : QueryGetPendingAccountRevocationRequest.t)
    : result QueryGetPendingAccountRevocationResponse.t :=
  data ← rpc "zigbeealliance.distributedcomplianceledger.dclauth.Query" "PendingAccountRevocation"
    (finish (QueryGetPendingAccountRevocationRequest.encode request create));
  decode_bytes QueryGetPendingAccountRevocationResponse.decode data.

Definition PendingAccountRevocationAll (request : QueryAllPendingAccountRevocationRequest.t)
    : result QueryAllPendingAccountRevocationResponse.t :=
  w ← QueryAllPendingAccountRevocationRequest.encode request create;
  data ← rpc "zigbeealliance.distributedcomplianceledger.dclauth.Query" "PendingAccountRevocationAll" (finish w);
  decode_bytes QueryAllPendingAccountRevocationResponse.decode data.

Definition AccountStat (request : QueryGetAccountStatRequest.t)
    : result QueryGetAccountStatResponse.t :=
  data ← rpc "zigbeealliance.distributedcomplianceledger.dclauth.Query" "AccountStat"
    (finish (QueryGetAccountStatRequest.encode request create));
  decode_bytes QueryGetAccountStatResponse.decode data.

Definition RevokedAccount (request : QueryGetRevokedAccountRequest.t)
    : result QueryGetRevokedAccountResponse.t :=
  data ← rpc "zigbeealliance.distributedcomplianceledger.dclauth.Query" "RevokedAccount"
    (finish (QueryGetRevokedAccountRequest.encode request create));
  decode_bytes QueryGetRevokedAccountResponse.decode data.

Definition RevokedAccountAll (request : QueryAllRevokedAccountRequest.t)
    : result QueryAllRevokedAccountResponse.t :=
  w ← QueryAllRevokedAccountRequest.encode request create;
  data ← rpc "zigbeealliance.distributedcomplianceledger.dclauth.Query" "RevokedAccountAll" (finish w);
  decode_bytes QueryAllRevokedAccountResponse.decode data.

Definition RejectedAccount (request : QueryGetRejectedAccountRequest.t)
    : result QueryGetRejectedAccountResponse.t :=
  data ← rpc "zigbeealliance.distributedcomplianceledger.dclauth.Query" "RejectedAccount"
    (finish (QueryGetRejectedAccountRequest.encode request create));
  decode_bytes QueryGetRejectedAccountResponse.decode data.

Definition RejectedAccountAll (request : QueryAllRejectedAccountRequest.t)
    : result QueryAllRejectedAccountResponse.t :=
  w ← QueryAllRejectedAccountRequest.encode request create;
  data ← rpc "zigbeealliance.distributedcomplianceledger.dclauth.Query" "RejectedAccountAll" (finish w);
  decode_bytes QueryAllRejectedAccountResponse.decode data.

End client.
End QueryClientImpl.

(** ** The message types of this file *)

Definition messages {PB : Protobuf} {PS : ProtobufSpec PB} : list message_type :=
  [ BaseAccount.message; ModuleAccount.message; Params.message; Grant.message; Account.message;
   PendingAccount.message; PendingAccountRevocation.message; RejectedAccount.message;
   RevokedAccount.message; AccountStat.message; MsgProposeAddAccount.message;
   MsgProposeAddAccountResponse.message; MsgApproveAddAccount.message;
   MsgApproveAddAccountResponse.message; MsgProposeRevokeAccount.message;
   MsgProposeRevokeAccountResponse.message; MsgApproveRevokeAccount.message;
   MsgApproveRevokeAccountResponse.message; MsgRejectAddAccount.message;
   MsgRejectAddAccountResponse.message; QueryGetAccountRequest.message;
   QueryGetAccountResponse.message; QueryAllAccountRequest.message;
   QueryAllAccountResponse.message; QueryGetPendingAccountRequest.message;
   QueryGetPendingAccountResponse.message; QueryAllPendingAccountRequest.message;
   QueryAllPendingAccountResponse.message; QueryGetPendingAccountRevocationRequest.message;
   QueryGetPendingAccountRevocationResponse.message;
   QueryAllPendingAccountRevocationRequest.message;
   QueryAllPendingAccountRevocationResponse.message; QueryGetAccountStatRequest.message;
   QueryGetAccountStatResponse.message; QueryGetRevokedAccountRequest.message;
   QueryGetRevokedAccountResponse.message; QueryAllRevokedAccountRequest.message;
   QueryAllRevokedAccountResponse.message; QueryGetRejectedAccountRequest.message;
   QueryGetRejectedAccountResponse.message; QueryAllRejectedAccountRequest.message;
   QueryAllRejectedAccountResponse.message; GenesisState.message].

Lemma DclauthTypes_lawful {PB : Protobuf} {PS : ProtobufSpec PB} : Forall Lawful messages.
Proof. solve_table. Qed.

(** The methods of [MsgClientImpl]. *)
Definition msg_methods {PB : Protobuf} {PS : ProtobufSpec PB} : list rpc_method :=
  [mkMethod "zigbeealliance.distributedcomplianceledger.dclauth.Msg" "ProposeAddAccount"
     MsgProposeAddAccount.message MsgProposeAddAccountResponse.message
     (fun rpc => MsgClientImpl.ProposeAddAccount rpc);
   mkMethod "zigbeealliance.distributedcomplianceledger.dclauth.Msg" "ApproveAddAccount"
     MsgApproveAddAccount.message MsgApproveAddAccountResponse.message
     (fun rpc => MsgClientImpl.ApproveAddAccount rpc);
   mkMethod "zigbeealliance.distributedcomplianceledger.dclauth.Msg" "ProposeRevokeAccount"
     MsgProposeRevokeAccount.message MsgProposeRevokeAccountResponse.message
     (fun rpc => MsgClientImpl.ProposeRevokeAccount rpc);
   mkMethod "zigbeealliance.distributedcomplianceledger.dclauth.Msg" "ApproveRevokeAccount"
     MsgApproveRevokeAccount.message MsgApproveRevokeAccountResponse.message
     (fun rpc => MsgClientImpl.ApproveRevokeAccount rpc);
   mkMethod "zigbeealliance.distributedcomplianceledger.dclauth.Msg" "RejectAddAccount"
     MsgRejectAddAccount.message MsgRejectAddAccountResponse.message
     (fun rpc => MsgClientImpl.RejectAddAccount rpc)].

Lemma DclauthTypes_msg_methods_lawful {PB : Protobuf} {PS : ProtobufSpec PB} : Forall method_lawful msg_methods.
Proof. solve_methods. Qed.

(** The methods of [QueryClientImpl]. *)
Definition query_methods {PB : Protobuf} {PS : ProtobufSpec PB} : list rpc_method :=
  [mkMethod "zigbeealliance.distributedcomplianceledger.dclauth.Query" "Account"
     QueryGetAccountRequest.message QueryGetAccountResponse.message
     (fun rpc => QueryClientImpl.Account rpc);
   mkMethod "zigbeealliance.distributedcomplianceledger.dclauth.Query" "AccountAll"
     QueryAllAccountRequest.message QueryAllAccountResponse.message
     (fun rpc => QueryClientImpl.AccountAll rpc);
   mkMethod "zigbeealliance.distributedcomplianceledger.dclauth.Query" "PendingAccount"
     QueryGetPendingAccountRequest.message QueryGetPendingAccountResponse.message
     (fun rpc => QueryClientImpl.PendingAccount rpc);
   mkMethod "zigbeealliance.distributedcomplianceledger.dclauth.Query" "PendingAccountAll"
     QueryAllPendingAccountRequest.message QueryAllPendingAccountResponse.message
     (fun rpc => QueryClientImpl.PendingAccountAll rpc);
   mkMethod "zigbeealliance.distributedcomplianceledger.dclauth.Query" "PendingAccountRevocation"
     QueryGetPendingAccountRevocationRequest.message QueryGetPendingAccountRevocationResponse.message
     (fun rpc => QueryClientImpl.PendingAccountRevocation rpc);
   mkMethod "zigbeealliance.distributedcomplianceledger.dclauth.Query" "PendingAccountRevocationAll"
     QueryAllPendingAccountRevocationRequest.message QueryAllPendingAccountRevocationResponse.message
     (fun rpc => QueryClientImpl.PendingAccountRevocationAll rpc);
   mkMethod "zigbeealliance.distributedcomplianceledger.dclauth.Query" "AccountStat"
     QueryGetAccountStatRequest.message QueryGetAccountStatResponse.message
     (fun rpc => QueryClientImpl.AccountStat rpc);
   mkMethod "zigbeealliance.distributedcomplianceledger.dclauth.Query" "RevokedAccount"
     QueryGetRevokedAccountRequest.message QueryGetRevokedAccountResponse.message
     (fun rpc => QueryClientImpl.RevokedAccount rpc);
   mkMethod "zigbeealliance.distributedcomplianceledger.dclauth.Query" "RevokedAccountAll"
     QueryAllRevokedAccountRequest.message QueryAllRevokedAccountResponse.message
     (fun rpc => QueryClientImpl.RevokedAccountAll rpc);
   mkMethod "zigbeealliance.distributedcomplianceledger.dclauth.Query" "RejectedAccount"
     QueryGetRejectedAccountRequest.message QueryGetRejectedAccountResponse.message
     (fun rpc => QueryClientImpl.RejectedAccount rpc);
   mkMethod "zigbeealliance.distributedcomplianceledger.dclauth.Query" "RejectedAccountAll"
     QueryAllRejectedAccountRequest.message QueryAllRejectedAccountResponse.message
     (fun rpc => QueryClientImpl.RejectedAccountAll rpc)].

Lemma DclauthTypes_query_methods_lawful {PB : Protobuf} {PS : ProtobufSpec PB} : Forall method_lawful query_methods.
Proof. solve_methods. Qed.
