(* ===== verification/DclupgradeTypes.v ===== *)
(** * The types of the dclupgrade module

    Software upgrades of the ledger, their approval and rejection, and the
    transaction messages: the codecs of
    [dclupgrade/module/types/dclupgrade/*.js], with the upgrade plans of
    [cosmos/upgrade/v1beta1/upgrade.js] they hold. *)
From S2P Require Import Prelude Js Protobuf Codec Calendar Dates Base64 Fallible Proto3 MessageTable CommonTypes.
Open Scope Z_scope.

(** ** [Plan] (cosmos/upgrade/v1beta1/upgrade.js) *)

Module Plan.

Record t := mk {
  name : string;
  time : option date;
  height : number;
  info : string;
  upgradedClientState : option Any.t;
}.

#[global] Instance t_eta : Settable t := λ m, mk m.(name) m.(time) m.(height) m.(info)
  m.(upgradedClientState).

Definition base : t := mk "" None 0 "" None.

Definition encode {PB : Protobuf} (message : t) (writer : Writer) : result Writer :=
  Ok writer
  @>= pure (when (str_neq message.(name) "") (fun w => w @> uint32 10 @> string_ message.(name)))
  @>= pure (defined message.(time) (fun v w => w @> uint32 18 @> fork @> encode_time v @> ldelim))
  @>= pure (when (num_neq message.(height) 0) (fun w => w @> uint32 24 @> int64 message.(height)))
  @>= pure (when (str_neq message.(info) "") (fun w => w @> uint32 34 @> string_ message.(info)))
  @>= defined_e message.(upgradedClientState) (submessage 42 Any.encode).

Definition decode_field {PB : Protobuf} (tag : Z) (message : t) : RM t :=
  match field_number tag with
  | 1 => v ← read_string; mret (message <| name := v |>)
  | 2 => v ← read_time; mret (message <| time := Some v |>)
  | 3 => v ← read_number read_int64; mret (message <| height := v |>)
  | 4 => v ← read_string; mret (message <| info := v |>)
  | 5 => v ← read_nested Any.decode; mret (message <| upgradedClientState := Some v |>)
  | _ => _ ← skipType (wire_type tag); mret message
  end.

Definition decode {PB : Protobuf} (length : option Z) : RM t :=
  decode_message length base decode_field.

Definition fromJSON (object : js) : result t :=
  name' ← field_or object "name" to_string "";
  time' ← field_or object "time" (to_some fromJsonTimestamp) None;
  height' ← field_or object "height" js_Number 0;
  info' ← field_or object "info" to_string "";
  upgradedClientState' ← field_or object "upgradedClientState" (to_some Any.fromJSON) None;
  Ok (mk name' time' height' info' upgradedClientState').

Definition toJSON (message : t) : result js :=
  time' ← option_result toISOString message.(time);
  Ok (Obj ([("name", Str message.(name))] ++
   prop_opt "time" Str time' ++
   [("height", Num message.(height));
    ("info", Str message.(info))] ++
   prop_opt "upgradedClientState" Any.toJSON message.(upgradedClientState))).

Record partial := mkPartial {
  p_name : option string;
  p_time : option date;
  p_height : option number;
  p_info : option string;
  p_upgradedClientState : option Any.partial;
}.

Definition fromPartial (object : partial) : t := {|
  name := object.(p_name) ?? "";
  time := object.(p_time);
  height := object.(p_height) ?? Int 0;
  info := object.(p_info) ?? "";
  upgradedClientState := Any.fromPartial <$> object.(p_upgradedClientState);
|}.

(** The object with no property given. *)
Definition nothing : partial := mkPartial None None None None None.

(** The bytes [encode] writes. *)
Definition wire {PB : Protobuf} {PS : ProtobufSpec PB} (m : t) : bytes :=
  f_string 10 m.(name) ++
  f_message 18 wire_time m.(time) ++
  f_number e_int64 24 m.(height) ++
  f_string 34 m.(info) ++
  f_message 42 Any.wire m.(upgradedClientState).

Definition valid (m : t) : Prop :=
  from_option date_ok True m.(time) ∧ int64_ok m.(height) ∧ from_option Any.valid True m.(upgradedClientState).

(** The byte fields hold arrays, as the interface declares. *)
Definition typed (m : t) : bool := from_option Any.typed true m.(upgradedClientState).

(** The message without its empty byte arrays. *)
Definition normal (m : t) : t := {|
  name := m.(name);
  time := m.(time);
  height := m.(height);
  info := m.(info);
  upgradedClientState := Any.normal <$> m.(upgradedClientState);
|}.

(** The dates are valid. *)
Definition timed (m : t) : bool := from_option date_valid true m.(time).

Definition encodable {PB : Protobuf} {PS : ProtobufSpec PB} (m : t) : Prop :=
  typed m = true ∧ valid m ∧ small (wire m).

Definition merge (m a : t) : t := {|
  name := later_string m.(name) a.(name);
  time := later_message m.(time) a.(time);
  height := later_number m.(height) a.(height);
  info := later_string m.(info) a.(info);
  upgradedClientState := later_message m.(upgradedClientState) (Any.normal <$> a.(upgradedClientState));
|}.

(** A whole message seen as a partial one. *)
Definition full (m : t) : partial := {|
  p_name := Some m.(name);
  p_time := m.(time);
  p_height := Some m.(height);
  p_info := Some m.(info);
  p_upgradedClientState := Any.full <$> m.(upgradedClientState);
|}.

(** The message as its [.proto] file declares it. *)
Definition schema (m : t) : list field :=
  [implicit 1 (VString m.(name));
   singular 2 Stamp timestamp_value m.(time);
   implicit 3 (VInt Int64 m.(height));
   implicit 4 (VString m.(info));
   singular 5 Optional (message_value Any.schema) m.(upgradedClientState)].

(** The message with its default for every property that is not kept. *)
Definition only (kept : string → bool) (m : t) : t := {|
  name := if kept "name" then m.(name) else "";
  time := if kept "time" then m.(time) else None;
  height := if kept "height" then m.(height) else Int 0;
  info := if kept "info" then m.(info) else "";
  upgradedClientState := if kept "upgradedClientState" then m.(upgradedClientState) else None;
|}.

#[global] Instance codec {PB : Protobuf} : FallibleCodec t :=
  {| fmsg_base := base; fmsg_encode := encode; fmsg_field := decode_field |}.

#[global] Program Instance spec {PB : Protobuf} (PS : ProtobufSpec PB) : FallibleSpec PS t :=
  {| fmsg_wire := wire; fmsg_valid := valid; fmsg_typed := typed; fmsg_normal := normal;
     fmsg_merge := merge |}.
Next Obligation. solve_fencode_wire. Qed.
Next Obligation. intros. solve_fencode_throws encode typed. Qed.
Next Obligation. solve_fdecode_wire. Qed.
Next Obligation. solve_fmerge_base. Qed.
Next Obligation. intros. solve_fadvances decode_field. Qed.

#[global] Program Instance given_ : FalliblePartial t partial :=
  {| fmsg_fromPartial := fromPartial; fmsg_full := full; fmsg_given := typed |}.
Next Obligation. solve_fgiven fromPartial typed. Qed.
Next Obligation. solve_fpartial fromPartial full typed. Qed.

#[global] Program Instance json : DatedJson t :=
  {| dmsg_fromJSON := fromJSON; dmsg_toJSON := toJSON; dmsg_timed := timed;
     dmsg_named := fun _ => true; dmsg_known := fun m => m |}.
Next Obligation. solve_djson fromJSON toJSON timed. Qed.
Next Obligation. solve_dthrows toJSON timed. Qed.
Next Obligation. reflexivity. Qed.

#[global] Instance schema_wire {PB : Protobuf} {PS : ProtobufSpec PB} : WireSchema wire schema.
Proof. solve_schema_wire wire schema. Qed.

#[global] Instance schema_normal : NormalSchema normal schema.
Proof. solve_schema_normal normal schema. Qed.

#[global] Instance schema_merge : MergeSchema merge schema.
Proof. solve_schema_merge merge schema. Qed.

(** Its row in the table of message types. *)
Definition message {PB : Protobuf} {PS : ProtobufSpec PB} : message_type :=
  dated_message "Plan" nothing true schema only.

#[global] Instance message_lawful {PB : Protobuf} (PS : ProtobufSpec PB) : Lawful message.
Proof. solve_lawful decode_field fromJSON only. Qed.

End Plan.

(** ** [SoftwareUpgradeProposal] (cosmos/upgrade/v1beta1/upgrade.js) *)

Module SoftwareUpgradeProposal.

Record t := mk {
  title : string;
  description : string;
  plan : option Plan.t;
}.

#[global] Instance t_eta : Settable t := λ m, mk m.(title) m.(description) m.(plan).

Definition base : t := mk "" "" None.

Definition encode {PB : Protobuf} (message : t) (writer : Writer) : result Writer :=
  Ok writer
  @>= pure (when (str_neq message.(title) "") (fun w => w @> uint32 10 @> string_ message.(title)))
  @>= pure (when (str_neq message.(description) "")
       (fun w => w @> uint32 18 @> string_ message.(description)))
  @>= defined_e message.(plan) (submessage 26 Plan.encode).

Definition decode_field {PB : Protobuf} (tag : Z) (message : t) : RM t :=
  match field_number tag with
  | 1 => v ← read_string; mret (message <| title := v |>)
  | 2 => v ← read_string; mret (message <| description := v |>)
  | 3 => v ← read_nested Plan.decode; mret (message <| plan := Some v |>)
  | _ => _ ← skipType (wire_type tag); mret message
  end.

Definition decode {PB : Protobuf} (length : option Z) : RM t :=
  decode_message length base decode_field.

Definition fromJSON (object : js) : result t :=
  title' ← field_or object "title" to_string "";
  description' ← field_or object "description" to_string "";
  plan' ← field_or object "plan" (to_some Plan.fromJSON) None;
  Ok (mk title' description' plan').

Definition toJSON (message : t) : result js :=
  plan' ← option_result Plan.toJSON message.(plan);
  Ok (Obj ([("title", Str message.(title));
    ("description", Str message.(description))] ++
   prop_opt "plan" id plan')).

Record partial := mkPartial {
  p_title : option string;
  p_description : option string;
  p_plan : option Plan.partial;
}.

Definition fromPartial (object : partial) : t := {|
  title := object.(p_title) ?? "";
  description := object.(p_description) ?? "";
  plan := Plan.fromPartial <$> object.(p_plan);
|}.

(** The object with no property given. *)
Definition nothing : partial := mkPartial None None None.

(** The bytes [encode] writes. *)
Definition wire {PB : Protobuf} {PS : ProtobufSpec PB} (m : t) : bytes :=
  f_string 10 m.(title) ++
  f_string 18 m.(description) ++
  f_message 26 Plan.wire m.(plan).

Definition valid (m : t) : Prop :=
  from_option Plan.valid True m.(plan).

(** The byte fields hold arrays, as the interface declares. *)
Definition typed (m : t) : bool := from_option Plan.typed true m.(plan).

(** The message without its empty byte arrays. *)
Definition normal (m : t) : t := {|
  title := m.(title);
  description := m.(description);
  plan := Plan.normal <$> m.(plan);
|}.

(** The dates are valid. *)
Definition timed (m : t) : bool := from_option Plan.timed true m.(plan).

Definition encodable {PB : Protobuf} {PS : ProtobufSpec PB} (m : t) : Prop :=
  typed m = true ∧ valid m ∧ small (wire m).

Definition merge (m a : t) : t := {|
  title := later_string m.(title) a.(title);
  description := later_string m.(description) a.(description);
  plan := later_message m.(plan) (Plan.normal <$> a.(plan));
|}.

(** A whole message seen as a partial one. *)
Definition full (m : t) : partial := {|
  p_title := Some m.(title);
  p_description := Some m.(description);
  p_plan := Plan.full <$> m.(plan);
|}.

(** The message as its [.proto] file declares it. *)
Definition schema (m : t) : list field :=
  [implicit 1 (VString m.(title));
   implicit 2 (VString m.(description));
   singular 3 Optional (message_value Plan.schema) m.(plan)].

(** The message with its default for every property that is not kept. *)
Definition only (kept : string → bool) (m : t) : t := {|
  title := if kept "title" then m.(title) else "";
  description := if kept "description" then m.(description) else "";
  plan := if kept "plan" then m.(plan) else None;
|}.

#[global] Instance codec {PB : Protobuf} : FallibleCodec t :=
  {| fmsg_base := base; fmsg_encode := encode; fmsg_field := decode_field |}.

#[global] Program Instance spec {PB : Protobuf} (PS : ProtobufSpec PB) : FallibleSpec PS t :=
  {| fmsg_wire := wire; fmsg_valid := valid; fmsg_typed := typed; fmsg_normal := normal;
     fmsg_merge := merge |}.
Next Obligation. solve_fencode_wire. Qed.
Next Obligation. intros. solve_fencode_throws encode typed. Qed.
Next Obligation. solve_fdecode_wire. Qed.
Next Obligation. solve_fmerge_base. Qed.
Next Obligation. intros. solve_fadvances decode_field. Qed.

#[global] Program Instance given_ : FalliblePartial t partial :=
  {| fmsg_fromPartial := fromPartial; fmsg_full := full; fmsg_given := typed |}.
Next Obligation. solve_fgiven fromPartial typed. Qed.
Next Obligation. solve_fpartial fromPartial full typed. Qed.

#[global] Program Instance json : DatedJson t :=
  {| dmsg_fromJSON := fromJSON; dmsg_toJSON := toJSON; dmsg_timed := timed;
     dmsg_named := fun _ => true; dmsg_known := fun m => m |}.
Next Obligation. solve_djson fromJSON toJSON timed. Qed.
Next Obligation. solve_dthrows toJSON timed. Qed.
Next Obligation. reflexivity. Qed.

#[global] Instance schema_wire {PB : Protobuf} {PS : ProtobufSpec PB} : WireSchema wire schema.
Proof. solve_schema_wire wire schema. Qed.

#[global] Instance schema_normal : NormalSchema normal schema.
Proof. solve_schema_normal normal schema. Qed.

#[global] Instance schema_merge : MergeSchema merge schema.
Proof. solve_schema_merge merge schema. Qed.

(** Its row in the table of message types. *)
Definition message {PB : Protobuf} {PS : ProtobufSpec PB} : message_type :=
  dated_message "SoftwareUpgradeProposal" nothing true schema only.

#[global] Instance message_lawful {PB : Protobuf} (PS : ProtobufSpec PB) : Lawful message.
Proof. solve_lawful decode_field fromJSON only. Qed.

End SoftwareUpgradeProposal.

(** ** [CancelSoftwareUpgradeProposal] (cosmos/upgrade/v1beta1/upgrade.js) *)

Module CancelSoftwareUpgradeProposal.

Record t := mk {
  title : string;
  description : string;
}.

#[global] Instance t_eta : Settable t := λ m, mk m.(title) m.(description).

Definition base : t := mk "" "".

Definition encode {PB : Protobuf} (message : t) (writer : Writer) : Writer :=
  writer
  @> when (str_neq message.(title) "") (fun w => w @> uint32 10 @> string_ message.(title))
  @> when (str_neq message.(description) "")
       (fun w => w @> uint32 18 @> string_ message.(description)).

Definition decode_field {PB : Protobuf} (tag : Z) (message : t) : RM t :=
  match field_number tag with
  | 1 => v ← read_string; mret (message <| title := v |>)
  | 2 => v ← read_string; mret (message <| description := v |>)
  | _ => _ ← skipType (wire_type tag); mret message
  end.

Definition decode {PB : Protobuf} (length : option Z) : RM t :=
  decode_message length base decode_field.

Definition fromJSON (object : js) : result t :=
  title' ← field_or object "title" to_string "";
  description' ← field_or object "description" to_string "";
  Ok (mk title' description').

Definition toJSON (message : t) : js :=
  Obj ([("title", Str message.(title));
    ("description", Str message.(description))]).

Record partial := mkPartial {
  p_title : option string;
  p_description : option string;
}.

Definition fromPartial (object : partial) : t := {|
  title := object.(p_title) ?? "";
  description := object.(p_description) ?? "";
|}.

(** The object with no property given. *)
Definition nothing : partial := mkPartial None None.

(** The bytes [encode] writes. *)
Definition wire {PB : Protobuf} {PS : ProtobufSpec PB} (m : t) : bytes :=
  f_string 10 m.(title) ++
  f_string 18 m.(description).

Definition valid (m : t) : Prop :=
  True.

Definition encodable {PB : Protobuf} {PS : ProtobufSpec PB} (m : t) : Prop :=
  valid m ∧ small (wire m).

Definition merge (m a : t) : t := {|
  title := later_string m.(title) a.(title);
  description := later_string m.(description) a.(description);
|}.

(** A whole message seen as a partial one. *)
Definition full (m : t) : partial := {|
  p_title := Some m.(title);
  p_description := Some m.(description);
|}.

(** The message as its [.proto] file declares it. *)
Definition schema (m : t) : list field :=
  [implicit 1 (VString m.(title));
   implicit 2 (VString m.(description))].

(** The message with its default for every property that is not kept. *)
Definition only (kept : string → bool) (m : t) : t := {|
  title := if kept "title" then m.(title) else "";
  description := if kept "description" then m.(description) else "";
|}.

#[global] Instance codec {PB : Protobuf} : MessageCodec t :=
  {| msg_base := base; msg_encode := encode; msg_field := decode_field |}.

#[global] Program Instance spec {PB : Protobuf} (PS : ProtobufSpec PB) : MessageSpec PS t :=
  {| msg_wire := wire; msg_valid := valid; msg_merge := merge |}.
Next Obligation. solve_encode_wire. Qed.
Next Obligation. solve_decode_wire. Qed.
Next Obligation. solve_merge_base. Qed.
Next Obligation. intros. solve_advances decode_field. Qed.

#[global] Program Instance data : MessageData t partial :=
  {| msg_fromJSON := fromJSON; msg_toJSON := toJSON;
     msg_fromPartial := fromPartial; msg_full := full |}.
Next Obligation. solve_json fromJSON toJSON. Qed.
Next Obligation. solve_partial fromPartial full. Qed.

#[global] Instance schema_wire {PB : Protobuf} {PS : ProtobufSpec PB} : WireSchema wire schema.
Proof. solve_schema_wire wire schema. Qed.

#[global] Instance schema_merge : MergeSchema merge schema.
Proof. solve_schema_merge merge schema. Qed.

(** Its row in the table of message types. *)
Definition message {PB : Protobuf} {PS : ProtobufSpec PB} : message_type :=
  plain_message "CancelSoftwareUpgradeProposal" nothing true schema only.

#[global] Instance message_lawful {PB : Protobuf} (PS : ProtobufSpec PB) : Lawful message.
Proof. solve_lawful decode_field fromJSON only. Qed.

End CancelSoftwareUpgradeProposal.

(** ** [ModuleVersion] (cosmos/upgrade/v1beta1/upgrade.js) *)

Module ModuleVersion.

Record t := mk {
  name : string;
  version : number;
}.

#[global] Instance t_eta : Settable t := λ m, mk m.(name) m.(version).

Definition base : t := mk "" 0.

Definition encode {PB : Protobuf} (message : t) (writer : Writer) : Writer :=
  writer
  @> when (str_neq message.(name) "") (fun w => w @> uint32 10 @> string_ message.(name))
  @> when (num_neq message.(version) 0) (fun w => w @> uint32 16 @> uint64 message.(version)).

Definition decode_field {PB : Protobuf} (tag : Z) (message : t) : RM t :=
  match field_number tag with
  | 1 => v ← read_string; mret (message <| name := v |>)
  | 2 => v ← read_number read_uint64; mret (message <| version := v |>)
  | _ => _ ← skipType (wire_type tag); mret message
  end.

Definition decode {PB : Protobuf} (length : option Z) : RM t :=
  decode_message length base decode_field.

Definition fromJSON (object : js) : result t :=
  name' ← field_or object "name" to_string "";
  version' ← field_or object "version" js_Number 0;
  Ok (mk name' version').

Definition toJSON (message : t) : js :=
  Obj ([("name", Str message.(name));
    ("version", Num message.(version))]).

Record partial := mkPartial {
  p_name : option string;
  p_version : option number;
}.

Definition fromPartial (object : partial) : t := {|
  name := object.(p_name) ?? "";
  version := object.(p_version) ?? Int 0;
|}.

(** The object with no property given. *)
Definition nothing : partial := mkPartial None None.

(** The bytes [encode] writes. *)
Definition wire {PB : Protobuf} {PS : ProtobufSpec PB} (m : t) : bytes :=
  f_string 10 m.(name) ++
  f_number e_uint64 16 m.(version).

Definition valid (m : t) : Prop :=
  uint64_ok m.(version).

Definition encodable {PB : Protobuf} {PS : ProtobufSpec PB} (m : t) : Prop :=
  valid m ∧ small (wire m).

Definition merge (m a : t) : t := {|
  name := later_string m.(name) a.(name);
  version := later_number m.(version) a.(version);
|}.

(** A whole message seen as a partial one. *)
Definition full (m : t) : partial := {|
  p_name := Some m.(name);
  p_version := Some m.(version);
|}.

(** The message as its [.proto] file declares it. *)
Definition schema (m : t) : list field :=
  [implicit 1 (VString m.(name));
   implicit 2 (VInt Uint64 m.(version))].

(** The message with its default for every property that is not kept. *)
Definition only (kept : string → bool) (m : t) : t := {|
  name := if kept "name" then m.(name) else "";
  version := if kept "version" then m.(version) else Int 0;
|}.

#[global] Instance codec {PB : Protobuf} : MessageCodec t :=
  {| msg_base := base; msg_encode := encode; msg_field := decode_field |}.

#[global] Program Instance spec {PB : Protobuf} (PS : ProtobufSpec PB) : MessageSpec PS t :=
  {| msg_wire := wire; msg_valid := valid; msg_merge := merge |}.
Next Obligation. solve_encode_wire. Qed.
Next Obligation. solve_decode_wire. Qed.
Next Obligation. solve_merge_base. Qed.
Next Obligation. intros. solve_advances decode_field. Qed.

#[global] Program Instance data : MessageData t partial :=
  {| msg_fromJSON := fromJSON; msg_toJSON := toJSON;
     msg_fromPartial := fromPartial; msg_full := full |}.
Next Obligation. solve_json fromJSON toJSON. Qed.
Next Obligation. solve_partial fromPartial full. Qed.

#[global] Instance schema_wire {PB : Protobuf} {PS : ProtobufSpec PB} : WireSchema wire schema.
Proof. solve_schema_wire wire schema. Qed.

#[global] Instance schema_merge : MergeSchema merge schema.
Proof. solve_schema_merge merge schema. Qed.

(** Its row in the table of message types. *)
Definition message {PB : Protobuf} {PS : ProtobufSpec PB} : message_type :=
  plain_message "ModuleVersion" nothing true schema only.

#[global] Instance message_lawful {PB : Protobuf} (PS : ProtobufSpec PB) : Lawful message.
Proof. solve_lawful decode_field fromJSON only. Qed.

End ModuleVersion.

(** ** [Grant] (dclupgrade/grant.js) *)

Module Grant.

Record t := mk {
  address : string;
  time : number;
  info : string;
}.

#[global] Instance t_eta : Settable t := λ m, mk m.(address) m.(time) m.(info).

Definition base : t := mk "" 0 "".

Definition encode {PB : Protobuf} (message : t) (writer : Writer) : Writer :=
  writer
  @> when (str_neq message.(address) "") (fun w => w @> uint32 10 @> string_ message.(address))
  @> when (num_neq message.(time) 0) (fun w => w @> uint32 16 @> int64 message.(time))
  @> when (str_neq message.(info) "") (fun w => w @> uint32 26 @> string_ message.(info)).

Definition decode_field {PB : Protobuf} (tag : Z) (message : t) : RM t :=
  match field_number tag with
  | 1 => v ← read_string; mret (message <| address := v |>)
  | 2 => v ← read_number read_int64; mret (message <| time := v |>)
  | 3 => v ← read_string; mret (message <| info := v |>)
  | _ => _ ← skipType (wire_type tag); mret message
  end.

Definition decode {PB : Protobuf} (length : option Z) : RM t :=
  decode_message length base decode_field.

Definition fromJSON (object : js) : result t :=
  address' ← field_or object "address" to_string "";
  time' ← field_or object "time" js_Number 0;
  info' ← field_or object "info" to_string "";
  Ok (mk address' time' info').

Definition toJSON (message : t) : js :=
  Obj ([("address", Str message.(address));
    ("time", Num message.(time));
    ("info", Str message.(info))]).

Record partial := mkPartial {
  p_address : option string;
  p_time : option number;
  p_info : option string;
}.

Definition fromPartial (object : partial) : t := {|
  address := object.(p_address) ?? "";
  time := object.(p_time) ?? Int 0;
  info := object.(p_info) ?? "";
|}.

(** The object with no property given. *)
Definition nothing : partial := mkPartial None None None.

(** The bytes [encode] writes. *)
Definition wire {PB : Protobuf} {PS : ProtobufSpec PB} (m : t) : bytes :=
  f_string 10 m.(address) ++
  f_number e_int64 16 m.(time) ++
  f_string 26 m.(info).

Definition valid (m : t) : Prop :=
  int64_ok m.(time).

Definition encodable {PB : Protobuf} {PS : ProtobufSpec PB} (m : t) : Prop :=
  valid m ∧ small (wire m).

Definition merge (m a : t) : t := {|
  address := later_string m.(address) a.(address);
  time := later_number m.(time) a.(time);
  info := later_string m.(info) a.(info);
|}.

(** A whole message seen as a partial one. *)
Definition full (m : t) : partial := {|
  p_address := Some m.(address);
  p_time := Some m.(time);
  p_info := Some m.(info);
|}.

(** The message as its [.proto] file declares it. *)
Definition schema (m : t) : list field :=
  [implicit 1 (VString m.(address));
   implicit 2 (VInt Int64 m.(time));
   implicit 3 (VString m.(info))].

(** The message with its default for every property that is not kept. *)
Definition only (kept : string → bool) (m : t) : t := {|
  address := if kept "address" then m.(address) else "";
  time := if kept "time" then m.(time) else Int 0;
  info := if kept "info" then m.(info) else "";
|}.

#[global] Instance codec {PB : Protobuf} : MessageCodec t :=
  {| msg_base := base; msg_encode := encode; msg_field := decode_field |}.

#[global] Program Instance spec {PB : Protobuf} (PS : ProtobufSpec PB) : MessageSpec PS t :=
  {| msg_wire := wire; msg_valid := valid; msg_merge := merge |}.
Next Obligation. solve_encode_wire. Qed.
Next Obligation. solve_decode_wire. Qed.
Next Obligation. solve_merge_base. Qed.
Next Obligation. intros. solve_advances decode_field. Qed.

#[global] Program Instance data : MessageData t partial :=
  {| msg_fromJSON := fromJSON; msg_toJSON := toJSON;
     msg_fromPartial := fromPartial; msg_full := full |}.
Next Obligation. solve_json fromJSON toJSON. Qed.
Next Obligation. solve_partial fromPartial full. Qed.

#[global] Instance schema_wire {PB : Protobuf} {PS : ProtobufSpec PB} : WireSchema wire schema.
Proof. solve_schema_wire wire schema. Qed.

#[global] Instance schema_merge : MergeSchema merge schema.
Proof. solve_schema_merge merge schema. Qed.

(** Its row in the table of message types. *)
Definition message {PB : Protobuf} {PS : ProtobufSpec PB} : message_type :=
  plain_message "Grant" nothing true schema only.

#[global] Instance message_lawful {PB : Protobuf} (PS : ProtobufSpec PB) : Lawful message.
Proof. solve_lawful decode_field fromJSON only. Qed.

End Grant.

(** ** [Params] (dclupgrade/params.js) *)

Module Params.

Record t := mk {}.

#[global] Instance t_eta : Settable t := λ m, m.

Definition base : t := mk.

Definition encode {PB : Protobuf} (message : t) (writer : Writer) : Writer :=
  writer.

Definition decode_field {PB : Protobuf} (tag : Z) (message : t) : RM t :=
  match field_number tag with
  | _ => _ ← skipType (wire_type tag); mret message
  end.

Definition decode {PB : Protobuf} (length : option Z) : RM t :=
  decode_message length base decode_field.

Definition fromJSON (object : js) : result t :=
  Ok base.

Definition toJSON (message : t) : js :=
  Obj [].

Record partial := mkPartial {}.

Definition fromPartial (object : partial) : t := base.

(** The object with no property given. *)
Definition nothing : partial := mkPartial.

(** The bytes [encode] writes. *)
Definition wire {PB : Protobuf} {PS : ProtobufSpec PB} (m : t) : bytes :=
  [].

Definition valid (m : t) : Prop :=
  True.

Definition encodable {PB : Protobuf} {PS : ProtobufSpec PB} (m : t) : Prop :=
  valid m ∧ small (wire m).

Definition merge (m a : t) : t := m.

(** A whole message seen as a partial one. *)
Definition full (m : t) : partial := mkPartial.

(** The message as its schema declares it. *)
Definition schema (m : t) : list field :=
  [].

(** The message with its default for every property that is not kept. *)
Definition only (kept : string → bool) (m : t) : t := m.

#[global] Instance codec {PB : Protobuf} : MessageCodec t :=
  {| msg_base := base; msg_encode := encode; msg_field := decode_field |}.

#[global] Program Instance spec {PB : Protobuf} (PS : ProtobufSpec PB) : MessageSpec PS t :=
  {| msg_wire := wire; msg_valid := valid; msg_merge := merge |}.
Next Obligation. solve_encode_wire. Qed.
Next Obligation. solve_decode_wire. Qed.
Next Obligation. solve_merge_base. Qed.
Next Obligation. intros. solve_advances decode_field. Qed.

#[global] Program Instance data : MessageData t partial :=
  {| msg_fromJSON := fromJSON; msg_toJSON := toJSON;
     msg_fromPartial := fromPartial; msg_full := full |}.
Next Obligation. solve_json fromJSON toJSON. Qed.
Next Obligation. solve_partial fromPartial full. Qed.

#[global] Instance schema_wire {PB : Protobuf} {PS : ProtobufSpec PB} : WireSchema wire schema.
Proof. solve_schema_wire wire schema. Qed.

#[global] Instance schema_merge : MergeSchema merge schema.
Proof. solve_schema_merge merge schema. Qed.

(** Its row in the table of message types. *)
Definition message {PB : Protobuf} {PS : ProtobufSpec PB} : message_type :=
  plain_message "Params" nothing false schema only.

#[global] Instance message_lawful {PB : Protobuf} (PS : ProtobufSpec PB) : Lawful message.
Proof. solve_lawful decode_field fromJSON only. Qed.

End Params.

(** ** [ApprovedUpgrade] (dclupgrade/approved_upgrade.js) *)

Module ApprovedUpgrade.

Record t := mk {
  plan : option Plan.t;
  creator : string;
  approvals : list Grant.t;
  rejects : list Grant.t;
}.

#[global] Instance t_eta : Settable t := λ m, mk m.(plan) m.(creator) m.(approvals) m.(rejects).

Definition base : t := mk None "" [] [].

Definition encode {PB : Protobuf} (message : t) (writer : Writer) : result Writer :=
  Ok writer
  @>= defined_e message.(plan) (submessage 10 Plan.encode)
  @>= pure (when (str_neq message.(creator) "")
       (fun w => w @> uint32 18 @> string_ message.(creator)))
  @>= pure (each message.(approvals) (fun v w => w @> uint32 26 @> fork @> Grant.encode v @> ldelim))
  @>= pure (each message.(rejects) (fun v w => w @> uint32 34 @> fork @> Grant.encode v @> ldelim)).

Definition decode_field {PB : Protobuf} (tag : Z) (message : t) : RM t :=
  match field_number tag with
  | 1 => v ← read_nested Plan.decode; mret (message <| plan := Some v |>)
  | 2 => v ← read_string; mret (message <| creator := v |>)
  | 3 => v ← read_nested Grant.decode; mret (message <| approvals := message.(approvals) ++ [v] |>)
  | 4 => v ← read_nested Grant.decode; mret (message <| rejects := message.(rejects) ++ [v] |>)
  | _ => _ ← skipType (wire_type tag); mret message
  end.

Definition decode {PB : Protobuf} (length : option Z) : RM t :=
  decode_message length base decode_field.

Definition fromJSON (object : js) : result t :=
  plan' ← field_or object "plan" (to_some Plan.fromJSON) None;
  creator' ← field_or object "creator" to_string "";
  approvals' ← field_or object "approvals" (to_list Grant.fromJSON) [];
  rejects' ← field_or object "rejects" (to_list Grant.fromJSON) [];
  Ok (mk plan' creator' approvals' rejects').

Definition toJSON (message : t) : result js :=
  plan' ← option_result Plan.toJSON message.(plan);
  Ok (Obj (prop_opt "plan" id plan' ++
   [("creator", Str message.(creator));
    ("approvals", Arr (map Grant.toJSON message.(approvals)));
    ("rejects", Arr (map Grant.toJSON message.(rejects)))])).

Record partial := mkPartial {
  p_plan : option Plan.partial;
  p_creator : option string;
  p_approvals : option (list Grant.partial);
  p_rejects : option (list Grant.partial);
}.

Definition fromPartial (object : partial) : t := {|
  plan := Plan.fromPartial <$> object.(p_plan);
  creator := object.(p_creator) ?? "";
  approvals := map Grant.fromPartial (object.(p_approvals) ?? []);
  rejects := map Grant.fromPartial (object.(p_rejects) ?? []);
|}.

(** The object with no property given. *)
Definition nothing : partial := mkPartial None None None None.

(** The bytes [encode] writes. *)
Definition wire {PB : Protobuf} {PS : ProtobufSpec PB} (m : t) : bytes :=
  f_message 10 Plan.wire m.(plan) ++
  f_string 18 m.(creator) ++
  f_repeated 26 Grant.wire m.(approvals) ++
  f_repeated 34 Grant.wire m.(rejects).

Definition valid (m : t) : Prop :=
  from_option Plan.valid True m.(plan) ∧ Forall Grant.valid m.(approvals) ∧ Forall Grant.valid m.(rejects).

(** The byte fields hold arrays, as the interface declares. *)
Definition typed (m : t) : bool := from_option Plan.typed true m.(plan).

(** The message without its empty byte arrays. *)
Definition normal (m : t) : t := {|
  plan := Plan.normal <$> m.(plan);
  creator := m.(creator);
  approvals := m.(approvals);
  rejects := m.(rejects);
|}.

(** The dates are valid. *)
Definition timed (m : t) : bool := from_option Plan.timed true m.(plan).

Definition encodable {PB : Protobuf} {PS : ProtobufSpec PB} (m : t) : Prop :=
  typed m = true ∧ valid m ∧ small (wire m).

Definition merge (m a : t) : t := {|
  plan := later_message m.(plan) (Plan.normal <$> a.(plan));
  creator := later_string m.(creator) a.(creator);
  approvals := m.(approvals) ++ a.(approvals);
  rejects := m.(rejects) ++ a.(rejects);
|}.

(** A whole message seen as a partial one. *)
Definition full (m : t) : partial := {|
  p_plan := Plan.full <$> m.(plan);
  p_creator := Some m.(creator);
  p_approvals := Some (map Grant.full m.(approvals));
  p_rejects := Some (map Grant.full m.(rejects));
|}.

(** The message as its [.proto] file declares it. *)
Definition schema (m : t) : list field :=
  [singular 1 Optional (message_value Plan.schema) m.(plan);
   implicit 2 (VString m.(creator));
   repeated 3 (message_value Grant.schema) m.(approvals);
   repeated 4 (message_value Grant.schema) m.(rejects)].

(** The message with its default for every property that is not kept. *)
Definition only (kept : string → bool) (m : t) : t := {|
  plan := if kept "plan" then m.(plan) else None;
  creator := if kept "creator" then m.(creator) else "";
  approvals := if kept "approvals" then m.(approvals) else [];
  rejects := if kept "rejects" then m.(rejects) else [];
|}.

#[global] Instance codec {PB : Protobuf} : FallibleCodec t :=
  {| fmsg_base := base; fmsg_encode := encode; fmsg_field := decode_field |}.

#[global] Program Instance spec {PB : Protobuf} (PS : ProtobufSpec PB) : FallibleSpec PS t :=
  {| fmsg_wire := wire; fmsg_valid := valid; fmsg_typed := typed; fmsg_normal := normal;
     fmsg_merge := merge |}.
Next Obligation. solve_fencode_wire. Qed.
Next Obligation. intros. solve_fencode_throws encode typed. Qed.
Next Obligation. solve_fdecode_wire. Qed.
Next Obligation. solve_fmerge_base. Qed.
Next Obligation. intros. solve_fadvances decode_field. Qed.

#[global] Program Instance given_ : FalliblePartial t partial :=
  {| fmsg_fromPartial := fromPartial; fmsg_full := full; fmsg_given := typed |}.
Next Obligation. solve_fgiven fromPartial typed. Qed.
Next Obligation. solve_fpartial fromPartial full typed. Qed.

#[global] Program Instance json : DatedJson t :=
  {| dmsg_fromJSON := fromJSON; dmsg_toJSON := toJSON; dmsg_timed := timed;
     dmsg_named := fun _ => true; dmsg_known := fun m => m |}.
Next Obligation. solve_djson fromJSON toJSON timed. Qed.
Next Obligation. solve_dthrows toJSON timed. Qed.
Next Obligation. reflexivity. Qed.

#[global] Instance schema_wire {PB : Protobuf} {PS : ProtobufSpec PB} : WireSchema wire schema.
Proof. solve_schema_wire wire schema. Qed.

#[global] Instance schema_normal : NormalSchema normal schema.
Proof. solve_schema_normal normal schema. Qed.

#[global] Instance schema_merge : MergeSchema merge schema.
Proof. solve_schema_merge merge schema. Qed.

(** Its row in the table of message types. *)
Definition message {PB : Protobuf} {PS : ProtobufSpec PB} : message_type :=
  dated_message "ApprovedUpgrade" nothing true schema only.

#[global] Instance message_lawful {PB : Protobuf} (PS : ProtobufSpec PB) : Lawful message.
Proof. solve_lawful decode_field fromJSON only. Qed.

End ApprovedUpgrade.

(** ** [ProposedUpgrade] (dclupgrade/proposed_upgrade.js) *)

Module ProposedUpgrade.

Record t := mk {
  plan : option Plan.t;
  creator : string;
  approvals : list Grant.t;
  rejects : list Grant.t;
}.

#[global] Instance t_eta : Settable t := λ m, mk m.(plan) m.(creator) m.(approvals) m.(rejects).

Definition base : t := mk None "" [] [].

Definition encode {PB : Protobuf} (message : t) (writer : Writer) : result Writer :=
  Ok writer
  @>= defined_e message.(plan) (submessage 10 Plan.encode)
  @>= pure (when (str_neq message.(creator) "")
       (fun w => w @> uint32 18 @> string_ message.(creator)))
  @>= pure (each message.(approvals) (fun v w => w @> uint32 26 @> fork @> Grant.encode v @> ldelim))
  @>= pure (each message.(rejects) (fun v w => w @> uint32 34 @> fork @> Grant.encode v @> ldelim)).

Definition decode_field {PB : Protobuf} (tag : Z) (message : t) : RM t :=
  match field_number tag with
  | 1 => v ← read_nested Plan.decode; mret (message <| plan := Some v |>)
  | 2 => v ← read_string; mret (message <| creator := v |>)
  | 3 => v ← read_nested Grant.decode; mret (message <| approvals := message.(approvals) ++ [v] |>)
  | 4 => v ← read_nested Grant.decode; mret (message <| rejects := message.(rejects) ++ [v] |>)
  | _ => _ ← skipType (wire_type tag); mret message
  end.

Definition decode {PB : Protobuf} (length : option Z) : RM t :=
  decode_message length base decode_field.

Definition fromJSON (object : js) : result t :=
  plan' ← field_or object "plan" (to_some Plan.fromJSON) None;
  creator' ← field_or object "creator" to_string "";
  approvals' ← field_or object "approvals" (to_list Grant.fromJSON) [];
  rejects' ← field_or object "rejects" (to_list Grant.fromJSON) [];
  Ok (mk plan' creator' approvals' rejects').

Definition toJSON (message : t) : result js :=
  plan' ← option_result Plan.toJSON message.(plan);
  Ok (Obj (prop_opt "plan" id plan' ++
   [("creator", Str message.(creator));
    ("approvals", Arr (map Grant.toJSON message.(approvals)));
    ("rejects", Arr (map Grant.toJSON message.(rejects)))])).

Record partial := mkPartial {
  p_plan : option Plan.partial;
  p_creator : option string;
  p_approvals : option (list Grant.partial);
  p_rejects : option (list Grant.partial);
}.

Definition fromPartial (object : partial) : t := {|
  plan := Plan.fromPartial <$> object.(p_plan);
  creator := object.(p_creator) ?? "";
  approvals := map Grant.fromPartial (object.(p_approvals) ?? []);
  rejects := map Grant.fromPartial (object.(p_rejects) ?? []);
|}.

(** The object with no property given. *)
Definition nothing : partial := mkPartial None None None None.

(** The bytes [encode] writes. *)
Definition wire {PB : Protobuf} {PS : ProtobufSpec PB} (m : t) : bytes :=
  f_message 10 Plan.wire m.(plan) ++
  f_string 18 m.(creator) ++
  f_repeated 26 Grant.wire m.(approvals) ++
  f_repeated 34 Grant.wire m.(rejects).

Definition valid (m : t) : Prop :=
  from_option Plan.valid True m.(plan) ∧ Forall Grant.valid m.(approvals) ∧ Forall Grant.valid m.(rejects).

(** The byte fields hold arrays, as the interface declares. *)
Definition typed (m : t) : bool := from_option Plan.typed true m.(plan).

(** The message without its empty byte arrays. *)
Definition normal (m : t) : t := {|
  plan := Plan.normal <$> m.(plan);
  creator := m.(creator);
  approvals := m.(approvals);
  rejects := m.(rejects);
|}.

(** The dates are valid. *)
Definition timed (m : t) : bool := from_option Plan.timed true m.(plan).

Definition encodable {PB : Protobuf} {PS : ProtobufSpec PB} (m : t) : Prop :=
  typed m = true ∧ valid m ∧ small (wire m).

Definition merge (m a : t) : t := {|
  plan := later_message m.(plan) (Plan.normal <$> a.(plan));
  creator := later_string m.(creator) a.(creator);
  approvals := m.(approvals) ++ a.(approvals);
  rejects := m.(rejects) ++ a.(rejects);
|}.

(** A whole message seen as a partial one. *)
Definition full (m : t) : partial := {|
  p_plan := Plan.full <$> m.(plan);
  p_creator := Some m.(creator);
  p_approvals := Some (map Grant.full m.(approvals));
  p_rejects := Some (map Grant.full m.(rejects));
|}.

(** The message as its [.proto] file declares it. *)
Definition schema (m : t) : list field :=
  [singular 1 Optional (message_value Plan.schema) m.(plan);
   implicit 2 (VString m.(creator));
   repeated 3 (message_value Grant.schema) m.(approvals);
   repeated 4 (message_value Grant.schema) m.(rejects)].

(** The message with its default for every property that is not kept. *)
Definition only (kept : string → bool) (m : t) : t := {|
  plan := if kept "plan" then m.(plan) else None;
  creator := if kept "creator" then m.(creator) else "";
  approvals := if kept "approvals" then m.(approvals) else [];
  rejects := if kept "rejects" then m.(rejects) else [];
|}.

#[global] Instance codec {PB : Protobuf} : FallibleCodec t :=
  {| fmsg_base := base; fmsg_encode := encode; fmsg_field := decode_field |}.

#[global] Program Instance spec {PB : Protobuf} (PS : ProtobufSpec PB) : FallibleSpec PS t :=
  {| fmsg_wire := wire; fmsg_valid := valid; fmsg_typed := typed; fmsg_normal := normal;
     fmsg_merge := merge |}.
Next Obligation. solve_fencode_wire. Qed.
Next Obligation. intros. solve_fencode_throws encode typed. Qed.
Next Obligation. solve_fdecode_wire. Qed.
Next Obligation. solve_fmerge_base. Qed.
Next Obligation. intros. solve_fadvances decode_field. Qed.

#[global] Program Instance given_ : FalliblePartial t partial :=
  {| fmsg_fromPartial := fromPartial; fmsg_full := full; fmsg_given := typed |}.
Next Obligation. solve_fgiven fromPartial typed. Qed.
Next Obligation. solve_fpartial fromPartial full typed. Qed.

#[global] Program Instance json : DatedJson t :=
  {| dmsg_fromJSON := fromJSON; dmsg_toJSON := toJSON; dmsg_timed := timed;
     dmsg_named := fun _ => true; dmsg_known := fun m => m |}.
Next Obligation. solve_djson fromJSON toJSON timed. Qed.
Next Obligation. solve_dthrows toJSON timed. Qed.
Next Obligation. reflexivity. Qed.

#[global] Instance schema_wire {PB : Protobuf} {PS : ProtobufSpec PB} : WireSchema wire schema.
Proof. solve_schema_wire wire schema. Qed.

#[global] Instance schema_normal : NormalSchema normal schema.
Proof. solve_schema_normal normal schema. Qed.

#[global] Instance schema_merge : MergeSchema merge schema.
Proof. solve_schema_merge merge schema. Qed.

(** Its row in the table of message types. *)
Definition message {PB : Protobuf} {PS : ProtobufSpec PB} : message_type :=
  dated_message "ProposedUpgrade" nothing true schema only.

#[global] Instance message_lawful {PB : Protobuf} (PS : ProtobufSpec PB) : Lawful message.
Proof. solve_lawful decode_field fromJSON only. Qed.

End ProposedUpgrade.

(** ** [RejectedUpgrade] (dclupgrade/rejected_upgrade.js) *)

Module RejectedUpgrade.

Record t := mk {
  plan : option Plan.t;
  creator : string;
  approvals : list Grant.t;
  rejects : list Grant.t;
}.

#[global] Instance t_eta : Settable t := λ m, mk m.(plan) m.(creator) m.(approvals) m.(rejects).

Definition base : t := mk None "" [] [].

Definition encode {PB : Protobuf} (message : t) (writer : Writer) : result Writer :=
  Ok writer
  @>= defined_e message.(plan) (submessage 10 Plan.encode)
  @>= pure (when (str_neq message.(creator) "")
       (fun w => w @> uint32 18 @> string_ message.(creator)))
  @>= pure (each message.(approvals) (fun v w => w @> uint32 26 @> fork @> Grant.encode v @> ldelim))
  @>= pure (each message.(rejects) (fun v w => w @> uint32 34 @> fork @> Grant.encode v @> ldelim)).

Definition decode_field {PB : Protobuf} (tag : Z) (message : t) : RM t :=
  match field_number tag with
  | 1 => v ← read_nested Plan.decode; mret (message <| plan := Some v |>)
  | 2 => v ← read_string; mret (message <| creator := v |>)
  | 3 => v ← read_nested Grant.decode; mret (message <| approvals := message.(approvals) ++ [v] |>)
  | 4 => v ← read_nested Grant.decode; mret (message <| rejects := message.(rejects) ++ [v] |>)
  | _ => _ ← skipType (wire_type tag); mret message
  end.

Definition decode {PB : Protobuf} (length : option Z) : RM t :=
  decode_message length base decode_field.

Definition fromJSON (object : js) : result t :=
  plan' ← field_or object "plan" (to_some Plan.fromJSON) None;
  creator' ← field_or object "creator" to_string "";
  approvals' ← field_or object "approvals" (to_list Grant.fromJSON) [];
  rejects' ← field_or object "rejects" (to_list Grant.fromJSON) [];
  Ok (mk plan' creator' approvals' rejects').

Definition toJSON (message : t) : result js :=
  plan' ← option_result Plan.toJSON message.(plan);
  Ok (Obj (prop_opt "plan" id plan' ++
   [("creator", Str message.(creator));
    ("approvals", Arr (map Grant.toJSON message.(approvals)));
    ("rejects", Arr (map Grant.toJSON message.(rejects)))])).

Record partial := mkPartial {
  p_plan : option Plan.partial;
  p_creator : option string;
  p_approvals : option (list Grant.partial);
  p_rejects : option (list Grant.partial);
}.

Definition fromPartial (object : partial) : t := {|
  plan := Plan.fromPartial <$> object.(p_plan);
  creator := object.(p_creator) ?? "";
  approvals := map Grant.fromPartial (object.(p_approvals) ?? []);
  rejects := map Grant.fromPartial (object.(p_rejects) ?? []);
|}.

(** The object with no property given. *)
Definition nothing : partial := mkPartial None None None None.

(** The bytes [encode] writes. *)
Definition wire {PB : Protobuf} {PS : ProtobufSpec PB} (m : t) : bytes :=
  f_message 10 Plan.wire m.(plan) ++
  f_string 18 m.(creator) ++
  f_repeated 26 Grant.wire m.(approvals) ++
  f_repeated 34 Grant.wire m.(rejects).

Definition valid (m : t) : Prop :=
  from_option Plan.valid True m.(plan) ∧ Forall Grant.valid m.(approvals) ∧ Forall Grant.valid m.(rejects).

(** The byte fields hold arrays, as the interface declares. *)
Definition typed (m : t) : bool := from_option Plan.typed true m.(plan).

(** The message without its empty byte arrays. *)
Definition normal (m : t) : t := {|
  plan := Plan.normal <$> m.(plan);
  creator := m.(creator);
  approvals := m.(approvals);
  rejects := m.(rejects);
|}.

(** The dates are valid. *)
Definition timed (m : t) : bool := from_option Plan.timed true m.(plan).

Definition encodable {PB : Protobuf} {PS : ProtobufSpec PB} (m : t) : Prop :=
  typed m = true ∧ valid m ∧ small (wire m).

Definition merge (m a : t) : t := {|
  plan := later_message m.(plan) (Plan.normal <$> a.(plan));
  creator := later_string m.(creator) a.(creator);
  approvals := m.(approvals) ++ a.(approvals);
  rejects := m.(rejects) ++ a.(rejects);
|}.

(** A whole message seen as a partial one. *)
Definition full (m : t) : partial := {|
  p_plan := Plan.full <$> m.(plan);
  p_creator := Some m.(creator);
  p_approvals := Some (map Grant.full m.(approvals));
  p_rejects := Some (map Grant.full m.(rejects));
|}.

(** The message as its [.proto] file declares it. *)
Definition schema (m : t) : list field :=
  [singular 1 Optional (message_value Plan.schema) m.(plan);
   implicit 2 (VString m.(creator));
   repeated 3 (message_value Grant.schema) m.(approvals);
   repeated 4 (message_value Grant.schema) m.(rejects)].

(** The message with its default for every property that is not kept. *)
Definition only (kept : string → bool) (m : t) : t := {|
  plan := if kept "plan" then m.(plan) else None;
  creator := if kept "creator" then m.(creator) else "";
  approvals := if kept "approvals" then m.(approvals) else [];
  rejects := if kept "rejects" then m.(rejects) else [];
|}.

#[global] Instance codec {PB : Protobuf} : FallibleCodec t :=
  {| fmsg_base := base; fmsg_encode := encode; fmsg_field := decode_field |}.

#[global] Program Instance spec {PB : Protobuf} (PS : ProtobufSpec PB) : FallibleSpec PS t :=
  {| fmsg_wire := wire; fmsg_valid := valid; fmsg_typed := typed; fmsg_normal := normal;
     fmsg_merge := merge |}.
Next Obligation. solve_fencode_wire. Qed.
Next Obligation. intros. solve_fencode_throws encode typed. Qed.
Next Obligation. solve_fdecode_wire. Qed.
Next Obligation. solve_fmerge_base. Qed.
Next Obligation. intros. solve_fadvances decode_field. Qed.

#[global] Program Instance given_ : FalliblePartial t partial :=
  {| fmsg_fromPartial := fromPartial; fmsg_full := full; fmsg_given := typed |}.
Next Obligation. solve_fgiven fromPartial typed. Qed.
Next Obligation. solve_fpartial fromPartial full typed. Qed.

#[global] Program Instance json : DatedJson t :=
  {| dmsg_fromJSON := fromJSON; dmsg_toJSON := toJSON; dmsg_timed := timed;
     dmsg_named := fun _ => true; dmsg_known := fun m => m |}.
Next Obligation. solve_djson fromJSON toJSON timed. Qed.
Next Obligation. solve_dthrows toJSON timed. Qed.
Next Obligation. reflexivity. Qed.

#[global] Instance schema_wire {PB : Protobuf} {PS : ProtobufSpec PB} : WireSchema wire schema.
Proof. solve_schema_wire wire schema. Qed.

#[global] Instance schema_normal : NormalSchema normal schema.
Proof. solve_schema_normal normal schema. Qed.

#[global] Instance schema_merge : MergeSchema merge schema.
Proof. solve_schema_merge merge schema. Qed.

(** Its row in the table of message types. *)
Definition message {PB : Protobuf} {PS : ProtobufSpec PB} : message_type :=
  dated_message "RejectedUpgrade" nothing true schema only.

#[global] Instance message_lawful {PB : Protobuf} (PS : ProtobufSpec PB) : Lawful message.
Proof. solve_lawful decode_field fromJSON only. Qed.

End RejectedUpgrade.

(** ** [MsgProposeUpgrade] (dclupgrade/tx.js) *)

Module MsgProposeUpgrade.

Record t := mk {
  creator : string;
  plan : option Plan.t;
  info : string;
  time : number;
}.

#[global] Instance t_eta : Settable t := λ m, mk m.(creator) m.(plan) m.(info) m.(time).

Definition base : t := mk "" None "" 0.

Definition encode {PB : Protobuf} (message : t) (writer : Writer) : result Writer :=
  Ok writer
  @>= pure (when (str_neq message.(creator) "")
       (fun w => w @> uint32 10 @> string_ message.(creator)))
  @>= defined_e message.(plan) (submessage 18 Plan.encode)
  @>= pure (when (str_neq message.(info) "") (fun w => w @> uint32 26 @> string_ message.(info)))
  @>= pure (when (num_neq message.(time) 0) (fun w => w @> uint32 32 @> int64 message.(time))).

Definition decode_field {PB : Protobuf} (tag : Z) (message : t) : RM t :=
  match field_number tag with
  | 1 => v ← read_string; mret (message <| creator := v |>)
  | 2 => v ← read_nested Plan.decode; mret (message <| plan := Some v |>)
  | 3 => v ← read_string; mret (message <| info := v |>)
  | 4 => v ← read_number read_int64; mret (message <| time := v |>)
  | _ => _ ← skipType (wire_type tag); mret message
  end.

Definition decode {PB : Protobuf} (length : option Z) : RM t :=
  decode_message length base decode_field.

Definition fromJSON (object : js) : result t :=
  creator' ← field_or object "creator" to_string "";
  plan' ← field_or object "plan" (to_some Plan.fromJSON) None;
  info' ← field_or object "info" to_string "";
  time' ← field_or object "time" js_Number 0;
  Ok (mk creator' plan' info' time').

Definition toJSON (message : t) : result js :=
  plan' ← option_result Plan.toJSON message.(plan);
  Ok (Obj ([("creator", Str message.(creator))] ++
   prop_opt "plan" id plan' ++
   [("info", Str message.(info));
    ("time", Num message.(time))])).

Record partial := mkPartial {
  p_creator : option string;
  p_plan : option Plan.partial;
  p_info : option string;
  p_time : option number;
}.

Definition fromPartial (object : partial) : t := {|
  creator := object.(p_creator) ?? "";
  plan := Plan.fromPartial <$> object.(p_plan);
  info := object.(p_info) ?? "";
  time := object.(p_time) ?? Int 0;
|}.

(** The object with no property given. *)
Definition nothing : partial := mkPartial None None None None.

(** The bytes [encode] writes. *)
Definition wire {PB : Protobuf} {PS : ProtobufSpec PB} (m : t) : bytes :=
  f_string 10 m.(creator) ++
  f_message 18 Plan.wire m.(plan) ++
  f_string 26 m.(info) ++
  f_number e_int64 32 m.(time).

Definition valid (m : t) : Prop :=
  from_option Plan.valid True m.(plan) ∧ int64_ok m.(time).

(** The byte fields hold arrays, as the interface declares. *)
Definition typed (m : t) : bool := from_option Plan.typed true m.(plan).

(** The message without its empty byte arrays. *)
Definition normal (m : t) : t := {|
  creator := m.(creator);
  plan := Plan.normal <$> m.(plan);
  info := m.(info);
  time := m.(time);
|}.

(** The dates are valid. *)
Definition timed (m : t) : bool := from_option Plan.timed true m.(plan).

Definition encodable {PB : Protobuf} {PS : ProtobufSpec PB} (m : t) : Prop :=
  typed m = true ∧ valid m ∧ small (wire m).

Definition merge (m a : t) : t := {|
  creator := later_string m.(creator) a.(creator);
  plan := later_message m.(plan) (Plan.normal <$> a.(plan));
  info := later_string m.(info) a.(info);
  time := later_number m.(time) a.(time);
|}.

(** A whole message seen as a partial one. *)
Definition full (m : t) : partial := {|
  p_creator := Some m.(creator);
  p_plan := Plan.full <$> m.(plan);
  p_info := Some m.(info);
  p_time := Some m.(time);
|}.

(** The message as its [.proto] file declares it. *)
Definition schema (m : t) : list field :=
  [implicit 1 (VString m.(creator));
   singular 2 Optional (message_value Plan.schema) m.(plan);
   implicit 3 (VString m.(info));
   implicit 4 (VInt Int64 m.(time))].

(** The message with its default for every property that is not kept. *)
Definition only (kept : string → bool) (m : t) : t := {|
  creator := if kept "creator" then m.(creator) else "";
  plan := if kept "plan" then m.(plan) else None;
  info := if kept "info" then m.(info) else "";
  time := if kept "time" then m.(time) else Int 0;
|}.

#[global] Instance codec {PB : Protobuf} : FallibleCodec t :=
  {| fmsg_base := base; fmsg_encode := encode; fmsg_field := decode_field |}.

#[global] Program Instance spec {PB : Protobuf} (PS : ProtobufSpec PB) : FallibleSpec PS t :=
  {| fmsg_wire := wire; fmsg_valid := valid; fmsg_typed := typed; fmsg_normal := normal;
     fmsg_merge := merge |}.
Next Obligation. solve_fencode_wire. Qed.
Next Obligation. intros. solve_fencode_throws encode typed. Qed.
Next Obligation. solve_fdecode_wire. Qed.
Next Obligation. solve_fmerge_base. Qed.
Next Obligation. intros. solve_fadvances decode_field. Qed.

#[global] Program Instance given_ : FalliblePartial t partial :=
  {| fmsg_fromPartial := fromPartial; fmsg_full := full; fmsg_given := typed |}.
Next Obligation. solve_fgiven fromPartial typed. Qed.
Next Obligation. solve_fpartial fromPartial full typed. Qed.

#[global] Program Instance json : DatedJson t :=
  {| dmsg_fromJSON := fromJSON; dmsg_toJSON := toJSON; dmsg_timed := timed;
     dmsg_named := fun _ => true; dmsg_known := fun m => m |}.
Next Obligation. solve_djson fromJSON toJSON timed. Qed.
Next Obligation. solve_dthrows toJSON timed. Qed.
Next Obligation. reflexivity. Qed.

#[global] Instance schema_wire {PB : Protobuf} {PS : ProtobufSpec PB} : WireSchema wire schema.
Proof. solve_schema_wire wire schema. Qed.

#[global] Instance schema_normal : NormalSchema normal schema.
Proof. solve_schema_normal normal schema. Qed.

#[global] Instance schema_merge : MergeSchema merge schema.
Proof. solve_schema_merge merge schema. Qed.

(** Its row in the table of message types. *)
Definition message {PB : Protobuf} {PS : ProtobufSpec PB} : message_type :=
  dated_message "MsgProposeUpgrade" nothing true schema only.

#[global] Instance message_lawful {PB : Protobuf} (PS : ProtobufSpec PB) : Lawful message.
Proof. solve_lawful decode_field fromJSON only. Qed.

End MsgProposeUpgrade.

(** ** [MsgProposeUpgradeResponse] (dclupgrade/tx.js) *)

Module MsgProposeUpgradeResponse.

Record t := mk {}.

#[global] Instance t_eta : Settable t := λ m, m.

Definition base : t := mk.

Definition encode {PB : Protobuf} (message : t) (writer : Writer) : Writer :=
  writer.

Definition decode_field {PB : Protobuf} (tag : Z) (message : t) : RM t :=
  match field_number tag with
  | _ => _ ← skipType (wire_type tag); mret message
  end.

Definition decode {PB : Protobuf} (length : option Z) : RM t :=
  decode_message length base decode_field.

Definition fromJSON (object : js) : result t :=
  Ok base.

Definition toJSON (message : t) : js :=
  Obj [].

Record partial := mkPartial {}.

Definition fromPartial (object : partial) : t := base.

(** The object with no property given. *)
Definition nothing : partial := mkPartial.

(** The bytes [encode] writes. *)
Definition wire {PB : Protobuf} {PS : ProtobufSpec PB} (m : t) : bytes :=
  [].

Definition valid (m : t) : Prop :=
  True.

Definition encodable {PB : Protobuf} {PS : ProtobufSpec PB} (m : t) : Prop :=
  valid m ∧ small (wire m).

Definition merge (m a : t) : t := m.

(** A whole message seen as a partial one. *)
Definition full (m : t) : partial := mkPartial.

(** The message as its [.proto] file declares it. *)
Definition schema (m : t) : list field :=
  [].

(** The message with its default for every property that is not kept. *)
Definition only (kept : string → bool) (m : t) : t := m.

#[global] Instance codec {PB : Protobuf} : MessageCodec t :=
  {| msg_base := base; msg_encode := encode; msg_field := decode_field |}.

#[global] Program Instance spec {PB : Protobuf} (PS : ProtobufSpec PB) : MessageSpec PS t :=
  {| msg_wire := wire; msg_valid := valid; msg_merge := merge |}.
Next Obligation. solve_encode_wire. Qed.
Next Obligation. solve_decode_wire. Qed.
Next Obligation. solve_merge_base. Qed.
Next Obligation. intros. solve_advances decode_field. Qed.

#[global] Program Instance data : MessageData t partial :=
  {| msg_fromJSON := fromJSON; msg_toJSON := toJSON;
     msg_fromPartial := fromPartial; msg_full := full |}.
Next Obligation. solve_json fromJSON toJSON. Qed.
Next Obligation. solve_partial fromPartial full. Qed.

#[global] Instance schema_wire {PB : Protobuf} {PS : ProtobufSpec PB} : WireSchema wire schema.
Proof. solve_schema_wire wire schema. Qed.

#[global] Instance schema_merge : MergeSchema merge schema.
Proof. solve_schema_merge merge schema. Qed.

(** Its row in the table of message types. *)
Definition message {PB : Protobuf} {PS : ProtobufSpec PB} : message_type :=
  plain_message "MsgProposeUpgradeResponse" nothing false schema only.

#[global] Instance message_lawful {PB : Protobuf} (PS : ProtobufSpec PB) : Lawful message.
Proof. solve_lawful decode_field fromJSON only. Qed.

End MsgProposeUpgradeResponse.

(** ** [MsgApproveUpgrade] (dclupgrade/tx.js) *)

Module MsgApproveUpgrade.

Record t := mk {
  creator : string;
  name : string;
  info : string;
  time : number;
}.

#[global] Instance t_eta : Settable t := λ m, mk m.(creator) m.(name) m.(info) m.(time).

Definition base : t := mk "" "" "" 0.

Definition encode {PB : Protobuf} (message : t) (writer : Writer) : Writer :=
  writer
  @> when (str_neq message.(creator) "") (fun w => w @> uint32 10 @> string_ message.(creator))
  @> when (str_neq message.(name) "") (fun w => w @> uint32 18 @> string_ message.(name))
  @> when (str_neq message.(info) "") (fun w => w @> uint32 26 @> string_ message.(info))
  @> when (num_neq message.(time) 0) (fun w => w @> uint32 32 @> int64 message.(time)).

Definition decode_field {PB : Protobuf} (tag : Z) (message : t) : RM t :=
  match field_number tag with
  | 1 => v ← read_string; mret (message <| creator := v |>)
  | 2 => v ← read_string; mret (message <| name := v |>)
  | 3 => v ← read_string; mret (message <| info := v |>)
  | 4 => v ← read_number read_int64; mret (message <| time := v |>)
  | _ => _ ← skipType (wire_type tag); mret message
  end.

Definition decode {PB : Protobuf} (length : option Z) : RM t :=
  decode_message length base decode_field.

Definition fromJSON (object : js) : result t :=
  creator' ← field_or object "creator" to_string "";
  name' ← field_or object "name" to_string "";
  info' ← field_or object "info" to_string "";
  time' ← field_or object "time" js_Number 0;
  Ok (mk creator' name' info' time').

Definition toJSON (message : t) : js :=
  Obj ([("creator", Str message.(creator));
    ("name", Str message.(name));
    ("info", Str message.(info));
    ("time", Num message.(time))]).

Record partial := mkPartial {
  p_creator : option string;
  p_name : option string;
  p_info : option string;
  p_time : option number;
}.

Definition fromPartial (object : partial) : t := {|
  creator := object.(p_creator) ?? "";
  name := object.(p_name) ?? "";
  info := object.(p_info) ?? "";
  time := object.(p_time) ?? Int 0;
|}.

(** The object with no property given. *)
Definition nothing : partial := mkPartial None None None None.

(** The bytes [encode] writes. *)
Definition wire {PB : Protobuf} {PS : ProtobufSpec PB} (m : t) : bytes :=
  f_string 10 m.(creator) ++
  f_string 18 m.(name) ++
  f_string 26 m.(info) ++
  f_number e_int64 32 m.(time).

Definition valid (m : t) : Prop :=
  int64_ok m.(time).

Definition encodable {PB : Protobuf} {PS : ProtobufSpec PB} (m : t) : Prop :=
  valid m ∧ small (wire m).

Definition merge (m a : t) : t := {|
  creator := later_string m.(creator) a.(creator);
  name := later_string m.(name) a.(name);
  info := later_string m.(info) a.(info);
  time := later_number m.(time) a.(time);
|}.

(** A whole message seen as a partial one. *)
Definition full (m : t) : partial := {|
  p_creator := Some m.(creator);
  p_name := Some m.(name);
  p_info := Some m.(info);
  p_time := Some m.(time);
|}.

(** The message as its [.proto] file declares it. *)
Definition schema (m : t) : list field :=
  [implicit 1 (VString m.(creator));
   implicit 2 (VString m.(name));
   implicit 3 (VString m.(info));
   implicit 4 (VInt Int64 m.(time))].

(** The message with its default for every property that is not kept. *)
Definition only (kept : string → bool) (m : t) : t := {|
  creator := if kept "creator" then m.(creator) else "";
  name := if kept "name" then m.(name) else "";
  info := if kept "info" then m.(info) else "";
  time := if kept "time" then m.(time) else Int 0;
|}.

#[global] Instance codec {PB : Protobuf} : MessageCodec t :=
  {| msg_base := base; msg_encode := encode; msg_field := decode_field |}.

#[global] Program Instance spec {PB : Protobuf} (PS : ProtobufSpec PB) : MessageSpec PS t :=
  {| msg_wire := wire; msg_valid := valid; msg_merge := merge |}.
Next Obligation. solve_encode_wire. Qed.
Next Obligation. solve_decode_wire. Qed.
Next Obligation. solve_merge_base. Qed.
Next Obligation. intros. solve_advances decode_field. Qed.

#[global] Program Instance data : MessageData t partial :=
  {| msg_fromJSON := fromJSON; msg_toJSON := toJSON;
     msg_fromPartial := fromPartial; msg_full := full |}.
Next Obligation. solve_json fromJSON toJSON. Qed.
Next Obligation. solve_partial fromPartial full. Qed.

#[global] Instance schema_wire {PB : Protobuf} {PS : ProtobufSpec PB} : WireSchema wire schema.
Proof. solve_schema_wire wire schema. Qed.

#[global] Instance schema_merge : MergeSchema merge schema.
Proof. solve_schema_merge merge schema. Qed.

(** Its row in the table of message types. *)
Definition message {PB : Protobuf} {PS : ProtobufSpec PB} : message_type :=
  plain_message "MsgApproveUpgrade" nothing true schema only.

#[global] Instance message_lawful {PB : Protobuf} (PS : ProtobufSpec PB) : Lawful message.
Proof. solve_lawful decode_field fromJSON only. Qed.

End MsgApproveUpgrade.

(** ** [MsgApproveUpgradeResponse] (dclupgrade/tx.js) *)

Module MsgApproveUpgradeResponse.

Record t := mk {}.

#[global] Instance t_eta : Settable t := λ m, m.

Definition base : t := mk.

Definition encode {PB : Protobuf} (message : t) (writer : Writer) : Writer :=
  writer.

Definition decode_field {PB : Protobuf} (tag : Z) (message : t) : RM t :=
  match field_number tag with
  | _ => _ ← skipType (wire_type tag); mret message
  end.

Definition decode {PB : Protobuf} (length : option Z) : RM t :=
  decode_message length base decode_field.

Definition fromJSON (object : js) : result t :=
  Ok base.

Definition toJSON (message : t) : js :=
  Obj [].

Record partial := mkPartial {}.

Definition fromPartial (object : partial) : t := base.

(** The object with no property given. *)
Definition nothing : partial := mkPartial.

(** The bytes [encode] writes. *)
Definition wire {PB : Protobuf} {PS : ProtobufSpec PB} (m : t) : bytes :=
  [].

Definition valid (m : t) : Prop :=
  True.

Definition encodable {PB : Protobuf} {PS : ProtobufSpec PB} (m : t) : Prop :=
  valid m ∧ small (wire m).

Definition merge (m a : t) : t := m.

(** A whole message seen as a partial one. *)
Definition full (m : t) : partial := mkPartial.

(** The message as its [.proto] file declares it. *)
Definition schema (m : t) : list field :=
  [].

(** The message with its default for every property that is not kept. *)
Definition only (kept : string → bool) (m : t) : t := m.

#[global] Instance codec {PB : Protobuf} : MessageCodec t :=
  {| msg_base := base; msg_encode := encode; msg_field := decode_field |}.

#[global] Program Instance spec {PB : Protobuf} (PS : ProtobufSpec PB) : MessageSpec PS t :=
  {| msg_wire := wire; msg_valid := valid; msg_merge := merge |}.
Next Obligation. solve_encode_wire. Qed.
Next Obligation. solve_decode_wire. Qed.
Next Obligation. solve_merge_base. Qed.
Next Obligation. intros. solve_advances decode_field. Qed.

#[global] Program Instance data : MessageData t partial :=
  {| msg_fromJSON := fromJSON; msg_toJSON := toJSON;
     msg_fromPartial := fromPartial; msg_full := full |}.
Next Obligation. solve_json fromJSON toJSON. Qed.
Next Obligation. solve_partial fromPartial full. Qed.

#[global] Instance schema_wire {PB : Protobuf} {PS : ProtobufSpec PB} : WireSchema wire schema.
Proof. solve_schema_wire wire schema. Qed.

#[global] Instance schema_merge : MergeSchema merge schema.
Proof. solve_schema_merge merge schema. Qed.

(** Its row in the table of message types. *)
Definition message {PB : Protobuf} {PS : ProtobufSpec PB} : message_type :=
  plain_message "MsgApproveUpgradeResponse" nothing false schema only.

#[global] Instance message_lawful {PB : Protobuf} (PS : ProtobufSpec PB) : Lawful message.
Proof. solve_lawful decode_field fromJSON only. Qed.

End MsgApproveUpgradeResponse.

(** ** [MsgRejectUpgrade] (dclupgrade/tx.js) *)

Module MsgRejectUpgrade.

Record t := mk {
  creator : string;
  name : string;
  info : string;
  time : number;
}.

#[global] Instance t_eta : Settable t := λ m, mk m.(creator) m.(name) m.(info) m.(time).

Definition base : t := mk "" "" "" 0.

Definition encode {PB : Protobuf} (message : t) (writer : Writer) : Writer :=
  writer
  @> when (str_neq message.(creator) "") (fun w => w @> uint32 10 @> string_ message.(creator))
  @> when (str_neq message.(name) "") (fun w => w @> uint32 18 @> string_ message.(name))
  @> when (str_neq message.(info) "") (fun w => w @> uint32 26 @> string_ message.(info))
  @> when (num_neq message.(time) 0) (fun w => w @> uint32 32 @> int64 message.(time)).

Definition decode_field {PB : Protobuf} (tag : Z) (message : t) : RM t :=
  match field_number tag with
  | 1 => v ← read_string; mret (message <| creator := v |>)
  | 2 => v ← read_string; mret (message <| name := v |>)
  | 3 => v ← read_string; mret (message <| info := v |>)
  | 4 => v ← read_number read_int64; mret (message <| time := v |>)
  | _ => _ ← skipType (wire_type tag); mret message
  end.

Definition decode {PB : Protobuf} (length : option Z) : RM t :=
  decode_message length base decode_field.

Definition fromJSON (object : js) : result t :=
  creator' ← field_or object "creator" to_string "";
  name' ← field_or object "name" to_string "";
  info' ← field_or object "info" to_string "";
  time' ← field_or object "time" js_Number 0;
  Ok (mk creator' name' info' time').

Definition toJSON (message : t) : js :=
  Obj ([("creator", Str message.(creator));
    ("name", Str message.(name));
    ("info", Str message.(info));
    ("time", Num message.(time))]).

Record partial := mkPartial {
  p_creator : option string;
  p_name : option string;
  p_info : option string;
  p_time : option number;
}.

Definition fromPartial (object : partial) : t := {|
  creator := object.(p_creator) ?? "";
  name := object.(p_name) ?? "";
  info := object.(p_info) ?? "";
  time := object.(p_time) ?? Int 0;
|}.

(** The object with no property given. *)
Definition nothing : partial := mkPartial None None None None.

(** The bytes [encode] writes. *)
Definition wire {PB : Protobuf} {PS : ProtobufSpec PB} (m : t) : bytes :=
  f_string 10 m.(creator) ++
  f_string 18 m.(name) ++
  f_string 26 m.(info) ++
  f_number e_int64 32 m.(time).

Definition valid (m : t) : Prop :=
  int64_ok m.(time).

Definition encodable {PB : Protobuf} {PS : ProtobufSpec PB} (m : t) : Prop :=
  valid m ∧ small (wire m).

Definition merge (m a : t) : t := {|
  creator := later_string m.(creator) a.(creator);
  name := later_string m.(name) a.(name);
  info := later_string m.(info) a.(info);
  time := later_number m.(time) a.(time);
|}.

(** A whole message seen as a partial one. *)
Definition full (m : t) : partial := {|
  p_creator := Some m.(creator);
  p_name := Some m.(name);
  p_info := Some m.(info);
  p_time := Some m.(time);
|}.

(** The message as its [.proto] file declares it. *)
Definition schema (m : t) : list field :=
  [implicit 1 (VString m.(creator));
   implicit 2 (VString m.(name));
   implicit 3 (VString m.(info));
   implicit 4 (VInt Int64 m.(time))].

(** The message with its default for every property that is not kept. *)
Definition only (kept : string → bool) (m : t) : t := {|
  creator := if kept "creator" then m.(creator) else "";
  name := if kept "name" then m.(name) else "";
  info := if kept "info" then m.(info) else "";
  time := if kept "time" then m.(time) else Int 0;
|}.

#[global] Instance codec {PB : Protobuf} : MessageCodec t :=
  {| msg_base := base; msg_encode := encode; msg_field := decode_field |}.

#[global] Program Instance spec {PB : Protobuf} (PS : ProtobufSpec PB) : MessageSpec PS t :=
  {| msg_wire := wire; msg_valid := valid; msg_merge := merge |}.
Next Obligation. solve_encode_wire. Qed.
Next Obligation. solve_decode_wire. Qed.
Next Obligation. solve_merge_base. Qed.
Next Obligation. intros. solve_advances decode_field. Qed.

#[global] Program Instance data : MessageData t partial :=
  {| msg_fromJSON := fromJSON; msg_toJSON := toJSON;
     msg_fromPartial := fromPartial; msg_full := full |}.
Next Obligation. solve_json fromJSON toJSON. Qed.
Next Obligation. solve_partial fromPartial full. Qed.

#[global] Instance schema_wire {PB : Protobuf} {PS : ProtobufSpec PB} : WireSchema wire schema.
Proof. solve_schema_wire wire schema. Qed.

#[global] Instance schema_merge : MergeSchema merge schema.
Proof. solve_schema_merge merge schema. Qed.

(** Its row in the table of message types. *)
Definition message {PB : Protobuf} {PS : ProtobufSpec PB} : message_type :=
  plain_message "MsgRejectUpgrade" nothing true schema only.

#[global] Instance message_lawful {PB : Protobuf} (PS : ProtobufSpec PB) : Lawful message.
Proof. solve_lawful decode_field fromJSON only. Qed.

End MsgRejectUpgrade.

(** ** [MsgRejectUpgradeResponse] (dclupgrade/tx.js) *)

Module MsgRejectUpgradeResponse.

Record t := mk {}.

#[global] Instance t_eta : Settable t := λ m, m.

Definition base : t := mk.

Definition encode {PB : Protobuf} (message : t) (writer : Writer) : Writer :=
  writer.

Definition decode_field {PB : Protobuf} (tag : Z) (message : t) : RM t :=
  match field_number tag with
  | _ => _ ← skipType (wire_type tag); mret message
  end.

Definition decode {PB : Protobuf} (length : option Z) : RM t :=
  decode_message length base decode_field.

Definition fromJSON (object : js) : result t :=
  Ok base.

Definition toJSON (message : t) : js :=
  Obj [].

Record partial := mkPartial {}.

Definition fromPartial (object : partial) : t := base.

(** The object with no property given. *)
Definition nothing : partial := mkPartial.

(** The bytes [encode] writes. *)
Definition wire {PB : Protobuf} {PS : ProtobufSpec PB} (m : t) : bytes :=
  [].

Definition valid (m : t) : Prop :=
  True.

Definition encodable {PB : Protobuf} {PS : ProtobufSpec PB} (m : t) : Prop :=
  valid m ∧ small (wire m).

Definition merge (m a : t) : t := m.

(** A whole message seen as a partial one. *)
Definition full (m : t) : partial := mkPartial.

(** The message as its [.proto] file declares it. *)
Definition schema (m : t) : list field :=
  [].

(** The message with its default for every property that is not kept. *)
Definition only (kept : string → bool) (m : t) : t := m.

#[global] Instance codec {PB : Protobuf} : MessageCodec t :=
  {| msg_base := base; msg_encode := encode; msg_field := decode_field |}.

#[global] Program Instance spec {PB : Protobuf} (PS : ProtobufSpec PB) : MessageSpec PS t :=
  {| msg_wire := wire; msg_valid := valid; msg_merge := merge |}.
Next Obligation. solve_encode_wire. Qed.
Next Obligation. solve_decode_wire. Qed.
Next Obligation. solve_merge_base. Qed.
Next Obligation. intros. solve_advances decode_field. Qed.

#[global] Program Instance data : MessageData t partial :=
  {| msg_fromJSON := fromJSON; msg_toJSON := toJSON;
     msg_fromPartial := fromPartial; msg_full := full |}.
Next Obligation. solve_json fromJSON toJSON. Qed.
Next Obligation. solve_partial fromPartial full. Qed.

#[global] Instance schema_wire {PB : Protobuf} {PS : ProtobufSpec PB} : WireSchema wire schema.
Proof. solve_schema_wire wire schema. Qed.

#[global] Instance schema_merge : MergeSchema merge schema.
Proof. solve_schema_merge merge schema. Qed.

(** Its row in the table of message types. *)
Definition message {PB : Protobuf} {PS : ProtobufSpec PB} : message_type :=
  plain_message "MsgRejectUpgradeResponse" nothing false schema only.

#[global] Instance message_lawful {PB : Protobuf} (PS : ProtobufSpec PB) : Lawful message.
Proof. solve_lawful decode_field fromJSON only. Qed.

End MsgRejectUpgradeResponse.

(** ** [QueryGetProposedUpgradeRequest] (dclupgrade/query.js) *)

Module QueryGetProposedUpgradeRequest.

Record t := mk {
  name : string;
}.

#[global] Instance t_eta : Settable t := λ m, mk m.(name).

Definition base : t := mk "".

Definition encode {PB : Protobuf} (message : t) (writer : Writer) : Writer :=
  writer
  @> when (str_neq message.(name) "") (fun w => w @> uint32 10 @> string_ message.(name)).

Definition decode_field {PB : Protobuf} (tag : Z) (message : t) : RM t :=
  match field_number tag with
  | 1 => v ← read_string; mret (message <| name := v |>)
  | _ => _ ← skipType (wire_type tag); mret message
  end.

Definition decode {PB : Protobuf} (length : option Z) : RM t :=
  decode_message length base decode_field.

Definition fromJSON (object : js) : result t :=
  name' ← field_or object "name" to_string "";
  Ok (mk name').

Definition toJSON (message : t) : js :=
  Obj ([("name", Str message.(name))]).

Record partial := mkPartial {
  p_name : option string;
}.

Definition fromPartial (object : partial) : t := {|
  name := object.(p_name) ?? "";
|}.

(** The object with no property given. *)
Definition nothing : partial := mkPartial None.

(** The bytes [encode] writes. *)
Definition wire {PB : Protobuf} {PS : ProtobufSpec PB} (m : t) : bytes :=
  f_string 10 m.(name).

Definition valid (m : t) : Prop :=
  True.

Definition encodable {PB : Protobuf} {PS : ProtobufSpec PB} (m : t) : Prop :=
  valid m ∧ small (wire m).

Definition merge (m a : t) : t := {|
  name := later_string m.(name) a.(name);
|}.

(** A whole message seen as a partial one. *)
Definition full (m : t) : partial := {|
  p_name := Some m.(name);
|}.

(** The message as its [.proto] file declares it. *)
Definition schema (m : t) : list field :=
  [implicit 1 (VString m.(name))].

(** The message with its default for every property that is not kept. *)
Definition only (kept : string → bool) (m : t) : t := {|
  name := if kept "name" then m.(name) else "";
|}.

#[global] Instance codec {PB : Protobuf} : MessageCodec t :=
  {| msg_base := base; msg_encode := encode; msg_field := decode_field |}.

#[global] Program Instance spec {PB : Protobuf} (PS : ProtobufSpec PB) : MessageSpec PS t :=
  {| msg_wire := wire; msg_valid := valid; msg_merge := merge |}.
Next Obligation. solve_encode_wire. Qed.
Next Obligation. solve_decode_wire. Qed.
Next Obligation. solve_merge_base. Qed.
Next Obligation. intros. solve_advances decode_field. Qed.

#[global] Program Instance data : MessageData t partial :=
  {| msg_fromJSON := fromJSON; msg_toJSON := toJSON;
     msg_fromPartial := fromPartial; msg_full := full |}.
Next Obligation. solve_json fromJSON toJSON. Qed.
Next Obligation. solve_partial fromPartial full. Qed.

#[global] Instance schema_wire {PB : Protobuf} {PS : ProtobufSpec PB} : WireSchema wire schema.
Proof. solve_schema_wire wire schema. Qed.

#[global] Instance schema_merge : MergeSchema merge schema.
Proof. solve_schema_merge merge schema. Qed.

(** Its row in the table of message types. *)
Definition message {PB : Protobuf} {PS : ProtobufSpec PB} : message_type :=
  plain_message "QueryGetProposedUpgradeRequest" nothing true schema only.

#[global] Instance message_lawful {PB : Protobuf} (PS : ProtobufSpec PB) : Lawful message.
Proof. solve_lawful decode_field fromJSON only. Qed.

End QueryGetProposedUpgradeRequest.

(** ** [QueryGetProposedUpgradeResponse] (dclupgrade/query.js) *)

Module QueryGetProposedUpgradeResponse.

Record t := mk {
  proposedUpgrade : option ProposedUpgrade.t;
}.

#[global] Instance t_eta : Settable t := λ m, mk m.(proposedUpgrade).

Definition base : t := mk None.

Definition encode {PB : Protobuf} (message : t) (writer : Writer) : result Writer :=
  Ok writer
  @>= defined_e message.(proposedUpgrade) (submessage 10 ProposedUpgrade.encode).

Definition decode_field {PB : Protobuf} (tag : Z) (message : t) : RM t :=
  match field_number tag with
  | 1 => v ← read_nested ProposedUpgrade.decode; mret (message <| proposedUpgrade := Some v |>)
  | _ => _ ← skipType (wire_type tag); mret message
  end.

Definition decode {PB : Protobuf} (length : option Z) : RM t :=
  decode_message length base decode_field.

Definition fromJSON (object : js) : result t :=
  proposedUpgrade' ← field_or object "proposedUpgrade" (to_some ProposedUpgrade.fromJSON) None;
  Ok (mk proposedUpgrade').

Definition toJSON (message : t) : result js :=
  proposedUpgrade' ← option_result ProposedUpgrade.toJSON message.(proposedUpgrade);
  Ok (Obj (prop_opt "proposedUpgrade" id proposedUpgrade')).

Record partial := mkPartial {
  p_proposedUpgrade : option ProposedUpgrade.partial;
}.

Definition fromPartial (object : partial) : t := {|
  proposedUpgrade := ProposedUpgrade.fromPartial <$> object.(p_proposedUpgrade);
|}.

(** The object with no property given. *)
Definition nothing : partial := mkPartial None.

(** The bytes [encode] writes. *)
Definition wire {PB : Protobuf} {PS : ProtobufSpec PB} (m : t) : bytes :=
  f_message 10 ProposedUpgrade.wire m.(proposedUpgrade).

Definition valid (m : t) : Prop :=
  from_option ProposedUpgrade.valid True m.(proposedUpgrade).

(** The byte fields hold arrays, as the interface declares. *)
Definition typed (m : t) : bool := from_option ProposedUpgrade.typed true m.(proposedUpgrade).

(** The message without its empty byte arrays. *)
Definition normal (m : t) : t := {|
  proposedUpgrade := ProposedUpgrade.normal <$> m.(proposedUpgrade);
|}.

(** The dates are valid. *)
Definition timed (m : t) : bool := from_option ProposedUpgrade.timed true m.(proposedUpgrade).

Definition encodable {PB : Protobuf} {PS : ProtobufSpec PB} (m : t) : Prop :=
  typed m = true ∧ valid m ∧ small (wire m).

Definition merge (m a : t) : t := {|
  proposedUpgrade := later_message m.(proposedUpgrade) (ProposedUpgrade.normal <$> a.(proposedUpgrade));
|}.

(** A whole message seen as a partial one. *)
Definition full (m : t) : partial := {|
  p_proposedUpgrade := ProposedUpgrade.full <$> m.(proposedUpgrade);
|}.

(** The message as its [.proto] file declares it. *)
Definition schema (m : t) : list field :=
  [singular 1 Optional (message_value ProposedUpgrade.schema) m.(proposedUpgrade)].

(** The message with its default for every property that is not kept. *)
Definition only (kept : string → bool) (m : t) : t := {|
  proposedUpgrade := if kept "proposedUpgrade" then m.(proposedUpgrade) else None;
|}.

#[global] Instance codec {PB : Protobuf} : FallibleCodec t :=
  {| fmsg_base := base; fmsg_encode := encode; fmsg_field := decode_field |}.

#[global] Program Instance spec {PB : Protobuf} (PS : ProtobufSpec PB) : FallibleSpec PS t :=
  {| fmsg_wire := wire; fmsg_valid := valid; fmsg_typed := typed; fmsg_normal := normal;
     fmsg_merge := merge |}.
Next Obligation. solve_fencode_wire. Qed.
Next Obligation. intros. solve_fencode_throws encode typed. Qed.
Next Obligation. solve_fdecode_wire. Qed.
Next Obligation. solve_fmerge_base. Qed.
Next Obligation. intros. solve_fadvances decode_field. Qed.

#[global] Program Instance given_ : FalliblePartial t partial :=
  {| fmsg_fromPartial := fromPartial; fmsg_full := full; fmsg_given := typed |}.
Next Obligation. solve_fgiven fromPartial typed. Qed.
Next Obligation. solve_fpartial fromPartial full typed. Qed.

#[global] Program Instance json : DatedJson t :=
  {| dmsg_fromJSON := fromJSON; dmsg_toJSON := toJSON; dmsg_timed := timed;
     dmsg_named := fun _ => true; dmsg_known := fun m => m |}.
Next Obligation. solve_djson fromJSON toJSON timed. Qed.
Next Obligation. solve_dthrows toJSON timed. Qed.
Next Obligation. reflexivity. Qed.

#[global] Instance schema_wire {PB : Protobuf} {PS : ProtobufSpec PB} : WireSchema wire schema.
Proof. solve_schema_wire wire schema. Qed.

#[global] Instance schema_normal : NormalSchema normal schema.
Proof. solve_schema_normal normal schema. Qed.

#[global] Instance schema_merge : MergeSchema merge schema.
Proof. solve_schema_merge merge schema. Qed.

(** Its row in the table of message types. *)
Definition message {PB : Protobuf} {PS : ProtobufSpec PB} : message_type :=
  dated_message "QueryGetProposedUpgradeResponse" nothing true schema only.

#[global] Instance message_lawful {PB : Protobuf} (PS : ProtobufSpec PB) : Lawful message.
Proof. solve_lawful decode_field fromJSON only. Qed.

End QueryGetProposedUpgradeResponse.

(** ** [QueryAllProposedUpgradeRequest] (dclupgrade/query.js) *)

Module QueryAllProposedUpgradeRequest.

Record t := mk {
  pagination : option PageRequest.t;
}.

#[global] Instance t_eta : Settable t := λ m, mk m.(pagination).

Definition base : t := mk None.

Definition encode {PB : Protobuf} (message : t) (writer : Writer) : result Writer :=
  Ok writer
  @>= defined_e message.(pagination) (submessage 10 PageRequest.encode).

Definition decode_field {PB : Protobuf} (tag : Z) (message : t) : RM t :=
  match field_number tag with
  | 1 => v ← read_nested PageRequest.decode; mret (message <| pagination := Some v |>)
  | _ => _ ← skipType (wire_type tag); mret message
  end.

Definition decode {PB : Protobuf} (length : option Z) : RM t :=
  decode_message length base decode_field.

Definition fromJSON (object : js) : result t :=
  pagination' ← field_or object "pagination" (to_some PageRequest.fromJSON) None;
  Ok (mk pagination').

Definition toJSON (message : t) : js :=
  Obj (prop_opt "pagination" PageRequest.toJSON message.(pagination)).

Record partial := mkPartial {
  p_pagination : option PageRequest.partial;
}.

Definition fromPartial (object : partial) : t := {|
  pagination := PageRequest.fromPartial <$> object.(p_pagination);
|}.

(** The object with no property given. *)
Definition nothing : partial := mkPartial None.

(** The bytes [encode] writes. *)
Definition wire {PB : Protobuf} {PS : ProtobufSpec PB} (m : t) : bytes :=
  f_message 10 PageRequest.wire m.(pagination).

Definition valid (m : t) : Prop :=
  from_option PageRequest.valid True m.(pagination).

(** The byte fields hold arrays, as the interface declares. *)
Definition typed (m : t) : bool := from_option PageRequest.typed true m.(pagination).

(** The message without its empty byte arrays. *)
Definition normal (m : t) : t := {|
  pagination := PageRequest.normal <$> m.(pagination);
|}.

Definition encodable {PB : Protobuf} {PS : ProtobufSpec PB} (m : t) : Prop :=
  typed m = true ∧ valid m ∧ small (wire m).

Definition merge (m a : t) : t := {|
  pagination := later_message m.(pagination) (PageRequest.normal <$> a.(pagination));
|}.

(** A whole message seen as a partial one. *)
Definition full (m : t) : partial := {|
  p_pagination := PageRequest.full <$> m.(pagination);
|}.

(** The message as its [.proto] file declares it. *)
Definition schema (m : t) : list field :=
  [singular 1 Optional (message_value PageRequest.schema) m.(pagination)].

(** The message with its default for every property that is not kept. *)
Definition only (kept : string → bool) (m : t) : t := {|
  pagination := if kept "pagination" then m.(pagination) else None;
|}.

#[global] Instance codec {PB : Protobuf} : FallibleCodec t :=
  {| fmsg_base := base; fmsg_encode := encode; fmsg_field := decode_field |}.

#[global] Program Instance spec {PB : Protobuf} (PS : ProtobufSpec PB) : FallibleSpec PS t :=
  {| fmsg_wire := wire; fmsg_valid := valid; fmsg_typed := typed; fmsg_normal := normal;
     fmsg_merge := merge |}.
Next Obligation. solve_fencode_wire. Qed.
Next Obligation. intros. solve_fencode_throws encode typed. Qed.
Next Obligation. solve_fdecode_wire. Qed.
Next Obligation. solve_fmerge_base. Qed.
Next Obligation. intros. solve_fadvances decode_field. Qed.

#[global] Program Instance given_ : FalliblePartial t partial :=
  {| fmsg_fromPartial := fromPartial; fmsg_full := full; fmsg_given := typed |}.
Next Obligation. solve_fgiven fromPartial typed. Qed.
Next Obligation. solve_fpartial fromPartial full typed. Qed.

#[global] Program Instance json : FallibleJson t :=
  {| fmsg_fromJSON := fromJSON; fmsg_toJSON := toJSON;
     fmsg_named := fun _ => true; fmsg_known := fun m => m |}.
Next Obligation. solve_fjson fromJSON toJSON. Qed.
Next Obligation. reflexivity. Qed.

#[global] Instance schema_wire {PB : Protobuf} {PS : ProtobufSpec PB} : WireSchema wire schema.
Proof. solve_schema_wire wire schema. Qed.

#[global] Instance schema_normal : NormalSchema normal schema.
Proof. solve_schema_normal normal schema. Qed.

#[global] Instance schema_merge : MergeSchema merge schema.
Proof. solve_schema_merge merge schema. Qed.

(** Its row in the table of message types. *)
Definition message {PB : Protobuf} {PS : ProtobufSpec PB} : message_type :=
  fallible_message "QueryAllProposedUpgradeRequest" nothing true schema only.

#[global] Instance message_lawful {PB : Protobuf} (PS : ProtobufSpec PB) : Lawful message.
Proof. solve_lawful decode_field fromJSON only. Qed.

End QueryAllProposedUpgradeRequest.

(** ** [QueryAllProposedUpgradeResponse] (dclupgrade/query.js) *)

Module QueryAllProposedUpgradeResponse.

Record t := mk {
  proposedUpgrade : list ProposedUpgrade.t;
  pagination : option PageResponse.t;
}.

#[global] Instance t_eta : Settable t := λ m, mk m.(proposedUpgrade) m.(pagination).

Definition base : t := mk [] None.

Definition encode {PB : Protobuf} (message : t) (writer : Writer) : result Writer :=
  Ok writer
  @>= each_e message.(proposedUpgrade) (submessage 10 ProposedUpgrade.encode)
  @>= defined_e message.(pagination) (submessage 18 PageResponse.encode).

Definition decode_field {PB : Protobuf} (tag : Z) (message : t) : RM t :=
  match field_number tag with
  | 1 => v ← read_nested ProposedUpgrade.decode;
         mret (message <| proposedUpgrade := message.(proposedUpgrade) ++ [v] |>)
  | 2 => v ← read_nested PageResponse.decode; mret (message <| pagination := Some v |>)
  | _ => _ ← skipType (wire_type tag); mret message
  end.

Definition decode {PB : Protobuf} (length : option Z) : RM t :=
  decode_message length base decode_field.

Definition fromJSON (object : js) : result t :=
  proposedUpgrade' ← field_or object "proposedUpgrade" (to_list ProposedUpgrade.fromJSON) [];
  pagination' ← field_or object "pagination" (to_some PageResponse.fromJSON) None;
  Ok (mk proposedUpgrade' pagination').

Definition toJSON (message : t) : result js :=
  proposedUpgrade' ← result_map ProposedUpgrade.toJSON message.(proposedUpgrade);
  Ok (Obj ([("proposedUpgrade", Arr proposedUpgrade')] ++
   prop_opt "pagination" PageResponse.toJSON message.(pagination))).

Record partial := mkPartial {
  p_proposedUpgrade : option (list ProposedUpgrade.partial);
  p_pagination : option PageResponse.partial;
}.

Definition fromPartial (object : partial) : t := {|
  proposedUpgrade := map ProposedUpgrade.fromPartial (object.(p_proposedUpgrade) ?? []);
  pagination := PageResponse.fromPartial <$> object.(p_pagination);
|}.

(** The object with no property given. *)
Definition nothing : partial := mkPartial None None.

(** The bytes [encode] writes. *)
Definition wire {PB : Protobuf} {PS : ProtobufSpec PB} (m : t) : bytes :=
  f_repeated 10 ProposedUpgrade.wire m.(proposedUpgrade) ++
  f_message 18 PageResponse.wire m.(pagination).

Definition valid (m : t) : Prop :=
  Forall ProposedUpgrade.valid m.(proposedUpgrade) ∧ from_option PageResponse.valid True m.(pagination).

(** The byte fields hold arrays, as the interface declares. *)
Definition typed (m : t) : bool := forallb ProposedUpgrade.typed m.(proposedUpgrade) && from_option PageResponse.typed true m.(pagination).

(** The message without its empty byte arrays. *)
Definition normal (m : t) : t := {|
  proposedUpgrade := map ProposedUpgrade.normal m.(proposedUpgrade);
  pagination := PageResponse.normal <$> m.(pagination);
|}.

(** The dates are valid. *)
Definition timed (m : t) : bool := forallb ProposedUpgrade.timed m.(proposedUpgrade).

Definition encodable {PB : Protobuf} {PS : ProtobufSpec PB} (m : t) : Prop :=
  typed m = true ∧ valid m ∧ small (wire m).

Definition merge (m a : t) : t := {|
  proposedUpgrade := m.(proposedUpgrade) ++ map ProposedUpgrade.normal a.(proposedUpgrade);
  pagination := later_message m.(pagination) (PageResponse.normal <$> a.(pagination));
|}.

(** A whole message seen as a partial one. *)
Definition full (m : t) : partial := {|
  p_proposedUpgrade := Some (map ProposedUpgrade.full m.(proposedUpgrade));
  p_pagination := PageResponse.full <$> m.(pagination);
|}.

(** The message as its [.proto] file declares it. *)
Definition schema (m : t) : list field :=
  [repeated 1 (message_value ProposedUpgrade.schema) m.(proposedUpgrade);
   singular 2 Optional (message_value PageResponse.schema) m.(pagination)].

(** The message with its default for every property that is not kept. *)
Definition only (kept : string → bool) (m : t) : t := {|
  proposedUpgrade := if kept "proposedUpgrade" then m.(proposedUpgrade) else [];
  pagination := if kept "pagination" then m.(pagination) else None;
|}.

#[global] Instance codec {PB : Protobuf} : FallibleCodec t :=
  {| fmsg_base := base; fmsg_encode := encode; fmsg_field := decode_field |}.

#[global] Program Instance spec {PB : Protobuf} (PS : ProtobufSpec PB) : FallibleSpec PS t :=
  {| fmsg_wire := wire; fmsg_valid := valid; fmsg_typed := typed; fmsg_normal := normal;
     fmsg_merge := merge |}.
Next Obligation. solve_fencode_wire. Qed.
Next Obligation. intros. solve_fencode_throws encode typed. Qed.
Next Obligation. solve_fdecode_wire. Qed.
Next Obligation. solve_fmerge_base. Qed.
Next Obligation. intros. solve_fadvances decode_field. Qed.

#[global] Program Instance given_ : FalliblePartial t partial :=
  {| fmsg_fromPartial := fromPartial; fmsg_full := full; fmsg_given := typed |}.
Next Obligation. solve_fgiven fromPartial typed. Qed.
Next Obligation. solve_fpartial fromPartial full typed. Qed.

#[global] Program Instance json : DatedJson t :=
  {| dmsg_fromJSON := fromJSON; dmsg_toJSON := toJSON; dmsg_timed := timed;
     dmsg_named := fun _ => true; dmsg_known := fun m => m |}.
Next Obligation. solve_djson fromJSON toJSON timed. Qed.
Next Obligation. solve_dthrows toJSON timed. Qed.
Next Obligation. reflexivity. Qed.

#[global] Instance schema_wire {PB : Protobuf} {PS : ProtobufSpec PB} : WireSchema wire schema.
Proof. solve_schema_wire wire schema. Qed.

#[global] Instance schema_normal : NormalSchema normal schema.
Proof. solve_schema_normal normal schema. Qed.

#[global] Instance schema_merge : MergeSchema merge schema.
Proof. solve_schema_merge merge schema. Qed.

(** Its row in the table of message types. *)
Definition message {PB : Protobuf} {PS : ProtobufSpec PB} : message_type :=
  dated_message "QueryAllProposedUpgradeResponse" nothing true schema only.

#[global] Instance message_lawful {PB : Protobuf} (PS : ProtobufSpec PB) : Lawful message.
Proof. solve_lawful decode_field fromJSON only. Qed.

End QueryAllProposedUpgradeResponse.

(** ** [QueryGetApprovedUpgradeRequest] (dclupgrade/query.js) *)

Module QueryGetApprovedUpgradeRequest.

Record t := mk {
  name : string;
}.

#[global] Instance t_eta : Settable t := λ m, mk m.(name).

Definition base : t := mk "".

Definition encode {PB : Protobuf} (message : t) (writer : Writer) : Writer :=
  writer
  @> when (str_neq message.(name) "") (fun w => w @> uint32 10 @> string_ message.(name)).

Definition decode_field {PB : Protobuf} (tag : Z) (message : t) : RM t :=
  match field_number tag with
  | 1 => v ← read_string; mret (message <| name := v |>)
  | _ => _ ← skipType (wire_type tag); mret message
  end.

Definition decode {PB : Protobuf} (length : option Z) : RM t :=
  decode_message length base decode_field.

Definition fromJSON (object : js) : result t :=
  name' ← field_or object "name" to_string "";
  Ok (mk name').

Definition toJSON (message : t) : js :=
  Obj ([("name", Str message.(name))]).

Record partial := mkPartial {
  p_name : option string;
}.

Definition fromPartial (object : partial) : t := {|
  name := object.(p_name) ?? "";
|}.

(** The object with no property given. *)
Definition nothing : partial := mkPartial None.

(** The bytes [encode] writes. *)
Definition wire {PB : Protobuf} {PS : ProtobufSpec PB} (m : t) : bytes :=
  f_string 10 m.(name).

Definition valid (m : t) : Prop :=
  True.

Definition encodable {PB : Protobuf} {PS : ProtobufSpec PB} (m : t) : Prop :=
  valid m ∧ small (wire m).

Definition merge (m a : t) : t := {|
  name := later_string m.(name) a.(name);
|}.

(** A whole message seen as a partial one. *)
Definition full (m : t) : partial := {|
  p_name := Some m.(name);
|}.

(** The message as its [.proto] file declares it. *)
Definition schema (m : t) : list field :=
  [implicit 1 (VString m.(name))].

(** The message with its default for every property that is not kept. *)
Definition only (kept : string → bool) (m : t) : t := {|
  name := if kept "name" then m.(name) else "";
|}.

#[global] Instance codec {PB : Protobuf} : MessageCodec t :=
  {| msg_base := base; msg_encode := encode; msg_field := decode_field |}.

#[global] Program Instance spec {PB : Protobuf} (PS : ProtobufSpec PB) : MessageSpec PS t :=
  {| msg_wire := wire; msg_valid := valid; msg_merge := merge |}.
Next Obligation. solve_encode_wire. Qed.
Next Obligation. solve_decode_wire. Qed.
Next Obligation. solve_merge_base. Qed.
Next Obligation. intros. solve_advances decode_field. Qed.

#[global] Program Instance data : MessageData t partial :=
  {| msg_fromJSON := fromJSON; msg_toJSON := toJSON;
     msg_fromPartial := fromPartial; msg_full := full |}.
Next Obligation. solve_json fromJSON toJSON. Qed.
Next Obligation. solve_partial fromPartial full. Qed.

#[global] Instance schema_wire {PB : Protobuf} {PS : ProtobufSpec PB} : WireSchema wire schema.
Proof. solve_schema_wire wire schema. Qed.

#[global] Instance schema_merge : MergeSchema merge schema.
Proof. solve_schema_merge merge schema. Qed.

(** Its row in the table of message types. *)
Definition message {PB : Protobuf} {PS : ProtobufSpec PB} : message_type :=
  plain_message "QueryGetApprovedUpgradeRequest" nothing true schema only.

#[global] Instance message_lawful {PB : Protobuf} (PS : ProtobufSpec PB) : Lawful message.
Proof. solve_lawful decode_field fromJSON only. Qed.

End QueryGetApprovedUpgradeRequest.

(** ** [QueryGetApprovedUpgradeResponse] (dclupgrade/query.js) *)

Module QueryGetApprovedUpgradeResponse.

Record t := mk {
  approvedUpgrade : option ApprovedUpgrade.t;
}.

#[global] Instance t_eta : Settable t := λ m, mk m.(approvedUpgrade).

Definition base : t := mk None.

Definition encode {PB : Protobuf} (message : t) (writer : Writer) : result Writer :=
  Ok writer
  @>= defined_e message.(approvedUpgrade) (submessage 10 ApprovedUpgrade.encode).

Definition decode_field {PB : Protobuf} (tag : Z) (message : t) : RM t :=
  match field_number tag with
  | 1 => v ← read_nested ApprovedUpgrade.decode; mret (message <| approvedUpgrade := Some v |>)
  | _ => _ ← skipType (wire_type tag); mret message
  end.

Definition decode {PB : Protobuf} (length : option Z) : RM t :=
  decode_message length base decode_field.

Definition fromJSON (object : js) : result t :=
  approvedUpgrade' ← field_or object "approvedUpgrade" (to_some ApprovedUpgrade.fromJSON) None;
  Ok (mk approvedUpgrade').

Definition toJSON (message : t) : result js :=
  approvedUpgrade' ← option_result ApprovedUpgrade.toJSON message.(approvedUpgrade);
  Ok (Obj (prop_opt "approvedUpgrade" id approvedUpgrade')).

Record partial := mkPartial {
  p_approvedUpgrade : option ApprovedUpgrade.partial;
}.

Definition fromPartial (object : partial) : t := {|
  approvedUpgrade := ApprovedUpgrade.fromPartial <$> object.(p_approvedUpgrade);
|}.

(** The object with no property given. *)
Definition nothing : partial := mkPartial None.

(** The bytes [encode] writes. *)
Definition wire {PB : Protobuf} {PS : ProtobufSpec PB} (m : t) : bytes :=
  f_message 10 ApprovedUpgrade.wire m.(approvedUpgrade).

Definition valid (m : t) : Prop :=
  from_option ApprovedUpgrade.valid True m.(approvedUpgrade).

(** The byte fields hold arrays, as the interface declares. *)
Definition typed (m : t) : bool := from_option ApprovedUpgrade.typed true m.(approvedUpgrade).

(** The message without its empty byte arrays. *)
Definition normal (m : t) : t := {|
  approvedUpgrade := ApprovedUpgrade.normal <$> m.(approvedUpgrade);
|}.

(** The dates are valid. *)
Definition timed (m : t) : bool := from_option ApprovedUpgrade.timed true m.(approvedUpgrade).

Definition encodable {PB : Protobuf} {PS : ProtobufSpec PB} (m : t) : Prop :=
  typed m = true ∧ valid m ∧ small (wire m).

Definition merge (m a : t) : t := {|
  approvedUpgrade := later_message m.(approvedUpgrade) (ApprovedUpgrade.normal <$> a.(approvedUpgrade));
|}.

(** A whole message seen as a partial one. *)
Definition full (m : t) : partial := {|
  p_approvedUpgrade := ApprovedUpgrade.full <$> m.(approvedUpgrade);
|}.

(** The message as its [.proto] file declares it. *)
Definition schema (m : t) : list field :=
  [singular 1 Optional (message_value ApprovedUpgrade.schema) m.(approvedUpgrade)].

(** The message with its default for every property that is not kept. *)
Definition only (kept : string → bool) (m : t) : t := {|
  approvedUpgrade := if kept "approvedUpgrade" then m.(approvedUpgrade) else None;
|}.

#[global] Instance codec {PB : Protobuf} : FallibleCodec t :=
  {| fmsg_base := base; fmsg_encode := encode; fmsg_field := decode_field |}.

#[global] Program Instance spec {PB : Protobuf} (PS : ProtobufSpec PB) : FallibleSpec PS t :=
  {| fmsg_wire := wire; fmsg_valid := valid; fmsg_typed := typed; fmsg_normal := normal;
     fmsg_merge := merge |}.
Next Obligation. solve_fencode_wire. Qed.
Next Obligation. intros. solve_fencode_throws encode typed. Qed.
Next Obligation. solve_fdecode_wire. Qed.
Next Obligation. solve_fmerge_base. Qed.
Next Obligation. intros. solve_fadvances decode_field. Qed.

#[global] Program Instance given_ : FalliblePartial t partial :=
  {| fmsg_fromPartial := fromPartial; fmsg_full := full; fmsg_given := typed |}.
Next Obligation. solve_fgiven fromPartial typed. Qed.
Next Obligation. solve_fpartial fromPartial full typed. Qed.

#[global] Program Instance json : DatedJson t :=
  {| dmsg_fromJSON := fromJSON; dmsg_toJSON := toJSON; dmsg_timed := timed;
     dmsg_named := fun _ => true; dmsg_known := fun m => m |}.
Next Obligation. solve_djson fromJSON toJSON timed. Qed.
Next Obligation. solve_dthrows toJSON timed. Qed.
Next Obligation. reflexivity. Qed.

#[global] Instance schema_wire {PB : Protobuf} {PS : ProtobufSpec PB} : WireSchema wire schema.
Proof. solve_schema_wire wire schema. Qed.

#[global] Instance schema_normal : NormalSchema normal schema.
Proof. solve_schema_normal normal schema. Qed.

#[global] Instance schema_merge : MergeSchema merge schema.
Proof. solve_schema_merge merge schema. Qed.

(** Its row in the table of message types. *)
Definition message {PB : Protobuf} {PS : ProtobufSpec PB} : message_type :=
  dated_message "QueryGetApprovedUpgradeResponse" nothing true schema only.

#[global] Instance message_lawful {PB : Protobuf} (PS : ProtobufSpec PB) : Lawful message.
Proof. solve_lawful decode_field fromJSON only. Qed.

End QueryGetApprovedUpgradeResponse.

(** ** [QueryAllApprovedUpgradeRequest] (dclupgrade/query.js) *)

Module QueryAllApprovedUpgradeRequest.

Record t := mk {
  pagination : option PageRequest.t;
}.

#[global] Instance t_eta : Settable t := λ m, mk m.(pagination).

Definition base : t := mk None.

Definition encode {PB : Protobuf} (message : t) (writer : Writer) : result Writer :=
  Ok writer
  @>= defined_e message.(pagination) (submessage 10 PageRequest.encode).

Definition decode_field {PB : Protobuf} (tag : Z) (message : t) : RM t :=
  match field_number tag with
  | 1 => v ← read_nested PageRequest.decode; mret (message <| pagination := Some v |>)
  | _ => _ ← skipType (wire_type tag); mret message
  end.

Definition decode {PB : Protobuf} (length : option Z) : RM t :=
  decode_message length base decode_field.

Definition fromJSON (object : js) : result t :=
  pagination' ← field_or object "pagination" (to_some PageRequest.fromJSON) None;
  Ok (mk pagination').

Definition toJSON (message : t) : js :=
  Obj (prop_opt "pagination" PageRequest.toJSON message.(pagination)).

Record partial := mkPartial {
  p_pagination : option PageRequest.partial;
}.

Definition fromPartial (object : partial) : t := {|
  pagination := PageRequest.fromPartial <$> object.(p_pagination);
|}.

(** The object with no property given. *)
Definition nothing : partial := mkPartial None.

(** The bytes [encode] writes. *)
Definition wire {PB : Protobuf} {PS : ProtobufSpec PB} (m : t) : bytes :=
  f_message 10 PageRequest.wire m.(pagination).

Definition valid (m : t) : Prop :=
  from_option PageRequest.valid True m.(pagination).

(** The byte fields hold arrays, as the interface declares. *)
Definition typed (m : t) : bool := from_option PageRequest.typed true m.(pagination).

(** The message without its empty byte arrays. *)
Definition normal (m : t) : t := {|
  pagination := PageRequest.normal <$> m.(pagination);
|}.

Definition encodable {PB : Protobuf} {PS : ProtobufSpec PB} (m : t) : Prop :=
  typed m = true ∧ valid m ∧ small (wire m).

Definition merge (m a : t) : t := {|
  pagination := later_message m.(pagination) (PageRequest.normal <$> a.(pagination));
|}.

(** A whole message seen as a partial one. *)
Definition full (m : t) : partial := {|
  p_pagination := PageRequest.full <$> m.(pagination);
|}.

(** The message as its [.proto] file declares it. *)
Definition schema (m : t) : list field :=
  [singular 1 Optional (message_value PageRequest.schema) m.(pagination)].

(** The message with its default for every property that is not kept. *)
Definition only (kept : string → bool) (m : t) : t := {|
  pagination := if kept "pagination" then m.(pagination) else None;
|}.

#[global] Instance codec {PB : Protobuf} : FallibleCodec t :=
  {| fmsg_base := base; fmsg_encode := encode; fmsg_field := decode_field |}.

#[global] Program Instance spec {PB : Protobuf} (PS : ProtobufSpec PB) : FallibleSpec PS t :=
  {| fmsg_wire := wire; fmsg_valid := valid; fmsg_typed := typed; fmsg_normal := normal;
     fmsg_merge := merge |}.
Next Obligation. solve_fencode_wire. Qed.
Next Obligation. intros. solve_fencode_throws encode typed. Qed.
Next Obligation. solve_fdecode_wire. Qed.
Next Obligation. solve_fmerge_base. Qed.
Next Obligation. intros. solve_fadvances decode_field. Qed.

#[global] Program Instance given_ : FalliblePartial t partial :=
  {| fmsg_fromPartial := fromPartial; fmsg_full := full; fmsg_given := typed |}.
Next Obligation. solve_fgiven fromPartial typed. Qed.
Next Obligation. solve_fpartial fromPartial full typed. Qed.

#[global] Program Instance json : FallibleJson t :=
  {| fmsg_fromJSON := fromJSON; fmsg_toJSON := toJSON;
     fmsg_named := fun _ => true; fmsg_known := fun m => m |}.
Next Obligation. solve_fjson fromJSON toJSON. Qed.
Next Obligation. reflexivity. Qed.

#[global] Instance schema_wire {PB : Protobuf} {PS : ProtobufSpec PB} : WireSchema wire schema.
Proof. solve_schema_wire wire schema. Qed.

#[global] Instance schema_normal : NormalSchema normal schema.
Proof. solve_schema_normal normal schema. Qed.

#[global] Instance schema_merge : MergeSchema merge schema.
Proof. solve_schema_merge merge schema. Qed.

(** Its row in the table of message types. *)
Definition message {PB : Protobuf} {PS : ProtobufSpec PB} : message_type :=
  fallible_message "QueryAllApprovedUpgradeRequest" nothing true schema only.

#[global] Instance message_lawful {PB : Protobuf} (PS : ProtobufSpec PB) : Lawful message.
Proof. solve_lawful decode_field fromJSON only. Qed.

End QueryAllApprovedUpgradeRequest.

(** ** [QueryAllApprovedUpgradeResponse] (dclupgrade/query.js) *)

Module QueryAllApprovedUpgradeResponse.

Record t := mk {
  approvedUpgrade : list ApprovedUpgrade.t;
  pagination : option PageResponse.t;
}.

#[global] Instance t_eta : Settable t := λ m, mk m.(approvedUpgrade) m.(pagination).

Definition base : t := mk [] None.

Definition encode {PB : Protobuf} (message : t) (writer : Writer) : result Writer :=
  Ok writer
  @>= each_e message.(approvedUpgrade) (submessage 10 ApprovedUpgrade.encode)
  @>= defined_e message.(pagination) (submessage 18 PageResponse.encode).

Definition decode_field {PB : Protobuf} (tag : Z) (message : t) : RM t :=
  match field_number tag with
  | 1 => v ← read_nested ApprovedUpgrade.decode;
         mret (message <| approvedUpgrade := message.(approvedUpgrade) ++ [v] |>)
  | 2 => v ← read_nested PageResponse.decode; mret (message <| pagination := Some v |>)
  | _ => _ ← skipType (wire_type tag); mret message
  end.

Definition decode {PB : Protobuf} (length : option Z) : RM t :=
  decode_message length base decode_field.

Definition fromJSON (object : js) : result t :=
  approvedUpgrade' ← field_or object "approvedUpgrade" (to_list ApprovedUpgrade.fromJSON) [];
  pagination' ← field_or object "pagination" (to_some PageResponse.fromJSON) None;
  Ok (mk approvedUpgrade' pagination').

Definition toJSON (message : t) : result js :=
  approvedUpgrade' ← result_map ApprovedUpgrade.toJSON message.(approvedUpgrade);
  Ok (Obj ([("approvedUpgrade", Arr approvedUpgrade')] ++
   prop_opt "pagination" PageResponse.toJSON message.(pagination))).

Record partial := mkPartial {
  p_approvedUpgrade : option (list ApprovedUpgrade.partial);
  p_pagination : option PageResponse.partial;
}.

Definition fromPartial (object : partial) : t := {|
  approvedUpgrade := map ApprovedUpgrade.fromPartial (object.(p_approvedUpgrade) ?? []);
  pagination := PageResponse.fromPartial <$> object.(p_pagination);
|}.

(** The object with no property given. *)
Definition nothing : partial := mkPartial None None.

(** The bytes [encode] writes. *)
Definition wire {PB : Protobuf} {PS : ProtobufSpec PB} (m : t) : bytes :=
  f_repeated 10 ApprovedUpgrade.wire m.(approvedUpgrade) ++
  f_message 18 PageResponse.wire m.(pagination).

Definition valid (m : t) : Prop :=
  Forall ApprovedUpgrade.valid m.(approvedUpgrade) ∧ from_option PageResponse.valid True m.(pagination).

(** The byte fields hold arrays, as the interface declares. *)
Definition typed (m : t) : bool := forallb ApprovedUpgrade.typed m.(approvedUpgrade) && from_option PageResponse.typed true m.(pagination).

(** The message without its empty byte arrays. *)
Definition normal (m : t) : t := {|
  approvedUpgrade := map ApprovedUpgrade.normal m.(approvedUpgrade);
  pagination := PageResponse.normal <$> m.(pagination);
|}.

(** The dates are valid. *)
Definition timed (m : t) : bool := forallb ApprovedUpgrade.timed m.(approvedUpgrade).

Definition encodable {PB : Protobuf} {PS : ProtobufSpec PB} (m : t) : Prop :=
  typed m = true ∧ valid m ∧ small (wire m).

Definition merge (m a : t) : t := {|
  approvedUpgrade := m.(approvedUpgrade) ++ map ApprovedUpgrade.normal a.(approvedUpgrade);
  pagination := later_message m.(pagination) (PageResponse.normal <$> a.(pagination));
|}.

(** A whole message seen as a partial one. *)
Definition full (m : t) : partial := {|
  p_approvedUpgrade := Some (map ApprovedUpgrade.full m.(approvedUpgrade));
  p_pagination := PageResponse.full <$> m.(pagination);
|}.

(** The message as its [.proto] file declares it. *)
Definition schema (m : t) : list field :=
  [repeated 1 (message_value ApprovedUpgrade.schema) m.(approvedUpgrade);
   singular 2 Optional (message_value PageResponse.schema) m.(pagination)].

(** The message with its default for every property that is not kept. *)
Definition only (kept : string → bool) (m : t) : t := {|
  approvedUpgrade := if kept "approvedUpgrade" then m.(approvedUpgrade) else [];
  pagination := if kept "pagination" then m.(pagination) else None;
|}.

#[global] Instance codec {PB : Protobuf} : FallibleCodec t :=
  {| fmsg_base := base; fmsg_encode := encode; fmsg_field := decode_field |}.

#[global] Program Instance spec {PB : Protobuf} (PS : ProtobufSpec PB) : FallibleSpec PS t :=
  {| fmsg_wire := wire; fmsg_valid := valid; fmsg_typed := typed; fmsg_normal := normal;
     fmsg_merge := merge |}.
Next Obligation. solve_fencode_wire. Qed.
Next Obligation. intros. solve_fencode_throws encode typed. Qed.
Next Obligation. solve_fdecode_wire. Qed.
Next Obligation. solve_fmerge_base. Qed.
Next Obligation. intros. solve_fadvances decode_field. Qed.

#[global] Program Instance given_ : FalliblePartial t partial :=
  {| fmsg_fromPartial := fromPartial; fmsg_full := full; fmsg_given := typed |}.
Next Obligation. solve_fgiven fromPartial typed. Qed.
Next Obligation. solve_fpartial fromPartial full typed. Qed.

#[global] Program Instance json : DatedJson t :=
  {| dmsg_fromJSON := fromJSON; dmsg_toJSON := toJSON; dmsg_timed := timed;
     dmsg_named := fun _ => true; dmsg_known := fun m => m |}.
Next Obligation. solve_djson fromJSON toJSON timed. Qed.
Next Obligation. solve_dthrows toJSON timed. Qed.
Next Obligation. reflexivity. Qed.

#[global] Instance schema_wire {PB : Protobuf} {PS : ProtobufSpec PB} : WireSchema wire schema.
Proof. solve_schema_wire wire schema. Qed.

#[global] Instance schema_normal : NormalSchema normal schema.
Proof. solve_schema_normal normal schema. Qed.

#[global] Instance schema_merge : MergeSchema merge schema.
Proof. solve_schema_merge merge schema. Qed.

(** Its row in the table of message types. *)
Definition message {PB : Protobuf} {PS : ProtobufSpec PB} : message_type :=
  dated_message "QueryAllApprovedUpgradeResponse" nothing true schema only.

#[global] Instance message_lawful {PB : Protobuf} (PS : ProtobufSpec PB) : Lawful message.
Proof. solve_lawful decode_field fromJSON only. Qed.

End QueryAllApprovedUpgradeResponse.

(** ** [QueryGetRejectedUpgradeRequest] (dclupgrade/query.js) *)

Module QueryGetRejectedUpgradeRequest.

Record t := mk {
  name : string;
}.

#[global] Instance t_eta : Settable t := λ m, mk m.(name).

Definition base : t := mk "".

Definition encode {PB : Protobuf} (message : t) (writer : Writer) : Writer :=
  writer
  @> when (str_neq message.(name) "") (fun w => w @> uint32 10 @> string_ message.(name)).

Definition decode_field {PB : Protobuf} (tag : Z) (message : t) : RM t :=
  match field_number tag with
  | 1 => v ← read_string; mret (message <| name := v |>)
  | _ => _ ← skipType (wire_type tag); mret message
  end.

Definition decode {PB : Protobuf} (length : option Z) : RM t :=
  decode_message length base decode_field.

Definition fromJSON (object : js) : result t :=
  name' ← field_or object "name" to_string "";
  Ok (mk name').

Definition toJSON (message : t) : js :=
  Obj ([("name", Str message.(name))]).

Record partial := mkPartial {
  p_name : option string;
}.

Definition fromPartial (object : partial) : t := {|
  name := object.(p_name) ?? "";
|}.

(** The object with no property given. *)
Definition nothing : partial := mkPartial None.

(** The bytes [encode] writes. *)
Definition wire {PB : Protobuf} {PS : ProtobufSpec PB} (m : t) : bytes :=
  f_string 10 m.(name).

Definition valid (m : t) : Prop :=
  True.

Definition encodable {PB : Protobuf} {PS : ProtobufSpec PB} (m : t) : Prop :=
  valid m ∧ small (wire m).

Definition merge (m a : t) : t := {|
  name := later_string m.(name) a.(name);
|}.

(** A whole message seen as a partial one. *)
Definition full (m : t) : partial := {|
  p_name := Some m.(name);
|}.

(** The message as its [.proto] file declares it. *)
Definition schema (m : t) : list field :=
  [implicit 1 (VString m.(name))].

(** The message with its default for every property that is not kept. *)
Definition only (kept : string → bool) (m : t) : t := {|
  name := if kept "name" then m.(name) else "";
|}.

#[global] Instance codec {PB : Protobuf} : MessageCodec t :=
  {| msg_base := base; msg_encode := encode; msg_field := decode_field |}.

#[global] Program Instance spec {PB : Protobuf} (PS : ProtobufSpec PB) : MessageSpec PS t :=
  {| msg_wire := wire; msg_valid := valid; msg_merge := merge |}.
Next Obligation. solve_encode_wire. Qed.
Next Obligation. solve_decode_wire. Qed.
Next Obligation. solve_merge_base. Qed.
Next Obligation. intros. solve_advances decode_field. Qed.

#[global] Program Instance data : MessageData t partial :=
  {| msg_fromJSON := fromJSON; msg_toJSON := toJSON;
     msg_fromPartial := fromPartial; msg_full := full |}.
Next Obligation. solve_json fromJSON toJSON. Qed.
Next Obligation. solve_partial fromPartial full. Qed.

#[global] Instance schema_wire {PB : Protobuf} {PS : ProtobufSpec PB} : WireSchema wire schema.
Proof. solve_schema_wire wire schema. Qed.

#[global] Instance schema_merge : MergeSchema merge schema.
Proof. solve_schema_merge merge schema. Qed.

(** Its row in the table of message types. *)
Definition message {PB : Protobuf} {PS : ProtobufSpec PB} : message_type :=
  plain_message "QueryGetRejectedUpgradeRequest" nothing true schema only.

#[global] Instance message_lawful {PB : Protobuf} (PS : ProtobufSpec PB) : Lawful message.
Proof. solve_lawful decode_field fromJSON only. Qed.

End QueryGetRejectedUpgradeRequest.

(** ** [QueryGetRejectedUpgradeResponse] (dclupgrade/query.js) *)

Module QueryGetRejectedUpgradeResponse.

Record t := mk {
  rejectedUpgrade : option RejectedUpgrade.t;
}.

#[global] Instance t_eta : Settable t := λ m, mk m.(rejectedUpgrade).

Definition base : t := mk None.

Definition encode {PB : Protobuf} (message : t) (writer : Writer) : result Writer :=
  Ok writer
  @>= defined_e message.(rejectedUpgrade) (submessage 10 RejectedUpgrade.encode).

Definition decode_field {PB : Protobuf} (tag : Z) (message : t) : RM t :=
  match field_number tag with
  | 1 => v ← read_nested RejectedUpgrade.decode; mret (message <| rejectedUpgrade := Some v |>)
  | _ => _ ← skipType (wire_type tag); mret message
  end.

Definition decode {PB : Protobuf} (length : option Z) : RM t :=
  decode_message length base decode_field.

Definition fromJSON (object : js) : result t :=
  rejectedUpgrade' ← field_or object "rejectedUpgrade" (to_some RejectedUpgrade.fromJSON) None;
  Ok (mk rejectedUpgrade').

Definition toJSON (message : t) : result js :=
  rejectedUpgrade' ← option_result RejectedUpgrade.toJSON message.(rejectedUpgrade);
  Ok (Obj (prop_opt "rejectedUpgrade" id rejectedUpgrade')).

Record partial := mkPartial {
  p_rejectedUpgrade : option RejectedUpgrade.partial;
}.

Definition fromPartial (object : partial) : t := {|
  rejectedUpgrade := RejectedUpgrade.fromPartial <$> object.(p_rejectedUpgrade);
|}.

(** The object with no property given. *)
Definition nothing : partial := mkPartial None.

(** The bytes [encode] writes. *)
Definition wire {PB : Protobuf} {PS : ProtobufSpec PB} (m : t) : bytes :=
  f_message 10 RejectedUpgrade.wire m.(rejectedUpgrade).

Definition valid (m : t) : Prop :=
  from_option RejectedUpgrade.valid True m.(rejectedUpgrade).

(** The byte fields hold arrays, as the interface declares. *)
Definition typed (m : t) : bool := from_option RejectedUpgrade.typed true m.(rejectedUpgrade).

(** The message without its empty byte arrays. *)
Definition normal (m : t) : t := {|
  rejectedUpgrade := RejectedUpgrade.normal <$> m.(rejectedUpgrade);
|}.

(** The dates are valid. *)
Definition timed (m : t) : bool := from_option RejectedUpgrade.timed true m.(rejectedUpgrade).

Definition encodable {PB : Protobuf} {PS : ProtobufSpec PB} (m : t) : Prop :=
  typed m = true ∧ valid m ∧ small (wire m).

Definition merge (m a : t) : t := {|
  rejectedUpgrade := later_message m.(rejectedUpgrade) (RejectedUpgrade.normal <$> a.(rejectedUpgrade));
|}.

(** A whole message seen as a partial one. *)
Definition full (m : t) : partial := {|
  p_rejectedUpgrade := RejectedUpgrade.full <$> m.(rejectedUpgrade);
|}.

(** The message as its [.proto] file declares it. *)
Definition schema (m : t) : list field :=
  [singular 1 Optional (message_value RejectedUpgrade.schema) m.(rejectedUpgrade)].

(** The message with its default for every property that is not kept. *)
Definition only (kept : string → bool) (m : t) : t := {|
  rejectedUpgrade := if kept "rejectedUpgrade" then m.(rejectedUpgrade) else None;
|}.

#[global] Instance codec {PB : Protobuf} : FallibleCodec t :=
  {| fmsg_base := base; fmsg_encode := encode; fmsg_field := decode_field |}.

#[global] Program Instance spec {PB : Protobuf} (PS : ProtobufSpec PB) : FallibleSpec PS t :=
  {| fmsg_wire := wire; fmsg_valid := valid; fmsg_typed := typed; fmsg_normal := normal;
     fmsg_merge := merge |}.
Next Obligation. solve_fencode_wire. Qed.
Next Obligation. intros. solve_fencode_throws encode typed. Qed.
Next Obligation. solve_fdecode_wire. Qed.
Next Obligation. solve_fmerge_base. Qed.
Next Obligation. intros. solve_fadvances decode_field. Qed.

#[global] Program Instance given_ : FalliblePartial t partial :=
  {| fmsg_fromPartial := fromPartial; fmsg_full := full; fmsg_given := typed |}.
Next Obligation. solve_fgiven fromPartial typed. Qed.
Next Obligation. solve_fpartial fromPartial full typed. Qed.

#[global] Program Instance json : DatedJson t :=
  {| dmsg_fromJSON := fromJSON; dmsg_toJSON := toJSON; dmsg_timed := timed;
     dmsg_named := fun _ => true; dmsg_known := fun m => m |}.
Next Obligation. solve_djson fromJSON toJSON timed. Qed.
Next Obligation. solve_dthrows toJSON timed. Qed.
Next Obligation. reflexivity. Qed.

#[global] Instance schema_wire {PB : Protobuf} {PS : ProtobufSpec PB} : WireSchema wire schema.
Proof. solve_schema_wire wire schema. Qed.

#[global] Instance schema_normal : NormalSchema normal schema.
Proof. solve_schema_normal normal schema. Qed.

#[global] Instance schema_merge : MergeSchema merge schema.
Proof. solve_schema_merge merge schema. Qed.

(** Its row in the table of message types. *)
Definition message {PB : Protobuf} {PS : ProtobufSpec PB} : message_type :=
  dated_message "QueryGetRejectedUpgradeResponse" nothing true schema only.

#[global] Instance message_lawful {PB : Protobuf} (PS : ProtobufSpec PB) : Lawful message.
Proof. solve_lawful decode_field fromJSON only. Qed.

End QueryGetRejectedUpgradeResponse.

(** ** [QueryAllRejectedUpgradeRequest] (dclupgrade/query.js) *)

Module QueryAllRejectedUpgradeRequest.

Record t := mk {
  pagination : option PageRequest.t;
}.

#[global] Instance t_eta : Settable t := λ m, mk m.(pagination).

Definition base : t := mk None.

Definition encode {PB : Protobuf} (message : t) (writer : Writer) : result Writer :=
  Ok writer
  @>= defined_e message.(pagination) (submessage 10 PageRequest.encode).

Definition decode_field {PB : Protobuf} (tag : Z) (message : t) : RM t :=
  match field_number tag with
  | 1 => v ← read_nested PageRequest.decode; mret (message <| pagination := Some v |>)
  | _ => _ ← skipType (wire_type tag); mret message
  end.

Definition decode {PB : Protobuf} (length : option Z) : RM t :=
  decode_message length base decode_field.

Definition fromJSON (object : js) : result t :=
  pagination' ← field_or object "pagination" (to_some PageRequest.fromJSON) None;
  Ok (mk pagination').

Definition toJSON (message : t) : js :=
  Obj (prop_opt "pagination" PageRequest.toJSON message.(pagination)).

Record partial := mkPartial {
  p_pagination : option PageRequest.partial;
}.

Definition fromPartial (object : partial) : t := {|
  pagination := PageRequest.fromPartial <$> object.(p_pagination);
|}.

(** The object with no property given. *)
Definition nothing : partial := mkPartial None.

(** The bytes [encode] writes. *)
Definition wire {PB : Protobuf} {PS : ProtobufSpec PB} (m : t) : bytes :=
  f_message 10 PageRequest.wire m.(pagination).

Definition valid (m : t) : Prop :=
  from_option PageRequest.valid True m.(pagination).

(** The byte fields hold arrays, as the interface declares. *)
Definition typed (m : t) : bool := from_option PageRequest.typed true m.(pagination).

(** The message without its empty byte arrays. *)
Definition normal (m : t) : t := {|
  pagination := PageRequest.normal <$> m.(pagination);
|}.

Definition encodable {PB : Protobuf} {PS : ProtobufSpec PB} (m : t) : Prop :=
  typed m = true ∧ valid m ∧ small (wire m).

Definition merge (m a : t) : t := {|
  pagination := later_message m.(pagination) (PageRequest.normal <$> a.(pagination));
|}.

(** A whole message seen as a partial one. *)
Definition full (m : t) : partial := {|
  p_pagination := PageRequest.full <$> m.(pagination);
|}.

(** The message as its [.proto] file declares it. *)
Definition schema (m : t) : list field :=
  [singular 1 Optional (message_value PageRequest.schema) m.(pagination)].

(** The message with its default for every property that is not kept. *)
Definition only (kept : string → bool) (m : t) : t := {|
  pagination := if kept "pagination" then m.(pagination) else None;
|}.

#[global] Instance codec {PB : Protobuf} : FallibleCodec t :=
  {| fmsg_base := base; fmsg_encode := encode; fmsg_field := decode_field |}.

#[global] Program Instance spec {PB : Protobuf} (PS : ProtobufSpec PB) : FallibleSpec PS t :=
  {| fmsg_wire := wire; fmsg_valid := valid; fmsg_typed := typed; fmsg_normal := normal;
     fmsg_merge := merge |}.
Next Obligation. solve_fencode_wire. Qed.
Next Obligation. intros. solve_fencode_throws encode typed. Qed.
Next Obligation. solve_fdecode_wire. Qed.
Next Obligation. solve_fmerge_base. Qed.
Next Obligation. intros. solve_fadvances decode_field. Qed.

#[global] Program Instance given_ : FalliblePartial t partial :=
  {| fmsg_fromPartial := fromPartial; fmsg_full := full; fmsg_given := typed |}.
Next Obligation. solve_fgiven fromPartial typed. Qed.
Next Obligation. solve_fpartial fromPartial full typed. Qed.

#[global] Program Instance json : FallibleJson t :=
  {| fmsg_fromJSON := fromJSON; fmsg_toJSON := toJSON;
     fmsg_named := fun _ => true; fmsg_known := fun m => m |}.
Next Obligation. solve_fjson fromJSON toJSON. Qed.
Next Obligation. reflexivity. Qed.

#[global] Instance schema_wire {PB : Protobuf} {PS : ProtobufSpec PB} : WireSchema wire schema.
Proof. solve_schema_wire wire schema. Qed.

#[global] Instance schema_normal : NormalSchema normal schema.
Proof. solve_schema_normal normal schema. Qed.

#[global] Instance schema_merge : MergeSchema merge schema.
Proof. solve_schema_merge merge schema. Qed.

(** Its row in the table of message types. *)
Definition message {PB : Protobuf} {PS : ProtobufSpec PB} : message_type :=
  fallible_message "QueryAllRejectedUpgradeRequest" nothing true schema only.

#[global] Instance message_lawful {PB : Protobuf} (PS : ProtobufSpec PB) : Lawful message.
Proof. solve_lawful decode_field fromJSON only. Qed.

End QueryAllRejectedUpgradeRequest.

(** ** [QueryAllRejectedUpgradeResponse] (dclupgrade/query.js) *)

Module QueryAllRejectedUpgradeResponse.

Record t := mk {
  rejectedUpgrade : list RejectedUpgrade.t;
  pagination : option PageResponse.t;
}.

#[global] Instance t_eta : Settable t := λ m, mk m.(rejectedUpgrade) m.(pagination).

Definition base : t := mk [] None.

Definition encode {PB : Protobuf} (message : t) (writer : Writer) : result Writer :=
  Ok writer
  @>= each_e message.(rejectedUpgrade) (submessage 10 RejectedUpgrade.encode)
  @>= defined_e message.(pagination) (submessage 18 PageResponse.encode).

Definition decode_field {PB : Protobuf} (tag : Z) (message : t) : RM t :=
  match field_number tag with
  | 1 => v ← read_nested RejectedUpgrade.decode;
         mret (message <| rejectedUpgrade := message.(rejectedUpgrade) ++ [v] |>)
  | 2 => v ← read_nested PageResponse.decode; mret (message <| pagination := Some v |>)
  | _ => _ ← skipType (wire_type tag); mret message
  end.

Definition decode {PB : Protobuf} (length : option Z) : RM t :=
  decode_message length base decode_field.

Definition fromJSON (object : js) : result t :=
  rejectedUpgrade' ← field_or object "rejectedUpgrade" (to_list RejectedUpgrade.fromJSON) [];
  pagination' ← field_or object "pagination" (to_some PageResponse.fromJSON) None;
  Ok (mk rejectedUpgrade' pagination').

Definition toJSON (message : t) : result js :=
  rejectedUpgrade' ← result_map RejectedUpgrade.toJSON message.(rejectedUpgrade);
  Ok (Obj ([("rejectedUpgrade", Arr rejectedUpgrade')] ++
   prop_opt "pagination" PageResponse.toJSON message.(pagination))).

Record partial := mkPartial {
  p_rejectedUpgrade : option (list RejectedUpgrade.partial);
  p_pagination : option PageResponse.partial;
}.

Definition fromPartial (object : partial) : t := {|
  rejectedUpgrade := map RejectedUpgrade.fromPartial (object.(p_rejectedUpgrade) ?? []);
  pagination := PageResponse.fromPartial <$> object.(p_pagination);
|}.

(** The object with no property given. *)
Definition nothing : partial := mkPartial None None.

(** The bytes [encode] writes. *)
Definition wire {PB : Protobuf} {PS : ProtobufSpec PB} (m : t) : bytes :=
  f_repeated 10 RejectedUpgrade.wire m.(rejectedUpgrade) ++
  f_message 18 PageResponse.wire m.(pagination).

Definition valid (m : t) : Prop :=
  Forall RejectedUpgrade.valid m.(rejectedUpgrade) ∧ from_option PageResponse.valid True m.(pagination).

(** The byte fields hold arrays, as the interface declares. *)
Definition typed (m : t) : bool := forallb RejectedUpgrade.typed m.(rejectedUpgrade) && from_option PageResponse.typed true m.(pagination).

(** The message without its empty byte arrays. *)
Definition normal (m : t) : t := {|
  rejectedUpgrade := map RejectedUpgrade.normal m.(rejectedUpgrade);
  pagination := PageResponse.normal <$> m.(pagination);
|}.

(** The dates are valid. *)
Definition timed (m : t) : bool := forallb RejectedUpgrade.timed m.(rejectedUpgrade).

Definition encodable {PB : Protobuf} {PS : ProtobufSpec PB} (m : t) : Prop :=
  typed m = true ∧ valid m ∧ small (wire m).

Definition merge (m a : t) : t := {|
  rejectedUpgrade := m.(rejectedUpgrade) ++ map RejectedUpgrade.normal a.(rejectedUpgrade);
  pagination := later_message m.(pagination) (PageResponse.normal <$> a.(pagination));
|}.

(** A whole message seen as a partial one. *)
Definition full (m : t) : partial := {|
  p_rejectedUpgrade := Some (map RejectedUpgrade.full m.(rejectedUpgrade));
  p_pagination := PageResponse.full <$> m.(pagination);
|}.

(** The message as its [.proto] file declares it. *)
Definition schema (m : t) : list field :=
  [repeated 1 (message_value RejectedUpgrade.schema) m.(rejectedUpgrade);
   singular 2 Optional (message_value PageResponse.schema) m.(pagination)].

(** The message with its default for every property that is not kept. *)
Definition only (kept : string → bool) (m : t) : t := {|
  rejectedUpgrade := if kept "rejectedUpgrade" then m.(rejectedUpgrade) else [];
  pagination := if kept "pagination" then m.(pagination) else None;
|}.

#[global] Instance codec {PB : Protobuf} : FallibleCodec t :=
  {| fmsg_base := base; fmsg_encode := encode; fmsg_field := decode_field |}.

#[global] Program Instance spec {PB : Protobuf} (PS : ProtobufSpec PB) : FallibleSpec PS t :=
  {| fmsg_wire := wire; fmsg_valid := valid; fmsg_typed := typed; fmsg_normal := normal;
     fmsg_merge := merge |}.
Next Obligation. solve_fencode_wire. Qed.
Next Obligation. intros. solve_fencode_throws encode typed. Qed.
Next Obligation. solve_fdecode_wire. Qed.
Next Obligation. solve_fmerge_base. Qed.
Next Obligation. intros. solve_fadvances decode_field. Qed.

#[global] Program Instance given_ : FalliblePartial t partial :=
  {| fmsg_fromPartial := fromPartial; fmsg_full := full; fmsg_given := typed |}.
Next Obligation. solve_fgiven fromPartial typed. Qed.
Next Obligation. solve_fpartial fromPartial full typed. Qed.

#[global] Program Instance json : DatedJson t :=
  {| dmsg_fromJSON := fromJSON; dmsg_toJSON := toJSON; dmsg_timed := timed;
     dmsg_named := fun _ => true; dmsg_known := fun m => m |}.
Next Obligation. solve_djson fromJSON toJSON timed. Qed.
Next Obligation. solve_dthrows toJSON timed. Qed.
Next Obligation. reflexivity. Qed.

#[global] Instance schema_wire {PB : Protobuf} {PS : ProtobufSpec PB} : WireSchema wire schema.
Proof. solve_schema_wire wire schema. Qed.

#[global] Instance schema_normal : NormalSchema normal schema.
Proof. solve_schema_normal normal schema. Qed.

#[global] Instance schema_merge : MergeSchema merge schema.
Proof. solve_schema_merge merge schema. Qed.

(** Its row in the table of message types. *)
Definition message {PB : Protobuf} {PS : ProtobufSpec PB} : message_type :=
  dated_message "QueryAllRejectedUpgradeResponse" nothing true schema only.

#[global] Instance message_lawful {PB : Protobuf} (PS : ProtobufSpec PB) : Lawful message.
Proof. solve_lawful decode_field fromJSON only. Qed.

End QueryAllRejectedUpgradeResponse.

(** ** [GenesisState] (dclupgrade/genesis.js) *)

Module GenesisState.

Record t := mk {
  proposedUpgradeList : list ProposedUpgrade.t;
  approvedUpgradeList : list ApprovedUpgrade.t;
  rejectedUpgradeList : list RejectedUpgrade.t;
}.

#[global] Instance t_eta : Settable t := λ m, mk m.(proposedUpgradeList) m.(approvedUpgradeList)
  m.(rejectedUpgradeList).

Definition base : t := mk [] [] [].

Definition encode {PB : Protobuf} (message : t) (writer : Writer) : result Writer :=
  Ok writer
  @>= each_e message.(proposedUpgradeList) (submessage 10 ProposedUpgrade.encode)
  @>= each_e message.(approvedUpgradeList) (submessage 18 ApprovedUpgrade.encode)
  @>= each_e message.(rejectedUpgradeList) (submessage 26 RejectedUpgrade.encode).

Definition decode_field {PB : Protobuf} (tag : Z) (message : t) : RM t :=
  match field_number tag with
  | 1 => v ← read_nested ProposedUpgrade.decode;
         mret (message <| proposedUpgradeList := message.(proposedUpgradeList) ++ [v] |>)
  | 2 => v ← read_nested ApprovedUpgrade.decode;
         mret (message <| approvedUpgradeList := message.(approvedUpgradeList) ++ [v] |>)
  | 3 => v ← read_nested RejectedUpgrade.decode;
         mret (message <| rejectedUpgradeList := message.(rejectedUpgradeList) ++ [v] |>)
  | _ => _ ← skipType (wire_type tag); mret message
  end.

Definition decode {PB : Protobuf} (length : option Z) : RM t :=
  decode_message length base decode_field.

Definition fromJSON (object : js) : result t :=
  proposedUpgradeList' ← field_or object "proposedUpgradeList" (to_list ProposedUpgrade.fromJSON) [];
  approvedUpgradeList' ← field_or object "approvedUpgradeList" (to_list ApprovedUpgrade.fromJSON) [];
  rejectedUpgradeList' ← field_or object "rejectedUpgradeList" (to_list RejectedUpgrade.fromJSON) [];
  Ok (mk proposedUpgradeList' approvedUpgradeList' rejectedUpgradeList').

Definition toJSON (message : t) : result js :=
  proposedUpgradeList' ← result_map ProposedUpgrade.toJSON message.(proposedUpgradeList);
  approvedUpgradeList' ← result_map ApprovedUpgrade.toJSON message.(approvedUpgradeList);
  rejectedUpgradeList' ← result_map RejectedUpgrade.toJSON message.(rejectedUpgradeList);
  Ok (Obj ([("proposedUpgradeList", Arr proposedUpgradeList');
    ("approvedUpgradeList", Arr approvedUpgradeList');
    ("rejectedUpgradeList", Arr rejectedUpgradeList')])).

Record partial := mkPartial {
  p_proposedUpgradeList : option (list ProposedUpgrade.partial);
  p_approvedUpgradeList : option (list ApprovedUpgrade.partial);
  p_rejectedUpgradeList : option (list RejectedUpgrade.partial);
}.

Definition fromPartial (object : partial) : t := {|
  proposedUpgradeList := map ProposedUpgrade.fromPartial (object.(p_proposedUpgradeList) ?? []);
  approvedUpgradeList := map ApprovedUpgrade.fromPartial (object.(p_approvedUpgradeList) ?? []);
  rejectedUpgradeList := map RejectedUpgrade.fromPartial (object.(p_rejectedUpgradeList) ?? []);
|}.

(** The object with no property given. *)
Definition nothing : partial := mkPartial None None None.

(** The bytes [encode] writes. *)
Definition wire {PB : Protobuf} {PS : ProtobufSpec PB} (m : t) : bytes :=
  f_repeated 10 ProposedUpgrade.wire m.(proposedUpgradeList) ++
  f_repeated 18 ApprovedUpgrade.wire m.(approvedUpgradeList) ++
  f_repeated 26 RejectedUpgrade.wire m.(rejectedUpgradeList).

Definition valid (m : t) : Prop :=
  Forall ProposedUpgrade.valid m.(proposedUpgradeList) ∧ Forall ApprovedUpgrade.valid m.(approvedUpgradeList) ∧ Forall RejectedUpgrade.valid m.(rejectedUpgradeList).

(** The byte fields hold arrays, as the interface declares. *)
Definition typed (m : t) : bool := forallb ProposedUpgrade.typed m.(proposedUpgradeList) && forallb ApprovedUpgrade.typed m.(approvedUpgradeList) && forallb RejectedUpgrade.typed m.(rejectedUpgradeList).

(** The message without its empty byte arrays. *)
Definition normal (m : t) : t := {|
  proposedUpgradeList := map ProposedUpgrade.normal m.(proposedUpgradeList);
  approvedUpgradeList := map ApprovedUpgrade.normal m.(approvedUpgradeList);
  rejectedUpgradeList := map RejectedUpgrade.normal m.(rejectedUpgradeList);
|}.

(** The dates are valid. *)
Definition timed (m : t) : bool := forallb ProposedUpgrade.timed m.(proposedUpgradeList) && forallb ApprovedUpgrade.timed m.(approvedUpgradeList) && forallb RejectedUpgrade.timed m.(rejectedUpgradeList).

Definition encodable {PB : Protobuf} {PS : ProtobufSpec PB} (m : t) : Prop :=
  typed m = true ∧ valid m ∧ small (wire m).

Definition merge (m a : t) : t := {|
  proposedUpgradeList := m.(proposedUpgradeList) ++ map ProposedUpgrade.normal a.(proposedUpgradeList);
  approvedUpgradeList := m.(approvedUpgradeList) ++ map ApprovedUpgrade.normal a.(approvedUpgradeList);
  rejectedUpgradeList := m.(rejectedUpgradeList) ++ map RejectedUpgrade.normal a.(rejectedUpgradeList);
|}.

(** A whole message seen as a partial one. *)
Definition full (m : t) : partial := {|
  p_proposedUpgradeList := Some (map ProposedUpgrade.full m.(proposedUpgradeList));
  p_approvedUpgradeList := Some (map ApprovedUpgrade.full m.(approvedUpgradeList));
  p_rejectedUpgradeList := Some (map RejectedUpgrade.full m.(rejectedUpgradeList));
|}.

(** The message as its [.proto] file declares it. *)
Definition schema (m : t) : list field :=
  [repeated 1 (message_value ProposedUpgrade.schema) m.(proposedUpgradeList);
   repeated 2 (message_value ApprovedUpgrade.schema) m.(approvedUpgradeList);
   repeated 3 (message_value RejectedUpgrade.schema) m.(rejectedUpgradeList)].

(** The message with its default for every property that is not kept. *)
Definition only (kept : string → bool) (m : t) : t := {|
  proposedUpgradeList := if kept "proposedUpgradeList" then m.(proposedUpgradeList) else [];
  approvedUpgradeList := if kept "approvedUpgradeList" then m.(approvedUpgradeList) else [];
  rejectedUpgradeList := if kept "rejectedUpgradeList" then m.(rejectedUpgradeList) else [];
|}.

#[global] Instance codec {PB : Protobuf} : FallibleCodec t :=
  {| fmsg_base := base; fmsg_encode := encode; fmsg_field := decode_field |}.

#[global] Program Instance spec {PB : Protobuf} (PS : ProtobufSpec PB) : FallibleSpec PS t :=
  {| fmsg_wire := wire; fmsg_valid := valid; fmsg_typed := typed; fmsg_normal := normal;
     fmsg_merge := merge |}.
Next Obligation. solve_fencode_wire. Qed.
Next Obligation. intros. solve_fencode_throws encode typed. Qed.
Next Obligation. solve_fdecode_wire. Qed.
Next Obligation. solve_fmerge_base. Qed.
Next Obligation. intros. solve_fadvances decode_field. Qed.

#[global] Program Instance given_ : FalliblePartial t partial :=
  {| fmsg_fromPartial := fromPartial; fmsg_full := full; fmsg_given := typed |}.
Next Obligation. solve_fgiven fromPartial typed. Qed.
Next Obligation. solve_fpartial fromPartial full typed. Qed.

#[global] Program Instance json : DatedJson t :=
  {| dmsg_fromJSON := fromJSON; dmsg_toJSON := toJSON; dmsg_timed := timed;
     dmsg_named := fun _ => true; dmsg_known := fun m => m |}.
Next Obligation. solve_djson fromJSON toJSON timed. Qed.
Next Obligation. solve_dthrows toJSON timed. Qed.
Next Obligation. reflexivity. Qed.

#[global] Instance schema_wire {PB : Protobuf} {PS : ProtobufSpec PB} : WireSchema wire schema.
Proof. solve_schema_wire wire schema. Qed.

#[global] Instance schema_normal : NormalSchema normal schema.
Proof. solve_schema_normal normal schema. Qed.

#[global] Instance schema_merge : MergeSchema merge schema.
Proof. solve_schema_merge merge schema. Qed.

(** Its row in the table of message types. *)
Definition message {PB : Protobuf} {PS : ProtobufSpec PB} : message_type :=
  dated_message "GenesisState" nothing true schema only.

#[global] Instance message_lawful {PB : Protobuf} (PS : ProtobufSpec PB) : Lawful message.
Proof. solve_lawful decode_field fromJSON only. Qed.

End GenesisState.


(** ** [MsgClientImpl]

    [rpc] is the transport the class is constructed with: [rpc service method data]
    is what the promise of [this.rpc.request] settles to. *)
Module MsgClientImpl.
Section client.
Context {PB : Protobuf} (rpc : string → string → bytes → result bytes).

Definition ProposeUpgrade (request : MsgProposeUpgrade.t) : result MsgProposeUpgradeResponse.t :=
  w ← MsgProposeUpgrade.encode request create;
  data ← rpc "zigbeealliance.distributedcomplianceledger.dclupgrade.Msg" "ProposeUpgrade" (finish w);
  decode_bytes MsgProposeUpgradeResponse.decode data.

Definition ApproveUpgrade (request : MsgApproveUpgrade.t) : result MsgApproveUpgradeResponse.t :=
  data ← rpc "zigbeealliance.distributedcomplianceledger.dclupgrade.Msg" "ApproveUpgrade"
    (finish (MsgApproveUpgrade.encode request create));
  decode_bytes MsgApproveUpgradeResponse.decode data.

Definition RejectUpgrade (request : MsgRejectUpgrade.t) : result MsgRejectUpgradeResponse.t :=
  data ← rpc "zigbeealliance.distributedcomplianceledger.dclupgrade.Msg" "RejectUpgrade"
    (finish (MsgRejectUpgrade.encode request create));
  decode_bytes MsgRejectUpgradeResponse.decode data.

End client.
End MsgClientImpl.


(** ** [QueryClientImpl]

    [rpc] is the transport the class is constructed with: [rpc service method data]
    is what the promise of [this.rpc.request] settles to. *)
Module QueryClientImpl.
Section client.
Context {PB : Protobuf} (rpc : string → string → bytes → result bytes).

Definition ProposedUpgrade (request : QueryGetProposedUpgradeRequest.t)
    : result QueryGetProposedUpgradeResponse.t :=
  data ← rpc "zigbeealliance.distributedcomplianceledger.dclupgrade.Query" "ProposedUpgrade"
    (finish (QueryGetProposedUpgradeRequest.encode request create));
  decode_bytes QueryGetProposedUpgradeResponse.decode data.

Definition ProposedUpgradeAll (request : QueryAllProposedUpgradeRequest.t)
    : result QueryAllProposedUpgradeResponse.t :=
  w ← QueryAllProposedUpgradeRequest.encode request create;
  data ← rpc "zigbeealliance.distributedcomplianceledger.dclupgrade.Query" "ProposedUpgradeAll" (finish w);
  decode_bytes QueryAllProposedUpgradeResponse.decode data.

Definition ApprovedUpgrade (request : QueryGetApprovedUpgradeRequest.t)
    : result QueryGetApprovedUpgradeResponse.t :=
  data ← rpc "zigbeealliance.distributedcomplianceledger.dclupgrade.Query" "ApprovedUpgrade"
    (finish (QueryGetApprovedUpgradeRequest.encode request create));
  decode_bytes QueryGetApprovedUpgradeResponse.decode data.

Definition ApprovedUpgradeAll (request : QueryAllApprovedUpgradeRequest.t)
    : result QueryAllApprovedUpgradeResponse.t :=
  w ← QueryAllApprovedUpgradeRequest.encode request create;
  data ← rpc "zigbeealliance.distributedcomplianceledger.dclupgrade.Query" "ApprovedUpgradeAll" (finish w);
  decode_bytes QueryAllApprovedUpgradeResponse.decode data.

Definition RejectedUpgrade (request : QueryGetRejectedUpgradeRequest.t)
    : result QueryGetRejectedUpgradeResponse.t :=
  data ← rpc "zigbeealliance.distributedcomplianceledger.dclupgrade.Query" "RejectedUpgrade"
    (finish (QueryGetRejectedUpgradeRequest.encode request create));
  decode_bytes QueryGetRejectedUpgradeResponse.decode data.

Definition RejectedUpgradeAll (request : QueryAllRejectedUpgradeRequest.t)
    : result QueryAllRejectedUpgradeResponse.t :=
  w ← QueryAllRejectedUpgradeRequest.encode request create;
  data ← rpc "zigbeealliance.distributedcomplianceledger.dclupgrade.Query" "RejectedUpgradeAll" (finish w);
  decode_bytes QueryAllRejectedUpgradeResponse.decode data.

End client.
End QueryClientImpl.

(** ** The message types of this file *)

Definition messages {PB : Protobuf} {PS : ProtobufSpec PB} : list message_type :=
  [ Plan.message; SoftwareUpgradeProposal.message; CancelSoftwareUpgradeProposal.message;
   ModuleVersion.message; Grant.message; Params.message; ApprovedUpgrade.message;
   ProposedUpgrade.message; RejectedUpgrade.message; MsgProposeUpgrade.message;
   MsgProposeUpgradeResponse.message; MsgApproveUpgrade.message;
   MsgApproveUpgradeResponse.message; MsgRejectUpgrade.message;
   MsgRejectUpgradeResponse.message; QueryGetProposedUpgradeRequest.message;
   QueryGetProposedUpgradeResponse.message; QueryAllProposedUpgradeRequest.message;
   QueryAllProposedUpgradeResponse.message; QueryGetApprovedUpgradeRequest.message;
   QueryGetApprovedUpgradeResponse.message; QueryAllApprovedUpgradeRequest.message;
   QueryAllApprovedUpgradeResponse.message; QueryGetRejectedUpgradeRequest.message;
   QueryGetRejectedUpgradeResponse.message; QueryAllRejectedUpgradeRequest.message;
   QueryAllRejectedUpgradeResponse.message; GenesisState.message].

Lemma DclupgradeTypes_lawful {PB : Protobuf} {PS : ProtobufSpec PB} : Forall Lawful messages.
Proof. solve_table. Qed.

(** The methods of [MsgClientImpl]. *)
Definition msg_methods {PB : Protobuf} {PS : ProtobufSpec PB} : list rpc_method :=
  [mkMethod "zigbeealliance.distributedcomplianceledger.dclupgrade.Msg" "ProposeUpgrade"
     MsgProposeUpgrade.message MsgProposeUpgradeResponse.message
     (fun rpc => MsgClientImpl.ProposeUpgrade rpc);
   mkMethod "zigbeealliance.distributedcomplianceledger.dclupgrade.Msg" "ApproveUpgrade"
     MsgApproveUpgrade.message MsgApproveUpgradeResponse.message
     (fun rpc => MsgClientImpl.ApproveUpgrade rpc);
   mkMethod "zigbeealliance.distributedcomplianceledger.dclupgrade.Msg" "RejectUpgrade"
     MsgRejectUpgrade.message MsgRejectUpgradeResponse.message
     (fun rpc => MsgClientImpl.RejectUpgrade rpc)].

Lemma DclupgradeTypes_msg_methods_lawful {PB : Protobuf} {PS : ProtobufSpec PB} : Forall method_lawful msg_methods.
Proof. solve_methods. Qed.

(** The methods of [QueryClientImpl]. *)
Definition query_methods {PB : Protobuf} {PS : ProtobufSpec PB} : list rpc_method :=
  [mkMethod "zigbeealliance.distributedcomplianceledger.dclupgrade.Query" "ProposedUpgrade"
     QueryGetProposedUpgradeRequest.message QueryGetProposedUpgradeResponse.message
     (fun rpc => QueryClientImpl.ProposedUpgrade rpc);
   mkMethod "zigbeealliance.distributedcomplianceledger.dclupgrade.Query" "ProposedUpgradeAll"
     QueryAllProposedUpgradeRequest.message QueryAllProposedUpgradeResponse.message
     (fun rpc => QueryClientImpl.ProposedUpgradeAll rpc);
   mkMethod "zigbeealliance.distributedcomplianceledger.dclupgrade.Query" "ApprovedUpgrade"
     QueryGetApprovedUpgradeRequest.message QueryGetApprovedUpgradeResponse.message
     (fun rpc => QueryClientImpl.ApprovedUpgrade rpc);
   mkMethod "zigbeealliance.distributedcomplianceledger.dclupgrade.Query" "ApprovedUpgradeAll"
     QueryAllApprovedUpgradeRequest.message QueryAllApprovedUpgradeResponse.message
     (fun rpc => QueryClientImpl.ApprovedUpgradeAll rpc);
   mkMethod "zigbeealliance.distributedcomplianceledger.dclupgrade.Query" "RejectedUpgrade"
     QueryGetRejectedUpgradeRequest.message QueryGetRejectedUpgradeResponse.message
     (fun rpc => QueryClientImpl.RejectedUpgrade rpc);
   mkMethod "zigbeealliance.distributedcomplianceledger.dclupgrade.Query" "RejectedUpgradeAll"
     QueryAllRejectedUpgradeRequest.message QueryAllRejectedUpgradeResponse.message
     (fun rpc => QueryClientImpl.RejectedUpgradeAll rpc)].

Lemma DclupgradeTypes_query_methods_lawful {PB : Protobuf} {PS : ProtobufSpec PB} : Forall method_lawful query_methods.
Proof. solve_methods. Qed.
