(* ===== verification/CosmosBase.v ===== *)
(** * Coins and durations

    The codecs of [cosmos/base/v1beta1/coin.js] and
    [google/protobuf/duration.js], which the modules of the Cosmos SDK share.
    Every module has its own copy of these files, with the same contents; the
    lines of the gov module are the ones modelled. *)
From S2P Require Import Prelude Js Protobuf Codec Calendar Dates Base64 Fallible Proto3 MessageTable.
Open Scope Z_scope.

(** ** [Coin] (cosmos/base/v1beta1/coin.js) *)

Module Coin.

Record t := mk {
  denom : string;
  amount : string;
}.

#[global] Instance t_eta : Settable t := λ m, mk m.(denom) m.(amount).

Definition base : t := mk "" "".

Definition encode {PB : Protobuf} (message : t) (writer : Writer) : Writer :=
  writer
  @> when (str_neq message.(denom) "") (fun w => w @> uint32 10 @> string_ message.(denom))
  @> when (str_neq message.(amount) "") (fun w => w @> uint32 18 @> string_ message.(amount)).

Definition decode_field {PB : Protobuf} (tag : Z) (message : t) : RM t :=
  match field_number tag with
  | 1 => v ← read_string; mret (message <| denom := v |>)
  | 2 => v ← read_string; mret (message <| amount := v |>)
  | _ => _ ← skipType (wire_type tag); mret message
  end.

Definition decode {PB : Protobuf} (length : option Z) : RM t :=
  decode_message length base decode_field.

Definition fromJSON (object : js) : result t :=
  denom' ← field_or object "denom" to_string "";
  amount' ← field_or object "amount" to_string "";
  Ok (mk denom' amount').

Definition toJSON (message : t) : js :=
  Obj ([("denom", Str message.(denom));
    ("amount", Str message.(amount))]).

Record partial := mkPartial {
  p_denom : option string;
  p_amount : option string;
}.

Definition fromPartial (object : partial) : t := {|
  denom := object.(p_denom) ?? "";
  amount := object.(p_amount) ?? "";
|}.

(** The object with no property given. *)
Definition nothing : partial := mkPartial None None.

(** The bytes [encode] writes. *)
Definition wire {PB : Protobuf} {PS : ProtobufSpec PB} (m : t) : bytes :=
  f_string 10 m.(denom) ++
  f_string 18 m.(amount).

Definition valid (m : t) : Prop :=
  True.

Definition encodable {PB : Protobuf} {PS : ProtobufSpec PB} (m : t) : Prop :=
  valid m ∧ small (wire m).

Definition merge (m a : t) : t := {|
  denom := later_string m.(denom) a.(denom);
  amount := later_string m.(amount) a.(amount);
|}.

(** A whole message seen as a partial one. *)
Definition full (m : t) : partial := {|
  p_denom := Some m.(denom);
  p_amount := Some m.(amount);
|}.

(** The message as its schema declares it. *)
Definition schema (m : t) : list field :=
  [implicit 1 (VString m.(denom));
   implicit 2 (VString m.(amount))].

(** The message with its default for every property that is not kept. *)
Definition only (kept : string → bool) (m : t) : t := {|
  denom := if kept "denom" then m.(denom) else "";
  amount := if kept "amount" then m.(amount) else "";
|}.

#[global] Instance codec {PB : Protobuf} : MessageCodec t :=
  {| msg_base := base; msg_encode := encode; msg_field := decode_field |}.

#[global] Program Instance spec {PB : Protobuf} (PS : ProtobufSpec PB) : MessageSpec PS t :=
  {| msg_wire := wire; msg_valid := valid; msg_merge := merge |}.
Next Obligation. solve_encode_wire. Qed.
Next Obligation. solve_decode_wire. Qed.
Next Obligation. solve_merge_base. Qed.
Next Obligation. intros. solve_advances decode_field. Qed.

#[global] Program Instance data : MessageData t partial :=
  {| msg_fromJSON := fromJSON; msg_toJSON := toJSON;
     msg_fromPartial := fromPartial; msg_full := full |}.
Next Obligation. solve_json fromJSON toJSON. Qed.
Next Obligation. solve_partial fromPartial full. Qed.

#[global] Instance schema_wire {PB : Protobuf} {PS : ProtobufSpec PB} : WireSchema wire schema.
Proof. solve_schema_wire wire schema. Qed.

#[global] Instance schema_merge : MergeSchema merge schema.
Proof. solve_schema_merge merge schema. Qed.

(** Its row in the table of message types. *)
Definition message {PB : Protobuf} {PS : ProtobufSpec PB} : message_type :=
  plain_message "Coin" nothing true schema only.

#[global] Instance message_lawful {PB : Protobuf} (PS : ProtobufSpec PB) : Lawful message.
Proof. solve_lawful decode_field fromJSON only. Qed.

End Coin.

(** ** [DecCoin] (cosmos/base/v1beta1/coin.js) *)

Module DecCoin.

Record t := mk {
  denom : string;
  amount : string;
}.

#[global] Instance t_eta : Settable t := λ m, mk m.(denom) m.(amount).

Definition base : t := mk "" "".

Definition encode {PB : Protobuf} (message : t) (writer : Writer) : Writer :=
  writer
  @> when (str_neq message.(denom) "") (fun w => w @> uint32 10 @> string_ message.(denom))
  @> when (str_neq message.(amount) "") (fun w => w @> uint32 18 @> string_ message.(amount)).

Definition decode_field {PB : Protobuf} (tag : Z) (message : t) : RM t :=
  match field_number tag with
  | 1 => v ← read_string; mret (message <| denom := v |>)
  | 2 => v ← read_string; mret (message <| amount := v |>)
  | _ => _ ← skipType (wire_type tag); mret message
  end.

Definition decode {PB : Protobuf} (length : option Z) : RM t :=
  decode_message length base decode_field.

Definition fromJSON (object : js) : result t :=
  denom' ← field_or object "denom" to_string "";
  amount' ← field_or object "amount" to_string "";
  Ok (mk denom' amount').

Definition toJSON (message : t) : js :=
  Obj ([("denom", Str message.(denom));
    ("amount", Str message.(amount))]).

Record partial := mkPartial {
  p_denom : option string;
  p_amount : option string;
}.

Definition fromPartial (object : partial) : t := {|
  denom := object.(p_denom) ?? "";
  amount := object.(p_amount) ?? "";
|}.

(** The object with no property given. *)
Definition nothing : partial := mkPartial None None.

(** The bytes [encode] writes. *)
Definition wire {PB : Protobuf} {PS : ProtobufSpec PB} (m : t) : bytes :=
  f_string 10 m.(denom) ++
  f_string 18 m.(amount).

Definition valid (m : t) : Prop :=
  True.

Definition encodable {PB : Protobuf} {PS : ProtobufSpec PB} (m : t) : Prop :=
  valid m ∧ small (wire m).

Definition merge (m a : t) : t := {|
  denom := later_string m.(denom) a.(denom);
  amount := later_string m.(amount) a.(amount);
|}.

(** A whole message seen as a partial one. *)
Definition full (m : t) : partial := {|
  p_denom := Some m.(denom);
  p_amount := Some m.(amount);
|}.

(** The message as its schema declares it. *)
Definition schema (m : t) : list field :=
  [implicit 1 (VString m.(denom));
   implicit 2 (VString m.(amount))].

(** The message with its default for every property that is not kept. *)
Definition only (kept : string → bool) (m : t) : t := {|
  denom := if kept "denom" then m.(denom) else "";
  amount := if kept "amount" then m.(amount) else "";
|}.

#[global] Instance codec {PB : Protobuf} : MessageCodec t :=
  {| msg_base := base; msg_encode := encode; msg_field := decode_field |}.

#[global] Program Instance spec {PB : Protobuf} (PS : ProtobufSpec PB) : MessageSpec PS t :=
  {| msg_wire := wire; msg_valid := valid; msg_merge := merge |}.
Next Obligation. solve_encode_wire. Qed.
Next Obligation. solve_decode_wire. Qed.
Next Obligation. solve_merge_base. Qed.
Next Obligation. intros. solve_advances decode_field. Qed.

#[global] Program Instance data : MessageData t partial :=
  {| msg_fromJSON := fromJSON; msg_toJSON := toJSON;
     msg_fromPartial := fromPartial; msg_full := full |}.
Next Obligation. solve_json fromJSON toJSON. Qed.
Next Obligation. solve_partial fromPartial full. Qed.

#[global] Instance schema_wire {PB : Protobuf} {PS : ProtobufSpec PB} : WireSchema wire schema.
Proof. solve_schema_wire wire schema. Qed.

#[global] Instance schema_merge : MergeSchema merge schema.
Proof. solve_schema_merge merge schema. Qed.

(** Its row in the table of message types. *)
Definition message {PB : Protobuf} {PS : ProtobufSpec PB} : message_type :=
  plain_message "DecCoin" nothing true schema only.

#[global] Instance message_lawful {PB : Protobuf} (PS : ProtobufSpec PB) : Lawful message.
Proof. solve_lawful decode_field fromJSON only. Qed.

End DecCoin.

(** ** [IntProto] (cosmos/base/v1beta1/coin.js) *)

Module IntProto.

Record t := mk {
  int : string;
}.

#[global] Instance t_eta : Settable t := λ m, mk m.(int).

Definition base : t := mk "".

Definition encode {PB : Protobuf} (message : t) (writer : Writer) : Writer :=
  writer
  @> when (str_neq message.(int) "") (fun w => w @> uint32 10 @> string_ message.(int)).

Definition decode_field {PB : Protobuf} (tag : Z) (message : t) : RM t :=
  match field_number tag with
  | 1 => v ← read_string; mret (message <| int := v |>)
  | _ => _ ← skipType (wire_type tag); mret message
  end.

Definition decode {PB : Protobuf} (length : option Z) : RM t :=
  decode_message length base decode_field.

Definition fromJSON (object : js) : result t :=
  int' ← field_or object "int" to_string "";
  Ok (mk int').

Definition toJSON (message : t) : js :=
  Obj ([("int", Str message.(int))]).

Record partial := mkPartial {
  p_int : option string;
}.

Definition fromPartial (object : partial) : t := {|
  int := object.(p_int) ?? "";
|}.

(** The object with no property given. *)
Definition nothing : partial := mkPartial None.

(** The bytes [encode] writes. *)
Definition wire {PB : Protobuf} {PS : ProtobufSpec PB} (m : t) : bytes :=
  f_string 10 m.(int).

Definition valid (m : t) : Prop :=
  True.

Definition encodable {PB : Protobuf} {PS : ProtobufSpec PB} (m : t) : Prop :=
  valid m ∧ small (wire m).

Definition merge (m a : t) : t := {|
  int := later_string m.(int) a.(int);
|}.

(** A whole message seen as a partial one. *)
Definition full (m : t) : partial := {|
  p_int := Some m.(int);
|}.

(** The message as its schema declares it. *)
Definition schema (m : t) : list field :=
  [implicit 1 (VString m.(int))].

(** The message with its default for every property that is not kept. *)
Definition only (kept : string → bool) (m : t) : t := {|
  int := if kept "int" then m.(int) else "";
|}.

#[global] Instance codec {PB : Protobuf} : MessageCodec t :=
  {| msg_base := base; msg_encode := encode; msg_field := decode_field |}.

#[global] Program Instance spec {PB : Protobuf} (PS : ProtobufSpec PB) : MessageSpec PS t :=
  {| msg_wire := wire; msg_valid := valid; msg_merge := merge |}.
Next Obligation. solve_encode_wire. Qed.
Next Obligation. solve_decode_wire. Qed.
Next Obligation. solve_merge_base. Qed.
Next Obligation. intros. solve_advances decode_field. Qed.

#[global] Program Instance data : MessageData t partial :=
  {| msg_fromJSON := fromJSON; msg_toJSON := toJSON;
     msg_fromPartial := fromPartial; msg_full := full |}.
Next Obligation. solve_json fromJSON toJSON. Qed.
Next Obligation. solve_partial fromPartial full. Qed.

#[global] Instance schema_wire {PB : Protobuf} {PS : ProtobufSpec PB} : WireSchema wire schema.
Proof. solve_schema_wire wire schema. Qed.

#[global] Instance schema_merge : MergeSchema merge schema.
Proof. solve_schema_merge merge schema. Qed.

(** Its row in the table of message types. *)
Definition message {PB : Protobuf} {PS : ProtobufSpec PB} : message_type :=
  plain_message "IntProto" nothing true schema only.

#[global] Instance message_lawful {PB : Protobuf} (PS : ProtobufSpec PB) : Lawful message.
Proof. solve_lawful decode_field fromJSON only. Qed.

End IntProto.

(** ** [DecProto] (cosmos/base/v1beta1/coin.js) *)

Module DecProto.

Record t := mk {
  dec : string;
}.

#[global] Instance t_eta : Settable t := λ m, mk m.(dec).

Definition base : t := mk "".

Definition encode {PB : Protobuf} (message : t) (writer : Writer) : Writer :=
  writer
  @> when (str_neq message.(dec) "") (fun w => w @> uint32 10 @> string_ message.(dec)).

Definition decode_field {PB : Protobuf} (tag : Z) (message : t) : RM t :=
  match field_number tag with
  | 1 => v ← read_string; mret (message <| dec := v |>)
  | _ => _ ← skipType (wire_type tag); mret message
  end.

Definition decode {PB : Protobuf} (length : option Z) : RM t :=
  decode_message length base decode_field.

Definition fromJSON (object : js) : result t :=
  dec' ← field_or object "dec" to_string "";
  Ok (mk dec').

Definition toJSON (message : t) : js :=
  Obj ([("dec", Str message.(dec))]).

Record partial := mkPartial {
  p_dec : option string;
}.

Definition fromPartial (object : partial) : t := {|
  dec := object.(p_dec) ?? "";
|}.

(** The object with no property given. *)
Definition nothing : partial := mkPartial None.

(** The bytes [encode] writes. *)
Definition wire {PB : Protobuf} {PS : ProtobufSpec PB} (m : t) : bytes :=
  f_string 10 m.(dec).

Definition valid (m : t) : Prop :=
  True.

Definition encodable {PB : Protobuf} {PS : ProtobufSpec PB} (m : t) : Prop :=
  valid m ∧ small (wire m).

Definition merge (m a : t) : t := {|
  dec := later_string m.(dec) a.(dec);
|}.

(** A whole message seen as a partial one. *)
Definition full (m : t) : partial := {|
  p_dec := Some m.(dec);
|}.

(** The message as its schema declares it. *)
Definition schema (m : t) : list field :=
  [implicit 1 (VString m.(dec))].

(** The message with its default for every property that is not kept. *)
Definition only (kept : string → bool) (m : t) : t := {|
  dec := if kept "dec" then m.(dec) else "";
|}.

#[global] Instance codec {PB : Protobuf} : MessageCodec t :=
  {| msg_base := base; msg_encode := encode; msg_field := decode_field |}.

#[global] Program Instance spec {PB : Protobuf} (PS : ProtobufSpec PB) : MessageSpec PS t :=
  {| msg_wire := wire; msg_valid := valid; msg_merge := merge |}.
Next Obligation. solve_encode_wire. Qed.
Next Obligation. solve_decode_wire. Qed.
Next Obligation. solve_merge_base. Qed.
Next Obligation. intros. solve_advances decode_field. Qed.

#[global] Program Instance data : MessageData t partial :=
  {| msg_fromJSON := fromJSON; msg_toJSON := toJSON;
     msg_fromPartial := fromPartial; msg_full := full |}.
Next Obligation. solve_json fromJSON toJSON. Qed.
Next Obligation. solve_partial fromPartial full. Qed.

#[global] Instance schema_wire {PB : Protobuf} {PS : ProtobufSpec PB} : WireSchema wire schema.
Proof. solve_schema_wire wire schema. Qed.

#[global] Instance schema_merge : MergeSchema merge schema.
Proof. solve_schema_merge merge schema. Qed.

(** Its row in the table of message types. *)
Definition message {PB : Protobuf} {PS : ProtobufSpec PB} : message_type :=
  plain_message "DecProto" nothing true schema only.

#[global] Instance message_lawful {PB : Protobuf} (PS : ProtobufSpec PB) : Lawful message.
Proof. solve_lawful decode_field fromJSON only. Qed.

End DecProto.

(** ** [Duration] (google/protobuf/duration.js) *)

Module Duration.

Record t := mk {
  seconds : number;
  nanos : number;
}.

#[global] Instance t_eta : Settable t := λ m, mk m.(seconds) m.(nanos).

Definition base : t := mk 0 0.

Definition encode {PB : Protobuf} (message : t) (writer : Writer) : Writer :=
  writer
  @> when (num_neq message.(seconds) 0) (fun w => w @> uint32 8 @> int64 message.(seconds))
  @> when (num_neq message.(nanos) 0) (fun w => w @> uint32 16 @> int32 message.(nanos)).

Definition decode_field {PB : Protobuf} (tag : Z) (message : t) : RM t :=
  match field_number tag with
  | 1 => v ← read_number read_int64; mret (message <| seconds := v |>)
  | 2 => v ← read_int32; mret (message <| nanos := Int v |>)
  | _ => _ ← skipType (wire_type tag); mret message
  end.

Definition decode {PB : Protobuf} (length : option Z) : RM t :=
  decode_message length base decode_field.

Definition fromJSON (object : js) : result t :=
  seconds' ← field_or object "seconds" js_Number 0;
  nanos' ← field_or object "nanos" js_Number 0;
  Ok (mk seconds' nanos').

Definition toJSON (message : t) : js :=
  Obj ([("seconds", Num message.(seconds));
    ("nanos", Num message.(nanos))]).

Record partial := mkPartial {
  p_seconds : option number;
  p_nanos : option number;
}.

Definition fromPartial (object : partial) : t := {|
  seconds := object.(p_seconds) ?? Int 0;
  nanos := object.(p_nanos) ?? Int 0;
|}.

(** The object with no property given. *)
Definition nothing : partial := mkPartial None None.

(** The bytes [encode] writes. *)
Definition wire {PB : Protobuf} {PS : ProtobufSpec PB} (m : t) : bytes :=
  f_number e_int64 8 m.(seconds) ++
  f_number e_int32 16 m.(nanos).

Definition valid (m : t) : Prop :=
  int64_ok m.(seconds) ∧ int32_ok m.(nanos).

Definition encodable {PB : Protobuf} {PS : ProtobufSpec PB} (m : t) : Prop :=
  valid m ∧ small (wire m).

Definition merge (m a : t) : t := {|
  seconds := later_number m.(seconds) a.(seconds);
  nanos := later_number m.(nanos) a.(nanos);
|}.

(** A whole message seen as a partial one. *)
Definition full (m : t) : partial := {|
  p_seconds := Some m.(seconds);
  p_nanos := Some m.(nanos);
|}.

(** The message as its schema declares it. *)
Definition schema (m : t) : list field :=
  [implicit 1 (VInt Int64 m.(seconds));
   implicit 2 (VInt Int32 m.(nanos))].

(** The message with its default for every property that is not kept. *)
Definition only (kept : string → bool) (m : t) : t := {|
  seconds := if kept "seconds" then m.(seconds) else Int 0;
  nanos := if kept "nanos" then m.(nanos) else Int 0;
|}.

#[global] Instance codec {PB : Protobuf} : MessageCodec t :=
  {| msg_base := base; msg_encode := encode; msg_field := decode_field |}.

#[global] Program Instance spec {PB : Protobuf} (PS : ProtobufSpec PB) : MessageSpec PS t :=
  {| msg_wire := wire; msg_valid := valid; msg_merge := merge |}.
Next Obligation. solve_encode_wire. Qed.
Next Obligation. solve_decode_wire. Qed.
Next Obligation. solve_merge_base. Qed.
Next Obligation. intros. solve_advances decode_field. Qed.

#[global] Program Instance data : MessageData t partial :=
  {| msg_fromJSON := fromJSON; msg_toJSON := toJSON;
     msg_fromPartial := fromPartial; msg_full := full |}.
Next Obligation. solve_json fromJSON toJSON. Qed.
Next Obligation. solve_partial fromPartial full. Qed.

#[global] Instance schema_wire {PB : Protobuf} {PS : ProtobufSpec PB} : WireSchema wire schema.
Proof. solve_schema_wire wire schema. Qed.

#[global] Instance schema_merge : MergeSchema merge schema.
Proof. solve_schema_merge merge schema. Qed.

(** Its row in the table of message types. *)
Definition message {PB : Protobuf} {PS : ProtobufSpec PB} : message_type :=
  plain_message "Duration" nothing true schema only.

#[global] Instance message_lawful {PB : Protobuf} (PS : ProtobufSpec PB) : Lawful message.
Proof. solve_lawful decode_field fromJSON only. Qed.

End Duration.

(** ** The message types of this file *)

Definition messages {PB : Protobuf} {PS : ProtobufSpec PB} : list message_type :=
  [ Coin.message; DecCoin.message; IntProto.message; DecProto.message; Duration.message].

Lemma CosmosBase_lawful {PB : Protobuf} {PS : ProtobufSpec PB} : Forall Lawful messages.
Proof. solve_table. Qed.
