(* ===== verification/TendermintTypes.v ===== *)
(** * The Tendermint types

    Block headers, votes and commits, and the keys and proofs they hold: the
    codecs of [tendermint/*/*.js] of the staking module, which uses the header,
    and the consensus parameters of [tendermint/types/params.js] of the authz
    module.
    A public key is a oneof: of its two members, at most one is defined. *)
From S2P Require Import Prelude Js Protobuf Codec Calendar Dates Base64 Fallible Proto3 MessageTable CommonTypes CosmosBase.
Open Scope Z_scope.

(** ** [BlockIDFlag] (tendermint/types/types.js): an enumeration is a number *)

Module BlockIDFlag.

Definition BLOCK_ID_FLAG_UNKNOWN : number := 0.
Definition BLOCK_ID_FLAG_ABSENT : number := 1.
Definition BLOCK_ID_FLAG_COMMIT : number := 2.
Definition BLOCK_ID_FLAG_NIL : number := 3.
Definition UNRECOGNIZED : number := (-1).

End BlockIDFlag.

Definition blockIDFlagFromJSON (object : js) : result number :=
  Ok (match object with
      | Num (Int 0) => BlockIDFlag.BLOCK_ID_FLAG_UNKNOWN
      | Num (Int 1) => BlockIDFlag.BLOCK_ID_FLAG_ABSENT
      | Num (Int 2) => BlockIDFlag.BLOCK_ID_FLAG_COMMIT
      | Num (Int 3) => BlockIDFlag.BLOCK_ID_FLAG_NIL
      | Str s =>
          if String.eqb s "BLOCK_ID_FLAG_UNKNOWN" then BlockIDFlag.BLOCK_ID_FLAG_UNKNOWN
          else if String.eqb s "BLOCK_ID_FLAG_ABSENT" then BlockIDFlag.BLOCK_ID_FLAG_ABSENT
          else if String.eqb s "BLOCK_ID_FLAG_COMMIT" then BlockIDFlag.BLOCK_ID_FLAG_COMMIT
          else if String.eqb s "BLOCK_ID_FLAG_NIL" then BlockIDFlag.BLOCK_ID_FLAG_NIL
          else BlockIDFlag.UNRECOGNIZED
      | _ => BlockIDFlag.UNRECOGNIZED
      end).

Definition blockIDFlagToJSON (object : number) : string :=
  match object with
  | Int 0 => "BLOCK_ID_FLAG_UNKNOWN"
  | Int 1 => "BLOCK_ID_FLAG_ABSENT"
  | Int 2 => "BLOCK_ID_FLAG_COMMIT"
  | Int 3 => "BLOCK_ID_FLAG_NIL"
  | _ => "UNKNOWN"
  end.

(** The numbers that have a name. *)
Definition blockIDFlag_named (n : number) : bool :=
  bool_decide (n ∈ [BlockIDFlag.BLOCK_ID_FLAG_UNKNOWN;
                    BlockIDFlag.BLOCK_ID_FLAG_ABSENT;
                    BlockIDFlag.BLOCK_ID_FLAG_COMMIT;
                    BlockIDFlag.BLOCK_ID_FLAG_NIL;
                    BlockIDFlag.UNRECOGNIZED]).

(** What is read back of a number. *)
Definition blockIDFlag_known (n : number) : number :=
  if blockIDFlag_named n then n else BlockIDFlag.UNRECOGNIZED.

Lemma blockIDFlag_json n : blockIDFlagFromJSON (Str (blockIDFlagToJSON n)) = Ok (blockIDFlag_known n).
Proof. solve_enum n blockIDFlag_named blockIDFlag_known blockIDFlagToJSON. Qed.

Lemma blockIDFlag_member n : blockIDFlag_named n = true → blockIDFlag_known n = n.
Proof. intros H. unfold blockIDFlag_known. by rewrite H. Qed.

Arguments blockIDFlagFromJSON : simpl never.

#[export] Hint Rewrite blockIDFlag_json : named.
#[export] Hint Rewrite blockIDFlag_member using assumption : member.

(** ** [SignedMsgType] (tendermint/types/types.js): an enumeration is a number *)

Module SignedMsgType.

Definition SIGNED_MSG_TYPE_UNKNOWN : number := 0.
Definition SIGNED_MSG_TYPE_PREVOTE : number := 1.
Definition SIGNED_MSG_TYPE_PRECOMMIT : number := 2.
Definition SIGNED_MSG_TYPE_PROPOSAL : number := 32.
Definition UNRECOGNIZED : number := (-1).

End SignedMsgType.

Definition signedMsgTypeFromJSON (object : js) : result number :=
  Ok (match object with
      | Num (Int 0) => SignedMsgType.SIGNED_MSG_TYPE_UNKNOWN
      | Num (Int 1) => SignedMsgType.SIGNED_MSG_TYPE_PREVOTE
      | Num (Int 2) => SignedMsgType.SIGNED_MSG_TYPE_PRECOMMIT
      | Num (Int 32) => SignedMsgType.SIGNED_MSG_TYPE_PROPOSAL
      | Str s =>
          if String.eqb s "SIGNED_MSG_TYPE_UNKNOWN" then SignedMsgType.SIGNED_MSG_TYPE_UNKNOWN
          else if String.eqb s "SIGNED_MSG_TYPE_PREVOTE" then SignedMsgType.SIGNED_MSG_TYPE_PREVOTE
          else if String.eqb s "SIGNED_MSG_TYPE_PRECOMMIT" then SignedMsgType.SIGNED_MSG_TYPE_PRECOMMIT
          else if String.eqb s "SIGNED_MSG_TYPE_PROPOSAL" then SignedMsgType.SIGNED_MSG_TYPE_PROPOSAL
          else SignedMsgType.UNRECOGNIZED
      | _ => SignedMsgType.UNRECOGNIZED
      end).

Definition signedMsgTypeToJSON (object : number) : string :=
  match object with
  | Int 0 => "SIGNED_MSG_TYPE_UNKNOWN"
  | Int 1 => "SIGNED_MSG_TYPE_PREVOTE"
  | Int 2 => "SIGNED_MSG_TYPE_PRECOMMIT"
  | Int 32 => "SIGNED_MSG_TYPE_PROPOSAL"
  | _ => "UNKNOWN"
  end.

(** The numbers that have a name. *)
Definition signedMsgType_named (n : number) : bool :=
  bool_decide (n ∈ [SignedMsgType.SIGNED_MSG_TYPE_UNKNOWN;
                    SignedMsgType.SIGNED_MSG_TYPE_PREVOTE;
                    SignedMsgType.SIGNED_MSG_TYPE_PRECOMMIT;
                    SignedMsgType.SIGNED_MSG_TYPE_PROPOSAL;
                    SignedMsgType.UNRECOGNIZED]).

(** What is read back of a number. *)
Definition signedMsgType_known (n : number) : number :=
  if signedMsgType_named n then n else SignedMsgType.UNRECOGNIZED.

Lemma signedMsgType_json n : signedMsgTypeFromJSON (Str (signedMsgTypeToJSON n)) = Ok (signedMsgType_known n).
Proof. solve_enum n signedMsgType_named signedMsgType_known signedMsgTypeToJSON. Qed.

Lemma signedMsgType_member n : signedMsgType_named n = true → signedMsgType_known n = n.
Proof. intros H. unfold signedMsgType_known. by rewrite H. Qed.

Arguments signedMsgTypeFromJSON : simpl never.

#[export] Hint Rewrite signedMsgType_json : named.
#[export] Hint Rewrite signedMsgType_member using assumption : member.

(** ** [App] (tendermint/version/types.js) *)

Module App.

Record t := mk {
  protocol : number;
  software : string;
}.

#[global] Instance t_eta : Settable t := λ m, mk m.(protocol) m.(software).

Definition base : t := mk 0 "".

Definition encode {PB : Protobuf} (message : t) (writer : Writer) : Writer :=
  writer
  @> when (num_neq message.(protocol) 0) (fun w => w @> uint32 8 @> uint64 message.(protocol))
  @> when (str_neq message.(software) "") (fun w => w @> uint32 18 @> string_ message.(software)).

Definition decode_field {PB : Protobuf} (tag : Z) (message : t) : RM t :=
  match field_number tag with
  | 1 => v ← read_number read_uint64; mret (message <| protocol := v |>)
  | 2 => v ← read_string; mret (message <| software := v |>)
  | _ => _ ← skipType (wire_type tag); mret message
  end.

Definition decode {PB : Protobuf} (length : option Z) : RM t :=
  decode_message length base decode_field.

Definition fromJSON (object : js) : result t :=
  protocol' ← field_or object "protocol" js_Number 0;
  software' ← field_or object "software" to_string "";
  Ok (mk protocol' software').

Definition toJSON (message : t) : js :=
  Obj ([("protocol", Num message.(protocol));
    ("software", Str message.(software))]).

Record partial := mkPartial {
  p_protocol : option number;
  p_software : option string;
}.

Definition fromPartial (object : partial) : t := {|
  protocol := object.(p_protocol) ?? Int 0;
  software := object.(p_software) ?? "";
|}.

(** The object with no property given. *)
Definition nothing : partial := mkPartial None None.

(** The bytes [encode] writes. *)
Definition wire {PB : Protobuf} {PS : ProtobufSpec PB} (m : t) : bytes :=
  f_number e_uint64 8 m.(protocol) ++
  f_string 18 m.(software).

Definition valid (m : t) : Prop :=
  uint64_ok m.(protocol).

Definition encodable {PB : Protobuf} {PS : ProtobufSpec PB} (m : t) : Prop :=
  valid m ∧ small (wire m).

Definition merge (m a : t) : t := {|
  protocol := later_number m.(protocol) a.(protocol);
  software := later_string m.(software) a.(software);
|}.

(** A whole message seen as a partial one. *)
Definition full (m : t) : partial := {|
  p_protocol := Some m.(protocol);
  p_software := Some m.(software);
|}.

(** The message as its [.proto] file declares it. *)
Definition schema (m : t) : list field :=
  [implicit 1 (VInt Uint64 m.(protocol));
   implicit 2 (VString m.(software))].

(** The message with its default for every property that is not kept. *)
Definition only (kept : string → bool) (m : t) : t := {|
  protocol := if kept "protocol" then m.(protocol) else Int 0;
  software := if kept "software" then m.(software) else "";
|}.

#[global] Instance codec {PB : Protobuf} : MessageCodec t :=
  {| msg_base := base; msg_encode := encode; msg_field := decode_field |}.

#[global] Program Instance spec {PB : Protobuf} (PS : ProtobufSpec PB) : MessageSpec PS t :=
  {| msg_wire := wire; msg_valid := valid; msg_merge := merge |}.
Next Obligation. solve_encode_wire. Qed.
Next Obligation. solve_decode_wire. Qed.
Next Obligation. solve_merge_base. Qed.
Next Obligation. intros. solve_advances decode_field. Qed.

#[global] Program Instance data : MessageData t partial :=
  {| msg_fromJSON := fromJSON; msg_toJSON := toJSON;
     msg_fromPartial := fromPartial; msg_full := full |}.
Next Obligation. solve_json fromJSON toJSON. Qed.
Next Obligation. solve_partial fromPartial full. Qed.

#[global] Instance schema_wire {PB : Protobuf} {PS : ProtobufSpec PB} : WireSchema wire schema.
Proof. solve_schema_wire wire schema. Qed.

#[global] Instance schema_merge : MergeSchema merge schema.
Proof. solve_schema_merge merge schema. Qed.

(** Its row in the table of message types. *)
Definition message {PB : Protobuf} {PS : ProtobufSpec PB} : message_type :=
  plain_message "App" nothing true schema only.

#[global] Instance message_lawful {PB : Protobuf} (PS : ProtobufSpec PB) : Lawful message.
Proof. solve_lawful decode_field fromJSON only. Qed.

End App.

(** ** [Consensus] (tendermint/version/types.js) *)

Module Consensus.

Record t := mk {
  block : number;
  app : number;
}.

#[global] Instance t_eta : Settable t := λ m, mk m.(block) m.(app).

Definition base : t := mk 0 0.

Definition encode {PB : Protobuf} (message : t) (writer : Writer) : Writer :=
  writer
  @> when (num_neq message.(block) 0) (fun w => w @> uint32 8 @> uint64 message.(block))
  @> when (num_neq message.(app) 0) (fun w => w @> uint32 16 @> uint64 message.(app)).

Definition decode_field {PB : Protobuf} (tag : Z) (message : t) : RM t :=
  match field_number tag with
  | 1 => v ← read_number read_uint64; mret (message <| block := v |>)
  | 2 => v ← read_number read_uint64; mret (message <| app := v |>)
  | _ => _ ← skipType (wire_type tag); mret message
  end.

Definition decode {PB : Protobuf} (length : option Z) : RM t :=
  decode_message length base decode_field.

Definition fromJSON (object : js) : result t :=
  block' ← field_or object "block" js_Number 0;
  app' ← field_or object "app" js_Number 0;
  Ok (mk block' app').

Definition toJSON (message : t) : js :=
  Obj ([("block", Num message.(block));
    ("app", Num message.(app))]).

Record partial := mkPartial {
  p_block : option number;
  p_app : option number;
}.

Definition fromPartial (object : partial) : t := {|
  block := object.(p_block) ?? Int 0;
  app := object.(p_app) ?? Int 0;
|}.

(** The object with no property given. *)
Definition nothing : partial := mkPartial None None.

(** The bytes [encode] writes. *)
Definition wire {PB : Protobuf} {PS : ProtobufSpec PB} (m : t) : bytes :=
  f_number e_uint64 8 m.(block) ++
  f_number e_uint64 16 m.(app).

Definition valid (m : t) : Prop :=
  uint64_ok m.(block) ∧ uint64_ok m.(app).

Definition encodable {PB : Protobuf} {PS : ProtobufSpec PB} (m : t) : Prop :=
  valid m ∧ small (wire m).

Definition merge (m a : t) : t := {|
  block := later_number m.(block) a.(block);
  app := later_number m.(app) a.(app);
|}.

(** A whole message seen as a partial one. *)
Definition full (m : t) : partial := {|
  p_block := Some m.(block);
  p_app := Some m.(app);
|}.

(** The message as its [.proto] file declares it. *)
Definition schema (m : t) : list field :=
  [implicit 1 (VInt Uint64 m.(block));
   implicit 2 (VInt Uint64 m.(app))].

(** The message with its default for every property that is not kept. *)
Definition only (kept : string → bool) (m : t) : t := {|
  block := if kept "block" then m.(block) else Int 0;
  app := if kept "app" then m.(app) else Int 0;
|}.

#[global] Instance codec {PB : Protobuf} : MessageCodec t :=
  {| msg_base := base; msg_encode := encode; msg_field := decode_field |}.

#[global] Program Instance spec {PB : Protobuf} (PS : ProtobufSpec PB) : MessageSpec PS t :=
  {| msg_wire := wire; msg_valid := valid; msg_merge := merge |}.
Next Obligation. solve_encode_wire. Qed.
Next Obligation. solve_decode_wire. Qed.
Next Obligation. solve_merge_base. Qed.
Next Obligation. intros. solve_advances decode_field. Qed.

#[global] Program Instance data : MessageData t partial :=
  {| msg_fromJSON := fromJSON; msg_toJSON := toJSON;
     msg_fromPartial := fromPartial; msg_full := full |}.
Next Obligation. solve_json fromJSON toJSON. Qed.
Next Obligation. solve_partial fromPartial full. Qed.

#[global] Instance schema_wire {PB : Protobuf} {PS : ProtobufSpec PB} : WireSchema wire schema.
Proof. solve_schema_wire wire schema. Qed.

#[global] Instance schema_merge : MergeSchema merge schema.
Proof. solve_schema_merge merge schema. Qed.

(** Its row in the table of message types. *)
Definition message {PB : Protobuf} {PS : ProtobufSpec PB} : message_type :=
  plain_message "Consensus" nothing true schema only.

#[global] Instance message_lawful {PB : Protobuf} (PS : ProtobufSpec PB) : Lawful message.
Proof. solve_lawful decode_field fromJSON only. Qed.

End Consensus.

(** ** [PublicKey] (tendermint/crypto/keys.js) *)

Module PublicKey.

Record t := mk {
  ed25519 : option bytes;
  secp256k1 : option bytes;
}.

#[global] Instance t_eta : Settable t := λ m, mk m.(ed25519) m.(secp256k1).

Definition base : t := mk None None.

Definition encode {PB : Protobuf} (message : t) (writer : Writer) : result Writer :=
  Ok writer
  @>= pure (defined message.(ed25519) (fun v w => w @> uint32 10 @> bytes_ v))
  @>= pure (defined message.(secp256k1) (fun v w => w @> uint32 18 @> bytes_ v)).

Definition decode_field {PB : Protobuf} (tag : Z) (message : t) : RM t :=
  match field_number tag with
  | 1 => v ← read_bytes; mret (message <| ed25519 := Some v |>)
  | 2 => v ← read_bytes; mret (message <| secp256k1 := Some v |>)
  | _ => _ ← skipType (wire_type tag); mret message
  end.

Definition decode {PB : Protobuf} (length : option Z) : RM t :=
  decode_message length base decode_field.

Definition fromJSON (object : js) : result t :=
  ed25519' ← field_or object "ed25519" (to_some bytesFromBase64) None;
  secp256k1' ← field_or object "secp256k1" (to_some bytesFromBase64) None;
  Ok (mk ed25519' secp256k1').

Definition toJSON (message : t) : js :=
  Obj (prop_opt "ed25519" (fun b => Str (base64FromBytes b)) message.(ed25519) ++
   prop_opt "secp256k1" (fun b => Str (base64FromBytes b)) message.(secp256k1)).

Record partial := mkPartial {
  p_ed25519 : option bytes;
  p_secp256k1 : option bytes;
}.

Definition fromPartial (object : partial) : t := {|
  ed25519 := object.(p_ed25519);
  secp256k1 := object.(p_secp256k1);
|}.

(** The object with no property given. *)
Definition nothing : partial := mkPartial None None.

(** The bytes [encode] writes. *)
Definition wire {PB : Protobuf} {PS : ProtobufSpec PB} (m : t) : bytes :=
  f_message 10 raw m.(ed25519) ++
  f_message 18 raw m.(secp256k1).

Definition valid (m : t) : Prop :=
  True.

(** The byte fields hold arrays, as the interface declares. *)
Definition typed (m : t) : bool := true.

(** The message without its empty byte arrays. *)
Definition normal (m : t) : t := {|
  ed25519 := m.(ed25519);
  secp256k1 := m.(secp256k1);
|}.

Definition encodable {PB : Protobuf} {PS : ProtobufSpec PB} (m : t) : Prop :=
  typed m = true ∧ valid m ∧ small (wire m).

Definition merge (m a : t) : t := {|
  ed25519 := later_message m.(ed25519) a.(ed25519);
  secp256k1 := later_message m.(secp256k1) a.(secp256k1);
|}.

(** A whole message seen as a partial one. *)
Definition full (m : t) : partial := {|
  p_ed25519 := m.(ed25519);
  p_secp256k1 := m.(secp256k1);
|}.

(** The message as its [.proto] file declares it. *)
Definition schema (m : t) : list field :=
  [singular 1 (Member "sum") VBytes m.(ed25519);
   singular 2 (Member "sum") VBytes m.(secp256k1)].

(** The message with its default for every property that is not kept. *)
Definition only (kept : string → bool) (m : t) : t := {|
  ed25519 := if kept "ed25519" then m.(ed25519) else None;
  secp256k1 := if kept "secp256k1" then m.(secp256k1) else None;
|}.

#[global] Instance codec {PB : Protobuf} : FallibleCodec t :=
  {| fmsg_base := base; fmsg_encode := encode; fmsg_field := decode_field |}.

#[global] Program Instance spec {PB : Protobuf} (PS : ProtobufSpec PB) : FallibleSpec PS t :=
  {| fmsg_wire := wire; fmsg_valid := valid; fmsg_typed := typed; fmsg_normal := normal;
     fmsg_merge := merge |}.
Next Obligation. solve_fencode_wire. Qed.
Next Obligation. intros. solve_fencode_throws encode typed. Qed.
Next Obligation. solve_fdecode_wire. Qed.
Next Obligation. solve_fmerge_base. Qed.
Next Obligation. intros. solve_fadvances decode_field. Qed.

#[global] Program Instance given_ : FalliblePartial t partial :=
  {| fmsg_fromPartial := fromPartial; fmsg_full := full; fmsg_given := typed |}.
Next Obligation. solve_fgiven fromPartial typed. Qed.
Next Obligation. solve_fpartial fromPartial full typed. Qed.

#[global] Program Instance json : FallibleJson t :=
  {| fmsg_fromJSON := fromJSON; fmsg_toJSON := toJSON;
     fmsg_named := fun _ => true; fmsg_known := fun m => m |}.
Next Obligation. solve_fjson fromJSON toJSON. Qed.
Next Obligation. reflexivity. Qed.

#[global] Instance schema_wire {PB : Protobuf} {PS : ProtobufSpec PB} : WireSchema wire schema.
Proof. solve_schema_wire wire schema. Qed.

#[global] Instance schema_normal : NormalSchema normal schema.
Proof. solve_schema_normal normal schema. Qed.

#[global] Instance schema_merge : MergeSchema merge schema.
Proof. solve_schema_merge merge schema. Qed.

(** Its row in the table of message types. *)
Definition message {PB : Protobuf} {PS : ProtobufSpec PB} : message_type :=
  fallible_message "PublicKey" nothing true schema only.

#[global] Instance message_lawful {PB : Protobuf} (PS : ProtobufSpec PB) : Lawful message.
Proof. solve_lawful decode_field fromJSON only. Qed.

End PublicKey.

(** ** [Proof] (tendermint/crypto/proof.js) *)

Module Proof.

Record t := mk {
  total : number;
  index : number;
  leafHash : option bytes;
  aunts : list bytes;
}.

#[global] Instance t_eta : Settable t := λ m, mk m.(total) m.(index) m.(leafHash) m.(aunts).

Definition base : t := mk 0 0 None [].

Definition encode {PB : Protobuf} (message : t) (writer : Writer) : result Writer :=
  Ok writer
  @>= pure (when (num_neq message.(total) 0) (fun w => w @> uint32 8 @> int64 message.(total)))
  @>= pure (when (num_neq message.(index) 0) (fun w => w @> uint32 16 @> int64 message.(index)))
  @>= bytes_field 26 message.(leafHash)
  @>= pure (each message.(aunts) (fun v w => w @> uint32 34 @> bytes_ v)).

Definition decode_field {PB : Protobuf} (tag : Z) (message : t) : RM t :=
  match field_number tag with
  | 1 => v ← read_number read_int64; mret (message <| total := v |>)
  | 2 => v ← read_number read_int64; mret (message <| index := v |>)
  | 3 => v ← read_bytes; mret (message <| leafHash := Some v |>)
  | 4 => v ← read_bytes; mret (message <| aunts := message.(aunts) ++ [v] |>)
  | _ => _ ← skipType (wire_type tag); mret message
  end.

Definition decode {PB : Protobuf} (length : option Z) : RM t :=
  decode_message length base decode_field.

Definition fromJSON (object : js) : result t :=
  total' ← field_or object "total" js_Number 0;
  index' ← field_or object "index" js_Number 0;
  leafHash' ← field_or object "leafHash" (to_some bytesFromBase64) None;
  aunts' ← field_or object "aunts" (to_list bytesFromBase64) [];
  Ok (mk total' index' leafHash' aunts').

Definition toJSON (message : t) : js :=
  Obj ([("total", Num message.(total));
    ("index", Num message.(index))] ++
   prop_opt "leafHash" (fun b => Str (base64FromBytes b)) message.(leafHash) ++
   [("aunts", Arr (map (fun b => Str (base64FromBytes b)) message.(aunts)))]).

Record partial := mkPartial {
  p_total : option number;
  p_index : option number;
  p_leafHash : option bytes;
  p_aunts : option (list bytes);
}.

Definition fromPartial (object : partial) : t := {|
  total := object.(p_total) ?? Int 0;
  index := object.(p_index) ?? Int 0;
  leafHash := Some (object.(p_leafHash) ?? []);
  aunts := (object.(p_aunts) ?? []);
|}.

(** The object with no property given. *)
Definition nothing : partial := mkPartial None None None None.

(** The bytes [encode] writes. *)
Definition wire {PB : Protobuf} {PS : ProtobufSpec PB} (m : t) : bytes :=
  f_number e_int64 8 m.(total) ++
  f_number e_int64 16 m.(index) ++
  f_bytes 26 m.(leafHash) ++
  f_repeated 34 raw m.(aunts).

Definition valid (m : t) : Prop :=
  int64_ok m.(total) ∧ int64_ok m.(index).

(** The byte fields hold arrays, as the interface declares. *)
Definition typed (m : t) : bool := given m.(leafHash).

(** The message without its empty byte arrays. *)
Definition normal (m : t) : t := {|
  total := m.(total);
  index := m.(index);
  leafHash := nonempty m.(leafHash);
  aunts := m.(aunts);
|}.

Definition encodable {PB : Protobuf} {PS : ProtobufSpec PB} (m : t) : Prop :=
  typed m = true ∧ valid m ∧ small (wire m).

Definition merge (m a : t) : t := {|
  total := later_number m.(total) a.(total);
  index := later_number m.(index) a.(index);
  leafHash := later_bytes m.(leafHash) a.(leafHash);
  aunts := m.(aunts) ++ a.(aunts);
|}.

(** A whole message seen as a partial one. *)
Definition full (m : t) : partial := {|
  p_total := Some m.(total);
  p_index := Some m.(index);
  p_leafHash := m.(leafHash);
  p_aunts := Some m.(aunts);
|}.

(** The message as its [.proto] file declares it. *)
Definition schema (m : t) : list field :=
  [implicit 1 (VInt Int64 m.(total));
   implicit 2 (VInt Int64 m.(index));
   implicit 3 (byte_array m.(leafHash));
   repeated 4 VBytes m.(aunts)].

(** The message with its default for every property that is not kept. *)
Definition only (kept : string → bool) (m : t) : t := {|
  total := if kept "total" then m.(total) else Int 0;
  index := if kept "index" then m.(index) else Int 0;
  leafHash := if kept "leafHash" then m.(leafHash) else None;
  aunts := if kept "aunts" then m.(aunts) else [];
|}.

#[global] Instance codec {PB : Protobuf} : FallibleCodec t :=
  {| fmsg_base := base; fmsg_encode := encode; fmsg_field := decode_field |}.

#[global] Program Instance spec {PB : Protobuf} (PS : ProtobufSpec PB) : FallibleSpec PS t :=
  {| fmsg_wire := wire; fmsg_valid := valid; fmsg_typed := typed; fmsg_normal := normal;
     fmsg_merge := merge |}.
Next Obligation. solve_fencode_wire. Qed.
Next Obligation. intros. solve_fencode_throws encode typed. Qed.
Next Obligation. solve_fdecode_wire. Qed.
Next Obligation. solve_fmerge_base. Qed.
Next Obligation. intros. solve_fadvances decode_field. Qed.

#[global] Program Instance given_ : FalliblePartial t partial :=
  {| fmsg_fromPartial := fromPartial; fmsg_full := full; fmsg_given := typed |}.
Next Obligation. solve_fgiven fromPartial typed. Qed.
Next Obligation. solve_fpartial fromPartial full typed. Qed.

#[global] Program Instance json : FallibleJson t :=
  {| fmsg_fromJSON := fromJSON; fmsg_toJSON := toJSON;
     fmsg_named := fun _ => true; fmsg_known := fun m => m |}.
Next Obligation. solve_fjson fromJSON toJSON. Qed.
Next Obligation. reflexivity. Qed.

#[global] Instance schema_wire {PB : Protobuf} {PS : ProtobufSpec PB} : WireSchema wire schema.
Proof. solve_schema_wire wire schema. Qed.

#[global] Instance schema_normal : NormalSchema normal schema.
Proof. solve_schema_normal normal schema. Qed.

#[global] Instance schema_merge : MergeSchema merge schema.
Proof. solve_schema_merge merge schema. Qed.

(** Its row in the table of message types. *)
Definition message {PB : Protobuf} {PS : ProtobufSpec PB} : message_type :=
  fallible_message "Proof" nothing true schema only.

#[global] Instance message_lawful {PB : Protobuf} (PS : ProtobufSpec PB) : Lawful message.
Proof. solve_lawful decode_field fromJSON only. Qed.

End Proof.

(** ** [ValueOp] (tendermint/crypto/proof.js) *)

Module ValueOp.

Record t := mk {
  key : option bytes;
  proof : option Proof.t;
}.

#[global] Instance t_eta : Settable t := λ m, mk m.(key) m.(proof).

Definition base : t := mk None None.

Definition encode {PB : Protobuf} (message : t) (writer : Writer) : result Writer :=
  Ok writer
  @>= bytes_field 10 message.(key)
  @>= defined_e message.(proof) (submessage 18 Proof.encode).

Definition decode_field {PB : Protobuf} (tag : Z) (message : t) : RM t :=
  match field_number tag with
  | 1 => v ← read_bytes; mret (message <| key := Some v |>)
  | 2 => v ← read_nested Proof.decode; mret (message <| proof := Some v |>)
  | _ => _ ← skipType (wire_type tag); mret message
  end.

Definition decode {PB : Protobuf} (length : option Z) : RM t :=
  decode_message length base decode_field.

Definition fromJSON (object : js) : result t :=
  key' ← field_or object "key" (to_some bytesFromBase64) None;
  proof' ← field_or object "proof" (to_some Proof.fromJSON) None;
  Ok (mk key' proof').

Definition toJSON (message : t) : js :=
  Obj (prop_opt "key" (fun b => Str (base64FromBytes b)) message.(key) ++
   prop_opt "proof" Proof.toJSON message.(proof)).

Record partial := mkPartial {
  p_key : option bytes;
  p_proof : option Proof.partial;
}.

Definition fromPartial (object : partial) : t := {|
  key := Some (object.(p_key) ?? []);
  proof := Proof.fromPartial <$> object.(p_proof);
|}.

(** The object with no property given. *)
Definition nothing : partial := mkPartial None None.

(** The bytes [encode] writes. *)
Definition wire {PB : Protobuf} {PS : ProtobufSpec PB} (m : t) : bytes :=
  f_bytes 10 m.(key) ++
  f_message 18 Proof.wire m.(proof).

Definition valid (m : t) : Prop :=
  from_option Proof.valid True m.(proof).

(** The byte fields hold arrays, as the interface declares. *)
Definition typed (m : t) : bool := given m.(key) && from_option Proof.typed true m.(proof).

(** The message without its empty byte arrays. *)
Definition normal (m : t) : t := {|
  key := nonempty m.(key);
  proof := Proof.normal <$> m.(proof);
|}.

Definition encodable {PB : Protobuf} {PS : ProtobufSpec PB} (m : t) : Prop :=
  typed m = true ∧ valid m ∧ small (wire m).

Definition merge (m a : t) : t := {|
  key := later_bytes m.(key) a.(key);
  proof := later_message m.(proof) (Proof.normal <$> a.(proof));
|}.

(** A whole message seen as a partial one. *)
Definition full (m : t) : partial := {|
  p_key := m.(key);
  p_proof := Proof.full <$> m.(proof);
|}.

(** The message as its [.proto] file declares it. *)
Definition schema (m : t) : list field :=
  [implicit 1 (byte_array m.(key));
   singular 2 Optional (message_value Proof.schema) m.(proof)].

(** The message with its default for every property that is not kept. *)
Definition only (kept : string → bool) (m : t) : t := {|
  key := if kept "key" then m.(key) else None;
  proof := if kept "proof" then m.(proof) else None;
|}.

#[global] Instance codec {PB : Protobuf} : FallibleCodec t :=
  {| fmsg_base := base; fmsg_encode := encode; fmsg_field := decode_field |}.

#[global] Program Instance spec {PB : Protobuf} (PS : ProtobufSpec PB) : FallibleSpec PS t :=
  {| fmsg_wire := wire; fmsg_valid := valid; fmsg_typed := typed; fmsg_normal := normal;
     fmsg_merge := merge |}.
Next Obligation. solve_fencode_wire. Qed.
Next Obligation. intros. solve_fencode_throws encode typed. Qed.
Next Obligation. solve_fdecode_wire. Qed.
Next Obligation. solve_fmerge_base. Qed.
Next Obligation. intros. solve_fadvances decode_field. Qed.

#[global] Program Instance given_ : FalliblePartial t partial :=
  {| fmsg_fromPartial := fromPartial; fmsg_full := full; fmsg_given := typed |}.
Next Obligation. solve_fgiven fromPartial typed. Qed.
Next Obligation. solve_fpartial fromPartial full typed. Qed.

#[global] Program Instance json : FallibleJson t :=
  {| fmsg_fromJSON := fromJSON; fmsg_toJSON := toJSON;
     fmsg_named := fun _ => true; fmsg_known := fun m => m |}.
Next Obligation. solve_fjson fromJSON toJSON. Qed.
Next Obligation. reflexivity. Qed.

#[global] Instance schema_wire {PB : Protobuf} {PS : ProtobufSpec PB} : WireSchema wire schema.
Proof. solve_schema_wire wire schema. Qed.

#[global] Instance schema_normal : NormalSchema normal schema.
Proof. solve_schema_normal normal schema. Qed.

#[global] Instance schema_merge : MergeSchema merge schema.
Proof. solve_schema_merge merge schema. Qed.

(** Its row in the table of message types. *)
Definition message {PB : Protobuf} {PS : ProtobufSpec PB} : message_type :=
  fallible_message "ValueOp" nothing true schema only.

#[global] Instance message_lawful {PB : Protobuf} (PS : ProtobufSpec PB) : Lawful message.
Proof. solve_lawful decode_field fromJSON only. Qed.

End ValueOp.

(** ** [DominoOp] (tendermint/crypto/proof.js) *)

Module DominoOp.

Record t := mk {
  key : string;
  input : string;
  output : string;
}.

#[global] Instance t_eta : Settable t := λ m, mk m.(key) m.(input) m.(output).

Definition base : t := mk "" "" "".

Definition encode {PB : Protobuf} (message : t) (writer : Writer) : Writer :=
  writer
  @> when (str_neq message.(key) "") (fun w => w @> uint32 10 @> string_ message.(key))
  @> when (str_neq message.(input) "") (fun w => w @> uint32 18 @> string_ message.(input))
  @> when (str_neq message.(output) "") (fun w => w @> uint32 26 @> string_ message.(output)).

Definition decode_field {PB : Protobuf} (tag : Z) (message : t) : RM t :=
  match field_number tag with
  | 1 => v ← read_string; mret (message <| key := v |>)
  | 2 => v ← read_string; mret (message <| input := v |>)
  | 3 => v ← read_string; mret (message <| output := v |>)
  | _ => _ ← skipType (wire_type tag); mret message
  end.

Definition decode {PB : Protobuf} (length : option Z) : RM t :=
  decode_message length base decode_field.

Definition fromJSON (object : js) : result t :=
  key' ← field_or object "key" to_string "";
  input' ← field_or object "input" to_string "";
  output' ← field_or object "output" to_string "";
  Ok (mk key' input' output').

Definition toJSON (message : t) : js :=
  Obj ([("key", Str message.(key));
    ("input", Str message.(input));
    ("output", Str message.(output))]).

Record partial := mkPartial {
  p_key : option string;
  p_input : option string;
  p_output : option string;
}.

Definition fromPartial (object : partial) : t := {|
  key := object.(p_key) ?? "";
  input := object.(p_input) ?? "";
  output := object.(p_output) ?? "";
|}.

(** The object with no property given. *)
Definition nothing : partial := mkPartial None None None.

(** The bytes [encode] writes. *)
Definition wire {PB : Protobuf} {PS : ProtobufSpec PB} (m : t) : bytes :=
  f_string 10 m.(key) ++
  f_string 18 m.(input) ++
  f_string 26 m.(output).

Definition valid (m : t) : Prop :=
  True.

Definition encodable {PB : Protobuf} {PS : ProtobufSpec PB} (m : t) : Prop :=
  valid m ∧ small (wire m).

Definition merge (m a : t) : t := {|
  key := later_string m.(key) a.(key);
  input := later_string m.(input) a.(input);
  output := later_string m.(output) a.(output);
|}.

(** A whole message seen as a partial one. *)
Definition full (m : t) : partial := {|
  p_key := Some m.(key);
  p_input := Some m.(input);
  p_output := Some m.(output);
|}.

(** The message as its [.proto] file declares it. *)
Definition schema (m : t) : list field :=
  [implicit 1 (VString m.(key));
   implicit 2 (VString m.(input));
   implicit 3 (VString m.(output))].

(** The message with its default for every property that is not kept. *)
Definition only (kept : string → bool) (m : t) : t := {|
  key := if kept "key" then m.(key) else "";
  input := if kept "input" then m.(input) else "";
  output := if kept "output" then m.(output) else "";
|}.

#[global] Instance codec {PB : Protobuf} : MessageCodec t :=
  {| msg_base := base; msg_encode := encode; msg_field := decode_field |}.

#[global] Program Instance spec {PB : Protobuf} (PS : ProtobufSpec PB) : MessageSpec PS t :=
  {| msg_wire := wire; msg_valid := valid; msg_merge := merge |}.
Next Obligation. solve_encode_wire. Qed.
Next Obligation. solve_decode_wire. Qed.
Next Obligation. solve_merge_base. Qed.
Next Obligation. intros. solve_advances decode_field. Qed.

#[global] Program Instance data : MessageData t partial :=
  {| msg_fromJSON := fromJSON; msg_toJSON := toJSON;
     msg_fromPartial := fromPartial; msg_full := full |}.
Next Obligation. solve_json fromJSON toJSON. Qed.
Next Obligation. solve_partial fromPartial full. Qed.

#[global] Instance schema_wire {PB : Protobuf} {PS : ProtobufSpec PB} : WireSchema wire schema.
Proof. solve_schema_wire wire schema. Qed.

#[global] Instance schema_merge : MergeSchema merge schema.
Proof. solve_schema_merge merge schema. Qed.

(** Its row in the table of message types. *)
Definition message {PB : Protobuf} {PS : ProtobufSpec PB} : message_type :=
  plain_message "DominoOp" nothing true schema only.

#[global] Instance message_lawful {PB : Protobuf} (PS : ProtobufSpec PB) : Lawful message.
Proof. solve_lawful decode_field fromJSON only. Qed.

End DominoOp.

(** ** [ProofOp] (tendermint/crypto/proof.js) *)

Module ProofOp.

Record t := mk {
  type_ : string;
  key : option bytes;
  data_ : option bytes;
}.

#[global] Instance t_eta : Settable t := λ m, mk m.(type_) m.(key) m.(data_).

Definition base : t := mk "" None None.

Definition encode {PB : Protobuf} (message : t) (writer : Writer) : result Writer :=
  Ok writer
  @>= pure (when (str_neq message.(type_) "") (fun w => w @> uint32 10 @> string_ message.(type_)))
  @>= bytes_field 18 message.(key)
  @>= bytes_field 26 message.(data_).

Definition decode_field {PB : Protobuf} (tag : Z) (message : t) : RM t :=
  match field_number tag with
  | 1 => v ← read_string; mret (message <| type_ := v |>)
  | 2 => v ← read_bytes; mret (message <| key := Some v |>)
  | 3 => v ← read_bytes; mret (message <| data_ := Some v |>)
  | _ => _ ← skipType (wire_type tag); mret message
  end.

Definition decode {PB : Protobuf} (length : option Z) : RM t :=
  decode_message length base decode_field.

Definition fromJSON (object : js) : result t :=
  type_' ← field_or object "type" to_string "";
  key' ← field_or object "key" (to_some bytesFromBase64) None;
  data_' ← field_or object "data" (to_some bytesFromBase64) None;
  Ok (mk type_' key' data_').

Definition toJSON (message : t) : js :=
  Obj ([("type", Str message.(type_))] ++
   prop_opt "key" (fun b => Str (base64FromBytes b)) message.(key) ++
   prop_opt "data" (fun b => Str (base64FromBytes b)) message.(data_)).

Record partial := mkPartial {
  p_type : option string;
  p_key : option bytes;
  p_data : option bytes;
}.

Definition fromPartial (object : partial) : t := {|
  type_ := object.(p_type) ?? "";
  key := Some (object.(p_key) ?? []);
  data_ := Some (object.(p_data) ?? []);
|}.

(** The object with no property given. *)
Definition nothing : partial := mkPartial None None None.

(** The bytes [encode] writes. *)
Definition wire {PB : Protobuf} {PS : ProtobufSpec PB} (m : t) : bytes :=
  f_string 10 m.(type_) ++
  f_bytes 18 m.(key) ++
  f_bytes 26 m.(data_).

Definition valid (m : t) : Prop :=
  True.

(** The byte fields hold arrays, as the interface declares. *)
Definition typed (m : t) : bool := given m.(key) && given m.(data_).

(** The message without its empty byte arrays. *)
Definition normal (m : t) : t := {|
  type_ := m.(type_);
  key := nonempty m.(key);
  data_ := nonempty m.(data_);
|}.

Definition encodable {PB : Protobuf} {PS : ProtobufSpec PB} (m : t) : Prop :=
  typed m = true ∧ valid m ∧ small (wire m).

Definition merge (m a : t) : t := {|
  type_ := later_string m.(type_) a.(type_);
  key := later_bytes m.(key) a.(key);
  data_ := later_bytes m.(data_) a.(data_);
|}.

(** A whole message seen as a partial one. *)
Definition full (m : t) : partial := {|
  p_type := Some m.(type_);
  p_key := m.(key);
  p_data := m.(data_);
|}.

(** The message as its [.proto] file declares it. *)
Definition schema (m : t) : list field :=
  [implicit 1 (VString m.(type_));
   implicit 2 (byte_array m.(key));
   implicit 3 (byte_array m.(data_))].

(** The message with its default for every property that is not kept. *)
Definition only (kept : string → bool) (m : t) : t := {|
  type_ := if kept "type" then m.(type_) else "";
  key := if kept "key" then m.(key) else None;
  data_ := if kept "data" then m.(data_) else None;
|}.

#[global] Instance codec {PB : Protobuf} : FallibleCodec t :=
  {| fmsg_base := base; fmsg_encode := encode; fmsg_field := decode_field |}.

#[global] Program Instance spec {PB : Protobuf} (PS : ProtobufSpec PB) : FallibleSpec PS t :=
  {| fmsg_wire := wire; fmsg_valid := valid; fmsg_typed := typed; fmsg_normal := normal;
     fmsg_merge := merge |}.
Next Obligation. solve_fencode_wire. Qed.
Next Obligation. intros. solve_fencode_throws encode typed. Qed.
Next Obligation. solve_fdecode_wire. Qed.
Next Obligation. solve_fmerge_base. Qed.
Next Obligation. intros. solve_fadvances decode_field. Qed.

#[global] Program Instance given_ : FalliblePartial t partial :=
  {| fmsg_fromPartial := fromPartial; fmsg_full := full; fmsg_given := typed |}.
Next Obligation. solve_fgiven fromPartial typed. Qed.
Next Obligation. solve_fpartial fromPartial full typed. Qed.

#[global] Program Instance json : FallibleJson t :=
  {| fmsg_fromJSON := fromJSON; fmsg_toJSON := toJSON;
     fmsg_named := fun _ => true; fmsg_known := fun m => m |}.
Next Obligation. solve_fjson fromJSON toJSON. Qed.
Next Obligation. reflexivity. Qed.

#[global] Instance schema_wire {PB : Protobuf} {PS : ProtobufSpec PB} : WireSchema wire schema.
Proof. solve_schema_wire wire schema. Qed.

#[global] Instance schema_normal : NormalSchema normal schema.
Proof. solve_schema_normal normal schema. Qed.

#[global] Instance schema_merge : MergeSchema merge schema.
Proof. solve_schema_merge merge schema. Qed.

(** Its row in the table of message types. *)
Definition message {PB : Protobuf} {PS : ProtobufSpec PB} : message_type :=
  fallible_message "ProofOp" nothing true schema only.

#[global] Instance message_lawful {PB : Protobuf} (PS : ProtobufSpec PB) : Lawful message.
Proof. solve_lawful decode_field fromJSON only. Qed.

End ProofOp.

(** ** [ProofOps] (tendermint/crypto/proof.js) *)

Module ProofOps.

Record t := mk {
  ops : list ProofOp.t;
}.

#[global] Instance t_eta : Settable t := λ m, mk m.(ops).

Definition base : t := mk [].

Definition encode {PB : Protobuf} (message : t) (writer : Writer) : result Writer :=
  Ok writer
  @>= each_e message.(ops) (submessage 10 ProofOp.encode).

Definition decode_field {PB : Protobuf} (tag : Z) (message : t) : RM t :=
  match field_number tag with
  | 1 => v ← read_nested ProofOp.decode; mret (message <| ops := message.(ops) ++ [v] |>)
  | _ => _ ← skipType (wire_type tag); mret message
  end.

Definition decode {PB : Protobuf} (length : option Z) : RM t :=
  decode_message length base decode_field.

Definition fromJSON (object : js) : result t :=
  ops' ← field_or object "ops" (to_list ProofOp.fromJSON) [];
  Ok (mk ops').

Definition toJSON (message : t) : js :=
  Obj ([("ops", Arr (map ProofOp.toJSON message.(ops)))]).

Record partial := mkPartial {
  p_ops : option (list ProofOp.partial);
}.

Definition fromPartial (object : partial) : t := {|
  ops := map ProofOp.fromPartial (object.(p_ops) ?? []);
|}.

(** The object with no property given. *)
Definition nothing : partial := mkPartial None.

(** The bytes [encode] writes. *)
Definition wire {PB : Protobuf} {PS : ProtobufSpec PB} (m : t) : bytes :=
  f_repeated 10 ProofOp.wire m.(ops).

Definition valid (m : t) : Prop :=
  Forall ProofOp.valid m.(ops).

(** The byte fields hold arrays, as the interface declares. *)
Definition typed (m : t) : bool := forallb ProofOp.typed m.(ops).

(** The message without its empty byte arrays. *)
Definition normal (m : t) : t := {|
  ops := map ProofOp.normal m.(ops);
|}.

Definition encodable {PB : Protobuf} {PS : ProtobufSpec PB} (m : t) : Prop :=
  typed m = true ∧ valid m ∧ small (wire m).

Definition merge (m a : t) : t := {|
  ops := m.(ops) ++ map ProofOp.normal a.(ops);
|}.

(** A whole message seen as a partial one. *)
Definition full (m : t) : partial := {|
  p_ops := Some (map ProofOp.full m.(ops));
|}.

(** The message as its [.proto] file declares it. *)
Definition schema (m : t) : list field :=
  [repeated 1 (message_value ProofOp.schema) m.(ops)].

(** The message with its default for every property that is not kept. *)
Definition only (kept : string → bool) (m : t) : t := {|
  ops := if kept "ops" then m.(ops) else [];
|}.

#[global] Instance codec {PB : Protobuf} : FallibleCodec t :=
  {| fmsg_base := base; fmsg_encode := encode; fmsg_field := decode_field |}.

#[global] Program Instance spec {PB : Protobuf} (PS : ProtobufSpec PB) : FallibleSpec PS t :=
  {| fmsg_wire := wire; fmsg_valid := valid; fmsg_typed := typed; fmsg_normal := normal;
     fmsg_merge := merge |}.
Next Obligation. solve_fencode_wire. Qed.
Next Obligation. intros. solve_fencode_throws encode typed. Qed.
Next Obligation. solve_fdecode_wire. Qed.
Next Obligation. solve_fmerge_base. Qed.
Next Obligation. intros. solve_fadvances decode_field. Qed.

#[global] Program Instance given_ : FalliblePartial t partial :=
  {| fmsg_fromPartial := fromPartial; fmsg_full := full; fmsg_given := typed |}.
Next Obligation. solve_fgiven fromPartial typed. Qed.
Next Obligation. solve_fpartial fromPartial full typed. Qed.

#[global] Program Instance json : FallibleJson t :=
  {| fmsg_fromJSON := fromJSON; fmsg_toJSON := toJSON;
     fmsg_named := fun _ => true; fmsg_known := fun m => m |}.
Next Obligation. solve_fjson fromJSON toJSON. Qed.
Next Obligation. reflexivity. Qed.

#[global] Instance schema_wire {PB : Protobuf} {PS : ProtobufSpec PB} : WireSchema wire schema.
Proof. solve_schema_wire wire schema. Qed.

#[global] Instance schema_normal : NormalSchema normal schema.
Proof. solve_schema_normal normal schema. Qed.

#[global] Instance schema_merge : MergeSchema merge schema.
Proof. solve_schema_merge merge schema. Qed.

(** Its row in the table of message types. *)
Definition message {PB : Protobuf} {PS : ProtobufSpec PB} : message_type :=
  fallible_message "ProofOps" nothing true schema only.

#[global] Instance message_lawful {PB : Protobuf} (PS : ProtobufSpec PB) : Lawful message.
Proof. solve_lawful decode_field fromJSON only. Qed.

End ProofOps.

(** ** [Validator] (tendermint/types/validator.js) *)

Module Validator.

Record t := mk {
  address : option bytes;
  pubKey : option PublicKey.t;
  votingPower : number;
  proposerPriority : number;
}.

#[global] Instance t_eta : Settable t := λ m, mk m.(address) m.(pubKey) m.(votingPower)
  m.(proposerPriority).

Definition base : t := mk None None 0 0.

Definition encode {PB : Protobuf} (message : t) (writer : Writer) : result Writer :=
  Ok writer
  @>= bytes_field 10 message.(address)
  @>= defined_e message.(pubKey) (submessage 18 PublicKey.encode)
  @>= pure (when (num_neq message.(votingPower) 0)
       (fun w => w @> uint32 24 @> int64 message.(votingPower)))
  @>= pure (when (num_neq message.(proposerPriority) 0)
       (fun w => w @> uint32 32 @> int64 message.(proposerPriority))).

Definition decode_field {PB : Protobuf} (tag : Z) (message : t) : RM t :=
  match field_number tag with
  | 1 => v ← read_bytes; mret (message <| address := Some v |>)
  | 2 => v ← read_nested PublicKey.decode; mret (message <| pubKey := Some v |>)
  | 3 => v ← read_number read_int64; mret (message <| votingPower := v |>)
  | 4 => v ← read_number read_int64; mret (message <| proposerPriority := v |>)
  | _ => _ ← skipType (wire_type tag); mret message
  end.

Definition decode {PB : Protobuf} (length : option Z) : RM t :=
  decode_message length base decode_field.

Definition fromJSON (object : js) : result t :=
  address' ← field_or object "address" (to_some bytesFromBase64) None;
  pubKey' ← field_or object "pubKey" (to_some PublicKey.fromJSON) None;
  votingPower' ← field_or object "votingPower" js_Number 0;
  proposerPriority' ← field_or object "proposerPriority" js_Number 0;
  Ok (mk address' pubKey' votingPower' proposerPriority').

Definition toJSON (message : t) : js :=
  Obj (prop_opt "address" (fun b => Str (base64FromBytes b)) message.(address) ++
   prop_opt "pubKey" PublicKey.toJSON message.(pubKey) ++
   [("votingPower", Num message.(votingPower));
    ("proposerPriority", Num message.(proposerPriority))]).

Record partial := mkPartial {
  p_address : option bytes;
  p_pubKey : option PublicKey.partial;
  p_votingPower : option number;
  p_proposerPriority : option number;
}.

Definition fromPartial (object : partial) : t := {|
  address := Some (object.(p_address) ?? []);
  pubKey := PublicKey.fromPartial <$> object.(p_pubKey);
  votingPower := object.(p_votingPower) ?? Int 0;
  proposerPriority := object.(p_proposerPriority) ?? Int 0;
|}.

(** The object with no property given. *)
Definition nothing : partial := mkPartial None None None None.

(** The bytes [encode] writes. *)
Definition wire {PB : Protobuf} {PS : ProtobufSpec PB} (m : t) : bytes :=
  f_bytes 10 m.(address) ++
  f_message 18 PublicKey.wire m.(pubKey) ++
  f_number e_int64 24 m.(votingPower) ++
  f_number e_int64 32 m.(proposerPriority).

Definition valid (m : t) : Prop :=
  from_option PublicKey.valid True m.(pubKey) ∧ int64_ok m.(votingPower) ∧ int64_ok m.(proposerPriority).

(** The byte fields hold arrays, as the interface declares. *)
Definition typed (m : t) : bool := given m.(address) && from_option PublicKey.typed true m.(pubKey).

(** The message without its empty byte arrays. *)
Definition normal (m : t) : t := {|
  address := nonempty m.(address);
  pubKey := PublicKey.normal <$> m.(pubKey);
  votingPower := m.(votingPower);
  proposerPriority := m.(proposerPriority);
|}.

Definition encodable {PB : Protobuf} {PS : ProtobufSpec PB} (m : t) : Prop :=
  typed m = true ∧ valid m ∧ small (wire m).

Definition merge (m a : t) : t := {|
  address := later_bytes m.(address) a.(address);
  pubKey := later_message m.(pubKey) (PublicKey.normal <$> a.(pubKey));
  votingPower := later_number m.(votingPower) a.(votingPower);
  proposerPriority := later_number m.(proposerPriority) a.(proposerPriority);
|}.

(** A whole message seen as a partial one. *)
Definition full (m : t) : partial := {|
  p_address := m.(address);
  p_pubKey := PublicKey.full <$> m.(pubKey);
  p_votingPower := Some m.(votingPower);
  p_proposerPriority := Some m.(proposerPriority);
|}.

(** The message as its [.proto] file declares it. *)
Definition schema (m : t) : list field :=
  [implicit 1 (byte_array m.(address));
   singular 2 Optional (message_value PublicKey.schema) m.(pubKey);
   implicit 3 (VInt Int64 m.(votingPower));
   implicit 4 (VInt Int64 m.(proposerPriority))].

(** The message with its default for every property that is not kept. *)
Definition only (kept : string → bool) (m : t) : t := {|
  address := if kept "address" then m.(address) else None;
  pubKey := if kept "pubKey" then m.(pubKey) else None;
  votingPower := if kept "votingPower" then m.(votingPower) else Int 0;
  proposerPriority := if kept "proposerPriority" then m.(proposerPriority) else Int 0;
|}.

#[global] Instance codec {PB : Protobuf} : FallibleCodec t :=
  {| fmsg_base := base; fmsg_encode := encode; fmsg_field := decode_field |}.

#[global] Program Instance spec {PB : Protobuf} (PS : ProtobufSpec PB) : FallibleSpec PS t :=
  {| fmsg_wire := wire; fmsg_valid := valid; fmsg_typed := typed; fmsg_normal := normal;
     fmsg_merge := merge |}.
Next Obligation. solve_fencode_wire. Qed.
Next Obligation. intros. solve_fencode_throws encode typed. Qed.
Next Obligation. solve_fdecode_wire. Qed.
Next Obligation. solve_fmerge_base. Qed.
Next Obligation. intros. solve_fadvances decode_field. Qed.

#[global] Program Instance given_ : FalliblePartial t partial :=
  {| fmsg_fromPartial := fromPartial; fmsg_full := full; fmsg_given := typed |}.
Next Obligation. solve_fgiven fromPartial typed. Qed.
Next Obligation. solve_fpartial fromPartial full typed. Qed.

#[global] Program Instance json : FallibleJson t :=
  {| fmsg_fromJSON := fromJSON; fmsg_toJSON := toJSON;
     fmsg_named := fun _ => true; fmsg_known := fun m => m |}.
Next Obligation. solve_fjson fromJSON toJSON. Qed.
Next Obligation. reflexivity. Qed.

#[global] Instance schema_wire {PB : Protobuf} {PS : ProtobufSpec PB} : WireSchema wire schema.
Proof. solve_schema_wire wire schema. Qed.

#[global] Instance schema_normal : NormalSchema normal schema.
Proof. solve_schema_normal normal schema. Qed.

#[global] Instance schema_merge : MergeSchema merge schema.
Proof. solve_schema_merge merge schema. Qed.

(** Its row in the table of message types. *)
Definition message {PB : Protobuf} {PS : ProtobufSpec PB} : message_type :=
  fallible_message "Validator" nothing true schema only.

#[global] Instance message_lawful {PB : Protobuf} (PS : ProtobufSpec PB) : Lawful message.
Proof. solve_lawful decode_field fromJSON only. Qed.

End Validator.

(** ** [ValidatorSet] (tendermint/types/validator.js) *)

Module ValidatorSet.

Record t := mk {
  validators : list Validator.t;
  proposer : option Validator.t;
  totalVotingPower : number;
}.

#[global] Instance t_eta : Settable t := λ m, mk m.(validators) m.(proposer)
  m.(totalVotingPower).

Definition base : t := mk [] None 0.

Definition encode {PB : Protobuf} (message : t) (writer : Writer) : result Writer :=
  Ok writer
  @>= each_e message.(validators) (submessage 10 Validator.encode)
  @>= defined_e message.(proposer) (submessage 18 Validator.encode)
  @>= pure (when (num_neq message.(totalVotingPower) 0)
       (fun w => w @> uint32 24 @> int64 message.(totalVotingPower))).

Definition decode_field {PB : Protobuf} (tag : Z) (message : t) : RM t :=
  match field_number tag with
  | 1 => v ← read_nested Validator.decode;
         mret (message <| validators := message.(validators) ++ [v] |>)
  | 2 => v ← read_nested Validator.decode; mret (message <| proposer := Some v |>)
  | 3 => v ← read_number read_int64; mret (message <| totalVotingPower := v |>)
  | _ => _ ← skipType (wire_type tag); mret message
  end.

Definition decode {PB : Protobuf} (length : option Z) : RM t :=
  decode_message length base decode_field.

Definition fromJSON (object : js) : result t :=
  validators' ← field_or object "validators" (to_list Validator.fromJSON) [];
  proposer' ← field_or object "proposer" (to_some Validator.fromJSON) None;
  totalVotingPower' ← field_or object "totalVotingPower" js_Number 0;
  Ok (mk validators' proposer' totalVotingPower').

Definition toJSON (message : t) : js :=
  Obj ([("validators", Arr (map Validator.toJSON message.(validators)))] ++
   prop_opt "proposer" Validator.toJSON message.(proposer) ++
   [("totalVotingPower", Num message.(totalVotingPower))]).

Record partial := mkPartial {
  p_validators : option (list Validator.partial);
  p_proposer : option Validator.partial;
  p_totalVotingPower : option number;
}.

Definition fromPartial (object : partial) : t := {|
  validators := map Validator.fromPartial (object.(p_validators) ?? []);
  proposer := Validator.fromPartial <$> object.(p_proposer);
  totalVotingPower := object.(p_totalVotingPower) ?? Int 0;
|}.

(** The object with no property given. *)
Definition nothing : partial := mkPartial None None None.

(** The bytes [encode] writes. *)
Definition wire {PB : Protobuf} {PS : ProtobufSpec PB} (m : t) : bytes :=
  f_repeated 10 Validator.wire m.(validators) ++
  f_message 18 Validator.wire m.(proposer) ++
  f_number e_int64 24 m.(totalVotingPower).

Definition valid (m : t) : Prop :=
  Forall Validator.valid m.(validators) ∧ from_option Validator.valid True m.(proposer) ∧ int64_ok m.(totalVotingPower).

(** The byte fields hold arrays, as the interface declares. *)
Definition typed (m : t) : bool := forallb Validator.typed m.(validators) && from_option Validator.typed true m.(proposer).

(** The message without its empty byte arrays. *)
Definition normal (m : t) : t := {|
  validators := map Validator.normal m.(validators);
  proposer := Validator.normal <$> m.(proposer);
  totalVotingPower := m.(totalVotingPower);
|}.

Definition encodable {PB : Protobuf} {PS : ProtobufSpec PB} (m : t) : Prop :=
  typed m = true ∧ valid m ∧ small (wire m).

Definition merge (m a : t) : t := {|
  validators := m.(validators) ++ map Validator.normal a.(validators);
  proposer := later_message m.(proposer) (Validator.normal <$> a.(proposer));
  totalVotingPower := later_number m.(totalVotingPower) a.(totalVotingPower);
|}.

(** A whole message seen as a partial one. *)
Definition full (m : t) : partial := {|
  p_validators := Some (map Validator.full m.(validators));
  p_proposer := Validator.full <$> m.(proposer);
  p_totalVotingPower := Some m.(totalVotingPower);
|}.

(** The message as its [.proto] file declares it. *)
Definition schema (m : t) : list field :=
  [repeated 1 (message_value Validator.schema) m.(validators);
   singular 2 Optional (message_value Validator.schema) m.(proposer);
   implicit 3 (VInt Int64 m.(totalVotingPower))].

(** The message with its default for every property that is not kept. *)
Definition only (kept : string → bool) (m : t) : t := {|
  validators := if kept "validators" then m.(validators) else [];
  proposer := if kept "proposer" then m.(proposer) else None;
  totalVotingPower := if kept "totalVotingPower" then m.(totalVotingPower) else Int 0;
|}.

#[global] Instance codec {PB : Protobuf} : FallibleCodec t :=
  {| fmsg_base := base; fmsg_encode := encode; fmsg_field := decode_field |}.

#[global] Program Instance spec {PB : Protobuf} (PS : ProtobufSpec PB) : FallibleSpec PS t :=
  {| fmsg_wire := wire; fmsg_valid := valid; fmsg_typed := typed; fmsg_normal := normal;
     fmsg_merge := merge |}.
Next Obligation. solve_fencode_wire. Qed.
Next Obligation. intros. solve_fencode_throws encode typed. Qed.
Next Obligation. solve_fdecode_wire. Qed.
Next Obligation. solve_fmerge_base. Qed.
Next Obligation. intros. solve_fadvances decode_field. Qed.

#[global] Program Instance given_ : FalliblePartial t partial :=
  {| fmsg_fromPartial := fromPartial; fmsg_full := full; fmsg_given := typed |}.
Next Obligation. solve_fgiven fromPartial typed. Qed.
Next Obligation. solve_fpartial fromPartial full typed. Qed.

#[global] Program Instance json : FallibleJson t :=
  {| fmsg_fromJSON := fromJSON; fmsg_toJSON := toJSON;
     fmsg_named := fun _ => true; fmsg_known := fun m => m |}.
Next Obligation. solve_fjson fromJSON toJSON. Qed.
Next Obligation. reflexivity. Qed.

#[global] Instance schema_wire {PB : Protobuf} {PS : ProtobufSpec PB} : WireSchema wire schema.
Proof. solve_schema_wire wire schema. Qed.

#[global] Instance schema_normal : NormalSchema normal schema.
Proof. solve_schema_normal normal schema. Qed.

#[global] Instance schema_merge : MergeSchema merge schema.
Proof. solve_schema_merge merge schema. Qed.

(** Its row in the table of message types. *)
Definition message {PB : Protobuf} {PS : ProtobufSpec PB} : message_type :=
  fallible_message "ValidatorSet" nothing true schema only.

#[global] Instance message_lawful {PB : Protobuf} (PS : ProtobufSpec PB) : Lawful message.
Proof. solve_lawful decode_field fromJSON only. Qed.

End ValidatorSet.

(** ** [SimpleValidator] (tendermint/types/validator.js) *)

Module SimpleValidator.

Record t := mk {
  pubKey : option PublicKey.t;
  votingPower : number;
}.

#[global] Instance t_eta : Settable t := λ m, mk m.(pubKey) m.(votingPower).

Definition base : t := mk None 0.

Definition encode {PB : Protobuf} (message : t) (writer : Writer) : result Writer :=
  Ok writer
  @>= defined_e message.(pubKey) (submessage 10 PublicKey.encode)
  @>= pure (when (num_neq message.(votingPower) 0)
       (fun w => w @> uint32 16 @> int64 message.(votingPower))).

Definition decode_field {PB : Protobuf} (tag : Z) (message : t) : RM t :=
  match field_number tag with
  | 1 => v ← read_nested PublicKey.decode; mret (message <| pubKey := Some v |>)
  | 2 => v ← read_number read_int64; mret (message <| votingPower := v |>)
  | _ => _ ← skipType (wire_type tag); mret message
  end.

Definition decode {PB : Protobuf} (length : option Z) : RM t :=
  decode_message length base decode_field.

Definition fromJSON (object : js) : result t :=
  pubKey' ← field_or object "pubKey" (to_some PublicKey.fromJSON) None;
  votingPower' ← field_or object "votingPower" js_Number 0;
  Ok (mk pubKey' votingPower').

Definition toJSON (message : t) : js :=
  Obj (prop_opt "pubKey" PublicKey.toJSON message.(pubKey) ++
   [("votingPower", Num message.(votingPower))]).

Record partial := mkPartial {
  p_pubKey : option PublicKey.partial;
  p_votingPower : option number;
}.

Definition fromPartial (object : partial) : t := {|
  pubKey := PublicKey.fromPartial <$> object.(p_pubKey);
  votingPower := object.(p_votingPower) ?? Int 0;
|}.

(** The object with no property given. *)
Definition nothing : partial := mkPartial None None.

(** The bytes [encode] writes. *)
Definition wire {PB : Protobuf} {PS : ProtobufSpec PB} (m : t) : bytes :=
  f_message 10 PublicKey.wire m.(pubKey) ++
  f_number e_int64 16 m.(votingPower).

Definition valid (m : t) : Prop :=
  from_option PublicKey.valid True m.(pubKey) ∧ int64_ok m.(votingPower).

(** The byte fields hold arrays, as the interface declares. *)
Definition typed (m : t) : bool := from_option PublicKey.typed true m.(pubKey).

(** The message without its empty byte arrays. *)
Definition normal (m : t) : t := {|
  pubKey := PublicKey.normal <$> m.(pubKey);
  votingPower := m.(votingPower);
|}.

Definition encodable {PB : Protobuf} {PS : ProtobufSpec PB} (m : t) : Prop :=
  typed m = true ∧ valid m ∧ small (wire m).

Definition merge (m a : t) : t := {|
  pubKey := later_message m.(pubKey) (PublicKey.normal <$> a.(pubKey));
  votingPower := later_number m.(votingPower) a.(votingPower);
|}.

(** A whole message seen as a partial one. *)
Definition full (m : t) : partial := {|
  p_pubKey := PublicKey.full <$> m.(pubKey);
  p_votingPower := Some m.(votingPower);
|}.

(** The message as its [.proto] file declares it. *)
Definition schema (m : t) : list field :=
  [singular 1 Optional (message_value PublicKey.schema) m.(pubKey);
   implicit 2 (VInt Int64 m.(votingPower))].

(** The message with its default for every property that is not kept. *)
Definition only (kept : string → bool) (m : t) : t := {|
  pubKey := if kept "pubKey" then m.(pubKey) else None;
  votingPower := if kept "votingPower" then m.(votingPower) else Int 0;
|}.

#[global] Instance codec {PB : Protobuf} : FallibleCodec t :=
  {| fmsg_base := base; fmsg_encode := encode; fmsg_field := decode_field |}.

#[global] Program Instance spec {PB : Protobuf} (PS : ProtobufSpec PB) : FallibleSpec PS t :=
  {| fmsg_wire := wire; fmsg_valid := valid; fmsg_typed := typed; fmsg_normal := normal;
     fmsg_merge := merge |}.
Next Obligation. solve_fencode_wire. Qed.
Next Obligation. intros. solve_fencode_throws encode typed. Qed.
Next Obligation. solve_fdecode_wire. Qed.
Next Obligation. solve_fmerge_base. Qed.
Next Obligation. intros. solve_fadvances decode_field. Qed.

#[global] Program Instance given_ : FalliblePartial t partial :=
  {| fmsg_fromPartial := fromPartial; fmsg_full := full; fmsg_given := typed |}.
Next Obligation. solve_fgiven fromPartial typed. Qed.
Next Obligation. solve_fpartial fromPartial full typed. Qed.

#[global] Program Instance json : FallibleJson t :=
  {| fmsg_fromJSON := fromJSON; fmsg_toJSON := toJSON;
     fmsg_named := fun _ => true; fmsg_known := fun m => m |}.
Next Obligation. solve_fjson fromJSON toJSON. Qed.
Next Obligation. reflexivity. Qed.

#[global] Instance schema_wire {PB : Protobuf} {PS : ProtobufSpec PB} : WireSchema wire schema.
Proof. solve_schema_wire wire schema. Qed.

#[global] Instance schema_normal : NormalSchema normal schema.
Proof. solve_schema_normal normal schema. Qed.

#[global] Instance schema_merge : MergeSchema merge schema.
Proof. solve_schema_merge merge schema. Qed.

(** Its row in the table of message types. *)
Definition message {PB : Protobuf} {PS : ProtobufSpec PB} : message_type :=
  fallible_message "SimpleValidator" nothing true schema only.

#[global] Instance message_lawful {PB : Protobuf} (PS : ProtobufSpec PB) : Lawful message.
Proof. solve_lawful decode_field fromJSON only. Qed.

End SimpleValidator.

(** ** [PartSetHeader] (tendermint/types/types.js) *)

Module PartSetHeader.

Record t := mk {
  total : number;
  hash : option bytes;
}.

#[global] Instance t_eta : Settable t := λ m, mk m.(total) m.(hash).

Definition base : t := mk 0 None.

Definition encode {PB : Protobuf} (message : t) (writer : Writer) : result Writer :=
  Ok writer
  @>= pure (when (num_neq message.(total) 0) (fun w => w @> uint32 8 @> uint32 message.(total)))
  @>= bytes_field 18 message.(hash).

Definition decode_field {PB : Protobuf} (tag : Z) (message : t) : RM t :=
  match field_number tag with
  | 1 => v ← read_uint32; mret (message <| total := Int v |>)
  | 2 => v ← read_bytes; mret (message <| hash := Some v |>)
  | _ => _ ← skipType (wire_type tag); mret message
  end.

Definition decode {PB : Protobuf} (length : option Z) : RM t :=
  decode_message length base decode_field.

Definition fromJSON (object : js) : result t :=
  total' ← field_or object "total" js_Number 0;
  hash' ← field_or object "hash" (to_some bytesFromBase64) None;
  Ok (mk total' hash').

Definition toJSON (message : t) : js :=
  Obj ([("total", Num message.(total))] ++
   prop_opt "hash" (fun b => Str (base64FromBytes b)) message.(hash)).

Record partial := mkPartial {
  p_total : option number;
  p_hash : option bytes;
}.

Definition fromPartial (object : partial) : t := {|
  total := object.(p_total) ?? Int 0;
  hash := Some (object.(p_hash) ?? []);
|}.

(** The object with no property given. *)
Definition nothing : partial := mkPartial None None.

(** The bytes [encode] writes. *)
Definition wire {PB : Protobuf} {PS : ProtobufSpec PB} (m : t) : bytes :=
  f_number e_uint32 8 m.(total) ++
  f_bytes 18 m.(hash).

Definition valid (m : t) : Prop :=
  uint32_ok m.(total).

(** The byte fields hold arrays, as the interface declares. *)
Definition typed (m : t) : bool := given m.(hash).

(** The message without its empty byte arrays. *)
Definition normal (m : t) : t := {|
  total := m.(total);
  hash := nonempty m.(hash);
|}.

Definition encodable {PB : Protobuf} {PS : ProtobufSpec PB} (m : t) : Prop :=
  typed m = true ∧ valid m ∧ small (wire m).

Definition merge (m a : t) : t := {|
  total := later_number m.(total) a.(total);
  hash := later_bytes m.(hash) a.(hash);
|}.

(** A whole message seen as a partial one. *)
Definition full (m : t) : partial := {|
  p_total := Some m.(total);
  p_hash := m.(hash);
|}.

(** The message as its [.proto] file declares it. *)
Definition schema (m : t) : list field :=
  [implicit 1 (VInt Uint32 m.(total));
   implicit 2 (byte_array m.(hash))].

(** The message with its default for every property that is not kept. *)
Definition only (kept : string → bool) (m : t) : t := {|
  total := if kept "total" then m.(total) else Int 0;
  hash := if kept "hash" then m.(hash) else None;
|}.

#[global] Instance codec {PB : Protobuf} : FallibleCodec t :=
  {| fmsg_base := base; fmsg_encode := encode; fmsg_field := decode_field |}.

#[global] Program Instance spec {PB : Protobuf} (PS : ProtobufSpec PB) : FallibleSpec PS t :=
  {| fmsg_wire := wire; fmsg_valid := valid; fmsg_typed := typed; fmsg_normal := normal;
     fmsg_merge := merge |}.
Next Obligation. solve_fencode_wire. Qed.
Next Obligation. intros. solve_fencode_throws encode typed. Qed.
Next Obligation. solve_fdecode_wire. Qed.
Next Obligation. solve_fmerge_base. Qed.
Next Obligation. intros. solve_fadvances decode_field. Qed.

#[global] Program Instance given_ : FalliblePartial t partial :=
  {| fmsg_fromPartial := fromPartial; fmsg_full := full; fmsg_given := typed |}.
Next Obligation. solve_fgiven fromPartial typed. Qed.
Next Obligation. solve_fpartial fromPartial full typed. Qed.

#[global] Program Instance json : FallibleJson t :=
  {| fmsg_fromJSON := fromJSON; fmsg_toJSON := toJSON;
     fmsg_named := fun _ => true; fmsg_known := fun m => m |}.
Next Obligation. solve_fjson fromJSON toJSON. Qed.
Next Obligation. reflexivity. Qed.

#[global] Instance schema_wire {PB : Protobuf} {PS : ProtobufSpec PB} : WireSchema wire schema.
Proof. solve_schema_wire wire schema. Qed.

#[global] Instance schema_normal : NormalSchema normal schema.
Proof. solve_schema_normal normal schema. Qed.

#[global] Instance schema_merge : MergeSchema merge schema.
Proof. solve_schema_merge merge schema. Qed.

(** Its row in the table of message types. *)
Definition message {PB : Protobuf} {PS : ProtobufSpec PB} : message_type :=
  fallible_message "PartSetHeader" nothing true schema only.

#[global] Instance message_lawful {PB : Protobuf} (PS : ProtobufSpec PB) : Lawful message.
Proof. solve_lawful decode_field fromJSON only. Qed.

End PartSetHeader.

(** ** [Part] (tendermint/types/types.js) *)

Module Part.

Record t := mk {
  index : number;
  bytes_ : option bytes;
  proof : option Proof.t;
}.

#[global] Instance t_eta : Settable t := λ m, mk m.(index) m.(bytes_) m.(proof).

Definition base : t := mk 0 None None.

Definition encode {PB : Protobuf} (message : t) (writer : Writer) : result Writer :=
  Ok writer
  @>= pure (when (num_neq message.(index) 0) (fun w => w @> uint32 8 @> uint32 message.(index)))
  @>= bytes_field 18 message.(bytes_)
  @>= defined_e message.(proof) (submessage 26 Proof.encode).

Definition decode_field {PB : Protobuf} (tag : Z) (message : t) : RM t :=
  match field_number tag with
  | 1 => v ← read_uint32; mret (message <| index := Int v |>)
  | 2 => v ← read_bytes; mret (message <| bytes_ := Some v |>)
  | 3 => v ← read_nested Proof.decode; mret (message <| proof := Some v |>)
  | _ => _ ← skipType (wire_type tag); mret message
  end.

Definition decode {PB : Protobuf} (length : option Z) : RM t :=
  decode_message length base decode_field.

Definition fromJSON (object : js) : result t :=
  index' ← field_or object "index" js_Number 0;
  bytes_' ← field_or object "bytes" (to_some bytesFromBase64) None;
  proof' ← field_or object "proof" (to_some Proof.fromJSON) None;
  Ok (mk index' bytes_' proof').

Definition toJSON (message : t) : js :=
  Obj ([("index", Num message.(index))] ++
   prop_opt "bytes" (fun b => Str (base64FromBytes b)) message.(bytes_) ++
   prop_opt "proof" Proof.toJSON message.(proof)).

Record partial := mkPartial {
  p_index : option number;
  p_bytes : option bytes;
  p_proof : option Proof.partial;
}.

Definition fromPartial (object : partial) : t := {|
  index := object.(p_index) ?? Int 0;
  bytes_ := Some (object.(p_bytes) ?? []);
  proof := Proof.fromPartial <$> object.(p_proof);
|}.

(** The object with no property given. *)
Definition nothing : partial := mkPartial None None None.

(** The bytes [encode] writes. *)
Definition wire {PB : Protobuf} {PS : ProtobufSpec PB} (m : t) : bytes :=
  f_number e_uint32 8 m.(index) ++
  f_bytes 18 m.(bytes_) ++
  f_message 26 Proof.wire m.(proof).

Definition valid (m : t) : Prop :=
  uint32_ok m.(index) ∧ from_option Proof.valid True m.(proof).

(** The byte fields hold arrays, as the interface declares. *)
Definition typed (m : t) : bool := given m.(bytes_) && from_option Proof.typed true m.(proof).

(** The message without its empty byte arrays. *)
Definition normal (m : t) : t := {|
  index := m.(index);
  bytes_ := nonempty m.(bytes_);
  proof := Proof.normal <$> m.(proof);
|}.

Definition encodable {PB : Protobuf} {PS : ProtobufSpec PB} (m : t) : Prop :=
  typed m = true ∧ valid m ∧ small (wire m).

Definition merge (m a : t) : t := {|
  index := later_number m.(index) a.(index);
  bytes_ := later_bytes m.(bytes_) a.(bytes_);
  proof := later_message m.(proof) (Proof.normal <$> a.(proof));
|}.

(** A whole message seen as a partial one. *)
Definition full (m : t) : partial := {|
  p_index := Some m.(index);
  p_bytes := m.(bytes_);
  p_proof := Proof.full <$> m.(proof);
|}.

(** The message as its [.proto] file declares it. *)
Definition schema (m : t) : list field :=
  [implicit 1 (VInt Uint32 m.(index));
   implicit 2 (byte_array m.(bytes_));
   singular 3 Optional (message_value Proof.schema) m.(proof)].

(** The message with its default for every property that is not kept. *)
Definition only (kept : string → bool) (m : t) : t := {|
  index := if kept "index" then m.(index) else Int 0;
  bytes_ := if kept "bytes" then m.(bytes_) else None;
  proof := if kept "proof" then m.(proof) else None;
|}.

#[global] Instance codec {PB : Protobuf} : FallibleCodec t :=
  {| fmsg_base := base; fmsg_encode := encode; fmsg_field := decode_field |}.

#[global] Program Instance spec {PB : Protobuf} (PS : ProtobufSpec PB) : FallibleSpec PS t :=
  {| fmsg_wire := wire; fmsg_valid := valid; fmsg_typed := typed; fmsg_normal := normal;
     fmsg_merge := merge |}.
Next Obligation. solve_fencode_wire. Qed.
Next Obligation. intros. solve_fencode_throws encode typed. Qed.
Next Obligation. solve_fdecode_wire. Qed.
Next Obligation. solve_fmerge_base. Qed.
Next Obligation. intros. solve_fadvances decode_field. Qed.

#[global] Program Instance given_ : FalliblePartial t partial :=
  {| fmsg_fromPartial := fromPartial; fmsg_full := full; fmsg_given := typed |}.
Next Obligation. solve_fgiven fromPartial typed. Qed.
Next Obligation. solve_fpartial fromPartial full typed. Qed.

#[global] Program Instance json : FallibleJson t :=
  {| fmsg_fromJSON := fromJSON; fmsg_toJSON := toJSON;
     fmsg_named := fun _ => true; fmsg_known := fun m => m |}.
Next Obligation. solve_fjson fromJSON toJSON. Qed.
Next Obligation. reflexivity. Qed.

#[global] Instance schema_wire {PB : Protobuf} {PS : ProtobufSpec PB} : WireSchema wire schema.
Proof. solve_schema_wire wire schema. Qed.

#[global] Instance schema_normal : NormalSchema normal schema.
Proof. solve_schema_normal normal schema. Qed.

#[global] Instance schema_merge : MergeSchema merge schema.
Proof. solve_schema_merge merge schema. Qed.

(** Its row in the table of message types. *)
Definition message {PB : Protobuf} {PS : ProtobufSpec PB} : message_type :=
  fallible_message "Part" nothing true schema only.

#[global] Instance message_lawful {PB : Protobuf} (PS : ProtobufSpec PB) : Lawful message.
Proof. solve_lawful decode_field fromJSON only. Qed.

End Part.

(** ** [BlockID] (tendermint/types/types.js) *)

Module BlockID.

Record t := mk {
  hash : option bytes;
  partSetHeader : option PartSetHeader.t;
}.

#[global] Instance t_eta : Settable t := λ m, mk m.(hash) m.(partSetHeader).

Definition base : t := mk None None.

Definition encode {PB : Protobuf} (message : t) (writer : Writer) : result Writer :=
  Ok writer
  @>= bytes_field 10 message.(hash)
  @>= defined_e message.(partSetHeader) (submessage 18 PartSetHeader.encode).

Definition decode_field {PB : Protobuf} (tag : Z) (message : t) : RM t :=
  match field_number tag with
  | 1 => v ← read_bytes; mret (message <| hash := Some v |>)
  | 2 => v ← read_nested PartSetHeader.decode; mret (message <| partSetHeader := Some v |>)
  | _ => _ ← skipType (wire_type tag); mret message
  end.

Definition decode {PB : Protobuf} (length : option Z) : RM t :=
  decode_message length base decode_field.

Definition fromJSON (object : js) : result t :=
  hash' ← field_or object "hash" (to_some bytesFromBase64) None;
  partSetHeader' ← field_or object "partSetHeader" (to_some PartSetHeader.fromJSON) None;
  Ok (mk hash' partSetHeader').

Definition toJSON (message : t) : js :=
  Obj (prop_opt "hash" (fun b => Str (base64FromBytes b)) message.(hash) ++
   prop_opt "partSetHeader" PartSetHeader.toJSON message.(partSetHeader)).

Record partial := mkPartial {
  p_hash : option bytes;
  p_partSetHeader : option PartSetHeader.partial;
}.

Definition fromPartial (object : partial) : t := {|
  hash := Some (object.(p_hash) ?? []);
  partSetHeader := PartSetHeader.fromPartial <$> object.(p_partSetHeader);
|}.

(** The object with no property given. *)
Definition nothing : partial := mkPartial None None.

(** The bytes [encode] writes. *)
Definition wire {PB : Protobuf} {PS : ProtobufSpec PB} (m : t) : bytes :=
  f_bytes 10 m.(hash) ++
  f_message 18 PartSetHeader.wire m.(partSetHeader).

Definition valid (m : t) : Prop :=
  from_option PartSetHeader.valid True m.(partSetHeader).

(** The byte fields hold arrays, as the interface declares. *)
Definition typed (m : t) : bool := given m.(hash) && from_option PartSetHeader.typed true m.(partSetHeader).

(** The message without its empty byte arrays. *)
Definition normal (m : t) : t := {|
  hash := nonempty m.(hash);
  partSetHeader := PartSetHeader.normal <$> m.(partSetHeader);
|}.

Definition encodable {PB : Protobuf} {PS : ProtobufSpec PB} (m : t) : Prop :=
  typed m = true ∧ valid m ∧ small (wire m).

Definition merge (m a : t) : t := {|
  hash := later_bytes m.(hash) a.(hash);
  partSetHeader := later_message m.(partSetHeader) (PartSetHeader.normal <$> a.(partSetHeader));
|}.

(** A whole message seen as a partial one. *)
Definition full (m : t) : partial := {|
  p_hash := m.(hash);
  p_partSetHeader := PartSetHeader.full <$> m.(partSetHeader);
|}.

(** The message as its [.proto] file declares it. *)
Definition schema (m : t) : list field :=
  [implicit 1 (byte_array m.(hash));
   singular 2 Optional (message_value PartSetHeader.schema) m.(partSetHeader)].

(** The message with its default for every property that is not kept. *)
Definition only (kept : string → bool) (m : t) : t := {|
  hash := if kept "hash" then m.(hash) else None;
  partSetHeader := if kept "partSetHeader" then m.(partSetHeader) else None;
|}.

#[global] Instance codec {PB : Protobuf} : FallibleCodec t :=
  {| fmsg_base := base; fmsg_encode := encode; fmsg_field := decode_field |}.

#[global] Program Instance spec {PB : Protobuf} (PS : ProtobufSpec PB) : FallibleSpec PS t :=
  {| fmsg_wire := wire; fmsg_valid := valid; fmsg_typed := typed; fmsg_normal := normal;
     fmsg_merge := merge |}.
Next Obligation. solve_fencode_wire. Qed.
Next Obligation. intros. solve_fencode_throws encode typed. Qed.
Next Obligation. solve_fdecode_wire. Qed.
Next Obligation. solve_fmerge_base. Qed.
Next Obligation. intros. solve_fadvances decode_field. Qed.

#[global] Program Instance given_ : FalliblePartial t partial :=
  {| fmsg_fromPartial := fromPartial; fmsg_full := full; fmsg_given := typed |}.
Next Obligation. solve_fgiven fromPartial typed. Qed.
Next Obligation. solve_fpartial fromPartial full typed. Qed.

#[global] Program Instance json : FallibleJson t :=
  {| fmsg_fromJSON := fromJSON; fmsg_toJSON := toJSON;
     fmsg_named := fun _ => true; fmsg_known := fun m => m |}.
Next Obligation. solve_fjson fromJSON toJSON. Qed.
Next Obligation. reflexivity. Qed.

#[global] Instance schema_wire {PB : Protobuf} {PS : ProtobufSpec PB} : WireSchema wire schema.
Proof. solve_schema_wire wire schema. Qed.

#[global] Instance schema_normal : NormalSchema normal schema.
Proof. solve_schema_normal normal schema. Qed.

#[global] Instance schema_merge : MergeSchema merge schema.
Proof. solve_schema_merge merge schema. Qed.

(** Its row in the table of message types. *)
Definition message {PB : Protobuf} {PS : ProtobufSpec PB} : message_type :=
  fallible_message "BlockID" nothing true schema only.

#[global] Instance message_lawful {PB : Protobuf} (PS : ProtobufSpec PB) : Lawful message.
Proof. solve_lawful decode_field fromJSON only. Qed.

End BlockID.

(** ** [Header] (tendermint/types/types.js) *)

Module Header.

Record t := mk {
  version : option Consensus.t;
  chainId : string;
  height : number;
  time : option date;
  lastBlockId : option BlockID.t;
  lastCommitHash : option bytes;
  dataHash : option bytes;
  validatorsHash : option bytes;
  nextValidatorsHash : option bytes;
  consensusHash : option bytes;
  appHash : option bytes;
  lastResultsHash : option bytes;
  evidenceHash : option bytes;
  proposerAddress : option bytes;
}.

#[global] Instance t_eta : Settable t := λ m, mk m.(version) m.(chainId) m.(height) m.(time)
  m.(lastBlockId) m.(lastCommitHash) m.(dataHash) m.(validatorsHash) m.(nextValidatorsHash)
  m.(consensusHash) m.(appHash) m.(lastResultsHash) m.(evidenceHash) m.(proposerAddress).

Definition base : t := mk None "" 0 None None None None None None None None None None None.

Definition encode {PB : Protobuf} (message : t) (writer : Writer) : result Writer :=
  Ok writer
  @>= pure (defined message.(version) (fun v w => w @> uint32 10 @> fork @> Consensus.encode v @> ldelim))
  @>= pure (when (str_neq message.(chainId) "")
       (fun w => w @> uint32 18 @> string_ message.(chainId)))
  @>= pure (when (num_neq message.(height) 0) (fun w => w @> uint32 24 @> int64 message.(height)))
  @>= pure (defined message.(time) (fun v w => w @> uint32 34 @> fork @> encode_time v @> ldelim))
  @>= defined_e message.(lastBlockId) (submessage 42 BlockID.encode)
  @>= bytes_field 50 message.(lastCommitHash)
  @>= bytes_field 58 message.(dataHash)
  @>= bytes_field 66 message.(validatorsHash)
  @>= bytes_field 74 message.(nextValidatorsHash)
  @>= bytes_field 82 message.(consensusHash)
  @>= bytes_field 90 message.(appHash)
  @>= bytes_field 98 message.(lastResultsHash)
  @>= bytes_field 106 message.(evidenceHash)
  @>= bytes_field 114 message.(proposerAddress).

Definition decode_field {PB : Protobuf} (tag : Z) (message : t) : RM t :=
  match field_number tag with
  | 1 => v ← read_nested Consensus.decode; mret (message <| version := Some v |>)
  | 2 => v ← read_string; mret (message <| chainId := v |>)
  | 3 => v ← read_number read_int64; mret (message <| height := v |>)
  | 4 => v ← read_time; mret (message <| time := Some v |>)
  | 5 => v ← read_nested BlockID.decode; mret (message <| lastBlockId := Some v |>)
  | 6 => v ← read_bytes; mret (message <| lastCommitHash := Some v |>)
  | 7 => v ← read_bytes; mret (message <| dataHash := Some v |>)
  | 8 => v ← read_bytes; mret (message <| validatorsHash := Some v |>)
  | 9 => v ← read_bytes; mret (message <| nextValidatorsHash := Some v |>)
  | 10 => v ← read_bytes; mret (message <| consensusHash := Some v |>)
  | 11 => v ← read_bytes; mret (message <| appHash := Some v |>)
  | 12 => v ← read_bytes; mret (message <| lastResultsHash := Some v |>)
  | 13 => v ← read_bytes; mret (message <| evidenceHash := Some v |>)
  | 14 => v ← read_bytes; mret (message <| proposerAddress := Some v |>)
  | _ => _ ← skipType (wire_type tag); mret message
  end.

Definition decode {PB : Protobuf} (length : option Z) : RM t :=
  decode_message length base decode_field.

Definition fromJSON (object : js) : result t :=
  version' ← field_or object "version" (to_some Consensus.fromJSON) None;
  chainId' ← field_or object "chainId" to_string "";
  height' ← field_or object "height" js_Number 0;
  time' ← field_or object "time" (to_some fromJsonTimestamp) None;
  lastBlockId' ← field_or object "lastBlockId" (to_some BlockID.fromJSON) None;
  lastCommitHash' ← field_or object "lastCommitHash" (to_some bytesFromBase64) None;
  dataHash' ← field_or object "dataHash" (to_some bytesFromBase64) None;
  validatorsHash' ← field_or object "validatorsHash" (to_some bytesFromBase64) None;
  nextValidatorsHash' ← field_or object "nextValidatorsHash" (to_some bytesFromBase64) None;
  consensusHash' ← field_or object "consensusHash" (to_some bytesFromBase64) None;
  appHash' ← field_or object "appHash" (to_some bytesFromBase64) None;
  lastResultsHash' ← field_or object "lastResultsHash" (to_some bytesFromBase64) None;
  evidenceHash' ← field_or object "evidenceHash" (to_some bytesFromBase64) None;
  proposerAddress' ← field_or object "proposerAddress" (to_some bytesFromBase64) None;
  Ok (mk version' chainId' height' time' lastBlockId' lastCommitHash' dataHash' validatorsHash'
    nextValidatorsHash' consensusHash' appHash' lastResultsHash' evidenceHash' proposerAddress').

Definition toJSON (message : t) : result js :=
  time' ← option_result toISOString message.(time);
  Ok (Obj (prop_opt "version" Consensus.toJSON message.(version) ++
   [("chainId", Str message.(chainId));
    ("height", Num message.(height))] ++
   prop_opt "time" Str time' ++
   prop_opt "lastBlockId" BlockID.toJSON message.(lastBlockId) ++
   prop_opt "lastCommitHash" (fun b => Str (base64FromBytes b)) message.(lastCommitHash) ++
   prop_opt "dataHash" (fun b => Str (base64FromBytes b)) message.(dataHash) ++
   prop_opt "validatorsHash" (fun b => Str (base64FromBytes b)) message.(validatorsHash) ++
   prop_opt "nextValidatorsHash" (fun b => Str (base64FromBytes b)) message.(nextValidatorsHash) ++
   prop_opt "consensusHash" (fun b => Str (base64FromBytes b)) message.(consensusHash) ++
   prop_opt "appHash" (fun b => Str (base64FromBytes b)) message.(appHash) ++
   prop_opt "lastResultsHash" (fun b => Str (base64FromBytes b)) message.(lastResultsHash) ++
   prop_opt "evidenceHash" (fun b => Str (base64FromBytes b)) message.(evidenceHash) ++
   prop_opt "proposerAddress" (fun b => Str (base64FromBytes b)) message.(proposerAddress))).

Record partial := mkPartial {
  p_version : option Consensus.partial;
  p_chainId : option string;
  p_height : option number;
  p_time : option date;
  p_lastBlockId : option BlockID.partial;
  p_lastCommitHash : option bytes;
  p_dataHash : option bytes;
  p_validatorsHash : option bytes;
  p_nextValidatorsHash : option bytes;
  p_consensusHash : option bytes;
  p_appHash : option bytes;
  p_lastResultsHash : option bytes;
  p_evidenceHash : option bytes;
  p_proposerAddress : option bytes;
}.

Definition fromPartial (object : partial) : t := {|
  version := Consensus.fromPartial <$> object.(p_version);
  chainId := object.(p_chainId) ?? "";
  height := object.(p_height) ?? Int 0;
  time := object.(p_time);
  lastBlockId := BlockID.fromPartial <$> object.(p_lastBlockId);
  lastCommitHash := Some (object.(p_lastCommitHash) ?? []);
  dataHash := Some (object.(p_dataHash) ?? []);
  validatorsHash := Some (object.(p_validatorsHash) ?? []);
  nextValidatorsHash := Some (object.(p_nextValidatorsHash) ?? []);
  consensusHash := Some (object.(p_consensusHash) ?? []);
  appHash := Some (object.(p_appHash) ?? []);
  lastResultsHash := Some (object.(p_lastResultsHash) ?? []);
  evidenceHash := Some (object.(p_evidenceHash) ?? []);
  proposerAddress := Some (object.(p_proposerAddress) ?? []);
|}.

(** The object with no property given. *)
Definition nothing : partial := mkPartial None None None None None None None None None None None
  None None None.

(** The bytes [encode] writes. *)
Definition wire {PB : Protobuf} {PS : ProtobufSpec PB} (m : t) : bytes :=
  f_message 10 Consensus.wire m.(version) ++
  f_string 18 m.(chainId) ++
  f_number e_int64 24 m.(height) ++
  f_message 34 wire_time m.(time) ++
  f_message 42 BlockID.wire m.(lastBlockId) ++
  f_bytes 50 m.(lastCommitHash) ++
  f_bytes 58 m.(dataHash) ++
  f_bytes 66 m.(validatorsHash) ++
  f_bytes 74 m.(nextValidatorsHash) ++
  f_bytes 82 m.(consensusHash) ++
  f_bytes 90 m.(appHash) ++
  f_bytes 98 m.(lastResultsHash) ++
  f_bytes 106 m.(evidenceHash) ++
  f_bytes 114 m.(proposerAddress).

Definition valid (m : t) : Prop :=
  from_option Consensus.valid True m.(version) ∧ int64_ok m.(height) ∧ from_option date_ok True m.(time) ∧ from_option BlockID.valid True m.(lastBlockId).

(** The byte fields hold arrays, as the interface declares. *)
Definition typed (m : t) : bool := from_option BlockID.typed true m.(lastBlockId) && given m.(lastCommitHash) && given m.(dataHash) && given m.(validatorsHash) && given m.(nextValidatorsHash) && given m.(consensusHash) && given m.(appHash) && given m.(lastResultsHash) && given m.(evidenceHash) && given m.(proposerAddress).

(** The message without its empty byte arrays. *)
Definition normal (m : t) : t := {|
  version := m.(version);
  chainId := m.(chainId);
  height := m.(height);
  time := m.(time);
  lastBlockId := BlockID.normal <$> m.(lastBlockId);
  lastCommitHash := nonempty m.(lastCommitHash);
  dataHash := nonempty m.(dataHash);
  validatorsHash := nonempty m.(validatorsHash);
  nextValidatorsHash := nonempty m.(nextValidatorsHash);
  consensusHash := nonempty m.(consensusHash);
  appHash := nonempty m.(appHash);
  lastResultsHash := nonempty m.(lastResultsHash);
  evidenceHash := nonempty m.(evidenceHash);
  proposerAddress := nonempty m.(proposerAddress);
|}.

(** The dates are valid. *)
Definition timed (m : t) : bool := from_option date_valid true m.(time).

Definition encodable {PB : Protobuf} {PS : ProtobufSpec PB} (m : t) : Prop :=
  typed m = true ∧ valid m ∧ small (wire m).

Definition merge (m a : t) : t := {|
  version := later_message m.(version) a.(version);
  chainId := later_string m.(chainId) a.(chainId);
  height := later_number m.(height) a.(height);
  time := later_message m.(time) a.(time);
  lastBlockId := later_message m.(lastBlockId) (BlockID.normal <$> a.(lastBlockId));
  lastCommitHash := later_bytes m.(lastCommitHash) a.(lastCommitHash);
  dataHash := later_bytes m.(dataHash) a.(dataHash);
  validatorsHash := later_bytes m.(validatorsHash) a.(validatorsHash);
  nextValidatorsHash := later_bytes m.(nextValidatorsHash) a.(nextValidatorsHash);
  consensusHash := later_bytes m.(consensusHash) a.(consensusHash);
  appHash := later_bytes m.(appHash) a.(appHash);
  lastResultsHash := later_bytes m.(lastResultsHash) a.(lastResultsHash);
  evidenceHash := later_bytes m.(evidenceHash) a.(evidenceHash);
  proposerAddress := later_bytes m.(proposerAddress) a.(proposerAddress);
|}.

(** A whole message seen as a partial one. *)
Definition full (m : t) : partial := {|
  p_version := Consensus.full <$> m.(version);
  p_chainId := Some m.(chainId);
  p_height := Some m.(height);
  p_time := m.(time);
  p_lastBlockId := BlockID.full <$> m.(lastBlockId);
  p_lastCommitHash := m.(lastCommitHash);
  p_dataHash := m.(dataHash);
  p_validatorsHash := m.(validatorsHash);
  p_nextValidatorsHash := m.(nextValidatorsHash);
  p_consensusHash := m.(consensusHash);
  p_appHash := m.(appHash);
  p_lastResultsHash := m.(lastResultsHash);
  p_evidenceHash := m.(evidenceHash);
  p_proposerAddress := m.(proposerAddress);
|}.

(** The message as its [.proto] file declares it. *)
Definition schema (m : t) : list field :=
  [singular 1 Optional (message_value Consensus.schema) m.(version);
   implicit 2 (VString m.(chainId));
   implicit 3 (VInt Int64 m.(height));
   singular 4 Stamp timestamp_value m.(time);
   singular 5 Optional (message_value BlockID.schema) m.(lastBlockId);
   implicit 6 (byte_array m.(lastCommitHash));
   implicit 7 (byte_array m.(dataHash));
   implicit 8 (byte_array m.(validatorsHash));
   implicit 9 (byte_array m.(nextValidatorsHash));
   implicit 10 (byte_array m.(consensusHash));
   implicit 11 (byte_array m.(appHash));
   implicit 12 (byte_array m.(lastResultsHash));
   implicit 13 (byte_array m.(evidenceHash));
   implicit 14 (byte_array m.(proposerAddress))].

(** The message with its default for every property that is not kept. *)
Definition only (kept : string → bool) (m : t) : t := {|
  version := if kept "version" then m.(version) else None;
  chainId := if kept "chainId" then m.(chainId) else "";
  height := if kept "height" then m.(height) else Int 0;
  time := if kept "time" then m.(time) else None;
  lastBlockId := if kept "lastBlockId" then m.(lastBlockId) else None;
  lastCommitHash := if kept "lastCommitHash" then m.(lastCommitHash) else None;
  dataHash := if kept "dataHash" then m.(dataHash) else None;
  validatorsHash := if kept "validatorsHash" then m.(validatorsHash) else None;
  nextValidatorsHash := if kept "nextValidatorsHash" then m.(nextValidatorsHash) else None;
  consensusHash := if kept "consensusHash" then m.(consensusHash) else None;
  appHash := if kept "appHash" then m.(appHash) else None;
  lastResultsHash := if kept "lastResultsHash" then m.(lastResultsHash) else None;
  evidenceHash := if kept "evidenceHash" then m.(evidenceHash) else None;
  proposerAddress := if kept "proposerAddress" then m.(proposerAddress) else None;
|}.

#[global] Instance codec {PB : Protobuf} : FallibleCodec t :=
  {| fmsg_base := base; fmsg_encode := encode; fmsg_field := decode_field |}.

#[global] Program Instance spec {PB : Protobuf} (PS : ProtobufSpec PB) : FallibleSpec PS t :=
  {| fmsg_wire := wire; fmsg_valid := valid; fmsg_typed := typed; fmsg_normal := normal;
     fmsg_merge := merge |}.
Next Obligation. solve_fencode_wire. Qed.
Next Obligation. intros. solve_fencode_throws encode typed. Qed.
Next Obligation. solve_fdecode_wire. Qed.
Next Obligation. solve_fmerge_base. Qed.
Next Obligation. intros. solve_fadvances decode_field. Qed.

#[global] Program Instance given_ : FalliblePartial t partial :=
  {| fmsg_fromPartial := fromPartial; fmsg_full := full; fmsg_given := typed |}.
Next Obligation. solve_fgiven fromPartial typed. Qed.
Next Obligation. solve_fpartial fromPartial full typed. Qed.

#[global] Program Instance json : DatedJson t :=
  {| dmsg_fromJSON := fromJSON; dmsg_toJSON := toJSON; dmsg_timed := timed;
     dmsg_named := fun _ => true; dmsg_known := fun m => m |}.
Next Obligation. solve_djson fromJSON toJSON timed. Qed.
Next Obligation. solve_dthrows toJSON timed. Qed.
Next Obligation. reflexivity. Qed.

#[global] Instance schema_wire {PB : Protobuf} {PS : ProtobufSpec PB} : WireSchema wire schema.
Proof. solve_schema_wire wire schema. Qed.

#[global] Instance schema_normal : NormalSchema normal schema.
Proof. solve_schema_normal normal schema. Qed.

#[global] Instance schema_merge : MergeSchema merge schema.
Proof. solve_schema_merge merge schema. Qed.

(** Its row in the table of message types. *)
Definition message {PB : Protobuf} {PS : ProtobufSpec PB} : message_type :=
  dated_message "Header" nothing true schema only.

#[global] Instance message_lawful {PB : Protobuf} (PS : ProtobufSpec PB) : Lawful message.
Proof. solve_lawful decode_field fromJSON only. Qed.

End Header.

(** ** [Data] (tendermint/types/types.js) *)

Module Data.

Record t := mk {
  txs : list bytes;
}.

#[global] Instance t_eta : Settable t := λ m, mk m.(txs).

Definition base : t := mk [].

Definition encode {PB : Protobuf} (message : t) (writer : Writer) : result Writer :=
  Ok writer
  @>= pure (each message.(txs) (fun v w => w @> uint32 10 @> bytes_ v)).

Definition decode_field {PB : Protobuf} (tag : Z) (message : t) : RM t :=
  match field_number tag with
  | 1 => v ← read_bytes; mret (message <| txs := message.(txs) ++ [v] |>)
  | _ => _ ← skipType (wire_type tag); mret message
  end.

Definition decode {PB : Protobuf} (length : option Z) : RM t :=
  decode_message length base decode_field.

Definition fromJSON (object : js) : result t :=
  txs' ← field_or object "txs" (to_list bytesFromBase64) [];
  Ok (mk txs').

Definition toJSON (message : t) : js :=
  Obj ([("txs", Arr (map (fun b => Str (base64FromBytes b)) message.(txs)))]).

Record partial := mkPartial {
  p_txs : option (list bytes);
}.

Definition fromPartial (object : partial) : t := {|
  txs := (object.(p_txs) ?? []);
|}.

(** The object with no property given. *)
Definition nothing : partial := mkPartial None.

(** The bytes [encode] writes. *)
Definition wire {PB : Protobuf} {PS : ProtobufSpec PB} (m : t) : bytes :=
  f_repeated 10 raw m.(txs).

Definition valid (m : t) : Prop :=
  True.

(** The byte fields hold arrays, as the interface declares. *)
Definition typed (m : t) : bool := true.

(** The message without its empty byte arrays. *)
Definition normal (m : t) : t := {|
  txs := m.(txs);
|}.

Definition encodable {PB : Protobuf} {PS : ProtobufSpec PB} (m : t) : Prop :=
  typed m = true ∧ valid m ∧ small (wire m).

Definition merge (m a : t) : t := {|
  txs := m.(txs) ++ a.(txs);
|}.

(** A whole message seen as a partial one. *)
Definition full (m : t) : partial := {|
  p_txs := Some m.(txs);
|}.

(** The message as its [.proto] file declares it. *)
Definition schema (m : t) : list field :=
  [repeated 1 VBytes m.(txs)].

(** The message with its default for every property that is not kept. *)
Definition only (kept : string → bool) (m : t) : t := {|
  txs := if kept "txs" then m.(txs) else [];
|}.

#[global] Instance codec {PB : Protobuf} : FallibleCodec t :=
  {| fmsg_base := base; fmsg_encode := encode; fmsg_field := decode_field |}.

#[global] Program Instance spec {PB : Protobuf} (PS : ProtobufSpec PB) : FallibleSpec PS t :=
  {| fmsg_wire := wire; fmsg_valid := valid; fmsg_typed := typed; fmsg_normal := normal;
     fmsg_merge := merge |}.
Next Obligation. solve_fencode_wire. Qed.
Next Obligation. intros. solve_fencode_throws encode typed. Qed.
Next Obligation. solve_fdecode_wire. Qed.
Next Obligation. solve_fmerge_base. Qed.
Next Obligation. intros. solve_fadvances decode_field. Qed.

#[global] Program Instance given_ : FalliblePartial t partial :=
  {| fmsg_fromPartial := fromPartial; fmsg_full := full; fmsg_given := typed |}.
Next Obligation. solve_fgiven fromPartial typed. Qed.
Next Obligation. solve_fpartial fromPartial full typed. Qed.

#[global] Program Instance json : FallibleJson t :=
  {| fmsg_fromJSON := fromJSON; fmsg_toJSON := toJSON;
     fmsg_named := fun _ => true; fmsg_known := fun m => m |}.
Next Obligation. solve_fjson fromJSON toJSON. Qed.
Next Obligation. reflexivity. Qed.

#[global] Instance schema_wire {PB : Protobuf} {PS : ProtobufSpec PB} : WireSchema wire schema.
Proof. solve_schema_wire wire schema. Qed.

#[global] Instance schema_normal : NormalSchema normal schema.
Proof. solve_schema_normal normal schema. Qed.

#[global] Instance schema_merge : MergeSchema merge schema.
Proof. solve_schema_merge merge schema. Qed.

(** Its row in the table of message types. *)
Definition message {PB : Protobuf} {PS : ProtobufSpec PB} : message_type :=
  fallible_message "Data" nothing true schema only.

#[global] Instance message_lawful {PB : Protobuf} (PS : ProtobufSpec PB) : Lawful message.
Proof. solve_lawful decode_field fromJSON only. Qed.

End Data.

(** ** [Vote] (tendermint/types/types.js) *)

Module Vote.

Record t := mk {
  type_ : number;
  height : number;
  round : number;
  blockId : option BlockID.t;
  timestamp : option date;
  validatorAddress : option bytes;
  validatorIndex : number;
  signature : option bytes;
}.

#[global] Instance t_eta : Settable t := λ m, mk m.(type_) m.(height) m.(round) m.(blockId)
  m.(timestamp) m.(validatorAddress) m.(validatorIndex) m.(signature).

Definition base : t := mk 0 0 0 None None None 0 None.

Definition encode {PB : Protobuf} (message : t) (writer : Writer) : result Writer :=
  Ok writer
  @>= pure (when (num_neq message.(type_) 0) (fun w => w @> uint32 8 @> int32 message.(type_)))
  @>= pure (when (num_neq message.(height) 0) (fun w => w @> uint32 16 @> int64 message.(height)))
  @>= pure (when (num_neq message.(round) 0) (fun w => w @> uint32 24 @> int32 message.(round)))
  @>= defined_e message.(blockId) (submessage 34 BlockID.encode)
  @>= pure (defined message.(timestamp) (fun v w => w @> uint32 42 @> fork @> encode_time v @> ldelim))
  @>= bytes_field 50 message.(validatorAddress)
  @>= pure (when (num_neq message.(validatorIndex) 0)
       (fun w => w @> uint32 56 @> int32 message.(validatorIndex)))
  @>= bytes_field 66 message.(signature).

Definition decode_field {PB : Protobuf} (tag : Z) (message : t) : RM t :=
  match field_number tag with
  | 1 => v ← read_int32; mret (message <| type_ := Int v |>)
  | 2 => v ← read_number read_int64; mret (message <| height := v |>)
  | 3 => v ← read_int32; mret (message <| round := Int v |>)
  | 4 => v ← read_nested BlockID.decode; mret (message <| blockId := Some v |>)
  | 5 => v ← read_time; mret (message <| timestamp := Some v |>)
  | 6 => v ← read_bytes; mret (message <| validatorAddress := Some v |>)
  | 7 => v ← read_int32; mret (message <| validatorIndex := Int v |>)
  | 8 => v ← read_bytes; mret (message <| signature := Some v |>)
  | _ => _ ← skipType (wire_type tag); mret message
  end.

Definition decode {PB : Protobuf} (length : option Z) : RM t :=
  decode_message length base decode_field.

Definition fromJSON (object : js) : result t :=
  type_' ← field_or object "type" signedMsgTypeFromJSON 0;
  height' ← field_or object "height" js_Number 0;
  round' ← field_or object "round" js_Number 0;
  blockId' ← field_or object "blockId" (to_some BlockID.fromJSON) None;
  timestamp' ← field_or object "timestamp" (to_some fromJsonTimestamp) None;
  validatorAddress' ← field_or object "validatorAddress" (to_some bytesFromBase64) None;
  validatorIndex' ← field_or object "validatorIndex" js_Number 0;
  signature' ← field_or object "signature" (to_some bytesFromBase64) None;
  Ok (mk type_' height' round' blockId' timestamp' validatorAddress' validatorIndex' signature').

Definition toJSON (message : t) : result js :=
  timestamp' ← option_result toISOString message.(timestamp);
  Ok (Obj ([("type", Str (signedMsgTypeToJSON message.(type_)));
    ("height", Num message.(height));
    ("round", Num message.(round))] ++
   prop_opt "blockId" BlockID.toJSON message.(blockId) ++
   prop_opt "timestamp" Str timestamp' ++
   prop_opt "validatorAddress" (fun b => Str (base64FromBytes b)) message.(validatorAddress) ++
   [("validatorIndex", Num message.(validatorIndex))] ++
   prop_opt "signature" (fun b => Str (base64FromBytes b)) message.(signature))).

Record partial := mkPartial {
  p_type : option number;
  p_height : option number;
  p_round : option number;
  p_blockId : option BlockID.partial;
  p_timestamp : option date;
  p_validatorAddress : option bytes;
  p_validatorIndex : option number;
  p_signature : option bytes;
}.

Definition fromPartial (object : partial) : t := {|
  type_ := object.(p_type) ?? Int 0;
  height := object.(p_height) ?? Int 0;
  round := object.(p_round) ?? Int 0;
  blockId := BlockID.fromPartial <$> object.(p_blockId);
  timestamp := object.(p_timestamp);
  validatorAddress := Some (object.(p_validatorAddress) ?? []);
  validatorIndex := object.(p_validatorIndex) ?? Int 0;
  signature := Some (object.(p_signature) ?? []);
|}.

(** The object with no property given. *)
Definition nothing : partial := mkPartial None None None None None None None None.

(** The bytes [encode] writes. *)
Definition wire {PB : Protobuf} {PS : ProtobufSpec PB} (m : t) : bytes :=
  f_number e_int32 8 m.(type_) ++
  f_number e_int64 16 m.(height) ++
  f_number e_int32 24 m.(round) ++
  f_message 34 BlockID.wire m.(blockId) ++
  f_message 42 wire_time m.(timestamp) ++
  f_bytes 50 m.(validatorAddress) ++
  f_number e_int32 56 m.(validatorIndex) ++
  f_bytes 66 m.(signature).

Definition valid (m : t) : Prop :=
  int32_ok m.(type_) ∧ int64_ok m.(height) ∧ int32_ok m.(round) ∧ from_option BlockID.valid True m.(blockId) ∧ from_option date_ok True m.(timestamp) ∧ int32_ok m.(validatorIndex).

(** The byte fields hold arrays, as the interface declares. *)
Definition typed (m : t) : bool := from_option BlockID.typed true m.(blockId) && given m.(validatorAddress) && given m.(signature).

(** The message without its empty byte arrays. *)
Definition normal (m : t) : t := {|
  type_ := m.(type_);
  height := m.(height);
  round := m.(round);
  blockId := BlockID.normal <$> m.(blockId);
  timestamp := m.(timestamp);
  validatorAddress := nonempty m.(validatorAddress);
  validatorIndex := m.(validatorIndex);
  signature := nonempty m.(signature);
|}.

(** The dates are valid. *)
Definition timed (m : t) : bool := from_option date_valid true m.(timestamp).

(** The enumeration fields hold members. *)
Definition named (m : t) : bool := signedMsgType_named m.(type_).

(** The message with the numbers [toJSON] does not know replaced. *)
Definition known (m : t) : t := {|
  type_ := signedMsgType_known m.(type_);
  height := m.(height);
  round := m.(round);
  blockId := m.(blockId);
  timestamp := m.(timestamp);
  validatorAddress := m.(validatorAddress);
  validatorIndex := m.(validatorIndex);
  signature := m.(signature);
|}.

Definition encodable {PB : Protobuf} {PS : ProtobufSpec PB} (m : t) : Prop :=
  typed m = true ∧ valid m ∧ small (wire m).

Definition merge (m a : t) : t := {|
  type_ := later_number m.(type_) a.(type_);
  height := later_number m.(height) a.(height);
  round := later_number m.(round) a.(round);
  blockId := later_message m.(blockId) (BlockID.normal <$> a.(blockId));
  timestamp := later_message m.(timestamp) a.(timestamp);
  validatorAddress := later_bytes m.(validatorAddress) a.(validatorAddress);
  validatorIndex := later_number m.(validatorIndex) a.(validatorIndex);
  signature := later_bytes m.(signature) a.(signature);
|}.

(** A whole message seen as a partial one. *)
Definition full (m : t) : partial := {|
  p_type := Some m.(type_);
  p_height := Some m.(height);
  p_round := Some m.(round);
  p_blockId := BlockID.full <$> m.(blockId);
  p_timestamp := m.(timestamp);
  p_validatorAddress := m.(validatorAddress);
  p_validatorIndex := Some m.(validatorIndex);
  p_signature := m.(signature);
|}.

(** The message as its [.proto] file declares it. *)
Definition schema (m : t) : list field :=
  [implicit 1 (VInt Int32 m.(type_));
   implicit 2 (VInt Int64 m.(height));
   implicit 3 (VInt Int32 m.(round));
   singular 4 Optional (message_value BlockID.schema) m.(blockId);
   singular 5 Stamp timestamp_value m.(timestamp);
   implicit 6 (byte_array m.(validatorAddress));
   implicit 7 (VInt Int32 m.(validatorIndex));
   implicit 8 (byte_array m.(signature))].

(** The message with its default for every property that is not kept. *)
Definition only (kept : string → bool) (m : t) : t := {|
  type_ := if kept "type" then m.(type_) else Int 0;
  height := if kept "height" then m.(height) else Int 0;
  round := if kept "round" then m.(round) else Int 0;
  blockId := if kept "blockId" then m.(blockId) else None;
  timestamp := if kept "timestamp" then m.(timestamp) else None;
  validatorAddress := if kept "validatorAddress" then m.(validatorAddress) else None;
  validatorIndex := if kept "validatorIndex" then m.(validatorIndex) else Int 0;
  signature := if kept "signature" then m.(signature) else None;
|}.

#[global] Instance codec {PB : Protobuf} : FallibleCodec t :=
  {| fmsg_base := base; fmsg_encode := encode; fmsg_field := decode_field |}.

#[global] Program Instance spec {PB : Protobuf} (PS : ProtobufSpec PB) : FallibleSpec PS t :=
  {| fmsg_wire := wire; fmsg_valid := valid; fmsg_typed := typed; fmsg_normal := normal;
     fmsg_merge := merge |}.
Next Obligation. solve_fencode_wire. Qed.
Next Obligation. intros. solve_fencode_throws encode typed. Qed.
Next Obligation. solve_fdecode_wire. Qed.
Next Obligation. solve_fmerge_base. Qed.
Next Obligation. intros. solve_fadvances decode_field. Qed.

#[global] Program Instance given_ : FalliblePartial t partial :=
  {| fmsg_fromPartial := fromPartial; fmsg_full := full; fmsg_given := typed |}.
Next Obligation. solve_fgiven fromPartial typed. Qed.
Next Obligation. solve_fpartial fromPartial full typed. Qed.

#[global] Program Instance json : DatedJson t :=
  {| dmsg_fromJSON := fromJSON; dmsg_toJSON := toJSON; dmsg_timed := timed;
     dmsg_named := named; dmsg_known := known |}.
Next Obligation. solve_djson fromJSON toJSON timed. Qed.
Next Obligation. solve_dthrows toJSON timed. Qed.
Next Obligation. solve_known named known. Qed.

#[global] Instance schema_wire {PB : Protobuf} {PS : ProtobufSpec PB} : WireSchema wire schema.
Proof. solve_schema_wire wire schema. Qed.

#[global] Instance schema_normal : NormalSchema normal schema.
Proof. solve_schema_normal normal schema. Qed.

#[global] Instance schema_merge : MergeSchema merge schema.
Proof. solve_schema_merge merge schema. Qed.

(** Its row in the table of message types. *)
Definition message {PB : Protobuf} {PS : ProtobufSpec PB} : message_type :=
  dated_message "Vote" nothing true schema only.

#[global] Instance message_lawful {PB : Protobuf} (PS : ProtobufSpec PB) : Lawful message.
Proof. solve_lawful decode_field fromJSON only. Qed.

End Vote.

(** ** [CommitSig] (tendermint/types/types.js) *)

Module CommitSig.

Record t := mk {
  blockIdFlag : number;
  validatorAddress : option bytes;
  timestamp : option date;
  signature : option bytes;
}.

#[global] Instance t_eta : Settable t := λ m, mk m.(blockIdFlag) m.(validatorAddress)
  m.(timestamp) m.(signature).

Definition base : t := mk 0 None None None.

Definition encode {PB : Protobuf} (message : t) (writer : Writer) : result Writer :=
  Ok writer
  @>= pure (when (num_neq message.(blockIdFlag) 0)
       (fun w => w @> uint32 8 @> int32 message.(blockIdFlag)))
  @>= bytes_field 18 message.(validatorAddress)
  @>= pure (defined message.(timestamp) (fun v w => w @> uint32 26 @> fork @> encode_time v @> ldelim))
  @>= bytes_field 34 message.(signature).

Definition decode_field {PB : Protobuf} (tag : Z) (message : t) : RM t :=
  match field_number tag with
  | 1 => v ← read_int32; mret (message <| blockIdFlag := Int v |>)
  | 2 => v ← read_bytes; mret (message <| validatorAddress := Some v |>)
  | 3 => v ← read_time; mret (message <| timestamp := Some v |>)
  | 4 => v ← read_bytes; mret (message <| signature := Some v |>)
  | _ => _ ← skipType (wire_type tag); mret message
  end.

Definition decode {PB : Protobuf} (length : option Z) : RM t :=
  decode_message length base decode_field.

Definition fromJSON (object : js) : result t :=
  blockIdFlag' ← field_or object "blockIdFlag" blockIDFlagFromJSON 0;
  validatorAddress' ← field_or object "validatorAddress" (to_some bytesFromBase64) None;
  timestamp' ← field_or object "timestamp" (to_some fromJsonTimestamp) None;
  signature' ← field_or object "signature" (to_some bytesFromBase64) None;
  Ok (mk blockIdFlag' validatorAddress' timestamp' signature').

Definition toJSON (message : t) : result js :=
  timestamp' ← option_result toISOString message.(timestamp);
  Ok (Obj ([("blockIdFlag", Str (blockIDFlagToJSON message.(blockIdFlag)))] ++
   prop_opt "validatorAddress" (fun b => Str (base64FromBytes b)) message.(validatorAddress) ++
   prop_opt "timestamp" Str timestamp' ++
   prop_opt "signature" (fun b => Str (base64FromBytes b)) message.(signature))).

Record partial := mkPartial {
  p_blockIdFlag : option number;
  p_validatorAddress : option bytes;
  p_timestamp : option date;
  p_signature : option bytes;
}.

Definition fromPartial (object : partial) : t := {|
  blockIdFlag := object.(p_blockIdFlag) ?? Int 0;
  validatorAddress := Some (object.(p_validatorAddress) ?? []);
  timestamp := object.(p_timestamp);
  signature := Some (object.(p_signature) ?? []);
|}.

(** The object with no property given. *)
Definition nothing : partial := mkPartial None None None None.

(** The bytes [encode] writes. *)
Definition wire {PB : Protobuf} {PS : ProtobufSpec PB} (m : t) : bytes :=
  f_number e_int32 8 m.(blockIdFlag) ++
  f_bytes 18 m.(validatorAddress) ++
  f_message 26 wire_time m.(timestamp) ++
  f_bytes 34 m.(signature).

Definition valid (m : t) : Prop :=
  int32_ok m.(blockIdFlag) ∧ from_option date_ok True m.(timestamp).

(** The byte fields hold arrays, as the interface declares. *)
Definition typed (m : t) : bool := given m.(validatorAddress) && given m.(signature).

(** The message without its empty byte arrays. *)
Definition normal (m : t) : t := {|
  blockIdFlag := m.(blockIdFlag);
  validatorAddress := nonempty m.(validatorAddress);
  timestamp := m.(timestamp);
  signature := nonempty m.(signature);
|}.

(** The dates are valid. *)
Definition timed (m : t) : bool := from_option date_valid true m.(timestamp).

(** The enumeration fields hold members. *)
Definition named (m : t) : bool := blockIDFlag_named m.(blockIdFlag).

(** The message with the numbers [toJSON] does not know replaced. *)
Definition known (m : t) : t := {|
  blockIdFlag := blockIDFlag_known m.(blockIdFlag);
  validatorAddress := m.(validatorAddress);
  timestamp := m.(timestamp);
  signature := m.(signature);
|}.

Definition encodable {PB : Protobuf} {PS : ProtobufSpec PB} (m : t) : Prop :=
  typed m = true ∧ valid m ∧ small (wire m).

Definition merge (m a : t) : t := {|
  blockIdFlag := later_number m.(blockIdFlag) a.(blockIdFlag);
  validatorAddress := later_bytes m.(validatorAddress) a.(validatorAddress);
  timestamp := later_message m.(timestamp) a.(timestamp);
  signature := later_bytes m.(signature) a.(signature);
|}.

(** A whole message seen as a partial one. *)
Definition full (m : t) : partial := {|
  p_blockIdFlag := Some m.(blockIdFlag);
  p_validatorAddress := m.(validatorAddress);
  p_timestamp := m.(timestamp);
  p_signature := m.(signature);
|}.

(** The message as its [.proto] file declares it. *)
Definition schema (m : t) : list field :=
  [implicit 1 (VInt Int32 m.(blockIdFlag));
   implicit 2 (byte_array m.(validatorAddress));
   singular 3 Stamp timestamp_value m.(timestamp);
   implicit 4 (byte_array m.(signature))].

(** The message with its default for every property that is not kept. *)
Definition only (kept : string → bool) (m : t) : t := {|
  blockIdFlag := if kept "blockIdFlag" then m.(blockIdFlag) else Int 0;
  validatorAddress := if kept "validatorAddress" then m.(validatorAddress) else None;
  timestamp := if kept "timestamp" then m.(timestamp) else None;
  signature := if kept "signature" then m.(signature) else None;
|}.

#[global] Instance codec {PB : Protobuf} : FallibleCodec t :=
  {| fmsg_base := base; fmsg_encode := encode; fmsg_field := decode_field |}.

#[global] Program Instance spec {PB : Protobuf} (PS : ProtobufSpec PB) : FallibleSpec PS t :=
  {| fmsg_wire := wire; fmsg_valid := valid; fmsg_typed := typed; fmsg_normal := normal;
     fmsg_merge := merge |}.
Next Obligation. solve_fencode_wire. Qed.
Next Obligation. intros. solve_fencode_throws encode typed. Qed.
Next Obligation. solve_fdecode_wire. Qed.
Next Obligation. solve_fmerge_base. Qed.
Next Obligation. intros. solve_fadvances decode_field. Qed.

#[global] Program Instance given_ : FalliblePartial t partial :=
  {| fmsg_fromPartial := fromPartial; fmsg_full := full; fmsg_given := typed |}.
Next Obligation. solve_fgiven fromPartial typed. Qed.
Next Obligation. solve_fpartial fromPartial full typed. Qed.

#[global] Program Instance json : DatedJson t :=
  {| dmsg_fromJSON := fromJSON; dmsg_toJSON := toJSON; dmsg_timed := timed;
     dmsg_named := named; dmsg_known := known |}.
Next Obligation. solve_djson fromJSON toJSON timed. Qed.
Next Obligation. solve_dthrows toJSON timed. Qed.
Next Obligation. solve_known named known. Qed.

#[global] Instance schema_wire {PB : Protobuf} {PS : ProtobufSpec PB} : WireSchema wire schema.
Proof. solve_schema_wire wire schema. Qed.

#[global] Instance schema_normal : NormalSchema normal schema.
Proof. solve_schema_normal normal schema. Qed.

#[global] Instance schema_merge : MergeSchema merge schema.
Proof. solve_schema_merge merge schema. Qed.

(** Its row in the table of message types. *)
Definition message {PB : Protobuf} {PS : ProtobufSpec PB} : message_type :=
  dated_message "CommitSig" nothing true schema only.

#[global] Instance message_lawful {PB : Protobuf} (PS : ProtobufSpec PB) : Lawful message.
Proof. solve_lawful decode_field fromJSON only. Qed.

End CommitSig.

(** ** [Commit] (tendermint/types/types.js) *)

Module Commit.

Record t := mk {
  height : number;
  round : number;
  blockId : option BlockID.t;
  signatures : list CommitSig.t;
}.

#[global] Instance t_eta : Settable t := λ m, mk m.(height) m.(round) m.(blockId) m.(signatures).

Definition base : t := mk 0 0 None [].

Definition encode {PB : Protobuf} (message : t) (writer : Writer) : result Writer :=
  Ok writer
  @>= pure (when (num_neq message.(height) 0) (fun w => w @> uint32 8 @> int64 message.(height)))
  @>= pure (when (num_neq message.(round) 0) (fun w => w @> uint32 16 @> int32 message.(round)))
  @>= defined_e message.(blockId) (submessage 26 BlockID.encode)
  @>= each_e message.(signatures) (submessage 34 CommitSig.encode).

Definition decode_field {PB : Protobuf} (tag : Z) (message : t) : RM t :=
  match field_number tag with
  | 1 => v ← read_number read_int64; mret (message <| height := v |>)
  | 2 => v ← read_int32; mret (message <| round := Int v |>)
  | 3 => v ← read_nested BlockID.decode; mret (message <| blockId := Some v |>)
  | 4 => v ← read_nested CommitSig.decode;
         mret (message <| signatures := message.(signatures) ++ [v] |>)
  | _ => _ ← skipType (wire_type tag); mret message
  end.

Definition decode {PB : Protobuf} (length : option Z) : RM t :=
  decode_message length base decode_field.

Definition fromJSON (object : js) : result t :=
  height' ← field_or object "height" js_Number 0;
  round' ← field_or object "round" js_Number 0;
  blockId' ← field_or object "blockId" (to_some BlockID.fromJSON) None;
  signatures' ← field_or object "signatures" (to_list CommitSig.fromJSON) [];
  Ok (mk height' round' blockId' signatures').

Definition toJSON (message : t) : result js :=
  signatures' ← result_map CommitSig.toJSON message.(signatures);
  Ok (Obj ([("height", Num message.(height));
    ("round", Num message.(round))] ++
   prop_opt "blockId" BlockID.toJSON message.(blockId) ++
   [("signatures", Arr signatures')])).

Record partial := mkPartial {
  p_height : option number;
  p_round : option number;
  p_blockId : option BlockID.partial;
  p_signatures : option (list CommitSig.partial);
}.

Definition fromPartial (object : partial) : t := {|
  height := object.(p_height) ?? Int 0;
  round := object.(p_round) ?? Int 0;
  blockId := BlockID.fromPartial <$> object.(p_blockId);
  signatures := map CommitSig.fromPartial (object.(p_signatures) ?? []);
|}.

(** The object with no property given. *)
Definition nothing : partial := mkPartial None None None None.

(** The bytes [encode] writes. *)
Definition wire {PB : Protobuf} {PS : ProtobufSpec PB} (m : t) : bytes :=
  f_number e_int64 8 m.(height) ++
  f_number e_int32 16 m.(round) ++
  f_message 26 BlockID.wire m.(blockId) ++
  f_repeated 34 CommitSig.wire m.(signatures).

Definition valid (m : t) : Prop :=
  int64_ok m.(height) ∧ int32_ok m.(round) ∧ from_option BlockID.valid True m.(blockId) ∧ Forall CommitSig.valid m.(signatures).

(** The byte fields hold arrays, as the interface declares. *)
Definition typed (m : t) : bool := from_option BlockID.typed true m.(blockId) && forallb CommitSig.typed m.(signatures).

(** The message without its empty byte arrays. *)
Definition normal (m : t) : t := {|
  height := m.(height);
  round := m.(round);
  blockId := BlockID.normal <$> m.(blockId);
  signatures := map CommitSig.normal m.(signatures);
|}.

(** The dates are valid. *)
Definition timed (m : t) : bool := forallb CommitSig.timed m.(signatures).

(** The enumeration fields hold members. *)
Definition named (m : t) : bool := forallb CommitSig.named m.(signatures).

(** The message with the numbers [toJSON] does not know replaced. *)
Definition known (m : t) : t := {|
  height := m.(height);
  round := m.(round);
  blockId := m.(blockId);
  signatures := map CommitSig.known m.(signatures);
|}.

Definition encodable {PB : Protobuf} {PS : ProtobufSpec PB} (m : t) : Prop :=
  typed m = true ∧ valid m ∧ small (wire m).

Definition merge (m a : t) : t := {|
  height := later_number m.(height) a.(height);
  round := later_number m.(round) a.(round);
  blockId := later_message m.(blockId) (BlockID.normal <$> a.(blockId));
  signatures := m.(signatures) ++ map CommitSig.normal a.(signatures);
|}.

(** A whole message seen as a partial one. *)
Definition full (m : t) : partial := {|
  p_height := Some m.(height);
  p_round := Some m.(round);
  p_blockId := BlockID.full <$> m.(blockId);
  p_signatures := Some (map CommitSig.full m.(signatures));
|}.

(** The message as its [.proto] file declares it. *)
Definition schema (m : t) : list field :=
  [implicit 1 (VInt Int64 m.(height));
   implicit 2 (VInt Int32 m.(round));
   singular 3 Optional (message_value BlockID.schema) m.(blockId);
   repeated 4 (message_value CommitSig.schema) m.(signatures)].

(** The message with its default for every property that is not kept. *)
Definition only (kept : string → bool) (m : t) : t := {|
  height := if kept "height" then m.(height) else Int 0;
  round := if kept "round" then m.(round) else Int 0;
  blockId := if kept "blockId" then m.(blockId) else None;
  signatures := if kept "signatures" then m.(signatures) else [];
|}.

#[global] Instance codec {PB : Protobuf} : FallibleCodec t :=
  {| fmsg_base := base; fmsg_encode := encode; fmsg_field := decode_field |}.

#[global] Program Instance spec {PB : Protobuf} (PS : ProtobufSpec PB) : FallibleSpec PS t :=
  {| fmsg_wire := wire; fmsg_valid := valid; fmsg_typed := typed; fmsg_normal := normal;
     fmsg_merge := merge |}.
Next Obligation. solve_fencode_wire. Qed.
Next Obligation. intros. solve_fencode_throws encode typed. Qed.
Next Obligation. solve_fdecode_wire. Qed.
Next Obligation. solve_fmerge_base. Qed.
Next Obligation. intros. solve_fadvances decode_field. Qed.

#[global] Program Instance given_ : FalliblePartial t partial :=
  {| fmsg_fromPartial := fromPartial; fmsg_full := full; fmsg_given := typed |}.
Next Obligation. solve_fgiven fromPartial typed. Qed.
Next Obligation. solve_fpartial fromPartial full typed. Qed.

#[global] Program Instance json : DatedJson t :=
  {| dmsg_fromJSON := fromJSON; dmsg_toJSON := toJSON; dmsg_timed := timed;
     dmsg_named := named; dmsg_known := known |}.
Next Obligation. solve_djson fromJSON toJSON timed. Qed.
Next Obligation. solve_dthrows toJSON timed. Qed.
Next Obligation. solve_known named known. Qed.

#[global] Instance schema_wire {PB : Protobuf} {PS : ProtobufSpec PB} : WireSchema wire schema.
Proof. solve_schema_wire wire schema. Qed.

#[global] Instance schema_normal : NormalSchema normal schema.
Proof. solve_schema_normal normal schema. Qed.

#[global] Instance schema_merge : MergeSchema merge schema.
Proof. solve_schema_merge merge schema. Qed.

(** Its row in the table of message types. *)
Definition message {PB : Protobuf} {PS : ProtobufSpec PB} : message_type :=
  dated_message "Commit" nothing true schema only.

#[global] Instance message_lawful {PB : Protobuf} (PS : ProtobufSpec PB) : Lawful message.
Proof. solve_lawful decode_field fromJSON only. Qed.

End Commit.

(** ** [Proposal] (tendermint/types/types.js) *)

Module Proposal.

Record t := mk {
  type_ : number;
  height : number;
  round : number;
  polRound : number;
  blockId : option BlockID.t;
  timestamp : option date;
  signature : option bytes;
}.

#[global] Instance t_eta : Settable t := λ m, mk m.(type_) m.(height) m.(round) m.(polRound)
  m.(blockId) m.(timestamp) m.(signature).

Definition base : t := mk 0 0 0 0 None None None.

Definition encode {PB : Protobuf} (message : t) (writer : Writer) : result Writer :=
  Ok writer
  @>= pure (when (num_neq message.(type_) 0) (fun w => w @> uint32 8 @> int32 message.(type_)))
  @>= pure (when (num_neq message.(height) 0) (fun w => w @> uint32 16 @> int64 message.(height)))
  @>= pure (when (num_neq message.(round) 0) (fun w => w @> uint32 24 @> int32 message.(round)))
  @>= pure (when (num_neq message.(polRound) 0)
       (fun w => w @> uint32 32 @> int32 message.(polRound)))
  @>= defined_e message.(blockId) (submessage 42 BlockID.encode)
  @>= pure (defined message.(timestamp) (fun v w => w @> uint32 50 @> fork @> encode_time v @> ldelim))
  @>= bytes_field 58 message.(signature).

Definition decode_field {PB : Protobuf} (tag : Z) (message : t) : RM t :=
  match field_number tag with
  | 1 => v ← read_int32; mret (message <| type_ := Int v |>)
  | 2 => v ← read_number read_int64; mret (message <| height := v |>)
  | 3 => v ← read_int32; mret (message <| round := Int v |>)
  | 4 => v ← read_int32; mret (message <| polRound := Int v |>)
  | 5 => v ← read_nested BlockID.decode; mret (message <| blockId := Some v |>)
  | 6 => v ← read_time; mret (message <| timestamp := Some v |>)
  | 7 => v ← read_bytes; mret (message <| signature := Some v |>)
  | _ => _ ← skipType (wire_type tag); mret message
  end.

Definition decode {PB : Protobuf} (length : option Z) : RM t :=
  decode_message length base decode_field.

Definition fromJSON (object : js) : result t :=
  type_' ← field_or object "type" signedMsgTypeFromJSON 0;
  height' ← field_or object "height" js_Number 0;
  round' ← field_or object "round" js_Number 0;
  polRound' ← field_or object "polRound" js_Number 0;
  blockId' ← field_or object "blockId" (to_some BlockID.fromJSON) None;
  timestamp' ← field_or object "timestamp" (to_some fromJsonTimestamp) None;
  signature' ← field_or object "signature" (to_some bytesFromBase64) None;
  Ok (mk type_' height' round' polRound' blockId' timestamp' signature').

Definition toJSON (message : t) : result js :=
  timestamp' ← option_result toISOString message.(timestamp);
  Ok (Obj ([("type", Str (signedMsgTypeToJSON message.(type_)));
    ("height", Num message.(height));
    ("round", Num message.(round));
    ("polRound", Num message.(polRound))] ++
   prop_opt "blockId" BlockID.toJSON message.(blockId) ++
   prop_opt "timestamp" Str timestamp' ++
   prop_opt "signature" (fun b => Str (base64FromBytes b)) message.(signature))).

Record partial := mkPartial {
  p_type : option number;
  p_height : option number;
  p_round : option number;
  p_polRound : option number;
  p_blockId : option BlockID.partial;
  p_timestamp : option date;
  p_signature : option bytes;
}.

Definition fromPartial (object : partial) : t := {|
  type_ := object.(p_type) ?? Int 0;
  height := object.(p_height) ?? Int 0;
  round := object.(p_round) ?? Int 0;
  polRound := object.(p_polRound) ?? Int 0;
  blockId := BlockID.fromPartial <$> object.(p_blockId);
  timestamp := object.(p_timestamp);
  signature := Some (object.(p_signature) ?? []);
|}.

(** The object with no property given. *)
Definition nothing : partial := mkPartial None None None None None None None.

(** The bytes [encode] writes. *)
Definition wire {PB : Protobuf} {PS : ProtobufSpec PB} (m : t) : bytes :=
  f_number e_int32 8 m.(type_) ++
  f_number e_int64 16 m.(height) ++
  f_number e_int32 24 m.(round) ++
  f_number e_int32 32 m.(polRound) ++
  f_message 42 BlockID.wire m.(blockId) ++
  f_message 50 wire_time m.(timestamp) ++
  f_bytes 58 m.(signature).

Definition valid (m : t) : Prop :=
  int32_ok m.(type_) ∧ int64_ok m.(height) ∧ int32_ok m.(round) ∧ int32_ok m.(polRound) ∧ from_option BlockID.valid True m.(blockId) ∧ from_option date_ok True m.(timestamp).

(** The byte fields hold arrays, as the interface declares. *)
Definition typed (m : t) : bool := from_option BlockID.typed true m.(blockId) && given m.(signature).

(** The message without its empty byte arrays. *)
Definition normal (m : t) : t := {|
  type_ := m.(type_);
  height := m.(height);
  round := m.(round);
  polRound := m.(polRound);
  blockId := BlockID.normal <$> m.(blockId);
  timestamp := m.(timestamp);
  signature := nonempty m.(signature);
|}.

(** The dates are valid. *)
Definition timed (m : t) : bool := from_option date_valid true m.(timestamp).

(** The enumeration fields hold members. *)
Definition named (m : t) : bool := signedMsgType_named m.(type_).

(** The message with the numbers [toJSON] does not know replaced. *)
Definition known (m : t) : t := {|
  type_ := signedMsgType_known m.(type_);
  height := m.(height);
  round := m.(round);
  polRound := m.(polRound);
  blockId := m.(blockId);
  timestamp := m.(timestamp);
  signature := m.(signature);
|}.

Definition encodable {PB : Protobuf} {PS : ProtobufSpec PB} (m : t) : Prop :=
  typed m = true ∧ valid m ∧ small (wire m).

Definition merge (m a : t) : t := {|
  type_ := later_number m.(type_) a.(type_);
  height := later_number m.(height) a.(height);
  round := later_number m.(round) a.(round);
  polRound := later_number m.(polRound) a.(polRound);
  blockId := later_message m.(blockId) (BlockID.normal <$> a.(blockId));
  timestamp := later_message m.(timestamp) a.(timestamp);
  signature := later_bytes m.(signature) a.(signature);
|}.

(** A whole message seen as a partial one. *)
Definition full (m : t) : partial := {|
  p_type := Some m.(type_);
  p_height := Some m.(height);
  p_round := Some m.(round);
  p_polRound := Some m.(polRound);
  p_blockId := BlockID.full <$> m.(blockId);
  p_timestamp := m.(timestamp);
  p_signature := m.(signature);
|}.

(** The message as its [.proto] file declares it. *)
Definition schema (m : t) : list field :=
  [implicit 1 (VInt Int32 m.(type_));
   implicit 2 (VInt Int64 m.(height));
   implicit 3 (VInt Int32 m.(round));
   implicit 4 (VInt Int32 m.(polRound));
   singular 5 Optional (message_value BlockID.schema) m.(blockId);
   singular 6 Stamp timestamp_value m.(timestamp);
   implicit 7 (byte_array m.(signature))].

(** The message with its default for every property that is not kept. *)
Definition only (kept : string → bool) (m : t) : t := {|
  type_ := if kept "type" then m.(type_) else Int 0;
  height := if kept "height" then m.(height) else Int 0;
  round := if kept "round" then m.(round) else Int 0;
  polRound := if kept "polRound" then m.(polRound) else Int 0;
  blockId := if kept "blockId" then m.(blockId) else None;
  timestamp := if kept "timestamp" then m.(timestamp) else None;
  signature := if kept "signature" then m.(signature) else None;
|}.

#[global] Instance codec {PB : Protobuf} : FallibleCodec t :=
  {| fmsg_base := base; fmsg_encode := encode; fmsg_field := decode_field |}.

#[global] Program Instance spec {PB : Protobuf} (PS : ProtobufSpec PB) : FallibleSpec PS t :=
  {| fmsg_wire := wire; fmsg_valid := valid; fmsg_typed := typed; fmsg_normal := normal;
     fmsg_merge := merge |}.
Next Obligation. solve_fencode_wire. Qed.
Next Obligation. intros. solve_fencode_throws encode typed. Qed.
Next Obligation. solve_fdecode_wire. Qed.
Next Obligation. solve_fmerge_base. Qed.
Next Obligation. intros. solve_fadvances decode_field. Qed.

#[global] Program Instance given_ : FalliblePartial t partial :=
  {| fmsg_fromPartial := fromPartial; fmsg_full := full; fmsg_given := typed |}.
Next Obligation. solve_fgiven fromPartial typed. Qed.
Next Obligation. solve_fpartial fromPartial full typed. Qed.

#[global] Program Instance json : DatedJson t :=
  {| dmsg_fromJSON := fromJSON; dmsg_toJSON := toJSON; dmsg_timed := timed;
     dmsg_named := named; dmsg_known := known |}.
Next Obligation. solve_djson fromJSON toJSON timed. Qed.
Next Obligation. solve_dthrows toJSON timed. Qed.
Next Obligation. solve_known named known. Qed.

#[global] Instance schema_wire {PB : Protobuf} {PS : ProtobufSpec PB} : WireSchema wire schema.
Proof. solve_schema_wire wire schema. Qed.

#[global] Instance schema_normal : NormalSchema normal schema.
Proof. solve_schema_normal normal schema. Qed.

#[global] Instance schema_merge : MergeSchema merge schema.
Proof. solve_schema_merge merge schema. Qed.

(** Its row in the table of message types. *)
Definition message {PB : Protobuf} {PS : ProtobufSpec PB} : message_type :=
  dated_message "Proposal" nothing true schema only.

#[global] Instance message_lawful {PB : Protobuf} (PS : ProtobufSpec PB) : Lawful message.
Proof. solve_lawful decode_field fromJSON only. Qed.

End Proposal.

(** ** [SignedHeader] (tendermint/types/types.js) *)

Module SignedHeader.

Record t := mk {
  header : option Header.t;
  commit : option Commit.t;
}.

#[global] Instance t_eta : Settable t := λ m, mk m.(header) m.(commit).

Definition base : t := mk None None.

Definition encode {PB : Protobuf} (message : t) (writer : Writer) : result Writer :=
  Ok writer
  @>= defined_e message.(header) (submessage 10 Header.encode)
  @>= defined_e message.(commit) (submessage 18 Commit.encode).

Definition decode_field {PB : Protobuf} (tag : Z) (message : t) : RM t :=
  match field_number tag with
  | 1 => v ← read_nested Header.decode; mret (message <| header := Some v |>)
  | 2 => v ← read_nested Commit.decode; mret (message <| commit := Some v |>)
  | _ => _ ← skipType (wire_type tag); mret message
  end.

Definition decode {PB : Protobuf} (length : option Z) : RM t :=
  decode_message length base decode_field.

Definition fromJSON (object : js) : result t :=
  header' ← field_or object "header" (to_some Header.fromJSON) None;
  commit' ← field_or object "commit" (to_some Commit.fromJSON) None;
  Ok (mk header' commit').

Definition toJSON (message : t) : result js :=
  header' ← option_result Header.toJSON message.(header);
  commit' ← option_result Commit.toJSON message.(commit);
  Ok (Obj (prop_opt "header" id header' ++
   prop_opt "commit" id commit')).

Record partial := mkPartial {
  p_header : option Header.partial;
  p_commit : option Commit.partial;
}.

Definition fromPartial (object : partial) : t := {|
  header := Header.fromPartial <$> object.(p_header);
  commit := Commit.fromPartial <$> object.(p_commit);
|}.

(** The object with no property given. *)
Definition nothing : partial := mkPartial None None.

(** The bytes [encode] writes. *)
Definition wire {PB : Protobuf} {PS : ProtobufSpec PB} (m : t) : bytes :=
  f_message 10 Header.wire m.(header) ++
  f_message 18 Commit.wire m.(commit).

Definition valid (m : t) : Prop :=
  from_option Header.valid True m.(header) ∧ from_option Commit.valid True m.(commit).

(** The byte fields hold arrays, as the interface declares. *)
Definition typed (m : t) : bool := from_option Header.typed true m.(header) && from_option Commit.typed true m.(commit).

(** The message without its empty byte arrays. *)
Definition normal (m : t) : t := {|
  header := Header.normal <$> m.(header);
  commit := Commit.normal <$> m.(commit);
|}.

(** The dates are valid. *)
Definition timed (m : t) : bool := from_option Header.timed true m.(header) && from_option Commit.timed true m.(commit).

(** The enumeration fields hold members. *)
Definition named (m : t) : bool := from_option Commit.named true m.(commit).

(** The message with the numbers [toJSON] does not know replaced. *)
Definition known (m : t) : t := {|
  header := m.(header);
  commit := Commit.known <$> m.(commit);
|}.

Definition encodable {PB : Protobuf} {PS : ProtobufSpec PB} (m : t) : Prop :=
  typed m = true ∧ valid m ∧ small (wire m).

Definition merge (m a : t) : t := {|
  header := later_message m.(header) (Header.normal <$> a.(header));
  commit := later_message m.(commit) (Commit.normal <$> a.(commit));
|}.

(** A whole message seen as a partial one. *)
Definition full (m : t) : partial := {|
  p_header := Header.full <$> m.(header);
  p_commit := Commit.full <$> m.(commit);
|}.

(** The message as its [.proto] file declares it. *)
Definition schema (m : t) : list field :=
  [singular 1 Optional (message_value Header.schema) m.(header);
   singular 2 Optional (message_value Commit.schema) m.(commit)].

(** The message with its default for every property that is not kept. *)
Definition only (kept : string → bool) (m : t) : t := {|
  header := if kept "header" then m.(header) else None;
  commit := if kept "commit" then m.(commit) else None;
|}.

#[global] Instance codec {PB : Protobuf} : FallibleCodec t :=
  {| fmsg_base := base; fmsg_encode := encode; fmsg_field := decode_field |}.

#[global] Program Instance spec {PB : Protobuf} (PS : ProtobufSpec PB) : FallibleSpec PS t :=
  {| fmsg_wire := wire; fmsg_valid := valid; fmsg_typed := typed; fmsg_normal := normal;
     fmsg_merge := merge |}.
Next Obligation. solve_fencode_wire. Qed.
Next Obligation. intros. solve_fencode_throws encode typed. Qed.
Next Obligation. solve_fdecode_wire. Qed.
Next Obligation. solve_fmerge_base. Qed.
Next Obligation. intros. solve_fadvances decode_field. Qed.

#[global] Program Instance given_ : FalliblePartial t partial :=
  {| fmsg_fromPartial := fromPartial; fmsg_full := full; fmsg_given := typed |}.
Next Obligation. solve_fgiven fromPartial typed. Qed.
Next Obligation. solve_fpartial fromPartial full typed. Qed.

#[global] Program Instance json : DatedJson t :=
  {| dmsg_fromJSON := fromJSON; dmsg_toJSON := toJSON; dmsg_timed := timed;
     dmsg_named := named; dmsg_known := known |}.
Next Obligation. solve_djson fromJSON toJSON timed. Qed.
Next Obligation. solve_dthrows toJSON timed. Qed.
Next Obligation. solve_known named known. Qed.

#[global] Instance schema_wire {PB : Protobuf} {PS : ProtobufSpec PB} : WireSchema wire schema.
Proof. solve_schema_wire wire schema. Qed.

#[global] Instance schema_normal : NormalSchema normal schema.
Proof. solve_schema_normal normal schema. Qed.

#[global] Instance schema_merge : MergeSchema merge schema.
Proof. solve_schema_merge merge schema. Qed.

(** Its row in the table of message types. *)
Definition message {PB : Protobuf} {PS : ProtobufSpec PB} : message_type :=
  dated_message "SignedHeader" nothing true schema only.

#[global] Instance message_lawful {PB : Protobuf} (PS : ProtobufSpec PB) : Lawful message.
Proof. solve_lawful decode_field fromJSON only. Qed.

End SignedHeader.

(** ** [LightBlock] (tendermint/types/types.js) *)

Module LightBlock.

Record t := mk {
  signedHeader : option SignedHeader.t;
  validatorSet : option ValidatorSet.t;
}.

#[global] Instance t_eta : Settable t := λ m, mk m.(signedHeader) m.(validatorSet).

Definition base : t := mk None None.

Definition encode {PB : Protobuf} (message : t) (writer : Writer) : result Writer :=
  Ok writer
  @>= defined_e message.(signedHeader) (submessage 10 SignedHeader.encode)
  @>= defined_e message.(validatorSet) (submessage 18 ValidatorSet.encode).

Definition decode_field {PB : Protobuf} (tag : Z) (message : t) : RM t :=
  match field_number tag with
  | 1 => v ← read_nested SignedHeader.decode; mret (message <| signedHeader := Some v |>)
  | 2 => v ← read_nested ValidatorSet.decode; mret (message <| validatorSet := Some v |>)
  | _ => _ ← skipType (wire_type tag); mret message
  end.

Definition decode {PB : Protobuf} (length : option Z) : RM t :=
  decode_message length base decode_field.

Definition fromJSON (object : js) : result t :=
  signedHeader' ← field_or object "signedHeader" (to_some SignedHeader.fromJSON) None;
  validatorSet' ← field_or object "validatorSet" (to_some ValidatorSet.fromJSON) None;
  Ok (mk signedHeader' validatorSet').

Definition toJSON (message : t) : result js :=
  signedHeader' ← option_result SignedHeader.toJSON message.(signedHeader);
  Ok (Obj (prop_opt "signedHeader" id signedHeader' ++
   prop_opt "validatorSet" ValidatorSet.toJSON message.(validatorSet))).

Record partial := mkPartial {
  p_signedHeader : option SignedHeader.partial;
  p_validatorSet : option ValidatorSet.partial;
}.

Definition fromPartial (object : partial) : t := {|
  signedHeader := SignedHeader.fromPartial <$> object.(p_signedHeader);
  validatorSet := ValidatorSet.fromPartial <$> object.(p_validatorSet);
|}.

(** The object with no property given. *)
Definition nothing : partial := mkPartial None None.

(** The bytes [encode] writes. *)
Definition wire {PB : Protobuf} {PS : ProtobufSpec PB} (m : t) : bytes :=
  f_message 10 SignedHeader.wire m.(signedHeader) ++
  f_message 18 ValidatorSet.wire m.(validatorSet).

Definition valid (m : t) : Prop :=
  from_option SignedHeader.valid True m.(signedHeader) ∧ from_option ValidatorSet.valid True m.(validatorSet).

(** The byte fields hold arrays, as the interface declares. *)
Definition typed (m : t) : bool := from_option SignedHeader.typed true m.(signedHeader) && from_option ValidatorSet.typed true m.(validatorSet).

(** The message without its empty byte arrays. *)
Definition normal (m : t) : t := {|
  signedHeader := SignedHeader.normal <$> m.(signedHeader);
  validatorSet := ValidatorSet.normal <$> m.(validatorSet);
|}.

(** The dates are valid. *)
Definition timed (m : t) : bool := from_option SignedHeader.timed true m.(signedHeader).

(** The enumeration fields hold members. *)
Definition named (m : t) : bool := from_option SignedHeader.named true m.(signedHeader).

(** The message with the numbers [toJSON] does not know replaced. *)
Definition known (m : t) : t := {|
  signedHeader := SignedHeader.known <$> m.(signedHeader);
  validatorSet := m.(validatorSet);
|}.

Definition encodable {PB : Protobuf} {PS : ProtobufSpec PB} (m : t) : Prop :=
  typed m = true ∧ valid m ∧ small (wire m).

Definition merge (m a : t) : t := {|
  signedHeader := later_message m.(signedHeader) (SignedHeader.normal <$> a.(signedHeader));
  validatorSet := later_message m.(validatorSet) (ValidatorSet.normal <$> a.(validatorSet));
|}.

(** A whole message seen as a partial one. *)
Definition full (m : t) : partial := {|
  p_signedHeader := SignedHeader.full <$> m.(signedHeader);
  p_validatorSet := ValidatorSet.full <$> m.(validatorSet);
|}.

(** The message as its [.proto] file declares it. *)
Definition schema (m : t) : list field :=
  [singular 1 Optional (message_value SignedHeader.schema) m.(signedHeader);
   singular 2 Optional (message_value ValidatorSet.schema) m.(validatorSet)].

(** The message with its default for every property that is not kept. *)
Definition only (kept : string → bool) (m : t) : t := {|
  signedHeader := if kept "signedHeader" then m.(signedHeader) else None;
  validatorSet := if kept "validatorSet" then m.(validatorSet) else None;
|}.

#[global] Instance codec {PB : Protobuf} : FallibleCodec t :=
  {| fmsg_base := base; fmsg_encode := encode; fmsg_field := decode_field |}.

#[global] Program Instance spec {PB : Protobuf} (PS : ProtobufSpec PB) : FallibleSpec PS t :=
  {| fmsg_wire := wire; fmsg_valid := valid; fmsg_typed := typed; fmsg_normal := normal;
     fmsg_merge := merge |}.
Next Obligation. solve_fencode_wire. Qed.
Next Obligation. intros. solve_fencode_throws encode typed. Qed.
Next Obligation. solve_fdecode_wire. Qed.
Next Obligation. solve_fmerge_base. Qed.
Next Obligation. intros. solve_fadvances decode_field. Qed.

#[global] Program Instance given_ : FalliblePartial t partial :=
  {| fmsg_fromPartial := fromPartial; fmsg_full := full; fmsg_given := typed |}.
Next Obligation. solve_fgiven fromPartial typed. Qed.
Next Obligation. solve_fpartial fromPartial full typed. Qed.

#[global] Program Instance json : DatedJson t :=
  {| dmsg_fromJSON := fromJSON; dmsg_toJSON := toJSON; dmsg_timed := timed;
     dmsg_named := named; dmsg_known := known |}.
Next Obligation. solve_djson fromJSON toJSON timed. Qed.
Next Obligation. solve_dthrows toJSON timed. Qed.
Next Obligation. solve_known named known. Qed.

#[global] Instance schema_wire {PB : Protobuf} {PS : ProtobufSpec PB} : WireSchema wire schema.
Proof. solve_schema_wire wire schema. Qed.

#[global] Instance schema_normal : NormalSchema normal schema.
Proof. solve_schema_normal normal schema. Qed.

#[global] Instance schema_merge : MergeSchema merge schema.
Proof. solve_schema_merge merge schema. Qed.

(** Its row in the table of message types. *)
Definition message {PB : Protobuf} {PS : ProtobufSpec PB} : message_type :=
  dated_message "LightBlock" nothing true schema only.

#[global] Instance message_lawful {PB : Protobuf} (PS : ProtobufSpec PB) : Lawful message.
Proof. solve_lawful decode_field fromJSON only. Qed.

End LightBlock.

(** ** [BlockMeta] (tendermint/types/types.js) *)

Module BlockMeta.

Record t := mk {
  blockId : option BlockID.t;
  blockSize : number;
  header : option Header.t;
  numTxs : number;
}.

#[global] Instance t_eta : Settable t := λ m, mk m.(blockId) m.(blockSize) m.(header) m.(numTxs).

Definition base : t := mk None 0 None 0.

Definition encode {PB : Protobuf} (message : t) (writer : Writer) : result Writer :=
  Ok writer
  @>= defined_e message.(blockId) (submessage 10 BlockID.encode)
  @>= pure (when (num_neq message.(blockSize) 0)
       (fun w => w @> uint32 16 @> int64 message.(blockSize)))
  @>= defined_e message.(header) (submessage 26 Header.encode)
  @>= pure (when (num_neq message.(numTxs) 0) (fun w => w @> uint32 32 @> int64 message.(numTxs))).

Definition decode_field {PB : Protobuf} (tag : Z) (message : t) : RM t :=
  match field_number tag with
  | 1 => v ← read_nested BlockID.decode; mret (message <| blockId := Some v |>)
  | 2 => v ← read_number read_int64; mret (message <| blockSize := v |>)
  | 3 => v ← read_nested Header.decode; mret (message <| header := Some v |>)
  | 4 => v ← read_number read_int64; mret (message <| numTxs := v |>)
  | _ => _ ← skipType (wire_type tag); mret message
  end.

Definition decode {PB : Protobuf} (length : option Z) : RM t :=
  decode_message length base decode_field.

Definition fromJSON (object : js) : result t :=
  blockId' ← field_or object "blockId" (to_some BlockID.fromJSON) None;
  blockSize' ← field_or object "blockSize" js_Number 0;
  header' ← field_or object "header" (to_some Header.fromJSON) None;
  numTxs' ← field_or object "numTxs" js_Number 0;
  Ok (mk blockId' blockSize' header' numTxs').

Definition toJSON (message : t) : result js :=
  header' ← option_result Header.toJSON message.(header);
  Ok (Obj (prop_opt "blockId" BlockID.toJSON message.(blockId) ++
   [("blockSize", Num message.(blockSize))] ++
   prop_opt "header" id header' ++
   [("numTxs", Num message.(numTxs))])).

Record partial := mkPartial {
  p_blockId : option BlockID.partial;
  p_blockSize : option number;
  p_header : option Header.partial;
  p_numTxs : option number;
}.

Definition fromPartial (object : partial) : t := {|
  blockId := BlockID.fromPartial <$> object.(p_blockId);
  blockSize := object.(p_blockSize) ?? Int 0;
  header := Header.fromPartial <$> object.(p_header);
  numTxs := object.(p_numTxs) ?? Int 0;
|}.

(** The object with no property given. *)
Definition nothing : partial := mkPartial None None None None.

(** The bytes [encode] writes. *)
Definition wire {PB : Protobuf} {PS : ProtobufSpec PB} (m : t) : bytes :=
  f_message 10 BlockID.wire m.(blockId) ++
  f_number e_int64 16 m.(blockSize) ++
  f_message 26 Header.wire m.(header) ++
  f_number e_int64 32 m.(numTxs).

Definition valid (m : t) : Prop :=
  from_option BlockID.valid True m.(blockId) ∧ int64_ok m.(blockSize) ∧ from_option Header.valid True m.(header) ∧ int64_ok m.(numTxs).

(** The byte fields hold arrays, as the interface declares. *)
Definition typed (m : t) : bool := from_option BlockID.typed true m.(blockId) && from_option Header.typed true m.(header).

(** The message without its empty byte arrays. *)
Definition normal (m : t) : t := {|
  blockId := BlockID.normal <$> m.(blockId);
  blockSize := m.(blockSize);
  header := Header.normal <$> m.(header);
  numTxs := m.(numTxs);
|}.

(** The dates are valid. *)
Definition timed (m : t) : bool := from_option Header.timed true m.(header).

Definition encodable {PB : Protobuf} {PS : ProtobufSpec PB} (m : t) : Prop :=
  typed m = true ∧ valid m ∧ small (wire m).

Definition merge (m a : t) : t := {|
  blockId := later_message m.(blockId) (BlockID.normal <$> a.(blockId));
  blockSize := later_number m.(blockSize) a.(blockSize);
  header := later_message m.(header) (Header.normal <$> a.(header));
  numTxs := later_number m.(numTxs) a.(numTxs);
|}.

(** A whole message seen as a partial one. *)
Definition full (m : t) : partial := {|
  p_blockId := BlockID.full <$> m.(blockId);
  p_blockSize := Some m.(blockSize);
  p_header := Header.full <$> m.(header);
  p_numTxs := Some m.(numTxs);
|}.

(** The message as its [.proto] file declares it. *)
Definition schema (m : t) : list field :=
  [singular 1 Optional (message_value BlockID.schema) m.(blockId);
   implicit 2 (VInt Int64 m.(blockSize));
   singular 3 Optional (message_value Header.schema) m.(header);
   implicit 4 (VInt Int64 m.(numTxs))].

(** The message with its default for every property that is not kept. *)
Definition only (kept : string → bool) (m : t) : t := {|
  blockId := if kept "blockId" then m.(blockId) else None;
  blockSize := if kept "blockSize" then m.(blockSize) else Int 0;
  header := if kept "header" then m.(header) else None;
  numTxs := if kept "numTxs" then m.(numTxs) else Int 0;
|}.

#[global] Instance codec {PB : Protobuf} : FallibleCodec t :=
  {| fmsg_base := base; fmsg_encode := encode; fmsg_field := decode_field |}.

#[global] Program Instance spec {PB : Protobuf} (PS : ProtobufSpec PB) : FallibleSpec PS t :=
  {| fmsg_wire := wire; fmsg_valid := valid; fmsg_typed := typed; fmsg_normal := normal;
     fmsg_merge := merge |}.
Next Obligation. solve_fencode_wire. Qed.
Next Obligation. intros. solve_fencode_throws encode typed. Qed.
Next Obligation. solve_fdecode_wire. Qed.
Next Obligation. solve_fmerge_base. Qed.
Next Obligation. intros. solve_fadvances decode_field. Qed.

#[global] Program Instance given_ : FalliblePartial t partial :=
  {| fmsg_fromPartial := fromPartial; fmsg_full := full; fmsg_given := typed |}.
Next Obligation. solve_fgiven fromPartial typed. Qed.
Next Obligation. solve_fpartial fromPartial full typed. Qed.

#[global] Program Instance json : DatedJson t :=
  {| dmsg_fromJSON := fromJSON; dmsg_toJSON := toJSON; dmsg_timed := timed;
     dmsg_named := fun _ => true; dmsg_known := fun m => m |}.
Next Obligation. solve_djson fromJSON toJSON timed. Qed.
Next Obligation. solve_dthrows toJSON timed. Qed.
Next Obligation. reflexivity. Qed.

#[global] Instance schema_wire {PB : Protobuf} {PS : ProtobufSpec PB} : WireSchema wire schema.
Proof. solve_schema_wire wire schema. Qed.

#[global] Instance schema_normal : NormalSchema normal schema.
Proof. solve_schema_normal normal schema. Qed.

#[global] Instance schema_merge : MergeSchema merge schema.
Proof. solve_schema_merge merge schema. Qed.

(** Its row in the table of message types. *)
Definition message {PB : Protobuf} {PS : ProtobufSpec PB} : message_type :=
  dated_message "BlockMeta" nothing true schema only.

#[global] Instance message_lawful {PB : Protobuf} (PS : ProtobufSpec PB) : Lawful message.
Proof. solve_lawful decode_field fromJSON only. Qed.

End BlockMeta.

(** ** [TxProof] (tendermint/types/types.js) *)

Module TxProof.

Record t := mk {
  rootHash : option bytes;
  data_ : option bytes;
  proof : option Proof.t;
}.

#[global] Instance t_eta : Settable t := λ m, mk m.(rootHash) m.(data_) m.(proof).

Definition base : t := mk None None None.

Definition encode {PB : Protobuf} (message : t) (writer : Writer) : result Writer :=
  Ok writer
  @>= bytes_field 10 message.(rootHash)
  @>= bytes_field 18 message.(data_)
  @>= defined_e message.(proof) (submessage 26 Proof.encode).

Definition decode_field {PB : Protobuf} (tag : Z) (message : t) : RM t :=
  match field_number tag with
  | 1 => v ← read_bytes; mret (message <| rootHash := Some v |>)
  | 2 => v ← read_bytes; mret (message <| data_ := Some v |>)
  | 3 => v ← read_nested Proof.decode; mret (message <| proof := Some v |>)
  | _ => _ ← skipType (wire_type tag); mret message
  end.

Definition decode {PB : Protobuf} (length : option Z) : RM t :=
  decode_message length base decode_field.

Definition fromJSON (object : js) : result t :=
  rootHash' ← field_or object "rootHash" (to_some bytesFromBase64) None;
  data_' ← field_or object "data" (to_some bytesFromBase64) None;
  proof' ← field_or object "proof" (to_some Proof.fromJSON) None;
  Ok (mk rootHash' data_' proof').

Definition toJSON (message : t) : js :=
  Obj (prop_opt "rootHash" (fun b => Str (base64FromBytes b)) message.(rootHash) ++
   prop_opt "data" (fun b => Str (base64FromBytes b)) message.(data_) ++
   prop_opt "proof" Proof.toJSON message.(proof)).

Record partial := mkPartial {
  p_rootHash : option bytes;
  p_data : option bytes;
  p_proof : option Proof.partial;
}.

Definition fromPartial (object : partial) : t := {|
  rootHash := Some (object.(p_rootHash) ?? []);
  data_ := Some (object.(p_data) ?? []);
  proof := Proof.fromPartial <$> object.(p_proof);
|}.

(** The object with no property given. *)
Definition nothing : partial := mkPartial None None None.

(** The bytes [encode] writes. *)
Definition wire {PB : Protobuf} {PS : ProtobufSpec PB} (m : t) : bytes :=
  f_bytes 10 m.(rootHash) ++
  f_bytes 18 m.(data_) ++
  f_message 26 Proof.wire m.(proof).

Definition valid (m : t) : Prop :=
  from_option Proof.valid True m.(proof).

(** The byte fields hold arrays, as the interface declares. *)
Definition typed (m : t) : bool := given m.(rootHash) && given m.(data_) && from_option Proof.typed true m.(proof).

(** The message without its empty byte arrays. *)
Definition normal (m : t) : t := {|
  rootHash := nonempty m.(rootHash);
  data_ := nonempty m.(data_);
  proof := Proof.normal <$> m.(proof);
|}.

Definition encodable {PB : Protobuf} {PS : ProtobufSpec PB} (m : t) : Prop :=
  typed m = true ∧ valid m ∧ small (wire m).

Definition merge (m a : t) : t := {|
  rootHash := later_bytes m.(rootHash) a.(rootHash);
  data_ := later_bytes m.(data_) a.(data_);
  proof := later_message m.(proof) (Proof.normal <$> a.(proof));
|}.

(** A whole message seen as a partial one. *)
Definition full (m : t) : partial := {|
  p_rootHash := m.(rootHash);
  p_data := m.(data_);
  p_proof := Proof.full <$> m.(proof);
|}.

(** The message as its [.proto] file declares it. *)
Definition schema (m : t) : list field :=
  [implicit 1 (byte_array m.(rootHash));
   implicit 2 (byte_array m.(data_));
   singular 3 Optional (message_value Proof.schema) m.(proof)].

(** The message with its default for every property that is not kept. *)
Definition only (kept : string → bool) (m : t) : t := {|
  rootHash := if kept "rootHash" then m.(rootHash) else None;
  data_ := if kept "data" then m.(data_) else None;
  proof := if kept "proof" then m.(proof) else None;
|}.

#[global] Instance codec {PB : Protobuf} : FallibleCodec t :=
  {| fmsg_base := base; fmsg_encode := encode; fmsg_field := decode_field |}.

#[global] Program Instance spec {PB : Protobuf} (PS : ProtobufSpec PB) : FallibleSpec PS t :=
  {| fmsg_wire := wire; fmsg_valid := valid; fmsg_typed := typed; fmsg_normal := normal;
     fmsg_merge := merge |}.
Next Obligation. solve_fencode_wire. Qed.
Next Obligation. intros. solve_fencode_throws encode typed. Qed.
Next Obligation. solve_fdecode_wire. Qed.
Next Obligation. solve_fmerge_base. Qed.
Next Obligation. intros. solve_fadvances decode_field. Qed.

#[global] Program Instance given_ : FalliblePartial t partial :=
  {| fmsg_fromPartial := fromPartial; fmsg_full := full; fmsg_given := typed |}.
Next Obligation. solve_fgiven fromPartial typed. Qed.
Next Obligation. solve_fpartial fromPartial full typed. Qed.

#[global] Program Instance json : FallibleJson t :=
  {| fmsg_fromJSON := fromJSON; fmsg_toJSON := toJSON;
     fmsg_named := fun _ => true; fmsg_known := fun m => m |}.
Next Obligation. solve_fjson fromJSON toJSON. Qed.
Next Obligation. reflexivity. Qed.

#[global] Instance schema_wire {PB : Protobuf} {PS : ProtobufSpec PB} : WireSchema wire schema.
Proof. solve_schema_wire wire schema. Qed.

#[global] Instance schema_normal : NormalSchema normal schema.
Proof. solve_schema_normal normal schema. Qed.

#[global] Instance schema_merge : MergeSchema merge schema.
Proof. solve_schema_merge merge schema. Qed.

(** Its row in the table of message types. *)
Definition message {PB : Protobuf} {PS : ProtobufSpec PB} : message_type :=
  fallible_message "TxProof" nothing true schema only.

#[global] Instance message_lawful {PB : Protobuf} (PS : ProtobufSpec PB) : Lawful message.
Proof. solve_lawful decode_field fromJSON only. Qed.

End TxProof.

(** ** [BlockParams] (tendermint/types/params.js) *)

Module BlockParams.

Record t := mk {
  maxBytes : number;
  maxGas : number;
  timeIotaMs : number;
}.

#[global] Instance t_eta : Settable t := λ m, mk m.(maxBytes) m.(maxGas) m.(timeIotaMs).

Definition base : t := mk 0 0 0.

Definition encode {PB : Protobuf} (message : t) (writer : Writer) : Writer :=
  writer
  @> when (num_neq message.(maxBytes) 0) (fun w => w @> uint32 8 @> int64 message.(maxBytes))
  @> when (num_neq message.(maxGas) 0) (fun w => w @> uint32 16 @> int64 message.(maxGas))
  @> when (num_neq message.(timeIotaMs) 0) (fun w => w @> uint32 24 @> int64 message.(timeIotaMs)).

Definition decode_field {PB : Protobuf} (tag : Z) (message : t) : RM t :=
  match field_number tag with
  | 1 => v ← read_number read_int64; mret (message <| maxBytes := v |>)
  | 2 => v ← read_number read_int64; mret (message <| maxGas := v |>)
  | 3 => v ← read_number read_int64; mret (message <| timeIotaMs := v |>)
  | _ => _ ← skipType (wire_type tag); mret message
  end.

Definition decode {PB : Protobuf} (length : option Z) : RM t :=
  decode_message length base decode_field.

Definition fromJSON (object : js) : result t :=
  maxBytes' ← field_or object "maxBytes" js_Number 0;
  maxGas' ← field_or object "maxGas" js_Number 0;
  timeIotaMs' ← field_or object "timeIotaMs" js_Number 0;
  Ok (mk maxBytes' maxGas' timeIotaMs').

Definition toJSON (message : t) : js :=
  Obj ([("maxBytes", Num message.(maxBytes));
    ("maxGas", Num message.(maxGas));
    ("timeIotaMs", Num message.(timeIotaMs))]).

Record partial := mkPartial {
  p_maxBytes : option number;
  p_maxGas : option number;
  p_timeIotaMs : option number;
}.

Definition fromPartial (object : partial) : t := {|
  maxBytes := object.(p_maxBytes) ?? Int 0;
  maxGas := object.(p_maxGas) ?? Int 0;
  timeIotaMs := object.(p_timeIotaMs) ?? Int 0;
|}.

(** The object with no property given. *)
Definition nothing : partial := mkPartial None None None.

(** The bytes [encode] writes. *)
Definition wire {PB : Protobuf} {PS : ProtobufSpec PB} (m : t) : bytes :=
  f_number e_int64 8 m.(maxBytes) ++
  f_number e_int64 16 m.(maxGas) ++
  f_number e_int64 24 m.(timeIotaMs).

Definition valid (m : t) : Prop :=
  int64_ok m.(maxBytes) ∧ int64_ok m.(maxGas) ∧ int64_ok m.(timeIotaMs).

Definition encodable {PB : Protobuf} {PS : ProtobufSpec PB} (m : t) : Prop :=
  valid m ∧ small (wire m).

Definition merge (m a : t) : t := {|
  maxBytes := later_number m.(maxBytes) a.(maxBytes);
  maxGas := later_number m.(maxGas) a.(maxGas);
  timeIotaMs := later_number m.(timeIotaMs) a.(timeIotaMs);
|}.

(** A whole message seen as a partial one. *)
Definition full (m : t) : partial := {|
  p_maxBytes := Some m.(maxBytes);
  p_maxGas := Some m.(maxGas);
  p_timeIotaMs := Some m.(timeIotaMs);
|}.

(** The message as its [.proto] file declares it. *)
Definition schema (m : t) : list field :=
  [implicit 1 (VInt Int64 m.(maxBytes));
   implicit 2 (VInt Int64 m.(maxGas));
   implicit 3 (VInt Int64 m.(timeIotaMs))].

(** The message with its default for every property that is not kept. *)
Definition only (kept : string → bool) (m : t) : t := {|
  maxBytes := if kept "maxBytes" then m.(maxBytes) else Int 0;
  maxGas := if kept "maxGas" then m.(maxGas) else Int 0;
  timeIotaMs := if kept "timeIotaMs" then m.(timeIotaMs) else Int 0;
|}.

#[global] Instance codec {PB : Protobuf} : MessageCodec t :=
  {| msg_base := base; msg_encode := encode; msg_field := decode_field |}.

#[global] Program Instance spec {PB : Protobuf} (PS : ProtobufSpec PB) : MessageSpec PS t :=
  {| msg_wire := wire; msg_valid := valid; msg_merge := merge |}.
Next Obligation. solve_encode_wire. Qed.
Next Obligation. solve_decode_wire. Qed.
Next Obligation. solve_merge_base. Qed.
Next Obligation. intros. solve_advances decode_field. Qed.

#[global] Program Instance data : MessageData t partial :=
  {| msg_fromJSON := fromJSON; msg_toJSON := toJSON;
     msg_fromPartial := fromPartial; msg_full := full |}.
Next Obligation. solve_json fromJSON toJSON. Qed.
Next Obligation. solve_partial fromPartial full. Qed.

#[global] Instance schema_wire {PB : Protobuf} {PS : ProtobufSpec PB} : WireSchema wire schema.
Proof. solve_schema_wire wire schema. Qed.

#[global] Instance schema_merge : MergeSchema merge schema.
Proof. solve_schema_merge merge schema. Qed.

(** Its row in the table of message types. *)
Definition message {PB : Protobuf} {PS : ProtobufSpec PB} : message_type :=
  plain_message "BlockParams" nothing true schema only.

#[global] Instance message_lawful {PB : Protobuf} (PS : ProtobufSpec PB) : Lawful message.
Proof. solve_lawful decode_field fromJSON only. Qed.

End BlockParams.

(** ** [EvidenceParams] (tendermint/types/params.js) *)

Module EvidenceParams.

Record t := mk {
  maxAgeNumBlocks : number;
  maxAgeDuration : option Duration.t;
  maxBytes : number;
}.

#[global] Instance t_eta : Settable t := λ m, mk m.(maxAgeNumBlocks) m.(maxAgeDuration)
  m.(maxBytes).

Definition base : t := mk 0 None 0.

Definition encode {PB : Protobuf} (message : t) (writer : Writer) : Writer :=
  writer
  @> when (num_neq message.(maxAgeNumBlocks) 0)
       (fun w => w @> uint32 8 @> int64 message.(maxAgeNumBlocks))
  @> defined message.(maxAgeDuration) (fun v w => w @> uint32 18 @> fork @> Duration.encode v @> ldelim)
  @> when (num_neq message.(maxBytes) 0) (fun w => w @> uint32 24 @> int64 message.(maxBytes)).

Definition decode_field {PB : Protobuf} (tag : Z) (message : t) : RM t :=
  match field_number tag with
  | 1 => v ← read_number read_int64; mret (message <| maxAgeNumBlocks := v |>)
  | 2 => v ← read_nested Duration.decode; mret (message <| maxAgeDuration := Some v |>)
  | 3 => v ← read_number read_int64; mret (message <| maxBytes := v |>)
  | _ => _ ← skipType (wire_type tag); mret message
  end.

Definition decode {PB : Protobuf} (length : option Z) : RM t :=
  decode_message length base decode_field.

Definition fromJSON (object : js) : result t :=
  maxAgeNumBlocks' ← field_or object "maxAgeNumBlocks" js_Number 0;
  maxAgeDuration' ← field_or object "maxAgeDuration" (to_some Duration.fromJSON) None;
  maxBytes' ← field_or object "maxBytes" js_Number 0;
  Ok (mk maxAgeNumBlocks' maxAgeDuration' maxBytes').

Definition toJSON (message : t) : js :=
  Obj ([("maxAgeNumBlocks", Num message.(maxAgeNumBlocks))] ++
   prop_opt "maxAgeDuration" Duration.toJSON message.(maxAgeDuration) ++
   [("maxBytes", Num message.(maxBytes))]).

Record partial := mkPartial {
  p_maxAgeNumBlocks : option number;
  p_maxAgeDuration : option Duration.partial;
  p_maxBytes : option number;
}.

Definition fromPartial (object : partial) : t := {|
  maxAgeNumBlocks := object.(p_maxAgeNumBlocks) ?? Int 0;
  maxAgeDuration := Duration.fromPartial <$> object.(p_maxAgeDuration);
  maxBytes := object.(p_maxBytes) ?? Int 0;
|}.

(** The object with no property given. *)
Definition nothing : partial := mkPartial None None None.

(** The bytes [encode] writes. *)
Definition wire {PB : Protobuf} {PS : ProtobufSpec PB} (m : t) : bytes :=
  f_number e_int64 8 m.(maxAgeNumBlocks) ++
  f_message 18 Duration.wire m.(maxAgeDuration) ++
  f_number e_int64 24 m.(maxBytes).

Definition valid (m : t) : Prop :=
  int64_ok m.(maxAgeNumBlocks) ∧ from_option Duration.valid True m.(maxAgeDuration) ∧ int64_ok m.(maxBytes).

Definition encodable {PB : Protobuf} {PS : ProtobufSpec PB} (m : t) : Prop :=
  valid m ∧ small (wire m).

Definition merge (m a : t) : t := {|
  maxAgeNumBlocks := later_number m.(maxAgeNumBlocks) a.(maxAgeNumBlocks);
  maxAgeDuration := later_message m.(maxAgeDuration) a.(maxAgeDuration);
  maxBytes := later_number m.(maxBytes) a.(maxBytes);
|}.

(** A whole message seen as a partial one. *)
Definition full (m : t) : partial := {|
  p_maxAgeNumBlocks := Some m.(maxAgeNumBlocks);
  p_maxAgeDuration := Duration.full <$> m.(maxAgeDuration);
  p_maxBytes := Some m.(maxBytes);
|}.

(** The message as its [.proto] file declares it. *)
Definition schema (m : t) : list field :=
  [implicit 1 (VInt Int64 m.(maxAgeNumBlocks));
   singular 2 Optional (message_value Duration.schema) m.(maxAgeDuration);
   implicit 3 (VInt Int64 m.(maxBytes))].

(** The message with its default for every property that is not kept. *)
Definition only (kept : string → bool) (m : t) : t := {|
  maxAgeNumBlocks := if kept "maxAgeNumBlocks" then m.(maxAgeNumBlocks) else Int 0;
  maxAgeDuration := if kept "maxAgeDuration" then m.(maxAgeDuration) else None;
  maxBytes := if kept "maxBytes" then m.(maxBytes) else Int 0;
|}.

#[global] Instance codec {PB : Protobuf} : MessageCodec t :=
  {| msg_base := base; msg_encode := encode; msg_field := decode_field |}.

#[global] Program Instance spec {PB : Protobuf} (PS : ProtobufSpec PB) : MessageSpec PS t :=
  {| msg_wire := wire; msg_valid := valid; msg_merge := merge |}.
Next Obligation. solve_encode_wire. Qed.
Next Obligation. solve_decode_wire. Qed.
Next Obligation. solve_merge_base. Qed.
Next Obligation. intros. solve_advances decode_field. Qed.

#[global] Program Instance data : MessageData t partial :=
  {| msg_fromJSON := fromJSON; msg_toJSON := toJSON;
     msg_fromPartial := fromPartial; msg_full := full |}.
Next Obligation. solve_json fromJSON toJSON. Qed.
Next Obligation. solve_partial fromPartial full. Qed.

#[global] Instance schema_wire {PB : Protobuf} {PS : ProtobufSpec PB} : WireSchema wire schema.
Proof. solve_schema_wire wire schema. Qed.

#[global] Instance schema_merge : MergeSchema merge schema.
Proof. solve_schema_merge merge schema. Qed.

(** Its row in the table of message types. *)
Definition message {PB : Protobuf} {PS : ProtobufSpec PB} : message_type :=
  plain_message "EvidenceParams" nothing true schema only.

#[global] Instance message_lawful {PB : Protobuf} (PS : ProtobufSpec PB) : Lawful message.
Proof. solve_lawful decode_field fromJSON only. Qed.

End EvidenceParams.

(** ** [ValidatorParams] (tendermint/types/params.js) *)

Module ValidatorParams.

Record t := mk {
  pubKeyTypes : list string;
}.

#[global] Instance t_eta : Settable t := λ m, mk m.(pubKeyTypes).

Definition base : t := mk [].

Definition encode {PB : Protobuf} (message : t) (writer : Writer) : Writer :=
  writer
  @> each message.(pubKeyTypes) (fun v w => w @> uint32 10 @> string_ v).

Definition decode_field {PB : Protobuf} (tag : Z) (message : t) : RM t :=
  match field_number tag with
  | 1 => v ← read_string; mret (message <| pubKeyTypes := message.(pubKeyTypes) ++ [v] |>)
  | _ => _ ← skipType (wire_type tag); mret message
  end.

Definition decode {PB : Protobuf} (length : option Z) : RM t :=
  decode_message length base decode_field.

Definition fromJSON (object : js) : result t :=
  pubKeyTypes' ← field_or object "pubKeyTypes" (to_list to_string) [];
  Ok (mk pubKeyTypes').

Definition toJSON (message : t) : js :=
  Obj ([("pubKeyTypes", Arr (map Str message.(pubKeyTypes)))]).

Record partial := mkPartial {
  p_pubKeyTypes : option (list string);
}.

Definition fromPartial (object : partial) : t := {|
  pubKeyTypes := (object.(p_pubKeyTypes) ?? []);
|}.

(** The object with no property given. *)
Definition nothing : partial := mkPartial None.

(** The bytes [encode] writes. *)
Definition wire {PB : Protobuf} {PS : ProtobufSpec PB} (m : t) : bytes :=
  f_repeated 10 chars m.(pubKeyTypes).

Definition valid (m : t) : Prop :=
  True.

Definition encodable {PB : Protobuf} {PS : ProtobufSpec PB} (m : t) : Prop :=
  valid m ∧ small (wire m).

Definition merge (m a : t) : t := {|
  pubKeyTypes := m.(pubKeyTypes) ++ a.(pubKeyTypes);
|}.

(** A whole message seen as a partial one. *)
Definition full (m : t) : partial := {|
  p_pubKeyTypes := Some m.(pubKeyTypes);
|}.

(** The message as its [.proto] file declares it. *)
Definition schema (m : t) : list field :=
  [repeated 1 VString m.(pubKeyTypes)].

(** The message with its default for every property that is not kept. *)
Definition only (kept : string → bool) (m : t) : t := {|
  pubKeyTypes := if kept "pubKeyTypes" then m.(pubKeyTypes) else [];
|}.

#[global] Instance codec {PB : Protobuf} : MessageCodec t :=
  {| msg_base := base; msg_encode := encode; msg_field := decode_field |}.

#[global] Program Instance spec {PB : Protobuf} (PS : ProtobufSpec PB) : MessageSpec PS t :=
  {| msg_wire := wire; msg_valid := valid; msg_merge := merge |}.
Next Obligation. solve_encode_wire. Qed.
Next Obligation. solve_decode_wire. Qed.
Next Obligation. solve_merge_base. Qed.
Next Obligation. intros. solve_advances decode_field. Qed.

#[global] Program Instance data : MessageData t partial :=
  {| msg_fromJSON := fromJSON; msg_toJSON := toJSON;
     msg_fromPartial := fromPartial; msg_full := full |}.
Next Obligation. solve_json fromJSON toJSON. Qed.
Next Obligation. solve_partial fromPartial full. Qed.

#[global] Instance schema_wire {PB : Protobuf} {PS : ProtobufSpec PB} : WireSchema wire schema.
Proof. solve_schema_wire wire schema. Qed.

#[global] Instance schema_merge : MergeSchema merge schema.
Proof. solve_schema_merge merge schema. Qed.

(** Its row in the table of message types. *)
Definition message {PB : Protobuf} {PS : ProtobufSpec PB} : message_type :=
  plain_message "ValidatorParams" nothing true schema only.

#[global] Instance message_lawful {PB : Protobuf} (PS : ProtobufSpec PB) : Lawful message.
Proof. solve_lawful decode_field fromJSON only. Qed.

End ValidatorParams.

(** ** [VersionParams] (tendermint/types/params.js) *)

Module VersionParams.

Record t := mk {
  appVersion : number;
}.

#[global] Instance t_eta : Settable t := λ m, mk m.(appVersion).

Definition base : t := mk 0.

Definition encode {PB : Protobuf} (message : t) (writer : Writer) : Writer :=
  writer
  @> when (num_neq message.(appVersion) 0) (fun w => w @> uint32 8 @> uint64 message.(appVersion)).

Definition decode_field {PB : Protobuf} (tag : Z) (message : t) : RM t :=
  match field_number tag with
  | 1 => v ← read_number read_uint64; mret (message <| appVersion := v |>)
  | _ => _ ← skipType (wire_type tag); mret message
  end.

Definition decode {PB : Protobuf} (length : option Z) : RM t :=
  decode_message length base decode_field.

Definition fromJSON (object : js) : result t :=
  appVersion' ← field_or object "appVersion" js_Number 0;
  Ok (mk appVersion').

Definition toJSON (message : t) : js :=
  Obj ([("appVersion", Num message.(appVersion))]).

Record partial := mkPartial {
  p_appVersion : option number;
}.

Definition fromPartial (object : partial) : t := {|
  appVersion := object.(p_appVersion) ?? Int 0;
|}.

(** The object with no property given. *)
Definition nothing : partial := mkPartial None.

(** The bytes [encode] writes. *)
Definition wire {PB : Protobuf} {PS : ProtobufSpec PB} (m : t) : bytes :=
  f_number e_uint64 8 m.(appVersion).

Definition valid (m : t) : Prop :=
  uint64_ok m.(appVersion).

Definition encodable {PB : Protobuf} {PS : ProtobufSpec PB} (m : t) : Prop :=
  valid m ∧ small (wire m).

Definition merge (m a : t) : t := {|
  appVersion := later_number m.(appVersion) a.(appVersion);
|}.

(** A whole message seen as a partial one. *)
Definition full (m : t) : partial := {|
  p_appVersion := Some m.(appVersion);
|}.

(** The message as its [.proto] file declares it. *)
Definition schema (m : t) : list field :=
  [implicit 1 (VInt Uint64 m.(appVersion))].

(** The message with its default for every property that is not kept. *)
Definition only (kept : string → bool) (m : t) : t := {|
  appVersion := if kept "appVersion" then m.(appVersion) else Int 0;
|}.

#[global] Instance codec {PB : Protobuf} : MessageCodec t :=
  {| msg_base := base; msg_encode := encode; msg_field := decode_field |}.

#[global] Program Instance spec {PB : Protobuf} (PS : ProtobufSpec PB) : MessageSpec PS t :=
  {| msg_wire := wire; msg_valid := valid; msg_merge := merge |}.
Next Obligation. solve_encode_wire. Qed.
Next Obligation. solve_decode_wire. Qed.
Next Obligation. solve_merge_base. Qed.
Next Obligation. intros. solve_advances decode_field. Qed.

#[global] Program Instance data : MessageData t partial :=
  {| msg_fromJSON := fromJSON; msg_toJSON := toJSON;
     msg_fromPartial := fromPartial; msg_full := full |}.
Next Obligation. solve_json fromJSON toJSON. Qed.
Next Obligation. solve_partial fromPartial full. Qed.

#[global] Instance schema_wire {PB : Protobuf} {PS : ProtobufSpec PB} : WireSchema wire schema.
Proof. solve_schema_wire wire schema. Qed.

#[global] Instance schema_merge : MergeSchema merge schema.
Proof. solve_schema_merge merge schema. Qed.

(** Its row in the table of message types. *)
Definition message {PB : Protobuf} {PS : ProtobufSpec PB} : message_type :=
  plain_message "VersionParams" nothing true schema only.

#[global] Instance message_lawful {PB : Protobuf} (PS : ProtobufSpec PB) : Lawful message.
Proof. solve_lawful decode_field fromJSON only. Qed.

End VersionParams.

(** ** [ConsensusParams] (tendermint/types/params.js) *)

Module ConsensusParams.

Record t := mk {
  block : option BlockParams.t;
  evidence : option EvidenceParams.t;
  validator : option ValidatorParams.t;
  version : option VersionParams.t;
}.

#[global] Instance t_eta : Settable t := λ m, mk m.(block) m.(evidence) m.(validator)
  m.(version).

Definition base : t := mk None None None None.

Definition encode {PB : Protobuf} (message : t) (writer : Writer) : Writer :=
  writer
  @> defined message.(block) (fun v w => w @> uint32 10 @> fork @> BlockParams.encode v @> ldelim)
  @> defined message.(evidence) (fun v w => w @> uint32 18 @> fork @> EvidenceParams.encode v @> ldelim)
  @> defined message.(validator) (fun v w => w @> uint32 26 @> fork @> ValidatorParams.encode v @> ldelim)
  @> defined message.(version) (fun v w => w @> uint32 34 @> fork @> VersionParams.encode v @> ldelim).

Definition decode_field {PB : Protobuf} (tag : Z) (message : t) : RM t :=
  match field_number tag with
  | 1 => v ← read_nested BlockParams.decode; mret (message <| block := Some v |>)
  | 2 => v ← read_nested EvidenceParams.decode; mret (message <| evidence := Some v |>)
  | 3 => v ← read_nested ValidatorParams.decode; mret (message <| validator := Some v |>)
  | 4 => v ← read_nested VersionParams.decode; mret (message <| version := Some v |>)
  | _ => _ ← skipType (wire_type tag); mret message
  end.

Definition decode {PB : Protobuf} (length : option Z) : RM t :=
  decode_message length base decode_field.

Definition fromJSON (object : js) : result t :=
  block' ← field_or object "block" (to_some BlockParams.fromJSON) None;
  evidence' ← field_or object "evidence" (to_some EvidenceParams.fromJSON) None;
  validator' ← field_or object "validator" (to_some ValidatorParams.fromJSON) None;
  version' ← field_or object "version" (to_some VersionParams.fromJSON) None;
  Ok (mk block' evidence' validator' version').

Definition toJSON (message : t) : js :=
  Obj (prop_opt "block" BlockParams.toJSON message.(block) ++
   prop_opt "evidence" EvidenceParams.toJSON message.(evidence) ++
   prop_opt "validator" ValidatorParams.toJSON message.(validator) ++
   prop_opt "version" VersionParams.toJSON message.(version)).

Record partial := mkPartial {
  p_block : option BlockParams.partial;
  p_evidence : option EvidenceParams.partial;
  p_validator : option ValidatorParams.partial;
  p_version : option VersionParams.partial;
}.

Definition fromPartial (object : partial) : t := {|
  block := BlockParams.fromPartial <$> object.(p_block);
  evidence := EvidenceParams.fromPartial <$> object.(p_evidence);
  validator := ValidatorParams.fromPartial <$> object.(p_validator);
  version := VersionParams.fromPartial <$> object.(p_version);
|}.

(** The object with no property given. *)
Definition nothing : partial := mkPartial None None None None.

(** The bytes [encode] writes. *)
Definition wire {PB : Protobuf} {PS : ProtobufSpec PB} (m : t) : bytes :=
  f_message 10 BlockParams.wire m.(block) ++
  f_message 18 EvidenceParams.wire m.(evidence) ++
  f_message 26 ValidatorParams.wire m.(validator) ++
  f_message 34 VersionParams.wire m.(version).

Definition valid (m : t) : Prop :=
  from_option BlockParams.valid True m.(block) ∧ from_option EvidenceParams.valid True m.(evidence) ∧ from_option ValidatorParams.valid True m.(validator) ∧ from_option VersionParams.valid True m.(version).

Definition encodable {PB : Protobuf} {PS : ProtobufSpec PB} (m : t) : Prop :=
  valid m ∧ small (wire m).

Definition merge (m a : t) : t := {|
  block := later_message m.(block) a.(block);
  evidence := later_message m.(evidence) a.(evidence);
  validator := later_message m.(validator) a.(validator);
  version := later_message m.(version) a.(version);
|}.

(** A whole message seen as a partial one. *)
Definition full (m : t) : partial := {|
  p_block := BlockParams.full <$> m.(block);
  p_evidence := EvidenceParams.full <$> m.(evidence);
  p_validator := ValidatorParams.full <$> m.(validator);
  p_version := VersionParams.full <$> m.(version);
|}.

(** The message as its [.proto] file declares it. *)
Definition schema (m : t) : list field :=
  [singular 1 Optional (message_value BlockParams.schema) m.(block);
   singular 2 Optional (message_value EvidenceParams.schema) m.(evidence);
   singular 3 Optional (message_value ValidatorParams.schema) m.(validator);
   singular 4 Optional (message_value VersionParams.schema) m.(version)].

(** The message with its default for every property that is not kept. *)
Definition only (kept : string → bool) (m : t) : t := {|
  block := if kept "block" then m.(block) else None;
  evidence := if kept "evidence" then m.(evidence) else None;
  validator := if kept "validator" then m.(validator) else None;
  version := if kept "version" then m.(version) else None;
|}.

#[global] Instance codec {PB : Protobuf} : MessageCodec t :=
  {| msg_base := base; msg_encode := encode; msg_field := decode_field |}.

#[global] Program Instance spec {PB : Protobuf} (PS : ProtobufSpec PB) : MessageSpec PS t :=
  {| msg_wire := wire; msg_valid := valid; msg_merge := merge |}.
Next Obligation. solve_encode_wire. Qed.
Next Obligation. solve_decode_wire. Qed.
Next Obligation. solve_merge_base. Qed.
Next Obligation. intros. solve_advances decode_field. Qed.

#[global] Program Instance data : MessageData t partial :=
  {| msg_fromJSON := fromJSON; msg_toJSON := toJSON;
     msg_fromPartial := fromPartial; msg_full := full |}.
Next Obligation. solve_json fromJSON toJSON. Qed.
Next Obligation. solve_partial fromPartial full. Qed.

#[global] Instance schema_wire {PB : Protobuf} {PS : ProtobufSpec PB} : WireSchema wire schema.
Proof. solve_schema_wire wire schema. Qed.

#[global] Instance schema_merge : MergeSchema merge schema.
Proof. solve_schema_merge merge schema. Qed.

(** Its row in the table of message types. *)
Definition message {PB : Protobuf} {PS : ProtobufSpec PB} : message_type :=
  plain_message "ConsensusParams" nothing true schema only.

#[global] Instance message_lawful {PB : Protobuf} (PS : ProtobufSpec PB) : Lawful message.
Proof. solve_lawful decode_field fromJSON only. Qed.

End ConsensusParams.

(** ** [HashedParams] (tendermint/types/params.js) *)

Module HashedParams.

Record t := mk {
  blockMaxBytes : number;
  blockMaxGas : number;
}.

#[global] Instance t_eta : Settable t := λ m, mk m.(blockMaxBytes) m.(blockMaxGas).

Definition base : t := mk 0 0.

Definition encode {PB : Protobuf} (message : t) (writer : Writer) : Writer :=
  writer
  @> when (num_neq message.(blockMaxBytes) 0)
       (fun w => w @> uint32 8 @> int64 message.(blockMaxBytes))
  @> when (num_neq message.(blockMaxGas) 0) (fun w => w @> uint32 16 @> int64 message.(blockMaxGas)).

Definition decode_field {PB : Protobuf} (tag : Z) (message : t) : RM t :=
  match field_number tag with
  | 1 => v ← read_number read_int64; mret (message <| blockMaxBytes := v |>)
  | 2 => v ← read_number read_int64; mret (message <| blockMaxGas := v |>)
  | _ => _ ← skipType (wire_type tag); mret message
  end.

Definition decode {PB : Protobuf} (length : option Z) : RM t :=
  decode_message length base decode_field.

Definition fromJSON (object : js) : result t :=
  blockMaxBytes' ← field_or object "blockMaxBytes" js_Number 0;
  blockMaxGas' ← field_or object "blockMaxGas" js_Number 0;
  Ok (mk blockMaxBytes' blockMaxGas').

Definition toJSON (message : t) : js :=
  Obj ([("blockMaxBytes", Num message.(blockMaxBytes));
    ("blockMaxGas", Num message.(blockMaxGas))]).

Record partial := mkPartial {
  p_blockMaxBytes : option number;
  p_blockMaxGas : option number;
}.

Definition fromPartial (object : partial) : t := {|
  blockMaxBytes := object.(p_blockMaxBytes) ?? Int 0;
  blockMaxGas := object.(p_blockMaxGas) ?? Int 0;
|}.

(** The object with no property given. *)
Definition nothing : partial := mkPartial None None.

(** The bytes [encode] writes. *)
Definition wire {PB : Protobuf} {PS : ProtobufSpec PB} (m : t) : bytes :=
  f_number e_int64 8 m.(blockMaxBytes) ++
  f_number e_int64 16 m.(blockMaxGas).

Definition valid (m : t) : Prop :=
  int64_ok m.(blockMaxBytes) ∧ int64_ok m.(blockMaxGas).

Definition encodable {PB : Protobuf} {PS : ProtobufSpec PB} (m : t) : Prop :=
  valid m ∧ small (wire m).

Definition merge (m a : t) : t := {|
  blockMaxBytes := later_number m.(blockMaxBytes) a.(blockMaxBytes);
  blockMaxGas := later_number m.(blockMaxGas) a.(blockMaxGas);
|}.

(** A whole message seen as a partial one. *)
Definition full (m : t) : partial := {|
  p_blockMaxBytes := Some m.(blockMaxBytes);
  p_blockMaxGas := Some m.(blockMaxGas);
|}.

(** The message as its [.proto] file declares it. *)
Definition schema (m : t) : list field :=
  [implicit 1 (VInt Int64 m.(blockMaxBytes));
   implicit 2 (VInt Int64 m.(blockMaxGas))].

(** The message with its default for every property that is not kept. *)
Definition only (kept : string → bool) (m : t) : t := {|
  blockMaxBytes := if kept "blockMaxBytes" then m.(blockMaxBytes) else Int 0;
  blockMaxGas := if kept "blockMaxGas" then m.(blockMaxGas) else Int 0;
|}.

#[global] Instance codec {PB : Protobuf} : MessageCodec t :=
  {| msg_base := base; msg_encode := encode; msg_field := decode_field |}.

#[global] Program Instance spec {PB : Protobuf} (PS : ProtobufSpec PB) : MessageSpec PS t :=
  {| msg_wire := wire; msg_valid := valid; msg_merge := merge |}.
Next Obligation. solve_encode_wire. Qed.
Next Obligation. solve_decode_wire. Qed.
Next Obligation. solve_merge_base. Qed.
Next Obligation. intros. solve_advances decode_field. Qed.

#[global] Program Instance data : MessageData t partial :=
  {| msg_fromJSON := fromJSON; msg_toJSON := toJSON;
     msg_fromPartial := fromPartial; msg_full := full |}.
Next Obligation. solve_json fromJSON toJSON. Qed.
Next Obligation. solve_partial fromPartial full. Qed.

#[global] Instance schema_wire {PB : Protobuf} {PS : ProtobufSpec PB} : WireSchema wire schema.
Proof. solve_schema_wire wire schema. Qed.

#[global] Instance schema_merge : MergeSchema merge schema.
Proof. solve_schema_merge merge schema. Qed.

(** Its row in the table of message types. *)
Definition message {PB : Protobuf} {PS : ProtobufSpec PB} : message_type :=
  plain_message "HashedParams" nothing true schema only.

#[global] Instance message_lawful {PB : Protobuf} (PS : ProtobufSpec PB) : Lawful message.
Proof. solve_lawful decode_field fromJSON only. Qed.

End HashedParams.

(** ** The message types of this file *)

Definition messages {PB : Protobuf} {PS : ProtobufSpec PB} : list message_type :=
  [ App.message; Consensus.message; PublicKey.message; Proof.message; ValueOp.message;
   DominoOp.message; ProofOp.message; ProofOps.message; Validator.message; ValidatorSet.message;
   SimpleValidator.message; PartSetHeader.message; Part.message; BlockID.message;
   Header.message; Data.message; Vote.message; CommitSig.message; Commit.message;
   Proposal.message; SignedHeader.message; LightBlock.message; BlockMeta.message;
   TxProof.message; BlockParams.message; EvidenceParams.message; ValidatorParams.message;
   VersionParams.message; ConsensusParams.message; HashedParams.message].

Lemma TendermintTypes_lawful {PB : Protobuf} {PS : ProtobufSpec PB} : Forall Lawful messages.
Proof. solve_table. Qed.
