(* ===== verification/AuthzTypes.v ===== *)
(** * The messages of the authz module of the Cosmos SDK

    Grants of authorizations and their execution: the codecs of
    [cosmos.authz.v1beta1/module/types/cosmos/authz/v1beta1/*.js], with the RPC
    clients of tx.js and query.js. *)
From S2P Require Import Prelude Js Protobuf Codec Calendar Dates Base64 Fallible Proto3 MessageTable CommonTypes.
Open Scope Z_scope.

(** ** [GenericAuthorization] (cosmos/authz/v1beta1/authz.js) *)

Module GenericAuthorization.

Record t := mk {
  msg : string;
}.

#[global] Instance t_eta : Settable t := λ m, mk m.(msg).

Definition base : t := mk "".

Definition encode {PB : Protobuf} (message : t) (writer : Writer) : Writer :=
  writer
  @> when (str_neq message.(msg) "") (fun w => w @> uint32 10 @> string_ message.(msg)).

Definition decode_field {PB : Protobuf} (tag : Z) (message : t) : RM t :=
  match field_number tag with
  | 1 => v ← read_string; mret (message <| msg := v |>)
  | _ => _ ← skipType (wire_type tag); mret message
  end.

Definition decode {PB : Protobuf} (length : option Z) : RM t :=
  decode_message length base decode_field.

Definition fromJSON (object : js) : result t :=
  msg' ← field_or object "msg" to_string "";
  Ok (mk msg').

Definition toJSON (message : t) : js :=
  Obj ([("msg", Str message.(msg))]).

Record partial := mkPartial {
  p_msg : option string;
}.

Definition fromPartial (object : partial) : t := {|
  msg := object.(p_msg) ?? "";
|}.

(** The object with no property given. *)
Definition nothing : partial := mkPartial None.

(** The bytes [encode] writes. *)
Definition wire {PB : Protobuf} {PS : ProtobufSpec PB} (m : t) : bytes :=
  f_string 10 m.(msg).

Definition valid (m : t) : Prop :=
  True.

Definition encodable {PB : Protobuf} {PS : ProtobufSpec PB} (m : t) : Prop :=
  valid m ∧ small (wire m).

Definition merge (m a : t) : t := {|
  msg := later_string m.(msg) a.(msg);
|}.

(** A whole message seen as a partial one. *)
Definition full (m : t) : partial := {|
  p_msg := Some m.(msg);
|}.

(** The message as its schema declares it. *)
Definition schema (m : t) : list field :=
  [implicit 1 (VString m.(msg))].

(** The message with its default for every property that is not kept. *)
Definition only (kept : string → bool) (m : t) : t := {|
  msg := if kept "msg" then m.(msg) else "";
|}.

#[global] Instance codec {PB : Protobuf} : MessageCodec t :=
  {| msg_base := base; msg_encode := encode; msg_field := decode_field |}.

#[global] Program Instance spec {PB : Protobuf} (PS : ProtobufSpec PB) : MessageSpec PS t :=
  {| msg_wire := wire; msg_valid := valid; msg_merge := merge |}.
Next Obligation. solve_encode_wire. Qed.
Next Obligation. solve_decode_wire. Qed.
Next Obligation. solve_merge_base. Qed.
Next Obligation. intros. solve_advances decode_field. Qed.

#[global] Program Instance data : MessageData t partial :=
  {| msg_fromJSON := fromJSON; msg_toJSON := toJSON;
     msg_fromPartial := fromPartial; msg_full := full |}.
Next Obligation. solve_json fromJSON toJSON. Qed.
Next Obligation. solve_partial fromPartial full. Qed.

#[global] Instance schema_wire {PB : Protobuf} {PS : ProtobufSpec PB} : WireSchema wire schema.
Proof. solve_schema_wire wire schema. Qed.

#[global] Instance schema_merge : MergeSchema merge schema.
Proof. solve_schema_merge merge schema. Qed.

(** Its row in the table of message types. *)
Definition message {PB : Protobuf} {PS : ProtobufSpec PB} : message_type :=
  plain_message "GenericAuthorization" nothing true schema only.

#[global] Instance message_lawful {PB : Protobuf} (PS : ProtobufSpec PB) : Lawful message.
Proof. solve_lawful decode_field fromJSON only. Qed.

End GenericAuthorization.

(** ** [Grant] (cosmos/authz/v1beta1/authz.js) *)

Module Grant.

Record t := mk {
  authorization : option Any.t;
  expiration : option date;
}.

#[global] Instance t_eta : Settable t := λ m, mk m.(authorization) m.(expiration).

Definition base : t := mk None None.

Definition encode {PB : Protobuf} (message : t) (writer : Writer) : result Writer :=
  Ok writer
  @>= defined_e message.(authorization) (submessage 10 Any.encode)
  @>= pure (defined message.(expiration) (fun v w => w @> uint32 18 @> fork @> encode_time v @> ldelim)).

Definition decode_field {PB : Protobuf} (tag : Z) (message : t) : RM t :=
  match field_number tag with
  | 1 => v ← read_nested Any.decode; mret (message <| authorization := Some v |>)
  | 2 => v ← read_time; mret (message <| expiration := Some v |>)
  | _ => _ ← skipType (wire_type tag); mret message
  end.

Definition decode {PB : Protobuf} (length : option Z) : RM t :=
  decode_message length base decode_field.

Definition fromJSON (object : js) : result t :=
  authorization' ← field_or object "authorization" (to_some Any.fromJSON) None;
  expiration' ← field_or object "expiration" (to_some fromJsonTimestamp) None;
  Ok (mk authorization' expiration').

Definition toJSON (message : t) : result js :=
  expiration' ← option_result toISOString message.(expiration);
  Ok (Obj (prop_opt "authorization" Any.toJSON message.(authorization) ++
   prop_opt "expiration" Str expiration')).

Record partial := mkPartial {
  p_authorization : option Any.partial;
  p_expiration : option date;
}.

Definition fromPartial (object : partial) : t := {|
  authorization := Any.fromPartial <$> object.(p_authorization);
  expiration := object.(p_expiration);
|}.

(** The object with no property given. *)
Definition nothing : partial := mkPartial None None.

(** The bytes [encode] writes. *)
Definition wire {PB : Protobuf} {PS : ProtobufSpec PB} (m : t) : bytes :=
  f_message 10 Any.wire m.(authorization) ++
  f_message 18 wire_time m.(expiration).

Definition valid (m : t) : Prop :=
  from_option Any.valid True m.(authorization) ∧ from_option date_ok True m.(expiration).

(** The byte fields hold arrays, as the interface declares. *)
Definition typed (m : t) : bool := from_option Any.typed true m.(authorization).

(** The message without its empty byte arrays. *)
Definition normal (m : t) : t := {|
  authorization := Any.normal <$> m.(authorization);
  expiration := m.(expiration);
|}.

(** The dates are valid. *)
Definition timed (m : t) : bool := from_option date_valid true m.(expiration).

Definition encodable {PB : Protobuf} {PS : ProtobufSpec PB} (m : t) : Prop :=
  typed m = true ∧ valid m ∧ small (wire m).

Definition merge (m a : t) : t := {|
  authorization := later_message m.(authorization) (Any.normal <$> a.(authorization));
  expiration := later_message m.(expiration) a.(expiration);
|}.

(** A whole message seen as a partial one. *)
Definition full (m : t) : partial := {|
  p_authorization := Any.full <$> m.(authorization);
  p_expiration := m.(expiration);
|}.

(** The message as its schema declares it. *)
Definition schema (m : t) : list field :=
  [singular 1 Optional (message_value Any.schema) m.(authorization);
   singular 2 Stamp timestamp_value m.(expiration)].

(** The message with its default for every property that is not kept. *)
Definition only (kept : string → bool) (m : t) : t := {|
  authorization := if kept "authorization" then m.(authorization) else None;
  expiration := if kept "expiration" then m.(expiration) else None;
|}.

#[global] Instance codec {PB : Protobuf} : FallibleCodec t :=
  {| fmsg_base := base; fmsg_encode := encode; fmsg_field := decode_field |}.

#[global] Program Instance spec {PB : Protobuf} (PS : ProtobufSpec PB) : FallibleSpec PS t :=
  {| fmsg_wire := wire; fmsg_valid := valid; fmsg_typed := typed; fmsg_normal := normal;
     fmsg_merge := merge |}.
Next Obligation. solve_fencode_wire. Qed.
Next Obligation. intros. solve_fencode_throws encode typed. Qed.
Next Obligation. solve_fdecode_wire. Qed.
Next Obligation. solve_fmerge_base. Qed.
Next Obligation. intros. solve_fadvances decode_field. Qed.

#[global] Program Instance given_ : FalliblePartial t partial :=
  {| fmsg_fromPartial := fromPartial; fmsg_full := full; fmsg_given := typed |}.
Next Obligation. solve_fgiven fromPartial typed. Qed.
Next Obligation. solve_fpartial fromPartial full typed. Qed.

#[global] Program Instance json : DatedJson t :=
  {| dmsg_fromJSON := fromJSON; dmsg_toJSON := toJSON; dmsg_timed := timed;
     dmsg_named := fun _ => true; dmsg_known := fun m => m |}.
Next Obligation. solve_djson fromJSON toJSON timed. Qed.
Next Obligation. solve_dthrows toJSON timed. Qed.
Next Obligation. reflexivity. Qed.

#[global] Instance schema_wire {PB : Protobuf} {PS : ProtobufSpec PB} : WireSchema wire schema.
Proof. solve_schema_wire wire schema. Qed.

#[global] Instance schema_normal : NormalSchema normal schema.
Proof. solve_schema_normal normal schema. Qed.

#[global] Instance schema_merge : MergeSchema merge schema.
Proof. solve_schema_merge merge schema. Qed.

(** Its row in the table of message types. *)
Definition message {PB : Protobuf} {PS : ProtobufSpec PB} : message_type :=
  dated_message "Grant" nothing true schema only.

#[global] Instance message_lawful {PB : Protobuf} (PS : ProtobufSpec PB) : Lawful message.
Proof. solve_lawful decode_field fromJSON only. Qed.

End Grant.

(** ** [EventGrant] (cosmos/authz/v1beta1/event.js) *)

Module EventGrant.

Record t := mk {
  msgTypeUrl : string;
  granter : string;
  grantee : string;
}.

#[global] Instance t_eta : Settable t := λ m, mk m.(msgTypeUrl) m.(granter) m.(grantee).

Definition base : t := mk "" "" "".

Definition encode {PB : Protobuf} (message : t) (writer : Writer) : Writer :=
  writer
  @> when (str_neq message.(msgTypeUrl) "")
       (fun w => w @> uint32 18 @> string_ message.(msgTypeUrl))
  @> when (str_neq message.(granter) "") (fun w => w @> uint32 26 @> string_ message.(granter))
  @> when (str_neq message.(grantee) "") (fun w => w @> uint32 34 @> string_ message.(grantee)).

Definition decode_field {PB : Protobuf} (tag : Z) (message : t) : RM t :=
  match field_number tag with
  | 2 => v ← read_string; mret (message <| msgTypeUrl := v |>)
  | 3 => v ← read_string; mret (message <| granter := v |>)
  | 4 => v ← read_string; mret (message <| grantee := v |>)
  | _ => _ ← skipType (wire_type tag); mret message
  end.

Definition decode {PB : Protobuf} (length : option Z) : RM t :=
  decode_message length base decode_field.

Definition fromJSON (object : js) : result t :=
  msgTypeUrl' ← field_or object "msgTypeUrl" to_string "";
  granter' ← field_or object "granter" to_string "";
  grantee' ← field_or object "grantee" to_string "";
  Ok (mk msgTypeUrl' granter' grantee').

Definition toJSON (message : t) : js :=
  Obj ([("msgTypeUrl", Str message.(msgTypeUrl));
    ("granter", Str message.(granter));
    ("grantee", Str message.(grantee))]).

Record partial := mkPartial {
  p_msgTypeUrl : option string;
  p_granter : option string;
  p_grantee : option string;
}.

Definition fromPartial (object : partial) : t := {|
  msgTypeUrl := object.(p_msgTypeUrl) ?? "";
  granter := object.(p_granter) ?? "";
  grantee := object.(p_grantee) ?? "";
|}.

(** The object with no property given. *)
Definition nothing : partial := mkPartial None None None.

(** The bytes [encode] writes. *)
Definition wire {PB : Protobuf} {PS : ProtobufSpec PB} (m : t) : bytes :=
  f_string 18 m.(msgTypeUrl) ++
  f_string 26 m.(granter) ++
  f_string 34 m.(grantee).

Definition valid (m : t) : Prop :=
  True.

Definition encodable {PB : Protobuf} {PS : ProtobufSpec PB} (m : t) : Prop :=
  valid m ∧ small (wire m).

Definition merge (m a : t) : t := {|
  msgTypeUrl := later_string m.(msgTypeUrl) a.(msgTypeUrl);
  granter := later_string m.(granter) a.(granter);
  grantee := later_string m.(grantee) a.(grantee);
|}.

(** A whole message seen as a partial one. *)
Definition full (m : t) : partial := {|
  p_msgTypeUrl := Some m.(msgTypeUrl);
  p_granter := Some m.(granter);
  p_grantee := Some m.(grantee);
|}.

(** The message as its schema declares it. *)
Definition schema (m : t) : list field :=
  [implicit 2 (VString m.(msgTypeUrl));
   implicit 3 (VString m.(granter));
   implicit 4 (VString m.(grantee))].

(** The message with its default for every property that is not kept. *)
Definition only (kept : string → bool) (m : t) : t := {|
  msgTypeUrl := if kept "msgTypeUrl" then m.(msgTypeUrl) else "";
  granter := if kept "granter" then m.(granter) else "";
  grantee := if kept "grantee" then m.(grantee) else "";
|}.

#[global] Instance codec {PB : Protobuf} : MessageCodec t :=
  {| msg_base := base; msg_encode := encode; msg_field := decode_field |}.

#[global] Program Instance spec {PB : Protobuf} (PS : ProtobufSpec PB) : MessageSpec PS t :=
  {| msg_wire := wire; msg_valid := valid; msg_merge := merge |}.
Next Obligation. solve_encode_wire. Qed.
Next Obligation. solve_decode_wire. Qed.
Next Obligation. solve_merge_base. Qed.
Next Obligation. intros. solve_advances decode_field. Qed.

#[global] Program Instance data : MessageData t partial :=
  {| msg_fromJSON := fromJSON; msg_toJSON := toJSON;
     msg_fromPartial := fromPartial; msg_full := full |}.
Next Obligation. solve_json fromJSON toJSON. Qed.
Next Obligation. solve_partial fromPartial full. Qed.

#[global] Instance schema_wire {PB : Protobuf} {PS : ProtobufSpec PB} : WireSchema wire schema.
Proof. solve_schema_wire wire schema. Qed.

#[global] Instance schema_merge : MergeSchema merge schema.
Proof. solve_schema_merge merge schema. Qed.

(** Its row in the table of message types. *)
Definition message {PB : Protobuf} {PS : ProtobufSpec PB} : message_type :=
  plain_message "EventGrant" nothing true schema only.

#[global] Instance message_lawful {PB : Protobuf} (PS : ProtobufSpec PB) : Lawful message.
Proof. solve_lawful decode_field fromJSON only. Qed.

End EventGrant.

(** ** [EventRevoke] (cosmos/authz/v1beta1/event.js) *)

Module EventRevoke.

Record t := mk {
  msgTypeUrl : string;
  granter : string;
  grantee : string;
}.

#[global] Instance t_eta : Settable t := λ m, mk m.(msgTypeUrl) m.(granter) m.(grantee).

Definition base : t := mk "" "" "".

Definition encode {PB : Protobuf} (message : t) (writer : Writer) : Writer :=
  writer
  @> when (str_neq message.(msgTypeUrl) "")
       (fun w => w @> uint32 18 @> string_ message.(msgTypeUrl))
  @> when (str_neq message.(granter) "") (fun w => w @> uint32 26 @> string_ message.(granter))
  @> when (str_neq message.(grantee) "") (fun w => w @> uint32 34 @> string_ message.(grantee)).

Definition decode_field {PB : Protobuf} (tag : Z) (message : t) : RM t :=
  match field_number tag with
  | 2 => v ← read_string; mret (message <| msgTypeUrl := v |>)
  | 3 => v ← read_string; mret (message <| granter := v |>)
  | 4 => v ← read_string; mret (message <| grantee := v |>)
  | _ => _ ← skipType (wire_type tag); mret message
  end.

Definition decode {PB : Protobuf} (length : option Z) : RM t :=
  decode_message length base decode_field.

Definition fromJSON (object : js) : result t :=
  msgTypeUrl' ← field_or object "msgTypeUrl" to_string "";
  granter' ← field_or object "granter" to_string "";
  grantee' ← field_or object "grantee" to_string "";
  Ok (mk msgTypeUrl' granter' grantee').

Definition toJSON (message : t) : js :=
  Obj ([("msgTypeUrl", Str message.(msgTypeUrl));
    ("granter", Str message.(granter));
    ("grantee", Str message.(grantee))]).

Record partial := mkPartial {
  p_msgTypeUrl : option string;
  p_granter : option string;
  p_grantee : option string;
}.

Definition fromPartial (object : partial) : t := {|
  msgTypeUrl := object.(p_msgTypeUrl) ?? "";
  granter := object.(p_granter) ?? "";
  grantee := object.(p_grantee) ?? "";
|}.

(** The object with no property given. *)
Definition nothing : partial := mkPartial None None None.

(** The bytes [encode] writes. *)
Definition wire {PB : Protobuf} {PS : ProtobufSpec PB} (m : t) : bytes :=
  f_string 18 m.(msgTypeUrl) ++
  f_string 26 m.(granter) ++
  f_string 34 m.(grantee).

Definition valid (m : t) : Prop :=
  True.

Definition encodable {PB : Protobuf} {PS : ProtobufSpec PB} (m : t) : Prop :=
  valid m ∧ small (wire m).

Definition merge (m a : t) : t := {|
  msgTypeUrl := later_string m.(msgTypeUrl) a.(msgTypeUrl);
  granter := later_string m.(granter) a.(granter);
  grantee := later_string m.(grantee) a.(grantee);
|}.

(** A whole message seen as a partial one. *)
Definition full (m : t) : partial := {|
  p_msgTypeUrl := Some m.(msgTypeUrl);
  p_granter := Some m.(granter);
  p_grantee := Some m.(grantee);
|}.

(** The message as its schema declares it. *)
Definition schema (m : t) : list field :=
  [implicit 2 (VString m.(msgTypeUrl));
   implicit 3 (VString m.(granter));
   implicit 4 (VString m.(grantee))].

(** The message with its default for every property that is not kept. *)
Definition only (kept : string → bool) (m : t) : t := {|
  msgTypeUrl := if kept "msgTypeUrl" then m.(msgTypeUrl) else "";
  granter := if kept "granter" then m.(granter) else "";
  grantee := if kept "grantee" then m.(grantee) else "";
|}.

#[global] Instance codec {PB : Protobuf} : MessageCodec t :=
  {| msg_base := base; msg_encode := encode; msg_field := decode_field |}.

#[global] Program Instance spec {PB : Protobuf} (PS : ProtobufSpec PB) : MessageSpec PS t :=
  {| msg_wire := wire; msg_valid := valid; msg_merge := merge |}.
Next Obligation. solve_encode_wire. Qed.
Next Obligation. solve_decode_wire. Qed.
Next Obligation. solve_merge_base. Qed.
Next Obligation. intros. solve_advances decode_field. Qed.

#[global] Program Instance data : MessageData t partial :=
  {| msg_fromJSON := fromJSON; msg_toJSON := toJSON;
     msg_fromPartial := fromPartial; msg_full := full |}.
Next Obligation. solve_json fromJSON toJSON. Qed.
Next Obligation. solve_partial fromPartial full. Qed.

#[global] Instance schema_wire {PB : Protobuf} {PS : ProtobufSpec PB} : WireSchema wire schema.
Proof. solve_schema_wire wire schema. Qed.

#[global] Instance schema_merge : MergeSchema merge schema.
Proof. solve_schema_merge merge schema. Qed.

(** Its row in the table of message types. *)
Definition message {PB : Protobuf} {PS : ProtobufSpec PB} : message_type :=
  plain_message "EventRevoke" nothing true schema only.

#[global] Instance message_lawful {PB : Protobuf} (PS : ProtobufSpec PB) : Lawful message.
Proof. solve_lawful decode_field fromJSON only. Qed.

End EventRevoke.

(** ** [GrantAuthorization] (cosmos/authz/v1beta1/genesis.js) *)

Module GrantAuthorization.

Record t := mk {
  granter : string;
  grantee : string;
  authorization : option Any.t;
  expiration : option date;
}.

#[global] Instance t_eta : Settable t := λ m, mk m.(granter) m.(grantee) m.(authorization)
  m.(expiration).

Definition base : t := mk "" "" None None.

Definition encode {PB : Protobuf} (message : t) (writer : Writer) : result Writer :=
  Ok writer
  @>= pure (when (str_neq message.(granter) "")
       (fun w => w @> uint32 10 @> string_ message.(granter)))
  @>= pure (when (str_neq message.(grantee) "")
       (fun w => w @> uint32 18 @> string_ message.(grantee)))
  @>= defined_e message.(authorization) (submessage 26 Any.encode)
  @>= pure (defined message.(expiration) (fun v w => w @> uint32 34 @> fork @> encode_time v @> ldelim)).

Definition decode_field {PB : Protobuf} (tag : Z) (message : t) : RM t :=
  match field_number tag with
  | 1 => v ← read_string; mret (message <| granter := v |>)
  | 2 => v ← read_string; mret (message <| grantee := v |>)
  | 3 => v ← read_nested Any.decode; mret (message <| authorization := Some v |>)
  | 4 => v ← read_time; mret (message <| expiration := Some v |>)
  | _ => _ ← skipType (wire_type tag); mret message
  end.

Definition decode {PB : Protobuf} (length : option Z) : RM t :=
  decode_message length base decode_field.

Definition fromJSON (object : js) : result t :=
  granter' ← field_or object "granter" to_string "";
  grantee' ← field_or object "grantee" to_string "";
  authorization' ← field_or object "authorization" (to_some Any.fromJSON) None;
  expiration' ← field_or object "expiration" (to_some fromJsonTimestamp) None;
  Ok (mk granter' grantee' authorization' expiration').

Definition toJSON (message : t) : result js :=
  expiration' ← option_result toISOString message.(expiration);
  Ok (Obj ([("granter", Str message.(granter));
    ("grantee", Str message.(grantee))] ++
   prop_opt "authorization" Any.toJSON message.(authorization) ++
   prop_opt "expiration" Str expiration')).

Record partial := mkPartial {
  p_granter : option string;
  p_grantee : option string;
  p_authorization : option Any.partial;
  p_expiration : option date;
}.

Definition fromPartial (object : partial) : t := {|
  granter := object.(p_granter) ?? "";
  grantee := object.(p_grantee) ?? "";
  authorization := Any.fromPartial <$> object.(p_authorization);
  expiration := object.(p_expiration);
|}.

(** The object with no property given. *)
Definition nothing : partial := mkPartial None None None None.

(** The bytes [encode] writes. *)
Definition wire {PB : Protobuf} {PS : ProtobufSpec PB} (m : t) : bytes :=
  f_string 10 m.(granter) ++
  f_string 18 m.(grantee) ++
  f_message 26 Any.wire m.(authorization) ++
  f_message 34 wire_time m.(expiration).

Definition valid (m : t) : Prop :=
  from_option Any.valid True m.(authorization) ∧ from_option date_ok True m.(expiration).

(** The byte fields hold arrays, as the interface declares. *)
Definition typed (m : t) : bool := from_option Any.typed true m.(authorization).

(** The message without its empty byte arrays. *)
Definition normal (m : t) : t := {|
  granter := m.(granter);
  grantee := m.(grantee);
  authorization := Any.normal <$> m.(authorization);
  expiration := m.(expiration);
|}.

(** The dates are valid. *)
Definition timed (m : t) : bool := from_option date_valid true m.(expiration).

Definition encodable {PB : Protobuf} {PS : ProtobufSpec PB} (m : t) : Prop :=
  typed m = true ∧ valid m ∧ small (wire m).

Definition merge (m a : t) : t := {|
  granter := later_string m.(granter) a.(granter);
  grantee := later_string m.(grantee) a.(grantee);
  authorization := later_message m.(authorization) (Any.normal <$> a.(authorization));
  expiration := later_message m.(expiration) a.(expiration);
|}.

(** A whole message seen as a partial one. *)
Definition full (m : t) : partial := {|
  p_granter := Some m.(granter);
  p_grantee := Some m.(grantee);
  p_authorization := Any.full <$> m.(authorization);
  p_expiration := m.(expiration);
|}.

(** The message as its schema declares it. *)
Definition schema (m : t) : list field :=
  [implicit 1 (VString m.(granter));
   implicit 2 (VString m.(grantee));
   singular 3 Optional (message_value Any.schema) m.(authorization);
   singular 4 Stamp timestamp_value m.(expiration)].

(** The message with its default for every property that is not kept. *)
Definition only (kept : string → bool) (m : t) : t := {|
  granter := if kept "granter" then m.(granter) else "";
  grantee := if kept "grantee" then m.(grantee) else "";
  authorization := if kept "authorization" then m.(authorization) else None;
  expiration := if kept "expiration" then m.(expiration) else None;
|}.

#[global] Instance codec {PB : Protobuf} : FallibleCodec t :=
  {| fmsg_base := base; fmsg_encode := encode; fmsg_field := decode_field |}.

#[global] Program Instance spec {PB : Protobuf} (PS : ProtobufSpec PB) : FallibleSpec PS t :=
  {| fmsg_wire := wire; fmsg_valid := valid; fmsg_typed := typed; fmsg_normal := normal;
     fmsg_merge := merge |}.
Next Obligation. solve_fencode_wire. Qed.
Next Obligation. intros. solve_fencode_throws encode typed. Qed.
Next Obligation. solve_fdecode_wire. Qed.
Next Obligation. solve_fmerge_base. Qed.
Next Obligation. intros. solve_fadvances decode_field. Qed.

#[global] Program Instance given_ : FalliblePartial t partial :=
  {| fmsg_fromPartial := fromPartial; fmsg_full := full; fmsg_given := typed |}.
Next Obligation. solve_fgiven fromPartial typed. Qed.
Next Obligation. solve_fpartial fromPartial full typed. Qed.

#[global] Program Instance json : DatedJson t :=
  {| dmsg_fromJSON := fromJSON; dmsg_toJSON := toJSON; dmsg_timed := timed;
     dmsg_named := fun _ => true; dmsg_known := fun m => m |}.
Next Obligation. solve_djson fromJSON toJSON timed. Qed.
Next Obligation. solve_dthrows toJSON timed. Qed.
Next Obligation. reflexivity. Qed.

#[global] Instance schema_wire {PB : Protobuf} {PS : ProtobufSpec PB} : WireSchema wire schema.
Proof. solve_schema_wire wire schema. Qed.

#[global] Instance schema_normal : NormalSchema normal schema.
Proof. solve_schema_normal normal schema. Qed.

#[global] Instance schema_merge : MergeSchema merge schema.
Proof. solve_schema_merge merge schema. Qed.

(** Its row in the table of message types. *)
Definition message {PB : Protobuf} {PS : ProtobufSpec PB} : message_type :=
  dated_message "GrantAuthorization" nothing true schema only.

#[global] Instance message_lawful {PB : Protobuf} (PS : ProtobufSpec PB) : Lawful message.
Proof. solve_lawful decode_field fromJSON only. Qed.

End GrantAuthorization.

(** ** [GenesisState] (cosmos/authz/v1beta1/genesis.js) *)

Module GenesisState.

Record t := mk {
  authorization : list GrantAuthorization.t;
}.

#[global] Instance t_eta : Settable t := λ m, mk m.(authorization).

Definition base : t := mk [].

Definition encode {PB : Protobuf} (message : t) (writer : Writer) : result Writer :=
  Ok writer
  @>= each_e message.(authorization) (submessage 10 GrantAuthorization.encode).

Definition decode_field {PB : Protobuf} (tag : Z) (message : t) : RM t :=
  match field_number tag with
  | 1 => v ← read_nested GrantAuthorization.decode;
         mret (message <| authorization := message.(authorization) ++ [v] |>)
  | _ => _ ← skipType (wire_type tag); mret message
  end.

Definition decode {PB : Protobuf} (length : option Z) : RM t :=
  decode_message length base decode_field.

Definition fromJSON (object : js) : result t :=
  authorization' ← field_or object "authorization" (to_list GrantAuthorization.fromJSON) [];
  Ok (mk authorization').

Definition toJSON (message : t) : result js :=
  authorization' ← result_map GrantAuthorization.toJSON message.(authorization);
  Ok (Obj ([("authorization", Arr authorization')])).

Record partial := mkPartial {
  p_authorization : option (list GrantAuthorization.partial);
}.

Definition fromPartial (object : partial) : t := {|
  authorization := map GrantAuthorization.fromPartial (object.(p_authorization) ?? []);
|}.

(** The object with no property given. *)
Definition nothing : partial := mkPartial None.

(** The bytes [encode] writes. *)
Definition wire {PB : Protobuf} {PS : ProtobufSpec PB} (m : t) : bytes :=
  f_repeated 10 GrantAuthorization.wire m.(authorization).

Definition valid (m : t) : Prop :=
  Forall GrantAuthorization.valid m.(authorization).

(** The byte fields hold arrays, as the interface declares. *)
Definition typed (m : t) : bool := forallb GrantAuthorization.typed m.(authorization).

(** The message without its empty byte arrays. *)
Definition normal (m : t) : t := {|
  authorization := map GrantAuthorization.normal m.(authorization);
|}.

(** The dates are valid. *)
Definition timed (m : t) : bool := forallb GrantAuthorization.timed m.(authorization).

Definition encodable {PB : Protobuf} {PS : ProtobufSpec PB} (m : t) : Prop :=
  typed m = true ∧ valid m ∧ small (wire m).

Definition merge (m a : t) : t := {|
  authorization := m.(authorization) ++ map GrantAuthorization.normal a.(authorization);
|}.

(** A whole message seen as a partial one. *)
Definition full (m : t) : partial := {|
  p_authorization := Some (map GrantAuthorization.full m.(authorization));
|}.

(** The message as its schema declares it. *)
Definition schema (m : t) : list field :=
  [repeated 1 (message_value GrantAuthorization.schema) m.(authorization)].

(** The message with its default for every property that is not kept. *)
Definition only (kept : string → bool) (m : t) : t := {|
  authorization := if kept "authorization" then m.(authorization) else [];
|}.

#[global] Instance codec {PB : Protobuf} : FallibleCodec t :=
  {| fmsg_base := base; fmsg_encode := encode; fmsg_field := decode_field |}.

#[global] Program Instance spec {PB : Protobuf} (PS : ProtobufSpec PB) : FallibleSpec PS t :=
  {| fmsg_wire := wire; fmsg_valid := valid; fmsg_typed := typed; fmsg_normal := normal;
     fmsg_merge := merge |}.
Next Obligation. solve_fencode_wire. Qed.
Next Obligation. intros. solve_fencode_throws encode typed. Qed.
Next Obligation. solve_fdecode_wire. Qed.
Next Obligation. solve_fmerge_base. Qed.
Next Obligation. intros. solve_fadvances decode_field. Qed.

#[global] Program Instance given_ : FalliblePartial t partial :=
  {| fmsg_fromPartial := fromPartial; fmsg_full := full; fmsg_given := typed |}.
Next Obligation. solve_fgiven fromPartial typed. Qed.
Next Obligation. solve_fpartial fromPartial full typed. Qed.

#[global] Program Instance json : DatedJson t :=
  {| dmsg_fromJSON := fromJSON; dmsg_toJSON := toJSON; dmsg_timed := timed;
     dmsg_named := fun _ => true; dmsg_known := fun m => m |}.
Next Obligation. solve_djson fromJSON toJSON timed. Qed.
Next Obligation. solve_dthrows toJSON timed. Qed.
Next Obligation. reflexivity. Qed.

#[global] Instance schema_wire {PB : Protobuf} {PS : ProtobufSpec PB} : WireSchema wire schema.
Proof. solve_schema_wire wire schema. Qed.

#[global] Instance schema_normal : NormalSchema normal schema.
Proof. solve_schema_normal normal schema. Qed.

#[global] Instance schema_merge : MergeSchema merge schema.
Proof. solve_schema_merge merge schema. Qed.

(** Its row in the table of message types. *)
Definition message {PB : Protobuf} {PS : ProtobufSpec PB} : message_type :=
  dated_message "GenesisState" nothing true schema only.

#[global] Instance message_lawful {PB : Protobuf} (PS : ProtobufSpec PB) : Lawful message.
Proof. solve_lawful decode_field fromJSON only. Qed.

End GenesisState.

(** ** [MsgGrant] (cosmos/authz/v1beta1/tx.js) *)

Module MsgGrant.

Record t := mk {
  granter : string;
  grantee : string;
  grant : option Grant.t;
}.

#[global] Instance t_eta : Settable t := λ m, mk m.(granter) m.(grantee) m.(grant).

Definition base : t := mk "" "" None.

Definition encode {PB : Protobuf} (message : t) (writer : Writer) : result Writer :=
  Ok writer
  @>= pure (when (str_neq message.(granter) "")
       (fun w => w @> uint32 10 @> string_ message.(granter)))
  @>= pure (when (str_neq message.(grantee) "")
       (fun w => w @> uint32 18 @> string_ message.(grantee)))
  @>= defined_e message.(grant) (submessage 26 Grant.encode).

Definition decode_field {PB : Protobuf} (tag : Z) (message : t) : RM t :=
  match field_number tag with
  | 1 => v ← read_string; mret (message <| granter := v |>)
  | 2 => v ← read_string; mret (message <| grantee := v |>)
  | 3 => v ← read_nested Grant.decode; mret (message <| grant := Some v |>)
  | _ => _ ← skipType (wire_type tag); mret message
  end.

Definition decode {PB : Protobuf} (length : option Z) : RM t :=
  decode_message length base decode_field.

Definition fromJSON (object : js) : result t :=
  granter' ← field_or object "granter" to_string "";
  grantee' ← field_or object "grantee" to_string "";
  grant' ← field_or object "grant" (to_some Grant.fromJSON) None;
  Ok (mk granter' grantee' grant').

Definition toJSON (message : t) : result js :=
  grant' ← option_result Grant.toJSON message.(grant);
  Ok (Obj ([("granter", Str message.(granter));
    ("grantee", Str message.(grantee))] ++
   prop_opt "grant" id grant')).

Record partial := mkPartial {
  p_granter : option string;
  p_grantee : option string;
  p_grant : option Grant.partial;
}.

Definition fromPartial (object : partial) : t := {|
  granter := object.(p_granter) ?? "";
  grantee := object.(p_grantee) ?? "";
  grant := Grant.fromPartial <$> object.(p_grant);
|}.

(** The object with no property given. *)
Definition nothing : partial := mkPartial None None None.

(** The bytes [encode] writes. *)
Definition wire {PB : Protobuf} {PS : ProtobufSpec PB} (m : t) : bytes :=
  f_string 10 m.(granter) ++
  f_string 18 m.(grantee) ++
  f_message 26 Grant.wire m.(grant).

Definition valid (m : t) : Prop :=
  from_option Grant.valid True m.(grant).

(** The byte fields hold arrays, as the interface declares. *)
Definition typed (m : t) : bool := from_option Grant.typed true m.(grant).

(** The message without its empty byte arrays. *)
Definition normal (m : t) : t := {|
  granter := m.(granter);
  grantee := m.(grantee);
  grant := Grant.normal <$> m.(grant);
|}.

(** The dates are valid. *)
Definition timed (m : t) : bool := from_option Grant.timed true m.(grant).

Definition encodable {PB : Protobuf} {PS : ProtobufSpec PB} (m : t) : Prop :=
  typed m = true ∧ valid m ∧ small (wire m).

Definition merge (m a : t) : t := {|
  granter := later_string m.(granter) a.(granter);
  grantee := later_string m.(grantee) a.(grantee);
  grant := later_message m.(grant) (Grant.normal <$> a.(grant));
|}.

(** A whole message seen as a partial one. *)
Definition full (m : t) : partial := {|
  p_granter := Some m.(granter);
  p_grantee := Some m.(grantee);
  p_grant := Grant.full <$> m.(grant);
|}.

(** The message as its schema declares it. *)
Definition schema (m : t) : list field :=
  [implicit 1 (VString m.(granter));
   implicit 2 (VString m.(grantee));
   singular 3 Optional (message_value Grant.schema) m.(grant)].

(** The message with its default for every property that is not kept. *)
Definition only (kept : string → bool) (m : t) : t := {|
  granter := if kept "granter" then m.(granter) else "";
  grantee := if kept "grantee" then m.(grantee) else "";
  grant := if kept "grant" then m.(grant) else None;
|}.

#[global] Instance codec {PB : Protobuf} : FallibleCodec t :=
  {| fmsg_base := base; fmsg_encode := encode; fmsg_field := decode_field |}.

#[global] Program Instance spec {PB : Protobuf} (PS : ProtobufSpec PB) : FallibleSpec PS t :=
  {| fmsg_wire := wire; fmsg_valid := valid; fmsg_typed := typed; fmsg_normal := normal;
     fmsg_merge := merge |}.
Next Obligation. solve_fencode_wire. Qed.
Next Obligation. intros. solve_fencode_throws encode typed. Qed.
Next Obligation. solve_fdecode_wire. Qed.
Next Obligation. solve_fmerge_base. Qed.
Next Obligation. intros. solve_fadvances decode_field. Qed.

#[global] Program Instance given_ : FalliblePartial t partial :=
  {| fmsg_fromPartial := fromPartial; fmsg_full := full; fmsg_given := typed |}.
Next Obligation. solve_fgiven fromPartial typed. Qed.
Next Obligation. solve_fpartial fromPartial full typed. Qed.

#[global] Program Instance json : DatedJson t :=
  {| dmsg_fromJSON := fromJSON; dmsg_toJSON := toJSON; dmsg_timed := timed;
     dmsg_named := fun _ => true; dmsg_known := fun m => m |}.
Next Obligation. solve_djson fromJSON toJSON timed. Qed.
Next Obligation. solve_dthrows toJSON timed. Qed.
Next Obligation. reflexivity. Qed.

#[global] Instance schema_wire {PB : Protobuf} {PS : ProtobufSpec PB} : WireSchema wire schema.
Proof. solve_schema_wire wire schema. Qed.

#[global] Instance schema_normal : NormalSchema normal schema.
Proof. solve_schema_normal normal schema. Qed.

#[global] Instance schema_merge : MergeSchema merge schema.
Proof. solve_schema_merge merge schema. Qed.

(** Its row in the table of message types. *)
Definition message {PB : Protobuf} {PS : ProtobufSpec PB} : message_type :=
  dated_message "MsgGrant" nothing true schema only.

#[global] Instance message_lawful {PB : Protobuf} (PS : ProtobufSpec PB) : Lawful message.
Proof. solve_lawful decode_field fromJSON only. Qed.

End MsgGrant.

(** ** [MsgExecResponse] (cosmos/authz/v1beta1/tx.js) *)

Module MsgExecResponse.

Record t := mk {
  results : list bytes;
}.

#[global] Instance t_eta : Settable t := λ m, mk m.(results).

Definition base : t := mk [].

Definition encode {PB : Protobuf} (message : t) (writer : Writer) : result Writer :=
  Ok writer
  @>= pure (each message.(results) (fun v w => w @> uint32 10 @> bytes_ v)).

Definition decode_field {PB : Protobuf} (tag : Z) (message : t) : RM t :=
  match field_number tag with
  | 1 => v ← read_bytes; mret (message <| results := message.(results) ++ [v] |>)
  | _ => _ ← skipType (wire_type tag); mret message
  end.

Definition decode {PB : Protobuf} (length : option Z) : RM t :=
  decode_message length base decode_field.

Definition fromJSON (object : js) : result t :=
  results' ← field_or object "results" (to_list bytesFromBase64) [];
  Ok (mk results').

Definition toJSON (message : t) : js :=
  Obj ([("results", Arr (map (fun b => Str (base64FromBytes b)) message.(results)))]).

Record partial := mkPartial {
  p_results : option (list bytes);
}.

Definition fromPartial (object : partial) : t := {|
  results := (object.(p_results) ?? []);
|}.

(** The object with no property given. *)
Definition nothing : partial := mkPartial None.

(** The bytes [encode] writes. *)
Definition wire {PB : Protobuf} {PS : ProtobufSpec PB} (m : t) : bytes :=
  f_repeated 10 raw m.(results).

Definition valid (m : t) : Prop :=
  True.

(** The byte fields hold arrays, as the interface declares. *)
Definition typed (m : t) : bool := true.

(** The message without its empty byte arrays. *)
Definition normal (m : t) : t := {|
  results := m.(results);
|}.

Definition encodable {PB : Protobuf} {PS : ProtobufSpec PB} (m : t) : Prop :=
  typed m = true ∧ valid m ∧ small (wire m).

Definition merge (m a : t) : t := {|
  results := m.(results) ++ a.(results);
|}.

(** A whole message seen as a partial one. *)
Definition full (m : t) : partial := {|
  p_results := Some m.(results);
|}.

(** The message as its schema declares it. *)
Definition schema (m : t) : list field :=
  [repeated 1 VBytes m.(results)].

(** The message with its default for every property that is not kept. *)
Definition only (kept : string → bool) (m : t) : t := {|
  results := if kept "results" then m.(results) else [];
|}.

#[global] Instance codec {PB : Protobuf} : FallibleCodec t :=
  {| fmsg_base := base; fmsg_encode := encode; fmsg_field := decode_field |}.

#[global] Program Instance spec {PB : Protobuf} (PS : ProtobufSpec PB) : FallibleSpec PS t :=
  {| fmsg_wire := wire; fmsg_valid := valid; fmsg_typed := typed; fmsg_normal := normal;
     fmsg_merge := merge |}.
Next Obligation. solve_fencode_wire. Qed.
Next Obligation. intros. solve_fencode_throws encode typed. Qed.
Next Obligation. solve_fdecode_wire. Qed.
Next Obligation. solve_fmerge_base. Qed.
Next Obligation. intros. solve_fadvances decode_field. Qed.

#[global] Program Instance given_ : FalliblePartial t partial :=
  {| fmsg_fromPartial := fromPartial; fmsg_full := full; fmsg_given := typed |}.
Next Obligation. solve_fgiven fromPartial typed. Qed.
Next Obligation. solve_fpartial fromPartial full typed. Qed.

#[global] Program Instance json : FallibleJson t :=
  {| fmsg_fromJSON := fromJSON; fmsg_toJSON := toJSON;
     fmsg_named := fun _ => true; fmsg_known := fun m => m |}.
Next Obligation. solve_fjson fromJSON toJSON. Qed.
Next Obligation. reflexivity. Qed.

#[global] Instance schema_wire {PB : Protobuf} {PS : ProtobufSpec PB} : WireSchema wire schema.
Proof. solve_schema_wire wire schema. Qed.

#[global] Instance schema_normal : NormalSchema normal schema.
Proof. solve_schema_normal normal schema. Qed.

#[global] Instance schema_merge : MergeSchema merge schema.
Proof. solve_schema_merge merge schema. Qed.

(** Its row in the table of message types. *)
Definition message {PB : Protobuf} {PS : ProtobufSpec PB} : message_type :=
  fallible_message "MsgExecResponse" nothing true schema only.

#[global] Instance message_lawful {PB : Protobuf} (PS : ProtobufSpec PB) : Lawful message.
Proof. solve_lawful decode_field fromJSON only. Qed.

End MsgExecResponse.

(** ** [MsgExec] (cosmos/authz/v1beta1/tx.js) *)

Module MsgExec.

Record t := mk {
  grantee : string;
  msgs : list Any.t;
}.

#[global] Instance t_eta : Settable t := λ m, mk m.(grantee) m.(msgs).

Definition base : t := mk "" [].

Definition encode {PB : Protobuf} (message : t) (writer : Writer) : result Writer :=
  Ok writer
  @>= pure (when (str_neq message.(grantee) "")
       (fun w => w @> uint32 10 @> string_ message.(grantee)))
  @>= each_e message.(msgs) (submessage 18 Any.encode).

Definition decode_field {PB : Protobuf} (tag : Z) (message : t) : RM t :=
  match field_number tag with
  | 1 => v ← read_string; mret (message <| grantee := v |>)
  | 2 => v ← read_nested Any.decode; mret (message <| msgs := message.(msgs) ++ [v] |>)
  | _ => _ ← skipType (wire_type tag); mret message
  end.

Definition decode {PB : Protobuf} (length : option Z) : RM t :=
  decode_message length base decode_field.

Definition fromJSON (object : js) : result t :=
  grantee' ← field_or object "grantee" to_string "";
  msgs' ← field_or object "msgs" (to_list Any.fromJSON) [];
  Ok (mk grantee' msgs').

Definition toJSON (message : t) : js :=
  Obj ([("grantee", Str message.(grantee));
    ("msgs", Arr (map Any.toJSON message.(msgs)))]).

Record partial := mkPartial {
  p_grantee : option string;
  p_msgs : option (list Any.partial);
}.

Definition fromPartial (object : partial) : t := {|
  grantee := object.(p_grantee) ?? "";
  msgs := map Any.fromPartial (object.(p_msgs) ?? []);
|}.

(** The object with no property given. *)
Definition nothing : partial := mkPartial None None.

(** The bytes [encode] writes. *)
Definition wire {PB : Protobuf} {PS : ProtobufSpec PB} (m : t) : bytes :=
  f_string 10 m.(grantee) ++
  f_repeated 18 Any.wire m.(msgs).

Definition valid (m : t) : Prop :=
  Forall Any.valid m.(msgs).

(** The byte fields hold arrays, as the interface declares. *)
Definition typed (m : t) : bool := forallb Any.typed m.(msgs).

(** The message without its empty byte arrays. *)
Definition normal (m : t) : t := {|
  grantee := m.(grantee);
  msgs := map Any.normal m.(msgs);
|}.

Definition encodable {PB : Protobuf} {PS : ProtobufSpec PB} (m : t) : Prop :=
  typed m = true ∧ valid m ∧ small (wire m).

Definition merge (m a : t) : t := {|
  grantee := later_string m.(grantee) a.(grantee);
  msgs := m.(msgs) ++ map Any.normal a.(msgs);
|}.

(** A whole message seen as a partial one. *)
Definition full (m : t) : partial := {|
  p_grantee := Some m.(grantee);
  p_msgs := Some (map Any.full m.(msgs));
|}.

(** The message as its schema declares it. *)
Definition schema (m : t) : list field :=
  [implicit 1 (VString m.(grantee));
   repeated 2 (message_value Any.schema) m.(msgs)].

(** The message with its default for every property that is not kept. *)
Definition only (kept : string → bool) (m : t) : t := {|
  grantee := if kept "grantee" then m.(grantee) else "";
  msgs := if kept "msgs" then m.(msgs) else [];
|}.

#[global] Instance codec {PB : Protobuf} : FallibleCodec t :=
  {| fmsg_base := base; fmsg_encode := encode; fmsg_field := decode_field |}.

#[global] Program Instance spec {PB : Protobuf} (PS : ProtobufSpec PB) : FallibleSpec PS t :=
  {| fmsg_wire := wire; fmsg_valid := valid; fmsg_typed := typed; fmsg_normal := normal;
     fmsg_merge := merge |}.
Next Obligation. solve_fencode_wire. Qed.
Next Obligation. intros. solve_fencode_throws encode typed. Qed.
Next Obligation. solve_fdecode_wire. Qed.
Next Obligation. solve_fmerge_base. Qed.
Next Obligation. intros. solve_fadvances decode_field. Qed.

#[global] Program Instance given_ : FalliblePartial t partial :=
  {| fmsg_fromPartial := fromPartial; fmsg_full := full; fmsg_given := typed |}.
Next Obligation. solve_fgiven fromPartial typed. Qed.
Next Obligation. solve_fpartial fromPartial full typed. Qed.

#[global] Program Instance json : FallibleJson t :=
  {| fmsg_fromJSON := fromJSON; fmsg_toJSON := toJSON;
     fmsg_named := fun _ => true; fmsg_known := fun m => m |}.
Next Obligation. solve_fjson fromJSON toJSON. Qed.
Next Obligation. reflexivity. Qed.

#[global] Instance schema_wire {PB : Protobuf} {PS : ProtobufSpec PB} : WireSchema wire schema.
Proof. solve_schema_wire wire schema. Qed.

#[global] Instance schema_normal : NormalSchema normal schema.
Proof. solve_schema_normal normal schema. Qed.

#[global] Instance schema_merge : MergeSchema merge schema.
Proof. solve_schema_merge merge schema. Qed.

(** Its row in the table of message types. *)
Definition message {PB : Protobuf} {PS : ProtobufSpec PB} : message_type :=
  fallible_message "MsgExec" nothing true schema only.

#[global] Instance message_lawful {PB : Protobuf} (PS : ProtobufSpec PB) : Lawful message.
Proof. solve_lawful decode_field fromJSON only. Qed.

End MsgExec.

(** ** [MsgGrantResponse] (cosmos/authz/v1beta1/tx.js) *)

Module MsgGrantResponse.

Record t := mk {}.

#[global] Instance t_eta : Settable t := λ m, m.

Definition base : t := mk.

Definition encode {PB : Protobuf} (message : t) (writer : Writer) : Writer :=
  writer.

Definition decode_field {PB : Protobuf} (tag : Z) (message : t) : RM t :=
  match field_number tag with
  | _ => _ ← skipType (wire_type tag); mret message
  end.

Definition decode {PB : Protobuf} (length : option Z) : RM t :=
  decode_message length base decode_field.

Definition fromJSON (object : js) : result t :=
  Ok base.

Definition toJSON (message : t) : js :=
  Obj [].

Record partial := mkPartial {}.

Definition fromPartial (object : partial) : t := base.

(** The object with no property given. *)
Definition nothing : partial := mkPartial.

(** The bytes [encode] writes. *)
Definition wire {PB : Protobuf} {PS : ProtobufSpec PB} (m : t) : bytes :=
  [].

Definition valid (m : t) : Prop :=
  True.

Definition encodable {PB : Protobuf} {PS : ProtobufSpec PB} (m : t) : Prop :=
  valid m ∧ small (wire m).

Definition merge (m a : t) : t := m.

(** A whole message seen as a partial one. *)
Definition full (m : t) : partial := mkPartial.

(** The message as its schema declares it. *)
Definition schema (m : t) : list field :=
  [].

(** The message with its default for every property that is not kept. *)
Definition only (kept : string → bool) (m : t) : t := m.

#[global] Instance codec {PB : Protobuf} : MessageCodec t :=
  {| msg_base := base; msg_encode := encode; msg_field := decode_field |}.

#[global] Program Instance spec {PB : Protobuf} (PS : ProtobufSpec PB) : MessageSpec PS t :=
  {| msg_wire := wire; msg_valid := valid; msg_merge := merge |}.
Next Obligation. solve_encode_wire. Qed.
Next Obligation. solve_decode_wire. Qed.
Next Obligation. solve_merge_base. Qed.
Next Obligation. intros. solve_advances decode_field. Qed.

#[global] Program Instance data : MessageData t partial :=
  {| msg_fromJSON := fromJSON; msg_toJSON := toJSON;
     msg_fromPartial := fromPartial; msg_full := full |}.
Next Obligation. solve_json fromJSON toJSON. Qed.
Next Obligation. solve_partial fromPartial full. Qed.

#[global] Instance schema_wire {PB : Protobuf} {PS : ProtobufSpec PB} : WireSchema wire schema.
Proof. solve_schema_wire wire schema. Qed.

#[global] Instance schema_merge : MergeSchema merge schema.
Proof. solve_schema_merge merge schema. Qed.

(** Its row in the table of message types. *)
Definition message {PB : Protobuf} {PS : ProtobufSpec PB} : message_type :=
  plain_message "MsgGrantResponse" nothing false schema only.

#[global] Instance message_lawful {PB : Protobuf} (PS : ProtobufSpec PB) : Lawful message.
Proof. solve_lawful decode_field fromJSON only. Qed.

End MsgGrantResponse.

(** ** [MsgRevoke] (cosmos/authz/v1beta1/tx.js) *)

Module MsgRevoke.

Record t := mk {
  granter : string;
  grantee : string;
  msgTypeUrl : string;
}.

#[global] Instance t_eta : Settable t := λ m, mk m.(granter) m.(grantee) m.(msgTypeUrl).

Definition base : t := mk "" "" "".

Definition encode {PB : Protobuf} (message : t) (writer : Writer) : Writer :=
  writer
  @> when (str_neq message.(granter) "") (fun w => w @> uint32 10 @> string_ message.(granter))
  @> when (str_neq message.(grantee) "") (fun w => w @> uint32 18 @> string_ message.(grantee))
  @> when (str_neq message.(msgTypeUrl) "")
       (fun w => w @> uint32 26 @> string_ message.(msgTypeUrl)).

Definition decode_field {PB : Protobuf} (tag : Z) (message : t) : RM t :=
  match field_number tag with
  | 1 => v ← read_string; mret (message <| granter := v |>)
  | 2 => v ← read_string; mret (message <| grantee := v |>)
  | 3 => v ← read_string; mret (message <| msgTypeUrl := v |>)
  | _ => _ ← skipType (wire_type tag); mret message
  end.

Definition decode {PB : Protobuf} (length : option Z) : RM t :=
  decode_message length base decode_field.

Definition fromJSON (object : js) : result t :=
  granter' ← field_or object "granter" to_string "";
  grantee' ← field_or object "grantee" to_string "";
  msgTypeUrl' ← field_or object "msgTypeUrl" to_string "";
  Ok (mk granter' grantee' msgTypeUrl').

Definition toJSON (message : t) : js :=
  Obj ([("granter", Str message.(granter));
    ("grantee", Str message.(grantee));
    ("msgTypeUrl", Str message.(msgTypeUrl))]).

Record partial := mkPartial {
  p_granter : option string;
  p_grantee : option string;
  p_msgTypeUrl : option string;
}.

Definition fromPartial (object : partial) : t := {|
  granter := object.(p_granter) ?? "";
  grantee := object.(p_grantee) ?? "";
  msgTypeUrl := object.(p_msgTypeUrl) ?? "";
|}.

(** The object with no property given. *)
Definition nothing : partial := mkPartial None None None.

(** The bytes [encode] writes. *)
Definition wire {PB : Protobuf} {PS : ProtobufSpec PB} (m : t) : bytes :=
  f_string 10 m.(granter) ++
  f_string 18 m.(grantee) ++
  f_string 26 m.(msgTypeUrl).

Definition valid (m : t) : Prop :=
  True.

Definition encodable {PB : Protobuf} {PS : ProtobufSpec PB} (m : t) : Prop :=
  valid m ∧ small (wire m).

Definition merge (m a : t) : t := {|
  granter := later_string m.(granter) a.(granter);
  grantee := later_string m.(grantee) a.(grantee);
  msgTypeUrl := later_string m.(msgTypeUrl) a.(msgTypeUrl);
|}.

(** A whole message seen as a partial one. *)
Definition full (m : t) : partial := {|
  p_granter := Some m.(granter);
  p_grantee := Some m.(grantee);
  p_msgTypeUrl := Some m.(msgTypeUrl);
|}.

(** The message as its schema declares it. *)
Definition schema (m : t) : list field :=
  [implicit 1 (VString m.(granter));
   implicit 2 (VString m.(grantee));
   implicit 3 (VString m.(msgTypeUrl))].

(** The message with its default for every property that is not kept. *)
Definition only (kept : string → bool) (m : t) : t := {|
  granter := if kept "granter" then m.(granter) else "";
  grantee := if kept "grantee" then m.(grantee) else "";
  msgTypeUrl := if kept "msgTypeUrl" then m.(msgTypeUrl) else "";
|}.

#[global] Instance codec {PB : Protobuf} : MessageCodec t :=
  {| msg_base := base; msg_encode := encode; msg_field := decode_field |}.

#[global] Program Instance spec {PB : Protobuf} (PS : ProtobufSpec PB) : MessageSpec PS t :=
  {| msg_wire := wire; msg_valid := valid; msg_merge := merge |}.
Next Obligation. solve_encode_wire. Qed.
Next Obligation. solve_decode_wire. Qed.
Next Obligation. solve_merge_base. Qed.
Next Obligation. intros. solve_advances decode_field. Qed.

#[global] Program Instance data : MessageData t partial :=
  {| msg_fromJSON := fromJSON; msg_toJSON := toJSON;
     msg_fromPartial := fromPartial; msg_full := full |}.
Next Obligation. solve_json fromJSON toJSON. Qed.
Next Obligation. solve_partial fromPartial full. Qed.

#[global] Instance schema_wire {PB : Protobuf} {PS : ProtobufSpec PB} : WireSchema wire schema.
Proof. solve_schema_wire wire schema. Qed.

#[global] Instance schema_merge : MergeSchema merge schema.
Proof. solve_schema_merge merge schema. Qed.

(** Its row in the table of message types. *)
Definition message {PB : Protobuf} {PS : ProtobufSpec PB} : message_type :=
  plain_message "MsgRevoke" nothing true schema only.

#[global] Instance message_lawful {PB : Protobuf} (PS : ProtobufSpec PB) : Lawful message.
Proof. solve_lawful decode_field fromJSON only. Qed.

End MsgRevoke.

(** ** [MsgRevokeResponse] (cosmos/authz/v1beta1/tx.js) *)

Module MsgRevokeResponse.

Record t := mk {}.

#[global] Instance t_eta : Settable t := λ m, m.

Definition base : t := mk.

Definition encode {PB : Protobuf} (message : t) (writer : Writer) : Writer :=
  writer.

Definition decode_field {PB : Protobuf} (tag : Z) (message : t) : RM t :=
  match field_number tag with
  | _ => _ ← skipType (wire_type tag); mret message
  end.

Definition decode {PB : Protobuf} (length : option Z) : RM t :=
  decode_message length base decode_field.

Definition fromJSON (object : js) : result t :=
  Ok base.

Definition toJSON (message : t) : js :=
  Obj [].

Record partial := mkPartial {}.

Definition fromPartial (object : partial) : t := base.

(** The object with no property given. *)
Definition nothing : partial := mkPartial.

(** The bytes [encode] writes. *)
Definition wire {PB : Protobuf} {PS : ProtobufSpec PB} (m : t) : bytes :=
  [].

Definition valid (m : t) : Prop :=
  True.

Definition encodable {PB : Protobuf} {PS : ProtobufSpec PB} (m : t) : Prop :=
  valid m ∧ small (wire m).

Definition merge (m a : t) : t := m.

(** A whole message seen as a partial one. *)
Definition full (m : t) : partial := mkPartial.

(** The message as its schema declares it. *)
Definition schema (m : t) : list field :=
  [].

(** The message with its default for every property that is not kept. *)
Definition only (kept : string → bool) (m : t) : t := m.

#[global] Instance codec {PB : Protobuf} : MessageCodec t :=
  {| msg_base := base; msg_encode := encode; msg_field := decode_field |}.

#[global] Program Instance spec {PB : Protobuf} (PS : ProtobufSpec PB) : MessageSpec PS t :=
  {| msg_wire := wire; msg_valid := valid; msg_merge := merge |}.
Next Obligation. solve_encode_wire. Qed.
Next Obligation. solve_decode_wire. Qed.
Next Obligation. solve_merge_base. Qed.
Next Obligation. intros. solve_advances decode_field. Qed.

#[global] Program Instance data : MessageData t partial :=
  {| msg_fromJSON := fromJSON; msg_toJSON := toJSON;
     msg_fromPartial := fromPartial; msg_full := full |}.
Next Obligation. solve_json fromJSON toJSON. Qed.
Next Obligation. solve_partial fromPartial full. Qed.

#[global] Instance schema_wire {PB : Protobuf} {PS : ProtobufSpec PB} : WireSchema wire schema.
Proof. solve_schema_wire wire schema. Qed.

#[global] Instance schema_merge : MergeSchema merge schema.
Proof. solve_schema_merge merge schema. Qed.

(** Its row in the table of message types. *)
Definition message {PB : Protobuf} {PS : ProtobufSpec PB} : message_type :=
  plain_message "MsgRevokeResponse" nothing false schema only.

#[global] Instance message_lawful {PB : Protobuf} (PS : ProtobufSpec PB) : Lawful message.
Proof. solve_lawful decode_field fromJSON only. Qed.

End MsgRevokeResponse.

(** ** [QueryGrantsRequest] (cosmos/authz/v1beta1/query.js) *)

Module QueryGrantsRequest.

Record t := mk {
  granter : string;
  grantee : string;
  msgTypeUrl : string;
  pagination : option PageRequest.t;
}.

#[global] Instance t_eta : Settable t := λ m, mk m.(granter) m.(grantee) m.(msgTypeUrl)
  m.(pagination).

Definition base : t := mk "" "" "" None.

Definition encode {PB : Protobuf} (message : t) (writer : Writer) : result Writer :=
  Ok writer
  @>= pure (when (str_neq message.(granter) "")
       (fun w => w @> uint32 10 @> string_ message.(granter)))
  @>= pure (when (str_neq message.(grantee) "")
       (fun w => w @> uint32 18 @> string_ message.(grantee)))
  @>= pure (when (str_neq message.(msgTypeUrl) "")
       (fun w => w @> uint32 26 @> string_ message.(msgTypeUrl)))
  @>= defined_e message.(pagination) (submessage 34 PageRequest.encode).

Definition decode_field {PB : Protobuf} (tag : Z) (message : t) : RM t :=
  match field_number tag with
  | 1 => v ← read_string; mret (message <| granter := v |>)
  | 2 => v ← read_string; mret (message <| grantee := v |>)
  | 3 => v ← read_string; mret (message <| msgTypeUrl := v |>)
  | 4 => v ← read_nested PageRequest.decode; mret (message <| pagination := Some v |>)
  | _ => _ ← skipType (wire_type tag); mret message
  end.

Definition decode {PB : Protobuf} (length : option Z) : RM t :=
  decode_message length base decode_field.

Definition fromJSON (object : js) : result t :=
  granter' ← field_or object "granter" to_string "";
  grantee' ← field_or object "grantee" to_string "";
  msgTypeUrl' ← field_or object "msgTypeUrl" to_string "";
  pagination' ← field_or object "pagination" (to_some PageRequest.fromJSON) None;
  Ok (mk granter' grantee' msgTypeUrl' pagination').

Definition toJSON (message : t) : js :=
  Obj ([("granter", Str message.(granter));
    ("grantee", Str message.(grantee));
    ("msgTypeUrl", Str message.(msgTypeUrl))] ++
   prop_opt "pagination" PageRequest.toJSON message.(pagination)).

Record partial := mkPartial {
  p_granter : option string;
  p_grantee : option string;
  p_msgTypeUrl : option string;
  p_pagination : option PageRequest.partial;
}.

Definition fromPartial (object : partial) : t := {|
  granter := object.(p_granter) ?? "";
  grantee := object.(p_grantee) ?? "";
  msgTypeUrl := object.(p_msgTypeUrl) ?? "";
  pagination := PageRequest.fromPartial <$> object.(p_pagination);
|}.

(** The object with no property given. *)
Definition nothing : partial := mkPartial None None None None.

(** The bytes [encode] writes. *)
Definition wire {PB : Protobuf} {PS : ProtobufSpec PB} (m : t) : bytes :=
  f_string 10 m.(granter) ++
  f_string 18 m.(grantee) ++
  f_string 26 m.(msgTypeUrl) ++
  f_message 34 PageRequest.wire m.(pagination).

Definition valid (m : t) : Prop :=
  from_option PageRequest.valid True m.(pagination).

(** The byte fields hold arrays, as the interface declares. *)
Definition typed (m : t) : bool := from_option PageRequest.typed true m.(pagination).

(** The message without its empty byte arrays. *)
Definition normal (m : t) : t := {|
  granter := m.(granter);
  grantee := m.(grantee);
  msgTypeUrl := m.(msgTypeUrl);
  pagination := PageRequest.normal <$> m.(pagination);
|}.

Definition encodable {PB : Protobuf} {PS : ProtobufSpec PB} (m : t) : Prop :=
  typed m = true ∧ valid m ∧ small (wire m).

Definition merge (m a : t) : t := {|
  granter := later_string m.(granter) a.(granter);
  grantee := later_string m.(grantee) a.(grantee);
  msgTypeUrl := later_string m.(msgTypeUrl) a.(msgTypeUrl);
  pagination := later_message m.(pagination) (PageRequest.normal <$> a.(pagination));
|}.

(** A whole message seen as a partial one. *)
Definition full (m : t) : partial := {|
  p_granter := Some m.(granter);
  p_grantee := Some m.(grantee);
  p_msgTypeUrl := Some m.(msgTypeUrl);
  p_pagination := PageRequest.full <$> m.(pagination);
|}.

(** The message as its schema declares it. *)
Definition schema (m : t) : list field :=
  [implicit 1 (VString m.(granter));
   implicit 2 (VString m.(grantee));
   implicit 3 (VString m.(msgTypeUrl));
   singular 4 Optional (message_value PageRequest.schema) m.(pagination)].

(** The message with its default for every property that is not kept. *)
Definition only (kept : string → bool) (m : t) : t := {|
  granter := if kept "granter" then m.(granter) else "";
  grantee := if kept "grantee" then m.(grantee) else "";
  msgTypeUrl := if kept "msgTypeUrl" then m.(msgTypeUrl) else "";
  pagination := if kept "pagination" then m.(pagination) else None;
|}.

#[global] Instance codec {PB : Protobuf} : FallibleCodec t :=
  {| fmsg_base := base; fmsg_encode := encode; fmsg_field := decode_field |}.

#[global] Program Instance spec {PB : Protobuf} (PS : ProtobufSpec PB) : FallibleSpec PS t :=
  {| fmsg_wire := wire; fmsg_valid := valid; fmsg_typed := typed; fmsg_normal := normal;
     fmsg_merge := merge |}.
Next Obligation. solve_fencode_wire. Qed.
Next Obligation. intros. solve_fencode_throws encode typed. Qed.
Next Obligation. solve_fdecode_wire. Qed.
Next Obligation. solve_fmerge_base. Qed.
Next Obligation. intros. solve_fadvances decode_field. Qed.

#[global] Program Instance given_ : FalliblePartial t partial :=
  {| fmsg_fromPartial := fromPartial; fmsg_full := full; fmsg_given := typed |}.
Next Obligation. solve_fgiven fromPartial typed. Qed.
Next Obligation. solve_fpartial fromPartial full typed. Qed.

#[global] Program Instance json : FallibleJson t :=
  {| fmsg_fromJSON := fromJSON; fmsg_toJSON := toJSON;
     fmsg_named := fun _ => true; fmsg_known := fun m => m |}.
Next Obligation. solve_fjson fromJSON toJSON. Qed.
Next Obligation. reflexivity. Qed.

#[global] Instance schema_wire {PB : Protobuf} {PS : ProtobufSpec PB} : WireSchema wire schema.
Proof. solve_schema_wire wire schema. Qed.

#[global] Instance schema_normal : NormalSchema normal schema.
Proof. solve_schema_normal normal schema. Qed.

#[global] Instance schema_merge : MergeSchema merge schema.
Proof. solve_schema_merge merge schema. Qed.

(** Its row in the table of message types. *)
Definition message {PB : Protobuf} {PS : ProtobufSpec PB} : message_type :=
  fallible_message "QueryGrantsRequest" nothing true schema only.

#[global] Instance message_lawful {PB : Protobuf} (PS : ProtobufSpec PB) : Lawful message.
Proof. solve_lawful decode_field fromJSON only. Qed.

End QueryGrantsRequest.

(** ** [QueryGrantsResponse] (cosmos/authz/v1beta1/query.js) *)

Module QueryGrantsResponse.

Record t := mk {
  grants : list Grant.t;
  pagination : option PageResponse.t;
}.

#[global] Instance t_eta : Settable t := λ m, mk m.(grants) m.(pagination).

Definition base : t := mk [] None.

Definition encode {PB : Protobuf} (message : t) (writer : Writer) : result Writer :=
  Ok writer
  @>= each_e message.(grants) (submessage 10 Grant.encode)
  @>= defined_e message.(pagination) (submessage 18 PageResponse.encode).

Definition decode_field {PB : Protobuf} (tag : Z) (message : t) : RM t :=
  match field_number tag with
  | 1 => v ← read_nested Grant.decode; mret (message <| grants := message.(grants) ++ [v] |>)
  | 2 => v ← read_nested PageResponse.decode; mret (message <| pagination := Some v |>)
  | _ => _ ← skipType (wire_type tag); mret message
  end.

Definition decode {PB : Protobuf} (length : option Z) : RM t :=
  decode_message length base decode_field.

Definition fromJSON (object : js) : result t :=
  grants' ← field_or object "grants" (to_list Grant.fromJSON) [];
  pagination' ← field_or object "pagination" (to_some PageResponse.fromJSON) None;
  Ok (mk grants' pagination').

Definition toJSON (message : t) : result js :=
  grants' ← result_map Grant.toJSON message.(grants);
  Ok (Obj ([("grants", Arr grants')] ++
   prop_opt "pagination" PageResponse.toJSON message.(pagination))).

Record partial := mkPartial {
  p_grants : option (list Grant.partial);
  p_pagination : option PageResponse.partial;
}.

Definition fromPartial (object : partial) : t := {|
  grants := map Grant.fromPartial (object.(p_grants) ?? []);
  pagination := PageResponse.fromPartial <$> object.(p_pagination);
|}.

(** The object with no property given. *)
Definition nothing : partial := mkPartial None None.

(** The bytes [encode] writes. *)
Definition wire {PB : Protobuf} {PS : ProtobufSpec PB} (m : t) : bytes :=
  f_repeated 10 Grant.wire m.(grants) ++
  f_message 18 PageResponse.wire m.(pagination).

Definition valid (m : t) : Prop :=
  Forall Grant.valid m.(grants) ∧ from_option PageResponse.valid True m.(pagination).

(** The byte fields hold arrays, as the interface declares. *)
Definition typed (m : t) : bool := forallb Grant.typed m.(grants) && from_option PageResponse.typed true m.(pagination).

(** The message without its empty byte arrays. *)
Definition normal (m : t) : t := {|
  grants := map Grant.normal m.(grants);
  pagination := PageResponse.normal <$> m.(pagination);
|}.

(** The dates are valid. *)
Definition timed (m : t) : bool := forallb Grant.timed m.(grants).

Definition encodable {PB : Protobuf} {PS : ProtobufSpec PB} (m : t) : Prop :=
  typed m = true ∧ valid m ∧ small (wire m).

Definition merge (m a : t) : t := {|
  grants := m.(grants) ++ map Grant.normal a.(grants);
  pagination := later_message m.(pagination) (PageResponse.normal <$> a.(pagination));
|}.

(** A whole message seen as a partial one. *)
Definition full (m : t) : partial := {|
  p_grants := Some (map Grant.full m.(grants));
  p_pagination := PageResponse.full <$> m.(pagination);
|}.

(** The message as its schema declares it. *)
Definition schema (m : t) : list field :=
  [repeated 1 (message_value Grant.schema) m.(grants);
   singular 2 Optional (message_value PageResponse.schema) m.(pagination)].

(** The message with its default for every property that is not kept. *)
Definition only (kept : string → bool) (m : t) : t := {|
  grants := if kept "grants" then m.(grants) else [];
  pagination := if kept "pagination" then m.(pagination) else None;
|}.

#[global] Instance codec {PB : Protobuf} : FallibleCodec t :=
  {| fmsg_base := base; fmsg_encode := encode; fmsg_field := decode_field |}.

#[global] Program Instance spec {PB : Protobuf} (PS : ProtobufSpec PB) : FallibleSpec PS t :=
  {| fmsg_wire := wire; fmsg_valid := valid; fmsg_typed := typed; fmsg_normal := normal;
     fmsg_merge := merge |}.
Next Obligation. solve_fencode_wire. Qed.
Next Obligation. intros. solve_fencode_throws encode typed. Qed.
Next Obligation. solve_fdecode_wire. Qed.
Next Obligation. solve_fmerge_base. Qed.
Next Obligation. intros. solve_fadvances decode_field. Qed.

#[global] Program Instance given_ : FalliblePartial t partial :=
  {| fmsg_fromPartial := fromPartial; fmsg_full := full; fmsg_given := typed |}.
Next Obligation. solve_fgiven fromPartial typed. Qed.
Next Obligation. solve_fpartial fromPartial full typed. Qed.

#[global] Program Instance json : DatedJson t :=
  {| dmsg_fromJSON := fromJSON; dmsg_toJSON := toJSON; dmsg_timed := timed;
     dmsg_named := fun _ => true; dmsg_known := fun m => m |}.
Next Obligation. solve_djson fromJSON toJSON timed. Qed.
Next Obligation. solve_dthrows toJSON timed. Qed.
Next Obligation. reflexivity. Qed.

#[global] Instance schema_wire {PB : Protobuf} {PS : ProtobufSpec PB} : WireSchema wire schema.
Proof. solve_schema_wire wire schema. Qed.

#[global] Instance schema_normal : NormalSchema normal schema.
Proof. solve_schema_normal normal schema. Qed.

#[global] Instance schema_merge : MergeSchema merge schema.
Proof. solve_schema_merge merge schema. Qed.

(** Its row in the table of message types. *)
Definition message {PB : Protobuf} {PS : ProtobufSpec PB} : message_type :=
  dated_message "QueryGrantsResponse" nothing true schema only.

#[global] Instance message_lawful {PB : Protobuf} (PS : ProtobufSpec PB) : Lawful message.
Proof. solve_lawful decode_field fromJSON only. Qed.

End QueryGrantsResponse.


(** ** [MsgClientImpl]

    [rpc] is the transport the class is constructed with: [rpc service method data]
    is what the promise of [this.rpc.request] settles to. *)
Module MsgClientImpl.
Section client.
Context {PB : Protobuf} (rpc : string → string → bytes → result bytes).

Definition Grant (request : MsgGrant.t) : result MsgGrantResponse.t :=
  w ← MsgGrant.encode request create;
  data ← rpc "cosmos.authz.v1beta1.Msg" "Grant" (finish w);
  decode_bytes MsgGrantResponse.decode data.

Definition Exec (request : MsgExec.t) : result MsgExecResponse.t :=
  w ← MsgExec.encode request create;
  data ← rpc "cosmos.authz.v1beta1.Msg" "Exec" (finish w);
  decode_bytes MsgExecResponse.decode data.

Definition Revoke (request : MsgRevoke.t) : result MsgRevokeResponse.t :=
  data ← rpc "cosmos.authz.v1beta1.Msg" "Revoke"
    (finish (MsgRevoke.encode request create));
  decode_bytes MsgRevokeResponse.decode data.

End client.
End MsgClientImpl.


(** ** [QueryClientImpl]

    [rpc] is the transport the class is constructed with: [rpc service method data]
    is what the promise of [this.rpc.request] settles to. *)
Module QueryClientImpl.
Section client.
Context {PB : Protobuf} (rpc : string → string → bytes → result bytes).

Definition Grants (request : QueryGrantsRequest.t) : result QueryGrantsResponse.t :=
  w ← QueryGrantsRequest.encode request create;
  data ← rpc "cosmos.authz.v1beta1.Query" "Grants" (finish w);
  decode_bytes QueryGrantsResponse.decode data.

End client.
End QueryClientImpl.

(** ** The message types of this file *)

Definition messages {PB : Protobuf} {PS : ProtobufSpec PB} : list message_type :=
  [ GenericAuthorization.message; Grant.message; EventGrant.message; EventRevoke.message;
   GrantAuthorization.message; GenesisState.message; MsgGrant.message; MsgExecResponse.message;
   MsgExec.message; MsgGrantResponse.message; MsgRevoke.message; MsgRevokeResponse.message;
   QueryGrantsRequest.message; QueryGrantsResponse.message].

Lemma AuthzTypes_lawful {PB : Protobuf} {PS : ProtobufSpec PB} : Forall Lawful messages.
Proof. solve_table. Qed.

(** The methods of [MsgClientImpl]. *)
Definition msg_methods {PB : Protobuf} {PS : ProtobufSpec PB} : list rpc_method :=
  [mkMethod "cosmos.authz.v1beta1.Msg" "Grant"
     MsgGrant.message MsgGrantResponse.message
     (fun rpc => MsgClientImpl.Grant rpc);
   mkMethod "cosmos.authz.v1beta1.Msg" "Exec"
     MsgExec.message MsgExecResponse.message
     (fun rpc => MsgClientImpl.Exec rpc);
   mkMethod "cosmos.authz.v1beta1.Msg" "Revoke"
     MsgRevoke.message MsgRevokeResponse.message
     (fun rpc => MsgClientImpl.Revoke rpc)].

Lemma AuthzTypes_msg_methods_lawful {PB : Protobuf} {PS : ProtobufSpec PB} : Forall method_lawful msg_methods.
Proof. solve_methods. Qed.

(** The methods of [QueryClientImpl]. *)
Definition query_methods {PB : Protobuf} {PS : ProtobufSpec PB} : list rpc_method :=
  [mkMethod "cosmos.authz.v1beta1.Query" "Grants"
     QueryGrantsRequest.message QueryGrantsResponse.message
     (fun rpc => QueryClientImpl.Grants rpc)].

Lemma AuthzTypes_query_methods_lawful {PB : Protobuf} {PS : ProtobufSpec PB} : Forall method_lawful query_methods.
Proof. solve_methods. Qed.
