(* ===== verification/BankTypes.v ===== *)
(** * The messages of the bank module of the Cosmos SDK

    Transfers, balances and the metadata of coins: the codecs of
    [cosmos.bank.v1beta1/module/types/cosmos/bank/v1beta1/*.js], with the RPC
    clients of tx.js and query.js. *)
From S2P Require Import Prelude Js Protobuf Codec Calendar Dates Base64 Fallible Proto3 MessageTable CommonTypes CosmosBase.
Open Scope Z_scope.

(** ** [SendEnabled] (cosmos/bank/v1beta1/bank.js) *)

Module SendEnabled.

Record t := mk {
  denom : string;
  enabled : bool;
}.

#[global] Instance t_eta : Settable t := λ m, mk m.(denom) m.(enabled).

Definition base : t := mk "" false.

Definition encode {PB : Protobuf} (message : t) (writer : Writer) : Writer :=
  writer
  @> when (str_neq message.(denom) "") (fun w => w @> uint32 10 @> string_ message.(denom))
  @> when (Bool.eqb message.(enabled) true) (fun w => w @> uint32 16 @> bool_ message.(enabled)).

Definition decode_field {PB : Protobuf} (tag : Z) (message : t) : RM t :=
  match field_number tag with
  | 1 => v ← read_string; mret (message <| denom := v |>)
  | 2 => v ← read_bool; mret (message <| enabled := v |>)
  | _ => _ ← skipType (wire_type tag); mret message
  end.

Definition decode {PB : Protobuf} (length : option Z) : RM t :=
  decode_message length base decode_field.

Definition fromJSON (object : js) : result t :=
  denom' ← field_or object "denom" to_string "";
  enabled' ← field_or object "enabled" to_bool false;
  Ok (mk denom' enabled').

Definition toJSON (message : t) : js :=
  Obj ([("denom", Str message.(denom));
    ("enabled", Bool message.(enabled))]).

Record partial := mkPartial {
  p_denom : option string;
  p_enabled : option bool;
}.

Definition fromPartial (object : partial) : t := {|
  denom := object.(p_denom) ?? "";
  enabled := object.(p_enabled) ?? false;
|}.

(** The object with no property given. *)
Definition nothing : partial := mkPartial None None.

(** The bytes [encode] writes. *)
Definition wire {PB : Protobuf} {PS : ProtobufSpec PB} (m : t) : bytes :=
  f_string 10 m.(denom) ++
  f_bool 16 m.(enabled).

Definition valid (m : t) : Prop :=
  True.

Definition encodable {PB : Protobuf} {PS : ProtobufSpec PB} (m : t) : Prop :=
  valid m ∧ small (wire m).

Definition merge (m a : t) : t := {|
  denom := later_string m.(denom) a.(denom);
  enabled := later_bool m.(enabled) a.(enabled);
|}.

(** A whole message seen as a partial one. *)
Definition full (m : t) : partial := {|
  p_denom := Some m.(denom);
  p_enabled := Some m.(enabled);
|}.

(** The message as its schema declares it. *)
Definition schema (m : t) : list field :=
  [implicit 1 (VString m.(denom));
   implicit 2 (VBool m.(enabled))].

(** The message with its default for every property that is not kept. *)
Definition only (kept : string → bool) (m : t) : t := {|
  denom := if kept "denom" then m.(denom) else "";
  enabled := if kept "enabled" then m.(enabled) else false;
|}.

#[global] Instance codec {PB : Protobuf} : MessageCodec t :=
  {| msg_base := base; msg_encode := encode; msg_field := decode_field |}.

#[global] Program Instance spec {PB : Protobuf} (PS : ProtobufSpec PB) : MessageSpec PS t :=
  {| msg_wire := wire; msg_valid := valid; msg_merge := merge |}.
Next Obligation. solve_encode_wire. Qed.
Next Obligation. solve_decode_wire. Qed.
Next Obligation. solve_merge_base. Qed.
Next Obligation. intros. solve_advances decode_field. Qed.

#[global] Program Instance data : MessageData t partial :=
  {| msg_fromJSON := fromJSON; msg_toJSON := toJSON;
     msg_fromPartial := fromPartial; msg_full := full |}.
Next Obligation. solve_json fromJSON toJSON. Qed.
Next Obligation. solve_partial fromPartial full. Qed.

#[global] Instance schema_wire {PB : Protobuf} {PS : ProtobufSpec PB} : WireSchema wire schema.
Proof. solve_schema_wire wire schema. Qed.

#[global] Instance schema_merge : MergeSchema merge schema.
Proof. solve_schema_merge merge schema. Qed.

(** Its row in the table of message types. *)
Definition message {PB : Protobuf} {PS : ProtobufSpec PB} : message_type :=
  plain_message "SendEnabled" nothing true schema only.

#[global] Instance message_lawful {PB : Protobuf} (PS : ProtobufSpec PB) : Lawful message.
Proof. solve_lawful decode_field fromJSON only. Qed.

End SendEnabled.

(** ** [Params] (cosmos/bank/v1beta1/bank.js) *)

Module Params.

Record t := mk {
  sendEnabled : list SendEnabled.t;
  defaultSendEnabled : bool;
}.

#[global] Instance t_eta : Settable t := λ m, mk m.(sendEnabled) m.(defaultSendEnabled).

Definition base : t := mk [] false.

Definition encode {PB : Protobuf} (message : t) (writer : Writer) : Writer :=
  writer
  @> each message.(sendEnabled) (fun v w => w @> uint32 10 @> fork @> SendEnabled.encode v @> ldelim)
  @> when (Bool.eqb message.(defaultSendEnabled) true)
       (fun w => w @> uint32 16 @> bool_ message.(defaultSendEnabled)).

Definition decode_field {PB : Protobuf} (tag : Z) (message : t) : RM t :=
  match field_number tag with
  | 1 => v ← read_nested SendEnabled.decode;
         mret (message <| sendEnabled := message.(sendEnabled) ++ [v] |>)
  | 2 => v ← read_bool; mret (message <| defaultSendEnabled := v |>)
  | _ => _ ← skipType (wire_type tag); mret message
  end.

Definition decode {PB : Protobuf} (length : option Z) : RM t :=
  decode_message length base decode_field.

Definition fromJSON (object : js) : result t :=
  sendEnabled' ← field_or object "sendEnabled" (to_list SendEnabled.fromJSON) [];
  defaultSendEnabled' ← field_or object "defaultSendEnabled" to_bool false;
  Ok (mk sendEnabled' defaultSendEnabled').

Definition toJSON (message : t) : js :=
  Obj ([("sendEnabled", Arr (map SendEnabled.toJSON message.(sendEnabled)));
    ("defaultSendEnabled", Bool message.(defaultSendEnabled))]).

Record partial := mkPartial {
  p_sendEnabled : option (list SendEnabled.partial);
  p_defaultSendEnabled : option bool;
}.

Definition fromPartial (object : partial) : t := {|
  sendEnabled := map SendEnabled.fromPartial (object.(p_sendEnabled) ?? []);
  defaultSendEnabled := object.(p_defaultSendEnabled) ?? false;
|}.

(** The object with no property given. *)
Definition nothing : partial := mkPartial None None.

(** The bytes [encode] writes. *)
Definition wire {PB : Protobuf} {PS : ProtobufSpec PB} (m : t) : bytes :=
  f_repeated 10 SendEnabled.wire m.(sendEnabled) ++
  f_bool 16 m.(defaultSendEnabled).

Definition valid (m : t) : Prop :=
  Forall SendEnabled.valid m.(sendEnabled).

Definition encodable {PB : Protobuf} {PS : ProtobufSpec PB} (m : t) : Prop :=
  valid m ∧ small (wire m).

Definition merge (m a : t) : t := {|
  sendEnabled := m.(sendEnabled) ++ a.(sendEnabled);
  defaultSendEnabled := later_bool m.(defaultSendEnabled) a.(defaultSendEnabled);
|}.

(** A whole message seen as a partial one. *)
Definition full (m : t) : partial := {|
  p_sendEnabled := Some (map SendEnabled.full m.(sendEnabled));
  p_defaultSendEnabled := Some m.(defaultSendEnabled);
|}.

(** The message as its schema declares it. *)
Definition schema (m : t) : list field :=
  [repeated 1 (message_value SendEnabled.schema) m.(sendEnabled);
   implicit 2 (VBool m.(defaultSendEnabled))].

(** The message with its default for every property that is not kept. *)
Definition only (kept : string → bool) (m : t) : t := {|
  sendEnabled := if kept "sendEnabled" then m.(sendEnabled) else [];
  defaultSendEnabled := if kept "defaultSendEnabled" then m.(defaultSendEnabled) else false;
|}.

#[global] Instance codec {PB : Protobuf} : MessageCodec t :=
  {| msg_base := base; msg_encode := encode; msg_field := decode_field |}.

#[global] Program Instance spec {PB : Protobuf} (PS : ProtobufSpec PB) : MessageSpec PS t :=
  {| msg_wire := wire; msg_valid := valid; msg_merge := merge |}.
Next Obligation. solve_encode_wire. Qed.
Next Obligation. solve_decode_wire. Qed.
Next Obligation. solve_merge_base. Qed.
Next Obligation. intros. solve_advances decode_field. Qed.

#[global] Program Instance data : MessageData t partial :=
  {| msg_fromJSON := fromJSON; msg_toJSON := toJSON;
     msg_fromPartial := fromPartial; msg_full := full |}.
Next Obligation. solve_json fromJSON toJSON. Qed.
Next Obligation. solve_partial fromPartial full. Qed.

#[global] Instance schema_wire {PB : Protobuf} {PS : ProtobufSpec PB} : WireSchema wire schema.
Proof. solve_schema_wire wire schema. Qed.

#[global] Instance schema_merge : MergeSchema merge schema.
Proof. solve_schema_merge merge schema. Qed.

(** Its row in the table of message types. *)
Definition message {PB : Protobuf} {PS : ProtobufSpec PB} : message_type :=
  plain_message "Params" nothing true schema only.

#[global] Instance message_lawful {PB : Protobuf} (PS : ProtobufSpec PB) : Lawful message.
Proof. solve_lawful decode_field fromJSON only. Qed.

End Params.

(** ** [Input] (cosmos/bank/v1beta1/bank.js) *)

Module Input.

Record t := mk {
  address : string;
  coins : list Coin.t;
}.

#[global] Instance t_eta : Settable t := λ m, mk m.(address) m.(coins).

Definition base : t := mk "" [].

Definition encode {PB : Protobuf} (message : t) (writer : Writer) : Writer :=
  writer
  @> when (str_neq message.(address) "") (fun w => w @> uint32 10 @> string_ message.(address))
  @> each message.(coins) (fun v w => w @> uint32 18 @> fork @> Coin.encode v @> ldelim).

Definition decode_field {PB : Protobuf} (tag : Z) (message : t) : RM t :=
  match field_number tag with
  | 1 => v ← read_string; mret (message <| address := v |>)
  | 2 => v ← read_nested Coin.decode; mret (message <| coins := message.(coins) ++ [v] |>)
  | _ => _ ← skipType (wire_type tag); mret message
  end.

Definition decode {PB : Protobuf} (length : option Z) : RM t :=
  decode_message length base decode_field.

Definition fromJSON (object : js) : result t :=
  address' ← field_or object "address" to_string "";
  coins' ← field_or object "coins" (to_list Coin.fromJSON) [];
  Ok (mk address' coins').

Definition toJSON (message : t) : js :=
  Obj ([("address", Str message.(address));
    ("coins", Arr (map Coin.toJSON message.(coins)))]).

Record partial := mkPartial {
  p_address : option string;
  p_coins : option (list Coin.partial);
}.

Definition fromPartial (object : partial) : t := {|
  address := object.(p_address) ?? "";
  coins := map Coin.fromPartial (object.(p_coins) ?? []);
|}.

(** The object with no property given. *)
Definition nothing : partial := mkPartial None None.

(** The bytes [encode] writes. *)
Definition wire {PB : Protobuf} {PS : ProtobufSpec PB} (m : t) : bytes :=
  f_string 10 m.(address) ++
  f_repeated 18 Coin.wire m.(coins).

Definition valid (m : t) : Prop :=
  Forall Coin.valid m.(coins).

Definition encodable {PB : Protobuf} {PS : ProtobufSpec PB} (m : t) : Prop :=
  valid m ∧ small (wire m).

Definition merge (m a : t) : t := {|
  address := later_string m.(address) a.(address);
  coins := m.(coins) ++ a.(coins);
|}.

(** A whole message seen as a partial one. *)
Definition full (m : t) : partial := {|
  p_address := Some m.(address);
  p_coins := Some (map Coin.full m.(coins));
|}.

(** The message as its schema declares it. *)
Definition schema (m : t) : list field :=
  [implicit 1 (VString m.(address));
   repeated 2 (message_value Coin.schema) m.(coins)].

(** The message with its default for every property that is not kept. *)
Definition only (kept : string → bool) (m : t) : t := {|
  address := if kept "address" then m.(address) else "";
  coins := if kept "coins" then m.(coins) else [];
|}.

#[global] Instance codec {PB : Protobuf} : MessageCodec t :=
  {| msg_base := base; msg_encode := encode; msg_field := decode_field |}.

#[global] Program Instance spec {PB : Protobuf} (PS : ProtobufSpec PB) : MessageSpec PS t :=
  {| msg_wire := wire; msg_valid := valid; msg_merge := merge |}.
Next Obligation. solve_encode_wire. Qed.
Next Obligation. solve_decode_wire. Qed.
Next Obligation. solve_merge_base. Qed.
Next Obligation. intros. solve_advances decode_field. Qed.

#[global] Program Instance data : MessageData t partial :=
  {| msg_fromJSON := fromJSON; msg_toJSON := toJSON;
     msg_fromPartial := fromPartial; msg_full := full |}.
Next Obligation. solve_json fromJSON toJSON. Qed.
Next Obligation. solve_partial fromPartial full. Qed.

#[global] Instance schema_wire {PB : Protobuf} {PS : ProtobufSpec PB} : WireSchema wire schema.
Proof. solve_schema_wire wire schema. Qed.

#[global] Instance schema_merge : MergeSchema merge schema.
Proof. solve_schema_merge merge schema. Qed.

(** Its row in the table of message types. *)
Definition message {PB : Protobuf} {PS : ProtobufSpec PB} : message_type :=
  plain_message "Input" nothing true schema only.

#[global] Instance message_lawful {PB : Protobuf} (PS : ProtobufSpec PB) : Lawful message.
Proof. solve_lawful decode_field fromJSON only. Qed.

End Input.

(** ** [Output] (cosmos/bank/v1beta1/bank.js) *)

Module Output.

Record t := mk {
  address : string;
  coins : list Coin.t;
}.

#[global] Instance t_eta : Settable t := λ m, mk m.(address) m.(coins).

Definition base : t := mk "" [].

Definition encode {PB : Protobuf} (message : t) (writer : Writer) : Writer :=
  writer
  @> when (str_neq message.(address) "") (fun w => w @> uint32 10 @> string_ message.(address))
  @> each message.(coins) (fun v w => w @> uint32 18 @> fork @> Coin.encode v @> ldelim).

Definition decode_field {PB : Protobuf} (tag : Z) (message : t) : RM t :=
  match field_number tag with
  | 1 => v ← read_string; mret (message <| address := v |>)
  | 2 => v ← read_nested Coin.decode; mret (message <| coins := message.(coins) ++ [v] |>)
  | _ => _ ← skipType (wire_type tag); mret message
  end.

Definition decode {PB : Protobuf} (length : option Z) : RM t :=
  decode_message length base decode_field.

Definition fromJSON (object : js) : result t :=
  address' ← field_or object "address" to_string "";
  coins' ← field_or object "coins" (to_list Coin.fromJSON) [];
  Ok (mk address' coins').

Definition toJSON (message : t) : js :=
  Obj ([("address", Str message.(address));
    ("coins", Arr (map Coin.toJSON message.(coins)))]).

Record partial := mkPartial {
  p_address : option string;
  p_coins : option (list Coin.partial);
}.

Definition fromPartial (object : partial) : t := {|
  address := object.(p_address) ?? "";
  coins := map Coin.fromPartial (object.(p_coins) ?? []);
|}.

(** The object with no property given. *)
Definition nothing : partial := mkPartial None None.

(** The bytes [encode] writes. *)
Definition wire {PB : Protobuf} {PS : ProtobufSpec PB} (m : t) : bytes :=
  f_string 10 m.(address) ++
  f_repeated 18 Coin.wire m.(coins).

Definition valid (m : t) : Prop :=
  Forall Coin.valid m.(coins).

Definition encodable {PB : Protobuf} {PS : ProtobufSpec PB} (m : t) : Prop :=
  valid m ∧ small (wire m).

Definition merge (m a : t) : t := {|
  address := later_string m.(address) a.(address);
  coins := m.(coins) ++ a.(coins);
|}.

(** A whole message seen as a partial one. *)
Definition full (m : t) : partial := {|
  p_address := Some m.(address);
  p_coins := Some (map Coin.full m.(coins));
|}.

(** The message as its schema declares it. *)
Definition schema (m : t) : list field :=
  [implicit 1 (VString m.(address));
   repeated 2 (message_value Coin.schema) m.(coins)].

(** The message with its default for every property that is not kept. *)
Definition only (kept : string → bool) (m : t) : t := {|
  address := if kept "address" then m.(address) else "";
  coins := if kept "coins" then m.(coins) else [];
|}.

#[global] Instance codec {PB : Protobuf} : MessageCodec t :=
  {| msg_base := base; msg_encode := encode; msg_field := decode_field |}.

#[global] Program Instance spec {PB : Protobuf} (PS : ProtobufSpec PB) : MessageSpec PS t :=
  {| msg_wire := wire; msg_valid := valid; msg_merge := merge |}.
Next Obligation. solve_encode_wire. Qed.
Next Obligation. solve_decode_wire. Qed.
Next Obligation. solve_merge_base. Qed.
Next Obligation. intros. solve_advances decode_field. Qed.

#[global] Program Instance data : MessageData t partial :=
  {| msg_fromJSON := fromJSON; msg_toJSON := toJSON;
     msg_fromPartial := fromPartial; msg_full := full |}.
Next Obligation. solve_json fromJSON toJSON. Qed.
Next Obligation. solve_partial fromPartial full. Qed.

#[global] Instance schema_wire {PB : Protobuf} {PS : ProtobufSpec PB} : WireSchema wire schema.
Proof. solve_schema_wire wire schema. Qed.

#[global] Instance schema_merge : MergeSchema merge schema.
Proof. solve_schema_merge merge schema. Qed.

(** Its row in the table of message types. *)
Definition message {PB : Protobuf} {PS : ProtobufSpec PB} : message_type :=
  plain_message "Output" nothing true schema only.

#[global] Instance message_lawful {PB : Protobuf} (PS : ProtobufSpec PB) : Lawful message.
Proof. solve_lawful decode_field fromJSON only. Qed.

End Output.

(** ** [Supply] (cosmos/bank/v1beta1/bank.js) *)

Module Supply.

Record t := mk {
  total : list Coin.t;
}.

#[global] Instance t_eta : Settable t := λ m, mk m.(total).

Definition base : t := mk [].

Definition encode {PB : Protobuf} (message : t) (writer : Writer) : Writer :=
  writer
  @> each message.(total) (fun v w => w @> uint32 10 @> fork @> Coin.encode v @> ldelim).

Definition decode_field {PB : Protobuf} (tag : Z) (message : t) : RM t :=
  match field_number tag with
  | 1 => v ← read_nested Coin.decode; mret (message <| total := message.(total) ++ [v] |>)
  | _ => _ ← skipType (wire_type tag); mret message
  end.

Definition decode {PB : Protobuf} (length : option Z) : RM t :=
  decode_message length base decode_field.

Definition fromJSON (object : js) : result t :=
  total' ← field_or object "total" (to_list Coin.fromJSON) [];
  Ok (mk total').

Definition toJSON (message : t) : js :=
  Obj ([("total", Arr (map Coin.toJSON message.(total)))]).

Record partial := mkPartial {
  p_total : option (list Coin.partial);
}.

Definition fromPartial (object : partial) : t := {|
  total := map Coin.fromPartial (object.(p_total) ?? []);
|}.

(** The object with no property given. *)
Definition nothing : partial := mkPartial None.

(** The bytes [encode] writes. *)
Definition wire {PB : Protobuf} {PS : ProtobufSpec PB} (m : t) : bytes :=
  f_repeated 10 Coin.wire m.(total).

Definition valid (m : t) : Prop :=
  Forall Coin.valid m.(total).

Definition encodable {PB : Protobuf} {PS : ProtobufSpec PB} (m : t) : Prop :=
  valid m ∧ small (wire m).

Definition merge (m a : t) : t := {|
  total := m.(total) ++ a.(total);
|}.

(** A whole message seen as a partial one. *)
Definition full (m : t) : partial := {|
  p_total := Some (map Coin.full m.(total));
|}.

(** The message as its schema declares it. *)
Definition schema (m : t) : list field :=
  [repeated 1 (message_value Coin.schema) m.(total)].

(** The message with its default for every property that is not kept. *)
Definition only (kept : string → bool) (m : t) : t := {|
  total := if kept "total" then m.(total) else [];
|}.

#[global] Instance codec {PB : Protobuf} : MessageCodec t :=
  {| msg_base := base; msg_encode := encode; msg_field := decode_field |}.

#[global] Program Instance spec {PB : Protobuf} (PS : ProtobufSpec PB) : MessageSpec PS t :=
  {| msg_wire := wire; msg_valid := valid; msg_merge := merge |}.
Next Obligation. solve_encode_wire. Qed.
Next Obligation. solve_decode_wire. Qed.
Next Obligation. solve_merge_base. Qed.
Next Obligation. intros. solve_advances decode_field. Qed.

#[global] Program Instance data : MessageData t partial :=
  {| msg_fromJSON := fromJSON; msg_toJSON := toJSON;
     msg_fromPartial := fromPartial; msg_full := full |}.
Next Obligation. solve_json fromJSON toJSON. Qed.
Next Obligation. solve_partial fromPartial full. Qed.

#[global] Instance schema_wire {PB : Protobuf} {PS : ProtobufSpec PB} : WireSchema wire schema.
Proof. solve_schema_wire wire schema. Qed.

#[global] Instance schema_merge : MergeSchema merge schema.
Proof. solve_schema_merge merge schema. Qed.

(** Its row in the table of message types. *)
Definition message {PB : Protobuf} {PS : ProtobufSpec PB} : message_type :=
  plain_message "Supply" nothing true schema only.

#[global] Instance message_lawful {PB : Protobuf} (PS : ProtobufSpec PB) : Lawful message.
Proof. solve_lawful decode_field fromJSON only. Qed.

End Supply.

(** ** [DenomUnit] (cosmos/bank/v1beta1/bank.js) *)

Module DenomUnit.

Record t := mk {
  denom : string;
  exponent : number;
  aliases : list string;
}.

#[global] Instance t_eta : Settable t := λ m, mk m.(denom) m.(exponent) m.(aliases).

Definition base : t := mk "" 0 [].

Definition encode {PB : Protobuf} (message : t) (writer : Writer) : Writer :=
  writer
  @> when (str_neq message.(denom) "") (fun w => w @> uint32 10 @> string_ message.(denom))
  @> when (num_neq message.(exponent) 0) (fun w => w @> uint32 16 @> uint32 message.(exponent))
  @> each message.(aliases) (fun v w => w @> uint32 26 @> string_ v).

Definition decode_field {PB : Protobuf} (tag : Z) (message : t) : RM t :=
  match field_number tag with
  | 1 => v ← read_string; mret (message <| denom := v |>)
  | 2 => v ← read_uint32; mret (message <| exponent := Int v |>)
  | 3 => v ← read_string; mret (message <| aliases := message.(aliases) ++ [v] |>)
  | _ => _ ← skipType (wire_type tag); mret message
  end.

Definition decode {PB : Protobuf} (length : option Z) : RM t :=
  decode_message length base decode_field.

Definition fromJSON (object : js) : result t :=
  denom' ← field_or object "denom" to_string "";
  exponent' ← field_or object "exponent" js_Number 0;
  aliases' ← field_or object "aliases" (to_list to_string) [];
  Ok (mk denom' exponent' aliases').

Definition toJSON (message : t) : js :=
  Obj ([("denom", Str message.(denom));
    ("exponent", Num message.(exponent));
    ("aliases", Arr (map Str message.(aliases)))]).

Record partial := mkPartial {
  p_denom : option string;
  p_exponent : option number;
  p_aliases : option (list string);
}.

Definition fromPartial (object : partial) : t := {|
  denom := object.(p_denom) ?? "";
  exponent := object.(p_exponent) ?? Int 0;
  aliases := (object.(p_aliases) ?? []);
|}.

(** The object with no property given. *)
Definition nothing : partial := mkPartial None None None.

(** The bytes [encode] writes. *)
Definition wire {PB : Protobuf} {PS : ProtobufSpec PB} (m : t) : bytes :=
  f_string 10 m.(denom) ++
  f_number e_uint32 16 m.(exponent) ++
  f_repeated 26 chars m.(aliases).

Definition valid (m : t) : Prop :=
  uint32_ok m.(exponent).

Definition encodable {PB : Protobuf} {PS : ProtobufSpec PB} (m : t) : Prop :=
  valid m ∧ small (wire m).

Definition merge (m a : t) : t := {|
  denom := later_string m.(denom) a.(denom);
  exponent := later_number m.(exponent) a.(exponent);
  aliases := m.(aliases) ++ a.(aliases);
|}.

(** A whole message seen as a partial one. *)
Definition full (m : t) : partial := {|
  p_denom := Some m.(denom);
  p_exponent := Some m.(exponent);
  p_aliases := Some m.(aliases);
|}.

(** The message as its schema declares it. *)
Definition schema (m : t) : list field :=
  [implicit 1 (VString m.(denom));
   implicit 2 (VInt Uint32 m.(exponent));
   repeated 3 VString m.(aliases)].

(** The message with its default for every property that is not kept. *)
Definition only (kept : string → bool) (m : t) : t := {|
  denom := if kept "denom" then m.(denom) else "";
  exponent := if kept "exponent" then m.(exponent) else Int 0;
  aliases := if kept "aliases" then m.(aliases) else [];
|}.

#[global] Instance codec {PB : Protobuf} : MessageCodec t :=
  {| msg_base := base; msg_encode := encode; msg_field := decode_field |}.

#[global] Program Instance spec {PB : Protobuf} (PS : ProtobufSpec PB) : MessageSpec PS t :=
  {| msg_wire := wire; msg_valid := valid; msg_merge := merge |}.
Next Obligation. solve_encode_wire. Qed.
Next Obligation. solve_decode_wire. Qed.
Next Obligation. solve_merge_base. Qed.
Next Obligation. intros. solve_advances decode_field. Qed.

#[global] Program Instance data : MessageData t partial :=
  {| msg_fromJSON := fromJSON; msg_toJSON := toJSON;
     msg_fromPartial := fromPartial; msg_full := full |}.
Next Obligation. solve_json fromJSON toJSON. Qed.
Next Obligation. solve_partial fromPartial full. Qed.

#[global] Instance schema_wire {PB : Protobuf} {PS : ProtobufSpec PB} : WireSchema wire schema.
Proof. solve_schema_wire wire schema. Qed.

#[global] Instance schema_merge : MergeSchema merge schema.
Proof. solve_schema_merge merge schema. Qed.

(** Its row in the table of message types. *)
Definition message {PB : Protobuf} {PS : ProtobufSpec PB} : message_type :=
  plain_message "DenomUnit" nothing true schema only.

#[global] Instance message_lawful {PB : Protobuf} (PS : ProtobufSpec PB) : Lawful message.
Proof. solve_lawful decode_field fromJSON only. Qed.

End DenomUnit.

(** ** [Metadata] (cosmos/bank/v1beta1/bank.js) *)

Module Metadata.

Record t := mk {
  description : string;
  denomUnits : list DenomUnit.t;
  base_ : string;
  display : string;
  name : string;
  symbol : string;
}.

#[global] Instance t_eta : Settable t := λ m, mk m.(description) m.(denomUnits) m.(base_)
  m.(display) m.(name) m.(symbol).

Definition base : t := mk "" [] "" "" "" "".

Definition encode {PB : Protobuf} (message : t) (writer : Writer) : Writer :=
  writer
  @> when (str_neq message.(description) "")
       (fun w => w @> uint32 10 @> string_ message.(description))
  @> each message.(denomUnits) (fun v w => w @> uint32 18 @> fork @> DenomUnit.encode v @> ldelim)
  @> when (str_neq message.(base_) "") (fun w => w @> uint32 26 @> string_ message.(base_))
  @> when (str_neq message.(display) "") (fun w => w @> uint32 34 @> string_ message.(display))
  @> when (str_neq message.(name) "") (fun w => w @> uint32 42 @> string_ message.(name))
  @> when (str_neq message.(symbol) "") (fun w => w @> uint32 50 @> string_ message.(symbol)).

Definition decode_field {PB : Protobuf} (tag : Z) (message : t) : RM t :=
  match field_number tag with
  | 1 => v ← read_string; mret (message <| description := v |>)
  | 2 => v ← read_nested DenomUnit.decode;
         mret (message <| denomUnits := message.(denomUnits) ++ [v] |>)
  | 3 => v ← read_string; mret (message <| base_ := v |>)
  | 4 => v ← read_string; mret (message <| display := v |>)
  | 5 => v ← read_string; mret (message <| name := v |>)
  | 6 => v ← read_string; mret (message <| symbol := v |>)
  | _ => _ ← skipType (wire_type tag); mret message
  end.

Definition decode {PB : Protobuf} (length : option Z) : RM t :=
  decode_message length base decode_field.

Definition fromJSON (object : js) : result t :=
  description' ← field_or object "description" to_string "";
  denomUnits' ← field_or object "denomUnits" (to_list DenomUnit.fromJSON) [];
  base_' ← field_or object "base" to_string "";
  display' ← field_or object "display" to_string "";
  name' ← field_or object "name" to_string "";
  symbol' ← field_or object "symbol" to_string "";
  Ok (mk description' denomUnits' base_' display' name' symbol').

Definition toJSON (message : t) : js :=
  Obj ([("description", Str message.(description));
    ("denomUnits", Arr (map DenomUnit.toJSON message.(denomUnits)));
    ("base", Str message.(base_));
    ("display", Str message.(display));
    ("name", Str message.(name));
    ("symbol", Str message.(symbol))]).

Record partial := mkPartial {
  p_description : option string;
  p_denomUnits : option (list DenomUnit.partial);
  p_base : option string;
  p_display : option string;
  p_name : option string;
  p_symbol : option string;
}.

Definition fromPartial (object : partial) : t := {|
  description := object.(p_description) ?? "";
  denomUnits := map DenomUnit.fromPartial (object.(p_denomUnits) ?? []);
  base_ := object.(p_base) ?? "";
  display := object.(p_display) ?? "";
  name := object.(p_name) ?? "";
  symbol := object.(p_symbol) ?? "";
|}.

(** The object with no property given. *)
Definition nothing : partial := mkPartial None None None None None None.

(** The bytes [encode] writes. *)
Definition wire {PB : Protobuf} {PS : ProtobufSpec PB} (m : t) : bytes :=
  f_string 10 m.(description) ++
  f_repeated 18 DenomUnit.wire m.(denomUnits) ++
  f_string 26 m.(base_) ++
  f_string 34 m.(display) ++
  f_string 42 m.(name) ++
  f_string 50 m.(symbol).

Definition valid (m : t) : Prop :=
  Forall DenomUnit.valid m.(denomUnits).

Definition encodable {PB : Protobuf} {PS : ProtobufSpec PB} (m : t) : Prop :=
  valid m ∧ small (wire m).

Definition merge (m a : t) : t := {|
  description := later_string m.(description) a.(description);
  denomUnits := m.(denomUnits) ++ a.(denomUnits);
  base_ := later_string m.(base_) a.(base_);
  display := later_string m.(display) a.(display);
  name := later_string m.(name) a.(name);
  symbol := later_string m.(symbol) a.(symbol);
|}.

(** A whole message seen as a partial one. *)
Definition full (m : t) : partial := {|
  p_description := Some m.(description);
  p_denomUnits := Some (map DenomUnit.full m.(denomUnits));
  p_base := Some m.(base_);
  p_display := Some m.(display);
  p_name := Some m.(name);
  p_symbol := Some m.(symbol);
|}.

(** The message as its schema declares it. *)
Definition schema (m : t) : list field :=
  [implicit 1 (VString m.(description));
   repeated 2 (message_value DenomUnit.schema) m.(denomUnits);
   implicit 3 (VString m.(base_));
   implicit 4 (VString m.(display));
   implicit 5 (VString m.(name));
   implicit 6 (VString m.(symbol))].

(** The message with its default for every property that is not kept. *)
Definition only (kept : string → bool) (m : t) : t := {|
  description := if kept "description" then m.(description) else "";
  denomUnits := if kept "denomUnits" then m.(denomUnits) else [];
  base_ := if kept "base" then m.(base_) else "";
  display := if kept "display" then m.(display) else "";
  name := if kept "name" then m.(name) else "";
  symbol := if kept "symbol" then m.(symbol) else "";
|}.

#[global] Instance codec {PB : Protobuf} : MessageCodec t :=
  {| msg_base := base; msg_encode := encode; msg_field := decode_field |}.

#[global] Program Instance spec {PB : Protobuf} (PS : ProtobufSpec PB) : MessageSpec PS t :=
  {| msg_wire := wire; msg_valid := valid; msg_merge := merge |}.
Next Obligation. solve_encode_wire. Qed.
Next Obligation. solve_decode_wire. Qed.
Next Obligation. solve_merge_base. Qed.
Next Obligation. intros. solve_advances decode_field. Qed.

#[global] Program Instance data : MessageData t partial :=
  {| msg_fromJSON := fromJSON; msg_toJSON := toJSON;
     msg_fromPartial := fromPartial; msg_full := full |}.
Next Obligation. solve_json fromJSON toJSON. Qed.
Next Obligation. solve_partial fromPartial full. Qed.

#[global] Instance schema_wire {PB : Protobuf} {PS : ProtobufSpec PB} : WireSchema wire schema.
Proof. solve_schema_wire wire schema. Qed.

#[global] Instance schema_merge : MergeSchema merge schema.
Proof. solve_schema_merge merge schema. Qed.

(** Its row in the table of message types. *)
Definition message {PB : Protobuf} {PS : ProtobufSpec PB} : message_type :=
  plain_message "Metadata" nothing true schema only.

#[global] Instance message_lawful {PB : Protobuf} (PS : ProtobufSpec PB) : Lawful message.
Proof. solve_lawful decode_field fromJSON only. Qed.

End Metadata.

(** ** [Balance] (cosmos/bank/v1beta1/genesis.js) *)

Module Balance.

Record t := mk {
  address : string;
  coins : list Coin.t;
}.

#[global] Instance t_eta : Settable t := λ m, mk m.(address) m.(coins).

Definition base : t := mk "" [].

Definition encode {PB : Protobuf} (message : t) (writer : Writer) : Writer :=
  writer
  @> when (str_neq message.(address) "") (fun w => w @> uint32 10 @> string_ message.(address))
  @> each message.(coins) (fun v w => w @> uint32 18 @> fork @> Coin.encode v @> ldelim).

Definition decode_field {PB : Protobuf} (tag : Z) (message : t) : RM t :=
  match field_number tag with
  | 1 => v ← read_string; mret (message <| address := v |>)
  | 2 => v ← read_nested Coin.decode; mret (message <| coins := message.(coins) ++ [v] |>)
  | _ => _ ← skipType (wire_type tag); mret message
  end.

Definition decode {PB : Protobuf} (length : option Z) : RM t :=
  decode_message length base decode_field.

Definition fromJSON (object : js) : result t :=
  address' ← field_or object "address" to_string "";
  coins' ← field_or object "coins" (to_list Coin.fromJSON) [];
  Ok (mk address' coins').

Definition toJSON (message : t) : js :=
  Obj ([("address", Str message.(address));
    ("coins", Arr (map Coin.toJSON message.(coins)))]).

Record partial := mkPartial {
  p_address : option string;
  p_coins : option (list Coin.partial);
}.

Definition fromPartial (object : partial) : t := {|
  address := object.(p_address) ?? "";
  coins := map Coin.fromPartial (object.(p_coins) ?? []);
|}.

(** The object with no property given. *)
Definition nothing : partial := mkPartial None None.

(** The bytes [encode] writes. *)
Definition wire {PB : Protobuf} {PS : ProtobufSpec PB} (m : t) : bytes :=
  f_string 10 m.(address) ++
  f_repeated 18 Coin.wire m.(coins).

Definition valid (m : t) : Prop :=
  Forall Coin.valid m.(coins).

Definition encodable {PB : Protobuf} {PS : ProtobufSpec PB} (m : t) : Prop :=
  valid m ∧ small (wire m).

Definition merge (m a : t) : t := {|
  address := later_string m.(address) a.(address);
  coins := m.(coins) ++ a.(coins);
|}.

(** A whole message seen as a partial one. *)
Definition full (m : t) : partial := {|
  p_address := Some m.(address);
  p_coins := Some (map Coin.full m.(coins));
|}.

(** The message as its schema declares it. *)
Definition schema (m : t) : list field :=
  [implicit 1 (VString m.(address));
   repeated 2 (message_value Coin.schema) m.(coins)].

(** The message with its default for every property that is not kept. *)
Definition only (kept : string → bool) (m : t) : t := {|
  address := if kept "address" then m.(address) else "";
  coins := if kept "coins" then m.(coins) else [];
|}.

#[global] Instance codec {PB : Protobuf} : MessageCodec t :=
  {| msg_base := base; msg_encode := encode; msg_field := decode_field |}.

#[global] Program Instance spec {PB : Protobuf} (PS : ProtobufSpec PB) : MessageSpec PS t :=
  {| msg_wire := wire; msg_valid := valid; msg_merge := merge |}.
Next Obligation. solve_encode_wire. Qed.
Next Obligation. solve_decode_wire. Qed.
Next Obligation. solve_merge_base. Qed.
Next Obligation. intros. solve_advances decode_field. Qed.

#[global] Program Instance data : MessageData t partial :=
  {| msg_fromJSON := fromJSON; msg_toJSON := toJSON;
     msg_fromPartial := fromPartial; msg_full := full |}.
Next Obligation. solve_json fromJSON toJSON. Qed.
Next Obligation. solve_partial fromPartial full. Qed.

#[global] Instance schema_wire {PB : Protobuf} {PS : ProtobufSpec PB} : WireSchema wire schema.
Proof. solve_schema_wire wire schema. Qed.

#[global] Instance schema_merge : MergeSchema merge schema.
Proof. solve_schema_merge merge schema. Qed.

(** Its row in the table of message types. *)
Definition message {PB : Protobuf} {PS : ProtobufSpec PB} : message_type :=
  plain_message "Balance" nothing true schema only.

#[global] Instance message_lawful {PB : Protobuf} (PS : ProtobufSpec PB) : Lawful message.
Proof. solve_lawful decode_field fromJSON only. Qed.

End Balance.

(** ** [GenesisState] (cosmos/bank/v1beta1/genesis.js) *)

Module GenesisState.

Record t := mk {
  params : option Params.t;
  balances : list Balance.t;
  supply : list Coin.t;
  denomMetadata : list Metadata.t;
}.

#[global] Instance t_eta : Settable t := λ m, mk m.(params) m.(balances) m.(supply)
  m.(denomMetadata).

Definition base : t := mk None [] [] [].

Definition encode {PB : Protobuf} (message : t) (writer : Writer) : Writer :=
  writer
  @> defined message.(params) (fun v w => w @> uint32 10 @> fork @> Params.encode v @> ldelim)
  @> each message.(balances) (fun v w => w @> uint32 18 @> fork @> Balance.encode v @> ldelim)
  @> each message.(supply) (fun v w => w @> uint32 26 @> fork @> Coin.encode v @> ldelim)
  @> each message.(denomMetadata) (fun v w => w @> uint32 34 @> fork @> Metadata.encode v @> ldelim).

Definition decode_field {PB : Protobuf} (tag : Z) (message : t) : RM t :=
  match field_number tag with
  | 1 => v ← read_nested Params.decode; mret (message <| params := Some v |>)
  | 2 => v ← read_nested Balance.decode; mret (message <| balances := message.(balances) ++ [v] |>)
  | 3 => v ← read_nested Coin.decode; mret (message <| supply := message.(supply) ++ [v] |>)
  | 4 => v ← read_nested Metadata.decode;
         mret (message <| denomMetadata := message.(denomMetadata) ++ [v] |>)
  | _ => _ ← skipType (wire_type tag); mret message
  end.

Definition decode {PB : Protobuf} (length : option Z) : RM t :=
  decode_message length base decode_field.

Definition fromJSON (object : js) : result t :=
  params' ← field_or object "params" (to_some Params.fromJSON) None;
  balances' ← field_or object "balances" (to_list Balance.fromJSON) [];
  supply' ← field_or object "supply" (to_list Coin.fromJSON) [];
  denomMetadata' ← field_or object "denomMetadata" (to_list Metadata.fromJSON) [];
  Ok (mk params' balances' supply' denomMetadata').

Definition toJSON (message : t) : js :=
  Obj (prop_opt "params" Params.toJSON message.(params) ++
   [("balances", Arr (map Balance.toJSON message.(balances)));
    ("supply", Arr (map Coin.toJSON message.(supply)));
    ("denomMetadata", Arr (map Metadata.toJSON message.(denomMetadata)))]).

Record partial := mkPartial {
  p_params : option Params.partial;
  p_balances : option (list Balance.partial);
  p_supply : option (list Coin.partial);
  p_denomMetadata : option (list Metadata.partial);
}.

Definition fromPartial (object : partial) : t := {|
  params := Params.fromPartial <$> object.(p_params);
  balances := map Balance.fromPartial (object.(p_balances) ?? []);
  supply := map Coin.fromPartial (object.(p_supply) ?? []);
  denomMetadata := map Metadata.fromPartial (object.(p_denomMetadata) ?? []);
|}.

(** The object with no property given. *)
Definition nothing : partial := mkPartial None None None None.

(** The bytes [encode] writes. *)
Definition wire {PB : Protobuf} {PS : ProtobufSpec PB} (m : t) : bytes :=
  f_message 10 Params.wire m.(params) ++
  f_repeated 18 Balance.wire m.(balances) ++
  f_repeated 26 Coin.wire m.(supply) ++
  f_repeated 34 Metadata.wire m.(denomMetadata).

Definition valid (m : t) : Prop :=
  from_option Params.valid True m.(params) ∧ Forall Balance.valid m.(balances) ∧ Forall Coin.valid m.(supply) ∧ Forall Metadata.valid m.(denomMetadata).

Definition encodable {PB : Protobuf} {PS : ProtobufSpec PB} (m : t) : Prop :=
  valid m ∧ small (wire m).

Definition merge (m a : t) : t := {|
  params := later_message m.(params) a.(params);
  balances := m.(balances) ++ a.(balances);
  supply := m.(supply) ++ a.(supply);
  denomMetadata := m.(denomMetadata) ++ a.(denomMetadata);
|}.

(** A whole message seen as a partial one. *)
Definition full (m : t) : partial := {|
  p_params := Params.full <$> m.(params);
  p_balances := Some (map Balance.full m.(balances));
  p_supply := Some (map Coin.full m.(supply));
  p_denomMetadata := Some (map Metadata.full m.(denomMetadata));
|}.

(** The message as its schema declares it. *)
Definition schema (m : t) : list field :=
  [singular 1 Optional (message_value Params.schema) m.(params);
   repeated 2 (message_value Balance.schema) m.(balances);
   repeated 3 (message_value Coin.schema) m.(supply);
   repeated 4 (message_value Metadata.schema) m.(denomMetadata)].

(** The message with its default for every property that is not kept. *)
Definition only (kept : string → bool) (m : t) : t := {|
  params := if kept "params" then m.(params) else None;
  balances := if kept "balances" then m.(balances) else [];
  supply := if kept "supply" then m.(supply) else [];
  denomMetadata := if kept "denomMetadata" then m.(denomMetadata) else [];
|}.

#[global] Instance codec {PB : Protobuf} : MessageCodec t :=
  {| msg_base := base; msg_encode := encode; msg_field := decode_field |}.

#[global] Program Instance spec {PB : Protobuf} (PS : ProtobufSpec PB) : MessageSpec PS t :=
  {| msg_wire := wire; msg_valid := valid; msg_merge := merge |}.
Next Obligation. solve_encode_wire. Qed.
Next Obligation. solve_decode_wire. Qed.
Next Obligation. solve_merge_base. Qed.
Next Obligation. intros. solve_advances decode_field. Qed.

#[global] Program Instance data : MessageData t partial :=
  {| msg_fromJSON := fromJSON; msg_toJSON := toJSON;
     msg_fromPartial := fromPartial; msg_full := full |}.
Next Obligation. solve_json fromJSON toJSON. Qed.
Next Obligation. solve_partial fromPartial full. Qed.

#[global] Instance schema_wire {PB : Protobuf} {PS : ProtobufSpec PB} : WireSchema wire schema.
Proof. solve_schema_wire wire schema. Qed.

#[global] Instance schema_merge : MergeSchema merge schema.
Proof. solve_schema_merge merge schema. Qed.

(** Its row in the table of message types. *)
Definition message {PB : Protobuf} {PS : ProtobufSpec PB} : message_type :=
  plain_message "GenesisState" nothing true schema only.

#[global] Instance message_lawful {PB : Protobuf} (PS : ProtobufSpec PB) : Lawful message.
Proof. solve_lawful decode_field fromJSON only. Qed.

End GenesisState.

(** ** [SendAuthorization] (cosmos/bank/v1beta1/authz.js) *)

Module SendAuthorization.

Record t := mk {
  spendLimit : list Coin.t;
}.

#[global] Instance t_eta : Settable t := λ m, mk m.(spendLimit).

Definition base : t := mk [].

Definition encode {PB : Protobuf} (message : t) (writer : Writer) : Writer :=
  writer
  @> each message.(spendLimit) (fun v w => w @> uint32 10 @> fork @> Coin.encode v @> ldelim).

Definition decode_field {PB : Protobuf} (tag : Z) (message : t) : RM t :=
  match field_number tag with
  | 1 => v ← read_nested Coin.decode; mret (message <| spendLimit := message.(spendLimit) ++ [v] |>)
  | _ => _ ← skipType (wire_type tag); mret message
  end.

Definition decode {PB : Protobuf} (length : option Z) : RM t :=
  decode_message length base decode_field.

Definition fromJSON (object : js) : result t :=
  spendLimit' ← field_or object "spendLimit" (to_list Coin.fromJSON) [];
  Ok (mk spendLimit').

Definition toJSON (message : t) : js :=
  Obj ([("spendLimit", Arr (map Coin.toJSON message.(spendLimit)))]).

Record partial := mkPartial {
  p_spendLimit : option (list Coin.partial);
}.

Definition fromPartial (object : partial) : t := {|
  spendLimit := map Coin.fromPartial (object.(p_spendLimit) ?? []);
|}.

(** The object with no property given. *)
Definition nothing : partial := mkPartial None.

(** The bytes [encode] writes. *)
Definition wire {PB : Protobuf} {PS : ProtobufSpec PB} (m : t) : bytes :=
  f_repeated 10 Coin.wire m.(spendLimit).

Definition valid (m : t) : Prop :=
  Forall Coin.valid m.(spendLimit).

Definition encodable {PB : Protobuf} {PS : ProtobufSpec PB} (m : t) : Prop :=
  valid m ∧ small (wire m).

Definition merge (m a : t) : t := {|
  spendLimit := m.(spendLimit) ++ a.(spendLimit);
|}.

(** A whole message seen as a partial one. *)
Definition full (m : t) : partial := {|
  p_spendLimit := Some (map Coin.full m.(spendLimit));
|}.

(** The message as its schema declares it. *)
Definition schema (m : t) : list field :=
  [repeated 1 (message_value Coin.schema) m.(spendLimit)].

(** The message with its default for every property that is not kept. *)
Definition only (kept : string → bool) (m : t) : t := {|
  spendLimit := if kept "spendLimit" then m.(spendLimit) else [];
|}.

#[global] Instance codec {PB : Protobuf} : MessageCodec t :=
  {| msg_base := base; msg_encode := encode; msg_field := decode_field |}.

#[global] Program Instance spec {PB : Protobuf} (PS : ProtobufSpec PB) : MessageSpec PS t :=
  {| msg_wire := wire; msg_valid := valid; msg_merge := merge |}.
Next Obligation. solve_encode_wire. Qed.
Next Obligation. solve_decode_wire. Qed.
Next Obligation. solve_merge_base. Qed.
Next Obligation. intros. solve_advances decode_field. Qed.

#[global] Program Instance data : MessageData t partial :=
  {| msg_fromJSON := fromJSON; msg_toJSON := toJSON;
     msg_fromPartial := fromPartial; msg_full := full |}.
Next Obligation. solve_json fromJSON toJSON. Qed.
Next Obligation. solve_partial fromPartial full. Qed.

#[global] Instance schema_wire {PB : Protobuf} {PS : ProtobufSpec PB} : WireSchema wire schema.
Proof. solve_schema_wire wire schema. Qed.

#[global] Instance schema_merge : MergeSchema merge schema.
Proof. solve_schema_merge merge schema. Qed.

(** Its row in the table of message types. *)
Definition message {PB : Protobuf} {PS : ProtobufSpec PB} : message_type :=
  plain_message "SendAuthorization" nothing true schema only.

#[global] Instance message_lawful {PB : Protobuf} (PS : ProtobufSpec PB) : Lawful message.
Proof. solve_lawful decode_field fromJSON only. Qed.

End SendAuthorization.

(** ** [MsgSend] (cosmos/bank/v1beta1/tx.js) *)

Module MsgSend.

Record t := mk {
  fromAddress : string;
  toAddress : string;
  amount : list Coin.t;
}.

#[global] Instance t_eta : Settable t := λ m, mk m.(fromAddress) m.(toAddress) m.(amount).

Definition base : t := mk "" "" [].

Definition encode {PB : Protobuf} (message : t) (writer : Writer) : Writer :=
  writer
  @> when (str_neq message.(fromAddress) "")
       (fun w => w @> uint32 10 @> string_ message.(fromAddress))
  @> when (str_neq message.(toAddress) "") (fun w => w @> uint32 18 @> string_ message.(toAddress))
  @> each message.(amount) (fun v w => w @> uint32 26 @> fork @> Coin.encode v @> ldelim).

Definition decode_field {PB : Protobuf} (tag : Z) (message : t) : RM t :=
  match field_number tag with
  | 1 => v ← read_string; mret (message <| fromAddress := v |>)
  | 2 => v ← read_string; mret (message <| toAddress := v |>)
  | 3 => v ← read_nested Coin.decode; mret (message <| amount := message.(amount) ++ [v] |>)
  | _ => _ ← skipType (wire_type tag); mret message
  end.

Definition decode {PB : Protobuf} (length : option Z) : RM t :=
  decode_message length base decode_field.

Definition fromJSON (object : js) : result t :=
  fromAddress' ← field_or object "fromAddress" to_string "";
  toAddress' ← field_or object "toAddress" to_string "";
  amount' ← field_or object "amount" (to_list Coin.fromJSON) [];
  Ok (mk fromAddress' toAddress' amount').

Definition toJSON (message : t) : js :=
  Obj ([("fromAddress", Str message.(fromAddress));
    ("toAddress", Str message.(toAddress));
    ("amount", Arr (map Coin.toJSON message.(amount)))]).

Record partial := mkPartial {
  p_fromAddress : option string;
  p_toAddress : option string;
  p_amount : option (list Coin.partial);
}.

Definition fromPartial (object : partial) : t := {|
  fromAddress := object.(p_fromAddress) ?? "";
  toAddress := object.(p_toAddress) ?? "";
  amount := map Coin.fromPartial (object.(p_amount) ?? []);
|}.

(** The object with no property given. *)
Definition nothing : partial := mkPartial None None None.

(** The bytes [encode] writes. *)
Definition wire {PB : Protobuf} {PS : ProtobufSpec PB} (m : t) : bytes :=
  f_string 10 m.(fromAddress) ++
  f_string 18 m.(toAddress) ++
  f_repeated 26 Coin.wire m.(amount).

Definition valid (m : t) : Prop :=
  Forall Coin.valid m.(amount).

Definition encodable {PB : Protobuf} {PS : ProtobufSpec PB} (m : t) : Prop :=
  valid m ∧ small (wire m).

Definition merge (m a : t) : t := {|
  fromAddress := later_string m.(fromAddress) a.(fromAddress);
  toAddress := later_string m.(toAddress) a.(toAddress);
  amount := m.(amount) ++ a.(amount);
|}.

(** A whole message seen as a partial one. *)
Definition full (m : t) : partial := {|
  p_fromAddress := Some m.(fromAddress);
  p_toAddress := Some m.(toAddress);
  p_amount := Some (map Coin.full m.(amount));
|}.

(** The message as its schema declares it. *)
Definition schema (m : t) : list field :=
  [implicit 1 (VString m.(fromAddress));
   implicit 2 (VString m.(toAddress));
   repeated 3 (message_value Coin.schema) m.(amount)].

(** The message with its default for every property that is not kept. *)
Definition only (kept : string → bool) (m : t) : t := {|
  fromAddress := if kept "fromAddress" then m.(fromAddress) else "";
  toAddress := if kept "toAddress" then m.(toAddress) else "";
  amount := if kept "amount" then m.(amount) else [];
|}.

#[global] Instance codec {PB : Protobuf} : MessageCodec t :=
  {| msg_base := base; msg_encode := encode; msg_field := decode_field |}.

#[global] Program Instance spec {PB : Protobuf} (PS : ProtobufSpec PB) : MessageSpec PS t :=
  {| msg_wire := wire; msg_valid := valid; msg_merge := merge |}.
Next Obligation. solve_encode_wire. Qed.
Next Obligation. solve_decode_wire. Qed.
Next Obligation. solve_merge_base. Qed.
Next Obligation. intros. solve_advances decode_field. Qed.

#[global] Program Instance data : MessageData t partial :=
  {| msg_fromJSON := fromJSON; msg_toJSON := toJSON;
     msg_fromPartial := fromPartial; msg_full := full |}.
Next Obligation. solve_json fromJSON toJSON. Qed.
Next Obligation. solve_partial fromPartial full. Qed.

#[global] Instance schema_wire {PB : Protobuf} {PS : ProtobufSpec PB} : WireSchema wire schema.
Proof. solve_schema_wire wire schema. Qed.

#[global] Instance schema_merge : MergeSchema merge schema.
Proof. solve_schema_merge merge schema. Qed.

(** Its row in the table of message types. *)
Definition message {PB : Protobuf} {PS : ProtobufSpec PB} : message_type :=
  plain_message "MsgSend" nothing true schema only.

#[global] Instance message_lawful {PB : Protobuf} (PS : ProtobufSpec PB) : Lawful message.
Proof. solve_lawful decode_field fromJSON only. Qed.

End MsgSend.

(** ** [MsgSendResponse] (cosmos/bank/v1beta1/tx.js) *)

Module MsgSendResponse.

Record t := mk {}.

#[global] Instance t_eta : Settable t := λ m, m.

Definition base : t := mk.

Definition encode {PB : Protobuf} (message : t) (writer : Writer) : Writer :=
  writer.

Definition decode_field {PB : Protobuf} (tag : Z) (message : t) : RM t :=
  match field_number tag with
  | _ => _ ← skipType (wire_type tag); mret message
  end.

Definition decode {PB : Protobuf} (length : option Z) : RM t :=
  decode_message length base decode_field.

Definition fromJSON (object : js) : result t :=
  Ok base.

Definition toJSON (message : t) : js :=
  Obj [].

Record partial := mkPartial {}.

Definition fromPartial (object : partial) : t := base.

(** The object with no property given. *)
Definition nothing : partial := mkPartial.

(** The bytes [encode] writes. *)
Definition wire {PB : Protobuf} {PS : ProtobufSpec PB} (m : t) : bytes :=
  [].

Definition valid (m : t) : Prop :=
  True.

Definition encodable {PB : Protobuf} {PS : ProtobufSpec PB} (m : t) : Prop :=
  valid m ∧ small (wire m).

Definition merge (m a : t) : t := m.

(** A whole message seen as a partial one. *)
Definition full (m : t) : partial := mkPartial.

(** The message as its schema declares it. *)
Definition schema (m : t) : list field :=
  [].

(** The message with its default for every property that is not kept. *)
Definition only (kept : string → bool) (m : t) : t := m.

#[global] Instance codec {PB : Protobuf} : MessageCodec t :=
  {| msg_base := base; msg_encode := encode; msg_field := decode_field |}.

#[global] Program Instance spec {PB : Protobuf} (PS : ProtobufSpec PB) : MessageSpec PS t :=
  {| msg_wire := wire; msg_valid := valid; msg_merge := merge |}.
Next Obligation. solve_encode_wire. Qed.
Next Obligation. solve_decode_wire. Qed.
Next Obligation. solve_merge_base. Qed.
Next Obligation. intros. solve_advances decode_field. Qed.

#[global] Program Instance data : MessageData t partial :=
  {| msg_fromJSON := fromJSON; msg_toJSON := toJSON;
     msg_fromPartial := fromPartial; msg_full := full |}.
Next Obligation. solve_json fromJSON toJSON. Qed.
Next Obligation. solve_partial fromPartial full. Qed.

#[global] Instance schema_wire {PB : Protobuf} {PS : ProtobufSpec PB} : WireSchema wire schema.
Proof. solve_schema_wire wire schema. Qed.

#[global] Instance schema_merge : MergeSchema merge schema.
Proof. solve_schema_merge merge schema. Qed.

(** Its row in the table of message types. *)
Definition message {PB : Protobuf} {PS : ProtobufSpec PB} : message_type :=
  plain_message "MsgSendResponse" nothing false schema only.

#[global] Instance message_lawful {PB : Protobuf} (PS : ProtobufSpec PB) : Lawful message.
Proof. solve_lawful decode_field fromJSON only. Qed.

End MsgSendResponse.

(** ** [MsgMultiSend] (cosmos/bank/v1beta1/tx.js) *)

Module MsgMultiSend.

Record t := mk {
  inputs : list Input.t;
  outputs : list Output.t;
}.

#[global] Instance t_eta : Settable t := λ m, mk m.(inputs) m.(outputs).

Definition base : t := mk [] [].

Definition encode {PB : Protobuf} (message : t) (writer : Writer) : Writer :=
  writer
  @> each message.(inputs) (fun v w => w @> uint32 10 @> fork @> Input.encode v @> ldelim)
  @> each message.(outputs) (fun v w => w @> uint32 18 @> fork @> Output.encode v @> ldelim).

Definition decode_field {PB : Protobuf} (tag : Z) (message : t) : RM t :=
  match field_number tag with
  | 1 => v ← read_nested Input.decode; mret (message <| inputs := message.(inputs) ++ [v] |>)
  | 2 => v ← read_nested Output.decode; mret (message <| outputs := message.(outputs) ++ [v] |>)
  | _ => _ ← skipType (wire_type tag); mret message
  end.

Definition decode {PB : Protobuf} (length : option Z) : RM t :=
  decode_message length base decode_field.

Definition fromJSON (object : js) : result t :=
  inputs' ← field_or object "inputs" (to_list Input.fromJSON) [];
  outputs' ← field_or object "outputs" (to_list Output.fromJSON) [];
  Ok (mk inputs' outputs').

Definition toJSON (message : t) : js :=
  Obj ([("inputs", Arr (map Input.toJSON message.(inputs)));
    ("outputs", Arr (map Output.toJSON message.(outputs)))]).

Record partial := mkPartial {
  p_inputs : option (list Input.partial);
  p_outputs : option (list Output.partial);
}.

Definition fromPartial (object : partial) : t := {|
  inputs := map Input.fromPartial (object.(p_inputs) ?? []);
  outputs := map Output.fromPartial (object.(p_outputs) ?? []);
|}.

(** The object with no property given. *)
Definition nothing : partial := mkPartial None None.

(** The bytes [encode] writes. *)
Definition wire {PB : Protobuf} {PS : ProtobufSpec PB} (m : t) : bytes :=
  f_repeated 10 Input.wire m.(inputs) ++
  f_repeated 18 Output.wire m.(outputs).

Definition valid (m : t) : Prop :=
  Forall Input.valid m.(inputs) ∧ Forall Output.valid m.(outputs).

Definition encodable {PB : Protobuf} {PS : ProtobufSpec PB} (m : t) : Prop :=
  valid m ∧ small (wire m).

Definition merge (m a : t) : t := {|
  inputs := m.(inputs) ++ a.(inputs);
  outputs := m.(outputs) ++ a.(outputs);
|}.

(** A whole message seen as a partial one. *)
Definition full (m : t) : partial := {|
  p_inputs := Some (map Input.full m.(inputs));
  p_outputs := Some (map Output.full m.(outputs));
|}.

(** The message as its schema declares it. *)
Definition schema (m : t) : list field :=
  [repeated 1 (message_value Input.schema) m.(inputs);
   repeated 2 (message_value Output.schema) m.(outputs)].

(** The message with its default for every property that is not kept. *)
Definition only (kept : string → bool) (m : t) : t := {|
  inputs := if kept "inputs" then m.(inputs) else [];
  outputs := if kept "outputs" then m.(outputs) else [];
|}.

#[global] Instance codec {PB : Protobuf} : MessageCodec t :=
  {| msg_base := base; msg_encode := encode; msg_field := decode_field |}.

#[global] Program Instance spec {PB : Protobuf} (PS : ProtobufSpec PB) : MessageSpec PS t :=
  {| msg_wire := wire; msg_valid := valid; msg_merge := merge |}.
Next Obligation. solve_encode_wire. Qed.
Next Obligation. solve_decode_wire. Qed.
Next Obligation. solve_merge_base. Qed.
Next Obligation. intros. solve_advances decode_field. Qed.

#[global] Program Instance data : MessageData t partial :=
  {| msg_fromJSON := fromJSON; msg_toJSON := toJSON;
     msg_fromPartial := fromPartial; msg_full := full |}.
Next Obligation. solve_json fromJSON toJSON. Qed.
Next Obligation. solve_partial fromPartial full. Qed.

#[global] Instance schema_wire {PB : Protobuf} {PS : ProtobufSpec PB} : WireSchema wire schema.
Proof. solve_schema_wire wire schema. Qed.

#[global] Instance schema_merge : MergeSchema merge schema.
Proof. solve_schema_merge merge schema. Qed.

(** Its row in the table of message types. *)
Definition message {PB : Protobuf} {PS : ProtobufSpec PB} : message_type :=
  plain_message "MsgMultiSend" nothing true schema only.

#[global] Instance message_lawful {PB : Protobuf} (PS : ProtobufSpec PB) : Lawful message.
Proof. solve_lawful decode_field fromJSON only. Qed.

End MsgMultiSend.

(** ** [MsgMultiSendResponse] (cosmos/bank/v1beta1/tx.js) *)

Module MsgMultiSendResponse.

Record t := mk {}.

#[global] Instance t_eta : Settable t := λ m, m.

Definition base : t := mk.

Definition encode {PB : Protobuf} (message : t) (writer : Writer) : Writer :=
  writer.

Definition decode_field {PB : Protobuf} (tag : Z) (message : t) : RM t :=
  match field_number tag with
  | _ => _ ← skipType (wire_type tag); mret message
  end.

Definition decode {PB : Protobuf} (length : option Z) : RM t :=
  decode_message length base decode_field.

Definition fromJSON (object : js) : result t :=
  Ok base.

Definition toJSON (message : t) : js :=
  Obj [].

Record partial := mkPartial {}.

Definition fromPartial (object : partial) : t := base.

(** The object with no property given. *)
Definition nothing : partial := mkPartial.

(** The bytes [encode] writes. *)
Definition wire {PB : Protobuf} {PS : ProtobufSpec PB} (m : t) : bytes :=
  [].

Definition valid (m : t) : Prop :=
  True.

Definition encodable {PB : Protobuf} {PS : ProtobufSpec PB} (m : t) : Prop :=
  valid m ∧ small (wire m).

Definition merge (m a : t) : t := m.

(** A whole message seen as a partial one. *)
Definition full (m : t) : partial := mkPartial.

(** The message as its schema declares it. *)
Definition schema (m : t) : list field :=
  [].

(** The message with its default for every property that is not kept. *)
Definition only (kept : string → bool) (m : t) : t := m.

#[global] Instance codec {PB : Protobuf} : MessageCodec t :=
  {| msg_base := base; msg_encode := encode; msg_field := decode_field |}.

#[global] Program Instance spec {PB : Protobuf} (PS : ProtobufSpec PB) : MessageSpec PS t :=
  {| msg_wire := wire; msg_valid := valid; msg_merge := merge |}.
Next Obligation. solve_encode_wire. Qed.
Next Obligation. solve_decode_wire. Qed.
Next Obligation. solve_merge_base. Qed.
Next Obligation. intros. solve_advances decode_field. Qed.

#[global] Program Instance data : MessageData t partial :=
  {| msg_fromJSON := fromJSON; msg_toJSON := toJSON;
     msg_fromPartial := fromPartial; msg_full := full |}.
Next Obligation. solve_json fromJSON toJSON. Qed.
Next Obligation. solve_partial fromPartial full. Qed.

#[global] Instance schema_wire {PB : Protobuf} {PS : ProtobufSpec PB} : WireSchema wire schema.
Proof. solve_schema_wire wire schema. Qed.

#[global] Instance schema_merge : MergeSchema merge schema.
Proof. solve_schema_merge merge schema. Qed.

(** Its row in the table of message types. *)
Definition message {PB : Protobuf} {PS : ProtobufSpec PB} : message_type :=
  plain_message "MsgMultiSendResponse" nothing false schema only.

#[global] Instance message_lawful {PB : Protobuf} (PS : ProtobufSpec PB) : Lawful message.
Proof. solve_lawful decode_field fromJSON only. Qed.

End MsgMultiSendResponse.

(** ** [QueryBalanceRequest] (cosmos/bank/v1beta1/query.js) *)

Module QueryBalanceRequest.

Record t := mk {
  address : string;
  denom : string;
}.

#[global] Instance t_eta : Settable t := λ m, mk m.(address) m.(denom).

Definition base : t := mk "" "".

Definition encode {PB : Protobuf} (message : t) (writer : Writer) : Writer :=
  writer
  @> when (str_neq message.(address) "") (fun w => w @> uint32 10 @> string_ message.(address))
  @> when (str_neq message.(denom) "") (fun w => w @> uint32 18 @> string_ message.(denom)).

Definition decode_field {PB : Protobuf} (tag : Z) (message : t) : RM t :=
  match field_number tag with
  | 1 => v ← read_string; mret (message <| address := v |>)
  | 2 => v ← read_string; mret (message <| denom := v |>)
  | _ => _ ← skipType (wire_type tag); mret message
  end.

Definition decode {PB : Protobuf} (length : option Z) : RM t :=
  decode_message length base decode_field.

Definition fromJSON (object : js) : result t :=
  address' ← field_or object "address" to_string "";
  denom' ← field_or object "denom" to_string "";
  Ok (mk address' denom').

Definition toJSON (message : t) : js :=
  Obj ([("address", Str message.(address));
    ("denom", Str message.(denom))]).

Record partial := mkPartial {
  p_address : option string;
  p_denom : option string;
}.

Definition fromPartial (object : partial) : t := {|
  address := object.(p_address) ?? "";
  denom := object.(p_denom) ?? "";
|}.

(** The object with no property given. *)
Definition nothing : partial := mkPartial None None.

(** The bytes [encode] writes. *)
Definition wire {PB : Protobuf} {PS : ProtobufSpec PB} (m : t) : bytes :=
  f_string 10 m.(address) ++
  f_string 18 m.(denom).

Definition valid (m : t) : Prop :=
  True.

Definition encodable {PB : Protobuf} {PS : ProtobufSpec PB} (m : t) : Prop :=
  valid m ∧ small (wire m).

Definition merge (m a : t) : t := {|
  address := later_string m.(address) a.(address);
  denom := later_string m.(denom) a.(denom);
|}.

(** A whole message seen as a partial one. *)
Definition full (m : t) : partial := {|
  p_address := Some m.(address);
  p_denom := Some m.(denom);
|}.

(** The message as its schema declares it. *)
Definition schema (m : t) : list field :=
  [implicit 1 (VString m.(address));
   implicit 2 (VString m.(denom))].

(** The message with its default for every property that is not kept. *)
Definition only (kept : string → bool) (m : t) : t := {|
  address := if kept "address" then m.(address) else "";
  denom := if kept "denom" then m.(denom) else "";
|}.

#[global] Instance codec {PB : Protobuf} : MessageCodec t :=
  {| msg_base := base; msg_encode := encode; msg_field := decode_field |}.

#[global] Program Instance spec {PB : Protobuf} (PS : ProtobufSpec PB) : MessageSpec PS t :=
  {| msg_wire := wire; msg_valid := valid; msg_merge := merge |}.
Next Obligation. solve_encode_wire. Qed.
Next Obligation. solve_decode_wire. Qed.
Next Obligation. solve_merge_base. Qed.
Next Obligation. intros. solve_advances decode_field. Qed.

#[global] Program Instance data : MessageData t partial :=
  {| msg_fromJSON := fromJSON; msg_toJSON := toJSON;
     msg_fromPartial := fromPartial; msg_full := full |}.
Next Obligation. solve_json fromJSON toJSON. Qed.
Next Obligation. solve_partial fromPartial full. Qed.

#[global] Instance schema_wire {PB : Protobuf} {PS : ProtobufSpec PB} : WireSchema wire schema.
Proof. solve_schema_wire wire schema. Qed.

#[global] Instance schema_merge : MergeSchema merge schema.
Proof. solve_schema_merge merge schema. Qed.

(** Its row in the table of message types. *)
Definition message {PB : Protobuf} {PS : ProtobufSpec PB} : message_type :=
  plain_message "QueryBalanceRequest" nothing true schema only.

#[global] Instance message_lawful {PB : Protobuf} (PS : ProtobufSpec PB) : Lawful message.
Proof. solve_lawful decode_field fromJSON only. Qed.

End QueryBalanceRequest.

(** ** [QueryBalanceResponse] (cosmos/bank/v1beta1/query.js) *)

Module QueryBalanceResponse.

Record t := mk {
  balance : option Coin.t;
}.

#[global] Instance t_eta : Settable t := λ m, mk m.(balance).

Definition base : t := mk None.

Definition encode {PB : Protobuf} (message : t) (writer : Writer) : Writer :=
  writer
  @> defined message.(balance) (fun v w => w @> uint32 10 @> fork @> Coin.encode v @> ldelim).

Definition decode_field {PB : Protobuf} (tag : Z) (message : t) : RM t :=
  match field_number tag with
  | 1 => v ← read_nested Coin.decode; mret (message <| balance := Some v |>)
  | _ => _ ← skipType (wire_type tag); mret message
  end.

Definition decode {PB : Protobuf} (length : option Z) : RM t :=
  decode_message length base decode_field.

Definition fromJSON (object : js) : result t :=
  balance' ← field_or object "balance" (to_some Coin.fromJSON) None;
  Ok (mk balance').

Definition toJSON (message : t) : js :=
  Obj (prop_opt "balance" Coin.toJSON message.(balance)).

Record partial := mkPartial {
  p_balance : option Coin.partial;
}.

Definition fromPartial (object : partial) : t := {|
  balance := Coin.fromPartial <$> object.(p_balance);
|}.

(** The object with no property given. *)
Definition nothing : partial := mkPartial None.

(** The bytes [encode] writes. *)
Definition wire {PB : Protobuf} {PS : ProtobufSpec PB} (m : t) : bytes :=
  f_message 10 Coin.wire m.(balance).

Definition valid (m : t) : Prop :=
  from_option Coin.valid True m.(balance).

Definition encodable {PB : Protobuf} {PS : ProtobufSpec PB} (m : t) : Prop :=
  valid m ∧ small (wire m).

Definition merge (m a : t) : t := {|
  balance := later_message m.(balance) a.(balance);
|}.

(** A whole message seen as a partial one. *)
Definition full (m : t) : partial := {|
  p_balance := Coin.full <$> m.(balance);
|}.

(** The message as its schema declares it. *)
Definition schema (m : t) : list field :=
  [singular 1 Optional (message_value Coin.schema) m.(balance)].

(** The message with its default for every property that is not kept. *)
Definition only (kept : string → bool) (m : t) : t := {|
  balance := if kept "balance" then m.(balance) else None;
|}.

#[global] Instance codec {PB : Protobuf} : MessageCodec t :=
  {| msg_base := base; msg_encode := encode; msg_field := decode_field |}.

#[global] Program Instance spec {PB : Protobuf} (PS : ProtobufSpec PB) : MessageSpec PS t :=
  {| msg_wire := wire; msg_valid := valid; msg_merge := merge |}.
Next Obligation. solve_encode_wire. Qed.
Next Obligation. solve_decode_wire. Qed.
Next Obligation. solve_merge_base. Qed.
Next Obligation. intros. solve_advances decode_field. Qed.

#[global] Program Instance data : MessageData t partial :=
  {| msg_fromJSON := fromJSON; msg_toJSON := toJSON;
     msg_fromPartial := fromPartial; msg_full := full |}.
Next Obligation. solve_json fromJSON toJSON. Qed.
Next Obligation. solve_partial fromPartial full. Qed.

#[global] Instance schema_wire {PB : Protobuf} {PS : ProtobufSpec PB} : WireSchema wire schema.
Proof. solve_schema_wire wire schema. Qed.

#[global] Instance schema_merge : MergeSchema merge schema.
Proof. solve_schema_merge merge schema. Qed.

(** Its row in the table of message types. *)
Definition message {PB : Protobuf} {PS : ProtobufSpec PB} : message_type :=
  plain_message "QueryBalanceResponse" nothing true schema only.

#[global] Instance message_lawful {PB : Protobuf} (PS : ProtobufSpec PB) : Lawful message.
Proof. solve_lawful decode_field fromJSON only. Qed.

End QueryBalanceResponse.

(** ** [QueryAllBalancesRequest] (cosmos/bank/v1beta1/query.js) *)

Module QueryAllBalancesRequest.

Record t := mk {
  address : string;
  pagination : option PageRequest.t;
}.

#[global] Instance t_eta : Settable t := λ m, mk m.(address) m.(pagination).

Definition base : t := mk "" None.

Definition encode {PB : Protobuf} (message : t) (writer : Writer) : result Writer :=
  Ok writer
  @>= pure (when (str_neq message.(address) "")
       (fun w => w @> uint32 10 @> string_ message.(address)))
  @>= defined_e message.(pagination) (submessage 18 PageRequest.encode).

Definition decode_field {PB : Protobuf} (tag : Z) (message : t) : RM t :=
  match field_number tag with
  | 1 => v ← read_string; mret (message <| address := v |>)
  | 2 => v ← read_nested PageRequest.decode; mret (message <| pagination := Some v |>)
  | _ => _ ← skipType (wire_type tag); mret message
  end.

Definition decode {PB : Protobuf} (length : option Z) : RM t :=
  decode_message length base decode_field.

Definition fromJSON (object : js) : result t :=
  address' ← field_or object "address" to_string "";
  pagination' ← field_or object "pagination" (to_some PageRequest.fromJSON) None;
  Ok (mk address' pagination').

Definition toJSON (message : t) : js :=
  Obj ([("address", Str message.(address))] ++
   prop_opt "pagination" PageRequest.toJSON message.(pagination)).

Record partial := mkPartial {
  p_address : option string;
  p_pagination : option PageRequest.partial;
}.

Definition fromPartial (object : partial) : t := {|
  address := object.(p_address) ?? "";
  pagination := PageRequest.fromPartial <$> object.(p_pagination);
|}.

(** The object with no property given. *)
Definition nothing : partial := mkPartial None None.

(** The bytes [encode] writes. *)
Definition wire {PB : Protobuf} {PS : ProtobufSpec PB} (m : t) : bytes :=
  f_string 10 m.(address) ++
  f_message 18 PageRequest.wire m.(pagination).

Definition valid (m : t) : Prop :=
  from_option PageRequest.valid True m.(pagination).

(** The byte fields hold arrays, as the interface declares. *)
Definition typed (m : t) : bool := from_option PageRequest.typed true m.(pagination).

(** The message without its empty byte arrays. *)
Definition normal (m : t) : t := {|
  address := m.(address);
  pagination := PageRequest.normal <$> m.(pagination);
|}.

Definition encodable {PB : Protobuf} {PS : ProtobufSpec PB} (m : t) : Prop :=
  typed m = true ∧ valid m ∧ small (wire m).

Definition merge (m a : t) : t := {|
  address := later_string m.(address) a.(address);
  pagination := later_message m.(pagination) (PageRequest.normal <$> a.(pagination));
|}.

(** A whole message seen as a partial one. *)
Definition full (m : t) : partial := {|
  p_address := Some m.(address);
  p_pagination := PageRequest.full <$> m.(pagination);
|}.

(** The message as its schema declares it. *)
Definition schema (m : t) : list field :=
  [implicit 1 (VString m.(address));
   singular 2 Optional (message_value PageRequest.schema) m.(pagination)].

(** The message with its default for every property that is not kept. *)
Definition only (kept : string → bool) (m : t) : t := {|
  address := if kept "address" then m.(address) else "";
  pagination := if kept "pagination" then m.(pagination) else None;
|}.

#[global] Instance codec {PB : Protobuf} : FallibleCodec t :=
  {| fmsg_base := base; fmsg_encode := encode; fmsg_field := decode_field |}.

#[global] Program Instance spec {PB : Protobuf} (PS : ProtobufSpec PB) : FallibleSpec PS t :=
  {| fmsg_wire := wire; fmsg_valid := valid; fmsg_typed := typed; fmsg_normal := normal;
     fmsg_merge := merge |}.
Next Obligation. solve_fencode_wire. Qed.
Next Obligation. intros. solve_fencode_throws encode typed. Qed.
Next Obligation. solve_fdecode_wire. Qed.
Next Obligation. solve_fmerge_base. Qed.
Next Obligation. intros. solve_fadvances decode_field. Qed.

#[global] Program Instance given_ : FalliblePartial t partial :=
  {| fmsg_fromPartial := fromPartial; fmsg_full := full; fmsg_given := typed |}.
Next Obligation. solve_fgiven fromPartial typed. Qed.
Next Obligation. solve_fpartial fromPartial full typed. Qed.

#[global] Program Instance json : FallibleJson t :=
  {| fmsg_fromJSON := fromJSON; fmsg_toJSON := toJSON;
     fmsg_named := fun _ => true; fmsg_known := fun m => m |}.
Next Obligation. solve_fjson fromJSON toJSON. Qed.
Next Obligation. reflexivity. Qed.

#[global] Instance schema_wire {PB : Protobuf} {PS : ProtobufSpec PB} : WireSchema wire schema.
Proof. solve_schema_wire wire schema. Qed.

#[global] Instance schema_normal : NormalSchema normal schema.
Proof. solve_schema_normal normal schema. Qed.

#[global] Instance schema_merge : MergeSchema merge schema.
Proof. solve_schema_merge merge schema. Qed.

(** Its row in the table of message types. *)
Definition message {PB : Protobuf} {PS : ProtobufSpec PB} : message_type :=
  fallible_message "QueryAllBalancesRequest" nothing true schema only.

#[global] Instance message_lawful {PB : Protobuf} (PS : ProtobufSpec PB) : Lawful message.
Proof. solve_lawful decode_field fromJSON only. Qed.

End QueryAllBalancesRequest.

(** ** [QueryAllBalancesResponse] (cosmos/bank/v1beta1/query.js) *)

Module QueryAllBalancesResponse.

Record t := mk {
  balances : list Coin.t;
  pagination : option PageResponse.t;
}.

#[global] Instance t_eta : Settable t := λ m, mk m.(balances) m.(pagination).

Definition base : t := mk [] None.

Definition encode {PB : Protobuf} (message : t) (writer : Writer) : result Writer :=
  Ok writer
  @>= pure (each message.(balances) (fun v w => w @> uint32 10 @> fork @> Coin.encode v @> ldelim))
  @>= defined_e message.(pagination) (submessage 18 PageResponse.encode).

Definition decode_field {PB : Protobuf} (tag : Z) (message : t) : RM t :=
  match field_number tag with
  | 1 => v ← read_nested Coin.decode; mret (message <| balances := message.(balances) ++ [v] |>)
  | 2 => v ← read_nested PageResponse.decode; mret (message <| pagination := Some v |>)
  | _ => _ ← skipType (wire_type tag); mret message
  end.

Definition decode {PB : Protobuf} (length : option Z) : RM t :=
  decode_message length base decode_field.

Definition fromJSON (object : js) : result t :=
  balances' ← field_or object "balances" (to_list Coin.fromJSON) [];
  pagination' ← field_or object "pagination" (to_some PageResponse.fromJSON) None;
  Ok (mk balances' pagination').

Definition toJSON (message : t) : js :=
  Obj ([("balances", Arr (map Coin.toJSON message.(balances)))] ++
   prop_opt "pagination" PageResponse.toJSON message.(pagination)).

Record partial := mkPartial {
  p_balances : option (list Coin.partial);
  p_pagination : option PageResponse.partial;
}.

Definition fromPartial (object : partial) : t := {|
  balances := map Coin.fromPartial (object.(p_balances) ?? []);
  pagination := PageResponse.fromPartial <$> object.(p_pagination);
|}.

(** The object with no property given. *)
Definition nothing : partial := mkPartial None None.

(** The bytes [encode] writes. *)
Definition wire {PB : Protobuf} {PS : ProtobufSpec PB} (m : t) : bytes :=
  f_repeated 10 Coin.wire m.(balances) ++
  f_message 18 PageResponse.wire m.(pagination).

Definition valid (m : t) : Prop :=
  Forall Coin.valid m.(balances) ∧ from_option PageResponse.valid True m.(pagination).

(** The byte fields hold arrays, as the interface declares. *)
Definition typed (m : t) : bool := from_option PageResponse.typed true m.(pagination).

(** The message without its empty byte arrays. *)
Definition normal (m : t) : t := {|
  balances := m.(balances);
  pagination := PageResponse.normal <$> m.(pagination);
|}.

Definition encodable {PB : Protobuf} {PS : ProtobufSpec PB} (m : t) : Prop :=
  typed m = true ∧ valid m ∧ small (wire m).

Definition merge (m a : t) : t := {|
  balances := m.(balances) ++ a.(balances);
  pagination := later_message m.(pagination) (PageResponse.normal <$> a.(pagination));
|}.

(** A whole message seen as a partial one. *)
Definition full (m : t) : partial := {|
  p_balances := Some (map Coin.full m.(balances));
  p_pagination := PageResponse.full <$> m.(pagination);
|}.

(** The message as its schema declares it. *)
Definition schema (m : t) : list field :=
  [repeated 1 (message_value Coin.schema) m.(balances);
   singular 2 Optional (message_value PageResponse.schema) m.(pagination)].

(** The message with its default for every property that is not kept. *)
Definition only (kept : string → bool) (m : t) : t := {|
  balances := if kept "balances" then m.(balances) else [];
  pagination := if kept "pagination" then m.(pagination) else None;
|}.

#[global] Instance codec {PB : Protobuf} : FallibleCodec t :=
  {| fmsg_base := base; fmsg_encode := encode; fmsg_field := decode_field |}.

#[global] Program Instance spec {PB : Protobuf} (PS : ProtobufSpec PB) : FallibleSpec PS t :=
  {| fmsg_wire := wire; fmsg_valid := valid; fmsg_typed := typed; fmsg_normal := normal;
     fmsg_merge := merge |}.
Next Obligation. solve_fencode_wire. Qed.
Next Obligation. intros. solve_fencode_throws encode typed. Qed.
Next Obligation. solve_fdecode_wire. Qed.
Next Obligation. solve_fmerge_base. Qed.
Next Obligation. intros. solve_fadvances decode_field. Qed.

#[global] Program Instance given_ : FalliblePartial t partial :=
  {| fmsg_fromPartial := fromPartial; fmsg_full := full; fmsg_given := typed |}.
Next Obligation. solve_fgiven fromPartial typed. Qed.
Next Obligation. solve_fpartial fromPartial full typed. Qed.

#[global] Program Instance json : FallibleJson t :=
  {| fmsg_fromJSON := fromJSON; fmsg_toJSON := toJSON;
     fmsg_named := fun _ => true; fmsg_known := fun m => m |}.
Next Obligation. solve_fjson fromJSON toJSON. Qed.
Next Obligation. reflexivity. Qed.

#[global] Instance schema_wire {PB : Protobuf} {PS : ProtobufSpec PB} : WireSchema wire schema.
Proof. solve_schema_wire wire schema. Qed.

#[global] Instance schema_normal : NormalSchema normal schema.
Proof. solve_schema_normal normal schema. Qed.

#[global] Instance schema_merge : MergeSchema merge schema.
Proof. solve_schema_merge merge schema. Qed.

(** Its row in the table of message types. *)
Definition message {PB : Protobuf} {PS : ProtobufSpec PB} : message_type :=
  fallible_message "QueryAllBalancesResponse" nothing true schema only.

#[global] Instance message_lawful {PB : Protobuf} (PS : ProtobufSpec PB) : Lawful message.
Proof. solve_lawful decode_field fromJSON only. Qed.

End QueryAllBalancesResponse.

(** ** [QueryTotalSupplyRequest] (cosmos/bank/v1beta1/query.js) *)

Module QueryTotalSupplyRequest.

Record t := mk {
  pagination : option PageRequest.t;
}.

#[global] Instance t_eta : Settable t := λ m, mk m.(pagination).

Definition base : t := mk None.

Definition encode {PB : Protobuf} (message : t) (writer : Writer) : result Writer :=
  Ok writer
  @>= defined_e message.(pagination) (submessage 10 PageRequest.encode).

Definition decode_field {PB : Protobuf} (tag : Z) (message : t) : RM t :=
  match field_number tag with
  | 1 => v ← read_nested PageRequest.decode; mret (message <| pagination := Some v |>)
  | _ => _ ← skipType (wire_type tag); mret message
  end.

Definition decode {PB : Protobuf} (length : option Z) : RM t :=
  decode_message length base decode_field.

Definition fromJSON (object : js) : result t :=
  pagination' ← field_or object "pagination" (to_some PageRequest.fromJSON) None;
  Ok (mk pagination').

Definition toJSON (message : t) : js :=
  Obj (prop_opt "pagination" PageRequest.toJSON message.(pagination)).

Record partial := mkPartial {
  p_pagination : option PageRequest.partial;
}.

Definition fromPartial (object : partial) : t := {|
  pagination := PageRequest.fromPartial <$> object.(p_pagination);
|}.

(** The object with no property given. *)
Definition nothing : partial := mkPartial None.

(** The bytes [encode] writes. *)
Definition wire {PB : Protobuf} {PS : ProtobufSpec PB} (m : t) : bytes :=
  f_message 10 PageRequest.wire m.(pagination).

Definition valid (m : t) : Prop :=
  from_option PageRequest.valid True m.(pagination).

(** The byte fields hold arrays, as the interface declares. *)
Definition typed (m : t) : bool := from_option PageRequest.typed true m.(pagination).

(** The message without its empty byte arrays. *)
Definition normal (m : t) : t := {|
  pagination := PageRequest.normal <$> m.(pagination);
|}.

Definition encodable {PB : Protobuf} {PS : ProtobufSpec PB} (m : t) : Prop :=
  typed m = true ∧ valid m ∧ small (wire m).

Definition merge (m a : t) : t := {|
  pagination := later_message m.(pagination) (PageRequest.normal <$> a.(pagination));
|}.

(** A whole message seen as a partial one. *)
Definition full (m : t) : partial := {|
  p_pagination := PageRequest.full <$> m.(pagination);
|}.

(** The message as its schema declares it. *)
Definition schema (m : t) : list field :=
  [singular 1 Optional (message_value PageRequest.schema) m.(pagination)].

(** The message with its default for every property that is not kept. *)
Definition only (kept : string → bool) (m : t) : t := {|
  pagination := if kept "pagination" then m.(pagination) else None;
|}.

#[global] Instance codec {PB : Protobuf} : FallibleCodec t :=
  {| fmsg_base := base; fmsg_encode := encode; fmsg_field := decode_field |}.

#[global] Program Instance spec {PB : Protobuf} (PS : ProtobufSpec PB) : FallibleSpec PS t :=
  {| fmsg_wire := wire; fmsg_valid := valid; fmsg_typed := typed; fmsg_normal := normal;
     fmsg_merge := merge |}.
Next Obligation. solve_fencode_wire. Qed.
Next Obligation. intros. solve_fencode_throws encode typed. Qed.
Next Obligation. solve_fdecode_wire. Qed.
Next Obligation. solve_fmerge_base. Qed.
Next Obligation. intros. solve_fadvances decode_field. Qed.

#[global] Program Instance given_ : FalliblePartial t partial :=
  {| fmsg_fromPartial := fromPartial; fmsg_full := full; fmsg_given := typed |}.
Next Obligation. solve_fgiven fromPartial typed. Qed.
Next Obligation. solve_fpartial fromPartial full typed. Qed.

#[global] Program Instance json : FallibleJson t :=
  {| fmsg_fromJSON := fromJSON; fmsg_toJSON := toJSON;
     fmsg_named := fun _ => true; fmsg_known := fun m => m |}.
Next Obligation. solve_fjson fromJSON toJSON. Qed.
Next Obligation. reflexivity. Qed.

#[global] Instance schema_wire {PB : Protobuf} {PS : ProtobufSpec PB} : WireSchema wire schema.
Proof. solve_schema_wire wire schema. Qed.

#[global] Instance schema_normal : NormalSchema normal schema.
Proof. solve_schema_normal normal schema. Qed.

#[global] Instance schema_merge : MergeSchema merge schema.
Proof. solve_schema_merge merge schema. Qed.

(** Its row in the table of message types. *)
Definition message {PB : Protobuf} {PS : ProtobufSpec PB} : message_type :=
  fallible_message "QueryTotalSupplyRequest" nothing true schema only.

#[global] Instance message_lawful {PB : Protobuf} (PS : ProtobufSpec PB) : Lawful message.
Proof. solve_lawful decode_field fromJSON only. Qed.

End QueryTotalSupplyRequest.

(** ** [QueryTotalSupplyResponse] (cosmos/bank/v1beta1/query.js) *)

Module QueryTotalSupplyResponse.

Record t := mk {
  supply : list Coin.t;
  pagination : option PageResponse.t;
}.

#[global] Instance t_eta : Settable t := λ m, mk m.(supply) m.(pagination).

Definition base : t := mk [] None.

Definition encode {PB : Protobuf} (message : t) (writer : Writer) : result Writer :=
  Ok writer
  @>= pure (each message.(supply) (fun v w => w @> uint32 10 @> fork @> Coin.encode v @> ldelim))
  @>= defined_e message.(pagination) (submessage 18 PageResponse.encode).

Definition decode_field {PB : Protobuf} (tag : Z) (message : t) : RM t :=
  match field_number tag with
  | 1 => v ← read_nested Coin.decode; mret (message <| supply := message.(supply) ++ [v] |>)
  | 2 => v ← read_nested PageResponse.decode; mret (message <| pagination := Some v |>)
  | _ => _ ← skipType (wire_type tag); mret message
  end.

Definition decode {PB : Protobuf} (length : option Z) : RM t :=
  decode_message length base decode_field.

Definition fromJSON (object : js) : result t :=
  supply' ← field_or object "supply" (to_list Coin.fromJSON) [];
  pagination' ← field_or object "pagination" (to_some PageResponse.fromJSON) None;
  Ok (mk supply' pagination').

Definition toJSON (message : t) : js :=
  Obj ([("supply", Arr (map Coin.toJSON message.(supply)))] ++
   prop_opt "pagination" PageResponse.toJSON message.(pagination)).

Record partial := mkPartial {
  p_supply : option (list Coin.partial);
  p_pagination : option PageResponse.partial;
}.

Definition fromPartial (object : partial) : t := {|
  supply := map Coin.fromPartial (object.(p_supply) ?? []);
  pagination := PageResponse.fromPartial <$> object.(p_pagination);
|}.

(** The object with no property given. *)
Definition nothing : partial := mkPartial None None.

(** The bytes [encode] writes. *)
Definition wire {PB : Protobuf} {PS : ProtobufSpec PB} (m : t) : bytes :=
  f_repeated 10 Coin.wire m.(supply) ++
  f_message 18 PageResponse.wire m.(pagination).

Definition valid (m : t) : Prop :=
  Forall Coin.valid m.(supply) ∧ from_option PageResponse.valid True m.(pagination).

(** The byte fields hold arrays, as the interface declares. *)
Definition typed (m : t) : bool := from_option PageResponse.typed true m.(pagination).

(** The message without its empty byte arrays. *)
Definition normal (m : t) : t := {|
  supply := m.(supply);
  pagination := PageResponse.normal <$> m.(pagination);
|}.

Definition encodable {PB : Protobuf} {PS : ProtobufSpec PB} (m : t) : Prop :=
  typed m = true ∧ valid m ∧ small (wire m).

Definition merge (m a : t) : t := {|
  supply := m.(supply) ++ a.(supply);
  pagination := later_message m.(pagination) (PageResponse.normal <$> a.(pagination));
|}.

(** A whole message seen as a partial one. *)
Definition full (m : t) : partial := {|
  p_supply := Some (map Coin.full m.(supply));
  p_pagination := PageResponse.full <$> m.(pagination);
|}.

(** The message as its schema declares it. *)
Definition schema (m : t) : list field :=
  [repeated 1 (message_value Coin.schema) m.(supply);
   singular 2 Optional (message_value PageResponse.schema) m.(pagination)].

(** The message with its default for every property that is not kept. *)
Definition only (kept : string → bool) (m : t) : t := {|
  supply := if kept "supply" then m.(supply) else [];
  pagination := if kept "pagination" then m.(pagination) else None;
|}.

#[global] Instance codec {PB : Protobuf} : FallibleCodec t :=
  {| fmsg_base := base; fmsg_encode := encode; fmsg_field := decode_field |}.

#[global] Program Instance spec {PB : Protobuf} (PS : ProtobufSpec PB) : FallibleSpec PS t :=
  {| fmsg_wire := wire; fmsg_valid := valid; fmsg_typed := typed; fmsg_normal := normal;
     fmsg_merge := merge |}.
Next Obligation. solve_fencode_wire. Qed.
Next Obligation. intros. solve_fencode_throws encode typed. Qed.
Next Obligation. solve_fdecode_wire. Qed.
Next Obligation. solve_fmerge_base. Qed.
Next Obligation. intros. solve_fadvances decode_field. Qed.

#[global] Program Instance given_ : FalliblePartial t partial :=
  {| fmsg_fromPartial := fromPartial; fmsg_full := full; fmsg_given := typed |}.
Next Obligation. solve_fgiven fromPartial typed. Qed.
Next Obligation. solve_fpartial fromPartial full typed. Qed.

#[global] Program Instance json : FallibleJson t :=
  {| fmsg_fromJSON := fromJSON; fmsg_toJSON := toJSON;
     fmsg_named := fun _ => true; fmsg_known := fun m => m |}.
Next Obligation. solve_fjson fromJSON toJSON. Qed.
Next Obligation. reflexivity. Qed.

#[global] Instance schema_wire {PB : Protobuf} {PS : ProtobufSpec PB} : WireSchema wire schema.
Proof. solve_schema_wire wire schema. Qed.

#[global] Instance schema_normal : NormalSchema normal schema.
Proof. solve_schema_normal normal schema. Qed.

#[global] Instance schema_merge : MergeSchema merge schema.
Proof. solve_schema_merge merge schema. Qed.

(** Its row in the table of message types. *)
Definition message {PB : Protobuf} {PS : ProtobufSpec PB} : message_type :=
  fallible_message "QueryTotalSupplyResponse" nothing true schema only.

#[global] Instance message_lawful {PB : Protobuf} (PS : ProtobufSpec PB) : Lawful message.
Proof. solve_lawful decode_field fromJSON only. Qed.

End QueryTotalSupplyResponse.

(** ** [QuerySupplyOfRequest] (cosmos/bank/v1beta1/query.js) *)

Module QuerySupplyOfRequest.

Record t := mk {
  denom : string;
}.

#[global] Instance t_eta : Settable t := λ m, mk m.(denom).

Definition base : t := mk "".

Definition encode {PB : Protobuf} (message : t) (writer : Writer) : Writer :=
  writer
  @> when (str_neq message.(denom) "") (fun w => w @> uint32 10 @> string_ message.(denom)).

Definition decode_field {PB : Protobuf} (tag : Z) (message : t) : RM t :=
  match field_number tag with
  | 1 => v ← read_string; mret (message <| denom := v |>)
  | _ => _ ← skipType (wire_type tag); mret message
  end.

Definition decode {PB : Protobuf} (length : option Z) : RM t :=
  decode_message length base decode_field.

Definition fromJSON (object : js) : result t :=
  denom' ← field_or object "denom" to_string "";
  Ok (mk denom').

Definition toJSON (message : t) : js :=
  Obj ([("denom", Str message.(denom))]).

Record partial := mkPartial {
  p_denom : option string;
}.

Definition fromPartial (object : partial) : t := {|
  denom := object.(p_denom) ?? "";
|}.

(** The object with no property given. *)
Definition nothing : partial := mkPartial None.

(** The bytes [encode] writes. *)
Definition wire {PB : Protobuf} {PS : ProtobufSpec PB} (m : t) : bytes :=
  f_string 10 m.(denom).

Definition valid (m : t) : Prop :=
  True.

Definition encodable {PB : Protobuf} {PS : ProtobufSpec PB} (m : t) : Prop :=
  valid m ∧ small (wire m).

Definition merge (m a : t) : t := {|
  denom := later_string m.(denom) a.(denom);
|}.

(** A whole message seen as a partial one. *)
Definition full (m : t) : partial := {|
  p_denom := Some m.(denom);
|}.

(** The message as its schema declares it. *)
Definition schema (m : t) : list field :=
  [implicit 1 (VString m.(denom))].

(** The message with its default for every property that is not kept. *)
Definition only (kept : string → bool) (m : t) : t := {|
  denom := if kept "denom" then m.(denom) else "";
|}.

#[global] Instance codec {PB : Protobuf} : MessageCodec t :=
  {| msg_base := base; msg_encode := encode; msg_field := decode_field |}.

#[global] Program Instance spec {PB : Protobuf} (PS : ProtobufSpec PB) : MessageSpec PS t :=
  {| msg_wire := wire; msg_valid := valid; msg_merge := merge |}.
Next Obligation. solve_encode_wire. Qed.
Next Obligation. solve_decode_wire. Qed.
Next Obligation. solve_merge_base. Qed.
Next Obligation. intros. solve_advances decode_field. Qed.

#[global] Program Instance data : MessageData t partial :=
  {| msg_fromJSON := fromJSON; msg_toJSON := toJSON;
     msg_fromPartial := fromPartial; msg_full := full |}.
Next Obligation. solve_json fromJSON toJSON. Qed.
Next Obligation. solve_partial fromPartial full. Qed.

#[global] Instance schema_wire {PB : Protobuf} {PS : ProtobufSpec PB} : WireSchema wire schema.
Proof. solve_schema_wire wire schema. Qed.

#[global] Instance schema_merge : MergeSchema merge schema.
Proof. solve_schema_merge merge schema. Qed.

(** Its row in the table of message types. *)
Definition message {PB : Protobuf} {PS : ProtobufSpec PB} : message_type :=
  plain_message "QuerySupplyOfRequest" nothing true schema only.

#[global] Instance message_lawful {PB : Protobuf} (PS : ProtobufSpec PB) : Lawful message.
Proof. solve_lawful decode_field fromJSON only. Qed.

End QuerySupplyOfRequest.

(** ** [QuerySupplyOfResponse] (cosmos/bank/v1beta1/query.js) *)

Module QuerySupplyOfResponse.

Record t := mk {
  amount : option Coin.t;
}.

#[global] Instance t_eta : Settable t := λ m, mk m.(amount).

Definition base : t := mk None.

Definition encode {PB : Protobuf} (message : t) (writer : Writer) : Writer :=
  writer
  @> defined message.(amount) (fun v w => w @> uint32 10 @> fork @> Coin.encode v @> ldelim).

Definition decode_field {PB : Protobuf} (tag : Z) (message : t) : RM t :=
  match field_number tag with
  | 1 => v ← read_nested Coin.decode; mret (message <| amount := Some v |>)
  | _ => _ ← skipType (wire_type tag); mret message
  end.

Definition decode {PB : Protobuf} (length : option Z) : RM t :=
  decode_message length base decode_field.

Definition fromJSON (object : js) : result t :=
  amount' ← field_or object "amount" (to_some Coin.fromJSON) None;
  Ok (mk amount').

Definition toJSON (message : t) : js :=
  Obj (prop_opt "amount" Coin.toJSON message.(amount)).

Record partial := mkPartial {
  p_amount : option Coin.partial;
}.

Definition fromPartial (object : partial) : t := {|
  amount := Coin.fromPartial <$> object.(p_amount);
|}.

(** The object with no property given. *)
Definition nothing : partial := mkPartial None.

(** The bytes [encode] writes. *)
Definition wire {PB : Protobuf} {PS : ProtobufSpec PB} (m : t) : bytes :=
  f_message 10 Coin.wire m.(amount).

Definition valid (m : t) : Prop :=
  from_option Coin.valid True m.(amount).

Definition encodable {PB : Protobuf} {PS : ProtobufSpec PB} (m : t) : Prop :=
  valid m ∧ small (wire m).

Definition merge (m a : t) : t := {|
  amount := later_message m.(amount) a.(amount);
|}.

(** A whole message seen as a partial one. *)
Definition full (m : t) : partial := {|
  p_amount := Coin.full <$> m.(amount);
|}.

(** The message as its schema declares it. *)
Definition schema (m : t) : list field :=
  [singular 1 Optional (message_value Coin.schema) m.(amount)].

(** The message with its default for every property that is not kept. *)
Definition only (kept : string → bool) (m : t) : t := {|
  amount := if kept "amount" then m.(amount) else None;
|}.

#[global] Instance codec {PB : Protobuf} : MessageCodec t :=
  {| msg_base := base; msg_encode := encode; msg_field := decode_field |}.

#[global] Program Instance spec {PB : Protobuf} (PS : ProtobufSpec PB) : MessageSpec PS t :=
  {| msg_wire := wire; msg_valid := valid; msg_merge := merge |}.
Next Obligation. solve_encode_wire. Qed.
Next Obligation. solve_decode_wire. Qed.
Next Obligation. solve_merge_base. Qed.
Next Obligation. intros. solve_advances decode_field. Qed.

#[global] Program Instance data : MessageData t partial :=
  {| msg_fromJSON := fromJSON; msg_toJSON := toJSON;
     msg_fromPartial := fromPartial; msg_full := full |}.
Next Obligation. solve_json fromJSON toJSON. Qed.
Next Obligation. solve_partial fromPartial full. Qed.

#[global] Instance schema_wire {PB : Protobuf} {PS : ProtobufSpec PB} : WireSchema wire schema.
Proof. solve_schema_wire wire schema. Qed.

#[global] Instance schema_merge : MergeSchema merge schema.
Proof. solve_schema_merge merge schema. Qed.

(** Its row in the table of message types. *)
Definition message {PB : Protobuf} {PS : ProtobufSpec PB} : message_type :=
  plain_message "QuerySupplyOfResponse" nothing true schema only.

#[global] Instance message_lawful {PB : Protobuf} (PS : ProtobufSpec PB) : Lawful message.
Proof. solve_lawful decode_field fromJSON only. Qed.

End QuerySupplyOfResponse.

(** ** [QueryParamsRequest] (cosmos/bank/v1beta1/query.js) *)

Module QueryParamsRequest.

Record t := mk {}.

#[global] Instance t_eta : Settable t := λ m, m.

Definition base : t := mk.

Definition encode {PB : Protobuf} (message : t) (writer : Writer) : Writer :=
  writer.

Definition decode_field {PB : Protobuf} (tag : Z) (message : t) : RM t :=
  match field_number tag with
  | _ => _ ← skipType (wire_type tag); mret message
  end.

Definition decode {PB : Protobuf} (length : option Z) : RM t :=
  decode_message length base decode_field.

Definition fromJSON (object : js) : result t :=
  Ok base.

Definition toJSON (message : t) : js :=
  Obj [].

Record partial := mkPartial {}.

Definition fromPartial (object : partial) : t := base.

(** The object with no property given. *)
Definition nothing : partial := mkPartial.

(** The bytes [encode] writes. *)
Definition wire {PB : Protobuf} {PS : ProtobufSpec PB} (m : t) : bytes :=
  [].

Definition valid (m : t) : Prop :=
  True.

Definition encodable {PB : Protobuf} {PS : ProtobufSpec PB} (m : t) : Prop :=
  valid m ∧ small (wire m).

Definition merge (m a : t) : t := m.

(** A whole message seen as a partial one. *)
Definition full (m : t) : partial := mkPartial.

(** The message as its schema declares it. *)
Definition schema (m : t) : list field :=
  [].

(** The message with its default for every property that is not kept. *)
Definition only (kept : string → bool) (m : t) : t := m.

#[global] Instance codec {PB : Protobuf} : MessageCodec t :=
  {| msg_base := base; msg_encode := encode; msg_field := decode_field |}.

#[global] Program Instance spec {PB : Protobuf} (PS : ProtobufSpec PB) : MessageSpec PS t :=
  {| msg_wire := wire; msg_valid := valid; msg_merge := merge |}.
Next Obligation. solve_encode_wire. Qed.
Next Obligation. solve_decode_wire. Qed.
Next Obligation. solve_merge_base. Qed.
Next Obligation. intros. solve_advances decode_field. Qed.

#[global] Program Instance data : MessageData t partial :=
  {| msg_fromJSON := fromJSON; msg_toJSON := toJSON;
     msg_fromPartial := fromPartial; msg_full := full |}.
Next Obligation. solve_json fromJSON toJSON. Qed.
Next Obligation. solve_partial fromPartial full. Qed.

#[global] Instance schema_wire {PB : Protobuf} {PS : ProtobufSpec PB} : WireSchema wire schema.
Proof. solve_schema_wire wire schema. Qed.

#[global] Instance schema_merge : MergeSchema merge schema.
Proof. solve_schema_merge merge schema. Qed.

(** Its row in the table of message types. *)
Definition message {PB : Protobuf} {PS : ProtobufSpec PB} : message_type :=
  plain_message "QueryParamsRequest" nothing false schema only.

#[global] Instance message_lawful {PB : Protobuf} (PS : ProtobufSpec PB) : Lawful message.
Proof. solve_lawful decode_field fromJSON only. Qed.

End QueryParamsRequest.

(** ** [QueryParamsResponse] (cosmos/bank/v1beta1/query.js) *)

Module QueryParamsResponse.

Record t := mk {
  params : option Params.t;
}.

#[global] Instance t_eta : Settable t := λ m, mk m.(params).

Definition base : t := mk None.

Definition encode {PB : Protobuf} (message : t) (writer : Writer) : Writer :=
  writer
  @> defined message.(params) (fun v w => w @> uint32 10 @> fork @> Params.encode v @> ldelim).

Definition decode_field {PB : Protobuf} (tag : Z) (message : t) : RM t :=
  match field_number tag with
  | 1 => v ← read_nested Params.decode; mret (message <| params := Some v |>)
  | _ => _ ← skipType (wire_type tag); mret message
  end.

Definition decode {PB : Protobuf} (length : option Z) : RM t :=
  decode_message length base decode_field.

Definition fromJSON (object : js) : result t :=
  params' ← field_or object "params" (to_some Params.fromJSON) None;
  Ok (mk params').

Definition toJSON (message : t) : js :=
  Obj (prop_opt "params" Params.toJSON message.(params)).

Record partial := mkPartial {
  p_params : option Params.partial;
}.

Definition fromPartial (object : partial) : t := {|
  params := Params.fromPartial <$> object.(p_params);
|}.

(** The object with no property given. *)
Definition nothing : partial := mkPartial None.

(** The bytes [encode] writes. *)
Definition wire {PB : Protobuf} {PS : ProtobufSpec PB} (m : t) : bytes :=
  f_message 10 Params.wire m.(params).

Definition valid (m : t) : Prop :=
  from_option Params.valid True m.(params).

Definition encodable {PB : Protobuf} {PS : ProtobufSpec PB} (m : t) : Prop :=
  valid m ∧ small (wire m).

Definition merge (m a : t) : t := {|
  params := later_message m.(params) a.(params);
|}.

(** A whole message seen as a partial one. *)
Definition full (m : t) : partial := {|
  p_params := Params.full <$> m.(params);
|}.

(** The message as its schema declares it. *)
Definition schema (m : t) : list field :=
  [singular 1 Optional (message_value Params.schema) m.(params)].

(** The message with its default for every property that is not kept. *)
Definition only (kept : string → bool) (m : t) : t := {|
  params := if kept "params" then m.(params) else None;
|}.

#[global] Instance codec {PB : Protobuf} : MessageCodec t :=
  {| msg_base := base; msg_encode := encode; msg_field := decode_field |}.

#[global] Program Instance spec {PB : Protobuf} (PS : ProtobufSpec PB) : MessageSpec PS t :=
  {| msg_wire := wire; msg_valid := valid; msg_merge := merge |}.
Next Obligation. solve_encode_wire. Qed.
Next Obligation. solve_decode_wire. Qed.
Next Obligation. solve_merge_base. Qed.
Next Obligation. intros. solve_advances decode_field. Qed.

#[global] Program Instance data : MessageData t partial :=
  {| msg_fromJSON := fromJSON; msg_toJSON := toJSON;
     msg_fromPartial := fromPartial; msg_full := full |}.
Next Obligation. solve_json fromJSON toJSON. Qed.
Next Obligation. solve_partial fromPartial full. Qed.

#[global] Instance schema_wire {PB : Protobuf} {PS : ProtobufSpec PB} : WireSchema wire schema.
Proof. solve_schema_wire wire schema. Qed.

#[global] Instance schema_merge : MergeSchema merge schema.
Proof. solve_schema_merge merge schema. Qed.

(** Its row in the table of message types. *)
Definition message {PB : Protobuf} {PS : ProtobufSpec PB} : message_type :=
  plain_message "QueryParamsResponse" nothing true schema only.

#[global] Instance message_lawful {PB : Protobuf} (PS : ProtobufSpec PB) : Lawful message.
Proof. solve_lawful decode_field fromJSON only. Qed.

End QueryParamsResponse.

(** ** [QueryDenomsMetadataRequest] (cosmos/bank/v1beta1/query.js) *)

Module QueryDenomsMetadataRequest.

Record t := mk {
  pagination : option PageRequest.t;
}.

#[global] Instance t_eta : Settable t := λ m, mk m.(pagination).

Definition base : t := mk None.

Definition encode {PB : Protobuf} (message : t) (writer : Writer) : result Writer :=
  Ok writer
  @>= defined_e message.(pagination) (submessage 10 PageRequest.encode).

Definition decode_field {PB : Protobuf} (tag : Z) (message : t) : RM t :=
  match field_number tag with
  | 1 => v ← read_nested PageRequest.decode; mret (message <| pagination := Some v |>)
  | _ => _ ← skipType (wire_type tag); mret message
  end.

Definition decode {PB : Protobuf} (length : option Z) : RM t :=
  decode_message length base decode_field.

Definition fromJSON (object : js) : result t :=
  pagination' ← field_or object "pagination" (to_some PageRequest.fromJSON) None;
  Ok (mk pagination').

Definition toJSON (message : t) : js :=
  Obj (prop_opt "pagination" PageRequest.toJSON message.(pagination)).

Record partial := mkPartial {
  p_pagination : option PageRequest.partial;
}.

Definition fromPartial (object : partial) : t := {|
  pagination := PageRequest.fromPartial <$> object.(p_pagination);
|}.

(** The object with no property given. *)
Definition nothing : partial := mkPartial None.

(** The bytes [encode] writes. *)
Definition wire {PB : Protobuf} {PS : ProtobufSpec PB} (m : t) : bytes :=
  f_message 10 PageRequest.wire m.(pagination).

Definition valid (m : t) : Prop :=
  from_option PageRequest.valid True m.(pagination).

(** The byte fields hold arrays, as the interface declares. *)
Definition typed (m : t) : bool := from_option PageRequest.typed true m.(pagination).

(** The message without its empty byte arrays. *)
Definition normal (m : t) : t := {|
  pagination := PageRequest.normal <$> m.(pagination);
|}.

Definition encodable {PB : Protobuf} {PS : ProtobufSpec PB} (m : t) : Prop :=
  typed m = true ∧ valid m ∧ small (wire m).

Definition merge (m a : t) : t := {|
  pagination := later_message m.(pagination) (PageRequest.normal <$> a.(pagination));
|}.

(** A whole message seen as a partial one. *)
Definition full (m : t) : partial := {|
  p_pagination := PageRequest.full <$> m.(pagination);
|}.

(** The message as its schema declares it. *)
Definition schema (m : t) : list field :=
  [singular 1 Optional (message_value PageRequest.schema) m.(pagination)].

(** The message with its default for every property that is not kept. *)
Definition only (kept : string → bool) (m : t) : t := {|
  pagination := if kept "pagination" then m.(pagination) else None;
|}.

#[global] Instance codec {PB : Protobuf} : FallibleCodec t :=
  {| fmsg_base := base; fmsg_encode := encode; fmsg_field := decode_field |}.

#[global] Program Instance spec {PB : Protobuf} (PS : ProtobufSpec PB) : FallibleSpec PS t :=
  {| fmsg_wire := wire; fmsg_valid := valid; fmsg_typed := typed; fmsg_normal := normal;
     fmsg_merge := merge |}.
Next Obligation. solve_fencode_wire. Qed.
Next Obligation. intros. solve_fencode_throws encode typed. Qed.
Next Obligation. solve_fdecode_wire. Qed.
Next Obligation. solve_fmerge_base. Qed.
Next Obligation. intros. solve_fadvances decode_field. Qed.

#[global] Program Instance given_ : FalliblePartial t partial :=
  {| fmsg_fromPartial := fromPartial; fmsg_full := full; fmsg_given := typed |}.
Next Obligation. solve_fgiven fromPartial typed. Qed.
Next Obligation. solve_fpartial fromPartial full typed. Qed.

#[global] Program Instance json : FallibleJson t :=
  {| fmsg_fromJSON := fromJSON; fmsg_toJSON := toJSON;
     fmsg_named := fun _ => true; fmsg_known := fun m => m |}.
Next Obligation. solve_fjson fromJSON toJSON. Qed.
Next Obligation. reflexivity. Qed.

#[global] Instance schema_wire {PB : Protobuf} {PS : ProtobufSpec PB} : WireSchema wire schema.
Proof. solve_schema_wire wire schema. Qed.

#[global] Instance schema_normal : NormalSchema normal schema.
Proof. solve_schema_normal normal schema. Qed.

#[global] Instance schema_merge : MergeSchema merge schema.
Proof. solve_schema_merge merge schema. Qed.

(** Its row in the table of message types. *)
Definition message {PB : Protobuf} {PS : ProtobufSpec PB} : message_type :=
  fallible_message "QueryDenomsMetadataRequest" nothing true schema only.

#[global] Instance message_lawful {PB : Protobuf} (PS : ProtobufSpec PB) : Lawful message.
Proof. solve_lawful decode_field fromJSON only. Qed.

End QueryDenomsMetadataRequest.

(** ** [QueryDenomsMetadataResponse] (cosmos/bank/v1beta1/query.js) *)

Module QueryDenomsMetadataResponse.

Record t := mk {
  metadatas : list Metadata.t;
  pagination : option PageResponse.t;
}.

#[global] Instance t_eta : Settable t := λ m, mk m.(metadatas) m.(pagination).

Definition base : t := mk [] None.

Definition encode {PB : Protobuf} (message : t) (writer : Writer) : result Writer :=
  Ok writer
  @>= pure (each message.(metadatas) (fun v w => w @> uint32 10 @> fork @> Metadata.encode v @> ldelim))
  @>= defined_e message.(pagination) (submessage 18 PageResponse.encode).

Definition decode_field {PB : Protobuf} (tag : Z) (message : t) : RM t :=
  match field_number tag with
  | 1 => v ← read_nested Metadata.decode;
         mret (message <| metadatas := message.(metadatas) ++ [v] |>)
  | 2 => v ← read_nested PageResponse.decode; mret (message <| pagination := Some v |>)
  | _ => _ ← skipType (wire_type tag); mret message
  end.

Definition decode {PB : Protobuf} (length : option Z) : RM t :=
  decode_message length base decode_field.

Definition fromJSON (object : js) : result t :=
  metadatas' ← field_or object "metadatas" (to_list Metadata.fromJSON) [];
  pagination' ← field_or object "pagination" (to_some PageResponse.fromJSON) None;
  Ok (mk metadatas' pagination').

Definition toJSON (message : t) : js :=
  Obj ([("metadatas", Arr (map Metadata.toJSON message.(metadatas)))] ++
   prop_opt "pagination" PageResponse.toJSON message.(pagination)).

Record partial := mkPartial {
  p_metadatas : option (list Metadata.partial);
  p_pagination : option PageResponse.partial;
}.

Definition fromPartial (object : partial) : t := {|
  metadatas := map Metadata.fromPartial (object.(p_metadatas) ?? []);
  pagination := PageResponse.fromPartial <$> object.(p_pagination);
|}.

(** The object with no property given. *)
Definition nothing : partial := mkPartial None None.

(** The bytes [encode] writes. *)
Definition wire {PB : Protobuf} {PS : ProtobufSpec PB} (m : t) : bytes :=
  f_repeated 10 Metadata.wire m.(metadatas) ++
  f_message 18 PageResponse.wire m.(pagination).

Definition valid (m : t) : Prop :=
  Forall Metadata.valid m.(metadatas) ∧ from_option PageResponse.valid True m.(pagination).

(** The byte fields hold arrays, as the interface declares. *)
Definition typed (m : t) : bool := from_option PageResponse.typed true m.(pagination).

(** The message without its empty byte arrays. *)
Definition normal (m : t) : t := {|
  metadatas := m.(metadatas);
  pagination := PageResponse.normal <$> m.(pagination);
|}.

Definition encodable {PB : Protobuf} {PS : ProtobufSpec PB} (m : t) : Prop :=
  typed m = true ∧ valid m ∧ small (wire m).

Definition merge (m a : t) : t := {|
  metadatas := m.(metadatas) ++ a.(metadatas);
  pagination := later_message m.(pagination) (PageResponse.normal <$> a.(pagination));
|}.

(** A whole message seen as a partial one. *)
Definition full (m : t) : partial := {|
  p_metadatas := Some (map Metadata.full m.(metadatas));
  p_pagination := PageResponse.full <$> m.(pagination);
|}.

(** The message as its schema declares it. *)
Definition schema (m : t) : list field :=
  [repeated 1 (message_value Metadata.schema) m.(metadatas);
   singular 2 Optional (message_value PageResponse.schema) m.(pagination)].

(** The message with its default for every property that is not kept. *)
Definition only (kept : string → bool) (m : t) : t := {|
  metadatas := if kept "metadatas" then m.(metadatas) else [];
  pagination := if kept "pagination" then m.(pagination) else None;
|}.

#[global] Instance codec {PB : Protobuf} : FallibleCodec t :=
  {| fmsg_base := base; fmsg_encode := encode; fmsg_field := decode_field |}.

#[global] Program Instance spec {PB : Protobuf} (PS : ProtobufSpec PB) : FallibleSpec PS t :=
  {| fmsg_wire := wire; fmsg_valid := valid; fmsg_typed := typed; fmsg_normal := normal;
     fmsg_merge := merge |}.
Next Obligation. solve_fencode_wire. Qed.
Next Obligation. intros. solve_fencode_throws encode typed. Qed.
Next Obligation. solve_fdecode_wire. Qed.
Next Obligation. solve_fmerge_base. Qed.
Next Obligation. intros. solve_fadvances decode_field. Qed.

#[global] Program Instance given_ : FalliblePartial t partial :=
  {| fmsg_fromPartial := fromPartial; fmsg_full := full; fmsg_given := typed |}.
Next Obligation. solve_fgiven fromPartial typed. Qed.
Next Obligation. solve_fpartial fromPartial full typed. Qed.

#[global] Program Instance json : FallibleJson t :=
  {| fmsg_fromJSON := fromJSON; fmsg_toJSON := toJSON;
     fmsg_named := fun _ => true; fmsg_known := fun m => m |}.
Next Obligation. solve_fjson fromJSON toJSON. Qed.
Next Obligation. reflexivity. Qed.

#[global] Instance schema_wire {PB : Protobuf} {PS : ProtobufSpec PB} : WireSchema wire schema.
Proof. solve_schema_wire wire schema. Qed.

#[global] Instance schema_normal : NormalSchema normal schema.
Proof. solve_schema_normal normal schema. Qed.

#[global] Instance schema_merge : MergeSchema merge schema.
Proof. solve_schema_merge merge schema. Qed.

(** Its row in the table of message types. *)
Definition message {PB : Protobuf} {PS : ProtobufSpec PB} : message_type :=
  fallible_message "QueryDenomsMetadataResponse" nothing true schema only.

#[global] Instance message_lawful {PB : Protobuf} (PS : ProtobufSpec PB) : Lawful message.
Proof. solve_lawful decode_field fromJSON only. Qed.

End QueryDenomsMetadataResponse.

(** ** [QueryDenomMetadataRequest] (cosmos/bank/v1beta1/query.js) *)

Module QueryDenomMetadataRequest.

Record t := mk {
  denom : string;
}.

#[global] Instance t_eta : Settable t := λ m, mk m.(denom).

Definition base : t := mk "".

Definition encode {PB : Protobuf} (message : t) (writer : Writer) : Writer :=
  writer
  @> when (str_neq message.(denom) "") (fun w => w @> uint32 10 @> string_ message.(denom)).

Definition decode_field {PB : Protobuf} (tag : Z) (message : t) : RM t :=
  match field_number tag with
  | 1 => v ← read_string; mret (message <| denom := v |>)
  | _ => _ ← skipType (wire_type tag); mret message
  end.

Definition decode {PB : Protobuf} (length : option Z) : RM t :=
  decode_message length base decode_field.

Definition fromJSON (object : js) : result t :=
  denom' ← field_or object "denom" to_string "";
  Ok (mk denom').

Definition toJSON (message : t) : js :=
  Obj ([("denom", Str message.(denom))]).

Record partial := mkPartial {
  p_denom : option string;
}.

Definition fromPartial (object : partial) : t := {|
  denom := object.(p_denom) ?? "";
|}.

(** The object with no property given. *)
Definition nothing : partial := mkPartial None.

(** The bytes [encode] writes. *)
Definition wire {PB : Protobuf} {PS : ProtobufSpec PB} (m : t) : bytes :=
  f_string 10 m.(denom).

Definition valid (m : t) : Prop :=
  True.

Definition encodable {PB : Protobuf} {PS : ProtobufSpec PB} (m : t) : Prop :=
  valid m ∧ small (wire m).

Definition merge (m a : t) : t := {|
  denom := later_string m.(denom) a.(denom);
|}.

(** A whole message seen as a partial one. *)
Definition full (m : t) : partial := {|
  p_denom := Some m.(denom);
|}.

(** The message as its schema declares it. *)
Definition schema (m : t) : list field :=
  [implicit 1 (VString m.(denom))].

(** The message with its default for every property that is not kept. *)
Definition only (kept : string → bool) (m : t) : t := {|
  denom := if kept "denom" then m.(denom) else "";
|}.

#[global] Instance codec {PB : Protobuf} : MessageCodec t :=
  {| msg_base := base; msg_encode := encode; msg_field := decode_field |}.

#[global] Program Instance spec {PB : Protobuf} (PS : ProtobufSpec PB) : MessageSpec PS t :=
  {| msg_wire := wire; msg_valid := valid; msg_merge := merge |}.
Next Obligation. solve_encode_wire. Qed.
Next Obligation. solve_decode_wire. Qed.
Next Obligation. solve_merge_base. Qed.
Next Obligation. intros. solve_advances decode_field. Qed.

#[global] Program Instance data : MessageData t partial :=
  {| msg_fromJSON := fromJSON; msg_toJSON := toJSON;
     msg_fromPartial := fromPartial; msg_full := full |}.
Next Obligation. solve_json fromJSON toJSON. Qed.
Next Obligation. solve_partial fromPartial full. Qed.

#[global] Instance schema_wire {PB : Protobuf} {PS : ProtobufSpec PB} : WireSchema wire schema.
Proof. solve_schema_wire wire schema. Qed.

#[global] Instance schema_merge : MergeSchema merge schema.
Proof. solve_schema_merge merge schema. Qed.

(** Its row in the table of message types. *)
Definition message {PB : Protobuf} {PS : ProtobufSpec PB} : message_type :=
  plain_message "QueryDenomMetadataRequest" nothing true schema only.

#[global] Instance message_lawful {PB : Protobuf} (PS : ProtobufSpec PB) : Lawful message.
Proof. solve_lawful decode_field fromJSON only. Qed.

End QueryDenomMetadataRequest.

(** ** [QueryDenomMetadataResponse] (cosmos/bank/v1beta1/query.js) *)

Module QueryDenomMetadataResponse.

Record t := mk {
  metadata : option Metadata.t;
}.

#[global] Instance t_eta : Settable t := λ m, mk m.(metadata).

Definition base : t := mk None.

Definition encode {PB : Protobuf} (message : t) (writer : Writer) : Writer :=
  writer
  @> defined message.(metadata) (fun v w => w @> uint32 10 @> fork @> Metadata.encode v @> ldelim).

Definition decode_field {PB : Protobuf} (tag : Z) (message : t) : RM t :=
  match field_number tag with
  | 1 => v ← read_nested Metadata.decode; mret (message <| metadata := Some v |>)
  | _ => _ ← skipType (wire_type tag); mret message
  end.

Definition decode {PB : Protobuf} (length : option Z) : RM t :=
  decode_message length base decode_field.

Definition fromJSON (object : js) : result t :=
  metadata' ← field_or object "metadata" (to_some Metadata.fromJSON) None;
  Ok (mk metadata').

Definition toJSON (message : t) : js :=
  Obj (prop_opt "metadata" Metadata.toJSON message.(metadata)).

Record partial := mkPartial {
  p_metadata : option Metadata.partial;
}.

Definition fromPartial (object : partial) : t := {|
  metadata := Metadata.fromPartial <$> object.(p_metadata);
|}.

(** The object with no property given. *)
Definition nothing : partial := mkPartial None.

(** The bytes [encode] writes. *)
Definition wire {PB : Protobuf} {PS : ProtobufSpec PB} (m : t) : bytes :=
  f_message 10 Metadata.wire m.(metadata).

Definition valid (m : t) : Prop :=
  from_option Metadata.valid True m.(metadata).

Definition encodable {PB : Protobuf} {PS : ProtobufSpec PB} (m : t) : Prop :=
  valid m ∧ small (wire m).

Definition merge (m a : t) : t := {|
  metadata := later_message m.(metadata) a.(metadata);
|}.

(** A whole message seen as a partial one. *)
Definition full (m : t) : partial := {|
  p_metadata := Metadata.full <$> m.(metadata);
|}.

(** The message as its schema declares it. *)
Definition schema (m : t) : list field :=
  [singular 1 Optional (message_value Metadata.schema) m.(metadata)].

(** The message with its default for every property that is not kept. *)
Definition only (kept : string → bool) (m : t) : t := {|
  metadata := if kept "metadata" then m.(metadata) else None;
|}.

#[global] Instance codec {PB : Protobuf} : MessageCodec t :=
  {| msg_base := base; msg_encode := encode; msg_field := decode_field |}.

#[global] Program Instance spec {PB : Protobuf} (PS : ProtobufSpec PB) : MessageSpec PS t :=
  {| msg_wire := wire; msg_valid := valid; msg_merge := merge |}.
Next Obligation. solve_encode_wire. Qed.
Next Obligation. solve_decode_wire. Qed.
Next Obligation. solve_merge_base. Qed.
Next Obligation. intros. solve_advances decode_field. Qed.

#[global] Program Instance data : MessageData t partial :=
  {| msg_fromJSON := fromJSON; msg_toJSON := toJSON;
     msg_fromPartial := fromPartial; msg_full := full |}.
Next Obligation. solve_json fromJSON toJSON. Qed.
Next Obligation. solve_partial fromPartial full. Qed.

#[global] Instance schema_wire {PB : Protobuf} {PS : ProtobufSpec PB} : WireSchema wire schema.
Proof. solve_schema_wire wire schema. Qed.

#[global] Instance schema_merge : MergeSchema merge schema.
Proof. solve_schema_merge merge schema. Qed.

(** Its row in the table of message types. *)
Definition message {PB : Protobuf} {PS : ProtobufSpec PB} : message_type :=
  plain_message "QueryDenomMetadataResponse" nothing true schema only.

#[global] Instance message_lawful {PB : Protobuf} (PS : ProtobufSpec PB) : Lawful message.
Proof. solve_lawful decode_field fromJSON only. Qed.

End QueryDenomMetadataResponse.


(** ** [MsgClientImpl]

    [rpc] is the transport the class is constructed with: [rpc service method data]
    is what the promise of [this.rpc.request] settles to. *)
Module MsgClientImpl.
Section client.
Context {PB : Protobuf} (rpc : string → string → bytes → result bytes).

Definition Send (request : MsgSend.t) : result MsgSendResponse.t :=
  data ← rpc "cosmos.bank.v1beta1.Msg" "Send"
    (finish (MsgSend.encode request create));
  decode_bytes MsgSendResponse.decode data.

Definition MultiSend (request : MsgMultiSend.t) : result MsgMultiSendResponse.t :=
  data ← rpc "cosmos.bank.v1beta1.Msg" "MultiSend"
    (finish (MsgMultiSend.encode request create));
  decode_bytes MsgMultiSendResponse.decode data.

End client.
End MsgClientImpl.


(** ** [QueryClientImpl]

    [rpc] is the transport the class is constructed with: [rpc service method data]
    is what the promise of [this.rpc.request] settles to. *)
Module QueryClientImpl.
Section client.
Context {PB : Protobuf} (rpc : string → string → bytes → result bytes).

Definition Balance (request : QueryBalanceRequest.t) : result QueryBalanceResponse.t :=
  data ← rpc "cosmos.bank.v1beta1.Query" "Balance"
    (finish (QueryBalanceRequest.encode request create));
  decode_bytes QueryBalanceResponse.decode data.

Definition AllBalances (request : QueryAllBalancesRequest.t) : result QueryAllBalancesResponse.t :=
  w ← QueryAllBalancesRequest.encode request create;
  data ← rpc "cosmos.bank.v1beta1.Query" "AllBalances" (finish w);
  decode_bytes QueryAllBalancesResponse.decode data.

Definition TotalSupply (request : QueryTotalSupplyRequest.t) : result QueryTotalSupplyResponse.t :=
  w ← QueryTotalSupplyRequest.encode request create;
  data ← rpc "cosmos.bank.v1beta1.Query" "TotalSupply" (finish w);
  decode_bytes QueryTotalSupplyResponse.decode data.

Definition SupplyOf (request : QuerySupplyOfRequest.t) : result QuerySupplyOfResponse.t :=
  data ← rpc "cosmos.bank.v1beta1.Query" "SupplyOf"
    (finish (QuerySupplyOfRequest.encode request create));
  decode_bytes QuerySupplyOfResponse.decode data.

Definition Params (request : QueryParamsRequest.t) : result QueryParamsResponse.t :=
  data ← rpc "cosmos.bank.v1beta1.Query" "Params"
    (finish (QueryParamsRequest.encode request create));
  decode_bytes QueryParamsResponse.decode data.

Definition DenomMetadata (request : QueryDenomMetadataRequest.t)
    : result QueryDenomMetadataResponse.t :=
  data ← rpc "cosmos.bank.v1beta1.Query" "DenomMetadata"
    (finish (QueryDenomMetadataRequest.encode request create));
  decode_bytes QueryDenomMetadataResponse.decode data.

Definition DenomsMetadata (request : QueryDenomsMetadataRequest.t)
    : result QueryDenomsMetadataResponse.t :=
  w ← QueryDenomsMetadataRequest.encode request create;
  data ← rpc "cosmos.bank.v1beta1.Query" "DenomsMetadata" (finish w);
  decode_bytes QueryDenomsMetadataResponse.decode data.

End client.
End QueryClientImpl.

(** ** The message types of this file *)

Definition messages {PB : Protobuf} {PS : ProtobufSpec PB} : list message_type :=
  [ SendEnabled.message; Params.message; Input.message; Output.message; Supply.message;
   DenomUnit.message; Metadata.message; Balance.message; GenesisState.message;
   SendAuthorization.message; MsgSend.message; MsgSendResponse.message; MsgMultiSend.message;
   MsgMultiSendResponse.message; QueryBalanceRequest.message; QueryBalanceResponse.message;
   QueryAllBalancesRequest.message; QueryAllBalancesResponse.message;
   QueryTotalSupplyRequest.message; QueryTotalSupplyResponse.message;
   QuerySupplyOfRequest.message; QuerySupplyOfResponse.message; QueryParamsRequest.message;
   QueryParamsResponse.message; QueryDenomsMetadataRequest.message;
   QueryDenomsMetadataResponse.message; QueryDenomMetadataRequest.message;
   QueryDenomMetadataResponse.message].

Lemma BankTypes_lawful {PB : Protobuf} {PS : ProtobufSpec PB} : Forall Lawful messages.
Proof. solve_table. Qed.

(** The methods of [MsgClientImpl]. *)
Definition msg_methods {PB : Protobuf} {PS : ProtobufSpec PB} : list rpc_method :=
  [mkMethod "cosmos.bank.v1beta1.Msg" "Send"
     MsgSend.message MsgSendResponse.message
     (fun rpc => MsgClientImpl.Send rpc);
   mkMethod "cosmos.bank.v1beta1.Msg" "MultiSend"
     MsgMultiSend.message MsgMultiSendResponse.message
     (fun rpc => MsgClientImpl.MultiSend rpc)].

Lemma BankTypes_msg_methods_lawful {PB : Protobuf} {PS : ProtobufSpec PB} : Forall method_lawful msg_methods.
Proof. solve_methods. Qed.

(** The methods of [QueryClientImpl]. *)
Definition query_methods {PB : Protobuf} {PS : ProtobufSpec PB} : list rpc_method :=
  [mkMethod "cosmos.bank.v1beta1.Query" "Balance"
     QueryBalanceRequest.message QueryBalanceResponse.message
     (fun rpc => QueryClientImpl.Balance rpc);
   mkMethod "cosmos.bank.v1beta1.Query" "AllBalances"
     QueryAllBalancesRequest.message QueryAllBalancesResponse.message
     (fun rpc => QueryClientImpl.AllBalances rpc);
   mkMethod "cosmos.bank.v1beta1.Query" "TotalSupply"
     QueryTotalSupplyRequest.message QueryTotalSupplyResponse.message
     (fun rpc => QueryClientImpl.TotalSupply rpc);
   mkMethod "cosmos.bank.v1beta1.Query" "SupplyOf"
     QuerySupplyOfRequest.message QuerySupplyOfResponse.message
     (fun rpc => QueryClientImpl.SupplyOf rpc);
   mkMethod "cosmos.bank.v1beta1.Query" "Params"
     QueryParamsRequest.message QueryParamsResponse.message
     (fun rpc => QueryClientImpl.Params rpc);
   mkMethod "cosmos.bank.v1beta1.Query" "DenomMetadata"
     QueryDenomMetadataRequest.message QueryDenomMetadataResponse.message
     (fun rpc => QueryClientImpl.DenomMetadata rpc);
   mkMethod "cosmos.bank.v1beta1.Query" "DenomsMetadata"
     QueryDenomsMetadataRequest.message QueryDenomsMetadataResponse.message
     (fun rpc => QueryClientImpl.DenomsMetadata rpc)].

Lemma BankTypes_query_methods_lawful {PB : Protobuf} {PS : ProtobufSpec PB} : Forall method_lawful query_methods.
Proof. solve_methods. Qed.
