(* ===== verification/CrisisTypes.v ===== *)
(** * The messages of the crisis module of the Cosmos SDK

    The verification of invariants: the codecs of
    [cosmos.crisis.v1beta1/module/types/cosmos/crisis/v1beta1/*.js], with the RPC
    clients of tx.js and query.js. *)
From S2P Require Import Prelude Js Protobuf Codec Calendar Dates Base64 Fallible Proto3 MessageTable CosmosBase.
Open Scope Z_scope.

(** ** [GenesisState] (cosmos/crisis/v1beta1/genesis.js) *)

Module GenesisState.

Record t := mk {
  constantFee : option Coin.t;
}.

#[global] Instance t_eta : Settable t := λ m, mk m.(constantFee).

Definition base : t := mk None.

Definition encode {PB : Protobuf} (message : t) (writer : Writer) : Writer :=
  writer
  @> defined message.(constantFee) (fun v w => w @> uint32 26 @> fork @> Coin.encode v @> ldelim).

Definition decode_field {PB : Protobuf} (tag : Z) (message : t) : RM t :=
  match field_number tag with
  | 3 => v ← read_nested Coin.decode; mret (message <| constantFee := Some v |>)
  | _ => _ ← skipType (wire_type tag); mret message
  end.

Definition decode {PB : Protobuf} (length : option Z) : RM t :=
  decode_message length base decode_field.

Definition fromJSON (object : js) : result t :=
  constantFee' ← field_or object "constantFee" (to_some Coin.fromJSON) None;
  Ok (mk constantFee').

Definition toJSON (message : t) : js :=
  Obj (prop_opt "constantFee" Coin.toJSON message.(constantFee)).

Record partial := mkPartial {
  p_constantFee : option Coin.partial;
}.

Definition fromPartial (object : partial) : t := {|
  constantFee := Coin.fromPartial <$> object.(p_constantFee);
|}.

(** The object with no property given. *)
Definition nothing : partial := mkPartial None.

(** The bytes [encode] writes. *)
Definition wire {PB : Protobuf} {PS : ProtobufSpec PB} (m : t) : bytes :=
  f_message 26 Coin.wire m.(constantFee).

Definition valid (m : t) : Prop :=
  from_option Coin.valid True m.(constantFee).

Definition encodable {PB : Protobuf} {PS : ProtobufSpec PB} (m : t) : Prop :=
  valid m ∧ small (wire m).

Definition merge (m a : t) : t := {|
  constantFee := later_message m.(constantFee) a.(constantFee);
|}.

(** A whole message seen as a partial one. *)
Definition full (m : t) : partial := {|
  p_constantFee := Coin.full <$> m.(constantFee);
|}.

(** The message as its schema declares it. *)
Definition schema (m : t) : list field :=
  [singular 3 Optional (message_value Coin.schema) m.(constantFee)].

(** The message with its default for every property that is not kept. *)
Definition only (kept : string → bool) (m : t) : t := {|
  constantFee := if kept "constantFee" then m.(constantFee) else None;
|}.

#[global] Instance codec {PB : Protobuf} : MessageCodec t :=
  {| msg_base := base; msg_encode := encode; msg_field := decode_field |}.

#[global] Program Instance spec {PB : Protobuf} (PS : ProtobufSpec PB) : MessageSpec PS t :=
  {| msg_wire := wire; msg_valid := valid; msg_merge := merge |}.
Next Obligation. solve_encode_wire. Qed.
Next Obligation. solve_decode_wire. Qed.
Next Obligation. solve_merge_base. Qed.
Next Obligation. intros. solve_advances decode_field. Qed.

#[global] Program Instance data : MessageData t partial :=
  {| msg_fromJSON := fromJSON; msg_toJSON := toJSON;
     msg_fromPartial := fromPartial; msg_full := full |}.
Next Obligation. solve_json fromJSON toJSON. Qed.
Next Obligation. solve_partial fromPartial full. Qed.

#[global] Instance schema_wire {PB : Protobuf} {PS : ProtobufSpec PB} : WireSchema wire schema.
Proof. solve_schema_wire wire schema. Qed.

#[global] Instance schema_merge : MergeSchema merge schema.
Proof. solve_schema_merge merge schema. Qed.

(** Its row in the table of message types. *)
Definition message {PB : Protobuf} {PS : ProtobufSpec PB} : message_type :=
  plain_message "GenesisState" nothing true schema only.

#[global] Instance message_lawful {PB : Protobuf} (PS : ProtobufSpec PB) : Lawful message.
Proof. solve_lawful decode_field fromJSON only. Qed.

End GenesisState.

(** ** [MsgVerifyInvariant] (cosmos/crisis/v1beta1/tx.js) *)

Module MsgVerifyInvariant.

Record t := mk {
  sender : string;
  invariantModuleName : string;
  invariantRoute : string;
}.

#[global] Instance t_eta : Settable t := λ m, mk m.(sender) m.(invariantModuleName)
  m.(invariantRoute).

Definition base : t := mk "" "" "".

Definition encode {PB : Protobuf} (message : t) (writer : Writer) : Writer :=
  writer
  @> when (str_neq message.(sender) "") (fun w => w @> uint32 10 @> string_ message.(sender))
  @> when (str_neq message.(invariantModuleName) "")
       (fun w => w @> uint32 18 @> string_ message.(invariantModuleName))
  @> when (str_neq message.(invariantRoute) "")
       (fun w => w @> uint32 26 @> string_ message.(invariantRoute)).

Definition decode_field {PB : Protobuf} (tag : Z) (message : t) : RM t :=
  match field_number tag with
  | 1 => v ← read_string; mret (message <| sender := v |>)
  | 2 => v ← read_string; mret (message <| invariantModuleName := v |>)
  | 3 => v ← read_string; mret (message <| invariantRoute := v |>)
  | _ => _ ← skipType (wire_type tag); mret message
  end.

Definition decode {PB : Protobuf} (length : option Z) : RM t :=
  decode_message length base decode_field.

Definition fromJSON (object : js) : result t :=
  sender' ← field_or object "sender" to_string "";
  invariantModuleName' ← field_or object "invariantModuleName" to_string "";
  invariantRoute' ← field_or object "invariantRoute" to_string "";
  Ok (mk sender' invariantModuleName' invariantRoute').

Definition toJSON (message : t) : js :=
  Obj ([("sender", Str message.(sender));
    ("invariantModuleName", Str message.(invariantModuleName));
    ("invariantRoute", Str message.(invariantRoute))]).

Record partial := mkPartial {
  p_sender : option string;
  p_invariantModuleName : option string;
  p_invariantRoute : option string;
}.

Definition fromPartial (object : partial) : t := {|
  sender := object.(p_sender) ?? "";
  invariantModuleName := object.(p_invariantModuleName) ?? "";
  invariantRoute := object.(p_invariantRoute) ?? "";
|}.

(** The object with no property given. *)
Definition nothing : partial := mkPartial None None None.

(** The bytes [encode] writes. *)
Definition wire {PB : Protobuf} {PS : ProtobufSpec PB} (m : t) : bytes :=
  f_string 10 m.(sender) ++
  f_string 18 m.(invariantModuleName) ++
  f_string 26 m.(invariantRoute).

Definition valid (m : t) : Prop :=
  True.

Definition encodable {PB : Protobuf} {PS : ProtobufSpec PB} (m : t) : Prop :=
  valid m ∧ small (wire m).

Definition merge (m a : t) : t := {|
  sender := later_string m.(sender) a.(sender);
  invariantModuleName := later_string m.(invariantModuleName) a.(invariantModuleName);
  invariantRoute := later_string m.(invariantRoute) a.(invariantRoute);
|}.

(** A whole message seen as a partial one. *)
Definition full (m : t) : partial := {|
  p_sender := Some m.(sender);
  p_invariantModuleName := Some m.(invariantModuleName);
  p_invariantRoute := Some m.(invariantRoute);
|}.

(** The message as its schema declares it. *)
Definition schema (m : t) : list field :=
  [implicit 1 (VString m.(sender));
   implicit 2 (VString m.(invariantModuleName));
   implicit 3 (VString m.(invariantRoute))].

(** The message with its default for every property that is not kept. *)
Definition only (kept : string → bool) (m : t) : t := {|
  sender := if kept "sender" then m.(sender) else "";
  invariantModuleName := if kept "invariantModuleName" then m.(invariantModuleName) else "";
  invariantRoute := if kept "invariantRoute" then m.(invariantRoute) else "";
|}.

#[global] Instance codec {PB : Protobuf} : MessageCodec t :=
  {| msg_base := base; msg_encode := encode; msg_field := decode_field |}.

#[global] Program Instance spec {PB : Protobuf} (PS : ProtobufSpec PB) : MessageSpec PS t :=
  {| msg_wire := wire; msg_valid := valid; msg_merge := merge |}.
Next Obligation. solve_encode_wire. Qed.
Next Obligation. solve_decode_wire. Qed.
Next Obligation. solve_merge_base. Qed.
Next Obligation. intros. solve_advances decode_field. Qed.

#[global] Program Instance data : MessageData t partial :=
  {| msg_fromJSON := fromJSON; msg_toJSON := toJSON;
     msg_fromPartial := fromPartial; msg_full := full |}.
Next Obligation. solve_json fromJSON toJSON. Qed.
Next Obligation. solve_partial fromPartial full. Qed.

#[global] Instance schema_wire {PB : Protobuf} {PS : ProtobufSpec PB} : WireSchema wire schema.
Proof. solve_schema_wire wire schema. Qed.

#[global] Instance schema_merge : MergeSchema merge schema.
Proof. solve_schema_merge merge schema. Qed.

(** Its row in the table of message types. *)
Definition message {PB : Protobuf} {PS : ProtobufSpec PB} : message_type :=
  plain_message "MsgVerifyInvariant" nothing true schema only.

#[global] Instance message_lawful {PB : Protobuf} (PS : ProtobufSpec PB) : Lawful message.
Proof. solve_lawful decode_field fromJSON only. Qed.

End MsgVerifyInvariant.

(** ** [MsgVerifyInvariantResponse] (cosmos/crisis/v1beta1/tx.js) *)

Module MsgVerifyInvariantResponse.

Record t := mk {}.

#[global] Instance t_eta : Settable t := λ m, m.

Definition base : t := mk.

Definition encode {PB : Protobuf} (message : t) (writer : Writer) : Writer :=
  writer.

Definition decode_field {PB : Protobuf} (tag : Z) (message : t) : RM t :=
  match field_number tag with
  | _ => _ ← skipType (wire_type tag); mret message
  end.

Definition decode {PB : Protobuf} (length : option Z) : RM t :=
  decode_message length base decode_field.

Definition fromJSON (object : js) : result t :=
  Ok base.

Definition toJSON (message : t) : js :=
  Obj [].

Record partial := mkPartial {}.

Definition fromPartial (object : partial) : t := base.

(** The object with no property given. *)
Definition nothing : partial := mkPartial.

(** The bytes [encode] writes. *)
Definition wire {PB : Protobuf} {PS : ProtobufSpec PB} (m : t) : bytes :=
  [].

Definition valid (m : t) : Prop :=
  True.

Definition encodable {PB : Protobuf} {PS : ProtobufSpec PB} (m : t) : Prop :=
  valid m ∧ small (wire m).

Definition merge (m a : t) : t := m.

(** A whole message seen as a partial one. *)
Definition full (m : t) : partial := mkPartial.

(** The message as its schema declares it. *)
Definition schema (m : t) : list field :=
  [].

(** The message with its default for every property that is not kept. *)
Definition only (kept : string → bool) (m : t) : t := m.

#[global] Instance codec {PB : Protobuf} : MessageCodec t :=
  {| msg_base := base; msg_encode := encode; msg_field := decode_field |}.

#[global] Program Instance spec {PB : Protobuf} (PS : ProtobufSpec PB) : MessageSpec PS t :=
  {| msg_wire := wire; msg_valid := valid; msg_merge := merge |}.
Next Obligation. solve_encode_wire. Qed.
Next Obligation. solve_decode_wire. Qed.
Next Obligation. solve_merge_base. Qed.
Next Obligation. intros. solve_advances decode_field. Qed.

#[global] Program Instance data : MessageData t partial :=
  {| msg_fromJSON := fromJSON; msg_toJSON := toJSON;
     msg_fromPartial := fromPartial; msg_full := full |}.
Next Obligation. solve_json fromJSON toJSON. Qed.
Next Obligation. solve_partial fromPartial full. Qed.

#[global] Instance schema_wire {PB : Protobuf} {PS : ProtobufSpec PB} : WireSchema wire schema.
Proof. solve_schema_wire wire schema. Qed.

#[global] Instance schema_merge : MergeSchema merge schema.
Proof. solve_schema_merge merge schema. Qed.

(** Its row in the table of message types. *)
Definition message {PB : Protobuf} {PS : ProtobufSpec PB} : message_type :=
  plain_message "MsgVerifyInvariantResponse" nothing false schema only.

#[global] Instance message_lawful {PB : Protobuf} (PS : ProtobufSpec PB) : Lawful message.
Proof. solve_lawful decode_field fromJSON only. Qed.

End MsgVerifyInvariantResponse.


(** ** [MsgClientImpl]

    [rpc] is the transport the class is constructed with: [rpc service method data]
    is what the promise of [this.rpc.request] settles to. *)
Module MsgClientImpl.
Section client.
Context {PB : Protobuf} (rpc : string → string → bytes → result bytes).

Definition VerifyInvariant (request : MsgVerifyInvariant.t) : result MsgVerifyInvariantResponse.t :=
  data ← rpc "cosmos.crisis.v1beta1.Msg" "VerifyInvariant"
    (finish (MsgVerifyInvariant.encode request create));
  decode_bytes MsgVerifyInvariantResponse.decode data.

End client.
End MsgClientImpl.

(** ** The message types of this file *)

Definition messages {PB : Protobuf} {PS : ProtobufSpec PB} : list message_type :=
  [ GenesisState.message; MsgVerifyInvariant.message; MsgVerifyInvariantResponse.message].

Lemma CrisisTypes_lawful {PB : Protobuf} {PS : ProtobufSpec PB} : Forall Lawful messages.
Proof. solve_table. Qed.

(** The methods of [MsgClientImpl]. *)
Definition msg_methods {PB : Protobuf} {PS : ProtobufSpec PB} : list rpc_method :=
  [mkMethod "cosmos.crisis.v1beta1.Msg" "VerifyInvariant"
     MsgVerifyInvariant.message MsgVerifyInvariantResponse.message
     (fun rpc => MsgClientImpl.VerifyInvariant rpc)].

Lemma CrisisTypes_msg_methods_lawful {PB : Protobuf} {PS : ProtobufSpec PB} : Forall method_lawful msg_methods.
Proof. solve_methods. Qed.
