(* ===== verification/DistributionTypes.v ===== *)
(** * The messages of the distribution module of the Cosmos SDK

    Rewards and their withdrawal: the codecs of
    [cosmos.distribution.v1beta1/module/types/cosmos/distribution/v1beta1/*.js], with the RPC
    clients of tx.js and query.js. *)
From S2P Require Import Prelude Js Protobuf Codec Calendar Dates Base64 Fallible Proto3 MessageTable CommonTypes CosmosBase.
Open Scope Z_scope.

(** ** [Params] (cosmos/distribution/v1beta1/distribution.js) *)

Module Params.

Record t := mk {
  communityTax : string;
  baseProposerReward : string;
  bonusProposerReward : string;
  withdrawAddrEnabled : bool;
}.

#[global] Instance t_eta : Settable t := λ m, mk m.(communityTax) m.(baseProposerReward)
  m.(bonusProposerReward) m.(withdrawAddrEnabled).

Definition base : t := mk "" "" "" false.

Definition encode {PB : Protobuf} (message : t) (writer : Writer) : Writer :=
  writer
  @> when (str_neq message.(communityTax) "")
       (fun w => w @> uint32 10 @> string_ message.(communityTax))
  @> when (str_neq message.(baseProposerReward) "")
       (fun w => w @> uint32 18 @> string_ message.(baseProposerReward))
  @> when (str_neq message.(bonusProposerReward) "")
       (fun w => w @> uint32 26 @> string_ message.(bonusProposerReward))
  @> when (Bool.eqb message.(withdrawAddrEnabled) true)
       (fun w => w @> uint32 32 @> bool_ message.(withdrawAddrEnabled)).

Definition decode_field {PB : Protobuf} (tag : Z) (message : t) : RM t :=
  match field_number tag with
  | 1 => v ← read_string; mret (message <| communityTax := v |>)
  | 2 => v ← read_string; mret (message <| baseProposerReward := v |>)
  | 3 => v ← read_string; mret (message <| bonusProposerReward := v |>)
  | 4 => v ← read_bool; mret (message <| withdrawAddrEnabled := v |>)
  | _ => _ ← skipType (wire_type tag); mret message
  end.

Definition decode {PB : Protobuf} (length : option Z) : RM t :=
  decode_message length base decode_field.

Definition fromJSON (object : js) : result t :=
  communityTax' ← field_or object "communityTax" to_string "";
  baseProposerReward' ← field_or object "baseProposerReward" to_string "";
  bonusProposerReward' ← field_or object "bonusProposerReward" to_string "";
  withdrawAddrEnabled' ← field_or object "withdrawAddrEnabled" to_bool false;
  Ok (mk communityTax' baseProposerReward' bonusProposerReward' withdrawAddrEnabled').

Definition toJSON (message : t) : js :=
  Obj ([("communityTax", Str message.(communityTax));
    ("baseProposerReward", Str message.(baseProposerReward));
    ("bonusProposerReward", Str message.(bonusProposerReward));
    ("withdrawAddrEnabled", Bool message.(withdrawAddrEnabled))]).

Record partial := mkPartial {
  p_communityTax : option string;
  p_baseProposerReward : option string;
  p_bonusProposerReward : option string;
  p_withdrawAddrEnabled : option bool;
}.

Definition fromPartial (object : partial) : t := {|
  communityTax := object.(p_communityTax) ?? "";
  baseProposerReward := object.(p_baseProposerReward) ?? "";
  bonusProposerReward := object.(p_bonusProposerReward) ?? "";
  withdrawAddrEnabled := object.(p_withdrawAddrEnabled) ?? false;
|}.

(** The object with no property given. *)
Definition nothing : partial := mkPartial None None None None.

(** The bytes [encode] writes. *)
Definition wire {PB : Protobuf} {PS : ProtobufSpec PB} (m : t) : bytes :=
  f_string 10 m.(communityTax) ++
  f_string 18 m.(baseProposerReward) ++
  f_string 26 m.(bonusProposerReward) ++
  f_bool 32 m.(withdrawAddrEnabled).

Definition valid (m : t) : Prop :=
  True.

Definition encodable {PB : Protobuf} {PS : ProtobufSpec PB} (m : t) : Prop :=
  valid m ∧ small (wire m).

Definition merge (m a : t) : t := {|
  communityTax := later_string m.(communityTax) a.(communityTax);
  baseProposerReward := later_string m.(baseProposerReward) a.(baseProposerReward);
  bonusProposerReward := later_string m.(bonusProposerReward) a.(bonusProposerReward);
  withdrawAddrEnabled := later_bool m.(withdrawAddrEnabled) a.(withdrawAddrEnabled);
|}.

(** A whole message seen as a partial one. *)
Definition full (m : t) : partial := {|
  p_communityTax := Some m.(communityTax);
  p_baseProposerReward := Some m.(baseProposerReward);
  p_bonusProposerReward := Some m.(bonusProposerReward);
  p_withdrawAddrEnabled := Some m.(withdrawAddrEnabled);
|}.

(** The message as its schema declares it. *)
Definition schema (m : t) : list field :=
  [implicit 1 (VString m.(communityTax));
   implicit 2 (VString m.(baseProposerReward));
   implicit 3 (VString m.(bonusProposerReward));
   implicit 4 (VBool m.(withdrawAddrEnabled))].

(** The message with its default for every property that is not kept. *)
Definition only (kept : string → bool) (m : t) : t := {|
  communityTax := if kept "communityTax" then m.(communityTax) else "";
  baseProposerReward := if kept "baseProposerReward" then m.(baseProposerReward) else "";
  bonusProposerReward := if kept "bonusProposerReward" then m.(bonusProposerReward) else "";
  withdrawAddrEnabled := if kept "withdrawAddrEnabled" then m.(withdrawAddrEnabled) else false;
|}.

#[global] Instance codec {PB : Protobuf} : MessageCodec t :=
  {| msg_base := base; msg_encode := encode; msg_field := decode_field |}.

#[global] Program Instance spec {PB : Protobuf} (PS : ProtobufSpec PB) : MessageSpec PS t :=
  {| msg_wire := wire; msg_valid := valid; msg_merge := merge |}.
Next Obligation. solve_encode_wire. Qed.
Next Obligation. solve_decode_wire. Qed.
Next Obligation. solve_merge_base. Qed.
Next Obligation. intros. solve_advances decode_field. Qed.

#[global] Program Instance data : MessageData t partial :=
  {| msg_fromJSON := fromJSON; msg_toJSON := toJSON;
     msg_fromPartial := fromPartial; msg_full := full |}.
Next Obligation. solve_json fromJSON toJSON. Qed.
Next Obligation. solve_partial fromPartial full. Qed.

#[global] Instance schema_wire {PB : Protobuf} {PS : ProtobufSpec PB} : WireSchema wire schema.
Proof. solve_schema_wire wire schema. Qed.

#[global] Instance schema_merge : MergeSchema merge schema.
Proof. solve_schema_merge merge schema. Qed.

(** Its row in the table of message types. *)
Definition message {PB : Protobuf} {PS : ProtobufSpec PB} : message_type :=
  plain_message "Params" nothing true schema only.

#[global] Instance message_lawful {PB : Protobuf} (PS : ProtobufSpec PB) : Lawful message.
Proof. solve_lawful decode_field fromJSON only. Qed.

End Params.

(** ** [ValidatorHistoricalRewards] (cosmos/distribution/v1beta1/distribution.js) *)

Module ValidatorHistoricalRewards.

Record t := mk {
  cumulativeRewardRatio : list DecCoin.t;
  referenceCount : number;
}.

#[global] Instance t_eta : Settable t := λ m, mk m.(cumulativeRewardRatio) m.(referenceCount).

Definition base : t := mk [] 0.

Definition encode {PB : Protobuf} (message : t) (writer : Writer) : Writer :=
  writer
  @> each message.(cumulativeRewardRatio) (fun v w => w @> uint32 10 @> fork @> DecCoin.encode v @> ldelim)
  @> when (num_neq message.(referenceCount) 0)
       (fun w => w @> uint32 16 @> uint32 message.(referenceCount)).

Definition decode_field {PB : Protobuf} (tag : Z) (message : t) : RM t :=
  match field_number tag with
  | 1 => v ← read_nested DecCoin.decode;
         mret (message <| cumulativeRewardRatio := message.(cumulativeRewardRatio) ++ [v] |>)
  | 2 => v ← read_uint32; mret (message <| referenceCount := Int v |>)
  | _ => _ ← skipType (wire_type tag); mret message
  end.

Definition decode {PB : Protobuf} (length : option Z) : RM t :=
  decode_message length base decode_field.

Definition fromJSON (object : js) : result t :=
  cumulativeRewardRatio' ← field_or object "cumulativeRewardRatio" (to_list DecCoin.fromJSON) [];
  referenceCount' ← field_or object "referenceCount" js_Number 0;
  Ok (mk cumulativeRewardRatio' referenceCount').

Definition toJSON (message : t) : js :=
  Obj ([("cumulativeRewardRatio", Arr (map DecCoin.toJSON message.(cumulativeRewardRatio)));
    ("referenceCount", Num message.(referenceCount))]).

Record partial := mkPartial {
  p_cumulativeRewardRatio : option (list DecCoin.partial);
  p_referenceCount : option number;
}.

Definition fromPartial (object : partial) : t := {|
  cumulativeRewardRatio := map DecCoin.fromPartial (object.(p_cumulativeRewardRatio) ?? []);
  referenceCount := object.(p_referenceCount) ?? Int 0;
|}.

(** The object with no property given. *)
Definition nothing : partial := mkPartial None None.

(** The bytes [encode] writes. *)
Definition wire {PB : Protobuf} {PS : ProtobufSpec PB} (m : t) : bytes :=
  f_repeated 10 DecCoin.wire m.(cumulativeRewardRatio) ++
  f_number e_uint32 16 m.(referenceCount).

Definition valid (m : t) : Prop :=
  Forall DecCoin.valid m.(cumulativeRewardRatio) ∧ uint32_ok m.(referenceCount).

Definition encodable {PB : Protobuf} {PS : ProtobufSpec PB} (m : t) : Prop :=
  valid m ∧ small (wire m).

Definition merge (m a : t) : t := {|
  cumulativeRewardRatio := m.(cumulativeRewardRatio) ++ a.(cumulativeRewardRatio);
  referenceCount := later_number m.(referenceCount) a.(referenceCount);
|}.

(** A whole message seen as a partial one. *)
Definition full (m : t) : partial := {|
  p_cumulativeRewardRatio := Some (map DecCoin.full m.(cumulativeRewardRatio));
  p_referenceCount := Some m.(referenceCount);
|}.

(** The message as its schema declares it. *)
Definition schema (m : t) : list field :=
  [repeated 1 (message_value DecCoin.schema) m.(cumulativeRewardRatio);
   implicit 2 (VInt Uint32 m.(referenceCount))].

(** The message with its default for every property that is not kept. *)
Definition only (kept : string → bool) (m : t) : t := {|
  cumulativeRewardRatio := if kept "cumulativeRewardRatio" then m.(cumulativeRewardRatio) else [];
  referenceCount := if kept "referenceCount" then m.(referenceCount) else Int 0;
|}.

#[global] Instance codec {PB : Protobuf} : MessageCodec t :=
  {| msg_base := base; msg_encode := encode; msg_field := decode_field |}.

#[global] Program Instance spec {PB : Protobuf} (PS : ProtobufSpec PB) : MessageSpec PS t :=
  {| msg_wire := wire; msg_valid := valid; msg_merge := merge |}.
Next Obligation. solve_encode_wire. Qed.
Next Obligation. solve_decode_wire. Qed.
Next Obligation. solve_merge_base. Qed.
Next Obligation. intros. solve_advances decode_field. Qed.

#[global] Program Instance data : MessageData t partial :=
  {| msg_fromJSON := fromJSON; msg_toJSON := toJSON;
     msg_fromPartial := fromPartial; msg_full := full |}.
Next Obligation. solve_json fromJSON toJSON. Qed.
Next Obligation. solve_partial fromPartial full. Qed.

#[global] Instance schema_wire {PB : Protobuf} {PS : ProtobufSpec PB} : WireSchema wire schema.
Proof. solve_schema_wire wire schema. Qed.

#[global] Instance schema_merge : MergeSchema merge schema.
Proof. solve_schema_merge merge schema. Qed.

(** Its row in the table of message types. *)
Definition message {PB : Protobuf} {PS : ProtobufSpec PB} : message_type :=
  plain_message "ValidatorHistoricalRewards" nothing true schema only.

#[global] Instance message_lawful {PB : Protobuf} (PS : ProtobufSpec PB) : Lawful message.
Proof. solve_lawful decode_field fromJSON only. Qed.

End ValidatorHistoricalRewards.

(** ** [ValidatorCurrentRewards] (cosmos/distribution/v1beta1/distribution.js) *)

Module ValidatorCurrentRewards.

Record t := mk {
  rewards : list DecCoin.t;
  period : number;
}.

#[global] Instance t_eta : Settable t := λ m, mk m.(rewards) m.(period).

Definition base : t := mk [] 0.

Definition encode {PB : Protobuf} (message : t) (writer : Writer) : Writer :=
  writer
  @> each message.(rewards) (fun v w => w @> uint32 10 @> fork @> DecCoin.encode v @> ldelim)
  @> when (num_neq message.(period) 0) (fun w => w @> uint32 16 @> uint64 message.(period)).

Definition decode_field {PB : Protobuf} (tag : Z) (message : t) : RM t :=
  match field_number tag with
  | 1 => v ← read_nested DecCoin.decode; mret (message <| rewards := message.(rewards) ++ [v] |>)
  | 2 => v ← read_number read_uint64; mret (message <| period := v |>)
  | _ => _ ← skipType (wire_type tag); mret message
  end.

Definition decode {PB : Protobuf} (length : option Z) : RM t :=
  decode_message length base decode_field.

Definition fromJSON (object : js) : result t :=
  rewards' ← field_or object "rewards" (to_list DecCoin.fromJSON) [];
  period' ← field_or object "period" js_Number 0;
  Ok (mk rewards' period').

Definition toJSON (message : t) : js :=
  Obj ([("rewards", Arr (map DecCoin.toJSON message.(rewards)));
    ("period", Num message.(period))]).

Record partial := mkPartial {
  p_rewards : option (list DecCoin.partial);
  p_period : option number;
}.

Definition fromPartial (object : partial) : t := {|
  rewards := map DecCoin.fromPartial (object.(p_rewards) ?? []);
  period := object.(p_period) ?? Int 0;
|}.

(** The object with no property given. *)
Definition nothing : partial := mkPartial None None.

(** The bytes [encode] writes. *)
Definition wire {PB : Protobuf} {PS : ProtobufSpec PB} (m : t) : bytes :=
  f_repeated 10 DecCoin.wire m.(rewards) ++
  f_number e_uint64 16 m.(period).

Definition valid (m : t) : Prop :=
  Forall DecCoin.valid m.(rewards) ∧ uint64_ok m.(period).

Definition encodable {PB : Protobuf} {PS : ProtobufSpec PB} (m : t) : Prop :=
  valid m ∧ small (wire m).

Definition merge (m a : t) : t := {|
  rewards := m.(rewards) ++ a.(rewards);
  period := later_number m.(period) a.(period);
|}.

(** A whole message seen as a partial one. *)
Definition full (m : t) : partial := {|
  p_rewards := Some (map DecCoin.full m.(rewards));
  p_period := Some m.(period);
|}.

(** The message as its schema declares it. *)
Definition schema (m : t) : list field :=
  [repeated 1 (message_value DecCoin.schema) m.(rewards);
   implicit 2 (VInt Uint64 m.(period))].

(** The message with its default for every property that is not kept. *)
Definition only (kept : string → bool) (m : t) : t := {|
  rewards := if kept "rewards" then m.(rewards) else [];
  period := if kept "period" then m.(period) else Int 0;
|}.

#[global] Instance codec {PB : Protobuf} : MessageCodec t :=
  {| msg_base := base; msg_encode := encode; msg_field := decode_field |}.

#[global] Program Instance spec {PB : Protobuf} (PS : ProtobufSpec PB) : MessageSpec PS t :=
  {| msg_wire := wire; msg_valid := valid; msg_merge := merge |}.
Next Obligation. solve_encode_wire. Qed.
Next Obligation. solve_decode_wire. Qed.
Next Obligation. solve_merge_base. Qed.
Next Obligation. intros. solve_advances decode_field. Qed.

#[global] Program Instance data : MessageData t partial :=
  {| msg_fromJSON := fromJSON; msg_toJSON := toJSON;
     msg_fromPartial := fromPartial; msg_full := full |}.
Next Obligation. solve_json fromJSON toJSON. Qed.
Next Obligation. solve_partial fromPartial full. Qed.

#[global] Instance schema_wire {PB : Protobuf} {PS : ProtobufSpec PB} : WireSchema wire schema.
Proof. solve_schema_wire wire schema. Qed.

#[global] Instance schema_merge : MergeSchema merge schema.
Proof. solve_schema_merge merge schema. Qed.

(** Its row in the table of message types. *)
Definition message {PB : Protobuf} {PS : ProtobufSpec PB} : message_type :=
  plain_message "ValidatorCurrentRewards" nothing true schema only.

#[global] Instance message_lawful {PB : Protobuf} (PS : ProtobufSpec PB) : Lawful message.
Proof. solve_lawful decode_field fromJSON only. Qed.

End ValidatorCurrentRewards.

(** ** [ValidatorAccumulatedCommission] (cosmos/distribution/v1beta1/distribution.js) *)

Module ValidatorAccumulatedCommission.

Record t := mk {
  commission : list DecCoin.t;
}.

#[global] Instance t_eta : Settable t := λ m, mk m.(commission).

Definition base : t := mk [].

Definition encode {PB : Protobuf} (message : t) (writer : Writer) : Writer :=
  writer
  @> each message.(commission) (fun v w => w @> uint32 10 @> fork @> DecCoin.encode v @> ldelim).

Definition decode_field {PB : Protobuf} (tag : Z) (message : t) : RM t :=
  match field_number tag with
  | 1 => v ← read_nested DecCoin.decode;
         mret (message <| commission := message.(commission) ++ [v] |>)
  | _ => _ ← skipType (wire_type tag); mret message
  end.

Definition decode {PB : Protobuf} (length : option Z) : RM t :=
  decode_message length base decode_field.

Definition fromJSON (object : js) : result t :=
  commission' ← field_or object "commission" (to_list DecCoin.fromJSON) [];
  Ok (mk commission').

Definition toJSON (message : t) : js :=
  Obj ([("commission", Arr (map DecCoin.toJSON message.(commission)))]).

Record partial := mkPartial {
  p_commission : option (list DecCoin.partial);
}.

Definition fromPartial (object : partial) : t := {|
  commission := map DecCoin.fromPartial (object.(p_commission) ?? []);
|}.

(** The object with no property given. *)
Definition nothing : partial := mkPartial None.

(** The bytes [encode] writes. *)
Definition wire {PB : Protobuf} {PS : ProtobufSpec PB} (m : t) : bytes :=
  f_repeated 10 DecCoin.wire m.(commission).

Definition valid (m : t) : Prop :=
  Forall DecCoin.valid m.(commission).

Definition encodable {PB : Protobuf} {PS : ProtobufSpec PB} (m : t) : Prop :=
  valid m ∧ small (wire m).

Definition merge (m a : t) : t := {|
  commission := m.(commission) ++ a.(commission);
|}.

(** A whole message seen as a partial one. *)
Definition full (m : t) : partial := {|
  p_commission := Some (map DecCoin.full m.(commission));
|}.

(** The message as its schema declares it. *)
Definition schema (m : t) : list field :=
  [repeated 1 (message_value DecCoin.schema) m.(commission)].

(** The message with its default for every property that is not kept. *)
Definition only (kept : string → bool) (m : t) : t := {|
  commission := if kept "commission" then m.(commission) else [];
|}.

#[global] Instance codec {PB : Protobuf} : MessageCodec t :=
  {| msg_base := base; msg_encode := encode; msg_field := decode_field |}.

#[global] Program Instance spec {PB : Protobuf} (PS : ProtobufSpec PB) : MessageSpec PS t :=
  {| msg_wire := wire; msg_valid := valid; msg_merge := merge |}.
Next Obligation. solve_encode_wire. Qed.
Next Obligation. solve_decode_wire. Qed.
Next Obligation. solve_merge_base. Qed.
Next Obligation. intros. solve_advances decode_field. Qed.

#[global] Program Instance data : MessageData t partial :=
  {| msg_fromJSON := fromJSON; msg_toJSON := toJSON;
     msg_fromPartial := fromPartial; msg_full := full |}.
Next Obligation. solve_json fromJSON toJSON. Qed.
Next Obligation. solve_partial fromPartial full. Qed.

#[global] Instance schema_wire {PB : Protobuf} {PS : ProtobufSpec PB} : WireSchema wire schema.
Proof. solve_schema_wire wire schema. Qed.

#[global] Instance schema_merge : MergeSchema merge schema.
Proof. solve_schema_merge merge schema. Qed.

(** Its row in the table of message types. *)
Definition message {PB : Protobuf} {PS : ProtobufSpec PB} : message_type :=
  plain_message "ValidatorAccumulatedCommission" nothing true schema only.

#[global] Instance message_lawful {PB : Protobuf} (PS : ProtobufSpec PB) : Lawful message.
Proof. solve_lawful decode_field fromJSON only. Qed.

End ValidatorAccumulatedCommission.

(** ** [ValidatorOutstandingRewards] (cosmos/distribution/v1beta1/distribution.js) *)

Module ValidatorOutstandingRewards.

Record t := mk {
  rewards : list DecCoin.t;
}.

#[global] Instance t_eta : Settable t := λ m, mk m.(rewards).

Definition base : t := mk [].

Definition encode {PB : Protobuf} (message : t) (writer : Writer) : Writer :=
  writer
  @> each message.(rewards) (fun v w => w @> uint32 10 @> fork @> DecCoin.encode v @> ldelim).

Definition decode_field {PB : Protobuf} (tag : Z) (message : t) : RM t :=
  match field_number tag with
  | 1 => v ← read_nested DecCoin.decode; mret (message <| rewards := message.(rewards) ++ [v] |>)
  | _ => _ ← skipType (wire_type tag); mret message
  end.

Definition decode {PB : Protobuf} (length : option Z) : RM t :=
  decode_message length base decode_field.

Definition fromJSON (object : js) : result t :=
  rewards' ← field_or object "rewards" (to_list DecCoin.fromJSON) [];
  Ok (mk rewards').

Definition toJSON (message : t) : js :=
  Obj ([("rewards", Arr (map DecCoin.toJSON message.(rewards)))]).

Record partial := mkPartial {
  p_rewards : option (list DecCoin.partial);
}.

Definition fromPartial (object : partial) : t := {|
  rewards := map DecCoin.fromPartial (object.(p_rewards) ?? []);
|}.

(** The object with no property given. *)
Definition nothing : partial := mkPartial None.

(** The bytes [encode] writes. *)
Definition wire {PB : Protobuf} {PS : ProtobufSpec PB} (m : t) : bytes :=
  f_repeated 10 DecCoin.wire m.(rewards).

Definition valid (m : t) : Prop :=
  Forall DecCoin.valid m.(rewards).

Definition encodable {PB : Protobuf} {PS : ProtobufSpec PB} (m : t) : Prop :=
  valid m ∧ small (wire m).

Definition merge (m a : t) : t := {|
  rewards := m.(rewards) ++ a.(rewards);
|}.

(** A whole message seen as a partial one. *)
Definition full (m : t) : partial := {|
  p_rewards := Some (map DecCoin.full m.(rewards));
|}.

(** The message as its schema declares it. *)
Definition schema (m : t) : list field :=
  [repeated 1 (message_value DecCoin.schema) m.(rewards)].

(** The message with its default for every property that is not kept. *)
Definition only (kept : string → bool) (m : t) : t := {|
  rewards := if kept "rewards" then m.(rewards) else [];
|}.

#[global] Instance codec {PB : Protobuf} : MessageCodec t :=
  {| msg_base := base; msg_encode := encode; msg_field := decode_field |}.

#[global] Program Instance spec {PB : Protobuf} (PS : ProtobufSpec PB) : MessageSpec PS t :=
  {| msg_wire := wire; msg_valid := valid; msg_merge := merge |}.
Next Obligation. solve_encode_wire. Qed.
Next Obligation. solve_decode_wire. Qed.
Next Obligation. solve_merge_base. Qed.
Next Obligation. intros. solve_advances decode_field. Qed.

#[global] Program Instance data : MessageData t partial :=
  {| msg_fromJSON := fromJSON; msg_toJSON := toJSON;
     msg_fromPartial := fromPartial; msg_full := full |}.
Next Obligation. solve_json fromJSON toJSON. Qed.
Next Obligation. solve_partial fromPartial full. Qed.

#[global] Instance schema_wire {PB : Protobuf} {PS : ProtobufSpec PB} : WireSchema wire schema.
Proof. solve_schema_wire wire schema. Qed.

#[global] Instance schema_merge : MergeSchema merge schema.
Proof. solve_schema_merge merge schema. Qed.

(** Its row in the table of message types. *)
Definition message {PB : Protobuf} {PS : ProtobufSpec PB} : message_type :=
  plain_message "ValidatorOutstandingRewards" nothing true schema only.

#[global] Instance message_lawful {PB : Protobuf} (PS : ProtobufSpec PB) : Lawful message.
Proof. solve_lawful decode_field fromJSON only. Qed.

End ValidatorOutstandingRewards.

(** ** [ValidatorSlashEvent] (cosmos/distribution/v1beta1/distribution.js) *)

Module ValidatorSlashEvent.

Record t := mk {
  validatorPeriod : number;
  fraction : string;
}.

#[global] Instance t_eta : Settable t := λ m, mk m.(validatorPeriod) m.(fraction).

Definition base : t := mk 0 "".

Definition encode {PB : Protobuf} (message : t) (writer : Writer) : Writer :=
  writer
  @> when (num_neq message.(validatorPeriod) 0)
       (fun w => w @> uint32 8 @> uint64 message.(validatorPeriod))
  @> when (str_neq message.(fraction) "") (fun w => w @> uint32 18 @> string_ message.(fraction)).

Definition decode_field {PB : Protobuf} (tag : Z) (message : t) : RM t :=
  match field_number tag with
  | 1 => v ← read_number read_uint64; mret (message <| validatorPeriod := v |>)
  | 2 => v ← read_string; mret (message <| fraction := v |>)
  | _ => _ ← skipType (wire_type tag); mret message
  end.

Definition decode {PB : Protobuf} (length : option Z) : RM t :=
  decode_message length base decode_field.

Definition fromJSON (object : js) : result t :=
  validatorPeriod' ← field_or object "validatorPeriod" js_Number 0;
  fraction' ← field_or object "fraction" to_string "";
  Ok (mk validatorPeriod' fraction').

Definition toJSON (message : t) : js :=
  Obj ([("validatorPeriod", Num message.(validatorPeriod));
    ("fraction", Str message.(fraction))]).

Record partial := mkPartial {
  p_validatorPeriod : option number;
  p_fraction : option string;
}.

Definition fromPartial (object : partial) : t := {|
  validatorPeriod := object.(p_validatorPeriod) ?? Int 0;
  fraction := object.(p_fraction) ?? "";
|}.

(** The object with no property given. *)
Definition nothing : partial := mkPartial None None.

(** The bytes [encode] writes. *)
Definition wire {PB : Protobuf} {PS : ProtobufSpec PB} (m : t) : bytes :=
  f_number e_uint64 8 m.(validatorPeriod) ++
  f_string 18 m.(fraction).

Definition valid (m : t) : Prop :=
  uint64_ok m.(validatorPeriod).

Definition encodable {PB : Protobuf} {PS : ProtobufSpec PB} (m : t) : Prop :=
  valid m ∧ small (wire m).

Definition merge (m a : t) : t := {|
  validatorPeriod := later_number m.(validatorPeriod) a.(validatorPeriod);
  fraction := later_string m.(fraction) a.(fraction);
|}.

(** A whole message seen as a partial one. *)
Definition full (m : t) : partial := {|
  p_validatorPeriod := Some m.(validatorPeriod);
  p_fraction := Some m.(fraction);
|}.

(** The message as its schema declares it. *)
Definition schema (m : t) : list field :=
  [implicit 1 (VInt Uint64 m.(validatorPeriod));
   implicit 2 (VString m.(fraction))].

(** The message with its default for every property that is not kept. *)
Definition only (kept : string → bool) (m : t) : t := {|
  validatorPeriod := if kept "validatorPeriod" then m.(validatorPeriod) else Int 0;
  fraction := if kept "fraction" then m.(fraction) else "";
|}.

#[global] Instance codec {PB : Protobuf} : MessageCodec t :=
  {| msg_base := base; msg_encode := encode; msg_field := decode_field |}.

#[global] Program Instance spec {PB : Protobuf} (PS : ProtobufSpec PB) : MessageSpec PS t :=
  {| msg_wire := wire; msg_valid := valid; msg_merge := merge |}.
Next Obligation. solve_encode_wire. Qed.
Next Obligation. solve_decode_wire. Qed.
Next Obligation. solve_merge_base. Qed.
Next Obligation. intros. solve_advances decode_field. Qed.

#[global] Program Instance data : MessageData t partial :=
  {| msg_fromJSON := fromJSON; msg_toJSON := toJSON;
     msg_fromPartial := fromPartial; msg_full := full |}.
Next Obligation. solve_json fromJSON toJSON. Qed.
Next Obligation. solve_partial fromPartial full. Qed.

#[global] Instance schema_wire {PB : Protobuf} {PS : ProtobufSpec PB} : WireSchema wire schema.
Proof. solve_schema_wire wire schema. Qed.

#[global] Instance schema_merge : MergeSchema merge schema.
Proof. solve_schema_merge merge schema. Qed.

(** Its row in the table of message types. *)
Definition message {PB : Protobuf} {PS : ProtobufSpec PB} : message_type :=
  plain_message "ValidatorSlashEvent" nothing true schema only.

#[global] Instance message_lawful {PB : Protobuf} (PS : ProtobufSpec PB) : Lawful message.
Proof. solve_lawful decode_field fromJSON only. Qed.

End ValidatorSlashEvent.

(** ** [ValidatorSlashEvents] (cosmos/distribution/v1beta1/distribution.js) *)

Module ValidatorSlashEvents.

Record t := mk {
  validatorSlashEvents : list ValidatorSlashEvent.t;
}.

#[global] Instance t_eta : Settable t := λ m, mk m.(validatorSlashEvents).

Definition base : t := mk [].

Definition encode {PB : Protobuf} (message : t) (writer : Writer) : Writer :=
  writer
  @> each message.(validatorSlashEvents) (fun v w => w @> uint32 10 @> fork @> ValidatorSlashEvent.encode v @> ldelim).

Definition decode_field {PB : Protobuf} (tag : Z) (message : t) : RM t :=
  match field_number tag with
  | 1 => v ← read_nested ValidatorSlashEvent.decode;
         mret (message <| validatorSlashEvents := message.(validatorSlashEvents) ++ [v] |>)
  | _ => _ ← skipType (wire_type tag); mret message
  end.

Definition decode {PB : Protobuf} (length : option Z) : RM t :=
  decode_message length base decode_field.

Definition fromJSON (object : js) : result t :=
  validatorSlashEvents' ← field_or object "validatorSlashEvents" (to_list ValidatorSlashEvent.fromJSON) [];
  Ok (mk validatorSlashEvents').

Definition toJSON (message : t) : js :=
  Obj ([("validatorSlashEvents", Arr (map ValidatorSlashEvent.toJSON message.(validatorSlashEvents)))]).

Record partial := mkPartial {
  p_validatorSlashEvents : option (list ValidatorSlashEvent.partial);
}.

Definition fromPartial (object : partial) : t := {|
  validatorSlashEvents := map ValidatorSlashEvent.fromPartial (object.(p_validatorSlashEvents) ?? []);
|}.

(** The object with no property given. *)
Definition nothing : partial := mkPartial None.

(** The bytes [encode] writes. *)
Definition wire {PB : Protobuf} {PS : ProtobufSpec PB} (m : t) : bytes :=
  f_repeated 10 ValidatorSlashEvent.wire m.(validatorSlashEvents).

Definition valid (m : t) : Prop :=
  Forall ValidatorSlashEvent.valid m.(validatorSlashEvents).

Definition encodable {PB : Protobuf} {PS : ProtobufSpec PB} (m : t) : Prop :=
  valid m ∧ small (wire m).

Definition merge (m a : t) : t := {|
  validatorSlashEvents := m.(validatorSlashEvents) ++ a.(validatorSlashEvents);
|}.

(** A whole message seen as a partial one. *)
Definition full (m : t) : partial := {|
  p_validatorSlashEvents := Some (map ValidatorSlashEvent.full m.(validatorSlashEvents));
|}.

(** The message as its schema declares it. *)
Definition schema (m : t) : list field :=
  [repeated 1 (message_value ValidatorSlashEvent.schema) m.(validatorSlashEvents)].

(** The message with its default for every property that is not kept. *)
Definition only (kept : string → bool) (m : t) : t := {|
  validatorSlashEvents := if kept "validatorSlashEvents" then m.(validatorSlashEvents) else [];
|}.

#[global] Instance codec {PB : Protobuf} : MessageCodec t :=
  {| msg_base := base; msg_encode := encode; msg_field := decode_field |}.

#[global] Program Instance spec {PB : Protobuf} (PS : ProtobufSpec PB) : MessageSpec PS t :=
  {| msg_wire := wire; msg_valid := valid; msg_merge := merge |}.
Next Obligation. solve_encode_wire. Qed.
Next Obligation. solve_decode_wire. Qed.
Next Obligation. solve_merge_base. Qed.
Next Obligation. intros. solve_advances decode_field. Qed.

#[global] Program Instance data : MessageData t partial :=
  {| msg_fromJSON := fromJSON; msg_toJSON := toJSON;
     msg_fromPartial := fromPartial; msg_full := full |}.
Next Obligation. solve_json fromJSON toJSON. Qed.
Next Obligation. solve_partial fromPartial full. Qed.

#[global] Instance schema_wire {PB : Protobuf} {PS : ProtobufSpec PB} : WireSchema wire schema.
Proof. solve_schema_wire wire schema. Qed.

#[global] Instance schema_merge : MergeSchema merge schema.
Proof. solve_schema_merge merge schema. Qed.

(** Its row in the table of message types. *)
Definition message {PB : Protobuf} {PS : ProtobufSpec PB} : message_type :=
  plain_message "ValidatorSlashEvents" nothing true schema only.

#[global] Instance message_lawful {PB : Protobuf} (PS : ProtobufSpec PB) : Lawful message.
Proof. solve_lawful decode_field fromJSON only. Qed.

End ValidatorSlashEvents.

(** ** [FeePool] (cosmos/distribution/v1beta1/distribution.js) *)

Module FeePool.

Record t := mk {
  communityPool : list DecCoin.t;
}.

#[global] Instance t_eta : Settable t := λ m, mk m.(communityPool).

Definition base : t := mk [].

Definition encode {PB : Protobuf} (message : t) (writer : Writer) : Writer :=
  writer
  @> each message.(communityPool) (fun v w => w @> uint32 10 @> fork @> DecCoin.encode v @> ldelim).

Definition decode_field {PB : Protobuf} (tag : Z) (message : t) : RM t :=
  match field_number tag with
  | 1 => v ← read_nested DecCoin.decode;
         mret (message <| communityPool := message.(communityPool) ++ [v] |>)
  | _ => _ ← skipType (wire_type tag); mret message
  end.

Definition decode {PB : Protobuf} (length : option Z) : RM t :=
  decode_message length base decode_field.

Definition fromJSON (object : js) : result t :=
  communityPool' ← field_or object "communityPool" (to_list DecCoin.fromJSON) [];
  Ok (mk communityPool').

Definition toJSON (message : t) : js :=
  Obj ([("communityPool", Arr (map DecCoin.toJSON message.(communityPool)))]).

Record partial := mkPartial {
  p_communityPool : option (list DecCoin.partial);
}.

Definition fromPartial (object : partial) : t := {|
  communityPool := map DecCoin.fromPartial (object.(p_communityPool) ?? []);
|}.

(** The object with no property given. *)
Definition nothing : partial := mkPartial None.

(** The bytes [encode] writes. *)
Definition wire {PB : Protobuf} {PS : ProtobufSpec PB} (m : t) : bytes :=
  f_repeated 10 DecCoin.wire m.(communityPool).

Definition valid (m : t) : Prop :=
  Forall DecCoin.valid m.(communityPool).

Definition encodable {PB : Protobuf} {PS : ProtobufSpec PB} (m : t) : Prop :=
  valid m ∧ small (wire m).

Definition merge (m a : t) : t := {|
  communityPool := m.(communityPool) ++ a.(communityPool);
|}.

(** A whole message seen as a partial one. *)
Definition full (m : t) : partial := {|
  p_communityPool := Some (map DecCoin.full m.(communityPool));
|}.

(** The message as its schema declares it. *)
Definition schema (m : t) : list field :=
  [repeated 1 (message_value DecCoin.schema) m.(communityPool)].

(** The message with its default for every property that is not kept. *)
Definition only (kept : string → bool) (m : t) : t := {|
  communityPool := if kept "communityPool" then m.(communityPool) else [];
|}.

#[global] Instance codec {PB : Protobuf} : MessageCodec t :=
  {| msg_base := base; msg_encode := encode; msg_field := decode_field |}.

#[global] Program Instance spec {PB : Protobuf} (PS : ProtobufSpec PB) : MessageSpec PS t :=
  {| msg_wire := wire; msg_valid := valid; msg_merge := merge |}.
Next Obligation. solve_encode_wire. Qed.
Next Obligation. solve_decode_wire. Qed.
Next Obligation. solve_merge_base. Qed.
Next Obligation. intros. solve_advances decode_field. Qed.

#[global] Program Instance data : MessageData t partial :=
  {| msg_fromJSON := fromJSON; msg_toJSON := toJSON;
     msg_fromPartial := fromPartial; msg_full := full |}.
Next Obligation. solve_json fromJSON toJSON. Qed.
Next Obligation. solve_partial fromPartial full. Qed.

#[global] Instance schema_wire {PB : Protobuf} {PS : ProtobufSpec PB} : WireSchema wire schema.
Proof. solve_schema_wire wire schema. Qed.

#[global] Instance schema_merge : MergeSchema merge schema.
Proof. solve_schema_merge merge schema. Qed.

(** Its row in the table of message types. *)
Definition message {PB : Protobuf} {PS : ProtobufSpec PB} : message_type :=
  plain_message "FeePool" nothing true schema only.

#[global] Instance message_lawful {PB : Protobuf} (PS : ProtobufSpec PB) : Lawful message.
Proof. solve_lawful decode_field fromJSON only. Qed.

End FeePool.

(** ** [CommunityPoolSpendProposal] (cosmos/distribution/v1beta1/distribution.js) *)

Module CommunityPoolSpendProposal.

Record t := mk {
  title : string;
  description : string;
  recipient : string;
  amount : list Coin.t;
}.

#[global] Instance t_eta : Settable t := λ m, mk m.(title) m.(description) m.(recipient)
  m.(amount).

Definition base : t := mk "" "" "" [].

Definition encode {PB : Protobuf} (message : t) (writer : Writer) : Writer :=
  writer
  @> when (str_neq message.(title) "") (fun w => w @> uint32 10 @> string_ message.(title))
  @> when (str_neq message.(description) "")
       (fun w => w @> uint32 18 @> string_ message.(description))
  @> when (str_neq message.(recipient) "") (fun w => w @> uint32 26 @> string_ message.(recipient))
  @> each message.(amount) (fun v w => w @> uint32 34 @> fork @> Coin.encode v @> ldelim).

Definition decode_field {PB : Protobuf} (tag : Z) (message : t) : RM t :=
  match field_number tag with
  | 1 => v ← read_string; mret (message <| title := v |>)
  | 2 => v ← read_string; mret (message <| description := v |>)
  | 3 => v ← read_string; mret (message <| recipient := v |>)
  | 4 => v ← read_nested Coin.decode; mret (message <| amount := message.(amount) ++ [v] |>)
  | _ => _ ← skipType (wire_type tag); mret message
  end.

Definition decode {PB : Protobuf} (length : option Z) : RM t :=
  decode_message length base decode_field.

Definition fromJSON (object : js) : result t :=
  title' ← field_or object "title" to_string "";
  description' ← field_or object "description" to_string "";
  recipient' ← field_or object "recipient" to_string "";
  amount' ← field_or object "amount" (to_list Coin.fromJSON) [];
  Ok (mk title' description' recipient' amount').

Definition toJSON (message : t) : js :=
  Obj ([("title", Str message.(title));
    ("description", Str message.(description));
    ("recipient", Str message.(recipient));
    ("amount", Arr (map Coin.toJSON message.(amount)))]).

Record partial := mkPartial {
  p_title : option string;
  p_description : option string;
  p_recipient : option string;
  p_amount : option (list Coin.partial);
}.

Definition fromPartial (object : partial) : t := {|
  title := object.(p_title) ?? "";
  description := object.(p_description) ?? "";
  recipient := object.(p_recipient) ?? "";
  amount := map Coin.fromPartial (object.(p_amount) ?? []);
|}.

(** The object with no property given. *)
Definition nothing : partial := mkPartial None None None None.

(** The bytes [encode] writes. *)
Definition wire {PB : Protobuf} {PS : ProtobufSpec PB} (m : t) : bytes :=
  f_string 10 m.(title) ++
  f_string 18 m.(description) ++
  f_string 26 m.(recipient) ++
  f_repeated 34 Coin.wire m.(amount).

Definition valid (m : t) : Prop :=
  Forall Coin.valid m.(amount).

Definition encodable {PB : Protobuf} {PS : ProtobufSpec PB} (m : t) : Prop :=
  valid m ∧ small (wire m).

Definition merge (m a : t) : t := {|
  title := later_string m.(title) a.(title);
  description := later_string m.(description) a.(description);
  recipient := later_string m.(recipient) a.(recipient);
  amount := m.(amount) ++ a.(amount);
|}.

(** A whole message seen as a partial one. *)
Definition full (m : t) : partial := {|
  p_title := Some m.(title);
  p_description := Some m.(description);
  p_recipient := Some m.(recipient);
  p_amount := Some (map Coin.full m.(amount));
|}.

(** The message as its schema declares it. *)
Definition schema (m : t) : list field :=
  [implicit 1 (VString m.(title));
   implicit 2 (VString m.(description));
   implicit 3 (VString m.(recipient));
   repeated 4 (message_value Coin.schema) m.(amount)].

(** The message with its default for every property that is not kept. *)
Definition only (kept : string → bool) (m : t) : t := {|
  title := if kept "title" then m.(title) else "";
  description := if kept "description" then m.(description) else "";
  recipient := if kept "recipient" then m.(recipient) else "";
  amount := if kept "amount" then m.(amount) else [];
|}.

#[global] Instance codec {PB : Protobuf} : MessageCodec t :=
  {| msg_base := base; msg_encode := encode; msg_field := decode_field |}.

#[global] Program Instance spec {PB : Protobuf} (PS : ProtobufSpec PB) : MessageSpec PS t :=
  {| msg_wire := wire; msg_valid := valid; msg_merge := merge |}.
Next Obligation. solve_encode_wire. Qed.
Next Obligation. solve_decode_wire. Qed.
Next Obligation. solve_merge_base. Qed.
Next Obligation. intros. solve_advances decode_field. Qed.

#[global] Program Instance data : MessageData t partial :=
  {| msg_fromJSON := fromJSON; msg_toJSON := toJSON;
     msg_fromPartial := fromPartial; msg_full := full |}.
Next Obligation. solve_json fromJSON toJSON. Qed.
Next Obligation. solve_partial fromPartial full. Qed.

#[global] Instance schema_wire {PB : Protobuf} {PS : ProtobufSpec PB} : WireSchema wire schema.
Proof. solve_schema_wire wire schema. Qed.

#[global] Instance schema_merge : MergeSchema merge schema.
Proof. solve_schema_merge merge schema. Qed.

(** Its row in the table of message types. *)
Definition message {PB : Protobuf} {PS : ProtobufSpec PB} : message_type :=
  plain_message "CommunityPoolSpendProposal" nothing true schema only.

#[global] Instance message_lawful {PB : Protobuf} (PS : ProtobufSpec PB) : Lawful message.
Proof. solve_lawful decode_field fromJSON only. Qed.

End CommunityPoolSpendProposal.

(** ** [DelegatorStartingInfo] (cosmos/distribution/v1beta1/distribution.js) *)

Module DelegatorStartingInfo.

Record t := mk {
  previousPeriod : number;
  stake : string;
  height : number;
}.

#[global] Instance t_eta : Settable t := λ m, mk m.(previousPeriod) m.(stake) m.(height).

Definition base : t := mk 0 "" 0.

Definition encode {PB : Protobuf} (message : t) (writer : Writer) : Writer :=
  writer
  @> when (num_neq message.(previousPeriod) 0)
       (fun w => w @> uint32 8 @> uint64 message.(previousPeriod))
  @> when (str_neq message.(stake) "") (fun w => w @> uint32 18 @> string_ message.(stake))
  @> when (num_neq message.(height) 0) (fun w => w @> uint32 24 @> uint64 message.(height)).

Definition decode_field {PB : Protobuf} (tag : Z) (message : t) : RM t :=
  match field_number tag with
  | 1 => v ← read_number read_uint64; mret (message <| previousPeriod := v |>)
  | 2 => v ← read_string; mret (message <| stake := v |>)
  | 3 => v ← read_number read_uint64; mret (message <| height := v |>)
  | _ => _ ← skipType (wire_type tag); mret message
  end.

Definition decode {PB : Protobuf} (length : option Z) : RM t :=
  decode_message length base decode_field.

Definition fromJSON (object : js) : result t :=
  previousPeriod' ← field_or object "previousPeriod" js_Number 0;
  stake' ← field_or object "stake" to_string "";
  height' ← field_or object "height" js_Number 0;
  Ok (mk previousPeriod' stake' height').

Definition toJSON (message : t) : js :=
  Obj ([("previousPeriod", Num message.(previousPeriod));
    ("stake", Str message.(stake));
    ("height", Num message.(height))]).

Record partial := mkPartial {
  p_previousPeriod : option number;
  p_stake : option string;
  p_height : option number;
}.

Definition fromPartial (object : partial) : t := {|
  previousPeriod := object.(p_previousPeriod) ?? Int 0;
  stake := object.(p_stake) ?? "";
  height := object.(p_height) ?? Int 0;
|}.

(** The object with no property given. *)
Definition nothing : partial := mkPartial None None None.

(** The bytes [encode] writes. *)
Definition wire {PB : Protobuf} {PS : ProtobufSpec PB} (m : t) : bytes :=
  f_number e_uint64 8 m.(previousPeriod) ++
  f_string 18 m.(stake) ++
  f_number e_uint64 24 m.(height).

Definition valid (m : t) : Prop :=
  uint64_ok m.(previousPeriod) ∧ uint64_ok m.(height).

Definition encodable {PB : Protobuf} {PS : ProtobufSpec PB} (m : t) : Prop :=
  valid m ∧ small (wire m).

Definition merge (m a : t) : t := {|
  previousPeriod := later_number m.(previousPeriod) a.(previousPeriod);
  stake := later_string m.(stake) a.(stake);
  height := later_number m.(height) a.(height);
|}.

(** A whole message seen as a partial one. *)
Definition full (m : t) : partial := {|
  p_previousPeriod := Some m.(previousPeriod);
  p_stake := Some m.(stake);
  p_height := Some m.(height);
|}.

(** The message as its schema declares it. *)
Definition schema (m : t) : list field :=
  [implicit 1 (VInt Uint64 m.(previousPeriod));
   implicit 2 (VString m.(stake));
   implicit 3 (VInt Uint64 m.(height))].

(** The message with its default for every property that is not kept. *)
Definition only (kept : string → bool) (m : t) : t := {|
  previousPeriod := if kept "previousPeriod" then m.(previousPeriod) else Int 0;
  stake := if kept "stake" then m.(stake) else "";
  height := if kept "height" then m.(height) else Int 0;
|}.

#[global] Instance codec {PB : Protobuf} : MessageCodec t :=
  {| msg_base := base; msg_encode := encode; msg_field := decode_field |}.

#[global] Program Instance spec {PB : Protobuf} (PS : ProtobufSpec PB) : MessageSpec PS t :=
  {| msg_wire := wire; msg_valid := valid; msg_merge := merge |}.
Next Obligation. solve_encode_wire. Qed.
Next Obligation. solve_decode_wire. Qed.
Next Obligation. solve_merge_base. Qed.
Next Obligation. intros. solve_advances decode_field. Qed.

#[global] Program Instance data : MessageData t partial :=
  {| msg_fromJSON := fromJSON; msg_toJSON := toJSON;
     msg_fromPartial := fromPartial; msg_full := full |}.
Next Obligation. solve_json fromJSON toJSON. Qed.
Next Obligation. solve_partial fromPartial full. Qed.

#[global] Instance schema_wire {PB : Protobuf} {PS : ProtobufSpec PB} : WireSchema wire schema.
Proof. solve_schema_wire wire schema. Qed.

#[global] Instance schema_merge : MergeSchema merge schema.
Proof. solve_schema_merge merge schema. Qed.

(** Its row in the table of message types. *)
Definition message {PB : Protobuf} {PS : ProtobufSpec PB} : message_type :=
  plain_message "DelegatorStartingInfo" nothing true schema only.

#[global] Instance message_lawful {PB : Protobuf} (PS : ProtobufSpec PB) : Lawful message.
Proof. solve_lawful decode_field fromJSON only. Qed.

End DelegatorStartingInfo.

(** ** [DelegationDelegatorReward] (cosmos/distribution/v1beta1/distribution.js) *)

Module DelegationDelegatorReward.

Record t := mk {
  validatorAddress : string;
  reward : list DecCoin.t;
}.

#[global] Instance t_eta : Settable t := λ m, mk m.(validatorAddress) m.(reward).

Definition base : t := mk "" [].

Definition encode {PB : Protobuf} (message : t) (writer : Writer) : Writer :=
  writer
  @> when (str_neq message.(validatorAddress) "")
       (fun w => w @> uint32 10 @> string_ message.(validatorAddress))
  @> each message.(reward) (fun v w => w @> uint32 18 @> fork @> DecCoin.encode v @> ldelim).

Definition decode_field {PB : Protobuf} (tag : Z) (message : t) : RM t :=
  match field_number tag with
  | 1 => v ← read_string; mret (message <| validatorAddress := v |>)
  | 2 => v ← read_nested DecCoin.decode; mret (message <| reward := message.(reward) ++ [v] |>)
  | _ => _ ← skipType (wire_type tag); mret message
  end.

Definition decode {PB : Protobuf} (length : option Z) : RM t :=
  decode_message length base decode_field.

Definition fromJSON (object : js) : result t :=
  validatorAddress' ← field_or object "validatorAddress" to_string "";
  reward' ← field_or object "reward" (to_list DecCoin.fromJSON) [];
  Ok (mk validatorAddress' reward').

Definition toJSON (message : t) : js :=
  Obj ([("validatorAddress", Str message.(validatorAddress));
    ("reward", Arr (map DecCoin.toJSON message.(reward)))]).

Record partial := mkPartial {
  p_validatorAddress : option string;
  p_reward : option (list DecCoin.partial);
}.

Definition fromPartial (object : partial) : t := {|
  validatorAddress := object.(p_validatorAddress) ?? "";
  reward := map DecCoin.fromPartial (object.(p_reward) ?? []);
|}.

(** The object with no property given. *)
Definition nothing : partial := mkPartial None None.

(** The bytes [encode] writes. *)
Definition wire {PB : Protobuf} {PS : ProtobufSpec PB} (m : t) : bytes :=
  f_string 10 m.(validatorAddress) ++
  f_repeated 18 DecCoin.wire m.(reward).

Definition valid (m : t) : Prop :=
  Forall DecCoin.valid m.(reward).

Definition encodable {PB : Protobuf} {PS : ProtobufSpec PB} (m : t) : Prop :=
  valid m ∧ small (wire m).

Definition merge (m a : t) : t := {|
  validatorAddress := later_string m.(validatorAddress) a.(validatorAddress);
  reward := m.(reward) ++ a.(reward);
|}.

(** A whole message seen as a partial one. *)
Definition full (m : t) : partial := {|
  p_validatorAddress := Some m.(validatorAddress);
  p_reward := Some (map DecCoin.full m.(reward));
|}.

(** The message as its schema declares it. *)
Definition schema (m : t) : list field :=
  [implicit 1 (VString m.(validatorAddress));
   repeated 2 (message_value DecCoin.schema) m.(reward)].

(** The message with its default for every property that is not kept. *)
Definition only (kept : string → bool) (m : t) : t := {|
  validatorAddress := if kept "validatorAddress" then m.(validatorAddress) else "";
  reward := if kept "reward" then m.(reward) else [];
|}.

#[global] Instance codec {PB : Protobuf} : MessageCodec t :=
  {| msg_base := base; msg_encode := encode; msg_field := decode_field |}.

#[global] Program Instance spec {PB : Protobuf} (PS : ProtobufSpec PB) : MessageSpec PS t :=
  {| msg_wire := wire; msg_valid := valid; msg_merge := merge |}.
Next Obligation. solve_encode_wire. Qed.
Next Obligation. solve_decode_wire. Qed.
Next Obligation. solve_merge_base. Qed.
Next Obligation. intros. solve_advances decode_field. Qed.

#[global] Program Instance data : MessageData t partial :=
  {| msg_fromJSON := fromJSON; msg_toJSON := toJSON;
     msg_fromPartial := fromPartial; msg_full := full |}.
Next Obligation. solve_json fromJSON toJSON. Qed.
Next Obligation. solve_partial fromPartial full. Qed.

#[global] Instance schema_wire {PB : Protobuf} {PS : ProtobufSpec PB} : WireSchema wire schema.
Proof. solve_schema_wire wire schema. Qed.

#[global] Instance schema_merge : MergeSchema merge schema.
Proof. solve_schema_merge merge schema. Qed.

(** Its row in the table of message types. *)
Definition message {PB : Protobuf} {PS : ProtobufSpec PB} : message_type :=
  plain_message "DelegationDelegatorReward" nothing true schema only.

#[global] Instance message_lawful {PB : Protobuf} (PS : ProtobufSpec PB) : Lawful message.
Proof. solve_lawful decode_field fromJSON only. Qed.

End DelegationDelegatorReward.

(** ** [CommunityPoolSpendProposalWithDeposit] (cosmos/distribution/v1beta1/distribution.js) *)

Module CommunityPoolSpendProposalWithDeposit.

Record t := mk {
  title : string;
  description : string;
  recipient : string;
  amount : string;
  deposit : string;
}.

#[global] Instance t_eta : Settable t := λ m, mk m.(title) m.(description) m.(recipient)
  m.(amount) m.(deposit).

Definition base : t := mk "" "" "" "" "".

Definition encode {PB : Protobuf} (message : t) (writer : Writer) : Writer :=
  writer
  @> when (str_neq message.(title) "") (fun w => w @> uint32 10 @> string_ message.(title))
  @> when (str_neq message.(description) "")
       (fun w => w @> uint32 18 @> string_ message.(description))
  @> when (str_neq message.(recipient) "") (fun w => w @> uint32 26 @> string_ message.(recipient))
  @> when (str_neq message.(amount) "") (fun w => w @> uint32 34 @> string_ message.(amount))
  @> when (str_neq message.(deposit) "") (fun w => w @> uint32 42 @> string_ message.(deposit)).

Definition decode_field {PB : Protobuf} (tag : Z) (message : t) : RM t :=
  match field_number tag with
  | 1 => v ← read_string; mret (message <| title := v |>)
  | 2 => v ← read_string; mret (message <| description := v |>)
  | 3 => v ← read_string; mret (message <| recipient := v |>)
  | 4 => v ← read_string; mret (message <| amount := v |>)
  | 5 => v ← read_string; mret (message <| deposit := v |>)
  | _ => _ ← skipType (wire_type tag); mret message
  end.

Definition decode {PB : Protobuf} (length : option Z) : RM t :=
  decode_message length base decode_field.

Definition fromJSON (object : js) : result t :=
  title' ← field_or object "title" to_string "";
  description' ← field_or object "description" to_string "";
  recipient' ← field_or object "recipient" to_string "";
  amount' ← field_or object "amount" to_string "";
  deposit' ← field_or object "deposit" to_string "";
  Ok (mk title' description' recipient' amount' deposit').

Definition toJSON (message : t) : js :=
  Obj ([("title", Str message.(title));
    ("description", Str message.(description));
    ("recipient", Str message.(recipient));
    ("amount", Str message.(amount));
    ("deposit", Str message.(deposit))]).

Record partial := mkPartial {
  p_title : option string;
  p_description : option string;
  p_recipient : option string;
  p_amount : option string;
  p_deposit : option string;
}.

Definition fromPartial (object : partial) : t := {|
  title := object.(p_title) ?? "";
  description := object.(p_description) ?? "";
  recipient := object.(p_recipient) ?? "";
  amount := object.(p_amount) ?? "";
  deposit := object.(p_deposit) ?? "";
|}.

(** The object with no property given. *)
Definition nothing : partial := mkPartial None None None None None.

(** The bytes [encode] writes. *)
Definition wire {PB : Protobuf} {PS : ProtobufSpec PB} (m : t) : bytes :=
  f_string 10 m.(title) ++
  f_string 18 m.(description) ++
  f_string 26 m.(recipient) ++
  f_string 34 m.(amount) ++
  f_string 42 m.(deposit).

Definition valid (m : t) : Prop :=
  True.

Definition encodable {PB : Protobuf} {PS : ProtobufSpec PB} (m : t) : Prop :=
  valid m ∧ small (wire m).

Definition merge (m a : t) : t := {|
  title := later_string m.(title) a.(title);
  description := later_string m.(description) a.(description);
  recipient := later_string m.(recipient) a.(recipient);
  amount := later_string m.(amount) a.(amount);
  deposit := later_string m.(deposit) a.(deposit);
|}.

(** A whole message seen as a partial one. *)
Definition full (m : t) : partial := {|
  p_title := Some m.(title);
  p_description := Some m.(description);
  p_recipient := Some m.(recipient);
  p_amount := Some m.(amount);
  p_deposit := Some m.(deposit);
|}.

(** The message as its schema declares it. *)
Definition schema (m : t) : list field :=
  [implicit 1 (VString m.(title));
   implicit 2 (VString m.(description));
   implicit 3 (VString m.(recipient));
   implicit 4 (VString m.(amount));
   implicit 5 (VString m.(deposit))].

(** The message with its default for every property that is not kept. *)
Definition only (kept : string → bool) (m : t) : t := {|
  title := if kept "title" then m.(title) else "";
  description := if kept "description" then m.(description) else "";
  recipient := if kept "recipient" then m.(recipient) else "";
  amount := if kept "amount" then m.(amount) else "";
  deposit := if kept "deposit" then m.(deposit) else "";
|}.

#[global] Instance codec {PB : Protobuf} : MessageCodec t :=
  {| msg_base := base; msg_encode := encode; msg_field := decode_field |}.

#[global] Program Instance spec {PB : Protobuf} (PS : ProtobufSpec PB) : MessageSpec PS t :=
  {| msg_wire := wire; msg_valid := valid; msg_merge := merge |}.
Next Obligation. solve_encode_wire. Qed.
Next Obligation. solve_decode_wire. Qed.
Next Obligation. solve_merge_base. Qed.
Next Obligation. intros. solve_advances decode_field. Qed.

#[global] Program Instance data : MessageData t partial :=
  {| msg_fromJSON := fromJSON; msg_toJSON := toJSON;
     msg_fromPartial := fromPartial; msg_full := full |}.
Next Obligation. solve_json fromJSON toJSON. Qed.
Next Obligation. solve_partial fromPartial full. Qed.

#[global] Instance schema_wire {PB : Protobuf} {PS : ProtobufSpec PB} : WireSchema wire schema.
Proof. solve_schema_wire wire schema. Qed.

#[global] Instance schema_merge : MergeSchema merge schema.
Proof. solve_schema_merge merge schema. Qed.

(** Its row in the table of message types. *)
Definition message {PB : Protobuf} {PS : ProtobufSpec PB} : message_type :=
  plain_message "CommunityPoolSpendProposalWithDeposit" nothing true schema only.

#[global] Instance message_lawful {PB : Protobuf} (PS : ProtobufSpec PB) : Lawful message.
Proof. solve_lawful decode_field fromJSON only. Qed.

End CommunityPoolSpendProposalWithDeposit.

(** ** [DelegatorWithdrawInfo] (cosmos/distribution/v1beta1/genesis.js) *)

Module DelegatorWithdrawInfo.

Record t := mk {
  delegatorAddress : string;
  withdrawAddress : string;
}.

#[global] Instance t_eta : Settable t := λ m, mk m.(delegatorAddress) m.(withdrawAddress).

Definition base : t := mk "" "".

Definition encode {PB : Protobuf} (message : t) (writer : Writer) : Writer :=
  writer
  @> when (str_neq message.(delegatorAddress) "")
       (fun w => w @> uint32 10 @> string_ message.(delegatorAddress))
  @> when (str_neq message.(withdrawAddress) "")
       (fun w => w @> uint32 18 @> string_ message.(withdrawAddress)).

Definition decode_field {PB : Protobuf} (tag : Z) (message : t) : RM t :=
  match field_number tag with
  | 1 => v ← read_string; mret (message <| delegatorAddress := v |>)
  | 2 => v ← read_string; mret (message <| withdrawAddress := v |>)
  | _ => _ ← skipType (wire_type tag); mret message
  end.

Definition decode {PB : Protobuf} (length : option Z) : RM t :=
  decode_message length base decode_field.

Definition fromJSON (object : js) : result t :=
  delegatorAddress' ← field_or object "delegatorAddress" to_string "";
  withdrawAddress' ← field_or object "withdrawAddress" to_string "";
  Ok (mk delegatorAddress' withdrawAddress').

Definition toJSON (message : t) : js :=
  Obj ([("delegatorAddress", Str message.(delegatorAddress));
    ("withdrawAddress", Str message.(withdrawAddress))]).

Record partial := mkPartial {
  p_delegatorAddress : option string;
  p_withdrawAddress : option string;
}.

Definition fromPartial (object : partial) : t := {|
  delegatorAddress := object.(p_delegatorAddress) ?? "";
  withdrawAddress := object.(p_withdrawAddress) ?? "";
|}.

(** The object with no property given. *)
Definition nothing : partial := mkPartial None None.

(** The bytes [encode] writes. *)
Definition wire {PB : Protobuf} {PS : ProtobufSpec PB} (m : t) : bytes :=
  f_string 10 m.(delegatorAddress) ++
  f_string 18 m.(withdrawAddress).

Definition valid (m : t) : Prop :=
  True.

Definition encodable {PB : Protobuf} {PS : ProtobufSpec PB} (m : t) : Prop :=
  valid m ∧ small (wire m).

Definition merge (m a : t) : t := {|
  delegatorAddress := later_string m.(delegatorAddress) a.(delegatorAddress);
  withdrawAddress := later_string m.(withdrawAddress) a.(withdrawAddress);
|}.

(** A whole message seen as a partial one. *)
Definition full (m : t) : partial := {|
  p_delegatorAddress := Some m.(delegatorAddress);
  p_withdrawAddress := Some m.(withdrawAddress);
|}.

(** The message as its schema declares it. *)
Definition schema (m : t) : list field :=
  [implicit 1 (VString m.(delegatorAddress));
   implicit 2 (VString m.(withdrawAddress))].

(** The message with its default for every property that is not kept. *)
Definition only (kept : string → bool) (m : t) : t := {|
  delegatorAddress := if kept "delegatorAddress" then m.(delegatorAddress) else "";
  withdrawAddress := if kept "withdrawAddress" then m.(withdrawAddress) else "";
|}.

#[global] Instance codec {PB : Protobuf} : MessageCodec t :=
  {| msg_base := base; msg_encode := encode; msg_field := decode_field |}.

#[global] Program Instance spec {PB : Protobuf} (PS : ProtobufSpec PB) : MessageSpec PS t :=
  {| msg_wire := wire; msg_valid := valid; msg_merge := merge |}.
Next Obligation. solve_encode_wire. Qed.
Next Obligation. solve_decode_wire. Qed.
Next Obligation. solve_merge_base. Qed.
Next Obligation. intros. solve_advances decode_field. Qed.

#[global] Program Instance data : MessageData t partial :=
  {| msg_fromJSON := fromJSON; msg_toJSON := toJSON;
     msg_fromPartial := fromPartial; msg_full := full |}.
Next Obligation. solve_json fromJSON toJSON. Qed.
Next Obligation. solve_partial fromPartial full. Qed.

#[global] Instance schema_wire {PB : Protobuf} {PS : ProtobufSpec PB} : WireSchema wire schema.
Proof. solve_schema_wire wire schema. Qed.

#[global] Instance schema_merge : MergeSchema merge schema.
Proof. solve_schema_merge merge schema. Qed.

(** Its row in the table of message types. *)
Definition message {PB : Protobuf} {PS : ProtobufSpec PB} : message_type :=
  plain_message "DelegatorWithdrawInfo" nothing true schema only.

#[global] Instance message_lawful {PB : Protobuf} (PS : ProtobufSpec PB) : Lawful message.
Proof. solve_lawful decode_field fromJSON only. Qed.

End DelegatorWithdrawInfo.

(** ** [ValidatorOutstandingRewardsRecord] (cosmos/distribution/v1beta1/genesis.js) *)

Module ValidatorOutstandingRewardsRecord.

Record t := mk {
  validatorAddress : string;
  outstandingRewards : list DecCoin.t;
}.

#[global] Instance t_eta : Settable t := λ m, mk m.(validatorAddress) m.(outstandingRewards).

Definition base : t := mk "" [].

Definition encode {PB : Protobuf} (message : t) (writer : Writer) : Writer :=
  writer
  @> when (str_neq message.(validatorAddress) "")
       (fun w => w @> uint32 10 @> string_ message.(validatorAddress))
  @> each message.(outstandingRewards) (fun v w => w @> uint32 18 @> fork @> DecCoin.encode v @> ldelim).

Definition decode_field {PB : Protobuf} (tag : Z) (message : t) : RM t :=
  match field_number tag with
  | 1 => v ← read_string; mret (message <| validatorAddress := v |>)
  | 2 => v ← read_nested DecCoin.decode;
         mret (message <| outstandingRewards := message.(outstandingRewards) ++ [v] |>)
  | _ => _ ← skipType (wire_type tag); mret message
  end.

Definition decode {PB : Protobuf} (length : option Z) : RM t :=
  decode_message length base decode_field.

Definition fromJSON (object : js) : result t :=
  validatorAddress' ← field_or object "validatorAddress" to_string "";
  outstandingRewards' ← field_or object "outstandingRewards" (to_list DecCoin.fromJSON) [];
  Ok (mk validatorAddress' outstandingRewards').

Definition toJSON (message : t) : js :=
  Obj ([("validatorAddress", Str message.(validatorAddress));
    ("outstandingRewards", Arr (map DecCoin.toJSON message.(outstandingRewards)))]).

Record partial := mkPartial {
  p_validatorAddress : option string;
  p_outstandingRewards : option (list DecCoin.partial);
}.

Definition fromPartial (object : partial) : t := {|
  validatorAddress := object.(p_validatorAddress) ?? "";
  outstandingRewards := map DecCoin.fromPartial (object.(p_outstandingRewards) ?? []);
|}.

(** The object with no property given. *)
Definition nothing : partial := mkPartial None None.

(** The bytes [encode] writes. *)
Definition wire {PB : Protobuf} {PS : ProtobufSpec PB} (m : t) : bytes :=
  f_string 10 m.(validatorAddress) ++
  f_repeated 18 DecCoin.wire m.(outstandingRewards).

Definition valid (m : t) : Prop :=
  Forall DecCoin.valid m.(outstandingRewards).

Definition encodable {PB : Protobuf} {PS : ProtobufSpec PB} (m : t) : Prop :=
  valid m ∧ small (wire m).

Definition merge (m a : t) : t := {|
  validatorAddress := later_string m.(validatorAddress) a.(validatorAddress);
  outstandingRewards := m.(outstandingRewards) ++ a.(outstandingRewards);
|}.

(** A whole message seen as a partial one. *)
Definition full (m : t) : partial := {|
  p_validatorAddress := Some m.(validatorAddress);
  p_outstandingRewards := Some (map DecCoin.full m.(outstandingRewards));
|}.

(** The message as its schema declares it. *)
Definition schema (m : t) : list field :=
  [implicit 1 (VString m.(validatorAddress));
   repeated 2 (message_value DecCoin.schema) m.(outstandingRewards)].

(** The message with its default for every property that is not kept. *)
Definition only (kept : string → bool) (m : t) : t := {|
  validatorAddress := if kept "validatorAddress" then m.(validatorAddress) else "";
  outstandingRewards := if kept "outstandingRewards" then m.(outstandingRewards) else [];
|}.

#[global] Instance codec {PB : Protobuf} : MessageCodec t :=
  {| msg_base := base; msg_encode := encode; msg_field := decode_field |}.

#[global] Program Instance spec {PB : Protobuf} (PS : ProtobufSpec PB) : MessageSpec PS t :=
  {| msg_wire := wire; msg_valid := valid; msg_merge := merge |}.
Next Obligation. solve_encode_wire. Qed.
Next Obligation. solve_decode_wire. Qed.
Next Obligation. solve_merge_base. Qed.
Next Obligation. intros. solve_advances decode_field. Qed.

#[global] Program Instance data : MessageData t partial :=
  {| msg_fromJSON := fromJSON; msg_toJSON := toJSON;
     msg_fromPartial := fromPartial; msg_full := full |}.
Next Obligation. solve_json fromJSON toJSON. Qed.
Next Obligation. solve_partial fromPartial full. Qed.

#[global] Instance schema_wire {PB : Protobuf} {PS : ProtobufSpec PB} : WireSchema wire schema.
Proof. solve_schema_wire wire schema. Qed.

#[global] Instance schema_merge : MergeSchema merge schema.
Proof. solve_schema_merge merge schema. Qed.

(** Its row in the table of message types. *)
Definition message {PB : Protobuf} {PS : ProtobufSpec PB} : message_type :=
  plain_message "ValidatorOutstandingRewardsRecord" nothing true schema only.

#[global] Instance message_lawful {PB : Protobuf} (PS : ProtobufSpec PB) : Lawful message.
Proof. solve_lawful decode_field fromJSON only. Qed.

End ValidatorOutstandingRewardsRecord.

(** ** [ValidatorAccumulatedCommissionRecord] (cosmos/distribution/v1beta1/genesis.js) *)

Module ValidatorAccumulatedCommissionRecord.

Record t := mk {
  validatorAddress : string;
  accumulated : option ValidatorAccumulatedCommission.t;
}.

#[global] Instance t_eta : Settable t := λ m, mk m.(validatorAddress) m.(accumulated).

Definition base : t := mk "" None.

Definition encode {PB : Protobuf} (message : t) (writer : Writer) : Writer :=
  writer
  @> when (str_neq message.(validatorAddress) "")
       (fun w => w @> uint32 10 @> string_ message.(validatorAddress))
  @> defined message.(accumulated) (fun v w => w @> uint32 18 @> fork @> ValidatorAccumulatedCommission.encode v @> ldelim).

Definition decode_field {PB : Protobuf} (tag : Z) (message : t) : RM t :=
  match field_number tag with
  | 1 => v ← read_string; mret (message <| validatorAddress := v |>)
  | 2 => v ← read_nested ValidatorAccumulatedCommission.decode;
         mret (message <| accumulated := Some v |>)
  | _ => _ ← skipType (wire_type tag); mret message
  end.

Definition decode {PB : Protobuf} (length : option Z) : RM t :=
  decode_message length base decode_field.

Definition fromJSON (object : js) : result t :=
  validatorAddress' ← field_or object "validatorAddress" to_string "";
  accumulated' ← field_or object "accumulated" (to_some ValidatorAccumulatedCommission.fromJSON) None;
  Ok (mk validatorAddress' accumulated').

Definition toJSON (message : t) : js :=
  Obj ([("validatorAddress", Str message.(validatorAddress))] ++
   prop_opt "accumulated" ValidatorAccumulatedCommission.toJSON message.(accumulated)).

Record partial := mkPartial {
  p_validatorAddress : option string;
  p_accumulated : option ValidatorAccumulatedCommission.partial;
}.

Definition fromPartial (object : partial) : t := {|
  validatorAddress := object.(p_validatorAddress) ?? "";
  accumulated := ValidatorAccumulatedCommission.fromPartial <$> object.(p_accumulated);
|}.

(** The object with no property given. *)
Definition nothing : partial := mkPartial None None.

(** The bytes [encode] writes. *)
Definition wire {PB : Protobuf} {PS : ProtobufSpec PB} (m : t) : bytes :=
  f_string 10 m.(validatorAddress) ++
  f_message 18 ValidatorAccumulatedCommission.wire m.(accumulated).

Definition valid (m : t) : Prop :=
  from_option ValidatorAccumulatedCommission.valid True m.(accumulated).

Definition encodable {PB : Protobuf} {PS : ProtobufSpec PB} (m : t) : Prop :=
  valid m ∧ small (wire m).

Definition merge (m a : t) : t := {|
  validatorAddress := later_string m.(validatorAddress) a.(validatorAddress);
  accumulated := later_message m.(accumulated) a.(accumulated);
|}.

(** A whole message seen as a partial one. *)
Definition full (m : t) : partial := {|
  p_validatorAddress := Some m.(validatorAddress);
  p_accumulated := ValidatorAccumulatedCommission.full <$> m.(accumulated);
|}.

(** The message as its schema declares it. *)
Definition schema (m : t) : list field :=
  [implicit 1 (VString m.(validatorAddress));
   singular 2 Optional (message_value ValidatorAccumulatedCommission.schema) m.(accumulated)].

(** The message with its default for every property that is not kept. *)
Definition only (kept : string → bool) (m : t) : t := {|
  validatorAddress := if kept "validatorAddress" then m.(validatorAddress) else "";
  accumulated := if kept "accumulated" then m.(accumulated) else None;
|}.

#[global] Instance codec {PB : Protobuf} : MessageCodec t :=
  {| msg_base := base; msg_encode := encode; msg_field := decode_field |}.

#[global] Program Instance spec {PB : Protobuf} (PS : ProtobufSpec PB) : MessageSpec PS t :=
  {| msg_wire := wire; msg_valid := valid; msg_merge := merge |}.
Next Obligation. solve_encode_wire. Qed.
Next Obligation. solve_decode_wire. Qed.
Next Obligation. solve_merge_base. Qed.
Next Obligation. intros. solve_advances decode_field. Qed.

#[global] Program Instance data : MessageData t partial :=
  {| msg_fromJSON := fromJSON; msg_toJSON := toJSON;
     msg_fromPartial := fromPartial; msg_full := full |}.
Next Obligation. solve_json fromJSON toJSON. Qed.
Next Obligation. solve_partial fromPartial full. Qed.

#[global] Instance schema_wire {PB : Protobuf} {PS : ProtobufSpec PB} : WireSchema wire schema.
Proof. solve_schema_wire wire schema. Qed.

#[global] Instance schema_merge : MergeSchema merge schema.
Proof. solve_schema_merge merge schema. Qed.

(** Its row in the table of message types. *)
Definition message {PB : Protobuf} {PS : ProtobufSpec PB} : message_type :=
  plain_message "ValidatorAccumulatedCommissionRecord" nothing true schema only.

#[global] Instance message_lawful {PB : Protobuf} (PS : ProtobufSpec PB) : Lawful message.
Proof. solve_lawful decode_field fromJSON only. Qed.

End ValidatorAccumulatedCommissionRecord.

(** ** [ValidatorHistoricalRewardsRecord] (cosmos/distribution/v1beta1/genesis.js) *)

Module ValidatorHistoricalRewardsRecord.

Record t := mk {
  validatorAddress : string;
  period : number;
  rewards : option ValidatorHistoricalRewards.t;
}.

#[global] Instance t_eta : Settable t := λ m, mk m.(validatorAddress) m.(period) m.(rewards).

Definition base : t := mk "" 0 None.

Definition encode {PB : Protobuf} (message : t) (writer : Writer) : Writer :=
  writer
  @> when (str_neq message.(validatorAddress) "")
       (fun w => w @> uint32 10 @> string_ message.(validatorAddress))
  @> when (num_neq message.(period) 0) (fun w => w @> uint32 16 @> uint64 message.(period))
  @> defined message.(rewards) (fun v w => w @> uint32 26 @> fork @> ValidatorHistoricalRewards.encode v @> ldelim).

Definition decode_field {PB : Protobuf} (tag : Z) (message : t) : RM t :=
  match field_number tag with
  | 1 => v ← read_string; mret (message <| validatorAddress := v |>)
  | 2 => v ← read_number read_uint64; mret (message <| period := v |>)
  | 3 => v ← read_nested ValidatorHistoricalRewards.decode; mret (message <| rewards := Some v |>)
  | _ => _ ← skipType (wire_type tag); mret message
  end.

Definition decode {PB : Protobuf} (length : option Z) : RM t :=
  decode_message length base decode_field.

Definition fromJSON (object : js) : result t :=
  validatorAddress' ← field_or object "validatorAddress" to_string "";
  period' ← field_or object "period" js_Number 0;
  rewards' ← field_or object "rewards" (to_some ValidatorHistoricalRewards.fromJSON) None;
  Ok (mk validatorAddress' period' rewards').

Definition toJSON (message : t) : js :=
  Obj ([("validatorAddress", Str message.(validatorAddress));
    ("period", Num message.(period))] ++
   prop_opt "rewards" ValidatorHistoricalRewards.toJSON message.(rewards)).

Record partial := mkPartial {
  p_validatorAddress : option string;
  p_period : option number;
  p_rewards : option ValidatorHistoricalRewards.partial;
}.

Definition fromPartial (object : partial) : t := {|
  validatorAddress := object.(p_validatorAddress) ?? "";
  period := object.(p_period) ?? Int 0;
  rewards := ValidatorHistoricalRewards.fromPartial <$> object.(p_rewards);
|}.

(** The object with no property given. *)
Definition nothing : partial := mkPartial None None None.

(** The bytes [encode] writes. *)
Definition wire {PB : Protobuf} {PS : ProtobufSpec PB} (m : t) : bytes :=
  f_string 10 m.(validatorAddress) ++
  f_number e_uint64 16 m.(period) ++
  f_message 26 ValidatorHistoricalRewards.wire m.(rewards).

Definition valid (m : t) : Prop :=
  uint64_ok m.(period) ∧ from_option ValidatorHistoricalRewards.valid True m.(rewards).

Definition encodable {PB : Protobuf} {PS : ProtobufSpec PB} (m : t) : Prop :=
  valid m ∧ small (wire m).

Definition merge (m a : t) : t := {|
  validatorAddress := later_string m.(validatorAddress) a.(validatorAddress);
  period := later_number m.(period) a.(period);
  rewards := later_message m.(rewards) a.(rewards);
|}.

(** A whole message seen as a partial one. *)
Definition full (m : t) : partial := {|
  p_validatorAddress := Some m.(validatorAddress);
  p_period := Some m.(period);
  p_rewards := ValidatorHistoricalRewards.full <$> m.(rewards);
|}.

(** The message as its schema declares it. *)
Definition schema (m : t) : list field :=
  [implicit 1 (VString m.(validatorAddress));
   implicit 2 (VInt Uint64 m.(period));
   singular 3 Optional (message_value ValidatorHistoricalRewards.schema) m.(rewards)].

(** The message with its default for every property that is not kept. *)
Definition only (kept : string → bool) (m : t) : t := {|
  validatorAddress := if kept "validatorAddress" then m.(validatorAddress) else "";
  period := if kept "period" then m.(period) else Int 0;
  rewards := if kept "rewards" then m.(rewards) else None;
|}.

#[global] Instance codec {PB : Protobuf} : MessageCodec t :=
  {| msg_base := base; msg_encode := encode; msg_field := decode_field |}.

#[global] Program Instance spec {PB : Protobuf} (PS : ProtobufSpec PB) : MessageSpec PS t :=
  {| msg_wire := wire; msg_valid := valid; msg_merge := merge |}.
Next Obligation. solve_encode_wire. Qed.
Next Obligation. solve_decode_wire. Qed.
Next Obligation. solve_merge_base. Qed.
Next Obligation. intros. solve_advances decode_field. Qed.

#[global] Program Instance data : MessageData t partial :=
  {| msg_fromJSON := fromJSON; msg_toJSON := toJSON;
     msg_fromPartial := fromPartial; msg_full := full |}.
Next Obligation. solve_json fromJSON toJSON. Qed.
Next Obligation. solve_partial fromPartial full. Qed.

#[global] Instance schema_wire {PB : Protobuf} {PS : ProtobufSpec PB} : WireSchema wire schema.
Proof. solve_schema_wire wire schema. Qed.

#[global] Instance schema_merge : MergeSchema merge schema.
Proof. solve_schema_merge merge schema. Qed.

(** Its row in the table of message types. *)
Definition message {PB : Protobuf} {PS : ProtobufSpec PB} : message_type :=
  plain_message "ValidatorHistoricalRewardsRecord" nothing true schema only.

#[global] Instance message_lawful {PB : Protobuf} (PS : ProtobufSpec PB) : Lawful message.
Proof. solve_lawful decode_field fromJSON only. Qed.

End ValidatorHistoricalRewardsRecord.

(** ** [ValidatorCurrentRewardsRecord] (cosmos/distribution/v1beta1/genesis.js) *)

Module ValidatorCurrentRewardsRecord.

Record t := mk {
  validatorAddress : string;
  rewards : option ValidatorCurrentRewards.t;
}.

#[global] Instance t_eta : Settable t := λ m, mk m.(validatorAddress) m.(rewards).

Definition base : t := mk "" None.

Definition encode {PB : Protobuf} (message : t) (writer : Writer) : Writer :=
  writer
  @> when (str_neq message.(validatorAddress) "")
       (fun w => w @> uint32 10 @> string_ message.(validatorAddress))
  @> defined message.(rewards) (fun v w => w @> uint32 18 @> fork @> ValidatorCurrentRewards.encode v @> ldelim).

Definition decode_field {PB : Protobuf} (tag : Z) (message : t) : RM t :=
  match field_number tag with
  | 1 => v ← read_string; mret (message <| validatorAddress := v |>)
  | 2 => v ← read_nested ValidatorCurrentRewards.decode; mret (message <| rewards := Some v |>)
  | _ => _ ← skipType (wire_type tag); mret message
  end.

Definition decode {PB : Protobuf} (length : option Z) : RM t :=
  decode_message length base decode_field.

Definition fromJSON (object : js) : result t :=
  validatorAddress' ← field_or object "validatorAddress" to_string "";
  rewards' ← field_or object "rewards" (to_some ValidatorCurrentRewards.fromJSON) None;
  Ok (mk validatorAddress' rewards').

Definition toJSON (message : t) : js :=
  Obj ([("validatorAddress", Str message.(validatorAddress))] ++
   prop_opt "rewards" ValidatorCurrentRewards.toJSON message.(rewards)).

Record partial := mkPartial {
  p_validatorAddress : option string;
  p_rewards : option ValidatorCurrentRewards.partial;
}.

Definition fromPartial (object : partial) : t := {|
  validatorAddress := object.(p_validatorAddress) ?? "";
  rewards := ValidatorCurrentRewards.fromPartial <$> object.(p_rewards);
|}.

(** The object with no property given. *)
Definition nothing : partial := mkPartial None None.

(** The bytes [encode] writes. *)
Definition wire {PB : Protobuf} {PS : ProtobufSpec PB} (m : t) : bytes :=
  f_string 10 m.(validatorAddress) ++
  f_message 18 ValidatorCurrentRewards.wire m.(rewards).

Definition valid (m : t) : Prop :=
  from_option ValidatorCurrentRewards.valid True m.(rewards).

Definition encodable {PB : Protobuf} {PS : ProtobufSpec PB} (m : t) : Prop :=
  valid m ∧ small (wire m).

Definition merge (m a : t) : t := {|
  validatorAddress := later_string m.(validatorAddress) a.(validatorAddress);
  rewards := later_message m.(rewards) a.(rewards);
|}.

(** A whole message seen as a partial one. *)
Definition full (m : t) : partial := {|
  p_validatorAddress := Some m.(validatorAddress);
  p_rewards := ValidatorCurrentRewards.full <$> m.(rewards);
|}.

(** The message as its schema declares it. *)
Definition schema (m : t) : list field :=
  [implicit 1 (VString m.(validatorAddress));
   singular 2 Optional (message_value ValidatorCurrentRewards.schema) m.(rewards)].

(** The message with its default for every property that is not kept. *)
Definition only (kept : string → bool) (m : t) : t := {|
  validatorAddress := if kept "validatorAddress" then m.(validatorAddress) else "";
  rewards := if kept "rewards" then m.(rewards) else None;
|}.

#[global] Instance codec {PB : Protobuf} : MessageCodec t :=
  {| msg_base := base; msg_encode := encode; msg_field := decode_field |}.

#[global] Program Instance spec {PB : Protobuf} (PS : ProtobufSpec PB) : MessageSpec PS t :=
  {| msg_wire := wire; msg_valid := valid; msg_merge := merge |}.
Next Obligation. solve_encode_wire. Qed.
Next Obligation. solve_decode_wire. Qed.
Next Obligation. solve_merge_base. Qed.
Next Obligation. intros. solve_advances decode_field. Qed.

#[global] Program Instance data : MessageData t partial :=
  {| msg_fromJSON := fromJSON; msg_toJSON := toJSON;
     msg_fromPartial := fromPartial; msg_full := full |}.
Next Obligation. solve_json fromJSON toJSON. Qed.
Next Obligation. solve_partial fromPartial full. Qed.

#[global] Instance schema_wire {PB : Protobuf} {PS : ProtobufSpec PB} : WireSchema wire schema.
Proof. solve_schema_wire wire schema. Qed.

#[global] Instance schema_merge : MergeSchema merge schema.
Proof. solve_schema_merge merge schema. Qed.

(** Its row in the table of message types. *)
Definition message {PB : Protobuf} {PS : ProtobufSpec PB} : message_type :=
  plain_message "ValidatorCurrentRewardsRecord" nothing true schema only.

#[global] Instance message_lawful {PB : Protobuf} (PS : ProtobufSpec PB) : Lawful message.
Proof. solve_lawful decode_field fromJSON only. Qed.

End ValidatorCurrentRewardsRecord.

(** ** [DelegatorStartingInfoRecord] (cosmos/distribution/v1beta1/genesis.js) *)

Module DelegatorStartingInfoRecord.

Record t := mk {
  delegatorAddress : string;
  validatorAddress : string;
  startingInfo : option DelegatorStartingInfo.t;
}.

#[global] Instance t_eta : Settable t := λ m, mk m.(delegatorAddress) m.(validatorAddress)
  m.(startingInfo).

Definition base : t := mk "" "" None.

Definition encode {PB : Protobuf} (message : t) (writer : Writer) : Writer :=
  writer
  @> when (str_neq message.(delegatorAddress) "")
       (fun w => w @> uint32 10 @> string_ message.(delegatorAddress))
  @> when (str_neq message.(validatorAddress) "")
       (fun w => w @> uint32 18 @> string_ message.(validatorAddress))
  @> defined message.(startingInfo) (fun v w => w @> uint32 26 @> fork @> DelegatorStartingInfo.encode v @> ldelim).

Definition decode_field {PB : Protobuf} (tag : Z) (message : t) : RM t :=
  match field_number tag with
  | 1 => v ← read_string; mret (message <| delegatorAddress := v |>)
  | 2 => v ← read_string; mret (message <| validatorAddress := v |>)
  | 3 => v ← read_nested DelegatorStartingInfo.decode; mret (message <| startingInfo := Some v |>)
  | _ => _ ← skipType (wire_type tag); mret message
  end.

Definition decode {PB : Protobuf} (length : option Z) : RM t :=
  decode_message length base decode_field.

Definition fromJSON (object : js) : result t :=
  delegatorAddress' ← field_or object "delegatorAddress" to_string "";
  validatorAddress' ← field_or object "validatorAddress" to_string "";
  startingInfo' ← field_or object "startingInfo" (to_some DelegatorStartingInfo.fromJSON) None;
  Ok (mk delegatorAddress' validatorAddress' startingInfo').

Definition toJSON (message : t) : js :=
  Obj ([("delegatorAddress", Str message.(delegatorAddress));
    ("validatorAddress", Str message.(validatorAddress))] ++
   prop_opt "startingInfo" DelegatorStartingInfo.toJSON message.(startingInfo)).

Record partial := mkPartial {
  p_delegatorAddress : option string;
  p_validatorAddress : option string;
  p_startingInfo : option DelegatorStartingInfo.partial;
}.

Definition fromPartial (object : partial) : t := {|
  delegatorAddress := object.(p_delegatorAddress) ?? "";
  validatorAddress := object.(p_validatorAddress) ?? "";
  startingInfo := DelegatorStartingInfo.fromPartial <$> object.(p_startingInfo);
|}.

(** The object with no property given. *)
Definition nothing : partial := mkPartial None None None.

(** The bytes [encode] writes. *)
Definition wire {PB : Protobuf} {PS : ProtobufSpec PB} (m : t) : bytes :=
  f_string 10 m.(delegatorAddress) ++
  f_string 18 m.(validatorAddress) ++
  f_message 26 DelegatorStartingInfo.wire m.(startingInfo).

Definition valid (m : t) : Prop :=
  from_option DelegatorStartingInfo.valid True m.(startingInfo).

Definition encodable {PB : Protobuf} {PS : ProtobufSpec PB} (m : t) : Prop :=
  valid m ∧ small (wire m).

Definition merge (m a : t) : t := {|
  delegatorAddress := later_string m.(delegatorAddress) a.(delegatorAddress);
  validatorAddress := later_string m.(validatorAddress) a.(validatorAddress);
  startingInfo := later_message m.(startingInfo) a.(startingInfo);
|}.

(** A whole message seen as a partial one. *)
Definition full (m : t) : partial := {|
  p_delegatorAddress := Some m.(delegatorAddress);
  p_validatorAddress := Some m.(validatorAddress);
  p_startingInfo := DelegatorStartingInfo.full <$> m.(startingInfo);
|}.

(** The message as its schema declares it. *)
Definition schema (m : t) : list field :=
  [implicit 1 (VString m.(delegatorAddress));
   implicit 2 (VString m.(validatorAddress));
   singular 3 Optional (message_value DelegatorStartingInfo.schema) m.(startingInfo)].

(** The message with its default for every property that is not kept. *)
Definition only (kept : string → bool) (m : t) : t := {|
  delegatorAddress := if kept "delegatorAddress" then m.(delegatorAddress) else "";
  validatorAddress := if kept "validatorAddress" then m.(validatorAddress) else "";
  startingInfo := if kept "startingInfo" then m.(startingInfo) else None;
|}.

#[global] Instance codec {PB : Protobuf} : MessageCodec t :=
  {| msg_base := base; msg_encode := encode; msg_field := decode_field |}.

#[global] Program Instance spec {PB : Protobuf} (PS : ProtobufSpec PB) : MessageSpec PS t :=
  {| msg_wire := wire; msg_valid := valid; msg_merge := merge |}.
Next Obligation. solve_encode_wire. Qed.
Next Obligation. solve_decode_wire. Qed.
Next Obligation. solve_merge_base. Qed.
Next Obligation. intros. solve_advances decode_field. Qed.

#[global] Program Instance data : MessageData t partial :=
  {| msg_fromJSON := fromJSON; msg_toJSON := toJSON;
     msg_fromPartial := fromPartial; msg_full := full |}.
Next Obligation. solve_json fromJSON toJSON. Qed.
Next Obligation. solve_partial fromPartial full. Qed.

#[global] Instance schema_wire {PB : Protobuf} {PS : ProtobufSpec PB} : WireSchema wire schema.
Proof. solve_schema_wire wire schema. Qed.

#[global] Instance schema_merge : MergeSchema merge schema.
Proof. solve_schema_merge merge schema. Qed.

(** Its row in the table of message types. *)
Definition message {PB : Protobuf} {PS : ProtobufSpec PB} : message_type :=
  plain_message "DelegatorStartingInfoRecord" nothing true schema only.

#[global] Instance message_lawful {PB : Protobuf} (PS : ProtobufSpec PB) : Lawful message.
Proof. solve_lawful decode_field fromJSON only. Qed.

End DelegatorStartingInfoRecord.

(** ** [ValidatorSlashEventRecord] (cosmos/distribution/v1beta1/genesis.js) *)

Module ValidatorSlashEventRecord.

Record t := mk {
  validatorAddress : string;
  height : number;
  period : number;
  validatorSlashEvent : option ValidatorSlashEvent.t;
}.

#[global] Instance t_eta : Settable t := λ m, mk m.(validatorAddress) m.(height) m.(period)
  m.(validatorSlashEvent).

Definition base : t := mk "" 0 0 None.

Definition encode {PB : Protobuf} (message : t) (writer : Writer) : Writer :=
  writer
  @> when (str_neq message.(validatorAddress) "")
       (fun w => w @> uint32 10 @> string_ message.(validatorAddress))
  @> when (num_neq message.(height) 0) (fun w => w @> uint32 16 @> uint64 message.(height))
  @> when (num_neq message.(period) 0) (fun w => w @> uint32 24 @> uint64 message.(period))
  @> defined message.(validatorSlashEvent) (fun v w => w @> uint32 34 @> fork @> ValidatorSlashEvent.encode v @> ldelim).

Definition decode_field {PB : Protobuf} (tag : Z) (message : t) : RM t :=
  match field_number tag with
  | 1 => v ← read_string; mret (message <| validatorAddress := v |>)
  | 2 => v ← read_number read_uint64; mret (message <| height := v |>)
  | 3 => v ← read_number read_uint64; mret (message <| period := v |>)
  | 4 => v ← read_nested ValidatorSlashEvent.decode;
         mret (message <| validatorSlashEvent := Some v |>)
  | _ => _ ← skipType (wire_type tag); mret message
  end.

Definition decode {PB : Protobuf} (length : option Z) : RM t :=
  decode_message length base decode_field.

Definition fromJSON (object : js) : result t :=
  validatorAddress' ← field_or object "validatorAddress" to_string "";
  height' ← field_or object "height" js_Number 0;
  period' ← field_or object "period" js_Number 0;
  validatorSlashEvent' ← field_or object "validatorSlashEvent" (to_some ValidatorSlashEvent.fromJSON) None;
  Ok (mk validatorAddress' height' period' validatorSlashEvent').

Definition toJSON (message : t) : js :=
  Obj ([("validatorAddress", Str message.(validatorAddress));
    ("height", Num message.(height));
    ("period", Num message.(period))] ++
   prop_opt "validatorSlashEvent" ValidatorSlashEvent.toJSON message.(validatorSlashEvent)).

Record partial := mkPartial {
  p_validatorAddress : option string;
  p_height : option number;
  p_period : option number;
  p_validatorSlashEvent : option ValidatorSlashEvent.partial;
}.

Definition fromPartial (object : partial) : t := {|
  validatorAddress := object.(p_validatorAddress) ?? "";
  height := object.(p_height) ?? Int 0;
  period := object.(p_period) ?? Int 0;
  validatorSlashEvent := ValidatorSlashEvent.fromPartial <$> object.(p_validatorSlashEvent);
|}.

(** The object with no property given. *)
Definition nothing : partial := mkPartial None None None None.

(** The bytes [encode] writes. *)
Definition wire {PB : Protobuf} {PS : ProtobufSpec PB} (m : t) : bytes :=
  f_string 10 m.(validatorAddress) ++
  f_number e_uint64 16 m.(height) ++
  f_number e_uint64 24 m.(period) ++
  f_message 34 ValidatorSlashEvent.wire m.(validatorSlashEvent).

Definition valid (m : t) : Prop :=
  uint64_ok m.(height) ∧ uint64_ok m.(period) ∧ from_option ValidatorSlashEvent.valid True m.(validatorSlashEvent).

Definition encodable {PB : Protobuf} {PS : ProtobufSpec PB} (m : t) : Prop :=
  valid m ∧ small (wire m).

Definition merge (m a : t) : t := {|
  validatorAddress := later_string m.(validatorAddress) a.(validatorAddress);
  height := later_number m.(height) a.(height);
  period := later_number m.(period) a.(period);
  validatorSlashEvent := later_message m.(validatorSlashEvent) a.(validatorSlashEvent);
|}.

(** A whole message seen as a partial one. *)
Definition full (m : t) : partial := {|
  p_validatorAddress := Some m.(validatorAddress);
  p_height := Some m.(height);
  p_period := Some m.(period);
  p_validatorSlashEvent := ValidatorSlashEvent.full <$> m.(validatorSlashEvent);
|}.

(** The message as its schema declares it. *)
Definition schema (m : t) : list field :=
  [implicit 1 (VString m.(validatorAddress));
   implicit 2 (VInt Uint64 m.(height));
   implicit 3 (VInt Uint64 m.(period));
   singular 4 Optional (message_value ValidatorSlashEvent.schema) m.(validatorSlashEvent)].

(** The message with its default for every property that is not kept. *)
Definition only (kept : string → bool) (m : t) : t := {|
  validatorAddress := if kept "validatorAddress" then m.(validatorAddress) else "";
  height := if kept "height" then m.(height) else Int 0;
  period := if kept "period" then m.(period) else Int 0;
  validatorSlashEvent := if kept "validatorSlashEvent" then m.(validatorSlashEvent) else None;
|}.

#[global] Instance codec {PB : Protobuf} : MessageCodec t :=
  {| msg_base := base; msg_encode := encode; msg_field := decode_field |}.

#[global] Program Instance spec {PB : Protobuf} (PS : ProtobufSpec PB) : MessageSpec PS t :=
  {| msg_wire := wire; msg_valid := valid; msg_merge := merge |}.
Next Obligation. solve_encode_wire. Qed.
Next Obligation. solve_decode_wire. Qed.
Next Obligation. solve_merge_base. Qed.
Next Obligation. intros. solve_advances decode_field. Qed.

#[global] Program Instance data : MessageData t partial :=
  {| msg_fromJSON := fromJSON; msg_toJSON := toJSON;
     msg_fromPartial := fromPartial; msg_full := full |}.
Next Obligation. solve_json fromJSON toJSON. Qed.
Next Obligation. solve_partial fromPartial full. Qed.

#[global] Instance schema_wire {PB : Protobuf} {PS : ProtobufSpec PB} : WireSchema wire schema.
Proof. solve_schema_wire wire schema. Qed.

#[global] Instance schema_merge : MergeSchema merge schema.
Proof. solve_schema_merge merge schema. Qed.

(** Its row in the table of message types. *)
Definition message {PB : Protobuf} {PS : ProtobufSpec PB} : message_type :=
  plain_message "ValidatorSlashEventRecord" nothing true schema only.

#[global] Instance message_lawful {PB : Protobuf} (PS : ProtobufSpec PB) : Lawful message.
Proof. solve_lawful decode_field fromJSON only. Qed.

End ValidatorSlashEventRecord.

(** ** [GenesisState] (cosmos/distribution/v1beta1/genesis.js) *)

Module GenesisState.

Record t := mk {
  params : option Params.t;
  feePool : option FeePool.t;
  delegatorWithdrawInfos : list DelegatorWithdrawInfo.t;
  previousProposer : string;
  outstandingRewards : list ValidatorOutstandingRewardsRecord.t;
  validatorAccumulatedCommissions : list ValidatorAccumulatedCommissionRecord.t;
  validatorHistoricalRewards : list ValidatorHistoricalRewardsRecord.t;
  validatorCurrentRewards : list ValidatorCurrentRewardsRecord.t;
  delegatorStartingInfos : list DelegatorStartingInfoRecord.t;
  validatorSlashEvents : list ValidatorSlashEventRecord.t;
}.

#[global] Instance t_eta : Settable t := λ m, mk m.(params) m.(feePool)
  m.(delegatorWithdrawInfos) m.(previousProposer) m.(outstandingRewards)
  m.(validatorAccumulatedCommissions) m.(validatorHistoricalRewards) m.(validatorCurrentRewards)
  m.(delegatorStartingInfos) m.(validatorSlashEvents).

Definition base : t := mk None None [] "" [] [] [] [] [] [].

Definition encode {PB : Protobuf} (message : t) (writer : Writer) : Writer :=
  writer
  @> defined message.(params) (fun v w => w @> uint32 10 @> fork @> Params.encode v @> ldelim)
  @> defined message.(feePool) (fun v w => w @> uint32 18 @> fork @> FeePool.encode v @> ldelim)
  @> each message.(delegatorWithdrawInfos) (fun v w => w @> uint32 26 @> fork @> DelegatorWithdrawInfo.encode v @> ldelim)
  @> when (str_neq message.(previousProposer) "")
       (fun w => w @> uint32 34 @> string_ message.(previousProposer))
  @> each message.(outstandingRewards) (fun v w => w @> uint32 42 @> fork @> ValidatorOutstandingRewardsRecord.encode v @> ldelim)
  @> each message.(validatorAccumulatedCommissions) (fun v w => w @> uint32 50 @> fork @> ValidatorAccumulatedCommissionRecord.encode v @> ldelim)
  @> each message.(validatorHistoricalRewards) (fun v w => w @> uint32 58 @> fork @> ValidatorHistoricalRewardsRecord.encode v @> ldelim)
  @> each message.(validatorCurrentRewards) (fun v w => w @> uint32 66 @> fork @> ValidatorCurrentRewardsRecord.encode v @> ldelim)
  @> each message.(delegatorStartingInfos) (fun v w => w @> uint32 74 @> fork @> DelegatorStartingInfoRecord.encode v @> ldelim)
  @> each message.(validatorSlashEvents) (fun v w => w @> uint32 82 @> fork @> ValidatorSlashEventRecord.encode v @> ldelim).

Definition decode_field {PB : Protobuf} (tag : Z) (message : t) : RM t :=
  match field_number tag with
  | 1 => v ← read_nested Params.decode; mret (message <| params := Some v |>)
  | 2 => v ← read_nested FeePool.decode; mret (message <| feePool := Some v |>)
  | 3 => v ← read_nested DelegatorWithdrawInfo.decode;
         mret (message <| delegatorWithdrawInfos := message.(delegatorWithdrawInfos) ++ [v] |>)
  | 4 => v ← read_string; mret (message <| previousProposer := v |>)
  | 5 => v ← read_nested ValidatorOutstandingRewardsRecord.decode;
         mret (message <| outstandingRewards := message.(outstandingRewards) ++ [v] |>)
  | 6 => v ← read_nested ValidatorAccumulatedCommissionRecord.decode;
         mret (message <| validatorAccumulatedCommissions := message.(validatorAccumulatedCommissions) ++ [v] |>)
  | 7 => v ← read_nested ValidatorHistoricalRewardsRecord.decode;
         mret (message <| validatorHistoricalRewards := message.(validatorHistoricalRewards) ++ [v] |>)
  | 8 => v ← read_nested ValidatorCurrentRewardsRecord.decode;
         mret (message <| validatorCurrentRewards := message.(validatorCurrentRewards) ++ [v] |>)
  | 9 => v ← read_nested DelegatorStartingInfoRecord.decode;
         mret (message <| delegatorStartingInfos := message.(delegatorStartingInfos) ++ [v] |>)
  | 10 => v ← read_nested ValidatorSlashEventRecord.decode;
         mret (message <| validatorSlashEvents := message.(validatorSlashEvents) ++ [v] |>)
  | _ => _ ← skipType (wire_type tag); mret message
  end.

Definition decode {PB : Protobuf} (length : option Z) : RM t :=
  decode_message length base decode_field.

Definition fromJSON (object : js) : result t :=
  params' ← field_or object "params" (to_some Params.fromJSON) None;
  feePool' ← field_or object "feePool" (to_some FeePool.fromJSON) None;
  delegatorWithdrawInfos' ← field_or object "delegatorWithdrawInfos" (to_list DelegatorWithdrawInfo.fromJSON) [];
  previousProposer' ← field_or object "previousProposer" to_string "";
  outstandingRewards' ← field_or object "outstandingRewards" (to_list ValidatorOutstandingRewardsRecord.fromJSON) [];
  validatorAccumulatedCommissions' ← field_or object "validatorAccumulatedCommissions" (to_list ValidatorAccumulatedCommissionRecord.fromJSON) [];
  validatorHistoricalRewards' ← field_or object "validatorHistoricalRewards" (to_list ValidatorHistoricalRewardsRecord.fromJSON) [];
  validatorCurrentRewards' ← field_or object "validatorCurrentRewards" (to_list ValidatorCurrentRewardsRecord.fromJSON) [];
  delegatorStartingInfos' ← field_or object "delegatorStartingInfos" (to_list DelegatorStartingInfoRecord.fromJSON) [];
  validatorSlashEvents' ← field_or object "validatorSlashEvents" (to_list ValidatorSlashEventRecord.fromJSON) [];
  Ok (mk params' feePool' delegatorWithdrawInfos' previousProposer' outstandingRewards'
    validatorAccumulatedCommissions' validatorHistoricalRewards' validatorCurrentRewards'
    delegatorStartingInfos' validatorSlashEvents').

Definition toJSON (message : t) : js :=
  Obj (prop_opt "params" Params.toJSON message.(params) ++
   prop_opt "feePool" FeePool.toJSON message.(feePool) ++
   [("delegatorWithdrawInfos", Arr (map DelegatorWithdrawInfo.toJSON message.(delegatorWithdrawInfos)));
    ("previousProposer", Str message.(previousProposer));
    ("outstandingRewards", Arr (map ValidatorOutstandingRewardsRecord.toJSON message.(outstandingRewards)));
    ("validatorAccumulatedCommissions", Arr (map ValidatorAccumulatedCommissionRecord.toJSON message.(validatorAccumulatedCommissions)));
    ("validatorHistoricalRewards", Arr (map ValidatorHistoricalRewardsRecord.toJSON message.(validatorHistoricalRewards)));
    ("validatorCurrentRewards", Arr (map ValidatorCurrentRewardsRecord.toJSON message.(validatorCurrentRewards)));
    ("delegatorStartingInfos", Arr (map DelegatorStartingInfoRecord.toJSON message.(delegatorStartingInfos)));
    ("validatorSlashEvents", Arr (map ValidatorSlashEventRecord.toJSON message.(validatorSlashEvents)))]).

Record partial := mkPartial {
  p_params : option Params.partial;
  p_feePool : option FeePool.partial;
  p_delegatorWithdrawInfos : option (list DelegatorWithdrawInfo.partial);
  p_previousProposer : option string;
  p_outstandingRewards : option (list ValidatorOutstandingRewardsRecord.partial);
  p_validatorAccumulatedCommissions : option (list ValidatorAccumulatedCommissionRecord.partial);
  p_validatorHistoricalRewards : option (list ValidatorHistoricalRewardsRecord.partial);
  p_validatorCurrentRewards : option (list ValidatorCurrentRewardsRecord.partial);
  p_delegatorStartingInfos : option (list DelegatorStartingInfoRecord.partial);
  p_validatorSlashEvents : option (list ValidatorSlashEventRecord.partial);
}.

Definition fromPartial (object : partial) : t := {|
  params := Params.fromPartial <$> object.(p_params);
  feePool := FeePool.fromPartial <$> object.(p_feePool);
  delegatorWithdrawInfos := map DelegatorWithdrawInfo.fromPartial (object.(p_delegatorWithdrawInfos) ?? []);
  previousProposer := object.(p_previousProposer) ?? "";
  outstandingRewards := map ValidatorOutstandingRewardsRecord.fromPartial (object.(p_outstandingRewards) ?? []);
  validatorAccumulatedCommissions := map ValidatorAccumulatedCommissionRecord.fromPartial (object.(p_validatorAccumulatedCommissions) ?? []);
  validatorHistoricalRewards := map ValidatorHistoricalRewardsRecord.fromPartial (object.(p_validatorHistoricalRewards) ?? []);
  validatorCurrentRewards := map ValidatorCurrentRewardsRecord.fromPartial (object.(p_validatorCurrentRewards) ?? []);
  delegatorStartingInfos := map DelegatorStartingInfoRecord.fromPartial (object.(p_delegatorStartingInfos) ?? []);
  validatorSlashEvents := map ValidatorSlashEventRecord.fromPartial (object.(p_validatorSlashEvents) ?? []);
|}.

(** The object with no property given. *)
Definition nothing : partial := mkPartial None None None None None None None None None None.

(** The bytes [encode] writes. *)
Definition wire {PB : Protobuf} {PS : ProtobufSpec PB} (m : t) : bytes :=
  f_message 10 Params.wire m.(params) ++
  f_message 18 FeePool.wire m.(feePool) ++
  f_repeated 26 DelegatorWithdrawInfo.wire m.(delegatorWithdrawInfos) ++
  f_string 34 m.(previousProposer) ++
  f_repeated 42 ValidatorOutstandingRewardsRecord.wire m.(outstandingRewards) ++
  f_repeated 50 ValidatorAccumulatedCommissionRecord.wire m.(validatorAccumulatedCommissions) ++
  f_repeated 58 ValidatorHistoricalRewardsRecord.wire m.(validatorHistoricalRewards) ++
  f_repeated 66 ValidatorCurrentRewardsRecord.wire m.(validatorCurrentRewards) ++
  f_repeated 74 DelegatorStartingInfoRecord.wire m.(delegatorStartingInfos) ++
  f_repeated 82 ValidatorSlashEventRecord.wire m.(validatorSlashEvents).

Definition valid (m : t) : Prop :=
  from_option Params.valid True m.(params) ∧ from_option FeePool.valid True m.(feePool) ∧ Forall DelegatorWithdrawInfo.valid m.(delegatorWithdrawInfos) ∧ Forall ValidatorOutstandingRewardsRecord.valid m.(outstandingRewards) ∧ Forall ValidatorAccumulatedCommissionRecord.valid m.(validatorAccumulatedCommissions) ∧ Forall ValidatorHistoricalRewardsRecord.valid m.(validatorHistoricalRewards) ∧ Forall ValidatorCurrentRewardsRecord.valid m.(validatorCurrentRewards) ∧ Forall DelegatorStartingInfoRecord.valid m.(delegatorStartingInfos) ∧ Forall ValidatorSlashEventRecord.valid m.(validatorSlashEvents).

Definition encodable {PB : Protobuf} {PS : ProtobufSpec PB} (m : t) : Prop :=
  valid m ∧ small (wire m).

Definition merge (m a : t) : t := {|
  params := later_message m.(params) a.(params);
  feePool := later_message m.(feePool) a.(feePool);
  delegatorWithdrawInfos := m.(delegatorWithdrawInfos) ++ a.(delegatorWithdrawInfos);
  previousProposer := later_string m.(previousProposer) a.(previousProposer);
  outstandingRewards := m.(outstandingRewards) ++ a.(outstandingRewards);
  validatorAccumulatedCommissions := m.(validatorAccumulatedCommissions) ++ a.(validatorAccumulatedCommissions);
  validatorHistoricalRewards := m.(validatorHistoricalRewards) ++ a.(validatorHistoricalRewards);
  validatorCurrentRewards := m.(validatorCurrentRewards) ++ a.(validatorCurrentRewards);
  delegatorStartingInfos := m.(delegatorStartingInfos) ++ a.(delegatorStartingInfos);
  validatorSlashEvents := m.(validatorSlashEvents) ++ a.(validatorSlashEvents);
|}.

(** A whole message seen as a partial one. *)
Definition full (m : t) : partial := {|
  p_params := Params.full <$> m.(params);
  p_feePool := FeePool.full <$> m.(feePool);
  p_delegatorWithdrawInfos := Some (map DelegatorWithdrawInfo.full m.(delegatorWithdrawInfos));
  p_previousProposer := Some m.(previousProposer);
  p_outstandingRewards := Some (map ValidatorOutstandingRewardsRecord.full m.(outstandingRewards));
  p_validatorAccumulatedCommissions := Some (map ValidatorAccumulatedCommissionRecord.full m.(validatorAccumulatedCommissions));
  p_validatorHistoricalRewards := Some (map ValidatorHistoricalRewardsRecord.full m.(validatorHistoricalRewards));
  p_validatorCurrentRewards := Some (map ValidatorCurrentRewardsRecord.full m.(validatorCurrentRewards));
  p_delegatorStartingInfos := Some (map DelegatorStartingInfoRecord.full m.(delegatorStartingInfos));
  p_validatorSlashEvents := Some (map ValidatorSlashEventRecord.full m.(validatorSlashEvents));
|}.

(** The message as its schema declares it. *)
Definition schema (m : t) : list field :=
  [singular 1 Optional (message_value Params.schema) m.(params);
   singular 2 Optional (message_value FeePool.schema) m.(feePool);
   repeated 3 (message_value DelegatorWithdrawInfo.schema) m.(delegatorWithdrawInfos);
   implicit 4 (VString m.(previousProposer));
   repeated 5 (message_value ValidatorOutstandingRewardsRecord.schema) m.(outstandingRewards);
   repeated 6 (message_value ValidatorAccumulatedCommissionRecord.schema) m.(validatorAccumulatedCommissions);
   repeated 7 (message_value ValidatorHistoricalRewardsRecord.schema) m.(validatorHistoricalRewards);
   repeated 8 (message_value ValidatorCurrentRewardsRecord.schema) m.(validatorCurrentRewards);
   repeated 9 (message_value DelegatorStartingInfoRecord.schema) m.(delegatorStartingInfos);
   repeated 10 (message_value ValidatorSlashEventRecord.schema) m.(validatorSlashEvents)].

(** The message with its default for every property that is not kept. *)
Definition only (kept : string → bool) (m : t) : t := {|
  params := if kept "params" then m.(params) else None;
  feePool := if kept "feePool" then m.(feePool) else None;
  delegatorWithdrawInfos := if kept "delegatorWithdrawInfos" then m.(delegatorWithdrawInfos) else [];
  previousProposer := if kept "previousProposer" then m.(previousProposer) else "";
  outstandingRewards := if kept "outstandingRewards" then m.(outstandingRewards) else [];
  validatorAccumulatedCommissions := if kept "validatorAccumulatedCommissions" then m.(validatorAccumulatedCommissions) else [];
  validatorHistoricalRewards := if kept "validatorHistoricalRewards" then m.(validatorHistoricalRewards) else [];
  validatorCurrentRewards := if kept "validatorCurrentRewards" then m.(validatorCurrentRewards) else [];
  delegatorStartingInfos := if kept "delegatorStartingInfos" then m.(delegatorStartingInfos) else [];
  validatorSlashEvents := if kept "validatorSlashEvents" then m.(validatorSlashEvents) else [];
|}.

#[global] Instance codec {PB : Protobuf} : MessageCodec t :=
  {| msg_base := base; msg_encode := encode; msg_field := decode_field |}.

#[global] Program Instance spec {PB : Protobuf} (PS : ProtobufSpec PB) : MessageSpec PS t :=
  {| msg_wire := wire; msg_valid := valid; msg_merge := merge |}.
Next Obligation. solve_encode_wire. Qed.
Next Obligation. solve_decode_wire. Qed.
Next Obligation. solve_merge_base. Qed.
Next Obligation. intros. solve_advances decode_field. Qed.

#[global] Program Instance data : MessageData t partial :=
  {| msg_fromJSON := fromJSON; msg_toJSON := toJSON;
     msg_fromPartial := fromPartial; msg_full := full |}.
Next Obligation. solve_json fromJSON toJSON. Qed.
Next Obligation. solve_partial fromPartial full. Qed.

#[global] Instance schema_wire {PB : Protobuf} {PS : ProtobufSpec PB} : WireSchema wire schema.
Proof. solve_schema_wire wire schema. Qed.

#[global] Instance schema_merge : MergeSchema merge schema.
Proof. solve_schema_merge merge schema. Qed.

(** Its row in the table of message types. *)
Definition message {PB : Protobuf} {PS : ProtobufSpec PB} : message_type :=
  plain_message "GenesisState" nothing true schema only.

#[global] Instance message_lawful {PB : Protobuf} (PS : ProtobufSpec PB) : Lawful message.
Proof. solve_lawful decode_field fromJSON only. Qed.

End GenesisState.

(** ** [MsgSetWithdrawAddress] (cosmos/distribution/v1beta1/tx.js) *)

Module MsgSetWithdrawAddress.

Record t := mk {
  delegatorAddress : string;
  withdrawAddress : string;
}.

#[global] Instance t_eta : Settable t := λ m, mk m.(delegatorAddress) m.(withdrawAddress).

Definition base : t := mk "" "".

Definition encode {PB : Protobuf} (message : t) (writer : Writer) : Writer :=
  writer
  @> when (str_neq message.(delegatorAddress) "")
       (fun w => w @> uint32 10 @> string_ message.(delegatorAddress))
  @> when (str_neq message.(withdrawAddress) "")
       (fun w => w @> uint32 18 @> string_ message.(withdrawAddress)).

Definition decode_field {PB : Protobuf} (tag : Z) (message : t) : RM t :=
  match field_number tag with
  | 1 => v ← read_string; mret (message <| delegatorAddress := v |>)
  | 2 => v ← read_string; mret (message <| withdrawAddress := v |>)
  | _ => _ ← skipType (wire_type tag); mret message
  end.

Definition decode {PB : Protobuf} (length : option Z) : RM t :=
  decode_message length base decode_field.

Definition fromJSON (object : js) : result t :=
  delegatorAddress' ← field_or object "delegatorAddress" to_string "";
  withdrawAddress' ← field_or object "withdrawAddress" to_string "";
  Ok (mk delegatorAddress' withdrawAddress').

Definition toJSON (message : t) : js :=
  Obj ([("delegatorAddress", Str message.(delegatorAddress));
    ("withdrawAddress", Str message.(withdrawAddress))]).

Record partial := mkPartial {
  p_delegatorAddress : option string;
  p_withdrawAddress : option string;
}.

Definition fromPartial (object : partial) : t := {|
  delegatorAddress := object.(p_delegatorAddress) ?? "";
  withdrawAddress := object.(p_withdrawAddress) ?? "";
|}.

(** The object with no property given. *)
Definition nothing : partial := mkPartial None None.

(** The bytes [encode] writes. *)
Definition wire {PB : Protobuf} {PS : ProtobufSpec PB} (m : t) : bytes :=
  f_string 10 m.(delegatorAddress) ++
  f_string 18 m.(withdrawAddress).

Definition valid (m : t) : Prop :=
  True.

Definition encodable {PB : Protobuf} {PS : ProtobufSpec PB} (m : t) : Prop :=
  valid m ∧ small (wire m).

Definition merge (m a : t) : t := {|
  delegatorAddress := later_string m.(delegatorAddress) a.(delegatorAddress);
  withdrawAddress := later_string m.(withdrawAddress) a.(withdrawAddress);
|}.

(** A whole message seen as a partial one. *)
Definition full (m : t) : partial := {|
  p_delegatorAddress := Some m.(delegatorAddress);
  p_withdrawAddress := Some m.(withdrawAddress);
|}.

(** The message as its schema declares it. *)
Definition schema (m : t) : list field :=
  [implicit 1 (VString m.(delegatorAddress));
   implicit 2 (VString m.(withdrawAddress))].

(** The message with its default for every property that is not kept. *)
Definition only (kept : string → bool) (m : t) : t := {|
  delegatorAddress := if kept "delegatorAddress" then m.(delegatorAddress) else "";
  withdrawAddress := if kept "withdrawAddress" then m.(withdrawAddress) else "";
|}.

#[global] Instance codec {PB : Protobuf} : MessageCodec t :=
  {| msg_base := base; msg_encode := encode; msg_field := decode_field |}.

#[global] Program Instance spec {PB : Protobuf} (PS : ProtobufSpec PB) : MessageSpec PS t :=
  {| msg_wire := wire; msg_valid := valid; msg_merge := merge |}.
Next Obligation. solve_encode_wire. Qed.
Next Obligation. solve_decode_wire. Qed.
Next Obligation. solve_merge_base. Qed.
Next Obligation. intros. solve_advances decode_field. Qed.

#[global] Program Instance data : MessageData t partial :=
  {| msg_fromJSON := fromJSON; msg_toJSON := toJSON;
     msg_fromPartial := fromPartial; msg_full := full |}.
Next Obligation. solve_json fromJSON toJSON. Qed.
Next Obligation. solve_partial fromPartial full. Qed.

#[global] Instance schema_wire {PB : Protobuf} {PS : ProtobufSpec PB} : WireSchema wire schema.
Proof. solve_schema_wire wire schema. Qed.

#[global] Instance schema_merge : MergeSchema merge schema.
Proof. solve_schema_merge merge schema. Qed.

(** Its row in the table of message types. *)
Definition message {PB : Protobuf} {PS : ProtobufSpec PB} : message_type :=
  plain_message "MsgSetWithdrawAddress" nothing true schema only.

#[global] Instance message_lawful {PB : Protobuf} (PS : ProtobufSpec PB) : Lawful message.
Proof. solve_lawful decode_field fromJSON only. Qed.

End MsgSetWithdrawAddress.

(** ** [MsgSetWithdrawAddressResponse] (cosmos/distribution/v1beta1/tx.js) *)

Module MsgSetWithdrawAddressResponse.

Record t := mk {}.

#[global] Instance t_eta : Settable t := λ m, m.

Definition base : t := mk.

Definition encode {PB : Protobuf} (message : t) (writer : Writer) : Writer :=
  writer.

Definition decode_field {PB : Protobuf} (tag : Z) (message : t) : RM t :=
  match field_number tag with
  | _ => _ ← skipType (wire_type tag); mret message
  end.

Definition decode {PB : Protobuf} (length : option Z) : RM t :=
  decode_message length base decode_field.

Definition fromJSON (object : js) : result t :=
  Ok base.

Definition toJSON (message : t) : js :=
  Obj [].

Record partial := mkPartial {}.

Definition fromPartial (object : partial) : t := base.

(** The object with no property given. *)
Definition nothing : partial := mkPartial.

(** The bytes [encode] writes. *)
Definition wire {PB : Protobuf} {PS : ProtobufSpec PB} (m : t) : bytes :=
  [].

Definition valid (m : t) : Prop :=
  True.

Definition encodable {PB : Protobuf} {PS : ProtobufSpec PB} (m : t) : Prop :=
  valid m ∧ small (wire m).

Definition merge (m a : t) : t := m.

(** A whole message seen as a partial one. *)
Definition full (m : t) : partial := mkPartial.

(** The message as its schema declares it. *)
Definition schema (m : t) : list field :=
  [].

(** The message with its default for every property that is not kept. *)
Definition only (kept : string → bool) (m : t) : t := m.

#[global] Instance codec {PB : Protobuf} : MessageCodec t :=
  {| msg_base := base; msg_encode := encode; msg_field := decode_field |}.

#[global] Program Instance spec {PB : Protobuf} (PS : ProtobufSpec PB) : MessageSpec PS t :=
  {| msg_wire := wire; msg_valid := valid; msg_merge := merge |}.
Next Obligation. solve_encode_wire. Qed.
Next Obligation. solve_decode_wire. Qed.
Next Obligation. solve_merge_base. Qed.
Next Obligation. intros. solve_advances decode_field. Qed.

#[global] Program Instance data : MessageData t partial :=
  {| msg_fromJSON := fromJSON; msg_toJSON := toJSON;
     msg_fromPartial := fromPartial; msg_full := full |}.
Next Obligation. solve_json fromJSON toJSON. Qed.
Next Obligation. solve_partial fromPartial full. Qed.

#[global] Instance schema_wire {PB : Protobuf} {PS : ProtobufSpec PB} : WireSchema wire schema.
Proof. solve_schema_wire wire schema. Qed.

#[global] Instance schema_merge : MergeSchema merge schema.
Proof. solve_schema_merge merge schema. Qed.

(** Its row in the table of message types. *)
Definition message {PB : Protobuf} {PS : ProtobufSpec PB} : message_type :=
  plain_message "MsgSetWithdrawAddressResponse" nothing false schema only.

#[global] Instance message_lawful {PB : Protobuf} (PS : ProtobufSpec PB) : Lawful message.
Proof. solve_lawful decode_field fromJSON only. Qed.

End MsgSetWithdrawAddressResponse.

(** ** [MsgWithdrawDelegatorReward] (cosmos/distribution/v1beta1/tx.js) *)

Module MsgWithdrawDelegatorReward.

Record t := mk {
  delegatorAddress : string;
  validatorAddress : string;
}.

#[global] Instance t_eta : Settable t := λ m, mk m.(delegatorAddress) m.(validatorAddress).

Definition base : t := mk "" "".

Definition encode {PB : Protobuf} (message : t) (writer : Writer) : Writer :=
  writer
  @> when (str_neq message.(delegatorAddress) "")
       (fun w => w @> uint32 10 @> string_ message.(delegatorAddress))
  @> when (str_neq message.(validatorAddress) "")
       (fun w => w @> uint32 18 @> string_ message.(validatorAddress)).

Definition decode_field {PB : Protobuf} (tag : Z) (message : t) : RM t :=
  match field_number tag with
  | 1 => v ← read_string; mret (message <| delegatorAddress := v |>)
  | 2 => v ← read_string; mret (message <| validatorAddress := v |>)
  | _ => _ ← skipType (wire_type tag); mret message
  end.

Definition decode {PB : Protobuf} (length : option Z) : RM t :=
  decode_message length base decode_field.

Definition fromJSON (object : js) : result t :=
  delegatorAddress' ← field_or object "delegatorAddress" to_string "";
  validatorAddress' ← field_or object "validatorAddress" to_string "";
  Ok (mk delegatorAddress' validatorAddress').

Definition toJSON (message : t) : js :=
  Obj ([("delegatorAddress", Str message.(delegatorAddress));
    ("validatorAddress", Str message.(validatorAddress))]).

Record partial := mkPartial {
  p_delegatorAddress : option string;
  p_validatorAddress : option string;
}.

Definition fromPartial (object : partial) : t := {|
  delegatorAddress := object.(p_delegatorAddress) ?? "";
  validatorAddress := object.(p_validatorAddress) ?? "";
|}.

(** The object with no property given. *)
Definition nothing : partial := mkPartial None None.

(** The bytes [encode] writes. *)
Definition wire {PB : Protobuf} {PS : ProtobufSpec PB} (m : t) : bytes :=
  f_string 10 m.(delegatorAddress) ++
  f_string 18 m.(validatorAddress).

Definition valid (m : t) : Prop :=
  True.

Definition encodable {PB : Protobuf} {PS : ProtobufSpec PB} (m : t) : Prop :=
  valid m ∧ small (wire m).

Definition merge (m a : t) : t := {|
  delegatorAddress := later_string m.(delegatorAddress) a.(delegatorAddress);
  validatorAddress := later_string m.(validatorAddress) a.(validatorAddress);
|}.

(** A whole message seen as a partial one. *)
Definition full (m : t) : partial := {|
  p_delegatorAddress := Some m.(delegatorAddress);
  p_validatorAddress := Some m.(validatorAddress);
|}.

(** The message as its schema declares it. *)
Definition schema (m : t) : list field :=
  [implicit 1 (VString m.(delegatorAddress));
   implicit 2 (VString m.(validatorAddress))].

(** The message with its default for every property that is not kept. *)
Definition only (kept : string → bool) (m : t) : t := {|
  delegatorAddress := if kept "delegatorAddress" then m.(delegatorAddress) else "";
  validatorAddress := if kept "validatorAddress" then m.(validatorAddress) else "";
|}.

#[global] Instance codec {PB : Protobuf} : MessageCodec t :=
  {| msg_base := base; msg_encode := encode; msg_field := decode_field |}.

#[global] Program Instance spec {PB : Protobuf} (PS : ProtobufSpec PB) : MessageSpec PS t :=
  {| msg_wire := wire; msg_valid := valid; msg_merge := merge |}.
Next Obligation. solve_encode_wire. Qed.
Next Obligation. solve_decode_wire. Qed.
Next Obligation. solve_merge_base. Qed.
Next Obligation. intros. solve_advances decode_field. Qed.

#[global] Program Instance data : MessageData t partial :=
  {| msg_fromJSON := fromJSON; msg_toJSON := toJSON;
     msg_fromPartial := fromPartial; msg_full := full |}.
Next Obligation. solve_json fromJSON toJSON. Qed.
Next Obligation. solve_partial fromPartial full. Qed.

#[global] Instance schema_wire {PB : Protobuf} {PS : ProtobufSpec PB} : WireSchema wire schema.
Proof. solve_schema_wire wire schema. Qed.

#[global] Instance schema_merge : MergeSchema merge schema.
Proof. solve_schema_merge merge schema. Qed.

(** Its row in the table of message types. *)
Definition message {PB : Protobuf} {PS : ProtobufSpec PB} : message_type :=
  plain_message "MsgWithdrawDelegatorReward" nothing true schema only.

#[global] Instance message_lawful {PB : Protobuf} (PS : ProtobufSpec PB) : Lawful message.
Proof. solve_lawful decode_field fromJSON only. Qed.

End MsgWithdrawDelegatorReward.

(** ** [MsgWithdrawDelegatorRewardResponse] (cosmos/distribution/v1beta1/tx.js) *)

Module MsgWithdrawDelegatorRewardResponse.

Record t := mk {}.

#[global] Instance t_eta : Settable t := λ m, m.

Definition base : t := mk.

Definition encode {PB : Protobuf} (message : t) (writer : Writer) : Writer :=
  writer.

Definition decode_field {PB : Protobuf} (tag : Z) (message : t) : RM t :=
  match field_number tag with
  | _ => _ ← skipType (wire_type tag); mret message
  end.

Definition decode {PB : Protobuf} (length : option Z) : RM t :=
  decode_message length base decode_field.

Definition fromJSON (object : js) : result t :=
  Ok base.

Definition toJSON (message : t) : js :=
  Obj [].

Record partial := mkPartial {}.

Definition fromPartial (object : partial) : t := base.

(** The object with no property given. *)
Definition nothing : partial := mkPartial.

(** The bytes [encode] writes. *)
Definition wire {PB : Protobuf} {PS : ProtobufSpec PB} (m : t) : bytes :=
  [].

Definition valid (m : t) : Prop :=
  True.

Definition encodable {PB : Protobuf} {PS : ProtobufSpec PB} (m : t) : Prop :=
  valid m ∧ small (wire m).

Definition merge (m a : t) : t := m.

(** A whole message seen as a partial one. *)
Definition full (m : t) : partial := mkPartial.

(** The message as its schema declares it. *)
Definition schema (m : t) : list field :=
  [].

(** The message with its default for every property that is not kept. *)
Definition only (kept : string → bool) (m : t) : t := m.

#[global] Instance codec {PB : Protobuf} : MessageCodec t :=
  {| msg_base := base; msg_encode := encode; msg_field := decode_field |}.

#[global] Program Instance spec {PB : Protobuf} (PS : ProtobufSpec PB) : MessageSpec PS t :=
  {| msg_wire := wire; msg_valid := valid; msg_merge := merge |}.
Next Obligation. solve_encode_wire. Qed.
Next Obligation. solve_decode_wire. Qed.
Next Obligation. solve_merge_base. Qed.
Next Obligation. intros. solve_advances decode_field. Qed.

#[global] Program Instance data : MessageData t partial :=
  {| msg_fromJSON := fromJSON; msg_toJSON := toJSON;
     msg_fromPartial := fromPartial; msg_full := full |}.
Next Obligation. solve_json fromJSON toJSON. Qed.
Next Obligation. solve_partial fromPartial full. Qed.

#[global] Instance schema_wire {PB : Protobuf} {PS : ProtobufSpec PB} : WireSchema wire schema.
Proof. solve_schema_wire wire schema. Qed.

#[global] Instance schema_merge : MergeSchema merge schema.
Proof. solve_schema_merge merge schema. Qed.

(** Its row in the table of message types. *)
Definition message {PB : Protobuf} {PS : ProtobufSpec PB} : message_type :=
  plain_message "MsgWithdrawDelegatorRewardResponse" nothing false schema only.

#[global] Instance message_lawful {PB : Protobuf} (PS : ProtobufSpec PB) : Lawful message.
Proof. solve_lawful decode_field fromJSON only. Qed.

End MsgWithdrawDelegatorRewardResponse.

(** ** [MsgWithdrawValidatorCommission] (cosmos/distribution/v1beta1/tx.js) *)

Module MsgWithdrawValidatorCommission.

Record t := mk {
  validatorAddress : string;
}.

#[global] Instance t_eta : Settable t := λ m, mk m.(validatorAddress).

Definition base : t := mk "".

Definition encode {PB : Protobuf} (message : t) (writer : Writer) : Writer :=
  writer
  @> when (str_neq message.(validatorAddress) "")
       (fun w => w @> uint32 10 @> string_ message.(validatorAddress)).

Definition decode_field {PB : Protobuf} (tag : Z) (message : t) : RM t :=
  match field_number tag with
  | 1 => v ← read_string; mret (message <| validatorAddress := v |>)
  | _ => _ ← skipType (wire_type tag); mret message
  end.

Definition decode {PB : Protobuf} (length : option Z) : RM t :=
  decode_message length base decode_field.

Definition fromJSON (object : js) : result t :=
  validatorAddress' ← field_or object "validatorAddress" to_string "";
  Ok (mk validatorAddress').

Definition toJSON (message : t) : js :=
  Obj ([("validatorAddress", Str message.(validatorAddress))]).

Record partial := mkPartial {
  p_validatorAddress : option string;
}.

Definition fromPartial (object : partial) : t := {|
  validatorAddress := object.(p_validatorAddress) ?? "";
|}.

(** The object with no property given. *)
Definition nothing : partial := mkPartial None.

(** The bytes [encode] writes. *)
Definition wire {PB : Protobuf} {PS : ProtobufSpec PB} (m : t) : bytes :=
  f_string 10 m.(validatorAddress).

Definition valid (m : t) : Prop :=
  True.

Definition encodable {PB : Protobuf} {PS : ProtobufSpec PB} (m : t) : Prop :=
  valid m ∧ small (wire m).

Definition merge (m a : t) : t := {|
  validatorAddress := later_string m.(validatorAddress) a.(validatorAddress);
|}.

(** A whole message seen as a partial one. *)
Definition full (m : t) : partial := {|
  p_validatorAddress := Some m.(validatorAddress);
|}.

(** The message as its schema declares it. *)
Definition schema (m : t) : list field :=
  [implicit 1 (VString m.(validatorAddress))].

(** The message with its default for every property that is not kept. *)
Definition only (kept : string → bool) (m : t) : t := {|
  validatorAddress := if kept "validatorAddress" then m.(validatorAddress) else "";
|}.

#[global] Instance codec {PB : Protobuf} : MessageCodec t :=
  {| msg_base := base; msg_encode := encode; msg_field := decode_field |}.

#[global] Program Instance spec {PB : Protobuf} (PS : ProtobufSpec PB) : MessageSpec PS t :=
  {| msg_wire := wire; msg_valid := valid; msg_merge := merge |}.
Next Obligation. solve_encode_wire. Qed.
Next Obligation. solve_decode_wire. Qed.
Next Obligation. solve_merge_base. Qed.
Next Obligation. intros. solve_advances decode_field. Qed.

#[global] Program Instance data : MessageData t partial :=
  {| msg_fromJSON := fromJSON; msg_toJSON := toJSON;
     msg_fromPartial := fromPartial; msg_full := full |}.
Next Obligation. solve_json fromJSON toJSON. Qed.
Next Obligation. solve_partial fromPartial full. Qed.

#[global] Instance schema_wire {PB : Protobuf} {PS : ProtobufSpec PB} : WireSchema wire schema.
Proof. solve_schema_wire wire schema. Qed.

#[global] Instance schema_merge : MergeSchema merge schema.
Proof. solve_schema_merge merge schema. Qed.

(** Its row in the table of message types. *)
Definition message {PB : Protobuf} {PS : ProtobufSpec PB} : message_type :=
  plain_message "MsgWithdrawValidatorCommission" nothing true schema only.

#[global] Instance message_lawful {PB : Protobuf} (PS : ProtobufSpec PB) : Lawful message.
Proof. solve_lawful decode_field fromJSON only. Qed.

End MsgWithdrawValidatorCommission.

(** ** [MsgWithdrawValidatorCommissionResponse] (cosmos/distribution/v1beta1/tx.js) *)

Module MsgWithdrawValidatorCommissionResponse.

Record t := mk {}.

#[global] Instance t_eta : Settable t := λ m, m.

Definition base : t := mk.

Definition encode {PB : Protobuf} (message : t) (writer : Writer) : Writer :=
  writer.

Definition decode_field {PB : Protobuf} (tag : Z) (message : t) : RM t :=
  match field_number tag with
  | _ => _ ← skipType (wire_type tag); mret message
  end.

Definition decode {PB : Protobuf} (length : option Z) : RM t :=
  decode_message length base decode_field.

Definition fromJSON (object : js) : result t :=
  Ok base.

Definition toJSON (message : t) : js :=
  Obj [].

Record partial := mkPartial {}.

Definition fromPartial (object : partial) : t := base.

(** The object with no property given. *)
Definition nothing : partial := mkPartial.

(** The bytes [encode] writes. *)
Definition wire {PB : Protobuf} {PS : ProtobufSpec PB} (m : t) : bytes :=
  [].

Definition valid (m : t) : Prop :=
  True.

Definition encodable {PB : Protobuf} {PS : ProtobufSpec PB} (m : t) : Prop :=
  valid m ∧ small (wire m).

Definition merge (m a : t) : t := m.

(** A whole message seen as a partial one. *)
Definition full (m : t) : partial := mkPartial.

(** The message as its schema declares it. *)
Definition schema (m : t) : list field :=
  [].

(** The message with its default for every property that is not kept. *)
Definition only (kept : string → bool) (m : t) : t := m.

#[global] Instance codec {PB : Protobuf} : MessageCodec t :=
  {| msg_base := base; msg_encode := encode; msg_field := decode_field |}.

#[global] Program Instance spec {PB : Protobuf} (PS : ProtobufSpec PB) : MessageSpec PS t :=
  {| msg_wire := wire; msg_valid := valid; msg_merge := merge |}.
Next Obligation. solve_encode_wire. Qed.
Next Obligation. solve_decode_wire. Qed.
Next Obligation. solve_merge_base. Qed.
Next Obligation. intros. solve_advances decode_field. Qed.

#[global] Program Instance data : MessageData t partial :=
  {| msg_fromJSON := fromJSON; msg_toJSON := toJSON;
     msg_fromPartial := fromPartial; msg_full := full |}.
Next Obligation. solve_json fromJSON toJSON. Qed.
Next Obligation. solve_partial fromPartial full. Qed.

#[global] Instance schema_wire {PB : Protobuf} {PS : ProtobufSpec PB} : WireSchema wire schema.
Proof. solve_schema_wire wire schema. Qed.

#[global] Instance schema_merge : MergeSchema merge schema.
Proof. solve_schema_merge merge schema. Qed.

(** Its row in the table of message types. *)
Definition message {PB : Protobuf} {PS : ProtobufSpec PB} : message_type :=
  plain_message "MsgWithdrawValidatorCommissionResponse" nothing false schema only.

#[global] Instance message_lawful {PB : Protobuf} (PS : ProtobufSpec PB) : Lawful message.
Proof. solve_lawful decode_field fromJSON only. Qed.

End MsgWithdrawValidatorCommissionResponse.

(** ** [MsgFundCommunityPool] (cosmos/distribution/v1beta1/tx.js) *)

Module MsgFundCommunityPool.

Record t := mk {
  amount : list Coin.t;
  depositor : string;
}.

#[global] Instance t_eta : Settable t := λ m, mk m.(amount) m.(depositor).

Definition base : t := mk [] "".

Definition encode {PB : Protobuf} (message : t) (writer : Writer) : Writer :=
  writer
  @> each message.(amount) (fun v w => w @> uint32 10 @> fork @> Coin.encode v @> ldelim)
  @> when (str_neq message.(depositor) "") (fun w => w @> uint32 18 @> string_ message.(depositor)).

Definition decode_field {PB : Protobuf} (tag : Z) (message : t) : RM t :=
  match field_number tag with
  | 1 => v ← read_nested Coin.decode; mret (message <| amount := message.(amount) ++ [v] |>)
  | 2 => v ← read_string; mret (message <| depositor := v |>)
  | _ => _ ← skipType (wire_type tag); mret message
  end.

Definition decode {PB : Protobuf} (length : option Z) : RM t :=
  decode_message length base decode_field.

Definition fromJSON (object : js) : result t :=
  amount' ← field_or object "amount" (to_list Coin.fromJSON) [];
  depositor' ← field_or object "depositor" to_string "";
  Ok (mk amount' depositor').

Definition toJSON (message : t) : js :=
  Obj ([("amount", Arr (map Coin.toJSON message.(amount)));
    ("depositor", Str message.(depositor))]).

Record partial := mkPartial {
  p_amount : option (list Coin.partial);
  p_depositor : option string;
}.

Definition fromPartial (object : partial) : t := {|
  amount := map Coin.fromPartial (object.(p_amount) ?? []);
  depositor := object.(p_depositor) ?? "";
|}.

(** The object with no property given. *)
Definition nothing : partial := mkPartial None None.

(** The bytes [encode] writes. *)
Definition wire {PB : Protobuf} {PS : ProtobufSpec PB} (m : t) : bytes :=
  f_repeated 10 Coin.wire m.(amount) ++
  f_string 18 m.(depositor).

Definition valid (m : t) : Prop :=
  Forall Coin.valid m.(amount).

Definition encodable {PB : Protobuf} {PS : ProtobufSpec PB} (m : t) : Prop :=
  valid m ∧ small (wire m).

Definition merge (m a : t) : t := {|
  amount := m.(amount) ++ a.(amount);
  depositor := later_string m.(depositor) a.(depositor);
|}.

(** A whole message seen as a partial one. *)
Definition full (m : t) : partial := {|
  p_amount := Some (map Coin.full m.(amount));
  p_depositor := Some m.(depositor);
|}.

(** The message as its schema declares it. *)
Definition schema (m : t) : list field :=
  [repeated 1 (message_value Coin.schema) m.(amount);
   implicit 2 (VString m.(depositor))].

(** The message with its default for every property that is not kept. *)
Definition only (kept : string → bool) (m : t) : t := {|
  amount := if kept "amount" then m.(amount) else [];
  depositor := if kept "depositor" then m.(depositor) else "";
|}.

#[global] Instance codec {PB : Protobuf} : MessageCodec t :=
  {| msg_base := base; msg_encode := encode; msg_field := decode_field |}.

#[global] Program Instance spec {PB : Protobuf} (PS : ProtobufSpec PB) : MessageSpec PS t :=
  {| msg_wire := wire; msg_valid := valid; msg_merge := merge |}.
Next Obligation. solve_encode_wire. Qed.
Next Obligation. solve_decode_wire. Qed.
Next Obligation. solve_merge_base. Qed.
Next Obligation. intros. solve_advances decode_field. Qed.

#[global] Program Instance data : MessageData t partial :=
  {| msg_fromJSON := fromJSON; msg_toJSON := toJSON;
     msg_fromPartial := fromPartial; msg_full := full |}.
Next Obligation. solve_json fromJSON toJSON. Qed.
Next Obligation. solve_partial fromPartial full. Qed.

#[global] Instance schema_wire {PB : Protobuf} {PS : ProtobufSpec PB} : WireSchema wire schema.
Proof. solve_schema_wire wire schema. Qed.

#[global] Instance schema_merge : MergeSchema merge schema.
Proof. solve_schema_merge merge schema. Qed.

(** Its row in the table of message types. *)
Definition message {PB : Protobuf} {PS : ProtobufSpec PB} : message_type :=
  plain_message "MsgFundCommunityPool" nothing true schema only.

#[global] Instance message_lawful {PB : Protobuf} (PS : ProtobufSpec PB) : Lawful message.
Proof. solve_lawful decode_field fromJSON only. Qed.

End MsgFundCommunityPool.

(** ** [MsgFundCommunityPoolResponse] (cosmos/distribution/v1beta1/tx.js) *)

Module MsgFundCommunityPoolResponse.

Record t := mk {}.

#[global] Instance t_eta : Settable t := λ m, m.

Definition base : t := mk.

Definition encode {PB : Protobuf} (message : t) (writer : Writer) : Writer :=
  writer.

Definition decode_field {PB : Protobuf} (tag : Z) (message : t) : RM t :=
  match field_number tag with
  | _ => _ ← skipType (wire_type tag); mret message
  end.

Definition decode {PB : Protobuf} (length : option Z) : RM t :=
  decode_message length base decode_field.

Definition fromJSON (object : js) : result t :=
  Ok base.

Definition toJSON (message : t) : js :=
  Obj [].

Record partial := mkPartial {}.

Definition fromPartial (object : partial) : t := base.

(** The object with no property given. *)
Definition nothing : partial := mkPartial.

(** The bytes [encode] writes. *)
Definition wire {PB : Protobuf} {PS : ProtobufSpec PB} (m : t) : bytes :=
  [].

Definition valid (m : t) : Prop :=
  True.

Definition encodable {PB : Protobuf} {PS : ProtobufSpec PB} (m : t) : Prop :=
  valid m ∧ small (wire m).

Definition merge (m a : t) : t := m.

(** A whole message seen as a partial one. *)
Definition full (m : t) : partial := mkPartial.

(** The message as its schema declares it. *)
Definition schema (m : t) : list field :=
  [].

(** The message with its default for every property that is not kept. *)
Definition only (kept : string → bool) (m : t) : t := m.

#[global] Instance codec {PB : Protobuf} : MessageCodec t :=
  {| msg_base := base; msg_encode := encode; msg_field := decode_field |}.

#[global] Program Instance spec {PB : Protobuf} (PS : ProtobufSpec PB) : MessageSpec PS t :=
  {| msg_wire := wire; msg_valid := valid; msg_merge := merge |}.
Next Obligation. solve_encode_wire. Qed.
Next Obligation. solve_decode_wire. Qed.
Next Obligation. solve_merge_base. Qed.
Next Obligation. intros. solve_advances decode_field. Qed.

#[global] Program Instance data : MessageData t partial :=
  {| msg_fromJSON := fromJSON; msg_toJSON := toJSON;
     msg_fromPartial := fromPartial; msg_full := full |}.
Next Obligation. solve_json fromJSON toJSON. Qed.
Next Obligation. solve_partial fromPartial full. Qed.

#[global] Instance schema_wire {PB : Protobuf} {PS : ProtobufSpec PB} : WireSchema wire schema.
Proof. solve_schema_wire wire schema. Qed.

#[global] Instance schema_merge : MergeSchema merge schema.
Proof. solve_schema_merge merge schema. Qed.

(** Its row in the table of message types. *)
Definition message {PB : Protobuf} {PS : ProtobufSpec PB} : message_type :=
  plain_message "MsgFundCommunityPoolResponse" nothing false schema only.

#[global] Instance message_lawful {PB : Protobuf} (PS : ProtobufSpec PB) : Lawful message.
Proof. solve_lawful decode_field fromJSON only. Qed.

End MsgFundCommunityPoolResponse.

(** ** [QueryParamsRequest] (cosmos/distribution/v1beta1/query.js) *)

Module QueryParamsRequest.

Record t := mk {}.

#[global] Instance t_eta : Settable t := λ m, m.

Definition base : t := mk.

Definition encode {PB : Protobuf} (message : t) (writer : Writer) : Writer :=
  writer.

Definition decode_field {PB : Protobuf} (tag : Z) (message : t) : RM t :=
  match field_number tag with
  | _ => _ ← skipType (wire_type tag); mret message
  end.

Definition decode {PB : Protobuf} (length : option Z) : RM t :=
  decode_message length base decode_field.

Definition fromJSON (object : js) : result t :=
  Ok base.

Definition toJSON (message : t) : js :=
  Obj [].

Record partial := mkPartial {}.

Definition fromPartial (object : partial) : t := base.

(** The object with no property given. *)
Definition nothing : partial := mkPartial.

(** The bytes [encode] writes. *)
Definition wire {PB : Protobuf} {PS : ProtobufSpec PB} (m : t) : bytes :=
  [].

Definition valid (m : t) : Prop :=
  True.

Definition encodable {PB : Protobuf} {PS : ProtobufSpec PB} (m : t) : Prop :=
  valid m ∧ small (wire m).

Definition merge (m a : t) : t := m.

(** A whole message seen as a partial one. *)
Definition full (m : t) : partial := mkPartial.

(** The message as its schema declares it. *)
Definition schema (m : t) : list field :=
  [].

(** The message with its default for every property that is not kept. *)
Definition only (kept : string → bool) (m : t) : t := m.

#[global] Instance codec {PB : Protobuf} : MessageCodec t :=
  {| msg_base := base; msg_encode := encode; msg_field := decode_field |}.

#[global] Program Instance spec {PB : Protobuf} (PS : ProtobufSpec PB) : MessageSpec PS t :=
  {| msg_wire := wire; msg_valid := valid; msg_merge := merge |}.
Next Obligation. solve_encode_wire. Qed.
Next Obligation. solve_decode_wire. Qed.
Next Obligation. solve_merge_base. Qed.
Next Obligation. intros. solve_advances decode_field. Qed.

#[global] Program Instance data : MessageData t partial :=
  {| msg_fromJSON := fromJSON; msg_toJSON := toJSON;
     msg_fromPartial := fromPartial; msg_full := full |}.
Next Obligation. solve_json fromJSON toJSON. Qed.
Next Obligation. solve_partial fromPartial full. Qed.

#[global] Instance schema_wire {PB : Protobuf} {PS : ProtobufSpec PB} : WireSchema wire schema.
Proof. solve_schema_wire wire schema. Qed.

#[global] Instance schema_merge : MergeSchema merge schema.
Proof. solve_schema_merge merge schema. Qed.

(** Its row in the table of message types. *)
Definition message {PB : Protobuf} {PS : ProtobufSpec PB} : message_type :=
  plain_message "QueryParamsRequest" nothing false schema only.

#[global] Instance message_lawful {PB : Protobuf} (PS : ProtobufSpec PB) : Lawful message.
Proof. solve_lawful decode_field fromJSON only. Qed.

End QueryParamsRequest.

(** ** [QueryParamsResponse] (cosmos/distribution/v1beta1/query.js) *)

Module QueryParamsResponse.

Record t := mk {
  params : option Params.t;
}.

#[global] Instance t_eta : Settable t := λ m, mk m.(params).

Definition base : t := mk None.

Definition encode {PB : Protobuf} (message : t) (writer : Writer) : Writer :=
  writer
  @> defined message.(params) (fun v w => w @> uint32 10 @> fork @> Params.encode v @> ldelim).

Definition decode_field {PB : Protobuf} (tag : Z) (message : t) : RM t :=
  match field_number tag with
  | 1 => v ← read_nested Params.decode; mret (message <| params := Some v |>)
  | _ => _ ← skipType (wire_type tag); mret message
  end.

Definition decode {PB : Protobuf} (length : option Z) : RM t :=
  decode_message length base decode_field.

Definition fromJSON (object : js) : result t :=
  params' ← field_or object "params" (to_some Params.fromJSON) None;
  Ok (mk params').

Definition toJSON (message : t) : js :=
  Obj (prop_opt "params" Params.toJSON message.(params)).

Record partial := mkPartial {
  p_params : option Params.partial;
}.

Definition fromPartial (object : partial) : t := {|
  params := Params.fromPartial <$> object.(p_params);
|}.

(** The object with no property given. *)
Definition nothing : partial := mkPartial None.

(** The bytes [encode] writes. *)
Definition wire {PB : Protobuf} {PS : ProtobufSpec PB} (m : t) : bytes :=
  f_message 10 Params.wire m.(params).

Definition valid (m : t) : Prop :=
  from_option Params.valid True m.(params).

Definition encodable {PB : Protobuf} {PS : ProtobufSpec PB} (m : t) : Prop :=
  valid m ∧ small (wire m).

Definition merge (m a : t) : t := {|
  params := later_message m.(params) a.(params);
|}.

(** A whole message seen as a partial one. *)
Definition full (m : t) : partial := {|
  p_params := Params.full <$> m.(params);
|}.

(** The message as its schema declares it. *)
Definition schema (m : t) : list field :=
  [singular 1 Optional (message_value Params.schema) m.(params)].

(** The message with its default for every property that is not kept. *)
Definition only (kept : string → bool) (m : t) : t := {|
  params := if kept "params" then m.(params) else None;
|}.

#[global] Instance codec {PB : Protobuf} : MessageCodec t :=
  {| msg_base := base; msg_encode := encode; msg_field := decode_field |}.

#[global] Program Instance spec {PB : Protobuf} (PS : ProtobufSpec PB) : MessageSpec PS t :=
  {| msg_wire := wire; msg_valid := valid; msg_merge := merge |}.
Next Obligation. solve_encode_wire. Qed.
Next Obligation. solve_decode_wire. Qed.
Next Obligation. solve_merge_base. Qed.
Next Obligation. intros. solve_advances decode_field. Qed.

#[global] Program Instance data : MessageData t partial :=
  {| msg_fromJSON := fromJSON; msg_toJSON := toJSON;
     msg_fromPartial := fromPartial; msg_full := full |}.
Next Obligation. solve_json fromJSON toJSON. Qed.
Next Obligation. solve_partial fromPartial full. Qed.

#[global] Instance schema_wire {PB : Protobuf} {PS : ProtobufSpec PB} : WireSchema wire schema.
Proof. solve_schema_wire wire schema. Qed.

#[global] Instance schema_merge : MergeSchema merge schema.
Proof. solve_schema_merge merge schema. Qed.

(** Its row in the table of message types. *)
Definition message {PB : Protobuf} {PS : ProtobufSpec PB} : message_type :=
  plain_message "QueryParamsResponse" nothing true schema only.

#[global] Instance message_lawful {PB : Protobuf} (PS : ProtobufSpec PB) : Lawful message.
Proof. solve_lawful decode_field fromJSON only. Qed.

End QueryParamsResponse.

(** ** [QueryValidatorOutstandingRewardsRequest] (cosmos/distribution/v1beta1/query.js) *)

Module QueryValidatorOutstandingRewardsRequest.

Record t := mk {
  validatorAddress : string;
}.

#[global] Instance t_eta : Settable t := λ m, mk m.(validatorAddress).

Definition base : t := mk "".

Definition encode {PB : Protobuf} (message : t) (writer : Writer) : Writer :=
  writer
  @> when (str_neq message.(validatorAddress) "")
       (fun w => w @> uint32 10 @> string_ message.(validatorAddress)).

Definition decode_field {PB : Protobuf} (tag : Z) (message : t) : RM t :=
  match field_number tag with
  | 1 => v ← read_string; mret (message <| validatorAddress := v |>)
  | _ => _ ← skipType (wire_type tag); mret message
  end.

Definition decode {PB : Protobuf} (length : option Z) : RM t :=
  decode_message length base decode_field.

Definition fromJSON (object : js) : result t :=
  validatorAddress' ← field_or object "validatorAddress" to_string "";
  Ok (mk validatorAddress').

Definition toJSON (message : t) : js :=
  Obj ([("validatorAddress", Str message.(validatorAddress))]).

Record partial := mkPartial {
  p_validatorAddress : option string;
}.

Definition fromPartial (object : partial) : t := {|
  validatorAddress := object.(p_validatorAddress) ?? "";
|}.

(** The object with no property given. *)
Definition nothing : partial := mkPartial None.

(** The bytes [encode] writes. *)
Definition wire {PB : Protobuf} {PS : ProtobufSpec PB} (m : t) : bytes :=
  f_string 10 m.(validatorAddress).

Definition valid (m : t) : Prop :=
  True.

Definition encodable {PB : Protobuf} {PS : ProtobufSpec PB} (m : t) : Prop :=
  valid m ∧ small (wire m).

Definition merge (m a : t) : t := {|
  validatorAddress := later_string m.(validatorAddress) a.(validatorAddress);
|}.

(** A whole message seen as a partial one. *)
Definition full (m : t) : partial := {|
  p_validatorAddress := Some m.(validatorAddress);
|}.

(** The message as its schema declares it. *)
Definition schema (m : t) : list field :=
  [implicit 1 (VString m.(validatorAddress))].

(** The message with its default for every property that is not kept. *)
Definition only (kept : string → bool) (m : t) : t := {|
  validatorAddress := if kept "validatorAddress" then m.(validatorAddress) else "";
|}.

#[global] Instance codec {PB : Protobuf} : MessageCodec t :=
  {| msg_base := base; msg_encode := encode; msg_field := decode_field |}.

#[global] Program Instance spec {PB : Protobuf} (PS : ProtobufSpec PB) : MessageSpec PS t :=
  {| msg_wire := wire; msg_valid := valid; msg_merge := merge |}.
Next Obligation. solve_encode_wire. Qed.
Next Obligation. solve_decode_wire. Qed.
Next Obligation. solve_merge_base. Qed.
Next Obligation. intros. solve_advances decode_field. Qed.

#[global] Program Instance data : MessageData t partial :=
  {| msg_fromJSON := fromJSON; msg_toJSON := toJSON;
     msg_fromPartial := fromPartial; msg_full := full |}.
Next Obligation. solve_json fromJSON toJSON. Qed.
Next Obligation. solve_partial fromPartial full. Qed.

#[global] Instance schema_wire {PB : Protobuf} {PS : ProtobufSpec PB} : WireSchema wire schema.
Proof. solve_schema_wire wire schema. Qed.

#[global] Instance schema_merge : MergeSchema merge schema.
Proof. solve_schema_merge merge schema. Qed.

(** Its row in the table of message types. *)
Definition message {PB : Protobuf} {PS : ProtobufSpec PB} : message_type :=
  plain_message "QueryValidatorOutstandingRewardsRequest" nothing true schema only.

#[global] Instance message_lawful {PB : Protobuf} (PS : ProtobufSpec PB) : Lawful message.
Proof. solve_lawful decode_field fromJSON only. Qed.

End QueryValidatorOutstandingRewardsRequest.

(** ** [QueryValidatorOutstandingRewardsResponse] (cosmos/distribution/v1beta1/query.js) *)

Module QueryValidatorOutstandingRewardsResponse.

Record t := mk {
  rewards : option ValidatorOutstandingRewards.t;
}.

#[global] Instance t_eta : Settable t := λ m, mk m.(rewards).

Definition base : t := mk None.

Definition encode {PB : Protobuf} (message : t) (writer : Writer) : Writer :=
  writer
  @> defined message.(rewards) (fun v w => w @> uint32 10 @> fork @> ValidatorOutstandingRewards.encode v @> ldelim).

Definition decode_field {PB : Protobuf} (tag : Z) (message : t) : RM t :=
  match field_number tag with
  | 1 => v ← read_nested ValidatorOutstandingRewards.decode; mret (message <| rewards := Some v |>)
  | _ => _ ← skipType (wire_type tag); mret message
  end.

Definition decode {PB : Protobuf} (length : option Z) : RM t :=
  decode_message length base decode_field.

Definition fromJSON (object : js) : result t :=
  rewards' ← field_or object "rewards" (to_some ValidatorOutstandingRewards.fromJSON) None;
  Ok (mk rewards').

Definition toJSON (message : t) : js :=
  Obj (prop_opt "rewards" ValidatorOutstandingRewards.toJSON message.(rewards)).

Record partial := mkPartial {
  p_rewards : option ValidatorOutstandingRewards.partial;
}.

Definition fromPartial (object : partial) : t := {|
  rewards := ValidatorOutstandingRewards.fromPartial <$> object.(p_rewards);
|}.

(** The object with no property given. *)
Definition nothing : partial := mkPartial None.

(** The bytes [encode] writes. *)
Definition wire {PB : Protobuf} {PS : ProtobufSpec PB} (m : t) : bytes :=
  f_message 10 ValidatorOutstandingRewards.wire m.(rewards).

Definition valid (m : t) : Prop :=
  from_option ValidatorOutstandingRewards.valid True m.(rewards).

Definition encodable {PB : Protobuf} {PS : ProtobufSpec PB} (m : t) : Prop :=
  valid m ∧ small (wire m).

Definition merge (m a : t) : t := {|
  rewards := later_message m.(rewards) a.(rewards);
|}.

(** A whole message seen as a partial one. *)
Definition full (m : t) : partial := {|
  p_rewards := ValidatorOutstandingRewards.full <$> m.(rewards);
|}.

(** The message as its schema declares it. *)
Definition schema (m : t) : list field :=
  [singular 1 Optional (message_value ValidatorOutstandingRewards.schema) m.(rewards)].

(** The message with its default for every property that is not kept. *)
Definition only (kept : string → bool) (m : t) : t := {|
  rewards := if kept "rewards" then m.(rewards) else None;
|}.

#[global] Instance codec {PB : Protobuf} : MessageCodec t :=
  {| msg_base := base; msg_encode := encode; msg_field := decode_field |}.

#[global] Program Instance spec {PB : Protobuf} (PS : ProtobufSpec PB) : MessageSpec PS t :=
  {| msg_wire := wire; msg_valid := valid; msg_merge := merge |}.
Next Obligation. solve_encode_wire. Qed.
Next Obligation. solve_decode_wire. Qed.
Next Obligation. solve_merge_base. Qed.
Next Obligation. intros. solve_advances decode_field. Qed.

#[global] Program Instance data : MessageData t partial :=
  {| msg_fromJSON := fromJSON; msg_toJSON := toJSON;
     msg_fromPartial := fromPartial; msg_full := full |}.
Next Obligation. solve_json fromJSON toJSON. Qed.
Next Obligation. solve_partial fromPartial full. Qed.

#[global] Instance schema_wire {PB : Protobuf} {PS : ProtobufSpec PB} : WireSchema wire schema.
Proof. solve_schema_wire wire schema. Qed.

#[global] Instance schema_merge : MergeSchema merge schema.
Proof. solve_schema_merge merge schema. Qed.

(** Its row in the table of message types. *)
Definition message {PB : Protobuf} {PS : ProtobufSpec PB} : message_type :=
  plain_message "QueryValidatorOutstandingRewardsResponse" nothing true schema only.

#[global] Instance message_lawful {PB : Protobuf} (PS : ProtobufSpec PB) : Lawful message.
Proof. solve_lawful decode_field fromJSON only. Qed.

End QueryValidatorOutstandingRewardsResponse.

(** ** [QueryValidatorCommissionRequest] (cosmos/distribution/v1beta1/query.js) *)

Module QueryValidatorCommissionRequest.

Record t := mk {
  validatorAddress : string;
}.

#[global] Instance t_eta : Settable t := λ m, mk m.(validatorAddress).

Definition base : t := mk "".

Definition encode {PB : Protobuf} (message : t) (writer : Writer) : Writer :=
  writer
  @> when (str_neq message.(validatorAddress) "")
       (fun w => w @> uint32 10 @> string_ message.(validatorAddress)).

Definition decode_field {PB : Protobuf} (tag : Z) (message : t) : RM t :=
  match field_number tag with
  | 1 => v ← read_string; mret (message <| validatorAddress := v |>)
  | _ => _ ← skipType (wire_type tag); mret message
  end.

Definition decode {PB : Protobuf} (length : option Z) : RM t :=
  decode_message length base decode_field.

Definition fromJSON (object : js) : result t :=
  validatorAddress' ← field_or object "validatorAddress" to_string "";
  Ok (mk validatorAddress').

Definition toJSON (message : t) : js :=
  Obj ([("validatorAddress", Str message.(validatorAddress))]).

Record partial := mkPartial {
  p_validatorAddress : option string;
}.

Definition fromPartial (object : partial) : t := {|
  validatorAddress := object.(p_validatorAddress) ?? "";
|}.

(** The object with no property given. *)
Definition nothing : partial := mkPartial None.

(** The bytes [encode] writes. *)
Definition wire {PB : Protobuf} {PS : ProtobufSpec PB} (m : t) : bytes :=
  f_string 10 m.(validatorAddress).

Definition valid (m : t) : Prop :=
  True.

Definition encodable {PB : Protobuf} {PS : ProtobufSpec PB} (m : t) : Prop :=
  valid m ∧ small (wire m).

Definition merge (m a : t) : t := {|
  validatorAddress := later_string m.(validatorAddress) a.(validatorAddress);
|}.

(** A whole message seen as a partial one. *)
Definition full (m : t) : partial := {|
  p_validatorAddress := Some m.(validatorAddress);
|}.

(** The message as its schema declares it. *)
Definition schema (m : t) : list field :=
  [implicit 1 (VString m.(validatorAddress))].

(** The message with its default for every property that is not kept. *)
Definition only (kept : string → bool) (m : t) : t := {|
  validatorAddress := if kept "validatorAddress" then m.(validatorAddress) else "";
|}.

#[global] Instance codec {PB : Protobuf} : MessageCodec t :=
  {| msg_base := base; msg_encode := encode; msg_field := decode_field |}.

#[global] Program Instance spec {PB : Protobuf} (PS : ProtobufSpec PB) : MessageSpec PS t :=
  {| msg_wire := wire; msg_valid := valid; msg_merge := merge |}.
Next Obligation. solve_encode_wire. Qed.
Next Obligation. solve_decode_wire. Qed.
Next Obligation. solve_merge_base. Qed.
Next Obligation. intros. solve_advances decode_field. Qed.

#[global] Program Instance data : MessageData t partial :=
  {| msg_fromJSON := fromJSON; msg_toJSON := toJSON;
     msg_fromPartial := fromPartial; msg_full := full |}.
Next Obligation. solve_json fromJSON toJSON. Qed.
Next Obligation. solve_partial fromPartial full. Qed.

#[global] Instance schema_wire {PB : Protobuf} {PS : ProtobufSpec PB} : WireSchema wire schema.
Proof. solve_schema_wire wire schema. Qed.

#[global] Instance schema_merge : MergeSchema merge schema.
Proof. solve_schema_merge merge schema. Qed.

(** Its row in the table of message types. *)
Definition message {PB : Protobuf} {PS : ProtobufSpec PB} : message_type :=
  plain_message "QueryValidatorCommissionRequest" nothing true schema only.

#[global] Instance message_lawful {PB : Protobuf} (PS : ProtobufSpec PB) : Lawful message.
Proof. solve_lawful decode_field fromJSON only. Qed.

End QueryValidatorCommissionRequest.

(** ** [QueryValidatorCommissionResponse] (cosmos/distribution/v1beta1/query.js) *)

Module QueryValidatorCommissionResponse.

Record t := mk {
  commission : option ValidatorAccumulatedCommission.t;
}.

#[global] Instance t_eta : Settable t := λ m, mk m.(commission).

Definition base : t := mk None.

Definition encode {PB : Protobuf} (message : t) (writer : Writer) : Writer :=
  writer
  @> defined message.(commission) (fun v w => w @> uint32 10 @> fork @> ValidatorAccumulatedCommission.encode v @> ldelim).

Definition decode_field {PB : Protobuf} (tag : Z) (message : t) : RM t :=
  match field_number tag with
  | 1 => v ← read_nested ValidatorAccumulatedCommission.decode;
         mret (message <| commission := Some v |>)
  | _ => _ ← skipType (wire_type tag); mret message
  end.

Definition decode {PB : Protobuf} (length : option Z) : RM t :=
  decode_message length base decode_field.

Definition fromJSON (object : js) : result t :=
  commission' ← field_or object "commission" (to_some ValidatorAccumulatedCommission.fromJSON) None;
  Ok (mk commission').

Definition toJSON (message : t) : js :=
  Obj (prop_opt "commission" ValidatorAccumulatedCommission.toJSON message.(commission)).

Record partial := mkPartial {
  p_commission : option ValidatorAccumulatedCommission.partial;
}.

Definition fromPartial (object : partial) : t := {|
  commission := ValidatorAccumulatedCommission.fromPartial <$> object.(p_commission);
|}.

(** The object with no property given. *)
Definition nothing : partial := mkPartial None.

(** The bytes [encode] writes. *)
Definition wire {PB : Protobuf} {PS : ProtobufSpec PB} (m : t) : bytes :=
  f_message 10 ValidatorAccumulatedCommission.wire m.(commission).

Definition valid (m : t) : Prop :=
  from_option ValidatorAccumulatedCommission.valid True m.(commission).

Definition encodable {PB : Protobuf} {PS : ProtobufSpec PB} (m : t) : Prop :=
  valid m ∧ small (wire m).

Definition merge (m a : t) : t := {|
  commission := later_message m.(commission) a.(commission);
|}.

(** A whole message seen as a partial one. *)
Definition full (m : t) : partial := {|
  p_commission := ValidatorAccumulatedCommission.full <$> m.(commission);
|}.

(** The message as its schema declares it. *)
Definition schema (m : t) : list field :=
  [singular 1 Optional (message_value ValidatorAccumulatedCommission.schema) m.(commission)].

(** The message with its default for every property that is not kept. *)
Definition only (kept : string → bool) (m : t) : t := {|
  commission := if kept "commission" then m.(commission) else None;
|}.

#[global] Instance codec {PB : Protobuf} : MessageCodec t :=
  {| msg_base := base; msg_encode := encode; msg_field := decode_field |}.

#[global] Program Instance spec {PB : Protobuf} (PS : ProtobufSpec PB) : MessageSpec PS t :=
  {| msg_wire := wire; msg_valid := valid; msg_merge := merge |}.
Next Obligation. solve_encode_wire. Qed.
Next Obligation. solve_decode_wire. Qed.
Next Obligation. solve_merge_base. Qed.
Next Obligation. intros. solve_advances decode_field. Qed.

#[global] Program Instance data : MessageData t partial :=
  {| msg_fromJSON := fromJSON; msg_toJSON := toJSON;
     msg_fromPartial := fromPartial; msg_full := full |}.
Next Obligation. solve_json fromJSON toJSON. Qed.
Next Obligation. solve_partial fromPartial full. Qed.

#[global] Instance schema_wire {PB : Protobuf} {PS : ProtobufSpec PB} : WireSchema wire schema.
Proof. solve_schema_wire wire schema. Qed.

#[global] Instance schema_merge : MergeSchema merge schema.
Proof. solve_schema_merge merge schema. Qed.

(** Its row in the table of message types. *)
Definition message {PB : Protobuf} {PS : ProtobufSpec PB} : message_type :=
  plain_message "QueryValidatorCommissionResponse" nothing true schema only.

#[global] Instance message_lawful {PB : Protobuf} (PS : ProtobufSpec PB) : Lawful message.
Proof. solve_lawful decode_field fromJSON only. Qed.

End QueryValidatorCommissionResponse.

(** ** [QueryValidatorSlashesRequest] (cosmos/distribution/v1beta1/query.js) *)

Module QueryValidatorSlashesRequest.

Record t := mk {
  validatorAddress : string;
  startingHeight : number;
  endingHeight : number;
  pagination : option PageRequest.t;
}.

#[global] Instance t_eta : Settable t := λ m, mk m.(validatorAddress) m.(startingHeight)
  m.(endingHeight) m.(pagination).

Definition base : t := mk "" 0 0 None.

Definition encode {PB : Protobuf} (message : t) (writer : Writer) : result Writer :=
  Ok writer
  @>= pure (when (str_neq message.(validatorAddress) "")
       (fun w => w @> uint32 10 @> string_ message.(validatorAddress)))
  @>= pure (when (num_neq message.(startingHeight) 0)
       (fun w => w @> uint32 16 @> uint64 message.(startingHeight)))
  @>= pure (when (num_neq message.(endingHeight) 0)
       (fun w => w @> uint32 24 @> uint64 message.(endingHeight)))
  @>= defined_e message.(pagination) (submessage 34 PageRequest.encode).

Definition decode_field {PB : Protobuf} (tag : Z) (message : t) : RM t :=
  match field_number tag with
  | 1 => v ← read_string; mret (message <| validatorAddress := v |>)
  | 2 => v ← read_number read_uint64; mret (message <| startingHeight := v |>)
  | 3 => v ← read_number read_uint64; mret (message <| endingHeight := v |>)
  | 4 => v ← read_nested PageRequest.decode; mret (message <| pagination := Some v |>)
  | _ => _ ← skipType (wire_type tag); mret message
  end.

Definition decode {PB : Protobuf} (length : option Z) : RM t :=
  decode_message length base decode_field.

Definition fromJSON (object : js) : result t :=
  validatorAddress' ← field_or object "validatorAddress" to_string "";
  startingHeight' ← field_or object "startingHeight" js_Number 0;
  endingHeight' ← field_or object "endingHeight" js_Number 0;
  pagination' ← field_or object "pagination" (to_some PageRequest.fromJSON) None;
  Ok (mk validatorAddress' startingHeight' endingHeight' pagination').

Definition toJSON (message : t) : js :=
  Obj ([("validatorAddress", Str message.(validatorAddress));
    ("startingHeight", Num message.(startingHeight));
    ("endingHeight", Num message.(endingHeight))] ++
   prop_opt "pagination" PageRequest.toJSON message.(pagination)).

Record partial := mkPartial {
  p_validatorAddress : option string;
  p_startingHeight : option number;
  p_endingHeight : option number;
  p_pagination : option PageRequest.partial;
}.

Definition fromPartial (object : partial) : t := {|
  validatorAddress := object.(p_validatorAddress) ?? "";
  startingHeight := object.(p_startingHeight) ?? Int 0;
  endingHeight := object.(p_endingHeight) ?? Int 0;
  pagination := PageRequest.fromPartial <$> object.(p_pagination);
|}.

(** The object with no property given. *)
Definition nothing : partial := mkPartial None None None None.

(** The bytes [encode] writes. *)
Definition wire {PB : Protobuf} {PS : ProtobufSpec PB} (m : t) : bytes :=
  f_string 10 m.(validatorAddress) ++
  f_number e_uint64 16 m.(startingHeight) ++
  f_number e_uint64 24 m.(endingHeight) ++
  f_message 34 PageRequest.wire m.(pagination).

Definition valid (m : t) : Prop :=
  uint64_ok m.(startingHeight) ∧ uint64_ok m.(endingHeight) ∧ from_option PageRequest.valid True m.(pagination).

(** The byte fields hold arrays, as the interface declares. *)
Definition typed (m : t) : bool := from_option PageRequest.typed true m.(pagination).

(** The message without its empty byte arrays. *)
Definition normal (m : t) : t := {|
  validatorAddress := m.(validatorAddress);
  startingHeight := m.(startingHeight);
  endingHeight := m.(endingHeight);
  pagination := PageRequest.normal <$> m.(pagination);
|}.

Definition encodable {PB : Protobuf} {PS : ProtobufSpec PB} (m : t) : Prop :=
  typed m = true ∧ valid m ∧ small (wire m).

Definition merge (m a : t) : t := {|
  validatorAddress := later_string m.(validatorAddress) a.(validatorAddress);
  startingHeight := later_number m.(startingHeight) a.(startingHeight);
  endingHeight := later_number m.(endingHeight) a.(endingHeight);
  pagination := later_message m.(pagination) (PageRequest.normal <$> a.(pagination));
|}.

(** A whole message seen as a partial one. *)
Definition full (m : t) : partial := {|
  p_validatorAddress := Some m.(validatorAddress);
  p_startingHeight := Some m.(startingHeight);
  p_endingHeight := Some m.(endingHeight);
  p_pagination := PageRequest.full <$> m.(pagination);
|}.

(** The message as its schema declares it. *)
Definition schema (m : t) : list field :=
  [implicit 1 (VString m.(validatorAddress));
   implicit 2 (VInt Uint64 m.(startingHeight));
   implicit 3 (VInt Uint64 m.(endingHeight));
   singular 4 Optional (message_value PageRequest.schema) m.(pagination)].

(** The message with its default for every property that is not kept. *)
Definition only (kept : string → bool) (m : t) : t := {|
  validatorAddress := if kept "validatorAddress" then m.(validatorAddress) else "";
  startingHeight := if kept "startingHeight" then m.(startingHeight) else Int 0;
  endingHeight := if kept "endingHeight" then m.(endingHeight) else Int 0;
  pagination := if kept "pagination" then m.(pagination) else None;
|}.

#[global] Instance codec {PB : Protobuf} : FallibleCodec t :=
  {| fmsg_base := base; fmsg_encode := encode; fmsg_field := decode_field |}.

#[global] Program Instance spec {PB : Protobuf} (PS : ProtobufSpec PB) : FallibleSpec PS t :=
  {| fmsg_wire := wire; fmsg_valid := valid; fmsg_typed := typed; fmsg_normal := normal;
     fmsg_merge := merge |}.
Next Obligation. solve_fencode_wire. Qed.
Next Obligation. intros. solve_fencode_throws encode typed. Qed.
Next Obligation. solve_fdecode_wire. Qed.
Next Obligation. solve_fmerge_base. Qed.
Next Obligation. intros. solve_fadvances decode_field. Qed.

#[global] Program Instance given_ : FalliblePartial t partial :=
  {| fmsg_fromPartial := fromPartial; fmsg_full := full; fmsg_given := typed |}.
Next Obligation. solve_fgiven fromPartial typed. Qed.
Next Obligation. solve_fpartial fromPartial full typed. Qed.

#[global] Program Instance json : FallibleJson t :=
  {| fmsg_fromJSON := fromJSON; fmsg_toJSON := toJSON;
     fmsg_named := fun _ => true; fmsg_known := fun m => m |}.
Next Obligation. solve_fjson fromJSON toJSON. Qed.
Next Obligation. reflexivity. Qed.

#[global] Instance schema_wire {PB : Protobuf} {PS : ProtobufSpec PB} : WireSchema wire schema.
Proof. solve_schema_wire wire schema. Qed.

#[global] Instance schema_normal : NormalSchema normal schema.
Proof. solve_schema_normal normal schema. Qed.

#[global] Instance schema_merge : MergeSchema merge schema.
Proof. solve_schema_merge merge schema. Qed.

(** Its row in the table of message types. *)
Definition message {PB : Protobuf} {PS : ProtobufSpec PB} : message_type :=
  fallible_message "QueryValidatorSlashesRequest" nothing true schema only.

#[global] Instance message_lawful {PB : Protobuf} (PS : ProtobufSpec PB) : Lawful message.
Proof. solve_lawful decode_field fromJSON only. Qed.

End QueryValidatorSlashesRequest.

(** ** [QueryValidatorSlashesResponse] (cosmos/distribution/v1beta1/query.js) *)

Module QueryValidatorSlashesResponse.

Record t := mk {
  slashes : list ValidatorSlashEvent.t;
  pagination : option PageResponse.t;
}.

#[global] Instance t_eta : Settable t := λ m, mk m.(slashes) m.(pagination).

Definition base : t := mk [] None.

Definition encode {PB : Protobuf} (message : t) (writer : Writer) : result Writer :=
  Ok writer
  @>= pure (each message.(slashes) (fun v w => w @> uint32 10 @> fork @> ValidatorSlashEvent.encode v @> ldelim))
  @>= defined_e message.(pagination) (submessage 18 PageResponse.encode).

Definition decode_field {PB : Protobuf} (tag : Z) (message : t) : RM t :=
  match field_number tag with
  | 1 => v ← read_nested ValidatorSlashEvent.decode;
         mret (message <| slashes := message.(slashes) ++ [v] |>)
  | 2 => v ← read_nested PageResponse.decode; mret (message <| pagination := Some v |>)
  | _ => _ ← skipType (wire_type tag); mret message
  end.

Definition decode {PB : Protobuf} (length : option Z) : RM t :=
  decode_message length base decode_field.

Definition fromJSON (object : js) : result t :=
  slashes' ← field_or object "slashes" (to_list ValidatorSlashEvent.fromJSON) [];
  pagination' ← field_or object "pagination" (to_some PageResponse.fromJSON) None;
  Ok (mk slashes' pagination').

Definition toJSON (message : t) : js :=
  Obj ([("slashes", Arr (map ValidatorSlashEvent.toJSON message.(slashes)))] ++
   prop_opt "pagination" PageResponse.toJSON message.(pagination)).

Record partial := mkPartial {
  p_slashes : option (list ValidatorSlashEvent.partial);
  p_pagination : option PageResponse.partial;
}.

Definition fromPartial (object : partial) : t := {|
  slashes := map ValidatorSlashEvent.fromPartial (object.(p_slashes) ?? []);
  pagination := PageResponse.fromPartial <$> object.(p_pagination);
|}.

(** The object with no property given. *)
Definition nothing : partial := mkPartial None None.

(** The bytes [encode] writes. *)
Definition wire {PB : Protobuf} {PS : ProtobufSpec PB} (m : t) : bytes :=
  f_repeated 10 ValidatorSlashEvent.wire m.(slashes) ++
  f_message 18 PageResponse.wire m.(pagination).

Definition valid (m : t) : Prop :=
  Forall ValidatorSlashEvent.valid m.(slashes) ∧ from_option PageResponse.valid True m.(pagination).

(** The byte fields hold arrays, as the interface declares. *)
Definition typed (m : t) : bool := from_option PageResponse.typed true m.(pagination).

(** The message without its empty byte arrays. *)
Definition normal (m : t) : t := {|
  slashes := m.(slashes);
  pagination := PageResponse.normal <$> m.(pagination);
|}.

Definition encodable {PB : Protobuf} {PS : ProtobufSpec PB} (m : t) : Prop :=
  typed m = true ∧ valid m ∧ small (wire m).

Definition merge (m a : t) : t := {|
  slashes := m.(slashes) ++ a.(slashes);
  pagination := later_message m.(pagination) (PageResponse.normal <$> a.(pagination));
|}.

(** A whole message seen as a partial one. *)
Definition full (m : t) : partial := {|
  p_slashes := Some (map ValidatorSlashEvent.full m.(slashes));
  p_pagination := PageResponse.full <$> m.(pagination);
|}.

(** The message as its schema declares it. *)
Definition schema (m : t) : list field :=
  [repeated 1 (message_value ValidatorSlashEvent.schema) m.(slashes);
   singular 2 Optional (message_value PageResponse.schema) m.(pagination)].

(** The message with its default for every property that is not kept. *)
Definition only (kept : string → bool) (m : t) : t := {|
  slashes := if kept "slashes" then m.(slashes) else [];
  pagination := if kept "pagination" then m.(pagination) else None;
|}.

#[global] Instance codec {PB : Protobuf} : FallibleCodec t :=
  {| fmsg_base := base; fmsg_encode := encode; fmsg_field := decode_field |}.

#[global] Program Instance spec {PB : Protobuf} (PS : ProtobufSpec PB) : FallibleSpec PS t :=
  {| fmsg_wire := wire; fmsg_valid := valid; fmsg_typed := typed; fmsg_normal := normal;
     fmsg_merge := merge |}.
Next Obligation. solve_fencode_wire. Qed.
Next Obligation. intros. solve_fencode_throws encode typed. Qed.
Next Obligation. solve_fdecode_wire. Qed.
Next Obligation. solve_fmerge_base. Qed.
Next Obligation. intros. solve_fadvances decode_field. Qed.

#[global] Program Instance given_ : FalliblePartial t partial :=
  {| fmsg_fromPartial := fromPartial; fmsg_full := full; fmsg_given := typed |}.
Next Obligation. solve_fgiven fromPartial typed. Qed.
Next Obligation. solve_fpartial fromPartial full typed. Qed.

#[global] Program Instance json : FallibleJson t :=
  {| fmsg_fromJSON := fromJSON; fmsg_toJSON := toJSON;
     fmsg_named := fun _ => true; fmsg_known := fun m => m |}.
Next Obligation. solve_fjson fromJSON toJSON. Qed.
Next Obligation. reflexivity. Qed.

#[global] Instance schema_wire {PB : Protobuf} {PS : ProtobufSpec PB} : WireSchema wire schema.
Proof. solve_schema_wire wire schema. Qed.

#[global] Instance schema_normal : NormalSchema normal schema.
Proof. solve_schema_normal normal schema. Qed.

#[global] Instance schema_merge : MergeSchema merge schema.
Proof. solve_schema_merge merge schema. Qed.

(** Its row in the table of message types. *)
Definition message {PB : Protobuf} {PS : ProtobufSpec PB} : message_type :=
  fallible_message "QueryValidatorSlashesResponse" nothing true schema only.

#[global] Instance message_lawful {PB : Protobuf} (PS : ProtobufSpec PB) : Lawful message.
Proof. solve_lawful decode_field fromJSON only. Qed.

End QueryValidatorSlashesResponse.

(** ** [QueryDelegationRewardsRequest] (cosmos/distribution/v1beta1/query.js) *)

Module QueryDelegationRewardsRequest.

Record t := mk {
  delegatorAddress : string;
  validatorAddress : string;
}.

#[global] Instance t_eta : Settable t := λ m, mk m.(delegatorAddress) m.(validatorAddress).

Definition base : t := mk "" "".

Definition encode {PB : Protobuf} (message : t) (writer : Writer) : Writer :=
  writer
  @> when (str_neq message.(delegatorAddress) "")
       (fun w => w @> uint32 10 @> string_ message.(delegatorAddress))
  @> when (str_neq message.(validatorAddress) "")
       (fun w => w @> uint32 18 @> string_ message.(validatorAddress)).

Definition decode_field {PB : Protobuf} (tag : Z) (message : t) : RM t :=
  match field_number tag with
  | 1 => v ← read_string; mret (message <| delegatorAddress := v |>)
  | 2 => v ← read_string; mret (message <| validatorAddress := v |>)
  | _ => _ ← skipType (wire_type tag); mret message
  end.

Definition decode {PB : Protobuf} (length : option Z) : RM t :=
  decode_message length base decode_field.

Definition fromJSON (object : js) : result t :=
  delegatorAddress' ← field_or object "delegatorAddress" to_string "";
  validatorAddress' ← field_or object "validatorAddress" to_string "";
  Ok (mk delegatorAddress' validatorAddress').

Definition toJSON (message : t) : js :=
  Obj ([("delegatorAddress", Str message.(delegatorAddress));
    ("validatorAddress", Str message.(validatorAddress))]).

Record partial := mkPartial {
  p_delegatorAddress : option string;
  p_validatorAddress : option string;
}.

Definition fromPartial (object : partial) : t := {|
  delegatorAddress := object.(p_delegatorAddress) ?? "";
  validatorAddress := object.(p_validatorAddress) ?? "";
|}.

(** The object with no property given. *)
Definition nothing : partial := mkPartial None None.

(** The bytes [encode] writes. *)
Definition wire {PB : Protobuf} {PS : ProtobufSpec PB} (m : t) : bytes :=
  f_string 10 m.(delegatorAddress) ++
  f_string 18 m.(validatorAddress).

Definition valid (m : t) : Prop :=
  True.

Definition encodable {PB : Protobuf} {PS : ProtobufSpec PB} (m : t) : Prop :=
  valid m ∧ small (wire m).

Definition merge (m a : t) : t := {|
  delegatorAddress := later_string m.(delegatorAddress) a.(delegatorAddress);
  validatorAddress := later_string m.(validatorAddress) a.(validatorAddress);
|}.

(** A whole message seen as a partial one. *)
Definition full (m : t) : partial := {|
  p_delegatorAddress := Some m.(delegatorAddress);
  p_validatorAddress := Some m.(validatorAddress);
|}.

(** The message as its schema declares it. *)
Definition schema (m : t) : list field :=
  [implicit 1 (VString m.(delegatorAddress));
   implicit 2 (VString m.(validatorAddress))].

(** The message with its default for every property that is not kept. *)
Definition only (kept : string → bool) (m : t) : t := {|
  delegatorAddress := if kept "delegatorAddress" then m.(delegatorAddress) else "";
  validatorAddress := if kept "validatorAddress" then m.(validatorAddress) else "";
|}.

#[global] Instance codec {PB : Protobuf} : MessageCodec t :=
  {| msg_base := base; msg_encode := encode; msg_field := decode_field |}.

#[global] Program Instance spec {PB : Protobuf} (PS : ProtobufSpec PB) : MessageSpec PS t :=
  {| msg_wire := wire; msg_valid := valid; msg_merge := merge |}.
Next Obligation. solve_encode_wire. Qed.
Next Obligation. solve_decode_wire. Qed.
Next Obligation. solve_merge_base. Qed.
Next Obligation. intros. solve_advances decode_field. Qed.

#[global] Program Instance data : MessageData t partial :=
  {| msg_fromJSON := fromJSON; msg_toJSON := toJSON;
     msg_fromPartial := fromPartial; msg_full := full |}.
Next Obligation. solve_json fromJSON toJSON. Qed.
Next Obligation. solve_partial fromPartial full. Qed.

#[global] Instance schema_wire {PB : Protobuf} {PS : ProtobufSpec PB} : WireSchema wire schema.
Proof. solve_schema_wire wire schema. Qed.

#[global] Instance schema_merge : MergeSchema merge schema.
Proof. solve_schema_merge merge schema. Qed.

(** Its row in the table of message types. *)
Definition message {PB : Protobuf} {PS : ProtobufSpec PB} : message_type :=
  plain_message "QueryDelegationRewardsRequest" nothing true schema only.

#[global] Instance message_lawful {PB : Protobuf} (PS : ProtobufSpec PB) : Lawful message.
Proof. solve_lawful decode_field fromJSON only. Qed.

End QueryDelegationRewardsRequest.

(** ** [QueryDelegationRewardsResponse] (cosmos/distribution/v1beta1/query.js) *)

Module QueryDelegationRewardsResponse.

Record t := mk {
  rewards : list DecCoin.t;
}.

#[global] Instance t_eta : Settable t := λ m, mk m.(rewards).

Definition base : t := mk [].

Definition encode {PB : Protobuf} (message : t) (writer : Writer) : Writer :=
  writer
  @> each message.(rewards) (fun v w => w @> uint32 10 @> fork @> DecCoin.encode v @> ldelim).

Definition decode_field {PB : Protobuf} (tag : Z) (message : t) : RM t :=
  match field_number tag with
  | 1 => v ← read_nested DecCoin.decode; mret (message <| rewards := message.(rewards) ++ [v] |>)
  | _ => _ ← skipType (wire_type tag); mret message
  end.

Definition decode {PB : Protobuf} (length : option Z) : RM t :=
  decode_message length base decode_field.

Definition fromJSON (object : js) : result t :=
  rewards' ← field_or object "rewards" (to_list DecCoin.fromJSON) [];
  Ok (mk rewards').

Definition toJSON (message : t) : js :=
  Obj ([("rewards", Arr (map DecCoin.toJSON message.(rewards)))]).

Record partial := mkPartial {
  p_rewards : option (list DecCoin.partial);
}.

Definition fromPartial (object : partial) : t := {|
  rewards := map DecCoin.fromPartial (object.(p_rewards) ?? []);
|}.

(** The object with no property given. *)
Definition nothing : partial := mkPartial None.

(** The bytes [encode] writes. *)
Definition wire {PB : Protobuf} {PS : ProtobufSpec PB} (m : t) : bytes :=
  f_repeated 10 DecCoin.wire m.(rewards).

Definition valid (m : t) : Prop :=
  Forall DecCoin.valid m.(rewards).

Definition encodable {PB : Protobuf} {PS : ProtobufSpec PB} (m : t) : Prop :=
  valid m ∧ small (wire m).

Definition merge (m a : t) : t := {|
  rewards := m.(rewards) ++ a.(rewards);
|}.

(** A whole message seen as a partial one. *)
Definition full (m : t) : partial := {|
  p_rewards := Some (map DecCoin.full m.(rewards));
|}.

(** The message as its schema declares it. *)
Definition schema (m : t) : list field :=
  [repeated 1 (message_value DecCoin.schema) m.(rewards)].

(** The message with its default for every property that is not kept. *)
Definition only (kept : string → bool) (m : t) : t := {|
  rewards := if kept "rewards" then m.(rewards) else [];
|}.

#[global] Instance codec {PB : Protobuf} : MessageCodec t :=
  {| msg_base := base; msg_encode := encode; msg_field := decode_field |}.

#[global] Program Instance spec {PB : Protobuf} (PS : ProtobufSpec PB) : MessageSpec PS t :=
  {| msg_wire := wire; msg_valid := valid; msg_merge := merge |}.
Next Obligation. solve_encode_wire. Qed.
Next Obligation. solve_decode_wire. Qed.
Next Obligation. solve_merge_base. Qed.
Next Obligation. intros. solve_advances decode_field. Qed.

#[global] Program Instance data : MessageData t partial :=
  {| msg_fromJSON := fromJSON; msg_toJSON := toJSON;
     msg_fromPartial := fromPartial; msg_full := full |}.
Next Obligation. solve_json fromJSON toJSON. Qed.
Next Obligation. solve_partial fromPartial full. Qed.

#[global] Instance schema_wire {PB : Protobuf} {PS : ProtobufSpec PB} : WireSchema wire schema.
Proof. solve_schema_wire wire schema. Qed.

#[global] Instance schema_merge : MergeSchema merge schema.
Proof. solve_schema_merge merge schema. Qed.

(** Its row in the table of message types. *)
Definition message {PB : Protobuf} {PS : ProtobufSpec PB} : message_type :=
  plain_message "QueryDelegationRewardsResponse" nothing true schema only.

#[global] Instance message_lawful {PB : Protobuf} (PS : ProtobufSpec PB) : Lawful message.
Proof. solve_lawful decode_field fromJSON only. Qed.

End QueryDelegationRewardsResponse.

(** ** [QueryDelegationTotalRewardsRequest] (cosmos/distribution/v1beta1/query.js) *)

Module QueryDelegationTotalRewardsRequest.

Record t := mk {
  delegatorAddress : string;
}.

#[global] Instance t_eta : Settable t := λ m, mk m.(delegatorAddress).

Definition base : t := mk "".

Definition encode {PB : Protobuf} (message : t) (writer : Writer) : Writer :=
  writer
  @> when (str_neq message.(delegatorAddress) "")
       (fun w => w @> uint32 10 @> string_ message.(delegatorAddress)).

Definition decode_field {PB : Protobuf} (tag : Z) (message : t) : RM t :=
  match field_number tag with
  | 1 => v ← read_string; mret (message <| delegatorAddress := v |>)
  | _ => _ ← skipType (wire_type tag); mret message
  end.

Definition decode {PB : Protobuf} (length : option Z) : RM t :=
  decode_message length base decode_field.

Definition fromJSON (object : js) : result t :=
  delegatorAddress' ← field_or object "delegatorAddress" to_string "";
  Ok (mk delegatorAddress').

Definition toJSON (message : t) : js :=
  Obj ([("delegatorAddress", Str message.(delegatorAddress))]).

Record partial := mkPartial {
  p_delegatorAddress : option string;
}.

Definition fromPartial (object : partial) : t := {|
  delegatorAddress := object.(p_delegatorAddress) ?? "";
|}.

(** The object with no property given. *)
Definition nothing : partial := mkPartial None.

(** The bytes [encode] writes. *)
Definition wire {PB : Protobuf} {PS : ProtobufSpec PB} (m : t) : bytes :=
  f_string 10 m.(delegatorAddress).

Definition valid (m : t) : Prop :=
  True.

Definition encodable {PB : Protobuf} {PS : ProtobufSpec PB} (m : t) : Prop :=
  valid m ∧ small (wire m).

Definition merge (m a : t) : t := {|
  delegatorAddress := later_string m.(delegatorAddress) a.(delegatorAddress);
|}.

(** A whole message seen as a partial one. *)
Definition full (m : t) : partial := {|
  p_delegatorAddress := Some m.(delegatorAddress);
|}.

(** The message as its schema declares it. *)
Definition schema (m : t) : list field :=
  [implicit 1 (VString m.(delegatorAddress))].

(** The message with its default for every property that is not kept. *)
Definition only (kept : string → bool) (m : t) : t := {|
  delegatorAddress := if kept "delegatorAddress" then m.(delegatorAddress) else "";
|}.

#[global] Instance codec {PB : Protobuf} : MessageCodec t :=
  {| msg_base := base; msg_encode := encode; msg_field := decode_field |}.

#[global] Program Instance spec {PB : Protobuf} (PS : ProtobufSpec PB) : MessageSpec PS t :=
  {| msg_wire := wire; msg_valid := valid; msg_merge := merge |}.
Next Obligation. solve_encode_wire. Qed.
Next Obligation. solve_decode_wire. Qed.
Next Obligation. solve_merge_base. Qed.
Next Obligation. intros. solve_advances decode_field. Qed.

#[global] Program Instance data : MessageData t partial :=
  {| msg_fromJSON := fromJSON; msg_toJSON := toJSON;
     msg_fromPartial := fromPartial; msg_full := full |}.
Next Obligation. solve_json fromJSON toJSON. Qed.
Next Obligation. solve_partial fromPartial full. Qed.

#[global] Instance schema_wire {PB : Protobuf} {PS : ProtobufSpec PB} : WireSchema wire schema.
Proof. solve_schema_wire wire schema. Qed.

#[global] Instance schema_merge : MergeSchema merge schema.
Proof. solve_schema_merge merge schema. Qed.

(** Its row in the table of message types. *)
Definition message {PB : Protobuf} {PS : ProtobufSpec PB} : message_type :=
  plain_message "QueryDelegationTotalRewardsRequest" nothing true schema only.

#[global] Instance message_lawful {PB : Protobuf} (PS : ProtobufSpec PB) : Lawful message.
Proof. solve_lawful decode_field fromJSON only. Qed.

End QueryDelegationTotalRewardsRequest.

(** ** [QueryDelegationTotalRewardsResponse] (cosmos/distribution/v1beta1/query.js) *)

Module QueryDelegationTotalRewardsResponse.

Record t := mk {
  rewards : list DelegationDelegatorReward.t;
  total : list DecCoin.t;
}.

#[global] Instance t_eta : Settable t := λ m, mk m.(rewards) m.(total).

Definition base : t := mk [] [].

Definition encode {PB : Protobuf} (message : t) (writer : Writer) : Writer :=
  writer
  @> each message.(rewards) (fun v w => w @> uint32 10 @> fork @> DelegationDelegatorReward.encode v @> ldelim)
  @> each message.(total) (fun v w => w @> uint32 18 @> fork @> DecCoin.encode v @> ldelim).

Definition decode_field {PB : Protobuf} (tag : Z) (message : t) : RM t :=
  match field_number tag with
  | 1 => v ← read_nested DelegationDelegatorReward.decode;
         mret (message <| rewards := message.(rewards) ++ [v] |>)
  | 2 => v ← read_nested DecCoin.decode; mret (message <| total := message.(total) ++ [v] |>)
  | _ => _ ← skipType (wire_type tag); mret message
  end.

Definition decode {PB : Protobuf} (length : option Z) : RM t :=
  decode_message length base decode_field.

Definition fromJSON (object : js) : result t :=
  rewards' ← field_or object "rewards" (to_list DelegationDelegatorReward.fromJSON) [];
  total' ← field_or object "total" (to_list DecCoin.fromJSON) [];
  Ok (mk rewards' total').

Definition toJSON (message : t) : js :=
  Obj ([("rewards", Arr (map DelegationDelegatorReward.toJSON message.(rewards)));
    ("total", Arr (map DecCoin.toJSON message.(total)))]).

Record partial := mkPartial {
  p_rewards : option (list DelegationDelegatorReward.partial);
  p_total : option (list DecCoin.partial);
}.

Definition fromPartial (object : partial) : t := {|
  rewards := map DelegationDelegatorReward.fromPartial (object.(p_rewards) ?? []);
  total := map DecCoin.fromPartial (object.(p_total) ?? []);
|}.

(** The object with no property given. *)
Definition nothing : partial := mkPartial None None.

(** The bytes [encode] writes. *)
Definition wire {PB : Protobuf} {PS : ProtobufSpec PB} (m : t) : bytes :=
  f_repeated 10 DelegationDelegatorReward.wire m.(rewards) ++
  f_repeated 18 DecCoin.wire m.(total).

Definition valid (m : t) : Prop :=
  Forall DelegationDelegatorReward.valid m.(rewards) ∧ Forall DecCoin.valid m.(total).

Definition encodable {PB : Protobuf} {PS : ProtobufSpec PB} (m : t) : Prop :=
  valid m ∧ small (wire m).

Definition merge (m a : t) : t := {|
  rewards := m.(rewards) ++ a.(rewards);
  total := m.(total) ++ a.(total);
|}.

(** A whole message seen as a partial one. *)
Definition full (m : t) : partial := {|
  p_rewards := Some (map DelegationDelegatorReward.full m.(rewards));
  p_total := Some (map DecCoin.full m.(total));
|}.

(** The message as its schema declares it. *)
Definition schema (m : t) : list field :=
  [repeated 1 (message_value DelegationDelegatorReward.schema) m.(rewards);
   repeated 2 (message_value DecCoin.schema) m.(total)].

(** The message with its default for every property that is not kept. *)
Definition only (kept : string → bool) (m : t) : t := {|
  rewards := if kept "rewards" then m.(rewards) else [];
  total := if kept "total" then m.(total) else [];
|}.

#[global] Instance codec {PB : Protobuf} : MessageCodec t :=
  {| msg_base := base; msg_encode := encode; msg_field := decode_field |}.

#[global] Program Instance spec {PB : Protobuf} (PS : ProtobufSpec PB) : MessageSpec PS t :=
  {| msg_wire := wire; msg_valid := valid; msg_merge := merge |}.
Next Obligation. solve_encode_wire. Qed.
Next Obligation. solve_decode_wire. Qed.
Next Obligation. solve_merge_base. Qed.
Next Obligation. intros. solve_advances decode_field. Qed.

#[global] Program Instance data : MessageData t partial :=
  {| msg_fromJSON := fromJSON; msg_toJSON := toJSON;
     msg_fromPartial := fromPartial; msg_full := full |}.
Next Obligation. solve_json fromJSON toJSON. Qed.
Next Obligation. solve_partial fromPartial full. Qed.

#[global] Instance schema_wire {PB : Protobuf} {PS : ProtobufSpec PB} : WireSchema wire schema.
Proof. solve_schema_wire wire schema. Qed.

#[global] Instance schema_merge : MergeSchema merge schema.
Proof. solve_schema_merge merge schema. Qed.

(** Its row in the table of message types. *)
Definition message {PB : Protobuf} {PS : ProtobufSpec PB} : message_type :=
  plain_message "QueryDelegationTotalRewardsResponse" nothing true schema only.

#[global] Instance message_lawful {PB : Protobuf} (PS : ProtobufSpec PB) : Lawful message.
Proof. solve_lawful decode_field fromJSON only. Qed.

End QueryDelegationTotalRewardsResponse.

(** ** [QueryDelegatorValidatorsRequest] (cosmos/distribution/v1beta1/query.js) *)

Module QueryDelegatorValidatorsRequest.

Record t := mk {
  delegatorAddress : string;
}.

#[global] Instance t_eta : Settable t := λ m, mk m.(delegatorAddress).

Definition base : t := mk "".

Definition encode {PB : Protobuf} (message : t) (writer : Writer) : Writer :=
  writer
  @> when (str_neq message.(delegatorAddress) "")
       (fun w => w @> uint32 10 @> string_ message.(delegatorAddress)).

Definition decode_field {PB : Protobuf} (tag : Z) (message : t) : RM t :=
  match field_number tag with
  | 1 => v ← read_string; mret (message <| delegatorAddress := v |>)
  | _ => _ ← skipType (wire_type tag); mret message
  end.

Definition decode {PB : Protobuf} (length : option Z) : RM t :=
  decode_message length base decode_field.

Definition fromJSON (object : js) : result t :=
  delegatorAddress' ← field_or object "delegatorAddress" to_string "";
  Ok (mk delegatorAddress').

Definition toJSON (message : t) : js :=
  Obj ([("delegatorAddress", Str message.(delegatorAddress))]).

Record partial := mkPartial {
  p_delegatorAddress : option string;
}.

Definition fromPartial (object : partial) : t := {|
  delegatorAddress := object.(p_delegatorAddress) ?? "";
|}.

(** The object with no property given. *)
Definition nothing : partial := mkPartial None.

(** The bytes [encode] writes. *)
Definition wire {PB : Protobuf} {PS : ProtobufSpec PB} (m : t) : bytes :=
  f_string 10 m.(delegatorAddress).

Definition valid (m : t) : Prop :=
  True.

Definition encodable {PB : Protobuf} {PS : ProtobufSpec PB} (m : t) : Prop :=
  valid m ∧ small (wire m).

Definition merge (m a : t) : t := {|
  delegatorAddress := later_string m.(delegatorAddress) a.(delegatorAddress);
|}.

(** A whole message seen as a partial one. *)
Definition full (m : t) : partial := {|
  p_delegatorAddress := Some m.(delegatorAddress);
|}.

(** The message as its schema declares it. *)
Definition schema (m : t) : list field :=
  [implicit 1 (VString m.(delegatorAddress))].

(** The message with its default for every property that is not kept. *)
Definition only (kept : string → bool) (m : t) : t := {|
  delegatorAddress := if kept "delegatorAddress" then m.(delegatorAddress) else "";
|}.

#[global] Instance codec {PB : Protobuf} : MessageCodec t :=
  {| msg_base := base; msg_encode := encode; msg_field := decode_field |}.

#[global] Program Instance spec {PB : Protobuf} (PS : ProtobufSpec PB) : MessageSpec PS t :=
  {| msg_wire := wire; msg_valid := valid; msg_merge := merge |}.
Next Obligation. solve_encode_wire. Qed.
Next Obligation. solve_decode_wire. Qed.
Next Obligation. solve_merge_base. Qed.
Next Obligation. intros. solve_advances decode_field. Qed.

#[global] Program Instance data : MessageData t partial :=
  {| msg_fromJSON := fromJSON; msg_toJSON := toJSON;
     msg_fromPartial := fromPartial; msg_full := full |}.
Next Obligation. solve_json fromJSON toJSON. Qed.
Next Obligation. solve_partial fromPartial full. Qed.

#[global] Instance schema_wire {PB : Protobuf} {PS : ProtobufSpec PB} : WireSchema wire schema.
Proof. solve_schema_wire wire schema. Qed.

#[global] Instance schema_merge : MergeSchema merge schema.
Proof. solve_schema_merge merge schema. Qed.

(** Its row in the table of message types. *)
Definition message {PB : Protobuf} {PS : ProtobufSpec PB} : message_type :=
  plain_message "QueryDelegatorValidatorsRequest" nothing true schema only.

#[global] Instance message_lawful {PB : Protobuf} (PS : ProtobufSpec PB) : Lawful message.
Proof. solve_lawful decode_field fromJSON only. Qed.

End QueryDelegatorValidatorsRequest.

(** ** [QueryDelegatorValidatorsResponse] (cosmos/distribution/v1beta1/query.js) *)

Module QueryDelegatorValidatorsResponse.

Record t := mk {
  validators : list string;
}.

#[global] Instance t_eta : Settable t := λ m, mk m.(validators).

Definition base : t := mk [].

Definition encode {PB : Protobuf} (message : t) (writer : Writer) : Writer :=
  writer
  @> each message.(validators) (fun v w => w @> uint32 10 @> string_ v).

Definition decode_field {PB : Protobuf} (tag : Z) (message : t) : RM t :=
  match field_number tag with
  | 1 => v ← read_string; mret (message <| validators := message.(validators) ++ [v] |>)
  | _ => _ ← skipType (wire_type tag); mret message
  end.

Definition decode {PB : Protobuf} (length : option Z) : RM t :=
  decode_message length base decode_field.

Definition fromJSON (object : js) : result t :=
  validators' ← field_or object "validators" (to_list to_string) [];
  Ok (mk validators').

Definition toJSON (message : t) : js :=
  Obj ([("validators", Arr (map Str message.(validators)))]).

Record partial := mkPartial {
  p_validators : option (list string);
}.

Definition fromPartial (object : partial) : t := {|
  validators := (object.(p_validators) ?? []);
|}.

(** The object with no property given. *)
Definition nothing : partial := mkPartial None.

(** The bytes [encode] writes. *)
Definition wire {PB : Protobuf} {PS : ProtobufSpec PB} (m : t) : bytes :=
  f_repeated 10 chars m.(validators).

Definition valid (m : t) : Prop :=
  True.

Definition encodable {PB : Protobuf} {PS : ProtobufSpec PB} (m : t) : Prop :=
  valid m ∧ small (wire m).

Definition merge (m a : t) : t := {|
  validators := m.(validators) ++ a.(validators);
|}.

(** A whole message seen as a partial one. *)
Definition full (m : t) : partial := {|
  p_validators := Some m.(validators);
|}.

(** The message as its schema declares it. *)
Definition schema (m : t) : list field :=
  [repeated 1 VString m.(validators)].

(** The message with its default for every property that is not kept. *)
Definition only (kept : string → bool) (m : t) : t := {|
  validators := if kept "validators" then m.(validators) else [];
|}.

#[global] Instance codec {PB : Protobuf} : MessageCodec t :=
  {| msg_base := base; msg_encode := encode; msg_field := decode_field |}.

#[global] Program Instance spec {PB : Protobuf} (PS : ProtobufSpec PB) : MessageSpec PS t :=
  {| msg_wire := wire; msg_valid := valid; msg_merge := merge |}.
Next Obligation. solve_encode_wire. Qed.
Next Obligation. solve_decode_wire. Qed.
Next Obligation. solve_merge_base. Qed.
Next Obligation. intros. solve_advances decode_field. Qed.

#[global] Program Instance data : MessageData t partial :=
  {| msg_fromJSON := fromJSON; msg_toJSON := toJSON;
     msg_fromPartial := fromPartial; msg_full := full |}.
Next Obligation. solve_json fromJSON toJSON. Qed.
Next Obligation. solve_partial fromPartial full. Qed.

#[global] Instance schema_wire {PB : Protobuf} {PS : ProtobufSpec PB} : WireSchema wire schema.
Proof. solve_schema_wire wire schema. Qed.

#[global] Instance schema_merge : MergeSchema merge schema.
Proof. solve_schema_merge merge schema. Qed.

(** Its row in the table of message types. *)
Definition message {PB : Protobuf} {PS : ProtobufSpec PB} : message_type :=
  plain_message "QueryDelegatorValidatorsResponse" nothing true schema only.

#[global] Instance message_lawful {PB : Protobuf} (PS : ProtobufSpec PB) : Lawful message.
Proof. solve_lawful decode_field fromJSON only. Qed.

End QueryDelegatorValidatorsResponse.

(** ** [QueryDelegatorWithdrawAddressRequest] (cosmos/distribution/v1beta1/query.js) *)

Module QueryDelegatorWithdrawAddressRequest.

Record t := mk {
  delegatorAddress : string;
}.

#[global] Instance t_eta : Settable t := λ m, mk m.(delegatorAddress).

Definition base : t := mk "".

Definition encode {PB : Protobuf} (message : t) (writer : Writer) : Writer :=
  writer
  @> when (str_neq message.(delegatorAddress) "")
       (fun w => w @> uint32 10 @> string_ message.(delegatorAddress)).

Definition decode_field {PB : Protobuf} (tag : Z) (message : t) : RM t :=
  match field_number tag with
  | 1 => v ← read_string; mret (message <| delegatorAddress := v |>)
  | _ => _ ← skipType (wire_type tag); mret message
  end.

Definition decode {PB : Protobuf} (length : option Z) : RM t :=
  decode_message length base decode_field.

Definition fromJSON (object : js) : result t :=
  delegatorAddress' ← field_or object "delegatorAddress" to_string "";
  Ok (mk delegatorAddress').

Definition toJSON (message : t) : js :=
  Obj ([("delegatorAddress", Str message.(delegatorAddress))]).

Record partial := mkPartial {
  p_delegatorAddress : option string;
}.

Definition fromPartial (object : partial) : t := {|
  delegatorAddress := object.(p_delegatorAddress) ?? "";
|}.

(** The object with no property given. *)
Definition nothing : partial := mkPartial None.

(** The bytes [encode] writes. *)
Definition wire {PB : Protobuf} {PS : ProtobufSpec PB} (m : t) : bytes :=
  f_string 10 m.(delegatorAddress).

Definition valid (m : t) : Prop :=
  True.

Definition encodable {PB : Protobuf} {PS : ProtobufSpec PB} (m : t) : Prop :=
  valid m ∧ small (wire m).

Definition merge (m a : t) : t := {|
  delegatorAddress := later_string m.(delegatorAddress) a.(delegatorAddress);
|}.

(** A whole message seen as a partial one. *)
Definition full (m : t) : partial := {|
  p_delegatorAddress := Some m.(delegatorAddress);
|}.

(** The message as its schema declares it. *)
Definition schema (m : t) : list field :=
  [implicit 1 (VString m.(delegatorAddress))].

(** The message with its default for every property that is not kept. *)
Definition only (kept : string → bool) (m : t) : t := {|
  delegatorAddress := if kept "delegatorAddress" then m.(delegatorAddress) else "";
|}.

#[global] Instance codec {PB : Protobuf} : MessageCodec t :=
  {| msg_base := base; msg_encode := encode; msg_field := decode_field |}.

#[global] Program Instance spec {PB : Protobuf} (PS : ProtobufSpec PB) : MessageSpec PS t :=
  {| msg_wire := wire; msg_valid := valid; msg_merge := merge |}.
Next Obligation. solve_encode_wire. Qed.
Next Obligation. solve_decode_wire. Qed.
Next Obligation. solve_merge_base. Qed.
Next Obligation. intros. solve_advances decode_field. Qed.

#[global] Program Instance data : MessageData t partial :=
  {| msg_fromJSON := fromJSON; msg_toJSON := toJSON;
     msg_fromPartial := fromPartial; msg_full := full |}.
Next Obligation. solve_json fromJSON toJSON. Qed.
Next Obligation. solve_partial fromPartial full. Qed.

#[global] Instance schema_wire {PB : Protobuf} {PS : ProtobufSpec PB} : WireSchema wire schema.
Proof. solve_schema_wire wire schema. Qed.

#[global] Instance schema_merge : MergeSchema merge schema.
Proof. solve_schema_merge merge schema. Qed.

(** Its row in the table of message types. *)
Definition message {PB : Protobuf} {PS : ProtobufSpec PB} : message_type :=
  plain_message "QueryDelegatorWithdrawAddressRequest" nothing true schema only.

#[global] Instance message_lawful {PB : Protobuf} (PS : ProtobufSpec PB) : Lawful message.
Proof. solve_lawful decode_field fromJSON only. Qed.

End QueryDelegatorWithdrawAddressRequest.

(** ** [QueryDelegatorWithdrawAddressResponse] (cosmos/distribution/v1beta1/query.js) *)

Module QueryDelegatorWithdrawAddressResponse.

Record t := mk {
  withdrawAddress : string;
}.

#[global] Instance t_eta : Settable t := λ m, mk m.(withdrawAddress).

Definition base : t := mk "".

Definition encode {PB : Protobuf} (message : t) (writer : Writer) : Writer :=
  writer
  @> when (str_neq message.(withdrawAddress) "")
       (fun w => w @> uint32 10 @> string_ message.(withdrawAddress)).

Definition decode_field {PB : Protobuf} (tag : Z) (message : t) : RM t :=
  match field_number tag with
  | 1 => v ← read_string; mret (message <| withdrawAddress := v |>)
  | _ => _ ← skipType (wire_type tag); mret message
  end.

Definition decode {PB : Protobuf} (length : option Z) : RM t :=
  decode_message length base decode_field.

Definition fromJSON (object : js) : result t :=
  withdrawAddress' ← field_or object "withdrawAddress" to_string "";
  Ok (mk withdrawAddress').

Definition toJSON (message : t) : js :=
  Obj ([("withdrawAddress", Str message.(withdrawAddress))]).

Record partial := mkPartial {
  p_withdrawAddress : option string;
}.

Definition fromPartial (object : partial) : t := {|
  withdrawAddress := object.(p_withdrawAddress) ?? "";
|}.

(** The object with no property given. *)
Definition nothing : partial := mkPartial None.

(** The bytes [encode] writes. *)
Definition wire {PB : Protobuf} {PS : ProtobufSpec PB} (m : t) : bytes :=
  f_string 10 m.(withdrawAddress).

Definition valid (m : t) : Prop :=
  True.

Definition encodable {PB : Protobuf} {PS : ProtobufSpec PB} (m : t) : Prop :=
  valid m ∧ small (wire m).

Definition merge (m a : t) : t := {|
  withdrawAddress := later_string m.(withdrawAddress) a.(withdrawAddress);
|}.

(** A whole message seen as a partial one. *)
Definition full (m : t) : partial := {|
  p_withdrawAddress := Some m.(withdrawAddress);
|}.

(** The message as its schema declares it. *)
Definition schema (m : t) : list field :=
  [implicit 1 (VString m.(withdrawAddress))].

(** The message with its default for every property that is not kept. *)
Definition only (kept : string → bool) (m : t) : t := {|
  withdrawAddress := if kept "withdrawAddress" then m.(withdrawAddress) else "";
|}.

#[global] Instance codec {PB : Protobuf} : MessageCodec t :=
  {| msg_base := base; msg_encode := encode; msg_field := decode_field |}.

#[global] Program Instance spec {PB : Protobuf} (PS : ProtobufSpec PB) : MessageSpec PS t :=
  {| msg_wire := wire; msg_valid := valid; msg_merge := merge |}.
Next Obligation. solve_encode_wire. Qed.
Next Obligation. solve_decode_wire. Qed.
Next Obligation. solve_merge_base. Qed.
Next Obligation. intros. solve_advances decode_field. Qed.

#[global] Program Instance data : MessageData t partial :=
  {| msg_fromJSON := fromJSON; msg_toJSON := toJSON;
     msg_fromPartial := fromPartial; msg_full := full |}.
Next Obligation. solve_json fromJSON toJSON. Qed.
Next Obligation. solve_partial fromPartial full. Qed.

#[global] Instance schema_wire {PB : Protobuf} {PS : ProtobufSpec PB} : WireSchema wire schema.
Proof. solve_schema_wire wire schema. Qed.

#[global] Instance schema_merge : MergeSchema merge schema.
Proof. solve_schema_merge merge schema. Qed.

(** Its row in the table of message types. *)
Definition message {PB : Protobuf} {PS : ProtobufSpec PB} : message_type :=
  plain_message "QueryDelegatorWithdrawAddressResponse" nothing true schema only.

#[global] Instance message_lawful {PB : Protobuf} (PS : ProtobufSpec PB) : Lawful message.
Proof. solve_lawful decode_field fromJSON only. Qed.

End QueryDelegatorWithdrawAddressResponse.

(** ** [QueryCommunityPoolRequest] (cosmos/distribution/v1beta1/query.js) *)

Module QueryCommunityPoolRequest.

Record t := mk {}.

#[global] Instance t_eta : Settable t := λ m, m.

Definition base : t := mk.

Definition encode {PB : Protobuf} (message : t) (writer : Writer) : Writer :=
  writer.

Definition decode_field {PB : Protobuf} (tag : Z) (message : t) : RM t :=
  match field_number tag with
  | _ => _ ← skipType (wire_type tag); mret message
  end.

Definition decode {PB : Protobuf} (length : option Z) : RM t :=
  decode_message length base decode_field.

Definition fromJSON (object : js) : result t :=
  Ok base.

Definition toJSON (message : t) : js :=
  Obj [].

Record partial := mkPartial {}.

Definition fromPartial (object : partial) : t := base.

(** The object with no property given. *)
Definition nothing : partial := mkPartial.

(** The bytes [encode] writes. *)
Definition wire {PB : Protobuf} {PS : ProtobufSpec PB} (m : t) : bytes :=
  [].

Definition valid (m : t) : Prop :=
  True.

Definition encodable {PB : Protobuf} {PS : ProtobufSpec PB} (m : t) : Prop :=
  valid m ∧ small (wire m).

Definition merge (m a : t) : t := m.

(** A whole message seen as a partial one. *)
Definition full (m : t) : partial := mkPartial.

(** The message as its schema declares it. *)
Definition schema (m : t) : list field :=
  [].

(** The message with its default for every property that is not kept. *)
Definition only (kept : string → bool) (m : t) : t := m.

#[global] Instance codec {PB : Protobuf} : MessageCodec t :=
  {| msg_base := base; msg_encode := encode; msg_field := decode_field |}.

#[global] Program Instance spec {PB : Protobuf} (PS : ProtobufSpec PB) : MessageSpec PS t :=
  {| msg_wire := wire; msg_valid := valid; msg_merge := merge |}.
Next Obligation. solve_encode_wire. Qed.
Next Obligation. solve_decode_wire. Qed.
Next Obligation. solve_merge_base. Qed.
Next Obligation. intros. solve_advances decode_field. Qed.

#[global] Program Instance data : MessageData t partial :=
  {| msg_fromJSON := fromJSON; msg_toJSON := toJSON;
     msg_fromPartial := fromPartial; msg_full := full |}.
Next Obligation. solve_json fromJSON toJSON. Qed.
Next Obligation. solve_partial fromPartial full. Qed.

#[global] Instance schema_wire {PB : Protobuf} {PS : ProtobufSpec PB} : WireSchema wire schema.
Proof. solve_schema_wire wire schema. Qed.

#[global] Instance schema_merge : MergeSchema merge schema.
Proof. solve_schema_merge merge schema. Qed.

(** Its row in the table of message types. *)
Definition message {PB : Protobuf} {PS : ProtobufSpec PB} : message_type :=
  plain_message "QueryCommunityPoolRequest" nothing false schema only.

#[global] Instance message_lawful {PB : Protobuf} (PS : ProtobufSpec PB) : Lawful message.
Proof. solve_lawful decode_field fromJSON only. Qed.

End QueryCommunityPoolRequest.

(** ** [QueryCommunityPoolResponse] (cosmos/distribution/v1beta1/query.js) *)

Module QueryCommunityPoolResponse.

Record t := mk {
  pool : list DecCoin.t;
}.

#[global] Instance t_eta : Settable t := λ m, mk m.(pool).

Definition base : t := mk [].

Definition encode {PB : Protobuf} (message : t) (writer : Writer) : Writer :=
  writer
  @> each message.(pool) (fun v w => w @> uint32 10 @> fork @> DecCoin.encode v @> ldelim).

Definition decode_field {PB : Protobuf} (tag : Z) (message : t) : RM t :=
  match field_number tag with
  | 1 => v ← read_nested DecCoin.decode; mret (message <| pool := message.(pool) ++ [v] |>)
  | _ => _ ← skipType (wire_type tag); mret message
  end.

Definition decode {PB : Protobuf} (length : option Z) : RM t :=
  decode_message length base decode_field.

Definition fromJSON (object : js) : result t :=
  pool' ← field_or object "pool" (to_list DecCoin.fromJSON) [];
  Ok (mk pool').

Definition toJSON (message : t) : js :=
  Obj ([("pool", Arr (map DecCoin.toJSON message.(pool)))]).

Record partial := mkPartial {
  p_pool : option (list DecCoin.partial);
}.

Definition fromPartial (object : partial) : t := {|
  pool := map DecCoin.fromPartial (object.(p_pool) ?? []);
|}.

(** The object with no property given. *)
Definition nothing : partial := mkPartial None.

(** The bytes [encode] writes. *)
Definition wire {PB : Protobuf} {PS : ProtobufSpec PB} (m : t) : bytes :=
  f_repeated 10 DecCoin.wire m.(pool).

Definition valid (m : t) : Prop :=
  Forall DecCoin.valid m.(pool).

Definition encodable {PB : Protobuf} {PS : ProtobufSpec PB} (m : t) : Prop :=
  valid m ∧ small (wire m).

Definition merge (m a : t) : t := {|
  pool := m.(pool) ++ a.(pool);
|}.

(** A whole message seen as a partial one. *)
Definition full (m : t) : partial := {|
  p_pool := Some (map DecCoin.full m.(pool));
|}.

(** The message as its schema declares it. *)
Definition schema (m : t) : list field :=
  [repeated 1 (message_value DecCoin.schema) m.(pool)].

(** The message with its default for every property that is not kept. *)
Definition only (kept : string → bool) (m : t) : t := {|
  pool := if kept "pool" then m.(pool) else [];
|}.

#[global] Instance codec {PB : Protobuf} : MessageCodec t :=
  {| msg_base := base; msg_encode := encode; msg_field := decode_field |}.

#[global] Program Instance spec {PB : Protobuf} (PS : ProtobufSpec PB) : MessageSpec PS t :=
  {| msg_wire := wire; msg_valid := valid; msg_merge := merge |}.
Next Obligation. solve_encode_wire. Qed.
Next Obligation. solve_decode_wire. Qed.
Next Obligation. solve_merge_base. Qed.
Next Obligation. intros. solve_advances decode_field. Qed.

#[global] Program Instance data : MessageData t partial :=
  {| msg_fromJSON := fromJSON; msg_toJSON := toJSON;
     msg_fromPartial := fromPartial; msg_full := full |}.
Next Obligation. solve_json fromJSON toJSON. Qed.
Next Obligation. solve_partial fromPartial full. Qed.

#[global] Instance schema_wire {PB : Protobuf} {PS : ProtobufSpec PB} : WireSchema wire schema.
Proof. solve_schema_wire wire schema. Qed.

#[global] Instance schema_merge : MergeSchema merge schema.
Proof. solve_schema_merge merge schema. Qed.

(** Its row in the table of message types. *)
Definition message {PB : Protobuf} {PS : ProtobufSpec PB} : message_type :=
  plain_message "QueryCommunityPoolResponse" nothing true schema only.

#[global] Instance message_lawful {PB : Protobuf} (PS : ProtobufSpec PB) : Lawful message.
Proof. solve_lawful decode_field fromJSON only. Qed.

End QueryCommunityPoolResponse.


(** ** [MsgClientImpl]

    [rpc] is the transport the class is constructed with: [rpc service method data]
    is what the promise of [this.rpc.request] settles to. *)
Module MsgClientImpl.
Section client.
Context {PB : Protobuf} (rpc : string → string → bytes → result bytes).

Definition SetWithdrawAddress (request : MsgSetWithdrawAddress.t)
    : result MsgSetWithdrawAddressResponse.t :=
  data ← rpc "cosmos.distribution.v1beta1.Msg" "SetWithdrawAddress"
    (finish (MsgSetWithdrawAddress.encode request create));
  decode_bytes MsgSetWithdrawAddressResponse.decode data.

Definition WithdrawDelegatorReward (request : MsgWithdrawDelegatorReward.t)
    : result MsgWithdrawDelegatorRewardResponse.t :=
  data ← rpc "cosmos.distribution.v1beta1.Msg" "WithdrawDelegatorReward"
    (finish (MsgWithdrawDelegatorReward.encode request create));
  decode_bytes MsgWithdrawDelegatorRewardResponse.decode data.

Definition WithdrawValidatorCommission (request : MsgWithdrawValidatorCommission.t)
    : result MsgWithdrawValidatorCommissionResponse.t :=
  data ← rpc "cosmos.distribution.v1beta1.Msg" "WithdrawValidatorCommission"
    (finish (MsgWithdrawValidatorCommission.encode request create));
  decode_bytes MsgWithdrawValidatorCommissionResponse.decode data.

Definition FundCommunityPool (request : MsgFundCommunityPool.t)
    : result MsgFundCommunityPoolResponse.t :=
  data ← rpc "cosmos.distribution.v1beta1.Msg" "FundCommunityPool"
    (finish (MsgFundCommunityPool.encode request create));
  decode_bytes MsgFundCommunityPoolResponse.decode data.

End client.
End MsgClientImpl.


(** ** [QueryClientImpl]

    [rpc] is the transport the class is constructed with: [rpc service method data]
    is what the promise of [this.rpc.request] settles to. *)
Module QueryClientImpl.
Section client.
Context {PB : Protobuf} (rpc : string → string → bytes → result bytes).

Definition Params (request : QueryParamsRequest.t) : result QueryParamsResponse.t :=
  data ← rpc "cosmos.distribution.v1beta1.Query" "Params"
    (finish (QueryParamsRequest.encode request create));
  decode_bytes QueryParamsResponse.decode data.

Definition ValidatorOutstandingRewards (request : QueryValidatorOutstandingRewardsRequest.t)
    : result QueryValidatorOutstandingRewardsResponse.t :=
  data ← rpc "cosmos.distribution.v1beta1.Query" "ValidatorOutstandingRewards"
    (finish (QueryValidatorOutstandingRewardsRequest.encode request create));
  decode_bytes QueryValidatorOutstandingRewardsResponse.decode data.

Definition ValidatorCommission (request : QueryValidatorCommissionRequest.t)
    : result QueryValidatorCommissionResponse.t :=
  data ← rpc "cosmos.distribution.v1beta1.Query" "ValidatorCommission"
    (finish (QueryValidatorCommissionRequest.encode request create));
  decode_bytes QueryValidatorCommissionResponse.decode data.

Definition ValidatorSlashes (request : QueryValidatorSlashesRequest.t)
    : result QueryValidatorSlashesResponse.t :=
  w ← QueryValidatorSlashesRequest.encode request create;
  data ← rpc "cosmos.distribution.v1beta1.Query" "ValidatorSlashes" (finish w);
  decode_bytes QueryValidatorSlashesResponse.decode data.

Definition DelegationRewards (request : QueryDelegationRewardsRequest.t)
    : result QueryDelegationRewardsResponse.t :=
  data ← rpc "cosmos.distribution.v1beta1.Query" "DelegationRewards"
    (finish (QueryDelegationRewardsRequest.encode request create));
  decode_bytes QueryDelegationRewardsResponse.decode data.

Definition DelegationTotalRewards (request : QueryDelegationTotalRewardsRequest.t)
    : result QueryDelegationTotalRewardsResponse.t :=
  data ← rpc "cosmos.distribution.v1beta1.Query" "DelegationTotalRewards"
    (finish (QueryDelegationTotalRewardsRequest.encode request create));
  decode_bytes QueryDelegationTotalRewardsResponse.decode data.

Definition DelegatorValidators (request : QueryDelegatorValidatorsRequest.t)
    : result QueryDelegatorValidatorsResponse.t :=
  data ← rpc "cosmos.distribution.v1beta1.Query" "DelegatorValidators"
    (finish (QueryDelegatorValidatorsRequest.encode request create));
  decode_bytes QueryDelegatorValidatorsResponse.decode data.

Definition DelegatorWithdrawAddress (request : QueryDelegatorWithdrawAddressRequest.t)
    : result QueryDelegatorWithdrawAddressResponse.t :=
  data ← rpc "cosmos.distribution.v1beta1.Query" "DelegatorWithdrawAddress"
    (finish (QueryDelegatorWithdrawAddressRequest.encode request create));
  decode_bytes QueryDelegatorWithdrawAddressResponse.decode data.

Definition CommunityPool (request : QueryCommunityPoolRequest.t)
    : result QueryCommunityPoolResponse.t :=
  data ← rpc "cosmos.distribution.v1beta1.Query" "CommunityPool"
    (finish (QueryCommunityPoolRequest.encode request create));
  decode_bytes QueryCommunityPoolResponse.decode data.

End client.
End QueryClientImpl.

(** ** The message types of this file *)

Definition messages {PB : Protobuf} {PS : ProtobufSpec PB} : list message_type :=
  [ Params.message; ValidatorHistoricalRewards.message; ValidatorCurrentRewards.message;
   ValidatorAccumulatedCommission.message; ValidatorOutstandingRewards.message;
   ValidatorSlashEvent.message; ValidatorSlashEvents.message; FeePool.message;
   CommunityPoolSpendProposal.message; DelegatorStartingInfo.message;
   DelegationDelegatorReward.message; CommunityPoolSpendProposalWithDeposit.message;
   DelegatorWithdrawInfo.message; ValidatorOutstandingRewardsRecord.message;
   ValidatorAccumulatedCommissionRecord.message; ValidatorHistoricalRewardsRecord.message;
   ValidatorCurrentRewardsRecord.message; DelegatorStartingInfoRecord.message;
   ValidatorSlashEventRecord.message; GenesisState.message; MsgSetWithdrawAddress.message;
   MsgSetWithdrawAddressResponse.message; MsgWithdrawDelegatorReward.message;
   MsgWithdrawDelegatorRewardResponse.message; MsgWithdrawValidatorCommission.message;
   MsgWithdrawValidatorCommissionResponse.message; MsgFundCommunityPool.message;
   MsgFundCommunityPoolResponse.message; QueryParamsRequest.message;
   QueryParamsResponse.message; QueryValidatorOutstandingRewardsRequest.message;
   QueryValidatorOutstandingRewardsResponse.message; QueryValidatorCommissionRequest.message;
   QueryValidatorCommissionResponse.message; QueryValidatorSlashesRequest.message;
   QueryValidatorSlashesResponse.message; QueryDelegationRewardsRequest.message;
   QueryDelegationRewardsResponse.message; QueryDelegationTotalRewardsRequest.message;
   QueryDelegationTotalRewardsResponse.message; QueryDelegatorValidatorsRequest.message;
   QueryDelegatorValidatorsResponse.message; QueryDelegatorWithdrawAddressRequest.message;
   QueryDelegatorWithdrawAddressResponse.message; QueryCommunityPoolRequest.message;
   QueryCommunityPoolResponse.message].

Lemma DistributionTypes_lawful {PB : Protobuf} {PS : ProtobufSpec PB} : Forall Lawful messages.
Proof. solve_table. Qed.

(** The methods of [MsgClientImpl]. *)
Definition msg_methods {PB : Protobuf} {PS : ProtobufSpec PB} : list rpc_method :=
  [mkMethod "cosmos.distribution.v1beta1.Msg" "SetWithdrawAddress"
     MsgSetWithdrawAddress.message MsgSetWithdrawAddressResponse.message
     (fun rpc => MsgClientImpl.SetWithdrawAddress rpc);
   mkMethod "cosmos.distribution.v1beta1.Msg" "WithdrawDelegatorReward"
     MsgWithdrawDelegatorReward.message MsgWithdrawDelegatorRewardResponse.message
     (fun rpc => MsgClientImpl.WithdrawDelegatorReward rpc);
   mkMethod "cosmos.distribution.v1beta1.Msg" "WithdrawValidatorCommission"
     MsgWithdrawValidatorCommission.message MsgWithdrawValidatorCommissionResponse.message
     (fun rpc => MsgClientImpl.WithdrawValidatorCommission rpc);
   mkMethod "cosmos.distribution.v1beta1.Msg" "FundCommunityPool"
     MsgFundCommunityPool.message MsgFundCommunityPoolResponse.message
     (fun rpc => MsgClientImpl.FundCommunityPool rpc)].

Lemma DistributionTypes_msg_methods_lawful {PB : Protobuf} {PS : ProtobufSpec PB} : Forall method_lawful msg_methods.
Proof. solve_methods. Qed.

(** The methods of [QueryClientImpl]. *)
Definition query_methods {PB : Protobuf} {PS : ProtobufSpec PB} : list rpc_method :=
  [mkMethod "cosmos.distribution.v1beta1.Query" "Params"
     QueryParamsRequest.message QueryParamsResponse.message
     (fun rpc => QueryClientImpl.Params rpc);
   mkMethod "cosmos.distribution.v1beta1.Query" "ValidatorOutstandingRewards"
     QueryValidatorOutstandingRewardsRequest.message QueryValidatorOutstandingRewardsResponse.message
     (fun rpc => QueryClientImpl.ValidatorOutstandingRewards rpc);
   mkMethod "cosmos.distribution.v1beta1.Query" "ValidatorCommission"
     QueryValidatorCommissionRequest.message QueryValidatorCommissionResponse.message
     (fun rpc => QueryClientImpl.ValidatorCommission rpc);
   mkMethod "cosmos.distribution.v1beta1.Query" "ValidatorSlashes"
     QueryValidatorSlashesRequest.message QueryValidatorSlashesResponse.message
     (fun rpc => QueryClientImpl.ValidatorSlashes rpc);
   mkMethod "cosmos.distribution.v1beta1.Query" "DelegationRewards"
     QueryDelegationRewardsRequest.message QueryDelegationRewardsResponse.message
     (fun rpc => QueryClientImpl.DelegationRewards rpc);
   mkMethod "cosmos.distribution.v1beta1.Query" "DelegationTotalRewards"
     QueryDelegationTotalRewardsRequest.message QueryDelegationTotalRewardsResponse.message
     (fun rpc => QueryClientImpl.DelegationTotalRewards rpc);
   mkMethod "cosmos.distribution.v1beta1.Query" "DelegatorValidators"
     QueryDelegatorValidatorsRequest.message QueryDelegatorValidatorsResponse.message
     (fun rpc => QueryClientImpl.DelegatorValidators rpc);
   mkMethod "cosmos.distribution.v1beta1.Query" "DelegatorWithdrawAddress"
     QueryDelegatorWithdrawAddressRequest.message QueryDelegatorWithdrawAddressResponse.message
     (fun rpc => QueryClientImpl.DelegatorWithdrawAddress rpc);
   mkMethod "cosmos.distribution.v1beta1.Query" "CommunityPool"
     QueryCommunityPoolRequest.message QueryCommunityPoolResponse.message
     (fun rpc => QueryClientImpl.CommunityPool rpc)].

Lemma DistributionTypes_query_methods_lawful {PB : Protobuf} {PS : ProtobufSpec PB} : Forall method_lawful query_methods.
Proof. solve_methods. Qed.
