(* ===== verification/EvidenceTypes.v ===== *)
(** * The messages of the evidence module of the Cosmos SDK

    Evidence of misbehaviour: the codecs of
    [cosmos.evidence.v1beta1/module/types/cosmos/evidence/v1beta1/*.js], with the RPC
    clients of tx.js and query.js. *)
From S2P Require Import Prelude Js Protobuf Codec Calendar Dates Base64 Fallible Proto3 MessageTable CommonTypes.
Open Scope Z_scope.

(** ** [Equivocation] (cosmos/evidence/v1beta1/evidence.js) *)

Module Equivocation.

Record t := mk {
  height : number;
  time : option date;
  power : number;
  consensusAddress : string;
}.

#[global] Instance t_eta : Settable t := λ m, mk m.(height) m.(time) m.(power)
  m.(consensusAddress).

Definition base : t := mk 0 None 0 "".

Definition encode {PB : Protobuf} (message : t) (writer : Writer) : result Writer :=
  Ok writer
  @>= pure (when (num_neq message.(height) 0) (fun w => w @> uint32 8 @> int64 message.(height)))
  @>= pure (defined message.(time) (fun v w => w @> uint32 18 @> fork @> encode_time v @> ldelim))
  @>= pure (when (num_neq message.(power) 0) (fun w => w @> uint32 24 @> int64 message.(power)))
  @>= pure (when (str_neq message.(consensusAddress) "")
       (fun w => w @> uint32 34 @> string_ message.(consensusAddress))).

Definition decode_field {PB : Protobuf} (tag : Z) (message : t) : RM t :=
  match field_number tag with
  | 1 => v ← read_number read_int64; mret (message <| height := v |>)
  | 2 => v ← read_time; mret (message <| time := Some v |>)
  | 3 => v ← read_number read_int64; mret (message <| power := v |>)
  | 4 => v ← read_string; mret (message <| consensusAddress := v |>)
  | _ => _ ← skipType (wire_type tag); mret message
  end.

Definition decode {PB : Protobuf} (length : option Z) : RM t :=
  decode_message length base decode_field.

Definition fromJSON (object : js) : result t :=
  height' ← field_or object "height" js_Number 0;
  time' ← field_or object "time" (to_some fromJsonTimestamp) None;
  power' ← field_or object "power" js_Number 0;
  consensusAddress' ← field_or object "consensusAddress" to_string "";
  Ok (mk height' time' power' consensusAddress').

Definition toJSON (message : t) : result js :=
  time' ← option_result toISOString message.(time);
  Ok (Obj ([("height", Num message.(height))] ++
   prop_opt "time" Str time' ++
   [("power", Num message.(power));
    ("consensusAddress", Str message.(consensusAddress))])).

Record partial := mkPartial {
  p_height : option number;
  p_time : option date;
  p_power : option number;
  p_consensusAddress : option string;
}.

Definition fromPartial (object : partial) : t := {|
  height := object.(p_height) ?? Int 0;
  time := object.(p_time);
  power := object.(p_power) ?? Int 0;
  consensusAddress := object.(p_consensusAddress) ?? "";
|}.

(** The object with no property given. *)
Definition nothing : partial := mkPartial None None None None.

(** The bytes [encode] writes. *)
Definition wire {PB : Protobuf} {PS : ProtobufSpec PB} (m : t) : bytes :=
  f_number e_int64 8 m.(height) ++
  f_message 18 wire_time m.(time) ++
  f_number e_int64 24 m.(power) ++
  f_string 34 m.(consensusAddress).

Definition valid (m : t) : Prop :=
  int64_ok m.(height) ∧ from_option date_ok True m.(time) ∧ int64_ok m.(power).

(** The byte fields hold arrays, as the interface declares. *)
Definition typed (m : t) : bool := true.

(** The message without its empty byte arrays. *)
Definition normal (m : t) : t := {|
  height := m.(height);
  time := m.(time);
  power := m.(power);
  consensusAddress := m.(consensusAddress);
|}.

(** The dates are valid. *)
Definition timed (m : t) : bool := from_option date_valid true m.(time).

Definition encodable {PB : Protobuf} {PS : ProtobufSpec PB} (m : t) : Prop :=
  typed m = true ∧ valid m ∧ small (wire m).

Definition merge (m a : t) : t := {|
  height := later_number m.(height) a.(height);
  time := later_message m.(time) a.(time);
  power := later_number m.(power) a.(power);
  consensusAddress := later_string m.(consensusAddress) a.(consensusAddress);
|}.

(** A whole message seen as a partial one. *)
Definition full (m : t) : partial := {|
  p_height := Some m.(height);
  p_time := m.(time);
  p_power := Some m.(power);
  p_consensusAddress := Some m.(consensusAddress);
|}.

(** The message as its schema declares it. *)
Definition schema (m : t) : list field :=
  [implicit 1 (VInt Int64 m.(height));
   singular 2 Stamp timestamp_value m.(time);
   implicit 3 (VInt Int64 m.(power));
   implicit 4 (VString m.(consensusAddress))].

(** The message with its default for every property that is not kept. *)
Definition only (kept : string → bool) (m : t) : t := {|
  height := if kept "height" then m.(height) else Int 0;
  time := if kept "time" then m.(time) else None;
  power := if kept "power" then m.(power) else Int 0;
  consensusAddress := if kept "consensusAddress" then m.(consensusAddress) else "";
|}.

#[global] Instance codec {PB : Protobuf} : FallibleCodec t :=
  {| fmsg_base := base; fmsg_encode := encode; fmsg_field := decode_field |}.

#[global] Program Instance spec {PB : Protobuf} (PS : ProtobufSpec PB) : FallibleSpec PS t :=
  {| fmsg_wire := wire; fmsg_valid := valid; fmsg_typed := typed; fmsg_normal := normal;
     fmsg_merge := merge |}.
Next Obligation. solve_fencode_wire. Qed.
Next Obligation. intros. solve_fencode_throws encode typed. Qed.
Next Obligation. solve_fdecode_wire. Qed.
Next Obligation. solve_fmerge_base. Qed.
Next Obligation. intros. solve_fadvances decode_field. Qed.

#[global] Program Instance given_ : FalliblePartial t partial :=
  {| fmsg_fromPartial := fromPartial; fmsg_full := full; fmsg_given := typed |}.
Next Obligation. solve_fgiven fromPartial typed. Qed.
Next Obligation. solve_fpartial fromPartial full typed. Qed.

#[global] Program Instance json : DatedJson t :=
  {| dmsg_fromJSON := fromJSON; dmsg_toJSON := toJSON; dmsg_timed := timed;
     dmsg_named := fun _ => true; dmsg_known := fun m => m |}.
Next Obligation. solve_djson fromJSON toJSON timed. Qed.
Next Obligation. solve_dthrows toJSON timed. Qed.
Next Obligation. reflexivity. Qed.

#[global] Instance schema_wire {PB : Protobuf} {PS : ProtobufSpec PB} : WireSchema wire schema.
Proof. solve_schema_wire wire schema. Qed.

#[global] Instance schema_normal : NormalSchema normal schema.
Proof. solve_schema_normal normal schema. Qed.

#[global] Instance schema_merge : MergeSchema merge schema.
Proof. solve_schema_merge merge schema. Qed.

(** Its row in the table of message types. *)
Definition message {PB : Protobuf} {PS : ProtobufSpec PB} : message_type :=
  dated_message "Equivocation" nothing true schema only.

#[global] Instance message_lawful {PB : Protobuf} (PS : ProtobufSpec PB) : Lawful message.
Proof. solve_lawful decode_field fromJSON only. Qed.

End Equivocation.

(** ** [GenesisState] (cosmos/evidence/v1beta1/genesis.js) *)

Module GenesisState.

Record t := mk {
  evidence : list Any.t;
}.

#[global] Instance t_eta : Settable t := λ m, mk m.(evidence).

Definition base : t := mk [].

Definition encode {PB : Protobuf} (message : t) (writer : Writer) : result Writer :=
  Ok writer
  @>= each_e message.(evidence) (submessage 10 Any.encode).

Definition decode_field {PB : Protobuf} (tag : Z) (message : t) : RM t :=
  match field_number tag with
  | 1 => v ← read_nested Any.decode; mret (message <| evidence := message.(evidence) ++ [v] |>)
  | _ => _ ← skipType (wire_type tag); mret message
  end.

Definition decode {PB : Protobuf} (length : option Z) : RM t :=
  decode_message length base decode_field.

Definition fromJSON (object : js) : result t :=
  evidence' ← field_or object "evidence" (to_list Any.fromJSON) [];
  Ok (mk evidence').

Definition toJSON (message : t) : js :=
  Obj ([("evidence", Arr (map Any.toJSON message.(evidence)))]).

Record partial := mkPartial {
  p_evidence : option (list Any.partial);
}.

Definition fromPartial (object : partial) : t := {|
  evidence := map Any.fromPartial (object.(p_evidence) ?? []);
|}.

(** The object with no property given. *)
Definition nothing : partial := mkPartial None.

(** The bytes [encode] writes. *)
Definition wire {PB : Protobuf} {PS : ProtobufSpec PB} (m : t) : bytes :=
  f_repeated 10 Any.wire m.(evidence).

Definition valid (m : t) : Prop :=
  Forall Any.valid m.(evidence).

(** The byte fields hold arrays, as the interface declares. *)
Definition typed (m : t) : bool := forallb Any.typed m.(evidence).

(** The message without its empty byte arrays. *)
Definition normal (m : t) : t := {|
  evidence := map Any.normal m.(evidence);
|}.

Definition encodable {PB : Protobuf} {PS : ProtobufSpec PB} (m : t) : Prop :=
  typed m = true ∧ valid m ∧ small (wire m).

Definition merge (m a : t) : t := {|
  evidence := m.(evidence) ++ map Any.normal a.(evidence);
|}.

(** A whole message seen as a partial one. *)
Definition full (m : t) : partial := {|
  p_evidence := Some (map Any.full m.(evidence));
|}.

(** The message as its schema declares it. *)
Definition schema (m : t) : list field :=
  [repeated 1 (message_value Any.schema) m.(evidence)].

(** The message with its default for every property that is not kept. *)
Definition only (kept : string → bool) (m : t) : t := {|
  evidence := if kept "evidence" then m.(evidence) else [];
|}.

#[global] Instance codec {PB : Protobuf} : FallibleCodec t :=
  {| fmsg_base := base; fmsg_encode := encode; fmsg_field := decode_field |}.

#[global] Program Instance spec {PB : Protobuf} (PS : ProtobufSpec PB) : FallibleSpec PS t :=
  {| fmsg_wire := wire; fmsg_valid := valid; fmsg_typed := typed; fmsg_normal := normal;
     fmsg_merge := merge |}.
Next Obligation. solve_fencode_wire. Qed.
Next Obligation. intros. solve_fencode_throws encode typed. Qed.
Next Obligation. solve_fdecode_wire. Qed.
Next Obligation. solve_fmerge_base. Qed.
Next Obligation. intros. solve_fadvances decode_field. Qed.

#[global] Program Instance given_ : FalliblePartial t partial :=
  {| fmsg_fromPartial := fromPartial; fmsg_full := full; fmsg_given := typed |}.
Next Obligation. solve_fgiven fromPartial typed. Qed.
Next Obligation. solve_fpartial fromPartial full typed. Qed.

#[global] Program Instance json : FallibleJson t :=
  {| fmsg_fromJSON := fromJSON; fmsg_toJSON := toJSON;
     fmsg_named := fun _ => true; fmsg_known := fun m => m |}.
Next Obligation. solve_fjson fromJSON toJSON. Qed.
Next Obligation. reflexivity. Qed.

#[global] Instance schema_wire {PB : Protobuf} {PS : ProtobufSpec PB} : WireSchema wire schema.
Proof. solve_schema_wire wire schema. Qed.

#[global] Instance schema_normal : NormalSchema normal schema.
Proof. solve_schema_normal normal schema. Qed.

#[global] Instance schema_merge : MergeSchema merge schema.
Proof. solve_schema_merge merge schema. Qed.

(** Its row in the table of message types. *)
Definition message {PB : Protobuf} {PS : ProtobufSpec PB} : message_type :=
  fallible_message "GenesisState" nothing true schema only.

#[global] Instance message_lawful {PB : Protobuf} (PS : ProtobufSpec PB) : Lawful message.
Proof. solve_lawful decode_field fromJSON only. Qed.

End GenesisState.

(** ** [MsgSubmitEvidence] (cosmos/evidence/v1beta1/tx.js) *)

Module MsgSubmitEvidence.

Record t := mk {
  submitter : string;
  evidence : option Any.t;
}.

#[global] Instance t_eta : Settable t := λ m, mk m.(submitter) m.(evidence).

Definition base : t := mk "" None.

Definition encode {PB : Protobuf} (message : t) (writer : Writer) : result Writer :=
  Ok writer
  @>= pure (when (str_neq message.(submitter) "")
       (fun w => w @> uint32 10 @> string_ message.(submitter)))
  @>= defined_e message.(evidence) (submessage 18 Any.encode).

Definition decode_field {PB : Protobuf} (tag : Z) (message : t) : RM t :=
  match field_number tag with
  | 1 => v ← read_string; mret (message <| submitter := v |>)
  | 2 => v ← read_nested Any.decode; mret (message <| evidence := Some v |>)
  | _ => _ ← skipType (wire_type tag); mret message
  end.

Definition decode {PB : Protobuf} (length : option Z) : RM t :=
  decode_message length base decode_field.

Definition fromJSON (object : js) : result t :=
  submitter' ← field_or object "submitter" to_string "";
  evidence' ← field_or object "evidence" (to_some Any.fromJSON) None;
  Ok (mk submitter' evidence').

Definition toJSON (message : t) : js :=
  Obj ([("submitter", Str message.(submitter))] ++
   prop_opt "evidence" Any.toJSON message.(evidence)).

Record partial := mkPartial {
  p_submitter : option string;
  p_evidence : option Any.partial;
}.

Definition fromPartial (object : partial) : t := {|
  submitter := object.(p_submitter) ?? "";
  evidence := Any.fromPartial <$> object.(p_evidence);
|}.

(** The object with no property given. *)
Definition nothing : partial := mkPartial None None.

(** The bytes [encode] writes. *)
Definition wire {PB : Protobuf} {PS : ProtobufSpec PB} (m : t) : bytes :=
  f_string 10 m.(submitter) ++
  f_message 18 Any.wire m.(evidence).

Definition valid (m : t) : Prop :=
  from_option Any.valid True m.(evidence).

(** The byte fields hold arrays, as the interface declares. *)
Definition typed (m : t) : bool := from_option Any.typed true m.(evidence).

(** The message without its empty byte arrays. *)
Definition normal (m : t) : t := {|
  submitter := m.(submitter);
  evidence := Any.normal <$> m.(evidence);
|}.

Definition encodable {PB : Protobuf} {PS : ProtobufSpec PB} (m : t) : Prop :=
  typed m = true ∧ valid m ∧ small (wire m).

Definition merge (m a : t) : t := {|
  submitter := later_string m.(submitter) a.(submitter);
  evidence := later_message m.(evidence) (Any.normal <$> a.(evidence));
|}.

(** A whole message seen as a partial one. *)
Definition full (m : t) : partial := {|
  p_submitter := Some m.(submitter);
  p_evidence := Any.full <$> m.(evidence);
|}.

(** The message as its schema declares it. *)
Definition schema (m : t) : list field :=
  [implicit 1 (VString m.(submitter));
   singular 2 Optional (message_value Any.schema) m.(evidence)].

(** The message with its default for every property that is not kept. *)
Definition only (kept : string → bool) (m : t) : t := {|
  submitter := if kept "submitter" then m.(submitter) else "";
  evidence := if kept "evidence" then m.(evidence) else None;
|}.

#[global] Instance codec {PB : Protobuf} : FallibleCodec t :=
  {| fmsg_base := base; fmsg_encode := encode; fmsg_field := decode_field |}.

#[global] Program Instance spec {PB : Protobuf} (PS : ProtobufSpec PB) : FallibleSpec PS t :=
  {| fmsg_wire := wire; fmsg_valid := valid; fmsg_typed := typed; fmsg_normal := normal;
     fmsg_merge := merge |}.
Next Obligation. solve_fencode_wire. Qed.
Next Obligation. intros. solve_fencode_throws encode typed. Qed.
Next Obligation. solve_fdecode_wire. Qed.
Next Obligation. solve_fmerge_base. Qed.
Next Obligation. intros. solve_fadvances decode_field. Qed.

#[global] Program Instance given_ : FalliblePartial t partial :=
  {| fmsg_fromPartial := fromPartial; fmsg_full := full; fmsg_given := typed |}.
Next Obligation. solve_fgiven fromPartial typed. Qed.
Next Obligation. solve_fpartial fromPartial full typed. Qed.

#[global] Program Instance json : FallibleJson t :=
  {| fmsg_fromJSON := fromJSON; fmsg_toJSON := toJSON;
     fmsg_named := fun _ => true; fmsg_known := fun m => m |}.
Next Obligation. solve_fjson fromJSON toJSON. Qed.
Next Obligation. reflexivity. Qed.

#[global] Instance schema_wire {PB : Protobuf} {PS : ProtobufSpec PB} : WireSchema wire schema.
Proof. solve_schema_wire wire schema. Qed.

#[global] Instance schema_normal : NormalSchema normal schema.
Proof. solve_schema_normal normal schema. Qed.

#[global] Instance schema_merge : MergeSchema merge schema.
Proof. solve_schema_merge merge schema. Qed.

(** Its row in the table of message types. *)
Definition message {PB : Protobuf} {PS : ProtobufSpec PB} : message_type :=
  fallible_message "MsgSubmitEvidence" nothing true schema only.

#[global] Instance message_lawful {PB : Protobuf} (PS : ProtobufSpec PB) : Lawful message.
Proof. solve_lawful decode_field fromJSON only. Qed.

End MsgSubmitEvidence.

(** ** [MsgSubmitEvidenceResponse] (cosmos/evidence/v1beta1/tx.js) *)

Module MsgSubmitEvidenceResponse.

Record t := mk {
  hash : option bytes;
}.

#[global] Instance t_eta : Settable t := λ m, mk m.(hash).

Definition base : t := mk None.

Definition encode {PB : Protobuf} (message : t) (writer : Writer) : result Writer :=
  Ok writer
  @>= bytes_field 34 message.(hash).

Definition decode_field {PB : Protobuf} (tag : Z) (message : t) : RM t :=
  match field_number tag with
  | 4 => v ← read_bytes; mret (message <| hash := Some v |>)
  | _ => _ ← skipType (wire_type tag); mret message
  end.

Definition decode {PB : Protobuf} (length : option Z) : RM t :=
  decode_message length base decode_field.

Definition fromJSON (object : js) : result t :=
  hash' ← field_or object "hash" (to_some bytesFromBase64) None;
  Ok (mk hash').

Definition toJSON (message : t) : js :=
  Obj (prop_opt "hash" (fun b => Str (base64FromBytes b)) message.(hash)).

Record partial := mkPartial {
  p_hash : option bytes;
}.

Definition fromPartial (object : partial) : t := {|
  hash := Some (object.(p_hash) ?? []);
|}.

(** The object with no property given. *)
Definition nothing : partial := mkPartial None.

(** The bytes [encode] writes. *)
Definition wire {PB : Protobuf} {PS : ProtobufSpec PB} (m : t) : bytes :=
  f_bytes 34 m.(hash).

Definition valid (m : t) : Prop :=
  True.

(** The byte fields hold arrays, as the interface declares. *)
Definition typed (m : t) : bool := given m.(hash).

(** The message without its empty byte arrays. *)
Definition normal (m : t) : t := {|
  hash := nonempty m.(hash);
|}.

Definition encodable {PB : Protobuf} {PS : ProtobufSpec PB} (m : t) : Prop :=
  typed m = true ∧ valid m ∧ small (wire m).

Definition merge (m a : t) : t := {|
  hash := later_bytes m.(hash) a.(hash);
|}.

(** A whole message seen as a partial one. *)
Definition full (m : t) : partial := {|
  p_hash := m.(hash);
|}.

(** The message as its schema declares it. *)
Definition schema (m : t) : list field :=
  [implicit 4 (byte_array m.(hash))].

(** The message with its default for every property that is not kept. *)
Definition only (kept : string → bool) (m : t) : t := {|
  hash := if kept "hash" then m.(hash) else None;
|}.

#[global] Instance codec {PB : Protobuf} : FallibleCodec t :=
  {| fmsg_base := base; fmsg_encode := encode; fmsg_field := decode_field |}.

#[global] Program Instance spec {PB : Protobuf} (PS : ProtobufSpec PB) : FallibleSpec PS t :=
  {| fmsg_wire := wire; fmsg_valid := valid; fmsg_typed := typed; fmsg_normal := normal;
     fmsg_merge := merge |}.
Next Obligation. solve_fencode_wire. Qed.
Next Obligation. intros. solve_fencode_throws encode typed. Qed.
Next Obligation. solve_fdecode_wire. Qed.
Next Obligation. solve_fmerge_base. Qed.
Next Obligation. intros. solve_fadvances decode_field. Qed.

#[global] Program Instance given_ : FalliblePartial t partial :=
  {| fmsg_fromPartial := fromPartial; fmsg_full := full; fmsg_given := typed |}.
Next Obligation. solve_fgiven fromPartial typed. Qed.
Next Obligation. solve_fpartial fromPartial full typed. Qed.

#[global] Program Instance json : FallibleJson t :=
  {| fmsg_fromJSON := fromJSON; fmsg_toJSON := toJSON;
     fmsg_named := fun _ => true; fmsg_known := fun m => m |}.
Next Obligation. solve_fjson fromJSON toJSON. Qed.
Next Obligation. reflexivity. Qed.

#[global] Instance schema_wire {PB : Protobuf} {PS : ProtobufSpec PB} : WireSchema wire schema.
Proof. solve_schema_wire wire schema. Qed.

#[global] Instance schema_normal : NormalSchema normal schema.
Proof. solve_schema_normal normal schema. Qed.

#[global] Instance schema_merge : MergeSchema merge schema.
Proof. solve_schema_merge merge schema. Qed.

(** Its row in the table of message types. *)
Definition message {PB : Protobuf} {PS : ProtobufSpec PB} : message_type :=
  fallible_message "MsgSubmitEvidenceResponse" nothing true schema only.

#[global] Instance message_lawful {PB : Protobuf} (PS : ProtobufSpec PB) : Lawful message.
Proof. solve_lawful decode_field fromJSON only. Qed.

End MsgSubmitEvidenceResponse.

(** ** [QueryEvidenceRequest] (cosmos/evidence/v1beta1/query.js) *)

Module QueryEvidenceRequest.

Record t := mk {
  evidenceHash : option bytes;
}.

#[global] Instance t_eta : Settable t := λ m, mk m.(evidenceHash).

Definition base : t := mk None.

Definition encode {PB : Protobuf} (message : t) (writer : Writer) : result Writer :=
  Ok writer
  @>= bytes_field 10 message.(evidenceHash).

Definition decode_field {PB : Protobuf} (tag : Z) (message : t) : RM t :=
  match field_number tag with
  | 1 => v ← read_bytes; mret (message <| evidenceHash := Some v |>)
  | _ => _ ← skipType (wire_type tag); mret message
  end.

Definition decode {PB : Protobuf} (length : option Z) : RM t :=
  decode_message length base decode_field.

Definition fromJSON (object : js) : result t :=
  evidenceHash' ← field_or object "evidenceHash" (to_some bytesFromBase64) None;
  Ok (mk evidenceHash').

Definition toJSON (message : t) : js :=
  Obj (prop_opt "evidenceHash" (fun b => Str (base64FromBytes b)) message.(evidenceHash)).

Record partial := mkPartial {
  p_evidenceHash : option bytes;
}.

Definition fromPartial (object : partial) : t := {|
  evidenceHash := Some (object.(p_evidenceHash) ?? []);
|}.

(** The object with no property given. *)
Definition nothing : partial := mkPartial None.

(** The bytes [encode] writes. *)
Definition wire {PB : Protobuf} {PS : ProtobufSpec PB} (m : t) : bytes :=
  f_bytes 10 m.(evidenceHash).

Definition valid (m : t) : Prop :=
  True.

(** The byte fields hold arrays, as the interface declares. *)
Definition typed (m : t) : bool := given m.(evidenceHash).

(** The message without its empty byte arrays. *)
Definition normal (m : t) : t := {|
  evidenceHash := nonempty m.(evidenceHash);
|}.

Definition encodable {PB : Protobuf} {PS : ProtobufSpec PB} (m : t) : Prop :=
  typed m = true ∧ valid m ∧ small (wire m).

Definition merge (m a : t) : t := {|
  evidenceHash := later_bytes m.(evidenceHash) a.(evidenceHash);
|}.

(** A whole message seen as a partial one. *)
Definition full (m : t) : partial := {|
  p_evidenceHash := m.(evidenceHash);
|}.

(** The message as its schema declares it. *)
Definition schema (m : t) : list field :=
  [implicit 1 (byte_array m.(evidenceHash))].

(** The message with its default for every property that is not kept. *)
Definition only (kept : string → bool) (m : t) : t := {|
  evidenceHash := if kept "evidenceHash" then m.(evidenceHash) else None;
|}.

#[global] Instance codec {PB : Protobuf} : FallibleCodec t :=
  {| fmsg_base := base; fmsg_encode := encode; fmsg_field := decode_field |}.

#[global] Program Instance spec {PB : Protobuf} (PS : ProtobufSpec PB) : FallibleSpec PS t :=
  {| fmsg_wire := wire; fmsg_valid := valid; fmsg_typed := typed; fmsg_normal := normal;
     fmsg_merge := merge |}.
Next Obligation. solve_fencode_wire. Qed.
Next Obligation. intros. solve_fencode_throws encode typed. Qed.
Next Obligation. solve_fdecode_wire. Qed.
Next Obligation. solve_fmerge_base. Qed.
Next Obligation. intros. solve_fadvances decode_field. Qed.

#[global] Program Instance given_ : FalliblePartial t partial :=
  {| fmsg_fromPartial := fromPartial; fmsg_full := full; fmsg_given := typed |}.
Next Obligation. solve_fgiven fromPartial typed. Qed.
Next Obligation. solve_fpartial fromPartial full typed. Qed.

#[global] Program Instance json : FallibleJson t :=
  {| fmsg_fromJSON := fromJSON; fmsg_toJSON := toJSON;
     fmsg_named := fun _ => true; fmsg_known := fun m => m |}.
Next Obligation. solve_fjson fromJSON toJSON. Qed.
Next Obligation. reflexivity. Qed.

#[global] Instance schema_wire {PB : Protobuf} {PS : ProtobufSpec PB} : WireSchema wire schema.
Proof. solve_schema_wire wire schema. Qed.

#[global] Instance schema_normal : NormalSchema normal schema.
Proof. solve_schema_normal normal schema. Qed.

#[global] Instance schema_merge : MergeSchema merge schema.
Proof. solve_schema_merge merge schema. Qed.

(** Its row in the table of message types. *)
Definition message {PB : Protobuf} {PS : ProtobufSpec PB} : message_type :=
  fallible_message "QueryEvidenceRequest" nothing true schema only.

#[global] Instance message_lawful {PB : Protobuf} (PS : ProtobufSpec PB) : Lawful message.
Proof. solve_lawful decode_field fromJSON only. Qed.

End QueryEvidenceRequest.

(** ** [QueryEvidenceResponse] (cosmos/evidence/v1beta1/query.js) *)

Module QueryEvidenceResponse.

Record t := mk {
  evidence : option Any.t;
}.

#[global] Instance t_eta : Settable t := λ m, mk m.(evidence).

Definition base : t := mk None.

Definition encode {PB : Protobuf} (message : t) (writer : Writer) : result Writer :=
  Ok writer
  @>= defined_e message.(evidence) (submessage 10 Any.encode).

Definition decode_field {PB : Protobuf} (tag : Z) (message : t) : RM t :=
  match field_number tag with
  | 1 => v ← read_nested Any.decode; mret (message <| evidence := Some v |>)
  | _ => _ ← skipType (wire_type tag); mret message
  end.

Definition decode {PB : Protobuf} (length : option Z) : RM t :=
  decode_message length base decode_field.

Definition fromJSON (object : js) : result t :=
  evidence' ← field_or object "evidence" (to_some Any.fromJSON) None;
  Ok (mk evidence').

Definition toJSON (message : t) : js :=
  Obj (prop_opt "evidence" Any.toJSON message.(evidence)).

Record partial := mkPartial {
  p_evidence : option Any.partial;
}.

Definition fromPartial (object : partial) : t := {|
  evidence := Any.fromPartial <$> object.(p_evidence);
|}.

(** The object with no property given. *)
Definition nothing : partial := mkPartial None.

(** The bytes [encode] writes. *)
Definition wire {PB : Protobuf} {PS : ProtobufSpec PB} (m : t) : bytes :=
  f_message 10 Any.wire m.(evidence).

Definition valid (m : t) : Prop :=
  from_option Any.valid True m.(evidence).

(** The byte fields hold arrays, as the interface declares. *)
Definition typed (m : t) : bool := from_option Any.typed true m.(evidence).

(** The message without its empty byte arrays. *)
Definition normal (m : t) : t := {|
  evidence := Any.normal <$> m.(evidence);
|}.

Definition encodable {PB : Protobuf} {PS : ProtobufSpec PB} (m : t) : Prop :=
  typed m = true ∧ valid m ∧ small (wire m).

Definition merge (m a : t) : t := {|
  evidence := later_message m.(evidence) (Any.normal <$> a.(evidence));
|}.

(** A whole message seen as a partial one. *)
Definition full (m : t) : partial := {|
  p_evidence := Any.full <$> m.(evidence);
|}.

(** The message as its schema declares it. *)
Definition schema (m : t) : list field :=
  [singular 1 Optional (message_value Any.schema) m.(evidence)].

(** The message with its default for every property that is not kept. *)
Definition only (kept : string → bool) (m : t) : t := {|
  evidence := if kept "evidence" then m.(evidence) else None;
|}.

#[global] Instance codec {PB : Protobuf} : FallibleCodec t :=
  {| fmsg_base := base; fmsg_encode := encode; fmsg_field := decode_field |}.

#[global] Program Instance spec {PB : Protobuf} (PS : ProtobufSpec PB) : FallibleSpec PS t :=
  {| fmsg_wire := wire; fmsg_valid := valid; fmsg_typed := typed; fmsg_normal := normal;
     fmsg_merge := merge |}.
Next Obligation. solve_fencode_wire. Qed.
Next Obligation. intros. solve_fencode_throws encode typed. Qed.
Next Obligation. solve_fdecode_wire. Qed.
Next Obligation. solve_fmerge_base. Qed.
Next Obligation. intros. solve_fadvances decode_field. Qed.

#[global] Program Instance given_ : FalliblePartial t partial :=
  {| fmsg_fromPartial := fromPartial; fmsg_full := full; fmsg_given := typed |}.
Next Obligation. solve_fgiven fromPartial typed. Qed.
Next Obligation. solve_fpartial fromPartial full typed. Qed.

#[global] Program Instance json : FallibleJson t :=
  {| fmsg_fromJSON := fromJSON; fmsg_toJSON := toJSON;
     fmsg_named := fun _ => true; fmsg_known := fun m => m |}.
Next Obligation. solve_fjson fromJSON toJSON. Qed.
Next Obligation. reflexivity. Qed.

#[global] Instance schema_wire {PB : Protobuf} {PS : ProtobufSpec PB} : WireSchema wire schema.
Proof. solve_schema_wire wire schema. Qed.

#[global] Instance schema_normal : NormalSchema normal schema.
Proof. solve_schema_normal normal schema. Qed.

#[global] Instance schema_merge : MergeSchema merge schema.
Proof. solve_schema_merge merge schema. Qed.

(** Its row in the table of message types. *)
Definition message {PB : Protobuf} {PS : ProtobufSpec PB} : message_type :=
  fallible_message "QueryEvidenceResponse" nothing true schema only.

#[global] Instance message_lawful {PB : Protobuf} (PS : ProtobufSpec PB) : Lawful message.
Proof. solve_lawful decode_field fromJSON only. Qed.

End QueryEvidenceResponse.

(** ** [QueryAllEvidenceRequest] (cosmos/evidence/v1beta1/query.js) *)

Module QueryAllEvidenceRequest.

Record t := mk {
  pagination : option PageRequest.t;
}.

#[global] Instance t_eta : Settable t := λ m, mk m.(pagination).

Definition base : t := mk None.

Definition encode {PB : Protobuf} (message : t) (writer : Writer) : result Writer :=
  Ok writer
  @>= defined_e message.(pagination) (submessage 10 PageRequest.encode).

Definition decode_field {PB : Protobuf} (tag : Z) (message : t) : RM t :=
  match field_number tag with
  | 1 => v ← read_nested PageRequest.decode; mret (message <| pagination := Some v |>)
  | _ => _ ← skipType (wire_type tag); mret message
  end.

Definition decode {PB : Protobuf} (length : option Z) : RM t :=
  decode_message length base decode_field.

Definition fromJSON (object : js) : result t :=
  pagination' ← field_or object "pagination" (to_some PageRequest.fromJSON) None;
  Ok (mk pagination').

Definition toJSON (message : t) : js :=
  Obj (prop_opt "pagination" PageRequest.toJSON message.(pagination)).

Record partial := mkPartial {
  p_pagination : option PageRequest.partial;
}.

Definition fromPartial (object : partial) : t := {|
  pagination := PageRequest.fromPartial <$> object.(p_pagination);
|}.

(** The object with no property given. *)
Definition nothing : partial := mkPartial None.

(** The bytes [encode] writes. *)
Definition wire {PB : Protobuf} {PS : ProtobufSpec PB} (m : t) : bytes :=
  f_message 10 PageRequest.wire m.(pagination).

Definition valid (m : t) : Prop :=
  from_option PageRequest.valid True m.(pagination).

(** The byte fields hold arrays, as the interface declares. *)
Definition typed (m : t) : bool := from_option PageRequest.typed true m.(pagination).

(** The message without its empty byte arrays. *)
Definition normal (m : t) : t := {|
  pagination := PageRequest.normal <$> m.(pagination);
|}.

Definition encodable {PB : Protobuf} {PS : ProtobufSpec PB} (m : t) : Prop :=
  typed m = true ∧ valid m ∧ small (wire m).

Definition merge (m a : t) : t := {|
  pagination := later_message m.(pagination) (PageRequest.normal <$> a.(pagination));
|}.

(** A whole message seen as a partial one. *)
Definition full (m : t) : partial := {|
  p_pagination := PageRequest.full <$> m.(pagination);
|}.

(** The message as its schema declares it. *)
Definition schema (m : t) : list field :=
  [singular 1 Optional (message_value PageRequest.schema) m.(pagination)].

(** The message with its default for every property that is not kept. *)
Definition only (kept : string → bool) (m : t) : t := {|
  pagination := if kept "pagination" then m.(pagination) else None;
|}.

#[global] Instance codec {PB : Protobuf} : FallibleCodec t :=
  {| fmsg_base := base; fmsg_encode := encode; fmsg_field := decode_field |}.

#[global] Program Instance spec {PB : Protobuf} (PS : ProtobufSpec PB) : FallibleSpec PS t :=
  {| fmsg_wire := wire; fmsg_valid := valid; fmsg_typed := typed; fmsg_normal := normal;
     fmsg_merge := merge |}.
Next Obligation. solve_fencode_wire. Qed.
Next Obligation. intros. solve_fencode_throws encode typed. Qed.
Next Obligation. solve_fdecode_wire. Qed.
Next Obligation. solve_fmerge_base. Qed.
Next Obligation. intros. solve_fadvances decode_field. Qed.

#[global] Program Instance given_ : FalliblePartial t partial :=
  {| fmsg_fromPartial := fromPartial; fmsg_full := full; fmsg_given := typed |}.
Next Obligation. solve_fgiven fromPartial typed. Qed.
Next Obligation. solve_fpartial fromPartial full typed. Qed.

#[global] Program Instance json : FallibleJson t :=
  {| fmsg_fromJSON := fromJSON; fmsg_toJSON := toJSON;
     fmsg_named := fun _ => true; fmsg_known := fun m => m |}.
Next Obligation. solve_fjson fromJSON toJSON. Qed.
Next Obligation. reflexivity. Qed.

#[global] Instance schema_wire {PB : Protobuf} {PS : ProtobufSpec PB} : WireSchema wire schema.
Proof. solve_schema_wire wire schema. Qed.

#[global] Instance schema_normal : NormalSchema normal schema.
Proof. solve_schema_normal normal schema. Qed.

#[global] Instance schema_merge : MergeSchema merge schema.
Proof. solve_schema_merge merge schema. Qed.

(** Its row in the table of message types. *)
Definition message {PB : Protobuf} {PS : ProtobufSpec PB} : message_type :=
  fallible_message "QueryAllEvidenceRequest" nothing true schema only.

#[global] Instance message_lawful {PB : Protobuf} (PS : ProtobufSpec PB) : Lawful message.
Proof. solve_lawful decode_field fromJSON only. Qed.

End QueryAllEvidenceRequest.

(** ** [QueryAllEvidenceResponse] (cosmos/evidence/v1beta1/query.js) *)

Module QueryAllEvidenceResponse.

Record t := mk {
  evidence : list Any.t;
  pagination : option PageResponse.t;
}.

#[global] Instance t_eta : Settable t := λ m, mk m.(evidence) m.(pagination).

Definition base : t := mk [] None.

Definition encode {PB : Protobuf} (message : t) (writer : Writer) : result Writer :=
  Ok writer
  @>= each_e message.(evidence) (submessage 10 Any.encode)
  @>= defined_e message.(pagination) (submessage 18 PageResponse.encode).

Definition decode_field {PB : Protobuf} (tag : Z) (message : t) : RM t :=
  match field_number tag with
  | 1 => v ← read_nested Any.decode; mret (message <| evidence := message.(evidence) ++ [v] |>)
  | 2 => v ← read_nested PageResponse.decode; mret (message <| pagination := Some v |>)
  | _ => _ ← skipType (wire_type tag); mret message
  end.

Definition decode {PB : Protobuf} (length : option Z) : RM t :=
  decode_message length base decode_field.

Definition fromJSON (object : js) : result t :=
  evidence' ← field_or object "evidence" (to_list Any.fromJSON) [];
  pagination' ← field_or object "pagination" (to_some PageResponse.fromJSON) None;
  Ok (mk evidence' pagination').

Definition toJSON (message : t) : js :=
  Obj ([("evidence", Arr (map Any.toJSON message.(evidence)))] ++
   prop_opt "pagination" PageResponse.toJSON message.(pagination)).

Record partial := mkPartial {
  p_evidence : option (list Any.partial);
  p_pagination : option PageResponse.partial;
}.

Definition fromPartial (object : partial) : t := {|
  evidence := map Any.fromPartial (object.(p_evidence) ?? []);
  pagination := PageResponse.fromPartial <$> object.(p_pagination);
|}.

(** The object with no property given. *)
Definition nothing : partial := mkPartial None None.

(** The bytes [encode] writes. *)
Definition wire {PB : Protobuf} {PS : ProtobufSpec PB} (m : t) : bytes :=
  f_repeated 10 Any.wire m.(evidence) ++
  f_message 18 PageResponse.wire m.(pagination).

Definition valid (m : t) : Prop :=
  Forall Any.valid m.(evidence) ∧ from_option PageResponse.valid True m.(pagination).

(** The byte fields hold arrays, as the interface declares. *)
Definition typed (m : t) : bool := forallb Any.typed m.(evidence) && from_option PageResponse.typed true m.(pagination).

(** The message without its empty byte arrays. *)
Definition normal (m : t) : t := {|
  evidence := map Any.normal m.(evidence);
  pagination := PageResponse.normal <$> m.(pagination);
|}.

Definition encodable {PB : Protobuf} {PS : ProtobufSpec PB} (m : t) : Prop :=
  typed m = true ∧ valid m ∧ small (wire m).

Definition merge (m a : t) : t := {|
  evidence := m.(evidence) ++ map Any.normal a.(evidence);
  pagination := later_message m.(pagination) (PageResponse.normal <$> a.(pagination));
|}.

(** A whole message seen as a partial one. *)
Definition full (m : t) : partial := {|
  p_evidence := Some (map Any.full m.(evidence));
  p_pagination := PageResponse.full <$> m.(pagination);
|}.

(** The message as its schema declares it. *)
Definition schema (m : t) : list field :=
  [repeated 1 (message_value Any.schema) m.(evidence);
   singular 2 Optional (message_value PageResponse.schema) m.(pagination)].

(** The message with its default for every property that is not kept. *)
Definition only (kept : string → bool) (m : t) : t := {|
  evidence := if kept "evidence" then m.(evidence) else [];
  pagination := if kept "pagination" then m.(pagination) else None;
|}.

#[global] Instance codec {PB : Protobuf} : FallibleCodec t :=
  {| fmsg_base := base; fmsg_encode := encode; fmsg_field := decode_field |}.

#[global] Program Instance spec {PB : Protobuf} (PS : ProtobufSpec PB) : FallibleSpec PS t :=
  {| fmsg_wire := wire; fmsg_valid := valid; fmsg_typed := typed; fmsg_normal := normal;
     fmsg_merge := merge |}.
Next Obligation. solve_fencode_wire. Qed.
Next Obligation. intros. solve_fencode_throws encode typed. Qed.
Next Obligation. solve_fdecode_wire. Qed.
Next Obligation. solve_fmerge_base. Qed.
Next Obligation. intros. solve_fadvances decode_field. Qed.

#[global] Program Instance given_ : FalliblePartial t partial :=
  {| fmsg_fromPartial := fromPartial; fmsg_full := full; fmsg_given := typed |}.
Next Obligation. solve_fgiven fromPartial typed. Qed.
Next Obligation. solve_fpartial fromPartial full typed. Qed.

#[global] Program Instance json : FallibleJson t :=
  {| fmsg_fromJSON := fromJSON; fmsg_toJSON := toJSON;
     fmsg_named := fun _ => true; fmsg_known := fun m => m |}.
Next Obligation. solve_fjson fromJSON toJSON. Qed.
Next Obligation. reflexivity. Qed.

#[global] Instance schema_wire {PB : Protobuf} {PS : ProtobufSpec PB} : WireSchema wire schema.
Proof. solve_schema_wire wire schema. Qed.

#[global] Instance schema_normal : NormalSchema normal schema.
Proof. solve_schema_normal normal schema. Qed.

#[global] Instance schema_merge : MergeSchema merge schema.
Proof. solve_schema_merge merge schema. Qed.

(** Its row in the table of message types. *)
Definition message {PB : Protobuf} {PS : ProtobufSpec PB} : message_type :=
  fallible_message "QueryAllEvidenceResponse" nothing true schema only.

#[global] Instance message_lawful {PB : Protobuf} (PS : ProtobufSpec PB) : Lawful message.
Proof. solve_lawful decode_field fromJSON only. Qed.

End QueryAllEvidenceResponse.


(** ** [MsgClientImpl]

    [rpc] is the transport the class is constructed with: [rpc service method data]
    is what the promise of [this.rpc.request] settles to. *)
Module MsgClientImpl.
Section client.
Context {PB : Protobuf} (rpc : string → string → bytes → result bytes).

Definition SubmitEvidence (request : MsgSubmitEvidence.t) : result MsgSubmitEvidenceResponse.t :=
  w ← MsgSubmitEvidence.encode request create;
  data ← rpc "cosmos.evidence.v1beta1.Msg" "SubmitEvidence" (finish w);
  decode_bytes MsgSubmitEvidenceResponse.decode data.

End client.
End MsgClientImpl.


(** ** [QueryClientImpl]

    [rpc] is the transport the class is constructed with: [rpc service method data]
    is what the promise of [this.rpc.request] settles to. *)
Module QueryClientImpl.
Section client.
Context {PB : Protobuf} (rpc : string → string → bytes → result bytes).

Definition Evidence (request : QueryEvidenceRequest.t) : result QueryEvidenceResponse.t :=
  w ← QueryEvidenceRequest.encode request create;
  data ← rpc "cosmos.evidence.v1beta1.Query" "Evidence" (finish w);
  decode_bytes QueryEvidenceResponse.decode data.

Definition AllEvidence (request : QueryAllEvidenceRequest.t) : result QueryAllEvidenceResponse.t :=
  w ← QueryAllEvidenceRequest.encode request create;
  data ← rpc "cosmos.evidence.v1beta1.Query" "AllEvidence" (finish w);
  decode_bytes QueryAllEvidenceResponse.decode data.

End client.
End QueryClientImpl.

(** ** The message types of this file *)

Definition messages {PB : Protobuf} {PS : ProtobufSpec PB} : list message_type :=
  [ Equivocation.message; GenesisState.message; MsgSubmitEvidence.message;
   MsgSubmitEvidenceResponse.message; QueryEvidenceRequest.message;
   QueryEvidenceResponse.message; QueryAllEvidenceRequest.message;
   QueryAllEvidenceResponse.message].

Lemma EvidenceTypes_lawful {PB : Protobuf} {PS : ProtobufSpec PB} : Forall Lawful messages.
Proof. solve_table. Qed.

(** The methods of [MsgClientImpl]. *)
Definition msg_methods {PB : Protobuf} {PS : ProtobufSpec PB} : list rpc_method :=
  [mkMethod "cosmos.evidence.v1beta1.Msg" "SubmitEvidence"
     MsgSubmitEvidence.message MsgSubmitEvidenceResponse.message
     (fun rpc => MsgClientImpl.SubmitEvidence rpc)].

Lemma EvidenceTypes_msg_methods_lawful {PB : Protobuf} {PS : ProtobufSpec PB} : Forall method_lawful msg_methods.
Proof. solve_methods. Qed.

(** The methods of [QueryClientImpl]. *)
Definition query_methods {PB : Protobuf} {PS : ProtobufSpec PB} : list rpc_method :=
  [mkMethod "cosmos.evidence.v1beta1.Query" "Evidence"
     QueryEvidenceRequest.message QueryEvidenceResponse.message
     (fun rpc => QueryClientImpl.Evidence rpc);
   mkMethod "cosmos.evidence.v1beta1.Query" "AllEvidence"
     QueryAllEvidenceRequest.message QueryAllEvidenceResponse.message
     (fun rpc => QueryClientImpl.AllEvidence rpc)].

Lemma EvidenceTypes_query_methods_lawful {PB : Protobuf} {PS : ProtobufSpec PB} : Forall method_lawful query_methods.
Proof. solve_methods. Qed.
