(* ===== verification/FeegrantTypes.v ===== *)
(** * The messages of the feegrant module of the Cosmos SDK

    Fee allowances: the codecs of
    [cosmos.feegrant.v1beta1/module/types/cosmos/feegrant/v1beta1/*.js], with the RPC
    clients of tx.js and query.js. *)
From S2P Require Import Prelude Js Protobuf Codec Calendar Dates Base64 Fallible Proto3 MessageTable CommonTypes CosmosBase.
Open Scope Z_scope.

(** ** [BasicAllowance] (cosmos/feegrant/v1beta1/feegrant.js) *)

Module BasicAllowance.

Record t := mk {
  spendLimit : list Coin.t;
  expiration : option date;
}.

#[global] Instance t_eta : Settable t := λ m, mk m.(spendLimit) m.(expiration).

Definition base : t := mk [] None.

Definition encode {PB : Protobuf} (message : t) (writer : Writer) : result Writer :=
  Ok writer
  @>= pure (each message.(spendLimit) (fun v w => w @> uint32 10 @> fork @> Coin.encode v @> ldelim))
  @>= pure (defined message.(expiration) (fun v w => w @> uint32 18 @> fork @> encode_time v @> ldelim)).

Definition decode_field {PB : Protobuf} (tag : Z) (message : t) : RM t :=
  match field_number tag with
  | 1 => v ← read_nested Coin.decode; mret (message <| spendLimit := message.(spendLimit) ++ [v] |>)
  | 2 => v ← read_time; mret (message <| expiration := Some v |>)
  | _ => _ ← skipType (wire_type tag); mret message
  end.

Definition decode {PB : Protobuf} (length : option Z) : RM t :=
  decode_message length base decode_field.

Definition fromJSON (object : js) : result t :=
  spendLimit' ← field_or object "spendLimit" (to_list Coin.fromJSON) [];
  expiration' ← field_or object "expiration" (to_some fromJsonTimestamp) None;
  Ok (mk spendLimit' expiration').

Definition toJSON (message : t) : result js :=
  expiration' ← option_result toISOString message.(expiration);
  Ok (Obj ([("spendLimit", Arr (map Coin.toJSON message.(spendLimit)))] ++
   prop_opt "expiration" Str expiration')).

Record partial := mkPartial {
  p_spendLimit : option (list Coin.partial);
  p_expiration : option date;
}.

Definition fromPartial (object : partial) : t := {|
  spendLimit := map Coin.fromPartial (object.(p_spendLimit) ?? []);
  expiration := object.(p_expiration);
|}.

(** The object with no property given. *)
Definition nothing : partial := mkPartial None None.

(** The bytes [encode] writes. *)
Definition wire {PB : Protobuf} {PS : ProtobufSpec PB} (m : t) : bytes :=
  f_repeated 10 Coin.wire m.(spendLimit) ++
  f_message 18 wire_time m.(expiration).

Definition valid (m : t) : Prop :=
  Forall Coin.valid m.(spendLimit) ∧ from_option date_ok True m.(expiration).

(** The byte fields hold arrays, as the interface declares. *)
Definition typed (m : t) : bool := true.

(** The message without its empty byte arrays. *)
Definition normal (m : t) : t := {|
  spendLimit := m.(spendLimit);
  expiration := m.(expiration);
|}.

(** The dates are valid. *)
Definition timed (m : t) : bool := from_option date_valid true m.(expiration).

Definition encodable {PB : Protobuf} {PS : ProtobufSpec PB} (m : t) : Prop :=
  typed m = true ∧ valid m ∧ small (wire m).

Definition merge (m a : t) : t := {|
  spendLimit := m.(spendLimit) ++ a.(spendLimit);
  expiration := later_message m.(expiration) a.(expiration);
|}.

(** A whole message seen as a partial one. *)
Definition full (m : t) : partial := {|
  p_spendLimit := Some (map Coin.full m.(spendLimit));
  p_expiration := m.(expiration);
|}.

(** The message as its schema declares it. *)
Definition schema (m : t) : list field :=
  [repeated 1 (message_value Coin.schema) m.(spendLimit);
   singular 2 Stamp timestamp_value m.(expiration)].

(** The message with its default for every property that is not kept. *)
Definition only (kept : string → bool) (m : t) : t := {|
  spendLimit := if kept "spendLimit" then m.(spendLimit) else [];
  expiration := if kept "expiration" then m.(expiration) else None;
|}.

#[global] Instance codec {PB : Protobuf} : FallibleCodec t :=
  {| fmsg_base := base; fmsg_encode := encode; fmsg_field := decode_field |}.

#[global] Program Instance spec {PB : Protobuf} (PS : ProtobufSpec PB) : FallibleSpec PS t :=
  {| fmsg_wire := wire; fmsg_valid := valid; fmsg_typed := typed; fmsg_normal := normal;
     fmsg_merge := merge |}.
Next Obligation. solve_fencode_wire. Qed.
Next Obligation. intros. solve_fencode_throws encode typed. Qed.
Next Obligation. solve_fdecode_wire. Qed.
Next Obligation. solve_fmerge_base. Qed.
Next Obligation. intros. solve_fadvances decode_field. Qed.

#[global] Program Instance given_ : FalliblePartial t partial :=
  {| fmsg_fromPartial := fromPartial; fmsg_full := full; fmsg_given := typed |}.
Next Obligation. solve_fgiven fromPartial typed. Qed.
Next Obligation. solve_fpartial fromPartial full typed. Qed.

#[global] Program Instance json : DatedJson t :=
  {| dmsg_fromJSON := fromJSON; dmsg_toJSON := toJSON; dmsg_timed := timed;
     dmsg_named := fun _ => true; dmsg_known := fun m => m |}.
Next Obligation. solve_djson fromJSON toJSON timed. Qed.
Next Obligation. solve_dthrows toJSON timed. Qed.
Next Obligation. reflexivity. Qed.

#[global] Instance schema_wire {PB : Protobuf} {PS : ProtobufSpec PB} : WireSchema wire schema.
Proof. solve_schema_wire wire schema. Qed.

#[global] Instance schema_normal : NormalSchema normal schema.
Proof. solve_schema_normal normal schema. Qed.

#[global] Instance schema_merge : MergeSchema merge schema.
Proof. solve_schema_merge merge schema. Qed.

(** Its row in the table of message types. *)
Definition message {PB : Protobuf} {PS : ProtobufSpec PB} : message_type :=
  dated_message "BasicAllowance" nothing true schema only.

#[global] Instance message_lawful {PB : Protobuf} (PS : ProtobufSpec PB) : Lawful message.
Proof. solve_lawful decode_field fromJSON only. Qed.

End BasicAllowance.

(** ** [PeriodicAllowance] (cosmos/feegrant/v1beta1/feegrant.js) *)

Module PeriodicAllowance.

Record t := mk {
  basic : option BasicAllowance.t;
  period : option Duration.t;
  periodSpendLimit : list Coin.t;
  periodCanSpend : list Coin.t;
  periodReset : option date;
}.

#[global] Instance t_eta : Settable t := λ m, mk m.(basic) m.(period) m.(periodSpendLimit)
  m.(periodCanSpend) m.(periodReset).

Definition base : t := mk None None [] [] None.

Definition encode {PB : Protobuf} (message : t) (writer : Writer) : result Writer :=
  Ok writer
  @>= defined_e message.(basic) (submessage 10 BasicAllowance.encode)
  @>= pure (defined message.(period) (fun v w => w @> uint32 18 @> fork @> Duration.encode v @> ldelim))
  @>= pure (each message.(periodSpendLimit) (fun v w => w @> uint32 26 @> fork @> Coin.encode v @> ldelim))
  @>= pure (each message.(periodCanSpend) (fun v w => w @> uint32 34 @> fork @> Coin.encode v @> ldelim))
  @>= pure (defined message.(periodReset) (fun v w => w @> uint32 42 @> fork @> encode_time v @> ldelim)).

Definition decode_field {PB : Protobuf} (tag : Z) (message : t) : RM t :=
  match field_number tag with
  | 1 => v ← read_nested BasicAllowance.decode; mret (message <| basic := Some v |>)
  | 2 => v ← read_nested Duration.decode; mret (message <| period := Some v |>)
  | 3 => v ← read_nested Coin.decode;
         mret (message <| periodSpendLimit := message.(periodSpendLimit) ++ [v] |>)
  | 4 => v ← read_nested Coin.decode;
         mret (message <| periodCanSpend := message.(periodCanSpend) ++ [v] |>)
  | 5 => v ← read_time; mret (message <| periodReset := Some v |>)
  | _ => _ ← skipType (wire_type tag); mret message
  end.

Definition decode {PB : Protobuf} (length : option Z) : RM t :=
  decode_message length base decode_field.

Definition fromJSON (object : js) : result t :=
  basic' ← field_or object "basic" (to_some BasicAllowance.fromJSON) None;
  period' ← field_or object "period" (to_some Duration.fromJSON) None;
  periodSpendLimit' ← field_or object "periodSpendLimit" (to_list Coin.fromJSON) [];
  periodCanSpend' ← field_or object "periodCanSpend" (to_list Coin.fromJSON) [];
  periodReset' ← field_or object "periodReset" (to_some fromJsonTimestamp) None;
  Ok (mk basic' period' periodSpendLimit' periodCanSpend' periodReset').

Definition toJSON (message : t) : result js :=
  basic' ← option_result BasicAllowance.toJSON message.(basic);
  periodReset' ← option_result toISOString message.(periodReset);
  Ok (Obj (prop_opt "basic" id basic' ++
   prop_opt "period" Duration.toJSON message.(period) ++
   [("periodSpendLimit", Arr (map Coin.toJSON message.(periodSpendLimit)));
    ("periodCanSpend", Arr (map Coin.toJSON message.(periodCanSpend)))] ++
   prop_opt "periodReset" Str periodReset')).

Record partial := mkPartial {
  p_basic : option BasicAllowance.partial;
  p_period : option Duration.partial;
  p_periodSpendLimit : option (list Coin.partial);
  p_periodCanSpend : option (list Coin.partial);
  p_periodReset : option date;
}.

Definition fromPartial (object : partial) : t := {|
  basic := BasicAllowance.fromPartial <$> object.(p_basic);
  period := Duration.fromPartial <$> object.(p_period);
  periodSpendLimit := map Coin.fromPartial (object.(p_periodSpendLimit) ?? []);
  periodCanSpend := map Coin.fromPartial (object.(p_periodCanSpend) ?? []);
  periodReset := object.(p_periodReset);
|}.

(** The object with no property given. *)
Definition nothing : partial := mkPartial None None None None None.

(** The bytes [encode] writes. *)
Definition wire {PB : Protobuf} {PS : ProtobufSpec PB} (m : t) : bytes :=
  f_message 10 BasicAllowance.wire m.(basic) ++
  f_message 18 Duration.wire m.(period) ++
  f_repeated 26 Coin.wire m.(periodSpendLimit) ++
  f_repeated 34 Coin.wire m.(periodCanSpend) ++
  f_message 42 wire_time m.(periodReset).

Definition valid (m : t) : Prop :=
  from_option BasicAllowance.valid True m.(basic) ∧ from_option Duration.valid True m.(period) ∧ Forall Coin.valid m.(periodSpendLimit) ∧ Forall Coin.valid m.(periodCanSpend) ∧ from_option date_ok True m.(periodReset).

(** The byte fields hold arrays, as the interface declares. *)
Definition typed (m : t) : bool := from_option BasicAllowance.typed true m.(basic).

(** The message without its empty byte arrays. *)
Definition normal (m : t) : t := {|
  basic := BasicAllowance.normal <$> m.(basic);
  period := m.(period);
  periodSpendLimit := m.(periodSpendLimit);
  periodCanSpend := m.(periodCanSpend);
  periodReset := m.(periodReset);
|}.

(** The dates are valid. *)
Definition timed (m : t) : bool := from_option BasicAllowance.timed true m.(basic) && from_option date_valid true m.(periodReset).

Definition encodable {PB : Protobuf} {PS : ProtobufSpec PB} (m : t) : Prop :=
  typed m = true ∧ valid m ∧ small (wire m).

Definition merge (m a : t) : t := {|
  basic := later_message m.(basic) (BasicAllowance.normal <$> a.(basic));
  period := later_message m.(period) a.(period);
  periodSpendLimit := m.(periodSpendLimit) ++ a.(periodSpendLimit);
  periodCanSpend := m.(periodCanSpend) ++ a.(periodCanSpend);
  periodReset := later_message m.(periodReset) a.(periodReset);
|}.

(** A whole message seen as a partial one. *)
Definition full (m : t) : partial := {|
  p_basic := BasicAllowance.full <$> m.(basic);
  p_period := Duration.full <$> m.(period);
  p_periodSpendLimit := Some (map Coin.full m.(periodSpendLimit));
  p_periodCanSpend := Some (map Coin.full m.(periodCanSpend));
  p_periodReset := m.(periodReset);
|}.

(** The message as its schema declares it. *)
Definition schema (m : t) : list field :=
  [singular 1 Optional (message_value BasicAllowance.schema) m.(basic);
   singular 2 Optional (message_value Duration.schema) m.(period);
   repeated 3 (message_value Coin.schema) m.(periodSpendLimit);
   repeated 4 (message_value Coin.schema) m.(periodCanSpend);
   singular 5 Stamp timestamp_value m.(periodReset)].

(** The message with its default for every property that is not kept. *)
Definition only (kept : string → bool) (m : t) : t := {|
  basic := if kept "basic" then m.(basic) else None;
  period := if kept "period" then m.(period) else None;
  periodSpendLimit := if kept "periodSpendLimit" then m.(periodSpendLimit) else [];
  periodCanSpend := if kept "periodCanSpend" then m.(periodCanSpend) else [];
  periodReset := if kept "periodReset" then m.(periodReset) else None;
|}.

#[global] Instance codec {PB : Protobuf} : FallibleCodec t :=
  {| fmsg_base := base; fmsg_encode := encode; fmsg_field := decode_field |}.

#[global] Program Instance spec {PB : Protobuf} (PS : ProtobufSpec PB) : FallibleSpec PS t :=
  {| fmsg_wire := wire; fmsg_valid := valid; fmsg_typed := typed; fmsg_normal := normal;
     fmsg_merge := merge |}.
Next Obligation. solve_fencode_wire. Qed.
Next Obligation. intros. solve_fencode_throws encode typed. Qed.
Next Obligation. solve_fdecode_wire. Qed.
Next Obligation. solve_fmerge_base. Qed.
Next Obligation. intros. solve_fadvances decode_field. Qed.

#[global] Program Instance given_ : FalliblePartial t partial :=
  {| fmsg_fromPartial := fromPartial; fmsg_full := full; fmsg_given := typed |}.
Next Obligation. solve_fgiven fromPartial typed. Qed.
Next Obligation. solve_fpartial fromPartial full typed. Qed.

#[global] Program Instance json : DatedJson t :=
  {| dmsg_fromJSON := fromJSON; dmsg_toJSON := toJSON; dmsg_timed := timed;
     dmsg_named := fun _ => true; dmsg_known := fun m => m |}.
Next Obligation. solve_djson fromJSON toJSON timed. Qed.
Next Obligation. solve_dthrows toJSON timed. Qed.
Next Obligation. reflexivity. Qed.

#[global] Instance schema_wire {PB : Protobuf} {PS : ProtobufSpec PB} : WireSchema wire schema.
Proof. solve_schema_wire wire schema. Qed.

#[global] Instance schema_normal : NormalSchema normal schema.
Proof. solve_schema_normal normal schema. Qed.

#[global] Instance schema_merge : MergeSchema merge schema.
Proof. solve_schema_merge merge schema. Qed.

(** Its row in the table of message types. *)
Definition message {PB : Protobuf} {PS : ProtobufSpec PB} : message_type :=
  dated_message "PeriodicAllowance" nothing true schema only.

#[global] Instance message_lawful {PB : Protobuf} (PS : ProtobufSpec PB) : Lawful message.
Proof. solve_lawful decode_field fromJSON only. Qed.

End PeriodicAllowance.

(** ** [AllowedMsgAllowance] (cosmos/feegrant/v1beta1/feegrant.js) *)

Module AllowedMsgAllowance.

Record t := mk {
  allowance : option Any.t;
  allowedMessages : list string;
}.

#[global] Instance t_eta : Settable t := λ m, mk m.(allowance) m.(allowedMessages).

Definition base : t := mk None [].

Definition encode {PB : Protobuf} (message : t) (writer : Writer) : result Writer :=
  Ok writer
  @>= defined_e message.(allowance) (submessage 10 Any.encode)
  @>= pure (each message.(allowedMessages) (fun v w => w @> uint32 18 @> string_ v)).

Definition decode_field {PB : Protobuf} (tag : Z) (message : t) : RM t :=
  match field_number tag with
  | 1 => v ← read_nested Any.decode; mret (message <| allowance := Some v |>)
  | 2 => v ← read_string; mret (message <| allowedMessages := message.(allowedMessages) ++ [v] |>)
  | _ => _ ← skipType (wire_type tag); mret message
  end.

Definition decode {PB : Protobuf} (length : option Z) : RM t :=
  decode_message length base decode_field.

Definition fromJSON (object : js) : result t :=
  allowance' ← field_or object "allowance" (to_some Any.fromJSON) None;
  allowedMessages' ← field_or object "allowedMessages" (to_list to_string) [];
  Ok (mk allowance' allowedMessages').

Definition toJSON (message : t) : js :=
  Obj (prop_opt "allowance" Any.toJSON message.(allowance) ++
   [("allowedMessages", Arr (map Str message.(allowedMessages)))]).

Record partial := mkPartial {
  p_allowance : option Any.partial;
  p_allowedMessages : option (list string);
}.

Definition fromPartial (object : partial) : t := {|
  allowance := Any.fromPartial <$> object.(p_allowance);
  allowedMessages := (object.(p_allowedMessages) ?? []);
|}.

(** The object with no property given. *)
Definition nothing : partial := mkPartial None None.

(** The bytes [encode] writes. *)
Definition wire {PB : Protobuf} {PS : ProtobufSpec PB} (m : t) : bytes :=
  f_message 10 Any.wire m.(allowance) ++
  f_repeated 18 chars m.(allowedMessages).

Definition valid (m : t) : Prop :=
  from_option Any.valid True m.(allowance).

(** The byte fields hold arrays, as the interface declares. *)
Definition typed (m : t) : bool := from_option Any.typed true m.(allowance).

(** The message without its empty byte arrays. *)
Definition normal (m : t) : t := {|
  allowance := Any.normal <$> m.(allowance);
  allowedMessages := m.(allowedMessages);
|}.

Definition encodable {PB : Protobuf} {PS : ProtobufSpec PB} (m : t) : Prop :=
  typed m = true ∧ valid m ∧ small (wire m).

Definition merge (m a : t) : t := {|
  allowance := later_message m.(allowance) (Any.normal <$> a.(allowance));
  allowedMessages := m.(allowedMessages) ++ a.(allowedMessages);
|}.

(** A whole message seen as a partial one. *)
Definition full (m : t) : partial := {|
  p_allowance := Any.full <$> m.(allowance);
  p_allowedMessages := Some m.(allowedMessages);
|}.

(** The message as its schema declares it. *)
Definition schema (m : t) : list field :=
  [singular 1 Optional (message_value Any.schema) m.(allowance);
   repeated 2 VString m.(allowedMessages)].

(** The message with its default for every property that is not kept. *)
Definition only (kept : string → bool) (m : t) : t := {|
  allowance := if kept "allowance" then m.(allowance) else None;
  allowedMessages := if kept "allowedMessages" then m.(allowedMessages) else [];
|}.

#[global] Instance codec {PB : Protobuf} : FallibleCodec t :=
  {| fmsg_base := base; fmsg_encode := encode; fmsg_field := decode_field |}.

#[global] Program Instance spec {PB : Protobuf} (PS : ProtobufSpec PB) : FallibleSpec PS t :=
  {| fmsg_wire := wire; fmsg_valid := valid; fmsg_typed := typed; fmsg_normal := normal;
     fmsg_merge := merge |}.
Next Obligation. solve_fencode_wire. Qed.
Next Obligation. intros. solve_fencode_throws encode typed. Qed.
Next Obligation. solve_fdecode_wire. Qed.
Next Obligation. solve_fmerge_base. Qed.
Next Obligation. intros. solve_fadvances decode_field. Qed.

#[global] Program Instance given_ : FalliblePartial t partial :=
  {| fmsg_fromPartial := fromPartial; fmsg_full := full; fmsg_given := typed |}.
Next Obligation. solve_fgiven fromPartial typed. Qed.
Next Obligation. solve_fpartial fromPartial full typed. Qed.

#[global] Program Instance json : FallibleJson t :=
  {| fmsg_fromJSON := fromJSON; fmsg_toJSON := toJSON;
     fmsg_named := fun _ => true; fmsg_known := fun m => m |}.
Next Obligation. solve_fjson fromJSON toJSON. Qed.
Next Obligation. reflexivity. Qed.

#[global] Instance schema_wire {PB : Protobuf} {PS : ProtobufSpec PB} : WireSchema wire schema.
Proof. solve_schema_wire wire schema. Qed.

#[global] Instance schema_normal : NormalSchema normal schema.
Proof. solve_schema_normal normal schema. Qed.

#[global] Instance schema_merge : MergeSchema merge schema.
Proof. solve_schema_merge merge schema. Qed.

(** Its row in the table of message types. *)
Definition message {PB : Protobuf} {PS : ProtobufSpec PB} : message_type :=
  fallible_message "AllowedMsgAllowance" nothing true schema only.

#[global] Instance message_lawful {PB : Protobuf} (PS : ProtobufSpec PB) : Lawful message.
Proof. solve_lawful decode_field fromJSON only. Qed.

End AllowedMsgAllowance.

(** ** [Grant] (cosmos/feegrant/v1beta1/feegrant.js) *)

Module Grant.

Record t := mk {
  granter : string;
  grantee : string;
  allowance : option Any.t;
}.

#[global] Instance t_eta : Settable t := λ m, mk m.(granter) m.(grantee) m.(allowance).

Definition base : t := mk "" "" None.

Definition encode {PB : Protobuf} (message : t) (writer : Writer) : result Writer :=
  Ok writer
  @>= pure (when (str_neq message.(granter) "")
       (fun w => w @> uint32 10 @> string_ message.(granter)))
  @>= pure (when (str_neq message.(grantee) "")
       (fun w => w @> uint32 18 @> string_ message.(grantee)))
  @>= defined_e message.(allowance) (submessage 26 Any.encode).

Definition decode_field {PB : Protobuf} (tag : Z) (message : t) : RM t :=
  match field_number tag with
  | 1 => v ← read_string; mret (message <| granter := v |>)
  | 2 => v ← read_string; mret (message <| grantee := v |>)
  | 3 => v ← read_nested Any.decode; mret (message <| allowance := Some v |>)
  | _ => _ ← skipType (wire_type tag); mret message
  end.

Definition decode {PB : Protobuf} (length : option Z) : RM t :=
  decode_message length base decode_field.

Definition fromJSON (object : js) : result t :=
  granter' ← field_or object "granter" to_string "";
  grantee' ← field_or object "grantee" to_string "";
  allowance' ← field_or object "allowance" (to_some Any.fromJSON) None;
  Ok (mk granter' grantee' allowance').

Definition toJSON (message : t) : js :=
  Obj ([("granter", Str message.(granter));
    ("grantee", Str message.(grantee))] ++
   prop_opt "allowance" Any.toJSON message.(allowance)).

Record partial := mkPartial {
  p_granter : option string;
  p_grantee : option string;
  p_allowance : option Any.partial;
}.

Definition fromPartial (object : partial) : t := {|
  granter := object.(p_granter) ?? "";
  grantee := object.(p_grantee) ?? "";
  allowance := Any.fromPartial <$> object.(p_allowance);
|}.

(** The object with no property given. *)
Definition nothing : partial := mkPartial None None None.

(** The bytes [encode] writes. *)
Definition wire {PB : Protobuf} {PS : ProtobufSpec PB} (m : t) : bytes :=
  f_string 10 m.(granter) ++
  f_string 18 m.(grantee) ++
  f_message 26 Any.wire m.(allowance).

Definition valid (m : t) : Prop :=
  from_option Any.valid True m.(allowance).

(** The byte fields hold arrays, as the interface declares. *)
Definition typed (m : t) : bool := from_option Any.typed true m.(allowance).

(** The message without its empty byte arrays. *)
Definition normal (m : t) : t := {|
  granter := m.(granter);
  grantee := m.(grantee);
  allowance := Any.normal <$> m.(allowance);
|}.

Definition encodable {PB : Protobuf} {PS : ProtobufSpec PB} (m : t) : Prop :=
  typed m = true ∧ valid m ∧ small (wire m).

Definition merge (m a : t) : t := {|
  granter := later_string m.(granter) a.(granter);
  grantee := later_string m.(grantee) a.(grantee);
  allowance := later_message m.(allowance) (Any.normal <$> a.(allowance));
|}.

(** A whole message seen as a partial one. *)
Definition full (m : t) : partial := {|
  p_granter := Some m.(granter);
  p_grantee := Some m.(grantee);
  p_allowance := Any.full <$> m.(allowance);
|}.

(** The message as its schema declares it. *)
Definition schema (m : t) : list field :=
  [implicit 1 (VString m.(granter));
   implicit 2 (VString m.(grantee));
   singular 3 Optional (message_value Any.schema) m.(allowance)].

(** The message with its default for every property that is not kept. *)
Definition only (kept : string → bool) (m : t) : t := {|
  granter := if kept "granter" then m.(granter) else "";
  grantee := if kept "grantee" then m.(grantee) else "";
  allowance := if kept "allowance" then m.(allowance) else None;
|}.

#[global] Instance codec {PB : Protobuf} : FallibleCodec t :=
  {| fmsg_base := base; fmsg_encode := encode; fmsg_field := decode_field |}.

#[global] Program Instance spec {PB : Protobuf} (PS : ProtobufSpec PB) : FallibleSpec PS t :=
  {| fmsg_wire := wire; fmsg_valid := valid; fmsg_typed := typed; fmsg_normal := normal;
     fmsg_merge := merge |}.
Next Obligation. solve_fencode_wire. Qed.
Next Obligation. intros. solve_fencode_throws encode typed. Qed.
Next Obligation. solve_fdecode_wire. Qed.
Next Obligation. solve_fmerge_base. Qed.
Next Obligation. intros. solve_fadvances decode_field. Qed.

#[global] Program Instance given_ : FalliblePartial t partial :=
  {| fmsg_fromPartial := fromPartial; fmsg_full := full; fmsg_given := typed |}.
Next Obligation. solve_fgiven fromPartial typed. Qed.
Next Obligation. solve_fpartial fromPartial full typed. Qed.

#[global] Program Instance json : FallibleJson t :=
  {| fmsg_fromJSON := fromJSON; fmsg_toJSON := toJSON;
     fmsg_named := fun _ => true; fmsg_known := fun m => m |}.
Next Obligation. solve_fjson fromJSON toJSON. Qed.
Next Obligation. reflexivity. Qed.

#[global] Instance schema_wire {PB : Protobuf} {PS : ProtobufSpec PB} : WireSchema wire schema.
Proof. solve_schema_wire wire schema. Qed.

#[global] Instance schema_normal : NormalSchema normal schema.
Proof. solve_schema_normal normal schema. Qed.

#[global] Instance schema_merge : MergeSchema merge schema.
Proof. solve_schema_merge merge schema. Qed.

(** Its row in the table of message types. *)
Definition message {PB : Protobuf} {PS : ProtobufSpec PB} : message_type :=
  fallible_message "Grant" nothing true schema only.

#[global] Instance message_lawful {PB : Protobuf} (PS : ProtobufSpec PB) : Lawful message.
Proof. solve_lawful decode_field fromJSON only. Qed.

End Grant.

(** ** [GenesisState] (cosmos/feegrant/v1beta1/genesis.js) *)

Module GenesisState.

Record t := mk {
  allowances : list Grant.t;
}.

#[global] Instance t_eta : Settable t := λ m, mk m.(allowances).

Definition base : t := mk [].

Definition encode {PB : Protobuf} (message : t) (writer : Writer) : result Writer :=
  Ok writer
  @>= each_e message.(allowances) (submessage 10 Grant.encode).

Definition decode_field {PB : Protobuf} (tag : Z) (message : t) : RM t :=
  match field_number tag with
  | 1 => v ← read_nested Grant.decode;
         mret (message <| allowances := message.(allowances) ++ [v] |>)
  | _ => _ ← skipType (wire_type tag); mret message
  end.

Definition decode {PB : Protobuf} (length : option Z) : RM t :=
  decode_message length base decode_field.

Definition fromJSON (object : js) : result t :=
  allowances' ← field_or object "allowances" (to_list Grant.fromJSON) [];
  Ok (mk allowances').

Definition toJSON (message : t) : js :=
  Obj ([("allowances", Arr (map Grant.toJSON message.(allowances)))]).

Record partial := mkPartial {
  p_allowances : option (list Grant.partial);
}.

Definition fromPartial (object : partial) : t := {|
  allowances := map Grant.fromPartial (object.(p_allowances) ?? []);
|}.

(** The object with no property given. *)
Definition nothing : partial := mkPartial None.

(** The bytes [encode] writes. *)
Definition wire {PB : Protobuf} {PS : ProtobufSpec PB} (m : t) : bytes :=
  f_repeated 10 Grant.wire m.(allowances).

Definition valid (m : t) : Prop :=
  Forall Grant.valid m.(allowances).

(** The byte fields hold arrays, as the interface declares. *)
Definition typed (m : t) : bool := forallb Grant.typed m.(allowances).

(** The message without its empty byte arrays. *)
Definition normal (m : t) : t := {|
  allowances := map Grant.normal m.(allowances);
|}.

Definition encodable {PB : Protobuf} {PS : ProtobufSpec PB} (m : t) : Prop :=
  typed m = true ∧ valid m ∧ small (wire m).

Definition merge (m a : t) : t := {|
  allowances := m.(allowances) ++ map Grant.normal a.(allowances);
|}.

(** A whole message seen as a partial one. *)
Definition full (m : t) : partial := {|
  p_allowances := Some (map Grant.full m.(allowances));
|}.

(** The message as its schema declares it. *)
Definition schema (m : t) : list field :=
  [repeated 1 (message_value Grant.schema) m.(allowances)].

(** The message with its default for every property that is not kept. *)
Definition only (kept : string → bool) (m : t) : t := {|
  allowances := if kept "allowances" then m.(allowances) else [];
|}.

#[global] Instance codec {PB : Protobuf} : FallibleCodec t :=
  {| fmsg_base := base; fmsg_encode := encode; fmsg_field := decode_field |}.

#[global] Program Instance spec {PB : Protobuf} (PS : ProtobufSpec PB) : FallibleSpec PS t :=
  {| fmsg_wire := wire; fmsg_valid := valid; fmsg_typed := typed; fmsg_normal := normal;
     fmsg_merge := merge |}.
Next Obligation. solve_fencode_wire. Qed.
Next Obligation. intros. solve_fencode_throws encode typed. Qed.
Next Obligation. solve_fdecode_wire. Qed.
Next Obligation. solve_fmerge_base. Qed.
Next Obligation. intros. solve_fadvances decode_field. Qed.

#[global] Program Instance given_ : FalliblePartial t partial :=
  {| fmsg_fromPartial := fromPartial; fmsg_full := full; fmsg_given := typed |}.
Next Obligation. solve_fgiven fromPartial typed. Qed.
Next Obligation. solve_fpartial fromPartial full typed. Qed.

#[global] Program Instance json : FallibleJson t :=
  {| fmsg_fromJSON := fromJSON; fmsg_toJSON := toJSON;
     fmsg_named := fun _ => true; fmsg_known := fun m => m |}.
Next Obligation. solve_fjson fromJSON toJSON. Qed.
Next Obligation. reflexivity. Qed.

#[global] Instance schema_wire {PB : Protobuf} {PS : ProtobufSpec PB} : WireSchema wire schema.
Proof. solve_schema_wire wire schema. Qed.

#[global] Instance schema_normal : NormalSchema normal schema.
Proof. solve_schema_normal normal schema. Qed.

#[global] Instance schema_merge : MergeSchema merge schema.
Proof. solve_schema_merge merge schema. Qed.

(** Its row in the table of message types. *)
Definition message {PB : Protobuf} {PS : ProtobufSpec PB} : message_type :=
  fallible_message "GenesisState" nothing true schema only.

#[global] Instance message_lawful {PB : Protobuf} (PS : ProtobufSpec PB) : Lawful message.
Proof. solve_lawful decode_field fromJSON only. Qed.

End GenesisState.

(** ** [MsgGrantAllowance] (cosmos/feegrant/v1beta1/tx.js) *)

Module MsgGrantAllowance.

Record t := mk {
  granter : string;
  grantee : string;
  allowance : option Any.t;
}.

#[global] Instance t_eta : Settable t := λ m, mk m.(granter) m.(grantee) m.(allowance).

Definition base : t := mk "" "" None.

Definition encode {PB : Protobuf} (message : t) (writer : Writer) : result Writer :=
  Ok writer
  @>= pure (when (str_neq message.(granter) "")
       (fun w => w @> uint32 10 @> string_ message.(granter)))
  @>= pure (when (str_neq message.(grantee) "")
       (fun w => w @> uint32 18 @> string_ message.(grantee)))
  @>= defined_e message.(allowance) (submessage 26 Any.encode).

Definition decode_field {PB : Protobuf} (tag : Z) (message : t) : RM t :=
  match field_number tag with
  | 1 => v ← read_string; mret (message <| granter := v |>)
  | 2 => v ← read_string; mret (message <| grantee := v |>)
  | 3 => v ← read_nested Any.decode; mret (message <| allowance := Some v |>)
  | _ => _ ← skipType (wire_type tag); mret message
  end.

Definition decode {PB : Protobuf} (length : option Z) : RM t :=
  decode_message length base decode_field.

Definition fromJSON (object : js) : result t :=
  granter' ← field_or object "granter" to_string "";
  grantee' ← field_or object "grantee" to_string "";
  allowance' ← field_or object "allowance" (to_some Any.fromJSON) None;
  Ok (mk granter' grantee' allowance').

Definition toJSON (message : t) : js :=
  Obj ([("granter", Str message.(granter));
    ("grantee", Str message.(grantee))] ++
   prop_opt "allowance" Any.toJSON message.(allowance)).

Record partial := mkPartial {
  p_granter : option string;
  p_grantee : option string;
  p_allowance : option Any.partial;
}.

Definition fromPartial (object : partial) : t := {|
  granter := object.(p_granter) ?? "";
  grantee := object.(p_grantee) ?? "";
  allowance := Any.fromPartial <$> object.(p_allowance);
|}.

(** The object with no property given. *)
Definition nothing : partial := mkPartial None None None.

(** The bytes [encode] writes. *)
Definition wire {PB : Protobuf} {PS : ProtobufSpec PB} (m : t) : bytes :=
  f_string 10 m.(granter) ++
  f_string 18 m.(grantee) ++
  f_message 26 Any.wire m.(allowance).

Definition valid (m : t) : Prop :=
  from_option Any.valid True m.(allowance).

(** The byte fields hold arrays, as the interface declares. *)
Definition typed (m : t) : bool := from_option Any.typed true m.(allowance).

(** The message without its empty byte arrays. *)
Definition normal (m : t) : t := {|
  granter := m.(granter);
  grantee := m.(grantee);
  allowance := Any.normal <$> m.(allowance);
|}.

Definition encodable {PB : Protobuf} {PS : ProtobufSpec PB} (m : t) : Prop :=
  typed m = true ∧ valid m ∧ small (wire m).

Definition merge (m a : t) : t := {|
  granter := later_string m.(granter) a.(granter);
  grantee := later_string m.(grantee) a.(grantee);
  allowance := later_message m.(allowance) (Any.normal <$> a.(allowance));
|}.

(** A whole message seen as a partial one. *)
Definition full (m : t) : partial := {|
  p_granter := Some m.(granter);
  p_grantee := Some m.(grantee);
  p_allowance := Any.full <$> m.(allowance);
|}.

(** The message as its schema declares it. *)
Definition schema (m : t) : list field :=
  [implicit 1 (VString m.(granter));
   implicit 2 (VString m.(grantee));
   singular 3 Optional (message_value Any.schema) m.(allowance)].

(** The message with its default for every property that is not kept. *)
Definition only (kept : string → bool) (m : t) : t := {|
  granter := if kept "granter" then m.(granter) else "";
  grantee := if kept "grantee" then m.(grantee) else "";
  allowance := if kept "allowance" then m.(allowance) else None;
|}.

#[global] Instance codec {PB : Protobuf} : FallibleCodec t :=
  {| fmsg_base := base; fmsg_encode := encode; fmsg_field := decode_field |}.

#[global] Program Instance spec {PB : Protobuf} (PS : ProtobufSpec PB) : FallibleSpec PS t :=
  {| fmsg_wire := wire; fmsg_valid := valid; fmsg_typed := typed; fmsg_normal := normal;
     fmsg_merge := merge |}.
Next Obligation. solve_fencode_wire. Qed.
Next Obligation. intros. solve_fencode_throws encode typed. Qed.
Next Obligation. solve_fdecode_wire. Qed.
Next Obligation. solve_fmerge_base. Qed.
Next Obligation. intros. solve_fadvances decode_field. Qed.

#[global] Program Instance given_ : FalliblePartial t partial :=
  {| fmsg_fromPartial := fromPartial; fmsg_full := full; fmsg_given := typed |}.
Next Obligation. solve_fgiven fromPartial typed. Qed.
Next Obligation. solve_fpartial fromPartial full typed. Qed.

#[global] Program Instance json : FallibleJson t :=
  {| fmsg_fromJSON := fromJSON; fmsg_toJSON := toJSON;
     fmsg_named := fun _ => true; fmsg_known := fun m => m |}.
Next Obligation. solve_fjson fromJSON toJSON. Qed.
Next Obligation. reflexivity. Qed.

#[global] Instance schema_wire {PB : Protobuf} {PS : ProtobufSpec PB} : WireSchema wire schema.
Proof. solve_schema_wire wire schema. Qed.

#[global] Instance schema_normal : NormalSchema normal schema.
Proof. solve_schema_normal normal schema. Qed.

#[global] Instance schema_merge : MergeSchema merge schema.
Proof. solve_schema_merge merge schema. Qed.

(** Its row in the table of message types. *)
Definition message {PB : Protobuf} {PS : ProtobufSpec PB} : message_type :=
  fallible_message "MsgGrantAllowance" nothing true schema only.

#[global] Instance message_lawful {PB : Protobuf} (PS : ProtobufSpec PB) : Lawful message.
Proof. solve_lawful decode_field fromJSON only. Qed.

End MsgGrantAllowance.

(** ** [MsgGrantAllowanceResponse] (cosmos/feegrant/v1beta1/tx.js) *)

Module MsgGrantAllowanceResponse.

Record t := mk {}.

#[global] Instance t_eta : Settable t := λ m, m.

Definition base : t := mk.

Definition encode {PB : Protobuf} (message : t) (writer : Writer) : Writer :=
  writer.

Definition decode_field {PB : Protobuf} (tag : Z) (message : t) : RM t :=
  match field_number tag with
  | _ => _ ← skipType (wire_type tag); mret message
  end.

Definition decode {PB : Protobuf} (length : option Z) : RM t :=
  decode_message length base decode_field.

Definition fromJSON (object : js) : result t :=
  Ok base.

Definition toJSON (message : t) : js :=
  Obj [].

Record partial := mkPartial {}.

Definition fromPartial (object : partial) : t := base.

(** The object with no property given. *)
Definition nothing : partial := mkPartial.

(** The bytes [encode] writes. *)
Definition wire {PB : Protobuf} {PS : ProtobufSpec PB} (m : t) : bytes :=
  [].

Definition valid (m : t) : Prop :=
  True.

Definition encodable {PB : Protobuf} {PS : ProtobufSpec PB} (m : t) : Prop :=
  valid m ∧ small (wire m).

Definition merge (m a : t) : t := m.

(** A whole message seen as a partial one. *)
Definition full (m : t) : partial := mkPartial.

(** The message as its schema declares it. *)
Definition schema (m : t) : list field :=
  [].

(** The message with its default for every property that is not kept. *)
Definition only (kept : string → bool) (m : t) : t := m.

#[global] Instance codec {PB : Protobuf} : MessageCodec t :=
  {| msg_base := base; msg_encode := encode; msg_field := decode_field |}.

#[global] Program Instance spec {PB : Protobuf} (PS : ProtobufSpec PB) : MessageSpec PS t :=
  {| msg_wire := wire; msg_valid := valid; msg_merge := merge |}.
Next Obligation. solve_encode_wire. Qed.
Next Obligation. solve_decode_wire. Qed.
Next Obligation. solve_merge_base. Qed.
Next Obligation. intros. solve_advances decode_field. Qed.

#[global] Program Instance data : MessageData t partial :=
  {| msg_fromJSON := fromJSON; msg_toJSON := toJSON;
     msg_fromPartial := fromPartial; msg_full := full |}.
Next Obligation. solve_json fromJSON toJSON. Qed.
Next Obligation. solve_partial fromPartial full. Qed.

#[global] Instance schema_wire {PB : Protobuf} {PS : ProtobufSpec PB} : WireSchema wire schema.
Proof. solve_schema_wire wire schema. Qed.

#[global] Instance schema_merge : MergeSchema merge schema.
Proof. solve_schema_merge merge schema. Qed.

(** Its row in the table of message types. *)
Definition message {PB : Protobuf} {PS : ProtobufSpec PB} : message_type :=
  plain_message "MsgGrantAllowanceResponse" nothing false schema only.

#[global] Instance message_lawful {PB : Protobuf} (PS : ProtobufSpec PB) : Lawful message.
Proof. solve_lawful decode_field fromJSON only. Qed.

End MsgGrantAllowanceResponse.

(** ** [MsgRevokeAllowance] (cosmos/feegrant/v1beta1/tx.js) *)

Module MsgRevokeAllowance.

Record t := mk {
  granter : string;
  grantee : string;
}.

#[global] Instance t_eta : Settable t := λ m, mk m.(granter) m.(grantee).

Definition base : t := mk "" "".

Definition encode {PB : Protobuf} (message : t) (writer : Writer) : Writer :=
  writer
  @> when (str_neq message.(granter) "") (fun w => w @> uint32 10 @> string_ message.(granter))
  @> when (str_neq message.(grantee) "") (fun w => w @> uint32 18 @> string_ message.(grantee)).

Definition decode_field {PB : Protobuf} (tag : Z) (message : t) : RM t :=
  match field_number tag with
  | 1 => v ← read_string; mret (message <| granter := v |>)
  | 2 => v ← read_string; mret (message <| grantee := v |>)
  | _ => _ ← skipType (wire_type tag); mret message
  end.

Definition decode {PB : Protobuf} (length : option Z) : RM t :=
  decode_message length base decode_field.

Definition fromJSON (object : js) : result t :=
  granter' ← field_or object "granter" to_string "";
  grantee' ← field_or object "grantee" to_string "";
  Ok (mk granter' grantee').

Definition toJSON (message : t) : js :=
  Obj ([("granter", Str message.(granter));
    ("grantee", Str message.(grantee))]).

Record partial := mkPartial {
  p_granter : option string;
  p_grantee : option string;
}.

Definition fromPartial (object : partial) : t := {|
  granter := object.(p_granter) ?? "";
  grantee := object.(p_grantee) ?? "";
|}.

(** The object with no property given. *)
Definition nothing : partial := mkPartial None None.

(** The bytes [encode] writes. *)
Definition wire {PB : Protobuf} {PS : ProtobufSpec PB} (m : t) : bytes :=
  f_string 10 m.(granter) ++
  f_string 18 m.(grantee).

Definition valid (m : t) : Prop :=
  True.

Definition encodable {PB : Protobuf} {PS : ProtobufSpec PB} (m : t) : Prop :=
  valid m ∧ small (wire m).

Definition merge (m a : t) : t := {|
  granter := later_string m.(granter) a.(granter);
  grantee := later_string m.(grantee) a.(grantee);
|}.

(** A whole message seen as a partial one. *)
Definition full (m : t) : partial := {|
  p_granter := Some m.(granter);
  p_grantee := Some m.(grantee);
|}.

(** The message as its schema declares it. *)
Definition schema (m : t) : list field :=
  [implicit 1 (VString m.(granter));
   implicit 2 (VString m.(grantee))].

(** The message with its default for every property that is not kept. *)
Definition only (kept : string → bool) (m : t) : t := {|
  granter := if kept "granter" then m.(granter) else "";
  grantee := if kept "grantee" then m.(grantee) else "";
|}.

#[global] Instance codec {PB : Protobuf} : MessageCodec t :=
  {| msg_base := base; msg_encode := encode; msg_field := decode_field |}.

#[global] Program Instance spec {PB : Protobuf} (PS : ProtobufSpec PB) : MessageSpec PS t :=
  {| msg_wire := wire; msg_valid := valid; msg_merge := merge |}.
Next Obligation. solve_encode_wire. Qed.
Next Obligation. solve_decode_wire. Qed.
Next Obligation. solve_merge_base. Qed.
Next Obligation. intros. solve_advances decode_field. Qed.

#[global] Program Instance data : MessageData t partial :=
  {| msg_fromJSON := fromJSON; msg_toJSON := toJSON;
     msg_fromPartial := fromPartial; msg_full := full |}.
Next Obligation. solve_json fromJSON toJSON. Qed.
Next Obligation. solve_partial fromPartial full. Qed.

#[global] Instance schema_wire {PB : Protobuf} {PS : ProtobufSpec PB} : WireSchema wire schema.
Proof. solve_schema_wire wire schema. Qed.

#[global] Instance schema_merge : MergeSchema merge schema.
Proof. solve_schema_merge merge schema. Qed.

(** Its row in the table of message types. *)
Definition message {PB : Protobuf} {PS : ProtobufSpec PB} : message_type :=
  plain_message "MsgRevokeAllowance" nothing true schema only.

#[global] Instance message_lawful {PB : Protobuf} (PS : ProtobufSpec PB) : Lawful message.
Proof. solve_lawful decode_field fromJSON only. Qed.

End MsgRevokeAllowance.

(** ** [MsgRevokeAllowanceResponse] (cosmos/feegrant/v1beta1/tx.js) *)

Module MsgRevokeAllowanceResponse.

Record t := mk {}.

#[global] Instance t_eta : Settable t := λ m, m.

Definition base : t := mk.

Definition encode {PB : Protobuf} (message : t) (writer : Writer) : Writer :=
  writer.

Definition decode_field {PB : Protobuf} (tag : Z) (message : t) : RM t :=
  match field_number tag with
  | _ => _ ← skipType (wire_type tag); mret message
  end.

Definition decode {PB : Protobuf} (length : option Z) : RM t :=
  decode_message length base decode_field.

Definition fromJSON (object : js) : result t :=
  Ok base.

Definition toJSON (message : t) : js :=
  Obj [].

Record partial := mkPartial {}.

Definition fromPartial (object : partial) : t := base.

(** The object with no property given. *)
Definition nothing : partial := mkPartial.

(** The bytes [encode] writes. *)
Definition wire {PB : Protobuf} {PS : ProtobufSpec PB} (m : t) : bytes :=
  [].

Definition valid (m : t) : Prop :=
  True.

Definition encodable {PB : Protobuf} {PS : ProtobufSpec PB} (m : t) : Prop :=
  valid m ∧ small (wire m).

Definition merge (m a : t) : t := m.

(** A whole message seen as a partial one. *)
Definition full (m : t) : partial := mkPartial.

(** The message as its schema declares it. *)
Definition schema (m : t) : list field :=
  [].

(** The message with its default for every property that is not kept. *)
Definition only (kept : string → bool) (m : t) : t := m.

#[global] Instance codec {PB : Protobuf} : MessageCodec t :=
  {| msg_base := base; msg_encode := encode; msg_field := decode_field |}.

#[global] Program Instance spec {PB : Protobuf} (PS : ProtobufSpec PB) : MessageSpec PS t :=
  {| msg_wire := wire; msg_valid := valid; msg_merge := merge |}.
Next Obligation. solve_encode_wire. Qed.
Next Obligation. solve_decode_wire. Qed.
Next Obligation. solve_merge_base. Qed.
Next Obligation. intros. solve_advances decode_field. Qed.

#[global] Program Instance data : MessageData t partial :=
  {| msg_fromJSON := fromJSON; msg_toJSON := toJSON;
     msg_fromPartial := fromPartial; msg_full := full |}.
Next Obligation. solve_json fromJSON toJSON. Qed.
Next Obligation. solve_partial fromPartial full. Qed.

#[global] Instance schema_wire {PB : Protobuf} {PS : ProtobufSpec PB} : WireSchema wire schema.
Proof. solve_schema_wire wire schema. Qed.

#[global] Instance schema_merge : MergeSchema merge schema.
Proof. solve_schema_merge merge schema. Qed.

(** Its row in the table of message types. *)
Definition message {PB : Protobuf} {PS : ProtobufSpec PB} : message_type :=
  plain_message "MsgRevokeAllowanceResponse" nothing false schema only.

#[global] Instance message_lawful {PB : Protobuf} (PS : ProtobufSpec PB) : Lawful message.
Proof. solve_lawful decode_field fromJSON only. Qed.

End MsgRevokeAllowanceResponse.

(** ** [QueryAllowanceRequest] (cosmos/feegrant/v1beta1/query.js) *)

Module QueryAllowanceRequest.

Record t := mk {
  granter : string;
  grantee : string;
}.

#[global] Instance t_eta : Settable t := λ m, mk m.(granter) m.(grantee).

Definition base : t := mk "" "".

Definition encode {PB : Protobuf} (message : t) (writer : Writer) : Writer :=
  writer
  @> when (str_neq message.(granter) "") (fun w => w @> uint32 10 @> string_ message.(granter))
  @> when (str_neq message.(grantee) "") (fun w => w @> uint32 18 @> string_ message.(grantee)).

Definition decode_field {PB : Protobuf} (tag : Z) (message : t) : RM t :=
  match field_number tag with
  | 1 => v ← read_string; mret (message <| granter := v |>)
  | 2 => v ← read_string; mret (message <| grantee := v |>)
  | _ => _ ← skipType (wire_type tag); mret message
  end.

Definition decode {PB : Protobuf} (length : option Z) : RM t :=
  decode_message length base decode_field.

Definition fromJSON (object : js) : result t :=
  granter' ← field_or object "granter" to_string "";
  grantee' ← field_or object "grantee" to_string "";
  Ok (mk granter' grantee').

Definition toJSON (message : t) : js :=
  Obj ([("granter", Str message.(granter));
    ("grantee", Str message.(grantee))]).

Record partial := mkPartial {
  p_granter : option string;
  p_grantee : option string;
}.

Definition fromPartial (object : partial) : t := {|
  granter := object.(p_granter) ?? "";
  grantee := object.(p_grantee) ?? "";
|}.

(** The object with no property given. *)
Definition nothing : partial := mkPartial None None.

(** The bytes [encode] writes. *)
Definition wire {PB : Protobuf} {PS : ProtobufSpec PB} (m : t) : bytes :=
  f_string 10 m.(granter) ++
  f_string 18 m.(grantee).

Definition valid (m : t) : Prop :=
  True.

Definition encodable {PB : Protobuf} {PS : ProtobufSpec PB} (m : t) : Prop :=
  valid m ∧ small (wire m).

Definition merge (m a : t) : t := {|
  granter := later_string m.(granter) a.(granter);
  grantee := later_string m.(grantee) a.(grantee);
|}.

(** A whole message seen as a partial one. *)
Definition full (m : t) : partial := {|
  p_granter := Some m.(granter);
  p_grantee := Some m.(grantee);
|}.

(** The message as its schema declares it. *)
Definition schema (m : t) : list field :=
  [implicit 1 (VString m.(granter));
   implicit 2 (VString m.(grantee))].

(** The message with its default for every property that is not kept. *)
Definition only (kept : string → bool) (m : t) : t := {|
  granter := if kept "granter" then m.(granter) else "";
  grantee := if kept "grantee" then m.(grantee) else "";
|}.

#[global] Instance codec {PB : Protobuf} : MessageCodec t :=
  {| msg_base := base; msg_encode := encode; msg_field := decode_field |}.

#[global] Program Instance spec {PB : Protobuf} (PS : ProtobufSpec PB) : MessageSpec PS t :=
  {| msg_wire := wire; msg_valid := valid; msg_merge := merge |}.
Next Obligation. solve_encode_wire. Qed.
Next Obligation. solve_decode_wire. Qed.
Next Obligation. solve_merge_base. Qed.
Next Obligation. intros. solve_advances decode_field. Qed.

#[global] Program Instance data : MessageData t partial :=
  {| msg_fromJSON := fromJSON; msg_toJSON := toJSON;
     msg_fromPartial := fromPartial; msg_full := full |}.
Next Obligation. solve_json fromJSON toJSON. Qed.
Next Obligation. solve_partial fromPartial full. Qed.

#[global] Instance schema_wire {PB : Protobuf} {PS : ProtobufSpec PB} : WireSchema wire schema.
Proof. solve_schema_wire wire schema. Qed.

#[global] Instance schema_merge : MergeSchema merge schema.
Proof. solve_schema_merge merge schema. Qed.

(** Its row in the table of message types. *)
Definition message {PB : Protobuf} {PS : ProtobufSpec PB} : message_type :=
  plain_message "QueryAllowanceRequest" nothing true schema only.

#[global] Instance message_lawful {PB : Protobuf} (PS : ProtobufSpec PB) : Lawful message.
Proof. solve_lawful decode_field fromJSON only. Qed.

End QueryAllowanceRequest.

(** ** [QueryAllowanceResponse] (cosmos/feegrant/v1beta1/query.js) *)

Module QueryAllowanceResponse.

Record t := mk {
  allowance : option Grant.t;
}.

#[global] Instance t_eta : Settable t := λ m, mk m.(allowance).

Definition base : t := mk None.

Definition encode {PB : Protobuf} (message : t) (writer : Writer) : result Writer :=
  Ok writer
  @>= defined_e message.(allowance) (submessage 10 Grant.encode).

Definition decode_field {PB : Protobuf} (tag : Z) (message : t) : RM t :=
  match field_number tag with
  | 1 => v ← read_nested Grant.decode; mret (message <| allowance := Some v |>)
  | _ => _ ← skipType (wire_type tag); mret message
  end.

Definition decode {PB : Protobuf} (length : option Z) : RM t :=
  decode_message length base decode_field.

Definition fromJSON (object : js) : result t :=
  allowance' ← field_or object "allowance" (to_some Grant.fromJSON) None;
  Ok (mk allowance').

Definition toJSON (message : t) : js :=
  Obj (prop_opt "allowance" Grant.toJSON message.(allowance)).

Record partial := mkPartial {
  p_allowance : option Grant.partial;
}.

Definition fromPartial (object : partial) : t := {|
  allowance := Grant.fromPartial <$> object.(p_allowance);
|}.

(** The object with no property given. *)
Definition nothing : partial := mkPartial None.

(** The bytes [encode] writes. *)
Definition wire {PB : Protobuf} {PS : ProtobufSpec PB} (m : t) : bytes :=
  f_message 10 Grant.wire m.(allowance).

Definition valid (m : t) : Prop :=
  from_option Grant.valid True m.(allowance).

(** The byte fields hold arrays, as the interface declares. *)
Definition typed (m : t) : bool := from_option Grant.typed true m.(allowance).

(** The message without its empty byte arrays. *)
Definition normal (m : t) : t := {|
  allowance := Grant.normal <$> m.(allowance);
|}.

Definition encodable {PB : Protobuf} {PS : ProtobufSpec PB} (m : t) : Prop :=
  typed m = true ∧ valid m ∧ small (wire m).

Definition merge (m a : t) : t := {|
  allowance := later_message m.(allowance) (Grant.normal <$> a.(allowance));
|}.

(** A whole message seen as a partial one. *)
Definition full (m : t) : partial := {|
  p_allowance := Grant.full <$> m.(allowance);
|}.

(** The message as its schema declares it. *)
Definition schema (m : t) : list field :=
  [singular 1 Optional (message_value Grant.schema) m.(allowance)].

(** The message with its default for every property that is not kept. *)
Definition only (kept : string → bool) (m : t) : t := {|
  allowance := if kept "allowance" then m.(allowance) else None;
|}.

#[global] Instance codec {PB : Protobuf} : FallibleCodec t :=
  {| fmsg_base := base; fmsg_encode := encode; fmsg_field := decode_field |}.

#[global] Program Instance spec {PB : Protobuf} (PS : ProtobufSpec PB) : FallibleSpec PS t :=
  {| fmsg_wire := wire; fmsg_valid := valid; fmsg_typed := typed; fmsg_normal := normal;
     fmsg_merge := merge |}.
Next Obligation. solve_fencode_wire. Qed.
Next Obligation. intros. solve_fencode_throws encode typed. Qed.
Next Obligation. solve_fdecode_wire. Qed.
Next Obligation. solve_fmerge_base. Qed.
Next Obligation. intros. solve_fadvances decode_field. Qed.

#[global] Program Instance given_ : FalliblePartial t partial :=
  {| fmsg_fromPartial := fromPartial; fmsg_full := full; fmsg_given := typed |}.
Next Obligation. solve_fgiven fromPartial typed. Qed.
Next Obligation. solve_fpartial fromPartial full typed. Qed.

#[global] Program Instance json : FallibleJson t :=
  {| fmsg_fromJSON := fromJSON; fmsg_toJSON := toJSON;
     fmsg_named := fun _ => true; fmsg_known := fun m => m |}.
Next Obligation. solve_fjson fromJSON toJSON. Qed.
Next Obligation. reflexivity. Qed.

#[global] Instance schema_wire {PB : Protobuf} {PS : ProtobufSpec PB} : WireSchema wire schema.
Proof. solve_schema_wire wire schema. Qed.

#[global] Instance schema_normal : NormalSchema normal schema.
Proof. solve_schema_normal normal schema. Qed.

#[global] Instance schema_merge : MergeSchema merge schema.
Proof. solve_schema_merge merge schema. Qed.

(** Its row in the table of message types. *)
Definition message {PB : Protobuf} {PS : ProtobufSpec PB} : message_type :=
  fallible_message "QueryAllowanceResponse" nothing true schema only.

#[global] Instance message_lawful {PB : Protobuf} (PS : ProtobufSpec PB) : Lawful message.
Proof. solve_lawful decode_field fromJSON only. Qed.

End QueryAllowanceResponse.

(** ** [QueryAllowancesRequest] (cosmos/feegrant/v1beta1/query.js) *)

Module QueryAllowancesRequest.

Record t := mk {
  grantee : string;
  pagination : option PageRequest.t;
}.

#[global] Instance t_eta : Settable t := λ m, mk m.(grantee) m.(pagination).

Definition base : t := mk "" None.

Definition encode {PB : Protobuf} (message : t) (writer : Writer) : result Writer :=
  Ok writer
  @>= pure (when (str_neq message.(grantee) "")
       (fun w => w @> uint32 10 @> string_ message.(grantee)))
  @>= defined_e message.(pagination) (submessage 18 PageRequest.encode).

Definition decode_field {PB : Protobuf} (tag : Z) (message : t) : RM t :=
  match field_number tag with
  | 1 => v ← read_string; mret (message <| grantee := v |>)
  | 2 => v ← read_nested PageRequest.decode; mret (message <| pagination := Some v |>)
  | _ => _ ← skipType (wire_type tag); mret message
  end.

Definition decode {PB : Protobuf} (length : option Z) : RM t :=
  decode_message length base decode_field.

Definition fromJSON (object : js) : result t :=
  grantee' ← field_or object "grantee" to_string "";
  pagination' ← field_or object "pagination" (to_some PageRequest.fromJSON) None;
  Ok (mk grantee' pagination').

Definition toJSON (message : t) : js :=
  Obj ([("grantee", Str message.(grantee))] ++
   prop_opt "pagination" PageRequest.toJSON message.(pagination)).

Record partial := mkPartial {
  p_grantee : option string;
  p_pagination : option PageRequest.partial;
}.

Definition fromPartial (object : partial) : t := {|
  grantee := object.(p_grantee) ?? "";
  pagination := PageRequest.fromPartial <$> object.(p_pagination);
|}.

(** The object with no property given. *)
Definition nothing : partial := mkPartial None None.

(** The bytes [encode] writes. *)
Definition wire {PB : Protobuf} {PS : ProtobufSpec PB} (m : t) : bytes :=
  f_string 10 m.(grantee) ++
  f_message 18 PageRequest.wire m.(pagination).

Definition valid (m : t) : Prop :=
  from_option PageRequest.valid True m.(pagination).

(** The byte fields hold arrays, as the interface declares. *)
Definition typed (m : t) : bool := from_option PageRequest.typed true m.(pagination).

(** The message without its empty byte arrays. *)
Definition normal (m : t) : t := {|
  grantee := m.(grantee);
  pagination := PageRequest.normal <$> m.(pagination);
|}.

Definition encodable {PB : Protobuf} {PS : ProtobufSpec PB} (m : t) : Prop :=
  typed m = true ∧ valid m ∧ small (wire m).

Definition merge (m a : t) : t := {|
  grantee := later_string m.(grantee) a.(grantee);
  pagination := later_message m.(pagination) (PageRequest.normal <$> a.(pagination));
|}.

(** A whole message seen as a partial one. *)
Definition full (m : t) : partial := {|
  p_grantee := Some m.(grantee);
  p_pagination := PageRequest.full <$> m.(pagination);
|}.

(** The message as its schema declares it. *)
Definition schema (m : t) : list field :=
  [implicit 1 (VString m.(grantee));
   singular 2 Optional (message_value PageRequest.schema) m.(pagination)].

(** The message with its default for every property that is not kept. *)
Definition only (kept : string → bool) (m : t) : t := {|
  grantee := if kept "grantee" then m.(grantee) else "";
  pagination := if kept "pagination" then m.(pagination) else None;
|}.

#[global] Instance codec {PB : Protobuf} : FallibleCodec t :=
  {| fmsg_base := base; fmsg_encode := encode; fmsg_field := decode_field |}.

#[global] Program Instance spec {PB : Protobuf} (PS : ProtobufSpec PB) : FallibleSpec PS t :=
  {| fmsg_wire := wire; fmsg_valid := valid; fmsg_typed := typed; fmsg_normal := normal;
     fmsg_merge := merge |}.
Next Obligation. solve_fencode_wire. Qed.
Next Obligation. intros. solve_fencode_throws encode typed. Qed.
Next Obligation. solve_fdecode_wire. Qed.
Next Obligation. solve_fmerge_base. Qed.
Next Obligation. intros. solve_fadvances decode_field. Qed.

#[global] Program Instance given_ : FalliblePartial t partial :=
  {| fmsg_fromPartial := fromPartial; fmsg_full := full; fmsg_given := typed |}.
Next Obligation. solve_fgiven fromPartial typed. Qed.
Next Obligation. solve_fpartial fromPartial full typed. Qed.

#[global] Program Instance json : FallibleJson t :=
  {| fmsg_fromJSON := fromJSON; fmsg_toJSON := toJSON;
     fmsg_named := fun _ => true; fmsg_known := fun m => m |}.
Next Obligation. solve_fjson fromJSON toJSON. Qed.
Next Obligation. reflexivity. Qed.

#[global] Instance schema_wire {PB : Protobuf} {PS : ProtobufSpec PB} : WireSchema wire schema.
Proof. solve_schema_wire wire schema. Qed.

#[global] Instance schema_normal : NormalSchema normal schema.
Proof. solve_schema_normal normal schema. Qed.

#[global] Instance schema_merge : MergeSchema merge schema.
Proof. solve_schema_merge merge schema. Qed.

(** Its row in the table of message types. *)
Definition message {PB : Protobuf} {PS : ProtobufSpec PB} : message_type :=
  fallible_message "QueryAllowancesRequest" nothing true schema only.

#[global] Instance message_lawful {PB : Protobuf} (PS : ProtobufSpec PB) : Lawful message.
Proof. solve_lawful decode_field fromJSON only. Qed.

End QueryAllowancesRequest.

(** ** [QueryAllowancesResponse] (cosmos/feegrant/v1beta1/query.js) *)

Module QueryAllowancesResponse.

Record t := mk {
  allowances : list Grant.t;
  pagination : option PageResponse.t;
}.

#[global] Instance t_eta : Settable t := λ m, mk m.(allowances) m.(pagination).

Definition base : t := mk [] None.

Definition encode {PB : Protobuf} (message : t) (writer : Writer) : result Writer :=
  Ok writer
  @>= each_e message.(allowances) (submessage 10 Grant.encode)
  @>= defined_e message.(pagination) (submessage 18 PageResponse.encode).

Definition decode_field {PB : Protobuf} (tag : Z) (message : t) : RM t :=
  match field_number tag with
  | 1 => v ← read_nested Grant.decode;
         mret (message <| allowances := message.(allowances) ++ [v] |>)
  | 2 => v ← read_nested PageResponse.decode; mret (message <| pagination := Some v |>)
  | _ => _ ← skipType (wire_type tag); mret message
  end.

Definition decode {PB : Protobuf} (length : option Z) : RM t :=
  decode_message length base decode_field.

Definition fromJSON (object : js) : result t :=
  allowances' ← field_or object "allowances" (to_list Grant.fromJSON) [];
  pagination' ← field_or object "pagination" (to_some PageResponse.fromJSON) None;
  Ok (mk allowances' pagination').

Definition toJSON (message : t) : js :=
  Obj ([("allowances", Arr (map Grant.toJSON message.(allowances)))] ++
   prop_opt "pagination" PageResponse.toJSON message.(pagination)).

Record partial := mkPartial {
  p_allowances : option (list Grant.partial);
  p_pagination : option PageResponse.partial;
}.

Definition fromPartial (object : partial) : t := {|
  allowances := map Grant.fromPartial (object.(p_allowances) ?? []);
  pagination := PageResponse.fromPartial <$> object.(p_pagination);
|}.

(** The object with no property given. *)
Definition nothing : partial := mkPartial None None.

(** The bytes [encode] writes. *)
Definition wire {PB : Protobuf} {PS : ProtobufSpec PB} (m : t) : bytes :=
  f_repeated 10 Grant.wire m.(allowances) ++
  f_message 18 PageResponse.wire m.(pagination).

Definition valid (m : t) : Prop :=
  Forall Grant.valid m.(allowances) ∧ from_option PageResponse.valid True m.(pagination).

(** The byte fields hold arrays, as the interface declares. *)
Definition typed (m : t) : bool := forallb Grant.typed m.(allowances) && from_option PageResponse.typed true m.(pagination).

(** The message without its empty byte arrays. *)
Definition normal (m : t) : t := {|
  allowances := map Grant.normal m.(allowances);
  pagination := PageResponse.normal <$> m.(pagination);
|}.

Definition encodable {PB : Protobuf} {PS : ProtobufSpec PB} (m : t) : Prop :=
  typed m = true ∧ valid m ∧ small (wire m).

Definition merge (m a : t) : t := {|
  allowances := m.(allowances) ++ map Grant.normal a.(allowances);
  pagination := later_message m.(pagination) (PageResponse.normal <$> a.(pagination));
|}.

(** A whole message seen as a partial one. *)
Definition full (m : t) : partial := {|
  p_allowances := Some (map Grant.full m.(allowances));
  p_pagination := PageResponse.full <$> m.(pagination);
|}.

(** The message as its schema declares it. *)
Definition schema (m : t) : list field :=
  [repeated 1 (message_value Grant.schema) m.(allowances);
   singular 2 Optional (message_value PageResponse.schema) m.(pagination)].

(** The message with its default for every property that is not kept. *)
Definition only (kept : string → bool) (m : t) : t := {|
  allowances := if kept "allowances" then m.(allowances) else [];
  pagination := if kept "pagination" then m.(pagination) else None;
|}.

#[global] Instance codec {PB : Protobuf} : FallibleCodec t :=
  {| fmsg_base := base; fmsg_encode := encode; fmsg_field := decode_field |}.

#[global] Program Instance spec {PB : Protobuf} (PS : ProtobufSpec PB) : FallibleSpec PS t :=
  {| fmsg_wire := wire; fmsg_valid := valid; fmsg_typed := typed; fmsg_normal := normal;
     fmsg_merge := merge |}.
Next Obligation. solve_fencode_wire. Qed.
Next Obligation. intros. solve_fencode_throws encode typed. Qed.
Next Obligation. solve_fdecode_wire. Qed.
Next Obligation. solve_fmerge_base. Qed.
Next Obligation. intros. solve_fadvances decode_field. Qed.

#[global] Program Instance given_ : FalliblePartial t partial :=
  {| fmsg_fromPartial := fromPartial; fmsg_full := full; fmsg_given := typed |}.
Next Obligation. solve_fgiven fromPartial typed. Qed.
Next Obligation. solve_fpartial fromPartial full typed. Qed.

#[global] Program Instance json : FallibleJson t :=
  {| fmsg_fromJSON := fromJSON; fmsg_toJSON := toJSON;
     fmsg_named := fun _ => true; fmsg_known := fun m => m |}.
Next Obligation. solve_fjson fromJSON toJSON. Qed.
Next Obligation. reflexivity. Qed.

#[global] Instance schema_wire {PB : Protobuf} {PS : ProtobufSpec PB} : WireSchema wire schema.
Proof. solve_schema_wire wire schema. Qed.

#[global] Instance schema_normal : NormalSchema normal schema.
Proof. solve_schema_normal normal schema. Qed.

#[global] Instance schema_merge : MergeSchema merge schema.
Proof. solve_schema_merge merge schema. Qed.

(** Its row in the table of message types. *)
Definition message {PB : Protobuf} {PS : ProtobufSpec PB} : message_type :=
  fallible_message "QueryAllowancesResponse" nothing true schema only.

#[global] Instance message_lawful {PB : Protobuf} (PS : ProtobufSpec PB) : Lawful message.
Proof. solve_lawful decode_field fromJSON only. Qed.

End QueryAllowancesResponse.


(** ** [MsgClientImpl]

    [rpc] is the transport the class is constructed with: [rpc service method data]
    is what the promise of [this.rpc.request] settles to. *)
Module MsgClientImpl.
Section client.
Context {PB : Protobuf} (rpc : string → string → bytes → result bytes).

Definition GrantAllowance (request : MsgGrantAllowance.t) : result MsgGrantAllowanceResponse.t :=
  w ← MsgGrantAllowance.encode request create;
  data ← rpc "cosmos.feegrant.v1beta1.Msg" "GrantAllowance" (finish w);
  decode_bytes MsgGrantAllowanceResponse.decode data.

Definition RevokeAllowance (request : MsgRevokeAllowance.t) : result MsgRevokeAllowanceResponse.t :=
  data ← rpc "cosmos.feegrant.v1beta1.Msg" "RevokeAllowance"
    (finish (MsgRevokeAllowance.encode request create));
  decode_bytes MsgRevokeAllowanceResponse.decode data.

End client.
End MsgClientImpl.


(** ** [QueryClientImpl]

    [rpc] is the transport the class is constructed with: [rpc service method data]
    is what the promise of [this.rpc.request] settles to. *)
Module QueryClientImpl.
Section client.
Context {PB : Protobuf} (rpc : string → string → bytes → result bytes).

Definition Allowance (request : QueryAllowanceRequest.t) : result QueryAllowanceResponse.t :=
  data ← rpc "cosmos.feegrant.v1beta1.Query" "Allowance"
    (finish (QueryAllowanceRequest.encode request create));
  decode_bytes QueryAllowanceResponse.decode data.

Definition Allowances (request : QueryAllowancesRequest.t) : result QueryAllowancesResponse.t :=
  w ← QueryAllowancesRequest.encode request create;
  data ← rpc "cosmos.feegrant.v1beta1.Query" "Allowances" (finish w);
  decode_bytes QueryAllowancesResponse.decode data.

End client.
End QueryClientImpl.

(** ** The message types of this file *)

Definition messages {PB : Protobuf} {PS : ProtobufSpec PB} : list message_type :=
  [ BasicAllowance.message; PeriodicAllowance.message; AllowedMsgAllowance.message;
   Grant.message; GenesisState.message; MsgGrantAllowance.message;
   MsgGrantAllowanceResponse.message; MsgRevokeAllowance.message;
   MsgRevokeAllowanceResponse.message; QueryAllowanceRequest.message;
   QueryAllowanceResponse.message; QueryAllowancesRequest.message;
   QueryAllowancesResponse.message].

Lemma FeegrantTypes_lawful {PB : Protobuf} {PS : ProtobufSpec PB} : Forall Lawful messages.
Proof. solve_table. Qed.

(** The methods of [MsgClientImpl]. *)
Definition msg_methods {PB : Protobuf} {PS : ProtobufSpec PB} : list rpc_method :=
  [mkMethod "cosmos.feegrant.v1beta1.Msg" "GrantAllowance"
     MsgGrantAllowance.message MsgGrantAllowanceResponse.message
     (fun rpc => MsgClientImpl.GrantAllowance rpc);
   mkMethod "cosmos.feegrant.v1beta1.Msg" "RevokeAllowance"
     MsgRevokeAllowance.message MsgRevokeAllowanceResponse.message
     (fun rpc => MsgClientImpl.RevokeAllowance rpc)].

Lemma FeegrantTypes_msg_methods_lawful {PB : Protobuf} {PS : ProtobufSpec PB} : Forall method_lawful msg_methods.
Proof. solve_methods. Qed.

(** The methods of [QueryClientImpl]. *)
Definition query_methods {PB : Protobuf} {PS : ProtobufSpec PB} : list rpc_method :=
  [mkMethod "cosmos.feegrant.v1beta1.Query" "Allowance"
     QueryAllowanceRequest.message QueryAllowanceResponse.message
     (fun rpc => QueryClientImpl.Allowance rpc);
   mkMethod "cosmos.feegrant.v1beta1.Query" "Allowances"
     QueryAllowancesRequest.message QueryAllowancesResponse.message
     (fun rpc => QueryClientImpl.Allowances rpc)].

Lemma FeegrantTypes_query_methods_lawful {PB : Protobuf} {PS : ProtobufSpec PB} : Forall method_lawful query_methods.
Proof. solve_methods. Qed.
