(* ===== verification/GovTypes.v ===== *)
(** * The messages of the gov module of the Cosmos SDK

    Proposals, deposits and votes: the codecs of
    [cosmos.gov.v1beta1/module/types/cosmos/gov/v1beta1/*.js], with the RPC
    clients of tx.js and query.js. *)
From S2P Require Import Prelude Js Protobuf Codec Calendar Dates Base64 Fallible Proto3 MessageTable CommonTypes CosmosBase.
Open Scope Z_scope.

(** ** [VoteOption] (cosmos/gov/v1beta1/gov.js): an enumeration is a number *)

Module VoteOption.

Definition VOTE_OPTION_UNSPECIFIED : number := 0.
Definition VOTE_OPTION_YES : number := 1.
Definition VOTE_OPTION_ABSTAIN : number := 2.
Definition VOTE_OPTION_NO : number := 3.
Definition VOTE_OPTION_NO_WITH_VETO : number := 4.
Definition UNRECOGNIZED : number := (-1).

End VoteOption.

Definition voteOptionFromJSON (object : js) : result number :=
  Ok (match object with
      | Num (Int 0) => VoteOption.VOTE_OPTION_UNSPECIFIED
      | Num (Int 1) => VoteOption.VOTE_OPTION_YES
      | Num (Int 2) => VoteOption.VOTE_OPTION_ABSTAIN
      | Num (Int 3) => VoteOption.VOTE_OPTION_NO
      | Num (Int 4) => VoteOption.VOTE_OPTION_NO_WITH_VETO
      | Str s =>
          if String.eqb s "VOTE_OPTION_UNSPECIFIED" then VoteOption.VOTE_OPTION_UNSPECIFIED
          else if String.eqb s "VOTE_OPTION_YES" then VoteOption.VOTE_OPTION_YES
          else if String.eqb s "VOTE_OPTION_ABSTAIN" then VoteOption.VOTE_OPTION_ABSTAIN
          else if String.eqb s "VOTE_OPTION_NO" then VoteOption.VOTE_OPTION_NO
          else if String.eqb s "VOTE_OPTION_NO_WITH_VETO" then VoteOption.VOTE_OPTION_NO_WITH_VETO
          else VoteOption.UNRECOGNIZED
      | _ => VoteOption.UNRECOGNIZED
      end).

Definition voteOptionToJSON (object : number) : string :=
  match object with
  | Int 0 => "VOTE_OPTION_UNSPECIFIED"
  | Int 1 => "VOTE_OPTION_YES"
  | Int 2 => "VOTE_OPTION_ABSTAIN"
  | Int 3 => "VOTE_OPTION_NO"
  | Int 4 => "VOTE_OPTION_NO_WITH_VETO"
  | _ => "UNKNOWN"
  end.

(** The numbers that have a name. *)
Definition voteOption_named (n : number) : bool :=
  bool_decide (n ∈ [VoteOption.VOTE_OPTION_UNSPECIFIED;
                    VoteOption.VOTE_OPTION_YES;
                    VoteOption.VOTE_OPTION_ABSTAIN;
                    VoteOption.VOTE_OPTION_NO;
                    VoteOption.VOTE_OPTION_NO_WITH_VETO;
                    VoteOption.UNRECOGNIZED]).

(** What is read back of a number. *)
Definition voteOption_known (n : number) : number :=
  if voteOption_named n then n else VoteOption.UNRECOGNIZED.

Lemma voteOption_json n : voteOptionFromJSON (Str (voteOptionToJSON n)) = Ok (voteOption_known n).
Proof. solve_enum n voteOption_named voteOption_known voteOptionToJSON. Qed.

Lemma voteOption_member n : voteOption_named n = true → voteOption_known n = n.
Proof. intros H. unfold voteOption_known. by rewrite H. Qed.

Arguments voteOptionFromJSON : simpl never.

#[export] Hint Rewrite voteOption_json : named.
#[export] Hint Rewrite voteOption_member using assumption : member.

(** ** [ProposalStatus] (cosmos/gov/v1beta1/gov.js): an enumeration is a number *)

Module ProposalStatus.

Definition PROPOSAL_STATUS_UNSPECIFIED : number := 0.
Definition PROPOSAL_STATUS_DEPOSIT_PERIOD : number := 1.
Definition PROPOSAL_STATUS_VOTING_PERIOD : number := 2.
Definition PROPOSAL_STATUS_PASSED : number := 3.
Definition PROPOSAL_STATUS_REJECTED : number := 4.
Definition PROPOSAL_STATUS_FAILED : number := 5.
Definition UNRECOGNIZED : number := (-1).

End ProposalStatus.

Definition proposalStatusFromJSON (object : js) : result number :=
  Ok (match object with
      | Num (Int 0) => ProposalStatus.PROPOSAL_STATUS_UNSPECIFIED
      | Num (Int 1) => ProposalStatus.PROPOSAL_STATUS_DEPOSIT_PERIOD
      | Num (Int 2) => ProposalStatus.PROPOSAL_STATUS_VOTING_PERIOD
      | Num (Int 3) => ProposalStatus.PROPOSAL_STATUS_PASSED
      | Num (Int 4) => ProposalStatus.PROPOSAL_STATUS_REJECTED
      | Num (Int 5) => ProposalStatus.PROPOSAL_STATUS_FAILED
      | Str s =>
          if String.eqb s "PROPOSAL_STATUS_UNSPECIFIED" then ProposalStatus.PROPOSAL_STATUS_UNSPECIFIED
          else if String.eqb s "PROPOSAL_STATUS_DEPOSIT_PERIOD" then ProposalStatus.PROPOSAL_STATUS_DEPOSIT_PERIOD
          else if String.eqb s "PROPOSAL_STATUS_VOTING_PERIOD" then ProposalStatus.PROPOSAL_STATUS_VOTING_PERIOD
          else if String.eqb s "PROPOSAL_STATUS_PASSED" then ProposalStatus.PROPOSAL_STATUS_PASSED
          else if String.eqb s "PROPOSAL_STATUS_REJECTED" then ProposalStatus.PROPOSAL_STATUS_REJECTED
          else if String.eqb s "PROPOSAL_STATUS_FAILED" then ProposalStatus.PROPOSAL_STATUS_FAILED
          else ProposalStatus.UNRECOGNIZED
      | _ => ProposalStatus.UNRECOGNIZED
      end).

Definition proposalStatusToJSON (object : number) : string :=
  match object with
  | Int 0 => "PROPOSAL_STATUS_UNSPECIFIED"
  | Int 1 => "PROPOSAL_STATUS_DEPOSIT_PERIOD"
  | Int 2 => "PROPOSAL_STATUS_VOTING_PERIOD"
  | Int 3 => "PROPOSAL_STATUS_PASSED"
  | Int 4 => "PROPOSAL_STATUS_REJECTED"
  | Int 5 => "PROPOSAL_STATUS_FAILED"
  | _ => "UNKNOWN"
  end.

(** The numbers that have a name. *)
Definition proposalStatus_named (n : number) : bool :=
  bool_decide (n ∈ [ProposalStatus.PROPOSAL_STATUS_UNSPECIFIED;
                    ProposalStatus.PROPOSAL_STATUS_DEPOSIT_PERIOD;
                    ProposalStatus.PROPOSAL_STATUS_VOTING_PERIOD;
                    ProposalStatus.PROPOSAL_STATUS_PASSED;
                    ProposalStatus.PROPOSAL_STATUS_REJECTED;
                    ProposalStatus.PROPOSAL_STATUS_FAILED;
                    ProposalStatus.UNRECOGNIZED]).

(** What is read back of a number. *)
Definition proposalStatus_known (n : number) : number :=
  if proposalStatus_named n then n else ProposalStatus.UNRECOGNIZED.

Lemma proposalStatus_json n : proposalStatusFromJSON (Str (proposalStatusToJSON n)) = Ok (proposalStatus_known n).
Proof. solve_enum n proposalStatus_named proposalStatus_known proposalStatusToJSON. Qed.

Lemma proposalStatus_member n : proposalStatus_named n = true → proposalStatus_known n = n.
Proof. intros H. unfold proposalStatus_known. by rewrite H. Qed.

Arguments proposalStatusFromJSON : simpl never.

#[export] Hint Rewrite proposalStatus_json : named.
#[export] Hint Rewrite proposalStatus_member using assumption : member.

(** ** [WeightedVoteOption] (cosmos/gov/v1beta1/gov.js) *)

Module WeightedVoteOption.

Record t := mk {
  option_ : number;
  weight : string;
}.

#[global] Instance t_eta : Settable t := λ m, mk m.(option_) m.(weight).

Definition base : t := mk 0 "".

Definition encode {PB : Protobuf} (message : t) (writer : Writer) : result Writer :=
  Ok writer
  @>= pure (when (num_neq message.(option_) 0) (fun w => w @> uint32 8 @> int32 message.(option_)))
  @>= pure (when (str_neq message.(weight) "") (fun w => w @> uint32 18 @> string_ message.(weight))).

Definition decode_field {PB : Protobuf} (tag : Z) (message : t) : RM t :=
  match field_number tag with
  | 1 => v ← read_int32; mret (message <| option_ := Int v |>)
  | 2 => v ← read_string; mret (message <| weight := v |>)
  | _ => _ ← skipType (wire_type tag); mret message
  end.

Definition decode {PB : Protobuf} (length : option Z) : RM t :=
  decode_message length base decode_field.

Definition fromJSON (object : js) : result t :=
  option_' ← field_or object "option" voteOptionFromJSON 0;
  weight' ← field_or object "weight" to_string "";
  Ok (mk option_' weight').

Definition toJSON (message : t) : js :=
  Obj ([("option", Str (voteOptionToJSON message.(option_)));
    ("weight", Str message.(weight))]).

Record partial := mkPartial {
  p_option : option number;
  p_weight : option string;
}.

Definition fromPartial (object : partial) : t := {|
  option_ := object.(p_option) ?? Int 0;
  weight := object.(p_weight) ?? "";
|}.

(** The object with no property given. *)
Definition nothing : partial := mkPartial None None.

(** The bytes [encode] writes. *)
Definition wire {PB : Protobuf} {PS : ProtobufSpec PB} (m : t) : bytes :=
  f_number e_int32 8 m.(option_) ++
  f_string 18 m.(weight).

Definition valid (m : t) : Prop :=
  int32_ok m.(option_).

(** The byte fields hold arrays, as the interface declares. *)
Definition typed (m : t) : bool := true.

(** The message without its empty byte arrays. *)
Definition normal (m : t) : t := {|
  option_ := m.(option_);
  weight := m.(weight);
|}.

(** The enumeration fields hold members. *)
Definition named (m : t) : bool := voteOption_named m.(option_).

(** The message with the numbers [toJSON] does not know replaced. *)
Definition known (m : t) : t := {|
  option_ := voteOption_known m.(option_);
  weight := m.(weight);
|}.

Definition encodable {PB : Protobuf} {PS : ProtobufSpec PB} (m : t) : Prop :=
  typed m = true ∧ valid m ∧ small (wire m).

Definition merge (m a : t) : t := {|
  option_ := later_number m.(option_) a.(option_);
  weight := later_string m.(weight) a.(weight);
|}.

(** A whole message seen as a partial one. *)
Definition full (m : t) : partial := {|
  p_option := Some m.(option_);
  p_weight := Some m.(weight);
|}.

(** The message as its schema declares it. *)
Definition schema (m : t) : list field :=
  [implicit 1 (VInt Int32 m.(option_));
   implicit 2 (VString m.(weight))].

(** The message with its default for every property that is not kept. *)
Definition only (kept : string → bool) (m : t) : t := {|
  option_ := if kept "option" then m.(option_) else Int 0;
  weight := if kept "weight" then m.(weight) else "";
|}.

#[global] Instance codec {PB : Protobuf} : FallibleCodec t :=
  {| fmsg_base := base; fmsg_encode := encode; fmsg_field := decode_field |}.

#[global] Program Instance spec {PB : Protobuf} (PS : ProtobufSpec PB) : FallibleSpec PS t :=
  {| fmsg_wire := wire; fmsg_valid := valid; fmsg_typed := typed; fmsg_normal := normal;
     fmsg_merge := merge |}.
Next Obligation. solve_fencode_wire. Qed.
Next Obligation. intros. solve_fencode_throws encode typed. Qed.
Next Obligation. solve_fdecode_wire. Qed.
Next Obligation. solve_fmerge_base. Qed.
Next Obligation. intros. solve_fadvances decode_field. Qed.

#[global] Program Instance given_ : FalliblePartial t partial :=
  {| fmsg_fromPartial := fromPartial; fmsg_full := full; fmsg_given := typed |}.
Next Obligation. solve_fgiven fromPartial typed. Qed.
Next Obligation. solve_fpartial fromPartial full typed. Qed.

#[global] Program Instance json : FallibleJson t :=
  {| fmsg_fromJSON := fromJSON; fmsg_toJSON := toJSON;
     fmsg_named := named; fmsg_known := known |}.
Next Obligation. solve_fjson fromJSON toJSON. Qed.
Next Obligation. solve_known named known. Qed.

#[global] Instance schema_wire {PB : Protobuf} {PS : ProtobufSpec PB} : WireSchema wire schema.
Proof. solve_schema_wire wire schema. Qed.

#[global] Instance schema_normal : NormalSchema normal schema.
Proof. solve_schema_normal normal schema. Qed.

#[global] Instance schema_merge : MergeSchema merge schema.
Proof. solve_schema_merge merge schema. Qed.

(** Its row in the table of message types. *)
Definition message {PB : Protobuf} {PS : ProtobufSpec PB} : message_type :=
  fallible_message "WeightedVoteOption" nothing true schema only.

#[global] Instance message_lawful {PB : Protobuf} (PS : ProtobufSpec PB) : Lawful message.
Proof. solve_lawful decode_field fromJSON only. Qed.

End WeightedVoteOption.

(** ** [TextProposal] (cosmos/gov/v1beta1/gov.js) *)

Module TextProposal.

Record t := mk {
  title : string;
  description : string;
}.

#[global] Instance t_eta : Settable t := λ m, mk m.(title) m.(description).

Definition base : t := mk "" "".

Definition encode {PB : Protobuf} (message : t) (writer : Writer) : Writer :=
  writer
  @> when (str_neq message.(title) "") (fun w => w @> uint32 10 @> string_ message.(title))
  @> when (str_neq message.(description) "")
       (fun w => w @> uint32 18 @> string_ message.(description)).

Definition decode_field {PB : Protobuf} (tag : Z) (message : t) : RM t :=
  match field_number tag with
  | 1 => v ← read_string; mret (message <| title := v |>)
  | 2 => v ← read_string; mret (message <| description := v |>)
  | _ => _ ← skipType (wire_type tag); mret message
  end.

Definition decode {PB : Protobuf} (length : option Z) : RM t :=
  decode_message length base decode_field.

Definition fromJSON (object : js) : result t :=
  title' ← field_or object "title" to_string "";
  description' ← field_or object "description" to_string "";
  Ok (mk title' description').

Definition toJSON (message : t) : js :=
  Obj ([("title", Str message.(title));
    ("description", Str message.(description))]).

Record partial := mkPartial {
  p_title : option string;
  p_description : option string;
}.

Definition fromPartial (object : partial) : t := {|
  title := object.(p_title) ?? "";
  description := object.(p_description) ?? "";
|}.

(** The object with no property given. *)
Definition nothing : partial := mkPartial None None.

(** The bytes [encode] writes. *)
Definition wire {PB : Protobuf} {PS : ProtobufSpec PB} (m : t) : bytes :=
  f_string 10 m.(title) ++
  f_string 18 m.(description).

Definition valid (m : t) : Prop :=
  True.

Definition encodable {PB : Protobuf} {PS : ProtobufSpec PB} (m : t) : Prop :=
  valid m ∧ small (wire m).

Definition merge (m a : t) : t := {|
  title := later_string m.(title) a.(title);
  description := later_string m.(description) a.(description);
|}.

(** A whole message seen as a partial one. *)
Definition full (m : t) : partial := {|
  p_title := Some m.(title);
  p_description := Some m.(description);
|}.

(** The message as its schema declares it. *)
Definition schema (m : t) : list field :=
  [implicit 1 (VString m.(title));
   implicit 2 (VString m.(description))].

(** The message with its default for every property that is not kept. *)
Definition only (kept : string → bool) (m : t) : t := {|
  title := if kept "title" then m.(title) else "";
  description := if kept "description" then m.(description) else "";
|}.

#[global] Instance codec {PB : Protobuf} : MessageCodec t :=
  {| msg_base := base; msg_encode := encode; msg_field := decode_field |}.

#[global] Program Instance spec {PB : Protobuf} (PS : ProtobufSpec PB) : MessageSpec PS t :=
  {| msg_wire := wire; msg_valid := valid; msg_merge := merge |}.
Next Obligation. solve_encode_wire. Qed.
Next Obligation. solve_decode_wire. Qed.
Next Obligation. solve_merge_base. Qed.
Next Obligation. intros. solve_advances decode_field. Qed.

#[global] Program Instance data : MessageData t partial :=
  {| msg_fromJSON := fromJSON; msg_toJSON := toJSON;
     msg_fromPartial := fromPartial; msg_full := full |}.
Next Obligation. solve_json fromJSON toJSON. Qed.
Next Obligation. solve_partial fromPartial full. Qed.

#[global] Instance schema_wire {PB : Protobuf} {PS : ProtobufSpec PB} : WireSchema wire schema.
Proof. solve_schema_wire wire schema. Qed.

#[global] Instance schema_merge : MergeSchema merge schema.
Proof. solve_schema_merge merge schema. Qed.

(** Its row in the table of message types. *)
Definition message {PB : Protobuf} {PS : ProtobufSpec PB} : message_type :=
  plain_message "TextProposal" nothing true schema only.

#[global] Instance message_lawful {PB : Protobuf} (PS : ProtobufSpec PB) : Lawful message.
Proof. solve_lawful decode_field fromJSON only. Qed.

End TextProposal.

(** ** [Deposit] (cosmos/gov/v1beta1/gov.js) *)

Module Deposit.

Record t := mk {
  proposalId : number;
  depositor : string;
  amount : list Coin.t;
}.

#[global] Instance t_eta : Settable t := λ m, mk m.(proposalId) m.(depositor) m.(amount).

Definition base : t := mk 0 "" [].

Definition encode {PB : Protobuf} (message : t) (writer : Writer) : Writer :=
  writer
  @> when (num_neq message.(proposalId) 0) (fun w => w @> uint32 8 @> uint64 message.(proposalId))
  @> when (str_neq message.(depositor) "") (fun w => w @> uint32 18 @> string_ message.(depositor))
  @> each message.(amount) (fun v w => w @> uint32 26 @> fork @> Coin.encode v @> ldelim).

Definition decode_field {PB : Protobuf} (tag : Z) (message : t) : RM t :=
  match field_number tag with
  | 1 => v ← read_number read_uint64; mret (message <| proposalId := v |>)
  | 2 => v ← read_string; mret (message <| depositor := v |>)
  | 3 => v ← read_nested Coin.decode; mret (message <| amount := message.(amount) ++ [v] |>)
  | _ => _ ← skipType (wire_type tag); mret message
  end.

Definition decode {PB : Protobuf} (length : option Z) : RM t :=
  decode_message length base decode_field.

Definition fromJSON (object : js) : result t :=
  proposalId' ← field_or object "proposalId" js_Number 0;
  depositor' ← field_or object "depositor" to_string "";
  amount' ← field_or object "amount" (to_list Coin.fromJSON) [];
  Ok (mk proposalId' depositor' amount').

Definition toJSON (message : t) : js :=
  Obj ([("proposalId", Num message.(proposalId));
    ("depositor", Str message.(depositor));
    ("amount", Arr (map Coin.toJSON message.(amount)))]).

Record partial := mkPartial {
  p_proposalId : option number;
  p_depositor : option string;
  p_amount : option (list Coin.partial);
}.

Definition fromPartial (object : partial) : t := {|
  proposalId := object.(p_proposalId) ?? Int 0;
  depositor := object.(p_depositor) ?? "";
  amount := map Coin.fromPartial (object.(p_amount) ?? []);
|}.

(** The object with no property given. *)
Definition nothing : partial := mkPartial None None None.

(** The bytes [encode] writes. *)
Definition wire {PB : Protobuf} {PS : ProtobufSpec PB} (m : t) : bytes :=
  f_number e_uint64 8 m.(proposalId) ++
  f_string 18 m.(depositor) ++
  f_repeated 26 Coin.wire m.(amount).

Definition valid (m : t) : Prop :=
  uint64_ok m.(proposalId) ∧ Forall Coin.valid m.(amount).

Definition encodable {PB : Protobuf} {PS : ProtobufSpec PB} (m : t) : Prop :=
  valid m ∧ small (wire m).

Definition merge (m a : t) : t := {|
  proposalId := later_number m.(proposalId) a.(proposalId);
  depositor := later_string m.(depositor) a.(depositor);
  amount := m.(amount) ++ a.(amount);
|}.

(** A whole message seen as a partial one. *)
Definition full (m : t) : partial := {|
  p_proposalId := Some m.(proposalId);
  p_depositor := Some m.(depositor);
  p_amount := Some (map Coin.full m.(amount));
|}.

(** The message as its schema declares it. *)
Definition schema (m : t) : list field :=
  [implicit 1 (VInt Uint64 m.(proposalId));
   implicit 2 (VString m.(depositor));
   repeated 3 (message_value Coin.schema) m.(amount)].

(** The message with its default for every property that is not kept. *)
Definition only (kept : string → bool) (m : t) : t := {|
  proposalId := if kept "proposalId" then m.(proposalId) else Int 0;
  depositor := if kept "depositor" then m.(depositor) else "";
  amount := if kept "amount" then m.(amount) else [];
|}.

#[global] Instance codec {PB : Protobuf} : MessageCodec t :=
  {| msg_base := base; msg_encode := encode; msg_field := decode_field |}.

#[global] Program Instance spec {PB : Protobuf} (PS : ProtobufSpec PB) : MessageSpec PS t :=
  {| msg_wire := wire; msg_valid := valid; msg_merge := merge |}.
Next Obligation. solve_encode_wire. Qed.
Next Obligation. solve_decode_wire. Qed.
Next Obligation. solve_merge_base. Qed.
Next Obligation. intros. solve_advances decode_field. Qed.

#[global] Program Instance data : MessageData t partial :=
  {| msg_fromJSON := fromJSON; msg_toJSON := toJSON;
     msg_fromPartial := fromPartial; msg_full := full |}.
Next Obligation. solve_json fromJSON toJSON. Qed.
Next Obligation. solve_partial fromPartial full. Qed.

#[global] Instance schema_wire {PB : Protobuf} {PS : ProtobufSpec PB} : WireSchema wire schema.
Proof. solve_schema_wire wire schema. Qed.

#[global] Instance schema_merge : MergeSchema merge schema.
Proof. solve_schema_merge merge schema. Qed.

(** Its row in the table of message types. *)
Definition message {PB : Protobuf} {PS : ProtobufSpec PB} : message_type :=
  plain_message "Deposit" nothing true schema only.

#[global] Instance message_lawful {PB : Protobuf} (PS : ProtobufSpec PB) : Lawful message.
Proof. solve_lawful decode_field fromJSON only. Qed.

End Deposit.

(** ** [TallyResult] (cosmos/gov/v1beta1/gov.js) *)

Module TallyResult.

Record t := mk {
  yes : string;
  abstain : string;
  no : string;
  noWithVeto : string;
}.

#[global] Instance t_eta : Settable t := λ m, mk m.(yes) m.(abstain) m.(no) m.(noWithVeto).

Definition base : t := mk "" "" "" "".

Definition encode {PB : Protobuf} (message : t) (writer : Writer) : Writer :=
  writer
  @> when (str_neq message.(yes) "") (fun w => w @> uint32 10 @> string_ message.(yes))
  @> when (str_neq message.(abstain) "") (fun w => w @> uint32 18 @> string_ message.(abstain))
  @> when (str_neq message.(no) "") (fun w => w @> uint32 26 @> string_ message.(no))
  @> when (str_neq message.(noWithVeto) "")
       (fun w => w @> uint32 34 @> string_ message.(noWithVeto)).

Definition decode_field {PB : Protobuf} (tag : Z) (message : t) : RM t :=
  match field_number tag with
  | 1 => v ← read_string; mret (message <| yes := v |>)
  | 2 => v ← read_string; mret (message <| abstain := v |>)
  | 3 => v ← read_string; mret (message <| no := v |>)
  | 4 => v ← read_string; mret (message <| noWithVeto := v |>)
  | _ => _ ← skipType (wire_type tag); mret message
  end.

Definition decode {PB : Protobuf} (length : option Z) : RM t :=
  decode_message length base decode_field.

Definition fromJSON (object : js) : result t :=
  yes' ← field_or object "yes" to_string "";
  abstain' ← field_or object "abstain" to_string "";
  no' ← field_or object "no" to_string "";
  noWithVeto' ← field_or object "noWithVeto" to_string "";
  Ok (mk yes' abstain' no' noWithVeto').

Definition toJSON (message : t) : js :=
  Obj ([("yes", Str message.(yes));
    ("abstain", Str message.(abstain));
    ("no", Str message.(no));
    ("noWithVeto", Str message.(noWithVeto))]).

Record partial := mkPartial {
  p_yes : option string;
  p_abstain : option string;
  p_no : option string;
  p_noWithVeto : option string;
}.

Definition fromPartial (object : partial) : t := {|
  yes := object.(p_yes) ?? "";
  abstain := object.(p_abstain) ?? "";
  no := object.(p_no) ?? "";
  noWithVeto := object.(p_noWithVeto) ?? "";
|}.

(** The object with no property given. *)
Definition nothing : partial := mkPartial None None None None.

(** The bytes [encode] writes. *)
Definition wire {PB : Protobuf} {PS : ProtobufSpec PB} (m : t) : bytes :=
  f_string 10 m.(yes) ++
  f_string 18 m.(abstain) ++
  f_string 26 m.(no) ++
  f_string 34 m.(noWithVeto).

Definition valid (m : t) : Prop :=
  True.

Definition encodable {PB : Protobuf} {PS : ProtobufSpec PB} (m : t) : Prop :=
  valid m ∧ small (wire m).

Definition merge (m a : t) : t := {|
  yes := later_string m.(yes) a.(yes);
  abstain := later_string m.(abstain) a.(abstain);
  no := later_string m.(no) a.(no);
  noWithVeto := later_string m.(noWithVeto) a.(noWithVeto);
|}.

(** A whole message seen as a partial one. *)
Definition full (m : t) : partial := {|
  p_yes := Some m.(yes);
  p_abstain := Some m.(abstain);
  p_no := Some m.(no);
  p_noWithVeto := Some m.(noWithVeto);
|}.

(** The message as its schema declares it. *)
Definition schema (m : t) : list field :=
  [implicit 1 (VString m.(yes));
   implicit 2 (VString m.(abstain));
   implicit 3 (VString m.(no));
   implicit 4 (VString m.(noWithVeto))].

(** The message with its default for every property that is not kept. *)
Definition only (kept : string → bool) (m : t) : t := {|
  yes := if kept "yes" then m.(yes) else "";
  abstain := if kept "abstain" then m.(abstain) else "";
  no := if kept "no" then m.(no) else "";
  noWithVeto := if kept "noWithVeto" then m.(noWithVeto) else "";
|}.

#[global] Instance codec {PB : Protobuf} : MessageCodec t :=
  {| msg_base := base; msg_encode := encode; msg_field := decode_field |}.

#[global] Program Instance spec {PB : Protobuf} (PS : ProtobufSpec PB) : MessageSpec PS t :=
  {| msg_wire := wire; msg_valid := valid; msg_merge := merge |}.
Next Obligation. solve_encode_wire. Qed.
Next Obligation. solve_decode_wire. Qed.
Next Obligation. solve_merge_base. Qed.
Next Obligation. intros. solve_advances decode_field. Qed.

#[global] Program Instance data : MessageData t partial :=
  {| msg_fromJSON := fromJSON; msg_toJSON := toJSON;
     msg_fromPartial := fromPartial; msg_full := full |}.
Next Obligation. solve_json fromJSON toJSON. Qed.
Next Obligation. solve_partial fromPartial full. Qed.

#[global] Instance schema_wire {PB : Protobuf} {PS : ProtobufSpec PB} : WireSchema wire schema.
Proof. solve_schema_wire wire schema. Qed.

#[global] Instance schema_merge : MergeSchema merge schema.
Proof. solve_schema_merge merge schema. Qed.

(** Its row in the table of message types. *)
Definition message {PB : Protobuf} {PS : ProtobufSpec PB} : message_type :=
  plain_message "TallyResult" nothing true schema only.

#[global] Instance message_lawful {PB : Protobuf} (PS : ProtobufSpec PB) : Lawful message.
Proof. solve_lawful decode_field fromJSON only. Qed.

End TallyResult.

(** ** [Proposal] (cosmos/gov/v1beta1/gov.js) *)

Module Proposal.

Record t := mk {
  proposalId : number;
  content : option Any.t;
  status : number;
  finalTallyResult : option TallyResult.t;
  submitTime : option date;
  depositEndTime : option date;
  totalDeposit : list Coin.t;
  votingStartTime : option date;
  votingEndTime : option date;
}.

#[global] Instance t_eta : Settable t := λ m, mk m.(proposalId) m.(content) m.(status)
  m.(finalTallyResult) m.(submitTime) m.(depositEndTime) m.(totalDeposit) m.(votingStartTime)
  m.(votingEndTime).

Definition base : t := mk 0 None 0 None None None [] None None.

Definition encode {PB : Protobuf} (message : t) (writer : Writer) : result Writer :=
  Ok writer
  @>= pure (when (num_neq message.(proposalId) 0)
       (fun w => w @> uint32 8 @> uint64 message.(proposalId)))
  @>= defined_e message.(content) (submessage 18 Any.encode)
  @>= pure (when (num_neq message.(status) 0) (fun w => w @> uint32 24 @> int32 message.(status)))
  @>= pure (defined message.(finalTallyResult) (fun v w => w @> uint32 34 @> fork @> TallyResult.encode v @> ldelim))
  @>= pure (defined message.(submitTime) (fun v w => w @> uint32 42 @> fork @> encode_time v @> ldelim))
  @>= pure (defined message.(depositEndTime) (fun v w => w @> uint32 50 @> fork @> encode_time v @> ldelim))
  @>= pure (each message.(totalDeposit) (fun v w => w @> uint32 58 @> fork @> Coin.encode v @> ldelim))
  @>= pure (defined message.(votingStartTime) (fun v w => w @> uint32 66 @> fork @> encode_time v @> ldelim))
  @>= pure (defined message.(votingEndTime) (fun v w => w @> uint32 74 @> fork @> encode_time v @> ldelim)).

Definition decode_field {PB : Protobuf} (tag : Z) (message : t) : RM t :=
  match field_number tag with
  | 1 => v ← read_number read_uint64; mret (message <| proposalId := v |>)
  | 2 => v ← read_nested Any.decode; mret (message <| content := Some v |>)
  | 3 => v ← read_int32; mret (message <| status := Int v |>)
  | 4 => v ← read_nested TallyResult.decode; mret (message <| finalTallyResult := Some v |>)
  | 5 => v ← read_time; mret (message <| submitTime := Some v |>)
  | 6 => v ← read_time; mret (message <| depositEndTime := Some v |>)
  | 7 => v ← read_nested Coin.decode;
         mret (message <| totalDeposit := message.(totalDeposit) ++ [v] |>)
  | 8 => v ← read_time; mret (message <| votingStartTime := Some v |>)
  | 9 => v ← read_time; mret (message <| votingEndTime := Some v |>)
  | _ => _ ← skipType (wire_type tag); mret message
  end.

Definition decode {PB : Protobuf} (length : option Z) : RM t :=
  decode_message length base decode_field.

Definition fromJSON (object : js) : result t :=
  proposalId' ← field_or object "proposalId" js_Number 0;
  content' ← field_or object "content" (to_some Any.fromJSON) None;
  status' ← field_or object "status" proposalStatusFromJSON 0;
  finalTallyResult' ← field_or object "finalTallyResult" (to_some TallyResult.fromJSON) None;
  submitTime' ← field_or object "submitTime" (to_some fromJsonTimestamp) None;
  depositEndTime' ← field_or object "depositEndTime" (to_some fromJsonTimestamp) None;
  totalDeposit' ← field_or object "totalDeposit" (to_list Coin.fromJSON) [];
  votingStartTime' ← field_or object "votingStartTime" (to_some fromJsonTimestamp) None;
  votingEndTime' ← field_or object "votingEndTime" (to_some fromJsonTimestamp) None;
  Ok (mk proposalId' content' status' finalTallyResult' submitTime' depositEndTime'
    totalDeposit' votingStartTime' votingEndTime').

Definition toJSON (message : t) : result js :=
  submitTime' ← option_result toISOString message.(submitTime);
  depositEndTime' ← option_result toISOString message.(depositEndTime);
  votingStartTime' ← option_result toISOString message.(votingStartTime);
  votingEndTime' ← option_result toISOString message.(votingEndTime);
  Ok (Obj ([("proposalId", Num message.(proposalId))] ++
   prop_opt "content" Any.toJSON message.(content) ++
   [("status", Str (proposalStatusToJSON message.(status)))] ++
   prop_opt "finalTallyResult" TallyResult.toJSON message.(finalTallyResult) ++
   prop_opt "submitTime" Str submitTime' ++
   prop_opt "depositEndTime" Str depositEndTime' ++
   [("totalDeposit", Arr (map Coin.toJSON message.(totalDeposit)))] ++
   prop_opt "votingStartTime" Str votingStartTime' ++
   prop_opt "votingEndTime" Str votingEndTime')).

Record partial := mkPartial {
  p_proposalId : option number;
  p_content : option Any.partial;
  p_status : option number;
  p_finalTallyResult : option TallyResult.partial;
  p_submitTime : option date;
  p_depositEndTime : option date;
  p_totalDeposit : option (list Coin.partial);
  p_votingStartTime : option date;
  p_votingEndTime : option date;
}.

Definition fromPartial (object : partial) : t := {|
  proposalId := object.(p_proposalId) ?? Int 0;
  content := Any.fromPartial <$> object.(p_content);
  status := object.(p_status) ?? Int 0;
  finalTallyResult := TallyResult.fromPartial <$> object.(p_finalTallyResult);
  submitTime := object.(p_submitTime);
  depositEndTime := object.(p_depositEndTime);
  totalDeposit := map Coin.fromPartial (object.(p_totalDeposit) ?? []);
  votingStartTime := object.(p_votingStartTime);
  votingEndTime := object.(p_votingEndTime);
|}.

(** The object with no property given. *)
Definition nothing : partial := mkPartial None None None None None None None None None.

(** The bytes [encode] writes. *)
Definition wire {PB : Protobuf} {PS : ProtobufSpec PB} (m : t) : bytes :=
  f_number e_uint64 8 m.(proposalId) ++
  f_message 18 Any.wire m.(content) ++
  f_number e_int32 24 m.(status) ++
  f_message 34 TallyResult.wire m.(finalTallyResult) ++
  f_message 42 wire_time m.(submitTime) ++
  f_message 50 wire_time m.(depositEndTime) ++
  f_repeated 58 Coin.wire m.(totalDeposit) ++
  f_message 66 wire_time m.(votingStartTime) ++
  f_message 74 wire_time m.(votingEndTime).

Definition valid (m : t) : Prop :=
  uint64_ok m.(proposalId) ∧ from_option Any.valid True m.(content) ∧ int32_ok m.(status) ∧ from_option TallyResult.valid True m.(finalTallyResult) ∧ from_option date_ok True m.(submitTime) ∧ from_option date_ok True m.(depositEndTime) ∧ Forall Coin.valid m.(totalDeposit) ∧ from_option date_ok True m.(votingStartTime) ∧ from_option date_ok True m.(votingEndTime).

(** The byte fields hold arrays, as the interface declares. *)
Definition typed (m : t) : bool := from_option Any.typed true m.(content).

(** The message without its empty byte arrays. *)
Definition normal (m : t) : t := {|
  proposalId := m.(proposalId);
  content := Any.normal <$> m.(content);
  status := m.(status);
  finalTallyResult := m.(finalTallyResult);
  submitTime := m.(submitTime);
  depositEndTime := m.(depositEndTime);
  totalDeposit := m.(totalDeposit);
  votingStartTime := m.(votingStartTime);
  votingEndTime := m.(votingEndTime);
|}.

(** The dates are valid. *)
Definition timed (m : t) : bool := from_option date_valid true m.(submitTime) && from_option date_valid true m.(depositEndTime) && from_option date_valid true m.(votingStartTime) && from_option date_valid true m.(votingEndTime).

(** The enumeration fields hold members. *)
Definition named (m : t) : bool := proposalStatus_named m.(status).

(** The message with the numbers [toJSON] does not know replaced. *)
Definition known (m : t) : t := {|
  proposalId := m.(proposalId);
  content := m.(content);
  status := proposalStatus_known m.(status);
  finalTallyResult := m.(finalTallyResult);
  submitTime := m.(submitTime);
  depositEndTime := m.(depositEndTime);
  totalDeposit := m.(totalDeposit);
  votingStartTime := m.(votingStartTime);
  votingEndTime := m.(votingEndTime);
|}.

Definition encodable {PB : Protobuf} {PS : ProtobufSpec PB} (m : t) : Prop :=
  typed m = true ∧ valid m ∧ small (wire m).

Definition merge (m a : t) : t := {|
  proposalId := later_number m.(proposalId) a.(proposalId);
  content := later_message m.(content) (Any.normal <$> a.(content));
  status := later_number m.(status) a.(status);
  finalTallyResult := later_message m.(finalTallyResult) a.(finalTallyResult);
  submitTime := later_message m.(submitTime) a.(submitTime);
  depositEndTime := later_message m.(depositEndTime) a.(depositEndTime);
  totalDeposit := m.(totalDeposit) ++ a.(totalDeposit);
  votingStartTime := later_message m.(votingStartTime) a.(votingStartTime);
  votingEndTime := later_message m.(votingEndTime) a.(votingEndTime);
|}.

(** A whole message seen as a partial one. *)
Definition full (m : t) : partial := {|
  p_proposalId := Some m.(proposalId);
  p_content := Any.full <$> m.(content);
  p_status := Some m.(status);
  p_finalTallyResult := TallyResult.full <$> m.(finalTallyResult);
  p_submitTime := m.(submitTime);
  p_depositEndTime := m.(depositEndTime);
  p_totalDeposit := Some (map Coin.full m.(totalDeposit));
  p_votingStartTime := m.(votingStartTime);
  p_votingEndTime := m.(votingEndTime);
|}.

(** The message as its schema declares it. *)
Definition schema (m : t) : list field :=
  [implicit 1 (VInt Uint64 m.(proposalId));
   singular 2 Optional (message_value Any.schema) m.(content);
   implicit 3 (VInt Int32 m.(status));
   singular 4 Optional (message_value TallyResult.schema) m.(finalTallyResult);
   singular 5 Stamp timestamp_value m.(submitTime);
   singular 6 Stamp timestamp_value m.(depositEndTime);
   repeated 7 (message_value Coin.schema) m.(totalDeposit);
   singular 8 Stamp timestamp_value m.(votingStartTime);
   singular 9 Stamp timestamp_value m.(votingEndTime)].

(** The message with its default for every property that is not kept. *)
Definition only (kept : string → bool) (m : t) : t := {|
  proposalId := if kept "proposalId" then m.(proposalId) else Int 0;
  content := if kept "content" then m.(content) else None;
  status := if kept "status" then m.(status) else Int 0;
  finalTallyResult := if kept "finalTallyResult" then m.(finalTallyResult) else None;
  submitTime := if kept "submitTime" then m.(submitTime) else None;
  depositEndTime := if kept "depositEndTime" then m.(depositEndTime) else None;
  totalDeposit := if kept "totalDeposit" then m.(totalDeposit) else [];
  votingStartTime := if kept "votingStartTime" then m.(votingStartTime) else None;
  votingEndTime := if kept "votingEndTime" then m.(votingEndTime) else None;
|}.

#[global] Instance codec {PB : Protobuf} : FallibleCodec t :=
  {| fmsg_base := base; fmsg_encode := encode; fmsg_field := decode_field |}.

#[global] Program Instance spec {PB : Protobuf} (PS : ProtobufSpec PB) : FallibleSpec PS t :=
  {| fmsg_wire := wire; fmsg_valid := valid; fmsg_typed := typed; fmsg_normal := normal;
     fmsg_merge := merge |}.
Next Obligation. solve_fencode_wire. Qed.
Next Obligation. intros. solve_fencode_throws encode typed. Qed.
Next Obligation. solve_fdecode_wire. Qed.
Next Obligation. solve_fmerge_base. Qed.
Next Obligation. intros. solve_fadvances decode_field. Qed.

#[global] Program Instance given_ : FalliblePartial t partial :=
  {| fmsg_fromPartial := fromPartial; fmsg_full := full; fmsg_given := typed |}.
Next Obligation. solve_fgiven fromPartial typed. Qed.
Next Obligation. solve_fpartial fromPartial full typed. Qed.

#[global] Program Instance json : DatedJson t :=
  {| dmsg_fromJSON := fromJSON; dmsg_toJSON := toJSON; dmsg_timed := timed;
     dmsg_named := named; dmsg_known := known |}.
Next Obligation. solve_djson fromJSON toJSON timed. Qed.
Next Obligation. solve_dthrows toJSON timed. Qed.
Next Obligation. solve_known named known. Qed.

#[global] Instance schema_wire {PB : Protobuf} {PS : ProtobufSpec PB} : WireSchema wire schema.
Proof. solve_schema_wire wire schema. Qed.

#[global] Instance schema_normal : NormalSchema normal schema.
Proof. solve_schema_normal normal schema. Qed.

#[global] Instance schema_merge : MergeSchema merge schema.
Proof. solve_schema_merge merge schema. Qed.

(** Its row in the table of message types. *)
Definition message {PB : Protobuf} {PS : ProtobufSpec PB} : message_type :=
  dated_message "Proposal" nothing true schema only.

#[global] Instance message_lawful {PB : Protobuf} (PS : ProtobufSpec PB) : Lawful message.
Proof. solve_lawful decode_field fromJSON only. Qed.

End Proposal.

(** ** [Vote] (cosmos/gov/v1beta1/gov.js) *)

Module Vote.

Record t := mk {
  proposalId : number;
  voter : string;
  option_ : number;
  options : list WeightedVoteOption.t;
}.

#[global] Instance t_eta : Settable t := λ m, mk m.(proposalId) m.(voter) m.(option_)
  m.(options).

Definition base : t := mk 0 "" 0 [].

Definition encode {PB : Protobuf} (message : t) (writer : Writer) : result Writer :=
  Ok writer
  @>= pure (when (num_neq message.(proposalId) 0)
       (fun w => w @> uint32 8 @> uint64 message.(proposalId)))
  @>= pure (when (str_neq message.(voter) "") (fun w => w @> uint32 18 @> string_ message.(voter)))
  @>= pure (when (num_neq message.(option_) 0) (fun w => w @> uint32 24 @> int32 message.(option_)))
  @>= each_e message.(options) (submessage 34 WeightedVoteOption.encode).

Definition decode_field {PB : Protobuf} (tag : Z) (message : t) : RM t :=
  match field_number tag with
  | 1 => v ← read_number read_uint64; mret (message <| proposalId := v |>)
  | 2 => v ← read_string; mret (message <| voter := v |>)
  | 3 => v ← read_int32; mret (message <| option_ := Int v |>)
  | 4 => v ← read_nested WeightedVoteOption.decode;
         mret (message <| options := message.(options) ++ [v] |>)
  | _ => _ ← skipType (wire_type tag); mret message
  end.

Definition decode {PB : Protobuf} (length : option Z) : RM t :=
  decode_message length base decode_field.

Definition fromJSON (object : js) : result t :=
  proposalId' ← field_or object "proposalId" js_Number 0;
  voter' ← field_or object "voter" to_string "";
  option_' ← field_or object "option" voteOptionFromJSON 0;
  options' ← field_or object "options" (to_list WeightedVoteOption.fromJSON) [];
  Ok (mk proposalId' voter' option_' options').

Definition toJSON (message : t) : js :=
  Obj ([("proposalId", Num message.(proposalId));
    ("voter", Str message.(voter));
    ("option", Str (voteOptionToJSON message.(option_)));
    ("options", Arr (map WeightedVoteOption.toJSON message.(options)))]).

Record partial := mkPartial {
  p_proposalId : option number;
  p_voter : option string;
  p_option : option number;
  p_options : option (list WeightedVoteOption.partial);
}.

Definition fromPartial (object : partial) : t := {|
  proposalId := object.(p_proposalId) ?? Int 0;
  voter := object.(p_voter) ?? "";
  option_ := object.(p_option) ?? Int 0;
  options := map WeightedVoteOption.fromPartial (object.(p_options) ?? []);
|}.

(** The object with no property given. *)
Definition nothing : partial := mkPartial None None None None.

(** The bytes [encode] writes. *)
Definition wire {PB : Protobuf} {PS : ProtobufSpec PB} (m : t) : bytes :=
  f_number e_uint64 8 m.(proposalId) ++
  f_string 18 m.(voter) ++
  f_number e_int32 24 m.(option_) ++
  f_repeated 34 WeightedVoteOption.wire m.(options).

Definition valid (m : t) : Prop :=
  uint64_ok m.(proposalId) ∧ int32_ok m.(option_) ∧ Forall WeightedVoteOption.valid m.(options).

(** The byte fields hold arrays, as the interface declares. *)
Definition typed (m : t) : bool := forallb WeightedVoteOption.typed m.(options).

(** The message without its empty byte arrays. *)
Definition normal (m : t) : t := {|
  proposalId := m.(proposalId);
  voter := m.(voter);
  option_ := m.(option_);
  options := map WeightedVoteOption.normal m.(options);
|}.

(** The enumeration fields hold members. *)
Definition named (m : t) : bool := voteOption_named m.(option_) && forallb WeightedVoteOption.named m.(options).

(** The message with the numbers [toJSON] does not know replaced. *)
Definition known (m : t) : t := {|
  proposalId := m.(proposalId);
  voter := m.(voter);
  option_ := voteOption_known m.(option_);
  options := map WeightedVoteOption.known m.(options);
|}.

Definition encodable {PB : Protobuf} {PS : ProtobufSpec PB} (m : t) : Prop :=
  typed m = true ∧ valid m ∧ small (wire m).

Definition merge (m a : t) : t := {|
  proposalId := later_number m.(proposalId) a.(proposalId);
  voter := later_string m.(voter) a.(voter);
  option_ := later_number m.(option_) a.(option_);
  options := m.(options) ++ map WeightedVoteOption.normal a.(options);
|}.

(** A whole message seen as a partial one. *)
Definition full (m : t) : partial := {|
  p_proposalId := Some m.(proposalId);
  p_voter := Some m.(voter);
  p_option := Some m.(option_);
  p_options := Some (map WeightedVoteOption.full m.(options));
|}.

(** The message as its schema declares it. *)
Definition schema (m : t) : list field :=
  [implicit 1 (VInt Uint64 m.(proposalId));
   implicit 2 (VString m.(voter));
   implicit 3 (VInt Int32 m.(option_));
   repeated 4 (message_value WeightedVoteOption.schema) m.(options)].

(** The message with its default for every property that is not kept. *)
Definition only (kept : string → bool) (m : t) : t := {|
  proposalId := if kept "proposalId" then m.(proposalId) else Int 0;
  voter := if kept "voter" then m.(voter) else "";
  option_ := if kept "option" then m.(option_) else Int 0;
  options := if kept "options" then m.(options) else [];
|}.

#[global] Instance codec {PB : Protobuf} : FallibleCodec t :=
  {| fmsg_base := base; fmsg_encode := encode; fmsg_field := decode_field |}.

#[global] Program Instance spec {PB : Protobuf} (PS : ProtobufSpec PB) : FallibleSpec PS t :=
  {| fmsg_wire := wire; fmsg_valid := valid; fmsg_typed := typed; fmsg_normal := normal;
     fmsg_merge := merge |}.
Next Obligation. solve_fencode_wire. Qed.
Next Obligation. intros. solve_fencode_throws encode typed. Qed.
Next Obligation. solve_fdecode_wire. Qed.
Next Obligation. solve_fmerge_base. Qed.
Next Obligation. intros. solve_fadvances decode_field. Qed.

#[global] Program Instance given_ : FalliblePartial t partial :=
  {| fmsg_fromPartial := fromPartial; fmsg_full := full; fmsg_given := typed |}.
Next Obligation. solve_fgiven fromPartial typed. Qed.
Next Obligation. solve_fpartial fromPartial full typed. Qed.

#[global] Program Instance json : FallibleJson t :=
  {| fmsg_fromJSON := fromJSON; fmsg_toJSON := toJSON;
     fmsg_named := named; fmsg_known := known |}.
Next Obligation. solve_fjson fromJSON toJSON. Qed.
Next Obligation. solve_known named known. Qed.

#[global] Instance schema_wire {PB : Protobuf} {PS : ProtobufSpec PB} : WireSchema wire schema.
Proof. solve_schema_wire wire schema. Qed.

#[global] Instance schema_normal : NormalSchema normal schema.
Proof. solve_schema_normal normal schema. Qed.

#[global] Instance schema_merge : MergeSchema merge schema.
Proof. solve_schema_merge merge schema. Qed.

(** Its row in the table of message types. *)
Definition message {PB : Protobuf} {PS : ProtobufSpec PB} : message_type :=
  fallible_message "Vote" nothing true schema only.

#[global] Instance message_lawful {PB : Protobuf} (PS : ProtobufSpec PB) : Lawful message.
Proof. solve_lawful decode_field fromJSON only. Qed.

End Vote.

(** ** [DepositParams] (cosmos/gov/v1beta1/gov.js) *)

Module DepositParams.

Record t := mk {
  minDeposit : list Coin.t;
  maxDepositPeriod : option Duration.t;
}.

#[global] Instance t_eta : Settable t := λ m, mk m.(minDeposit) m.(maxDepositPeriod).

Definition base : t := mk [] None.

Definition encode {PB : Protobuf} (message : t) (writer : Writer) : Writer :=
  writer
  @> each message.(minDeposit) (fun v w => w @> uint32 10 @> fork @> Coin.encode v @> ldelim)
  @> defined message.(maxDepositPeriod) (fun v w => w @> uint32 18 @> fork @> Duration.encode v @> ldelim).

Definition decode_field {PB : Protobuf} (tag : Z) (message : t) : RM t :=
  match field_number tag with
  | 1 => v ← read_nested Coin.decode; mret (message <| minDeposit := message.(minDeposit) ++ [v] |>)
  | 2 => v ← read_nested Duration.decode; mret (message <| maxDepositPeriod := Some v |>)
  | _ => _ ← skipType (wire_type tag); mret message
  end.

Definition decode {PB : Protobuf} (length : option Z) : RM t :=
  decode_message length base decode_field.

Definition fromJSON (object : js) : result t :=
  minDeposit' ← field_or object "minDeposit" (to_list Coin.fromJSON) [];
  maxDepositPeriod' ← field_or object "maxDepositPeriod" (to_some Duration.fromJSON) None;
  Ok (mk minDeposit' maxDepositPeriod').

Definition toJSON (message : t) : js :=
  Obj ([("minDeposit", Arr (map Coin.toJSON message.(minDeposit)))] ++
   prop_opt "maxDepositPeriod" Duration.toJSON message.(maxDepositPeriod)).

Record partial := mkPartial {
  p_minDeposit : option (list Coin.partial);
  p_maxDepositPeriod : option Duration.partial;
}.

Definition fromPartial (object : partial) : t := {|
  minDeposit := map Coin.fromPartial (object.(p_minDeposit) ?? []);
  maxDepositPeriod := Duration.fromPartial <$> object.(p_maxDepositPeriod);
|}.

(** The object with no property given. *)
Definition nothing : partial := mkPartial None None.

(** The bytes [encode] writes. *)
Definition wire {PB : Protobuf} {PS : ProtobufSpec PB} (m : t) : bytes :=
  f_repeated 10 Coin.wire m.(minDeposit) ++
  f_message 18 Duration.wire m.(maxDepositPeriod).

Definition valid (m : t) : Prop :=
  Forall Coin.valid m.(minDeposit) ∧ from_option Duration.valid True m.(maxDepositPeriod).

Definition encodable {PB : Protobuf} {PS : ProtobufSpec PB} (m : t) : Prop :=
  valid m ∧ small (wire m).

Definition merge (m a : t) : t := {|
  minDeposit := m.(minDeposit) ++ a.(minDeposit);
  maxDepositPeriod := later_message m.(maxDepositPeriod) a.(maxDepositPeriod);
|}.

(** A whole message seen as a partial one. *)
Definition full (m : t) : partial := {|
  p_minDeposit := Some (map Coin.full m.(minDeposit));
  p_maxDepositPeriod := Duration.full <$> m.(maxDepositPeriod);
|}.

(** The message as its schema declares it. *)
Definition schema (m : t) : list field :=
  [repeated 1 (message_value Coin.schema) m.(minDeposit);
   singular 2 Optional (message_value Duration.schema) m.(maxDepositPeriod)].

(** The message with its default for every property that is not kept. *)
Definition only (kept : string → bool) (m : t) : t := {|
  minDeposit := if kept "minDeposit" then m.(minDeposit) else [];
  maxDepositPeriod := if kept "maxDepositPeriod" then m.(maxDepositPeriod) else None;
|}.

#[global] Instance codec {PB : Protobuf} : MessageCodec t :=
  {| msg_base := base; msg_encode := encode; msg_field := decode_field |}.

#[global] Program Instance spec {PB : Protobuf} (PS : ProtobufSpec PB) : MessageSpec PS t :=
  {| msg_wire := wire; msg_valid := valid; msg_merge := merge |}.
Next Obligation. solve_encode_wire. Qed.
Next Obligation. solve_decode_wire. Qed.
Next Obligation. solve_merge_base. Qed.
Next Obligation. intros. solve_advances decode_field. Qed.

#[global] Program Instance data : MessageData t partial :=
  {| msg_fromJSON := fromJSON; msg_toJSON := toJSON;
     msg_fromPartial := fromPartial; msg_full := full |}.
Next Obligation. solve_json fromJSON toJSON. Qed.
Next Obligation. solve_partial fromPartial full. Qed.

#[global] Instance schema_wire {PB : Protobuf} {PS : ProtobufSpec PB} : WireSchema wire schema.
Proof. solve_schema_wire wire schema. Qed.

#[global] Instance schema_merge : MergeSchema merge schema.
Proof. solve_schema_merge merge schema. Qed.

(** Its row in the table of message types. *)
Definition message {PB : Protobuf} {PS : ProtobufSpec PB} : message_type :=
  plain_message "DepositParams" nothing true schema only.

#[global] Instance message_lawful {PB : Protobuf} (PS : ProtobufSpec PB) : Lawful message.
Proof. solve_lawful decode_field fromJSON only. Qed.

End DepositParams.

(** ** [VotingParams] (cosmos/gov/v1beta1/gov.js) *)

Module VotingParams.

Record t := mk {
  votingPeriod : option Duration.t;
}.

#[global] Instance t_eta : Settable t := λ m, mk m.(votingPeriod).

Definition base : t := mk None.

Definition encode {PB : Protobuf} (message : t) (writer : Writer) : Writer :=
  writer
  @> defined message.(votingPeriod) (fun v w => w @> uint32 10 @> fork @> Duration.encode v @> ldelim).

Definition decode_field {PB : Protobuf} (tag : Z) (message : t) : RM t :=
  match field_number tag with
  | 1 => v ← read_nested Duration.decode; mret (message <| votingPeriod := Some v |>)
  | _ => _ ← skipType (wire_type tag); mret message
  end.

Definition decode {PB : Protobuf} (length : option Z) : RM t :=
  decode_message length base decode_field.

Definition fromJSON (object : js) : result t :=
  votingPeriod' ← field_or object "votingPeriod" (to_some Duration.fromJSON) None;
  Ok (mk votingPeriod').

Definition toJSON (message : t) : js :=
  Obj (prop_opt "votingPeriod" Duration.toJSON message.(votingPeriod)).

Record partial := mkPartial {
  p_votingPeriod : option Duration.partial;
}.

Definition fromPartial (object : partial) : t := {|
  votingPeriod := Duration.fromPartial <$> object.(p_votingPeriod);
|}.

(** The object with no property given. *)
Definition nothing : partial := mkPartial None.

(** The bytes [encode] writes. *)
Definition wire {PB : Protobuf} {PS : ProtobufSpec PB} (m : t) : bytes :=
  f_message 10 Duration.wire m.(votingPeriod).

Definition valid (m : t) : Prop :=
  from_option Duration.valid True m.(votingPeriod).

Definition encodable {PB : Protobuf} {PS : ProtobufSpec PB} (m : t) : Prop :=
  valid m ∧ small (wire m).

Definition merge (m a : t) : t := {|
  votingPeriod := later_message m.(votingPeriod) a.(votingPeriod);
|}.

(** A whole message seen as a partial one. *)
Definition full (m : t) : partial := {|
  p_votingPeriod := Duration.full <$> m.(votingPeriod);
|}.

(** The message as its schema declares it. *)
Definition schema (m : t) : list field :=
  [singular 1 Optional (message_value Duration.schema) m.(votingPeriod)].

(** The message with its default for every property that is not kept. *)
Definition only (kept : string → bool) (m : t) : t := {|
  votingPeriod := if kept "votingPeriod" then m.(votingPeriod) else None;
|}.

#[global] Instance codec {PB : Protobuf} : MessageCodec t :=
  {| msg_base := base; msg_encode := encode; msg_field := decode_field |}.

#[global] Program Instance spec {PB : Protobuf} (PS : ProtobufSpec PB) : MessageSpec PS t :=
  {| msg_wire := wire; msg_valid := valid; msg_merge := merge |}.
Next Obligation. solve_encode_wire. Qed.
Next Obligation. solve_decode_wire. Qed.
Next Obligation. solve_merge_base. Qed.
Next Obligation. intros. solve_advances decode_field. Qed.

#[global] Program Instance data : MessageData t partial :=
  {| msg_fromJSON := fromJSON; msg_toJSON := toJSON;
     msg_fromPartial := fromPartial; msg_full := full |}.
Next Obligation. solve_json fromJSON toJSON. Qed.
Next Obligation. solve_partial fromPartial full. Qed.

#[global] Instance schema_wire {PB : Protobuf} {PS : ProtobufSpec PB} : WireSchema wire schema.
Proof. solve_schema_wire wire schema. Qed.

#[global] Instance schema_merge : MergeSchema merge schema.
Proof. solve_schema_merge merge schema. Qed.

(** Its row in the table of message types. *)
Definition message {PB : Protobuf} {PS : ProtobufSpec PB} : message_type :=
  plain_message "VotingParams" nothing true schema only.

#[global] Instance message_lawful {PB : Protobuf} (PS : ProtobufSpec PB) : Lawful message.
Proof. solve_lawful decode_field fromJSON only. Qed.

End VotingParams.

(** ** [TallyParams] (cosmos/gov/v1beta1/gov.js) *)

Module TallyParams.

Record t := mk {
  quorum : option bytes;
  threshold : option bytes;
  vetoThreshold : option bytes;
}.

#[global] Instance t_eta : Settable t := λ m, mk m.(quorum) m.(threshold) m.(vetoThreshold).

Definition base : t := mk None None None.

Definition encode {PB : Protobuf} (message : t) (writer : Writer) : result Writer :=
  Ok writer
  @>= bytes_field 10 message.(quorum)
  @>= bytes_field 18 message.(threshold)
  @>= bytes_field 26 message.(vetoThreshold).

Definition decode_field {PB : Protobuf} (tag : Z) (message : t) : RM t :=
  match field_number tag with
  | 1 => v ← read_bytes; mret (message <| quorum := Some v |>)
  | 2 => v ← read_bytes; mret (message <| threshold := Some v |>)
  | 3 => v ← read_bytes; mret (message <| vetoThreshold := Some v |>)
  | _ => _ ← skipType (wire_type tag); mret message
  end.

Definition decode {PB : Protobuf} (length : option Z) : RM t :=
  decode_message length base decode_field.

Definition fromJSON (object : js) : result t :=
  quorum' ← field_or object "quorum" (to_some bytesFromBase64) None;
  threshold' ← field_or object "threshold" (to_some bytesFromBase64) None;
  vetoThreshold' ← field_or object "vetoThreshold" (to_some bytesFromBase64) None;
  Ok (mk quorum' threshold' vetoThreshold').

Definition toJSON (message : t) : js :=
  Obj (prop_opt "quorum" (fun b => Str (base64FromBytes b)) message.(quorum) ++
   prop_opt "threshold" (fun b => Str (base64FromBytes b)) message.(threshold) ++
   prop_opt "vetoThreshold" (fun b => Str (base64FromBytes b)) message.(vetoThreshold)).

Record partial := mkPartial {
  p_quorum : option bytes;
  p_threshold : option bytes;
  p_vetoThreshold : option bytes;
}.

Definition fromPartial (object : partial) : t := {|
  quorum := Some (object.(p_quorum) ?? []);
  threshold := Some (object.(p_threshold) ?? []);
  vetoThreshold := Some (object.(p_vetoThreshold) ?? []);
|}.

(** The object with no property given. *)
Definition nothing : partial := mkPartial None None None.

(** The bytes [encode] writes. *)
Definition wire {PB : Protobuf} {PS : ProtobufSpec PB} (m : t) : bytes :=
  f_bytes 10 m.(quorum) ++
  f_bytes 18 m.(threshold) ++
  f_bytes 26 m.(vetoThreshold).

Definition valid (m : t) : Prop :=
  True.

(** The byte fields hold arrays, as the interface declares. *)
Definition typed (m : t) : bool := given m.(quorum) && given m.(threshold) && given m.(vetoThreshold).

(** The message without its empty byte arrays. *)
Definition normal (m : t) : t := {|
  quorum := nonempty m.(quorum);
  threshold := nonempty m.(threshold);
  vetoThreshold := nonempty m.(vetoThreshold);
|}.

Definition encodable {PB : Protobuf} {PS : ProtobufSpec PB} (m : t) : Prop :=
  typed m = true ∧ valid m ∧ small (wire m).

Definition merge (m a : t) : t := {|
  quorum := later_bytes m.(quorum) a.(quorum);
  threshold := later_bytes m.(threshold) a.(threshold);
  vetoThreshold := later_bytes m.(vetoThreshold) a.(vetoThreshold);
|}.

(** A whole message seen as a partial one. *)
Definition full (m : t) : partial := {|
  p_quorum := m.(quorum);
  p_threshold := m.(threshold);
  p_vetoThreshold := m.(vetoThreshold);
|}.

(** The message as its schema declares it. *)
Definition schema (m : t) : list field :=
  [implicit 1 (byte_array m.(quorum));
   implicit 2 (byte_array m.(threshold));
   implicit 3 (byte_array m.(vetoThreshold))].

(** The message with its default for every property that is not kept. *)
Definition only (kept : string → bool) (m : t) : t := {|
  quorum := if kept "quorum" then m.(quorum) else None;
  threshold := if kept "threshold" then m.(threshold) else None;
  vetoThreshold := if kept "vetoThreshold" then m.(vetoThreshold) else None;
|}.

#[global] Instance codec {PB : Protobuf} : FallibleCodec t :=
  {| fmsg_base := base; fmsg_encode := encode; fmsg_field := decode_field |}.

#[global] Program Instance spec {PB : Protobuf} (PS : ProtobufSpec PB) : FallibleSpec PS t :=
  {| fmsg_wire := wire; fmsg_valid := valid; fmsg_typed := typed; fmsg_normal := normal;
     fmsg_merge := merge |}.
Next Obligation. solve_fencode_wire. Qed.
Next Obligation. intros. solve_fencode_throws encode typed. Qed.
Next Obligation. solve_fdecode_wire. Qed.
Next Obligation. solve_fmerge_base. Qed.
Next Obligation. intros. solve_fadvances decode_field. Qed.

#[global] Program Instance given_ : FalliblePartial t partial :=
  {| fmsg_fromPartial := fromPartial; fmsg_full := full; fmsg_given := typed |}.
Next Obligation. solve_fgiven fromPartial typed. Qed.
Next Obligation. solve_fpartial fromPartial full typed. Qed.

#[global] Program Instance json : FallibleJson t :=
  {| fmsg_fromJSON := fromJSON; fmsg_toJSON := toJSON;
     fmsg_named := fun _ => true; fmsg_known := fun m => m |}.
Next Obligation. solve_fjson fromJSON toJSON. Qed.
Next Obligation. reflexivity. Qed.

#[global] Instance schema_wire {PB : Protobuf} {PS : ProtobufSpec PB} : WireSchema wire schema.
Proof. solve_schema_wire wire schema. Qed.

#[global] Instance schema_normal : NormalSchema normal schema.
Proof. solve_schema_normal normal schema. Qed.

#[global] Instance schema_merge : MergeSchema merge schema.
Proof. solve_schema_merge merge schema. Qed.

(** Its row in the table of message types. *)
Definition message {PB : Protobuf} {PS : ProtobufSpec PB} : message_type :=
  fallible_message "TallyParams" nothing true schema only.

#[global] Instance message_lawful {PB : Protobuf} (PS : ProtobufSpec PB) : Lawful message.
Proof. solve_lawful decode_field fromJSON only. Qed.

End TallyParams.

(** ** [GenesisState] (cosmos/gov/v1beta1/genesis.js) *)

Module GenesisState.

Record t := mk {
  startingProposalId : number;
  deposits : list Deposit.t;
  votes : list Vote.t;
  proposals : list Proposal.t;
  depositParams : option DepositParams.t;
  votingParams : option VotingParams.t;
  tallyParams : option TallyParams.t;
}.

#[global] Instance t_eta : Settable t := λ m, mk m.(startingProposalId) m.(deposits) m.(votes)
  m.(proposals) m.(depositParams) m.(votingParams) m.(tallyParams).

Definition base : t := mk 0 [] [] [] None None None.

Definition encode {PB : Protobuf} (message : t) (writer : Writer) : result Writer :=
  Ok writer
  @>= pure (when (num_neq message.(startingProposalId) 0)
       (fun w => w @> uint32 8 @> uint64 message.(startingProposalId)))
  @>= pure (each message.(deposits) (fun v w => w @> uint32 18 @> fork @> Deposit.encode v @> ldelim))
  @>= each_e message.(votes) (submessage 26 Vote.encode)
  @>= each_e message.(proposals) (submessage 34 Proposal.encode)
  @>= pure (defined message.(depositParams) (fun v w => w @> uint32 42 @> fork @> DepositParams.encode v @> ldelim))
  @>= pure (defined message.(votingParams) (fun v w => w @> uint32 50 @> fork @> VotingParams.encode v @> ldelim))
  @>= defined_e message.(tallyParams) (submessage 58 TallyParams.encode).

Definition decode_field {PB : Protobuf} (tag : Z) (message : t) : RM t :=
  match field_number tag with
  | 1 => v ← read_number read_uint64; mret (message <| startingProposalId := v |>)
  | 2 => v ← read_nested Deposit.decode; mret (message <| deposits := message.(deposits) ++ [v] |>)
  | 3 => v ← read_nested Vote.decode; mret (message <| votes := message.(votes) ++ [v] |>)
  | 4 => v ← read_nested Proposal.decode;
         mret (message <| proposals := message.(proposals) ++ [v] |>)
  | 5 => v ← read_nested DepositParams.decode; mret (message <| depositParams := Some v |>)
  | 6 => v ← read_nested VotingParams.decode; mret (message <| votingParams := Some v |>)
  | 7 => v ← read_nested TallyParams.decode; mret (message <| tallyParams := Some v |>)
  | _ => _ ← skipType (wire_type tag); mret message
  end.

Definition decode {PB : Protobuf} (length : option Z) : RM t :=
  decode_message length base decode_field.

Definition fromJSON (object : js) : result t :=
  startingProposalId' ← field_or object "startingProposalId" js_Number 0;
  deposits' ← field_or object "deposits" (to_list Deposit.fromJSON) [];
  votes' ← field_or object "votes" (to_list Vote.fromJSON) [];
  proposals' ← field_or object "proposals" (to_list Proposal.fromJSON) [];
  depositParams' ← field_or object "depositParams" (to_some DepositParams.fromJSON) None;
  votingParams' ← field_or object "votingParams" (to_some VotingParams.fromJSON) None;
  tallyParams' ← field_or object "tallyParams" (to_some TallyParams.fromJSON) None;
  Ok (mk startingProposalId' deposits' votes' proposals' depositParams' votingParams'
    tallyParams').

Definition toJSON (message : t) : result js :=
  proposals' ← result_map Proposal.toJSON message.(proposals);
  Ok (Obj ([("startingProposalId", Num message.(startingProposalId));
    ("deposits", Arr (map Deposit.toJSON message.(deposits)));
    ("votes", Arr (map Vote.toJSON message.(votes)));
    ("proposals", Arr proposals')] ++
   prop_opt "depositParams" DepositParams.toJSON message.(depositParams) ++
   prop_opt "votingParams" VotingParams.toJSON message.(votingParams) ++
   prop_opt "tallyParams" TallyParams.toJSON message.(tallyParams))).

Record partial := mkPartial {
  p_startingProposalId : option number;
  p_deposits : option (list Deposit.partial);
  p_votes : option (list Vote.partial);
  p_proposals : option (list Proposal.partial);
  p_depositParams : option DepositParams.partial;
  p_votingParams : option VotingParams.partial;
  p_tallyParams : option TallyParams.partial;
}.

Definition fromPartial (object : partial) : t := {|
  startingProposalId := object.(p_startingProposalId) ?? Int 0;
  deposits := map Deposit.fromPartial (object.(p_deposits) ?? []);
  votes := map Vote.fromPartial (object.(p_votes) ?? []);
  proposals := map Proposal.fromPartial (object.(p_proposals) ?? []);
  depositParams := DepositParams.fromPartial <$> object.(p_depositParams);
  votingParams := VotingParams.fromPartial <$> object.(p_votingParams);
  tallyParams := TallyParams.fromPartial <$> object.(p_tallyParams);
|}.

(** The object with no property given. *)
Definition nothing : partial := mkPartial None None None None None None None.

(** The bytes [encode] writes. *)
Definition wire {PB : Protobuf} {PS : ProtobufSpec PB} (m : t) : bytes :=
  f_number e_uint64 8 m.(startingProposalId) ++
  f_repeated 18 Deposit.wire m.(deposits) ++
  f_repeated 26 Vote.wire m.(votes) ++
  f_repeated 34 Proposal.wire m.(proposals) ++
  f_message 42 DepositParams.wire m.(depositParams) ++
  f_message 50 VotingParams.wire m.(votingParams) ++
  f_message 58 TallyParams.wire m.(tallyParams).

Definition valid (m : t) : Prop :=
  uint64_ok m.(startingProposalId) ∧ Forall Deposit.valid m.(deposits) ∧ Forall Vote.valid m.(votes) ∧ Forall Proposal.valid m.(proposals) ∧ from_option DepositParams.valid True m.(depositParams) ∧ from_option VotingParams.valid True m.(votingParams) ∧ from_option TallyParams.valid True m.(tallyParams).

(** The byte fields hold arrays, as the interface declares. *)
Definition typed (m : t) : bool := forallb Vote.typed m.(votes) && forallb Proposal.typed m.(proposals) && from_option TallyParams.typed true m.(tallyParams).

(** The message without its empty byte arrays. *)
Definition normal (m : t) : t := {|
  startingProposalId := m.(startingProposalId);
  deposits := m.(deposits);
  votes := map Vote.normal m.(votes);
  proposals := map Proposal.normal m.(proposals);
  depositParams := m.(depositParams);
  votingParams := m.(votingParams);
  tallyParams := TallyParams.normal <$> m.(tallyParams);
|}.

(** The dates are valid. *)
Definition timed (m : t) : bool := forallb Proposal.timed m.(proposals).

(** The enumeration fields hold members. *)
Definition named (m : t) : bool := forallb Vote.named m.(votes) && forallb Proposal.named m.(proposals).

(** The message with the numbers [toJSON] does not know replaced. *)
Definition known (m : t) : t := {|
  startingProposalId := m.(startingProposalId);
  deposits := m.(deposits);
  votes := map Vote.known m.(votes);
  proposals := map Proposal.known m.(proposals);
  depositParams := m.(depositParams);
  votingParams := m.(votingParams);
  tallyParams := m.(tallyParams);
|}.

Definition encodable {PB : Protobuf} {PS : ProtobufSpec PB} (m : t) : Prop :=
  typed m = true ∧ valid m ∧ small (wire m).

Definition merge (m a : t) : t := {|
  startingProposalId := later_number m.(startingProposalId) a.(startingProposalId);
  deposits := m.(deposits) ++ a.(deposits);
  votes := m.(votes) ++ map Vote.normal a.(votes);
  proposals := m.(proposals) ++ map Proposal.normal a.(proposals);
  depositParams := later_message m.(depositParams) a.(depositParams);
  votingParams := later_message m.(votingParams) a.(votingParams);
  tallyParams := later_message m.(tallyParams) (TallyParams.normal <$> a.(tallyParams));
|}.

(** A whole message seen as a partial one. *)
Definition full (m : t) : partial := {|
  p_startingProposalId := Some m.(startingProposalId);
  p_deposits := Some (map Deposit.full m.(deposits));
  p_votes := Some (map Vote.full m.(votes));
  p_proposals := Some (map Proposal.full m.(proposals));
  p_depositParams := DepositParams.full <$> m.(depositParams);
  p_votingParams := VotingParams.full <$> m.(votingParams);
  p_tallyParams := TallyParams.full <$> m.(tallyParams);
|}.

(** The message as its schema declares it. *)
Definition schema (m : t) : list field :=
  [implicit 1 (VInt Uint64 m.(startingProposalId));
   repeated 2 (message_value Deposit.schema) m.(deposits);
   repeated 3 (message_value Vote.schema) m.(votes);
   repeated 4 (message_value Proposal.schema) m.(proposals);
   singular 5 Optional (message_value DepositParams.schema) m.(depositParams);
   singular 6 Optional (message_value VotingParams.schema) m.(votingParams);
   singular 7 Optional (message_value TallyParams.schema) m.(tallyParams)].

(** The message with its default for every property that is not kept. *)
Definition only (kept : string → bool) (m : t) : t := {|
  startingProposalId := if kept "startingProposalId" then m.(startingProposalId) else Int 0;
  deposits := if kept "deposits" then m.(deposits) else [];
  votes := if kept "votes" then m.(votes) else [];
  proposals := if kept "proposals" then m.(proposals) else [];
  depositParams := if kept "depositParams" then m.(depositParams) else None;
  votingParams := if kept "votingParams" then m.(votingParams) else None;
  tallyParams := if kept "tallyParams" then m.(tallyParams) else None;
|}.

#[global] Instance codec {PB : Protobuf} : FallibleCodec t :=
  {| fmsg_base := base; fmsg_encode := encode; fmsg_field := decode_field |}.

#[global] Program Instance spec {PB : Protobuf} (PS : ProtobufSpec PB) : FallibleSpec PS t :=
  {| fmsg_wire := wire; fmsg_valid := valid; fmsg_typed := typed; fmsg_normal := normal;
     fmsg_merge := merge |}.
Next Obligation. solve_fencode_wire. Qed.
Next Obligation. intros. solve_fencode_throws encode typed. Qed.
Next Obligation. solve_fdecode_wire. Qed.
Next Obligation. solve_fmerge_base. Qed.
Next Obligation. intros. solve_fadvances decode_field. Qed.

#[global] Program Instance given_ : FalliblePartial t partial :=
  {| fmsg_fromPartial := fromPartial; fmsg_full := full; fmsg_given := typed |}.
Next Obligation. solve_fgiven fromPartial typed. Qed.
Next Obligation. solve_fpartial fromPartial full typed. Qed.

#[global] Program Instance json : DatedJson t :=
  {| dmsg_fromJSON := fromJSON; dmsg_toJSON := toJSON; dmsg_timed := timed;
     dmsg_named := named; dmsg_known := known |}.
Next Obligation. solve_djson fromJSON toJSON timed. Qed.
Next Obligation. solve_dthrows toJSON timed. Qed.
Next Obligation. solve_known named known. Qed.

#[global] Instance schema_wire {PB : Protobuf} {PS : ProtobufSpec PB} : WireSchema wire schema.
Proof. solve_schema_wire wire schema. Qed.

#[global] Instance schema_normal : NormalSchema normal schema.
Proof. solve_schema_normal normal schema. Qed.

#[global] Instance schema_merge : MergeSchema merge schema.
Proof. solve_schema_merge merge schema. Qed.

(** Its row in the table of message types. *)
Definition message {PB : Protobuf} {PS : ProtobufSpec PB} : message_type :=
  dated_message "GenesisState" nothing true schema only.

#[global] Instance message_lawful {PB : Protobuf} (PS : ProtobufSpec PB) : Lawful message.
Proof. solve_lawful decode_field fromJSON only. Qed.

End GenesisState.

(** ** [MsgSubmitProposal] (cosmos/gov/v1beta1/tx.js) *)

Module MsgSubmitProposal.

Record t := mk {
  content : option Any.t;
  initialDeposit : list Coin.t;
  proposer : string;
}.

#[global] Instance t_eta : Settable t := λ m, mk m.(content) m.(initialDeposit) m.(proposer).

Definition base : t := mk None [] "".

Definition encode {PB : Protobuf} (message : t) (writer : Writer) : result Writer :=
  Ok writer
  @>= defined_e message.(content) (submessage 10 Any.encode)
  @>= pure (each message.(initialDeposit) (fun v w => w @> uint32 18 @> fork @> Coin.encode v @> ldelim))
  @>= pure (when (str_neq message.(proposer) "")
       (fun w => w @> uint32 26 @> string_ message.(proposer))).

Definition decode_field {PB : Protobuf} (tag : Z) (message : t) : RM t :=
  match field_number tag with
  | 1 => v ← read_nested Any.decode; mret (message <| content := Some v |>)
  | 2 => v ← read_nested Coin.decode;
         mret (message <| initialDeposit := message.(initialDeposit) ++ [v] |>)
  | 3 => v ← read_string; mret (message <| proposer := v |>)
  | _ => _ ← skipType (wire_type tag); mret message
  end.

Definition decode {PB : Protobuf} (length : option Z) : RM t :=
  decode_message length base decode_field.

Definition fromJSON (object : js) : result t :=
  content' ← field_or object "content" (to_some Any.fromJSON) None;
  initialDeposit' ← field_or object "initialDeposit" (to_list Coin.fromJSON) [];
  proposer' ← field_or object "proposer" to_string "";
  Ok (mk content' initialDeposit' proposer').

Definition toJSON (message : t) : js :=
  Obj (prop_opt "content" Any.toJSON message.(content) ++
   [("initialDeposit", Arr (map Coin.toJSON message.(initialDeposit)));
    ("proposer", Str message.(proposer))]).

Record partial := mkPartial {
  p_content : option Any.partial;
  p_initialDeposit : option (list Coin.partial);
  p_proposer : option string;
}.

Definition fromPartial (object : partial) : t := {|
  content := Any.fromPartial <$> object.(p_content);
  initialDeposit := map Coin.fromPartial (object.(p_initialDeposit) ?? []);
  proposer := object.(p_proposer) ?? "";
|}.

(** The object with no property given. *)
Definition nothing : partial := mkPartial None None None.

(** The bytes [encode] writes. *)
Definition wire {PB : Protobuf} {PS : ProtobufSpec PB} (m : t) : bytes :=
  f_message 10 Any.wire m.(content) ++
  f_repeated 18 Coin.wire m.(initialDeposit) ++
  f_string 26 m.(proposer).

Definition valid (m : t) : Prop :=
  from_option Any.valid True m.(content) ∧ Forall Coin.valid m.(initialDeposit).

(** The byte fields hold arrays, as the interface declares. *)
Definition typed (m : t) : bool := from_option Any.typed true m.(content).

(** The message without its empty byte arrays. *)
Definition normal (m : t) : t := {|
  content := Any.normal <$> m.(content);
  initialDeposit := m.(initialDeposit);
  proposer := m.(proposer);
|}.

Definition encodable {PB : Protobuf} {PS : ProtobufSpec PB} (m : t) : Prop :=
  typed m = true ∧ valid m ∧ small (wire m).

Definition merge (m a : t) : t := {|
  content := later_message m.(content) (Any.normal <$> a.(content));
  initialDeposit := m.(initialDeposit) ++ a.(initialDeposit);
  proposer := later_string m.(proposer) a.(proposer);
|}.

(** A whole message seen as a partial one. *)
Definition full (m : t) : partial := {|
  p_content := Any.full <$> m.(content);
  p_initialDeposit := Some (map Coin.full m.(initialDeposit));
  p_proposer := Some m.(proposer);
|}.

(** The message as its schema declares it. *)
Definition schema (m : t) : list field :=
  [singular 1 Optional (message_value Any.schema) m.(content);
   repeated 2 (message_value Coin.schema) m.(initialDeposit);
   implicit 3 (VString m.(proposer))].

(** The message with its default for every property that is not kept. *)
Definition only (kept : string → bool) (m : t) : t := {|
  content := if kept "content" then m.(content) else None;
  initialDeposit := if kept "initialDeposit" then m.(initialDeposit) else [];
  proposer := if kept "proposer" then m.(proposer) else "";
|}.

#[global] Instance codec {PB : Protobuf} : FallibleCodec t :=
  {| fmsg_base := base; fmsg_encode := encode; fmsg_field := decode_field |}.

#[global] Program Instance spec {PB : Protobuf} (PS : ProtobufSpec PB) : FallibleSpec PS t :=
  {| fmsg_wire := wire; fmsg_valid := valid; fmsg_typed := typed; fmsg_normal := normal;
     fmsg_merge := merge |}.
Next Obligation. solve_fencode_wire. Qed.
Next Obligation. intros. solve_fencode_throws encode typed. Qed.
Next Obligation. solve_fdecode_wire. Qed.
Next Obligation. solve_fmerge_base. Qed.
Next Obligation. intros. solve_fadvances decode_field. Qed.

#[global] Program Instance given_ : FalliblePartial t partial :=
  {| fmsg_fromPartial := fromPartial; fmsg_full := full; fmsg_given := typed |}.
Next Obligation. solve_fgiven fromPartial typed. Qed.
Next Obligation. solve_fpartial fromPartial full typed. Qed.

#[global] Program Instance json : FallibleJson t :=
  {| fmsg_fromJSON := fromJSON; fmsg_toJSON := toJSON;
     fmsg_named := fun _ => true; fmsg_known := fun m => m |}.
Next Obligation. solve_fjson fromJSON toJSON. Qed.
Next Obligation. reflexivity. Qed.

#[global] Instance schema_wire {PB : Protobuf} {PS : ProtobufSpec PB} : WireSchema wire schema.
Proof. solve_schema_wire wire schema. Qed.

#[global] Instance schema_normal : NormalSchema normal schema.
Proof. solve_schema_normal normal schema. Qed.

#[global] Instance schema_merge : MergeSchema merge schema.
Proof. solve_schema_merge merge schema. Qed.

(** Its row in the table of message types. *)
Definition message {PB : Protobuf} {PS : ProtobufSpec PB} : message_type :=
  fallible_message "MsgSubmitProposal" nothing true schema only.

#[global] Instance message_lawful {PB : Protobuf} (PS : ProtobufSpec PB) : Lawful message.
Proof. solve_lawful decode_field fromJSON only. Qed.

End MsgSubmitProposal.

(** ** [MsgSubmitProposalResponse] (cosmos/gov/v1beta1/tx.js) *)

Module MsgSubmitProposalResponse.

Record t := mk {
  proposalId : number;
}.

#[global] Instance t_eta : Settable t := λ m, mk m.(proposalId).

Definition base : t := mk 0.

Definition encode {PB : Protobuf} (message : t) (writer : Writer) : Writer :=
  writer
  @> when (num_neq message.(proposalId) 0) (fun w => w @> uint32 8 @> uint64 message.(proposalId)).

Definition decode_field {PB : Protobuf} (tag : Z) (message : t) : RM t :=
  match field_number tag with
  | 1 => v ← read_number read_uint64; mret (message <| proposalId := v |>)
  | _ => _ ← skipType (wire_type tag); mret message
  end.

Definition decode {PB : Protobuf} (length : option Z) : RM t :=
  decode_message length base decode_field.

Definition fromJSON (object : js) : result t :=
  proposalId' ← field_or object "proposalId" js_Number 0;
  Ok (mk proposalId').

Definition toJSON (message : t) : js :=
  Obj ([("proposalId", Num message.(proposalId))]).

Record partial := mkPartial {
  p_proposalId : option number;
}.

Definition fromPartial (object : partial) : t := {|
  proposalId := object.(p_proposalId) ?? Int 0;
|}.

(** The object with no property given. *)
Definition nothing : partial := mkPartial None.

(** The bytes [encode] writes. *)
Definition wire {PB : Protobuf} {PS : ProtobufSpec PB} (m : t) : bytes :=
  f_number e_uint64 8 m.(proposalId).

Definition valid (m : t) : Prop :=
  uint64_ok m.(proposalId).

Definition encodable {PB : Protobuf} {PS : ProtobufSpec PB} (m : t) : Prop :=
  valid m ∧ small (wire m).

Definition merge (m a : t) : t := {|
  proposalId := later_number m.(proposalId) a.(proposalId);
|}.

(** A whole message seen as a partial one. *)
Definition full (m : t) : partial := {|
  p_proposalId := Some m.(proposalId);
|}.

(** The message as its schema declares it. *)
Definition schema (m : t) : list field :=
  [implicit 1 (VInt Uint64 m.(proposalId))].

(** The message with its default for every property that is not kept. *)
Definition only (kept : string → bool) (m : t) : t := {|
  proposalId := if kept "proposalId" then m.(proposalId) else Int 0;
|}.

#[global] Instance codec {PB : Protobuf} : MessageCodec t :=
  {| msg_base := base; msg_encode := encode; msg_field := decode_field |}.

#[global] Program Instance spec {PB : Protobuf} (PS : ProtobufSpec PB) : MessageSpec PS t :=
  {| msg_wire := wire; msg_valid := valid; msg_merge := merge |}.
Next Obligation. solve_encode_wire. Qed.
Next Obligation. solve_decode_wire. Qed.
Next Obligation. solve_merge_base. Qed.
Next Obligation. intros. solve_advances decode_field. Qed.

#[global] Program Instance data : MessageData t partial :=
  {| msg_fromJSON := fromJSON; msg_toJSON := toJSON;
     msg_fromPartial := fromPartial; msg_full := full |}.
Next Obligation. solve_json fromJSON toJSON. Qed.
Next Obligation. solve_partial fromPartial full. Qed.

#[global] Instance schema_wire {PB : Protobuf} {PS : ProtobufSpec PB} : WireSchema wire schema.
Proof. solve_schema_wire wire schema. Qed.

#[global] Instance schema_merge : MergeSchema merge schema.
Proof. solve_schema_merge merge schema. Qed.

(** Its row in the table of message types. *)
Definition message {PB : Protobuf} {PS : ProtobufSpec PB} : message_type :=
  plain_message "MsgSubmitProposalResponse" nothing true schema only.

#[global] Instance message_lawful {PB : Protobuf} (PS : ProtobufSpec PB) : Lawful message.
Proof. solve_lawful decode_field fromJSON only. Qed.

End MsgSubmitProposalResponse.

(** ** [MsgVote] (cosmos/gov/v1beta1/tx.js) *)

Module MsgVote.

Record t := mk {
  proposalId : number;
  voter : string;
  option_ : number;
}.

#[global] Instance t_eta : Settable t := λ m, mk m.(proposalId) m.(voter) m.(option_).

Definition base : t := mk 0 "" 0.

Definition encode {PB : Protobuf} (message : t) (writer : Writer) : result Writer :=
  Ok writer
  @>= pure (when (num_neq message.(proposalId) 0)
       (fun w => w @> uint32 8 @> uint64 message.(proposalId)))
  @>= pure (when (str_neq message.(voter) "") (fun w => w @> uint32 18 @> string_ message.(voter)))
  @>= pure (when (num_neq message.(option_) 0) (fun w => w @> uint32 24 @> int32 message.(option_))).

Definition decode_field {PB : Protobuf} (tag : Z) (message : t) : RM t :=
  match field_number tag with
  | 1 => v ← read_number read_uint64; mret (message <| proposalId := v |>)
  | 2 => v ← read_string; mret (message <| voter := v |>)
  | 3 => v ← read_int32; mret (message <| option_ := Int v |>)
  | _ => _ ← skipType (wire_type tag); mret message
  end.

Definition decode {PB : Protobuf} (length : option Z) : RM t :=
  decode_message length base decode_field.

Definition fromJSON (object : js) : result t :=
  proposalId' ← field_or object "proposalId" js_Number 0;
  voter' ← field_or object "voter" to_string "";
  option_' ← field_or object "option" voteOptionFromJSON 0;
  Ok (mk proposalId' voter' option_').

Definition toJSON (message : t) : js :=
  Obj ([("proposalId", Num message.(proposalId));
    ("voter", Str message.(voter));
    ("option", Str (voteOptionToJSON message.(option_)))]).

Record partial := mkPartial {
  p_proposalId : option number;
  p_voter : option string;
  p_option : option number;
}.

Definition fromPartial (object : partial) : t := {|
  proposalId := object.(p_proposalId) ?? Int 0;
  voter := object.(p_voter) ?? "";
  option_ := object.(p_option) ?? Int 0;
|}.

(** The object with no property given. *)
Definition nothing : partial := mkPartial None None None.

(** The bytes [encode] writes. *)
Definition wire {PB : Protobuf} {PS : ProtobufSpec PB} (m : t) : bytes :=
  f_number e_uint64 8 m.(proposalId) ++
  f_string 18 m.(voter) ++
  f_number e_int32 24 m.(option_).

Definition valid (m : t) : Prop :=
  uint64_ok m.(proposalId) ∧ int32_ok m.(option_).

(** The byte fields hold arrays, as the interface declares. *)
Definition typed (m : t) : bool := true.

(** The message without its empty byte arrays. *)
Definition normal (m : t) : t := {|
  proposalId := m.(proposalId);
  voter := m.(voter);
  option_ := m.(option_);
|}.

(** The enumeration fields hold members. *)
Definition named (m : t) : bool := voteOption_named m.(option_).

(** The message with the numbers [toJSON] does not know replaced. *)
Definition known (m : t) : t := {|
  proposalId := m.(proposalId);
  voter := m.(voter);
  option_ := voteOption_known m.(option_);
|}.

Definition encodable {PB : Protobuf} {PS : ProtobufSpec PB} (m : t) : Prop :=
  typed m = true ∧ valid m ∧ small (wire m).

Definition merge (m a : t) : t := {|
  proposalId := later_number m.(proposalId) a.(proposalId);
  voter := later_string m.(voter) a.(voter);
  option_ := later_number m.(option_) a.(option_);
|}.

(** A whole message seen as a partial one. *)
Definition full (m : t) : partial := {|
  p_proposalId := Some m.(proposalId);
  p_voter := Some m.(voter);
  p_option := Some m.(option_);
|}.

(** The message as its schema declares it. *)
Definition schema (m : t) : list field :=
  [implicit 1 (VInt Uint64 m.(proposalId));
   implicit 2 (VString m.(voter));
   implicit 3 (VInt Int32 m.(option_))].

(** The message with its default for every property that is not kept. *)
Definition only (kept : string → bool) (m : t) : t := {|
  proposalId := if kept "proposalId" then m.(proposalId) else Int 0;
  voter := if kept "voter" then m.(voter) else "";
  option_ := if kept "option" then m.(option_) else Int 0;
|}.

#[global] Instance codec {PB : Protobuf} : FallibleCodec t :=
  {| fmsg_base := base; fmsg_encode := encode; fmsg_field := decode_field |}.

#[global] Program Instance spec {PB : Protobuf} (PS : ProtobufSpec PB) : FallibleSpec PS t :=
  {| fmsg_wire := wire; fmsg_valid := valid; fmsg_typed := typed; fmsg_normal := normal;
     fmsg_merge := merge |}.
Next Obligation. solve_fencode_wire. Qed.
Next Obligation. intros. solve_fencode_throws encode typed. Qed.
Next Obligation. solve_fdecode_wire. Qed.
Next Obligation. solve_fmerge_base. Qed.
Next Obligation. intros. solve_fadvances decode_field. Qed.

#[global] Program Instance given_ : FalliblePartial t partial :=
  {| fmsg_fromPartial := fromPartial; fmsg_full := full; fmsg_given := typed |}.
Next Obligation. solve_fgiven fromPartial typed. Qed.
Next Obligation. solve_fpartial fromPartial full typed. Qed.

#[global] Program Instance json : FallibleJson t :=
  {| fmsg_fromJSON := fromJSON; fmsg_toJSON := toJSON;
     fmsg_named := named; fmsg_known := known |}.
Next Obligation. solve_fjson fromJSON toJSON. Qed.
Next Obligation. solve_known named known. Qed.

#[global] Instance schema_wire {PB : Protobuf} {PS : ProtobufSpec PB} : WireSchema wire schema.
Proof. solve_schema_wire wire schema. Qed.

#[global] Instance schema_normal : NormalSchema normal schema.
Proof. solve_schema_normal normal schema. Qed.

#[global] Instance schema_merge : MergeSchema merge schema.
Proof. solve_schema_merge merge schema. Qed.

(** Its row in the table of message types. *)
Definition message {PB : Protobuf} {PS : ProtobufSpec PB} : message_type :=
  fallible_message "MsgVote" nothing true schema only.

#[global] Instance message_lawful {PB : Protobuf} (PS : ProtobufSpec PB) : Lawful message.
Proof. solve_lawful decode_field fromJSON only. Qed.

End MsgVote.

(** ** [MsgVoteResponse] (cosmos/gov/v1beta1/tx.js) *)

Module MsgVoteResponse.

Record t := mk {}.

#[global] Instance t_eta : Settable t := λ m, m.

Definition base : t := mk.

Definition encode {PB : Protobuf} (message : t) (writer : Writer) : Writer :=
  writer.

Definition decode_field {PB : Protobuf} (tag : Z) (message : t) : RM t :=
  match field_number tag with
  | _ => _ ← skipType (wire_type tag); mret message
  end.

Definition decode {PB : Protobuf} (length : option Z) : RM t :=
  decode_message length base decode_field.

Definition fromJSON (object : js) : result t :=
  Ok base.

Definition toJSON (message : t) : js :=
  Obj [].

Record partial := mkPartial {}.

Definition fromPartial (object : partial) : t := base.

(** The object with no property given. *)
Definition nothing : partial := mkPartial.

(** The bytes [encode] writes. *)
Definition wire {PB : Protobuf} {PS : ProtobufSpec PB} (m : t) : bytes :=
  [].

Definition valid (m : t) : Prop :=
  True.

Definition encodable {PB : Protobuf} {PS : ProtobufSpec PB} (m : t) : Prop :=
  valid m ∧ small (wire m).

Definition merge (m a : t) : t := m.

(** A whole message seen as a partial one. *)
Definition full (m : t) : partial := mkPartial.

(** The message as its schema declares it. *)
Definition schema (m : t) : list field :=
  [].

(** The message with its default for every property that is not kept. *)
Definition only (kept : string → bool) (m : t) : t := m.

#[global] Instance codec {PB : Protobuf} : MessageCodec t :=
  {| msg_base := base; msg_encode := encode; msg_field := decode_field |}.

#[global] Program Instance spec {PB : Protobuf} (PS : ProtobufSpec PB) : MessageSpec PS t :=
  {| msg_wire := wire; msg_valid := valid; msg_merge := merge |}.
Next Obligation. solve_encode_wire. Qed.
Next Obligation. solve_decode_wire. Qed.
Next Obligation. solve_merge_base. Qed.
Next Obligation. intros. solve_advances decode_field. Qed.

#[global] Program Instance data : MessageData t partial :=
  {| msg_fromJSON := fromJSON; msg_toJSON := toJSON;
     msg_fromPartial := fromPartial; msg_full := full |}.
Next Obligation. solve_json fromJSON toJSON. Qed.
Next Obligation. solve_partial fromPartial full. Qed.

#[global] Instance schema_wire {PB : Protobuf} {PS : ProtobufSpec PB} : WireSchema wire schema.
Proof. solve_schema_wire wire schema. Qed.

#[global] Instance schema_merge : MergeSchema merge schema.
Proof. solve_schema_merge merge schema. Qed.

(** Its row in the table of message types. *)
Definition message {PB : Protobuf} {PS : ProtobufSpec PB} : message_type :=
  plain_message "MsgVoteResponse" nothing false schema only.

#[global] Instance message_lawful {PB : Protobuf} (PS : ProtobufSpec PB) : Lawful message.
Proof. solve_lawful decode_field fromJSON only. Qed.

End MsgVoteResponse.

(** ** [MsgVoteWeighted] (cosmos/gov/v1beta1/tx.js) *)

Module MsgVoteWeighted.

Record t := mk {
  proposalId : number;
  voter : string;
  options : list WeightedVoteOption.t;
}.

#[global] Instance t_eta : Settable t := λ m, mk m.(proposalId) m.(voter) m.(options).

Definition base : t := mk 0 "" [].

Definition encode {PB : Protobuf} (message : t) (writer : Writer) : result Writer :=
  Ok writer
  @>= pure (when (num_neq message.(proposalId) 0)
       (fun w => w @> uint32 8 @> uint64 message.(proposalId)))
  @>= pure (when (str_neq message.(voter) "") (fun w => w @> uint32 18 @> string_ message.(voter)))
  @>= each_e message.(options) (submessage 26 WeightedVoteOption.encode).

Definition decode_field {PB : Protobuf} (tag : Z) (message : t) : RM t :=
  match field_number tag with
  | 1 => v ← read_number read_uint64; mret (message <| proposalId := v |>)
  | 2 => v ← read_string; mret (message <| voter := v |>)
  | 3 => v ← read_nested WeightedVoteOption.decode;
         mret (message <| options := message.(options) ++ [v] |>)
  | _ => _ ← skipType (wire_type tag); mret message
  end.

Definition decode {PB : Protobuf} (length : option Z) : RM t :=
  decode_message length base decode_field.

Definition fromJSON (object : js) : result t :=
  proposalId' ← field_or object "proposalId" js_Number 0;
  voter' ← field_or object "voter" to_string "";
  options' ← field_or object "options" (to_list WeightedVoteOption.fromJSON) [];
  Ok (mk proposalId' voter' options').

Definition toJSON (message : t) : js :=
  Obj ([("proposalId", Num message.(proposalId));
    ("voter", Str message.(voter));
    ("options", Arr (map WeightedVoteOption.toJSON message.(options)))]).

Record partial := mkPartial {
  p_proposalId : option number;
  p_voter : option string;
  p_options : option (list WeightedVoteOption.partial);
}.

Definition fromPartial (object : partial) : t := {|
  proposalId := object.(p_proposalId) ?? Int 0;
  voter := object.(p_voter) ?? "";
  options := map WeightedVoteOption.fromPartial (object.(p_options) ?? []);
|}.

(** The object with no property given. *)
Definition nothing : partial := mkPartial None None None.

(** The bytes [encode] writes. *)
Definition wire {PB : Protobuf} {PS : ProtobufSpec PB} (m : t) : bytes :=
  f_number e_uint64 8 m.(proposalId) ++
  f_string 18 m.(voter) ++
  f_repeated 26 WeightedVoteOption.wire m.(options).

Definition valid (m : t) : Prop :=
  uint64_ok m.(proposalId) ∧ Forall WeightedVoteOption.valid m.(options).

(** The byte fields hold arrays, as the interface declares. *)
Definition typed (m : t) : bool := forallb WeightedVoteOption.typed m.(options).

(** The message without its empty byte arrays. *)
Definition normal (m : t) : t := {|
  proposalId := m.(proposalId);
  voter := m.(voter);
  options := map WeightedVoteOption.normal m.(options);
|}.

(** The enumeration fields hold members. *)
Definition named (m : t) : bool := forallb WeightedVoteOption.named m.(options).

(** The message with the numbers [toJSON] does not know replaced. *)
Definition known (m : t) : t := {|
  proposalId := m.(proposalId);
  voter := m.(voter);
  options := map WeightedVoteOption.known m.(options);
|}.

Definition encodable {PB : Protobuf} {PS : ProtobufSpec PB} (m : t) : Prop :=
  typed m = true ∧ valid m ∧ small (wire m).

Definition merge (m a : t) : t := {|
  proposalId := later_number m.(proposalId) a.(proposalId);
  voter := later_string m.(voter) a.(voter);
  options := m.(options) ++ map WeightedVoteOption.normal a.(options);
|}.

(** A whole message seen as a partial one. *)
Definition full (m : t) : partial := {|
  p_proposalId := Some m.(proposalId);
  p_voter := Some m.(voter);
  p_options := Some (map WeightedVoteOption.full m.(options));
|}.

(** The message as its schema declares it. *)
Definition schema (m : t) : list field :=
  [implicit 1 (VInt Uint64 m.(proposalId));
   implicit 2 (VString m.(voter));
   repeated 3 (message_value WeightedVoteOption.schema) m.(options)].

(** The message with its default for every property that is not kept. *)
Definition only (kept : string → bool) (m : t) : t := {|
  proposalId := if kept "proposalId" then m.(proposalId) else Int 0;
  voter := if kept "voter" then m.(voter) else "";
  options := if kept "options" then m.(options) else [];
|}.

#[global] Instance codec {PB : Protobuf} : FallibleCodec t :=
  {| fmsg_base := base; fmsg_encode := encode; fmsg_field := decode_field |}.

#[global] Program Instance spec {PB : Protobuf} (PS : ProtobufSpec PB) : FallibleSpec PS t :=
  {| fmsg_wire := wire; fmsg_valid := valid; fmsg_typed := typed; fmsg_normal := normal;
     fmsg_merge := merge |}.
Next Obligation. solve_fencode_wire. Qed.
Next Obligation. intros. solve_fencode_throws encode typed. Qed.
Next Obligation. solve_fdecode_wire. Qed.
Next Obligation. solve_fmerge_base. Qed.
Next Obligation. intros. solve_fadvances decode_field. Qed.

#[global] Program Instance given_ : FalliblePartial t partial :=
  {| fmsg_fromPartial := fromPartial; fmsg_full := full; fmsg_given := typed |}.
Next Obligation. solve_fgiven fromPartial typed. Qed.
Next Obligation. solve_fpartial fromPartial full typed. Qed.

#[global] Program Instance json : FallibleJson t :=
  {| fmsg_fromJSON := fromJSON; fmsg_toJSON := toJSON;
     fmsg_named := named; fmsg_known := known |}.
Next Obligation. solve_fjson fromJSON toJSON. Qed.
Next Obligation. solve_known named known. Qed.

#[global] Instance schema_wire {PB : Protobuf} {PS : ProtobufSpec PB} : WireSchema wire schema.
Proof. solve_schema_wire wire schema. Qed.

#[global] Instance schema_normal : NormalSchema normal schema.
Proof. solve_schema_normal normal schema. Qed.

#[global] Instance schema_merge : MergeSchema merge schema.
Proof. solve_schema_merge merge schema. Qed.

(** Its row in the table of message types. *)
Definition message {PB : Protobuf} {PS : ProtobufSpec PB} : message_type :=
  fallible_message "MsgVoteWeighted" nothing true schema only.

#[global] Instance message_lawful {PB : Protobuf} (PS : ProtobufSpec PB) : Lawful message.
Proof. solve_lawful decode_field fromJSON only. Qed.

End MsgVoteWeighted.

(** ** [MsgVoteWeightedResponse] (cosmos/gov/v1beta1/tx.js) *)

Module MsgVoteWeightedResponse.

Record t := mk {}.

#[global] Instance t_eta : Settable t := λ m, m.

Definition base : t := mk.

Definition encode {PB : Protobuf} (message : t) (writer : Writer) : Writer :=
  writer.

Definition decode_field {PB : Protobuf} (tag : Z) (message : t) : RM t :=
  match field_number tag with
  | _ => _ ← skipType (wire_type tag); mret message
  end.

Definition decode {PB : Protobuf} (length : option Z) : RM t :=
  decode_message length base decode_field.

Definition fromJSON (object : js) : result t :=
  Ok base.

Definition toJSON (message : t) : js :=
  Obj [].

Record partial := mkPartial {}.

Definition fromPartial (object : partial) : t := base.

(** The object with no property given. *)
Definition nothing : partial := mkPartial.

(** The bytes [encode] writes. *)
Definition wire {PB : Protobuf} {PS : ProtobufSpec PB} (m : t) : bytes :=
  [].

Definition valid (m : t) : Prop :=
  True.

Definition encodable {PB : Protobuf} {PS : ProtobufSpec PB} (m : t) : Prop :=
  valid m ∧ small (wire m).

Definition merge (m a : t) : t := m.

(** A whole message seen as a partial one. *)
Definition full (m : t) : partial := mkPartial.

(** The message as its schema declares it. *)
Definition schema (m : t) : list field :=
  [].

(** The message with its default for every property that is not kept. *)
Definition only (kept : string → bool) (m : t) : t := m.

#[global] Instance codec {PB : Protobuf} : MessageCodec t :=
  {| msg_base := base; msg_encode := encode; msg_field := decode_field |}.

#[global] Program Instance spec {PB : Protobuf} (PS : ProtobufSpec PB) : MessageSpec PS t :=
  {| msg_wire := wire; msg_valid := valid; msg_merge := merge |}.
Next Obligation. solve_encode_wire. Qed.
Next Obligation. solve_decode_wire. Qed.
Next Obligation. solve_merge_base. Qed.
Next Obligation. intros. solve_advances decode_field. Qed.

#[global] Program Instance data : MessageData t partial :=
  {| msg_fromJSON := fromJSON; msg_toJSON := toJSON;
     msg_fromPartial := fromPartial; msg_full := full |}.
Next Obligation. solve_json fromJSON toJSON. Qed.
Next Obligation. solve_partial fromPartial full. Qed.

#[global] Instance schema_wire {PB : Protobuf} {PS : ProtobufSpec PB} : WireSchema wire schema.
Proof. solve_schema_wire wire schema. Qed.

#[global] Instance schema_merge : MergeSchema merge schema.
Proof. solve_schema_merge merge schema. Qed.

(** Its row in the table of message types. *)
Definition message {PB : Protobuf} {PS : ProtobufSpec PB} : message_type :=
  plain_message "MsgVoteWeightedResponse" nothing false schema only.

#[global] Instance message_lawful {PB : Protobuf} (PS : ProtobufSpec PB) : Lawful message.
Proof. solve_lawful decode_field fromJSON only. Qed.

End MsgVoteWeightedResponse.

(** ** [MsgDeposit] (cosmos/gov/v1beta1/tx.js) *)

Module MsgDeposit.

Record t := mk {
  proposalId : number;
  depositor : string;
  amount : list Coin.t;
}.

#[global] Instance t_eta : Settable t := λ m, mk m.(proposalId) m.(depositor) m.(amount).

Definition base : t := mk 0 "" [].

Definition encode {PB : Protobuf} (message : t) (writer : Writer) : Writer :=
  writer
  @> when (num_neq message.(proposalId) 0) (fun w => w @> uint32 8 @> uint64 message.(proposalId))
  @> when (str_neq message.(depositor) "") (fun w => w @> uint32 18 @> string_ message.(depositor))
  @> each message.(amount) (fun v w => w @> uint32 26 @> fork @> Coin.encode v @> ldelim).

Definition decode_field {PB : Protobuf} (tag : Z) (message : t) : RM t :=
  match field_number tag with
  | 1 => v ← read_number read_uint64; mret (message <| proposalId := v |>)
  | 2 => v ← read_string; mret (message <| depositor := v |>)
  | 3 => v ← read_nested Coin.decode; mret (message <| amount := message.(amount) ++ [v] |>)
  | _ => _ ← skipType (wire_type tag); mret message
  end.

Definition decode {PB : Protobuf} (length : option Z) : RM t :=
  decode_message length base decode_field.

Definition fromJSON (object : js) : result t :=
  proposalId' ← field_or object "proposalId" js_Number 0;
  depositor' ← field_or object "depositor" to_string "";
  amount' ← field_or object "amount" (to_list Coin.fromJSON) [];
  Ok (mk proposalId' depositor' amount').

Definition toJSON (message : t) : js :=
  Obj ([("proposalId", Num message.(proposalId));
    ("depositor", Str message.(depositor));
    ("amount", Arr (map Coin.toJSON message.(amount)))]).

Record partial := mkPartial {
  p_proposalId : option number;
  p_depositor : option string;
  p_amount : option (list Coin.partial);
}.

Definition fromPartial (object : partial) : t := {|
  proposalId := object.(p_proposalId) ?? Int 0;
  depositor := object.(p_depositor) ?? "";
  amount := map Coin.fromPartial (object.(p_amount) ?? []);
|}.

(** The object with no property given. *)
Definition nothing : partial := mkPartial None None None.

(** The bytes [encode] writes. *)
Definition wire {PB : Protobuf} {PS : ProtobufSpec PB} (m : t) : bytes :=
  f_number e_uint64 8 m.(proposalId) ++
  f_string 18 m.(depositor) ++
  f_repeated 26 Coin.wire m.(amount).

Definition valid (m : t) : Prop :=
  uint64_ok m.(proposalId) ∧ Forall Coin.valid m.(amount).

Definition encodable {PB : Protobuf} {PS : ProtobufSpec PB} (m : t) : Prop :=
  valid m ∧ small (wire m).

Definition merge (m a : t) : t := {|
  proposalId := later_number m.(proposalId) a.(proposalId);
  depositor := later_string m.(depositor) a.(depositor);
  amount := m.(amount) ++ a.(amount);
|}.

(** A whole message seen as a partial one. *)
Definition full (m : t) : partial := {|
  p_proposalId := Some m.(proposalId);
  p_depositor := Some m.(depositor);
  p_amount := Some (map Coin.full m.(amount));
|}.

(** The message as its schema declares it. *)
Definition schema (m : t) : list field :=
  [implicit 1 (VInt Uint64 m.(proposalId));
   implicit 2 (VString m.(depositor));
   repeated 3 (message_value Coin.schema) m.(amount)].

(** The message with its default for every property that is not kept. *)
Definition only (kept : string → bool) (m : t) : t := {|
  proposalId := if kept "proposalId" then m.(proposalId) else Int 0;
  depositor := if kept "depositor" then m.(depositor) else "";
  amount := if kept "amount" then m.(amount) else [];
|}.

#[global] Instance codec {PB : Protobuf} : MessageCodec t :=
  {| msg_base := base; msg_encode := encode; msg_field := decode_field |}.

#[global] Program Instance spec {PB : Protobuf} (PS : ProtobufSpec PB) : MessageSpec PS t :=
  {| msg_wire := wire; msg_valid := valid; msg_merge := merge |}.
Next Obligation. solve_encode_wire. Qed.
Next Obligation. solve_decode_wire. Qed.
Next Obligation. solve_merge_base. Qed.
Next Obligation. intros. solve_advances decode_field. Qed.

#[global] Program Instance data : MessageData t partial :=
  {| msg_fromJSON := fromJSON; msg_toJSON := toJSON;
     msg_fromPartial := fromPartial; msg_full := full |}.
Next Obligation. solve_json fromJSON toJSON. Qed.
Next Obligation. solve_partial fromPartial full. Qed.

#[global] Instance schema_wire {PB : Protobuf} {PS : ProtobufSpec PB} : WireSchema wire schema.
Proof. solve_schema_wire wire schema. Qed.

#[global] Instance schema_merge : MergeSchema merge schema.
Proof. solve_schema_merge merge schema. Qed.

(** Its row in the table of message types. *)
Definition message {PB : Protobuf} {PS : ProtobufSpec PB} : message_type :=
  plain_message "MsgDeposit" nothing true schema only.

#[global] Instance message_lawful {PB : Protobuf} (PS : ProtobufSpec PB) : Lawful message.
Proof. solve_lawful decode_field fromJSON only. Qed.

End MsgDeposit.

(** ** [MsgDepositResponse] (cosmos/gov/v1beta1/tx.js) *)

Module MsgDepositResponse.

Record t := mk {}.

#[global] Instance t_eta : Settable t := λ m, m.

Definition base : t := mk.

Definition encode {PB : Protobuf} (message : t) (writer : Writer) : Writer :=
  writer.

Definition decode_field {PB : Protobuf} (tag : Z) (message : t) : RM t :=
  match field_number tag with
  | _ => _ ← skipType (wire_type tag); mret message
  end.

Definition decode {PB : Protobuf} (length : option Z) : RM t :=
  decode_message length base decode_field.

Definition fromJSON (object : js) : result t :=
  Ok base.

Definition toJSON (message : t) : js :=
  Obj [].

Record partial := mkPartial {}.

Definition fromPartial (object : partial) : t := base.

(** The object with no property given. *)
Definition nothing : partial := mkPartial.

(** The bytes [encode] writes. *)
Definition wire {PB : Protobuf} {PS : ProtobufSpec PB} (m : t) : bytes :=
  [].

Definition valid (m : t) : Prop :=
  True.

Definition encodable {PB : Protobuf} {PS : ProtobufSpec PB} (m : t) : Prop :=
  valid m ∧ small (wire m).

Definition merge (m a : t) : t := m.

(** A whole message seen as a partial one. *)
Definition full (m : t) : partial := mkPartial.

(** The message as its schema declares it. *)
Definition schema (m : t) : list field :=
  [].

(** The message with its default for every property that is not kept. *)
Definition only (kept : string → bool) (m : t) : t := m.

#[global] Instance codec {PB : Protobuf} : MessageCodec t :=
  {| msg_base := base; msg_encode := encode; msg_field := decode_field |}.

#[global] Program Instance spec {PB : Protobuf} (PS : ProtobufSpec PB) : MessageSpec PS t :=
  {| msg_wire := wire; msg_valid := valid; msg_merge := merge |}.
Next Obligation. solve_encode_wire. Qed.
Next Obligation. solve_decode_wire. Qed.
Next Obligation. solve_merge_base. Qed.
Next Obligation. intros. solve_advances decode_field. Qed.

#[global] Program Instance data : MessageData t partial :=
  {| msg_fromJSON := fromJSON; msg_toJSON := toJSON;
     msg_fromPartial := fromPartial; msg_full := full |}.
Next Obligation. solve_json fromJSON toJSON. Qed.
Next Obligation. solve_partial fromPartial full. Qed.

#[global] Instance schema_wire {PB : Protobuf} {PS : ProtobufSpec PB} : WireSchema wire schema.
Proof. solve_schema_wire wire schema. Qed.

#[global] Instance schema_merge : MergeSchema merge schema.
Proof. solve_schema_merge merge schema. Qed.

(** Its row in the table of message types. *)
Definition message {PB : Protobuf} {PS : ProtobufSpec PB} : message_type :=
  plain_message "MsgDepositResponse" nothing false schema only.

#[global] Instance message_lawful {PB : Protobuf} (PS : ProtobufSpec PB) : Lawful message.
Proof. solve_lawful decode_field fromJSON only. Qed.

End MsgDepositResponse.

(** ** [QueryProposalRequest] (cosmos/gov/v1beta1/query.js) *)

Module QueryProposalRequest.

Record t := mk {
  proposalId : number;
}.

#[global] Instance t_eta : Settable t := λ m, mk m.(proposalId).

Definition base : t := mk 0.

Definition encode {PB : Protobuf} (message : t) (writer : Writer) : Writer :=
  writer
  @> when (num_neq message.(proposalId) 0) (fun w => w @> uint32 8 @> uint64 message.(proposalId)).

Definition decode_field {PB : Protobuf} (tag : Z) (message : t) : RM t :=
  match field_number tag with
  | 1 => v ← read_number read_uint64; mret (message <| proposalId := v |>)
  | _ => _ ← skipType (wire_type tag); mret message
  end.

Definition decode {PB : Protobuf} (length : option Z) : RM t :=
  decode_message length base decode_field.

Definition fromJSON (object : js) : result t :=
  proposalId' ← field_or object "proposalId" js_Number 0;
  Ok (mk proposalId').

Definition toJSON (message : t) : js :=
  Obj ([("proposalId", Num message.(proposalId))]).

Record partial := mkPartial {
  p_proposalId : option number;
}.

Definition fromPartial (object : partial) : t := {|
  proposalId := object.(p_proposalId) ?? Int 0;
|}.

(** The object with no property given. *)
Definition nothing : partial := mkPartial None.

(** The bytes [encode] writes. *)
Definition wire {PB : Protobuf} {PS : ProtobufSpec PB} (m : t) : bytes :=
  f_number e_uint64 8 m.(proposalId).

Definition valid (m : t) : Prop :=
  uint64_ok m.(proposalId).

Definition encodable {PB : Protobuf} {PS : ProtobufSpec PB} (m : t) : Prop :=
  valid m ∧ small (wire m).

Definition merge (m a : t) : t := {|
  proposalId := later_number m.(proposalId) a.(proposalId);
|}.

(** A whole message seen as a partial one. *)
Definition full (m : t) : partial := {|
  p_proposalId := Some m.(proposalId);
|}.

(** The message as its schema declares it. *)
Definition schema (m : t) : list field :=
  [implicit 1 (VInt Uint64 m.(proposalId))].

(** The message with its default for every property that is not kept. *)
Definition only (kept : string → bool) (m : t) : t := {|
  proposalId := if kept "proposalId" then m.(proposalId) else Int 0;
|}.

#[global] Instance codec {PB : Protobuf} : MessageCodec t :=
  {| msg_base := base; msg_encode := encode; msg_field := decode_field |}.

#[global] Program Instance spec {PB : Protobuf} (PS : ProtobufSpec PB) : MessageSpec PS t :=
  {| msg_wire := wire; msg_valid := valid; msg_merge := merge |}.
Next Obligation. solve_encode_wire. Qed.
Next Obligation. solve_decode_wire. Qed.
Next Obligation. solve_merge_base. Qed.
Next Obligation. intros. solve_advances decode_field. Qed.

#[global] Program Instance data : MessageData t partial :=
  {| msg_fromJSON := fromJSON; msg_toJSON := toJSON;
     msg_fromPartial := fromPartial; msg_full := full |}.
Next Obligation. solve_json fromJSON toJSON. Qed.
Next Obligation. solve_partial fromPartial full. Qed.

#[global] Instance schema_wire {PB : Protobuf} {PS : ProtobufSpec PB} : WireSchema wire schema.
Proof. solve_schema_wire wire schema. Qed.

#[global] Instance schema_merge : MergeSchema merge schema.
Proof. solve_schema_merge merge schema. Qed.

(** Its row in the table of message types. *)
Definition message {PB : Protobuf} {PS : ProtobufSpec PB} : message_type :=
  plain_message "QueryProposalRequest" nothing true schema only.

#[global] Instance message_lawful {PB : Protobuf} (PS : ProtobufSpec PB) : Lawful message.
Proof. solve_lawful decode_field fromJSON only. Qed.

End QueryProposalRequest.

(** ** [QueryProposalResponse] (cosmos/gov/v1beta1/query.js) *)

Module QueryProposalResponse.

Record t := mk {
  proposal : option Proposal.t;
}.

#[global] Instance t_eta : Settable t := λ m, mk m.(proposal).

Definition base : t := mk None.

Definition encode {PB : Protobuf} (message : t) (writer : Writer) : result Writer :=
  Ok writer
  @>= defined_e message.(proposal) (submessage 10 Proposal.encode).

Definition decode_field {PB : Protobuf} (tag : Z) (message : t) : RM t :=
  match field_number tag with
  | 1 => v ← read_nested Proposal.decode; mret (message <| proposal := Some v |>)
  | _ => _ ← skipType (wire_type tag); mret message
  end.

Definition decode {PB : Protobuf} (length : option Z) : RM t :=
  decode_message length base decode_field.

Definition fromJSON (object : js) : result t :=
  proposal' ← field_or object "proposal" (to_some Proposal.fromJSON) None;
  Ok (mk proposal').

Definition toJSON (message : t) : result js :=
  proposal' ← option_result Proposal.toJSON message.(proposal);
  Ok (Obj (prop_opt "proposal" id proposal')).

Record partial := mkPartial {
  p_proposal : option Proposal.partial;
}.

Definition fromPartial (object : partial) : t := {|
  proposal := Proposal.fromPartial <$> object.(p_proposal);
|}.

(** The object with no property given. *)
Definition nothing : partial := mkPartial None.

(** The bytes [encode] writes. *)
Definition wire {PB : Protobuf} {PS : ProtobufSpec PB} (m : t) : bytes :=
  f_message 10 Proposal.wire m.(proposal).

Definition valid (m : t) : Prop :=
  from_option Proposal.valid True m.(proposal).

(** The byte fields hold arrays, as the interface declares. *)
Definition typed (m : t) : bool := from_option Proposal.typed true m.(proposal).

(** The message without its empty byte arrays. *)
Definition normal (m : t) : t := {|
  proposal := Proposal.normal <$> m.(proposal);
|}.

(** The dates are valid. *)
Definition timed (m : t) : bool := from_option Proposal.timed true m.(proposal).

(** The enumeration fields hold members. *)
Definition named (m : t) : bool := from_option Proposal.named true m.(proposal).

(** The message with the numbers [toJSON] does not know replaced. *)
Definition known (m : t) : t := {|
  proposal := Proposal.known <$> m.(proposal);
|}.

Definition encodable {PB : Protobuf} {PS : ProtobufSpec PB} (m : t) : Prop :=
  typed m = true ∧ valid m ∧ small (wire m).

Definition merge (m a : t) : t := {|
  proposal := later_message m.(proposal) (Proposal.normal <$> a.(proposal));
|}.

(** A whole message seen as a partial one. *)
Definition full (m : t) : partial := {|
  p_proposal := Proposal.full <$> m.(proposal);
|}.

(** The message as its schema declares it. *)
Definition schema (m : t) : list field :=
  [singular 1 Optional (message_value Proposal.schema) m.(proposal)].

(** The message with its default for every property that is not kept. *)
Definition only (kept : string → bool) (m : t) : t := {|
  proposal := if kept "proposal" then m.(proposal) else None;
|}.

#[global] Instance codec {PB : Protobuf} : FallibleCodec t :=
  {| fmsg_base := base; fmsg_encode := encode; fmsg_field := decode_field |}.

#[global] Program Instance spec {PB : Protobuf} (PS : ProtobufSpec PB) : FallibleSpec PS t :=
  {| fmsg_wire := wire; fmsg_valid := valid; fmsg_typed := typed; fmsg_normal := normal;
     fmsg_merge := merge |}.
Next Obligation. solve_fencode_wire. Qed.
Next Obligation. intros. solve_fencode_throws encode typed. Qed.
Next Obligation. solve_fdecode_wire. Qed.
Next Obligation. solve_fmerge_base. Qed.
Next Obligation. intros. solve_fadvances decode_field. Qed.

#[global] Program Instance given_ : FalliblePartial t partial :=
  {| fmsg_fromPartial := fromPartial; fmsg_full := full; fmsg_given := typed |}.
Next Obligation. solve_fgiven fromPartial typed. Qed.
Next Obligation. solve_fpartial fromPartial full typed. Qed.

#[global] Program Instance json : DatedJson t :=
  {| dmsg_fromJSON := fromJSON; dmsg_toJSON := toJSON; dmsg_timed := timed;
     dmsg_named := named; dmsg_known := known |}.
Next Obligation. solve_djson fromJSON toJSON timed. Qed.
Next Obligation. solve_dthrows toJSON timed. Qed.
Next Obligation. solve_known named known. Qed.

#[global] Instance schema_wire {PB : Protobuf} {PS : ProtobufSpec PB} : WireSchema wire schema.
Proof. solve_schema_wire wire schema. Qed.

#[global] Instance schema_normal : NormalSchema normal schema.
Proof. solve_schema_normal normal schema. Qed.

#[global] Instance schema_merge : MergeSchema merge schema.
Proof. solve_schema_merge merge schema. Qed.

(** Its row in the table of message types. *)
Definition message {PB : Protobuf} {PS : ProtobufSpec PB} : message_type :=
  dated_message "QueryProposalResponse" nothing true schema only.

#[global] Instance message_lawful {PB : Protobuf} (PS : ProtobufSpec PB) : Lawful message.
Proof. solve_lawful decode_field fromJSON only. Qed.

End QueryProposalResponse.

(** ** [QueryProposalsRequest] (cosmos/gov/v1beta1/query.js) *)

Module QueryProposalsRequest.

Record t := mk {
  proposalStatus : number;
  voter : string;
  depositor : string;
  pagination : option PageRequest.t;
}.

#[global] Instance t_eta : Settable t := λ m, mk m.(proposalStatus) m.(voter) m.(depositor)
  m.(pagination).

Definition base : t := mk 0 "" "" None.

Definition encode {PB : Protobuf} (message : t) (writer : Writer) : result Writer :=
  Ok writer
  @>= pure (when (num_neq message.(proposalStatus) 0)
       (fun w => w @> uint32 8 @> int32 message.(proposalStatus)))
  @>= pure (when (str_neq message.(voter) "") (fun w => w @> uint32 18 @> string_ message.(voter)))
  @>= pure (when (str_neq message.(depositor) "")
       (fun w => w @> uint32 26 @> string_ message.(depositor)))
  @>= defined_e message.(pagination) (submessage 34 PageRequest.encode).

Definition decode_field {PB : Protobuf} (tag : Z) (message : t) : RM t :=
  match field_number tag with
  | 1 => v ← read_int32; mret (message <| proposalStatus := Int v |>)
  | 2 => v ← read_string; mret (message <| voter := v |>)
  | 3 => v ← read_string; mret (message <| depositor := v |>)
  | 4 => v ← read_nested PageRequest.decode; mret (message <| pagination := Some v |>)
  | _ => _ ← skipType (wire_type tag); mret message
  end.

Definition decode {PB : Protobuf} (length : option Z) : RM t :=
  decode_message length base decode_field.

Definition fromJSON (object : js) : result t :=
  proposalStatus' ← field_or object "proposalStatus" proposalStatusFromJSON 0;
  voter' ← field_or object "voter" to_string "";
  depositor' ← field_or object "depositor" to_string "";
  pagination' ← field_or object "pagination" (to_some PageRequest.fromJSON) None;
  Ok (mk proposalStatus' voter' depositor' pagination').

Definition toJSON (message : t) : js :=
  Obj ([("proposalStatus", Str (proposalStatusToJSON message.(proposalStatus)));
    ("voter", Str message.(voter));
    ("depositor", Str message.(depositor))] ++
   prop_opt "pagination" PageRequest.toJSON message.(pagination)).

Record partial := mkPartial {
  p_proposalStatus : option number;
  p_voter : option string;
  p_depositor : option string;
  p_pagination : option PageRequest.partial;
}.

Definition fromPartial (object : partial) : t := {|
  proposalStatus := object.(p_proposalStatus) ?? Int 0;
  voter := object.(p_voter) ?? "";
  depositor := object.(p_depositor) ?? "";
  pagination := PageRequest.fromPartial <$> object.(p_pagination);
|}.

(** The object with no property given. *)
Definition nothing : partial := mkPartial None None None None.

(** The bytes [encode] writes. *)
Definition wire {PB : Protobuf} {PS : ProtobufSpec PB} (m : t) : bytes :=
  f_number e_int32 8 m.(proposalStatus) ++
  f_string 18 m.(voter) ++
  f_string 26 m.(depositor) ++
  f_message 34 PageRequest.wire m.(pagination).

Definition valid (m : t) : Prop :=
  int32_ok m.(proposalStatus) ∧ from_option PageRequest.valid True m.(pagination).

(** The byte fields hold arrays, as the interface declares. *)
Definition typed (m : t) : bool := from_option PageRequest.typed true m.(pagination).

(** The message without its empty byte arrays. *)
Definition normal (m : t) : t := {|
  proposalStatus := m.(proposalStatus);
  voter := m.(voter);
  depositor := m.(depositor);
  pagination := PageRequest.normal <$> m.(pagination);
|}.

(** The enumeration fields hold members. *)
Definition named (m : t) : bool := proposalStatus_named m.(proposalStatus).

(** The message with the numbers [toJSON] does not know replaced. *)
Definition known (m : t) : t := {|
  proposalStatus := proposalStatus_known m.(proposalStatus);
  voter := m.(voter);
  depositor := m.(depositor);
  pagination := m.(pagination);
|}.

Definition encodable {PB : Protobuf} {PS : ProtobufSpec PB} (m : t) : Prop :=
  typed m = true ∧ valid m ∧ small (wire m).

Definition merge (m a : t) : t := {|
  proposalStatus := later_number m.(proposalStatus) a.(proposalStatus);
  voter := later_string m.(voter) a.(voter);
  depositor := later_string m.(depositor) a.(depositor);
  pagination := later_message m.(pagination) (PageRequest.normal <$> a.(pagination));
|}.

(** A whole message seen as a partial one. *)
Definition full (m : t) : partial := {|
  p_proposalStatus := Some m.(proposalStatus);
  p_voter := Some m.(voter);
  p_depositor := Some m.(depositor);
  p_pagination := PageRequest.full <$> m.(pagination);
|}.

(** The message as its schema declares it. *)
Definition schema (m : t) : list field :=
  [implicit 1 (VInt Int32 m.(proposalStatus));
   implicit 2 (VString m.(voter));
   implicit 3 (VString m.(depositor));
   singular 4 Optional (message_value PageRequest.schema) m.(pagination)].

(** The message with its default for every property that is not kept. *)
Definition only (kept : string → bool) (m : t) : t := {|
  proposalStatus := if kept "proposalStatus" then m.(proposalStatus) else Int 0;
  voter := if kept "voter" then m.(voter) else "";
  depositor := if kept "depositor" then m.(depositor) else "";
  pagination := if kept "pagination" then m.(pagination) else None;
|}.

#[global] Instance codec {PB : Protobuf} : FallibleCodec t :=
  {| fmsg_base := base; fmsg_encode := encode; fmsg_field := decode_field |}.

#[global] Program Instance spec {PB : Protobuf} (PS : ProtobufSpec PB) : FallibleSpec PS t :=
  {| fmsg_wire := wire; fmsg_valid := valid; fmsg_typed := typed; fmsg_normal := normal;
     fmsg_merge := merge |}.
Next Obligation. solve_fencode_wire. Qed.
Next Obligation. intros. solve_fencode_throws encode typed. Qed.
Next Obligation. solve_fdecode_wire. Qed.
Next Obligation. solve_fmerge_base. Qed.
Next Obligation. intros. solve_fadvances decode_field. Qed.

#[global] Program Instance given_ : FalliblePartial t partial :=
  {| fmsg_fromPartial := fromPartial; fmsg_full := full; fmsg_given := typed |}.
Next Obligation. solve_fgiven fromPartial typed. Qed.
Next Obligation. solve_fpartial fromPartial full typed. Qed.

#[global] Program Instance json : FallibleJson t :=
  {| fmsg_fromJSON := fromJSON; fmsg_toJSON := toJSON;
     fmsg_named := named; fmsg_known := known |}.
Next Obligation. solve_fjson fromJSON toJSON. Qed.
Next Obligation. solve_known named known. Qed.

#[global] Instance schema_wire {PB : Protobuf} {PS : ProtobufSpec PB} : WireSchema wire schema.
Proof. solve_schema_wire wire schema. Qed.

#[global] Instance schema_normal : NormalSchema normal schema.
Proof. solve_schema_normal normal schema. Qed.

#[global] Instance schema_merge : MergeSchema merge schema.
Proof. solve_schema_merge merge schema. Qed.

(** Its row in the table of message types. *)
Definition message {PB : Protobuf} {PS : ProtobufSpec PB} : message_type :=
  fallible_message "QueryProposalsRequest" nothing true schema only.

#[global] Instance message_lawful {PB : Protobuf} (PS : ProtobufSpec PB) : Lawful message.
Proof. solve_lawful decode_field fromJSON only. Qed.

End QueryProposalsRequest.

(** ** [QueryProposalsResponse] (cosmos/gov/v1beta1/query.js) *)

Module QueryProposalsResponse.

Record t := mk {
  proposals : list Proposal.t;
  pagination : option PageResponse.t;
}.

#[global] Instance t_eta : Settable t := λ m, mk m.(proposals) m.(pagination).

Definition base : t := mk [] None.

Definition encode {PB : Protobuf} (message : t) (writer : Writer) : result Writer :=
  Ok writer
  @>= each_e message.(proposals) (submessage 10 Proposal.encode)
  @>= defined_e message.(pagination) (submessage 18 PageResponse.encode).

Definition decode_field {PB : Protobuf} (tag : Z) (message : t) : RM t :=
  match field_number tag with
  | 1 => v ← read_nested Proposal.decode;
         mret (message <| proposals := message.(proposals) ++ [v] |>)
  | 2 => v ← read_nested PageResponse.decode; mret (message <| pagination := Some v |>)
  | _ => _ ← skipType (wire_type tag); mret message
  end.

Definition decode {PB : Protobuf} (length : option Z) : RM t :=
  decode_message length base decode_field.

Definition fromJSON (object : js) : result t :=
  proposals' ← field_or object "proposals" (to_list Proposal.fromJSON) [];
  pagination' ← field_or object "pagination" (to_some PageResponse.fromJSON) None;
  Ok (mk proposals' pagination').

Definition toJSON (message : t) : result js :=
  proposals' ← result_map Proposal.toJSON message.(proposals);
  Ok (Obj ([("proposals", Arr proposals')] ++
   prop_opt "pagination" PageResponse.toJSON message.(pagination))).

Record partial := mkPartial {
  p_proposals : option (list Proposal.partial);
  p_pagination : option PageResponse.partial;
}.

Definition fromPartial (object : partial) : t := {|
  proposals := map Proposal.fromPartial (object.(p_proposals) ?? []);
  pagination := PageResponse.fromPartial <$> object.(p_pagination);
|}.

(** The object with no property given. *)
Definition nothing : partial := mkPartial None None.

(** The bytes [encode] writes. *)
Definition wire {PB : Protobuf} {PS : ProtobufSpec PB} (m : t) : bytes :=
  f_repeated 10 Proposal.wire m.(proposals) ++
  f_message 18 PageResponse.wire m.(pagination).

Definition valid (m : t) : Prop :=
  Forall Proposal.valid m.(proposals) ∧ from_option PageResponse.valid True m.(pagination).

(** The byte fields hold arrays, as the interface declares. *)
Definition typed (m : t) : bool := forallb Proposal.typed m.(proposals) && from_option PageResponse.typed true m.(pagination).

(** The message without its empty byte arrays. *)
Definition normal (m : t) : t := {|
  proposals := map Proposal.normal m.(proposals);
  pagination := PageResponse.normal <$> m.(pagination);
|}.

(** The dates are valid. *)
Definition timed (m : t) : bool := forallb Proposal.timed m.(proposals).

(** The enumeration fields hold members. *)
Definition named (m : t) : bool := forallb Proposal.named m.(proposals).

(** The message with the numbers [toJSON] does not know replaced. *)
Definition known (m : t) : t := {|
  proposals := map Proposal.known m.(proposals);
  pagination := m.(pagination);
|}.

Definition encodable {PB : Protobuf} {PS : ProtobufSpec PB} (m : t) : Prop :=
  typed m = true ∧ valid m ∧ small (wire m).

Definition merge (m a : t) : t := {|
  proposals := m.(proposals) ++ map Proposal.normal a.(proposals);
  pagination := later_message m.(pagination) (PageResponse.normal <$> a.(pagination));
|}.

(** A whole message seen as a partial one. *)
Definition full (m : t) : partial := {|
  p_proposals := Some (map Proposal.full m.(proposals));
  p_pagination := PageResponse.full <$> m.(pagination);
|}.

(** The message as its schema declares it. *)
Definition schema (m : t) : list field :=
  [repeated 1 (message_value Proposal.schema) m.(proposals);
   singular 2 Optional (message_value PageResponse.schema) m.(pagination)].

(** The message with its default for every property that is not kept. *)
Definition only (kept : string → bool) (m : t) : t := {|
  proposals := if kept "proposals" then m.(proposals) else [];
  pagination := if kept "pagination" then m.(pagination) else None;
|}.

#[global] Instance codec {PB : Protobuf} : FallibleCodec t :=
  {| fmsg_base := base; fmsg_encode := encode; fmsg_field := decode_field |}.

#[global] Program Instance spec {PB : Protobuf} (PS : ProtobufSpec PB) : FallibleSpec PS t :=
  {| fmsg_wire := wire; fmsg_valid := valid; fmsg_typed := typed; fmsg_normal := normal;
     fmsg_merge := merge |}.
Next Obligation. solve_fencode_wire. Qed.
Next Obligation. intros. solve_fencode_throws encode typed. Qed.
Next Obligation. solve_fdecode_wire. Qed.
Next Obligation. solve_fmerge_base. Qed.
Next Obligation. intros. solve_fadvances decode_field. Qed.

#[global] Program Instance given_ : FalliblePartial t partial :=
  {| fmsg_fromPartial := fromPartial; fmsg_full := full; fmsg_given := typed |}.
Next Obligation. solve_fgiven fromPartial typed. Qed.
Next Obligation. solve_fpartial fromPartial full typed. Qed.

#[global] Program Instance json : DatedJson t :=
  {| dmsg_fromJSON := fromJSON; dmsg_toJSON := toJSON; dmsg_timed := timed;
     dmsg_named := named; dmsg_known := known |}.
Next Obligation. solve_djson fromJSON toJSON timed. Qed.
Next Obligation. solve_dthrows toJSON timed. Qed.
Next Obligation. solve_known named known. Qed.

#[global] Instance schema_wire {PB : Protobuf} {PS : ProtobufSpec PB} : WireSchema wire schema.
Proof. solve_schema_wire wire schema. Qed.

#[global] Instance schema_normal : NormalSchema normal schema.
Proof. solve_schema_normal normal schema. Qed.

#[global] Instance schema_merge : MergeSchema merge schema.
Proof. solve_schema_merge merge schema. Qed.

(** Its row in the table of message types. *)
Definition message {PB : Protobuf} {PS : ProtobufSpec PB} : message_type :=
  dated_message "QueryProposalsResponse" nothing true schema only.

#[global] Instance message_lawful {PB : Protobuf} (PS : ProtobufSpec PB) : Lawful message.
Proof. solve_lawful decode_field fromJSON only. Qed.

End QueryProposalsResponse.

(** ** [QueryVoteRequest] (cosmos/gov/v1beta1/query.js) *)

Module QueryVoteRequest.

Record t := mk {
  proposalId : number;
  voter : string;
}.

#[global] Instance t_eta : Settable t := λ m, mk m.(proposalId) m.(voter).

Definition base : t := mk 0 "".

Definition encode {PB : Protobuf} (message : t) (writer : Writer) : Writer :=
  writer
  @> when (num_neq message.(proposalId) 0) (fun w => w @> uint32 8 @> uint64 message.(proposalId))
  @> when (str_neq message.(voter) "") (fun w => w @> uint32 18 @> string_ message.(voter)).

Definition decode_field {PB : Protobuf} (tag : Z) (message : t) : RM t :=
  match field_number tag with
  | 1 => v ← read_number read_uint64; mret (message <| proposalId := v |>)
  | 2 => v ← read_string; mret (message <| voter := v |>)
  | _ => _ ← skipType (wire_type tag); mret message
  end.

Definition decode {PB : Protobuf} (length : option Z) : RM t :=
  decode_message length base decode_field.

Definition fromJSON (object : js) : result t :=
  proposalId' ← field_or object "proposalId" js_Number 0;
  voter' ← field_or object "voter" to_string "";
  Ok (mk proposalId' voter').

Definition toJSON (message : t) : js :=
  Obj ([("proposalId", Num message.(proposalId));
    ("voter", Str message.(voter))]).

Record partial := mkPartial {
  p_proposalId : option number;
  p_voter : option string;
}.

Definition fromPartial (object : partial) : t := {|
  proposalId := object.(p_proposalId) ?? Int 0;
  voter := object.(p_voter) ?? "";
|}.

(** The object with no property given. *)
Definition nothing : partial := mkPartial None None.

(** The bytes [encode] writes. *)
Definition wire {PB : Protobuf} {PS : ProtobufSpec PB} (m : t) : bytes :=
  f_number e_uint64 8 m.(proposalId) ++
  f_string 18 m.(voter).

Definition valid (m : t) : Prop :=
  uint64_ok m.(proposalId).

Definition encodable {PB : Protobuf} {PS : ProtobufSpec PB} (m : t) : Prop :=
  valid m ∧ small (wire m).

Definition merge (m a : t) : t := {|
  proposalId := later_number m.(proposalId) a.(proposalId);
  voter := later_string m.(voter) a.(voter);
|}.

(** A whole message seen as a partial one. *)
Definition full (m : t) : partial := {|
  p_proposalId := Some m.(proposalId);
  p_voter := Some m.(voter);
|}.

(** The message as its schema declares it. *)
Definition schema (m : t) : list field :=
  [implicit 1 (VInt Uint64 m.(proposalId));
   implicit 2 (VString m.(voter))].

(** The message with its default for every property that is not kept. *)
Definition only (kept : string → bool) (m : t) : t := {|
  proposalId := if kept "proposalId" then m.(proposalId) else Int 0;
  voter := if kept "voter" then m.(voter) else "";
|}.

#[global] Instance codec {PB : Protobuf} : MessageCodec t :=
  {| msg_base := base; msg_encode := encode; msg_field := decode_field |}.

#[global] Program Instance spec {PB : Protobuf} (PS : ProtobufSpec PB) : MessageSpec PS t :=
  {| msg_wire := wire; msg_valid := valid; msg_merge := merge |}.
Next Obligation. solve_encode_wire. Qed.
Next Obligation. solve_decode_wire. Qed.
Next Obligation. solve_merge_base. Qed.
Next Obligation. intros. solve_advances decode_field. Qed.

#[global] Program Instance data : MessageData t partial :=
  {| msg_fromJSON := fromJSON; msg_toJSON := toJSON;
     msg_fromPartial := fromPartial; msg_full := full |}.
Next Obligation. solve_json fromJSON toJSON. Qed.
Next Obligation. solve_partial fromPartial full. Qed.

#[global] Instance schema_wire {PB : Protobuf} {PS : ProtobufSpec PB} : WireSchema wire schema.
Proof. solve_schema_wire wire schema. Qed.

#[global] Instance schema_merge : MergeSchema merge schema.
Proof. solve_schema_merge merge schema. Qed.

(** Its row in the table of message types. *)
Definition message {PB : Protobuf} {PS : ProtobufSpec PB} : message_type :=
  plain_message "QueryVoteRequest" nothing true schema only.

#[global] Instance message_lawful {PB : Protobuf} (PS : ProtobufSpec PB) : Lawful message.
Proof. solve_lawful decode_field fromJSON only. Qed.

End QueryVoteRequest.

(** ** [QueryVoteResponse] (cosmos/gov/v1beta1/query.js) *)

Module QueryVoteResponse.

Record t := mk {
  vote : option Vote.t;
}.

#[global] Instance t_eta : Settable t := λ m, mk m.(vote).

Definition base : t := mk None.

Definition encode {PB : Protobuf} (message : t) (writer : Writer) : result Writer :=
  Ok writer
  @>= defined_e message.(vote) (submessage 10 Vote.encode).

Definition decode_field {PB : Protobuf} (tag : Z) (message : t) : RM t :=
  match field_number tag with
  | 1 => v ← read_nested Vote.decode; mret (message <| vote := Some v |>)
  | _ => _ ← skipType (wire_type tag); mret message
  end.

Definition decode {PB : Protobuf} (length : option Z) : RM t :=
  decode_message length base decode_field.

Definition fromJSON (object : js) : result t :=
  vote' ← field_or object "vote" (to_some Vote.fromJSON) None;
  Ok (mk vote').

Definition toJSON (message : t) : js :=
  Obj (prop_opt "vote" Vote.toJSON message.(vote)).

Record partial := mkPartial {
  p_vote : option Vote.partial;
}.

Definition fromPartial (object : partial) : t := {|
  vote := Vote.fromPartial <$> object.(p_vote);
|}.

(** The object with no property given. *)
Definition nothing : partial := mkPartial None.

(** The bytes [encode] writes. *)
Definition wire {PB : Protobuf} {PS : ProtobufSpec PB} (m : t) : bytes :=
  f_message 10 Vote.wire m.(vote).

Definition valid (m : t) : Prop :=
  from_option Vote.valid True m.(vote).

(** The byte fields hold arrays, as the interface declares. *)
Definition typed (m : t) : bool := from_option Vote.typed true m.(vote).

(** The message without its empty byte arrays. *)
Definition normal (m : t) : t := {|
  vote := Vote.normal <$> m.(vote);
|}.

(** The enumeration fields hold members. *)
Definition named (m : t) : bool := from_option Vote.named true m.(vote).

(** The message with the numbers [toJSON] does not know replaced. *)
Definition known (m : t) : t := {|
  vote := Vote.known <$> m.(vote);
|}.

Definition encodable {PB : Protobuf} {PS : ProtobufSpec PB} (m : t) : Prop :=
  typed m = true ∧ valid m ∧ small (wire m).

Definition merge (m a : t) : t := {|
  vote := later_message m.(vote) (Vote.normal <$> a.(vote));
|}.

(** A whole message seen as a partial one. *)
Definition full (m : t) : partial := {|
  p_vote := Vote.full <$> m.(vote);
|}.

(** The message as its schema declares it. *)
Definition schema (m : t) : list field :=
  [singular 1 Optional (message_value Vote.schema) m.(vote)].

(** The message with its default for every property that is not kept. *)
Definition only (kept : string → bool) (m : t) : t := {|
  vote := if kept "vote" then m.(vote) else None;
|}.

#[global] Instance codec {PB : Protobuf} : FallibleCodec t :=
  {| fmsg_base := base; fmsg_encode := encode; fmsg_field := decode_field |}.

#[global] Program Instance spec {PB : Protobuf} (PS : ProtobufSpec PB) : FallibleSpec PS t :=
  {| fmsg_wire := wire; fmsg_valid := valid; fmsg_typed := typed; fmsg_normal := normal;
     fmsg_merge := merge |}.
Next Obligation. solve_fencode_wire. Qed.
Next Obligation. intros. solve_fencode_throws encode typed. Qed.
Next Obligation. solve_fdecode_wire. Qed.
Next Obligation. solve_fmerge_base. Qed.
Next Obligation. intros. solve_fadvances decode_field. Qed.

#[global] Program Instance given_ : FalliblePartial t partial :=
  {| fmsg_fromPartial := fromPartial; fmsg_full := full; fmsg_given := typed |}.
Next Obligation. solve_fgiven fromPartial typed. Qed.
Next Obligation. solve_fpartial fromPartial full typed. Qed.

#[global] Program Instance json : FallibleJson t :=
  {| fmsg_fromJSON := fromJSON; fmsg_toJSON := toJSON;
     fmsg_named := named; fmsg_known := known |}.
Next Obligation. solve_fjson fromJSON toJSON. Qed.
Next Obligation. solve_known named known. Qed.

#[global] Instance schema_wire {PB : Protobuf} {PS : ProtobufSpec PB} : WireSchema wire schema.
Proof. solve_schema_wire wire schema. Qed.

#[global] Instance schema_normal : NormalSchema normal schema.
Proof. solve_schema_normal normal schema. Qed.

#[global] Instance schema_merge : MergeSchema merge schema.
Proof. solve_schema_merge merge schema. Qed.

(** Its row in the table of message types. *)
Definition message {PB : Protobuf} {PS : ProtobufSpec PB} : message_type :=
  fallible_message "QueryVoteResponse" nothing true schema only.

#[global] Instance message_lawful {PB : Protobuf} (PS : ProtobufSpec PB) : Lawful message.
Proof. solve_lawful decode_field fromJSON only. Qed.

End QueryVoteResponse.

(** ** [QueryVotesRequest] (cosmos/gov/v1beta1/query.js) *)

Module QueryVotesRequest.

Record t := mk {
  proposalId : number;
  pagination : option PageRequest.t;
}.

#[global] Instance t_eta : Settable t := λ m, mk m.(proposalId) m.(pagination).

Definition base : t := mk 0 None.

Definition encode {PB : Protobuf} (message : t) (writer : Writer) : result Writer :=
  Ok writer
  @>= pure (when (num_neq message.(proposalId) 0)
       (fun w => w @> uint32 8 @> uint64 message.(proposalId)))
  @>= defined_e message.(pagination) (submessage 18 PageRequest.encode).

Definition decode_field {PB : Protobuf} (tag : Z) (message : t) : RM t :=
  match field_number tag with
  | 1 => v ← read_number read_uint64; mret (message <| proposalId := v |>)
  | 2 => v ← read_nested PageRequest.decode; mret (message <| pagination := Some v |>)
  | _ => _ ← skipType (wire_type tag); mret message
  end.

Definition decode {PB : Protobuf} (length : option Z) : RM t :=
  decode_message length base decode_field.

Definition fromJSON (object : js) : result t :=
  proposalId' ← field_or object "proposalId" js_Number 0;
  pagination' ← field_or object "pagination" (to_some PageRequest.fromJSON) None;
  Ok (mk proposalId' pagination').

Definition toJSON (message : t) : js :=
  Obj ([("proposalId", Num message.(proposalId))] ++
   prop_opt "pagination" PageRequest.toJSON message.(pagination)).

Record partial := mkPartial {
  p_proposalId : option number;
  p_pagination : option PageRequest.partial;
}.

Definition fromPartial (object : partial) : t := {|
  proposalId := object.(p_proposalId) ?? Int 0;
  pagination := PageRequest.fromPartial <$> object.(p_pagination);
|}.

(** The object with no property given. *)
Definition nothing : partial := mkPartial None None.

(** The bytes [encode] writes. *)
Definition wire {PB : Protobuf} {PS : ProtobufSpec PB} (m : t) : bytes :=
  f_number e_uint64 8 m.(proposalId) ++
  f_message 18 PageRequest.wire m.(pagination).

Definition valid (m : t) : Prop :=
  uint64_ok m.(proposalId) ∧ from_option PageRequest.valid True m.(pagination).

(** The byte fields hold arrays, as the interface declares. *)
Definition typed (m : t) : bool := from_option PageRequest.typed true m.(pagination).

(** The message without its empty byte arrays. *)
Definition normal (m : t) : t := {|
  proposalId := m.(proposalId);
  pagination := PageRequest.normal <$> m.(pagination);
|}.

Definition encodable {PB : Protobuf} {PS : ProtobufSpec PB} (m : t) : Prop :=
  typed m = true ∧ valid m ∧ small (wire m).

Definition merge (m a : t) : t := {|
  proposalId := later_number m.(proposalId) a.(proposalId);
  pagination := later_message m.(pagination) (PageRequest.normal <$> a.(pagination));
|}.

(** A whole message seen as a partial one. *)
Definition full (m : t) : partial := {|
  p_proposalId := Some m.(proposalId);
  p_pagination := PageRequest.full <$> m.(pagination);
|}.

(** The message as its schema declares it. *)
Definition schema (m : t) : list field :=
  [implicit 1 (VInt Uint64 m.(proposalId));
   singular 2 Optional (message_value PageRequest.schema) m.(pagination)].

(** The message with its default for every property that is not kept. *)
Definition only (kept : string → bool) (m : t) : t := {|
  proposalId := if kept "proposalId" then m.(proposalId) else Int 0;
  pagination := if kept "pagination" then m.(pagination) else None;
|}.

#[global] Instance codec {PB : Protobuf} : FallibleCodec t :=
  {| fmsg_base := base; fmsg_encode := encode; fmsg_field := decode_field |}.

#[global] Program Instance spec {PB : Protobuf} (PS : ProtobufSpec PB) : FallibleSpec PS t :=
  {| fmsg_wire := wire; fmsg_valid := valid; fmsg_typed := typed; fmsg_normal := normal;
     fmsg_merge := merge |}.
Next Obligation. solve_fencode_wire. Qed.
Next Obligation. intros. solve_fencode_throws encode typed. Qed.
Next Obligation. solve_fdecode_wire. Qed.
Next Obligation. solve_fmerge_base. Qed.
Next Obligation. intros. solve_fadvances decode_field. Qed.

#[global] Program Instance given_ : FalliblePartial t partial :=
  {| fmsg_fromPartial := fromPartial; fmsg_full := full; fmsg_given := typed |}.
Next Obligation. solve_fgiven fromPartial typed. Qed.
Next Obligation. solve_fpartial fromPartial full typed. Qed.

#[global] Program Instance json : FallibleJson t :=
  {| fmsg_fromJSON := fromJSON; fmsg_toJSON := toJSON;
     fmsg_named := fun _ => true; fmsg_known := fun m => m |}.
Next Obligation. solve_fjson fromJSON toJSON. Qed.
Next Obligation. reflexivity. Qed.

#[global] Instance schema_wire {PB : Protobuf} {PS : ProtobufSpec PB} : WireSchema wire schema.
Proof. solve_schema_wire wire schema. Qed.

#[global] Instance schema_normal : NormalSchema normal schema.
Proof. solve_schema_normal normal schema. Qed.

#[global] Instance schema_merge : MergeSchema merge schema.
Proof. solve_schema_merge merge schema. Qed.

(** Its row in the table of message types. *)
Definition message {PB : Protobuf} {PS : ProtobufSpec PB} : message_type :=
  fallible_message "QueryVotesRequest" nothing true schema only.

#[global] Instance message_lawful {PB : Protobuf} (PS : ProtobufSpec PB) : Lawful message.
Proof. solve_lawful decode_field fromJSON only. Qed.

End QueryVotesRequest.

(** ** [QueryVotesResponse] (cosmos/gov/v1beta1/query.js) *)

Module QueryVotesResponse.

Record t := mk {
  votes : list Vote.t;
  pagination : option PageResponse.t;
}.

#[global] Instance t_eta : Settable t := λ m, mk m.(votes) m.(pagination).

Definition base : t := mk [] None.

Definition encode {PB : Protobuf} (message : t) (writer : Writer) : result Writer :=
  Ok writer
  @>= each_e message.(votes) (submessage 10 Vote.encode)
  @>= defined_e message.(pagination) (submessage 18 PageResponse.encode).

Definition decode_field {PB : Protobuf} (tag : Z) (message : t) : RM t :=
  match field_number tag with
  | 1 => v ← read_nested Vote.decode; mret (message <| votes := message.(votes) ++ [v] |>)
  | 2 => v ← read_nested PageResponse.decode; mret (message <| pagination := Some v |>)
  | _ => _ ← skipType (wire_type tag); mret message
  end.

Definition decode {PB : Protobuf} (length : option Z) : RM t :=
  decode_message length base decode_field.

Definition fromJSON (object : js) : result t :=
  votes' ← field_or object "votes" (to_list Vote.fromJSON) [];
  pagination' ← field_or object "pagination" (to_some PageResponse.fromJSON) None;
  Ok (mk votes' pagination').

Definition toJSON (message : t) : js :=
  Obj ([("votes", Arr (map Vote.toJSON message.(votes)))] ++
   prop_opt "pagination" PageResponse.toJSON message.(pagination)).

Record partial := mkPartial {
  p_votes : option (list Vote.partial);
  p_pagination : option PageResponse.partial;
}.

Definition fromPartial (object : partial) : t := {|
  votes := map Vote.fromPartial (object.(p_votes) ?? []);
  pagination := PageResponse.fromPartial <$> object.(p_pagination);
|}.

(** The object with no property given. *)
Definition nothing : partial := mkPartial None None.

(** The bytes [encode] writes. *)
Definition wire {PB : Protobuf} {PS : ProtobufSpec PB} (m : t) : bytes :=
  f_repeated 10 Vote.wire m.(votes) ++
  f_message 18 PageResponse.wire m.(pagination).

Definition valid (m : t) : Prop :=
  Forall Vote.valid m.(votes) ∧ from_option PageResponse.valid True m.(pagination).

(** The byte fields hold arrays, as the interface declares. *)
Definition typed (m : t) : bool := forallb Vote.typed m.(votes) && from_option PageResponse.typed true m.(pagination).

(** The message without its empty byte arrays. *)
Definition normal (m : t) : t := {|
  votes := map Vote.normal m.(votes);
  pagination := PageResponse.normal <$> m.(pagination);
|}.

(** The enumeration fields hold members. *)
Definition named (m : t) : bool := forallb Vote.named m.(votes).

(** The message with the numbers [toJSON] does not know replaced. *)
Definition known (m : t) : t := {|
  votes := map Vote.known m.(votes);
  pagination := m.(pagination);
|}.

Definition encodable {PB : Protobuf} {PS : ProtobufSpec PB} (m : t) : Prop :=
  typed m = true ∧ valid m ∧ small (wire m).

Definition merge (m a : t) : t := {|
  votes := m.(votes) ++ map Vote.normal a.(votes);
  pagination := later_message m.(pagination) (PageResponse.normal <$> a.(pagination));
|}.

(** A whole message seen as a partial one. *)
Definition full (m : t) : partial := {|
  p_votes := Some (map Vote.full m.(votes));
  p_pagination := PageResponse.full <$> m.(pagination);
|}.

(** The message as its schema declares it. *)
Definition schema (m : t) : list field :=
  [repeated 1 (message_value Vote.schema) m.(votes);
   singular 2 Optional (message_value PageResponse.schema) m.(pagination)].

(** The message with its default for every property that is not kept. *)
Definition only (kept : string → bool) (m : t) : t := {|
  votes := if kept "votes" then m.(votes) else [];
  pagination := if kept "pagination" then m.(pagination) else None;
|}.

#[global] Instance codec {PB : Protobuf} : FallibleCodec t :=
  {| fmsg_base := base; fmsg_encode := encode; fmsg_field := decode_field |}.

#[global] Program Instance spec {PB : Protobuf} (PS : ProtobufSpec PB) : FallibleSpec PS t :=
  {| fmsg_wire := wire; fmsg_valid := valid; fmsg_typed := typed; fmsg_normal := normal;
     fmsg_merge := merge |}.
Next Obligation. solve_fencode_wire. Qed.
Next Obligation. intros. solve_fencode_throws encode typed. Qed.
Next Obligation. solve_fdecode_wire. Qed.
Next Obligation. solve_fmerge_base. Qed.
Next Obligation. intros. solve_fadvances decode_field. Qed.

#[global] Program Instance given_ : FalliblePartial t partial :=
  {| fmsg_fromPartial := fromPartial; fmsg_full := full; fmsg_given := typed |}.
Next Obligation. solve_fgiven fromPartial typed. Qed.
Next Obligation. solve_fpartial fromPartial full typed. Qed.

#[global] Program Instance json : FallibleJson t :=
  {| fmsg_fromJSON := fromJSON; fmsg_toJSON := toJSON;
     fmsg_named := named; fmsg_known := known |}.
Next Obligation. solve_fjson fromJSON toJSON. Qed.
Next Obligation. solve_known named known. Qed.

#[global] Instance schema_wire {PB : Protobuf} {PS : ProtobufSpec PB} : WireSchema wire schema.
Proof. solve_schema_wire wire schema. Qed.

#[global] Instance schema_normal : NormalSchema normal schema.
Proof. solve_schema_normal normal schema. Qed.

#[global] Instance schema_merge : MergeSchema merge schema.
Proof. solve_schema_merge merge schema. Qed.

(** Its row in the table of message types. *)
Definition message {PB : Protobuf} {PS : ProtobufSpec PB} : message_type :=
  fallible_message "QueryVotesResponse" nothing true schema only.

#[global] Instance message_lawful {PB : Protobuf} (PS : ProtobufSpec PB) : Lawful message.
Proof. solve_lawful decode_field fromJSON only. Qed.

End QueryVotesResponse.

(** ** [QueryParamsRequest] (cosmos/gov/v1beta1/query.js) *)

Module QueryParamsRequest.

Record t := mk {
  paramsType : string;
}.

#[global] Instance t_eta : Settable t := λ m, mk m.(paramsType).

Definition base : t := mk "".

Definition encode {PB : Protobuf} (message : t) (writer : Writer) : Writer :=
  writer
  @> when (str_neq message.(paramsType) "")
       (fun w => w @> uint32 10 @> string_ message.(paramsType)).

Definition decode_field {PB : Protobuf} (tag : Z) (message : t) : RM t :=
  match field_number tag with
  | 1 => v ← read_string; mret (message <| paramsType := v |>)
  | _ => _ ← skipType (wire_type tag); mret message
  end.

Definition decode {PB : Protobuf} (length : option Z) : RM t :=
  decode_message length base decode_field.

Definition fromJSON (object : js) : result t :=
  paramsType' ← field_or object "paramsType" to_string "";
  Ok (mk paramsType').

Definition toJSON (message : t) : js :=
  Obj ([("paramsType", Str message.(paramsType))]).

Record partial := mkPartial {
  p_paramsType : option string;
}.

Definition fromPartial (object : partial) : t := {|
  paramsType := object.(p_paramsType) ?? "";
|}.

(** The object with no property given. *)
Definition nothing : partial := mkPartial None.

(** The bytes [encode] writes. *)
Definition wire {PB : Protobuf} {PS : ProtobufSpec PB} (m : t) : bytes :=
  f_string 10 m.(paramsType).

Definition valid (m : t) : Prop :=
  True.

Definition encodable {PB : Protobuf} {PS : ProtobufSpec PB} (m : t) : Prop :=
  valid m ∧ small (wire m).

Definition merge (m a : t) : t := {|
  paramsType := later_string m.(paramsType) a.(paramsType);
|}.

(** A whole message seen as a partial one. *)
Definition full (m : t) : partial := {|
  p_paramsType := Some m.(paramsType);
|}.

(** The message as its schema declares it. *)
Definition schema (m : t) : list field :=
  [implicit 1 (VString m.(paramsType))].

(** The message with its default for every property that is not kept. *)
Definition only (kept : string → bool) (m : t) : t := {|
  paramsType := if kept "paramsType" then m.(paramsType) else "";
|}.

#[global] Instance codec {PB : Protobuf} : MessageCodec t :=
  {| msg_base := base; msg_encode := encode; msg_field := decode_field |}.

#[global] Program Instance spec {PB : Protobuf} (PS : ProtobufSpec PB) : MessageSpec PS t :=
  {| msg_wire := wire; msg_valid := valid; msg_merge := merge |}.
Next Obligation. solve_encode_wire. Qed.
Next Obligation. solve_decode_wire. Qed.
Next Obligation. solve_merge_base. Qed.
Next Obligation. intros. solve_advances decode_field. Qed.

#[global] Program Instance data : MessageData t partial :=
  {| msg_fromJSON := fromJSON; msg_toJSON := toJSON;
     msg_fromPartial := fromPartial; msg_full := full |}.
Next Obligation. solve_json fromJSON toJSON. Qed.
Next Obligation. solve_partial fromPartial full. Qed.

#[global] Instance schema_wire {PB : Protobuf} {PS : ProtobufSpec PB} : WireSchema wire schema.
Proof. solve_schema_wire wire schema. Qed.

#[global] Instance schema_merge : MergeSchema merge schema.
Proof. solve_schema_merge merge schema. Qed.

(** Its row in the table of message types. *)
Definition message {PB : Protobuf} {PS : ProtobufSpec PB} : message_type :=
  plain_message "QueryParamsRequest" nothing true schema only.

#[global] Instance message_lawful {PB : Protobuf} (PS : ProtobufSpec PB) : Lawful message.
Proof. solve_lawful decode_field fromJSON only. Qed.

End QueryParamsRequest.

(** ** [QueryParamsResponse] (cosmos/gov/v1beta1/query.js) *)

Module QueryParamsResponse.

Record t := mk {
  votingParams : option VotingParams.t;
  depositParams : option DepositParams.t;
  tallyParams : option TallyParams.t;
}.

#[global] Instance t_eta : Settable t := λ m, mk m.(votingParams) m.(depositParams)
  m.(tallyParams).

Definition base : t := mk None None None.

Definition encode {PB : Protobuf} (message : t) (writer : Writer) : result Writer :=
  Ok writer
  @>= pure (defined message.(votingParams) (fun v w => w @> uint32 10 @> fork @> VotingParams.encode v @> ldelim))
  @>= pure (defined message.(depositParams) (fun v w => w @> uint32 18 @> fork @> DepositParams.encode v @> ldelim))
  @>= defined_e message.(tallyParams) (submessage 26 TallyParams.encode).

Definition decode_field {PB : Protobuf} (tag : Z) (message : t) : RM t :=
  match field_number tag with
  | 1 => v ← read_nested VotingParams.decode; mret (message <| votingParams := Some v |>)
  | 2 => v ← read_nested DepositParams.decode; mret (message <| depositParams := Some v |>)
  | 3 => v ← read_nested TallyParams.decode; mret (message <| tallyParams := Some v |>)
  | _ => _ ← skipType (wire_type tag); mret message
  end.

Definition decode {PB : Protobuf} (length : option Z) : RM t :=
  decode_message length base decode_field.

Definition fromJSON (object : js) : result t :=
  votingParams' ← field_or object "votingParams" (to_some VotingParams.fromJSON) None;
  depositParams' ← field_or object "depositParams" (to_some DepositParams.fromJSON) None;
  tallyParams' ← field_or object "tallyParams" (to_some TallyParams.fromJSON) None;
  Ok (mk votingParams' depositParams' tallyParams').

Definition toJSON (message : t) : js :=
  Obj (prop_opt "votingParams" VotingParams.toJSON message.(votingParams) ++
   prop_opt "depositParams" DepositParams.toJSON message.(depositParams) ++
   prop_opt "tallyParams" TallyParams.toJSON message.(tallyParams)).

Record partial := mkPartial {
  p_votingParams : option VotingParams.partial;
  p_depositParams : option DepositParams.partial;
  p_tallyParams : option TallyParams.partial;
}.

Definition fromPartial (object : partial) : t := {|
  votingParams := VotingParams.fromPartial <$> object.(p_votingParams);
  depositParams := DepositParams.fromPartial <$> object.(p_depositParams);
  tallyParams := TallyParams.fromPartial <$> object.(p_tallyParams);
|}.

(** The object with no property given. *)
Definition nothing : partial := mkPartial None None None.

(** The bytes [encode] writes. *)
Definition wire {PB : Protobuf} {PS : ProtobufSpec PB} (m : t) : bytes :=
  f_message 10 VotingParams.wire m.(votingParams) ++
  f_message 18 DepositParams.wire m.(depositParams) ++
  f_message 26 TallyParams.wire m.(tallyParams).

Definition valid (m : t) : Prop :=
  from_option VotingParams.valid True m.(votingParams) ∧ from_option DepositParams.valid True m.(depositParams) ∧ from_option TallyParams.valid True m.(tallyParams).

(** The byte fields hold arrays, as the interface declares. *)
Definition typed (m : t) : bool := from_option TallyParams.typed true m.(tallyParams).

(** The message without its empty byte arrays. *)
Definition normal (m : t) : t := {|
  votingParams := m.(votingParams);
  depositParams := m.(depositParams);
  tallyParams := TallyParams.normal <$> m.(tallyParams);
|}.

Definition encodable {PB : Protobuf} {PS : ProtobufSpec PB} (m : t) : Prop :=
  typed m = true ∧ valid m ∧ small (wire m).

Definition merge (m a : t) : t := {|
  votingParams := later_message m.(votingParams) a.(votingParams);
  depositParams := later_message m.(depositParams) a.(depositParams);
  tallyParams := later_message m.(tallyParams) (TallyParams.normal <$> a.(tallyParams));
|}.

(** A whole message seen as a partial one. *)
Definition full (m : t) : partial := {|
  p_votingParams := VotingParams.full <$> m.(votingParams);
  p_depositParams := DepositParams.full <$> m.(depositParams);
  p_tallyParams := TallyParams.full <$> m.(tallyParams);
|}.

(** The message as its schema declares it. *)
Definition schema (m : t) : list field :=
  [singular 1 Optional (message_value VotingParams.schema) m.(votingParams);
   singular 2 Optional (message_value DepositParams.schema) m.(depositParams);
   singular 3 Optional (message_value TallyParams.schema) m.(tallyParams)].

(** The message with its default for every property that is not kept. *)
Definition only (kept : string → bool) (m : t) : t := {|
  votingParams := if kept "votingParams" then m.(votingParams) else None;
  depositParams := if kept "depositParams" then m.(depositParams) else None;
  tallyParams := if kept "tallyParams" then m.(tallyParams) else None;
|}.

#[global] Instance codec {PB : Protobuf} : FallibleCodec t :=
  {| fmsg_base := base; fmsg_encode := encode; fmsg_field := decode_field |}.

#[global] Program Instance spec {PB : Protobuf} (PS : ProtobufSpec PB) : FallibleSpec PS t :=
  {| fmsg_wire := wire; fmsg_valid := valid; fmsg_typed := typed; fmsg_normal := normal;
     fmsg_merge := merge |}.
Next Obligation. solve_fencode_wire. Qed.
Next Obligation. intros. solve_fencode_throws encode typed. Qed.
Next Obligation. solve_fdecode_wire. Qed.
Next Obligation. solve_fmerge_base. Qed.
Next Obligation. intros. solve_fadvances decode_field. Qed.

#[global] Program Instance given_ : FalliblePartial t partial :=
  {| fmsg_fromPartial := fromPartial; fmsg_full := full; fmsg_given := typed |}.
Next Obligation. solve_fgiven fromPartial typed. Qed.
Next Obligation. solve_fpartial fromPartial full typed. Qed.

#[global] Program Instance json : FallibleJson t :=
  {| fmsg_fromJSON := fromJSON; fmsg_toJSON := toJSON;
     fmsg_named := fun _ => true; fmsg_known := fun m => m |}.
Next Obligation. solve_fjson fromJSON toJSON. Qed.
Next Obligation. reflexivity. Qed.

#[global] Instance schema_wire {PB : Protobuf} {PS : ProtobufSpec PB} : WireSchema wire schema.
Proof. solve_schema_wire wire schema. Qed.

#[global] Instance schema_normal : NormalSchema normal schema.
Proof. solve_schema_normal normal schema. Qed.

#[global] Instance schema_merge : MergeSchema merge schema.
Proof. solve_schema_merge merge schema. Qed.

(** Its row in the table of message types. *)
Definition message {PB : Protobuf} {PS : ProtobufSpec PB} : message_type :=
  fallible_message "QueryParamsResponse" nothing true schema only.

#[global] Instance message_lawful {PB : Protobuf} (PS : ProtobufSpec PB) : Lawful message.
Proof. solve_lawful decode_field fromJSON only. Qed.

End QueryParamsResponse.

(** ** [QueryDepositRequest] (cosmos/gov/v1beta1/query.js) *)

Module QueryDepositRequest.

Record t := mk {
  proposalId : number;
  depositor : string;
}.

#[global] Instance t_eta : Settable t := λ m, mk m.(proposalId) m.(depositor).

Definition base : t := mk 0 "".

Definition encode {PB : Protobuf} (message : t) (writer : Writer) : Writer :=
  writer
  @> when (num_neq message.(proposalId) 0) (fun w => w @> uint32 8 @> uint64 message.(proposalId))
  @> when (str_neq message.(depositor) "") (fun w => w @> uint32 18 @> string_ message.(depositor)).

Definition decode_field {PB : Protobuf} (tag : Z) (message : t) : RM t :=
  match field_number tag with
  | 1 => v ← read_number read_uint64; mret (message <| proposalId := v |>)
  | 2 => v ← read_string; mret (message <| depositor := v |>)
  | _ => _ ← skipType (wire_type tag); mret message
  end.

Definition decode {PB : Protobuf} (length : option Z) : RM t :=
  decode_message length base decode_field.

Definition fromJSON (object : js) : result t :=
  proposalId' ← field_or object "proposalId" js_Number 0;
  depositor' ← field_or object "depositor" to_string "";
  Ok (mk proposalId' depositor').

Definition toJSON (message : t) : js :=
  Obj ([("proposalId", Num message.(proposalId));
    ("depositor", Str message.(depositor))]).

Record partial := mkPartial {
  p_proposalId : option number;
  p_depositor : option string;
}.

Definition fromPartial (object : partial) : t := {|
  proposalId := object.(p_proposalId) ?? Int 0;
  depositor := object.(p_depositor) ?? "";
|}.

(** The object with no property given. *)
Definition nothing : partial := mkPartial None None.

(** The bytes [encode] writes. *)
Definition wire {PB : Protobuf} {PS : ProtobufSpec PB} (m : t) : bytes :=
  f_number e_uint64 8 m.(proposalId) ++
  f_string 18 m.(depositor).

Definition valid (m : t) : Prop :=
  uint64_ok m.(proposalId).

Definition encodable {PB : Protobuf} {PS : ProtobufSpec PB} (m : t) : Prop :=
  valid m ∧ small (wire m).

Definition merge (m a : t) : t := {|
  proposalId := later_number m.(proposalId) a.(proposalId);
  depositor := later_string m.(depositor) a.(depositor);
|}.

(** A whole message seen as a partial one. *)
Definition full (m : t) : partial := {|
  p_proposalId := Some m.(proposalId);
  p_depositor := Some m.(depositor);
|}.

(** The message as its schema declares it. *)
Definition schema (m : t) : list field :=
  [implicit 1 (VInt Uint64 m.(proposalId));
   implicit 2 (VString m.(depositor))].

(** The message with its default for every property that is not kept. *)
Definition only (kept : string → bool) (m : t) : t := {|
  proposalId := if kept "proposalId" then m.(proposalId) else Int 0;
  depositor := if kept "depositor" then m.(depositor) else "";
|}.

#[global] Instance codec {PB : Protobuf} : MessageCodec t :=
  {| msg_base := base; msg_encode := encode; msg_field := decode_field |}.

#[global] Program Instance spec {PB : Protobuf} (PS : ProtobufSpec PB) : MessageSpec PS t :=
  {| msg_wire := wire; msg_valid := valid; msg_merge := merge |}.
Next Obligation. solve_encode_wire. Qed.
Next Obligation. solve_decode_wire. Qed.
Next Obligation. solve_merge_base. Qed.
Next Obligation. intros. solve_advances decode_field. Qed.

#[global] Program Instance data : MessageData t partial :=
  {| msg_fromJSON := fromJSON; msg_toJSON := toJSON;
     msg_fromPartial := fromPartial; msg_full := full |}.
Next Obligation. solve_json fromJSON toJSON. Qed.
Next Obligation. solve_partial fromPartial full. Qed.

#[global] Instance schema_wire {PB : Protobuf} {PS : ProtobufSpec PB} : WireSchema wire schema.
Proof. solve_schema_wire wire schema. Qed.

#[global] Instance schema_merge : MergeSchema merge schema.
Proof. solve_schema_merge merge schema. Qed.

(** Its row in the table of message types. *)
Definition message {PB : Protobuf} {PS : ProtobufSpec PB} : message_type :=
  plain_message "QueryDepositRequest" nothing true schema only.

#[global] Instance message_lawful {PB : Protobuf} (PS : ProtobufSpec PB) : Lawful message.
Proof. solve_lawful decode_field fromJSON only. Qed.

End QueryDepositRequest.

(** ** [QueryDepositResponse] (cosmos/gov/v1beta1/query.js) *)

Module QueryDepositResponse.

Record t := mk {
  deposit : option Deposit.t;
}.

#[global] Instance t_eta : Settable t := λ m, mk m.(deposit).

Definition base : t := mk None.

Definition encode {PB : Protobuf} (message : t) (writer : Writer) : Writer :=
  writer
  @> defined message.(deposit) (fun v w => w @> uint32 10 @> fork @> Deposit.encode v @> ldelim).

Definition decode_field {PB : Protobuf} (tag : Z) (message : t) : RM t :=
  match field_number tag with
  | 1 => v ← read_nested Deposit.decode; mret (message <| deposit := Some v |>)
  | _ => _ ← skipType (wire_type tag); mret message
  end.

Definition decode {PB : Protobuf} (length : option Z) : RM t :=
  decode_message length base decode_field.

Definition fromJSON (object : js) : result t :=
  deposit' ← field_or object "deposit" (to_some Deposit.fromJSON) None;
  Ok (mk deposit').

Definition toJSON (message : t) : js :=
  Obj (prop_opt "deposit" Deposit.toJSON message.(deposit)).

Record partial := mkPartial {
  p_deposit : option Deposit.partial;
}.

Definition fromPartial (object : partial) : t := {|
  deposit := Deposit.fromPartial <$> object.(p_deposit);
|}.

(** The object with no property given. *)
Definition nothing : partial := mkPartial None.

(** The bytes [encode] writes. *)
Definition wire {PB : Protobuf} {PS : ProtobufSpec PB} (m : t) : bytes :=
  f_message 10 Deposit.wire m.(deposit).

Definition valid (m : t) : Prop :=
  from_option Deposit.valid True m.(deposit).

Definition encodable {PB : Protobuf} {PS : ProtobufSpec PB} (m : t) : Prop :=
  valid m ∧ small (wire m).

Definition merge (m a : t) : t := {|
  deposit := later_message m.(deposit) a.(deposit);
|}.

(** A whole message seen as a partial one. *)
Definition full (m : t) : partial := {|
  p_deposit := Deposit.full <$> m.(deposit);
|}.

(** The message as its schema declares it. *)
Definition schema (m : t) : list field :=
  [singular 1 Optional (message_value Deposit.schema) m.(deposit)].

(** The message with its default for every property that is not kept. *)
Definition only (kept : string → bool) (m : t) : t := {|
  deposit := if kept "deposit" then m.(deposit) else None;
|}.

#[global] Instance codec {PB : Protobuf} : MessageCodec t :=
  {| msg_base := base; msg_encode := encode; msg_field := decode_field |}.

#[global] Program Instance spec {PB : Protobuf} (PS : ProtobufSpec PB) : MessageSpec PS t :=
  {| msg_wire := wire; msg_valid := valid; msg_merge := merge |}.
Next Obligation. solve_encode_wire. Qed.
Next Obligation. solve_decode_wire. Qed.
Next Obligation. solve_merge_base. Qed.
Next Obligation. intros. solve_advances decode_field. Qed.

#[global] Program Instance data : MessageData t partial :=
  {| msg_fromJSON := fromJSON; msg_toJSON := toJSON;
     msg_fromPartial := fromPartial; msg_full := full |}.
Next Obligation. solve_json fromJSON toJSON. Qed.
Next Obligation. solve_partial fromPartial full. Qed.

#[global] Instance schema_wire {PB : Protobuf} {PS : ProtobufSpec PB} : WireSchema wire schema.
Proof. solve_schema_wire wire schema. Qed.

#[global] Instance schema_merge : MergeSchema merge schema.
Proof. solve_schema_merge merge schema. Qed.

(** Its row in the table of message types. *)
Definition message {PB : Protobuf} {PS : ProtobufSpec PB} : message_type :=
  plain_message "QueryDepositResponse" nothing true schema only.

#[global] Instance message_lawful {PB : Protobuf} (PS : ProtobufSpec PB) : Lawful message.
Proof. solve_lawful decode_field fromJSON only. Qed.

End QueryDepositResponse.

(** ** [QueryDepositsRequest] (cosmos/gov/v1beta1/query.js) *)

Module QueryDepositsRequest.

Record t := mk {
  proposalId : number;
  pagination : option PageRequest.t;
}.

#[global] Instance t_eta : Settable t := λ m, mk m.(proposalId) m.(pagination).

Definition base : t := mk 0 None.

Definition encode {PB : Protobuf} (message : t) (writer : Writer) : result Writer :=
  Ok writer
  @>= pure (when (num_neq message.(proposalId) 0)
       (fun w => w @> uint32 8 @> uint64 message.(proposalId)))
  @>= defined_e message.(pagination) (submessage 18 PageRequest.encode).

Definition decode_field {PB : Protobuf} (tag : Z) (message : t) : RM t :=
  match field_number tag with
  | 1 => v ← read_number read_uint64; mret (message <| proposalId := v |>)
  | 2 => v ← read_nested PageRequest.decode; mret (message <| pagination := Some v |>)
  | _ => _ ← skipType (wire_type tag); mret message
  end.

Definition decode {PB : Protobuf} (length : option Z) : RM t :=
  decode_message length base decode_field.

Definition fromJSON (object : js) : result t :=
  proposalId' ← field_or object "proposalId" js_Number 0;
  pagination' ← field_or object "pagination" (to_some PageRequest.fromJSON) None;
  Ok (mk proposalId' pagination').

Definition toJSON (message : t) : js :=
  Obj ([("proposalId", Num message.(proposalId))] ++
   prop_opt "pagination" PageRequest.toJSON message.(pagination)).

Record partial := mkPartial {
  p_proposalId : option number;
  p_pagination : option PageRequest.partial;
}.

Definition fromPartial (object : partial) : t := {|
  proposalId := object.(p_proposalId) ?? Int 0;
  pagination := PageRequest.fromPartial <$> object.(p_pagination);
|}.

(** The object with no property given. *)
Definition nothing : partial := mkPartial None None.

(** The bytes [encode] writes. *)
Definition wire {PB : Protobuf} {PS : ProtobufSpec PB} (m : t) : bytes :=
  f_number e_uint64 8 m.(proposalId) ++
  f_message 18 PageRequest.wire m.(pagination).

Definition valid (m : t) : Prop :=
  uint64_ok m.(proposalId) ∧ from_option PageRequest.valid True m.(pagination).

(** The byte fields hold arrays, as the interface declares. *)
Definition typed (m : t) : bool := from_option PageRequest.typed true m.(pagination).

(** The message without its empty byte arrays. *)
Definition normal (m : t) : t := {|
  proposalId := m.(proposalId);
  pagination := PageRequest.normal <$> m.(pagination);
|}.

Definition encodable {PB : Protobuf} {PS : ProtobufSpec PB} (m : t) : Prop :=
  typed m = true ∧ valid m ∧ small (wire m).

Definition merge (m a : t) : t := {|
  proposalId := later_number m.(proposalId) a.(proposalId);
  pagination := later_message m.(pagination) (PageRequest.normal <$> a.(pagination));
|}.

(** A whole message seen as a partial one. *)
Definition full (m : t) : partial := {|
  p_proposalId := Some m.(proposalId);
  p_pagination := PageRequest.full <$> m.(pagination);
|}.

(** The message as its schema declares it. *)
Definition schema (m : t) : list field :=
  [implicit 1 (VInt Uint64 m.(proposalId));
   singular 2 Optional (message_value PageRequest.schema) m.(pagination)].

(** The message with its default for every property that is not kept. *)
Definition only (kept : string → bool) (m : t) : t := {|
  proposalId := if kept "proposalId" then m.(proposalId) else Int 0;
  pagination := if kept "pagination" then m.(pagination) else None;
|}.

#[global] Instance codec {PB : Protobuf} : FallibleCodec t :=
  {| fmsg_base := base; fmsg_encode := encode; fmsg_field := decode_field |}.

#[global] Program Instance spec {PB : Protobuf} (PS : ProtobufSpec PB) : FallibleSpec PS t :=
  {| fmsg_wire := wire; fmsg_valid := valid; fmsg_typed := typed; fmsg_normal := normal;
     fmsg_merge := merge |}.
Next Obligation. solve_fencode_wire. Qed.
Next Obligation. intros. solve_fencode_throws encode typed. Qed.
Next Obligation. solve_fdecode_wire. Qed.
Next Obligation. solve_fmerge_base. Qed.
Next Obligation. intros. solve_fadvances decode_field. Qed.

#[global] Program Instance given_ : FalliblePartial t partial :=
  {| fmsg_fromPartial := fromPartial; fmsg_full := full; fmsg_given := typed |}.
Next Obligation. solve_fgiven fromPartial typed. Qed.
Next Obligation. solve_fpartial fromPartial full typed. Qed.

#[global] Program Instance json : FallibleJson t :=
  {| fmsg_fromJSON := fromJSON; fmsg_toJSON := toJSON;
     fmsg_named := fun _ => true; fmsg_known := fun m => m |}.
Next Obligation. solve_fjson fromJSON toJSON. Qed.
Next Obligation. reflexivity. Qed.

#[global] Instance schema_wire {PB : Protobuf} {PS : ProtobufSpec PB} : WireSchema wire schema.
Proof. solve_schema_wire wire schema. Qed.

#[global] Instance schema_normal : NormalSchema normal schema.
Proof. solve_schema_normal normal schema. Qed.

#[global] Instance schema_merge : MergeSchema merge schema.
Proof. solve_schema_merge merge schema. Qed.

(** Its row in the table of message types. *)
Definition message {PB : Protobuf} {PS : ProtobufSpec PB} : message_type :=
  fallible_message "QueryDepositsRequest" nothing true schema only.

#[global] Instance message_lawful {PB : Protobuf} (PS : ProtobufSpec PB) : Lawful message.
Proof. solve_lawful decode_field fromJSON only. Qed.

End QueryDepositsRequest.

(** ** [QueryDepositsResponse] (cosmos/gov/v1beta1/query.js) *)

Module QueryDepositsResponse.

Record t := mk {
  deposits : list Deposit.t;
  pagination : option PageResponse.t;
}.

#[global] Instance t_eta : Settable t := λ m, mk m.(deposits) m.(pagination).

Definition base : t := mk [] None.

Definition encode {PB : Protobuf} (message : t) (writer : Writer) : result Writer :=
  Ok writer
  @>= pure (each message.(deposits) (fun v w => w @> uint32 10 @> fork @> Deposit.encode v @> ldelim))
  @>= defined_e message.(pagination) (submessage 18 PageResponse.encode).

Definition decode_field {PB : Protobuf} (tag : Z) (message : t) : RM t :=
  match field_number tag with
  | 1 => v ← read_nested Deposit.decode; mret (message <| deposits := message.(deposits) ++ [v] |>)
  | 2 => v ← read_nested PageResponse.decode; mret (message <| pagination := Some v |>)
  | _ => _ ← skipType (wire_type tag); mret message
  end.

Definition decode {PB : Protobuf} (length : option Z) : RM t :=
  decode_message length base decode_field.

Definition fromJSON (object : js) : result t :=
  deposits' ← field_or object "deposits" (to_list Deposit.fromJSON) [];
  pagination' ← field_or object "pagination" (to_some PageResponse.fromJSON) None;
  Ok (mk deposits' pagination').

Definition toJSON (message : t) : js :=
  Obj ([("deposits", Arr (map Deposit.toJSON message.(deposits)))] ++
   prop_opt "pagination" PageResponse.toJSON message.(pagination)).

Record partial := mkPartial {
  p_deposits : option (list Deposit.partial);
  p_pagination : option PageResponse.partial;
}.

Definition fromPartial (object : partial) : t := {|
  deposits := map Deposit.fromPartial (object.(p_deposits) ?? []);
  pagination := PageResponse.fromPartial <$> object.(p_pagination);
|}.

(** The object with no property given. *)
Definition nothing : partial := mkPartial None None.

(** The bytes [encode] writes. *)
Definition wire {PB : Protobuf} {PS : ProtobufSpec PB} (m : t) : bytes :=
  f_repeated 10 Deposit.wire m.(deposits) ++
  f_message 18 PageResponse.wire m.(pagination).

Definition valid (m : t) : Prop :=
  Forall Deposit.valid m.(deposits) ∧ from_option PageResponse.valid True m.(pagination).

(** The byte fields hold arrays, as the interface declares. *)
Definition typed (m : t) : bool := from_option PageResponse.typed true m.(pagination).

(** The message without its empty byte arrays. *)
Definition normal (m : t) : t := {|
  deposits := m.(deposits);
  pagination := PageResponse.normal <$> m.(pagination);
|}.

Definition encodable {PB : Protobuf} {PS : ProtobufSpec PB} (m : t) : Prop :=
  typed m = true ∧ valid m ∧ small (wire m).

Definition merge (m a : t) : t := {|
  deposits := m.(deposits) ++ a.(deposits);
  pagination := later_message m.(pagination) (PageResponse.normal <$> a.(pagination));
|}.

(** A whole message seen as a partial one. *)
Definition full (m : t) : partial := {|
  p_deposits := Some (map Deposit.full m.(deposits));
  p_pagination := PageResponse.full <$> m.(pagination);
|}.

(** The message as its schema declares it. *)
Definition schema (m : t) : list field :=
  [repeated 1 (message_value Deposit.schema) m.(deposits);
   singular 2 Optional (message_value PageResponse.schema) m.(pagination)].

(** The message with its default for every property that is not kept. *)
Definition only (kept : string → bool) (m : t) : t := {|
  deposits := if kept "deposits" then m.(deposits) else [];
  pagination := if kept "pagination" then m.(pagination) else None;
|}.

#[global] Instance codec {PB : Protobuf} : FallibleCodec t :=
  {| fmsg_base := base; fmsg_encode := encode; fmsg_field := decode_field |}.

#[global] Program Instance spec {PB : Protobuf} (PS : ProtobufSpec PB) : FallibleSpec PS t :=
  {| fmsg_wire := wire; fmsg_valid := valid; fmsg_typed := typed; fmsg_normal := normal;
     fmsg_merge := merge |}.
Next Obligation. solve_fencode_wire. Qed.
Next Obligation. intros. solve_fencode_throws encode typed. Qed.
Next Obligation. solve_fdecode_wire. Qed.
Next Obligation. solve_fmerge_base. Qed.
Next Obligation. intros. solve_fadvances decode_field. Qed.

#[global] Program Instance given_ : FalliblePartial t partial :=
  {| fmsg_fromPartial := fromPartial; fmsg_full := full; fmsg_given := typed |}.
Next Obligation. solve_fgiven fromPartial typed. Qed.
Next Obligation. solve_fpartial fromPartial full typed. Qed.

#[global] Program Instance json : FallibleJson t :=
  {| fmsg_fromJSON := fromJSON; fmsg_toJSON := toJSON;
     fmsg_named := fun _ => true; fmsg_known := fun m => m |}.
Next Obligation. solve_fjson fromJSON toJSON. Qed.
Next Obligation. reflexivity. Qed.

#[global] Instance schema_wire {PB : Protobuf} {PS : ProtobufSpec PB} : WireSchema wire schema.
Proof. solve_schema_wire wire schema. Qed.

#[global] Instance schema_normal : NormalSchema normal schema.
Proof. solve_schema_normal normal schema. Qed.

#[global] Instance schema_merge : MergeSchema merge schema.
Proof. solve_schema_merge merge schema. Qed.

(** Its row in the table of message types. *)
Definition message {PB : Protobuf} {PS : ProtobufSpec PB} : message_type :=
  fallible_message "QueryDepositsResponse" nothing true schema only.

#[global] Instance message_lawful {PB : Protobuf} (PS : ProtobufSpec PB) : Lawful message.
Proof. solve_lawful decode_field fromJSON only. Qed.

End QueryDepositsResponse.

(** ** [QueryTallyResultRequest] (cosmos/gov/v1beta1/query.js) *)

Module QueryTallyResultRequest.

Record t := mk {
  proposalId : number;
}.

#[global] Instance t_eta : Settable t := λ m, mk m.(proposalId).

Definition base : t := mk 0.

Definition encode {PB : Protobuf} (message : t) (writer : Writer) : Writer :=
  writer
  @> when (num_neq message.(proposalId) 0) (fun w => w @> uint32 8 @> uint64 message.(proposalId)).

Definition decode_field {PB : Protobuf} (tag : Z) (message : t) : RM t :=
  match field_number tag with
  | 1 => v ← read_number read_uint64; mret (message <| proposalId := v |>)
  | _ => _ ← skipType (wire_type tag); mret message
  end.

Definition decode {PB : Protobuf} (length : option Z) : RM t :=
  decode_message length base decode_field.

Definition fromJSON (object : js) : result t :=
  proposalId' ← field_or object "proposalId" js_Number 0;
  Ok (mk proposalId').

Definition toJSON (message : t) : js :=
  Obj ([("proposalId", Num message.(proposalId))]).

Record partial := mkPartial {
  p_proposalId : option number;
}.

Definition fromPartial (object : partial) : t := {|
  proposalId := object.(p_proposalId) ?? Int 0;
|}.

(** The object with no property given. *)
Definition nothing : partial := mkPartial None.

(** The bytes [encode] writes. *)
Definition wire {PB : Protobuf} {PS : ProtobufSpec PB} (m : t) : bytes :=
  f_number e_uint64 8 m.(proposalId).

Definition valid (m : t) : Prop :=
  uint64_ok m.(proposalId).

Definition encodable {PB : Protobuf} {PS : ProtobufSpec PB} (m : t) : Prop :=
  valid m ∧ small (wire m).

Definition merge (m a : t) : t := {|
  proposalId := later_number m.(proposalId) a.(proposalId);
|}.

(** A whole message seen as a partial one. *)
Definition full (m : t) : partial := {|
  p_proposalId := Some m.(proposalId);
|}.

(** The message as its schema declares it. *)
Definition schema (m : t) : list field :=
  [implicit 1 (VInt Uint64 m.(proposalId))].

(** The message with its default for every property that is not kept. *)
Definition only (kept : string → bool) (m : t) : t := {|
  proposalId := if kept "proposalId" then m.(proposalId) else Int 0;
|}.

#[global] Instance codec {PB : Protobuf} : MessageCodec t :=
  {| msg_base := base; msg_encode := encode; msg_field := decode_field |}.

#[global] Program Instance spec {PB : Protobuf} (PS : ProtobufSpec PB) : MessageSpec PS t :=
  {| msg_wire := wire; msg_valid := valid; msg_merge := merge |}.
Next Obligation. solve_encode_wire. Qed.
Next Obligation. solve_decode_wire. Qed.
Next Obligation. solve_merge_base. Qed.
Next Obligation. intros. solve_advances decode_field. Qed.

#[global] Program Instance data : MessageData t partial :=
  {| msg_fromJSON := fromJSON; msg_toJSON := toJSON;
     msg_fromPartial := fromPartial; msg_full := full |}.
Next Obligation. solve_json fromJSON toJSON. Qed.
Next Obligation. solve_partial fromPartial full. Qed.

#[global] Instance schema_wire {PB : Protobuf} {PS : ProtobufSpec PB} : WireSchema wire schema.
Proof. solve_schema_wire wire schema. Qed.

#[global] Instance schema_merge : MergeSchema merge schema.
Proof. solve_schema_merge merge schema. Qed.

(** Its row in the table of message types. *)
Definition message {PB : Protobuf} {PS : ProtobufSpec PB} : message_type :=
  plain_message "QueryTallyResultRequest" nothing true schema only.

#[global] Instance message_lawful {PB : Protobuf} (PS : ProtobufSpec PB) : Lawful message.
Proof. solve_lawful decode_field fromJSON only. Qed.

End QueryTallyResultRequest.

(** ** [QueryTallyResultResponse] (cosmos/gov/v1beta1/query.js) *)

Module QueryTallyResultResponse.

Record t := mk {
  tally : option TallyResult.t;
}.

#[global] Instance t_eta : Settable t := λ m, mk m.(tally).

Definition base : t := mk None.

Definition encode {PB : Protobuf} (message : t) (writer : Writer) : Writer :=
  writer
  @> defined message.(tally) (fun v w => w @> uint32 10 @> fork @> TallyResult.encode v @> ldelim).

Definition decode_field {PB : Protobuf} (tag : Z) (message : t) : RM t :=
  match field_number tag with
  | 1 => v ← read_nested TallyResult.decode; mret (message <| tally := Some v |>)
  | _ => _ ← skipType (wire_type tag); mret message
  end.

Definition decode {PB : Protobuf} (length : option Z) : RM t :=
  decode_message length base decode_field.

Definition fromJSON (object : js) : result t :=
  tally' ← field_or object "tally" (to_some TallyResult.fromJSON) None;
  Ok (mk tally').

Definition toJSON (message : t) : js :=
  Obj (prop_opt "tally" TallyResult.toJSON message.(tally)).

Record partial := mkPartial {
  p_tally : option TallyResult.partial;
}.

Definition fromPartial (object : partial) : t := {|
  tally := TallyResult.fromPartial <$> object.(p_tally);
|}.

(** The object with no property given. *)
Definition nothing : partial := mkPartial None.

(** The bytes [encode] writes. *)
Definition wire {PB : Protobuf} {PS : ProtobufSpec PB} (m : t) : bytes :=
  f_message 10 TallyResult.wire m.(tally).

Definition valid (m : t) : Prop :=
  from_option TallyResult.valid True m.(tally).

Definition encodable {PB : Protobuf} {PS : ProtobufSpec PB} (m : t) : Prop :=
  valid m ∧ small (wire m).

Definition merge (m a : t) : t := {|
  tally := later_message m.(tally) a.(tally);
|}.

(** A whole message seen as a partial one. *)
Definition full (m : t) : partial := {|
  p_tally := TallyResult.full <$> m.(tally);
|}.

(** The message as its schema declares it. *)
Definition schema (m : t) : list field :=
  [singular 1 Optional (message_value TallyResult.schema) m.(tally)].

(** The message with its default for every property that is not kept. *)
Definition only (kept : string → bool) (m : t) : t := {|
  tally := if kept "tally" then m.(tally) else None;
|}.

#[global] Instance codec {PB : Protobuf} : MessageCodec t :=
  {| msg_base := base; msg_encode := encode; msg_field := decode_field |}.

#[global] Program Instance spec {PB : Protobuf} (PS : ProtobufSpec PB) : MessageSpec PS t :=
  {| msg_wire := wire; msg_valid := valid; msg_merge := merge |}.
Next Obligation. solve_encode_wire. Qed.
Next Obligation. solve_decode_wire. Qed.
Next Obligation. solve_merge_base. Qed.
Next Obligation. intros. solve_advances decode_field. Qed.

#[global] Program Instance data : MessageData t partial :=
  {| msg_fromJSON := fromJSON; msg_toJSON := toJSON;
     msg_fromPartial := fromPartial; msg_full := full |}.
Next Obligation. solve_json fromJSON toJSON. Qed.
Next Obligation. solve_partial fromPartial full. Qed.

#[global] Instance schema_wire {PB : Protobuf} {PS : ProtobufSpec PB} : WireSchema wire schema.
Proof. solve_schema_wire wire schema. Qed.

#[global] Instance schema_merge : MergeSchema merge schema.
Proof. solve_schema_merge merge schema. Qed.

(** Its row in the table of message types. *)
Definition message {PB : Protobuf} {PS : ProtobufSpec PB} : message_type :=
  plain_message "QueryTallyResultResponse" nothing true schema only.

#[global] Instance message_lawful {PB : Protobuf} (PS : ProtobufSpec PB) : Lawful message.
Proof. solve_lawful decode_field fromJSON only. Qed.

End QueryTallyResultResponse.


(** ** [MsgClientImpl]

    [rpc] is the transport the class is constructed with: [rpc service method data]
    is what the promise of [this.rpc.request] settles to. *)
Module MsgClientImpl.
Section client.
Context {PB : Protobuf} (rpc : string → string → bytes → result bytes).

Definition SubmitProposal (request : MsgSubmitProposal.t) : result MsgSubmitProposalResponse.t :=
  w ← MsgSubmitProposal.encode request create;
  data ← rpc "cosmos.gov.v1beta1.Msg" "SubmitProposal" (finish w);
  decode_bytes MsgSubmitProposalResponse.decode data.

Definition Vote (request : MsgVote.t) : result MsgVoteResponse.t :=
  w ← MsgVote.encode request create;
  data ← rpc "cosmos.gov.v1beta1.Msg" "Vote" (finish w);
  decode_bytes MsgVoteResponse.decode data.

Definition VoteWeighted (request : MsgVoteWeighted.t) : result MsgVoteWeightedResponse.t :=
  w ← MsgVoteWeighted.encode request create;
  data ← rpc "cosmos.gov.v1beta1.Msg" "VoteWeighted" (finish w);
  decode_bytes MsgVoteWeightedResponse.decode data.

Definition Deposit (request : MsgDeposit.t) : result MsgDepositResponse.t :=
  data ← rpc "cosmos.gov.v1beta1.Msg" "Deposit"
    (finish (MsgDeposit.encode request create));
  decode_bytes MsgDepositResponse.decode data.

End client.
End MsgClientImpl.


(** ** [QueryClientImpl]

    [rpc] is the transport the class is constructed with: [rpc service method data]
    is what the promise of [this.rpc.request] settles to. *)
Module QueryClientImpl.
Section client.
Context {PB : Protobuf} (rpc : string → string → bytes → result bytes).

Definition Proposal (request : QueryProposalRequest.t) : result QueryProposalResponse.t :=
  data ← rpc "cosmos.gov.v1beta1.Query" "Proposal"
    (finish (QueryProposalRequest.encode request create));
  decode_bytes QueryProposalResponse.decode data.

Definition Proposals (request : QueryProposalsRequest.t) : result QueryProposalsResponse.t :=
  w ← QueryProposalsRequest.encode request create;
  data ← rpc "cosmos.gov.v1beta1.Query" "Proposals" (finish w);
  decode_bytes QueryProposalsResponse.decode data.

Definition Vote (request : QueryVoteRequest.t) : result QueryVoteResponse.t :=
  data ← rpc "cosmos.gov.v1beta1.Query" "Vote"
    (finish (QueryVoteRequest.encode request create));
  decode_bytes QueryVoteResponse.decode data.

Definition Votes (request : QueryVotesRequest.t) : result QueryVotesResponse.t :=
  w ← QueryVotesRequest.encode request create;
  data ← rpc "cosmos.gov.v1beta1.Query" "Votes" (finish w);
  decode_bytes QueryVotesResponse.decode data.

Definition Params (request : QueryParamsRequest.t) : result QueryParamsResponse.t :=
  data ← rpc "cosmos.gov.v1beta1.Query" "Params"
    (finish (QueryParamsRequest.encode request create));
  decode_bytes QueryParamsResponse.decode data.

Definition Deposit (request : QueryDepositRequest.t) : result QueryDepositResponse.t :=
  data ← rpc "cosmos.gov.v1beta1.Query" "Deposit"
    (finish (QueryDepositRequest.encode request create));
  decode_bytes QueryDepositResponse.decode data.

Definition Deposits (request : QueryDepositsRequest.t) : result QueryDepositsResponse.t :=
  w ← QueryDepositsRequest.encode request create;
  data ← rpc "cosmos.gov.v1beta1.Query" "Deposits" (finish w);
  decode_bytes QueryDepositsResponse.decode data.

Definition TallyResult (request : QueryTallyResultRequest.t) : result QueryTallyResultResponse.t :=
  data ← rpc "cosmos.gov.v1beta1.Query" "TallyResult"
    (finish (QueryTallyResultRequest.encode request create));
  decode_bytes QueryTallyResultResponse.decode data.

End client.
End QueryClientImpl.

(** ** The message types of this file *)

Definition messages {PB : Protobuf} {PS : ProtobufSpec PB} : list message_type :=
  [ WeightedVoteOption.message; TextProposal.message; Deposit.message; TallyResult.message;
   Proposal.message; Vote.message; DepositParams.message; VotingParams.message;
   TallyParams.message; GenesisState.message; MsgSubmitProposal.message;
   MsgSubmitProposalResponse.message; MsgVote.message; MsgVoteResponse.message;
   MsgVoteWeighted.message; MsgVoteWeightedResponse.message; MsgDeposit.message;
   MsgDepositResponse.message; QueryProposalRequest.message; QueryProposalResponse.message;
   QueryProposalsRequest.message; QueryProposalsResponse.message; QueryVoteRequest.message;
   QueryVoteResponse.message; QueryVotesRequest.message; QueryVotesResponse.message;
   QueryParamsRequest.message; QueryParamsResponse.message; QueryDepositRequest.message;
   QueryDepositResponse.message; QueryDepositsRequest.message; QueryDepositsResponse.message;
   QueryTallyResultRequest.message; QueryTallyResultResponse.message].

Lemma GovTypes_lawful {PB : Protobuf} {PS : ProtobufSpec PB} : Forall Lawful messages.
Proof. solve_table. Qed.

(** The methods of [MsgClientImpl]. *)
Definition msg_methods {PB : Protobuf} {PS : ProtobufSpec PB} : list rpc_method :=
  [mkMethod "cosmos.gov.v1beta1.Msg" "SubmitProposal"
     MsgSubmitProposal.message MsgSubmitProposalResponse.message
     (fun rpc => MsgClientImpl.SubmitProposal rpc);
   mkMethod "cosmos.gov.v1beta1.Msg" "Vote"
     MsgVote.message MsgVoteResponse.message
     (fun rpc => MsgClientImpl.Vote rpc);
   mkMethod "cosmos.gov.v1beta1.Msg" "VoteWeighted"
     MsgVoteWeighted.message MsgVoteWeightedResponse.message
     (fun rpc => MsgClientImpl.VoteWeighted rpc);
   mkMethod "cosmos.gov.v1beta1.Msg" "Deposit"
     MsgDeposit.message MsgDepositResponse.message
     (fun rpc => MsgClientImpl.Deposit rpc)].

Lemma GovTypes_msg_methods_lawful {PB : Protobuf} {PS : ProtobufSpec PB} : Forall method_lawful msg_methods.
Proof. solve_methods. Qed.

(** The methods of [QueryClientImpl]. *)
Definition query_methods {PB : Protobuf} {PS : ProtobufSpec PB} : list rpc_method :=
  [mkMethod "cosmos.gov.v1beta1.Query" "Proposal"
     QueryProposalRequest.message QueryProposalResponse.message
     (fun rpc => QueryClientImpl.Proposal rpc);
   mkMethod "cosmos.gov.v1beta1.Query" "Proposals"
     QueryProposalsRequest.message QueryProposalsResponse.message
     (fun rpc => QueryClientImpl.Proposals rpc);
   mkMethod "cosmos.gov.v1beta1.Query" "Vote"
     QueryVoteRequest.message QueryVoteResponse.message
     (fun rpc => QueryClientImpl.Vote rpc);
   mkMethod "cosmos.gov.v1beta1.Query" "Votes"
     QueryVotesRequest.message QueryVotesResponse.message
     (fun rpc => QueryClientImpl.Votes rpc);
   mkMethod "cosmos.gov.v1beta1.Query" "Params"
     QueryParamsRequest.message QueryParamsResponse.message
     (fun rpc => QueryClientImpl.Params rpc);
   mkMethod "cosmos.gov.v1beta1.Query" "Deposit"
     QueryDepositRequest.message QueryDepositResponse.message
     (fun rpc => QueryClientImpl.Deposit rpc);
   mkMethod "cosmos.gov.v1beta1.Query" "Deposits"
     QueryDepositsRequest.message QueryDepositsResponse.message
     (fun rpc => QueryClientImpl.Deposits rpc);
   mkMethod "cosmos.gov.v1beta1.Query" "TallyResult"
     QueryTallyResultRequest.message QueryTallyResultResponse.message
     (fun rpc => QueryClientImpl.TallyResult rpc)].

Lemma GovTypes_query_methods_lawful {PB : Protobuf} {PS : ProtobufSpec PB} : Forall method_lawful query_methods.
Proof. solve_methods. Qed.
