(* ===== verification/SlashingTypes.v ===== *)
(** * The messages of the slashing module of the Cosmos SDK

    Signing records and the parameters of slashing: the codecs of
    [cosmos.slashing.v1beta1/module/types/cosmos/slashing/v1beta1/*.js], with the RPC
    clients of tx.js and query.js. *)
From S2P Require Import Prelude Js Protobuf Codec Calendar Dates Base64 Fallible Proto3 MessageTable CommonTypes CosmosBase.
Open Scope Z_scope.

(** ** [ValidatorSigningInfo] (cosmos/slashing/v1beta1/slashing.js) *)

Module ValidatorSigningInfo.

Record t := mk {
  address : string;
  startHeight : number;
  indexOffset : number;
  jailedUntil : option date;
  tombstoned : bool;
  missedBlocksCounter : number;
}.

#[global] Instance t_eta : Settable t := λ m, mk m.(address) m.(startHeight) m.(indexOffset)
  m.(jailedUntil) m.(tombstoned) m.(missedBlocksCounter).

Definition base : t := mk "" 0 0 None false 0.

Definition encode {PB : Protobuf} (message : t) (writer : Writer) : result Writer :=
  Ok writer
  @>= pure (when (str_neq message.(address) "")
       (fun w => w @> uint32 10 @> string_ message.(address)))
  @>= pure (when (num_neq message.(startHeight) 0)
       (fun w => w @> uint32 16 @> int64 message.(startHeight)))
  @>= pure (when (num_neq message.(indexOffset) 0)
       (fun w => w @> uint32 24 @> int64 message.(indexOffset)))
  @>= pure (defined message.(jailedUntil) (fun v w => w @> uint32 34 @> fork @> encode_time v @> ldelim))
  @>= pure (when (Bool.eqb message.(tombstoned) true)
       (fun w => w @> uint32 40 @> bool_ message.(tombstoned)))
  @>= pure (when (num_neq message.(missedBlocksCounter) 0)
       (fun w => w @> uint32 48 @> int64 message.(missedBlocksCounter))).

Definition decode_field {PB : Protobuf} (tag : Z) (message : t) : RM t :=
  match field_number tag with
  | 1 => v ← read_string; mret (message <| address := v |>)
  | 2 => v ← read_number read_int64; mret (message <| startHeight := v |>)
  | 3 => v ← read_number read_int64; mret (message <| indexOffset := v |>)
  | 4 => v ← read_time; mret (message <| jailedUntil := Some v |>)
  | 5 => v ← read_bool; mret (message <| tombstoned := v |>)
  | 6 => v ← read_number read_int64; mret (message <| missedBlocksCounter := v |>)
  | _ => _ ← skipType (wire_type tag); mret message
  end.

Definition decode {PB : Protobuf} (length : option Z) : RM t :=
  decode_message length base decode_field.

Definition fromJSON (object : js) : result t :=
  address' ← field_or object "address" to_string "";
  startHeight' ← field_or object "startHeight" js_Number 0;
  indexOffset' ← field_or object "indexOffset" js_Number 0;
  jailedUntil' ← field_or object "jailedUntil" (to_some fromJsonTimestamp) None;
  tombstoned' ← field_or object "tombstoned" to_bool false;
  missedBlocksCounter' ← field_or object "missedBlocksCounter" js_Number 0;
  Ok (mk address' startHeight' indexOffset' jailedUntil' tombstoned' missedBlocksCounter').

Definition toJSON (message : t) : result js :=
  jailedUntil' ← option_result toISOString message.(jailedUntil);
  Ok (Obj ([("address", Str message.(address));
    ("startHeight", Num message.(startHeight));
    ("indexOffset", Num message.(indexOffset))] ++
   prop_opt "jailedUntil" Str jailedUntil' ++
   [("tombstoned", Bool message.(tombstoned));
    ("missedBlocksCounter", Num message.(missedBlocksCounter))])).

Record partial := mkPartial {
  p_address : option string;
  p_startHeight : option number;
  p_indexOffset : option number;
  p_jailedUntil : option date;
  p_tombstoned : option bool;
  p_missedBlocksCounter : option number;
}.

Definition fromPartial (object : partial) : t := {|
  address := object.(p_address) ?? "";
  startHeight := object.(p_startHeight) ?? Int 0;
  indexOffset := object.(p_indexOffset) ?? Int 0;
  jailedUntil := object.(p_jailedUntil);
  tombstoned := object.(p_tombstoned) ?? false;
  missedBlocksCounter := object.(p_missedBlocksCounter) ?? Int 0;
|}.

(** The object with no property given. *)
Definition nothing : partial := mkPartial None None None None None None.

(** The bytes [encode] writes. *)
Definition wire {PB : Protobuf} {PS : ProtobufSpec PB} (m : t) : bytes :=
  f_string 10 m.(address) ++
  f_number e_int64 16 m.(startHeight) ++
  f_number e_int64 24 m.(indexOffset) ++
  f_message 34 wire_time m.(jailedUntil) ++
  f_bool 40 m.(tombstoned) ++
  f_number e_int64 48 m.(missedBlocksCounter).

Definition valid (m : t) : Prop :=
  int64_ok m.(startHeight) ∧ int64_ok m.(indexOffset) ∧ from_option date_ok True m.(jailedUntil) ∧ int64_ok m.(missedBlocksCounter).

(** The byte fields hold arrays, as the interface declares. *)
Definition typed (m : t) : bool := true.

(** The message without its empty byte arrays. *)
Definition normal (m : t) : t := {|
  address := m.(address);
  startHeight := m.(startHeight);
  indexOffset := m.(indexOffset);
  jailedUntil := m.(jailedUntil);
  tombstoned := m.(tombstoned);
  missedBlocksCounter := m.(missedBlocksCounter);
|}.

(** The dates are valid. *)
Definition timed (m : t) : bool := from_option date_valid true m.(jailedUntil).

Definition encodable {PB : Protobuf} {PS : ProtobufSpec PB} (m : t) : Prop :=
  typed m = true ∧ valid m ∧ small (wire m).

Definition merge (m a : t) : t := {|
  address := later_string m.(address) a.(address);
  startHeight := later_number m.(startHeight) a.(startHeight);
  indexOffset := later_number m.(indexOffset) a.(indexOffset);
  jailedUntil := later_message m.(jailedUntil) a.(jailedUntil);
  tombstoned := later_bool m.(tombstoned) a.(tombstoned);
  missedBlocksCounter := later_number m.(missedBlocksCounter) a.(missedBlocksCounter);
|}.

(** A whole message seen as a partial one. *)
Definition full (m : t) : partial := {|
  p_address := Some m.(address);
  p_startHeight := Some m.(startHeight);
  p_indexOffset := Some m.(indexOffset);
  p_jailedUntil := m.(jailedUntil);
  p_tombstoned := Some m.(tombstoned);
  p_missedBlocksCounter := Some m.(missedBlocksCounter);
|}.

(** The message as its schema declares it. *)
Definition schema (m : t) : list field :=
  [implicit 1 (VString m.(address));
   implicit 2 (VInt Int64 m.(startHeight));
   implicit 3 (VInt Int64 m.(indexOffset));
   singular 4 Stamp timestamp_value m.(jailedUntil);
   implicit 5 (VBool m.(tombstoned));
   implicit 6 (VInt Int64 m.(missedBlocksCounter))].

(** The message with its default for every property that is not kept. *)
Definition only (kept : string → bool) (m : t) : t := {|
  address := if kept "address" then m.(address) else "";
  startHeight := if kept "startHeight" then m.(startHeight) else Int 0;
  indexOffset := if kept "indexOffset" then m.(indexOffset) else Int 0;
  jailedUntil := if kept "jailedUntil" then m.(jailedUntil) else None;
  tombstoned := if kept "tombstoned" then m.(tombstoned) else false;
  missedBlocksCounter := if kept "missedBlocksCounter" then m.(missedBlocksCounter) else Int 0;
|}.

#[global] Instance codec {PB : Protobuf} : FallibleCodec t :=
  {| fmsg_base := base; fmsg_encode := encode; fmsg_field := decode_field |}.

#[global] Program Instance spec {PB : Protobuf} (PS : ProtobufSpec PB) : FallibleSpec PS t :=
  {| fmsg_wire := wire; fmsg_valid := valid; fmsg_typed := typed; fmsg_normal := normal;
     fmsg_merge := merge |}.
Next Obligation. solve_fencode_wire. Qed.
Next Obligation. intros. solve_fencode_throws encode typed. Qed.
Next Obligation. solve_fdecode_wire. Qed.
Next Obligation. solve_fmerge_base. Qed.
Next Obligation. intros. solve_fadvances decode_field. Qed.

#[global] Program Instance given_ : FalliblePartial t partial :=
  {| fmsg_fromPartial := fromPartial; fmsg_full := full; fmsg_given := typed |}.
Next Obligation. solve_fgiven fromPartial typed. Qed.
Next Obligation. solve_fpartial fromPartial full typed. Qed.

#[global] Program Instance json : DatedJson t :=
  {| dmsg_fromJSON := fromJSON; dmsg_toJSON := toJSON; dmsg_timed := timed;
     dmsg_named := fun _ => true; dmsg_known := fun m => m |}.
Next Obligation. solve_djson fromJSON toJSON timed. Qed.
Next Obligation. solve_dthrows toJSON timed. Qed.
Next Obligation. reflexivity. Qed.

#[global] Instance schema_wire {PB : Protobuf} {PS : ProtobufSpec PB} : WireSchema wire schema.
Proof. solve_schema_wire wire schema. Qed.

#[global] Instance schema_normal : NormalSchema normal schema.
Proof. solve_schema_normal normal schema. Qed.

#[global] Instance schema_merge : MergeSchema merge schema.
Proof. solve_schema_merge merge schema. Qed.

(** Its row in the table of message types. *)
Definition message {PB : Protobuf} {PS : ProtobufSpec PB} : message_type :=
  dated_message "ValidatorSigningInfo" nothing true schema only.

#[global] Instance message_lawful {PB : Protobuf} (PS : ProtobufSpec PB) : Lawful message.
Proof. solve_lawful decode_field fromJSON only. Qed.

End ValidatorSigningInfo.

(** ** [Params] (cosmos/slashing/v1beta1/slashing.js) *)

Module Params.

Record t := mk {
  signedBlocksWindow : number;
  minSignedPerWindow : option bytes;
  downtimeJailDuration : option Duration.t;
  slashFractionDoubleSign : option bytes;
  slashFractionDowntime : option bytes;
}.

#[global] Instance t_eta : Settable t := λ m, mk m.(signedBlocksWindow) m.(minSignedPerWindow)
  m.(downtimeJailDuration) m.(slashFractionDoubleSign) m.(slashFractionDowntime).

Definition base : t := mk 0 None None None None.

Definition encode {PB : Protobuf} (message : t) (writer : Writer) : result Writer :=
  Ok writer
  @>= pure (when (num_neq message.(signedBlocksWindow) 0)
       (fun w => w @> uint32 8 @> int64 message.(signedBlocksWindow)))
  @>= bytes_field 18 message.(minSignedPerWindow)
  @>= pure (defined message.(downtimeJailDuration) (fun v w => w @> uint32 26 @> fork @> Duration.encode v @> ldelim))
  @>= bytes_field 34 message.(slashFractionDoubleSign)
  @>= bytes_field 42 message.(slashFractionDowntime).

Definition decode_field {PB : Protobuf} (tag : Z) (message : t) : RM t :=
  match field_number tag with
  | 1 => v ← read_number read_int64; mret (message <| signedBlocksWindow := v |>)
  | 2 => v ← read_bytes; mret (message <| minSignedPerWindow := Some v |>)
  | 3 => v ← read_nested Duration.decode; mret (message <| downtimeJailDuration := Some v |>)
  | 4 => v ← read_bytes; mret (message <| slashFractionDoubleSign := Some v |>)
  | 5 => v ← read_bytes; mret (message <| slashFractionDowntime := Some v |>)
  | _ => _ ← skipType (wire_type tag); mret message
  end.

Definition decode {PB : Protobuf} (length : option Z) : RM t :=
  decode_message length base decode_field.

Definition fromJSON (object : js) : result t :=
  signedBlocksWindow' ← field_or object "signedBlocksWindow" js_Number 0;
  minSignedPerWindow' ← field_or object "minSignedPerWindow" (to_some bytesFromBase64) None;
  downtimeJailDuration' ← field_or object "downtimeJailDuration" (to_some Duration.fromJSON) None;
  slashFractionDoubleSign' ← field_or object "slashFractionDoubleSign" (to_some bytesFromBase64) None;
  slashFractionDowntime' ← field_or object "slashFractionDowntime" (to_some bytesFromBase64) None;
  Ok (mk signedBlocksWindow' minSignedPerWindow' downtimeJailDuration' slashFractionDoubleSign'
    slashFractionDowntime').

Definition toJSON (message : t) : js :=
  Obj ([("signedBlocksWindow", Num message.(signedBlocksWindow))] ++
   prop_opt "minSignedPerWindow" (fun b => Str (base64FromBytes b)) message.(minSignedPerWindow) ++
   prop_opt "downtimeJailDuration" Duration.toJSON message.(downtimeJailDuration) ++
   prop_opt "slashFractionDoubleSign" (fun b => Str (base64FromBytes b)) message.(slashFractionDoubleSign) ++
   prop_opt "slashFractionDowntime" (fun b => Str (base64FromBytes b)) message.(slashFractionDowntime)).

Record partial := mkPartial {
  p_signedBlocksWindow : option number;
  p_minSignedPerWindow : option bytes;
  p_downtimeJailDuration : option Duration.partial;
  p_slashFractionDoubleSign : option bytes;
  p_slashFractionDowntime : option bytes;
}.

Definition fromPartial (object : partial) : t := {|
  signedBlocksWindow := object.(p_signedBlocksWindow) ?? Int 0;
  minSignedPerWindow := Some (object.(p_minSignedPerWindow) ?? []);
  downtimeJailDuration := Duration.fromPartial <$> object.(p_downtimeJailDuration);
  slashFractionDoubleSign := Some (object.(p_slashFractionDoubleSign) ?? []);
  slashFractionDowntime := Some (object.(p_slashFractionDowntime) ?? []);
|}.

(** The object with no property given. *)
Definition nothing : partial := mkPartial None None None None None.

(** The bytes [encode] writes. *)
Definition wire {PB : Protobuf} {PS : ProtobufSpec PB} (m : t) : bytes :=
  f_number e_int64 8 m.(signedBlocksWindow) ++
  f_bytes 18 m.(minSignedPerWindow) ++
  f_message 26 Duration.wire m.(downtimeJailDuration) ++
  f_bytes 34 m.(slashFractionDoubleSign) ++
  f_bytes 42 m.(slashFractionDowntime).

Definition valid (m : t) : Prop :=
  int64_ok m.(signedBlocksWindow) ∧ from_option Duration.valid True m.(downtimeJailDuration).

(** The byte fields hold arrays, as the interface declares. *)
Definition typed (m : t) : bool := given m.(minSignedPerWindow) && given m.(slashFractionDoubleSign) && given m.(slashFractionDowntime).

(** The message without its empty byte arrays. *)
Definition normal (m : t) : t := {|
  signedBlocksWindow := m.(signedBlocksWindow);
  minSignedPerWindow := nonempty m.(minSignedPerWindow);
  downtimeJailDuration := m.(downtimeJailDuration);
  slashFractionDoubleSign := nonempty m.(slashFractionDoubleSign);
  slashFractionDowntime := nonempty m.(slashFractionDowntime);
|}.

Definition encodable {PB : Protobuf} {PS : ProtobufSpec PB} (m : t) : Prop :=
  typed m = true ∧ valid m ∧ small (wire m).

Definition merge (m a : t) : t := {|
  signedBlocksWindow := later_number m.(signedBlocksWindow) a.(signedBlocksWindow);
  minSignedPerWindow := later_bytes m.(minSignedPerWindow) a.(minSignedPerWindow);
  downtimeJailDuration := later_message m.(downtimeJailDuration) a.(downtimeJailDuration);
  slashFractionDoubleSign := later_bytes m.(slashFractionDoubleSign) a.(slashFractionDoubleSign);
  slashFractionDowntime := later_bytes m.(slashFractionDowntime) a.(slashFractionDowntime);
|}.

(** A whole message seen as a partial one. *)
Definition full (m : t) : partial := {|
  p_signedBlocksWindow := Some m.(signedBlocksWindow);
  p_minSignedPerWindow := m.(minSignedPerWindow);
  p_downtimeJailDuration := Duration.full <$> m.(downtimeJailDuration);
  p_slashFractionDoubleSign := m.(slashFractionDoubleSign);
  p_slashFractionDowntime := m.(slashFractionDowntime);
|}.

(** The message as its schema declares it. *)
Definition schema (m : t) : list field :=
  [implicit 1 (VInt Int64 m.(signedBlocksWindow));
   implicit 2 (byte_array m.(minSignedPerWindow));
   singular 3 Optional (message_value Duration.schema) m.(downtimeJailDuration);
   implicit 4 (byte_array m.(slashFractionDoubleSign));
   implicit 5 (byte_array m.(slashFractionDowntime))].

(** The message with its default for every property that is not kept. *)
Definition only (kept : string → bool) (m : t) : t := {|
  signedBlocksWindow := if kept "signedBlocksWindow" then m.(signedBlocksWindow) else Int 0;
  minSignedPerWindow := if kept "minSignedPerWindow" then m.(minSignedPerWindow) else None;
  downtimeJailDuration := if kept "downtimeJailDuration" then m.(downtimeJailDuration) else None;
  slashFractionDoubleSign := if kept "slashFractionDoubleSign" then m.(slashFractionDoubleSign) else None;
  slashFractionDowntime := if kept "slashFractionDowntime" then m.(slashFractionDowntime) else None;
|}.

#[global] Instance codec {PB : Protobuf} : FallibleCodec t :=
  {| fmsg_base := base; fmsg_encode := encode; fmsg_field := decode_field |}.

#[global] Program Instance spec {PB : Protobuf} (PS : ProtobufSpec PB) : FallibleSpec PS t :=
  {| fmsg_wire := wire; fmsg_valid := valid; fmsg_typed := typed; fmsg_normal := normal;
     fmsg_merge := merge |}.
Next Obligation. solve_fencode_wire. Qed.
Next Obligation. intros. solve_fencode_throws encode typed. Qed.
Next Obligation. solve_fdecode_wire. Qed.
Next Obligation. solve_fmerge_base. Qed.
Next Obligation. intros. solve_fadvances decode_field. Qed.

#[global] Program Instance given_ : FalliblePartial t partial :=
  {| fmsg_fromPartial := fromPartial; fmsg_full := full; fmsg_given := typed |}.
Next Obligation. solve_fgiven fromPartial typed. Qed.
Next Obligation. solve_fpartial fromPartial full typed. Qed.

#[global] Program Instance json : FallibleJson t :=
  {| fmsg_fromJSON := fromJSON; fmsg_toJSON := toJSON;
     fmsg_named := fun _ => true; fmsg_known := fun m => m |}.
Next Obligation. solve_fjson fromJSON toJSON. Qed.
Next Obligation. reflexivity. Qed.

#[global] Instance schema_wire {PB : Protobuf} {PS : ProtobufSpec PB} : WireSchema wire schema.
Proof. solve_schema_wire wire schema. Qed.

#[global] Instance schema_normal : NormalSchema normal schema.
Proof. solve_schema_normal normal schema. Qed.

#[global] Instance schema_merge : MergeSchema merge schema.
Proof. solve_schema_merge merge schema. Qed.

(** Its row in the table of message types. *)
Definition message {PB : Protobuf} {PS : ProtobufSpec PB} : message_type :=
  fallible_message "Params" nothing true schema only.

#[global] Instance message_lawful {PB : Protobuf} (PS : ProtobufSpec PB) : Lawful message.
Proof. solve_lawful decode_field fromJSON only. Qed.

End Params.

(** ** [SigningInfo] (cosmos/slashing/v1beta1/genesis.js) *)

Module SigningInfo.

Record t := mk {
  address : string;
  validatorSigningInfo : option ValidatorSigningInfo.t;
}.

#[global] Instance t_eta : Settable t := λ m, mk m.(address) m.(validatorSigningInfo).

Definition base : t := mk "" None.

Definition encode {PB : Protobuf} (message : t) (writer : Writer) : result Writer :=
  Ok writer
  @>= pure (when (str_neq message.(address) "")
       (fun w => w @> uint32 10 @> string_ message.(address)))
  @>= defined_e message.(validatorSigningInfo) (submessage 18 ValidatorSigningInfo.encode).

Definition decode_field {PB : Protobuf} (tag : Z) (message : t) : RM t :=
  match field_number tag with
  | 1 => v ← read_string; mret (message <| address := v |>)
  | 2 => v ← read_nested ValidatorSigningInfo.decode;
         mret (message <| validatorSigningInfo := Some v |>)
  | _ => _ ← skipType (wire_type tag); mret message
  end.

Definition decode {PB : Protobuf} (length : option Z) : RM t :=
  decode_message length base decode_field.

Definition fromJSON (object : js) : result t :=
  address' ← field_or object "address" to_string "";
  validatorSigningInfo' ← field_or object "validatorSigningInfo" (to_some ValidatorSigningInfo.fromJSON) None;
  Ok (mk address' validatorSigningInfo').

Definition toJSON (message : t) : result js :=
  validatorSigningInfo' ← option_result ValidatorSigningInfo.toJSON message.(validatorSigningInfo);
  Ok (Obj ([("address", Str message.(address))] ++
   prop_opt "validatorSigningInfo" id validatorSigningInfo')).

Record partial := mkPartial {
  p_address : option string;
  p_validatorSigningInfo : option ValidatorSigningInfo.partial;
}.

Definition fromPartial (object : partial) : t := {|
  address := object.(p_address) ?? "";
  validatorSigningInfo := ValidatorSigningInfo.fromPartial <$> object.(p_validatorSigningInfo);
|}.

(** The object with no property given. *)
Definition nothing : partial := mkPartial None None.

(** The bytes [encode] writes. *)
Definition wire {PB : Protobuf} {PS : ProtobufSpec PB} (m : t) : bytes :=
  f_string 10 m.(address) ++
  f_message 18 ValidatorSigningInfo.wire m.(validatorSigningInfo).

Definition valid (m : t) : Prop :=
  from_option ValidatorSigningInfo.valid True m.(validatorSigningInfo).

(** The byte fields hold arrays, as the interface declares. *)
Definition typed (m : t) : bool := from_option ValidatorSigningInfo.typed true m.(validatorSigningInfo).

(** The message without its empty byte arrays. *)
Definition normal (m : t) : t := {|
  address := m.(address);
  validatorSigningInfo := ValidatorSigningInfo.normal <$> m.(validatorSigningInfo);
|}.

(** The dates are valid. *)
Definition timed (m : t) : bool := from_option ValidatorSigningInfo.timed true m.(validatorSigningInfo).

Definition encodable {PB : Protobuf} {PS : ProtobufSpec PB} (m : t) : Prop :=
  typed m = true ∧ valid m ∧ small (wire m).

Definition merge (m a : t) : t := {|
  address := later_string m.(address) a.(address);
  validatorSigningInfo := later_message m.(validatorSigningInfo) (ValidatorSigningInfo.normal <$> a.(validatorSigningInfo));
|}.

(** A whole message seen as a partial one. *)
Definition full (m : t) : partial := {|
  p_address := Some m.(address);
  p_validatorSigningInfo := ValidatorSigningInfo.full <$> m.(validatorSigningInfo);
|}.

(** The message as its schema declares it. *)
Definition schema (m : t) : list field :=
  [implicit 1 (VString m.(address));
   singular 2 Optional (message_value ValidatorSigningInfo.schema) m.(validatorSigningInfo)].

(** The message with its default for every property that is not kept. *)
Definition only (kept : string → bool) (m : t) : t := {|
  address := if kept "address" then m.(address) else "";
  validatorSigningInfo := if kept "validatorSigningInfo" then m.(validatorSigningInfo) else None;
|}.

#[global] Instance codec {PB : Protobuf} : FallibleCodec t :=
  {| fmsg_base := base; fmsg_encode := encode; fmsg_field := decode_field |}.

#[global] Program Instance spec {PB : Protobuf} (PS : ProtobufSpec PB) : FallibleSpec PS t :=
  {| fmsg_wire := wire; fmsg_valid := valid; fmsg_typed := typed; fmsg_normal := normal;
     fmsg_merge := merge |}.
Next Obligation. solve_fencode_wire. Qed.
Next Obligation. intros. solve_fencode_throws encode typed. Qed.
Next Obligation. solve_fdecode_wire. Qed.
Next Obligation. solve_fmerge_base. Qed.
Next Obligation. intros. solve_fadvances decode_field. Qed.

#[global] Program Instance given_ : FalliblePartial t partial :=
  {| fmsg_fromPartial := fromPartial; fmsg_full := full; fmsg_given := typed |}.
Next Obligation. solve_fgiven fromPartial typed. Qed.
Next Obligation. solve_fpartial fromPartial full typed. Qed.

#[global] Program Instance json : DatedJson t :=
  {| dmsg_fromJSON := fromJSON; dmsg_toJSON := toJSON; dmsg_timed := timed;
     dmsg_named := fun _ => true; dmsg_known := fun m => m |}.
Next Obligation. solve_djson fromJSON toJSON timed. Qed.
Next Obligation. solve_dthrows toJSON timed. Qed.
Next Obligation. reflexivity. Qed.

#[global] Instance schema_wire {PB : Protobuf} {PS : ProtobufSpec PB} : WireSchema wire schema.
Proof. solve_schema_wire wire schema. Qed.

#[global] Instance schema_normal : NormalSchema normal schema.
Proof. solve_schema_normal normal schema. Qed.

#[global] Instance schema_merge : MergeSchema merge schema.
Proof. solve_schema_merge merge schema. Qed.

(** Its row in the table of message types. *)
Definition message {PB : Protobuf} {PS : ProtobufSpec PB} : message_type :=
  dated_message "SigningInfo" nothing true schema only.

#[global] Instance message_lawful {PB : Protobuf} (PS : ProtobufSpec PB) : Lawful message.
Proof. solve_lawful decode_field fromJSON only. Qed.

End SigningInfo.

(** ** [MissedBlock] (cosmos/slashing/v1beta1/genesis.js) *)

Module MissedBlock.

Record t := mk {
  index : number;
  missed : bool;
}.

#[global] Instance t_eta : Settable t := λ m, mk m.(index) m.(missed).

Definition base : t := mk 0 false.

Definition encode {PB : Protobuf} (message : t) (writer : Writer) : Writer :=
  writer
  @> when (num_neq message.(index) 0) (fun w => w @> uint32 8 @> int64 message.(index))
  @> when (Bool.eqb message.(missed) true) (fun w => w @> uint32 16 @> bool_ message.(missed)).

Definition decode_field {PB : Protobuf} (tag : Z) (message : t) : RM t :=
  match field_number tag with
  | 1 => v ← read_number read_int64; mret (message <| index := v |>)
  | 2 => v ← read_bool; mret (message <| missed := v |>)
  | _ => _ ← skipType (wire_type tag); mret message
  end.

Definition decode {PB : Protobuf} (length : option Z) : RM t :=
  decode_message length base decode_field.

Definition fromJSON (object : js) : result t :=
  index' ← field_or object "index" js_Number 0;
  missed' ← field_or object "missed" to_bool false;
  Ok (mk index' missed').

Definition toJSON (message : t) : js :=
  Obj ([("index", Num message.(index));
    ("missed", Bool message.(missed))]).

Record partial := mkPartial {
  p_index : option number;
  p_missed : option bool;
}.

Definition fromPartial (object : partial) : t := {|
  index := object.(p_index) ?? Int 0;
  missed := object.(p_missed) ?? false;
|}.

(** The object with no property given. *)
Definition nothing : partial := mkPartial None None.

(** The bytes [encode] writes. *)
Definition wire {PB : Protobuf} {PS : ProtobufSpec PB} (m : t) : bytes :=
  f_number e_int64 8 m.(index) ++
  f_bool 16 m.(missed).

Definition valid (m : t) : Prop :=
  int64_ok m.(index).

Definition encodable {PB : Protobuf} {PS : ProtobufSpec PB} (m : t) : Prop :=
  valid m ∧ small (wire m).

Definition merge (m a : t) : t := {|
  index := later_number m.(index) a.(index);
  missed := later_bool m.(missed) a.(missed);
|}.

(** A whole message seen as a partial one. *)
Definition full (m : t) : partial := {|
  p_index := Some m.(index);
  p_missed := Some m.(missed);
|}.

(** The message as its schema declares it. *)
Definition schema (m : t) : list field :=
  [implicit 1 (VInt Int64 m.(index));
   implicit 2 (VBool m.(missed))].

(** The message with its default for every property that is not kept. *)
Definition only (kept : string → bool) (m : t) : t := {|
  index := if kept "index" then m.(index) else Int 0;
  missed := if kept "missed" then m.(missed) else false;
|}.

#[global] Instance codec {PB : Protobuf} : MessageCodec t :=
  {| msg_base := base; msg_encode := encode; msg_field := decode_field |}.

#[global] Program Instance spec {PB : Protobuf} (PS : ProtobufSpec PB) : MessageSpec PS t :=
  {| msg_wire := wire; msg_valid := valid; msg_merge := merge |}.
Next Obligation. solve_encode_wire. Qed.
Next Obligation. solve_decode_wire. Qed.
Next Obligation. solve_merge_base. Qed.
Next Obligation. intros. solve_advances decode_field. Qed.

#[global] Program Instance data : MessageData t partial :=
  {| msg_fromJSON := fromJSON; msg_toJSON := toJSON;
     msg_fromPartial := fromPartial; msg_full := full |}.
Next Obligation. solve_json fromJSON toJSON. Qed.
Next Obligation. solve_partial fromPartial full. Qed.

#[global] Instance schema_wire {PB : Protobuf} {PS : ProtobufSpec PB} : WireSchema wire schema.
Proof. solve_schema_wire wire schema. Qed.

#[global] Instance schema_merge : MergeSchema merge schema.
Proof. solve_schema_merge merge schema. Qed.

(** Its row in the table of message types. *)
Definition message {PB : Protobuf} {PS : ProtobufSpec PB} : message_type :=
  plain_message "MissedBlock" nothing true schema only.

#[global] Instance message_lawful {PB : Protobuf} (PS : ProtobufSpec PB) : Lawful message.
Proof. solve_lawful decode_field fromJSON only. Qed.

End MissedBlock.

(** ** [ValidatorMissedBlocks] (cosmos/slashing/v1beta1/genesis.js) *)

Module ValidatorMissedBlocks.

Record t := mk {
  address : string;
  missedBlocks : list MissedBlock.t;
}.

#[global] Instance t_eta : Settable t := λ m, mk m.(address) m.(missedBlocks).

Definition base : t := mk "" [].

Definition encode {PB : Protobuf} (message : t) (writer : Writer) : Writer :=
  writer
  @> when (str_neq message.(address) "") (fun w => w @> uint32 10 @> string_ message.(address))
  @> each message.(missedBlocks) (fun v w => w @> uint32 18 @> fork @> MissedBlock.encode v @> ldelim).

Definition decode_field {PB : Protobuf} (tag : Z) (message : t) : RM t :=
  match field_number tag with
  | 1 => v ← read_string; mret (message <| address := v |>)
  | 2 => v ← read_nested MissedBlock.decode;
         mret (message <| missedBlocks := message.(missedBlocks) ++ [v] |>)
  | _ => _ ← skipType (wire_type tag); mret message
  end.

Definition decode {PB : Protobuf} (length : option Z) : RM t :=
  decode_message length base decode_field.

Definition fromJSON (object : js) : result t :=
  address' ← field_or object "address" to_string "";
  missedBlocks' ← field_or object "missedBlocks" (to_list MissedBlock.fromJSON) [];
  Ok (mk address' missedBlocks').

Definition toJSON (message : t) : js :=
  Obj ([("address", Str message.(address));
    ("missedBlocks", Arr (map MissedBlock.toJSON message.(missedBlocks)))]).

Record partial := mkPartial {
  p_address : option string;
  p_missedBlocks : option (list MissedBlock.partial);
}.

Definition fromPartial (object : partial) : t := {|
  address := object.(p_address) ?? "";
  missedBlocks := map MissedBlock.fromPartial (object.(p_missedBlocks) ?? []);
|}.

(** The object with no property given. *)
Definition nothing : partial := mkPartial None None.

(** The bytes [encode] writes. *)
Definition wire {PB : Protobuf} {PS : ProtobufSpec PB} (m : t) : bytes :=
  f_string 10 m.(address) ++
  f_repeated 18 MissedBlock.wire m.(missedBlocks).

Definition valid (m : t) : Prop :=
  Forall MissedBlock.valid m.(missedBlocks).

Definition encodable {PB : Protobuf} {PS : ProtobufSpec PB} (m : t) : Prop :=
  valid m ∧ small (wire m).

Definition merge (m a : t) : t := {|
  address := later_string m.(address) a.(address);
  missedBlocks := m.(missedBlocks) ++ a.(missedBlocks);
|}.

(** A whole message seen as a partial one. *)
Definition full (m : t) : partial := {|
  p_address := Some m.(address);
  p_missedBlocks := Some (map MissedBlock.full m.(missedBlocks));
|}.

(** The message as its schema declares it. *)
Definition schema (m : t) : list field :=
  [implicit 1 (VString m.(address));
   repeated 2 (message_value MissedBlock.schema) m.(missedBlocks)].

(** The message with its default for every property that is not kept. *)
Definition only (kept : string → bool) (m : t) : t := {|
  address := if kept "address" then m.(address) else "";
  missedBlocks := if kept "missedBlocks" then m.(missedBlocks) else [];
|}.

#[global] Instance codec {PB : Protobuf} : MessageCodec t :=
  {| msg_base := base; msg_encode := encode; msg_field := decode_field |}.

#[global] Program Instance spec {PB : Protobuf} (PS : ProtobufSpec PB) : MessageSpec PS t :=
  {| msg_wire := wire; msg_valid := valid; msg_merge := merge |}.
Next Obligation. solve_encode_wire. Qed.
Next Obligation. solve_decode_wire. Qed.
Next Obligation. solve_merge_base. Qed.
Next Obligation. intros. solve_advances decode_field. Qed.

#[global] Program Instance data : MessageData t partial :=
  {| msg_fromJSON := fromJSON; msg_toJSON := toJSON;
     msg_fromPartial := fromPartial; msg_full := full |}.
Next Obligation. solve_json fromJSON toJSON. Qed.
Next Obligation. solve_partial fromPartial full. Qed.

#[global] Instance schema_wire {PB : Protobuf} {PS : ProtobufSpec PB} : WireSchema wire schema.
Proof. solve_schema_wire wire schema. Qed.

#[global] Instance schema_merge : MergeSchema merge schema.
Proof. solve_schema_merge merge schema. Qed.

(** Its row in the table of message types. *)
Definition message {PB : Protobuf} {PS : ProtobufSpec PB} : message_type :=
  plain_message "ValidatorMissedBlocks" nothing true schema only.

#[global] Instance message_lawful {PB : Protobuf} (PS : ProtobufSpec PB) : Lawful message.
Proof. solve_lawful decode_field fromJSON only. Qed.

End ValidatorMissedBlocks.

(** ** [GenesisState] (cosmos/slashing/v1beta1/genesis.js) *)

Module GenesisState.

Record t := mk {
  params : option Params.t;
  signingInfos : list SigningInfo.t;
  missedBlocks : list ValidatorMissedBlocks.t;
}.

#[global] Instance t_eta : Settable t := λ m, mk m.(params) m.(signingInfos) m.(missedBlocks).

Definition base : t := mk None [] [].

Definition encode {PB : Protobuf} (message : t) (writer : Writer) : result Writer :=
  Ok writer
  @>= defined_e message.(params) (submessage 10 Params.encode)
  @>= each_e message.(signingInfos) (submessage 18 SigningInfo.encode)
  @>= pure (each message.(missedBlocks) (fun v w => w @> uint32 26 @> fork @> ValidatorMissedBlocks.encode v @> ldelim)).

Definition decode_field {PB : Protobuf} (tag : Z) (message : t) : RM t :=
  match field_number tag with
  | 1 => v ← read_nested Params.decode; mret (message <| params := Some v |>)
  | 2 => v ← read_nested SigningInfo.decode;
         mret (message <| signingInfos := message.(signingInfos) ++ [v] |>)
  | 3 => v ← read_nested ValidatorMissedBlocks.decode;
         mret (message <| missedBlocks := message.(missedBlocks) ++ [v] |>)
  | _ => _ ← skipType (wire_type tag); mret message
  end.

Definition decode {PB : Protobuf} (length : option Z) : RM t :=
  decode_message length base decode_field.

Definition fromJSON (object : js) : result t :=
  params' ← field_or object "params" (to_some Params.fromJSON) None;
  signingInfos' ← field_or object "signingInfos" (to_list SigningInfo.fromJSON) [];
  missedBlocks' ← field_or object "missedBlocks" (to_list ValidatorMissedBlocks.fromJSON) [];
  Ok (mk params' signingInfos' missedBlocks').

Definition toJSON (message : t) : result js :=
  signingInfos' ← result_map SigningInfo.toJSON message.(signingInfos);
  Ok (Obj (prop_opt "params" Params.toJSON message.(params) ++
   [("signingInfos", Arr signingInfos');
    ("missedBlocks", Arr (map ValidatorMissedBlocks.toJSON message.(missedBlocks)))])).

Record partial := mkPartial {
  p_params : option Params.partial;
  p_signingInfos : option (list SigningInfo.partial);
  p_missedBlocks : option (list ValidatorMissedBlocks.partial);
}.

Definition fromPartial (object : partial) : t := {|
  params := Params.fromPartial <$> object.(p_params);
  signingInfos := map SigningInfo.fromPartial (object.(p_signingInfos) ?? []);
  missedBlocks := map ValidatorMissedBlocks.fromPartial (object.(p_missedBlocks) ?? []);
|}.

(** The object with no property given. *)
Definition nothing : partial := mkPartial None None None.

(** The bytes [encode] writes. *)
Definition wire {PB : Protobuf} {PS : ProtobufSpec PB} (m : t) : bytes :=
  f_message 10 Params.wire m.(params) ++
  f_repeated 18 SigningInfo.wire m.(signingInfos) ++
  f_repeated 26 ValidatorMissedBlocks.wire m.(missedBlocks).

Definition valid (m : t) : Prop :=
  from_option Params.valid True m.(params) ∧ Forall SigningInfo.valid m.(signingInfos) ∧ Forall ValidatorMissedBlocks.valid m.(missedBlocks).

(** The byte fields hold arrays, as the interface declares. *)
Definition typed (m : t) : bool := from_option Params.typed true m.(params) && forallb SigningInfo.typed m.(signingInfos).

(** The message without its empty byte arrays. *)
Definition normal (m : t) : t := {|
  params := Params.normal <$> m.(params);
  signingInfos := map SigningInfo.normal m.(signingInfos);
  missedBlocks := m.(missedBlocks);
|}.

(** The dates are valid. *)
Definition timed (m : t) : bool := forallb SigningInfo.timed m.(signingInfos).

Definition encodable {PB : Protobuf} {PS : ProtobufSpec PB} (m : t) : Prop :=
  typed m = true ∧ valid m ∧ small (wire m).

Definition merge (m a : t) : t := {|
  params := later_message m.(params) (Params.normal <$> a.(params));
  signingInfos := m.(signingInfos) ++ map SigningInfo.normal a.(signingInfos);
  missedBlocks := m.(missedBlocks) ++ a.(missedBlocks);
|}.

(** A whole message seen as a partial one. *)
Definition full (m : t) : partial := {|
  p_params := Params.full <$> m.(params);
  p_signingInfos := Some (map SigningInfo.full m.(signingInfos));
  p_missedBlocks := Some (map ValidatorMissedBlocks.full m.(missedBlocks));
|}.

(** The message as its schema declares it. *)
Definition schema (m : t) : list field :=
  [singular 1 Optional (message_value Params.schema) m.(params);
   repeated 2 (message_value SigningInfo.schema) m.(signingInfos);
   repeated 3 (message_value ValidatorMissedBlocks.schema) m.(missedBlocks)].

(** The message with its default for every property that is not kept. *)
Definition only (kept : string → bool) (m : t) : t := {|
  params := if kept "params" then m.(params) else None;
  signingInfos := if kept "signingInfos" then m.(signingInfos) else [];
  missedBlocks := if kept "missedBlocks" then m.(missedBlocks) else [];
|}.

#[global] Instance codec {PB : Protobuf} : FallibleCodec t :=
  {| fmsg_base := base; fmsg_encode := encode; fmsg_field := decode_field |}.

#[global] Program Instance spec {PB : Protobuf} (PS : ProtobufSpec PB) : FallibleSpec PS t :=
  {| fmsg_wire := wire; fmsg_valid := valid; fmsg_typed := typed; fmsg_normal := normal;
     fmsg_merge := merge |}.
Next Obligation. solve_fencode_wire. Qed.
Next Obligation. intros. solve_fencode_throws encode typed. Qed.
Next Obligation. solve_fdecode_wire. Qed.
Next Obligation. solve_fmerge_base. Qed.
Next Obligation. intros. solve_fadvances decode_field. Qed.

#[global] Program Instance given_ : FalliblePartial t partial :=
  {| fmsg_fromPartial := fromPartial; fmsg_full := full; fmsg_given := typed |}.
Next Obligation. solve_fgiven fromPartial typed. Qed.
Next Obligation. solve_fpartial fromPartial full typed. Qed.

#[global] Program Instance json : DatedJson t :=
  {| dmsg_fromJSON := fromJSON; dmsg_toJSON := toJSON; dmsg_timed := timed;
     dmsg_named := fun _ => true; dmsg_known := fun m => m |}.
Next Obligation. solve_djson fromJSON toJSON timed. Qed.
Next Obligation. solve_dthrows toJSON timed. Qed.
Next Obligation. reflexivity. Qed.

#[global] Instance schema_wire {PB : Protobuf} {PS : ProtobufSpec PB} : WireSchema wire schema.
Proof. solve_schema_wire wire schema. Qed.

#[global] Instance schema_normal : NormalSchema normal schema.
Proof. solve_schema_normal normal schema. Qed.

#[global] Instance schema_merge : MergeSchema merge schema.
Proof. solve_schema_merge merge schema. Qed.

(** Its row in the table of message types. *)
Definition message {PB : Protobuf} {PS : ProtobufSpec PB} : message_type :=
  dated_message "GenesisState" nothing true schema only.

#[global] Instance message_lawful {PB : Protobuf} (PS : ProtobufSpec PB) : Lawful message.
Proof. solve_lawful decode_field fromJSON only. Qed.

End GenesisState.

(** ** [MsgUnjail] (cosmos/slashing/v1beta1/tx.js) *)

Module MsgUnjail.

Record t := mk {
  validatorAddr : string;
}.

#[global] Instance t_eta : Settable t := λ m, mk m.(validatorAddr).

Definition base : t := mk "".

Definition encode {PB : Protobuf} (message : t) (writer : Writer) : Writer :=
  writer
  @> when (str_neq message.(validatorAddr) "")
       (fun w => w @> uint32 10 @> string_ message.(validatorAddr)).

Definition decode_field {PB : Protobuf} (tag : Z) (message : t) : RM t :=
  match field_number tag with
  | 1 => v ← read_string; mret (message <| validatorAddr := v |>)
  | _ => _ ← skipType (wire_type tag); mret message
  end.

Definition decode {PB : Protobuf} (length : option Z) : RM t :=
  decode_message length base decode_field.

Definition fromJSON (object : js) : result t :=
  validatorAddr' ← field_or object "validatorAddr" to_string "";
  Ok (mk validatorAddr').

Definition toJSON (message : t) : js :=
  Obj ([("validatorAddr", Str message.(validatorAddr))]).

Record partial := mkPartial {
  p_validatorAddr : option string;
}.

Definition fromPartial (object : partial) : t := {|
  validatorAddr := object.(p_validatorAddr) ?? "";
|}.

(** The object with no property given. *)
Definition nothing : partial := mkPartial None.

(** The bytes [encode] writes. *)
Definition wire {PB : Protobuf} {PS : ProtobufSpec PB} (m : t) : bytes :=
  f_string 10 m.(validatorAddr).

Definition valid (m : t) : Prop :=
  True.

Definition encodable {PB : Protobuf} {PS : ProtobufSpec PB} (m : t) : Prop :=
  valid m ∧ small (wire m).

Definition merge (m a : t) : t := {|
  validatorAddr := later_string m.(validatorAddr) a.(validatorAddr);
|}.

(** A whole message seen as a partial one. *)
Definition full (m : t) : partial := {|
  p_validatorAddr := Some m.(validatorAddr);
|}.

(** The message as its schema declares it. *)
Definition schema (m : t) : list field :=
  [implicit 1 (VString m.(validatorAddr))].

(** The message with its default for every property that is not kept. *)
Definition only (kept : string → bool) (m : t) : t := {|
  validatorAddr := if kept "validatorAddr" then m.(validatorAddr) else "";
|}.

#[global] Instance codec {PB : Protobuf} : MessageCodec t :=
  {| msg_base := base; msg_encode := encode; msg_field := decode_field |}.

#[global] Program Instance spec {PB : Protobuf} (PS : ProtobufSpec PB) : MessageSpec PS t :=
  {| msg_wire := wire; msg_valid := valid; msg_merge := merge |}.
Next Obligation. solve_encode_wire. Qed.
Next Obligation. solve_decode_wire. Qed.
Next Obligation. solve_merge_base. Qed.
Next Obligation. intros. solve_advances decode_field. Qed.

#[global] Program Instance data : MessageData t partial :=
  {| msg_fromJSON := fromJSON; msg_toJSON := toJSON;
     msg_fromPartial := fromPartial; msg_full := full |}.
Next Obligation. solve_json fromJSON toJSON. Qed.
Next Obligation. solve_partial fromPartial full. Qed.

#[global] Instance schema_wire {PB : Protobuf} {PS : ProtobufSpec PB} : WireSchema wire schema.
Proof. solve_schema_wire wire schema. Qed.

#[global] Instance schema_merge : MergeSchema merge schema.
Proof. solve_schema_merge merge schema. Qed.

(** Its row in the table of message types. *)
Definition message {PB : Protobuf} {PS : ProtobufSpec PB} : message_type :=
  plain_message "MsgUnjail" nothing true schema only.

#[global] Instance message_lawful {PB : Protobuf} (PS : ProtobufSpec PB) : Lawful message.
Proof. solve_lawful decode_field fromJSON only. Qed.

End MsgUnjail.

(** ** [MsgUnjailResponse] (cosmos/slashing/v1beta1/tx.js) *)

Module MsgUnjailResponse.

Record t := mk {}.

#[global] Instance t_eta : Settable t := λ m, m.

Definition base : t := mk.

Definition encode {PB : Protobuf} (message : t) (writer : Writer) : Writer :=
  writer.

Definition decode_field {PB : Protobuf} (tag : Z) (message : t) : RM t :=
  match field_number tag with
  | _ => _ ← skipType (wire_type tag); mret message
  end.

Definition decode {PB : Protobuf} (length : option Z) : RM t :=
  decode_message length base decode_field.

Definition fromJSON (object : js) : result t :=
  Ok base.

Definition toJSON (message : t) : js :=
  Obj [].

Record partial := mkPartial {}.

Definition fromPartial (object : partial) : t := base.

(** The object with no property given. *)
Definition nothing : partial := mkPartial.

(** The bytes [encode] writes. *)
Definition wire {PB : Protobuf} {PS : ProtobufSpec PB} (m : t) : bytes :=
  [].

Definition valid (m : t) : Prop :=
  True.

Definition encodable {PB : Protobuf} {PS : ProtobufSpec PB} (m : t) : Prop :=
  valid m ∧ small (wire m).

Definition merge (m a : t) : t := m.

(** A whole message seen as a partial one. *)
Definition full (m : t) : partial := mkPartial.

(** The message as its schema declares it. *)
Definition schema (m : t) : list field :=
  [].

(** The message with its default for every property that is not kept. *)
Definition only (kept : string → bool) (m : t) : t := m.

#[global] Instance codec {PB : Protobuf} : MessageCodec t :=
  {| msg_base := base; msg_encode := encode; msg_field := decode_field |}.

#[global] Program Instance spec {PB : Protobuf} (PS : ProtobufSpec PB) : MessageSpec PS t :=
  {| msg_wire := wire; msg_valid := valid; msg_merge := merge |}.
Next Obligation. solve_encode_wire. Qed.
Next Obligation. solve_decode_wire. Qed.
Next Obligation. solve_merge_base. Qed.
Next Obligation. intros. solve_advances decode_field. Qed.

#[global] Program Instance data : MessageData t partial :=
  {| msg_fromJSON := fromJSON; msg_toJSON := toJSON;
     msg_fromPartial := fromPartial; msg_full := full |}.
Next Obligation. solve_json fromJSON toJSON. Qed.
Next Obligation. solve_partial fromPartial full. Qed.

#[global] Instance schema_wire {PB : Protobuf} {PS : ProtobufSpec PB} : WireSchema wire schema.
Proof. solve_schema_wire wire schema. Qed.

#[global] Instance schema_merge : MergeSchema merge schema.
Proof. solve_schema_merge merge schema. Qed.

(** Its row in the table of message types. *)
Definition message {PB : Protobuf} {PS : ProtobufSpec PB} : message_type :=
  plain_message "MsgUnjailResponse" nothing false schema only.

#[global] Instance message_lawful {PB : Protobuf} (PS : ProtobufSpec PB) : Lawful message.
Proof. solve_lawful decode_field fromJSON only. Qed.

End MsgUnjailResponse.

(** ** [QueryParamsRequest] (cosmos/slashing/v1beta1/query.js) *)

Module QueryParamsRequest.

Record t := mk {}.

#[global] Instance t_eta : Settable t := λ m, m.

Definition base : t := mk.

Definition encode {PB : Protobuf} (message : t) (writer : Writer) : Writer :=
  writer.

Definition decode_field {PB : Protobuf} (tag : Z) (message : t) : RM t :=
  match field_number tag with
  | _ => _ ← skipType (wire_type tag); mret message
  end.

Definition decode {PB : Protobuf} (length : option Z) : RM t :=
  decode_message length base decode_field.

Definition fromJSON (object : js) : result t :=
  Ok base.

Definition toJSON (message : t) : js :=
  Obj [].

Record partial := mkPartial {}.

Definition fromPartial (object : partial) : t := base.

(** The object with no property given. *)
Definition nothing : partial := mkPartial.

(** The bytes [encode] writes. *)
Definition wire {PB : Protobuf} {PS : ProtobufSpec PB} (m : t) : bytes :=
  [].

Definition valid (m : t) : Prop :=
  True.

Definition encodable {PB : Protobuf} {PS : ProtobufSpec PB} (m : t) : Prop :=
  valid m ∧ small (wire m).

Definition merge (m a : t) : t := m.

(** A whole message seen as a partial one. *)
Definition full (m : t) : partial := mkPartial.

(** The message as its schema declares it. *)
Definition schema (m : t) : list field :=
  [].

(** The message with its default for every property that is not kept. *)
Definition only (kept : string → bool) (m : t) : t := m.

#[global] Instance codec {PB : Protobuf} : MessageCodec t :=
  {| msg_base := base; msg_encode := encode; msg_field := decode_field |}.

#[global] Program Instance spec {PB : Protobuf} (PS : ProtobufSpec PB) : MessageSpec PS t :=
  {| msg_wire := wire; msg_valid := valid; msg_merge := merge |}.
Next Obligation. solve_encode_wire. Qed.
Next Obligation. solve_decode_wire. Qed.
Next Obligation. solve_merge_base. Qed.
Next Obligation. intros. solve_advances decode_field. Qed.

#[global] Program Instance data : MessageData t partial :=
  {| msg_fromJSON := fromJSON; msg_toJSON := toJSON;
     msg_fromPartial := fromPartial; msg_full := full |}.
Next Obligation. solve_json fromJSON toJSON. Qed.
Next Obligation. solve_partial fromPartial full. Qed.

#[global] Instance schema_wire {PB : Protobuf} {PS : ProtobufSpec PB} : WireSchema wire schema.
Proof. solve_schema_wire wire schema. Qed.

#[global] Instance schema_merge : MergeSchema merge schema.
Proof. solve_schema_merge merge schema. Qed.

(** Its row in the table of message types. *)
Definition message {PB : Protobuf} {PS : ProtobufSpec PB} : message_type :=
  plain_message "QueryParamsRequest" nothing false schema only.

#[global] Instance message_lawful {PB : Protobuf} (PS : ProtobufSpec PB) : Lawful message.
Proof. solve_lawful decode_field fromJSON only. Qed.

End QueryParamsRequest.

(** ** [QueryParamsResponse] (cosmos/slashing/v1beta1/query.js) *)

Module QueryParamsResponse.

Record t := mk {
  params : option Params.t;
}.

#[global] Instance t_eta : Settable t := λ m, mk m.(params).

Definition base : t := mk None.

Definition encode {PB : Protobuf} (message : t) (writer : Writer) : result Writer :=
  Ok writer
  @>= defined_e message.(params) (submessage 10 Params.encode).

Definition decode_field {PB : Protobuf} (tag : Z) (message : t) : RM t :=
  match field_number tag with
  | 1 => v ← read_nested Params.decode; mret (message <| params := Some v |>)
  | _ => _ ← skipType (wire_type tag); mret message
  end.

Definition decode {PB : Protobuf} (length : option Z) : RM t :=
  decode_message length base decode_field.

Definition fromJSON (object : js) : result t :=
  params' ← field_or object "params" (to_some Params.fromJSON) None;
  Ok (mk params').

Definition toJSON (message : t) : js :=
  Obj (prop_opt "params" Params.toJSON message.(params)).

Record partial := mkPartial {
  p_params : option Params.partial;
}.

Definition fromPartial (object : partial) : t := {|
  params := Params.fromPartial <$> object.(p_params);
|}.

(** The object with no property given. *)
Definition nothing : partial := mkPartial None.

(** The bytes [encode] writes. *)
Definition wire {PB : Protobuf} {PS : ProtobufSpec PB} (m : t) : bytes :=
  f_message 10 Params.wire m.(params).

Definition valid (m : t) : Prop :=
  from_option Params.valid True m.(params).

(** The byte fields hold arrays, as the interface declares. *)
Definition typed (m : t) : bool := from_option Params.typed true m.(params).

(** The message without its empty byte arrays. *)
Definition normal (m : t) : t := {|
  params := Params.normal <$> m.(params);
|}.

Definition encodable {PB : Protobuf} {PS : ProtobufSpec PB} (m : t) : Prop :=
  typed m = true ∧ valid m ∧ small (wire m).

Definition merge (m a : t) : t := {|
  params := later_message m.(params) (Params.normal <$> a.(params));
|}.

(** A whole message seen as a partial one. *)
Definition full (m : t) : partial := {|
  p_params := Params.full <$> m.(params);
|}.

(** The message as its schema declares it. *)
Definition schema (m : t) : list field :=
  [singular 1 Optional (message_value Params.schema) m.(params)].

(** The message with its default for every property that is not kept. *)
Definition only (kept : string → bool) (m : t) : t := {|
  params := if kept "params" then m.(params) else None;
|}.

#[global] Instance codec {PB : Protobuf} : FallibleCodec t :=
  {| fmsg_base := base; fmsg_encode := encode; fmsg_field := decode_field |}.

#[global] Program Instance spec {PB : Protobuf} (PS : ProtobufSpec PB) : FallibleSpec PS t :=
  {| fmsg_wire := wire; fmsg_valid := valid; fmsg_typed := typed; fmsg_normal := normal;
     fmsg_merge := merge |}.
Next Obligation. solve_fencode_wire. Qed.
Next Obligation. intros. solve_fencode_throws encode typed. Qed.
Next Obligation. solve_fdecode_wire. Qed.
Next Obligation. solve_fmerge_base. Qed.
Next Obligation. intros. solve_fadvances decode_field. Qed.

#[global] Program Instance given_ : FalliblePartial t partial :=
  {| fmsg_fromPartial := fromPartial; fmsg_full := full; fmsg_given := typed |}.
Next Obligation. solve_fgiven fromPartial typed. Qed.
Next Obligation. solve_fpartial fromPartial full typed. Qed.

#[global] Program Instance json : FallibleJson t :=
  {| fmsg_fromJSON := fromJSON; fmsg_toJSON := toJSON;
     fmsg_named := fun _ => true; fmsg_known := fun m => m |}.
Next Obligation. solve_fjson fromJSON toJSON. Qed.
Next Obligation. reflexivity. Qed.

#[global] Instance schema_wire {PB : Protobuf} {PS : ProtobufSpec PB} : WireSchema wire schema.
Proof. solve_schema_wire wire schema. Qed.

#[global] Instance schema_normal : NormalSchema normal schema.
Proof. solve_schema_normal normal schema. Qed.

#[global] Instance schema_merge : MergeSchema merge schema.
Proof. solve_schema_merge merge schema. Qed.

(** Its row in the table of message types. *)
Definition message {PB : Protobuf} {PS : ProtobufSpec PB} : message_type :=
  fallible_message "QueryParamsResponse" nothing true schema only.

#[global] Instance message_lawful {PB : Protobuf} (PS : ProtobufSpec PB) : Lawful message.
Proof. solve_lawful decode_field fromJSON only. Qed.

End QueryParamsResponse.

(** ** [QuerySigningInfoRequest] (cosmos/slashing/v1beta1/query.js) *)

Module QuerySigningInfoRequest.

Record t := mk {
  consAddress : string;
}.

#[global] Instance t_eta : Settable t := λ m, mk m.(consAddress).

Definition base : t := mk "".

Definition encode {PB : Protobuf} (message : t) (writer : Writer) : Writer :=
  writer
  @> when (str_neq message.(consAddress) "")
       (fun w => w @> uint32 10 @> string_ message.(consAddress)).

Definition decode_field {PB : Protobuf} (tag : Z) (message : t) : RM t :=
  match field_number tag with
  | 1 => v ← read_string; mret (message <| consAddress := v |>)
  | _ => _ ← skipType (wire_type tag); mret message
  end.

Definition decode {PB : Protobuf} (length : option Z) : RM t :=
  decode_message length base decode_field.

Definition fromJSON (object : js) : result t :=
  consAddress' ← field_or object "consAddress" to_string "";
  Ok (mk consAddress').

Definition toJSON (message : t) : js :=
  Obj ([("consAddress", Str message.(consAddress))]).

Record partial := mkPartial {
  p_consAddress : option string;
}.

Definition fromPartial (object : partial) : t := {|
  consAddress := object.(p_consAddress) ?? "";
|}.

(** The object with no property given. *)
Definition nothing : partial := mkPartial None.

(** The bytes [encode] writes. *)
Definition wire {PB : Protobuf} {PS : ProtobufSpec PB} (m : t) : bytes :=
  f_string 10 m.(consAddress).

Definition valid (m : t) : Prop :=
  True.

Definition encodable {PB : Protobuf} {PS : ProtobufSpec PB} (m : t) : Prop :=
  valid m ∧ small (wire m).

Definition merge (m a : t) : t := {|
  consAddress := later_string m.(consAddress) a.(consAddress);
|}.

(** A whole message seen as a partial one. *)
Definition full (m : t) : partial := {|
  p_consAddress := Some m.(consAddress);
|}.

(** The message as its schema declares it. *)
Definition schema (m : t) : list field :=
  [implicit 1 (VString m.(consAddress))].

(** The message with its default for every property that is not kept. *)
Definition only (kept : string → bool) (m : t) : t := {|
  consAddress := if kept "consAddress" then m.(consAddress) else "";
|}.

#[global] Instance codec {PB : Protobuf} : MessageCodec t :=
  {| msg_base := base; msg_encode := encode; msg_field := decode_field |}.

#[global] Program Instance spec {PB : Protobuf} (PS : ProtobufSpec PB) : MessageSpec PS t :=
  {| msg_wire := wire; msg_valid := valid; msg_merge := merge |}.
Next Obligation. solve_encode_wire. Qed.
Next Obligation. solve_decode_wire. Qed.
Next Obligation. solve_merge_base. Qed.
Next Obligation. intros. solve_advances decode_field. Qed.

#[global] Program Instance data : MessageData t partial :=
  {| msg_fromJSON := fromJSON; msg_toJSON := toJSON;
     msg_fromPartial := fromPartial; msg_full := full |}.
Next Obligation. solve_json fromJSON toJSON. Qed.
Next Obligation. solve_partial fromPartial full. Qed.

#[global] Instance schema_wire {PB : Protobuf} {PS : ProtobufSpec PB} : WireSchema wire schema.
Proof. solve_schema_wire wire schema. Qed.

#[global] Instance schema_merge : MergeSchema merge schema.
Proof. solve_schema_merge merge schema. Qed.

(** Its row in the table of message types. *)
Definition message {PB : Protobuf} {PS : ProtobufSpec PB} : message_type :=
  plain_message "QuerySigningInfoRequest" nothing true schema only.

#[global] Instance message_lawful {PB : Protobuf} (PS : ProtobufSpec PB) : Lawful message.
Proof. solve_lawful decode_field fromJSON only. Qed.

End QuerySigningInfoRequest.

(** ** [QuerySigningInfoResponse] (cosmos/slashing/v1beta1/query.js) *)

Module QuerySigningInfoResponse.

Record t := mk {
  valSigningInfo : option ValidatorSigningInfo.t;
}.

#[global] Instance t_eta : Settable t := λ m, mk m.(valSigningInfo).

Definition base : t := mk None.

Definition encode {PB : Protobuf} (message : t) (writer : Writer) : result Writer :=
  Ok writer
  @>= defined_e message.(valSigningInfo) (submessage 10 ValidatorSigningInfo.encode).

Definition decode_field {PB : Protobuf} (tag : Z) (message : t) : RM t :=
  match field_number tag with
  | 1 => v ← read_nested ValidatorSigningInfo.decode; mret (message <| valSigningInfo := Some v |>)
  | _ => _ ← skipType (wire_type tag); mret message
  end.

Definition decode {PB : Protobuf} (length : option Z) : RM t :=
  decode_message length base decode_field.

Definition fromJSON (object : js) : result t :=
  valSigningInfo' ← field_or object "valSigningInfo" (to_some ValidatorSigningInfo.fromJSON) None;
  Ok (mk valSigningInfo').

Definition toJSON (message : t) : result js :=
  valSigningInfo' ← option_result ValidatorSigningInfo.toJSON message.(valSigningInfo);
  Ok (Obj (prop_opt "valSigningInfo" id valSigningInfo')).

Record partial := mkPartial {
  p_valSigningInfo : option ValidatorSigningInfo.partial;
}.

Definition fromPartial (object : partial) : t := {|
  valSigningInfo := ValidatorSigningInfo.fromPartial <$> object.(p_valSigningInfo);
|}.

(** The object with no property given. *)
Definition nothing : partial := mkPartial None.

(** The bytes [encode] writes. *)
Definition wire {PB : Protobuf} {PS : ProtobufSpec PB} (m : t) : bytes :=
  f_message 10 ValidatorSigningInfo.wire m.(valSigningInfo).

Definition valid (m : t) : Prop :=
  from_option ValidatorSigningInfo.valid True m.(valSigningInfo).

(** The byte fields hold arrays, as the interface declares. *)
Definition typed (m : t) : bool := from_option ValidatorSigningInfo.typed true m.(valSigningInfo).

(** The message without its empty byte arrays. *)
Definition normal (m : t) : t := {|
  valSigningInfo := ValidatorSigningInfo.normal <$> m.(valSigningInfo);
|}.

(** The dates are valid. *)
Definition timed (m : t) : bool := from_option ValidatorSigningInfo.timed true m.(valSigningInfo).

Definition encodable {PB : Protobuf} {PS : ProtobufSpec PB} (m : t) : Prop :=
  typed m = true ∧ valid m ∧ small (wire m).

Definition merge (m a : t) : t := {|
  valSigningInfo := later_message m.(valSigningInfo) (ValidatorSigningInfo.normal <$> a.(valSigningInfo));
|}.

(** A whole message seen as a partial one. *)
Definition full (m : t) : partial := {|
  p_valSigningInfo := ValidatorSigningInfo.full <$> m.(valSigningInfo);
|}.

(** The message as its schema declares it. *)
Definition schema (m : t) : list field :=
  [singular 1 Optional (message_value ValidatorSigningInfo.schema) m.(valSigningInfo)].

(** The message with its default for every property that is not kept. *)
Definition only (kept : string → bool) (m : t) : t := {|
  valSigningInfo := if kept "valSigningInfo" then m.(valSigningInfo) else None;
|}.

#[global] Instance codec {PB : Protobuf} : FallibleCodec t :=
  {| fmsg_base := base; fmsg_encode := encode; fmsg_field := decode_field |}.

#[global] Program Instance spec {PB : Protobuf} (PS : ProtobufSpec PB) : FallibleSpec PS t :=
  {| fmsg_wire := wire; fmsg_valid := valid; fmsg_typed := typed; fmsg_normal := normal;
     fmsg_merge := merge |}.
Next Obligation. solve_fencode_wire. Qed.
Next Obligation. intros. solve_fencode_throws encode typed. Qed.
Next Obligation. solve_fdecode_wire. Qed.
Next Obligation. solve_fmerge_base. Qed.
Next Obligation. intros. solve_fadvances decode_field. Qed.

#[global] Program Instance given_ : FalliblePartial t partial :=
  {| fmsg_fromPartial := fromPartial; fmsg_full := full; fmsg_given := typed |}.
Next Obligation. solve_fgiven fromPartial typed. Qed.
Next Obligation. solve_fpartial fromPartial full typed. Qed.

#[global] Program Instance json : DatedJson t :=
  {| dmsg_fromJSON := fromJSON; dmsg_toJSON := toJSON; dmsg_timed := timed;
     dmsg_named := fun _ => true; dmsg_known := fun m => m |}.
Next Obligation. solve_djson fromJSON toJSON timed. Qed.
Next Obligation. solve_dthrows toJSON timed. Qed.
Next Obligation. reflexivity. Qed.

#[global] Instance schema_wire {PB : Protobuf} {PS : ProtobufSpec PB} : WireSchema wire schema.
Proof. solve_schema_wire wire schema. Qed.

#[global] Instance schema_normal : NormalSchema normal schema.
Proof. solve_schema_normal normal schema. Qed.

#[global] Instance schema_merge : MergeSchema merge schema.
Proof. solve_schema_merge merge schema. Qed.

(** Its row in the table of message types. *)
Definition message {PB : Protobuf} {PS : ProtobufSpec PB} : message_type :=
  dated_message "QuerySigningInfoResponse" nothing true schema only.

#[global] Instance message_lawful {PB : Protobuf} (PS : ProtobufSpec PB) : Lawful message.
Proof. solve_lawful decode_field fromJSON only. Qed.

End QuerySigningInfoResponse.

(** ** [QuerySigningInfosRequest] (cosmos/slashing/v1beta1/query.js) *)

Module QuerySigningInfosRequest.

Record t := mk {
  pagination : option PageRequest.t;
}.

#[global] Instance t_eta : Settable t := λ m, mk m.(pagination).

Definition base : t := mk None.

Definition encode {PB : Protobuf} (message : t) (writer : Writer) : result Writer :=
  Ok writer
  @>= defined_e message.(pagination) (submessage 10 PageRequest.encode).

Definition decode_field {PB : Protobuf} (tag : Z) (message : t) : RM t :=
  match field_number tag with
  | 1 => v ← read_nested PageRequest.decode; mret (message <| pagination := Some v |>)
  | _ => _ ← skipType (wire_type tag); mret message
  end.

Definition decode {PB : Protobuf} (length : option Z) : RM t :=
  decode_message length base decode_field.

Definition fromJSON (object : js) : result t :=
  pagination' ← field_or object "pagination" (to_some PageRequest.fromJSON) None;
  Ok (mk pagination').

Definition toJSON (message : t) : js :=
  Obj (prop_opt "pagination" PageRequest.toJSON message.(pagination)).

Record partial := mkPartial {
  p_pagination : option PageRequest.partial;
}.

Definition fromPartial (object : partial) : t := {|
  pagination := PageRequest.fromPartial <$> object.(p_pagination);
|}.

(** The object with no property given. *)
Definition nothing : partial := mkPartial None.

(** The bytes [encode] writes. *)
Definition wire {PB : Protobuf} {PS : ProtobufSpec PB} (m : t) : bytes :=
  f_message 10 PageRequest.wire m.(pagination).

Definition valid (m : t) : Prop :=
  from_option PageRequest.valid True m.(pagination).

(** The byte fields hold arrays, as the interface declares. *)
Definition typed (m : t) : bool := from_option PageRequest.typed true m.(pagination).

(** The message without its empty byte arrays. *)
Definition normal (m : t) : t := {|
  pagination := PageRequest.normal <$> m.(pagination);
|}.

Definition encodable {PB : Protobuf} {PS : ProtobufSpec PB} (m : t) : Prop :=
  typed m = true ∧ valid m ∧ small (wire m).

Definition merge (m a : t) : t := {|
  pagination := later_message m.(pagination) (PageRequest.normal <$> a.(pagination));
|}.

(** A whole message seen as a partial one. *)
Definition full (m : t) : partial := {|
  p_pagination := PageRequest.full <$> m.(pagination);
|}.

(** The message as its schema declares it. *)
Definition schema (m : t) : list field :=
  [singular 1 Optional (message_value PageRequest.schema) m.(pagination)].

(** The message with its default for every property that is not kept. *)
Definition only (kept : string → bool) (m : t) : t := {|
  pagination := if kept "pagination" then m.(pagination) else None;
|}.

#[global] Instance codec {PB : Protobuf} : FallibleCodec t :=
  {| fmsg_base := base; fmsg_encode := encode; fmsg_field := decode_field |}.

#[global] Program Instance spec {PB : Protobuf} (PS : ProtobufSpec PB) : FallibleSpec PS t :=
  {| fmsg_wire := wire; fmsg_valid := valid; fmsg_typed := typed; fmsg_normal := normal;
     fmsg_merge := merge |}.
Next Obligation. solve_fencode_wire. Qed.
Next Obligation. intros. solve_fencode_throws encode typed. Qed.
Next Obligation. solve_fdecode_wire. Qed.
Next Obligation. solve_fmerge_base. Qed.
Next Obligation. intros. solve_fadvances decode_field. Qed.

#[global] Program Instance given_ : FalliblePartial t partial :=
  {| fmsg_fromPartial := fromPartial; fmsg_full := full; fmsg_given := typed |}.
Next Obligation. solve_fgiven fromPartial typed. Qed.
Next Obligation. solve_fpartial fromPartial full typed. Qed.

#[global] Program Instance json : FallibleJson t :=
  {| fmsg_fromJSON := fromJSON; fmsg_toJSON := toJSON;
     fmsg_named := fun _ => true; fmsg_known := fun m => m |}.
Next Obligation. solve_fjson fromJSON toJSON. Qed.
Next Obligation. reflexivity. Qed.

#[global] Instance schema_wire {PB : Protobuf} {PS : ProtobufSpec PB} : WireSchema wire schema.
Proof. solve_schema_wire wire schema. Qed.

#[global] Instance schema_normal : NormalSchema normal schema.
Proof. solve_schema_normal normal schema. Qed.

#[global] Instance schema_merge : MergeSchema merge schema.
Proof. solve_schema_merge merge schema. Qed.

(** Its row in the table of message types. *)
Definition message {PB : Protobuf} {PS : ProtobufSpec PB} : message_type :=
  fallible_message "QuerySigningInfosRequest" nothing true schema only.

#[global] Instance message_lawful {PB : Protobuf} (PS : ProtobufSpec PB) : Lawful message.
Proof. solve_lawful decode_field fromJSON only. Qed.

End QuerySigningInfosRequest.

(** ** [QuerySigningInfosResponse] (cosmos/slashing/v1beta1/query.js) *)

Module QuerySigningInfosResponse.

Record t := mk {
  info : list ValidatorSigningInfo.t;
  pagination : option PageResponse.t;
}.

#[global] Instance t_eta : Settable t := λ m, mk m.(info) m.(pagination).

Definition base : t := mk [] None.

Definition encode {PB : Protobuf} (message : t) (writer : Writer) : result Writer :=
  Ok writer
  @>= each_e message.(info) (submessage 10 ValidatorSigningInfo.encode)
  @>= defined_e message.(pagination) (submessage 18 PageResponse.encode).

Definition decode_field {PB : Protobuf} (tag : Z) (message : t) : RM t :=
  match field_number tag with
  | 1 => v ← read_nested ValidatorSigningInfo.decode;
         mret (message <| info := message.(info) ++ [v] |>)
  | 2 => v ← read_nested PageResponse.decode; mret (message <| pagination := Some v |>)
  | _ => _ ← skipType (wire_type tag); mret message
  end.

Definition decode {PB : Protobuf} (length : option Z) : RM t :=
  decode_message length base decode_field.

Definition fromJSON (object : js) : result t :=
  info' ← field_or object "info" (to_list ValidatorSigningInfo.fromJSON) [];
  pagination' ← field_or object "pagination" (to_some PageResponse.fromJSON) None;
  Ok (mk info' pagination').

Definition toJSON (message : t) : result js :=
  info' ← result_map ValidatorSigningInfo.toJSON message.(info);
  Ok (Obj ([("info", Arr info')] ++
   prop_opt "pagination" PageResponse.toJSON message.(pagination))).

Record partial := mkPartial {
  p_info : option (list ValidatorSigningInfo.partial);
  p_pagination : option PageResponse.partial;
}.

Definition fromPartial (object : partial) : t := {|
  info := map ValidatorSigningInfo.fromPartial (object.(p_info) ?? []);
  pagination := PageResponse.fromPartial <$> object.(p_pagination);
|}.

(** The object with no property given. *)
Definition nothing : partial := mkPartial None None.

(** The bytes [encode] writes. *)
Definition wire {PB : Protobuf} {PS : ProtobufSpec PB} (m : t) : bytes :=
  f_repeated 10 ValidatorSigningInfo.wire m.(info) ++
  f_message 18 PageResponse.wire m.(pagination).

Definition valid (m : t) : Prop :=
  Forall ValidatorSigningInfo.valid m.(info) ∧ from_option PageResponse.valid True m.(pagination).

(** The byte fields hold arrays, as the interface declares. *)
Definition typed (m : t) : bool := forallb ValidatorSigningInfo.typed m.(info) && from_option PageResponse.typed true m.(pagination).

(** The message without its empty byte arrays. *)
Definition normal (m : t) : t := {|
  info := map ValidatorSigningInfo.normal m.(info);
  pagination := PageResponse.normal <$> m.(pagination);
|}.

(** The dates are valid. *)
Definition timed (m : t) : bool := forallb ValidatorSigningInfo.timed m.(info).

Definition encodable {PB : Protobuf} {PS : ProtobufSpec PB} (m : t) : Prop :=
  typed m = true ∧ valid m ∧ small (wire m).

Definition merge (m a : t) : t := {|
  info := m.(info) ++ map ValidatorSigningInfo.normal a.(info);
  pagination := later_message m.(pagination) (PageResponse.normal <$> a.(pagination));
|}.

(** A whole message seen as a partial one. *)
Definition full (m : t) : partial := {|
  p_info := Some (map ValidatorSigningInfo.full m.(info));
  p_pagination := PageResponse.full <$> m.(pagination);
|}.

(** The message as its schema declares it. *)
Definition schema (m : t) : list field :=
  [repeated 1 (message_value ValidatorSigningInfo.schema) m.(info);
   singular 2 Optional (message_value PageResponse.schema) m.(pagination)].

(** The message with its default for every property that is not kept. *)
Definition only (kept : string → bool) (m : t) : t := {|
  info := if kept "info" then m.(info) else [];
  pagination := if kept "pagination" then m.(pagination) else None;
|}.

#[global] Instance codec {PB : Protobuf} : FallibleCodec t :=
  {| fmsg_base := base; fmsg_encode := encode; fmsg_field := decode_field |}.

#[global] Program Instance spec {PB : Protobuf} (PS : ProtobufSpec PB) : FallibleSpec PS t :=
  {| fmsg_wire := wire; fmsg_valid := valid; fmsg_typed := typed; fmsg_normal := normal;
     fmsg_merge := merge |}.
Next Obligation. solve_fencode_wire. Qed.
Next Obligation. intros. solve_fencode_throws encode typed. Qed.
Next Obligation. solve_fdecode_wire. Qed.
Next Obligation. solve_fmerge_base. Qed.
Next Obligation. intros. solve_fadvances decode_field. Qed.

#[global] Program Instance given_ : FalliblePartial t partial :=
  {| fmsg_fromPartial := fromPartial; fmsg_full := full; fmsg_given := typed |}.
Next Obligation. solve_fgiven fromPartial typed. Qed.
Next Obligation. solve_fpartial fromPartial full typed. Qed.

#[global] Program Instance json : DatedJson t :=
  {| dmsg_fromJSON := fromJSON; dmsg_toJSON := toJSON; dmsg_timed := timed;
     dmsg_named := fun _ => true; dmsg_known := fun m => m |}.
Next Obligation. solve_djson fromJSON toJSON timed. Qed.
Next Obligation. solve_dthrows toJSON timed. Qed.
Next Obligation. reflexivity. Qed.

#[global] Instance schema_wire {PB : Protobuf} {PS : ProtobufSpec PB} : WireSchema wire schema.
Proof. solve_schema_wire wire schema. Qed.

#[global] Instance schema_normal : NormalSchema normal schema.
Proof. solve_schema_normal normal schema. Qed.

#[global] Instance schema_merge : MergeSchema merge schema.
Proof. solve_schema_merge merge schema. Qed.

(** Its row in the table of message types. *)
Definition message {PB : Protobuf} {PS : ProtobufSpec PB} : message_type :=
  dated_message "QuerySigningInfosResponse" nothing true schema only.

#[global] Instance message_lawful {PB : Protobuf} (PS : ProtobufSpec PB) : Lawful message.
Proof. solve_lawful decode_field fromJSON only. Qed.

End QuerySigningInfosResponse.


(** ** [MsgClientImpl]

    [rpc] is the transport the class is constructed with: [rpc service method data]
    is what the promise of [this.rpc.request] settles to. *)
Module MsgClientImpl.
Section client.
Context {PB : Protobuf} (rpc : string → string → bytes → result bytes).

Definition Unjail (request : MsgUnjail.t) : result MsgUnjailResponse.t :=
  data ← rpc "cosmos.slashing.v1beta1.Msg" "Unjail"
    (finish (MsgUnjail.encode request create));
  decode_bytes MsgUnjailResponse.decode data.

End client.
End MsgClientImpl.


(** ** [QueryClientImpl]

    [rpc] is the transport the class is constructed with: [rpc service method data]
    is what the promise of [this.rpc.request] settles to. *)
Module QueryClientImpl.
Section client.
Context {PB : Protobuf} (rpc : string → string → bytes → result bytes).

Definition Params (request : QueryParamsRequest.t) : result QueryParamsResponse.t :=
  data ← rpc "cosmos.slashing.v1beta1.Query" "Params"
    (finish (QueryParamsRequest.encode request create));
  decode_bytes QueryParamsResponse.decode data.

Definition SigningInfo (request : QuerySigningInfoRequest.t) : result QuerySigningInfoResponse.t :=
  data ← rpc "cosmos.slashing.v1beta1.Query" "SigningInfo"
    (finish (QuerySigningInfoRequest.encode request create));
  decode_bytes QuerySigningInfoResponse.decode data.

Definition SigningInfos (request : QuerySigningInfosRequest.t)
    : result QuerySigningInfosResponse.t :=
  w ← QuerySigningInfosRequest.encode request create;
  data ← rpc "cosmos.slashing.v1beta1.Query" "SigningInfos" (finish w);
  decode_bytes QuerySigningInfosResponse.decode data.

End client.
End QueryClientImpl.

(** ** The message types of this file *)

Definition messages {PB : Protobuf} {PS : ProtobufSpec PB} : list message_type :=
  [ ValidatorSigningInfo.message; Params.message; SigningInfo.message; MissedBlock.message;
   ValidatorMissedBlocks.message; GenesisState.message; MsgUnjail.message;
   MsgUnjailResponse.message; QueryParamsRequest.message; QueryParamsResponse.message;
   QuerySigningInfoRequest.message; QuerySigningInfoResponse.message;
   QuerySigningInfosRequest.message; QuerySigningInfosResponse.message].

Lemma SlashingTypes_lawful {PB : Protobuf} {PS : ProtobufSpec PB} : Forall Lawful messages.
Proof. solve_table. Qed.

(** The methods of [MsgClientImpl]. *)
Definition msg_methods {PB : Protobuf} {PS : ProtobufSpec PB} : list rpc_method :=
  [mkMethod "cosmos.slashing.v1beta1.Msg" "Unjail"
     MsgUnjail.message MsgUnjailResponse.message
     (fun rpc => MsgClientImpl.Unjail rpc)].

Lemma SlashingTypes_msg_methods_lawful {PB : Protobuf} {PS : ProtobufSpec PB} : Forall method_lawful msg_methods.
Proof. solve_methods. Qed.

(** The methods of [QueryClientImpl]. *)
Definition query_methods {PB : Protobuf} {PS : ProtobufSpec PB} : list rpc_method :=
  [mkMethod "cosmos.slashing.v1beta1.Query" "Params"
     QueryParamsRequest.message QueryParamsResponse.message
     (fun rpc => QueryClientImpl.Params rpc);
   mkMethod "cosmos.slashing.v1beta1.Query" "SigningInfo"
     QuerySigningInfoRequest.message QuerySigningInfoResponse.message
     (fun rpc => QueryClientImpl.SigningInfo rpc);
   mkMethod "cosmos.slashing.v1beta1.Query" "SigningInfos"
     QuerySigningInfosRequest.message QuerySigningInfosResponse.message
     (fun rpc => QueryClientImpl.SigningInfos rpc)].

Lemma SlashingTypes_query_methods_lawful {PB : Protobuf} {PS : ProtobufSpec PB} : Forall method_lawful query_methods.
Proof. solve_methods. Qed.
