(* ===== verification/StakingTypes.v ===== *)
(** * The messages of the staking module of the Cosmos SDK

    Validators, delegations and the transaction messages: the codecs of
    [cosmos.staking.v1beta1/module/types/cosmos/staking/v1beta1/*.js], with the RPC
    clients of tx.js and query.js. *)
From S2P Require Import Prelude Js Protobuf Codec Calendar Dates Base64 Fallible Proto3 MessageTable CommonTypes CosmosBase TendermintTypes.
Open Scope Z_scope.

(** ** [BondStatus] (cosmos/staking/v1beta1/staking.js): an enumeration is a number *)

Module BondStatus.

Definition BOND_STATUS_UNSPECIFIED : number := 0.
Definition BOND_STATUS_UNBONDED : number := 1.
Definition BOND_STATUS_UNBONDING : number := 2.
Definition BOND_STATUS_BONDED : number := 3.
Definition UNRECOGNIZED : number := (-1).

End BondStatus.

Definition bondStatusFromJSON (object : js) : result number :=
  Ok (match object with
      | Num (Int 0) => BondStatus.BOND_STATUS_UNSPECIFIED
      | Num (Int 1) => BondStatus.BOND_STATUS_UNBONDED
      | Num (Int 2) => BondStatus.BOND_STATUS_UNBONDING
      | Num (Int 3) => BondStatus.BOND_STATUS_BONDED
      | Str s =>
          if String.eqb s "BOND_STATUS_UNSPECIFIED" then BondStatus.BOND_STATUS_UNSPECIFIED
          else if String.eqb s "BOND_STATUS_UNBONDED" then BondStatus.BOND_STATUS_UNBONDED
          else if String.eqb s "BOND_STATUS_UNBONDING" then BondStatus.BOND_STATUS_UNBONDING
          else if String.eqb s "BOND_STATUS_BONDED" then BondStatus.BOND_STATUS_BONDED
          else BondStatus.UNRECOGNIZED
      | _ => BondStatus.UNRECOGNIZED
      end).

Definition bondStatusToJSON (object : number) : string :=
  match object with
  | Int 0 => "BOND_STATUS_UNSPECIFIED"
  | Int 1 => "BOND_STATUS_UNBONDED"
  | Int 2 => "BOND_STATUS_UNBONDING"
  | Int 3 => "BOND_STATUS_BONDED"
  | _ => "UNKNOWN"
  end.

(** The numbers that have a name. *)
Definition bondStatus_named (n : number) : bool :=
  bool_decide (n ∈ [BondStatus.BOND_STATUS_UNSPECIFIED;
                    BondStatus.BOND_STATUS_UNBONDED;
                    BondStatus.BOND_STATUS_UNBONDING;
                    BondStatus.BOND_STATUS_BONDED;
                    BondStatus.UNRECOGNIZED]).

(** What is read back of a number. *)
Definition bondStatus_known (n : number) : number :=
  if bondStatus_named n then n else BondStatus.UNRECOGNIZED.

Lemma bondStatus_json n : bondStatusFromJSON (Str (bondStatusToJSON n)) = Ok (bondStatus_known n).
Proof. solve_enum n bondStatus_named bondStatus_known bondStatusToJSON. Qed.

Lemma bondStatus_member n : bondStatus_named n = true → bondStatus_known n = n.
Proof. intros H. unfold bondStatus_known. by rewrite H. Qed.

Arguments bondStatusFromJSON : simpl never.

#[export] Hint Rewrite bondStatus_json : named.
#[export] Hint Rewrite bondStatus_member using assumption : member.

(** ** [AuthorizationType] (cosmos/staking/v1beta1/authz.js): an enumeration is a number *)

Module AuthorizationType.

Definition AUTHORIZATION_TYPE_UNSPECIFIED : number := 0.
Definition AUTHORIZATION_TYPE_DELEGATE : number := 1.
Definition AUTHORIZATION_TYPE_UNDELEGATE : number := 2.
Definition AUTHORIZATION_TYPE_REDELEGATE : number := 3.
Definition UNRECOGNIZED : number := (-1).

End AuthorizationType.

Definition authorizationTypeFromJSON (object : js) : result number :=
  Ok (match object with
      | Num (Int 0) => AuthorizationType.AUTHORIZATION_TYPE_UNSPECIFIED
      | Num (Int 1) => AuthorizationType.AUTHORIZATION_TYPE_DELEGATE
      | Num (Int 2) => AuthorizationType.AUTHORIZATION_TYPE_UNDELEGATE
      | Num (Int 3) => AuthorizationType.AUTHORIZATION_TYPE_REDELEGATE
      | Str s =>
          if String.eqb s "AUTHORIZATION_TYPE_UNSPECIFIED" then AuthorizationType.AUTHORIZATION_TYPE_UNSPECIFIED
          else if String.eqb s "AUTHORIZATION_TYPE_DELEGATE" then AuthorizationType.AUTHORIZATION_TYPE_DELEGATE
          else if String.eqb s "AUTHORIZATION_TYPE_UNDELEGATE" then AuthorizationType.AUTHORIZATION_TYPE_UNDELEGATE
          else if String.eqb s "AUTHORIZATION_TYPE_REDELEGATE" then AuthorizationType.AUTHORIZATION_TYPE_REDELEGATE
          else AuthorizationType.UNRECOGNIZED
      | _ => AuthorizationType.UNRECOGNIZED
      end).

Definition authorizationTypeToJSON (object : number) : string :=
  match object with
  | Int 0 => "AUTHORIZATION_TYPE_UNSPECIFIED"
  | Int 1 => "AUTHORIZATION_TYPE_DELEGATE"
  | Int 2 => "AUTHORIZATION_TYPE_UNDELEGATE"
  | Int 3 => "AUTHORIZATION_TYPE_REDELEGATE"
  | _ => "UNKNOWN"
  end.

(** The numbers that have a name. *)
Definition authorizationType_named (n : number) : bool :=
  bool_decide (n ∈ [AuthorizationType.AUTHORIZATION_TYPE_UNSPECIFIED;
                    AuthorizationType.AUTHORIZATION_TYPE_DELEGATE;
                    AuthorizationType.AUTHORIZATION_TYPE_UNDELEGATE;
                    AuthorizationType.AUTHORIZATION_TYPE_REDELEGATE;
                    AuthorizationType.UNRECOGNIZED]).

(** What is read back of a number. *)
Definition authorizationType_known (n : number) : number :=
  if authorizationType_named n then n else AuthorizationType.UNRECOGNIZED.

Lemma authorizationType_json n : authorizationTypeFromJSON (Str (authorizationTypeToJSON n)) = Ok (authorizationType_known n).
Proof. solve_enum n authorizationType_named authorizationType_known authorizationTypeToJSON. Qed.

Lemma authorizationType_member n : authorizationType_named n = true → authorizationType_known n = n.
Proof. intros H. unfold authorizationType_known. by rewrite H. Qed.

Arguments authorizationTypeFromJSON : simpl never.

#[export] Hint Rewrite authorizationType_json : named.
#[export] Hint Rewrite authorizationType_member using assumption : member.

(** ** [Description] (cosmos/staking/v1beta1/staking.js) *)

Module Description.

Record t := mk {
  moniker : string;
  identity : string;
  website : string;
  securityContact : string;
  details : string;
}.

#[global] Instance t_eta : Settable t := λ m, mk m.(moniker) m.(identity) m.(website)
  m.(securityContact) m.(details).

Definition base : t := mk "" "" "" "" "".

Definition encode {PB : Protobuf} (message : t) (writer : Writer) : Writer :=
  writer
  @> when (str_neq message.(moniker) "") (fun w => w @> uint32 10 @> string_ message.(moniker))
  @> when (str_neq message.(identity) "") (fun w => w @> uint32 18 @> string_ message.(identity))
  @> when (str_neq message.(website) "") (fun w => w @> uint32 26 @> string_ message.(website))
  @> when (str_neq message.(securityContact) "")
       (fun w => w @> uint32 34 @> string_ message.(securityContact))
  @> when (str_neq message.(details) "") (fun w => w @> uint32 42 @> string_ message.(details)).

Definition decode_field {PB : Protobuf} (tag : Z) (message : t) : RM t :=
  match field_number tag with
  | 1 => v ← read_string; mret (message <| moniker := v |>)
  | 2 => v ← read_string; mret (message <| identity := v |>)
  | 3 => v ← read_string; mret (message <| website := v |>)
  | 4 => v ← read_string; mret (message <| securityContact := v |>)
  | 5 => v ← read_string; mret (message <| details := v |>)
  | _ => _ ← skipType (wire_type tag); mret message
  end.

Definition decode {PB : Protobuf} (length : option Z) : RM t :=
  decode_message length base decode_field.

Definition fromJSON (object : js) : result t :=
  moniker' ← field_or object "moniker" to_string "";
  identity' ← field_or object "identity" to_string "";
  website' ← field_or object "website" to_string "";
  securityContact' ← field_or object "securityContact" to_string "";
  details' ← field_or object "details" to_string "";
  Ok (mk moniker' identity' website' securityContact' details').

Definition toJSON (message : t) : js :=
  Obj ([("moniker", Str message.(moniker));
    ("identity", Str message.(identity));
    ("website", Str message.(website));
    ("securityContact", Str message.(securityContact));
    ("details", Str message.(details))]).

Record partial := mkPartial {
  p_moniker : option string;
  p_identity : option string;
  p_website : option string;
  p_securityContact : option string;
  p_details : option string;
}.

Definition fromPartial (object : partial) : t := {|
  moniker := object.(p_moniker) ?? "";
  identity := object.(p_identity) ?? "";
  website := object.(p_website) ?? "";
  securityContact := object.(p_securityContact) ?? "";
  details := object.(p_details) ?? "";
|}.

(** The object with no property given. *)
Definition nothing : partial := mkPartial None None None None None.

(** The bytes [encode] writes. *)
Definition wire {PB : Protobuf} {PS : ProtobufSpec PB} (m : t) : bytes :=
  f_string 10 m.(moniker) ++
  f_string 18 m.(identity) ++
  f_string 26 m.(website) ++
  f_string 34 m.(securityContact) ++
  f_string 42 m.(details).

Definition valid (m : t) : Prop :=
  True.

Definition encodable {PB : Protobuf} {PS : ProtobufSpec PB} (m : t) : Prop :=
  valid m ∧ small (wire m).

Definition merge (m a : t) : t := {|
  moniker := later_string m.(moniker) a.(moniker);
  identity := later_string m.(identity) a.(identity);
  website := later_string m.(website) a.(website);
  securityContact := later_string m.(securityContact) a.(securityContact);
  details := later_string m.(details) a.(details);
|}.

(** A whole message seen as a partial one. *)
Definition full (m : t) : partial := {|
  p_moniker := Some m.(moniker);
  p_identity := Some m.(identity);
  p_website := Some m.(website);
  p_securityContact := Some m.(securityContact);
  p_details := Some m.(details);
|}.

(** The message as its schema declares it. *)
Definition schema (m : t) : list field :=
  [implicit 1 (VString m.(moniker));
   implicit 2 (VString m.(identity));
   implicit 3 (VString m.(website));
   implicit 4 (VString m.(securityContact));
   implicit 5 (VString m.(details))].

(** The message with its default for every property that is not kept. *)
Definition only (kept : string → bool) (m : t) : t := {|
  moniker := if kept "moniker" then m.(moniker) else "";
  identity := if kept "identity" then m.(identity) else "";
  website := if kept "website" then m.(website) else "";
  securityContact := if kept "securityContact" then m.(securityContact) else "";
  details := if kept "details" then m.(details) else "";
|}.

#[global] Instance codec {PB : Protobuf} : MessageCodec t :=
  {| msg_base := base; msg_encode := encode; msg_field := decode_field |}.

#[global] Program Instance spec {PB : Protobuf} (PS : ProtobufSpec PB) : MessageSpec PS t :=
  {| msg_wire := wire; msg_valid := valid; msg_merge := merge |}.
Next Obligation. solve_encode_wire. Qed.
Next Obligation. solve_decode_wire. Qed.
Next Obligation. solve_merge_base. Qed.
Next Obligation. intros. solve_advances decode_field. Qed.

#[global] Program Instance data : MessageData t partial :=
  {| msg_fromJSON := fromJSON; msg_toJSON := toJSON;
     msg_fromPartial := fromPartial; msg_full := full |}.
Next Obligation. solve_json fromJSON toJSON. Qed.
Next Obligation. solve_partial fromPartial full. Qed.

#[global] Instance schema_wire {PB : Protobuf} {PS : ProtobufSpec PB} : WireSchema wire schema.
Proof. solve_schema_wire wire schema. Qed.

#[global] Instance schema_merge : MergeSchema merge schema.
Proof. solve_schema_merge merge schema. Qed.

(** Its row in the table of message types. *)
Definition message {PB : Protobuf} {PS : ProtobufSpec PB} : message_type :=
  plain_message "Description" nothing true schema only.

#[global] Instance message_lawful {PB : Protobuf} (PS : ProtobufSpec PB) : Lawful message.
Proof. solve_lawful decode_field fromJSON only. Qed.

End Description.

(** ** [CommissionRates] (cosmos/staking/v1beta1/staking.js) *)

Module CommissionRates.

Record t := mk {
  rate : string;
  maxRate : string;
  maxChangeRate : string;
}.

#[global] Instance t_eta : Settable t := λ m, mk m.(rate) m.(maxRate) m.(maxChangeRate).

Definition base : t := mk "" "" "".

Definition encode {PB : Protobuf} (message : t) (writer : Writer) : Writer :=
  writer
  @> when (str_neq message.(rate) "") (fun w => w @> uint32 10 @> string_ message.(rate))
  @> when (str_neq message.(maxRate) "") (fun w => w @> uint32 18 @> string_ message.(maxRate))
  @> when (str_neq message.(maxChangeRate) "")
       (fun w => w @> uint32 26 @> string_ message.(maxChangeRate)).

Definition decode_field {PB : Protobuf} (tag : Z) (message : t) : RM t :=
  match field_number tag with
  | 1 => v ← read_string; mret (message <| rate := v |>)
  | 2 => v ← read_string; mret (message <| maxRate := v |>)
  | 3 => v ← read_string; mret (message <| maxChangeRate := v |>)
  | _ => _ ← skipType (wire_type tag); mret message
  end.

Definition decode {PB : Protobuf} (length : option Z) : RM t :=
  decode_message length base decode_field.

Definition fromJSON (object : js) : result t :=
  rate' ← field_or object "rate" to_string "";
  maxRate' ← field_or object "maxRate" to_string "";
  maxChangeRate' ← field_or object "maxChangeRate" to_string "";
  Ok (mk rate' maxRate' maxChangeRate').

Definition toJSON (message : t) : js :=
  Obj ([("rate", Str message.(rate));
    ("maxRate", Str message.(maxRate));
    ("maxChangeRate", Str message.(maxChangeRate))]).

Record partial := mkPartial {
  p_rate : option string;
  p_maxRate : option string;
  p_maxChangeRate : option string;
}.

Definition fromPartial (object : partial) : t := {|
  rate := object.(p_rate) ?? "";
  maxRate := object.(p_maxRate) ?? "";
  maxChangeRate := object.(p_maxChangeRate) ?? "";
|}.

(** The object with no property given. *)
Definition nothing : partial := mkPartial None None None.

(** The bytes [encode] writes. *)
Definition wire {PB : Protobuf} {PS : ProtobufSpec PB} (m : t) : bytes :=
  f_string 10 m.(rate) ++
  f_string 18 m.(maxRate) ++
  f_string 26 m.(maxChangeRate).

Definition valid (m : t) : Prop :=
  True.

Definition encodable {PB : Protobuf} {PS : ProtobufSpec PB} (m : t) : Prop :=
  valid m ∧ small (wire m).

Definition merge (m a : t) : t := {|
  rate := later_string m.(rate) a.(rate);
  maxRate := later_string m.(maxRate) a.(maxRate);
  maxChangeRate := later_string m.(maxChangeRate) a.(maxChangeRate);
|}.

(** A whole message seen as a partial one. *)
Definition full (m : t) : partial := {|
  p_rate := Some m.(rate);
  p_maxRate := Some m.(maxRate);
  p_maxChangeRate := Some m.(maxChangeRate);
|}.

(** The message as its schema declares it. *)
Definition schema (m : t) : list field :=
  [implicit 1 (VString m.(rate));
   implicit 2 (VString m.(maxRate));
   implicit 3 (VString m.(maxChangeRate))].

(** The message with its default for every property that is not kept. *)
Definition only (kept : string → bool) (m : t) : t := {|
  rate := if kept "rate" then m.(rate) else "";
  maxRate := if kept "maxRate" then m.(maxRate) else "";
  maxChangeRate := if kept "maxChangeRate" then m.(maxChangeRate) else "";
|}.

#[global] Instance codec {PB : Protobuf} : MessageCodec t :=
  {| msg_base := base; msg_encode := encode; msg_field := decode_field |}.

#[global] Program Instance spec {PB : Protobuf} (PS : ProtobufSpec PB) : MessageSpec PS t :=
  {| msg_wire := wire; msg_valid := valid; msg_merge := merge |}.
Next Obligation. solve_encode_wire. Qed.
Next Obligation. solve_decode_wire. Qed.
Next Obligation. solve_merge_base. Qed.
Next Obligation. intros. solve_advances decode_field. Qed.

#[global] Program Instance data : MessageData t partial :=
  {| msg_fromJSON := fromJSON; msg_toJSON := toJSON;
     msg_fromPartial := fromPartial; msg_full := full |}.
Next Obligation. solve_json fromJSON toJSON. Qed.
Next Obligation. solve_partial fromPartial full. Qed.

#[global] Instance schema_wire {PB : Protobuf} {PS : ProtobufSpec PB} : WireSchema wire schema.
Proof. solve_schema_wire wire schema. Qed.

#[global] Instance schema_merge : MergeSchema merge schema.
Proof. solve_schema_merge merge schema. Qed.

(** Its row in the table of message types. *)
Definition message {PB : Protobuf} {PS : ProtobufSpec PB} : message_type :=
  plain_message "CommissionRates" nothing true schema only.

#[global] Instance message_lawful {PB : Protobuf} (PS : ProtobufSpec PB) : Lawful message.
Proof. solve_lawful decode_field fromJSON only. Qed.

End CommissionRates.

(** ** [Commission] (cosmos/staking/v1beta1/staking.js) *)

Module Commission.

Record t := mk {
  commissionRates : option CommissionRates.t;
  updateTime : option date;
}.

#[global] Instance t_eta : Settable t := λ m, mk m.(commissionRates) m.(updateTime).

Definition base : t := mk None None.

Definition encode {PB : Protobuf} (message : t) (writer : Writer) : result Writer :=
  Ok writer
  @>= pure (defined message.(commissionRates) (fun v w => w @> uint32 10 @> fork @> CommissionRates.encode v @> ldelim))
  @>= pure (defined message.(updateTime) (fun v w => w @> uint32 18 @> fork @> encode_time v @> ldelim)).

Definition decode_field {PB : Protobuf} (tag : Z) (message : t) : RM t :=
  match field_number tag with
  | 1 => v ← read_nested CommissionRates.decode; mret (message <| commissionRates := Some v |>)
  | 2 => v ← read_time; mret (message <| updateTime := Some v |>)
  | _ => _ ← skipType (wire_type tag); mret message
  end.

Definition decode {PB : Protobuf} (length : option Z) : RM t :=
  decode_message length base decode_field.

Definition fromJSON (object : js) : result t :=
  commissionRates' ← field_or object "commissionRates" (to_some CommissionRates.fromJSON) None;
  updateTime' ← field_or object "updateTime" (to_some fromJsonTimestamp) None;
  Ok (mk commissionRates' updateTime').

Definition toJSON (message : t) : result js :=
  updateTime' ← option_result toISOString message.(updateTime);
  Ok (Obj (prop_opt "commissionRates" CommissionRates.toJSON message.(commissionRates) ++
   prop_opt "updateTime" Str updateTime')).

Record partial := mkPartial {
  p_commissionRates : option CommissionRates.partial;
  p_updateTime : option date;
}.

Definition fromPartial (object : partial) : t := {|
  commissionRates := CommissionRates.fromPartial <$> object.(p_commissionRates);
  updateTime := object.(p_updateTime);
|}.

(** The object with no property given. *)
Definition nothing : partial := mkPartial None None.

(** The bytes [encode] writes. *)
Definition wire {PB : Protobuf} {PS : ProtobufSpec PB} (m : t) : bytes :=
  f_message 10 CommissionRates.wire m.(commissionRates) ++
  f_message 18 wire_time m.(updateTime).

Definition valid (m : t) : Prop :=
  from_option CommissionRates.valid True m.(commissionRates) ∧ from_option date_ok True m.(updateTime).

(** The byte fields hold arrays, as the interface declares. *)
Definition typed (m : t) : bool := true.

(** The message without its empty byte arrays. *)
Definition normal (m : t) : t := {|
  commissionRates := m.(commissionRates);
  updateTime := m.(updateTime);
|}.

(** The dates are valid. *)
Definition timed (m : t) : bool := from_option date_valid true m.(updateTime).

Definition encodable {PB : Protobuf} {PS : ProtobufSpec PB} (m : t) : Prop :=
  typed m = true ∧ valid m ∧ small (wire m).

Definition merge (m a : t) : t := {|
  commissionRates := later_message m.(commissionRates) a.(commissionRates);
  updateTime := later_message m.(updateTime) a.(updateTime);
|}.

(** A whole message seen as a partial one. *)
Definition full (m : t) : partial := {|
  p_commissionRates := CommissionRates.full <$> m.(commissionRates);
  p_updateTime := m.(updateTime);
|}.

(** The message as its schema declares it. *)
Definition schema (m : t) : list field :=
  [singular 1 Optional (message_value CommissionRates.schema) m.(commissionRates);
   singular 2 Stamp timestamp_value m.(updateTime)].

(** The message with its default for every property that is not kept. *)
Definition only (kept : string → bool) (m : t) : t := {|
  commissionRates := if kept "commissionRates" then m.(commissionRates) else None;
  updateTime := if kept "updateTime" then m.(updateTime) else None;
|}.

#[global] Instance codec {PB : Protobuf} : FallibleCodec t :=
  {| fmsg_base := base; fmsg_encode := encode; fmsg_field := decode_field |}.

#[global] Program Instance spec {PB : Protobuf} (PS : ProtobufSpec PB) : FallibleSpec PS t :=
  {| fmsg_wire := wire; fmsg_valid := valid; fmsg_typed := typed; fmsg_normal := normal;
     fmsg_merge := merge |}.
Next Obligation. solve_fencode_wire. Qed.
Next Obligation. intros. solve_fencode_throws encode typed. Qed.
Next Obligation. solve_fdecode_wire. Qed.
Next Obligation. solve_fmerge_base. Qed.
Next Obligation. intros. solve_fadvances decode_field. Qed.

#[global] Program Instance given_ : FalliblePartial t partial :=
  {| fmsg_fromPartial := fromPartial; fmsg_full := full; fmsg_given := typed |}.
Next Obligation. solve_fgiven fromPartial typed. Qed.
Next Obligation. solve_fpartial fromPartial full typed. Qed.

#[global] Program Instance json : DatedJson t :=
  {| dmsg_fromJSON := fromJSON; dmsg_toJSON := toJSON; dmsg_timed := timed;
     dmsg_named := fun _ => true; dmsg_known := fun m => m |}.
Next Obligation. solve_djson fromJSON toJSON timed. Qed.
Next Obligation. solve_dthrows toJSON timed. Qed.
Next Obligation. reflexivity. Qed.

#[global] Instance schema_wire {PB : Protobuf} {PS : ProtobufSpec PB} : WireSchema wire schema.
Proof. solve_schema_wire wire schema. Qed.

#[global] Instance schema_normal : NormalSchema normal schema.
Proof. solve_schema_normal normal schema. Qed.

#[global] Instance schema_merge : MergeSchema merge schema.
Proof. solve_schema_merge merge schema. Qed.

(** Its row in the table of message types. *)
Definition message {PB : Protobuf} {PS : ProtobufSpec PB} : message_type :=
  dated_message "Commission" nothing true schema only.

#[global] Instance message_lawful {PB : Protobuf} (PS : ProtobufSpec PB) : Lawful message.
Proof. solve_lawful decode_field fromJSON only. Qed.

End Commission.

(** ** [Validator] (cosmos/staking/v1beta1/staking.js) *)

Module Validator.

Record t := mk {
  operatorAddress : string;
  consensusPubkey : option Any.t;
  jailed : bool;
  status : number;
  tokens : string;
  delegatorShares : string;
  description : option Description.t;
  unbondingHeight : number;
  unbondingTime : option date;
  commission : option Commission.t;
  minSelfDelegation : string;
}.

#[global] Instance t_eta : Settable t := λ m, mk m.(operatorAddress) m.(consensusPubkey)
  m.(jailed) m.(status) m.(tokens) m.(delegatorShares) m.(description) m.(unbondingHeight)
  m.(unbondingTime) m.(commission) m.(minSelfDelegation).

Definition base : t := mk "" None false 0 "" "" None 0 None None "".

Definition encode {PB : Protobuf} (message : t) (writer : Writer) : result Writer :=
  Ok writer
  @>= pure (when (str_neq message.(operatorAddress) "")
       (fun w => w @> uint32 10 @> string_ message.(operatorAddress)))
  @>= defined_e message.(consensusPubkey) (submessage 18 Any.encode)
  @>= pure (when (Bool.eqb message.(jailed) true)
       (fun w => w @> uint32 24 @> bool_ message.(jailed)))
  @>= pure (when (num_neq message.(status) 0) (fun w => w @> uint32 32 @> int32 message.(status)))
  @>= pure (when (str_neq message.(tokens) "") (fun w => w @> uint32 42 @> string_ message.(tokens)))
  @>= pure (when (str_neq message.(delegatorShares) "")
       (fun w => w @> uint32 50 @> string_ message.(delegatorShares)))
  @>= pure (defined message.(description) (fun v w => w @> uint32 58 @> fork @> Description.encode v @> ldelim))
  @>= pure (when (num_neq message.(unbondingHeight) 0)
       (fun w => w @> uint32 64 @> int64 message.(unbondingHeight)))
  @>= pure (defined message.(unbondingTime) (fun v w => w @> uint32 74 @> fork @> encode_time v @> ldelim))
  @>= defined_e message.(commission) (submessage 82 Commission.encode)
  @>= pure (when (str_neq message.(minSelfDelegation) "")
       (fun w => w @> uint32 90 @> string_ message.(minSelfDelegation))).

Definition decode_field {PB : Protobuf} (tag : Z) (message : t) : RM t :=
  match field_number tag with
  | 1 => v ← read_string; mret (message <| operatorAddress := v |>)
  | 2 => v ← read_nested Any.decode; mret (message <| consensusPubkey := Some v |>)
  | 3 => v ← read_bool; mret (message <| jailed := v |>)
  | 4 => v ← read_int32; mret (message <| status := Int v |>)
  | 5 => v ← read_string; mret (message <| tokens := v |>)
  | 6 => v ← read_string; mret (message <| delegatorShares := v |>)
  | 7 => v ← read_nested Description.decode; mret (message <| description := Some v |>)
  | 8 => v ← read_number read_int64; mret (message <| unbondingHeight := v |>)
  | 9 => v ← read_time; mret (message <| unbondingTime := Some v |>)
  | 10 => v ← read_nested Commission.decode; mret (message <| commission := Some v |>)
  | 11 => v ← read_string; mret (message <| minSelfDelegation := v |>)
  | _ => _ ← skipType (wire_type tag); mret message
  end.

Definition decode {PB : Protobuf} (length : option Z) : RM t :=
  decode_message length base decode_field.

Definition fromJSON (object : js) : result t :=
  operatorAddress' ← field_or object "operatorAddress" to_string "";
  consensusPubkey' ← field_or object "consensusPubkey" (to_some Any.fromJSON) None;
  jailed' ← field_or object "jailed" to_bool false;
  status' ← field_or object "status" bondStatusFromJSON 0;
  tokens' ← field_or object "tokens" to_string "";
  delegatorShares' ← field_or object "delegatorShares" to_string "";
  description' ← field_or object "description" (to_some Description.fromJSON) None;
  unbondingHeight' ← field_or object "unbondingHeight" js_Number 0;
  unbondingTime' ← field_or object "unbondingTime" (to_some fromJsonTimestamp) None;
  commission' ← field_or object "commission" (to_some Commission.fromJSON) None;
  minSelfDelegation' ← field_or object "minSelfDelegation" to_string "";
  Ok (mk operatorAddress' consensusPubkey' jailed' status' tokens' delegatorShares' description'
    unbondingHeight' unbondingTime' commission' minSelfDelegation').

Definition toJSON (message : t) : result js :=
  unbondingTime' ← option_result toISOString message.(unbondingTime);
  commission' ← option_result Commission.toJSON message.(commission);
  Ok (Obj ([("operatorAddress", Str message.(operatorAddress))] ++
   prop_opt "consensusPubkey" Any.toJSON message.(consensusPubkey) ++
   [("jailed", Bool message.(jailed));
    ("status", Str (bondStatusToJSON message.(status)));
    ("tokens", Str message.(tokens));
    ("delegatorShares", Str message.(delegatorShares))] ++
   prop_opt "description" Description.toJSON message.(description) ++
   [("unbondingHeight", Num message.(unbondingHeight))] ++
   prop_opt "unbondingTime" Str unbondingTime' ++
   prop_opt "commission" id commission' ++
   [("minSelfDelegation", Str message.(minSelfDelegation))])).

Record partial := mkPartial {
  p_operatorAddress : option string;
  p_consensusPubkey : option Any.partial;
  p_jailed : option bool;
  p_status : option number;
  p_tokens : option string;
  p_delegatorShares : option string;
  p_description : option Description.partial;
  p_unbondingHeight : option number;
  p_unbondingTime : option date;
  p_commission : option Commission.partial;
  p_minSelfDelegation : option string;
}.

Definition fromPartial (object : partial) : t := {|
  operatorAddress := object.(p_operatorAddress) ?? "";
  consensusPubkey := Any.fromPartial <$> object.(p_consensusPubkey);
  jailed := object.(p_jailed) ?? false;
  status := object.(p_status) ?? Int 0;
  tokens := object.(p_tokens) ?? "";
  delegatorShares := object.(p_delegatorShares) ?? "";
  description := Description.fromPartial <$> object.(p_description);
  unbondingHeight := object.(p_unbondingHeight) ?? Int 0;
  unbondingTime := object.(p_unbondingTime);
  commission := Commission.fromPartial <$> object.(p_commission);
  minSelfDelegation := object.(p_minSelfDelegation) ?? "";
|}.

(** The object with no property given. *)
Definition nothing : partial := mkPartial None None None None None None None None None None None.

(** The bytes [encode] writes. *)
Definition wire {PB : Protobuf} {PS : ProtobufSpec PB} (m : t) : bytes :=
  f_string 10 m.(operatorAddress) ++
  f_message 18 Any.wire m.(consensusPubkey) ++
  f_bool 24 m.(jailed) ++
  f_number e_int32 32 m.(status) ++
  f_string 42 m.(tokens) ++
  f_string 50 m.(delegatorShares) ++
  f_message 58 Description.wire m.(description) ++
  f_number e_int64 64 m.(unbondingHeight) ++
  f_message 74 wire_time m.(unbondingTime) ++
  f_message 82 Commission.wire m.(commission) ++
  f_string 90 m.(minSelfDelegation).

Definition valid (m : t) : Prop :=
  from_option Any.valid True m.(consensusPubkey) ∧ int32_ok m.(status) ∧ from_option Description.valid True m.(description) ∧ int64_ok m.(unbondingHeight) ∧ from_option date_ok True m.(unbondingTime) ∧ from_option Commission.valid True m.(commission).

(** The byte fields hold arrays, as the interface declares. *)
Definition typed (m : t) : bool := from_option Any.typed true m.(consensusPubkey) && from_option Commission.typed true m.(commission).

(** The message without its empty byte arrays. *)
Definition normal (m : t) : t := {|
  operatorAddress := m.(operatorAddress);
  consensusPubkey := Any.normal <$> m.(consensusPubkey);
  jailed := m.(jailed);
  status := m.(status);
  tokens := m.(tokens);
  delegatorShares := m.(delegatorShares);
  description := m.(description);
  unbondingHeight := m.(unbondingHeight);
  unbondingTime := m.(unbondingTime);
  commission := Commission.normal <$> m.(commission);
  minSelfDelegation := m.(minSelfDelegation);
|}.

(** The dates are valid. *)
Definition timed (m : t) : bool := from_option date_valid true m.(unbondingTime) && from_option Commission.timed true m.(commission).

(** The enumeration fields hold members. *)
Definition named (m : t) : bool := bondStatus_named m.(status).

(** The message with the numbers [toJSON] does not know replaced. *)
Definition known (m : t) : t := {|
  operatorAddress := m.(operatorAddress);
  consensusPubkey := m.(consensusPubkey);
  jailed := m.(jailed);
  status := bondStatus_known m.(status);
  tokens := m.(tokens);
  delegatorShares := m.(delegatorShares);
  description := m.(description);
  unbondingHeight := m.(unbondingHeight);
  unbondingTime := m.(unbondingTime);
  commission := m.(commission);
  minSelfDelegation := m.(minSelfDelegation);
|}.

Definition encodable {PB : Protobuf} {PS : ProtobufSpec PB} (m : t) : Prop :=
  typed m = true ∧ valid m ∧ small (wire m).

Definition merge (m a : t) : t := {|
  operatorAddress := later_string m.(operatorAddress) a.(operatorAddress);
  consensusPubkey := later_message m.(consensusPubkey) (Any.normal <$> a.(consensusPubkey));
  jailed := later_bool m.(jailed) a.(jailed);
  status := later_number m.(status) a.(status);
  tokens := later_string m.(tokens) a.(tokens);
  delegatorShares := later_string m.(delegatorShares) a.(delegatorShares);
  description := later_message m.(description) a.(description);
  unbondingHeight := later_number m.(unbondingHeight) a.(unbondingHeight);
  unbondingTime := later_message m.(unbondingTime) a.(unbondingTime);
  commission := later_message m.(commission) (Commission.normal <$> a.(commission));
  minSelfDelegation := later_string m.(minSelfDelegation) a.(minSelfDelegation);
|}.

(** A whole message seen as a partial one. *)
Definition full (m : t) : partial := {|
  p_operatorAddress := Some m.(operatorAddress);
  p_consensusPubkey := Any.full <$> m.(consensusPubkey);
  p_jailed := Some m.(jailed);
  p_status := Some m.(status);
  p_tokens := Some m.(tokens);
  p_delegatorShares := Some m.(delegatorShares);
  p_description := Description.full <$> m.(description);
  p_unbondingHeight := Some m.(unbondingHeight);
  p_unbondingTime := m.(unbondingTime);
  p_commission := Commission.full <$> m.(commission);
  p_minSelfDelegation := Some m.(minSelfDelegation);
|}.

(** The message as its schema declares it. *)
Definition schema (m : t) : list field :=
  [implicit 1 (VString m.(operatorAddress));
   singular 2 Optional (message_value Any.schema) m.(consensusPubkey);
   implicit 3 (VBool m.(jailed));
   implicit 4 (VInt Int32 m.(status));
   implicit 5 (VString m.(tokens));
   implicit 6 (VString m.(delegatorShares));
   singular 7 Optional (message_value Description.schema) m.(description);
   implicit 8 (VInt Int64 m.(unbondingHeight));
   singular 9 Stamp timestamp_value m.(unbondingTime);
   singular 10 Optional (message_value Commission.schema) m.(commission);
   implicit 11 (VString m.(minSelfDelegation))].

(** The message with its default for every property that is not kept. *)
Definition only (kept : string → bool) (m : t) : t := {|
  operatorAddress := if kept "operatorAddress" then m.(operatorAddress) else "";
  consensusPubkey := if kept "consensusPubkey" then m.(consensusPubkey) else None;
  jailed := if kept "jailed" then m.(jailed) else false;
  status := if kept "status" then m.(status) else Int 0;
  tokens := if kept "tokens" then m.(tokens) else "";
  delegatorShares := if kept "delegatorShares" then m.(delegatorShares) else "";
  description := if kept "description" then m.(description) else None;
  unbondingHeight := if kept "unbondingHeight" then m.(unbondingHeight) else Int 0;
  unbondingTime := if kept "unbondingTime" then m.(unbondingTime) else None;
  commission := if kept "commission" then m.(commission) else None;
  minSelfDelegation := if kept "minSelfDelegation" then m.(minSelfDelegation) else "";
|}.

#[global] Instance codec {PB : Protobuf} : FallibleCodec t :=
  {| fmsg_base := base; fmsg_encode := encode; fmsg_field := decode_field |}.

#[global] Program Instance spec {PB : Protobuf} (PS : ProtobufSpec PB) : FallibleSpec PS t :=
  {| fmsg_wire := wire; fmsg_valid := valid; fmsg_typed := typed; fmsg_normal := normal;
     fmsg_merge := merge |}.
Next Obligation. solve_fencode_wire. Qed.
Next Obligation. intros. solve_fencode_throws encode typed. Qed.
Next Obligation. solve_fdecode_wire. Qed.
Next Obligation. solve_fmerge_base. Qed.
Next Obligation. intros. solve_fadvances decode_field. Qed.

#[global] Program Instance given_ : FalliblePartial t partial :=
  {| fmsg_fromPartial := fromPartial; fmsg_full := full; fmsg_given := typed |}.
Next Obligation. solve_fgiven fromPartial typed. Qed.
Next Obligation. solve_fpartial fromPartial full typed. Qed.

#[global] Program Instance json : DatedJson t :=
  {| dmsg_fromJSON := fromJSON; dmsg_toJSON := toJSON; dmsg_timed := timed;
     dmsg_named := named; dmsg_known := known |}.
Next Obligation. solve_djson fromJSON toJSON timed. Qed.
Next Obligation. solve_dthrows toJSON timed. Qed.
Next Obligation. solve_known named known. Qed.

#[global] Instance schema_wire {PB : Protobuf} {PS : ProtobufSpec PB} : WireSchema wire schema.
Proof. solve_schema_wire wire schema. Qed.

#[global] Instance schema_normal : NormalSchema normal schema.
Proof. solve_schema_normal normal schema. Qed.

#[global] Instance schema_merge : MergeSchema merge schema.
Proof. solve_schema_merge merge schema. Qed.

(** Its row in the table of message types. *)
Definition message {PB : Protobuf} {PS : ProtobufSpec PB} : message_type :=
  dated_message "Validator" nothing true schema only.

#[global] Instance message_lawful {PB : Protobuf} (PS : ProtobufSpec PB) : Lawful message.
Proof. solve_lawful decode_field fromJSON only. Qed.

End Validator.

(** ** [HistoricalInfo] (cosmos/staking/v1beta1/staking.js) *)

Module HistoricalInfo.

Record t := mk {
  header : option Header.t;
  valset : list Validator.t;
}.

#[global] Instance t_eta : Settable t := λ m, mk m.(header) m.(valset).

Definition base : t := mk None [].

Definition encode {PB : Protobuf} (message : t) (writer : Writer) : result Writer :=
  Ok writer
  @>= defined_e message.(header) (submessage 10 Header.encode)
  @>= each_e message.(valset) (submessage 18 Validator.encode).

Definition decode_field {PB : Protobuf} (tag : Z) (message : t) : RM t :=
  match field_number tag with
  | 1 => v ← read_nested Header.decode; mret (message <| header := Some v |>)
  | 2 => v ← read_nested Validator.decode; mret (message <| valset := message.(valset) ++ [v] |>)
  | _ => _ ← skipType (wire_type tag); mret message
  end.

Definition decode {PB : Protobuf} (length : option Z) : RM t :=
  decode_message length base decode_field.

Definition fromJSON (object : js) : result t :=
  header' ← field_or object "header" (to_some Header.fromJSON) None;
  valset' ← field_or object "valset" (to_list Validator.fromJSON) [];
  Ok (mk header' valset').

Definition toJSON (message : t) : result js :=
  header' ← option_result Header.toJSON message.(header);
  valset' ← result_map Validator.toJSON message.(valset);
  Ok (Obj (prop_opt "header" id header' ++
   [("valset", Arr valset')])).

Record partial := mkPartial {
  p_header : option Header.partial;
  p_valset : option (list Validator.partial);
}.

Definition fromPartial (object : partial) : t := {|
  header := Header.fromPartial <$> object.(p_header);
  valset := map Validator.fromPartial (object.(p_valset) ?? []);
|}.

(** The object with no property given. *)
Definition nothing : partial := mkPartial None None.

(** The bytes [encode] writes. *)
Definition wire {PB : Protobuf} {PS : ProtobufSpec PB} (m : t) : bytes :=
  f_message 10 Header.wire m.(header) ++
  f_repeated 18 Validator.wire m.(valset).

Definition valid (m : t) : Prop :=
  from_option Header.valid True m.(header) ∧ Forall Validator.valid m.(valset).

(** The byte fields hold arrays, as the interface declares. *)
Definition typed (m : t) : bool := from_option Header.typed true m.(header) && forallb Validator.typed m.(valset).

(** The message without its empty byte arrays. *)
Definition normal (m : t) : t := {|
  header := Header.normal <$> m.(header);
  valset := map Validator.normal m.(valset);
|}.

(** The dates are valid. *)
Definition timed (m : t) : bool := from_option Header.timed true m.(header) && forallb Validator.timed m.(valset).

(** The enumeration fields hold members. *)
Definition named (m : t) : bool := forallb Validator.named m.(valset).

(** The message with the numbers [toJSON] does not know replaced. *)
Definition known (m : t) : t := {|
  header := m.(header);
  valset := map Validator.known m.(valset);
|}.

Definition encodable {PB : Protobuf} {PS : ProtobufSpec PB} (m : t) : Prop :=
  typed m = true ∧ valid m ∧ small (wire m).

Definition merge (m a : t) : t := {|
  header := later_message m.(header) (Header.normal <$> a.(header));
  valset := m.(valset) ++ map Validator.normal a.(valset);
|}.

(** A whole message seen as a partial one. *)
Definition full (m : t) : partial := {|
  p_header := Header.full <$> m.(header);
  p_valset := Some (map Validator.full m.(valset));
|}.

(** The message as its schema declares it. *)
Definition schema (m : t) : list field :=
  [singular 1 Optional (message_value Header.schema) m.(header);
   repeated 2 (message_value Validator.schema) m.(valset)].

(** The message with its default for every property that is not kept. *)
Definition only (kept : string → bool) (m : t) : t := {|
  header := if kept "header" then m.(header) else None;
  valset := if kept "valset" then m.(valset) else [];
|}.

#[global] Instance codec {PB : Protobuf} : FallibleCodec t :=
  {| fmsg_base := base; fmsg_encode := encode; fmsg_field := decode_field |}.

#[global] Program Instance spec {PB : Protobuf} (PS : ProtobufSpec PB) : FallibleSpec PS t :=
  {| fmsg_wire := wire; fmsg_valid := valid; fmsg_typed := typed; fmsg_normal := normal;
     fmsg_merge := merge |}.
Next Obligation. solve_fencode_wire. Qed.
Next Obligation. intros. solve_fencode_throws encode typed. Qed.
Next Obligation. solve_fdecode_wire. Qed.
Next Obligation. solve_fmerge_base. Qed.
Next Obligation. intros. solve_fadvances decode_field. Qed.

#[global] Program Instance given_ : FalliblePartial t partial :=
  {| fmsg_fromPartial := fromPartial; fmsg_full := full; fmsg_given := typed |}.
Next Obligation. solve_fgiven fromPartial typed. Qed.
Next Obligation. solve_fpartial fromPartial full typed. Qed.

#[global] Program Instance json : DatedJson t :=
  {| dmsg_fromJSON := fromJSON; dmsg_toJSON := toJSON; dmsg_timed := timed;
     dmsg_named := named; dmsg_known := known |}.
Next Obligation. solve_djson fromJSON toJSON timed. Qed.
Next Obligation. solve_dthrows toJSON timed. Qed.
Next Obligation. solve_known named known. Qed.

#[global] Instance schema_wire {PB : Protobuf} {PS : ProtobufSpec PB} : WireSchema wire schema.
Proof. solve_schema_wire wire schema. Qed.

#[global] Instance schema_normal : NormalSchema normal schema.
Proof. solve_schema_normal normal schema. Qed.

#[global] Instance schema_merge : MergeSchema merge schema.
Proof. solve_schema_merge merge schema. Qed.

(** Its row in the table of message types. *)
Definition message {PB : Protobuf} {PS : ProtobufSpec PB} : message_type :=
  dated_message "HistoricalInfo" nothing true schema only.

#[global] Instance message_lawful {PB : Protobuf} (PS : ProtobufSpec PB) : Lawful message.
Proof. solve_lawful decode_field fromJSON only. Qed.

End HistoricalInfo.

(** ** [ValAddresses] (cosmos/staking/v1beta1/staking.js) *)

Module ValAddresses.

Record t := mk {
  addresses : list string;
}.

#[global] Instance t_eta : Settable t := λ m, mk m.(addresses).

Definition base : t := mk [].

Definition encode {PB : Protobuf} (message : t) (writer : Writer) : Writer :=
  writer
  @> each message.(addresses) (fun v w => w @> uint32 10 @> string_ v).

Definition decode_field {PB : Protobuf} (tag : Z) (message : t) : RM t :=
  match field_number tag with
  | 1 => v ← read_string; mret (message <| addresses := message.(addresses) ++ [v] |>)
  | _ => _ ← skipType (wire_type tag); mret message
  end.

Definition decode {PB : Protobuf} (length : option Z) : RM t :=
  decode_message length base decode_field.

Definition fromJSON (object : js) : result t :=
  addresses' ← field_or object "addresses" (to_list to_string) [];
  Ok (mk addresses').

Definition toJSON (message : t) : js :=
  Obj ([("addresses", Arr (map Str message.(addresses)))]).

Record partial := mkPartial {
  p_addresses : option (list string);
}.

Definition fromPartial (object : partial) : t := {|
  addresses := (object.(p_addresses) ?? []);
|}.

(** The object with no property given. *)
Definition nothing : partial := mkPartial None.

(** The bytes [encode] writes. *)
Definition wire {PB : Protobuf} {PS : ProtobufSpec PB} (m : t) : bytes :=
  f_repeated 10 chars m.(addresses).

Definition valid (m : t) : Prop :=
  True.

Definition encodable {PB : Protobuf} {PS : ProtobufSpec PB} (m : t) : Prop :=
  valid m ∧ small (wire m).

Definition merge (m a : t) : t := {|
  addresses := m.(addresses) ++ a.(addresses);
|}.

(** A whole message seen as a partial one. *)
Definition full (m : t) : partial := {|
  p_addresses := Some m.(addresses);
|}.

(** The message as its schema declares it. *)
Definition schema (m : t) : list field :=
  [repeated 1 VString m.(addresses)].

(** The message with its default for every property that is not kept. *)
Definition only (kept : string → bool) (m : t) : t := {|
  addresses := if kept "addresses" then m.(addresses) else [];
|}.

#[global] Instance codec {PB : Protobuf} : MessageCodec t :=
  {| msg_base := base; msg_encode := encode; msg_field := decode_field |}.

#[global] Program Instance spec {PB : Protobuf} (PS : ProtobufSpec PB) : MessageSpec PS t :=
  {| msg_wire := wire; msg_valid := valid; msg_merge := merge |}.
Next Obligation. solve_encode_wire. Qed.
Next Obligation. solve_decode_wire. Qed.
Next Obligation. solve_merge_base. Qed.
Next Obligation. intros. solve_advances decode_field. Qed.

#[global] Program Instance data : MessageData t partial :=
  {| msg_fromJSON := fromJSON; msg_toJSON := toJSON;
     msg_fromPartial := fromPartial; msg_full := full |}.
Next Obligation. solve_json fromJSON toJSON. Qed.
Next Obligation. solve_partial fromPartial full. Qed.

#[global] Instance schema_wire {PB : Protobuf} {PS : ProtobufSpec PB} : WireSchema wire schema.
Proof. solve_schema_wire wire schema. Qed.

#[global] Instance schema_merge : MergeSchema merge schema.
Proof. solve_schema_merge merge schema. Qed.

(** Its row in the table of message types. *)
Definition message {PB : Protobuf} {PS : ProtobufSpec PB} : message_type :=
  plain_message "ValAddresses" nothing true schema only.

#[global] Instance message_lawful {PB : Protobuf} (PS : ProtobufSpec PB) : Lawful message.
Proof. solve_lawful decode_field fromJSON only. Qed.

End ValAddresses.

(** ** [DVPair] (cosmos/staking/v1beta1/staking.js) *)

Module DVPair.

Record t := mk {
  delegatorAddress : string;
  validatorAddress : string;
}.

#[global] Instance t_eta : Settable t := λ m, mk m.(delegatorAddress) m.(validatorAddress).

Definition base : t := mk "" "".

Definition encode {PB : Protobuf} (message : t) (writer : Writer) : Writer :=
  writer
  @> when (str_neq message.(delegatorAddress) "")
       (fun w => w @> uint32 10 @> string_ message.(delegatorAddress))
  @> when (str_neq message.(validatorAddress) "")
       (fun w => w @> uint32 18 @> string_ message.(validatorAddress)).

Definition decode_field {PB : Protobuf} (tag : Z) (message : t) : RM t :=
  match field_number tag with
  | 1 => v ← read_string; mret (message <| delegatorAddress := v |>)
  | 2 => v ← read_string; mret (message <| validatorAddress := v |>)
  | _ => _ ← skipType (wire_type tag); mret message
  end.

Definition decode {PB : Protobuf} (length : option Z) : RM t :=
  decode_message length base decode_field.

Definition fromJSON (object : js) : result t :=
  delegatorAddress' ← field_or object "delegatorAddress" to_string "";
  validatorAddress' ← field_or object "validatorAddress" to_string "";
  Ok (mk delegatorAddress' validatorAddress').

Definition toJSON (message : t) : js :=
  Obj ([("delegatorAddress", Str message.(delegatorAddress));
    ("validatorAddress", Str message.(validatorAddress))]).

Record partial := mkPartial {
  p_delegatorAddress : option string;
  p_validatorAddress : option string;
}.

Definition fromPartial (object : partial) : t := {|
  delegatorAddress := object.(p_delegatorAddress) ?? "";
  validatorAddress := object.(p_validatorAddress) ?? "";
|}.

(** The object with no property given. *)
Definition nothing : partial := mkPartial None None.

(** The bytes [encode] writes. *)
Definition wire {PB : Protobuf} {PS : ProtobufSpec PB} (m : t) : bytes :=
  f_string 10 m.(delegatorAddress) ++
  f_string 18 m.(validatorAddress).

Definition valid (m : t) : Prop :=
  True.

Definition encodable {PB : Protobuf} {PS : ProtobufSpec PB} (m : t) : Prop :=
  valid m ∧ small (wire m).

Definition merge (m a : t) : t := {|
  delegatorAddress := later_string m.(delegatorAddress) a.(delegatorAddress);
  validatorAddress := later_string m.(validatorAddress) a.(validatorAddress);
|}.

(** A whole message seen as a partial one. *)
Definition full (m : t) : partial := {|
  p_delegatorAddress := Some m.(delegatorAddress);
  p_validatorAddress := Some m.(validatorAddress);
|}.

(** The message as its schema declares it. *)
Definition schema (m : t) : list field :=
  [implicit 1 (VString m.(delegatorAddress));
   implicit 2 (VString m.(validatorAddress))].

(** The message with its default for every property that is not kept. *)
Definition only (kept : string → bool) (m : t) : t := {|
  delegatorAddress := if kept "delegatorAddress" then m.(delegatorAddress) else "";
  validatorAddress := if kept "validatorAddress" then m.(validatorAddress) else "";
|}.

#[global] Instance codec {PB : Protobuf} : MessageCodec t :=
  {| msg_base := base; msg_encode := encode; msg_field := decode_field |}.

#[global] Program Instance spec {PB : Protobuf} (PS : ProtobufSpec PB) : MessageSpec PS t :=
  {| msg_wire := wire; msg_valid := valid; msg_merge := merge |}.
Next Obligation. solve_encode_wire. Qed.
Next Obligation. solve_decode_wire. Qed.
Next Obligation. solve_merge_base. Qed.
Next Obligation. intros. solve_advances decode_field. Qed.

#[global] Program Instance data : MessageData t partial :=
  {| msg_fromJSON := fromJSON; msg_toJSON := toJSON;
     msg_fromPartial := fromPartial; msg_full := full |}.
Next Obligation. solve_json fromJSON toJSON. Qed.
Next Obligation. solve_partial fromPartial full. Qed.

#[global] Instance schema_wire {PB : Protobuf} {PS : ProtobufSpec PB} : WireSchema wire schema.
Proof. solve_schema_wire wire schema. Qed.

#[global] Instance schema_merge : MergeSchema merge schema.
Proof. solve_schema_merge merge schema. Qed.

(** Its row in the table of message types. *)
Definition message {PB : Protobuf} {PS : ProtobufSpec PB} : message_type :=
  plain_message "DVPair" nothing true schema only.

#[global] Instance message_lawful {PB : Protobuf} (PS : ProtobufSpec PB) : Lawful message.
Proof. solve_lawful decode_field fromJSON only. Qed.

End DVPair.

(** ** [DVPairs] (cosmos/staking/v1beta1/staking.js) *)

Module DVPairs.

Record t := mk {
  pairs : list DVPair.t;
}.

#[global] Instance t_eta : Settable t := λ m, mk m.(pairs).

Definition base : t := mk [].

Definition encode {PB : Protobuf} (message : t) (writer : Writer) : Writer :=
  writer
  @> each message.(pairs) (fun v w => w @> uint32 10 @> fork @> DVPair.encode v @> ldelim).

Definition decode_field {PB : Protobuf} (tag : Z) (message : t) : RM t :=
  match field_number tag with
  | 1 => v ← read_nested DVPair.decode; mret (message <| pairs := message.(pairs) ++ [v] |>)
  | _ => _ ← skipType (wire_type tag); mret message
  end.

Definition decode {PB : Protobuf} (length : option Z) : RM t :=
  decode_message length base decode_field.

Definition fromJSON (object : js) : result t :=
  pairs' ← field_or object "pairs" (to_list DVPair.fromJSON) [];
  Ok (mk pairs').

Definition toJSON (message : t) : js :=
  Obj ([("pairs", Arr (map DVPair.toJSON message.(pairs)))]).

Record partial := mkPartial {
  p_pairs : option (list DVPair.partial);
}.

Definition fromPartial (object : partial) : t := {|
  pairs := map DVPair.fromPartial (object.(p_pairs) ?? []);
|}.

(** The object with no property given. *)
Definition nothing : partial := mkPartial None.

(** The bytes [encode] writes. *)
Definition wire {PB : Protobuf} {PS : ProtobufSpec PB} (m : t) : bytes :=
  f_repeated 10 DVPair.wire m.(pairs).

Definition valid (m : t) : Prop :=
  Forall DVPair.valid m.(pairs).

Definition encodable {PB : Protobuf} {PS : ProtobufSpec PB} (m : t) : Prop :=
  valid m ∧ small (wire m).

Definition merge (m a : t) : t := {|
  pairs := m.(pairs) ++ a.(pairs);
|}.

(** A whole message seen as a partial one. *)
Definition full (m : t) : partial := {|
  p_pairs := Some (map DVPair.full m.(pairs));
|}.

(** The message as its schema declares it. *)
Definition schema (m : t) : list field :=
  [repeated 1 (message_value DVPair.schema) m.(pairs)].

(** The message with its default for every property that is not kept. *)
Definition only (kept : string → bool) (m : t) : t := {|
  pairs := if kept "pairs" then m.(pairs) else [];
|}.

#[global] Instance codec {PB : Protobuf} : MessageCodec t :=
  {| msg_base := base; msg_encode := encode; msg_field := decode_field |}.

#[global] Program Instance spec {PB : Protobuf} (PS : ProtobufSpec PB) : MessageSpec PS t :=
  {| msg_wire := wire; msg_valid := valid; msg_merge := merge |}.
Next Obligation. solve_encode_wire. Qed.
Next Obligation. solve_decode_wire. Qed.
Next Obligation. solve_merge_base. Qed.
Next Obligation. intros. solve_advances decode_field. Qed.

#[global] Program Instance data : MessageData t partial :=
  {| msg_fromJSON := fromJSON; msg_toJSON := toJSON;
     msg_fromPartial := fromPartial; msg_full := full |}.
Next Obligation. solve_json fromJSON toJSON. Qed.
Next Obligation. solve_partial fromPartial full. Qed.

#[global] Instance schema_wire {PB : Protobuf} {PS : ProtobufSpec PB} : WireSchema wire schema.
Proof. solve_schema_wire wire schema. Qed.

#[global] Instance schema_merge : MergeSchema merge schema.
Proof. solve_schema_merge merge schema. Qed.

(** Its row in the table of message types. *)
Definition message {PB : Protobuf} {PS : ProtobufSpec PB} : message_type :=
  plain_message "DVPairs" nothing true schema only.

#[global] Instance message_lawful {PB : Protobuf} (PS : ProtobufSpec PB) : Lawful message.
Proof. solve_lawful decode_field fromJSON only. Qed.

End DVPairs.

(** ** [DVVTriplet] (cosmos/staking/v1beta1/staking.js) *)

Module DVVTriplet.

Record t := mk {
  delegatorAddress : string;
  validatorSrcAddress : string;
  validatorDstAddress : string;
}.

#[global] Instance t_eta : Settable t := λ m, mk m.(delegatorAddress) m.(validatorSrcAddress)
  m.(validatorDstAddress).

Definition base : t := mk "" "" "".

Definition encode {PB : Protobuf} (message : t) (writer : Writer) : Writer :=
  writer
  @> when (str_neq message.(delegatorAddress) "")
       (fun w => w @> uint32 10 @> string_ message.(delegatorAddress))
  @> when (str_neq message.(validatorSrcAddress) "")
       (fun w => w @> uint32 18 @> string_ message.(validatorSrcAddress))
  @> when (str_neq message.(validatorDstAddress) "")
       (fun w => w @> uint32 26 @> string_ message.(validatorDstAddress)).

Definition decode_field {PB : Protobuf} (tag : Z) (message : t) : RM t :=
  match field_number tag with
  | 1 => v ← read_string; mret (message <| delegatorAddress := v |>)
  | 2 => v ← read_string; mret (message <| validatorSrcAddress := v |>)
  | 3 => v ← read_string; mret (message <| validatorDstAddress := v |>)
  | _ => _ ← skipType (wire_type tag); mret message
  end.

Definition decode {PB : Protobuf} (length : option Z) : RM t :=
  decode_message length base decode_field.

Definition fromJSON (object : js) : result t :=
  delegatorAddress' ← field_or object "delegatorAddress" to_string "";
  validatorSrcAddress' ← field_or object "validatorSrcAddress" to_string "";
  validatorDstAddress' ← field_or object "validatorDstAddress" to_string "";
  Ok (mk delegatorAddress' validatorSrcAddress' validatorDstAddress').

Definition toJSON (message : t) : js :=
  Obj ([("delegatorAddress", Str message.(delegatorAddress));
    ("validatorSrcAddress", Str message.(validatorSrcAddress));
    ("validatorDstAddress", Str message.(validatorDstAddress))]).

Record partial := mkPartial {
  p_delegatorAddress : option string;
  p_validatorSrcAddress : option string;
  p_validatorDstAddress : option string;
}.

Definition fromPartial (object : partial) : t := {|
  delegatorAddress := object.(p_delegatorAddress) ?? "";
  validatorSrcAddress := object.(p_validatorSrcAddress) ?? "";
  validatorDstAddress := object.(p_validatorDstAddress) ?? "";
|}.

(** The object with no property given. *)
Definition nothing : partial := mkPartial None None None.

(** The bytes [encode] writes. *)
Definition wire {PB : Protobuf} {PS : ProtobufSpec PB} (m : t) : bytes :=
  f_string 10 m.(delegatorAddress) ++
  f_string 18 m.(validatorSrcAddress) ++
  f_string 26 m.(validatorDstAddress).

Definition valid (m : t) : Prop :=
  True.

Definition encodable {PB : Protobuf} {PS : ProtobufSpec PB} (m : t) : Prop :=
  valid m ∧ small (wire m).

Definition merge (m a : t) : t := {|
  delegatorAddress := later_string m.(delegatorAddress) a.(delegatorAddress);
  validatorSrcAddress := later_string m.(validatorSrcAddress) a.(validatorSrcAddress);
  validatorDstAddress := later_string m.(validatorDstAddress) a.(validatorDstAddress);
|}.

(** A whole message seen as a partial one. *)
Definition full (m : t) : partial := {|
  p_delegatorAddress := Some m.(delegatorAddress);
  p_validatorSrcAddress := Some m.(validatorSrcAddress);
  p_validatorDstAddress := Some m.(validatorDstAddress);
|}.

(** The message as its schema declares it. *)
Definition schema (m : t) : list field :=
  [implicit 1 (VString m.(delegatorAddress));
   implicit 2 (VString m.(validatorSrcAddress));
   implicit 3 (VString m.(validatorDstAddress))].

(** The message with its default for every property that is not kept. *)
Definition only (kept : string → bool) (m : t) : t := {|
  delegatorAddress := if kept "delegatorAddress" then m.(delegatorAddress) else "";
  validatorSrcAddress := if kept "validatorSrcAddress" then m.(validatorSrcAddress) else "";
  validatorDstAddress := if kept "validatorDstAddress" then m.(validatorDstAddress) else "";
|}.

#[global] Instance codec {PB : Protobuf} : MessageCodec t :=
  {| msg_base := base; msg_encode := encode; msg_field := decode_field |}.

#[global] Program Instance spec {PB : Protobuf} (PS : ProtobufSpec PB) : MessageSpec PS t :=
  {| msg_wire := wire; msg_valid := valid; msg_merge := merge |}.
Next Obligation. solve_encode_wire. Qed.
Next Obligation. solve_decode_wire. Qed.
Next Obligation. solve_merge_base. Qed.
Next Obligation. intros. solve_advances decode_field. Qed.

#[global] Program Instance data : MessageData t partial :=
  {| msg_fromJSON := fromJSON; msg_toJSON := toJSON;
     msg_fromPartial := fromPartial; msg_full := full |}.
Next Obligation. solve_json fromJSON toJSON. Qed.
Next Obligation. solve_partial fromPartial full. Qed.

#[global] Instance schema_wire {PB : Protobuf} {PS : ProtobufSpec PB} : WireSchema wire schema.
Proof. solve_schema_wire wire schema. Qed.

#[global] Instance schema_merge : MergeSchema merge schema.
Proof. solve_schema_merge merge schema. Qed.

(** Its row in the table of message types. *)
Definition message {PB : Protobuf} {PS : ProtobufSpec PB} : message_type :=
  plain_message "DVVTriplet" nothing true schema only.

#[global] Instance message_lawful {PB : Protobuf} (PS : ProtobufSpec PB) : Lawful message.
Proof. solve_lawful decode_field fromJSON only. Qed.

End DVVTriplet.

(** ** [DVVTriplets] (cosmos/staking/v1beta1/staking.js) *)

Module DVVTriplets.

Record t := mk {
  triplets : list DVVTriplet.t;
}.

#[global] Instance t_eta : Settable t := λ m, mk m.(triplets).

Definition base : t := mk [].

Definition encode {PB : Protobuf} (message : t) (writer : Writer) : Writer :=
  writer
  @> each message.(triplets) (fun v w => w @> uint32 10 @> fork @> DVVTriplet.encode v @> ldelim).

Definition decode_field {PB : Protobuf} (tag : Z) (message : t) : RM t :=
  match field_number tag with
  | 1 => v ← read_nested DVVTriplet.decode;
         mret (message <| triplets := message.(triplets) ++ [v] |>)
  | _ => _ ← skipType (wire_type tag); mret message
  end.

Definition decode {PB : Protobuf} (length : option Z) : RM t :=
  decode_message length base decode_field.

Definition fromJSON (object : js) : result t :=
  triplets' ← field_or object "triplets" (to_list DVVTriplet.fromJSON) [];
  Ok (mk triplets').

Definition toJSON (message : t) : js :=
  Obj ([("triplets", Arr (map DVVTriplet.toJSON message.(triplets)))]).

Record partial := mkPartial {
  p_triplets : option (list DVVTriplet.partial);
}.

Definition fromPartial (object : partial) : t := {|
  triplets := map DVVTriplet.fromPartial (object.(p_triplets) ?? []);
|}.

(** The object with no property given. *)
Definition nothing : partial := mkPartial None.

(** The bytes [encode] writes. *)
Definition wire {PB : Protobuf} {PS : ProtobufSpec PB} (m : t) : bytes :=
  f_repeated 10 DVVTriplet.wire m.(triplets).

Definition valid (m : t) : Prop :=
  Forall DVVTriplet.valid m.(triplets).

Definition encodable {PB : Protobuf} {PS : ProtobufSpec PB} (m : t) : Prop :=
  valid m ∧ small (wire m).

Definition merge (m a : t) : t := {|
  triplets := m.(triplets) ++ a.(triplets);
|}.

(** A whole message seen as a partial one. *)
Definition full (m : t) : partial := {|
  p_triplets := Some (map DVVTriplet.full m.(triplets));
|}.

(** The message as its schema declares it. *)
Definition schema (m : t) : list field :=
  [repeated 1 (message_value DVVTriplet.schema) m.(triplets)].

(** The message with its default for every property that is not kept. *)
Definition only (kept : string → bool) (m : t) : t := {|
  triplets := if kept "triplets" then m.(triplets) else [];
|}.

#[global] Instance codec {PB : Protobuf} : MessageCodec t :=
  {| msg_base := base; msg_encode := encode; msg_field := decode_field |}.

#[global] Program Instance spec {PB : Protobuf} (PS : ProtobufSpec PB) : MessageSpec PS t :=
  {| msg_wire := wire; msg_valid := valid; msg_merge := merge |}.
Next Obligation. solve_encode_wire. Qed.
Next Obligation. solve_decode_wire. Qed.
Next Obligation. solve_merge_base. Qed.
Next Obligation. intros. solve_advances decode_field. Qed.

#[global] Program Instance data : MessageData t partial :=
  {| msg_fromJSON := fromJSON; msg_toJSON := toJSON;
     msg_fromPartial := fromPartial; msg_full := full |}.
Next Obligation. solve_json fromJSON toJSON. Qed.
Next Obligation. solve_partial fromPartial full. Qed.

#[global] Instance schema_wire {PB : Protobuf} {PS : ProtobufSpec PB} : WireSchema wire schema.
Proof. solve_schema_wire wire schema. Qed.

#[global] Instance schema_merge : MergeSchema merge schema.
Proof. solve_schema_merge merge schema. Qed.

(** Its row in the table of message types. *)
Definition message {PB : Protobuf} {PS : ProtobufSpec PB} : message_type :=
  plain_message "DVVTriplets" nothing true schema only.

#[global] Instance message_lawful {PB : Protobuf} (PS : ProtobufSpec PB) : Lawful message.
Proof. solve_lawful decode_field fromJSON only. Qed.

End DVVTriplets.

(** ** [Delegation] (cosmos/staking/v1beta1/staking.js) *)

Module Delegation.

Record t := mk {
  delegatorAddress : string;
  validatorAddress : string;
  shares : string;
}.

#[global] Instance t_eta : Settable t := λ m, mk m.(delegatorAddress) m.(validatorAddress)
  m.(shares).

Definition base : t := mk "" "" "".

Definition encode {PB : Protobuf} (message : t) (writer : Writer) : Writer :=
  writer
  @> when (str_neq message.(delegatorAddress) "")
       (fun w => w @> uint32 10 @> string_ message.(delegatorAddress))
  @> when (str_neq message.(validatorAddress) "")
       (fun w => w @> uint32 18 @> string_ message.(validatorAddress))
  @> when (str_neq message.(shares) "") (fun w => w @> uint32 26 @> string_ message.(shares)).

Definition decode_field {PB : Protobuf} (tag : Z) (message : t) : RM t :=
  match field_number tag with
  | 1 => v ← read_string; mret (message <| delegatorAddress := v |>)
  | 2 => v ← read_string; mret (message <| validatorAddress := v |>)
  | 3 => v ← read_string; mret (message <| shares := v |>)
  | _ => _ ← skipType (wire_type tag); mret message
  end.

Definition decode {PB : Protobuf} (length : option Z) : RM t :=
  decode_message length base decode_field.

Definition fromJSON (object : js) : result t :=
  delegatorAddress' ← field_or object "delegatorAddress" to_string "";
  validatorAddress' ← field_or object "validatorAddress" to_string "";
  shares' ← field_or object "shares" to_string "";
  Ok (mk delegatorAddress' validatorAddress' shares').

Definition toJSON (message : t) : js :=
  Obj ([("delegatorAddress", Str message.(delegatorAddress));
    ("validatorAddress", Str message.(validatorAddress));
    ("shares", Str message.(shares))]).

Record partial := mkPartial {
  p_delegatorAddress : option string;
  p_validatorAddress : option string;
  p_shares : option string;
}.

Definition fromPartial (object : partial) : t := {|
  delegatorAddress := object.(p_delegatorAddress) ?? "";
  validatorAddress := object.(p_validatorAddress) ?? "";
  shares := object.(p_shares) ?? "";
|}.

(** The object with no property given. *)
Definition nothing : partial := mkPartial None None None.

(** The bytes [encode] writes. *)
Definition wire {PB : Protobuf} {PS : ProtobufSpec PB} (m : t) : bytes :=
  f_string 10 m.(delegatorAddress) ++
  f_string 18 m.(validatorAddress) ++
  f_string 26 m.(shares).

Definition valid (m : t) : Prop :=
  True.

Definition encodable {PB : Protobuf} {PS : ProtobufSpec PB} (m : t) : Prop :=
  valid m ∧ small (wire m).

Definition merge (m a : t) : t := {|
  delegatorAddress := later_string m.(delegatorAddress) a.(delegatorAddress);
  validatorAddress := later_string m.(validatorAddress) a.(validatorAddress);
  shares := later_string m.(shares) a.(shares);
|}.

(** A whole message seen as a partial one. *)
Definition full (m : t) : partial := {|
  p_delegatorAddress := Some m.(delegatorAddress);
  p_validatorAddress := Some m.(validatorAddress);
  p_shares := Some m.(shares);
|}.

(** The message as its schema declares it. *)
Definition schema (m : t) : list field :=
  [implicit 1 (VString m.(delegatorAddress));
   implicit 2 (VString m.(validatorAddress));
   implicit 3 (VString m.(shares))].

(** The message with its default for every property that is not kept. *)
Definition only (kept : string → bool) (m : t) : t := {|
  delegatorAddress := if kept "delegatorAddress" then m.(delegatorAddress) else "";
  validatorAddress := if kept "validatorAddress" then m.(validatorAddress) else "";
  shares := if kept "shares" then m.(shares) else "";
|}.

#[global] Instance codec {PB : Protobuf} : MessageCodec t :=
  {| msg_base := base; msg_encode := encode; msg_field := decode_field |}.

#[global] Program Instance spec {PB : Protobuf} (PS : ProtobufSpec PB) : MessageSpec PS t :=
  {| msg_wire := wire; msg_valid := valid; msg_merge := merge |}.
Next Obligation. solve_encode_wire. Qed.
Next Obligation. solve_decode_wire. Qed.
Next Obligation. solve_merge_base. Qed.
Next Obligation. intros. solve_advances decode_field. Qed.

#[global] Program Instance data : MessageData t partial :=
  {| msg_fromJSON := fromJSON; msg_toJSON := toJSON;
     msg_fromPartial := fromPartial; msg_full := full |}.
Next Obligation. solve_json fromJSON toJSON. Qed.
Next Obligation. solve_partial fromPartial full. Qed.

#[global] Instance schema_wire {PB : Protobuf} {PS : ProtobufSpec PB} : WireSchema wire schema.
Proof. solve_schema_wire wire schema. Qed.

#[global] Instance schema_merge : MergeSchema merge schema.
Proof. solve_schema_merge merge schema. Qed.

(** Its row in the table of message types. *)
Definition message {PB : Protobuf} {PS : ProtobufSpec PB} : message_type :=
  plain_message "Delegation" nothing true schema only.

#[global] Instance message_lawful {PB : Protobuf} (PS : ProtobufSpec PB) : Lawful message.
Proof. solve_lawful decode_field fromJSON only. Qed.

End Delegation.

(** ** [UnbondingDelegationEntry] (cosmos/staking/v1beta1/staking.js) *)

Module UnbondingDelegationEntry.

Record t := mk {
  creationHeight : number;
  completionTime : option date;
  initialBalance : string;
  balance : string;
}.

#[global] Instance t_eta : Settable t := λ m, mk m.(creationHeight) m.(completionTime)
  m.(initialBalance) m.(balance).

Definition base : t := mk 0 None "" "".

Definition encode {PB : Protobuf} (message : t) (writer : Writer) : result Writer :=
  Ok writer
  @>= pure (when (num_neq message.(creationHeight) 0)
       (fun w => w @> uint32 8 @> int64 message.(creationHeight)))
  @>= pure (defined message.(completionTime) (fun v w => w @> uint32 18 @> fork @> encode_time v @> ldelim))
  @>= pure (when (str_neq message.(initialBalance) "")
       (fun w => w @> uint32 26 @> string_ message.(initialBalance)))
  @>= pure (when (str_neq message.(balance) "")
       (fun w => w @> uint32 34 @> string_ message.(balance))).

Definition decode_field {PB : Protobuf} (tag : Z) (message : t) : RM t :=
  match field_number tag with
  | 1 => v ← read_number read_int64; mret (message <| creationHeight := v |>)
  | 2 => v ← read_time; mret (message <| completionTime := Some v |>)
  | 3 => v ← read_string; mret (message <| initialBalance := v |>)
  | 4 => v ← read_string; mret (message <| balance := v |>)
  | _ => _ ← skipType (wire_type tag); mret message
  end.

Definition decode {PB : Protobuf} (length : option Z) : RM t :=
  decode_message length base decode_field.

Definition fromJSON (object : js) : result t :=
  creationHeight' ← field_or object "creationHeight" js_Number 0;
  completionTime' ← field_or object "completionTime" (to_some fromJsonTimestamp) None;
  initialBalance' ← field_or object "initialBalance" to_string "";
  balance' ← field_or object "balance" to_string "";
  Ok (mk creationHeight' completionTime' initialBalance' balance').

Definition toJSON (message : t) : result js :=
  completionTime' ← option_result toISOString message.(completionTime);
  Ok (Obj ([("creationHeight", Num message.(creationHeight))] ++
   prop_opt "completionTime" Str completionTime' ++
   [("initialBalance", Str message.(initialBalance));
    ("balance", Str message.(balance))])).

Record partial := mkPartial {
  p_creationHeight : option number;
  p_completionTime : option date;
  p_initialBalance : option string;
  p_balance : option string;
}.

Definition fromPartial (object : partial) : t := {|
  creationHeight := object.(p_creationHeight) ?? Int 0;
  completionTime := object.(p_completionTime);
  initialBalance := object.(p_initialBalance) ?? "";
  balance := object.(p_balance) ?? "";
|}.

(** The object with no property given. *)
Definition nothing : partial := mkPartial None None None None.

(** The bytes [encode] writes. *)
Definition wire {PB : Protobuf} {PS : ProtobufSpec PB} (m : t) : bytes :=
  f_number e_int64 8 m.(creationHeight) ++
  f_message 18 wire_time m.(completionTime) ++
  f_string 26 m.(initialBalance) ++
  f_string 34 m.(balance).

Definition valid (m : t) : Prop :=
  int64_ok m.(creationHeight) ∧ from_option date_ok True m.(completionTime).

(** The byte fields hold arrays, as the interface declares. *)
Definition typed (m : t) : bool := true.

(** The message without its empty byte arrays. *)
Definition normal (m : t) : t := {|
  creationHeight := m.(creationHeight);
  completionTime := m.(completionTime);
  initialBalance := m.(initialBalance);
  balance := m.(balance);
|}.

(** The dates are valid. *)
Definition timed (m : t) : bool := from_option date_valid true m.(completionTime).

Definition encodable {PB : Protobuf} {PS : ProtobufSpec PB} (m : t) : Prop :=
  typed m = true ∧ valid m ∧ small (wire m).

Definition merge (m a : t) : t := {|
  creationHeight := later_number m.(creationHeight) a.(creationHeight);
  completionTime := later_message m.(completionTime) a.(completionTime);
  initialBalance := later_string m.(initialBalance) a.(initialBalance);
  balance := later_string m.(balance) a.(balance);
|}.

(** A whole message seen as a partial one. *)
Definition full (m : t) : partial := {|
  p_creationHeight := Some m.(creationHeight);
  p_completionTime := m.(completionTime);
  p_initialBalance := Some m.(initialBalance);
  p_balance := Some m.(balance);
|}.

(** The message as its schema declares it. *)
Definition schema (m : t) : list field :=
  [implicit 1 (VInt Int64 m.(creationHeight));
   singular 2 Stamp timestamp_value m.(completionTime);
   implicit 3 (VString m.(initialBalance));
   implicit 4 (VString m.(balance))].

(** The message with its default for every property that is not kept. *)
Definition only (kept : string → bool) (m : t) : t := {|
  creationHeight := if kept "creationHeight" then m.(creationHeight) else Int 0;
  completionTime := if kept "completionTime" then m.(completionTime) else None;
  initialBalance := if kept "initialBalance" then m.(initialBalance) else "";
  balance := if kept "balance" then m.(balance) else "";
|}.

#[global] Instance codec {PB : Protobuf} : FallibleCodec t :=
  {| fmsg_base := base; fmsg_encode := encode; fmsg_field := decode_field |}.

#[global] Program Instance spec {PB : Protobuf} (PS : ProtobufSpec PB) : FallibleSpec PS t :=
  {| fmsg_wire := wire; fmsg_valid := valid; fmsg_typed := typed; fmsg_normal := normal;
     fmsg_merge := merge |}.
Next Obligation. solve_fencode_wire. Qed.
Next Obligation. intros. solve_fencode_throws encode typed. Qed.
Next Obligation. solve_fdecode_wire. Qed.
Next Obligation. solve_fmerge_base. Qed.
Next Obligation. intros. solve_fadvances decode_field. Qed.

#[global] Program Instance given_ : FalliblePartial t partial :=
  {| fmsg_fromPartial := fromPartial; fmsg_full := full; fmsg_given := typed |}.
Next Obligation. solve_fgiven fromPartial typed. Qed.
Next Obligation. solve_fpartial fromPartial full typed. Qed.

#[global] Program Instance json : DatedJson t :=
  {| dmsg_fromJSON := fromJSON; dmsg_toJSON := toJSON; dmsg_timed := timed;
     dmsg_named := fun _ => true; dmsg_known := fun m => m |}.
Next Obligation. solve_djson fromJSON toJSON timed. Qed.
Next Obligation. solve_dthrows toJSON timed. Qed.
Next Obligation. reflexivity. Qed.

#[global] Instance schema_wire {PB : Protobuf} {PS : ProtobufSpec PB} : WireSchema wire schema.
Proof. solve_schema_wire wire schema. Qed.

#[global] Instance schema_normal : NormalSchema normal schema.
Proof. solve_schema_normal normal schema. Qed.

#[global] Instance schema_merge : MergeSchema merge schema.
Proof. solve_schema_merge merge schema. Qed.

(** Its row in the table of message types. *)
Definition message {PB : Protobuf} {PS : ProtobufSpec PB} : message_type :=
  dated_message "UnbondingDelegationEntry" nothing true schema only.

#[global] Instance message_lawful {PB : Protobuf} (PS : ProtobufSpec PB) : Lawful message.
Proof. solve_lawful decode_field fromJSON only. Qed.

End UnbondingDelegationEntry.

(** ** [UnbondingDelegation] (cosmos/staking/v1beta1/staking.js) *)

Module UnbondingDelegation.

Record t := mk {
  delegatorAddress : string;
  validatorAddress : string;
  entries : list UnbondingDelegationEntry.t;
}.

#[global] Instance t_eta : Settable t := λ m, mk m.(delegatorAddress) m.(validatorAddress)
  m.(entries).

Definition base : t := mk "" "" [].

Definition encode {PB : Protobuf} (message : t) (writer : Writer) : result Writer :=
  Ok writer
  @>= pure (when (str_neq message.(delegatorAddress) "")
       (fun w => w @> uint32 10 @> string_ message.(delegatorAddress)))
  @>= pure (when (str_neq message.(validatorAddress) "")
       (fun w => w @> uint32 18 @> string_ message.(validatorAddress)))
  @>= each_e message.(entries) (submessage 26 UnbondingDelegationEntry.encode).

Definition decode_field {PB : Protobuf} (tag : Z) (message : t) : RM t :=
  match field_number tag with
  | 1 => v ← read_string; mret (message <| delegatorAddress := v |>)
  | 2 => v ← read_string; mret (message <| validatorAddress := v |>)
  | 3 => v ← read_nested UnbondingDelegationEntry.decode;
         mret (message <| entries := message.(entries) ++ [v] |>)
  | _ => _ ← skipType (wire_type tag); mret message
  end.

Definition decode {PB : Protobuf} (length : option Z) : RM t :=
  decode_message length base decode_field.

Definition fromJSON (object : js) : result t :=
  delegatorAddress' ← field_or object "delegatorAddress" to_string "";
  validatorAddress' ← field_or object "validatorAddress" to_string "";
  entries' ← field_or object "entries" (to_list UnbondingDelegationEntry.fromJSON) [];
  Ok (mk delegatorAddress' validatorAddress' entries').

Definition toJSON (message : t) : result js :=
  entries' ← result_map UnbondingDelegationEntry.toJSON message.(entries);
  Ok (Obj ([("delegatorAddress", Str message.(delegatorAddress));
    ("validatorAddress", Str message.(validatorAddress));
    ("entries", Arr entries')])).

Record partial := mkPartial {
  p_delegatorAddress : option string;
  p_validatorAddress : option string;
  p_entries : option (list UnbondingDelegationEntry.partial);
}.

Definition fromPartial (object : partial) : t := {|
  delegatorAddress := object.(p_delegatorAddress) ?? "";
  validatorAddress := object.(p_validatorAddress) ?? "";
  entries := map UnbondingDelegationEntry.fromPartial (object.(p_entries) ?? []);
|}.

(** The object with no property given. *)
Definition nothing : partial := mkPartial None None None.

(** The bytes [encode] writes. *)
Definition wire {PB : Protobuf} {PS : ProtobufSpec PB} (m : t) : bytes :=
  f_string 10 m.(delegatorAddress) ++
  f_string 18 m.(validatorAddress) ++
  f_repeated 26 UnbondingDelegationEntry.wire m.(entries).

Definition valid (m : t) : Prop :=
  Forall UnbondingDelegationEntry.valid m.(entries).

(** The byte fields hold arrays, as the interface declares. *)
Definition typed (m : t) : bool := forallb UnbondingDelegationEntry.typed m.(entries).

(** The message without its empty byte arrays. *)
Definition normal (m : t) : t := {|
  delegatorAddress := m.(delegatorAddress);
  validatorAddress := m.(validatorAddress);
  entries := map UnbondingDelegationEntry.normal m.(entries);
|}.

(** The dates are valid. *)
Definition timed (m : t) : bool := forallb UnbondingDelegationEntry.timed m.(entries).

Definition encodable {PB : Protobuf} {PS : ProtobufSpec PB} (m : t) : Prop :=
  typed m = true ∧ valid m ∧ small (wire m).

Definition merge (m a : t) : t := {|
  delegatorAddress := later_string m.(delegatorAddress) a.(delegatorAddress);
  validatorAddress := later_string m.(validatorAddress) a.(validatorAddress);
  entries := m.(entries) ++ map UnbondingDelegationEntry.normal a.(entries);
|}.

(** A whole message seen as a partial one. *)
Definition full (m : t) : partial := {|
  p_delegatorAddress := Some m.(delegatorAddress);
  p_validatorAddress := Some m.(validatorAddress);
  p_entries := Some (map UnbondingDelegationEntry.full m.(entries));
|}.

(** The message as its schema declares it. *)
Definition schema (m : t) : list field :=
  [implicit 1 (VString m.(delegatorAddress));
   implicit 2 (VString m.(validatorAddress));
   repeated 3 (message_value UnbondingDelegationEntry.schema) m.(entries)].

(** The message with its default for every property that is not kept. *)
Definition only (kept : string → bool) (m : t) : t := {|
  delegatorAddress := if kept "delegatorAddress" then m.(delegatorAddress) else "";
  validatorAddress := if kept "validatorAddress" then m.(validatorAddress) else "";
  entries := if kept "entries" then m.(entries) else [];
|}.

#[global] Instance codec {PB : Protobuf} : FallibleCodec t :=
  {| fmsg_base := base; fmsg_encode := encode; fmsg_field := decode_field |}.

#[global] Program Instance spec {PB : Protobuf} (PS : ProtobufSpec PB) : FallibleSpec PS t :=
  {| fmsg_wire := wire; fmsg_valid := valid; fmsg_typed := typed; fmsg_normal := normal;
     fmsg_merge := merge |}.
Next Obligation. solve_fencode_wire. Qed.
Next Obligation. intros. solve_fencode_throws encode typed. Qed.
Next Obligation. solve_fdecode_wire. Qed.
Next Obligation. solve_fmerge_base. Qed.
Next Obligation. intros. solve_fadvances decode_field. Qed.

#[global] Program Instance given_ : FalliblePartial t partial :=
  {| fmsg_fromPartial := fromPartial; fmsg_full := full; fmsg_given := typed |}.
Next Obligation. solve_fgiven fromPartial typed. Qed.
Next Obligation. solve_fpartial fromPartial full typed. Qed.

#[global] Program Instance json : DatedJson t :=
  {| dmsg_fromJSON := fromJSON; dmsg_toJSON := toJSON; dmsg_timed := timed;
     dmsg_named := fun _ => true; dmsg_known := fun m => m |}.
Next Obligation. solve_djson fromJSON toJSON timed. Qed.
Next Obligation. solve_dthrows toJSON timed. Qed.
Next Obligation. reflexivity. Qed.

#[global] Instance schema_wire {PB : Protobuf} {PS : ProtobufSpec PB} : WireSchema wire schema.
Proof. solve_schema_wire wire schema. Qed.

#[global] Instance schema_normal : NormalSchema normal schema.
Proof. solve_schema_normal normal schema. Qed.

#[global] Instance schema_merge : MergeSchema merge schema.
Proof. solve_schema_merge merge schema. Qed.

(** Its row in the table of message types. *)
Definition message {PB : Protobuf} {PS : ProtobufSpec PB} : message_type :=
  dated_message "UnbondingDelegation" nothing true schema only.

#[global] Instance message_lawful {PB : Protobuf} (PS : ProtobufSpec PB) : Lawful message.
Proof. solve_lawful decode_field fromJSON only. Qed.

End UnbondingDelegation.

(** ** [RedelegationEntry] (cosmos/staking/v1beta1/staking.js) *)

Module RedelegationEntry.

Record t := mk {
  creationHeight : number;
  completionTime : option date;
  initialBalance : string;
  sharesDst : string;
}.

#[global] Instance t_eta : Settable t := λ m, mk m.(creationHeight) m.(completionTime)
  m.(initialBalance) m.(sharesDst).

Definition base : t := mk 0 None "" "".

Definition encode {PB : Protobuf} (message : t) (writer : Writer) : result Writer :=
  Ok writer
  @>= pure (when (num_neq message.(creationHeight) 0)
       (fun w => w @> uint32 8 @> int64 message.(creationHeight)))
  @>= pure (defined message.(completionTime) (fun v w => w @> uint32 18 @> fork @> encode_time v @> ldelim))
  @>= pure (when (str_neq message.(initialBalance) "")
       (fun w => w @> uint32 26 @> string_ message.(initialBalance)))
  @>= pure (when (str_neq message.(sharesDst) "")
       (fun w => w @> uint32 34 @> string_ message.(sharesDst))).

Definition decode_field {PB : Protobuf} (tag : Z) (message : t) : RM t :=
  match field_number tag with
  | 1 => v ← read_number read_int64; mret (message <| creationHeight := v |>)
  | 2 => v ← read_time; mret (message <| completionTime := Some v |>)
  | 3 => v ← read_string; mret (message <| initialBalance := v |>)
  | 4 => v ← read_string; mret (message <| sharesDst := v |>)
  | _ => _ ← skipType (wire_type tag); mret message
  end.

Definition decode {PB : Protobuf} (length : option Z) : RM t :=
  decode_message length base decode_field.

Definition fromJSON (object : js) : result t :=
  creationHeight' ← field_or object "creationHeight" js_Number 0;
  completionTime' ← field_or object "completionTime" (to_some fromJsonTimestamp) None;
  initialBalance' ← field_or object "initialBalance" to_string "";
  sharesDst' ← field_or object "sharesDst" to_string "";
  Ok (mk creationHeight' completionTime' initialBalance' sharesDst').

Definition toJSON (message : t) : result js :=
  completionTime' ← option_result toISOString message.(completionTime);
  Ok (Obj ([("creationHeight", Num message.(creationHeight))] ++
   prop_opt "completionTime" Str completionTime' ++
   [("initialBalance", Str message.(initialBalance));
    ("sharesDst", Str message.(sharesDst))])).

Record partial := mkPartial {
  p_creationHeight : option number;
  p_completionTime : option date;
  p_initialBalance : option string;
  p_sharesDst : option string;
}.

Definition fromPartial (object : partial) : t := {|
  creationHeight := object.(p_creationHeight) ?? Int 0;
  completionTime := object.(p_completionTime);
  initialBalance := object.(p_initialBalance) ?? "";
  sharesDst := object.(p_sharesDst) ?? "";
|}.

(** The object with no property given. *)
Definition nothing : partial := mkPartial None None None None.

(** The bytes [encode] writes. *)
Definition wire {PB : Protobuf} {PS : ProtobufSpec PB} (m : t) : bytes :=
  f_number e_int64 8 m.(creationHeight) ++
  f_message 18 wire_time m.(completionTime) ++
  f_string 26 m.(initialBalance) ++
  f_string 34 m.(sharesDst).

Definition valid (m : t) : Prop :=
  int64_ok m.(creationHeight) ∧ from_option date_ok True m.(completionTime).

(** The byte fields hold arrays, as the interface declares. *)
Definition typed (m : t) : bool := true.

(** The message without its empty byte arrays. *)
Definition normal (m : t) : t := {|
  creationHeight := m.(creationHeight);
  completionTime := m.(completionTime);
  initialBalance := m.(initialBalance);
  sharesDst := m.(sharesDst);
|}.

(** The dates are valid. *)
Definition timed (m : t) : bool := from_option date_valid true m.(completionTime).

Definition encodable {PB : Protobuf} {PS : ProtobufSpec PB} (m : t) : Prop :=
  typed m = true ∧ valid m ∧ small (wire m).

Definition merge (m a : t) : t := {|
  creationHeight := later_number m.(creationHeight) a.(creationHeight);
  completionTime := later_message m.(completionTime) a.(completionTime);
  initialBalance := later_string m.(initialBalance) a.(initialBalance);
  sharesDst := later_string m.(sharesDst) a.(sharesDst);
|}.

(** A whole message seen as a partial one. *)
Definition full (m : t) : partial := {|
  p_creationHeight := Some m.(creationHeight);
  p_completionTime := m.(completionTime);
  p_initialBalance := Some m.(initialBalance);
  p_sharesDst := Some m.(sharesDst);
|}.

(** The message as its schema declares it. *)
Definition schema (m : t) : list field :=
  [implicit 1 (VInt Int64 m.(creationHeight));
   singular 2 Stamp timestamp_value m.(completionTime);
   implicit 3 (VString m.(initialBalance));
   implicit 4 (VString m.(sharesDst))].

(** The message with its default for every property that is not kept. *)
Definition only (kept : string → bool) (m : t) : t := {|
  creationHeight := if kept "creationHeight" then m.(creationHeight) else Int 0;
  completionTime := if kept "completionTime" then m.(completionTime) else None;
  initialBalance := if kept "initialBalance" then m.(initialBalance) else "";
  sharesDst := if kept "sharesDst" then m.(sharesDst) else "";
|}.

#[global] Instance codec {PB : Protobuf} : FallibleCodec t :=
  {| fmsg_base := base; fmsg_encode := encode; fmsg_field := decode_field |}.

#[global] Program Instance spec {PB : Protobuf} (PS : ProtobufSpec PB) : FallibleSpec PS t :=
  {| fmsg_wire := wire; fmsg_valid := valid; fmsg_typed := typed; fmsg_normal := normal;
     fmsg_merge := merge |}.
Next Obligation. solve_fencode_wire. Qed.
Next Obligation. intros. solve_fencode_throws encode typed. Qed.
Next Obligation. solve_fdecode_wire. Qed.
Next Obligation. solve_fmerge_base. Qed.
Next Obligation. intros. solve_fadvances decode_field. Qed.

#[global] Program Instance given_ : FalliblePartial t partial :=
  {| fmsg_fromPartial := fromPartial; fmsg_full := full; fmsg_given := typed |}.
Next Obligation. solve_fgiven fromPartial typed. Qed.
Next Obligation. solve_fpartial fromPartial full typed. Qed.

#[global] Program Instance json : DatedJson t :=
  {| dmsg_fromJSON := fromJSON; dmsg_toJSON := toJSON; dmsg_timed := timed;
     dmsg_named := fun _ => true; dmsg_known := fun m => m |}.
Next Obligation. solve_djson fromJSON toJSON timed. Qed.
Next Obligation. solve_dthrows toJSON timed. Qed.
Next Obligation. reflexivity. Qed.

#[global] Instance schema_wire {PB : Protobuf} {PS : ProtobufSpec PB} : WireSchema wire schema.
Proof. solve_schema_wire wire schema. Qed.

#[global] Instance schema_normal : NormalSchema normal schema.
Proof. solve_schema_normal normal schema. Qed.

#[global] Instance schema_merge : MergeSchema merge schema.
Proof. solve_schema_merge merge schema. Qed.

(** Its row in the table of message types. *)
Definition message {PB : Protobuf} {PS : ProtobufSpec PB} : message_type :=
  dated_message "RedelegationEntry" nothing true schema only.

#[global] Instance message_lawful {PB : Protobuf} (PS : ProtobufSpec PB) : Lawful message.
Proof. solve_lawful decode_field fromJSON only. Qed.

End RedelegationEntry.

(** ** [Redelegation] (cosmos/staking/v1beta1/staking.js) *)

Module Redelegation.

Record t := mk {
  delegatorAddress : string;
  validatorSrcAddress : string;
  validatorDstAddress : string;
  entries : list RedelegationEntry.t;
}.

#[global] Instance t_eta : Settable t := λ m, mk m.(delegatorAddress) m.(validatorSrcAddress)
  m.(validatorDstAddress) m.(entries).

Definition base : t := mk "" "" "" [].

Definition encode {PB : Protobuf} (message : t) (writer : Writer) : result Writer :=
  Ok writer
  @>= pure (when (str_neq message.(delegatorAddress) "")
       (fun w => w @> uint32 10 @> string_ message.(delegatorAddress)))
  @>= pure (when (str_neq message.(validatorSrcAddress) "")
       (fun w => w @> uint32 18 @> string_ message.(validatorSrcAddress)))
  @>= pure (when (str_neq message.(validatorDstAddress) "")
       (fun w => w @> uint32 26 @> string_ message.(validatorDstAddress)))
  @>= each_e message.(entries) (submessage 34 RedelegationEntry.encode).

Definition decode_field {PB : Protobuf} (tag : Z) (message : t) : RM t :=
  match field_number tag with
  | 1 => v ← read_string; mret (message <| delegatorAddress := v |>)
  | 2 => v ← read_string; mret (message <| validatorSrcAddress := v |>)
  | 3 => v ← read_string; mret (message <| validatorDstAddress := v |>)
  | 4 => v ← read_nested RedelegationEntry.decode;
         mret (message <| entries := message.(entries) ++ [v] |>)
  | _ => _ ← skipType (wire_type tag); mret message
  end.

Definition decode {PB : Protobuf} (length : option Z) : RM t :=
  decode_message length base decode_field.

Definition fromJSON (object : js) : result t :=
  delegatorAddress' ← field_or object "delegatorAddress" to_string "";
  validatorSrcAddress' ← field_or object "validatorSrcAddress" to_string "";
  validatorDstAddress' ← field_or object "validatorDstAddress" to_string "";
  entries' ← field_or object "entries" (to_list RedelegationEntry.fromJSON) [];
  Ok (mk delegatorAddress' validatorSrcAddress' validatorDstAddress' entries').

Definition toJSON (message : t) : result js :=
  entries' ← result_map RedelegationEntry.toJSON message.(entries);
  Ok (Obj ([("delegatorAddress", Str message.(delegatorAddress));
    ("validatorSrcAddress", Str message.(validatorSrcAddress));
    ("validatorDstAddress", Str message.(validatorDstAddress));
    ("entries", Arr entries')])).

Record partial := mkPartial {
  p_delegatorAddress : option string;
  p_validatorSrcAddress : option string;
  p_validatorDstAddress : option string;
  p_entries : option (list RedelegationEntry.partial);
}.

Definition fromPartial (object : partial) : t := {|
  delegatorAddress := object.(p_delegatorAddress) ?? "";
  validatorSrcAddress := object.(p_validatorSrcAddress) ?? "";
  validatorDstAddress := object.(p_validatorDstAddress) ?? "";
  entries := map RedelegationEntry.fromPartial (object.(p_entries) ?? []);
|}.

(** The object with no property given. *)
Definition nothing : partial := mkPartial None None None None.

(** The bytes [encode] writes. *)
Definition wire {PB : Protobuf} {PS : ProtobufSpec PB} (m : t) : bytes :=
  f_string 10 m.(delegatorAddress) ++
  f_string 18 m.(validatorSrcAddress) ++
  f_string 26 m.(validatorDstAddress) ++
  f_repeated 34 RedelegationEntry.wire m.(entries).

Definition valid (m : t) : Prop :=
  Forall RedelegationEntry.valid m.(entries).

(** The byte fields hold arrays, as the interface declares. *)
Definition typed (m : t) : bool := forallb RedelegationEntry.typed m.(entries).

(** The message without its empty byte arrays. *)
Definition normal (m : t) : t := {|
  delegatorAddress := m.(delegatorAddress);
  validatorSrcAddress := m.(validatorSrcAddress);
  validatorDstAddress := m.(validatorDstAddress);
  entries := map RedelegationEntry.normal m.(entries);
|}.

(** The dates are valid. *)
Definition timed (m : t) : bool := forallb RedelegationEntry.timed m.(entries).

Definition encodable {PB : Protobuf} {PS : ProtobufSpec PB} (m : t) : Prop :=
  typed m = true ∧ valid m ∧ small (wire m).

Definition merge (m a : t) : t := {|
  delegatorAddress := later_string m.(delegatorAddress) a.(delegatorAddress);
  validatorSrcAddress := later_string m.(validatorSrcAddress) a.(validatorSrcAddress);
  validatorDstAddress := later_string m.(validatorDstAddress) a.(validatorDstAddress);
  entries := m.(entries) ++ map RedelegationEntry.normal a.(entries);
|}.

(** A whole message seen as a partial one. *)
Definition full (m : t) : partial := {|
  p_delegatorAddress := Some m.(delegatorAddress);
  p_validatorSrcAddress := Some m.(validatorSrcAddress);
  p_validatorDstAddress := Some m.(validatorDstAddress);
  p_entries := Some (map RedelegationEntry.full m.(entries));
|}.

(** The message as its schema declares it. *)
Definition schema (m : t) : list field :=
  [implicit 1 (VString m.(delegatorAddress));
   implicit 2 (VString m.(validatorSrcAddress));
   implicit 3 (VString m.(validatorDstAddress));
   repeated 4 (message_value RedelegationEntry.schema) m.(entries)].

(** The message with its default for every property that is not kept. *)
Definition only (kept : string → bool) (m : t) : t := {|
  delegatorAddress := if kept "delegatorAddress" then m.(delegatorAddress) else "";
  validatorSrcAddress := if kept "validatorSrcAddress" then m.(validatorSrcAddress) else "";
  validatorDstAddress := if kept "validatorDstAddress" then m.(validatorDstAddress) else "";
  entries := if kept "entries" then m.(entries) else [];
|}.

#[global] Instance codec {PB : Protobuf} : FallibleCodec t :=
  {| fmsg_base := base; fmsg_encode := encode; fmsg_field := decode_field |}.

#[global] Program Instance spec {PB : Protobuf} (PS : ProtobufSpec PB) : FallibleSpec PS t :=
  {| fmsg_wire := wire; fmsg_valid := valid; fmsg_typed := typed; fmsg_normal := normal;
     fmsg_merge := merge |}.
Next Obligation. solve_fencode_wire. Qed.
Next Obligation. intros. solve_fencode_throws encode typed. Qed.
Next Obligation. solve_fdecode_wire. Qed.
Next Obligation. solve_fmerge_base. Qed.
Next Obligation. intros. solve_fadvances decode_field. Qed.

#[global] Program Instance given_ : FalliblePartial t partial :=
  {| fmsg_fromPartial := fromPartial; fmsg_full := full; fmsg_given := typed |}.
Next Obligation. solve_fgiven fromPartial typed. Qed.
Next Obligation. solve_fpartial fromPartial full typed. Qed.

#[global] Program Instance json : DatedJson t :=
  {| dmsg_fromJSON := fromJSON; dmsg_toJSON := toJSON; dmsg_timed := timed;
     dmsg_named := fun _ => true; dmsg_known := fun m => m |}.
Next Obligation. solve_djson fromJSON toJSON timed. Qed.
Next Obligation. solve_dthrows toJSON timed. Qed.
Next Obligation. reflexivity. Qed.

#[global] Instance schema_wire {PB : Protobuf} {PS : ProtobufSpec PB} : WireSchema wire schema.
Proof. solve_schema_wire wire schema. Qed.

#[global] Instance schema_normal : NormalSchema normal schema.
Proof. solve_schema_normal normal schema. Qed.

#[global] Instance schema_merge : MergeSchema merge schema.
Proof. solve_schema_merge merge schema. Qed.

(** Its row in the table of message types. *)
Definition message {PB : Protobuf} {PS : ProtobufSpec PB} : message_type :=
  dated_message "Redelegation" nothing true schema only.

#[global] Instance message_lawful {PB : Protobuf} (PS : ProtobufSpec PB) : Lawful message.
Proof. solve_lawful decode_field fromJSON only. Qed.

End Redelegation.

(** ** [Params] (cosmos/staking/v1beta1/staking.js) *)

Module Params.

Record t := mk {
  unbondingTime : option Duration.t;
  maxValidators : number;
  maxEntries : number;
  historicalEntries : number;
  bondDenom : string;
}.

#[global] Instance t_eta : Settable t := λ m, mk m.(unbondingTime) m.(maxValidators)
  m.(maxEntries) m.(historicalEntries) m.(bondDenom).

Definition base : t := mk None 0 0 0 "".

Definition encode {PB : Protobuf} (message : t) (writer : Writer) : Writer :=
  writer
  @> defined message.(unbondingTime) (fun v w => w @> uint32 10 @> fork @> Duration.encode v @> ldelim)
  @> when (num_neq message.(maxValidators) 0)
       (fun w => w @> uint32 16 @> uint32 message.(maxValidators))
  @> when (num_neq message.(maxEntries) 0) (fun w => w @> uint32 24 @> uint32 message.(maxEntries))
  @> when (num_neq message.(historicalEntries) 0)
       (fun w => w @> uint32 32 @> uint32 message.(historicalEntries))
  @> when (str_neq message.(bondDenom) "") (fun w => w @> uint32 42 @> string_ message.(bondDenom)).

Definition decode_field {PB : Protobuf} (tag : Z) (message : t) : RM t :=
  match field_number tag with
  | 1 => v ← read_nested Duration.decode; mret (message <| unbondingTime := Some v |>)
  | 2 => v ← read_uint32; mret (message <| maxValidators := Int v |>)
  | 3 => v ← read_uint32; mret (message <| maxEntries := Int v |>)
  | 4 => v ← read_uint32; mret (message <| historicalEntries := Int v |>)
  | 5 => v ← read_string; mret (message <| bondDenom := v |>)
  | _ => _ ← skipType (wire_type tag); mret message
  end.

Definition decode {PB : Protobuf} (length : option Z) : RM t :=
  decode_message length base decode_field.

Definition fromJSON (object : js) : result t :=
  unbondingTime' ← field_or object "unbondingTime" (to_some Duration.fromJSON) None;
  maxValidators' ← field_or object "maxValidators" js_Number 0;
  maxEntries' ← field_or object "maxEntries" js_Number 0;
  historicalEntries' ← field_or object "historicalEntries" js_Number 0;
  bondDenom' ← field_or object "bondDenom" to_string "";
  Ok (mk unbondingTime' maxValidators' maxEntries' historicalEntries' bondDenom').

Definition toJSON (message : t) : js :=
  Obj (prop_opt "unbondingTime" Duration.toJSON message.(unbondingTime) ++
   [("maxValidators", Num message.(maxValidators));
    ("maxEntries", Num message.(maxEntries));
    ("historicalEntries", Num message.(historicalEntries));
    ("bondDenom", Str message.(bondDenom))]).

Record partial := mkPartial {
  p_unbondingTime : option Duration.partial;
  p_maxValidators : option number;
  p_maxEntries : option number;
  p_historicalEntries : option number;
  p_bondDenom : option string;
}.

Definition fromPartial (object : partial) : t := {|
  unbondingTime := Duration.fromPartial <$> object.(p_unbondingTime);
  maxValidators := object.(p_maxValidators) ?? Int 0;
  maxEntries := object.(p_maxEntries) ?? Int 0;
  historicalEntries := object.(p_historicalEntries) ?? Int 0;
  bondDenom := object.(p_bondDenom) ?? "";
|}.

(** The object with no property given. *)
Definition nothing : partial := mkPartial None None None None None.

(** The bytes [encode] writes. *)
Definition wire {PB : Protobuf} {PS : ProtobufSpec PB} (m : t) : bytes :=
  f_message 10 Duration.wire m.(unbondingTime) ++
  f_number e_uint32 16 m.(maxValidators) ++
  f_number e_uint32 24 m.(maxEntries) ++
  f_number e_uint32 32 m.(historicalEntries) ++
  f_string 42 m.(bondDenom).

Definition valid (m : t) : Prop :=
  from_option Duration.valid True m.(unbondingTime) ∧ uint32_ok m.(maxValidators) ∧ uint32_ok m.(maxEntries) ∧ uint32_ok m.(historicalEntries).

Definition encodable {PB : Protobuf} {PS : ProtobufSpec PB} (m : t) : Prop :=
  valid m ∧ small (wire m).

Definition merge (m a : t) : t := {|
  unbondingTime := later_message m.(unbondingTime) a.(unbondingTime);
  maxValidators := later_number m.(maxValidators) a.(maxValidators);
  maxEntries := later_number m.(maxEntries) a.(maxEntries);
  historicalEntries := later_number m.(historicalEntries) a.(historicalEntries);
  bondDenom := later_string m.(bondDenom) a.(bondDenom);
|}.

(** A whole message seen as a partial one. *)
Definition full (m : t) : partial := {|
  p_unbondingTime := Duration.full <$> m.(unbondingTime);
  p_maxValidators := Some m.(maxValidators);
  p_maxEntries := Some m.(maxEntries);
  p_historicalEntries := Some m.(historicalEntries);
  p_bondDenom := Some m.(bondDenom);
|}.

(** The message as its schema declares it. *)
Definition schema (m : t) : list field :=
  [singular 1 Optional (message_value Duration.schema) m.(unbondingTime);
   implicit 2 (VInt Uint32 m.(maxValidators));
   implicit 3 (VInt Uint32 m.(maxEntries));
   implicit 4 (VInt Uint32 m.(historicalEntries));
   implicit 5 (VString m.(bondDenom))].

(** The message with its default for every property that is not kept. *)
Definition only (kept : string → bool) (m : t) : t := {|
  unbondingTime := if kept "unbondingTime" then m.(unbondingTime) else None;
  maxValidators := if kept "maxValidators" then m.(maxValidators) else Int 0;
  maxEntries := if kept "maxEntries" then m.(maxEntries) else Int 0;
  historicalEntries := if kept "historicalEntries" then m.(historicalEntries) else Int 0;
  bondDenom := if kept "bondDenom" then m.(bondDenom) else "";
|}.

#[global] Instance codec {PB : Protobuf} : MessageCodec t :=
  {| msg_base := base; msg_encode := encode; msg_field := decode_field |}.

#[global] Program Instance spec {PB : Protobuf} (PS : ProtobufSpec PB) : MessageSpec PS t :=
  {| msg_wire := wire; msg_valid := valid; msg_merge := merge |}.
Next Obligation. solve_encode_wire. Qed.
Next Obligation. solve_decode_wire. Qed.
Next Obligation. solve_merge_base. Qed.
Next Obligation. intros. solve_advances decode_field. Qed.

#[global] Program Instance data : MessageData t partial :=
  {| msg_fromJSON := fromJSON; msg_toJSON := toJSON;
     msg_fromPartial := fromPartial; msg_full := full |}.
Next Obligation. solve_json fromJSON toJSON. Qed.
Next Obligation. solve_partial fromPartial full. Qed.

#[global] Instance schema_wire {PB : Protobuf} {PS : ProtobufSpec PB} : WireSchema wire schema.
Proof. solve_schema_wire wire schema. Qed.

#[global] Instance schema_merge : MergeSchema merge schema.
Proof. solve_schema_merge merge schema. Qed.

(** Its row in the table of message types. *)
Definition message {PB : Protobuf} {PS : ProtobufSpec PB} : message_type :=
  plain_message "Params" nothing true schema only.

#[global] Instance message_lawful {PB : Protobuf} (PS : ProtobufSpec PB) : Lawful message.
Proof. solve_lawful decode_field fromJSON only. Qed.

End Params.

(** ** [DelegationResponse] (cosmos/staking/v1beta1/staking.js) *)

Module DelegationResponse.

Record t := mk {
  delegation : option Delegation.t;
  balance : option Coin.t;
}.

#[global] Instance t_eta : Settable t := λ m, mk m.(delegation) m.(balance).

Definition base : t := mk None None.

Definition encode {PB : Protobuf} (message : t) (writer : Writer) : Writer :=
  writer
  @> defined message.(delegation) (fun v w => w @> uint32 10 @> fork @> Delegation.encode v @> ldelim)
  @> defined message.(balance) (fun v w => w @> uint32 18 @> fork @> Coin.encode v @> ldelim).

Definition decode_field {PB : Protobuf} (tag : Z) (message : t) : RM t :=
  match field_number tag with
  | 1 => v ← read_nested Delegation.decode; mret (message <| delegation := Some v |>)
  | 2 => v ← read_nested Coin.decode; mret (message <| balance := Some v |>)
  | _ => _ ← skipType (wire_type tag); mret message
  end.

Definition decode {PB : Protobuf} (length : option Z) : RM t :=
  decode_message length base decode_field.

Definition fromJSON (object : js) : result t :=
  delegation' ← field_or object "delegation" (to_some Delegation.fromJSON) None;
  balance' ← field_or object "balance" (to_some Coin.fromJSON) None;
  Ok (mk delegation' balance').

Definition toJSON (message : t) : js :=
  Obj (prop_opt "delegation" Delegation.toJSON message.(delegation) ++
   prop_opt "balance" Coin.toJSON message.(balance)).

Record partial := mkPartial {
  p_delegation : option Delegation.partial;
  p_balance : option Coin.partial;
}.

Definition fromPartial (object : partial) : t := {|
  delegation := Delegation.fromPartial <$> object.(p_delegation);
  balance := Coin.fromPartial <$> object.(p_balance);
|}.

(** The object with no property given. *)
Definition nothing : partial := mkPartial None None.

(** The bytes [encode] writes. *)
Definition wire {PB : Protobuf} {PS : ProtobufSpec PB} (m : t) : bytes :=
  f_message 10 Delegation.wire m.(delegation) ++
  f_message 18 Coin.wire m.(balance).

Definition valid (m : t) : Prop :=
  from_option Delegation.valid True m.(delegation) ∧ from_option Coin.valid True m.(balance).

Definition encodable {PB : Protobuf} {PS : ProtobufSpec PB} (m : t) : Prop :=
  valid m ∧ small (wire m).

Definition merge (m a : t) : t := {|
  delegation := later_message m.(delegation) a.(delegation);
  balance := later_message m.(balance) a.(balance);
|}.

(** A whole message seen as a partial one. *)
Definition full (m : t) : partial := {|
  p_delegation := Delegation.full <$> m.(delegation);
  p_balance := Coin.full <$> m.(balance);
|}.

(** The message as its schema declares it. *)
Definition schema (m : t) : list field :=
  [singular 1 Optional (message_value Delegation.schema) m.(delegation);
   singular 2 Optional (message_value Coin.schema) m.(balance)].

(** The message with its default for every property that is not kept. *)
Definition only (kept : string → bool) (m : t) : t := {|
  delegation := if kept "delegation" then m.(delegation) else None;
  balance := if kept "balance" then m.(balance) else None;
|}.

#[global] Instance codec {PB : Protobuf} : MessageCodec t :=
  {| msg_base := base; msg_encode := encode; msg_field := decode_field |}.

#[global] Program Instance spec {PB : Protobuf} (PS : ProtobufSpec PB) : MessageSpec PS t :=
  {| msg_wire := wire; msg_valid := valid; msg_merge := merge |}.
Next Obligation. solve_encode_wire. Qed.
Next Obligation. solve_decode_wire. Qed.
Next Obligation. solve_merge_base. Qed.
Next Obligation. intros. solve_advances decode_field. Qed.

#[global] Program Instance data : MessageData t partial :=
  {| msg_fromJSON := fromJSON; msg_toJSON := toJSON;
     msg_fromPartial := fromPartial; msg_full := full |}.
Next Obligation. solve_json fromJSON toJSON. Qed.
Next Obligation. solve_partial fromPartial full. Qed.

#[global] Instance schema_wire {PB : Protobuf} {PS : ProtobufSpec PB} : WireSchema wire schema.
Proof. solve_schema_wire wire schema. Qed.

#[global] Instance schema_merge : MergeSchema merge schema.
Proof. solve_schema_merge merge schema. Qed.

(** Its row in the table of message types. *)
Definition message {PB : Protobuf} {PS : ProtobufSpec PB} : message_type :=
  plain_message "DelegationResponse" nothing true schema only.

#[global] Instance message_lawful {PB : Protobuf} (PS : ProtobufSpec PB) : Lawful message.
Proof. solve_lawful decode_field fromJSON only. Qed.

End DelegationResponse.

(** ** [RedelegationEntryResponse] (cosmos/staking/v1beta1/staking.js) *)

Module RedelegationEntryResponse.

Record t := mk {
  redelegationEntry : option RedelegationEntry.t;
  balance : string;
}.

#[global] Instance t_eta : Settable t := λ m, mk m.(redelegationEntry) m.(balance).

Definition base : t := mk None "".

Definition encode {PB : Protobuf} (message : t) (writer : Writer) : result Writer :=
  Ok writer
  @>= defined_e message.(redelegationEntry) (submessage 10 RedelegationEntry.encode)
  @>= pure (when (str_neq message.(balance) "")
       (fun w => w @> uint32 34 @> string_ message.(balance))).

Definition decode_field {PB : Protobuf} (tag : Z) (message : t) : RM t :=
  match field_number tag with
  | 1 => v ← read_nested RedelegationEntry.decode; mret (message <| redelegationEntry := Some v |>)
  | 4 => v ← read_string; mret (message <| balance := v |>)
  | _ => _ ← skipType (wire_type tag); mret message
  end.

Definition decode {PB : Protobuf} (length : option Z) : RM t :=
  decode_message length base decode_field.

Definition fromJSON (object : js) : result t :=
  redelegationEntry' ← field_or object "redelegationEntry" (to_some RedelegationEntry.fromJSON) None;
  balance' ← field_or object "balance" to_string "";
  Ok (mk redelegationEntry' balance').

Definition toJSON (message : t) : result js :=
  redelegationEntry' ← option_result RedelegationEntry.toJSON message.(redelegationEntry);
  Ok (Obj (prop_opt "redelegationEntry" id redelegationEntry' ++
   [("balance", Str message.(balance))])).

Record partial := mkPartial {
  p_redelegationEntry : option RedelegationEntry.partial;
  p_balance : option string;
}.

Definition fromPartial (object : partial) : t := {|
  redelegationEntry := RedelegationEntry.fromPartial <$> object.(p_redelegationEntry);
  balance := object.(p_balance) ?? "";
|}.

(** The object with no property given. *)
Definition nothing : partial := mkPartial None None.

(** The bytes [encode] writes. *)
Definition wire {PB : Protobuf} {PS : ProtobufSpec PB} (m : t) : bytes :=
  f_message 10 RedelegationEntry.wire m.(redelegationEntry) ++
  f_string 34 m.(balance).

Definition valid (m : t) : Prop :=
  from_option RedelegationEntry.valid True m.(redelegationEntry).

(** The byte fields hold arrays, as the interface declares. *)
Definition typed (m : t) : bool := from_option RedelegationEntry.typed true m.(redelegationEntry).

(** The message without its empty byte arrays. *)
Definition normal (m : t) : t := {|
  redelegationEntry := RedelegationEntry.normal <$> m.(redelegationEntry);
  balance := m.(balance);
|}.

(** The dates are valid. *)
Definition timed (m : t) : bool := from_option RedelegationEntry.timed true m.(redelegationEntry).

Definition encodable {PB : Protobuf} {PS : ProtobufSpec PB} (m : t) : Prop :=
  typed m = true ∧ valid m ∧ small (wire m).

Definition merge (m a : t) : t := {|
  redelegationEntry := later_message m.(redelegationEntry) (RedelegationEntry.normal <$> a.(redelegationEntry));
  balance := later_string m.(balance) a.(balance);
|}.

(** A whole message seen as a partial one. *)
Definition full (m : t) : partial := {|
  p_redelegationEntry := RedelegationEntry.full <$> m.(redelegationEntry);
  p_balance := Some m.(balance);
|}.

(** The message as its schema declares it. *)
Definition schema (m : t) : list field :=
  [singular 1 Optional (message_value RedelegationEntry.schema) m.(redelegationEntry);
   implicit 4 (VString m.(balance))].

(** The message with its default for every property that is not kept. *)
Definition only (kept : string → bool) (m : t) : t := {|
  redelegationEntry := if kept "redelegationEntry" then m.(redelegationEntry) else None;
  balance := if kept "balance" then m.(balance) else "";
|}.

#[global] Instance codec {PB : Protobuf} : FallibleCodec t :=
  {| fmsg_base := base; fmsg_encode := encode; fmsg_field := decode_field |}.

#[global] Program Instance spec {PB : Protobuf} (PS : ProtobufSpec PB) : FallibleSpec PS t :=
  {| fmsg_wire := wire; fmsg_valid := valid; fmsg_typed := typed; fmsg_normal := normal;
     fmsg_merge := merge |}.
Next Obligation. solve_fencode_wire. Qed.
Next Obligation. intros. solve_fencode_throws encode typed. Qed.
Next Obligation. solve_fdecode_wire. Qed.
Next Obligation. solve_fmerge_base. Qed.
Next Obligation. intros. solve_fadvances decode_field. Qed.

#[global] Program Instance given_ : FalliblePartial t partial :=
  {| fmsg_fromPartial := fromPartial; fmsg_full := full; fmsg_given := typed |}.
Next Obligation. solve_fgiven fromPartial typed. Qed.
Next Obligation. solve_fpartial fromPartial full typed. Qed.

#[global] Program Instance json : DatedJson t :=
  {| dmsg_fromJSON := fromJSON; dmsg_toJSON := toJSON; dmsg_timed := timed;
     dmsg_named := fun _ => true; dmsg_known := fun m => m |}.
Next Obligation. solve_djson fromJSON toJSON timed. Qed.
Next Obligation. solve_dthrows toJSON timed. Qed.
Next Obligation. reflexivity. Qed.

#[global] Instance schema_wire {PB : Protobuf} {PS : ProtobufSpec PB} : WireSchema wire schema.
Proof. solve_schema_wire wire schema. Qed.

#[global] Instance schema_normal : NormalSchema normal schema.
Proof. solve_schema_normal normal schema. Qed.

#[global] Instance schema_merge : MergeSchema merge schema.
Proof. solve_schema_merge merge schema. Qed.

(** Its row in the table of message types. *)
Definition message {PB : Protobuf} {PS : ProtobufSpec PB} : message_type :=
  dated_message "RedelegationEntryResponse" nothing true schema only.

#[global] Instance message_lawful {PB : Protobuf} (PS : ProtobufSpec PB) : Lawful message.
Proof. solve_lawful decode_field fromJSON only. Qed.

End RedelegationEntryResponse.

(** ** [RedelegationResponse] (cosmos/staking/v1beta1/staking.js) *)

Module RedelegationResponse.

Record t := mk {
  redelegation : option Redelegation.t;
  entries : list RedelegationEntryResponse.t;
}.

#[global] Instance t_eta : Settable t := λ m, mk m.(redelegation) m.(entries).

Definition base : t := mk None [].

Definition encode {PB : Protobuf} (message : t) (writer : Writer) : result Writer :=
  Ok writer
  @>= defined_e message.(redelegation) (submessage 10 Redelegation.encode)
  @>= each_e message.(entries) (submessage 18 RedelegationEntryResponse.encode).

Definition decode_field {PB : Protobuf} (tag : Z) (message : t) : RM t :=
  match field_number tag with
  | 1 => v ← read_nested Redelegation.decode; mret (message <| redelegation := Some v |>)
  | 2 => v ← read_nested RedelegationEntryResponse.decode;
         mret (message <| entries := message.(entries) ++ [v] |>)
  | _ => _ ← skipType (wire_type tag); mret message
  end.

Definition decode {PB : Protobuf} (length : option Z) : RM t :=
  decode_message length base decode_field.

Definition fromJSON (object : js) : result t :=
  redelegation' ← field_or object "redelegation" (to_some Redelegation.fromJSON) None;
  entries' ← field_or object "entries" (to_list RedelegationEntryResponse.fromJSON) [];
  Ok (mk redelegation' entries').

Definition toJSON (message : t) : result js :=
  redelegation' ← option_result Redelegation.toJSON message.(redelegation);
  entries' ← result_map RedelegationEntryResponse.toJSON message.(entries);
  Ok (Obj (prop_opt "redelegation" id redelegation' ++
   [("entries", Arr entries')])).

Record partial := mkPartial {
  p_redelegation : option Redelegation.partial;
  p_entries : option (list RedelegationEntryResponse.partial);
}.

Definition fromPartial (object : partial) : t := {|
  redelegation := Redelegation.fromPartial <$> object.(p_redelegation);
  entries := map RedelegationEntryResponse.fromPartial (object.(p_entries) ?? []);
|}.

(** The object with no property given. *)
Definition nothing : partial := mkPartial None None.

(** The bytes [encode] writes. *)
Definition wire {PB : Protobuf} {PS : ProtobufSpec PB} (m : t) : bytes :=
  f_message 10 Redelegation.wire m.(redelegation) ++
  f_repeated 18 RedelegationEntryResponse.wire m.(entries).

Definition valid (m : t) : Prop :=
  from_option Redelegation.valid True m.(redelegation) ∧ Forall RedelegationEntryResponse.valid m.(entries).

(** The byte fields hold arrays, as the interface declares. *)
Definition typed (m : t) : bool := from_option Redelegation.typed true m.(redelegation) && forallb RedelegationEntryResponse.typed m.(entries).

(** The message without its empty byte arrays. *)
Definition normal (m : t) : t := {|
  redelegation := Redelegation.normal <$> m.(redelegation);
  entries := map RedelegationEntryResponse.normal m.(entries);
|}.

(** The dates are valid. *)
Definition timed (m : t) : bool := from_option Redelegation.timed true m.(redelegation) && forallb RedelegationEntryResponse.timed m.(entries).

Definition encodable {PB : Protobuf} {PS : ProtobufSpec PB} (m : t) : Prop :=
  typed m = true ∧ valid m ∧ small (wire m).

Definition merge (m a : t) : t := {|
  redelegation := later_message m.(redelegation) (Redelegation.normal <$> a.(redelegation));
  entries := m.(entries) ++ map RedelegationEntryResponse.normal a.(entries);
|}.

(** A whole message seen as a partial one. *)
Definition full (m : t) : partial := {|
  p_redelegation := Redelegation.full <$> m.(redelegation);
  p_entries := Some (map RedelegationEntryResponse.full m.(entries));
|}.

(** The message as its schema declares it. *)
Definition schema (m : t) : list field :=
  [singular 1 Optional (message_value Redelegation.schema) m.(redelegation);
   repeated 2 (message_value RedelegationEntryResponse.schema) m.(entries)].

(** The message with its default for every property that is not kept. *)
Definition only (kept : string → bool) (m : t) : t := {|
  redelegation := if kept "redelegation" then m.(redelegation) else None;
  entries := if kept "entries" then m.(entries) else [];
|}.

#[global] Instance codec {PB : Protobuf} : FallibleCodec t :=
  {| fmsg_base := base; fmsg_encode := encode; fmsg_field := decode_field |}.

#[global] Program Instance spec {PB : Protobuf} (PS : ProtobufSpec PB) : FallibleSpec PS t :=
  {| fmsg_wire := wire; fmsg_valid := valid; fmsg_typed := typed; fmsg_normal := normal;
     fmsg_merge := merge |}.
Next Obligation. solve_fencode_wire. Qed.
Next Obligation. intros. solve_fencode_throws encode typed. Qed.
Next Obligation. solve_fdecode_wire. Qed.
Next Obligation. solve_fmerge_base. Qed.
Next Obligation. intros. solve_fadvances decode_field. Qed.

#[global] Program Instance given_ : FalliblePartial t partial :=
  {| fmsg_fromPartial := fromPartial; fmsg_full := full; fmsg_given := typed |}.
Next Obligation. solve_fgiven fromPartial typed. Qed.
Next Obligation. solve_fpartial fromPartial full typed. Qed.

#[global] Program Instance json : DatedJson t :=
  {| dmsg_fromJSON := fromJSON; dmsg_toJSON := toJSON; dmsg_timed := timed;
     dmsg_named := fun _ => true; dmsg_known := fun m => m |}.
Next Obligation. solve_djson fromJSON toJSON timed. Qed.
Next Obligation. solve_dthrows toJSON timed. Qed.
Next Obligation. reflexivity. Qed.

#[global] Instance schema_wire {PB : Protobuf} {PS : ProtobufSpec PB} : WireSchema wire schema.
Proof. solve_schema_wire wire schema. Qed.

#[global] Instance schema_normal : NormalSchema normal schema.
Proof. solve_schema_normal normal schema. Qed.

#[global] Instance schema_merge : MergeSchema merge schema.
Proof. solve_schema_merge merge schema. Qed.

(** Its row in the table of message types. *)
Definition message {PB : Protobuf} {PS : ProtobufSpec PB} : message_type :=
  dated_message "RedelegationResponse" nothing true schema only.

#[global] Instance message_lawful {PB : Protobuf} (PS : ProtobufSpec PB) : Lawful message.
Proof. solve_lawful decode_field fromJSON only. Qed.

End RedelegationResponse.

(** ** [Pool] (cosmos/staking/v1beta1/staking.js) *)

Module Pool.

Record t := mk {
  notBondedTokens : string;
  bondedTokens : string;
}.

#[global] Instance t_eta : Settable t := λ m, mk m.(notBondedTokens) m.(bondedTokens).

Definition base : t := mk "" "".

Definition encode {PB : Protobuf} (message : t) (writer : Writer) : Writer :=
  writer
  @> when (str_neq message.(notBondedTokens) "")
       (fun w => w @> uint32 10 @> string_ message.(notBondedTokens))
  @> when (str_neq message.(bondedTokens) "")
       (fun w => w @> uint32 18 @> string_ message.(bondedTokens)).

Definition decode_field {PB : Protobuf} (tag : Z) (message : t) : RM t :=
  match field_number tag with
  | 1 => v ← read_string; mret (message <| notBondedTokens := v |>)
  | 2 => v ← read_string; mret (message <| bondedTokens := v |>)
  | _ => _ ← skipType (wire_type tag); mret message
  end.

Definition decode {PB : Protobuf} (length : option Z) : RM t :=
  decode_message length base decode_field.

Definition fromJSON (object : js) : result t :=
  notBondedTokens' ← field_or object "notBondedTokens" to_string "";
  bondedTokens' ← field_or object "bondedTokens" to_string "";
  Ok (mk notBondedTokens' bondedTokens').

Definition toJSON (message : t) : js :=
  Obj ([("notBondedTokens", Str message.(notBondedTokens));
    ("bondedTokens", Str message.(bondedTokens))]).

Record partial := mkPartial {
  p_notBondedTokens : option string;
  p_bondedTokens : option string;
}.

Definition fromPartial (object : partial) : t := {|
  notBondedTokens := object.(p_notBondedTokens) ?? "";
  bondedTokens := object.(p_bondedTokens) ?? "";
|}.

(** The object with no property given. *)
Definition nothing : partial := mkPartial None None.

(** The bytes [encode] writes. *)
Definition wire {PB : Protobuf} {PS : ProtobufSpec PB} (m : t) : bytes :=
  f_string 10 m.(notBondedTokens) ++
  f_string 18 m.(bondedTokens).

Definition valid (m : t) : Prop :=
  True.

Definition encodable {PB : Protobuf} {PS : ProtobufSpec PB} (m : t) : Prop :=
  valid m ∧ small (wire m).

Definition merge (m a : t) : t := {|
  notBondedTokens := later_string m.(notBondedTokens) a.(notBondedTokens);
  bondedTokens := later_string m.(bondedTokens) a.(bondedTokens);
|}.

(** A whole message seen as a partial one. *)
Definition full (m : t) : partial := {|
  p_notBondedTokens := Some m.(notBondedTokens);
  p_bondedTokens := Some m.(bondedTokens);
|}.

(** The message as its schema declares it. *)
Definition schema (m : t) : list field :=
  [implicit 1 (VString m.(notBondedTokens));
   implicit 2 (VString m.(bondedTokens))].

(** The message with its default for every property that is not kept. *)
Definition only (kept : string → bool) (m : t) : t := {|
  notBondedTokens := if kept "notBondedTokens" then m.(notBondedTokens) else "";
  bondedTokens := if kept "bondedTokens" then m.(bondedTokens) else "";
|}.

#[global] Instance codec {PB : Protobuf} : MessageCodec t :=
  {| msg_base := base; msg_encode := encode; msg_field := decode_field |}.

#[global] Program Instance spec {PB : Protobuf} (PS : ProtobufSpec PB) : MessageSpec PS t :=
  {| msg_wire := wire; msg_valid := valid; msg_merge := merge |}.
Next Obligation. solve_encode_wire. Qed.
Next Obligation. solve_decode_wire. Qed.
Next Obligation. solve_merge_base. Qed.
Next Obligation. intros. solve_advances decode_field. Qed.

#[global] Program Instance data : MessageData t partial :=
  {| msg_fromJSON := fromJSON; msg_toJSON := toJSON;
     msg_fromPartial := fromPartial; msg_full := full |}.
Next Obligation. solve_json fromJSON toJSON. Qed.
Next Obligation. solve_partial fromPartial full. Qed.

#[global] Instance schema_wire {PB : Protobuf} {PS : ProtobufSpec PB} : WireSchema wire schema.
Proof. solve_schema_wire wire schema. Qed.

#[global] Instance schema_merge : MergeSchema merge schema.
Proof. solve_schema_merge merge schema. Qed.

(** Its row in the table of message types. *)
Definition message {PB : Protobuf} {PS : ProtobufSpec PB} : message_type :=
  plain_message "Pool" nothing true schema only.

#[global] Instance message_lawful {PB : Protobuf} (PS : ProtobufSpec PB) : Lawful message.
Proof. solve_lawful decode_field fromJSON only. Qed.

End Pool.

(** ** [LastValidatorPower] (cosmos/staking/v1beta1/genesis.js) *)

Module LastValidatorPower.

Record t := mk {
  address : string;
  power : number;
}.

#[global] Instance t_eta : Settable t := λ m, mk m.(address) m.(power).

Definition base : t := mk "" 0.

Definition encode {PB : Protobuf} (message : t) (writer : Writer) : Writer :=
  writer
  @> when (str_neq message.(address) "") (fun w => w @> uint32 10 @> string_ message.(address))
  @> when (num_neq message.(power) 0) (fun w => w @> uint32 16 @> int64 message.(power)).

Definition decode_field {PB : Protobuf} (tag : Z) (message : t) : RM t :=
  match field_number tag with
  | 1 => v ← read_string; mret (message <| address := v |>)
  | 2 => v ← read_number read_int64; mret (message <| power := v |>)
  | _ => _ ← skipType (wire_type tag); mret message
  end.

Definition decode {PB : Protobuf} (length : option Z) : RM t :=
  decode_message length base decode_field.

Definition fromJSON (object : js) : result t :=
  address' ← field_or object "address" to_string "";
  power' ← field_or object "power" js_Number 0;
  Ok (mk address' power').

Definition toJSON (message : t) : js :=
  Obj ([("address", Str message.(address));
    ("power", Num message.(power))]).

Record partial := mkPartial {
  p_address : option string;
  p_power : option number;
}.

Definition fromPartial (object : partial) : t := {|
  address := object.(p_address) ?? "";
  power := object.(p_power) ?? Int 0;
|}.

(** The object with no property given. *)
Definition nothing : partial := mkPartial None None.

(** The bytes [encode] writes. *)
Definition wire {PB : Protobuf} {PS : ProtobufSpec PB} (m : t) : bytes :=
  f_string 10 m.(address) ++
  f_number e_int64 16 m.(power).

Definition valid (m : t) : Prop :=
  int64_ok m.(power).

Definition encodable {PB : Protobuf} {PS : ProtobufSpec PB} (m : t) : Prop :=
  valid m ∧ small (wire m).

Definition merge (m a : t) : t := {|
  address := later_string m.(address) a.(address);
  power := later_number m.(power) a.(power);
|}.

(** A whole message seen as a partial one. *)
Definition full (m : t) : partial := {|
  p_address := Some m.(address);
  p_power := Some m.(power);
|}.

(** The message as its schema declares it. *)
Definition schema (m : t) : list field :=
  [implicit 1 (VString m.(address));
   implicit 2 (VInt Int64 m.(power))].

(** The message with its default for every property that is not kept. *)
Definition only (kept : string → bool) (m : t) : t := {|
  address := if kept "address" then m.(address) else "";
  power := if kept "power" then m.(power) else Int 0;
|}.

#[global] Instance codec {PB : Protobuf} : MessageCodec t :=
  {| msg_base := base; msg_encode := encode; msg_field := decode_field |}.

#[global] Program Instance spec {PB : Protobuf} (PS : ProtobufSpec PB) : MessageSpec PS t :=
  {| msg_wire := wire; msg_valid := valid; msg_merge := merge |}.
Next Obligation. solve_encode_wire. Qed.
Next Obligation. solve_decode_wire. Qed.
Next Obligation. solve_merge_base. Qed.
Next Obligation. intros. solve_advances decode_field. Qed.

#[global] Program Instance data : MessageData t partial :=
  {| msg_fromJSON := fromJSON; msg_toJSON := toJSON;
     msg_fromPartial := fromPartial; msg_full := full |}.
Next Obligation. solve_json fromJSON toJSON. Qed.
Next Obligation. solve_partial fromPartial full. Qed.

#[global] Instance schema_wire {PB : Protobuf} {PS : ProtobufSpec PB} : WireSchema wire schema.
Proof. solve_schema_wire wire schema. Qed.

#[global] Instance schema_merge : MergeSchema merge schema.
Proof. solve_schema_merge merge schema. Qed.

(** Its row in the table of message types. *)
Definition message {PB : Protobuf} {PS : ProtobufSpec PB} : message_type :=
  plain_message "LastValidatorPower" nothing true schema only.

#[global] Instance message_lawful {PB : Protobuf} (PS : ProtobufSpec PB) : Lawful message.
Proof. solve_lawful decode_field fromJSON only. Qed.

End LastValidatorPower.

(** ** [GenesisState] (cosmos/staking/v1beta1/genesis.js) *)

Module GenesisState.

Record t := mk {
  params : option Params.t;
  lastTotalPower : option bytes;
  lastValidatorPowers : list LastValidatorPower.t;
  validators : list Validator.t;
  delegations : list Delegation.t;
  unbondingDelegations : list UnbondingDelegation.t;
  redelegations : list Redelegation.t;
  exported : bool;
}.

#[global] Instance t_eta : Settable t := λ m, mk m.(params) m.(lastTotalPower)
  m.(lastValidatorPowers) m.(validators) m.(delegations) m.(unbondingDelegations)
  m.(redelegations) m.(exported).

Definition base : t := mk None None [] [] [] [] [] false.

Definition encode {PB : Protobuf} (message : t) (writer : Writer) : result Writer :=
  Ok writer
  @>= pure (defined message.(params) (fun v w => w @> uint32 10 @> fork @> Params.encode v @> ldelim))
  @>= bytes_field 18 message.(lastTotalPower)
  @>= pure (each message.(lastValidatorPowers) (fun v w => w @> uint32 26 @> fork @> LastValidatorPower.encode v @> ldelim))
  @>= each_e message.(validators) (submessage 34 Validator.encode)
  @>= pure (each message.(delegations) (fun v w => w @> uint32 42 @> fork @> Delegation.encode v @> ldelim))
  @>= each_e message.(unbondingDelegations) (submessage 50 UnbondingDelegation.encode)
  @>= each_e message.(redelegations) (submessage 58 Redelegation.encode)
  @>= pure (when (Bool.eqb message.(exported) true)
       (fun w => w @> uint32 64 @> bool_ message.(exported))).

Definition decode_field {PB : Protobuf} (tag : Z) (message : t) : RM t :=
  match field_number tag with
  | 1 => v ← read_nested Params.decode; mret (message <| params := Some v |>)
  | 2 => v ← read_bytes; mret (message <| lastTotalPower := Some v |>)
  | 3 => v ← read_nested LastValidatorPower.decode;
         mret (message <| lastValidatorPowers := message.(lastValidatorPowers) ++ [v] |>)
  | 4 => v ← read_nested Validator.decode;
         mret (message <| validators := message.(validators) ++ [v] |>)
  | 5 => v ← read_nested Delegation.decode;
         mret (message <| delegations := message.(delegations) ++ [v] |>)
  | 6 => v ← read_nested UnbondingDelegation.decode;
         mret (message <| unbondingDelegations := message.(unbondingDelegations) ++ [v] |>)
  | 7 => v ← read_nested Redelegation.decode;
         mret (message <| redelegations := message.(redelegations) ++ [v] |>)
  | 8 => v ← read_bool; mret (message <| exported := v |>)
  | _ => _ ← skipType (wire_type tag); mret message
  end.

Definition decode {PB : Protobuf} (length : option Z) : RM t :=
  decode_message length base decode_field.

Definition fromJSON (object : js) : result t :=
  params' ← field_or object "params" (to_some Params.fromJSON) None;
  lastTotalPower' ← field_or object "lastTotalPower" (to_some bytesFromBase64) None;
  lastValidatorPowers' ← field_or object "lastValidatorPowers" (to_list LastValidatorPower.fromJSON) [];
  validators' ← field_or object "validators" (to_list Validator.fromJSON) [];
  delegations' ← field_or object "delegations" (to_list Delegation.fromJSON) [];
  unbondingDelegations' ← field_or object "unbondingDelegations" (to_list UnbondingDelegation.fromJSON) [];
  redelegations' ← field_or object "redelegations" (to_list Redelegation.fromJSON) [];
  exported' ← field_or object "exported" to_bool false;
  Ok (mk params' lastTotalPower' lastValidatorPowers' validators' delegations'
    unbondingDelegations' redelegations' exported').

Definition toJSON (message : t) : result js :=
  validators' ← result_map Validator.toJSON message.(validators);
  unbondingDelegations' ← result_map UnbondingDelegation.toJSON message.(unbondingDelegations);
  redelegations' ← result_map Redelegation.toJSON message.(redelegations);
  Ok (Obj (prop_opt "params" Params.toJSON message.(params) ++
   prop_opt "lastTotalPower" (fun b => Str (base64FromBytes b)) message.(lastTotalPower) ++
   [("lastValidatorPowers", Arr (map LastValidatorPower.toJSON message.(lastValidatorPowers)));
    ("validators", Arr validators');
    ("delegations", Arr (map Delegation.toJSON message.(delegations)));
    ("unbondingDelegations", Arr unbondingDelegations');
    ("redelegations", Arr redelegations');
    ("exported", Bool message.(exported))])).

Record partial := mkPartial {
  p_params : option Params.partial;
  p_lastTotalPower : option bytes;
  p_lastValidatorPowers : option (list LastValidatorPower.partial);
  p_validators : option (list Validator.partial);
  p_delegations : option (list Delegation.partial);
  p_unbondingDelegations : option (list UnbondingDelegation.partial);
  p_redelegations : option (list Redelegation.partial);
  p_exported : option bool;
}.

Definition fromPartial (object : partial) : t := {|
  params := Params.fromPartial <$> object.(p_params);
  lastTotalPower := Some (object.(p_lastTotalPower) ?? []);
  lastValidatorPowers := map LastValidatorPower.fromPartial (object.(p_lastValidatorPowers) ?? []);
  validators := map Validator.fromPartial (object.(p_validators) ?? []);
  delegations := map Delegation.fromPartial (object.(p_delegations) ?? []);
  unbondingDelegations := map UnbondingDelegation.fromPartial (object.(p_unbondingDelegations) ?? []);
  redelegations := map Redelegation.fromPartial (object.(p_redelegations) ?? []);
  exported := object.(p_exported) ?? false;
|}.

(** The object with no property given. *)
Definition nothing : partial := mkPartial None None None None None None None None.

(** The bytes [encode] writes. *)
Definition wire {PB : Protobuf} {PS : ProtobufSpec PB} (m : t) : bytes :=
  f_message 10 Params.wire m.(params) ++
  f_bytes 18 m.(lastTotalPower) ++
  f_repeated 26 LastValidatorPower.wire m.(lastValidatorPowers) ++
  f_repeated 34 Validator.wire m.(validators) ++
  f_repeated 42 Delegation.wire m.(delegations) ++
  f_repeated 50 UnbondingDelegation.wire m.(unbondingDelegations) ++
  f_repeated 58 Redelegation.wire m.(redelegations) ++
  f_bool 64 m.(exported).

Definition valid (m : t) : Prop :=
  from_option Params.valid True m.(params) ∧ Forall LastValidatorPower.valid m.(lastValidatorPowers) ∧ Forall Validator.valid m.(validators) ∧ Forall Delegation.valid m.(delegations) ∧ Forall UnbondingDelegation.valid m.(unbondingDelegations) ∧ Forall Redelegation.valid m.(redelegations).

(** The byte fields hold arrays, as the interface declares. *)
Definition typed (m : t) : bool := given m.(lastTotalPower) && forallb Validator.typed m.(validators) && forallb UnbondingDelegation.typed m.(unbondingDelegations) && forallb Redelegation.typed m.(redelegations).

(** The message without its empty byte arrays. *)
Definition normal (m : t) : t := {|
  params := m.(params);
  lastTotalPower := nonempty m.(lastTotalPower);
  lastValidatorPowers := m.(lastValidatorPowers);
  validators := map Validator.normal m.(validators);
  delegations := m.(delegations);
  unbondingDelegations := map UnbondingDelegation.normal m.(unbondingDelegations);
  redelegations := map Redelegation.normal m.(redelegations);
  exported := m.(exported);
|}.

(** The dates are valid. *)
Definition timed (m : t) : bool := forallb Validator.timed m.(validators) && forallb UnbondingDelegation.timed m.(unbondingDelegations) && forallb Redelegation.timed m.(redelegations).

(** The enumeration fields hold members. *)
Definition named (m : t) : bool := forallb Validator.named m.(validators).

(** The message with the numbers [toJSON] does not know replaced. *)
Definition known (m : t) : t := {|
  params := m.(params);
  lastTotalPower := m.(lastTotalPower);
  lastValidatorPowers := m.(lastValidatorPowers);
  validators := map Validator.known m.(validators);
  delegations := m.(delegations);
  unbondingDelegations := m.(unbondingDelegations);
  redelegations := m.(redelegations);
  exported := m.(exported);
|}.

Definition encodable {PB : Protobuf} {PS : ProtobufSpec PB} (m : t) : Prop :=
  typed m = true ∧ valid m ∧ small (wire m).

Definition merge (m a : t) : t := {|
  params := later_message m.(params) a.(params);
  lastTotalPower := later_bytes m.(lastTotalPower) a.(lastTotalPower);
  lastValidatorPowers := m.(lastValidatorPowers) ++ a.(lastValidatorPowers);
  validators := m.(validators) ++ map Validator.normal a.(validators);
  delegations := m.(delegations) ++ a.(delegations);
  unbondingDelegations := m.(unbondingDelegations) ++ map UnbondingDelegation.normal a.(unbondingDelegations);
  redelegations := m.(redelegations) ++ map Redelegation.normal a.(redelegations);
  exported := later_bool m.(exported) a.(exported);
|}.

(** A whole message seen as a partial one. *)
Definition full (m : t) : partial := {|
  p_params := Params.full <$> m.(params);
  p_lastTotalPower := m.(lastTotalPower);
  p_lastValidatorPowers := Some (map LastValidatorPower.full m.(lastValidatorPowers));
  p_validators := Some (map Validator.full m.(validators));
  p_delegations := Some (map Delegation.full m.(delegations));
  p_unbondingDelegations := Some (map UnbondingDelegation.full m.(unbondingDelegations));
  p_redelegations := Some (map Redelegation.full m.(redelegations));
  p_exported := Some m.(exported);
|}.

(** The message as its schema declares it. *)
Definition schema (m : t) : list field :=
  [singular 1 Optional (message_value Params.schema) m.(params);
   implicit 2 (byte_array m.(lastTotalPower));
   repeated 3 (message_value LastValidatorPower.schema) m.(lastValidatorPowers);
   repeated 4 (message_value Validator.schema) m.(validators);
   repeated 5 (message_value Delegation.schema) m.(delegations);
   repeated 6 (message_value UnbondingDelegation.schema) m.(unbondingDelegations);
   repeated 7 (message_value Redelegation.schema) m.(redelegations);
   implicit 8 (VBool m.(exported))].

(** The message with its default for every property that is not kept. *)
Definition only (kept : string → bool) (m : t) : t := {|
  params := if kept "params" then m.(params) else None;
  lastTotalPower := if kept "lastTotalPower" then m.(lastTotalPower) else None;
  lastValidatorPowers := if kept "lastValidatorPowers" then m.(lastValidatorPowers) else [];
  validators := if kept "validators" then m.(validators) else [];
  delegations := if kept "delegations" then m.(delegations) else [];
  unbondingDelegations := if kept "unbondingDelegations" then m.(unbondingDelegations) else [];
  redelegations := if kept "redelegations" then m.(redelegations) else [];
  exported := if kept "exported" then m.(exported) else false;
|}.

#[global] Instance codec {PB : Protobuf} : FallibleCodec t :=
  {| fmsg_base := base; fmsg_encode := encode; fmsg_field := decode_field |}.

#[global] Program Instance spec {PB : Protobuf} (PS : ProtobufSpec PB) : FallibleSpec PS t :=
  {| fmsg_wire := wire; fmsg_valid := valid; fmsg_typed := typed; fmsg_normal := normal;
     fmsg_merge := merge |}.
Next Obligation. solve_fencode_wire. Qed.
Next Obligation. intros. solve_fencode_throws encode typed. Qed.
Next Obligation. solve_fdecode_wire. Qed.
Next Obligation. solve_fmerge_base. Qed.
Next Obligation. intros. solve_fadvances decode_field. Qed.

#[global] Program Instance given_ : FalliblePartial t partial :=
  {| fmsg_fromPartial := fromPartial; fmsg_full := full; fmsg_given := typed |}.
Next Obligation. solve_fgiven fromPartial typed. Qed.
Next Obligation. solve_fpartial fromPartial full typed. Qed.

#[global] Program Instance json : DatedJson t :=
  {| dmsg_fromJSON := fromJSON; dmsg_toJSON := toJSON; dmsg_timed := timed;
     dmsg_named := named; dmsg_known := known |}.
Next Obligation. solve_djson fromJSON toJSON timed. Qed.
Next Obligation. solve_dthrows toJSON timed. Qed.
Next Obligation. solve_known named known. Qed.

#[global] Instance schema_wire {PB : Protobuf} {PS : ProtobufSpec PB} : WireSchema wire schema.
Proof. solve_schema_wire wire schema. Qed.

#[global] Instance schema_normal : NormalSchema normal schema.
Proof. solve_schema_normal normal schema. Qed.

#[global] Instance schema_merge : MergeSchema merge schema.
Proof. solve_schema_merge merge schema. Qed.

(** Its row in the table of message types. *)
Definition message {PB : Protobuf} {PS : ProtobufSpec PB} : message_type :=
  dated_message "GenesisState" nothing true schema only.

#[global] Instance message_lawful {PB : Protobuf} (PS : ProtobufSpec PB) : Lawful message.
Proof. solve_lawful decode_field fromJSON only. Qed.

End GenesisState.

(** ** [StakeAuthorization_Validators] (cosmos/staking/v1beta1/authz.js) *)

Module StakeAuthorization_Validators.

Record t := mk {
  address : list string;
}.

#[global] Instance t_eta : Settable t := λ m, mk m.(address).

Definition base : t := mk [].

Definition encode {PB : Protobuf} (message : t) (writer : Writer) : Writer :=
  writer
  @> each message.(address) (fun v w => w @> uint32 10 @> string_ v).

Definition decode_field {PB : Protobuf} (tag : Z) (message : t) : RM t :=
  match field_number tag with
  | 1 => v ← read_string; mret (message <| address := message.(address) ++ [v] |>)
  | _ => _ ← skipType (wire_type tag); mret message
  end.

Definition decode {PB : Protobuf} (length : option Z) : RM t :=
  decode_message length base decode_field.

Definition fromJSON (object : js) : result t :=
  address' ← field_or object "address" (to_list to_string) [];
  Ok (mk address').

Definition toJSON (message : t) : js :=
  Obj ([("address", Arr (map Str message.(address)))]).

Record partial := mkPartial {
  p_address : option (list string);
}.

Definition fromPartial (object : partial) : t := {|
  address := (object.(p_address) ?? []);
|}.

(** The object with no property given. *)
Definition nothing : partial := mkPartial None.

(** The bytes [encode] writes. *)
Definition wire {PB : Protobuf} {PS : ProtobufSpec PB} (m : t) : bytes :=
  f_repeated 10 chars m.(address).

Definition valid (m : t) : Prop :=
  True.

Definition encodable {PB : Protobuf} {PS : ProtobufSpec PB} (m : t) : Prop :=
  valid m ∧ small (wire m).

Definition merge (m a : t) : t := {|
  address := m.(address) ++ a.(address);
|}.

(** A whole message seen as a partial one. *)
Definition full (m : t) : partial := {|
  p_address := Some m.(address);
|}.

(** The message as its schema declares it. *)
Definition schema (m : t) : list field :=
  [repeated 1 VString m.(address)].

(** The message with its default for every property that is not kept. *)
Definition only (kept : string → bool) (m : t) : t := {|
  address := if kept "address" then m.(address) else [];
|}.

#[global] Instance codec {PB : Protobuf} : MessageCodec t :=
  {| msg_base := base; msg_encode := encode; msg_field := decode_field |}.

#[global] Program Instance spec {PB : Protobuf} (PS : ProtobufSpec PB) : MessageSpec PS t :=
  {| msg_wire := wire; msg_valid := valid; msg_merge := merge |}.
Next Obligation. solve_encode_wire. Qed.
Next Obligation. solve_decode_wire. Qed.
Next Obligation. solve_merge_base. Qed.
Next Obligation. intros. solve_advances decode_field. Qed.

#[global] Program Instance data : MessageData t partial :=
  {| msg_fromJSON := fromJSON; msg_toJSON := toJSON;
     msg_fromPartial := fromPartial; msg_full := full |}.
Next Obligation. solve_json fromJSON toJSON. Qed.
Next Obligation. solve_partial fromPartial full. Qed.

#[global] Instance schema_wire {PB : Protobuf} {PS : ProtobufSpec PB} : WireSchema wire schema.
Proof. solve_schema_wire wire schema. Qed.

#[global] Instance schema_merge : MergeSchema merge schema.
Proof. solve_schema_merge merge schema. Qed.

(** Its row in the table of message types. *)
Definition message {PB : Protobuf} {PS : ProtobufSpec PB} : message_type :=
  plain_message "StakeAuthorization_Validators" nothing true schema only.

#[global] Instance message_lawful {PB : Protobuf} (PS : ProtobufSpec PB) : Lawful message.
Proof. solve_lawful decode_field fromJSON only. Qed.

End StakeAuthorization_Validators.

(** ** [StakeAuthorization] (cosmos/staking/v1beta1/authz.js) *)

Module StakeAuthorization.

Record t := mk {
  maxTokens : option Coin.t;
  allowList : option StakeAuthorization_Validators.t;
  denyList : option StakeAuthorization_Validators.t;
  authorizationType : number;
}.

#[global] Instance t_eta : Settable t := λ m, mk m.(maxTokens) m.(allowList) m.(denyList)
  m.(authorizationType).

Definition base : t := mk None None None 0.

Definition encode {PB : Protobuf} (message : t) (writer : Writer) : result Writer :=
  Ok writer
  @>= pure (defined message.(maxTokens) (fun v w => w @> uint32 10 @> fork @> Coin.encode v @> ldelim))
  @>= pure (defined message.(allowList) (fun v w => w @> uint32 18 @> fork @> StakeAuthorization_Validators.encode v @> ldelim))
  @>= pure (defined message.(denyList) (fun v w => w @> uint32 26 @> fork @> StakeAuthorization_Validators.encode v @> ldelim))
  @>= pure (when (num_neq message.(authorizationType) 0)
       (fun w => w @> uint32 32 @> int32 message.(authorizationType))).

Definition decode_field {PB : Protobuf} (tag : Z) (message : t) : RM t :=
  match field_number tag with
  | 1 => v ← read_nested Coin.decode; mret (message <| maxTokens := Some v |>)
  | 2 => v ← read_nested StakeAuthorization_Validators.decode;
         mret (message <| allowList := Some v |>)
  | 3 => v ← read_nested StakeAuthorization_Validators.decode;
         mret (message <| denyList := Some v |>)
  | 4 => v ← read_int32; mret (message <| authorizationType := Int v |>)
  | _ => _ ← skipType (wire_type tag); mret message
  end.

Definition decode {PB : Protobuf} (length : option Z) : RM t :=
  decode_message length base decode_field.

Definition fromJSON (object : js) : result t :=
  maxTokens' ← field_or object "maxTokens" (to_some Coin.fromJSON) None;
  allowList' ← field_or object "allowList" (to_some StakeAuthorization_Validators.fromJSON) None;
  denyList' ← field_or object "denyList" (to_some StakeAuthorization_Validators.fromJSON) None;
  authorizationType' ← field_or object "authorizationType" authorizationTypeFromJSON 0;
  Ok (mk maxTokens' allowList' denyList' authorizationType').

Definition toJSON (message : t) : js :=
  Obj (prop_opt "maxTokens" Coin.toJSON message.(maxTokens) ++
   prop_opt "allowList" StakeAuthorization_Validators.toJSON message.(allowList) ++
   prop_opt "denyList" StakeAuthorization_Validators.toJSON message.(denyList) ++
   [("authorizationType", Str (authorizationTypeToJSON message.(authorizationType)))]).

Record partial := mkPartial {
  p_maxTokens : option Coin.partial;
  p_allowList : option StakeAuthorization_Validators.partial;
  p_denyList : option StakeAuthorization_Validators.partial;
  p_authorizationType : option number;
}.

Definition fromPartial (object : partial) : t := {|
  maxTokens := Coin.fromPartial <$> object.(p_maxTokens);
  allowList := StakeAuthorization_Validators.fromPartial <$> object.(p_allowList);
  denyList := StakeAuthorization_Validators.fromPartial <$> object.(p_denyList);
  authorizationType := object.(p_authorizationType) ?? Int 0;
|}.

(** The object with no property given. *)
Definition nothing : partial := mkPartial None None None None.

(** The bytes [encode] writes. *)
Definition wire {PB : Protobuf} {PS : ProtobufSpec PB} (m : t) : bytes :=
  f_message 10 Coin.wire m.(maxTokens) ++
  f_message 18 StakeAuthorization_Validators.wire m.(allowList) ++
  f_message 26 StakeAuthorization_Validators.wire m.(denyList) ++
  f_number e_int32 32 m.(authorizationType).

Definition valid (m : t) : Prop :=
  from_option Coin.valid True m.(maxTokens) ∧ from_option StakeAuthorization_Validators.valid True m.(allowList) ∧ from_option StakeAuthorization_Validators.valid True m.(denyList) ∧ int32_ok m.(authorizationType).

(** The byte fields hold arrays, as the interface declares. *)
Definition typed (m : t) : bool := true.

(** The message without its empty byte arrays. *)
Definition normal (m : t) : t := {|
  maxTokens := m.(maxTokens);
  allowList := m.(allowList);
  denyList := m.(denyList);
  authorizationType := m.(authorizationType);
|}.

(** The enumeration fields hold members. *)
Definition named (m : t) : bool := authorizationType_named m.(authorizationType).

(** The message with the numbers [toJSON] does not know replaced. *)
Definition known (m : t) : t := {|
  maxTokens := m.(maxTokens);
  allowList := m.(allowList);
  denyList := m.(denyList);
  authorizationType := authorizationType_known m.(authorizationType);
|}.

Definition encodable {PB : Protobuf} {PS : ProtobufSpec PB} (m : t) : Prop :=
  typed m = true ∧ valid m ∧ small (wire m).

Definition merge (m a : t) : t := {|
  maxTokens := later_message m.(maxTokens) a.(maxTokens);
  allowList := later_message m.(allowList) a.(allowList);
  denyList := later_message m.(denyList) a.(denyList);
  authorizationType := later_number m.(authorizationType) a.(authorizationType);
|}.

(** A whole message seen as a partial one. *)
Definition full (m : t) : partial := {|
  p_maxTokens := Coin.full <$> m.(maxTokens);
  p_allowList := StakeAuthorization_Validators.full <$> m.(allowList);
  p_denyList := StakeAuthorization_Validators.full <$> m.(denyList);
  p_authorizationType := Some m.(authorizationType);
|}.

(** The message as its schema declares it. *)
Definition schema (m : t) : list field :=
  [singular 1 Optional (message_value Coin.schema) m.(maxTokens);
   singular 2 Optional (message_value StakeAuthorization_Validators.schema) m.(allowList);
   singular 3 Optional (message_value StakeAuthorization_Validators.schema) m.(denyList);
   implicit 4 (VInt Int32 m.(authorizationType))].

(** The message with its default for every property that is not kept. *)
Definition only (kept : string → bool) (m : t) : t := {|
  maxTokens := if kept "maxTokens" then m.(maxTokens) else None;
  allowList := if kept "allowList" then m.(allowList) else None;
  denyList := if kept "denyList" then m.(denyList) else None;
  authorizationType := if kept "authorizationType" then m.(authorizationType) else Int 0;
|}.

#[global] Instance codec {PB : Protobuf} : FallibleCodec t :=
  {| fmsg_base := base; fmsg_encode := encode; fmsg_field := decode_field |}.

#[global] Program Instance spec {PB : Protobuf} (PS : ProtobufSpec PB) : FallibleSpec PS t :=
  {| fmsg_wire := wire; fmsg_valid := valid; fmsg_typed := typed; fmsg_normal := normal;
     fmsg_merge := merge |}.
Next Obligation. solve_fencode_wire. Qed.
Next Obligation. intros. solve_fencode_throws encode typed. Qed.
Next Obligation. solve_fdecode_wire. Qed.
Next Obligation. solve_fmerge_base. Qed.
Next Obligation. intros. solve_fadvances decode_field. Qed.

#[global] Program Instance given_ : FalliblePartial t partial :=
  {| fmsg_fromPartial := fromPartial; fmsg_full := full; fmsg_given := typed |}.
Next Obligation. solve_fgiven fromPartial typed. Qed.
Next Obligation. solve_fpartial fromPartial full typed. Qed.

#[global] Program Instance json : FallibleJson t :=
  {| fmsg_fromJSON := fromJSON; fmsg_toJSON := toJSON;
     fmsg_named := named; fmsg_known := known |}.
Next Obligation. solve_fjson fromJSON toJSON. Qed.
Next Obligation. solve_known named known. Qed.

#[global] Instance schema_wire {PB : Protobuf} {PS : ProtobufSpec PB} : WireSchema wire schema.
Proof. solve_schema_wire wire schema. Qed.

#[global] Instance schema_normal : NormalSchema normal schema.
Proof. solve_schema_normal normal schema. Qed.

#[global] Instance schema_merge : MergeSchema merge schema.
Proof. solve_schema_merge merge schema. Qed.

(** Its row in the table of message types. *)
Definition message {PB : Protobuf} {PS : ProtobufSpec PB} : message_type :=
  fallible_message "StakeAuthorization" nothing true schema only.

#[global] Instance message_lawful {PB : Protobuf} (PS : ProtobufSpec PB) : Lawful message.
Proof. solve_lawful decode_field fromJSON only. Qed.

End StakeAuthorization.

(** ** [MsgCreateValidator] (cosmos/staking/v1beta1/tx.js) *)

Module MsgCreateValidator.

Record t := mk {
  description : option Description.t;
  commission : option CommissionRates.t;
  minSelfDelegation : string;
  delegatorAddress : string;
  validatorAddress : string;
  pubkey : option Any.t;
  value : option Coin.t;
}.

#[global] Instance t_eta : Settable t := λ m, mk m.(description) m.(commission)
  m.(minSelfDelegation) m.(delegatorAddress) m.(validatorAddress) m.(pubkey) m.(value).

Definition base : t := mk None None "" "" "" None None.

Definition encode {PB : Protobuf} (message : t) (writer : Writer) : result Writer :=
  Ok writer
  @>= pure (defined message.(description) (fun v w => w @> uint32 10 @> fork @> Description.encode v @> ldelim))
  @>= pure (defined message.(commission) (fun v w => w @> uint32 18 @> fork @> CommissionRates.encode v @> ldelim))
  @>= pure (when (str_neq message.(minSelfDelegation) "")
       (fun w => w @> uint32 26 @> string_ message.(minSelfDelegation)))
  @>= pure (when (str_neq message.(delegatorAddress) "")
       (fun w => w @> uint32 34 @> string_ message.(delegatorAddress)))
  @>= pure (when (str_neq message.(validatorAddress) "")
       (fun w => w @> uint32 42 @> string_ message.(validatorAddress)))
  @>= defined_e message.(pubkey) (submessage 50 Any.encode)
  @>= pure (defined message.(value) (fun v w => w @> uint32 58 @> fork @> Coin.encode v @> ldelim)).

Definition decode_field {PB : Protobuf} (tag : Z) (message : t) : RM t :=
  match field_number tag with
  | 1 => v ← read_nested Description.decode; mret (message <| description := Some v |>)
  | 2 => v ← read_nested CommissionRates.decode; mret (message <| commission := Some v |>)
  | 3 => v ← read_string; mret (message <| minSelfDelegation := v |>)
  | 4 => v ← read_string; mret (message <| delegatorAddress := v |>)
  | 5 => v ← read_string; mret (message <| validatorAddress := v |>)
  | 6 => v ← read_nested Any.decode; mret (message <| pubkey := Some v |>)
  | 7 => v ← read_nested Coin.decode; mret (message <| value := Some v |>)
  | _ => _ ← skipType (wire_type tag); mret message
  end.

Definition decode {PB : Protobuf} (length : option Z) : RM t :=
  decode_message length base decode_field.

Definition fromJSON (object : js) : result t :=
  description' ← field_or object "description" (to_some Description.fromJSON) None;
  commission' ← field_or object "commission" (to_some CommissionRates.fromJSON) None;
  minSelfDelegation' ← field_or object "minSelfDelegation" to_string "";
  delegatorAddress' ← field_or object "delegatorAddress" to_string "";
  validatorAddress' ← field_or object "validatorAddress" to_string "";
  pubkey' ← field_or object "pubkey" (to_some Any.fromJSON) None;
  value' ← field_or object "value" (to_some Coin.fromJSON) None;
  Ok (mk description' commission' minSelfDelegation' delegatorAddress' validatorAddress' pubkey'
    value').

Definition toJSON (message : t) : js :=
  Obj (prop_opt "description" Description.toJSON message.(description) ++
   prop_opt "commission" CommissionRates.toJSON message.(commission) ++
   [("minSelfDelegation", Str message.(minSelfDelegation));
    ("delegatorAddress", Str message.(delegatorAddress));
    ("validatorAddress", Str message.(validatorAddress))] ++
   prop_opt "pubkey" Any.toJSON message.(pubkey) ++
   prop_opt "value" Coin.toJSON message.(value)).

Record partial := mkPartial {
  p_description : option Description.partial;
  p_commission : option CommissionRates.partial;
  p_minSelfDelegation : option string;
  p_delegatorAddress : option string;
  p_validatorAddress : option string;
  p_pubkey : option Any.partial;
  p_value : option Coin.partial;
}.

Definition fromPartial (object : partial) : t := {|
  description := Description.fromPartial <$> object.(p_description);
  commission := CommissionRates.fromPartial <$> object.(p_commission);
  minSelfDelegation := object.(p_minSelfDelegation) ?? "";
  delegatorAddress := object.(p_delegatorAddress) ?? "";
  validatorAddress := object.(p_validatorAddress) ?? "";
  pubkey := Any.fromPartial <$> object.(p_pubkey);
  value := Coin.fromPartial <$> object.(p_value);
|}.

(** The object with no property given. *)
Definition nothing : partial := mkPartial None None None None None None None.

(** The bytes [encode] writes. *)
Definition wire {PB : Protobuf} {PS : ProtobufSpec PB} (m : t) : bytes :=
  f_message 10 Description.wire m.(description) ++
  f_message 18 CommissionRates.wire m.(commission) ++
  f_string 26 m.(minSelfDelegation) ++
  f_string 34 m.(delegatorAddress) ++
  f_string 42 m.(validatorAddress) ++
  f_message 50 Any.wire m.(pubkey) ++
  f_message 58 Coin.wire m.(value).

Definition valid (m : t) : Prop :=
  from_option Description.valid True m.(description) ∧ from_option CommissionRates.valid True m.(commission) ∧ from_option Any.valid True m.(pubkey) ∧ from_option Coin.valid True m.(value).

(** The byte fields hold arrays, as the interface declares. *)
Definition typed (m : t) : bool := from_option Any.typed true m.(pubkey).

(** The message without its empty byte arrays. *)
Definition normal (m : t) : t := {|
  description := m.(description);
  commission := m.(commission);
  minSelfDelegation := m.(minSelfDelegation);
  delegatorAddress := m.(delegatorAddress);
  validatorAddress := m.(validatorAddress);
  pubkey := Any.normal <$> m.(pubkey);
  value := m.(value);
|}.

Definition encodable {PB : Protobuf} {PS : ProtobufSpec PB} (m : t) : Prop :=
  typed m = true ∧ valid m ∧ small (wire m).

Definition merge (m a : t) : t := {|
  description := later_message m.(description) a.(description);
  commission := later_message m.(commission) a.(commission);
  minSelfDelegation := later_string m.(minSelfDelegation) a.(minSelfDelegation);
  delegatorAddress := later_string m.(delegatorAddress) a.(delegatorAddress);
  validatorAddress := later_string m.(validatorAddress) a.(validatorAddress);
  pubkey := later_message m.(pubkey) (Any.normal <$> a.(pubkey));
  value := later_message m.(value) a.(value);
|}.

(** A whole message seen as a partial one. *)
Definition full (m : t) : partial := {|
  p_description := Description.full <$> m.(description);
  p_commission := CommissionRates.full <$> m.(commission);
  p_minSelfDelegation := Some m.(minSelfDelegation);
  p_delegatorAddress := Some m.(delegatorAddress);
  p_validatorAddress := Some m.(validatorAddress);
  p_pubkey := Any.full <$> m.(pubkey);
  p_value := Coin.full <$> m.(value);
|}.

(** The message as its schema declares it. *)
Definition schema (m : t) : list field :=
  [singular 1 Optional (message_value Description.schema) m.(description);
   singular 2 Optional (message_value CommissionRates.schema) m.(commission);
   implicit 3 (VString m.(minSelfDelegation));
   implicit 4 (VString m.(delegatorAddress));
   implicit 5 (VString m.(validatorAddress));
   singular 6 Optional (message_value Any.schema) m.(pubkey);
   singular 7 Optional (message_value Coin.schema) m.(value)].

(** The message with its default for every property that is not kept. *)
Definition only (kept : string → bool) (m : t) : t := {|
  description := if kept "description" then m.(description) else None;
  commission := if kept "commission" then m.(commission) else None;
  minSelfDelegation := if kept "minSelfDelegation" then m.(minSelfDelegation) else "";
  delegatorAddress := if kept "delegatorAddress" then m.(delegatorAddress) else "";
  validatorAddress := if kept "validatorAddress" then m.(validatorAddress) else "";
  pubkey := if kept "pubkey" then m.(pubkey) else None;
  value := if kept "value" then m.(value) else None;
|}.

#[global] Instance codec {PB : Protobuf} : FallibleCodec t :=
  {| fmsg_base := base; fmsg_encode := encode; fmsg_field := decode_field |}.

#[global] Program Instance spec {PB : Protobuf} (PS : ProtobufSpec PB) : FallibleSpec PS t :=
  {| fmsg_wire := wire; fmsg_valid := valid; fmsg_typed := typed; fmsg_normal := normal;
     fmsg_merge := merge |}.
Next Obligation. solve_fencode_wire. Qed.
Next Obligation. intros. solve_fencode_throws encode typed. Qed.
Next Obligation. solve_fdecode_wire. Qed.
Next Obligation. solve_fmerge_base. Qed.
Next Obligation. intros. solve_fadvances decode_field. Qed.

#[global] Program Instance given_ : FalliblePartial t partial :=
  {| fmsg_fromPartial := fromPartial; fmsg_full := full; fmsg_given := typed |}.
Next Obligation. solve_fgiven fromPartial typed. Qed.
Next Obligation. solve_fpartial fromPartial full typed. Qed.

#[global] Program Instance json : FallibleJson t :=
  {| fmsg_fromJSON := fromJSON; fmsg_toJSON := toJSON;
     fmsg_named := fun _ => true; fmsg_known := fun m => m |}.
Next Obligation. solve_fjson fromJSON toJSON. Qed.
Next Obligation. reflexivity. Qed.

#[global] Instance schema_wire {PB : Protobuf} {PS : ProtobufSpec PB} : WireSchema wire schema.
Proof. solve_schema_wire wire schema. Qed.

#[global] Instance schema_normal : NormalSchema normal schema.
Proof. solve_schema_normal normal schema. Qed.

#[global] Instance schema_merge : MergeSchema merge schema.
Proof. solve_schema_merge merge schema. Qed.

(** Its row in the table of message types. *)
Definition message {PB : Protobuf} {PS : ProtobufSpec PB} : message_type :=
  fallible_message "MsgCreateValidator" nothing true schema only.

#[global] Instance message_lawful {PB : Protobuf} (PS : ProtobufSpec PB) : Lawful message.
Proof. solve_lawful decode_field fromJSON only. Qed.

End MsgCreateValidator.

(** ** [MsgCreateValidatorResponse] (cosmos/staking/v1beta1/tx.js) *)

Module MsgCreateValidatorResponse.

Record t := mk {}.

#[global] Instance t_eta : Settable t := λ m, m.

Definition base : t := mk.

Definition encode {PB : Protobuf} (message : t) (writer : Writer) : Writer :=
  writer.

Definition decode_field {PB : Protobuf} (tag : Z) (message : t) : RM t :=
  match field_number tag with
  | _ => _ ← skipType (wire_type tag); mret message
  end.

Definition decode {PB : Protobuf} (length : option Z) : RM t :=
  decode_message length base decode_field.

Definition fromJSON (object : js) : result t :=
  Ok base.

Definition toJSON (message : t) : js :=
  Obj [].

Record partial := mkPartial {}.

Definition fromPartial (object : partial) : t := base.

(** The object with no property given. *)
Definition nothing : partial := mkPartial.

(** The bytes [encode] writes. *)
Definition wire {PB : Protobuf} {PS : ProtobufSpec PB} (m : t) : bytes :=
  [].

Definition valid (m : t) : Prop :=
  True.

Definition encodable {PB : Protobuf} {PS : ProtobufSpec PB} (m : t) : Prop :=
  valid m ∧ small (wire m).

Definition merge (m a : t) : t := m.

(** A whole message seen as a partial one. *)
Definition full (m : t) : partial := mkPartial.

(** The message as its schema declares it. *)
Definition schema (m : t) : list field :=
  [].

(** The message with its default for every property that is not kept. *)
Definition only (kept : string → bool) (m : t) : t := m.

#[global] Instance codec {PB : Protobuf} : MessageCodec t :=
  {| msg_base := base; msg_encode := encode; msg_field := decode_field |}.

#[global] Program Instance spec {PB : Protobuf} (PS : ProtobufSpec PB) : MessageSpec PS t :=
  {| msg_wire := wire; msg_valid := valid; msg_merge := merge |}.
Next Obligation. solve_encode_wire. Qed.
Next Obligation. solve_decode_wire. Qed.
Next Obligation. solve_merge_base. Qed.
Next Obligation. intros. solve_advances decode_field. Qed.

#[global] Program Instance data : MessageData t partial :=
  {| msg_fromJSON := fromJSON; msg_toJSON := toJSON;
     msg_fromPartial := fromPartial; msg_full := full |}.
Next Obligation. solve_json fromJSON toJSON. Qed.
Next Obligation. solve_partial fromPartial full. Qed.

#[global] Instance schema_wire {PB : Protobuf} {PS : ProtobufSpec PB} : WireSchema wire schema.
Proof. solve_schema_wire wire schema. Qed.

#[global] Instance schema_merge : MergeSchema merge schema.
Proof. solve_schema_merge merge schema. Qed.

(** Its row in the table of message types. *)
Definition message {PB : Protobuf} {PS : ProtobufSpec PB} : message_type :=
  plain_message "MsgCreateValidatorResponse" nothing false schema only.

#[global] Instance message_lawful {PB : Protobuf} (PS : ProtobufSpec PB) : Lawful message.
Proof. solve_lawful decode_field fromJSON only. Qed.

End MsgCreateValidatorResponse.

(** ** [MsgEditValidator] (cosmos/staking/v1beta1/tx.js) *)

Module MsgEditValidator.

Record t := mk {
  description : option Description.t;
  validatorAddress : string;
  commissionRate : string;
  minSelfDelegation : string;
}.

#[global] Instance t_eta : Settable t := λ m, mk m.(description) m.(validatorAddress)
  m.(commissionRate) m.(minSelfDelegation).

Definition base : t := mk None "" "" "".

Definition encode {PB : Protobuf} (message : t) (writer : Writer) : Writer :=
  writer
  @> defined message.(description) (fun v w => w @> uint32 10 @> fork @> Description.encode v @> ldelim)
  @> when (str_neq message.(validatorAddress) "")
       (fun w => w @> uint32 18 @> string_ message.(validatorAddress))
  @> when (str_neq message.(commissionRate) "")
       (fun w => w @> uint32 26 @> string_ message.(commissionRate))
  @> when (str_neq message.(minSelfDelegation) "")
       (fun w => w @> uint32 34 @> string_ message.(minSelfDelegation)).

Definition decode_field {PB : Protobuf} (tag : Z) (message : t) : RM t :=
  match field_number tag with
  | 1 => v ← read_nested Description.decode; mret (message <| description := Some v |>)
  | 2 => v ← read_string; mret (message <| validatorAddress := v |>)
  | 3 => v ← read_string; mret (message <| commissionRate := v |>)
  | 4 => v ← read_string; mret (message <| minSelfDelegation := v |>)
  | _ => _ ← skipType (wire_type tag); mret message
  end.

Definition decode {PB : Protobuf} (length : option Z) : RM t :=
  decode_message length base decode_field.

Definition fromJSON (object : js) : result t :=
  description' ← field_or object "description" (to_some Description.fromJSON) None;
  validatorAddress' ← field_or object "validatorAddress" to_string "";
  commissionRate' ← field_or object "commissionRate" to_string "";
  minSelfDelegation' ← field_or object "minSelfDelegation" to_string "";
  Ok (mk description' validatorAddress' commissionRate' minSelfDelegation').

Definition toJSON (message : t) : js :=
  Obj (prop_opt "description" Description.toJSON message.(description) ++
   [("validatorAddress", Str message.(validatorAddress));
    ("commissionRate", Str message.(commissionRate));
    ("minSelfDelegation", Str message.(minSelfDelegation))]).

Record partial := mkPartial {
  p_description : option Description.partial;
  p_validatorAddress : option string;
  p_commissionRate : option string;
  p_minSelfDelegation : option string;
}.

Definition fromPartial (object : partial) : t := {|
  description := Description.fromPartial <$> object.(p_description);
  validatorAddress := object.(p_validatorAddress) ?? "";
  commissionRate := object.(p_commissionRate) ?? "";
  minSelfDelegation := object.(p_minSelfDelegation) ?? "";
|}.

(** The object with no property given. *)
Definition nothing : partial := mkPartial None None None None.

(** The bytes [encode] writes. *)
Definition wire {PB : Protobuf} {PS : ProtobufSpec PB} (m : t) : bytes :=
  f_message 10 Description.wire m.(description) ++
  f_string 18 m.(validatorAddress) ++
  f_string 26 m.(commissionRate) ++
  f_string 34 m.(minSelfDelegation).

Definition valid (m : t) : Prop :=
  from_option Description.valid True m.(description).

Definition encodable {PB : Protobuf} {PS : ProtobufSpec PB} (m : t) : Prop :=
  valid m ∧ small (wire m).

Definition merge (m a : t) : t := {|
  description := later_message m.(description) a.(description);
  validatorAddress := later_string m.(validatorAddress) a.(validatorAddress);
  commissionRate := later_string m.(commissionRate) a.(commissionRate);
  minSelfDelegation := later_string m.(minSelfDelegation) a.(minSelfDelegation);
|}.

(** A whole message seen as a partial one. *)
Definition full (m : t) : partial := {|
  p_description := Description.full <$> m.(description);
  p_validatorAddress := Some m.(validatorAddress);
  p_commissionRate := Some m.(commissionRate);
  p_minSelfDelegation := Some m.(minSelfDelegation);
|}.

(** The message as its schema declares it. *)
Definition schema (m : t) : list field :=
  [singular 1 Optional (message_value Description.schema) m.(description);
   implicit 2 (VString m.(validatorAddress));
   implicit 3 (VString m.(commissionRate));
   implicit 4 (VString m.(minSelfDelegation))].

(** The message with its default for every property that is not kept. *)
Definition only (kept : string → bool) (m : t) : t := {|
  description := if kept "description" then m.(description) else None;
  validatorAddress := if kept "validatorAddress" then m.(validatorAddress) else "";
  commissionRate := if kept "commissionRate" then m.(commissionRate) else "";
  minSelfDelegation := if kept "minSelfDelegation" then m.(minSelfDelegation) else "";
|}.

#[global] Instance codec {PB : Protobuf} : MessageCodec t :=
  {| msg_base := base; msg_encode := encode; msg_field := decode_field |}.

#[global] Program Instance spec {PB : Protobuf} (PS : ProtobufSpec PB) : MessageSpec PS t :=
  {| msg_wire := wire; msg_valid := valid; msg_merge := merge |}.
Next Obligation. solve_encode_wire. Qed.
Next Obligation. solve_decode_wire. Qed.
Next Obligation. solve_merge_base. Qed.
Next Obligation. intros. solve_advances decode_field. Qed.

#[global] Program Instance data : MessageData t partial :=
  {| msg_fromJSON := fromJSON; msg_toJSON := toJSON;
     msg_fromPartial := fromPartial; msg_full := full |}.
Next Obligation. solve_json fromJSON toJSON. Qed.
Next Obligation. solve_partial fromPartial full. Qed.

#[global] Instance schema_wire {PB : Protobuf} {PS : ProtobufSpec PB} : WireSchema wire schema.
Proof. solve_schema_wire wire schema. Qed.

#[global] Instance schema_merge : MergeSchema merge schema.
Proof. solve_schema_merge merge schema. Qed.

(** Its row in the table of message types. *)
Definition message {PB : Protobuf} {PS : ProtobufSpec PB} : message_type :=
  plain_message "MsgEditValidator" nothing true schema only.

#[global] Instance message_lawful {PB : Protobuf} (PS : ProtobufSpec PB) : Lawful message.
Proof. solve_lawful decode_field fromJSON only. Qed.

End MsgEditValidator.

(** ** [MsgEditValidatorResponse] (cosmos/staking/v1beta1/tx.js) *)

Module MsgEditValidatorResponse.

Record t := mk {}.

#[global] Instance t_eta : Settable t := λ m, m.

Definition base : t := mk.

Definition encode {PB : Protobuf} (message : t) (writer : Writer) : Writer :=
  writer.

Definition decode_field {PB : Protobuf} (tag : Z) (message : t) : RM t :=
  match field_number tag with
  | _ => _ ← skipType (wire_type tag); mret message
  end.

Definition decode {PB : Protobuf} (length : option Z) : RM t :=
  decode_message length base decode_field.

Definition fromJSON (object : js) : result t :=
  Ok base.

Definition toJSON (message : t) : js :=
  Obj [].

Record partial := mkPartial {}.

Definition fromPartial (object : partial) : t := base.

(** The object with no property given. *)
Definition nothing : partial := mkPartial.

(** The bytes [encode] writes. *)
Definition wire {PB : Protobuf} {PS : ProtobufSpec PB} (m : t) : bytes :=
  [].

Definition valid (m : t) : Prop :=
  True.

Definition encodable {PB : Protobuf} {PS : ProtobufSpec PB} (m : t) : Prop :=
  valid m ∧ small (wire m).

Definition merge (m a : t) : t := m.

(** A whole message seen as a partial one. *)
Definition full (m : t) : partial := mkPartial.

(** The message as its schema declares it. *)
Definition schema (m : t) : list field :=
  [].

(** The message with its default for every property that is not kept. *)
Definition only (kept : string → bool) (m : t) : t := m.

#[global] Instance codec {PB : Protobuf} : MessageCodec t :=
  {| msg_base := base; msg_encode := encode; msg_field := decode_field |}.

#[global] Program Instance spec {PB : Protobuf} (PS : ProtobufSpec PB) : MessageSpec PS t :=
  {| msg_wire := wire; msg_valid := valid; msg_merge := merge |}.
Next Obligation. solve_encode_wire. Qed.
Next Obligation. solve_decode_wire. Qed.
Next Obligation. solve_merge_base. Qed.
Next Obligation. intros. solve_advances decode_field. Qed.

#[global] Program Instance data : MessageData t partial :=
  {| msg_fromJSON := fromJSON; msg_toJSON := toJSON;
     msg_fromPartial := fromPartial; msg_full := full |}.
Next Obligation. solve_json fromJSON toJSON. Qed.
Next Obligation. solve_partial fromPartial full. Qed.

#[global] Instance schema_wire {PB : Protobuf} {PS : ProtobufSpec PB} : WireSchema wire schema.
Proof. solve_schema_wire wire schema. Qed.

#[global] Instance schema_merge : MergeSchema merge schema.
Proof. solve_schema_merge merge schema. Qed.

(** Its row in the table of message types. *)
Definition message {PB : Protobuf} {PS : ProtobufSpec PB} : message_type :=
  plain_message "MsgEditValidatorResponse" nothing false schema only.

#[global] Instance message_lawful {PB : Protobuf} (PS : ProtobufSpec PB) : Lawful message.
Proof. solve_lawful decode_field fromJSON only. Qed.

End MsgEditValidatorResponse.

(** ** [MsgDelegate] (cosmos/staking/v1beta1/tx.js) *)

Module MsgDelegate.

Record t := mk {
  delegatorAddress : string;
  validatorAddress : string;
  amount : option Coin.t;
}.

#[global] Instance t_eta : Settable t := λ m, mk m.(delegatorAddress) m.(validatorAddress)
  m.(amount).

Definition base : t := mk "" "" None.

Definition encode {PB : Protobuf} (message : t) (writer : Writer) : Writer :=
  writer
  @> when (str_neq message.(delegatorAddress) "")
       (fun w => w @> uint32 10 @> string_ message.(delegatorAddress))
  @> when (str_neq message.(validatorAddress) "")
       (fun w => w @> uint32 18 @> string_ message.(validatorAddress))
  @> defined message.(amount) (fun v w => w @> uint32 26 @> fork @> Coin.encode v @> ldelim).

Definition decode_field {PB : Protobuf} (tag : Z) (message : t) : RM t :=
  match field_number tag with
  | 1 => v ← read_string; mret (message <| delegatorAddress := v |>)
  | 2 => v ← read_string; mret (message <| validatorAddress := v |>)
  | 3 => v ← read_nested Coin.decode; mret (message <| amount := Some v |>)
  | _ => _ ← skipType (wire_type tag); mret message
  end.

Definition decode {PB : Protobuf} (length : option Z) : RM t :=
  decode_message length base decode_field.

Definition fromJSON (object : js) : result t :=
  delegatorAddress' ← field_or object "delegatorAddress" to_string "";
  validatorAddress' ← field_or object "validatorAddress" to_string "";
  amount' ← field_or object "amount" (to_some Coin.fromJSON) None;
  Ok (mk delegatorAddress' validatorAddress' amount').

Definition toJSON (message : t) : js :=
  Obj ([("delegatorAddress", Str message.(delegatorAddress));
    ("validatorAddress", Str message.(validatorAddress))] ++
   prop_opt "amount" Coin.toJSON message.(amount)).

Record partial := mkPartial {
  p_delegatorAddress : option string;
  p_validatorAddress : option string;
  p_amount : option Coin.partial;
}.

Definition fromPartial (object : partial) : t := {|
  delegatorAddress := object.(p_delegatorAddress) ?? "";
  validatorAddress := object.(p_validatorAddress) ?? "";
  amount := Coin.fromPartial <$> object.(p_amount);
|}.

(** The object with no property given. *)
Definition nothing : partial := mkPartial None None None.

(** The bytes [encode] writes. *)
Definition wire {PB : Protobuf} {PS : ProtobufSpec PB} (m : t) : bytes :=
  f_string 10 m.(delegatorAddress) ++
  f_string 18 m.(validatorAddress) ++
  f_message 26 Coin.wire m.(amount).

Definition valid (m : t) : Prop :=
  from_option Coin.valid True m.(amount).

Definition encodable {PB : Protobuf} {PS : ProtobufSpec PB} (m : t) : Prop :=
  valid m ∧ small (wire m).

Definition merge (m a : t) : t := {|
  delegatorAddress := later_string m.(delegatorAddress) a.(delegatorAddress);
  validatorAddress := later_string m.(validatorAddress) a.(validatorAddress);
  amount := later_message m.(amount) a.(amount);
|}.

(** A whole message seen as a partial one. *)
Definition full (m : t) : partial := {|
  p_delegatorAddress := Some m.(delegatorAddress);
  p_validatorAddress := Some m.(validatorAddress);
  p_amount := Coin.full <$> m.(amount);
|}.

(** The message as its schema declares it. *)
Definition schema (m : t) : list field :=
  [implicit 1 (VString m.(delegatorAddress));
   implicit 2 (VString m.(validatorAddress));
   singular 3 Optional (message_value Coin.schema) m.(amount)].

(** The message with its default for every property that is not kept. *)
Definition only (kept : string → bool) (m : t) : t := {|
  delegatorAddress := if kept "delegatorAddress" then m.(delegatorAddress) else "";
  validatorAddress := if kept "validatorAddress" then m.(validatorAddress) else "";
  amount := if kept "amount" then m.(amount) else None;
|}.

#[global] Instance codec {PB : Protobuf} : MessageCodec t :=
  {| msg_base := base; msg_encode := encode; msg_field := decode_field |}.

#[global] Program Instance spec {PB : Protobuf} (PS : ProtobufSpec PB) : MessageSpec PS t :=
  {| msg_wire := wire; msg_valid := valid; msg_merge := merge |}.
Next Obligation. solve_encode_wire. Qed.
Next Obligation. solve_decode_wire. Qed.
Next Obligation. solve_merge_base. Qed.
Next Obligation. intros. solve_advances decode_field. Qed.

#[global] Program Instance data : MessageData t partial :=
  {| msg_fromJSON := fromJSON; msg_toJSON := toJSON;
     msg_fromPartial := fromPartial; msg_full := full |}.
Next Obligation. solve_json fromJSON toJSON. Qed.
Next Obligation. solve_partial fromPartial full. Qed.

#[global] Instance schema_wire {PB : Protobuf} {PS : ProtobufSpec PB} : WireSchema wire schema.
Proof. solve_schema_wire wire schema. Qed.

#[global] Instance schema_merge : MergeSchema merge schema.
Proof. solve_schema_merge merge schema. Qed.

(** Its row in the table of message types. *)
Definition message {PB : Protobuf} {PS : ProtobufSpec PB} : message_type :=
  plain_message "MsgDelegate" nothing true schema only.

#[global] Instance message_lawful {PB : Protobuf} (PS : ProtobufSpec PB) : Lawful message.
Proof. solve_lawful decode_field fromJSON only. Qed.

End MsgDelegate.

(** ** [MsgDelegateResponse] (cosmos/staking/v1beta1/tx.js) *)

Module MsgDelegateResponse.

Record t := mk {}.

#[global] Instance t_eta : Settable t := λ m, m.

Definition base : t := mk.

Definition encode {PB : Protobuf} (message : t) (writer : Writer) : Writer :=
  writer.

Definition decode_field {PB : Protobuf} (tag : Z) (message : t) : RM t :=
  match field_number tag with
  | _ => _ ← skipType (wire_type tag); mret message
  end.

Definition decode {PB : Protobuf} (length : option Z) : RM t :=
  decode_message length base decode_field.

Definition fromJSON (object : js) : result t :=
  Ok base.

Definition toJSON (message : t) : js :=
  Obj [].

Record partial := mkPartial {}.

Definition fromPartial (object : partial) : t := base.

(** The object with no property given. *)
Definition nothing : partial := mkPartial.

(** The bytes [encode] writes. *)
Definition wire {PB : Protobuf} {PS : ProtobufSpec PB} (m : t) : bytes :=
  [].

Definition valid (m : t) : Prop :=
  True.

Definition encodable {PB : Protobuf} {PS : ProtobufSpec PB} (m : t) : Prop :=
  valid m ∧ small (wire m).

Definition merge (m a : t) : t := m.

(** A whole message seen as a partial one. *)
Definition full (m : t) : partial := mkPartial.

(** The message as its schema declares it. *)
Definition schema (m : t) : list field :=
  [].

(** The message with its default for every property that is not kept. *)
Definition only (kept : string → bool) (m : t) : t := m.

#[global] Instance codec {PB : Protobuf} : MessageCodec t :=
  {| msg_base := base; msg_encode := encode; msg_field := decode_field |}.

#[global] Program Instance spec {PB : Protobuf} (PS : ProtobufSpec PB) : MessageSpec PS t :=
  {| msg_wire := wire; msg_valid := valid; msg_merge := merge |}.
Next Obligation. solve_encode_wire. Qed.
Next Obligation. solve_decode_wire. Qed.
Next Obligation. solve_merge_base. Qed.
Next Obligation. intros. solve_advances decode_field. Qed.

#[global] Program Instance data : MessageData t partial :=
  {| msg_fromJSON := fromJSON; msg_toJSON := toJSON;
     msg_fromPartial := fromPartial; msg_full := full |}.
Next Obligation. solve_json fromJSON toJSON. Qed.
Next Obligation. solve_partial fromPartial full. Qed.

#[global] Instance schema_wire {PB : Protobuf} {PS : ProtobufSpec PB} : WireSchema wire schema.
Proof. solve_schema_wire wire schema. Qed.

#[global] Instance schema_merge : MergeSchema merge schema.
Proof. solve_schema_merge merge schema. Qed.

(** Its row in the table of message types. *)
Definition message {PB : Protobuf} {PS : ProtobufSpec PB} : message_type :=
  plain_message "MsgDelegateResponse" nothing false schema only.

#[global] Instance message_lawful {PB : Protobuf} (PS : ProtobufSpec PB) : Lawful message.
Proof. solve_lawful decode_field fromJSON only. Qed.

End MsgDelegateResponse.

(** ** [MsgBeginRedelegate] (cosmos/staking/v1beta1/tx.js) *)

Module MsgBeginRedelegate.

Record t := mk {
  delegatorAddress : string;
  validatorSrcAddress : string;
  validatorDstAddress : string;
  amount : option Coin.t;
}.

#[global] Instance t_eta : Settable t := λ m, mk m.(delegatorAddress) m.(validatorSrcAddress)
  m.(validatorDstAddress) m.(amount).

Definition base : t := mk "" "" "" None.

Definition encode {PB : Protobuf} (message : t) (writer : Writer) : Writer :=
  writer
  @> when (str_neq message.(delegatorAddress) "")
       (fun w => w @> uint32 10 @> string_ message.(delegatorAddress))
  @> when (str_neq message.(validatorSrcAddress) "")
       (fun w => w @> uint32 18 @> string_ message.(validatorSrcAddress))
  @> when (str_neq message.(validatorDstAddress) "")
       (fun w => w @> uint32 26 @> string_ message.(validatorDstAddress))
  @> defined message.(amount) (fun v w => w @> uint32 34 @> fork @> Coin.encode v @> ldelim).

Definition decode_field {PB : Protobuf} (tag : Z) (message : t) : RM t :=
  match field_number tag with
  | 1 => v ← read_string; mret (message <| delegatorAddress := v |>)
  | 2 => v ← read_string; mret (message <| validatorSrcAddress := v |>)
  | 3 => v ← read_string; mret (message <| validatorDstAddress := v |>)
  | 4 => v ← read_nested Coin.decode; mret (message <| amount := Some v |>)
  | _ => _ ← skipType (wire_type tag); mret message
  end.

Definition decode {PB : Protobuf} (length : option Z) : RM t :=
  decode_message length base decode_field.

Definition fromJSON (object : js) : result t :=
  delegatorAddress' ← field_or object "delegatorAddress" to_string "";
  validatorSrcAddress' ← field_or object "validatorSrcAddress" to_string "";
  validatorDstAddress' ← field_or object "validatorDstAddress" to_string "";
  amount' ← field_or object "amount" (to_some Coin.fromJSON) None;
  Ok (mk delegatorAddress' validatorSrcAddress' validatorDstAddress' amount').

Definition toJSON (message : t) : js :=
  Obj ([("delegatorAddress", Str message.(delegatorAddress));
    ("validatorSrcAddress", Str message.(validatorSrcAddress));
    ("validatorDstAddress", Str message.(validatorDstAddress))] ++
   prop_opt "amount" Coin.toJSON message.(amount)).

Record partial := mkPartial {
  p_delegatorAddress : option string;
  p_validatorSrcAddress : option string;
  p_validatorDstAddress : option string;
  p_amount : option Coin.partial;
}.

Definition fromPartial (object : partial) : t := {|
  delegatorAddress := object.(p_delegatorAddress) ?? "";
  validatorSrcAddress := object.(p_validatorSrcAddress) ?? "";
  validatorDstAddress := object.(p_validatorDstAddress) ?? "";
  amount := Coin.fromPartial <$> object.(p_amount);
|}.

(** The object with no property given. *)
Definition nothing : partial := mkPartial None None None None.

(** The bytes [encode] writes. *)
Definition wire {PB : Protobuf} {PS : ProtobufSpec PB} (m : t) : bytes :=
  f_string 10 m.(delegatorAddress) ++
  f_string 18 m.(validatorSrcAddress) ++
  f_string 26 m.(validatorDstAddress) ++
  f_message 34 Coin.wire m.(amount).

Definition valid (m : t) : Prop :=
  from_option Coin.valid True m.(amount).

Definition encodable {PB : Protobuf} {PS : ProtobufSpec PB} (m : t) : Prop :=
  valid m ∧ small (wire m).

Definition merge (m a : t) : t := {|
  delegatorAddress := later_string m.(delegatorAddress) a.(delegatorAddress);
  validatorSrcAddress := later_string m.(validatorSrcAddress) a.(validatorSrcAddress);
  validatorDstAddress := later_string m.(validatorDstAddress) a.(validatorDstAddress);
  amount := later_message m.(amount) a.(amount);
|}.

(** A whole message seen as a partial one. *)
Definition full (m : t) : partial := {|
  p_delegatorAddress := Some m.(delegatorAddress);
  p_validatorSrcAddress := Some m.(validatorSrcAddress);
  p_validatorDstAddress := Some m.(validatorDstAddress);
  p_amount := Coin.full <$> m.(amount);
|}.

(** The message as its schema declares it. *)
Definition schema (m : t) : list field :=
  [implicit 1 (VString m.(delegatorAddress));
   implicit 2 (VString m.(validatorSrcAddress));
   implicit 3 (VString m.(validatorDstAddress));
   singular 4 Optional (message_value Coin.schema) m.(amount)].

(** The message with its default for every property that is not kept. *)
Definition only (kept : string → bool) (m : t) : t := {|
  delegatorAddress := if kept "delegatorAddress" then m.(delegatorAddress) else "";
  validatorSrcAddress := if kept "validatorSrcAddress" then m.(validatorSrcAddress) else "";
  validatorDstAddress := if kept "validatorDstAddress" then m.(validatorDstAddress) else "";
  amount := if kept "amount" then m.(amount) else None;
|}.

#[global] Instance codec {PB : Protobuf} : MessageCodec t :=
  {| msg_base := base; msg_encode := encode; msg_field := decode_field |}.

#[global] Program Instance spec {PB : Protobuf} (PS : ProtobufSpec PB) : MessageSpec PS t :=
  {| msg_wire := wire; msg_valid := valid; msg_merge := merge |}.
Next Obligation. solve_encode_wire. Qed.
Next Obligation. solve_decode_wire. Qed.
Next Obligation. solve_merge_base. Qed.
Next Obligation. intros. solve_advances decode_field. Qed.

#[global] Program Instance data : MessageData t partial :=
  {| msg_fromJSON := fromJSON; msg_toJSON := toJSON;
     msg_fromPartial := fromPartial; msg_full := full |}.
Next Obligation. solve_json fromJSON toJSON. Qed.
Next Obligation. solve_partial fromPartial full. Qed.

#[global] Instance schema_wire {PB : Protobuf} {PS : ProtobufSpec PB} : WireSchema wire schema.
Proof. solve_schema_wire wire schema. Qed.

#[global] Instance schema_merge : MergeSchema merge schema.
Proof. solve_schema_merge merge schema. Qed.

(** Its row in the table of message types. *)
Definition message {PB : Protobuf} {PS : ProtobufSpec PB} : message_type :=
  plain_message "MsgBeginRedelegate" nothing true schema only.

#[global] Instance message_lawful {PB : Protobuf} (PS : ProtobufSpec PB) : Lawful message.
Proof. solve_lawful decode_field fromJSON only. Qed.

End MsgBeginRedelegate.

(** ** [MsgBeginRedelegateResponse] (cosmos/staking/v1beta1/tx.js) *)

Module MsgBeginRedelegateResponse.

Record t := mk {
  completionTime : option date;
}.

#[global] Instance t_eta : Settable t := λ m, mk m.(completionTime).

Definition base : t := mk None.

Definition encode {PB : Protobuf} (message : t) (writer : Writer) : result Writer :=
  Ok writer
  @>= pure (defined message.(completionTime) (fun v w => w @> uint32 10 @> fork @> encode_time v @> ldelim)).

Definition decode_field {PB : Protobuf} (tag : Z) (message : t) : RM t :=
  match field_number tag with
  | 1 => v ← read_time; mret (message <| completionTime := Some v |>)
  | _ => _ ← skipType (wire_type tag); mret message
  end.

Definition decode {PB : Protobuf} (length : option Z) : RM t :=
  decode_message length base decode_field.

Definition fromJSON (object : js) : result t :=
  completionTime' ← field_or object "completionTime" (to_some fromJsonTimestamp) None;
  Ok (mk completionTime').

Definition toJSON (message : t) : result js :=
  completionTime' ← option_result toISOString message.(completionTime);
  Ok (Obj (prop_opt "completionTime" Str completionTime')).

Record partial := mkPartial {
  p_completionTime : option date;
}.

Definition fromPartial (object : partial) : t := {|
  completionTime := object.(p_completionTime);
|}.

(** The object with no property given. *)
Definition nothing : partial := mkPartial None.

(** The bytes [encode] writes. *)
Definition wire {PB : Protobuf} {PS : ProtobufSpec PB} (m : t) : bytes :=
  f_message 10 wire_time m.(completionTime).

Definition valid (m : t) : Prop :=
  from_option date_ok True m.(completionTime).

(** The byte fields hold arrays, as the interface declares. *)
Definition typed (m : t) : bool := true.

(** The message without its empty byte arrays. *)
Definition normal (m : t) : t := {|
  completionTime := m.(completionTime);
|}.

(** The dates are valid. *)
Definition timed (m : t) : bool := from_option date_valid true m.(completionTime).

Definition encodable {PB : Protobuf} {PS : ProtobufSpec PB} (m : t) : Prop :=
  typed m = true ∧ valid m ∧ small (wire m).

Definition merge (m a : t) : t := {|
  completionTime := later_message m.(completionTime) a.(completionTime);
|}.

(** A whole message seen as a partial one. *)
Definition full (m : t) : partial := {|
  p_completionTime := m.(completionTime);
|}.

(** The message as its schema declares it. *)
Definition schema (m : t) : list field :=
  [singular 1 Stamp timestamp_value m.(completionTime)].

(** The message with its default for every property that is not kept. *)
Definition only (kept : string → bool) (m : t) : t := {|
  completionTime := if kept "completionTime" then m.(completionTime) else None;
|}.

#[global] Instance codec {PB : Protobuf} : FallibleCodec t :=
  {| fmsg_base := base; fmsg_encode := encode; fmsg_field := decode_field |}.

#[global] Program Instance spec {PB : Protobuf} (PS : ProtobufSpec PB) : FallibleSpec PS t :=
  {| fmsg_wire := wire; fmsg_valid := valid; fmsg_typed := typed; fmsg_normal := normal;
     fmsg_merge := merge |}.
Next Obligation. solve_fencode_wire. Qed.
Next Obligation. intros. solve_fencode_throws encode typed. Qed.
Next Obligation. solve_fdecode_wire. Qed.
Next Obligation. solve_fmerge_base. Qed.
Next Obligation. intros. solve_fadvances decode_field. Qed.

#[global] Program Instance given_ : FalliblePartial t partial :=
  {| fmsg_fromPartial := fromPartial; fmsg_full := full; fmsg_given := typed |}.
Next Obligation. solve_fgiven fromPartial typed. Qed.
Next Obligation. solve_fpartial fromPartial full typed. Qed.

#[global] Program Instance json : DatedJson t :=
  {| dmsg_fromJSON := fromJSON; dmsg_toJSON := toJSON; dmsg_timed := timed;
     dmsg_named := fun _ => true; dmsg_known := fun m => m |}.
Next Obligation. solve_djson fromJSON toJSON timed. Qed.
Next Obligation. solve_dthrows toJSON timed. Qed.
Next Obligation. reflexivity. Qed.

#[global] Instance schema_wire {PB : Protobuf} {PS : ProtobufSpec PB} : WireSchema wire schema.
Proof. solve_schema_wire wire schema. Qed.

#[global] Instance schema_normal : NormalSchema normal schema.
Proof. solve_schema_normal normal schema. Qed.

#[global] Instance schema_merge : MergeSchema merge schema.
Proof. solve_schema_merge merge schema. Qed.

(** Its row in the table of message types. *)
Definition message {PB : Protobuf} {PS : ProtobufSpec PB} : message_type :=
  dated_message "MsgBeginRedelegateResponse" nothing true schema only.

#[global] Instance message_lawful {PB : Protobuf} (PS : ProtobufSpec PB) : Lawful message.
Proof. solve_lawful decode_field fromJSON only. Qed.

End MsgBeginRedelegateResponse.

(** ** [MsgUndelegate] (cosmos/staking/v1beta1/tx.js) *)

Module MsgUndelegate.

Record t := mk {
  delegatorAddress : string;
  validatorAddress : string;
  amount : option Coin.t;
}.

#[global] Instance t_eta : Settable t := λ m, mk m.(delegatorAddress) m.(validatorAddress)
  m.(amount).

Definition base : t := mk "" "" None.

Definition encode {PB : Protobuf} (message : t) (writer : Writer) : Writer :=
  writer
  @> when (str_neq message.(delegatorAddress) "")
       (fun w => w @> uint32 10 @> string_ message.(delegatorAddress))
  @> when (str_neq message.(validatorAddress) "")
       (fun w => w @> uint32 18 @> string_ message.(validatorAddress))
  @> defined message.(amount) (fun v w => w @> uint32 26 @> fork @> Coin.encode v @> ldelim).

Definition decode_field {PB : Protobuf} (tag : Z) (message : t) : RM t :=
  match field_number tag with
  | 1 => v ← read_string; mret (message <| delegatorAddress := v |>)
  | 2 => v ← read_string; mret (message <| validatorAddress := v |>)
  | 3 => v ← read_nested Coin.decode; mret (message <| amount := Some v |>)
  | _ => _ ← skipType (wire_type tag); mret message
  end.

Definition decode {PB : Protobuf} (length : option Z) : RM t :=
  decode_message length base decode_field.

Definition fromJSON (object : js) : result t :=
  delegatorAddress' ← field_or object "delegatorAddress" to_string "";
  validatorAddress' ← field_or object "validatorAddress" to_string "";
  amount' ← field_or object "amount" (to_some Coin.fromJSON) None;
  Ok (mk delegatorAddress' validatorAddress' amount').

Definition toJSON (message : t) : js :=
  Obj ([("delegatorAddress", Str message.(delegatorAddress));
    ("validatorAddress", Str message.(validatorAddress))] ++
   prop_opt "amount" Coin.toJSON message.(amount)).

Record partial := mkPartial {
  p_delegatorAddress : option string;
  p_validatorAddress : option string;
  p_amount : option Coin.partial;
}.

Definition fromPartial (object : partial) : t := {|
  delegatorAddress := object.(p_delegatorAddress) ?? "";
  validatorAddress := object.(p_validatorAddress) ?? "";
  amount := Coin.fromPartial <$> object.(p_amount);
|}.

(** The object with no property given. *)
Definition nothing : partial := mkPartial None None None.

(** The bytes [encode] writes. *)
Definition wire {PB : Protobuf} {PS : ProtobufSpec PB} (m : t) : bytes :=
  f_string 10 m.(delegatorAddress) ++
  f_string 18 m.(validatorAddress) ++
  f_message 26 Coin.wire m.(amount).

Definition valid (m : t) : Prop :=
  from_option Coin.valid True m.(amount).

Definition encodable {PB : Protobuf} {PS : ProtobufSpec PB} (m : t) : Prop :=
  valid m ∧ small (wire m).

Definition merge (m a : t) : t := {|
  delegatorAddress := later_string m.(delegatorAddress) a.(delegatorAddress);
  validatorAddress := later_string m.(validatorAddress) a.(validatorAddress);
  amount := later_message m.(amount) a.(amount);
|}.

(** A whole message seen as a partial one. *)
Definition full (m : t) : partial := {|
  p_delegatorAddress := Some m.(delegatorAddress);
  p_validatorAddress := Some m.(validatorAddress);
  p_amount := Coin.full <$> m.(amount);
|}.

(** The message as its schema declares it. *)
Definition schema (m : t) : list field :=
  [implicit 1 (VString m.(delegatorAddress));
   implicit 2 (VString m.(validatorAddress));
   singular 3 Optional (message_value Coin.schema) m.(amount)].

(** The message with its default for every property that is not kept. *)
Definition only (kept : string → bool) (m : t) : t := {|
  delegatorAddress := if kept "delegatorAddress" then m.(delegatorAddress) else "";
  validatorAddress := if kept "validatorAddress" then m.(validatorAddress) else "";
  amount := if kept "amount" then m.(amount) else None;
|}.

#[global] Instance codec {PB : Protobuf} : MessageCodec t :=
  {| msg_base := base; msg_encode := encode; msg_field := decode_field |}.

#[global] Program Instance spec {PB : Protobuf} (PS : ProtobufSpec PB) : MessageSpec PS t :=
  {| msg_wire := wire; msg_valid := valid; msg_merge := merge |}.
Next Obligation. solve_encode_wire. Qed.
Next Obligation. solve_decode_wire. Qed.
Next Obligation. solve_merge_base. Qed.
Next Obligation. intros. solve_advances decode_field. Qed.

#[global] Program Instance data : MessageData t partial :=
  {| msg_fromJSON := fromJSON; msg_toJSON := toJSON;
     msg_fromPartial := fromPartial; msg_full := full |}.
Next Obligation. solve_json fromJSON toJSON. Qed.
Next Obligation. solve_partial fromPartial full. Qed.

#[global] Instance schema_wire {PB : Protobuf} {PS : ProtobufSpec PB} : WireSchema wire schema.
Proof. solve_schema_wire wire schema. Qed.

#[global] Instance schema_merge : MergeSchema merge schema.
Proof. solve_schema_merge merge schema. Qed.

(** Its row in the table of message types. *)
Definition message {PB : Protobuf} {PS : ProtobufSpec PB} : message_type :=
  plain_message "MsgUndelegate" nothing true schema only.

#[global] Instance message_lawful {PB : Protobuf} (PS : ProtobufSpec PB) : Lawful message.
Proof. solve_lawful decode_field fromJSON only. Qed.

End MsgUndelegate.

(** ** [MsgUndelegateResponse] (cosmos/staking/v1beta1/tx.js) *)

Module MsgUndelegateResponse.

Record t := mk {
  completionTime : option date;
}.

#[global] Instance t_eta : Settable t := λ m, mk m.(completionTime).

Definition base : t := mk None.

Definition encode {PB : Protobuf} (message : t) (writer : Writer) : result Writer :=
  Ok writer
  @>= pure (defined message.(completionTime) (fun v w => w @> uint32 10 @> fork @> encode_time v @> ldelim)).

Definition decode_field {PB : Protobuf} (tag : Z) (message : t) : RM t :=
  match field_number tag with
  | 1 => v ← read_time; mret (message <| completionTime := Some v |>)
  | _ => _ ← skipType (wire_type tag); mret message
  end.

Definition decode {PB : Protobuf} (length : option Z) : RM t :=
  decode_message length base decode_field.

Definition fromJSON (object : js) : result t :=
  completionTime' ← field_or object "completionTime" (to_some fromJsonTimestamp) None;
  Ok (mk completionTime').

Definition toJSON (message : t) : result js :=
  completionTime' ← option_result toISOString message.(completionTime);
  Ok (Obj (prop_opt "completionTime" Str completionTime')).

Record partial := mkPartial {
  p_completionTime : option date;
}.

Definition fromPartial (object : partial) : t := {|
  completionTime := object.(p_completionTime);
|}.

(** The object with no property given. *)
Definition nothing : partial := mkPartial None.

(** The bytes [encode] writes. *)
Definition wire {PB : Protobuf} {PS : ProtobufSpec PB} (m : t) : bytes :=
  f_message 10 wire_time m.(completionTime).

Definition valid (m : t) : Prop :=
  from_option date_ok True m.(completionTime).

(** The byte fields hold arrays, as the interface declares. *)
Definition typed (m : t) : bool := true.

(** The message without its empty byte arrays. *)
Definition normal (m : t) : t := {|
  completionTime := m.(completionTime);
|}.

(** The dates are valid. *)
Definition timed (m : t) : bool := from_option date_valid true m.(completionTime).

Definition encodable {PB : Protobuf} {PS : ProtobufSpec PB} (m : t) : Prop :=
  typed m = true ∧ valid m ∧ small (wire m).

Definition merge (m a : t) : t := {|
  completionTime := later_message m.(completionTime) a.(completionTime);
|}.

(** A whole message seen as a partial one. *)
Definition full (m : t) : partial := {|
  p_completionTime := m.(completionTime);
|}.

(** The message as its schema declares it. *)
Definition schema (m : t) : list field :=
  [singular 1 Stamp timestamp_value m.(completionTime)].

(** The message with its default for every property that is not kept. *)
Definition only (kept : string → bool) (m : t) : t := {|
  completionTime := if kept "completionTime" then m.(completionTime) else None;
|}.

#[global] Instance codec {PB : Protobuf} : FallibleCodec t :=
  {| fmsg_base := base; fmsg_encode := encode; fmsg_field := decode_field |}.

#[global] Program Instance spec {PB : Protobuf} (PS : ProtobufSpec PB) : FallibleSpec PS t :=
  {| fmsg_wire := wire; fmsg_valid := valid; fmsg_typed := typed; fmsg_normal := normal;
     fmsg_merge := merge |}.
Next Obligation. solve_fencode_wire. Qed.
Next Obligation. intros. solve_fencode_throws encode typed. Qed.
Next Obligation. solve_fdecode_wire. Qed.
Next Obligation. solve_fmerge_base. Qed.
Next Obligation. intros. solve_fadvances decode_field. Qed.

#[global] Program Instance given_ : FalliblePartial t partial :=
  {| fmsg_fromPartial := fromPartial; fmsg_full := full; fmsg_given := typed |}.
Next Obligation. solve_fgiven fromPartial typed. Qed.
Next Obligation. solve_fpartial fromPartial full typed. Qed.

#[global] Program Instance json : DatedJson t :=
  {| dmsg_fromJSON := fromJSON; dmsg_toJSON := toJSON; dmsg_timed := timed;
     dmsg_named := fun _ => true; dmsg_known := fun m => m |}.
Next Obligation. solve_djson fromJSON toJSON timed. Qed.
Next Obligation. solve_dthrows toJSON timed. Qed.
Next Obligation. reflexivity. Qed.

#[global] Instance schema_wire {PB : Protobuf} {PS : ProtobufSpec PB} : WireSchema wire schema.
Proof. solve_schema_wire wire schema. Qed.

#[global] Instance schema_normal : NormalSchema normal schema.
Proof. solve_schema_normal normal schema. Qed.

#[global] Instance schema_merge : MergeSchema merge schema.
Proof. solve_schema_merge merge schema. Qed.

(** Its row in the table of message types. *)
Definition message {PB : Protobuf} {PS : ProtobufSpec PB} : message_type :=
  dated_message "MsgUndelegateResponse" nothing true schema only.

#[global] Instance message_lawful {PB : Protobuf} (PS : ProtobufSpec PB) : Lawful message.
Proof. solve_lawful decode_field fromJSON only. Qed.

End MsgUndelegateResponse.


(** ** [MsgClientImpl]

    [rpc] is the transport the class is constructed with: [rpc service method data]
    is what the promise of [this.rpc.request] settles to. *)
Module MsgClientImpl.
Section client.
Context {PB : Protobuf} (rpc : string → string → bytes → result bytes).

Definition CreateValidator (request : MsgCreateValidator.t) : result MsgCreateValidatorResponse.t :=
  w ← MsgCreateValidator.encode request create;
  data ← rpc "cosmos.staking.v1beta1.Msg" "CreateValidator" (finish w);
  decode_bytes MsgCreateValidatorResponse.decode data.

Definition EditValidator (request : MsgEditValidator.t) : result MsgEditValidatorResponse.t :=
  data ← rpc "cosmos.staking.v1beta1.Msg" "EditValidator"
    (finish (MsgEditValidator.encode request create));
  decode_bytes MsgEditValidatorResponse.decode data.

Definition Delegate (request : MsgDelegate.t) : result MsgDelegateResponse.t :=
  data ← rpc "cosmos.staking.v1beta1.Msg" "Delegate"
    (finish (MsgDelegate.encode request create));
  decode_bytes MsgDelegateResponse.decode data.

Definition BeginRedelegate (request : MsgBeginRedelegate.t) : result MsgBeginRedelegateResponse.t :=
  data ← rpc "cosmos.staking.v1beta1.Msg" "BeginRedelegate"
    (finish (MsgBeginRedelegate.encode request create));
  decode_bytes MsgBeginRedelegateResponse.decode data.

Definition Undelegate (request : MsgUndelegate.t) : result MsgUndelegateResponse.t :=
  data ← rpc "cosmos.staking.v1beta1.Msg" "Undelegate"
    (finish (MsgUndelegate.encode request create));
  decode_bytes MsgUndelegateResponse.decode data.

End client.
End MsgClientImpl.

(** ** The message types of this file *)

Definition messages {PB : Protobuf} {PS : ProtobufSpec PB} : list message_type :=
  [ Description.message; CommissionRates.message; Commission.message; Validator.message;
   HistoricalInfo.message; ValAddresses.message; DVPair.message; DVPairs.message;
   DVVTriplet.message; DVVTriplets.message; Delegation.message;
   UnbondingDelegationEntry.message; UnbondingDelegation.message; RedelegationEntry.message;
   Redelegation.message; Params.message; DelegationResponse.message;
   RedelegationEntryResponse.message; RedelegationResponse.message; Pool.message;
   LastValidatorPower.message; GenesisState.message; StakeAuthorization_Validators.message;
   StakeAuthorization.message; MsgCreateValidator.message; MsgCreateValidatorResponse.message;
   MsgEditValidator.message; MsgEditValidatorResponse.message; MsgDelegate.message;
   MsgDelegateResponse.message; MsgBeginRedelegate.message; MsgBeginRedelegateResponse.message;
   MsgUndelegate.message; MsgUndelegateResponse.message].

Lemma StakingTypes_lawful {PB : Protobuf} {PS : ProtobufSpec PB} : Forall Lawful messages.
Proof. solve_table. Qed.

(** The methods of [MsgClientImpl]. *)
Definition msg_methods {PB : Protobuf} {PS : ProtobufSpec PB} : list rpc_method :=
  [mkMethod "cosmos.staking.v1beta1.Msg" "CreateValidator"
     MsgCreateValidator.message MsgCreateValidatorResponse.message
     (fun rpc => MsgClientImpl.CreateValidator rpc);
   mkMethod "cosmos.staking.v1beta1.Msg" "EditValidator"
     MsgEditValidator.message MsgEditValidatorResponse.message
     (fun rpc => MsgClientImpl.EditValidator rpc);
   mkMethod "cosmos.staking.v1beta1.Msg" "Delegate"
     MsgDelegate.message MsgDelegateResponse.message
     (fun rpc => MsgClientImpl.Delegate rpc);
   mkMethod "cosmos.staking.v1beta1.Msg" "BeginRedelegate"
     MsgBeginRedelegate.message MsgBeginRedelegateResponse.message
     (fun rpc => MsgClientImpl.BeginRedelegate rpc);
   mkMethod "cosmos.staking.v1beta1.Msg" "Undelegate"
     MsgUndelegate.message MsgUndelegateResponse.message
     (fun rpc => MsgClientImpl.Undelegate rpc)].

Lemma StakingTypes_msg_methods_lawful {PB : Protobuf} {PS : ProtobufSpec PB} : Forall method_lawful msg_methods.
Proof. solve_methods. Qed.
