(* ===== verification/StakingQuery.v ===== *)
(** * The query messages of the staking module of the Cosmos SDK

    The codecs and the RPC client of
    [cosmos.staking.v1beta1/module/types/cosmos/staking/v1beta1/query.js]. *)
From S2P Require Import Prelude Js Protobuf Codec Calendar Dates Base64 Fallible Proto3 MessageTable CommonTypes CosmosBase TendermintTypes StakingTypes.
Open Scope Z_scope.

(** ** [QueryValidatorsRequest] (cosmos/staking/v1beta1/query.js) *)

Module QueryValidatorsRequest.

Record t := mk {
  status : string;
  pagination : option PageRequest.t;
}.

#[global] Instance t_eta : Settable t := λ m, mk m.(status) m.(pagination).

Definition base : t := mk "" None.

Definition encode {PB : Protobuf} (message : t) (writer : Writer) : result Writer :=
  Ok writer
  @>= pure (when (str_neq message.(status) "") (fun w => w @> uint32 10 @> string_ message.(status)))
  @>= defined_e message.(pagination) (submessage 18 PageRequest.encode).

Definition decode_field {PB : Protobuf} (tag : Z) (message : t) : RM t :=
  match field_number tag with
  | 1 => v ← read_string; mret (message <| status := v |>)
  | 2 => v ← read_nested PageRequest.decode; mret (message <| pagination := Some v |>)
  | _ => _ ← skipType (wire_type tag); mret message
  end.

Definition decode {PB : Protobuf} (length : option Z) : RM t :=
  decode_message length base decode_field.

Definition fromJSON (object : js) : result t :=
  status' ← field_or object "status" to_string "";
  pagination' ← field_or object "pagination" (to_some PageRequest.fromJSON) None;
  Ok (mk status' pagination').

Definition toJSON (message : t) : js :=
  Obj ([("status", Str message.(status))] ++
   prop_opt "pagination" PageRequest.toJSON message.(pagination)).

Record partial := mkPartial {
  p_status : option string;
  p_pagination : option PageRequest.partial;
}.

Definition fromPartial (object : partial) : t := {|
  status := object.(p_status) ?? "";
  pagination := PageRequest.fromPartial <$> object.(p_pagination);
|}.

(** The object with no property given. *)
Definition nothing : partial := mkPartial None None.

(** The bytes [encode] writes. *)
Definition wire {PB : Protobuf} {PS : ProtobufSpec PB} (m : t) : bytes :=
  f_string 10 m.(status) ++
  f_message 18 PageRequest.wire m.(pagination).

Definition valid (m : t) : Prop :=
  from_option PageRequest.valid True m.(pagination).

(** The byte fields hold arrays, as the interface declares. *)
Definition typed (m : t) : bool := from_option PageRequest.typed true m.(pagination).

(** The message without its empty byte arrays. *)
Definition normal (m : t) : t := {|
  status := m.(status);
  pagination := PageRequest.normal <$> m.(pagination);
|}.

Definition encodable {PB : Protobuf} {PS : ProtobufSpec PB} (m : t) : Prop :=
  typed m = true ∧ valid m ∧ small (wire m).

Definition merge (m a : t) : t := {|
  status := later_string m.(status) a.(status);
  pagination := later_message m.(pagination) (PageRequest.normal <$> a.(pagination));
|}.

(** A whole message seen as a partial one. *)
Definition full (m : t) : partial := {|
  p_status := Some m.(status);
  p_pagination := PageRequest.full <$> m.(pagination);
|}.

(** The message as its schema declares it. *)
Definition schema (m : t) : list field :=
  [implicit 1 (VString m.(status));
   singular 2 Optional (message_value PageRequest.schema) m.(pagination)].

(** The message with its default for every property that is not kept. *)
Definition only (kept : string → bool) (m : t) : t := {|
  status := if kept "status" then m.(status) else "";
  pagination := if kept "pagination" then m.(pagination) else None;
|}.

#[global] Instance codec {PB : Protobuf} : FallibleCodec t :=
  {| fmsg_base := base; fmsg_encode := encode; fmsg_field := decode_field |}.

#[global] Program Instance spec {PB : Protobuf} (PS : ProtobufSpec PB) : FallibleSpec PS t :=
  {| fmsg_wire := wire; fmsg_valid := valid; fmsg_typed := typed; fmsg_normal := normal;
     fmsg_merge := merge |}.
Next Obligation. solve_fencode_wire. Qed.
Next Obligation. intros. solve_fencode_throws encode typed. Qed.
Next Obligation. solve_fdecode_wire. Qed.
Next Obligation. solve_fmerge_base. Qed.
Next Obligation. intros. solve_fadvances decode_field. Qed.

#[global] Program Instance given_ : FalliblePartial t partial :=
  {| fmsg_fromPartial := fromPartial; fmsg_full := full; fmsg_given := typed |}.
Next Obligation. solve_fgiven fromPartial typed. Qed.
Next Obligation. solve_fpartial fromPartial full typed. Qed.

#[global] Program Instance json : FallibleJson t :=
  {| fmsg_fromJSON := fromJSON; fmsg_toJSON := toJSON;
     fmsg_named := fun _ => true; fmsg_known := fun m => m |}.
Next Obligation. solve_fjson fromJSON toJSON. Qed.
Next Obligation. reflexivity. Qed.

#[global] Instance schema_wire {PB : Protobuf} {PS : ProtobufSpec PB} : WireSchema wire schema.
Proof. solve_schema_wire wire schema. Qed.

#[global] Instance schema_normal : NormalSchema normal schema.
Proof. solve_schema_normal normal schema. Qed.

#[global] Instance schema_merge : MergeSchema merge schema.
Proof. solve_schema_merge merge schema. Qed.

(** Its row in the table of message types. *)
Definition message {PB : Protobuf} {PS : ProtobufSpec PB} : message_type :=
  fallible_message "QueryValidatorsRequest" nothing true schema only.

#[global] Instance message_lawful {PB : Protobuf} (PS : ProtobufSpec PB) : Lawful message.
Proof. solve_lawful decode_field fromJSON only. Qed.

End QueryValidatorsRequest.

(** ** [QueryValidatorsResponse] (cosmos/staking/v1beta1/query.js) *)

Module QueryValidatorsResponse.

Record t := mk {
  validators : list Validator.t;
  pagination : option PageResponse.t;
}.

#[global] Instance t_eta : Settable t := λ m, mk m.(validators) m.(pagination).

Definition base : t := mk [] None.

Definition encode {PB : Protobuf} (message : t) (writer : Writer) : result Writer :=
  Ok writer
  @>= each_e message.(validators) (submessage 10 Validator.encode)
  @>= defined_e message.(pagination) (submessage 18 PageResponse.encode).

Definition decode_field {PB : Protobuf} (tag : Z) (message : t) : RM t :=
  match field_number tag with
  | 1 => v ← read_nested Validator.decode;
         mret (message <| validators := message.(validators) ++ [v] |>)
  | 2 => v ← read_nested PageResponse.decode; mret (message <| pagination := Some v |>)
  | _ => _ ← skipType (wire_type tag); mret message
  end.

Definition decode {PB : Protobuf} (length : option Z) : RM t :=
  decode_message length base decode_field.

Definition fromJSON (object : js) : result t :=
  validators' ← field_or object "validators" (to_list Validator.fromJSON) [];
  pagination' ← field_or object "pagination" (to_some PageResponse.fromJSON) None;
  Ok (mk validators' pagination').

Definition toJSON (message : t) : result js :=
  validators' ← result_map Validator.toJSON message.(validators);
  Ok (Obj ([("validators", Arr validators')] ++
   prop_opt "pagination" PageResponse.toJSON message.(pagination))).

Record partial := mkPartial {
  p_validators : option (list Validator.partial);
  p_pagination : option PageResponse.partial;
}.

Definition fromPartial (object : partial) : t := {|
  validators := map Validator.fromPartial (object.(p_validators) ?? []);
  pagination := PageResponse.fromPartial <$> object.(p_pagination);
|}.

(** The object with no property given. *)
Definition nothing : partial := mkPartial None None.

(** The bytes [encode] writes. *)
Definition wire {PB : Protobuf} {PS : ProtobufSpec PB} (m : t) : bytes :=
  f_repeated 10 Validator.wire m.(validators) ++
  f_message 18 PageResponse.wire m.(pagination).

Definition valid (m : t) : Prop :=
  Forall Validator.valid m.(validators) ∧ from_option PageResponse.valid True m.(pagination).

(** The byte fields hold arrays, as the interface declares. *)
Definition typed (m : t) : bool := forallb Validator.typed m.(validators) && from_option PageResponse.typed true m.(pagination).

(** The message without its empty byte arrays. *)
Definition normal (m : t) : t := {|
  validators := map Validator.normal m.(validators);
  pagination := PageResponse.normal <$> m.(pagination);
|}.

(** The dates are valid. *)
Definition timed (m : t) : bool := forallb Validator.timed m.(validators).

(** The enumeration fields hold members. *)
Definition named (m : t) : bool := forallb Validator.named m.(validators).

(** The message with the numbers [toJSON] does not know replaced. *)
Definition known (m : t) : t := {|
  validators := map Validator.known m.(validators);
  pagination := m.(pagination);
|}.

Definition encodable {PB : Protobuf} {PS : ProtobufSpec PB} (m : t) : Prop :=
  typed m = true ∧ valid m ∧ small (wire m).

Definition merge (m a : t) : t := {|
  validators := m.(validators) ++ map Validator.normal a.(validators);
  pagination := later_message m.(pagination) (PageResponse.normal <$> a.(pagination));
|}.

(** A whole message seen as a partial one. *)
Definition full (m : t) : partial := {|
  p_validators := Some (map Validator.full m.(validators));
  p_pagination := PageResponse.full <$> m.(pagination);
|}.

(** The message as its schema declares it. *)
Definition schema (m : t) : list field :=
  [repeated 1 (message_value Validator.schema) m.(validators);
   singular 2 Optional (message_value PageResponse.schema) m.(pagination)].

(** The message with its default for every property that is not kept. *)
Definition only (kept : string → bool) (m : t) : t := {|
  validators := if kept "validators" then m.(validators) else [];
  pagination := if kept "pagination" then m.(pagination) else None;
|}.

#[global] Instance codec {PB : Protobuf} : FallibleCodec t :=
  {| fmsg_base := base; fmsg_encode := encode; fmsg_field := decode_field |}.

#[global] Program Instance spec {PB : Protobuf} (PS : ProtobufSpec PB) : FallibleSpec PS t :=
  {| fmsg_wire := wire; fmsg_valid := valid; fmsg_typed := typed; fmsg_normal := normal;
     fmsg_merge := merge |}.
Next Obligation. solve_fencode_wire. Qed.
Next Obligation. intros. solve_fencode_throws encode typed. Qed.
Next Obligation. solve_fdecode_wire. Qed.
Next Obligation. solve_fmerge_base. Qed.
Next Obligation. intros. solve_fadvances decode_field. Qed.

#[global] Program Instance given_ : FalliblePartial t partial :=
  {| fmsg_fromPartial := fromPartial; fmsg_full := full; fmsg_given := typed |}.
Next Obligation. solve_fgiven fromPartial typed. Qed.
Next Obligation. solve_fpartial fromPartial full typed. Qed.

#[global] Program Instance json : DatedJson t :=
  {| dmsg_fromJSON := fromJSON; dmsg_toJSON := toJSON; dmsg_timed := timed;
     dmsg_named := named; dmsg_known := known |}.
Next Obligation. solve_djson fromJSON toJSON timed. Qed.
Next Obligation. solve_dthrows toJSON timed. Qed.
Next Obligation. solve_known named known. Qed.

#[global] Instance schema_wire {PB : Protobuf} {PS : ProtobufSpec PB} : WireSchema wire schema.
Proof. solve_schema_wire wire schema. Qed.

#[global] Instance schema_normal : NormalSchema normal schema.
Proof. solve_schema_normal normal schema. Qed.

#[global] Instance schema_merge : MergeSchema merge schema.
Proof. solve_schema_merge merge schema. Qed.

(** Its row in the table of message types. *)
Definition message {PB : Protobuf} {PS : ProtobufSpec PB} : message_type :=
  dated_message "QueryValidatorsResponse" nothing true schema only.

#[global] Instance message_lawful {PB : Protobuf} (PS : ProtobufSpec PB) : Lawful message.
Proof. solve_lawful decode_field fromJSON only. Qed.

End QueryValidatorsResponse.

(** ** [QueryValidatorRequest] (cosmos/staking/v1beta1/query.js) *)

Module QueryValidatorRequest.

Record t := mk {
  validatorAddr : string;
}.

#[global] Instance t_eta : Settable t := λ m, mk m.(validatorAddr).

Definition base : t := mk "".

Definition encode {PB : Protobuf} (message : t) (writer : Writer) : Writer :=
  writer
  @> when (str_neq message.(validatorAddr) "")
       (fun w => w @> uint32 10 @> string_ message.(validatorAddr)).

Definition decode_field {PB : Protobuf} (tag : Z) (message : t) : RM t :=
  match field_number tag with
  | 1 => v ← read_string; mret (message <| validatorAddr := v |>)
  | _ => _ ← skipType (wire_type tag); mret message
  end.

Definition decode {PB : Protobuf} (length : option Z) : RM t :=
  decode_message length base decode_field.

Definition fromJSON (object : js) : result t :=
  validatorAddr' ← field_or object "validatorAddr" to_string "";
  Ok (mk validatorAddr').

Definition toJSON (message : t) : js :=
  Obj ([("validatorAddr", Str message.(validatorAddr))]).

Record partial := mkPartial {
  p_validatorAddr : option string;
}.

Definition fromPartial (object : partial) : t := {|
  validatorAddr := object.(p_validatorAddr) ?? "";
|}.

(** The object with no property given. *)
Definition nothing : partial := mkPartial None.

(** The bytes [encode] writes. *)
Definition wire {PB : Protobuf} {PS : ProtobufSpec PB} (m : t) : bytes :=
  f_string 10 m.(validatorAddr).

Definition valid (m : t) : Prop :=
  True.

Definition encodable {PB : Protobuf} {PS : ProtobufSpec PB} (m : t) : Prop :=
  valid m ∧ small (wire m).

Definition merge (m a : t) : t := {|
  validatorAddr := later_string m.(validatorAddr) a.(validatorAddr);
|}.

(** A whole message seen as a partial one. *)
Definition full (m : t) : partial := {|
  p_validatorAddr := Some m.(validatorAddr);
|}.

(** The message as its schema declares it. *)
Definition schema (m : t) : list field :=
  [implicit 1 (VString m.(validatorAddr))].

(** The message with its default for every property that is not kept. *)
Definition only (kept : string → bool) (m : t) : t := {|
  validatorAddr := if kept "validatorAddr" then m.(validatorAddr) else "";
|}.

#[global] Instance codec {PB : Protobuf} : MessageCodec t :=
  {| msg_base := base; msg_encode := encode; msg_field := decode_field |}.

#[global] Program Instance spec {PB : Protobuf} (PS : ProtobufSpec PB) : MessageSpec PS t :=
  {| msg_wire := wire; msg_valid := valid; msg_merge := merge |}.
Next Obligation. solve_encode_wire. Qed.
Next Obligation. solve_decode_wire. Qed.
Next Obligation. solve_merge_base. Qed.
Next Obligation. intros. solve_advances decode_field. Qed.

#[global] Program Instance data : MessageData t partial :=
  {| msg_fromJSON := fromJSON; msg_toJSON := toJSON;
     msg_fromPartial := fromPartial; msg_full := full |}.
Next Obligation. solve_json fromJSON toJSON. Qed.
Next Obligation. solve_partial fromPartial full. Qed.

#[global] Instance schema_wire {PB : Protobuf} {PS : ProtobufSpec PB} : WireSchema wire schema.
Proof. solve_schema_wire wire schema. Qed.

#[global] Instance schema_merge : MergeSchema merge schema.
Proof. solve_schema_merge merge schema. Qed.

(** Its row in the table of message types. *)
Definition message {PB : Protobuf} {PS : ProtobufSpec PB} : message_type :=
  plain_message "QueryValidatorRequest" nothing true schema only.

#[global] Instance message_lawful {PB : Protobuf} (PS : ProtobufSpec PB) : Lawful message.
Proof. solve_lawful decode_field fromJSON only. Qed.

End QueryValidatorRequest.

(** ** [QueryValidatorResponse] (cosmos/staking/v1beta1/query.js) *)

Module QueryValidatorResponse.

Record t := mk {
  validator : option Validator.t;
}.

#[global] Instance t_eta : Settable t := λ m, mk m.(validator).

Definition base : t := mk None.

Definition encode {PB : Protobuf} (message : t) (writer : Writer) : result Writer :=
  Ok writer
  @>= defined_e message.(validator) (submessage 10 Validator.encode).

Definition decode_field {PB : Protobuf} (tag : Z) (message : t) : RM t :=
  match field_number tag with
  | 1 => v ← read_nested Validator.decode; mret (message <| validator := Some v |>)
  | _ => _ ← skipType (wire_type tag); mret message
  end.

Definition decode {PB : Protobuf} (length : option Z) : RM t :=
  decode_message length base decode_field.

Definition fromJSON (object : js) : result t :=
  validator' ← field_or object "validator" (to_some Validator.fromJSON) None;
  Ok (mk validator').

Definition toJSON (message : t) : result js :=
  validator' ← option_result Validator.toJSON message.(validator);
  Ok (Obj (prop_opt "validator" id validator')).

Record partial := mkPartial {
  p_validator : option Validator.partial;
}.

Definition fromPartial (object : partial) : t := {|
  validator := Validator.fromPartial <$> object.(p_validator);
|}.

(** The object with no property given. *)
Definition nothing : partial := mkPartial None.

(** The bytes [encode] writes. *)
Definition wire {PB : Protobuf} {PS : ProtobufSpec PB} (m : t) : bytes :=
  f_message 10 Validator.wire m.(validator).

Definition valid (m : t) : Prop :=
  from_option Validator.valid True m.(validator).

(** The byte fields hold arrays, as the interface declares. *)
Definition typed (m : t) : bool := from_option Validator.typed true m.(validator).

(** The message without its empty byte arrays. *)
Definition normal (m : t) : t := {|
  validator := Validator.normal <$> m.(validator);
|}.

(** The dates are valid. *)
Definition timed (m : t) : bool := from_option Validator.timed true m.(validator).

(** The enumeration fields hold members. *)
Definition named (m : t) : bool := from_option Validator.named true m.(validator).

(** The message with the numbers [toJSON] does not know replaced. *)
Definition known (m : t) : t := {|
  validator := Validator.known <$> m.(validator);
|}.

Definition encodable {PB : Protobuf} {PS : ProtobufSpec PB} (m : t) : Prop :=
  typed m = true ∧ valid m ∧ small (wire m).

Definition merge (m a : t) : t := {|
  validator := later_message m.(validator) (Validator.normal <$> a.(validator));
|}.

(** A whole message seen as a partial one. *)
Definition full (m : t) : partial := {|
  p_validator := Validator.full <$> m.(validator);
|}.

(** The message as its schema declares it. *)
Definition schema (m : t) : list field :=
  [singular 1 Optional (message_value Validator.schema) m.(validator)].

(** The message with its default for every property that is not kept. *)
Definition only (kept : string → bool) (m : t) : t := {|
  validator := if kept "validator" then m.(validator) else None;
|}.

#[global] Instance codec {PB : Protobuf} : FallibleCodec t :=
  {| fmsg_base := base; fmsg_encode := encode; fmsg_field := decode_field |}.

#[global] Program Instance spec {PB : Protobuf} (PS : ProtobufSpec PB) : FallibleSpec PS t :=
  {| fmsg_wire := wire; fmsg_valid := valid; fmsg_typed := typed; fmsg_normal := normal;
     fmsg_merge := merge |}.
Next Obligation. solve_fencode_wire. Qed.
Next Obligation. intros. solve_fencode_throws encode typed. Qed.
Next Obligation. solve_fdecode_wire. Qed.
Next Obligation. solve_fmerge_base. Qed.
Next Obligation. intros. solve_fadvances decode_field. Qed.

#[global] Program Instance given_ : FalliblePartial t partial :=
  {| fmsg_fromPartial := fromPartial; fmsg_full := full; fmsg_given := typed |}.
Next Obligation. solve_fgiven fromPartial typed. Qed.
Next Obligation. solve_fpartial fromPartial full typed. Qed.

#[global] Program Instance json : DatedJson t :=
  {| dmsg_fromJSON := fromJSON; dmsg_toJSON := toJSON; dmsg_timed := timed;
     dmsg_named := named; dmsg_known := known |}.
Next Obligation. solve_djson fromJSON toJSON timed. Qed.
Next Obligation. solve_dthrows toJSON timed. Qed.
Next Obligation. solve_known named known. Qed.

#[global] Instance schema_wire {PB : Protobuf} {PS : ProtobufSpec PB} : WireSchema wire schema.
Proof. solve_schema_wire wire schema. Qed.

#[global] Instance schema_normal : NormalSchema normal schema.
Proof. solve_schema_normal normal schema. Qed.

#[global] Instance schema_merge : MergeSchema merge schema.
Proof. solve_schema_merge merge schema. Qed.

(** Its row in the table of message types. *)
Definition message {PB : Protobuf} {PS : ProtobufSpec PB} : message_type :=
  dated_message "QueryValidatorResponse" nothing true schema only.

#[global] Instance message_lawful {PB : Protobuf} (PS : ProtobufSpec PB) : Lawful message.
Proof. solve_lawful decode_field fromJSON only. Qed.

End QueryValidatorResponse.

(** ** [QueryValidatorDelegationsRequest] (cosmos/staking/v1beta1/query.js) *)

Module QueryValidatorDelegationsRequest.

Record t := mk {
  validatorAddr : string;
  pagination : option PageRequest.t;
}.

#[global] Instance t_eta : Settable t := λ m, mk m.(validatorAddr) m.(pagination).

Definition base : t := mk "" None.

Definition encode {PB : Protobuf} (message : t) (writer : Writer) : result Writer :=
  Ok writer
  @>= pure (when (str_neq message.(validatorAddr) "")
       (fun w => w @> uint32 10 @> string_ message.(validatorAddr)))
  @>= defined_e message.(pagination) (submessage 18 PageRequest.encode).

Definition decode_field {PB : Protobuf} (tag : Z) (message : t) : RM t :=
  match field_number tag with
  | 1 => v ← read_string; mret (message <| validatorAddr := v |>)
  | 2 => v ← read_nested PageRequest.decode; mret (message <| pagination := Some v |>)
  | _ => _ ← skipType (wire_type tag); mret message
  end.

Definition decode {PB : Protobuf} (length : option Z) : RM t :=
  decode_message length base decode_field.

Definition fromJSON (object : js) : result t :=
  validatorAddr' ← field_or object "validatorAddr" to_string "";
  pagination' ← field_or object "pagination" (to_some PageRequest.fromJSON) None;
  Ok (mk validatorAddr' pagination').

Definition toJSON (message : t) : js :=
  Obj ([("validatorAddr", Str message.(validatorAddr))] ++
   prop_opt "pagination" PageRequest.toJSON message.(pagination)).

Record partial := mkPartial {
  p_validatorAddr : option string;
  p_pagination : option PageRequest.partial;
}.

Definition fromPartial (object : partial) : t := {|
  validatorAddr := object.(p_validatorAddr) ?? "";
  pagination := PageRequest.fromPartial <$> object.(p_pagination);
|}.

(** The object with no property given. *)
Definition nothing : partial := mkPartial None None.

(** The bytes [encode] writes. *)
Definition wire {PB : Protobuf} {PS : ProtobufSpec PB} (m : t) : bytes :=
  f_string 10 m.(validatorAddr) ++
  f_message 18 PageRequest.wire m.(pagination).

Definition valid (m : t) : Prop :=
  from_option PageRequest.valid True m.(pagination).

(** The byte fields hold arrays, as the interface declares. *)
Definition typed (m : t) : bool := from_option PageRequest.typed true m.(pagination).

(** The message without its empty byte arrays. *)
Definition normal (m : t) : t := {|
  validatorAddr := m.(validatorAddr);
  pagination := PageRequest.normal <$> m.(pagination);
|}.

Definition encodable {PB : Protobuf} {PS : ProtobufSpec PB} (m : t) : Prop :=
  typed m = true ∧ valid m ∧ small (wire m).

Definition merge (m a : t) : t := {|
  validatorAddr := later_string m.(validatorAddr) a.(validatorAddr);
  pagination := later_message m.(pagination) (PageRequest.normal <$> a.(pagination));
|}.

(** A whole message seen as a partial one. *)
Definition full (m : t) : partial := {|
  p_validatorAddr := Some m.(validatorAddr);
  p_pagination := PageRequest.full <$> m.(pagination);
|}.

(** The message as its schema declares it. *)
Definition schema (m : t) : list field :=
  [implicit 1 (VString m.(validatorAddr));
   singular 2 Optional (message_value PageRequest.schema) m.(pagination)].

(** The message with its default for every property that is not kept. *)
Definition only (kept : string → bool) (m : t) : t := {|
  validatorAddr := if kept "validatorAddr" then m.(validatorAddr) else "";
  pagination := if kept "pagination" then m.(pagination) else None;
|}.

#[global] Instance codec {PB : Protobuf} : FallibleCodec t :=
  {| fmsg_base := base; fmsg_encode := encode; fmsg_field := decode_field |}.

#[global] Program Instance spec {PB : Protobuf} (PS : ProtobufSpec PB) : FallibleSpec PS t :=
  {| fmsg_wire := wire; fmsg_valid := valid; fmsg_typed := typed; fmsg_normal := normal;
     fmsg_merge := merge |}.
Next Obligation. solve_fencode_wire. Qed.
Next Obligation. intros. solve_fencode_throws encode typed. Qed.
Next Obligation. solve_fdecode_wire. Qed.
Next Obligation. solve_fmerge_base. Qed.
Next Obligation. intros. solve_fadvances decode_field. Qed.

#[global] Program Instance given_ : FalliblePartial t partial :=
  {| fmsg_fromPartial := fromPartial; fmsg_full := full; fmsg_given := typed |}.
Next Obligation. solve_fgiven fromPartial typed. Qed.
Next Obligation. solve_fpartial fromPartial full typed. Qed.

#[global] Program Instance json : FallibleJson t :=
  {| fmsg_fromJSON := fromJSON; fmsg_toJSON := toJSON;
     fmsg_named := fun _ => true; fmsg_known := fun m => m |}.
Next Obligation. solve_fjson fromJSON toJSON. Qed.
Next Obligation. reflexivity. Qed.

#[global] Instance schema_wire {PB : Protobuf} {PS : ProtobufSpec PB} : WireSchema wire schema.
Proof. solve_schema_wire wire schema. Qed.

#[global] Instance schema_normal : NormalSchema normal schema.
Proof. solve_schema_normal normal schema. Qed.

#[global] Instance schema_merge : MergeSchema merge schema.
Proof. solve_schema_merge merge schema. Qed.

(** Its row in the table of message types. *)
Definition message {PB : Protobuf} {PS : ProtobufSpec PB} : message_type :=
  fallible_message "QueryValidatorDelegationsRequest" nothing true schema only.

#[global] Instance message_lawful {PB : Protobuf} (PS : ProtobufSpec PB) : Lawful message.
Proof. solve_lawful decode_field fromJSON only. Qed.

End QueryValidatorDelegationsRequest.

(** ** [QueryValidatorDelegationsResponse] (cosmos/staking/v1beta1/query.js) *)

Module QueryValidatorDelegationsResponse.

Record t := mk {
  delegationResponses : list DelegationResponse.t;
  pagination : option PageResponse.t;
}.

#[global] Instance t_eta : Settable t := λ m, mk m.(delegationResponses) m.(pagination).

Definition base : t := mk [] None.

Definition encode {PB : Protobuf} (message : t) (writer : Writer) : result Writer :=
  Ok writer
  @>= pure (each message.(delegationResponses) (fun v w => w @> uint32 10 @> fork @> DelegationResponse.encode v @> ldelim))
  @>= defined_e message.(pagination) (submessage 18 PageResponse.encode).

Definition decode_field {PB : Protobuf} (tag : Z) (message : t) : RM t :=
  match field_number tag with
  | 1 => v ← read_nested DelegationResponse.decode;
         mret (message <| delegationResponses := message.(delegationResponses) ++ [v] |>)
  | 2 => v ← read_nested PageResponse.decode; mret (message <| pagination := Some v |>)
  | _ => _ ← skipType (wire_type tag); mret message
  end.

Definition decode {PB : Protobuf} (length : option Z) : RM t :=
  decode_message length base decode_field.

Definition fromJSON (object : js) : result t :=
  delegationResponses' ← field_or object "delegationResponses" (to_list DelegationResponse.fromJSON) [];
  pagination' ← field_or object "pagination" (to_some PageResponse.fromJSON) None;
  Ok (mk delegationResponses' pagination').

Definition toJSON (message : t) : js :=
  Obj ([("delegationResponses", Arr (map DelegationResponse.toJSON message.(delegationResponses)))] ++
   prop_opt "pagination" PageResponse.toJSON message.(pagination)).

Record partial := mkPartial {
  p_delegationResponses : option (list DelegationResponse.partial);
  p_pagination : option PageResponse.partial;
}.

Definition fromPartial (object : partial) : t := {|
  delegationResponses := map DelegationResponse.fromPartial (object.(p_delegationResponses) ?? []);
  pagination := PageResponse.fromPartial <$> object.(p_pagination);
|}.

(** The object with no property given. *)
Definition nothing : partial := mkPartial None None.

(** The bytes [encode] writes. *)
Definition wire {PB : Protobuf} {PS : ProtobufSpec PB} (m : t) : bytes :=
  f_repeated 10 DelegationResponse.wire m.(delegationResponses) ++
  f_message 18 PageResponse.wire m.(pagination).

Definition valid (m : t) : Prop :=
  Forall DelegationResponse.valid m.(delegationResponses) ∧ from_option PageResponse.valid True m.(pagination).

(** The byte fields hold arrays, as the interface declares. *)
Definition typed (m : t) : bool := from_option PageResponse.typed true m.(pagination).

(** The message without its empty byte arrays. *)
Definition normal (m : t) : t := {|
  delegationResponses := m.(delegationResponses);
  pagination := PageResponse.normal <$> m.(pagination);
|}.

Definition encodable {PB : Protobuf} {PS : ProtobufSpec PB} (m : t) : Prop :=
  typed m = true ∧ valid m ∧ small (wire m).

Definition merge (m a : t) : t := {|
  delegationResponses := m.(delegationResponses) ++ a.(delegationResponses);
  pagination := later_message m.(pagination) (PageResponse.normal <$> a.(pagination));
|}.

(** A whole message seen as a partial one. *)
Definition full (m : t) : partial := {|
  p_delegationResponses := Some (map DelegationResponse.full m.(delegationResponses));
  p_pagination := PageResponse.full <$> m.(pagination);
|}.

(** The message as its schema declares it. *)
Definition schema (m : t) : list field :=
  [repeated 1 (message_value DelegationResponse.schema) m.(delegationResponses);
   singular 2 Optional (message_value PageResponse.schema) m.(pagination)].

(** The message with its default for every property that is not kept. *)
Definition only (kept : string → bool) (m : t) : t := {|
  delegationResponses := if kept "delegationResponses" then m.(delegationResponses) else [];
  pagination := if kept "pagination" then m.(pagination) else None;
|}.

#[global] Instance codec {PB : Protobuf} : FallibleCodec t :=
  {| fmsg_base := base; fmsg_encode := encode; fmsg_field := decode_field |}.

#[global] Program Instance spec {PB : Protobuf} (PS : ProtobufSpec PB) : FallibleSpec PS t :=
  {| fmsg_wire := wire; fmsg_valid := valid; fmsg_typed := typed; fmsg_normal := normal;
     fmsg_merge := merge |}.
Next Obligation. solve_fencode_wire. Qed.
Next Obligation. intros. solve_fencode_throws encode typed. Qed.
Next Obligation. solve_fdecode_wire. Qed.
Next Obligation. solve_fmerge_base. Qed.
Next Obligation. intros. solve_fadvances decode_field. Qed.

#[global] Program Instance given_ : FalliblePartial t partial :=
  {| fmsg_fromPartial := fromPartial; fmsg_full := full; fmsg_given := typed |}.
Next Obligation. solve_fgiven fromPartial typed. Qed.
Next Obligation. solve_fpartial fromPartial full typed. Qed.

#[global] Program Instance json : FallibleJson t :=
  {| fmsg_fromJSON := fromJSON; fmsg_toJSON := toJSON;
     fmsg_named := fun _ => true; fmsg_known := fun m => m |}.
Next Obligation. solve_fjson fromJSON toJSON. Qed.
Next Obligation. reflexivity. Qed.

#[global] Instance schema_wire {PB : Protobuf} {PS : ProtobufSpec PB} : WireSchema wire schema.
Proof. solve_schema_wire wire schema. Qed.

#[global] Instance schema_normal : NormalSchema normal schema.
Proof. solve_schema_normal normal schema. Qed.

#[global] Instance schema_merge : MergeSchema merge schema.
Proof. solve_schema_merge merge schema. Qed.

(** Its row in the table of message types. *)
Definition message {PB : Protobuf} {PS : ProtobufSpec PB} : message_type :=
  fallible_message "QueryValidatorDelegationsResponse" nothing true schema only.

#[global] Instance message_lawful {PB : Protobuf} (PS : ProtobufSpec PB) : Lawful message.
Proof. solve_lawful decode_field fromJSON only. Qed.

End QueryValidatorDelegationsResponse.

(** ** [QueryValidatorUnbondingDelegationsRequest] (cosmos/staking/v1beta1/query.js) *)

Module QueryValidatorUnbondingDelegationsRequest.

Record t := mk {
  validatorAddr : string;
  pagination : option PageRequest.t;
}.

#[global] Instance t_eta : Settable t := λ m, mk m.(validatorAddr) m.(pagination).

Definition base : t := mk "" None.

Definition encode {PB : Protobuf} (message : t) (writer : Writer) : result Writer :=
  Ok writer
  @>= pure (when (str_neq message.(validatorAddr) "")
       (fun w => w @> uint32 10 @> string_ message.(validatorAddr)))
  @>= defined_e message.(pagination) (submessage 18 PageRequest.encode).

Definition decode_field {PB : Protobuf} (tag : Z) (message : t) : RM t :=
  match field_number tag with
  | 1 => v ← read_string; mret (message <| validatorAddr := v |>)
  | 2 => v ← read_nested PageRequest.decode; mret (message <| pagination := Some v |>)
  | _ => _ ← skipType (wire_type tag); mret message
  end.

Definition decode {PB : Protobuf} (length : option Z) : RM t :=
  decode_message length base decode_field.

Definition fromJSON (object : js) : result t :=
  validatorAddr' ← field_or object "validatorAddr" to_string "";
  pagination' ← field_or object "pagination" (to_some PageRequest.fromJSON) None;
  Ok (mk validatorAddr' pagination').

Definition toJSON (message : t) : js :=
  Obj ([("validatorAddr", Str message.(validatorAddr))] ++
   prop_opt "pagination" PageRequest.toJSON message.(pagination)).

Record partial := mkPartial {
  p_validatorAddr : option string;
  p_pagination : option PageRequest.partial;
}.

Definition fromPartial (object : partial) : t := {|
  validatorAddr := object.(p_validatorAddr) ?? "";
  pagination := PageRequest.fromPartial <$> object.(p_pagination);
|}.

(** The object with no property given. *)
Definition nothing : partial := mkPartial None None.

(** The bytes [encode] writes. *)
Definition wire {PB : Protobuf} {PS : ProtobufSpec PB} (m : t) : bytes :=
  f_string 10 m.(validatorAddr) ++
  f_message 18 PageRequest.wire m.(pagination).

Definition valid (m : t) : Prop :=
  from_option PageRequest.valid True m.(pagination).

(** The byte fields hold arrays, as the interface declares. *)
Definition typed (m : t) : bool := from_option PageRequest.typed true m.(pagination).

(** The message without its empty byte arrays. *)
Definition normal (m : t) : t := {|
  validatorAddr := m.(validatorAddr);
  pagination := PageRequest.normal <$> m.(pagination);
|}.

Definition encodable {PB : Protobuf} {PS : ProtobufSpec PB} (m : t) : Prop :=
  typed m = true ∧ valid m ∧ small (wire m).

Definition merge (m a : t) : t := {|
  validatorAddr := later_string m.(validatorAddr) a.(validatorAddr);
  pagination := later_message m.(pagination) (PageRequest.normal <$> a.(pagination));
|}.

(** A whole message seen as a partial one. *)
Definition full (m : t) : partial := {|
  p_validatorAddr := Some m.(validatorAddr);
  p_pagination := PageRequest.full <$> m.(pagination);
|}.

(** The message as its schema declares it. *)
Definition schema (m : t) : list field :=
  [implicit 1 (VString m.(validatorAddr));
   singular 2 Optional (message_value PageRequest.schema) m.(pagination)].

(** The message with its default for every property that is not kept. *)
Definition only (kept : string → bool) (m : t) : t := {|
  validatorAddr := if kept "validatorAddr" then m.(validatorAddr) else "";
  pagination := if kept "pagination" then m.(pagination) else None;
|}.

#[global] Instance codec {PB : Protobuf} : FallibleCodec t :=
  {| fmsg_base := base; fmsg_encode := encode; fmsg_field := decode_field |}.

#[global] Program Instance spec {PB : Protobuf} (PS : ProtobufSpec PB) : FallibleSpec PS t :=
  {| fmsg_wire := wire; fmsg_valid := valid; fmsg_typed := typed; fmsg_normal := normal;
     fmsg_merge := merge |}.
Next Obligation. solve_fencode_wire. Qed.
Next Obligation. intros. solve_fencode_throws encode typed. Qed.
Next Obligation. solve_fdecode_wire. Qed.
Next Obligation. solve_fmerge_base. Qed.
Next Obligation. intros. solve_fadvances decode_field. Qed.

#[global] Program Instance given_ : FalliblePartial t partial :=
  {| fmsg_fromPartial := fromPartial; fmsg_full := full; fmsg_given := typed |}.
Next Obligation. solve_fgiven fromPartial typed. Qed.
Next Obligation. solve_fpartial fromPartial full typed. Qed.

#[global] Program Instance json : FallibleJson t :=
  {| fmsg_fromJSON := fromJSON; fmsg_toJSON := toJSON;
     fmsg_named := fun _ => true; fmsg_known := fun m => m |}.
Next Obligation. solve_fjson fromJSON toJSON. Qed.
Next Obligation. reflexivity. Qed.

#[global] Instance schema_wire {PB : Protobuf} {PS : ProtobufSpec PB} : WireSchema wire schema.
Proof. solve_schema_wire wire schema. Qed.

#[global] Instance schema_normal : NormalSchema normal schema.
Proof. solve_schema_normal normal schema. Qed.

#[global] Instance schema_merge : MergeSchema merge schema.
Proof. solve_schema_merge merge schema. Qed.

(** Its row in the table of message types. *)
Definition message {PB : Protobuf} {PS : ProtobufSpec PB} : message_type :=
  fallible_message "QueryValidatorUnbondingDelegationsRequest" nothing true schema only.

#[global] Instance message_lawful {PB : Protobuf} (PS : ProtobufSpec PB) : Lawful message.
Proof. solve_lawful decode_field fromJSON only. Qed.

End QueryValidatorUnbondingDelegationsRequest.

(** ** [QueryValidatorUnbondingDelegationsResponse] (cosmos/staking/v1beta1/query.js) *)

Module QueryValidatorUnbondingDelegationsResponse.

Record t := mk {
  unbondingResponses : list UnbondingDelegation.t;
  pagination : option PageResponse.t;
}.

#[global] Instance t_eta : Settable t := λ m, mk m.(unbondingResponses) m.(pagination).

Definition base : t := mk [] None.

Definition encode {PB : Protobuf} (message : t) (writer : Writer) : result Writer :=
  Ok writer
  @>= each_e message.(unbondingResponses) (submessage 10 UnbondingDelegation.encode)
  @>= defined_e message.(pagination) (submessage 18 PageResponse.encode).

Definition decode_field {PB : Protobuf} (tag : Z) (message : t) : RM t :=
  match field_number tag with
  | 1 => v ← read_nested UnbondingDelegation.decode;
         mret (message <| unbondingResponses := message.(unbondingResponses) ++ [v] |>)
  | 2 => v ← read_nested PageResponse.decode; mret (message <| pagination := Some v |>)
  | _ => _ ← skipType (wire_type tag); mret message
  end.

Definition decode {PB : Protobuf} (length : option Z) : RM t :=
  decode_message length base decode_field.

Definition fromJSON (object : js) : result t :=
  unbondingResponses' ← field_or object "unbondingResponses" (to_list UnbondingDelegation.fromJSON) [];
  pagination' ← field_or object "pagination" (to_some PageResponse.fromJSON) None;
  Ok (mk unbondingResponses' pagination').

Definition toJSON (message : t) : result js :=
  unbondingResponses' ← result_map UnbondingDelegation.toJSON message.(unbondingResponses);
  Ok (Obj ([("unbondingResponses", Arr unbondingResponses')] ++
   prop_opt "pagination" PageResponse.toJSON message.(pagination))).

Record partial := mkPartial {
  p_unbondingResponses : option (list UnbondingDelegation.partial);
  p_pagination : option PageResponse.partial;
}.

Definition fromPartial (object : partial) : t := {|
  unbondingResponses := map UnbondingDelegation.fromPartial (object.(p_unbondingResponses) ?? []);
  pagination := PageResponse.fromPartial <$> object.(p_pagination);
|}.

(** The object with no property given. *)
Definition nothing : partial := mkPartial None None.

(** The bytes [encode] writes. *)
Definition wire {PB : Protobuf} {PS : ProtobufSpec PB} (m : t) : bytes :=
  f_repeated 10 UnbondingDelegation.wire m.(unbondingResponses) ++
  f_message 18 PageResponse.wire m.(pagination).

Definition valid (m : t) : Prop :=
  Forall UnbondingDelegation.valid m.(unbondingResponses) ∧ from_option PageResponse.valid True m.(pagination).

(** The byte fields hold arrays, as the interface declares. *)
Definition typed (m : t) : bool := forallb UnbondingDelegation.typed m.(unbondingResponses) && from_option PageResponse.typed true m.(pagination).

(** The message without its empty byte arrays. *)
Definition normal (m : t) : t := {|
  unbondingResponses := map UnbondingDelegation.normal m.(unbondingResponses);
  pagination := PageResponse.normal <$> m.(pagination);
|}.

(** The dates are valid. *)
Definition timed (m : t) : bool := forallb UnbondingDelegation.timed m.(unbondingResponses).

Definition encodable {PB : Protobuf} {PS : ProtobufSpec PB} (m : t) : Prop :=
  typed m = true ∧ valid m ∧ small (wire m).

Definition merge (m a : t) : t := {|
  unbondingResponses := m.(unbondingResponses) ++ map UnbondingDelegation.normal a.(unbondingResponses);
  pagination := later_message m.(pagination) (PageResponse.normal <$> a.(pagination));
|}.

(** A whole message seen as a partial one. *)
Definition full (m : t) : partial := {|
  p_unbondingResponses := Some (map UnbondingDelegation.full m.(unbondingResponses));
  p_pagination := PageResponse.full <$> m.(pagination);
|}.

(** The message as its schema declares it. *)
Definition schema (m : t) : list field :=
  [repeated 1 (message_value UnbondingDelegation.schema) m.(unbondingResponses);
   singular 2 Optional (message_value PageResponse.schema) m.(pagination)].

(** The message with its default for every property that is not kept. *)
Definition only (kept : string → bool) (m : t) : t := {|
  unbondingResponses := if kept "unbondingResponses" then m.(unbondingResponses) else [];
  pagination := if kept "pagination" then m.(pagination) else None;
|}.

#[global] Instance codec {PB : Protobuf} : FallibleCodec t :=
  {| fmsg_base := base; fmsg_encode := encode; fmsg_field := decode_field |}.

#[global] Program Instance spec {PB : Protobuf} (PS : ProtobufSpec PB) : FallibleSpec PS t :=
  {| fmsg_wire := wire; fmsg_valid := valid; fmsg_typed := typed; fmsg_normal := normal;
     fmsg_merge := merge |}.
Next Obligation. solve_fencode_wire. Qed.
Next Obligation. intros. solve_fencode_throws encode typed. Qed.
Next Obligation. solve_fdecode_wire. Qed.
Next Obligation. solve_fmerge_base. Qed.
Next Obligation. intros. solve_fadvances decode_field. Qed.

#[global] Program Instance given_ : FalliblePartial t partial :=
  {| fmsg_fromPartial := fromPartial; fmsg_full := full; fmsg_given := typed |}.
Next Obligation. solve_fgiven fromPartial typed. Qed.
Next Obligation. solve_fpartial fromPartial full typed. Qed.

#[global] Program Instance json : DatedJson t :=
  {| dmsg_fromJSON := fromJSON; dmsg_toJSON := toJSON; dmsg_timed := timed;
     dmsg_named := fun _ => true; dmsg_known := fun m => m |}.
Next Obligation. solve_djson fromJSON toJSON timed. Qed.
Next Obligation. solve_dthrows toJSON timed. Qed.
Next Obligation. reflexivity. Qed.

#[global] Instance schema_wire {PB : Protobuf} {PS : ProtobufSpec PB} : WireSchema wire schema.
Proof. solve_schema_wire wire schema. Qed.

#[global] Instance schema_normal : NormalSchema normal schema.
Proof. solve_schema_normal normal schema. Qed.

#[global] Instance schema_merge : MergeSchema merge schema.
Proof. solve_schema_merge merge schema. Qed.

(** Its row in the table of message types. *)
Definition message {PB : Protobuf} {PS : ProtobufSpec PB} : message_type :=
  dated_message "QueryValidatorUnbondingDelegationsResponse" nothing true schema only.

#[global] Instance message_lawful {PB : Protobuf} (PS : ProtobufSpec PB) : Lawful message.
Proof. solve_lawful decode_field fromJSON only. Qed.

End QueryValidatorUnbondingDelegationsResponse.

(** ** [QueryDelegationRequest] (cosmos/staking/v1beta1/query.js) *)

Module QueryDelegationRequest.

Record t := mk {
  delegatorAddr : string;
  validatorAddr : string;
}.

#[global] Instance t_eta : Settable t := λ m, mk m.(delegatorAddr) m.(validatorAddr).

Definition base : t := mk "" "".

Definition encode {PB : Protobuf} (message : t) (writer : Writer) : Writer :=
  writer
  @> when (str_neq message.(delegatorAddr) "")
       (fun w => w @> uint32 10 @> string_ message.(delegatorAddr))
  @> when (str_neq message.(validatorAddr) "")
       (fun w => w @> uint32 18 @> string_ message.(validatorAddr)).

Definition decode_field {PB : Protobuf} (tag : Z) (message : t) : RM t :=
  match field_number tag with
  | 1 => v ← read_string; mret (message <| delegatorAddr := v |>)
  | 2 => v ← read_string; mret (message <| validatorAddr := v |>)
  | _ => _ ← skipType (wire_type tag); mret message
  end.

Definition decode {PB : Protobuf} (length : option Z) : RM t :=
  decode_message length base decode_field.

Definition fromJSON (object : js) : result t :=
  delegatorAddr' ← field_or object "delegatorAddr" to_string "";
  validatorAddr' ← field_or object "validatorAddr" to_string "";
  Ok (mk delegatorAddr' validatorAddr').

Definition toJSON (message : t) : js :=
  Obj ([("delegatorAddr", Str message.(delegatorAddr));
    ("validatorAddr", Str message.(validatorAddr))]).

Record partial := mkPartial {
  p_delegatorAddr : option string;
  p_validatorAddr : option string;
}.

Definition fromPartial (object : partial) : t := {|
  delegatorAddr := object.(p_delegatorAddr) ?? "";
  validatorAddr := object.(p_validatorAddr) ?? "";
|}.

(** The object with no property given. *)
Definition nothing : partial := mkPartial None None.

(** The bytes [encode] writes. *)
Definition wire {PB : Protobuf} {PS : ProtobufSpec PB} (m : t) : bytes :=
  f_string 10 m.(delegatorAddr) ++
  f_string 18 m.(validatorAddr).

Definition valid (m : t) : Prop :=
  True.

Definition encodable {PB : Protobuf} {PS : ProtobufSpec PB} (m : t) : Prop :=
  valid m ∧ small (wire m).

Definition merge (m a : t) : t := {|
  delegatorAddr := later_string m.(delegatorAddr) a.(delegatorAddr);
  validatorAddr := later_string m.(validatorAddr) a.(validatorAddr);
|}.

(** A whole message seen as a partial one. *)
Definition full (m : t) : partial := {|
  p_delegatorAddr := Some m.(delegatorAddr);
  p_validatorAddr := Some m.(validatorAddr);
|}.

(** The message as its schema declares it. *)
Definition schema (m : t) : list field :=
  [implicit 1 (VString m.(delegatorAddr));
   implicit 2 (VString m.(validatorAddr))].

(** The message with its default for every property that is not kept. *)
Definition only (kept : string → bool) (m : t) : t := {|
  delegatorAddr := if kept "delegatorAddr" then m.(delegatorAddr) else "";
  validatorAddr := if kept "validatorAddr" then m.(validatorAddr) else "";
|}.

#[global] Instance codec {PB : Protobuf} : MessageCodec t :=
  {| msg_base := base; msg_encode := encode; msg_field := decode_field |}.

#[global] Program Instance spec {PB : Protobuf} (PS : ProtobufSpec PB) : MessageSpec PS t :=
  {| msg_wire := wire; msg_valid := valid; msg_merge := merge |}.
Next Obligation. solve_encode_wire. Qed.
Next Obligation. solve_decode_wire. Qed.
Next Obligation. solve_merge_base. Qed.
Next Obligation. intros. solve_advances decode_field. Qed.

#[global] Program Instance data : MessageData t partial :=
  {| msg_fromJSON := fromJSON; msg_toJSON := toJSON;
     msg_fromPartial := fromPartial; msg_full := full |}.
Next Obligation. solve_json fromJSON toJSON. Qed.
Next Obligation. solve_partial fromPartial full. Qed.

#[global] Instance schema_wire {PB : Protobuf} {PS : ProtobufSpec PB} : WireSchema wire schema.
Proof. solve_schema_wire wire schema. Qed.

#[global] Instance schema_merge : MergeSchema merge schema.
Proof. solve_schema_merge merge schema. Qed.

(** Its row in the table of message types. *)
Definition message {PB : Protobuf} {PS : ProtobufSpec PB} : message_type :=
  plain_message "QueryDelegationRequest" nothing true schema only.

#[global] Instance message_lawful {PB : Protobuf} (PS : ProtobufSpec PB) : Lawful message.
Proof. solve_lawful decode_field fromJSON only. Qed.

End QueryDelegationRequest.

(** ** [QueryDelegationResponse] (cosmos/staking/v1beta1/query.js) *)

Module QueryDelegationResponse.

Record t := mk {
  delegationResponse : option DelegationResponse.t;
}.

#[global] Instance t_eta : Settable t := λ m, mk m.(delegationResponse).

Definition base : t := mk None.

Definition encode {PB : Protobuf} (message : t) (writer : Writer) : Writer :=
  writer
  @> defined message.(delegationResponse) (fun v w => w @> uint32 10 @> fork @> DelegationResponse.encode v @> ldelim).

Definition decode_field {PB : Protobuf} (tag : Z) (message : t) : RM t :=
  match field_number tag with
  | 1 => v ← read_nested DelegationResponse.decode;
         mret (message <| delegationResponse := Some v |>)
  | _ => _ ← skipType (wire_type tag); mret message
  end.

Definition decode {PB : Protobuf} (length : option Z) : RM t :=
  decode_message length base decode_field.

Definition fromJSON (object : js) : result t :=
  delegationResponse' ← field_or object "delegationResponse" (to_some DelegationResponse.fromJSON) None;
  Ok (mk delegationResponse').

Definition toJSON (message : t) : js :=
  Obj (prop_opt "delegationResponse" DelegationResponse.toJSON message.(delegationResponse)).

Record partial := mkPartial {
  p_delegationResponse : option DelegationResponse.partial;
}.

Definition fromPartial (object : partial) : t := {|
  delegationResponse := DelegationResponse.fromPartial <$> object.(p_delegationResponse);
|}.

(** The object with no property given. *)
Definition nothing : partial := mkPartial None.

(** The bytes [encode] writes. *)
Definition wire {PB : Protobuf} {PS : ProtobufSpec PB} (m : t) : bytes :=
  f_message 10 DelegationResponse.wire m.(delegationResponse).

Definition valid (m : t) : Prop :=
  from_option DelegationResponse.valid True m.(delegationResponse).

Definition encodable {PB : Protobuf} {PS : ProtobufSpec PB} (m : t) : Prop :=
  valid m ∧ small (wire m).

Definition merge (m a : t) : t := {|
  delegationResponse := later_message m.(delegationResponse) a.(delegationResponse);
|}.

(** A whole message seen as a partial one. *)
Definition full (m : t) : partial := {|
  p_delegationResponse := DelegationResponse.full <$> m.(delegationResponse);
|}.

(** The message as its schema declares it. *)
Definition schema (m : t) : list field :=
  [singular 1 Optional (message_value DelegationResponse.schema) m.(delegationResponse)].

(** The message with its default for every property that is not kept. *)
Definition only (kept : string → bool) (m : t) : t := {|
  delegationResponse := if kept "delegationResponse" then m.(delegationResponse) else None;
|}.

#[global] Instance codec {PB : Protobuf} : MessageCodec t :=
  {| msg_base := base; msg_encode := encode; msg_field := decode_field |}.

#[global] Program Instance spec {PB : Protobuf} (PS : ProtobufSpec PB) : MessageSpec PS t :=
  {| msg_wire := wire; msg_valid := valid; msg_merge := merge |}.
Next Obligation. solve_encode_wire. Qed.
Next Obligation. solve_decode_wire. Qed.
Next Obligation. solve_merge_base. Qed.
Next Obligation. intros. solve_advances decode_field. Qed.

#[global] Program Instance data : MessageData t partial :=
  {| msg_fromJSON := fromJSON; msg_toJSON := toJSON;
     msg_fromPartial := fromPartial; msg_full := full |}.
Next Obligation. solve_json fromJSON toJSON. Qed.
Next Obligation. solve_partial fromPartial full. Qed.

#[global] Instance schema_wire {PB : Protobuf} {PS : ProtobufSpec PB} : WireSchema wire schema.
Proof. solve_schema_wire wire schema. Qed.

#[global] Instance schema_merge : MergeSchema merge schema.
Proof. solve_schema_merge merge schema. Qed.

(** Its row in the table of message types. *)
Definition message {PB : Protobuf} {PS : ProtobufSpec PB} : message_type :=
  plain_message "QueryDelegationResponse" nothing true schema only.

#[global] Instance message_lawful {PB : Protobuf} (PS : ProtobufSpec PB) : Lawful message.
Proof. solve_lawful decode_field fromJSON only. Qed.

End QueryDelegationResponse.

(** ** [QueryUnbondingDelegationRequest] (cosmos/staking/v1beta1/query.js) *)

Module QueryUnbondingDelegationRequest.

Record t := mk {
  delegatorAddr : string;
  validatorAddr : string;
}.

#[global] Instance t_eta : Settable t := λ m, mk m.(delegatorAddr) m.(validatorAddr).

Definition base : t := mk "" "".

Definition encode {PB : Protobuf} (message : t) (writer : Writer) : Writer :=
  writer
  @> when (str_neq message.(delegatorAddr) "")
       (fun w => w @> uint32 10 @> string_ message.(delegatorAddr))
  @> when (str_neq message.(validatorAddr) "")
       (fun w => w @> uint32 18 @> string_ message.(validatorAddr)).

Definition decode_field {PB : Protobuf} (tag : Z) (message : t) : RM t :=
  match field_number tag with
  | 1 => v ← read_string; mret (message <| delegatorAddr := v |>)
  | 2 => v ← read_string; mret (message <| validatorAddr := v |>)
  | _ => _ ← skipType (wire_type tag); mret message
  end.

Definition decode {PB : Protobuf} (length : option Z) : RM t :=
  decode_message length base decode_field.

Definition fromJSON (object : js) : result t :=
  delegatorAddr' ← field_or object "delegatorAddr" to_string "";
  validatorAddr' ← field_or object "validatorAddr" to_string "";
  Ok (mk delegatorAddr' validatorAddr').

Definition toJSON (message : t) : js :=
  Obj ([("delegatorAddr", Str message.(delegatorAddr));
    ("validatorAddr", Str message.(validatorAddr))]).

Record partial := mkPartial {
  p_delegatorAddr : option string;
  p_validatorAddr : option string;
}.

Definition fromPartial (object : partial) : t := {|
  delegatorAddr := object.(p_delegatorAddr) ?? "";
  validatorAddr := object.(p_validatorAddr) ?? "";
|}.

(** The object with no property given. *)
Definition nothing : partial := mkPartial None None.

(** The bytes [encode] writes. *)
Definition wire {PB : Protobuf} {PS : ProtobufSpec PB} (m : t) : bytes :=
  f_string 10 m.(delegatorAddr) ++
  f_string 18 m.(validatorAddr).

Definition valid (m : t) : Prop :=
  True.

Definition encodable {PB : Protobuf} {PS : ProtobufSpec PB} (m : t) : Prop :=
  valid m ∧ small (wire m).

Definition merge (m a : t) : t := {|
  delegatorAddr := later_string m.(delegatorAddr) a.(delegatorAddr);
  validatorAddr := later_string m.(validatorAddr) a.(validatorAddr);
|}.

(** A whole message seen as a partial one. *)
Definition full (m : t) : partial := {|
  p_delegatorAddr := Some m.(delegatorAddr);
  p_validatorAddr := Some m.(validatorAddr);
|}.

(** The message as its schema declares it. *)
Definition schema (m : t) : list field :=
  [implicit 1 (VString m.(delegatorAddr));
   implicit 2 (VString m.(validatorAddr))].

(** The message with its default for every property that is not kept. *)
Definition only (kept : string → bool) (m : t) : t := {|
  delegatorAddr := if kept "delegatorAddr" then m.(delegatorAddr) else "";
  validatorAddr := if kept "validatorAddr" then m.(validatorAddr) else "";
|}.

#[global] Instance codec {PB : Protobuf} : MessageCodec t :=
  {| msg_base := base; msg_encode := encode; msg_field := decode_field |}.

#[global] Program Instance spec {PB : Protobuf} (PS : ProtobufSpec PB) : MessageSpec PS t :=
  {| msg_wire := wire; msg_valid := valid; msg_merge := merge |}.
Next Obligation. solve_encode_wire. Qed.
Next Obligation. solve_decode_wire. Qed.
Next Obligation. solve_merge_base. Qed.
Next Obligation. intros. solve_advances decode_field. Qed.

#[global] Program Instance data : MessageData t partial :=
  {| msg_fromJSON := fromJSON; msg_toJSON := toJSON;
     msg_fromPartial := fromPartial; msg_full := full |}.
Next Obligation. solve_json fromJSON toJSON. Qed.
Next Obligation. solve_partial fromPartial full. Qed.

#[global] Instance schema_wire {PB : Protobuf} {PS : ProtobufSpec PB} : WireSchema wire schema.
Proof. solve_schema_wire wire schema. Qed.

#[global] Instance schema_merge : MergeSchema merge schema.
Proof. solve_schema_merge merge schema. Qed.

(** Its row in the table of message types. *)
Definition message {PB : Protobuf} {PS : ProtobufSpec PB} : message_type :=
  plain_message "QueryUnbondingDelegationRequest" nothing true schema only.

#[global] Instance message_lawful {PB : Protobuf} (PS : ProtobufSpec PB) : Lawful message.
Proof. solve_lawful decode_field fromJSON only. Qed.

End QueryUnbondingDelegationRequest.

(** ** [QueryUnbondingDelegationResponse] (cosmos/staking/v1beta1/query.js) *)

Module QueryUnbondingDelegationResponse.

Record t := mk {
  unbond : option UnbondingDelegation.t;
}.

#[global] Instance t_eta : Settable t := λ m, mk m.(unbond).

Definition base : t := mk None.

Definition encode {PB : Protobuf} (message : t) (writer : Writer) : result Writer :=
  Ok writer
  @>= defined_e message.(unbond) (submessage 10 UnbondingDelegation.encode).

Definition decode_field {PB : Protobuf} (tag : Z) (message : t) : RM t :=
  match field_number tag with
  | 1 => v ← read_nested UnbondingDelegation.decode; mret (message <| unbond := Some v |>)
  | _ => _ ← skipType (wire_type tag); mret message
  end.

Definition decode {PB : Protobuf} (length : option Z) : RM t :=
  decode_message length base decode_field.

Definition fromJSON (object : js) : result t :=
  unbond' ← field_or object "unbond" (to_some UnbondingDelegation.fromJSON) None;
  Ok (mk unbond').

Definition toJSON (message : t) : result js :=
  unbond' ← option_result UnbondingDelegation.toJSON message.(unbond);
  Ok (Obj (prop_opt "unbond" id unbond')).

Record partial := mkPartial {
  p_unbond : option UnbondingDelegation.partial;
}.

Definition fromPartial (object : partial) : t := {|
  unbond := UnbondingDelegation.fromPartial <$> object.(p_unbond);
|}.

(** The object with no property given. *)
Definition nothing : partial := mkPartial None.

(** The bytes [encode] writes. *)
Definition wire {PB : Protobuf} {PS : ProtobufSpec PB} (m : t) : bytes :=
  f_message 10 UnbondingDelegation.wire m.(unbond).

Definition valid (m : t) : Prop :=
  from_option UnbondingDelegation.valid True m.(unbond).

(** The byte fields hold arrays, as the interface declares. *)
Definition typed (m : t) : bool := from_option UnbondingDelegation.typed true m.(unbond).

(** The message without its empty byte arrays. *)
Definition normal (m : t) : t := {|
  unbond := UnbondingDelegation.normal <$> m.(unbond);
|}.

(** The dates are valid. *)
Definition timed (m : t) : bool := from_option UnbondingDelegation.timed true m.(unbond).

Definition encodable {PB : Protobuf} {PS : ProtobufSpec PB} (m : t) : Prop :=
  typed m = true ∧ valid m ∧ small (wire m).

Definition merge (m a : t) : t := {|
  unbond := later_message m.(unbond) (UnbondingDelegation.normal <$> a.(unbond));
|}.

(** A whole message seen as a partial one. *)
Definition full (m : t) : partial := {|
  p_unbond := UnbondingDelegation.full <$> m.(unbond);
|}.

(** The message as its schema declares it. *)
Definition schema (m : t) : list field :=
  [singular 1 Optional (message_value UnbondingDelegation.schema) m.(unbond)].

(** The message with its default for every property that is not kept. *)
Definition only (kept : string → bool) (m : t) : t := {|
  unbond := if kept "unbond" then m.(unbond) else None;
|}.

#[global] Instance codec {PB : Protobuf} : FallibleCodec t :=
  {| fmsg_base := base; fmsg_encode := encode; fmsg_field := decode_field |}.

#[global] Program Instance spec {PB : Protobuf} (PS : ProtobufSpec PB) : FallibleSpec PS t :=
  {| fmsg_wire := wire; fmsg_valid := valid; fmsg_typed := typed; fmsg_normal := normal;
     fmsg_merge := merge |}.
Next Obligation. solve_fencode_wire. Qed.
Next Obligation. intros. solve_fencode_throws encode typed. Qed.
Next Obligation. solve_fdecode_wire. Qed.
Next Obligation. solve_fmerge_base. Qed.
Next Obligation. intros. solve_fadvances decode_field. Qed.

#[global] Program Instance given_ : FalliblePartial t partial :=
  {| fmsg_fromPartial := fromPartial; fmsg_full := full; fmsg_given := typed |}.
Next Obligation. solve_fgiven fromPartial typed. Qed.
Next Obligation. solve_fpartial fromPartial full typed. Qed.

#[global] Program Instance json : DatedJson t :=
  {| dmsg_fromJSON := fromJSON; dmsg_toJSON := toJSON; dmsg_timed := timed;
     dmsg_named := fun _ => true; dmsg_known := fun m => m |}.
Next Obligation. solve_djson fromJSON toJSON timed. Qed.
Next Obligation. solve_dthrows toJSON timed. Qed.
Next Obligation. reflexivity. Qed.

#[global] Instance schema_wire {PB : Protobuf} {PS : ProtobufSpec PB} : WireSchema wire schema.
Proof. solve_schema_wire wire schema. Qed.

#[global] Instance schema_normal : NormalSchema normal schema.
Proof. solve_schema_normal normal schema. Qed.

#[global] Instance schema_merge : MergeSchema merge schema.
Proof. solve_schema_merge merge schema. Qed.

(** Its row in the table of message types. *)
Definition message {PB : Protobuf} {PS : ProtobufSpec PB} : message_type :=
  dated_message "QueryUnbondingDelegationResponse" nothing true schema only.

#[global] Instance message_lawful {PB : Protobuf} (PS : ProtobufSpec PB) : Lawful message.
Proof. solve_lawful decode_field fromJSON only. Qed.

End QueryUnbondingDelegationResponse.

(** ** [QueryDelegatorDelegationsRequest] (cosmos/staking/v1beta1/query.js) *)

Module QueryDelegatorDelegationsRequest.

Record t := mk {
  delegatorAddr : string;
  pagination : option PageRequest.t;
}.

#[global] Instance t_eta : Settable t := λ m, mk m.(delegatorAddr) m.(pagination).

Definition base : t := mk "" None.

Definition encode {PB : Protobuf} (message : t) (writer : Writer) : result Writer :=
  Ok writer
  @>= pure (when (str_neq message.(delegatorAddr) "")
       (fun w => w @> uint32 10 @> string_ message.(delegatorAddr)))
  @>= defined_e message.(pagination) (submessage 18 PageRequest.encode).

Definition decode_field {PB : Protobuf} (tag : Z) (message : t) : RM t :=
  match field_number tag with
  | 1 => v ← read_string; mret (message <| delegatorAddr := v |>)
  | 2 => v ← read_nested PageRequest.decode; mret (message <| pagination := Some v |>)
  | _ => _ ← skipType (wire_type tag); mret message
  end.

Definition decode {PB : Protobuf} (length : option Z) : RM t :=
  decode_message length base decode_field.

Definition fromJSON (object : js) : result t :=
  delegatorAddr' ← field_or object "delegatorAddr" to_string "";
  pagination' ← field_or object "pagination" (to_some PageRequest.fromJSON) None;
  Ok (mk delegatorAddr' pagination').

Definition toJSON (message : t) : js :=
  Obj ([("delegatorAddr", Str message.(delegatorAddr))] ++
   prop_opt "pagination" PageRequest.toJSON message.(pagination)).

Record partial := mkPartial {
  p_delegatorAddr : option string;
  p_pagination : option PageRequest.partial;
}.

Definition fromPartial (object : partial) : t := {|
  delegatorAddr := object.(p_delegatorAddr) ?? "";
  pagination := PageRequest.fromPartial <$> object.(p_pagination);
|}.

(** The object with no property given. *)
Definition nothing : partial := mkPartial None None.

(** The bytes [encode] writes. *)
Definition wire {PB : Protobuf} {PS : ProtobufSpec PB} (m : t) : bytes :=
  f_string 10 m.(delegatorAddr) ++
  f_message 18 PageRequest.wire m.(pagination).

Definition valid (m : t) : Prop :=
  from_option PageRequest.valid True m.(pagination).

(** The byte fields hold arrays, as the interface declares. *)
Definition typed (m : t) : bool := from_option PageRequest.typed true m.(pagination).

(** The message without its empty byte arrays. *)
Definition normal (m : t) : t := {|
  delegatorAddr := m.(delegatorAddr);
  pagination := PageRequest.normal <$> m.(pagination);
|}.

Definition encodable {PB : Protobuf} {PS : ProtobufSpec PB} (m : t) : Prop :=
  typed m = true ∧ valid m ∧ small (wire m).

Definition merge (m a : t) : t := {|
  delegatorAddr := later_string m.(delegatorAddr) a.(delegatorAddr);
  pagination := later_message m.(pagination) (PageRequest.normal <$> a.(pagination));
|}.

(** A whole message seen as a partial one. *)
Definition full (m : t) : partial := {|
  p_delegatorAddr := Some m.(delegatorAddr);
  p_pagination := PageRequest.full <$> m.(pagination);
|}.

(** The message as its schema declares it. *)
Definition schema (m : t) : list field :=
  [implicit 1 (VString m.(delegatorAddr));
   singular 2 Optional (message_value PageRequest.schema) m.(pagination)].

(** The message with its default for every property that is not kept. *)
Definition only (kept : string → bool) (m : t) : t := {|
  delegatorAddr := if kept "delegatorAddr" then m.(delegatorAddr) else "";
  pagination := if kept "pagination" then m.(pagination) else None;
|}.

#[global] Instance codec {PB : Protobuf} : FallibleCodec t :=
  {| fmsg_base := base; fmsg_encode := encode; fmsg_field := decode_field |}.

#[global] Program Instance spec {PB : Protobuf} (PS : ProtobufSpec PB) : FallibleSpec PS t :=
  {| fmsg_wire := wire; fmsg_valid := valid; fmsg_typed := typed; fmsg_normal := normal;
     fmsg_merge := merge |}.
Next Obligation. solve_fencode_wire. Qed.
Next Obligation. intros. solve_fencode_throws encode typed. Qed.
Next Obligation. solve_fdecode_wire. Qed.
Next Obligation. solve_fmerge_base. Qed.
Next Obligation. intros. solve_fadvances decode_field. Qed.

#[global] Program Instance given_ : FalliblePartial t partial :=
  {| fmsg_fromPartial := fromPartial; fmsg_full := full; fmsg_given := typed |}.
Next Obligation. solve_fgiven fromPartial typed. Qed.
Next Obligation. solve_fpartial fromPartial full typed. Qed.

#[global] Program Instance json : FallibleJson t :=
  {| fmsg_fromJSON := fromJSON; fmsg_toJSON := toJSON;
     fmsg_named := fun _ => true; fmsg_known := fun m => m |}.
Next Obligation. solve_fjson fromJSON toJSON. Qed.
Next Obligation. reflexivity. Qed.

#[global] Instance schema_wire {PB : Protobuf} {PS : ProtobufSpec PB} : WireSchema wire schema.
Proof. solve_schema_wire wire schema. Qed.

#[global] Instance schema_normal : NormalSchema normal schema.
Proof. solve_schema_normal normal schema. Qed.

#[global] Instance schema_merge : MergeSchema merge schema.
Proof. solve_schema_merge merge schema. Qed.

(** Its row in the table of message types. *)
Definition message {PB : Protobuf} {PS : ProtobufSpec PB} : message_type :=
  fallible_message "QueryDelegatorDelegationsRequest" nothing true schema only.

#[global] Instance message_lawful {PB : Protobuf} (PS : ProtobufSpec PB) : Lawful message.
Proof. solve_lawful decode_field fromJSON only. Qed.

End QueryDelegatorDelegationsRequest.

(** ** [QueryDelegatorDelegationsResponse] (cosmos/staking/v1beta1/query.js) *)

Module QueryDelegatorDelegationsResponse.

Record t := mk {
  delegationResponses : list DelegationResponse.t;
  pagination : option PageResponse.t;
}.

#[global] Instance t_eta : Settable t := λ m, mk m.(delegationResponses) m.(pagination).

Definition base : t := mk [] None.

Definition encode {PB : Protobuf} (message : t) (writer : Writer) : result Writer :=
  Ok writer
  @>= pure (each message.(delegationResponses) (fun v w => w @> uint32 10 @> fork @> DelegationResponse.encode v @> ldelim))
  @>= defined_e message.(pagination) (submessage 18 PageResponse.encode).

Definition decode_field {PB : Protobuf} (tag : Z) (message : t) : RM t :=
  match field_number tag with
  | 1 => v ← read_nested DelegationResponse.decode;
         mret (message <| delegationResponses := message.(delegationResponses) ++ [v] |>)
  | 2 => v ← read_nested PageResponse.decode; mret (message <| pagination := Some v |>)
  | _ => _ ← skipType (wire_type tag); mret message
  end.

Definition decode {PB : Protobuf} (length : option Z) : RM t :=
  decode_message length base decode_field.

Definition fromJSON (object : js) : result t :=
  delegationResponses' ← field_or object "delegationResponses" (to_list DelegationResponse.fromJSON) [];
  pagination' ← field_or object "pagination" (to_some PageResponse.fromJSON) None;
  Ok (mk delegationResponses' pagination').

Definition toJSON (message : t) : js :=
  Obj ([("delegationResponses", Arr (map DelegationResponse.toJSON message.(delegationResponses)))] ++
   prop_opt "pagination" PageResponse.toJSON message.(pagination)).

Record partial := mkPartial {
  p_delegationResponses : option (list DelegationResponse.partial);
  p_pagination : option PageResponse.partial;
}.

Definition fromPartial (object : partial) : t := {|
  delegationResponses := map DelegationResponse.fromPartial (object.(p_delegationResponses) ?? []);
  pagination := PageResponse.fromPartial <$> object.(p_pagination);
|}.

(** The object with no property given. *)
Definition nothing : partial := mkPartial None None.

(** The bytes [encode] writes. *)
Definition wire {PB : Protobuf} {PS : ProtobufSpec PB} (m : t) : bytes :=
  f_repeated 10 DelegationResponse.wire m.(delegationResponses) ++
  f_message 18 PageResponse.wire m.(pagination).

Definition valid (m : t) : Prop :=
  Forall DelegationResponse.valid m.(delegationResponses) ∧ from_option PageResponse.valid True m.(pagination).

(** The byte fields hold arrays, as the interface declares. *)
Definition typed (m : t) : bool := from_option PageResponse.typed true m.(pagination).

(** The message without its empty byte arrays. *)
Definition normal (m : t) : t := {|
  delegationResponses := m.(delegationResponses);
  pagination := PageResponse.normal <$> m.(pagination);
|}.

Definition encodable {PB : Protobuf} {PS : ProtobufSpec PB} (m : t) : Prop :=
  typed m = true ∧ valid m ∧ small (wire m).

Definition merge (m a : t) : t := {|
  delegationResponses := m.(delegationResponses) ++ a.(delegationResponses);
  pagination := later_message m.(pagination) (PageResponse.normal <$> a.(pagination));
|}.

(** A whole message seen as a partial one. *)
Definition full (m : t) : partial := {|
  p_delegationResponses := Some (map DelegationResponse.full m.(delegationResponses));
  p_pagination := PageResponse.full <$> m.(pagination);
|}.

(** The message as its schema declares it. *)
Definition schema (m : t) : list field :=
  [repeated 1 (message_value DelegationResponse.schema) m.(delegationResponses);
   singular 2 Optional (message_value PageResponse.schema) m.(pagination)].

(** The message with its default for every property that is not kept. *)
Definition only (kept : string → bool) (m : t) : t := {|
  delegationResponses := if kept "delegationResponses" then m.(delegationResponses) else [];
  pagination := if kept "pagination" then m.(pagination) else None;
|}.

#[global] Instance codec {PB : Protobuf} : FallibleCodec t :=
  {| fmsg_base := base; fmsg_encode := encode; fmsg_field := decode_field |}.

#[global] Program Instance spec {PB : Protobuf} (PS : ProtobufSpec PB) : FallibleSpec PS t :=
  {| fmsg_wire := wire; fmsg_valid := valid; fmsg_typed := typed; fmsg_normal := normal;
     fmsg_merge := merge |}.
Next Obligation. solve_fencode_wire. Qed.
Next Obligation. intros. solve_fencode_throws encode typed. Qed.
Next Obligation. solve_fdecode_wire. Qed.
Next Obligation. solve_fmerge_base. Qed.
Next Obligation. intros. solve_fadvances decode_field. Qed.

#[global] Program Instance given_ : FalliblePartial t partial :=
  {| fmsg_fromPartial := fromPartial; fmsg_full := full; fmsg_given := typed |}.
Next Obligation. solve_fgiven fromPartial typed. Qed.
Next Obligation. solve_fpartial fromPartial full typed. Qed.

#[global] Program Instance json : FallibleJson t :=
  {| fmsg_fromJSON := fromJSON; fmsg_toJSON := toJSON;
     fmsg_named := fun _ => true; fmsg_known := fun m => m |}.
Next Obligation. solve_fjson fromJSON toJSON. Qed.
Next Obligation. reflexivity. Qed.

#[global] Instance schema_wire {PB : Protobuf} {PS : ProtobufSpec PB} : WireSchema wire schema.
Proof. solve_schema_wire wire schema. Qed.

#[global] Instance schema_normal : NormalSchema normal schema.
Proof. solve_schema_normal normal schema. Qed.

#[global] Instance schema_merge : MergeSchema merge schema.
Proof. solve_schema_merge merge schema. Qed.

(** Its row in the table of message types. *)
Definition message {PB : Protobuf} {PS : ProtobufSpec PB} : message_type :=
  fallible_message "QueryDelegatorDelegationsResponse" nothing true schema only.

#[global] Instance message_lawful {PB : Protobuf} (PS : ProtobufSpec PB) : Lawful message.
Proof. solve_lawful decode_field fromJSON only. Qed.

End QueryDelegatorDelegationsResponse.

(** ** [QueryDelegatorUnbondingDelegationsRequest] (cosmos/staking/v1beta1/query.js) *)

Module QueryDelegatorUnbondingDelegationsRequest.

Record t := mk {
  delegatorAddr : string;
  pagination : option PageRequest.t;
}.

#[global] Instance t_eta : Settable t := λ m, mk m.(delegatorAddr) m.(pagination).

Definition base : t := mk "" None.

Definition encode {PB : Protobuf} (message : t) (writer : Writer) : result Writer :=
  Ok writer
  @>= pure (when (str_neq message.(delegatorAddr) "")
       (fun w => w @> uint32 10 @> string_ message.(delegatorAddr)))
  @>= defined_e message.(pagination) (submessage 18 PageRequest.encode).

Definition decode_field {PB : Protobuf} (tag : Z) (message : t) : RM t :=
  match field_number tag with
  | 1 => v ← read_string; mret (message <| delegatorAddr := v |>)
  | 2 => v ← read_nested PageRequest.decode; mret (message <| pagination := Some v |>)
  | _ => _ ← skipType (wire_type tag); mret message
  end.

Definition decode {PB : Protobuf} (length : option Z) : RM t :=
  decode_message length base decode_field.

Definition fromJSON (object : js) : result t :=
  delegatorAddr' ← field_or object "delegatorAddr" to_string "";
  pagination' ← field_or object "pagination" (to_some PageRequest.fromJSON) None;
  Ok (mk delegatorAddr' pagination').

Definition toJSON (message : t) : js :=
  Obj ([("delegatorAddr", Str message.(delegatorAddr))] ++
   prop_opt "pagination" PageRequest.toJSON message.(pagination)).

Record partial := mkPartial {
  p_delegatorAddr : option string;
  p_pagination : option PageRequest.partial;
}.

Definition fromPartial (object : partial) : t := {|
  delegatorAddr := object.(p_delegatorAddr) ?? "";
  pagination := PageRequest.fromPartial <$> object.(p_pagination);
|}.

(** The object with no property given. *)
Definition nothing : partial := mkPartial None None.

(** The bytes [encode] writes. *)
Definition wire {PB : Protobuf} {PS : ProtobufSpec PB} (m : t) : bytes :=
  f_string 10 m.(delegatorAddr) ++
  f_message 18 PageRequest.wire m.(pagination).

Definition valid (m : t) : Prop :=
  from_option PageRequest.valid True m.(pagination).

(** The byte fields hold arrays, as the interface declares. *)
Definition typed (m : t) : bool := from_option PageRequest.typed true m.(pagination).

(** The message without its empty byte arrays. *)
Definition normal (m : t) : t := {|
  delegatorAddr := m.(delegatorAddr);
  pagination := PageRequest.normal <$> m.(pagination);
|}.

Definition encodable {PB : Protobuf} {PS : ProtobufSpec PB} (m : t) : Prop :=
  typed m = true ∧ valid m ∧ small (wire m).

Definition merge (m a : t) : t := {|
  delegatorAddr := later_string m.(delegatorAddr) a.(delegatorAddr);
  pagination := later_message m.(pagination) (PageRequest.normal <$> a.(pagination));
|}.

(** A whole message seen as a partial one. *)
Definition full (m : t) : partial := {|
  p_delegatorAddr := Some m.(delegatorAddr);
  p_pagination := PageRequest.full <$> m.(pagination);
|}.

(** The message as its schema declares it. *)
Definition schema (m : t) : list field :=
  [implicit 1 (VString m.(delegatorAddr));
   singular 2 Optional (message_value PageRequest.schema) m.(pagination)].

(** The message with its default for every property that is not kept. *)
Definition only (kept : string → bool) (m : t) : t := {|
  delegatorAddr := if kept "delegatorAddr" then m.(delegatorAddr) else "";
  pagination := if kept "pagination" then m.(pagination) else None;
|}.

#[global] Instance codec {PB : Protobuf} : FallibleCodec t :=
  {| fmsg_base := base; fmsg_encode := encode; fmsg_field := decode_field |}.

#[global] Program Instance spec {PB : Protobuf} (PS : ProtobufSpec PB) : FallibleSpec PS t :=
  {| fmsg_wire := wire; fmsg_valid := valid; fmsg_typed := typed; fmsg_normal := normal;
     fmsg_merge := merge |}.
Next Obligation. solve_fencode_wire. Qed.
Next Obligation. intros. solve_fencode_throws encode typed. Qed.
Next Obligation. solve_fdecode_wire. Qed.
Next Obligation. solve_fmerge_base. Qed.
Next Obligation. intros. solve_fadvances decode_field. Qed.

#[global] Program Instance given_ : FalliblePartial t partial :=
  {| fmsg_fromPartial := fromPartial; fmsg_full := full; fmsg_given := typed |}.
Next Obligation. solve_fgiven fromPartial typed. Qed.
Next Obligation. solve_fpartial fromPartial full typed. Qed.

#[global] Program Instance json : FallibleJson t :=
  {| fmsg_fromJSON := fromJSON; fmsg_toJSON := toJSON;
     fmsg_named := fun _ => true; fmsg_known := fun m => m |}.
Next Obligation. solve_fjson fromJSON toJSON. Qed.
Next Obligation. reflexivity. Qed.

#[global] Instance schema_wire {PB : Protobuf} {PS : ProtobufSpec PB} : WireSchema wire schema.
Proof. solve_schema_wire wire schema. Qed.

#[global] Instance schema_normal : NormalSchema normal schema.
Proof. solve_schema_normal normal schema. Qed.

#[global] Instance schema_merge : MergeSchema merge schema.
Proof. solve_schema_merge merge schema. Qed.

(** Its row in the table of message types. *)
Definition message {PB : Protobuf} {PS : ProtobufSpec PB} : message_type :=
  fallible_message "QueryDelegatorUnbondingDelegationsRequest" nothing true schema only.

#[global] Instance message_lawful {PB : Protobuf} (PS : ProtobufSpec PB) : Lawful message.
Proof. solve_lawful decode_field fromJSON only. Qed.

End QueryDelegatorUnbondingDelegationsRequest.

(** ** [QueryDelegatorUnbondingDelegationsResponse] (cosmos/staking/v1beta1/query.js) *)

Module QueryDelegatorUnbondingDelegationsResponse.

Record t := mk {
  unbondingResponses : list UnbondingDelegation.t;
  pagination : option PageResponse.t;
}.

#[global] Instance t_eta : Settable t := λ m, mk m.(unbondingResponses) m.(pagination).

Definition base : t := mk [] None.

Definition encode {PB : Protobuf} (message : t) (writer : Writer) : result Writer :=
  Ok writer
  @>= each_e message.(unbondingResponses) (submessage 10 UnbondingDelegation.encode)
  @>= defined_e message.(pagination) (submessage 18 PageResponse.encode).

Definition decode_field {PB : Protobuf} (tag : Z) (message : t) : RM t :=
  match field_number tag with
  | 1 => v ← read_nested UnbondingDelegation.decode;
         mret (message <| unbondingResponses := message.(unbondingResponses) ++ [v] |>)
  | 2 => v ← read_nested PageResponse.decode; mret (message <| pagination := Some v |>)
  | _ => _ ← skipType (wire_type tag); mret message
  end.

Definition decode {PB : Protobuf} (length : option Z) : RM t :=
  decode_message length base decode_field.

Definition fromJSON (object : js) : result t :=
  unbondingResponses' ← field_or object "unbondingResponses" (to_list UnbondingDelegation.fromJSON) [];
  pagination' ← field_or object "pagination" (to_some PageResponse.fromJSON) None;
  Ok (mk unbondingResponses' pagination').

Definition toJSON (message : t) : result js :=
  unbondingResponses' ← result_map UnbondingDelegation.toJSON message.(unbondingResponses);
  Ok (Obj ([("unbondingResponses", Arr unbondingResponses')] ++
   prop_opt "pagination" PageResponse.toJSON message.(pagination))).

Record partial := mkPartial {
  p_unbondingResponses : option (list UnbondingDelegation.partial);
  p_pagination : option PageResponse.partial;
}.

Definition fromPartial (object : partial) : t := {|
  unbondingResponses := map UnbondingDelegation.fromPartial (object.(p_unbondingResponses) ?? []);
  pagination := PageResponse.fromPartial <$> object.(p_pagination);
|}.

(** The object with no property given. *)
Definition nothing : partial := mkPartial None None.

(** The bytes [encode] writes. *)
Definition wire {PB : Protobuf} {PS : ProtobufSpec PB} (m : t) : bytes :=
  f_repeated 10 UnbondingDelegation.wire m.(unbondingResponses) ++
  f_message 18 PageResponse.wire m.(pagination).

Definition valid (m : t) : Prop :=
  Forall UnbondingDelegation.valid m.(unbondingResponses) ∧ from_option PageResponse.valid True m.(pagination).

(** The byte fields hold arrays, as the interface declares. *)
Definition typed (m : t) : bool := forallb UnbondingDelegation.typed m.(unbondingResponses) && from_option PageResponse.typed true m.(pagination).

(** The message without its empty byte arrays. *)
Definition normal (m : t) : t := {|
  unbondingResponses := map UnbondingDelegation.normal m.(unbondingResponses);
  pagination := PageResponse.normal <$> m.(pagination);
|}.

(** The dates are valid. *)
Definition timed (m : t) : bool := forallb UnbondingDelegation.timed m.(unbondingResponses).

Definition encodable {PB : Protobuf} {PS : ProtobufSpec PB} (m : t) : Prop :=
  typed m = true ∧ valid m ∧ small (wire m).

Definition merge (m a : t) : t := {|
  unbondingResponses := m.(unbondingResponses) ++ map UnbondingDelegation.normal a.(unbondingResponses);
  pagination := later_message m.(pagination) (PageResponse.normal <$> a.(pagination));
|}.

(** A whole message seen as a partial one. *)
Definition full (m : t) : partial := {|
  p_unbondingResponses := Some (map UnbondingDelegation.full m.(unbondingResponses));
  p_pagination := PageResponse.full <$> m.(pagination);
|}.

(** The message as its schema declares it. *)
Definition schema (m : t) : list field :=
  [repeated 1 (message_value UnbondingDelegation.schema) m.(unbondingResponses);
   singular 2 Optional (message_value PageResponse.schema) m.(pagination)].

(** The message with its default for every property that is not kept. *)
Definition only (kept : string → bool) (m : t) : t := {|
  unbondingResponses := if kept "unbondingResponses" then m.(unbondingResponses) else [];
  pagination := if kept "pagination" then m.(pagination) else None;
|}.

#[global] Instance codec {PB : Protobuf} : FallibleCodec t :=
  {| fmsg_base := base; fmsg_encode := encode; fmsg_field := decode_field |}.

#[global] Program Instance spec {PB : Protobuf} (PS : ProtobufSpec PB) : FallibleSpec PS t :=
  {| fmsg_wire := wire; fmsg_valid := valid; fmsg_typed := typed; fmsg_normal := normal;
     fmsg_merge := merge |}.
Next Obligation. solve_fencode_wire. Qed.
Next Obligation. intros. solve_fencode_throws encode typed. Qed.
Next Obligation. solve_fdecode_wire. Qed.
Next Obligation. solve_fmerge_base. Qed.
Next Obligation. intros. solve_fadvances decode_field. Qed.

#[global] Program Instance given_ : FalliblePartial t partial :=
  {| fmsg_fromPartial := fromPartial; fmsg_full := full; fmsg_given := typed |}.
Next Obligation. solve_fgiven fromPartial typed. Qed.
Next Obligation. solve_fpartial fromPartial full typed. Qed.

#[global] Program Instance json : DatedJson t :=
  {| dmsg_fromJSON := fromJSON; dmsg_toJSON := toJSON; dmsg_timed := timed;
     dmsg_named := fun _ => true; dmsg_known := fun m => m |}.
Next Obligation. solve_djson fromJSON toJSON timed. Qed.
Next Obligation. solve_dthrows toJSON timed. Qed.
Next Obligation. reflexivity. Qed.

#[global] Instance schema_wire {PB : Protobuf} {PS : ProtobufSpec PB} : WireSchema wire schema.
Proof. solve_schema_wire wire schema. Qed.

#[global] Instance schema_normal : NormalSchema normal schema.
Proof. solve_schema_normal normal schema. Qed.

#[global] Instance schema_merge : MergeSchema merge schema.
Proof. solve_schema_merge merge schema. Qed.

(** Its row in the table of message types. *)
Definition message {PB : Protobuf} {PS : ProtobufSpec PB} : message_type :=
  dated_message "QueryDelegatorUnbondingDelegationsResponse" nothing true schema only.

#[global] Instance message_lawful {PB : Protobuf} (PS : ProtobufSpec PB) : Lawful message.
Proof. solve_lawful decode_field fromJSON only. Qed.

End QueryDelegatorUnbondingDelegationsResponse.

(** ** [QueryRedelegationsRequest] (cosmos/staking/v1beta1/query.js) *)

Module QueryRedelegationsRequest.

Record t := mk {
  delegatorAddr : string;
  srcValidatorAddr : string;
  dstValidatorAddr : string;
  pagination : option PageRequest.t;
}.

#[global] Instance t_eta : Settable t := λ m, mk m.(delegatorAddr) m.(srcValidatorAddr)
  m.(dstValidatorAddr) m.(pagination).

Definition base : t := mk "" "" "" None.

Definition encode {PB : Protobuf} (message : t) (writer : Writer) : result Writer :=
  Ok writer
  @>= pure (when (str_neq message.(delegatorAddr) "")
       (fun w => w @> uint32 10 @> string_ message.(delegatorAddr)))
  @>= pure (when (str_neq message.(srcValidatorAddr) "")
       (fun w => w @> uint32 18 @> string_ message.(srcValidatorAddr)))
  @>= pure (when (str_neq message.(dstValidatorAddr) "")
       (fun w => w @> uint32 26 @> string_ message.(dstValidatorAddr)))
  @>= defined_e message.(pagination) (submessage 34 PageRequest.encode).

Definition decode_field {PB : Protobuf} (tag : Z) (message : t) : RM t :=
  match field_number tag with
  | 1 => v ← read_string; mret (message <| delegatorAddr := v |>)
  | 2 => v ← read_string; mret (message <| srcValidatorAddr := v |>)
  | 3 => v ← read_string; mret (message <| dstValidatorAddr := v |>)
  | 4 => v ← read_nested PageRequest.decode; mret (message <| pagination := Some v |>)
  | _ => _ ← skipType (wire_type tag); mret message
  end.

Definition decode {PB : Protobuf} (length : option Z) : RM t :=
  decode_message length base decode_field.

Definition fromJSON (object : js) : result t :=
  delegatorAddr' ← field_or object "delegatorAddr" to_string "";
  srcValidatorAddr' ← field_or object "srcValidatorAddr" to_string "";
  dstValidatorAddr' ← field_or object "dstValidatorAddr" to_string "";
  pagination' ← field_or object "pagination" (to_some PageRequest.fromJSON) None;
  Ok (mk delegatorAddr' srcValidatorAddr' dstValidatorAddr' pagination').

Definition toJSON (message : t) : js :=
  Obj ([("delegatorAddr", Str message.(delegatorAddr));
    ("srcValidatorAddr", Str message.(srcValidatorAddr));
    ("dstValidatorAddr", Str message.(dstValidatorAddr))] ++
   prop_opt "pagination" PageRequest.toJSON message.(pagination)).

Record partial := mkPartial {
  p_delegatorAddr : option string;
  p_srcValidatorAddr : option string;
  p_dstValidatorAddr : option string;
  p_pagination : option PageRequest.partial;
}.

Definition fromPartial (object : partial) : t := {|
  delegatorAddr := object.(p_delegatorAddr) ?? "";
  srcValidatorAddr := object.(p_srcValidatorAddr) ?? "";
  dstValidatorAddr := object.(p_dstValidatorAddr) ?? "";
  pagination := PageRequest.fromPartial <$> object.(p_pagination);
|}.

(** The object with no property given. *)
Definition nothing : partial := mkPartial None None None None.

(** The bytes [encode] writes. *)
Definition wire {PB : Protobuf} {PS : ProtobufSpec PB} (m : t) : bytes :=
  f_string 10 m.(delegatorAddr) ++
  f_string 18 m.(srcValidatorAddr) ++
  f_string 26 m.(dstValidatorAddr) ++
  f_message 34 PageRequest.wire m.(pagination).

Definition valid (m : t) : Prop :=
  from_option PageRequest.valid True m.(pagination).

(** The byte fields hold arrays, as the interface declares. *)
Definition typed (m : t) : bool := from_option PageRequest.typed true m.(pagination).

(** The message without its empty byte arrays. *)
Definition normal (m : t) : t := {|
  delegatorAddr := m.(delegatorAddr);
  srcValidatorAddr := m.(srcValidatorAddr);
  dstValidatorAddr := m.(dstValidatorAddr);
  pagination := PageRequest.normal <$> m.(pagination);
|}.

Definition encodable {PB : Protobuf} {PS : ProtobufSpec PB} (m : t) : Prop :=
  typed m = true ∧ valid m ∧ small (wire m).

Definition merge (m a : t) : t := {|
  delegatorAddr := later_string m.(delegatorAddr) a.(delegatorAddr);
  srcValidatorAddr := later_string m.(srcValidatorAddr) a.(srcValidatorAddr);
  dstValidatorAddr := later_string m.(dstValidatorAddr) a.(dstValidatorAddr);
  pagination := later_message m.(pagination) (PageRequest.normal <$> a.(pagination));
|}.

(** A whole message seen as a partial one. *)
Definition full (m : t) : partial := {|
  p_delegatorAddr := Some m.(delegatorAddr);
  p_srcValidatorAddr := Some m.(srcValidatorAddr);
  p_dstValidatorAddr := Some m.(dstValidatorAddr);
  p_pagination := PageRequest.full <$> m.(pagination);
|}.

(** The message as its schema declares it. *)
Definition schema (m : t) : list field :=
  [implicit 1 (VString m.(delegatorAddr));
   implicit 2 (VString m.(srcValidatorAddr));
   implicit 3 (VString m.(dstValidatorAddr));
   singular 4 Optional (message_value PageRequest.schema) m.(pagination)].

(** The message with its default for every property that is not kept. *)
Definition only (kept : string → bool) (m : t) : t := {|
  delegatorAddr := if kept "delegatorAddr" then m.(delegatorAddr) else "";
  srcValidatorAddr := if kept "srcValidatorAddr" then m.(srcValidatorAddr) else "";
  dstValidatorAddr := if kept "dstValidatorAddr" then m.(dstValidatorAddr) else "";
  pagination := if kept "pagination" then m.(pagination) else None;
|}.

#[global] Instance codec {PB : Protobuf} : FallibleCodec t :=
  {| fmsg_base := base; fmsg_encode := encode; fmsg_field := decode_field |}.

#[global] Program Instance spec {PB : Protobuf} (PS : ProtobufSpec PB) : FallibleSpec PS t :=
  {| fmsg_wire := wire; fmsg_valid := valid; fmsg_typed := typed; fmsg_normal := normal;
     fmsg_merge := merge |}.
Next Obligation. solve_fencode_wire. Qed.
Next Obligation. intros. solve_fencode_throws encode typed. Qed.
Next Obligation. solve_fdecode_wire. Qed.
Next Obligation. solve_fmerge_base. Qed.
Next Obligation. intros. solve_fadvances decode_field. Qed.

#[global] Program Instance given_ : FalliblePartial t partial :=
  {| fmsg_fromPartial := fromPartial; fmsg_full := full; fmsg_given := typed |}.
Next Obligation. solve_fgiven fromPartial typed. Qed.
Next Obligation. solve_fpartial fromPartial full typed. Qed.

#[global] Program Instance json : FallibleJson t :=
  {| fmsg_fromJSON := fromJSON; fmsg_toJSON := toJSON;
     fmsg_named := fun _ => true; fmsg_known := fun m => m |}.
Next Obligation. solve_fjson fromJSON toJSON. Qed.
Next Obligation. reflexivity. Qed.

#[global] Instance schema_wire {PB : Protobuf} {PS : ProtobufSpec PB} : WireSchema wire schema.
Proof. solve_schema_wire wire schema. Qed.

#[global] Instance schema_normal : NormalSchema normal schema.
Proof. solve_schema_normal normal schema. Qed.

#[global] Instance schema_merge : MergeSchema merge schema.
Proof. solve_schema_merge merge schema. Qed.

(** Its row in the table of message types. *)
Definition message {PB : Protobuf} {PS : ProtobufSpec PB} : message_type :=
  fallible_message "QueryRedelegationsRequest" nothing true schema only.

#[global] Instance message_lawful {PB : Protobuf} (PS : ProtobufSpec PB) : Lawful message.
Proof. solve_lawful decode_field fromJSON only. Qed.

End QueryRedelegationsRequest.

(** ** [QueryRedelegationsResponse] (cosmos/staking/v1beta1/query.js) *)

Module QueryRedelegationsResponse.

Record t := mk {
  redelegationResponses : list RedelegationResponse.t;
  pagination : option PageResponse.t;
}.

#[global] Instance t_eta : Settable t := λ m, mk m.(redelegationResponses) m.(pagination).

Definition base : t := mk [] None.

Definition encode {PB : Protobuf} (message : t) (writer : Writer) : result Writer :=
  Ok writer
  @>= each_e message.(redelegationResponses) (submessage 10 RedelegationResponse.encode)
  @>= defined_e message.(pagination) (submessage 18 PageResponse.encode).

Definition decode_field {PB : Protobuf} (tag : Z) (message : t) : RM t :=
  match field_number tag with
  | 1 => v ← read_nested RedelegationResponse.decode;
         mret (message <| redelegationResponses := message.(redelegationResponses) ++ [v] |>)
  | 2 => v ← read_nested PageResponse.decode; mret (message <| pagination := Some v |>)
  | _ => _ ← skipType (wire_type tag); mret message
  end.

Definition decode {PB : Protobuf} (length : option Z) : RM t :=
  decode_message length base decode_field.

Definition fromJSON (object : js) : result t :=
  redelegationResponses' ← field_or object "redelegationResponses" (to_list RedelegationResponse.fromJSON) [];
  pagination' ← field_or object "pagination" (to_some PageResponse.fromJSON) None;
  Ok (mk redelegationResponses' pagination').

Definition toJSON (message : t) : result js :=
  redelegationResponses' ← result_map RedelegationResponse.toJSON message.(redelegationResponses);
  Ok (Obj ([("redelegationResponses", Arr redelegationResponses')] ++
   prop_opt "pagination" PageResponse.toJSON message.(pagination))).

Record partial := mkPartial {
  p_redelegationResponses : option (list RedelegationResponse.partial);
  p_pagination : option PageResponse.partial;
}.

Definition fromPartial (object : partial) : t := {|
  redelegationResponses := map RedelegationResponse.fromPartial (object.(p_redelegationResponses) ?? []);
  pagination := PageResponse.fromPartial <$> object.(p_pagination);
|}.

(** The object with no property given. *)
Definition nothing : partial := mkPartial None None.

(** The bytes [encode] writes. *)
Definition wire {PB : Protobuf} {PS : ProtobufSpec PB} (m : t) : bytes :=
  f_repeated 10 RedelegationResponse.wire m.(redelegationResponses) ++
  f_message 18 PageResponse.wire m.(pagination).

Definition valid (m : t) : Prop :=
  Forall RedelegationResponse.valid m.(redelegationResponses) ∧ from_option PageResponse.valid True m.(pagination).

(** The byte fields hold arrays, as the interface declares. *)
Definition typed (m : t) : bool := forallb RedelegationResponse.typed m.(redelegationResponses) && from_option PageResponse.typed true m.(pagination).

(** The message without its empty byte arrays. *)
Definition normal (m : t) : t := {|
  redelegationResponses := map RedelegationResponse.normal m.(redelegationResponses);
  pagination := PageResponse.normal <$> m.(pagination);
|}.

(** The dates are valid. *)
Definition timed (m : t) : bool := forallb RedelegationResponse.timed m.(redelegationResponses).

Definition encodable {PB : Protobuf} {PS : ProtobufSpec PB} (m : t) : Prop :=
  typed m = true ∧ valid m ∧ small (wire m).

Definition merge (m a : t) : t := {|
  redelegationResponses := m.(redelegationResponses) ++ map RedelegationResponse.normal a.(redelegationResponses);
  pagination := later_message m.(pagination) (PageResponse.normal <$> a.(pagination));
|}.

(** A whole message seen as a partial one. *)
Definition full (m : t) : partial := {|
  p_redelegationResponses := Some (map RedelegationResponse.full m.(redelegationResponses));
  p_pagination := PageResponse.full <$> m.(pagination);
|}.

(** The message as its schema declares it. *)
Definition schema (m : t) : list field :=
  [repeated 1 (message_value RedelegationResponse.schema) m.(redelegationResponses);
   singular 2 Optional (message_value PageResponse.schema) m.(pagination)].

(** The message with its default for every property that is not kept. *)
Definition only (kept : string → bool) (m : t) : t := {|
  redelegationResponses := if kept "redelegationResponses" then m.(redelegationResponses) else [];
  pagination := if kept "pagination" then m.(pagination) else None;
|}.

#[global] Instance codec {PB : Protobuf} : FallibleCodec t :=
  {| fmsg_base := base; fmsg_encode := encode; fmsg_field := decode_field |}.

#[global] Program Instance spec {PB : Protobuf} (PS : ProtobufSpec PB) : FallibleSpec PS t :=
  {| fmsg_wire := wire; fmsg_valid := valid; fmsg_typed := typed; fmsg_normal := normal;
     fmsg_merge := merge |}.
Next Obligation. solve_fencode_wire. Qed.
Next Obligation. intros. solve_fencode_throws encode typed. Qed.
Next Obligation. solve_fdecode_wire. Qed.
Next Obligation. solve_fmerge_base. Qed.
Next Obligation. intros. solve_fadvances decode_field. Qed.

#[global] Program Instance given_ : FalliblePartial t partial :=
  {| fmsg_fromPartial := fromPartial; fmsg_full := full; fmsg_given := typed |}.
Next Obligation. solve_fgiven fromPartial typed. Qed.
Next Obligation. solve_fpartial fromPartial full typed. Qed.

#[global] Program Instance json : DatedJson t :=
  {| dmsg_fromJSON := fromJSON; dmsg_toJSON := toJSON; dmsg_timed := timed;
     dmsg_named := fun _ => true; dmsg_known := fun m => m |}.
Next Obligation. solve_djson fromJSON toJSON timed. Qed.
Next Obligation. solve_dthrows toJSON timed. Qed.
Next Obligation. reflexivity. Qed.

#[global] Instance schema_wire {PB : Protobuf} {PS : ProtobufSpec PB} : WireSchema wire schema.
Proof. solve_schema_wire wire schema. Qed.

#[global] Instance schema_normal : NormalSchema normal schema.
Proof. solve_schema_normal normal schema. Qed.

#[global] Instance schema_merge : MergeSchema merge schema.
Proof. solve_schema_merge merge schema. Qed.

(** Its row in the table of message types. *)
Definition message {PB : Protobuf} {PS : ProtobufSpec PB} : message_type :=
  dated_message "QueryRedelegationsResponse" nothing true schema only.

#[global] Instance message_lawful {PB : Protobuf} (PS : ProtobufSpec PB) : Lawful message.
Proof. solve_lawful decode_field fromJSON only. Qed.

End QueryRedelegationsResponse.

(** ** [QueryDelegatorValidatorsRequest] (cosmos/staking/v1beta1/query.js) *)

Module QueryDelegatorValidatorsRequest.

Record t := mk {
  delegatorAddr : string;
  pagination : option PageRequest.t;
}.

#[global] Instance t_eta : Settable t := λ m, mk m.(delegatorAddr) m.(pagination).

Definition base : t := mk "" None.

Definition encode {PB : Protobuf} (message : t) (writer : Writer) : result Writer :=
  Ok writer
  @>= pure (when (str_neq message.(delegatorAddr) "")
       (fun w => w @> uint32 10 @> string_ message.(delegatorAddr)))
  @>= defined_e message.(pagination) (submessage 18 PageRequest.encode).

Definition decode_field {PB : Protobuf} (tag : Z) (message : t) : RM t :=
  match field_number tag with
  | 1 => v ← read_string; mret (message <| delegatorAddr := v |>)
  | 2 => v ← read_nested PageRequest.decode; mret (message <| pagination := Some v |>)
  | _ => _ ← skipType (wire_type tag); mret message
  end.

Definition decode {PB : Protobuf} (length : option Z) : RM t :=
  decode_message length base decode_field.

Definition fromJSON (object : js) : result t :=
  delegatorAddr' ← field_or object "delegatorAddr" to_string "";
  pagination' ← field_or object "pagination" (to_some PageRequest.fromJSON) None;
  Ok (mk delegatorAddr' pagination').

Definition toJSON (message : t) : js :=
  Obj ([("delegatorAddr", Str message.(delegatorAddr))] ++
   prop_opt "pagination" PageRequest.toJSON message.(pagination)).

Record partial := mkPartial {
  p_delegatorAddr : option string;
  p_pagination : option PageRequest.partial;
}.

Definition fromPartial (object : partial) : t := {|
  delegatorAddr := object.(p_delegatorAddr) ?? "";
  pagination := PageRequest.fromPartial <$> object.(p_pagination);
|}.

(** The object with no property given. *)
Definition nothing : partial := mkPartial None None.

(** The bytes [encode] writes. *)
Definition wire {PB : Protobuf} {PS : ProtobufSpec PB} (m : t) : bytes :=
  f_string 10 m.(delegatorAddr) ++
  f_message 18 PageRequest.wire m.(pagination).

Definition valid (m : t) : Prop :=
  from_option PageRequest.valid True m.(pagination).

(** The byte fields hold arrays, as the interface declares. *)
Definition typed (m : t) : bool := from_option PageRequest.typed true m.(pagination).

(** The message without its empty byte arrays. *)
Definition normal (m : t) : t := {|
  delegatorAddr := m.(delegatorAddr);
  pagination := PageRequest.normal <$> m.(pagination);
|}.

Definition encodable {PB : Protobuf} {PS : ProtobufSpec PB} (m : t) : Prop :=
  typed m = true ∧ valid m ∧ small (wire m).

Definition merge (m a : t) : t := {|
  delegatorAddr := later_string m.(delegatorAddr) a.(delegatorAddr);
  pagination := later_message m.(pagination) (PageRequest.normal <$> a.(pagination));
|}.

(** A whole message seen as a partial one. *)
Definition full (m : t) : partial := {|
  p_delegatorAddr := Some m.(delegatorAddr);
  p_pagination := PageRequest.full <$> m.(pagination);
|}.

(** The message as its schema declares it. *)
Definition schema (m : t) : list field :=
  [implicit 1 (VString m.(delegatorAddr));
   singular 2 Optional (message_value PageRequest.schema) m.(pagination)].

(** The message with its default for every property that is not kept. *)
Definition only (kept : string → bool) (m : t) : t := {|
  delegatorAddr := if kept "delegatorAddr" then m.(delegatorAddr) else "";
  pagination := if kept "pagination" then m.(pagination) else None;
|}.

#[global] Instance codec {PB : Protobuf} : FallibleCodec t :=
  {| fmsg_base := base; fmsg_encode := encode; fmsg_field := decode_field |}.

#[global] Program Instance spec {PB : Protobuf} (PS : ProtobufSpec PB) : FallibleSpec PS t :=
  {| fmsg_wire := wire; fmsg_valid := valid; fmsg_typed := typed; fmsg_normal := normal;
     fmsg_merge := merge |}.
Next Obligation. solve_fencode_wire. Qed.
Next Obligation. intros. solve_fencode_throws encode typed. Qed.
Next Obligation. solve_fdecode_wire. Qed.
Next Obligation. solve_fmerge_base. Qed.
Next Obligation. intros. solve_fadvances decode_field. Qed.

#[global] Program Instance given_ : FalliblePartial t partial :=
  {| fmsg_fromPartial := fromPartial; fmsg_full := full; fmsg_given := typed |}.
Next Obligation. solve_fgiven fromPartial typed. Qed.
Next Obligation. solve_fpartial fromPartial full typed. Qed.

#[global] Program Instance json : FallibleJson t :=
  {| fmsg_fromJSON := fromJSON; fmsg_toJSON := toJSON;
     fmsg_named := fun _ => true; fmsg_known := fun m => m |}.
Next Obligation. solve_fjson fromJSON toJSON. Qed.
Next Obligation. reflexivity. Qed.

#[global] Instance schema_wire {PB : Protobuf} {PS : ProtobufSpec PB} : WireSchema wire schema.
Proof. solve_schema_wire wire schema. Qed.

#[global] Instance schema_normal : NormalSchema normal schema.
Proof. solve_schema_normal normal schema. Qed.

#[global] Instance schema_merge : MergeSchema merge schema.
Proof. solve_schema_merge merge schema. Qed.

(** Its row in the table of message types. *)
Definition message {PB : Protobuf} {PS : ProtobufSpec PB} : message_type :=
  fallible_message "QueryDelegatorValidatorsRequest" nothing true schema only.

#[global] Instance message_lawful {PB : Protobuf} (PS : ProtobufSpec PB) : Lawful message.
Proof. solve_lawful decode_field fromJSON only. Qed.

End QueryDelegatorValidatorsRequest.

(** ** [QueryDelegatorValidatorsResponse] (cosmos/staking/v1beta1/query.js) *)

Module QueryDelegatorValidatorsResponse.

Record t := mk {
  validators : list Validator.t;
  pagination : option PageResponse.t;
}.

#[global] Instance t_eta : Settable t := λ m, mk m.(validators) m.(pagination).

Definition base : t := mk [] None.

Definition encode {PB : Protobuf} (message : t) (writer : Writer) : result Writer :=
  Ok writer
  @>= each_e message.(validators) (submessage 10 Validator.encode)
  @>= defined_e message.(pagination) (submessage 18 PageResponse.encode).

Definition decode_field {PB : Protobuf} (tag : Z) (message : t) : RM t :=
  match field_number tag with
  | 1 => v ← read_nested Validator.decode;
         mret (message <| validators := message.(validators) ++ [v] |>)
  | 2 => v ← read_nested PageResponse.decode; mret (message <| pagination := Some v |>)
  | _ => _ ← skipType (wire_type tag); mret message
  end.

Definition decode {PB : Protobuf} (length : option Z) : RM t :=
  decode_message length base decode_field.

Definition fromJSON (object : js) : result t :=
  validators' ← field_or object "validators" (to_list Validator.fromJSON) [];
  pagination' ← field_or object "pagination" (to_some PageResponse.fromJSON) None;
  Ok (mk validators' pagination').

Definition toJSON (message : t) : result js :=
  validators' ← result_map Validator.toJSON message.(validators);
  Ok (Obj ([("validators", Arr validators')] ++
   prop_opt "pagination" PageResponse.toJSON message.(pagination))).

Record partial := mkPartial {
  p_validators : option (list Validator.partial);
  p_pagination : option PageResponse.partial;
}.

Definition fromPartial (object : partial) : t := {|
  validators := map Validator.fromPartial (object.(p_validators) ?? []);
  pagination := PageResponse.fromPartial <$> object.(p_pagination);
|}.

(** The object with no property given. *)
Definition nothing : partial := mkPartial None None.

(** The bytes [encode] writes. *)
Definition wire {PB : Protobuf} {PS : ProtobufSpec PB} (m : t) : bytes :=
  f_repeated 10 Validator.wire m.(validators) ++
  f_message 18 PageResponse.wire m.(pagination).

Definition valid (m : t) : Prop :=
  Forall Validator.valid m.(validators) ∧ from_option PageResponse.valid True m.(pagination).

(** The byte fields hold arrays, as the interface declares. *)
Definition typed (m : t) : bool := forallb Validator.typed m.(validators) && from_option PageResponse.typed true m.(pagination).

(** The message without its empty byte arrays. *)
Definition normal (m : t) : t := {|
  validators := map Validator.normal m.(validators);
  pagination := PageResponse.normal <$> m.(pagination);
|}.

(** The dates are valid. *)
Definition timed (m : t) : bool := forallb Validator.timed m.(validators).

(** The enumeration fields hold members. *)
Definition named (m : t) : bool := forallb Validator.named m.(validators).

(** The message with the numbers [toJSON] does not know replaced. *)
Definition known (m : t) : t := {|
  validators := map Validator.known m.(validators);
  pagination := m.(pagination);
|}.

Definition encodable {PB : Protobuf} {PS : ProtobufSpec PB} (m : t) : Prop :=
  typed m = true ∧ valid m ∧ small (wire m).

Definition merge (m a : t) : t := {|
  validators := m.(validators) ++ map Validator.normal a.(validators);
  pagination := later_message m.(pagination) (PageResponse.normal <$> a.(pagination));
|}.

(** A whole message seen as a partial one. *)
Definition full (m : t) : partial := {|
  p_validators := Some (map Validator.full m.(validators));
  p_pagination := PageResponse.full <$> m.(pagination);
|}.

(** The message as its schema declares it. *)
Definition schema (m : t) : list field :=
  [repeated 1 (message_value Validator.schema) m.(validators);
   singular 2 Optional (message_value PageResponse.schema) m.(pagination)].

(** The message with its default for every property that is not kept. *)
Definition only (kept : string → bool) (m : t) : t := {|
  validators := if kept "validators" then m.(validators) else [];
  pagination := if kept "pagination" then m.(pagination) else None;
|}.

#[global] Instance codec {PB : Protobuf} : FallibleCodec t :=
  {| fmsg_base := base; fmsg_encode := encode; fmsg_field := decode_field |}.

#[global] Program Instance spec {PB : Protobuf} (PS : ProtobufSpec PB) : FallibleSpec PS t :=
  {| fmsg_wire := wire; fmsg_valid := valid; fmsg_typed := typed; fmsg_normal := normal;
     fmsg_merge := merge |}.
Next Obligation. solve_fencode_wire. Qed.
Next Obligation. intros. solve_fencode_throws encode typed. Qed.
Next Obligation. solve_fdecode_wire. Qed.
Next Obligation. solve_fmerge_base. Qed.
Next Obligation. intros. solve_fadvances decode_field. Qed.

#[global] Program Instance given_ : FalliblePartial t partial :=
  {| fmsg_fromPartial := fromPartial; fmsg_full := full; fmsg_given := typed |}.
Next Obligation. solve_fgiven fromPartial typed. Qed.
Next Obligation. solve_fpartial fromPartial full typed. Qed.

#[global] Program Instance json : DatedJson t :=
  {| dmsg_fromJSON := fromJSON; dmsg_toJSON := toJSON; dmsg_timed := timed;
     dmsg_named := named; dmsg_known := known |}.
Next Obligation. solve_djson fromJSON toJSON timed. Qed.
Next Obligation. solve_dthrows toJSON timed. Qed.
Next Obligation. solve_known named known. Qed.

#[global] Instance schema_wire {PB : Protobuf} {PS : ProtobufSpec PB} : WireSchema wire schema.
Proof. solve_schema_wire wire schema. Qed.

#[global] Instance schema_normal : NormalSchema normal schema.
Proof. solve_schema_normal normal schema. Qed.

#[global] Instance schema_merge : MergeSchema merge schema.
Proof. solve_schema_merge merge schema. Qed.

(** Its row in the table of message types. *)
Definition message {PB : Protobuf} {PS : ProtobufSpec PB} : message_type :=
  dated_message "QueryDelegatorValidatorsResponse" nothing true schema only.

#[global] Instance message_lawful {PB : Protobuf} (PS : ProtobufSpec PB) : Lawful message.
Proof. solve_lawful decode_field fromJSON only. Qed.

End QueryDelegatorValidatorsResponse.

(** ** [QueryDelegatorValidatorRequest] (cosmos/staking/v1beta1/query.js) *)

Module QueryDelegatorValidatorRequest.

Record t := mk {
  delegatorAddr : string;
  validatorAddr : string;
}.

#[global] Instance t_eta : Settable t := λ m, mk m.(delegatorAddr) m.(validatorAddr).

Definition base : t := mk "" "".

Definition encode {PB : Protobuf} (message : t) (writer : Writer) : Writer :=
  writer
  @> when (str_neq message.(delegatorAddr) "")
       (fun w => w @> uint32 10 @> string_ message.(delegatorAddr))
  @> when (str_neq message.(validatorAddr) "")
       (fun w => w @> uint32 18 @> string_ message.(validatorAddr)).

Definition decode_field {PB : Protobuf} (tag : Z) (message : t) : RM t :=
  match field_number tag with
  | 1 => v ← read_string; mret (message <| delegatorAddr := v |>)
  | 2 => v ← read_string; mret (message <| validatorAddr := v |>)
  | _ => _ ← skipType (wire_type tag); mret message
  end.

Definition decode {PB : Protobuf} (length : option Z) : RM t :=
  decode_message length base decode_field.

Definition fromJSON (object : js) : result t :=
  delegatorAddr' ← field_or object "delegatorAddr" to_string "";
  validatorAddr' ← field_or object "validatorAddr" to_string "";
  Ok (mk delegatorAddr' validatorAddr').

Definition toJSON (message : t) : js :=
  Obj ([("delegatorAddr", Str message.(delegatorAddr));
    ("validatorAddr", Str message.(validatorAddr))]).

Record partial := mkPartial {
  p_delegatorAddr : option string;
  p_validatorAddr : option string;
}.

Definition fromPartial (object : partial) : t := {|
  delegatorAddr := object.(p_delegatorAddr) ?? "";
  validatorAddr := object.(p_validatorAddr) ?? "";
|}.

(** The object with no property given. *)
Definition nothing : partial := mkPartial None None.

(** The bytes [encode] writes. *)
Definition wire {PB : Protobuf} {PS : ProtobufSpec PB} (m : t) : bytes :=
  f_string 10 m.(delegatorAddr) ++
  f_string 18 m.(validatorAddr).

Definition valid (m : t) : Prop :=
  True.

Definition encodable {PB : Protobuf} {PS : ProtobufSpec PB} (m : t) : Prop :=
  valid m ∧ small (wire m).

Definition merge (m a : t) : t := {|
  delegatorAddr := later_string m.(delegatorAddr) a.(delegatorAddr);
  validatorAddr := later_string m.(validatorAddr) a.(validatorAddr);
|}.

(** A whole message seen as a partial one. *)
Definition full (m : t) : partial := {|
  p_delegatorAddr := Some m.(delegatorAddr);
  p_validatorAddr := Some m.(validatorAddr);
|}.

(** The message as its schema declares it. *)
Definition schema (m : t) : list field :=
  [implicit 1 (VString m.(delegatorAddr));
   implicit 2 (VString m.(validatorAddr))].

(** The message with its default for every property that is not kept. *)
Definition only (kept : string → bool) (m : t) : t := {|
  delegatorAddr := if kept "delegatorAddr" then m.(delegatorAddr) else "";
  validatorAddr := if kept "validatorAddr" then m.(validatorAddr) else "";
|}.

#[global] Instance codec {PB : Protobuf} : MessageCodec t :=
  {| msg_base := base; msg_encode := encode; msg_field := decode_field |}.

#[global] Program Instance spec {PB : Protobuf} (PS : ProtobufSpec PB) : MessageSpec PS t :=
  {| msg_wire := wire; msg_valid := valid; msg_merge := merge |}.
Next Obligation. solve_encode_wire. Qed.
Next Obligation. solve_decode_wire. Qed.
Next Obligation. solve_merge_base. Qed.
Next Obligation. intros. solve_advances decode_field. Qed.

#[global] Program Instance data : MessageData t partial :=
  {| msg_fromJSON := fromJSON; msg_toJSON := toJSON;
     msg_fromPartial := fromPartial; msg_full := full |}.
Next Obligation. solve_json fromJSON toJSON. Qed.
Next Obligation. solve_partial fromPartial full. Qed.

#[global] Instance schema_wire {PB : Protobuf} {PS : ProtobufSpec PB} : WireSchema wire schema.
Proof. solve_schema_wire wire schema. Qed.

#[global] Instance schema_merge : MergeSchema merge schema.
Proof. solve_schema_merge merge schema. Qed.

(** Its row in the table of message types. *)
Definition message {PB : Protobuf} {PS : ProtobufSpec PB} : message_type :=
  plain_message "QueryDelegatorValidatorRequest" nothing true schema only.

#[global] Instance message_lawful {PB : Protobuf} (PS : ProtobufSpec PB) : Lawful message.
Proof. solve_lawful decode_field fromJSON only. Qed.

End QueryDelegatorValidatorRequest.

(** ** [QueryDelegatorValidatorResponse] (cosmos/staking/v1beta1/query.js) *)

Module QueryDelegatorValidatorResponse.

Record t := mk {
  validator : option Validator.t;
}.

#[global] Instance t_eta : Settable t := λ m, mk m.(validator).

Definition base : t := mk None.

Definition encode {PB : Protobuf} (message : t) (writer : Writer) : result Writer :=
  Ok writer
  @>= defined_e message.(validator) (submessage 10 Validator.encode).

Definition decode_field {PB : Protobuf} (tag : Z) (message : t) : RM t :=
  match field_number tag with
  | 1 => v ← read_nested Validator.decode; mret (message <| validator := Some v |>)
  | _ => _ ← skipType (wire_type tag); mret message
  end.

Definition decode {PB : Protobuf} (length : option Z) : RM t :=
  decode_message length base decode_field.

Definition fromJSON (object : js) : result t :=
  validator' ← field_or object "validator" (to_some Validator.fromJSON) None;
  Ok (mk validator').

Definition toJSON (message : t) : result js :=
  validator' ← option_result Validator.toJSON message.(validator);
  Ok (Obj (prop_opt "validator" id validator')).

Record partial := mkPartial {
  p_validator : option Validator.partial;
}.

Definition fromPartial (object : partial) : t := {|
  validator := Validator.fromPartial <$> object.(p_validator);
|}.

(** The object with no property given. *)
Definition nothing : partial := mkPartial None.

(** The bytes [encode] writes. *)
Definition wire {PB : Protobuf} {PS : ProtobufSpec PB} (m : t) : bytes :=
  f_message 10 Validator.wire m.(validator).

Definition valid (m : t) : Prop :=
  from_option Validator.valid True m.(validator).

(** The byte fields hold arrays, as the interface declares. *)
Definition typed (m : t) : bool := from_option Validator.typed true m.(validator).

(** The message without its empty byte arrays. *)
Definition normal (m : t) : t := {|
  validator := Validator.normal <$> m.(validator);
|}.

(** The dates are valid. *)
Definition timed (m : t) : bool := from_option Validator.timed true m.(validator).

(** The enumeration fields hold members. *)
Definition named (m : t) : bool := from_option Validator.named true m.(validator).

(** The message with the numbers [toJSON] does not know replaced. *)
Definition known (m : t) : t := {|
  validator := Validator.known <$> m.(validator);
|}.

Definition encodable {PB : Protobuf} {PS : ProtobufSpec PB} (m : t) : Prop :=
  typed m = true ∧ valid m ∧ small (wire m).

Definition merge (m a : t) : t := {|
  validator := later_message m.(validator) (Validator.normal <$> a.(validator));
|}.

(** A whole message seen as a partial one. *)
Definition full (m : t) : partial := {|
  p_validator := Validator.full <$> m.(validator);
|}.

(** The message as its schema declares it. *)
Definition schema (m : t) : list field :=
  [singular 1 Optional (message_value Validator.schema) m.(validator)].

(** The message with its default for every property that is not kept. *)
Definition only (kept : string → bool) (m : t) : t := {|
  validator := if kept "validator" then m.(validator) else None;
|}.

#[global] Instance codec {PB : Protobuf} : FallibleCodec t :=
  {| fmsg_base := base; fmsg_encode := encode; fmsg_field := decode_field |}.

#[global] Program Instance spec {PB : Protobuf} (PS : ProtobufSpec PB) : FallibleSpec PS t :=
  {| fmsg_wire := wire; fmsg_valid := valid; fmsg_typed := typed; fmsg_normal := normal;
     fmsg_merge := merge |}.
Next Obligation. solve_fencode_wire. Qed.
Next Obligation. intros. solve_fencode_throws encode typed. Qed.
Next Obligation. solve_fdecode_wire. Qed.
Next Obligation. solve_fmerge_base. Qed.
Next Obligation. intros. solve_fadvances decode_field. Qed.

#[global] Program Instance given_ : FalliblePartial t partial :=
  {| fmsg_fromPartial := fromPartial; fmsg_full := full; fmsg_given := typed |}.
Next Obligation. solve_fgiven fromPartial typed. Qed.
Next Obligation. solve_fpartial fromPartial full typed. Qed.

#[global] Program Instance json : DatedJson t :=
  {| dmsg_fromJSON := fromJSON; dmsg_toJSON := toJSON; dmsg_timed := timed;
     dmsg_named := named; dmsg_known := known |}.
Next Obligation. solve_djson fromJSON toJSON timed. Qed.
Next Obligation. solve_dthrows toJSON timed. Qed.
Next Obligation. solve_known named known. Qed.

#[global] Instance schema_wire {PB : Protobuf} {PS : ProtobufSpec PB} : WireSchema wire schema.
Proof. solve_schema_wire wire schema. Qed.

#[global] Instance schema_normal : NormalSchema normal schema.
Proof. solve_schema_normal normal schema. Qed.

#[global] Instance schema_merge : MergeSchema merge schema.
Proof. solve_schema_merge merge schema. Qed.

(** Its row in the table of message types. *)
Definition message {PB : Protobuf} {PS : ProtobufSpec PB} : message_type :=
  dated_message "QueryDelegatorValidatorResponse" nothing true schema only.

#[global] Instance message_lawful {PB : Protobuf} (PS : ProtobufSpec PB) : Lawful message.
Proof. solve_lawful decode_field fromJSON only. Qed.

End QueryDelegatorValidatorResponse.

(** ** [QueryHistoricalInfoRequest] (cosmos/staking/v1beta1/query.js) *)

Module QueryHistoricalInfoRequest.

Record t := mk {
  height : number;
}.

#[global] Instance t_eta : Settable t := λ m, mk m.(height).

Definition base : t := mk 0.

Definition encode {PB : Protobuf} (message : t) (writer : Writer) : Writer :=
  writer
  @> when (num_neq message.(height) 0) (fun w => w @> uint32 8 @> int64 message.(height)).

Definition decode_field {PB : Protobuf} (tag : Z) (message : t) : RM t :=
  match field_number tag with
  | 1 => v ← read_number read_int64; mret (message <| height := v |>)
  | _ => _ ← skipType (wire_type tag); mret message
  end.

Definition decode {PB : Protobuf} (length : option Z) : RM t :=
  decode_message length base decode_field.

Definition fromJSON (object : js) : result t :=
  height' ← field_or object "height" js_Number 0;
  Ok (mk height').

Definition toJSON (message : t) : js :=
  Obj ([("height", Num message.(height))]).

Record partial := mkPartial {
  p_height : option number;
}.

Definition fromPartial (object : partial) : t := {|
  height := object.(p_height) ?? Int 0;
|}.

(** The object with no property given. *)
Definition nothing : partial := mkPartial None.

(** The bytes [encode] writes. *)
Definition wire {PB : Protobuf} {PS : ProtobufSpec PB} (m : t) : bytes :=
  f_number e_int64 8 m.(height).

Definition valid (m : t) : Prop :=
  int64_ok m.(height).

Definition encodable {PB : Protobuf} {PS : ProtobufSpec PB} (m : t) : Prop :=
  valid m ∧ small (wire m).

Definition merge (m a : t) : t := {|
  height := later_number m.(height) a.(height);
|}.

(** A whole message seen as a partial one. *)
Definition full (m : t) : partial := {|
  p_height := Some m.(height);
|}.

(** The message as its schema declares it. *)
Definition schema (m : t) : list field :=
  [implicit 1 (VInt Int64 m.(height))].

(** The message with its default for every property that is not kept. *)
Definition only (kept : string → bool) (m : t) : t := {|
  height := if kept "height" then m.(height) else Int 0;
|}.

#[global] Instance codec {PB : Protobuf} : MessageCodec t :=
  {| msg_base := base; msg_encode := encode; msg_field := decode_field |}.

#[global] Program Instance spec {PB : Protobuf} (PS : ProtobufSpec PB) : MessageSpec PS t :=
  {| msg_wire := wire; msg_valid := valid; msg_merge := merge |}.
Next Obligation. solve_encode_wire. Qed.
Next Obligation. solve_decode_wire. Qed.
Next Obligation. solve_merge_base. Qed.
Next Obligation. intros. solve_advances decode_field. Qed.

#[global] Program Instance data : MessageData t partial :=
  {| msg_fromJSON := fromJSON; msg_toJSON := toJSON;
     msg_fromPartial := fromPartial; msg_full := full |}.
Next Obligation. solve_json fromJSON toJSON. Qed.
Next Obligation. solve_partial fromPartial full. Qed.

#[global] Instance schema_wire {PB : Protobuf} {PS : ProtobufSpec PB} : WireSchema wire schema.
Proof. solve_schema_wire wire schema. Qed.

#[global] Instance schema_merge : MergeSchema merge schema.
Proof. solve_schema_merge merge schema. Qed.

(** Its row in the table of message types. *)
Definition message {PB : Protobuf} {PS : ProtobufSpec PB} : message_type :=
  plain_message "QueryHistoricalInfoRequest" nothing true schema only.

#[global] Instance message_lawful {PB : Protobuf} (PS : ProtobufSpec PB) : Lawful message.
Proof. solve_lawful decode_field fromJSON only. Qed.

End QueryHistoricalInfoRequest.

(** ** [QueryHistoricalInfoResponse] (cosmos/staking/v1beta1/query.js) *)

Module QueryHistoricalInfoResponse.

Record t := mk {
  hist : option HistoricalInfo.t;
}.

#[global] Instance t_eta : Settable t := λ m, mk m.(hist).

Definition base : t := mk None.

Definition encode {PB : Protobuf} (message : t) (writer : Writer) : result Writer :=
  Ok writer
  @>= defined_e message.(hist) (submessage 10 HistoricalInfo.encode).

Definition decode_field {PB : Protobuf} (tag : Z) (message : t) : RM t :=
  match field_number tag with
  | 1 => v ← read_nested HistoricalInfo.decode; mret (message <| hist := Some v |>)
  | _ => _ ← skipType (wire_type tag); mret message
  end.

Definition decode {PB : Protobuf} (length : option Z) : RM t :=
  decode_message length base decode_field.

Definition fromJSON (object : js) : result t :=
  hist' ← field_or object "hist" (to_some HistoricalInfo.fromJSON) None;
  Ok (mk hist').

Definition toJSON (message : t) : result js :=
  hist' ← option_result HistoricalInfo.toJSON message.(hist);
  Ok (Obj (prop_opt "hist" id hist')).

Record partial := mkPartial {
  p_hist : option HistoricalInfo.partial;
}.

Definition fromPartial (object : partial) : t := {|
  hist := HistoricalInfo.fromPartial <$> object.(p_hist);
|}.

(** The object with no property given. *)
Definition nothing : partial := mkPartial None.

(** The bytes [encode] writes. *)
Definition wire {PB : Protobuf} {PS : ProtobufSpec PB} (m : t) : bytes :=
  f_message 10 HistoricalInfo.wire m.(hist).

Definition valid (m : t) : Prop :=
  from_option HistoricalInfo.valid True m.(hist).

(** The byte fields hold arrays, as the interface declares. *)
Definition typed (m : t) : bool := from_option HistoricalInfo.typed true m.(hist).

(** The message without its empty byte arrays. *)
Definition normal (m : t) : t := {|
  hist := HistoricalInfo.normal <$> m.(hist);
|}.

(** The dates are valid. *)
Definition timed (m : t) : bool := from_option HistoricalInfo.timed true m.(hist).

(** The enumeration fields hold members. *)
Definition named (m : t) : bool := from_option HistoricalInfo.named true m.(hist).

(** The message with the numbers [toJSON] does not know replaced. *)
Definition known (m : t) : t := {|
  hist := HistoricalInfo.known <$> m.(hist);
|}.

Definition encodable {PB : Protobuf} {PS : ProtobufSpec PB} (m : t) : Prop :=
  typed m = true ∧ valid m ∧ small (wire m).

Definition merge (m a : t) : t := {|
  hist := later_message m.(hist) (HistoricalInfo.normal <$> a.(hist));
|}.

(** A whole message seen as a partial one. *)
Definition full (m : t) : partial := {|
  p_hist := HistoricalInfo.full <$> m.(hist);
|}.

(** The message as its schema declares it. *)
Definition schema (m : t) : list field :=
  [singular 1 Optional (message_value HistoricalInfo.schema) m.(hist)].

(** The message with its default for every property that is not kept. *)
Definition only (kept : string → bool) (m : t) : t := {|
  hist := if kept "hist" then m.(hist) else None;
|}.

#[global] Instance codec {PB : Protobuf} : FallibleCodec t :=
  {| fmsg_base := base; fmsg_encode := encode; fmsg_field := decode_field |}.

#[global] Program Instance spec {PB : Protobuf} (PS : ProtobufSpec PB) : FallibleSpec PS t :=
  {| fmsg_wire := wire; fmsg_valid := valid; fmsg_typed := typed; fmsg_normal := normal;
     fmsg_merge := merge |}.
Next Obligation. solve_fencode_wire. Qed.
Next Obligation. intros. solve_fencode_throws encode typed. Qed.
Next Obligation. solve_fdecode_wire. Qed.
Next Obligation. solve_fmerge_base. Qed.
Next Obligation. intros. solve_fadvances decode_field. Qed.

#[global] Program Instance given_ : FalliblePartial t partial :=
  {| fmsg_fromPartial := fromPartial; fmsg_full := full; fmsg_given := typed |}.
Next Obligation. solve_fgiven fromPartial typed. Qed.
Next Obligation. solve_fpartial fromPartial full typed. Qed.

#[global] Program Instance json : DatedJson t :=
  {| dmsg_fromJSON := fromJSON; dmsg_toJSON := toJSON; dmsg_timed := timed;
     dmsg_named := named; dmsg_known := known |}.
Next Obligation. solve_djson fromJSON toJSON timed. Qed.
Next Obligation. solve_dthrows toJSON timed. Qed.
Next Obligation. solve_known named known. Qed.

#[global] Instance schema_wire {PB : Protobuf} {PS : ProtobufSpec PB} : WireSchema wire schema.
Proof. solve_schema_wire wire schema. Qed.

#[global] Instance schema_normal : NormalSchema normal schema.
Proof. solve_schema_normal normal schema. Qed.

#[global] Instance schema_merge : MergeSchema merge schema.
Proof. solve_schema_merge merge schema. Qed.

(** Its row in the table of message types. *)
Definition message {PB : Protobuf} {PS : ProtobufSpec PB} : message_type :=
  dated_message "QueryHistoricalInfoResponse" nothing true schema only.

#[global] Instance message_lawful {PB : Protobuf} (PS : ProtobufSpec PB) : Lawful message.
Proof. solve_lawful decode_field fromJSON only. Qed.

End QueryHistoricalInfoResponse.

(** ** [QueryPoolRequest] (cosmos/staking/v1beta1/query.js) *)

Module QueryPoolRequest.

Record t := mk {}.

#[global] Instance t_eta : Settable t := λ m, m.

Definition base : t := mk.

Definition encode {PB : Protobuf} (message : t) (writer : Writer) : Writer :=
  writer.

Definition decode_field {PB : Protobuf} (tag : Z) (message : t) : RM t :=
  match field_number tag with
  | _ => _ ← skipType (wire_type tag); mret message
  end.

Definition decode {PB : Protobuf} (length : option Z) : RM t :=
  decode_message length base decode_field.

Definition fromJSON (object : js) : result t :=
  Ok base.

Definition toJSON (message : t) : js :=
  Obj [].

Record partial := mkPartial {}.

Definition fromPartial (object : partial) : t := base.

(** The object with no property given. *)
Definition nothing : partial := mkPartial.

(** The bytes [encode] writes. *)
Definition wire {PB : Protobuf} {PS : ProtobufSpec PB} (m : t) : bytes :=
  [].

Definition valid (m : t) : Prop :=
  True.

Definition encodable {PB : Protobuf} {PS : ProtobufSpec PB} (m : t) : Prop :=
  valid m ∧ small (wire m).

Definition merge (m a : t) : t := m.

(** A whole message seen as a partial one. *)
Definition full (m : t) : partial := mkPartial.

(** The message as its schema declares it. *)
Definition schema (m : t) : list field :=
  [].

(** The message with its default for every property that is not kept. *)
Definition only (kept : string → bool) (m : t) : t := m.

#[global] Instance codec {PB : Protobuf} : MessageCodec t :=
  {| msg_base := base; msg_encode := encode; msg_field := decode_field |}.

#[global] Program Instance spec {PB : Protobuf} (PS : ProtobufSpec PB) : MessageSpec PS t :=
  {| msg_wire := wire; msg_valid := valid; msg_merge := merge |}.
Next Obligation. solve_encode_wire. Qed.
Next Obligation. solve_decode_wire. Qed.
Next Obligation. solve_merge_base. Qed.
Next Obligation. intros. solve_advances decode_field. Qed.

#[global] Program Instance data : MessageData t partial :=
  {| msg_fromJSON := fromJSON; msg_toJSON := toJSON;
     msg_fromPartial := fromPartial; msg_full := full |}.
Next Obligation. solve_json fromJSON toJSON. Qed.
Next Obligation. solve_partial fromPartial full. Qed.

#[global] Instance schema_wire {PB : Protobuf} {PS : ProtobufSpec PB} : WireSchema wire schema.
Proof. solve_schema_wire wire schema. Qed.

#[global] Instance schema_merge : MergeSchema merge schema.
Proof. solve_schema_merge merge schema. Qed.

(** Its row in the table of message types. *)
Definition message {PB : Protobuf} {PS : ProtobufSpec PB} : message_type :=
  plain_message "QueryPoolRequest" nothing false schema only.

#[global] Instance message_lawful {PB : Protobuf} (PS : ProtobufSpec PB) : Lawful message.
Proof. solve_lawful decode_field fromJSON only. Qed.

End QueryPoolRequest.

(** ** [QueryPoolResponse] (cosmos/staking/v1beta1/query.js) *)

Module QueryPoolResponse.

Record t := mk {
  pool : option Pool.t;
}.

#[global] Instance t_eta : Settable t := λ m, mk m.(pool).

Definition base : t := mk None.

Definition encode {PB : Protobuf} (message : t) (writer : Writer) : Writer :=
  writer
  @> defined message.(pool) (fun v w => w @> uint32 10 @> fork @> Pool.encode v @> ldelim).

Definition decode_field {PB : Protobuf} (tag : Z) (message : t) : RM t :=
  match field_number tag with
  | 1 => v ← read_nested Pool.decode; mret (message <| pool := Some v |>)
  | _ => _ ← skipType (wire_type tag); mret message
  end.

Definition decode {PB : Protobuf} (length : option Z) : RM t :=
  decode_message length base decode_field.

Definition fromJSON (object : js) : result t :=
  pool' ← field_or object "pool" (to_some Pool.fromJSON) None;
  Ok (mk pool').

Definition toJSON (message : t) : js :=
  Obj (prop_opt "pool" Pool.toJSON message.(pool)).

Record partial := mkPartial {
  p_pool : option Pool.partial;
}.

Definition fromPartial (object : partial) : t := {|
  pool := Pool.fromPartial <$> object.(p_pool);
|}.

(** The object with no property given. *)
Definition nothing : partial := mkPartial None.

(** The bytes [encode] writes. *)
Definition wire {PB : Protobuf} {PS : ProtobufSpec PB} (m : t) : bytes :=
  f_message 10 Pool.wire m.(pool).

Definition valid (m : t) : Prop :=
  from_option Pool.valid True m.(pool).

Definition encodable {PB : Protobuf} {PS : ProtobufSpec PB} (m : t) : Prop :=
  valid m ∧ small (wire m).

Definition merge (m a : t) : t := {|
  pool := later_message m.(pool) a.(pool);
|}.

(** A whole message seen as a partial one. *)
Definition full (m : t) : partial := {|
  p_pool := Pool.full <$> m.(pool);
|}.

(** The message as its schema declares it. *)
Definition schema (m : t) : list field :=
  [singular 1 Optional (message_value Pool.schema) m.(pool)].

(** The message with its default for every property that is not kept. *)
Definition only (kept : string → bool) (m : t) : t := {|
  pool := if kept "pool" then m.(pool) else None;
|}.

#[global] Instance codec {PB : Protobuf} : MessageCodec t :=
  {| msg_base := base; msg_encode := encode; msg_field := decode_field |}.

#[global] Program Instance spec {PB : Protobuf} (PS : ProtobufSpec PB) : MessageSpec PS t :=
  {| msg_wire := wire; msg_valid := valid; msg_merge := merge |}.
Next Obligation. solve_encode_wire. Qed.
Next Obligation. solve_decode_wire. Qed.
Next Obligation. solve_merge_base. Qed.
Next Obligation. intros. solve_advances decode_field. Qed.

#[global] Program Instance data : MessageData t partial :=
  {| msg_fromJSON := fromJSON; msg_toJSON := toJSON;
     msg_fromPartial := fromPartial; msg_full := full |}.
Next Obligation. solve_json fromJSON toJSON. Qed.
Next Obligation. solve_partial fromPartial full. Qed.

#[global] Instance schema_wire {PB : Protobuf} {PS : ProtobufSpec PB} : WireSchema wire schema.
Proof. solve_schema_wire wire schema. Qed.

#[global] Instance schema_merge : MergeSchema merge schema.
Proof. solve_schema_merge merge schema. Qed.

(** Its row in the table of message types. *)
Definition message {PB : Protobuf} {PS : ProtobufSpec PB} : message_type :=
  plain_message "QueryPoolResponse" nothing true schema only.

#[global] Instance message_lawful {PB : Protobuf} (PS : ProtobufSpec PB) : Lawful message.
Proof. solve_lawful decode_field fromJSON only. Qed.

End QueryPoolResponse.

(** ** [QueryParamsRequest] (cosmos/staking/v1beta1/query.js) *)

Module QueryParamsRequest.

Record t := mk {}.

#[global] Instance t_eta : Settable t := λ m, m.

Definition base : t := mk.

Definition encode {PB : Protobuf} (message : t) (writer : Writer) : Writer :=
  writer.

Definition decode_field {PB : Protobuf} (tag : Z) (message : t) : RM t :=
  match field_number tag with
  | _ => _ ← skipType (wire_type tag); mret message
  end.

Definition decode {PB : Protobuf} (length : option Z) : RM t :=
  decode_message length base decode_field.

Definition fromJSON (object : js) : result t :=
  Ok base.

Definition toJSON (message : t) : js :=
  Obj [].

Record partial := mkPartial {}.

Definition fromPartial (object : partial) : t := base.

(** The object with no property given. *)
Definition nothing : partial := mkPartial.

(** The bytes [encode] writes. *)
Definition wire {PB : Protobuf} {PS : ProtobufSpec PB} (m : t) : bytes :=
  [].

Definition valid (m : t) : Prop :=
  True.

Definition encodable {PB : Protobuf} {PS : ProtobufSpec PB} (m : t) : Prop :=
  valid m ∧ small (wire m).

Definition merge (m a : t) : t := m.

(** A whole message seen as a partial one. *)
Definition full (m : t) : partial := mkPartial.

(** The message as its schema declares it. *)
Definition schema (m : t) : list field :=
  [].

(** The message with its default for every property that is not kept. *)
Definition only (kept : string → bool) (m : t) : t := m.

#[global] Instance codec {PB : Protobuf} : MessageCodec t :=
  {| msg_base := base; msg_encode := encode; msg_field := decode_field |}.

#[global] Program Instance spec {PB : Protobuf} (PS : ProtobufSpec PB) : MessageSpec PS t :=
  {| msg_wire := wire; msg_valid := valid; msg_merge := merge |}.
Next Obligation. solve_encode_wire. Qed.
Next Obligation. solve_decode_wire. Qed.
Next Obligation. solve_merge_base. Qed.
Next Obligation. intros. solve_advances decode_field. Qed.

#[global] Program Instance data : MessageData t partial :=
  {| msg_fromJSON := fromJSON; msg_toJSON := toJSON;
     msg_fromPartial := fromPartial; msg_full := full |}.
Next Obligation. solve_json fromJSON toJSON. Qed.
Next Obligation. solve_partial fromPartial full. Qed.

#[global] Instance schema_wire {PB : Protobuf} {PS : ProtobufSpec PB} : WireSchema wire schema.
Proof. solve_schema_wire wire schema. Qed.

#[global] Instance schema_merge : MergeSchema merge schema.
Proof. solve_schema_merge merge schema. Qed.

(** Its row in the table of message types. *)
Definition message {PB : Protobuf} {PS : ProtobufSpec PB} : message_type :=
  plain_message "QueryParamsRequest" nothing false schema only.

#[global] Instance message_lawful {PB : Protobuf} (PS : ProtobufSpec PB) : Lawful message.
Proof. solve_lawful decode_field fromJSON only. Qed.

End QueryParamsRequest.

(** ** [QueryParamsResponse] (cosmos/staking/v1beta1/query.js) *)

Module QueryParamsResponse.

Record t := mk {
  params : option Params.t;
}.

#[global] Instance t_eta : Settable t := λ m, mk m.(params).

Definition base : t := mk None.

Definition encode {PB : Protobuf} (message : t) (writer : Writer) : Writer :=
  writer
  @> defined message.(params) (fun v w => w @> uint32 10 @> fork @> Params.encode v @> ldelim).

Definition decode_field {PB : Protobuf} (tag : Z) (message : t) : RM t :=
  match field_number tag with
  | 1 => v ← read_nested Params.decode; mret (message <| params := Some v |>)
  | _ => _ ← skipType (wire_type tag); mret message
  end.

Definition decode {PB : Protobuf} (length : option Z) : RM t :=
  decode_message length base decode_field.

Definition fromJSON (object : js) : result t :=
  params' ← field_or object "params" (to_some Params.fromJSON) None;
  Ok (mk params').

Definition toJSON (message : t) : js :=
  Obj (prop_opt "params" Params.toJSON message.(params)).

Record partial := mkPartial {
  p_params : option Params.partial;
}.

Definition fromPartial (object : partial) : t := {|
  params := Params.fromPartial <$> object.(p_params);
|}.

(** The object with no property given. *)
Definition nothing : partial := mkPartial None.

(** The bytes [encode] writes. *)
Definition wire {PB : Protobuf} {PS : ProtobufSpec PB} (m : t) : bytes :=
  f_message 10 Params.wire m.(params).

Definition valid (m : t) : Prop :=
  from_option Params.valid True m.(params).

Definition encodable {PB : Protobuf} {PS : ProtobufSpec PB} (m : t) : Prop :=
  valid m ∧ small (wire m).

Definition merge (m a : t) : t := {|
  params := later_message m.(params) a.(params);
|}.

(** A whole message seen as a partial one. *)
Definition full (m : t) : partial := {|
  p_params := Params.full <$> m.(params);
|}.

(** The message as its schema declares it. *)
Definition schema (m : t) : list field :=
  [singular 1 Optional (message_value Params.schema) m.(params)].

(** The message with its default for every property that is not kept. *)
Definition only (kept : string → bool) (m : t) : t := {|
  params := if kept "params" then m.(params) else None;
|}.

#[global] Instance codec {PB : Protobuf} : MessageCodec t :=
  {| msg_base := base; msg_encode := encode; msg_field := decode_field |}.

#[global] Program Instance spec {PB : Protobuf} (PS : ProtobufSpec PB) : MessageSpec PS t :=
  {| msg_wire := wire; msg_valid := valid; msg_merge := merge |}.
Next Obligation. solve_encode_wire. Qed.
Next Obligation. solve_decode_wire. Qed.
Next Obligation. solve_merge_base. Qed.
Next Obligation. intros. solve_advances decode_field. Qed.

#[global] Program Instance data : MessageData t partial :=
  {| msg_fromJSON := fromJSON; msg_toJSON := toJSON;
     msg_fromPartial := fromPartial; msg_full := full |}.
Next Obligation. solve_json fromJSON toJSON. Qed.
Next Obligation. solve_partial fromPartial full. Qed.

#[global] Instance schema_wire {PB : Protobuf} {PS : ProtobufSpec PB} : WireSchema wire schema.
Proof. solve_schema_wire wire schema. Qed.

#[global] Instance schema_merge : MergeSchema merge schema.
Proof. solve_schema_merge merge schema. Qed.

(** Its row in the table of message types. *)
Definition message {PB : Protobuf} {PS : ProtobufSpec PB} : message_type :=
  plain_message "QueryParamsResponse" nothing true schema only.

#[global] Instance message_lawful {PB : Protobuf} (PS : ProtobufSpec PB) : Lawful message.
Proof. solve_lawful decode_field fromJSON only. Qed.

End QueryParamsResponse.


(** ** [QueryClientImpl]

    [rpc] is the transport the class is constructed with: [rpc service method data]
    is what the promise of [this.rpc.request] settles to. *)
Module QueryClientImpl.
Section client.
Context {PB : Protobuf} (rpc : string → string → bytes → result bytes).

Definition Validators (request : QueryValidatorsRequest.t) : result QueryValidatorsResponse.t :=
  w ← QueryValidatorsRequest.encode request create;
  data ← rpc "cosmos.staking.v1beta1.Query" "Validators" (finish w);
  decode_bytes QueryValidatorsResponse.decode data.

Definition Validator (request : QueryValidatorRequest.t) : result QueryValidatorResponse.t :=
  data ← rpc "cosmos.staking.v1beta1.Query" "Validator"
    (finish (QueryValidatorRequest.encode request create));
  decode_bytes QueryValidatorResponse.decode data.

Definition ValidatorDelegations (request : QueryValidatorDelegationsRequest.t)
    : result QueryValidatorDelegationsResponse.t :=
  w ← QueryValidatorDelegationsRequest.encode request create;
  data ← rpc "cosmos.staking.v1beta1.Query" "ValidatorDelegations" (finish w);
  decode_bytes QueryValidatorDelegationsResponse.decode data.

Definition ValidatorUnbondingDelegations (request : QueryValidatorUnbondingDelegationsRequest.t)
    : result QueryValidatorUnbondingDelegationsResponse.t :=
  w ← QueryValidatorUnbondingDelegationsRequest.encode request create;
  data ← rpc "cosmos.staking.v1beta1.Query" "ValidatorUnbondingDelegations" (finish w);
  decode_bytes QueryValidatorUnbondingDelegationsResponse.decode data.

Definition Delegation (request : QueryDelegationRequest.t) : result QueryDelegationResponse.t :=
  data ← rpc "cosmos.staking.v1beta1.Query" "Delegation"
    (finish (QueryDelegationRequest.encode request create));
  decode_bytes QueryDelegationResponse.decode data.

Definition UnbondingDelegation (request : QueryUnbondingDelegationRequest.t)
    : result QueryUnbondingDelegationResponse.t :=
  data ← rpc "cosmos.staking.v1beta1.Query" "UnbondingDelegation"
    (finish (QueryUnbondingDelegationRequest.encode request create));
  decode_bytes QueryUnbondingDelegationResponse.decode data.

Definition DelegatorDelegations (request : QueryDelegatorDelegationsRequest.t)
    : result QueryDelegatorDelegationsResponse.t :=
  w ← QueryDelegatorDelegationsRequest.encode request create;
  data ← rpc "cosmos.staking.v1beta1.Query" "DelegatorDelegations" (finish w);
  decode_bytes QueryDelegatorDelegationsResponse.decode data.

Definition DelegatorUnbondingDelegations (request : QueryDelegatorUnbondingDelegationsRequest.t)
    : result QueryDelegatorUnbondingDelegationsResponse.t :=
  w ← QueryDelegatorUnbondingDelegationsRequest.encode request create;
  data ← rpc "cosmos.staking.v1beta1.Query" "DelegatorUnbondingDelegations" (finish w);
  decode_bytes QueryDelegatorUnbondingDelegationsResponse.decode data.

Definition Redelegations (request : QueryRedelegationsRequest.t)
    : result QueryRedelegationsResponse.t :=
  w ← QueryRedelegationsRequest.encode request create;
  data ← rpc "cosmos.staking.v1beta1.Query" "Redelegations" (finish w);
  decode_bytes QueryRedelegationsResponse.decode data.

Definition DelegatorValidators (request : QueryDelegatorValidatorsRequest.t)
    : result QueryDelegatorValidatorsResponse.t :=
  w ← QueryDelegatorValidatorsRequest.encode request create;
  data ← rpc "cosmos.staking.v1beta1.Query" "DelegatorValidators" (finish w);
  decode_bytes QueryDelegatorValidatorsResponse.decode data.

Definition DelegatorValidator (request : QueryDelegatorValidatorRequest.t)
    : result QueryDelegatorValidatorResponse.t :=
  data ← rpc "cosmos.staking.v1beta1.Query" "DelegatorValidator"
    (finish (QueryDelegatorValidatorRequest.encode request create));
  decode_bytes QueryDelegatorValidatorResponse.decode data.

Definition HistoricalInfo (request : QueryHistoricalInfoRequest.t)
    : result QueryHistoricalInfoResponse.t :=
  data ← rpc "cosmos.staking.v1beta1.Query" "HistoricalInfo"
    (finish (QueryHistoricalInfoRequest.encode request create));
  decode_bytes QueryHistoricalInfoResponse.decode data.

Definition Pool (request : QueryPoolRequest.t) : result QueryPoolResponse.t :=
  data ← rpc "cosmos.staking.v1beta1.Query" "Pool"
    (finish (QueryPoolRequest.encode request create));
  decode_bytes QueryPoolResponse.decode data.

Definition Params (request : QueryParamsRequest.t) : result QueryParamsResponse.t :=
  data ← rpc "cosmos.staking.v1beta1.Query" "Params"
    (finish (QueryParamsRequest.encode request create));
  decode_bytes QueryParamsResponse.decode data.

End client.
End QueryClientImpl.

(** ** The message types of this file *)

Definition messages {PB : Protobuf} {PS : ProtobufSpec PB} : list message_type :=
  [ QueryValidatorsRequest.message; QueryValidatorsResponse.message;
   QueryValidatorRequest.message; QueryValidatorResponse.message;
   QueryValidatorDelegationsRequest.message; QueryValidatorDelegationsResponse.message;
   QueryValidatorUnbondingDelegationsRequest.message;
   QueryValidatorUnbondingDelegationsResponse.message; QueryDelegationRequest.message;
   QueryDelegationResponse.message; QueryUnbondingDelegationRequest.message;
   QueryUnbondingDelegationResponse.message; QueryDelegatorDelegationsRequest.message;
   QueryDelegatorDelegationsResponse.message; QueryDelegatorUnbondingDelegationsRequest.message;
   QueryDelegatorUnbondingDelegationsResponse.message; QueryRedelegationsRequest.message;
   QueryRedelegationsResponse.message; QueryDelegatorValidatorsRequest.message;
   QueryDelegatorValidatorsResponse.message; QueryDelegatorValidatorRequest.message;
   QueryDelegatorValidatorResponse.message; QueryHistoricalInfoRequest.message;
   QueryHistoricalInfoResponse.message; QueryPoolRequest.message; QueryPoolResponse.message;
   QueryParamsRequest.message; QueryParamsResponse.message].

Lemma StakingQuery_lawful {PB : Protobuf} {PS : ProtobufSpec PB} : Forall Lawful messages.
Proof. solve_table. Qed.

(** The methods of [QueryClientImpl]. *)
Definition query_methods {PB : Protobuf} {PS : ProtobufSpec PB} : list rpc_method :=
  [mkMethod "cosmos.staking.v1beta1.Query" "Validators"
     QueryValidatorsRequest.message QueryValidatorsResponse.message
     (fun rpc => QueryClientImpl.Validators rpc);
   mkMethod "cosmos.staking.v1beta1.Query" "Validator"
     QueryValidatorRequest.message QueryValidatorResponse.message
     (fun rpc => QueryClientImpl.Validator rpc);
   mkMethod "cosmos.staking.v1beta1.Query" "ValidatorDelegations"
     QueryValidatorDelegationsRequest.message QueryValidatorDelegationsResponse.message
     (fun rpc => QueryClientImpl.ValidatorDelegations rpc);
   mkMethod "cosmos.staking.v1beta1.Query" "ValidatorUnbondingDelegations"
     QueryValidatorUnbondingDelegationsRequest.message QueryValidatorUnbondingDelegationsResponse.message
     (fun rpc => QueryClientImpl.ValidatorUnbondingDelegations rpc);
   mkMethod "cosmos.staking.v1beta1.Query" "Delegation"
     QueryDelegationRequest.message QueryDelegationResponse.message
     (fun rpc => QueryClientImpl.Delegation rpc);
   mkMethod "cosmos.staking.v1beta1.Query" "UnbondingDelegation"
     QueryUnbondingDelegationRequest.message QueryUnbondingDelegationResponse.message
     (fun rpc => QueryClientImpl.UnbondingDelegation rpc);
   mkMethod "cosmos.staking.v1beta1.Query" "DelegatorDelegations"
     QueryDelegatorDelegationsRequest.message QueryDelegatorDelegationsResponse.message
     (fun rpc => QueryClientImpl.DelegatorDelegations rpc);
   mkMethod "cosmos.staking.v1beta1.Query" "DelegatorUnbondingDelegations"
     QueryDelegatorUnbondingDelegationsRequest.message QueryDelegatorUnbondingDelegationsResponse.message
     (fun rpc => QueryClientImpl.DelegatorUnbondingDelegations rpc);
   mkMethod "cosmos.staking.v1beta1.Query" "Redelegations"
     QueryRedelegationsRequest.message QueryRedelegationsResponse.message
     (fun rpc => QueryClientImpl.Redelegations rpc);
   mkMethod "cosmos.staking.v1beta1.Query" "DelegatorValidators"
     QueryDelegatorValidatorsRequest.message QueryDelegatorValidatorsResponse.message
     (fun rpc => QueryClientImpl.DelegatorValidators rpc);
   mkMethod "cosmos.staking.v1beta1.Query" "DelegatorValidator"
     QueryDelegatorValidatorRequest.message QueryDelegatorValidatorResponse.message
     (fun rpc => QueryClientImpl.DelegatorValidator rpc);
   mkMethod "cosmos.staking.v1beta1.Query" "HistoricalInfo"
     QueryHistoricalInfoRequest.message QueryHistoricalInfoResponse.message
     (fun rpc => QueryClientImpl.HistoricalInfo rpc);
   mkMethod "cosmos.staking.v1beta1.Query" "Pool"
     QueryPoolRequest.message QueryPoolResponse.message
     (fun rpc => QueryClientImpl.Pool rpc);
   mkMethod "cosmos.staking.v1beta1.Query" "Params"
     QueryParamsRequest.message QueryParamsResponse.message
     (fun rpc => QueryClientImpl.Params rpc)].

Lemma StakingQuery_query_methods_lawful {PB : Protobuf} {PS : ProtobufSpec PB} : Forall method_lawful query_methods.
Proof. solve_methods. Qed.
