(* ===== verification/VestingTypes.v ===== *)
(** * The messages of the vesting module of the Cosmos SDK

    Vesting accounts: the codecs of
    [cosmos.vesting.v1beta1/module/types/cosmos/vesting/v1beta1/*.js].  The
    accounts extend the type of [cosmos/auth/v1beta1/auth.js], which is the
    same file in the dclauth module. *)
From S2P Require Import Prelude Js Protobuf Codec Calendar Dates Base64 Fallible Proto3 MessageTable CommonTypes CosmosBase DclauthTypes.
Open Scope Z_scope.

(** ** [BaseVestingAccount] (cosmos/vesting/v1beta1/vesting.js) *)

Module BaseVestingAccount.

Record t := mk {
  baseAccount : option BaseAccount.t;
  originalVesting : list Coin.t;
  delegatedFree : list Coin.t;
  delegatedVesting : list Coin.t;
  endTime : number;
}.

#[global] Instance t_eta : Settable t := λ m, mk m.(baseAccount) m.(originalVesting)
  m.(delegatedFree) m.(delegatedVesting) m.(endTime).

Definition base : t := mk None [] [] [] 0.

Definition encode {PB : Protobuf} (message : t) (writer : Writer) : result Writer :=
  Ok writer
  @>= defined_e message.(baseAccount) (submessage 10 BaseAccount.encode)
  @>= pure (each message.(originalVesting) (fun v w => w @> uint32 18 @> fork @> Coin.encode v @> ldelim))
  @>= pure (each message.(delegatedFree) (fun v w => w @> uint32 26 @> fork @> Coin.encode v @> ldelim))
  @>= pure (each message.(delegatedVesting) (fun v w => w @> uint32 34 @> fork @> Coin.encode v @> ldelim))
  @>= pure (when (num_neq message.(endTime) 0) (fun w => w @> uint32 40 @> int64 message.(endTime))).

Definition decode_field {PB : Protobuf} (tag : Z) (message : t) : RM t :=
  match field_number tag with
  | 1 => v ← read_nested BaseAccount.decode; mret (message <| baseAccount := Some v |>)
  | 2 => v ← read_nested Coin.decode;
         mret (message <| originalVesting := message.(originalVesting) ++ [v] |>)
  | 3 => v ← read_nested Coin.decode;
         mret (message <| delegatedFree := message.(delegatedFree) ++ [v] |>)
  | 4 => v ← read_nested Coin.decode;
         mret (message <| delegatedVesting := message.(delegatedVesting) ++ [v] |>)
  | 5 => v ← read_number read_int64; mret (message <| endTime := v |>)
  | _ => _ ← skipType (wire_type tag); mret message
  end.

Definition decode {PB : Protobuf} (length : option Z) : RM t :=
  decode_message length base decode_field.

Definition fromJSON (object : js) : result t :=
  baseAccount' ← field_or object "baseAccount" (to_some BaseAccount.fromJSON) None;
  originalVesting' ← field_or object "originalVesting" (to_list Coin.fromJSON) [];
  delegatedFree' ← field_or object "delegatedFree" (to_list Coin.fromJSON) [];
  delegatedVesting' ← field_or object "delegatedVesting" (to_list Coin.fromJSON) [];
  endTime' ← field_or object "endTime" js_Number 0;
  Ok (mk baseAccount' originalVesting' delegatedFree' delegatedVesting' endTime').

Definition toJSON (message : t) : js :=
  Obj (prop_opt "baseAccount" BaseAccount.toJSON message.(baseAccount) ++
   [("originalVesting", Arr (map Coin.toJSON message.(originalVesting)));
    ("delegatedFree", Arr (map Coin.toJSON message.(delegatedFree)));
    ("delegatedVesting", Arr (map Coin.toJSON message.(delegatedVesting)));
    ("endTime", Num message.(endTime))]).

Record partial := mkPartial {
  p_baseAccount : option BaseAccount.partial;
  p_originalVesting : option (list Coin.partial);
  p_delegatedFree : option (list Coin.partial);
  p_delegatedVesting : option (list Coin.partial);
  p_endTime : option number;
}.

Definition fromPartial (object : partial) : t := {|
  baseAccount := BaseAccount.fromPartial <$> object.(p_baseAccount);
  originalVesting := map Coin.fromPartial (object.(p_originalVesting) ?? []);
  delegatedFree := map Coin.fromPartial (object.(p_delegatedFree) ?? []);
  delegatedVesting := map Coin.fromPartial (object.(p_delegatedVesting) ?? []);
  endTime := object.(p_endTime) ?? Int 0;
|}.

(** The object with no property given. *)
Definition nothing : partial := mkPartial None None None None None.

(** The bytes [encode] writes. *)
Definition wire {PB : Protobuf} {PS : ProtobufSpec PB} (m : t) : bytes :=
  f_message 10 BaseAccount.wire m.(baseAccount) ++
  f_repeated 18 Coin.wire m.(originalVesting) ++
  f_repeated 26 Coin.wire m.(delegatedFree) ++
  f_repeated 34 Coin.wire m.(delegatedVesting) ++
  f_number e_int64 40 m.(endTime).

Definition valid (m : t) : Prop :=
  from_option BaseAccount.valid True m.(baseAccount) ∧ Forall Coin.valid m.(originalVesting) ∧ Forall Coin.valid m.(delegatedFree) ∧ Forall Coin.valid m.(delegatedVesting) ∧ int64_ok m.(endTime).

(** The byte fields hold arrays, as the interface declares. *)
Definition typed (m : t) : bool := from_option BaseAccount.typed true m.(baseAccount).

(** The message without its empty byte arrays. *)
Definition normal (m : t) : t := {|
  baseAccount := BaseAccount.normal <$> m.(baseAccount);
  originalVesting := m.(originalVesting);
  delegatedFree := m.(delegatedFree);
  delegatedVesting := m.(delegatedVesting);
  endTime := m.(endTime);
|}.

Definition encodable {PB : Protobuf} {PS : ProtobufSpec PB} (m : t) : Prop :=
  typed m = true ∧ valid m ∧ small (wire m).

Definition merge (m a : t) : t := {|
  baseAccount := later_message m.(baseAccount) (BaseAccount.normal <$> a.(baseAccount));
  originalVesting := m.(originalVesting) ++ a.(originalVesting);
  delegatedFree := m.(delegatedFree) ++ a.(delegatedFree);
  delegatedVesting := m.(delegatedVesting) ++ a.(delegatedVesting);
  endTime := later_number m.(endTime) a.(endTime);
|}.

(** A whole message seen as a partial one. *)
Definition full (m : t) : partial := {|
  p_baseAccount := BaseAccount.full <$> m.(baseAccount);
  p_originalVesting := Some (map Coin.full m.(originalVesting));
  p_delegatedFree := Some (map Coin.full m.(delegatedFree));
  p_delegatedVesting := Some (map Coin.full m.(delegatedVesting));
  p_endTime := Some m.(endTime);
|}.

(** The message as its schema declares it. *)
Definition schema (m : t) : list field :=
  [singular 1 Optional (message_value BaseAccount.schema) m.(baseAccount);
   repeated 2 (message_value Coin.schema) m.(originalVesting);
   repeated 3 (message_value Coin.schema) m.(delegatedFree);
   repeated 4 (message_value Coin.schema) m.(delegatedVesting);
   implicit 5 (VInt Int64 m.(endTime))].

(** The message with its default for every property that is not kept. *)
Definition only (kept : string → bool) (m : t) : t := {|
  baseAccount := if kept "baseAccount" then m.(baseAccount) else None;
  originalVesting := if kept "originalVesting" then m.(originalVesting) else [];
  delegatedFree := if kept "delegatedFree" then m.(delegatedFree) else [];
  delegatedVesting := if kept "delegatedVesting" then m.(delegatedVesting) else [];
  endTime := if kept "endTime" then m.(endTime) else Int 0;
|}.

#[global] Instance codec {PB : Protobuf} : FallibleCodec t :=
  {| fmsg_base := base; fmsg_encode := encode; fmsg_field := decode_field |}.

#[global] Program Instance spec {PB : Protobuf} (PS : ProtobufSpec PB) : FallibleSpec PS t :=
  {| fmsg_wire := wire; fmsg_valid := valid; fmsg_typed := typed; fmsg_normal := normal;
     fmsg_merge := merge |}.
Next Obligation. solve_fencode_wire. Qed.
Next Obligation. intros. solve_fencode_throws encode typed. Qed.
Next Obligation. solve_fdecode_wire. Qed.
Next Obligation. solve_fmerge_base. Qed.
Next Obligation. intros. solve_fadvances decode_field. Qed.

#[global] Program Instance given_ : FalliblePartial t partial :=
  {| fmsg_fromPartial := fromPartial; fmsg_full := full; fmsg_given := typed |}.
Next Obligation. solve_fgiven fromPartial typed. Qed.
Next Obligation. solve_fpartial fromPartial full typed. Qed.

#[global] Program Instance json : FallibleJson t :=
  {| fmsg_fromJSON := fromJSON; fmsg_toJSON := toJSON;
     fmsg_named := fun _ => true; fmsg_known := fun m => m |}.
Next Obligation. solve_fjson fromJSON toJSON. Qed.
Next Obligation. reflexivity. Qed.

#[global] Instance schema_wire {PB : Protobuf} {PS : ProtobufSpec PB} : WireSchema wire schema.
Proof. solve_schema_wire wire schema. Qed.

#[global] Instance schema_normal : NormalSchema normal schema.
Proof. solve_schema_normal normal schema. Qed.

#[global] Instance schema_merge : MergeSchema merge schema.
Proof. solve_schema_merge merge schema. Qed.

(** Its row in the table of message types. *)
Definition message {PB : Protobuf} {PS : ProtobufSpec PB} : message_type :=
  fallible_message "BaseVestingAccount" nothing true schema only.

#[global] Instance message_lawful {PB : Protobuf} (PS : ProtobufSpec PB) : Lawful message.
Proof. solve_lawful decode_field fromJSON only. Qed.

End BaseVestingAccount.

(** ** [ContinuousVestingAccount] (cosmos/vesting/v1beta1/vesting.js) *)

Module ContinuousVestingAccount.

Record t := mk {
  baseVestingAccount : option BaseVestingAccount.t;
  startTime : number;
}.

#[global] Instance t_eta : Settable t := λ m, mk m.(baseVestingAccount) m.(startTime).

Definition base : t := mk None 0.

Definition encode {PB : Protobuf} (message : t) (writer : Writer) : result Writer :=
  Ok writer
  @>= defined_e message.(baseVestingAccount) (submessage 10 BaseVestingAccount.encode)
  @>= pure (when (num_neq message.(startTime) 0)
       (fun w => w @> uint32 16 @> int64 message.(startTime))).

Definition decode_field {PB : Protobuf} (tag : Z) (message : t) : RM t :=
  match field_number tag with
  | 1 => v ← read_nested BaseVestingAccount.decode;
         mret (message <| baseVestingAccount := Some v |>)
  | 2 => v ← read_number read_int64; mret (message <| startTime := v |>)
  | _ => _ ← skipType (wire_type tag); mret message
  end.

Definition decode {PB : Protobuf} (length : option Z) : RM t :=
  decode_message length base decode_field.

Definition fromJSON (object : js) : result t :=
  baseVestingAccount' ← field_or object "baseVestingAccount" (to_some BaseVestingAccount.fromJSON) None;
  startTime' ← field_or object "startTime" js_Number 0;
  Ok (mk baseVestingAccount' startTime').

Definition toJSON (message : t) : js :=
  Obj (prop_opt "baseVestingAccount" BaseVestingAccount.toJSON message.(baseVestingAccount) ++
   [("startTime", Num message.(startTime))]).

Record partial := mkPartial {
  p_baseVestingAccount : option BaseVestingAccount.partial;
  p_startTime : option number;
}.

Definition fromPartial (object : partial) : t := {|
  baseVestingAccount := BaseVestingAccount.fromPartial <$> object.(p_baseVestingAccount);
  startTime := object.(p_startTime) ?? Int 0;
|}.

(** The object with no property given. *)
Definition nothing : partial := mkPartial None None.

(** The bytes [encode] writes. *)
Definition wire {PB : Protobuf} {PS : ProtobufSpec PB} (m : t) : bytes :=
  f_message 10 BaseVestingAccount.wire m.(baseVestingAccount) ++
  f_number e_int64 16 m.(startTime).

Definition valid (m : t) : Prop :=
  from_option BaseVestingAccount.valid True m.(baseVestingAccount) ∧ int64_ok m.(startTime).

(** The byte fields hold arrays, as the interface declares. *)
Definition typed (m : t) : bool := from_option BaseVestingAccount.typed true m.(baseVestingAccount).

(** The message without its empty byte arrays. *)
Definition normal (m : t) : t := {|
  baseVestingAccount := BaseVestingAccount.normal <$> m.(baseVestingAccount);
  startTime := m.(startTime);
|}.

Definition encodable {PB : Protobuf} {PS : ProtobufSpec PB} (m : t) : Prop :=
  typed m = true ∧ valid m ∧ small (wire m).

Definition merge (m a : t) : t := {|
  baseVestingAccount := later_message m.(baseVestingAccount) (BaseVestingAccount.normal <$> a.(baseVestingAccount));
  startTime := later_number m.(startTime) a.(startTime);
|}.

(** A whole message seen as a partial one. *)
Definition full (m : t) : partial := {|
  p_baseVestingAccount := BaseVestingAccount.full <$> m.(baseVestingAccount);
  p_startTime := Some m.(startTime);
|}.

(** The message as its schema declares it. *)
Definition schema (m : t) : list field :=
  [singular 1 Optional (message_value BaseVestingAccount.schema) m.(baseVestingAccount);
   implicit 2 (VInt Int64 m.(startTime))].

(** The message with its default for every property that is not kept. *)
Definition only (kept : string → bool) (m : t) : t := {|
  baseVestingAccount := if kept "baseVestingAccount" then m.(baseVestingAccount) else None;
  startTime := if kept "startTime" then m.(startTime) else Int 0;
|}.

#[global] Instance codec {PB : Protobuf} : FallibleCodec t :=
  {| fmsg_base := base; fmsg_encode := encode; fmsg_field := decode_field |}.

#[global] Program Instance spec {PB : Protobuf} (PS : ProtobufSpec PB) : FallibleSpec PS t :=
  {| fmsg_wire := wire; fmsg_valid := valid; fmsg_typed := typed; fmsg_normal := normal;
     fmsg_merge := merge |}.
Next Obligation. solve_fencode_wire. Qed.
Next Obligation. intros. solve_fencode_throws encode typed. Qed.
Next Obligation. solve_fdecode_wire. Qed.
Next Obligation. solve_fmerge_base. Qed.
Next Obligation. intros. solve_fadvances decode_field. Qed.

#[global] Program Instance given_ : FalliblePartial t partial :=
  {| fmsg_fromPartial := fromPartial; fmsg_full := full; fmsg_given := typed |}.
Next Obligation. solve_fgiven fromPartial typed. Qed.
Next Obligation. solve_fpartial fromPartial full typed. Qed.

#[global] Program Instance json : FallibleJson t :=
  {| fmsg_fromJSON := fromJSON; fmsg_toJSON := toJSON;
     fmsg_named := fun _ => true; fmsg_known := fun m => m |}.
Next Obligation. solve_fjson fromJSON toJSON. Qed.
Next Obligation. reflexivity. Qed.

#[global] Instance schema_wire {PB : Protobuf} {PS : ProtobufSpec PB} : WireSchema wire schema.
Proof. solve_schema_wire wire schema. Qed.

#[global] Instance schema_normal : NormalSchema normal schema.
Proof. solve_schema_normal normal schema. Qed.

#[global] Instance schema_merge : MergeSchema merge schema.
Proof. solve_schema_merge merge schema. Qed.

(** Its row in the table of message types. *)
Definition message {PB : Protobuf} {PS : ProtobufSpec PB} : message_type :=
  fallible_message "ContinuousVestingAccount" nothing true schema only.

#[global] Instance message_lawful {PB : Protobuf} (PS : ProtobufSpec PB) : Lawful message.
Proof. solve_lawful decode_field fromJSON only. Qed.

End ContinuousVestingAccount.

(** ** [DelayedVestingAccount] (cosmos/vesting/v1beta1/vesting.js) *)

Module DelayedVestingAccount.

Record t := mk {
  baseVestingAccount : option BaseVestingAccount.t;
}.

#[global] Instance t_eta : Settable t := λ m, mk m.(baseVestingAccount).

Definition base : t := mk None.

Definition encode {PB : Protobuf} (message : t) (writer : Writer) : result Writer :=
  Ok writer
  @>= defined_e message.(baseVestingAccount) (submessage 10 BaseVestingAccount.encode).

Definition decode_field {PB : Protobuf} (tag : Z) (message : t) : RM t :=
  match field_number tag with
  | 1 => v ← read_nested BaseVestingAccount.decode;
         mret (message <| baseVestingAccount := Some v |>)
  | _ => _ ← skipType (wire_type tag); mret message
  end.

Definition decode {PB : Protobuf} (length : option Z) : RM t :=
  decode_message length base decode_field.

Definition fromJSON (object : js) : result t :=
  baseVestingAccount' ← field_or object "baseVestingAccount" (to_some BaseVestingAccount.fromJSON) None;
  Ok (mk baseVestingAccount').

Definition toJSON (message : t) : js :=
  Obj (prop_opt "baseVestingAccount" BaseVestingAccount.toJSON message.(baseVestingAccount)).

Record partial := mkPartial {
  p_baseVestingAccount : option BaseVestingAccount.partial;
}.

Definition fromPartial (object : partial) : t := {|
  baseVestingAccount := BaseVestingAccount.fromPartial <$> object.(p_baseVestingAccount);
|}.

(** The object with no property given. *)
Definition nothing : partial := mkPartial None.

(** The bytes [encode] writes. *)
Definition wire {PB : Protobuf} {PS : ProtobufSpec PB} (m : t) : bytes :=
  f_message 10 BaseVestingAccount.wire m.(baseVestingAccount).

Definition valid (m : t) : Prop :=
  from_option BaseVestingAccount.valid True m.(baseVestingAccount).

(** The byte fields hold arrays, as the interface declares. *)
Definition typed (m : t) : bool := from_option BaseVestingAccount.typed true m.(baseVestingAccount).

(** The message without its empty byte arrays. *)
Definition normal (m : t) : t := {|
  baseVestingAccount := BaseVestingAccount.normal <$> m.(baseVestingAccount);
|}.

Definition encodable {PB : Protobuf} {PS : ProtobufSpec PB} (m : t) : Prop :=
  typed m = true ∧ valid m ∧ small (wire m).

Definition merge (m a : t) : t := {|
  baseVestingAccount := later_message m.(baseVestingAccount) (BaseVestingAccount.normal <$> a.(baseVestingAccount));
|}.

(** A whole message seen as a partial one. *)
Definition full (m : t) : partial := {|
  p_baseVestingAccount := BaseVestingAccount.full <$> m.(baseVestingAccount);
|}.

(** The message as its schema declares it. *)
Definition schema (m : t) : list field :=
  [singular 1 Optional (message_value BaseVestingAccount.schema) m.(baseVestingAccount)].

(** The message with its default for every property that is not kept. *)
Definition only (kept : string → bool) (m : t) : t := {|
  baseVestingAccount := if kept "baseVestingAccount" then m.(baseVestingAccount) else None;
|}.

#[global] Instance codec {PB : Protobuf} : FallibleCodec t :=
  {| fmsg_base := base; fmsg_encode := encode; fmsg_field := decode_field |}.

#[global] Program Instance spec {PB : Protobuf} (PS : ProtobufSpec PB) : FallibleSpec PS t :=
  {| fmsg_wire := wire; fmsg_valid := valid; fmsg_typed := typed; fmsg_normal := normal;
     fmsg_merge := merge |}.
Next Obligation. solve_fencode_wire. Qed.
Next Obligation. intros. solve_fencode_throws encode typed. Qed.
Next Obligation. solve_fdecode_wire. Qed.
Next Obligation. solve_fmerge_base. Qed.
Next Obligation. intros. solve_fadvances decode_field. Qed.

#[global] Program Instance given_ : FalliblePartial t partial :=
  {| fmsg_fromPartial := fromPartial; fmsg_full := full; fmsg_given := typed |}.
Next Obligation. solve_fgiven fromPartial typed. Qed.
Next Obligation. solve_fpartial fromPartial full typed. Qed.

#[global] Program Instance json : FallibleJson t :=
  {| fmsg_fromJSON := fromJSON; fmsg_toJSON := toJSON;
     fmsg_named := fun _ => true; fmsg_known := fun m => m |}.
Next Obligation. solve_fjson fromJSON toJSON. Qed.
Next Obligation. reflexivity. Qed.

#[global] Instance schema_wire {PB : Protobuf} {PS : ProtobufSpec PB} : WireSchema wire schema.
Proof. solve_schema_wire wire schema. Qed.

#[global] Instance schema_normal : NormalSchema normal schema.
Proof. solve_schema_normal normal schema. Qed.

#[global] Instance schema_merge : MergeSchema merge schema.
Proof. solve_schema_merge merge schema. Qed.

(** Its row in the table of message types. *)
Definition message {PB : Protobuf} {PS : ProtobufSpec PB} : message_type :=
  fallible_message "DelayedVestingAccount" nothing true schema only.

#[global] Instance message_lawful {PB : Protobuf} (PS : ProtobufSpec PB) : Lawful message.
Proof. solve_lawful decode_field fromJSON only. Qed.

End DelayedVestingAccount.

(** ** [Period] (cosmos/vesting/v1beta1/vesting.js) *)

Module Period.

Record t := mk {
  length_ : number;
  amount : list Coin.t;
}.

#[global] Instance t_eta : Settable t := λ m, mk m.(length_) m.(amount).

Definition base : t := mk 0 [].

Definition encode {PB : Protobuf} (message : t) (writer : Writer) : Writer :=
  writer
  @> when (num_neq message.(length_) 0) (fun w => w @> uint32 8 @> int64 message.(length_))
  @> each message.(amount) (fun v w => w @> uint32 18 @> fork @> Coin.encode v @> ldelim).

Definition decode_field {PB : Protobuf} (tag : Z) (message : t) : RM t :=
  match field_number tag with
  | 1 => v ← read_number read_int64; mret (message <| length_ := v |>)
  | 2 => v ← read_nested Coin.decode; mret (message <| amount := message.(amount) ++ [v] |>)
  | _ => _ ← skipType (wire_type tag); mret message
  end.

Definition decode {PB : Protobuf} (length : option Z) : RM t :=
  decode_message length base decode_field.

Definition fromJSON (object : js) : result t :=
  length_' ← field_or object "length" js_Number 0;
  amount' ← field_or object "amount" (to_list Coin.fromJSON) [];
  Ok (mk length_' amount').

Definition toJSON (message : t) : js :=
  Obj ([("length", Num message.(length_));
    ("amount", Arr (map Coin.toJSON message.(amount)))]).

Record partial := mkPartial {
  p_length : option number;
  p_amount : option (list Coin.partial);
}.

Definition fromPartial (object : partial) : t := {|
  length_ := object.(p_length) ?? Int 0;
  amount := map Coin.fromPartial (object.(p_amount) ?? []);
|}.

(** The object with no property given. *)
Definition nothing : partial := mkPartial None None.

(** The bytes [encode] writes. *)
Definition wire {PB : Protobuf} {PS : ProtobufSpec PB} (m : t) : bytes :=
  f_number e_int64 8 m.(length_) ++
  f_repeated 18 Coin.wire m.(amount).

Definition valid (m : t) : Prop :=
  int64_ok m.(length_) ∧ Forall Coin.valid m.(amount).

Definition encodable {PB : Protobuf} {PS : ProtobufSpec PB} (m : t) : Prop :=
  valid m ∧ small (wire m).

Definition merge (m a : t) : t := {|
  length_ := later_number m.(length_) a.(length_);
  amount := m.(amount) ++ a.(amount);
|}.

(** A whole message seen as a partial one. *)
Definition full (m : t) : partial := {|
  p_length := Some m.(length_);
  p_amount := Some (map Coin.full m.(amount));
|}.

(** The message as its schema declares it. *)
Definition schema (m : t) : list field :=
  [implicit 1 (VInt Int64 m.(length_));
   repeated 2 (message_value Coin.schema) m.(amount)].

(** The message with its default for every property that is not kept. *)
Definition only (kept : string → bool) (m : t) : t := {|
  length_ := if kept "length" then m.(length_) else Int 0;
  amount := if kept "amount" then m.(amount) else [];
|}.

#[global] Instance codec {PB : Protobuf} : MessageCodec t :=
  {| msg_base := base; msg_encode := encode; msg_field := decode_field |}.

#[global] Program Instance spec {PB : Protobuf} (PS : ProtobufSpec PB) : MessageSpec PS t :=
  {| msg_wire := wire; msg_valid := valid; msg_merge := merge |}.
Next Obligation. solve_encode_wire. Qed.
Next Obligation. solve_decode_wire. Qed.
Next Obligation. solve_merge_base. Qed.
Next Obligation. intros. solve_advances decode_field. Qed.

#[global] Program Instance data : MessageData t partial :=
  {| msg_fromJSON := fromJSON; msg_toJSON := toJSON;
     msg_fromPartial := fromPartial; msg_full := full |}.
Next Obligation. solve_json fromJSON toJSON. Qed.
Next Obligation. solve_partial fromPartial full. Qed.

#[global] Instance schema_wire {PB : Protobuf} {PS : ProtobufSpec PB} : WireSchema wire schema.
Proof. solve_schema_wire wire schema. Qed.

#[global] Instance schema_merge : MergeSchema merge schema.
Proof. solve_schema_merge merge schema. Qed.

(** Its row in the table of message types. *)
Definition message {PB : Protobuf} {PS : ProtobufSpec PB} : message_type :=
  plain_message "Period" nothing true schema only.

#[global] Instance message_lawful {PB : Protobuf} (PS : ProtobufSpec PB) : Lawful message.
Proof. solve_lawful decode_field fromJSON only. Qed.

End Period.

(** ** [PeriodicVestingAccount] (cosmos/vesting/v1beta1/vesting.js) *)

Module PeriodicVestingAccount.

Record t := mk {
  baseVestingAccount : option BaseVestingAccount.t;
  startTime : number;
  vestingPeriods : list Period.t;
}.

#[global] Instance t_eta : Settable t := λ m, mk m.(baseVestingAccount) m.(startTime)
  m.(vestingPeriods).

Definition base : t := mk None 0 [].

Definition encode {PB : Protobuf} (message : t) (writer : Writer) : result Writer :=
  Ok writer
  @>= defined_e message.(baseVestingAccount) (submessage 10 BaseVestingAccount.encode)
  @>= pure (when (num_neq message.(startTime) 0)
       (fun w => w @> uint32 16 @> int64 message.(startTime)))
  @>= pure (each message.(vestingPeriods) (fun v w => w @> uint32 26 @> fork @> Period.encode v @> ldelim)).

Definition decode_field {PB : Protobuf} (tag : Z) (message : t) : RM t :=
  match field_number tag with
  | 1 => v ← read_nested BaseVestingAccount.decode;
         mret (message <| baseVestingAccount := Some v |>)
  | 2 => v ← read_number read_int64; mret (message <| startTime := v |>)
  | 3 => v ← read_nested Period.decode;
         mret (message <| vestingPeriods := message.(vestingPeriods) ++ [v] |>)
  | _ => _ ← skipType (wire_type tag); mret message
  end.

Definition decode {PB : Protobuf} (length : option Z) : RM t :=
  decode_message length base decode_field.

Definition fromJSON (object : js) : result t :=
  baseVestingAccount' ← field_or object "baseVestingAccount" (to_some BaseVestingAccount.fromJSON) None;
  startTime' ← field_or object "startTime" js_Number 0;
  vestingPeriods' ← field_or object "vestingPeriods" (to_list Period.fromJSON) [];
  Ok (mk baseVestingAccount' startTime' vestingPeriods').

Definition toJSON (message : t) : js :=
  Obj (prop_opt "baseVestingAccount" BaseVestingAccount.toJSON message.(baseVestingAccount) ++
   [("startTime", Num message.(startTime));
    ("vestingPeriods", Arr (map Period.toJSON message.(vestingPeriods)))]).

Record partial := mkPartial {
  p_baseVestingAccount : option BaseVestingAccount.partial;
  p_startTime : option number;
  p_vestingPeriods : option (list Period.partial);
}.

Definition fromPartial (object : partial) : t := {|
  baseVestingAccount := BaseVestingAccount.fromPartial <$> object.(p_baseVestingAccount);
  startTime := object.(p_startTime) ?? Int 0;
  vestingPeriods := map Period.fromPartial (object.(p_vestingPeriods) ?? []);
|}.

(** The object with no property given. *)
Definition nothing : partial := mkPartial None None None.

(** The bytes [encode] writes. *)
Definition wire {PB : Protobuf} {PS : ProtobufSpec PB} (m : t) : bytes :=
  f_message 10 BaseVestingAccount.wire m.(baseVestingAccount) ++
  f_number e_int64 16 m.(startTime) ++
  f_repeated 26 Period.wire m.(vestingPeriods).

Definition valid (m : t) : Prop :=
  from_option BaseVestingAccount.valid True m.(baseVestingAccount) ∧ int64_ok m.(startTime) ∧ Forall Period.valid m.(vestingPeriods).

(** The byte fields hold arrays, as the interface declares. *)
Definition typed (m : t) : bool := from_option BaseVestingAccount.typed true m.(baseVestingAccount).

(** The message without its empty byte arrays. *)
Definition normal (m : t) : t := {|
  baseVestingAccount := BaseVestingAccount.normal <$> m.(baseVestingAccount);
  startTime := m.(startTime);
  vestingPeriods := m.(vestingPeriods);
|}.

Definition encodable {PB : Protobuf} {PS : ProtobufSpec PB} (m : t) : Prop :=
  typed m = true ∧ valid m ∧ small (wire m).

Definition merge (m a : t) : t := {|
  baseVestingAccount := later_message m.(baseVestingAccount) (BaseVestingAccount.normal <$> a.(baseVestingAccount));
  startTime := later_number m.(startTime) a.(startTime);
  vestingPeriods := m.(vestingPeriods) ++ a.(vestingPeriods);
|}.

(** A whole message seen as a partial one. *)
Definition full (m : t) : partial := {|
  p_baseVestingAccount := BaseVestingAccount.full <$> m.(baseVestingAccount);
  p_startTime := Some m.(startTime);
  p_vestingPeriods := Some (map Period.full m.(vestingPeriods));
|}.

(** The message as its schema declares it. *)
Definition schema (m : t) : list field :=
  [singular 1 Optional (message_value BaseVestingAccount.schema) m.(baseVestingAccount);
   implicit 2 (VInt Int64 m.(startTime));
   repeated 3 (message_value Period.schema) m.(vestingPeriods)].

(** The message with its default for every property that is not kept. *)
Definition only (kept : string → bool) (m : t) : t := {|
  baseVestingAccount := if kept "baseVestingAccount" then m.(baseVestingAccount) else None;
  startTime := if kept "startTime" then m.(startTime) else Int 0;
  vestingPeriods := if kept "vestingPeriods" then m.(vestingPeriods) else [];
|}.

#[global] Instance codec {PB : Protobuf} : FallibleCodec t :=
  {| fmsg_base := base; fmsg_encode := encode; fmsg_field := decode_field |}.

#[global] Program Instance spec {PB : Protobuf} (PS : ProtobufSpec PB) : FallibleSpec PS t :=
  {| fmsg_wire := wire; fmsg_valid := valid; fmsg_typed := typed; fmsg_normal := normal;
     fmsg_merge := merge |}.
Next Obligation. solve_fencode_wire. Qed.
Next Obligation. intros. solve_fencode_throws encode typed. Qed.
Next Obligation. solve_fdecode_wire. Qed.
Next Obligation. solve_fmerge_base. Qed.
Next Obligation. intros. solve_fadvances decode_field. Qed.

#[global] Program Instance given_ : FalliblePartial t partial :=
  {| fmsg_fromPartial := fromPartial; fmsg_full := full; fmsg_given := typed |}.
Next Obligation. solve_fgiven fromPartial typed. Qed.
Next Obligation. solve_fpartial fromPartial full typed. Qed.

#[global] Program Instance json : FallibleJson t :=
  {| fmsg_fromJSON := fromJSON; fmsg_toJSON := toJSON;
     fmsg_named := fun _ => true; fmsg_known := fun m => m |}.
Next Obligation. solve_fjson fromJSON toJSON. Qed.
Next Obligation. reflexivity. Qed.

#[global] Instance schema_wire {PB : Protobuf} {PS : ProtobufSpec PB} : WireSchema wire schema.
Proof. solve_schema_wire wire schema. Qed.

#[global] Instance schema_normal : NormalSchema normal schema.
Proof. solve_schema_normal normal schema. Qed.

#[global] Instance schema_merge : MergeSchema merge schema.
Proof. solve_schema_merge merge schema. Qed.

(** Its row in the table of message types. *)
Definition message {PB : Protobuf} {PS : ProtobufSpec PB} : message_type :=
  fallible_message "PeriodicVestingAccount" nothing true schema only.

#[global] Instance message_lawful {PB : Protobuf} (PS : ProtobufSpec PB) : Lawful message.
Proof. solve_lawful decode_field fromJSON only. Qed.

End PeriodicVestingAccount.

(** ** [PermanentLockedAccount] (cosmos/vesting/v1beta1/vesting.js) *)

Module PermanentLockedAccount.

Record t := mk {
  baseVestingAccount : option BaseVestingAccount.t;
}.

#[global] Instance t_eta : Settable t := λ m, mk m.(baseVestingAccount).

Definition base : t := mk None.

Definition encode {PB : Protobuf} (message : t) (writer : Writer) : result Writer :=
  Ok writer
  @>= defined_e message.(baseVestingAccount) (submessage 10 BaseVestingAccount.encode).

Definition decode_field {PB : Protobuf} (tag : Z) (message : t) : RM t :=
  match field_number tag with
  | 1 => v ← read_nested BaseVestingAccount.decode;
         mret (message <| baseVestingAccount := Some v |>)
  | _ => _ ← skipType (wire_type tag); mret message
  end.

Definition decode {PB : Protobuf} (length : option Z) : RM t :=
  decode_message length base decode_field.

Definition fromJSON (object : js) : result t :=
  baseVestingAccount' ← field_or object "baseVestingAccount" (to_some BaseVestingAccount.fromJSON) None;
  Ok (mk baseVestingAccount').

Definition toJSON (message : t) : js :=
  Obj (prop_opt "baseVestingAccount" BaseVestingAccount.toJSON message.(baseVestingAccount)).

Record partial := mkPartial {
  p_baseVestingAccount : option BaseVestingAccount.partial;
}.

Definition fromPartial (object : partial) : t := {|
  baseVestingAccount := BaseVestingAccount.fromPartial <$> object.(p_baseVestingAccount);
|}.

(** The object with no property given. *)
Definition nothing : partial := mkPartial None.

(** The bytes [encode] writes. *)
Definition wire {PB : Protobuf} {PS : ProtobufSpec PB} (m : t) : bytes :=
  f_message 10 BaseVestingAccount.wire m.(baseVestingAccount).

Definition valid (m : t) : Prop :=
  from_option BaseVestingAccount.valid True m.(baseVestingAccount).

(** The byte fields hold arrays, as the interface declares. *)
Definition typed (m : t) : bool := from_option BaseVestingAccount.typed true m.(baseVestingAccount).

(** The message without its empty byte arrays. *)
Definition normal (m : t) : t := {|
  baseVestingAccount := BaseVestingAccount.normal <$> m.(baseVestingAccount);
|}.

Definition encodable {PB : Protobuf} {PS : ProtobufSpec PB} (m : t) : Prop :=
  typed m = true ∧ valid m ∧ small (wire m).

Definition merge (m a : t) : t := {|
  baseVestingAccount := later_message m.(baseVestingAccount) (BaseVestingAccount.normal <$> a.(baseVestingAccount));
|}.

(** A whole message seen as a partial one. *)
Definition full (m : t) : partial := {|
  p_baseVestingAccount := BaseVestingAccount.full <$> m.(baseVestingAccount);
|}.

(** The message as its schema declares it. *)
Definition schema (m : t) : list field :=
  [singular 1 Optional (message_value BaseVestingAccount.schema) m.(baseVestingAccount)].

(** The message with its default for every property that is not kept. *)
Definition only (kept : string → bool) (m : t) : t := {|
  baseVestingAccount := if kept "baseVestingAccount" then m.(baseVestingAccount) else None;
|}.

#[global] Instance codec {PB : Protobuf} : FallibleCodec t :=
  {| fmsg_base := base; fmsg_encode := encode; fmsg_field := decode_field |}.

#[global] Program Instance spec {PB : Protobuf} (PS : ProtobufSpec PB) : FallibleSpec PS t :=
  {| fmsg_wire := wire; fmsg_valid := valid; fmsg_typed := typed; fmsg_normal := normal;
     fmsg_merge := merge |}.
Next Obligation. solve_fencode_wire. Qed.
Next Obligation. intros. solve_fencode_throws encode typed. Qed.
Next Obligation. solve_fdecode_wire. Qed.
Next Obligation. solve_fmerge_base. Qed.
Next Obligation. intros. solve_fadvances decode_field. Qed.

#[global] Program Instance given_ : FalliblePartial t partial :=
  {| fmsg_fromPartial := fromPartial; fmsg_full := full; fmsg_given := typed |}.
Next Obligation. solve_fgiven fromPartial typed. Qed.
Next Obligation. solve_fpartial fromPartial full typed. Qed.

#[global] Program Instance json : FallibleJson t :=
  {| fmsg_fromJSON := fromJSON; fmsg_toJSON := toJSON;
     fmsg_named := fun _ => true; fmsg_known := fun m => m |}.
Next Obligation. solve_fjson fromJSON toJSON. Qed.
Next Obligation. reflexivity. Qed.

#[global] Instance schema_wire {PB : Protobuf} {PS : ProtobufSpec PB} : WireSchema wire schema.
Proof. solve_schema_wire wire schema. Qed.

#[global] Instance schema_normal : NormalSchema normal schema.
Proof. solve_schema_normal normal schema. Qed.

#[global] Instance schema_merge : MergeSchema merge schema.
Proof. solve_schema_merge merge schema. Qed.

(** Its row in the table of message types. *)
Definition message {PB : Protobuf} {PS : ProtobufSpec PB} : message_type :=
  fallible_message "PermanentLockedAccount" nothing true schema only.

#[global] Instance message_lawful {PB : Protobuf} (PS : ProtobufSpec PB) : Lawful message.
Proof. solve_lawful decode_field fromJSON only. Qed.

End PermanentLockedAccount.

(** ** [MsgCreateVestingAccount] (cosmos/vesting/v1beta1/tx.js) *)

Module MsgCreateVestingAccount.

Record t := mk {
  fromAddress : string;
  toAddress : string;
  amount : list Coin.t;
  endTime : number;
  delayed : bool;
}.

#[global] Instance t_eta : Settable t := λ m, mk m.(fromAddress) m.(toAddress) m.(amount)
  m.(endTime) m.(delayed).

Definition base : t := mk "" "" [] 0 false.

Definition encode {PB : Protobuf} (message : t) (writer : Writer) : Writer :=
  writer
  @> when (str_neq message.(fromAddress) "")
       (fun w => w @> uint32 10 @> string_ message.(fromAddress))
  @> when (str_neq message.(toAddress) "") (fun w => w @> uint32 18 @> string_ message.(toAddress))
  @> each message.(amount) (fun v w => w @> uint32 26 @> fork @> Coin.encode v @> ldelim)
  @> when (num_neq message.(endTime) 0) (fun w => w @> uint32 32 @> int64 message.(endTime))
  @> when (Bool.eqb message.(delayed) true) (fun w => w @> uint32 40 @> bool_ message.(delayed)).

Definition decode_field {PB : Protobuf} (tag : Z) (message : t) : RM t :=
  match field_number tag with
  | 1 => v ← read_string; mret (message <| fromAddress := v |>)
  | 2 => v ← read_string; mret (message <| toAddress := v |>)
  | 3 => v ← read_nested Coin.decode; mret (message <| amount := message.(amount) ++ [v] |>)
  | 4 => v ← read_number read_int64; mret (message <| endTime := v |>)
  | 5 => v ← read_bool; mret (message <| delayed := v |>)
  | _ => _ ← skipType (wire_type tag); mret message
  end.

Definition decode {PB : Protobuf} (length : option Z) : RM t :=
  decode_message length base decode_field.

Definition fromJSON (object : js) : result t :=
  fromAddress' ← field_or object "fromAddress" to_string "";
  toAddress' ← field_or object "toAddress" to_string "";
  amount' ← field_or object "amount" (to_list Coin.fromJSON) [];
  endTime' ← field_or object "endTime" js_Number 0;
  delayed' ← field_or object "delayed" to_bool false;
  Ok (mk fromAddress' toAddress' amount' endTime' delayed').

Definition toJSON (message : t) : js :=
  Obj ([("fromAddress", Str message.(fromAddress));
    ("toAddress", Str message.(toAddress));
    ("amount", Arr (map Coin.toJSON message.(amount)));
    ("endTime", Num message.(endTime));
    ("delayed", Bool message.(delayed))]).

Record partial := mkPartial {
  p_fromAddress : option string;
  p_toAddress : option string;
  p_amount : option (list Coin.partial);
  p_endTime : option number;
  p_delayed : option bool;
}.

Definition fromPartial (object : partial) : t := {|
  fromAddress := object.(p_fromAddress) ?? "";
  toAddress := object.(p_toAddress) ?? "";
  amount := map Coin.fromPartial (object.(p_amount) ?? []);
  endTime := object.(p_endTime) ?? Int 0;
  delayed := object.(p_delayed) ?? false;
|}.

(** The object with no property given. *)
Definition nothing : partial := mkPartial None None None None None.

(** The bytes [encode] writes. *)
Definition wire {PB : Protobuf} {PS : ProtobufSpec PB} (m : t) : bytes :=
  f_string 10 m.(fromAddress) ++
  f_string 18 m.(toAddress) ++
  f_repeated 26 Coin.wire m.(amount) ++
  f_number e_int64 32 m.(endTime) ++
  f_bool 40 m.(delayed).

Definition valid (m : t) : Prop :=
  Forall Coin.valid m.(amount) ∧ int64_ok m.(endTime).

Definition encodable {PB : Protobuf} {PS : ProtobufSpec PB} (m : t) : Prop :=
  valid m ∧ small (wire m).

Definition merge (m a : t) : t := {|
  fromAddress := later_string m.(fromAddress) a.(fromAddress);
  toAddress := later_string m.(toAddress) a.(toAddress);
  amount := m.(amount) ++ a.(amount);
  endTime := later_number m.(endTime) a.(endTime);
  delayed := later_bool m.(delayed) a.(delayed);
|}.

(** A whole message seen as a partial one. *)
Definition full (m : t) : partial := {|
  p_fromAddress := Some m.(fromAddress);
  p_toAddress := Some m.(toAddress);
  p_amount := Some (map Coin.full m.(amount));
  p_endTime := Some m.(endTime);
  p_delayed := Some m.(delayed);
|}.

(** The message as its schema declares it. *)
Definition schema (m : t) : list field :=
  [implicit 1 (VString m.(fromAddress));
   implicit 2 (VString m.(toAddress));
   repeated 3 (message_value Coin.schema) m.(amount);
   implicit 4 (VInt Int64 m.(endTime));
   implicit 5 (VBool m.(delayed))].

(** The message with its default for every property that is not kept. *)
Definition only (kept : string → bool) (m : t) : t := {|
  fromAddress := if kept "fromAddress" then m.(fromAddress) else "";
  toAddress := if kept "toAddress" then m.(toAddress) else "";
  amount := if kept "amount" then m.(amount) else [];
  endTime := if kept "endTime" then m.(endTime) else Int 0;
  delayed := if kept "delayed" then m.(delayed) else false;
|}.

#[global] Instance codec {PB : Protobuf} : MessageCodec t :=
  {| msg_base := base; msg_encode := encode; msg_field := decode_field |}.

#[global] Program Instance spec {PB : Protobuf} (PS : ProtobufSpec PB) : MessageSpec PS t :=
  {| msg_wire := wire; msg_valid := valid; msg_merge := merge |}.
Next Obligation. solve_encode_wire. Qed.
Next Obligation. solve_decode_wire. Qed.
Next Obligation. solve_merge_base. Qed.
Next Obligation. intros. solve_advances decode_field. Qed.

#[global] Program Instance data : MessageData t partial :=
  {| msg_fromJSON := fromJSON; msg_toJSON := toJSON;
     msg_fromPartial := fromPartial; msg_full := full |}.
Next Obligation. solve_json fromJSON toJSON. Qed.
Next Obligation. solve_partial fromPartial full. Qed.

#[global] Instance schema_wire {PB : Protobuf} {PS : ProtobufSpec PB} : WireSchema wire schema.
Proof. solve_schema_wire wire schema. Qed.

#[global] Instance schema_merge : MergeSchema merge schema.
Proof. solve_schema_merge merge schema. Qed.

(** Its row in the table of message types. *)
Definition message {PB : Protobuf} {PS : ProtobufSpec PB} : message_type :=
  plain_message "MsgCreateVestingAccount" nothing true schema only.

#[global] Instance message_lawful {PB : Protobuf} (PS : ProtobufSpec PB) : Lawful message.
Proof. solve_lawful decode_field fromJSON only. Qed.

End MsgCreateVestingAccount.

(** ** [MsgCreateVestingAccountResponse] (cosmos/vesting/v1beta1/tx.js) *)

Module MsgCreateVestingAccountResponse.

Record t := mk {}.

#[global] Instance t_eta : Settable t := λ m, m.

Definition base : t := mk.

Definition encode {PB : Protobuf} (message : t) (writer : Writer) : Writer :=
  writer.

Definition decode_field {PB : Protobuf} (tag : Z) (message : t) : RM t :=
  match field_number tag with
  | _ => _ ← skipType (wire_type tag); mret message
  end.

Definition decode {PB : Protobuf} (length : option Z) : RM t :=
  decode_message length base decode_field.

Definition fromJSON (object : js) : result t :=
  Ok base.

Definition toJSON (message : t) : js :=
  Obj [].

Record partial := mkPartial {}.

Definition fromPartial (object : partial) : t := base.

(** The object with no property given. *)
Definition nothing : partial := mkPartial.

(** The bytes [encode] writes. *)
Definition wire {PB : Protobuf} {PS : ProtobufSpec PB} (m : t) : bytes :=
  [].

Definition valid (m : t) : Prop :=
  True.

Definition encodable {PB : Protobuf} {PS : ProtobufSpec PB} (m : t) : Prop :=
  valid m ∧ small (wire m).

Definition merge (m a : t) : t := m.

(** A whole message seen as a partial one. *)
Definition full (m : t) : partial := mkPartial.

(** The message as its schema declares it. *)
Definition schema (m : t) : list field :=
  [].

(** The message with its default for every property that is not kept. *)
Definition only (kept : string → bool) (m : t) : t := m.

#[global] Instance codec {PB : Protobuf} : MessageCodec t :=
  {| msg_base := base; msg_encode := encode; msg_field := decode_field |}.

#[global] Program Instance spec {PB : Protobuf} (PS : ProtobufSpec PB) : MessageSpec PS t :=
  {| msg_wire := wire; msg_valid := valid; msg_merge := merge |}.
Next Obligation. solve_encode_wire. Qed.
Next Obligation. solve_decode_wire. Qed.
Next Obligation. solve_merge_base. Qed.
Next Obligation. intros. solve_advances decode_field. Qed.

#[global] Program Instance data : MessageData t partial :=
  {| msg_fromJSON := fromJSON; msg_toJSON := toJSON;
     msg_fromPartial := fromPartial; msg_full := full |}.
Next Obligation. solve_json fromJSON toJSON. Qed.
Next Obligation. solve_partial fromPartial full. Qed.

#[global] Instance schema_wire {PB : Protobuf} {PS : ProtobufSpec PB} : WireSchema wire schema.
Proof. solve_schema_wire wire schema. Qed.

#[global] Instance schema_merge : MergeSchema merge schema.
Proof. solve_schema_merge merge schema. Qed.

(** Its row in the table of message types. *)
Definition message {PB : Protobuf} {PS : ProtobufSpec PB} : message_type :=
  plain_message "MsgCreateVestingAccountResponse" nothing false schema only.

#[global] Instance message_lawful {PB : Protobuf} (PS : ProtobufSpec PB) : Lawful message.
Proof. solve_lawful decode_field fromJSON only. Qed.

End MsgCreateVestingAccountResponse.


(** ** [MsgClientImpl]

    [rpc] is the transport the class is constructed with: [rpc service method data]
    is what the promise of [this.rpc.request] settles to. *)
Module MsgClientImpl.
Section client.
Context {PB : Protobuf} (rpc : string → string → bytes → result bytes).

Definition CreateVestingAccount (request : MsgCreateVestingAccount.t)
    : result MsgCreateVestingAccountResponse.t :=
  data ← rpc "cosmos.vesting.v1beta1.Msg" "CreateVestingAccount"
    (finish (MsgCreateVestingAccount.encode request create));
  decode_bytes MsgCreateVestingAccountResponse.decode data.

End client.
End MsgClientImpl.

(** ** The message types of this file *)

Definition messages {PB : Protobuf} {PS : ProtobufSpec PB} : list message_type :=
  [ BaseVestingAccount.message; ContinuousVestingAccount.message; DelayedVestingAccount.message;
   Period.message; PeriodicVestingAccount.message; PermanentLockedAccount.message;
   MsgCreateVestingAccount.message; MsgCreateVestingAccountResponse.message].

Lemma VestingTypes_lawful {PB : Protobuf} {PS : ProtobufSpec PB} : Forall Lawful messages.
Proof. solve_table. Qed.

(** The methods of [MsgClientImpl]. *)
Definition msg_methods {PB : Protobuf} {PS : ProtobufSpec PB} : list rpc_method :=
  [mkMethod "cosmos.vesting.v1beta1.Msg" "CreateVestingAccount"
     MsgCreateVestingAccount.message MsgCreateVestingAccountResponse.message
     (fun rpc => MsgClientImpl.CreateVestingAccount rpc)].

Lemma VestingTypes_msg_methods_lawful {PB : Protobuf} {PS : ProtobufSpec PB} : Forall method_lawful msg_methods.
Proof. solve_methods. Qed.
