(* ===== verification/IbcClientTypes.v ===== *)
(** * The messages of the IBC light clients

    The codecs of [ibc/core/client/v1/client.js] in the transfer module of
    ibc-go, and the versions of the page requests and of the upgrade plans this
    module has: they were generated from other releases of the Cosmos SDK and
    differ from those of the other modules. *)
From S2P Require Import Prelude Js Protobuf Codec Calendar Dates Base64 Fallible Proto3 MessageTable CommonTypes.
Open Scope Z_scope.

(** ** [PageRequest] (cosmos/base/query/v1beta1/pagination.js) *)

Module PageRequest.

Record t := mk {
  key : option bytes;
  offset : number;
  limit : number;
  countTotal : bool;
}.

#[global] Instance t_eta : Settable t := λ m, mk m.(key) m.(offset) m.(limit) m.(countTotal).

Definition base : t := mk None 0 0 false.

Definition encode {PB : Protobuf} (message : t) (writer : Writer) : result Writer :=
  Ok writer
  @>= bytes_field 10 message.(key)
  @>= pure (when (num_neq message.(offset) 0) (fun w => w @> uint32 16 @> uint64 message.(offset)))
  @>= pure (when (num_neq message.(limit) 0) (fun w => w @> uint32 24 @> uint64 message.(limit)))
  @>= pure (when (Bool.eqb message.(countTotal) true)
       (fun w => w @> uint32 32 @> bool_ message.(countTotal))).

Definition decode_field {PB : Protobuf} (tag : Z) (message : t) : RM t :=
  match field_number tag with
  | 1 => v ← read_bytes; mret (message <| key := Some v |>)
  | 2 => v ← read_number read_uint64; mret (message <| offset := v |>)
  | 3 => v ← read_number read_uint64; mret (message <| limit := v |>)
  | 4 => v ← read_bool; mret (message <| countTotal := v |>)
  | _ => _ ← skipType (wire_type tag); mret message
  end.

Definition decode {PB : Protobuf} (length : option Z) : RM t :=
  decode_message length base decode_field.

Definition fromJSON (object : js) : result t :=
  key' ← field_or object "key" (to_some bytesFromBase64) None;
  offset' ← field_or object "offset" js_Number 0;
  limit' ← field_or object "limit" js_Number 0;
  countTotal' ← field_or object "countTotal" to_bool false;
  Ok (mk key' offset' limit' countTotal').

Definition toJSON (message : t) : js :=
  Obj (prop_opt "key" (fun b => Str (base64FromBytes b)) message.(key) ++
   [("offset", Num message.(offset));
    ("limit", Num message.(limit));
    ("countTotal", Bool message.(countTotal))]).

Record partial := mkPartial {
  p_key : option bytes;
  p_offset : option number;
  p_limit : option number;
  p_countTotal : option bool;
}.

Definition fromPartial (object : partial) : t := {|
  key := Some (object.(p_key) ?? []);
  offset := object.(p_offset) ?? Int 0;
  limit := object.(p_limit) ?? Int 0;
  countTotal := object.(p_countTotal) ?? false;
|}.

(** The object with no property given. *)
Definition nothing : partial := mkPartial None None None None.

(** The bytes [encode] writes. *)
Definition wire {PB : Protobuf} {PS : ProtobufSpec PB} (m : t) : bytes :=
  f_bytes 10 m.(key) ++
  f_number e_uint64 16 m.(offset) ++
  f_number e_uint64 24 m.(limit) ++
  f_bool 32 m.(countTotal).

Definition valid (m : t) : Prop :=
  uint64_ok m.(offset) ∧ uint64_ok m.(limit).

(** The byte fields hold arrays, as the interface declares. *)
Definition typed (m : t) : bool := given m.(key).

(** The message without its empty byte arrays. *)
Definition normal (m : t) : t := {|
  key := nonempty m.(key);
  offset := m.(offset);
  limit := m.(limit);
  countTotal := m.(countTotal);
|}.

Definition encodable {PB : Protobuf} {PS : ProtobufSpec PB} (m : t) : Prop :=
  typed m = true ∧ valid m ∧ small (wire m).

Definition merge (m a : t) : t := {|
  key := later_bytes m.(key) a.(key);
  offset := later_number m.(offset) a.(offset);
  limit := later_number m.(limit) a.(limit);
  countTotal := later_bool m.(countTotal) a.(countTotal);
|}.

(** A whole message seen as a partial one. *)
Definition full (m : t) : partial := {|
  p_key := m.(key);
  p_offset := Some m.(offset);
  p_limit := Some m.(limit);
  p_countTotal := Some m.(countTotal);
|}.

(** The message as its schema declares it. *)
Definition schema (m : t) : list field :=
  [implicit 1 (byte_array m.(key));
   implicit 2 (VInt Uint64 m.(offset));
   implicit 3 (VInt Uint64 m.(limit));
   implicit 4 (VBool m.(countTotal))].

(** The message with its default for every property that is not kept. *)
Definition only (kept : string → bool) (m : t) : t := {|
  key := if kept "key" then m.(key) else None;
  offset := if kept "offset" then m.(offset) else Int 0;
  limit := if kept "limit" then m.(limit) else Int 0;
  countTotal := if kept "countTotal" then m.(countTotal) else false;
|}.

#[global] Instance codec {PB : Protobuf} : FallibleCodec t :=
  {| fmsg_base := base; fmsg_encode := encode; fmsg_field := decode_field |}.

#[global] Program Instance spec {PB : Protobuf} (PS : ProtobufSpec PB) : FallibleSpec PS t :=
  {| fmsg_wire := wire; fmsg_valid := valid; fmsg_typed := typed; fmsg_normal := normal;
     fmsg_merge := merge |}.
Next Obligation. solve_fencode_wire. Qed.
Next Obligation. intros. solve_fencode_throws encode typed. Qed.
Next Obligation. solve_fdecode_wire. Qed.
Next Obligation. solve_fmerge_base. Qed.
Next Obligation. intros. solve_fadvances decode_field. Qed.

#[global] Program Instance given_ : FalliblePartial t partial :=
  {| fmsg_fromPartial := fromPartial; fmsg_full := full; fmsg_given := typed |}.
Next Obligation. solve_fgiven fromPartial typed. Qed.
Next Obligation. solve_fpartial fromPartial full typed. Qed.

#[global] Program Instance json : FallibleJson t :=
  {| fmsg_fromJSON := fromJSON; fmsg_toJSON := toJSON;
     fmsg_named := fun _ => true; fmsg_known := fun m => m |}.
Next Obligation. solve_fjson fromJSON toJSON. Qed.
Next Obligation. reflexivity. Qed.

#[global] Instance schema_wire {PB : Protobuf} {PS : ProtobufSpec PB} : WireSchema wire schema.
Proof. solve_schema_wire wire schema. Qed.

#[global] Instance schema_normal : NormalSchema normal schema.
Proof. solve_schema_normal normal schema. Qed.

#[global] Instance schema_merge : MergeSchema merge schema.
Proof. solve_schema_merge merge schema. Qed.

(** Its row in the table of message types. *)
Definition message {PB : Protobuf} {PS : ProtobufSpec PB} : message_type :=
  fallible_message "PageRequest" nothing true schema only.

#[global] Instance message_lawful {PB : Protobuf} (PS : ProtobufSpec PB) : Lawful message.
Proof. solve_lawful decode_field fromJSON only. Qed.

End PageRequest.

(** ** [PageResponse] (cosmos/base/query/v1beta1/pagination.js) *)

Module PageResponse.

Record t := mk {
  nextKey : option bytes;
  total : number;
}.

#[global] Instance t_eta : Settable t := λ m, mk m.(nextKey) m.(total).

Definition base : t := mk None 0.

Definition encode {PB : Protobuf} (message : t) (writer : Writer) : result Writer :=
  Ok writer
  @>= bytes_field 10 message.(nextKey)
  @>= pure (when (num_neq message.(total) 0) (fun w => w @> uint32 16 @> uint64 message.(total))).

Definition decode_field {PB : Protobuf} (tag : Z) (message : t) : RM t :=
  match field_number tag with
  | 1 => v ← read_bytes; mret (message <| nextKey := Some v |>)
  | 2 => v ← read_number read_uint64; mret (message <| total := v |>)
  | _ => _ ← skipType (wire_type tag); mret message
  end.

Definition decode {PB : Protobuf} (length : option Z) : RM t :=
  decode_message length base decode_field.

Definition fromJSON (object : js) : result t :=
  nextKey' ← field_or object "nextKey" (to_some bytesFromBase64) None;
  total' ← field_or object "total" js_Number 0;
  Ok (mk nextKey' total').

Definition toJSON (message : t) : js :=
  Obj (prop_opt "nextKey" (fun b => Str (base64FromBytes b)) message.(nextKey) ++
   [("total", Num message.(total))]).

Record partial := mkPartial {
  p_nextKey : option bytes;
  p_total : option number;
}.

Definition fromPartial (object : partial) : t := {|
  nextKey := Some (object.(p_nextKey) ?? []);
  total := object.(p_total) ?? Int 0;
|}.

(** The object with no property given. *)
Definition nothing : partial := mkPartial None None.

(** The bytes [encode] writes. *)
Definition wire {PB : Protobuf} {PS : ProtobufSpec PB} (m : t) : bytes :=
  f_bytes 10 m.(nextKey) ++
  f_number e_uint64 16 m.(total).

Definition valid (m : t) : Prop :=
  uint64_ok m.(total).

(** The byte fields hold arrays, as the interface declares. *)
Definition typed (m : t) : bool := given m.(nextKey).

(** The message without its empty byte arrays. *)
Definition normal (m : t) : t := {|
  nextKey := nonempty m.(nextKey);
  total := m.(total);
|}.

Definition encodable {PB : Protobuf} {PS : ProtobufSpec PB} (m : t) : Prop :=
  typed m = true ∧ valid m ∧ small (wire m).

Definition merge (m a : t) : t := {|
  nextKey := later_bytes m.(nextKey) a.(nextKey);
  total := later_number m.(total) a.(total);
|}.

(** A whole message seen as a partial one. *)
Definition full (m : t) : partial := {|
  p_nextKey := m.(nextKey);
  p_total := Some m.(total);
|}.

(** The message as its [.proto] file declares it. *)
Definition schema (m : t) : list field :=
  [implicit 1 (byte_array m.(nextKey));
   implicit 2 (VInt Uint64 m.(total))].

(** The message with its default for every property that is not kept. *)
Definition only (kept : string → bool) (m : t) : t := {|
  nextKey := if kept "nextKey" then m.(nextKey) else None;
  total := if kept "total" then m.(total) else Int 0;
|}.

#[global] Instance codec {PB : Protobuf} : FallibleCodec t :=
  {| fmsg_base := base; fmsg_encode := encode; fmsg_field := decode_field |}.

#[global] Program Instance spec {PB : Protobuf} (PS : ProtobufSpec PB) : FallibleSpec PS t :=
  {| fmsg_wire := wire; fmsg_valid := valid; fmsg_typed := typed; fmsg_normal := normal;
     fmsg_merge := merge |}.
Next Obligation. solve_fencode_wire. Qed.
Next Obligation. intros. solve_fencode_throws encode typed. Qed.
Next Obligation. solve_fdecode_wire. Qed.
Next Obligation. solve_fmerge_base. Qed.
Next Obligation. intros. solve_fadvances decode_field. Qed.

#[global] Program Instance given_ : FalliblePartial t partial :=
  {| fmsg_fromPartial := fromPartial; fmsg_full := full; fmsg_given := typed |}.
Next Obligation. solve_fgiven fromPartial typed. Qed.
Next Obligation. solve_fpartial fromPartial full typed. Qed.

#[global] Program Instance json : FallibleJson t :=
  {| fmsg_fromJSON := fromJSON; fmsg_toJSON := toJSON;
     fmsg_named := fun _ => true; fmsg_known := fun m => m |}.
Next Obligation. solve_fjson fromJSON toJSON. Qed.
Next Obligation. reflexivity. Qed.

#[global] Instance schema_wire {PB : Protobuf} {PS : ProtobufSpec PB} : WireSchema wire schema.
Proof. solve_schema_wire wire schema. Qed.

#[global] Instance schema_normal : NormalSchema normal schema.
Proof. solve_schema_normal normal schema. Qed.

#[global] Instance schema_merge : MergeSchema merge schema.
Proof. solve_schema_merge merge schema. Qed.

(** Its row in the table of message types. *)
Definition message {PB : Protobuf} {PS : ProtobufSpec PB} : message_type :=
  fallible_message "PageResponse" nothing true schema only.

#[global] Instance message_lawful {PB : Protobuf} (PS : ProtobufSpec PB) : Lawful message.
Proof. solve_lawful decode_field fromJSON only. Qed.

End PageResponse.

(** ** [Plan] (cosmos/upgrade/v1beta1/upgrade.js) *)

Module Plan.

Record t := mk {
  name : string;
  time : option date;
  height : number;
  info : string;
}.

#[global] Instance t_eta : Settable t := λ m, mk m.(name) m.(time) m.(height) m.(info).

Definition base : t := mk "" None 0 "".

Definition encode {PB : Protobuf} (message : t) (writer : Writer) : result Writer :=
  Ok writer
  @>= pure (when (str_neq message.(name) "") (fun w => w @> uint32 10 @> string_ message.(name)))
  @>= pure (defined message.(time) (fun v w => w @> uint32 18 @> fork @> encode_time v @> ldelim))
  @>= pure (when (num_neq message.(height) 0) (fun w => w @> uint32 24 @> int64 message.(height)))
  @>= pure (when (str_neq message.(info) "") (fun w => w @> uint32 34 @> string_ message.(info))).

Definition decode_field {PB : Protobuf} (tag : Z) (message : t) : RM t :=
  match field_number tag with
  | 1 => v ← read_string; mret (message <| name := v |>)
  | 2 => v ← read_time; mret (message <| time := Some v |>)
  | 3 => v ← read_number read_int64; mret (message <| height := v |>)
  | 4 => v ← read_string; mret (message <| info := v |>)
  | _ => _ ← skipType (wire_type tag); mret message
  end.

Definition decode {PB : Protobuf} (length : option Z) : RM t :=
  decode_message length base decode_field.

Definition fromJSON (object : js) : result t :=
  name' ← field_or object "name" to_string "";
  time' ← field_or object "time" (to_some fromJsonTimestamp) None;
  height' ← field_or object "height" js_Number 0;
  info' ← field_or object "info" to_string "";
  Ok (mk name' time' height' info').

Definition toJSON (message : t) : result js :=
  time' ← option_result toISOString message.(time);
  Ok (Obj ([("name", Str message.(name))] ++
   prop_opt "time" Str time' ++
   [("height", Num message.(height));
    ("info", Str message.(info))])).

Record partial := mkPartial {
  p_name : option string;
  p_time : option date;
  p_height : option number;
  p_info : option string;
}.

Definition fromPartial (object : partial) : t := {|
  name := object.(p_name) ?? "";
  time := object.(p_time);
  height := object.(p_height) ?? Int 0;
  info := object.(p_info) ?? "";
|}.

(** The object with no property given. *)
Definition nothing : partial := mkPartial None None None None.

(** The bytes [encode] writes. *)
Definition wire {PB : Protobuf} {PS : ProtobufSpec PB} (m : t) : bytes :=
  f_string 10 m.(name) ++
  f_message 18 wire_time m.(time) ++
  f_number e_int64 24 m.(height) ++
  f_string 34 m.(info).

Definition valid (m : t) : Prop :=
  from_option date_ok True m.(time) ∧ int64_ok m.(height).

(** The byte fields hold arrays, as the interface declares. *)
Definition typed (m : t) : bool := true.

(** The message without its empty byte arrays. *)
Definition normal (m : t) : t := {|
  name := m.(name);
  time := m.(time);
  height := m.(height);
  info := m.(info);
|}.

(** The dates are valid. *)
Definition timed (m : t) : bool := from_option date_valid true m.(time).

Definition encodable {PB : Protobuf} {PS : ProtobufSpec PB} (m : t) : Prop :=
  typed m = true ∧ valid m ∧ small (wire m).

Definition merge (m a : t) : t := {|
  name := later_string m.(name) a.(name);
  time := later_message m.(time) a.(time);
  height := later_number m.(height) a.(height);
  info := later_string m.(info) a.(info);
|}.

(** A whole message seen as a partial one. *)
Definition full (m : t) : partial := {|
  p_name := Some m.(name);
  p_time := m.(time);
  p_height := Some m.(height);
  p_info := Some m.(info);
|}.

(** The message as its schema declares it. *)
Definition schema (m : t) : list field :=
  [implicit 1 (VString m.(name));
   singular 2 Stamp timestamp_value m.(time);
   implicit 3 (VInt Int64 m.(height));
   implicit 4 (VString m.(info))].

(** The message with its default for every property that is not kept. *)
Definition only (kept : string → bool) (m : t) : t := {|
  name := if kept "name" then m.(name) else "";
  time := if kept "time" then m.(time) else None;
  height := if kept "height" then m.(height) else Int 0;
  info := if kept "info" then m.(info) else "";
|}.

#[global] Instance codec {PB : Protobuf} : FallibleCodec t :=
  {| fmsg_base := base; fmsg_encode := encode; fmsg_field := decode_field |}.

#[global] Program Instance spec {PB : Protobuf} (PS : ProtobufSpec PB) : FallibleSpec PS t :=
  {| fmsg_wire := wire; fmsg_valid := valid; fmsg_typed := typed; fmsg_normal := normal;
     fmsg_merge := merge |}.
Next Obligation. solve_fencode_wire. Qed.
Next Obligation. intros. solve_fencode_throws encode typed. Qed.
Next Obligation. solve_fdecode_wire. Qed.
Next Obligation. solve_fmerge_base. Qed.
Next Obligation. intros. solve_fadvances decode_field. Qed.

#[global] Program Instance given_ : FalliblePartial t partial :=
  {| fmsg_fromPartial := fromPartial; fmsg_full := full; fmsg_given := typed |}.
Next Obligation. solve_fgiven fromPartial typed. Qed.
Next Obligation. solve_fpartial fromPartial full typed. Qed.

#[global] Program Instance json : DatedJson t :=
  {| dmsg_fromJSON := fromJSON; dmsg_toJSON := toJSON; dmsg_timed := timed;
     dmsg_named := fun _ => true; dmsg_known := fun m => m |}.
Next Obligation. solve_djson fromJSON toJSON timed. Qed.
Next Obligation. solve_dthrows toJSON timed. Qed.
Next Obligation. reflexivity. Qed.

#[global] Instance schema_wire {PB : Protobuf} {PS : ProtobufSpec PB} : WireSchema wire schema.
Proof. solve_schema_wire wire schema. Qed.

#[global] Instance schema_normal : NormalSchema normal schema.
Proof. solve_schema_normal normal schema. Qed.

#[global] Instance schema_merge : MergeSchema merge schema.
Proof. solve_schema_merge merge schema. Qed.

(** Its row in the table of message types. *)
Definition message {PB : Protobuf} {PS : ProtobufSpec PB} : message_type :=
  dated_message "Plan" nothing true schema only.

#[global] Instance message_lawful {PB : Protobuf} (PS : ProtobufSpec PB) : Lawful message.
Proof. solve_lawful decode_field fromJSON only. Qed.

End Plan.

(** ** [SoftwareUpgradeProposal] (cosmos/upgrade/v1beta1/upgrade.js) *)

Module SoftwareUpgradeProposal.

Record t := mk {
  title : string;
  description : string;
  plan : option Plan.t;
}.

#[global] Instance t_eta : Settable t := λ m, mk m.(title) m.(description) m.(plan).

Definition base : t := mk "" "" None.

Definition encode {PB : Protobuf} (message : t) (writer : Writer) : result Writer :=
  Ok writer
  @>= pure (when (str_neq message.(title) "") (fun w => w @> uint32 10 @> string_ message.(title)))
  @>= pure (when (str_neq message.(description) "")
       (fun w => w @> uint32 18 @> string_ message.(description)))
  @>= defined_e message.(plan) (submessage 26 Plan.encode).

Definition decode_field {PB : Protobuf} (tag : Z) (message : t) : RM t :=
  match field_number tag with
  | 1 => v ← read_string; mret (message <| title := v |>)
  | 2 => v ← read_string; mret (message <| description := v |>)
  | 3 => v ← read_nested Plan.decode; mret (message <| plan := Some v |>)
  | _ => _ ← skipType (wire_type tag); mret message
  end.

Definition decode {PB : Protobuf} (length : option Z) : RM t :=
  decode_message length base decode_field.

Definition fromJSON (object : js) : result t :=
  title' ← field_or object "title" to_string "";
  description' ← field_or object "description" to_string "";
  plan' ← field_or object "plan" (to_some Plan.fromJSON) None;
  Ok (mk title' description' plan').

Definition toJSON (message : t) : result js :=
  plan' ← option_result Plan.toJSON message.(plan);
  Ok (Obj ([("title", Str message.(title));
    ("description", Str message.(description))] ++
   prop_opt "plan" id plan')).

Record partial := mkPartial {
  p_title : option string;
  p_description : option string;
  p_plan : option Plan.partial;
}.

Definition fromPartial (object : partial) : t := {|
  title := object.(p_title) ?? "";
  description := object.(p_description) ?? "";
  plan := Plan.fromPartial <$> object.(p_plan);
|}.

(** The object with no property given. *)
Definition nothing : partial := mkPartial None None None.

(** The bytes [encode] writes. *)
Definition wire {PB : Protobuf} {PS : ProtobufSpec PB} (m : t) : bytes :=
  f_string 10 m.(title) ++
  f_string 18 m.(description) ++
  f_message 26 Plan.wire m.(plan).

Definition valid (m : t) : Prop :=
  from_option Plan.valid True m.(plan).

(** The byte fields hold arrays, as the interface declares. *)
Definition typed (m : t) : bool := from_option Plan.typed true m.(plan).

(** The message without its empty byte arrays. *)
Definition normal (m : t) : t := {|
  title := m.(title);
  description := m.(description);
  plan := Plan.normal <$> m.(plan);
|}.

(** The dates are valid. *)
Definition timed (m : t) : bool := from_option Plan.timed true m.(plan).

Definition encodable {PB : Protobuf} {PS : ProtobufSpec PB} (m : t) : Prop :=
  typed m = true ∧ valid m ∧ small (wire m).

Definition merge (m a : t) : t := {|
  title := later_string m.(title) a.(title);
  description := later_string m.(description) a.(description);
  plan := later_message m.(plan) (Plan.normal <$> a.(plan));
|}.

(** A whole message seen as a partial one. *)
Definition full (m : t) : partial := {|
  p_title := Some m.(title);
  p_description := Some m.(description);
  p_plan := Plan.full <$> m.(plan);
|}.

(** The message as its [.proto] file declares it. *)
Definition schema (m : t) : list field :=
  [implicit 1 (VString m.(title));
   implicit 2 (VString m.(description));
   singular 3 Optional (message_value Plan.schema) m.(plan)].

(** The message with its default for every property that is not kept. *)
Definition only (kept : string → bool) (m : t) : t := {|
  title := if kept "title" then m.(title) else "";
  description := if kept "description" then m.(description) else "";
  plan := if kept "plan" then m.(plan) else None;
|}.

#[global] Instance codec {PB : Protobuf} : FallibleCodec t :=
  {| fmsg_base := base; fmsg_encode := encode; fmsg_field := decode_field |}.

#[global] Program Instance spec {PB : Protobuf} (PS : ProtobufSpec PB) : FallibleSpec PS t :=
  {| fmsg_wire := wire; fmsg_valid := valid; fmsg_typed := typed; fmsg_normal := normal;
     fmsg_merge := merge |}.
Next Obligation. solve_fencode_wire. Qed.
Next Obligation. intros. solve_fencode_throws encode typed. Qed.
Next Obligation. solve_fdecode_wire. Qed.
Next Obligation. solve_fmerge_base. Qed.
Next Obligation. intros. solve_fadvances decode_field. Qed.

#[global] Program Instance given_ : FalliblePartial t partial :=
  {| fmsg_fromPartial := fromPartial; fmsg_full := full; fmsg_given := typed |}.
Next Obligation. solve_fgiven fromPartial typed. Qed.
Next Obligation. solve_fpartial fromPartial full typed. Qed.

#[global] Program Instance json : DatedJson t :=
  {| dmsg_fromJSON := fromJSON; dmsg_toJSON := toJSON; dmsg_timed := timed;
     dmsg_named := fun _ => true; dmsg_known := fun m => m |}.
Next Obligation. solve_djson fromJSON toJSON timed. Qed.
Next Obligation. solve_dthrows toJSON timed. Qed.
Next Obligation. reflexivity. Qed.

#[global] Instance schema_wire {PB : Protobuf} {PS : ProtobufSpec PB} : WireSchema wire schema.
Proof. solve_schema_wire wire schema. Qed.

#[global] Instance schema_normal : NormalSchema normal schema.
Proof. solve_schema_normal normal schema. Qed.

#[global] Instance schema_merge : MergeSchema merge schema.
Proof. solve_schema_merge merge schema. Qed.

(** Its row in the table of message types. *)
Definition message {PB : Protobuf} {PS : ProtobufSpec PB} : message_type :=
  dated_message "SoftwareUpgradeProposal" nothing true schema only.

#[global] Instance message_lawful {PB : Protobuf} (PS : ProtobufSpec PB) : Lawful message.
Proof. solve_lawful decode_field fromJSON only. Qed.

End SoftwareUpgradeProposal.

(** ** [CancelSoftwareUpgradeProposal] (cosmos/upgrade/v1beta1/upgrade.js) *)

Module CancelSoftwareUpgradeProposal.

Record t := mk {
  title : string;
  description : string;
}.

#[global] Instance t_eta : Settable t := λ m, mk m.(title) m.(description).

Definition base : t := mk "" "".

Definition encode {PB : Protobuf} (message : t) (writer : Writer) : Writer :=
  writer
  @> when (str_neq message.(title) "") (fun w => w @> uint32 10 @> string_ message.(title))
  @> when (str_neq message.(description) "")
       (fun w => w @> uint32 18 @> string_ message.(description)).

Definition decode_field {PB : Protobuf} (tag : Z) (message : t) : RM t :=
  match field_number tag with
  | 1 => v ← read_string; mret (message <| title := v |>)
  | 2 => v ← read_string; mret (message <| description := v |>)
  | _ => _ ← skipType (wire_type tag); mret message
  end.

Definition decode {PB : Protobuf} (length : option Z) : RM t :=
  decode_message length base decode_field.

Definition fromJSON (object : js) : result t :=
  title' ← field_or object "title" to_string "";
  description' ← field_or object "description" to_string "";
  Ok (mk title' description').

Definition toJSON (message : t) : js :=
  Obj ([("title", Str message.(title));
    ("description", Str message.(description))]).

Record partial := mkPartial {
  p_title : option string;
  p_description : option string;
}.

Definition fromPartial (object : partial) : t := {|
  title := object.(p_title) ?? "";
  description := object.(p_description) ?? "";
|}.

(** The object with no property given. *)
Definition nothing : partial := mkPartial None None.

(** The bytes [encode] writes. *)
Definition wire {PB : Protobuf} {PS : ProtobufSpec PB} (m : t) : bytes :=
  f_string 10 m.(title) ++
  f_string 18 m.(description).

Definition valid (m : t) : Prop :=
  True.

Definition encodable {PB : Protobuf} {PS : ProtobufSpec PB} (m : t) : Prop :=
  valid m ∧ small (wire m).

Definition merge (m a : t) : t := {|
  title := later_string m.(title) a.(title);
  description := later_string m.(description) a.(description);
|}.

(** A whole message seen as a partial one. *)
Definition full (m : t) : partial := {|
  p_title := Some m.(title);
  p_description := Some m.(description);
|}.

(** The message as its [.proto] file declares it. *)
Definition schema (m : t) : list field :=
  [implicit 1 (VString m.(title));
   implicit 2 (VString m.(description))].

(** The message with its default for every property that is not kept. *)
Definition only (kept : string → bool) (m : t) : t := {|
  title := if kept "title" then m.(title) else "";
  description := if kept "description" then m.(description) else "";
|}.

#[global] Instance codec {PB : Protobuf} : MessageCodec t :=
  {| msg_base := base; msg_encode := encode; msg_field := decode_field |}.

#[global] Program Instance spec {PB : Protobuf} (PS : ProtobufSpec PB) : MessageSpec PS t :=
  {| msg_wire := wire; msg_valid := valid; msg_merge := merge |}.
Next Obligation. solve_encode_wire. Qed.
Next Obligation. solve_decode_wire. Qed.
Next Obligation. solve_merge_base. Qed.
Next Obligation. intros. solve_advances decode_field. Qed.

#[global] Program Instance data : MessageData t partial :=
  {| msg_fromJSON := fromJSON; msg_toJSON := toJSON;
     msg_fromPartial := fromPartial; msg_full := full |}.
Next Obligation. solve_json fromJSON toJSON. Qed.
Next Obligation. solve_partial fromPartial full. Qed.

#[global] Instance schema_wire {PB : Protobuf} {PS : ProtobufSpec PB} : WireSchema wire schema.
Proof. solve_schema_wire wire schema. Qed.

#[global] Instance schema_merge : MergeSchema merge schema.
Proof. solve_schema_merge merge schema. Qed.

(** Its row in the table of message types. *)
Definition message {PB : Protobuf} {PS : ProtobufSpec PB} : message_type :=
  plain_message "CancelSoftwareUpgradeProposal" nothing true schema only.

#[global] Instance message_lawful {PB : Protobuf} (PS : ProtobufSpec PB) : Lawful message.
Proof. solve_lawful decode_field fromJSON only. Qed.

End CancelSoftwareUpgradeProposal.

(** ** [IdentifiedClientState] (ibc/core/client/v1/client.js) *)

Module IdentifiedClientState.

Record t := mk {
  clientId : string;
  clientState : option Any.t;
}.

#[global] Instance t_eta : Settable t := λ m, mk m.(clientId) m.(clientState).

Definition base : t := mk "" None.

Definition encode {PB : Protobuf} (message : t) (writer : Writer) : result Writer :=
  Ok writer
  @>= pure (when (str_neq message.(clientId) "")
       (fun w => w @> uint32 10 @> string_ message.(clientId)))
  @>= defined_e message.(clientState) (submessage 18 Any.encode).

Definition decode_field {PB : Protobuf} (tag : Z) (message : t) : RM t :=
  match field_number tag with
  | 1 => v ← read_string; mret (message <| clientId := v |>)
  | 2 => v ← read_nested Any.decode; mret (message <| clientState := Some v |>)
  | _ => _ ← skipType (wire_type tag); mret message
  end.

Definition decode {PB : Protobuf} (length : option Z) : RM t :=
  decode_message length base decode_field.

Definition fromJSON (object : js) : result t :=
  clientId' ← field_or object "clientId" to_string "";
  clientState' ← field_or object "clientState" (to_some Any.fromJSON) None;
  Ok (mk clientId' clientState').

Definition toJSON (message : t) : js :=
  Obj ([("clientId", Str message.(clientId))] ++
   prop_opt "clientState" Any.toJSON message.(clientState)).

Record partial := mkPartial {
  p_clientId : option string;
  p_clientState : option Any.partial;
}.

Definition fromPartial (object : partial) : t := {|
  clientId := object.(p_clientId) ?? "";
  clientState := Any.fromPartial <$> object.(p_clientState);
|}.

(** The object with no property given. *)
Definition nothing : partial := mkPartial None None.

(** The bytes [encode] writes. *)
Definition wire {PB : Protobuf} {PS : ProtobufSpec PB} (m : t) : bytes :=
  f_string 10 m.(clientId) ++
  f_message 18 Any.wire m.(clientState).

Definition valid (m : t) : Prop :=
  from_option Any.valid True m.(clientState).

(** The byte fields hold arrays, as the interface declares. *)
Definition typed (m : t) : bool := from_option Any.typed true m.(clientState).

(** The message without its empty byte arrays. *)
Definition normal (m : t) : t := {|
  clientId := m.(clientId);
  clientState := Any.normal <$> m.(clientState);
|}.

Definition encodable {PB : Protobuf} {PS : ProtobufSpec PB} (m : t) : Prop :=
  typed m = true ∧ valid m ∧ small (wire m).

Definition merge (m a : t) : t := {|
  clientId := later_string m.(clientId) a.(clientId);
  clientState := later_message m.(clientState) (Any.normal <$> a.(clientState));
|}.

(** A whole message seen as a partial one. *)
Definition full (m : t) : partial := {|
  p_clientId := Some m.(clientId);
  p_clientState := Any.full <$> m.(clientState);
|}.

(** The message as its schema declares it. *)
Definition schema (m : t) : list field :=
  [implicit 1 (VString m.(clientId));
   singular 2 Optional (message_value Any.schema) m.(clientState)].

(** The message with its default for every property that is not kept. *)
Definition only (kept : string → bool) (m : t) : t := {|
  clientId := if kept "clientId" then m.(clientId) else "";
  clientState := if kept "clientState" then m.(clientState) else None;
|}.

#[global] Instance codec {PB : Protobuf} : FallibleCodec t :=
  {| fmsg_base := base; fmsg_encode := encode; fmsg_field := decode_field |}.

#[global] Program Instance spec {PB : Protobuf} (PS : ProtobufSpec PB) : FallibleSpec PS t :=
  {| fmsg_wire := wire; fmsg_valid := valid; fmsg_typed := typed; fmsg_normal := normal;
     fmsg_merge := merge |}.
Next Obligation. solve_fencode_wire. Qed.
Next Obligation. intros. solve_fencode_throws encode typed. Qed.
Next Obligation. solve_fdecode_wire. Qed.
Next Obligation. solve_fmerge_base. Qed.
Next Obligation. intros. solve_fadvances decode_field. Qed.

#[global] Program Instance given_ : FalliblePartial t partial :=
  {| fmsg_fromPartial := fromPartial; fmsg_full := full; fmsg_given := typed |}.
Next Obligation. solve_fgiven fromPartial typed. Qed.
Next Obligation. solve_fpartial fromPartial full typed. Qed.

#[global] Program Instance json : FallibleJson t :=
  {| fmsg_fromJSON := fromJSON; fmsg_toJSON := toJSON;
     fmsg_named := fun _ => true; fmsg_known := fun m => m |}.
Next Obligation. solve_fjson fromJSON toJSON. Qed.
Next Obligation. reflexivity. Qed.

#[global] Instance schema_wire {PB : Protobuf} {PS : ProtobufSpec PB} : WireSchema wire schema.
Proof. solve_schema_wire wire schema. Qed.

#[global] Instance schema_normal : NormalSchema normal schema.
Proof. solve_schema_normal normal schema. Qed.

#[global] Instance schema_merge : MergeSchema merge schema.
Proof. solve_schema_merge merge schema. Qed.

(** Its row in the table of message types. *)
Definition message {PB : Protobuf} {PS : ProtobufSpec PB} : message_type :=
  fallible_message "IdentifiedClientState" nothing true schema only.

#[global] Instance message_lawful {PB : Protobuf} (PS : ProtobufSpec PB) : Lawful message.
Proof. solve_lawful decode_field fromJSON only. Qed.

End IdentifiedClientState.

(** ** [Height] (ibc/core/client/v1/client.js) *)

Module Height.

Record t := mk {
  revisionNumber : number;
  revisionHeight : number;
}.

#[global] Instance t_eta : Settable t := λ m, mk m.(revisionNumber) m.(revisionHeight).

Definition base : t := mk 0 0.

Definition encode {PB : Protobuf} (message : t) (writer : Writer) : Writer :=
  writer
  @> when (num_neq message.(revisionNumber) 0)
       (fun w => w @> uint32 8 @> uint64 message.(revisionNumber))
  @> when (num_neq message.(revisionHeight) 0)
       (fun w => w @> uint32 16 @> uint64 message.(revisionHeight)).

Definition decode_field {PB : Protobuf} (tag : Z) (message : t) : RM t :=
  match field_number tag with
  | 1 => v ← read_number read_uint64; mret (message <| revisionNumber := v |>)
  | 2 => v ← read_number read_uint64; mret (message <| revisionHeight := v |>)
  | _ => _ ← skipType (wire_type tag); mret message
  end.

Definition decode {PB : Protobuf} (length : option Z) : RM t :=
  decode_message length base decode_field.

Definition fromJSON (object : js) : result t :=
  revisionNumber' ← field_or object "revisionNumber" js_Number 0;
  revisionHeight' ← field_or object "revisionHeight" js_Number 0;
  Ok (mk revisionNumber' revisionHeight').

Definition toJSON (message : t) : js :=
  Obj ([("revisionNumber", Num message.(revisionNumber));
    ("revisionHeight", Num message.(revisionHeight))]).

Record partial := mkPartial {
  p_revisionNumber : option number;
  p_revisionHeight : option number;
}.

Definition fromPartial (object : partial) : t := {|
  revisionNumber := object.(p_revisionNumber) ?? Int 0;
  revisionHeight := object.(p_revisionHeight) ?? Int 0;
|}.

(** The object with no property given. *)
Definition nothing : partial := mkPartial None None.

(** The bytes [encode] writes. *)
Definition wire {PB : Protobuf} {PS : ProtobufSpec PB} (m : t) : bytes :=
  f_number e_uint64 8 m.(revisionNumber) ++
  f_number e_uint64 16 m.(revisionHeight).

Definition valid (m : t) : Prop :=
  uint64_ok m.(revisionNumber) ∧ uint64_ok m.(revisionHeight).

Definition encodable {PB : Protobuf} {PS : ProtobufSpec PB} (m : t) : Prop :=
  valid m ∧ small (wire m).

Definition merge (m a : t) : t := {|
  revisionNumber := later_number m.(revisionNumber) a.(revisionNumber);
  revisionHeight := later_number m.(revisionHeight) a.(revisionHeight);
|}.

(** A whole message seen as a partial one. *)
Definition full (m : t) : partial := {|
  p_revisionNumber := Some m.(revisionNumber);
  p_revisionHeight := Some m.(revisionHeight);
|}.

(** The message as its schema declares it. *)
Definition schema (m : t) : list field :=
  [implicit 1 (VInt Uint64 m.(revisionNumber));
   implicit 2 (VInt Uint64 m.(revisionHeight))].

(** The message with its default for every property that is not kept. *)
Definition only (kept : string → bool) (m : t) : t := {|
  revisionNumber := if kept "revisionNumber" then m.(revisionNumber) else Int 0;
  revisionHeight := if kept "revisionHeight" then m.(revisionHeight) else Int 0;
|}.

#[global] Instance codec {PB : Protobuf} : MessageCodec t :=
  {| msg_base := base; msg_encode := encode; msg_field := decode_field |}.

#[global] Program Instance spec {PB : Protobuf} (PS : ProtobufSpec PB) : MessageSpec PS t :=
  {| msg_wire := wire; msg_valid := valid; msg_merge := merge |}.
Next Obligation. solve_encode_wire. Qed.
Next Obligation. solve_decode_wire. Qed.
Next Obligation. solve_merge_base. Qed.
Next Obligation. intros. solve_advances decode_field. Qed.

#[global] Program Instance data : MessageData t partial :=
  {| msg_fromJSON := fromJSON; msg_toJSON := toJSON;
     msg_fromPartial := fromPartial; msg_full := full |}.
Next Obligation. solve_json fromJSON toJSON. Qed.
Next Obligation. solve_partial fromPartial full. Qed.

#[global] Instance schema_wire {PB : Protobuf} {PS : ProtobufSpec PB} : WireSchema wire schema.
Proof. solve_schema_wire wire schema. Qed.

#[global] Instance schema_merge : MergeSchema merge schema.
Proof. solve_schema_merge merge schema. Qed.

(** Its row in the table of message types. *)
Definition message {PB : Protobuf} {PS : ProtobufSpec PB} : message_type :=
  plain_message "Height" nothing true schema only.

#[global] Instance message_lawful {PB : Protobuf} (PS : ProtobufSpec PB) : Lawful message.
Proof. solve_lawful decode_field fromJSON only. Qed.

End Height.

(** ** [ConsensusStateWithHeight] (ibc/core/client/v1/client.js) *)

Module ConsensusStateWithHeight.

Record t := mk {
  height : option Height.t;
  consensusState : option Any.t;
}.

#[global] Instance t_eta : Settable t := λ m, mk m.(height) m.(consensusState).

Definition base : t := mk None None.

Definition encode {PB : Protobuf} (message : t) (writer : Writer) : result Writer :=
  Ok writer
  @>= pure (defined message.(height) (fun v w => w @> uint32 10 @> fork @> Height.encode v @> ldelim))
  @>= defined_e message.(consensusState) (submessage 18 Any.encode).

Definition decode_field {PB : Protobuf} (tag : Z) (message : t) : RM t :=
  match field_number tag with
  | 1 => v ← read_nested Height.decode; mret (message <| height := Some v |>)
  | 2 => v ← read_nested Any.decode; mret (message <| consensusState := Some v |>)
  | _ => _ ← skipType (wire_type tag); mret message
  end.

Definition decode {PB : Protobuf} (length : option Z) : RM t :=
  decode_message length base decode_field.

Definition fromJSON (object : js) : result t :=
  height' ← field_or object "height" (to_some Height.fromJSON) None;
  consensusState' ← field_or object "consensusState" (to_some Any.fromJSON) None;
  Ok (mk height' consensusState').

Definition toJSON (message : t) : js :=
  Obj (prop_opt "height" Height.toJSON message.(height) ++
   prop_opt "consensusState" Any.toJSON message.(consensusState)).

Record partial := mkPartial {
  p_height : option Height.partial;
  p_consensusState : option Any.partial;
}.

Definition fromPartial (object : partial) : t := {|
  height := Height.fromPartial <$> object.(p_height);
  consensusState := Any.fromPartial <$> object.(p_consensusState);
|}.

(** The object with no property given. *)
Definition nothing : partial := mkPartial None None.

(** The bytes [encode] writes. *)
Definition wire {PB : Protobuf} {PS : ProtobufSpec PB} (m : t) : bytes :=
  f_message 10 Height.wire m.(height) ++
  f_message 18 Any.wire m.(consensusState).

Definition valid (m : t) : Prop :=
  from_option Height.valid True m.(height) ∧ from_option Any.valid True m.(consensusState).

(** The byte fields hold arrays, as the interface declares. *)
Definition typed (m : t) : bool := from_option Any.typed true m.(consensusState).

(** The message without its empty byte arrays. *)
Definition normal (m : t) : t := {|
  height := m.(height);
  consensusState := Any.normal <$> m.(consensusState);
|}.

Definition encodable {PB : Protobuf} {PS : ProtobufSpec PB} (m : t) : Prop :=
  typed m = true ∧ valid m ∧ small (wire m).

Definition merge (m a : t) : t := {|
  height := later_message m.(height) a.(height);
  consensusState := later_message m.(consensusState) (Any.normal <$> a.(consensusState));
|}.

(** A whole message seen as a partial one. *)
Definition full (m : t) : partial := {|
  p_height := Height.full <$> m.(height);
  p_consensusState := Any.full <$> m.(consensusState);
|}.

(** The message as its schema declares it. *)
Definition schema (m : t) : list field :=
  [singular 1 Optional (message_value Height.schema) m.(height);
   singular 2 Optional (message_value Any.schema) m.(consensusState)].

(** The message with its default for every property that is not kept. *)
Definition only (kept : string → bool) (m : t) : t := {|
  height := if kept "height" then m.(height) else None;
  consensusState := if kept "consensusState" then m.(consensusState) else None;
|}.

#[global] Instance codec {PB : Protobuf} : FallibleCodec t :=
  {| fmsg_base := base; fmsg_encode := encode; fmsg_field := decode_field |}.

#[global] Program Instance spec {PB : Protobuf} (PS : ProtobufSpec PB) : FallibleSpec PS t :=
  {| fmsg_wire := wire; fmsg_valid := valid; fmsg_typed := typed; fmsg_normal := normal;
     fmsg_merge := merge |}.
Next Obligation. solve_fencode_wire. Qed.
Next Obligation. intros. solve_fencode_throws encode typed. Qed.
Next Obligation. solve_fdecode_wire. Qed.
Next Obligation. solve_fmerge_base. Qed.
Next Obligation. intros. solve_fadvances decode_field. Qed.

#[global] Program Instance given_ : FalliblePartial t partial :=
  {| fmsg_fromPartial := fromPartial; fmsg_full := full; fmsg_given := typed |}.
Next Obligation. solve_fgiven fromPartial typed. Qed.
Next Obligation. solve_fpartial fromPartial full typed. Qed.

#[global] Program Instance json : FallibleJson t :=
  {| fmsg_fromJSON := fromJSON; fmsg_toJSON := toJSON;
     fmsg_named := fun _ => true; fmsg_known := fun m => m |}.
Next Obligation. solve_fjson fromJSON toJSON. Qed.
Next Obligation. reflexivity. Qed.

#[global] Instance schema_wire {PB : Protobuf} {PS : ProtobufSpec PB} : WireSchema wire schema.
Proof. solve_schema_wire wire schema. Qed.

#[global] Instance schema_normal : NormalSchema normal schema.
Proof. solve_schema_normal normal schema. Qed.

#[global] Instance schema_merge : MergeSchema merge schema.
Proof. solve_schema_merge merge schema. Qed.

(** Its row in the table of message types. *)
Definition message {PB : Protobuf} {PS : ProtobufSpec PB} : message_type :=
  fallible_message "ConsensusStateWithHeight" nothing true schema only.

#[global] Instance message_lawful {PB : Protobuf} (PS : ProtobufSpec PB) : Lawful message.
Proof. solve_lawful decode_field fromJSON only. Qed.

End ConsensusStateWithHeight.

(** ** [ClientConsensusStates] (ibc/core/client/v1/client.js) *)

Module ClientConsensusStates.

Record t := mk {
  clientId : string;
  consensusStates : list ConsensusStateWithHeight.t;
}.

#[global] Instance t_eta : Settable t := λ m, mk m.(clientId) m.(consensusStates).

Definition base : t := mk "" [].

Definition encode {PB : Protobuf} (message : t) (writer : Writer) : result Writer :=
  Ok writer
  @>= pure (when (str_neq message.(clientId) "")
       (fun w => w @> uint32 10 @> string_ message.(clientId)))
  @>= each_e message.(consensusStates) (submessage 18 ConsensusStateWithHeight.encode).

Definition decode_field {PB : Protobuf} (tag : Z) (message : t) : RM t :=
  match field_number tag with
  | 1 => v ← read_string; mret (message <| clientId := v |>)
  | 2 => v ← read_nested ConsensusStateWithHeight.decode;
         mret (message <| consensusStates := message.(consensusStates) ++ [v] |>)
  | _ => _ ← skipType (wire_type tag); mret message
  end.

Definition decode {PB : Protobuf} (length : option Z) : RM t :=
  decode_message length base decode_field.

Definition fromJSON (object : js) : result t :=
  clientId' ← field_or object "clientId" to_string "";
  consensusStates' ← field_or object "consensusStates" (to_list ConsensusStateWithHeight.fromJSON) [];
  Ok (mk clientId' consensusStates').

Definition toJSON (message : t) : js :=
  Obj ([("clientId", Str message.(clientId));
    ("consensusStates", Arr (map ConsensusStateWithHeight.toJSON message.(consensusStates)))]).

Record partial := mkPartial {
  p_clientId : option string;
  p_consensusStates : option (list ConsensusStateWithHeight.partial);
}.

Definition fromPartial (object : partial) : t := {|
  clientId := object.(p_clientId) ?? "";
  consensusStates := map ConsensusStateWithHeight.fromPartial (object.(p_consensusStates) ?? []);
|}.

(** The object with no property given. *)
Definition nothing : partial := mkPartial None None.

(** The bytes [encode] writes. *)
Definition wire {PB : Protobuf} {PS : ProtobufSpec PB} (m : t) : bytes :=
  f_string 10 m.(clientId) ++
  f_repeated 18 ConsensusStateWithHeight.wire m.(consensusStates).

Definition valid (m : t) : Prop :=
  Forall ConsensusStateWithHeight.valid m.(consensusStates).

(** The byte fields hold arrays, as the interface declares. *)
Definition typed (m : t) : bool := forallb ConsensusStateWithHeight.typed m.(consensusStates).

(** The message without its empty byte arrays. *)
Definition normal (m : t) : t := {|
  clientId := m.(clientId);
  consensusStates := map ConsensusStateWithHeight.normal m.(consensusStates);
|}.

Definition encodable {PB : Protobuf} {PS : ProtobufSpec PB} (m : t) : Prop :=
  typed m = true ∧ valid m ∧ small (wire m).

Definition merge (m a : t) : t := {|
  clientId := later_string m.(clientId) a.(clientId);
  consensusStates := m.(consensusStates) ++ map ConsensusStateWithHeight.normal a.(consensusStates);
|}.

(** A whole message seen as a partial one. *)
Definition full (m : t) : partial := {|
  p_clientId := Some m.(clientId);
  p_consensusStates := Some (map ConsensusStateWithHeight.full m.(consensusStates));
|}.

(** The message as its schema declares it. *)
Definition schema (m : t) : list field :=
  [implicit 1 (VString m.(clientId));
   repeated 2 (message_value ConsensusStateWithHeight.schema) m.(consensusStates)].

(** The message with its default for every property that is not kept. *)
Definition only (kept : string → bool) (m : t) : t := {|
  clientId := if kept "clientId" then m.(clientId) else "";
  consensusStates := if kept "consensusStates" then m.(consensusStates) else [];
|}.

#[global] Instance codec {PB : Protobuf} : FallibleCodec t :=
  {| fmsg_base := base; fmsg_encode := encode; fmsg_field := decode_field |}.

#[global] Program Instance spec {PB : Protobuf} (PS : ProtobufSpec PB) : FallibleSpec PS t :=
  {| fmsg_wire := wire; fmsg_valid := valid; fmsg_typed := typed; fmsg_normal := normal;
     fmsg_merge := merge |}.
Next Obligation. solve_fencode_wire. Qed.
Next Obligation. intros. solve_fencode_throws encode typed. Qed.
Next Obligation. solve_fdecode_wire. Qed.
Next Obligation. solve_fmerge_base. Qed.
Next Obligation. intros. solve_fadvances decode_field. Qed.

#[global] Program Instance given_ : FalliblePartial t partial :=
  {| fmsg_fromPartial := fromPartial; fmsg_full := full; fmsg_given := typed |}.
Next Obligation. solve_fgiven fromPartial typed. Qed.
Next Obligation. solve_fpartial fromPartial full typed. Qed.

#[global] Program Instance json : FallibleJson t :=
  {| fmsg_fromJSON := fromJSON; fmsg_toJSON := toJSON;
     fmsg_named := fun _ => true; fmsg_known := fun m => m |}.
Next Obligation. solve_fjson fromJSON toJSON. Qed.
Next Obligation. reflexivity. Qed.

#[global] Instance schema_wire {PB : Protobuf} {PS : ProtobufSpec PB} : WireSchema wire schema.
Proof. solve_schema_wire wire schema. Qed.

#[global] Instance schema_normal : NormalSchema normal schema.
Proof. solve_schema_normal normal schema. Qed.

#[global] Instance schema_merge : MergeSchema merge schema.
Proof. solve_schema_merge merge schema. Qed.

(** Its row in the table of message types. *)
Definition message {PB : Protobuf} {PS : ProtobufSpec PB} : message_type :=
  fallible_message "ClientConsensusStates" nothing true schema only.

#[global] Instance message_lawful {PB : Protobuf} (PS : ProtobufSpec PB) : Lawful message.
Proof. solve_lawful decode_field fromJSON only. Qed.

End ClientConsensusStates.

(** ** [ClientUpdateProposal] (ibc/core/client/v1/client.js) *)

Module ClientUpdateProposal.

Record t := mk {
  title : string;
  description : string;
  subjectClientId : string;
  substituteClientId : string;
}.

#[global] Instance t_eta : Settable t := λ m, mk m.(title) m.(description) m.(subjectClientId)
  m.(substituteClientId).

Definition base : t := mk "" "" "" "".

Definition encode {PB : Protobuf} (message : t) (writer : Writer) : Writer :=
  writer
  @> when (str_neq message.(title) "") (fun w => w @> uint32 10 @> string_ message.(title))
  @> when (str_neq message.(description) "")
       (fun w => w @> uint32 18 @> string_ message.(description))
  @> when (str_neq message.(subjectClientId) "")
       (fun w => w @> uint32 26 @> string_ message.(subjectClientId))
  @> when (str_neq message.(substituteClientId) "")
       (fun w => w @> uint32 34 @> string_ message.(substituteClientId)).

Definition decode_field {PB : Protobuf} (tag : Z) (message : t) : RM t :=
  match field_number tag with
  | 1 => v ← read_string; mret (message <| title := v |>)
  | 2 => v ← read_string; mret (message <| description := v |>)
  | 3 => v ← read_string; mret (message <| subjectClientId := v |>)
  | 4 => v ← read_string; mret (message <| substituteClientId := v |>)
  | _ => _ ← skipType (wire_type tag); mret message
  end.

Definition decode {PB : Protobuf} (length : option Z) : RM t :=
  decode_message length base decode_field.

Definition fromJSON (object : js) : result t :=
  title' ← field_or object "title" to_string "";
  description' ← field_or object "description" to_string "";
  subjectClientId' ← field_or object "subjectClientId" to_string "";
  substituteClientId' ← field_or object "substituteClientId" to_string "";
  Ok (mk title' description' subjectClientId' substituteClientId').

Definition toJSON (message : t) : js :=
  Obj ([("title", Str message.(title));
    ("description", Str message.(description));
    ("subjectClientId", Str message.(subjectClientId));
    ("substituteClientId", Str message.(substituteClientId))]).

Record partial := mkPartial {
  p_title : option string;
  p_description : option string;
  p_subjectClientId : option string;
  p_substituteClientId : option string;
}.

Definition fromPartial (object : partial) : t := {|
  title := object.(p_title) ?? "";
  description := object.(p_description) ?? "";
  subjectClientId := object.(p_subjectClientId) ?? "";
  substituteClientId := object.(p_substituteClientId) ?? "";
|}.

(** The object with no property given. *)
Definition nothing : partial := mkPartial None None None None.

(** The bytes [encode] writes. *)
Definition wire {PB : Protobuf} {PS : ProtobufSpec PB} (m : t) : bytes :=
  f_string 10 m.(title) ++
  f_string 18 m.(description) ++
  f_string 26 m.(subjectClientId) ++
  f_string 34 m.(substituteClientId).

Definition valid (m : t) : Prop :=
  True.

Definition encodable {PB : Protobuf} {PS : ProtobufSpec PB} (m : t) : Prop :=
  valid m ∧ small (wire m).

Definition merge (m a : t) : t := {|
  title := later_string m.(title) a.(title);
  description := later_string m.(description) a.(description);
  subjectClientId := later_string m.(subjectClientId) a.(subjectClientId);
  substituteClientId := later_string m.(substituteClientId) a.(substituteClientId);
|}.

(** A whole message seen as a partial one. *)
Definition full (m : t) : partial := {|
  p_title := Some m.(title);
  p_description := Some m.(description);
  p_subjectClientId := Some m.(subjectClientId);
  p_substituteClientId := Some m.(substituteClientId);
|}.

(** The message as its schema declares it. *)
Definition schema (m : t) : list field :=
  [implicit 1 (VString m.(title));
   implicit 2 (VString m.(description));
   implicit 3 (VString m.(subjectClientId));
   implicit 4 (VString m.(substituteClientId))].

(** The message with its default for every property that is not kept. *)
Definition only (kept : string → bool) (m : t) : t := {|
  title := if kept "title" then m.(title) else "";
  description := if kept "description" then m.(description) else "";
  subjectClientId := if kept "subjectClientId" then m.(subjectClientId) else "";
  substituteClientId := if kept "substituteClientId" then m.(substituteClientId) else "";
|}.

#[global] Instance codec {PB : Protobuf} : MessageCodec t :=
  {| msg_base := base; msg_encode := encode; msg_field := decode_field |}.

#[global] Program Instance spec {PB : Protobuf} (PS : ProtobufSpec PB) : MessageSpec PS t :=
  {| msg_wire := wire; msg_valid := valid; msg_merge := merge |}.
Next Obligation. solve_encode_wire. Qed.
Next Obligation. solve_decode_wire. Qed.
Next Obligation. solve_merge_base. Qed.
Next Obligation. intros. solve_advances decode_field. Qed.

#[global] Program Instance data : MessageData t partial :=
  {| msg_fromJSON := fromJSON; msg_toJSON := toJSON;
     msg_fromPartial := fromPartial; msg_full := full |}.
Next Obligation. solve_json fromJSON toJSON. Qed.
Next Obligation. solve_partial fromPartial full. Qed.

#[global] Instance schema_wire {PB : Protobuf} {PS : ProtobufSpec PB} : WireSchema wire schema.
Proof. solve_schema_wire wire schema. Qed.

#[global] Instance schema_merge : MergeSchema merge schema.
Proof. solve_schema_merge merge schema. Qed.

(** Its row in the table of message types. *)
Definition message {PB : Protobuf} {PS : ProtobufSpec PB} : message_type :=
  plain_message "ClientUpdateProposal" nothing true schema only.

#[global] Instance message_lawful {PB : Protobuf} (PS : ProtobufSpec PB) : Lawful message.
Proof. solve_lawful decode_field fromJSON only. Qed.

End ClientUpdateProposal.

(** ** [UpgradeProposal] (ibc/core/client/v1/client.js) *)

Module UpgradeProposal.

Record t := mk {
  title : string;
  description : string;
  plan : option Plan.t;
  upgradedClientState : option Any.t;
}.

#[global] Instance t_eta : Settable t := λ m, mk m.(title) m.(description) m.(plan)
  m.(upgradedClientState).

Definition base : t := mk "" "" None None.

Definition encode {PB : Protobuf} (message : t) (writer : Writer) : result Writer :=
  Ok writer
  @>= pure (when (str_neq message.(title) "") (fun w => w @> uint32 10 @> string_ message.(title)))
  @>= pure (when (str_neq message.(description) "")
       (fun w => w @> uint32 18 @> string_ message.(description)))
  @>= defined_e message.(plan) (submessage 26 Plan.encode)
  @>= defined_e message.(upgradedClientState) (submessage 34 Any.encode).

Definition decode_field {PB : Protobuf} (tag : Z) (message : t) : RM t :=
  match field_number tag with
  | 1 => v ← read_string; mret (message <| title := v |>)
  | 2 => v ← read_string; mret (message <| description := v |>)
  | 3 => v ← read_nested Plan.decode; mret (message <| plan := Some v |>)
  | 4 => v ← read_nested Any.decode; mret (message <| upgradedClientState := Some v |>)
  | _ => _ ← skipType (wire_type tag); mret message
  end.

Definition decode {PB : Protobuf} (length : option Z) : RM t :=
  decode_message length base decode_field.

Definition fromJSON (object : js) : result t :=
  title' ← field_or object "title" to_string "";
  description' ← field_or object "description" to_string "";
  plan' ← field_or object "plan" (to_some Plan.fromJSON) None;
  upgradedClientState' ← field_or object "upgradedClientState" (to_some Any.fromJSON) None;
  Ok (mk title' description' plan' upgradedClientState').

Definition toJSON (message : t) : result js :=
  plan' ← option_result Plan.toJSON message.(plan);
  Ok (Obj ([("title", Str message.(title));
    ("description", Str message.(description))] ++
   prop_opt "plan" id plan' ++
   prop_opt "upgradedClientState" Any.toJSON message.(upgradedClientState))).

Record partial := mkPartial {
  p_title : option string;
  p_description : option string;
  p_plan : option Plan.partial;
  p_upgradedClientState : option Any.partial;
}.

Definition fromPartial (object : partial) : t := {|
  title := object.(p_title) ?? "";
  description := object.(p_description) ?? "";
  plan := Plan.fromPartial <$> object.(p_plan);
  upgradedClientState := Any.fromPartial <$> object.(p_upgradedClientState);
|}.

(** The object with no property given. *)
Definition nothing : partial := mkPartial None None None None.

(** The bytes [encode] writes. *)
Definition wire {PB : Protobuf} {PS : ProtobufSpec PB} (m : t) : bytes :=
  f_string 10 m.(title) ++
  f_string 18 m.(description) ++
  f_message 26 Plan.wire m.(plan) ++
  f_message 34 Any.wire m.(upgradedClientState).

Definition valid (m : t) : Prop :=
  from_option Plan.valid True m.(plan) ∧ from_option Any.valid True m.(upgradedClientState).

(** The byte fields hold arrays, as the interface declares. *)
Definition typed (m : t) : bool := from_option Plan.typed true m.(plan) && from_option Any.typed true m.(upgradedClientState).

(** The message without its empty byte arrays. *)
Definition normal (m : t) : t := {|
  title := m.(title);
  description := m.(description);
  plan := Plan.normal <$> m.(plan);
  upgradedClientState := Any.normal <$> m.(upgradedClientState);
|}.

(** The dates are valid. *)
Definition timed (m : t) : bool := from_option Plan.timed true m.(plan).

Definition encodable {PB : Protobuf} {PS : ProtobufSpec PB} (m : t) : Prop :=
  typed m = true ∧ valid m ∧ small (wire m).

Definition merge (m a : t) : t := {|
  title := later_string m.(title) a.(title);
  description := later_string m.(description) a.(description);
  plan := later_message m.(plan) (Plan.normal <$> a.(plan));
  upgradedClientState := later_message m.(upgradedClientState) (Any.normal <$> a.(upgradedClientState));
|}.

(** A whole message seen as a partial one. *)
Definition full (m : t) : partial := {|
  p_title := Some m.(title);
  p_description := Some m.(description);
  p_plan := Plan.full <$> m.(plan);
  p_upgradedClientState := Any.full <$> m.(upgradedClientState);
|}.

(** The message as its schema declares it. *)
Definition schema (m : t) : list field :=
  [implicit 1 (VString m.(title));
   implicit 2 (VString m.(description));
   singular 3 Optional (message_value Plan.schema) m.(plan);
   singular 4 Optional (message_value Any.schema) m.(upgradedClientState)].

(** The message with its default for every property that is not kept. *)
Definition only (kept : string → bool) (m : t) : t := {|
  title := if kept "title" then m.(title) else "";
  description := if kept "description" then m.(description) else "";
  plan := if kept "plan" then m.(plan) else None;
  upgradedClientState := if kept "upgradedClientState" then m.(upgradedClientState) else None;
|}.

#[global] Instance codec {PB : Protobuf} : FallibleCodec t :=
  {| fmsg_base := base; fmsg_encode := encode; fmsg_field := decode_field |}.

#[global] Program Instance spec {PB : Protobuf} (PS : ProtobufSpec PB) : FallibleSpec PS t :=
  {| fmsg_wire := wire; fmsg_valid := valid; fmsg_typed := typed; fmsg_normal := normal;
     fmsg_merge := merge |}.
Next Obligation. solve_fencode_wire. Qed.
Next Obligation. intros. solve_fencode_throws encode typed. Qed.
Next Obligation. solve_fdecode_wire. Qed.
Next Obligation. solve_fmerge_base. Qed.
Next Obligation. intros. solve_fadvances decode_field. Qed.

#[global] Program Instance given_ : FalliblePartial t partial :=
  {| fmsg_fromPartial := fromPartial; fmsg_full := full; fmsg_given := typed |}.
Next Obligation. solve_fgiven fromPartial typed. Qed.
Next Obligation. solve_fpartial fromPartial full typed. Qed.

#[global] Program Instance json : DatedJson t :=
  {| dmsg_fromJSON := fromJSON; dmsg_toJSON := toJSON; dmsg_timed := timed;
     dmsg_named := fun _ => true; dmsg_known := fun m => m |}.
Next Obligation. solve_djson fromJSON toJSON timed. Qed.
Next Obligation. solve_dthrows toJSON timed. Qed.
Next Obligation. reflexivity. Qed.

#[global] Instance schema_wire {PB : Protobuf} {PS : ProtobufSpec PB} : WireSchema wire schema.
Proof. solve_schema_wire wire schema. Qed.

#[global] Instance schema_normal : NormalSchema normal schema.
Proof. solve_schema_normal normal schema. Qed.

#[global] Instance schema_merge : MergeSchema merge schema.
Proof. solve_schema_merge merge schema. Qed.

(** Its row in the table of message types. *)
Definition message {PB : Protobuf} {PS : ProtobufSpec PB} : message_type :=
  dated_message "UpgradeProposal" nothing true schema only.

#[global] Instance message_lawful {PB : Protobuf} (PS : ProtobufSpec PB) : Lawful message.
Proof. solve_lawful decode_field fromJSON only. Qed.

End UpgradeProposal.

(** ** [Params] (ibc/core/client/v1/client.js) *)

Module Params.

Record t := mk {
  allowedClients : list string;
}.

#[global] Instance t_eta : Settable t := λ m, mk m.(allowedClients).

Definition base : t := mk [].

Definition encode {PB : Protobuf} (message : t) (writer : Writer) : Writer :=
  writer
  @> each message.(allowedClients) (fun v w => w @> uint32 10 @> string_ v).

Definition decode_field {PB : Protobuf} (tag : Z) (message : t) : RM t :=
  match field_number tag with
  | 1 => v ← read_string; mret (message <| allowedClients := message.(allowedClients) ++ [v] |>)
  | _ => _ ← skipType (wire_type tag); mret message
  end.

Definition decode {PB : Protobuf} (length : option Z) : RM t :=
  decode_message length base decode_field.

Definition fromJSON (object : js) : result t :=
  allowedClients' ← field_or object "allowedClients" (to_list to_string) [];
  Ok (mk allowedClients').

Definition toJSON (message : t) : js :=
  Obj ([("allowedClients", Arr (map Str message.(allowedClients)))]).

Record partial := mkPartial {
  p_allowedClients : option (list string);
}.

Definition fromPartial (object : partial) : t := {|
  allowedClients := (object.(p_allowedClients) ?? []);
|}.

(** The object with no property given. *)
Definition nothing : partial := mkPartial None.

(** The bytes [encode] writes. *)
Definition wire {PB : Protobuf} {PS : ProtobufSpec PB} (m : t) : bytes :=
  f_repeated 10 chars m.(allowedClients).

Definition valid (m : t) : Prop :=
  True.

Definition encodable {PB : Protobuf} {PS : ProtobufSpec PB} (m : t) : Prop :=
  valid m ∧ small (wire m).

Definition merge (m a : t) : t := {|
  allowedClients := m.(allowedClients) ++ a.(allowedClients);
|}.

(** A whole message seen as a partial one. *)
Definition full (m : t) : partial := {|
  p_allowedClients := Some m.(allowedClients);
|}.

(** The message as its schema declares it. *)
Definition schema (m : t) : list field :=
  [repeated 1 VString m.(allowedClients)].

(** The message with its default for every property that is not kept. *)
Definition only (kept : string → bool) (m : t) : t := {|
  allowedClients := if kept "allowedClients" then m.(allowedClients) else [];
|}.

#[global] Instance codec {PB : Protobuf} : MessageCodec t :=
  {| msg_base := base; msg_encode := encode; msg_field := decode_field |}.

#[global] Program Instance spec {PB : Protobuf} (PS : ProtobufSpec PB) : MessageSpec PS t :=
  {| msg_wire := wire; msg_valid := valid; msg_merge := merge |}.
Next Obligation. solve_encode_wire. Qed.
Next Obligation. solve_decode_wire. Qed.
Next Obligation. solve_merge_base. Qed.
Next Obligation. intros. solve_advances decode_field. Qed.

#[global] Program Instance data : MessageData t partial :=
  {| msg_fromJSON := fromJSON; msg_toJSON := toJSON;
     msg_fromPartial := fromPartial; msg_full := full |}.
Next Obligation. solve_json fromJSON toJSON. Qed.
Next Obligation. solve_partial fromPartial full. Qed.

#[global] Instance schema_wire {PB : Protobuf} {PS : ProtobufSpec PB} : WireSchema wire schema.
Proof. solve_schema_wire wire schema. Qed.

#[global] Instance schema_merge : MergeSchema merge schema.
Proof. solve_schema_merge merge schema. Qed.

(** Its row in the table of message types. *)
Definition message {PB : Protobuf} {PS : ProtobufSpec PB} : message_type :=
  plain_message "Params" nothing true schema only.

#[global] Instance message_lawful {PB : Protobuf} (PS : ProtobufSpec PB) : Lawful message.
Proof. solve_lawful decode_field fromJSON only. Qed.

End Params.

(** ** The message types of this file *)

Definition messages {PB : Protobuf} {PS : ProtobufSpec PB} : list message_type :=
  [ PageRequest.message; PageResponse.message; Plan.message; SoftwareUpgradeProposal.message;
   CancelSoftwareUpgradeProposal.message; IdentifiedClientState.message; Height.message;
   ConsensusStateWithHeight.message; ClientConsensusStates.message;
   ClientUpdateProposal.message; UpgradeProposal.message; Params.message].

Lemma IbcClientTypes_lawful {PB : Protobuf} {PS : ProtobufSpec PB} : Forall Lawful messages.
Proof. solve_table. Qed.
