(* ===== verification/TransferTypes.v ===== *)
(** * The messages of the transfer module of ibc-go

    Token transfers between chains: the codecs of
    [ibc.applications.transfer.v1/module/types/ibc/applications/transfer/v1/*.js],
    with the RPC clients of tx.js and query.js. *)
From S2P Require Import Prelude Js Protobuf Codec Calendar Dates Base64 Fallible Proto3 MessageTable CommonTypes CosmosBase IbcClientTypes.
Open Scope Z_scope.

(** ** [FungibleTokenPacketData] (ibc/applications/transfer/v1/transfer.js) *)

Module FungibleTokenPacketData.

Record t := mk {
  denom : string;
  amount : number;
  sender : string;
  receiver : string;
}.

#[global] Instance t_eta : Settable t := λ m, mk m.(denom) m.(amount) m.(sender) m.(receiver).

Definition base : t := mk "" 0 "" "".

Definition encode {PB : Protobuf} (message : t) (writer : Writer) : Writer :=
  writer
  @> when (str_neq message.(denom) "") (fun w => w @> uint32 10 @> string_ message.(denom))
  @> when (num_neq message.(amount) 0) (fun w => w @> uint32 16 @> uint64 message.(amount))
  @> when (str_neq message.(sender) "") (fun w => w @> uint32 26 @> string_ message.(sender))
  @> when (str_neq message.(receiver) "") (fun w => w @> uint32 34 @> string_ message.(receiver)).

Definition decode_field {PB : Protobuf} (tag : Z) (message : t) : RM t :=
  match field_number tag with
  | 1 => v ← read_string; mret (message <| denom := v |>)
  | 2 => v ← read_number read_uint64; mret (message <| amount := v |>)
  | 3 => v ← read_string; mret (message <| sender := v |>)
  | 4 => v ← read_string; mret (message <| receiver := v |>)
  | _ => _ ← skipType (wire_type tag); mret message
  end.

Definition decode {PB : Protobuf} (length : option Z) : RM t :=
  decode_message length base decode_field.

Definition fromJSON (object : js) : result t :=
  denom' ← field_or object "denom" to_string "";
  amount' ← field_or object "amount" js_Number 0;
  sender' ← field_or object "sender" to_string "";
  receiver' ← field_or object "receiver" to_string "";
  Ok (mk denom' amount' sender' receiver').

Definition toJSON (message : t) : js :=
  Obj ([("denom", Str message.(denom));
    ("amount", Num message.(amount));
    ("sender", Str message.(sender));
    ("receiver", Str message.(receiver))]).

Record partial := mkPartial {
  p_denom : option string;
  p_amount : option number;
  p_sender : option string;
  p_receiver : option string;
}.

Definition fromPartial (object : partial) : t := {|
  denom := object.(p_denom) ?? "";
  amount := object.(p_amount) ?? Int 0;
  sender := object.(p_sender) ?? "";
  receiver := object.(p_receiver) ?? "";
|}.

(** The object with no property given. *)
Definition nothing : partial := mkPartial None None None None.

(** The bytes [encode] writes. *)
Definition wire {PB : Protobuf} {PS : ProtobufSpec PB} (m : t) : bytes :=
  f_string 10 m.(denom) ++
  f_number e_uint64 16 m.(amount) ++
  f_string 26 m.(sender) ++
  f_string 34 m.(receiver).

Definition valid (m : t) : Prop :=
  uint64_ok m.(amount).

Definition encodable {PB : Protobuf} {PS : ProtobufSpec PB} (m : t) : Prop :=
  valid m ∧ small (wire m).

Definition merge (m a : t) : t := {|
  denom := later_string m.(denom) a.(denom);
  amount := later_number m.(amount) a.(amount);
  sender := later_string m.(sender) a.(sender);
  receiver := later_string m.(receiver) a.(receiver);
|}.

(** A whole message seen as a partial one. *)
Definition full (m : t) : partial := {|
  p_denom := Some m.(denom);
  p_amount := Some m.(amount);
  p_sender := Some m.(sender);
  p_receiver := Some m.(receiver);
|}.

(** The message as its schema declares it. *)
Definition schema (m : t) : list field :=
  [implicit 1 (VString m.(denom));
   implicit 2 (VInt Uint64 m.(amount));
   implicit 3 (VString m.(sender));
   implicit 4 (VString m.(receiver))].

(** The message with its default for every property that is not kept. *)
Definition only (kept : string → bool) (m : t) : t := {|
  denom := if kept "denom" then m.(denom) else "";
  amount := if kept "amount" then m.(amount) else Int 0;
  sender := if kept "sender" then m.(sender) else "";
  receiver := if kept "receiver" then m.(receiver) else "";
|}.

#[global] Instance codec {PB : Protobuf} : MessageCodec t :=
  {| msg_base := base; msg_encode := encode; msg_field := decode_field |}.

#[global] Program Instance spec {PB : Protobuf} (PS : ProtobufSpec PB) : MessageSpec PS t :=
  {| msg_wire := wire; msg_valid := valid; msg_merge := merge |}.
Next Obligation. solve_encode_wire. Qed.
Next Obligation. solve_decode_wire. Qed.
Next Obligation. solve_merge_base. Qed.
Next Obligation. intros. solve_advances decode_field. Qed.

#[global] Program Instance data : MessageData t partial :=
  {| msg_fromJSON := fromJSON; msg_toJSON := toJSON;
     msg_fromPartial := fromPartial; msg_full := full |}.
Next Obligation. solve_json fromJSON toJSON. Qed.
Next Obligation. solve_partial fromPartial full. Qed.

#[global] Instance schema_wire {PB : Protobuf} {PS : ProtobufSpec PB} : WireSchema wire schema.
Proof. solve_schema_wire wire schema. Qed.

#[global] Instance schema_merge : MergeSchema merge schema.
Proof. solve_schema_merge merge schema. Qed.

(** Its row in the table of message types. *)
Definition message {PB : Protobuf} {PS : ProtobufSpec PB} : message_type :=
  plain_message "FungibleTokenPacketData" nothing true schema only.

#[global] Instance message_lawful {PB : Protobuf} (PS : ProtobufSpec PB) : Lawful message.
Proof. solve_lawful decode_field fromJSON only. Qed.

End FungibleTokenPacketData.

(** ** [DenomTrace] (ibc/applications/transfer/v1/transfer.js) *)

Module DenomTrace.

Record t := mk {
  path : string;
  baseDenom : string;
}.

#[global] Instance t_eta : Settable t := λ m, mk m.(path) m.(baseDenom).

Definition base : t := mk "" "".

Definition encode {PB : Protobuf} (message : t) (writer : Writer) : Writer :=
  writer
  @> when (str_neq message.(path) "") (fun w => w @> uint32 10 @> string_ message.(path))
  @> when (str_neq message.(baseDenom) "") (fun w => w @> uint32 18 @> string_ message.(baseDenom)).

Definition decode_field {PB : Protobuf} (tag : Z) (message : t) : RM t :=
  match field_number tag with
  | 1 => v ← read_string; mret (message <| path := v |>)
  | 2 => v ← read_string; mret (message <| baseDenom := v |>)
  | _ => _ ← skipType (wire_type tag); mret message
  end.

Definition decode {PB : Protobuf} (length : option Z) : RM t :=
  decode_message length base decode_field.

Definition fromJSON (object : js) : result t :=
  path' ← field_or object "path" to_string "";
  baseDenom' ← field_or object "baseDenom" to_string "";
  Ok (mk path' baseDenom').

Definition toJSON (message : t) : js :=
  Obj ([("path", Str message.(path));
    ("baseDenom", Str message.(baseDenom))]).

Record partial := mkPartial {
  p_path : option string;
  p_baseDenom : option string;
}.

Definition fromPartial (object : partial) : t := {|
  path := object.(p_path) ?? "";
  baseDenom := object.(p_baseDenom) ?? "";
|}.

(** The object with no property given. *)
Definition nothing : partial := mkPartial None None.

(** The bytes [encode] writes. *)
Definition wire {PB : Protobuf} {PS : ProtobufSpec PB} (m : t) : bytes :=
  f_string 10 m.(path) ++
  f_string 18 m.(baseDenom).

Definition valid (m : t) : Prop :=
  True.

Definition encodable {PB : Protobuf} {PS : ProtobufSpec PB} (m : t) : Prop :=
  valid m ∧ small (wire m).

Definition merge (m a : t) : t := {|
  path := later_string m.(path) a.(path);
  baseDenom := later_string m.(baseDenom) a.(baseDenom);
|}.

(** A whole message seen as a partial one. *)
Definition full (m : t) : partial := {|
  p_path := Some m.(path);
  p_baseDenom := Some m.(baseDenom);
|}.

(** The message as its schema declares it. *)
Definition schema (m : t) : list field :=
  [implicit 1 (VString m.(path));
   implicit 2 (VString m.(baseDenom))].

(** The message with its default for every property that is not kept. *)
Definition only (kept : string → bool) (m : t) : t := {|
  path := if kept "path" then m.(path) else "";
  baseDenom := if kept "baseDenom" then m.(baseDenom) else "";
|}.

#[global] Instance codec {PB : Protobuf} : MessageCodec t :=
  {| msg_base := base; msg_encode := encode; msg_field := decode_field |}.

#[global] Program Instance spec {PB : Protobuf} (PS : ProtobufSpec PB) : MessageSpec PS t :=
  {| msg_wire := wire; msg_valid := valid; msg_merge := merge |}.
Next Obligation. solve_encode_wire. Qed.
Next Obligation. solve_decode_wire. Qed.
Next Obligation. solve_merge_base. Qed.
Next Obligation. intros. solve_advances decode_field. Qed.

#[global] Program Instance data : MessageData t partial :=
  {| msg_fromJSON := fromJSON; msg_toJSON := toJSON;
     msg_fromPartial := fromPartial; msg_full := full |}.
Next Obligation. solve_json fromJSON toJSON. Qed.
Next Obligation. solve_partial fromPartial full. Qed.

#[global] Instance schema_wire {PB : Protobuf} {PS : ProtobufSpec PB} : WireSchema wire schema.
Proof. solve_schema_wire wire schema. Qed.

#[global] Instance schema_merge : MergeSchema merge schema.
Proof. solve_schema_merge merge schema. Qed.

(** Its row in the table of message types. *)
Definition message {PB : Protobuf} {PS : ProtobufSpec PB} : message_type :=
  plain_message "DenomTrace" nothing true schema only.

#[global] Instance message_lawful {PB : Protobuf} (PS : ProtobufSpec PB) : Lawful message.
Proof. solve_lawful decode_field fromJSON only. Qed.

End DenomTrace.

(** ** [Params] (ibc/applications/transfer/v1/transfer.js) *)

Module Params.

Record t := mk {
  sendEnabled : bool;
  receiveEnabled : bool;
}.

#[global] Instance t_eta : Settable t := λ m, mk m.(sendEnabled) m.(receiveEnabled).

Definition base : t := mk false false.

Definition encode {PB : Protobuf} (message : t) (writer : Writer) : Writer :=
  writer
  @> when (Bool.eqb message.(sendEnabled) true)
       (fun w => w @> uint32 8 @> bool_ message.(sendEnabled))
  @> when (Bool.eqb message.(receiveEnabled) true)
       (fun w => w @> uint32 16 @> bool_ message.(receiveEnabled)).

Definition decode_field {PB : Protobuf} (tag : Z) (message : t) : RM t :=
  match field_number tag with
  | 1 => v ← read_bool; mret (message <| sendEnabled := v |>)
  | 2 => v ← read_bool; mret (message <| receiveEnabled := v |>)
  | _ => _ ← skipType (wire_type tag); mret message
  end.

Definition decode {PB : Protobuf} (length : option Z) : RM t :=
  decode_message length base decode_field.

Definition fromJSON (object : js) : result t :=
  sendEnabled' ← field_or object "sendEnabled" to_bool false;
  receiveEnabled' ← field_or object "receiveEnabled" to_bool false;
  Ok (mk sendEnabled' receiveEnabled').

Definition toJSON (message : t) : js :=
  Obj ([("sendEnabled", Bool message.(sendEnabled));
    ("receiveEnabled", Bool message.(receiveEnabled))]).

Record partial := mkPartial {
  p_sendEnabled : option bool;
  p_receiveEnabled : option bool;
}.

Definition fromPartial (object : partial) : t := {|
  sendEnabled := object.(p_sendEnabled) ?? false;
  receiveEnabled := object.(p_receiveEnabled) ?? false;
|}.

(** The object with no property given. *)
Definition nothing : partial := mkPartial None None.

(** The bytes [encode] writes. *)
Definition wire {PB : Protobuf} {PS : ProtobufSpec PB} (m : t) : bytes :=
  f_bool 8 m.(sendEnabled) ++
  f_bool 16 m.(receiveEnabled).

Definition valid (m : t) : Prop :=
  True.

Definition encodable {PB : Protobuf} {PS : ProtobufSpec PB} (m : t) : Prop :=
  valid m ∧ small (wire m).

Definition merge (m a : t) : t := {|
  sendEnabled := later_bool m.(sendEnabled) a.(sendEnabled);
  receiveEnabled := later_bool m.(receiveEnabled) a.(receiveEnabled);
|}.

(** A whole message seen as a partial one. *)
Definition full (m : t) : partial := {|
  p_sendEnabled := Some m.(sendEnabled);
  p_receiveEnabled := Some m.(receiveEnabled);
|}.

(** The message as its schema declares it. *)
Definition schema (m : t) : list field :=
  [implicit 1 (VBool m.(sendEnabled));
   implicit 2 (VBool m.(receiveEnabled))].

(** The message with its default for every property that is not kept. *)
Definition only (kept : string → bool) (m : t) : t := {|
  sendEnabled := if kept "sendEnabled" then m.(sendEnabled) else false;
  receiveEnabled := if kept "receiveEnabled" then m.(receiveEnabled) else false;
|}.

#[global] Instance codec {PB : Protobuf} : MessageCodec t :=
  {| msg_base := base; msg_encode := encode; msg_field := decode_field |}.

#[global] Program Instance spec {PB : Protobuf} (PS : ProtobufSpec PB) : MessageSpec PS t :=
  {| msg_wire := wire; msg_valid := valid; msg_merge := merge |}.
Next Obligation. solve_encode_wire. Qed.
Next Obligation. solve_decode_wire. Qed.
Next Obligation. solve_merge_base. Qed.
Next Obligation. intros. solve_advances decode_field. Qed.

#[global] Program Instance data : MessageData t partial :=
  {| msg_fromJSON := fromJSON; msg_toJSON := toJSON;
     msg_fromPartial := fromPartial; msg_full := full |}.
Next Obligation. solve_json fromJSON toJSON. Qed.
Next Obligation. solve_partial fromPartial full. Qed.

#[global] Instance schema_wire {PB : Protobuf} {PS : ProtobufSpec PB} : WireSchema wire schema.
Proof. solve_schema_wire wire schema. Qed.

#[global] Instance schema_merge : MergeSchema merge schema.
Proof. solve_schema_merge merge schema. Qed.

(** Its row in the table of message types. *)
Definition message {PB : Protobuf} {PS : ProtobufSpec PB} : message_type :=
  plain_message "Params" nothing true schema only.

#[global] Instance message_lawful {PB : Protobuf} (PS : ProtobufSpec PB) : Lawful message.
Proof. solve_lawful decode_field fromJSON only. Qed.

End Params.

(** ** [GenesisState] (ibc/applications/transfer/v1/genesis.js) *)

Module GenesisState.

Record t := mk {
  portId : string;
  denomTraces : list DenomTrace.t;
  params : option Params.t;
}.

#[global] Instance t_eta : Settable t := λ m, mk m.(portId) m.(denomTraces) m.(params).

Definition base : t := mk "" [] None.

Definition encode {PB : Protobuf} (message : t) (writer : Writer) : Writer :=
  writer
  @> when (str_neq message.(portId) "") (fun w => w @> uint32 10 @> string_ message.(portId))
  @> each message.(denomTraces) (fun v w => w @> uint32 18 @> fork @> DenomTrace.encode v @> ldelim)
  @> defined message.(params) (fun v w => w @> uint32 26 @> fork @> Params.encode v @> ldelim).

Definition decode_field {PB : Protobuf} (tag : Z) (message : t) : RM t :=
  match field_number tag with
  | 1 => v ← read_string; mret (message <| portId := v |>)
  | 2 => v ← read_nested DenomTrace.decode;
         mret (message <| denomTraces := message.(denomTraces) ++ [v] |>)
  | 3 => v ← read_nested Params.decode; mret (message <| params := Some v |>)
  | _ => _ ← skipType (wire_type tag); mret message
  end.

Definition decode {PB : Protobuf} (length : option Z) : RM t :=
  decode_message length base decode_field.

Definition fromJSON (object : js) : result t :=
  portId' ← field_or object "portId" to_string "";
  denomTraces' ← field_or object "denomTraces" (to_list DenomTrace.fromJSON) [];
  params' ← field_or object "params" (to_some Params.fromJSON) None;
  Ok (mk portId' denomTraces' params').

Definition toJSON (message : t) : js :=
  Obj ([("portId", Str message.(portId));
    ("denomTraces", Arr (map DenomTrace.toJSON message.(denomTraces)))] ++
   prop_opt "params" Params.toJSON message.(params)).

Record partial := mkPartial {
  p_portId : option string;
  p_denomTraces : option (list DenomTrace.partial);
  p_params : option Params.partial;
}.

Definition fromPartial (object : partial) : t := {|
  portId := object.(p_portId) ?? "";
  denomTraces := map DenomTrace.fromPartial (object.(p_denomTraces) ?? []);
  params := Params.fromPartial <$> object.(p_params);
|}.

(** The object with no property given. *)
Definition nothing : partial := mkPartial None None None.

(** The bytes [encode] writes. *)
Definition wire {PB : Protobuf} {PS : ProtobufSpec PB} (m : t) : bytes :=
  f_string 10 m.(portId) ++
  f_repeated 18 DenomTrace.wire m.(denomTraces) ++
  f_message 26 Params.wire m.(params).

Definition valid (m : t) : Prop :=
  Forall DenomTrace.valid m.(denomTraces) ∧ from_option Params.valid True m.(params).

Definition encodable {PB : Protobuf} {PS : ProtobufSpec PB} (m : t) : Prop :=
  valid m ∧ small (wire m).

Definition merge (m a : t) : t := {|
  portId := later_string m.(portId) a.(portId);
  denomTraces := m.(denomTraces) ++ a.(denomTraces);
  params := later_message m.(params) a.(params);
|}.

(** A whole message seen as a partial one. *)
Definition full (m : t) : partial := {|
  p_portId := Some m.(portId);
  p_denomTraces := Some (map DenomTrace.full m.(denomTraces));
  p_params := Params.full <$> m.(params);
|}.

(** The message as its schema declares it. *)
Definition schema (m : t) : list field :=
  [implicit 1 (VString m.(portId));
   repeated 2 (message_value DenomTrace.schema) m.(denomTraces);
   singular 3 Optional (message_value Params.schema) m.(params)].

(** The message with its default for every property that is not kept. *)
Definition only (kept : string → bool) (m : t) : t := {|
  portId := if kept "portId" then m.(portId) else "";
  denomTraces := if kept "denomTraces" then m.(denomTraces) else [];
  params := if kept "params" then m.(params) else None;
|}.

#[global] Instance codec {PB : Protobuf} : MessageCodec t :=
  {| msg_base := base; msg_encode := encode; msg_field := decode_field |}.

#[global] Program Instance spec {PB : Protobuf} (PS : ProtobufSpec PB) : MessageSpec PS t :=
  {| msg_wire := wire; msg_valid := valid; msg_merge := merge |}.
Next Obligation. solve_encode_wire. Qed.
Next Obligation. solve_decode_wire. Qed.
Next Obligation. solve_merge_base. Qed.
Next Obligation. intros. solve_advances decode_field. Qed.

#[global] Program Instance data : MessageData t partial :=
  {| msg_fromJSON := fromJSON; msg_toJSON := toJSON;
     msg_fromPartial := fromPartial; msg_full := full |}.
Next Obligation. solve_json fromJSON toJSON. Qed.
Next Obligation. solve_partial fromPartial full. Qed.

#[global] Instance schema_wire {PB : Protobuf} {PS : ProtobufSpec PB} : WireSchema wire schema.
Proof. solve_schema_wire wire schema. Qed.

#[global] Instance schema_merge : MergeSchema merge schema.
Proof. solve_schema_merge merge schema. Qed.

(** Its row in the table of message types. *)
Definition message {PB : Protobuf} {PS : ProtobufSpec PB} : message_type :=
  plain_message "GenesisState" nothing true schema only.

#[global] Instance message_lawful {PB : Protobuf} (PS : ProtobufSpec PB) : Lawful message.
Proof. solve_lawful decode_field fromJSON only. Qed.

End GenesisState.

(** ** [MsgTransfer] (ibc/applications/transfer/v1/tx.js) *)

Module MsgTransfer.

Record t := mk {
  sourcePort : string;
  sourceChannel : string;
  token : option Coin.t;
  sender : string;
  receiver : string;
  timeoutHeight : option Height.t;
  timeoutTimestamp : number;
}.

#[global] Instance t_eta : Settable t := λ m, mk m.(sourcePort) m.(sourceChannel) m.(token)
  m.(sender) m.(receiver) m.(timeoutHeight) m.(timeoutTimestamp).

Definition base : t := mk "" "" None "" "" None 0.

Definition encode {PB : Protobuf} (message : t) (writer : Writer) : Writer :=
  writer
  @> when (str_neq message.(sourcePort) "")
       (fun w => w @> uint32 10 @> string_ message.(sourcePort))
  @> when (str_neq message.(sourceChannel) "")
       (fun w => w @> uint32 18 @> string_ message.(sourceChannel))
  @> defined message.(token) (fun v w => w @> uint32 26 @> fork @> Coin.encode v @> ldelim)
  @> when (str_neq message.(sender) "") (fun w => w @> uint32 34 @> string_ message.(sender))
  @> when (str_neq message.(receiver) "") (fun w => w @> uint32 42 @> string_ message.(receiver))
  @> defined message.(timeoutHeight) (fun v w => w @> uint32 50 @> fork @> Height.encode v @> ldelim)
  @> when (num_neq message.(timeoutTimestamp) 0)
       (fun w => w @> uint32 56 @> uint64 message.(timeoutTimestamp)).

Definition decode_field {PB : Protobuf} (tag : Z) (message : t) : RM t :=
  match field_number tag with
  | 1 => v ← read_string; mret (message <| sourcePort := v |>)
  | 2 => v ← read_string; mret (message <| sourceChannel := v |>)
  | 3 => v ← read_nested Coin.decode; mret (message <| token := Some v |>)
  | 4 => v ← read_string; mret (message <| sender := v |>)
  | 5 => v ← read_string; mret (message <| receiver := v |>)
  | 6 => v ← read_nested Height.decode; mret (message <| timeoutHeight := Some v |>)
  | 7 => v ← read_number read_uint64; mret (message <| timeoutTimestamp := v |>)
  | _ => _ ← skipType (wire_type tag); mret message
  end.

Definition decode {PB : Protobuf} (length : option Z) : RM t :=
  decode_message length base decode_field.

Definition fromJSON (object : js) : result t :=
  sourcePort' ← field_or object "sourcePort" to_string "";
  sourceChannel' ← field_or object "sourceChannel" to_string "";
  token' ← field_or object "token" (to_some Coin.fromJSON) None;
  sender' ← field_or object "sender" to_string "";
  receiver' ← field_or object "receiver" to_string "";
  timeoutHeight' ← field_or object "timeoutHeight" (to_some Height.fromJSON) None;
  timeoutTimestamp' ← field_or object "timeoutTimestamp" js_Number 0;
  Ok (mk sourcePort' sourceChannel' token' sender' receiver' timeoutHeight' timeoutTimestamp').

Definition toJSON (message : t) : js :=
  Obj ([("sourcePort", Str message.(sourcePort));
    ("sourceChannel", Str message.(sourceChannel))] ++
   prop_opt "token" Coin.toJSON message.(token) ++
   [("sender", Str message.(sender));
    ("receiver", Str message.(receiver))] ++
   prop_opt "timeoutHeight" Height.toJSON message.(timeoutHeight) ++
   [("timeoutTimestamp", Num message.(timeoutTimestamp))]).

Record partial := mkPartial {
  p_sourcePort : option string;
  p_sourceChannel : option string;
  p_token : option Coin.partial;
  p_sender : option string;
  p_receiver : option string;
  p_timeoutHeight : option Height.partial;
  p_timeoutTimestamp : option number;
}.

Definition fromPartial (object : partial) : t := {|
  sourcePort := object.(p_sourcePort) ?? "";
  sourceChannel := object.(p_sourceChannel) ?? "";
  token := Coin.fromPartial <$> object.(p_token);
  sender := object.(p_sender) ?? "";
  receiver := object.(p_receiver) ?? "";
  timeoutHeight := Height.fromPartial <$> object.(p_timeoutHeight);
  timeoutTimestamp := object.(p_timeoutTimestamp) ?? Int 0;
|}.

(** The object with no property given. *)
Definition nothing : partial := mkPartial None None None None None None None.

(** The bytes [encode] writes. *)
Definition wire {PB : Protobuf} {PS : ProtobufSpec PB} (m : t) : bytes :=
  f_string 10 m.(sourcePort) ++
  f_string 18 m.(sourceChannel) ++
  f_message 26 Coin.wire m.(token) ++
  f_string 34 m.(sender) ++
  f_string 42 m.(receiver) ++
  f_message 50 Height.wire m.(timeoutHeight) ++
  f_number e_uint64 56 m.(timeoutTimestamp).

Definition valid (m : t) : Prop :=
  from_option Coin.valid True m.(token) ∧ from_option Height.valid True m.(timeoutHeight) ∧ uint64_ok m.(timeoutTimestamp).

Definition encodable {PB : Protobuf} {PS : ProtobufSpec PB} (m : t) : Prop :=
  valid m ∧ small (wire m).

Definition merge (m a : t) : t := {|
  sourcePort := later_string m.(sourcePort) a.(sourcePort);
  sourceChannel := later_string m.(sourceChannel) a.(sourceChannel);
  token := later_message m.(token) a.(token);
  sender := later_string m.(sender) a.(sender);
  receiver := later_string m.(receiver) a.(receiver);
  timeoutHeight := later_message m.(timeoutHeight) a.(timeoutHeight);
  timeoutTimestamp := later_number m.(timeoutTimestamp) a.(timeoutTimestamp);
|}.

(** A whole message seen as a partial one. *)
Definition full (m : t) : partial := {|
  p_sourcePort := Some m.(sourcePort);
  p_sourceChannel := Some m.(sourceChannel);
  p_token := Coin.full <$> m.(token);
  p_sender := Some m.(sender);
  p_receiver := Some m.(receiver);
  p_timeoutHeight := Height.full <$> m.(timeoutHeight);
  p_timeoutTimestamp := Some m.(timeoutTimestamp);
|}.

(** The message as its schema declares it. *)
Definition schema (m : t) : list field :=
  [implicit 1 (VString m.(sourcePort));
   implicit 2 (VString m.(sourceChannel));
   singular 3 Optional (message_value Coin.schema) m.(token);
   implicit 4 (VString m.(sender));
   implicit 5 (VString m.(receiver));
   singular 6 Optional (message_value Height.schema) m.(timeoutHeight);
   implicit 7 (VInt Uint64 m.(timeoutTimestamp))].

(** The message with its default for every property that is not kept. *)
Definition only (kept : string → bool) (m : t) : t := {|
  sourcePort := if kept "sourcePort" then m.(sourcePort) else "";
  sourceChannel := if kept "sourceChannel" then m.(sourceChannel) else "";
  token := if kept "token" then m.(token) else None;
  sender := if kept "sender" then m.(sender) else "";
  receiver := if kept "receiver" then m.(receiver) else "";
  timeoutHeight := if kept "timeoutHeight" then m.(timeoutHeight) else None;
  timeoutTimestamp := if kept "timeoutTimestamp" then m.(timeoutTimestamp) else Int 0;
|}.

#[global] Instance codec {PB : Protobuf} : MessageCodec t :=
  {| msg_base := base; msg_encode := encode; msg_field := decode_field |}.

#[global] Program Instance spec {PB : Protobuf} (PS : ProtobufSpec PB) : MessageSpec PS t :=
  {| msg_wire := wire; msg_valid := valid; msg_merge := merge |}.
Next Obligation. solve_encode_wire. Qed.
Next Obligation. solve_decode_wire. Qed.
Next Obligation. solve_merge_base. Qed.
Next Obligation. intros. solve_advances decode_field. Qed.

#[global] Program Instance data : MessageData t partial :=
  {| msg_fromJSON := fromJSON; msg_toJSON := toJSON;
     msg_fromPartial := fromPartial; msg_full := full |}.
Next Obligation. solve_json fromJSON toJSON. Qed.
Next Obligation. solve_partial fromPartial full. Qed.

#[global] Instance schema_wire {PB : Protobuf} {PS : ProtobufSpec PB} : WireSchema wire schema.
Proof. solve_schema_wire wire schema. Qed.

#[global] Instance schema_merge : MergeSchema merge schema.
Proof. solve_schema_merge merge schema. Qed.

(** Its row in the table of message types. *)
Definition message {PB : Protobuf} {PS : ProtobufSpec PB} : message_type :=
  plain_message "MsgTransfer" nothing true schema only.

#[global] Instance message_lawful {PB : Protobuf} (PS : ProtobufSpec PB) : Lawful message.
Proof. solve_lawful decode_field fromJSON only. Qed.

End MsgTransfer.

(** ** [MsgTransferResponse] (ibc/applications/transfer/v1/tx.js) *)

Module MsgTransferResponse.

Record t := mk {}.

#[global] Instance t_eta : Settable t := λ m, m.

Definition base : t := mk.

Definition encode {PB : Protobuf} (message : t) (writer : Writer) : Writer :=
  writer.

Definition decode_field {PB : Protobuf} (tag : Z) (message : t) : RM t :=
  match field_number tag with
  | _ => _ ← skipType (wire_type tag); mret message
  end.

Definition decode {PB : Protobuf} (length : option Z) : RM t :=
  decode_message length base decode_field.

Definition fromJSON (object : js) : result t :=
  Ok base.

Definition toJSON (message : t) : js :=
  Obj [].

Record partial := mkPartial {}.

Definition fromPartial (object : partial) : t := base.

(** The object with no property given. *)
Definition nothing : partial := mkPartial.

(** The bytes [encode] writes. *)
Definition wire {PB : Protobuf} {PS : ProtobufSpec PB} (m : t) : bytes :=
  [].

Definition valid (m : t) : Prop :=
  True.

Definition encodable {PB : Protobuf} {PS : ProtobufSpec PB} (m : t) : Prop :=
  valid m ∧ small (wire m).

Definition merge (m a : t) : t := m.

(** A whole message seen as a partial one. *)
Definition full (m : t) : partial := mkPartial.

(** The message as its schema declares it. *)
Definition schema (m : t) : list field :=
  [].

(** The message with its default for every property that is not kept. *)
Definition only (kept : string → bool) (m : t) : t := m.

#[global] Instance codec {PB : Protobuf} : MessageCodec t :=
  {| msg_base := base; msg_encode := encode; msg_field := decode_field |}.

#[global] Program Instance spec {PB : Protobuf} (PS : ProtobufSpec PB) : MessageSpec PS t :=
  {| msg_wire := wire; msg_valid := valid; msg_merge := merge |}.
Next Obligation. solve_encode_wire. Qed.
Next Obligation. solve_decode_wire. Qed.
Next Obligation. solve_merge_base. Qed.
Next Obligation. intros. solve_advances decode_field. Qed.

#[global] Program Instance data : MessageData t partial :=
  {| msg_fromJSON := fromJSON; msg_toJSON := toJSON;
     msg_fromPartial := fromPartial; msg_full := full |}.
Next Obligation. solve_json fromJSON toJSON. Qed.
Next Obligation. solve_partial fromPartial full. Qed.

#[global] Instance schema_wire {PB : Protobuf} {PS : ProtobufSpec PB} : WireSchema wire schema.
Proof. solve_schema_wire wire schema. Qed.

#[global] Instance schema_merge : MergeSchema merge schema.
Proof. solve_schema_merge merge schema. Qed.

(** Its row in the table of message types. *)
Definition message {PB : Protobuf} {PS : ProtobufSpec PB} : message_type :=
  plain_message "MsgTransferResponse" nothing false schema only.

#[global] Instance message_lawful {PB : Protobuf} (PS : ProtobufSpec PB) : Lawful message.
Proof. solve_lawful decode_field fromJSON only. Qed.

End MsgTransferResponse.

(** ** [QueryDenomTraceRequest] (ibc/applications/transfer/v1/query.js) *)

Module QueryDenomTraceRequest.

Record t := mk {
  hash : string;
}.

#[global] Instance t_eta : Settable t := λ m, mk m.(hash).

Definition base : t := mk "".

Definition encode {PB : Protobuf} (message : t) (writer : Writer) : Writer :=
  writer
  @> when (str_neq message.(hash) "") (fun w => w @> uint32 10 @> string_ message.(hash)).

Definition decode_field {PB : Protobuf} (tag : Z) (message : t) : RM t :=
  match field_number tag with
  | 1 => v ← read_string; mret (message <| hash := v |>)
  | _ => _ ← skipType (wire_type tag); mret message
  end.

Definition decode {PB : Protobuf} (length : option Z) : RM t :=
  decode_message length base decode_field.

Definition fromJSON (object : js) : result t :=
  hash' ← field_or object "hash" to_string "";
  Ok (mk hash').

Definition toJSON (message : t) : js :=
  Obj ([("hash", Str message.(hash))]).

Record partial := mkPartial {
  p_hash : option string;
}.

Definition fromPartial (object : partial) : t := {|
  hash := object.(p_hash) ?? "";
|}.

(** The object with no property given. *)
Definition nothing : partial := mkPartial None.

(** The bytes [encode] writes. *)
Definition wire {PB : Protobuf} {PS : ProtobufSpec PB} (m : t) : bytes :=
  f_string 10 m.(hash).

Definition valid (m : t) : Prop :=
  True.

Definition encodable {PB : Protobuf} {PS : ProtobufSpec PB} (m : t) : Prop :=
  valid m ∧ small (wire m).

Definition merge (m a : t) : t := {|
  hash := later_string m.(hash) a.(hash);
|}.

(** A whole message seen as a partial one. *)
Definition full (m : t) : partial := {|
  p_hash := Some m.(hash);
|}.

(** The message as its schema declares it. *)
Definition schema (m : t) : list field :=
  [implicit 1 (VString m.(hash))].

(** The message with its default for every property that is not kept. *)
Definition only (kept : string → bool) (m : t) : t := {|
  hash := if kept "hash" then m.(hash) else "";
|}.

#[global] Instance codec {PB : Protobuf} : MessageCodec t :=
  {| msg_base := base; msg_encode := encode; msg_field := decode_field |}.

#[global] Program Instance spec {PB : Protobuf} (PS : ProtobufSpec PB) : MessageSpec PS t :=
  {| msg_wire := wire; msg_valid := valid; msg_merge := merge |}.
Next Obligation. solve_encode_wire. Qed.
Next Obligation. solve_decode_wire. Qed.
Next Obligation. solve_merge_base. Qed.
Next Obligation. intros. solve_advances decode_field. Qed.

#[global] Program Instance data : MessageData t partial :=
  {| msg_fromJSON := fromJSON; msg_toJSON := toJSON;
     msg_fromPartial := fromPartial; msg_full := full |}.
Next Obligation. solve_json fromJSON toJSON. Qed.
Next Obligation. solve_partial fromPartial full. Qed.

#[global] Instance schema_wire {PB : Protobuf} {PS : ProtobufSpec PB} : WireSchema wire schema.
Proof. solve_schema_wire wire schema. Qed.

#[global] Instance schema_merge : MergeSchema merge schema.
Proof. solve_schema_merge merge schema. Qed.

(** Its row in the table of message types. *)
Definition message {PB : Protobuf} {PS : ProtobufSpec PB} : message_type :=
  plain_message "QueryDenomTraceRequest" nothing true schema only.

#[global] Instance message_lawful {PB : Protobuf} (PS : ProtobufSpec PB) : Lawful message.
Proof. solve_lawful decode_field fromJSON only. Qed.

End QueryDenomTraceRequest.

(** ** [QueryDenomTraceResponse] (ibc/applications/transfer/v1/query.js) *)

Module QueryDenomTraceResponse.

Record t := mk {
  denomTrace : option DenomTrace.t;
}.

#[global] Instance t_eta : Settable t := λ m, mk m.(denomTrace).

Definition base : t := mk None.

Definition encode {PB : Protobuf} (message : t) (writer : Writer) : Writer :=
  writer
  @> defined message.(denomTrace) (fun v w => w @> uint32 10 @> fork @> DenomTrace.encode v @> ldelim).

Definition decode_field {PB : Protobuf} (tag : Z) (message : t) : RM t :=
  match field_number tag with
  | 1 => v ← read_nested DenomTrace.decode; mret (message <| denomTrace := Some v |>)
  | _ => _ ← skipType (wire_type tag); mret message
  end.

Definition decode {PB : Protobuf} (length : option Z) : RM t :=
  decode_message length base decode_field.

Definition fromJSON (object : js) : result t :=
  denomTrace' ← field_or object "denomTrace" (to_some DenomTrace.fromJSON) None;
  Ok (mk denomTrace').

Definition toJSON (message : t) : js :=
  Obj (prop_opt "denomTrace" DenomTrace.toJSON message.(denomTrace)).

Record partial := mkPartial {
  p_denomTrace : option DenomTrace.partial;
}.

Definition fromPartial (object : partial) : t := {|
  denomTrace := DenomTrace.fromPartial <$> object.(p_denomTrace);
|}.

(** The object with no property given. *)
Definition nothing : partial := mkPartial None.

(** The bytes [encode] writes. *)
Definition wire {PB : Protobuf} {PS : ProtobufSpec PB} (m : t) : bytes :=
  f_message 10 DenomTrace.wire m.(denomTrace).

Definition valid (m : t) : Prop :=
  from_option DenomTrace.valid True m.(denomTrace).

Definition encodable {PB : Protobuf} {PS : ProtobufSpec PB} (m : t) : Prop :=
  valid m ∧ small (wire m).

Definition merge (m a : t) : t := {|
  denomTrace := later_message m.(denomTrace) a.(denomTrace);
|}.

(** A whole message seen as a partial one. *)
Definition full (m : t) : partial := {|
  p_denomTrace := DenomTrace.full <$> m.(denomTrace);
|}.

(** The message as its schema declares it. *)
Definition schema (m : t) : list field :=
  [singular 1 Optional (message_value DenomTrace.schema) m.(denomTrace)].

(** The message with its default for every property that is not kept. *)
Definition only (kept : string → bool) (m : t) : t := {|
  denomTrace := if kept "denomTrace" then m.(denomTrace) else None;
|}.

#[global] Instance codec {PB : Protobuf} : MessageCodec t :=
  {| msg_base := base; msg_encode := encode; msg_field := decode_field |}.

#[global] Program Instance spec {PB : Protobuf} (PS : ProtobufSpec PB) : MessageSpec PS t :=
  {| msg_wire := wire; msg_valid := valid; msg_merge := merge |}.
Next Obligation. solve_encode_wire. Qed.
Next Obligation. solve_decode_wire. Qed.
Next Obligation. solve_merge_base. Qed.
Next Obligation. intros. solve_advances decode_field. Qed.

#[global] Program Instance data : MessageData t partial :=
  {| msg_fromJSON := fromJSON; msg_toJSON := toJSON;
     msg_fromPartial := fromPartial; msg_full := full |}.
Next Obligation. solve_json fromJSON toJSON. Qed.
Next Obligation. solve_partial fromPartial full. Qed.

#[global] Instance schema_wire {PB : Protobuf} {PS : ProtobufSpec PB} : WireSchema wire schema.
Proof. solve_schema_wire wire schema. Qed.

#[global] Instance schema_merge : MergeSchema merge schema.
Proof. solve_schema_merge merge schema. Qed.

(** Its row in the table of message types. *)
Definition message {PB : Protobuf} {PS : ProtobufSpec PB} : message_type :=
  plain_message "QueryDenomTraceResponse" nothing true schema only.

#[global] Instance message_lawful {PB : Protobuf} (PS : ProtobufSpec PB) : Lawful message.
Proof. solve_lawful decode_field fromJSON only. Qed.

End QueryDenomTraceResponse.

(** ** [QueryDenomTracesRequest] (ibc/applications/transfer/v1/query.js) *)

Module QueryDenomTracesRequest.

Record t := mk {
  pagination : option PageRequest.t;
}.

#[global] Instance t_eta : Settable t := λ m, mk m.(pagination).

Definition base : t := mk None.

Definition encode {PB : Protobuf} (message : t) (writer : Writer) : result Writer :=
  Ok writer
  @>= defined_e message.(pagination) (submessage 10 PageRequest.encode).

Definition decode_field {PB : Protobuf} (tag : Z) (message : t) : RM t :=
  match field_number tag with
  | 1 => v ← read_nested PageRequest.decode; mret (message <| pagination := Some v |>)
  | _ => _ ← skipType (wire_type tag); mret message
  end.

Definition decode {PB : Protobuf} (length : option Z) : RM t :=
  decode_message length base decode_field.

Definition fromJSON (object : js) : result t :=
  pagination' ← field_or object "pagination" (to_some PageRequest.fromJSON) None;
  Ok (mk pagination').

Definition toJSON (message : t) : js :=
  Obj (prop_opt "pagination" PageRequest.toJSON message.(pagination)).

Record partial := mkPartial {
  p_pagination : option PageRequest.partial;
}.

Definition fromPartial (object : partial) : t := {|
  pagination := PageRequest.fromPartial <$> object.(p_pagination);
|}.

(** The object with no property given. *)
Definition nothing : partial := mkPartial None.

(** The bytes [encode] writes. *)
Definition wire {PB : Protobuf} {PS : ProtobufSpec PB} (m : t) : bytes :=
  f_message 10 PageRequest.wire m.(pagination).

Definition valid (m : t) : Prop :=
  from_option PageRequest.valid True m.(pagination).

(** The byte fields hold arrays, as the interface declares. *)
Definition typed (m : t) : bool := from_option PageRequest.typed true m.(pagination).

(** The message without its empty byte arrays. *)
Definition normal (m : t) : t := {|
  pagination := PageRequest.normal <$> m.(pagination);
|}.

Definition encodable {PB : Protobuf} {PS : ProtobufSpec PB} (m : t) : Prop :=
  typed m = true ∧ valid m ∧ small (wire m).

Definition merge (m a : t) : t := {|
  pagination := later_message m.(pagination) (PageRequest.normal <$> a.(pagination));
|}.

(** A whole message seen as a partial one. *)
Definition full (m : t) : partial := {|
  p_pagination := PageRequest.full <$> m.(pagination);
|}.

(** The message as its schema declares it. *)
Definition schema (m : t) : list field :=
  [singular 1 Optional (message_value PageRequest.schema) m.(pagination)].

(** The message with its default for every property that is not kept. *)
Definition only (kept : string → bool) (m : t) : t := {|
  pagination := if kept "pagination" then m.(pagination) else None;
|}.

#[global] Instance codec {PB : Protobuf} : FallibleCodec t :=
  {| fmsg_base := base; fmsg_encode := encode; fmsg_field := decode_field |}.

#[global] Program Instance spec {PB : Protobuf} (PS : ProtobufSpec PB) : FallibleSpec PS t :=
  {| fmsg_wire := wire; fmsg_valid := valid; fmsg_typed := typed; fmsg_normal := normal;
     fmsg_merge := merge |}.
Next Obligation. solve_fencode_wire. Qed.
Next Obligation. intros. solve_fencode_throws encode typed. Qed.
Next Obligation. solve_fdecode_wire. Qed.
Next Obligation. solve_fmerge_base. Qed.
Next Obligation. intros. solve_fadvances decode_field. Qed.

#[global] Program Instance given_ : FalliblePartial t partial :=
  {| fmsg_fromPartial := fromPartial; fmsg_full := full; fmsg_given := typed |}.
Next Obligation. solve_fgiven fromPartial typed. Qed.
Next Obligation. solve_fpartial fromPartial full typed. Qed.

#[global] Program Instance json : FallibleJson t :=
  {| fmsg_fromJSON := fromJSON; fmsg_toJSON := toJSON;
     fmsg_named := fun _ => true; fmsg_known := fun m => m |}.
Next Obligation. solve_fjson fromJSON toJSON. Qed.
Next Obligation. reflexivity. Qed.

#[global] Instance schema_wire {PB : Protobuf} {PS : ProtobufSpec PB} : WireSchema wire schema.
Proof. solve_schema_wire wire schema. Qed.

#[global] Instance schema_normal : NormalSchema normal schema.
Proof. solve_schema_normal normal schema. Qed.

#[global] Instance schema_merge : MergeSchema merge schema.
Proof. solve_schema_merge merge schema. Qed.

(** Its row in the table of message types. *)
Definition message {PB : Protobuf} {PS : ProtobufSpec PB} : message_type :=
  fallible_message "QueryDenomTracesRequest" nothing true schema only.

#[global] Instance message_lawful {PB : Protobuf} (PS : ProtobufSpec PB) : Lawful message.
Proof. solve_lawful decode_field fromJSON only. Qed.

End QueryDenomTracesRequest.

(** ** [QueryDenomTracesResponse] (ibc/applications/transfer/v1/query.js) *)

Module QueryDenomTracesResponse.

Record t := mk {
  denomTraces : list DenomTrace.t;
  pagination : option PageResponse.t;
}.

#[global] Instance t_eta : Settable t := λ m, mk m.(denomTraces) m.(pagination).

Definition base : t := mk [] None.

Definition encode {PB : Protobuf} (message : t) (writer : Writer) : result Writer :=
  Ok writer
  @>= pure (each message.(denomTraces) (fun v w => w @> uint32 10 @> fork @> DenomTrace.encode v @> ldelim))
  @>= defined_e message.(pagination) (submessage 18 PageResponse.encode).

Definition decode_field {PB : Protobuf} (tag : Z) (message : t) : RM t :=
  match field_number tag with
  | 1 => v ← read_nested DenomTrace.decode;
         mret (message <| denomTraces := message.(denomTraces) ++ [v] |>)
  | 2 => v ← read_nested PageResponse.decode; mret (message <| pagination := Some v |>)
  | _ => _ ← skipType (wire_type tag); mret message
  end.

Definition decode {PB : Protobuf} (length : option Z) : RM t :=
  decode_message length base decode_field.

Definition fromJSON (object : js) : result t :=
  denomTraces' ← field_or object "denomTraces" (to_list DenomTrace.fromJSON) [];
  pagination' ← field_or object "pagination" (to_some PageResponse.fromJSON) None;
  Ok (mk denomTraces' pagination').

Definition toJSON (message : t) : js :=
  Obj ([("denomTraces", Arr (map DenomTrace.toJSON message.(denomTraces)))] ++
   prop_opt "pagination" PageResponse.toJSON message.(pagination)).

Record partial := mkPartial {
  p_denomTraces : option (list DenomTrace.partial);
  p_pagination : option PageResponse.partial;
}.

Definition fromPartial (object : partial) : t := {|
  denomTraces := map DenomTrace.fromPartial (object.(p_denomTraces) ?? []);
  pagination := PageResponse.fromPartial <$> object.(p_pagination);
|}.

(** The object with no property given. *)
Definition nothing : partial := mkPartial None None.

(** The bytes [encode] writes. *)
Definition wire {PB : Protobuf} {PS : ProtobufSpec PB} (m : t) : bytes :=
  f_repeated 10 DenomTrace.wire m.(denomTraces) ++
  f_message 18 PageResponse.wire m.(pagination).

Definition valid (m : t) : Prop :=
  Forall DenomTrace.valid m.(denomTraces) ∧ from_option PageResponse.valid True m.(pagination).

(** The byte fields hold arrays, as the interface declares. *)
Definition typed (m : t) : bool := from_option PageResponse.typed true m.(pagination).

(** The message without its empty byte arrays. *)
Definition normal (m : t) : t := {|
  denomTraces := m.(denomTraces);
  pagination := PageResponse.normal <$> m.(pagination);
|}.

Definition encodable {PB : Protobuf} {PS : ProtobufSpec PB} (m : t) : Prop :=
  typed m = true ∧ valid m ∧ small (wire m).

Definition merge (m a : t) : t := {|
  denomTraces := m.(denomTraces) ++ a.(denomTraces);
  pagination := later_message m.(pagination) (PageResponse.normal <$> a.(pagination));
|}.

(** A whole message seen as a partial one. *)
Definition full (m : t) : partial := {|
  p_denomTraces := Some (map DenomTrace.full m.(denomTraces));
  p_pagination := PageResponse.full <$> m.(pagination);
|}.

(** The message as its schema declares it. *)
Definition schema (m : t) : list field :=
  [repeated 1 (message_value DenomTrace.schema) m.(denomTraces);
   singular 2 Optional (message_value PageResponse.schema) m.(pagination)].

(** The message with its default for every property that is not kept. *)
Definition only (kept : string → bool) (m : t) : t := {|
  denomTraces := if kept "denomTraces" then m.(denomTraces) else [];
  pagination := if kept "pagination" then m.(pagination) else None;
|}.

#[global] Instance codec {PB : Protobuf} : FallibleCodec t :=
  {| fmsg_base := base; fmsg_encode := encode; fmsg_field := decode_field |}.

#[global] Program Instance spec {PB : Protobuf} (PS : ProtobufSpec PB) : FallibleSpec PS t :=
  {| fmsg_wire := wire; fmsg_valid := valid; fmsg_typed := typed; fmsg_normal := normal;
     fmsg_merge := merge |}.
Next Obligation. solve_fencode_wire. Qed.
Next Obligation. intros. solve_fencode_throws encode typed. Qed.
Next Obligation. solve_fdecode_wire. Qed.
Next Obligation. solve_fmerge_base. Qed.
Next Obligation. intros. solve_fadvances decode_field. Qed.

#[global] Program Instance given_ : FalliblePartial t partial :=
  {| fmsg_fromPartial := fromPartial; fmsg_full := full; fmsg_given := typed |}.
Next Obligation. solve_fgiven fromPartial typed. Qed.
Next Obligation. solve_fpartial fromPartial full typed. Qed.

#[global] Program Instance json : FallibleJson t :=
  {| fmsg_fromJSON := fromJSON; fmsg_toJSON := toJSON;
     fmsg_named := fun _ => true; fmsg_known := fun m => m |}.
Next Obligation. solve_fjson fromJSON toJSON. Qed.
Next Obligation. reflexivity. Qed.

#[global] Instance schema_wire {PB : Protobuf} {PS : ProtobufSpec PB} : WireSchema wire schema.
Proof. solve_schema_wire wire schema. Qed.

#[global] Instance schema_normal : NormalSchema normal schema.
Proof. solve_schema_normal normal schema. Qed.

#[global] Instance schema_merge : MergeSchema merge schema.
Proof. solve_schema_merge merge schema. Qed.

(** Its row in the table of message types. *)
Definition message {PB : Protobuf} {PS : ProtobufSpec PB} : message_type :=
  fallible_message "QueryDenomTracesResponse" nothing true schema only.

#[global] Instance message_lawful {PB : Protobuf} (PS : ProtobufSpec PB) : Lawful message.
Proof. solve_lawful decode_field fromJSON only. Qed.

End QueryDenomTracesResponse.

(** ** [QueryParamsRequest] (ibc/applications/transfer/v1/query.js) *)

Module QueryParamsRequest.

Record t := mk {}.

#[global] Instance t_eta : Settable t := λ m, m.

Definition base : t := mk.

Definition encode {PB : Protobuf} (message : t) (writer : Writer) : Writer :=
  writer.

Definition decode_field {PB : Protobuf} (tag : Z) (message : t) : RM t :=
  match field_number tag with
  | _ => _ ← skipType (wire_type tag); mret message
  end.

Definition decode {PB : Protobuf} (length : option Z) : RM t :=
  decode_message length base decode_field.

Definition fromJSON (object : js) : result t :=
  Ok base.

Definition toJSON (message : t) : js :=
  Obj [].

Record partial := mkPartial {}.

Definition fromPartial (object : partial) : t := base.

(** The object with no property given. *)
Definition nothing : partial := mkPartial.

(** The bytes [encode] writes. *)
Definition wire {PB : Protobuf} {PS : ProtobufSpec PB} (m : t) : bytes :=
  [].

Definition valid (m : t) : Prop :=
  True.

Definition encodable {PB : Protobuf} {PS : ProtobufSpec PB} (m : t) : Prop :=
  valid m ∧ small (wire m).

Definition merge (m a : t) : t := m.

(** A whole message seen as a partial one. *)
Definition full (m : t) : partial := mkPartial.

(** The message as its schema declares it. *)
Definition schema (m : t) : list field :=
  [].

(** The message with its default for every property that is not kept. *)
Definition only (kept : string → bool) (m : t) : t := m.

#[global] Instance codec {PB : Protobuf} : MessageCodec t :=
  {| msg_base := base; msg_encode := encode; msg_field := decode_field |}.

#[global] Program Instance spec {PB : Protobuf} (PS : ProtobufSpec PB) : MessageSpec PS t :=
  {| msg_wire := wire; msg_valid := valid; msg_merge := merge |}.
Next Obligation. solve_encode_wire. Qed.
Next Obligation. solve_decode_wire. Qed.
Next Obligation. solve_merge_base. Qed.
Next Obligation. intros. solve_advances decode_field. Qed.

#[global] Program Instance data : MessageData t partial :=
  {| msg_fromJSON := fromJSON; msg_toJSON := toJSON;
     msg_fromPartial := fromPartial; msg_full := full |}.
Next Obligation. solve_json fromJSON toJSON. Qed.
Next Obligation. solve_partial fromPartial full. Qed.

#[global] Instance schema_wire {PB : Protobuf} {PS : ProtobufSpec PB} : WireSchema wire schema.
Proof. solve_schema_wire wire schema. Qed.

#[global] Instance schema_merge : MergeSchema merge schema.
Proof. solve_schema_merge merge schema. Qed.

(** Its row in the table of message types. *)
Definition message {PB : Protobuf} {PS : ProtobufSpec PB} : message_type :=
  plain_message "QueryParamsRequest" nothing false schema only.

#[global] Instance message_lawful {PB : Protobuf} (PS : ProtobufSpec PB) : Lawful message.
Proof. solve_lawful decode_field fromJSON only. Qed.

End QueryParamsRequest.

(** ** [QueryParamsResponse] (ibc/applications/transfer/v1/query.js) *)

Module QueryParamsResponse.

Record t := mk {
  params : option Params.t;
}.

#[global] Instance t_eta : Settable t := λ m, mk m.(params).

Definition base : t := mk None.

Definition encode {PB : Protobuf} (message : t) (writer : Writer) : Writer :=
  writer
  @> defined message.(params) (fun v w => w @> uint32 10 @> fork @> Params.encode v @> ldelim).

Definition decode_field {PB : Protobuf} (tag : Z) (message : t) : RM t :=
  match field_number tag with
  | 1 => v ← read_nested Params.decode; mret (message <| params := Some v |>)
  | _ => _ ← skipType (wire_type tag); mret message
  end.

Definition decode {PB : Protobuf} (length : option Z) : RM t :=
  decode_message length base decode_field.

Definition fromJSON (object : js) : result t :=
  params' ← field_or object "params" (to_some Params.fromJSON) None;
  Ok (mk params').

Definition toJSON (message : t) : js :=
  Obj (prop_opt "params" Params.toJSON message.(params)).

Record partial := mkPartial {
  p_params : option Params.partial;
}.

Definition fromPartial (object : partial) : t := {|
  params := Params.fromPartial <$> object.(p_params);
|}.

(** The object with no property given. *)
Definition nothing : partial := mkPartial None.

(** The bytes [encode] writes. *)
Definition wire {PB : Protobuf} {PS : ProtobufSpec PB} (m : t) : bytes :=
  f_message 10 Params.wire m.(params).

Definition valid (m : t) : Prop :=
  from_option Params.valid True m.(params).

Definition encodable {PB : Protobuf} {PS : ProtobufSpec PB} (m : t) : Prop :=
  valid m ∧ small (wire m).

Definition merge (m a : t) : t := {|
  params := later_message m.(params) a.(params);
|}.

(** A whole message seen as a partial one. *)
Definition full (m : t) : partial := {|
  p_params := Params.full <$> m.(params);
|}.

(** The message as its schema declares it. *)
Definition schema (m : t) : list field :=
  [singular 1 Optional (message_value Params.schema) m.(params)].

(** The message with its default for every property that is not kept. *)
Definition only (kept : string → bool) (m : t) : t := {|
  params := if kept "params" then m.(params) else None;
|}.

#[global] Instance codec {PB : Protobuf} : MessageCodec t :=
  {| msg_base := base; msg_encode := encode; msg_field := decode_field |}.

#[global] Program Instance spec {PB : Protobuf} (PS : ProtobufSpec PB) : MessageSpec PS t :=
  {| msg_wire := wire; msg_valid := valid; msg_merge := merge |}.
Next Obligation. solve_encode_wire. Qed.
Next Obligation. solve_decode_wire. Qed.
Next Obligation. solve_merge_base. Qed.
Next Obligation. intros. solve_advances decode_field. Qed.

#[global] Program Instance data : MessageData t partial :=
  {| msg_fromJSON := fromJSON; msg_toJSON := toJSON;
     msg_fromPartial := fromPartial; msg_full := full |}.
Next Obligation. solve_json fromJSON toJSON. Qed.
Next Obligation. solve_partial fromPartial full. Qed.

#[global] Instance schema_wire {PB : Protobuf} {PS : ProtobufSpec PB} : WireSchema wire schema.
Proof. solve_schema_wire wire schema. Qed.

#[global] Instance schema_merge : MergeSchema merge schema.
Proof. solve_schema_merge merge schema. Qed.

(** Its row in the table of message types. *)
Definition message {PB : Protobuf} {PS : ProtobufSpec PB} : message_type :=
  plain_message "QueryParamsResponse" nothing true schema only.

#[global] Instance message_lawful {PB : Protobuf} (PS : ProtobufSpec PB) : Lawful message.
Proof. solve_lawful decode_field fromJSON only. Qed.

End QueryParamsResponse.


(** ** [MsgClientImpl]

    [rpc] is the transport the class is constructed with: [rpc service method data]
    is what the promise of [this.rpc.request] settles to. *)
Module MsgClientImpl.
Section client.
Context {PB : Protobuf} (rpc : string → string → bytes → result bytes).

Definition Transfer (request : MsgTransfer.t) : result MsgTransferResponse.t :=
  data ← rpc "ibc.applications.transfer.v1.Msg" "Transfer"
    (finish (MsgTransfer.encode request create));
  decode_bytes MsgTransferResponse.decode data.

End client.
End MsgClientImpl.


(** ** [QueryClientImpl]

    [rpc] is the transport the class is constructed with: [rpc service method data]
    is what the promise of [this.rpc.request] settles to. *)
Module QueryClientImpl.
Section client.
Context {PB : Protobuf} (rpc : string → string → bytes → result bytes).

Definition DenomTrace (request : QueryDenomTraceRequest.t) : result QueryDenomTraceResponse.t :=
  data ← rpc "ibc.applications.transfer.v1.Query" "DenomTrace"
    (finish (QueryDenomTraceRequest.encode request create));
  decode_bytes QueryDenomTraceResponse.decode data.

Definition DenomTraces (request : QueryDenomTracesRequest.t) : result QueryDenomTracesResponse.t :=
  w ← QueryDenomTracesRequest.encode request create;
  data ← rpc "ibc.applications.transfer.v1.Query" "DenomTraces" (finish w);
  decode_bytes QueryDenomTracesResponse.decode data.

Definition Params (request : QueryParamsRequest.t) : result QueryParamsResponse.t :=
  data ← rpc "ibc.applications.transfer.v1.Query" "Params"
    (finish (QueryParamsRequest.encode request create));
  decode_bytes QueryParamsResponse.decode data.

End client.
End QueryClientImpl.

(** ** The message types of this file *)

Definition messages {PB : Protobuf} {PS : ProtobufSpec PB} : list message_type :=
  [ FungibleTokenPacketData.message; DenomTrace.message; Params.message; GenesisState.message;
   MsgTransfer.message; MsgTransferResponse.message; QueryDenomTraceRequest.message;
   QueryDenomTraceResponse.message; QueryDenomTracesRequest.message;
   QueryDenomTracesResponse.message; QueryParamsRequest.message; QueryParamsResponse.message].

Lemma TransferTypes_lawful {PB : Protobuf} {PS : ProtobufSpec PB} : Forall Lawful messages.
Proof. solve_table. Qed.

(** The methods of [MsgClientImpl]. *)
Definition msg_methods {PB : Protobuf} {PS : ProtobufSpec PB} : list rpc_method :=
  [mkMethod "ibc.applications.transfer.v1.Msg" "Transfer"
     MsgTransfer.message MsgTransferResponse.message
     (fun rpc => MsgClientImpl.Transfer rpc)].

Lemma TransferTypes_msg_methods_lawful {PB : Protobuf} {PS : ProtobufSpec PB} : Forall method_lawful msg_methods.
Proof. solve_methods. Qed.

(** The methods of [QueryClientImpl]. *)
Definition query_methods {PB : Protobuf} {PS : ProtobufSpec PB} : list rpc_method :=
  [mkMethod "ibc.applications.transfer.v1.Query" "DenomTrace"
     QueryDenomTraceRequest.message QueryDenomTraceResponse.message
     (fun rpc => QueryClientImpl.DenomTrace rpc);
   mkMethod "ibc.applications.transfer.v1.Query" "DenomTraces"
     QueryDenomTracesRequest.message QueryDenomTracesResponse.message
     (fun rpc => QueryClientImpl.DenomTraces rpc);
   mkMethod "ibc.applications.transfer.v1.Query" "Params"
     QueryParamsRequest.message QueryParamsResponse.message
     (fun rpc => QueryClientImpl.Params rpc)].

Lemma TransferTypes_query_methods_lawful {PB : Protobuf} {PS : ProtobufSpec PB} : Forall method_lawful query_methods.
Proof. solve_methods. Qed.
