(* ===== verification/AbciTypes.v ===== *)
(** * The messages between Tendermint and the application

    The requests and responses of the application interface: the codecs of
    [tendermint/abci/types.js] of the authz module, with the RPC client
    [ABCIApplicationClientImpl].  A request or response is a oneof of the
    messages for each method.  What the Cosmos SDK reports of a transaction,
    with its logs, events and gas, is in [cosmos/base/abci/v1beta1/abci.js] of
    the same module. *)
From S2P Require Import Prelude Js Protobuf Codec Calendar Dates Base64 Fallible Proto3 MessageTable CommonTypes CosmosBase TendermintTypes.
Open Scope Z_scope.

(** ** [CheckTxType] (tendermint/abci/types.js): an enumeration is a number *)

Module CheckTxType.

Definition NEW : number := 0.
Definition RECHECK : number := 1.
Definition UNRECOGNIZED : number := (-1).

End CheckTxType.

Definition checkTxTypeFromJSON (object : js) : result number :=
  Ok (match object with
      | Num (Int 0) => CheckTxType.NEW
      | Num (Int 1) => CheckTxType.RECHECK
      | Str s =>
          if String.eqb s "NEW" then CheckTxType.NEW
          else if String.eqb s "RECHECK" then CheckTxType.RECHECK
          else CheckTxType.UNRECOGNIZED
      | _ => CheckTxType.UNRECOGNIZED
      end).

Definition checkTxTypeToJSON (object : number) : string :=
  match object with
  | Int 0 => "NEW"
  | Int 1 => "RECHECK"
  | _ => "UNKNOWN"
  end.

(** The numbers that have a name. *)
Definition checkTxType_named (n : number) : bool :=
  bool_decide (n ∈ [CheckTxType.NEW;
                    CheckTxType.RECHECK;
                    CheckTxType.UNRECOGNIZED]).

(** What is read back of a number. *)
Definition checkTxType_known (n : number) : number :=
  if checkTxType_named n then n else CheckTxType.UNRECOGNIZED.

Lemma checkTxType_json n : checkTxTypeFromJSON (Str (checkTxTypeToJSON n)) = Ok (checkTxType_known n).
Proof. solve_enum n checkTxType_named checkTxType_known checkTxTypeToJSON. Qed.

Lemma checkTxType_member n : checkTxType_named n = true → checkTxType_known n = n.
Proof. intros H. unfold checkTxType_known. by rewrite H. Qed.

Arguments checkTxTypeFromJSON : simpl never.

#[export] Hint Rewrite checkTxType_json : named.
#[export] Hint Rewrite checkTxType_member using assumption : member.

(** ** [EvidenceType] (tendermint/abci/types.js): an enumeration is a number *)

Module EvidenceType.

Definition UNKNOWN : number := 0.
Definition DUPLICATE_VOTE : number := 1.
Definition LIGHT_CLIENT_ATTACK : number := 2.
Definition UNRECOGNIZED : number := (-1).

End EvidenceType.

Definition evidenceTypeFromJSON (object : js) : result number :=
  Ok (match object with
      | Num (Int 0) => EvidenceType.UNKNOWN
      | Num (Int 1) => EvidenceType.DUPLICATE_VOTE
      | Num (Int 2) => EvidenceType.LIGHT_CLIENT_ATTACK
      | Str s =>
          if String.eqb s "UNKNOWN" then EvidenceType.UNKNOWN
          else if String.eqb s "DUPLICATE_VOTE" then EvidenceType.DUPLICATE_VOTE
          else if String.eqb s "LIGHT_CLIENT_ATTACK" then EvidenceType.LIGHT_CLIENT_ATTACK
          else EvidenceType.UNRECOGNIZED
      | _ => EvidenceType.UNRECOGNIZED
      end).

Definition evidenceTypeToJSON (object : number) : string :=
  match object with
  | Int 0 => "UNKNOWN"
  | Int 1 => "DUPLICATE_VOTE"
  | Int 2 => "LIGHT_CLIENT_ATTACK"
  | _ => "UNKNOWN"
  end.

(** The numbers that have a name:
    [toJSON] gives an unrecognised number the name of [UNKNOWN]. *)
Definition evidenceType_named (n : number) : bool :=
  bool_decide (n ∈ [EvidenceType.UNKNOWN;
                    EvidenceType.DUPLICATE_VOTE;
                    EvidenceType.LIGHT_CLIENT_ATTACK]).

(** What is read back of a number. *)
Definition evidenceType_known (n : number) : number :=
  if evidenceType_named n then n else EvidenceType.UNKNOWN.

Lemma evidenceType_json n : evidenceTypeFromJSON (Str (evidenceTypeToJSON n)) = Ok (evidenceType_known n).
Proof. solve_enum n evidenceType_named evidenceType_known evidenceTypeToJSON. Qed.

Lemma evidenceType_member n : evidenceType_named n = true → evidenceType_known n = n.
Proof. intros H. unfold evidenceType_known. by rewrite H. Qed.

Arguments evidenceTypeFromJSON : simpl never.

#[export] Hint Rewrite evidenceType_json : named.
#[export] Hint Rewrite evidenceType_member using assumption : member.

(** ** [ResponseOfferSnapshot_Result] (tendermint/abci/types.js): an enumeration is a number *)

Module ResponseOfferSnapshot_Result.

Definition UNKNOWN : number := 0.
Definition ACCEPT : number := 1.
Definition ABORT : number := 2.
Definition REJECT : number := 3.
Definition REJECT_FORMAT : number := 4.
Definition REJECT_SENDER : number := 5.
Definition UNRECOGNIZED : number := (-1).

End ResponseOfferSnapshot_Result.

Definition responseOfferSnapshot_ResultFromJSON (object : js) : result number :=
  Ok (match object with
      | Num (Int 0) => ResponseOfferSnapshot_Result.UNKNOWN
      | Num (Int 1) => ResponseOfferSnapshot_Result.ACCEPT
      | Num (Int 2) => ResponseOfferSnapshot_Result.ABORT
      | Num (Int 3) => ResponseOfferSnapshot_Result.REJECT
      | Num (Int 4) => ResponseOfferSnapshot_Result.REJECT_FORMAT
      | Num (Int 5) => ResponseOfferSnapshot_Result.REJECT_SENDER
      | Str s =>
          if String.eqb s "UNKNOWN" then ResponseOfferSnapshot_Result.UNKNOWN
          else if String.eqb s "ACCEPT" then ResponseOfferSnapshot_Result.ACCEPT
          else if String.eqb s "ABORT" then ResponseOfferSnapshot_Result.ABORT
          else if String.eqb s "REJECT" then ResponseOfferSnapshot_Result.REJECT
          else if String.eqb s "REJECT_FORMAT" then ResponseOfferSnapshot_Result.REJECT_FORMAT
          else if String.eqb s "REJECT_SENDER" then ResponseOfferSnapshot_Result.REJECT_SENDER
          else ResponseOfferSnapshot_Result.UNRECOGNIZED
      | _ => ResponseOfferSnapshot_Result.UNRECOGNIZED
      end).

Definition responseOfferSnapshot_ResultToJSON (object : number) : string :=
  match object with
  | Int 0 => "UNKNOWN"
  | Int 1 => "ACCEPT"
  | Int 2 => "ABORT"
  | Int 3 => "REJECT"
  | Int 4 => "REJECT_FORMAT"
  | Int 5 => "REJECT_SENDER"
  | _ => "UNKNOWN"
  end.

(** The numbers that have a name:
    [toJSON] gives an unrecognised number the name of [UNKNOWN]. *)
Definition responseOfferSnapshot_Result_named (n : number) : bool :=
  bool_decide (n ∈ [ResponseOfferSnapshot_Result.UNKNOWN;
                    ResponseOfferSnapshot_Result.ACCEPT;
                    ResponseOfferSnapshot_Result.ABORT;
                    ResponseOfferSnapshot_Result.REJECT;
                    ResponseOfferSnapshot_Result.REJECT_FORMAT;
                    ResponseOfferSnapshot_Result.REJECT_SENDER]).

(** What is read back of a number. *)
Definition responseOfferSnapshot_Result_known (n : number) : number :=
  if responseOfferSnapshot_Result_named n then n else ResponseOfferSnapshot_Result.UNKNOWN.

Lemma responseOfferSnapshot_Result_json n : responseOfferSnapshot_ResultFromJSON (Str (responseOfferSnapshot_ResultToJSON n)) = Ok (responseOfferSnapshot_Result_known n).
Proof. solve_enum n responseOfferSnapshot_Result_named responseOfferSnapshot_Result_known responseOfferSnapshot_ResultToJSON. Qed.

Lemma responseOfferSnapshot_Result_member n : responseOfferSnapshot_Result_named n = true → responseOfferSnapshot_Result_known n = n.
Proof. intros H. unfold responseOfferSnapshot_Result_known. by rewrite H. Qed.

Arguments responseOfferSnapshot_ResultFromJSON : simpl never.

#[export] Hint Rewrite responseOfferSnapshot_Result_json : named.
#[export] Hint Rewrite responseOfferSnapshot_Result_member using assumption : member.

(** ** [ResponseApplySnapshotChunk_Result] (tendermint/abci/types.js): an enumeration is a number *)

Module ResponseApplySnapshotChunk_Result.

Definition UNKNOWN : number := 0.
Definition ACCEPT : number := 1.
Definition ABORT : number := 2.
Definition RETRY : number := 3.
Definition RETRY_SNAPSHOT : number := 4.
Definition REJECT_SNAPSHOT : number := 5.
Definition UNRECOGNIZED : number := (-1).

End ResponseApplySnapshotChunk_Result.

Definition responseApplySnapshotChunk_ResultFromJSON (object : js) : result number :=
  Ok (match object with
      | Num (Int 0) => ResponseApplySnapshotChunk_Result.UNKNOWN
      | Num (Int 1) => ResponseApplySnapshotChunk_Result.ACCEPT
      | Num (Int 2) => ResponseApplySnapshotChunk_Result.ABORT
      | Num (Int 3) => ResponseApplySnapshotChunk_Result.RETRY
      | Num (Int 4) => ResponseApplySnapshotChunk_Result.RETRY_SNAPSHOT
      | Num (Int 5) => ResponseApplySnapshotChunk_Result.REJECT_SNAPSHOT
      | Str s =>
          if String.eqb s "UNKNOWN" then ResponseApplySnapshotChunk_Result.UNKNOWN
          else if String.eqb s "ACCEPT" then ResponseApplySnapshotChunk_Result.ACCEPT
          else if String.eqb s "ABORT" then ResponseApplySnapshotChunk_Result.ABORT
          else if String.eqb s "RETRY" then ResponseApplySnapshotChunk_Result.RETRY
          else if String.eqb s "RETRY_SNAPSHOT" then ResponseApplySnapshotChunk_Result.RETRY_SNAPSHOT
          else if String.eqb s "REJECT_SNAPSHOT" then ResponseApplySnapshotChunk_Result.REJECT_SNAPSHOT
          else ResponseApplySnapshotChunk_Result.UNRECOGNIZED
      | _ => ResponseApplySnapshotChunk_Result.UNRECOGNIZED
      end).

Definition responseApplySnapshotChunk_ResultToJSON (object : number) : string :=
  match object with
  | Int 0 => "UNKNOWN"
  | Int 1 => "ACCEPT"
  | Int 2 => "ABORT"
  | Int 3 => "RETRY"
  | Int 4 => "RETRY_SNAPSHOT"
  | Int 5 => "REJECT_SNAPSHOT"
  | _ => "UNKNOWN"
  end.

(** The numbers that have a name:
    [toJSON] gives an unrecognised number the name of [UNKNOWN]. *)
Definition responseApplySnapshotChunk_Result_named (n : number) : bool :=
  bool_decide (n ∈ [ResponseApplySnapshotChunk_Result.UNKNOWN;
                    ResponseApplySnapshotChunk_Result.ACCEPT;
                    ResponseApplySnapshotChunk_Result.ABORT;
                    ResponseApplySnapshotChunk_Result.RETRY;
                    ResponseApplySnapshotChunk_Result.RETRY_SNAPSHOT;
                    ResponseApplySnapshotChunk_Result.REJECT_SNAPSHOT]).

(** What is read back of a number. *)
Definition responseApplySnapshotChunk_Result_known (n : number) : number :=
  if responseApplySnapshotChunk_Result_named n then n else ResponseApplySnapshotChunk_Result.UNKNOWN.

Lemma responseApplySnapshotChunk_Result_json n : responseApplySnapshotChunk_ResultFromJSON (Str (responseApplySnapshotChunk_ResultToJSON n)) = Ok (responseApplySnapshotChunk_Result_known n).
Proof. solve_enum n responseApplySnapshotChunk_Result_named responseApplySnapshotChunk_Result_known responseApplySnapshotChunk_ResultToJSON. Qed.

Lemma responseApplySnapshotChunk_Result_member n : responseApplySnapshotChunk_Result_named n = true → responseApplySnapshotChunk_Result_known n = n.
Proof. intros H. unfold responseApplySnapshotChunk_Result_known. by rewrite H. Qed.

Arguments responseApplySnapshotChunk_ResultFromJSON : simpl never.

#[export] Hint Rewrite responseApplySnapshotChunk_Result_json : named.
#[export] Hint Rewrite responseApplySnapshotChunk_Result_member using assumption : member.

(** ** [RequestEcho] (tendermint/abci/types.js) *)

Module RequestEcho.

Record t := mk {
  message_ : string;
}.

#[global] Instance t_eta : Settable t := λ m, mk m.(message_).

Definition base : t := mk "".

Definition encode {PB : Protobuf} (message : t) (writer : Writer) : Writer :=
  writer
  @> when (str_neq message.(message_) "") (fun w => w @> uint32 10 @> string_ message.(message_)).

Definition decode_field {PB : Protobuf} (tag : Z) (message : t) : RM t :=
  match field_number tag with
  | 1 => v ← read_string; mret (message <| message_ := v |>)
  | _ => _ ← skipType (wire_type tag); mret message
  end.

Definition decode {PB : Protobuf} (length : option Z) : RM t :=
  decode_message length base decode_field.

Definition fromJSON (object : js) : result t :=
  message_' ← field_or object "message" to_string "";
  Ok (mk message_').

Definition toJSON (message : t) : js :=
  Obj ([("message", Str message.(message_))]).

Record partial := mkPartial {
  p_message : option string;
}.

Definition fromPartial (object : partial) : t := {|
  message_ := object.(p_message) ?? "";
|}.

(** The object with no property given. *)
Definition nothing : partial := mkPartial None.

(** The bytes [encode] writes. *)
Definition wire {PB : Protobuf} {PS : ProtobufSpec PB} (m : t) : bytes :=
  f_string 10 m.(message_).

Definition valid (m : t) : Prop :=
  True.

Definition encodable {PB : Protobuf} {PS : ProtobufSpec PB} (m : t) : Prop :=
  valid m ∧ small (wire m).

Definition merge (m a : t) : t := {|
  message_ := later_string m.(message_) a.(message_);
|}.

(** A whole message seen as a partial one. *)
Definition full (m : t) : partial := {|
  p_message := Some m.(message_);
|}.

(** The message as its [.proto] file declares it. *)
Definition schema (m : t) : list field :=
  [implicit 1 (VString m.(message_))].

(** The message with its default for every property that is not kept. *)
Definition only (kept : string → bool) (m : t) : t := {|
  message_ := if kept "message" then m.(message_) else "";
|}.

#[global] Instance codec {PB : Protobuf} : MessageCodec t :=
  {| msg_base := base; msg_encode := encode; msg_field := decode_field |}.

#[global] Program Instance spec {PB : Protobuf} (PS : ProtobufSpec PB) : MessageSpec PS t :=
  {| msg_wire := wire; msg_valid := valid; msg_merge := merge |}.
Next Obligation. solve_encode_wire. Qed.
Next Obligation. solve_decode_wire. Qed.
Next Obligation. solve_merge_base. Qed.
Next Obligation. intros. solve_advances decode_field. Qed.

#[global] Program Instance data : MessageData t partial :=
  {| msg_fromJSON := fromJSON; msg_toJSON := toJSON;
     msg_fromPartial := fromPartial; msg_full := full |}.
Next Obligation. solve_json fromJSON toJSON. Qed.
Next Obligation. solve_partial fromPartial full. Qed.

#[global] Instance schema_wire {PB : Protobuf} {PS : ProtobufSpec PB} : WireSchema wire schema.
Proof. solve_schema_wire wire schema. Qed.

#[global] Instance schema_merge : MergeSchema merge schema.
Proof. solve_schema_merge merge schema. Qed.

(** Its row in the table of message types. *)
Definition message {PB : Protobuf} {PS : ProtobufSpec PB} : message_type :=
  plain_message "RequestEcho" nothing true schema only.

#[global] Instance message_lawful {PB : Protobuf} (PS : ProtobufSpec PB) : Lawful message.
Proof. solve_lawful decode_field fromJSON only. Qed.

End RequestEcho.

(** ** [RequestFlush] (tendermint/abci/types.js) *)

Module RequestFlush.

Record t := mk {}.

#[global] Instance t_eta : Settable t := λ m, m.

Definition base : t := mk.

Definition encode {PB : Protobuf} (message : t) (writer : Writer) : Writer :=
  writer.

Definition decode_field {PB : Protobuf} (tag : Z) (message : t) : RM t :=
  match field_number tag with
  | _ => _ ← skipType (wire_type tag); mret message
  end.

Definition decode {PB : Protobuf} (length : option Z) : RM t :=
  decode_message length base decode_field.

Definition fromJSON (object : js) : result t :=
  Ok base.

Definition toJSON (message : t) : js :=
  Obj [].

Record partial := mkPartial {}.

Definition fromPartial (object : partial) : t := base.

(** The object with no property given. *)
Definition nothing : partial := mkPartial.

(** The bytes [encode] writes. *)
Definition wire {PB : Protobuf} {PS : ProtobufSpec PB} (m : t) : bytes :=
  [].

Definition valid (m : t) : Prop :=
  True.

Definition encodable {PB : Protobuf} {PS : ProtobufSpec PB} (m : t) : Prop :=
  valid m ∧ small (wire m).

Definition merge (m a : t) : t := m.

(** A whole message seen as a partial one. *)
Definition full (m : t) : partial := mkPartial.

(** The message as its [.proto] file declares it. *)
Definition schema (m : t) : list field :=
  [].

(** The message with its default for every property that is not kept. *)
Definition only (kept : string → bool) (m : t) : t := m.

#[global] Instance codec {PB : Protobuf} : MessageCodec t :=
  {| msg_base := base; msg_encode := encode; msg_field := decode_field |}.

#[global] Program Instance spec {PB : Protobuf} (PS : ProtobufSpec PB) : MessageSpec PS t :=
  {| msg_wire := wire; msg_valid := valid; msg_merge := merge |}.
Next Obligation. solve_encode_wire. Qed.
Next Obligation. solve_decode_wire. Qed.
Next Obligation. solve_merge_base. Qed.
Next Obligation. intros. solve_advances decode_field. Qed.

#[global] Program Instance data : MessageData t partial :=
  {| msg_fromJSON := fromJSON; msg_toJSON := toJSON;
     msg_fromPartial := fromPartial; msg_full := full |}.
Next Obligation. solve_json fromJSON toJSON. Qed.
Next Obligation. solve_partial fromPartial full. Qed.

#[global] Instance schema_wire {PB : Protobuf} {PS : ProtobufSpec PB} : WireSchema wire schema.
Proof. solve_schema_wire wire schema. Qed.

#[global] Instance schema_merge : MergeSchema merge schema.
Proof. solve_schema_merge merge schema. Qed.

(** Its row in the table of message types. *)
Definition message {PB : Protobuf} {PS : ProtobufSpec PB} : message_type :=
  plain_message "RequestFlush" nothing false schema only.

#[global] Instance message_lawful {PB : Protobuf} (PS : ProtobufSpec PB) : Lawful message.
Proof. solve_lawful decode_field fromJSON only. Qed.

End RequestFlush.

(** ** [RequestInfo] (tendermint/abci/types.js) *)

Module RequestInfo.

Record t := mk {
  version : string;
  blockVersion : number;
  p2pVersion : number;
}.

#[global] Instance t_eta : Settable t := λ m, mk m.(version) m.(blockVersion) m.(p2pVersion).

Definition base : t := mk "" 0 0.

Definition encode {PB : Protobuf} (message : t) (writer : Writer) : Writer :=
  writer
  @> when (str_neq message.(version) "") (fun w => w @> uint32 10 @> string_ message.(version))
  @> when (num_neq message.(blockVersion) 0)
       (fun w => w @> uint32 16 @> uint64 message.(blockVersion))
  @> when (num_neq message.(p2pVersion) 0) (fun w => w @> uint32 24 @> uint64 message.(p2pVersion)).

Definition decode_field {PB : Protobuf} (tag : Z) (message : t) : RM t :=
  match field_number tag with
  | 1 => v ← read_string; mret (message <| version := v |>)
  | 2 => v ← read_number read_uint64; mret (message <| blockVersion := v |>)
  | 3 => v ← read_number read_uint64; mret (message <| p2pVersion := v |>)
  | _ => _ ← skipType (wire_type tag); mret message
  end.

Definition decode {PB : Protobuf} (length : option Z) : RM t :=
  decode_message length base decode_field.

Definition fromJSON (object : js) : result t :=
  version' ← field_or object "version" to_string "";
  blockVersion' ← field_or object "blockVersion" js_Number 0;
  p2pVersion' ← field_or object "p2pVersion" js_Number 0;
  Ok (mk version' blockVersion' p2pVersion').

Definition toJSON (message : t) : js :=
  Obj ([("version", Str message.(version));
    ("blockVersion", Num message.(blockVersion));
    ("p2pVersion", Num message.(p2pVersion))]).

Record partial := mkPartial {
  p_version : option string;
  p_blockVersion : option number;
  p_p2pVersion : option number;
}.

Definition fromPartial (object : partial) : t := {|
  version := object.(p_version) ?? "";
  blockVersion := object.(p_blockVersion) ?? Int 0;
  p2pVersion := object.(p_p2pVersion) ?? Int 0;
|}.

(** The object with no property given. *)
Definition nothing : partial := mkPartial None None None.

(** The bytes [encode] writes. *)
Definition wire {PB : Protobuf} {PS : ProtobufSpec PB} (m : t) : bytes :=
  f_string 10 m.(version) ++
  f_number e_uint64 16 m.(blockVersion) ++
  f_number e_uint64 24 m.(p2pVersion).

Definition valid (m : t) : Prop :=
  uint64_ok m.(blockVersion) ∧ uint64_ok m.(p2pVersion).

Definition encodable {PB : Protobuf} {PS : ProtobufSpec PB} (m : t) : Prop :=
  valid m ∧ small (wire m).

Definition merge (m a : t) : t := {|
  version := later_string m.(version) a.(version);
  blockVersion := later_number m.(blockVersion) a.(blockVersion);
  p2pVersion := later_number m.(p2pVersion) a.(p2pVersion);
|}.

(** A whole message seen as a partial one. *)
Definition full (m : t) : partial := {|
  p_version := Some m.(version);
  p_blockVersion := Some m.(blockVersion);
  p_p2pVersion := Some m.(p2pVersion);
|}.

(** The message as its [.proto] file declares it. *)
Definition schema (m : t) : list field :=
  [implicit 1 (VString m.(version));
   implicit 2 (VInt Uint64 m.(blockVersion));
   implicit 3 (VInt Uint64 m.(p2pVersion))].

(** The message with its default for every property that is not kept. *)
Definition only (kept : string → bool) (m : t) : t := {|
  version := if kept "version" then m.(version) else "";
  blockVersion := if kept "blockVersion" then m.(blockVersion) else Int 0;
  p2pVersion := if kept "p2pVersion" then m.(p2pVersion) else Int 0;
|}.

#[global] Instance codec {PB : Protobuf} : MessageCodec t :=
  {| msg_base := base; msg_encode := encode; msg_field := decode_field |}.

#[global] Program Instance spec {PB : Protobuf} (PS : ProtobufSpec PB) : MessageSpec PS t :=
  {| msg_wire := wire; msg_valid := valid; msg_merge := merge |}.
Next Obligation. solve_encode_wire. Qed.
Next Obligation. solve_decode_wire. Qed.
Next Obligation. solve_merge_base. Qed.
Next Obligation. intros. solve_advances decode_field. Qed.

#[global] Program Instance data : MessageData t partial :=
  {| msg_fromJSON := fromJSON; msg_toJSON := toJSON;
     msg_fromPartial := fromPartial; msg_full := full |}.
Next Obligation. solve_json fromJSON toJSON. Qed.
Next Obligation. solve_partial fromPartial full. Qed.

#[global] Instance schema_wire {PB : Protobuf} {PS : ProtobufSpec PB} : WireSchema wire schema.
Proof. solve_schema_wire wire schema. Qed.

#[global] Instance schema_merge : MergeSchema merge schema.
Proof. solve_schema_merge merge schema. Qed.

(** Its row in the table of message types. *)
Definition message {PB : Protobuf} {PS : ProtobufSpec PB} : message_type :=
  plain_message "RequestInfo" nothing true schema only.

#[global] Instance message_lawful {PB : Protobuf} (PS : ProtobufSpec PB) : Lawful message.
Proof. solve_lawful decode_field fromJSON only. Qed.

End RequestInfo.

(** ** [RequestSetOption] (tendermint/abci/types.js) *)

Module RequestSetOption.

Record t := mk {
  key : string;
  value : string;
}.

#[global] Instance t_eta : Settable t := λ m, mk m.(key) m.(value).

Definition base : t := mk "" "".

Definition encode {PB : Protobuf} (message : t) (writer : Writer) : Writer :=
  writer
  @> when (str_neq message.(key) "") (fun w => w @> uint32 10 @> string_ message.(key))
  @> when (str_neq message.(value) "") (fun w => w @> uint32 18 @> string_ message.(value)).

Definition decode_field {PB : Protobuf} (tag : Z) (message : t) : RM t :=
  match field_number tag with
  | 1 => v ← read_string; mret (message <| key := v |>)
  | 2 => v ← read_string; mret (message <| value := v |>)
  | _ => _ ← skipType (wire_type tag); mret message
  end.

Definition decode {PB : Protobuf} (length : option Z) : RM t :=
  decode_message length base decode_field.

Definition fromJSON (object : js) : result t :=
  key' ← field_or object "key" to_string "";
  value' ← field_or object "value" to_string "";
  Ok (mk key' value').

Definition toJSON (message : t) : js :=
  Obj ([("key", Str message.(key));
    ("value", Str message.(value))]).

Record partial := mkPartial {
  p_key : option string;
  p_value : option string;
}.

Definition fromPartial (object : partial) : t := {|
  key := object.(p_key) ?? "";
  value := object.(p_value) ?? "";
|}.

(** The object with no property given. *)
Definition nothing : partial := mkPartial None None.

(** The bytes [encode] writes. *)
Definition wire {PB : Protobuf} {PS : ProtobufSpec PB} (m : t) : bytes :=
  f_string 10 m.(key) ++
  f_string 18 m.(value).

Definition valid (m : t) : Prop :=
  True.

Definition encodable {PB : Protobuf} {PS : ProtobufSpec PB} (m : t) : Prop :=
  valid m ∧ small (wire m).

Definition merge (m a : t) : t := {|
  key := later_string m.(key) a.(key);
  value := later_string m.(value) a.(value);
|}.

(** A whole message seen as a partial one. *)
Definition full (m : t) : partial := {|
  p_key := Some m.(key);
  p_value := Some m.(value);
|}.

(** The message as its [.proto] file declares it. *)
Definition schema (m : t) : list field :=
  [implicit 1 (VString m.(key));
   implicit 2 (VString m.(value))].

(** The message with its default for every property that is not kept. *)
Definition only (kept : string → bool) (m : t) : t := {|
  key := if kept "key" then m.(key) else "";
  value := if kept "value" then m.(value) else "";
|}.

#[global] Instance codec {PB : Protobuf} : MessageCodec t :=
  {| msg_base := base; msg_encode := encode; msg_field := decode_field |}.

#[global] Program Instance spec {PB : Protobuf} (PS : ProtobufSpec PB) : MessageSpec PS t :=
  {| msg_wire := wire; msg_valid := valid; msg_merge := merge |}.
Next Obligation. solve_encode_wire. Qed.
Next Obligation. solve_decode_wire. Qed.
Next Obligation. solve_merge_base. Qed.
Next Obligation. intros. solve_advances decode_field. Qed.

#[global] Program Instance data : MessageData t partial :=
  {| msg_fromJSON := fromJSON; msg_toJSON := toJSON;
     msg_fromPartial := fromPartial; msg_full := full |}.
Next Obligation. solve_json fromJSON toJSON. Qed.
Next Obligation. solve_partial fromPartial full. Qed.

#[global] Instance schema_wire {PB : Protobuf} {PS : ProtobufSpec PB} : WireSchema wire schema.
Proof. solve_schema_wire wire schema. Qed.

#[global] Instance schema_merge : MergeSchema merge schema.
Proof. solve_schema_merge merge schema. Qed.

(** Its row in the table of message types. *)
Definition message {PB : Protobuf} {PS : ProtobufSpec PB} : message_type :=
  plain_message "RequestSetOption" nothing true schema only.

#[global] Instance message_lawful {PB : Protobuf} (PS : ProtobufSpec PB) : Lawful message.
Proof. solve_lawful decode_field fromJSON only. Qed.

End RequestSetOption.

(** ** [BlockParams] (tendermint/abci/types.js) *)

Module BlockParams.

Record t := mk {
  maxBytes : number;
  maxGas : number;
}.

#[global] Instance t_eta : Settable t := λ m, mk m.(maxBytes) m.(maxGas).

Definition base : t := mk 0 0.

Definition encode {PB : Protobuf} (message : t) (writer : Writer) : Writer :=
  writer
  @> when (num_neq message.(maxBytes) 0) (fun w => w @> uint32 8 @> int64 message.(maxBytes))
  @> when (num_neq message.(maxGas) 0) (fun w => w @> uint32 16 @> int64 message.(maxGas)).

Definition decode_field {PB : Protobuf} (tag : Z) (message : t) : RM t :=
  match field_number tag with
  | 1 => v ← read_number read_int64; mret (message <| maxBytes := v |>)
  | 2 => v ← read_number read_int64; mret (message <| maxGas := v |>)
  | _ => _ ← skipType (wire_type tag); mret message
  end.

Definition decode {PB : Protobuf} (length : option Z) : RM t :=
  decode_message length base decode_field.

Definition fromJSON (object : js) : result t :=
  maxBytes' ← field_or object "maxBytes" js_Number 0;
  maxGas' ← field_or object "maxGas" js_Number 0;
  Ok (mk maxBytes' maxGas').

Definition toJSON (message : t) : js :=
  Obj ([("maxBytes", Num message.(maxBytes));
    ("maxGas", Num message.(maxGas))]).

Record partial := mkPartial {
  p_maxBytes : option number;
  p_maxGas : option number;
}.

Definition fromPartial (object : partial) : t := {|
  maxBytes := object.(p_maxBytes) ?? Int 0;
  maxGas := object.(p_maxGas) ?? Int 0;
|}.

(** The object with no property given. *)
Definition nothing : partial := mkPartial None None.

(** The bytes [encode] writes. *)
Definition wire {PB : Protobuf} {PS : ProtobufSpec PB} (m : t) : bytes :=
  f_number e_int64 8 m.(maxBytes) ++
  f_number e_int64 16 m.(maxGas).

Definition valid (m : t) : Prop :=
  int64_ok m.(maxBytes) ∧ int64_ok m.(maxGas).

Definition encodable {PB : Protobuf} {PS : ProtobufSpec PB} (m : t) : Prop :=
  valid m ∧ small (wire m).

Definition merge (m a : t) : t := {|
  maxBytes := later_number m.(maxBytes) a.(maxBytes);
  maxGas := later_number m.(maxGas) a.(maxGas);
|}.

(** A whole message seen as a partial one. *)
Definition full (m : t) : partial := {|
  p_maxBytes := Some m.(maxBytes);
  p_maxGas := Some m.(maxGas);
|}.

(** The message as its [.proto] file declares it. *)
Definition schema (m : t) : list field :=
  [implicit 1 (VInt Int64 m.(maxBytes));
   implicit 2 (VInt Int64 m.(maxGas))].

(** The message with its default for every property that is not kept. *)
Definition only (kept : string → bool) (m : t) : t := {|
  maxBytes := if kept "maxBytes" then m.(maxBytes) else Int 0;
  maxGas := if kept "maxGas" then m.(maxGas) else Int 0;
|}.

#[global] Instance codec {PB : Protobuf} : MessageCodec t :=
  {| msg_base := base; msg_encode := encode; msg_field := decode_field |}.

#[global] Program Instance spec {PB : Protobuf} (PS : ProtobufSpec PB) : MessageSpec PS t :=
  {| msg_wire := wire; msg_valid := valid; msg_merge := merge |}.
Next Obligation. solve_encode_wire. Qed.
Next Obligation. solve_decode_wire. Qed.
Next Obligation. solve_merge_base. Qed.
Next Obligation. intros. solve_advances decode_field. Qed.

#[global] Program Instance data : MessageData t partial :=
  {| msg_fromJSON := fromJSON; msg_toJSON := toJSON;
     msg_fromPartial := fromPartial; msg_full := full |}.
Next Obligation. solve_json fromJSON toJSON. Qed.
Next Obligation. solve_partial fromPartial full. Qed.

#[global] Instance schema_wire {PB : Protobuf} {PS : ProtobufSpec PB} : WireSchema wire schema.
Proof. solve_schema_wire wire schema. Qed.

#[global] Instance schema_merge : MergeSchema merge schema.
Proof. solve_schema_merge merge schema. Qed.

(** Its row in the table of message types. *)
Definition message {PB : Protobuf} {PS : ProtobufSpec PB} : message_type :=
  plain_message "BlockParams" nothing true schema only.

#[global] Instance message_lawful {PB : Protobuf} (PS : ProtobufSpec PB) : Lawful message.
Proof. solve_lawful decode_field fromJSON only. Qed.

End BlockParams.

(** ** [ConsensusParams] (tendermint/abci/types.js) *)

Module ConsensusParams.

Record t := mk {
  block : option BlockParams.t;
  evidence : option EvidenceParams.t;
  validator : option ValidatorParams.t;
  version : option VersionParams.t;
}.

#[global] Instance t_eta : Settable t := λ m, mk m.(block) m.(evidence) m.(validator)
  m.(version).

Definition base : t := mk None None None None.

Definition encode {PB : Protobuf} (message : t) (writer : Writer) : Writer :=
  writer
  @> defined message.(block) (fun v w => w @> uint32 10 @> fork @> BlockParams.encode v @> ldelim)
  @> defined message.(evidence) (fun v w => w @> uint32 18 @> fork @> EvidenceParams.encode v @> ldelim)
  @> defined message.(validator) (fun v w => w @> uint32 26 @> fork @> ValidatorParams.encode v @> ldelim)
  @> defined message.(version) (fun v w => w @> uint32 34 @> fork @> VersionParams.encode v @> ldelim).

Definition decode_field {PB : Protobuf} (tag : Z) (message : t) : RM t :=
  match field_number tag with
  | 1 => v ← read_nested BlockParams.decode; mret (message <| block := Some v |>)
  | 2 => v ← read_nested EvidenceParams.decode; mret (message <| evidence := Some v |>)
  | 3 => v ← read_nested ValidatorParams.decode; mret (message <| validator := Some v |>)
  | 4 => v ← read_nested VersionParams.decode; mret (message <| version := Some v |>)
  | _ => _ ← skipType (wire_type tag); mret message
  end.

Definition decode {PB : Protobuf} (length : option Z) : RM t :=
  decode_message length base decode_field.

Definition fromJSON (object : js) : result t :=
  block' ← field_or object "block" (to_some BlockParams.fromJSON) None;
  evidence' ← field_or object "evidence" (to_some EvidenceParams.fromJSON) None;
  validator' ← field_or object "validator" (to_some ValidatorParams.fromJSON) None;
  version' ← field_or object "version" (to_some VersionParams.fromJSON) None;
  Ok (mk block' evidence' validator' version').

Definition toJSON (message : t) : js :=
  Obj (prop_opt "block" BlockParams.toJSON message.(block) ++
   prop_opt "evidence" EvidenceParams.toJSON message.(evidence) ++
   prop_opt "validator" ValidatorParams.toJSON message.(validator) ++
   prop_opt "version" VersionParams.toJSON message.(version)).

Record partial := mkPartial {
  p_block : option BlockParams.partial;
  p_evidence : option EvidenceParams.partial;
  p_validator : option ValidatorParams.partial;
  p_version : option VersionParams.partial;
}.

Definition fromPartial (object : partial) : t := {|
  block := BlockParams.fromPartial <$> object.(p_block);
  evidence := EvidenceParams.fromPartial <$> object.(p_evidence);
  validator := ValidatorParams.fromPartial <$> object.(p_validator);
  version := VersionParams.fromPartial <$> object.(p_version);
|}.

(** The object with no property given. *)
Definition nothing : partial := mkPartial None None None None.

(** The bytes [encode] writes. *)
Definition wire {PB : Protobuf} {PS : ProtobufSpec PB} (m : t) : bytes :=
  f_message 10 BlockParams.wire m.(block) ++
  f_message 18 EvidenceParams.wire m.(evidence) ++
  f_message 26 ValidatorParams.wire m.(validator) ++
  f_message 34 VersionParams.wire m.(version).

Definition valid (m : t) : Prop :=
  from_option BlockParams.valid True m.(block) ∧ from_option EvidenceParams.valid True m.(evidence) ∧ from_option ValidatorParams.valid True m.(validator) ∧ from_option VersionParams.valid True m.(version).

Definition encodable {PB : Protobuf} {PS : ProtobufSpec PB} (m : t) : Prop :=
  valid m ∧ small (wire m).

Definition merge (m a : t) : t := {|
  block := later_message m.(block) a.(block);
  evidence := later_message m.(evidence) a.(evidence);
  validator := later_message m.(validator) a.(validator);
  version := later_message m.(version) a.(version);
|}.

(** A whole message seen as a partial one. *)
Definition full (m : t) : partial := {|
  p_block := BlockParams.full <$> m.(block);
  p_evidence := EvidenceParams.full <$> m.(evidence);
  p_validator := ValidatorParams.full <$> m.(validator);
  p_version := VersionParams.full <$> m.(version);
|}.

(** The message as its [.proto] file declares it. *)
Definition schema (m : t) : list field :=
  [singular 1 Optional (message_value BlockParams.schema) m.(block);
   singular 2 Optional (message_value EvidenceParams.schema) m.(evidence);
   singular 3 Optional (message_value ValidatorParams.schema) m.(validator);
   singular 4 Optional (message_value VersionParams.schema) m.(version)].

(** The message with its default for every property that is not kept. *)
Definition only (kept : string → bool) (m : t) : t := {|
  block := if kept "block" then m.(block) else None;
  evidence := if kept "evidence" then m.(evidence) else None;
  validator := if kept "validator" then m.(validator) else None;
  version := if kept "version" then m.(version) else None;
|}.

#[global] Instance codec {PB : Protobuf} : MessageCodec t :=
  {| msg_base := base; msg_encode := encode; msg_field := decode_field |}.

#[global] Program Instance spec {PB : Protobuf} (PS : ProtobufSpec PB) : MessageSpec PS t :=
  {| msg_wire := wire; msg_valid := valid; msg_merge := merge |}.
Next Obligation. solve_encode_wire. Qed.
Next Obligation. solve_decode_wire. Qed.
Next Obligation. solve_merge_base. Qed.
Next Obligation. intros. solve_advances decode_field. Qed.

#[global] Program Instance data : MessageData t partial :=
  {| msg_fromJSON := fromJSON; msg_toJSON := toJSON;
     msg_fromPartial := fromPartial; msg_full := full |}.
Next Obligation. solve_json fromJSON toJSON. Qed.
Next Obligation. solve_partial fromPartial full. Qed.

#[global] Instance schema_wire {PB : Protobuf} {PS : ProtobufSpec PB} : WireSchema wire schema.
Proof. solve_schema_wire wire schema. Qed.

#[global] Instance schema_merge : MergeSchema merge schema.
Proof. solve_schema_merge merge schema. Qed.

(** Its row in the table of message types. *)
Definition message {PB : Protobuf} {PS : ProtobufSpec PB} : message_type :=
  plain_message "ConsensusParams" nothing true schema only.

#[global] Instance message_lawful {PB : Protobuf} (PS : ProtobufSpec PB) : Lawful message.
Proof. solve_lawful decode_field fromJSON only. Qed.

End ConsensusParams.

(** ** [ValidatorUpdate] (tendermint/abci/types.js) *)

Module ValidatorUpdate.

Record t := mk {
  pubKey : option PublicKey.t;
  power : number;
}.

#[global] Instance t_eta : Settable t := λ m, mk m.(pubKey) m.(power).

Definition base : t := mk None 0.

Definition encode {PB : Protobuf} (message : t) (writer : Writer) : result Writer :=
  Ok writer
  @>= defined_e message.(pubKey) (submessage 10 PublicKey.encode)
  @>= pure (when (num_neq message.(power) 0) (fun w => w @> uint32 16 @> int64 message.(power))).

Definition decode_field {PB : Protobuf} (tag : Z) (message : t) : RM t :=
  match field_number tag with
  | 1 => v ← read_nested PublicKey.decode; mret (message <| pubKey := Some v |>)
  | 2 => v ← read_number read_int64; mret (message <| power := v |>)
  | _ => _ ← skipType (wire_type tag); mret message
  end.

Definition decode {PB : Protobuf} (length : option Z) : RM t :=
  decode_message length base decode_field.

Definition fromJSON (object : js) : result t :=
  pubKey' ← field_or object "pubKey" (to_some PublicKey.fromJSON) None;
  power' ← field_or object "power" js_Number 0;
  Ok (mk pubKey' power').

Definition toJSON (message : t) : js :=
  Obj (prop_opt "pubKey" PublicKey.toJSON message.(pubKey) ++
   [("power", Num message.(power))]).

Record partial := mkPartial {
  p_pubKey : option PublicKey.partial;
  p_power : option number;
}.

Definition fromPartial (object : partial) : t := {|
  pubKey := PublicKey.fromPartial <$> object.(p_pubKey);
  power := object.(p_power) ?? Int 0;
|}.

(** The object with no property given. *)
Definition nothing : partial := mkPartial None None.

(** The bytes [encode] writes. *)
Definition wire {PB : Protobuf} {PS : ProtobufSpec PB} (m : t) : bytes :=
  f_message 10 PublicKey.wire m.(pubKey) ++
  f_number e_int64 16 m.(power).

Definition valid (m : t) : Prop :=
  from_option PublicKey.valid True m.(pubKey) ∧ int64_ok m.(power).

(** The byte fields hold arrays, as the interface declares. *)
Definition typed (m : t) : bool := from_option PublicKey.typed true m.(pubKey).

(** The message without its empty byte arrays. *)
Definition normal (m : t) : t := {|
  pubKey := PublicKey.normal <$> m.(pubKey);
  power := m.(power);
|}.

Definition encodable {PB : Protobuf} {PS : ProtobufSpec PB} (m : t) : Prop :=
  typed m = true ∧ valid m ∧ small (wire m).

Definition merge (m a : t) : t := {|
  pubKey := later_message m.(pubKey) (PublicKey.normal <$> a.(pubKey));
  power := later_number m.(power) a.(power);
|}.

(** A whole message seen as a partial one. *)
Definition full (m : t) : partial := {|
  p_pubKey := PublicKey.full <$> m.(pubKey);
  p_power := Some m.(power);
|}.

(** The message as its [.proto] file declares it. *)
Definition schema (m : t) : list field :=
  [singular 1 Optional (message_value PublicKey.schema) m.(pubKey);
   implicit 2 (VInt Int64 m.(power))].

(** The message with its default for every property that is not kept. *)
Definition only (kept : string → bool) (m : t) : t := {|
  pubKey := if kept "pubKey" then m.(pubKey) else None;
  power := if kept "power" then m.(power) else Int 0;
|}.

#[global] Instance codec {PB : Protobuf} : FallibleCodec t :=
  {| fmsg_base := base; fmsg_encode := encode; fmsg_field := decode_field |}.

#[global] Program Instance spec {PB : Protobuf} (PS : ProtobufSpec PB) : FallibleSpec PS t :=
  {| fmsg_wire := wire; fmsg_valid := valid; fmsg_typed := typed; fmsg_normal := normal;
     fmsg_merge := merge |}.
Next Obligation. solve_fencode_wire. Qed.
Next Obligation. intros. solve_fencode_throws encode typed. Qed.
Next Obligation. solve_fdecode_wire. Qed.
Next Obligation. solve_fmerge_base. Qed.
Next Obligation. intros. solve_fadvances decode_field. Qed.

#[global] Program Instance given_ : FalliblePartial t partial :=
  {| fmsg_fromPartial := fromPartial; fmsg_full := full; fmsg_given := typed |}.
Next Obligation. solve_fgiven fromPartial typed. Qed.
Next Obligation. solve_fpartial fromPartial full typed. Qed.

#[global] Program Instance json : FallibleJson t :=
  {| fmsg_fromJSON := fromJSON; fmsg_toJSON := toJSON;
     fmsg_named := fun _ => true; fmsg_known := fun m => m |}.
Next Obligation. solve_fjson fromJSON toJSON. Qed.
Next Obligation. reflexivity. Qed.

#[global] Instance schema_wire {PB : Protobuf} {PS : ProtobufSpec PB} : WireSchema wire schema.
Proof. solve_schema_wire wire schema. Qed.

#[global] Instance schema_normal : NormalSchema normal schema.
Proof. solve_schema_normal normal schema. Qed.

#[global] Instance schema_merge : MergeSchema merge schema.
Proof. solve_schema_merge merge schema. Qed.

(** Its row in the table of message types. *)
Definition message {PB : Protobuf} {PS : ProtobufSpec PB} : message_type :=
  fallible_message "ValidatorUpdate" nothing true schema only.

#[global] Instance message_lawful {PB : Protobuf} (PS : ProtobufSpec PB) : Lawful message.
Proof. solve_lawful decode_field fromJSON only. Qed.

End ValidatorUpdate.

(** ** [RequestInitChain] (tendermint/abci/types.js) *)

Module RequestInitChain.

Record t := mk {
  time : option date;
  chainId : string;
  consensusParams : option ConsensusParams.t;
  validators : list ValidatorUpdate.t;
  appStateBytes : option bytes;
  initialHeight : number;
}.

#[global] Instance t_eta : Settable t := λ m, mk m.(time) m.(chainId) m.(consensusParams)
  m.(validators) m.(appStateBytes) m.(initialHeight).

Definition base : t := mk None "" None [] None 0.

Definition encode {PB : Protobuf} (message : t) (writer : Writer) : result Writer :=
  Ok writer
  @>= pure (defined message.(time) (fun v w => w @> uint32 10 @> fork @> encode_time v @> ldelim))
  @>= pure (when (str_neq message.(chainId) "")
       (fun w => w @> uint32 18 @> string_ message.(chainId)))
  @>= pure (defined message.(consensusParams) (fun v w => w @> uint32 26 @> fork @> ConsensusParams.encode v @> ldelim))
  @>= each_e message.(validators) (submessage 34 ValidatorUpdate.encode)
  @>= bytes_field 42 message.(appStateBytes)
  @>= pure (when (num_neq message.(initialHeight) 0)
       (fun w => w @> uint32 48 @> int64 message.(initialHeight))).

Definition decode_field {PB : Protobuf} (tag : Z) (message : t) : RM t :=
  match field_number tag with
  | 1 => v ← read_time; mret (message <| time := Some v |>)
  | 2 => v ← read_string; mret (message <| chainId := v |>)
  | 3 => v ← read_nested ConsensusParams.decode; mret (message <| consensusParams := Some v |>)
  | 4 => v ← read_nested ValidatorUpdate.decode;
         mret (message <| validators := message.(validators) ++ [v] |>)
  | 5 => v ← read_bytes; mret (message <| appStateBytes := Some v |>)
  | 6 => v ← read_number read_int64; mret (message <| initialHeight := v |>)
  | _ => _ ← skipType (wire_type tag); mret message
  end.

Definition decode {PB : Protobuf} (length : option Z) : RM t :=
  decode_message length base decode_field.

Definition fromJSON (object : js) : result t :=
  time' ← field_or object "time" (to_some fromJsonTimestamp) None;
  chainId' ← field_or object "chainId" to_string "";
  consensusParams' ← field_or object "consensusParams" (to_some ConsensusParams.fromJSON) None;
  validators' ← field_or object "validators" (to_list ValidatorUpdate.fromJSON) [];
  appStateBytes' ← field_or object "appStateBytes" (to_some bytesFromBase64) None;
  initialHeight' ← field_or object "initialHeight" js_Number 0;
  Ok (mk time' chainId' consensusParams' validators' appStateBytes' initialHeight').

Definition toJSON (message : t) : result js :=
  time' ← option_result toISOString message.(time);
  Ok (Obj (prop_opt "time" Str time' ++
   [("chainId", Str message.(chainId))] ++
   prop_opt "consensusParams" ConsensusParams.toJSON message.(consensusParams) ++
   [("validators", Arr (map ValidatorUpdate.toJSON message.(validators)))] ++
   prop_opt "appStateBytes" (fun b => Str (base64FromBytes b)) message.(appStateBytes) ++
   [("initialHeight", Num message.(initialHeight))])).

Record partial := mkPartial {
  p_time : option date;
  p_chainId : option string;
  p_consensusParams : option ConsensusParams.partial;
  p_validators : option (list ValidatorUpdate.partial);
  p_appStateBytes : option bytes;
  p_initialHeight : option number;
}.

Definition fromPartial (object : partial) : t := {|
  time := object.(p_time);
  chainId := object.(p_chainId) ?? "";
  consensusParams := ConsensusParams.fromPartial <$> object.(p_consensusParams);
  validators := map ValidatorUpdate.fromPartial (object.(p_validators) ?? []);
  appStateBytes := Some (object.(p_appStateBytes) ?? []);
  initialHeight := object.(p_initialHeight) ?? Int 0;
|}.

(** The object with no property given. *)
Definition nothing : partial := mkPartial None None None None None None.

(** The bytes [encode] writes. *)
Definition wire {PB : Protobuf} {PS : ProtobufSpec PB} (m : t) : bytes :=
  f_message 10 wire_time m.(time) ++
  f_string 18 m.(chainId) ++
  f_message 26 ConsensusParams.wire m.(consensusParams) ++
  f_repeated 34 ValidatorUpdate.wire m.(validators) ++
  f_bytes 42 m.(appStateBytes) ++
  f_number e_int64 48 m.(initialHeight).

Definition valid (m : t) : Prop :=
  from_option date_ok True m.(time) ∧ from_option ConsensusParams.valid True m.(consensusParams) ∧ Forall ValidatorUpdate.valid m.(validators) ∧ int64_ok m.(initialHeight).

(** The byte fields hold arrays, as the interface declares. *)
Definition typed (m : t) : bool := forallb ValidatorUpdate.typed m.(validators) && given m.(appStateBytes).

(** The message without its empty byte arrays. *)
Definition normal (m : t) : t := {|
  time := m.(time);
  chainId := m.(chainId);
  consensusParams := m.(consensusParams);
  validators := map ValidatorUpdate.normal m.(validators);
  appStateBytes := nonempty m.(appStateBytes);
  initialHeight := m.(initialHeight);
|}.

(** The dates are valid. *)
Definition timed (m : t) : bool := from_option date_valid true m.(time).

Definition encodable {PB : Protobuf} {PS : ProtobufSpec PB} (m : t) : Prop :=
  typed m = true ∧ valid m ∧ small (wire m).

Definition merge (m a : t) : t := {|
  time := later_message m.(time) a.(time);
  chainId := later_string m.(chainId) a.(chainId);
  consensusParams := later_message m.(consensusParams) a.(consensusParams);
  validators := m.(validators) ++ map ValidatorUpdate.normal a.(validators);
  appStateBytes := later_bytes m.(appStateBytes) a.(appStateBytes);
  initialHeight := later_number m.(initialHeight) a.(initialHeight);
|}.

(** A whole message seen as a partial one. *)
Definition full (m : t) : partial := {|
  p_time := m.(time);
  p_chainId := Some m.(chainId);
  p_consensusParams := ConsensusParams.full <$> m.(consensusParams);
  p_validators := Some (map ValidatorUpdate.full m.(validators));
  p_appStateBytes := m.(appStateBytes);
  p_initialHeight := Some m.(initialHeight);
|}.

(** The message as its [.proto] file declares it. *)
Definition schema (m : t) : list field :=
  [singular 1 Stamp timestamp_value m.(time);
   implicit 2 (VString m.(chainId));
   singular 3 Optional (message_value ConsensusParams.schema) m.(consensusParams);
   repeated 4 (message_value ValidatorUpdate.schema) m.(validators);
   implicit 5 (byte_array m.(appStateBytes));
   implicit 6 (VInt Int64 m.(initialHeight))].

(** The message with its default for every property that is not kept. *)
Definition only (kept : string → bool) (m : t) : t := {|
  time := if kept "time" then m.(time) else None;
  chainId := if kept "chainId" then m.(chainId) else "";
  consensusParams := if kept "consensusParams" then m.(consensusParams) else None;
  validators := if kept "validators" then m.(validators) else [];
  appStateBytes := if kept "appStateBytes" then m.(appStateBytes) else None;
  initialHeight := if kept "initialHeight" then m.(initialHeight) else Int 0;
|}.

#[global] Instance codec {PB : Protobuf} : FallibleCodec t :=
  {| fmsg_base := base; fmsg_encode := encode; fmsg_field := decode_field |}.

#[global] Program Instance spec {PB : Protobuf} (PS : ProtobufSpec PB) : FallibleSpec PS t :=
  {| fmsg_wire := wire; fmsg_valid := valid; fmsg_typed := typed; fmsg_normal := normal;
     fmsg_merge := merge |}.
Next Obligation. solve_fencode_wire. Qed.
Next Obligation. intros. solve_fencode_throws encode typed. Qed.
Next Obligation. solve_fdecode_wire. Qed.
Next Obligation. solve_fmerge_base. Qed.
Next Obligation. intros. solve_fadvances decode_field. Qed.

#[global] Program Instance given_ : FalliblePartial t partial :=
  {| fmsg_fromPartial := fromPartial; fmsg_full := full; fmsg_given := typed |}.
Next Obligation. solve_fgiven fromPartial typed. Qed.
Next Obligation. solve_fpartial fromPartial full typed. Qed.

#[global] Program Instance json : DatedJson t :=
  {| dmsg_fromJSON := fromJSON; dmsg_toJSON := toJSON; dmsg_timed := timed;
     dmsg_named := fun _ => true; dmsg_known := fun m => m |}.
Next Obligation. solve_djson fromJSON toJSON timed. Qed.
Next Obligation. solve_dthrows toJSON timed. Qed.
Next Obligation. reflexivity. Qed.

#[global] Instance schema_wire {PB : Protobuf} {PS : ProtobufSpec PB} : WireSchema wire schema.
Proof. solve_schema_wire wire schema. Qed.

#[global] Instance schema_normal : NormalSchema normal schema.
Proof. solve_schema_normal normal schema. Qed.

#[global] Instance schema_merge : MergeSchema merge schema.
Proof. solve_schema_merge merge schema. Qed.

(** Its row in the table of message types. *)
Definition message {PB : Protobuf} {PS : ProtobufSpec PB} : message_type :=
  dated_message "RequestInitChain" nothing true schema only.

#[global] Instance message_lawful {PB : Protobuf} (PS : ProtobufSpec PB) : Lawful message.
Proof. solve_lawful decode_field fromJSON only. Qed.

End RequestInitChain.

(** ** [RequestQuery] (tendermint/abci/types.js) *)

Module RequestQuery.

Record t := mk {
  data_ : option bytes;
  path : string;
  height : number;
  prove : bool;
}.

#[global] Instance t_eta : Settable t := λ m, mk m.(data_) m.(path) m.(height) m.(prove).

Definition base : t := mk None "" 0 false.

Definition encode {PB : Protobuf} (message : t) (writer : Writer) : result Writer :=
  Ok writer
  @>= bytes_field 10 message.(data_)
  @>= pure (when (str_neq message.(path) "") (fun w => w @> uint32 18 @> string_ message.(path)))
  @>= pure (when (num_neq message.(height) 0) (fun w => w @> uint32 24 @> int64 message.(height)))
  @>= pure (when (Bool.eqb message.(prove) true) (fun w => w @> uint32 32 @> bool_ message.(prove))).

Definition decode_field {PB : Protobuf} (tag : Z) (message : t) : RM t :=
  match field_number tag with
  | 1 => v ← read_bytes; mret (message <| data_ := Some v |>)
  | 2 => v ← read_string; mret (message <| path := v |>)
  | 3 => v ← read_number read_int64; mret (message <| height := v |>)
  | 4 => v ← read_bool; mret (message <| prove := v |>)
  | _ => _ ← skipType (wire_type tag); mret message
  end.

Definition decode {PB : Protobuf} (length : option Z) : RM t :=
  decode_message length base decode_field.

Definition fromJSON (object : js) : result t :=
  data_' ← field_or object "data" (to_some bytesFromBase64) None;
  path' ← field_or object "path" to_string "";
  height' ← field_or object "height" js_Number 0;
  prove' ← field_or object "prove" to_bool false;
  Ok (mk data_' path' height' prove').

Definition toJSON (message : t) : js :=
  Obj (prop_opt "data" (fun b => Str (base64FromBytes b)) message.(data_) ++
   [("path", Str message.(path));
    ("height", Num message.(height));
    ("prove", Bool message.(prove))]).

Record partial := mkPartial {
  p_data : option bytes;
  p_path : option string;
  p_height : option number;
  p_prove : option bool;
}.

Definition fromPartial (object : partial) : t := {|
  data_ := Some (object.(p_data) ?? []);
  path := object.(p_path) ?? "";
  height := object.(p_height) ?? Int 0;
  prove := object.(p_prove) ?? false;
|}.

(** The object with no property given. *)
Definition nothing : partial := mkPartial None None None None.

(** The bytes [encode] writes. *)
Definition wire {PB : Protobuf} {PS : ProtobufSpec PB} (m : t) : bytes :=
  f_bytes 10 m.(data_) ++
  f_string 18 m.(path) ++
  f_number e_int64 24 m.(height) ++
  f_bool 32 m.(prove).

Definition valid (m : t) : Prop :=
  int64_ok m.(height).

(** The byte fields hold arrays, as the interface declares. *)
Definition typed (m : t) : bool := given m.(data_).

(** The message without its empty byte arrays. *)
Definition normal (m : t) : t := {|
  data_ := nonempty m.(data_);
  path := m.(path);
  height := m.(height);
  prove := m.(prove);
|}.

Definition encodable {PB : Protobuf} {PS : ProtobufSpec PB} (m : t) : Prop :=
  typed m = true ∧ valid m ∧ small (wire m).

Definition merge (m a : t) : t := {|
  data_ := later_bytes m.(data_) a.(data_);
  path := later_string m.(path) a.(path);
  height := later_number m.(height) a.(height);
  prove := later_bool m.(prove) a.(prove);
|}.

(** A whole message seen as a partial one. *)
Definition full (m : t) : partial := {|
  p_data := m.(data_);
  p_path := Some m.(path);
  p_height := Some m.(height);
  p_prove := Some m.(prove);
|}.

(** The message as its [.proto] file declares it. *)
Definition schema (m : t) : list field :=
  [implicit 1 (byte_array m.(data_));
   implicit 2 (VString m.(path));
   implicit 3 (VInt Int64 m.(height));
   implicit 4 (VBool m.(prove))].

(** The message with its default for every property that is not kept. *)
Definition only (kept : string → bool) (m : t) : t := {|
  data_ := if kept "data" then m.(data_) else None;
  path := if kept "path" then m.(path) else "";
  height := if kept "height" then m.(height) else Int 0;
  prove := if kept "prove" then m.(prove) else false;
|}.

#[global] Instance codec {PB : Protobuf} : FallibleCodec t :=
  {| fmsg_base := base; fmsg_encode := encode; fmsg_field := decode_field |}.

#[global] Program Instance spec {PB : Protobuf} (PS : ProtobufSpec PB) : FallibleSpec PS t :=
  {| fmsg_wire := wire; fmsg_valid := valid; fmsg_typed := typed; fmsg_normal := normal;
     fmsg_merge := merge |}.
Next Obligation. solve_fencode_wire. Qed.
Next Obligation. intros. solve_fencode_throws encode typed. Qed.
Next Obligation. solve_fdecode_wire. Qed.
Next Obligation. solve_fmerge_base. Qed.
Next Obligation. intros. solve_fadvances decode_field. Qed.

#[global] Program Instance given_ : FalliblePartial t partial :=
  {| fmsg_fromPartial := fromPartial; fmsg_full := full; fmsg_given := typed |}.
Next Obligation. solve_fgiven fromPartial typed. Qed.
Next Obligation. solve_fpartial fromPartial full typed. Qed.

#[global] Program Instance json : FallibleJson t :=
  {| fmsg_fromJSON := fromJSON; fmsg_toJSON := toJSON;
     fmsg_named := fun _ => true; fmsg_known := fun m => m |}.
Next Obligation. solve_fjson fromJSON toJSON. Qed.
Next Obligation. reflexivity. Qed.

#[global] Instance schema_wire {PB : Protobuf} {PS : ProtobufSpec PB} : WireSchema wire schema.
Proof. solve_schema_wire wire schema. Qed.

#[global] Instance schema_normal : NormalSchema normal schema.
Proof. solve_schema_normal normal schema. Qed.

#[global] Instance schema_merge : MergeSchema merge schema.
Proof. solve_schema_merge merge schema. Qed.

(** Its row in the table of message types. *)
Definition message {PB : Protobuf} {PS : ProtobufSpec PB} : message_type :=
  fallible_message "RequestQuery" nothing true schema only.

#[global] Instance message_lawful {PB : Protobuf} (PS : ProtobufSpec PB) : Lawful message.
Proof. solve_lawful decode_field fromJSON only. Qed.

End RequestQuery.

(** ** [Validator] (tendermint/abci/types.js) *)

Module Validator.

Record t := mk {
  address : option bytes;
  power : number;
}.

#[global] Instance t_eta : Settable t := λ m, mk m.(address) m.(power).

Definition base : t := mk None 0.

Definition encode {PB : Protobuf} (message : t) (writer : Writer) : result Writer :=
  Ok writer
  @>= bytes_field 10 message.(address)
  @>= pure (when (num_neq message.(power) 0) (fun w => w @> uint32 24 @> int64 message.(power))).

Definition decode_field {PB : Protobuf} (tag : Z) (message : t) : RM t :=
  match field_number tag with
  | 1 => v ← read_bytes; mret (message <| address := Some v |>)
  | 3 => v ← read_number read_int64; mret (message <| power := v |>)
  | _ => _ ← skipType (wire_type tag); mret message
  end.

Definition decode {PB : Protobuf} (length : option Z) : RM t :=
  decode_message length base decode_field.

Definition fromJSON (object : js) : result t :=
  address' ← field_or object "address" (to_some bytesFromBase64) None;
  power' ← field_or object "power" js_Number 0;
  Ok (mk address' power').

Definition toJSON (message : t) : js :=
  Obj (prop_opt "address" (fun b => Str (base64FromBytes b)) message.(address) ++
   [("power", Num message.(power))]).

Record partial := mkPartial {
  p_address : option bytes;
  p_power : option number;
}.

Definition fromPartial (object : partial) : t := {|
  address := Some (object.(p_address) ?? []);
  power := object.(p_power) ?? Int 0;
|}.

(** The object with no property given. *)
Definition nothing : partial := mkPartial None None.

(** The bytes [encode] writes. *)
Definition wire {PB : Protobuf} {PS : ProtobufSpec PB} (m : t) : bytes :=
  f_bytes 10 m.(address) ++
  f_number e_int64 24 m.(power).

Definition valid (m : t) : Prop :=
  int64_ok m.(power).

(** The byte fields hold arrays, as the interface declares. *)
Definition typed (m : t) : bool := given m.(address).

(** The message without its empty byte arrays. *)
Definition normal (m : t) : t := {|
  address := nonempty m.(address);
  power := m.(power);
|}.

Definition encodable {PB : Protobuf} {PS : ProtobufSpec PB} (m : t) : Prop :=
  typed m = true ∧ valid m ∧ small (wire m).

Definition merge (m a : t) : t := {|
  address := later_bytes m.(address) a.(address);
  power := later_number m.(power) a.(power);
|}.

(** A whole message seen as a partial one. *)
Definition full (m : t) : partial := {|
  p_address := m.(address);
  p_power := Some m.(power);
|}.

(** The message as its [.proto] file declares it. *)
Definition schema (m : t) : list field :=
  [implicit 1 (byte_array m.(address));
   implicit 3 (VInt Int64 m.(power))].

(** The message with its default for every property that is not kept. *)
Definition only (kept : string → bool) (m : t) : t := {|
  address := if kept "address" then m.(address) else None;
  power := if kept "power" then m.(power) else Int 0;
|}.

#[global] Instance codec {PB : Protobuf} : FallibleCodec t :=
  {| fmsg_base := base; fmsg_encode := encode; fmsg_field := decode_field |}.

#[global] Program Instance spec {PB : Protobuf} (PS : ProtobufSpec PB) : FallibleSpec PS t :=
  {| fmsg_wire := wire; fmsg_valid := valid; fmsg_typed := typed; fmsg_normal := normal;
     fmsg_merge := merge |}.
Next Obligation. solve_fencode_wire. Qed.
Next Obligation. intros. solve_fencode_throws encode typed. Qed.
Next Obligation. solve_fdecode_wire. Qed.
Next Obligation. solve_fmerge_base. Qed.
Next Obligation. intros. solve_fadvances decode_field. Qed.

#[global] Program Instance given_ : FalliblePartial t partial :=
  {| fmsg_fromPartial := fromPartial; fmsg_full := full; fmsg_given := typed |}.
Next Obligation. solve_fgiven fromPartial typed. Qed.
Next Obligation. solve_fpartial fromPartial full typed. Qed.

#[global] Program Instance json : FallibleJson t :=
  {| fmsg_fromJSON := fromJSON; fmsg_toJSON := toJSON;
     fmsg_named := fun _ => true; fmsg_known := fun m => m |}.
Next Obligation. solve_fjson fromJSON toJSON. Qed.
Next Obligation. reflexivity. Qed.

#[global] Instance schema_wire {PB : Protobuf} {PS : ProtobufSpec PB} : WireSchema wire schema.
Proof. solve_schema_wire wire schema. Qed.

#[global] Instance schema_normal : NormalSchema normal schema.
Proof. solve_schema_normal normal schema. Qed.

#[global] Instance schema_merge : MergeSchema merge schema.
Proof. solve_schema_merge merge schema. Qed.

(** Its row in the table of message types. *)
Definition message {PB : Protobuf} {PS : ProtobufSpec PB} : message_type :=
  fallible_message "Validator" nothing true schema only.

#[global] Instance message_lawful {PB : Protobuf} (PS : ProtobufSpec PB) : Lawful message.
Proof. solve_lawful decode_field fromJSON only. Qed.

End Validator.

(** ** [VoteInfo] (tendermint/abci/types.js) *)

Module VoteInfo.

Record t := mk {
  validator : option Validator.t;
  signedLastBlock : bool;
}.

#[global] Instance t_eta : Settable t := λ m, mk m.(validator) m.(signedLastBlock).

Definition base : t := mk None false.

Definition encode {PB : Protobuf} (message : t) (writer : Writer) : result Writer :=
  Ok writer
  @>= defined_e message.(validator) (submessage 10 Validator.encode)
  @>= pure (when (Bool.eqb message.(signedLastBlock) true)
       (fun w => w @> uint32 16 @> bool_ message.(signedLastBlock))).

Definition decode_field {PB : Protobuf} (tag : Z) (message : t) : RM t :=
  match field_number tag with
  | 1 => v ← read_nested Validator.decode; mret (message <| validator := Some v |>)
  | 2 => v ← read_bool; mret (message <| signedLastBlock := v |>)
  | _ => _ ← skipType (wire_type tag); mret message
  end.

Definition decode {PB : Protobuf} (length : option Z) : RM t :=
  decode_message length base decode_field.

Definition fromJSON (object : js) : result t :=
  validator' ← field_or object "validator" (to_some Validator.fromJSON) None;
  signedLastBlock' ← field_or object "signedLastBlock" to_bool false;
  Ok (mk validator' signedLastBlock').

Definition toJSON (message : t) : js :=
  Obj (prop_opt "validator" Validator.toJSON message.(validator) ++
   [("signedLastBlock", Bool message.(signedLastBlock))]).

Record partial := mkPartial {
  p_validator : option Validator.partial;
  p_signedLastBlock : option bool;
}.

Definition fromPartial (object : partial) : t := {|
  validator := Validator.fromPartial <$> object.(p_validator);
  signedLastBlock := object.(p_signedLastBlock) ?? false;
|}.

(** The object with no property given. *)
Definition nothing : partial := mkPartial None None.

(** The bytes [encode] writes. *)
Definition wire {PB : Protobuf} {PS : ProtobufSpec PB} (m : t) : bytes :=
  f_message 10 Validator.wire m.(validator) ++
  f_bool 16 m.(signedLastBlock).

Definition valid (m : t) : Prop :=
  from_option Validator.valid True m.(validator).

(** The byte fields hold arrays, as the interface declares. *)
Definition typed (m : t) : bool := from_option Validator.typed true m.(validator).

(** The message without its empty byte arrays. *)
Definition normal (m : t) : t := {|
  validator := Validator.normal <$> m.(validator);
  signedLastBlock := m.(signedLastBlock);
|}.

Definition encodable {PB : Protobuf} {PS : ProtobufSpec PB} (m : t) : Prop :=
  typed m = true ∧ valid m ∧ small (wire m).

Definition merge (m a : t) : t := {|
  validator := later_message m.(validator) (Validator.normal <$> a.(validator));
  signedLastBlock := later_bool m.(signedLastBlock) a.(signedLastBlock);
|}.

(** A whole message seen as a partial one. *)
Definition full (m : t) : partial := {|
  p_validator := Validator.full <$> m.(validator);
  p_signedLastBlock := Some m.(signedLastBlock);
|}.

(** The message as its [.proto] file declares it. *)
Definition schema (m : t) : list field :=
  [singular 1 Optional (message_value Validator.schema) m.(validator);
   implicit 2 (VBool m.(signedLastBlock))].

(** The message with its default for every property that is not kept. *)
Definition only (kept : string → bool) (m : t) : t := {|
  validator := if kept "validator" then m.(validator) else None;
  signedLastBlock := if kept "signedLastBlock" then m.(signedLastBlock) else false;
|}.

#[global] Instance codec {PB : Protobuf} : FallibleCodec t :=
  {| fmsg_base := base; fmsg_encode := encode; fmsg_field := decode_field |}.

#[global] Program Instance spec {PB : Protobuf} (PS : ProtobufSpec PB) : FallibleSpec PS t :=
  {| fmsg_wire := wire; fmsg_valid := valid; fmsg_typed := typed; fmsg_normal := normal;
     fmsg_merge := merge |}.
Next Obligation. solve_fencode_wire. Qed.
Next Obligation. intros. solve_fencode_throws encode typed. Qed.
Next Obligation. solve_fdecode_wire. Qed.
Next Obligation. solve_fmerge_base. Qed.
Next Obligation. intros. solve_fadvances decode_field. Qed.

#[global] Program Instance given_ : FalliblePartial t partial :=
  {| fmsg_fromPartial := fromPartial; fmsg_full := full; fmsg_given := typed |}.
Next Obligation. solve_fgiven fromPartial typed. Qed.
Next Obligation. solve_fpartial fromPartial full typed. Qed.

#[global] Program Instance json : FallibleJson t :=
  {| fmsg_fromJSON := fromJSON; fmsg_toJSON := toJSON;
     fmsg_named := fun _ => true; fmsg_known := fun m => m |}.
Next Obligation. solve_fjson fromJSON toJSON. Qed.
Next Obligation. reflexivity. Qed.

#[global] Instance schema_wire {PB : Protobuf} {PS : ProtobufSpec PB} : WireSchema wire schema.
Proof. solve_schema_wire wire schema. Qed.

#[global] Instance schema_normal : NormalSchema normal schema.
Proof. solve_schema_normal normal schema. Qed.

#[global] Instance schema_merge : MergeSchema merge schema.
Proof. solve_schema_merge merge schema. Qed.

(** Its row in the table of message types. *)
Definition message {PB : Protobuf} {PS : ProtobufSpec PB} : message_type :=
  fallible_message "VoteInfo" nothing true schema only.

#[global] Instance message_lawful {PB : Protobuf} (PS : ProtobufSpec PB) : Lawful message.
Proof. solve_lawful decode_field fromJSON only. Qed.

End VoteInfo.

(** ** [LastCommitInfo] (tendermint/abci/types.js) *)

Module LastCommitInfo.

Record t := mk {
  round : number;
  votes : list VoteInfo.t;
}.

#[global] Instance t_eta : Settable t := λ m, mk m.(round) m.(votes).

Definition base : t := mk 0 [].

Definition encode {PB : Protobuf} (message : t) (writer : Writer) : result Writer :=
  Ok writer
  @>= pure (when (num_neq message.(round) 0) (fun w => w @> uint32 8 @> int32 message.(round)))
  @>= each_e message.(votes) (submessage 18 VoteInfo.encode).

Definition decode_field {PB : Protobuf} (tag : Z) (message : t) : RM t :=
  match field_number tag with
  | 1 => v ← read_int32; mret (message <| round := Int v |>)
  | 2 => v ← read_nested VoteInfo.decode; mret (message <| votes := message.(votes) ++ [v] |>)
  | _ => _ ← skipType (wire_type tag); mret message
  end.

Definition decode {PB : Protobuf} (length : option Z) : RM t :=
  decode_message length base decode_field.

Definition fromJSON (object : js) : result t :=
  round' ← field_or object "round" js_Number 0;
  votes' ← field_or object "votes" (to_list VoteInfo.fromJSON) [];
  Ok (mk round' votes').

Definition toJSON (message : t) : js :=
  Obj ([("round", Num message.(round));
    ("votes", Arr (map VoteInfo.toJSON message.(votes)))]).

Record partial := mkPartial {
  p_round : option number;
  p_votes : option (list VoteInfo.partial);
}.

Definition fromPartial (object : partial) : t := {|
  round := object.(p_round) ?? Int 0;
  votes := map VoteInfo.fromPartial (object.(p_votes) ?? []);
|}.

(** The object with no property given. *)
Definition nothing : partial := mkPartial None None.

(** The bytes [encode] writes. *)
Definition wire {PB : Protobuf} {PS : ProtobufSpec PB} (m : t) : bytes :=
  f_number e_int32 8 m.(round) ++
  f_repeated 18 VoteInfo.wire m.(votes).

Definition valid (m : t) : Prop :=
  int32_ok m.(round) ∧ Forall VoteInfo.valid m.(votes).

(** The byte fields hold arrays, as the interface declares. *)
Definition typed (m : t) : bool := forallb VoteInfo.typed m.(votes).

(** The message without its empty byte arrays. *)
Definition normal (m : t) : t := {|
  round := m.(round);
  votes := map VoteInfo.normal m.(votes);
|}.

Definition encodable {PB : Protobuf} {PS : ProtobufSpec PB} (m : t) : Prop :=
  typed m = true ∧ valid m ∧ small (wire m).

Definition merge (m a : t) : t := {|
  round := later_number m.(round) a.(round);
  votes := m.(votes) ++ map VoteInfo.normal a.(votes);
|}.

(** A whole message seen as a partial one. *)
Definition full (m : t) : partial := {|
  p_round := Some m.(round);
  p_votes := Some (map VoteInfo.full m.(votes));
|}.

(** The message as its [.proto] file declares it. *)
Definition schema (m : t) : list field :=
  [implicit 1 (VInt Int32 m.(round));
   repeated 2 (message_value VoteInfo.schema) m.(votes)].

(** The message with its default for every property that is not kept. *)
Definition only (kept : string → bool) (m : t) : t := {|
  round := if kept "round" then m.(round) else Int 0;
  votes := if kept "votes" then m.(votes) else [];
|}.

#[global] Instance codec {PB : Protobuf} : FallibleCodec t :=
  {| fmsg_base := base; fmsg_encode := encode; fmsg_field := decode_field |}.

#[global] Program Instance spec {PB : Protobuf} (PS : ProtobufSpec PB) : FallibleSpec PS t :=
  {| fmsg_wire := wire; fmsg_valid := valid; fmsg_typed := typed; fmsg_normal := normal;
     fmsg_merge := merge |}.
Next Obligation. solve_fencode_wire. Qed.
Next Obligation. intros. solve_fencode_throws encode typed. Qed.
Next Obligation. solve_fdecode_wire. Qed.
Next Obligation. solve_fmerge_base. Qed.
Next Obligation. intros. solve_fadvances decode_field. Qed.

#[global] Program Instance given_ : FalliblePartial t partial :=
  {| fmsg_fromPartial := fromPartial; fmsg_full := full; fmsg_given := typed |}.
Next Obligation. solve_fgiven fromPartial typed. Qed.
Next Obligation. solve_fpartial fromPartial full typed. Qed.

#[global] Program Instance json : FallibleJson t :=
  {| fmsg_fromJSON := fromJSON; fmsg_toJSON := toJSON;
     fmsg_named := fun _ => true; fmsg_known := fun m => m |}.
Next Obligation. solve_fjson fromJSON toJSON. Qed.
Next Obligation. reflexivity. Qed.

#[global] Instance schema_wire {PB : Protobuf} {PS : ProtobufSpec PB} : WireSchema wire schema.
Proof. solve_schema_wire wire schema. Qed.

#[global] Instance schema_normal : NormalSchema normal schema.
Proof. solve_schema_normal normal schema. Qed.

#[global] Instance schema_merge : MergeSchema merge schema.
Proof. solve_schema_merge merge schema. Qed.

(** Its row in the table of message types. *)
Definition message {PB : Protobuf} {PS : ProtobufSpec PB} : message_type :=
  fallible_message "LastCommitInfo" nothing true schema only.

#[global] Instance message_lawful {PB : Protobuf} (PS : ProtobufSpec PB) : Lawful message.
Proof. solve_lawful decode_field fromJSON only. Qed.

End LastCommitInfo.

(** ** [Evidence] (tendermint/abci/types.js) *)

Module Evidence.

Record t := mk {
  type_ : number;
  validator : option Validator.t;
  height : number;
  time : option date;
  totalVotingPower : number;
}.

#[global] Instance t_eta : Settable t := λ m, mk m.(type_) m.(validator) m.(height) m.(time)
  m.(totalVotingPower).

Definition base : t := mk 0 None 0 None 0.

Definition encode {PB : Protobuf} (message : t) (writer : Writer) : result Writer :=
  Ok writer
  @>= pure (when (num_neq message.(type_) 0) (fun w => w @> uint32 8 @> int32 message.(type_)))
  @>= defined_e message.(validator) (submessage 18 Validator.encode)
  @>= pure (when (num_neq message.(height) 0) (fun w => w @> uint32 24 @> int64 message.(height)))
  @>= pure (defined message.(time) (fun v w => w @> uint32 34 @> fork @> encode_time v @> ldelim))
  @>= pure (when (num_neq message.(totalVotingPower) 0)
       (fun w => w @> uint32 40 @> int64 message.(totalVotingPower))).

Definition decode_field {PB : Protobuf} (tag : Z) (message : t) : RM t :=
  match field_number tag with
  | 1 => v ← read_int32; mret (message <| type_ := Int v |>)
  | 2 => v ← read_nested Validator.decode; mret (message <| validator := Some v |>)
  | 3 => v ← read_number read_int64; mret (message <| height := v |>)
  | 4 => v ← read_time; mret (message <| time := Some v |>)
  | 5 => v ← read_number read_int64; mret (message <| totalVotingPower := v |>)
  | _ => _ ← skipType (wire_type tag); mret message
  end.

Definition decode {PB : Protobuf} (length : option Z) : RM t :=
  decode_message length base decode_field.

Definition fromJSON (object : js) : result t :=
  type_' ← field_or object "type" evidenceTypeFromJSON 0;
  validator' ← field_or object "validator" (to_some Validator.fromJSON) None;
  height' ← field_or object "height" js_Number 0;
  time' ← field_or object "time" (to_some fromJsonTimestamp) None;
  totalVotingPower' ← field_or object "totalVotingPower" js_Number 0;
  Ok (mk type_' validator' height' time' totalVotingPower').

Definition toJSON (message : t) : result js :=
  time' ← option_result toISOString message.(time);
  Ok (Obj ([("type", Str (evidenceTypeToJSON message.(type_)))] ++
   prop_opt "validator" Validator.toJSON message.(validator) ++
   [("height", Num message.(height))] ++
   prop_opt "time" Str time' ++
   [("totalVotingPower", Num message.(totalVotingPower))])).

Record partial := mkPartial {
  p_type : option number;
  p_validator : option Validator.partial;
  p_height : option number;
  p_time : option date;
  p_totalVotingPower : option number;
}.

Definition fromPartial (object : partial) : t := {|
  type_ := object.(p_type) ?? Int 0;
  validator := Validator.fromPartial <$> object.(p_validator);
  height := object.(p_height) ?? Int 0;
  time := object.(p_time);
  totalVotingPower := object.(p_totalVotingPower) ?? Int 0;
|}.

(** The object with no property given. *)
Definition nothing : partial := mkPartial None None None None None.

(** The bytes [encode] writes. *)
Definition wire {PB : Protobuf} {PS : ProtobufSpec PB} (m : t) : bytes :=
  f_number e_int32 8 m.(type_) ++
  f_message 18 Validator.wire m.(validator) ++
  f_number e_int64 24 m.(height) ++
  f_message 34 wire_time m.(time) ++
  f_number e_int64 40 m.(totalVotingPower).

Definition valid (m : t) : Prop :=
  int32_ok m.(type_) ∧ from_option Validator.valid True m.(validator) ∧ int64_ok m.(height) ∧ from_option date_ok True m.(time) ∧ int64_ok m.(totalVotingPower).

(** The byte fields hold arrays, as the interface declares. *)
Definition typed (m : t) : bool := from_option Validator.typed true m.(validator).

(** The message without its empty byte arrays. *)
Definition normal (m : t) : t := {|
  type_ := m.(type_);
  validator := Validator.normal <$> m.(validator);
  height := m.(height);
  time := m.(time);
  totalVotingPower := m.(totalVotingPower);
|}.

(** The dates are valid. *)
Definition timed (m : t) : bool := from_option date_valid true m.(time).

(** The enumeration fields hold members. *)
Definition named (m : t) : bool := evidenceType_named m.(type_).

(** The message with the numbers [toJSON] does not know replaced. *)
Definition known (m : t) : t := {|
  type_ := evidenceType_known m.(type_);
  validator := m.(validator);
  height := m.(height);
  time := m.(time);
  totalVotingPower := m.(totalVotingPower);
|}.

Definition encodable {PB : Protobuf} {PS : ProtobufSpec PB} (m : t) : Prop :=
  typed m = true ∧ valid m ∧ small (wire m).

Definition merge (m a : t) : t := {|
  type_ := later_number m.(type_) a.(type_);
  validator := later_message m.(validator) (Validator.normal <$> a.(validator));
  height := later_number m.(height) a.(height);
  time := later_message m.(time) a.(time);
  totalVotingPower := later_number m.(totalVotingPower) a.(totalVotingPower);
|}.

(** A whole message seen as a partial one. *)
Definition full (m : t) : partial := {|
  p_type := Some m.(type_);
  p_validator := Validator.full <$> m.(validator);
  p_height := Some m.(height);
  p_time := m.(time);
  p_totalVotingPower := Some m.(totalVotingPower);
|}.

(** The message as its [.proto] file declares it. *)
Definition schema (m : t) : list field :=
  [implicit 1 (VInt Int32 m.(type_));
   singular 2 Optional (message_value Validator.schema) m.(validator);
   implicit 3 (VInt Int64 m.(height));
   singular 4 Stamp timestamp_value m.(time);
   implicit 5 (VInt Int64 m.(totalVotingPower))].

(** The message with its default for every property that is not kept. *)
Definition only (kept : string → bool) (m : t) : t := {|
  type_ := if kept "type" then m.(type_) else Int 0;
  validator := if kept "validator" then m.(validator) else None;
  height := if kept "height" then m.(height) else Int 0;
  time := if kept "time" then m.(time) else None;
  totalVotingPower := if kept "totalVotingPower" then m.(totalVotingPower) else Int 0;
|}.

#[global] Instance codec {PB : Protobuf} : FallibleCodec t :=
  {| fmsg_base := base; fmsg_encode := encode; fmsg_field := decode_field |}.

#[global] Program Instance spec {PB : Protobuf} (PS : ProtobufSpec PB) : FallibleSpec PS t :=
  {| fmsg_wire := wire; fmsg_valid := valid; fmsg_typed := typed; fmsg_normal := normal;
     fmsg_merge := merge |}.
Next Obligation. solve_fencode_wire. Qed.
Next Obligation. intros. solve_fencode_throws encode typed. Qed.
Next Obligation. solve_fdecode_wire. Qed.
Next Obligation. solve_fmerge_base. Qed.
Next Obligation. intros. solve_fadvances decode_field. Qed.

#[global] Program Instance given_ : FalliblePartial t partial :=
  {| fmsg_fromPartial := fromPartial; fmsg_full := full; fmsg_given := typed |}.
Next Obligation. solve_fgiven fromPartial typed. Qed.
Next Obligation. solve_fpartial fromPartial full typed. Qed.

#[global] Program Instance json : DatedJson t :=
  {| dmsg_fromJSON := fromJSON; dmsg_toJSON := toJSON; dmsg_timed := timed;
     dmsg_named := named; dmsg_known := known |}.
Next Obligation. solve_djson fromJSON toJSON timed. Qed.
Next Obligation. solve_dthrows toJSON timed. Qed.
Next Obligation. solve_known named known. Qed.

#[global] Instance schema_wire {PB : Protobuf} {PS : ProtobufSpec PB} : WireSchema wire schema.
Proof. solve_schema_wire wire schema. Qed.

#[global] Instance schema_normal : NormalSchema normal schema.
Proof. solve_schema_normal normal schema. Qed.

#[global] Instance schema_merge : MergeSchema merge schema.
Proof. solve_schema_merge merge schema. Qed.

(** Its row in the table of message types. *)
Definition message {PB : Protobuf} {PS : ProtobufSpec PB} : message_type :=
  dated_message "Evidence" nothing true schema only.

#[global] Instance message_lawful {PB : Protobuf} (PS : ProtobufSpec PB) : Lawful message.
Proof. solve_lawful decode_field fromJSON only. Qed.

End Evidence.

(** ** [RequestBeginBlock] (tendermint/abci/types.js) *)

Module RequestBeginBlock.

Record t := mk {
  hash : option bytes;
  header : option Header.t;
  lastCommitInfo : option LastCommitInfo.t;
  byzantineValidators : list Evidence.t;
}.

#[global] Instance t_eta : Settable t := λ m, mk m.(hash) m.(header) m.(lastCommitInfo)
  m.(byzantineValidators).

Definition base : t := mk None None None [].

Definition encode {PB : Protobuf} (message : t) (writer : Writer) : result Writer :=
  Ok writer
  @>= bytes_field 10 message.(hash)
  @>= defined_e message.(header) (submessage 18 Header.encode)
  @>= defined_e message.(lastCommitInfo) (submessage 26 LastCommitInfo.encode)
  @>= each_e message.(byzantineValidators) (submessage 34 Evidence.encode).

Definition decode_field {PB : Protobuf} (tag : Z) (message : t) : RM t :=
  match field_number tag with
  | 1 => v ← read_bytes; mret (message <| hash := Some v |>)
  | 2 => v ← read_nested Header.decode; mret (message <| header := Some v |>)
  | 3 => v ← read_nested LastCommitInfo.decode; mret (message <| lastCommitInfo := Some v |>)
  | 4 => v ← read_nested Evidence.decode;
         mret (message <| byzantineValidators := message.(byzantineValidators) ++ [v] |>)
  | _ => _ ← skipType (wire_type tag); mret message
  end.

Definition decode {PB : Protobuf} (length : option Z) : RM t :=
  decode_message length base decode_field.

Definition fromJSON (object : js) : result t :=
  hash' ← field_or object "hash" (to_some bytesFromBase64) None;
  header' ← field_or object "header" (to_some Header.fromJSON) None;
  lastCommitInfo' ← field_or object "lastCommitInfo" (to_some LastCommitInfo.fromJSON) None;
  byzantineValidators' ← field_or object "byzantineValidators" (to_list Evidence.fromJSON) [];
  Ok (mk hash' header' lastCommitInfo' byzantineValidators').

Definition toJSON (message : t) : result js :=
  header' ← option_result Header.toJSON message.(header);
  byzantineValidators' ← result_map Evidence.toJSON message.(byzantineValidators);
  Ok (Obj (prop_opt "hash" (fun b => Str (base64FromBytes b)) message.(hash) ++
   prop_opt "header" id header' ++
   prop_opt "lastCommitInfo" LastCommitInfo.toJSON message.(lastCommitInfo) ++
   [("byzantineValidators", Arr byzantineValidators')])).

Record partial := mkPartial {
  p_hash : option bytes;
  p_header : option Header.partial;
  p_lastCommitInfo : option LastCommitInfo.partial;
  p_byzantineValidators : option (list Evidence.partial);
}.

Definition fromPartial (object : partial) : t := {|
  hash := Some (object.(p_hash) ?? []);
  header := Header.fromPartial <$> object.(p_header);
  lastCommitInfo := LastCommitInfo.fromPartial <$> object.(p_lastCommitInfo);
  byzantineValidators := map Evidence.fromPartial (object.(p_byzantineValidators) ?? []);
|}.

(** The object with no property given. *)
Definition nothing : partial := mkPartial None None None None.

(** The bytes [encode] writes. *)
Definition wire {PB : Protobuf} {PS : ProtobufSpec PB} (m : t) : bytes :=
  f_bytes 10 m.(hash) ++
  f_message 18 Header.wire m.(header) ++
  f_message 26 LastCommitInfo.wire m.(lastCommitInfo) ++
  f_repeated 34 Evidence.wire m.(byzantineValidators).

Definition valid (m : t) : Prop :=
  from_option Header.valid True m.(header) ∧ from_option LastCommitInfo.valid True m.(lastCommitInfo) ∧ Forall Evidence.valid m.(byzantineValidators).

(** The byte fields hold arrays, as the interface declares. *)
Definition typed (m : t) : bool := given m.(hash) && from_option Header.typed true m.(header) && from_option LastCommitInfo.typed true m.(lastCommitInfo) && forallb Evidence.typed m.(byzantineValidators).

(** The message without its empty byte arrays. *)
Definition normal (m : t) : t := {|
  hash := nonempty m.(hash);
  header := Header.normal <$> m.(header);
  lastCommitInfo := LastCommitInfo.normal <$> m.(lastCommitInfo);
  byzantineValidators := map Evidence.normal m.(byzantineValidators);
|}.

(** The dates are valid. *)
Definition timed (m : t) : bool := from_option Header.timed true m.(header) && forallb Evidence.timed m.(byzantineValidators).

(** The enumeration fields hold members. *)
Definition named (m : t) : bool := forallb Evidence.named m.(byzantineValidators).

(** The message with the numbers [toJSON] does not know replaced. *)
Definition known (m : t) : t := {|
  hash := m.(hash);
  header := m.(header);
  lastCommitInfo := m.(lastCommitInfo);
  byzantineValidators := map Evidence.known m.(byzantineValidators);
|}.

Definition encodable {PB : Protobuf} {PS : ProtobufSpec PB} (m : t) : Prop :=
  typed m = true ∧ valid m ∧ small (wire m).

Definition merge (m a : t) : t := {|
  hash := later_bytes m.(hash) a.(hash);
  header := later_message m.(header) (Header.normal <$> a.(header));
  lastCommitInfo := later_message m.(lastCommitInfo) (LastCommitInfo.normal <$> a.(lastCommitInfo));
  byzantineValidators := m.(byzantineValidators) ++ map Evidence.normal a.(byzantineValidators);
|}.

(** A whole message seen as a partial one. *)
Definition full (m : t) : partial := {|
  p_hash := m.(hash);
  p_header := Header.full <$> m.(header);
  p_lastCommitInfo := LastCommitInfo.full <$> m.(lastCommitInfo);
  p_byzantineValidators := Some (map Evidence.full m.(byzantineValidators));
|}.

(** The message as its [.proto] file declares it. *)
Definition schema (m : t) : list field :=
  [implicit 1 (byte_array m.(hash));
   singular 2 Optional (message_value Header.schema) m.(header);
   singular 3 Optional (message_value LastCommitInfo.schema) m.(lastCommitInfo);
   repeated 4 (message_value Evidence.schema) m.(byzantineValidators)].

(** The message with its default for every property that is not kept. *)
Definition only (kept : string → bool) (m : t) : t := {|
  hash := if kept "hash" then m.(hash) else None;
  header := if kept "header" then m.(header) else None;
  lastCommitInfo := if kept "lastCommitInfo" then m.(lastCommitInfo) else None;
  byzantineValidators := if kept "byzantineValidators" then m.(byzantineValidators) else [];
|}.

#[global] Instance codec {PB : Protobuf} : FallibleCodec t :=
  {| fmsg_base := base; fmsg_encode := encode; fmsg_field := decode_field |}.

#[global] Program Instance spec {PB : Protobuf} (PS : ProtobufSpec PB) : FallibleSpec PS t :=
  {| fmsg_wire := wire; fmsg_valid := valid; fmsg_typed := typed; fmsg_normal := normal;
     fmsg_merge := merge |}.
Next Obligation. solve_fencode_wire. Qed.
Next Obligation. intros. solve_fencode_throws encode typed. Qed.
Next Obligation. solve_fdecode_wire. Qed.
Next Obligation. solve_fmerge_base. Qed.
Next Obligation. intros. solve_fadvances decode_field. Qed.

#[global] Program Instance given_ : FalliblePartial t partial :=
  {| fmsg_fromPartial := fromPartial; fmsg_full := full; fmsg_given := typed |}.
Next Obligation. solve_fgiven fromPartial typed. Qed.
Next Obligation. solve_fpartial fromPartial full typed. Qed.

#[global] Program Instance json : DatedJson t :=
  {| dmsg_fromJSON := fromJSON; dmsg_toJSON := toJSON; dmsg_timed := timed;
     dmsg_named := named; dmsg_known := known |}.
Next Obligation. solve_djson fromJSON toJSON timed. Qed.
Next Obligation. solve_dthrows toJSON timed. Qed.
Next Obligation. solve_known named known. Qed.

#[global] Instance schema_wire {PB : Protobuf} {PS : ProtobufSpec PB} : WireSchema wire schema.
Proof. solve_schema_wire wire schema. Qed.

#[global] Instance schema_normal : NormalSchema normal schema.
Proof. solve_schema_normal normal schema. Qed.

#[global] Instance schema_merge : MergeSchema merge schema.
Proof. solve_schema_merge merge schema. Qed.

(** Its row in the table of message types. *)
Definition message {PB : Protobuf} {PS : ProtobufSpec PB} : message_type :=
  dated_message "RequestBeginBlock" nothing true schema only.

#[global] Instance message_lawful {PB : Protobuf} (PS : ProtobufSpec PB) : Lawful message.
Proof. solve_lawful decode_field fromJSON only. Qed.

End RequestBeginBlock.

(** ** [RequestCheckTx] (tendermint/abci/types.js) *)

Module RequestCheckTx.

Record t := mk {
  tx : option bytes;
  type_ : number;
}.

#[global] Instance t_eta : Settable t := λ m, mk m.(tx) m.(type_).

Definition base : t := mk None 0.

Definition encode {PB : Protobuf} (message : t) (writer : Writer) : result Writer :=
  Ok writer
  @>= bytes_field 10 message.(tx)
  @>= pure (when (num_neq message.(type_) 0) (fun w => w @> uint32 16 @> int32 message.(type_))).

Definition decode_field {PB : Protobuf} (tag : Z) (message : t) : RM t :=
  match field_number tag with
  | 1 => v ← read_bytes; mret (message <| tx := Some v |>)
  | 2 => v ← read_int32; mret (message <| type_ := Int v |>)
  | _ => _ ← skipType (wire_type tag); mret message
  end.

Definition decode {PB : Protobuf} (length : option Z) : RM t :=
  decode_message length base decode_field.

Definition fromJSON (object : js) : result t :=
  tx' ← field_or object "tx" (to_some bytesFromBase64) None;
  type_' ← field_or object "type" checkTxTypeFromJSON 0;
  Ok (mk tx' type_').

Definition toJSON (message : t) : js :=
  Obj (prop_opt "tx" (fun b => Str (base64FromBytes b)) message.(tx) ++
   [("type", Str (checkTxTypeToJSON message.(type_)))]).

Record partial := mkPartial {
  p_tx : option bytes;
  p_type : option number;
}.

Definition fromPartial (object : partial) : t := {|
  tx := Some (object.(p_tx) ?? []);
  type_ := object.(p_type) ?? Int 0;
|}.

(** The object with no property given. *)
Definition nothing : partial := mkPartial None None.

(** The bytes [encode] writes. *)
Definition wire {PB : Protobuf} {PS : ProtobufSpec PB} (m : t) : bytes :=
  f_bytes 10 m.(tx) ++
  f_number e_int32 16 m.(type_).

Definition valid (m : t) : Prop :=
  int32_ok m.(type_).

(** The byte fields hold arrays, as the interface declares. *)
Definition typed (m : t) : bool := given m.(tx).

(** The message without its empty byte arrays. *)
Definition normal (m : t) : t := {|
  tx := nonempty m.(tx);
  type_ := m.(type_);
|}.

(** The enumeration fields hold members. *)
Definition named (m : t) : bool := checkTxType_named m.(type_).

(** The message with the numbers [toJSON] does not know replaced. *)
Definition known (m : t) : t := {|
  tx := m.(tx);
  type_ := checkTxType_known m.(type_);
|}.

Definition encodable {PB : Protobuf} {PS : ProtobufSpec PB} (m : t) : Prop :=
  typed m = true ∧ valid m ∧ small (wire m).

Definition merge (m a : t) : t := {|
  tx := later_bytes m.(tx) a.(tx);
  type_ := later_number m.(type_) a.(type_);
|}.

(** A whole message seen as a partial one. *)
Definition full (m : t) : partial := {|
  p_tx := m.(tx);
  p_type := Some m.(type_);
|}.

(** The message as its [.proto] file declares it. *)
Definition schema (m : t) : list field :=
  [implicit 1 (byte_array m.(tx));
   implicit 2 (VInt Int32 m.(type_))].

(** The message with its default for every property that is not kept. *)
Definition only (kept : string → bool) (m : t) : t := {|
  tx := if kept "tx" then m.(tx) else None;
  type_ := if kept "type" then m.(type_) else Int 0;
|}.

#[global] Instance codec {PB : Protobuf} : FallibleCodec t :=
  {| fmsg_base := base; fmsg_encode := encode; fmsg_field := decode_field |}.

#[global] Program Instance spec {PB : Protobuf} (PS : ProtobufSpec PB) : FallibleSpec PS t :=
  {| fmsg_wire := wire; fmsg_valid := valid; fmsg_typed := typed; fmsg_normal := normal;
     fmsg_merge := merge |}.
Next Obligation. solve_fencode_wire. Qed.
Next Obligation. intros. solve_fencode_throws encode typed. Qed.
Next Obligation. solve_fdecode_wire. Qed.
Next Obligation. solve_fmerge_base. Qed.
Next Obligation. intros. solve_fadvances decode_field. Qed.

#[global] Program Instance given_ : FalliblePartial t partial :=
  {| fmsg_fromPartial := fromPartial; fmsg_full := full; fmsg_given := typed |}.
Next Obligation. solve_fgiven fromPartial typed. Qed.
Next Obligation. solve_fpartial fromPartial full typed. Qed.

#[global] Program Instance json : FallibleJson t :=
  {| fmsg_fromJSON := fromJSON; fmsg_toJSON := toJSON;
     fmsg_named := named; fmsg_known := known |}.
Next Obligation. solve_fjson fromJSON toJSON. Qed.
Next Obligation. solve_known named known. Qed.

#[global] Instance schema_wire {PB : Protobuf} {PS : ProtobufSpec PB} : WireSchema wire schema.
Proof. solve_schema_wire wire schema. Qed.

#[global] Instance schema_normal : NormalSchema normal schema.
Proof. solve_schema_normal normal schema. Qed.

#[global] Instance schema_merge : MergeSchema merge schema.
Proof. solve_schema_merge merge schema. Qed.

(** Its row in the table of message types. *)
Definition message {PB : Protobuf} {PS : ProtobufSpec PB} : message_type :=
  fallible_message "RequestCheckTx" nothing true schema only.

#[global] Instance message_lawful {PB : Protobuf} (PS : ProtobufSpec PB) : Lawful message.
Proof. solve_lawful decode_field fromJSON only. Qed.

End RequestCheckTx.

(** ** [RequestDeliverTx] (tendermint/abci/types.js) *)

Module RequestDeliverTx.

Record t := mk {
  tx : option bytes;
}.

#[global] Instance t_eta : Settable t := λ m, mk m.(tx).

Definition base : t := mk None.

Definition encode {PB : Protobuf} (message : t) (writer : Writer) : result Writer :=
  Ok writer
  @>= bytes_field 10 message.(tx).

Definition decode_field {PB : Protobuf} (tag : Z) (message : t) : RM t :=
  match field_number tag with
  | 1 => v ← read_bytes; mret (message <| tx := Some v |>)
  | _ => _ ← skipType (wire_type tag); mret message
  end.

Definition decode {PB : Protobuf} (length : option Z) : RM t :=
  decode_message length base decode_field.

Definition fromJSON (object : js) : result t :=
  tx' ← field_or object "tx" (to_some bytesFromBase64) None;
  Ok (mk tx').

Definition toJSON (message : t) : js :=
  Obj (prop_opt "tx" (fun b => Str (base64FromBytes b)) message.(tx)).

Record partial := mkPartial {
  p_tx : option bytes;
}.

Definition fromPartial (object : partial) : t := {|
  tx := Some (object.(p_tx) ?? []);
|}.

(** The object with no property given. *)
Definition nothing : partial := mkPartial None.

(** The bytes [encode] writes. *)
Definition wire {PB : Protobuf} {PS : ProtobufSpec PB} (m : t) : bytes :=
  f_bytes 10 m.(tx).

Definition valid (m : t) : Prop :=
  True.

(** The byte fields hold arrays, as the interface declares. *)
Definition typed (m : t) : bool := given m.(tx).

(** The message without its empty byte arrays. *)
Definition normal (m : t) : t := {|
  tx := nonempty m.(tx);
|}.

Definition encodable {PB : Protobuf} {PS : ProtobufSpec PB} (m : t) : Prop :=
  typed m = true ∧ valid m ∧ small (wire m).

Definition merge (m a : t) : t := {|
  tx := later_bytes m.(tx) a.(tx);
|}.

(** A whole message seen as a partial one. *)
Definition full (m : t) : partial := {|
  p_tx := m.(tx);
|}.

(** The message as its [.proto] file declares it. *)
Definition schema (m : t) : list field :=
  [implicit 1 (byte_array m.(tx))].

(** The message with its default for every property that is not kept. *)
Definition only (kept : string → bool) (m : t) : t := {|
  tx := if kept "tx" then m.(tx) else None;
|}.

#[global] Instance codec {PB : Protobuf} : FallibleCodec t :=
  {| fmsg_base := base; fmsg_encode := encode; fmsg_field := decode_field |}.

#[global] Program Instance spec {PB : Protobuf} (PS : ProtobufSpec PB) : FallibleSpec PS t :=
  {| fmsg_wire := wire; fmsg_valid := valid; fmsg_typed := typed; fmsg_normal := normal;
     fmsg_merge := merge |}.
Next Obligation. solve_fencode_wire. Qed.
Next Obligation. intros. solve_fencode_throws encode typed. Qed.
Next Obligation. solve_fdecode_wire. Qed.
Next Obligation. solve_fmerge_base. Qed.
Next Obligation. intros. solve_fadvances decode_field. Qed.

#[global] Program Instance given_ : FalliblePartial t partial :=
  {| fmsg_fromPartial := fromPartial; fmsg_full := full; fmsg_given := typed |}.
Next Obligation. solve_fgiven fromPartial typed. Qed.
Next Obligation. solve_fpartial fromPartial full typed. Qed.

#[global] Program Instance json : FallibleJson t :=
  {| fmsg_fromJSON := fromJSON; fmsg_toJSON := toJSON;
     fmsg_named := fun _ => true; fmsg_known := fun m => m |}.
Next Obligation. solve_fjson fromJSON toJSON. Qed.
Next Obligation. reflexivity. Qed.

#[global] Instance schema_wire {PB : Protobuf} {PS : ProtobufSpec PB} : WireSchema wire schema.
Proof. solve_schema_wire wire schema. Qed.

#[global] Instance schema_normal : NormalSchema normal schema.
Proof. solve_schema_normal normal schema. Qed.

#[global] Instance schema_merge : MergeSchema merge schema.
Proof. solve_schema_merge merge schema. Qed.

(** Its row in the table of message types. *)
Definition message {PB : Protobuf} {PS : ProtobufSpec PB} : message_type :=
  fallible_message "RequestDeliverTx" nothing true schema only.

#[global] Instance message_lawful {PB : Protobuf} (PS : ProtobufSpec PB) : Lawful message.
Proof. solve_lawful decode_field fromJSON only. Qed.

End RequestDeliverTx.

(** ** [RequestEndBlock] (tendermint/abci/types.js) *)

Module RequestEndBlock.

Record t := mk {
  height : number;
}.

#[global] Instance t_eta : Settable t := λ m, mk m.(height).

Definition base : t := mk 0.

Definition encode {PB : Protobuf} (message : t) (writer : Writer) : Writer :=
  writer
  @> when (num_neq message.(height) 0) (fun w => w @> uint32 8 @> int64 message.(height)).

Definition decode_field {PB : Protobuf} (tag : Z) (message : t) : RM t :=
  match field_number tag with
  | 1 => v ← read_number read_int64; mret (message <| height := v |>)
  | _ => _ ← skipType (wire_type tag); mret message
  end.

Definition decode {PB : Protobuf} (length : option Z) : RM t :=
  decode_message length base decode_field.

Definition fromJSON (object : js) : result t :=
  height' ← field_or object "height" js_Number 0;
  Ok (mk height').

Definition toJSON (message : t) : js :=
  Obj ([("height", Num message.(height))]).

Record partial := mkPartial {
  p_height : option number;
}.

Definition fromPartial (object : partial) : t := {|
  height := object.(p_height) ?? Int 0;
|}.

(** The object with no property given. *)
Definition nothing : partial := mkPartial None.

(** The bytes [encode] writes. *)
Definition wire {PB : Protobuf} {PS : ProtobufSpec PB} (m : t) : bytes :=
  f_number e_int64 8 m.(height).

Definition valid (m : t) : Prop :=
  int64_ok m.(height).

Definition encodable {PB : Protobuf} {PS : ProtobufSpec PB} (m : t) : Prop :=
  valid m ∧ small (wire m).

Definition merge (m a : t) : t := {|
  height := later_number m.(height) a.(height);
|}.

(** A whole message seen as a partial one. *)
Definition full (m : t) : partial := {|
  p_height := Some m.(height);
|}.

(** The message as its [.proto] file declares it. *)
Definition schema (m : t) : list field :=
  [implicit 1 (VInt Int64 m.(height))].

(** The message with its default for every property that is not kept. *)
Definition only (kept : string → bool) (m : t) : t := {|
  height := if kept "height" then m.(height) else Int 0;
|}.

#[global] Instance codec {PB : Protobuf} : MessageCodec t :=
  {| msg_base := base; msg_encode := encode; msg_field := decode_field |}.

#[global] Program Instance spec {PB : Protobuf} (PS : ProtobufSpec PB) : MessageSpec PS t :=
  {| msg_wire := wire; msg_valid := valid; msg_merge := merge |}.
Next Obligation. solve_encode_wire. Qed.
Next Obligation. solve_decode_wire. Qed.
Next Obligation. solve_merge_base. Qed.
Next Obligation. intros. solve_advances decode_field. Qed.

#[global] Program Instance data : MessageData t partial :=
  {| msg_fromJSON := fromJSON; msg_toJSON := toJSON;
     msg_fromPartial := fromPartial; msg_full := full |}.
Next Obligation. solve_json fromJSON toJSON. Qed.
Next Obligation. solve_partial fromPartial full. Qed.

#[global] Instance schema_wire {PB : Protobuf} {PS : ProtobufSpec PB} : WireSchema wire schema.
Proof. solve_schema_wire wire schema. Qed.

#[global] Instance schema_merge : MergeSchema merge schema.
Proof. solve_schema_merge merge schema. Qed.

(** Its row in the table of message types. *)
Definition message {PB : Protobuf} {PS : ProtobufSpec PB} : message_type :=
  plain_message "RequestEndBlock" nothing true schema only.

#[global] Instance message_lawful {PB : Protobuf} (PS : ProtobufSpec PB) : Lawful message.
Proof. solve_lawful decode_field fromJSON only. Qed.

End RequestEndBlock.

(** ** [RequestCommit] (tendermint/abci/types.js) *)

Module RequestCommit.

Record t := mk {}.

#[global] Instance t_eta : Settable t := λ m, m.

Definition base : t := mk.

Definition encode {PB : Protobuf} (message : t) (writer : Writer) : Writer :=
  writer.

Definition decode_field {PB : Protobuf} (tag : Z) (message : t) : RM t :=
  match field_number tag with
  | _ => _ ← skipType (wire_type tag); mret message
  end.

Definition decode {PB : Protobuf} (length : option Z) : RM t :=
  decode_message length base decode_field.

Definition fromJSON (object : js) : result t :=
  Ok base.

Definition toJSON (message : t) : js :=
  Obj [].

Record partial := mkPartial {}.

Definition fromPartial (object : partial) : t := base.

(** The object with no property given. *)
Definition nothing : partial := mkPartial.

(** The bytes [encode] writes. *)
Definition wire {PB : Protobuf} {PS : ProtobufSpec PB} (m : t) : bytes :=
  [].

Definition valid (m : t) : Prop :=
  True.

Definition encodable {PB : Protobuf} {PS : ProtobufSpec PB} (m : t) : Prop :=
  valid m ∧ small (wire m).

Definition merge (m a : t) : t := m.

(** A whole message seen as a partial one. *)
Definition full (m : t) : partial := mkPartial.

(** The message as its [.proto] file declares it. *)
Definition schema (m : t) : list field :=
  [].

(** The message with its default for every property that is not kept. *)
Definition only (kept : string → bool) (m : t) : t := m.

#[global] Instance codec {PB : Protobuf} : MessageCodec t :=
  {| msg_base := base; msg_encode := encode; msg_field := decode_field |}.

#[global] Program Instance spec {PB : Protobuf} (PS : ProtobufSpec PB) : MessageSpec PS t :=
  {| msg_wire := wire; msg_valid := valid; msg_merge := merge |}.
Next Obligation. solve_encode_wire. Qed.
Next Obligation. solve_decode_wire. Qed.
Next Obligation. solve_merge_base. Qed.
Next Obligation. intros. solve_advances decode_field. Qed.

#[global] Program Instance data : MessageData t partial :=
  {| msg_fromJSON := fromJSON; msg_toJSON := toJSON;
     msg_fromPartial := fromPartial; msg_full := full |}.
Next Obligation. solve_json fromJSON toJSON. Qed.
Next Obligation. solve_partial fromPartial full. Qed.

#[global] Instance schema_wire {PB : Protobuf} {PS : ProtobufSpec PB} : WireSchema wire schema.
Proof. solve_schema_wire wire schema. Qed.

#[global] Instance schema_merge : MergeSchema merge schema.
Proof. solve_schema_merge merge schema. Qed.

(** Its row in the table of message types. *)
Definition message {PB : Protobuf} {PS : ProtobufSpec PB} : message_type :=
  plain_message "RequestCommit" nothing false schema only.

#[global] Instance message_lawful {PB : Protobuf} (PS : ProtobufSpec PB) : Lawful message.
Proof. solve_lawful decode_field fromJSON only. Qed.

End RequestCommit.

(** ** [RequestListSnapshots] (tendermint/abci/types.js) *)

Module RequestListSnapshots.

Record t := mk {}.

#[global] Instance t_eta : Settable t := λ m, m.

Definition base : t := mk.

Definition encode {PB : Protobuf} (message : t) (writer : Writer) : Writer :=
  writer.

Definition decode_field {PB : Protobuf} (tag : Z) (message : t) : RM t :=
  match field_number tag with
  | _ => _ ← skipType (wire_type tag); mret message
  end.

Definition decode {PB : Protobuf} (length : option Z) : RM t :=
  decode_message length base decode_field.

Definition fromJSON (object : js) : result t :=
  Ok base.

Definition toJSON (message : t) : js :=
  Obj [].

Record partial := mkPartial {}.

Definition fromPartial (object : partial) : t := base.

(** The object with no property given. *)
Definition nothing : partial := mkPartial.

(** The bytes [encode] writes. *)
Definition wire {PB : Protobuf} {PS : ProtobufSpec PB} (m : t) : bytes :=
  [].

Definition valid (m : t) : Prop :=
  True.

Definition encodable {PB : Protobuf} {PS : ProtobufSpec PB} (m : t) : Prop :=
  valid m ∧ small (wire m).

Definition merge (m a : t) : t := m.

(** A whole message seen as a partial one. *)
Definition full (m : t) : partial := mkPartial.

(** The message as its [.proto] file declares it. *)
Definition schema (m : t) : list field :=
  [].

(** The message with its default for every property that is not kept. *)
Definition only (kept : string → bool) (m : t) : t := m.

#[global] Instance codec {PB : Protobuf} : MessageCodec t :=
  {| msg_base := base; msg_encode := encode; msg_field := decode_field |}.

#[global] Program Instance spec {PB : Protobuf} (PS : ProtobufSpec PB) : MessageSpec PS t :=
  {| msg_wire := wire; msg_valid := valid; msg_merge := merge |}.
Next Obligation. solve_encode_wire. Qed.
Next Obligation. solve_decode_wire. Qed.
Next Obligation. solve_merge_base. Qed.
Next Obligation. intros. solve_advances decode_field. Qed.

#[global] Program Instance data : MessageData t partial :=
  {| msg_fromJSON := fromJSON; msg_toJSON := toJSON;
     msg_fromPartial := fromPartial; msg_full := full |}.
Next Obligation. solve_json fromJSON toJSON. Qed.
Next Obligation. solve_partial fromPartial full. Qed.

#[global] Instance schema_wire {PB : Protobuf} {PS : ProtobufSpec PB} : WireSchema wire schema.
Proof. solve_schema_wire wire schema. Qed.

#[global] Instance schema_merge : MergeSchema merge schema.
Proof. solve_schema_merge merge schema. Qed.

(** Its row in the table of message types. *)
Definition message {PB : Protobuf} {PS : ProtobufSpec PB} : message_type :=
  plain_message "RequestListSnapshots" nothing false schema only.

#[global] Instance message_lawful {PB : Protobuf} (PS : ProtobufSpec PB) : Lawful message.
Proof. solve_lawful decode_field fromJSON only. Qed.

End RequestListSnapshots.

(** ** [Snapshot] (tendermint/abci/types.js) *)

Module Snapshot.

Record t := mk {
  height : number;
  format : number;
  chunks : number;
  hash : option bytes;
  metadata : option bytes;
}.

#[global] Instance t_eta : Settable t := λ m, mk m.(height) m.(format) m.(chunks) m.(hash)
  m.(metadata).

Definition base : t := mk 0 0 0 None None.

Definition encode {PB : Protobuf} (message : t) (writer : Writer) : result Writer :=
  Ok writer
  @>= pure (when (num_neq message.(height) 0) (fun w => w @> uint32 8 @> uint64 message.(height)))
  @>= pure (when (num_neq message.(format) 0) (fun w => w @> uint32 16 @> uint32 message.(format)))
  @>= pure (when (num_neq message.(chunks) 0) (fun w => w @> uint32 24 @> uint32 message.(chunks)))
  @>= bytes_field 34 message.(hash)
  @>= bytes_field 42 message.(metadata).

Definition decode_field {PB : Protobuf} (tag : Z) (message : t) : RM t :=
  match field_number tag with
  | 1 => v ← read_number read_uint64; mret (message <| height := v |>)
  | 2 => v ← read_uint32; mret (message <| format := Int v |>)
  | 3 => v ← read_uint32; mret (message <| chunks := Int v |>)
  | 4 => v ← read_bytes; mret (message <| hash := Some v |>)
  | 5 => v ← read_bytes; mret (message <| metadata := Some v |>)
  | _ => _ ← skipType (wire_type tag); mret message
  end.

Definition decode {PB : Protobuf} (length : option Z) : RM t :=
  decode_message length base decode_field.

Definition fromJSON (object : js) : result t :=
  height' ← field_or object "height" js_Number 0;
  format' ← field_or object "format" js_Number 0;
  chunks' ← field_or object "chunks" js_Number 0;
  hash' ← field_or object "hash" (to_some bytesFromBase64) None;
  metadata' ← field_or object "metadata" (to_some bytesFromBase64) None;
  Ok (mk height' format' chunks' hash' metadata').

Definition toJSON (message : t) : js :=
  Obj ([("height", Num message.(height));
    ("format", Num message.(format));
    ("chunks", Num message.(chunks))] ++
   prop_opt "hash" (fun b => Str (base64FromBytes b)) message.(hash) ++
   prop_opt "metadata" (fun b => Str (base64FromBytes b)) message.(metadata)).

Record partial := mkPartial {
  p_height : option number;
  p_format : option number;
  p_chunks : option number;
  p_hash : option bytes;
  p_metadata : option bytes;
}.

Definition fromPartial (object : partial) : t := {|
  height := object.(p_height) ?? Int 0;
  format := object.(p_format) ?? Int 0;
  chunks := object.(p_chunks) ?? Int 0;
  hash := Some (object.(p_hash) ?? []);
  metadata := Some (object.(p_metadata) ?? []);
|}.

(** The object with no property given. *)
Definition nothing : partial := mkPartial None None None None None.

(** The bytes [encode] writes. *)
Definition wire {PB : Protobuf} {PS : ProtobufSpec PB} (m : t) : bytes :=
  f_number e_uint64 8 m.(height) ++
  f_number e_uint32 16 m.(format) ++
  f_number e_uint32 24 m.(chunks) ++
  f_bytes 34 m.(hash) ++
  f_bytes 42 m.(metadata).

Definition valid (m : t) : Prop :=
  uint64_ok m.(height) ∧ uint32_ok m.(format) ∧ uint32_ok m.(chunks).

(** The byte fields hold arrays, as the interface declares. *)
Definition typed (m : t) : bool := given m.(hash) && given m.(metadata).

(** The message without its empty byte arrays. *)
Definition normal (m : t) : t := {|
  height := m.(height);
  format := m.(format);
  chunks := m.(chunks);
  hash := nonempty m.(hash);
  metadata := nonempty m.(metadata);
|}.

Definition encodable {PB : Protobuf} {PS : ProtobufSpec PB} (m : t) : Prop :=
  typed m = true ∧ valid m ∧ small (wire m).

Definition merge (m a : t) : t := {|
  height := later_number m.(height) a.(height);
  format := later_number m.(format) a.(format);
  chunks := later_number m.(chunks) a.(chunks);
  hash := later_bytes m.(hash) a.(hash);
  metadata := later_bytes m.(metadata) a.(metadata);
|}.

(** A whole message seen as a partial one. *)
Definition full (m : t) : partial := {|
  p_height := Some m.(height);
  p_format := Some m.(format);
  p_chunks := Some m.(chunks);
  p_hash := m.(hash);
  p_metadata := m.(metadata);
|}.

(** The message as its [.proto] file declares it. *)
Definition schema (m : t) : list field :=
  [implicit 1 (VInt Uint64 m.(height));
   implicit 2 (VInt Uint32 m.(format));
   implicit 3 (VInt Uint32 m.(chunks));
   implicit 4 (byte_array m.(hash));
   implicit 5 (byte_array m.(metadata))].

(** The message with its default for every property that is not kept. *)
Definition only (kept : string → bool) (m : t) : t := {|
  height := if kept "height" then m.(height) else Int 0;
  format := if kept "format" then m.(format) else Int 0;
  chunks := if kept "chunks" then m.(chunks) else Int 0;
  hash := if kept "hash" then m.(hash) else None;
  metadata := if kept "metadata" then m.(metadata) else None;
|}.

#[global] Instance codec {PB : Protobuf} : FallibleCodec t :=
  {| fmsg_base := base; fmsg_encode := encode; fmsg_field := decode_field |}.

#[global] Program Instance spec {PB : Protobuf} (PS : ProtobufSpec PB) : FallibleSpec PS t :=
  {| fmsg_wire := wire; fmsg_valid := valid; fmsg_typed := typed; fmsg_normal := normal;
     fmsg_merge := merge |}.
Next Obligation. solve_fencode_wire. Qed.
Next Obligation. intros. solve_fencode_throws encode typed. Qed.
Next Obligation. solve_fdecode_wire. Qed.
Next Obligation. solve_fmerge_base. Qed.
Next Obligation. intros. solve_fadvances decode_field. Qed.

#[global] Program Instance given_ : FalliblePartial t partial :=
  {| fmsg_fromPartial := fromPartial; fmsg_full := full; fmsg_given := typed |}.
Next Obligation. solve_fgiven fromPartial typed. Qed.
Next Obligation. solve_fpartial fromPartial full typed. Qed.

#[global] Program Instance json : FallibleJson t :=
  {| fmsg_fromJSON := fromJSON; fmsg_toJSON := toJSON;
     fmsg_named := fun _ => true; fmsg_known := fun m => m |}.
Next Obligation. solve_fjson fromJSON toJSON. Qed.
Next Obligation. reflexivity. Qed.

#[global] Instance schema_wire {PB : Protobuf} {PS : ProtobufSpec PB} : WireSchema wire schema.
Proof. solve_schema_wire wire schema. Qed.

#[global] Instance schema_normal : NormalSchema normal schema.
Proof. solve_schema_normal normal schema. Qed.

#[global] Instance schema_merge : MergeSchema merge schema.
Proof. solve_schema_merge merge schema. Qed.

(** Its row in the table of message types. *)
Definition message {PB : Protobuf} {PS : ProtobufSpec PB} : message_type :=
  fallible_message "Snapshot" nothing true schema only.

#[global] Instance message_lawful {PB : Protobuf} (PS : ProtobufSpec PB) : Lawful message.
Proof. solve_lawful decode_field fromJSON only. Qed.

End Snapshot.

(** ** [RequestOfferSnapshot] (tendermint/abci/types.js) *)

Module RequestOfferSnapshot.

Record t := mk {
  snapshot : option Snapshot.t;
  appHash : option bytes;
}.

#[global] Instance t_eta : Settable t := λ m, mk m.(snapshot) m.(appHash).

Definition base : t := mk None None.

Definition encode {PB : Protobuf} (message : t) (writer : Writer) : result Writer :=
  Ok writer
  @>= defined_e message.(snapshot) (submessage 10 Snapshot.encode)
  @>= bytes_field 18 message.(appHash).

Definition decode_field {PB : Protobuf} (tag : Z) (message : t) : RM t :=
  match field_number tag with
  | 1 => v ← read_nested Snapshot.decode; mret (message <| snapshot := Some v |>)
  | 2 => v ← read_bytes; mret (message <| appHash := Some v |>)
  | _ => _ ← skipType (wire_type tag); mret message
  end.

Definition decode {PB : Protobuf} (length : option Z) : RM t :=
  decode_message length base decode_field.

Definition fromJSON (object : js) : result t :=
  snapshot' ← field_or object "snapshot" (to_some Snapshot.fromJSON) None;
  appHash' ← field_or object "appHash" (to_some bytesFromBase64) None;
  Ok (mk snapshot' appHash').

Definition toJSON (message : t) : js :=
  Obj (prop_opt "snapshot" Snapshot.toJSON message.(snapshot) ++
   prop_opt "appHash" (fun b => Str (base64FromBytes b)) message.(appHash)).

Record partial := mkPartial {
  p_snapshot : option Snapshot.partial;
  p_appHash : option bytes;
}.

Definition fromPartial (object : partial) : t := {|
  snapshot := Snapshot.fromPartial <$> object.(p_snapshot);
  appHash := Some (object.(p_appHash) ?? []);
|}.

(** The object with no property given. *)
Definition nothing : partial := mkPartial None None.

(** The bytes [encode] writes. *)
Definition wire {PB : Protobuf} {PS : ProtobufSpec PB} (m : t) : bytes :=
  f_message 10 Snapshot.wire m.(snapshot) ++
  f_bytes 18 m.(appHash).

Definition valid (m : t) : Prop :=
  from_option Snapshot.valid True m.(snapshot).

(** The byte fields hold arrays, as the interface declares. *)
Definition typed (m : t) : bool := from_option Snapshot.typed true m.(snapshot) && given m.(appHash).

(** The message without its empty byte arrays. *)
Definition normal (m : t) : t := {|
  snapshot := Snapshot.normal <$> m.(snapshot);
  appHash := nonempty m.(appHash);
|}.

Definition encodable {PB : Protobuf} {PS : ProtobufSpec PB} (m : t) : Prop :=
  typed m = true ∧ valid m ∧ small (wire m).

Definition merge (m a : t) : t := {|
  snapshot := later_message m.(snapshot) (Snapshot.normal <$> a.(snapshot));
  appHash := later_bytes m.(appHash) a.(appHash);
|}.

(** A whole message seen as a partial one. *)
Definition full (m : t) : partial := {|
  p_snapshot := Snapshot.full <$> m.(snapshot);
  p_appHash := m.(appHash);
|}.

(** The message as its [.proto] file declares it. *)
Definition schema (m : t) : list field :=
  [singular 1 Optional (message_value Snapshot.schema) m.(snapshot);
   implicit 2 (byte_array m.(appHash))].

(** The message with its default for every property that is not kept. *)
Definition only (kept : string → bool) (m : t) : t := {|
  snapshot := if kept "snapshot" then m.(snapshot) else None;
  appHash := if kept "appHash" then m.(appHash) else None;
|}.

#[global] Instance codec {PB : Protobuf} : FallibleCodec t :=
  {| fmsg_base := base; fmsg_encode := encode; fmsg_field := decode_field |}.

#[global] Program Instance spec {PB : Protobuf} (PS : ProtobufSpec PB) : FallibleSpec PS t :=
  {| fmsg_wire := wire; fmsg_valid := valid; fmsg_typed := typed; fmsg_normal := normal;
     fmsg_merge := merge |}.
Next Obligation. solve_fencode_wire. Qed.
Next Obligation. intros. solve_fencode_throws encode typed. Qed.
Next Obligation. solve_fdecode_wire. Qed.
Next Obligation. solve_fmerge_base. Qed.
Next Obligation. intros. solve_fadvances decode_field. Qed.

#[global] Program Instance given_ : FalliblePartial t partial :=
  {| fmsg_fromPartial := fromPartial; fmsg_full := full; fmsg_given := typed |}.
Next Obligation. solve_fgiven fromPartial typed. Qed.
Next Obligation. solve_fpartial fromPartial full typed. Qed.

#[global] Program Instance json : FallibleJson t :=
  {| fmsg_fromJSON := fromJSON; fmsg_toJSON := toJSON;
     fmsg_named := fun _ => true; fmsg_known := fun m => m |}.
Next Obligation. solve_fjson fromJSON toJSON. Qed.
Next Obligation. reflexivity. Qed.

#[global] Instance schema_wire {PB : Protobuf} {PS : ProtobufSpec PB} : WireSchema wire schema.
Proof. solve_schema_wire wire schema. Qed.

#[global] Instance schema_normal : NormalSchema normal schema.
Proof. solve_schema_normal normal schema. Qed.

#[global] Instance schema_merge : MergeSchema merge schema.
Proof. solve_schema_merge merge schema. Qed.

(** Its row in the table of message types. *)
Definition message {PB : Protobuf} {PS : ProtobufSpec PB} : message_type :=
  fallible_message "RequestOfferSnapshot" nothing true schema only.

#[global] Instance message_lawful {PB : Protobuf} (PS : ProtobufSpec PB) : Lawful message.
Proof. solve_lawful decode_field fromJSON only. Qed.

End RequestOfferSnapshot.

(** ** [RequestLoadSnapshotChunk] (tendermint/abci/types.js) *)

Module RequestLoadSnapshotChunk.

Record t := mk {
  height : number;
  format : number;
  chunk : number;
}.

#[global] Instance t_eta : Settable t := λ m, mk m.(height) m.(format) m.(chunk).

Definition base : t := mk 0 0 0.

Definition encode {PB : Protobuf} (message : t) (writer : Writer) : Writer :=
  writer
  @> when (num_neq message.(height) 0) (fun w => w @> uint32 8 @> uint64 message.(height))
  @> when (num_neq message.(format) 0) (fun w => w @> uint32 16 @> uint32 message.(format))
  @> when (num_neq message.(chunk) 0) (fun w => w @> uint32 24 @> uint32 message.(chunk)).

Definition decode_field {PB : Protobuf} (tag : Z) (message : t) : RM t :=
  match field_number tag with
  | 1 => v ← read_number read_uint64; mret (message <| height := v |>)
  | 2 => v ← read_uint32; mret (message <| format := Int v |>)
  | 3 => v ← read_uint32; mret (message <| chunk := Int v |>)
  | _ => _ ← skipType (wire_type tag); mret message
  end.

Definition decode {PB : Protobuf} (length : option Z) : RM t :=
  decode_message length base decode_field.

Definition fromJSON (object : js) : result t :=
  height' ← field_or object "height" js_Number 0;
  format' ← field_or object "format" js_Number 0;
  chunk' ← field_or object "chunk" js_Number 0;
  Ok (mk height' format' chunk').

Definition toJSON (message : t) : js :=
  Obj ([("height", Num message.(height));
    ("format", Num message.(format));
    ("chunk", Num message.(chunk))]).

Record partial := mkPartial {
  p_height : option number;
  p_format : option number;
  p_chunk : option number;
}.

Definition fromPartial (object : partial) : t := {|
  height := object.(p_height) ?? Int 0;
  format := object.(p_format) ?? Int 0;
  chunk := object.(p_chunk) ?? Int 0;
|}.

(** The object with no property given. *)
Definition nothing : partial := mkPartial None None None.

(** The bytes [encode] writes. *)
Definition wire {PB : Protobuf} {PS : ProtobufSpec PB} (m : t) : bytes :=
  f_number e_uint64 8 m.(height) ++
  f_number e_uint32 16 m.(format) ++
  f_number e_uint32 24 m.(chunk).

Definition valid (m : t) : Prop :=
  uint64_ok m.(height) ∧ uint32_ok m.(format) ∧ uint32_ok m.(chunk).

Definition encodable {PB : Protobuf} {PS : ProtobufSpec PB} (m : t) : Prop :=
  valid m ∧ small (wire m).

Definition merge (m a : t) : t := {|
  height := later_number m.(height) a.(height);
  format := later_number m.(format) a.(format);
  chunk := later_number m.(chunk) a.(chunk);
|}.

(** A whole message seen as a partial one. *)
Definition full (m : t) : partial := {|
  p_height := Some m.(height);
  p_format := Some m.(format);
  p_chunk := Some m.(chunk);
|}.

(** The message as its [.proto] file declares it. *)
Definition schema (m : t) : list field :=
  [implicit 1 (VInt Uint64 m.(height));
   implicit 2 (VInt Uint32 m.(format));
   implicit 3 (VInt Uint32 m.(chunk))].

(** The message with its default for every property that is not kept. *)
Definition only (kept : string → bool) (m : t) : t := {|
  height := if kept "height" then m.(height) else Int 0;
  format := if kept "format" then m.(format) else Int 0;
  chunk := if kept "chunk" then m.(chunk) else Int 0;
|}.

#[global] Instance codec {PB : Protobuf} : MessageCodec t :=
  {| msg_base := base; msg_encode := encode; msg_field := decode_field |}.

#[global] Program Instance spec {PB : Protobuf} (PS : ProtobufSpec PB) : MessageSpec PS t :=
  {| msg_wire := wire; msg_valid := valid; msg_merge := merge |}.
Next Obligation. solve_encode_wire. Qed.
Next Obligation. solve_decode_wire. Qed.
Next Obligation. solve_merge_base. Qed.
Next Obligation. intros. solve_advances decode_field. Qed.

#[global] Program Instance data : MessageData t partial :=
  {| msg_fromJSON := fromJSON; msg_toJSON := toJSON;
     msg_fromPartial := fromPartial; msg_full := full |}.
Next Obligation. solve_json fromJSON toJSON. Qed.
Next Obligation. solve_partial fromPartial full. Qed.

#[global] Instance schema_wire {PB : Protobuf} {PS : ProtobufSpec PB} : WireSchema wire schema.
Proof. solve_schema_wire wire schema. Qed.

#[global] Instance schema_merge : MergeSchema merge schema.
Proof. solve_schema_merge merge schema. Qed.

(** Its row in the table of message types. *)
Definition message {PB : Protobuf} {PS : ProtobufSpec PB} : message_type :=
  plain_message "RequestLoadSnapshotChunk" nothing true schema only.

#[global] Instance message_lawful {PB : Protobuf} (PS : ProtobufSpec PB) : Lawful message.
Proof. solve_lawful decode_field fromJSON only. Qed.

End RequestLoadSnapshotChunk.

(** ** [RequestApplySnapshotChunk] (tendermint/abci/types.js) *)

Module RequestApplySnapshotChunk.

Record t := mk {
  index : number;
  chunk : option bytes;
  sender : string;
}.

#[global] Instance t_eta : Settable t := λ m, mk m.(index) m.(chunk) m.(sender).

Definition base : t := mk 0 None "".

Definition encode {PB : Protobuf} (message : t) (writer : Writer) : result Writer :=
  Ok writer
  @>= pure (when (num_neq message.(index) 0) (fun w => w @> uint32 8 @> uint32 message.(index)))
  @>= bytes_field 18 message.(chunk)
  @>= pure (when (str_neq message.(sender) "") (fun w => w @> uint32 26 @> string_ message.(sender))).

Definition decode_field {PB : Protobuf} (tag : Z) (message : t) : RM t :=
  match field_number tag with
  | 1 => v ← read_uint32; mret (message <| index := Int v |>)
  | 2 => v ← read_bytes; mret (message <| chunk := Some v |>)
  | 3 => v ← read_string; mret (message <| sender := v |>)
  | _ => _ ← skipType (wire_type tag); mret message
  end.

Definition decode {PB : Protobuf} (length : option Z) : RM t :=
  decode_message length base decode_field.

Definition fromJSON (object : js) : result t :=
  index' ← field_or object "index" js_Number 0;
  chunk' ← field_or object "chunk" (to_some bytesFromBase64) None;
  sender' ← field_or object "sender" to_string "";
  Ok (mk index' chunk' sender').

Definition toJSON (message : t) : js :=
  Obj ([("index", Num message.(index))] ++
   prop_opt "chunk" (fun b => Str (base64FromBytes b)) message.(chunk) ++
   [("sender", Str message.(sender))]).

Record partial := mkPartial {
  p_index : option number;
  p_chunk : option bytes;
  p_sender : option string;
}.

Definition fromPartial (object : partial) : t := {|
  index := object.(p_index) ?? Int 0;
  chunk := Some (object.(p_chunk) ?? []);
  sender := object.(p_sender) ?? "";
|}.

(** The object with no property given. *)
Definition nothing : partial := mkPartial None None None.

(** The bytes [encode] writes. *)
Definition wire {PB : Protobuf} {PS : ProtobufSpec PB} (m : t) : bytes :=
  f_number e_uint32 8 m.(index) ++
  f_bytes 18 m.(chunk) ++
  f_string 26 m.(sender).

Definition valid (m : t) : Prop :=
  uint32_ok m.(index).

(** The byte fields hold arrays, as the interface declares. *)
Definition typed (m : t) : bool := given m.(chunk).

(** The message without its empty byte arrays. *)
Definition normal (m : t) : t := {|
  index := m.(index);
  chunk := nonempty m.(chunk);
  sender := m.(sender);
|}.

Definition encodable {PB : Protobuf} {PS : ProtobufSpec PB} (m : t) : Prop :=
  typed m = true ∧ valid m ∧ small (wire m).

Definition merge (m a : t) : t := {|
  index := later_number m.(index) a.(index);
  chunk := later_bytes m.(chunk) a.(chunk);
  sender := later_string m.(sender) a.(sender);
|}.

(** A whole message seen as a partial one. *)
Definition full (m : t) : partial := {|
  p_index := Some m.(index);
  p_chunk := m.(chunk);
  p_sender := Some m.(sender);
|}.

(** The message as its [.proto] file declares it. *)
Definition schema (m : t) : list field :=
  [implicit 1 (VInt Uint32 m.(index));
   implicit 2 (byte_array m.(chunk));
   implicit 3 (VString m.(sender))].

(** The message with its default for every property that is not kept. *)
Definition only (kept : string → bool) (m : t) : t := {|
  index := if kept "index" then m.(index) else Int 0;
  chunk := if kept "chunk" then m.(chunk) else None;
  sender := if kept "sender" then m.(sender) else "";
|}.

#[global] Instance codec {PB : Protobuf} : FallibleCodec t :=
  {| fmsg_base := base; fmsg_encode := encode; fmsg_field := decode_field |}.

#[global] Program Instance spec {PB : Protobuf} (PS : ProtobufSpec PB) : FallibleSpec PS t :=
  {| fmsg_wire := wire; fmsg_valid := valid; fmsg_typed := typed; fmsg_normal := normal;
     fmsg_merge := merge |}.
Next Obligation. solve_fencode_wire. Qed.
Next Obligation. intros. solve_fencode_throws encode typed. Qed.
Next Obligation. solve_fdecode_wire. Qed.
Next Obligation. solve_fmerge_base. Qed.
Next Obligation. intros. solve_fadvances decode_field. Qed.

#[global] Program Instance given_ : FalliblePartial t partial :=
  {| fmsg_fromPartial := fromPartial; fmsg_full := full; fmsg_given := typed |}.
Next Obligation. solve_fgiven fromPartial typed. Qed.
Next Obligation. solve_fpartial fromPartial full typed. Qed.

#[global] Program Instance json : FallibleJson t :=
  {| fmsg_fromJSON := fromJSON; fmsg_toJSON := toJSON;
     fmsg_named := fun _ => true; fmsg_known := fun m => m |}.
Next Obligation. solve_fjson fromJSON toJSON. Qed.
Next Obligation. reflexivity. Qed.

#[global] Instance schema_wire {PB : Protobuf} {PS : ProtobufSpec PB} : WireSchema wire schema.
Proof. solve_schema_wire wire schema. Qed.

#[global] Instance schema_normal : NormalSchema normal schema.
Proof. solve_schema_normal normal schema. Qed.

#[global] Instance schema_merge : MergeSchema merge schema.
Proof. solve_schema_merge merge schema. Qed.

(** Its row in the table of message types. *)
Definition message {PB : Protobuf} {PS : ProtobufSpec PB} : message_type :=
  fallible_message "RequestApplySnapshotChunk" nothing true schema only.

#[global] Instance message_lawful {PB : Protobuf} (PS : ProtobufSpec PB) : Lawful message.
Proof. solve_lawful decode_field fromJSON only. Qed.

End RequestApplySnapshotChunk.

(** ** [Request] (tendermint/abci/types.js) *)

Module Request.

Record t := mk {
  echo : option RequestEcho.t;
  flush : option RequestFlush.t;
  info : option RequestInfo.t;
  setOption : option RequestSetOption.t;
  initChain : option RequestInitChain.t;
  query : option RequestQuery.t;
  beginBlock : option RequestBeginBlock.t;
  checkTx : option RequestCheckTx.t;
  deliverTx : option RequestDeliverTx.t;
  endBlock : option RequestEndBlock.t;
  commit : option RequestCommit.t;
  listSnapshots : option RequestListSnapshots.t;
  offerSnapshot : option RequestOfferSnapshot.t;
  loadSnapshotChunk : option RequestLoadSnapshotChunk.t;
  applySnapshotChunk : option RequestApplySnapshotChunk.t;
}.

#[global] Instance t_eta : Settable t := λ m, mk m.(echo) m.(flush) m.(info) m.(setOption)
  m.(initChain) m.(query) m.(beginBlock) m.(checkTx) m.(deliverTx) m.(endBlock) m.(commit)
  m.(listSnapshots) m.(offerSnapshot) m.(loadSnapshotChunk) m.(applySnapshotChunk).

Definition base : t := mk None None None None None None None None None None None None None None
  None.

Definition encode {PB : Protobuf} (message : t) (writer : Writer) : result Writer :=
  Ok writer
  @>= pure (defined message.(echo) (fun v w => w @> uint32 10 @> fork @> RequestEcho.encode v @> ldelim))
  @>= pure (defined message.(flush) (fun v w => w @> uint32 18 @> fork @> RequestFlush.encode v @> ldelim))
  @>= pure (defined message.(info) (fun v w => w @> uint32 26 @> fork @> RequestInfo.encode v @> ldelim))
  @>= pure (defined message.(setOption) (fun v w => w @> uint32 34 @> fork @> RequestSetOption.encode v @> ldelim))
  @>= defined_e message.(initChain) (submessage 42 RequestInitChain.encode)
  @>= defined_e message.(query) (submessage 50 RequestQuery.encode)
  @>= defined_e message.(beginBlock) (submessage 58 RequestBeginBlock.encode)
  @>= defined_e message.(checkTx) (submessage 66 RequestCheckTx.encode)
  @>= defined_e message.(deliverTx) (submessage 74 RequestDeliverTx.encode)
  @>= pure (defined message.(endBlock) (fun v w => w @> uint32 82 @> fork @> RequestEndBlock.encode v @> ldelim))
  @>= pure (defined message.(commit) (fun v w => w @> uint32 90 @> fork @> RequestCommit.encode v @> ldelim))
  @>= pure (defined message.(listSnapshots) (fun v w => w @> uint32 98 @> fork @> RequestListSnapshots.encode v @> ldelim))
  @>= defined_e message.(offerSnapshot) (submessage 106 RequestOfferSnapshot.encode)
  @>= pure (defined message.(loadSnapshotChunk) (fun v w => w @> uint32 114 @> fork @> RequestLoadSnapshotChunk.encode v @> ldelim))
  @>= defined_e message.(applySnapshotChunk) (submessage 122 RequestApplySnapshotChunk.encode).

Definition decode_field {PB : Protobuf} (tag : Z) (message : t) : RM t :=
  match field_number tag with
  | 1 => v ← read_nested RequestEcho.decode; mret (message <| echo := Some v |>)
  | 2 => v ← read_nested RequestFlush.decode; mret (message <| flush := Some v |>)
  | 3 => v ← read_nested RequestInfo.decode; mret (message <| info := Some v |>)
  | 4 => v ← read_nested RequestSetOption.decode; mret (message <| setOption := Some v |>)
  | 5 => v ← read_nested RequestInitChain.decode; mret (message <| initChain := Some v |>)
  | 6 => v ← read_nested RequestQuery.decode; mret (message <| query := Some v |>)
  | 7 => v ← read_nested RequestBeginBlock.decode; mret (message <| beginBlock := Some v |>)
  | 8 => v ← read_nested RequestCheckTx.decode; mret (message <| checkTx := Some v |>)
  | 9 => v ← read_nested RequestDeliverTx.decode; mret (message <| deliverTx := Some v |>)
  | 10 => v ← read_nested RequestEndBlock.decode; mret (message <| endBlock := Some v |>)
  | 11 => v ← read_nested RequestCommit.decode; mret (message <| commit := Some v |>)
  | 12 => v ← read_nested RequestListSnapshots.decode; mret (message <| listSnapshots := Some v |>)
  | 13 => v ← read_nested RequestOfferSnapshot.decode; mret (message <| offerSnapshot := Some v |>)
  | 14 => v ← read_nested RequestLoadSnapshotChunk.decode;
         mret (message <| loadSnapshotChunk := Some v |>)
  | 15 => v ← read_nested RequestApplySnapshotChunk.decode;
         mret (message <| applySnapshotChunk := Some v |>)
  | _ => _ ← skipType (wire_type tag); mret message
  end.

Definition decode {PB : Protobuf} (length : option Z) : RM t :=
  decode_message length base decode_field.

Definition fromJSON (object : js) : result t :=
  echo' ← field_or object "echo" (to_some RequestEcho.fromJSON) None;
  flush' ← field_or object "flush" (to_some RequestFlush.fromJSON) None;
  info' ← field_or object "info" (to_some RequestInfo.fromJSON) None;
  setOption' ← field_or object "setOption" (to_some RequestSetOption.fromJSON) None;
  initChain' ← field_or object "initChain" (to_some RequestInitChain.fromJSON) None;
  query' ← field_or object "query" (to_some RequestQuery.fromJSON) None;
  beginBlock' ← field_or object "beginBlock" (to_some RequestBeginBlock.fromJSON) None;
  checkTx' ← field_or object "checkTx" (to_some RequestCheckTx.fromJSON) None;
  deliverTx' ← field_or object "deliverTx" (to_some RequestDeliverTx.fromJSON) None;
  endBlock' ← field_or object "endBlock" (to_some RequestEndBlock.fromJSON) None;
  commit' ← field_or object "commit" (to_some RequestCommit.fromJSON) None;
  listSnapshots' ← field_or object "listSnapshots" (to_some RequestListSnapshots.fromJSON) None;
  offerSnapshot' ← field_or object "offerSnapshot" (to_some RequestOfferSnapshot.fromJSON) None;
  loadSnapshotChunk' ← field_or object "loadSnapshotChunk" (to_some RequestLoadSnapshotChunk.fromJSON) None;
  applySnapshotChunk' ← field_or object "applySnapshotChunk" (to_some RequestApplySnapshotChunk.fromJSON) None;
  Ok (mk echo' flush' info' setOption' initChain' query' beginBlock' checkTx' deliverTx'
    endBlock' commit' listSnapshots' offerSnapshot' loadSnapshotChunk' applySnapshotChunk').

Definition toJSON (message : t) : result js :=
  initChain' ← option_result RequestInitChain.toJSON message.(initChain);
  beginBlock' ← option_result RequestBeginBlock.toJSON message.(beginBlock);
  Ok (Obj (prop_opt "echo" RequestEcho.toJSON message.(echo) ++
   prop_opt "flush" RequestFlush.toJSON message.(flush) ++
   prop_opt "info" RequestInfo.toJSON message.(info) ++
   prop_opt "setOption" RequestSetOption.toJSON message.(setOption) ++
   prop_opt "initChain" id initChain' ++
   prop_opt "query" RequestQuery.toJSON message.(query) ++
   prop_opt "beginBlock" id beginBlock' ++
   prop_opt "checkTx" RequestCheckTx.toJSON message.(checkTx) ++
   prop_opt "deliverTx" RequestDeliverTx.toJSON message.(deliverTx) ++
   prop_opt "endBlock" RequestEndBlock.toJSON message.(endBlock) ++
   prop_opt "commit" RequestCommit.toJSON message.(commit) ++
   prop_opt "listSnapshots" RequestListSnapshots.toJSON message.(listSnapshots) ++
   prop_opt "offerSnapshot" RequestOfferSnapshot.toJSON message.(offerSnapshot) ++
   prop_opt "loadSnapshotChunk" RequestLoadSnapshotChunk.toJSON message.(loadSnapshotChunk) ++
   prop_opt "applySnapshotChunk" RequestApplySnapshotChunk.toJSON message.(applySnapshotChunk))).

Record partial := mkPartial {
  p_echo : option RequestEcho.partial;
  p_flush : option RequestFlush.partial;
  p_info : option RequestInfo.partial;
  p_setOption : option RequestSetOption.partial;
  p_initChain : option RequestInitChain.partial;
  p_query : option RequestQuery.partial;
  p_beginBlock : option RequestBeginBlock.partial;
  p_checkTx : option RequestCheckTx.partial;
  p_deliverTx : option RequestDeliverTx.partial;
  p_endBlock : option RequestEndBlock.partial;
  p_commit : option RequestCommit.partial;
  p_listSnapshots : option RequestListSnapshots.partial;
  p_offerSnapshot : option RequestOfferSnapshot.partial;
  p_loadSnapshotChunk : option RequestLoadSnapshotChunk.partial;
  p_applySnapshotChunk : option RequestApplySnapshotChunk.partial;
}.

Definition fromPartial (object : partial) : t := {|
  echo := RequestEcho.fromPartial <$> object.(p_echo);
  flush := RequestFlush.fromPartial <$> object.(p_flush);
  info := RequestInfo.fromPartial <$> object.(p_info);
  setOption := RequestSetOption.fromPartial <$> object.(p_setOption);
  initChain := RequestInitChain.fromPartial <$> object.(p_initChain);
  query := RequestQuery.fromPartial <$> object.(p_query);
  beginBlock := RequestBeginBlock.fromPartial <$> object.(p_beginBlock);
  checkTx := RequestCheckTx.fromPartial <$> object.(p_checkTx);
  deliverTx := RequestDeliverTx.fromPartial <$> object.(p_deliverTx);
  endBlock := RequestEndBlock.fromPartial <$> object.(p_endBlock);
  commit := RequestCommit.fromPartial <$> object.(p_commit);
  listSnapshots := RequestListSnapshots.fromPartial <$> object.(p_listSnapshots);
  offerSnapshot := RequestOfferSnapshot.fromPartial <$> object.(p_offerSnapshot);
  loadSnapshotChunk := RequestLoadSnapshotChunk.fromPartial <$> object.(p_loadSnapshotChunk);
  applySnapshotChunk := RequestApplySnapshotChunk.fromPartial <$> object.(p_applySnapshotChunk);
|}.

(** The object with no property given. *)
Definition nothing : partial := mkPartial None None None None None None None None None None None
  None None None None.

(** The bytes [encode] writes. *)
Definition wire {PB : Protobuf} {PS : ProtobufSpec PB} (m : t) : bytes :=
  f_message 10 RequestEcho.wire m.(echo) ++
  f_message 18 RequestFlush.wire m.(flush) ++
  f_message 26 RequestInfo.wire m.(info) ++
  f_message 34 RequestSetOption.wire m.(setOption) ++
  f_message 42 RequestInitChain.wire m.(initChain) ++
  f_message 50 RequestQuery.wire m.(query) ++
  f_message 58 RequestBeginBlock.wire m.(beginBlock) ++
  f_message 66 RequestCheckTx.wire m.(checkTx) ++
  f_message 74 RequestDeliverTx.wire m.(deliverTx) ++
  f_message 82 RequestEndBlock.wire m.(endBlock) ++
  f_message 90 RequestCommit.wire m.(commit) ++
  f_message 98 RequestListSnapshots.wire m.(listSnapshots) ++
  f_message 106 RequestOfferSnapshot.wire m.(offerSnapshot) ++
  f_message 114 RequestLoadSnapshotChunk.wire m.(loadSnapshotChunk) ++
  f_message 122 RequestApplySnapshotChunk.wire m.(applySnapshotChunk).

Definition valid (m : t) : Prop :=
  from_option RequestEcho.valid True m.(echo) ∧ from_option RequestFlush.valid True m.(flush) ∧ from_option RequestInfo.valid True m.(info) ∧ from_option RequestSetOption.valid True m.(setOption) ∧ from_option RequestInitChain.valid True m.(initChain) ∧ from_option RequestQuery.valid True m.(query) ∧ from_option RequestBeginBlock.valid True m.(beginBlock) ∧ from_option RequestCheckTx.valid True m.(checkTx) ∧ from_option RequestDeliverTx.valid True m.(deliverTx) ∧ from_option RequestEndBlock.valid True m.(endBlock) ∧ from_option RequestCommit.valid True m.(commit) ∧ from_option RequestListSnapshots.valid True m.(listSnapshots) ∧ from_option RequestOfferSnapshot.valid True m.(offerSnapshot) ∧ from_option RequestLoadSnapshotChunk.valid True m.(loadSnapshotChunk) ∧ from_option RequestApplySnapshotChunk.valid True m.(applySnapshotChunk).

(** The byte fields hold arrays, as the interface declares. *)
Definition typed (m : t) : bool := from_option RequestInitChain.typed true m.(initChain) && from_option RequestQuery.typed true m.(query) && from_option RequestBeginBlock.typed true m.(beginBlock) && from_option RequestCheckTx.typed true m.(checkTx) && from_option RequestDeliverTx.typed true m.(deliverTx) && from_option RequestOfferSnapshot.typed true m.(offerSnapshot) && from_option RequestApplySnapshotChunk.typed true m.(applySnapshotChunk).

(** The message without its empty byte arrays. *)
Definition normal (m : t) : t := {|
  echo := m.(echo);
  flush := m.(flush);
  info := m.(info);
  setOption := m.(setOption);
  initChain := RequestInitChain.normal <$> m.(initChain);
  query := RequestQuery.normal <$> m.(query);
  beginBlock := RequestBeginBlock.normal <$> m.(beginBlock);
  checkTx := RequestCheckTx.normal <$> m.(checkTx);
  deliverTx := RequestDeliverTx.normal <$> m.(deliverTx);
  endBlock := m.(endBlock);
  commit := m.(commit);
  listSnapshots := m.(listSnapshots);
  offerSnapshot := RequestOfferSnapshot.normal <$> m.(offerSnapshot);
  loadSnapshotChunk := m.(loadSnapshotChunk);
  applySnapshotChunk := RequestApplySnapshotChunk.normal <$> m.(applySnapshotChunk);
|}.

(** The dates are valid. *)
Definition timed (m : t) : bool := from_option RequestInitChain.timed true m.(initChain) && from_option RequestBeginBlock.timed true m.(beginBlock).

(** The enumeration fields hold members. *)
Definition named (m : t) : bool := from_option RequestBeginBlock.named true m.(beginBlock) && from_option RequestCheckTx.named true m.(checkTx).

(** The message with the numbers [toJSON] does not know replaced. *)
Definition known (m : t) : t := {|
  echo := m.(echo);
  flush := m.(flush);
  info := m.(info);
  setOption := m.(setOption);
  initChain := m.(initChain);
  query := m.(query);
  beginBlock := RequestBeginBlock.known <$> m.(beginBlock);
  checkTx := RequestCheckTx.known <$> m.(checkTx);
  deliverTx := m.(deliverTx);
  endBlock := m.(endBlock);
  commit := m.(commit);
  listSnapshots := m.(listSnapshots);
  offerSnapshot := m.(offerSnapshot);
  loadSnapshotChunk := m.(loadSnapshotChunk);
  applySnapshotChunk := m.(applySnapshotChunk);
|}.

Definition encodable {PB : Protobuf} {PS : ProtobufSpec PB} (m : t) : Prop :=
  typed m = true ∧ valid m ∧ small (wire m).

Definition merge (m a : t) : t := {|
  echo := later_message m.(echo) a.(echo);
  flush := later_message m.(flush) a.(flush);
  info := later_message m.(info) a.(info);
  setOption := later_message m.(setOption) a.(setOption);
  initChain := later_message m.(initChain) (RequestInitChain.normal <$> a.(initChain));
  query := later_message m.(query) (RequestQuery.normal <$> a.(query));
  beginBlock := later_message m.(beginBlock) (RequestBeginBlock.normal <$> a.(beginBlock));
  checkTx := later_message m.(checkTx) (RequestCheckTx.normal <$> a.(checkTx));
  deliverTx := later_message m.(deliverTx) (RequestDeliverTx.normal <$> a.(deliverTx));
  endBlock := later_message m.(endBlock) a.(endBlock);
  commit := later_message m.(commit) a.(commit);
  listSnapshots := later_message m.(listSnapshots) a.(listSnapshots);
  offerSnapshot := later_message m.(offerSnapshot) (RequestOfferSnapshot.normal <$> a.(offerSnapshot));
  loadSnapshotChunk := later_message m.(loadSnapshotChunk) a.(loadSnapshotChunk);
  applySnapshotChunk := later_message m.(applySnapshotChunk) (RequestApplySnapshotChunk.normal <$> a.(applySnapshotChunk));
|}.

(** A whole message seen as a partial one. *)
Definition full (m : t) : partial := {|
  p_echo := RequestEcho.full <$> m.(echo);
  p_flush := RequestFlush.full <$> m.(flush);
  p_info := RequestInfo.full <$> m.(info);
  p_setOption := RequestSetOption.full <$> m.(setOption);
  p_initChain := RequestInitChain.full <$> m.(initChain);
  p_query := RequestQuery.full <$> m.(query);
  p_beginBlock := RequestBeginBlock.full <$> m.(beginBlock);
  p_checkTx := RequestCheckTx.full <$> m.(checkTx);
  p_deliverTx := RequestDeliverTx.full <$> m.(deliverTx);
  p_endBlock := RequestEndBlock.full <$> m.(endBlock);
  p_commit := RequestCommit.full <$> m.(commit);
  p_listSnapshots := RequestListSnapshots.full <$> m.(listSnapshots);
  p_offerSnapshot := RequestOfferSnapshot.full <$> m.(offerSnapshot);
  p_loadSnapshotChunk := RequestLoadSnapshotChunk.full <$> m.(loadSnapshotChunk);
  p_applySnapshotChunk := RequestApplySnapshotChunk.full <$> m.(applySnapshotChunk);
|}.

(** The message as its [.proto] file declares it. *)
Definition schema (m : t) : list field :=
  [singular 1 (Member "value") (message_value RequestEcho.schema) m.(echo);
   singular 2 (Member "value") (message_value RequestFlush.schema) m.(flush);
   singular 3 (Member "value") (message_value RequestInfo.schema) m.(info);
   singular 4 (Member "value") (message_value RequestSetOption.schema) m.(setOption);
   singular 5 (Member "value") (message_value RequestInitChain.schema) m.(initChain);
   singular 6 (Member "value") (message_value RequestQuery.schema) m.(query);
   singular 7 (Member "value") (message_value RequestBeginBlock.schema) m.(beginBlock);
   singular 8 (Member "value") (message_value RequestCheckTx.schema) m.(checkTx);
   singular 9 (Member "value") (message_value RequestDeliverTx.schema) m.(deliverTx);
   singular 10 (Member "value") (message_value RequestEndBlock.schema) m.(endBlock);
   singular 11 (Member "value") (message_value RequestCommit.schema) m.(commit);
   singular 12 (Member "value") (message_value RequestListSnapshots.schema) m.(listSnapshots);
   singular 13 (Member "value") (message_value RequestOfferSnapshot.schema) m.(offerSnapshot);
   singular 14 (Member "value") (message_value RequestLoadSnapshotChunk.schema) m.(loadSnapshotChunk);
   singular 15 (Member "value") (message_value RequestApplySnapshotChunk.schema) m.(applySnapshotChunk)].

(** The message with its default for every property that is not kept. *)
Definition only (kept : string → bool) (m : t) : t := {|
  echo := if kept "echo" then m.(echo) else None;
  flush := if kept "flush" then m.(flush) else None;
  info := if kept "info" then m.(info) else None;
  setOption := if kept "setOption" then m.(setOption) else None;
  initChain := if kept "initChain" then m.(initChain) else None;
  query := if kept "query" then m.(query) else None;
  beginBlock := if kept "beginBlock" then m.(beginBlock) else None;
  checkTx := if kept "checkTx" then m.(checkTx) else None;
  deliverTx := if kept "deliverTx" then m.(deliverTx) else None;
  endBlock := if kept "endBlock" then m.(endBlock) else None;
  commit := if kept "commit" then m.(commit) else None;
  listSnapshots := if kept "listSnapshots" then m.(listSnapshots) else None;
  offerSnapshot := if kept "offerSnapshot" then m.(offerSnapshot) else None;
  loadSnapshotChunk := if kept "loadSnapshotChunk" then m.(loadSnapshotChunk) else None;
  applySnapshotChunk := if kept "applySnapshotChunk" then m.(applySnapshotChunk) else None;
|}.

#[global] Instance codec {PB : Protobuf} : FallibleCodec t :=
  {| fmsg_base := base; fmsg_encode := encode; fmsg_field := decode_field |}.

#[global] Program Instance spec {PB : Protobuf} (PS : ProtobufSpec PB) : FallibleSpec PS t :=
  {| fmsg_wire := wire; fmsg_valid := valid; fmsg_typed := typed; fmsg_normal := normal;
     fmsg_merge := merge |}.
Next Obligation. solve_fencode_wire. Qed.
Next Obligation. intros. solve_fencode_throws encode typed. Qed.
Next Obligation. solve_fdecode_wire. Qed.
Next Obligation. solve_fmerge_base. Qed.
Next Obligation. intros. solve_fadvances decode_field. Qed.

#[global] Program Instance given_ : FalliblePartial t partial :=
  {| fmsg_fromPartial := fromPartial; fmsg_full := full; fmsg_given := typed |}.
Next Obligation. solve_fgiven fromPartial typed. Qed.
Next Obligation. solve_fpartial fromPartial full typed. Qed.

#[global] Program Instance json : DatedJson t :=
  {| dmsg_fromJSON := fromJSON; dmsg_toJSON := toJSON; dmsg_timed := timed;
     dmsg_named := named; dmsg_known := known |}.
Next Obligation. solve_djson fromJSON toJSON timed. Qed.
Next Obligation. solve_dthrows toJSON timed. Qed.
Next Obligation. solve_known named known. Qed.

#[global] Instance schema_wire {PB : Protobuf} {PS : ProtobufSpec PB} : WireSchema wire schema.
Proof. solve_schema_wire wire schema. Qed.

#[global] Instance schema_normal : NormalSchema normal schema.
Proof. solve_schema_normal normal schema. Qed.

#[global] Instance schema_merge : MergeSchema merge schema.
Proof. solve_schema_merge merge schema. Qed.

(** Its row in the table of message types. *)
Definition message {PB : Protobuf} {PS : ProtobufSpec PB} : message_type :=
  dated_message "Request" nothing true schema only.

#[global] Instance message_lawful {PB : Protobuf} (PS : ProtobufSpec PB) : Lawful message.
Proof. solve_lawful decode_field fromJSON only. Qed.

End Request.

(** ** [ResponseException] (tendermint/abci/types.js) *)

Module ResponseException.

Record t := mk {
  error_ : string;
}.

#[global] Instance t_eta : Settable t := λ m, mk m.(error_).

Definition base : t := mk "".

Definition encode {PB : Protobuf} (message : t) (writer : Writer) : Writer :=
  writer
  @> when (str_neq message.(error_) "") (fun w => w @> uint32 10 @> string_ message.(error_)).

Definition decode_field {PB : Protobuf} (tag : Z) (message : t) : RM t :=
  match field_number tag with
  | 1 => v ← read_string; mret (message <| error_ := v |>)
  | _ => _ ← skipType (wire_type tag); mret message
  end.

Definition decode {PB : Protobuf} (length : option Z) : RM t :=
  decode_message length base decode_field.

Definition fromJSON (object : js) : result t :=
  error_' ← field_or object "error" to_string "";
  Ok (mk error_').

Definition toJSON (message : t) : js :=
  Obj ([("error", Str message.(error_))]).

Record partial := mkPartial {
  p_error : option string;
}.

Definition fromPartial (object : partial) : t := {|
  error_ := object.(p_error) ?? "";
|}.

(** The object with no property given. *)
Definition nothing : partial := mkPartial None.

(** The bytes [encode] writes. *)
Definition wire {PB : Protobuf} {PS : ProtobufSpec PB} (m : t) : bytes :=
  f_string 10 m.(error_).

Definition valid (m : t) : Prop :=
  True.

Definition encodable {PB : Protobuf} {PS : ProtobufSpec PB} (m : t) : Prop :=
  valid m ∧ small (wire m).

Definition merge (m a : t) : t := {|
  error_ := later_string m.(error_) a.(error_);
|}.

(** A whole message seen as a partial one. *)
Definition full (m : t) : partial := {|
  p_error := Some m.(error_);
|}.

(** The message as its [.proto] file declares it. *)
Definition schema (m : t) : list field :=
  [implicit 1 (VString m.(error_))].

(** The message with its default for every property that is not kept. *)
Definition only (kept : string → bool) (m : t) : t := {|
  error_ := if kept "error" then m.(error_) else "";
|}.

#[global] Instance codec {PB : Protobuf} : MessageCodec t :=
  {| msg_base := base; msg_encode := encode; msg_field := decode_field |}.

#[global] Program Instance spec {PB : Protobuf} (PS : ProtobufSpec PB) : MessageSpec PS t :=
  {| msg_wire := wire; msg_valid := valid; msg_merge := merge |}.
Next Obligation. solve_encode_wire. Qed.
Next Obligation. solve_decode_wire. Qed.
Next Obligation. solve_merge_base. Qed.
Next Obligation. intros. solve_advances decode_field. Qed.

#[global] Program Instance data : MessageData t partial :=
  {| msg_fromJSON := fromJSON; msg_toJSON := toJSON;
     msg_fromPartial := fromPartial; msg_full := full |}.
Next Obligation. solve_json fromJSON toJSON. Qed.
Next Obligation. solve_partial fromPartial full. Qed.

#[global] Instance schema_wire {PB : Protobuf} {PS : ProtobufSpec PB} : WireSchema wire schema.
Proof. solve_schema_wire wire schema. Qed.

#[global] Instance schema_merge : MergeSchema merge schema.
Proof. solve_schema_merge merge schema. Qed.

(** Its row in the table of message types. *)
Definition message {PB : Protobuf} {PS : ProtobufSpec PB} : message_type :=
  plain_message "ResponseException" nothing true schema only.

#[global] Instance message_lawful {PB : Protobuf} (PS : ProtobufSpec PB) : Lawful message.
Proof. solve_lawful decode_field fromJSON only. Qed.

End ResponseException.

(** ** [ResponseEcho] (tendermint/abci/types.js) *)

Module ResponseEcho.

Record t := mk {
  message_ : string;
}.

#[global] Instance t_eta : Settable t := λ m, mk m.(message_).

Definition base : t := mk "".

Definition encode {PB : Protobuf} (message : t) (writer : Writer) : Writer :=
  writer
  @> when (str_neq message.(message_) "") (fun w => w @> uint32 10 @> string_ message.(message_)).

Definition decode_field {PB : Protobuf} (tag : Z) (message : t) : RM t :=
  match field_number tag with
  | 1 => v ← read_string; mret (message <| message_ := v |>)
  | _ => _ ← skipType (wire_type tag); mret message
  end.

Definition decode {PB : Protobuf} (length : option Z) : RM t :=
  decode_message length base decode_field.

Definition fromJSON (object : js) : result t :=
  message_' ← field_or object "message" to_string "";
  Ok (mk message_').

Definition toJSON (message : t) : js :=
  Obj ([("message", Str message.(message_))]).

Record partial := mkPartial {
  p_message : option string;
}.

Definition fromPartial (object : partial) : t := {|
  message_ := object.(p_message) ?? "";
|}.

(** The object with no property given. *)
Definition nothing : partial := mkPartial None.

(** The bytes [encode] writes. *)
Definition wire {PB : Protobuf} {PS : ProtobufSpec PB} (m : t) : bytes :=
  f_string 10 m.(message_).

Definition valid (m : t) : Prop :=
  True.

Definition encodable {PB : Protobuf} {PS : ProtobufSpec PB} (m : t) : Prop :=
  valid m ∧ small (wire m).

Definition merge (m a : t) : t := {|
  message_ := later_string m.(message_) a.(message_);
|}.

(** A whole message seen as a partial one. *)
Definition full (m : t) : partial := {|
  p_message := Some m.(message_);
|}.

(** The message as its [.proto] file declares it. *)
Definition schema (m : t) : list field :=
  [implicit 1 (VString m.(message_))].

(** The message with its default for every property that is not kept. *)
Definition only (kept : string → bool) (m : t) : t := {|
  message_ := if kept "message" then m.(message_) else "";
|}.

#[global] Instance codec {PB : Protobuf} : MessageCodec t :=
  {| msg_base := base; msg_encode := encode; msg_field := decode_field |}.

#[global] Program Instance spec {PB : Protobuf} (PS : ProtobufSpec PB) : MessageSpec PS t :=
  {| msg_wire := wire; msg_valid := valid; msg_merge := merge |}.
Next Obligation. solve_encode_wire. Qed.
Next Obligation. solve_decode_wire. Qed.
Next Obligation. solve_merge_base. Qed.
Next Obligation. intros. solve_advances decode_field. Qed.

#[global] Program Instance data : MessageData t partial :=
  {| msg_fromJSON := fromJSON; msg_toJSON := toJSON;
     msg_fromPartial := fromPartial; msg_full := full |}.
Next Obligation. solve_json fromJSON toJSON. Qed.
Next Obligation. solve_partial fromPartial full. Qed.

#[global] Instance schema_wire {PB : Protobuf} {PS : ProtobufSpec PB} : WireSchema wire schema.
Proof. solve_schema_wire wire schema. Qed.

#[global] Instance schema_merge : MergeSchema merge schema.
Proof. solve_schema_merge merge schema. Qed.

(** Its row in the table of message types. *)
Definition message {PB : Protobuf} {PS : ProtobufSpec PB} : message_type :=
  plain_message "ResponseEcho" nothing true schema only.

#[global] Instance message_lawful {PB : Protobuf} (PS : ProtobufSpec PB) : Lawful message.
Proof. solve_lawful decode_field fromJSON only. Qed.

End ResponseEcho.

(** ** [ResponseFlush] (tendermint/abci/types.js) *)

Module ResponseFlush.

Record t := mk {}.

#[global] Instance t_eta : Settable t := λ m, m.

Definition base : t := mk.

Definition encode {PB : Protobuf} (message : t) (writer : Writer) : Writer :=
  writer.

Definition decode_field {PB : Protobuf} (tag : Z) (message : t) : RM t :=
  match field_number tag with
  | _ => _ ← skipType (wire_type tag); mret message
  end.

Definition decode {PB : Protobuf} (length : option Z) : RM t :=
  decode_message length base decode_field.

Definition fromJSON (object : js) : result t :=
  Ok base.

Definition toJSON (message : t) : js :=
  Obj [].

Record partial := mkPartial {}.

Definition fromPartial (object : partial) : t := base.

(** The object with no property given. *)
Definition nothing : partial := mkPartial.

(** The bytes [encode] writes. *)
Definition wire {PB : Protobuf} {PS : ProtobufSpec PB} (m : t) : bytes :=
  [].

Definition valid (m : t) : Prop :=
  True.

Definition encodable {PB : Protobuf} {PS : ProtobufSpec PB} (m : t) : Prop :=
  valid m ∧ small (wire m).

Definition merge (m a : t) : t := m.

(** A whole message seen as a partial one. *)
Definition full (m : t) : partial := mkPartial.

(** The message as its [.proto] file declares it. *)
Definition schema (m : t) : list field :=
  [].

(** The message with its default for every property that is not kept. *)
Definition only (kept : string → bool) (m : t) : t := m.

#[global] Instance codec {PB : Protobuf} : MessageCodec t :=
  {| msg_base := base; msg_encode := encode; msg_field := decode_field |}.

#[global] Program Instance spec {PB : Protobuf} (PS : ProtobufSpec PB) : MessageSpec PS t :=
  {| msg_wire := wire; msg_valid := valid; msg_merge := merge |}.
Next Obligation. solve_encode_wire. Qed.
Next Obligation. solve_decode_wire. Qed.
Next Obligation. solve_merge_base. Qed.
Next Obligation. intros. solve_advances decode_field. Qed.

#[global] Program Instance data : MessageData t partial :=
  {| msg_fromJSON := fromJSON; msg_toJSON := toJSON;
     msg_fromPartial := fromPartial; msg_full := full |}.
Next Obligation. solve_json fromJSON toJSON. Qed.
Next Obligation. solve_partial fromPartial full. Qed.

#[global] Instance schema_wire {PB : Protobuf} {PS : ProtobufSpec PB} : WireSchema wire schema.
Proof. solve_schema_wire wire schema. Qed.

#[global] Instance schema_merge : MergeSchema merge schema.
Proof. solve_schema_merge merge schema. Qed.

(** Its row in the table of message types. *)
Definition message {PB : Protobuf} {PS : ProtobufSpec PB} : message_type :=
  plain_message "ResponseFlush" nothing false schema only.

#[global] Instance message_lawful {PB : Protobuf} (PS : ProtobufSpec PB) : Lawful message.
Proof. solve_lawful decode_field fromJSON only. Qed.

End ResponseFlush.

(** ** [ResponseInfo] (tendermint/abci/types.js) *)

Module ResponseInfo.

Record t := mk {
  data_ : string;
  version : string;
  appVersion : number;
  lastBlockHeight : number;
  lastBlockAppHash : option bytes;
}.

#[global] Instance t_eta : Settable t := λ m, mk m.(data_) m.(version) m.(appVersion)
  m.(lastBlockHeight) m.(lastBlockAppHash).

Definition base : t := mk "" "" 0 0 None.

Definition encode {PB : Protobuf} (message : t) (writer : Writer) : result Writer :=
  Ok writer
  @>= pure (when (str_neq message.(data_) "") (fun w => w @> uint32 10 @> string_ message.(data_)))
  @>= pure (when (str_neq message.(version) "")
       (fun w => w @> uint32 18 @> string_ message.(version)))
  @>= pure (when (num_neq message.(appVersion) 0)
       (fun w => w @> uint32 24 @> uint64 message.(appVersion)))
  @>= pure (when (num_neq message.(lastBlockHeight) 0)
       (fun w => w @> uint32 32 @> int64 message.(lastBlockHeight)))
  @>= bytes_field 42 message.(lastBlockAppHash).

Definition decode_field {PB : Protobuf} (tag : Z) (message : t) : RM t :=
  match field_number tag with
  | 1 => v ← read_string; mret (message <| data_ := v |>)
  | 2 => v ← read_string; mret (message <| version := v |>)
  | 3 => v ← read_number read_uint64; mret (message <| appVersion := v |>)
  | 4 => v ← read_number read_int64; mret (message <| lastBlockHeight := v |>)
  | 5 => v ← read_bytes; mret (message <| lastBlockAppHash := Some v |>)
  | _ => _ ← skipType (wire_type tag); mret message
  end.

Definition decode {PB : Protobuf} (length : option Z) : RM t :=
  decode_message length base decode_field.

Definition fromJSON (object : js) : result t :=
  data_' ← field_or object "data" to_string "";
  version' ← field_or object "version" to_string "";
  appVersion' ← field_or object "appVersion" js_Number 0;
  lastBlockHeight' ← field_or object "lastBlockHeight" js_Number 0;
  lastBlockAppHash' ← field_or object "lastBlockAppHash" (to_some bytesFromBase64) None;
  Ok (mk data_' version' appVersion' lastBlockHeight' lastBlockAppHash').

Definition toJSON (message : t) : js :=
  Obj ([("data", Str message.(data_));
    ("version", Str message.(version));
    ("appVersion", Num message.(appVersion));
    ("lastBlockHeight", Num message.(lastBlockHeight))] ++
   prop_opt "lastBlockAppHash" (fun b => Str (base64FromBytes b)) message.(lastBlockAppHash)).

Record partial := mkPartial {
  p_data : option string;
  p_version : option string;
  p_appVersion : option number;
  p_lastBlockHeight : option number;
  p_lastBlockAppHash : option bytes;
}.

Definition fromPartial (object : partial) : t := {|
  data_ := object.(p_data) ?? "";
  version := object.(p_version) ?? "";
  appVersion := object.(p_appVersion) ?? Int 0;
  lastBlockHeight := object.(p_lastBlockHeight) ?? Int 0;
  lastBlockAppHash := Some (object.(p_lastBlockAppHash) ?? []);
|}.

(** The object with no property given. *)
Definition nothing : partial := mkPartial None None None None None.

(** The bytes [encode] writes. *)
Definition wire {PB : Protobuf} {PS : ProtobufSpec PB} (m : t) : bytes :=
  f_string 10 m.(data_) ++
  f_string 18 m.(version) ++
  f_number e_uint64 24 m.(appVersion) ++
  f_number e_int64 32 m.(lastBlockHeight) ++
  f_bytes 42 m.(lastBlockAppHash).

Definition valid (m : t) : Prop :=
  uint64_ok m.(appVersion) ∧ int64_ok m.(lastBlockHeight).

(** The byte fields hold arrays, as the interface declares. *)
Definition typed (m : t) : bool := given m.(lastBlockAppHash).

(** The message without its empty byte arrays. *)
Definition normal (m : t) : t := {|
  data_ := m.(data_);
  version := m.(version);
  appVersion := m.(appVersion);
  lastBlockHeight := m.(lastBlockHeight);
  lastBlockAppHash := nonempty m.(lastBlockAppHash);
|}.

Definition encodable {PB : Protobuf} {PS : ProtobufSpec PB} (m : t) : Prop :=
  typed m = true ∧ valid m ∧ small (wire m).

Definition merge (m a : t) : t := {|
  data_ := later_string m.(data_) a.(data_);
  version := later_string m.(version) a.(version);
  appVersion := later_number m.(appVersion) a.(appVersion);
  lastBlockHeight := later_number m.(lastBlockHeight) a.(lastBlockHeight);
  lastBlockAppHash := later_bytes m.(lastBlockAppHash) a.(lastBlockAppHash);
|}.

(** A whole message seen as a partial one. *)
Definition full (m : t) : partial := {|
  p_data := Some m.(data_);
  p_version := Some m.(version);
  p_appVersion := Some m.(appVersion);
  p_lastBlockHeight := Some m.(lastBlockHeight);
  p_lastBlockAppHash := m.(lastBlockAppHash);
|}.

(** The message as its [.proto] file declares it. *)
Definition schema (m : t) : list field :=
  [implicit 1 (VString m.(data_));
   implicit 2 (VString m.(version));
   implicit 3 (VInt Uint64 m.(appVersion));
   implicit 4 (VInt Int64 m.(lastBlockHeight));
   implicit 5 (byte_array m.(lastBlockAppHash))].

(** The message with its default for every property that is not kept. *)
Definition only (kept : string → bool) (m : t) : t := {|
  data_ := if kept "data" then m.(data_) else "";
  version := if kept "version" then m.(version) else "";
  appVersion := if kept "appVersion" then m.(appVersion) else Int 0;
  lastBlockHeight := if kept "lastBlockHeight" then m.(lastBlockHeight) else Int 0;
  lastBlockAppHash := if kept "lastBlockAppHash" then m.(lastBlockAppHash) else None;
|}.

#[global] Instance codec {PB : Protobuf} : FallibleCodec t :=
  {| fmsg_base := base; fmsg_encode := encode; fmsg_field := decode_field |}.

#[global] Program Instance spec {PB : Protobuf} (PS : ProtobufSpec PB) : FallibleSpec PS t :=
  {| fmsg_wire := wire; fmsg_valid := valid; fmsg_typed := typed; fmsg_normal := normal;
     fmsg_merge := merge |}.
Next Obligation. solve_fencode_wire. Qed.
Next Obligation. intros. solve_fencode_throws encode typed. Qed.
Next Obligation. solve_fdecode_wire. Qed.
Next Obligation. solve_fmerge_base. Qed.
Next Obligation. intros. solve_fadvances decode_field. Qed.

#[global] Program Instance given_ : FalliblePartial t partial :=
  {| fmsg_fromPartial := fromPartial; fmsg_full := full; fmsg_given := typed |}.
Next Obligation. solve_fgiven fromPartial typed. Qed.
Next Obligation. solve_fpartial fromPartial full typed. Qed.

#[global] Program Instance json : FallibleJson t :=
  {| fmsg_fromJSON := fromJSON; fmsg_toJSON := toJSON;
     fmsg_named := fun _ => true; fmsg_known := fun m => m |}.
Next Obligation. solve_fjson fromJSON toJSON. Qed.
Next Obligation. reflexivity. Qed.

#[global] Instance schema_wire {PB : Protobuf} {PS : ProtobufSpec PB} : WireSchema wire schema.
Proof. solve_schema_wire wire schema. Qed.

#[global] Instance schema_normal : NormalSchema normal schema.
Proof. solve_schema_normal normal schema. Qed.

#[global] Instance schema_merge : MergeSchema merge schema.
Proof. solve_schema_merge merge schema. Qed.

(** Its row in the table of message types. *)
Definition message {PB : Protobuf} {PS : ProtobufSpec PB} : message_type :=
  fallible_message "ResponseInfo" nothing true schema only.

#[global] Instance message_lawful {PB : Protobuf} (PS : ProtobufSpec PB) : Lawful message.
Proof. solve_lawful decode_field fromJSON only. Qed.

End ResponseInfo.

(** ** [ResponseSetOption] (tendermint/abci/types.js) *)

Module ResponseSetOption.

Record t := mk {
  code : number;
  log : string;
  info : string;
}.

#[global] Instance t_eta : Settable t := λ m, mk m.(code) m.(log) m.(info).

Definition base : t := mk 0 "" "".

Definition encode {PB : Protobuf} (message : t) (writer : Writer) : Writer :=
  writer
  @> when (num_neq message.(code) 0) (fun w => w @> uint32 8 @> uint32 message.(code))
  @> when (str_neq message.(log) "") (fun w => w @> uint32 26 @> string_ message.(log))
  @> when (str_neq message.(info) "") (fun w => w @> uint32 34 @> string_ message.(info)).

Definition decode_field {PB : Protobuf} (tag : Z) (message : t) : RM t :=
  match field_number tag with
  | 1 => v ← read_uint32; mret (message <| code := Int v |>)
  | 3 => v ← read_string; mret (message <| log := v |>)
  | 4 => v ← read_string; mret (message <| info := v |>)
  | _ => _ ← skipType (wire_type tag); mret message
  end.

Definition decode {PB : Protobuf} (length : option Z) : RM t :=
  decode_message length base decode_field.

Definition fromJSON (object : js) : result t :=
  code' ← field_or object "code" js_Number 0;
  log' ← field_or object "log" to_string "";
  info' ← field_or object "info" to_string "";
  Ok (mk code' log' info').

Definition toJSON (message : t) : js :=
  Obj ([("code", Num message.(code));
    ("log", Str message.(log));
    ("info", Str message.(info))]).

Record partial := mkPartial {
  p_code : option number;
  p_log : option string;
  p_info : option string;
}.

Definition fromPartial (object : partial) : t := {|
  code := object.(p_code) ?? Int 0;
  log := object.(p_log) ?? "";
  info := object.(p_info) ?? "";
|}.

(** The object with no property given. *)
Definition nothing : partial := mkPartial None None None.

(** The bytes [encode] writes. *)
Definition wire {PB : Protobuf} {PS : ProtobufSpec PB} (m : t) : bytes :=
  f_number e_uint32 8 m.(code) ++
  f_string 26 m.(log) ++
  f_string 34 m.(info).

Definition valid (m : t) : Prop :=
  uint32_ok m.(code).

Definition encodable {PB : Protobuf} {PS : ProtobufSpec PB} (m : t) : Prop :=
  valid m ∧ small (wire m).

Definition merge (m a : t) : t := {|
  code := later_number m.(code) a.(code);
  log := later_string m.(log) a.(log);
  info := later_string m.(info) a.(info);
|}.

(** A whole message seen as a partial one. *)
Definition full (m : t) : partial := {|
  p_code := Some m.(code);
  p_log := Some m.(log);
  p_info := Some m.(info);
|}.

(** The message as its [.proto] file declares it. *)
Definition schema (m : t) : list field :=
  [implicit 1 (VInt Uint32 m.(code));
   implicit 3 (VString m.(log));
   implicit 4 (VString m.(info))].

(** The message with its default for every property that is not kept. *)
Definition only (kept : string → bool) (m : t) : t := {|
  code := if kept "code" then m.(code) else Int 0;
  log := if kept "log" then m.(log) else "";
  info := if kept "info" then m.(info) else "";
|}.

#[global] Instance codec {PB : Protobuf} : MessageCodec t :=
  {| msg_base := base; msg_encode := encode; msg_field := decode_field |}.

#[global] Program Instance spec {PB : Protobuf} (PS : ProtobufSpec PB) : MessageSpec PS t :=
  {| msg_wire := wire; msg_valid := valid; msg_merge := merge |}.
Next Obligation. solve_encode_wire. Qed.
Next Obligation. solve_decode_wire. Qed.
Next Obligation. solve_merge_base. Qed.
Next Obligation. intros. solve_advances decode_field. Qed.

#[global] Program Instance data : MessageData t partial :=
  {| msg_fromJSON := fromJSON; msg_toJSON := toJSON;
     msg_fromPartial := fromPartial; msg_full := full |}.
Next Obligation. solve_json fromJSON toJSON. Qed.
Next Obligation. solve_partial fromPartial full. Qed.

#[global] Instance schema_wire {PB : Protobuf} {PS : ProtobufSpec PB} : WireSchema wire schema.
Proof. solve_schema_wire wire schema. Qed.

#[global] Instance schema_merge : MergeSchema merge schema.
Proof. solve_schema_merge merge schema. Qed.

(** Its row in the table of message types. *)
Definition message {PB : Protobuf} {PS : ProtobufSpec PB} : message_type :=
  plain_message "ResponseSetOption" nothing true schema only.

#[global] Instance message_lawful {PB : Protobuf} (PS : ProtobufSpec PB) : Lawful message.
Proof. solve_lawful decode_field fromJSON only. Qed.

End ResponseSetOption.

(** ** [ResponseInitChain] (tendermint/abci/types.js) *)

Module ResponseInitChain.

Record t := mk {
  consensusParams : option ConsensusParams.t;
  validators : list ValidatorUpdate.t;
  appHash : option bytes;
}.

#[global] Instance t_eta : Settable t := λ m, mk m.(consensusParams) m.(validators) m.(appHash).

Definition base : t := mk None [] None.

Definition encode {PB : Protobuf} (message : t) (writer : Writer) : result Writer :=
  Ok writer
  @>= pure (defined message.(consensusParams) (fun v w => w @> uint32 10 @> fork @> ConsensusParams.encode v @> ldelim))
  @>= each_e message.(validators) (submessage 18 ValidatorUpdate.encode)
  @>= bytes_field 26 message.(appHash).

Definition decode_field {PB : Protobuf} (tag : Z) (message : t) : RM t :=
  match field_number tag with
  | 1 => v ← read_nested ConsensusParams.decode; mret (message <| consensusParams := Some v |>)
  | 2 => v ← read_nested ValidatorUpdate.decode;
         mret (message <| validators := message.(validators) ++ [v] |>)
  | 3 => v ← read_bytes; mret (message <| appHash := Some v |>)
  | _ => _ ← skipType (wire_type tag); mret message
  end.

Definition decode {PB : Protobuf} (length : option Z) : RM t :=
  decode_message length base decode_field.

Definition fromJSON (object : js) : result t :=
  consensusParams' ← field_or object "consensusParams" (to_some ConsensusParams.fromJSON) None;
  validators' ← field_or object "validators" (to_list ValidatorUpdate.fromJSON) [];
  appHash' ← field_or object "appHash" (to_some bytesFromBase64) None;
  Ok (mk consensusParams' validators' appHash').

Definition toJSON (message : t) : js :=
  Obj (prop_opt "consensusParams" ConsensusParams.toJSON message.(consensusParams) ++
   [("validators", Arr (map ValidatorUpdate.toJSON message.(validators)))] ++
   prop_opt "appHash" (fun b => Str (base64FromBytes b)) message.(appHash)).

Record partial := mkPartial {
  p_consensusParams : option ConsensusParams.partial;
  p_validators : option (list ValidatorUpdate.partial);
  p_appHash : option bytes;
}.

Definition fromPartial (object : partial) : t := {|
  consensusParams := ConsensusParams.fromPartial <$> object.(p_consensusParams);
  validators := map ValidatorUpdate.fromPartial (object.(p_validators) ?? []);
  appHash := Some (object.(p_appHash) ?? []);
|}.

(** The object with no property given. *)
Definition nothing : partial := mkPartial None None None.

(** The bytes [encode] writes. *)
Definition wire {PB : Protobuf} {PS : ProtobufSpec PB} (m : t) : bytes :=
  f_message 10 ConsensusParams.wire m.(consensusParams) ++
  f_repeated 18 ValidatorUpdate.wire m.(validators) ++
  f_bytes 26 m.(appHash).

Definition valid (m : t) : Prop :=
  from_option ConsensusParams.valid True m.(consensusParams) ∧ Forall ValidatorUpdate.valid m.(validators).

(** The byte fields hold arrays, as the interface declares. *)
Definition typed (m : t) : bool := forallb ValidatorUpdate.typed m.(validators) && given m.(appHash).

(** The message without its empty byte arrays. *)
Definition normal (m : t) : t := {|
  consensusParams := m.(consensusParams);
  validators := map ValidatorUpdate.normal m.(validators);
  appHash := nonempty m.(appHash);
|}.

Definition encodable {PB : Protobuf} {PS : ProtobufSpec PB} (m : t) : Prop :=
  typed m = true ∧ valid m ∧ small (wire m).

Definition merge (m a : t) : t := {|
  consensusParams := later_message m.(consensusParams) a.(consensusParams);
  validators := m.(validators) ++ map ValidatorUpdate.normal a.(validators);
  appHash := later_bytes m.(appHash) a.(appHash);
|}.

(** A whole message seen as a partial one. *)
Definition full (m : t) : partial := {|
  p_consensusParams := ConsensusParams.full <$> m.(consensusParams);
  p_validators := Some (map ValidatorUpdate.full m.(validators));
  p_appHash := m.(appHash);
|}.

(** The message as its [.proto] file declares it. *)
Definition schema (m : t) : list field :=
  [singular 1 Optional (message_value ConsensusParams.schema) m.(consensusParams);
   repeated 2 (message_value ValidatorUpdate.schema) m.(validators);
   implicit 3 (byte_array m.(appHash))].

(** The message with its default for every property that is not kept. *)
Definition only (kept : string → bool) (m : t) : t := {|
  consensusParams := if kept "consensusParams" then m.(consensusParams) else None;
  validators := if kept "validators" then m.(validators) else [];
  appHash := if kept "appHash" then m.(appHash) else None;
|}.

#[global] Instance codec {PB : Protobuf} : FallibleCodec t :=
  {| fmsg_base := base; fmsg_encode := encode; fmsg_field := decode_field |}.

#[global] Program Instance spec {PB : Protobuf} (PS : ProtobufSpec PB) : FallibleSpec PS t :=
  {| fmsg_wire := wire; fmsg_valid := valid; fmsg_typed := typed; fmsg_normal := normal;
     fmsg_merge := merge |}.
Next Obligation. solve_fencode_wire. Qed.
Next Obligation. intros. solve_fencode_throws encode typed. Qed.
Next Obligation. solve_fdecode_wire. Qed.
Next Obligation. solve_fmerge_base. Qed.
Next Obligation. intros. solve_fadvances decode_field. Qed.

#[global] Program Instance given_ : FalliblePartial t partial :=
  {| fmsg_fromPartial := fromPartial; fmsg_full := full; fmsg_given := typed |}.
Next Obligation. solve_fgiven fromPartial typed. Qed.
Next Obligation. solve_fpartial fromPartial full typed. Qed.

#[global] Program Instance json : FallibleJson t :=
  {| fmsg_fromJSON := fromJSON; fmsg_toJSON := toJSON;
     fmsg_named := fun _ => true; fmsg_known := fun m => m |}.
Next Obligation. solve_fjson fromJSON toJSON. Qed.
Next Obligation. reflexivity. Qed.

#[global] Instance schema_wire {PB : Protobuf} {PS : ProtobufSpec PB} : WireSchema wire schema.
Proof. solve_schema_wire wire schema. Qed.

#[global] Instance schema_normal : NormalSchema normal schema.
Proof. solve_schema_normal normal schema. Qed.

#[global] Instance schema_merge : MergeSchema merge schema.
Proof. solve_schema_merge merge schema. Qed.

(** Its row in the table of message types. *)
Definition message {PB : Protobuf} {PS : ProtobufSpec PB} : message_type :=
  fallible_message "ResponseInitChain" nothing true schema only.

#[global] Instance message_lawful {PB : Protobuf} (PS : ProtobufSpec PB) : Lawful message.
Proof. solve_lawful decode_field fromJSON only. Qed.

End ResponseInitChain.

(** ** [ResponseQuery] (tendermint/abci/types.js) *)

Module ResponseQuery.

Record t := mk {
  code : number;
  log : string;
  info : string;
  index : number;
  key : option bytes;
  value : option bytes;
  proofOps : option ProofOps.t;
  height : number;
  codespace : string;
}.

#[global] Instance t_eta : Settable t := λ m, mk m.(code) m.(log) m.(info) m.(index) m.(key)
  m.(value) m.(proofOps) m.(height) m.(codespace).

Definition base : t := mk 0 "" "" 0 None None None 0 "".

Definition encode {PB : Protobuf} (message : t) (writer : Writer) : result Writer :=
  Ok writer
  @>= pure (when (num_neq message.(code) 0) (fun w => w @> uint32 8 @> uint32 message.(code)))
  @>= pure (when (str_neq message.(log) "") (fun w => w @> uint32 26 @> string_ message.(log)))
  @>= pure (when (str_neq message.(info) "") (fun w => w @> uint32 34 @> string_ message.(info)))
  @>= pure (when (num_neq message.(index) 0) (fun w => w @> uint32 40 @> int64 message.(index)))
  @>= bytes_field 50 message.(key)
  @>= bytes_field 58 message.(value)
  @>= defined_e message.(proofOps) (submessage 66 ProofOps.encode)
  @>= pure (when (num_neq message.(height) 0) (fun w => w @> uint32 72 @> int64 message.(height)))
  @>= pure (when (str_neq message.(codespace) "")
       (fun w => w @> uint32 82 @> string_ message.(codespace))).

Definition decode_field {PB : Protobuf} (tag : Z) (message : t) : RM t :=
  match field_number tag with
  | 1 => v ← read_uint32; mret (message <| code := Int v |>)
  | 3 => v ← read_string; mret (message <| log := v |>)
  | 4 => v ← read_string; mret (message <| info := v |>)
  | 5 => v ← read_number read_int64; mret (message <| index := v |>)
  | 6 => v ← read_bytes; mret (message <| key := Some v |>)
  | 7 => v ← read_bytes; mret (message <| value := Some v |>)
  | 8 => v ← read_nested ProofOps.decode; mret (message <| proofOps := Some v |>)
  | 9 => v ← read_number read_int64; mret (message <| height := v |>)
  | 10 => v ← read_string; mret (message <| codespace := v |>)
  | _ => _ ← skipType (wire_type tag); mret message
  end.

Definition decode {PB : Protobuf} (length : option Z) : RM t :=
  decode_message length base decode_field.

Definition fromJSON (object : js) : result t :=
  code' ← field_or object "code" js_Number 0;
  log' ← field_or object "log" to_string "";
  info' ← field_or object "info" to_string "";
  index' ← field_or object "index" js_Number 0;
  key' ← field_or object "key" (to_some bytesFromBase64) None;
  value' ← field_or object "value" (to_some bytesFromBase64) None;
  proofOps' ← field_or object "proofOps" (to_some ProofOps.fromJSON) None;
  height' ← field_or object "height" js_Number 0;
  codespace' ← field_or object "codespace" to_string "";
  Ok (mk code' log' info' index' key' value' proofOps' height' codespace').

Definition toJSON (message : t) : js :=
  Obj ([("code", Num message.(code));
    ("log", Str message.(log));
    ("info", Str message.(info));
    ("index", Num message.(index))] ++
   prop_opt "key" (fun b => Str (base64FromBytes b)) message.(key) ++
   prop_opt "value" (fun b => Str (base64FromBytes b)) message.(value) ++
   prop_opt "proofOps" ProofOps.toJSON message.(proofOps) ++
   [("height", Num message.(height));
    ("codespace", Str message.(codespace))]).

Record partial := mkPartial {
  p_code : option number;
  p_log : option string;
  p_info : option string;
  p_index : option number;
  p_key : option bytes;
  p_value : option bytes;
  p_proofOps : option ProofOps.partial;
  p_height : option number;
  p_codespace : option string;
}.

Definition fromPartial (object : partial) : t := {|
  code := object.(p_code) ?? Int 0;
  log := object.(p_log) ?? "";
  info := object.(p_info) ?? "";
  index := object.(p_index) ?? Int 0;
  key := Some (object.(p_key) ?? []);
  value := Some (object.(p_value) ?? []);
  proofOps := ProofOps.fromPartial <$> object.(p_proofOps);
  height := object.(p_height) ?? Int 0;
  codespace := object.(p_codespace) ?? "";
|}.

(** The object with no property given. *)
Definition nothing : partial := mkPartial None None None None None None None None None.

(** The bytes [encode] writes. *)
Definition wire {PB : Protobuf} {PS : ProtobufSpec PB} (m : t) : bytes :=
  f_number e_uint32 8 m.(code) ++
  f_string 26 m.(log) ++
  f_string 34 m.(info) ++
  f_number e_int64 40 m.(index) ++
  f_bytes 50 m.(key) ++
  f_bytes 58 m.(value) ++
  f_message 66 ProofOps.wire m.(proofOps) ++
  f_number e_int64 72 m.(height) ++
  f_string 82 m.(codespace).

Definition valid (m : t) : Prop :=
  uint32_ok m.(code) ∧ int64_ok m.(index) ∧ from_option ProofOps.valid True m.(proofOps) ∧ int64_ok m.(height).

(** The byte fields hold arrays, as the interface declares. *)
Definition typed (m : t) : bool := given m.(key) && given m.(value) && from_option ProofOps.typed true m.(proofOps).

(** The message without its empty byte arrays. *)
Definition normal (m : t) : t := {|
  code := m.(code);
  log := m.(log);
  info := m.(info);
  index := m.(index);
  key := nonempty m.(key);
  value := nonempty m.(value);
  proofOps := ProofOps.normal <$> m.(proofOps);
  height := m.(height);
  codespace := m.(codespace);
|}.

Definition encodable {PB : Protobuf} {PS : ProtobufSpec PB} (m : t) : Prop :=
  typed m = true ∧ valid m ∧ small (wire m).

Definition merge (m a : t) : t := {|
  code := later_number m.(code) a.(code);
  log := later_string m.(log) a.(log);
  info := later_string m.(info) a.(info);
  index := later_number m.(index) a.(index);
  key := later_bytes m.(key) a.(key);
  value := later_bytes m.(value) a.(value);
  proofOps := later_message m.(proofOps) (ProofOps.normal <$> a.(proofOps));
  height := later_number m.(height) a.(height);
  codespace := later_string m.(codespace) a.(codespace);
|}.

(** A whole message seen as a partial one. *)
Definition full (m : t) : partial := {|
  p_code := Some m.(code);
  p_log := Some m.(log);
  p_info := Some m.(info);
  p_index := Some m.(index);
  p_key := m.(key);
  p_value := m.(value);
  p_proofOps := ProofOps.full <$> m.(proofOps);
  p_height := Some m.(height);
  p_codespace := Some m.(codespace);
|}.

(** The message as its [.proto] file declares it. *)
Definition schema (m : t) : list field :=
  [implicit 1 (VInt Uint32 m.(code));
   implicit 3 (VString m.(log));
   implicit 4 (VString m.(info));
   implicit 5 (VInt Int64 m.(index));
   implicit 6 (byte_array m.(key));
   implicit 7 (byte_array m.(value));
   singular 8 Optional (message_value ProofOps.schema) m.(proofOps);
   implicit 9 (VInt Int64 m.(height));
   implicit 10 (VString m.(codespace))].

(** The message with its default for every property that is not kept. *)
Definition only (kept : string → bool) (m : t) : t := {|
  code := if kept "code" then m.(code) else Int 0;
  log := if kept "log" then m.(log) else "";
  info := if kept "info" then m.(info) else "";
  index := if kept "index" then m.(index) else Int 0;
  key := if kept "key" then m.(key) else None;
  value := if kept "value" then m.(value) else None;
  proofOps := if kept "proofOps" then m.(proofOps) else None;
  height := if kept "height" then m.(height) else Int 0;
  codespace := if kept "codespace" then m.(codespace) else "";
|}.

#[global] Instance codec {PB : Protobuf} : FallibleCodec t :=
  {| fmsg_base := base; fmsg_encode := encode; fmsg_field := decode_field |}.

#[global] Program Instance spec {PB : Protobuf} (PS : ProtobufSpec PB) : FallibleSpec PS t :=
  {| fmsg_wire := wire; fmsg_valid := valid; fmsg_typed := typed; fmsg_normal := normal;
     fmsg_merge := merge |}.
Next Obligation. solve_fencode_wire. Qed.
Next Obligation. intros. solve_fencode_throws encode typed. Qed.
Next Obligation. solve_fdecode_wire. Qed.
Next Obligation. solve_fmerge_base. Qed.
Next Obligation. intros. solve_fadvances decode_field. Qed.

#[global] Program Instance given_ : FalliblePartial t partial :=
  {| fmsg_fromPartial := fromPartial; fmsg_full := full; fmsg_given := typed |}.
Next Obligation. solve_fgiven fromPartial typed. Qed.
Next Obligation. solve_fpartial fromPartial full typed. Qed.

#[global] Program Instance json : FallibleJson t :=
  {| fmsg_fromJSON := fromJSON; fmsg_toJSON := toJSON;
     fmsg_named := fun _ => true; fmsg_known := fun m => m |}.
Next Obligation. solve_fjson fromJSON toJSON. Qed.
Next Obligation. reflexivity. Qed.

#[global] Instance schema_wire {PB : Protobuf} {PS : ProtobufSpec PB} : WireSchema wire schema.
Proof. solve_schema_wire wire schema. Qed.

#[global] Instance schema_normal : NormalSchema normal schema.
Proof. solve_schema_normal normal schema. Qed.

#[global] Instance schema_merge : MergeSchema merge schema.
Proof. solve_schema_merge merge schema. Qed.

(** Its row in the table of message types. *)
Definition message {PB : Protobuf} {PS : ProtobufSpec PB} : message_type :=
  fallible_message "ResponseQuery" nothing true schema only.

#[global] Instance message_lawful {PB : Protobuf} (PS : ProtobufSpec PB) : Lawful message.
Proof. solve_lawful decode_field fromJSON only. Qed.

End ResponseQuery.

(** ** [EventAttribute] (tendermint/abci/types.js) *)

Module EventAttribute.

Record t := mk {
  key : option bytes;
  value : option bytes;
  index : bool;
}.

#[global] Instance t_eta : Settable t := λ m, mk m.(key) m.(value) m.(index).

Definition base : t := mk None None false.

Definition encode {PB : Protobuf} (message : t) (writer : Writer) : result Writer :=
  Ok writer
  @>= bytes_field 10 message.(key)
  @>= bytes_field 18 message.(value)
  @>= pure (when (Bool.eqb message.(index) true) (fun w => w @> uint32 24 @> bool_ message.(index))).

Definition decode_field {PB : Protobuf} (tag : Z) (message : t) : RM t :=
  match field_number tag with
  | 1 => v ← read_bytes; mret (message <| key := Some v |>)
  | 2 => v ← read_bytes; mret (message <| value := Some v |>)
  | 3 => v ← read_bool; mret (message <| index := v |>)
  | _ => _ ← skipType (wire_type tag); mret message
  end.

Definition decode {PB : Protobuf} (length : option Z) : RM t :=
  decode_message length base decode_field.

Definition fromJSON (object : js) : result t :=
  key' ← field_or object "key" (to_some bytesFromBase64) None;
  value' ← field_or object "value" (to_some bytesFromBase64) None;
  index' ← field_or object "index" to_bool false;
  Ok (mk key' value' index').

Definition toJSON (message : t) : js :=
  Obj (prop_opt "key" (fun b => Str (base64FromBytes b)) message.(key) ++
   prop_opt "value" (fun b => Str (base64FromBytes b)) message.(value) ++
   [("index", Bool message.(index))]).

Record partial := mkPartial {
  p_key : option bytes;
  p_value : option bytes;
  p_index : option bool;
}.

Definition fromPartial (object : partial) : t := {|
  key := Some (object.(p_key) ?? []);
  value := Some (object.(p_value) ?? []);
  index := object.(p_index) ?? false;
|}.

(** The object with no property given. *)
Definition nothing : partial := mkPartial None None None.

(** The bytes [encode] writes. *)
Definition wire {PB : Protobuf} {PS : ProtobufSpec PB} (m : t) : bytes :=
  f_bytes 10 m.(key) ++
  f_bytes 18 m.(value) ++
  f_bool 24 m.(index).

Definition valid (m : t) : Prop :=
  True.

(** The byte fields hold arrays, as the interface declares. *)
Definition typed (m : t) : bool := given m.(key) && given m.(value).

(** The message without its empty byte arrays. *)
Definition normal (m : t) : t := {|
  key := nonempty m.(key);
  value := nonempty m.(value);
  index := m.(index);
|}.

Definition encodable {PB : Protobuf} {PS : ProtobufSpec PB} (m : t) : Prop :=
  typed m = true ∧ valid m ∧ small (wire m).

Definition merge (m a : t) : t := {|
  key := later_bytes m.(key) a.(key);
  value := later_bytes m.(value) a.(value);
  index := later_bool m.(index) a.(index);
|}.

(** A whole message seen as a partial one. *)
Definition full (m : t) : partial := {|
  p_key := m.(key);
  p_value := m.(value);
  p_index := Some m.(index);
|}.

(** The message as its [.proto] file declares it. *)
Definition schema (m : t) : list field :=
  [implicit 1 (byte_array m.(key));
   implicit 2 (byte_array m.(value));
   implicit 3 (VBool m.(index))].

(** The message with its default for every property that is not kept. *)
Definition only (kept : string → bool) (m : t) : t := {|
  key := if kept "key" then m.(key) else None;
  value := if kept "value" then m.(value) else None;
  index := if kept "index" then m.(index) else false;
|}.

#[global] Instance codec {PB : Protobuf} : FallibleCodec t :=
  {| fmsg_base := base; fmsg_encode := encode; fmsg_field := decode_field |}.

#[global] Program Instance spec {PB : Protobuf} (PS : ProtobufSpec PB) : FallibleSpec PS t :=
  {| fmsg_wire := wire; fmsg_valid := valid; fmsg_typed := typed; fmsg_normal := normal;
     fmsg_merge := merge |}.
Next Obligation. solve_fencode_wire. Qed.
Next Obligation. intros. solve_fencode_throws encode typed. Qed.
Next Obligation. solve_fdecode_wire. Qed.
Next Obligation. solve_fmerge_base. Qed.
Next Obligation. intros. solve_fadvances decode_field. Qed.

#[global] Program Instance given_ : FalliblePartial t partial :=
  {| fmsg_fromPartial := fromPartial; fmsg_full := full; fmsg_given := typed |}.
Next Obligation. solve_fgiven fromPartial typed. Qed.
Next Obligation. solve_fpartial fromPartial full typed. Qed.

#[global] Program Instance json : FallibleJson t :=
  {| fmsg_fromJSON := fromJSON; fmsg_toJSON := toJSON;
     fmsg_named := fun _ => true; fmsg_known := fun m => m |}.
Next Obligation. solve_fjson fromJSON toJSON. Qed.
Next Obligation. reflexivity. Qed.

#[global] Instance schema_wire {PB : Protobuf} {PS : ProtobufSpec PB} : WireSchema wire schema.
Proof. solve_schema_wire wire schema. Qed.

#[global] Instance schema_normal : NormalSchema normal schema.
Proof. solve_schema_normal normal schema. Qed.

#[global] Instance schema_merge : MergeSchema merge schema.
Proof. solve_schema_merge merge schema. Qed.

(** Its row in the table of message types. *)
Definition message {PB : Protobuf} {PS : ProtobufSpec PB} : message_type :=
  fallible_message "EventAttribute" nothing true schema only.

#[global] Instance message_lawful {PB : Protobuf} (PS : ProtobufSpec PB) : Lawful message.
Proof. solve_lawful decode_field fromJSON only. Qed.

End EventAttribute.

(** ** [Event] (tendermint/abci/types.js) *)

Module Event.

Record t := mk {
  type_ : string;
  attributes : list EventAttribute.t;
}.

#[global] Instance t_eta : Settable t := λ m, mk m.(type_) m.(attributes).

Definition base : t := mk "" [].

Definition encode {PB : Protobuf} (message : t) (writer : Writer) : result Writer :=
  Ok writer
  @>= pure (when (str_neq message.(type_) "") (fun w => w @> uint32 10 @> string_ message.(type_)))
  @>= each_e message.(attributes) (submessage 18 EventAttribute.encode).

Definition decode_field {PB : Protobuf} (tag : Z) (message : t) : RM t :=
  match field_number tag with
  | 1 => v ← read_string; mret (message <| type_ := v |>)
  | 2 => v ← read_nested EventAttribute.decode;
         mret (message <| attributes := message.(attributes) ++ [v] |>)
  | _ => _ ← skipType (wire_type tag); mret message
  end.

Definition decode {PB : Protobuf} (length : option Z) : RM t :=
  decode_message length base decode_field.

Definition fromJSON (object : js) : result t :=
  type_' ← field_or object "type" to_string "";
  attributes' ← field_or object "attributes" (to_list EventAttribute.fromJSON) [];
  Ok (mk type_' attributes').

Definition toJSON (message : t) : js :=
  Obj ([("type", Str message.(type_));
    ("attributes", Arr (map EventAttribute.toJSON message.(attributes)))]).

Record partial := mkPartial {
  p_type : option string;
  p_attributes : option (list EventAttribute.partial);
}.

Definition fromPartial (object : partial) : t := {|
  type_ := object.(p_type) ?? "";
  attributes := map EventAttribute.fromPartial (object.(p_attributes) ?? []);
|}.

(** The object with no property given. *)
Definition nothing : partial := mkPartial None None.

(** The bytes [encode] writes. *)
Definition wire {PB : Protobuf} {PS : ProtobufSpec PB} (m : t) : bytes :=
  f_string 10 m.(type_) ++
  f_repeated 18 EventAttribute.wire m.(attributes).

Definition valid (m : t) : Prop :=
  Forall EventAttribute.valid m.(attributes).

(** The byte fields hold arrays, as the interface declares. *)
Definition typed (m : t) : bool := forallb EventAttribute.typed m.(attributes).

(** The message without its empty byte arrays. *)
Definition normal (m : t) : t := {|
  type_ := m.(type_);
  attributes := map EventAttribute.normal m.(attributes);
|}.

Definition encodable {PB : Protobuf} {PS : ProtobufSpec PB} (m : t) : Prop :=
  typed m = true ∧ valid m ∧ small (wire m).

Definition merge (m a : t) : t := {|
  type_ := later_string m.(type_) a.(type_);
  attributes := m.(attributes) ++ map EventAttribute.normal a.(attributes);
|}.

(** A whole message seen as a partial one. *)
Definition full (m : t) : partial := {|
  p_type := Some m.(type_);
  p_attributes := Some (map EventAttribute.full m.(attributes));
|}.

(** The message as its [.proto] file declares it. *)
Definition schema (m : t) : list field :=
  [implicit 1 (VString m.(type_));
   repeated 2 (message_value EventAttribute.schema) m.(attributes)].

(** The message with its default for every property that is not kept. *)
Definition only (kept : string → bool) (m : t) : t := {|
  type_ := if kept "type" then m.(type_) else "";
  attributes := if kept "attributes" then m.(attributes) else [];
|}.

#[global] Instance codec {PB : Protobuf} : FallibleCodec t :=
  {| fmsg_base := base; fmsg_encode := encode; fmsg_field := decode_field |}.

#[global] Program Instance spec {PB : Protobuf} (PS : ProtobufSpec PB) : FallibleSpec PS t :=
  {| fmsg_wire := wire; fmsg_valid := valid; fmsg_typed := typed; fmsg_normal := normal;
     fmsg_merge := merge |}.
Next Obligation. solve_fencode_wire. Qed.
Next Obligation. intros. solve_fencode_throws encode typed. Qed.
Next Obligation. solve_fdecode_wire. Qed.
Next Obligation. solve_fmerge_base. Qed.
Next Obligation. intros. solve_fadvances decode_field. Qed.

#[global] Program Instance given_ : FalliblePartial t partial :=
  {| fmsg_fromPartial := fromPartial; fmsg_full := full; fmsg_given := typed |}.
Next Obligation. solve_fgiven fromPartial typed. Qed.
Next Obligation. solve_fpartial fromPartial full typed. Qed.

#[global] Program Instance json : FallibleJson t :=
  {| fmsg_fromJSON := fromJSON; fmsg_toJSON := toJSON;
     fmsg_named := fun _ => true; fmsg_known := fun m => m |}.
Next Obligation. solve_fjson fromJSON toJSON. Qed.
Next Obligation. reflexivity. Qed.

#[global] Instance schema_wire {PB : Protobuf} {PS : ProtobufSpec PB} : WireSchema wire schema.
Proof. solve_schema_wire wire schema. Qed.

#[global] Instance schema_normal : NormalSchema normal schema.
Proof. solve_schema_normal normal schema. Qed.

#[global] Instance schema_merge : MergeSchema merge schema.
Proof. solve_schema_merge merge schema. Qed.

(** Its row in the table of message types. *)
Definition message {PB : Protobuf} {PS : ProtobufSpec PB} : message_type :=
  fallible_message "Event" nothing true schema only.

#[global] Instance message_lawful {PB : Protobuf} (PS : ProtobufSpec PB) : Lawful message.
Proof. solve_lawful decode_field fromJSON only. Qed.

End Event.

(** ** [ResponseBeginBlock] (tendermint/abci/types.js) *)

Module ResponseBeginBlock.

Record t := mk {
  events : list Event.t;
}.

#[global] Instance t_eta : Settable t := λ m, mk m.(events).

Definition base : t := mk [].

Definition encode {PB : Protobuf} (message : t) (writer : Writer) : result Writer :=
  Ok writer
  @>= each_e message.(events) (submessage 10 Event.encode).

Definition decode_field {PB : Protobuf} (tag : Z) (message : t) : RM t :=
  match field_number tag with
  | 1 => v ← read_nested Event.decode; mret (message <| events := message.(events) ++ [v] |>)
  | _ => _ ← skipType (wire_type tag); mret message
  end.

Definition decode {PB : Protobuf} (length : option Z) : RM t :=
  decode_message length base decode_field.

Definition fromJSON (object : js) : result t :=
  events' ← field_or object "events" (to_list Event.fromJSON) [];
  Ok (mk events').

Definition toJSON (message : t) : js :=
  Obj ([("events", Arr (map Event.toJSON message.(events)))]).

Record partial := mkPartial {
  p_events : option (list Event.partial);
}.

Definition fromPartial (object : partial) : t := {|
  events := map Event.fromPartial (object.(p_events) ?? []);
|}.

(** The object with no property given. *)
Definition nothing : partial := mkPartial None.

(** The bytes [encode] writes. *)
Definition wire {PB : Protobuf} {PS : ProtobufSpec PB} (m : t) : bytes :=
  f_repeated 10 Event.wire m.(events).

Definition valid (m : t) : Prop :=
  Forall Event.valid m.(events).

(** The byte fields hold arrays, as the interface declares. *)
Definition typed (m : t) : bool := forallb Event.typed m.(events).

(** The message without its empty byte arrays. *)
Definition normal (m : t) : t := {|
  events := map Event.normal m.(events);
|}.

Definition encodable {PB : Protobuf} {PS : ProtobufSpec PB} (m : t) : Prop :=
  typed m = true ∧ valid m ∧ small (wire m).

Definition merge (m a : t) : t := {|
  events := m.(events) ++ map Event.normal a.(events);
|}.

(** A whole message seen as a partial one. *)
Definition full (m : t) : partial := {|
  p_events := Some (map Event.full m.(events));
|}.

(** The message as its [.proto] file declares it. *)
Definition schema (m : t) : list field :=
  [repeated 1 (message_value Event.schema) m.(events)].

(** The message with its default for every property that is not kept. *)
Definition only (kept : string → bool) (m : t) : t := {|
  events := if kept "events" then m.(events) else [];
|}.

#[global] Instance codec {PB : Protobuf} : FallibleCodec t :=
  {| fmsg_base := base; fmsg_encode := encode; fmsg_field := decode_field |}.

#[global] Program Instance spec {PB : Protobuf} (PS : ProtobufSpec PB) : FallibleSpec PS t :=
  {| fmsg_wire := wire; fmsg_valid := valid; fmsg_typed := typed; fmsg_normal := normal;
     fmsg_merge := merge |}.
Next Obligation. solve_fencode_wire. Qed.
Next Obligation. intros. solve_fencode_throws encode typed. Qed.
Next Obligation. solve_fdecode_wire. Qed.
Next Obligation. solve_fmerge_base. Qed.
Next Obligation. intros. solve_fadvances decode_field. Qed.

#[global] Program Instance given_ : FalliblePartial t partial :=
  {| fmsg_fromPartial := fromPartial; fmsg_full := full; fmsg_given := typed |}.
Next Obligation. solve_fgiven fromPartial typed. Qed.
Next Obligation. solve_fpartial fromPartial full typed. Qed.

#[global] Program Instance json : FallibleJson t :=
  {| fmsg_fromJSON := fromJSON; fmsg_toJSON := toJSON;
     fmsg_named := fun _ => true; fmsg_known := fun m => m |}.
Next Obligation. solve_fjson fromJSON toJSON. Qed.
Next Obligation. reflexivity. Qed.

#[global] Instance schema_wire {PB : Protobuf} {PS : ProtobufSpec PB} : WireSchema wire schema.
Proof. solve_schema_wire wire schema. Qed.

#[global] Instance schema_normal : NormalSchema normal schema.
Proof. solve_schema_normal normal schema. Qed.

#[global] Instance schema_merge : MergeSchema merge schema.
Proof. solve_schema_merge merge schema. Qed.

(** Its row in the table of message types. *)
Definition message {PB : Protobuf} {PS : ProtobufSpec PB} : message_type :=
  fallible_message "ResponseBeginBlock" nothing true schema only.

#[global] Instance message_lawful {PB : Protobuf} (PS : ProtobufSpec PB) : Lawful message.
Proof. solve_lawful decode_field fromJSON only. Qed.

End ResponseBeginBlock.

(** ** [ResponseCheckTx] (tendermint/abci/types.js) *)

Module ResponseCheckTx.

Record t := mk {
  code : number;
  data_ : option bytes;
  log : string;
  info : string;
  gasWanted : number;
  gasUsed : number;
  events : list Event.t;
  codespace : string;
}.

#[global] Instance t_eta : Settable t := λ m, mk m.(code) m.(data_) m.(log) m.(info)
  m.(gasWanted) m.(gasUsed) m.(events) m.(codespace).

Definition base : t := mk 0 None "" "" 0 0 [] "".

Definition encode {PB : Protobuf} (message : t) (writer : Writer) : result Writer :=
  Ok writer
  @>= pure (when (num_neq message.(code) 0) (fun w => w @> uint32 8 @> uint32 message.(code)))
  @>= bytes_field 18 message.(data_)
  @>= pure (when (str_neq message.(log) "") (fun w => w @> uint32 26 @> string_ message.(log)))
  @>= pure (when (str_neq message.(info) "") (fun w => w @> uint32 34 @> string_ message.(info)))
  @>= pure (when (num_neq message.(gasWanted) 0)
       (fun w => w @> uint32 40 @> int64 message.(gasWanted)))
  @>= pure (when (num_neq message.(gasUsed) 0) (fun w => w @> uint32 48 @> int64 message.(gasUsed)))
  @>= each_e message.(events) (submessage 58 Event.encode)
  @>= pure (when (str_neq message.(codespace) "")
       (fun w => w @> uint32 66 @> string_ message.(codespace))).

Definition decode_field {PB : Protobuf} (tag : Z) (message : t) : RM t :=
  match field_number tag with
  | 1 => v ← read_uint32; mret (message <| code := Int v |>)
  | 2 => v ← read_bytes; mret (message <| data_ := Some v |>)
  | 3 => v ← read_string; mret (message <| log := v |>)
  | 4 => v ← read_string; mret (message <| info := v |>)
  | 5 => v ← read_number read_int64; mret (message <| gasWanted := v |>)
  | 6 => v ← read_number read_int64; mret (message <| gasUsed := v |>)
  | 7 => v ← read_nested Event.decode; mret (message <| events := message.(events) ++ [v] |>)
  | 8 => v ← read_string; mret (message <| codespace := v |>)
  | _ => _ ← skipType (wire_type tag); mret message
  end.

Definition decode {PB : Protobuf} (length : option Z) : RM t :=
  decode_message length base decode_field.

Definition fromJSON (object : js) : result t :=
  code' ← field_or object "code" js_Number 0;
  data_' ← field_or object "data" (to_some bytesFromBase64) None;
  log' ← field_or object "log" to_string "";
  info' ← field_or object "info" to_string "";
  gasWanted' ← field_or object "gasWanted" js_Number 0;
  gasUsed' ← field_or object "gasUsed" js_Number 0;
  events' ← field_or object "events" (to_list Event.fromJSON) [];
  codespace' ← field_or object "codespace" to_string "";
  Ok (mk code' data_' log' info' gasWanted' gasUsed' events' codespace').

Definition toJSON (message : t) : js :=
  Obj ([("code", Num message.(code))] ++
   prop_opt "data" (fun b => Str (base64FromBytes b)) message.(data_) ++
   [("log", Str message.(log));
    ("info", Str message.(info));
    ("gasWanted", Num message.(gasWanted));
    ("gasUsed", Num message.(gasUsed));
    ("events", Arr (map Event.toJSON message.(events)));
    ("codespace", Str message.(codespace))]).

Record partial := mkPartial {
  p_code : option number;
  p_data : option bytes;
  p_log : option string;
  p_info : option string;
  p_gasWanted : option number;
  p_gasUsed : option number;
  p_events : option (list Event.partial);
  p_codespace : option string;
}.

Definition fromPartial (object : partial) : t := {|
  code := object.(p_code) ?? Int 0;
  data_ := Some (object.(p_data) ?? []);
  log := object.(p_log) ?? "";
  info := object.(p_info) ?? "";
  gasWanted := object.(p_gasWanted) ?? Int 0;
  gasUsed := object.(p_gasUsed) ?? Int 0;
  events := map Event.fromPartial (object.(p_events) ?? []);
  codespace := object.(p_codespace) ?? "";
|}.

(** The object with no property given. *)
Definition nothing : partial := mkPartial None None None None None None None None.

(** The bytes [encode] writes. *)
Definition wire {PB : Protobuf} {PS : ProtobufSpec PB} (m : t) : bytes :=
  f_number e_uint32 8 m.(code) ++
  f_bytes 18 m.(data_) ++
  f_string 26 m.(log) ++
  f_string 34 m.(info) ++
  f_number e_int64 40 m.(gasWanted) ++
  f_number e_int64 48 m.(gasUsed) ++
  f_repeated 58 Event.wire m.(events) ++
  f_string 66 m.(codespace).

Definition valid (m : t) : Prop :=
  uint32_ok m.(code) ∧ int64_ok m.(gasWanted) ∧ int64_ok m.(gasUsed) ∧ Forall Event.valid m.(events).

(** The byte fields hold arrays, as the interface declares. *)
Definition typed (m : t) : bool := given m.(data_) && forallb Event.typed m.(events).

(** The message without its empty byte arrays. *)
Definition normal (m : t) : t := {|
  code := m.(code);
  data_ := nonempty m.(data_);
  log := m.(log);
  info := m.(info);
  gasWanted := m.(gasWanted);
  gasUsed := m.(gasUsed);
  events := map Event.normal m.(events);
  codespace := m.(codespace);
|}.

Definition encodable {PB : Protobuf} {PS : ProtobufSpec PB} (m : t) : Prop :=
  typed m = true ∧ valid m ∧ small (wire m).

Definition merge (m a : t) : t := {|
  code := later_number m.(code) a.(code);
  data_ := later_bytes m.(data_) a.(data_);
  log := later_string m.(log) a.(log);
  info := later_string m.(info) a.(info);
  gasWanted := later_number m.(gasWanted) a.(gasWanted);
  gasUsed := later_number m.(gasUsed) a.(gasUsed);
  events := m.(events) ++ map Event.normal a.(events);
  codespace := later_string m.(codespace) a.(codespace);
|}.

(** A whole message seen as a partial one. *)
Definition full (m : t) : partial := {|
  p_code := Some m.(code);
  p_data := m.(data_);
  p_log := Some m.(log);
  p_info := Some m.(info);
  p_gasWanted := Some m.(gasWanted);
  p_gasUsed := Some m.(gasUsed);
  p_events := Some (map Event.full m.(events));
  p_codespace := Some m.(codespace);
|}.

(** The message as its [.proto] file declares it. *)
Definition schema (m : t) : list field :=
  [implicit 1 (VInt Uint32 m.(code));
   implicit 2 (byte_array m.(data_));
   implicit 3 (VString m.(log));
   implicit 4 (VString m.(info));
   implicit 5 (VInt Int64 m.(gasWanted));
   implicit 6 (VInt Int64 m.(gasUsed));
   repeated 7 (message_value Event.schema) m.(events);
   implicit 8 (VString m.(codespace))].

(** The message with its default for every property that is not kept. *)
Definition only (kept : string → bool) (m : t) : t := {|
  code := if kept "code" then m.(code) else Int 0;
  data_ := if kept "data" then m.(data_) else None;
  log := if kept "log" then m.(log) else "";
  info := if kept "info" then m.(info) else "";
  gasWanted := if kept "gasWanted" then m.(gasWanted) else Int 0;
  gasUsed := if kept "gasUsed" then m.(gasUsed) else Int 0;
  events := if kept "events" then m.(events) else [];
  codespace := if kept "codespace" then m.(codespace) else "";
|}.

#[global] Instance codec {PB : Protobuf} : FallibleCodec t :=
  {| fmsg_base := base; fmsg_encode := encode; fmsg_field := decode_field |}.

#[global] Program Instance spec {PB : Protobuf} (PS : ProtobufSpec PB) : FallibleSpec PS t :=
  {| fmsg_wire := wire; fmsg_valid := valid; fmsg_typed := typed; fmsg_normal := normal;
     fmsg_merge := merge |}.
Next Obligation. solve_fencode_wire. Qed.
Next Obligation. intros. solve_fencode_throws encode typed. Qed.
Next Obligation. solve_fdecode_wire. Qed.
Next Obligation. solve_fmerge_base. Qed.
Next Obligation. intros. solve_fadvances decode_field. Qed.

#[global] Program Instance given_ : FalliblePartial t partial :=
  {| fmsg_fromPartial := fromPartial; fmsg_full := full; fmsg_given := typed |}.
Next Obligation. solve_fgiven fromPartial typed. Qed.
Next Obligation. solve_fpartial fromPartial full typed. Qed.

#[global] Program Instance json : FallibleJson t :=
  {| fmsg_fromJSON := fromJSON; fmsg_toJSON := toJSON;
     fmsg_named := fun _ => true; fmsg_known := fun m => m |}.
Next Obligation. solve_fjson fromJSON toJSON. Qed.
Next Obligation. reflexivity. Qed.

#[global] Instance schema_wire {PB : Protobuf} {PS : ProtobufSpec PB} : WireSchema wire schema.
Proof. solve_schema_wire wire schema. Qed.

#[global] Instance schema_normal : NormalSchema normal schema.
Proof. solve_schema_normal normal schema. Qed.

#[global] Instance schema_merge : MergeSchema merge schema.
Proof. solve_schema_merge merge schema. Qed.

(** Its row in the table of message types. *)
Definition message {PB : Protobuf} {PS : ProtobufSpec PB} : message_type :=
  fallible_message "ResponseCheckTx" nothing true schema only.

#[global] Instance message_lawful {PB : Protobuf} (PS : ProtobufSpec PB) : Lawful message.
Proof. solve_lawful decode_field fromJSON only. Qed.

End ResponseCheckTx.

(** ** [ResponseDeliverTx] (tendermint/abci/types.js) *)

Module ResponseDeliverTx.

Record t := mk {
  code : number;
  data_ : option bytes;
  log : string;
  info : string;
  gasWanted : number;
  gasUsed : number;
  events : list Event.t;
  codespace : string;
}.

#[global] Instance t_eta : Settable t := λ m, mk m.(code) m.(data_) m.(log) m.(info)
  m.(gasWanted) m.(gasUsed) m.(events) m.(codespace).

Definition base : t := mk 0 None "" "" 0 0 [] "".

Definition encode {PB : Protobuf} (message : t) (writer : Writer) : result Writer :=
  Ok writer
  @>= pure (when (num_neq message.(code) 0) (fun w => w @> uint32 8 @> uint32 message.(code)))
  @>= bytes_field 18 message.(data_)
  @>= pure (when (str_neq message.(log) "") (fun w => w @> uint32 26 @> string_ message.(log)))
  @>= pure (when (str_neq message.(info) "") (fun w => w @> uint32 34 @> string_ message.(info)))
  @>= pure (when (num_neq message.(gasWanted) 0)
       (fun w => w @> uint32 40 @> int64 message.(gasWanted)))
  @>= pure (when (num_neq message.(gasUsed) 0) (fun w => w @> uint32 48 @> int64 message.(gasUsed)))
  @>= each_e message.(events) (submessage 58 Event.encode)
  @>= pure (when (str_neq message.(codespace) "")
       (fun w => w @> uint32 66 @> string_ message.(codespace))).

Definition decode_field {PB : Protobuf} (tag : Z) (message : t) : RM t :=
  match field_number tag with
  | 1 => v ← read_uint32; mret (message <| code := Int v |>)
  | 2 => v ← read_bytes; mret (message <| data_ := Some v |>)
  | 3 => v ← read_string; mret (message <| log := v |>)
  | 4 => v ← read_string; mret (message <| info := v |>)
  | 5 => v ← read_number read_int64; mret (message <| gasWanted := v |>)
  | 6 => v ← read_number read_int64; mret (message <| gasUsed := v |>)
  | 7 => v ← read_nested Event.decode; mret (message <| events := message.(events) ++ [v] |>)
  | 8 => v ← read_string; mret (message <| codespace := v |>)
  | _ => _ ← skipType (wire_type tag); mret message
  end.

Definition decode {PB : Protobuf} (length : option Z) : RM t :=
  decode_message length base decode_field.

Definition fromJSON (object : js) : result t :=
  code' ← field_or object "code" js_Number 0;
  data_' ← field_or object "data" (to_some bytesFromBase64) None;
  log' ← field_or object "log" to_string "";
  info' ← field_or object "info" to_string "";
  gasWanted' ← field_or object "gasWanted" js_Number 0;
  gasUsed' ← field_or object "gasUsed" js_Number 0;
  events' ← field_or object "events" (to_list Event.fromJSON) [];
  codespace' ← field_or object "codespace" to_string "";
  Ok (mk code' data_' log' info' gasWanted' gasUsed' events' codespace').

Definition toJSON (message : t) : js :=
  Obj ([("code", Num message.(code))] ++
   prop_opt "data" (fun b => Str (base64FromBytes b)) message.(data_) ++
   [("log", Str message.(log));
    ("info", Str message.(info));
    ("gasWanted", Num message.(gasWanted));
    ("gasUsed", Num message.(gasUsed));
    ("events", Arr (map Event.toJSON message.(events)));
    ("codespace", Str message.(codespace))]).

Record partial := mkPartial {
  p_code : option number;
  p_data : option bytes;
  p_log : option string;
  p_info : option string;
  p_gasWanted : option number;
  p_gasUsed : option number;
  p_events : option (list Event.partial);
  p_codespace : option string;
}.

Definition fromPartial (object : partial) : t := {|
  code := object.(p_code) ?? Int 0;
  data_ := Some (object.(p_data) ?? []);
  log := object.(p_log) ?? "";
  info := object.(p_info) ?? "";
  gasWanted := object.(p_gasWanted) ?? Int 0;
  gasUsed := object.(p_gasUsed) ?? Int 0;
  events := map Event.fromPartial (object.(p_events) ?? []);
  codespace := object.(p_codespace) ?? "";
|}.

(** The object with no property given. *)
Definition nothing : partial := mkPartial None None None None None None None None.

(** The bytes [encode] writes. *)
Definition wire {PB : Protobuf} {PS : ProtobufSpec PB} (m : t) : bytes :=
  f_number e_uint32 8 m.(code) ++
  f_bytes 18 m.(data_) ++
  f_string 26 m.(log) ++
  f_string 34 m.(info) ++
  f_number e_int64 40 m.(gasWanted) ++
  f_number e_int64 48 m.(gasUsed) ++
  f_repeated 58 Event.wire m.(events) ++
  f_string 66 m.(codespace).

Definition valid (m : t) : Prop :=
  uint32_ok m.(code) ∧ int64_ok m.(gasWanted) ∧ int64_ok m.(gasUsed) ∧ Forall Event.valid m.(events).

(** The byte fields hold arrays, as the interface declares. *)
Definition typed (m : t) : bool := given m.(data_) && forallb Event.typed m.(events).

(** The message without its empty byte arrays. *)
Definition normal (m : t) : t := {|
  code := m.(code);
  data_ := nonempty m.(data_);
  log := m.(log);
  info := m.(info);
  gasWanted := m.(gasWanted);
  gasUsed := m.(gasUsed);
  events := map Event.normal m.(events);
  codespace := m.(codespace);
|}.

Definition encodable {PB : Protobuf} {PS : ProtobufSpec PB} (m : t) : Prop :=
  typed m = true ∧ valid m ∧ small (wire m).

Definition merge (m a : t) : t := {|
  code := later_number m.(code) a.(code);
  data_ := later_bytes m.(data_) a.(data_);
  log := later_string m.(log) a.(log);
  info := later_string m.(info) a.(info);
  gasWanted := later_number m.(gasWanted) a.(gasWanted);
  gasUsed := later_number m.(gasUsed) a.(gasUsed);
  events := m.(events) ++ map Event.normal a.(events);
  codespace := later_string m.(codespace) a.(codespace);
|}.

(** A whole message seen as a partial one. *)
Definition full (m : t) : partial := {|
  p_code := Some m.(code);
  p_data := m.(data_);
  p_log := Some m.(log);
  p_info := Some m.(info);
  p_gasWanted := Some m.(gasWanted);
  p_gasUsed := Some m.(gasUsed);
  p_events := Some (map Event.full m.(events));
  p_codespace := Some m.(codespace);
|}.

(** The message as its [.proto] file declares it. *)
Definition schema (m : t) : list field :=
  [implicit 1 (VInt Uint32 m.(code));
   implicit 2 (byte_array m.(data_));
   implicit 3 (VString m.(log));
   implicit 4 (VString m.(info));
   implicit 5 (VInt Int64 m.(gasWanted));
   implicit 6 (VInt Int64 m.(gasUsed));
   repeated 7 (message_value Event.schema) m.(events);
   implicit 8 (VString m.(codespace))].

(** The message with its default for every property that is not kept. *)
Definition only (kept : string → bool) (m : t) : t := {|
  code := if kept "code" then m.(code) else Int 0;
  data_ := if kept "data" then m.(data_) else None;
  log := if kept "log" then m.(log) else "";
  info := if kept "info" then m.(info) else "";
  gasWanted := if kept "gasWanted" then m.(gasWanted) else Int 0;
  gasUsed := if kept "gasUsed" then m.(gasUsed) else Int 0;
  events := if kept "events" then m.(events) else [];
  codespace := if kept "codespace" then m.(codespace) else "";
|}.

#[global] Instance codec {PB : Protobuf} : FallibleCodec t :=
  {| fmsg_base := base; fmsg_encode := encode; fmsg_field := decode_field |}.

#[global] Program Instance spec {PB : Protobuf} (PS : ProtobufSpec PB) : FallibleSpec PS t :=
  {| fmsg_wire := wire; fmsg_valid := valid; fmsg_typed := typed; fmsg_normal := normal;
     fmsg_merge := merge |}.
Next Obligation. solve_fencode_wire. Qed.
Next Obligation. intros. solve_fencode_throws encode typed. Qed.
Next Obligation. solve_fdecode_wire. Qed.
Next Obligation. solve_fmerge_base. Qed.
Next Obligation. intros. solve_fadvances decode_field. Qed.

#[global] Program Instance given_ : FalliblePartial t partial :=
  {| fmsg_fromPartial := fromPartial; fmsg_full := full; fmsg_given := typed |}.
Next Obligation. solve_fgiven fromPartial typed. Qed.
Next Obligation. solve_fpartial fromPartial full typed. Qed.

#[global] Program Instance json : FallibleJson t :=
  {| fmsg_fromJSON := fromJSON; fmsg_toJSON := toJSON;
     fmsg_named := fun _ => true; fmsg_known := fun m => m |}.
Next Obligation. solve_fjson fromJSON toJSON. Qed.
Next Obligation. reflexivity. Qed.

#[global] Instance schema_wire {PB : Protobuf} {PS : ProtobufSpec PB} : WireSchema wire schema.
Proof. solve_schema_wire wire schema. Qed.

#[global] Instance schema_normal : NormalSchema normal schema.
Proof. solve_schema_normal normal schema. Qed.

#[global] Instance schema_merge : MergeSchema merge schema.
Proof. solve_schema_merge merge schema. Qed.

(** Its row in the table of message types. *)
Definition message {PB : Protobuf} {PS : ProtobufSpec PB} : message_type :=
  fallible_message "ResponseDeliverTx" nothing true schema only.

#[global] Instance message_lawful {PB : Protobuf} (PS : ProtobufSpec PB) : Lawful message.
Proof. solve_lawful decode_field fromJSON only. Qed.

End ResponseDeliverTx.

(** ** [ResponseEndBlock] (tendermint/abci/types.js) *)

Module ResponseEndBlock.

Record t := mk {
  validatorUpdates : list ValidatorUpdate.t;
  consensusParamUpdates : option ConsensusParams.t;
  events : list Event.t;
}.

#[global] Instance t_eta : Settable t := λ m, mk m.(validatorUpdates) m.(consensusParamUpdates)
  m.(events).

Definition base : t := mk [] None [].

Definition encode {PB : Protobuf} (message : t) (writer : Writer) : result Writer :=
  Ok writer
  @>= each_e message.(validatorUpdates) (submessage 10 ValidatorUpdate.encode)
  @>= pure (defined message.(consensusParamUpdates) (fun v w => w @> uint32 18 @> fork @> ConsensusParams.encode v @> ldelim))
  @>= each_e message.(events) (submessage 26 Event.encode).

Definition decode_field {PB : Protobuf} (tag : Z) (message : t) : RM t :=
  match field_number tag with
  | 1 => v ← read_nested ValidatorUpdate.decode;
         mret (message <| validatorUpdates := message.(validatorUpdates) ++ [v] |>)
  | 2 => v ← read_nested ConsensusParams.decode;
         mret (message <| consensusParamUpdates := Some v |>)
  | 3 => v ← read_nested Event.decode; mret (message <| events := message.(events) ++ [v] |>)
  | _ => _ ← skipType (wire_type tag); mret message
  end.

Definition decode {PB : Protobuf} (length : option Z) : RM t :=
  decode_message length base decode_field.

Definition fromJSON (object : js) : result t :=
  validatorUpdates' ← field_or object "validatorUpdates" (to_list ValidatorUpdate.fromJSON) [];
  consensusParamUpdates' ← field_or object "consensusParamUpdates" (to_some ConsensusParams.fromJSON) None;
  events' ← field_or object "events" (to_list Event.fromJSON) [];
  Ok (mk validatorUpdates' consensusParamUpdates' events').

Definition toJSON (message : t) : js :=
  Obj ([("validatorUpdates", Arr (map ValidatorUpdate.toJSON message.(validatorUpdates)))] ++
   prop_opt "consensusParamUpdates" ConsensusParams.toJSON message.(consensusParamUpdates) ++
   [("events", Arr (map Event.toJSON message.(events)))]).

Record partial := mkPartial {
  p_validatorUpdates : option (list ValidatorUpdate.partial);
  p_consensusParamUpdates : option ConsensusParams.partial;
  p_events : option (list Event.partial);
}.

Definition fromPartial (object : partial) : t := {|
  validatorUpdates := map ValidatorUpdate.fromPartial (object.(p_validatorUpdates) ?? []);
  consensusParamUpdates := ConsensusParams.fromPartial <$> object.(p_consensusParamUpdates);
  events := map Event.fromPartial (object.(p_events) ?? []);
|}.

(** The object with no property given. *)
Definition nothing : partial := mkPartial None None None.

(** The bytes [encode] writes. *)
Definition wire {PB : Protobuf} {PS : ProtobufSpec PB} (m : t) : bytes :=
  f_repeated 10 ValidatorUpdate.wire m.(validatorUpdates) ++
  f_message 18 ConsensusParams.wire m.(consensusParamUpdates) ++
  f_repeated 26 Event.wire m.(events).

Definition valid (m : t) : Prop :=
  Forall ValidatorUpdate.valid m.(validatorUpdates) ∧ from_option ConsensusParams.valid True m.(consensusParamUpdates) ∧ Forall Event.valid m.(events).

(** The byte fields hold arrays, as the interface declares. *)
Definition typed (m : t) : bool := forallb ValidatorUpdate.typed m.(validatorUpdates) && forallb Event.typed m.(events).

(** The message without its empty byte arrays. *)
Definition normal (m : t) : t := {|
  validatorUpdates := map ValidatorUpdate.normal m.(validatorUpdates);
  consensusParamUpdates := m.(consensusParamUpdates);
  events := map Event.normal m.(events);
|}.

Definition encodable {PB : Protobuf} {PS : ProtobufSpec PB} (m : t) : Prop :=
  typed m = true ∧ valid m ∧ small (wire m).

Definition merge (m a : t) : t := {|
  validatorUpdates := m.(validatorUpdates) ++ map ValidatorUpdate.normal a.(validatorUpdates);
  consensusParamUpdates := later_message m.(consensusParamUpdates) a.(consensusParamUpdates);
  events := m.(events) ++ map Event.normal a.(events);
|}.

(** A whole message seen as a partial one. *)
Definition full (m : t) : partial := {|
  p_validatorUpdates := Some (map ValidatorUpdate.full m.(validatorUpdates));
  p_consensusParamUpdates := ConsensusParams.full <$> m.(consensusParamUpdates);
  p_events := Some (map Event.full m.(events));
|}.

(** The message as its [.proto] file declares it. *)
Definition schema (m : t) : list field :=
  [repeated 1 (message_value ValidatorUpdate.schema) m.(validatorUpdates);
   singular 2 Optional (message_value ConsensusParams.schema) m.(consensusParamUpdates);
   repeated 3 (message_value Event.schema) m.(events)].

(** The message with its default for every property that is not kept. *)
Definition only (kept : string → bool) (m : t) : t := {|
  validatorUpdates := if kept "validatorUpdates" then m.(validatorUpdates) else [];
  consensusParamUpdates := if kept "consensusParamUpdates" then m.(consensusParamUpdates) else None;
  events := if kept "events" then m.(events) else [];
|}.

#[global] Instance codec {PB : Protobuf} : FallibleCodec t :=
  {| fmsg_base := base; fmsg_encode := encode; fmsg_field := decode_field |}.

#[global] Program Instance spec {PB : Protobuf} (PS : ProtobufSpec PB) : FallibleSpec PS t :=
  {| fmsg_wire := wire; fmsg_valid := valid; fmsg_typed := typed; fmsg_normal := normal;
     fmsg_merge := merge |}.
Next Obligation. solve_fencode_wire. Qed.
Next Obligation. intros. solve_fencode_throws encode typed. Qed.
Next Obligation. solve_fdecode_wire. Qed.
Next Obligation. solve_fmerge_base. Qed.
Next Obligation. intros. solve_fadvances decode_field. Qed.

#[global] Program Instance given_ : FalliblePartial t partial :=
  {| fmsg_fromPartial := fromPartial; fmsg_full := full; fmsg_given := typed |}.
Next Obligation. solve_fgiven fromPartial typed. Qed.
Next Obligation. solve_fpartial fromPartial full typed. Qed.

#[global] Program Instance json : FallibleJson t :=
  {| fmsg_fromJSON := fromJSON; fmsg_toJSON := toJSON;
     fmsg_named := fun _ => true; fmsg_known := fun m => m |}.
Next Obligation. solve_fjson fromJSON toJSON. Qed.
Next Obligation. reflexivity. Qed.

#[global] Instance schema_wire {PB : Protobuf} {PS : ProtobufSpec PB} : WireSchema wire schema.
Proof. solve_schema_wire wire schema. Qed.

#[global] Instance schema_normal : NormalSchema normal schema.
Proof. solve_schema_normal normal schema. Qed.

#[global] Instance schema_merge : MergeSchema merge schema.
Proof. solve_schema_merge merge schema. Qed.

(** Its row in the table of message types. *)
Definition message {PB : Protobuf} {PS : ProtobufSpec PB} : message_type :=
  fallible_message "ResponseEndBlock" nothing true schema only.

#[global] Instance message_lawful {PB : Protobuf} (PS : ProtobufSpec PB) : Lawful message.
Proof. solve_lawful decode_field fromJSON only. Qed.

End ResponseEndBlock.

(** ** [ResponseCommit] (tendermint/abci/types.js) *)

Module ResponseCommit.

Record t := mk {
  data_ : option bytes;
  retainHeight : number;
}.

#[global] Instance t_eta : Settable t := λ m, mk m.(data_) m.(retainHeight).

Definition base : t := mk None 0.

Definition encode {PB : Protobuf} (message : t) (writer : Writer) : result Writer :=
  Ok writer
  @>= bytes_field 18 message.(data_)
  @>= pure (when (num_neq message.(retainHeight) 0)
       (fun w => w @> uint32 24 @> int64 message.(retainHeight))).

Definition decode_field {PB : Protobuf} (tag : Z) (message : t) : RM t :=
  match field_number tag with
  | 2 => v ← read_bytes; mret (message <| data_ := Some v |>)
  | 3 => v ← read_number read_int64; mret (message <| retainHeight := v |>)
  | _ => _ ← skipType (wire_type tag); mret message
  end.

Definition decode {PB : Protobuf} (length : option Z) : RM t :=
  decode_message length base decode_field.

Definition fromJSON (object : js) : result t :=
  data_' ← field_or object "data" (to_some bytesFromBase64) None;
  retainHeight' ← field_or object "retainHeight" js_Number 0;
  Ok (mk data_' retainHeight').

Definition toJSON (message : t) : js :=
  Obj (prop_opt "data" (fun b => Str (base64FromBytes b)) message.(data_) ++
   [("retainHeight", Num message.(retainHeight))]).

Record partial := mkPartial {
  p_data : option bytes;
  p_retainHeight : option number;
}.

Definition fromPartial (object : partial) : t := {|
  data_ := Some (object.(p_data) ?? []);
  retainHeight := object.(p_retainHeight) ?? Int 0;
|}.

(** The object with no property given. *)
Definition nothing : partial := mkPartial None None.

(** The bytes [encode] writes. *)
Definition wire {PB : Protobuf} {PS : ProtobufSpec PB} (m : t) : bytes :=
  f_bytes 18 m.(data_) ++
  f_number e_int64 24 m.(retainHeight).

Definition valid (m : t) : Prop :=
  int64_ok m.(retainHeight).

(** The byte fields hold arrays, as the interface declares. *)
Definition typed (m : t) : bool := given m.(data_).

(** The message without its empty byte arrays. *)
Definition normal (m : t) : t := {|
  data_ := nonempty m.(data_);
  retainHeight := m.(retainHeight);
|}.

Definition encodable {PB : Protobuf} {PS : ProtobufSpec PB} (m : t) : Prop :=
  typed m = true ∧ valid m ∧ small (wire m).

Definition merge (m a : t) : t := {|
  data_ := later_bytes m.(data_) a.(data_);
  retainHeight := later_number m.(retainHeight) a.(retainHeight);
|}.

(** A whole message seen as a partial one. *)
Definition full (m : t) : partial := {|
  p_data := m.(data_);
  p_retainHeight := Some m.(retainHeight);
|}.

(** The message as its [.proto] file declares it. *)
Definition schema (m : t) : list field :=
  [implicit 2 (byte_array m.(data_));
   implicit 3 (VInt Int64 m.(retainHeight))].

(** The message with its default for every property that is not kept. *)
Definition only (kept : string → bool) (m : t) : t := {|
  data_ := if kept "data" then m.(data_) else None;
  retainHeight := if kept "retainHeight" then m.(retainHeight) else Int 0;
|}.

#[global] Instance codec {PB : Protobuf} : FallibleCodec t :=
  {| fmsg_base := base; fmsg_encode := encode; fmsg_field := decode_field |}.

#[global] Program Instance spec {PB : Protobuf} (PS : ProtobufSpec PB) : FallibleSpec PS t :=
  {| fmsg_wire := wire; fmsg_valid := valid; fmsg_typed := typed; fmsg_normal := normal;
     fmsg_merge := merge |}.
Next Obligation. solve_fencode_wire. Qed.
Next Obligation. intros. solve_fencode_throws encode typed. Qed.
Next Obligation. solve_fdecode_wire. Qed.
Next Obligation. solve_fmerge_base. Qed.
Next Obligation. intros. solve_fadvances decode_field. Qed.

#[global] Program Instance given_ : FalliblePartial t partial :=
  {| fmsg_fromPartial := fromPartial; fmsg_full := full; fmsg_given := typed |}.
Next Obligation. solve_fgiven fromPartial typed. Qed.
Next Obligation. solve_fpartial fromPartial full typed. Qed.

#[global] Program Instance json : FallibleJson t :=
  {| fmsg_fromJSON := fromJSON; fmsg_toJSON := toJSON;
     fmsg_named := fun _ => true; fmsg_known := fun m => m |}.
Next Obligation. solve_fjson fromJSON toJSON. Qed.
Next Obligation. reflexivity. Qed.

#[global] Instance schema_wire {PB : Protobuf} {PS : ProtobufSpec PB} : WireSchema wire schema.
Proof. solve_schema_wire wire schema. Qed.

#[global] Instance schema_normal : NormalSchema normal schema.
Proof. solve_schema_normal normal schema. Qed.

#[global] Instance schema_merge : MergeSchema merge schema.
Proof. solve_schema_merge merge schema. Qed.

(** Its row in the table of message types. *)
Definition message {PB : Protobuf} {PS : ProtobufSpec PB} : message_type :=
  fallible_message "ResponseCommit" nothing true schema only.

#[global] Instance message_lawful {PB : Protobuf} (PS : ProtobufSpec PB) : Lawful message.
Proof. solve_lawful decode_field fromJSON only. Qed.

End ResponseCommit.

(** ** [ResponseListSnapshots] (tendermint/abci/types.js) *)

Module ResponseListSnapshots.

Record t := mk {
  snapshots : list Snapshot.t;
}.

#[global] Instance t_eta : Settable t := λ m, mk m.(snapshots).

Definition base : t := mk [].

Definition encode {PB : Protobuf} (message : t) (writer : Writer) : result Writer :=
  Ok writer
  @>= each_e message.(snapshots) (submessage 10 Snapshot.encode).

Definition decode_field {PB : Protobuf} (tag : Z) (message : t) : RM t :=
  match field_number tag with
  | 1 => v ← read_nested Snapshot.decode;
         mret (message <| snapshots := message.(snapshots) ++ [v] |>)
  | _ => _ ← skipType (wire_type tag); mret message
  end.

Definition decode {PB : Protobuf} (length : option Z) : RM t :=
  decode_message length base decode_field.

Definition fromJSON (object : js) : result t :=
  snapshots' ← field_or object "snapshots" (to_list Snapshot.fromJSON) [];
  Ok (mk snapshots').

Definition toJSON (message : t) : js :=
  Obj ([("snapshots", Arr (map Snapshot.toJSON message.(snapshots)))]).

Record partial := mkPartial {
  p_snapshots : option (list Snapshot.partial);
}.

Definition fromPartial (object : partial) : t := {|
  snapshots := map Snapshot.fromPartial (object.(p_snapshots) ?? []);
|}.

(** The object with no property given. *)
Definition nothing : partial := mkPartial None.

(** The bytes [encode] writes. *)
Definition wire {PB : Protobuf} {PS : ProtobufSpec PB} (m : t) : bytes :=
  f_repeated 10 Snapshot.wire m.(snapshots).

Definition valid (m : t) : Prop :=
  Forall Snapshot.valid m.(snapshots).

(** The byte fields hold arrays, as the interface declares. *)
Definition typed (m : t) : bool := forallb Snapshot.typed m.(snapshots).

(** The message without its empty byte arrays. *)
Definition normal (m : t) : t := {|
  snapshots := map Snapshot.normal m.(snapshots);
|}.

Definition encodable {PB : Protobuf} {PS : ProtobufSpec PB} (m : t) : Prop :=
  typed m = true ∧ valid m ∧ small (wire m).

Definition merge (m a : t) : t := {|
  snapshots := m.(snapshots) ++ map Snapshot.normal a.(snapshots);
|}.

(** A whole message seen as a partial one. *)
Definition full (m : t) : partial := {|
  p_snapshots := Some (map Snapshot.full m.(snapshots));
|}.

(** The message as its [.proto] file declares it. *)
Definition schema (m : t) : list field :=
  [repeated 1 (message_value Snapshot.schema) m.(snapshots)].

(** The message with its default for every property that is not kept. *)
Definition only (kept : string → bool) (m : t) : t := {|
  snapshots := if kept "snapshots" then m.(snapshots) else [];
|}.

#[global] Instance codec {PB : Protobuf} : FallibleCodec t :=
  {| fmsg_base := base; fmsg_encode := encode; fmsg_field := decode_field |}.

#[global] Program Instance spec {PB : Protobuf} (PS : ProtobufSpec PB) : FallibleSpec PS t :=
  {| fmsg_wire := wire; fmsg_valid := valid; fmsg_typed := typed; fmsg_normal := normal;
     fmsg_merge := merge |}.
Next Obligation. solve_fencode_wire. Qed.
Next Obligation. intros. solve_fencode_throws encode typed. Qed.
Next Obligation. solve_fdecode_wire. Qed.
Next Obligation. solve_fmerge_base. Qed.
Next Obligation. intros. solve_fadvances decode_field. Qed.

#[global] Program Instance given_ : FalliblePartial t partial :=
  {| fmsg_fromPartial := fromPartial; fmsg_full := full; fmsg_given := typed |}.
Next Obligation. solve_fgiven fromPartial typed. Qed.
Next Obligation. solve_fpartial fromPartial full typed. Qed.

#[global] Program Instance json : FallibleJson t :=
  {| fmsg_fromJSON := fromJSON; fmsg_toJSON := toJSON;
     fmsg_named := fun _ => true; fmsg_known := fun m => m |}.
Next Obligation. solve_fjson fromJSON toJSON. Qed.
Next Obligation. reflexivity. Qed.

#[global] Instance schema_wire {PB : Protobuf} {PS : ProtobufSpec PB} : WireSchema wire schema.
Proof. solve_schema_wire wire schema. Qed.

#[global] Instance schema_normal : NormalSchema normal schema.
Proof. solve_schema_normal normal schema. Qed.

#[global] Instance schema_merge : MergeSchema merge schema.
Proof. solve_schema_merge merge schema. Qed.

(** Its row in the table of message types. *)
Definition message {PB : Protobuf} {PS : ProtobufSpec PB} : message_type :=
  fallible_message "ResponseListSnapshots" nothing true schema only.

#[global] Instance message_lawful {PB : Protobuf} (PS : ProtobufSpec PB) : Lawful message.
Proof. solve_lawful decode_field fromJSON only. Qed.

End ResponseListSnapshots.

(** ** [ResponseOfferSnapshot] (tendermint/abci/types.js) *)

Module ResponseOfferSnapshot.

Record t := mk {
  result_ : number;
}.

#[global] Instance t_eta : Settable t := λ m, mk m.(result_).

Definition base : t := mk 0.

Definition encode {PB : Protobuf} (message : t) (writer : Writer) : result Writer :=
  Ok writer
  @>= pure (when (num_neq message.(result_) 0) (fun w => w @> uint32 8 @> int32 message.(result_))).

Definition decode_field {PB : Protobuf} (tag : Z) (message : t) : RM t :=
  match field_number tag with
  | 1 => v ← read_int32; mret (message <| result_ := Int v |>)
  | _ => _ ← skipType (wire_type tag); mret message
  end.

Definition decode {PB : Protobuf} (length : option Z) : RM t :=
  decode_message length base decode_field.

Definition fromJSON (object : js) : result t :=
  result_' ← field_or object "result" responseOfferSnapshot_ResultFromJSON 0;
  Ok (mk result_').

Definition toJSON (message : t) : js :=
  Obj ([("result", Str (responseOfferSnapshot_ResultToJSON message.(result_)))]).

Record partial := mkPartial {
  p_result : option number;
}.

Definition fromPartial (object : partial) : t := {|
  result_ := object.(p_result) ?? Int 0;
|}.

(** The object with no property given. *)
Definition nothing : partial := mkPartial None.

(** The bytes [encode] writes. *)
Definition wire {PB : Protobuf} {PS : ProtobufSpec PB} (m : t) : bytes :=
  f_number e_int32 8 m.(result_).

Definition valid (m : t) : Prop :=
  int32_ok m.(result_).

(** The byte fields hold arrays, as the interface declares. *)
Definition typed (m : t) : bool := true.

(** The message without its empty byte arrays. *)
Definition normal (m : t) : t := {|
  result_ := m.(result_);
|}.

(** The enumeration fields hold members. *)
Definition named (m : t) : bool := responseOfferSnapshot_Result_named m.(result_).

(** The message with the numbers [toJSON] does not know replaced. *)
Definition known (m : t) : t := {|
  result_ := responseOfferSnapshot_Result_known m.(result_);
|}.

Definition encodable {PB : Protobuf} {PS : ProtobufSpec PB} (m : t) : Prop :=
  typed m = true ∧ valid m ∧ small (wire m).

Definition merge (m a : t) : t := {|
  result_ := later_number m.(result_) a.(result_);
|}.

(** A whole message seen as a partial one. *)
Definition full (m : t) : partial := {|
  p_result := Some m.(result_);
|}.

(** The message as its [.proto] file declares it. *)
Definition schema (m : t) : list field :=
  [implicit 1 (VInt Int32 m.(result_))].

(** The message with its default for every property that is not kept. *)
Definition only (kept : string → bool) (m : t) : t := {|
  result_ := if kept "result" then m.(result_) else Int 0;
|}.

#[global] Instance codec {PB : Protobuf} : FallibleCodec t :=
  {| fmsg_base := base; fmsg_encode := encode; fmsg_field := decode_field |}.

#[global] Program Instance spec {PB : Protobuf} (PS : ProtobufSpec PB) : FallibleSpec PS t :=
  {| fmsg_wire := wire; fmsg_valid := valid; fmsg_typed := typed; fmsg_normal := normal;
     fmsg_merge := merge |}.
Next Obligation. solve_fencode_wire. Qed.
Next Obligation. intros. solve_fencode_throws encode typed. Qed.
Next Obligation. solve_fdecode_wire. Qed.
Next Obligation. solve_fmerge_base. Qed.
Next Obligation. intros. solve_fadvances decode_field. Qed.

#[global] Program Instance given_ : FalliblePartial t partial :=
  {| fmsg_fromPartial := fromPartial; fmsg_full := full; fmsg_given := typed |}.
Next Obligation. solve_fgiven fromPartial typed. Qed.
Next Obligation. solve_fpartial fromPartial full typed. Qed.

#[global] Program Instance json : FallibleJson t :=
  {| fmsg_fromJSON := fromJSON; fmsg_toJSON := toJSON;
     fmsg_named := named; fmsg_known := known |}.
Next Obligation. solve_fjson fromJSON toJSON. Qed.
Next Obligation. solve_known named known. Qed.

#[global] Instance schema_wire {PB : Protobuf} {PS : ProtobufSpec PB} : WireSchema wire schema.
Proof. solve_schema_wire wire schema. Qed.

#[global] Instance schema_normal : NormalSchema normal schema.
Proof. solve_schema_normal normal schema. Qed.

#[global] Instance schema_merge : MergeSchema merge schema.
Proof. solve_schema_merge merge schema. Qed.

(** Its row in the table of message types. *)
Definition message {PB : Protobuf} {PS : ProtobufSpec PB} : message_type :=
  fallible_message "ResponseOfferSnapshot" nothing true schema only.

#[global] Instance message_lawful {PB : Protobuf} (PS : ProtobufSpec PB) : Lawful message.
Proof. solve_lawful decode_field fromJSON only. Qed.

End ResponseOfferSnapshot.

(** ** [ResponseLoadSnapshotChunk] (tendermint/abci/types.js) *)

Module ResponseLoadSnapshotChunk.

Record t := mk {
  chunk : option bytes;
}.

#[global] Instance t_eta : Settable t := λ m, mk m.(chunk).

Definition base : t := mk None.

Definition encode {PB : Protobuf} (message : t) (writer : Writer) : result Writer :=
  Ok writer
  @>= bytes_field 10 message.(chunk).

Definition decode_field {PB : Protobuf} (tag : Z) (message : t) : RM t :=
  match field_number tag with
  | 1 => v ← read_bytes; mret (message <| chunk := Some v |>)
  | _ => _ ← skipType (wire_type tag); mret message
  end.

Definition decode {PB : Protobuf} (length : option Z) : RM t :=
  decode_message length base decode_field.

Definition fromJSON (object : js) : result t :=
  chunk' ← field_or object "chunk" (to_some bytesFromBase64) None;
  Ok (mk chunk').

Definition toJSON (message : t) : js :=
  Obj (prop_opt "chunk" (fun b => Str (base64FromBytes b)) message.(chunk)).

Record partial := mkPartial {
  p_chunk : option bytes;
}.

Definition fromPartial (object : partial) : t := {|
  chunk := Some (object.(p_chunk) ?? []);
|}.

(** The object with no property given. *)
Definition nothing : partial := mkPartial None.

(** The bytes [encode] writes. *)
Definition wire {PB : Protobuf} {PS : ProtobufSpec PB} (m : t) : bytes :=
  f_bytes 10 m.(chunk).

Definition valid (m : t) : Prop :=
  True.

(** The byte fields hold arrays, as the interface declares. *)
Definition typed (m : t) : bool := given m.(chunk).

(** The message without its empty byte arrays. *)
Definition normal (m : t) : t := {|
  chunk := nonempty m.(chunk);
|}.

Definition encodable {PB : Protobuf} {PS : ProtobufSpec PB} (m : t) : Prop :=
  typed m = true ∧ valid m ∧ small (wire m).

Definition merge (m a : t) : t := {|
  chunk := later_bytes m.(chunk) a.(chunk);
|}.

(** A whole message seen as a partial one. *)
Definition full (m : t) : partial := {|
  p_chunk := m.(chunk);
|}.

(** The message as its [.proto] file declares it. *)
Definition schema (m : t) : list field :=
  [implicit 1 (byte_array m.(chunk))].

(** The message with its default for every property that is not kept. *)
Definition only (kept : string → bool) (m : t) : t := {|
  chunk := if kept "chunk" then m.(chunk) else None;
|}.

#[global] Instance codec {PB : Protobuf} : FallibleCodec t :=
  {| fmsg_base := base; fmsg_encode := encode; fmsg_field := decode_field |}.

#[global] Program Instance spec {PB : Protobuf} (PS : ProtobufSpec PB) : FallibleSpec PS t :=
  {| fmsg_wire := wire; fmsg_valid := valid; fmsg_typed := typed; fmsg_normal := normal;
     fmsg_merge := merge |}.
Next Obligation. solve_fencode_wire. Qed.
Next Obligation. intros. solve_fencode_throws encode typed. Qed.
Next Obligation. solve_fdecode_wire. Qed.
Next Obligation. solve_fmerge_base. Qed.
Next Obligation. intros. solve_fadvances decode_field. Qed.

#[global] Program Instance given_ : FalliblePartial t partial :=
  {| fmsg_fromPartial := fromPartial; fmsg_full := full; fmsg_given := typed |}.
Next Obligation. solve_fgiven fromPartial typed. Qed.
Next Obligation. solve_fpartial fromPartial full typed. Qed.

#[global] Program Instance json : FallibleJson t :=
  {| fmsg_fromJSON := fromJSON; fmsg_toJSON := toJSON;
     fmsg_named := fun _ => true; fmsg_known := fun m => m |}.
Next Obligation. solve_fjson fromJSON toJSON. Qed.
Next Obligation. reflexivity. Qed.

#[global] Instance schema_wire {PB : Protobuf} {PS : ProtobufSpec PB} : WireSchema wire schema.
Proof. solve_schema_wire wire schema. Qed.

#[global] Instance schema_normal : NormalSchema normal schema.
Proof. solve_schema_normal normal schema. Qed.

#[global] Instance schema_merge : MergeSchema merge schema.
Proof. solve_schema_merge merge schema. Qed.

(** Its row in the table of message types. *)
Definition message {PB : Protobuf} {PS : ProtobufSpec PB} : message_type :=
  fallible_message "ResponseLoadSnapshotChunk" nothing true schema only.

#[global] Instance message_lawful {PB : Protobuf} (PS : ProtobufSpec PB) : Lawful message.
Proof. solve_lawful decode_field fromJSON only. Qed.

End ResponseLoadSnapshotChunk.

(** ** [ResponseApplySnapshotChunk] (tendermint/abci/types.js) *)

Module ResponseApplySnapshotChunk.

Record t := mk {
  result_ : number;
  refetchChunks : list number;
  rejectSenders : list string;
}.

#[global] Instance t_eta : Settable t := λ m, mk m.(result_) m.(refetchChunks) m.(rejectSenders).

Definition base : t := mk 0 [] [].

Definition encode {PB : Protobuf} (message : t) (writer : Writer) : result Writer :=
  Ok writer
  @>= pure (when (num_neq message.(result_) 0) (fun w => w @> uint32 8 @> int32 message.(result_)))
  @>= pure (packed 18 message.(refetchChunks))
  @>= pure (each message.(rejectSenders) (fun v w => w @> uint32 26 @> string_ v)).

Definition decode_field {PB : Protobuf} (tag : Z) (message : t) : RM t :=
  match field_number tag with
  | 1 => v ← read_int32; mret (message <| result_ := Int v |>)
  | 2 =>
      if wire_type tag =? 2 then
        v ← read_packed message.(refetchChunks); mret (message <| refetchChunks := v |>)
      else v ← read_uint32; mret (message <| refetchChunks := message.(refetchChunks) ++ [Int v] |>)
  | 3 => v ← read_string; mret (message <| rejectSenders := message.(rejectSenders) ++ [v] |>)
  | _ => _ ← skipType (wire_type tag); mret message
  end.

Definition decode {PB : Protobuf} (length : option Z) : RM t :=
  decode_message length base decode_field.

Definition fromJSON (object : js) : result t :=
  result_' ← field_or object "result" responseApplySnapshotChunk_ResultFromJSON 0;
  refetchChunks' ← field_or object "refetchChunks" (to_list js_Number) [];
  rejectSenders' ← field_or object "rejectSenders" (to_list to_string) [];
  Ok (mk result_' refetchChunks' rejectSenders').

Definition toJSON (message : t) : js :=
  Obj ([("result", Str (responseApplySnapshotChunk_ResultToJSON message.(result_)));
    ("refetchChunks", Arr (map Num message.(refetchChunks)));
    ("rejectSenders", Arr (map Str message.(rejectSenders)))]).

Record partial := mkPartial {
  p_result : option number;
  p_refetchChunks : option (list number);
  p_rejectSenders : option (list string);
}.

Definition fromPartial (object : partial) : t := {|
  result_ := object.(p_result) ?? Int 0;
  refetchChunks := (object.(p_refetchChunks) ?? []);
  rejectSenders := (object.(p_rejectSenders) ?? []);
|}.

(** The object with no property given. *)
Definition nothing : partial := mkPartial None None None.

(** The bytes [encode] writes. *)
Definition wire {PB : Protobuf} {PS : ProtobufSpec PB} (m : t) : bytes :=
  f_number e_int32 8 m.(result_) ++
  f_packed 18 m.(refetchChunks) ++
  f_repeated 26 chars m.(rejectSenders).

Definition valid (m : t) : Prop :=
  int32_ok m.(result_) ∧ Forall uint32_ok m.(refetchChunks).

(** The byte fields hold arrays, as the interface declares. *)
Definition typed (m : t) : bool := true.

(** The message without its empty byte arrays. *)
Definition normal (m : t) : t := {|
  result_ := m.(result_);
  refetchChunks := m.(refetchChunks);
  rejectSenders := m.(rejectSenders);
|}.

(** The enumeration fields hold members. *)
Definition named (m : t) : bool := responseApplySnapshotChunk_Result_named m.(result_).

(** The message with the numbers [toJSON] does not know replaced. *)
Definition known (m : t) : t := {|
  result_ := responseApplySnapshotChunk_Result_known m.(result_);
  refetchChunks := m.(refetchChunks);
  rejectSenders := m.(rejectSenders);
|}.

Definition encodable {PB : Protobuf} {PS : ProtobufSpec PB} (m : t) : Prop :=
  typed m = true ∧ valid m ∧ small (wire m).

Definition merge (m a : t) : t := {|
  result_ := later_number m.(result_) a.(result_);
  refetchChunks := m.(refetchChunks) ++ a.(refetchChunks);
  rejectSenders := m.(rejectSenders) ++ a.(rejectSenders);
|}.

(** A whole message seen as a partial one. *)
Definition full (m : t) : partial := {|
  p_result := Some m.(result_);
  p_refetchChunks := Some m.(refetchChunks);
  p_rejectSenders := Some m.(rejectSenders);
|}.

(** The message as its [.proto] file declares it. *)
Definition schema (m : t) : list field :=
  [implicit 1 (VInt Int32 m.(result_));
   packed_ints 2 Uint32 m.(refetchChunks);
   repeated 3 VString m.(rejectSenders)].

(** The message with its default for every property that is not kept. *)
Definition only (kept : string → bool) (m : t) : t := {|
  result_ := if kept "result" then m.(result_) else Int 0;
  refetchChunks := if kept "refetchChunks" then m.(refetchChunks) else [];
  rejectSenders := if kept "rejectSenders" then m.(rejectSenders) else [];
|}.

#[global] Instance codec {PB : Protobuf} : FallibleCodec t :=
  {| fmsg_base := base; fmsg_encode := encode; fmsg_field := decode_field |}.

#[global] Program Instance spec {PB : Protobuf} (PS : ProtobufSpec PB) : FallibleSpec PS t :=
  {| fmsg_wire := wire; fmsg_valid := valid; fmsg_typed := typed; fmsg_normal := normal;
     fmsg_merge := merge |}.
Next Obligation. solve_fencode_wire. Qed.
Next Obligation. intros. solve_fencode_throws encode typed. Qed.
Next Obligation. solve_fdecode_wire. Qed.
Next Obligation. solve_fmerge_base. Qed.
Next Obligation. intros. solve_fadvances decode_field. Qed.

#[global] Program Instance given_ : FalliblePartial t partial :=
  {| fmsg_fromPartial := fromPartial; fmsg_full := full; fmsg_given := typed |}.
Next Obligation. solve_fgiven fromPartial typed. Qed.
Next Obligation. solve_fpartial fromPartial full typed. Qed.

#[global] Program Instance json : FallibleJson t :=
  {| fmsg_fromJSON := fromJSON; fmsg_toJSON := toJSON;
     fmsg_named := named; fmsg_known := known |}.
Next Obligation. solve_fjson fromJSON toJSON. Qed.
Next Obligation. solve_known named known. Qed.

#[global] Instance schema_wire {PB : Protobuf} {PS : ProtobufSpec PB} : WireSchema wire schema.
Proof. solve_schema_wire wire schema. Qed.

#[global] Instance schema_normal : NormalSchema normal schema.
Proof. solve_schema_normal normal schema. Qed.

#[global] Instance schema_merge : MergeSchema merge schema.
Proof. solve_schema_merge merge schema. Qed.

(** Its row in the table of message types. *)
Definition message {PB : Protobuf} {PS : ProtobufSpec PB} : message_type :=
  fallible_message "ResponseApplySnapshotChunk" nothing true schema only.

#[global] Instance message_lawful {PB : Protobuf} (PS : ProtobufSpec PB) : Lawful message.
Proof. solve_lawful decode_field fromJSON only. Qed.

End ResponseApplySnapshotChunk.

(** ** [Response] (tendermint/abci/types.js) *)

Module Response.

Record t := mk {
  exception : option ResponseException.t;
  echo : option ResponseEcho.t;
  flush : option ResponseFlush.t;
  info : option ResponseInfo.t;
  setOption : option ResponseSetOption.t;
  initChain : option ResponseInitChain.t;
  query : option ResponseQuery.t;
  beginBlock : option ResponseBeginBlock.t;
  checkTx : option ResponseCheckTx.t;
  deliverTx : option ResponseDeliverTx.t;
  endBlock : option ResponseEndBlock.t;
  commit : option ResponseCommit.t;
  listSnapshots : option ResponseListSnapshots.t;
  offerSnapshot : option ResponseOfferSnapshot.t;
  loadSnapshotChunk : option ResponseLoadSnapshotChunk.t;
  applySnapshotChunk : option ResponseApplySnapshotChunk.t;
}.

#[global] Instance t_eta : Settable t := λ m, mk m.(exception) m.(echo) m.(flush) m.(info)
  m.(setOption) m.(initChain) m.(query) m.(beginBlock) m.(checkTx) m.(deliverTx) m.(endBlock)
  m.(commit) m.(listSnapshots) m.(offerSnapshot) m.(loadSnapshotChunk) m.(applySnapshotChunk).

Definition base : t := mk None None None None None None None None None None None None None None
  None None.

Definition encode {PB : Protobuf} (message : t) (writer : Writer) : result Writer :=
  Ok writer
  @>= pure (defined message.(exception) (fun v w => w @> uint32 10 @> fork @> ResponseException.encode v @> ldelim))
  @>= pure (defined message.(echo) (fun v w => w @> uint32 18 @> fork @> ResponseEcho.encode v @> ldelim))
  @>= pure (defined message.(flush) (fun v w => w @> uint32 26 @> fork @> ResponseFlush.encode v @> ldelim))
  @>= defined_e message.(info) (submessage 34 ResponseInfo.encode)
  @>= pure (defined message.(setOption) (fun v w => w @> uint32 42 @> fork @> ResponseSetOption.encode v @> ldelim))
  @>= defined_e message.(initChain) (submessage 50 ResponseInitChain.encode)
  @>= defined_e message.(query) (submessage 58 ResponseQuery.encode)
  @>= defined_e message.(beginBlock) (submessage 66 ResponseBeginBlock.encode)
  @>= defined_e message.(checkTx) (submessage 74 ResponseCheckTx.encode)
  @>= defined_e message.(deliverTx) (submessage 82 ResponseDeliverTx.encode)
  @>= defined_e message.(endBlock) (submessage 90 ResponseEndBlock.encode)
  @>= defined_e message.(commit) (submessage 98 ResponseCommit.encode)
  @>= defined_e message.(listSnapshots) (submessage 106 ResponseListSnapshots.encode)
  @>= defined_e message.(offerSnapshot) (submessage 114 ResponseOfferSnapshot.encode)
  @>= defined_e message.(loadSnapshotChunk) (submessage 122 ResponseLoadSnapshotChunk.encode)
  @>= defined_e message.(applySnapshotChunk) (submessage 130 ResponseApplySnapshotChunk.encode).

Definition decode_field {PB : Protobuf} (tag : Z) (message : t) : RM t :=
  match field_number tag with
  | 1 => v ← read_nested ResponseException.decode; mret (message <| exception := Some v |>)
  | 2 => v ← read_nested ResponseEcho.decode; mret (message <| echo := Some v |>)
  | 3 => v ← read_nested ResponseFlush.decode; mret (message <| flush := Some v |>)
  | 4 => v ← read_nested ResponseInfo.decode; mret (message <| info := Some v |>)
  | 5 => v ← read_nested ResponseSetOption.decode; mret (message <| setOption := Some v |>)
  | 6 => v ← read_nested ResponseInitChain.decode; mret (message <| initChain := Some v |>)
  | 7 => v ← read_nested ResponseQuery.decode; mret (message <| query := Some v |>)
  | 8 => v ← read_nested ResponseBeginBlock.decode; mret (message <| beginBlock := Some v |>)
  | 9 => v ← read_nested ResponseCheckTx.decode; mret (message <| checkTx := Some v |>)
  | 10 => v ← read_nested ResponseDeliverTx.decode; mret (message <| deliverTx := Some v |>)
  | 11 => v ← read_nested ResponseEndBlock.decode; mret (message <| endBlock := Some v |>)
  | 12 => v ← read_nested ResponseCommit.decode; mret (message <| commit := Some v |>)
  | 13 => v ← read_nested ResponseListSnapshots.decode; mret (message <| listSnapshots := Some v |>)
  | 14 => v ← read_nested ResponseOfferSnapshot.decode; mret (message <| offerSnapshot := Some v |>)
  | 15 => v ← read_nested ResponseLoadSnapshotChunk.decode;
         mret (message <| loadSnapshotChunk := Some v |>)
  | 16 => v ← read_nested ResponseApplySnapshotChunk.decode;
         mret (message <| applySnapshotChunk := Some v |>)
  | _ => _ ← skipType (wire_type tag); mret message
  end.

Definition decode {PB : Protobuf} (length : option Z) : RM t :=
  decode_message length base decode_field.

Definition fromJSON (object : js) : result t :=
  exception' ← field_or object "exception" (to_some ResponseException.fromJSON) None;
  echo' ← field_or object "echo" (to_some ResponseEcho.fromJSON) None;
  flush' ← field_or object "flush" (to_some ResponseFlush.fromJSON) None;
  info' ← field_or object "info" (to_some ResponseInfo.fromJSON) None;
  setOption' ← field_or object "setOption" (to_some ResponseSetOption.fromJSON) None;
  initChain' ← field_or object "initChain" (to_some ResponseInitChain.fromJSON) None;
  query' ← field_or object "query" (to_some ResponseQuery.fromJSON) None;
  beginBlock' ← field_or object "beginBlock" (to_some ResponseBeginBlock.fromJSON) None;
  checkTx' ← field_or object "checkTx" (to_some ResponseCheckTx.fromJSON) None;
  deliverTx' ← field_or object "deliverTx" (to_some ResponseDeliverTx.fromJSON) None;
  endBlock' ← field_or object "endBlock" (to_some ResponseEndBlock.fromJSON) None;
  commit' ← field_or object "commit" (to_some ResponseCommit.fromJSON) None;
  listSnapshots' ← field_or object "listSnapshots" (to_some ResponseListSnapshots.fromJSON) None;
  offerSnapshot' ← field_or object "offerSnapshot" (to_some ResponseOfferSnapshot.fromJSON) None;
  loadSnapshotChunk' ← field_or object "loadSnapshotChunk" (to_some ResponseLoadSnapshotChunk.fromJSON) None;
  applySnapshotChunk' ← field_or object "applySnapshotChunk" (to_some ResponseApplySnapshotChunk.fromJSON) None;
  Ok (mk exception' echo' flush' info' setOption' initChain' query' beginBlock' checkTx'
    deliverTx' endBlock' commit' listSnapshots' offerSnapshot' loadSnapshotChunk'
    applySnapshotChunk').

Definition toJSON (message : t) : js :=
  Obj (prop_opt "exception" ResponseException.toJSON message.(exception) ++
   prop_opt "echo" ResponseEcho.toJSON message.(echo) ++
   prop_opt "flush" ResponseFlush.toJSON message.(flush) ++
   prop_opt "info" ResponseInfo.toJSON message.(info) ++
   prop_opt "setOption" ResponseSetOption.toJSON message.(setOption) ++
   prop_opt "initChain" ResponseInitChain.toJSON message.(initChain) ++
   prop_opt "query" ResponseQuery.toJSON message.(query) ++
   prop_opt "beginBlock" ResponseBeginBlock.toJSON message.(beginBlock) ++
   prop_opt "checkTx" ResponseCheckTx.toJSON message.(checkTx) ++
   prop_opt "deliverTx" ResponseDeliverTx.toJSON message.(deliverTx) ++
   prop_opt "endBlock" ResponseEndBlock.toJSON message.(endBlock) ++
   prop_opt "commit" ResponseCommit.toJSON message.(commit) ++
   prop_opt "listSnapshots" ResponseListSnapshots.toJSON message.(listSnapshots) ++
   prop_opt "offerSnapshot" ResponseOfferSnapshot.toJSON message.(offerSnapshot) ++
   prop_opt "loadSnapshotChunk" ResponseLoadSnapshotChunk.toJSON message.(loadSnapshotChunk) ++
   prop_opt "applySnapshotChunk" ResponseApplySnapshotChunk.toJSON message.(applySnapshotChunk)).

Record partial := mkPartial {
  p_exception : option ResponseException.partial;
  p_echo : option ResponseEcho.partial;
  p_flush : option ResponseFlush.partial;
  p_info : option ResponseInfo.partial;
  p_setOption : option ResponseSetOption.partial;
  p_initChain : option ResponseInitChain.partial;
  p_query : option ResponseQuery.partial;
  p_beginBlock : option ResponseBeginBlock.partial;
  p_checkTx : option ResponseCheckTx.partial;
  p_deliverTx : option ResponseDeliverTx.partial;
  p_endBlock : option ResponseEndBlock.partial;
  p_commit : option ResponseCommit.partial;
  p_listSnapshots : option ResponseListSnapshots.partial;
  p_offerSnapshot : option ResponseOfferSnapshot.partial;
  p_loadSnapshotChunk : option ResponseLoadSnapshotChunk.partial;
  p_applySnapshotChunk : option ResponseApplySnapshotChunk.partial;
}.

Definition fromPartial (object : partial) : t := {|
  exception := ResponseException.fromPartial <$> object.(p_exception);
  echo := ResponseEcho.fromPartial <$> object.(p_echo);
  flush := ResponseFlush.fromPartial <$> object.(p_flush);
  info := ResponseInfo.fromPartial <$> object.(p_info);
  setOption := ResponseSetOption.fromPartial <$> object.(p_setOption);
  initChain := ResponseInitChain.fromPartial <$> object.(p_initChain);
  query := ResponseQuery.fromPartial <$> object.(p_query);
  beginBlock := ResponseBeginBlock.fromPartial <$> object.(p_beginBlock);
  checkTx := ResponseCheckTx.fromPartial <$> object.(p_checkTx);
  deliverTx := ResponseDeliverTx.fromPartial <$> object.(p_deliverTx);
  endBlock := ResponseEndBlock.fromPartial <$> object.(p_endBlock);
  commit := ResponseCommit.fromPartial <$> object.(p_commit);
  listSnapshots := ResponseListSnapshots.fromPartial <$> object.(p_listSnapshots);
  offerSnapshot := ResponseOfferSnapshot.fromPartial <$> object.(p_offerSnapshot);
  loadSnapshotChunk := ResponseLoadSnapshotChunk.fromPartial <$> object.(p_loadSnapshotChunk);
  applySnapshotChunk := ResponseApplySnapshotChunk.fromPartial <$> object.(p_applySnapshotChunk);
|}.

(** The object with no property given. *)
Definition nothing : partial := mkPartial None None None None None None None None None None None
  None None None None None.

(** The bytes [encode] writes. *)
Definition wire {PB : Protobuf} {PS : ProtobufSpec PB} (m : t) : bytes :=
  f_message 10 ResponseException.wire m.(exception) ++
  f_message 18 ResponseEcho.wire m.(echo) ++
  f_message 26 ResponseFlush.wire m.(flush) ++
  f_message 34 ResponseInfo.wire m.(info) ++
  f_message 42 ResponseSetOption.wire m.(setOption) ++
  f_message 50 ResponseInitChain.wire m.(initChain) ++
  f_message 58 ResponseQuery.wire m.(query) ++
  f_message 66 ResponseBeginBlock.wire m.(beginBlock) ++
  f_message 74 ResponseCheckTx.wire m.(checkTx) ++
  f_message 82 ResponseDeliverTx.wire m.(deliverTx) ++
  f_message 90 ResponseEndBlock.wire m.(endBlock) ++
  f_message 98 ResponseCommit.wire m.(commit) ++
  f_message 106 ResponseListSnapshots.wire m.(listSnapshots) ++
  f_message 114 ResponseOfferSnapshot.wire m.(offerSnapshot) ++
  f_message 122 ResponseLoadSnapshotChunk.wire m.(loadSnapshotChunk) ++
  f_message 130 ResponseApplySnapshotChunk.wire m.(applySnapshotChunk).

Definition valid (m : t) : Prop :=
  from_option ResponseException.valid True m.(exception) ∧ from_option ResponseEcho.valid True m.(echo) ∧ from_option ResponseFlush.valid True m.(flush) ∧ from_option ResponseInfo.valid True m.(info) ∧ from_option ResponseSetOption.valid True m.(setOption) ∧ from_option ResponseInitChain.valid True m.(initChain) ∧ from_option ResponseQuery.valid True m.(query) ∧ from_option ResponseBeginBlock.valid True m.(beginBlock) ∧ from_option ResponseCheckTx.valid True m.(checkTx) ∧ from_option ResponseDeliverTx.valid True m.(deliverTx) ∧ from_option ResponseEndBlock.valid True m.(endBlock) ∧ from_option ResponseCommit.valid True m.(commit) ∧ from_option ResponseListSnapshots.valid True m.(listSnapshots) ∧ from_option ResponseOfferSnapshot.valid True m.(offerSnapshot) ∧ from_option ResponseLoadSnapshotChunk.valid True m.(loadSnapshotChunk) ∧ from_option ResponseApplySnapshotChunk.valid True m.(applySnapshotChunk).

(** The byte fields hold arrays, as the interface declares. *)
Definition typed (m : t) : bool := from_option ResponseInfo.typed true m.(info) && from_option ResponseInitChain.typed true m.(initChain) && from_option ResponseQuery.typed true m.(query) && from_option ResponseBeginBlock.typed true m.(beginBlock) && from_option ResponseCheckTx.typed true m.(checkTx) && from_option ResponseDeliverTx.typed true m.(deliverTx) && from_option ResponseEndBlock.typed true m.(endBlock) && from_option ResponseCommit.typed true m.(commit) && from_option ResponseListSnapshots.typed true m.(listSnapshots) && from_option ResponseOfferSnapshot.typed true m.(offerSnapshot) && from_option ResponseLoadSnapshotChunk.typed true m.(loadSnapshotChunk) && from_option ResponseApplySnapshotChunk.typed true m.(applySnapshotChunk).

(** The message without its empty byte arrays. *)
Definition normal (m : t) : t := {|
  exception := m.(exception);
  echo := m.(echo);
  flush := m.(flush);
  info := ResponseInfo.normal <$> m.(info);
  setOption := m.(setOption);
  initChain := ResponseInitChain.normal <$> m.(initChain);
  query := ResponseQuery.normal <$> m.(query);
  beginBlock := ResponseBeginBlock.normal <$> m.(beginBlock);
  checkTx := ResponseCheckTx.normal <$> m.(checkTx);
  deliverTx := ResponseDeliverTx.normal <$> m.(deliverTx);
  endBlock := ResponseEndBlock.normal <$> m.(endBlock);
  commit := ResponseCommit.normal <$> m.(commit);
  listSnapshots := ResponseListSnapshots.normal <$> m.(listSnapshots);
  offerSnapshot := ResponseOfferSnapshot.normal <$> m.(offerSnapshot);
  loadSnapshotChunk := ResponseLoadSnapshotChunk.normal <$> m.(loadSnapshotChunk);
  applySnapshotChunk := ResponseApplySnapshotChunk.normal <$> m.(applySnapshotChunk);
|}.

(** The enumeration fields hold members. *)
Definition named (m : t) : bool := from_option ResponseOfferSnapshot.named true m.(offerSnapshot) && from_option ResponseApplySnapshotChunk.named true m.(applySnapshotChunk).

(** The message with the numbers [toJSON] does not know replaced. *)
Definition known (m : t) : t := {|
  exception := m.(exception);
  echo := m.(echo);
  flush := m.(flush);
  info := m.(info);
  setOption := m.(setOption);
  initChain := m.(initChain);
  query := m.(query);
  beginBlock := m.(beginBlock);
  checkTx := m.(checkTx);
  deliverTx := m.(deliverTx);
  endBlock := m.(endBlock);
  commit := m.(commit);
  listSnapshots := m.(listSnapshots);
  offerSnapshot := ResponseOfferSnapshot.known <$> m.(offerSnapshot);
  loadSnapshotChunk := m.(loadSnapshotChunk);
  applySnapshotChunk := ResponseApplySnapshotChunk.known <$> m.(applySnapshotChunk);
|}.

Definition encodable {PB : Protobuf} {PS : ProtobufSpec PB} (m : t) : Prop :=
  typed m = true ∧ valid m ∧ small (wire m).

Definition merge (m a : t) : t := {|
  exception := later_message m.(exception) a.(exception);
  echo := later_message m.(echo) a.(echo);
  flush := later_message m.(flush) a.(flush);
  info := later_message m.(info) (ResponseInfo.normal <$> a.(info));
  setOption := later_message m.(setOption) a.(setOption);
  initChain := later_message m.(initChain) (ResponseInitChain.normal <$> a.(initChain));
  query := later_message m.(query) (ResponseQuery.normal <$> a.(query));
  beginBlock := later_message m.(beginBlock) (ResponseBeginBlock.normal <$> a.(beginBlock));
  checkTx := later_message m.(checkTx) (ResponseCheckTx.normal <$> a.(checkTx));
  deliverTx := later_message m.(deliverTx) (ResponseDeliverTx.normal <$> a.(deliverTx));
  endBlock := later_message m.(endBlock) (ResponseEndBlock.normal <$> a.(endBlock));
  commit := later_message m.(commit) (ResponseCommit.normal <$> a.(commit));
  listSnapshots := later_message m.(listSnapshots) (ResponseListSnapshots.normal <$> a.(listSnapshots));
  offerSnapshot := later_message m.(offerSnapshot) (ResponseOfferSnapshot.normal <$> a.(offerSnapshot));
  loadSnapshotChunk := later_message m.(loadSnapshotChunk) (ResponseLoadSnapshotChunk.normal <$> a.(loadSnapshotChunk));
  applySnapshotChunk := later_message m.(applySnapshotChunk) (ResponseApplySnapshotChunk.normal <$> a.(applySnapshotChunk));
|}.

(** A whole message seen as a partial one. *)
Definition full (m : t) : partial := {|
  p_exception := ResponseException.full <$> m.(exception);
  p_echo := ResponseEcho.full <$> m.(echo);
  p_flush := ResponseFlush.full <$> m.(flush);
  p_info := ResponseInfo.full <$> m.(info);
  p_setOption := ResponseSetOption.full <$> m.(setOption);
  p_initChain := ResponseInitChain.full <$> m.(initChain);
  p_query := ResponseQuery.full <$> m.(query);
  p_beginBlock := ResponseBeginBlock.full <$> m.(beginBlock);
  p_checkTx := ResponseCheckTx.full <$> m.(checkTx);
  p_deliverTx := ResponseDeliverTx.full <$> m.(deliverTx);
  p_endBlock := ResponseEndBlock.full <$> m.(endBlock);
  p_commit := ResponseCommit.full <$> m.(commit);
  p_listSnapshots := ResponseListSnapshots.full <$> m.(listSnapshots);
  p_offerSnapshot := ResponseOfferSnapshot.full <$> m.(offerSnapshot);
  p_loadSnapshotChunk := ResponseLoadSnapshotChunk.full <$> m.(loadSnapshotChunk);
  p_applySnapshotChunk := ResponseApplySnapshotChunk.full <$> m.(applySnapshotChunk);
|}.

(** The message as its [.proto] file declares it. *)
Definition schema (m : t) : list field :=
  [singular 1 (Member "value") (message_value ResponseException.schema) m.(exception);
   singular 2 (Member "value") (message_value ResponseEcho.schema) m.(echo);
   singular 3 (Member "value") (message_value ResponseFlush.schema) m.(flush);
   singular 4 (Member "value") (message_value ResponseInfo.schema) m.(info);
   singular 5 (Member "value") (message_value ResponseSetOption.schema) m.(setOption);
   singular 6 (Member "value") (message_value ResponseInitChain.schema) m.(initChain);
   singular 7 (Member "value") (message_value ResponseQuery.schema) m.(query);
   singular 8 (Member "value") (message_value ResponseBeginBlock.schema) m.(beginBlock);
   singular 9 (Member "value") (message_value ResponseCheckTx.schema) m.(checkTx);
   singular 10 (Member "value") (message_value ResponseDeliverTx.schema) m.(deliverTx);
   singular 11 (Member "value") (message_value ResponseEndBlock.schema) m.(endBlock);
   singular 12 (Member "value") (message_value ResponseCommit.schema) m.(commit);
   singular 13 (Member "value") (message_value ResponseListSnapshots.schema) m.(listSnapshots);
   singular 14 (Member "value") (message_value ResponseOfferSnapshot.schema) m.(offerSnapshot);
   singular 15 (Member "value") (message_value ResponseLoadSnapshotChunk.schema) m.(loadSnapshotChunk);
   singular 16 (Member "value") (message_value ResponseApplySnapshotChunk.schema) m.(applySnapshotChunk)].

(** The message with its default for every property that is not kept. *)
Definition only (kept : string → bool) (m : t) : t := {|
  exception := if kept "exception" then m.(exception) else None;
  echo := if kept "echo" then m.(echo) else None;
  flush := if kept "flush" then m.(flush) else None;
  info := if kept "info" then m.(info) else None;
  setOption := if kept "setOption" then m.(setOption) else None;
  initChain := if kept "initChain" then m.(initChain) else None;
  query := if kept "query" then m.(query) else None;
  beginBlock := if kept "beginBlock" then m.(beginBlock) else None;
  checkTx := if kept "checkTx" then m.(checkTx) else None;
  deliverTx := if kept "deliverTx" then m.(deliverTx) else None;
  endBlock := if kept "endBlock" then m.(endBlock) else None;
  commit := if kept "commit" then m.(commit) else None;
  listSnapshots := if kept "listSnapshots" then m.(listSnapshots) else None;
  offerSnapshot := if kept "offerSnapshot" then m.(offerSnapshot) else None;
  loadSnapshotChunk := if kept "loadSnapshotChunk" then m.(loadSnapshotChunk) else None;
  applySnapshotChunk := if kept "applySnapshotChunk" then m.(applySnapshotChunk) else None;
|}.

#[global] Instance codec {PB : Protobuf} : FallibleCodec t :=
  {| fmsg_base := base; fmsg_encode := encode; fmsg_field := decode_field |}.

#[global] Program Instance spec {PB : Protobuf} (PS : ProtobufSpec PB) : FallibleSpec PS t :=
  {| fmsg_wire := wire; fmsg_valid := valid; fmsg_typed := typed; fmsg_normal := normal;
     fmsg_merge := merge |}.
Next Obligation. solve_fencode_wire. Qed.
Next Obligation. intros. solve_fencode_throws encode typed. Qed.
Next Obligation. solve_fdecode_wire. Qed.
Next Obligation. solve_fmerge_base. Qed.
Next Obligation. intros. solve_fadvances decode_field. Qed.

#[global] Program Instance given_ : FalliblePartial t partial :=
  {| fmsg_fromPartial := fromPartial; fmsg_full := full; fmsg_given := typed |}.
Next Obligation. solve_fgiven fromPartial typed. Qed.
Next Obligation. solve_fpartial fromPartial full typed. Qed.

#[global] Program Instance json : FallibleJson t :=
  {| fmsg_fromJSON := fromJSON; fmsg_toJSON := toJSON;
     fmsg_named := named; fmsg_known := known |}.
Next Obligation. solve_fjson fromJSON toJSON. Qed.
Next Obligation. solve_known named known. Qed.

#[global] Instance schema_wire {PB : Protobuf} {PS : ProtobufSpec PB} : WireSchema wire schema.
Proof. solve_schema_wire wire schema. Qed.

#[global] Instance schema_normal : NormalSchema normal schema.
Proof. solve_schema_normal normal schema. Qed.

#[global] Instance schema_merge : MergeSchema merge schema.
Proof. solve_schema_merge merge schema. Qed.

(** Its row in the table of message types. *)
Definition message {PB : Protobuf} {PS : ProtobufSpec PB} : message_type :=
  fallible_message "Response" nothing true schema only.

#[global] Instance message_lawful {PB : Protobuf} (PS : ProtobufSpec PB) : Lawful message.
Proof. solve_lawful decode_field fromJSON only. Qed.

End Response.

(** ** [TxResult] (tendermint/abci/types.js) *)

Module TxResult.

Record t := mk {
  height : number;
  index : number;
  tx : option bytes;
  result_ : option ResponseDeliverTx.t;
}.

#[global] Instance t_eta : Settable t := λ m, mk m.(height) m.(index) m.(tx) m.(result_).

Definition base : t := mk 0 0 None None.

Definition encode {PB : Protobuf} (message : t) (writer : Writer) : result Writer :=
  Ok writer
  @>= pure (when (num_neq message.(height) 0) (fun w => w @> uint32 8 @> int64 message.(height)))
  @>= pure (when (num_neq message.(index) 0) (fun w => w @> uint32 16 @> uint32 message.(index)))
  @>= bytes_field 26 message.(tx)
  @>= defined_e message.(result_) (submessage 34 ResponseDeliverTx.encode).

Definition decode_field {PB : Protobuf} (tag : Z) (message : t) : RM t :=
  match field_number tag with
  | 1 => v ← read_number read_int64; mret (message <| height := v |>)
  | 2 => v ← read_uint32; mret (message <| index := Int v |>)
  | 3 => v ← read_bytes; mret (message <| tx := Some v |>)
  | 4 => v ← read_nested ResponseDeliverTx.decode; mret (message <| result_ := Some v |>)
  | _ => _ ← skipType (wire_type tag); mret message
  end.

Definition decode {PB : Protobuf} (length : option Z) : RM t :=
  decode_message length base decode_field.

Definition fromJSON (object : js) : result t :=
  height' ← field_or object "height" js_Number 0;
  index' ← field_or object "index" js_Number 0;
  tx' ← field_or object "tx" (to_some bytesFromBase64) None;
  result_' ← field_or object "result" (to_some ResponseDeliverTx.fromJSON) None;
  Ok (mk height' index' tx' result_').

Definition toJSON (message : t) : js :=
  Obj ([("height", Num message.(height));
    ("index", Num message.(index))] ++
   prop_opt "tx" (fun b => Str (base64FromBytes b)) message.(tx) ++
   prop_opt "result" ResponseDeliverTx.toJSON message.(result_)).

Record partial := mkPartial {
  p_height : option number;
  p_index : option number;
  p_tx : option bytes;
  p_result : option ResponseDeliverTx.partial;
}.

Definition fromPartial (object : partial) : t := {|
  height := object.(p_height) ?? Int 0;
  index := object.(p_index) ?? Int 0;
  tx := Some (object.(p_tx) ?? []);
  result_ := ResponseDeliverTx.fromPartial <$> object.(p_result);
|}.

(** The object with no property given. *)
Definition nothing : partial := mkPartial None None None None.

(** The bytes [encode] writes. *)
Definition wire {PB : Protobuf} {PS : ProtobufSpec PB} (m : t) : bytes :=
  f_number e_int64 8 m.(height) ++
  f_number e_uint32 16 m.(index) ++
  f_bytes 26 m.(tx) ++
  f_message 34 ResponseDeliverTx.wire m.(result_).

Definition valid (m : t) : Prop :=
  int64_ok m.(height) ∧ uint32_ok m.(index) ∧ from_option ResponseDeliverTx.valid True m.(result_).

(** The byte fields hold arrays, as the interface declares. *)
Definition typed (m : t) : bool := given m.(tx) && from_option ResponseDeliverTx.typed true m.(result_).

(** The message without its empty byte arrays. *)
Definition normal (m : t) : t := {|
  height := m.(height);
  index := m.(index);
  tx := nonempty m.(tx);
  result_ := ResponseDeliverTx.normal <$> m.(result_);
|}.

Definition encodable {PB : Protobuf} {PS : ProtobufSpec PB} (m : t) : Prop :=
  typed m = true ∧ valid m ∧ small (wire m).

Definition merge (m a : t) : t := {|
  height := later_number m.(height) a.(height);
  index := later_number m.(index) a.(index);
  tx := later_bytes m.(tx) a.(tx);
  result_ := later_message m.(result_) (ResponseDeliverTx.normal <$> a.(result_));
|}.

(** A whole message seen as a partial one. *)
Definition full (m : t) : partial := {|
  p_height := Some m.(height);
  p_index := Some m.(index);
  p_tx := m.(tx);
  p_result := ResponseDeliverTx.full <$> m.(result_);
|}.

(** The message as its [.proto] file declares it. *)
Definition schema (m : t) : list field :=
  [implicit 1 (VInt Int64 m.(height));
   implicit 2 (VInt Uint32 m.(index));
   implicit 3 (byte_array m.(tx));
   singular 4 Optional (message_value ResponseDeliverTx.schema) m.(result_)].

(** The message with its default for every property that is not kept. *)
Definition only (kept : string → bool) (m : t) : t := {|
  height := if kept "height" then m.(height) else Int 0;
  index := if kept "index" then m.(index) else Int 0;
  tx := if kept "tx" then m.(tx) else None;
  result_ := if kept "result" then m.(result_) else None;
|}.

#[global] Instance codec {PB : Protobuf} : FallibleCodec t :=
  {| fmsg_base := base; fmsg_encode := encode; fmsg_field := decode_field |}.

#[global] Program Instance spec {PB : Protobuf} (PS : ProtobufSpec PB) : FallibleSpec PS t :=
  {| fmsg_wire := wire; fmsg_valid := valid; fmsg_typed := typed; fmsg_normal := normal;
     fmsg_merge := merge |}.
Next Obligation. solve_fencode_wire. Qed.
Next Obligation. intros. solve_fencode_throws encode typed. Qed.
Next Obligation. solve_fdecode_wire. Qed.
Next Obligation. solve_fmerge_base. Qed.
Next Obligation. intros. solve_fadvances decode_field. Qed.

#[global] Program Instance given_ : FalliblePartial t partial :=
  {| fmsg_fromPartial := fromPartial; fmsg_full := full; fmsg_given := typed |}.
Next Obligation. solve_fgiven fromPartial typed. Qed.
Next Obligation. solve_fpartial fromPartial full typed. Qed.

#[global] Program Instance json : FallibleJson t :=
  {| fmsg_fromJSON := fromJSON; fmsg_toJSON := toJSON;
     fmsg_named := fun _ => true; fmsg_known := fun m => m |}.
Next Obligation. solve_fjson fromJSON toJSON. Qed.
Next Obligation. reflexivity. Qed.

#[global] Instance schema_wire {PB : Protobuf} {PS : ProtobufSpec PB} : WireSchema wire schema.
Proof. solve_schema_wire wire schema. Qed.

#[global] Instance schema_normal : NormalSchema normal schema.
Proof. solve_schema_normal normal schema. Qed.

#[global] Instance schema_merge : MergeSchema merge schema.
Proof. solve_schema_merge merge schema. Qed.

(** Its row in the table of message types. *)
Definition message {PB : Protobuf} {PS : ProtobufSpec PB} : message_type :=
  fallible_message "TxResult" nothing true schema only.

#[global] Instance message_lawful {PB : Protobuf} (PS : ProtobufSpec PB) : Lawful message.
Proof. solve_lawful decode_field fromJSON only. Qed.

End TxResult.

(** ** [Attribute] (cosmos/base/abci/v1beta1/abci.js) *)

Module Attribute.

Record t := mk {
  key : string;
  value : string;
}.

#[global] Instance t_eta : Settable t := λ m, mk m.(key) m.(value).

Definition base : t := mk "" "".

Definition encode {PB : Protobuf} (message : t) (writer : Writer) : Writer :=
  writer
  @> when (str_neq message.(key) "") (fun w => w @> uint32 10 @> string_ message.(key))
  @> when (str_neq message.(value) "") (fun w => w @> uint32 18 @> string_ message.(value)).

Definition decode_field {PB : Protobuf} (tag : Z) (message : t) : RM t :=
  match field_number tag with
  | 1 => v ← read_string; mret (message <| key := v |>)
  | 2 => v ← read_string; mret (message <| value := v |>)
  | _ => _ ← skipType (wire_type tag); mret message
  end.

Definition decode {PB : Protobuf} (length : option Z) : RM t :=
  decode_message length base decode_field.

Definition fromJSON (object : js) : result t :=
  key' ← field_or object "key" to_string "";
  value' ← field_or object "value" to_string "";
  Ok (mk key' value').

Definition toJSON (message : t) : js :=
  Obj ([("key", Str message.(key));
    ("value", Str message.(value))]).

Record partial := mkPartial {
  p_key : option string;
  p_value : option string;
}.

Definition fromPartial (object : partial) : t := {|
  key := object.(p_key) ?? "";
  value := object.(p_value) ?? "";
|}.

(** The object with no property given. *)
Definition nothing : partial := mkPartial None None.

(** The bytes [encode] writes. *)
Definition wire {PB : Protobuf} {PS : ProtobufSpec PB} (m : t) : bytes :=
  f_string 10 m.(key) ++
  f_string 18 m.(value).

Definition valid (m : t) : Prop :=
  True.

Definition encodable {PB : Protobuf} {PS : ProtobufSpec PB} (m : t) : Prop :=
  valid m ∧ small (wire m).

Definition merge (m a : t) : t := {|
  key := later_string m.(key) a.(key);
  value := later_string m.(value) a.(value);
|}.

(** A whole message seen as a partial one. *)
Definition full (m : t) : partial := {|
  p_key := Some m.(key);
  p_value := Some m.(value);
|}.

(** The message as its [.proto] file declares it. *)
Definition schema (m : t) : list field :=
  [implicit 1 (VString m.(key));
   implicit 2 (VString m.(value))].

(** The message with its default for every property that is not kept. *)
Definition only (kept : string → bool) (m : t) : t := {|
  key := if kept "key" then m.(key) else "";
  value := if kept "value" then m.(value) else "";
|}.

#[global] Instance codec {PB : Protobuf} : MessageCodec t :=
  {| msg_base := base; msg_encode := encode; msg_field := decode_field |}.

#[global] Program Instance spec {PB : Protobuf} (PS : ProtobufSpec PB) : MessageSpec PS t :=
  {| msg_wire := wire; msg_valid := valid; msg_merge := merge |}.
Next Obligation. solve_encode_wire. Qed.
Next Obligation. solve_decode_wire. Qed.
Next Obligation. solve_merge_base. Qed.
Next Obligation. intros. solve_advances decode_field. Qed.

#[global] Program Instance data : MessageData t partial :=
  {| msg_fromJSON := fromJSON; msg_toJSON := toJSON;
     msg_fromPartial := fromPartial; msg_full := full |}.
Next Obligation. solve_json fromJSON toJSON. Qed.
Next Obligation. solve_partial fromPartial full. Qed.

#[global] Instance schema_wire {PB : Protobuf} {PS : ProtobufSpec PB} : WireSchema wire schema.
Proof. solve_schema_wire wire schema. Qed.

#[global] Instance schema_merge : MergeSchema merge schema.
Proof. solve_schema_merge merge schema. Qed.

(** Its row in the table of message types. *)
Definition message {PB : Protobuf} {PS : ProtobufSpec PB} : message_type :=
  plain_message "Attribute" nothing true schema only.

#[global] Instance message_lawful {PB : Protobuf} (PS : ProtobufSpec PB) : Lawful message.
Proof. solve_lawful decode_field fromJSON only. Qed.

End Attribute.

(** ** [StringEvent] (cosmos/base/abci/v1beta1/abci.js) *)

Module StringEvent.

Record t := mk {
  type_ : string;
  attributes : list Attribute.t;
}.

#[global] Instance t_eta : Settable t := λ m, mk m.(type_) m.(attributes).

Definition base : t := mk "" [].

Definition encode {PB : Protobuf} (message : t) (writer : Writer) : Writer :=
  writer
  @> when (str_neq message.(type_) "") (fun w => w @> uint32 10 @> string_ message.(type_))
  @> each message.(attributes) (fun v w => w @> uint32 18 @> fork @> Attribute.encode v @> ldelim).

Definition decode_field {PB : Protobuf} (tag : Z) (message : t) : RM t :=
  match field_number tag with
  | 1 => v ← read_string; mret (message <| type_ := v |>)
  | 2 => v ← read_nested Attribute.decode;
         mret (message <| attributes := message.(attributes) ++ [v] |>)
  | _ => _ ← skipType (wire_type tag); mret message
  end.

Definition decode {PB : Protobuf} (length : option Z) : RM t :=
  decode_message length base decode_field.

Definition fromJSON (object : js) : result t :=
  type_' ← field_or object "type" to_string "";
  attributes' ← field_or object "attributes" (to_list Attribute.fromJSON) [];
  Ok (mk type_' attributes').

Definition toJSON (message : t) : js :=
  Obj ([("type", Str message.(type_));
    ("attributes", Arr (map Attribute.toJSON message.(attributes)))]).

Record partial := mkPartial {
  p_type : option string;
  p_attributes : option (list Attribute.partial);
}.

Definition fromPartial (object : partial) : t := {|
  type_ := object.(p_type) ?? "";
  attributes := map Attribute.fromPartial (object.(p_attributes) ?? []);
|}.

(** The object with no property given. *)
Definition nothing : partial := mkPartial None None.

(** The bytes [encode] writes. *)
Definition wire {PB : Protobuf} {PS : ProtobufSpec PB} (m : t) : bytes :=
  f_string 10 m.(type_) ++
  f_repeated 18 Attribute.wire m.(attributes).

Definition valid (m : t) : Prop :=
  Forall Attribute.valid m.(attributes).

Definition encodable {PB : Protobuf} {PS : ProtobufSpec PB} (m : t) : Prop :=
  valid m ∧ small (wire m).

Definition merge (m a : t) : t := {|
  type_ := later_string m.(type_) a.(type_);
  attributes := m.(attributes) ++ a.(attributes);
|}.

(** A whole message seen as a partial one. *)
Definition full (m : t) : partial := {|
  p_type := Some m.(type_);
  p_attributes := Some (map Attribute.full m.(attributes));
|}.

(** The message as its [.proto] file declares it. *)
Definition schema (m : t) : list field :=
  [implicit 1 (VString m.(type_));
   repeated 2 (message_value Attribute.schema) m.(attributes)].

(** The message with its default for every property that is not kept. *)
Definition only (kept : string → bool) (m : t) : t := {|
  type_ := if kept "type" then m.(type_) else "";
  attributes := if kept "attributes" then m.(attributes) else [];
|}.

#[global] Instance codec {PB : Protobuf} : MessageCodec t :=
  {| msg_base := base; msg_encode := encode; msg_field := decode_field |}.

#[global] Program Instance spec {PB : Protobuf} (PS : ProtobufSpec PB) : MessageSpec PS t :=
  {| msg_wire := wire; msg_valid := valid; msg_merge := merge |}.
Next Obligation. solve_encode_wire. Qed.
Next Obligation. solve_decode_wire. Qed.
Next Obligation. solve_merge_base. Qed.
Next Obligation. intros. solve_advances decode_field. Qed.

#[global] Program Instance data : MessageData t partial :=
  {| msg_fromJSON := fromJSON; msg_toJSON := toJSON;
     msg_fromPartial := fromPartial; msg_full := full |}.
Next Obligation. solve_json fromJSON toJSON. Qed.
Next Obligation. solve_partial fromPartial full. Qed.

#[global] Instance schema_wire {PB : Protobuf} {PS : ProtobufSpec PB} : WireSchema wire schema.
Proof. solve_schema_wire wire schema. Qed.

#[global] Instance schema_merge : MergeSchema merge schema.
Proof. solve_schema_merge merge schema. Qed.

(** Its row in the table of message types. *)
Definition message {PB : Protobuf} {PS : ProtobufSpec PB} : message_type :=
  plain_message "StringEvent" nothing true schema only.

#[global] Instance message_lawful {PB : Protobuf} (PS : ProtobufSpec PB) : Lawful message.
Proof. solve_lawful decode_field fromJSON only. Qed.

End StringEvent.

(** ** [ABCIMessageLog] (cosmos/base/abci/v1beta1/abci.js) *)

Module ABCIMessageLog.

Record t := mk {
  msgIndex : number;
  log : string;
  events : list StringEvent.t;
}.

#[global] Instance t_eta : Settable t := λ m, mk m.(msgIndex) m.(log) m.(events).

Definition base : t := mk 0 "" [].

Definition encode {PB : Protobuf} (message : t) (writer : Writer) : Writer :=
  writer
  @> when (num_neq message.(msgIndex) 0) (fun w => w @> uint32 8 @> uint32 message.(msgIndex))
  @> when (str_neq message.(log) "") (fun w => w @> uint32 18 @> string_ message.(log))
  @> each message.(events) (fun v w => w @> uint32 26 @> fork @> StringEvent.encode v @> ldelim).

Definition decode_field {PB : Protobuf} (tag : Z) (message : t) : RM t :=
  match field_number tag with
  | 1 => v ← read_uint32; mret (message <| msgIndex := Int v |>)
  | 2 => v ← read_string; mret (message <| log := v |>)
  | 3 => v ← read_nested StringEvent.decode; mret (message <| events := message.(events) ++ [v] |>)
  | _ => _ ← skipType (wire_type tag); mret message
  end.

Definition decode {PB : Protobuf} (length : option Z) : RM t :=
  decode_message length base decode_field.

Definition fromJSON (object : js) : result t :=
  msgIndex' ← field_or object "msgIndex" js_Number 0;
  log' ← field_or object "log" to_string "";
  events' ← field_or object "events" (to_list StringEvent.fromJSON) [];
  Ok (mk msgIndex' log' events').

Definition toJSON (message : t) : js :=
  Obj ([("msgIndex", Num message.(msgIndex));
    ("log", Str message.(log));
    ("events", Arr (map StringEvent.toJSON message.(events)))]).

Record partial := mkPartial {
  p_msgIndex : option number;
  p_log : option string;
  p_events : option (list StringEvent.partial);
}.

Definition fromPartial (object : partial) : t := {|
  msgIndex := object.(p_msgIndex) ?? Int 0;
  log := object.(p_log) ?? "";
  events := map StringEvent.fromPartial (object.(p_events) ?? []);
|}.

(** The object with no property given. *)
Definition nothing : partial := mkPartial None None None.

(** The bytes [encode] writes. *)
Definition wire {PB : Protobuf} {PS : ProtobufSpec PB} (m : t) : bytes :=
  f_number e_uint32 8 m.(msgIndex) ++
  f_string 18 m.(log) ++
  f_repeated 26 StringEvent.wire m.(events).

Definition valid (m : t) : Prop :=
  uint32_ok m.(msgIndex) ∧ Forall StringEvent.valid m.(events).

Definition encodable {PB : Protobuf} {PS : ProtobufSpec PB} (m : t) : Prop :=
  valid m ∧ small (wire m).

Definition merge (m a : t) : t := {|
  msgIndex := later_number m.(msgIndex) a.(msgIndex);
  log := later_string m.(log) a.(log);
  events := m.(events) ++ a.(events);
|}.

(** A whole message seen as a partial one. *)
Definition full (m : t) : partial := {|
  p_msgIndex := Some m.(msgIndex);
  p_log := Some m.(log);
  p_events := Some (map StringEvent.full m.(events));
|}.

(** The message as its [.proto] file declares it. *)
Definition schema (m : t) : list field :=
  [implicit 1 (VInt Uint32 m.(msgIndex));
   implicit 2 (VString m.(log));
   repeated 3 (message_value StringEvent.schema) m.(events)].

(** The message with its default for every property that is not kept. *)
Definition only (kept : string → bool) (m : t) : t := {|
  msgIndex := if kept "msgIndex" then m.(msgIndex) else Int 0;
  log := if kept "log" then m.(log) else "";
  events := if kept "events" then m.(events) else [];
|}.

#[global] Instance codec {PB : Protobuf} : MessageCodec t :=
  {| msg_base := base; msg_encode := encode; msg_field := decode_field |}.

#[global] Program Instance spec {PB : Protobuf} (PS : ProtobufSpec PB) : MessageSpec PS t :=
  {| msg_wire := wire; msg_valid := valid; msg_merge := merge |}.
Next Obligation. solve_encode_wire. Qed.
Next Obligation. solve_decode_wire. Qed.
Next Obligation. solve_merge_base. Qed.
Next Obligation. intros. solve_advances decode_field. Qed.

#[global] Program Instance data : MessageData t partial :=
  {| msg_fromJSON := fromJSON; msg_toJSON := toJSON;
     msg_fromPartial := fromPartial; msg_full := full |}.
Next Obligation. solve_json fromJSON toJSON. Qed.
Next Obligation. solve_partial fromPartial full. Qed.

#[global] Instance schema_wire {PB : Protobuf} {PS : ProtobufSpec PB} : WireSchema wire schema.
Proof. solve_schema_wire wire schema. Qed.

#[global] Instance schema_merge : MergeSchema merge schema.
Proof. solve_schema_merge merge schema. Qed.

(** Its row in the table of message types. *)
Definition message {PB : Protobuf} {PS : ProtobufSpec PB} : message_type :=
  plain_message "ABCIMessageLog" nothing true schema only.

#[global] Instance message_lawful {PB : Protobuf} (PS : ProtobufSpec PB) : Lawful message.
Proof. solve_lawful decode_field fromJSON only. Qed.

End ABCIMessageLog.

(** ** [TxResponse] (cosmos/base/abci/v1beta1/abci.js) *)

Module TxResponse.

Record t := mk {
  height : number;
  txhash : string;
  codespace : string;
  code : number;
  data_ : string;
  rawLog : string;
  logs : list ABCIMessageLog.t;
  info : string;
  gasWanted : number;
  gasUsed : number;
  tx : option Any.t;
  timestamp : string;
}.

#[global] Instance t_eta : Settable t := λ m, mk m.(height) m.(txhash) m.(codespace) m.(code)
  m.(data_) m.(rawLog) m.(logs) m.(info) m.(gasWanted) m.(gasUsed) m.(tx) m.(timestamp).

Definition base : t := mk 0 "" "" 0 "" "" [] "" 0 0 None "".

Definition encode {PB : Protobuf} (message : t) (writer : Writer) : result Writer :=
  Ok writer
  @>= pure (when (num_neq message.(height) 0) (fun w => w @> uint32 8 @> int64 message.(height)))
  @>= pure (when (str_neq message.(txhash) "") (fun w => w @> uint32 18 @> string_ message.(txhash)))
  @>= pure (when (str_neq message.(codespace) "")
       (fun w => w @> uint32 26 @> string_ message.(codespace)))
  @>= pure (when (num_neq message.(code) 0) (fun w => w @> uint32 32 @> uint32 message.(code)))
  @>= pure (when (str_neq message.(data_) "") (fun w => w @> uint32 42 @> string_ message.(data_)))
  @>= pure (when (str_neq message.(rawLog) "") (fun w => w @> uint32 50 @> string_ message.(rawLog)))
  @>= pure (each message.(logs) (fun v w => w @> uint32 58 @> fork @> ABCIMessageLog.encode v @> ldelim))
  @>= pure (when (str_neq message.(info) "") (fun w => w @> uint32 66 @> string_ message.(info)))
  @>= pure (when (num_neq message.(gasWanted) 0)
       (fun w => w @> uint32 72 @> int64 message.(gasWanted)))
  @>= pure (when (num_neq message.(gasUsed) 0) (fun w => w @> uint32 80 @> int64 message.(gasUsed)))
  @>= defined_e message.(tx) (submessage 90 Any.encode)
  @>= pure (when (str_neq message.(timestamp) "")
       (fun w => w @> uint32 98 @> string_ message.(timestamp))).

Definition decode_field {PB : Protobuf} (tag : Z) (message : t) : RM t :=
  match field_number tag with
  | 1 => v ← read_number read_int64; mret (message <| height := v |>)
  | 2 => v ← read_string; mret (message <| txhash := v |>)
  | 3 => v ← read_string; mret (message <| codespace := v |>)
  | 4 => v ← read_uint32; mret (message <| code := Int v |>)
  | 5 => v ← read_string; mret (message <| data_ := v |>)
  | 6 => v ← read_string; mret (message <| rawLog := v |>)
  | 7 => v ← read_nested ABCIMessageLog.decode; mret (message <| logs := message.(logs) ++ [v] |>)
  | 8 => v ← read_string; mret (message <| info := v |>)
  | 9 => v ← read_number read_int64; mret (message <| gasWanted := v |>)
  | 10 => v ← read_number read_int64; mret (message <| gasUsed := v |>)
  | 11 => v ← read_nested Any.decode; mret (message <| tx := Some v |>)
  | 12 => v ← read_string; mret (message <| timestamp := v |>)
  | _ => _ ← skipType (wire_type tag); mret message
  end.

Definition decode {PB : Protobuf} (length : option Z) : RM t :=
  decode_message length base decode_field.

Definition fromJSON (object : js) : result t :=
  height' ← field_or object "height" js_Number 0;
  txhash' ← field_or object "txhash" to_string "";
  codespace' ← field_or object "codespace" to_string "";
  code' ← field_or object "code" js_Number 0;
  data_' ← field_or object "data" to_string "";
  rawLog' ← field_or object "rawLog" to_string "";
  logs' ← field_or object "logs" (to_list ABCIMessageLog.fromJSON) [];
  info' ← field_or object "info" to_string "";
  gasWanted' ← field_or object "gasWanted" js_Number 0;
  gasUsed' ← field_or object "gasUsed" js_Number 0;
  tx' ← field_or object "tx" (to_some Any.fromJSON) None;
  timestamp' ← field_or object "timestamp" to_string "";
  Ok (mk height' txhash' codespace' code' data_' rawLog' logs' info' gasWanted' gasUsed' tx'
    timestamp').

Definition toJSON (message : t) : js :=
  Obj ([("height", Num message.(height));
    ("txhash", Str message.(txhash));
    ("codespace", Str message.(codespace));
    ("code", Num message.(code));
    ("data", Str message.(data_));
    ("rawLog", Str message.(rawLog));
    ("logs", Arr (map ABCIMessageLog.toJSON message.(logs)));
    ("info", Str message.(info));
    ("gasWanted", Num message.(gasWanted));
    ("gasUsed", Num message.(gasUsed))] ++
   prop_opt "tx" Any.toJSON message.(tx) ++
   [("timestamp", Str message.(timestamp))]).

Record partial := mkPartial {
  p_height : option number;
  p_txhash : option string;
  p_codespace : option string;
  p_code : option number;
  p_data : option string;
  p_rawLog : option string;
  p_logs : option (list ABCIMessageLog.partial);
  p_info : option string;
  p_gasWanted : option number;
  p_gasUsed : option number;
  p_tx : option Any.partial;
  p_timestamp : option string;
}.

Definition fromPartial (object : partial) : t := {|
  height := object.(p_height) ?? Int 0;
  txhash := object.(p_txhash) ?? "";
  codespace := object.(p_codespace) ?? "";
  code := object.(p_code) ?? Int 0;
  data_ := object.(p_data) ?? "";
  rawLog := object.(p_rawLog) ?? "";
  logs := map ABCIMessageLog.fromPartial (object.(p_logs) ?? []);
  info := object.(p_info) ?? "";
  gasWanted := object.(p_gasWanted) ?? Int 0;
  gasUsed := object.(p_gasUsed) ?? Int 0;
  tx := Any.fromPartial <$> object.(p_tx);
  timestamp := object.(p_timestamp) ?? "";
|}.

(** The object with no property given. *)
Definition nothing : partial := mkPartial None None None None None None None None None None None
  None.

(** The bytes [encode] writes. *)
Definition wire {PB : Protobuf} {PS : ProtobufSpec PB} (m : t) : bytes :=
  f_number e_int64 8 m.(height) ++
  f_string 18 m.(txhash) ++
  f_string 26 m.(codespace) ++
  f_number e_uint32 32 m.(code) ++
  f_string 42 m.(data_) ++
  f_string 50 m.(rawLog) ++
  f_repeated 58 ABCIMessageLog.wire m.(logs) ++
  f_string 66 m.(info) ++
  f_number e_int64 72 m.(gasWanted) ++
  f_number e_int64 80 m.(gasUsed) ++
  f_message 90 Any.wire m.(tx) ++
  f_string 98 m.(timestamp).

Definition valid (m : t) : Prop :=
  int64_ok m.(height) ∧ uint32_ok m.(code) ∧ Forall ABCIMessageLog.valid m.(logs) ∧ int64_ok m.(gasWanted) ∧ int64_ok m.(gasUsed) ∧ from_option Any.valid True m.(tx).

(** The byte fields hold arrays, as the interface declares. *)
Definition typed (m : t) : bool := from_option Any.typed true m.(tx).

(** The message without its empty byte arrays. *)
Definition normal (m : t) : t := {|
  height := m.(height);
  txhash := m.(txhash);
  codespace := m.(codespace);
  code := m.(code);
  data_ := m.(data_);
  rawLog := m.(rawLog);
  logs := m.(logs);
  info := m.(info);
  gasWanted := m.(gasWanted);
  gasUsed := m.(gasUsed);
  tx := Any.normal <$> m.(tx);
  timestamp := m.(timestamp);
|}.

Definition encodable {PB : Protobuf} {PS : ProtobufSpec PB} (m : t) : Prop :=
  typed m = true ∧ valid m ∧ small (wire m).

Definition merge (m a : t) : t := {|
  height := later_number m.(height) a.(height);
  txhash := later_string m.(txhash) a.(txhash);
  codespace := later_string m.(codespace) a.(codespace);
  code := later_number m.(code) a.(code);
  data_ := later_string m.(data_) a.(data_);
  rawLog := later_string m.(rawLog) a.(rawLog);
  logs := m.(logs) ++ a.(logs);
  info := later_string m.(info) a.(info);
  gasWanted := later_number m.(gasWanted) a.(gasWanted);
  gasUsed := later_number m.(gasUsed) a.(gasUsed);
  tx := later_message m.(tx) (Any.normal <$> a.(tx));
  timestamp := later_string m.(timestamp) a.(timestamp);
|}.

(** A whole message seen as a partial one. *)
Definition full (m : t) : partial := {|
  p_height := Some m.(height);
  p_txhash := Some m.(txhash);
  p_codespace := Some m.(codespace);
  p_code := Some m.(code);
  p_data := Some m.(data_);
  p_rawLog := Some m.(rawLog);
  p_logs := Some (map ABCIMessageLog.full m.(logs));
  p_info := Some m.(info);
  p_gasWanted := Some m.(gasWanted);
  p_gasUsed := Some m.(gasUsed);
  p_tx := Any.full <$> m.(tx);
  p_timestamp := Some m.(timestamp);
|}.

(** The message as its [.proto] file declares it. *)
Definition schema (m : t) : list field :=
  [implicit 1 (VInt Int64 m.(height));
   implicit 2 (VString m.(txhash));
   implicit 3 (VString m.(codespace));
   implicit 4 (VInt Uint32 m.(code));
   implicit 5 (VString m.(data_));
   implicit 6 (VString m.(rawLog));
   repeated 7 (message_value ABCIMessageLog.schema) m.(logs);
   implicit 8 (VString m.(info));
   implicit 9 (VInt Int64 m.(gasWanted));
   implicit 10 (VInt Int64 m.(gasUsed));
   singular 11 Optional (message_value Any.schema) m.(tx);
   implicit 12 (VString m.(timestamp))].

(** The message with its default for every property that is not kept. *)
Definition only (kept : string → bool) (m : t) : t := {|
  height := if kept "height" then m.(height) else Int 0;
  txhash := if kept "txhash" then m.(txhash) else "";
  codespace := if kept "codespace" then m.(codespace) else "";
  code := if kept "code" then m.(code) else Int 0;
  data_ := if kept "data" then m.(data_) else "";
  rawLog := if kept "rawLog" then m.(rawLog) else "";
  logs := if kept "logs" then m.(logs) else [];
  info := if kept "info" then m.(info) else "";
  gasWanted := if kept "gasWanted" then m.(gasWanted) else Int 0;
  gasUsed := if kept "gasUsed" then m.(gasUsed) else Int 0;
  tx := if kept "tx" then m.(tx) else None;
  timestamp := if kept "timestamp" then m.(timestamp) else "";
|}.

#[global] Instance codec {PB : Protobuf} : FallibleCodec t :=
  {| fmsg_base := base; fmsg_encode := encode; fmsg_field := decode_field |}.

#[global] Program Instance spec {PB : Protobuf} (PS : ProtobufSpec PB) : FallibleSpec PS t :=
  {| fmsg_wire := wire; fmsg_valid := valid; fmsg_typed := typed; fmsg_normal := normal;
     fmsg_merge := merge |}.
Next Obligation. solve_fencode_wire. Qed.
Next Obligation. intros. solve_fencode_throws encode typed. Qed.
Next Obligation. solve_fdecode_wire. Qed.
Next Obligation. solve_fmerge_base. Qed.
Next Obligation. intros. solve_fadvances decode_field. Qed.

#[global] Program Instance given_ : FalliblePartial t partial :=
  {| fmsg_fromPartial := fromPartial; fmsg_full := full; fmsg_given := typed |}.
Next Obligation. solve_fgiven fromPartial typed. Qed.
Next Obligation. solve_fpartial fromPartial full typed. Qed.

#[global] Program Instance json : FallibleJson t :=
  {| fmsg_fromJSON := fromJSON; fmsg_toJSON := toJSON;
     fmsg_named := fun _ => true; fmsg_known := fun m => m |}.
Next Obligation. solve_fjson fromJSON toJSON. Qed.
Next Obligation. reflexivity. Qed.

#[global] Instance schema_wire {PB : Protobuf} {PS : ProtobufSpec PB} : WireSchema wire schema.
Proof. solve_schema_wire wire schema. Qed.

#[global] Instance schema_normal : NormalSchema normal schema.
Proof. solve_schema_normal normal schema. Qed.

#[global] Instance schema_merge : MergeSchema merge schema.
Proof. solve_schema_merge merge schema. Qed.

(** Its row in the table of message types. *)
Definition message {PB : Protobuf} {PS : ProtobufSpec PB} : message_type :=
  fallible_message "TxResponse" nothing true schema only.

#[global] Instance message_lawful {PB : Protobuf} (PS : ProtobufSpec PB) : Lawful message.
Proof. solve_lawful decode_field fromJSON only. Qed.

End TxResponse.

(** ** [GasInfo] (cosmos/base/abci/v1beta1/abci.js) *)

Module GasInfo.

Record t := mk {
  gasWanted : number;
  gasUsed : number;
}.

#[global] Instance t_eta : Settable t := λ m, mk m.(gasWanted) m.(gasUsed).

Definition base : t := mk 0 0.

Definition encode {PB : Protobuf} (message : t) (writer : Writer) : Writer :=
  writer
  @> when (num_neq message.(gasWanted) 0) (fun w => w @> uint32 8 @> uint64 message.(gasWanted))
  @> when (num_neq message.(gasUsed) 0) (fun w => w @> uint32 16 @> uint64 message.(gasUsed)).

Definition decode_field {PB : Protobuf} (tag : Z) (message : t) : RM t :=
  match field_number tag with
  | 1 => v ← read_number read_uint64; mret (message <| gasWanted := v |>)
  | 2 => v ← read_number read_uint64; mret (message <| gasUsed := v |>)
  | _ => _ ← skipType (wire_type tag); mret message
  end.

Definition decode {PB : Protobuf} (length : option Z) : RM t :=
  decode_message length base decode_field.

Definition fromJSON (object : js) : result t :=
  gasWanted' ← field_or object "gasWanted" js_Number 0;
  gasUsed' ← field_or object "gasUsed" js_Number 0;
  Ok (mk gasWanted' gasUsed').

Definition toJSON (message : t) : js :=
  Obj ([("gasWanted", Num message.(gasWanted));
    ("gasUsed", Num message.(gasUsed))]).

Record partial := mkPartial {
  p_gasWanted : option number;
  p_gasUsed : option number;
}.

Definition fromPartial (object : partial) : t := {|
  gasWanted := object.(p_gasWanted) ?? Int 0;
  gasUsed := object.(p_gasUsed) ?? Int 0;
|}.

(** The object with no property given. *)
Definition nothing : partial := mkPartial None None.

(** The bytes [encode] writes. *)
Definition wire {PB : Protobuf} {PS : ProtobufSpec PB} (m : t) : bytes :=
  f_number e_uint64 8 m.(gasWanted) ++
  f_number e_uint64 16 m.(gasUsed).

Definition valid (m : t) : Prop :=
  uint64_ok m.(gasWanted) ∧ uint64_ok m.(gasUsed).

Definition encodable {PB : Protobuf} {PS : ProtobufSpec PB} (m : t) : Prop :=
  valid m ∧ small (wire m).

Definition merge (m a : t) : t := {|
  gasWanted := later_number m.(gasWanted) a.(gasWanted);
  gasUsed := later_number m.(gasUsed) a.(gasUsed);
|}.

(** A whole message seen as a partial one. *)
Definition full (m : t) : partial := {|
  p_gasWanted := Some m.(gasWanted);
  p_gasUsed := Some m.(gasUsed);
|}.

(** The message as its [.proto] file declares it. *)
Definition schema (m : t) : list field :=
  [implicit 1 (VInt Uint64 m.(gasWanted));
   implicit 2 (VInt Uint64 m.(gasUsed))].

(** The message with its default for every property that is not kept. *)
Definition only (kept : string → bool) (m : t) : t := {|
  gasWanted := if kept "gasWanted" then m.(gasWanted) else Int 0;
  gasUsed := if kept "gasUsed" then m.(gasUsed) else Int 0;
|}.

#[global] Instance codec {PB : Protobuf} : MessageCodec t :=
  {| msg_base := base; msg_encode := encode; msg_field := decode_field |}.

#[global] Program Instance spec {PB : Protobuf} (PS : ProtobufSpec PB) : MessageSpec PS t :=
  {| msg_wire := wire; msg_valid := valid; msg_merge := merge |}.
Next Obligation. solve_encode_wire. Qed.
Next Obligation. solve_decode_wire. Qed.
Next Obligation. solve_merge_base. Qed.
Next Obligation. intros. solve_advances decode_field. Qed.

#[global] Program Instance data : MessageData t partial :=
  {| msg_fromJSON := fromJSON; msg_toJSON := toJSON;
     msg_fromPartial := fromPartial; msg_full := full |}.
Next Obligation. solve_json fromJSON toJSON. Qed.
Next Obligation. solve_partial fromPartial full. Qed.

#[global] Instance schema_wire {PB : Protobuf} {PS : ProtobufSpec PB} : WireSchema wire schema.
Proof. solve_schema_wire wire schema. Qed.

#[global] Instance schema_merge : MergeSchema merge schema.
Proof. solve_schema_merge merge schema. Qed.

(** Its row in the table of message types. *)
Definition message {PB : Protobuf} {PS : ProtobufSpec PB} : message_type :=
  plain_message "GasInfo" nothing true schema only.

#[global] Instance message_lawful {PB : Protobuf} (PS : ProtobufSpec PB) : Lawful message.
Proof. solve_lawful decode_field fromJSON only. Qed.

End GasInfo.

(** ** [Result] (cosmos/base/abci/v1beta1/abci.js) *)

Module Result.

Record t := mk {
  data_ : option bytes;
  log : string;
  events : list Event.t;
}.

#[global] Instance t_eta : Settable t := λ m, mk m.(data_) m.(log) m.(events).

Definition base : t := mk None "" [].

Definition encode {PB : Protobuf} (message : t) (writer : Writer) : result Writer :=
  Ok writer
  @>= bytes_field 10 message.(data_)
  @>= pure (when (str_neq message.(log) "") (fun w => w @> uint32 18 @> string_ message.(log)))
  @>= each_e message.(events) (submessage 26 Event.encode).

Definition decode_field {PB : Protobuf} (tag : Z) (message : t) : RM t :=
  match field_number tag with
  | 1 => v ← read_bytes; mret (message <| data_ := Some v |>)
  | 2 => v ← read_string; mret (message <| log := v |>)
  | 3 => v ← read_nested Event.decode; mret (message <| events := message.(events) ++ [v] |>)
  | _ => _ ← skipType (wire_type tag); mret message
  end.

Definition decode {PB : Protobuf} (length : option Z) : RM t :=
  decode_message length base decode_field.

Definition fromJSON (object : js) : result t :=
  data_' ← field_or object "data" (to_some bytesFromBase64) None;
  log' ← field_or object "log" to_string "";
  events' ← field_or object "events" (to_list Event.fromJSON) [];
  Ok (mk data_' log' events').

Definition toJSON (message : t) : js :=
  Obj (prop_opt "data" (fun b => Str (base64FromBytes b)) message.(data_) ++
   [("log", Str message.(log));
    ("events", Arr (map Event.toJSON message.(events)))]).

Record partial := mkPartial {
  p_data : option bytes;
  p_log : option string;
  p_events : option (list Event.partial);
}.

Definition fromPartial (object : partial) : t := {|
  data_ := Some (object.(p_data) ?? []);
  log := object.(p_log) ?? "";
  events := map Event.fromPartial (object.(p_events) ?? []);
|}.

(** The object with no property given. *)
Definition nothing : partial := mkPartial None None None.

(** The bytes [encode] writes. *)
Definition wire {PB : Protobuf} {PS : ProtobufSpec PB} (m : t) : bytes :=
  f_bytes 10 m.(data_) ++
  f_string 18 m.(log) ++
  f_repeated 26 Event.wire m.(events).

Definition valid (m : t) : Prop :=
  Forall Event.valid m.(events).

(** The byte fields hold arrays, as the interface declares. *)
Definition typed (m : t) : bool := given m.(data_) && forallb Event.typed m.(events).

(** The message without its empty byte arrays. *)
Definition normal (m : t) : t := {|
  data_ := nonempty m.(data_);
  log := m.(log);
  events := map Event.normal m.(events);
|}.

Definition encodable {PB : Protobuf} {PS : ProtobufSpec PB} (m : t) : Prop :=
  typed m = true ∧ valid m ∧ small (wire m).

Definition merge (m a : t) : t := {|
  data_ := later_bytes m.(data_) a.(data_);
  log := later_string m.(log) a.(log);
  events := m.(events) ++ map Event.normal a.(events);
|}.

(** A whole message seen as a partial one. *)
Definition full (m : t) : partial := {|
  p_data := m.(data_);
  p_log := Some m.(log);
  p_events := Some (map Event.full m.(events));
|}.

(** The message as its [.proto] file declares it. *)
Definition schema (m : t) : list field :=
  [implicit 1 (byte_array m.(data_));
   implicit 2 (VString m.(log));
   repeated 3 (message_value Event.schema) m.(events)].

(** The message with its default for every property that is not kept. *)
Definition only (kept : string → bool) (m : t) : t := {|
  data_ := if kept "data" then m.(data_) else None;
  log := if kept "log" then m.(log) else "";
  events := if kept "events" then m.(events) else [];
|}.

#[global] Instance codec {PB : Protobuf} : FallibleCodec t :=
  {| fmsg_base := base; fmsg_encode := encode; fmsg_field := decode_field |}.

#[global] Program Instance spec {PB : Protobuf} (PS : ProtobufSpec PB) : FallibleSpec PS t :=
  {| fmsg_wire := wire; fmsg_valid := valid; fmsg_typed := typed; fmsg_normal := normal;
     fmsg_merge := merge |}.
Next Obligation. solve_fencode_wire. Qed.
Next Obligation. intros. solve_fencode_throws encode typed. Qed.
Next Obligation. solve_fdecode_wire. Qed.
Next Obligation. solve_fmerge_base. Qed.
Next Obligation. intros. solve_fadvances decode_field. Qed.

#[global] Program Instance given_ : FalliblePartial t partial :=
  {| fmsg_fromPartial := fromPartial; fmsg_full := full; fmsg_given := typed |}.
Next Obligation. solve_fgiven fromPartial typed. Qed.
Next Obligation. solve_fpartial fromPartial full typed. Qed.

#[global] Program Instance json : FallibleJson t :=
  {| fmsg_fromJSON := fromJSON; fmsg_toJSON := toJSON;
     fmsg_named := fun _ => true; fmsg_known := fun m => m |}.
Next Obligation. solve_fjson fromJSON toJSON. Qed.
Next Obligation. reflexivity. Qed.

#[global] Instance schema_wire {PB : Protobuf} {PS : ProtobufSpec PB} : WireSchema wire schema.
Proof. solve_schema_wire wire schema. Qed.

#[global] Instance schema_normal : NormalSchema normal schema.
Proof. solve_schema_normal normal schema. Qed.

#[global] Instance schema_merge : MergeSchema merge schema.
Proof. solve_schema_merge merge schema. Qed.

(** Its row in the table of message types. *)
Definition message {PB : Protobuf} {PS : ProtobufSpec PB} : message_type :=
  fallible_message "Result" nothing true schema only.

#[global] Instance message_lawful {PB : Protobuf} (PS : ProtobufSpec PB) : Lawful message.
Proof. solve_lawful decode_field fromJSON only. Qed.

End Result.

(** ** [SimulationResponse] (cosmos/base/abci/v1beta1/abci.js) *)

Module SimulationResponse.

Record t := mk {
  gasInfo : option GasInfo.t;
  result_ : option Result.t;
}.

#[global] Instance t_eta : Settable t := λ m, mk m.(gasInfo) m.(result_).

Definition base : t := mk None None.

Definition encode {PB : Protobuf} (message : t) (writer : Writer) : result Writer :=
  Ok writer
  @>= pure (defined message.(gasInfo) (fun v w => w @> uint32 10 @> fork @> GasInfo.encode v @> ldelim))
  @>= defined_e message.(result_) (submessage 18 Result.encode).

Definition decode_field {PB : Protobuf} (tag : Z) (message : t) : RM t :=
  match field_number tag with
  | 1 => v ← read_nested GasInfo.decode; mret (message <| gasInfo := Some v |>)
  | 2 => v ← read_nested Result.decode; mret (message <| result_ := Some v |>)
  | _ => _ ← skipType (wire_type tag); mret message
  end.

Definition decode {PB : Protobuf} (length : option Z) : RM t :=
  decode_message length base decode_field.

Definition fromJSON (object : js) : result t :=
  gasInfo' ← field_or object "gasInfo" (to_some GasInfo.fromJSON) None;
  result_' ← field_or object "result" (to_some Result.fromJSON) None;
  Ok (mk gasInfo' result_').

Definition toJSON (message : t) : js :=
  Obj (prop_opt "gasInfo" GasInfo.toJSON message.(gasInfo) ++
   prop_opt "result" Result.toJSON message.(result_)).

Record partial := mkPartial {
  p_gasInfo : option GasInfo.partial;
  p_result : option Result.partial;
}.

Definition fromPartial (object : partial) : t := {|
  gasInfo := GasInfo.fromPartial <$> object.(p_gasInfo);
  result_ := Result.fromPartial <$> object.(p_result);
|}.

(** The object with no property given. *)
Definition nothing : partial := mkPartial None None.

(** The bytes [encode] writes. *)
Definition wire {PB : Protobuf} {PS : ProtobufSpec PB} (m : t) : bytes :=
  f_message 10 GasInfo.wire m.(gasInfo) ++
  f_message 18 Result.wire m.(result_).

Definition valid (m : t) : Prop :=
  from_option GasInfo.valid True m.(gasInfo) ∧ from_option Result.valid True m.(result_).

(** The byte fields hold arrays, as the interface declares. *)
Definition typed (m : t) : bool := from_option Result.typed true m.(result_).

(** The message without its empty byte arrays. *)
Definition normal (m : t) : t := {|
  gasInfo := m.(gasInfo);
  result_ := Result.normal <$> m.(result_);
|}.

Definition encodable {PB : Protobuf} {PS : ProtobufSpec PB} (m : t) : Prop :=
  typed m = true ∧ valid m ∧ small (wire m).

Definition merge (m a : t) : t := {|
  gasInfo := later_message m.(gasInfo) a.(gasInfo);
  result_ := later_message m.(result_) (Result.normal <$> a.(result_));
|}.

(** A whole message seen as a partial one. *)
Definition full (m : t) : partial := {|
  p_gasInfo := GasInfo.full <$> m.(gasInfo);
  p_result := Result.full <$> m.(result_);
|}.

(** The message as its [.proto] file declares it. *)
Definition schema (m : t) : list field :=
  [singular 1 Optional (message_value GasInfo.schema) m.(gasInfo);
   singular 2 Optional (message_value Result.schema) m.(result_)].

(** The message with its default for every property that is not kept. *)
Definition only (kept : string → bool) (m : t) : t := {|
  gasInfo := if kept "gasInfo" then m.(gasInfo) else None;
  result_ := if kept "result" then m.(result_) else None;
|}.

#[global] Instance codec {PB : Protobuf} : FallibleCodec t :=
  {| fmsg_base := base; fmsg_encode := encode; fmsg_field := decode_field |}.

#[global] Program Instance spec {PB : Protobuf} (PS : ProtobufSpec PB) : FallibleSpec PS t :=
  {| fmsg_wire := wire; fmsg_valid := valid; fmsg_typed := typed; fmsg_normal := normal;
     fmsg_merge := merge |}.
Next Obligation. solve_fencode_wire. Qed.
Next Obligation. intros. solve_fencode_throws encode typed. Qed.
Next Obligation. solve_fdecode_wire. Qed.
Next Obligation. solve_fmerge_base. Qed.
Next Obligation. intros. solve_fadvances decode_field. Qed.

#[global] Program Instance given_ : FalliblePartial t partial :=
  {| fmsg_fromPartial := fromPartial; fmsg_full := full; fmsg_given := typed |}.
Next Obligation. solve_fgiven fromPartial typed. Qed.
Next Obligation. solve_fpartial fromPartial full typed. Qed.

#[global] Program Instance json : FallibleJson t :=
  {| fmsg_fromJSON := fromJSON; fmsg_toJSON := toJSON;
     fmsg_named := fun _ => true; fmsg_known := fun m => m |}.
Next Obligation. solve_fjson fromJSON toJSON. Qed.
Next Obligation. reflexivity. Qed.

#[global] Instance schema_wire {PB : Protobuf} {PS : ProtobufSpec PB} : WireSchema wire schema.
Proof. solve_schema_wire wire schema. Qed.

#[global] Instance schema_normal : NormalSchema normal schema.
Proof. solve_schema_normal normal schema. Qed.

#[global] Instance schema_merge : MergeSchema merge schema.
Proof. solve_schema_merge merge schema. Qed.

(** Its row in the table of message types. *)
Definition message {PB : Protobuf} {PS : ProtobufSpec PB} : message_type :=
  fallible_message "SimulationResponse" nothing true schema only.

#[global] Instance message_lawful {PB : Protobuf} (PS : ProtobufSpec PB) : Lawful message.
Proof. solve_lawful decode_field fromJSON only. Qed.

End SimulationResponse.

(** ** [MsgData] (cosmos/base/abci/v1beta1/abci.js) *)

Module MsgData.

Record t := mk {
  msgType : string;
  data_ : option bytes;
}.

#[global] Instance t_eta : Settable t := λ m, mk m.(msgType) m.(data_).

Definition base : t := mk "" None.

Definition encode {PB : Protobuf} (message : t) (writer : Writer) : result Writer :=
  Ok writer
  @>= pure (when (str_neq message.(msgType) "")
       (fun w => w @> uint32 10 @> string_ message.(msgType)))
  @>= bytes_field 18 message.(data_).

Definition decode_field {PB : Protobuf} (tag : Z) (message : t) : RM t :=
  match field_number tag with
  | 1 => v ← read_string; mret (message <| msgType := v |>)
  | 2 => v ← read_bytes; mret (message <| data_ := Some v |>)
  | _ => _ ← skipType (wire_type tag); mret message
  end.

Definition decode {PB : Protobuf} (length : option Z) : RM t :=
  decode_message length base decode_field.

Definition fromJSON (object : js) : result t :=
  msgType' ← field_or object "msgType" to_string "";
  data_' ← field_or object "data" (to_some bytesFromBase64) None;
  Ok (mk msgType' data_').

Definition toJSON (message : t) : js :=
  Obj ([("msgType", Str message.(msgType))] ++
   prop_opt "data" (fun b => Str (base64FromBytes b)) message.(data_)).

Record partial := mkPartial {
  p_msgType : option string;
  p_data : option bytes;
}.

Definition fromPartial (object : partial) : t := {|
  msgType := object.(p_msgType) ?? "";
  data_ := Some (object.(p_data) ?? []);
|}.

(** The object with no property given. *)
Definition nothing : partial := mkPartial None None.

(** The bytes [encode] writes. *)
Definition wire {PB : Protobuf} {PS : ProtobufSpec PB} (m : t) : bytes :=
  f_string 10 m.(msgType) ++
  f_bytes 18 m.(data_).

Definition valid (m : t) : Prop :=
  True.

(** The byte fields hold arrays, as the interface declares. *)
Definition typed (m : t) : bool := given m.(data_).

(** The message without its empty byte arrays. *)
Definition normal (m : t) : t := {|
  msgType := m.(msgType);
  data_ := nonempty m.(data_);
|}.

Definition encodable {PB : Protobuf} {PS : ProtobufSpec PB} (m : t) : Prop :=
  typed m = true ∧ valid m ∧ small (wire m).

Definition merge (m a : t) : t := {|
  msgType := later_string m.(msgType) a.(msgType);
  data_ := later_bytes m.(data_) a.(data_);
|}.

(** A whole message seen as a partial one. *)
Definition full (m : t) : partial := {|
  p_msgType := Some m.(msgType);
  p_data := m.(data_);
|}.

(** The message as its [.proto] file declares it. *)
Definition schema (m : t) : list field :=
  [implicit 1 (VString m.(msgType));
   implicit 2 (byte_array m.(data_))].

(** The message with its default for every property that is not kept. *)
Definition only (kept : string → bool) (m : t) : t := {|
  msgType := if kept "msgType" then m.(msgType) else "";
  data_ := if kept "data" then m.(data_) else None;
|}.

#[global] Instance codec {PB : Protobuf} : FallibleCodec t :=
  {| fmsg_base := base; fmsg_encode := encode; fmsg_field := decode_field |}.

#[global] Program Instance spec {PB : Protobuf} (PS : ProtobufSpec PB) : FallibleSpec PS t :=
  {| fmsg_wire := wire; fmsg_valid := valid; fmsg_typed := typed; fmsg_normal := normal;
     fmsg_merge := merge |}.
Next Obligation. solve_fencode_wire. Qed.
Next Obligation. intros. solve_fencode_throws encode typed. Qed.
Next Obligation. solve_fdecode_wire. Qed.
Next Obligation. solve_fmerge_base. Qed.
Next Obligation. intros. solve_fadvances decode_field. Qed.

#[global] Program Instance given_ : FalliblePartial t partial :=
  {| fmsg_fromPartial := fromPartial; fmsg_full := full; fmsg_given := typed |}.
Next Obligation. solve_fgiven fromPartial typed. Qed.
Next Obligation. solve_fpartial fromPartial full typed. Qed.

#[global] Program Instance json : FallibleJson t :=
  {| fmsg_fromJSON := fromJSON; fmsg_toJSON := toJSON;
     fmsg_named := fun _ => true; fmsg_known := fun m => m |}.
Next Obligation. solve_fjson fromJSON toJSON. Qed.
Next Obligation. reflexivity. Qed.

#[global] Instance schema_wire {PB : Protobuf} {PS : ProtobufSpec PB} : WireSchema wire schema.
Proof. solve_schema_wire wire schema. Qed.

#[global] Instance schema_normal : NormalSchema normal schema.
Proof. solve_schema_normal normal schema. Qed.

#[global] Instance schema_merge : MergeSchema merge schema.
Proof. solve_schema_merge merge schema. Qed.

(** Its row in the table of message types. *)
Definition message {PB : Protobuf} {PS : ProtobufSpec PB} : message_type :=
  fallible_message "MsgData" nothing true schema only.

#[global] Instance message_lawful {PB : Protobuf} (PS : ProtobufSpec PB) : Lawful message.
Proof. solve_lawful decode_field fromJSON only. Qed.

End MsgData.

(** ** [TxMsgData] (cosmos/base/abci/v1beta1/abci.js) *)

Module TxMsgData.

Record t := mk {
  data_ : list MsgData.t;
}.

#[global] Instance t_eta : Settable t := λ m, mk m.(data_).

Definition base : t := mk [].

Definition encode {PB : Protobuf} (message : t) (writer : Writer) : result Writer :=
  Ok writer
  @>= each_e message.(data_) (submessage 10 MsgData.encode).

Definition decode_field {PB : Protobuf} (tag : Z) (message : t) : RM t :=
  match field_number tag with
  | 1 => v ← read_nested MsgData.decode; mret (message <| data_ := message.(data_) ++ [v] |>)
  | _ => _ ← skipType (wire_type tag); mret message
  end.

Definition decode {PB : Protobuf} (length : option Z) : RM t :=
  decode_message length base decode_field.

Definition fromJSON (object : js) : result t :=
  data_' ← field_or object "data" (to_list MsgData.fromJSON) [];
  Ok (mk data_').

Definition toJSON (message : t) : js :=
  Obj ([("data", Arr (map MsgData.toJSON message.(data_)))]).

Record partial := mkPartial {
  p_data : option (list MsgData.partial);
}.

Definition fromPartial (object : partial) : t := {|
  data_ := map MsgData.fromPartial (object.(p_data) ?? []);
|}.

(** The object with no property given. *)
Definition nothing : partial := mkPartial None.

(** The bytes [encode] writes. *)
Definition wire {PB : Protobuf} {PS : ProtobufSpec PB} (m : t) : bytes :=
  f_repeated 10 MsgData.wire m.(data_).

Definition valid (m : t) : Prop :=
  Forall MsgData.valid m.(data_).

(** The byte fields hold arrays, as the interface declares. *)
Definition typed (m : t) : bool := forallb MsgData.typed m.(data_).

(** The message without its empty byte arrays. *)
Definition normal (m : t) : t := {|
  data_ := map MsgData.normal m.(data_);
|}.

Definition encodable {PB : Protobuf} {PS : ProtobufSpec PB} (m : t) : Prop :=
  typed m = true ∧ valid m ∧ small (wire m).

Definition merge (m a : t) : t := {|
  data_ := m.(data_) ++ map MsgData.normal a.(data_);
|}.

(** A whole message seen as a partial one. *)
Definition full (m : t) : partial := {|
  p_data := Some (map MsgData.full m.(data_));
|}.

(** The message as its [.proto] file declares it. *)
Definition schema (m : t) : list field :=
  [repeated 1 (message_value MsgData.schema) m.(data_)].

(** The message with its default for every property that is not kept. *)
Definition only (kept : string → bool) (m : t) : t := {|
  data_ := if kept "data" then m.(data_) else [];
|}.

#[global] Instance codec {PB : Protobuf} : FallibleCodec t :=
  {| fmsg_base := base; fmsg_encode := encode; fmsg_field := decode_field |}.

#[global] Program Instance spec {PB : Protobuf} (PS : ProtobufSpec PB) : FallibleSpec PS t :=
  {| fmsg_wire := wire; fmsg_valid := valid; fmsg_typed := typed; fmsg_normal := normal;
     fmsg_merge := merge |}.
Next Obligation. solve_fencode_wire. Qed.
Next Obligation. intros. solve_fencode_throws encode typed. Qed.
Next Obligation. solve_fdecode_wire. Qed.
Next Obligation. solve_fmerge_base. Qed.
Next Obligation. intros. solve_fadvances decode_field. Qed.

#[global] Program Instance given_ : FalliblePartial t partial :=
  {| fmsg_fromPartial := fromPartial; fmsg_full := full; fmsg_given := typed |}.
Next Obligation. solve_fgiven fromPartial typed. Qed.
Next Obligation. solve_fpartial fromPartial full typed. Qed.

#[global] Program Instance json : FallibleJson t :=
  {| fmsg_fromJSON := fromJSON; fmsg_toJSON := toJSON;
     fmsg_named := fun _ => true; fmsg_known := fun m => m |}.
Next Obligation. solve_fjson fromJSON toJSON. Qed.
Next Obligation. reflexivity. Qed.

#[global] Instance schema_wire {PB : Protobuf} {PS : ProtobufSpec PB} : WireSchema wire schema.
Proof. solve_schema_wire wire schema. Qed.

#[global] Instance schema_normal : NormalSchema normal schema.
Proof. solve_schema_normal normal schema. Qed.

#[global] Instance schema_merge : MergeSchema merge schema.
Proof. solve_schema_merge merge schema. Qed.

(** Its row in the table of message types. *)
Definition message {PB : Protobuf} {PS : ProtobufSpec PB} : message_type :=
  fallible_message "TxMsgData" nothing true schema only.

#[global] Instance message_lawful {PB : Protobuf} (PS : ProtobufSpec PB) : Lawful message.
Proof. solve_lawful decode_field fromJSON only. Qed.

End TxMsgData.

(** ** [SearchTxsResult] (cosmos/base/abci/v1beta1/abci.js) *)

Module SearchTxsResult.

Record t := mk {
  totalCount : number;
  count : number;
  pageNumber : number;
  pageTotal : number;
  limit : number;
  txs : list TxResponse.t;
}.

#[global] Instance t_eta : Settable t := λ m, mk m.(totalCount) m.(count) m.(pageNumber)
  m.(pageTotal) m.(limit) m.(txs).

Definition base : t := mk 0 0 0 0 0 [].

Definition encode {PB : Protobuf} (message : t) (writer : Writer) : result Writer :=
  Ok writer
  @>= pure (when (num_neq message.(totalCount) 0)
       (fun w => w @> uint32 8 @> uint64 message.(totalCount)))
  @>= pure (when (num_neq message.(count) 0) (fun w => w @> uint32 16 @> uint64 message.(count)))
  @>= pure (when (num_neq message.(pageNumber) 0)
       (fun w => w @> uint32 24 @> uint64 message.(pageNumber)))
  @>= pure (when (num_neq message.(pageTotal) 0)
       (fun w => w @> uint32 32 @> uint64 message.(pageTotal)))
  @>= pure (when (num_neq message.(limit) 0) (fun w => w @> uint32 40 @> uint64 message.(limit)))
  @>= each_e message.(txs) (submessage 50 TxResponse.encode).

Definition decode_field {PB : Protobuf} (tag : Z) (message : t) : RM t :=
  match field_number tag with
  | 1 => v ← read_number read_uint64; mret (message <| totalCount := v |>)
  | 2 => v ← read_number read_uint64; mret (message <| count := v |>)
  | 3 => v ← read_number read_uint64; mret (message <| pageNumber := v |>)
  | 4 => v ← read_number read_uint64; mret (message <| pageTotal := v |>)
  | 5 => v ← read_number read_uint64; mret (message <| limit := v |>)
  | 6 => v ← read_nested TxResponse.decode; mret (message <| txs := message.(txs) ++ [v] |>)
  | _ => _ ← skipType (wire_type tag); mret message
  end.

Definition decode {PB : Protobuf} (length : option Z) : RM t :=
  decode_message length base decode_field.

Definition fromJSON (object : js) : result t :=
  totalCount' ← field_or object "totalCount" js_Number 0;
  count' ← field_or object "count" js_Number 0;
  pageNumber' ← field_or object "pageNumber" js_Number 0;
  pageTotal' ← field_or object "pageTotal" js_Number 0;
  limit' ← field_or object "limit" js_Number 0;
  txs' ← field_or object "txs" (to_list TxResponse.fromJSON) [];
  Ok (mk totalCount' count' pageNumber' pageTotal' limit' txs').

Definition toJSON (message : t) : js :=
  Obj ([("totalCount", Num message.(totalCount));
    ("count", Num message.(count));
    ("pageNumber", Num message.(pageNumber));
    ("pageTotal", Num message.(pageTotal));
    ("limit", Num message.(limit));
    ("txs", Arr (map TxResponse.toJSON message.(txs)))]).

Record partial := mkPartial {
  p_totalCount : option number;
  p_count : option number;
  p_pageNumber : option number;
  p_pageTotal : option number;
  p_limit : option number;
  p_txs : option (list TxResponse.partial);
}.

Definition fromPartial (object : partial) : t := {|
  totalCount := object.(p_totalCount) ?? Int 0;
  count := object.(p_count) ?? Int 0;
  pageNumber := object.(p_pageNumber) ?? Int 0;
  pageTotal := object.(p_pageTotal) ?? Int 0;
  limit := object.(p_limit) ?? Int 0;
  txs := map TxResponse.fromPartial (object.(p_txs) ?? []);
|}.

(** The object with no property given. *)
Definition nothing : partial := mkPartial None None None None None None.

(** The bytes [encode] writes. *)
Definition wire {PB : Protobuf} {PS : ProtobufSpec PB} (m : t) : bytes :=
  f_number e_uint64 8 m.(totalCount) ++
  f_number e_uint64 16 m.(count) ++
  f_number e_uint64 24 m.(pageNumber) ++
  f_number e_uint64 32 m.(pageTotal) ++
  f_number e_uint64 40 m.(limit) ++
  f_repeated 50 TxResponse.wire m.(txs).

Definition valid (m : t) : Prop :=
  uint64_ok m.(totalCount) ∧ uint64_ok m.(count) ∧ uint64_ok m.(pageNumber) ∧ uint64_ok m.(pageTotal) ∧ uint64_ok m.(limit) ∧ Forall TxResponse.valid m.(txs).

(** The byte fields hold arrays, as the interface declares. *)
Definition typed (m : t) : bool := forallb TxResponse.typed m.(txs).

(** The message without its empty byte arrays. *)
Definition normal (m : t) : t := {|
  totalCount := m.(totalCount);
  count := m.(count);
  pageNumber := m.(pageNumber);
  pageTotal := m.(pageTotal);
  limit := m.(limit);
  txs := map TxResponse.normal m.(txs);
|}.

Definition encodable {PB : Protobuf} {PS : ProtobufSpec PB} (m : t) : Prop :=
  typed m = true ∧ valid m ∧ small (wire m).

Definition merge (m a : t) : t := {|
  totalCount := later_number m.(totalCount) a.(totalCount);
  count := later_number m.(count) a.(count);
  pageNumber := later_number m.(pageNumber) a.(pageNumber);
  pageTotal := later_number m.(pageTotal) a.(pageTotal);
  limit := later_number m.(limit) a.(limit);
  txs := m.(txs) ++ map TxResponse.normal a.(txs);
|}.

(** A whole message seen as a partial one. *)
Definition full (m : t) : partial := {|
  p_totalCount := Some m.(totalCount);
  p_count := Some m.(count);
  p_pageNumber := Some m.(pageNumber);
  p_pageTotal := Some m.(pageTotal);
  p_limit := Some m.(limit);
  p_txs := Some (map TxResponse.full m.(txs));
|}.

(** The message as its [.proto] file declares it. *)
Definition schema (m : t) : list field :=
  [implicit 1 (VInt Uint64 m.(totalCount));
   implicit 2 (VInt Uint64 m.(count));
   implicit 3 (VInt Uint64 m.(pageNumber));
   implicit 4 (VInt Uint64 m.(pageTotal));
   implicit 5 (VInt Uint64 m.(limit));
   repeated 6 (message_value TxResponse.schema) m.(txs)].

(** The message with its default for every property that is not kept. *)
Definition only (kept : string → bool) (m : t) : t := {|
  totalCount := if kept "totalCount" then m.(totalCount) else Int 0;
  count := if kept "count" then m.(count) else Int 0;
  pageNumber := if kept "pageNumber" then m.(pageNumber) else Int 0;
  pageTotal := if kept "pageTotal" then m.(pageTotal) else Int 0;
  limit := if kept "limit" then m.(limit) else Int 0;
  txs := if kept "txs" then m.(txs) else [];
|}.

#[global] Instance codec {PB : Protobuf} : FallibleCodec t :=
  {| fmsg_base := base; fmsg_encode := encode; fmsg_field := decode_field |}.

#[global] Program Instance spec {PB : Protobuf} (PS : ProtobufSpec PB) : FallibleSpec PS t :=
  {| fmsg_wire := wire; fmsg_valid := valid; fmsg_typed := typed; fmsg_normal := normal;
     fmsg_merge := merge |}.
Next Obligation. solve_fencode_wire. Qed.
Next Obligation. intros. solve_fencode_throws encode typed. Qed.
Next Obligation. solve_fdecode_wire. Qed.
Next Obligation. solve_fmerge_base. Qed.
Next Obligation. intros. solve_fadvances decode_field. Qed.

#[global] Program Instance given_ : FalliblePartial t partial :=
  {| fmsg_fromPartial := fromPartial; fmsg_full := full; fmsg_given := typed |}.
Next Obligation. solve_fgiven fromPartial typed. Qed.
Next Obligation. solve_fpartial fromPartial full typed. Qed.

#[global] Program Instance json : FallibleJson t :=
  {| fmsg_fromJSON := fromJSON; fmsg_toJSON := toJSON;
     fmsg_named := fun _ => true; fmsg_known := fun m => m |}.
Next Obligation. solve_fjson fromJSON toJSON. Qed.
Next Obligation. reflexivity. Qed.

#[global] Instance schema_wire {PB : Protobuf} {PS : ProtobufSpec PB} : WireSchema wire schema.
Proof. solve_schema_wire wire schema. Qed.

#[global] Instance schema_normal : NormalSchema normal schema.
Proof. solve_schema_normal normal schema. Qed.

#[global] Instance schema_merge : MergeSchema merge schema.
Proof. solve_schema_merge merge schema. Qed.

(** Its row in the table of message types. *)
Definition message {PB : Protobuf} {PS : ProtobufSpec PB} : message_type :=
  fallible_message "SearchTxsResult" nothing true schema only.

#[global] Instance message_lawful {PB : Protobuf} (PS : ProtobufSpec PB) : Lawful message.
Proof. solve_lawful decode_field fromJSON only. Qed.

End SearchTxsResult.


(** ** [ABCIApplicationClientImpl]

    [rpc] is the transport the class is constructed with: [rpc service method data]
    is what the promise of [this.rpc.request] settles to. *)
Module ABCIApplicationClientImpl.
Section client.
Context {PB : Protobuf} (rpc : string → string → bytes → result bytes).

Definition Echo (request : RequestEcho.t) : result ResponseEcho.t :=
  data ← rpc "tendermint.abci.ABCIApplication" "Echo"
    (finish (RequestEcho.encode request create));
  decode_bytes ResponseEcho.decode data.

Definition Flush (request : RequestFlush.t) : result ResponseFlush.t :=
  data ← rpc "tendermint.abci.ABCIApplication" "Flush"
    (finish (RequestFlush.encode request create));
  decode_bytes ResponseFlush.decode data.

Definition Info (request : RequestInfo.t) : result ResponseInfo.t :=
  data ← rpc "tendermint.abci.ABCIApplication" "Info"
    (finish (RequestInfo.encode request create));
  decode_bytes ResponseInfo.decode data.

Definition SetOption (request : RequestSetOption.t) : result ResponseSetOption.t :=
  data ← rpc "tendermint.abci.ABCIApplication" "SetOption"
    (finish (RequestSetOption.encode request create));
  decode_bytes ResponseSetOption.decode data.

Definition DeliverTx (request : RequestDeliverTx.t) : result ResponseDeliverTx.t :=
  w ← RequestDeliverTx.encode request create;
  data ← rpc "tendermint.abci.ABCIApplication" "DeliverTx" (finish w);
  decode_bytes ResponseDeliverTx.decode data.

Definition CheckTx (request : RequestCheckTx.t) : result ResponseCheckTx.t :=
  w ← RequestCheckTx.encode request create;
  data ← rpc "tendermint.abci.ABCIApplication" "CheckTx" (finish w);
  decode_bytes ResponseCheckTx.decode data.

Definition Query (request : RequestQuery.t) : result ResponseQuery.t :=
  w ← RequestQuery.encode request create;
  data ← rpc "tendermint.abci.ABCIApplication" "Query" (finish w);
  decode_bytes ResponseQuery.decode data.

Definition Commit (request : RequestCommit.t) : result ResponseCommit.t :=
  data ← rpc "tendermint.abci.ABCIApplication" "Commit"
    (finish (RequestCommit.encode request create));
  decode_bytes ResponseCommit.decode data.

Definition InitChain (request : RequestInitChain.t) : result ResponseInitChain.t :=
  w ← RequestInitChain.encode request create;
  data ← rpc "tendermint.abci.ABCIApplication" "InitChain" (finish w);
  decode_bytes ResponseInitChain.decode data.

Definition BeginBlock (request : RequestBeginBlock.t) : result ResponseBeginBlock.t :=
  w ← RequestBeginBlock.encode request create;
  data ← rpc "tendermint.abci.ABCIApplication" "BeginBlock" (finish w);
  decode_bytes ResponseBeginBlock.decode data.

Definition EndBlock (request : RequestEndBlock.t) : result ResponseEndBlock.t :=
  data ← rpc "tendermint.abci.ABCIApplication" "EndBlock"
    (finish (RequestEndBlock.encode request create));
  decode_bytes ResponseEndBlock.decode data.

Definition ListSnapshots (request : RequestListSnapshots.t) : result ResponseListSnapshots.t :=
  data ← rpc "tendermint.abci.ABCIApplication" "ListSnapshots"
    (finish (RequestListSnapshots.encode request create));
  decode_bytes ResponseListSnapshots.decode data.

Definition OfferSnapshot (request : RequestOfferSnapshot.t) : result ResponseOfferSnapshot.t :=
  w ← RequestOfferSnapshot.encode request create;
  data ← rpc "tendermint.abci.ABCIApplication" "OfferSnapshot" (finish w);
  decode_bytes ResponseOfferSnapshot.decode data.

Definition LoadSnapshotChunk (request : RequestLoadSnapshotChunk.t)
    : result ResponseLoadSnapshotChunk.t :=
  data ← rpc "tendermint.abci.ABCIApplication" "LoadSnapshotChunk"
    (finish (RequestLoadSnapshotChunk.encode request create));
  decode_bytes ResponseLoadSnapshotChunk.decode data.

Definition ApplySnapshotChunk (request : RequestApplySnapshotChunk.t)
    : result ResponseApplySnapshotChunk.t :=
  w ← RequestApplySnapshotChunk.encode request create;
  data ← rpc "tendermint.abci.ABCIApplication" "ApplySnapshotChunk" (finish w);
  decode_bytes ResponseApplySnapshotChunk.decode data.

End client.
End ABCIApplicationClientImpl.

(** ** The message types of this file *)

Definition messages {PB : Protobuf} {PS : ProtobufSpec PB} : list message_type :=
  [ RequestEcho.message; RequestFlush.message; RequestInfo.message; RequestSetOption.message;
   BlockParams.message; ConsensusParams.message; ValidatorUpdate.message;
   RequestInitChain.message; RequestQuery.message; Validator.message; VoteInfo.message;
   LastCommitInfo.message; Evidence.message; RequestBeginBlock.message; RequestCheckTx.message;
   RequestDeliverTx.message; RequestEndBlock.message; RequestCommit.message;
   RequestListSnapshots.message; Snapshot.message; RequestOfferSnapshot.message;
   RequestLoadSnapshotChunk.message; RequestApplySnapshotChunk.message; Request.message;
   ResponseException.message; ResponseEcho.message; ResponseFlush.message; ResponseInfo.message;
   ResponseSetOption.message; ResponseInitChain.message; ResponseQuery.message;
   EventAttribute.message; Event.message; ResponseBeginBlock.message; ResponseCheckTx.message;
   ResponseDeliverTx.message; ResponseEndBlock.message; ResponseCommit.message;
   ResponseListSnapshots.message; ResponseOfferSnapshot.message;
   ResponseLoadSnapshotChunk.message; ResponseApplySnapshotChunk.message; Response.message;
   TxResult.message; Attribute.message; StringEvent.message; ABCIMessageLog.message;
   TxResponse.message; GasInfo.message; Result.message; SimulationResponse.message;
   MsgData.message; TxMsgData.message; SearchTxsResult.message].

Lemma AbciTypes_lawful {PB : Protobuf} {PS : ProtobufSpec PB} : Forall Lawful messages.
Proof. solve_table. Qed.

(** The methods of [ABCIApplicationClientImpl]. *)
Definition abci_methods {PB : Protobuf} {PS : ProtobufSpec PB} : list rpc_method :=
  [mkMethod "tendermint.abci.ABCIApplication" "Echo"
     RequestEcho.message ResponseEcho.message
     (fun rpc => ABCIApplicationClientImpl.Echo rpc);
   mkMethod "tendermint.abci.ABCIApplication" "Flush"
     RequestFlush.message ResponseFlush.message
     (fun rpc => ABCIApplicationClientImpl.Flush rpc);
   mkMethod "tendermint.abci.ABCIApplication" "Info"
     RequestInfo.message ResponseInfo.message
     (fun rpc => ABCIApplicationClientImpl.Info rpc);
   mkMethod "tendermint.abci.ABCIApplication" "SetOption"
     RequestSetOption.message ResponseSetOption.message
     (fun rpc => ABCIApplicationClientImpl.SetOption rpc);
   mkMethod "tendermint.abci.ABCIApplication" "DeliverTx"
     RequestDeliverTx.message ResponseDeliverTx.message
     (fun rpc => ABCIApplicationClientImpl.DeliverTx rpc);
   mkMethod "tendermint.abci.ABCIApplication" "CheckTx"
     RequestCheckTx.message ResponseCheckTx.message
     (fun rpc => ABCIApplicationClientImpl.CheckTx rpc);
   mkMethod "tendermint.abci.ABCIApplication" "Query"
     RequestQuery.message ResponseQuery.message
     (fun rpc => ABCIApplicationClientImpl.Query rpc);
   mkMethod "tendermint.abci.ABCIApplication" "Commit"
     RequestCommit.message ResponseCommit.message
     (fun rpc => ABCIApplicationClientImpl.Commit rpc);
   mkMethod "tendermint.abci.ABCIApplication" "InitChain"
     RequestInitChain.message ResponseInitChain.message
     (fun rpc => ABCIApplicationClientImpl.InitChain rpc);
   mkMethod "tendermint.abci.ABCIApplication" "BeginBlock"
     RequestBeginBlock.message ResponseBeginBlock.message
     (fun rpc => ABCIApplicationClientImpl.BeginBlock rpc);
   mkMethod "tendermint.abci.ABCIApplication" "EndBlock"
     RequestEndBlock.message ResponseEndBlock.message
     (fun rpc => ABCIApplicationClientImpl.EndBlock rpc);
   mkMethod "tendermint.abci.ABCIApplication" "ListSnapshots"
     RequestListSnapshots.message ResponseListSnapshots.message
     (fun rpc => ABCIApplicationClientImpl.ListSnapshots rpc);
   mkMethod "tendermint.abci.ABCIApplication" "OfferSnapshot"
     RequestOfferSnapshot.message ResponseOfferSnapshot.message
     (fun rpc => ABCIApplicationClientImpl.OfferSnapshot rpc);
   mkMethod "tendermint.abci.ABCIApplication" "LoadSnapshotChunk"
     RequestLoadSnapshotChunk.message ResponseLoadSnapshotChunk.message
     (fun rpc => ABCIApplicationClientImpl.LoadSnapshotChunk rpc);
   mkMethod "tendermint.abci.ABCIApplication" "ApplySnapshotChunk"
     RequestApplySnapshotChunk.message ResponseApplySnapshotChunk.message
     (fun rpc => ABCIApplicationClientImpl.ApplySnapshotChunk rpc)].

Lemma AbciTypes_abci_methods_lawful {PB : Protobuf} {PS : ProtobufSpec PB} : Forall method_lawful abci_methods.
Proof. solve_methods. Qed.
