(* ===== verification/HttpTypes.v ===== *)
(** * The http annotation types

    The codecs of [google/api/http.js], which describe how a method is reached
    over HTTP.  A rule can hold further rules, so [HttpRule] is the one
    recursive message type: its functions call themselves on the rules they
    find.  Those that recurse over a message or an object do so structurally;
    [decode] recurses on what it reads, with a bound on the depth that
    [decode_rule_self] shows to be no restriction.  Every module of the client
    has its own copy of the file, with the same contents; the lines of the bank
    module are the ones modelled. *)
From S2P Require Import Prelude Js Calendar Protobuf Codec TimeTypes Dates Base64 Fallible Proto3 MessageTable.
Open Scope Z_scope.

Module CustomHttpPattern.

Record t := mk {
  kind : string;
  path : string;
}.

#[global] Instance t_eta : Settable t := λ m, mk m.(kind) m.(path).

Definition base : t := mk "" "".

Definition encode {PB : Protobuf} (message : t) (writer : Writer) : Writer :=
  writer
  @> when (str_neq message.(kind) "") (fun w => w @> uint32 10 @> string_ message.(kind))
  @> when (str_neq message.(path) "") (fun w => w @> uint32 18 @> string_ message.(path)).

Definition decode_field {PB : Protobuf} (tag : Z) (message : t) : RM t :=
  match field_number tag with
  | 1 => v ← read_string; mret (message <| kind := v |>)
  | 2 => v ← read_string; mret (message <| path := v |>)
  | _ => _ ← skipType (wire_type tag); mret message
  end.

Definition decode {PB : Protobuf} (length : option Z) : RM t :=
  decode_message length base decode_field.

Definition fromJSON (object : js) : result t :=
  kind' ← field_or object "kind" to_string "";
  path' ← field_or object "path" to_string "";
  Ok (mk kind' path').

Definition toJSON (message : t) : js :=
  Obj [("kind", Str message.(kind)); ("path", Str message.(path))].

Record partial := mkPartial {
  p_kind : option string;
  p_path : option string;
}.

Definition fromPartial (object : partial) : t := {|
  kind := object.(p_kind) ?? "";
  path := object.(p_path) ?? "";
|}.

(** The object with no property given. *)
Definition nothing : partial := mkPartial None None.

(** The bytes [encode] writes. *)
Definition wire {PB : Protobuf} {PS : ProtobufSpec PB} (m : t) : bytes :=
  f_string 10 m.(kind) ++
  f_string 18 m.(path).

Definition valid (m : t) : Prop :=
  True.

Definition merge (m a : t) : t := {|
  kind := later_string m.(kind) a.(kind);
  path := later_string m.(path) a.(path);
|}.

(** A whole message seen as a partial one. *)
Definition full (m : t) : partial := {|
  p_kind := Some m.(kind);
  p_path := Some m.(path);
|}.

(** The message as its [.proto] file declares it. *)
Definition schema (m : t) : list field :=
  [implicit 1 (VString m.(kind)); implicit 2 (VString m.(path))].

(** The message with its default for every property that is not kept. *)
Definition only (kept : string → bool) (m : t) : t := {|
  kind := if kept "kind" then m.(kind) else "";
  path := if kept "path" then m.(path) else "";
|}.

#[global] Instance codec {PB : Protobuf} : MessageCodec t :=
  {| msg_base := base; msg_encode := encode; msg_field := decode_field |}.

#[global] Program Instance spec {PB : Protobuf} (PS : ProtobufSpec PB) : MessageSpec PS t :=
  {| msg_wire := wire; msg_valid := valid; msg_merge := merge |}.
Next Obligation. solve_encode_wire. Qed.
Next Obligation. solve_decode_wire. Qed.
Next Obligation. solve_merge_base. Qed.
Next Obligation. intros. solve_advances decode_field. Qed.

#[global] Program Instance data : MessageData t partial :=
  {| msg_fromJSON := fromJSON; msg_toJSON := toJSON;
     msg_fromPartial := fromPartial; msg_full := full |}.
Next Obligation. solve_json fromJSON toJSON. Qed.
Next Obligation. solve_partial fromPartial full. Qed.

#[global] Instance schema_wire {PB : Protobuf} {PS : ProtobufSpec PB} : WireSchema wire schema.
Proof. solve_schema_wire wire schema. Qed.

#[global] Instance schema_merge : MergeSchema merge schema.
Proof. solve_schema_merge merge schema. Qed.

(** Its row in the table of message types. *)
Definition message {PB : Protobuf} {PS : ProtobufSpec PB} : message_type :=
  plain_message "CustomHttpPattern" nothing true schema only.

#[global] Instance message_lawful {PB : Protobuf} (PS : ProtobufSpec PB) : Lawful message.
Proof. solve_lawful decode_field fromJSON only. Qed.

End CustomHttpPattern.

(** ** Reading inside a buffer

    What holds of reads that start in the buffer [B] after the position [p]: the
    bound on the depth of the rules is about what is left of the buffer. *)
Section inside.
Context {PB : Protobuf} {PS : ProtobufSpec PB}.

Definition inside (B : bytes) (p : Z) (r : Reader) : Prop :=
  r.(buf) = B ∧ p < r.(pos) <= blen B.

(** A read returns further on in the same buffer, or throws an error of the
    library. *)
Definition moves {A : Type} (r : Reader) (x : result (A * Reader)) : Prop :=
  match x with Ok (_, r') => r'.(buf) = r.(buf) ∧ r.(pos) <= r'.(pos) | Err e => lib_error e end.

Lemma moves_read {A : Type} (m : RM A) r : advances 0 m → keeps_buffer m → moves r (m r).
Proof.
  intros Ha Hk. specialize (Ha r). unfold moves. destruct (m r) as [[a r']|e] eqn:E; [|done].
  split; [by eapply Hk|lia].
Qed.

Lemma moves_bind {A B : Type} (m : RM A) (f : A → RM B) r :
  moves r (m r) → (∀ a r', m r = Ok (a, r') → moves r' (f a r')) → moves r ((m ≫= f) r).
Proof.
  unfold moves, mbind, RM_bind. intros Hm Hf. destruct (m r) as [[a r1]|e]; [|done].
  specialize (Hf a r1 eq_refl). destruct (f a r1) as [[b r2]|e]; [|done].
  destruct Hm, Hf. split; [congruence|lia].
Qed.

Lemma moves_ret {A : Type} (a : A) r : moves r (mret (M := RM) a r).
Proof. split; [done|lia]. Qed.

(** A number is read from inside the buffer. *)
Lemma read_uint32_inside r n r' : read_uint32 r = Ok (n, r') → inside r.(buf) r.(pos) r'.
Proof.
  intros E. pose proof (read_uint32_advances r) as Ha. rewrite E in Ha.
  split; [by eapply read_uint32_buffer|]. apply read_uint32_within in E. unfold len in E. lia.
Qed.

Lemma moves_uint32 r : moves r (read_uint32 r).
Proof. apply moves_read; [apply advances_uint32|apply read_uint32_buffer]. Qed.

Lemma moves_nested {A : Type} (decode : option Z → RM A) B p r :
  inside B p r → (∀ length r, inside B (p + 1) r → moves r (decode length r)) →
  moves r (read_nested decode r).
Proof.
  intros [<- Hp] Hd. apply moves_bind; [apply moves_uint32|]. intros n r1 E.
  destruct (read_uint32_inside _ _ _ E) as [Hb ?]. apply Hd. split; [done|lia].
Qed.

Section loop.
Context {A : Type} (B : bytes) (p end_ : Z).

Lemma decode_loop_moves (field : Z → A → RM A) :
  (∀ tag m r, inside B p r → moves r (field tag m r)) →
  ∀ fuel m r, r.(buf) = B → p <= r.(pos) → end_ - r.(pos) <= Z.of_nat fuel →
  moves r (decode_loop fuel end_ field m r).
Proof.
  intros Hf. induction fuel as [|fuel IH]; intros m r Hb Hp Hfuel; simpl;
    (destruct (Z.ltb_spec r.(pos) end_); [|apply moves_ret]); [lia|].
  apply moves_bind; [apply moves_uint32|]. intros tag r1 E.
  destruct (read_uint32_inside _ _ _ E) as [Hb1 Hp1]. rewrite Hb in *.
  assert (inside B p r1) as Hi by (split; [done|lia]).
  apply moves_bind; [by apply Hf|]. intros m2 r2 E2. specialize (Hf tag m r1 Hi).
  rewrite E2 in Hf. destruct Hf as [Hb2 ?]. apply IH; [congruence|lia..].
Qed.

Lemma decode_loop_ext (f1 f2 : Z → A → RM A) :
  (∀ tag m r, inside B p r → f1 tag m r = f2 tag m r) →
  (∀ tag m r, inside B p r → moves r (f1 tag m r)) →
  ∀ fuel m r, r.(buf) = B → p <= r.(pos) →
  decode_loop fuel end_ f1 m r = decode_loop fuel end_ f2 m r.
Proof.
  intros He Hf. induction fuel as [|fuel IH]; intros m r Hb Hp; simpl; [done|].
  destruct (r.(pos) <? end_); [|done]. unfold mbind, RM_bind.
  destruct (read_uint32 r) as [[tag r1]|] eqn:E; [|done].
  destruct (read_uint32_inside _ _ _ E) as [Hb1 Hp1]. rewrite Hb in *.
  assert (inside B p r1) as Hi by (split; [done|lia]).
  rewrite <- He by done. specialize (Hf tag m r1 Hi).
  destruct (f1 tag m r1) as [[m2 r2]|]; [|done]. destruct Hf. apply IH; [congruence|lia].
Qed.
End loop.

(** [decode] as a whole. *)
Lemma decode_message_moves {A : Type} length (base : A) (field : Z → A → RM A) r :
  (∀ tag m r', inside r.(buf) r.(pos) r' → moves r' (field tag m r')) →
  moves r (decode_message length base field r).
Proof. intros Hf. eapply decode_loop_moves; [exact Hf|done|lia..]. Qed.

Lemma decode_message_ext {A : Type} length (base : A) (f1 f2 : Z → A → RM A) r :
  (∀ tag m r', inside r.(buf) r.(pos) r' → f1 tag m r' = f2 tag m r') →
  (∀ tag m r', inside r.(buf) r.(pos) r' → moves r' (f1 tag m r')) →
  decode_message length base f1 r = decode_message length base f2 r.
Proof. intros He Hf. eapply decode_loop_ext; [exact He|exact Hf|done|lia]. Qed.

Lemma moves_advances {A : Type} (m : RM A) : (∀ r, moves r (m r)) → advances 0 m.
Proof.
  intros H r. specialize (H r). destruct (m r) as [[a r']|e]; [|done]. destruct H. lia.
Qed.

End inside.

Module HttpRule.

Inductive t := mk {
  selector : string;
  get : option string;
  put : option string;
  post : option string;
  delete : option string;
  patch : option string;
  custom : option CustomHttpPattern.t;
  body : string;
  responseBody : string;
  additionalBindings : list t;
}.

#[global] Instance t_eta : Settable t := λ m,
  mk m.(selector) m.(get) m.(put) m.(post) m.(delete) m.(patch) m.(custom) m.(body) m.(responseBody)
    m.(additionalBindings).

(** Induction over a rule, with the hypothesis for each of its bindings. *)
Section induction.
Variable P : t → Prop.
Hypothesis H : ∀ s g pu po d pa c b r l, Forall P l → P (mk s g pu po d pa c b r l).

Fixpoint rule_ind (m : t) : P m :=
  match m with
  | mk s g pu po d pa c b r l =>
      H s g pu po d pa c b r l
        ((fix go (l : list t) : Forall P l :=
            match l with
            | [] => Forall_nil_2 _
            | m :: l' => Forall_cons_2 _ _ _ (rule_ind m) (go l')
            end) l)
  end.
End induction.

Definition base : t := mk "" None None None None None None "" "" [].

Fixpoint encode {PB : Protobuf} (message : t) (writer : Writer) : Writer :=
  writer
  @> when (str_neq message.(selector) "") (fun w => w @> uint32 10 @> string_ message.(selector))
  @> defined message.(get) (fun v w => w @> uint32 18 @> string_ v)
  @> defined message.(put) (fun v w => w @> uint32 26 @> string_ v)
  @> defined message.(post) (fun v w => w @> uint32 34 @> string_ v)
  @> defined message.(delete) (fun v w => w @> uint32 42 @> string_ v)
  @> defined message.(patch) (fun v w => w @> uint32 50 @> string_ v)
  @> defined message.(custom) (fun v w => CustomHttpPattern.encode v (w @> uint32 66 @> fork) @> ldelim)
  @> when (str_neq message.(body) "") (fun w => w @> uint32 58 @> string_ message.(body))
  @> when (str_neq message.(responseBody) "")
       (fun w => w @> uint32 98 @> string_ message.(responseBody))
  @> each message.(additionalBindings) (fun v w => encode v (w @> uint32 90 @> fork) @> ldelim).

(** One field, where [nested] is [HttpRule.decode]. *)
Definition decode_field_with {PB : Protobuf} (nested : option Z → RM t) (tag : Z) (message : t) : RM t :=
  match field_number tag with
  | 1 => v ← read_string; mret (message <| selector := v |>)
  | 2 => v ← read_string; mret (message <| get := Some v |>)
  | 3 => v ← read_string; mret (message <| put := Some v |>)
  | 4 => v ← read_string; mret (message <| post := Some v |>)
  | 5 => v ← read_string; mret (message <| delete := Some v |>)
  | 6 => v ← read_string; mret (message <| patch := Some v |>)
  | 8 => v ← read_nested CustomHttpPattern.decode; mret (message <| custom := Some v |>)
  | 7 => v ← read_string; mret (message <| body := v |>)
  | 12 => v ← read_string; mret (message <| responseBody := v |>)
  | 11 => v ← read_nested nested;
          mret (message <| additionalBindings := message.(additionalBindings) ++ [v] |>)
  | _ => _ ← skipType (wire_type tag); mret message
  end.

(** [decode], at most [depth] rules deep. *)
Fixpoint decode_depth {PB : Protobuf} (depth : nat) (length : option Z) : RM t :=
  match depth with
  | O => λ _, Err OutOfFuel
  | S depth' => decode_message length base (decode_field_with (decode_depth depth'))
  end.

(** A rule in a rule takes at least two of the bytes that are left. *)
Definition decode_nested {PB : Protobuf} (length : option Z) : RM t := λ r,
  decode_depth (S (Z.to_nat (len r - r.(pos)))) length r.

Definition decode_field {PB : Protobuf} : Z → t → RM t := decode_field_with decode_nested.

Definition decode {PB : Protobuf} (length : option Z) : RM t :=
  decode_message length base decode_field.

(** The property [additionalBindings] is looked up by hand, so that the recursion
    is on a part of [object]; [fromJSON_self] has the form of the code. *)
Fixpoint fromJSON (object : js) : result t :=
  selector' ← field_or object "selector" to_string "";
  get' ← field_or object "get" (to_some to_string) None;
  put' ← field_or object "put" (to_some to_string) None;
  post' ← field_or object "post" (to_some to_string) None;
  delete' ← field_or object "delete" (to_some to_string) None;
  patch' ← field_or object "patch" (to_some to_string) None;
  custom' ← field_or object "custom" (to_some CustomHttpPattern.fromJSON) None;
  body' ← field_or object "body" to_string "";
  responseBody' ← field_or object "responseBody" to_string "";
  additionalBindings' ←
    match object with
    | Obj fs =>
        (fix find (fs : list (string * js)) : result (list t) :=
           match fs with
           | [] => Ok []
           | (k, v) :: fs' =>
               if String.eqb "additionalBindings" k then
                 match v with
                 | Undefined | Null => Ok []
                 | Arr l => result_map fromJSON l
                 | Str _ => Err Unmodelled
                 | _ => Err (TypeError "object is not iterable")
                 end
               else find fs'
           end) fs
    | _ => Ok []
    end;
  Ok (mk selector' get' put' post' delete' patch' custom' body' responseBody' additionalBindings').

Fixpoint toJSON (message : t) : js :=
  Obj ([("selector", Str message.(selector))] ++
    prop_opt "get" Str message.(get) ++
    prop_opt "put" Str message.(put) ++
    prop_opt "post" Str message.(post) ++
    prop_opt "delete" Str message.(delete) ++
    prop_opt "patch" Str message.(patch) ++
    prop_opt "custom" CustomHttpPattern.toJSON message.(custom) ++
    [("body", Str message.(body));
     ("responseBody", Str message.(responseBody));
     ("additionalBindings", Arr (map toJSON message.(additionalBindings)))]).

Inductive partial := mkPartial {
  p_selector : option string;
  p_get : option string;
  p_put : option string;
  p_post : option string;
  p_delete : option string;
  p_patch : option string;
  p_custom : option CustomHttpPattern.partial;
  p_body : option string;
  p_responseBody : option string;
  p_additionalBindings : option (list partial);
}.

Fixpoint fromPartial (object : partial) : t := {|
  selector := object.(p_selector) ?? "";
  get := object.(p_get);
  put := object.(p_put);
  post := object.(p_post);
  delete := object.(p_delete);
  patch := object.(p_patch);
  custom := CustomHttpPattern.fromPartial <$> object.(p_custom);
  body := object.(p_body) ?? "";
  responseBody := object.(p_responseBody) ?? "";
  additionalBindings :=
    match object.(p_additionalBindings) with Some l => map fromPartial l | None => [] end;
|}.

(** The object with no property given. *)
Definition nothing : partial := mkPartial None None None None None None None None None None.

(** The bytes [encode] writes. *)
Fixpoint wire {PB : Protobuf} {PS : ProtobufSpec PB} (m : t) : bytes :=
  f_string 10 m.(selector) ++
  f_message 18 chars m.(get) ++
  f_message 26 chars m.(put) ++
  f_message 34 chars m.(post) ++
  f_message 42 chars m.(delete) ++
  f_message 50 chars m.(patch) ++
  f_message 66 CustomHttpPattern.wire m.(custom) ++
  f_string 58 m.(body) ++
  f_string 98 m.(responseBody) ++
  f_repeated 90 wire m.(additionalBindings).

Definition valid (m : t) : Prop :=
  True.

Definition merge (m a : t) : t := {|
  selector := later_string m.(selector) a.(selector);
  get := later_message m.(get) a.(get);
  put := later_message m.(put) a.(put);
  post := later_message m.(post) a.(post);
  delete := later_message m.(delete) a.(delete);
  patch := later_message m.(patch) a.(patch);
  custom := later_message m.(custom) a.(custom);
  body := later_string m.(body) a.(body);
  responseBody := later_string m.(responseBody) a.(responseBody);
  additionalBindings := m.(additionalBindings) ++ a.(additionalBindings);
|}.

(** A whole message seen as a partial one. *)
Fixpoint full (m : t) : partial := {|
  p_selector := Some m.(selector);
  p_get := m.(get);
  p_put := m.(put);
  p_post := m.(post);
  p_delete := m.(delete);
  p_patch := m.(patch);
  p_custom := CustomHttpPattern.full <$> m.(custom);
  p_body := Some m.(body);
  p_responseBody := Some m.(responseBody);
  p_additionalBindings := Some (map full m.(additionalBindings));
|}.

(** *** Objects *)

Lemma fromJSON_self object :
  fromJSON object =
    (selector' ← field_or object "selector" to_string "";
     get' ← field_or object "get" (to_some to_string) None;
     put' ← field_or object "put" (to_some to_string) None;
     post' ← field_or object "post" (to_some to_string) None;
     delete' ← field_or object "delete" (to_some to_string) None;
     patch' ← field_or object "patch" (to_some to_string) None;
     custom' ← field_or object "custom" (to_some CustomHttpPattern.fromJSON) None;
     body' ← field_or object "body" to_string "";
     responseBody' ← field_or object "responseBody" to_string "";
     additionalBindings' ← field_or object "additionalBindings" (to_list fromJSON) [];
     Ok (mk selector' get' put' post' delete' patch' custom' body' responseBody' additionalBindings')).
Proof.
  assert (match object with
          | Undefined | Null => True
          | Obj fs => field_or (Obj fs) "additionalBindings" (to_list fromJSON) [] =
              (fix find (fs : list (string * js)) : result (list t) :=
                 match fs with
                 | [] => Ok []
                 | (k, v) :: fs' =>
                     if String.eqb "additionalBindings" k then
                       match v with
                       | Undefined | Null => Ok []
                       | Arr l => result_map fromJSON l
                       | Str _ => Err Unmodelled
                       | _ => Err (TypeError "object is not iterable")
                       end
                     else find fs'
                 end) fs
          | v => field_or v "additionalBindings" (to_list fromJSON) [] = Ok []
          end) as H.
  { destruct object as [| | | | | |fs]; try done. induction fs as [|[k v] fs IH]; [done|].
    unfold field_or, Js.get in *. cbn [assoc]. destruct (String.eqb "additionalBindings" k); [|exact IH].
    by destruct v. }
  destruct object; try done; cbn [fromJSON]; rewrite H; reflexivity.
Qed.

Lemma fromJSON_rule m : fromJSON (toJSON m) = Ok m.
Proof.
  induction m as [s g pu po d pa c b r l IH] using rule_ind. rewrite fromJSON_self. cbn [toJSON].
  assert (to_list fromJSON (Arr (map toJSON l)) = Ok l) as Hl.
  { unfold to_list. simpl. by apply (result_map_id fromJSON toJSON). }
  destruct g, pu, po, d, pa, c as [[]|]; unfold field_or, to_some; cbn; by rewrite Hl.
Qed.

Lemma fromPartial_rule m : fromPartial (full m) = m.
Proof.
  induction m as [s g pu po d pa c b r l IH] using rule_ind. cbn. f_equal.
  - destruct c as [[]|]; done.
  - induction IH as [|m l Hm _ IHl]; [done|]. simpl. by rewrite Hm, IHl.
Qed.

(** *** Depth *)

Section depth.
Context {PB : Protobuf} {PS : ProtobufSpec PB}.

Lemma decode_field_moves nested B p tag m r :
  (∀ length r, inside B (p + 1) r → moves r (nested length r)) →
  inside B p r → moves r (decode_field_with nested tag m r).
Proof.
  intros Hn Hi. unfold decode_field_with.
  repeat case_match; (apply moves_bind; [|intros; apply moves_ret]);
    try (apply moves_read; [eauto with dcl|
         first [apply read_string_buffer|apply skipType_buffer]]);
    (eapply moves_nested; [exact Hi|]).
  - exact Hn.
  - intros length r' _. apply decode_message_moves. intros tag' m' r'' _.
    unfold CustomHttpPattern.decode_field.
    repeat case_match; (apply moves_bind; [|intros; apply moves_ret]);
      (apply moves_read; [eauto with dcl|first [apply read_string_buffer|apply skipType_buffer]]).
Qed.

Lemma decode_depth_moves depth B p length r :
  blen B - p <= Z.of_nat depth → inside B p r → moves r (decode_depth depth length r).
Proof.
  revert p length r. induction depth as [|depth IH]; intros p length r Hd [<- Hp]; [lia|].
  apply decode_message_moves. intros tag m r' Hi. eapply decode_field_moves; [|exact Hi].
  intros length' r2 Hi2. eapply IH; [|exact Hi2]. lia.
Qed.

Lemma decode_field_agrees n1 n2 B p tag m r :
  (∀ length r, inside B (p + 1) r → n1 length r = n2 length r) →
  inside B p r → decode_field_with n1 tag m r = decode_field_with n2 tag m r.
Proof.
  intros Hn [<- Hp]. assert (read_nested n1 r = read_nested n2 r) as E.
  { unfold read_nested, mbind, RM_bind. destruct (read_uint32 r) as [[n r1]|] eqn:E; [|done].
    destruct (read_uint32_inside _ _ _ E) as [Hb ?]. apply Hn. split; [done|lia]. }
  unfold decode_field_with. repeat case_match; try reflexivity. unfold mbind, RM_bind. by rewrite E.
Qed.

Lemma decode_depth_agrees d1 d2 length r :
  r.(pos) <= len r → len r - r.(pos) < Z.of_nat d1 → len r - r.(pos) < Z.of_nat d2 →
  decode_depth d1 length r = decode_depth d2 length r.
Proof.
  revert d2 length r. induction d1 as [|d1 IH]; intros [|d2] length r Hp H1 H2; try lia. unfold len in *.
  apply decode_message_ext; intros tag m r' Hi.
  - eapply decode_field_agrees; [|exact Hi]. intros length' r2 [Hb Hp2].
    apply IH; unfold len; rewrite Hb; lia.
  - eapply decode_field_moves; [|exact Hi]. intros length' r2 Hi2.
    eapply decode_depth_moves; [|exact Hi2]. lia.
Qed.

Lemma decode_nested_moves length r B p : inside B p r → moves r (decode_nested length r).
Proof.
  intros [<- Hp]. unfold decode_nested, len.
  apply (decode_depth_moves _ r.(buf) (r.(pos) - 1)); [lia|split; [done|lia]].
Qed.

(** The bound on the depth is no restriction: the rules in a rule are read by
    [decode] itself. *)
Lemma decode_rule_self length r : decode_nested length r = decode length r.
Proof.
  unfold decode_nested, decode, len. apply decode_message_ext; intros tag m r' Hi.
  - eapply decode_field_agrees; [|exact Hi]. intros length' r2 [Hb Hp2].
    apply decode_depth_agrees; unfold len; rewrite Hb; lia.
  - eapply decode_field_moves; [|exact Hi]. intros length' r2 Hi2.
    eapply decode_depth_moves; [|exact Hi2]. lia.
Qed.

Lemma decode_moves length r : moves r (decode length r).
Proof.
  apply decode_message_moves. intros tag m r' Hi. eapply decode_field_moves; [|exact Hi].
  intros length' r2. apply decode_nested_moves.
Qed.

End depth.

(** *** Encoding *)

Section wire.
Context {PB : Protobuf} {PS : ProtobufSpec PB}.

Lemma writes_optional_string tag o :
  0 <= tag < 2 ^ 32 → small (f_message tag chars o) →
  writes (defined o (fun v w => string_ v (uint32 tag w))) (f_message tag chars o).
Proof. intros Ht Hs. destruct o as [v|]; [|apply writes_id]. by apply writes_string_item. Qed.

Lemma encode_rule m : small (wire m) → writes (encode m) (wire m).
Proof.
  induction m as [s g pu po d pa c b r l IH] using rule_ind. cbn [wire encode]. cbn. intros Hs.
  split_small. intros w. cbn [encode]. cbn.
  rewrite (writes_repeated encode wire (fun v => small (wire v) → writes (encode v) (wire v)) 90 l)
    by (done || lia).
  rewrite !writes_string by (done || lia).
  rewrite (writes_message CustomHttpPattern.encode CustomHttpPattern.wire CustomHttpPattern.valid 66 c)
    by (exact (fun v => encode_wire v) || done || lia || by destruct c).
  rewrite !writes_optional_string by (done || lia).
  rewrite writes_string by (done || lia).
  by rewrite !emit_emit.
Qed.

Lemma merge_base_rule m : merge base m = m.
Proof. destruct m. unfold merge. simpl. by autorewrite with dcl. Qed.

(** The rule [v] among the bindings of a rule. *)
Lemma reads_rule v :
  small (wire v) → steps decode_field (wire v) base (merge base v) →
  reads_value (read_nested decode_nested) (delimited (wire v)) v.
Proof.
  intros Hs Hv. rewrite merge_base_rule in Hv. apply reads_delimited; [done|].
  intros pre post. rewrite decode_rule_self. by apply decode_message_steps.
Qed.

(** A string that is there even when it is empty. *)
Lemma steps_optional_string tag o m (upd : option string → t → t) :
  0 <= tag < 2 ^ 32 → small (f_message tag chars o) → upd None m = m →
  decode_field tag m = (v ← read_string; mret (upd (Some v) m)) →
  steps decode_field (f_message tag chars o) m (upd o m).
Proof.
  intros Ht Hs Hn Hf. eapply (steps_message _ tag chars (fun _ => True) o m (fun v => upd (Some v) m));
    [done|by destruct o|done| |by destruct o].
  intros v _ Hv. rewrite Hf. eapply reads_bind; [by apply reads_string|done].
Qed.

Ltac optional_string p :=
  match goal with
  | |- steps _ (f_message ?tag chars ?o) ?m _ =>
      eapply (steps_optional_string tag o m (fun v x => x <| p := later_message (p x) v |>));
      [lia|assumption|by destruct m|reflexivity]
  end.

Lemma decode_rule m m0 : small (wire m) → steps decode_field (wire m) m0 (merge m0 m).
Proof.
  revert m0. induction m as [s g pu po d pa c b r l IH] using rule_ind. intros [] Hs.
  cbn [wire] in *. cbn in Hs |- *. split_small. eapply steps_eq.
  - eapply steps_app; [step_field|normal_message].
    eapply steps_app; [optional_string get|normal_message].
    eapply steps_app; [optional_string put|normal_message].
    eapply steps_app; [optional_string post|normal_message].
    eapply steps_app; [optional_string delete|normal_message].
    eapply steps_app; [optional_string patch|normal_message].
    eapply steps_app; [|normal_message].
    { match goal with |- steps ?f (f_message ?tag ?e ?o) ?m _ =>
        eapply (steps_message f tag e msg_valid o m (fun v => m <| custom := Some v |>));
        [lia|by destruct o|assumption|intros; reads_field
        |instantiate (1 := m <| custom := later_message (custom m) o |>); by destruct o] end. }
    do 2 (eapply steps_app; [step_field|normal_message]).
    match goal with |- steps ?f (f_repeated ?tag ?e ?l) ?m _ =>
      eapply (steps_repeated f tag e (fun v => small (wire v) → ∀ m0, steps f (wire v) m0 (merge m0 v))
        l additionalBindings (fun v x => x <| additionalBindings := v |>)) end;
      [solve_set_laws..|lia| |assumption|].
    + eapply List.Forall_impl; [|exact IH]. auto.
    + intros v m' Hv Hsv. eapply reads_bind; [by apply reads_rule; auto|reflexivity].
  - reflexivity.
Qed.

End wire.

(** The message as its [.proto] file declares it. *)
Fixpoint schema (m : t) : list field :=
  [implicit 1 (VString m.(selector));
   singular 2 (Member "pattern") VString m.(get);
   singular 3 (Member "pattern") VString m.(put);
   singular 4 (Member "pattern") VString m.(post);
   singular 5 (Member "pattern") VString m.(delete);
   singular 6 (Member "pattern") VString m.(patch);
   singular 8 (Member "pattern") (message_value CustomHttpPattern.schema) m.(custom);
   implicit 7 (VString m.(body));
   implicit 12 (VString m.(responseBody));
   repeated 11 (fun v => VMessage (schema v)) m.(additionalBindings)].

(** The message with its default for every property that is not kept. *)
Definition only (kept : string → bool) (m : t) : t := {|
  selector := if kept "selector" then m.(selector) else "";
  get := if kept "get" then m.(get) else None;
  put := if kept "put" then m.(put) else None;
  post := if kept "post" then m.(post) else None;
  delete := if kept "delete" then m.(delete) else None;
  patch := if kept "patch" then m.(patch) else None;
  custom := if kept "custom" then m.(custom) else None;
  body := if kept "body" then m.(body) else "";
  responseBody := if kept "responseBody" then m.(responseBody) else "";
  additionalBindings := if kept "additionalBindings" then m.(additionalBindings) else [];
|}.

#[global] Instance schema_wire {PB : Protobuf} {PS : ProtobufSpec PB} : WireSchema wire schema.
Proof.
  intros m. change (write_as (wire m) (schema m)).
  induction m as [s g pu po d pa c b r l IH] using rule_ind. cbn [wire schema]. cbn.
  do 9 (apply write_as_cons; [writes_as_field|]). apply write_as_last, as_repeated.
  eapply List.Forall_impl; [|exact IH]. intros v Hv Hr. unfold f_value, tag_of. simpl.
  by rewrite (Hv Hr).
Qed.

#[global] Instance schema_merge : MergeSchema merge schema.
Proof.
  intros m a Ha. symmetry. destruct m, a. eapply eq_trans; [revert Ha|].
  - cbn [schema]. cbn [selector get put post delete patch custom body responseBody additionalBindings].
    repeat (eapply merge_cons; [merge_as_field|]). exact (merge_nil _).
  - reflexivity.
Qed.

Lemma fromJSON_properties : reads_properties fromJSON only.
Proof.
  intros kept fs fs' m H Hr. revert H. rewrite !fromJSON_self.
  repeat (apply (bind_property kept); [exact Hr|intros ?; cbv beta]).
  intros [= <-]. reflexivity.
Qed.

#[global] Instance codec {PB : Protobuf} : MessageCodec t :=
  {| msg_base := base; msg_encode := encode; msg_field := decode_field |}.

#[global] Program Instance spec {PB : Protobuf} (PS : ProtobufSpec PB) : MessageSpec PS t :=
  {| msg_wire := wire; msg_valid := valid; msg_merge := merge |}.
Next Obligation. intros. by apply encode_rule. Qed.
Next Obligation. intros. by apply decode_rule. Qed.
Next Obligation. intros. apply merge_base_rule. Qed.
Next Obligation. intros. apply moves_advances. intros r. apply decode_moves. Qed.

#[global] Program Instance data : MessageData t partial :=
  {| msg_fromJSON := fromJSON; msg_toJSON := toJSON;
     msg_fromPartial := fromPartial; msg_full := full |}.
Next Obligation. apply fromJSON_rule. Qed.
Next Obligation. apply fromPartial_rule. Qed.

(** Its row in the table of message types. *)
Definition message {PB : Protobuf} {PS : ProtobufSpec PB} : message_type :=
  plain_message "HttpRule" nothing true schema only.

#[global] Instance message_lawful {PB : Protobuf} (PS : ProtobufSpec PB) : Lawful message.
Proof.
  apply plain_lawful;
    [solve_reads_defaults|apply fromJSON_properties|reflexivity
    |solve_skips (decode_field_with decode_nested)|apply _|apply _].
Qed.

End HttpRule.

Module Http.

Record t := mk {
  rules : list HttpRule.t;
  fullyDecodeReservedExpansion : bool;
}.

#[global] Instance t_eta : Settable t := λ m, mk m.(rules) m.(fullyDecodeReservedExpansion).

Definition base : t := mk [] false.

Definition encode {PB : Protobuf} (message : t) (writer : Writer) : Writer :=
  writer
  @> each message.(rules) (fun v w => HttpRule.encode v (w @> uint32 10 @> fork) @> ldelim)
  @> when (Bool.eqb message.(fullyDecodeReservedExpansion) true)
       (fun w => w @> uint32 16 @> bool_ message.(fullyDecodeReservedExpansion)).

Definition decode_field {PB : Protobuf} (tag : Z) (message : t) : RM t :=
  match field_number tag with
  | 1 => v ← read_nested HttpRule.decode; mret (message <| rules := message.(rules) ++ [v] |>)
  | 2 => v ← read_bool; mret (message <| fullyDecodeReservedExpansion := v |>)
  | _ => _ ← skipType (wire_type tag); mret message
  end.

Definition decode {PB : Protobuf} (length : option Z) : RM t :=
  decode_message length base decode_field.

Definition fromJSON (object : js) : result t :=
  rules' ← field_or object "rules" (to_list HttpRule.fromJSON) [];
  fullyDecodeReservedExpansion' ← field_or object "fullyDecodeReservedExpansion" to_bool false;
  Ok (mk rules' fullyDecodeReservedExpansion').

Definition toJSON (message : t) : js :=
  Obj [("rules", Arr (map HttpRule.toJSON message.(rules)));
       ("fullyDecodeReservedExpansion", Bool message.(fullyDecodeReservedExpansion))].

Record partial := mkPartial {
  p_rules : option (list HttpRule.partial);
  p_fullyDecodeReservedExpansion : option bool;
}.

Definition fromPartial (object : partial) : t := {|
  rules := map HttpRule.fromPartial (object.(p_rules) ?? []);
  fullyDecodeReservedExpansion := object.(p_fullyDecodeReservedExpansion) ?? false;
|}.

(** The object with no property given. *)
Definition nothing : partial := mkPartial None None.

(** The bytes [encode] writes. *)
Definition wire {PB : Protobuf} {PS : ProtobufSpec PB} (m : t) : bytes :=
  f_repeated 10 HttpRule.wire m.(rules) ++
  f_bool 16 m.(fullyDecodeReservedExpansion).

Definition valid (m : t) : Prop :=
  Forall HttpRule.valid m.(rules).

Definition merge (m a : t) : t := {|
  rules := m.(rules) ++ a.(rules);
  fullyDecodeReservedExpansion :=
    later_bool m.(fullyDecodeReservedExpansion) a.(fullyDecodeReservedExpansion);
|}.

(** A whole message seen as a partial one. *)
Definition full (m : t) : partial := {|
  p_rules := Some (map HttpRule.full m.(rules));
  p_fullyDecodeReservedExpansion := Some m.(fullyDecodeReservedExpansion);
|}.

(** The message as its [.proto] file declares it. *)
Definition schema (m : t) : list field :=
  [repeated 1 (message_value HttpRule.schema) m.(rules);
   implicit 2 (VBool m.(fullyDecodeReservedExpansion))].

(** The message with its default for every property that is not kept. *)
Definition only (kept : string → bool) (m : t) : t := {|
  rules := if kept "rules" then m.(rules) else [];
  fullyDecodeReservedExpansion := if kept "fullyDecodeReservedExpansion" then m.(fullyDecodeReservedExpansion) else false;
|}.

#[global] Instance codec {PB : Protobuf} : MessageCodec t :=
  {| msg_base := base; msg_encode := encode; msg_field := decode_field |}.

#[global] Program Instance spec {PB : Protobuf} (PS : ProtobufSpec PB) : MessageSpec PS t :=
  {| msg_wire := wire; msg_valid := valid; msg_merge := merge |}.
Next Obligation. solve_encode_wire. Qed.
Next Obligation. solve_decode_wire. Qed.
Next Obligation. solve_merge_base. Qed.
Next Obligation. intros. solve_advances decode_field. Qed.

#[global] Program Instance data : MessageData t partial :=
  {| msg_fromJSON := fromJSON; msg_toJSON := toJSON;
     msg_fromPartial := fromPartial; msg_full := full |}.
Next Obligation. solve_json fromJSON toJSON. Qed.
Next Obligation. solve_partial fromPartial full. Qed.

#[global] Instance schema_wire {PB : Protobuf} {PS : ProtobufSpec PB} : WireSchema wire schema.
Proof. solve_schema_wire wire schema. Qed.

#[global] Instance schema_merge : MergeSchema merge schema.
Proof. solve_schema_merge merge schema. Qed.

(** Its row in the table of message types. *)
Definition message {PB : Protobuf} {PS : ProtobufSpec PB} : message_type :=
  plain_message "Http" nothing true schema only.

#[global] Instance message_lawful {PB : Protobuf} (PS : ProtobufSpec PB) : Lawful message.
Proof. solve_lawful decode_field fromJSON only. Qed.

End Http.

(** ** The message types of this file *)

Definition messages {PB : Protobuf} {PS : ProtobufSpec PB} : list message_type :=
  [Http.message; HttpRule.message; CustomHttpPattern.message].

Lemma HttpTypes_lawful {PB : Protobuf} {PS : ProtobufSpec PB} : Forall Lawful messages.
Proof. solve_table. Qed.
