(* ===== verification/MessageLaws.v ===== *)
(** * What the message types guarantee

    The properties of every generated message type of the client: those of the
    ledger's modules, of the modules of the Cosmos SDK and ibc-go, and of the
    types they share.  [all_messages] is the table of their rows (see
    [MessageTable.v]); [all_methods] has the methods of the RPC clients. *)
From S2P Require Import Prelude Js Calendar Protobuf Codec WireFormat TimeTypes Dates Base64 Fallible Proto3 MessageTable CommonTypes PkiTypes PkiTx PkiQuery ComplianceTypes ComplianceQuery ModelTypes ModelQuery VendorinfoTypes ComplianceTestTypes ValidatorTypes DclauthTypes DclupgradeTypes CosmosBase TendermintTypes AuthzTypes BankTypes CrisisTypes DistributionTypes EvidenceTypes FeegrantTypes GovTypes SlashingTypes StakingTypes StakingQuery VestingTypes IbcClientTypes TransferTypes AbciTypes HttpTypes.
Open Scope Z_scope.

(** ** The tables *)

Section messages.
Context {PB : Protobuf} {PS : ProtobufSpec PB}.

Definition tables : list (list message_type) :=
  [ CommonTypes.messages; PkiTypes.messages; PkiTx.messages; PkiQuery.messages;
   ComplianceTypes.messages; ComplianceQuery.messages; ModelTypes.messages; ModelQuery.messages;
   VendorinfoTypes.messages; ComplianceTestTypes.messages; ValidatorTypes.messages;
   DclauthTypes.messages; DclupgradeTypes.messages; CosmosBase.messages;
   TendermintTypes.messages; AuthzTypes.messages; BankTypes.messages; CrisisTypes.messages;
   DistributionTypes.messages; EvidenceTypes.messages; FeegrantTypes.messages;
   GovTypes.messages; SlashingTypes.messages; StakingTypes.messages; StakingQuery.messages;
   VestingTypes.messages; IbcClientTypes.messages; TransferTypes.messages; AbciTypes.messages;
   HttpTypes.messages].

Definition all_messages : list message_type := concat tables.

Lemma all_lawful : Forall Lawful all_messages.
Proof.
  apply List.Forall_concat.
  repeat (apply List.Forall_cons;
    [first [apply CommonTypes_lawful|apply PkiTypes_lawful|apply PkiTx_lawful|
      apply PkiQuery_lawful|apply ComplianceTypes_lawful|apply ComplianceQuery_lawful|
      apply ModelTypes_lawful|apply ModelQuery_lawful|apply VendorinfoTypes_lawful|
      apply ComplianceTestTypes_lawful|apply ValidatorTypes_lawful|apply DclauthTypes_lawful|
      apply DclupgradeTypes_lawful|apply CosmosBase_lawful|apply TendermintTypes_lawful|
      apply AuthzTypes_lawful|apply BankTypes_lawful|apply CrisisTypes_lawful|
      apply DistributionTypes_lawful|apply EvidenceTypes_lawful|apply FeegrantTypes_lawful|
      apply GovTypes_lawful|apply SlashingTypes_lawful|apply StakingTypes_lawful|
      apply StakingQuery_lawful|apply VestingTypes_lawful|apply IbcClientTypes_lawful|
      apply TransferTypes_lawful|apply AbciTypes_lawful|apply HttpTypes_lawful]|]);
    apply List.Forall_nil.
Qed.

Lemma message_lawful M : In M all_messages → Lawful M.
Proof. apply lawful_row, all_lawful. Qed.

(** C1: encoding a message of the declared type, whose numbers fit their
    protobuf types and whose encoding is shorter than 4 GiB, throws nothing, and
    decoding the bytes gives the message back, but for its empty byte arrays;
    for all 596 message types of the client. *)
Theorem ledger_round_trip M m :
  In M all_messages → mt_encodable M m →
  ∃ w, M.(mt_encode) m create = Ok w ∧
       decode_bytes (mt_decode M) (finish w) = Ok (M.(mt_normal) m).
Proof. intros HM%message_lawful Hm. exact (lawful_round_trip M m Hm). Qed.

(** C11: the bytes of each message are known exactly, and they are the proto3
    encoding of the message its [.proto] file declares, byte for byte: each field
    under its number and wire type, defaults left out, nested messages
    delimited; but for the messages with an empty packed list or with a date
    that is less than a second after the epoch or before it with a fraction of
    a second. *)
Theorem ledger_encode_refines_schema M m :
  In M all_messages → mt_encodable M m →
  ∃ w, M.(mt_encode) m create = Ok w ∧ finish w = M.(mt_wire) m ∧
    (regular (M.(mt_schema) m) = true → finish w = proto_encode (M.(mt_schema) m)).
Proof.
  intros HM%message_lawful Hm. destruct (lawful_encodes_as M m Hm) as (w & He & Hf).
  exists w. split_and!; [done|done|]. rewrite Hf. apply law_schema_wire.
Qed.

(** C13: encoding throws a [TypeError] exactly for the messages that lack a byte
    field their interface declares, and [fromPartial] always gives a message
    that has them all. *)
Theorem ledger_typing M :
  In M all_messages →
  (∀ m w, throws_unless (M.(mt_encode) m w) (M.(mt_typed) m)) ∧
  (∀ p, M.(mt_typed) (M.(mt_fromPartial) p) = true).
Proof. intros HM%message_lawful. split; [apply law_throws|apply law_partial_typed]. Qed.

(** C12: decoding ends on every buffer, malformed ones included, with a message
    or one of the library's errors. *)
Theorem ledger_decode_total M b :
  In M all_messages →
  match decode_bytes (mt_decode M) b with Ok _ => True | Err e => lib_error e end.
Proof. intros HM%message_lawful. exact (lawful_decodes_all M b). Qed.

(** C26: two messages written into one buffer are read as one: a scalar that is
    present the second time replaces the first, lists are appended, and a nested
    message replaces the first one.  That is the merge proto3 prescribes if no
    nested message is in both and no oneof is set to different members. *)
Theorem ledger_decode_merges M m1 m2 :
  In M all_messages → mt_encodable M m1 → mt_encodable M m2 →
  ∃ w1 w2, M.(mt_encode) m1 create = Ok w1 ∧ M.(mt_encode) m2 w1 = Ok w2 ∧
    decode_bytes (mt_decode M) (finish w2) = Ok (M.(mt_merge) (M.(mt_normal) m1) m2) ∧
    (apart (M.(mt_schema) m1) (M.(mt_schema) m2) = true →
     M.(mt_schema) (M.(mt_merge) (M.(mt_normal) m1) m2) =
       proto_merge (M.(mt_schema) m1) (M.(mt_schema) m2)).
Proof.
  intros HM%message_lawful H1 H2. destruct (lawful_merges M m1 m2 H1 H2) as (w1 & w2 & He1 & He2 & Hd).
  exists w1, w2. split_and!; [done..|]. exact (lawful_proto_merge M m1 m2).
Qed.

(** C28: fields with a number the schema does not declare, of each wire type of
    proto3 (varint, eight bytes, delimited, four bytes), before and after those
    that are known, do not change what is read. *)
Theorem ledger_ignores_unknown M us vs m :
  In M all_messages →
  Forall (unknown_field (mt_numbers M)) us → Forall (unknown_field (mt_numbers M)) vs →
  M.(mt_valid) m → small (M.(mt_wire) m) →
  decode_bytes (mt_decode M) (concat us ++ M.(mt_wire) m ++ concat vs) = Ok (M.(mt_normal) m).
Proof. intros HM%message_lawful. apply lawful_ignores_unknown, HM. Qed.

(** C18: [toJSON] throws, a [RangeError], exactly for the messages with an invalid
    date; [fromJSON] reads back what it gives for every other message, byte
    arrays as base64 and dates as ISO text included, but that an enumeration
    number that is no member of its enumeration is replaced; a message whose
    enumerations hold members comes back as it was. *)
Theorem ledger_json_round_trip M m :
  In M all_messages →
  range_unless (M.(mt_toJSON) m) (M.(mt_timed) m) ∧
  (M.(mt_timed) m = true →
   ∃ v, M.(mt_toJSON) m = Ok v ∧ M.(mt_fromJSON) v = Ok (M.(mt_known) m)) ∧
  (M.(mt_named) m = true → M.(mt_known) m = m).
Proof.
  intros HM%message_lawful. split_and!; [apply law_json_throws|apply law_json|apply law_known].
Qed.

(** [fromPartial] keeps every property it is given and fills in the defaults
    for the others: what it makes of an object without properties is, written
    and read, the base object of the type. *)
Theorem ledger_partial M :
  In M all_messages →
  (∀ m, M.(mt_typed) m = true → M.(mt_fromPartial) (M.(mt_full) m) = m) ∧
  M.(mt_normal) (M.(mt_fromPartial) M.(mt_nothing)) = M.(mt_base).
Proof. intros HM%message_lawful. split; [apply law_partial_full|apply law_partial_defaults]. Qed.

(** C29: [fromJSON] reads each property by itself: of an object with some of the
    properties of another, the others being missing, [undefined] or [null], it
    makes the same message with the defaults for the others.  It throws a
    [TypeError] on [undefined] and [null], but for a type without fields, which
    takes any value. *)
Theorem ledger_json_defaults M :
  In M all_messages →
  reads_properties M.(mt_fromJSON) M.(mt_only) ∧
  reads_defaults M.(mt_fromJSON) M.(mt_reads) M.(mt_base).
Proof. intros HM%message_lawful. split; [apply law_json_properties|apply law_json_defaults]. Qed.

(** ** Where the codecs are not proto3 *)








(** ** Pages *)

(** C38: decoding does not give the declared type: the response for the last
    page of a list, whose next key is empty, is read back with an [undefined]
    key, and the message that was read cannot be encoded again. *)
Theorem last_page_untyped (m : CommonTypes.PageResponse.t) :
  CommonTypes.PageResponse.encodable m → m.(CommonTypes.PageResponse.nextKey) = Some [] →
  ∃ w m', CommonTypes.PageResponse.encode m create = Ok w ∧
    decode_bytes CommonTypes.PageResponse.decode (finish w) = Ok m' ∧
    CommonTypes.PageResponse.typed m' = false ∧
    ∀ w', CommonTypes.PageResponse.encode m' w' =
      Err (TypeError "Cannot read properties of undefined (reading 'length')").
Proof.
  intros Hm Hk.
  destruct (lawful_round_trip CommonTypes.PageResponse.message m Hm) as (w & He & Hd).
  exists w, (CommonTypes.PageResponse.normal m). split; [exact He|]. split; [exact Hd|].
  destruct m as [key total]. simpl in Hk. subst key. by split.
Qed.

(** ** Dates *)

(** C15: a message with a valid date keeps it, to the millisecond, on the wire:
    the seconds that are written are a quotient with a fraction, which the
    library cuts off, and the nanoseconds make up for it, before the epoch too.
    The same holds for the ISO text in JSON. *)
Theorem date_round_trip (d : date) :
  date_valid d = true → ∀ pre post,
  (∀ w, view (encode_time d w) = emit (wire_time d) (view w)) ∧
  (small (wire_time d) →
   read_time (rd pre (delimited (wire_time d) ++ post)) =
     Ok (d, rd (pre ++ delimited (wire_time d)) post)) ∧
  ∃ text, toISOString d = Ok text ∧ fromJsonTimestamp (Str text) = Ok d.
Proof.
  intros Hd pre post. split_and!.
  - by apply writes_time.
  - intros Hs. by apply reads_time.
  - by apply fromJsonTimestamp_toISOString.
Qed.

(** C37: a date before the epoch that is no full second is written with negative
    nanoseconds, which the type of the schema forbids: they must count forward
    from the seconds, from 0 to 999,999,999. *)
Theorem nanos_before_epoch ms :
  - MAX_TIME <= ms < 0 → Z.rem ms 1000 ≠ 0 →
  decode_bytes Timestamp.decode (finish (encode_time (mkDate (Int ms)) create)) =
    Ok (Timestamp.mk (Int (Z.quot ms 1000)) (Int (Z.rem ms 1000 * 1000000))) ∧
  Z.rem ms 1000 * 1000000 < 0.
Proof.
  intros Hms Hr. assert (Z.abs ms <= MAX_TIME) as Ha by lia.
  rewrite view_finish, (writes_time (mkDate (Int ms))), view_create.
  2: { unfold date_ok, date_valid. simpl. by apply Z.leb_le. }
  split.
  - apply decode_bytes_steps. by apply steps_time.
  - pose proof (Z.rem_nonpos ms 1000 ltac:(lia) ltac:(lia)). lia.
Qed.

(** ** Remote methods *)

Definition all_methods : list rpc_method :=
  concat
    [ PkiTx.msg_methods; ComplianceTypes.msg_methods; ModelTypes.msg_methods;
     VendorinfoTypes.msg_methods; ComplianceTestTypes.msg_methods; ValidatorTypes.msg_methods;
     DclauthTypes.msg_methods; DclupgradeTypes.msg_methods; AuthzTypes.msg_methods;
     BankTypes.msg_methods; CrisisTypes.msg_methods; DistributionTypes.msg_methods;
     EvidenceTypes.msg_methods; FeegrantTypes.msg_methods; GovTypes.msg_methods;
     SlashingTypes.msg_methods; StakingTypes.msg_methods; VestingTypes.msg_methods;
     TransferTypes.msg_methods; PkiQuery.query_methods; ComplianceQuery.query_methods;
     ModelQuery.query_methods; VendorinfoTypes.query_methods; ComplianceTestTypes.query_methods;
     ValidatorTypes.query_methods; DclauthTypes.query_methods; DclupgradeTypes.query_methods;
     AuthzTypes.query_methods; BankTypes.query_methods; DistributionTypes.query_methods;
     EvidenceTypes.query_methods; FeegrantTypes.query_methods; GovTypes.query_methods;
     SlashingTypes.query_methods; StakingQuery.query_methods; TransferTypes.query_methods;
     AbciTypes.abci_methods].

Lemma all_methods_lawful : Forall method_lawful all_methods.
Proof.
  apply List.Forall_concat.
  repeat (apply List.Forall_cons;
    [first [apply PkiTx_msg_methods_lawful|apply ComplianceTypes_msg_methods_lawful|
      apply ModelTypes_msg_methods_lawful|apply VendorinfoTypes_msg_methods_lawful|
      apply ComplianceTestTypes_msg_methods_lawful|apply ValidatorTypes_msg_methods_lawful|
      apply DclauthTypes_msg_methods_lawful|apply DclupgradeTypes_msg_methods_lawful|
      apply AuthzTypes_msg_methods_lawful|apply BankTypes_msg_methods_lawful|
      apply CrisisTypes_msg_methods_lawful|apply DistributionTypes_msg_methods_lawful|
      apply EvidenceTypes_msg_methods_lawful|apply FeegrantTypes_msg_methods_lawful|
      apply GovTypes_msg_methods_lawful|apply SlashingTypes_msg_methods_lawful|
      apply StakingTypes_msg_methods_lawful|apply VestingTypes_msg_methods_lawful|
      apply TransferTypes_msg_methods_lawful|apply PkiQuery_query_methods_lawful|
      apply ComplianceQuery_query_methods_lawful|apply ModelQuery_query_methods_lawful|
      apply VendorinfoTypes_query_methods_lawful|apply ComplianceTestTypes_query_methods_lawful|
      apply ValidatorTypes_query_methods_lawful|apply DclauthTypes_query_methods_lawful|
      apply DclupgradeTypes_query_methods_lawful|apply AuthzTypes_query_methods_lawful|
      apply BankTypes_query_methods_lawful|apply DistributionTypes_query_methods_lawful|
      apply EvidenceTypes_query_methods_lawful|apply FeegrantTypes_query_methods_lawful|
      apply GovTypes_query_methods_lawful|apply SlashingTypes_query_methods_lawful|
      apply StakingQuery_query_methods_lawful|apply TransferTypes_query_methods_lawful|
      apply AbciTypes_abci_methods_lawful]|]);
    apply List.Forall_nil.
Qed.

(** C10: over a transport that runs a handler at the other end, each of the 181
    methods of the RPC clients is that handler: it sees the request that was
    passed, and its response or error is what the caller gets, but that empty
    byte arrays, such as the next key of the last page, arrive as
    [undefined]. *)
Theorem rpc_transparent (R : rpc_method) rpc handler m :
  In R all_methods → serves R rpc handler → mt_encodable R.(rm_request) m →
  (∀ b, handler (R.(rm_request).(mt_normal) m) = Ok b → mt_encodable R.(rm_response) b) →
  R.(rm_call) rpc m =
    (R.(rm_response).(mt_normal) <$> handler (R.(rm_request).(mt_normal) m)).
Proof.
  intros HR. destruct (proj1 (List.Forall_forall _ _) all_methods_lawful R HR) as (LA & LB & Hc).
  by apply remote_transparent.
Qed.

(** The methods a server has to tell apart have different names. *)
Lemma methods_distinct : NoDup (map (fun R => (R.(rm_service), R.(rm_name))) all_methods).
Proof. apply (bool_decide_unpack _). vm_compute. exact I. Qed.

End messages.

(** ** Witnesses *)

Ltac in_table := first [left; reflexivity | right; in_table].

Lemma vendor_in_table {PB : Protobuf} {PS : ProtobufSpec PB} : In VendorInfo.message all_messages.
Proof. apply in_concat. exists VendorinfoTypes.messages. split; in_table. Defined.

Lemma page_in_table {PB : Protobuf} {PS : ProtobufSpec PB} :
  In CommonTypes.PageResponse.message all_messages.
Proof. apply in_concat. exists CommonTypes.messages. split; in_table. Defined.

Lemma plan_in_table {PB : Protobuf} {PS : ProtobufSpec PB} :
  In DclupgradeTypes.Plan.message all_messages.
Proof. apply in_concat. exists DclupgradeTypes.messages. split; in_table. Defined.

Definition sample_vendor : VendorInfo.t :=
  VendorInfo.mk 65521 "vendor" "Vendor Inc." "https://vendor" "https://vendor.info" "cosmos1vendor".

Lemma sample_vendor_encodable : mt_encodable (PB := Wire.pb) VendorInfo.message sample_vendor.
Proof.
  split; [reflexivity|]. split; [vm_compute; split; [intros [=]|reflexivity]|reflexivity].
Defined.

(** The upgrade of a node at half a second past midnight on 1 July 2022. *)
Definition sample_plan : DclupgradeTypes.Plan.t :=
  DclupgradeTypes.Plan.mk "v1.1" (Some (mkDate (Int 1656633600500))) 1000 "" None.

Lemma sample_plan_encodable : mt_encodable (PB := Wire.pb) DclupgradeTypes.Plan.message sample_plan.
Proof.
  split; [reflexivity|]. split; [|reflexivity].
  vm_compute. split; [reflexivity|]. split; [split; [split; intros [=]|reflexivity]|exact I].
Defined.

Lemma ledger_round_trip_witness : ∃ w,
  DclupgradeTypes.Plan.encode (PB := Wire.pb) sample_plan create = Ok w ∧
  decode_bytes DclupgradeTypes.Plan.decode (finish w) = Ok sample_plan.
Proof.
  exact (ledger_round_trip (PB := Wire.pb) DclupgradeTypes.Plan.message sample_plan
    plan_in_table sample_plan_encodable).
Defined.

(** The date is more than a second after the epoch. *)
Lemma ledger_encode_refines_schema_witness : ∃ w,
  DclupgradeTypes.Plan.encode (PB := Wire.pb) sample_plan create = Ok w ∧
  finish w = proto_encode (DclupgradeTypes.Plan.schema sample_plan).
Proof.
  destruct (ledger_encode_refines_schema (PB := Wire.pb) DclupgradeTypes.Plan.message sample_plan
    plan_in_table sample_plan_encodable) as (w & He & _ & Hs).
  exists w. split; [exact He|]. exact (Hs eq_refl).
Defined.

Lemma ledger_typing_witness :
  (∀ m w, throws_unless (CommonTypes.PageResponse.encode (PB := Wire.pb) m w)
            (CommonTypes.PageResponse.typed m)) ∧
  (∀ p, CommonTypes.PageResponse.typed (CommonTypes.PageResponse.fromPartial p) = true).
Proof.
  exact (ledger_typing (PB := Wire.pb) CommonTypes.PageResponse.message page_in_table).
Defined.

Lemma ledger_decode_total_witness :
  match decode_bytes (VendorInfo.decode (PB := Wire.pb)) [] with
  | Ok _ => True | Err e => lib_error e end.
Proof.
  exact (ledger_decode_total (PB := Wire.pb) VendorInfo.message [] vendor_in_table).
Defined.

(** The second vendor has no name, so the first one's is kept. *)
Definition nameless_vendor : VendorInfo.t :=
  VendorInfo.mk 65522 "" "Other Inc." "" "" "cosmos1other".

Lemma nameless_vendor_encodable : mt_encodable (PB := Wire.pb) VendorInfo.message nameless_vendor.
Proof.
  split; [reflexivity|]. split; [vm_compute; split; [intros [=]|reflexivity]|reflexivity].
Defined.

Lemma ledger_decode_merges_witness : ∃ w1 w2,
  Ok (VendorInfo.encode (PB := Wire.pb) sample_vendor create) = Ok w1 ∧
  Ok (VendorInfo.encode (PB := Wire.pb) nameless_vendor w1) = Ok w2 ∧
  decode_bytes VendorInfo.decode (finish w2) =
    Ok (VendorInfo.mk 65522 "vendor" "Other Inc." "https://vendor" "https://vendor.info" "cosmos1other") ∧
  VendorInfo.schema
    (VendorInfo.mk 65522 "vendor" "Other Inc." "https://vendor" "https://vendor.info" "cosmos1other") =
    proto_merge (VendorInfo.schema sample_vendor) (VendorInfo.schema nameless_vendor).
Proof.
  destruct (ledger_decode_merges (PB := Wire.pb) VendorInfo.message sample_vendor nameless_vendor
    vendor_in_table sample_vendor_encodable nameless_vendor_encodable) as (w1 & w2 & H1 & H2 & Hd & Hm).
  exists w1, w2. split; [exact H1|]. split; [exact H2|]. split; [exact Hd|]. exact (Hm eq_refl).
Defined.

(** Fields the schema of the vendor does not have: number 99 as a varint of 64
    bits and as a delimited text, number 7 as four and as eight bytes. *)
Definition unknown_fields : list bytes :=
  [e_uint32 (8 * 99) ++ e_uint64 (PB := Wire.pb) (2 ^ 64 - 1);
   e_uint32 (8 * 99 + 2) ++ e_uint32 (PB := Wire.pb) 3 ++ chars "new";
   e_uint32 (PB := Wire.pb) (8 * 7 + 5) ++ chars "abcd";
   e_uint32 (PB := Wire.pb) (8 * 7 + 1) ++ chars "abcdefgh"].

Lemma unknown_fields_undeclared :
  Forall (unknown_field (PB := Wire.pb) (mt_numbers VendorInfo.message)) unknown_fields.
Proof.
  assert (∀ n, 1 <= n < 2 ^ 29 → bool_decide (n ∉ [1; 2; 3; 4; 5; 6]) = true →
    undeclared (mt_numbers (PB := Wire.pb) VendorInfo.message) n) as Hu.
  { intros n Hn Hd. split; [exact Hn|]. exact (bool_decide_eq_true_1 _ Hd). }
  apply List.Forall_cons; [apply unknown_varint; [apply Hu; [lia|reflexivity]|lia]|].
  apply List.Forall_cons;
    [apply (unknown_delimited _ 99 (chars "new")); [apply Hu; [lia|reflexivity]|reflexivity]|].
  apply List.Forall_cons; [apply unknown_fixed32; [apply Hu; [lia|reflexivity]|reflexivity]|].
  apply List.Forall_cons; [apply unknown_fixed64; [apply Hu; [lia|reflexivity]|reflexivity]|].
  apply List.Forall_nil.
Defined.

Lemma ledger_ignores_unknown_witness :
  decode_bytes (VendorInfo.decode (PB := Wire.pb))
    (concat unknown_fields ++ VendorInfo.wire sample_vendor ++ concat unknown_fields) =
    Ok sample_vendor.
Proof.
  exact (ledger_ignores_unknown (PB := Wire.pb) VendorInfo.message unknown_fields unknown_fields
    sample_vendor vendor_in_table unknown_fields_undeclared unknown_fields_undeclared
    (proj1 (proj2 sample_vendor_encodable)) (proj2 (proj2 sample_vendor_encodable))).
Defined.

Lemma ledger_json_round_trip_witness : ∃ v,
  DclupgradeTypes.Plan.toJSON sample_plan = Ok v ∧ DclupgradeTypes.Plan.fromJSON v = Ok sample_plan.
Proof.
  exact (proj1 (proj2 (ledger_json_round_trip (PB := Wire.pb) DclupgradeTypes.Plan.message sample_plan
    plan_in_table)) eq_refl).
Defined.

(** A revocation for a reason the client does not know, 7, is read back as
    [UNRECOGNIZED]; an upgrade at an invalid date throws. *)
Lemma unknown_reason :
  DclauthTypes.revokedAccount_ReasonFromJSON (Str (DclauthTypes.revokedAccount_ReasonToJSON 7)) =
    Ok DclauthTypes.UNRECOGNIZED ∧
  DclupgradeTypes.Plan.toJSON (DclupgradeTypes.Plan.mk "v1.1" (Some (mkDate NaN)) 1000 "" None) =
    Err (RangeError "Invalid time value").
Proof. split; reflexivity. Qed.

Lemma ledger_partial_witness :
  (∀ m, CommonTypes.PageResponse.typed m = true →
     CommonTypes.PageResponse.fromPartial (CommonTypes.PageResponse.full m) = m) ∧
  CommonTypes.PageResponse.normal
    (CommonTypes.PageResponse.fromPartial CommonTypes.PageResponse.nothing) =
    CommonTypes.PageResponse.base.
Proof.
  exact (ledger_partial (PB := Wire.pb) CommonTypes.PageResponse.message page_in_table).
Defined.

Definition vendor_object : list (string * js) :=
  [("vendorID", Num 65521); ("vendorName", Str "vendor"); ("companyLegalName", Str "Vendor Inc.");
   ("companyPreferredName", Str "https://vendor");
   ("vendorLandingPageURL", Str "https://vendor.info"); ("creator", Str "cosmos1vendor")].

(** The name is [null] and the creator is missing. *)
Definition partial_object : list (string * js) :=
  [("vendorName", Null); ("vendorID", Num 65521); ("companyLegalName", Str "Vendor Inc.");
   ("companyPreferredName", Str "https://vendor");
   ("vendorLandingPageURL", Str "https://vendor.info")].

Definition kept_property (k : string) : bool :=
  negb (String.eqb k "vendorName") && negb (String.eqb k "creator").

Lemma partial_object_restricts : restricts kept_property vendor_object partial_object.
Proof.
  intros k. unfold present, vendor_object, partial_object. cbn [assoc].
  repeat match goal with
  | |- context [String.eqb k ?s] => destruct (String.eqb_spec k s) as [->|]; [reflexivity|]
  end.
  by destruct (kept_property k).
Defined.

Lemma ledger_json_defaults_witness :
  VendorInfo.fromJSON (Obj partial_object) =
    Ok (VendorInfo.mk 65521 "" "Vendor Inc." "https://vendor" "https://vendor.info" "").
Proof.
  pose proof (proj1 (ledger_json_defaults (PB := Wire.pb) VendorInfo.message vendor_in_table)
    kept_property vendor_object partial_object sample_vendor eq_refl partial_object_restricts) as H.
  exact H.
Defined.

Definition sample_page : CommonTypes.PageResponse.t := CommonTypes.PageResponse.mk (Some []) 3.

Lemma sample_page_encodable : CommonTypes.PageResponse.encodable (PB := Wire.pb) sample_page.
Proof. split; [reflexivity|]. split; [vm_compute; split; intros [=]|reflexivity]. Defined.

Lemma last_page_untyped_witness : ∃ w m',
  CommonTypes.PageResponse.encode (PB := Wire.pb) sample_page create = Ok w ∧
  decode_bytes CommonTypes.PageResponse.decode (finish w) = Ok m' ∧
  CommonTypes.PageResponse.typed m' = false ∧
  ∀ w', CommonTypes.PageResponse.encode (PB := Wire.pb) m' w' =
    Err (TypeError "Cannot read properties of undefined (reading 'length')").
Proof.
  apply (last_page_untyped (PB := Wire.pb) sample_page); [apply sample_page_encodable|reflexivity].
Defined.

Lemma date_round_trip_witness : ∃ text,
  toISOString (mkDate (Int 1656633600500)) = Ok text ∧
  fromJsonTimestamp (Str text) = Ok (mkDate (Int 1656633600500)).
Proof.
  exact (proj2 (proj2 (date_round_trip (PB := Wire.pb) (mkDate (Int 1656633600500)) eq_refl [] []))).
Defined.

(** A millisecond before the epoch. *)
Lemma nanos_before_epoch_witness :
  decode_bytes (Timestamp.decode (PB := Wire.pb)) (finish (encode_time (mkDate (Int (-1))) create)) =
    Ok (Timestamp.mk 0 (Int (-1000000))).
Proof.
  exact (proj1 (nanos_before_epoch (PB := Wire.pb) (-1) ltac:(unfold MAX_TIME; lia)
    ltac:(discriminate))).
Defined.

(** A server that answers every certificate with an empty response. *)
Definition sample_rpc (service method : string) (data : bytes) : result bytes :=
  request ← decode_bytes (MsgAddX509Cert.decode (PB := Wire.pb)) data;
  response ← Ok MsgAddX509CertResponse.base;
  finish <$> Ok (MsgAddX509CertResponse.encode response create).

Definition sample_request : MsgAddX509Cert.t :=
  MsgAddX509Cert.mk "cosmos1vendor" "PEM" "info" 1650000000.

Definition add_x509_cert : rpc_method (PB := Wire.pb) :=
  mkMethod "zigbeealliance.distributedcomplianceledger.pki.Msg" "AddX509Cert"
    MsgAddX509Cert.message MsgAddX509CertResponse.message
    (fun rpc => PkiTx.MsgClientImpl.AddX509Cert rpc).

Lemma rpc_transparent_witness :
  PkiTx.MsgClientImpl.AddX509Cert (PB := Wire.pb) sample_rpc sample_request =
    Ok MsgAddX509CertResponse.base.
Proof.
  refine (rpc_transparent (PB := Wire.pb) add_x509_cert sample_rpc
    (fun _ => Ok MsgAddX509CertResponse.base) sample_request _ _ _ _).
  - apply in_concat. exists PkiTx.msg_methods. split; in_table.
  - intros data. reflexivity.
  - split; [reflexivity|].
    split; [vm_compute; split; [split; intros [=]|reflexivity]|reflexivity].
  - intros [] _. split; [reflexivity|]. split; [exact I|reflexivity].
Defined.


