(* ===== verification/RestClient.v ===== *)
(** * The REST client

    [HttpClient] of module/rest.js, the class every module's [Api] extends: its
    configuration, cancellation tokens, request parameters, and [request]
    itself.  The file is the same in every module of the ledger; the line
    numbers of the map are those of the pki module.

    [fetch] and [AbortController] belong to the browser.  A controller is a
    number, and the client keeps the numbers of the controllers it has created
    and of those it has aborted.  [request] is split at its await: [request_start]
    builds the call to [fetch] and [request_finish] handles the response. *)
From S2P Require Import Prelude Js JsonText Uri Async.
Open Scope Z_scope.

(** ** Tokens and controllers *)

(** [CancelToken = Symbol | string | number] *)
Inductive token : Set :=
| TSymbol (id : Z)
| TString (s : string)
| TNumber (n : number).

#[global] Instance token_eq_dec : EqDecision token.
Proof. solve_decision. Defined.

#[global] Instance number_countable : Countable number :=
  inj_countable' (fun n => match n with Int z => Some z | NaN => None end)
    (fun o => match o with Some z => Int z | None => NaN end)
    ltac:(by intros []).

#[global] Instance token_countable : Countable token :=
  inj_countable'
    (fun t => match t with
              | TSymbol i => inl i
              | TString s => inr (inl s)
              | TNumber n => inr (inr n)
              end : Z + (string + number))
    (fun x => match x with
              | inl i => TSymbol i
              | inr (inl s) => TString s
              | inr (inr n) => TNumber n
              end)
    ltac:(by intros []).

(** [if (cancelToken)]: the empty string, 0 and NaN are not tokens. *)
Definition token_truthy (t : token) : bool :=
  match t with
  | TSymbol _ => true
  | TString s => js_Boolean (Str s)
  | TNumber n => js_Boolean (Num n)
  end.

(** The token of a request that takes part in cancellation. *)
Definition active (t : option token) : option token :=
  match t with Some k => if token_truthy k then Some k else None | None => None end.

(** ** The client *)

Record HttpClient := mkClient {
  baseUrl : js;
  securityData : js;
  securityWorker : option (js → js);
  abortControllers : gmap token Z;
  baseApiParams : list (string * js);
  (* the AbortController objects that exist: 0 .. created - 1 *)
  created : Z;
  aborted : gset Z;
}.

#[global] Instance HttpClient_eta : Settable HttpClient := λ c,
  mkClient c.(baseUrl) c.(securityData) c.(securityWorker) c.(abortControllers)
    c.(baseApiParams) c.(created) c.(aborted).

(** The settings [apiConfig] can hold; a property that is present is assigned,
    also when it is [undefined]. *)
Record ApiConfig := mkConfig {
  config_baseUrl : option js;
  config_baseApiParams : option (list (string * js));
  config_securityWorker : option (option (js → js));
}.

Definition default_params : list (string * js) :=
  [("credentials", Str "same-origin"); ("headers", Obj []); ("redirect", Str "follow");
   ("referrerPolicy", Str "no-referrer")].

(** [new HttpClient(apiConfig)] *)
Definition newHttpClient (apiConfig : ApiConfig) : HttpClient :=
  {| baseUrl := apiConfig.(config_baseUrl) ?? Str "";
     securityData := Null;
     securityWorker := apiConfig.(config_securityWorker) ?? None;
     abortControllers := ∅;
     baseApiParams := apiConfig.(config_baseApiParams) ?? default_params;
     created := 0;
     aborted := ∅ |}.

Definition setSecurityData (data : js) (c : HttpClient) : HttpClient :=
  c <| securityData := data |>.

(** ** Cancellation *)

(** The signal of the controller registered for the token, which is created
    when there is none. *)
Definition createAbortSignal (cancelToken : token) (c : HttpClient) : Z * HttpClient :=
  match c.(abortControllers) !! cancelToken with
  | Some abortController => (abortController, c)
  | None =>
      let abortController := c.(created) in
      (abortController,
       c <| created := c.(created) + 1 |>
         <| abortControllers := <[cancelToken := abortController]> c.(abortControllers) |>)
  end.

Definition abortRequest (cancelToken : token) (c : HttpClient) : HttpClient :=
  match c.(abortControllers) !! cancelToken with
  | Some abortController =>
      c <| aborted := {[abortController]} ∪ c.(aborted) |>
        <| abortControllers := delete cancelToken c.(abortControllers) |>
  | None => c
  end.

(** ** Requests *)

Inductive ContentType := Json | FormData | UrlEncoded.

Definition content_type (t : ContentType) : string :=
  match t with
  | Json => "application/json"
  | FormData => "multipart/form-data"
  | UrlEncoded => "application/x-www-form-urlencoded"
  end.

(** The methods of a response that read its body. *)
Inductive ResponseFormat := json | text | blob | formData | arrayBuffer.

Inductive body : Set :=
| NoBody                                    (* null *)
| BodyValue (v : js)
| BodyForm (entries : list (string * js)).  (* a FormData object *)

(** [contentFormatters] *)
Definition contentFormatters (type : ContentType) (input : js) : body :=
  match type with
  | Json =>
      match input with
      | Arr _ | Obj _ | Str _ =>
          BodyValue (match stringify input with Some s => Str s | None => Undefined end)
      | _ => BodyValue input
      end
  | FormData => BodyForm (spread (or_else input (Obj [])))
  | UrlEncoded => BodyValue (Str (toQueryString input))
  end.

(** The parameters of one request apart from its path, query and body. *)
Record RequestParams := mkParams {
  secure : bool;
  type : option ContentType;
  format : option ResponseFormat;
  param_baseUrl : js;
  cancelToken : option token;
  rest : list (string * js);
}.

#[global] Instance RequestParams_eta : Settable RequestParams := λ p,
  mkParams p.(secure) p.(type) p.(format) p.(param_baseUrl) p.(cancelToken) p.(rest).

Definition no_params : RequestParams := mkParams false None None Undefined None [].

Record FullRequestParams := mkFull {
  path : string;
  query : js;
  request_body : js;
  params : RequestParams;
}.

(** The call [fetch(url, { ...init, signal, body })]. *)
Record FetchCall := mkCall {
  url : string;
  init : list (string * js);
  signal : option Z;
  payload : body;
}.

Definition headers_of (fs : list (string * js)) : list (string * js) :=
  spread (or_else (assoc "headers" fs ?? Undefined) (Obj [])).

Definition mergeRequestParams (c : HttpClient) (params1 params2 : list (string * js))
    : list (string * js) :=
  object_of (c.(baseApiParams) ++ params1 ++ params2 ++
    [("headers", Obj (object_of (headers_of c.(baseApiParams) ++ headers_of params1 ++
                                 headers_of params2)))]).

(** [(secure && this.securityWorker && this.securityWorker(this.securityData)) || {}] *)
Definition secureParams (c : HttpClient) (secure : bool) : list (string * js) :=
  match secure, c.(securityWorker) with
  | true, Some worker => spread (or_else (worker c.(securityData)) (Obj []))
  | _, _ => []
  end.

Definition request_url (c : HttpClient) (p : FullRequestParams) : string :=
  js_String (or_else p.(params).(param_baseUrl) (or_else c.(baseUrl) (Str ""))) +:+ p.(path) +:+
    (if js_Boolean p.(query) then
       let queryString := toQueryString p.(query) in
       if String.eqb queryString "" then "" else "?" +:+ queryString
     else "").

Definition request_headers (type : option ContentType) (requestParams : list (string * js))
    : list (string * js) :=
  object_of (match type with
             | Some FormData | None => []
             | Some t => [("Content-Type", Str (content_type t))]
             end ++ headers_of requestParams).

Definition request_start (c : HttpClient) (p : FullRequestParams) : FetchCall * HttpClient :=
  let requestParams := mergeRequestParams c p.(params).(rest) (secureParams c p.(params).(secure)) in
  let (signal, c') :=
    match active p.(params).(cancelToken) with
    | Some t => let (s, c') := createAbortSignal t c in (Some s, c')
    | None => (None, c)
    end in
  ({| url := request_url c p;
      init := object_of (requestParams ++
                [("headers", Obj (request_headers p.(params).(type) requestParams))]);
      signal := signal;
      payload := if is_nullish p.(request_body) then NoBody
                 else contentFormatters (p.(params).(type) ?? Json) p.(request_body) |}, c').

(** A response: its status and what each reading method settles to. *)
Record Response := mkResponse {
  ok : bool;
  read : ResponseFormat → result js;
}.

(** [r.error]: null, the body of a failed response, or what [format()] threw. *)
Inductive response_error := NoError | ErrorData (v : js) | ErrorThrown (e : exn).

Record HttpResponse := mkHttp {
  response : Response;
  data : js;
  error : response_error;
}.

(** The response object as a thrown value; it has no property [message]. *)
Definition thrown_response (r : HttpResponse) : exn :=
  Thrown (Obj [("ok", Bool r.(response).(ok)); ("data", r.(data));
               ("error", match r.(error) with ErrorData v => v | _ => Null end)]).

Definition read_response (p : FullRequestParams) (r : Response) : HttpResponse :=
  match r.(read) (p.(params).(format) ?? json) with
  | Ok d => if r.(ok) then mkHttp r d NoError else mkHttp r Null (ErrorData d)
  | Err e => mkHttp r Null (ErrorThrown e)
  end.

Definition request_finish (c : HttpClient) (p : FullRequestParams) (r : Response)
    : HttpClient * result HttpResponse :=
  let d := read_response p r in
  let c' := match active p.(params).(cancelToken) with
            | Some t => c <| abortControllers := delete t c.(abortControllers) |>
            | None => c
            end in
  (c', if r.(ok) then Ok d else Err (thrown_response d)).

(** [request] as an asynchronous function of a client no one else uses. *)
Definition request {S : Type} (c : HttpClient) (p : FullRequestParams)
    : proc FetchCall Response S HttpResponse :=
  let (call, c') := request_start c p in
  r ← await call; of_result (request_finish c' p r).2.

(** ** Merging objects *)

Lemma assoc_object_of k fs : assoc k (object_of fs) = assoc k (rev fs).
Proof.
  induction fs as [|[k' v] fs IH] using rev_ind; [done|].
  rewrite object_of_snoc, rev_app_distr. simpl.
  destruct (String.eqb_spec k k') as [->|Hne]; [by apply assoc_set_eq|].
  by rewrite assoc_set_ne.
Qed.

Lemma assoc_rev k (fs : list (string * js)) : ordered fs.*1 = true → assoc k (rev fs) = assoc k fs.
Proof. intros H. by rewrite <- assoc_object_of, object_of_ordered. Qed.

(** In [{ ...a, ...b }] a property of [b] wins over that of [a]. *)
Lemma assoc_merge k a b : ordered b.*1 = true →
  assoc k (object_of (a ++ b)) =
    match assoc k b with Some v => Some v | None => assoc k (object_of a) end.
Proof. intros Hb. by rewrite !assoc_object_of, rev_app_distr, assoc_app, assoc_rev. Qed.

(** ** The life of a cancellation token *)

(** The events of a client, in the order the program performs them. *)
Inductive event :=
| EStart (p : FullRequestParams)
| EFinish (p : FullRequestParams) (r : Response)
| EAbort (t : token)
| ESecurity (data : js).

Definition perform (c : HttpClient) (e : event) : HttpClient :=
  match e with
  | EStart p => (request_start c p).2
  | EFinish p r => (request_finish c p r).1
  | EAbort t => abortRequest t c
  | ESecurity data => setSecurityData data c
  end.

Definition perform_all (c : HttpClient) (es : list event) : HttpClient := fold_left perform es c.

(** The events that end the registration of [t]. *)
Definition ends_token (t : token) (e : event) : bool :=
  match e with
  | EFinish p _ => bool_decide (active p.(params).(cancelToken) = Some t)
  | EAbort t' => bool_decide (t' = t)
  | _ => false
  end.

(** Registered controllers exist, are not aborted, and differ between tokens. *)
Record client_inv (c : HttpClient) : Prop := {
  inv_live t i : c.(abortControllers) !! t = Some i → i < c.(created) ∧ i ∉ c.(aborted);
  inv_old i : i ∈ c.(aborted) → i < c.(created);
  inv_inj t t' i : c.(abortControllers) !! t = Some i → c.(abortControllers) !! t' = Some i → t = t';
}.

Lemma new_client_inv cfg : client_inv (newHttpClient cfg).
Proof. split; simpl; [intros t i; by rewrite lookup_empty|set_solver|intros t t' i; by rewrite lookup_empty]. Qed.

Lemma createAbortSignal_inv t c : client_inv c → client_inv (createAbortSignal t c).2.
Proof.
  intros [Hl Ho Hi]. unfold createAbortSignal.
  destruct (c.(abortControllers) !! t) as [i|] eqn:E; [done|]. split; simpl.
  - intros t' i [[<- <-]|[_ H]]%lookup_insert_Some; [|destruct (Hl _ _ H); split; [lia|done]].
    split; [lia|]. intros H%Ho. lia.
  - intros i H%Ho. lia.
  - intros t1 t2 i [[<- <-]|[Hne1 H1]]%lookup_insert_Some [[<- Hi2]|[Hne2 H2]]%lookup_insert_Some;
      try done; try (by apply Hi with i);
      [destruct (Hl _ _ H2)|destruct (Hl _ _ H1)]; lia.
Qed.

Lemma abortRequest_inv t c : client_inv c → client_inv (abortRequest t c).
Proof.
  intros [Hl Ho Hi]. unfold abortRequest.
  destruct (c.(abortControllers) !! t) as [i|] eqn:E; [|done]. split; simpl.
  - intros t' j [Hne H]%lookup_delete_Some. destruct (Hl _ _ H) as [? Hj]. split; [done|].
    intros [->%elem_of_singleton|?]%elem_of_union; [|done]. by apply Hne, (Hi _ _ i).
  - intros j [->%elem_of_singleton|?]%elem_of_union; [by apply (Hl t)|by apply Ho].
  - intros t1 t2 j [_ H1]%lookup_delete_Some [_ H2]%lookup_delete_Some. by apply (Hi _ _ j).
Qed.

Lemma perform_inv c e : client_inv c → client_inv (perform c e).
Proof.
  intros H. destruct e as [p|p r|t|d]; simpl; [| |by apply abortRequest_inv|by destruct H].
  - unfold request_start. destruct (active _) as [t|]; [|done].
    pose proof (createAbortSignal_inv t c H) as H'. by destruct (createAbortSignal t c).
  - destruct (active _) as [t|]; [|done]. destruct H as [Hl Ho Hi]. split; simpl.
    + intros t' i [_ ?]%lookup_delete_Some. by apply (Hl t').
    + done.
    + intros t1 t2 i [_ ?]%lookup_delete_Some [_ ?]%lookup_delete_Some. by apply (Hi _ _ i).
Qed.

Lemma perform_all_inv c es : client_inv c → client_inv (perform_all c es).
Proof. revert c. induction es as [|e es IH]; intros c H; [done|]. apply IH. by apply perform_inv. Qed.

(** What a request with a token gets: the signal registered for the token. *)
Lemma request_start_signal c p t :
  active p.(params).(cancelToken) = Some t →
  ∃ i, signal (request_start c p).1 = Some i ∧
       (request_start c p).2.(abortControllers) !! t = Some i.
Proof.
  intros Ht. unfold request_start. rewrite Ht. unfold createAbortSignal.
  destruct (c.(abortControllers) !! t) as [i|] eqn:E; simpl.
  - eauto.
  - eexists. split; [done|]. apply lookup_insert_eq.
Qed.

(** A registration lasts until the token is aborted or a request with that
    token completes. *)
Lemma perform_keeps c e t i :
  ends_token t e = false → c.(abortControllers) !! t = Some i →
  (perform c e).(abortControllers) !! t = Some i.
Proof.
  destruct e as [p|p r|t'|d]; simpl; intros He Hi; [..|done].
  - unfold request_start, createAbortSignal. destruct (active _) as [t'|]; [|done].
    destruct (c.(abortControllers) !! t') as [j|] eqn:E; [done|]. simpl.
    rewrite lookup_insert_ne; [done|]. intros ->. by rewrite E in Hi.
  - apply bool_decide_eq_false in He. destruct (active _) as [t'|]; simpl; [|done].
    rewrite lookup_delete_ne; [done|congruence].
  - apply bool_decide_eq_false in He. unfold abortRequest.
    destruct (c.(abortControllers) !! t') as [j|]; simpl; [|done]. by rewrite lookup_delete_ne.
Qed.

Lemma perform_all_keeps c es t i :
  forallb (fun e => negb (ends_token t e)) es = true → c.(abortControllers) !! t = Some i →
  (perform_all c es).(abortControllers) !! t = Some i.
Proof.
  revert c. induction es as [|e es IH]; intros c; simpl; [done|].
  rewrite andb_true_iff, negb_true_iff. intros [He Hes] Hi.
  apply IH; [done|]. by apply perform_keeps.
Qed.

Lemma abortRequest_aborted t c i :
  c.(abortControllers) !! t = Some i →
  (abortRequest t c).(aborted) = {[i]} ∪ c.(aborted).
Proof. intros H. unfold abortRequest. by rewrite H. Qed.

(** ** What the client guarantees *)

(** C33: a request that is given a token gets a signal that has not been
    aborted, and [abortRequest] with that token aborts exactly that signal, at
    any later time, as long as no request with the token has completed and the
    token has not been aborted before. *)
Theorem abort_reaches_request cfg es es' p t :
  active p.(params).(cancelToken) = Some t →
  forallb (fun e => negb (ends_token t e)) es' = true →
  let c := perform_all (newHttpClient cfg) es in
  let c' := perform_all (request_start c p).2 es' in
  ∃ i, signal (request_start c p).1 = Some i ∧ (i ∉ c'.(aborted)) ∧
       (abortRequest t c').(aborted) = {[i]} ∪ c'.(aborted).
Proof.
  intros Ht Hes c c'. destruct (request_start_signal c p t Ht) as (i & Hs & Hr).
  exists i. apply (perform_all_keeps _ es') in Hr; [|done].
  split_and!; [done| |by apply abortRequest_aborted].
  assert (client_inv c') as Hinv.
  { apply perform_all_inv. apply (perform_inv c (EStart p)).
    apply perform_all_inv, new_client_inv. }
  by apply (inv_live _ Hinv t).
Qed.

(** Two requests that share a token share one signal, and the first of
    them to complete takes the registration with it: [abortRequest] then does
    nothing, and the request still under way cannot be aborted. *)
Theorem shared_token_lost cfg es p1 p2 r t :
  active p1.(params).(cancelToken) = Some t →
  active p2.(params).(cancelToken) = Some t →
  let c1 := (request_start (perform_all (newHttpClient cfg) es) p1).2 in
  let c2 := (request_start c1 p2).2 in
  let c3 := (request_finish c2 p1 r).1 in
  ∃ i, signal (request_start c1 p2).1 = Some i ∧ (i ∉ c3.(aborted)) ∧ abortRequest t c3 = c3.
Proof.
  intros H1 H2 c1 c2 c3. destruct (request_start_signal c1 p2 t H2) as (i & Hs & Hr).
  exists i. split; [done|].
  assert (client_inv c2) as Hinv.
  { apply (perform_inv c1 (EStart p2)), (perform_inv _ (EStart p1)).
    apply perform_all_inv, new_client_inv. }
  unfold c3, request_finish, abortRequest. rewrite H1. simpl. split.
  - by apply (inv_live _ Hinv t).
  - by rewrite lookup_delete_eq.
Qed.

(** What [request] does with each answer of [fetch]. *)
Definition outcome (c : HttpClient) (p : FullRequestParams) (answer : result Response)
    : result HttpResponse :=
  match answer with
  | Err e => Err e
  | Ok r =>
      match r.(ok), r.(read) (p.(params).(format) ?? json) with
      | true, Ok d => Ok (mkHttp r d NoError)
      | true, Err e => Ok (mkHttp r Null (ErrorThrown e))
      | false, Ok d => Err (thrown_response (mkHttp r Null (ErrorData d)))
      | false, Err e => Err (thrown_response (mkHttp r Null (ErrorThrown e)))
      end
  end.

(** [request] makes one call to [fetch]; a rejected call rejects with the
    same reason, a response that is not ok is thrown, and an ok response whose
    body cannot be read gives [data = null] without an error. *)
Theorem request_outcome {S : Type} server c p (s : S) :
  run server (request c p) s = (s, outcome c p (server (request_start c p).1)).
Proof.
  unfold request. destruct (request_start c p) as [call c'] eqn:E. simpl fst.
  rewrite run_bind, run_await. destruct (server call) as [r|e]; [|done].
  rewrite run_of_result. unfold request_finish, read_response, outcome. simpl.
  by destruct (read r _), (ok r).
Qed.

(** C32: the query part of the URL is what the server reads back as the pairs
    of the query object, whatever characters they hold. *)
Theorem request_url_query c p :
  ∃ base qs,
    request_url c p = base +:+ p.(path) +:+ (if String.eqb qs "" then "" else "?" +:+ qs) ∧
    parse_query qs = query_pairs p.(query).
Proof.
  exists (js_String (or_else p.(params).(param_baseUrl) (or_else c.(baseUrl) (Str "")))).
  exists (if js_Boolean p.(query) then toQueryString p.(query) else "").
  unfold request_url. destruct (js_Boolean (query p)) eqn:E.
  - split; [done|]. apply parse_toQueryString.
  - split; [done|]. destruct (query p) as [| |b|[z|]|s|l|fs]; try done.
    by destruct s.
Qed.

(** Of two headers with the same name, the security worker's wins over the
    request's, and both win over the client's base parameters. *)
Theorem header_precedence c params1 params2 k :
  ordered (headers_of params1).*1 = true → ordered (headers_of params2).*1 = true →
  assoc k (headers_of (mergeRequestParams c params1 params2)) =
    match assoc k (headers_of params2), assoc k (headers_of params1) with
    | Some v, _ => Some v
    | None, Some v => Some v
    | None, None => assoc k (object_of (headers_of c.(baseApiParams)))
    end.
Proof.
  intros H1 H2. unfold mergeRequestParams. unfold headers_of at 1.
  rewrite !app_assoc. rewrite object_of_snoc. simpl. rewrite assoc_set_eq. simpl.
  rewrite <- app_assoc, app_assoc, !assoc_merge by done.
  by destruct (assoc k (headers_of params2)).
Qed.

(** ** Witnesses *)

Definition sample_token : token := TString "search".
Definition sample_request : FullRequestParams :=
  mkFull "/dcl/pki/certificates" (Obj [("pagination.key", Str "a&b=c")]) Undefined
    (no_params <| cancelToken := Some sample_token |> <| rest := [("method", Str "GET")] |>).
Definition sample_config : ApiConfig := mkConfig (Some (Str "http://localhost:1317")) None None.

Lemma abort_reaches_request_witness :
  let c := newHttpClient sample_config in
  let c' := perform_all (request_start c sample_request).2 [EAbort (TNumber (Int 1))] in
  ∃ i, signal (request_start c sample_request).1 = Some i ∧ (i ∉ c'.(aborted)) ∧
       (abortRequest sample_token c').(aborted) = {[i]} ∪ c'.(aborted).
Proof.
  apply (abort_reaches_request sample_config [] [EAbort (TNumber (Int 1))] sample_request
    sample_token); reflexivity.
Defined.

Lemma shared_token_lost_witness :
  let c1 := (request_start (newHttpClient sample_config) sample_request).2 in
  let c2 := (request_start c1 sample_request).2 in
  let c3 := (request_finish c2 sample_request (mkResponse true (fun _ => Ok Null))).1 in
  ∃ i, signal (request_start c1 sample_request).1 = Some i ∧ (i ∉ c3.(aborted)) ∧
       abortRequest sample_token c3 = c3.
Proof.
  apply (shared_token_lost sample_config [] sample_request sample_request _ sample_token);
    reflexivity.
Defined.

Lemma header_precedence_witness :
  assoc "X" (headers_of (mergeRequestParams (newHttpClient sample_config)
    [("headers", Obj [("X", Str "1"); ("Y", Str "2")])] [("headers", Obj [("X", Str "3")])])) =
  Some (Str "3").
Proof.
  refine (header_precedence (newHttpClient sample_config)
    [("headers", Obj [("X", Str "1"); ("Y", Str "2")])] [("headers", Obj [("X", Str "3")])] "X" _ _);
    reflexivity.
Defined.
