(* ===== verification/ApiRoutes.v ===== *)
(** * What the endpoints of every module share

    Each module/rest.js ends with a class [Api], one method per query, each a
    GET request to a path built from its arguments.  The routes are those of
    the HTTP annotations of the module's query.proto, which the server matches
    segment by segment.  [Routes] is what a module promises about its methods;
    the lemmas below follow from it for all of them. *)
From S2P Require Import Prelude Js JsonText Uri Async RestClient.
Open Scope Z_scope.

(** The request of every method:
    [{ path, method: "GET", query, format: "json", ...params }]. *)
Definition get_json (path : string) (query : js) (params : RequestParams) : FullRequestParams :=
  {| path := path;
     query := query;
     request_body := Undefined;
     params := params <| format := Some (params.(format) ?? json) |>
                      <| rest := object_of (("method", Str "GET") :: params.(rest)) |> |}.

(** [new Api({ baseUrl: addr })] *)
Definition newApi (addr : js) : HttpClient := newHttpClient (mkConfig (Some addr) None None).

(** The call to [fetch] a method starts with. *)
Definition sent {S A : Type} (p : proc FetchCall Response S A) : option FetchCall :=
  match p with Await q _ => Some q | _ => None end.

Definition slash_free (s : string) : bool := all_chars (fun c => negb (Ascii.eqb c "/")) s.

(** The query part of a URL. *)
Definition query_part (query : js) : string := if js_Boolean query then addQueryParams query else "".

Lemma sent_query {S : Type} addr p q :
  url <$> sent (request (S := S) (newApi (Str addr)) (get_json p q no_params)) =
    Some (addr +:+ p +:+ query_part q).
Proof. simpl. unfold request_url, or_else. simpl. by destruct addr. Qed.

Lemma sent_get {S : Type} addr p q :
  is_nullish q = true →
  url <$> sent (request (S := S) (newApi (Str addr)) (get_json p q no_params)) = Some (addr +:+ p).
Proof.
  intros Hq. rewrite sent_query. destruct q; try discriminate Hq; unfold query_part; simpl;
    by rewrite string_app_nil_r.
Qed.

(** What the server reads from the query part. *)
Lemma query_part_pairs q :
  ∃ t, query_part q = (if String.eqb t "" then "" else "?" +:+ t) ∧
    all_chars (fun c => negb (Ascii.eqb c "#")) t = true ∧ parse_query t = query_pairs q.
Proof.
  unfold query_part, addQueryParams. destruct (js_Boolean q) eqn:E.
  - exists (toQueryString q). split_and!; [done|apply toQueryString_free|apply parse_toQueryString].
  - exists "". split_and!; [done..|]. destruct q as [| |b|[z|]|s|l|fs]; try done. by destruct s.
Qed.

Lemma split_join c l :
  l ≠ [] → forallb (all_chars (fun d => negb (Ascii.eqb d c))) l = true →
  split_on c (join (String c "") l) = l.
Proof.
  intros Hne H. destruct l as [|s l]; [done|]. clear Hne. revert s H.
  induction l as [|s' l IH]; intros s; simpl forallb; rewrite !andb_true_iff; intros (Hs & Hl).
  - by apply split_on_none.
  - change (join (String c "") (s :: s' :: l)) with (s +:+ String c (join (String c "") (s' :: l))).
    rewrite split_on_app, split_on_none by done. simpl app. f_equal. apply IH. simpl.
    by rewrite andb_true_iff.
Qed.

(** ** Routes *)

(** The methods of an [Api] with the values of their path parameters, and the
    route of each: the segments of its path, which are not empty.  [api_call c e
    query] is the call of the method; [query] is its query object, if it takes
    one. *)
Class Routes (E : Type) := {
  api_call : HttpClient → E → js → proc FetchCall Response unit HttpResponse;
  route : E → list string;
  takes_query : E → bool;
  route_path addr e q :
    url <$> sent (api_call (newApi (Str addr)) e q) =
      Some (addr +:+ String "/" (join "/" (route e)) +:+
            query_part (if takes_query e then q else Undefined));
  route_nonempty e : route e ≠ [];
}.

(** Discharges [route_path] for a method that is a [get_json]. *)
Ltac solve_route_path :=
  intros addr e q; destruct e; (etransitivity; [apply sent_query|reflexivity]).

Section routes.
Context {E : Type} {R : Routes E}.

(** The URL requested from an [Api] whose base URL is [addr], with a query
    object and without. *)
Definition api_url_query (addr : string) (e : E) (q : js) : option string :=
  url <$> sent (api_call (newApi (Str addr)) e q).

Definition api_url (addr : string) (e : E) : option string := api_url_query addr e Null.

Definition slash_free_args (e : E) : bool := forallb slash_free (route e).

(** The arguments are plain path segments. *)
Definition plain_args (e : E) : bool := forallb plain_segment (route e).

Lemma api_url_route addr e : api_url addr e = Some (addr +:+ String "/" (join "/" (route e))).
Proof.
  unfold api_url, api_url_query. rewrite route_path.
  replace (query_part _) with "" by by destruct (takes_query e). by rewrite string_app_nil_r.
Qed.

Lemma plain_slash_free e : plain_args e = true → slash_free_args e = true.
Proof.
  unfold plain_args, slash_free_args. rewrite !forallb_forall. intros H s Hs.
  by apply plain_segment_free, H.
Qed.

Lemma split_path e :
  slash_free_args e = true → split_on "/" (String "/" (join "/" (route e))) = "" :: route e.
Proof.
  intros He. cbn [split_on]. simpl Ascii.eqb. cbv iota. f_equal.
  apply split_join; [apply route_nonempty|done].
Qed.

(** Two calls that request the same URL have the same route. *)
Lemma api_url_route_eq addr e1 e2 :
  slash_free_args e1 = true → slash_free_args e2 = true →
  api_url addr e1 = api_url addr e2 → route e1 = route e2.
Proof.
  intros H1 H2. rewrite !api_url_route. intros Heq.
  apply (inj Some), string_app_inv_head in Heq.
  assert (join "/" (route e1) = join "/" (route e2)) as Hj.
  { revert Heq. generalize (join "/" (route e1)), (join "/" (route e2)). congruence. }
  pose proof (split_join "/" (route e1) (route_nonempty e1) H1) as Hs1.
  pose proof (split_join "/" (route e2) (route_nonempty e2) H2) as Hs2. congruence.
Qed.

(** What the server is asked for. *)
Lemma read_api_path e :
  plain_args e = true → read_path (join "/" (route e)) = Some (route e).
Proof.
  intros He. unfold read_path.
  rewrite split_join; [|apply route_nonempty|exact (plain_slash_free e He)].
  rewrite resolve_plain by done. simpl. rewrite decode_plain by done. simpl.
  by rewrite split_plain.
Qed.

Lemma plain_path_free e d :
  Ascii.eqb d "?" || Ascii.eqb d "#" = true → plain_args e = true →
  all_chars (fun c => negb (Ascii.eqb c d)) (join "/" (route e)) = true.
Proof.
  intros Hd He. apply join_free.
  - by destruct d as [[] [] [] [] [] [] [] []].
  - unfold plain_args in He. rewrite forallb_forall in He |- *. intros s Hs.
    apply plain_segment_free; [|by apply He].
    rewrite <- !orb_assoc, (orb_assoc (Ascii.eqb d "?")), Hd. by rewrite orb_true_r.
Qed.

Lemma plain_host_free host d :
  Ascii.eqb d "/" || Ascii.eqb d "?" || Ascii.eqb d "#" = true → plain_host host = true →
  all_chars (fun c => negb (Ascii.eqb c d)) host = true.
Proof.
  intros Hd Hh. eapply all_chars_impl, Hh. intros c.
  rewrite !andb_true_iff, !negb_true_iff. intros [[H1 H2] H3].
  destruct (Ascii.eqb_spec c d) as [->|]; [|done]. by rewrite H1, H2, H3 in Hd.
Qed.

Lemma read_api_url host e q :
  plain_host host = true → plain_args e = true →
  ∃ u, api_url_query ("http://" +:+ host) e q = Some u ∧
    read_url u = Some (host, route e, query_pairs (if takes_query e then q else Undefined)).
Proof.
  intros Hh He. unfold api_url_query. rewrite route_path. eexists. split; [reflexivity|].
  destruct (query_part_pairs (if takes_query e then q else Undefined)) as (t & -> & Ht & Hp).
  set (path := join "/" (route e)). unfold read_url.
  rewrite string_app_assoc, strip_prefix_app. simpl.
  assert (∀ d, Ascii.eqb d "?" || Ascii.eqb d "#" = true →
    all_chars (fun c => negb (Ascii.eqb c d)) (host +:+ String "/" path) = true) as Hfree.
  { intros d Hd. rewrite all_chars_app. simpl.
    rewrite plain_host_free by (done || by rewrite <- orb_assoc, Hd, orb_true_r).
    rewrite (plain_path_free e d Hd He : all_chars _ path = true). by destruct d as [[] [] [] [] [] [] [] []]. }
  assert (cut "/" (host +:+ String "/" path) = (host, Some path)) as Hcut
    by (apply cut_app; by apply plain_host_free).
  rewrite <- Hp. destruct (String.eqb_spec t "") as [->|Hne].
  - rewrite string_app_nil_r. rewrite (cut_none "#") by by apply Hfree. simpl.
    rewrite (cut_none "?") by by apply Hfree. rewrite Hcut. simpl.
    unfold path. by rewrite read_api_path.
  - replace (host +:+ String "/" (path +:+ String "?" t))
      with ((host +:+ String "/" path) +:+ String "?" t) by by rewrite string_app_assoc.
    rewrite (cut_none "#").
    2: { rewrite all_chars_app, Hfree by done. simpl. exact Ht. }
    simpl. rewrite cut_app by by apply Hfree. rewrite Hcut. simpl.
    unfold path. by rewrite read_api_path.
Qed.

End routes.
