(* ===== verification/Pages.v ===== *)
(** * The pages of a list query

    A node answers a list query with one page at a time.  The loop that asks for
    the others and puts them together is the same in all stores, up to the
    property of the pagination object in which they expect the key of the next
    page: [next] is its name.  It does not touch the store, so the type [St] of
    its state is left open. *)
From S2P Require Import Prelude Js JsonText Uri Async RestClient.
Open Scope Z_scope.

(** ** Merging pages *)

(** One property of [next_values] copied into [value] by [mergeResults]. *)
Definition merge_prop (value : list (string * js)) (kv : string * js) : result (list (string * js)) :=
  match kv.2 with
  | Arr next =>
      current ← iterate (assoc kv.1 value ?? Undefined);
      Ok (set_prop kv.1 (Arr (current ++ next)) value)
  | v => Ok (set_prop kv.1 v value)
  end.

Fixpoint merge_props (value : list (string * js)) (next : list (string * js))
    : result (list (string * js)) :=
  match next with
  | [] => Ok value
  | kv :: next' => value' ← merge_prop value kv; merge_props value' next'
  end.

(** [mergeResults] updates [value] in place and returns it.  It is called with
    a page that has a [pagination] property, so [value] is an object. *)
Definition mergeResults (value next_values : js) : result js :=
  match value with
  | Obj fs =>
      if is_nullish next_values then Err (TypeError "Cannot convert undefined or null to object")
      else Obj <$> merge_props fs (spread next_values)
  | _ => Err Unmodelled
  end.

(** A page of a list: its items and its [pagination] object. *)
Record page := mkPage { items : list js; pagination : list (string * js) }.

Definition page_value (f : string) (l : list js) (pg : list (string * js)) : js :=
  Obj [(f, Arr l); ("pagination", Obj pg)].

(** ** The loop *)

Section loop.
Context {St : Type} (next : string).
Abbreviation task := (proc FetchCall Response St).

(** [value.pagination && value.pagination[next] != null]: the next key. *)
Definition next_key (value : js) : result (option js) :=
  pagination ← get value "pagination";
  if js_Boolean pagination then
    key ← get pagination next;
    Ok (if is_nullish key then None else Some key)
  else Ok None.

(** The loop [while (all && ...) { ... mergeResults ... }] of a list query.
    The server decides how many pages there are; [fuel] bounds the turns. *)
Fixpoint fetch_pages (fuel : nat) (query_all : js → task HttpResponse) (all : bool) (query value : js)
    : task js :=
  if all then
    key ← of_result (next_key value);
    match key, fuel with
    | None, _ => Ret value
    | Some _, O => Throw OutOfFuel
    | Some key, S fuel' =>
        r ← query_all (Obj (object_of (spread query ++ [("pagination.key", key)])));
        value' ← of_result (mergeResults value r.(data));
        fetch_pages fuel' query_all all query value'
    end
  else Ret value.

(** A list query: the first page, and the others when all are asked for. *)
Definition fetch_list (fuel : nat) (query_all : js → task HttpResponse) (all : bool) (query : js)
    : task js :=
  r ← query_all query;
  fetch_pages fuel query_all all query r.(data).

Lemma stateless_fetch_pages fuel query_all all query value :
  (∀ q, stateless (query_all q)) → stateless (fetch_pages fuel query_all all query value).
Proof.
  intros Hq. revert value. induction fuel as [|fuel IH]; intros value; destruct all; try exact I;
    cbn [fetch_pages]; (apply stateless_bind; [auto with dcl|]); intros [key|]; try exact I.
  auto with dcl.
Qed.

Lemma stateless_fetch_list fuel query_all all query :
  (∀ q, stateless (query_all q)) → stateless (fetch_list fuel query_all all query).
Proof. intros Hq. unfold fetch_list. auto using stateless_fetch_pages with dcl. Qed.

(** Unless all pages are asked for, a list query is one request. *)
Lemma completes_first_page server fuel query_all query :
  (∀ q, completes server 1 (query_all q)) →
  completes server 1 (fetch_list fuel query_all false query).
Proof.
  intros Hq. unfold fetch_list. apply (completes_bind server 1 0); [done|]. intros r. by destruct fuel.
Qed.

(** A page whose pagination lacks the property [next] is the last one the loop
    asks for. *)
Lemma fetch_list_stops server fuel query_all query r (s : St) pagination :
  run server (query_all query) s = (s, Ok r) →
  get r.(data) "pagination" = Ok pagination → get pagination next = Ok Undefined →
  run server (fetch_list fuel query_all true query) s = (s, Ok r.(data)).
Proof.
  intros Hr Hp Hn. unfold fetch_list. rewrite run_bind, Hr.
  assert (next_key r.(data) = Ok None) as Hk.
  { unfold next_key. rewrite Hp. simpl. destruct (js_Boolean pagination); [by rewrite Hn|done]. }
  by destruct fuel; cbn [fetch_pages]; rewrite Hk.
Qed.

(** ** All the pages of a list *)

Definition page_key (p : page) : js := assoc next p.(pagination) ?? Undefined.

Definition next_query (query : js) (p : page) : js :=
  Obj (object_of (spread query ++ [("pagination.key", page_key p)])).

Section pages.
Variable server : FetchCall → result Response.
Variable query_all : js → task HttpResponse.
Variable f : string.
Variable query : js.

(** [query_all q] is answered with the page [p]. *)
Definition answers (q : js) (p : page) : Prop :=
  ∀ s, ∃ r, run server (query_all q) s = (s, Ok r) ∧
            r.(data) = page_value f p.(items) p.(pagination).

(** The pages that follow [p], each found under the key of the one before;
    the last has no key. *)
Fixpoint follows (p : page) (ps : list page) : Prop :=
  match ps with
  | [] => is_nullish (page_key p) = true
  | p' :: ps' =>
      is_nullish (page_key p) = false ∧ answers (next_query query p) p' ∧ follows p' ps'
  end.

Lemma merge_pages l pg p' : f ≠ "pagination" →
  mergeResults (page_value f l pg) (page_value f p'.(items) p'.(pagination)) =
    Ok (page_value f (l ++ p'.(items)) p'.(pagination)).
Proof.
  intros Hf%String.eqb_neq. unfold mergeResults, page_value.
  cbn [is_nullish spread merge_props]. unfold merge_prop. cbn [fst snd assoc].
  rewrite String.eqb_refl. cbn [nullish default iterate mbind result_bind set_prop].
  rewrite String.eqb_refl. cbn [id mbind result_bind fmap result_fmap iterate set_prop].
  by rewrite String.eqb_sym, Hf.
Qed.

Lemma next_key_page l p : next_key (page_value f l p.(pagination)) =
  if String.eqb "pagination" f then next_key (page_value f l p.(pagination))
  else Ok (if is_nullish (page_key p) then None else Some (page_key p)).
Proof.
  destruct (String.eqb "pagination" f) eqn:E; [done|].
  unfold next_key, page_value, get. cbn [assoc]. rewrite E. done.
Qed.

Lemma fetch_pages_spec fuel p ps l s :
  f ≠ "pagination" → (length ps <= fuel)%nat → follows p ps →
  run server (fetch_pages fuel query_all true query (page_value f l p.(pagination))) s =
    (s, Ok (page_value f (l ++ concat (map items ps)) (List.last ps p).(pagination))).
Proof.
  intros Hf. assert (String.eqb "pagination" f = false) as Hf' by by apply String.eqb_neq.
  revert fuel p l. induction ps as [|p' ps IH]; intros fuel p l Hfuel Hps.
  - destruct fuel; cbn [fetch_pages]; rewrite next_key_page, Hf'; simpl in Hps; rewrite Hps; simpl;
      by rewrite app_nil_r.
  - destruct fuel as [|fuel]; [simpl in Hfuel; lia|]. destruct Hps as (Hk & Ha & Hps).
    cbn [fetch_pages]. rewrite next_key_page, Hf', Hk. cbn [of_result].
    change (Ret ?a ≫= ?g) with (g a). cbv beta iota. rewrite run_bind.
    destruct (Ha s) as (r & Hr & Hd). unfold next_query in Hr. rewrite Hr.
    rewrite run_bind, run_of_result, Hd, merge_pages by done.
    rewrite IH by (done || simpl in Hfuel; lia). simpl map. simpl concat.
    rewrite (assoc_L (++)). do 4 f_equal. destruct ps as [|p2 ps]; [done|].
    cbn [List.last]. clear. revert p2. induction ps as [|p3 ps IH]; intros p2; [done|]. apply IH.
Qed.

(** All pages of a list query are fetched, in order, each item once. *)
Lemma fetch_list_spec fuel p ps s :
  f ≠ "pagination" → (length ps <= fuel)%nat → answers query p → follows p ps →
  run server (fetch_list fuel query_all true query) s =
    (s, Ok (page_value f (concat (map items (p :: ps))) (List.last ps p).(pagination))).
Proof.
  intros Hf Hl Hp Hps. unfold fetch_list. rewrite run_bind.
  destruct (Hp s) as (r & -> & ->). by apply fetch_pages_spec.
Qed.

(** A list query is over when the pages are: one answer per page. *)
Lemma fetch_pages_completes fuel p ps l :
  f ≠ "pagination" → (∀ q, stateless (query_all q)) → (∀ q, completes server 1 (query_all q)) →
  (length ps <= fuel)%nat → follows p ps → ∀ s : St,
  completes server (length ps) (fetch_pages fuel query_all true query (page_value f l p.(pagination))).
Proof.
  intros Hf Hst Hc Hl Hps s. revert fuel p l Hl Hps.
  induction ps as [|p2 ps IH]; intros fuel p l Hl Hps.
  - destruct fuel; cbn [fetch_pages]; rewrite next_key_page;
      rewrite (proj2 (String.eqb_neq "pagination" f)) by done; simpl in Hps; by rewrite Hps.
  - destruct Hps as (Hk & Ha & Hps). destruct fuel as [|fuel]; [simpl in Hl; lia|].
    cbn [fetch_pages]. rewrite next_key_page, (proj2 (String.eqb_neq "pagination" f)), Hk by done.
    change (of_result (Ok ?x) ≫= ?g) with (g x). cbv beta iota.
    apply (completes_bind_run server 1 (length ps) _ _ s); [done..|].
    destruct (Ha s) as (r & Hrun & Hr). unfold next_query in Hrun. rewrite Hrun. cbn [snd]. rewrite Hr, merge_pages by done.
    change (of_result (Ok ?x) ≫= ?g) with (g x). cbv beta. apply IH; [simpl in Hl; lia|done].
Qed.

Lemma fetch_list_completes fuel p ps (s : St) :
  f ≠ "pagination" → (∀ q, stateless (query_all q)) → (∀ q, completes server 1 (query_all q)) →
  (length ps <= fuel)%nat → answers query p → follows p ps →
  completes server (S (length ps)) (fetch_list fuel query_all true query).
Proof.
  intros Hf Hst Hc Hl Hp Hps. unfold fetch_list.
  apply (completes_bind_run server 1 (length ps) _ _ s); [done..|].
  destruct (Hp s) as (r & -> & Hr). cbn [snd]. rewrite Hr. by apply fetch_pages_completes.
Qed.
End pages.

End loop.
