(* ===== verification/VuexStore.v ===== *)
(** * The Vuex store of a module

    The parts that every generated store (index.js of a module) is built from:
    its state, mutations, getters and the shape of its actions; the pagination
    of list queries is in [Pages.v].  The store of the pki module is in [PkiStore.v].

    The caches are plain objects keyed by query name and by the JSON text of
    the query's parameters; the subscriptions are a [Set] of JSON texts, kept
    in insertion order.  Actions are asynchronous functions ([Async.v]) over
    the module's state. *)
From S2P Require Import Prelude Js JsonText Uri Async RestClient Pages.
Open Scope Z_scope.

(** ** State *)

Record field := mkField { field_name : string; field_type : string }.

Record state := mkState {
  caches : gmap string (gmap string js);
  Structure : list (string * list field);
  Registry : list string;           (* the type URLs of the module's registry *)
  Subscriptions : list string;
}.

#[global] Instance state_eta : Settable state := λ s,
  mkState s.(caches) s.(Structure) s.(Registry) s.(Subscriptions).

(** [typeof v] *)
Definition typeof (v : js) : string :=
  match v with
  | Undefined => "undefined"
  | Null | Arr _ | Obj _ => "object"
  | Bool _ => "boolean"
  | Num _ => "number"
  | Str _ => "string"
  end.

Definition getStructure (template : list (string * js)) : list field :=
  map (fun kv => mkField kv.1 (typeof kv.2)) template.

(** ** Mutations *)

(** [JSON.stringify(v)] used as a property key or a set element. *)
Definition json_key (v : js) : string := stringify v ?? "undefined".

(** QUERY: [state[query][JSON.stringify(key)] = value] *)
Definition QUERY (query : string) (key value : js) (s : state) : result state :=
  match s.(caches) !! query with
  | Some cache => Ok (s <| caches := <[query := <[json_key key := value]> cache]> s.(caches) |>)
  | None => Err (TypeError ("Cannot set properties of undefined (setting '" +:+ json_key key +:+ "')"))
  end.

(** SUBSCRIBE: adding to a set keeps the place of an element that is there. *)
Definition SUBSCRIBE (subscription : js) (s : state) : state :=
  let text := json_key subscription in
  if bool_decide (text ∈ s.(Subscriptions)) then s
  else s <| Subscriptions := s.(Subscriptions) ++ [text] |>.

Definition UNSUBSCRIBE (subscription : js) (s : state) : state :=
  s <| Subscriptions :=
         List.filter (fun t => negb (String.eqb t (json_key subscription))) s.(Subscriptions) |>.

(** RESET_STATE: [Object.assign(state, getDefaultState())] *)
Definition RESET_STATE (default : state) (s : state) : state := default.

(** ** Getters *)

(** [if (!params.query) { params.query = null }], on the caller's object. *)
Definition default_query (params : list (string * js)) : list (string * js) :=
  if js_Boolean (assoc "query" params ?? Undefined) then params
  else set_prop "query" Null params.

(** [v ?? {}] *)
Definition or_empty (v : js) : js := if is_nullish v then Obj [] else v.

(** A getter of a cache, called with an object or with nothing. *)
Definition get_cached (name : string) (s : state) (params : option (list (string * js))) : js :=
  let params := default_query (params ?? [("params", Obj [])]) in
  or_empty (match s.(caches) !! name with
            | Some cache => cache !! json_key (Obj params) ?? Undefined
            | None => Undefined
            end).

(** [state._Structure[type].fields] *)
Definition getTypeStructure (s : state) (type : string) : result (list field) :=
  match assoc type s.(Structure) with
  | Some fields => Ok fields
  | None => Err (TypeError "Cannot read properties of undefined (reading 'fields')")
  end.

Definition getRegistry (s : state) : list string := s.(Registry).

(** [SpVuexError] comes from the package @starport/vuex, which is not part of
    the repository; [sp_message] is the [message] of an error built from the
    given arguments. *)
Class SpVuex := { sp_message : list string → js }.

Abbreviation fetch_pages := (Pages.fetch_pages "next_key").
Abbreviation follows := (Pages.follows "next_key").

Section actions.
Context {SV : SpVuex}.
Abbreviation task := (proc FetchCall Response state).

(** The second argument of a query action:
    [{ options: { subscribe, all } = { subscribe: false, all: false }, params, query = null }].
    A missing argument or [options: null] throws before the body runs. *)
Record query_args := mkArgs {
  arg_subscribe : js;
  arg_all : js;
  arg_params : js;
  arg_query : js;
}.

(** A list query: the first page, and the others when all are asked for; the
    next page is found under [value.pagination.next_key]. *)
Definition fetch_all (fuel : nat) (query_all : js → task HttpResponse) (a : query_args) (key : js)
    : task js :=
  fetch_list "next_key" fuel query_all (js_Boolean a.(arg_all)) a.(arg_query).

(** ** Actions *)

(** The destructuring of the argument; reading a property of [undefined] or
    [null] throws. *)
Definition destructure (payload : js) : result query_args :=
  options ← get payload "options";
  let options := if is_undefined options
                 then Obj [("subscribe", Bool false); ("all", Bool false)] else options in
  subscribe ← get options "subscribe";
  all ← get options "all";
  params ← get payload "params";
  query ← get payload "query";
  Ok (mkArgs subscribe all params (if is_undefined query then Null else query)).

(** [e.message] *)
Definition exn_message (e : exn) : result js :=
  match e with
  | Error m | TypeError m | RangeError m | SyntaxError m => Ok (Str m)
  | MissingWalletError => Ok (Str "wallet is required")
  | SpVuexError args => Ok (sp_message args)
  | Thrown v => get v "message"
  | OutOfFuel => Err OutOfFuel
  | Unmodelled => Err Unmodelled
  end.

Definition commit (m : state → result state) : task unit :=
  Get (fun s => match m s with Ok s' => Put s' (Ret tt) | Err e => Throw e end).

(** [{ params: { ...key }, query }] *)
Definition cache_key (key query : js) : list (string * js) :=
  [("params", Obj (object_of (spread key))); ("query", query)].

(** [{ action, payload: { options: { all }, params: { ...key }, query } }] *)
Definition subscription (action : string) (all key query : js) : js :=
  Obj [("action", Str action);
       ("payload", Obj [("options", Obj [("all", all)]);
                        ("params", Obj (object_of (spread key)));
                        ("query", query)])].

(** What a query action does with the value it has fetched: it is committed
    to the cache, the query is subscribed to if asked for, and the cached
    value is returned. *)
Definition store_value (name : string) (a : query_args) (key value : js) : task js :=
  _ ← commit (QUERY name (Obj (cache_key key a.(arg_query))) value);
  _ ← (if js_Boolean a.(arg_subscribe)
       then commit (fun s =>
              Ok (SUBSCRIBE (subscription ("Query" +:+ name) a.(arg_all) key a.(arg_query)) s))
       else Ret tt);
  Get (fun s => Ret (or_empty (get_cached name s (Some (cache_key key a.(arg_query)))))).

(** The [catch] of a query action. *)
Definition query_error (name : string) (e : exn) : task js :=
  m ← of_result (exn_message e);
  Throw (SpVuexError ["QueryClient:Query" +:+ name;
                      "API Node Unavailable. Could not perform query: " +:+ js_String m]).

(** A query action: [fetch] gets the value for the key and the query. *)
Definition query_action (name : string) (fetch : query_args → js → task js) (payload : js)
    : task js :=
  a ← of_result (destructure payload);
  catch
    (let key := if is_nullish a.(arg_params) then Obj [] else a.(arg_params) in
     value ← fetch a key;
     store_value name a key value)
    (query_error name).

(** [getters] are read and [commit]ted within one segment, after the last
    await. *)

(** StoreUpdate: the callback for one subscription, where [dispatch] runs an
    action by name. *)
Definition refresh (dispatch : string → js → task js) (text : string) : task js :=
  catch
    (sub ← of_result (parse text);
     action ← of_result (get sub "action");
     payload ← of_result (get sub "payload");
     dispatch (js_String action) payload)
    (fun e =>
       m ← of_result (exn_message e);
       Throw (SpVuexError ["Subscriptions: " +:+ js_String m])).

(** The tasks StoreUpdate starts, one per subscription in the order of the
    set; it does not wait for them. *)
Definition StoreUpdate (dispatch : string → js → task js) (s : state) : list (task js) :=
  map (refresh dispatch) s.(Subscriptions).

(** ** Mutations and getters *)

Lemma QUERY_lookup name key value s s' :
  QUERY name key value s = Ok s' →
  ∃ cache, s.(caches) !! name = Some cache ∧
    s' = s <| caches := <[name := <[json_key key := value]> cache]> s.(caches) |>.
Proof. unfold QUERY. destruct (s.(caches) !! name) as [c|]; [|done]. intros [= <-]. eauto. Qed.

(** The parameters as a getter completes them. *)
Lemma default_query_key key query :
  default_query (cache_key key query) = cache_key key (if js_Boolean query then query else Null).
Proof. unfold default_query, cache_key. simpl. by destruct (js_Boolean query). Qed.

(** The queries for which a getter looks under the key the action used. *)
Definition plain_query (query : js) : bool :=
  match query with Null => true | q => js_Boolean q end.

Lemma plain_query_key query : plain_query query = true →
  (if js_Boolean query then query else Null) = query.
Proof. destruct query as [| | | | | |]; simpl; by try intros ->. Qed.

Lemma get_cached_spec name s key query cache :
  s.(caches) !! name = Some cache →
  get_cached name s (Some (cache_key key query)) =
    or_empty (cache !! json_key (Obj (cache_key key (if js_Boolean query then query else Null)))
                ?? Undefined).
Proof. intros Hc. unfold get_cached. simpl. rewrite default_query_key. by rewrite Hc. Qed.

Lemma or_empty_idem v : or_empty (or_empty v) = or_empty v.
Proof. by destruct v. Qed.

(** ** The subscriptions are a set *)

Lemma SUBSCRIBE_NoDup sub s : NoDup s.(Subscriptions) → NoDup (SUBSCRIBE sub s).(Subscriptions).
Proof.
  intros H. unfold SUBSCRIBE. case_bool_decide as Hin; [done|]. simpl.
  apply list.NoDup_app. split; [done|]. split; [set_solver|]. apply NoDup_singleton.
Qed.

Lemma SUBSCRIBE_elem sub s t :
  t ∈ (SUBSCRIBE sub s).(Subscriptions) ↔ t = json_key sub ∨ t ∈ s.(Subscriptions).
Proof.
  unfold SUBSCRIBE. case_bool_decide as Hin; simpl; [|set_solver]. split; [by right|].
  intros [->|?]; done.
Qed.

Lemma UNSUBSCRIBE_elem sub s t :
  t ∈ (UNSUBSCRIBE sub s).(Subscriptions) ↔ t ≠ json_key sub ∧ t ∈ s.(Subscriptions).
Proof.
  unfold UNSUBSCRIBE. simpl. rewrite !list_elem_of_In, filter_In, negb_true_iff, String.eqb_neq.
  tauto.
Qed.

Lemma UNSUBSCRIBE_NoDup sub s : NoDup s.(Subscriptions) → NoDup (UNSUBSCRIBE sub s).(Subscriptions).
Proof. intros H. unfold UNSUBSCRIBE. simpl. rewrite NoDup_ListNoDup in *. by apply List.NoDup_filter. Qed.

(** ** Running a query action alone *)

(** The state after a value was stored. *)
Definition stored (name : string) (a : query_args) (key value : js) (s s' : state) : Prop :=
  ∃ s1, QUERY name (Obj (cache_key key a.(arg_query))) value s = Ok s1 ∧
    s' = if js_Boolean a.(arg_subscribe)
         then SUBSCRIBE (subscription ("Query" +:+ name) a.(arg_all) key a.(arg_query)) s1
         else s1.

Lemma SUBSCRIBE_caches sub s : (SUBSCRIBE sub s).(caches) = s.(caches).
Proof. unfold SUBSCRIBE. by case_bool_decide. Qed.

(** Storing and reading back. *)
Lemma run_commit server m s s' : m s = Ok s' → run server (commit m) s = (s', Ok tt).
Proof. intros H. simpl. by rewrite H. Qed.

Lemma run_commit_throws server m s e : m s = Err e → run server (commit m) s = (s, Err e).
Proof. intros H. simpl. by rewrite H. Qed.

Lemma QUERY_ok name key value s cache :
  s.(caches) !! name = Some cache →
  QUERY name key value s =
    Ok (s <| caches := <[name := <[json_key key := value]> cache]> s.(caches) |>).
Proof. intros H. unfold QUERY. by rewrite H. Qed.

Lemma run_store_value server name a key value s cache :
  s.(caches) !! name = Some cache → plain_query a.(arg_query) = true →
  ∃ s', run server (store_value name a key value) s = (s', Ok (or_empty value)) ∧
        stored name a key value s s'.
Proof.
  intros Hc Hq. unfold store_value, stored.
  pose proof (QUERY_ok name (Obj (cache_key key (arg_query a))) value s cache Hc) as HQ.
  set (cache' := <[json_key (Obj (cache_key key (arg_query a))) := value]> cache) in HQ.
  set (s1 := s <| caches := <[name := cache']> s.(caches) |>) in HQ.
  rewrite run_bind, (run_commit _ _ _ _ HQ), run_bind. rewrite HQ.
  assert (∀ s2, caches s2 = caches s1 →
    or_empty (get_cached name s2 (Some (cache_key key (arg_query a)))) = or_empty value) as Hget.
  { intros s2 H2. rewrite (get_cached_spec _ _ _ _ cache').
    - rewrite plain_query_key by done. unfold cache'. rewrite lookup_insert_eq. apply or_empty_idem.
    - rewrite H2. simpl. apply lookup_insert_eq. }
  destruct (js_Boolean (arg_subscribe a)).
  - erewrite run_commit by reflexivity. eexists. split; [|by eauto].
    cbn [run]. rewrite Hget; [done|apply SUBSCRIBE_caches].
  - cbn [run]. eexists. split; [|by eauto]. by rewrite Hget.
Qed.

(** The key of a call: [params ?? {}]. *)
Definition key_of (a : query_args) : js :=
  if is_nullish a.(arg_params) then Obj [] else a.(arg_params).

Lemma run_query_action server name fetch payload a s :
  destructure payload = Ok a → stateless (fetch a (key_of a)) →
  run server (query_action name fetch payload) s =
    match (run server (fetch a (key_of a)) s).2 with
    | Ok value =>
        match run server (store_value name a (key_of a) value) s with
        | (s', Ok v) => (s', Ok v)
        | (s', Err e) => run server (query_error name e) s'
        end
    | Err e => run server (query_error name e) s
    end.
Proof.
  intros Ha Hst. unfold query_action. rewrite Ha. cbn [of_result].
  change (Ret a ≫= ?f) with (f a). cbv beta zeta. fold (key_of a). rewrite run_catch, run_bind.
  pose proof (run_stateless server (fetch a (key_of a)) s Hst) as Hs.
  destruct (run server (fetch a (key_of a)) s) as [s' [v|e]]; simpl in *; subst s'; [|done].
  by destruct (run server (store_value name a (key_of a) v) s) as [s' [?|?]].
Qed.

(** All pages of a list query are fetched, in order, each item once. *)
Lemma fetch_all_spec server query_all f query fuel p ps a key (s : state) :
  f ≠ "pagination" → (length ps <= fuel)%nat → a.(arg_query) = query →
  js_Boolean a.(arg_all) = true → answers server query_all f query p →
  follows server query_all f query p ps →
  run server (fetch_all fuel query_all a key) s =
    (s, Ok (page_value f (concat (map items (p :: ps))) (List.last ps p).(pagination))).
Proof. intros Hf Hl Hq Hall Hp Hps. unfold fetch_all. rewrite Hq, Hall. by apply fetch_list_spec. Qed.

Lemma fetch_all_completes server query_all f query fuel p ps a key (s : state) :
  f ≠ "pagination" → (∀ q, stateless (query_all q)) → (∀ q, completes server 1 (query_all q)) →
  (length ps <= fuel)%nat → a.(arg_query) = query → js_Boolean a.(arg_all) = true →
  answers server query_all f query p → follows server query_all f query p ps →
  completes server (S (length ps)) (fetch_all fuel query_all a key).
Proof.
  intros Hf Hst Hc Hl Hq Hall Hp Hps. unfold fetch_all. rewrite Hq, Hall.
  by apply (fetch_list_completes _ server query_all f query fuel p ps s).
Qed.

Lemma no_await_store_value name a key v : no_await (store_value name a key v).
Proof.
  unfold store_value. apply no_await_bind; [by intros s0; destruct (QUERY _ _ _ s0)|intros _].
  apply no_await_bind; [by destruct (js_Boolean (arg_subscribe a))|by intros _ s0].
Qed.

Lemma no_await_query_error name e : no_await (query_error name e).
Proof. unfold query_error. by destruct (exn_message e). Qed.

Lemma query_action_completes server n name fetch payload a :
  destructure payload = Ok a → completes server n (fetch a (key_of a)) →
  completes server n (query_action name fetch payload).
Proof.
  intros Ha Hf. unfold query_action. rewrite Ha. change (of_result (Ok ?x) ≫= ?g) with (g x).
  cbv beta zeta. apply completes_catch.
  - eapply completes_mono; [|apply (completes_bind server n 0); [exact Hf|]]; [lia|].
    intros v. apply completes_no_await, no_await_store_value.
  - apply no_await_query_error.
Qed.

(** A query reads and writes the store only when its last answer is there. *)
Lemma query_action_one_shot server name fetch payload :
  (∀ a key, stateless (fetch a key)) → one_shot server (query_action name fetch payload).
Proof.
  intros Hf. unfold query_action. destruct (destructure payload) as [a|e]; [|done].
  change (of_result (Ok ?x) ≫= ?g) with (g x). cbv beta zeta.
  apply one_shot_catch; [|apply no_await_query_error].
  apply one_shot_bind; [apply Hf|intros v; apply no_await_store_value].
Qed.

Lemma refresh_one_shot server dispatch text :
  (∀ action payload, one_shot server (dispatch action payload)) →
  one_shot server (refresh dispatch text).
Proof.
  intros Hd. unfold refresh. apply one_shot_catch; [|intros e; by destruct (exn_message e)].
  repeat (apply one_shot_of_result; intros ?). apply Hd.
Qed.

(** ** Refreshing a subscription *)

Lemma js_Boolean_normalize v : js_Boolean (normalize v) = js_Boolean v.
Proof. by destruct v as [| | |[]| | |]. Qed.

Lemma plain_query_normalize q : plain_query q = true → plain_query (normalize q) = true.
Proof.
  intros H. pose proof (js_Boolean_normalize q) as Hb.
  destruct q as [| | |[]| | |]; simpl in *; congruence.
Qed.

Lemma json_key_text v : v ≠ Undefined → json_key v = JsonText.text v.
Proof. unfold json_key, JsonText.text. destruct v as [| | |[]| | |]; done. Qed.

Lemma kept_defined k v : v ≠ Undefined → kept (k, v) = true.
Proof. by destruct v. Qed.

(** Two objects whose members have the same texts have the same text. *)
Lemma text_cache_key k1 q1 k2 q2 :
  JsonText.text (Obj (object_of (spread k1))) = JsonText.text (Obj (object_of (spread k2))) → JsonText.text q1 = JsonText.text q2 →
  q1 ≠ Undefined → q2 ≠ Undefined →
  json_key (Obj (cache_key k1 q1)) = json_key (Obj (cache_key k2 q2)).
Proof.
  intros Hk Hq H1 H2. rewrite !json_key_text, !text_object by done. do 3 f_equal.
  unfold cache_key. cbn [List.filter]. rewrite !kept_defined by done.
  cbn [map]. unfold member_text. cbn [fst snd]. by rewrite Hk, Hq.
Qed.

(** The arguments a subscription is refreshed with. *)
Definition refresh_args (a : query_args) : query_args :=
  mkArgs Undefined (match a.(arg_all) with Undefined => Undefined | v => normalize v end)
    (normalize (Obj (object_of (spread (key_of a))))) (normalize a.(arg_query)).

Lemma refresh_key a : a.(arg_query) ≠ Undefined →
  json_key (Obj (cache_key (key_of (refresh_args a)) (refresh_args a).(arg_query))) =
    json_key (Obj (cache_key (key_of a) a.(arg_query))).
Proof.
  intros Hq. unfold refresh_args, key_of at 1. cbn [arg_params arg_query].
  set (fs := object_of (spread (key_of a))). rewrite normalized_members. cbn [is_nullish].
  apply text_cache_key; [..|done].
  - cbn [spread]. rewrite object_of_normalized.
    + by rewrite <- normalized_members, text_normalize.
    + apply ordered_filter, object_of_is_ordered.
  - apply text_normalize.
  - by destruct a.(arg_query) as [| | |[]| | |].
Qed.

(** The text of a subscription parses to the action and the arguments it was
    made with. *)
Lemma subscription_parses action a :
  let sub := subscription action a.(arg_all) (key_of a) a.(arg_query) in
  well_formed sub = true → a.(arg_query) ≠ Undefined →
  ∃ payload, parse (json_key sub) = Ok (Obj [("action", Str action); ("payload", payload)]) ∧
    destructure payload = Ok (refresh_args a).
Proof.
  intros sub Hwf Hq. assert (stringify sub = Some (json_key sub)) as Hs by done.
  pose proof (parse_stringify _ _ Hwf Hs) as Hp. unfold sub, subscription in *.
  rewrite normalized_members in Hp. cbn [List.filter kept snd map fst] in Hp.
  eexists. split; [exact Hp|]. clear.
  unfold refresh_args, destructure. cbn [normalize flat_map app snd fst].
  destruct (arg_all a) as [| | |[]| | |], (arg_query a) as [| | |[]| | |]; reflexivity.
Qed.

(** Refreshing writes the new value under the key of the original query and
    leaves the subscriptions as they are. *)
(** Refreshing it is the query with these arguments. *)
Lemma refresh_dispatches dispatch name a :
  let sub := subscription ("Query" +:+ name) a.(arg_all) (key_of a) a.(arg_query) in
  well_formed sub = true → a.(arg_query) ≠ Undefined →
  ∃ payload, destructure payload = Ok (refresh_args a) ∧
    refresh dispatch (json_key sub) =
      catch (dispatch ("Query" +:+ name) payload)
        (fun e => m ← of_result (exn_message e);
                  Throw (SpVuexError ["Subscriptions: " +:+ js_String m])).
Proof.
  intros sub Hwf Hu.
  destruct (subscription_parses ("Query" +:+ name) a Hwf Hu) as (payload & Hp & Ha).
  fold sub in Hp. exists payload. split; [done|]. unfold refresh. rewrite Hp. reflexivity.
Qed.

Lemma run_refresh server dispatch name fetch a s cache :
  let sub := subscription ("Query" +:+ name) a.(arg_all) (key_of a) a.(arg_query) in
  well_formed sub = true → plain_query a.(arg_query) = true →
  (∀ payload, dispatch ("Query" +:+ name) payload = query_action name fetch payload) →
  stateless (fetch (refresh_args a) (key_of (refresh_args a))) →
  s.(caches) !! name = Some cache →
  match (run server (fetch (refresh_args a) (key_of (refresh_args a))) s).2 with
  | Ok value =>
      run server (refresh dispatch (json_key sub)) s =
        (s <| caches := <[name := <[json_key (Obj (cache_key (key_of a) a.(arg_query))) := value]> cache]>
                          s.(caches) |>, Ok (or_empty value))
  | Err _ => ∃ e, run server (refresh dispatch (json_key sub)) s = (s, Err e)
  end.
Proof.
  intros sub Hwf Hq Hd Hst Hc.
  assert (a.(arg_query) ≠ Undefined) as Hu by (intros E; by rewrite E in Hq).
  destruct (refresh_dispatches dispatch name a Hwf Hu) as (payload & Ha & Hr). fold sub in Hr.
  rewrite Hr, run_catch, Hd, (run_query_action _ _ _ _ _ _ Ha Hst).
  destruct (run server (fetch _ _) s).2 as [value|e].
  - destruct (run_store_value server name (refresh_args a) (key_of (refresh_args a)) value s cache Hc)
      as (s' & -> & Hs'); [by apply plain_query_normalize|].
    destruct Hs' as (s1 & HQ & ->). cbn [refresh_args arg_subscribe js_Boolean].
    rewrite (QUERY_ok _ _ _ _ _ Hc) in HQ. injection HQ as <-. by rewrite refresh_key.
  - unfold query_error. rewrite run_bind, run_of_result.
    destruct (exn_message e) as [msg|e1]; cbn [run];
      rewrite run_bind, run_of_result; by destruct (exn_message _); eexists.
Qed.

(** ** Interleaved actions

    [explained h name k v]: the answers in [h] include those from which the
    fetch of the query [name], for arguments whose key is [k], returned [v]. *)
Section interleaving.
Variable fetchers : string → (query_args → js → task js) → Prop.
Hypothesis fetchers_stateless : ∀ name fetch a key, fetchers name fetch → stateless (fetch a key).

Definition explained (h : list (FetchCall * result Response)) (name k : string) (v : js) : Prop :=
  ∃ fetch a log, fetchers name fetch ∧ k = json_key (Obj (cache_key (key_of a) a.(arg_query))) ∧
    log ⊆ h ∧ replays (fetch a (key_of a)) log (Ok v).

Definition caches_explained (h : list (FetchCall * result Response)) (s : state) : Prop :=
  ∀ name cache k v, s.(caches) !! name = Some cache → cache !! k = Some v → explained h name k v.

Lemma caches_explained_grows h h' s : h ⊆ h' → caches_explained h s → caches_explained h' s.
Proof.
  intros Hh H name cache k v Hc Hv. destruct (H _ _ _ _ Hc Hv) as (f & a & log & ? & ? & ? & ?).
  exists f, a, log. split_and!; [done|done|set_solver|done].
Qed.

Lemma QUERY_explained h name key v s s' :
  caches_explained h s → explained h name (json_key key) v →
  QUERY name key v s = Ok s' → caches_explained h s'.
Proof.
  intros Hs Hv (cache & Hc & ->)%QUERY_lookup name' cache' k v'. simpl.
  intros [[<- <-]|[Hne Hc']]%lookup_insert_Some.
  - intros [[<- <-]|[_ ?]]%lookup_insert_Some; [done|]. by eapply Hs.
  - by eapply Hs.
Qed.

Lemma SUBSCRIBE_explained h sub s : caches_explained h s → caches_explained h (SUBSCRIBE sub s).
Proof. intros H name cache k v. rewrite SUBSCRIBE_caches. apply H. Qed.

(** The subscriptions are distinct texts that the query actions made. *)
Definition subs_known (s : state) : Prop :=
  NoDup s.(Subscriptions) ∧
  ∀ t, t ∈ s.(Subscriptions) → ∃ name fetch all key query,
    fetchers name fetch ∧ t = json_key (subscription ("Query" +:+ name) all key query).

Lemma SUBSCRIBE_known name fetch all key query s :
  fetchers name fetch → subs_known s →
  subs_known (SUBSCRIBE (subscription ("Query" +:+ name) all key query) s).
Proof.
  intros Hf [Hn Hs]. split; [by apply SUBSCRIBE_NoDup|].
  intros t [->|Ht]%SUBSCRIBE_elem; [|by apply Hs]. by exists name, fetch, all, key, query.
Qed.

Lemma UNSUBSCRIBE_known sub s : subs_known s → subs_known (UNSUBSCRIBE sub s).
Proof.
  intros [Hn Hs]. split; [by apply UNSUBSCRIBE_NoDup|].
  intros t [_ Ht]%UNSUBSCRIBE_elem. by apply Hs.
Qed.

(** What holds of the store at every await. *)
Definition store_inv (h : list (FetchCall * result Response)) (s : state) : Prop :=
  caches_explained h s ∧ subs_known s.

Lemma store_inv_grows h h' s : h ⊆ h' → store_inv h s → store_inv h' s.
Proof. intros Hh [Hc Hs]. split; [by eapply caches_explained_grows|done]. Qed.

Abbreviation keeps := (fun (_ h : list (FetchCall * result Response)) (_ : result js) (s : state) =>
  store_inv h s).

Lemma wp_query_error own h name e s :
  store_inv h s → wp store_inv own h (query_error name e) s keeps.
Proof. intros H. unfold query_error. by destruct (exn_message e). Qed.

Lemma wp_store_value own h name fetch a v s :
  fetchers name fetch → own ⊆ h → replays (fetch a (key_of a)) own (Ok v) →
  store_inv h s →
  wp store_inv own h (store_value name a (key_of a) v) s keeps.
Proof.
  intros Hf Hown Hr Hs. unfold store_value. apply wp_bind. simpl.
  destruct (QUERY name _ v s) as [s1|e] eqn:HQ; [|done]. simpl.
  assert (store_inv h s1) as [Hc Hk].
  { destruct Hs as [Hc Hk]. split; [eapply QUERY_explained; eauto; by exists fetch, a, own|].
    by apply QUERY_lookup in HQ as (cache & _ & ->). }
  apply wp_bind. destruct (js_Boolean (arg_subscribe a)); simpl; [|done].
  split; [by apply SUBSCRIBE_explained|by eapply SUBSCRIBE_known].
Qed.

Lemma wp_query_action h name fetch payload s :
  fetchers name fetch → store_inv h s →
  wp store_inv [] h (query_action name fetch payload) s keeps.
Proof.
  intros Hf Hs. unfold query_action. destruct (destructure payload) as [a|e]; [|done].
  cbn [of_result]. change (Ret ?x ≫= ?g) with (g x). cbv beta zeta. fold (key_of a).
  apply wp_catch, wp_bind. eapply wp_mono; [|by apply wp_replay; eauto with set_solver].
  simpl. intros own h' r s' (log & -> & Hsub & Hs' & Hr). simpl in Hr, Hsub |- *.
  destruct r as [v|e]; [|by apply wp_query_error].
  eapply wp_mono; [|by eapply wp_store_value].
  intros own' h'' [w|e] s''; [done|]. by apply wp_query_error.
Qed.

(** The actions that touch the state: queries, refreshed subscriptions,
    [resetState] and [unsubscribe]. *)
Inductive action_task (default : state) : task js → Prop :=
| task_query name fetch payload :
    fetchers name fetch → action_task default (query_action name fetch payload)
| task_refresh dispatch text :
    (∀ action payload,
       (∃ name fetch, fetchers name fetch ∧ dispatch action payload = query_action name fetch payload) ∨
       dispatch action payload = Ret Undefined) →
    action_task default (refresh dispatch text)
| task_reset : action_task default (Get (fun s => Put (RESET_STATE default s) (Ret Undefined)))
| task_unsubscribe sub : action_task default (Get (fun s => Put (UNSUBSCRIBE sub s) (Ret Undefined))).

Lemma wp_refresh h dispatch text s :
  (∀ action payload,
     (∃ name fetch, fetchers name fetch ∧ dispatch action payload = query_action name fetch payload) ∨
     dispatch action payload = Ret Undefined) →
  store_inv h s → wp store_inv [] h (refresh dispatch text) s keeps.
Proof.
  intros Hd Hs. unfold refresh.
  assert (∀ own h' e s', store_inv h' s' →
    wp store_inv own h' (m ← of_result (exn_message e);
      Throw (SpVuexError ["Subscriptions: " +:+ js_String m])) s' keeps) as Herr.
  { intros own h' e s' H. by destruct (exn_message e). }
  apply wp_catch. destruct (parse text) as [sub|e]; [|by apply Herr]. simpl.
  destruct (get sub "action") as [action|e]; [|by apply Herr]. simpl.
  destruct (get sub "payload") as [payload|e]; [|by apply Herr]. simpl.
  destruct (Hd (js_String action) payload) as [(name & fetch & Hf & ->)| ->]; [|done].
  eapply wp_mono; [|by apply wp_query_action].
  intros own h' [v|e] s'; [done|]. by apply Herr.
Qed.

Lemma wp_action_task default h p s :
  store_inv [] default → action_task default p → store_inv h s →
  wp store_inv [] h p s keeps.
Proof.
  intros Hdef [name fetch payload Hf|dispatch text Hd| |sub] Hs.
  - by apply wp_query_action.
  - by apply wp_refresh.
  - simpl. eapply store_inv_grows; [|exact Hdef]. set_solver.
  - simpl. destruct Hs as [Hc Hk]. split; [exact Hc|by apply UNSUBSCRIBE_known].
Qed.

End interleaving.

End actions.

(** ** Tables of a store *)

(** The query actions of the caches [fs], each made by [act]. *)
Definition action_table {F A : Type} (act : string → F → A) (fs : list (string * F))
    : list (string * A) :=
  map (fun entry => ("Query" +:+ entry.1, act entry.1 entry.2)) fs.

Lemma assoc_action_table {F A : Type} (act : string → F → A) fs name fetch :
  NoDup fs.*1 → (name, fetch) ∈ fs →
  assoc ("Query" +:+ name) (action_table act fs) = Some (act name fetch).
Proof.
  induction fs as [|[name' fetch'] fs IH]; intros Hnd Hin; [by apply elem_of_nil in Hin|].
  inversion_clear Hnd as [|? ? Hn Hnd'].
  change (action_table act ((name', fetch') :: fs)) with
    (("Query" +:+ name', act name' fetch') :: action_table act fs). cbn [assoc].
  apply elem_of_cons in Hin as [[= -> ->]|Hin]; [by rewrite String.eqb_refl|].
  destruct (String.eqb_spec ("Query" +:+ name) ("Query" +:+ name')) as [Heq|_]; [|by apply IH].
  apply string_app_inv_head in Heq as ->. destruct Hn.
  apply list_elem_of_fmap. by exists (name', fetch).
Qed.

Lemma assoc_action_table_inv {F A : Type} (act : string → F → A) fs action x :
  assoc action (action_table act fs) = Some x →
  ∃ name fetch, (name, fetch) ∈ fs ∧ x = act name fetch.
Proof.
  induction fs as [|[name fetch] fs IH]; [done|]. csimpl.
  destruct (String.eqb action _); [intros [= <-]|intros H].
  - exists name, fetch. split; [left|done].
  - destruct (IH H) as (n & f & Hin & ->). exists n, f. split; [by right|done].
Qed.

Lemma NoDup_fst_inj {A : Type} (l : list (string * A)) k v1 v2 :
  NoDup l.*1 → (k, v1) ∈ l → (k, v2) ∈ l → v1 = v2.
Proof.
  intros Hnd H1 H2. apply (elem_of_list_to_map_1 (M := gmap string) l k v1 Hnd) in H1.
  apply (elem_of_list_to_map_1 (M := gmap string) l k v2 Hnd) in H2. congruence.
Qed.

(** The caches of an initial state. *)
Definition empty_caches (names : list string) : gmap string (gmap string js) :=
  list_to_map ((fun name => (name, ∅)) <$> names).

Lemma empty_caches_lookup names name : name ∈ names → empty_caches names !! name = Some ∅.
Proof.
  unfold empty_caches. induction names as [|n names IH]; intros H; [by apply elem_of_nil in H|]. csimpl.
  destruct (decide (n = name)) as [->|Hne]; [apply lookup_insert_eq|].
  rewrite lookup_insert_ne by done. apply IH. set_solver.
Qed.

Lemma empty_caches_empty names name cache : empty_caches names !! name = Some cache → cache = ∅.
Proof.
  intros Hc. apply elem_of_list_to_map_2 in Hc.
  by apply list_elem_of_fmap in Hc as (n & [= -> ->] & _).
Qed.
