(* ===== verification/TxClient.v ===== *)
(** * What the transaction clients of every module share

    module/index.js of a module has a table of message types, functions that
    build a message of each type, and [txClient], which closes over a signing
    client; index.js has two actions per message type that use them.  The
    signing client and the wallet come from the CosmJS packages, which are not
    part of the repository: they are the class [Cosmjs], whose operations the
    model takes as they come.  The text of these functions is the same in
    every module, up to the message types; [Msg] is the type of a module's
    messages. *)
From S2P Require Import Prelude Js Protobuf Codec Fallible JsonText Uri Async RestClient ApiRoutes VuexStore.
Open Scope Z_scope.

(** ** Messages *)

(** What a message constructor returns. *)
Record EncodeObject (Msg : Type) := mkEncode { typeUrl : string; value : Msg }.
Arguments mkEncode {Msg} typeUrl value.
Arguments typeUrl {Msg} _.
Arguments value {Msg} _.

(** [data] as passed to a message constructor: [undefined] or an object; the
    first property [fromPartial] reads is [first]. *)
Definition from_partial {P T : Type} (first : string) (fromPartial : P → T) (data : option P)
    : result T :=
  match data with
  | Some d => Ok (fromPartial d)
  | None => get Undefined first ≫= fun _ => Err Unmodelled
  end.

(** The functions of a message type that the registry uses: [encode], which is
    only given messages of its own type and may throw, and [decode]. *)
Record GeneratedType (Msg : Type) := mkType {
  type_encode : Msg → option (result bytes);
  type_decode : bytes → result Msg;
}.
Arguments mkType {Msg} type_encode type_decode.
Arguments type_encode {Msg} _ _.
Arguments type_decode {Msg} _ _.

(** ** The signing client *)

Record StdFee := mkFee { amount : list js; gas : string }.

Definition defaultFee : StdFee := mkFee [] "200000".

(** A registry and a client are for messages of one type: that of the messages
    the types in the registry encode. *)
Class Cosmjs := {
  Wallet : Type;
  TypeRegistry : Type → Type;
  Client : Type → Type;
  (* new Registry(types) *)
  newRegistry : ∀ {Msg : Type}, list (string * GeneratedType Msg) → TypeRegistry Msg;
  (* SigningStargateClient.connectWithSigner(addr, wallet, { registry }), .offline *)
  connectWithSigner : ∀ {Msg : Type}, js → Wallet → TypeRegistry Msg → result (Client Msg);
  offline : ∀ {Msg : Type}, Wallet → TypeRegistry Msg → result (Client Msg);
  (* the addresses of (await wallet.getAccounts()) *)
  getAccounts : Wallet → result (list string);
  (* client.signAndBroadcast(address, msgs, fee, memo) *)
  broadcast : ∀ {Msg : Type}, Client Msg → string → list (EncodeObject Msg) → StdFee → string → result js;
}.

Section client.
Context {CJ : Cosmjs}.

(** The object [txClient] returns, as the client and the address it closes
    over; its message constructors are functions of the module. *)
Record TxClient (Msg : Type) := mkTxClient { client : Client Msg; address : string }.
Arguments mkTxClient {Msg} client address.
Arguments client {Msg} _.
Arguments address {Msg} _.

(** [registry] is the constant of the module. *)
Definition txClient {Msg : Type} (registry : TypeRegistry Msg) (wallet : option Wallet)
    (options : option js) : result (TxClient Msg) :=
  match wallet with
  | None => Err MissingWalletError
  | Some wallet =>
      addr ← Ok (options ?? Str "http://localhost:26657");
      client ← (if js_Boolean addr then connectWithSigner addr wallet registry
                else offline wallet registry);
      accounts ← getAccounts wallet;
      match accounts with
      | address :: _ => Ok (mkTxClient client address)
      | [] => Err (TypeError "Cannot destructure property 'address' of 'undefined'")
      end
  end.

(** [{ fee, memo } = { fee: defaultFee, memo: "" }] *)
Definition signAndBroadcast {Msg : Type} (c : TxClient Msg) (msgs : list (EncodeObject Msg))
    (options : option (StdFee * string)) : result js :=
  let (fee, memo) := options ?? (defaultFee, "") in
  broadcast c.(client) c.(address) msgs fee memo.

(** What a module's store reads of the other modules of the application. *)
Record root_getters := mkGetters {
  apiCosmos : js;                    (* common/env/apiCosmos *)
  apiTendermint : js;                (* common/env/apiTendermint *)
  signer : option Wallet;            (* common/wallet/signer *)
}.

Definition initTxClient {Msg : Type} (registry : TypeRegistry Msg) (rootGetters : root_getters)
    : result (TxClient Msg) :=
  txClient registry rootGetters.(signer) (Some rootGetters.(apiTendermint)).

(** [queryClient({ addr } = { addr: "http://localhost:1317" })] *)
Definition queryClient (options : option js) : HttpClient :=
  newApi (options ?? Str "http://localhost:1317").

Definition initQueryClient (rootGetters : root_getters) : HttpClient :=
  queryClient (Some rootGetters.(apiCosmos)).

(** ** The transaction actions of a store *)

Context {SV : SpVuex}.

(** The [catch] of a transaction action. *)
Definition tx_error {A : Type} (name phase text : string) (e : exn) : result A :=
  match e with
  | MissingWalletError =>
      Err (SpVuexError ["TxClient:" +:+ name +:+ ":Init";
                        "Could not initialize signing client. Wallet is required."])
  | e =>
      m ← exn_message e;
      Err (SpVuexError ["TxClient:" +:+ name +:+ ":" +:+ phase; text +:+ js_String m])
  end.

(** [{ value, fee = [], memo = '' }] *)
Record send_args (P : Type) := mkSend {
  send_value : option P;
  send_fee : option (list js);
  send_memo : option string;
}.
Arguments mkSend {P} send_value send_fee send_memo.
Arguments send_value {P} _.
Arguments send_fee {P} _.
Arguments send_memo {P} _.

Section actions.
Context {Msg P : Type} (rootGetters : root_getters) (registry : TypeRegistry Msg).

Definition send_msg (name : string) (create : option P → result (EncodeObject Msg))
    (args : send_args P) : result js :=
  try_catch
    (txClient ← initTxClient registry rootGetters;
     msg ← create args.(send_value);
     signAndBroadcast txClient [msg]
       (Some (mkFee (args.(send_fee) ?? []) "200000", args.(send_memo) ?? "")))
    (tx_error name "Send" "Could not broadcast Tx: ").

Definition create_msg (name : string) (create : option P → result (EncodeObject Msg))
    (value : option P) : result (EncodeObject Msg) :=
  try_catch (_ ← initTxClient registry rootGetters; create value)
    (tx_error name "Create" "Could not create message: ").

(** ** What the actions do *)

(** What the action that sends a message of type [name] does: without a wallet
    it fails in its own way; with one it broadcasts, from the first account of
    the wallet and with a client that has the registry, the one message [built]
    from the given data, with the given fee and the fixed gas limit; a failure is
    reported with its message. *)
Definition sends_as (name : string) (built : P → EncodeObject Msg)
    (act : send_args P → result js) : Prop :=
  (rootGetters.(signer) = None → ∀ args,
     act args = Err (SpVuexError ["TxClient:" +:+ name +:+ ":Init";
                                  "Could not initialize signing client. Wallet is required."])) ∧
  (∀ w client addr accounts args d,
     rootGetters.(signer) = Some w →
     (if js_Boolean rootGetters.(apiTendermint)
      then connectWithSigner rootGetters.(apiTendermint) w registry else offline w registry) = Ok client →
     getAccounts w = Ok (addr :: accounts) → args.(send_value) = Some d →
     act args =
       match broadcast client addr [built d] (mkFee (args.(send_fee) ?? []) "200000")
               (args.(send_memo) ?? "") with
       | Ok r => Ok r
       | Err e => tx_error name "Send" "Could not broadcast Tx: " e
       end).

(** What the action that builds a message without sending it does; [first] is
    the property whose absence is reported when there is no data. *)
Definition creates_as (name first : string) (built : P → EncodeObject Msg)
    (act : option P → result (EncodeObject Msg)) : Prop :=
  (rootGetters.(signer) = None → ∀ value,
     act value = Err (SpVuexError ["TxClient:" +:+ name +:+ ":Init";
                                   "Could not initialize signing client. Wallet is required."])) ∧
  (∀ c, initTxClient registry rootGetters = Ok c →
     (∀ d, act (Some d) = Ok (built d)) ∧
     act None =
       Err (SpVuexError ["TxClient:" +:+ name +:+ ":Create";
         "Could not create message: " +:+
         ("Cannot read properties of undefined (reading '" +:+ first +:+ "')")])).

(** A message constructor: it builds a message from any data and throws when
    there is none. *)
Definition constructs (first : string) (built : P → EncodeObject Msg)
    (create : option P → result (EncodeObject Msg)) : Prop :=
  (∀ d, create (Some d) = Ok (built d)) ∧
  create None = Err (TypeError ("Cannot read properties of undefined (reading '" +:+ first +:+ "')")).

Lemma send_msg_sends name first built create :
  constructs first built create → sends_as name built (send_msg name create).
Proof.
  intros [Hc _]. split.
  - intros Hs args. unfold send_msg, initTxClient, txClient. by rewrite Hs.
  - intros w cl addr accounts args d Hs Hcl Hg Hd.
    assert (initTxClient registry rootGetters = Ok (mkTxClient cl addr)) as Hi.
    { unfold initTxClient, txClient. rewrite Hs. cbn [nullish default id].
      change (Ok ?x ≫= ?f) with (f x). cbv beta. rewrite Hcl.
      change (Ok ?x ≫= ?f) with (f x). cbv beta. by rewrite Hg. }
    unfold send_msg. rewrite Hi. change (Ok ?x ≫= ?f) with (f x). cbv beta.
    rewrite Hd, Hc. reflexivity.
Qed.

Lemma create_msg_creates name first built create :
  constructs first built create → creates_as name first built (create_msg name create).
Proof.
  intros [Hc Hn]. split.
  - intros Hs value. unfold create_msg, initTxClient, txClient. by rewrite Hs.
  - intros c Hi. unfold create_msg. rewrite Hi. change (Ok ?x ≫= ?f) with (f x). cbv beta.
    split; [intros d; by rewrite Hc|]. by rewrite Hn.
Qed.

End actions.
End client.

Arguments mkTxClient {CJ Msg} client address.
Arguments client {CJ Msg} _.
Arguments address {CJ Msg} _.

Arguments mkSend {P} send_value send_fee send_memo.
Arguments send_value {P} _.
Arguments send_fee {P} _.
Arguments send_memo {P} _.

(** ** What a type table guarantees *)

(** The message is of a type of the table, under its own URL: the registry can
    encode it, and reads back [normal] of it. *)
Definition registered {Msg : Type} (types : list (string * GeneratedType Msg)) (normal : Msg → Msg)
    (o : EncodeObject Msg) : Prop :=
  ∃ T b, assoc o.(typeUrl) types = Some T ∧ type_encode T o.(value) = Some (Ok b) ∧
         type_decode T b = Ok (normal o.(value)).

(** The client was made with the registry of these types. *)
Definition made_with {CJ : Cosmjs} {Msg : Type} (types : list (string * GeneratedType Msg))
    (client : Client Msg) : Prop :=
  (∃ addr w, connectWithSigner addr w (newRegistry types) = Ok client) ∨
  (∃ w, offline w (newRegistry types) = Ok client).

(** What a signing client does with the registry it was made with: messages of
    registered types are encoded, each by the type of its URL, and the encodings
    are signed and submitted with the fee and the memo. *)
Class Delivery {CJ : Cosmjs} (Msg : Type) := {
  submit : Client Msg → string → list (string * bytes) → StdFee → string → result js;
  broadcast_submits types client addr (msgs : list (EncodeObject Msg)) bodies fee memo :
    made_with types client →
    Forall2 (fun o body => ∃ T, assoc o.(typeUrl) types = Some T ∧ body.1 = o.(typeUrl) ∧
               type_encode T o.(value) = Some (Ok body.2)) msgs bodies →
    broadcast client addr msgs fee memo = submit client addr bodies fee memo;
}.

(** ** The transaction actions of a module as a table *)

(** A message type of a module: its name, the data its messages are built
    from, the first property [fromPartial] reads, the message built from given
    data, and the three functions about it: [msgX] of module/index.js, and the
    actions [sendMsgX] and [MsgX] of index.js. *)
Record tx_action (Msg : Type) := mkTxAction {
  tx_name : string;
  tx_data : Type;
  tx_first : string;
  tx_built : tx_data → EncodeObject Msg;
  tx_construct : option tx_data → result (EncodeObject Msg);
  tx_send : send_args tx_data → result js;
  tx_make : option tx_data → result (EncodeObject Msg);
}.
Arguments mkTxAction {Msg} tx_name {tx_data} tx_first tx_built tx_construct tx_send tx_make.
Arguments tx_name {Msg} _.
Arguments tx_data {Msg} _.
Arguments tx_first {Msg} _.
Arguments tx_built {Msg} _ _.
Arguments tx_construct {Msg} _ _.
Arguments tx_send {Msg} _ _.
Arguments tx_make {Msg} _ _.

(** What a module promises about each: the actions use the constructor and the
    registry of the module's types, and a message the constructor builds is
    registered if it [fits]. *)
Record tx_lawful {CJ : Cosmjs} {SV : SpVuex} {Msg : Type} (rootGetters : root_getters)
    (types : list (string * GeneratedType Msg)) (normal : Msg → Msg) (fits : Msg → Prop)
    (A : tx_action Msg) : Prop := {
  tx_constructs : constructs A.(tx_first) A.(tx_built) A.(tx_construct);
  tx_sends : A.(tx_send) =
    send_msg rootGetters (newRegistry types) A.(tx_name) A.(tx_construct);
  tx_makes : A.(tx_make) =
    create_msg rootGetters (newRegistry types) A.(tx_name) A.(tx_construct);
  tx_registered d : fits (A.(tx_built) d).(value) → registered types normal (A.(tx_built) d);
}.

Section tables.
Context {PB : Protobuf} {PS : ProtobufSpec PB} {Msg T : Type}.
Variables (types : list (string * GeneratedType Msg)) (normal : Msg → Msg).
Variables (url : string) (V : T → Msg) (ty : GeneratedType Msg).

Lemma registered_plain {C : MessageCodec T} {MS : MessageSpec PS T} m :
  assoc url types = Some ty →
  type_encode ty (V m) = Some (Ok (finish (msg_encode m create))) →
  (∀ b, type_decode ty b = V <$> decode_bytes msg_decode b) →
  normal (V m) = V m →
  msg_valid m ∧ small (msg_wire m) → registered types normal (mkEncode url (V m)).
Proof.
  intros Ha He Hd Hn Hm. exists ty. eexists. split_and!; [done..|]. simpl.
  by rewrite Hd, Hn, (codec_round_trip m).
Qed.

Lemma registered_fallible {C : FallibleCodec T} {MS : FallibleSpec PS T} m :
  assoc url types = Some ty →
  type_encode ty (V m) = Some (finish <$> fmsg_encode m create) →
  (∀ b, type_decode ty b = V <$> decode_bytes fmsg_decode b) →
  normal (V m) = V (fmsg_normal m) → fmsg_typed m = true →
  fmsg_valid m ∧ small (fmsg_wire m) → registered types normal (mkEncode url (V m)).
Proof.
  intros Ha He Hd Hn Ht Hm. destruct (fcodec_round_trip m) as (w & Hw & Hr); [by split|].
  exists ty. eexists. split_and!; [done|..]; simpl; [by rewrite He, Hw|].
  by rewrite Hd, Hr, Hn.
Qed.
End tables.

(** One row of a table. *)
Ltac solve_tx_lawful :=
  split;
  [ split; [intros d|]; reflexivity
  | reflexivity | reflexivity
  | let d := fresh "d" in let H := fresh "H" in
    intros d H; simpl in H |- *;
    first
      [ eapply registered_plain; [reflexivity|reflexivity|reflexivity|reflexivity|exact H]
      | eapply registered_fallible;
        [reflexivity|reflexivity|reflexivity|reflexivity| |exact H];
        match goal with |- @fmsg_typed _ _ ?T _ _ (_ ?d) = true =>
          let P := type of d in exact (@ffromPartial_given T P _ d)
        end ] ].

Ltac solve_tx_laws := repeat (apply List.Forall_cons; [solve_tx_lawful|]); apply List.Forall_nil.
