(* ===== verification/StoreModule.v ===== *)
(** * The interface of a module's store

    Every module of the client has the same store, up to its queries: a cache
    and an action per query, and the actions [init], [resetState],
    [unsubscribe] and [StoreUpdate].  [StoreModule] is what a module's
    index.js defines; [StoreLaws] is what it promises.  The lemmas of this
    file, about what the queries do to the store, alone and interleaved, are
    proved against the interface and hold for each module that implements
    it. *)
From S2P Require Import Prelude Js Protobuf JsonText Uri Async RestClient ApiRoutes Pages VuexStore TxClient.
Open Scope Z_scope.

Section interface.
Context {SV : SpVuex}.
Abbreviation task := (proc FetchCall Response state).

Record StoreModule := mkModule {
  cache_names : list string;
  fetchers : list (string * (query_args → js → task js));   (* by the name of the cache *)
  query_actions : list (string * (js → task js));           (* by the name of the action *)
  list_queries : list (string * (js → task HttpResponse));  (* the queries that have pages *)
  max_pages : nat;                 (* the number of further pages a list query may ask for *)
  getDefaultState : state;
}.

(** [dispatch(action, payload)] of a query action; an action Vuex does not
    know gives [undefined]. *)
Definition dispatch (M : StoreModule) (action : string) (payload : js) : task js :=
  match assoc action M.(query_actions) with
  | Some act => act payload
  | None => Ret Undefined
  end.

Definition resetState (M : StoreModule) : task js :=
  Get (fun s => Put (RESET_STATE M.(getDefaultState) s) (Ret Undefined)).

Definition unsubscribe (subscription : js) : task js :=
  Get (fun s => Put (UNSUBSCRIBE subscription s) (Ret Undefined)).

(** [init]: a listener is added to the node client, when there is one. *)
Definition init (client : option (list (string * string))) : option (list (string * string)) :=
  (fun listeners => listeners ++ [("newblock", "StoreUpdate")]) <$> client.

(** ** What a fetch is made of *)

Lemma stateless_request c p : stateless (request (S := state) c p).
Proof.
  unfold request. destruct (request_start c p) as [call c']. auto with dcl.
Qed.

Lemma completes_request server c p : completes server 1 (request (S := state) c p).
Proof.
  unfold request. destruct (request_start c p) as [call c'].
  apply (completes_bind server 1 0); auto with dcl.
Qed.

(** Without [all] a list query is one request. *)
Lemma completes_fetch_first server fuel query_all a key :
  (∀ q, completes server 1 (query_all q)) → js_Boolean a.(arg_all) = false →
  completes server 1 (fetch_all fuel query_all a key).
Proof. intros Hq Hall. unfold fetch_all. rewrite Hall. by apply completes_first_page. Qed.

Lemma stateless_fetch_all fuel query_all a key :
  (∀ q, stateless (query_all q)) → stateless (fetch_all fuel query_all a key).
Proof. intros Hq. by apply stateless_fetch_list. Qed.

(** The key of a call is never [null] or [undefined], so reading its
    properties does not throw. *)
Lemma get_key a k : ∃ v, get (key_of a) k = Ok v.
Proof.
  unfold key_of. destruct (is_nullish (arg_params a)) eqn:E; [by eexists|].
  destruct (arg_params a); try discriminate E; by eexists.
Qed.

(** A task that throws a response without a message when the server refuses
    every request. *)
Definition refused {A : Type} (server : FetchCall → result Response) (p : task A) (s : state) : Prop :=
  ∃ v, (run server p s).2 = Err (Thrown v) ∧ get v "message" = Ok Undefined.

Definition refuses (server : FetchCall → result Response) : Prop :=
  ∀ call, ∃ r, server call = Ok r ∧ r.(ok) = false.

Lemma refused_request {A : Type} server c p (f : HttpResponse → task A) s :
  refuses server → refused server (request c p ≫= f) s.
Proof.
  intros Hs. unfold refused, request. destruct (request_start c p) as [call c'].
  rewrite !run_bind, run_await. destruct (Hs call) as (r & -> & Hr).
  rewrite run_of_result. unfold request_finish. simpl. rewrite Hr. eexists. split; reflexivity.
Qed.

Lemma refused_get {A : Type} server a k (f : js → task A) s :
  (∀ v, refused server (f v) s) → refused server (of_result (get (key_of a) k) ≫= f) s.
Proof. intros Hf. destruct (get_key a k) as [v Hv]. rewrite Hv. exact (Hf v). Qed.

(** ** What a module promises *)

Definition fetcher_of (M : StoreModule) (name : string) (fetch : query_args → js → task js) : Prop :=
  (name, fetch) ∈ M.(fetchers).

Class StoreLaws (M : StoreModule) : Prop := {
  (* every query action runs the fetch of its cache, and there are no others *)
  dispatch_fetcher name fetch payload :
    fetcher_of M name fetch →
    dispatch M ("Query" +:+ name) payload = query_action name fetch payload;
  dispatch_known action payload :
    (∃ name fetch, fetcher_of M name fetch ∧
       dispatch M action payload = query_action name fetch payload) ∨
    dispatch M action payload = Ret Undefined;
  fetcher_cached name fetch : fetcher_of M name fetch → name ∈ M.(cache_names);
  fetcher_unique name fetch1 fetch2 :
    fetcher_of M name fetch1 → fetcher_of M name fetch2 → fetch1 = fetch2;
  list_query_fetcher name query_all :
    (name, query_all) ∈ M.(list_queries) → fetcher_of M name (fetch_all M.(max_pages) query_all);
  (* a fetch does not touch the store, and fails when the server refuses *)
  fetcher_stateless name fetch a key : fetcher_of M name fetch → stateless (fetch a key);
  fetch_refused server name fetch a s :
    refuses server → fetcher_of M name fetch → refused server (fetch a (key_of a)) s;
  (* a query is one request, but for the further pages of a list *)
  fetch_completes server name fetch a key :
    fetcher_of M name fetch → js_Boolean a.(arg_all) = false ∨ name ∉ M.(list_queries).*1 →
    completes server 1 (fetch a key);
  list_query_completes server name query_all q :
    (name, query_all) ∈ M.(list_queries) → completes server 1 (query_all q) ∧ stateless (query_all q);
  (* at first the caches are there and empty, and nothing is subscribed to *)
  default_caches name : name ∈ M.(cache_names) → M.(getDefaultState).(caches) !! name = Some ∅;
  default_empty name cache : M.(getDefaultState).(caches) !! name = Some cache → cache = ∅;
  default_subscriptions : M.(getDefaultState).(Subscriptions) = [];
}.

(** ** Queries and the cache *)

Section laws.
Context (M : StoreModule) {L : StoreLaws M}.

Lemma run_dispatch_stores server name fetch payload a s cache value :
  fetcher_of M name fetch → destructure payload = Ok a → plain_query a.(arg_query) = true →
  s.(caches) !! name = Some cache →
  (run server (fetch a (key_of a)) s).2 = Ok value →
  ∃ s', run server (dispatch M ("Query" +:+ name) payload) s = (s', Ok (or_empty value)) ∧
        get_cached name s' (Some (cache_key (key_of a) a.(arg_query))) = or_empty value ∧
        stored name a (key_of a) value s s'.
Proof.
  intros Hf Ha Hq Hc Hv. rewrite (dispatch_fetcher _ _ _ Hf).
  rewrite (run_query_action _ _ _ _ _ _ Ha (fetcher_stateless _ _ _ _ Hf)), Hv.
  destruct (run_store_value server name a (key_of a) value s cache Hc Hq) as (s' & Hr & Hs').
  exists s'. rewrite Hr. split_and!; [done| |done].
  destruct Hs' as (s1 & HQ & ->). rewrite (QUERY_ok _ _ _ _ _ Hc) in HQ. injection HQ as <-.
  set (cache' := <[json_key (Obj (cache_key (key_of a) (arg_query a))) := value]> cache).
  rewrite (get_cached_spec _ _ _ _ cache').
  - rewrite plain_query_key by done. unfold cache'. by rewrite lookup_insert_eq.
  - destruct (js_Boolean (arg_subscribe a)); rewrite ?SUBSCRIBE_caches; simpl; apply lookup_insert_eq.
Qed.

Lemma run_dispatch_atomic server action payload s s' e :
  (∀ name, name ∈ M.(cache_names) → is_Some (s.(caches) !! name)) →
  run server (dispatch M action payload) s = (s', Err e) → s' = s.
Proof.
  intros Hc Hr. destruct (dispatch_known action payload) as [(name & fetch & Hf & Hd)|Hd];
    rewrite Hd in Hr; [|by simplify_eq/=].
  assert (name ∈ M.(cache_names)) as Hn by by eapply fetcher_cached.
  destruct (destructure payload) as [a|e'] eqn:Ha.
  2: { unfold query_action in Hr. rewrite Ha in Hr. by simplify_eq/=. }
  rewrite (run_query_action _ _ _ _ _ _ Ha (fetcher_stateless _ _ _ _ Hf)) in Hr.
  destruct (run server (fetch a (key_of a)) s).2 as [value|e'].
  - destruct (Hc _ Hn) as [cache Hcache].
    unfold store_value in Hr. rewrite run_bind in Hr.
    erewrite run_commit in Hr by by apply QUERY_ok.
    rewrite run_bind in Hr. by destruct (js_Boolean (arg_subscribe a)).
  - unfold query_error in Hr. by destruct (exn_message e') in Hr; simplify_eq/=.
Qed.

Lemma run_dispatch_refused server name fetch payload a s :
  fetcher_of M name fetch → destructure payload = Ok a → refuses server →
  run server (dispatch M ("Query" +:+ name) payload) s =
    (s, Err (SpVuexError ["QueryClient:Query" +:+ name;
                          "API Node Unavailable. Could not perform query: undefined"])).
Proof.
  intros Hf Ha Hserver. rewrite (dispatch_fetcher _ _ _ Hf).
  rewrite (run_query_action _ _ _ _ _ _ Ha (fetcher_stateless _ _ _ _ Hf)).
  destruct (fetch_refused server name fetch a s Hserver Hf) as (v & -> & Hv).
  unfold query_error. simpl. by rewrite Hv.
Qed.

Lemma run_dispatch_pages server name query_all f payload a s cache p ps :
  (name, query_all) ∈ M.(list_queries) → destructure payload = Ok a →
  plain_query a.(arg_query) = true → js_Boolean a.(arg_all) = true →
  s.(caches) !! name = Some cache → f ≠ "pagination" → (length ps <= M.(max_pages))%nat →
  answers server query_all f a.(arg_query) p → follows server query_all f a.(arg_query) p ps →
  ∃ s', run server (dispatch M ("Query" +:+ name) payload) s =
          (s', Ok (page_value f (concat (map items (p :: ps))) (List.last ps p).(pagination))) ∧
        stored name a (key_of a)
          (page_value f (concat (map items (p :: ps))) (List.last ps p).(pagination)) s s'.
Proof.
  intros Hl%list_query_fetcher Ha Hq Hall Hc Hf Hlen Hp Hps.
  rewrite (dispatch_fetcher _ _ _ Hl).
  rewrite (run_query_action _ _ _ _ _ _ Ha (fetcher_stateless _ _ _ _ Hl)).
  rewrite (fetch_all_spec server query_all f (arg_query a) M.(max_pages) p ps) by done.
  cbn [snd]. destruct (run_store_value server name a (key_of a)
    (page_value f (concat (map items (p :: ps))) (pagination (List.last ps p))) s cache Hc Hq)
    as (s' & Hr & Hs'). exists s'. by rewrite Hr.
Qed.

Lemma run_refresh_task server name fetch a s cache :
  fetcher_of M name fetch →
  let sub := subscription ("Query" +:+ name) a.(arg_all) (key_of a) a.(arg_query) in
  well_formed sub = true → plain_query a.(arg_query) = true →
  s.(caches) !! name = Some cache →
  match (run server (fetch (refresh_args a) (key_of (refresh_args a))) s).2 with
  | Ok value =>
      run server (refresh (dispatch M) (json_key sub)) s =
        (s <| caches := <[name := <[json_key (Obj (cache_key (key_of a) a.(arg_query))) := value]> cache]>
                          s.(caches) |>, Ok (or_empty value))
  | Err _ => ∃ e, run server (refresh (dispatch M) (json_key sub)) s = (s, Err e)
  end.
Proof.
  intros Hf sub Hwf Hq Hc. apply (run_refresh server (dispatch M) name fetch); try done.
  - intros payload. by apply dispatch_fetcher.
  - by eapply fetcher_stateless.
Qed.

Lemma run_refresh_entry server name fetch a s cache value :
  fetcher_of M name fetch →
  let sub := subscription ("Query" +:+ name) a.(arg_all) (key_of a) a.(arg_query) in
  well_formed sub = true → plain_query a.(arg_query) = true →
  s.(caches) !! name = Some cache →
  (run server (fetch (refresh_args a) (key_of (refresh_args a))) s).2 = Ok value →
  run server (refresh (dispatch M) (json_key sub)) s =
    (s <| caches := <[name := <[json_key (Obj (cache_key (key_of a) a.(arg_query))) := value]> cache]>
                      s.(caches) |>, Ok (or_empty value)).
Proof.
  intros Hf sub Hwf Hq Hc Hv. pose proof (run_refresh_task server name fetch a s cache Hf Hwf Hq Hc) as H.
  by rewrite Hv in H.
Qed.

(** ** Completion *)

(** [answers_needed server payload name n]: the query [name] called with
    [payload] needs [n] answers of [server]: one, or one per page. *)
Inductive answers_needed (server : FetchCall → result Response) (name : string) (a : query_args)
    : nat → Prop :=
| needs_one :
    js_Boolean a.(arg_all) = false ∨ name ∉ M.(list_queries).*1 → answers_needed server name a 1
| needs_pages query_all f p ps :
    (name, query_all) ∈ M.(list_queries) → js_Boolean a.(arg_all) = true →
    f ≠ "pagination" → (length ps <= M.(max_pages))%nat →
    answers server query_all f a.(arg_query) p → follows server query_all f a.(arg_query) p ps →
    answers_needed server name a (S (length ps)).

Lemma dispatch_completes server name fetch payload a n :
  fetcher_of M name fetch → destructure payload = Ok a → answers_needed server name a n →
  completes server n (dispatch M ("Query" +:+ name) payload).
Proof.
  intros Hf Ha Hn. rewrite (dispatch_fetcher _ _ _ Hf).
  apply (query_action_completes _ _ _ _ _ a); [done|].
  destruct Hn as [Hone|query_all f p ps Hl Hall Hfp Hlen Hp Hps]; [by eapply fetch_completes|].
  rewrite (fetcher_unique _ _ _ Hf (list_query_fetcher _ _ Hl)).
  assert (∀ q, completes server 1 (query_all q) ∧ stateless (query_all q)) as Hq.
  { intros q. by eapply list_query_completes. }
  apply (fetch_all_completes server query_all f (arg_query a) _ p ps a _ M.(getDefaultState)); try done;
    apply Hq.
Qed.

(** ** Interleaving *)

(** The tasks the application can start on the store. *)
Inductive store_task : task js → Prop :=
| task_dispatch action payload : store_task (dispatch M action payload)
| task_refresh_one text : store_task (refresh (dispatch M) text)
| task_resetState : store_task (resetState M)
| task_unsubscribe_one sub : store_task (unsubscribe sub).

(** Each of them touches the store only once all its answers are there. *)
Lemma store_task_one_shot server p : store_task p → one_shot server p.
Proof.
  assert (∀ action payload, one_shot server (dispatch M action payload)) as Hd.
  { intros action payload. destruct (dispatch_known action payload) as [(name & fetch & Hf & ->)| ->].
    - apply query_action_one_shot. intros a key. by eapply fetcher_stateless.
    - done. }
  intros []; [apply Hd|by apply refresh_one_shot|done..].
Qed.

Lemma default_state_inv : store_inv (fetcher_of M) [] M.(getDefaultState).
Proof.
  split; [|split; rewrite default_subscriptions; [constructor|intros t Ht; by apply elem_of_nil in Ht]].
  intros name cache k v Hc Hk. apply default_empty in Hc as ->. by rewrite lookup_empty in Hk.
Qed.

Lemma wp_store_task p h s :
  store_task p → store_inv (fetcher_of M) h s →
  wp (store_inv (fetcher_of M)) [] h p s (fun _ h' _ s' => store_inv (fetcher_of M) h' s').
Proof.
  intros Hp Hs.
  assert (action_task (fetcher_of M) M.(getDefaultState) p ∨ p = Ret Undefined) as [Ht| ->].
  { destruct Hp as [action payload|text| |sub]; [|left; constructor..].
    - destruct (dispatch_known action payload) as [(name & fetch & Hf & ->)| ->]; [left|by right].
      by constructor.
    - apply dispatch_known. }
  - eapply wp_action_task; eauto using fetcher_stateless, default_state_inv.
  - done.
Qed.

Lemma reachable_inv sys :
  rtc (sys_step store_task) (mkSystem M.(getDefaultState) [] []) sys →
  store_inv (fetcher_of M) sys.(history) sys.(shared).
Proof.
  intros Hr. eapply (sys_steps_safe (store_inv (fetcher_of M))) in Hr as [Hi _].
  - exact Hi.
  - apply store_inv_grows, fetcher_stateless.
  - intros p h s. apply wp_store_task.
  - split; [apply default_state_inv|constructor].
Qed.

(** The segment that stores an answer. *)
Lemma settle_answer name a s p v :
  plain_query a.(arg_query) = true → is_Some (s.(caches) !! name) → p = Ret v →
  ∃ s', settle (catch (p ≫= store_value name a (key_of a)) (query_error name)) s =
          (s', Done (Ok (or_empty v))) ∧
        get_cached name s' (Some (cache_key (key_of a) a.(arg_query))) = or_empty v ∧
        is_Some (s'.(caches) !! name).
Proof.
  intros Hq [cache Hc] ->. change (Ret v ≫= ?f) with (f v). cbv beta.
  set (server := fun _ : FetchCall => Err Unmodelled : result Response).
  destruct (run_store_value server name a (key_of a) v s cache Hc Hq) as (s' & Hr & s1 & HQ & Hs').
  exists s'. rewrite (settle_no_await server).
  - rewrite run_catch, Hr. split; [done|].
    rewrite (QUERY_ok _ _ _ _ _ Hc) in HQ. injection HQ as <-.
    assert (caches s' !! name =
      Some (<[json_key (Obj (cache_key (key_of a) (arg_query a))) := v]> cache)) as Hc'.
    { rewrite Hs'. destruct (js_Boolean (arg_subscribe a)); rewrite ?SUBSCRIBE_caches; simpl;
        apply lookup_insert_eq. }
    split; [|by eexists]. rewrite (get_cached_spec _ _ _ _ _ Hc').
    by rewrite plain_query_key, lookup_insert_eq.
  - apply no_await_catch; [apply no_await_store_value|apply no_await_query_error].
Qed.

Lemma answers_in_turn name fetch payload a q k s :
  fetcher_of M name fetch → destructure payload = Ok a → plain_query a.(arg_query) = true →
  is_Some (s.(caches) !! name) →
  fetch a (key_of a) = Await q k →
  ∀ r1 r2 v1 v2, k r1 = Ret v1 → k r2 = Ret v2 →
  ∃ sys, rtc (sys_step store_task) (mkSystem s [] []) sys ∧
    sys.(history) = [(q, r2); (q, r1)] ∧
    get_cached name sys.(shared) (Some (cache_key (key_of a) a.(arg_query))) = or_empty v1.
Proof.
  intros Hf Ha Hq Hc Hfetch r1 r2 v1 v2 Hk1 Hk2.
  assert (store_task (query_action name fetch payload)) as Hp.
  { rewrite <- (dispatch_fetcher _ _ _ Hf). constructor. }
  set (k' := fun r => catch (k r ≫= store_value name a (key_of a)) (query_error name)).
  assert (settle (query_action name fetch payload) s = (s, Waiting q k')) as Hset.
  { unfold query_action. rewrite Ha. cbn [of_result]. change (Ret ?x ≫= ?g) with (g x).
    cbv beta zeta. fold (key_of a). by rewrite Hfetch. }
  destruct (settle_answer name a s (k r2) v2 Hq Hc Hk2) as (s2 & Hs2 & _ & Hc2).
  destruct (settle_answer name a s2 (k r1) v1 Hq Hc2 Hk1) as (s1 & Hs1 & Hget & _).
  eexists (mkSystem s1 [Done (Ok (or_empty v1)); Done (Ok (or_empty v2))] [(q, r2); (q, r1)]).
  split; [|done].
  eapply rtc_l; [by eapply step_start|]. eapply rtc_l; [by eapply step_start|].
  eapply rtc_l; [by eapply (step_answer _ _ _ _ 1 q k' r2)|].
  eapply rtc_l; [by eapply (step_answer _ _ _ _ 0 q k' r1)|]. apply rtc_refl.
Qed.

End laws.

(** ** Cache keys *)

Lemma cache_key_inj k1 q1 k2 q2 :
  well_formed (Obj (cache_key k1 q1)) = true → well_formed (Obj (cache_key k2 q2)) = true →
  q1 ≠ Undefined → q2 ≠ Undefined →
  json_key (Obj (cache_key k1 q1)) = json_key (Obj (cache_key k2 q2)) →
  normalize (Obj (object_of (spread k1))) = normalize (Obj (object_of (spread k2))) ∧
  normalize q1 = normalize q2.
Proof.
  intros H1 H2 Hq1 Hq2 Hk.
  assert (normalize (Obj (cache_key k1 q1)) = normalize (Obj (cache_key k2 q2))) as Hn.
  { apply stringify_inj; [done..|]. unfold json_key in Hk. simpl in *. congruence. }
  rewrite !normalized_members in Hn. unfold cache_key in Hn. cbn [List.filter] in Hn.
  rewrite !kept_defined in Hn by done. cbn [map fst snd] in Hn. revert Hn.
  generalize (normalize (Obj (object_of (spread k1)))), (normalize (Obj (object_of (spread k2)))).
  intros n1 n2 Hn. by simplify_eq.
Qed.

Lemma run_dispatch_falsy (M : StoreModule) {L : StoreLaws M} server name fetch payload a s cache value :
  fetcher_of M name fetch → destructure payload = Ok a →
  plain_query a.(arg_query) = false → a.(arg_query) ≠ Undefined → a.(arg_query) ≠ Num NaN →
  well_formed (Obj (cache_key (key_of a) a.(arg_query))) = true →
  s.(caches) !! name = Some cache →
  (run server (fetch a (key_of a)) s).2 = Ok value →
  (run server (dispatch M ("Query" +:+ name) payload) s).2 =
    Ok (or_empty (cache !! json_key (Obj (cache_key (key_of a) Null)) ?? Undefined)).
Proof.
  intros Hf Ha Hq Hu Hnan Hwf Hc Hv. rewrite (dispatch_fetcher _ _ _ Hf).
  rewrite (run_query_action _ _ _ _ _ _ Ha (fetcher_stateless _ _ _ _ Hf)), Hv.
  assert (js_Boolean (arg_query a) = false) as Hb by by destruct (arg_query a).
  assert (json_key (Obj (cache_key (key_of a) (arg_query a))) ≠
          json_key (Obj (cache_key (key_of a) Null))) as Hne.
  { intros Hk. apply cache_key_inj in Hk as [_ Hk]; try done.
    - revert Hk Hq Hu Hnan. by destruct (arg_query a) as [| | |[]| | |].
    - revert Hwf. cbn [well_formed cache_key forallb snd fmap list_fmap fst].
      rewrite !andb_true_iff. tauto. }
  unfold store_value. rewrite run_bind. erewrite run_commit by by apply QUERY_ok.
  rewrite run_bind.
  destruct (js_Boolean (arg_subscribe a));
    [erewrite run_commit by reflexivity|]; cbn [run]; cbn [snd];
    (erewrite get_cached_spec;
     [|rewrite ?SUBSCRIBE_caches; simpl; apply lookup_insert_eq]);
    rewrite Hb, lookup_insert_ne, or_empty_idem; done.
Qed.

(** ** Proving the laws of a module *)

(** The laws hold when the actions are those of the caches, each of which is
    declared once, and each fetch is a request and what is made of it. *)
Lemma store_laws_of_tables (M : StoreModule) :
  M.(query_actions) = action_table query_action M.(fetchers) →
  bool_decide (NoDup M.(fetchers).*1) = true →
  bool_decide (Forall (fun name => name ∈ M.(cache_names)) M.(fetchers).*1) = true →
  Forall (fun l => (l.1, fetch_all M.(max_pages) l.2) ∈ M.(fetchers)) M.(list_queries) →
  Forall (fun entry => ∀ a key, stateless (entry.2 a key)) M.(fetchers) →
  Forall (fun entry => ∀ server a s, refuses server → refused server (entry.2 a (key_of a)) s)
    M.(fetchers) →
  Forall (fun entry => ∀ server a key,
    js_Boolean a.(arg_all) = false ∨ entry.1 ∉ M.(list_queries).*1 →
    completes server 1 (entry.2 a key)) M.(fetchers) →
  Forall (fun l => ∀ server q, completes server 1 (l.2 q) ∧ stateless (l.2 q)) M.(list_queries) →
  M.(getDefaultState).(caches) = empty_caches M.(cache_names) →
  M.(getDefaultState).(Subscriptions) = [] →
  StoreLaws M.
Proof.
  rewrite !bool_decide_eq_true, !Forall_forall. setoid_rewrite <- list_elem_of_In. intros Ha Hnd Hc Hl Hst Hre Hco Hlc Hdef Hsub.
  split; unfold fetcher_of, dispatch; rewrite ?Ha.
  - intros name fetch payload Hf. by rewrite (assoc_action_table _ _ name fetch).
  - intros action payload. destruct (assoc action _) as [act|] eqn:E; [left|by right].
    apply assoc_action_table_inv in E as (name & fetch & Hf & ->). eauto.
  - intros name fetch Hf. apply Hc, list_elem_of_fmap. by exists (name, fetch).
  - intros name fetch1 fetch2. by apply NoDup_fst_inj.
  - intros name query_all. apply (Hl (name, query_all)).
  - intros name fetch a key Hf. by apply (Hst (name, fetch)).
  - intros server name fetch a s Hs Hf. by apply (Hre (name, fetch)).
  - intros server name fetch a key Hf. by apply (Hco (name, fetch)).
  - intros server name query_all q Hq. by apply (Hlc (name, query_all)).
  - rewrite Hdef. apply empty_caches_lookup.
  - rewrite Hdef. apply empty_caches_empty.
  - done.
Qed.

End interface.

Ltac solve_stateless :=
  intros a key; cbn [snd];
  first [ apply stateless_fetch_all; intros; apply stateless_request
        | repeat (apply stateless_bind;
                  [first [apply stateless_request|apply stateless_of_result]|intros ?]);
          exact I ].

Ltac solve_refused :=
  intros server a s Hs; cbn [snd];
  (repeat (apply refused_get; intros ?)); apply refused_request, Hs.

Ltac solve_completes :=
  let H := fresh "H" in
  intros server a key H; cbn [snd];
  first
    [ apply completes_fetch_first; [intros; apply completes_request|];
      destruct H as [H|H]; [exact H|]; destruct H; apply (bool_decide_eq_true_1 _); reflexivity
    | clear H; repeat (apply (completes_bind server 0 1); [apply completes_of_result|intros ?]);
      apply (completes_bind server 1 0); [apply completes_request|done] ].

(** The laws of a module from its tables. *)
Ltac solve_store_laws :=
  apply store_laws_of_tables;
  [ reflexivity | reflexivity | reflexivity
  | repeat constructor
  | repeat (apply List.Forall_cons; [solve_stateless|]); apply List.Forall_nil
  | repeat (apply List.Forall_cons; [solve_refused|]); apply List.Forall_nil
  | repeat (apply List.Forall_cons; [solve_completes|]); apply List.Forall_nil
  | repeat (apply List.Forall_cons;
            [intros server q; split; [apply completes_request|apply stateless_request]|]);
    apply List.Forall_nil
  | reflexivity | reflexivity ].
