(* ===== verification/NewBlock.v ===== *)
(** * What a new block does to a store

    When the node reports a new block, [StoreUpdate] starts one task per
    subscription and waits for none of them.  This file follows all of them to
    their end, in whatever order the answers arrive: first for any state with
    entries and tasks that refresh them, then against the interface of
    [StoreModule.v]. *)
From S2P Require Import Prelude Js JsonText Async RestClient VuexStore StoreModule.
Open Scope Z_scope.

(** ** Tasks that refresh entries *)

Section refresh.
Context {S X L : Type} (server : FetchCall → result Response).

(** The entries of a state, what else of it is to stay as it is, and the states
    in which the tasks work. *)
Context (entry : S → string → string → option js) (subs : S → X) (fine : S → Prop).

(** The task of a subscription, its entry and what the server gives for it. *)
Context (task_of : L → proc FetchCall Response S js) (sub_name sub_key : L → string)
  (sub_value : L → result js).

(** The entry [k] of the cache [name], which held [o], after [l] was refreshed. *)
Definition refreshed (name k : string) (o : option js) (l : L) : option js :=
  match sub_value l with
  | Ok v => if decide (sub_name l = name ∧ sub_key l = k) then Some v else o
  | Err _ => o
  end.

(** The task touches the state only at its end, and then does just this. *)
Definition refreshes (l : L) : Prop :=
  one_shot server (task_of l) ∧
  ∀ s, fine s → let s' := (run server (task_of l) s).1 in
    subs s' = subs s ∧ fine s' ∧ ∀ name k, entry s' name k = refreshed name k (entry s name k) l.

(** Each entry that was subscribed to holds what the server gives for it, unless
    that failed; the others are as they were.  Subscriptions that share an entry
    have to agree on it. *)
Definition up_to_date (ls : list L) (s s' : S) : Prop :=
  subs s' = subs s ∧
  (∀ l v, l ∈ ls → sub_value l = Ok v →
     (∀ l' v', l' ∈ ls → sub_name l' = sub_name l → sub_key l' = sub_key l →
        sub_value l' = Ok v' → v' = v) →
     entry s' (sub_name l) (sub_key l) = Some v) ∧
  (∀ name k,
     (∀ l v, l ∈ ls → sub_name l = name → sub_key l = k → sub_value l ≠ Ok v) →
     entry s' name k = entry s name k).

Lemma runs_refreshed ls log s s' :
  Forall refreshes ls → fine s → log.*1 = map task_of ls → runs_as server s log s' →
  subs s' = subs s ∧ ∀ name k, entry s' name k = foldl (refreshed name k) (entry s name k) ls.
Proof.
  intros Hls. revert log s. induction Hls as [|l ls [_ Hl] _ IH]; intros log s Hs Hlog Hr.
  - destruct log; [|done]. simpl in Hr. by subst s'.
  - destruct log as [|[p r] log]; [done|]. simpl in Hlog. injection Hlog as -> Hlog.
    destruct Hr as [_ Hr]. destruct (Hl s Hs) as (Hsub & Hs1 & He).
    destruct (IH log _ Hs1 Hlog Hr) as [Hsub' He']. split; [congruence|].
    intros name k. by rewrite He', He.
Qed.

(** An entry that several subscriptions refresh ends with a value of one of them. *)
Lemma refreshed_all name k ls o v :
  (∃ l, l ∈ ls ∧ sub_name l = name ∧ sub_key l = k ∧ sub_value l = Ok v) →
  (∀ l v', l ∈ ls → sub_name l = name → sub_key l = k → sub_value l = Ok v' → v' = v) →
  foldl (refreshed name k) o ls = Some v.
Proof.
  revert o. induction ls as [|l ls IH] using rev_ind; intros o (l0 & Hin & Hl0) Hall.
  { by apply elem_of_nil in Hin. }
  rewrite foldl_snoc. unfold refreshed at 1.
  assert (foldl (refreshed name k) o ls = Some v ∨ l0 = l) as Hor.
  { apply elem_of_app in Hin as [Hin|Hin%list_elem_of_singleton]; [left|by right]. apply IH.
    - by exists l0.
    - intros l1 v1 H1. apply Hall. set_solver. }
  destruct (sub_value l) as [v1|e] eqn:Hv.
  - destruct (decide _) as [[Hn Hk]|Hne].
    + f_equal. apply (Hall l); [set_solver|done..].
    + destruct Hor as [Ho| ->]; [done|]. destruct Hl0 as (? & ? & _). tauto.
  - destruct Hor as [Ho| ->]; [done|]. destruct Hl0 as (_ & _ & ?). congruence.
Qed.

Lemma refreshed_none name k ls o :
  (∀ l v, l ∈ ls → sub_name l = name → sub_key l = k → sub_value l ≠ Ok v) →
  foldl (refreshed name k) o ls = o.
Proof.
  revert o. induction ls as [|l ls IH]; intros o Hall; [done|]. simpl. rewrite IH.
  - unfold refreshed. destruct (sub_value l) as [v|] eqn:Hv; [|done].
    rewrite decide_False; [done|]. intros [Hn Hk]. apply (Hall l v); [set_solver|done..].
  - intros l1 v H1. apply Hall. set_solver.
Qed.

Lemma outcomes_all_done (ps : list (proc FetchCall Response S js)) sys :
  Forall2 (left_of server) ps sys.(tasks) → all_done sys → (outcomes ps sys.(tasks)).*1 = ps.
Proof.
  destruct sys as [s ts h]. unfold all_done, outcomes. simpl.
  induction 1 as [|p t ps ts _ _ IH]; intros Hd; [done|]. simpl.
  destruct (Hd 0%nat t eq_refl) as [r ->]. simpl. f_equal. apply IH.
  intros i t' Hi. by apply (Hd (Datatypes.S i)).
Qed.

Lemma served_up_to_date s ls sys :
  Forall refreshes ls → fine s → served server s (map task_of ls) sys → all_done sys →
  up_to_date ls s sys.(shared).
Proof.
  intros Hls Hs Hsv Hd.
  destruct (served_serial server s (map task_of ls) sys) as [Hl (log & Hlog & Hr)]; [|done|].
  { apply List.Forall_map. eapply List.Forall_impl; [|exact Hls]. by intros l []. }
  apply (Permutation_map fst) in Hlog. change (map fst (outcomes ?a ?b)) with ((outcomes a b).*1) in Hlog.
  rewrite (outcomes_all_done _ _ Hl Hd) in Hlog.
  apply Permutation_map_inv in Hlog as (ls' & Hlog & Hp).
  destruct (runs_refreshed ls' log s sys.(shared)) as [Hsub He]; [by rewrite <- Hp|done..|].
  split; [done|]. split.
  - intros l v Hin Hv Hall. rewrite He. apply refreshed_all.
    + exists l. by rewrite <- Hp.
    + intros l' v'. rewrite <- Hp. apply Hall.
  - intros name k Hall. rewrite He. apply refreshed_none. intros l v. rewrite <- Hp. apply Hall.
Qed.
End refresh.

(** An entry of the caches of a store. *)
Definition cache_entry (caches : gmap string (gmap string js)) (name k : string) : option js :=
  cache ← caches !! name; cache !! k.

Lemma cache_entry_update caches name cache k v name' k' :
  caches !! name = Some cache →
  cache_entry (<[name := <[k := v]> cache]> caches) name' k' =
    if decide (name = name' ∧ k = k') then Some v else cache_entry caches name' k'.
Proof.
  intros Hc. unfold cache_entry. destruct (decide (name = name')) as [<-|Hn].
  - rewrite lookup_insert_eq, Hc. simpl. destruct (decide (k = k')) as [<-|Hk].
    + by rewrite lookup_insert_eq, decide_True.
    + rewrite lookup_insert_ne by done. by rewrite decide_False by tauto.
  - rewrite lookup_insert_ne by done. by rewrite decide_False by tauto.
Qed.

Lemma caches_kept (caches : gmap string (gmap string js)) name (cache : gmap string js) name' :
  is_Some (caches !! name') → is_Some (<[name := cache]> caches !! name').
Proof.
  intros H. destruct (decide (name = name')) as [<-|Hn].
  - rewrite lookup_insert_eq. by eexists.
  - by rewrite lookup_insert_ne.
Qed.

(** ** The subscriptions of a store *)

Section block.
Context {SV : SpVuex} (M : StoreModule) {L : StoreLaws M}.
Abbreviation task := (proc FetchCall Response state).

(** A query that was subscribed to, with the arguments of its call. *)
Record live := mkLive {
  live_name : string;
  live_fetch : query_args → js → task js;
  live_args : query_args;
}.

Definition live_sub (l : live) : js :=
  subscription ("Query" +:+ l.(live_name)) l.(live_args).(arg_all) (key_of l.(live_args))
    l.(live_args).(arg_query).

(** What the set of subscriptions holds, and the entry of the cache the query
    has. *)
Definition live_text (l : live) : string := json_key (live_sub l).

Definition live_key (l : live) : string :=
  json_key (Obj (cache_key (key_of l.(live_args)) l.(live_args).(arg_query))).

Definition live_ok (l : live) : Prop :=
  fetcher_of M l.(live_name) l.(live_fetch) ∧ well_formed (live_sub l) = true ∧
  plain_query l.(live_args).(arg_query) = true.

(** What the server gives for the query now. *)
Definition live_value (server : FetchCall → result Response) (l : live) : result js :=
  (run server (l.(live_fetch) (refresh_args l.(live_args)) (key_of (refresh_args l.(live_args))))
     M.(getDefaultState)).2.

Definition entry (s : state) : string → string → option js := cache_entry s.(caches).

Definition has_caches (s : state) : Prop :=
  ∀ name, name ∈ M.(cache_names) → is_Some (s.(caches) !! name).

Lemma live_refreshes server l :
  live_ok l →
  refreshes server entry Subscriptions has_caches (fun l => refresh (dispatch M) (live_text l))
    live_name live_key (live_value server) l.
Proof.
  intros (Hf & Hwf & Hq). split; [apply (store_task_one_shot M), task_refresh_one|].
  intros s Hs. destruct (Hs _ (fetcher_cached _ _ Hf)) as [cache Hc].
  pose proof (run_refresh_task M server _ _ _ s cache Hf Hwf Hq Hc) as H.
  fold (live_sub l) (live_text l) in H. unfold refreshed, live_value.
  rewrite (run_stateless_result _ _ s M.(getDefaultState)) in H by by eapply fetcher_stateless.
  destruct (run server _ M.(getDefaultState)).2 as [v|e].
  - rewrite H. simpl. split_and!; [done| |].
    + intros name Hn. by apply caches_kept, Hs.
    + intros name k. by apply cache_entry_update.
  - destruct H as [e' H]. by rewrite H.
Qed.

(** When the tasks of [StoreUpdate] are done, the store is up to date. *)
Lemma update_done server s ls sys :
  Forall live_ok ls → has_caches s → s.(Subscriptions) = map live_text ls →
  served server s (StoreUpdate (dispatch M) s) sys → all_done sys →
  up_to_date entry Subscriptions live_name live_key (live_value server) ls s sys.(shared).
Proof.
  intros Hls Hs Hsubs. unfold StoreUpdate. rewrite Hsubs, map_map.
  apply served_up_to_date with has_caches; [|done].
  eapply List.Forall_impl; [|exact Hls]. apply live_refreshes.
Qed.

End block.
