(* ===== verification/StoreSpec.v ===== *)
(** * A store is a cache of answered queries

    What the application may rely on a store for, without its actions, tasks and
    JSON texts: a map of what is known about queries, which changes only when an
    answer has been heard that explains the new value, a set of queries that are
    watched, and a reset.  The stores that implement the interface of
    [StoreModule.v] refine this specification: every step of the interleaved
    tasks is simulated by steps of it. *)
From S2P Require Import Prelude Js JsonText Async RestClient VuexStore StoreModule NewBlock.
Open Scope Z_scope.

(** ** The specification *)

(** The answers that were heard, the value known for each entry, by the name of
    its query and the text of its parameters, and the subscriptions. *)
Record cache_spec := mkSpec {
  heard : list (FetchCall * result Response);
  known : gmap (string * string) js;
  watched : list string;
}.

#[global] Instance cache_spec_eta : Settable cache_spec := λ σ,
  mkSpec σ.(heard) σ.(known) σ.(watched).

Definition spec_init : cache_spec := mkSpec [] ∅ [].

Section spec.
Context {SV : SpVuex} (M : StoreModule).

(** A text that the action of a query subscribes with. *)
Definition watchable (w : string) : Prop :=
  ∃ name fetch all key query, fetcher_of M name fetch ∧
    w = json_key (subscription ("Query" +:+ name) all key query).

Inductive spec_step : cache_spec → cache_spec → Prop :=
| spec_hear σ e : spec_step σ (σ <| heard := σ.(heard) ++ [e] |>)
| spec_learn σ name k v :
    explained (fetcher_of M) σ.(heard) name k v →
    spec_step σ (σ <| known := <[(name, k) := v]> σ.(known) |>)
| spec_watch σ w :
    watchable w → w ∉ σ.(watched) → spec_step σ (σ <| watched := σ.(watched) ++ [w] |>)
| spec_unwatch σ w :
    spec_step σ (σ <| watched := List.filter (fun t => negb (String.eqb t w)) σ.(watched) |>)
| spec_forget σ : spec_step σ (σ <| known := ∅ |> <| watched := [] |>).

(** The specification alone keeps its promise. *)
Lemma explained_grows h h' name k v :
  h ⊆ h' → explained (fetcher_of M) h name k v → explained (fetcher_of M) h' name k v.
Proof.
  intros Hh (fetch & a & log & Hf & Hk & Hl & Hr). exists fetch, a, log. split_and!; try done.
  by transitivity h.
Qed.

Definition spec_inv (σ : cache_spec) : Prop :=
  (∀ name k v, σ.(known) !! (name, k) = Some v → explained (fetcher_of M) σ.(heard) name k v) ∧
  NoDup σ.(watched) ∧ ∀ w, w ∈ σ.(watched) → watchable w.

Lemma spec_inv_step σ σ' : spec_step σ σ' → spec_inv σ → spec_inv σ'.
Proof.
  unfold spec_inv. intros Hstep (Hk & Hnd & Hw). destruct Hstep as [σ e|σ name k v He|σ w Hw' Hn|σ w|σ]; simpl in *.
  - split_and!; [|done..]. intros name k v H. eapply explained_grows; [|by apply Hk]. set_solver.
  - split_and!; [|done..]. intros name' k' v' H.
    destruct (decide ((name, k) = (name', k'))) as [[= <- <-]|Hne].
    + rewrite lookup_insert_eq in H. by injection H as <-.
    + rewrite lookup_insert_ne in H by done. by apply Hk.
  - split_and!; [done| |set_solver]. apply list.NoDup_app. split_and!; [done|set_solver|].
    apply list.NoDup_singleton.
  - split_and!; [done|rewrite NoDup_ListNoDup in *; by apply List.NoDup_filter|].
    intros t Ht. apply list_elem_of_In, List.filter_In in Ht as [Ht _].
    apply Hw. by apply list_elem_of_In.
  - split_and!; [|constructor|by intros ? ?%elem_of_nil]. intros name k v H. by rewrite lookup_empty in H.
Qed.

(** ** Refinement *)

(** The store represents the state of the specification. *)
Definition represents (s : state) (σ : cache_spec) : Prop :=
  has_caches M s ∧ (∀ name k, entry s name k = σ.(known) !! (name, k)) ∧
  s.(Subscriptions) = σ.(watched).

(** The mutations a task may commit when the requests [h] have been answered. *)
Inductive mutates (h : list (FetchCall * result Response)) : state → state → Prop :=
| mutates_QUERY name k v s cache :
    s.(caches) !! name = Some cache → explained (fetcher_of M) h name k v →
    mutates h s (s <| caches := <[name := <[k := v]> cache]> s.(caches) |>)
| mutates_SUBSCRIBE sub s : watchable (json_key sub) → mutates h s (SUBSCRIBE sub s)
| mutates_UNSUBSCRIBE sub s : mutates h s (UNSUBSCRIBE sub s)
| mutates_RESET_STATE s : mutates h s (RESET_STATE M.(getDefaultState) s).

Context {L : StoreLaws M}.

Lemma default_represents : represents M.(getDefaultState) spec_init.
Proof.
  split; [intros name Hn; rewrite default_caches by done; by eexists|].
  split; [|apply default_subscriptions]. intros name k. cbn [spec_init known]. rewrite lookup_empty.
  unfold entry, cache_entry. destruct (caches _ !! name) as [cache|] eqn:E; [|done].
  apply default_empty in E as ->. apply lookup_empty.
Qed.

(** What a getter gives is what is known of the query. *)
Lemma getter_known s σ name key query :
  represents s σ → name ∈ M.(cache_names) → plain_query query = true →
  get_cached name s (Some (cache_key key query)) =
    or_empty (σ.(known) !! (name, json_key (Obj (cache_key key query))) ?? Undefined).
Proof.
  intros (Hh & He & _) Hn Hq. destruct (Hh _ Hn) as [cache Hc].
  rewrite (get_cached_spec _ _ _ _ _ Hc), plain_query_key, <- He by done.
  unfold entry, cache_entry. by rewrite Hc.
Qed.

(** Each mutation is one step of the specification, or none. *)
Lemma mutates_simulated s s' σ :
  mutates σ.(heard) s s' → represents s σ →
  ∃ σ', rtc spec_step σ σ' ∧ represents s' σ' ∧ σ'.(heard) = σ.(heard).
Proof.
  intros Hm (Hh & He & Hs). destruct Hm as [name k v s cache Hc Hx|sub s Hw|sub s|s].
  - eexists. split; [by apply rtc_once, spec_learn|]. split; [|done].
    split; [intros name' Hn; by apply caches_kept, Hh|]. split; [|done].
    intros name' k'. simpl. unfold entry. simpl. rewrite (cache_entry_update _ _ _ _ _ _ _ Hc).
    destruct (decide (name = name' ∧ k = k')) as [[<- <-]|Hne].
    + by rewrite lookup_insert_eq.
    + rewrite lookup_insert_ne by (intros [= -> ->]; tauto). apply He.
  - unfold SUBSCRIBE. case_bool_decide as Hin.
    + exists σ. split; [apply rtc_refl|]. done.
    + eexists. split; [apply rtc_once, spec_watch; [exact Hw|by rewrite <- Hs]|].
      split; [|done]. split; [done|]. split; [done|]. simpl. by rewrite Hs.
  - eexists. split; [apply rtc_once, (spec_unwatch _ (json_key sub))|].
    split; [|done]. split; [done|]. split; [done|]. simpl. by rewrite Hs.
  - eexists. split; [apply rtc_once, spec_forget|]. split; [|done]. apply default_represents.
Qed.

Lemma all_mutates_simulated s s' σ :
  rtc (mutates σ.(heard)) s s' → represents s σ →
  ∃ σ', rtc spec_step σ σ' ∧ represents s' σ' ∧ σ'.(heard) = σ.(heard).
Proof.
  intros Hm. remember σ.(heard) as h eqn:Hh. revert σ Hh.
  induction Hm as [s|s1 s2 s3 Hm _ IH]; intros σ -> Hr.
  - exists σ. split; [apply rtc_refl|done].
  - destruct (mutates_simulated _ _ _ Hm Hr) as (σ1 & Hs1 & Hr1 & Hh1).
    destruct (IH σ1 (eq_sym Hh1) Hr1) as (σ2 & Hs2 & Hr2 & Hh2).
    exists σ2. split; [by etrans|]. split; [done|congruence].
Qed.

(** ** The tasks of a store *)

Lemma store_value_mutates own h name fetch a v s :
  fetcher_of M name fetch → own ⊆ h → replays (fetch a (key_of a)) own (Ok v) →
  changes mutates own h (store_value name a (key_of a) v) s (fun _ _ _ => True).
Proof.
  intros Hf Hown Hr. unfold store_value. apply changes_bind. simpl.
  destruct (QUERY name _ v s) as [s1|e] eqn:HQ; [|done]. simpl. split.
  - apply QUERY_lookup in HQ as (cache & Hc & ->). apply rtc_once, mutates_QUERY; [done|].
    by exists fetch, a, own.
  - intros s2. apply changes_bind. destruct (js_Boolean (arg_subscribe a)); simpl; [|done].
    split; [|done]. apply rtc_once, mutates_SUBSCRIBE. by eexists name, fetch, _, _, _.
Qed.

Lemma query_mutates h name fetch payload s :
  fetcher_of M name fetch →
  changes mutates [] h (query_action name fetch payload) s (fun _ _ _ => True).
Proof.
  intros Hf. unfold query_action. destruct (destructure payload) as [a|e]; [|done].
  cbn [of_result]. change (Ret ?x ≫= ?g) with (g x). cbv beta zeta. fold (key_of a).
  assert (∀ own h s e, changes mutates own h (query_error name e) s (fun _ _ _ => True)) as Herr.
  { intros own h' s' e. unfold query_error. by destruct (exn_message e). }
  apply changes_catch, changes_bind.
  eapply changes_mono; [|by apply changes_replay; [eapply fetcher_stateless|set_solver]].
  simpl. intros own h' [v|e] (log & -> & Hsub & Hr) s'; simpl in *; [|apply Herr].
  eapply changes_mono; [|by eapply store_value_mutates]. intros own' h'' [w|e] _; [done|].
  intros s''. apply Herr.
Qed.

Lemma store_task_mutates p h s :
  store_task M p → changes mutates [] h p s (fun _ _ _ => True).
Proof.
  assert (∀ action payload h s,
    changes mutates [] h (dispatch M action payload) s (fun _ _ _ => True)) as Hd.
  { intros action payload h' s'. destruct (dispatch_known action payload) as [(name & fetch & Hf & ->)| ->];
      [by apply query_mutates|done]. }
  intros [action payload|text| |sub].
  - apply Hd.
  - unfold refresh. apply changes_catch.
    destruct (parse text) as [o|e]; [|by intros s'; destruct (exn_message e)]. cbn [of_result].
    change (Ret ?x ≫= ?g) with (g x). cbv beta.
    destruct (get o "action") as [act|e]; [|by intros s'; destruct (exn_message e)]. cbn [of_result].
    change (Ret ?x ≫= ?g) with (g x). cbv beta.
    destruct (get o "payload") as [pl|e]; [|by intros s'; destruct (exn_message e)]. cbn [of_result].
    change (Ret ?x ≫= ?g) with (g x). cbv beta.
    eapply changes_mono; [|apply Hd]. intros own h' [v|e] _; [done|].
    intros s'. by destruct (exn_message e).
  - simpl. split; [|done]. apply rtc_once, mutates_RESET_STATE.
  - simpl. split; [|done]. apply rtc_once, mutates_UNSUBSCRIBE.
Qed.

(** ** Simulation *)

(** The system represents a state of the specification that has heard the same
    answers. *)
Definition simulates (sys : system FetchCall Response state js) (σ : cache_spec) : Prop :=
  represents sys.(shared) σ ∧ σ.(heard) = sys.(history) ∧
  Forall (task_changes mutates sys.(history)) sys.(tasks).

Lemma simulates_init : simulates (mkSystem M.(getDefaultState) [] []) spec_init.
Proof. split; [apply default_represents|]. by split. Qed.

Lemma history_grows {A : Type} (starts : proc FetchCall Response state A → Prop) sys sys' :
  sys_step starts sys sys' →
  sys'.(history) = sys.(history) ∨ ∃ e, sys'.(history) = sys.(history) ++ [e].
Proof. intros []; simpl; eauto. Qed.

Lemma step_simulated sys sys' σ :
  sys_step (store_task M) sys sys' → simulates sys σ →
  ∃ σ', rtc spec_step σ σ' ∧ simulates sys' σ'.
Proof.
  intros Hstep (Hr & Hh & Ht).
  destruct (sys_step_changes mutates (store_task M) sys sys') as (Hc & Ht' & _);
    [intros p h s; apply store_task_mutates|done..|].
  assert (∃ σ1, rtc spec_step σ σ1 ∧ represents sys.(shared) σ1 ∧ σ1.(heard) = sys'.(history))
    as (σ1 & Hs1 & Hr1 & Hh1).
  { destruct (history_grows _ _ _ Hstep) as [E|[e E]].
    - exists σ. split; [apply rtc_refl|]. split; [done|congruence].
    - eexists. split; [apply rtc_once, (spec_hear _ e)|]. split; [done|]. simpl. congruence. }
  rewrite <- Hh1 in Hc. destruct (all_mutates_simulated _ _ _ Hc Hr1) as (σ2 & Hs2 & Hr2 & Hh2).
  exists σ2. split; [by etrans|]. split; [done|]. split; [congruence|done].
Qed.

Lemma run_simulated sys :
  rtc (sys_step (store_task M)) (mkSystem M.(getDefaultState) [] []) sys →
  ∃ σ, rtc spec_step spec_init σ ∧ simulates sys σ.
Proof.
  assert (∀ sys0 σ, rtc (sys_step (store_task M)) sys0 sys → simulates sys0 σ →
            ∃ σ', rtc spec_step σ σ' ∧ simulates sys σ') as H.
  { intros sys0 σ Hr. revert σ. induction Hr as [sys0|x y z Hstep _ IH]; intros σ Hs.
    - exists σ. by split; [apply rtc_refl|].
    - destruct (step_simulated _ _ _ Hstep Hs) as (σ1 & H1 & Hs1).
      destruct (IH σ1 Hs1) as (σ2 & H2 & Hs2). exists σ2. by split; [etrans|]. }
  intros Hr. apply (H _ _ Hr simulates_init).
Qed.

End spec.
