(* ===== verification/CosmosStore.v ===== *)
(** * The stores of the Cosmos SDK modules

    The clients of the modules of the Cosmos SDK and of ibc-go come from an
    older release of the generator than those of the ledger's own modules.
    Their stores (index.js) differ from [VuexStore.v] and [TxClient.v]:

    - the parameters of a query are destructured in the argument list, so a call
      without them fails before the [try] of its action;
    - the subscriptions are a set of objects, which are compared by identity;
    - the key of the next page is read from [nextKey];
    - the signing client is always connected, and a message is built from the
      given data as they are, without [fromPartial].

    [Module Cosmos] has what these stores share, under the names of the code.
    The caches, their mutation and their getters are those of [VuexStore.v]. *)
From S2P Require Import Prelude Js Protobuf JsonText Uri Async RestClient ApiRoutes Pages VuexStore TxClient NewBlock MessageTable.
Open Scope Z_scope.

Module Cosmos.

(** ** State *)

(** An object is a number, its identity, with its contents; [objects] is the
    identity of the next object that is created. *)
Record state := mkState {
  caches : gmap string (gmap string js);
  Structure : list (string * list field);
  Subscriptions : list (nat * js);
  objects : nat;
}.

#[global] Instance state_eta : Settable state := λ s,
  mkState s.(caches) s.(Structure) s.(Subscriptions) s.(objects).

(** The caches and types as the mutations and getters of [VuexStore.v] see
    them. *)
Definition cached (s : state) : VuexStore.state := VuexStore.mkState s.(caches) s.(Structure) [] [].

(** ** Mutations and getters *)

(** QUERY: [state[query][JSON.stringify(key)] = value] *)
Definition QUERY (query : string) (key value : js) (s : state) : result state :=
  s' ← VuexStore.QUERY query key value (cached s);
  Ok (s <| caches := s'.(VuexStore.caches) |>).

(** SUBSCRIBE: [state._Subscriptions.add(subscription)], with an object that was
    created for the call and so is not in the set. *)
Definition SUBSCRIBE (subscription : js) (s : state) : state :=
  s <| Subscriptions := s.(Subscriptions) ++ [(s.(objects), subscription)] |>
    <| objects := S s.(objects) |>.

(** UNSUBSCRIBE: [state._Subscriptions.delete(subscription)], with the object
    [subscription]. *)
Definition UNSUBSCRIBE (subscription : nat) (s : state) : state :=
  s <| Subscriptions := List.filter (fun o => negb (o.1 =? subscription)%nat) s.(Subscriptions) |>.

(** RESET_STATE: [Object.assign(state, getDefaultState())] *)
Definition RESET_STATE (default : state) (s : state) : state := default <| objects := s.(objects) |>.

Definition get_cached (name : string) (s : state) (params : option (list (string * js))) : js :=
  VuexStore.get_cached name (cached s) params.

Definition getTypeStructure (s : state) (type : string) : result (list field) :=
  VuexStore.getTypeStructure (cached s) type.

(** ** Query actions *)

Section actions.
Context {SV : SpVuex}.
Abbreviation task := (proc FetchCall Response state).

(** The error for destructuring [undefined] or [null]. *)
Definition no_params_error (params : js) : exn :=
  TypeError ("Cannot destructure '" +:+ js_String params +:+ "' as it is " +:+ js_String params +:+ ".").

(** [{ options: { subscribe, all } = { subscribe: false, all: false },
    params: { ...key }, query = null }]: the properties of [params] are copied;
    there are none to copy when it is missing. *)
Definition destructure (payload : js) : result query_args :=
  a ← VuexStore.destructure payload;
  if is_nullish a.(arg_params)
  then Err (no_params_error a.(arg_params))
  else Ok (mkArgs a.(arg_subscribe) a.(arg_all) (Obj (object_of (spread a.(arg_params)))) a.(arg_query)).

(** The key of the next page is [value.pagination.nextKey]. *)
Definition fetch_all (fuel : nat) (query_all : js → js → task HttpResponse) (a : query_args)
    (key : js) : task js :=
  fetch_list "nextKey" fuel (query_all key) (js_Boolean a.(arg_all)) a.(arg_query).

Definition commit (m : state → result state) : task unit :=
  Get (fun s => match m s with Ok s' => Put s' (Ret tt) | Err e => Throw e end).

Definition store_value (name : string) (a : query_args) (key value : js) : task js :=
  _ ← commit (QUERY name (Obj (cache_key key a.(arg_query))) value);
  _ ← (if js_Boolean a.(arg_subscribe)
       then commit (fun s =>
              Ok (SUBSCRIBE (subscription ("Query" +:+ name) a.(arg_all) key a.(arg_query)) s))
       else Ret tt);
  Get (fun s => Ret (or_empty (get_cached name s (Some (cache_key key a.(arg_query)))))).

(** The [catch] of a query action. *)
Definition query_error (name : string) (e : exn) : task js :=
  m ← of_result (exn_message e);
  Throw (SpVuexError ["QueryClient:Query" +:+ name;
                      "API Node Unavailable. Could not perform query: " +:+ js_String m]).

Definition query_action (name : string) (fetch : query_args → js → task js) (payload : js)
    : task js :=
  a ← of_result (destructure payload);
  catch
    (value ← fetch a a.(arg_params);
     store_value name a a.(arg_params) value)
    (query_error name).

(** StoreUpdate: the callback for one subscription. *)
Definition refresh (dispatch : string → js → task js) (sub : js) : task js :=
  catch
    (action ← of_result (get sub "action");
     payload ← of_result (get sub "payload");
     dispatch (js_String action) payload)
    (fun e =>
       m ← of_result (exn_message e);
       Throw (SpVuexError ["Subscriptions: " +:+ js_String m])).

Definition StoreUpdate (dispatch : string → js → task js) (s : state) : list (task js) :=
  map (fun o => refresh dispatch o.2) s.(Subscriptions).

(** ** The interface of a module's store *)

Record StoreModule := mkModule {
  cache_names : list string;
  fetchers : list (string * (query_args → js → task js));       (* by the name of the cache *)
  query_actions : list (string * (js → task js));               (* by the name of the action *)
  list_queries : list (string * (js → js → task HttpResponse)); (* the queries that have pages *)
  max_pages : nat;
  getDefaultState : state;
}.

Definition dispatch (M : StoreModule) (action : string) (payload : js) : task js :=
  match assoc action M.(query_actions) with
  | Some act => act payload
  | None => Ret Undefined
  end.

Definition resetState (M : StoreModule) : task js :=
  Get (fun s => Put (RESET_STATE M.(getDefaultState) s) (Ret Undefined)).

Definition unsubscribe (subscription : nat) : task js :=
  Get (fun s => Put (UNSUBSCRIBE subscription s) (Ret Undefined)).

Definition fetcher_of (M : StoreModule) (name : string) (fetch : query_args → js → task js) : Prop :=
  (name, fetch) ∈ M.(fetchers).

Class StoreLaws (M : StoreModule) : Prop := {
  dispatch_fetcher name fetch payload :
    fetcher_of M name fetch →
    dispatch M ("Query" +:+ name) payload = query_action name fetch payload;
  dispatch_known action payload :
    (∃ name fetch, fetcher_of M name fetch ∧
       dispatch M action payload = query_action name fetch payload) ∨
    dispatch M action payload = Ret Undefined;
  fetcher_cached name fetch : fetcher_of M name fetch → name ∈ M.(cache_names);
  fetcher_stateless name fetch a key : fetcher_of M name fetch → stateless (fetch a key);
  list_query_fetcher name query_all :
    (name, query_all) ∈ M.(list_queries) → fetcher_of M name (fetch_all M.(max_pages) query_all);
  default_caches name : name ∈ M.(cache_names) → M.(getDefaultState).(caches) !! name = Some ∅;
  default_empty name cache : M.(getDefaultState).(caches) !! name = Some cache → cache = ∅;
  default_subscriptions : M.(getDefaultState).(Subscriptions) = [];
}.

(** ** One query *)

(** A call whose value was fetched: [destructure] has copied the parameters. *)
Lemma destructure_key payload a :
  destructure payload = Ok a → ∃ fs, a.(arg_params) = Obj fs.
Proof.
  unfold destructure. destruct (VuexStore.destructure payload) as [b|]; simpl; [|done].
  destruct (is_nullish _); [done|]. intros [= <-]. by eexists.
Qed.

Lemma cosmos_QUERY_ok name key value s cache :
  s.(caches) !! name = Some cache →
  QUERY name key value s =
    Ok (s <| caches := <[name := <[json_key key := value]> cache]> s.(caches) |>).
Proof.
  intros H. unfold QUERY. by rewrite (VuexStore.QUERY_ok name key value (cached s) cache H).
Qed.

Lemma QUERY_inv name key value s s' :
  QUERY name key value s = Ok s' →
  ∃ cache, s.(caches) !! name = Some cache ∧
    s' = s <| caches := <[name := <[json_key key := value]> cache]> s.(caches) |>.
Proof.
  intros H. destruct (s.(caches) !! name) as [cache|] eqn:E.
  - rewrite (cosmos_QUERY_ok _ _ _ _ _ E) in H. injection H as <-. by exists cache.
  - unfold QUERY, VuexStore.QUERY, cached in H. simpl in H. by rewrite E in H.
Qed.

Lemma cosmos_run_commit server m s s' : m s = Ok s' → run server (commit m) s = (s', Ok tt).
Proof. intros H. simpl. by rewrite H. Qed.

(** The state after a value was stored. *)
Definition stored (name : string) (a : query_args) (key value : js) (s s' : state) : Prop :=
  ∃ s1, QUERY name (Obj (cache_key key a.(arg_query))) value s = Ok s1 ∧
    s' = if js_Boolean a.(arg_subscribe)
         then SUBSCRIBE (subscription ("Query" +:+ name) a.(arg_all) key a.(arg_query)) s1
         else s1.

Lemma get_cached_stored name key query value s cache :
  plain_query query = true →
  s.(caches) !! name = Some (<[json_key (Obj (cache_key key query)) := value]> cache) →
  get_cached name s (Some (cache_key key query)) = or_empty value.
Proof.
  intros Hq Hc. unfold get_cached.
  rewrite (get_cached_spec name (cached s) key query _ Hc).
  by rewrite plain_query_key, lookup_insert_eq.
Qed.

Lemma cosmos_run_store_value server name a key value s cache :
  s.(caches) !! name = Some cache → plain_query a.(arg_query) = true →
  ∃ s', run server (store_value name a key value) s = (s', Ok (or_empty value)) ∧
        get_cached name s' (Some (cache_key key a.(arg_query))) = or_empty value ∧
        stored name a key value s s'.
Proof.
  intros Hc Hq. unfold store_value, stored.
  pose proof (cosmos_QUERY_ok name (Obj (cache_key key (arg_query a))) value s cache Hc) as HQ.
  rewrite run_bind, (cosmos_run_commit _ _ _ _ HQ), run_bind, HQ.
  destruct (js_Boolean (arg_subscribe a)).
  - erewrite cosmos_run_commit by reflexivity. cbn [run].
    erewrite get_cached_stored; [|done|simpl; apply lookup_insert_eq].
    rewrite or_empty_idem. eexists. split; [done|]. split; [|by eauto].
    eapply get_cached_stored; [done|]. simpl. apply lookup_insert_eq.
  - cbn [run]. erewrite get_cached_stored; [|done|simpl; apply lookup_insert_eq].
    rewrite or_empty_idem. eexists. split; [done|]. split; [|by eauto].
    eapply get_cached_stored; [done|]. simpl. apply lookup_insert_eq.
Qed.

Lemma cosmos_run_query_action server name fetch payload a s :
  destructure payload = Ok a → stateless (fetch a a.(arg_params)) →
  run server (query_action name fetch payload) s =
    match (run server (fetch a a.(arg_params)) s).2 with
    | Ok value =>
        match run server (store_value name a a.(arg_params) value) s with
        | (s', Ok v) => (s', Ok v)
        | (s', Err e) => run server (query_error name e) s'
        end
    | Err e => run server (query_error name e) s
    end.
Proof.
  intros Ha Hst. unfold query_action. rewrite Ha. cbn [of_result].
  change (Ret a ≫= ?f) with (f a). cbv beta. rewrite run_catch, run_bind.
  pose proof (run_stateless server (fetch a (arg_params a)) s Hst) as Hs.
  destruct (run server (fetch a (arg_params a)) s) as [s' [v|e]]; simpl in *; subst s'; [|done].
  by destruct (run server (store_value name a (arg_params a) v) s) as [s' [?|?]].
Qed.

(** A subscription holds its action and its arguments. *)
Lemma refresh_subscription dispatch action all fs query :
  refresh dispatch (subscription action all (Obj fs) query) =
    catch (dispatch action
             (Obj [("options", Obj [("all", all)]); ("params", Obj (object_of fs)); ("query", query)]))
          (fun e => m ← of_result (exn_message e);
                    Throw (SpVuexError ["Subscriptions: " +:+ js_String m])).
Proof. reflexivity. Qed.

Section laws.
Context (M : StoreModule) {L : StoreLaws M}.

Lemma cosmos_run_dispatch_stores server name fetch payload a s cache value :
  fetcher_of M name fetch → destructure payload = Ok a → plain_query a.(arg_query) = true →
  s.(caches) !! name = Some cache →
  (run server (fetch a a.(arg_params)) s).2 = Ok value →
  ∃ s', run server (dispatch M ("Query" +:+ name) payload) s = (s', Ok (or_empty value)) ∧
        get_cached name s' (Some (cache_key a.(arg_params) a.(arg_query))) = or_empty value ∧
        stored name a a.(arg_params) value s s'.
Proof.
  intros Hf Ha Hq Hc Hv. rewrite (dispatch_fetcher _ _ _ Hf).
  rewrite (cosmos_run_query_action _ _ _ _ _ _ Ha (fetcher_stateless _ _ _ _ Hf)), Hv.
  destruct (cosmos_run_store_value server name a (arg_params a) value s cache Hc Hq) as (s' & Hr & Hg & Hs').
  exists s'. by rewrite Hr.
Qed.

Lemma cosmos_run_dispatch_atomic server action payload s s' e :
  (∀ name, name ∈ M.(cache_names) → is_Some (s.(caches) !! name)) →
  run server (dispatch M action payload) s = (s', Err e) → s' = s.
Proof.
  intros Hc Hr. destruct (dispatch_known action payload) as [(name & fetch & Hf & Hd)|Hd];
    rewrite Hd in Hr; [|by simplify_eq/=].
  assert (name ∈ M.(cache_names)) as Hn by by eapply fetcher_cached.
  destruct (destructure payload) as [a|e'] eqn:Ha.
  2: { unfold query_action in Hr. rewrite Ha in Hr. by simplify_eq/=. }
  rewrite (cosmos_run_query_action _ _ _ _ _ _ Ha (fetcher_stateless _ _ _ _ Hf)) in Hr.
  destruct (run server (fetch a (arg_params a)) s).2 as [value|e'].
  - destruct (Hc _ Hn) as [cache Hcache].
    unfold store_value in Hr. rewrite run_bind in Hr.
    erewrite cosmos_run_commit in Hr by by apply cosmos_QUERY_ok.
    rewrite run_bind in Hr. by destruct (js_Boolean (arg_subscribe a)).
  - unfold query_error in Hr. by destruct (exn_message e') in Hr; simplify_eq/=.
Qed.

(** A call without parameters ends before the [try], with the error of the
    destructuring. *)
Lemma run_dispatch_no_params server name fetch payload a s :
  fetcher_of M name fetch → VuexStore.destructure payload = Ok a → is_nullish a.(arg_params) = true →
  run server (dispatch M ("Query" +:+ name) payload) s =
    (s, Err (no_params_error a.(arg_params))).
Proof.
  intros Hf Ha Hn. rewrite (dispatch_fetcher _ _ _ Hf). unfold query_action, destructure.
  rewrite Ha. simpl. by rewrite Hn.
Qed.

(** A subscription is refreshed with the arguments it was made with. *)
Lemma cosmos_run_refresh server name fetch payload a s cache :
  fetcher_of M name fetch → destructure payload = Ok a →
  let b := mkArgs Undefined a.(arg_all) (Obj (object_of (spread a.(arg_params)))) a.(arg_query) in
  plain_query a.(arg_query) = true → s.(caches) !! name = Some cache →
  let p := refresh (dispatch M) (subscription ("Query" +:+ name) a.(arg_all) a.(arg_params)
             a.(arg_query)) in
  match (run server (fetch b b.(arg_params)) s).2 with
  | Ok value =>
      run server p s =
        (s <| caches := <[name := <[json_key (Obj (cache_key a.(arg_params) a.(arg_query))) := value]>
                                    cache]> s.(caches) |>, Ok (or_empty value))
  | Err _ => ∃ e, run server p s = (s, Err e)
  end.
Proof.
  intros Hf Ha b Hq Hc p. destruct (destructure_key _ _ Ha) as [fs Hfs].
  destruct a as [sub all params query]. cbn [arg_params arg_all arg_query] in *. subst params.
  assert (object_of (object_of fs) = object_of fs) as Hid
    by apply object_of_ordered, object_of_is_ordered.
  set (args := Obj [("options", Obj [("all", all)]); ("params", Obj (object_of fs)); ("query", query)]).
  assert (destructure args = Ok b) as Hp.
  { unfold args, b, destructure. cbn -[object_of]. rewrite Hid. by destruct query. }
  unfold p. rewrite (refresh_subscription (dispatch M) ("Query" +:+ name) all fs query : refresh _ _ = _).
  fold args. rewrite run_catch, (dispatch_fetcher _ _ _ Hf).
  rewrite (cosmos_run_query_action _ _ _ _ _ _ Hp (fetcher_stateless _ _ _ _ Hf)).
  destruct (run server (fetch b b.(arg_params)) s).2 as [value|e].
  - destruct (cosmos_run_store_value server name b (arg_params b) value s cache Hc Hq)
      as (s' & -> & _ & (s1 & HQ & ->)).
    rewrite (cosmos_QUERY_ok _ _ _ _ _ Hc) in HQ. injection HQ as <-.
    unfold b, cache_key. cbn -[object_of json_key]. by rewrite Hid.
  - unfold query_error. rewrite run_bind, run_of_result.
    destruct (exn_message e) as [msg|e1]; cbn [run];
      rewrite run_bind, run_of_result; by destruct (exn_message _); eexists.
Qed.

Lemma cosmos_run_refresh_entry server name fetch payload a s cache value :
  fetcher_of M name fetch → destructure payload = Ok a →
  let b := mkArgs Undefined a.(arg_all) (Obj (object_of (spread a.(arg_params)))) a.(arg_query) in
  plain_query a.(arg_query) = true → s.(caches) !! name = Some cache →
  (run server (fetch b b.(arg_params)) s).2 = Ok value →
  run server (refresh (dispatch M) (subscription ("Query" +:+ name) a.(arg_all) a.(arg_params)
    a.(arg_query))) s =
    (s <| caches := <[name := <[json_key (Obj (cache_key a.(arg_params) a.(arg_query))) := value]> cache]>
                      s.(caches) |>, Ok (or_empty value)).
Proof.
  intros Hf Ha b Hq Hc Hv.
  pose proof (cosmos_run_refresh server name fetch payload a s cache Hf Ha Hq Hc) as H.
  cbv zeta in H. fold b in H. by rewrite Hv in H.
Qed.

(** ** Pages *)

Lemma cosmos_run_dispatch_pages server name query_all f payload a s cache p ps :
  (name, query_all) ∈ M.(list_queries) → destructure payload = Ok a →
  plain_query a.(arg_query) = true → js_Boolean a.(arg_all) = true →
  s.(caches) !! name = Some cache → f ≠ "pagination" → (length ps <= M.(max_pages))%nat →
  answers server (query_all a.(arg_params)) f a.(arg_query) p →
  Pages.follows "nextKey" server (query_all a.(arg_params)) f a.(arg_query) p ps →
  ∃ s', run server (dispatch M ("Query" +:+ name) payload) s =
          (s', Ok (page_value f (concat (map items (p :: ps))) (List.last ps p).(pagination))) ∧
        stored name a a.(arg_params)
          (page_value f (concat (map items (p :: ps))) (List.last ps p).(pagination)) s s'.
Proof.
  intros Hl%list_query_fetcher Ha Hq Hall Hc Hf Hlen Hp Hps.
  destruct (cosmos_run_dispatch_stores server name _ payload a s cache
    (page_value f (concat (map items (p :: ps))) (List.last ps p).(pagination)) Hl Ha Hq Hc)
    as (s' & Hr & _ & Hs'); [|by exists s'].
  unfold fetch_all. rewrite Hall.
  by rewrite (fetch_list_spec "nextKey" server _ f (arg_query a) M.(max_pages) p ps).
Qed.

(** The pages of a node that gives the key of the next page under another name:
    the first one is taken for the whole list. *)
Lemma run_dispatch_first_page server name query_all payload a s cache r pg :
  (name, query_all) ∈ M.(list_queries) → destructure payload = Ok a →
  plain_query a.(arg_query) = true → js_Boolean a.(arg_all) = true →
  s.(caches) !! name = Some cache →
  run server (query_all a.(arg_params) a.(arg_query)) s = (s, Ok r) →
  get r.(data) "pagination" = Ok pg → get pg "nextKey" = Ok Undefined →
  ∃ s', run server (dispatch M ("Query" +:+ name) payload) s = (s', Ok (or_empty r.(data))) ∧
        stored name a a.(arg_params) r.(data) s s'.
Proof.
  intros Hl%list_query_fetcher Ha Hq Hall Hc Hr Hp Hn.
  destruct (cosmos_run_dispatch_stores server name _ payload a s cache r.(data) Hl Ha Hq Hc)
    as (s' & Hs & _ & Hs'); [|by exists s'].
  unfold fetch_all. rewrite Hall. by rewrite (fetch_list_stops _ _ _ _ _ r _ pg).
Qed.

(** ** Subscribing again *)

(** [n] calls one after the other. *)
Fixpoint run_times (server : FetchCall → result Response) (n : nat) (p : task js) (s : state) : state :=
  match n with
  | O => s
  | S n' => run_times server n' p (run server p s).1
  end.

Lemma stored_again name a key value s s' :
  js_Boolean a.(arg_subscribe) = true → stored name a key value s s' →
  s'.(Subscriptions) = s.(Subscriptions) ++
    [(s.(objects), subscription ("Query" +:+ name) a.(arg_all) key a.(arg_query))] ∧
  s'.(objects) = S s.(objects) ∧ is_Some (s'.(caches) !! name).
Proof.
  intros Hsub (s1 & (cache & Hc & ->)%QUERY_inv & ->). rewrite Hsub. simpl.
  split_and!; [done..|]. rewrite lookup_insert_eq. by eexists.
Qed.

Lemma run_times_subscribed server name fetch payload a n s value :
  fetcher_of M name fetch → destructure payload = Ok a → plain_query a.(arg_query) = true →
  js_Boolean a.(arg_subscribe) = true → is_Some (s.(caches) !! name) →
  (∀ s, (run server (fetch a a.(arg_params)) s).2 = Ok value) →
  let sub := subscription ("Query" +:+ name) a.(arg_all) a.(arg_params) a.(arg_query) in
  (run_times server n (dispatch M ("Query" +:+ name) payload) s).(Subscriptions) =
    s.(Subscriptions) ++ map (fun o => (o, sub)) (seq s.(objects) n).
Proof.
  intros Hf Ha Hq Hsub Hc Hv sub. revert s Hc.
  induction n as [|n IH]; intros s [cache Hc]; cbn [run_times seq map]; [by rewrite app_nil_r|].
  destruct (cosmos_run_dispatch_stores server name fetch payload a s cache value Hf Ha Hq Hc (Hv s))
    as (s' & Hr & _ & Hs'). rewrite Hr. cbn [fst].
  destruct (stored_again _ _ _ _ _ _ Hsub Hs') as (Hsubs & Hobj & Hc').
  by rewrite IH, Hsubs, Hobj, <- app_assoc.
Qed.

End laws.

(** Deleting an object that is not in the set changes nothing. *)
Lemma UNSUBSCRIBE_other o s :
  o ∉ s.(Subscriptions).*1 → (UNSUBSCRIBE o s).(Subscriptions) = s.(Subscriptions).
Proof.
  unfold UNSUBSCRIBE. simpl. induction s.(Subscriptions) as [|[o' sub] l IH]; [done|]. csimpl.
  intros [Hne Hl]%not_elem_of_cons. destruct (Nat.eqb_spec o' o); [by subst|]. simpl. by rewrite IH.
Qed.

(** ** Interleaving *)

Section interleaving.
Context (M : StoreModule) {L : StoreLaws M}.
Abbreviation log := (list (FetchCall * result Response)).

(** The answers [h] include those from which the fetch of the query [name], for
    arguments whose key is [k], returned [v]. *)
Definition explained (h : log) (name k : string) (v : js) : Prop :=
  ∃ fetch a own, fetcher_of M name fetch ∧
    k = json_key (Obj (cache_key a.(arg_params) a.(arg_query))) ∧
    own ⊆ h ∧ replays (fetch a a.(arg_params)) own (Ok v).

Definition caches_explained (h : log) (s : state) : Prop :=
  ∀ name cache k v, s.(caches) !! name = Some cache → cache !! k = Some v → explained h name k v.

(** The subscriptions are distinct objects that the query actions made. *)
Definition subs_known (s : state) : Prop :=
  NoDup s.(Subscriptions).*1 ∧ Forall (fun o => (o < s.(objects))%nat) s.(Subscriptions).*1 ∧
  Forall (fun sub => ∃ name fetch all key query,
    fetcher_of M name fetch ∧ sub = subscription ("Query" +:+ name) all key query)
    s.(Subscriptions).*2.

Definition has_caches (s : state) : Prop :=
  ∀ name, name ∈ M.(cache_names) → is_Some (s.(caches) !! name).

Definition store_inv (h : log) (s : state) : Prop :=
  caches_explained h s ∧ subs_known s ∧ has_caches s.

Lemma cosmos_store_inv_grows h h' s : h ⊆ h' → store_inv h s → store_inv h' s.
Proof.
  intros Hh [Hc Hs]. split; [|done]. intros name cache k v H1 H2.
  destruct (Hc _ _ _ _ H1 H2) as (f & a & own & ? & ? & ? & ?).
  exists f, a, own. split_and!; [done..|set_solver|done].
Qed.

Lemma QUERY_inv_kept h name key v s s' :
  store_inv h s → explained h name (json_key key) v → QUERY name key v s = Ok s' → store_inv h s'.
Proof.
  intros (Hc & Hs & Hh) Hv (cache & Hl & ->)%QUERY_inv.
  split; [|split; [done|intros name' Hn; by apply caches_kept, Hh]].
  intros name' cache' k v'. simpl. intros [[<- <-]|[_ Hc']]%lookup_insert_Some; [|by eapply Hc].
  intros [[<- <-]|[_ ?]]%lookup_insert_Some; [done|]. by eapply Hc.
Qed.

Lemma SUBSCRIBE_inv_kept h name fetch all key query s :
  fetcher_of M name fetch → store_inv h s →
  store_inv h (SUBSCRIBE (subscription ("Query" +:+ name) all key query) s).
Proof.
  intros Hf (Hc & (Hn & Hlt & Hk) & Hh). split; [exact Hc|]. split; [|exact Hh].
  unfold SUBSCRIBE, subs_known. simpl. rewrite !fmap_app. simpl. split_and!.
  - apply list.NoDup_app. split; [done|]. split; [|apply NoDup_singleton].
    intros o Ho ->%list_elem_of_singleton.
    rewrite Forall_forall in Hlt. apply list_elem_of_In, Hlt in Ho. lia.
  - apply List.Forall_app. split; [|repeat constructor].
    eapply List.Forall_impl; [|exact Hlt]. simpl. lia.
  - apply List.Forall_app. split; [done|]. repeat constructor. by exists name, fetch, all, key, query.
Qed.

Lemma UNSUBSCRIBE_inv_kept h o s : store_inv h s → store_inv h (UNSUBSCRIBE o s).
Proof.
  intros (Hc & (Hn & Hlt & Hk) & Hh). split; [exact Hc|]. split; [|exact Hh].
  unfold UNSUBSCRIBE, subs_known. simpl. revert Hn Hlt Hk. generalize (objects s). clear.
  induction (Subscriptions s) as [|[o' sub] l IH]; intros n; [done|]. csimpl. intros Hn Hlt Hk.
  inversion_clear Hn as [|? ? Hin Hn']. inversion_clear Hlt. inversion_clear Hk.
  destruct (IH n) as (Hn1 & Hlt1 & Hk1); [done..|].
  destruct (negb (o' =? o)%nat); [|done]. csimpl. split_and!; [|by constructor..].
  constructor; [|done]. intros (x & Hx & Hin')%list_elem_of_fmap. apply Hin.
  apply list_elem_of_fmap. exists x. split; [done|].
  apply list_elem_of_In, filter_In in Hin' as [Hin' _]. by apply list_elem_of_In.
Qed.

Lemma RESET_inv_kept h s : store_inv h (RESET_STATE M.(getDefaultState) s).
Proof.
  split; [|split].
  - intros name cache k v Hc Hk. simpl in Hc. apply default_empty in Hc as ->.
    by rewrite lookup_empty in Hk.
  - unfold subs_known. simpl. rewrite default_subscriptions. by repeat constructor.
  - intros name Hn. simpl. rewrite default_caches by done. by eexists.
Qed.

(** The tasks the application can start on the store. *)
Inductive store_task : task js → Prop :=
| task_dispatch action payload : store_task (dispatch M action payload)
| task_refresh sub : store_task (refresh (dispatch M) sub)
| task_resetState : store_task (resetState M)
| task_unsubscribe o : store_task (unsubscribe o).

(** Each of them touches the store only once all its answers are there. *)
Lemma cosmos_task_one_shot server p : store_task p → one_shot server p.
Proof.
  assert (∀ action payload, one_shot server (dispatch M action payload)) as Hd.
  { intros action payload. destruct (dispatch_known action payload) as [(name & fetch & Hf & ->)| ->];
      [|done].
    unfold query_action. apply one_shot_of_result. intros a.
    apply one_shot_catch; [|intros e; unfold query_error; by destruct (exn_message e)].
    apply one_shot_bind; [by eapply fetcher_stateless|]. intros v. unfold store_value.
    apply no_await_bind; [by intros s0; destruct (QUERY _ _ _ s0)|intros _].
    apply no_await_bind; [by destruct (js_Boolean (arg_subscribe a))|by intros _ s0]. }
  intros [action payload|sub| |o]; [apply Hd| |done..].
  unfold refresh. apply one_shot_catch; [|intros e; by destruct (exn_message e)].
  repeat (apply one_shot_of_result; intros ?). apply Hd.
Qed.

Abbreviation keeps := (fun (_ h : log) (_ : result js) (s : state) => store_inv h s).

Lemma cosmos_wp_query_error own h name e s :
  store_inv h s → wp store_inv own h (query_error name e) s keeps.
Proof. intros H. unfold query_error. by destruct (exn_message e). Qed.

Lemma cosmos_wp_store_value own h name fetch a v s :
  fetcher_of M name fetch → own ⊆ h → replays (fetch a a.(arg_params)) own (Ok v) →
  store_inv h s → wp store_inv own h (store_value name a a.(arg_params) v) s keeps.
Proof.
  intros Hf Hown Hr Hs. unfold store_value. apply wp_bind. simpl.
  destruct (QUERY name _ v s) as [s1|e] eqn:HQ; [|done]. simpl.
  assert (store_inv h s1) as Hs1.
  { eapply QUERY_inv_kept; [done| |exact HQ]. by exists fetch, a, own. }
  apply wp_bind. destruct (js_Boolean (arg_subscribe a)); simpl; [|done].
  by eapply SUBSCRIBE_inv_kept.
Qed.

Lemma wp_dispatch h action payload s :
  store_inv h s → wp store_inv [] h (dispatch M action payload) s keeps.
Proof.
  intros Hs. destruct (dispatch_known action payload) as [(name & fetch & Hf & ->)| ->]; [|done].
  unfold query_action. destruct (destructure payload) as [a|e]; [|done].
  cbn [of_result]. change (Ret ?x ≫= ?g) with (g x). cbv beta. apply wp_catch, wp_bind.
  eapply wp_mono; [|by apply wp_replay; eauto using cosmos_store_inv_grows, fetcher_stateless with set_solver].
  simpl. intros own h' r s' (own' & -> & Hsub & Hs' & Hr). simpl in Hr, Hsub |- *.
  destruct r as [v|e]; [|by apply cosmos_wp_query_error].
  eapply wp_mono; [|by eapply cosmos_wp_store_value].
  intros own2 h'' [w|e] s''; [done|]. by apply cosmos_wp_query_error.
Qed.

Lemma cosmos_wp_store_task p h s :
  store_task p → store_inv h s → wp store_inv [] h p s keeps.
Proof.
  intros [action payload|sub| |o] Hs.
  - by apply wp_dispatch.
  - unfold refresh. apply wp_catch.
    assert (∀ own h' e s', store_inv h' s' → wp store_inv own h'
      (m ← of_result (exn_message e); Throw (SpVuexError ["Subscriptions: " +:+ js_String m]) : task js)
      s' keeps) as Herr by (intros own h' e s' H; by destruct (exn_message e)).
    destruct (get sub "action") as [action|e]; [|by apply Herr]. simpl.
    destruct (get sub "payload") as [payload|e]; [|by apply Herr]. simpl.
    eapply wp_mono; [|by apply wp_dispatch]. intros own h' [v|e] s'; [done|]. by apply Herr.
  - simpl. by apply RESET_inv_kept.
  - simpl. by apply UNSUBSCRIBE_inv_kept.
Qed.

Lemma cosmos_reachable_inv sys :
  rtc (sys_step store_task) (mkSystem M.(getDefaultState) [] []) sys →
  store_inv sys.(history) sys.(shared).
Proof.
  intros Hr. eapply (sys_steps_safe store_inv) in Hr as [Hi _].
  - exact Hi.
  - apply cosmos_store_inv_grows.
  - intros p h s. apply cosmos_wp_store_task.
  - split; [exact (RESET_inv_kept [] M.(getDefaultState))|constructor].
Qed.

(** *** A new block *)

(** A query that was subscribed to, with the arguments of its call. *)
Record live := mkLive {
  live_name : string;
  live_fetch : query_args → js → task js;
  live_payload : js;
  live_args : query_args;
}.

Definition live_sub (l : live) : js :=
  subscription ("Query" +:+ l.(live_name)) l.(live_args).(arg_all) l.(live_args).(arg_params)
    l.(live_args).(arg_query).

Definition live_key (l : live) : string :=
  json_key (Obj (cache_key l.(live_args).(arg_params) l.(live_args).(arg_query))).

Definition live_ok (l : live) : Prop :=
  fetcher_of M l.(live_name) l.(live_fetch) ∧ destructure l.(live_payload) = Ok l.(live_args) ∧
  plain_query l.(live_args).(arg_query) = true.

(** What the server gives for the query now. *)
Definition live_value (server : FetchCall → result Response) (l : live) : result js :=
  let a := l.(live_args) in
  let b := mkArgs Undefined a.(arg_all) (Obj (object_of (spread a.(arg_params)))) a.(arg_query) in
  (run server (l.(live_fetch) b b.(arg_params)) M.(getDefaultState)).2.

Definition entry (s : state) : string → string → option js := cache_entry s.(caches).

Lemma cosmos_live_refreshes server l :
  live_ok l →
  refreshes server entry Subscriptions has_caches (fun l => refresh (dispatch M) (live_sub l))
    live_name live_key (live_value server) l.
Proof.
  intros (Hf & Ha & Hq). split; [apply cosmos_task_one_shot; constructor|].
  intros s Hs. destruct (Hs _ (fetcher_cached _ _ Hf)) as [cache Hc].
  pose proof (cosmos_run_refresh M server _ _ _ _ s cache Hf Ha Hq Hc) as H. cbv zeta in H.
  fold (live_sub l) in H. unfold refreshed, live_value. cbv zeta.
  rewrite (run_stateless_result _ _ s M.(getDefaultState)) in H by by eapply fetcher_stateless.
  destruct (run server _ M.(getDefaultState)).2 as [v|e].
  - rewrite H. simpl. split_and!; [done| |].
    + intros name Hn. by apply caches_kept, Hs.
    + intros name k. by apply cache_entry_update.
  - destruct H as [e' H]. by rewrite H.
Qed.

(** When the tasks of [StoreUpdate] are done, the store is up to date. *)
Lemma cosmos_update_done server s ls sys :
  Forall live_ok ls → has_caches s → s.(Subscriptions).*2 = map live_sub ls →
  served server s (StoreUpdate (dispatch M) s) sys → all_done sys →
  up_to_date entry Subscriptions live_name live_key (live_value server) ls s sys.(shared).
Proof.
  intros Hls Hs Hsubs.
  assert (StoreUpdate (dispatch M) s = map (fun l => refresh (dispatch M) (live_sub l)) ls) as ->.
  { unfold StoreUpdate. rewrite <- (map_map live_sub (refresh (dispatch M))), <- Hsubs.
    symmetry. apply map_map. }
  apply served_up_to_date with has_caches; [|done].
  eapply List.Forall_impl; [|exact Hls]. apply cosmos_live_refreshes.
Qed.

End interleaving.

(** ** The laws of a module from its tables *)

Lemma cosmos_stateless_request c p : stateless (request (S := state) c p).
Proof. unfold request. destruct (request_start c p) as [call c']. auto with dcl. Qed.

Lemma cosmos_stateless_fetch_all fuel query_all a key :
  (∀ q, stateless (query_all key q)) → stateless (fetch_all fuel query_all a key).
Proof. intros Hq. by apply stateless_fetch_list. Qed.

Lemma cosmos_store_laws_of_tables (M : StoreModule) :
  M.(query_actions) = action_table query_action M.(fetchers) →
  bool_decide (NoDup M.(fetchers).*1) = true →
  bool_decide (Forall (fun name => name ∈ M.(cache_names)) M.(fetchers).*1) = true →
  Forall (fun l => (l.1, fetch_all M.(max_pages) l.2) ∈ M.(fetchers)) M.(list_queries) →
  Forall (fun entry => ∀ a key, stateless (entry.2 a key)) M.(fetchers) →
  M.(getDefaultState).(caches) = empty_caches M.(cache_names) →
  M.(getDefaultState).(Subscriptions) = [] →
  StoreLaws M.
Proof.
  rewrite !bool_decide_eq_true, !Forall_forall. setoid_rewrite <- list_elem_of_In.
  intros Ha Hnd Hc Hl Hst Hdef Hsub. split; unfold fetcher_of, dispatch; rewrite ?Ha.
  - intros name fetch payload Hf. by rewrite (assoc_action_table _ _ name fetch).
  - intros action payload. destruct (assoc action _) as [act|] eqn:E; [left|by right].
    apply assoc_action_table_inv in E as (name & fetch & Hf & ->). eauto.
  - intros name fetch Hf. apply Hc, list_elem_of_fmap. by exists (name, fetch).
  - intros name fetch a key Hf. by apply (Hst (name, fetch)).
  - intros name query_all. apply (Hl (name, query_all)).
  - rewrite Hdef. apply empty_caches_lookup.
  - rewrite Hdef. apply empty_caches_empty.
  - done.
Qed.
End actions.

(** ** Transactions *)

Section client.
Context {CJ : Cosmjs} {SV : SpVuex}.

(** The client is always connected, also to an empty address. *)
Definition txClient {Msg : Type} (registry : TypeRegistry Msg) (wallet : option Wallet)
    (options : option js) : result (TxClient Msg) :=
  match wallet with
  | None => Err MissingWalletError
  | Some wallet =>
      client ← connectWithSigner (options ?? Str "http://localhost:26657") wallet registry;
      accounts ← getAccounts wallet;
      match accounts with
      | address :: _ => Ok (mkTxClient client address)
      | [] => Err (TypeError "Cannot destructure property 'address' of 'undefined'")
      end
  end.

Definition initTxClient {Msg : Type} (registry : TypeRegistry Msg) (rootGetters : root_getters)
    : result (TxClient Msg) :=
  txClient registry rootGetters.(signer) (Some rootGetters.(apiTendermint)).

Section messages.
Context {Msg P : Type} (rootGetters : root_getters) (registry : TypeRegistry Msg).

(** The action [sendMsgX], where [create] is [msgX] of the client. *)
Definition send_msg (name : string) (create : option P → EncodeObject Msg) (args : send_args P)
    : result js :=
  try_catch
    (client ← initTxClient registry rootGetters;
     signAndBroadcast client [create args.(send_value)]
       (Some (mkFee (args.(send_fee) ?? []) "200000", args.(send_memo) ?? "")))
    (tx_error name "Send" "Could not broadcast Tx: ").

(** The action [MsgX]. *)
Definition create_msg (name : string) (create : option P → EncodeObject Msg) (value : option P)
    : result (EncodeObject Msg) :=
  try_catch (_ ← initTxClient registry rootGetters; Ok (create value))
    (tx_error name "Create" "Could not create message: ").

(** What the two actions do: without a wallet they fail in their own way; with
    one, the message is built from whatever is given, and broadcast. *)
Definition acts_as (name : string) (create : option P → EncodeObject Msg)
    (send : send_args P → result js) (make : option P → result (EncodeObject Msg)) : Prop :=
  (rootGetters.(signer) = None →
     let e := SpVuexError ["TxClient:" +:+ name +:+ ":Init";
                           "Could not initialize signing client. Wallet is required."] in
     (∀ args, send args = Err e) ∧ ∀ value, make value = Err e) ∧
  (∀ w client addr accounts,
     rootGetters.(signer) = Some w →
     connectWithSigner rootGetters.(apiTendermint) w registry = Ok client →
     getAccounts w = Ok (addr :: accounts) →
     (∀ args, send args =
        match broadcast client addr [create args.(send_value)]
                (mkFee (args.(send_fee) ?? []) "200000") (args.(send_memo) ?? "") with
        | Ok r => Ok r
        | Err e => tx_error name "Send" "Could not broadcast Tx: " e
        end) ∧
     ∀ value, make value = Ok (create value)).

Lemma acts_as_actions name create :
  acts_as name create (send_msg name create) (create_msg name create).
Proof.
  split.
  - intros Hs e. unfold send_msg, create_msg, initTxClient, txClient. by rewrite Hs.
  - intros w cl addr accounts Hs Hcl Hg.
    assert (initTxClient registry rootGetters = Ok (mkTxClient cl addr)) as Hi.
    { unfold initTxClient, txClient. rewrite Hs. cbn [nullish default id]. rewrite Hcl. simpl.
      by rewrite Hg. }
    unfold send_msg, create_msg. rewrite Hi. split; [|done]. intros args. reflexivity.
Qed.
End messages.

(** A type as the registry uses it on a message of these modules, which holds
    plain data: [Registry.encode] passes the value of a message through
    [fromPartial] of its type.  [data_of] takes the data out of a message of this
    type. *)
Definition row_type {PB : Protobuf} {Msg : Type} (M : message_type)
    (V : option M.(mt_partial) → Msg) (data_of : Msg → option (option M.(mt_partial)))
    : GeneratedType Msg := {|
  type_encode m :=
    match data_of m with
    | Some (Some d) => Some (finish <$> M.(mt_encode) (M.(mt_fromPartial) d) create)
    | Some None => Some (Err Unmodelled)
    | None => None
    end;
  type_decode b := (fun m => V (Some (M.(mt_full) m))) <$> decode_bytes (mt_decode M) b;
|}.

(** A message type of a module with its actions; [tx_row] is the type its URL is
    registered with. *)
Record tx_action {PB : Protobuf} (Msg : Type) := mkTxAction {
  tx_name : string;
  tx_row : message_type;
  tx_create : option tx_row.(mt_partial) → EncodeObject Msg;
  tx_send : send_args tx_row.(mt_partial) → result js;
  tx_make : option tx_row.(mt_partial) → result (EncodeObject Msg);
}.

(** The actions use the constructor, which gives every message of the type the
    URL under which the type is registered, and the registry, which encodes the
    message with the functions of this type. *)
Record tx_lawful {PB : Protobuf} {PS : ProtobufSpec PB} {Msg : Type} (rootGetters : root_getters)
    (types : list (string * message_type)) (registered : list (string * GeneratedType Msg))
    (A : tx_action Msg) : Prop := {
  tx_acts : acts_as rootGetters (newRegistry registered) A.(tx_name Msg) A.(tx_create Msg) A.(tx_send Msg) A.(tx_make Msg);
  tx_registered d : assoc (A.(tx_create Msg) d).(typeUrl) types = Some A.(tx_row Msg);
  tx_encodes d : ∃ T, assoc (A.(tx_create Msg) (Some d)).(typeUrl) registered = Some T ∧
    type_encode T (A.(tx_create Msg) (Some d)).(value) =
      Some (finish <$> A.(tx_row Msg).(mt_encode) (A.(tx_row Msg).(mt_fromPartial) d) create);
  tx_row_lawful : Lawful A.(tx_row Msg);
}.

End client.
End Cosmos.

Arguments Cosmos.mkTxAction {PB} Msg tx_name tx_row tx_create tx_send tx_make.
Arguments Cosmos.tx_name {PB Msg} _.
Arguments Cosmos.tx_row {PB Msg} _.
Arguments Cosmos.tx_create {PB Msg} _ _.
Arguments Cosmos.tx_send {PB Msg} _ _.
Arguments Cosmos.tx_make {PB Msg} _ _.

(** ** Tactics *)

Ltac solve_cosmos_stateless :=
  intros a key; cbn [snd];
  first
    [ apply Cosmos.cosmos_stateless_fetch_all; intros q;
      repeat (apply stateless_bind; [apply stateless_of_result|intros ?]);
      apply Cosmos.cosmos_stateless_request
    | repeat (apply stateless_bind;
              [first [apply Cosmos.cosmos_stateless_request|apply stateless_of_result]|intros ?]);
      exact I ].

Ltac solve_cosmos_laws :=
  apply Cosmos.cosmos_store_laws_of_tables;
  [ reflexivity | reflexivity | reflexivity
  | repeat constructor
  | repeat (apply List.Forall_cons; [solve_cosmos_stateless|]); apply List.Forall_nil
  | reflexivity | reflexivity ].

Ltac solve_cosmos_tx_laws :=
  repeat (apply List.Forall_cons;
    [split; [apply Cosmos.acts_as_actions | intros d; reflexivity
            | intros d; eexists; split; reflexivity | apply _]|]);
  apply List.Forall_nil.
