(* ===== verification/PkiStore.v ===== *)
(** * The client of the pki module

    The endpoints of pki/module/rest.js, the transaction client of
    pki/module/index.js and the store of pki/index.js: implementations of the
    interfaces of [ApiRoutes.v], [TxClient.v] and [StoreModule.v]. *)
From S2P Require Import Prelude Js Protobuf Codec PkiTypes PkiTx JsonText Uri Async RestClient ApiRoutes Pages VuexStore TxClient StoreModule.
Open Scope Z_scope.

(** ** Endpoints *)

Section api.
Context {S : Type}.

Definition queryApprovedCertificatesAll (c : HttpClient) (query : js) (params : RequestParams)
    : proc FetchCall Response S HttpResponse :=
  request c (get_json ("/dcl/pki/certificates")
    query params).

Definition queryApprovedCertificatesBySubject (c : HttpClient) (subject : js) (params : RequestParams)
    : proc FetchCall Response S HttpResponse :=
  request c (get_json ("/dcl/pki/certificates/" +:+ js_String subject)
    Undefined params).

Definition queryApprovedCertificates (c : HttpClient) (subject subjectKeyId : js) (params : RequestParams)
    : proc FetchCall Response S HttpResponse :=
  request c (get_json ("/dcl/pki/certificates/" +:+ js_String subject +:+ "/" +:+ js_String subjectKeyId)
    Undefined params).

Definition queryChildCertificates (c : HttpClient) (issuer authorityKeyId : js) (params : RequestParams)
    : proc FetchCall Response S HttpResponse :=
  request c (get_json ("/dcl/pki/child-certificates/" +:+ js_String issuer +:+ "/" +:+ js_String authorityKeyId)
    Undefined params).

Definition queryProposedCertificateAll (c : HttpClient) (query : js) (params : RequestParams)
    : proc FetchCall Response S HttpResponse :=
  request c (get_json ("/dcl/pki/proposed-certificates")
    query params).

Definition queryProposedCertificate (c : HttpClient) (subject subjectKeyId : js) (params : RequestParams)
    : proc FetchCall Response S HttpResponse :=
  request c (get_json ("/dcl/pki/proposed-certificates/" +:+ js_String subject +:+ "/" +:+ js_String subjectKeyId)
    Undefined params).

Definition queryProposedCertificateRevocationAll (c : HttpClient) (query : js) (params : RequestParams)
    : proc FetchCall Response S HttpResponse :=
  request c (get_json ("/dcl/pki/proposed-revocation-certificates")
    query params).

Definition queryProposedCertificateRevocation (c : HttpClient) (subject subjectKeyId : js) (params : RequestParams)
    : proc FetchCall Response S HttpResponse :=
  request c (get_json ("/dcl/pki/proposed-revocation-certificates/" +:+ js_String subject +:+ "/" +:+ js_String subjectKeyId)
    Undefined params).

Definition queryRejectedCertificateAll (c : HttpClient) (query : js) (params : RequestParams)
    : proc FetchCall Response S HttpResponse :=
  request c (get_json ("/dcl/pki/rejected-certificates")
    query params).

Definition queryRejectedCertificate (c : HttpClient) (subject subjectKeyId : js) (params : RequestParams)
    : proc FetchCall Response S HttpResponse :=
  request c (get_json ("/dcl/pki/rejected-certificates/" +:+ js_String subject +:+ "/" +:+ js_String subjectKeyId)
    Undefined params).

Definition queryRevokedCertificatesAll (c : HttpClient) (query : js) (params : RequestParams)
    : proc FetchCall Response S HttpResponse :=
  request c (get_json ("/dcl/pki/revoked-certificates")
    query params).

Definition queryRevokedCertificates (c : HttpClient) (subject subjectKeyId : js) (params : RequestParams)
    : proc FetchCall Response S HttpResponse :=
  request c (get_json ("/dcl/pki/revoked-certificates/" +:+ js_String subject +:+ "/" +:+ js_String subjectKeyId)
    Undefined params).

Definition queryRevokedRootCertificates (c : HttpClient) (params : RequestParams)
    : proc FetchCall Response S HttpResponse :=
  request c (get_json ("/dcl/pki/revoked-root-certificates")
    Undefined params).

Definition queryApprovedRootCertificates (c : HttpClient) (params : RequestParams)
    : proc FetchCall Response S HttpResponse :=
  request c (get_json ("/dcl/pki/root-certificates")
    Undefined params).

End api.

(** ** Routes *)

(** A query of the module with the values of its path parameters. *)
Inductive endpoint : Set :=
| ApprovedCertificatesAll
| ApprovedCertificatesBySubject (subject : string)
| ApprovedCertificates (subject subjectKeyId : string)
| ChildCertificates (issuer authorityKeyId : string)
| ProposedCertificateAll
| ProposedCertificate (subject subjectKeyId : string)
| ProposedCertificateRevocationAll
| ProposedCertificateRevocation (subject subjectKeyId : string)
| RejectedCertificateAll
| RejectedCertificate (subject subjectKeyId : string)
| RevokedCertificatesAll
| RevokedCertificates (subject subjectKeyId : string)
| RevokedRootCertificates
| ApprovedRootCertificates.

(** The method call of an endpoint; a method that takes a query object is given
    [query]. *)
Definition endpoint_call {S : Type} (c : HttpClient) (e : endpoint) (query : js)
    : proc FetchCall Response S HttpResponse :=
  match e with
  | ApprovedCertificatesAll => queryApprovedCertificatesAll c query no_params
  | ApprovedCertificatesBySubject subject => queryApprovedCertificatesBySubject c (Str subject) no_params
  | ApprovedCertificates subject subjectKeyId => queryApprovedCertificates c (Str subject) (Str subjectKeyId) no_params
  | ChildCertificates issuer authorityKeyId => queryChildCertificates c (Str issuer) (Str authorityKeyId) no_params
  | ProposedCertificateAll => queryProposedCertificateAll c query no_params
  | ProposedCertificate subject subjectKeyId => queryProposedCertificate c (Str subject) (Str subjectKeyId) no_params
  | ProposedCertificateRevocationAll => queryProposedCertificateRevocationAll c query no_params
  | ProposedCertificateRevocation subject subjectKeyId => queryProposedCertificateRevocation c (Str subject) (Str subjectKeyId) no_params
  | RejectedCertificateAll => queryRejectedCertificateAll c query no_params
  | RejectedCertificate subject subjectKeyId => queryRejectedCertificate c (Str subject) (Str subjectKeyId) no_params
  | RevokedCertificatesAll => queryRevokedCertificatesAll c query no_params
  | RevokedCertificates subject subjectKeyId => queryRevokedCertificates c (Str subject) (Str subjectKeyId) no_params
  | RevokedRootCertificates => queryRevokedRootCertificates c no_params
  | ApprovedRootCertificates => queryApprovedRootCertificates c no_params
  end.

(** Whether the method takes a query object. *)
Definition endpoint_takes_query (e : endpoint) : bool :=
  match e with
  | ApprovedCertificatesAll => true
  | ApprovedCertificatesBySubject _ => false
  | ApprovedCertificates _ _ => false
  | ChildCertificates _ _ => false
  | ProposedCertificateAll => true
  | ProposedCertificate _ _ => false
  | ProposedCertificateRevocationAll => true
  | ProposedCertificateRevocation _ _ => false
  | RejectedCertificateAll => true
  | RejectedCertificate _ _ => false
  | RevokedCertificatesAll => true
  | RevokedCertificates _ _ => false
  | RevokedRootCertificates => false
  | ApprovedRootCertificates => false
  end.

(** The segments of its route. *)
Definition endpoint_route (e : endpoint) : list string :=
  "dcl" :: "pki" ::
  match e with
  | ApprovedCertificatesAll => ["certificates"]
  | ApprovedCertificatesBySubject subject => ["certificates"; subject]
  | ApprovedCertificates subject subjectKeyId => ["certificates"; subject; subjectKeyId]
  | ChildCertificates issuer authorityKeyId => ["child-certificates"; issuer; authorityKeyId]
  | ProposedCertificateAll => ["proposed-certificates"]
  | ProposedCertificate subject subjectKeyId => ["proposed-certificates"; subject; subjectKeyId]
  | ProposedCertificateRevocationAll => ["proposed-revocation-certificates"]
  | ProposedCertificateRevocation subject subjectKeyId => ["proposed-revocation-certificates"; subject; subjectKeyId]
  | RejectedCertificateAll => ["rejected-certificates"]
  | RejectedCertificate subject subjectKeyId => ["rejected-certificates"; subject; subjectKeyId]
  | RevokedCertificatesAll => ["revoked-certificates"]
  | RevokedCertificates subject subjectKeyId => ["revoked-certificates"; subject; subjectKeyId]
  | RevokedRootCertificates => ["revoked-root-certificates"]
  | ApprovedRootCertificates => ["root-certificates"]
  end.

#[global] Program Instance routes : Routes endpoint :=
  {| api_call := endpoint_call; route := endpoint_route; takes_query := endpoint_takes_query |}.
Next Obligation. solve_route_path. Qed.
Next Obligation. by destruct e. Qed.

Lemma pki_route_inj e1 e2 : endpoint_route e1 = endpoint_route e2 → e1 = e2.
Proof. destruct e1, e2; simpl; intros H; simplify_eq; done. Qed.

(** ** Messages *)

(** A message of the module. *)
Inductive Msg : Type :=
| VMsgRejectAddX509RootCert (m : MsgRejectAddX509RootCert.t)
| VMsgProposeRevokeX509RootCert (m : MsgProposeRevokeX509RootCert.t)
| VMsgRevokeX509Cert (m : MsgRevokeX509Cert.t)
| VMsgApproveRevokeX509RootCert (m : MsgApproveRevokeX509RootCert.t)
| VMsgProposeAddX509RootCert (m : MsgProposeAddX509RootCert.t)
| VMsgApproveAddX509RootCert (m : MsgApproveAddX509RootCert.t)
| VMsgAddX509Cert (m : MsgAddX509Cert.t).

Definition msgRejectAddX509RootCert (data : option MsgRejectAddX509RootCert.partial) : result (EncodeObject Msg) :=
  m ← from_partial "signer" MsgRejectAddX509RootCert.fromPartial data;
  Ok (mkEncode "/zigbeealliance.distributedcomplianceledger.pki.MsgRejectAddX509RootCert" (VMsgRejectAddX509RootCert m)).

Definition msgProposeRevokeX509RootCert (data : option MsgProposeRevokeX509RootCert.partial) : result (EncodeObject Msg) :=
  m ← from_partial "signer" MsgProposeRevokeX509RootCert.fromPartial data;
  Ok (mkEncode "/zigbeealliance.distributedcomplianceledger.pki.MsgProposeRevokeX509RootCert" (VMsgProposeRevokeX509RootCert m)).

Definition msgRevokeX509Cert (data : option MsgRevokeX509Cert.partial) : result (EncodeObject Msg) :=
  m ← from_partial "signer" MsgRevokeX509Cert.fromPartial data;
  Ok (mkEncode "/zigbeealliance.distributedcomplianceledger.pki.MsgRevokeX509Cert" (VMsgRevokeX509Cert m)).

Definition msgApproveRevokeX509RootCert (data : option MsgApproveRevokeX509RootCert.partial) : result (EncodeObject Msg) :=
  m ← from_partial "signer" MsgApproveRevokeX509RootCert.fromPartial data;
  Ok (mkEncode "/zigbeealliance.distributedcomplianceledger.pki.MsgApproveRevokeX509RootCert" (VMsgApproveRevokeX509RootCert m)).

Definition msgProposeAddX509RootCert (data : option MsgProposeAddX509RootCert.partial) : result (EncodeObject Msg) :=
  m ← from_partial "signer" MsgProposeAddX509RootCert.fromPartial data;
  Ok (mkEncode "/zigbeealliance.distributedcomplianceledger.pki.MsgProposeAddX509RootCert" (VMsgProposeAddX509RootCert m)).

Definition msgApproveAddX509RootCert (data : option MsgApproveAddX509RootCert.partial) : result (EncodeObject Msg) :=
  m ← from_partial "signer" MsgApproveAddX509RootCert.fromPartial data;
  Ok (mkEncode "/zigbeealliance.distributedcomplianceledger.pki.MsgApproveAddX509RootCert" (VMsgApproveAddX509RootCert m)).

Definition msgAddX509Cert (data : option MsgAddX509Cert.partial) : result (EncodeObject Msg) :=
  m ← from_partial "signer" MsgAddX509Cert.fromPartial data;
  Ok (mkEncode "/zigbeealliance.distributedcomplianceledger.pki.MsgAddX509Cert" (VMsgAddX509Cert m)).

(** ** The type table *)

Section types.
Context {PB : Protobuf}.

Definition MsgRejectAddX509RootCert_type : GeneratedType Msg := {|
  type_encode v := match v with VMsgRejectAddX509RootCert m => Some (Ok (finish (MsgRejectAddX509RootCert.encode m create))) | _ => None end;
  type_decode b := VMsgRejectAddX509RootCert <$> decode_bytes MsgRejectAddX509RootCert.decode b;
|}.

Definition MsgProposeRevokeX509RootCert_type : GeneratedType Msg := {|
  type_encode v := match v with VMsgProposeRevokeX509RootCert m => Some (Ok (finish (MsgProposeRevokeX509RootCert.encode m create))) | _ => None end;
  type_decode b := VMsgProposeRevokeX509RootCert <$> decode_bytes MsgProposeRevokeX509RootCert.decode b;
|}.

Definition MsgRevokeX509Cert_type : GeneratedType Msg := {|
  type_encode v := match v with VMsgRevokeX509Cert m => Some (Ok (finish (MsgRevokeX509Cert.encode m create))) | _ => None end;
  type_decode b := VMsgRevokeX509Cert <$> decode_bytes MsgRevokeX509Cert.decode b;
|}.

Definition MsgApproveRevokeX509RootCert_type : GeneratedType Msg := {|
  type_encode v := match v with VMsgApproveRevokeX509RootCert m => Some (Ok (finish (MsgApproveRevokeX509RootCert.encode m create))) | _ => None end;
  type_decode b := VMsgApproveRevokeX509RootCert <$> decode_bytes MsgApproveRevokeX509RootCert.decode b;
|}.

Definition MsgProposeAddX509RootCert_type : GeneratedType Msg := {|
  type_encode v := match v with VMsgProposeAddX509RootCert m => Some (Ok (finish (MsgProposeAddX509RootCert.encode m create))) | _ => None end;
  type_decode b := VMsgProposeAddX509RootCert <$> decode_bytes MsgProposeAddX509RootCert.decode b;
|}.

Definition MsgApproveAddX509RootCert_type : GeneratedType Msg := {|
  type_encode v := match v with VMsgApproveAddX509RootCert m => Some (Ok (finish (MsgApproveAddX509RootCert.encode m create))) | _ => None end;
  type_decode b := VMsgApproveAddX509RootCert <$> decode_bytes MsgApproveAddX509RootCert.decode b;
|}.

Definition MsgAddX509Cert_type : GeneratedType Msg := {|
  type_encode v := match v with VMsgAddX509Cert m => Some (Ok (finish (MsgAddX509Cert.encode m create))) | _ => None end;
  type_decode b := VMsgAddX509Cert <$> decode_bytes MsgAddX509Cert.decode b;
|}.

Definition types : list (string * GeneratedType Msg) :=
  [("/zigbeealliance.distributedcomplianceledger.pki.MsgRejectAddX509RootCert", MsgRejectAddX509RootCert_type);
   ("/zigbeealliance.distributedcomplianceledger.pki.MsgProposeRevokeX509RootCert", MsgProposeRevokeX509RootCert_type);
   ("/zigbeealliance.distributedcomplianceledger.pki.MsgRevokeX509Cert", MsgRevokeX509Cert_type);
   ("/zigbeealliance.distributedcomplianceledger.pki.MsgApproveRevokeX509RootCert", MsgApproveRevokeX509RootCert_type);
   ("/zigbeealliance.distributedcomplianceledger.pki.MsgProposeAddX509RootCert", MsgProposeAddX509RootCert_type);
   ("/zigbeealliance.distributedcomplianceledger.pki.MsgApproveAddX509RootCert", MsgApproveAddX509RootCert_type);
   ("/zigbeealliance.distributedcomplianceledger.pki.MsgAddX509Cert", MsgAddX509Cert_type)].

End types.

(** The message as it is read back from its encoding. *)
Definition Msg_normal (v : Msg) : Msg :=
  v.

(** [v] is a message whose numbers fit and whose encoding is small enough. *)
Definition Msg_fits {PB : Protobuf} {PS : ProtobufSpec PB} (v : Msg) : Prop :=
  match v with
  | VMsgRejectAddX509RootCert m => MsgRejectAddX509RootCert.valid m ∧ small (MsgRejectAddX509RootCert.wire m)
  | VMsgProposeRevokeX509RootCert m => MsgProposeRevokeX509RootCert.valid m ∧ small (MsgProposeRevokeX509RootCert.wire m)
  | VMsgRevokeX509Cert m => MsgRevokeX509Cert.valid m ∧ small (MsgRevokeX509Cert.wire m)
  | VMsgApproveRevokeX509RootCert m => MsgApproveRevokeX509RootCert.valid m ∧ small (MsgApproveRevokeX509RootCert.wire m)
  | VMsgProposeAddX509RootCert m => MsgProposeAddX509RootCert.valid m ∧ small (MsgProposeAddX509RootCert.wire m)
  | VMsgApproveAddX509RootCert m => MsgApproveAddX509RootCert.valid m ∧ small (MsgApproveAddX509RootCert.wire m)
  | VMsgAddX509Cert m => MsgAddX509Cert.valid m ∧ small (MsgAddX509Cert.wire m)
  end.

(** ** Initial state *)

(** The properties of [T.fromPartial({})] in their order. *)
Definition templates : list (string * list (string * js)) :=
  [("ApprovedCertificates",
     [("subject", Str ""); ("subjectKeyId", Str ""); ("certs", Arr [])]);
   ("ApprovedCertificatesBySubject",
     [("subject", Str ""); ("subjectKeyIds", Arr [])]);
   ("ApprovedRootCertificates",
     [("certs", Arr [])]);
   ("Certificate",
     [("pemCert", Str ""); ("serialNumber", Str ""); ("issuer", Str "");
      ("authorityKeyId", Str ""); ("rootSubject", Str ""); ("rootSubjectKeyId", Str "");
      ("isRoot", Bool false); ("owner", Str ""); ("subject", Str ""); ("subjectKeyId", Str "");
      ("subjectAsText", Str ""); ("approvals", Arr []); ("rejects", Arr [])]);
   ("CertificateIdentifier",
     [("subject", Str ""); ("subjectKeyId", Str "")]);
   ("ChildCertificates",
     [("issuer", Str ""); ("authorityKeyId", Str ""); ("certIds", Arr [])]);
   ("Grant",
     [("address", Str ""); ("time", Num 0); ("info", Str "")]);
   ("ProposedCertificate",
     [("subject", Str ""); ("subjectKeyId", Str ""); ("pemCert", Str "");
      ("serialNumber", Str ""); ("owner", Str ""); ("subjectAsText", Str "");
      ("approvals", Arr []); ("rejects", Arr [])]);
   ("ProposedCertificateRevocation",
     [("subject", Str ""); ("subjectKeyId", Str ""); ("subjectAsText", Str "");
      ("approvals", Arr [])]);
   ("RejectedCertificate",
     [("subject", Str ""); ("subjectKeyId", Str ""); ("certs", Arr [])]);
   ("RevokedCertificates",
     [("subject", Str ""); ("subjectKeyId", Str ""); ("certs", Arr [])]);
   ("RevokedRootCertificates",
     [("certs", Arr [])]);
   ("UniqueCertificate",
     [("issuer", Str ""); ("serialNumber", Str ""); ("present", Bool false)])].

Definition cache_names : list string :=
  ["ApprovedCertificates"; "ApprovedCertificatesAll"; "ProposedCertificate";
   "ProposedCertificateAll"; "ChildCertificates"; "ProposedCertificateRevocation";
   "ProposedCertificateRevocationAll"; "RevokedCertificates"; "RevokedCertificatesAll";
   "ApprovedRootCertificates"; "RevokedRootCertificates"; "ApprovedCertificatesBySubject";
   "RejectedCertificate"; "RejectedCertificateAll"].

Definition getDefaultState {PB : Protobuf} : state := {|
  caches := empty_caches cache_names;
  Structure := map (fun t => (t.1, getStructure t.2)) templates;
  Registry := types.*1;
  Subscriptions := [];
|}.

(** ** Getters *)

Definition getApprovedCertificates (s : state) (params : option (list (string * js))) : js :=
  get_cached "ApprovedCertificates" s params.

Definition getApprovedCertificatesAll (s : state) (params : option (list (string * js))) : js :=
  get_cached "ApprovedCertificatesAll" s params.

Definition getProposedCertificate (s : state) (params : option (list (string * js))) : js :=
  get_cached "ProposedCertificate" s params.

Definition getProposedCertificateAll (s : state) (params : option (list (string * js))) : js :=
  get_cached "ProposedCertificateAll" s params.

Definition getChildCertificates (s : state) (params : option (list (string * js))) : js :=
  get_cached "ChildCertificates" s params.

Definition getProposedCertificateRevocation (s : state) (params : option (list (string * js))) : js :=
  get_cached "ProposedCertificateRevocation" s params.

Definition getProposedCertificateRevocationAll (s : state) (params : option (list (string * js))) : js :=
  get_cached "ProposedCertificateRevocationAll" s params.

Definition getRevokedCertificates (s : state) (params : option (list (string * js))) : js :=
  get_cached "RevokedCertificates" s params.

Definition getRevokedCertificatesAll (s : state) (params : option (list (string * js))) : js :=
  get_cached "RevokedCertificatesAll" s params.

Definition getApprovedRootCertificates (s : state) (params : option (list (string * js))) : js :=
  get_cached "ApprovedRootCertificates" s params.

Definition getRevokedRootCertificates (s : state) (params : option (list (string * js))) : js :=
  get_cached "RevokedRootCertificates" s params.

Definition getApprovedCertificatesBySubject (s : state) (params : option (list (string * js))) : js :=
  get_cached "ApprovedCertificatesBySubject" s params.

Definition getRejectedCertificate (s : state) (params : option (list (string * js))) : js :=
  get_cached "RejectedCertificate" s params.

Definition getRejectedCertificateAll (s : state) (params : option (list (string * js))) : js :=
  get_cached "RejectedCertificateAll" s params.

Section store.
Context {SV : SpVuex} {CJ : Cosmjs} {PB : Protobuf}.
Context (rootGetters : root_getters).
Abbreviation task := (proc FetchCall Response state).

(** ** Queries *)

(** The number of further pages a list query may ask for. *)
Variable max_pages : nat.

Definition fetch_ApprovedCertificates (a : query_args) (key : js) : task js :=
  subject ← of_result (get key "subject");
  subjectKeyId ← of_result (get key "subjectKeyId");
  r ← queryApprovedCertificates (initQueryClient rootGetters) subject subjectKeyId no_params;
  Ret r.(data).

Definition QueryApprovedCertificates (payload : js) : task js :=
  query_action "ApprovedCertificates" fetch_ApprovedCertificates payload.

Definition all_ApprovedCertificatesAll (query : js) : task HttpResponse :=
  queryApprovedCertificatesAll (initQueryClient rootGetters) query no_params.

Definition fetch_ApprovedCertificatesAll (a : query_args) (key : js) : task js :=
  fetch_all max_pages all_ApprovedCertificatesAll a key.

Definition QueryApprovedCertificatesAll (payload : js) : task js :=
  query_action "ApprovedCertificatesAll" fetch_ApprovedCertificatesAll payload.

Definition fetch_ProposedCertificate (a : query_args) (key : js) : task js :=
  subject ← of_result (get key "subject");
  subjectKeyId ← of_result (get key "subjectKeyId");
  r ← queryProposedCertificate (initQueryClient rootGetters) subject subjectKeyId no_params;
  Ret r.(data).

Definition QueryProposedCertificate (payload : js) : task js :=
  query_action "ProposedCertificate" fetch_ProposedCertificate payload.

Definition all_ProposedCertificateAll (query : js) : task HttpResponse :=
  queryProposedCertificateAll (initQueryClient rootGetters) query no_params.

Definition fetch_ProposedCertificateAll (a : query_args) (key : js) : task js :=
  fetch_all max_pages all_ProposedCertificateAll a key.

Definition QueryProposedCertificateAll (payload : js) : task js :=
  query_action "ProposedCertificateAll" fetch_ProposedCertificateAll payload.

Definition fetch_ChildCertificates (a : query_args) (key : js) : task js :=
  issuer ← of_result (get key "issuer");
  authorityKeyId ← of_result (get key "authorityKeyId");
  r ← queryChildCertificates (initQueryClient rootGetters) issuer authorityKeyId no_params;
  Ret r.(data).

Definition QueryChildCertificates (payload : js) : task js :=
  query_action "ChildCertificates" fetch_ChildCertificates payload.

Definition fetch_ProposedCertificateRevocation (a : query_args) (key : js) : task js :=
  subject ← of_result (get key "subject");
  subjectKeyId ← of_result (get key "subjectKeyId");
  r ← queryProposedCertificateRevocation (initQueryClient rootGetters) subject subjectKeyId no_params;
  Ret r.(data).

Definition QueryProposedCertificateRevocation (payload : js) : task js :=
  query_action "ProposedCertificateRevocation" fetch_ProposedCertificateRevocation payload.

Definition all_ProposedCertificateRevocationAll (query : js) : task HttpResponse :=
  queryProposedCertificateRevocationAll (initQueryClient rootGetters) query no_params.

Definition fetch_ProposedCertificateRevocationAll (a : query_args) (key : js) : task js :=
  fetch_all max_pages all_ProposedCertificateRevocationAll a key.

Definition QueryProposedCertificateRevocationAll (payload : js) : task js :=
  query_action "ProposedCertificateRevocationAll" fetch_ProposedCertificateRevocationAll payload.

Definition fetch_RevokedCertificates (a : query_args) (key : js) : task js :=
  subject ← of_result (get key "subject");
  subjectKeyId ← of_result (get key "subjectKeyId");
  r ← queryRevokedCertificates (initQueryClient rootGetters) subject subjectKeyId no_params;
  Ret r.(data).

Definition QueryRevokedCertificates (payload : js) : task js :=
  query_action "RevokedCertificates" fetch_RevokedCertificates payload.

Definition all_RevokedCertificatesAll (query : js) : task HttpResponse :=
  queryRevokedCertificatesAll (initQueryClient rootGetters) query no_params.

Definition fetch_RevokedCertificatesAll (a : query_args) (key : js) : task js :=
  fetch_all max_pages all_RevokedCertificatesAll a key.

Definition QueryRevokedCertificatesAll (payload : js) : task js :=
  query_action "RevokedCertificatesAll" fetch_RevokedCertificatesAll payload.

Definition fetch_ApprovedRootCertificates (a : query_args) (key : js) : task js :=
  r ← queryApprovedRootCertificates (initQueryClient rootGetters) no_params;
  Ret r.(data).

Definition QueryApprovedRootCertificates (payload : js) : task js :=
  query_action "ApprovedRootCertificates" fetch_ApprovedRootCertificates payload.

Definition fetch_RevokedRootCertificates (a : query_args) (key : js) : task js :=
  r ← queryRevokedRootCertificates (initQueryClient rootGetters) no_params;
  Ret r.(data).

Definition QueryRevokedRootCertificates (payload : js) : task js :=
  query_action "RevokedRootCertificates" fetch_RevokedRootCertificates payload.

Definition fetch_ApprovedCertificatesBySubject (a : query_args) (key : js) : task js :=
  subject ← of_result (get key "subject");
  r ← queryApprovedCertificatesBySubject (initQueryClient rootGetters) subject no_params;
  Ret r.(data).

Definition QueryApprovedCertificatesBySubject (payload : js) : task js :=
  query_action "ApprovedCertificatesBySubject" fetch_ApprovedCertificatesBySubject payload.

Definition fetch_RejectedCertificate (a : query_args) (key : js) : task js :=
  subject ← of_result (get key "subject");
  subjectKeyId ← of_result (get key "subjectKeyId");
  r ← queryRejectedCertificate (initQueryClient rootGetters) subject subjectKeyId no_params;
  Ret r.(data).

Definition QueryRejectedCertificate (payload : js) : task js :=
  query_action "RejectedCertificate" fetch_RejectedCertificate payload.

Definition all_RejectedCertificateAll (query : js) : task HttpResponse :=
  queryRejectedCertificateAll (initQueryClient rootGetters) query no_params.

Definition fetch_RejectedCertificateAll (a : query_args) (key : js) : task js :=
  fetch_all max_pages all_RejectedCertificateAll a key.

Definition QueryRejectedCertificateAll (payload : js) : task js :=
  query_action "RejectedCertificateAll" fetch_RejectedCertificateAll payload.

(** The fetch of each query, by the name of its cache. *)
Definition fetchers : list (string * (query_args → js → task js)) :=
  [("ApprovedCertificates", fetch_ApprovedCertificates);
   ("ApprovedCertificatesAll", fetch_ApprovedCertificatesAll);
   ("ProposedCertificate", fetch_ProposedCertificate);
   ("ProposedCertificateAll", fetch_ProposedCertificateAll);
   ("ChildCertificates", fetch_ChildCertificates);
   ("ProposedCertificateRevocation", fetch_ProposedCertificateRevocation);
   ("ProposedCertificateRevocationAll", fetch_ProposedCertificateRevocationAll);
   ("RevokedCertificates", fetch_RevokedCertificates);
   ("RevokedCertificatesAll", fetch_RevokedCertificatesAll);
   ("ApprovedRootCertificates", fetch_ApprovedRootCertificates);
   ("RevokedRootCertificates", fetch_RevokedRootCertificates);
   ("ApprovedCertificatesBySubject", fetch_ApprovedCertificatesBySubject);
   ("RejectedCertificate", fetch_RejectedCertificate);
   ("RejectedCertificateAll", fetch_RejectedCertificateAll)].

(** The query actions by name, as [dispatch] finds them. *)
Definition query_actions : list (string * (js → task js)) :=
  [("QueryApprovedCertificates", QueryApprovedCertificates);
   ("QueryApprovedCertificatesAll", QueryApprovedCertificatesAll);
   ("QueryProposedCertificate", QueryProposedCertificate);
   ("QueryProposedCertificateAll", QueryProposedCertificateAll);
   ("QueryChildCertificates", QueryChildCertificates);
   ("QueryProposedCertificateRevocation", QueryProposedCertificateRevocation);
   ("QueryProposedCertificateRevocationAll", QueryProposedCertificateRevocationAll);
   ("QueryRevokedCertificates", QueryRevokedCertificates);
   ("QueryRevokedCertificatesAll", QueryRevokedCertificatesAll);
   ("QueryApprovedRootCertificates", QueryApprovedRootCertificates);
   ("QueryRevokedRootCertificates", QueryRevokedRootCertificates);
   ("QueryApprovedCertificatesBySubject", QueryApprovedCertificatesBySubject);
   ("QueryRejectedCertificate", QueryRejectedCertificate);
   ("QueryRejectedCertificateAll", QueryRejectedCertificateAll)].

(** The list queries, with the method each one calls. *)
Definition list_queries : list (string * (js → task HttpResponse)) :=
  [("ApprovedCertificatesAll", all_ApprovedCertificatesAll);
   ("ProposedCertificateAll", all_ProposedCertificateAll);
   ("ProposedCertificateRevocationAll", all_ProposedCertificateRevocationAll);
   ("RevokedCertificatesAll", all_RevokedCertificatesAll);
   ("RejectedCertificateAll", all_RejectedCertificateAll)].

(** The store of the module, see [StoreModule.v]. *)
Definition store : StoreModule :=
  mkModule cache_names fetchers query_actions list_queries max_pages getDefaultState.

#[global] Instance store_laws : StoreLaws store.
Proof. solve_store_laws. Qed.

(** ** Transactions *)

(** [new Registry(types)] *)
Definition registry : TypeRegistry Msg := newRegistry types.

Definition sendMsgRejectAddX509RootCert (args : send_args MsgRejectAddX509RootCert.partial) : result js :=
  send_msg rootGetters registry "MsgRejectAddX509RootCert" msgRejectAddX509RootCert args.

Definition sendMsgProposeRevokeX509RootCert (args : send_args MsgProposeRevokeX509RootCert.partial) : result js :=
  send_msg rootGetters registry "MsgProposeRevokeX509RootCert" msgProposeRevokeX509RootCert args.

Definition sendMsgRevokeX509Cert (args : send_args MsgRevokeX509Cert.partial) : result js :=
  send_msg rootGetters registry "MsgRevokeX509Cert" msgRevokeX509Cert args.

Definition sendMsgApproveRevokeX509RootCert (args : send_args MsgApproveRevokeX509RootCert.partial) : result js :=
  send_msg rootGetters registry "MsgApproveRevokeX509RootCert" msgApproveRevokeX509RootCert args.

Definition sendMsgProposeAddX509RootCert (args : send_args MsgProposeAddX509RootCert.partial) : result js :=
  send_msg rootGetters registry "MsgProposeAddX509RootCert" msgProposeAddX509RootCert args.

Definition sendMsgApproveAddX509RootCert (args : send_args MsgApproveAddX509RootCert.partial) : result js :=
  send_msg rootGetters registry "MsgApproveAddX509RootCert" msgApproveAddX509RootCert args.

Definition sendMsgAddX509Cert (args : send_args MsgAddX509Cert.partial) : result js :=
  send_msg rootGetters registry "MsgAddX509Cert" msgAddX509Cert args.

Definition createMsgRejectAddX509RootCert (value : option MsgRejectAddX509RootCert.partial) : result (EncodeObject Msg) :=
  create_msg rootGetters registry "MsgRejectAddX509RootCert" msgRejectAddX509RootCert value.

Definition createMsgProposeRevokeX509RootCert (value : option MsgProposeRevokeX509RootCert.partial) : result (EncodeObject Msg) :=
  create_msg rootGetters registry "MsgProposeRevokeX509RootCert" msgProposeRevokeX509RootCert value.

Definition createMsgRevokeX509Cert (value : option MsgRevokeX509Cert.partial) : result (EncodeObject Msg) :=
  create_msg rootGetters registry "MsgRevokeX509Cert" msgRevokeX509Cert value.

Definition createMsgApproveRevokeX509RootCert (value : option MsgApproveRevokeX509RootCert.partial) : result (EncodeObject Msg) :=
  create_msg rootGetters registry "MsgApproveRevokeX509RootCert" msgApproveRevokeX509RootCert value.

Definition createMsgProposeAddX509RootCert (value : option MsgProposeAddX509RootCert.partial) : result (EncodeObject Msg) :=
  create_msg rootGetters registry "MsgProposeAddX509RootCert" msgProposeAddX509RootCert value.

Definition createMsgApproveAddX509RootCert (value : option MsgApproveAddX509RootCert.partial) : result (EncodeObject Msg) :=
  create_msg rootGetters registry "MsgApproveAddX509RootCert" msgApproveAddX509RootCert value.

Definition createMsgAddX509Cert (value : option MsgAddX509Cert.partial) : result (EncodeObject Msg) :=
  create_msg rootGetters registry "MsgAddX509Cert" msgAddX509Cert value.

(** The message types with their actions. *)
Definition tx_actions : list (tx_action Msg) :=
  [mkTxAction "MsgRejectAddX509RootCert" "signer"
     (fun d => mkEncode "/zigbeealliance.distributedcomplianceledger.pki.MsgRejectAddX509RootCert"
       (VMsgRejectAddX509RootCert (MsgRejectAddX509RootCert.fromPartial d)))
     msgRejectAddX509RootCert sendMsgRejectAddX509RootCert createMsgRejectAddX509RootCert;
   mkTxAction "MsgProposeRevokeX509RootCert" "signer"
     (fun d => mkEncode "/zigbeealliance.distributedcomplianceledger.pki.MsgProposeRevokeX509RootCert"
       (VMsgProposeRevokeX509RootCert (MsgProposeRevokeX509RootCert.fromPartial d)))
     msgProposeRevokeX509RootCert sendMsgProposeRevokeX509RootCert createMsgProposeRevokeX509RootCert;
   mkTxAction "MsgRevokeX509Cert" "signer"
     (fun d => mkEncode "/zigbeealliance.distributedcomplianceledger.pki.MsgRevokeX509Cert"
       (VMsgRevokeX509Cert (MsgRevokeX509Cert.fromPartial d)))
     msgRevokeX509Cert sendMsgRevokeX509Cert createMsgRevokeX509Cert;
   mkTxAction "MsgApproveRevokeX509RootCert" "signer"
     (fun d => mkEncode "/zigbeealliance.distributedcomplianceledger.pki.MsgApproveRevokeX509RootCert"
       (VMsgApproveRevokeX509RootCert (MsgApproveRevokeX509RootCert.fromPartial d)))
     msgApproveRevokeX509RootCert sendMsgApproveRevokeX509RootCert createMsgApproveRevokeX509RootCert;
   mkTxAction "MsgProposeAddX509RootCert" "signer"
     (fun d => mkEncode "/zigbeealliance.distributedcomplianceledger.pki.MsgProposeAddX509RootCert"
       (VMsgProposeAddX509RootCert (MsgProposeAddX509RootCert.fromPartial d)))
     msgProposeAddX509RootCert sendMsgProposeAddX509RootCert createMsgProposeAddX509RootCert;
   mkTxAction "MsgApproveAddX509RootCert" "signer"
     (fun d => mkEncode "/zigbeealliance.distributedcomplianceledger.pki.MsgApproveAddX509RootCert"
       (VMsgApproveAddX509RootCert (MsgApproveAddX509RootCert.fromPartial d)))
     msgApproveAddX509RootCert sendMsgApproveAddX509RootCert createMsgApproveAddX509RootCert;
   mkTxAction "MsgAddX509Cert" "signer"
     (fun d => mkEncode "/zigbeealliance.distributedcomplianceledger.pki.MsgAddX509Cert"
       (VMsgAddX509Cert (MsgAddX509Cert.fromPartial d)))
     msgAddX509Cert sendMsgAddX509Cert createMsgAddX509Cert].

Lemma pki_tx_laws {PS : ProtobufSpec PB} :
  Forall (tx_lawful rootGetters types Msg_normal Msg_fits) tx_actions.
Proof. solve_tx_laws. Qed.

End store.
