(* ===== verification/ComplianceStore.v ===== *)
(** * The client of the compliance module

    The endpoints of compliance/module/rest.js, the transaction client of
    compliance/module/index.js and the store of compliance/index.js: implementations of the
    interfaces of [ApiRoutes.v], [TxClient.v] and [StoreModule.v]. *)
From S2P Require Import Prelude Js Protobuf Codec ComplianceTypes JsonText Uri Async RestClient ApiRoutes Pages VuexStore TxClient StoreModule.
Open Scope Z_scope.

(** ** Endpoints *)

Section api.
Context {S : Type}.

Definition queryCertifiedModelAll (c : HttpClient) (query : js) (params : RequestParams)
    : proc FetchCall Response S HttpResponse :=
  request c (get_json ("/dcl/compliance/certified-models")
    query params).

Definition queryCertifiedModel (c : HttpClient) (vid pid softwareVersion certificationType : js) (params : RequestParams)
    : proc FetchCall Response S HttpResponse :=
  request c (get_json ("/dcl/compliance/certified-models/" +:+ js_String vid +:+ "/" +:+ js_String pid +:+ "/" +:+ js_String softwareVersion +:+ "/" +:+ js_String certificationType)
    Undefined params).

Definition queryComplianceInfoAll (c : HttpClient) (query : js) (params : RequestParams)
    : proc FetchCall Response S HttpResponse :=
  request c (get_json ("/dcl/compliance/compliance-info")
    query params).

Definition queryComplianceInfo (c : HttpClient) (vid pid softwareVersion certificationType : js) (params : RequestParams)
    : proc FetchCall Response S HttpResponse :=
  request c (get_json ("/dcl/compliance/compliance-info/" +:+ js_String vid +:+ "/" +:+ js_String pid +:+ "/" +:+ js_String softwareVersion +:+ "/" +:+ js_String certificationType)
    Undefined params).

Definition queryDeviceSoftwareComplianceAll (c : HttpClient) (query : js) (params : RequestParams)
    : proc FetchCall Response S HttpResponse :=
  request c (get_json ("/dcl/compliance/device-software-compliance")
    query params).

Definition queryDeviceSoftwareCompliance (c : HttpClient) (cDCertificateId : js) (params : RequestParams)
    : proc FetchCall Response S HttpResponse :=
  request c (get_json ("/dcl/compliance/device-software-compliance/" +:+ js_String cDCertificateId)
    Undefined params).

Definition queryProvisionalModelAll (c : HttpClient) (query : js) (params : RequestParams)
    : proc FetchCall Response S HttpResponse :=
  request c (get_json ("/dcl/compliance/provisional-models")
    query params).

Definition queryProvisionalModel (c : HttpClient) (vid pid softwareVersion certificationType : js) (params : RequestParams)
    : proc FetchCall Response S HttpResponse :=
  request c (get_json ("/dcl/compliance/provisional-models/" +:+ js_String vid +:+ "/" +:+ js_String pid +:+ "/" +:+ js_String softwareVersion +:+ "/" +:+ js_String certificationType)
    Undefined params).

Definition queryRevokedModelAll (c : HttpClient) (query : js) (params : RequestParams)
    : proc FetchCall Response S HttpResponse :=
  request c (get_json ("/dcl/compliance/revoked-models")
    query params).

Definition queryRevokedModel (c : HttpClient) (vid pid softwareVersion certificationType : js) (params : RequestParams)
    : proc FetchCall Response S HttpResponse :=
  request c (get_json ("/dcl/compliance/revoked-models/" +:+ js_String vid +:+ "/" +:+ js_String pid +:+ "/" +:+ js_String softwareVersion +:+ "/" +:+ js_String certificationType)
    Undefined params).

End api.

(** ** Routes *)

(** A query of the module with the values of its path parameters. *)
Inductive endpoint : Set :=
| CertifiedModelAll
| CertifiedModel (vid pid softwareVersion certificationType : string)
| ComplianceInfoAll
| ComplianceInfo (vid pid softwareVersion certificationType : string)
| DeviceSoftwareComplianceAll
| DeviceSoftwareCompliance (cDCertificateId : string)
| ProvisionalModelAll
| ProvisionalModel (vid pid softwareVersion certificationType : string)
| RevokedModelAll
| RevokedModel (vid pid softwareVersion certificationType : string).

(** The method call of an endpoint; a method that takes a query object is given
    [query]. *)
Definition endpoint_call {S : Type} (c : HttpClient) (e : endpoint) (query : js)
    : proc FetchCall Response S HttpResponse :=
  match e with
  | CertifiedModelAll => queryCertifiedModelAll c query no_params
  | CertifiedModel vid pid softwareVersion certificationType => queryCertifiedModel c (Str vid) (Str pid) (Str softwareVersion) (Str certificationType) no_params
  | ComplianceInfoAll => queryComplianceInfoAll c query no_params
  | ComplianceInfo vid pid softwareVersion certificationType => queryComplianceInfo c (Str vid) (Str pid) (Str softwareVersion) (Str certificationType) no_params
  | DeviceSoftwareComplianceAll => queryDeviceSoftwareComplianceAll c query no_params
  | DeviceSoftwareCompliance cDCertificateId => queryDeviceSoftwareCompliance c (Str cDCertificateId) no_params
  | ProvisionalModelAll => queryProvisionalModelAll c query no_params
  | ProvisionalModel vid pid softwareVersion certificationType => queryProvisionalModel c (Str vid) (Str pid) (Str softwareVersion) (Str certificationType) no_params
  | RevokedModelAll => queryRevokedModelAll c query no_params
  | RevokedModel vid pid softwareVersion certificationType => queryRevokedModel c (Str vid) (Str pid) (Str softwareVersion) (Str certificationType) no_params
  end.

(** Whether the method takes a query object. *)
Definition endpoint_takes_query (e : endpoint) : bool :=
  match e with
  | CertifiedModelAll => true
  | CertifiedModel _ _ _ _ => false
  | ComplianceInfoAll => true
  | ComplianceInfo _ _ _ _ => false
  | DeviceSoftwareComplianceAll => true
  | DeviceSoftwareCompliance _ => false
  | ProvisionalModelAll => true
  | ProvisionalModel _ _ _ _ => false
  | RevokedModelAll => true
  | RevokedModel _ _ _ _ => false
  end.

(** The segments of its route. *)
Definition endpoint_route (e : endpoint) : list string :=
  "dcl" :: "compliance" ::
  match e with
  | CertifiedModelAll => ["certified-models"]
  | CertifiedModel vid pid softwareVersion certificationType => ["certified-models"; vid; pid; softwareVersion; certificationType]
  | ComplianceInfoAll => ["compliance-info"]
  | ComplianceInfo vid pid softwareVersion certificationType => ["compliance-info"; vid; pid; softwareVersion; certificationType]
  | DeviceSoftwareComplianceAll => ["device-software-compliance"]
  | DeviceSoftwareCompliance cDCertificateId => ["device-software-compliance"; cDCertificateId]
  | ProvisionalModelAll => ["provisional-models"]
  | ProvisionalModel vid pid softwareVersion certificationType => ["provisional-models"; vid; pid; softwareVersion; certificationType]
  | RevokedModelAll => ["revoked-models"]
  | RevokedModel vid pid softwareVersion certificationType => ["revoked-models"; vid; pid; softwareVersion; certificationType]
  end.

#[global] Program Instance routes : Routes endpoint :=
  {| api_call := endpoint_call; route := endpoint_route; takes_query := endpoint_takes_query |}.
Next Obligation. solve_route_path. Qed.
Next Obligation. by destruct e. Qed.

Lemma compliance_route_inj e1 e2 : endpoint_route e1 = endpoint_route e2 → e1 = e2.
Proof. destruct e1, e2; simpl; intros H; simplify_eq; done. Qed.

(** ** Messages *)

(** A message of the module. *)
Inductive Msg : Type :=
| VMsgRevokeModel (m : MsgRevokeModel.t)
| VMsgProvisionModel (m : MsgProvisionModel.t)
| VMsgCertifyModel (m : MsgCertifyModel.t).

Definition msgRevokeModel (data : option MsgRevokeModel.partial) : result (EncodeObject Msg) :=
  m ← from_partial "signer" MsgRevokeModel.fromPartial data;
  Ok (mkEncode "/zigbeealliance.distributedcomplianceledger.compliance.MsgRevokeModel" (VMsgRevokeModel m)).

Definition msgProvisionModel (data : option MsgProvisionModel.partial) : result (EncodeObject Msg) :=
  m ← from_partial "signer" MsgProvisionModel.fromPartial data;
  Ok (mkEncode "/zigbeealliance.distributedcomplianceledger.compliance.MsgProvisionModel" (VMsgProvisionModel m)).

Definition msgCertifyModel (data : option MsgCertifyModel.partial) : result (EncodeObject Msg) :=
  m ← from_partial "signer" MsgCertifyModel.fromPartial data;
  Ok (mkEncode "/zigbeealliance.distributedcomplianceledger.compliance.MsgCertifyModel" (VMsgCertifyModel m)).

(** ** The type table *)

Section types.
Context {PB : Protobuf}.

Definition MsgRevokeModel_type : GeneratedType Msg := {|
  type_encode v := match v with VMsgRevokeModel m => Some (Ok (finish (MsgRevokeModel.encode m create))) | _ => None end;
  type_decode b := VMsgRevokeModel <$> decode_bytes MsgRevokeModel.decode b;
|}.

Definition MsgProvisionModel_type : GeneratedType Msg := {|
  type_encode v := match v with VMsgProvisionModel m => Some (Ok (finish (MsgProvisionModel.encode m create))) | _ => None end;
  type_decode b := VMsgProvisionModel <$> decode_bytes MsgProvisionModel.decode b;
|}.

Definition MsgCertifyModel_type : GeneratedType Msg := {|
  type_encode v := match v with VMsgCertifyModel m => Some (Ok (finish (MsgCertifyModel.encode m create))) | _ => None end;
  type_decode b := VMsgCertifyModel <$> decode_bytes MsgCertifyModel.decode b;
|}.

Definition types : list (string * GeneratedType Msg) :=
  [("/zigbeealliance.distributedcomplianceledger.compliance.MsgRevokeModel", MsgRevokeModel_type);
   ("/zigbeealliance.distributedcomplianceledger.compliance.MsgProvisionModel", MsgProvisionModel_type);
   ("/zigbeealliance.distributedcomplianceledger.compliance.MsgCertifyModel", MsgCertifyModel_type)].

End types.

(** The message as it is read back from its encoding. *)
Definition Msg_normal (v : Msg) : Msg :=
  v.

(** [v] is a message whose numbers fit and whose encoding is small enough. *)
Definition Msg_fits {PB : Protobuf} {PS : ProtobufSpec PB} (v : Msg) : Prop :=
  match v with
  | VMsgRevokeModel m => MsgRevokeModel.valid m ∧ small (MsgRevokeModel.wire m)
  | VMsgProvisionModel m => MsgProvisionModel.valid m ∧ small (MsgProvisionModel.wire m)
  | VMsgCertifyModel m => MsgCertifyModel.valid m ∧ small (MsgCertifyModel.wire m)
  end.

(** ** Initial state *)

(** The properties of [T.fromPartial({})] in their order. *)
Definition templates : list (string * list (string * js)) :=
  [("CertifiedModel",
     [("vid", Num 0); ("pid", Num 0); ("softwareVersion", Num 0); ("certificationType", Str "");
      ("value", Bool false)]);
   ("ComplianceHistoryItem",
     [("softwareVersionCertificationStatus", Num 0); ("date", Str ""); ("reason", Str "");
      ("cDVersionNumber", Num 0)]);
   ("ComplianceInfo",
     [("vid", Num 0); ("pid", Num 0); ("softwareVersion", Num 0); ("certificationType", Str "");
      ("softwareVersionString", Str ""); ("cDVersionNumber", Num 0);
      ("softwareVersionCertificationStatus", Num 0); ("date", Str ""); ("reason", Str "");
      ("owner", Str ""); ("cDCertificateId", Str ""); ("certificationRoute", Str "");
      ("programType", Str ""); ("programTypeVersion", Str ""); ("compliantPlatformUsed", Str "");
      ("compliantPlatformVersion", Str ""); ("transport", Str ""); ("familyId", Str "");
      ("supportedClusters", Str ""); ("OSVersion", Str ""); ("parentChild", Str "");
      ("history", Arr [])]);
   ("DeviceSoftwareCompliance",
     [("cDCertificateId", Str ""); ("complianceInfo", Arr [])]);
   ("ProvisionalModel",
     [("vid", Num 0); ("pid", Num 0); ("softwareVersion", Num 0); ("certificationType", Str "");
      ("value", Bool false)]);
   ("RevokedModel",
     [("vid", Num 0); ("pid", Num 0); ("softwareVersion", Num 0); ("certificationType", Str "");
      ("value", Bool false)])].

Definition cache_names : list string :=
  ["ComplianceInfo"; "ComplianceInfoAll"; "CertifiedModel"; "CertifiedModelAll"; "RevokedModel";
   "RevokedModelAll"; "ProvisionalModel"; "ProvisionalModelAll"; "DeviceSoftwareCompliance";
   "DeviceSoftwareComplianceAll"].

Definition getDefaultState {PB : Protobuf} : state := {|
  caches := empty_caches cache_names;
  Structure := map (fun t => (t.1, getStructure t.2)) templates;
  Registry := types.*1;
  Subscriptions := [];
|}.

(** ** Getters *)

Definition getComplianceInfo (s : state) (params : option (list (string * js))) : js :=
  get_cached "ComplianceInfo" s params.

Definition getComplianceInfoAll (s : state) (params : option (list (string * js))) : js :=
  get_cached "ComplianceInfoAll" s params.

Definition getCertifiedModel (s : state) (params : option (list (string * js))) : js :=
  get_cached "CertifiedModel" s params.

Definition getCertifiedModelAll (s : state) (params : option (list (string * js))) : js :=
  get_cached "CertifiedModelAll" s params.

Definition getRevokedModel (s : state) (params : option (list (string * js))) : js :=
  get_cached "RevokedModel" s params.

Definition getRevokedModelAll (s : state) (params : option (list (string * js))) : js :=
  get_cached "RevokedModelAll" s params.

Definition getProvisionalModel (s : state) (params : option (list (string * js))) : js :=
  get_cached "ProvisionalModel" s params.

Definition getProvisionalModelAll (s : state) (params : option (list (string * js))) : js :=
  get_cached "ProvisionalModelAll" s params.

Definition getDeviceSoftwareCompliance (s : state) (params : option (list (string * js))) : js :=
  get_cached "DeviceSoftwareCompliance" s params.

Definition getDeviceSoftwareComplianceAll (s : state) (params : option (list (string * js))) : js :=
  get_cached "DeviceSoftwareComplianceAll" s params.

Section store.
Context {SV : SpVuex} {CJ : Cosmjs} {PB : Protobuf}.
Context (rootGetters : root_getters).
Abbreviation task := (proc FetchCall Response state).

(** ** Queries *)

(** The number of further pages a list query may ask for. *)
Variable max_pages : nat.

Definition fetch_ComplianceInfo (a : query_args) (key : js) : task js :=
  vid ← of_result (get key "vid");
  pid ← of_result (get key "pid");
  softwareVersion ← of_result (get key "softwareVersion");
  certificationType ← of_result (get key "certificationType");
  r ← queryComplianceInfo (initQueryClient rootGetters) vid pid softwareVersion certificationType no_params;
  Ret r.(data).

Definition QueryComplianceInfo (payload : js) : task js :=
  query_action "ComplianceInfo" fetch_ComplianceInfo payload.

Definition all_ComplianceInfoAll (query : js) : task HttpResponse :=
  queryComplianceInfoAll (initQueryClient rootGetters) query no_params.

Definition fetch_ComplianceInfoAll (a : query_args) (key : js) : task js :=
  fetch_all max_pages all_ComplianceInfoAll a key.

Definition QueryComplianceInfoAll (payload : js) : task js :=
  query_action "ComplianceInfoAll" fetch_ComplianceInfoAll payload.

Definition fetch_CertifiedModel (a : query_args) (key : js) : task js :=
  vid ← of_result (get key "vid");
  pid ← of_result (get key "pid");
  softwareVersion ← of_result (get key "softwareVersion");
  certificationType ← of_result (get key "certificationType");
  r ← queryCertifiedModel (initQueryClient rootGetters) vid pid softwareVersion certificationType no_params;
  Ret r.(data).

Definition QueryCertifiedModel (payload : js) : task js :=
  query_action "CertifiedModel" fetch_CertifiedModel payload.

Definition all_CertifiedModelAll (query : js) : task HttpResponse :=
  queryCertifiedModelAll (initQueryClient rootGetters) query no_params.

Definition fetch_CertifiedModelAll (a : query_args) (key : js) : task js :=
  fetch_all max_pages all_CertifiedModelAll a key.

Definition QueryCertifiedModelAll (payload : js) : task js :=
  query_action "CertifiedModelAll" fetch_CertifiedModelAll payload.

Definition fetch_RevokedModel (a : query_args) (key : js) : task js :=
  vid ← of_result (get key "vid");
  pid ← of_result (get key "pid");
  softwareVersion ← of_result (get key "softwareVersion");
  certificationType ← of_result (get key "certificationType");
  r ← queryRevokedModel (initQueryClient rootGetters) vid pid softwareVersion certificationType no_params;
  Ret r.(data).

Definition QueryRevokedModel (payload : js) : task js :=
  query_action "RevokedModel" fetch_RevokedModel payload.

Definition all_RevokedModelAll (query : js) : task HttpResponse :=
  queryRevokedModelAll (initQueryClient rootGetters) query no_params.

Definition fetch_RevokedModelAll (a : query_args) (key : js) : task js :=
  fetch_all max_pages all_RevokedModelAll a key.

Definition QueryRevokedModelAll (payload : js) : task js :=
  query_action "RevokedModelAll" fetch_RevokedModelAll payload.

Definition fetch_ProvisionalModel (a : query_args) (key : js) : task js :=
  vid ← of_result (get key "vid");
  pid ← of_result (get key "pid");
  softwareVersion ← of_result (get key "softwareVersion");
  certificationType ← of_result (get key "certificationType");
  r ← queryProvisionalModel (initQueryClient rootGetters) vid pid softwareVersion certificationType no_params;
  Ret r.(data).

Definition QueryProvisionalModel (payload : js) : task js :=
  query_action "ProvisionalModel" fetch_ProvisionalModel payload.

Definition all_ProvisionalModelAll (query : js) : task HttpResponse :=
  queryProvisionalModelAll (initQueryClient rootGetters) query no_params.

Definition fetch_ProvisionalModelAll (a : query_args) (key : js) : task js :=
  fetch_all max_pages all_ProvisionalModelAll a key.

Definition QueryProvisionalModelAll (payload : js) : task js :=
  query_action "ProvisionalModelAll" fetch_ProvisionalModelAll payload.

Definition fetch_DeviceSoftwareCompliance (a : query_args) (key : js) : task js :=
  cDCertificateId ← of_result (get key "cDCertificateId");
  r ← queryDeviceSoftwareCompliance (initQueryClient rootGetters) cDCertificateId no_params;
  Ret r.(data).

Definition QueryDeviceSoftwareCompliance (payload : js) : task js :=
  query_action "DeviceSoftwareCompliance" fetch_DeviceSoftwareCompliance payload.

Definition all_DeviceSoftwareComplianceAll (query : js) : task HttpResponse :=
  queryDeviceSoftwareComplianceAll (initQueryClient rootGetters) query no_params.

Definition fetch_DeviceSoftwareComplianceAll (a : query_args) (key : js) : task js :=
  fetch_all max_pages all_DeviceSoftwareComplianceAll a key.

Definition QueryDeviceSoftwareComplianceAll (payload : js) : task js :=
  query_action "DeviceSoftwareComplianceAll" fetch_DeviceSoftwareComplianceAll payload.

(** The fetch of each query, by the name of its cache. *)
Definition fetchers : list (string * (query_args → js → task js)) :=
  [("ComplianceInfo", fetch_ComplianceInfo);
   ("ComplianceInfoAll", fetch_ComplianceInfoAll);
   ("CertifiedModel", fetch_CertifiedModel);
   ("CertifiedModelAll", fetch_CertifiedModelAll);
   ("RevokedModel", fetch_RevokedModel);
   ("RevokedModelAll", fetch_RevokedModelAll);
   ("ProvisionalModel", fetch_ProvisionalModel);
   ("ProvisionalModelAll", fetch_ProvisionalModelAll);
   ("DeviceSoftwareCompliance", fetch_DeviceSoftwareCompliance);
   ("DeviceSoftwareComplianceAll", fetch_DeviceSoftwareComplianceAll)].

(** The query actions by name, as [dispatch] finds them. *)
Definition query_actions : list (string * (js → task js)) :=
  [("QueryComplianceInfo", QueryComplianceInfo);
   ("QueryComplianceInfoAll", QueryComplianceInfoAll);
   ("QueryCertifiedModel", QueryCertifiedModel);
   ("QueryCertifiedModelAll", QueryCertifiedModelAll);
   ("QueryRevokedModel", QueryRevokedModel);
   ("QueryRevokedModelAll", QueryRevokedModelAll);
   ("QueryProvisionalModel", QueryProvisionalModel);
   ("QueryProvisionalModelAll", QueryProvisionalModelAll);
   ("QueryDeviceSoftwareCompliance", QueryDeviceSoftwareCompliance);
   ("QueryDeviceSoftwareComplianceAll", QueryDeviceSoftwareComplianceAll)].

(** The list queries, with the method each one calls. *)
Definition list_queries : list (string * (js → task HttpResponse)) :=
  [("ComplianceInfoAll", all_ComplianceInfoAll);
   ("CertifiedModelAll", all_CertifiedModelAll);
   ("RevokedModelAll", all_RevokedModelAll);
   ("ProvisionalModelAll", all_ProvisionalModelAll);
   ("DeviceSoftwareComplianceAll", all_DeviceSoftwareComplianceAll)].

(** The store of the module, see [StoreModule.v]. *)
Definition store : StoreModule :=
  mkModule cache_names fetchers query_actions list_queries max_pages getDefaultState.

#[global] Instance store_laws : StoreLaws store.
Proof. solve_store_laws. Qed.

(** ** Transactions *)

(** [new Registry(types)] *)
Definition registry : TypeRegistry Msg := newRegistry types.

Definition sendMsgRevokeModel (args : send_args MsgRevokeModel.partial) : result js :=
  send_msg rootGetters registry "MsgRevokeModel" msgRevokeModel args.

Definition sendMsgProvisionModel (args : send_args MsgProvisionModel.partial) : result js :=
  send_msg rootGetters registry "MsgProvisionModel" msgProvisionModel args.

Definition sendMsgCertifyModel (args : send_args MsgCertifyModel.partial) : result js :=
  send_msg rootGetters registry "MsgCertifyModel" msgCertifyModel args.

Definition createMsgRevokeModel (value : option MsgRevokeModel.partial) : result (EncodeObject Msg) :=
  create_msg rootGetters registry "MsgRevokeModel" msgRevokeModel value.

Definition createMsgProvisionModel (value : option MsgProvisionModel.partial) : result (EncodeObject Msg) :=
  create_msg rootGetters registry "MsgProvisionModel" msgProvisionModel value.

Definition createMsgCertifyModel (value : option MsgCertifyModel.partial) : result (EncodeObject Msg) :=
  create_msg rootGetters registry "MsgCertifyModel" msgCertifyModel value.

(** The message types with their actions. *)
Definition tx_actions : list (tx_action Msg) :=
  [mkTxAction "MsgRevokeModel" "signer"
     (fun d => mkEncode "/zigbeealliance.distributedcomplianceledger.compliance.MsgRevokeModel"
       (VMsgRevokeModel (MsgRevokeModel.fromPartial d)))
     msgRevokeModel sendMsgRevokeModel createMsgRevokeModel;
   mkTxAction "MsgProvisionModel" "signer"
     (fun d => mkEncode "/zigbeealliance.distributedcomplianceledger.compliance.MsgProvisionModel"
       (VMsgProvisionModel (MsgProvisionModel.fromPartial d)))
     msgProvisionModel sendMsgProvisionModel createMsgProvisionModel;
   mkTxAction "MsgCertifyModel" "signer"
     (fun d => mkEncode "/zigbeealliance.distributedcomplianceledger.compliance.MsgCertifyModel"
       (VMsgCertifyModel (MsgCertifyModel.fromPartial d)))
     msgCertifyModel sendMsgCertifyModel createMsgCertifyModel].

Lemma compliance_tx_laws {PS : ProtobufSpec PB} :
  Forall (tx_lawful rootGetters types Msg_normal Msg_fits) tx_actions.
Proof. solve_tx_laws. Qed.

End store.
