(* ===== verification/ModelStore.v ===== *)
(** * The client of the model module

    The endpoints of model/module/rest.js, the transaction client of
    model/module/index.js and the store of model/index.js: implementations of the
    interfaces of [ApiRoutes.v], [TxClient.v] and [StoreModule.v]. *)
From S2P Require Import Prelude Js Protobuf Codec ModelTypes JsonText Uri Async RestClient ApiRoutes Pages VuexStore TxClient StoreModule.
Open Scope Z_scope.

(** ** Endpoints *)

Section api.
Context {S : Type}.

Definition queryModelAll (c : HttpClient) (query : js) (params : RequestParams)
    : proc FetchCall Response S HttpResponse :=
  request c (get_json ("/dcl/model/models")
    query params).

Definition queryVendorProducts (c : HttpClient) (vid : js) (params : RequestParams)
    : proc FetchCall Response S HttpResponse :=
  request c (get_json ("/dcl/model/models/" +:+ js_String vid)
    Undefined params).

Definition queryModel (c : HttpClient) (vid pid : js) (params : RequestParams)
    : proc FetchCall Response S HttpResponse :=
  request c (get_json ("/dcl/model/models/" +:+ js_String vid +:+ "/" +:+ js_String pid)
    Undefined params).

Definition queryModelVersions (c : HttpClient) (vid pid : js) (params : RequestParams)
    : proc FetchCall Response S HttpResponse :=
  request c (get_json ("/dcl/model/versions/" +:+ js_String vid +:+ "/" +:+ js_String pid)
    Undefined params).

Definition queryModelVersion (c : HttpClient) (vid pid softwareVersion : js) (params : RequestParams)
    : proc FetchCall Response S HttpResponse :=
  request c (get_json ("/dcl/model/versions/" +:+ js_String vid +:+ "/" +:+ js_String pid +:+ "/" +:+ js_String softwareVersion)
    Undefined params).

End api.

(** ** Routes *)

(** A query of the module with the values of its path parameters. *)
Inductive endpoint : Set :=
| ModelAll
| VendorProducts (vid : string)
| Model (vid pid : string)
| ModelVersions (vid pid : string)
| ModelVersion (vid pid softwareVersion : string).

(** The method call of an endpoint; a method that takes a query object is given
    [query]. *)
Definition endpoint_call {S : Type} (c : HttpClient) (e : endpoint) (query : js)
    : proc FetchCall Response S HttpResponse :=
  match e with
  | ModelAll => queryModelAll c query no_params
  | VendorProducts vid => queryVendorProducts c (Str vid) no_params
  | Model vid pid => queryModel c (Str vid) (Str pid) no_params
  | ModelVersions vid pid => queryModelVersions c (Str vid) (Str pid) no_params
  | ModelVersion vid pid softwareVersion => queryModelVersion c (Str vid) (Str pid) (Str softwareVersion) no_params
  end.

(** Whether the method takes a query object. *)
Definition endpoint_takes_query (e : endpoint) : bool :=
  match e with
  | ModelAll => true
  | VendorProducts _ => false
  | Model _ _ => false
  | ModelVersions _ _ => false
  | ModelVersion _ _ _ => false
  end.

(** The segments of its route. *)
Definition endpoint_route (e : endpoint) : list string :=
  "dcl" :: "model" ::
  match e with
  | ModelAll => ["models"]
  | VendorProducts vid => ["models"; vid]
  | Model vid pid => ["models"; vid; pid]
  | ModelVersions vid pid => ["versions"; vid; pid]
  | ModelVersion vid pid softwareVersion => ["versions"; vid; pid; softwareVersion]
  end.

#[global] Program Instance routes : Routes endpoint :=
  {| api_call := endpoint_call; route := endpoint_route; takes_query := endpoint_takes_query |}.
Next Obligation. solve_route_path. Qed.
Next Obligation. by destruct e. Qed.

Lemma model_route_inj e1 e2 : endpoint_route e1 = endpoint_route e2 → e1 = e2.
Proof. destruct e1, e2; simpl; intros H; simplify_eq; done. Qed.

(** ** Messages *)

(** A message of the module. *)
Inductive Msg : Type :=
| VMsgUpdateModel (m : MsgUpdateModel.t)
| VMsgDeleteModel (m : MsgDeleteModel.t)
| VMsgCreateModel (m : MsgCreateModel.t)
| VMsgCreateModelVersion (m : MsgCreateModelVersion.t)
| VMsgUpdateModelVersion (m : MsgUpdateModelVersion.t).

Definition msgUpdateModel (data : option MsgUpdateModel.partial) : result (EncodeObject Msg) :=
  m ← from_partial "creator" MsgUpdateModel.fromPartial data;
  Ok (mkEncode "/zigbeealliance.distributedcomplianceledger.model.MsgUpdateModel" (VMsgUpdateModel m)).

Definition msgDeleteModel (data : option MsgDeleteModel.partial) : result (EncodeObject Msg) :=
  m ← from_partial "creator" MsgDeleteModel.fromPartial data;
  Ok (mkEncode "/zigbeealliance.distributedcomplianceledger.model.MsgDeleteModel" (VMsgDeleteModel m)).

Definition msgCreateModel (data : option MsgCreateModel.partial) : result (EncodeObject Msg) :=
  m ← from_partial "creator" MsgCreateModel.fromPartial data;
  Ok (mkEncode "/zigbeealliance.distributedcomplianceledger.model.MsgCreateModel" (VMsgCreateModel m)).

Definition msgCreateModelVersion (data : option MsgCreateModelVersion.partial) : result (EncodeObject Msg) :=
  m ← from_partial "creator" MsgCreateModelVersion.fromPartial data;
  Ok (mkEncode "/zigbeealliance.distributedcomplianceledger.model.MsgCreateModelVersion" (VMsgCreateModelVersion m)).

Definition msgUpdateModelVersion (data : option MsgUpdateModelVersion.partial) : result (EncodeObject Msg) :=
  m ← from_partial "creator" MsgUpdateModelVersion.fromPartial data;
  Ok (mkEncode "/zigbeealliance.distributedcomplianceledger.model.MsgUpdateModelVersion" (VMsgUpdateModelVersion m)).

(** ** The type table *)

Section types.
Context {PB : Protobuf}.

Definition MsgUpdateModel_type : GeneratedType Msg := {|
  type_encode v := match v with VMsgUpdateModel m => Some (Ok (finish (MsgUpdateModel.encode m create))) | _ => None end;
  type_decode b := VMsgUpdateModel <$> decode_bytes MsgUpdateModel.decode b;
|}.

Definition MsgDeleteModel_type : GeneratedType Msg := {|
  type_encode v := match v with VMsgDeleteModel m => Some (Ok (finish (MsgDeleteModel.encode m create))) | _ => None end;
  type_decode b := VMsgDeleteModel <$> decode_bytes MsgDeleteModel.decode b;
|}.

Definition MsgCreateModel_type : GeneratedType Msg := {|
  type_encode v := match v with VMsgCreateModel m => Some (Ok (finish (MsgCreateModel.encode m create))) | _ => None end;
  type_decode b := VMsgCreateModel <$> decode_bytes MsgCreateModel.decode b;
|}.

Definition MsgCreateModelVersion_type : GeneratedType Msg := {|
  type_encode v := match v with VMsgCreateModelVersion m => Some (Ok (finish (MsgCreateModelVersion.encode m create))) | _ => None end;
  type_decode b := VMsgCreateModelVersion <$> decode_bytes MsgCreateModelVersion.decode b;
|}.

Definition MsgUpdateModelVersion_type : GeneratedType Msg := {|
  type_encode v := match v with VMsgUpdateModelVersion m => Some (Ok (finish (MsgUpdateModelVersion.encode m create))) | _ => None end;
  type_decode b := VMsgUpdateModelVersion <$> decode_bytes MsgUpdateModelVersion.decode b;
|}.

Definition types : list (string * GeneratedType Msg) :=
  [("/zigbeealliance.distributedcomplianceledger.model.MsgUpdateModel", MsgUpdateModel_type);
   ("/zigbeealliance.distributedcomplianceledger.model.MsgDeleteModel", MsgDeleteModel_type);
   ("/zigbeealliance.distributedcomplianceledger.model.MsgCreateModel", MsgCreateModel_type);
   ("/zigbeealliance.distributedcomplianceledger.model.MsgCreateModelVersion", MsgCreateModelVersion_type);
   ("/zigbeealliance.distributedcomplianceledger.model.MsgUpdateModelVersion", MsgUpdateModelVersion_type)].

End types.

(** The message as it is read back from its encoding. *)
Definition Msg_normal (v : Msg) : Msg :=
  v.

(** [v] is a message whose numbers fit and whose encoding is small enough. *)
Definition Msg_fits {PB : Protobuf} {PS : ProtobufSpec PB} (v : Msg) : Prop :=
  match v with
  | VMsgUpdateModel m => MsgUpdateModel.valid m ∧ small (MsgUpdateModel.wire m)
  | VMsgDeleteModel m => MsgDeleteModel.valid m ∧ small (MsgDeleteModel.wire m)
  | VMsgCreateModel m => MsgCreateModel.valid m ∧ small (MsgCreateModel.wire m)
  | VMsgCreateModelVersion m => MsgCreateModelVersion.valid m ∧ small (MsgCreateModelVersion.wire m)
  | VMsgUpdateModelVersion m => MsgUpdateModelVersion.valid m ∧ small (MsgUpdateModelVersion.wire m)
  end.

(** ** Initial state *)

(** The properties of [T.fromPartial({})] in their order. *)
Definition templates : list (string * list (string * js)) :=
  [("Model",
     [("vid", Num 0); ("pid", Num 0); ("deviceTypeId", Num 0); ("productName", Str "");
      ("productLabel", Str ""); ("partNumber", Str ""); ("commissioningCustomFlow", Num 0);
      ("commissioningCustomFlowUrl", Str ""); ("commissioningModeInitialStepsHint", Num 0);
      ("commissioningModeInitialStepsInstruction", Str "");
      ("commissioningModeSecondaryStepsHint", Num 0);
      ("commissioningModeSecondaryStepsInstruction", Str ""); ("userManualUrl", Str "");
      ("supportUrl", Str ""); ("productUrl", Str ""); ("lsfUrl", Str ""); ("lsfRevision", Num 0);
      ("creator", Str "")]);
   ("ModelVersion",
     [("vid", Num 0); ("pid", Num 0); ("softwareVersion", Num 0);
      ("softwareVersionString", Str ""); ("cdVersionNumber", Num 0);
      ("firmwareInformation", Str ""); ("softwareVersionValid", Bool false); ("otaUrl", Str "");
      ("otaFileSize", Num 0); ("otaChecksum", Str ""); ("otaChecksumType", Num 0);
      ("minApplicableSoftwareVersion", Num 0); ("maxApplicableSoftwareVersion", Num 0);
      ("releaseNotesUrl", Str ""); ("creator", Str "")]);
   ("ModelVersions",
     [("vid", Num 0); ("pid", Num 0); ("softwareVersions", Arr [])]);
   ("Product",
     [("pid", Num 0); ("name", Str ""); ("partNumber", Str "")]);
   ("VendorProducts",
     [("vid", Num 0); ("products", Arr [])])].

Definition cache_names : list string :=
  ["VendorProducts"; "Model"; "ModelAll"; "ModelVersion"; "ModelVersions"].

Definition getDefaultState {PB : Protobuf} : state := {|
  caches := empty_caches cache_names;
  Structure := map (fun t => (t.1, getStructure t.2)) templates;
  Registry := types.*1;
  Subscriptions := [];
|}.

(** ** Getters *)

Definition getVendorProducts (s : state) (params : option (list (string * js))) : js :=
  get_cached "VendorProducts" s params.

Definition getModel (s : state) (params : option (list (string * js))) : js :=
  get_cached "Model" s params.

Definition getModelAll (s : state) (params : option (list (string * js))) : js :=
  get_cached "ModelAll" s params.

Definition getModelVersion (s : state) (params : option (list (string * js))) : js :=
  get_cached "ModelVersion" s params.

Definition getModelVersions (s : state) (params : option (list (string * js))) : js :=
  get_cached "ModelVersions" s params.

Section store.
Context {SV : SpVuex} {CJ : Cosmjs} {PB : Protobuf}.
Context (rootGetters : root_getters).
Abbreviation task := (proc FetchCall Response state).

(** ** Queries *)

(** The number of further pages a list query may ask for. *)
Variable max_pages : nat.

Definition fetch_VendorProducts (a : query_args) (key : js) : task js :=
  vid ← of_result (get key "vid");
  r ← queryVendorProducts (initQueryClient rootGetters) vid no_params;
  Ret r.(data).

Definition QueryVendorProducts (payload : js) : task js :=
  query_action "VendorProducts" fetch_VendorProducts payload.

Definition fetch_Model (a : query_args) (key : js) : task js :=
  vid ← of_result (get key "vid");
  pid ← of_result (get key "pid");
  r ← queryModel (initQueryClient rootGetters) vid pid no_params;
  Ret r.(data).

Definition QueryModel (payload : js) : task js :=
  query_action "Model" fetch_Model payload.

Definition all_ModelAll (query : js) : task HttpResponse :=
  queryModelAll (initQueryClient rootGetters) query no_params.

Definition fetch_ModelAll (a : query_args) (key : js) : task js :=
  fetch_all max_pages all_ModelAll a key.

Definition QueryModelAll (payload : js) : task js :=
  query_action "ModelAll" fetch_ModelAll payload.

Definition fetch_ModelVersion (a : query_args) (key : js) : task js :=
  vid ← of_result (get key "vid");
  pid ← of_result (get key "pid");
  softwareVersion ← of_result (get key "softwareVersion");
  r ← queryModelVersion (initQueryClient rootGetters) vid pid softwareVersion no_params;
  Ret r.(data).

Definition QueryModelVersion (payload : js) : task js :=
  query_action "ModelVersion" fetch_ModelVersion payload.

Definition fetch_ModelVersions (a : query_args) (key : js) : task js :=
  vid ← of_result (get key "vid");
  pid ← of_result (get key "pid");
  r ← queryModelVersions (initQueryClient rootGetters) vid pid no_params;
  Ret r.(data).

Definition QueryModelVersions (payload : js) : task js :=
  query_action "ModelVersions" fetch_ModelVersions payload.

(** The fetch of each query, by the name of its cache. *)
Definition fetchers : list (string * (query_args → js → task js)) :=
  [("VendorProducts", fetch_VendorProducts);
   ("Model", fetch_Model);
   ("ModelAll", fetch_ModelAll);
   ("ModelVersion", fetch_ModelVersion);
   ("ModelVersions", fetch_ModelVersions)].

(** The query actions by name, as [dispatch] finds them. *)
Definition query_actions : list (string * (js → task js)) :=
  [("QueryVendorProducts", QueryVendorProducts);
   ("QueryModel", QueryModel);
   ("QueryModelAll", QueryModelAll);
   ("QueryModelVersion", QueryModelVersion);
   ("QueryModelVersions", QueryModelVersions)].

(** The list queries, with the method each one calls. *)
Definition list_queries : list (string * (js → task HttpResponse)) :=
  [("ModelAll", all_ModelAll)].

(** The store of the module, see [StoreModule.v]. *)
Definition store : StoreModule :=
  mkModule cache_names fetchers query_actions list_queries max_pages getDefaultState.

#[global] Instance store_laws : StoreLaws store.
Proof. solve_store_laws. Qed.

(** ** Transactions *)

(** [new Registry(types)] *)
Definition registry : TypeRegistry Msg := newRegistry types.

Definition sendMsgUpdateModel (args : send_args MsgUpdateModel.partial) : result js :=
  send_msg rootGetters registry "MsgUpdateModel" msgUpdateModel args.

Definition sendMsgDeleteModel (args : send_args MsgDeleteModel.partial) : result js :=
  send_msg rootGetters registry "MsgDeleteModel" msgDeleteModel args.

Definition sendMsgCreateModel (args : send_args MsgCreateModel.partial) : result js :=
  send_msg rootGetters registry "MsgCreateModel" msgCreateModel args.

Definition sendMsgCreateModelVersion (args : send_args MsgCreateModelVersion.partial) : result js :=
  send_msg rootGetters registry "MsgCreateModelVersion" msgCreateModelVersion args.

Definition sendMsgUpdateModelVersion (args : send_args MsgUpdateModelVersion.partial) : result js :=
  send_msg rootGetters registry "MsgUpdateModelVersion" msgUpdateModelVersion args.

Definition createMsgUpdateModel (value : option MsgUpdateModel.partial) : result (EncodeObject Msg) :=
  create_msg rootGetters registry "MsgUpdateModel" msgUpdateModel value.

Definition createMsgDeleteModel (value : option MsgDeleteModel.partial) : result (EncodeObject Msg) :=
  create_msg rootGetters registry "MsgDeleteModel" msgDeleteModel value.

Definition createMsgCreateModel (value : option MsgCreateModel.partial) : result (EncodeObject Msg) :=
  create_msg rootGetters registry "MsgCreateModel" msgCreateModel value.

Definition createMsgCreateModelVersion (value : option MsgCreateModelVersion.partial) : result (EncodeObject Msg) :=
  create_msg rootGetters registry "MsgCreateModelVersion" msgCreateModelVersion value.

Definition createMsgUpdateModelVersion (value : option MsgUpdateModelVersion.partial) : result (EncodeObject Msg) :=
  create_msg rootGetters registry "MsgUpdateModelVersion" msgUpdateModelVersion value.

(** The message types with their actions. *)
Definition tx_actions : list (tx_action Msg) :=
  [mkTxAction "MsgUpdateModel" "creator"
     (fun d => mkEncode "/zigbeealliance.distributedcomplianceledger.model.MsgUpdateModel"
       (VMsgUpdateModel (MsgUpdateModel.fromPartial d)))
     msgUpdateModel sendMsgUpdateModel createMsgUpdateModel;
   mkTxAction "MsgDeleteModel" "creator"
     (fun d => mkEncode "/zigbeealliance.distributedcomplianceledger.model.MsgDeleteModel"
       (VMsgDeleteModel (MsgDeleteModel.fromPartial d)))
     msgDeleteModel sendMsgDeleteModel createMsgDeleteModel;
   mkTxAction "MsgCreateModel" "creator"
     (fun d => mkEncode "/zigbeealliance.distributedcomplianceledger.model.MsgCreateModel"
       (VMsgCreateModel (MsgCreateModel.fromPartial d)))
     msgCreateModel sendMsgCreateModel createMsgCreateModel;
   mkTxAction "MsgCreateModelVersion" "creator"
     (fun d => mkEncode "/zigbeealliance.distributedcomplianceledger.model.MsgCreateModelVersion"
       (VMsgCreateModelVersion (MsgCreateModelVersion.fromPartial d)))
     msgCreateModelVersion sendMsgCreateModelVersion createMsgCreateModelVersion;
   mkTxAction "MsgUpdateModelVersion" "creator"
     (fun d => mkEncode "/zigbeealliance.distributedcomplianceledger.model.MsgUpdateModelVersion"
       (VMsgUpdateModelVersion (MsgUpdateModelVersion.fromPartial d)))
     msgUpdateModelVersion sendMsgUpdateModelVersion createMsgUpdateModelVersion].

Lemma model_tx_laws {PS : ProtobufSpec PB} :
  Forall (tx_lawful rootGetters types Msg_normal Msg_fits) tx_actions.
Proof. solve_tx_laws. Qed.

End store.
