(* ===== verification/VendorinfoStore.v ===== *)
(** * The client of the vendorinfo module

    The endpoints of vendorinfo/module/rest.js, the transaction client of
    vendorinfo/module/index.js and the store of vendorinfo/index.js: implementations of the
    interfaces of [ApiRoutes.v], [TxClient.v] and [StoreModule.v]. *)
From S2P Require Import Prelude Js Protobuf Codec Fallible VendorinfoTypes JsonText Uri Async RestClient ApiRoutes Pages VuexStore TxClient StoreModule.
Open Scope Z_scope.

(** ** Endpoints *)

Section api.
Context {S : Type}.

Definition queryVendorInfoAll (c : HttpClient) (query : js) (params : RequestParams)
    : proc FetchCall Response S HttpResponse :=
  request c (get_json ("/dcl/vendorinfo/vendors")
    query params).

Definition queryVendorInfo (c : HttpClient) (vendorID : js) (params : RequestParams)
    : proc FetchCall Response S HttpResponse :=
  request c (get_json ("/dcl/vendorinfo/vendors/" +:+ js_String vendorID)
    Undefined params).

End api.

(** ** Routes *)

(** A query of the module with the values of its path parameters. *)
Inductive endpoint : Set :=
| VendorInfoAll
| VendorInfo (vendorID : string).

(** The method call of an endpoint; a method that takes a query object is given
    [query]. *)
Definition endpoint_call {S : Type} (c : HttpClient) (e : endpoint) (query : js)
    : proc FetchCall Response S HttpResponse :=
  match e with
  | VendorInfoAll => queryVendorInfoAll c query no_params
  | VendorInfo vendorID => queryVendorInfo c (Str vendorID) no_params
  end.

(** Whether the method takes a query object. *)
Definition endpoint_takes_query (e : endpoint) : bool :=
  match e with
  | VendorInfoAll => true
  | VendorInfo _ => false
  end.

(** The segments of its route. *)
Definition endpoint_route (e : endpoint) : list string :=
  "dcl" :: "vendorinfo" ::
  match e with
  | VendorInfoAll => ["vendors"]
  | VendorInfo vendorID => ["vendors"; vendorID]
  end.

#[global] Program Instance routes : Routes endpoint :=
  {| api_call := endpoint_call; route := endpoint_route; takes_query := endpoint_takes_query |}.
Next Obligation. solve_route_path. Qed.
Next Obligation. by destruct e. Qed.

Lemma vendorinfo_route_inj e1 e2 : endpoint_route e1 = endpoint_route e2 → e1 = e2.
Proof. destruct e1, e2; simpl; intros H; simplify_eq; done. Qed.

(** ** Messages *)

(** A message of the module. *)
Inductive Msg : Type :=
| VMsgCreateVendorInfo (m : MsgCreateVendorInfo.t)
| VMsgUpdateVendorInfo (m : MsgUpdateVendorInfo.t).

Definition msgCreateVendorInfo (data : option MsgCreateVendorInfo.partial) : result (EncodeObject Msg) :=
  m ← from_partial "creator" MsgCreateVendorInfo.fromPartial data;
  Ok (mkEncode "/zigbeealliance.distributedcomplianceledger.vendorinfo.MsgCreateVendorInfo" (VMsgCreateVendorInfo m)).

Definition msgUpdateVendorInfo (data : option MsgUpdateVendorInfo.partial) : result (EncodeObject Msg) :=
  m ← from_partial "creator" MsgUpdateVendorInfo.fromPartial data;
  Ok (mkEncode "/zigbeealliance.distributedcomplianceledger.vendorinfo.MsgUpdateVendorInfo" (VMsgUpdateVendorInfo m)).

(** ** The type table *)

Section types.
Context {PB : Protobuf}.

Definition MsgCreateVendorInfo_type : GeneratedType Msg := {|
  type_encode v := match v with VMsgCreateVendorInfo m => Some (Ok (finish (MsgCreateVendorInfo.encode m create))) | _ => None end;
  type_decode b := VMsgCreateVendorInfo <$> decode_bytes MsgCreateVendorInfo.decode b;
|}.

Definition MsgUpdateVendorInfo_type : GeneratedType Msg := {|
  type_encode v := match v with VMsgUpdateVendorInfo m => Some (Ok (finish (MsgUpdateVendorInfo.encode m create))) | _ => None end;
  type_decode b := VMsgUpdateVendorInfo <$> decode_bytes MsgUpdateVendorInfo.decode b;
|}.

Definition types : list (string * GeneratedType Msg) :=
  [("/zigbeealliance.distributedcomplianceledger.vendorinfo.MsgCreateVendorInfo", MsgCreateVendorInfo_type);
   ("/zigbeealliance.distributedcomplianceledger.vendorinfo.MsgUpdateVendorInfo", MsgUpdateVendorInfo_type)].

End types.

(** The message as it is read back from its encoding. *)
Definition Msg_normal (v : Msg) : Msg :=
  v.

(** [v] is a message whose numbers fit and whose encoding is small enough. *)
Definition Msg_fits {PB : Protobuf} {PS : ProtobufSpec PB} (v : Msg) : Prop :=
  match v with
  | VMsgCreateVendorInfo m => MsgCreateVendorInfo.valid m ∧ small (MsgCreateVendorInfo.wire m)
  | VMsgUpdateVendorInfo m => MsgUpdateVendorInfo.valid m ∧ small (MsgUpdateVendorInfo.wire m)
  end.

(** ** Initial state *)

(** The properties of [T.fromPartial({})] in their order. *)
Definition templates : list (string * list (string * js)) :=
  [("VendorInfo",
     [("vendorID", Num 0); ("vendorName", Str ""); ("companyLegalName", Str "");
      ("companyPreferredName", Str ""); ("vendorLandingPageURL", Str ""); ("creator", Str "")])].

Definition cache_names : list string :=
  ["VendorInfo"; "VendorInfoAll"].

Definition getDefaultState {PB : Protobuf} : state := {|
  caches := empty_caches cache_names;
  Structure := map (fun t => (t.1, getStructure t.2)) templates;
  Registry := types.*1;
  Subscriptions := [];
|}.

(** ** Getters *)

Definition getVendorInfo (s : state) (params : option (list (string * js))) : js :=
  get_cached "VendorInfo" s params.

Definition getVendorInfoAll (s : state) (params : option (list (string * js))) : js :=
  get_cached "VendorInfoAll" s params.

Section store.
Context {SV : SpVuex} {CJ : Cosmjs} {PB : Protobuf}.
Context (rootGetters : root_getters).
Abbreviation task := (proc FetchCall Response state).

(** ** Queries *)

(** The number of further pages a list query may ask for. *)
Variable max_pages : nat.

Definition fetch_VendorInfo (a : query_args) (key : js) : task js :=
  vendorID ← of_result (get key "vendorID");
  r ← queryVendorInfo (initQueryClient rootGetters) vendorID no_params;
  Ret r.(data).

Definition QueryVendorInfo (payload : js) : task js :=
  query_action "VendorInfo" fetch_VendorInfo payload.

Definition all_VendorInfoAll (query : js) : task HttpResponse :=
  queryVendorInfoAll (initQueryClient rootGetters) query no_params.

Definition fetch_VendorInfoAll (a : query_args) (key : js) : task js :=
  fetch_all max_pages all_VendorInfoAll a key.

Definition QueryVendorInfoAll (payload : js) : task js :=
  query_action "VendorInfoAll" fetch_VendorInfoAll payload.

(** The fetch of each query, by the name of its cache. *)
Definition fetchers : list (string * (query_args → js → task js)) :=
  [("VendorInfo", fetch_VendorInfo);
   ("VendorInfoAll", fetch_VendorInfoAll)].

(** The query actions by name, as [dispatch] finds them. *)
Definition query_actions : list (string * (js → task js)) :=
  [("QueryVendorInfo", QueryVendorInfo);
   ("QueryVendorInfoAll", QueryVendorInfoAll)].

(** The list queries, with the method each one calls. *)
Definition list_queries : list (string * (js → task HttpResponse)) :=
  [("VendorInfoAll", all_VendorInfoAll)].

(** The store of the module, see [StoreModule.v]. *)
Definition store : StoreModule :=
  mkModule cache_names fetchers query_actions list_queries max_pages getDefaultState.

#[global] Instance store_laws : StoreLaws store.
Proof. solve_store_laws. Qed.

(** ** Transactions *)

(** [new Registry(types)] *)
Definition registry : TypeRegistry Msg := newRegistry types.

Definition sendMsgCreateVendorInfo (args : send_args MsgCreateVendorInfo.partial) : result js :=
  send_msg rootGetters registry "MsgCreateVendorInfo" msgCreateVendorInfo args.

Definition sendMsgUpdateVendorInfo (args : send_args MsgUpdateVendorInfo.partial) : result js :=
  send_msg rootGetters registry "MsgUpdateVendorInfo" msgUpdateVendorInfo args.

Definition createMsgCreateVendorInfo (value : option MsgCreateVendorInfo.partial) : result (EncodeObject Msg) :=
  create_msg rootGetters registry "MsgCreateVendorInfo" msgCreateVendorInfo value.

Definition createMsgUpdateVendorInfo (value : option MsgUpdateVendorInfo.partial) : result (EncodeObject Msg) :=
  create_msg rootGetters registry "MsgUpdateVendorInfo" msgUpdateVendorInfo value.

(** The message types with their actions. *)
Definition tx_actions : list (tx_action Msg) :=
  [mkTxAction "MsgCreateVendorInfo" "creator"
     (fun d => mkEncode "/zigbeealliance.distributedcomplianceledger.vendorinfo.MsgCreateVendorInfo"
       (VMsgCreateVendorInfo (MsgCreateVendorInfo.fromPartial d)))
     msgCreateVendorInfo sendMsgCreateVendorInfo createMsgCreateVendorInfo;
   mkTxAction "MsgUpdateVendorInfo" "creator"
     (fun d => mkEncode "/zigbeealliance.distributedcomplianceledger.vendorinfo.MsgUpdateVendorInfo"
       (VMsgUpdateVendorInfo (MsgUpdateVendorInfo.fromPartial d)))
     msgUpdateVendorInfo sendMsgUpdateVendorInfo createMsgUpdateVendorInfo].

Lemma vendorinfo_tx_laws {PS : ProtobufSpec PB} :
  Forall (tx_lawful rootGetters types Msg_normal Msg_fits) tx_actions.
Proof. solve_tx_laws. Qed.

End store.
