(* ===== verification/ComplianceTestStore.v ===== *)
(** * The client of the compliancetest module

    The endpoints of compliancetest/module/rest.js, the transaction client of
    compliancetest/module/index.js and the store of compliancetest/index.js: implementations of the
    interfaces of [ApiRoutes.v], [TxClient.v] and [StoreModule.v]. *)
From S2P Require Import Prelude Js Protobuf Codec Fallible ComplianceTestTypes JsonText Uri Async RestClient ApiRoutes Pages VuexStore TxClient StoreModule.
Open Scope Z_scope.

(** ** Endpoints *)

Section api.
Context {S : Type}.

Definition queryTestingResultsAll (c : HttpClient) (query : js) (params : RequestParams)
    : proc FetchCall Response S HttpResponse :=
  request c (get_json ("/dcl/compliancetest/testing-results")
    query params).

Definition queryTestingResults (c : HttpClient) (vid pid softwareVersion : js) (params : RequestParams)
    : proc FetchCall Response S HttpResponse :=
  request c (get_json ("/dcl/compliancetest/testing-results/" +:+ js_String vid +:+ "/" +:+ js_String pid +:+ "/" +:+ js_String softwareVersion)
    Undefined params).

End api.

(** ** Routes *)

(** A query of the module with the values of its path parameters. *)
Inductive endpoint : Set :=
| TestingResultsAll
| TestingResults (vid pid softwareVersion : string).

(** The method call of an endpoint; a method that takes a query object is given
    [query]. *)
Definition endpoint_call {S : Type} (c : HttpClient) (e : endpoint) (query : js)
    : proc FetchCall Response S HttpResponse :=
  match e with
  | TestingResultsAll => queryTestingResultsAll c query no_params
  | TestingResults vid pid softwareVersion => queryTestingResults c (Str vid) (Str pid) (Str softwareVersion) no_params
  end.

(** Whether the method takes a query object. *)
Definition endpoint_takes_query (e : endpoint) : bool :=
  match e with
  | TestingResultsAll => true
  | TestingResults _ _ _ => false
  end.

(** The segments of its route. *)
Definition endpoint_route (e : endpoint) : list string :=
  "dcl" :: "compliancetest" ::
  match e with
  | TestingResultsAll => ["testing-results"]
  | TestingResults vid pid softwareVersion => ["testing-results"; vid; pid; softwareVersion]
  end.

#[global] Program Instance routes : Routes endpoint :=
  {| api_call := endpoint_call; route := endpoint_route; takes_query := endpoint_takes_query |}.
Next Obligation. solve_route_path. Qed.
Next Obligation. by destruct e. Qed.

Lemma compliancetest_route_inj e1 e2 : endpoint_route e1 = endpoint_route e2 → e1 = e2.
Proof. destruct e1, e2; simpl; intros H; simplify_eq; done. Qed.

(** ** Messages *)

(** A message of the module. *)
Inductive Msg : Type :=
| VMsgAddTestingResult (m : MsgAddTestingResult.t).

Definition msgAddTestingResult (data : option MsgAddTestingResult.partial) : result (EncodeObject Msg) :=
  m ← from_partial "signer" MsgAddTestingResult.fromPartial data;
  Ok (mkEncode "/zigbeealliance.distributedcomplianceledger.compliancetest.MsgAddTestingResult" (VMsgAddTestingResult m)).

(** ** The type table *)

Section types.
Context {PB : Protobuf}.

Definition MsgAddTestingResult_type : GeneratedType Msg := {|
  type_encode v := match v with VMsgAddTestingResult m => Some (Ok (finish (MsgAddTestingResult.encode m create))) end;
  type_decode b := VMsgAddTestingResult <$> decode_bytes MsgAddTestingResult.decode b;
|}.

Definition types : list (string * GeneratedType Msg) :=
  [("/zigbeealliance.distributedcomplianceledger.compliancetest.MsgAddTestingResult", MsgAddTestingResult_type)].

End types.

(** The message as it is read back from its encoding. *)
Definition Msg_normal (v : Msg) : Msg :=
  v.

(** [v] is a message whose numbers fit and whose encoding is small enough. *)
Definition Msg_fits {PB : Protobuf} {PS : ProtobufSpec PB} (v : Msg) : Prop :=
  match v with
  | VMsgAddTestingResult m => MsgAddTestingResult.valid m ∧ small (MsgAddTestingResult.wire m)
  end.

(** ** Initial state *)

(** The properties of [T.fromPartial({})] in their order. *)
Definition templates : list (string * list (string * js)) :=
  [("TestingResult",
     [("vid", Num 0); ("pid", Num 0); ("softwareVersion", Num 0);
      ("softwareVersionString", Str ""); ("owner", Str ""); ("testResult", Str "");
      ("testDate", Str "")]);
   ("TestingResults",
     [("vid", Num 0); ("pid", Num 0); ("softwareVersion", Num 0);
      ("softwareVersionString", Str ""); ("results", Arr [])])].

Definition cache_names : list string :=
  ["TestingResults"; "TestingResultsAll"].

Definition getDefaultState {PB : Protobuf} : state := {|
  caches := empty_caches cache_names;
  Structure := map (fun t => (t.1, getStructure t.2)) templates;
  Registry := types.*1;
  Subscriptions := [];
|}.

(** ** Getters *)

Definition getTestingResults (s : state) (params : option (list (string * js))) : js :=
  get_cached "TestingResults" s params.

Definition getTestingResultsAll (s : state) (params : option (list (string * js))) : js :=
  get_cached "TestingResultsAll" s params.

Section store.
Context {SV : SpVuex} {CJ : Cosmjs} {PB : Protobuf}.
Context (rootGetters : root_getters).
Abbreviation task := (proc FetchCall Response state).

(** ** Queries *)

(** The number of further pages a list query may ask for. *)
Variable max_pages : nat.

Definition fetch_TestingResults (a : query_args) (key : js) : task js :=
  vid ← of_result (get key "vid");
  pid ← of_result (get key "pid");
  software_version ← of_result (get key "software_version");
  r ← queryTestingResults (initQueryClient rootGetters) vid pid software_version no_params;
  Ret r.(data).

Definition QueryTestingResults (payload : js) : task js :=
  query_action "TestingResults" fetch_TestingResults payload.

Definition all_TestingResultsAll (query : js) : task HttpResponse :=
  queryTestingResultsAll (initQueryClient rootGetters) query no_params.

Definition fetch_TestingResultsAll (a : query_args) (key : js) : task js :=
  fetch_all max_pages all_TestingResultsAll a key.

Definition QueryTestingResultsAll (payload : js) : task js :=
  query_action "TestingResultsAll" fetch_TestingResultsAll payload.

(** The fetch of each query, by the name of its cache. *)
Definition fetchers : list (string * (query_args → js → task js)) :=
  [("TestingResults", fetch_TestingResults);
   ("TestingResultsAll", fetch_TestingResultsAll)].

(** The query actions by name, as [dispatch] finds them. *)
Definition query_actions : list (string * (js → task js)) :=
  [("QueryTestingResults", QueryTestingResults);
   ("QueryTestingResultsAll", QueryTestingResultsAll)].

(** The list queries, with the method each one calls. *)
Definition list_queries : list (string * (js → task HttpResponse)) :=
  [("TestingResultsAll", all_TestingResultsAll)].

(** The store of the module, see [StoreModule.v]. *)
Definition store : StoreModule :=
  mkModule cache_names fetchers query_actions list_queries max_pages getDefaultState.

#[global] Instance store_laws : StoreLaws store.
Proof. solve_store_laws. Qed.

(** ** Transactions *)

(** [new Registry(types)] *)
Definition registry : TypeRegistry Msg := newRegistry types.

Definition sendMsgAddTestingResult (args : send_args MsgAddTestingResult.partial) : result js :=
  send_msg rootGetters registry "MsgAddTestingResult" msgAddTestingResult args.

Definition createMsgAddTestingResult (value : option MsgAddTestingResult.partial) : result (EncodeObject Msg) :=
  create_msg rootGetters registry "MsgAddTestingResult" msgAddTestingResult value.

(** The message types with their actions. *)
Definition tx_actions : list (tx_action Msg) :=
  [mkTxAction "MsgAddTestingResult" "signer"
     (fun d => mkEncode "/zigbeealliance.distributedcomplianceledger.compliancetest.MsgAddTestingResult"
       (VMsgAddTestingResult (MsgAddTestingResult.fromPartial d)))
     msgAddTestingResult sendMsgAddTestingResult createMsgAddTestingResult].

Lemma compliancetest_tx_laws {PS : ProtobufSpec PB} :
  Forall (tx_lawful rootGetters types Msg_normal Msg_fits) tx_actions.
Proof. solve_tx_laws. Qed.

End store.
