(* ===== verification/ValidatorStore.v ===== *)
(** * The client of the validator module

    The endpoints of validator/module/rest.js, the transaction client of
    validator/module/index.js and the store of validator/index.js: implementations of the
    interfaces of [ApiRoutes.v], [TxClient.v] and [StoreModule.v]. *)
From S2P Require Import Prelude Js Protobuf Codec Fallible CommonTypes ValidatorTypes JsonText Uri Async RestClient ApiRoutes Pages VuexStore TxClient StoreModule.
Open Scope Z_scope.

(** ** Endpoints *)

Section api.
Context {S : Type}.

Definition queryDisabledValidatorAll (c : HttpClient) (query : js) (params : RequestParams)
    : proc FetchCall Response S HttpResponse :=
  request c (get_json ("/dcl/validator/disabled-nodes")
    query params).

Definition queryDisabledValidator (c : HttpClient) (address : js) (params : RequestParams)
    : proc FetchCall Response S HttpResponse :=
  request c (get_json ("/dcl/validator/disabled-nodes/" +:+ js_String address)
    Undefined params).

Definition queryLastValidatorPowerAll (c : HttpClient) (query : js) (params : RequestParams)
    : proc FetchCall Response S HttpResponse :=
  request c (get_json ("/dcl/validator/last-powers")
    query params).

Definition queryLastValidatorPower (c : HttpClient) (owner : js) (params : RequestParams)
    : proc FetchCall Response S HttpResponse :=
  request c (get_json ("/dcl/validator/last-powers/" +:+ js_String owner)
    Undefined params).

Definition queryValidatorAll (c : HttpClient) (query : js) (params : RequestParams)
    : proc FetchCall Response S HttpResponse :=
  request c (get_json ("/dcl/validator/nodes")
    query params).

Definition queryValidator (c : HttpClient) (owner : js) (params : RequestParams)
    : proc FetchCall Response S HttpResponse :=
  request c (get_json ("/dcl/validator/nodes/" +:+ js_String owner)
    Undefined params).

Definition queryProposedDisableValidatorAll (c : HttpClient) (query : js) (params : RequestParams)
    : proc FetchCall Response S HttpResponse :=
  request c (get_json ("/dcl/validator/proposed-disable-nodes")
    query params).

Definition queryProposedDisableValidator (c : HttpClient) (address : js) (params : RequestParams)
    : proc FetchCall Response S HttpResponse :=
  request c (get_json ("/dcl/validator/proposed-disable-nodes/" +:+ js_String address)
    Undefined params).

Definition queryRejectedDisableValidatorAll (c : HttpClient) (query : js) (params : RequestParams)
    : proc FetchCall Response S HttpResponse :=
  request c (get_json ("/dcl/validator/rejected-disable-nodes")
    query params).

Definition queryRejectedDisableValidator (c : HttpClient) (owner : js) (params : RequestParams)
    : proc FetchCall Response S HttpResponse :=
  request c (get_json ("/dcl/validator/rejected-disable-nodes/" +:+ js_String owner)
    Undefined params).

End api.

(** ** Routes *)

(** A query of the module with the values of its path parameters. *)
Inductive endpoint : Set :=
| DisabledValidatorAll
| DisabledValidator (address : string)
| LastValidatorPowerAll
| LastValidatorPower (owner : string)
| ValidatorAll
| Validator (owner : string)
| ProposedDisableValidatorAll
| ProposedDisableValidator (address : string)
| RejectedDisableValidatorAll
| RejectedDisableValidator (owner : string).

(** The method call of an endpoint; a method that takes a query object is given
    [query]. *)
Definition endpoint_call {S : Type} (c : HttpClient) (e : endpoint) (query : js)
    : proc FetchCall Response S HttpResponse :=
  match e with
  | DisabledValidatorAll => queryDisabledValidatorAll c query no_params
  | DisabledValidator address => queryDisabledValidator c (Str address) no_params
  | LastValidatorPowerAll => queryLastValidatorPowerAll c query no_params
  | LastValidatorPower owner => queryLastValidatorPower c (Str owner) no_params
  | ValidatorAll => queryValidatorAll c query no_params
  | Validator owner => queryValidator c (Str owner) no_params
  | ProposedDisableValidatorAll => queryProposedDisableValidatorAll c query no_params
  | ProposedDisableValidator address => queryProposedDisableValidator c (Str address) no_params
  | RejectedDisableValidatorAll => queryRejectedDisableValidatorAll c query no_params
  | RejectedDisableValidator owner => queryRejectedDisableValidator c (Str owner) no_params
  end.

(** Whether the method takes a query object. *)
Definition endpoint_takes_query (e : endpoint) : bool :=
  match e with
  | DisabledValidatorAll => true
  | DisabledValidator _ => false
  | LastValidatorPowerAll => true
  | LastValidatorPower _ => false
  | ValidatorAll => true
  | Validator _ => false
  | ProposedDisableValidatorAll => true
  | ProposedDisableValidator _ => false
  | RejectedDisableValidatorAll => true
  | RejectedDisableValidator _ => false
  end.

(** The segments of its route. *)
Definition endpoint_route (e : endpoint) : list string :=
  "dcl" :: "validator" ::
  match e with
  | DisabledValidatorAll => ["disabled-nodes"]
  | DisabledValidator address => ["disabled-nodes"; address]
  | LastValidatorPowerAll => ["last-powers"]
  | LastValidatorPower owner => ["last-powers"; owner]
  | ValidatorAll => ["nodes"]
  | Validator owner => ["nodes"; owner]
  | ProposedDisableValidatorAll => ["proposed-disable-nodes"]
  | ProposedDisableValidator address => ["proposed-disable-nodes"; address]
  | RejectedDisableValidatorAll => ["rejected-disable-nodes"]
  | RejectedDisableValidator owner => ["rejected-disable-nodes"; owner]
  end.

#[global] Program Instance routes : Routes endpoint :=
  {| api_call := endpoint_call; route := endpoint_route; takes_query := endpoint_takes_query |}.
Next Obligation. solve_route_path. Qed.
Next Obligation. by destruct e. Qed.

Lemma validator_route_inj e1 e2 : endpoint_route e1 = endpoint_route e2 → e1 = e2.
Proof. destruct e1, e2; simpl; intros H; simplify_eq; done. Qed.

(** ** Messages *)

(** A message of the module. *)
Inductive Msg : Type :=
| VMsgCreateValidator (m : MsgCreateValidator.t)
| VMsgApproveDisableValidator (m : MsgApproveDisableValidator.t)
| VMsgRejectDisableValidator (m : MsgRejectDisableValidator.t)
| VMsgProposeDisableValidator (m : MsgProposeDisableValidator.t)
| VMsgEnableValidator (m : MsgEnableValidator.t)
| VMsgDisableValidator (m : MsgDisableValidator.t).

Definition msgCreateValidator (data : option MsgCreateValidator.partial) : result (EncodeObject Msg) :=
  m ← from_partial "signer" MsgCreateValidator.fromPartial data;
  Ok (mkEncode "/zigbeealliance.distributedcomplianceledger.validator.MsgCreateValidator" (VMsgCreateValidator m)).

Definition msgApproveDisableValidator (data : option MsgApproveDisableValidator.partial) : result (EncodeObject Msg) :=
  m ← from_partial "creator" MsgApproveDisableValidator.fromPartial data;
  Ok (mkEncode "/zigbeealliance.distributedcomplianceledger.validator.MsgApproveDisableValidator" (VMsgApproveDisableValidator m)).

Definition msgRejectDisableValidator (data : option MsgRejectDisableValidator.partial) : result (EncodeObject Msg) :=
  m ← from_partial "creator" MsgRejectDisableValidator.fromPartial data;
  Ok (mkEncode "/zigbeealliance.distributedcomplianceledger.validator.MsgRejectDisableValidator" (VMsgRejectDisableValidator m)).

Definition msgProposeDisableValidator (data : option MsgProposeDisableValidator.partial) : result (EncodeObject Msg) :=
  m ← from_partial "creator" MsgProposeDisableValidator.fromPartial data;
  Ok (mkEncode "/zigbeealliance.distributedcomplianceledger.validator.MsgProposeDisableValidator" (VMsgProposeDisableValidator m)).

Definition msgEnableValidator (data : option MsgEnableValidator.partial) : result (EncodeObject Msg) :=
  m ← from_partial "creator" MsgEnableValidator.fromPartial data;
  Ok (mkEncode "/zigbeealliance.distributedcomplianceledger.validator.MsgEnableValidator" (VMsgEnableValidator m)).

Definition msgDisableValidator (data : option MsgDisableValidator.partial) : result (EncodeObject Msg) :=
  m ← from_partial "creator" MsgDisableValidator.fromPartial data;
  Ok (mkEncode "/zigbeealliance.distributedcomplianceledger.validator.MsgDisableValidator" (VMsgDisableValidator m)).

(** ** The type table *)

Section types.
Context {PB : Protobuf}.

Definition MsgCreateValidator_type : GeneratedType Msg := {|
  type_encode v := match v with VMsgCreateValidator m => Some (finish <$> MsgCreateValidator.encode m create) | _ => None end;
  type_decode b := VMsgCreateValidator <$> decode_bytes MsgCreateValidator.decode b;
|}.

Definition MsgApproveDisableValidator_type : GeneratedType Msg := {|
  type_encode v := match v with VMsgApproveDisableValidator m => Some (Ok (finish (MsgApproveDisableValidator.encode m create))) | _ => None end;
  type_decode b := VMsgApproveDisableValidator <$> decode_bytes MsgApproveDisableValidator.decode b;
|}.

Definition MsgRejectDisableValidator_type : GeneratedType Msg := {|
  type_encode v := match v with VMsgRejectDisableValidator m => Some (Ok (finish (MsgRejectDisableValidator.encode m create))) | _ => None end;
  type_decode b := VMsgRejectDisableValidator <$> decode_bytes MsgRejectDisableValidator.decode b;
|}.

Definition MsgProposeDisableValidator_type : GeneratedType Msg := {|
  type_encode v := match v with VMsgProposeDisableValidator m => Some (Ok (finish (MsgProposeDisableValidator.encode m create))) | _ => None end;
  type_decode b := VMsgProposeDisableValidator <$> decode_bytes MsgProposeDisableValidator.decode b;
|}.

Definition MsgEnableValidator_type : GeneratedType Msg := {|
  type_encode v := match v with VMsgEnableValidator m => Some (Ok (finish (MsgEnableValidator.encode m create))) | _ => None end;
  type_decode b := VMsgEnableValidator <$> decode_bytes MsgEnableValidator.decode b;
|}.

Definition MsgDisableValidator_type : GeneratedType Msg := {|
  type_encode v := match v with VMsgDisableValidator m => Some (Ok (finish (MsgDisableValidator.encode m create))) | _ => None end;
  type_decode b := VMsgDisableValidator <$> decode_bytes MsgDisableValidator.decode b;
|}.

Definition types : list (string * GeneratedType Msg) :=
  [("/zigbeealliance.distributedcomplianceledger.validator.MsgCreateValidator", MsgCreateValidator_type);
   ("/zigbeealliance.distributedcomplianceledger.validator.MsgApproveDisableValidator", MsgApproveDisableValidator_type);
   ("/zigbeealliance.distributedcomplianceledger.validator.MsgRejectDisableValidator", MsgRejectDisableValidator_type);
   ("/zigbeealliance.distributedcomplianceledger.validator.MsgProposeDisableValidator", MsgProposeDisableValidator_type);
   ("/zigbeealliance.distributedcomplianceledger.validator.MsgEnableValidator", MsgEnableValidator_type);
   ("/zigbeealliance.distributedcomplianceledger.validator.MsgDisableValidator", MsgDisableValidator_type)].

End types.

(** The message as it is read back from its encoding. *)
Definition Msg_normal (v : Msg) : Msg :=
  match v with
  | VMsgCreateValidator m => VMsgCreateValidator (MsgCreateValidator.normal m)
  | v => v
  end.

(** [v] is a message whose numbers fit and whose encoding is small enough. *)
Definition Msg_fits {PB : Protobuf} {PS : ProtobufSpec PB} (v : Msg) : Prop :=
  match v with
  | VMsgCreateValidator m => MsgCreateValidator.valid m ∧ small (MsgCreateValidator.wire m)
  | VMsgApproveDisableValidator m => MsgApproveDisableValidator.valid m ∧ small (MsgApproveDisableValidator.wire m)
  | VMsgRejectDisableValidator m => MsgRejectDisableValidator.valid m ∧ small (MsgRejectDisableValidator.wire m)
  | VMsgProposeDisableValidator m => MsgProposeDisableValidator.valid m ∧ small (MsgProposeDisableValidator.wire m)
  | VMsgEnableValidator m => MsgEnableValidator.valid m ∧ small (MsgEnableValidator.wire m)
  | VMsgDisableValidator m => MsgDisableValidator.valid m ∧ small (MsgDisableValidator.wire m)
  end.

(** ** Initial state *)

(** The properties of [T.fromPartial({})] in their order. *)
Definition templates : list (string * list (string * js)) :=
  [("Description",
     [("moniker", Str ""); ("identity", Str ""); ("website", Str ""); ("details", Str "")]);
   ("DisabledValidator",
     [("address", Str ""); ("creator", Str ""); ("disabledByNodeAdmin", Bool false);
      ("approvals", Arr []); ("rejects", Arr [])]);
   ("Grant",
     [("address", Str ""); ("time", Num 0); ("info", Str "")]);
   ("LastValidatorPower",
     [("owner", Str ""); ("power", Num 0)]);
   ("ProposedDisableValidator",
     [("address", Str ""); ("creator", Str ""); ("approvals", Arr []); ("rejects", Arr [])]);
   ("RejectedDisableValidator",
     [("address", Str ""); ("creator", Str ""); ("approvals", Arr []); ("rejects", Arr [])]);
   ("Validator",
     [("owner", Str ""); ("power", Num 0); ("jailed", Bool false); ("jailedReason", Str "");
      ("description", Undefined); ("pubKey", Undefined)])].

Definition cache_names : list string :=
  ["Validator"; "ValidatorAll"; "LastValidatorPower"; "LastValidatorPowerAll";
   "ProposedDisableValidator"; "ProposedDisableValidatorAll"; "DisabledValidator";
   "DisabledValidatorAll"; "RejectedDisableValidator"; "RejectedDisableValidatorAll"].

Definition getDefaultState {PB : Protobuf} : state := {|
  caches := empty_caches cache_names;
  Structure := map (fun t => (t.1, getStructure t.2)) templates;
  Registry := types.*1;
  Subscriptions := [];
|}.

(** ** Getters *)

Definition getValidator (s : state) (params : option (list (string * js))) : js :=
  get_cached "Validator" s params.

Definition getValidatorAll (s : state) (params : option (list (string * js))) : js :=
  get_cached "ValidatorAll" s params.

Definition getLastValidatorPower (s : state) (params : option (list (string * js))) : js :=
  get_cached "LastValidatorPower" s params.

Definition getLastValidatorPowerAll (s : state) (params : option (list (string * js))) : js :=
  get_cached "LastValidatorPowerAll" s params.

Definition getProposedDisableValidator (s : state) (params : option (list (string * js))) : js :=
  get_cached "ProposedDisableValidator" s params.

Definition getProposedDisableValidatorAll (s : state) (params : option (list (string * js))) : js :=
  get_cached "ProposedDisableValidatorAll" s params.

Definition getDisabledValidator (s : state) (params : option (list (string * js))) : js :=
  get_cached "DisabledValidator" s params.

Definition getDisabledValidatorAll (s : state) (params : option (list (string * js))) : js :=
  get_cached "DisabledValidatorAll" s params.

Definition getRejectedDisableValidator (s : state) (params : option (list (string * js))) : js :=
  get_cached "RejectedDisableValidator" s params.

Definition getRejectedDisableValidatorAll (s : state) (params : option (list (string * js))) : js :=
  get_cached "RejectedDisableValidatorAll" s params.

Section store.
Context {SV : SpVuex} {CJ : Cosmjs} {PB : Protobuf}.
Context (rootGetters : root_getters).
Abbreviation task := (proc FetchCall Response state).

(** ** Queries *)

(** The number of further pages a list query may ask for. *)
Variable max_pages : nat.

Definition fetch_Validator (a : query_args) (key : js) : task js :=
  owner ← of_result (get key "owner");
  r ← queryValidator (initQueryClient rootGetters) owner no_params;
  Ret r.(data).

Definition QueryValidator (payload : js) : task js :=
  query_action "Validator" fetch_Validator payload.

Definition all_ValidatorAll (query : js) : task HttpResponse :=
  queryValidatorAll (initQueryClient rootGetters) query no_params.

Definition fetch_ValidatorAll (a : query_args) (key : js) : task js :=
  fetch_all max_pages all_ValidatorAll a key.

Definition QueryValidatorAll (payload : js) : task js :=
  query_action "ValidatorAll" fetch_ValidatorAll payload.

Definition fetch_LastValidatorPower (a : query_args) (key : js) : task js :=
  owner ← of_result (get key "owner");
  r ← queryLastValidatorPower (initQueryClient rootGetters) owner no_params;
  Ret r.(data).

Definition QueryLastValidatorPower (payload : js) : task js :=
  query_action "LastValidatorPower" fetch_LastValidatorPower payload.

Definition all_LastValidatorPowerAll (query : js) : task HttpResponse :=
  queryLastValidatorPowerAll (initQueryClient rootGetters) query no_params.

Definition fetch_LastValidatorPowerAll (a : query_args) (key : js) : task js :=
  fetch_all max_pages all_LastValidatorPowerAll a key.

Definition QueryLastValidatorPowerAll (payload : js) : task js :=
  query_action "LastValidatorPowerAll" fetch_LastValidatorPowerAll payload.

Definition fetch_ProposedDisableValidator (a : query_args) (key : js) : task js :=
  address ← of_result (get key "address");
  r ← queryProposedDisableValidator (initQueryClient rootGetters) address no_params;
  Ret r.(data).

Definition QueryProposedDisableValidator (payload : js) : task js :=
  query_action "ProposedDisableValidator" fetch_ProposedDisableValidator payload.

Definition all_ProposedDisableValidatorAll (query : js) : task HttpResponse :=
  queryProposedDisableValidatorAll (initQueryClient rootGetters) query no_params.

Definition fetch_ProposedDisableValidatorAll (a : query_args) (key : js) : task js :=
  fetch_all max_pages all_ProposedDisableValidatorAll a key.

Definition QueryProposedDisableValidatorAll (payload : js) : task js :=
  query_action "ProposedDisableValidatorAll" fetch_ProposedDisableValidatorAll payload.

Definition fetch_DisabledValidator (a : query_args) (key : js) : task js :=
  address ← of_result (get key "address");
  r ← queryDisabledValidator (initQueryClient rootGetters) address no_params;
  Ret r.(data).

Definition QueryDisabledValidator (payload : js) : task js :=
  query_action "DisabledValidator" fetch_DisabledValidator payload.

Definition all_DisabledValidatorAll (query : js) : task HttpResponse :=
  queryDisabledValidatorAll (initQueryClient rootGetters) query no_params.

Definition fetch_DisabledValidatorAll (a : query_args) (key : js) : task js :=
  fetch_all max_pages all_DisabledValidatorAll a key.

Definition QueryDisabledValidatorAll (payload : js) : task js :=
  query_action "DisabledValidatorAll" fetch_DisabledValidatorAll payload.

Definition fetch_RejectedDisableValidator (a : query_args) (key : js) : task js :=
  owner ← of_result (get key "owner");
  r ← queryRejectedDisableValidator (initQueryClient rootGetters) owner no_params;
  Ret r.(data).

Definition QueryRejectedDisableValidator (payload : js) : task js :=
  query_action "RejectedDisableValidator" fetch_RejectedDisableValidator payload.

Definition all_RejectedDisableValidatorAll (query : js) : task HttpResponse :=
  queryRejectedDisableValidatorAll (initQueryClient rootGetters) query no_params.

Definition fetch_RejectedDisableValidatorAll (a : query_args) (key : js) : task js :=
  fetch_all max_pages all_RejectedDisableValidatorAll a key.

Definition QueryRejectedDisableValidatorAll (payload : js) : task js :=
  query_action "RejectedDisableValidatorAll" fetch_RejectedDisableValidatorAll payload.

(** The fetch of each query, by the name of its cache. *)
Definition fetchers : list (string * (query_args → js → task js)) :=
  [("Validator", fetch_Validator);
   ("ValidatorAll", fetch_ValidatorAll);
   ("LastValidatorPower", fetch_LastValidatorPower);
   ("LastValidatorPowerAll", fetch_LastValidatorPowerAll);
   ("ProposedDisableValidator", fetch_ProposedDisableValidator);
   ("ProposedDisableValidatorAll", fetch_ProposedDisableValidatorAll);
   ("DisabledValidator", fetch_DisabledValidator);
   ("DisabledValidatorAll", fetch_DisabledValidatorAll);
   ("RejectedDisableValidator", fetch_RejectedDisableValidator);
   ("RejectedDisableValidatorAll", fetch_RejectedDisableValidatorAll)].

(** The query actions by name, as [dispatch] finds them. *)
Definition query_actions : list (string * (js → task js)) :=
  [("QueryValidator", QueryValidator);
   ("QueryValidatorAll", QueryValidatorAll);
   ("QueryLastValidatorPower", QueryLastValidatorPower);
   ("QueryLastValidatorPowerAll", QueryLastValidatorPowerAll);
   ("QueryProposedDisableValidator", QueryProposedDisableValidator);
   ("QueryProposedDisableValidatorAll", QueryProposedDisableValidatorAll);
   ("QueryDisabledValidator", QueryDisabledValidator);
   ("QueryDisabledValidatorAll", QueryDisabledValidatorAll);
   ("QueryRejectedDisableValidator", QueryRejectedDisableValidator);
   ("QueryRejectedDisableValidatorAll", QueryRejectedDisableValidatorAll)].

(** The list queries, with the method each one calls. *)
Definition list_queries : list (string * (js → task HttpResponse)) :=
  [("ValidatorAll", all_ValidatorAll);
   ("LastValidatorPowerAll", all_LastValidatorPowerAll);
   ("ProposedDisableValidatorAll", all_ProposedDisableValidatorAll);
   ("DisabledValidatorAll", all_DisabledValidatorAll);
   ("RejectedDisableValidatorAll", all_RejectedDisableValidatorAll)].

(** The store of the module, see [StoreModule.v]. *)
Definition store : StoreModule :=
  mkModule cache_names fetchers query_actions list_queries max_pages getDefaultState.

#[global] Instance store_laws : StoreLaws store.
Proof. solve_store_laws. Qed.

(** ** Transactions *)

(** [new Registry(types)] *)
Definition registry : TypeRegistry Msg := newRegistry types.

Definition sendMsgCreateValidator (args : send_args MsgCreateValidator.partial) : result js :=
  send_msg rootGetters registry "MsgCreateValidator" msgCreateValidator args.

Definition sendMsgApproveDisableValidator (args : send_args MsgApproveDisableValidator.partial) : result js :=
  send_msg rootGetters registry "MsgApproveDisableValidator" msgApproveDisableValidator args.

Definition sendMsgRejectDisableValidator (args : send_args MsgRejectDisableValidator.partial) : result js :=
  send_msg rootGetters registry "MsgRejectDisableValidator" msgRejectDisableValidator args.

Definition sendMsgProposeDisableValidator (args : send_args MsgProposeDisableValidator.partial) : result js :=
  send_msg rootGetters registry "MsgProposeDisableValidator" msgProposeDisableValidator args.

Definition sendMsgEnableValidator (args : send_args MsgEnableValidator.partial) : result js :=
  send_msg rootGetters registry "MsgEnableValidator" msgEnableValidator args.

Definition sendMsgDisableValidator (args : send_args MsgDisableValidator.partial) : result js :=
  send_msg rootGetters registry "MsgDisableValidator" msgDisableValidator args.

Definition createMsgCreateValidator (value : option MsgCreateValidator.partial) : result (EncodeObject Msg) :=
  create_msg rootGetters registry "MsgCreateValidator" msgCreateValidator value.

Definition createMsgApproveDisableValidator (value : option MsgApproveDisableValidator.partial) : result (EncodeObject Msg) :=
  create_msg rootGetters registry "MsgApproveDisableValidator" msgApproveDisableValidator value.

Definition createMsgRejectDisableValidator (value : option MsgRejectDisableValidator.partial) : result (EncodeObject Msg) :=
  create_msg rootGetters registry "MsgRejectDisableValidator" msgRejectDisableValidator value.

Definition createMsgProposeDisableValidator (value : option MsgProposeDisableValidator.partial) : result (EncodeObject Msg) :=
  create_msg rootGetters registry "MsgProposeDisableValidator" msgProposeDisableValidator value.

Definition createMsgEnableValidator (value : option MsgEnableValidator.partial) : result (EncodeObject Msg) :=
  create_msg rootGetters registry "MsgEnableValidator" msgEnableValidator value.

Definition createMsgDisableValidator (value : option MsgDisableValidator.partial) : result (EncodeObject Msg) :=
  create_msg rootGetters registry "MsgDisableValidator" msgDisableValidator value.

(** The message types with their actions. *)
Definition tx_actions : list (tx_action Msg) :=
  [mkTxAction "MsgCreateValidator" "signer"
     (fun d => mkEncode "/zigbeealliance.distributedcomplianceledger.validator.MsgCreateValidator"
       (VMsgCreateValidator (MsgCreateValidator.fromPartial d)))
     msgCreateValidator sendMsgCreateValidator createMsgCreateValidator;
   mkTxAction "MsgApproveDisableValidator" "creator"
     (fun d => mkEncode "/zigbeealliance.distributedcomplianceledger.validator.MsgApproveDisableValidator"
       (VMsgApproveDisableValidator (MsgApproveDisableValidator.fromPartial d)))
     msgApproveDisableValidator sendMsgApproveDisableValidator createMsgApproveDisableValidator;
   mkTxAction "MsgRejectDisableValidator" "creator"
     (fun d => mkEncode "/zigbeealliance.distributedcomplianceledger.validator.MsgRejectDisableValidator"
       (VMsgRejectDisableValidator (MsgRejectDisableValidator.fromPartial d)))
     msgRejectDisableValidator sendMsgRejectDisableValidator createMsgRejectDisableValidator;
   mkTxAction "MsgProposeDisableValidator" "creator"
     (fun d => mkEncode "/zigbeealliance.distributedcomplianceledger.validator.MsgProposeDisableValidator"
       (VMsgProposeDisableValidator (MsgProposeDisableValidator.fromPartial d)))
     msgProposeDisableValidator sendMsgProposeDisableValidator createMsgProposeDisableValidator;
   mkTxAction "MsgEnableValidator" "creator"
     (fun d => mkEncode "/zigbeealliance.distributedcomplianceledger.validator.MsgEnableValidator"
       (VMsgEnableValidator (MsgEnableValidator.fromPartial d)))
     msgEnableValidator sendMsgEnableValidator createMsgEnableValidator;
   mkTxAction "MsgDisableValidator" "creator"
     (fun d => mkEncode "/zigbeealliance.distributedcomplianceledger.validator.MsgDisableValidator"
       (VMsgDisableValidator (MsgDisableValidator.fromPartial d)))
     msgDisableValidator sendMsgDisableValidator createMsgDisableValidator].

Lemma validator_tx_laws {PS : ProtobufSpec PB} :
  Forall (tx_lawful rootGetters types Msg_normal Msg_fits) tx_actions.
Proof. solve_tx_laws. Qed.

End store.
