(* ===== verification/DclauthStore.v ===== *)
(** * The client of the dclauth module

    The endpoints of dclauth/module/rest.js, the transaction client of
    dclauth/module/index.js and the store of dclauth/index.js: implementations of the
    interfaces of [ApiRoutes.v], [TxClient.v] and [StoreModule.v]. *)
From S2P Require Import Prelude Js Protobuf Codec Fallible CommonTypes DclauthTypes JsonText Uri Async RestClient ApiRoutes Pages VuexStore TxClient StoreModule.
Open Scope Z_scope.

(** ** Endpoints *)

Section api.
Context {S : Type}.

Definition queryAccountAll (c : HttpClient) (query : js) (params : RequestParams)
    : proc FetchCall Response S HttpResponse :=
  request c (get_json ("/dcl/auth/accounts")
    query params).

Definition queryAccountStat (c : HttpClient) (params : RequestParams)
    : proc FetchCall Response S HttpResponse :=
  request c (get_json ("/dcl/auth/accounts/stat")
    Undefined params).

Definition queryAccount (c : HttpClient) (address : js) (params : RequestParams)
    : proc FetchCall Response S HttpResponse :=
  request c (get_json ("/dcl/auth/accounts/" +:+ js_String address)
    Undefined params).

Definition queryPendingAccountAll (c : HttpClient) (query : js) (params : RequestParams)
    : proc FetchCall Response S HttpResponse :=
  request c (get_json ("/dcl/auth/proposed-accounts")
    query params).

Definition queryPendingAccount (c : HttpClient) (address : js) (params : RequestParams)
    : proc FetchCall Response S HttpResponse :=
  request c (get_json ("/dcl/auth/proposed-accounts/" +:+ js_String address)
    Undefined params).

Definition queryPendingAccountRevocationAll (c : HttpClient) (query : js) (params : RequestParams)
    : proc FetchCall Response S HttpResponse :=
  request c (get_json ("/dcl/auth/proposed-revocation-accounts")
    query params).

Definition queryPendingAccountRevocation (c : HttpClient) (address : js) (params : RequestParams)
    : proc FetchCall Response S HttpResponse :=
  request c (get_json ("/dcl/auth/proposed-revocation-accounts/" +:+ js_String address)
    Undefined params).

Definition queryRejectedAccountAll (c : HttpClient) (query : js) (params : RequestParams)
    : proc FetchCall Response S HttpResponse :=
  request c (get_json ("/dcl/auth/rejected-accounts")
    query params).

Definition queryRejectedAccount (c : HttpClient) (address : js) (params : RequestParams)
    : proc FetchCall Response S HttpResponse :=
  request c (get_json ("/dcl/auth/rejected-accounts/" +:+ js_String address)
    Undefined params).

Definition queryRevokedAccountAll (c : HttpClient) (query : js) (params : RequestParams)
    : proc FetchCall Response S HttpResponse :=
  request c (get_json ("/dcl/auth/revoked-accounts")
    query params).

Definition queryRevokedAccount (c : HttpClient) (address : js) (params : RequestParams)
    : proc FetchCall Response S HttpResponse :=
  request c (get_json ("/dcl/auth/revoked-accounts/" +:+ js_String address)
    Undefined params).

End api.

(** ** Routes *)

(** A query of the module with the values of its path parameters. *)
Inductive endpoint : Set :=
| AccountAll
| AccountStat
| Account (address : string)
| PendingAccountAll
| PendingAccount (address : string)
| PendingAccountRevocationAll
| PendingAccountRevocation (address : string)
| RejectedAccountAll
| RejectedAccount (address : string)
| RevokedAccountAll
| RevokedAccount (address : string).

(** The method call of an endpoint; a method that takes a query object is given
    [query]. *)
Definition endpoint_call {S : Type} (c : HttpClient) (e : endpoint) (query : js)
    : proc FetchCall Response S HttpResponse :=
  match e with
  | AccountAll => queryAccountAll c query no_params
  | AccountStat => queryAccountStat c no_params
  | Account address => queryAccount c (Str address) no_params
  | PendingAccountAll => queryPendingAccountAll c query no_params
  | PendingAccount address => queryPendingAccount c (Str address) no_params
  | PendingAccountRevocationAll => queryPendingAccountRevocationAll c query no_params
  | PendingAccountRevocation address => queryPendingAccountRevocation c (Str address) no_params
  | RejectedAccountAll => queryRejectedAccountAll c query no_params
  | RejectedAccount address => queryRejectedAccount c (Str address) no_params
  | RevokedAccountAll => queryRevokedAccountAll c query no_params
  | RevokedAccount address => queryRevokedAccount c (Str address) no_params
  end.

(** Whether the method takes a query object. *)
Definition endpoint_takes_query (e : endpoint) : bool :=
  match e with
  | AccountAll => true
  | AccountStat => false
  | Account _ => false
  | PendingAccountAll => true
  | PendingAccount _ => false
  | PendingAccountRevocationAll => true
  | PendingAccountRevocation _ => false
  | RejectedAccountAll => true
  | RejectedAccount _ => false
  | RevokedAccountAll => true
  | RevokedAccount _ => false
  end.

(** The segments of its route. *)
Definition endpoint_route (e : endpoint) : list string :=
  "dcl" :: "auth" ::
  match e with
  | AccountAll => ["accounts"]
  | AccountStat => ["accounts"; "stat"]
  | Account address => ["accounts"; address]
  | PendingAccountAll => ["proposed-accounts"]
  | PendingAccount address => ["proposed-accounts"; address]
  | PendingAccountRevocationAll => ["proposed-revocation-accounts"]
  | PendingAccountRevocation address => ["proposed-revocation-accounts"; address]
  | RejectedAccountAll => ["rejected-accounts"]
  | RejectedAccount address => ["rejected-accounts"; address]
  | RevokedAccountAll => ["revoked-accounts"]
  | RevokedAccount address => ["revoked-accounts"; address]
  end.

#[global] Program Instance routes : Routes endpoint :=
  {| api_call := endpoint_call; route := endpoint_route; takes_query := endpoint_takes_query |}.
Next Obligation. solve_route_path. Qed.
Next Obligation. by destruct e. Qed.

(** The statistics are found where an account of the address [stat] would be. *)
Lemma dclauth_route_inj e1 e2 : endpoint_route e1 = endpoint_route e2 →
  e1 = e2 ∨ (e1 = AccountStat ∧ e2 = Account "stat") ∨ (e1 = Account "stat" ∧ e2 = AccountStat).
Proof. destruct e1, e2; simpl; intros H; simplify_eq; auto. Qed.

(** ** Messages *)

(** A message of the module. *)
Inductive Msg : Type :=
| VMsgRejectAddAccount (m : MsgRejectAddAccount.t)
| VMsgApproveAddAccount (m : MsgApproveAddAccount.t)
| VMsgProposeAddAccount (m : MsgProposeAddAccount.t)
| VMsgApproveRevokeAccount (m : MsgApproveRevokeAccount.t)
| VMsgProposeRevokeAccount (m : MsgProposeRevokeAccount.t).

Definition msgRejectAddAccount (data : option MsgRejectAddAccount.partial) : result (EncodeObject Msg) :=
  m ← from_partial "signer" MsgRejectAddAccount.fromPartial data;
  Ok (mkEncode "/zigbeealliance.distributedcomplianceledger.dclauth.MsgRejectAddAccount" (VMsgRejectAddAccount m)).

Definition msgApproveAddAccount (data : option MsgApproveAddAccount.partial) : result (EncodeObject Msg) :=
  m ← from_partial "signer" MsgApproveAddAccount.fromPartial data;
  Ok (mkEncode "/zigbeealliance.distributedcomplianceledger.dclauth.MsgApproveAddAccount" (VMsgApproveAddAccount m)).

Definition msgProposeAddAccount (data : option MsgProposeAddAccount.partial) : result (EncodeObject Msg) :=
  m ← from_partial "signer" MsgProposeAddAccount.fromPartial data;
  Ok (mkEncode "/zigbeealliance.distributedcomplianceledger.dclauth.MsgProposeAddAccount" (VMsgProposeAddAccount m)).

Definition msgApproveRevokeAccount (data : option MsgApproveRevokeAccount.partial) : result (EncodeObject Msg) :=
  m ← from_partial "signer" MsgApproveRevokeAccount.fromPartial data;
  Ok (mkEncode "/zigbeealliance.distributedcomplianceledger.dclauth.MsgApproveRevokeAccount" (VMsgApproveRevokeAccount m)).

Definition msgProposeRevokeAccount (data : option MsgProposeRevokeAccount.partial) : result (EncodeObject Msg) :=
  m ← from_partial "signer" MsgProposeRevokeAccount.fromPartial data;
  Ok (mkEncode "/zigbeealliance.distributedcomplianceledger.dclauth.MsgProposeRevokeAccount" (VMsgProposeRevokeAccount m)).

(** ** The type table *)

Section types.
Context {PB : Protobuf}.

Definition MsgRejectAddAccount_type : GeneratedType Msg := {|
  type_encode v := match v with VMsgRejectAddAccount m => Some (Ok (finish (MsgRejectAddAccount.encode m create))) | _ => None end;
  type_decode b := VMsgRejectAddAccount <$> decode_bytes MsgRejectAddAccount.decode b;
|}.

Definition MsgApproveAddAccount_type : GeneratedType Msg := {|
  type_encode v := match v with VMsgApproveAddAccount m => Some (Ok (finish (MsgApproveAddAccount.encode m create))) | _ => None end;
  type_decode b := VMsgApproveAddAccount <$> decode_bytes MsgApproveAddAccount.decode b;
|}.

Definition MsgProposeAddAccount_type : GeneratedType Msg := {|
  type_encode v := match v with VMsgProposeAddAccount m => Some (finish <$> MsgProposeAddAccount.encode m create) | _ => None end;
  type_decode b := VMsgProposeAddAccount <$> decode_bytes MsgProposeAddAccount.decode b;
|}.

Definition MsgApproveRevokeAccount_type : GeneratedType Msg := {|
  type_encode v := match v with VMsgApproveRevokeAccount m => Some (Ok (finish (MsgApproveRevokeAccount.encode m create))) | _ => None end;
  type_decode b := VMsgApproveRevokeAccount <$> decode_bytes MsgApproveRevokeAccount.decode b;
|}.

Definition MsgProposeRevokeAccount_type : GeneratedType Msg := {|
  type_encode v := match v with VMsgProposeRevokeAccount m => Some (Ok (finish (MsgProposeRevokeAccount.encode m create))) | _ => None end;
  type_decode b := VMsgProposeRevokeAccount <$> decode_bytes MsgProposeRevokeAccount.decode b;
|}.

Definition types : list (string * GeneratedType Msg) :=
  [("/zigbeealliance.distributedcomplianceledger.dclauth.MsgRejectAddAccount", MsgRejectAddAccount_type);
   ("/zigbeealliance.distributedcomplianceledger.dclauth.MsgApproveAddAccount", MsgApproveAddAccount_type);
   ("/zigbeealliance.distributedcomplianceledger.dclauth.MsgProposeAddAccount", MsgProposeAddAccount_type);
   ("/zigbeealliance.distributedcomplianceledger.dclauth.MsgApproveRevokeAccount", MsgApproveRevokeAccount_type);
   ("/zigbeealliance.distributedcomplianceledger.dclauth.MsgProposeRevokeAccount", MsgProposeRevokeAccount_type)].

End types.

(** The message as it is read back from its encoding. *)
Definition Msg_normal (v : Msg) : Msg :=
  match v with
  | VMsgProposeAddAccount m => VMsgProposeAddAccount (MsgProposeAddAccount.normal m)
  | v => v
  end.

(** [v] is a message whose numbers fit and whose encoding is small enough. *)
Definition Msg_fits {PB : Protobuf} {PS : ProtobufSpec PB} (v : Msg) : Prop :=
  match v with
  | VMsgRejectAddAccount m => MsgRejectAddAccount.valid m ∧ small (MsgRejectAddAccount.wire m)
  | VMsgApproveAddAccount m => MsgApproveAddAccount.valid m ∧ small (MsgApproveAddAccount.wire m)
  | VMsgProposeAddAccount m => MsgProposeAddAccount.valid m ∧ small (MsgProposeAddAccount.wire m)
  | VMsgApproveRevokeAccount m => MsgApproveRevokeAccount.valid m ∧ small (MsgApproveRevokeAccount.wire m)
  | VMsgProposeRevokeAccount m => MsgProposeRevokeAccount.valid m ∧ small (MsgProposeRevokeAccount.wire m)
  end.

(** ** Initial state *)

(** The properties of [T.fromPartial({})] in their order. *)
Definition templates : list (string * list (string * js)) :=
  [("Account",
     [("roles", Arr []); ("vendorID", Num 0); ("approvals", Arr []); ("rejects", Arr []);
      ("baseAccount", Undefined)]);
   ("AccountStat",
     [("number", Num 0)]);
   ("Grant",
     [("address", Str ""); ("time", Num 0); ("info", Str "")]);
   ("PendingAccount",
     [("account", Undefined)]);
   ("PendingAccountRevocation",
     [("address", Str ""); ("approvals", Arr [])]);
   ("RejectedAccount",
     [("account", Undefined)]);
   ("RevokedAccount",
     [("reason", Num 0); ("revokeApprovals", Arr []); ("account", Undefined)])].

Definition cache_names : list string :=
  ["Account"; "AccountAll"; "PendingAccount"; "PendingAccountAll"; "PendingAccountRevocation";
   "PendingAccountRevocationAll"; "AccountStat"; "RevokedAccount"; "RevokedAccountAll";
   "RejectedAccount"; "RejectedAccountAll"].

Definition getDefaultState {PB : Protobuf} : state := {|
  caches := empty_caches cache_names;
  Structure := map (fun t => (t.1, getStructure t.2)) templates;
  Registry := types.*1;
  Subscriptions := [];
|}.

(** ** Getters *)

Definition getAccount (s : state) (params : option (list (string * js))) : js :=
  get_cached "Account" s params.

Definition getAccountAll (s : state) (params : option (list (string * js))) : js :=
  get_cached "AccountAll" s params.

Definition getPendingAccount (s : state) (params : option (list (string * js))) : js :=
  get_cached "PendingAccount" s params.

Definition getPendingAccountAll (s : state) (params : option (list (string * js))) : js :=
  get_cached "PendingAccountAll" s params.

Definition getPendingAccountRevocation (s : state) (params : option (list (string * js))) : js :=
  get_cached "PendingAccountRevocation" s params.

Definition getPendingAccountRevocationAll (s : state) (params : option (list (string * js))) : js :=
  get_cached "PendingAccountRevocationAll" s params.

Definition getAccountStat (s : state) (params : option (list (string * js))) : js :=
  get_cached "AccountStat" s params.

Definition getRevokedAccount (s : state) (params : option (list (string * js))) : js :=
  get_cached "RevokedAccount" s params.

Definition getRevokedAccountAll (s : state) (params : option (list (string * js))) : js :=
  get_cached "RevokedAccountAll" s params.

Definition getRejectedAccount (s : state) (params : option (list (string * js))) : js :=
  get_cached "RejectedAccount" s params.

Definition getRejectedAccountAll (s : state) (params : option (list (string * js))) : js :=
  get_cached "RejectedAccountAll" s params.

Section store.
Context {SV : SpVuex} {CJ : Cosmjs} {PB : Protobuf}.
Context (rootGetters : root_getters).
Abbreviation task := (proc FetchCall Response state).

(** ** Queries *)

(** The number of further pages a list query may ask for. *)
Variable max_pages : nat.

Definition fetch_Account (a : query_args) (key : js) : task js :=
  address ← of_result (get key "address");
  r ← queryAccount (initQueryClient rootGetters) address no_params;
  Ret r.(data).

Definition QueryAccount (payload : js) : task js :=
  query_action "Account" fetch_Account payload.

Definition all_AccountAll (query : js) : task HttpResponse :=
  queryAccountAll (initQueryClient rootGetters) query no_params.

Definition fetch_AccountAll (a : query_args) (key : js) : task js :=
  fetch_all max_pages all_AccountAll a key.

Definition QueryAccountAll (payload : js) : task js :=
  query_action "AccountAll" fetch_AccountAll payload.

Definition fetch_PendingAccount (a : query_args) (key : js) : task js :=
  address ← of_result (get key "address");
  r ← queryPendingAccount (initQueryClient rootGetters) address no_params;
  Ret r.(data).

Definition QueryPendingAccount (payload : js) : task js :=
  query_action "PendingAccount" fetch_PendingAccount payload.

Definition all_PendingAccountAll (query : js) : task HttpResponse :=
  queryPendingAccountAll (initQueryClient rootGetters) query no_params.

Definition fetch_PendingAccountAll (a : query_args) (key : js) : task js :=
  fetch_all max_pages all_PendingAccountAll a key.

Definition QueryPendingAccountAll (payload : js) : task js :=
  query_action "PendingAccountAll" fetch_PendingAccountAll payload.

Definition fetch_PendingAccountRevocation (a : query_args) (key : js) : task js :=
  address ← of_result (get key "address");
  r ← queryPendingAccountRevocation (initQueryClient rootGetters) address no_params;
  Ret r.(data).

Definition QueryPendingAccountRevocation (payload : js) : task js :=
  query_action "PendingAccountRevocation" fetch_PendingAccountRevocation payload.

Definition all_PendingAccountRevocationAll (query : js) : task HttpResponse :=
  queryPendingAccountRevocationAll (initQueryClient rootGetters) query no_params.

Definition fetch_PendingAccountRevocationAll (a : query_args) (key : js) : task js :=
  fetch_all max_pages all_PendingAccountRevocationAll a key.

Definition QueryPendingAccountRevocationAll (payload : js) : task js :=
  query_action "PendingAccountRevocationAll" fetch_PendingAccountRevocationAll payload.

Definition fetch_AccountStat (a : query_args) (key : js) : task js :=
  r ← queryAccountStat (initQueryClient rootGetters) no_params;
  Ret r.(data).

Definition QueryAccountStat (payload : js) : task js :=
  query_action "AccountStat" fetch_AccountStat payload.

Definition fetch_RevokedAccount (a : query_args) (key : js) : task js :=
  address ← of_result (get key "address");
  r ← queryRevokedAccount (initQueryClient rootGetters) address no_params;
  Ret r.(data).

Definition QueryRevokedAccount (payload : js) : task js :=
  query_action "RevokedAccount" fetch_RevokedAccount payload.

Definition all_RevokedAccountAll (query : js) : task HttpResponse :=
  queryRevokedAccountAll (initQueryClient rootGetters) query no_params.

Definition fetch_RevokedAccountAll (a : query_args) (key : js) : task js :=
  fetch_all max_pages all_RevokedAccountAll a key.

Definition QueryRevokedAccountAll (payload : js) : task js :=
  query_action "RevokedAccountAll" fetch_RevokedAccountAll payload.

Definition fetch_RejectedAccount (a : query_args) (key : js) : task js :=
  address ← of_result (get key "address");
  r ← queryRejectedAccount (initQueryClient rootGetters) address no_params;
  Ret r.(data).

Definition QueryRejectedAccount (payload : js) : task js :=
  query_action "RejectedAccount" fetch_RejectedAccount payload.

Definition all_RejectedAccountAll (query : js) : task HttpResponse :=
  queryRejectedAccountAll (initQueryClient rootGetters) query no_params.

Definition fetch_RejectedAccountAll (a : query_args) (key : js) : task js :=
  fetch_all max_pages all_RejectedAccountAll a key.

Definition QueryRejectedAccountAll (payload : js) : task js :=
  query_action "RejectedAccountAll" fetch_RejectedAccountAll payload.

(** The fetch of each query, by the name of its cache. *)
Definition fetchers : list (string * (query_args → js → task js)) :=
  [("Account", fetch_Account);
   ("AccountAll", fetch_AccountAll);
   ("PendingAccount", fetch_PendingAccount);
   ("PendingAccountAll", fetch_PendingAccountAll);
   ("PendingAccountRevocation", fetch_PendingAccountRevocation);
   ("PendingAccountRevocationAll", fetch_PendingAccountRevocationAll);
   ("AccountStat", fetch_AccountStat);
   ("RevokedAccount", fetch_RevokedAccount);
   ("RevokedAccountAll", fetch_RevokedAccountAll);
   ("RejectedAccount", fetch_RejectedAccount);
   ("RejectedAccountAll", fetch_RejectedAccountAll)].

(** The query actions by name, as [dispatch] finds them. *)
Definition query_actions : list (string * (js → task js)) :=
  [("QueryAccount", QueryAccount);
   ("QueryAccountAll", QueryAccountAll);
   ("QueryPendingAccount", QueryPendingAccount);
   ("QueryPendingAccountAll", QueryPendingAccountAll);
   ("QueryPendingAccountRevocation", QueryPendingAccountRevocation);
   ("QueryPendingAccountRevocationAll", QueryPendingAccountRevocationAll);
   ("QueryAccountStat", QueryAccountStat);
   ("QueryRevokedAccount", QueryRevokedAccount);
   ("QueryRevokedAccountAll", QueryRevokedAccountAll);
   ("QueryRejectedAccount", QueryRejectedAccount);
   ("QueryRejectedAccountAll", QueryRejectedAccountAll)].

(** The list queries, with the method each one calls. *)
Definition list_queries : list (string * (js → task HttpResponse)) :=
  [("AccountAll", all_AccountAll);
   ("PendingAccountAll", all_PendingAccountAll);
   ("PendingAccountRevocationAll", all_PendingAccountRevocationAll);
   ("RevokedAccountAll", all_RevokedAccountAll);
   ("RejectedAccountAll", all_RejectedAccountAll)].

(** The store of the module, see [StoreModule.v]. *)
Definition store : StoreModule :=
  mkModule cache_names fetchers query_actions list_queries max_pages getDefaultState.

#[global] Instance store_laws : StoreLaws store.
Proof. solve_store_laws. Qed.

(** ** Transactions *)

(** [new Registry(types)] *)
Definition registry : TypeRegistry Msg := newRegistry types.

Definition sendMsgRejectAddAccount (args : send_args MsgRejectAddAccount.partial) : result js :=
  send_msg rootGetters registry "MsgRejectAddAccount" msgRejectAddAccount args.

Definition sendMsgApproveAddAccount (args : send_args MsgApproveAddAccount.partial) : result js :=
  send_msg rootGetters registry "MsgApproveAddAccount" msgApproveAddAccount args.

Definition sendMsgProposeAddAccount (args : send_args MsgProposeAddAccount.partial) : result js :=
  send_msg rootGetters registry "MsgProposeAddAccount" msgProposeAddAccount args.

Definition sendMsgApproveRevokeAccount (args : send_args MsgApproveRevokeAccount.partial) : result js :=
  send_msg rootGetters registry "MsgApproveRevokeAccount" msgApproveRevokeAccount args.

Definition sendMsgProposeRevokeAccount (args : send_args MsgProposeRevokeAccount.partial) : result js :=
  send_msg rootGetters registry "MsgProposeRevokeAccount" msgProposeRevokeAccount args.

Definition createMsgRejectAddAccount (value : option MsgRejectAddAccount.partial) : result (EncodeObject Msg) :=
  create_msg rootGetters registry "MsgRejectAddAccount" msgRejectAddAccount value.

Definition createMsgApproveAddAccount (value : option MsgApproveAddAccount.partial) : result (EncodeObject Msg) :=
  create_msg rootGetters registry "MsgApproveAddAccount" msgApproveAddAccount value.

Definition createMsgProposeAddAccount (value : option MsgProposeAddAccount.partial) : result (EncodeObject Msg) :=
  create_msg rootGetters registry "MsgProposeAddAccount" msgProposeAddAccount value.

Definition createMsgApproveRevokeAccount (value : option MsgApproveRevokeAccount.partial) : result (EncodeObject Msg) :=
  create_msg rootGetters registry "MsgApproveRevokeAccount" msgApproveRevokeAccount value.

Definition createMsgProposeRevokeAccount (value : option MsgProposeRevokeAccount.partial) : result (EncodeObject Msg) :=
  create_msg rootGetters registry "MsgProposeRevokeAccount" msgProposeRevokeAccount value.

(** The message types with their actions. *)
Definition tx_actions : list (tx_action Msg) :=
  [mkTxAction "MsgRejectAddAccount" "signer"
     (fun d => mkEncode "/zigbeealliance.distributedcomplianceledger.dclauth.MsgRejectAddAccount"
       (VMsgRejectAddAccount (MsgRejectAddAccount.fromPartial d)))
     msgRejectAddAccount sendMsgRejectAddAccount createMsgRejectAddAccount;
   mkTxAction "MsgApproveAddAccount" "signer"
     (fun d => mkEncode "/zigbeealliance.distributedcomplianceledger.dclauth.MsgApproveAddAccount"
       (VMsgApproveAddAccount (MsgApproveAddAccount.fromPartial d)))
     msgApproveAddAccount sendMsgApproveAddAccount createMsgApproveAddAccount;
   mkTxAction "MsgProposeAddAccount" "signer"
     (fun d => mkEncode "/zigbeealliance.distributedcomplianceledger.dclauth.MsgProposeAddAccount"
       (VMsgProposeAddAccount (MsgProposeAddAccount.fromPartial d)))
     msgProposeAddAccount sendMsgProposeAddAccount createMsgProposeAddAccount;
   mkTxAction "MsgApproveRevokeAccount" "signer"
     (fun d => mkEncode "/zigbeealliance.distributedcomplianceledger.dclauth.MsgApproveRevokeAccount"
       (VMsgApproveRevokeAccount (MsgApproveRevokeAccount.fromPartial d)))
     msgApproveRevokeAccount sendMsgApproveRevokeAccount createMsgApproveRevokeAccount;
   mkTxAction "MsgProposeRevokeAccount" "signer"
     (fun d => mkEncode "/zigbeealliance.distributedcomplianceledger.dclauth.MsgProposeRevokeAccount"
       (VMsgProposeRevokeAccount (MsgProposeRevokeAccount.fromPartial d)))
     msgProposeRevokeAccount sendMsgProposeRevokeAccount createMsgProposeRevokeAccount].

Lemma dclauth_tx_laws {PS : ProtobufSpec PB} :
  Forall (tx_lawful rootGetters types Msg_normal Msg_fits) tx_actions.
Proof. solve_tx_laws. Qed.

End store.
