(* ===== verification/DclupgradeStore.v ===== *)
(** * The client of the dclupgrade module

    The endpoints of dclupgrade/module/rest.js, the transaction client of
    dclupgrade/module/index.js and the store of dclupgrade/index.js: implementations of the
    interfaces of [ApiRoutes.v], [TxClient.v] and [StoreModule.v]. *)
From S2P Require Import Prelude Js Protobuf Codec Fallible CommonTypes DclupgradeTypes JsonText Uri Async RestClient ApiRoutes Pages VuexStore TxClient StoreModule.
Open Scope Z_scope.

(** ** Endpoints *)

Section api.
Context {S : Type}.

Definition queryApprovedUpgradeAll (c : HttpClient) (query : js) (params : RequestParams)
    : proc FetchCall Response S HttpResponse :=
  request c (get_json ("/dcl/dclupgrade/approved-upgrades")
    query params).

Definition queryApprovedUpgrade (c : HttpClient) (name : js) (params : RequestParams)
    : proc FetchCall Response S HttpResponse :=
  request c (get_json ("/dcl/dclupgrade/approved-upgrades/" +:+ js_String name)
    Undefined params).

Definition queryProposedUpgradeAll (c : HttpClient) (query : js) (params : RequestParams)
    : proc FetchCall Response S HttpResponse :=
  request c (get_json ("/dcl/dclupgrade/proposed-upgrades")
    query params).

Definition queryProposedUpgrade (c : HttpClient) (name : js) (params : RequestParams)
    : proc FetchCall Response S HttpResponse :=
  request c (get_json ("/dcl/dclupgrade/proposed-upgrades/" +:+ js_String name)
    Undefined params).

Definition queryRejectedUpgradeAll (c : HttpClient) (query : js) (params : RequestParams)
    : proc FetchCall Response S HttpResponse :=
  request c (get_json ("/dcl/dclupgrade/rejected-upgrades")
    query params).

Definition queryRejectedUpgrade (c : HttpClient) (name : js) (params : RequestParams)
    : proc FetchCall Response S HttpResponse :=
  request c (get_json ("/dcl/dclupgrade/rejected-upgrades/" +:+ js_String name)
    Undefined params).

End api.

(** ** Routes *)

(** A query of the module with the values of its path parameters. *)
Inductive endpoint : Set :=
| ApprovedUpgradeAll
| ApprovedUpgrade (name : string)
| ProposedUpgradeAll
| ProposedUpgrade (name : string)
| RejectedUpgradeAll
| RejectedUpgrade (name : string).

(** The method call of an endpoint; a method that takes a query object is given
    [query]. *)
Definition endpoint_call {S : Type} (c : HttpClient) (e : endpoint) (query : js)
    : proc FetchCall Response S HttpResponse :=
  match e with
  | ApprovedUpgradeAll => queryApprovedUpgradeAll c query no_params
  | ApprovedUpgrade name => queryApprovedUpgrade c (Str name) no_params
  | ProposedUpgradeAll => queryProposedUpgradeAll c query no_params
  | ProposedUpgrade name => queryProposedUpgrade c (Str name) no_params
  | RejectedUpgradeAll => queryRejectedUpgradeAll c query no_params
  | RejectedUpgrade name => queryRejectedUpgrade c (Str name) no_params
  end.

(** Whether the method takes a query object. *)
Definition endpoint_takes_query (e : endpoint) : bool :=
  match e with
  | ApprovedUpgradeAll => true
  | ApprovedUpgrade _ => false
  | ProposedUpgradeAll => true
  | ProposedUpgrade _ => false
  | RejectedUpgradeAll => true
  | RejectedUpgrade _ => false
  end.

(** The segments of its route. *)
Definition endpoint_route (e : endpoint) : list string :=
  "dcl" :: "dclupgrade" ::
  match e with
  | ApprovedUpgradeAll => ["approved-upgrades"]
  | ApprovedUpgrade name => ["approved-upgrades"; name]
  | ProposedUpgradeAll => ["proposed-upgrades"]
  | ProposedUpgrade name => ["proposed-upgrades"; name]
  | RejectedUpgradeAll => ["rejected-upgrades"]
  | RejectedUpgrade name => ["rejected-upgrades"; name]
  end.

#[global] Program Instance routes : Routes endpoint :=
  {| api_call := endpoint_call; route := endpoint_route; takes_query := endpoint_takes_query |}.
Next Obligation. solve_route_path. Qed.
Next Obligation. by destruct e. Qed.

Lemma dclupgrade_route_inj e1 e2 : endpoint_route e1 = endpoint_route e2 → e1 = e2.
Proof. destruct e1, e2; simpl; intros H; simplify_eq; done. Qed.

(** ** Messages *)

(** A message of the module. *)
Inductive Msg : Type :=
| VMsgRejectUpgrade (m : MsgRejectUpgrade.t)
| VMsgApproveUpgrade (m : MsgApproveUpgrade.t)
| VMsgProposeUpgrade (m : MsgProposeUpgrade.t).

Definition msgRejectUpgrade (data : option MsgRejectUpgrade.partial) : result (EncodeObject Msg) :=
  m ← from_partial "creator" MsgRejectUpgrade.fromPartial data;
  Ok (mkEncode "/zigbeealliance.distributedcomplianceledger.dclupgrade.MsgRejectUpgrade" (VMsgRejectUpgrade m)).

Definition msgApproveUpgrade (data : option MsgApproveUpgrade.partial) : result (EncodeObject Msg) :=
  m ← from_partial "creator" MsgApproveUpgrade.fromPartial data;
  Ok (mkEncode "/zigbeealliance.distributedcomplianceledger.dclupgrade.MsgApproveUpgrade" (VMsgApproveUpgrade m)).

Definition msgProposeUpgrade (data : option MsgProposeUpgrade.partial) : result (EncodeObject Msg) :=
  m ← from_partial "creator" MsgProposeUpgrade.fromPartial data;
  Ok (mkEncode "/zigbeealliance.distributedcomplianceledger.dclupgrade.MsgProposeUpgrade" (VMsgProposeUpgrade m)).

(** ** The type table *)

Section types.
Context {PB : Protobuf}.

Definition MsgRejectUpgrade_type : GeneratedType Msg := {|
  type_encode v := match v with VMsgRejectUpgrade m => Some (Ok (finish (MsgRejectUpgrade.encode m create))) | _ => None end;
  type_decode b := VMsgRejectUpgrade <$> decode_bytes MsgRejectUpgrade.decode b;
|}.

Definition MsgApproveUpgrade_type : GeneratedType Msg := {|
  type_encode v := match v with VMsgApproveUpgrade m => Some (Ok (finish (MsgApproveUpgrade.encode m create))) | _ => None end;
  type_decode b := VMsgApproveUpgrade <$> decode_bytes MsgApproveUpgrade.decode b;
|}.

Definition MsgProposeUpgrade_type : GeneratedType Msg := {|
  type_encode v := match v with VMsgProposeUpgrade m => Some (finish <$> MsgProposeUpgrade.encode m create) | _ => None end;
  type_decode b := VMsgProposeUpgrade <$> decode_bytes MsgProposeUpgrade.decode b;
|}.

Definition types : list (string * GeneratedType Msg) :=
  [("/zigbeealliance.distributedcomplianceledger.dclupgrade.MsgRejectUpgrade", MsgRejectUpgrade_type);
   ("/zigbeealliance.distributedcomplianceledger.dclupgrade.MsgApproveUpgrade", MsgApproveUpgrade_type);
   ("/zigbeealliance.distributedcomplianceledger.dclupgrade.MsgProposeUpgrade", MsgProposeUpgrade_type)].

End types.

(** The message as it is read back from its encoding. *)
Definition Msg_normal (v : Msg) : Msg :=
  match v with
  | VMsgProposeUpgrade m => VMsgProposeUpgrade (MsgProposeUpgrade.normal m)
  | v => v
  end.

(** [v] is a message whose numbers fit and whose encoding is small enough. *)
Definition Msg_fits {PB : Protobuf} {PS : ProtobufSpec PB} (v : Msg) : Prop :=
  match v with
  | VMsgRejectUpgrade m => MsgRejectUpgrade.valid m ∧ small (MsgRejectUpgrade.wire m)
  | VMsgApproveUpgrade m => MsgApproveUpgrade.valid m ∧ small (MsgApproveUpgrade.wire m)
  | VMsgProposeUpgrade m => MsgProposeUpgrade.valid m ∧ small (MsgProposeUpgrade.wire m)
  end.

(** ** Initial state *)

(** The properties of [T.fromPartial({})] in their order. *)
Definition templates : list (string * list (string * js)) :=
  [("ApprovedUpgrade",
     [("creator", Str ""); ("approvals", Arr []); ("rejects", Arr []); ("plan", Undefined)]);
   ("Grant",
     [("address", Str ""); ("time", Num 0); ("info", Str "")]);
   ("ProposedUpgrade",
     [("creator", Str ""); ("approvals", Arr []); ("rejects", Arr []); ("plan", Undefined)]);
   ("RejectedUpgrade",
     [("creator", Str ""); ("approvals", Arr []); ("rejects", Arr []); ("plan", Undefined)])].

Definition cache_names : list string :=
  ["ProposedUpgrade"; "ProposedUpgradeAll"; "ApprovedUpgrade"; "ApprovedUpgradeAll";
   "RejectedUpgrade"; "RejectedUpgradeAll"].

Definition getDefaultState {PB : Protobuf} : state := {|
  caches := empty_caches cache_names;
  Structure := map (fun t => (t.1, getStructure t.2)) templates;
  Registry := types.*1;
  Subscriptions := [];
|}.

(** ** Getters *)

Definition getProposedUpgrade (s : state) (params : option (list (string * js))) : js :=
  get_cached "ProposedUpgrade" s params.

Definition getProposedUpgradeAll (s : state) (params : option (list (string * js))) : js :=
  get_cached "ProposedUpgradeAll" s params.

Definition getApprovedUpgrade (s : state) (params : option (list (string * js))) : js :=
  get_cached "ApprovedUpgrade" s params.

Definition getApprovedUpgradeAll (s : state) (params : option (list (string * js))) : js :=
  get_cached "ApprovedUpgradeAll" s params.

Definition getRejectedUpgrade (s : state) (params : option (list (string * js))) : js :=
  get_cached "RejectedUpgrade" s params.

Definition getRejectedUpgradeAll (s : state) (params : option (list (string * js))) : js :=
  get_cached "RejectedUpgradeAll" s params.

Section store.
Context {SV : SpVuex} {CJ : Cosmjs} {PB : Protobuf}.
Context (rootGetters : root_getters).
Abbreviation task := (proc FetchCall Response state).

(** ** Queries *)

(** The number of further pages a list query may ask for. *)
Variable max_pages : nat.

Definition fetch_ProposedUpgrade (a : query_args) (key : js) : task js :=
  name ← of_result (get key "name");
  r ← queryProposedUpgrade (initQueryClient rootGetters) name no_params;
  Ret r.(data).

Definition QueryProposedUpgrade (payload : js) : task js :=
  query_action "ProposedUpgrade" fetch_ProposedUpgrade payload.

Definition all_ProposedUpgradeAll (query : js) : task HttpResponse :=
  queryProposedUpgradeAll (initQueryClient rootGetters) query no_params.

Definition fetch_ProposedUpgradeAll (a : query_args) (key : js) : task js :=
  fetch_all max_pages all_ProposedUpgradeAll a key.

Definition QueryProposedUpgradeAll (payload : js) : task js :=
  query_action "ProposedUpgradeAll" fetch_ProposedUpgradeAll payload.

Definition fetch_ApprovedUpgrade (a : query_args) (key : js) : task js :=
  name ← of_result (get key "name");
  r ← queryApprovedUpgrade (initQueryClient rootGetters) name no_params;
  Ret r.(data).

Definition QueryApprovedUpgrade (payload : js) : task js :=
  query_action "ApprovedUpgrade" fetch_ApprovedUpgrade payload.

Definition all_ApprovedUpgradeAll (query : js) : task HttpResponse :=
  queryApprovedUpgradeAll (initQueryClient rootGetters) query no_params.

Definition fetch_ApprovedUpgradeAll (a : query_args) (key : js) : task js :=
  fetch_all max_pages all_ApprovedUpgradeAll a key.

Definition QueryApprovedUpgradeAll (payload : js) : task js :=
  query_action "ApprovedUpgradeAll" fetch_ApprovedUpgradeAll payload.

Definition fetch_RejectedUpgrade (a : query_args) (key : js) : task js :=
  name ← of_result (get key "name");
  r ← queryRejectedUpgrade (initQueryClient rootGetters) name no_params;
  Ret r.(data).

Definition QueryRejectedUpgrade (payload : js) : task js :=
  query_action "RejectedUpgrade" fetch_RejectedUpgrade payload.

Definition all_RejectedUpgradeAll (query : js) : task HttpResponse :=
  queryRejectedUpgradeAll (initQueryClient rootGetters) query no_params.

Definition fetch_RejectedUpgradeAll (a : query_args) (key : js) : task js :=
  fetch_all max_pages all_RejectedUpgradeAll a key.

Definition QueryRejectedUpgradeAll (payload : js) : task js :=
  query_action "RejectedUpgradeAll" fetch_RejectedUpgradeAll payload.

(** The fetch of each query, by the name of its cache. *)
Definition fetchers : list (string * (query_args → js → task js)) :=
  [("ProposedUpgrade", fetch_ProposedUpgrade);
   ("ProposedUpgradeAll", fetch_ProposedUpgradeAll);
   ("ApprovedUpgrade", fetch_ApprovedUpgrade);
   ("ApprovedUpgradeAll", fetch_ApprovedUpgradeAll);
   ("RejectedUpgrade", fetch_RejectedUpgrade);
   ("RejectedUpgradeAll", fetch_RejectedUpgradeAll)].

(** The query actions by name, as [dispatch] finds them. *)
Definition query_actions : list (string * (js → task js)) :=
  [("QueryProposedUpgrade", QueryProposedUpgrade);
   ("QueryProposedUpgradeAll", QueryProposedUpgradeAll);
   ("QueryApprovedUpgrade", QueryApprovedUpgrade);
   ("QueryApprovedUpgradeAll", QueryApprovedUpgradeAll);
   ("QueryRejectedUpgrade", QueryRejectedUpgrade);
   ("QueryRejectedUpgradeAll", QueryRejectedUpgradeAll)].

(** The list queries, with the method each one calls. *)
Definition list_queries : list (string * (js → task HttpResponse)) :=
  [("ProposedUpgradeAll", all_ProposedUpgradeAll);
   ("ApprovedUpgradeAll", all_ApprovedUpgradeAll);
   ("RejectedUpgradeAll", all_RejectedUpgradeAll)].

(** The store of the module, see [StoreModule.v]. *)
Definition store : StoreModule :=
  mkModule cache_names fetchers query_actions list_queries max_pages getDefaultState.

#[global] Instance store_laws : StoreLaws store.
Proof. solve_store_laws. Qed.

(** ** Transactions *)

(** [new Registry(types)] *)
Definition registry : TypeRegistry Msg := newRegistry types.

Definition sendMsgRejectUpgrade (args : send_args MsgRejectUpgrade.partial) : result js :=
  send_msg rootGetters registry "MsgRejectUpgrade" msgRejectUpgrade args.

Definition sendMsgApproveUpgrade (args : send_args MsgApproveUpgrade.partial) : result js :=
  send_msg rootGetters registry "MsgApproveUpgrade" msgApproveUpgrade args.

Definition sendMsgProposeUpgrade (args : send_args MsgProposeUpgrade.partial) : result js :=
  send_msg rootGetters registry "MsgProposeUpgrade" msgProposeUpgrade args.

Definition createMsgRejectUpgrade (value : option MsgRejectUpgrade.partial) : result (EncodeObject Msg) :=
  create_msg rootGetters registry "MsgRejectUpgrade" msgRejectUpgrade value.

Definition createMsgApproveUpgrade (value : option MsgApproveUpgrade.partial) : result (EncodeObject Msg) :=
  create_msg rootGetters registry "MsgApproveUpgrade" msgApproveUpgrade value.

Definition createMsgProposeUpgrade (value : option MsgProposeUpgrade.partial) : result (EncodeObject Msg) :=
  create_msg rootGetters registry "MsgProposeUpgrade" msgProposeUpgrade value.

(** The message types with their actions. *)
Definition tx_actions : list (tx_action Msg) :=
  [mkTxAction "MsgRejectUpgrade" "creator"
     (fun d => mkEncode "/zigbeealliance.distributedcomplianceledger.dclupgrade.MsgRejectUpgrade"
       (VMsgRejectUpgrade (MsgRejectUpgrade.fromPartial d)))
     msgRejectUpgrade sendMsgRejectUpgrade createMsgRejectUpgrade;
   mkTxAction "MsgApproveUpgrade" "creator"
     (fun d => mkEncode "/zigbeealliance.distributedcomplianceledger.dclupgrade.MsgApproveUpgrade"
       (VMsgApproveUpgrade (MsgApproveUpgrade.fromPartial d)))
     msgApproveUpgrade sendMsgApproveUpgrade createMsgApproveUpgrade;
   mkTxAction "MsgProposeUpgrade" "creator"
     (fun d => mkEncode "/zigbeealliance.distributedcomplianceledger.dclupgrade.MsgProposeUpgrade"
       (VMsgProposeUpgrade (MsgProposeUpgrade.fromPartial d)))
     msgProposeUpgrade sendMsgProposeUpgrade createMsgProposeUpgrade].

Lemma dclupgrade_tx_laws {PS : ProtobufSpec PB} :
  Forall (tx_lawful rootGetters types Msg_normal Msg_fits) tx_actions.
Proof. solve_tx_laws. Qed.

End store.
