(* ===== verification/AuthzStore.v ===== *)
(** * The client of the authz module

    The endpoints of module/rest.js, the transaction client of module/index.js
    and the store of index.js of cosmos.authz.v1beta1, over [CosmosStore.v]. *)
From S2P Require Import Prelude Js Protobuf Codec Fallible MessageTable CommonTypes AuthzTypes JsonText Uri Async RestClient ApiRoutes Pages VuexStore TxClient CosmosStore.
Open Scope Z_scope.

(** ** Endpoints *)

Section api.
Context {S : Type}.

Definition queryGrants (c : HttpClient) (query : js) (params : RequestParams)
    : proc FetchCall Response S HttpResponse :=
  request c (get_json ("/cosmos/authz/v1beta1/grants")
    query params).

End api.

(** ** Routes *)

(** A query of the module with the values of its path parameters. *)
Inductive endpoint : Set :=
| Grants.

(** The method call of an endpoint; a method that takes a query object is given
    [query]. *)
Definition endpoint_call {S : Type} (c : HttpClient) (e : endpoint) (query : js)
    : proc FetchCall Response S HttpResponse :=
  match e with
  | Grants => queryGrants c query no_params
  end.

(** Whether the method takes a query object. *)
Definition endpoint_takes_query (e : endpoint) : bool :=
  match e with
  | Grants => true
  end.

(** The segments of its route. *)
Definition endpoint_route (e : endpoint) : list string :=
  "cosmos" :: "authz" :: "v1beta1" ::
  match e with
  | Grants => ["grants"]
  end.

#[global] Program Instance routes : Routes endpoint :=
  {| api_call := endpoint_call; route := endpoint_route; takes_query := endpoint_takes_query |}.
Next Obligation. solve_route_path. Qed.
Next Obligation. by destruct e. Qed.

Lemma authz_route_inj e1 e2 : endpoint_route e1 = endpoint_route e2 → e1 = e2.
Proof. destruct e1, e2; simpl; intros H; simplify_eq; done. Qed.

(** ** Messages *)

(** The data of a message of the module, or [undefined]. *)
Inductive Msg : Type :=
| VMsgGrant (data : option MsgGrant.partial)
| VMsgExec (data : option MsgExec.partial)
| VMsgRevoke (data : option MsgRevoke.partial).

Definition msgGrant (data : option MsgGrant.partial) : EncodeObject Msg :=
  mkEncode "/cosmos.authz.v1beta1.MsgGrant" (VMsgGrant data).

Definition msgExec (data : option MsgExec.partial) : EncodeObject Msg :=
  mkEncode "/cosmos.authz.v1beta1.MsgExec" (VMsgExec data).

Definition msgRevoke (data : option MsgRevoke.partial) : EncodeObject Msg :=
  mkEncode "/cosmos.authz.v1beta1.MsgRevoke" (VMsgRevoke data).

(** The type table of the registry. *)
Definition types {PB : Protobuf} {PS : ProtobufSpec PB} : list (string * message_type) :=
  [("/cosmos.authz.v1beta1.MsgGrant", MsgGrant.message);
   ("/cosmos.authz.v1beta1.MsgExec", MsgExec.message);
   ("/cosmos.authz.v1beta1.MsgRevoke", MsgRevoke.message)].

(** The same table, as the registry encodes the messages with it. *)
Definition registered_types {PB : Protobuf} {PS : ProtobufSpec PB} : list (string * GeneratedType Msg) :=
  [("/cosmos.authz.v1beta1.MsgGrant",
    Cosmos.row_type MsgGrant.message VMsgGrant (fun m => match m with VMsgGrant d => Some d | _ => None end));
   ("/cosmos.authz.v1beta1.MsgExec",
    Cosmos.row_type MsgExec.message VMsgExec (fun m => match m with VMsgExec d => Some d | _ => None end));
   ("/cosmos.authz.v1beta1.MsgRevoke",
    Cosmos.row_type MsgRevoke.message VMsgRevoke (fun m => match m with VMsgRevoke d => Some d | _ => None end))].

(** ** Initial state *)

(** The properties of [T.fromPartial({})] in their order; an empty byte array is
    an object like an empty list. *)
Definition templates : list (string * list (string * js)) :=
  [("GenericAuthorization",
     [("msg", Str "")]);
   ("Grant",
     [("authorization", Undefined); ("expiration", Undefined)]);
   ("EventGrant",
     [("msgTypeUrl", Str ""); ("granter", Str ""); ("grantee", Str "")]);
   ("EventRevoke",
     [("msgTypeUrl", Str ""); ("granter", Str ""); ("grantee", Str "")]);
   ("GrantAuthorization",
     [("granter", Str ""); ("grantee", Str ""); ("authorization", Undefined);
      ("expiration", Undefined)])].

Definition cache_names : list string := ["Grants"].

Definition getDefaultState : Cosmos.state := {|
  Cosmos.caches := empty_caches cache_names;
  Cosmos.Structure := map (fun t => (t.1, getStructure t.2)) templates;
  Cosmos.Subscriptions := [];
  Cosmos.objects := O;
|}.

(** ** Getters *)

Definition getGrants (s : Cosmos.state) (params : option (list (string * js))) : js :=
  Cosmos.get_cached "Grants" s params.

Section store.
Context {SV : SpVuex} {CJ : Cosmjs}.
Context (rootGetters : root_getters).
Abbreviation task := (proc FetchCall Response Cosmos.state).

(** ** Queries *)

(** The number of further pages a list query may ask for. *)
Variable max_pages : nat.

Definition all_Grants (key query : js) : task HttpResponse :=
  queryGrants (initQueryClient rootGetters) query no_params.

Definition fetch_Grants (a : query_args) (key : js) : task js :=
  Cosmos.fetch_all max_pages all_Grants a key.

Definition QueryGrants (payload : js) : task js :=
  Cosmos.query_action "Grants" fetch_Grants payload.

(** The fetch of each query, by the name of its cache. *)
Definition fetchers : list (string * (query_args → js → task js)) :=
  [("Grants", fetch_Grants)].

(** The query actions by name, as [dispatch] finds them. *)
Definition query_actions : list (string * (js → task js)) :=
  [("QueryGrants", QueryGrants)].

(** The list queries, with the method each one calls. *)
Definition list_queries : list (string * (js → js → task HttpResponse)) :=
  [("Grants", all_Grants)].

(** The store of the module, see [CosmosStore.v]. *)
Definition store : Cosmos.StoreModule :=
  Cosmos.mkModule cache_names fetchers query_actions list_queries max_pages getDefaultState.

#[global] Instance store_laws : Cosmos.StoreLaws store.
Proof. solve_cosmos_laws. Qed.

(** ** Transactions *)

(** [new Registry(types)] *)
Definition registry {PB : Protobuf} {PS : ProtobufSpec PB} : TypeRegistry Msg :=
  newRegistry registered_types.

Definition sendMsgGrant {PB : Protobuf} {PS : ProtobufSpec PB}
    (args : send_args MsgGrant.partial) : result js :=
  Cosmos.send_msg rootGetters registry "MsgGrant" msgGrant args.

Definition sendMsgExec {PB : Protobuf} {PS : ProtobufSpec PB}
    (args : send_args MsgExec.partial) : result js :=
  Cosmos.send_msg rootGetters registry "MsgExec" msgExec args.

Definition sendMsgRevoke {PB : Protobuf} {PS : ProtobufSpec PB}
    (args : send_args MsgRevoke.partial) : result js :=
  Cosmos.send_msg rootGetters registry "MsgRevoke" msgRevoke args.

Definition createMsgGrant {PB : Protobuf} {PS : ProtobufSpec PB}
    (value : option MsgGrant.partial) : result (EncodeObject Msg) :=
  Cosmos.create_msg rootGetters registry "MsgGrant" msgGrant value.

Definition createMsgExec {PB : Protobuf} {PS : ProtobufSpec PB}
    (value : option MsgExec.partial) : result (EncodeObject Msg) :=
  Cosmos.create_msg rootGetters registry "MsgExec" msgExec value.

Definition createMsgRevoke {PB : Protobuf} {PS : ProtobufSpec PB}
    (value : option MsgRevoke.partial) : result (EncodeObject Msg) :=
  Cosmos.create_msg rootGetters registry "MsgRevoke" msgRevoke value.

(** The message types with their actions. *)
Definition tx_actions {PB : Protobuf} {PS : ProtobufSpec PB} : list (Cosmos.tx_action Msg) :=
  [Cosmos.mkTxAction Msg "MsgGrant" MsgGrant.message msgGrant sendMsgGrant createMsgGrant;
   Cosmos.mkTxAction Msg "MsgExec" MsgExec.message msgExec sendMsgExec createMsgExec;
   Cosmos.mkTxAction Msg "MsgRevoke" MsgRevoke.message msgRevoke sendMsgRevoke createMsgRevoke].

Lemma authz_tx_laws {PB : Protobuf} {PS : ProtobufSpec PB} :
  Forall (Cosmos.tx_lawful rootGetters types registered_types) tx_actions.
Proof. solve_cosmos_tx_laws. Qed.

End store.
