(* ===== verification/BankStore.v ===== *)
(** * The client of the bank module

    The endpoints of module/rest.js, the transaction client of module/index.js
    and the store of index.js of cosmos.bank.v1beta1, over [CosmosStore.v]. *)
From S2P Require Import Prelude Js Protobuf Codec Fallible MessageTable CosmosBase BankTypes JsonText Uri Async RestClient ApiRoutes Pages VuexStore TxClient CosmosStore.
Open Scope Z_scope.

(** ** Endpoints *)

Section api.
Context {S : Type}.

Definition queryAllBalances (c : HttpClient) (address : js) (query : js) (params : RequestParams)
    : proc FetchCall Response S HttpResponse :=
  request c (get_json ("/cosmos/bank/v1beta1/balances/" +:+ js_String address)
    query params).

Definition queryBalance (c : HttpClient) (address denom : js) (params : RequestParams)
    : proc FetchCall Response S HttpResponse :=
  request c (get_json ("/cosmos/bank/v1beta1/balances/" +:+ js_String address +:+
      "/" +:+ js_String denom)
    Undefined params).

Definition queryDenomsMetadata (c : HttpClient) (query : js) (params : RequestParams)
    : proc FetchCall Response S HttpResponse :=
  request c (get_json ("/cosmos/bank/v1beta1/denoms_metadata")
    query params).

Definition queryDenomMetadata (c : HttpClient) (denom : js) (params : RequestParams)
    : proc FetchCall Response S HttpResponse :=
  request c (get_json ("/cosmos/bank/v1beta1/denoms_metadata/" +:+ js_String denom)
    Undefined params).

Definition queryParams (c : HttpClient) (params : RequestParams)
    : proc FetchCall Response S HttpResponse :=
  request c (get_json ("/cosmos/bank/v1beta1/params")
    Undefined params).

Definition queryTotalSupply (c : HttpClient) (query : js) (params : RequestParams)
    : proc FetchCall Response S HttpResponse :=
  request c (get_json ("/cosmos/bank/v1beta1/supply")
    query params).

Definition querySupplyOf (c : HttpClient) (denom : js) (params : RequestParams)
    : proc FetchCall Response S HttpResponse :=
  request c (get_json ("/cosmos/bank/v1beta1/supply/" +:+ js_String denom)
    Undefined params).

End api.

(** ** Routes *)

(** A query of the module with the values of its path parameters. *)
Inductive endpoint : Set :=
| AllBalances (address : string)
| Balance (address denom : string)
| DenomsMetadata
| DenomMetadata (denom : string)
| Params
| TotalSupply
| SupplyOf (denom : string).

(** The method call of an endpoint; a method that takes a query object is given
    [query]. *)
Definition endpoint_call {S : Type} (c : HttpClient) (e : endpoint) (query : js)
    : proc FetchCall Response S HttpResponse :=
  match e with
  | AllBalances address => queryAllBalances c (Str address) query no_params
  | Balance address denom => queryBalance c (Str address) (Str denom) no_params
  | DenomsMetadata => queryDenomsMetadata c query no_params
  | DenomMetadata denom => queryDenomMetadata c (Str denom) no_params
  | Params => queryParams c no_params
  | TotalSupply => queryTotalSupply c query no_params
  | SupplyOf denom => querySupplyOf c (Str denom) no_params
  end.

(** Whether the method takes a query object. *)
Definition endpoint_takes_query (e : endpoint) : bool :=
  match e with
  | AllBalances _ => true
  | Balance _ _ => false
  | DenomsMetadata => true
  | DenomMetadata _ => false
  | Params => false
  | TotalSupply => true
  | SupplyOf _ => false
  end.

(** The segments of its route. *)
Definition endpoint_route (e : endpoint) : list string :=
  "cosmos" :: "bank" :: "v1beta1" ::
  match e with
  | AllBalances address => ["balances"; address]
  | Balance address denom => ["balances"; address; denom]
  | DenomsMetadata => ["denoms_metadata"]
  | DenomMetadata denom => ["denoms_metadata"; denom]
  | Params => ["params"]
  | TotalSupply => ["supply"]
  | SupplyOf denom => ["supply"; denom]
  end.

#[global] Program Instance routes : Routes endpoint :=
  {| api_call := endpoint_call; route := endpoint_route; takes_query := endpoint_takes_query |}.
Next Obligation. solve_route_path. Qed.
Next Obligation. by destruct e. Qed.

Lemma bank_route_inj e1 e2 : endpoint_route e1 = endpoint_route e2 → e1 = e2.
Proof. destruct e1, e2; simpl; intros H; simplify_eq; done. Qed.

(** ** Messages *)

(** The data of a message of the module, or [undefined]. *)
Inductive Msg : Type :=
| VMsgMultiSend (data : option MsgMultiSend.partial)
| VMsgSend (data : option MsgSend.partial).

Definition msgMultiSend (data : option MsgMultiSend.partial) : EncodeObject Msg :=
  mkEncode "/cosmos.bank.v1beta1.MsgMultiSend" (VMsgMultiSend data).

Definition msgSend (data : option MsgSend.partial) : EncodeObject Msg :=
  mkEncode "/cosmos.bank.v1beta1.MsgSend" (VMsgSend data).

(** The type table of the registry. *)
Definition types {PB : Protobuf} {PS : ProtobufSpec PB} : list (string * message_type) :=
  [("/cosmos.bank.v1beta1.MsgMultiSend", MsgMultiSend.message);
   ("/cosmos.bank.v1beta1.MsgSend", MsgSend.message)].

(** The same table, as the registry encodes the messages with it. *)
Definition registered_types {PB : Protobuf} {PS : ProtobufSpec PB} : list (string * GeneratedType Msg) :=
  [("/cosmos.bank.v1beta1.MsgMultiSend",
    Cosmos.row_type MsgMultiSend.message VMsgMultiSend (fun m => match m with VMsgMultiSend d => Some d | _ => None end));
   ("/cosmos.bank.v1beta1.MsgSend",
    Cosmos.row_type MsgSend.message VMsgSend (fun m => match m with VMsgSend d => Some d | _ => None end))].

(** ** Initial state *)

(** The properties of [T.fromPartial({})] in their order; an empty byte array is
    an object like an empty list. *)
Definition templates : list (string * list (string * js)) :=
  [("SendAuthorization",
     [("spendLimit", Arr [])]);
   ("Params",
     [("defaultSendEnabled", Bool false); ("sendEnabled", Arr [])]);
   ("SendEnabled",
     [("denom", Str ""); ("enabled", Bool false)]);
   ("Input",
     [("address", Str ""); ("coins", Arr [])]);
   ("Output",
     [("address", Str ""); ("coins", Arr [])]);
   ("Supply",
     [("total", Arr [])]);
   ("DenomUnit",
     [("denom", Str ""); ("exponent", Num 0); ("aliases", Arr [])]);
   ("Metadata",
     [("description", Str ""); ("base", Str ""); ("display", Str ""); ("name", Str "");
      ("symbol", Str ""); ("denomUnits", Arr [])]);
   ("Balance",
     [("address", Str ""); ("coins", Arr [])])].

Definition cache_names : list string := ["Balance"; "AllBalances"; "TotalSupply"; "SupplyOf"; "Params"; "DenomMetadata";
   "DenomsMetadata"].

Definition getDefaultState : Cosmos.state := {|
  Cosmos.caches := empty_caches cache_names;
  Cosmos.Structure := map (fun t => (t.1, getStructure t.2)) templates;
  Cosmos.Subscriptions := [];
  Cosmos.objects := O;
|}.

(** ** Getters *)

Definition getBalance (s : Cosmos.state) (params : option (list (string * js))) : js :=
  Cosmos.get_cached "Balance" s params.

Definition getAllBalances (s : Cosmos.state) (params : option (list (string * js))) : js :=
  Cosmos.get_cached "AllBalances" s params.

Definition getTotalSupply (s : Cosmos.state) (params : option (list (string * js))) : js :=
  Cosmos.get_cached "TotalSupply" s params.

Definition getSupplyOf (s : Cosmos.state) (params : option (list (string * js))) : js :=
  Cosmos.get_cached "SupplyOf" s params.

Definition getParams (s : Cosmos.state) (params : option (list (string * js))) : js :=
  Cosmos.get_cached "Params" s params.

Definition getDenomMetadata (s : Cosmos.state) (params : option (list (string * js))) : js :=
  Cosmos.get_cached "DenomMetadata" s params.

Definition getDenomsMetadata (s : Cosmos.state) (params : option (list (string * js))) : js :=
  Cosmos.get_cached "DenomsMetadata" s params.

Section store.
Context {SV : SpVuex} {CJ : Cosmjs}.
Context (rootGetters : root_getters).
Abbreviation task := (proc FetchCall Response Cosmos.state).

(** ** Queries *)

(** The number of further pages a list query may ask for. *)
Variable max_pages : nat.

Definition fetch_Balance (a : query_args) (key : js) : task js :=
  address ← of_result (get key "address");
  denom ← of_result (get key "denom");
  r ← queryBalance (initQueryClient rootGetters) address denom no_params;
  Ret r.(data).

Definition QueryBalance (payload : js) : task js :=
  Cosmos.query_action "Balance" fetch_Balance payload.

Definition all_AllBalances (key query : js) : task HttpResponse :=
  address ← of_result (get key "address");
  queryAllBalances (initQueryClient rootGetters) address query no_params.

Definition fetch_AllBalances (a : query_args) (key : js) : task js :=
  Cosmos.fetch_all max_pages all_AllBalances a key.

Definition QueryAllBalances (payload : js) : task js :=
  Cosmos.query_action "AllBalances" fetch_AllBalances payload.

Definition all_TotalSupply (key query : js) : task HttpResponse :=
  queryTotalSupply (initQueryClient rootGetters) query no_params.

Definition fetch_TotalSupply (a : query_args) (key : js) : task js :=
  Cosmos.fetch_all max_pages all_TotalSupply a key.

Definition QueryTotalSupply (payload : js) : task js :=
  Cosmos.query_action "TotalSupply" fetch_TotalSupply payload.

Definition fetch_SupplyOf (a : query_args) (key : js) : task js :=
  denom ← of_result (get key "denom");
  r ← querySupplyOf (initQueryClient rootGetters) denom no_params;
  Ret r.(data).

Definition QuerySupplyOf (payload : js) : task js :=
  Cosmos.query_action "SupplyOf" fetch_SupplyOf payload.

Definition fetch_Params (a : query_args) (key : js) : task js :=
  r ← queryParams (initQueryClient rootGetters) no_params;
  Ret r.(data).

Definition QueryParams (payload : js) : task js :=
  Cosmos.query_action "Params" fetch_Params payload.

Definition fetch_DenomMetadata (a : query_args) (key : js) : task js :=
  denom ← of_result (get key "denom");
  r ← queryDenomMetadata (initQueryClient rootGetters) denom no_params;
  Ret r.(data).

Definition QueryDenomMetadata (payload : js) : task js :=
  Cosmos.query_action "DenomMetadata" fetch_DenomMetadata payload.

Definition all_DenomsMetadata (key query : js) : task HttpResponse :=
  queryDenomsMetadata (initQueryClient rootGetters) query no_params.

Definition fetch_DenomsMetadata (a : query_args) (key : js) : task js :=
  Cosmos.fetch_all max_pages all_DenomsMetadata a key.

Definition QueryDenomsMetadata (payload : js) : task js :=
  Cosmos.query_action "DenomsMetadata" fetch_DenomsMetadata payload.

(** The fetch of each query, by the name of its cache. *)
Definition fetchers : list (string * (query_args → js → task js)) :=
  [("Balance", fetch_Balance);
   ("AllBalances", fetch_AllBalances);
   ("TotalSupply", fetch_TotalSupply);
   ("SupplyOf", fetch_SupplyOf);
   ("Params", fetch_Params);
   ("DenomMetadata", fetch_DenomMetadata);
   ("DenomsMetadata", fetch_DenomsMetadata)].

(** The query actions by name, as [dispatch] finds them. *)
Definition query_actions : list (string * (js → task js)) :=
  [("QueryBalance", QueryBalance);
   ("QueryAllBalances", QueryAllBalances);
   ("QueryTotalSupply", QueryTotalSupply);
   ("QuerySupplyOf", QuerySupplyOf);
   ("QueryParams", QueryParams);
   ("QueryDenomMetadata", QueryDenomMetadata);
   ("QueryDenomsMetadata", QueryDenomsMetadata)].

(** The list queries, with the method each one calls. *)
Definition list_queries : list (string * (js → js → task HttpResponse)) :=
  [("AllBalances", all_AllBalances);
   ("TotalSupply", all_TotalSupply);
   ("DenomsMetadata", all_DenomsMetadata)].

(** The store of the module, see [CosmosStore.v]. *)
Definition store : Cosmos.StoreModule :=
  Cosmos.mkModule cache_names fetchers query_actions list_queries max_pages getDefaultState.

#[global] Instance store_laws : Cosmos.StoreLaws store.
Proof. solve_cosmos_laws. Qed.

(** ** Transactions *)

(** [new Registry(types)] *)
Definition registry {PB : Protobuf} {PS : ProtobufSpec PB} : TypeRegistry Msg :=
  newRegistry registered_types.

Definition sendMsgMultiSend {PB : Protobuf} {PS : ProtobufSpec PB}
    (args : send_args MsgMultiSend.partial) : result js :=
  Cosmos.send_msg rootGetters registry "MsgMultiSend" msgMultiSend args.

Definition sendMsgSend {PB : Protobuf} {PS : ProtobufSpec PB}
    (args : send_args MsgSend.partial) : result js :=
  Cosmos.send_msg rootGetters registry "MsgSend" msgSend args.

Definition createMsgMultiSend {PB : Protobuf} {PS : ProtobufSpec PB}
    (value : option MsgMultiSend.partial) : result (EncodeObject Msg) :=
  Cosmos.create_msg rootGetters registry "MsgMultiSend" msgMultiSend value.

Definition createMsgSend {PB : Protobuf} {PS : ProtobufSpec PB}
    (value : option MsgSend.partial) : result (EncodeObject Msg) :=
  Cosmos.create_msg rootGetters registry "MsgSend" msgSend value.

(** The message types with their actions. *)
Definition tx_actions {PB : Protobuf} {PS : ProtobufSpec PB} : list (Cosmos.tx_action Msg) :=
  [Cosmos.mkTxAction Msg "MsgMultiSend" MsgMultiSend.message msgMultiSend sendMsgMultiSend createMsgMultiSend;
   Cosmos.mkTxAction Msg "MsgSend" MsgSend.message msgSend sendMsgSend createMsgSend].

Lemma bank_tx_laws {PB : Protobuf} {PS : ProtobufSpec PB} :
  Forall (Cosmos.tx_lawful rootGetters types registered_types) tx_actions.
Proof. solve_cosmos_tx_laws. Qed.

End store.
