(* ===== verification/CrisisStore.v ===== *)
(** * The client of the crisis module

    The endpoints of module/rest.js, the transaction client of module/index.js
    and the store of index.js of cosmos.crisis.v1beta1, over [CosmosStore.v]. *)
From S2P Require Import Prelude Js Protobuf Codec Fallible MessageTable CosmosBase CrisisTypes JsonText Uri Async RestClient ApiRoutes Pages VuexStore TxClient CosmosStore.
Open Scope Z_scope.

(** The module has no queries. *)

(** ** Messages *)

(** The data of a message of the module, or [undefined]. *)
Inductive Msg : Type :=
| VMsgVerifyInvariant (data : option MsgVerifyInvariant.partial).

Definition msgVerifyInvariant (data : option MsgVerifyInvariant.partial) : EncodeObject Msg :=
  mkEncode "/cosmos.crisis.v1beta1.MsgVerifyInvariant" (VMsgVerifyInvariant data).

(** The type table of the registry. *)
Definition types {PB : Protobuf} {PS : ProtobufSpec PB} : list (string * message_type) :=
  [("/cosmos.crisis.v1beta1.MsgVerifyInvariant", MsgVerifyInvariant.message)].

(** The same table, as the registry encodes the messages with it. *)
Definition registered_types {PB : Protobuf} {PS : ProtobufSpec PB} : list (string * GeneratedType Msg) :=
  [("/cosmos.crisis.v1beta1.MsgVerifyInvariant",
    Cosmos.row_type MsgVerifyInvariant.message VMsgVerifyInvariant (fun m => match m with VMsgVerifyInvariant d => Some d end))].

(** ** Initial state *)

(** The properties of [T.fromPartial({})] in their order; an empty byte array is
    an object like an empty list. *)
Definition templates : list (string * list (string * js)) :=
  [].

Definition cache_names : list string := [].

Definition getDefaultState : Cosmos.state := {|
  Cosmos.caches := empty_caches cache_names;
  Cosmos.Structure := map (fun t => (t.1, getStructure t.2)) templates;
  Cosmos.Subscriptions := [];
  Cosmos.objects := O;
|}.

Section store.
Context {SV : SpVuex} {CJ : Cosmjs}.
Context (rootGetters : root_getters).
Abbreviation task := (proc FetchCall Response Cosmos.state).

(** ** Queries *)

(** The number of further pages a list query may ask for. *)
Variable max_pages : nat.

(** The fetch of each query, by the name of its cache. *)
Definition fetchers : list (string * (query_args → js → task js)) :=
  [].

(** The query actions by name, as [dispatch] finds them. *)
Definition query_actions : list (string * (js → task js)) :=
  [].

(** The list queries, with the method each one calls. *)
Definition list_queries : list (string * (js → js → task HttpResponse)) :=
  [].

(** The store of the module, see [CosmosStore.v]. *)
Definition store : Cosmos.StoreModule :=
  Cosmos.mkModule cache_names fetchers query_actions list_queries max_pages getDefaultState.

#[global] Instance store_laws : Cosmos.StoreLaws store.
Proof. solve_cosmos_laws. Qed.

(** ** Transactions *)

(** [new Registry(types)] *)
Definition registry {PB : Protobuf} {PS : ProtobufSpec PB} : TypeRegistry Msg :=
  newRegistry registered_types.

Definition sendMsgVerifyInvariant {PB : Protobuf} {PS : ProtobufSpec PB}
    (args : send_args MsgVerifyInvariant.partial) : result js :=
  Cosmos.send_msg rootGetters registry "MsgVerifyInvariant" msgVerifyInvariant args.

Definition createMsgVerifyInvariant {PB : Protobuf} {PS : ProtobufSpec PB}
    (value : option MsgVerifyInvariant.partial) : result (EncodeObject Msg) :=
  Cosmos.create_msg rootGetters registry "MsgVerifyInvariant" msgVerifyInvariant value.

(** The message types with their actions. *)
Definition tx_actions {PB : Protobuf} {PS : ProtobufSpec PB} : list (Cosmos.tx_action Msg) :=
  [Cosmos.mkTxAction Msg "MsgVerifyInvariant" MsgVerifyInvariant.message msgVerifyInvariant sendMsgVerifyInvariant createMsgVerifyInvariant].

Lemma crisis_tx_laws {PB : Protobuf} {PS : ProtobufSpec PB} :
  Forall (Cosmos.tx_lawful rootGetters types registered_types) tx_actions.
Proof. solve_cosmos_tx_laws. Qed.

End store.
