(* ===== verification/DistributionStore.v ===== *)
(** * The client of the distribution module

    The endpoints of module/rest.js, the transaction client of module/index.js
    and the store of index.js of cosmos.distribution.v1beta1, over [CosmosStore.v]. *)
From S2P Require Import Prelude Js Protobuf Codec Fallible MessageTable CosmosBase DistributionTypes JsonText Uri Async RestClient ApiRoutes Pages VuexStore TxClient CosmosStore.
Open Scope Z_scope.

(** ** Endpoints *)

Section api.
Context {S : Type}.

Definition queryCommunityPool (c : HttpClient) (params : RequestParams)
    : proc FetchCall Response S HttpResponse :=
  request c (get_json ("/cosmos/distribution/v1beta1/community_pool")
    Undefined params).

Definition queryDelegationTotalRewards (c : HttpClient) (delegatorAddress : js) (params : RequestParams)
    : proc FetchCall Response S HttpResponse :=
  request c (get_json ("/cosmos/distribution/v1beta1/delegators/" +:+ js_String delegatorAddress +:+
      "/rewards")
    Undefined params).

Definition queryDelegationRewards (c : HttpClient) (delegatorAddress validatorAddress : js) (params : RequestParams)
    : proc FetchCall Response S HttpResponse :=
  request c (get_json ("/cosmos/distribution/v1beta1/delegators/" +:+ js_String delegatorAddress +:+
      "/rewards/" +:+ js_String validatorAddress)
    Undefined params).

Definition queryDelegatorValidators (c : HttpClient) (delegatorAddress : js) (params : RequestParams)
    : proc FetchCall Response S HttpResponse :=
  request c (get_json ("/cosmos/distribution/v1beta1/delegators/" +:+ js_String delegatorAddress +:+
      "/validators")
    Undefined params).

Definition queryDelegatorWithdrawAddress (c : HttpClient) (delegatorAddress : js) (params : RequestParams)
    : proc FetchCall Response S HttpResponse :=
  request c (get_json ("/cosmos/distribution/v1beta1/delegators/" +:+ js_String delegatorAddress +:+
      "/withdraw_address")
    Undefined params).

Definition queryParams (c : HttpClient) (params : RequestParams)
    : proc FetchCall Response S HttpResponse :=
  request c (get_json ("/cosmos/distribution/v1beta1/params")
    Undefined params).

Definition queryValidatorCommission (c : HttpClient) (validatorAddress : js) (params : RequestParams)
    : proc FetchCall Response S HttpResponse :=
  request c (get_json ("/cosmos/distribution/v1beta1/validators/" +:+ js_String validatorAddress +:+
      "/commission")
    Undefined params).

Definition queryValidatorOutstandingRewards (c : HttpClient) (validatorAddress : js) (params : RequestParams)
    : proc FetchCall Response S HttpResponse :=
  request c (get_json ("/cosmos/distribution/v1beta1/validators/" +:+ js_String validatorAddress +:+
      "/outstanding_rewards")
    Undefined params).

Definition queryValidatorSlashes (c : HttpClient) (validatorAddress : js) (query : js) (params : RequestParams)
    : proc FetchCall Response S HttpResponse :=
  request c (get_json ("/cosmos/distribution/v1beta1/validators/" +:+ js_String validatorAddress +:+
      "/slashes")
    query params).

End api.

(** ** Routes *)

(** A query of the module with the values of its path parameters. *)
Inductive endpoint : Set :=
| CommunityPool
| DelegationTotalRewards (delegatorAddress : string)
| DelegationRewards (delegatorAddress validatorAddress : string)
| DelegatorValidators (delegatorAddress : string)
| DelegatorWithdrawAddress (delegatorAddress : string)
| Params
| ValidatorCommission (validatorAddress : string)
| ValidatorOutstandingRewards (validatorAddress : string)
| ValidatorSlashes (validatorAddress : string).

(** The method call of an endpoint; a method that takes a query object is given
    [query]. *)
Definition endpoint_call {S : Type} (c : HttpClient) (e : endpoint) (query : js)
    : proc FetchCall Response S HttpResponse :=
  match e with
  | CommunityPool => queryCommunityPool c no_params
  | DelegationTotalRewards delegatorAddress => queryDelegationTotalRewards c (Str delegatorAddress) no_params
  | DelegationRewards delegatorAddress validatorAddress => queryDelegationRewards c (Str delegatorAddress) (Str validatorAddress) no_params
  | DelegatorValidators delegatorAddress => queryDelegatorValidators c (Str delegatorAddress) no_params
  | DelegatorWithdrawAddress delegatorAddress => queryDelegatorWithdrawAddress c (Str delegatorAddress) no_params
  | Params => queryParams c no_params
  | ValidatorCommission validatorAddress => queryValidatorCommission c (Str validatorAddress) no_params
  | ValidatorOutstandingRewards validatorAddress => queryValidatorOutstandingRewards c (Str validatorAddress) no_params
  | ValidatorSlashes validatorAddress => queryValidatorSlashes c (Str validatorAddress) query no_params
  end.

(** Whether the method takes a query object. *)
Definition endpoint_takes_query (e : endpoint) : bool :=
  match e with
  | CommunityPool => false
  | DelegationTotalRewards _ => false
  | DelegationRewards _ _ => false
  | DelegatorValidators _ => false
  | DelegatorWithdrawAddress _ => false
  | Params => false
  | ValidatorCommission _ => false
  | ValidatorOutstandingRewards _ => false
  | ValidatorSlashes _ => true
  end.

(** The segments of its route. *)
Definition endpoint_route (e : endpoint) : list string :=
  "cosmos" :: "distribution" :: "v1beta1" ::
  match e with
  | CommunityPool => ["community_pool"]
  | DelegationTotalRewards delegatorAddress => ["delegators"; delegatorAddress; "rewards"]
  | DelegationRewards delegatorAddress validatorAddress => ["delegators"; delegatorAddress; "rewards"; validatorAddress]
  | DelegatorValidators delegatorAddress => ["delegators"; delegatorAddress; "validators"]
  | DelegatorWithdrawAddress delegatorAddress => ["delegators"; delegatorAddress; "withdraw_address"]
  | Params => ["params"]
  | ValidatorCommission validatorAddress => ["validators"; validatorAddress; "commission"]
  | ValidatorOutstandingRewards validatorAddress => ["validators"; validatorAddress; "outstanding_rewards"]
  | ValidatorSlashes validatorAddress => ["validators"; validatorAddress; "slashes"]
  end.

#[global] Program Instance routes : Routes endpoint :=
  {| api_call := endpoint_call; route := endpoint_route; takes_query := endpoint_takes_query |}.
Next Obligation. solve_route_path. Qed.
Next Obligation. by destruct e. Qed.

Lemma distribution_route_inj e1 e2 : endpoint_route e1 = endpoint_route e2 → e1 = e2.
Proof. destruct e1, e2; simpl; intros H; simplify_eq; done. Qed.

(** ** Messages *)

(** The data of a message of the module, or [undefined]. *)
Inductive Msg : Type :=
| VMsgWithdrawDelegatorReward (data : option MsgWithdrawDelegatorReward.partial)
| VMsgFundCommunityPool (data : option MsgFundCommunityPool.partial)
| VMsgWithdrawValidatorCommission (data : option MsgWithdrawValidatorCommission.partial)
| VMsgSetWithdrawAddress (data : option MsgSetWithdrawAddress.partial).

Definition msgWithdrawDelegatorReward (data : option MsgWithdrawDelegatorReward.partial) : EncodeObject Msg :=
  mkEncode "/cosmos.distribution.v1beta1.MsgWithdrawDelegatorReward" (VMsgWithdrawDelegatorReward data).

Definition msgFundCommunityPool (data : option MsgFundCommunityPool.partial) : EncodeObject Msg :=
  mkEncode "/cosmos.distribution.v1beta1.MsgFundCommunityPool" (VMsgFundCommunityPool data).

Definition msgWithdrawValidatorCommission (data : option MsgWithdrawValidatorCommission.partial) : EncodeObject Msg :=
  mkEncode "/cosmos.distribution.v1beta1.MsgWithdrawValidatorCommission" (VMsgWithdrawValidatorCommission data).

Definition msgSetWithdrawAddress (data : option MsgSetWithdrawAddress.partial) : EncodeObject Msg :=
  mkEncode "/cosmos.distribution.v1beta1.MsgSetWithdrawAddress" (VMsgSetWithdrawAddress data).

(** The type table of the registry. *)
Definition types {PB : Protobuf} {PS : ProtobufSpec PB} : list (string * message_type) :=
  [("/cosmos.distribution.v1beta1.MsgWithdrawDelegatorReward", MsgWithdrawDelegatorReward.message);
   ("/cosmos.distribution.v1beta1.MsgFundCommunityPool", MsgFundCommunityPool.message);
   ("/cosmos.distribution.v1beta1.MsgWithdrawValidatorCommission", MsgWithdrawValidatorCommission.message);
   ("/cosmos.distribution.v1beta1.MsgSetWithdrawAddress", MsgSetWithdrawAddress.message)].

(** The same table, as the registry encodes the messages with it. *)
Definition registered_types {PB : Protobuf} {PS : ProtobufSpec PB} : list (string * GeneratedType Msg) :=
  [("/cosmos.distribution.v1beta1.MsgWithdrawDelegatorReward",
    Cosmos.row_type MsgWithdrawDelegatorReward.message VMsgWithdrawDelegatorReward (fun m => match m with VMsgWithdrawDelegatorReward d => Some d | _ => None end));
   ("/cosmos.distribution.v1beta1.MsgFundCommunityPool",
    Cosmos.row_type MsgFundCommunityPool.message VMsgFundCommunityPool (fun m => match m with VMsgFundCommunityPool d => Some d | _ => None end));
   ("/cosmos.distribution.v1beta1.MsgWithdrawValidatorCommission",
    Cosmos.row_type MsgWithdrawValidatorCommission.message VMsgWithdrawValidatorCommission (fun m => match m with VMsgWithdrawValidatorCommission d => Some d | _ => None end));
   ("/cosmos.distribution.v1beta1.MsgSetWithdrawAddress",
    Cosmos.row_type MsgSetWithdrawAddress.message VMsgSetWithdrawAddress (fun m => match m with VMsgSetWithdrawAddress d => Some d | _ => None end))].

(** ** Initial state *)

(** The properties of [T.fromPartial({})] in their order; an empty byte array is
    an object like an empty list. *)
Definition templates : list (string * list (string * js)) :=
  [("Params",
     [("communityTax", Str ""); ("baseProposerReward", Str ""); ("bonusProposerReward", Str "");
      ("withdrawAddrEnabled", Bool false)]);
   ("ValidatorHistoricalRewards",
     [("referenceCount", Num 0); ("cumulativeRewardRatio", Arr [])]);
   ("ValidatorCurrentRewards",
     [("period", Num 0); ("rewards", Arr [])]);
   ("ValidatorAccumulatedCommission",
     [("commission", Arr [])]);
   ("ValidatorOutstandingRewards",
     [("rewards", Arr [])]);
   ("ValidatorSlashEvent",
     [("validatorPeriod", Num 0); ("fraction", Str "")]);
   ("ValidatorSlashEvents",
     [("validatorSlashEvents", Arr [])]);
   ("FeePool",
     [("communityPool", Arr [])]);
   ("CommunityPoolSpendProposal",
     [("title", Str ""); ("description", Str ""); ("recipient", Str ""); ("amount", Arr [])]);
   ("DelegatorStartingInfo",
     [("previousPeriod", Num 0); ("stake", Str ""); ("height", Num 0)]);
   ("DelegationDelegatorReward",
     [("validatorAddress", Str ""); ("reward", Arr [])]);
   ("CommunityPoolSpendProposalWithDeposit",
     [("title", Str ""); ("description", Str ""); ("recipient", Str ""); ("amount", Str "");
      ("deposit", Str "")]);
   ("DelegatorWithdrawInfo",
     [("delegatorAddress", Str ""); ("withdrawAddress", Str "")]);
   ("ValidatorOutstandingRewardsRecord",
     [("validatorAddress", Str ""); ("outstandingRewards", Arr [])]);
   ("ValidatorAccumulatedCommissionRecord",
     [("validatorAddress", Str ""); ("accumulated", Undefined)]);
   ("ValidatorHistoricalRewardsRecord",
     [("validatorAddress", Str ""); ("period", Num 0); ("rewards", Undefined)]);
   ("ValidatorCurrentRewardsRecord",
     [("validatorAddress", Str ""); ("rewards", Undefined)]);
   ("DelegatorStartingInfoRecord",
     [("delegatorAddress", Str ""); ("validatorAddress", Str ""); ("startingInfo", Undefined)]);
   ("ValidatorSlashEventRecord",
     [("validatorAddress", Str ""); ("height", Num 0); ("period", Num 0);
      ("validatorSlashEvent", Undefined)])].

Definition cache_names : list string := ["Params"; "ValidatorOutstandingRewards"; "ValidatorCommission"; "ValidatorSlashes";
   "DelegationRewards"; "DelegationTotalRewards"; "DelegatorValidators";
   "DelegatorWithdrawAddress"; "CommunityPool"].

Definition getDefaultState : Cosmos.state := {|
  Cosmos.caches := empty_caches cache_names;
  Cosmos.Structure := map (fun t => (t.1, getStructure t.2)) templates;
  Cosmos.Subscriptions := [];
  Cosmos.objects := O;
|}.

(** ** Getters *)

Definition getParams (s : Cosmos.state) (params : option (list (string * js))) : js :=
  Cosmos.get_cached "Params" s params.

Definition getValidatorOutstandingRewards (s : Cosmos.state) (params : option (list (string * js))) : js :=
  Cosmos.get_cached "ValidatorOutstandingRewards" s params.

Definition getValidatorCommission (s : Cosmos.state) (params : option (list (string * js))) : js :=
  Cosmos.get_cached "ValidatorCommission" s params.

Definition getValidatorSlashes (s : Cosmos.state) (params : option (list (string * js))) : js :=
  Cosmos.get_cached "ValidatorSlashes" s params.

Definition getDelegationRewards (s : Cosmos.state) (params : option (list (string * js))) : js :=
  Cosmos.get_cached "DelegationRewards" s params.

Definition getDelegationTotalRewards (s : Cosmos.state) (params : option (list (string * js))) : js :=
  Cosmos.get_cached "DelegationTotalRewards" s params.

Definition getDelegatorValidators (s : Cosmos.state) (params : option (list (string * js))) : js :=
  Cosmos.get_cached "DelegatorValidators" s params.

Definition getDelegatorWithdrawAddress (s : Cosmos.state) (params : option (list (string * js))) : js :=
  Cosmos.get_cached "DelegatorWithdrawAddress" s params.

Definition getCommunityPool (s : Cosmos.state) (params : option (list (string * js))) : js :=
  Cosmos.get_cached "CommunityPool" s params.

Section store.
Context {SV : SpVuex} {CJ : Cosmjs}.
Context (rootGetters : root_getters).
Abbreviation task := (proc FetchCall Response Cosmos.state).

(** ** Queries *)

(** The number of further pages a list query may ask for. *)
Variable max_pages : nat.

Definition fetch_Params (a : query_args) (key : js) : task js :=
  r ← queryParams (initQueryClient rootGetters) no_params;
  Ret r.(data).

Definition QueryParams (payload : js) : task js :=
  Cosmos.query_action "Params" fetch_Params payload.

Definition fetch_ValidatorOutstandingRewards (a : query_args) (key : js) : task js :=
  validator_address ← of_result (get key "validator_address");
  r ← queryValidatorOutstandingRewards (initQueryClient rootGetters) validator_address no_params;
  Ret r.(data).

Definition QueryValidatorOutstandingRewards (payload : js) : task js :=
  Cosmos.query_action "ValidatorOutstandingRewards" fetch_ValidatorOutstandingRewards payload.

Definition fetch_ValidatorCommission (a : query_args) (key : js) : task js :=
  validator_address ← of_result (get key "validator_address");
  r ← queryValidatorCommission (initQueryClient rootGetters) validator_address no_params;
  Ret r.(data).

Definition QueryValidatorCommission (payload : js) : task js :=
  Cosmos.query_action "ValidatorCommission" fetch_ValidatorCommission payload.

Definition all_ValidatorSlashes (key query : js) : task HttpResponse :=
  validator_address ← of_result (get key "validator_address");
  queryValidatorSlashes (initQueryClient rootGetters) validator_address query no_params.

Definition fetch_ValidatorSlashes (a : query_args) (key : js) : task js :=
  Cosmos.fetch_all max_pages all_ValidatorSlashes a key.

Definition QueryValidatorSlashes (payload : js) : task js :=
  Cosmos.query_action "ValidatorSlashes" fetch_ValidatorSlashes payload.

Definition fetch_DelegationRewards (a : query_args) (key : js) : task js :=
  delegator_address ← of_result (get key "delegator_address");
  validator_address ← of_result (get key "validator_address");
  r ← queryDelegationRewards (initQueryClient rootGetters) delegator_address validator_address no_params;
  Ret r.(data).

Definition QueryDelegationRewards (payload : js) : task js :=
  Cosmos.query_action "DelegationRewards" fetch_DelegationRewards payload.

Definition fetch_DelegationTotalRewards (a : query_args) (key : js) : task js :=
  delegator_address ← of_result (get key "delegator_address");
  r ← queryDelegationTotalRewards (initQueryClient rootGetters) delegator_address no_params;
  Ret r.(data).

Definition QueryDelegationTotalRewards (payload : js) : task js :=
  Cosmos.query_action "DelegationTotalRewards" fetch_DelegationTotalRewards payload.

Definition fetch_DelegatorValidators (a : query_args) (key : js) : task js :=
  delegator_address ← of_result (get key "delegator_address");
  r ← queryDelegatorValidators (initQueryClient rootGetters) delegator_address no_params;
  Ret r.(data).

Definition QueryDelegatorValidators (payload : js) : task js :=
  Cosmos.query_action "DelegatorValidators" fetch_DelegatorValidators payload.

Definition fetch_DelegatorWithdrawAddress (a : query_args) (key : js) : task js :=
  delegator_address ← of_result (get key "delegator_address");
  r ← queryDelegatorWithdrawAddress (initQueryClient rootGetters) delegator_address no_params;
  Ret r.(data).

Definition QueryDelegatorWithdrawAddress (payload : js) : task js :=
  Cosmos.query_action "DelegatorWithdrawAddress" fetch_DelegatorWithdrawAddress payload.

Definition fetch_CommunityPool (a : query_args) (key : js) : task js :=
  r ← queryCommunityPool (initQueryClient rootGetters) no_params;
  Ret r.(data).

Definition QueryCommunityPool (payload : js) : task js :=
  Cosmos.query_action "CommunityPool" fetch_CommunityPool payload.

(** The fetch of each query, by the name of its cache. *)
Definition fetchers : list (string * (query_args → js → task js)) :=
  [("Params", fetch_Params);
   ("ValidatorOutstandingRewards", fetch_ValidatorOutstandingRewards);
   ("ValidatorCommission", fetch_ValidatorCommission);
   ("ValidatorSlashes", fetch_ValidatorSlashes);
   ("DelegationRewards", fetch_DelegationRewards);
   ("DelegationTotalRewards", fetch_DelegationTotalRewards);
   ("DelegatorValidators", fetch_DelegatorValidators);
   ("DelegatorWithdrawAddress", fetch_DelegatorWithdrawAddress);
   ("CommunityPool", fetch_CommunityPool)].

(** The query actions by name, as [dispatch] finds them. *)
Definition query_actions : list (string * (js → task js)) :=
  [("QueryParams", QueryParams);
   ("QueryValidatorOutstandingRewards", QueryValidatorOutstandingRewards);
   ("QueryValidatorCommission", QueryValidatorCommission);
   ("QueryValidatorSlashes", QueryValidatorSlashes);
   ("QueryDelegationRewards", QueryDelegationRewards);
   ("QueryDelegationTotalRewards", QueryDelegationTotalRewards);
   ("QueryDelegatorValidators", QueryDelegatorValidators);
   ("QueryDelegatorWithdrawAddress", QueryDelegatorWithdrawAddress);
   ("QueryCommunityPool", QueryCommunityPool)].

(** The list queries, with the method each one calls. *)
Definition list_queries : list (string * (js → js → task HttpResponse)) :=
  [("ValidatorSlashes", all_ValidatorSlashes)].

(** The store of the module, see [CosmosStore.v]. *)
Definition store : Cosmos.StoreModule :=
  Cosmos.mkModule cache_names fetchers query_actions list_queries max_pages getDefaultState.

#[global] Instance store_laws : Cosmos.StoreLaws store.
Proof. solve_cosmos_laws. Qed.

(** ** Transactions *)

(** [new Registry(types)] *)
Definition registry {PB : Protobuf} {PS : ProtobufSpec PB} : TypeRegistry Msg :=
  newRegistry registered_types.

Definition sendMsgWithdrawDelegatorReward {PB : Protobuf} {PS : ProtobufSpec PB}
    (args : send_args MsgWithdrawDelegatorReward.partial) : result js :=
  Cosmos.send_msg rootGetters registry "MsgWithdrawDelegatorReward" msgWithdrawDelegatorReward args.

Definition sendMsgFundCommunityPool {PB : Protobuf} {PS : ProtobufSpec PB}
    (args : send_args MsgFundCommunityPool.partial) : result js :=
  Cosmos.send_msg rootGetters registry "MsgFundCommunityPool" msgFundCommunityPool args.

Definition sendMsgWithdrawValidatorCommission {PB : Protobuf} {PS : ProtobufSpec PB}
    (args : send_args MsgWithdrawValidatorCommission.partial) : result js :=
  Cosmos.send_msg rootGetters registry "MsgWithdrawValidatorCommission" msgWithdrawValidatorCommission args.

Definition sendMsgSetWithdrawAddress {PB : Protobuf} {PS : ProtobufSpec PB}
    (args : send_args MsgSetWithdrawAddress.partial) : result js :=
  Cosmos.send_msg rootGetters registry "MsgSetWithdrawAddress" msgSetWithdrawAddress args.

Definition createMsgWithdrawDelegatorReward {PB : Protobuf} {PS : ProtobufSpec PB}
    (value : option MsgWithdrawDelegatorReward.partial) : result (EncodeObject Msg) :=
  Cosmos.create_msg rootGetters registry "MsgWithdrawDelegatorReward" msgWithdrawDelegatorReward value.

Definition createMsgFundCommunityPool {PB : Protobuf} {PS : ProtobufSpec PB}
    (value : option MsgFundCommunityPool.partial) : result (EncodeObject Msg) :=
  Cosmos.create_msg rootGetters registry "MsgFundCommunityPool" msgFundCommunityPool value.

Definition createMsgWithdrawValidatorCommission {PB : Protobuf} {PS : ProtobufSpec PB}
    (value : option MsgWithdrawValidatorCommission.partial) : result (EncodeObject Msg) :=
  Cosmos.create_msg rootGetters registry "MsgWithdrawValidatorCommission" msgWithdrawValidatorCommission value.

Definition createMsgSetWithdrawAddress {PB : Protobuf} {PS : ProtobufSpec PB}
    (value : option MsgSetWithdrawAddress.partial) : result (EncodeObject Msg) :=
  Cosmos.create_msg rootGetters registry "MsgSetWithdrawAddress" msgSetWithdrawAddress value.

(** The message types with their actions. *)
Definition tx_actions {PB : Protobuf} {PS : ProtobufSpec PB} : list (Cosmos.tx_action Msg) :=
  [Cosmos.mkTxAction Msg "MsgWithdrawDelegatorReward" MsgWithdrawDelegatorReward.message msgWithdrawDelegatorReward sendMsgWithdrawDelegatorReward createMsgWithdrawDelegatorReward;
   Cosmos.mkTxAction Msg "MsgFundCommunityPool" MsgFundCommunityPool.message msgFundCommunityPool sendMsgFundCommunityPool createMsgFundCommunityPool;
   Cosmos.mkTxAction Msg "MsgWithdrawValidatorCommission" MsgWithdrawValidatorCommission.message msgWithdrawValidatorCommission sendMsgWithdrawValidatorCommission createMsgWithdrawValidatorCommission;
   Cosmos.mkTxAction Msg "MsgSetWithdrawAddress" MsgSetWithdrawAddress.message msgSetWithdrawAddress sendMsgSetWithdrawAddress createMsgSetWithdrawAddress].

Lemma distribution_tx_laws {PB : Protobuf} {PS : ProtobufSpec PB} :
  Forall (Cosmos.tx_lawful rootGetters types registered_types) tx_actions.
Proof. solve_cosmos_tx_laws. Qed.

End store.
