(* ===== verification/EvidenceStore.v ===== *)
(** * The client of the evidence module

    The endpoints of module/rest.js, the transaction client of module/index.js
    and the store of index.js of cosmos.evidence.v1beta1, over [CosmosStore.v]. *)
From S2P Require Import Prelude Js Protobuf Codec Fallible MessageTable CommonTypes EvidenceTypes JsonText Uri Async RestClient ApiRoutes Pages VuexStore TxClient CosmosStore.
Open Scope Z_scope.

(** ** Endpoints *)

Section api.
Context {S : Type}.

Definition queryAllEvidence (c : HttpClient) (query : js) (params : RequestParams)
    : proc FetchCall Response S HttpResponse :=
  request c (get_json ("/cosmos/evidence/v1beta1/evidence")
    query params).

Definition queryEvidence (c : HttpClient) (evidenceHash : js) (params : RequestParams)
    : proc FetchCall Response S HttpResponse :=
  request c (get_json ("/cosmos/evidence/v1beta1/evidence/" +:+ js_String evidenceHash)
    Undefined params).

End api.

(** ** Routes *)

(** A query of the module with the values of its path parameters. *)
Inductive endpoint : Set :=
| AllEvidence
| Evidence (evidenceHash : string).

(** The method call of an endpoint; a method that takes a query object is given
    [query]. *)
Definition endpoint_call {S : Type} (c : HttpClient) (e : endpoint) (query : js)
    : proc FetchCall Response S HttpResponse :=
  match e with
  | AllEvidence => queryAllEvidence c query no_params
  | Evidence evidenceHash => queryEvidence c (Str evidenceHash) no_params
  end.

(** Whether the method takes a query object. *)
Definition endpoint_takes_query (e : endpoint) : bool :=
  match e with
  | AllEvidence => true
  | Evidence _ => false
  end.

(** The segments of its route. *)
Definition endpoint_route (e : endpoint) : list string :=
  "cosmos" :: "evidence" :: "v1beta1" ::
  match e with
  | AllEvidence => ["evidence"]
  | Evidence evidenceHash => ["evidence"; evidenceHash]
  end.

#[global] Program Instance routes : Routes endpoint :=
  {| api_call := endpoint_call; route := endpoint_route; takes_query := endpoint_takes_query |}.
Next Obligation. solve_route_path. Qed.
Next Obligation. by destruct e. Qed.

Lemma evidence_route_inj e1 e2 : endpoint_route e1 = endpoint_route e2 → e1 = e2.
Proof. destruct e1, e2; simpl; intros H; simplify_eq; done. Qed.

(** ** Messages *)

(** The data of a message of the module, or [undefined]. *)
Inductive Msg : Type :=
| VMsgSubmitEvidence (data : option MsgSubmitEvidence.partial).

Definition msgSubmitEvidence (data : option MsgSubmitEvidence.partial) : EncodeObject Msg :=
  mkEncode "/cosmos.evidence.v1beta1.MsgSubmitEvidence" (VMsgSubmitEvidence data).

(** The type table of the registry. *)
Definition types {PB : Protobuf} {PS : ProtobufSpec PB} : list (string * message_type) :=
  [("/cosmos.evidence.v1beta1.MsgSubmitEvidence", MsgSubmitEvidence.message)].

(** The same table, as the registry encodes the messages with it. *)
Definition registered_types {PB : Protobuf} {PS : ProtobufSpec PB} : list (string * GeneratedType Msg) :=
  [("/cosmos.evidence.v1beta1.MsgSubmitEvidence",
    Cosmos.row_type MsgSubmitEvidence.message VMsgSubmitEvidence (fun m => match m with VMsgSubmitEvidence d => Some d end))].

(** ** Initial state *)

(** The properties of [T.fromPartial({})] in their order; an empty byte array is
    an object like an empty list. *)
Definition templates : list (string * list (string * js)) :=
  [("Equivocation",
     [("height", Num 0); ("power", Num 0); ("consensusAddress", Str ""); ("time", Undefined)])].

Definition cache_names : list string := ["Evidence"; "AllEvidence"].

Definition getDefaultState : Cosmos.state := {|
  Cosmos.caches := empty_caches cache_names;
  Cosmos.Structure := map (fun t => (t.1, getStructure t.2)) templates;
  Cosmos.Subscriptions := [];
  Cosmos.objects := O;
|}.

(** ** Getters *)

Definition getEvidence (s : Cosmos.state) (params : option (list (string * js))) : js :=
  Cosmos.get_cached "Evidence" s params.

Definition getAllEvidence (s : Cosmos.state) (params : option (list (string * js))) : js :=
  Cosmos.get_cached "AllEvidence" s params.

Section store.
Context {SV : SpVuex} {CJ : Cosmjs}.
Context (rootGetters : root_getters).
Abbreviation task := (proc FetchCall Response Cosmos.state).

(** ** Queries *)

(** The number of further pages a list query may ask for. *)
Variable max_pages : nat.

Definition fetch_Evidence (a : query_args) (key : js) : task js :=
  evidence_hash ← of_result (get key "evidence_hash");
  r ← queryEvidence (initQueryClient rootGetters) evidence_hash no_params;
  Ret r.(data).

Definition QueryEvidence (payload : js) : task js :=
  Cosmos.query_action "Evidence" fetch_Evidence payload.

Definition all_AllEvidence (key query : js) : task HttpResponse :=
  queryAllEvidence (initQueryClient rootGetters) query no_params.

Definition fetch_AllEvidence (a : query_args) (key : js) : task js :=
  Cosmos.fetch_all max_pages all_AllEvidence a key.

Definition QueryAllEvidence (payload : js) : task js :=
  Cosmos.query_action "AllEvidence" fetch_AllEvidence payload.

(** The fetch of each query, by the name of its cache. *)
Definition fetchers : list (string * (query_args → js → task js)) :=
  [("Evidence", fetch_Evidence);
   ("AllEvidence", fetch_AllEvidence)].

(** The query actions by name, as [dispatch] finds them. *)
Definition query_actions : list (string * (js → task js)) :=
  [("QueryEvidence", QueryEvidence);
   ("QueryAllEvidence", QueryAllEvidence)].

(** The list queries, with the method each one calls. *)
Definition list_queries : list (string * (js → js → task HttpResponse)) :=
  [("AllEvidence", all_AllEvidence)].

(** The store of the module, see [CosmosStore.v]. *)
Definition store : Cosmos.StoreModule :=
  Cosmos.mkModule cache_names fetchers query_actions list_queries max_pages getDefaultState.

#[global] Instance store_laws : Cosmos.StoreLaws store.
Proof. solve_cosmos_laws. Qed.

(** ** Transactions *)

(** [new Registry(types)] *)
Definition registry {PB : Protobuf} {PS : ProtobufSpec PB} : TypeRegistry Msg :=
  newRegistry registered_types.

Definition sendMsgSubmitEvidence {PB : Protobuf} {PS : ProtobufSpec PB}
    (args : send_args MsgSubmitEvidence.partial) : result js :=
  Cosmos.send_msg rootGetters registry "MsgSubmitEvidence" msgSubmitEvidence args.

Definition createMsgSubmitEvidence {PB : Protobuf} {PS : ProtobufSpec PB}
    (value : option MsgSubmitEvidence.partial) : result (EncodeObject Msg) :=
  Cosmos.create_msg rootGetters registry "MsgSubmitEvidence" msgSubmitEvidence value.

(** The message types with their actions. *)
Definition tx_actions {PB : Protobuf} {PS : ProtobufSpec PB} : list (Cosmos.tx_action Msg) :=
  [Cosmos.mkTxAction Msg "MsgSubmitEvidence" MsgSubmitEvidence.message msgSubmitEvidence sendMsgSubmitEvidence createMsgSubmitEvidence].

Lemma evidence_tx_laws {PB : Protobuf} {PS : ProtobufSpec PB} :
  Forall (Cosmos.tx_lawful rootGetters types registered_types) tx_actions.
Proof. solve_cosmos_tx_laws. Qed.

End store.
