(* ===== verification/FeegrantStore.v ===== *)
(** * The client of the feegrant module

    The endpoints of module/rest.js, the transaction client of module/index.js
    and the store of index.js of cosmos.feegrant.v1beta1, over [CosmosStore.v]. *)
From S2P Require Import Prelude Js Protobuf Codec Fallible MessageTable CommonTypes CosmosBase FeegrantTypes JsonText Uri Async RestClient ApiRoutes Pages VuexStore TxClient CosmosStore.
Open Scope Z_scope.

(** ** Endpoints *)

Section api.
Context {S : Type}.

Definition queryAllowance (c : HttpClient) (granter grantee : js) (params : RequestParams)
    : proc FetchCall Response S HttpResponse :=
  request c (get_json ("/cosmos/feegrant/v1beta1/allowance/" +:+ js_String granter +:+
      "/" +:+ js_String grantee)
    Undefined params).

Definition queryAllowances (c : HttpClient) (grantee : js) (query : js) (params : RequestParams)
    : proc FetchCall Response S HttpResponse :=
  request c (get_json ("/cosmos/feegrant/v1beta1/allowances/" +:+ js_String grantee)
    query params).

End api.

(** ** Routes *)

(** A query of the module with the values of its path parameters. *)
Inductive endpoint : Set :=
| Allowance (granter grantee : string)
| Allowances (grantee : string).

(** The method call of an endpoint; a method that takes a query object is given
    [query]. *)
Definition endpoint_call {S : Type} (c : HttpClient) (e : endpoint) (query : js)
    : proc FetchCall Response S HttpResponse :=
  match e with
  | Allowance granter grantee => queryAllowance c (Str granter) (Str grantee) no_params
  | Allowances grantee => queryAllowances c (Str grantee) query no_params
  end.

(** Whether the method takes a query object. *)
Definition endpoint_takes_query (e : endpoint) : bool :=
  match e with
  | Allowance _ _ => false
  | Allowances _ => true
  end.

(** The segments of its route. *)
Definition endpoint_route (e : endpoint) : list string :=
  "cosmos" :: "feegrant" :: "v1beta1" ::
  match e with
  | Allowance granter grantee => ["allowance"; granter; grantee]
  | Allowances grantee => ["allowances"; grantee]
  end.

#[global] Program Instance routes : Routes endpoint :=
  {| api_call := endpoint_call; route := endpoint_route; takes_query := endpoint_takes_query |}.
Next Obligation. solve_route_path. Qed.
Next Obligation. by destruct e. Qed.

Lemma feegrant_route_inj e1 e2 : endpoint_route e1 = endpoint_route e2 → e1 = e2.
Proof. destruct e1, e2; simpl; intros H; simplify_eq; done. Qed.

(** ** Messages *)

(** The data of a message of the module, or [undefined]. *)
Inductive Msg : Type :=
| VMsgGrantAllowance (data : option MsgGrantAllowance.partial)
| VMsgRevokeAllowance (data : option MsgRevokeAllowance.partial).

Definition msgGrantAllowance (data : option MsgGrantAllowance.partial) : EncodeObject Msg :=
  mkEncode "/cosmos.feegrant.v1beta1.MsgGrantAllowance" (VMsgGrantAllowance data).

Definition msgRevokeAllowance (data : option MsgRevokeAllowance.partial) : EncodeObject Msg :=
  mkEncode "/cosmos.feegrant.v1beta1.MsgRevokeAllowance" (VMsgRevokeAllowance data).

(** The type table of the registry. *)
Definition types {PB : Protobuf} {PS : ProtobufSpec PB} : list (string * message_type) :=
  [("/cosmos.feegrant.v1beta1.MsgGrantAllowance", MsgGrantAllowance.message);
   ("/cosmos.feegrant.v1beta1.MsgRevokeAllowance", MsgRevokeAllowance.message)].

(** The same table, as the registry encodes the messages with it. *)
Definition registered_types {PB : Protobuf} {PS : ProtobufSpec PB} : list (string * GeneratedType Msg) :=
  [("/cosmos.feegrant.v1beta1.MsgGrantAllowance",
    Cosmos.row_type MsgGrantAllowance.message VMsgGrantAllowance (fun m => match m with VMsgGrantAllowance d => Some d | _ => None end));
   ("/cosmos.feegrant.v1beta1.MsgRevokeAllowance",
    Cosmos.row_type MsgRevokeAllowance.message VMsgRevokeAllowance (fun m => match m with VMsgRevokeAllowance d => Some d | _ => None end))].

(** ** Initial state *)

(** The properties of [T.fromPartial({})] in their order; an empty byte array is
    an object like an empty list. *)
Definition templates : list (string * list (string * js)) :=
  [("BasicAllowance",
     [("spendLimit", Arr []); ("expiration", Undefined)]);
   ("PeriodicAllowance",
     [("periodSpendLimit", Arr []); ("periodCanSpend", Arr []); ("basic", Undefined);
      ("period", Undefined); ("periodReset", Undefined)]);
   ("AllowedMsgAllowance",
     [("allowedMessages", Arr []); ("allowance", Undefined)]);
   ("Grant",
     [("granter", Str ""); ("grantee", Str ""); ("allowance", Undefined)])].

Definition cache_names : list string := ["Allowance"; "Allowances"].

Definition getDefaultState : Cosmos.state := {|
  Cosmos.caches := empty_caches cache_names;
  Cosmos.Structure := map (fun t => (t.1, getStructure t.2)) templates;
  Cosmos.Subscriptions := [];
  Cosmos.objects := O;
|}.

(** ** Getters *)

Definition getAllowance (s : Cosmos.state) (params : option (list (string * js))) : js :=
  Cosmos.get_cached "Allowance" s params.

Definition getAllowances (s : Cosmos.state) (params : option (list (string * js))) : js :=
  Cosmos.get_cached "Allowances" s params.

Section store.
Context {SV : SpVuex} {CJ : Cosmjs}.
Context (rootGetters : root_getters).
Abbreviation task := (proc FetchCall Response Cosmos.state).

(** ** Queries *)

(** The number of further pages a list query may ask for. *)
Variable max_pages : nat.

Definition fetch_Allowance (a : query_args) (key : js) : task js :=
  granter ← of_result (get key "granter");
  grantee ← of_result (get key "grantee");
  r ← queryAllowance (initQueryClient rootGetters) granter grantee no_params;
  Ret r.(data).

Definition QueryAllowance (payload : js) : task js :=
  Cosmos.query_action "Allowance" fetch_Allowance payload.

Definition all_Allowances (key query : js) : task HttpResponse :=
  grantee ← of_result (get key "grantee");
  queryAllowances (initQueryClient rootGetters) grantee query no_params.

Definition fetch_Allowances (a : query_args) (key : js) : task js :=
  Cosmos.fetch_all max_pages all_Allowances a key.

Definition QueryAllowances (payload : js) : task js :=
  Cosmos.query_action "Allowances" fetch_Allowances payload.

(** The fetch of each query, by the name of its cache. *)
Definition fetchers : list (string * (query_args → js → task js)) :=
  [("Allowance", fetch_Allowance);
   ("Allowances", fetch_Allowances)].

(** The query actions by name, as [dispatch] finds them. *)
Definition query_actions : list (string * (js → task js)) :=
  [("QueryAllowance", QueryAllowance);
   ("QueryAllowances", QueryAllowances)].

(** The list queries, with the method each one calls. *)
Definition list_queries : list (string * (js → js → task HttpResponse)) :=
  [("Allowances", all_Allowances)].

(** The store of the module, see [CosmosStore.v]. *)
Definition store : Cosmos.StoreModule :=
  Cosmos.mkModule cache_names fetchers query_actions list_queries max_pages getDefaultState.

#[global] Instance store_laws : Cosmos.StoreLaws store.
Proof. solve_cosmos_laws. Qed.

(** ** Transactions *)

(** [new Registry(types)] *)
Definition registry {PB : Protobuf} {PS : ProtobufSpec PB} : TypeRegistry Msg :=
  newRegistry registered_types.

Definition sendMsgGrantAllowance {PB : Protobuf} {PS : ProtobufSpec PB}
    (args : send_args MsgGrantAllowance.partial) : result js :=
  Cosmos.send_msg rootGetters registry "MsgGrantAllowance" msgGrantAllowance args.

Definition sendMsgRevokeAllowance {PB : Protobuf} {PS : ProtobufSpec PB}
    (args : send_args MsgRevokeAllowance.partial) : result js :=
  Cosmos.send_msg rootGetters registry "MsgRevokeAllowance" msgRevokeAllowance args.

Definition createMsgGrantAllowance {PB : Protobuf} {PS : ProtobufSpec PB}
    (value : option MsgGrantAllowance.partial) : result (EncodeObject Msg) :=
  Cosmos.create_msg rootGetters registry "MsgGrantAllowance" msgGrantAllowance value.

Definition createMsgRevokeAllowance {PB : Protobuf} {PS : ProtobufSpec PB}
    (value : option MsgRevokeAllowance.partial) : result (EncodeObject Msg) :=
  Cosmos.create_msg rootGetters registry "MsgRevokeAllowance" msgRevokeAllowance value.

(** The message types with their actions. *)
Definition tx_actions {PB : Protobuf} {PS : ProtobufSpec PB} : list (Cosmos.tx_action Msg) :=
  [Cosmos.mkTxAction Msg "MsgGrantAllowance" MsgGrantAllowance.message msgGrantAllowance sendMsgGrantAllowance createMsgGrantAllowance;
   Cosmos.mkTxAction Msg "MsgRevokeAllowance" MsgRevokeAllowance.message msgRevokeAllowance sendMsgRevokeAllowance createMsgRevokeAllowance].

Lemma feegrant_tx_laws {PB : Protobuf} {PS : ProtobufSpec PB} :
  Forall (Cosmos.tx_lawful rootGetters types registered_types) tx_actions.
Proof. solve_cosmos_tx_laws. Qed.

End store.
