(* ===== verification/GovStore.v ===== *)
(** * The client of the gov module

    The endpoints of module/rest.js, the transaction client of module/index.js
    and the store of index.js of cosmos.gov.v1beta1, over [CosmosStore.v]. *)
From S2P Require Import Prelude Js Protobuf Codec Fallible MessageTable CommonTypes CosmosBase GovTypes JsonText Uri Async RestClient ApiRoutes Pages VuexStore TxClient CosmosStore.
Open Scope Z_scope.

(** ** Endpoints *)

Section api.
Context {S : Type}.

Definition queryParams (c : HttpClient) (paramsType : js) (params : RequestParams)
    : proc FetchCall Response S HttpResponse :=
  request c (get_json ("/cosmos/gov/v1beta1/params/" +:+ js_String paramsType)
    Undefined params).

Definition queryProposals (c : HttpClient) (query : js) (params : RequestParams)
    : proc FetchCall Response S HttpResponse :=
  request c (get_json ("/cosmos/gov/v1beta1/proposals")
    query params).

Definition queryProposal (c : HttpClient) (proposalId : js) (params : RequestParams)
    : proc FetchCall Response S HttpResponse :=
  request c (get_json ("/cosmos/gov/v1beta1/proposals/" +:+ js_String proposalId)
    Undefined params).

Definition queryDeposits (c : HttpClient) (proposalId : js) (query : js) (params : RequestParams)
    : proc FetchCall Response S HttpResponse :=
  request c (get_json ("/cosmos/gov/v1beta1/proposals/" +:+ js_String proposalId +:+
      "/deposits")
    query params).

Definition queryDeposit (c : HttpClient) (proposalId depositor : js) (params : RequestParams)
    : proc FetchCall Response S HttpResponse :=
  request c (get_json ("/cosmos/gov/v1beta1/proposals/" +:+ js_String proposalId +:+
      "/deposits/" +:+ js_String depositor)
    Undefined params).

Definition queryTallyResult (c : HttpClient) (proposalId : js) (params : RequestParams)
    : proc FetchCall Response S HttpResponse :=
  request c (get_json ("/cosmos/gov/v1beta1/proposals/" +:+ js_String proposalId +:+ "/tally")
    Undefined params).

Definition queryVotes (c : HttpClient) (proposalId : js) (query : js) (params : RequestParams)
    : proc FetchCall Response S HttpResponse :=
  request c (get_json ("/cosmos/gov/v1beta1/proposals/" +:+ js_String proposalId +:+ "/votes")
    query params).

Definition queryVote (c : HttpClient) (proposalId voter : js) (params : RequestParams)
    : proc FetchCall Response S HttpResponse :=
  request c (get_json ("/cosmos/gov/v1beta1/proposals/" +:+ js_String proposalId +:+
      "/votes/" +:+ js_String voter)
    Undefined params).

End api.

(** ** Routes *)

(** A query of the module with the values of its path parameters. *)
Inductive endpoint : Set :=
| Params (paramsType : string)
| Proposals
| Proposal (proposalId : string)
| Deposits (proposalId : string)
| Deposit (proposalId depositor : string)
| TallyResult (proposalId : string)
| Votes (proposalId : string)
| Vote (proposalId voter : string).

(** The method call of an endpoint; a method that takes a query object is given
    [query]. *)
Definition endpoint_call {S : Type} (c : HttpClient) (e : endpoint) (query : js)
    : proc FetchCall Response S HttpResponse :=
  match e with
  | Params paramsType => queryParams c (Str paramsType) no_params
  | Proposals => queryProposals c query no_params
  | Proposal proposalId => queryProposal c (Str proposalId) no_params
  | Deposits proposalId => queryDeposits c (Str proposalId) query no_params
  | Deposit proposalId depositor => queryDeposit c (Str proposalId) (Str depositor) no_params
  | TallyResult proposalId => queryTallyResult c (Str proposalId) no_params
  | Votes proposalId => queryVotes c (Str proposalId) query no_params
  | Vote proposalId voter => queryVote c (Str proposalId) (Str voter) no_params
  end.

(** Whether the method takes a query object. *)
Definition endpoint_takes_query (e : endpoint) : bool :=
  match e with
  | Params _ => false
  | Proposals => true
  | Proposal _ => false
  | Deposits _ => true
  | Deposit _ _ => false
  | TallyResult _ => false
  | Votes _ => true
  | Vote _ _ => false
  end.

(** The segments of its route. *)
Definition endpoint_route (e : endpoint) : list string :=
  "cosmos" :: "gov" :: "v1beta1" ::
  match e with
  | Params paramsType => ["params"; paramsType]
  | Proposals => ["proposals"]
  | Proposal proposalId => ["proposals"; proposalId]
  | Deposits proposalId => ["proposals"; proposalId; "deposits"]
  | Deposit proposalId depositor => ["proposals"; proposalId; "deposits"; depositor]
  | TallyResult proposalId => ["proposals"; proposalId; "tally"]
  | Votes proposalId => ["proposals"; proposalId; "votes"]
  | Vote proposalId voter => ["proposals"; proposalId; "votes"; voter]
  end.

#[global] Program Instance routes : Routes endpoint :=
  {| api_call := endpoint_call; route := endpoint_route; takes_query := endpoint_takes_query |}.
Next Obligation. solve_route_path. Qed.
Next Obligation. by destruct e. Qed.

Lemma gov_route_inj e1 e2 : endpoint_route e1 = endpoint_route e2 → e1 = e2.
Proof. destruct e1, e2; simpl; intros H; simplify_eq; done. Qed.

(** ** Messages *)

(** The data of a message of the module, or [undefined]. *)
Inductive Msg : Type :=
| VMsgVoteWeighted (data : option MsgVoteWeighted.partial)
| VMsgSubmitProposal (data : option MsgSubmitProposal.partial)
| VMsgDeposit (data : option MsgDeposit.partial)
| VMsgVote (data : option MsgVote.partial).

Definition msgVoteWeighted (data : option MsgVoteWeighted.partial) : EncodeObject Msg :=
  mkEncode "/cosmos.gov.v1beta1.MsgVoteWeighted" (VMsgVoteWeighted data).

Definition msgSubmitProposal (data : option MsgSubmitProposal.partial) : EncodeObject Msg :=
  mkEncode "/cosmos.gov.v1beta1.MsgSubmitProposal" (VMsgSubmitProposal data).

Definition msgDeposit (data : option MsgDeposit.partial) : EncodeObject Msg :=
  mkEncode "/cosmos.gov.v1beta1.MsgDeposit" (VMsgDeposit data).

Definition msgVote (data : option MsgVote.partial) : EncodeObject Msg :=
  mkEncode "/cosmos.gov.v1beta1.MsgVote" (VMsgVote data).

(** The type table of the registry. *)
Definition types {PB : Protobuf} {PS : ProtobufSpec PB} : list (string * message_type) :=
  [("/cosmos.gov.v1beta1.MsgVoteWeighted", MsgVoteWeighted.message);
   ("/cosmos.gov.v1beta1.MsgSubmitProposal", MsgSubmitProposal.message);
   ("/cosmos.gov.v1beta1.MsgDeposit", MsgDeposit.message);
   ("/cosmos.gov.v1beta1.MsgVote", MsgVote.message)].

(** The same table, as the registry encodes the messages with it. *)
Definition registered_types {PB : Protobuf} {PS : ProtobufSpec PB} : list (string * GeneratedType Msg) :=
  [("/cosmos.gov.v1beta1.MsgVoteWeighted",
    Cosmos.row_type MsgVoteWeighted.message VMsgVoteWeighted (fun m => match m with VMsgVoteWeighted d => Some d | _ => None end));
   ("/cosmos.gov.v1beta1.MsgSubmitProposal",
    Cosmos.row_type MsgSubmitProposal.message VMsgSubmitProposal (fun m => match m with VMsgSubmitProposal d => Some d | _ => None end));
   ("/cosmos.gov.v1beta1.MsgDeposit",
    Cosmos.row_type MsgDeposit.message VMsgDeposit (fun m => match m with VMsgDeposit d => Some d | _ => None end));
   ("/cosmos.gov.v1beta1.MsgVote",
    Cosmos.row_type MsgVote.message VMsgVote (fun m => match m with VMsgVote d => Some d | _ => None end))].

(** ** Initial state *)

(** The properties of [T.fromPartial({})] in their order; an empty byte array is
    an object like an empty list. *)
Definition templates : list (string * list (string * js)) :=
  [("WeightedVoteOption",
     [("option", Num 0); ("weight", Str "")]);
   ("TextProposal",
     [("title", Str ""); ("description", Str "")]);
   ("Deposit",
     [("proposalId", Num 0); ("depositor", Str ""); ("amount", Arr [])]);
   ("Proposal",
     [("proposalId", Num 0); ("status", Num 0); ("totalDeposit", Arr []); ("content", Undefined);
      ("finalTallyResult", Undefined); ("submitTime", Undefined); ("depositEndTime", Undefined);
      ("votingStartTime", Undefined); ("votingEndTime", Undefined)]);
   ("TallyResult",
     [("yes", Str ""); ("abstain", Str ""); ("no", Str ""); ("noWithVeto", Str "")]);
   ("Vote",
     [("proposalId", Num 0); ("voter", Str ""); ("option", Num 0); ("options", Arr [])]);
   ("DepositParams",
     [("minDeposit", Arr []); ("maxDepositPeriod", Undefined)]);
   ("VotingParams",
     [("votingPeriod", Undefined)]);
   ("TallyParams",
     [("quorum", Arr []); ("threshold", Arr []); ("vetoThreshold", Arr [])])].

Definition cache_names : list string := ["Proposal"; "Proposals"; "Vote"; "Votes"; "Params"; "Deposit"; "Deposits"; "TallyResult"].

Definition getDefaultState : Cosmos.state := {|
  Cosmos.caches := empty_caches cache_names;
  Cosmos.Structure := map (fun t => (t.1, getStructure t.2)) templates;
  Cosmos.Subscriptions := [];
  Cosmos.objects := O;
|}.

(** ** Getters *)

Definition getProposal (s : Cosmos.state) (params : option (list (string * js))) : js :=
  Cosmos.get_cached "Proposal" s params.

Definition getProposals (s : Cosmos.state) (params : option (list (string * js))) : js :=
  Cosmos.get_cached "Proposals" s params.

Definition getVote (s : Cosmos.state) (params : option (list (string * js))) : js :=
  Cosmos.get_cached "Vote" s params.

Definition getVotes (s : Cosmos.state) (params : option (list (string * js))) : js :=
  Cosmos.get_cached "Votes" s params.

Definition getParams (s : Cosmos.state) (params : option (list (string * js))) : js :=
  Cosmos.get_cached "Params" s params.

Definition getDeposit (s : Cosmos.state) (params : option (list (string * js))) : js :=
  Cosmos.get_cached "Deposit" s params.

Definition getDeposits (s : Cosmos.state) (params : option (list (string * js))) : js :=
  Cosmos.get_cached "Deposits" s params.

Definition getTallyResult (s : Cosmos.state) (params : option (list (string * js))) : js :=
  Cosmos.get_cached "TallyResult" s params.

Section store.
Context {SV : SpVuex} {CJ : Cosmjs}.
Context (rootGetters : root_getters).
Abbreviation task := (proc FetchCall Response Cosmos.state).

(** ** Queries *)

(** The number of further pages a list query may ask for. *)
Variable max_pages : nat.

Definition fetch_Proposal (a : query_args) (key : js) : task js :=
  proposal_id ← of_result (get key "proposal_id");
  r ← queryProposal (initQueryClient rootGetters) proposal_id no_params;
  Ret r.(data).

Definition QueryProposal (payload : js) : task js :=
  Cosmos.query_action "Proposal" fetch_Proposal payload.

Definition all_Proposals (key query : js) : task HttpResponse :=
  queryProposals (initQueryClient rootGetters) query no_params.

Definition fetch_Proposals (a : query_args) (key : js) : task js :=
  Cosmos.fetch_all max_pages all_Proposals a key.

Definition QueryProposals (payload : js) : task js :=
  Cosmos.query_action "Proposals" fetch_Proposals payload.

Definition fetch_Vote (a : query_args) (key : js) : task js :=
  proposal_id ← of_result (get key "proposal_id");
  voter ← of_result (get key "voter");
  r ← queryVote (initQueryClient rootGetters) proposal_id voter no_params;
  Ret r.(data).

Definition QueryVote (payload : js) : task js :=
  Cosmos.query_action "Vote" fetch_Vote payload.

Definition all_Votes (key query : js) : task HttpResponse :=
  proposal_id ← of_result (get key "proposal_id");
  queryVotes (initQueryClient rootGetters) proposal_id query no_params.

Definition fetch_Votes (a : query_args) (key : js) : task js :=
  Cosmos.fetch_all max_pages all_Votes a key.

Definition QueryVotes (payload : js) : task js :=
  Cosmos.query_action "Votes" fetch_Votes payload.

Definition fetch_Params (a : query_args) (key : js) : task js :=
  params_type ← of_result (get key "params_type");
  r ← queryParams (initQueryClient rootGetters) params_type no_params;
  Ret r.(data).

Definition QueryParams (payload : js) : task js :=
  Cosmos.query_action "Params" fetch_Params payload.

Definition fetch_Deposit (a : query_args) (key : js) : task js :=
  proposal_id ← of_result (get key "proposal_id");
  depositor ← of_result (get key "depositor");
  r ← queryDeposit (initQueryClient rootGetters) proposal_id depositor no_params;
  Ret r.(data).

Definition QueryDeposit (payload : js) : task js :=
  Cosmos.query_action "Deposit" fetch_Deposit payload.

Definition all_Deposits (key query : js) : task HttpResponse :=
  proposal_id ← of_result (get key "proposal_id");
  queryDeposits (initQueryClient rootGetters) proposal_id query no_params.

Definition fetch_Deposits (a : query_args) (key : js) : task js :=
  Cosmos.fetch_all max_pages all_Deposits a key.

Definition QueryDeposits (payload : js) : task js :=
  Cosmos.query_action "Deposits" fetch_Deposits payload.

Definition fetch_TallyResult (a : query_args) (key : js) : task js :=
  proposal_id ← of_result (get key "proposal_id");
  r ← queryTallyResult (initQueryClient rootGetters) proposal_id no_params;
  Ret r.(data).

Definition QueryTallyResult (payload : js) : task js :=
  Cosmos.query_action "TallyResult" fetch_TallyResult payload.

(** The fetch of each query, by the name of its cache. *)
Definition fetchers : list (string * (query_args → js → task js)) :=
  [("Proposal", fetch_Proposal);
   ("Proposals", fetch_Proposals);
   ("Vote", fetch_Vote);
   ("Votes", fetch_Votes);
   ("Params", fetch_Params);
   ("Deposit", fetch_Deposit);
   ("Deposits", fetch_Deposits);
   ("TallyResult", fetch_TallyResult)].

(** The query actions by name, as [dispatch] finds them. *)
Definition query_actions : list (string * (js → task js)) :=
  [("QueryProposal", QueryProposal);
   ("QueryProposals", QueryProposals);
   ("QueryVote", QueryVote);
   ("QueryVotes", QueryVotes);
   ("QueryParams", QueryParams);
   ("QueryDeposit", QueryDeposit);
   ("QueryDeposits", QueryDeposits);
   ("QueryTallyResult", QueryTallyResult)].

(** The list queries, with the method each one calls. *)
Definition list_queries : list (string * (js → js → task HttpResponse)) :=
  [("Proposals", all_Proposals);
   ("Votes", all_Votes);
   ("Deposits", all_Deposits)].

(** The store of the module, see [CosmosStore.v]. *)
Definition store : Cosmos.StoreModule :=
  Cosmos.mkModule cache_names fetchers query_actions list_queries max_pages getDefaultState.

#[global] Instance store_laws : Cosmos.StoreLaws store.
Proof. solve_cosmos_laws. Qed.

(** ** Transactions *)

(** [new Registry(types)] *)
Definition registry {PB : Protobuf} {PS : ProtobufSpec PB} : TypeRegistry Msg :=
  newRegistry registered_types.

Definition sendMsgVoteWeighted {PB : Protobuf} {PS : ProtobufSpec PB}
    (args : send_args MsgVoteWeighted.partial) : result js :=
  Cosmos.send_msg rootGetters registry "MsgVoteWeighted" msgVoteWeighted args.

Definition sendMsgSubmitProposal {PB : Protobuf} {PS : ProtobufSpec PB}
    (args : send_args MsgSubmitProposal.partial) : result js :=
  Cosmos.send_msg rootGetters registry "MsgSubmitProposal" msgSubmitProposal args.

Definition sendMsgDeposit {PB : Protobuf} {PS : ProtobufSpec PB}
    (args : send_args MsgDeposit.partial) : result js :=
  Cosmos.send_msg rootGetters registry "MsgDeposit" msgDeposit args.

Definition sendMsgVote {PB : Protobuf} {PS : ProtobufSpec PB}
    (args : send_args MsgVote.partial) : result js :=
  Cosmos.send_msg rootGetters registry "MsgVote" msgVote args.

Definition createMsgVoteWeighted {PB : Protobuf} {PS : ProtobufSpec PB}
    (value : option MsgVoteWeighted.partial) : result (EncodeObject Msg) :=
  Cosmos.create_msg rootGetters registry "MsgVoteWeighted" msgVoteWeighted value.

Definition createMsgSubmitProposal {PB : Protobuf} {PS : ProtobufSpec PB}
    (value : option MsgSubmitProposal.partial) : result (EncodeObject Msg) :=
  Cosmos.create_msg rootGetters registry "MsgSubmitProposal" msgSubmitProposal value.

Definition createMsgDeposit {PB : Protobuf} {PS : ProtobufSpec PB}
    (value : option MsgDeposit.partial) : result (EncodeObject Msg) :=
  Cosmos.create_msg rootGetters registry "MsgDeposit" msgDeposit value.

Definition createMsgVote {PB : Protobuf} {PS : ProtobufSpec PB}
    (value : option MsgVote.partial) : result (EncodeObject Msg) :=
  Cosmos.create_msg rootGetters registry "MsgVote" msgVote value.

(** The message types with their actions. *)
Definition tx_actions {PB : Protobuf} {PS : ProtobufSpec PB} : list (Cosmos.tx_action Msg) :=
  [Cosmos.mkTxAction Msg "MsgVoteWeighted" MsgVoteWeighted.message msgVoteWeighted sendMsgVoteWeighted createMsgVoteWeighted;
   Cosmos.mkTxAction Msg "MsgSubmitProposal" MsgSubmitProposal.message msgSubmitProposal sendMsgSubmitProposal createMsgSubmitProposal;
   Cosmos.mkTxAction Msg "MsgDeposit" MsgDeposit.message msgDeposit sendMsgDeposit createMsgDeposit;
   Cosmos.mkTxAction Msg "MsgVote" MsgVote.message msgVote sendMsgVote createMsgVote].

Lemma gov_tx_laws {PB : Protobuf} {PS : ProtobufSpec PB} :
  Forall (Cosmos.tx_lawful rootGetters types registered_types) tx_actions.
Proof. solve_cosmos_tx_laws. Qed.

End store.
