(* ===== verification/SlashingStore.v ===== *)
(** * The client of the slashing module

    The endpoints of module/rest.js, the transaction client of module/index.js
    and the store of index.js of cosmos.slashing.v1beta1, over [CosmosStore.v]. *)
From S2P Require Import Prelude Js Protobuf Codec Fallible MessageTable SlashingTypes JsonText Uri Async RestClient ApiRoutes Pages VuexStore TxClient CosmosStore.
Open Scope Z_scope.

(** ** Endpoints *)

Section api.
Context {S : Type}.

Definition queryParams (c : HttpClient) (params : RequestParams)
    : proc FetchCall Response S HttpResponse :=
  request c (get_json ("/cosmos/slashing/v1beta1/params")
    Undefined params).

Definition querySigningInfos (c : HttpClient) (query : js) (params : RequestParams)
    : proc FetchCall Response S HttpResponse :=
  request c (get_json ("/cosmos/slashing/v1beta1/signing_infos")
    query params).

Definition querySigningInfo (c : HttpClient) (consAddress : js) (params : RequestParams)
    : proc FetchCall Response S HttpResponse :=
  request c (get_json ("/cosmos/slashing/v1beta1/signing_infos/" +:+ js_String consAddress)
    Undefined params).

End api.

(** ** Routes *)

(** A query of the module with the values of its path parameters. *)
Inductive endpoint : Set :=
| Params
| SigningInfos
| SigningInfo (consAddress : string).

(** The method call of an endpoint; a method that takes a query object is given
    [query]. *)
Definition endpoint_call {S : Type} (c : HttpClient) (e : endpoint) (query : js)
    : proc FetchCall Response S HttpResponse :=
  match e with
  | Params => queryParams c no_params
  | SigningInfos => querySigningInfos c query no_params
  | SigningInfo consAddress => querySigningInfo c (Str consAddress) no_params
  end.

(** Whether the method takes a query object. *)
Definition endpoint_takes_query (e : endpoint) : bool :=
  match e with
  | Params => false
  | SigningInfos => true
  | SigningInfo _ => false
  end.

(** The segments of its route. *)
Definition endpoint_route (e : endpoint) : list string :=
  "cosmos" :: "slashing" :: "v1beta1" ::
  match e with
  | Params => ["params"]
  | SigningInfos => ["signing_infos"]
  | SigningInfo consAddress => ["signing_infos"; consAddress]
  end.

#[global] Program Instance routes : Routes endpoint :=
  {| api_call := endpoint_call; route := endpoint_route; takes_query := endpoint_takes_query |}.
Next Obligation. solve_route_path. Qed.
Next Obligation. by destruct e. Qed.

Lemma slashing_route_inj e1 e2 : endpoint_route e1 = endpoint_route e2 → e1 = e2.
Proof. destruct e1, e2; simpl; intros H; simplify_eq; done. Qed.

(** ** Messages *)

(** The data of a message of the module, or [undefined]. *)
Inductive Msg : Type :=
| VMsgUnjail (data : option MsgUnjail.partial).

Definition msgUnjail (data : option MsgUnjail.partial) : EncodeObject Msg :=
  mkEncode "/cosmos.slashing.v1beta1.MsgUnjail" (VMsgUnjail data).

(** The type table of the registry. *)
Definition types {PB : Protobuf} {PS : ProtobufSpec PB} : list (string * message_type) :=
  [("/cosmos.slashing.v1beta1.MsgUnjail", MsgUnjail.message)].

(** The same table, as the registry encodes the messages with it. *)
Definition registered_types {PB : Protobuf} {PS : ProtobufSpec PB} : list (string * GeneratedType Msg) :=
  [("/cosmos.slashing.v1beta1.MsgUnjail",
    Cosmos.row_type MsgUnjail.message VMsgUnjail (fun m => match m with VMsgUnjail d => Some d end))].

(** ** Initial state *)

(** The properties of [T.fromPartial({})] in their order; an empty byte array is
    an object like an empty list. *)
Definition templates : list (string * list (string * js)) :=
  [("SigningInfo",
     [("address", Str ""); ("validatorSigningInfo", Undefined)]);
   ("ValidatorMissedBlocks",
     [("address", Str ""); ("missedBlocks", Arr [])]);
   ("MissedBlock",
     [("index", Num 0); ("missed", Bool false)]);
   ("ValidatorSigningInfo",
     [("address", Str ""); ("startHeight", Num 0); ("indexOffset", Num 0);
      ("tombstoned", Bool false); ("missedBlocksCounter", Num 0); ("jailedUntil", Undefined)]);
   ("Params",
     [("signedBlocksWindow", Num 0); ("minSignedPerWindow", Arr []);
      ("downtimeJailDuration", Undefined); ("slashFractionDoubleSign", Arr []);
      ("slashFractionDowntime", Arr [])])].

Definition cache_names : list string := ["Params"; "SigningInfo"; "SigningInfos"].

Definition getDefaultState : Cosmos.state := {|
  Cosmos.caches := empty_caches cache_names;
  Cosmos.Structure := map (fun t => (t.1, getStructure t.2)) templates;
  Cosmos.Subscriptions := [];
  Cosmos.objects := O;
|}.

(** ** Getters *)

Definition getParams (s : Cosmos.state) (params : option (list (string * js))) : js :=
  Cosmos.get_cached "Params" s params.

Definition getSigningInfo (s : Cosmos.state) (params : option (list (string * js))) : js :=
  Cosmos.get_cached "SigningInfo" s params.

Definition getSigningInfos (s : Cosmos.state) (params : option (list (string * js))) : js :=
  Cosmos.get_cached "SigningInfos" s params.

Section store.
Context {SV : SpVuex} {CJ : Cosmjs}.
Context (rootGetters : root_getters).
Abbreviation task := (proc FetchCall Response Cosmos.state).

(** ** Queries *)

(** The number of further pages a list query may ask for. *)
Variable max_pages : nat.

Definition fetch_Params (a : query_args) (key : js) : task js :=
  r ← queryParams (initQueryClient rootGetters) no_params;
  Ret r.(data).

Definition QueryParams (payload : js) : task js :=
  Cosmos.query_action "Params" fetch_Params payload.

Definition fetch_SigningInfo (a : query_args) (key : js) : task js :=
  cons_address ← of_result (get key "cons_address");
  r ← querySigningInfo (initQueryClient rootGetters) cons_address no_params;
  Ret r.(data).

Definition QuerySigningInfo (payload : js) : task js :=
  Cosmos.query_action "SigningInfo" fetch_SigningInfo payload.

Definition all_SigningInfos (key query : js) : task HttpResponse :=
  querySigningInfos (initQueryClient rootGetters) query no_params.

Definition fetch_SigningInfos (a : query_args) (key : js) : task js :=
  Cosmos.fetch_all max_pages all_SigningInfos a key.

Definition QuerySigningInfos (payload : js) : task js :=
  Cosmos.query_action "SigningInfos" fetch_SigningInfos payload.

(** The fetch of each query, by the name of its cache. *)
Definition fetchers : list (string * (query_args → js → task js)) :=
  [("Params", fetch_Params);
   ("SigningInfo", fetch_SigningInfo);
   ("SigningInfos", fetch_SigningInfos)].

(** The query actions by name, as [dispatch] finds them. *)
Definition query_actions : list (string * (js → task js)) :=
  [("QueryParams", QueryParams);
   ("QuerySigningInfo", QuerySigningInfo);
   ("QuerySigningInfos", QuerySigningInfos)].

(** The list queries, with the method each one calls. *)
Definition list_queries : list (string * (js → js → task HttpResponse)) :=
  [("SigningInfos", all_SigningInfos)].

(** The store of the module, see [CosmosStore.v]. *)
Definition store : Cosmos.StoreModule :=
  Cosmos.mkModule cache_names fetchers query_actions list_queries max_pages getDefaultState.

#[global] Instance store_laws : Cosmos.StoreLaws store.
Proof. solve_cosmos_laws. Qed.

(** ** Transactions *)

(** [new Registry(types)] *)
Definition registry {PB : Protobuf} {PS : ProtobufSpec PB} : TypeRegistry Msg :=
  newRegistry registered_types.

Definition sendMsgUnjail {PB : Protobuf} {PS : ProtobufSpec PB}
    (args : send_args MsgUnjail.partial) : result js :=
  Cosmos.send_msg rootGetters registry "MsgUnjail" msgUnjail args.

Definition createMsgUnjail {PB : Protobuf} {PS : ProtobufSpec PB}
    (value : option MsgUnjail.partial) : result (EncodeObject Msg) :=
  Cosmos.create_msg rootGetters registry "MsgUnjail" msgUnjail value.

(** The message types with their actions. *)
Definition tx_actions {PB : Protobuf} {PS : ProtobufSpec PB} : list (Cosmos.tx_action Msg) :=
  [Cosmos.mkTxAction Msg "MsgUnjail" MsgUnjail.message msgUnjail sendMsgUnjail createMsgUnjail].

Lemma slashing_tx_laws {PB : Protobuf} {PS : ProtobufSpec PB} :
  Forall (Cosmos.tx_lawful rootGetters types registered_types) tx_actions.
Proof. solve_cosmos_tx_laws. Qed.

End store.
