(* ===== verification/StakingStore.v ===== *)
(** * The client of the staking module

    The endpoints of module/rest.js, the transaction client of module/index.js
    and the store of index.js of cosmos.staking.v1beta1, over [CosmosStore.v]. *)
From S2P Require Import Prelude Js Protobuf Codec Fallible MessageTable CommonTypes CosmosBase TendermintTypes StakingTypes JsonText Uri Async RestClient ApiRoutes Pages VuexStore TxClient CosmosStore.
Open Scope Z_scope.

(** ** Endpoints *)

Section api.
Context {S : Type}.

Definition queryDelegatorDelegations (c : HttpClient) (delegatorAddr : js) (query : js) (params : RequestParams)
    : proc FetchCall Response S HttpResponse :=
  request c (get_json ("/cosmos/staking/v1beta1/delegations/" +:+ js_String delegatorAddr)
    query params).

Definition queryRedelegations (c : HttpClient) (delegatorAddr : js) (query : js) (params : RequestParams)
    : proc FetchCall Response S HttpResponse :=
  request c (get_json ("/cosmos/staking/v1beta1/delegators/" +:+ js_String delegatorAddr +:+
      "/redelegations")
    query params).

Definition queryDelegatorUnbondingDelegations (c : HttpClient) (delegatorAddr : js) (query : js) (params : RequestParams)
    : proc FetchCall Response S HttpResponse :=
  request c (get_json ("/cosmos/staking/v1beta1/delegators/" +:+ js_String delegatorAddr +:+
      "/unbonding_delegations")
    query params).

Definition queryDelegatorValidators (c : HttpClient) (delegatorAddr : js) (query : js) (params : RequestParams)
    : proc FetchCall Response S HttpResponse :=
  request c (get_json ("/cosmos/staking/v1beta1/delegators/" +:+ js_String delegatorAddr +:+
      "/validators")
    query params).

Definition queryDelegatorValidator (c : HttpClient) (delegatorAddr validatorAddr : js) (params : RequestParams)
    : proc FetchCall Response S HttpResponse :=
  request c (get_json ("/cosmos/staking/v1beta1/delegators/" +:+ js_String delegatorAddr +:+
      "/validators/" +:+ js_String validatorAddr)
    Undefined params).

Definition queryHistoricalInfo (c : HttpClient) (height : js) (params : RequestParams)
    : proc FetchCall Response S HttpResponse :=
  request c (get_json ("/cosmos/staking/v1beta1/historical_info/" +:+ js_String height)
    Undefined params).

Definition queryParams (c : HttpClient) (params : RequestParams)
    : proc FetchCall Response S HttpResponse :=
  request c (get_json ("/cosmos/staking/v1beta1/params")
    Undefined params).

Definition queryPool (c : HttpClient) (params : RequestParams)
    : proc FetchCall Response S HttpResponse :=
  request c (get_json ("/cosmos/staking/v1beta1/pool")
    Undefined params).

Definition queryValidators (c : HttpClient) (query : js) (params : RequestParams)
    : proc FetchCall Response S HttpResponse :=
  request c (get_json ("/cosmos/staking/v1beta1/validators")
    query params).

Definition queryValidator (c : HttpClient) (validatorAddr : js) (params : RequestParams)
    : proc FetchCall Response S HttpResponse :=
  request c (get_json ("/cosmos/staking/v1beta1/validators/" +:+ js_String validatorAddr)
    Undefined params).

Definition queryValidatorDelegations (c : HttpClient) (validatorAddr : js) (query : js) (params : RequestParams)
    : proc FetchCall Response S HttpResponse :=
  request c (get_json ("/cosmos/staking/v1beta1/validators/" +:+ js_String validatorAddr +:+
      "/delegations")
    query params).

Definition queryDelegation (c : HttpClient) (validatorAddr delegatorAddr : js) (params : RequestParams)
    : proc FetchCall Response S HttpResponse :=
  request c (get_json ("/cosmos/staking/v1beta1/validators/" +:+ js_String validatorAddr +:+
      "/delegations/" +:+ js_String delegatorAddr)
    Undefined params).

Definition queryUnbondingDelegation (c : HttpClient) (validatorAddr delegatorAddr : js) (params : RequestParams)
    : proc FetchCall Response S HttpResponse :=
  request c (get_json ("/cosmos/staking/v1beta1/validators/" +:+ js_String validatorAddr +:+
      "/delegations/" +:+ js_String delegatorAddr +:+ "/unbonding_delegation")
    Undefined params).

Definition queryValidatorUnbondingDelegations (c : HttpClient) (validatorAddr : js) (query : js) (params : RequestParams)
    : proc FetchCall Response S HttpResponse :=
  request c (get_json ("/cosmos/staking/v1beta1/validators/" +:+ js_String validatorAddr +:+
      "/unbonding_delegations")
    query params).

End api.

(** ** Routes *)

(** A query of the module with the values of its path parameters. *)
Inductive endpoint : Set :=
| DelegatorDelegations (delegatorAddr : string)
| Redelegations (delegatorAddr : string)
| DelegatorUnbondingDelegations (delegatorAddr : string)
| DelegatorValidators (delegatorAddr : string)
| DelegatorValidator (delegatorAddr validatorAddr : string)
| HistoricalInfo (height : string)
| Params
| Pool
| Validators
| Validator (validatorAddr : string)
| ValidatorDelegations (validatorAddr : string)
| Delegation (validatorAddr delegatorAddr : string)
| UnbondingDelegation (validatorAddr delegatorAddr : string)
| ValidatorUnbondingDelegations (validatorAddr : string).

(** The method call of an endpoint; a method that takes a query object is given
    [query]. *)
Definition endpoint_call {S : Type} (c : HttpClient) (e : endpoint) (query : js)
    : proc FetchCall Response S HttpResponse :=
  match e with
  | DelegatorDelegations delegatorAddr => queryDelegatorDelegations c (Str delegatorAddr) query no_params
  | Redelegations delegatorAddr => queryRedelegations c (Str delegatorAddr) query no_params
  | DelegatorUnbondingDelegations delegatorAddr => queryDelegatorUnbondingDelegations c (Str delegatorAddr) query no_params
  | DelegatorValidators delegatorAddr => queryDelegatorValidators c (Str delegatorAddr) query no_params
  | DelegatorValidator delegatorAddr validatorAddr => queryDelegatorValidator c (Str delegatorAddr) (Str validatorAddr) no_params
  | HistoricalInfo height => queryHistoricalInfo c (Str height) no_params
  | Params => queryParams c no_params
  | Pool => queryPool c no_params
  | Validators => queryValidators c query no_params
  | Validator validatorAddr => queryValidator c (Str validatorAddr) no_params
  | ValidatorDelegations validatorAddr => queryValidatorDelegations c (Str validatorAddr) query no_params
  | Delegation validatorAddr delegatorAddr => queryDelegation c (Str validatorAddr) (Str delegatorAddr) no_params
  | UnbondingDelegation validatorAddr delegatorAddr => queryUnbondingDelegation c (Str validatorAddr) (Str delegatorAddr) no_params
  | ValidatorUnbondingDelegations validatorAddr => queryValidatorUnbondingDelegations c (Str validatorAddr) query no_params
  end.

(** Whether the method takes a query object. *)
Definition endpoint_takes_query (e : endpoint) : bool :=
  match e with
  | DelegatorDelegations _ => true
  | Redelegations _ => true
  | DelegatorUnbondingDelegations _ => true
  | DelegatorValidators _ => true
  | DelegatorValidator _ _ => false
  | HistoricalInfo _ => false
  | Params => false
  | Pool => false
  | Validators => true
  | Validator _ => false
  | ValidatorDelegations _ => true
  | Delegation _ _ => false
  | UnbondingDelegation _ _ => false
  | ValidatorUnbondingDelegations _ => true
  end.

(** The segments of its route. *)
Definition endpoint_route (e : endpoint) : list string :=
  "cosmos" :: "staking" :: "v1beta1" ::
  match e with
  | DelegatorDelegations delegatorAddr => ["delegations"; delegatorAddr]
  | Redelegations delegatorAddr => ["delegators"; delegatorAddr; "redelegations"]
  | DelegatorUnbondingDelegations delegatorAddr => ["delegators"; delegatorAddr; "unbonding_delegations"]
  | DelegatorValidators delegatorAddr => ["delegators"; delegatorAddr; "validators"]
  | DelegatorValidator delegatorAddr validatorAddr => ["delegators"; delegatorAddr; "validators"; validatorAddr]
  | HistoricalInfo height => ["historical_info"; height]
  | Params => ["params"]
  | Pool => ["pool"]
  | Validators => ["validators"]
  | Validator validatorAddr => ["validators"; validatorAddr]
  | ValidatorDelegations validatorAddr => ["validators"; validatorAddr; "delegations"]
  | Delegation validatorAddr delegatorAddr => ["validators"; validatorAddr; "delegations"; delegatorAddr]
  | UnbondingDelegation validatorAddr delegatorAddr => ["validators"; validatorAddr; "delegations"; delegatorAddr; "unbonding_delegation"]
  | ValidatorUnbondingDelegations validatorAddr => ["validators"; validatorAddr; "unbonding_delegations"]
  end.

#[global] Program Instance routes : Routes endpoint :=
  {| api_call := endpoint_call; route := endpoint_route; takes_query := endpoint_takes_query |}.
Next Obligation. solve_route_path. Qed.
Next Obligation. by destruct e. Qed.

Lemma staking_route_inj e1 e2 : endpoint_route e1 = endpoint_route e2 → e1 = e2.
Proof. destruct e1, e2; simpl; intros H; simplify_eq; done. Qed.

(** ** Messages *)

(** The data of a message of the module, or [undefined]. *)
Inductive Msg : Type :=
| VMsgUndelegate (data : option MsgUndelegate.partial)
| VMsgEditValidator (data : option MsgEditValidator.partial)
| VMsgBeginRedelegate (data : option MsgBeginRedelegate.partial)
| VMsgCreateValidator (data : option MsgCreateValidator.partial)
| VMsgDelegate (data : option MsgDelegate.partial).

Definition msgUndelegate (data : option MsgUndelegate.partial) : EncodeObject Msg :=
  mkEncode "/cosmos.staking.v1beta1.MsgUndelegate" (VMsgUndelegate data).

Definition msgEditValidator (data : option MsgEditValidator.partial) : EncodeObject Msg :=
  mkEncode "/cosmos.staking.v1beta1.MsgEditValidator" (VMsgEditValidator data).

Definition msgBeginRedelegate (data : option MsgBeginRedelegate.partial) : EncodeObject Msg :=
  mkEncode "/cosmos.staking.v1beta1.MsgBeginRedelegate" (VMsgBeginRedelegate data).

Definition msgCreateValidator (data : option MsgCreateValidator.partial) : EncodeObject Msg :=
  mkEncode "/cosmos.staking.v1beta1.MsgCreateValidator" (VMsgCreateValidator data).

Definition msgDelegate (data : option MsgDelegate.partial) : EncodeObject Msg :=
  mkEncode "/cosmos.staking.v1beta1.MsgDelegate" (VMsgDelegate data).

(** The type table of the registry. *)
Definition types {PB : Protobuf} {PS : ProtobufSpec PB} : list (string * message_type) :=
  [("/cosmos.staking.v1beta1.MsgUndelegate", MsgUndelegate.message);
   ("/cosmos.staking.v1beta1.MsgEditValidator", MsgEditValidator.message);
   ("/cosmos.staking.v1beta1.MsgBeginRedelegate", MsgBeginRedelegate.message);
   ("/cosmos.staking.v1beta1.MsgCreateValidator", MsgCreateValidator.message);
   ("/cosmos.staking.v1beta1.MsgDelegate", MsgDelegate.message)].

(** The same table, as the registry encodes the messages with it. *)
Definition registered_types {PB : Protobuf} {PS : ProtobufSpec PB} : list (string * GeneratedType Msg) :=
  [("/cosmos.staking.v1beta1.MsgUndelegate",
    Cosmos.row_type MsgUndelegate.message VMsgUndelegate (fun m => match m with VMsgUndelegate d => Some d | _ => None end));
   ("/cosmos.staking.v1beta1.MsgEditValidator",
    Cosmos.row_type MsgEditValidator.message VMsgEditValidator (fun m => match m with VMsgEditValidator d => Some d | _ => None end));
   ("/cosmos.staking.v1beta1.MsgBeginRedelegate",
    Cosmos.row_type MsgBeginRedelegate.message VMsgBeginRedelegate (fun m => match m with VMsgBeginRedelegate d => Some d | _ => None end));
   ("/cosmos.staking.v1beta1.MsgCreateValidator",
    Cosmos.row_type MsgCreateValidator.message VMsgCreateValidator (fun m => match m with VMsgCreateValidator d => Some d | _ => None end));
   ("/cosmos.staking.v1beta1.MsgDelegate",
    Cosmos.row_type MsgDelegate.message VMsgDelegate (fun m => match m with VMsgDelegate d => Some d | _ => None end))].

(** ** Initial state *)

(** The properties of [T.fromPartial({})] in their order; an empty byte array is
    an object like an empty list. *)
Definition templates : list (string * list (string * js)) :=
  [("StakeAuthorization",
     [("authorizationType", Num 0); ("maxTokens", Undefined); ("allowList", Undefined);
      ("denyList", Undefined)]);
   ("StakeAuthorization_Validators",
     [("address", Arr [])]);
   ("LastValidatorPower",
     [("address", Str ""); ("power", Num 0)]);
   ("HistoricalInfo",
     [("valset", Arr []); ("header", Undefined)]);
   ("CommissionRates",
     [("rate", Str ""); ("maxRate", Str ""); ("maxChangeRate", Str "")]);
   ("Commission",
     [("commissionRates", Undefined); ("updateTime", Undefined)]);
   ("Description",
     [("moniker", Str ""); ("identity", Str ""); ("website", Str ""); ("securityContact", Str "");
      ("details", Str "")]);
   ("Validator",
     [("operatorAddress", Str ""); ("jailed", Bool false); ("status", Num 0); ("tokens", Str "");
      ("delegatorShares", Str ""); ("unbondingHeight", Num 0); ("minSelfDelegation", Str "");
      ("consensusPubkey", Undefined); ("description", Undefined); ("unbondingTime", Undefined);
      ("commission", Undefined)]);
   ("ValAddresses",
     [("addresses", Arr [])]);
   ("DVPair",
     [("delegatorAddress", Str ""); ("validatorAddress", Str "")]);
   ("DVPairs",
     [("pairs", Arr [])]);
   ("DVVTriplet",
     [("delegatorAddress", Str ""); ("validatorSrcAddress", Str "");
      ("validatorDstAddress", Str "")]);
   ("DVVTriplets",
     [("triplets", Arr [])]);
   ("Delegation",
     [("delegatorAddress", Str ""); ("validatorAddress", Str ""); ("shares", Str "")]);
   ("UnbondingDelegation",
     [("delegatorAddress", Str ""); ("validatorAddress", Str ""); ("entries", Arr [])]);
   ("UnbondingDelegationEntry",
     [("creationHeight", Num 0); ("initialBalance", Str ""); ("balance", Str "");
      ("completionTime", Undefined)]);
   ("RedelegationEntry",
     [("creationHeight", Num 0); ("initialBalance", Str ""); ("sharesDst", Str "");
      ("completionTime", Undefined)]);
   ("Redelegation",
     [("delegatorAddress", Str ""); ("validatorSrcAddress", Str "");
      ("validatorDstAddress", Str ""); ("entries", Arr [])]);
   ("Params",
     [("maxValidators", Num 0); ("maxEntries", Num 0); ("historicalEntries", Num 0);
      ("bondDenom", Str ""); ("unbondingTime", Undefined)]);
   ("DelegationResponse",
     [("delegation", Undefined); ("balance", Undefined)]);
   ("RedelegationEntryResponse",
     [("balance", Str ""); ("redelegationEntry", Undefined)]);
   ("RedelegationResponse",
     [("entries", Arr []); ("redelegation", Undefined)]);
   ("Pool",
     [("notBondedTokens", Str ""); ("bondedTokens", Str "")])].

Definition cache_names : list string := ["Validators"; "Validator"; "ValidatorDelegations"; "ValidatorUnbondingDelegations";
   "Delegation"; "UnbondingDelegation"; "DelegatorDelegations"; "DelegatorUnbondingDelegations";
   "Redelegations"; "DelegatorValidators"; "DelegatorValidator"; "HistoricalInfo"; "Pool";
   "Params"].

Definition getDefaultState : Cosmos.state := {|
  Cosmos.caches := empty_caches cache_names;
  Cosmos.Structure := map (fun t => (t.1, getStructure t.2)) templates;
  Cosmos.Subscriptions := [];
  Cosmos.objects := O;
|}.

(** ** Getters *)

Definition getValidators (s : Cosmos.state) (params : option (list (string * js))) : js :=
  Cosmos.get_cached "Validators" s params.

Definition getValidator (s : Cosmos.state) (params : option (list (string * js))) : js :=
  Cosmos.get_cached "Validator" s params.

Definition getValidatorDelegations (s : Cosmos.state) (params : option (list (string * js))) : js :=
  Cosmos.get_cached "ValidatorDelegations" s params.

Definition getValidatorUnbondingDelegations (s : Cosmos.state) (params : option (list (string * js))) : js :=
  Cosmos.get_cached "ValidatorUnbondingDelegations" s params.

Definition getDelegation (s : Cosmos.state) (params : option (list (string * js))) : js :=
  Cosmos.get_cached "Delegation" s params.

Definition getUnbondingDelegation (s : Cosmos.state) (params : option (list (string * js))) : js :=
  Cosmos.get_cached "UnbondingDelegation" s params.

Definition getDelegatorDelegations (s : Cosmos.state) (params : option (list (string * js))) : js :=
  Cosmos.get_cached "DelegatorDelegations" s params.

Definition getDelegatorUnbondingDelegations (s : Cosmos.state) (params : option (list (string * js))) : js :=
  Cosmos.get_cached "DelegatorUnbondingDelegations" s params.

Definition getRedelegations (s : Cosmos.state) (params : option (list (string * js))) : js :=
  Cosmos.get_cached "Redelegations" s params.

Definition getDelegatorValidators (s : Cosmos.state) (params : option (list (string * js))) : js :=
  Cosmos.get_cached "DelegatorValidators" s params.

Definition getDelegatorValidator (s : Cosmos.state) (params : option (list (string * js))) : js :=
  Cosmos.get_cached "DelegatorValidator" s params.

Definition getHistoricalInfo (s : Cosmos.state) (params : option (list (string * js))) : js :=
  Cosmos.get_cached "HistoricalInfo" s params.

Definition getPool (s : Cosmos.state) (params : option (list (string * js))) : js :=
  Cosmos.get_cached "Pool" s params.

Definition getParams (s : Cosmos.state) (params : option (list (string * js))) : js :=
  Cosmos.get_cached "Params" s params.

Section store.
Context {SV : SpVuex} {CJ : Cosmjs}.
Context (rootGetters : root_getters).
Abbreviation task := (proc FetchCall Response Cosmos.state).

(** ** Queries *)

(** The number of further pages a list query may ask for. *)
Variable max_pages : nat.

Definition all_Validators (key query : js) : task HttpResponse :=
  queryValidators (initQueryClient rootGetters) query no_params.

Definition fetch_Validators (a : query_args) (key : js) : task js :=
  Cosmos.fetch_all max_pages all_Validators a key.

Definition QueryValidators (payload : js) : task js :=
  Cosmos.query_action "Validators" fetch_Validators payload.

Definition fetch_Validator (a : query_args) (key : js) : task js :=
  validator_addr ← of_result (get key "validator_addr");
  r ← queryValidator (initQueryClient rootGetters) validator_addr no_params;
  Ret r.(data).

Definition QueryValidator (payload : js) : task js :=
  Cosmos.query_action "Validator" fetch_Validator payload.

Definition all_ValidatorDelegations (key query : js) : task HttpResponse :=
  validator_addr ← of_result (get key "validator_addr");
  queryValidatorDelegations (initQueryClient rootGetters) validator_addr query no_params.

Definition fetch_ValidatorDelegations (a : query_args) (key : js) : task js :=
  Cosmos.fetch_all max_pages all_ValidatorDelegations a key.

Definition QueryValidatorDelegations (payload : js) : task js :=
  Cosmos.query_action "ValidatorDelegations" fetch_ValidatorDelegations payload.

Definition all_ValidatorUnbondingDelegations (key query : js) : task HttpResponse :=
  validator_addr ← of_result (get key "validator_addr");
  queryValidatorUnbondingDelegations (initQueryClient rootGetters) validator_addr query no_params.

Definition fetch_ValidatorUnbondingDelegations (a : query_args) (key : js) : task js :=
  Cosmos.fetch_all max_pages all_ValidatorUnbondingDelegations a key.

Definition QueryValidatorUnbondingDelegations (payload : js) : task js :=
  Cosmos.query_action "ValidatorUnbondingDelegations" fetch_ValidatorUnbondingDelegations payload.

Definition fetch_Delegation (a : query_args) (key : js) : task js :=
  validator_addr ← of_result (get key "validator_addr");
  delegator_addr ← of_result (get key "delegator_addr");
  r ← queryDelegation (initQueryClient rootGetters) validator_addr delegator_addr no_params;
  Ret r.(data).

Definition QueryDelegation (payload : js) : task js :=
  Cosmos.query_action "Delegation" fetch_Delegation payload.

Definition fetch_UnbondingDelegation (a : query_args) (key : js) : task js :=
  validator_addr ← of_result (get key "validator_addr");
  delegator_addr ← of_result (get key "delegator_addr");
  r ← queryUnbondingDelegation (initQueryClient rootGetters) validator_addr delegator_addr no_params;
  Ret r.(data).

Definition QueryUnbondingDelegation (payload : js) : task js :=
  Cosmos.query_action "UnbondingDelegation" fetch_UnbondingDelegation payload.

Definition all_DelegatorDelegations (key query : js) : task HttpResponse :=
  delegator_addr ← of_result (get key "delegator_addr");
  queryDelegatorDelegations (initQueryClient rootGetters) delegator_addr query no_params.

Definition fetch_DelegatorDelegations (a : query_args) (key : js) : task js :=
  Cosmos.fetch_all max_pages all_DelegatorDelegations a key.

Definition QueryDelegatorDelegations (payload : js) : task js :=
  Cosmos.query_action "DelegatorDelegations" fetch_DelegatorDelegations payload.

Definition all_DelegatorUnbondingDelegations (key query : js) : task HttpResponse :=
  delegator_addr ← of_result (get key "delegator_addr");
  queryDelegatorUnbondingDelegations (initQueryClient rootGetters) delegator_addr query no_params.

Definition fetch_DelegatorUnbondingDelegations (a : query_args) (key : js) : task js :=
  Cosmos.fetch_all max_pages all_DelegatorUnbondingDelegations a key.

Definition QueryDelegatorUnbondingDelegations (payload : js) : task js :=
  Cosmos.query_action "DelegatorUnbondingDelegations" fetch_DelegatorUnbondingDelegations payload.

Definition all_Redelegations (key query : js) : task HttpResponse :=
  delegator_addr ← of_result (get key "delegator_addr");
  queryRedelegations (initQueryClient rootGetters) delegator_addr query no_params.

Definition fetch_Redelegations (a : query_args) (key : js) : task js :=
  Cosmos.fetch_all max_pages all_Redelegations a key.

Definition QueryRedelegations (payload : js) : task js :=
  Cosmos.query_action "Redelegations" fetch_Redelegations payload.

Definition all_DelegatorValidators (key query : js) : task HttpResponse :=
  delegator_addr ← of_result (get key "delegator_addr");
  queryDelegatorValidators (initQueryClient rootGetters) delegator_addr query no_params.

Definition fetch_DelegatorValidators (a : query_args) (key : js) : task js :=
  Cosmos.fetch_all max_pages all_DelegatorValidators a key.

Definition QueryDelegatorValidators (payload : js) : task js :=
  Cosmos.query_action "DelegatorValidators" fetch_DelegatorValidators payload.

Definition fetch_DelegatorValidator (a : query_args) (key : js) : task js :=
  delegator_addr ← of_result (get key "delegator_addr");
  validator_addr ← of_result (get key "validator_addr");
  r ← queryDelegatorValidator (initQueryClient rootGetters) delegator_addr validator_addr no_params;
  Ret r.(data).

Definition QueryDelegatorValidator (payload : js) : task js :=
  Cosmos.query_action "DelegatorValidator" fetch_DelegatorValidator payload.

Definition fetch_HistoricalInfo (a : query_args) (key : js) : task js :=
  height ← of_result (get key "height");
  r ← queryHistoricalInfo (initQueryClient rootGetters) height no_params;
  Ret r.(data).

Definition QueryHistoricalInfo (payload : js) : task js :=
  Cosmos.query_action "HistoricalInfo" fetch_HistoricalInfo payload.

Definition fetch_Pool (a : query_args) (key : js) : task js :=
  r ← queryPool (initQueryClient rootGetters) no_params;
  Ret r.(data).

Definition QueryPool (payload : js) : task js :=
  Cosmos.query_action "Pool" fetch_Pool payload.

Definition fetch_Params (a : query_args) (key : js) : task js :=
  r ← queryParams (initQueryClient rootGetters) no_params;
  Ret r.(data).

Definition QueryParams (payload : js) : task js :=
  Cosmos.query_action "Params" fetch_Params payload.

(** The fetch of each query, by the name of its cache. *)
Definition fetchers : list (string * (query_args → js → task js)) :=
  [("Validators", fetch_Validators);
   ("Validator", fetch_Validator);
   ("ValidatorDelegations", fetch_ValidatorDelegations);
   ("ValidatorUnbondingDelegations", fetch_ValidatorUnbondingDelegations);
   ("Delegation", fetch_Delegation);
   ("UnbondingDelegation", fetch_UnbondingDelegation);
   ("DelegatorDelegations", fetch_DelegatorDelegations);
   ("DelegatorUnbondingDelegations", fetch_DelegatorUnbondingDelegations);
   ("Redelegations", fetch_Redelegations);
   ("DelegatorValidators", fetch_DelegatorValidators);
   ("DelegatorValidator", fetch_DelegatorValidator);
   ("HistoricalInfo", fetch_HistoricalInfo);
   ("Pool", fetch_Pool);
   ("Params", fetch_Params)].

(** The query actions by name, as [dispatch] finds them. *)
Definition query_actions : list (string * (js → task js)) :=
  [("QueryValidators", QueryValidators);
   ("QueryValidator", QueryValidator);
   ("QueryValidatorDelegations", QueryValidatorDelegations);
   ("QueryValidatorUnbondingDelegations", QueryValidatorUnbondingDelegations);
   ("QueryDelegation", QueryDelegation);
   ("QueryUnbondingDelegation", QueryUnbondingDelegation);
   ("QueryDelegatorDelegations", QueryDelegatorDelegations);
   ("QueryDelegatorUnbondingDelegations", QueryDelegatorUnbondingDelegations);
   ("QueryRedelegations", QueryRedelegations);
   ("QueryDelegatorValidators", QueryDelegatorValidators);
   ("QueryDelegatorValidator", QueryDelegatorValidator);
   ("QueryHistoricalInfo", QueryHistoricalInfo);
   ("QueryPool", QueryPool);
   ("QueryParams", QueryParams)].

(** The list queries, with the method each one calls. *)
Definition list_queries : list (string * (js → js → task HttpResponse)) :=
  [("Validators", all_Validators);
   ("ValidatorDelegations", all_ValidatorDelegations);
   ("ValidatorUnbondingDelegations", all_ValidatorUnbondingDelegations);
   ("DelegatorDelegations", all_DelegatorDelegations);
   ("DelegatorUnbondingDelegations", all_DelegatorUnbondingDelegations);
   ("Redelegations", all_Redelegations);
   ("DelegatorValidators", all_DelegatorValidators)].

(** The store of the module, see [CosmosStore.v]. *)
Definition store : Cosmos.StoreModule :=
  Cosmos.mkModule cache_names fetchers query_actions list_queries max_pages getDefaultState.

#[global] Instance store_laws : Cosmos.StoreLaws store.
Proof. solve_cosmos_laws. Qed.

(** ** Transactions *)

(** [new Registry(types)] *)
Definition registry {PB : Protobuf} {PS : ProtobufSpec PB} : TypeRegistry Msg :=
  newRegistry registered_types.

Definition sendMsgUndelegate {PB : Protobuf} {PS : ProtobufSpec PB}
    (args : send_args MsgUndelegate.partial) : result js :=
  Cosmos.send_msg rootGetters registry "MsgUndelegate" msgUndelegate args.

Definition sendMsgEditValidator {PB : Protobuf} {PS : ProtobufSpec PB}
    (args : send_args MsgEditValidator.partial) : result js :=
  Cosmos.send_msg rootGetters registry "MsgEditValidator" msgEditValidator args.

Definition sendMsgBeginRedelegate {PB : Protobuf} {PS : ProtobufSpec PB}
    (args : send_args MsgBeginRedelegate.partial) : result js :=
  Cosmos.send_msg rootGetters registry "MsgBeginRedelegate" msgBeginRedelegate args.

Definition sendMsgCreateValidator {PB : Protobuf} {PS : ProtobufSpec PB}
    (args : send_args MsgCreateValidator.partial) : result js :=
  Cosmos.send_msg rootGetters registry "MsgCreateValidator" msgCreateValidator args.

Definition sendMsgDelegate {PB : Protobuf} {PS : ProtobufSpec PB}
    (args : send_args MsgDelegate.partial) : result js :=
  Cosmos.send_msg rootGetters registry "MsgDelegate" msgDelegate args.

Definition createMsgUndelegate {PB : Protobuf} {PS : ProtobufSpec PB}
    (value : option MsgUndelegate.partial) : result (EncodeObject Msg) :=
  Cosmos.create_msg rootGetters registry "MsgUndelegate" msgUndelegate value.

Definition createMsgEditValidator {PB : Protobuf} {PS : ProtobufSpec PB}
    (value : option MsgEditValidator.partial) : result (EncodeObject Msg) :=
  Cosmos.create_msg rootGetters registry "MsgEditValidator" msgEditValidator value.

Definition createMsgBeginRedelegate {PB : Protobuf} {PS : ProtobufSpec PB}
    (value : option MsgBeginRedelegate.partial) : result (EncodeObject Msg) :=
  Cosmos.create_msg rootGetters registry "MsgBeginRedelegate" msgBeginRedelegate value.

Definition createMsgCreateValidator {PB : Protobuf} {PS : ProtobufSpec PB}
    (value : option MsgCreateValidator.partial) : result (EncodeObject Msg) :=
  Cosmos.create_msg rootGetters registry "MsgCreateValidator" msgCreateValidator value.

Definition createMsgDelegate {PB : Protobuf} {PS : ProtobufSpec PB}
    (value : option MsgDelegate.partial) : result (EncodeObject Msg) :=
  Cosmos.create_msg rootGetters registry "MsgDelegate" msgDelegate value.

(** The message types with their actions. *)
Definition tx_actions {PB : Protobuf} {PS : ProtobufSpec PB} : list (Cosmos.tx_action Msg) :=
  [Cosmos.mkTxAction Msg "MsgUndelegate" MsgUndelegate.message msgUndelegate sendMsgUndelegate createMsgUndelegate;
   Cosmos.mkTxAction Msg "MsgEditValidator" MsgEditValidator.message msgEditValidator sendMsgEditValidator createMsgEditValidator;
   Cosmos.mkTxAction Msg "MsgBeginRedelegate" MsgBeginRedelegate.message msgBeginRedelegate sendMsgBeginRedelegate createMsgBeginRedelegate;
   Cosmos.mkTxAction Msg "MsgCreateValidator" MsgCreateValidator.message msgCreateValidator sendMsgCreateValidator createMsgCreateValidator;
   Cosmos.mkTxAction Msg "MsgDelegate" MsgDelegate.message msgDelegate sendMsgDelegate createMsgDelegate].

Lemma staking_tx_laws {PB : Protobuf} {PS : ProtobufSpec PB} :
  Forall (Cosmos.tx_lawful rootGetters types registered_types) tx_actions.
Proof. solve_cosmos_tx_laws. Qed.

End store.
