(* ===== verification/VestingStore.v ===== *)
(** * The client of the vesting module

    The endpoints of module/rest.js, the transaction client of module/index.js
    and the store of index.js of cosmos.vesting.v1beta1, over [CosmosStore.v]. *)
From S2P Require Import Prelude Js Protobuf Codec Fallible MessageTable CommonTypes CosmosBase DclauthTypes VestingTypes JsonText Uri Async RestClient ApiRoutes Pages VuexStore TxClient CosmosStore.
Open Scope Z_scope.

(** The module has no queries. *)

(** ** Messages *)

(** The data of a message of the module, or [undefined]. *)
Inductive Msg : Type :=
| VMsgCreateVestingAccount (data : option MsgCreateVestingAccount.partial).

Definition msgCreateVestingAccount (data : option MsgCreateVestingAccount.partial) : EncodeObject Msg :=
  mkEncode "/cosmos.vesting.v1beta1.MsgCreateVestingAccount" (VMsgCreateVestingAccount data).

(** The type table of the registry. *)
Definition types {PB : Protobuf} {PS : ProtobufSpec PB} : list (string * message_type) :=
  [("/cosmos.vesting.v1beta1.MsgCreateVestingAccount", MsgCreateVestingAccount.message)].

(** The same table, as the registry encodes the messages with it. *)
Definition registered_types {PB : Protobuf} {PS : ProtobufSpec PB} : list (string * GeneratedType Msg) :=
  [("/cosmos.vesting.v1beta1.MsgCreateVestingAccount",
    Cosmos.row_type MsgCreateVestingAccount.message VMsgCreateVestingAccount (fun m => match m with VMsgCreateVestingAccount d => Some d end))].

(** ** Initial state *)

(** The properties of [T.fromPartial({})] in their order; an empty byte array is
    an object like an empty list. *)
Definition templates : list (string * list (string * js)) :=
  [("BaseVestingAccount",
     [("endTime", Num 0); ("originalVesting", Arr []); ("delegatedFree", Arr []);
      ("delegatedVesting", Arr []); ("baseAccount", Undefined)]);
   ("ContinuousVestingAccount",
     [("startTime", Num 0); ("baseVestingAccount", Undefined)]);
   ("DelayedVestingAccount",
     [("baseVestingAccount", Undefined)]);
   ("Period",
     [("length", Num 0); ("amount", Arr [])]);
   ("PeriodicVestingAccount",
     [("startTime", Num 0); ("vestingPeriods", Arr []); ("baseVestingAccount", Undefined)]);
   ("PermanentLockedAccount",
     [("baseVestingAccount", Undefined)])].

Definition cache_names : list string := [].

Definition getDefaultState : Cosmos.state := {|
  Cosmos.caches := empty_caches cache_names;
  Cosmos.Structure := map (fun t => (t.1, getStructure t.2)) templates;
  Cosmos.Subscriptions := [];
  Cosmos.objects := O;
|}.

Section store.
Context {SV : SpVuex} {CJ : Cosmjs}.
Context (rootGetters : root_getters).
Abbreviation task := (proc FetchCall Response Cosmos.state).

(** ** Queries *)

(** The number of further pages a list query may ask for. *)
Variable max_pages : nat.

(** The fetch of each query, by the name of its cache. *)
Definition fetchers : list (string * (query_args → js → task js)) :=
  [].

(** The query actions by name, as [dispatch] finds them. *)
Definition query_actions : list (string * (js → task js)) :=
  [].

(** The list queries, with the method each one calls. *)
Definition list_queries : list (string * (js → js → task HttpResponse)) :=
  [].

(** The store of the module, see [CosmosStore.v]. *)
Definition store : Cosmos.StoreModule :=
  Cosmos.mkModule cache_names fetchers query_actions list_queries max_pages getDefaultState.

#[global] Instance store_laws : Cosmos.StoreLaws store.
Proof. solve_cosmos_laws. Qed.

(** ** Transactions *)

(** [new Registry(types)] *)
Definition registry {PB : Protobuf} {PS : ProtobufSpec PB} : TypeRegistry Msg :=
  newRegistry registered_types.

Definition sendMsgCreateVestingAccount {PB : Protobuf} {PS : ProtobufSpec PB}
    (args : send_args MsgCreateVestingAccount.partial) : result js :=
  Cosmos.send_msg rootGetters registry "MsgCreateVestingAccount" msgCreateVestingAccount args.

Definition createMsgCreateVestingAccount {PB : Protobuf} {PS : ProtobufSpec PB}
    (value : option MsgCreateVestingAccount.partial) : result (EncodeObject Msg) :=
  Cosmos.create_msg rootGetters registry "MsgCreateVestingAccount" msgCreateVestingAccount value.

(** The message types with their actions. *)
Definition tx_actions {PB : Protobuf} {PS : ProtobufSpec PB} : list (Cosmos.tx_action Msg) :=
  [Cosmos.mkTxAction Msg "MsgCreateVestingAccount" MsgCreateVestingAccount.message msgCreateVestingAccount sendMsgCreateVestingAccount createMsgCreateVestingAccount].

Lemma vesting_tx_laws {PB : Protobuf} {PS : ProtobufSpec PB} :
  Forall (Cosmos.tx_lawful rootGetters types registered_types) tx_actions.
Proof. solve_cosmos_tx_laws. Qed.

End store.
