(* ===== verification/TransferStore.v ===== *)
(** * The client of the transfer module

    The endpoints of module/rest.js, the transaction client of module/index.js
    and the store of index.js of ibc.applications.transfer.v1, over [CosmosStore.v]. *)
From S2P Require Import Prelude Js Protobuf Codec Fallible MessageTable CommonTypes CosmosBase IbcClientTypes TransferTypes JsonText Uri Async RestClient ApiRoutes Pages VuexStore TxClient CosmosStore.
Open Scope Z_scope.

(** ** Endpoints *)

Section api.
Context {S : Type}.

Definition queryDenomTraces (c : HttpClient) (query : js) (params : RequestParams)
    : proc FetchCall Response S HttpResponse :=
  request c (get_json ("/ibc/apps/transfer/v1/denom_traces")
    query params).

Definition queryDenomTrace (c : HttpClient) (hash : js) (params : RequestParams)
    : proc FetchCall Response S HttpResponse :=
  request c (get_json ("/ibc/apps/transfer/v1/denom_traces/" +:+ js_String hash)
    Undefined params).

Definition queryParams (c : HttpClient) (params : RequestParams)
    : proc FetchCall Response S HttpResponse :=
  request c (get_json ("/ibc/apps/transfer/v1/params")
    Undefined params).

End api.

(** ** Routes *)

(** A query of the module with the values of its path parameters. *)
Inductive endpoint : Set :=
| DenomTraces
| DenomTrace (hash : string)
| Params.

(** The method call of an endpoint; a method that takes a query object is given
    [query]. *)
Definition endpoint_call {S : Type} (c : HttpClient) (e : endpoint) (query : js)
    : proc FetchCall Response S HttpResponse :=
  match e with
  | DenomTraces => queryDenomTraces c query no_params
  | DenomTrace hash => queryDenomTrace c (Str hash) no_params
  | Params => queryParams c no_params
  end.

(** Whether the method takes a query object. *)
Definition endpoint_takes_query (e : endpoint) : bool :=
  match e with
  | DenomTraces => true
  | DenomTrace _ => false
  | Params => false
  end.

(** The segments of its route. *)
Definition endpoint_route (e : endpoint) : list string :=
  "ibc" :: "apps" :: "transfer" ::
  match e with
  | DenomTraces => ["v1"; "denom_traces"]
  | DenomTrace hash => ["v1"; "denom_traces"; hash]
  | Params => ["v1"; "params"]
  end.

#[global] Program Instance routes : Routes endpoint :=
  {| api_call := endpoint_call; route := endpoint_route; takes_query := endpoint_takes_query |}.
Next Obligation. solve_route_path. Qed.
Next Obligation. by destruct e. Qed.

Lemma transfer_route_inj e1 e2 : endpoint_route e1 = endpoint_route e2 → e1 = e2.
Proof. destruct e1, e2; simpl; intros H; simplify_eq; done. Qed.

(** ** Messages *)

(** The data of a message of the module, or [undefined]. *)
Inductive Msg : Type :=
| VMsgTransfer (data : option MsgTransfer.partial).

Definition msgTransfer (data : option MsgTransfer.partial) : EncodeObject Msg :=
  mkEncode "/ibc.applications.transfer.v1.MsgTransfer" (VMsgTransfer data).

(** The type table of the registry. *)
Definition types {PB : Protobuf} {PS : ProtobufSpec PB} : list (string * message_type) :=
  [("/ibc.applications.transfer.v1.MsgTransfer", MsgTransfer.message)].

(** The same table, as the registry encodes the messages with it. *)
Definition registered_types {PB : Protobuf} {PS : ProtobufSpec PB} : list (string * GeneratedType Msg) :=
  [("/ibc.applications.transfer.v1.MsgTransfer",
    Cosmos.row_type MsgTransfer.message VMsgTransfer (fun m => match m with VMsgTransfer d => Some d end))].

(** ** Initial state *)

(** The properties of [T.fromPartial({})] in their order; an empty byte array is
    an object like an empty list. *)
Definition templates : list (string * list (string * js)) :=
  [("FungibleTokenPacketData",
     [("denom", Str ""); ("amount", Num 0); ("sender", Str ""); ("receiver", Str "")]);
   ("DenomTrace",
     [("path", Str ""); ("baseDenom", Str "")]);
   ("Params",
     [("sendEnabled", Bool false); ("receiveEnabled", Bool false)])].

Definition cache_names : list string := ["DenomTrace"; "DenomTraces"; "Params"].

Definition getDefaultState : Cosmos.state := {|
  Cosmos.caches := empty_caches cache_names;
  Cosmos.Structure := map (fun t => (t.1, getStructure t.2)) templates;
  Cosmos.Subscriptions := [];
  Cosmos.objects := O;
|}.

(** ** Getters *)

Definition getDenomTrace (s : Cosmos.state) (params : option (list (string * js))) : js :=
  Cosmos.get_cached "DenomTrace" s params.

Definition getDenomTraces (s : Cosmos.state) (params : option (list (string * js))) : js :=
  Cosmos.get_cached "DenomTraces" s params.

Definition getParams (s : Cosmos.state) (params : option (list (string * js))) : js :=
  Cosmos.get_cached "Params" s params.

Section store.
Context {SV : SpVuex} {CJ : Cosmjs}.
Context (rootGetters : root_getters).
Abbreviation task := (proc FetchCall Response Cosmos.state).

(** ** Queries *)

(** The number of further pages a list query may ask for. *)
Variable max_pages : nat.

Definition fetch_DenomTrace (a : query_args) (key : js) : task js :=
  hash ← of_result (get key "hash");
  r ← queryDenomTrace (initQueryClient rootGetters) hash no_params;
  Ret r.(data).

Definition QueryDenomTrace (payload : js) : task js :=
  Cosmos.query_action "DenomTrace" fetch_DenomTrace payload.

Definition all_DenomTraces (key query : js) : task HttpResponse :=
  queryDenomTraces (initQueryClient rootGetters) query no_params.

Definition fetch_DenomTraces (a : query_args) (key : js) : task js :=
  Cosmos.fetch_all max_pages all_DenomTraces a key.

Definition QueryDenomTraces (payload : js) : task js :=
  Cosmos.query_action "DenomTraces" fetch_DenomTraces payload.

Definition fetch_Params (a : query_args) (key : js) : task js :=
  r ← queryParams (initQueryClient rootGetters) no_params;
  Ret r.(data).

Definition QueryParams (payload : js) : task js :=
  Cosmos.query_action "Params" fetch_Params payload.

(** The fetch of each query, by the name of its cache. *)
Definition fetchers : list (string * (query_args → js → task js)) :=
  [("DenomTrace", fetch_DenomTrace);
   ("DenomTraces", fetch_DenomTraces);
   ("Params", fetch_Params)].

(** The query actions by name, as [dispatch] finds them. *)
Definition query_actions : list (string * (js → task js)) :=
  [("QueryDenomTrace", QueryDenomTrace);
   ("QueryDenomTraces", QueryDenomTraces);
   ("QueryParams", QueryParams)].

(** The list queries, with the method each one calls. *)
Definition list_queries : list (string * (js → js → task HttpResponse)) :=
  [("DenomTraces", all_DenomTraces)].

(** The store of the module, see [CosmosStore.v]. *)
Definition store : Cosmos.StoreModule :=
  Cosmos.mkModule cache_names fetchers query_actions list_queries max_pages getDefaultState.

#[global] Instance store_laws : Cosmos.StoreLaws store.
Proof. solve_cosmos_laws. Qed.

(** ** Transactions *)

(** [new Registry(types)] *)
Definition registry {PB : Protobuf} {PS : ProtobufSpec PB} : TypeRegistry Msg :=
  newRegistry registered_types.

Definition sendMsgTransfer {PB : Protobuf} {PS : ProtobufSpec PB}
    (args : send_args MsgTransfer.partial) : result js :=
  Cosmos.send_msg rootGetters registry "MsgTransfer" msgTransfer args.

Definition createMsgTransfer {PB : Protobuf} {PS : ProtobufSpec PB}
    (value : option MsgTransfer.partial) : result (EncodeObject Msg) :=
  Cosmos.create_msg rootGetters registry "MsgTransfer" msgTransfer value.

(** The message types with their actions. *)
Definition tx_actions {PB : Protobuf} {PS : ProtobufSpec PB} : list (Cosmos.tx_action Msg) :=
  [Cosmos.mkTxAction Msg "MsgTransfer" MsgTransfer.message msgTransfer sendMsgTransfer createMsgTransfer].

Lemma transfer_tx_laws {PB : Protobuf} {PS : ProtobufSpec PB} :
  Forall (Cosmos.tx_lawful rootGetters types registered_types) tx_actions.
Proof. solve_cosmos_tx_laws. Qed.

End store.
