(* ===== verification/Endpoints.v ===== *)
(** * The endpoints of all modules

    The queries of the ledger's modules and of the modules of the Cosmos SDK and
    ibc-go, as the interface [Routes] of [ApiRoutes.v] describes them, and what
    follows for the URLs they request. *)
From S2P Require Import Prelude Js JsonText Uri Async RestClient ApiRoutes PkiStore ComplianceStore ModelStore VendorinfoStore ComplianceTestStore ValidatorStore DclauthStore DclupgradeStore AuthzStore BankStore DistributionStore EvidenceStore FeegrantStore GovStore SlashingStore StakingStore TransferStore.
Open Scope Z_scope.

(** A query of some module with the values of its path parameters. *)
Inductive ledger_endpoint : Set :=
| pki_endpoint (e : PkiStore.endpoint)
| compliance_endpoint (e : ComplianceStore.endpoint)
| model_endpoint (e : ModelStore.endpoint)
| vendorinfo_endpoint (e : VendorinfoStore.endpoint)
| compliancetest_endpoint (e : ComplianceTestStore.endpoint)
| validator_endpoint (e : ValidatorStore.endpoint)
| dclauth_endpoint (e : DclauthStore.endpoint)
| dclupgrade_endpoint (e : DclupgradeStore.endpoint)
| authz_endpoint (e : AuthzStore.endpoint)
| bank_endpoint (e : BankStore.endpoint)
| distribution_endpoint (e : DistributionStore.endpoint)
| evidence_endpoint (e : EvidenceStore.endpoint)
| feegrant_endpoint (e : FeegrantStore.endpoint)
| gov_endpoint (e : GovStore.endpoint)
| slashing_endpoint (e : SlashingStore.endpoint)
| staking_endpoint (e : StakingStore.endpoint)
| transfer_endpoint (e : TransferStore.endpoint).

#[global] Program Instance ledger_routes : Routes ledger_endpoint := {|
  api_call c e query :=
    match e with
    | pki_endpoint e => api_call c e query
    | compliance_endpoint e => api_call c e query
    | model_endpoint e => api_call c e query
    | vendorinfo_endpoint e => api_call c e query
    | compliancetest_endpoint e => api_call c e query
    | validator_endpoint e => api_call c e query
    | dclauth_endpoint e => api_call c e query
    | dclupgrade_endpoint e => api_call c e query
    | authz_endpoint e => api_call c e query
    | bank_endpoint e => api_call c e query
    | distribution_endpoint e => api_call c e query
    | evidence_endpoint e => api_call c e query
    | feegrant_endpoint e => api_call c e query
    | gov_endpoint e => api_call c e query
    | slashing_endpoint e => api_call c e query
    | staking_endpoint e => api_call c e query
    | transfer_endpoint e => api_call c e query
    end;
  takes_query e :=
    match e with
    | pki_endpoint e => takes_query e
    | compliance_endpoint e => takes_query e
    | model_endpoint e => takes_query e
    | vendorinfo_endpoint e => takes_query e
    | compliancetest_endpoint e => takes_query e
    | validator_endpoint e => takes_query e
    | dclauth_endpoint e => takes_query e
    | dclupgrade_endpoint e => takes_query e
    | authz_endpoint e => takes_query e
    | bank_endpoint e => takes_query e
    | distribution_endpoint e => takes_query e
    | evidence_endpoint e => takes_query e
    | feegrant_endpoint e => takes_query e
    | gov_endpoint e => takes_query e
    | slashing_endpoint e => takes_query e
    | staking_endpoint e => takes_query e
    | transfer_endpoint e => takes_query e
    end;
  route e :=
    match e with
    | pki_endpoint e => route e
    | compliance_endpoint e => route e
    | model_endpoint e => route e
    | vendorinfo_endpoint e => route e
    | compliancetest_endpoint e => route e
    | validator_endpoint e => route e
    | dclauth_endpoint e => route e
    | dclupgrade_endpoint e => route e
    | authz_endpoint e => route e
    | bank_endpoint e => route e
    | distribution_endpoint e => route e
    | evidence_endpoint e => route e
    | feegrant_endpoint e => route e
    | gov_endpoint e => route e
    | slashing_endpoint e => route e
    | staking_endpoint e => route e
    | transfer_endpoint e => route e
    end;
|}.
Next Obligation. intros addr e q. destruct e; apply route_path. Qed.
Next Obligation. intros e. destruct e; apply route_nonempty. Qed.

(** The two calls of the ledger that have the same route. *)
Definition same_route (e1 e2 : ledger_endpoint) : Prop :=
  e1 = dclauth_endpoint DclauthStore.AccountStat ∧
  e2 = dclauth_endpoint (DclauthStore.Account "stat").

Lemma ledger_route_inj (e1 e2 : ledger_endpoint) :
  route e1 = route e2 → e1 = e2 ∨ same_route e1 e2 ∨ same_route e2 e1.
Proof.
  destruct e1, e2; try discriminate; intros H.
  - left. f_equal. by apply pki_route_inj.
  - left. f_equal. by apply compliance_route_inj.
  - left. f_equal. by apply model_route_inj.
  - left. f_equal. by apply vendorinfo_route_inj.
  - left. f_equal. by apply compliancetest_route_inj.
  - left. f_equal. by apply validator_route_inj.
  - apply dclauth_route_inj in H as [->|[[-> ->]|[-> ->]]]; unfold same_route; auto.
  - left. f_equal. by apply dclupgrade_route_inj.
  - left. f_equal. by apply authz_route_inj.
  - left. f_equal. by apply bank_route_inj.
  - left. f_equal. by apply distribution_route_inj.
  - left. f_equal. by apply evidence_route_inj.
  - left. f_equal. by apply feegrant_route_inj.
  - left. f_equal. by apply gov_route_inj.
  - left. f_equal. by apply slashing_route_inj.
  - left. f_equal. by apply staking_route_inj.
  - left. f_equal. by apply transfer_route_inj.
Qed.

(** C34: for every query of every module, a node at an http address is asked for
    the route of the query that was meant, with the arguments in their places,
    and for the pairs of the query object, if the arguments are plain segments:
    not empty, not dots, and of characters that stand for themselves in a path.
    The URL is read as servers read it, escapes, dots, query and fragment
    included. *)
Theorem api_path_segments host (e : ledger_endpoint) query :
  plain_host host = true → plain_args e = true →
  ∃ u, api_url_query ("http://" +:+ host) e query = Some u ∧
    read_url u = Some (host, route e, query_pairs (if takes_query e then query else Undefined)).
Proof. apply read_api_url. Qed.

(** C35: with arguments without a slash, two calls of any modules request the same URL
    only if they are the same query with the same arguments; the one exception
    is the account with the address [stat], which is found where the
    statistics are. *)
Theorem api_url_inj addr (e1 e2 : ledger_endpoint) :
  slash_free_args e1 = true → slash_free_args e2 = true →
  (api_url addr e1 = api_url addr e2 ↔ e1 = e2 ∨ same_route e1 e2 ∨ same_route e2 e1).
Proof.
  intros H1 H2. split.
  - intros H. by apply ledger_route_inj, (api_url_route_eq addr).
  - intros [->|[[-> ->]|[-> ->]]]; [done|by rewrite !api_url_route..].
Qed.

(** The arguments are not escaped: a subject with a slash, which base64 text
    can hold, requests another query's URL. *)
Theorem api_url_slash addr s k :
  api_url addr (pki_endpoint (PkiStore.ApprovedCertificatesBySubject (s +:+ "/" +:+ k))) =
    api_url addr (pki_endpoint (PkiStore.ApprovedCertificates s k)).
Proof. by rewrite !api_url_route. Qed.

(** Nor are the other characters with a meaning: an argument with a question
    mark ends the path, one of two dots takes a segment away. *)
Theorem api_url_unescaped host :
  plain_host host = true →
  (read_url <$> api_url ("http://" +:+ host)
     (pki_endpoint (PkiStore.ApprovedCertificatesBySubject "a?b=c"))) =
    Some (Some (host, ["dcl"; "pki"; "certificates"; "a"], [("b", "c")])) ∧
  (read_url <$> api_url ("http://" +:+ host)
     (pki_endpoint (PkiStore.ApprovedCertificatesBySubject ".."))) =
    Some (Some (host, ["dcl"; "pki"], [])).
Proof.
  intros Hh. rewrite !api_url_route. unfold read_url. simpl option_map.
  assert (∀ d t, Ascii.eqb d "/" || Ascii.eqb d "?" || Ascii.eqb d "#" = true →
    cut d (host +:+ t) = (host +:+ (cut d t).1, (cut d t).2)) as Hcut.
  { intros d t Hd. assert (all_chars (fun c => negb (Ascii.eqb c d)) host = true) as Hf
      by by apply plain_host_free.
    clear Hh Hd. induction host as [|c h IH]; simpl in *; [by destruct (cut d t)|].
    apply andb_true_iff in Hf as [->%negb_true_iff Hf]. by rewrite IH. }
  split; cbn [fmap option_fmap option_map]; rewrite string_app_assoc, strip_prefix_app;
    cbn [mbind option_bind]; rewrite Hcut by done; simpl; rewrite Hcut by done; simpl;
    rewrite Hcut by done; simpl; by rewrite string_app_nil_r.
Qed.

(** ** Witnesses *)

Definition sample_endpoint : ledger_endpoint :=
  pki_endpoint (PkiStore.ApprovedCertificates "MDQxCzAJBgNVBAYTAkFV" "5A:88:0E:6C").

Definition sample_list : ledger_endpoint := pki_endpoint PkiStore.ApprovedCertificatesAll.
Definition sample_query : js := Obj [("pagination.key", Str "K=&/"); ("pagination.limit", Str "5")].

Lemma api_path_segments_witness :
  (∃ u, api_url_query "http://localhost:1317" sample_endpoint Null = Some u ∧
     read_url u = Some ("localhost:1317",
       ["dcl"; "pki"; "certificates"; "MDQxCzAJBgNVBAYTAkFV"; "5A:88:0E:6C"], [])) ∧
  (∃ u, api_url_query "http://localhost:1317" sample_list sample_query = Some u ∧
     read_url u = Some ("localhost:1317", ["dcl"; "pki"; "certificates"],
       [("pagination.key", "K=&/"); ("pagination.limit", "5")])).
Proof.
  split.
  - exact (api_path_segments "localhost:1317" sample_endpoint Null eq_refl eq_refl).
  - exact (api_path_segments "localhost:1317" sample_list sample_query eq_refl eq_refl).
Defined.

Lemma api_url_inj_witness :
  api_url "" (dclauth_endpoint DclauthStore.AccountStat) =
    api_url "" (dclauth_endpoint (DclauthStore.Account "stat")) ∧
  api_url "" (dclauth_endpoint DclauthStore.AccountStat) ≠ api_url "" sample_endpoint.
Proof.
  split.
  - apply (api_url_inj "" (dclauth_endpoint DclauthStore.AccountStat)
      (dclauth_endpoint (DclauthStore.Account "stat"))); [reflexivity..|]. right. left. by split.
  - intros H. apply (api_url_inj "" (dclauth_endpoint DclauthStore.AccountStat) sample_endpoint) in H;
      [|reflexivity..]. by destruct H as [H|[[_ H]|[_ H]]].
Defined.
