(* ===== verification/LedgerStores.v ===== *)
(** * The stores of the ledger's modules

    The eight modules of the client that implement the interfaces of
    [ApiRoutes.v], [TxClient.v] and [StoreModule.v], and what follows for all
    of them: how queries and transactions act on a store, alone and
    interleaved.  Which URLs they request is in [Endpoints.v]. *)
From S2P Require Import Prelude Js Protobuf Codec WireFormat Fallible JsonText Uri Async RestClient ApiRoutes Pages VuexStore TxClient PkiTypes PkiTx PkiStore ComplianceStore ModelStore VendorinfoStore ComplianceTestStore ValidatorStore DclauthStore DclupgradeStore StoreModule NewBlock StoreSpec.
Open Scope Z_scope.

Inductive ledger_module : Set :=
| pki | compliance | model | vendorinfo | compliancetest | validator | dclauth | dclupgrade.

(** ** Stores *)

Section stores.
Context {SV : SpVuex} {CJ : Cosmjs} {PB : Protobuf}.
Context (rootGetters : root_getters) (max_pages : nat).

Definition store_of (m : ledger_module) : StoreModule :=
  match m with
  | pki => PkiStore.store rootGetters max_pages
  | compliance => ComplianceStore.store rootGetters max_pages
  | model => ModelStore.store rootGetters max_pages
  | vendorinfo => VendorinfoStore.store rootGetters max_pages
  | compliancetest => ComplianceTestStore.store rootGetters max_pages
  | validator => ValidatorStore.store rootGetters max_pages
  | dclauth => DclauthStore.store rootGetters max_pages
  | dclupgrade => DclupgradeStore.store rootGetters max_pages
  end.

#[global] Instance store_of_laws m : StoreLaws (store_of m).
Proof. destruct m; apply _. Qed.

Lemma max_pages_of m : StoreModule.max_pages (store_of m) = max_pages.
Proof. by destruct m. Qed.

(** C8: a query whose value can be fetched stores it under the key of its
    parameters and query, subscribes to the query when asked to and changes
    nothing else of the store; the action and the getter for the same
    parameters and query give the value. *)
Theorem query_stores_value m server name fetch payload a s cache value :
  fetcher_of (store_of m) name fetch → destructure payload = Ok a →
  plain_query a.(arg_query) = true → s.(caches) !! name = Some cache →
  (run server (fetch a (key_of a)) s).2 = Ok value →
  ∃ s', run server (dispatch (store_of m) ("Query" +:+ name) payload) s = (s', Ok (or_empty value)) ∧
        get_cached name s' (Some (cache_key (key_of a) a.(arg_query))) = or_empty value ∧
        stored name a (key_of a) value s s'.
Proof. apply (run_dispatch_stores (store_of m)). Qed.

(** C30: a query that fails leaves the store as it was, whatever the failure. *)
Theorem query_failure_atomic m server action payload s s' e :
  (∀ name, name ∈ (store_of m).(cache_names) → is_Some (s.(caches) !! name)) →
  run server (dispatch (store_of m) action payload) s = (s', Err e) → s' = s.
Proof. apply (run_dispatch_atomic (store_of m)). Qed.

(** A response that is not ok gives an error that names the query but not
    the reason: the object that is thrown has no message. *)
Theorem query_http_error m server name fetch payload a s :
  fetcher_of (store_of m) name fetch → destructure payload = Ok a → refuses server →
  run server (dispatch (store_of m) ("Query" +:+ name) payload) s =
    (s, Err (SpVuexError ["QueryClient:Query" +:+ name;
                          "API Node Unavailable. Could not perform query: undefined"])).
Proof. apply (run_dispatch_refused (store_of m)). Qed.

(** C9: with [all] set, a list query follows the keys of the pages to the last
    one and stores all the items, in order and each once, with the pagination
    of the last page. *)
Theorem list_query_all_pages m server name query_all f payload a s cache p ps :
  (name, query_all) ∈ (store_of m).(list_queries) → destructure payload = Ok a →
  plain_query a.(arg_query) = true → js_Boolean a.(arg_all) = true →
  s.(caches) !! name = Some cache → f ≠ "pagination" → (length ps <= max_pages)%nat →
  answers server query_all f a.(arg_query) p → follows server query_all f a.(arg_query) p ps →
  ∃ s', run server (dispatch (store_of m) ("Query" +:+ name) payload) s =
          (s', Ok (page_value f (concat (map items (p :: ps))) (List.last ps p).(pagination))) ∧
        stored name a (key_of a)
          (page_value f (concat (map items (p :: ps))) (List.last ps p).(pagination)) s s'.
Proof. rewrite <- (max_pages_of m). apply (run_dispatch_pages (store_of m)). Qed.

(** C16: a subscription that a query made is refreshed with the same query: its
    entry of the cache is replaced by the value fetched now, and nothing else
    of the store changes. *)
Theorem refresh_updates_entry m server name fetch a s cache value :
  fetcher_of (store_of m) name fetch →
  let sub := subscription ("Query" +:+ name) a.(arg_all) (key_of a) a.(arg_query) in
  well_formed sub = true → plain_query a.(arg_query) = true →
  s.(caches) !! name = Some cache →
  (run server (fetch (refresh_args a) (key_of (refresh_args a))) s).2 = Ok value →
  run server (refresh (dispatch (store_of m)) (json_key sub)) s =
    (s <| caches := <[name := <[json_key (Obj (cache_key (key_of a) a.(arg_query))) := value]> cache]>
                      s.(caches) |>, Ok (or_empty value)).
Proof. apply (run_refresh_entry (store_of m)). Qed.

(** C5: however the actions of a store are interleaved, and whatever the
    server answers, a cached value is what its own query fetched from answers
    to its own requests, and the subscriptions are distinct and were made by
    the query actions. *)
Theorem store_interleaving m sys :
  rtc (sys_step (store_task (store_of m))) (mkSystem (store_of m).(getDefaultState) [] []) sys →
  caches_explained (fetcher_of (store_of m)) sys.(history) sys.(shared) ∧
  subs_known (fetcher_of (store_of m)) sys.(shared).
Proof. apply (reachable_inv (store_of m)). Qed.

(** C2: a store refines a cache of answered queries: whatever its tasks do, and
    whatever they are answered, the store represents a state which that
    specification reaches with the same answers, each further step of the tasks
    is matched by steps of the specification, and a getter gives what the
    specification knows of the query. *)
Theorem store_refines_cache m sys :
  rtc (sys_step (store_task (store_of m))) (mkSystem (store_of m).(getDefaultState) [] []) sys →
  ∃ σ, rtc (spec_step (store_of m)) spec_init σ ∧ simulates (store_of m) sys σ ∧
    (∀ sys', sys_step (store_task (store_of m)) sys sys' →
       ∃ σ', rtc (spec_step (store_of m)) σ σ' ∧ simulates (store_of m) sys' σ') ∧
    (∀ name key query, name ∈ (store_of m).(cache_names) → plain_query query = true →
       get_cached name sys.(shared) (Some (cache_key key query)) =
         or_empty (σ.(known) !! (name, json_key (Obj (cache_key key query))) ?? Undefined)).
Proof.
  intros Hr. destruct (run_simulated (store_of m) sys Hr) as (σ & Hσ & Hs). exists σ.
  split; [done|]. split; [done|]. split.
  - intros sys' Hstep. exact (step_simulated (store_of m) sys sys' σ Hstep Hs).
  - intros name key query. destruct Hs as [Hrep _]. by apply (getter_known (store_of m)).
Qed.

(** C7: the actions of a store are serialisable: when [server] has answered
    them, in any order, the state and the results are those of running the
    actions that are done one after the other, in some order; and all of them
    can be brought to their end. *)
Theorem store_serialisable m server s ps sys :
  Forall (store_task (store_of m)) ps → served server s ps sys →
  (∃ log, log ≡ₚ outcomes ps sys.(tasks) ∧ runs_as server s log sys.(shared)) ∧
  ∃ sys', rtc (answer_step server) sys sys' ∧ all_done sys'.
Proof.
  intros Hps Hs. assert (Forall (one_shot server) ps) as Ho.
  { eapply List.Forall_impl; [|exact Hps]. apply (store_task_one_shot (store_of m)). }
  split; [by eapply served_serial|by eapply served_finishes].
Qed.

(** C6: a new block brings the store up to date: when the tasks that
    [StoreUpdate] started are done, in whatever order they were answered, the
    entry of each subscribed query holds what the node gives for it now, and
    every other entry and the subscriptions are as they were.  A query that
    fails leaves its entry as it was and does not disturb the others.  (Two
    subscriptions of one query with and without [all] share an entry; it then
    has the value of one of them.) *)
Theorem block_updates_entries m server s ls sys :
  Forall (live_ok (store_of m)) ls → has_caches (store_of m) s →
  s.(Subscriptions) = map live_text ls →
  served server s (StoreUpdate (dispatch (store_of m)) s) sys → all_done sys →
  sys.(shared).(Subscriptions) = s.(Subscriptions) ∧
  (∀ l v, l ∈ ls → live_value (store_of m) server l = Ok v →
     (∀ l' v', l' ∈ ls → l'.(live_name) = l.(live_name) → live_key l' = live_key l →
        live_value (store_of m) server l' = Ok v' → v' = v) →
     entry sys.(shared) l.(live_name) (live_key l) = Some v) ∧
  (∀ name k,
     (∀ l v, l ∈ ls → l.(live_name) = name → live_key l = k →
        live_value (store_of m) server l ≠ Ok v) →
     entry sys.(shared) name k = entry s name k).
Proof. apply (update_done (store_of m)). Qed.

(** Of two calls of the same query under way, the answer that arrives last
    stays in the cache, even when it is the older one. *)
Theorem last_answer_wins m name fetch payload a q k s :
  fetcher_of (store_of m) name fetch → destructure payload = Ok a →
  plain_query a.(arg_query) = true → is_Some (s.(caches) !! name) →
  fetch a (key_of a) = Await q k →
  ∀ r1 r2 v1 v2, k r1 = Ret v1 → k r2 = Ret v2 →
  ∃ sys, rtc (sys_step (store_task (store_of m))) (mkSystem s [] []) sys ∧
    sys.(history) = [(q, r2); (q, r1)] ∧
    get_cached name sys.(shared) (Some (cache_key (key_of a) a.(arg_query))) = or_empty v1.
Proof. apply (answers_in_turn (store_of m)). Qed.

(** C14: a query that was started completes: it ends after one answer, or one
    answer per page when all pages are asked for, however the other tasks of
    the store are interleaved with it; and until then its next answer can
    arrive. *)
Theorem query_completes m server name fetch payload a n s ts h s' t k sys :
  fetcher_of (store_of m) name fetch → destructure payload = Ok a →
  answers_needed (store_of m) server name a n →
  settle (dispatch (store_of m) ("Query" +:+ name) payload) s = (s', t) →
  answered (store_task (store_of m)) server (length ts) k (mkSystem s' (ts ++ [t]) h) sys →
  finished (length ts) sys ∨
  (k < n)%nat ∧ ∃ sys', answered (store_task (store_of m)) server (length ts) 1 sys sys'.
Proof.
  intros Hf Ha Hn Hset. apply (answered_progress _ server _ n k _ sys t).
  - simpl. by rewrite lookup_app_r, Nat.sub_diag by done.
  - pose proof (settle_completes server n _ s (dispatch_completes _ server _ _ _ _ _ Hf Ha Hn)) as H.
    by rewrite Hset in H.
Qed.

(** An action keeps its query as it is given, while a getter reads a query
    that is falsy, such as the empty string, as [null]: what such a call
    returns is not what it has just fetched, but the entry of the [null] query
    or an empty object. *)
Theorem falsy_query_not_found m server name fetch payload a s cache value :
  fetcher_of (store_of m) name fetch → destructure payload = Ok a →
  plain_query a.(arg_query) = false → a.(arg_query) ≠ Undefined → a.(arg_query) ≠ Num NaN →
  well_formed (Obj (cache_key (key_of a) a.(arg_query))) = true →
  s.(caches) !! name = Some cache →
  (run server (fetch a (key_of a)) s).2 = Ok value →
  (run server (dispatch (store_of m) ("Query" +:+ name) payload) s).2 =
    Ok (or_empty (cache !! json_key (Obj (cache_key (key_of a) Null)) ?? Undefined)).
Proof. apply (run_dispatch_falsy (store_of m)). Qed.

(** ** Transactions *)

(** The messages of a module. *)
Definition msg_of (m : ledger_module) : Type :=
  match m with
  | pki => PkiStore.Msg
  | compliance => ComplianceStore.Msg
  | model => ModelStore.Msg
  | vendorinfo => VendorinfoStore.Msg
  | compliancetest => ComplianceTestStore.Msg
  | validator => ValidatorStore.Msg
  | dclauth => DclauthStore.Msg
  | dclupgrade => DclupgradeStore.Msg
  end.

Definition types_of (m : ledger_module) : list (string * GeneratedType (msg_of m)) :=
  match m with
  | pki => PkiStore.types
  | compliance => ComplianceStore.types
  | model => ModelStore.types
  | vendorinfo => VendorinfoStore.types
  | compliancetest => ComplianceTestStore.types
  | validator => ValidatorStore.types
  | dclauth => DclauthStore.types
  | dclupgrade => DclupgradeStore.types
  end.

Definition normal_of (m : ledger_module) : msg_of m → msg_of m :=
  match m with
  | pki => PkiStore.Msg_normal
  | compliance => ComplianceStore.Msg_normal
  | model => ModelStore.Msg_normal
  | vendorinfo => VendorinfoStore.Msg_normal
  | compliancetest => ComplianceTestStore.Msg_normal
  | validator => ValidatorStore.Msg_normal
  | dclauth => DclauthStore.Msg_normal
  | dclupgrade => DclupgradeStore.Msg_normal
  end.

Definition fits_of {PS : ProtobufSpec PB} (m : ledger_module) : msg_of m → Prop :=
  match m with
  | pki => PkiStore.Msg_fits
  | compliance => ComplianceStore.Msg_fits
  | model => ModelStore.Msg_fits
  | vendorinfo => VendorinfoStore.Msg_fits
  | compliancetest => ComplianceTestStore.Msg_fits
  | validator => ValidatorStore.Msg_fits
  | dclauth => DclauthStore.Msg_fits
  | dclupgrade => DclupgradeStore.Msg_fits
  end.

Definition tx_actions_of (m : ledger_module) : list (tx_action (msg_of m)) :=
  match m with
  | pki => PkiStore.tx_actions rootGetters
  | compliance => ComplianceStore.tx_actions rootGetters
  | model => ModelStore.tx_actions rootGetters
  | vendorinfo => VendorinfoStore.tx_actions rootGetters
  | compliancetest => ComplianceTestStore.tx_actions rootGetters
  | validator => ValidatorStore.tx_actions rootGetters
  | dclauth => DclauthStore.tx_actions rootGetters
  | dclupgrade => DclupgradeStore.tx_actions rootGetters
  end.

Context {PS : ProtobufSpec PB}.

Lemma tx_actions_lawful m :
  Forall (tx_lawful rootGetters (types_of m) (normal_of m) (fits_of m)) (tx_actions_of m).
Proof.
  destruct m;
    [ apply pki_tx_laws | apply compliance_tx_laws | apply model_tx_laws
    | apply vendorinfo_tx_laws | apply compliancetest_tx_laws
    | apply validator_tx_laws | apply dclauth_tx_laws | apply dclupgrade_tx_laws ].
Qed.

Lemma tx_action_lawful m A :
  In A (tx_actions_of m) → tx_lawful rootGetters (types_of m) (normal_of m) (fits_of m) A.
Proof. apply List.Forall_forall, tx_actions_lawful. Qed.

(** C17: every message constructor of every module builds a message of the
    module's type table, under the URL of its own type, which the registry
    encodes without throwing and decodes back to the message that was built,
    up to empty byte arrays. *)
Theorem tx_messages_registered m A d o :
  In A (tx_actions_of m) → A.(tx_construct) d = Ok o → fits_of m o.(value) →
  registered (types_of m) (normal_of m) o.
Proof.
  intros HA Hd Hf. destruct (tx_action_lawful m A HA) as [[Hc Hn] _ _ Hr].
  destruct d as [d|]; [rewrite Hc in Hd|by rewrite Hn in Hd].
  injection Hd as <-. by apply Hr.
Qed.

(** Each send action of each module reports a missing wallet; with a
    wallet it broadcasts, from its first account, the one message of its own
    type built from the given data, with the given fee and memo and a fixed
    gas limit, and reports a failure with its message. *)
Theorem send_actions m A :
  In A (tx_actions_of m) → sends_as rootGetters (newRegistry (types_of m)) A.(tx_name) A.(tx_built) A.(tx_send).
Proof.
  intros HA. destruct (tx_action_lawful m A HA) as [Hc -> _ _]. by eapply send_msg_sends.
Qed.

(** C4: a send action of any module, from the form to the node: the data given to
    it are built into a message, which the signing client, made with the registry
    of the module's types, encodes and submits, under the URL of the message's
    type, from the first account of the wallet; the decoder of that type reads
    back exactly the message built from the data, up to empty byte arrays. *)
Theorem transaction_delivered m {D : Delivery (msg_of m)} A w client addr accounts args d :
  In A (tx_actions_of m) → rootGetters.(signer) = Some w →
  (if js_Boolean rootGetters.(apiTendermint)
   then connectWithSigner rootGetters.(apiTendermint) w (newRegistry (types_of m))
   else offline w (newRegistry (types_of m))) = Ok client →
  getAccounts w = Ok (addr :: accounts) → args.(send_value) = Some d →
  let o := A.(tx_built) d in
  fits_of m o.(value) →
  ∃ T body, assoc o.(typeUrl) (types_of m) = Some T ∧
    type_encode T o.(value) = Some (Ok body) ∧
    type_decode T body = Ok (normal_of m o.(value)) ∧
    A.(tx_send) args =
      match submit client addr [(o.(typeUrl), body)] (mkFee (args.(send_fee) ?? []) "200000")
              (args.(send_memo) ?? "") with
      | Ok r => Ok r
      | Err e => tx_error A.(tx_name) "Send" "Could not broadcast Tx: " e
      end.
Proof.
  intros HA Hs Hcl Hg Hd o Hf. destruct (tx_action_lawful m A HA) as [Hc Hsend _ Hr].
  destruct (Hr d Hf) as (T & body & HT & He & Hdec). exists T, body. split_and!; [done..|].
  destruct (send_msg_sends rootGetters (newRegistry (types_of m)) A.(tx_name) _ _ _ Hc) as [_ Hact].
  rewrite Hsend, (Hact w client addr accounts args d Hs Hcl Hg Hd).
  rewrite (broadcast_submits (types_of m) client addr [o] [(o.(typeUrl), body)]); [done| |].
  - destruct (js_Boolean _); [left|right]; eauto.
  - repeat constructor. by exists T.
Qed.

(** What can go wrong when a message is built without being sent: there is
    no wallet, or there is no data; otherwise the action gives the message. *)
Theorem create_actions m A :
  In A (tx_actions_of m) →
  creates_as rootGetters (newRegistry (types_of m)) A.(tx_name) A.(tx_first) A.(tx_built) A.(tx_make).
Proof.
  intros HA. destruct (tx_action_lawful m A HA) as [Hc _ -> _]. by apply create_msg_creates.
Qed.

End stores.

(** C31: the cache keys of two calls are equal only if their parameters and
    queries are the same to JSON: distinct queries never share an entry. *)
Theorem cache_keys_distinct k1 q1 k2 q2 :
  well_formed (Obj (cache_key k1 q1)) = true → well_formed (Obj (cache_key k2 q2)) = true →
  q1 ≠ Undefined → q2 ≠ Undefined →
  json_key (Obj (cache_key k1 q1)) = json_key (Obj (cache_key k2 q2)) →
  normalize (Obj (object_of (spread k1))) = normalize (Obj (object_of (spread k2))) ∧
  normalize q1 = normalize q2.
Proof. apply cache_key_inj. Qed.

(** ** The structure of the types *)

(** The fields the store of the pki module lists for a type are those of its
    messages. *)
Definition structure_of (type : string) (message : js) : Prop :=
  ∀ PB : Protobuf, ∃ fields, getTypeStructure (PkiStore.getDefaultState (PB := PB)) type = Ok fields ∧
    fields ≡ₚ getStructure (spread message).

#[global] Instance field_eq_dec : EqDecision field.
Proof. solve_decision. Defined.

(** [getTypeStructure] lists, for every type of the pki module, the fields of
    its messages with their JavaScript types. *)
Theorem type_structures :
  structure_of "ApprovedCertificates" (ApprovedCertificates.toJSON (ApprovedCertificates.fromPartial ApprovedCertificates.nothing)) ∧
  structure_of "ApprovedCertificatesBySubject" (ApprovedCertificatesBySubject.toJSON (ApprovedCertificatesBySubject.fromPartial ApprovedCertificatesBySubject.nothing)) ∧
  structure_of "ApprovedRootCertificates" (ApprovedRootCertificates.toJSON (ApprovedRootCertificates.fromPartial ApprovedRootCertificates.nothing)) ∧
  structure_of "Certificate" (Certificate.toJSON (Certificate.fromPartial Certificate.nothing)) ∧
  structure_of "CertificateIdentifier" (CertificateIdentifier.toJSON (CertificateIdentifier.fromPartial CertificateIdentifier.nothing)) ∧
  structure_of "ChildCertificates" (ChildCertificates.toJSON (ChildCertificates.fromPartial ChildCertificates.nothing)) ∧
  structure_of "Grant" (Grant.toJSON (Grant.fromPartial Grant.nothing)) ∧
  structure_of "ProposedCertificate" (ProposedCertificate.toJSON (ProposedCertificate.fromPartial ProposedCertificate.nothing)) ∧
  structure_of "ProposedCertificateRevocation" (ProposedCertificateRevocation.toJSON (ProposedCertificateRevocation.fromPartial ProposedCertificateRevocation.nothing)) ∧
  structure_of "RejectedCertificate" (RejectedCertificate.toJSON (RejectedCertificate.fromPartial RejectedCertificate.nothing)) ∧
  structure_of "RevokedCertificates" (RevokedCertificates.toJSON (RevokedCertificates.fromPartial RevokedCertificates.nothing)) ∧
  structure_of "RevokedRootCertificates" (RevokedRootCertificates.toJSON (RevokedRootCertificates.fromPartial RevokedRootCertificates.nothing)) ∧
  structure_of "UniqueCertificate" (UniqueCertificate.toJSON (UniqueCertificate.fromPartial UniqueCertificate.nothing)).
Proof. split_and!; intros PB; (eexists; split; [reflexivity|]); by apply (bool_decide_unpack _). Qed.

(** ** A parameter that is read under another name *)

(** The query for the testing results of a software version reads the version
    from the property [software_version], while the other modules, the route
    and the messages call it [softwareVersion]: a version given under this
    name is not requested. *)
Theorem testing_results_version_ignored {CJ : Cosmjs} node tendermint wallet a vid pid version :
  url <$> sent (ComplianceTestStore.fetch_TestingResults (mkGetters (Str node) tendermint wallet) a
    (Obj [("vid", vid); ("pid", pid); ("softwareVersion", version)])) =
  Some (node +:+ "/dcl/compliancetest/testing-results/" +:+ js_String vid +:+ "/" +:+ js_String pid
         +:+ "/undefined").
Proof.
  pose proof (sent_get (S := state) node ("/dcl/compliancetest/testing-results/" +:+ js_String vid +:+
    "/" +:+ js_String pid +:+ "/undefined") Undefined eq_refl) as H.
  etransitivity; [|exact H]. reflexivity.
Qed.

(** ** Witnesses *)

Module Sample.

#[global] Instance spvuex : SpVuex := {| sp_message := fun args => Str (join ": " args) |}.

(** A wallet is the list of its addresses, a registry its table; a client keeps
    its registry and encodes with it what it sends.  What was sent is seen in the
    answer. *)
Definition transaction (addr : string) (bodies : list (string * bytes)) (fee : StdFee) (memo : string)
    : js :=
  Obj [("signer", Str addr); ("gas", Str fee.(gas)); ("memo", Str memo);
       ("messages", Arr (map (fun b => Arr [Str b.1; Str (of_chars b.2)]) bodies))].

Definition encode_with {Msg : Type} (types : list (string * GeneratedType Msg)) (o : EncodeObject Msg)
    : result (string * bytes) :=
  match assoc o.(typeUrl) types with
  | Some T =>
      match type_encode T o.(value) with
      | Some r => body ← r; Ok (o.(typeUrl), body)
      | None => Err (Error "Unexpected message")
      end
  | None => Err (Error "Unregistered type url")
  end.

#[global] Instance cosmjs : Cosmjs := {|
  Wallet := list string;
  TypeRegistry := fun Msg => list (string * GeneratedType Msg);
  Client := fun Msg => list (string * GeneratedType Msg);
  newRegistry := fun _ types => types;
  connectWithSigner := fun _ _ _ registry => Ok registry;
  offline := fun _ _ registry => Ok registry;
  getAccounts := fun w => Ok w;
  broadcast := fun _ client addr msgs fee memo =>
    bodies ← result_map (encode_with client) msgs; Ok (transaction addr bodies fee memo);
|}.

#[global] Instance wire : Protobuf := Wire.pb.

Definition getters : root_getters := mkGetters (Str "http://node") (Str "http://rpc") (Some ["cosmos1a"]).

Definition stores : ledger_module → StoreModule := store_of getters 5.
Definition initial : state := (stores pki).(getDefaultState).

Definition answer (v : js) : result Response := Ok (mkResponse true (fun _ => Ok v)).

Definition page1 : page := mkPage [Str "a"; Str "b"] [("next_key", Str "K"); ("total", Str "3")].
Definition page2 : page := mkPage [Str "c"] [("next_key", Null); ("total", Str "3")].

(** A node with one list of two pages. *)
Definition node (call : FetchCall) : result Response :=
  if String.eqb call.(url) "http://node/dcl/pki/certificates" then
    answer (page_value "approvedCertificates" page1.(items) page1.(pagination))
  else if String.eqb call.(url) "http://node/dcl/pki/certificates?pagination.key=K" then
    answer (page_value "approvedCertificates" page2.(items) page2.(pagination))
  else if String.eqb call.(url) "http://node/dcl/pki/certificates/S/K" then
    answer (Obj [("subject", Str "S")])
  else Ok (mkResponse false (fun _ => Ok Null)).

Definition one : js :=
  Obj [("options", Obj [("subscribe", Bool true)]);
       ("params", Obj [("subject", Str "S"); ("subjectKeyId", Str "K")])].
Definition one_args : query_args :=
  mkArgs (Bool true) Undefined (Obj [("subject", Str "S"); ("subjectKeyId", Str "K")]) Null.
Definition all_args : query_args := mkArgs Undefined (Bool true) Undefined Null.
Definition all_pages : js := Obj [("options", Obj [("all", Bool true)])].

Lemma known_fetcher :
  fetcher_of (stores pki) "ApprovedCertificates" (PkiStore.fetch_ApprovedCertificates getters).
Proof. apply list_elem_of_In. simpl. tauto. Defined.

Lemma known_pages :
  ("ApprovedCertificatesAll", PkiStore.all_ApprovedCertificatesAll getters) ∈
    (stores pki).(list_queries).
Proof. apply list_elem_of_In. simpl. tauto. Defined.

Lemma node_first :
  answers node (PkiStore.all_ApprovedCertificatesAll getters) "approvedCertificates" Null page1.
Proof. intros s. eexists. split; reflexivity. Defined.

Lemma node_follows :
  follows node (PkiStore.all_ApprovedCertificatesAll getters) "approvedCertificates" Null page1 [page2].
Proof. split; [reflexivity|]. split; [|reflexivity]. intros s. eexists. split; reflexivity. Defined.

Lemma query_stores_value_witness :
  ∃ s', run node (dispatch (stores pki) "QueryApprovedCertificates" one) initial =
          (s', Ok (Obj [("subject", Str "S")])) ∧
        get_cached "ApprovedCertificates" s' (Some (cache_key (key_of one_args) Null)) =
          Obj [("subject", Str "S")] ∧
        stored "ApprovedCertificates" one_args (key_of one_args) (Obj [("subject", Str "S")]) initial s'.
Proof.
  eapply (query_stores_value getters 5 pki node "ApprovedCertificates" _ one one_args initial ∅
    (Obj [("subject", Str "S")])); [apply known_fetcher|reflexivity..].
Defined.

Lemma query_failure_atomic_witness : ∃ e,
  run node (dispatch (stores pki) "QueryChildCertificates" (Obj [])) initial = (initial, Err e).
Proof.
  destruct (run node (dispatch (stores pki) "QueryChildCertificates" (Obj [])) initial)
    as [s' [v|e]] eqn:E; [vm_compute in E; discriminate E|].
  exists e. f_equal.
  apply (query_failure_atomic getters 5 pki node "QueryChildCertificates" (Obj []) initial s' e);
    [|exact E].
  intros name Hn. exists ∅. by apply (default_caches (M := stores pki)).
Defined.

Lemma query_http_error_witness :
  run (fun _ => Ok (mkResponse false (fun _ => Ok Null)))
    (dispatch (stores pki) "QueryApprovedCertificates" one) initial =
  (initial, Err (SpVuexError ["QueryClient:QueryApprovedCertificates";
    "API Node Unavailable. Could not perform query: undefined"])).
Proof.
  eapply (query_http_error getters 5 pki _ "ApprovedCertificates" _ one one_args initial);
    [apply known_fetcher|reflexivity|]. intros call. eexists. split; reflexivity.
Defined.

Lemma cache_keys_distinct_witness :
  let k1 := Obj [("subject", Str "S")] in
  let k2 := Obj [("subject", Str "S"); ("subjectKeyId", Undefined)] in
  normalize (Obj (object_of (spread k1))) = normalize (Obj (object_of (spread k2))) ∧
  normalize Null = normalize Null.
Proof.
  apply (cache_keys_distinct (Obj [("subject", Str "S")]) Null
    (Obj [("subject", Str "S"); ("subjectKeyId", Undefined)]) Null); reflexivity || discriminate.
Defined.

Lemma list_query_all_pages_witness :
  ∃ s', run node (dispatch (stores pki) "QueryApprovedCertificatesAll" all_pages) initial =
          (s', Ok (page_value "approvedCertificates" [Str "a"; Str "b"; Str "c"] page2.(pagination))) ∧
        stored "ApprovedCertificatesAll" all_args (key_of all_args)
          (page_value "approvedCertificates" [Str "a"; Str "b"; Str "c"] page2.(pagination)) initial s'.
Proof.
  eapply (list_query_all_pages getters 5 pki node "ApprovedCertificatesAll" _
    "approvedCertificates" all_pages all_args initial ∅ page1 [page2]);
    [apply known_pages|reflexivity..|discriminate|simpl; lia|apply node_first|apply node_follows].
Defined.

Lemma refresh_updates_entry_witness :
  let sub := subscription "QueryApprovedCertificates" Undefined (key_of one_args) Null in
  (run node (refresh (dispatch (stores pki)) (json_key sub)) initial).2 = Ok (Obj [("subject", Str "S")]).
Proof.
  intros sub.
  pose proof (refresh_updates_entry getters 5 pki node "ApprovedCertificates" _ one_args initial ∅
    (Obj [("subject", Str "S")]) known_fetcher eq_refl eq_refl eq_refl eq_refl) as H.
  change (json_key sub) with (json_key (subscription ("Query" +:+ "ApprovedCertificates")
    (arg_all one_args) (key_of one_args) (arg_query one_args))).
  unfold stores. rewrite H. reflexivity.
Defined.

(** A query is started and answered; its value is cached and subscribed to. *)
Ltac query_answered :=
  eexists; split;
  [ eapply rtc_l;
    [eapply step_start;
     [apply (task_dispatch (stores pki) "QueryApprovedCertificates" one)|reflexivity]|];
    eapply rtc_l;
    [eapply (step_answer _ _ _ _ 0%nat _ _ (answer (Str "v"))); [reflexivity|reflexivity]|];
    apply rtc_refl
  | reflexivity ].

Lemma store_interleaving_witness : ∃ sys : system FetchCall Response state js,
  caches_explained (fetcher_of (stores pki)) sys.(history) sys.(shared) ∧
  subs_known (fetcher_of (stores pki)) sys.(shared) ∧
  length sys.(shared).(Subscriptions) = 1%nat.
Proof.
  assert (∃ sys, rtc (sys_step (store_task (stores pki))) (mkSystem initial [] []) sys ∧
            length sys.(shared).(Subscriptions) = 1%nat) as (sys & Hr & Hl) by query_answered.
  exists sys. destruct (store_interleaving getters 5 pki sys Hr) as [H1 H2].
  split; [exact H1|]. split; [exact H2|exact Hl].
Defined.

Lemma store_refines_cache_witness : ∃ sys σ,
  rtc (spec_step (stores pki)) spec_init σ ∧ simulates (stores pki) sys σ ∧
  length σ.(watched) = 1%nat.
Proof.
  assert (∃ sys, rtc (sys_step (store_task (stores pki))) (mkSystem initial [] []) sys ∧
            length sys.(shared).(Subscriptions) = 1%nat) as (sys & Hr & Hl) by query_answered.
  destruct (store_refines_cache getters 5 pki sys Hr) as (σ & Hσ & Hs & _).
  exists sys, σ. split; [exact Hσ|]. split; [exact Hs|].
  destruct Hs as ((_ & _ & Hw) & _). by rewrite <- Hw.
Defined.

(** Two queries, whose answers arrive in another order than the queries. *)
Definition two_queries : list (proc FetchCall Response state js) :=
  [dispatch (stores pki) "QueryApprovedCertificatesAll" all_pages;
   dispatch (stores pki) "QueryApprovedCertificates" one].

Lemma store_serialisable_witness : ∃ sys log,
  served node initial two_queries sys ∧ all_done sys ∧
  log ≡ₚ outcomes two_queries sys.(tasks) ∧ runs_as node initial log sys.(shared).
Proof.
  assert (∃ sys, served node initial two_queries sys ∧ all_done sys) as (sys & Hs & Hd).
  { eexists. split.
    - serve_task 0%nat ltac:(serve_task 1%nat ltac:(serve_task 0%nat ltac:(
        eapply (served_start _ _ [_]);
        [eapply (served_start _ _ []); [apply served_none|reflexivity]|reflexivity]))).
    - intros [|[|i]] u Hi; simpl in Hi; try discriminate Hi; injection Hi as <-; by eexists. }
  assert (Forall (store_task (stores pki)) two_queries) as Hps by (repeat constructor).
  destruct (store_serialisable getters 5 pki node initial two_queries sys Hps Hs) as [(log & Hl & Hr) _].
  exists sys, log. split; [exact Hs|]. split; [exact Hd|]. split; [exact Hl|exact Hr].
Defined.

Definition live_one : live := mkLive "ApprovedCertificates" (PkiStore.fetch_ApprovedCertificates getters) one_args.
Definition subscribed : state := initial <| Subscriptions := [live_text live_one] |>.

Lemma block_updates_entries_witness : ∃ sys,
  served node subscribed (StoreUpdate (dispatch (stores pki)) subscribed) sys ∧ all_done sys ∧
  entry sys.(shared) "ApprovedCertificates" (live_key live_one) = Some (Obj [("subject", Str "S")]).
Proof.
  destruct (served_exists node subscribed (StoreUpdate (dispatch (stores pki)) subscribed))
    as (sys & Hs & Hd).
  { constructor; [|constructor]. apply (store_task_one_shot (stores pki)), task_refresh_one. }
  exists sys. split; [exact Hs|]. split; [exact Hd|].
  assert (Forall (live_ok (stores pki)) [live_one]) as Hl.
  { constructor; [|constructor]. split; [apply known_fetcher|]. split; reflexivity. }
  assert (has_caches (stores pki) subscribed) as Hc.
  { intros name Hn. exists ∅. by apply (default_caches (M := stores pki)). }
  destruct (block_updates_entries getters 5 pki node subscribed [live_one] sys Hl Hc eq_refl Hs Hd)
    as (_ & H & _).
  apply (H live_one); [by left|reflexivity|].
  intros l' v' ->%list_elem_of_singleton _ _ Hv. vm_compute in Hv. by injection Hv as <-.
Defined.

Definition root_args : query_args := mkArgs (Bool false) (Bool false) Undefined Null.

Lemma last_answer_wins_witness : ∃ sys,
  rtc (sys_step (store_task (stores pki))) (mkSystem initial [] []) sys ∧
  get_cached "ApprovedRootCertificates" sys.(shared) (Some (cache_key (Obj []) Null)) = Str "old".
Proof.
  assert (fetcher_of (stores pki) "ApprovedRootCertificates"
            (PkiStore.fetch_ApprovedRootCertificates getters))
    as Hf by (apply list_elem_of_In; simpl; tauto).
  assert (is_Some (caches initial !! "ApprovedRootCertificates")) as Hc by by eexists.
  destruct (last_answer_wins getters 5 pki _ _ (Obj []) root_args _ _ initial Hf eq_refl eq_refl Hc
    eq_refl (answer (Str "old")) (answer (Str "new")) (Str "old") (Str "new") eq_refl eq_refl)
    as (sys & Hr & _ & Hg).
  exists sys. split; [exact Hr|exact Hg].
Defined.

(** The list of two pages is complete after two answers. *)
Lemma query_completes_witness : ∃ s t sys,
  settle (dispatch (stores pki) "QueryApprovedCertificatesAll" all_pages) initial = (s, t) ∧
  answered (store_task (stores pki)) node 0 2 (mkSystem s [t] []) sys ∧ finished 0 sys.
Proof.
  eexists _, _, _. split; [reflexivity|].
  match goal with |- ?answered_twice ∧ _ => assert answered_twice as Ha end.
  { eapply answered_this; [reflexivity|reflexivity|].
    eapply answered_this; [reflexivity|reflexivity|]. apply answered_refl. }
  split; [exact Ha|].
  destruct (query_completes getters 5 pki node "ApprovedCertificatesAll" _ all_pages all_args 2
    initial [] [] _ _ 2 _ (list_query_fetcher _ _ known_pages) eq_refl
    (needs_pages (stores pki) node _ all_args _ "approvedCertificates" page1 [page2] known_pages eq_refl
       ltac:(discriminate) ltac:(simpl; lia) node_first node_follows) eq_refl Ha) as [Hf|[Hk _]];
    [exact Hf|lia].
Defined.

Definition empty_query : js :=
  Obj [("params", Obj [("subject", Str "S"); ("subjectKeyId", Str "K")]); ("query", Str "")].
Definition empty_query_args : query_args :=
  mkArgs (Bool false) (Bool false) (Obj [("subject", Str "S"); ("subjectKeyId", Str "K")]) (Str "").

Lemma falsy_query_not_found_witness :
  (run node (dispatch (stores pki) "QueryApprovedCertificates" empty_query) initial).2 = Ok (Obj []).
Proof.
  refine (falsy_query_not_found getters 5 pki node "ApprovedCertificates" _ empty_query empty_query_args
    initial ∅ (Obj [("subject", Str "S")]) known_fetcher _ _ _ _ _ _ _);
    reflexivity || discriminate.
Defined.

Definition sample_data : MsgRevokeX509Cert.partial :=
  MsgRevokeX509Cert.mkPartial (Some "cosmos1a") (Some "S") (Some "K") None None.

Lemma tx_messages_registered_witness :
  registered (types_of pki) (normal_of pki)
    (mkEncode "/zigbeealliance.distributedcomplianceledger.pki.MsgRevokeX509Cert"
      (PkiStore.VMsgRevokeX509Cert (MsgRevokeX509Cert.fromPartial sample_data))).
Proof.
  eapply (tx_messages_registered getters pki
    (mkTxAction "MsgRevokeX509Cert" "signer" _ PkiStore.msgRevokeX509Cert
       (PkiStore.sendMsgRevokeX509Cert getters) (PkiStore.createMsgRevokeX509Cert getters))
    (Some sample_data)); [simpl; tauto|reflexivity|].
  split; [vm_compute; split; [split; intros [=]|reflexivity]|reflexivity].
Defined.

Definition add_cert (g : root_getters) : tx_action (msg_of pki) :=
  mkTxAction "MsgAddX509Cert" "signer"
    (fun d => mkEncode "/zigbeealliance.distributedcomplianceledger.pki.MsgAddX509Cert"
      (PkiStore.VMsgAddX509Cert (MsgAddX509Cert.fromPartial d)))
    PkiStore.msgAddX509Cert (PkiStore.sendMsgAddX509Cert g) (PkiStore.createMsgAddX509Cert g).

Lemma add_cert_known g : In (add_cert g) (tx_actions_of g pki).
Proof. simpl. tauto. Defined.

Definition cert_data : MsgAddX509Cert.partial :=
  MsgAddX509Cert.mkPartial (Some "cosmos1a") (Some "PEM") None None.

(** The bytes of the message. *)
Definition cert_body : bytes :=
  finish (MsgAddX509Cert.encode (PB := Wire.pb) (MsgAddX509Cert.fromPartial cert_data) create).

Definition cert_transaction : js :=
  transaction "cosmos1a"
    [("/zigbeealliance.distributedcomplianceledger.pki.MsgAddX509Cert", cert_body)] defaultFee "hi".

Lemma send_actions_witness :
  PkiStore.sendMsgAddX509Cert getters (mkSend (Some cert_data) None (Some "hi")) =
    Ok cert_transaction.
Proof.
  exact (proj2 (send_actions getters pki (add_cert getters) (add_cert_known getters))
    ["cosmos1a"] (types_of pki) "cosmos1a" [] (mkSend (Some cert_data) None (Some "hi")) cert_data
    eq_refl eq_refl eq_refl eq_refl).
Defined.

(** The client submits what its registry makes of the messages. *)
Lemma encode_with_registered {Msg : Type} (types : list (string * GeneratedType Msg)) msgs bodies :
  Forall2 (fun o body => ∃ T, assoc o.(typeUrl) types = Some T ∧ body.1 = o.(typeUrl) ∧
             type_encode T o.(value) = Some (Ok body.2)) msgs bodies →
  result_map (encode_with types) msgs = Ok bodies.
Proof.
  induction 1 as [|o [url body] msgs bodies (T & HT & Hu & He) _ IH]; simpl in *; [done|].
  assert (encode_with types o = Ok (o.(typeUrl), body)) as ->.
  { unfold encode_with. by rewrite HT, He. }
  simpl. by rewrite IH, Hu.
Qed.

#[global] Program Instance delivery (Msg : Type) : Delivery Msg := {|
  submit := fun _ addr bodies fee memo => Ok (transaction addr bodies fee memo);
|}.
Next Obligation.
  intros Msg types client addr msgs bodies fee memo Hc Hm%encode_with_registered.
  assert (client = types) as ->.
  { destruct Hc as [(? & ? & H)|(? & H)]; simpl in H; congruence. }
  cbn [broadcast cosmjs]. by rewrite Hm.
Qed.

(** What is sent is the encoding of the certificate, by the type of its URL. *)
Lemma transaction_delivered_witness : ∃ T body,
  assoc "/zigbeealliance.distributedcomplianceledger.pki.MsgAddX509Cert" (types_of pki) = Some T ∧
  type_decode T body = Ok (PkiStore.VMsgAddX509Cert (MsgAddX509Cert.fromPartial cert_data)) ∧
  PkiStore.sendMsgAddX509Cert getters (mkSend (Some cert_data) None (Some "hi")) =
    Ok (transaction "cosmos1a"
      [("/zigbeealliance.distributedcomplianceledger.pki.MsgAddX509Cert", body)] defaultFee "hi").
Proof.
  destruct (transaction_delivered getters pki (add_cert getters) ["cosmos1a"] (types_of pki) "cosmos1a"
    [] (mkSend (Some cert_data) None (Some "hi")) cert_data (add_cert_known getters)
    eq_refl eq_refl eq_refl eq_refl) as (T & body & HT & _ & Hd & Hs).
  - split; [vm_compute; repeat split; intros [=]|reflexivity].
  - exists T, body. split; [exact HT|]. split; [exact Hd|exact Hs].
Defined.

Lemma create_actions_witness :
  PkiStore.createMsgAddX509Cert (mkGetters Null Null None) None =
  Err (SpVuexError ["TxClient:MsgAddX509Cert:Init";
    "Could not initialize signing client. Wallet is required."]).
Proof.
  exact (proj1 (create_actions (mkGetters Null Null None) pki (add_cert (mkGetters Null Null None))
    (add_cert_known _)) eq_refl None).
Defined.

End Sample.
