(* ===== verification/CosmosStores.v ===== *)
(** * The stores of all modules of the Cosmos SDK and ibc-go

    The eleven modules whose stores implement the interface of [CosmosStore.v],
    and what follows for all of them. *)
From S2P Require Import Prelude Js Protobuf Codec WireFormat Fallible MessageTable CosmosBase BankTypes JsonText Uri Async RestClient ApiRoutes Pages VuexStore TxClient CosmosStore AuthzStore BankStore CrisisStore DistributionStore EvidenceStore FeegrantStore GovStore SlashingStore StakingStore VestingStore TransferStore LedgerStores.
Open Scope Z_scope.

Inductive cosmos_module : Set :=
| authz | bank | crisis | distribution | evidence | feegrant | gov | slashing | staking | vesting
| transfer.

Section stores.
Context {SV : SpVuex} {CJ : Cosmjs}.
Context (rootGetters : root_getters) (max_pages : nat).

Definition cosmos_store (m : cosmos_module) : Cosmos.StoreModule :=
  match m with
  | authz => AuthzStore.store rootGetters max_pages
  | bank => BankStore.store rootGetters max_pages
  | crisis => CrisisStore.store max_pages
  | distribution => DistributionStore.store rootGetters max_pages
  | evidence => EvidenceStore.store rootGetters max_pages
  | feegrant => FeegrantStore.store rootGetters max_pages
  | gov => GovStore.store rootGetters max_pages
  | slashing => SlashingStore.store rootGetters max_pages
  | staking => StakingStore.store rootGetters max_pages
  | vesting => VestingStore.store max_pages
  | transfer => TransferStore.store rootGetters max_pages
  end.

#[global] Instance cosmos_store_laws m : Cosmos.StoreLaws (cosmos_store m).
Proof. destruct m; apply _. Qed.

Lemma cosmos_max_pages m : Cosmos.max_pages (cosmos_store m) = max_pages.
Proof. by destruct m. Qed.

(** ** Queries *)

(** C23: a query of any of these modules whose value can be fetched stores it
    under the key of its parameters and query, returns it, adds a subscription
    when asked to and changes nothing else of the store; one that fails leaves
    the store as it was. *)
Theorem cosmos_query m server name fetch payload a s cache :
  Cosmos.fetcher_of (cosmos_store m) name fetch → Cosmos.destructure payload = Ok a →
  plain_query a.(arg_query) = true → s.(Cosmos.caches) !! name = Some cache →
  match (run server (fetch a a.(arg_params)) s).2 with
  | Ok value => ∃ s',
      run server (Cosmos.dispatch (cosmos_store m) ("Query" +:+ name) payload) s =
        (s', Ok (or_empty value)) ∧
      Cosmos.get_cached name s' (Some (cache_key a.(arg_params) a.(arg_query))) = or_empty value ∧
      Cosmos.stored name a a.(arg_params) value s s'
  | Err e => ∃ e',
      run server (Cosmos.dispatch (cosmos_store m) ("Query" +:+ name) payload) s = (s, Err e')
  end.
Proof.
  intros Hf Ha Hq Hc. destruct (run server (fetch a (arg_params a)) s).2 as [value|e] eqn:Hv.
  - by eapply (Cosmos.cosmos_run_dispatch_stores (cosmos_store m)).
  - rewrite (Cosmos.dispatch_fetcher _ _ _ Hf).
    rewrite (Cosmos.cosmos_run_query_action _ _ _ _ _ _ Ha (Cosmos.fetcher_stateless _ _ _ _ Hf)), Hv.
    unfold Cosmos.query_error. destruct (exn_message e) as [msg|e']; by eexists.
Qed.

(** A call without parameters is refused by the destructuring of its
    argument: the error is no [SpVuexError], since it is thrown before the [try]
    of the action, and nothing is requested or stored.  The stores of the
    ledger's own modules take an empty object instead. *)
Theorem cosmos_params_required m server name fetch payload a s :
  Cosmos.fetcher_of (cosmos_store m) name fetch → VuexStore.destructure payload = Ok a →
  is_nullish a.(arg_params) = true →
  run server (Cosmos.dispatch (cosmos_store m) ("Query" +:+ name) payload) s =
    (s, Err (Cosmos.no_params_error a.(arg_params))).
Proof. apply (Cosmos.run_dispatch_no_params (cosmos_store m)). Qed.

(** C24: with [all] set, a list query follows the keys that the pages give under
    [nextKey] to the last page and stores all the items, in order and each
    once. *)
Theorem cosmos_all_pages m server name query_all f payload a s cache p ps :
  (name, query_all) ∈ (cosmos_store m).(Cosmos.list_queries) → Cosmos.destructure payload = Ok a →
  plain_query a.(arg_query) = true → js_Boolean a.(arg_all) = true →
  s.(Cosmos.caches) !! name = Some cache → f ≠ "pagination" → (length ps <= max_pages)%nat →
  answers server (query_all a.(arg_params)) f a.(arg_query) p →
  Pages.follows "nextKey" server (query_all a.(arg_params)) f a.(arg_query) p ps →
  ∃ s', run server (Cosmos.dispatch (cosmos_store m) ("Query" +:+ name) payload) s =
          (s', Ok (page_value f (concat (map items (p :: ps))) (List.last ps p).(pagination))) ∧
        Cosmos.stored name a a.(arg_params)
          (page_value f (concat (map items (p :: ps))) (List.last ps p).(pagination)) s s'.
Proof. rewrite <- (cosmos_max_pages m). apply (Cosmos.cosmos_run_dispatch_pages (cosmos_store m)). Qed.

(** From a node that gives the key of the next page under [next_key], as the
    stores of the ledger's own modules expect of the same node, a query for all
    pages takes the first page for the whole list. *)
Theorem cosmos_next_key_ignored m server name query_all f payload a s cache p k rest :
  (name, query_all) ∈ (cosmos_store m).(Cosmos.list_queries) → Cosmos.destructure payload = Ok a →
  plain_query a.(arg_query) = true → js_Boolean a.(arg_all) = true →
  s.(Cosmos.caches) !! name = Some cache → f ≠ "pagination" →
  p.(pagination) = ("next_key", k) :: rest → assoc "nextKey" rest = None →
  answers server (query_all a.(arg_params)) f a.(arg_query) p →
  ∃ s', run server (Cosmos.dispatch (cosmos_store m) ("Query" +:+ name) payload) s =
          (s', Ok (page_value f p.(items) p.(pagination))) ∧
        Cosmos.stored name a a.(arg_params) (page_value f p.(items) p.(pagination)) s s'.
Proof.
  intros Hl Ha Hq Hall Hc Hf Hp Hrest Hans. destruct (Hans s) as (r & Hr & Hd).
  destruct (Cosmos.run_dispatch_first_page (cosmos_store m) server name query_all payload a s cache r
    (Obj p.(pagination)) Hl Ha Hq Hall Hc Hr) as (s' & Hs & Hst).
  - rewrite Hd. unfold page_value, get. cbn [assoc].
    by rewrite (proj2 (String.eqb_neq "pagination" f)) by done.
  - rewrite Hp. simpl. by rewrite Hrest.
  - exists s'. by rewrite Hd in Hs, Hst.
Qed.

(** ** Subscriptions *)

(** C25: subscribing to the same query again adds another subscription, since the
    set compares objects: after [n] calls there are [n] more of them, each
    refreshed on its own at every block, and deleting any other object, an equal
    one included, removes none of them. *)
Theorem cosmos_subscriptions_accumulate m server name fetch payload a n s value :
  Cosmos.fetcher_of (cosmos_store m) name fetch → Cosmos.destructure payload = Ok a →
  plain_query a.(arg_query) = true → js_Boolean a.(arg_subscribe) = true →
  is_Some (s.(Cosmos.caches) !! name) →
  (∀ s, (run server (fetch a a.(arg_params)) s).2 = Ok value) →
  let sub := subscription ("Query" +:+ name) a.(arg_all) a.(arg_params) a.(arg_query) in
  let s' := Cosmos.run_times server n (Cosmos.dispatch (cosmos_store m) ("Query" +:+ name) payload) s in
  s'.(Cosmos.Subscriptions) =
    s.(Cosmos.Subscriptions) ++ map (fun o => (o, sub)) (seq s.(Cosmos.objects) n) ∧
  length (Cosmos.StoreUpdate (Cosmos.dispatch (cosmos_store m)) s') =
    (length s.(Cosmos.Subscriptions) + n)%nat ∧
  ∀ o, o ∉ s'.(Cosmos.Subscriptions).*1 →
    (Cosmos.UNSUBSCRIBE o s').(Cosmos.Subscriptions) = s'.(Cosmos.Subscriptions).
Proof.
  intros Hf Ha Hq Hsub Hc Hv sub s'.
  pose proof (Cosmos.run_times_subscribed (cosmos_store m) server name fetch payload a n s value
    Hf Ha Hq Hsub Hc Hv) as Hs. fold s' sub in Hs. split; [exact Hs|]. split.
  - unfold Cosmos.StoreUpdate. by rewrite length_map, Hs, length_app, length_map, length_seq.
  - intros o. apply Cosmos.UNSUBSCRIBE_other.
Qed.

(** A subscription is refreshed with the arguments it was made with: its
    entry of the cache is replaced by the value fetched now, and nothing else of
    the store changes. *)
Theorem cosmos_refresh_updates_entry m server name fetch payload a s cache value :
  Cosmos.fetcher_of (cosmos_store m) name fetch → Cosmos.destructure payload = Ok a →
  let b := mkArgs Undefined a.(arg_all) (Obj (object_of (spread a.(arg_params)))) a.(arg_query) in
  plain_query a.(arg_query) = true → s.(Cosmos.caches) !! name = Some cache →
  (run server (fetch b b.(arg_params)) s).2 = Ok value →
  run server (Cosmos.refresh (Cosmos.dispatch (cosmos_store m))
    (subscription ("Query" +:+ name) a.(arg_all) a.(arg_params) a.(arg_query))) s =
    (s <| Cosmos.caches :=
            <[name := <[json_key (Obj (cache_key a.(arg_params) a.(arg_query))) := value]> cache]>
              s.(Cosmos.caches) |>, Ok (or_empty value)).
Proof. apply (Cosmos.cosmos_run_refresh_entry (cosmos_store m)). Qed.

(** C21: however the actions of such a store are interleaved, and whatever the
    node answers, a cached value is what its own query fetched from answers to
    its own requests, and the subscriptions are distinct objects that the query
    actions made. *)
Theorem cosmos_interleaving m sys :
  rtc (sys_step (Cosmos.store_task (cosmos_store m)))
    (mkSystem (cosmos_store m).(Cosmos.getDefaultState) [] []) sys →
  Cosmos.caches_explained (cosmos_store m) sys.(history) sys.(shared) ∧
  Cosmos.subs_known (cosmos_store m) sys.(shared).
Proof. intros Hr. by destruct (Cosmos.cosmos_reachable_inv (cosmos_store m) sys Hr) as (Hc & Hs & _). Qed.

(** C22: the actions of such a store are serialisable: when [server] has answered
    them, in any order, the state and the results are those of running the
    actions that are done one after the other, in some order; and all of them
    can be brought to their end. *)
Theorem cosmos_serialisable m server s ps sys :
  Forall (Cosmos.store_task (cosmos_store m)) ps → served server s ps sys →
  (∃ log, log ≡ₚ outcomes ps sys.(tasks) ∧ runs_as server s log sys.(shared)) ∧
  ∃ sys', rtc (answer_step server) sys sys' ∧ all_done sys'.
Proof.
  intros Hps Hs. assert (Forall (one_shot server) ps) as Ho.
  { eapply List.Forall_impl; [|exact Hps]. apply (Cosmos.cosmos_task_one_shot (cosmos_store m)). }
  split; [by eapply served_serial|by eapply served_finishes].
Qed.

(** ** Transactions *)

Definition cosmos_msg (m : cosmos_module) : Type :=
  match m with
  | authz => AuthzStore.Msg
  | bank => BankStore.Msg
  | crisis => CrisisStore.Msg
  | distribution => DistributionStore.Msg
  | evidence => EvidenceStore.Msg
  | feegrant => FeegrantStore.Msg
  | gov => GovStore.Msg
  | slashing => SlashingStore.Msg
  | staking => StakingStore.Msg
  | vesting => VestingStore.Msg
  | transfer => TransferStore.Msg
  end.

Context {PB : Protobuf} {PS : ProtobufSpec PB}.

Definition cosmos_types (m : cosmos_module) : list (string * message_type) :=
  match m with
  | authz => AuthzStore.types
  | bank => BankStore.types
  | crisis => CrisisStore.types
  | distribution => DistributionStore.types
  | evidence => EvidenceStore.types
  | feegrant => FeegrantStore.types
  | gov => GovStore.types
  | slashing => SlashingStore.types
  | staking => StakingStore.types
  | vesting => VestingStore.types
  | transfer => TransferStore.types
  end.

Definition cosmos_registered (m : cosmos_module) : list (string * GeneratedType (cosmos_msg m)) :=
  match m with
  | authz => AuthzStore.registered_types
  | bank => BankStore.registered_types
  | crisis => CrisisStore.registered_types
  | distribution => DistributionStore.registered_types
  | evidence => EvidenceStore.registered_types
  | feegrant => FeegrantStore.registered_types
  | gov => GovStore.registered_types
  | slashing => SlashingStore.registered_types
  | staking => StakingStore.registered_types
  | vesting => VestingStore.registered_types
  | transfer => TransferStore.registered_types
  end.

Definition cosmos_tx_actions (m : cosmos_module) : list (Cosmos.tx_action (cosmos_msg m)) :=
  match m with
  | authz => AuthzStore.tx_actions rootGetters
  | bank => BankStore.tx_actions rootGetters
  | crisis => CrisisStore.tx_actions rootGetters
  | distribution => DistributionStore.tx_actions rootGetters
  | evidence => EvidenceStore.tx_actions rootGetters
  | feegrant => FeegrantStore.tx_actions rootGetters
  | gov => GovStore.tx_actions rootGetters
  | slashing => SlashingStore.tx_actions rootGetters
  | staking => StakingStore.tx_actions rootGetters
  | vesting => VestingStore.tx_actions rootGetters
  | transfer => TransferStore.tx_actions rootGetters
  end.

Lemma cosmos_tx_lawful m A :
  In A (cosmos_tx_actions m) → Cosmos.tx_lawful rootGetters (cosmos_types m) (cosmos_registered m) A.
Proof.
  apply List.Forall_forall. destruct m;
    [apply authz_tx_laws|apply bank_tx_laws|apply crisis_tx_laws|apply distribution_tx_laws
    |apply evidence_tx_laws|apply feegrant_tx_laws|apply gov_tx_laws|apply slashing_tx_laws
    |apply staking_tx_laws|apply vesting_tx_laws|apply transfer_tx_laws].
Qed.

(** C39: each send action of these modules broadcasts, from the first account of
    the wallet and with a client that has the module's registry, one message with
    the given data and the URL of its own type, under which the registry has this
    type and encodes the message with it; without a wallet it reports that.  The
    action that only builds the message builds the same one. *)
Theorem cosmos_transactions m A :
  In A (cosmos_tx_actions m) →
  Cosmos.acts_as rootGetters (newRegistry (cosmos_registered m)) A.(Cosmos.tx_name)
    A.(Cosmos.tx_create) A.(Cosmos.tx_send) A.(Cosmos.tx_make) ∧
  (∀ d, assoc (A.(Cosmos.tx_create) d).(typeUrl) (cosmos_types m) = Some A.(Cosmos.tx_row)) ∧
  (∀ d, ∃ T, assoc (A.(Cosmos.tx_create) (Some d)).(typeUrl) (cosmos_registered m) = Some T ∧
     type_encode T (A.(Cosmos.tx_create) (Some d)).(value) =
       Some (finish <$> A.(Cosmos.tx_row).(mt_encode) (A.(Cosmos.tx_row).(mt_fromPartial) d) create)).
Proof. intros [Hacts Hreg Henc _]%cosmos_tx_lawful. by split_and!. Qed.

End stores.

(** ** Witnesses *)

Module CosmosSample.

Import LedgerStores.Sample.

Definition stores : cosmos_module → Cosmos.StoreModule := cosmos_store getters 5.
Definition initial : Cosmos.state := (stores bank).(Cosmos.getDefaultState).

Definition supply1 : page :=
  mkPage [Str "a"; Str "b"] [("nextKey", Str "K"); ("total", Str "3")].
Definition supply2 : page := mkPage [Str "c"] [("nextKey", Null); ("total", Str "3")].

(** A node whose supply of coins is a list of two pages. *)
Definition bank_node (call : FetchCall) : result Response :=
  if String.eqb call.(url) "http://node/cosmos/bank/v1beta1/supply" then
    answer (page_value "supply" supply1.(items) supply1.(pagination))
  else if String.eqb call.(url) "http://node/cosmos/bank/v1beta1/supply?pagination.key=K" then
    answer (page_value "supply" supply2.(items) supply2.(pagination))
  else if String.eqb call.(url) "http://node/cosmos/bank/v1beta1/balances/A/atom" then
    answer (Obj [("amount", Str "7")])
  else Ok (mkResponse false (fun _ => Ok Null)).

(** The same list from a node that names the key as the ledger expects. *)
Definition snake1 : page :=
  mkPage [Str "a"; Str "b"] [("next_key", Str "K"); ("total", Str "3")].
Definition snake_node (call : FetchCall) : result Response :=
  answer (page_value "supply" snake1.(items) snake1.(pagination)).

Definition balance : js :=
  Obj [("options", Obj [("subscribe", Bool true)]);
       ("params", Obj [("address", Str "A"); ("denom", Str "atom")])].
Definition balance_args : query_args :=
  mkArgs (Bool true) Undefined (Obj [("address", Str "A"); ("denom", Str "atom")]) Null.
Definition all_supply : js := Obj [("options", Obj [("all", Bool true)]); ("params", Obj [])].
Definition all_args : query_args := mkArgs Undefined (Bool true) (Obj []) Null.

Lemma known_balance :
  Cosmos.fetcher_of (stores bank) "Balance" (BankStore.fetch_Balance getters).
Proof. apply list_elem_of_In. simpl. tauto. Defined.

Lemma known_supply :
  ("TotalSupply", BankStore.all_TotalSupply getters) ∈ (stores bank).(Cosmos.list_queries).
Proof. apply list_elem_of_In. simpl. tauto. Defined.

Lemma cosmos_query_witness : ∃ s',
  run bank_node (Cosmos.dispatch (stores bank) "QueryBalance" balance) initial =
    (s', Ok (Obj [("amount", Str "7")])) ∧
  Cosmos.get_cached "Balance" s' (Some (cache_key balance_args.(arg_params) Null)) =
    Obj [("amount", Str "7")] ∧
  Cosmos.stored "Balance" balance_args balance_args.(arg_params) (Obj [("amount", Str "7")]) initial s'.
Proof.
  exact (cosmos_query getters 5 bank bank_node "Balance" _ balance balance_args initial ∅
    known_balance eq_refl eq_refl eq_refl).
Defined.

Lemma cosmos_params_required_witness :
  run bank_node (Cosmos.dispatch (stores bank) "QueryBalance" (Obj [])) initial =
    (initial, Err (TypeError "Cannot destructure 'undefined' as it is undefined.")).
Proof.
  exact (cosmos_params_required getters 5 bank bank_node "Balance" _ (Obj [])
    (mkArgs (Bool false) (Bool false) Undefined Null) initial known_balance eq_refl eq_refl).
Defined.

Lemma cosmos_all_pages_witness : ∃ s',
  run bank_node (Cosmos.dispatch (stores bank) "QueryTotalSupply" all_supply) initial =
    (s', Ok (page_value "supply" [Str "a"; Str "b"; Str "c"] supply2.(pagination))) ∧
  Cosmos.stored "TotalSupply" all_args (Obj [])
    (page_value "supply" [Str "a"; Str "b"; Str "c"] supply2.(pagination)) initial s'.
Proof.
  eapply (cosmos_all_pages getters 5 bank bank_node "TotalSupply" _ "supply" all_supply all_args
    initial ∅ supply1 [supply2]); [apply known_supply|reflexivity..|discriminate|simpl; lia| |].
  - intros s. eexists. split; reflexivity.
  - split; [reflexivity|]. split; [|reflexivity]. intros s. eexists. split; reflexivity.
Defined.

Lemma cosmos_next_key_ignored_witness : ∃ s',
  run snake_node (Cosmos.dispatch (stores bank) "QueryTotalSupply" all_supply) initial =
    (s', Ok (page_value "supply" [Str "a"; Str "b"] snake1.(pagination))) ∧
  Cosmos.stored "TotalSupply" all_args (Obj [])
    (page_value "supply" [Str "a"; Str "b"] snake1.(pagination)) initial s'.
Proof.
  eapply (cosmos_next_key_ignored getters 5 bank snake_node "TotalSupply" _ "supply" all_supply all_args
    initial ∅ snake1 (Str "K") [("total", Str "3")]);
    [apply known_supply|reflexivity..|discriminate|reflexivity|reflexivity|].
  intros s. eexists. split; reflexivity.
Defined.

Lemma cosmos_subscriptions_accumulate_witness :
  let s' := Cosmos.run_times bank_node 3 (Cosmos.dispatch (stores bank) "QueryBalance" balance) initial in
  length s'.(Cosmos.Subscriptions) = 3%nat.
Proof.
  intros s'.
  pose proof (proj1 (cosmos_subscriptions_accumulate getters 5 bank bank_node "Balance" _ balance
    balance_args 3 initial (Obj [("amount", Str "7")]) known_balance eq_refl eq_refl eq_refl
    (ex_intro _ ∅ eq_refl) (fun s => eq_refl))) as H.
  unfold s', stores. change "QueryBalance" with ("Query" +:+ "Balance"). rewrite H. reflexivity.
Defined.

Lemma cosmos_refresh_updates_entry_witness :
  (run bank_node (Cosmos.refresh (Cosmos.dispatch (stores bank))
     (subscription "QueryBalance" Undefined balance_args.(arg_params) Null)) initial).2 =
  Ok (Obj [("amount", Str "7")]).
Proof.
  pose proof (cosmos_refresh_updates_entry getters 5 bank bank_node "Balance" _ balance balance_args
    initial ∅ (Obj [("amount", Str "7")]) known_balance eq_refl eq_refl eq_refl eq_refl) as H.
  exact (f_equal snd H).
Defined.

(** A query is started and answered; its value is cached and subscribed to. *)
Lemma cosmos_interleaving_witness : ∃ sys : system FetchCall Response Cosmos.state js,
  Cosmos.caches_explained (stores bank) sys.(history) sys.(shared) ∧
  Cosmos.subs_known (stores bank) sys.(shared) ∧
  length sys.(shared).(Cosmos.Subscriptions) = 1%nat.
Proof.
  assert (∃ sys, rtc (sys_step (Cosmos.store_task (stores bank))) (mkSystem initial [] []) sys ∧
            length sys.(shared).(Cosmos.Subscriptions) = 1%nat) as (sys & Hr & Hl).
  { eexists. split.
    - eapply rtc_l; [eapply step_start; [apply (Cosmos.task_dispatch (stores bank) "QueryBalance" balance)|reflexivity]|].
      eapply rtc_l; [eapply (step_answer _ _ _ _ 0%nat _ _ (answer (Str "v"))); [reflexivity|reflexivity]|].
      apply rtc_refl.
    - reflexivity. }
  exists sys. destruct (cosmos_interleaving getters 5 bank sys Hr) as [H1 H2].
  split; [exact H1|]. split; [exact H2|exact Hl].
Defined.

(** Two queries, whose answers arrive in another order than the queries. *)
Definition two_queries : list (proc FetchCall Response Cosmos.state js) :=
  [Cosmos.dispatch (stores bank) "QueryTotalSupply" all_supply;
   Cosmos.dispatch (stores bank) "QueryBalance" balance].

Lemma cosmos_serialisable_witness : ∃ sys log,
  served bank_node initial two_queries sys ∧ all_done sys ∧
  log ≡ₚ outcomes two_queries sys.(tasks) ∧ runs_as bank_node initial log sys.(shared).
Proof.
  assert (∃ sys, served bank_node initial two_queries sys ∧ all_done sys) as (sys & Hs & Hd).
  { eexists. split.
    - serve_task 0%nat ltac:(serve_task 1%nat ltac:(serve_task 0%nat ltac:(
        eapply (served_start _ _ [_]);
        [eapply (served_start _ _ []); [apply served_none|reflexivity]|reflexivity]))).
    - intros [|[|i]] u Hi; simpl in Hi; try discriminate Hi; injection Hi as <-; by eexists. }
  assert (Forall (Cosmos.store_task (stores bank)) two_queries) as Hps by (repeat constructor).
  destruct (cosmos_serialisable getters 5 bank bank_node initial two_queries sys Hps Hs)
    as [(log & Hl & Hr) _].
  exists sys, log. split; [exact Hs|]. split; [exact Hd|]. split; [exact Hl|exact Hr].
Defined.

Definition send_data : MsgSend.partial := MsgSend.mkPartial (Some "A") (Some "B") None.

Lemma cosmos_transactions_witness :
  BankStore.sendMsgSend getters (mkSend (Some send_data) None (Some "hi")) =
    Ok (transaction "cosmos1a"
      [("/cosmos.bank.v1beta1.MsgSend",
        finish (MsgSend.encode (PB := Wire.pb) (MsgSend.fromPartial send_data) create))]
      defaultFee "hi").
Proof.
  assert (In (Cosmos.mkTxAction _ "MsgSend" MsgSend.message BankStore.msgSend
            (BankStore.sendMsgSend getters) (BankStore.createMsgSend getters))
            (cosmos_tx_actions getters bank)) as H by (simpl; tauto).
  exact (proj1 (proj2 (proj1 (cosmos_transactions getters bank _ H))
    ["cosmos1a"] (cosmos_registered bank) "cosmos1a" [] eq_refl eq_refl eq_refl)
    (mkSend (Some send_data) None (Some "hi"))).
Defined.

End CosmosSample.
