(* ===== verification/AppShell.v ===== *)
(** * The application shell

    How the application puts its store together: [load] of
    src/store/generated/index.js, [init] of src/store/config.js, the routes of
    src/router/index.js, the templates of src/views, src/components/Sidebar.vue and
    src/App.vue, and the start of the application.

    The store object belongs to Vuex, and the modules [transfers], [blocks],
    [env], [wallet] and [relayers] to the package @starport/vuex; neither is
    part of the repository.  The class [Vuex] has the operations the code
    uses, and [VuexSpec] what it relies on. *)
From S2P Require Import Prelude Js.

(** ** Vuex *)

(** A subscriber of a store: given the type of a mutation it dispatches an
    action, or none. *)
Abbreviation subscriber := (string → option string).

Class Vuex := {
  Store : Type;
  Module_ : Type;
  createStore : Store;      (* createStore({ state() { return {} }, mutations: {}, actions: {} }) *)
  hasModule : list string → Store → bool;
  registerModule : list string → Module_ → Store → Store;
  subscribe : subscriber → Store → Store;
}.

Class VuexSpec (V : Vuex) := {
  (* the subscribers of a store in the order they were added *)
  subscribers : Store → list subscriber;
  subscribers_create : subscribers createStore = [];
  hasModule_create p : hasModule p createStore = false;
  subscribers_register p m s : subscribers (registerModule p m s) = subscribers s;
  subscribers_subscribe f s : subscribers (subscribe f s) = subscribers s ++ [f];
  hasModule_subscribe p f s : hasModule p (subscribe f s) = hasModule p s;
  hasModule_register p m s : hasModule p (registerModule p m s) = true;
  hasModule_register_other p p' m s :
    p ≠ p' → hasModule p' (registerModule p m s) = hasModule p' s;
}.

(** ** [load] *)

Section load.
Context {V : Vuex}.

(** The subscriber a module is loaded with. *)
Definition init_on_ws (fullns : string) : subscriber := fun type =>
  if String.eqb type "common/env/INITIALIZE_WS_COMPLETE" then Some (fullns +:+ "/init") else None.

Definition load (mod_ : Module_) (fullns : string) (store : Store) : result Store :=
  if hasModule [fullns] store then
    Err (Error ("Duplicate module name detected: " +:+ fullns))
  else
    Ok (subscribe (init_on_ws fullns) (registerModule [fullns] mod_ store)).

(** The generated modules, in the order of the exported object. *)
Definition generated : list string :=
  ["cosmos.authz.v1beta1";
   "cosmos.bank.v1beta1";
   "cosmos.crisis.v1beta1";
   "cosmos.distribution.v1beta1";
   "cosmos.evidence.v1beta1";
   "cosmos.feegrant.v1beta1";
   "cosmos.gov.v1beta1";
   "cosmos.slashing.v1beta1";
   "cosmos.staking.v1beta1";
   "cosmos.vesting.v1beta1";
   "ibc.applications.transfer.v1";
   "zigbeealliance.distributedcomplianceledger.compliance";
   "zigbeealliance.distributedcomplianceledger.compliancetest";
   "zigbeealliance.distributedcomplianceledger.dclauth";
   "zigbeealliance.distributedcomplianceledger.dclupgrade";
   "zigbeealliance.distributedcomplianceledger.model";
   "zigbeealliance.distributedcomplianceledger.pki";
   "zigbeealliance.distributedcomplianceledger.validator";
   "zigbeealliance.distributedcomplianceledger.vendorinfo"].

(** The module object imported for each name. *)
Variable mod_of : string → Module_.

(** [for (const moduleInit of Object.values(generated)) moduleInit(store)] *)
Fixpoint init_modules (names : list string) (store : Store) : result Store :=
  match names with
  | [] => Ok store
  | fullns :: names' => store' ← load (mod_of fullns) fullns store; init_modules names' store'
  end.

(** The modules of @starport/vuex, each a function that registers itself. *)
Record starport := mkStarport {
  transfers : Store → result Store;
  blocks : Store → result Store;
  env : Store → result Store;
  wallet : Store → result Store;
  relayers : Store → result Store;
}.

(** [init(store)] of store/config.js *)
Definition init (sp : starport) (store : Store) : result Store :=
  store ← init_modules generated store;
  store ← sp.(transfers) store;
  store ← sp.(blocks) store;
  store ← sp.(env) store;
  store ← sp.(wallet) store;
  sp.(relayers) store.

(** The store of src/store/index.js: a store without state of its own, on
    which the modules are initialised. *)
Definition store (sp : starport) : result Store := init sp createStore.

(** The computed property of App.vue and Sidebar.vue. *)
Definition hasWallet (store : Store) : bool := hasModule ["common"; "wallet"] store.

(** The actions dispatched when a mutation of the given type is committed. *)
Definition dispatched {VS : VuexSpec V} (store : Store) (type : string) : list string :=
  omap (fun f => f type) (subscribers store).

Context {VS : VuexSpec V}.

Lemma load_ok mod_ fullns store :
  hasModule [fullns] store = false →
  ∃ store', load mod_ fullns store = Ok store' ∧
    (∀ p, hasModule p store' = bool_decide (p = [fullns]) || hasModule p store) ∧
    subscribers store' = subscribers store ++ [init_on_ws fullns].
Proof.
  intros H. unfold load. rewrite H. eexists. split; [done|]. split.
  - intros p. rewrite hasModule_subscribe. case_bool_decide as E.
    + subst. by rewrite hasModule_register.
    + by rewrite hasModule_register_other.
  - by rewrite subscribers_subscribe, subscribers_register.
Qed.

Lemma init_modules_ok names store :
  NoDup names → (∀ n, n ∈ names → hasModule [n] store = false) →
  ∃ store', init_modules names store = Ok store' ∧
    (∀ p, hasModule p store' = true ↔ (∃ n, n ∈ names ∧ p = [n]) ∨ hasModule p store = true) ∧
    subscribers store' = subscribers store ++ map init_on_ws names.
Proof.
  revert store. induction names as [|n names IH]; intros store Hnd Hno; simpl.
  - exists store. rewrite app_nil_r. split_and!; [done|set_solver|done].
  - apply list.NoDup_cons in Hnd as [Hn Hnd].
    destruct (load_ok (mod_of n) n store) as (s1 & -> & Hs1 & Hsub); [set_solver|]. simpl.
    destruct (IH s1) as (s' & -> & Hs' & Hsub'); [done| |].
    { intros m Hm. rewrite Hs1, (Hno m) by set_solver.
      rewrite bool_decide_eq_false_2; [done|]. intros [= ->]. done. }
    exists s'. split_and!; [done| |by rewrite Hsub', Hsub, <- app_assoc].
    intros p. rewrite Hs', Hs1, orb_true_iff, bool_decide_eq_true. set_solver.
Qed.

Lemma dispatched_init names type :
  omap (fun f : subscriber => f type) (map init_on_ws names) =
    if String.eqb type "common/env/INITIALIZE_WS_COMPLETE"
    then map (fun n => n +:+ "/init") names else [].
Proof.
  induction names as [|n names IH]; [by destruct (String.eqb type _)|]. cbn [map].
  change (omap ?g (?x :: ?l)) with (match g x with Some y => y :: omap g l | None => omap g l end).
  rewrite IH. unfold init_on_ws. by destruct (String.eqb type _).
Qed.

Lemma generated_distinct : NoDup generated.
Proof. apply (bool_decide_unpack _). reflexivity. Qed.

(** C40: on the new store the nineteen generated modules are all registered
    before the modules of the framework run, and when the connection of the
    node is up each of them is initialised exactly once, in the order of
    registration; no other mutation starts anything. *)
Theorem modules_load_and_init :
  ∃ store', init_modules generated createStore = Ok store' ∧
    (∀ n, n ∈ generated → hasModule [n] store' = true) ∧
    (∀ type, dispatched store' type =
       if String.eqb type "common/env/INITIALIZE_WS_COMPLETE"
       then map (fun n => n +:+ "/init") generated else []) ∧
    (∀ sp, store sp =
       (s1 ← sp.(transfers) store'; s2 ← sp.(blocks) s1; s3 ← sp.(env) s2; s4 ← sp.(wallet) s3;
        sp.(relayers) s4)).
Proof.
  destruct (init_modules_ok generated createStore generated_distinct) as (store' & Hr & Hm & Hs).
  { intros n _. apply hasModule_create. }
  exists store'. split_and!; [done| | |].
  - intros n Hn. apply Hm. left. by exists n.
  - intros type. unfold dispatched. by rewrite Hs, subscribers_create, app_nil_l, dispatched_init.
  - intros sp. unfold store, init. by rewrite Hr.
Qed.

(** Loading a module whose name is taken throws and names the module; in
    particular the modules cannot be loaded a second time. *)
Theorem duplicate_module_throws store names fullns names' :
  NoDup (names ++ fullns :: names') → (∀ n, n ∈ names → hasModule [n] store = false) →
  hasModule [fullns] store = true →
  init_modules (names ++ fullns :: names') store =
    Err (Error ("Duplicate module name detected: " +:+ fullns)).
Proof.
  revert store. induction names as [|n names IH]; intros store Hnd Hno Hf; simpl.
  - unfold load. by rewrite Hf.
  - apply list.NoDup_cons in Hnd as [Hn Hnd].
    destruct (load_ok (mod_of n) n store) as (s1 & -> & Hs1 & _); [set_solver|]. simpl.
    apply IH; [done| |by rewrite Hs1, Hf, orb_true_r].
    intros m Hm. rewrite Hs1, (Hno m) by set_solver.
    rewrite bool_decide_eq_false_2; [done|]. intros [= ->]. set_solver.
Qed.

End load.

(** ** [main.js] *)

(** The plugins the application uses, in order, its global property
    [_depsLoaded], and the element it is mounted on. *)
Inductive plugin := StorePlugin | RouterPlugin | VueLib.

Record vue_app := mkVueApp {
  plugins : list plugin;
  depsLoaded : bool;
  mounted : option string;
}.

#[global] Instance vue_app_eta : Settable vue_app := λ a,
  mkVueApp a.(plugins) a.(depsLoaded) a.(mounted).

Definition createApp : vue_app := mkVueApp [] false None.
Definition use (p : plugin) (a : vue_app) : vue_app := a <| plugins := a.(plugins) ++ [p] |>.
Definition mount (selector : string) (a : vue_app) : vue_app := a <| mounted := Some selector |>.

Definition main : vue_app :=
  let app := createApp <| depsLoaded := true |> in
  app @> use StorePlugin @> use RouterPlugin @> use VueLib @> mount "#app".

(** ** Templates *)

(** What a template is rendered to: components and elements with their
    attributes and what is inside them, texts, and the content of a slot. *)
Inductive vnode :=
| Element (tag : string) (attributes : list (string * js)) (children : list vnode)
| Slot (name : string) (children : list vnode)
| Text (text : string).

(** The elements of a tree whose tag is [wanted], by their attributes. *)
Fixpoint select (wanted : string → bool) (n : vnode) : list (list (string * js)) :=
  match n with
  | Element t attributes children =>
      (if wanted t then [attributes] else []) ++ flat_map (select wanted) children
  | Slot _ children => flat_map (select wanted) children
  | Text _ => []
  end.

Definition elements (tag : string) : vnode → list (list (string * js)) := select (String.eqb tag).

(** The strings an attribute has in some elements. *)
Definition attribute (name : string) (es : list (list (string * js))) : list string :=
  omap (fun attributes => match assoc name attributes with Some (Str l) => Some l | _ => None end) es.

(** [n] with the elements of the given tag replaced by [r]. *)
Fixpoint fill (tag : string) (r : list vnode) (n : vnode) : list vnode :=
  match n with
  | Element t attributes children =>
      if String.eqb t tag then r else [Element t attributes (flat_map (fill tag r) children)]
  | Slot name children => [Slot name (flat_map (fill tag r) children)]
  | Text text => [Text text]
  end.

(** *** Views *)

(** The views of src/views; [getters] are the getters of the store. *)
Inductive view := Index | Types | Relayers.

Definition container (children : list vnode) : vnode :=
  Element "div" [] [Element "div" [("class", Str "container")] children].

Section views.
Context (getters : string → js).

(** The computed property of the dashboard. *)
Definition address : js := getters "common/wallet/address".

Definition render_Index : vnode :=
  container
    [Element "SpWelcome" [] [];
     Element "SpTokenSend" [("address", address); ("refresh", Str "true")] [];
     Element "SpTransferList" [("address", address)] []].

Definition render_Types : vnode := container [].

Definition render_Relayers : vnode := container [Element "SpRelayers" [] []].

Definition render (v : view) : vnode :=
  match v with Index => render_Index | Types => render_Types | Relayers => render_Relayers end.
End views.

(** The routes of src/router/index.js. *)
Definition routes : list (string * view) :=
  [("/", Index); ("/types", Types); ("/relayers", Relayers)].

(** *** [Sidebar.vue] and [App.vue] *)

(** The data of the two components. *)
Record app := mkApp { initialized : bool; sidebarOpen : bool }.

#[global] Instance app_eta : Settable app := λ a, mkApp a.(initialized) a.(sidebarOpen).

(** [created]: [initialized] is set once [dispatch('common/env/init')] is
    done; an error stops it and is logged by [errorCaptured]. *)
Definition created (dispatch_env_init : result unit) (a : app) : app :=
  match dispatch_env_init with
  | Ok _ => a <| initialized := true |>
  | Err _ => a
  end.

Definition sidebar_open (a : app) : app := a <| sidebarOpen := true |>.
Definition sidebar_close (a : app) : app := a <| sidebarOpen := false |>.

(** The initial data. *)
Definition new_app : app := mkApp false true.

Definition render_Sidebar (a : app) : vnode :=
  Element "SpSidebar" []
    [Slot "default"
       [Element "SpLinkIcon" [("link", Str "/"); ("text", Str "Dashboard"); ("icon", Str "Dashboard")] [];
        Element "SpLinkIcon"
          [("link", Str "/types"); ("text", Str "Custom Type"); ("icon", Str "Form")] [];
        Element "SpLinkIcon"
          [("link", Str "/relayers"); ("text", Str "Relayers"); ("icon", Str "Transactions")] [];
        Element "div" [("class", Str "sp-dash")] [];
        Element "SpLinkIcon"
          [("href", Str "https://github.com/tendermint/starport"); ("target", Str "_blank");
           ("text", Str "Documentation"); ("icon", Str "Docs")] []];
     Slot "footer"
       [Element "SpStatusAPI" [("showText", Bool a.(sidebarOpen))] [];
        Element "SpStatusRPC" [("showText", Bool a.(sidebarOpen))] [];
        Element "SpStatusWS" [("showText", Bool a.(sidebarOpen))] [];
        Element "div" [("class", Str "sp-text")] [Text "Build: v0.3.8"]]].

(** The template of the application, with the sidebar in its place; with [v-if]
    there is nothing before it is initialised. *)
Definition render_App (a : app) : list vnode :=
  if a.(initialized) then
    [Element "div" []
       [Element "SpWallet" [("ref", Str "wallet")] [];
        Element "SpLayout" []
          [Slot "sidebar" [render_Sidebar a]; Slot "content" [Element "router-view" [] []]]]]
  else [].

(** What is on the screen at a path: the router puts the view of the route, if
    there is one, in place of [router-view]. *)
Definition screen (getters : string → js) (path : string) (a : app) : list vnode :=
  flat_map
    (fill "router-view" (match assoc path routes with Some v => [render getters v] | None => [] end))
    (render_App a).

(** The links of a tree that stay in the application. *)
Definition links (ns : list vnode) : list string :=
  attribute "link" (flat_map (elements "SpLinkIcon") ns).

(** Nothing is shown until the environment was initialised, nor when that fails.
    After that every screen has the wallet and the links of the sidebar; each
    link leads to a view, different links to different views, every view can be
    reached, and the screen at a link has the elements of its view besides the
    same frame. *)
Theorem screens getters r :
  (∀ e path, r = Err e → screen getters path (created r new_app) = []) ∧
  (r = Ok tt → ∀ path,
     let shown := screen getters path (created r new_app) in
     length (flat_map (elements "SpWallet") shown) = 1%nat ∧ links shown = routes.*1 ∧
     ∀ tag, tag ∈ ["SpWelcome"; "SpTokenSend"; "SpTransferList"; "SpRelayers"] →
       flat_map (elements tag) shown =
         match assoc path routes with Some v => elements tag (render getters v) | None => [] end) ∧
  NoDup routes.*1 ∧ ∀ v, ∃ l, assoc l routes = Some v.
Proof.
  split_and!.
  - by intros e path ->.
  - intros -> path shown. subst shown. unfold screen. destruct (assoc path routes) as [[]|] eqn:E;
      (split_and!; [reflexivity..|]); intros tag Ht;
      repeat (apply elem_of_cons in Ht as [->|Ht]; [reflexivity|]); by apply elem_of_nil in Ht.
  - apply (bool_decide_unpack _). reflexivity.
  - intros []; [by exists "/"|by exists "/types"|by exists "/relayers"].
Qed.

(** The two elements of the dashboard that depend on the account are for the
    address of the wallet. *)
Lemma dashboard_address getters :
  elements "SpTokenSend" (render getters Index) =
    [[("address", getters "common/wallet/address"); ("refresh", Str "true")]] ∧
  elements "SpTransferList" (render getters Index) = [[("address", getters "common/wallet/address")]].
Proof. split; reflexivity. Qed.

(** The references of the template, [$refs]: the elements that have a [ref]. *)
Definition refs (ns : list vnode) : list string :=
  attribute "ref" (flat_map (select (fun _ => true)) ns).

(** The handler of the event [dropdown-opened] of the wallet:
    [$refs.menu.closeDropdown()], where [close] is the method of the element
    [menu]. *)
Definition dropdown_opened {A : Type} (close : result A) (a : app) : result A :=
  if existsb (String.eqb "menu") (refs (render_App a)) then close
  else Err (TypeError "Cannot read properties of undefined (reading 'closeDropdown')").

(** There is no element with the reference [menu], so the handler always
    throws. *)
Lemma dropdown_opened_throws {A : Type} (close : result A) a :
  dropdown_opened close a =
    Err (TypeError "Cannot read properties of undefined (reading 'closeDropdown')").
Proof. unfold dropdown_opened, render_App. by destruct (initialized a). Qed.

(** ** Witnesses *)

Module Sample.

(** A store as its module paths and its subscribers. *)
#[export] Instance vuex : Vuex := {|
  Store := list (list string) * list subscriber;
  Module_ := unit;
  createStore := ([], []);
  hasModule := fun p s => bool_decide (p ∈ s.1);
  registerModule := fun p _ s => (p :: s.1, s.2);
  subscribe := fun f s => (s.1, s.2 ++ [f]);
|}.

#[export] Program Instance vuex_spec : VuexSpec vuex := {| subscribers := snd |}.
Next Obligation. done. Qed.
Next Obligation. done. Qed.
Next Obligation. done. Qed.
Next Obligation. done. Qed.
Next Obligation. done. Qed.
Next Obligation. intros p [] s. simpl. by apply bool_decide_eq_true_2, list_elem_of_here. Qed.
Next Obligation. intros p p' [] s Hne. simpl. apply bool_decide_ext. set_solver. Qed.

Definition with_modules (l : list (list string)) : @Store vuex := (l, []).

Definition no_modules : string → Module_ := fun _ => tt.

Lemma modules_load_and_init_witness :
  ∃ store', init_modules no_modules generated createStore = Ok store' ∧
    dispatched store' "common/env/INITIALIZE_WS_COMPLETE" = map (fun n => n +:+ "/init") generated.
Proof.
  destruct (modules_load_and_init no_modules) as (store' & H & _ & Hd & _).
  exists store'. split; [exact H|]. apply Hd.
Defined.

Lemma duplicate_module_throws_witness :
  init_modules no_modules (["a"] ++ "b" :: ["c"]) (with_modules [["b"]]) =
    Err (Error "Duplicate module name detected: b").
Proof.
  apply (duplicate_module_throws no_modules (with_modules [["b"]]) ["a"] "b" ["c"]).
  - apply (bool_decide_unpack _). reflexivity.
  - intros n ->%list_elem_of_singleton. reflexivity.
  - reflexivity.
Defined.

End Sample.
