(* ===== verification/Client.v ===== *)
(** * The client as a whole

    The application has the stores of nineteen modules, which know nothing of
    each other; [load] of src/store/generated/index.js ties them to the events
    of the framework: when the connection to the node is up, each module's
    [init] adds a listener to the node client, and on every new block each
    listener starts the [StoreUpdate] of its module.  This file composes the
    stores of [LedgerStores.v] and [CosmosStores.v] with the shell of
    [AppShell.v]: an event of the application is one transition of the
    composite state, which has a component per module. *)
From stdpp Require Import finite.
From S2P Require Import Prelude Js Protobuf JsonText Async RestClient VuexStore TxClient CosmosStore LedgerStores CosmosStores AppShell StoreModule NewBlock StoreSpec.
Open Scope Z_scope.

(** ** Modules *)

Inductive client_module : Set :=
| own (m : ledger_module)
| sdk (m : cosmos_module).

#[global] Instance ledger_module_dec : EqDecision ledger_module.
Proof. solve_decision. Defined.
#[global] Instance cosmos_module_dec : EqDecision cosmos_module.
Proof. solve_decision. Defined.
#[global] Instance client_module_dec : EqDecision client_module.
Proof. solve_decision. Defined.

(** The modules in the order of src/store/generated/index.js. *)
Definition modules : list client_module :=
  [sdk authz; sdk bank; sdk crisis; sdk distribution; sdk evidence; sdk feegrant; sdk gov;
   sdk slashing; sdk staking; sdk vesting; sdk transfer;
   own compliance; own compliancetest; own dclauth; own dclupgrade; own model; own pki;
   own validator; own vendorinfo].

(** The name a module is registered under. *)
Definition namespace (m : client_module) : string :=
  match m with
  | sdk transfer => "ibc.applications.transfer.v1"
  | sdk m =>
      "cosmos." +:+
      match m with
      | authz => "authz" | bank => "bank" | crisis => "crisis" | distribution => "distribution"
      | evidence => "evidence" | feegrant => "feegrant" | gov => "gov" | slashing => "slashing"
      | staking => "staking" | vesting => "vesting" | transfer => ""
      end +:+ ".v1beta1"
  | own m =>
      "zigbeealliance.distributedcomplianceledger." +:+
      match m with
      | compliance => "compliance" | compliancetest => "compliancetest" | dclauth => "dclauth"
      | dclupgrade => "dclupgrade" | model => "model" | pki => "pki" | validator => "validator"
      | vendorinfo => "vendorinfo"
      end
  end.

Lemma modules_generated : map namespace modules = generated.
Proof. reflexivity. Qed.

Lemma modules_complete m : m ∈ modules.
Proof. apply (bool_decide_unpack _). destruct m as [[]|[]]; vm_compute; exact I. Qed.

Lemma modules_distinct : NoDup modules.
Proof. apply (bool_decide_unpack _). vm_compute. exact I. Qed.

(** The module whose [init] an action is. *)
Definition init_of (action : string) : option client_module :=
  List.find (fun m => String.eqb action (namespace m +:+ "/init")) modules.

Lemma init_of_init m : init_of (namespace m +:+ "/init") = Some m.
Proof. destruct m as [[]|[]]; reflexivity. Qed.

(** ** The composite state *)

(** What the shell needs of a store: its state, the tasks that can be started on
    it, and those a new block starts. *)
Record component := mkComponent {
  comp_state : Type;
  comp_init : comp_state;
  comp_task : proc FetchCall Response comp_state js → Prop;
  comp_update : comp_state → list (proc FetchCall Response comp_state js);
}.

Section client.
Context {SV : SpVuex} {CJ : Cosmjs} {PB : Protobuf}.
Context (rootGetters : root_getters) (max_pages : nat).

(** [rootGetters] holds the addresses and the wallet the actions read at every
    call; they are taken not to change. *)
Definition component_of (m : client_module) : component :=
  match m with
  | own m =>
      let M := store_of rootGetters max_pages m in
      mkComponent state M.(getDefaultState) (store_task M) (StoreUpdate (dispatch M))
  | sdk m =>
      let M := cosmos_store rootGetters max_pages m in
      mkComponent Cosmos.state M.(Cosmos.getDefaultState) (Cosmos.store_task M)
        (Cosmos.StoreUpdate (Cosmos.dispatch M))
  end.

Definition comp_system (m : client_module) : Type :=
  system FetchCall Response (comp_state (component_of m)) js.

(** The stores with their tasks, the node client of common/env, and the modules
    that listen to the blocks of a client, in the order they were added. *)
Record client := mkClient {
  systems : ∀ m, comp_system m;
  env_client : option nat;
  listeners : list (nat * client_module);
}.

#[global] Instance client_eta : Settable client := λ a,
  mkClient a.(systems) a.(env_client) a.(listeners).

Definition system_update (f : ∀ m, comp_system m) (m : client_module) (sys : comp_system m)
    (m' : client_module) : comp_system m' :=
  match decide (m = m') with
  | left e => eq_rect m comp_system sys m' e
  | right _ => f m'
  end.

Lemma system_update_eq f m sys : system_update f m sys m = sys.
Proof.
  unfold system_update. destruct (decide (m = m)) as [e|]; [|done].
  by rewrite (proof_irrel e eq_refl).
Qed.

Lemma system_update_ne f m sys m' : m ≠ m' → system_update f m sys m' = f m'.
Proof. intros H. unfold system_update. by destruct (decide (m = m')). Qed.

(** A new client: nothing is cached, no task is under way. *)
Definition new_client : client :=
  mkClient (fun m => mkSystem (comp_init (component_of m)) [] []) None [].

(** ** Events *)

Section start.
Context {S : Type}.

Definition start (p : proc FetchCall Response S js) (sys : system FetchCall Response S js)
    : system FetchCall Response S js :=
  let (s', t) := settle p sys.(shared) in mkSystem s' (sys.(tasks) ++ [t]) sys.(history).

(** The answer [r] to the task [i], if it waits for one. *)
Definition reply (i : nat) (r : result Response) (sys : system FetchCall Response S js)
    : system FetchCall Response S js :=
  match sys.(tasks) !! i with
  | Some (Waiting q k) =>
      let (s', t) := settle (k r) sys.(shared) in
      mkSystem s' (<[i := t]> sys.(tasks)) (sys.(history) ++ [(q, r)])
  | _ => sys
  end.
End start.

Definition start_in (m : client_module) (p : proc FetchCall Response (comp_state (component_of m)) js)
    (a : client) : client :=
  a <| systems := system_update a.(systems) m (start p (a.(systems) m)) |>.

Definition reply_in (m : client_module) (i : nat) (r : result Response) (a : client) : client :=
  a <| systems := system_update a.(systems) m (reply i r (a.(systems) m)) |>.

(** The action [init] of a module: a listener is added to the node client, when
    there is one. *)
Definition init_module (m : client_module) (a : client) : client :=
  match a.(env_client) with
  | Some c => a <| listeners := a.(listeners) ++ [(c, m)] |>
  | None => a
  end.

(** A listener of a module: [dispatch('StoreUpdate')]. *)
Definition update_module (a : client) (m : client_module) : client :=
  foldl (fun a p => start_in m p a) a (comp_update (component_of m) (a.(systems) m).(shared)).

Inductive event : Type :=
| Connect (c : option nat)                                     (* common/env sets its client *)
| Commit (type : string)                                       (* a mutation is committed *)
| Block (c : nat)                                              (* the client emits newblock *)
| Start (m : client_module) (p : proc FetchCall Response (comp_state (component_of m)) js)
| Reply (m : client_module) (i : nat) (r : result Response).

(** [actions]: what the subscribers of the Vuex store dispatch for a mutation. *)
Definition perform (actions : string → list string) (a : client) (e : event) : client :=
  match e with
  | Connect c => a <| env_client := c |>
  | Commit type => foldl (fun a m => init_module m a) a (omap init_of (actions type))
  | Block c => foldl update_module a (omap (fun l => if decide (l.1 = c) then Some l.2 else None) a.(listeners))
  | Start m p => start_in m p a
  | Reply m i r => reply_in m i r a
  end.

(** Tasks are started by the actions of the module. *)
Definition possible (e : event) : Prop :=
  match e with Start m p => comp_task (component_of m) p | _ => True end.

(** ** Each module on its own *)

Section steps.
Context {S : Type} (starts : proc FetchCall Response S js → Prop).
Implicit Types sys : system FetchCall Response S js.

Definition start_all (ps : list (proc FetchCall Response S js)) sys : system FetchCall Response S js :=
  foldl (fun sys p => start p sys) sys ps.

Lemma start_step p sys : starts p → sys_step starts sys (start p sys).
Proof.
  intros Hp. destruct sys as [s ts h]. unfold start. simpl.
  destruct (settle p s) as [s' t] eqn:E. by econstructor.
Qed.

Lemma start_all_steps ps sys : Forall starts ps → rtc (sys_step starts) sys (start_all ps sys).
Proof.
  intros Hps. revert sys. induction Hps as [|p ps Hp _ IH]; intros sys; [apply rtc_refl|].
  eapply rtc_l; [by apply start_step|apply IH].
Qed.

Lemma reply_steps i r sys : rtc (sys_step starts) sys (reply i r sys).
Proof.
  destruct sys as [s ts h]. unfold reply. simpl.
  destruct (ts !! i) as [[|q k]|] eqn:Hi; [apply rtc_refl| |apply rtc_refl].
  destruct (settle (k r) s) as [s' t] eqn:E. apply rtc_once. by econstructor.
Qed.

(** Tasks [ds] that are done and answers [h0] of before, and what came after. *)
Definition behind (ds : list (paused FetchCall Response S js)) (h0 : list (FetchCall * result Response))
    sys : system FetchCall Response S js :=
  mkSystem sys.(shared) (ds ++ sys.(tasks)) (h0 ++ sys.(history)).

Lemma start_all_behind ds h0 ps sys : start_all ps (behind ds h0 sys) = behind ds h0 (start_all ps sys).
Proof.
  revert sys. induction ps as [|p ps IH]; intros sys; [done|]. simpl. rewrite <- IH. f_equal.
  unfold start, behind. simpl. destruct (settle p (shared sys)). simpl. by rewrite app_assoc.
Qed.

Lemma answer_behind server ds h0 sys sys' :
  Forall (fun t => ∃ r, t = Done r) ds → answer_step server (behind ds h0 sys) sys' →
  ∃ sys1, answer_step server sys sys1 ∧ sys' = behind ds h0 sys1.
Proof.
  intros Hds Hstep. destruct sys as [s ts h]. unfold behind in Hstep. simpl in Hstep.
  inversion Hstep as [? ? ? i q k s' t Hi Hset]; subst.
  apply lookup_app_Some in Hi as [Hi|[Hle Hi]].
  { by destruct (Forall_lookup_1 _ _ _ _ Hds Hi). }
  eexists. split; [by econstructor|]. unfold behind. simpl. rewrite app_assoc. f_equal.
  replace i with (length ds + (i - length ds))%nat at 1 by lia. apply insert_app_r.
Qed.

Lemma start_all_served server s0 ps0 ps sys :
  served server s0 ps0 sys → served server s0 (ps0 ++ ps) (start_all ps sys).
Proof.
  revert ps0 sys. induction ps as [|p ps IH]; intros ps0 sys Hs; [by rewrite app_nil_r|].
  change (p :: ps) with ([p] ++ ps). rewrite app_assoc. apply IH. destruct sys as [s ts h]. unfold start. simpl.
  destruct (settle p s) as [s' t] eqn:E. by eapply served_start.
Qed.

(** Tasks that are started when the others are done, and answered by [server], are
    served as if there had been no others. *)
Lemma started_served server ps sys sys' :
  all_done sys → rtc (answer_step server) (start_all ps sys) sys' →
  ∃ sys1, served server sys.(shared) ps sys1 ∧ sys' = behind sys.(tasks) sys.(history) sys1.
Proof.
  intros Hd Hr. set (sys0 := mkSystem sys.(shared) [] [] : system FetchCall Response S js).
  assert (sys = behind sys.(tasks) sys.(history) sys0) as E.
  { destruct sys. unfold behind. simpl. by rewrite !app_nil_r. }
  rewrite E, start_all_behind in Hr.
  assert (Forall (fun t => ∃ r, t = Done r) sys.(tasks)) as Hds.
  { apply Forall_lookup. exact Hd. }
  assert (served server sys.(shared) ps (start_all ps sys0)) as Hs.
  { apply (start_all_served server _ []). constructor. }
  revert Hr Hs. generalize (start_all ps sys0) as sys1. intros sys1 Hr.
  remember (behind sys.(tasks) sys.(history) sys1) as b eqn:Hb. revert sys1 Hb.
  induction Hr as [b|b b1 b2 Hstep _ IH]; intros sys1 -> Hs; [by exists sys1|].
  destruct (answer_behind server _ _ _ _ Hds Hstep) as (sys2 & H2 & ->).
  by apply (IH sys2); [|eapply served_answer].
Qed.

Lemma behind_done ds h0 sys : all_done (behind ds h0 sys) → all_done sys.
Proof.
  intros Hd i t Hi. apply (Hd (length ds + i)%nat). simpl.
  by rewrite lookup_app_r, Nat.add_comm, Nat.add_sub by lia.
Qed.

(** Tasks that touch the state at their end alone can be brought to it. *)
Definition finishing (server : FetchCall → result Response) sys : Prop :=
  Forall (can_finish server) sys.(tasks).

Lemma settle_can_finish server (p : proc FetchCall Response S js) s :
  one_shot server p → can_finish server (settle p s).2.
Proof.
  intros Hp. pose proof (settle_one_shot server p s Hp) as H.
  destruct (settle p s) as [s' [r|q k]]; [done|]. by destruct H as (_ & H & _).
Qed.

Lemma start_all_finishing server ps sys :
  Forall (one_shot server) ps → finishing server sys → finishing server (start_all ps sys).
Proof.
  intros Hps. revert sys. induction Hps as [|p ps Hp _ IH]; intros sys Hs; [done|]. apply IH.
  unfold finishing, start. pose proof (settle_can_finish server p (shared sys) Hp) as Ht.
  destruct (settle p (shared sys)) as [s' t]. simpl in *. apply Forall_app. by repeat constructor.
Qed.

Lemma answer_finishing server sys sys' :
  answer_step server sys sys' → finishing server sys → finishing server sys'.
Proof.
  intros [s ts h i q k s' t Hi Hset] Hs. unfold finishing in *. simpl in *.
  apply Forall_insert; [done|]. pose proof (Forall_lookup_1 _ _ _ _ Hs Hi) as Hk.
  pose proof (settle_can_finish server _ s Hk) as Ht. by rewrite Hset in Ht.
Qed.

Lemma finishing_done server sys :
  finishing server sys → ∃ sys', rtc (answer_step server) sys sys' ∧ all_done sys'.
Proof.
  intros Hs. destruct (finish_tasks server (length sys.(tasks)) sys Hs) as (sys' & Hr & _ & Hd).
  exists sys'. split; [done|]. intros i t Hi. eapply Hd; [|done].
  rewrite <- (answers_length server sys sys' Hr). by eapply lookup_lt_Some.
Qed.
End steps.

(** [StoreUpdate] of one module. *)
Definition update_system (m : client_module) (sys : comp_system m) : comp_system m :=
  start_all (comp_update (component_of m) sys.(shared)) sys.

Lemma update_tasks m s : Forall (comp_task (component_of m)) (comp_update (component_of m) s).
Proof. destruct m as [m|m]; apply List.Forall_map, List.Forall_forall; intros; constructor. Qed.

Lemma update_system_steps m sys :
  rtc (sys_step (comp_task (component_of m))) sys (update_system m sys).
Proof. apply start_all_steps, update_tasks. Qed.

Lemma start_in_all m ps a :
  let a' := foldl (fun a p => start_in m p a) a ps in
  a'.(systems) m = start_all ps (a.(systems) m) ∧
  (∀ m', m ≠ m' → a'.(systems) m' = a.(systems) m') ∧
  a'.(listeners) = a.(listeners) ∧ a'.(env_client) = a.(env_client).
Proof.
  revert a. induction ps as [|p ps IH]; intros a; [done|]. simpl.
  destruct (IH (start_in m p a)) as (-> & Ho & -> & ->). split_and!; [| |done..].
  - simpl. by rewrite system_update_eq.
  - intros m' Hm. rewrite Ho by done. by apply system_update_ne.
Qed.

(** A block does to each module what its listeners do, and that alone. *)
Lemma update_modules ms a :
  let a' := foldl update_module a ms in
  (∀ m, a'.(systems) m =
     Nat.iter (count_occ client_module_dec ms m) (update_system m) (a.(systems) m)) ∧
  a'.(listeners) = a.(listeners) ∧ a'.(env_client) = a.(env_client).
Proof.
  revert a. induction ms as [|m ms IH]; intros a; [done|]. simpl.
  destruct (start_in_all m (comp_update (component_of m) (a.(systems) m).(shared)) a)
    as (Hm & Ho & Hl & He). fold (update_module a m) in *.
  destruct (IH (update_module a m)) as (Hs & -> & ->). split_and!; [|done..].
  intros m'. rewrite Hs. destruct (client_module_dec m m') as [<-|Hne].
  - rewrite Hm. fold (update_system m (systems a m)). symmetry. apply Nat.iter_succ_r.
  - by rewrite Ho.
Qed.

Lemma init_modules_systems ms a :
  (foldl (fun a m => init_module m a) a ms).(systems) = a.(systems).
Proof.
  revert a. induction ms as [|m ms IH]; intros a; [done|]. simpl. rewrite IH.
  unfold init_module. by destruct (env_client a).
Qed.

(** Whatever happens in the application is, for each module, a sequence of steps
    of its own store. *)
Lemma perform_projects actions a e m :
  possible e →
  rtc (sys_step (comp_task (component_of m))) (a.(systems) m) ((perform actions a e).(systems) m).
Proof.
  intros He. destruct e as [c|type|c|m' p|m' i r]; simpl.
  - apply rtc_refl.
  - rewrite init_modules_systems. apply rtc_refl.
  - destruct (update_modules (omap (λ l, if decide (l.1 = c) then Some l.2 else None) (listeners a)) a)
      as [-> _].
    generalize (count_occ client_module_dec
      (omap (λ l, if decide (l.1 = c) then Some l.2 else None) (listeners a)) m) as n.
    induction n as [|n IH]; [apply rtc_refl|]. etrans; [exact IH|apply update_system_steps].
  - destruct (decide (m' = m)) as [<-|Hne].
    + rewrite system_update_eq. apply rtc_once. by apply start_step.
    + rewrite system_update_ne by done. apply rtc_refl.
  - destruct (decide (m' = m)) as [<-|Hne].
    + rewrite system_update_eq. apply reply_steps.
    + rewrite system_update_ne by done. apply rtc_refl.
Qed.

Lemma performs_project actions es a m :
  Forall possible es →
  rtc (sys_step (comp_task (component_of m))) (a.(systems) m)
    ((foldl (perform actions) a es).(systems) m).
Proof.
  intros Hes. revert a. induction Hes as [|e es He _ IH]; intros a; [apply rtc_refl|].
  etrans; [by apply perform_projects|apply IH].
Qed.

(** ** The invariant of the client *)

(** What holds of the store of each module. *)
Definition module_inv (m : client_module) : comp_system m → Prop :=
  match m with
  | own m => fun sys =>
      let M := store_of rootGetters max_pages m in
      caches_explained (fetcher_of M) sys.(history) sys.(shared) ∧
      subs_known (fetcher_of M) sys.(shared) ∧ has_caches M sys.(shared)
  | sdk m => fun sys =>
      let M := cosmos_store rootGetters max_pages m in
      Cosmos.caches_explained M sys.(history) sys.(shared) ∧
      Cosmos.subs_known M sys.(shared) ∧ Cosmos.has_caches M sys.(shared)
  end.

Lemma module_reachable_inv m (sys : comp_system m) :
  rtc (sys_step (comp_task (component_of m))) (new_client.(systems) m) sys → module_inv m sys.
Proof.
  destruct m as [m|m]; simpl; intros Hr.
  - destruct (reachable_inv (store_of rootGetters max_pages m) sys Hr) as [Hc Hs].
    destruct (run_simulated (store_of rootGetters max_pages m) sys Hr) as (σ & _ & (Hh & _) & _).
    by split_and!.
  - exact (Cosmos.cosmos_reachable_inv (cosmos_store rootGetters max_pages m) sys Hr).
Qed.

(** C19: whatever happens in the application - connections, blocks, actions that
    are dispatched and answers that arrive, in any order - the store of every
    one of the nineteen modules holds, in each of its caches, only values that a
    fetch of that query makes of answers the module has received itself, only
    subscriptions its own queries have made, each once, and none of its caches
    is lost. *)
Theorem client_invariant actions es m :
  Forall possible es →
  module_inv m ((foldl (perform actions) new_client es).(systems) m).
Proof. intros Hes. by apply module_reachable_inv, performs_project. Qed.

(** ** Answers of a node *)

(** A task of some module gets the answer of [server]. *)
Inductive node_answers (server : FetchCall → result Response) (a : client) : client → Prop :=
| node_answers_task m i q k :
    (a.(systems) m).(tasks) !! i = Some (Waiting q k) →
    node_answers server a (reply_in m i (server q) a).

(** No module waits for an answer. *)
Definition idle (a : client) : Prop := ∀ m, all_done (a.(systems) m).

Lemma reply_answer_step {S : Type} server i q k (sys : system FetchCall Response S js) :
  sys.(tasks) !! i = Some (Waiting q k) → answer_step server sys (reply i (server q) sys).
Proof.
  destruct sys as [s ts h]. simpl. intros Hi. unfold reply. simpl. rewrite Hi.
  destruct (settle (k (server q)) s) as [s' t] eqn:E. by econstructor.
Qed.

Lemma node_answers_project server a a' m :
  rtc (node_answers server) a a' → rtc (answer_step server) (a.(systems) m) (a'.(systems) m).
Proof.
  induction 1 as [a|a a1 a2 Hstep _ IH]; [apply rtc_refl|]. etrans; [|exact IH].
  destruct Hstep as [m' i q k Hi]. simpl. destruct (decide (m' = m)) as [<-|Hne].
  - rewrite system_update_eq. by eapply rtc_once, reply_answer_step.
  - rewrite system_update_ne by done. apply rtc_refl.
Qed.

(** The answers to one module are answers in the client. *)
Lemma answers_lift server m sys a :
  rtc (answer_step server) (a.(systems) m) sys →
  ∃ a', rtc (node_answers server) a a' ∧ a'.(systems) m = sys ∧
    ∀ m', m ≠ m' → a'.(systems) m' = a.(systems) m'.
Proof.
  intros Hr. remember (a.(systems) m) as sys0 eqn:E. revert a E.
  induction Hr as [sys|x y z Hstep _ IH]; intros a E; [exists a; by split; [apply rtc_refl|]|].
  destruct Hstep as [s ts h i q k s' t Hi Hset].
  assert ((a.(systems) m).(tasks) !! i = Some (Waiting q k)) as Hi' by by rewrite <- E.
  destruct (IH (reply_in m i (server q) a)) as (a' & Ha & Hm & Ho).
  - simpl. rewrite system_update_eq, <- E. unfold reply. simpl. by rewrite Hi, Hset.
  - exists a'. split_and!; [|done|].
    + eapply rtc_l; [by econstructor|done].
    + intros m' Hne. rewrite Ho by done. by apply system_update_ne.
Qed.

Lemma finishing_idle server (ms : list client_module) a :
  (∀ m, finishing server (a.(systems) m)) →
  ∃ a', rtc (node_answers server) a a' ∧ (∀ m, finishing server (a'.(systems) m)) ∧
    ∀ m, m ∈ ms → all_done (a'.(systems) m).
Proof.
  intros Hf. induction ms as [|m ms (a1 & Ha & Hf1 & Hd)].
  { exists a. split_and!; [apply rtc_refl|done|]. intros m Hm. by apply elem_of_nil in Hm. }
  destruct (finishing_done server _ (Hf1 m)) as (sys & Hr & Hs).
  destruct (answers_lift server m sys a1 Hr) as (a2 & Ha2 & <- & Ho).
  exists a2. split_and!; [by etrans| |].
  - intros m'. eapply node_answers_project with (m := m') in Ha2. clear -Hf1 Ha2.
    specialize (Hf1 m'). induction Ha2; eauto using answer_finishing.
  - intros m' [->|Hm]%elem_of_cons; [done|]. destruct (decide (m = m')) as [<-|Hne]; [done|].
    rewrite Ho by done. by apply Hd.
Qed.

Lemma update_one_shot server m s :
  Forall (one_shot server) (comp_update (component_of m) s).
Proof.
  eapply List.Forall_impl; [|apply update_tasks]. intros p. destruct m as [m|m]; simpl.
  - apply (store_task_one_shot (store_of rootGetters max_pages m)).
  - apply (Cosmos.cosmos_task_one_shot (cosmos_store rootGetters max_pages m)).
Qed.

Lemma done_finishing server {S : Type} (sys : system FetchCall Response S js) :
  all_done sys → finishing server sys.
Proof. intros Hd. apply Forall_lookup. intros i t Hi. by destruct (Hd i t Hi) as [r ->]. Qed.

(** What a block does to the store of a module whose subscriptions are [ls]: each
    entry that is subscribed to holds what [server] gives for it now. *)
Definition module_updated (server : FetchCall → result Response) (m : client_module)
    : comp_system m → comp_system m → Prop :=
  match m with
  | own m => fun sys sys' =>
      let M := store_of rootGetters max_pages m in
      ∀ ls, Forall (live_ok M) ls → sys.(shared).(Subscriptions) = map live_text ls →
        up_to_date entry Subscriptions live_name live_key (live_value M server) ls
          sys.(shared) sys'.(shared)
  | sdk m => fun sys sys' =>
      let M := cosmos_store rootGetters max_pages m in
      ∀ ls, Forall (Cosmos.live_ok M) ls → sys.(shared).(Cosmos.Subscriptions).*2 = map Cosmos.live_sub ls →
        up_to_date Cosmos.entry Cosmos.Subscriptions Cosmos.live_name Cosmos.live_key
          (Cosmos.live_value M server) ls sys.(shared) sys'.(shared)
  end.

Lemma update_system_done server m sys sys' :
  module_inv m sys → all_done sys →
  rtc (answer_step server) (update_system m sys) sys' → all_done sys' → module_updated server m sys sys'.
Proof.
  intros Hi Hd Hr Hd'. destruct (started_served server _ sys sys' Hd Hr) as (sys1 & Hs & ->).
  apply behind_done in Hd'. destruct m as [m|m]; cbv [module_updated]; intros ls Hls Hsub;
    destruct Hi as (_ & _ & Hh).
  - exact (update_done _ server _ ls sys1 Hls Hh Hsub Hs Hd').
  - exact (Cosmos.cosmos_update_done _ server _ ls sys1 Hls Hh Hsub Hs Hd').
Qed.

(** ** Listeners *)

(** The modules that listen to the blocks of [c], in order. *)
Definition listening (c : nat) (a : client) : list client_module :=
  omap (fun l => if decide (l.1 = c) then Some l.2 else None) a.(listeners).

(** How often the connection was reported up while [c] was the client, where
    [current] is the client at first. *)
Fixpoint handshakes (c : nat) (current : option nat) (es : list event) : nat :=
  match es with
  | [] => 0
  | Connect c' :: es => handshakes c c' es
  | Commit type :: es =>
      (if String.eqb type "common/env/INITIALIZE_WS_COMPLETE"
       then if decide (current = Some c) then 1 else 0
       else 0) + handshakes c current es
  | _ :: es => handshakes c current es
  end.

Lemma init_modules_listening ms a c :
  let a' := foldl (fun a m => init_module m a) a ms in
  listening c a' = listening c a ++ (if decide (a.(env_client) = Some c) then ms else []) ∧
  a'.(env_client) = a.(env_client).
Proof.
  revert a. induction ms as [|m ms IH]; intros a; simpl; [by case_decide; rewrite app_nil_r|].
  destruct (IH (init_module m a)) as [-> ->].
  unfold init_module. destruct (env_client a) as [c'|] eqn:E; simpl; rewrite ?E; [|done].
  split; [|done]. unfold listening. simpl. rewrite omap_app. simpl.
  destruct (decide (c' = c)) as [->|Hne].
  - rewrite !decide_True by done. by rewrite <- app_assoc.
  - rewrite !decide_False by congruence. by rewrite !app_nil_r.
Qed.

Section loaded.
Context {V : Vuex} {VS : VuexSpec V} (mod_of : string → Module_).
Context (loaded : Store) (Hloaded : init_modules mod_of generated createStore = Ok loaded).

Lemma loaded_inits type :
  omap init_of (dispatched loaded type) =
    if String.eqb type "common/env/INITIALIZE_WS_COMPLETE" then modules else [].
Proof.
  destruct (init_modules_ok mod_of generated createStore generated_distinct) as (store' & Hr & _ & Hs).
  { intros n _. apply hasModule_create. }
  rewrite Hloaded in Hr. injection Hr as <-. unfold dispatched.
  rewrite Hs, subscribers_create, app_nil_l, dispatched_init.
  by destruct (String.eqb type _).
Qed.

Lemma perform_listening e c a :
  let a' := perform (dispatched loaded) a e in
  listening c a' =
    listening c a ++ concat (replicate (handshakes c a.(env_client) [e]) modules) ∧
  handshakes c a'.(env_client) = handshakes c (match e with Connect c' => c' | _ => a.(env_client) end).
Proof.
  destruct e as [c'|type|c'|m p|m i r]; simpl; try by rewrite app_nil_r.
  - rewrite loaded_inits.
    destruct (init_modules_listening
      (if String.eqb type "common/env/INITIALIZE_WS_COMPLETE" then modules else []) a c) as [-> ->].
    split; [|done]. destruct (String.eqb type _); by case_decide.
  - destruct (update_modules (listening c' a) a) as (_ & Hl & He). unfold listening in *.
    by rewrite Hl, He, app_nil_r.
Qed.

Lemma handshakes_cons c current e es :
  handshakes c current (e :: es) =
    (handshakes c current [e] + handshakes c (match e with Connect c' => c' | _ => current end) es)%nat.
Proof. destruct e; simpl; lia. Qed.

Lemma performs_listening es c a :
  listening c (foldl (perform (dispatched loaded)) a es) =
    listening c a ++ concat (replicate (handshakes c a.(env_client) es) modules).
Proof.
  revert a. induction es as [|e es IH]; intros a; [by rewrite app_nil_r|].
  cbn [foldl]. destruct (perform_listening e c a) as [Hl He].
  rewrite IH, He, Hl, (handshakes_cons _ _ e es), replicate_add, concat_app. by rewrite <- app_assoc.
Qed.

Lemma modules_count n m : count_occ client_module_dec (concat (replicate n modules)) m = n.
Proof.
  induction n as [|n IH]; [done|]. simpl replicate. rewrite concat_cons, count_occ_app, IH.
  by destruct m as [[]|[]].
Qed.

Lemma connected_listening es c :
  listening c (foldl (perform (dispatched loaded)) new_client es) =
    concat (replicate (handshakes c None es) modules).
Proof. apply performs_listening. Qed.

Lemma block_systems es c m :
  let a := foldl (perform (dispatched loaded)) new_client es in
  (perform (dispatched loaded) a (Block c)).(systems) m =
    Nat.iter (handshakes c None es) (update_system m) (a.(systems) m).
Proof.
  intros a. cbn [perform]. fold (listening c a).
  destruct (update_modules (listening c a) a) as [-> _]. unfold a.
  by rewrite connected_listening, modules_count.
Qed.

(** C20: when the connection to a node client has been reported up [n] times, every
    module of the application has [n] listeners on it, added in the order of the
    modules: a block of that client starts the [StoreUpdate] of each module
    exactly [n] times, a block of a client that was never connected starts
    nothing. *)
Theorem blocks_update_modules es c :
  let a := foldl (perform (dispatched loaded)) new_client es in
  let n := handshakes c None es in
  listening c a = concat (replicate n modules) ∧
  ∀ m, (perform (dispatched loaded) a (Block c)).(systems) m =
         Nat.iter n (update_system m) (a.(systems) m).
Proof.
  split; [apply connected_listening|intros m; apply block_systems].
Qed.

(** C3: on a client that was connected once and is at rest, a new block brings
    every module up to date: as long as no other action is dispatched, all the
    refreshes can be answered, and in whatever order the node answers those of
    the nineteen modules, at the end each cache entry that any module is
    subscribed to holds what the node gives for it, unless that failed, and
    every other entry and all subscriptions are as they were. *)
Theorem block_updates_client server es c :
  let a := foldl (perform (dispatched loaded)) new_client es in
  let b := perform (dispatched loaded) a (Block c) in
  Forall possible es → handshakes c None es = 1%nat → idle a →
  (∀ b', rtc (node_answers server) b b' → ∃ b'', rtc (node_answers server) b' b'' ∧ idle b'') ∧
  ∀ b', rtc (node_answers server) b b' → idle b' →
    ∀ m, module_updated server m (a.(systems) m) (b'.(systems) m).
Proof.
  intros a b Hes Hone Hidle.
  assert (∀ m, b.(systems) m = update_system m (a.(systems) m)) as Hb.
  { intros m. subst b. unfold a at 1. by rewrite block_systems, Hone. }
  split.
  - intros b' Hr. destruct (finishing_idle server modules b') as (b'' & H & _ & Hd).
    + intros m. eapply node_answers_project with (m := m) in Hr. rewrite Hb in Hr.
      assert (finishing server (update_system m (a.(systems) m))) as Hf
        by (apply start_all_finishing; [apply update_one_shot|apply done_finishing, Hidle]).
      clear -Hr Hf. induction Hr; eauto using answer_finishing.
    + exists b''. split; [done|]. intros m. apply Hd, modules_complete.
  - intros b' Hr Hd m. apply update_system_done; [|done| |done].
    + by apply module_reachable_inv, performs_project.
    + rewrite <- Hb. by apply node_answers_project.
Qed.
End loaded.

End client.

(** ** Witnesses *)

Module Sample.
Import LedgerStores.Sample AppShell.Sample.

(** The store with its modules, as Vuex has it. *)
Definition loaded : @Store vuex :=
  match init_modules no_modules generated createStore with Ok s => s | Err _ => createStore end.

Abbreviation app_event := (event getters 5).
Abbreviation after := (foldl (perform getters 5 (dispatched loaded)) (new_client getters 5)).

(** The client connects; a certificate is asked for and subscribed to, and the
    supply of the bank; both are answered. *)
Definition some_supply : js :=
  Obj [("options", Obj [("subscribe", Bool true)]); ("params", Obj [])].

Definition events : list app_event :=
  [Connect getters 5 (Some 7%nat);
   Commit getters 5 "common/env/INITIALIZE_WS_COMPLETE";
   Start getters 5 (own pki) (dispatch (stores pki) "QueryApprovedCertificates" one);
   Start getters 5 (sdk bank)
     (Cosmos.dispatch (cosmos_store getters 5 bank) "QueryTotalSupply" some_supply);
   Reply getters 5 (sdk bank) 0 (answer (Str "supply"));
   Reply getters 5 (own pki) 0 (answer (Str "old"))].

Lemma events_possible : Forall (possible getters 5) events.
Proof. repeat constructor. Defined.

Lemma client_invariant_witness :
  let a := after events in
  module_inv getters 5 (own pki) (a.(systems getters 5) (own pki)) ∧
  module_inv getters 5 (sdk bank) (a.(systems getters 5) (sdk bank)) ∧
  entry (a.(systems getters 5) (own pki)).(shared) "ApprovedCertificates" (live_key live_one) =
    Some (Str "old") ∧
  length (a.(systems getters 5) (sdk bank)).(shared).(Cosmos.Subscriptions) = 1%nat.
Proof.
  split_and!.
  - apply (client_invariant getters 5 (dispatched loaded) events (own pki)), events_possible.
  - apply (client_invariant getters 5 (dispatched loaded) events (sdk bank)), events_possible.
  - vm_compute. reflexivity.
  - vm_compute. reflexivity.
Defined.

(** Two connections of the same client, and a block. *)
Lemma blocks_update_modules_witness :
  let es := events ++ [Commit getters 5 "common/env/INITIALIZE_WS_COMPLETE"] in
  listening getters 5 7 (after es) = modules ++ modules ∧
  (perform getters 5 (dispatched loaded) (after es) (Block getters 5 7)).(systems getters 5) (own pki) =
    update_system getters 5 (own pki)
      (update_system getters 5 (own pki) ((after es).(systems getters 5) (own pki))).
Proof.
  intros es.
  destruct (blocks_update_modules getters 5 no_modules loaded eq_refl es 7) as [Hl Hb].
  split; [exact Hl|exact (Hb (own pki))].
Defined.

Lemma events_idle : idle getters 5 (after events).
Proof.
  assert (∀ m, ∃ ds, ((after events).(systems getters 5) m).(tasks) = map Done ds) as H.
  { intros [[]|[]]; first [by exists []|exists [Ok (Str "old")]; by vm_compute
                          |exists [Ok (Str "supply")]; by vm_compute]. }
  intros m i t Hi. destruct (H m) as [ds Hds]. rewrite Hds in Hi.
  apply list_lookup_fmap_Some in Hi as (r & -> & _). by exists r.
Defined.

Lemma block_updates_client_witness : ∃ b,
  rtc (node_answers getters 5 node)
    (perform getters 5 (dispatched loaded) (after events) (Block getters 5 7)) b ∧
  idle getters 5 b ∧
  entry (b.(systems getters 5) (own pki)).(shared) "ApprovedCertificates" (live_key live_one) =
    Some (Obj [("subject", Str "S")]).
Proof.
  destruct (block_updates_client getters 5 no_modules loaded eq_refl node events 7
    events_possible eq_refl events_idle) as [Hex Hall].
  destruct (Hex _ (rtc_refl _ _)) as (b & Hr & Hi). exists b. split; [exact Hr|]. split; [exact Hi|].
  assert (Forall (live_ok (stores pki)) [live_one]) as Hl.
  { constructor; [|constructor]. split; [apply known_fetcher|]. split; reflexivity. }
  destruct (Hall b Hr Hi (own pki) [live_one] Hl eq_refl) as (_ & H & _).
  apply (H live_one); [by left|reflexivity|].
  intros l' v' ->%list_elem_of_singleton _ _ Hv. vm_compute in Hv. by injection Hv as <-.
Defined.

End Sample.
